(* ===== verification/_CoqProject ===== *)
-Q . S2P
Prelude.v
CLib.v
FatGrow.v
FatGrowSpec.v
StorageIO.v
StorageContext.v
StorageFs.v
StorageFsSpec.v
StorageStream.v
StorageToy.v
StorageMount.v
StorageMain.v
OfflineIdentities.v
RtlBase.v
RtlHw.v
RtlHwSpec.v
RtlEri.v
RtlToy.v
RtlIrq.v
RtlWol.v
RtlMcu.v
RtlRamCode.v
RtlPhyConfig.v
RtlChip.v
RtlEeprom.v
RtlFiber.v
RtlLink.v
RtlEee.v
RtlConfig.v
RtlEsd.v
RtlProbe.v
RtlIface.v
RtlCable.v
RtlChanSpec.v
RtlLinkSpec.v
RtlMcuSpec.v
RtlPhyMcuSpec.v
RtlWolSpec.v
RtlConfigSpec.v
RtlProbeSpec.v
RtlFrame.v
RtlIfaceSpec.v
RtlTool.v
RtlFirmware.v
RtlRss.v
RtlRssSpec.v
RtlTx.v
RtlTxSpec.v
RtlTxToy.v
RtlRx.v
RtlRxSpec.v
Rtl8126Code.v
Rtl8126.v
Rtl8127Code.v
Rtl8127.v
RtlFamilySpec.v
Rtl8168Hw.v
Rtl8168Code.v
Rtl8168.v
Rtl8168Spec.v
Rtl8168McuSpec.v
