(* ===== verification/Prelude.v ===== *)
(** * PXEOS: a verification development of its C programs

    PXEOS is a network-booted imaging system.  Its own C code is three programs
    of the imaging root file system and the Realtek Ethernet drivers of its
    kernel package.  This library has a model of that code, function by
    function, and the theorems that make it correct.

    ** The programs and where they are modelled

    - src/Buildroot/package/pxeos/src/pxeosfatgrow.c grows a FAT file system
      to the size of its partition and puts the identity of the old boot
      sectors back.  [FatGrow]: module [Boot] (get_le16 .. boot_geometry_matches),
      module [Sysfs] (read_partition_start, is_mounted, is_linux_partition),
      module [Run] (cancel_exception, run and main).  libparted is the class
      [Parted], its exceptions are calls back into cancel_exception; what the
      proofs need of it is [PartedLaws].
    - src/Buildroot/package/rootpxe-storage-io/src/: a helper that runs the
      file operations of an imaging task inside one mounted share, driven by
      JSON lines over pipes.  [StorageIO]: the helpers of storage_context.c
      (rx_string .. rx_emit); [StorageContext]: rx_load_context, rx_identity,
      rx_fd_contract; [StorageFs]: storage_fs.c, the whole rx_command with its
      streaming; [StorageMount]: storage_mount.c; [StorageMain]: main and the
      session loop.  json-c, the system calls and the SHA-256 of libcrypto are
      classes of operations over a world [W], with classes of laws beside
      them; [StorageToy] is an instance, a small file system in memory.
    - src/Buildroot/package/rootpxe-offline-identities/src/: checks and names
      the registry paths of a Windows host name.  [OfflineIdentities], over a
      hivex interface.
    - src/KernelPackages/drivers/net/ethernet/realtek/r8125/: the driver of the
      2.5G controllers.  [RtlBase]: the state monad, the private structure and
      the register interface [Mmio]; [RtlHw]: the indirect register channels
      (MDIO, PHY OCP, MAC OCP, EPHY, CSI, ERI, OOB) of r8125_n.c; [RtlIrq]:
      interrupt masks and reset; [RtlEeprom]: rtl_eeprom.c; [RtlFiber]:
      r8125_fiber.c; [RtlTool]: rtltool.c; [RtlFirmware]: r8125_firmware.c;
      [RtlRss]: r8125_rss.c; [RtlTx] and [RtlRx]: the transmit and the receive
      ring of r8125_n.c.  The rest of r8125_n.c:
      - [RtlWol]: the lock of the Config registers, wake-on-LAN, PCI power
        management, D0 speed-up, the PCI offsets 99 and 180;
      - [RtlMcu]: how the microcode of the MAC and of the PHY is versioned,
        requested and loaded; [RtlRamCode], [RtlPhyConfig] and [RtlChip]: the
        tables of the microcodes, the tuning sequences of each chip as data
        ([phy_op], [ephy_op]) and the dispatch on the chip ([set_phy_mcu],
        [phy_config], rtl8125_hw_mac_mcu_config, rtl8125_hw_ephy_config);
      - [RtlLink]: speed, duplex, advertisement and pause, read back and set,
        force mode, power-down; [RtlEee]: energy-efficient Ethernet;
      - [RtlConfig]: receive filter, features, rings' addresses, hw_config,
        PHY configuration, MAC address;
      - [RtlEsd]: the backups, the link patches and the check of the PCI
        configuration that recovers from a discharge;
      - [RtlProbe]: what the probe reads of the chip (get_mac_version,
        try_msi) and decides for it (init_software_variable), the interrupt
        masks and the handlers of MSI-X messages;
      - [RtlIface]: open, close, shutdown, suspend, resume, change_mtu and the
        delayed works, over a kernel interface [Kern] that answers requests
        for memory and interrupts and lists the works queued;
      - [RtlCable]: cable test, thermal sensor, tally counters.
      What is proved of a model X is in X or in XSpec ([RtlPhyMcuSpec] and
      [RtlMcuSpec] for [RtlMcu] and [RtlChip]); the laws of a controller that
      completes its commands are the class [NicLaws] of [RtlHwSpec], and
      [RtlChanSpec] and [RtlFrame] derive from them what a register access of
      a channel changes and what it keeps.  [RtlToy] is an instance, a
      controller of plain cells, [RtlTxToy] the one for rings.

    - src/.../realtek/r8126/ and r8127/: copies of r8125 for the 5G and the 10G
      controllers.  [Rtl8126] and [Rtl8127]: the functions that are those of
      r8125 under another name, and what differs of the microcode loaders and
      of the tuning, with the tables in [Rtl8126Code] and [Rtl8127Code].
      [RtlFamilySpec] states what the loaders of the three drivers promise.
    - src/.../realtek/r8168/: the gigabit driver, an older generation.
      [Rtl8168Hw]: its register channels, with three different ways to the PHY;
      [Rtl8168Code] and [Rtl8168]: the microcode of PHY and MAC, the tuning of
      each chip as sequences of operations, and EEE.  [Rtl8168Spec] follows the
      selected page of the PHY through all of it, [Rtl8168McuSpec] the order of
      the writes to the MAC's patch.

    [Prelude] (this file) has the C integers, byte buffers, the error monad with
    its rules, and the tactics; [CLib] the functions of the C library the
    programs use (sscanf, strtoull, strtok and the like).

    ** How code becomes definitions

    A C function is a definition of the same name.  An integer is a [Z] with the
    truncations of its type written out ([u8] .. [u64], [s32]); a buffer is a
    list of bytes.  A function that can fail is a computation of [M], where
    failing keeps the state reached ([goto out] then runs the cleanup on it); a
    driver function, which always returns, is a computation of [St].  A long
    function is cut at its phases, and the parts are composed as the code
    composes them.  What is outside of src/ is an operation of a class, so every
    theorem holds for every behaviour of it the laws allow.

    A loop that ends by itself is structural.  Other loops have fuel: a read or
    copy loop gets the bytes that are left plus the interruptions that can still
    happen, and theorems show that this is enough ([rx_write_all_spec],
    [copy_loop_terminates]); the ERI loops get two rounds, enough for four bytes
    at any alignment; a polling loop has the bound the code has ([poll] of
    [RtlBase]), also where the code counts up; the firmware
    interpreter has any fuel, and [fw_forward_terminates] bounds the programs
    without backward jumps.

    ** What the theorems show

    - pxeosfatgrow: exit code 0 means that the boot sectors keep their identity
      and have the new geometry; the disk is touched only in the order resize,
      main sector, backup sector; every handle is closed once on every path;
      only the one expected question of libparted is answered.
    - rootpxe-storage-io: a command makes at most one change of the name space,
      the one it asked for, on a path the task may change, and leaves no
      descriptor behind; over a session every change is one of these; path and
      context checks accept exactly the intended values; privileges are dropped;
      a transfer reports the bytes, the size and the digest of what it moved;
      framing delivers whole lines and reads nothing beyond; mount table and
      NFS mounts are as specified.
    - rootpxe-offline-identities: verification is exact, and writing the name
      at the printed paths is enough for it.
    - r8125: the ERI channel is a byte memory; a paged PHY write reads back; no
      firmware file makes its interpreter leave the file, and a program that only
      jumps forward ends; the transmit ring neither loses a buffer nor hands one back
      twice over any sequence of transmissions, interrupts, clearings and
      writes of the controller, reclaims exactly what the controller finished,
      and has room whenever its queue is awake; the receive ring copies no more
      than a buffer holds and hands out no descriptor with a foreign address,
      whatever the controller reports; the receive side scaling tables
      are well formed and read back as set; the diagnostic ioctl stays inside
      the register window.
    - r8125, the life of the controller: opening takes every resource or gives
      back what it took, and closing gives back everything; every interrupt the
      probe unmasks has a vector and a handler, and every ring and the link
      have an interrupt; the MAC's microcode is installed word by word, and
      only when its version is not the stored one; the PHY's microcode is
      loaded inside a request that is always withdrawn; a negotiated speed
      advertises exactly the modes asked for and reports them back; wake-up
      options read back and the configuration lock is closed again; the
      multicast filter is exact on hashes.
    - The family: the microcode theorems hold for r8125, r8126 and r8127; in
      r8168 configuring the PHY always ends on page 0, with driver and PHY in
      agreement about it, and the MAC's patch is exchanged only while it and its
      break points are off.  Both are proved by a judgement with a rule for each
      construct, which a tactic follows through the code of every chip.

    Inputs for which the code does something else than it means to are evaluated
    on concrete states: [empty_host_accepted], [eri_write_spills],
    [fw_accepts_endless_program], [tool_mac_wraps], [ring_size_300_loses_buffer],
    [lso_patch_overwrites_oldest], [failed_padding_frees_twice],
    [reset_hands_out_stale_address], [open_leaks_rx_buffers] and
    [open_restarts_check_only_unflagged].

    ** Not modelled

    - In r8125_n.c: registration with the PCI and network layers (probe and
      remove themselves), the dumps for procfs and sysfs and the ethtool string
      tables, the variants for kernels before 6.9 where the code has several,
      the test for a pending firmware mailbox in the legacy interrupt; delays
      and log messages; memory barriers (a driver call is atomic here,
      interleavings are sequences of calls and of delayed works).
      r8125_ptp.c is off in the Makefile.
    - The descriptors a link-down patch or an ESD recovery rebuilds: there the
      life of the interface ([RtlIface], [RtlEsd]) has the controller side, and
      [RtlTx] and [RtlRx] the ring side of the same functions.
    - In r8126 and r8127: what differs of the link speeds, of the probe's
      decisions, of hw_config and of the rings.  In r8168: the rings, the
      interrupts, the link speed, hw_config and the probe.  Their r8125
      counterparts are modelled.
    - pxeosmbrfix.cpp, the shell scripts, the build and the tests.
    - Reference counts of json-c objects, and time.

    What would come next: those parts of the siblings, as instances of the
    same rings and channels where their code is the same; the theorem that a
    refused energy-efficient Ethernet request changes nothing; the recovery of
    the PCI configuration as a restore theorem. *)
From Stdlib Require Export ZArith Lia Bool String Ascii.
From stdpp Require Export base decidable option list list_numbers numbers tactics gmap.
#[export] Set Default Goal Selector "!".
Local Open Scope Z_scope.
Local Open Scope list_scope.

(** ** Bytes and C integers

    A byte is an integer in [0, 256); a C string or a memory buffer is a list
    of bytes.  A [w]-bit unsigned integer is a [Z] kept in range by [wrap]. *)

Definition is_byte (z : Z) : Prop := 0 <= z < 256.

Definition bytes_ok (l : list Z) : Prop := Forall is_byte l.

#[export] Instance is_byte_dec z : Decision (is_byte z).
Proof. unfold is_byte. apply _. Defined.

Definition wrap (w z : Z) : Z := z mod 2 ^ w.

Definition u8 (z : Z) : Z := wrap 8 z.
Definition u16 (z : Z) : Z := wrap 16 z.
Definition u32 (z : Z) : Z := wrap 32 z.
Definition u64 (z : Z) : Z := wrap 64 z.

(** Two's complement reading of a 32-bit value, for C's [int]. *)
Definition s32 (z : Z) : Z := wrap 32 (z + 2 ^ 31) - 2 ^ 31.

Definition UINT32_MAX : Z := 4294967295.
Definition UINT64_MAX : Z := 18446744073709551615.
Definition INT64_MAX : Z := 9223372036854775807.

(** The bytes of a string literal. *)
Definition bs (s : string) : list Z :=
  map (fun c => Z.of_N (N_of_ascii c)) (list_ascii_of_string s).

Arguments bs : simpl never.

(** [strcmp(a, b) == 0] and [memcmp] on buffers of the same length. *)
Definition beq (a b : list Z) : bool := bool_decide (a = b).

Lemma beq_true a b : beq a b = true <-> a = b.
Proof. unfold beq. apply bool_decide_eq_true. Qed.

Lemma beq_false a b : beq a b = false <-> a <> b.
Proof. unfold beq. apply bool_decide_eq_false. Qed.

Lemma beq_refl a : beq a a = true.
Proof. by apply beq_true. Qed.

(** ** Automation *)

Create HintDb cint.
Create HintDb cbytes.
Create Rewrite HintDb cbytes_rw.

(** Turn the boolean tests of the code into propositions, in hypotheses. *)
Ltac breflect_in H :=
  first
    [ rewrite andb_true_iff in H; let H1 := fresh H in let H2 := fresh H in destruct H as [H1 H2]
    | rewrite andb_false_iff in H
    | rewrite orb_true_iff in H
    | rewrite orb_false_iff in H; let H1 := fresh H in let H2 := fresh H in destruct H as [H1 H2]
    | rewrite negb_true_iff in H
    | rewrite negb_false_iff in H
    | rewrite Z.eqb_eq in H
    | rewrite Z.eqb_neq in H
    | rewrite Z.ltb_lt in H
    | rewrite Z.ltb_ge in H
    | rewrite Z.leb_le in H
    | rewrite Z.leb_gt in H
    | rewrite Nat.eqb_eq in H
    | rewrite Nat.eqb_neq in H
    | rewrite Nat.ltb_lt in H
    | rewrite Nat.ltb_ge in H
    | rewrite Nat.leb_le in H
    | rewrite Nat.leb_gt in H
    | rewrite bool_decide_eq_true in H
    | rewrite bool_decide_eq_false in H
    | rewrite beq_true in H
    | rewrite beq_false in H ].

Ltac breflect :=
  repeat match goal with
  | H : _ = true |- _ => breflect_in H
  | H : _ = false |- _ => breflect_in H
  end.

(** The same in the goal. *)
Ltac bgoal :=
  repeat first
    [ rewrite andb_true_iff | rewrite orb_false_iff | rewrite negb_true_iff
    | rewrite negb_false_iff | rewrite orb_true_iff | rewrite andb_false_iff
    | rewrite Z.eqb_eq | rewrite Z.eqb_neq | rewrite Z.ltb_lt | rewrite Z.ltb_ge
    | rewrite Z.leb_le | rewrite Z.leb_gt | rewrite Nat.eqb_eq | rewrite Nat.eqb_neq
    | rewrite Nat.ltb_lt | rewrite Nat.ltb_ge | rewrite Nat.leb_le | rewrite Nat.leb_gt
    | rewrite beq_true | rewrite beq_false ].

(** Linear arithmetic after the boolean connectives and comparisons, nested in
    any way, have been turned into propositions everywhere. *)
Ltac blia :=
  repeat rewrite ?andb_true_iff, ?andb_false_iff, ?orb_true_iff, ?orb_false_iff,
    ?negb_true_iff, ?negb_false_iff,
    ?Nat.leb_le, ?Nat.leb_gt, ?Nat.ltb_lt, ?Nat.ltb_ge, ?Nat.eqb_eq, ?Nat.eqb_neq,
    ?Z.leb_le, ?Z.leb_gt, ?Z.ltb_lt, ?Z.ltb_ge, ?Z.eqb_eq, ?Z.eqb_neq in *; lia.

(** Case analysis on every [match] and [if] of a hypothesis, dropping the
    cases the hypothesis refutes. *)
Ltac cases_in H :=
  repeat (case_match; simplify_eq/=; try discriminate H).

(** ** Integer lemmas *)

Lemma wrap_range w z : 0 <= w -> 0 <= wrap w z < 2 ^ w.
Proof. intros. apply Z.mod_pos_bound. by apply Z.pow_pos_nonneg. Qed.

Lemma wrap_small w z : 0 <= z < 2 ^ w -> wrap w z = z.
Proof. intros. by apply Z.mod_small. Qed.

Lemma wrap_wrap w z : wrap w (wrap w z) = wrap w z.
Proof. unfold wrap. by rewrite Zmod_mod. Qed.

Lemma wrap_land w z : 0 <= w -> wrap w z = Z.land z (Z.ones w).
Proof. intros. unfold wrap. by rewrite Z.land_ones. Qed.

Lemma wrap_testbit w z i : 0 <= w -> 0 <= i ->
  Z.testbit (wrap w z) i = (i <? w) && Z.testbit z i.
Proof.
  intros Hw Hi. rewrite wrap_land by done. rewrite Z.land_spec.
  rewrite Z.testbit_ones_nonneg by lia. apply andb_comm.
Qed.

Lemma u8_range z : is_byte (u8 z).
Proof. unfold u8, is_byte. apply (wrap_range 8). lia. Qed.

Lemma u16_range z : 0 <= u16 z < 65536.
Proof. apply (wrap_range 16). lia. Qed.

Lemma u32_range z : 0 <= u32 z < 4294967296.
Proof. apply (wrap_range 32). lia. Qed.

Lemma u64_range z : 0 <= u64 z < 18446744073709551616.
Proof. apply (wrap_range 64). lia. Qed.

#[export] Hint Resolve u8_range u16_range u32_range u64_range : cint.

Lemma testbit_high z n i : 0 <= z < 2 ^ n -> 0 <= n <= i -> Z.testbit z i = false.
Proof.
  intros Hz Hi. destruct (decide (z = 0)) as [->|]; [apply Z.bits_0|].
  apply Z.bits_above_log2; [lia|]. apply Z.log2_lt_pow2; [lia|].
  assert (2 ^ n <= 2 ^ i) by (apply Z.pow_le_mono_r; lia). lia.
Qed.

(** Equality of integers bit by bit: [bits] leaves one boolean goal about the
    bit [i], with the bit operations rewritten away. *)
Ltac bits_rw :=
  repeat first
    [ rewrite Z.lor_spec | rewrite Z.land_spec | rewrite Z.lxor_spec
    | rewrite Z.lnot_spec by lia | rewrite Z.ldiff_spec
    | rewrite Z.shiftl_spec by lia | rewrite Z.shiftr_spec by lia
    | rewrite wrap_testbit by lia | rewrite Z.testbit_ones_nonneg by lia
    | rewrite Z.bits_0 ].

Ltac bits i := apply Z.bits_inj'; intros i ?; bits_rw.

(** A boolean goal about bits, by cases. *)
Ltac bcase :=
  repeat match goal with
  | |- context [Z.testbit ?x ?i] => destruct (Z.testbit x i)
  | |- context [?i <? ?w] => destruct (i <? w)
  end; try done.

(** Bits put side by side add up. *)
Lemma lor_disjoint_add a b n :
  0 <= n -> 0 <= a < 2 ^ n -> Z.lor a (b * 2 ^ n) = a + b * 2 ^ n.
Proof.
  intros Hn Ha. rewrite <- Z.add_lor_land.
  replace (Z.land a (b * 2 ^ n)) with 0; [lia|]. symmetry.
  apply Z.bits_inj'. intros i Hi. rewrite Z.land_spec, Z.bits_0, <- Z.shiftl_mul_pow2 by lia.
  rewrite Z.shiftl_spec by lia. destruct (decide (i < n)).
  - rewrite (Z.testbit_neg_r b) by lia. apply andb_false_r.
  - rewrite (testbit_high a n) by lia. done.
Qed.

(** ** Lists as memory *)

(** [n] bytes from offset [off]. *)
Definition slice (off n : nat) (l : list Z) : list Z := take n (drop off l).

(** [memcpy(dst + off, src, |src|)]. *)
Definition blit (off : nat) (src dst : list Z) : list Z :=
  take off dst ++ src ++ drop (off + length src) dst.

(** A byte read at an offset inside the buffer. *)
Definition at_ (l : list Z) (i : nat) : Z := nth i l 0.

Lemma length_slice off n l : (off + n <= length l)%nat -> length (slice off n l) = n.
Proof. intros. unfold slice. rewrite length_take, length_drop. lia. Qed.

Lemma length_blit off src dst :
  (off + length src <= length dst)%nat -> length (blit off src dst) = length dst.
Proof.
  intros. unfold blit. rewrite !length_app, length_take, length_drop. lia.
Qed.

Lemma at_lookup l i : (i < length l)%nat -> l !! i = Some (at_ l i).
Proof.
  intros H. unfold at_. rewrite nth_lookup.
  destruct (l !! i) eqn:E; [done|]. apply lookup_ge_None in E. lia.
Qed.

Lemma bytes_ext l1 l2 :
  length l1 = length l2 ->
  (forall i, (i < length l1)%nat -> at_ l1 i = at_ l2 i) -> l1 = l2.
Proof.
  intros Hlen Hat. apply list_eq. intros i.
  destruct (decide (i < length l1)%nat).
  - rewrite !at_lookup by lia. f_equal. auto.
  - rewrite !lookup_ge_None_2; [done|lia..].
Qed.

Lemma at_blit off src dst i :
  (off + length src <= length dst)%nat ->
  at_ (blit off src dst) i =
  if decide (off <= i < off + length src)%nat then at_ src (i - off) else at_ dst i.
Proof.
  intros Hl. unfold at_, blit.
  assert (Ht : length (take off dst) = off) by (rewrite length_take; lia).
  destruct (decide (i < off)%nat).
  - rewrite decide_False by lia. rewrite app_nth1 by lia.
    rewrite !nth_lookup, lookup_take_lt by lia. done.
  - rewrite app_nth2 by lia. rewrite Ht. case_decide.
    + rewrite app_nth1 by lia. done.
    + rewrite app_nth2 by lia. rewrite !nth_lookup, lookup_drop. do 2 f_equal. lia.
Qed.

Lemma at_slice off n l i : (i < n)%nat -> at_ (slice off n l) i = at_ l (off + i).
Proof.
  intros. unfold at_, slice. rewrite !nth_lookup, lookup_take_lt by lia.
  by rewrite lookup_drop.
Qed.

Lemma slice_eq_iff off n a b :
  (off + n <= length a)%nat -> (off + n <= length b)%nat ->
  slice off n a = slice off n b <->
  (forall i, (off <= i < off + n)%nat -> at_ a i = at_ b i).
Proof.
  intros Ha Hb. split.
  - intros E i Hi. replace i with (off + (i - off))%nat by lia.
    rewrite <- !(at_slice off n) by lia. by rewrite E.
  - intros H. apply bytes_ext; rewrite !length_slice by done; [done|].
    intros i Hi. rewrite !at_slice by lia. apply H. lia.
Qed.

Lemma at_byte l i : bytes_ok l -> is_byte (at_ l i).
Proof.
  intros H. unfold at_. destruct (decide (i < length l)%nat).
  - by eapply Forall_lookup_1, at_lookup.
  - rewrite nth_overflow by lia. unfold is_byte. lia.
Qed.

Lemma bytes_ok_slice off n l : bytes_ok l -> bytes_ok (slice off n l).
Proof. intros. by apply Forall_take, Forall_drop. Qed.

Lemma bytes_ok_blit off src dst :
  bytes_ok src -> bytes_ok dst -> bytes_ok (blit off src dst).
Proof.
  intros. unfold blit. apply Forall_app_2; [by apply Forall_take|].
  apply Forall_app_2; [done|by apply Forall_drop].
Qed.

#[export] Hint Resolve at_byte bytes_ok_slice bytes_ok_blit : cbytes.
#[export] Hint Rewrite length_slice length_blit using (cbn [length] in *; lia) : cbytes_rw.

(** ** Generic list lemmas *)

Lemma forallb_iff {A} (f : A -> bool) l : forallb f l = true <-> Forall (fun x => f x = true) l.
Proof.
  induction l as [|x l IH]; simpl; [split; [by constructor|done]|].
  rewrite andb_true_iff, IH, Forall_cons. done.
Qed.

Lemma forallb_ext {A} (f g : A -> bool) l : (forall x, f x = g x) -> forallb f l = forallb g l.
Proof. intros E. induction l as [|x l IH]; simpl; [done|]. by rewrite E, IH. Qed.

Lemma existsb_iff {A} (f : A -> bool) l : existsb f l = true <-> Exists (fun x => f x = true) l.
Proof.
  induction l as [|x l IH]; simpl; [split; [done|by intros ?%Exists_nil]|].
  rewrite orb_true_iff, IH, Exists_cons. done.
Qed.

(** ** A state monad with early exit

    C functions that share mutable state and leave early ([goto out],
    [return -1]) are translated into [M S A]: a function from the state to a
    value, or [None] when the early exit was taken, and the state at that
    point.  State changes made before an exit are kept, as in C. *)

Definition M (S A : Type) : Type := S -> option A * S.

Definition ret {S A} (a : A) : M S A := fun s => (Some a, s).

Definition fail {S A} : M S A := fun s => (None, s).

Definition bind {S A B} (m : M S A) (k : A -> M S B) : M S B := fun s =>
  match m s with
  | (Some a, s') => k a s'
  | (None, s') => (None, s')
  end.

Definition get {S} : M S S := fun s => (Some s, s).

Definition gets {S A} (f : S -> A) : M S A := fun s => (Some (f s), s).

Definition modify {S} (f : S -> S) : M S unit := fun s => (Some tt, f s).

Definition require {S} (b : bool) : M S unit := if b then ret tt else fail.

(** A call that cannot fail, as a computation. *)
Definition total {W A} (f : W -> A * W) : M W A := fun w => let '(a, w') := f w in (Some a, w').

Declare Scope cmonad_scope.
Delimit Scope cmonad_scope with cm.
Notation "x <- m ;; k" := (bind m (fun x => k))
  (at level 100, m at next level, right associativity) : cmonad_scope.
Notation "m ;;; k" := (bind m (fun _ => k))
  (at level 100, right associativity) : cmonad_scope.

(** What holds of the outcome of [m] started in [s]: [Q] of the value and the
    state when it returns, [E] of the state when it exits early. *)
Definition wp {S A} (m : M S A) (Q : A -> S -> Prop) (E : S -> Prop) (s : S) : Prop :=
  match m s with
  | (Some a, s') => Q a s'
  | (None, s') => E s'
  end.

Section Wp.
Context {S : Type}.

Lemma wp_ret {A} (a : A) Q E (s : S) : Q a s -> wp (ret a) Q E s.
Proof. done. Qed.

Lemma wp_fail {A} (Q : A -> S -> Prop) E (s : S) : E s -> wp fail Q E s.
Proof. done. Qed.

Lemma wp_bind {A B} (m : M S A) (k : A -> M S B) Q E s :
  wp m (fun a s' => wp (k a) Q E s') E s -> wp (bind m k) Q E s.
Proof. unfold wp, bind. by destruct (m s) as [[a|] s']. Qed.

Lemma wp_gets {A} (f : S -> A) Q E s : Q (f s) s -> wp (gets f) Q E s.
Proof. done. Qed.

Lemma wp_modify (f : S -> S) Q E s : Q tt (f s) -> wp (modify f) Q E s.
Proof. done. Qed.

Lemma wp_require b (Q : unit -> S -> Prop) E s :
  (b = true -> Q tt s) -> (b = false -> E s) -> wp (require b) Q E s.
Proof. destruct b; unfold wp; simpl; auto. Qed.

Lemma wp_mono {A} (m : M S A) (Q Q' : A -> S -> Prop) (E E' : S -> Prop) s :
  (forall a s', Q a s' -> Q' a s') -> (forall s', E s' -> E' s') ->
  wp m Q E s -> wp m Q' E' s.
Proof. unfold wp. intros. destruct (m s) as [[a|] s']; auto. Qed.

Lemma wp_if {A} (b : bool) (m1 m2 : M S A) Q E s :
  (b = true -> wp m1 Q E s) -> (b = false -> wp m2 Q E s) ->
  wp (if b then m1 else m2) Q E s.
Proof. destruct b; auto. Qed.
End Wp.

Create HintDb wp.
#[export] Hint Resolve wp_ret wp_fail wp_gets wp_modify : wp.

(** One step of symbolic execution of a monadic body. *)
Ltac wp_step :=
  lazymatch goal with
  | |- wp (bind _ _) _ _ _ => apply wp_bind
  | |- wp (ret _) _ _ _ => apply wp_ret
  | |- wp fail _ _ _ => apply wp_fail
  | |- wp (gets _) _ _ _ => apply wp_gets
  | |- wp (modify _) _ _ _ => apply wp_modify
  | |- wp (require _) _ _ _ => apply wp_require; intros ?
  | |- wp (if _ then _ else _) _ _ _ => apply wp_if; intros ?
  end; cbv beta.

(** A hypothesis about a successful monadic run, one step at a time. *)
Lemma run_bind {S A B} (m : M S A) (k : A -> M S B) s b s' :
  bind m k s = (Some b, s') -> exists a s1, m s = (Some a, s1) /\ k a s1 = (Some b, s').
Proof. unfold bind. destruct (m s) as [[a|] s1]; [by eexists _, _|done]. Qed.

Lemma bind_ext {S A B} (m : M S A) (k k' : A -> M S B) s :
  (forall a s', m s = (Some a, s') -> k a s' = k' a s') -> bind m k s = bind m k' s.
Proof. unfold bind. destruct (m s) as [[a|] s']; auto. Qed.

Lemma run_require {S} b (s : S) u s' : require b s = (Some u, s') -> b = true /\ s' = s.
Proof. destruct b; intros H; [by injection H as _ <-|discriminate H]. Qed.

Lemma run_total {W A} (f : W -> A * W) w a w' : total f w = (Some a, w') -> f w = (a, w').
Proof. unfold total. destruct (f w). intros H. by simplify_eq. Qed.

Ltac run_inv :=
  repeat match goal with
  | H : bind _ _ _ = (Some _, _) |- _ =>
      let a := fresh "a" in let w := fresh "w" in let H1 := fresh "R" in
      apply run_bind in H as (a & w & H1 & H); cbv beta in H
  | H : require _ _ = (Some _, _) |- _ =>
      let H1 := fresh "Q" in apply run_require in H as [H1 H]; try subst
  | H : total _ _ = (Some _, _) |- _ => apply run_total in H
  | H : ret _ _ = (Some _, _) |- _ => injection H as H; try subst
  | H : fail _ = (Some _, _) |- _ => discriminate H
  end.

Lemma Some_eq {A} (a b : A) : Some a = Some b -> a = b.
Proof. by intros [= ->]. Qed.

(** The same for the option monad and its guards. *)
Ltac opt_inv H :=
  repeat lazymatch type of H with
  | mbind _ ?m = Some _ =>
      let E := fresh "E" in apply bind_Some in H as (? & E & H); cbv beta in H
  | (if ?b then None else _) = Some _ =>
      let E := fresh "G" in destruct b eqn:E; [discriminate H|]
  | (let '(_, _) := ?x in _) = Some _ => destruct x
  | match ?x with (_, _) => _ end = Some _ => destruct x
  | None = Some _ => discriminate H
  | Some _ = Some _ => apply Some_eq in H
  end.

(** ** Reachability *)

Inductive star {A} (R : A -> A -> Prop) : A -> A -> Prop :=
  | star_refl a : star R a a
  | star_step a b c : R a b -> star R b c -> star R a c.

Lemma star_inv {A} (R : A -> A -> Prop) (P : A -> Prop) :
  (forall a b, P a -> R a b -> P b) -> forall a b, star R a b -> P a -> P b.
Proof. intros HR a b H. induction H; eauto. Qed.

Lemma star_trans {A} (R : A -> A -> Prop) a b c : star R a b -> star R b c -> star R a c.
Proof. intros H. induction H; eauto using star. Qed.

#[export] Hint Constructors star : core.
