(* ===== verification/CLib.v ===== *)
(** * The C library the sources use, on byte strings

    Number printing ([snprintf] with [%llu], [%llx], [%u], [%03u], [%02x]),
    number scanning ([strtoull], [sscanf]'s [%u]) and the string searches
    ([strchr], [strrchr], [strstr], [strtok_r], [strspn]).  A C string is the
    list of its bytes without the terminating NUL. *)
From S2P Require Import Prelude.
Local Open Scope Z_scope.
Local Open Scope list_scope.

(** ** Characters *)

Definition is_space (c : Z) : bool := (c =? 32) || ((9 <=? c) && (c <=? 13)).

Definition is_digit (c : Z) : bool := (48 <=? c) && (c <=? 57).

(** The value of a digit character in base [b] (10 or 16). *)
Definition digit_val (b c : Z) : option Z :=
  let v := if (48 <=? c) && (c <=? 57) then c - 48
           else if (97 <=? c) && (c <=? 102) then c - 87
           else if (65 <=? c) && (c <=? 70) then c - 55
           else 99 in
  if v <? b then Some v else None.

Definition digit_char (d : Z) : Z := if d <? 10 then d + 48 else d + 87.

(** ** Printing *)

Fixpoint digits_fuel (fuel : nat) (b n : Z) (acc : list Z) : list Z :=
  match fuel with
  | O => acc
  | S f =>
      let acc' := digit_char (n mod b) :: acc in
      if n / b =? 0 then acc' else digits_fuel f b (n / b) acc'
  end.

(** The digits of [n] in base [b], without leading zeros. *)
Definition print_base (b n : Z) : list Z := digits_fuel (S (Z.to_nat (Z.log2 n))) b n [].

Definition print_dec (n : Z) : list Z := print_base 10 n.
Definition print_hex (n : Z) : list Z := print_base 16 n.

(** Zero padding to at least [w] characters, as [%0wu] and [%0wx] do. *)
Definition zero_pad (w : nat) (s : list Z) : list Z := replicate (w - length s) 48 ++ s.

(** [%lld] of a signed value. *)
Definition print_signed (n : Z) : list Z :=
  if n <? 0 then 45 :: print_dec (- n) else print_dec n.

(** ** Scanning *)

Fixpoint skip_space (s : list Z) : list Z :=
  match s with
  | c :: s' => if is_space c then skip_space s' else s
  | [] => []
  end.

Fixpoint scan_digits (b acc : Z) (s : list Z) : Z * list Z :=
  match s with
  | c :: s' =>
      match digit_val b c with
      | Some d => scan_digits b (acc * b + d) s'
      | None => (acc, s)
      end
  | [] => (acc, [])
  end.

(** [strtoull(s, &end, b)]: the value, the text from [end] on, and whether
    [errno] was set to [ERANGE].  Without digits, [end] is [s] itself. *)
Definition strtoull (b : Z) (s : list Z) : Z * list Z * bool :=
  let s1 := skip_space s in
  let '(neg, s2) :=
    match s1 with
    | c :: r => if c =? 45 then (true, r) else if c =? 43 then (false, r) else (false, s1)
    | [] => (false, [])
    end in
  let s3 :=
    match s2 with
    | z :: x :: h :: r =>
        if (b =? 16) && (z =? 48) && ((x =? 120) || (x =? 88))
           && bool_decide (is_Some (digit_val 16 h))
        then h :: r else s2
    | _ => s2
    end in
  match s3 with
  | c :: _ =>
      match digit_val b c with
      | Some _ =>
          let '(v, rest) := scan_digits b 0 s3 in
          if UINT64_MAX <? v then (UINT64_MAX, rest, true)
          else ((if (neg : bool) then u64 (- v) else v), rest, false)
      | None => (0, s, false)
      end
  | [] => (0, s, false)
  end.

(** ** Searching *)

(** [strchr]: the text before the first [c] and the text after it. *)
Fixpoint strchr (c : Z) (s : list Z) : option (list Z * list Z) :=
  match s with
  | [] => None
  | x :: s' =>
      if x =? c then Some ([], s')
      else match strchr c s' with
           | Some (a, b) => Some (x :: a, b)
           | None => None
           end
  end.

(** [strrchr]: the text before the last [c] and the text after it. *)
Fixpoint strrchr (c : Z) (s : list Z) : option (list Z * list Z) :=
  match s with
  | [] => None
  | x :: s' =>
      match strrchr c s' with
      | Some (a, b) => Some (x :: a, b)
      | None => if x =? c then Some ([], s') else None
      end
  end.

(** [strncmp(p, s, |p|) == 0]. *)
Fixpoint starts_with (p s : list Z) : bool :=
  match p, s with
  | [], _ => true
  | x :: p', y :: s' => (x =? y) && starts_with p' s'
  | _ :: _, [] => false
  end.

(** [strstr]: the text before the first occurrence of [p] and the text from
    it on. *)
Fixpoint strstr (p s : list Z) : option (list Z * list Z) :=
  if starts_with p s then Some ([], s)
  else match s with
       | [] => None
       | x :: s' =>
           match strstr p s' with
           | Some (a, b) => Some (x :: a, b)
           | None => None
           end
       end.

(** Membership of a byte, [strchr(set, c) != NULL]. *)
Definition mem_byte (c : Z) (s : list Z) : bool := existsb (fun x => x =? c) s.

(** The successive tokens [strtok_r] returns for one delimiter byte: maximal
    non-empty runs without the delimiter. *)
Fixpoint strtok_aux (sep : Z) (cur : list Z) (s : list Z) : list (list Z) :=
  match s with
  | [] => match cur with [] => [] | _ => [rev cur] end
  | c :: s' =>
      if c =? sep
      then match cur with
           | [] => strtok_aux sep [] s'
           | _ => rev cur :: strtok_aux sep [] s'
           end
      else strtok_aux sep (c :: cur) s'
  end.

Definition strtok (sep : Z) (s : list Z) : list (list Z) := strtok_aux sep [] s.

(** Fields separated by one byte, empty ones included. *)
Fixpoint split_on (sep : Z) (s : list Z) : list (list Z) :=
  match s with
  | [] => [[]]
  | c :: s' =>
      if c =? sep then [] :: split_on sep s'
      else match split_on sep s' with
           | f :: fs => (c :: f) :: fs
           | [] => [[c]]
           end
  end.

(** ** Lemmas: characters *)

Lemma is_digit_iff c : is_digit c = true <-> 48 <= c <= 57.
Proof. unfold is_digit. bgoal. lia. Qed.

Lemma digit_val_10 c d : digit_val 10 c = Some d <-> 48 <= c <= 57 /\ d = c - 48.
Proof.
  unfold digit_val. split.
  - intros H. repeat case_match; breflect; simplify_eq; lia.
  - intros [Hc ->]. replace (48 <=? c) with true by lia. replace (c <=? 57) with true by lia.
    simpl. by replace (c - 48 <? 10) with true by lia.
Qed.

Lemma digit_val_10_None c : digit_val 10 c = None <-> is_digit c = false.
Proof.
  destruct (digit_val 10 c) as [d|] eqn:E.
  - apply digit_val_10 in E. split; [done|]. unfold is_digit. intros H. breflect. lia.
  - split; [|done]. intros _. destruct (is_digit c) eqn:D; [|done].
    apply is_digit_iff in D. assert (H : digit_val 10 c = Some (c - 48)) by (by apply digit_val_10).
    congruence.
Qed.

Lemma digit_val_char b d : 0 <= d < b -> b <= 16 -> digit_val b (digit_char d) = Some d.
Proof.
  intros Hd Hb. unfold digit_char, digit_val.
  destruct (d <? 10) eqn:E; breflect.
  - replace (48 <=? d + 48) with true by lia. replace (d + 48 <=? 57) with true by lia. simpl.
    replace (d + 48 - 48) with d by lia. by replace (d <? b) with true by lia.
  - replace (d + 87 <=? 57) with false by lia. rewrite andb_false_r.
    replace (97 <=? d + 87) with true by lia. replace (d + 87 <=? 102) with true by lia. simpl.
    replace (d + 87 - 87) with d by lia. by replace (d <? b) with true by lia.
Qed.

Lemma digit_char_digit d : 0 <= d < 10 -> is_digit (digit_char d) = true.
Proof. intros. unfold digit_char, is_digit. replace (d <? 10) with true by lia. bgoal. lia. Qed.

(** ** Lemmas: print and scan are inverse *)

Lemma log2_fuel_ok b n : 2 <= b -> 0 <= n -> n < b ^ Z.of_nat (S (Z.to_nat (Z.log2 n))).
Proof.
  intros Hb Hn. destruct (decide (n = 0)) as [->|]; [simpl; lia|].
  rewrite Nat2Z.inj_succ, Z2Nat.id by apply Z.log2_nonneg.
  apply Z.lt_le_trans with (2 ^ Z.succ (Z.log2 n)); [apply Z.log2_spec; lia|].
  apply Z.pow_le_mono_l. lia.
Qed.

Lemma scan_digits_fuel f b n acc :
  2 <= b <= 16 -> 0 <= n < b ^ Z.of_nat f ->
  scan_digits b 0 (digits_fuel f b n acc) = scan_digits b n acc.
Proof.
  intros Hb. revert n acc. induction f as [|f IH]; intros n acc Hn.
  - simpl. assert (n = 0) as -> by (simpl in Hn; lia). done.
  - simpl. assert (Hm : 0 <= n mod b < b) by (apply Z.mod_pos_bound; lia).
    destruct (n / b =? 0) eqn:E; breflect.
    + simpl. rewrite digit_val_char by lia. f_equal.
      pose proof (Z.div_mod n b). lia.
    + rewrite IH.
      * simpl. rewrite digit_val_char by lia. f_equal. pose proof (Z.div_mod n b). lia.
      * rewrite Nat2Z.inj_succ, Z.pow_succ_r in Hn by lia.
        split; [apply Z.div_pos; lia|]. apply Z.div_lt_upper_bound; lia.
Qed.

Lemma scan_print b n rest :
  2 <= b <= 16 -> 0 <= n ->
  scan_digits b 0 (print_base b n ++ rest) = scan_digits b n rest.
Proof.
  intros Hb Hn. unfold print_base.
  assert (Happ : forall f m acc, digits_fuel f b m acc ++ rest = digits_fuel f b m (acc ++ rest)).
  { induction f as [|f IH]; intros m acc; simpl; [done|].
    destruct (m / b =? 0); [done|]. by rewrite IH. }
  rewrite Happ. simpl app. apply scan_digits_fuel; [done|].
  split; [done|]. apply log2_fuel_ok; lia.
Qed.

Lemma digits_fuel_chars f b n acc (P : Z -> Prop) :
  2 <= b -> (forall d, 0 <= d < b -> P (digit_char d)) ->
  Forall P acc -> Forall P (digits_fuel f b n acc).
Proof.
  intros Hb HP. revert n acc. induction f as [|f IH]; intros n acc Hacc; simpl; [done|].
  assert (0 <= n mod b < b) by (apply Z.mod_pos_bound; lia).
  destruct (n / b =? 0); [by constructor; auto|]. apply IH. by constructor; auto.
Qed.

Lemma print_dec_digits n : Forall (fun c => is_digit c = true) (print_dec n).
Proof. apply digits_fuel_chars; [lia|apply digit_char_digit|constructor]. Qed.

Lemma digits_fuel_cons f b n acc : (0 < f)%nat -> digits_fuel f b n acc <> [].
Proof.
  revert n acc. induction f as [|f IH]; intros n acc Hf; [lia|]. simpl.
  case_match; [done|]. destruct f; [done|]. apply IH. lia.
Qed.

Lemma print_base_nonempty b n : print_base b n <> [].
Proof. apply digits_fuel_cons. lia. Qed.

(** The number of digits. *)
Lemma digits_fuel_length f b n acc k :
  2 <= b -> 0 <= n < b ^ Z.of_nat (S k) ->
  (length (digits_fuel f b n acc) <= S k + length acc)%nat.
Proof.
  intros Hb. revert n acc k. induction f as [|f IH]; intros n acc k Hn; simpl; [lia|].
  destruct (n / b =? 0) eqn:E; [simpl; lia|]. breflect.
  destruct k as [|k].
  - exfalso. apply E. apply Z.div_small. simpl in Hn. lia.
  - etrans; [apply (IH _ _ k)|simpl; lia].
    rewrite (Nat2Z.inj_succ (S k)), Z.pow_succ_r in Hn by lia.
    split; [apply Z.div_pos; lia|]. apply Z.div_lt_upper_bound; lia.
Qed.

Lemma print_base_length b n k :
  2 <= b -> 0 <= n < b ^ Z.of_nat (S k) -> (length (print_base b n) <= S k)%nat.
Proof.
  intros Hb Hn. etrans; [apply (digits_fuel_length _ _ _ _ k)|simpl; lia]; done.
Qed.

Lemma print_dec_u64_length n : 0 <= n <= UINT64_MAX -> (length (print_dec n) <= 20)%nat.
Proof. intros. apply (print_base_length 10 n 19); unfold UINT64_MAX in *; lia. Qed.

(** [strtoull] on the output of [%llu]. *)
Lemma strtoull_digits c s :
  is_digit c = true -> fst (scan_digits 10 0 (c :: s)) <= UINT64_MAX ->
  strtoull 10 (c :: s) = (fst (scan_digits 10 0 (c :: s)), snd (scan_digits 10 0 (c :: s)), false).
Proof.
  intros Hc Hv. pose proof (proj1 (is_digit_iff c) Hc) as Hr. unfold strtoull.
  assert (Hsp : skip_space (c :: s) = c :: s).
  { simpl. unfold is_space. replace (c =? 32) with false by lia.
    by replace (c <=? 13) with false by lia; rewrite andb_false_r. }
  rewrite Hsp. replace (c =? 45) with false by lia. replace (c =? 43) with false by lia.
  assert (E : (match c :: s with
    | z :: x :: h :: r =>
        if (10 =? 16) && (z =? 48) && ((x =? 120) || (x =? 88))
           && bool_decide (is_Some (digit_val 16 h)) then h :: r else c :: s
    | _ => c :: s end) = c :: s) by (destruct s as [|? [|? ?]]; done).
  rewrite E. assert (D : digit_val 10 c = Some (c - 48)) by (by apply digit_val_10).
  rewrite D. destruct (scan_digits 10 0 (c :: s)) as [v rest] eqn:Es. simpl in *.
  by replace (UINT64_MAX <? v) with false by lia.
Qed.

Lemma strtoull_print_dec n :
  0 <= n <= UINT64_MAX -> strtoull 10 (print_dec n) = (n, [], false).
Proof.
  intros Hn. pose proof (scan_print 10 n [] ltac:(lia) ltac:(lia)) as Hs.
  rewrite app_nil_r in Hs. simpl in Hs. pose proof (print_dec_digits n) as Hd.
  pose proof (print_base_nonempty 10 n) as Hne. unfold print_dec in *.
  destruct (print_base 10 n) as [|c s]; [done|]. inversion Hd; subst.
  rewrite strtoull_digits; rewrite ?Hs; simpl; [done..|lia].
Qed.

(** Leading blanks are skipped. *)
Lemma strtoull_space c s :
  is_digit c = true -> strtoull 10 (32 :: c :: s) = strtoull 10 (c :: s).
Proof.
  intros Hc. pose proof (proj1 (is_digit_iff c) Hc) as Hr.
  assert (D : digit_val 10 c = Some (c - 48)) by (by apply digit_val_10).
  assert (Hsp : is_space c = false).
  { unfold is_space. replace (c =? 32) with false by lia.
    by replace (c <=? 13) with false by lia; rewrite andb_false_r. }
  unfold strtoull. change (skip_space (32 :: c :: s)) with (skip_space (c :: s)).
  cbn [skip_space]. rewrite Hsp.
  replace (c =? 45) with false by lia. replace (c =? 43) with false by lia.
  destruct s as [|x [|h r]]; cbn -[scan_digits UINT64_MAX digit_val]; by rewrite D.
Qed.

(** A text does not start with a digit. *)
Definition no_digit_head (s : list Z) : Prop :=
  match s with [] => True | c :: _ => is_digit c = false end.

Lemma scan_digits_stop n s : no_digit_head s -> scan_digits 10 n s = (n, s).
Proof. destruct s as [|c s]; [done|]. simpl. intros H. apply digit_val_10_None in H. by rewrite H. Qed.

Lemma print_dec_cons n : exists c s, print_dec n = c :: s /\ is_digit c = true.
Proof.
  pose proof (print_dec_digits n) as Hd. pose proof (print_base_nonempty 10 n) as Hne.
  unfold print_dec in *. destruct (print_base 10 n) as [|c s]; [done|]. inversion Hd; eauto.
Qed.

Lemma strtoull_print_app n rest :
  0 <= n <= UINT64_MAX -> no_digit_head rest ->
  strtoull 10 (print_dec n ++ rest) = (n, rest, false).
Proof.
  intros Hn Hr. pose proof (scan_print 10 n rest ltac:(lia) ltac:(lia)) as Hs.
  rewrite (scan_digits_stop n rest Hr) in Hs.
  destruct (print_dec_cons n) as (c & s & E & Hc). unfold print_dec in *. rewrite E in *.
  simpl app in *. rewrite strtoull_digits; rewrite ?Hs; simpl; [done..|lia].
Qed.

(** ** Lemmas: canonical decimals *)

Lemma digits_fuel_app f b n acc rest :
  digits_fuel f b n (acc ++ rest) = digits_fuel f b n acc ++ rest.
Proof.
  revert n acc. induction f as [|f IH]; intros n acc; simpl; [done|].
  destruct (n / b =? 0); [done|]. by rewrite <- IH.
Qed.

Lemma digits_fuel_enough f f' b n acc :
  2 <= b -> 0 <= n < b ^ Z.of_nat f -> 0 <= n < b ^ Z.of_nat f' -> (0 < f)%nat -> (0 < f')%nat ->
  digits_fuel f b n acc = digits_fuel f' b n acc.
Proof.
  intros Hb. revert f' n acc. induction f as [|f IH]; intros f' n acc Hn Hn' Hf Hf'; [lia|].
  destruct f' as [|f']; [lia|]. simpl. destruct (n / b =? 0) eqn:E; [done|]. breflect.
  assert (D : forall k, n < b ^ Z.of_nat (S k) -> 0 <= n / b < b ^ Z.of_nat k).
  { intros k Hk. rewrite Nat2Z.inj_succ, Z.pow_succ_r in Hk by lia.
    split; [apply Z.div_pos; lia|]. apply Z.div_lt_upper_bound; lia. }
  assert (P : forall k, n < b ^ Z.of_nat (S k) -> (0 < k)%nat).
  { intros k Hk. specialize (D k Hk). destruct k; [simpl in D; lia|lia]. }
  apply IH; [apply D; lia|apply D; lia|apply P; lia|apply P; lia].
Qed.

Lemma print_dec_snoc m d :
  0 < m -> 0 <= d < 10 -> print_dec (m * 10 + d) = print_dec m ++ [digit_char d].
Proof.
  intros Hm Hd. unfold print_dec, print_base.
  rewrite <- (digits_fuel_app _ 10 m [] [digit_char d]). simpl app.
  set (n := m * 10 + d).
  assert (Hdiv : n / 10 = m) by (unfold n; Z.div_mod_to_equations; lia).
  assert (Hmod : n mod 10 = d) by (unfold n; Z.div_mod_to_equations; lia).
  pose proof (log2_fuel_ok 10 n ltac:(lia) ltac:(lia)) as Hfuel.
  rewrite Nat2Z.inj_succ, Z.pow_succ_r in Hfuel by lia.
  set (r := digits_fuel (S (Z.to_nat (Z.log2 m))) 10 m [digit_char d]).
  cbn [digits_fuel]. rewrite Hdiv, Hmod, (proj2 (Z.eqb_neq m 0)) by lia. subst r.
  apply digits_fuel_enough; [lia| | |..].
  - unfold n in *. lia.
  - split; [lia|]. apply log2_fuel_ok; lia.
  - assert (4 <= n) by lia. pose proof (Z.log2_le_mono 4 n ltac:(lia)).
    change (Z.log2 4) with 2 in *. lia.
  - lia.
Qed.

Lemma scan_digits_snoc s c acc :
  Forall (fun c => is_digit c = true) s -> is_digit c = true ->
  scan_digits 10 acc (s ++ [c]) = (fst (scan_digits 10 acc s) * 10 + (c - 48), []).
Proof.
  intros Hs Hc. revert acc. induction Hs as [|x s Hx Hs IH]; intros acc; simpl.
  - assert (D : digit_val 10 c = Some (c - 48)).
    { apply digit_val_10. apply is_digit_iff in Hc. lia. }
    by rewrite D.
  - assert (D : digit_val 10 x = Some (x - 48)).
    { apply digit_val_10. apply is_digit_iff in Hx. lia. }
    by rewrite D, IH.
Qed.

(** A digit string without a leading zero is the decimal of its value. *)
Lemma print_scan_dec s c :
  Forall (fun c => is_digit c = true) (c :: s) -> c <> 48 ->
  0 < fst (scan_digits 10 0 (c :: s)) /\ snd (scan_digits 10 0 (c :: s)) = [] /\
  print_dec (fst (scan_digits 10 0 (c :: s))) = c :: s.
Proof.
  intros Hs Hc. induction s as [|d s IH] using rev_ind.
  - inversion_clear Hs as [|? ? Hd _]. apply is_digit_iff in Hd.
    assert (E : scan_digits 10 0 [c] = (c - 48, [])).
    { simpl. by rewrite (proj2 (digit_val_10 c (c - 48))) by lia. }
    rewrite E. split_and!; [simpl; lia|done|]. simpl.
    assert (H : c = 49 \/ c = 50 \/ c = 51 \/ c = 52 \/ c = 53 \/ c = 54 \/ c = 55 \/ c = 56 \/ c = 57)
      by lia.
    repeat (destruct H as [->|H]; [reflexivity|]). by subst.
  - rewrite app_comm_cons in *. apply Forall_app in Hs as [Hs Hd]. inversion_clear Hd as [|? ? Hd' _].
    destruct (IH Hs) as (Hpos & _ & Hp). rewrite scan_digits_snoc by done. cbn [fst snd].
    apply is_digit_iff in Hd'. split_and!; [lia|done|].
    rewrite print_dec_snoc by lia. rewrite Hp. f_equal. unfold digit_char.
    replace (d - 48 <? 10) with true by lia. f_equal. lia.
Qed.

Lemma print_dec_inj m n : 0 <= m -> 0 <= n -> print_dec m = print_dec n -> m = n.
Proof.
  intros Hm Hn E. pose proof (scan_print 10 m [] ltac:(lia) Hm) as H1.
  pose proof (scan_print 10 n [] ltac:(lia) Hn) as H2.
  unfold print_dec in E. rewrite E, H2 in H1. simpl in H1. congruence.
Qed.

Lemma print_dec_no_leading_zero n s : 0 < n -> print_dec n <> 48 :: s.
Proof.
  intros Hn E. unfold print_dec, print_base in E.
  assert (H : forall f m acc, 0 < m < 10 ^ Z.of_nat f ->
    exists c r, digits_fuel f 10 m acc = c :: r /\ c <> 48).
  { induction f as [|f IH]; intros m acc Hm; [simpl in Hm; lia|]. simpl.
    destruct (m / 10 =? 0) eqn:Ed; breflect.
    - exists (digit_char (m mod 10)), acc. split; [done|]. unfold digit_char.
      assert (m < 10) by (Z.div_mod_to_equations; lia). rewrite Z.mod_small by lia.
      case_match; lia.
    - apply IH. rewrite Nat2Z.inj_succ, Z.pow_succ_r in Hm by lia.
      split; [|apply Z.div_lt_upper_bound; lia].
      assert (0 <= m / 10) by (apply Z.div_pos; lia). lia. }
  destruct (H (S (Z.to_nat (Z.log2 n))) n []) as (c & r & E' & Hc); [|congruence].
  split; [done|]. apply log2_fuel_ok; lia.
Qed.

Lemma strtoull_overflow c s :
  is_digit c = true -> UINT64_MAX < fst (scan_digits 10 0 (c :: s)) ->
  strtoull 10 (c :: s) = (UINT64_MAX, snd (scan_digits 10 0 (c :: s)), true).
Proof.
  intros Hc Hv. pose proof (proj1 (is_digit_iff c) Hc) as Hr. unfold strtoull.
  assert (Hsp : skip_space (c :: s) = c :: s).
  { simpl. unfold is_space. replace (c =? 32) with false by lia.
    by replace (c <=? 13) with false by lia; rewrite andb_false_r. }
  rewrite Hsp. replace (c =? 45) with false by lia. replace (c =? 43) with false by lia.
  assert (E : (match c :: s with
    | z :: x :: h :: r =>
        if (10 =? 16) && (z =? 48) && ((x =? 120) || (x =? 88))
           && bool_decide (is_Some (digit_val 16 h)) then h :: r else c :: s
    | _ => c :: s end) = c :: s) by (destruct s as [|? [|? ?]]; done).
  rewrite E. assert (D : digit_val 10 c = Some (c - 48)) by (by apply digit_val_10).
  rewrite D. destruct (scan_digits 10 0 (c :: s)) as [v rest] eqn:Es. simpl in *.
  by replace (UINT64_MAX <? v) with true by lia.
Qed.

Lemma digit_val_nonneg b c d : digit_val b c = Some d -> 0 <= d.
Proof. unfold digit_val. intros H. repeat case_match; breflect; simplify_eq; lia. Qed.

Lemma scan_digits_nonneg b acc s : 0 <= b -> 0 <= acc -> 0 <= fst (scan_digits b acc s).
Proof.
  intros Hb. revert acc. induction s as [|c s IH]; intros acc Hacc; simpl; [done|].
  destruct (digit_val b c) as [d|] eqn:E; [|done]. apply digit_val_nonneg in E. apply IH. nia.
Qed.

Lemma strtoull_range b s : 0 <= b -> 0 <= fst (fst (strtoull b s)) <= UINT64_MAX.
Proof.
  intros Hb. unfold strtoull.
  destruct (match skip_space s with [] => _ | _ => _ end) as [neg s2].
  destruct (match s2 with [] => _ | _ => _ end) as [|c s3]; [unfold UINT64_MAX; simpl; lia|].
  destruct (digit_val b c); [|unfold UINT64_MAX; simpl; lia].
  pose proof (scan_digits_nonneg b 0 (c :: s3) Hb ltac:(lia)) as Hn.
  destruct (scan_digits b 0 (c :: s3)) as [v rest]. simpl in Hn.
  destruct (UINT64_MAX <? v) eqn:E; breflect; [unfold UINT64_MAX; simpl; lia|]. simpl.
  destruct neg; [|lia]. pose proof (u64_range (- v)). unfold UINT64_MAX. lia.
Qed.

Lemma mem_byte_iff c s : mem_byte c s = true <-> c ∈ s.
Proof.
  unfold mem_byte. rewrite existsb_iff, Exists_exists. split.
  - intros (x & Hx & E). breflect. by subst.
  - intros Hc. exists c. split; [done|]. apply Z.eqb_refl.
Qed.

Lemma mem_byte_false c s : mem_byte c s = false <-> c ∉ s.
Proof. rewrite <- mem_byte_iff. by destruct (mem_byte c s). Qed.

Lemma strrchr_None c s : strrchr c s = None <-> c ∉ s.
Proof.
  induction s as [|x s IH]; simpl; [split; [intros _; apply not_elem_of_nil|done]|].
  rewrite not_elem_of_cons. destruct (strrchr c s) as [[a b]|].
  - split; [done|]. intros [_ H]. by apply IH in H.
  - destruct (x =? c) eqn:E; breflect; split; try done; try congruence.
    + intros [? _]. congruence.
    + intros _. split; [congruence|]. by apply IH.
Qed.

Lemma elem_of_middle (c : Z) a b : c ∈ a ++ c :: b.
Proof. apply elem_of_app. right. by left. Qed.

(** [strrchr] finds the last occurrence. *)
Lemma strrchr_Some c s a b : strrchr c s = Some (a, b) <-> s = a ++ c :: b /\ c ∉ b.
Proof.
  revert a b. induction s as [|x s IH]; intros a b; simpl.
  { split; [done|]. by intros [? _]; destruct a. }
  destruct (strrchr c s) as [[a' b']|] eqn:Es.
  - destruct (proj1 (IH a' b') eq_refl) as [Es' Hb']. split.
    + intros [= <- <-]. split; [by rewrite Es'|done].
    + intros [E Hb]. destruct a as [|y a]; injection E as -> E.
      * exfalso. apply Hb. rewrite <- E, Es'. apply elem_of_middle.
      * assert (Hx : Some (a', b') = Some (a, b)) by (by apply IH). by simplify_eq.
  - apply strrchr_None in Es.
    assert (Hno : forall y a, x :: s = (y :: a) ++ c :: b -> False).
    { intros y a' [= -> E]. apply Es. rewrite E. apply elem_of_middle. }
    destruct (x =? c) eqn:E; breflect.
    + subst x. split; [by intros [= <- <-]|]. intros [E _]. destruct a as [|y a].
      * by injection E as ->.
      * by apply Hno in E.
    + split; [done|]. intros [Ex _]. destruct a as [|y a]; [by injection Ex as ? _|by apply Hno in Ex].
Qed.
