(* ===== verification/FatGrow.v ===== *)
(** * pxeosfatgrow: grow a FAT file system to its partition

    Models [Buildroot/package/pxeos/src/pxeosfatgrow.c].

    - [Boot]: the boot-sector functions ([get_le16] ... [validate_boot_sector]).
    - [Sysfs]: the checks against /sys and /proc ([is_mounted], ...), over an
      environment that answers [stat], [fopen] and [access].
    - [Run]: [run] and [main] over a libparted interface ([Parted]); the laws
      of libparted the proofs rely on are the class [PartedLaws]. *)
From S2P Require Import Prelude CLib.
Local Open Scope Z_scope.
Local Open Scope list_scope.

Module Boot.

Definition FAT_BOOT_SECTOR_SIZE : nat := 512.
Definition FAT_BPB_BYTES_PER_SECTOR : nat := 11.
Definition FAT_BPB_HIDDEN_SECTORS : nat := 28.
Definition FAT_BPB_TOTAL_SECTORS_32 : nat := 32.
Definition FAT32_BPB_FAT_SIZE : nat := 36.
Definition FAT32_BPB_BACKUP_BOOT : nat := 50.

(** [get_le16(p + off)]. *)
Definition get_le16 (p : list Z) (off : nat) : Z :=
  u16 (Z.lor (at_ p off) (Z.shiftl (at_ p (off + 1)) 8)).

(** [get_le32(p + off)]. *)
Definition get_le32 (p : list Z) (off : nat) : Z :=
  u32 (Z.lor (Z.lor (Z.lor (at_ p off) (Z.shiftl (at_ p (off + 1)) 8))
                    (Z.shiftl (at_ p (off + 2)) 16))
             (Z.shiftl (at_ p (off + 3)) 24)).

(** [put_le32(p + off, value)]. *)
Definition put_le32 (p : list Z) (off : nat) (value : Z) : list Z :=
  blit off [u8 value; u8 (Z.shiftr value 8); u8 (Z.shiftr value 16); u8 (Z.shiftr value 24)] p.

(** [memcpy(merged + off, resized + off, n)]. *)
Definition copy_range (off n : nat) (src dst : list Z) : list Z := blit off (slice off n src) dst.

Definition merge_boot_sector (original resized : list Z) (is_fat32 : bool)
    (hidden_sectors : Z) : list Z :=
  let merged := original in
  let merged := copy_range FAT_BPB_BYTES_PER_SECTOR 13 resized merged in
  let merged := put_le32 merged FAT_BPB_HIDDEN_SECTORS hidden_sectors in
  let merged := copy_range FAT_BPB_TOTAL_SECTORS_32 4 resized merged in
  if is_fat32 then copy_range FAT32_BPB_FAT_SIZE 16 resized merged else merged.

(** [memcmp(a + off, b + off, n) == 0]. *)
Definition same_range (off n : nat) (a b : list Z) : bool := beq (slice off n a) (slice off n b).

Definition boot_identity_matches (before after : list Z) (is_fat32 : bool)
    (hidden_sectors : Z) : bool :=
  let expected := put_le32 before FAT_BPB_HIDDEN_SECTORS hidden_sectors in
  if negb (same_range 0 FAT_BPB_BYTES_PER_SECTOR expected after) then false
  else if negb (same_range 24 4 expected after)
          || negb (same_range FAT_BPB_HIDDEN_SECTORS 4 expected after) then false
  else if is_fat32 then same_range 52 (FAT_BOOT_SECTOR_SIZE - 52) expected after
  else same_range 36 (FAT_BOOT_SECTOR_SIZE - 36) expected after.

Definition boot_geometry_matches (main_boot backup_boot : list Z) : bool :=
  same_range FAT_BPB_BYTES_PER_SECTOR 13 main_boot backup_boot
  && same_range FAT_BPB_HIDDEN_SECTORS 8 main_boot backup_boot
  && same_range FAT32_BPB_FAT_SIZE 16 main_boot backup_boot.

Definition validate_boot_sector (boot : list Z) : bool :=
  if negb (get_le16 boot FAT_BPB_BYTES_PER_SECTOR =? Z.of_nat FAT_BOOT_SECTOR_SIZE) then false
  else if negb (get_le16 boot 510 =? 43605) then false
  else true.

(** ** Lemmas *)

Definition sector (b : list Z) : Prop := length b = 512%nat.

Lemma length_put_le32 p off v :
  (off + 4 <= length p)%nat -> length (put_le32 p off v) = length p.
Proof. intros. unfold put_le32. by rewrite length_blit. Qed.

Lemma length_copy_range off n src dst :
  (off + n <= length src)%nat -> (off + n <= length dst)%nat ->
  length (copy_range off n src dst) = length dst.
Proof. intros. unfold copy_range. rewrite length_blit; [done|]. rewrite length_slice; lia. Qed.

Lemma at_put_le32 p off v i :
  (off + 4 <= length p)%nat ->
  at_ (put_le32 p off v) i =
  if decide (off <= i < off + 4)%nat then u8 (Z.shiftr v (8 * Z.of_nat (i - off))) else at_ p i.
Proof.
  intros. unfold put_le32. rewrite at_blit by (simpl; lia). simpl length.
  case_decide as D; [|done]. unfold at_.
  assert (E : (i - off = 0 \/ i - off = 1 \/ i - off = 2 \/ i - off = 3)%nat) by lia.
  destruct E as [-> | [-> | [-> | ->]]]; simpl nth; try done.
Qed.

Lemma at_copy_range off n src dst i :
  (off + n <= length src)%nat -> (off + n <= length dst)%nat ->
  at_ (copy_range off n src dst) i =
  if decide (off <= i < off + n)%nat then at_ src i else at_ dst i.
Proof.
  intros. unfold copy_range. rewrite at_blit; rewrite length_slice by lia; [|lia].
  case_decide; [|done]. rewrite at_slice by lia. f_equal. lia.
Qed.

Lemma same_range_iff off n a b :
  (off + n <= length a)%nat -> (off + n <= length b)%nat ->
  same_range off n a b = true <->
  (forall i, (off <= i < off + n)%nat -> at_ a i = at_ b i).
Proof. intros. unfold same_range. rewrite beq_true. by apply slice_eq_iff. Qed.

Lemma length_merge o r f h : sector o -> sector r -> sector (merge_boot_sector o r f h).
Proof.
  unfold sector, merge_boot_sector. intros Ho Hr.
  unfold FAT_BPB_BYTES_PER_SECTOR, FAT_BPB_HIDDEN_SECTORS, FAT_BPB_TOTAL_SECTORS_32,
    FAT32_BPB_FAT_SIZE.
  destruct f; repeat (rewrite ?length_copy_range, ?length_put_le32; try lia).
Qed.

(** Where each byte of a merged boot sector comes from. *)
Definition geometry_byte (is_fat32 : bool) (i : nat) : bool :=
  ((11 <=? i) && (i <? 24) || (32 <=? i) && (i <? 36)
   || (is_fat32 && (36 <=? i) && (i <? 52)))%nat.

Definition hidden_byte (i : nat) : bool := ((28 <=? i) && (i <? 32))%nat.

Lemma at_merge o r f h i :
  sector o -> sector r ->
  at_ (merge_boot_sector o r f h) i =
  if geometry_byte f i then at_ r i
  else if hidden_byte i then u8 (Z.shiftr h (8 * Z.of_nat (i - 28)))
  else at_ o i.
Proof.
  unfold sector. intros Ho Hr. unfold merge_boot_sector, geometry_byte, hidden_byte.
  unfold FAT_BPB_BYTES_PER_SECTOR, FAT_BPB_HIDDEN_SECTORS, FAT_BPB_TOTAL_SECTORS_32,
    FAT32_BPB_FAT_SIZE.
  assert (L1 : length (copy_range 11 13 r o) = 512%nat) by (rewrite length_copy_range; lia).
  assert (L2 : length (put_le32 (copy_range 11 13 r o) 28 h) = 512%nat)
    by (rewrite length_put_le32; lia).
  assert (L3 : length (copy_range 32 4 r (put_le32 (copy_range 11 13 r o) 28 h)) = 512%nat)
    by (rewrite length_copy_range; lia).
  destruct f;
    repeat first [rewrite at_copy_range by lia | rewrite at_put_le32 by lia];
    repeat case_decide; repeat case_match; first [done | exfalso; blia].
Qed.

(** The identity part of a boot sector is the rest: jump, OEM name, disk
    geometry hints, hidden sectors, volume identity and boot code. *)
Definition identity_byte (is_fat32 : bool) (i : nat) : bool := negb (geometry_byte is_fat32 i).

Lemma identity_iff o r f h :
  sector o -> sector r ->
  boot_identity_matches o r f h = true <->
  (forall i, (i < 512)%nat -> identity_byte f i = true ->
     at_ r i = if hidden_byte i then u8 (Z.shiftr h (8 * Z.of_nat (i - 28))) else at_ o i).
Proof.
  unfold sector. intros Ho Hr. unfold boot_identity_matches, identity_byte.
  unfold FAT_BPB_BYTES_PER_SECTOR, FAT_BPB_HIDDEN_SECTORS, FAT_BOOT_SECTOR_SIZE.
  set (e := put_le32 o 28 h).
  assert (He : length e = 512%nat) by (unfold e; rewrite length_put_le32; lia).
  assert (Hat : forall i, at_ e i =
    if hidden_byte i then u8 (Z.shiftr h (8 * Z.of_nat (i - 28))) else at_ o i).
  { intros i. unfold e, hidden_byte. rewrite at_put_le32 by lia.
    repeat case_decide; repeat case_match; first [done | exfalso; blia]. }
  assert (R : forall off n, (off + n <= 512)%nat -> same_range off n e r = true <->
     forall i, (off <= i < off + n)%nat -> at_ e i = at_ r i)
    by (intros; apply same_range_iff; lia).
  transitivity (same_range 0 11 e r = true /\ same_range 24 4 e r = true /\
    same_range 28 4 e r = true /\
    (if f then same_range 52 (512 - 52) e r else same_range 36 (512 - 36) e r) = true).
  { destruct f, (same_range 0 11 e r), (same_range 24 4 e r), (same_range 28 4 e r);
      simpl; intuition congruence. }
  rewrite !R by lia. split.
  - intros (H0 & H24 & H28 & Hl) i Hi Hid. rewrite <- Hat.
    destruct f; [rewrite R in Hl by lia | rewrite R in Hl by lia];
    unfold geometry_byte in Hid; rewrite negb_true_iff in Hid; cbn [andb] in Hid;
    (destruct (decide (i < 11)%nat); [symmetry; apply H0; lia|]);
    (destruct (decide (24 <= i < 28)%nat); [symmetry; apply H24; lia|]);
    (destruct (decide (28 <= i < 32)%nat); [symmetry; apply H28; lia|]);
    symmetry; apply Hl; clear H0 H24 H28 Hl R; blia.
  - intros H. assert (H' : forall i, (i < 512)%nat -> geometry_byte f i = false -> at_ e i = at_ r i).
    { intros i Hi Hg. rewrite Hat. symmetry. apply H; [done|]. by rewrite Hg. }
    clear H. split_and!.
    + intros i Hi. apply H'; [lia|]. unfold geometry_byte. destruct f; blia.
    + intros i Hi. apply H'; [lia|]. unfold geometry_byte. destruct f; blia.
    + intros i Hi. apply H'; [lia|]. unfold geometry_byte. destruct f; blia.
    + destruct f; rewrite R by lia; intros i Hi; (apply H'; [lia|]); unfold geometry_byte; blia.
Qed.

#[global] Arguments merge_boot_sector : simpl never.
#[global] Arguments get_le16 : simpl never.
#[global] Arguments boot_identity_matches : simpl never.
#[global] Arguments boot_geometry_matches : simpl never.
#[global] Arguments validate_boot_sector : simpl never.

End Boot.

Module Sysfs.

Inductive file_kind := S_IFBLK | S_IFREG | S_IFOTHER.

#[export] Instance file_kind_eq_dec : EqDecision file_kind.
Proof. solve_decision. Defined.

(** The fields of [struct stat] the program reads. *)
Record stat_t := { st_kind : file_kind; st_major : Z; st_minor : Z }.

(** The system as the program sees it: [stat], the text of a file opened for
    reading, and [access(path, R_OK)]. *)
Record sysenv := {
  sys_stat : list Z -> option stat_t;
  sys_fopen : list Z -> option (list Z);
  sys_access : list Z -> bool
}.

(** [snprintf(path, 96, "/sys/dev/block/%u:%u/<leaf>", major, minor)], [None]
    when it does not fit. *)
Definition sys_block_path (st : stat_t) (leaf : list Z) : option (list Z) :=
  let p := bs "/sys/dev/block/" ++ print_dec (u32 (st_major st)) ++ bs ":"
           ++ print_dec (u32 (st_minor st)) ++ bs "/" ++ leaf in
  if (96 <=? length p)%nat then None else Some p.

(** [scanf]'s [%llu]. *)
Definition scan_llu (s : list Z) : option (Z * list Z) :=
  let '(v, rest, _) := strtoull 10 s in
  if beq rest s then None else Some (v, rest).

(** [scanf]'s [%u]. *)
Definition scan_u (s : list Z) : option (Z * list Z) :=
  match scan_llu s with
  | Some (v, rest) => Some (u32 v, rest)
  | None => None
  end.

Definition read_partition_start (env : sysenv) (st : stat_t) : option Z :=
  match sys_block_path st (bs "start") with
  | None => None
  | Some path =>
      match sys_fopen env path with
      | None => None
      | Some file =>
          match scan_llu file with
          | None => None
          | Some (value, _) => if UINT32_MAX <? value then None else Some (u32 value)
          end
      end
  end.

(** The successive results of [fgets(line, n + 1, file)]: at most [n] bytes,
    up to and including a newline. *)
Fixpoint fgets_chunks (n : nat) (room : nat) (cur : list Z) (s : list Z) : list (list Z) :=
  match s with
  | [] => match cur with [] => [] | _ => [rev cur] end
  | c :: s' =>
      if c =? 10 then rev (c :: cur) :: fgets_chunks n n [] s'
      else match room with
           | S (S r) => fgets_chunks n (S r) (c :: cur) s'
           | _ => rev (c :: cur) :: fgets_chunks n n [] s'
           end
  end.

(** [sscanf(line, "%*u %*u %u:%u", ...) == 2]. *)
Definition scan_mount_dev (line : list Z) : option (Z * Z) :=
  match scan_u line with
  | None => None
  | Some (_, r1) =>
      match scan_u r1 with
      | None => None
      | Some (_, r2) =>
          match scan_u r2 with
          | None => None
          | Some (mj, r3) =>
              match r3 with
              | c :: r4 =>
                  if c =? 58 then
                    match scan_u r4 with
                    | Some (mn, _) => Some (mj, mn)
                    | None => None
                    end
                  else None
              | [] => None
              end
          end
      end
  end.

Definition is_mounted (env : sysenv) (st : stat_t) : bool :=
  match sys_fopen env (bs "/proc/self/mountinfo") with
  | None => true
  | Some file =>
      existsb (fun line =>
        match scan_mount_dev line with
        | Some (mj, mn) => (mj =? u32 (st_major st)) && (mn =? u32 (st_minor st))
        | None => false
        end) (fgets_chunks 4095 4095 [] file)
  end.

Definition is_linux_partition (env : sysenv) (st : stat_t) : bool :=
  match sys_block_path st (bs "partition") with
  | None => false
  | Some path => sys_access env path
  end.

(** The chunks are the file: nothing is dropped or reordered. *)
Lemma fgets_chunks_concat n room cur s :
  concat (fgets_chunks n room cur s) = rev cur ++ s.
Proof.
  revert room cur. induction s as [|c s IH]; intros room cur; simpl.
  - destruct cur; simpl; by rewrite ?app_nil_r.
  - destruct (c =? 10); simpl; [by rewrite IH, <- app_assoc|].
    destruct room as [|[|r]]; simpl; rewrite IH; simpl; by rewrite <- app_assoc.
Qed.

(** The path buffer of 96 bytes is always large enough. *)
Lemma sys_block_path_fits st leaf :
  (length leaf <= 9)%nat -> is_Some (sys_block_path st leaf).
Proof.
  intros Hl. unfold sys_block_path.
  assert (D : forall z, (length (print_dec (u32 z)) <= 10)%nat).
  { intros z. apply (print_base_length 10 _ 9); [lia|].
    pose proof (u32_range z). simpl. lia. }
  pose proof (D (st_major st)). pose proof (D (st_minor st)).
  rewrite !length_app. replace (length (bs "/sys/dev/block/")) with 15%nat by done.
  replace (length (bs ":")) with 1%nat by done. replace (length (bs "/")) with 1%nat by done.
  case_match; [blia|done].
Qed.

End Sysfs.

Module Run.
Import Boot Sysfs.

(** ** libparted, as the program uses it *)

Inductive PedExceptionOption :=
  | PED_EXCEPTION_FIX | PED_EXCEPTION_YES | PED_EXCEPTION_NO | PED_EXCEPTION_OK
  | PED_EXCEPTION_RETRY | PED_EXCEPTION_IGNORE | PED_EXCEPTION_CANCEL.

Inductive PedExceptionType :=
  | PED_EXCEPTION_INFORMATION | PED_EXCEPTION_WARNING | PED_EXCEPTION_ERROR
  | PED_EXCEPTION_FATAL | PED_EXCEPTION_BUG | PED_EXCEPTION_NO_FEATURE.

#[export] Instance PedExceptionOption_eq_dec : EqDecision PedExceptionOption.
Proof. solve_decision. Defined.

#[export] Instance PedExceptionType_eq_dec : EqDecision PedExceptionType.
Proof. solve_decision. Defined.

(** The option mask of an exception, as the options it offers in bit order. *)
Record PedException := { exc_type : PedExceptionType; exc_options : list PedExceptionOption }.

Definition PED_EXCEPTION_YES_NO_CANCEL : list PedExceptionOption :=
  [PED_EXCEPTION_YES; PED_EXCEPTION_NO; PED_EXCEPTION_CANCEL].

Record PedDevice := { sector_size : Z; dev_length : Z }.

(** [fs->type->name], [None] when either pointer is null, and
    [fs->geom->length]. *)
Record PedFileSystem := { fs_type_name : option (list Z); fs_length : Z }.

(** A library call: it ends with a value and a new world, or raises an
    exception and goes on with the answer of the installed handler. *)
Inductive pcall (W R : Type) :=
  | PRet (r : R) (w : W)
  | PThrow (e : PedException) (k : PedExceptionOption -> pcall W R).
Arguments PRet {W R} _ _.
Arguments PThrow {W R} _ _.

(** What every outcome of a call satisfies, whatever the handler answers. *)
Fixpoint pall {W R} (P : R -> W -> Prop) (c : pcall W R) : Prop :=
  match c with
  | PRet r w => P r w
  | PThrow _ k => forall o, pall P (k o)
  end.

Class Parted (W : Type) := {
  ped_device_get : list Z -> W -> pcall W (option PedDevice);
  ped_device_open : W -> pcall W bool;
  ped_device_open_count : W -> Z;
  ped_device_close : W -> pcall W unit;
  ped_device_destroy : W -> pcall W unit;
  (** the partition table type name, [Some None] for a null one *)
  ped_disk_new : W -> pcall W (option (option (list Z)));
  ped_disk_destroy : W -> pcall W unit;
  ped_geometry_new : Z -> Z -> W -> pcall W bool;
  ped_geometry_read : Z -> W -> pcall W (option (list Z));
  ped_geometry_write : Z -> list Z -> W -> pcall W bool;
  ped_geometry_sync : W -> pcall W bool;
  ped_geometry_destroy : W -> pcall W unit;
  ped_file_system_open : W -> pcall W (option PedFileSystem);
  ped_file_system_resize : W -> pcall W bool;
  ped_file_system_close : W -> pcall W unit
}.

(** The calls of one run that matter to the disk and to resource handling. *)
Inductive event :=
  | EvDeviceOpen | EvDeviceClose
  | EvGeomNew | EvGeomDestroy
  | EvFsOpen | EvFsClose
  | EvDiskNew | EvDiskDestroy
  | EvResize (ok : bool)
  | EvWrite (sector : Z).

#[export] Instance event_eq_dec : EqDecision event.
Proof. solve_decision. Defined.

Section WithParted.
Context {W : Type} `{Parted W}.

(** The globals of the file, the locals of [run] that its cleanup reads, the
    outside world and the calls made so far. *)
Record st := {
  exception_seen : bool;
  allow_same_type_choice : bool;
  same_type_choice : PedExceptionOption;
  world : W;
  device : option PedDevice;
  target : bool;
  fs : bool;
  verified : bool;
  trace : list event
}.

Definition set_exception_seen b s := {| exception_seen := b;
  allow_same_type_choice := allow_same_type_choice s; same_type_choice := same_type_choice s;
  world := world s; device := device s; target := target s; fs := fs s;
  verified := verified s; trace := trace s |}.

Definition set_choice b o s := {| exception_seen := exception_seen s;
  allow_same_type_choice := b; same_type_choice := o;
  world := world s; device := device s; target := target s; fs := fs s;
  verified := verified s; trace := trace s |}.

Definition set_world w s := {| exception_seen := exception_seen s;
  allow_same_type_choice := allow_same_type_choice s; same_type_choice := same_type_choice s;
  world := w; device := device s; target := target s; fs := fs s;
  verified := verified s; trace := trace s |}.

Definition set_device d s := {| exception_seen := exception_seen s;
  allow_same_type_choice := allow_same_type_choice s; same_type_choice := same_type_choice s;
  world := world s; device := d; target := target s; fs := fs s;
  verified := verified s; trace := trace s |}.

Definition set_target b s := {| exception_seen := exception_seen s;
  allow_same_type_choice := allow_same_type_choice s; same_type_choice := same_type_choice s;
  world := world s; device := device s; target := b; fs := fs s;
  verified := verified s; trace := trace s |}.

Definition set_fs b s := {| exception_seen := exception_seen s;
  allow_same_type_choice := allow_same_type_choice s; same_type_choice := same_type_choice s;
  world := world s; device := device s; target := target s; fs := b;
  verified := verified s; trace := trace s |}.

Definition set_verified b s := {| exception_seen := exception_seen s;
  allow_same_type_choice := allow_same_type_choice s; same_type_choice := same_type_choice s;
  world := world s; device := device s; target := target s; fs := fs s;
  verified := b; trace := trace s |}.

Definition log (e : event) (s : st) : st := {| exception_seen := exception_seen s;
  allow_same_type_choice := allow_same_type_choice s; same_type_choice := same_type_choice s;
  world := world s; device := device s; target := target s; fs := fs s;
  verified := verified s; trace := trace s ++ [e] |}.

(** The handler installed with [ped_exception_set_handler]. *)
Definition cancel_exception (exn : PedException) (s : st) : PedExceptionOption * st :=
  if allow_same_type_choice s
     && bool_decide (exc_type exn = PED_EXCEPTION_INFORMATION)
     && bool_decide (exc_options exn = PED_EXCEPTION_YES_NO_CANCEL)
  then (same_type_choice s, s)
  else (PED_EXCEPTION_CANCEL, set_exception_seen true s).

(** A library call under that handler. *)
Fixpoint run_pcall {R} (c : pcall W R) (s : st) : R * st :=
  match c with
  | PRet r w => (r, set_world w s)
  | PThrow e k => let '(o, s') := cancel_exception e s in run_pcall (k o) s'
  end.

Definition call {R} (f : W -> pcall W R) : M st R := fun s =>
  let '(r, s') := run_pcall (f (world s)) s in (Some r, s').

Local Open Scope cmonad_scope.

Definition is_some {A} (o : option A) : bool := match o with Some _ => true | None => false end.

(** In [run]: open the device and insist on 512-byte sectors. *)
Definition run_open_device (path : list Z) : M st PedDevice :=
  d <- call (ped_device_get path) ;;
  modify (set_device d) ;;;
  match d with
  | None => fail
  | Some dev =>
      ok <- call ped_device_open ;;
      require ok ;;;
      modify (log EvDeviceOpen) ;;;
      require (sector_size dev =? Z.of_nat FAT_BOOT_SECTOR_SIZE) ;;;
      ret dev
  end.

(** In [run]: a regular file must not carry a partition table. *)
Definition run_check_image (is_block : bool) : M st unit :=
  if is_block then ret tt else
  modify (set_exception_seen false) ;;;
  disk <- call ped_disk_new ;;
  match disk with
  | None => ret tt
  | Some name =>
      modify (log EvDiskNew) ;;;
      call ped_disk_destroy ;;;
      modify (log EvDiskDestroy) ;;;
      require (bool_decide (name = Some (bs "loop")))
  end ;;;
  modify (set_exception_seen false).

(** In [run]: the boot sector of the whole device. *)
Definition run_read_boot (dev : PedDevice) : M st (list Z) :=
  t <- call (ped_geometry_new 0 (dev_length dev)) ;;
  modify (set_target t) ;;;
  require t ;;;
  modify (log EvGeomNew) ;;;
  b <- call (ped_geometry_read 0) ;;
  match b with
  | None => fail
  | Some before => require (validate_boot_sector before) ;;; ret before
  end.

(** In [run]: the file system must be FAT16 or FAT32. *)
Definition run_open_fs : M st (list Z * Z) :=
  modify (set_exception_seen false) ;;;
  f <- call ped_file_system_open ;;
  modify (set_fs (is_some f)) ;;;
  match f with
  | None => fail
  | Some f =>
      modify (log EvFsOpen) ;;;
      seen <- gets exception_seen ;;
      require (negb seen) ;;;
      match fs_type_name f with
      | None => fail
      | Some fs_name =>
          require (length fs_name <? 8)%nat ;;;
          require (beq fs_name (bs "fat32") || beq fs_name (bs "fat16")) ;;;
          ret (fs_name, fs_length f)
      end
  end.

(** In [run]: a FAT32 backup boot sector equal to the main one. *)
Definition run_check_backup (dev : PedDevice) (before : list Z) (is_fat32 : bool) : M st (list Z) :=
  if negb is_fat32 then ret [] else
  let old_backup_sector := get_le16 before FAT32_BPB_BACKUP_BOOT in
  require (negb (old_backup_sector =? 0)) ;;;
  require (negb (get_le16 before 14 <=? old_backup_sector)) ;;;
  require (negb (dev_length dev <=? old_backup_sector)) ;;;
  b <- call (ped_geometry_read old_backup_sector) ;;
  match b with
  | None => fail
  | Some backup_before =>
      require (validate_boot_sector backup_before) ;;;
      require (beq before backup_before) ;;;
      ret backup_before
  end.

(** In [run]: the resize, with the one allowed answer. *)
Definition run_resize (is_fat32 : bool) : M st unit :=
  modify (set_exception_seen false) ;;;
  modify (set_choice true (if is_fat32 then PED_EXCEPTION_YES else PED_EXCEPTION_NO)) ;;;
  ok <- call ped_file_system_resize ;;
  modify (log (EvResize ok)) ;;;
  seen <- gets exception_seen ;;
  modify (fun s => set_choice false (same_type_choice s) s) ;;;
  require (ok && negb seen).

(** In [run]: put the identity of the old boot sectors back. *)
Definition run_restore_identity (dev : PedDevice) (before backup_before : list Z)
    (is_fat32 : bool) (hidden_sectors : Z) : M st (list Z * list Z * Z) :=
  r <- call (ped_geometry_read 0) ;;
  match r with
  | None => fail
  | Some resized =>
      let new_backup_sector := if is_fat32 then get_le16 resized FAT32_BPB_BACKUP_BOOT else 0 in
      (if is_fat32 then
         require (negb (new_backup_sector =? 0)) ;;;
         require (negb (get_le16 resized 14 <=? new_backup_sector)) ;;;
         require (negb (dev_length dev <=? new_backup_sector))
       else ret tt) ;;;
      let merged := merge_boot_sector before resized is_fat32 hidden_sectors in
      let backup_merged :=
        if is_fat32 then merge_boot_sector backup_before resized true hidden_sectors else [] in
      modify (log (EvWrite 0)) ;;;
      ok <- call (ped_geometry_write 0 merged) ;;
      require ok ;;;
      (if is_fat32 then
         modify (log (EvWrite new_backup_sector)) ;;;
         ok <- call (ped_geometry_write new_backup_sector backup_merged) ;;
         require ok
       else ret tt) ;;;
      ok <- call ped_geometry_sync ;;
      require ok ;;;
      ret (merged, backup_merged, new_backup_sector)
  end.

(** In [run]: read back what was written. *)
Definition run_verify_boot (before backup_before merged backup_merged : list Z)
    (is_fat32 : bool) (hidden_sectors new_backup_sector : Z) : M st unit :=
  r <- call (ped_geometry_read 0) ;;
  match r with
  | None => fail
  | Some resized => require (boot_identity_matches before resized is_fat32 hidden_sectors)
  end ;;;
  if negb is_fat32 then ret tt else
  r <- call (ped_geometry_read new_backup_sector) ;;
  match r with
  | None => fail
  | Some backup_after =>
      require (beq backup_merged backup_after) ;;;
      require (boot_identity_matches backup_before backup_after true hidden_sectors) ;;;
      require (boot_geometry_matches merged backup_after)
  end.

(** In [run]: reopen the file system and compare type and length. *)
Definition run_verify_fs (dev : PedDevice) (fs_name : list Z) : M st unit :=
  call ped_file_system_close ;;;
  modify (log EvFsClose) ;;;
  modify (set_fs false) ;;;
  modify (set_exception_seen false) ;;;
  v <- call ped_file_system_open ;;
  modify (set_verified (is_some v)) ;;;
  match v with
  | None => fail
  | Some v =>
      modify (log EvFsOpen) ;;;
      seen <- gets exception_seen ;;
      require (negb seen) ;;;
      require (bool_decide (fs_type_name v = Some fs_name)) ;;;
      require (fs_length v =? dev_length dev)
  end.

(** The body of [run] between the system checks and [out:]; the value is
    [result], an early exit is [goto out] with [result = 1]. *)
Definition run_body (path : list Z) (is_block : bool) (start : Z) : M st Z :=
  dev <- run_open_device path ;;
  run_check_image is_block ;;;
  before <- run_read_boot dev ;;
  let hidden_sectors := if is_block then start else get_le32 before FAT_BPB_HIDDEN_SECTORS in
  f <- run_open_fs ;;
  let '(fs_name, fs_len) := f in
  let is_fat32 := beq fs_name (bs "fat32") in
  require (negb (dev_length dev <? fs_len)) ;;;
  if fs_len =? dev_length dev then ret 0 else
  backup_before <- run_check_backup dev before is_fat32 ;;
  run_resize is_fat32 ;;;
  m <- run_restore_identity dev before backup_before is_fat32 hidden_sectors ;;
  let '(merged, backup_merged, new_backup_sector) := m in
  run_verify_boot before backup_before merged backup_merged is_fat32 hidden_sectors
    new_backup_sector ;;;
  run_verify_fs dev fs_name ;;;
  ret 0.

(** From [out:] on. *)
Definition run_cleanup : M st unit :=
  v <- gets verified ;;
  (if (v : bool) then call ped_file_system_close ;;; modify (log EvFsClose) else ret tt) ;;;
  f <- gets fs ;;
  (if (f : bool) then call ped_file_system_close ;;; modify (log EvFsClose) else ret tt) ;;;
  t <- gets target ;;
  (if (t : bool) then call ped_geometry_destroy ;;; modify (log EvGeomDestroy) else ret tt) ;;;
  d <- gets device ;;
  match d with
  | None => ret tt
  | Some _ =>
      n <- gets (fun s => ped_device_open_count (world s)) ;;
      (if 0 <? n then call ped_device_close ;;; modify (log EvDeviceClose) else ret tt) ;;;
      call ped_device_destroy
  end.

Definition run (env : sysenv) (path : list Z) (s : st) : Z * st :=
  match sys_stat env path with
  | None => (1, s)
  | Some stt =>
      let is_block := bool_decide (st_kind stt = S_IFBLK) in
      if negb is_block && negb (bool_decide (st_kind stt = S_IFREG)) then (1, s)
      else if is_block && negb (is_linux_partition env stt) then (1, s)
      else if is_block && is_mounted env stt then (1, s)
      else
        let go start :=
          let '(r, s1) := run_body path is_block start s in
          let '(_, s2) := run_cleanup s1 in
          (default 1 r, s2) in
        if is_block then
          match read_partition_start env stt with
          | None => (1, s)
          | Some start => go start
          end
        else go 0
  end.

(** [main]: [argv] without the program name. *)
Definition fatgrow_main (env : sysenv) (argv : list (list Z)) (s : st) : Z * st :=
  match argv with
  | [path] => run env path s
  | _ => (2, s)
  end.

End WithParted.
Arguments st : clear implicits.
End Run.
