(* ===== verification/FatGrowSpec.v ===== *)
(** * pxeosfatgrow: what a run does to the disk

    The laws of libparted the program relies on ([PartedLaws]), symbolic
    execution of the phases of [run] ([untouched], [restored], [grown]) and
    the properties of [run] as a whole. *)
From S2P Require Import Prelude CLib FatGrow.
Import Boot Sysfs Run.
Local Open Scope Z_scope.
Local Open Scope list_scope.
Local Open Scope cmonad_scope.

Module BootSpec.

Lemma get_le32_bytes p off :
  bytes_ok p ->
  get_le32 p off = at_ p off + at_ p (off + 1) * 2 ^ 8 + at_ p (off + 2) * 2 ^ 16
                   + at_ p (off + 3) * 2 ^ 24.
Proof.
  intros Hp. unfold get_le32.
  pose proof (at_byte p off Hp) as H0. pose proof (at_byte p (off + 1) Hp) as H1.
  pose proof (at_byte p (off + 2) Hp) as H2. pose proof (at_byte p (off + 3) Hp) as H3.
  unfold is_byte in *. rewrite !Z.shiftl_mul_pow2 by lia.
  rewrite (lor_disjoint_add (at_ p off) _ 8) by lia.
  rewrite (lor_disjoint_add _ _ 16) by lia. rewrite (lor_disjoint_add _ _ 24) by lia.
  apply wrap_small. lia.
Qed.

(** C5: The sector [merge_boot_sector] builds passes both checks [run] makes
    after writing it: it matches the identity of the original sector, two
    sectors merged with the same resized one agree in their geometry, and its
    hidden-sector field reads back the value that was put in. *)
Theorem merge_passes_checks o o' r is_fat32 h :
  sector o -> sector o' -> sector r -> bytes_ok o -> bytes_ok r -> 0 <= h < 2 ^ 32 ->
  boot_identity_matches o (merge_boot_sector o r is_fat32 h) is_fat32 h = true /\
  boot_geometry_matches (merge_boot_sector o r true h) (merge_boot_sector o' r true h) = true /\
  get_le32 (merge_boot_sector o r is_fat32 h) FAT_BPB_HIDDEN_SECTORS = h.
Proof.
  intros Ho Ho' Hr Bo Br Hh. split_and!.
  - apply identity_iff; [done|by apply length_merge|]. intros i Hi Hid.
    rewrite at_merge by done. unfold identity_byte in Hid. by destruct (geometry_byte is_fat32 i).
  - pose proof (length_merge o r true h Ho Hr) as L1. pose proof (length_merge o' r true h Ho' Hr) as L2.
    unfold boot_geometry_matches, FAT_BPB_BYTES_PER_SECTOR, FAT_BPB_HIDDEN_SECTORS,
      FAT32_BPB_FAT_SIZE, sector in *. rewrite !andb_true_iff.
    split_and!; apply same_range_iff; try lia; intros i Hi; rewrite !at_merge by done;
      repeat case_match; try done; unfold geometry_byte, hidden_byte in *; exfalso; blia.
  - rewrite get_le32_bytes.
    + unfold FAT_BPB_HIDDEN_SECTORS. rewrite !at_merge by done.
      destruct is_fat32; simpl; unfold u8, wrap; rewrite ?Z.shiftr_div_pow2, ?Z.shiftr_0_r by lia;
        Z.div_mod_to_equations; lia.
    + apply Forall_lookup. intros i b Hb. assert (Hi : (i < 512)%nat).
      { apply lookup_lt_Some in Hb. by rewrite (length_merge o r is_fat32 h Ho Hr) in Hb. }
      rewrite at_lookup in Hb by (rewrite (length_merge o r is_fat32 h Ho Hr); lia).
      injection Hb as <-. rewrite at_merge by done. repeat case_match; auto with cbytes cint.
Qed.

Lemma merge_passes_checks_witness :
  boot_identity_matches (replicate 512 1) (merge_boot_sector (replicate 512 1) (replicate 512 2) true 2048)
    true 2048 = true /\
  get_le32 (merge_boot_sector (replicate 512 1) (replicate 512 2) true 2048) 28 = 2048.
Proof.
  destruct (merge_passes_checks (replicate 512 1) (replicate 512 3) (replicate 512 2) true 2048)
    as (H1 & _ & H2);
    [reflexivity|reflexivity|reflexivity
    |apply Forall_replicate; unfold is_byte; lia|apply Forall_replicate; unfold is_byte; lia|lia|].
  split; [exact H1|exact H2].
Defined.

End BootSpec.

Module SysfsSpec.

Lemma scan_llu_print n rest :
  0 <= n <= UINT64_MAX -> no_digit_head rest ->
  scan_llu (print_dec n ++ rest) = Some (n, rest) /\
  scan_llu (32 :: print_dec n ++ rest) = Some (n, rest).
Proof.
  intros Hn Hr. pose proof (strtoull_print_app n rest Hn Hr) as E.
  destruct (print_dec_cons n) as (c & s & Es & Hc). rewrite Es in *. simpl app in *.
  unfold scan_llu. rewrite strtoull_space, !E by done.
  assert (N : forall l : list Z, beq rest (l ++ c :: s ++ rest) = false).
  { intros l. apply beq_false. intros H. apply (f_equal length) in H.
    rewrite length_app in H. simpl in H. rewrite length_app in H. lia. }
  pose proof (N []) as N0. pose proof (N [32]) as N1. simpl app in N0, N1. by rewrite N0, N1.
Qed.

Lemma scan_u_print n rest :
  0 <= n < 2 ^ 32 -> no_digit_head rest ->
  scan_u (print_dec n ++ rest) = Some (n, rest) /\
  scan_u (32 :: print_dec n ++ rest) = Some (n, rest).
Proof.
  intros Hn Hr. unfold scan_u.
  destruct (scan_llu_print n rest) as [-> ->]; [unfold UINT64_MAX; lia|done|].
  unfold u32. by rewrite wrap_small.
Qed.

(** The text of one line of /proc/self/mountinfo up to the device number. *)
Definition mount_line (id parent mj mn : Z) (tail : list Z) : list Z :=
  print_dec id ++ 32 :: print_dec parent ++ 32 :: print_dec mj ++ 58 :: print_dec mn ++ 32 :: tail.

Lemma scan_mount_line id parent mj mn tail :
  0 <= id < 2 ^ 32 -> 0 <= parent < 2 ^ 32 -> 0 <= mj < 2 ^ 32 -> 0 <= mn < 2 ^ 32 ->
  scan_mount_dev (mount_line id parent mj mn tail) = Some (mj, mn).
Proof.
  intros H1 H2 H3 H4. unfold scan_mount_dev, mount_line.
  rewrite (fun r Hr => proj1 (scan_u_print id r H1 Hr)) by done.
  rewrite (fun r Hr => proj2 (scan_u_print parent r H2 Hr)) by done.
  rewrite (fun r Hr => proj2 (scan_u_print mj r H3 Hr)) by done. simpl.
  by rewrite (fun r Hr => proj1 (scan_u_print mn r H4 Hr)) by done.
Qed.

(** After a newline [fgets] starts afresh. *)
Lemma fgets_chunks_newline n a b : forall room cur, exists l,
  fgets_chunks n room cur (a ++ 10 :: b) = l ++ fgets_chunks n n [] b.
Proof.
  induction a as [|c a IH]; intros room cur; simpl.
  - by exists [rev (10 :: cur)].
  - destruct (c =? 10); [destruct (IH n []) as [l ->]; by eexists (_ :: l)|].
    destruct room as [|[|r]]; [destruct (IH n []) as [l ->]; by eexists (_ :: l)..|apply IH].
Qed.

Lemma fgets_chunks_line n line post : forall room cur,
  Forall (fun c => c <> 10) line -> (length line < room)%nat ->
  fgets_chunks n room cur (line ++ 10 :: post) =
  (rev cur ++ line ++ [10]) :: fgets_chunks n n [] post.
Proof.
  induction line as [|c line IH]; intros room cur Hn Hr; simpl; [done|].
  inversion Hn; subst. rewrite (proj2 (Z.eqb_neq c 10)) by done. simpl in Hr.
  destruct room as [|[|r]]; [lia|lia|]. rewrite IH; [|done|lia]. simpl. by rewrite <- app_assoc.
Qed.

Lemma print_dec_no_newline n : Forall (fun c => c <> 10) (print_dec n).
Proof.
  eapply Forall_impl; [apply print_dec_digits|]. intros c Hc. apply is_digit_iff in Hc. lia.
Qed.

(** C6: [is_mounted] never misses a mount: when any complete line of
    /proc/self/mountinfo of less than 4095 bytes carries the device number of
    the partition, the partition counts as mounted, so [run] refuses it
    without touching anything. *)
Theorem is_mounted_complete env st0 pre id parent mj mn tail post :
  sys_fopen env (bs "/proc/self/mountinfo") =
    Some (pre ++ mount_line id parent mj mn tail ++ 10 :: post) ->
  (pre = [] \/ exists p, pre = p ++ [10]) ->
  0 <= id < 2 ^ 32 -> 0 <= parent < 2 ^ 32 -> 0 <= mj < 2 ^ 32 -> 0 <= mn < 2 ^ 32 ->
  Forall (fun c => c <> 10) tail -> (length (mount_line id parent mj mn tail) < 4095)%nat ->
  u32 (st_major st0) = mj -> u32 (st_minor st0) = mn ->
  is_mounted env st0 = true.
Proof.
  intros Hf Hpre Hid Hpa Hmj Hmn Ht Hlen E1 E2. unfold is_mounted. rewrite Hf.
  set (line := mount_line id parent mj mn tail) in *.
  assert (Hnl : Forall (fun c => c <> 10) line).
  { unfold line, mount_line. repeat (apply Forall_app_2 || apply Forall_cons_2 || lia);
      auto using print_dec_no_newline. }
  assert (Hin : exists l l', fgets_chunks 4095 4095 [] (pre ++ line ++ 10 :: post) =
    l ++ (line ++ [10]) :: l').
  { destruct Hpre as [->|[q ->]].
    - exists []. eexists. simpl app at 1. by apply fgets_chunks_line.
    - rewrite <- (app_assoc q). simpl. destruct (fgets_chunks_newline 4095 q
        (line ++ 10 :: post) 4095 []) as [l ->]. exists l. eexists. f_equal.
      by apply fgets_chunks_line. }
  destruct Hin as (l & l' & ->). rewrite existsb_app. simpl.
  assert (Hs : scan_mount_dev (line ++ [10]) = Some (mj, mn)).
  { unfold line, mount_line. rewrite <- !app_assoc. simpl. rewrite <- !app_assoc. simpl.
    rewrite <- !app_assoc. simpl. rewrite <- !app_assoc. simpl. by apply scan_mount_line. }
  rewrite Hs, E1, E2, !Z.eqb_refl. simpl. by rewrite orb_true_r.
Qed.

Lemma is_mounted_complete_witness :
  is_mounted {| sys_stat _ := None;
      sys_fopen _ := Some (mount_line 29 1 8 1 (bs "/ / rw") ++ 10 :: mount_line 30 29 8 2 (bs "/ /x rw") ++ [10]);
      sys_access _ := false |}
    {| st_kind := S_IFBLK; st_major := 8; st_minor := 2 |} = true.
Proof.
  apply (is_mounted_complete _ _ (mount_line 29 1 8 1 (bs "/ / rw") ++ [10]) 30 29 8 2
    (bs "/ /x rw") []); try lia; try (vm_compute; reflexivity).
  - right. eexists. reflexivity.
  - vm_compute. repeat constructor; discriminate.
  - vm_compute. lia.
Defined.

End SysfsSpec.

Module RunSpec.

Section WithParted.
Context {W : Type} `{Parted W}.

Local Abbreviation st := (Run.st W).
Implicit Types s : st.

(** ** What libparted promises *)

(** The sectors of the device as the library reads them.  Reading, opening,
    closing and synchronising leave them alone; a successful write changes one
    sector.  Nothing is assumed of [ped_file_system_resize]. *)
Class PartedLaws := {
  content : W -> Z -> list Z;
  read_law n w : pall (fun r w' => (forall k, content w' k = content w k) /\
    (forall b, r = Some b -> b = content w n /\ sector b)) (ped_geometry_read n w);
  write_law n b w : pall (fun ok w' => ok = true ->
    forall k, content w' k = if decide (k = n) then b else content w k) (ped_geometry_write n b w);
  device_get_law p w : pall (fun _ w' => forall k, content w' k = content w k) (ped_device_get p w);
  device_open_law w : pall (fun _ w' => forall k, content w' k = content w k) (ped_device_open w);
  device_close_law w : pall (fun _ w' => forall k, content w' k = content w k) (ped_device_close w);
  device_destroy_law w :
    pall (fun _ w' => forall k, content w' k = content w k) (ped_device_destroy w);
  disk_new_law w : pall (fun _ w' => forall k, content w' k = content w k) (ped_disk_new w);
  disk_destroy_law w : pall (fun _ w' => forall k, content w' k = content w k) (ped_disk_destroy w);
  geometry_new_law a b w :
    pall (fun _ w' => forall k, content w' k = content w k) (ped_geometry_new a b w);
  geometry_sync_law w :
    pall (fun _ w' => forall k, content w' k = content w k) (ped_geometry_sync w);
  geometry_destroy_law w :
    pall (fun _ w' => forall k, content w' k = content w k) (ped_geometry_destroy w);
  fs_open_law w : pall (fun _ w' => forall k, content w' k = content w k) (ped_file_system_open w);
  fs_close_law w : pall (fun _ w' => forall k, content w' k = content w k) (ped_file_system_close w)
}.

Definition init (w : W) : st := {| exception_seen := false; allow_same_type_choice := false;
  same_type_choice := PED_EXCEPTION_CANCEL; world := w; device := None; target := false;
  fs := false; verified := false; trace := [] |}.

(** ** Library calls change only the world and [exception_seen] *)

Lemma pall_True {R} (c : pcall W R) : pall (fun _ _ => True) c.
Proof. induction c; simpl; auto. Qed.

(** The one question [run] answers itself. *)
Definition same_type_question (e : PedException) : Prop :=
  exc_type e = PED_EXCEPTION_INFORMATION /\ exc_options e = PED_EXCEPTION_YES_NO_CANCEL.

Lemma cancel_exception_cases e s :
  (allow_same_type_choice s = true /\ same_type_question e /\
   cancel_exception e s = (same_type_choice s, s)) \/
  cancel_exception e s = (PED_EXCEPTION_CANCEL, set_exception_seen true s).
Proof.
  unfold cancel_exception, same_type_question. case_match; [left|by right]. breflect. naive_solver.
Qed.

Lemma run_pcall_spec {R} (P : R -> W -> Prop) (c : pcall W R) s :
  pall P c -> exists r w b, run_pcall c s = (r, set_world w (set_exception_seen b s)) /\ P r w.
Proof.
  revert s. induction c as [r w|e k IH]; intros s Hc; simpl in *.
  - exists r, w, (exception_seen s). by destruct s.
  - destruct (cancel_exception_cases e s) as [(_ & _ & ->) | -> ].
    + by apply IH.
    + destruct (IH PED_EXCEPTION_CANCEL (set_exception_seen true s)) as (r & w & b & E & HP);
        [done|]. exists r, w, b. by rewrite E.
Qed.

Lemma wp_call {R} (P : R -> W -> Prop) (f : W -> pcall W R) Q E s :
  pall P (f (world s)) ->
  (forall r w b, P r w -> Q r (set_world w (set_exception_seen b s))) ->
  wp (call f) Q E s.
Proof.
  intros Hc HQ. unfold wp, call.
  destruct (run_pcall_spec P (f (world s)) s Hc) as (r & w & b & -> & HP). auto.
Qed.

(** The exceptions a call raises under the handler, in order. *)
Fixpoint raised {R} (c : pcall W R) (s : st) : list PedException :=
  match c with
  | PRet _ _ => []
  | PThrow e k => let '(o, s') := cancel_exception e s in e :: raised (k o) s'
  end.

Lemma run_pcall_unseen {R} (c : pcall W R) s :
  exception_seen (snd (run_pcall c s)) = false ->
  exception_seen s = false /\ Forall same_type_question (raised c s) /\
  (raised c s <> [] -> allow_same_type_choice s = true).
Proof.
  revert s. induction c as [r w|e k IH]; intros s Hs; simpl in *; [done|].
  destruct (cancel_exception_cases e s) as [(? & ? & E)|E]; rewrite E in *.
  - apply IH in Hs as (? & ? & ?). split_and!; [done|by constructor|done].
  - apply IH in Hs as (Hf & _). done.
Qed.

(** ** Symbolic execution of [run] *)

Context {L : PartedLaws}.

Create HintDb parted.
#[local] Hint Resolve read_law write_law device_get_law device_open_law device_close_law
  device_destroy_law disk_new_law disk_destroy_law geometry_new_law geometry_sync_law
  geometry_destroy_law fs_open_law fs_close_law : parted.

Ltac fat_step :=
  first
    [ wp_step
    | lazymatch goal with
      | |- wp (call _) _ _ _ => eapply wp_call; [solve [eauto with parted]|]; simpl; intros
      | |- wp (match ?x with _ => _ end) _ _ _ => destruct x eqn:?
      end ].

Ltac fat_go := repeat fat_step.

(** The events that touch the disk. *)
Definition disk_event (e : event) : bool :=
  match e with EvResize _ | EvWrite _ => true | _ => false end.

Definition disk_events (s : st) : list event := List.filter disk_event (trace s).

Lemma disk_events_log e s :
  disk_events (log e s) = disk_events s ++ (if disk_event e then [e] else []).
Proof. unfold disk_events. simpl. rewrite List.filter_app. simpl. by destruct (disk_event e). Qed.

(** Nothing has touched the disk yet. *)
Definition untouched (w : W) (s : st) : Prop :=
  (forall k, content (world s) k = content w k) /\ disk_events s = [].

Ltac untouched_solve :=
  repeat match goal with
  | |- _ /\ _ => split
  | |- untouched _ (log _ _) => unfold untouched; rewrite disk_events_log
  | H : untouched _ _ |- _ => destruct H
  | H : _ /\ _ |- _ => destruct H
  | |- untouched _ _ => unfold untouched
  end; simpl in *; unfold disk_events in *; simpl in *;
  rewrite ?List.filter_app, ?app_nil_r in *; simpl in *; rewrite ?app_nil_r in *;
  intros; try congruence; eauto.

Lemma open_device_untouched w p s :
  untouched w s -> wp (run_open_device p) (fun _ => untouched w) (untouched w) s.
Proof. intros. unfold run_open_device. fat_go; untouched_solve. Qed.

Lemma check_image_untouched w b s :
  untouched w s -> wp (run_check_image b) (fun _ => untouched w) (untouched w) s.
Proof. intros. unfold run_check_image. fat_go; untouched_solve. Qed.

Lemma read_boot_untouched w dev s :
  untouched w s ->
  wp (run_read_boot dev)
     (fun before s' => untouched w s' /\ before = content w 0 /\ sector before)
     (untouched w) s.
Proof.
  intros. unfold run_read_boot. fat_go; try untouched_solve.
  all: match goal with H : forall b, Some _ = Some b -> _ |- _ => destruct (H _ eq_refl) end;
    untouched_solve.
Qed.

Lemma open_fs_untouched w s :
  untouched w s ->
  wp run_open_fs
     (fun f s' => untouched w s' /\ (fst f = bs "fat32" \/ fst f = bs "fat16"))
     (untouched w) s.
Proof.
  intros. unfold run_open_fs. fat_go; breflect;
  repeat match goal with H : _ \/ _ |- _ => destruct H end; breflect; subst; untouched_solve.
Qed.

Lemma check_backup_untouched w dev before f s :
  untouched w s -> before = content w 0 ->
  wp (run_check_backup dev before f)
     (fun bb s' => untouched w s' /\ (f = true -> bb = before)) (untouched w) s.
Proof.
  intros. unfold run_check_backup. fat_go; breflect; untouched_solve.
Qed.

(** The disk accesses a run may have made: none, the resize, and after a
    successful resize the boot sector and one reserved backup sector. *)
Definition disk_protocol (w : W) (s : st) : Prop :=
  untouched w s \/
  (exists ok, disk_events s = [EvResize ok]) \/
  disk_events s = [EvResize true; EvWrite 0] \/
  (exists nb, 0 < nb < 65536 /\ disk_events s = [EvResize true; EvWrite 0; EvWrite nb]).

Ltac trace_solve :=
  repeat match goal with H : _ /\ _ |- _ => destruct H end;
  unfold disk_events in *; simpl in *; rewrite ?List.filter_app in *; simpl in *;
  repeat match goal with H : List.filter _ _ = _ |- _ => rewrite H in * end;
  rewrite <- ?app_assoc, ?app_nil_r; simpl; eauto 10.

Lemma resize_spec w f s :
  untouched w s ->
  wp (run_resize f) (fun _ s' => disk_events s' = [EvResize true]) (disk_protocol w) s.
Proof.
  intros [_ Hd]. unfold run_resize, disk_protocol. repeat wp_step.
  eapply (wp_call (fun _ _ => True)); [apply pall_True|]. intros ok w' b _. fat_go.
  - breflect. subst. trace_solve.
  - trace_solve.
Qed.

(** The outcome of restoring the identity, from the sectors the resize left. *)
Record restored (s s' : st) (dev : PedDevice) (before bb : list Z) (f : bool) (h : Z)
    (m bm : list Z) (nb : Z) : Prop := {
  res_sector : sector (content (world s) 0);
  res_merged : m = merge_boot_sector before (content (world s) 0) f h;
  res_bmerged : f = true -> bm = merge_boot_sector bb (content (world s) 0) true h;
  res_backup : f = true ->
    nb = get_le16 (content (world s) 0) FAT32_BPB_BACKUP_BOOT /\
    nb <> 0 /\ nb < get_le16 (content (world s) 0) 14 /\ nb < dev_length dev;
  res_content k : content (world s') k =
    if f && (k =? nb) then bm else if k =? 0 then m else content (world s) k;
  res_events : disk_events s' =
    disk_events s ++ EvWrite 0 :: (if f then [EvWrite nb] else [])
}.

Lemma restore_spec w dev before bb f h s :
  disk_events s = [EvResize true] ->
  wp (run_restore_identity dev before bb f h)
     (fun r s' => restored s s' dev before bb f h (fst (fst r)) (snd (fst r)) (snd r))
     (disk_protocol w) s.
Proof.
  intros Hd. unfold run_restore_identity, disk_protocol.
  pose proof (fun z => u16_range z) as Hu.
  destruct f; fat_go; try discriminate; try (right; left; trace_solve; fail);
    try (right; right; left; trace_solve; fail).
  all: repeat match goal with
    | H : _ /\ _ |- _ => destruct H
    | H : forall b, Some _ = Some b -> _ |- _ => destruct (H _ eq_refl) as [-> ?]; clear H
    | H : ?r = true -> _, H' : ?r = true |- _ => specialize (H H') end; breflect.
  all: try (right; right; right; eexists; split; [|trace_solve; fail];
    unfold get_le16 in *; match goal with |- _ < u16 ?z < _ => specialize (Hu z); lia end).
  all: constructor; simpl; try done; [|trace_solve].
  all: intros k; repeat match goal with H : forall k, content _ k = _ |- _ => rewrite H end;
      simpl; repeat case_decide; subst; repeat case_match; breflect; try lia; done.
Qed.

Ltac content_rw :=
  intros; simpl;
  repeat match goal with H : forall k, content _ k = _ |- _ => rewrite H end; done.

Lemma verify_boot_spec before bb m bm f h nb s :
  wp (run_verify_boot before bb m bm f h nb)
     (fun _ s' => (forall k, content (world s') k = content (world s) k) /\
        disk_events s' = disk_events s /\
        boot_identity_matches before (content (world s) 0) f h = true /\
        (f = true -> content (world s) nb = bm /\
           boot_identity_matches bb bm true h = true /\ boot_geometry_matches m bm = true))
     (fun s' => disk_events s' = disk_events s) s.
Proof.
  unfold run_verify_boot. destruct f; fat_go; try discriminate; try reflexivity.
  all: repeat match goal with
    | H : _ /\ _ |- _ => destruct H
    | H : forall b, Some _ = Some b -> _ |- _ => destruct (H _ eq_refl) as [-> ?]; clear H
    end; breflect; subst.
  - split_and!; [content_rw|done|done|]. intros _. split_and!; [content_rw|done|done].
  - split_and!; [content_rw|done|done|done].
Qed.

Lemma verify_fs_spec dev name s :
  wp (run_verify_fs dev name)
     (fun _ s' => (forall k, content (world s') k = content (world s) k) /\
        disk_events s' = disk_events s)
     (fun s' => disk_events s' = disk_events s) s.
Proof.
  unfold run_verify_fs. fat_go; split_and?; first [content_rw | trace_solve; fail].
Qed.

(** The final state of a successful growth, from the sectors [c] the resize
    left behind. *)
Definition grown (w : W) (len : Z) (hidden : list Z -> Z) (s : st) : Prop :=
  exists (c : Z -> list Z) (is_fat32 : bool) (nb : Z),
    let before := content w 0 in
    let h := hidden before in
    sector before /\ sector (c 0) /\
    content (world s) 0 = merge_boot_sector before (c 0) is_fat32 h /\
    boot_identity_matches before (content (world s) 0) is_fat32 h = true /\
    (is_fat32 = true ->
       0 < nb < len /\ nb < get_le16 (c 0) 14 /\
       content (world s) nb = content (world s) 0 /\
       boot_geometry_matches (content (world s) 0) (content (world s) nb) = true) /\
    (forall k, k <> 0 -> (is_fat32 = true -> k <> nb) -> content (world s) k = c k) /\
    disk_events s =
      [EvResize true; EvWrite 0] ++ (if is_fat32 then [EvWrite nb] else []).

Lemma untouched_protocol w s : untouched w s -> disk_protocol w s.
Proof. by left. Qed.

Lemma restored_protocol w s s' dev before bb f h m bm nb :
  disk_events s = [EvResize true] -> restored s s' dev before bb f h m bm nb -> disk_protocol w s'.
Proof.
  intros Hd [R1 R2 R3 R4 R5 R6]. unfold disk_protocol. rewrite R6, Hd. destruct f; simpl; [|auto].
  destruct (R4 eq_refl) as (E & Hnz & _). do 3 right. exists nb. split; [|done].
  unfold get_le16 in E. pose proof (u16_range (Z.lor (at_ (content (world s) 0) 50)
    (Z.shiftl (at_ (content (world s) 0) (50 + 1)) 8))).
  unfold FAT32_BPB_BACKUP_BOOT in E. lia.
Qed.

Lemma restored_grown w s s' dev before bb f h m bm nb hidden :
  before = content w 0 -> sector before -> (f = true -> bb = before) -> h = hidden before ->
  disk_events s = [EvResize true] -> restored s s' dev before bb f h m bm nb ->
  boot_identity_matches before (content (world s') 0) f h = true ->
  (f = true -> boot_geometry_matches m bm = true) ->
  grown w (dev_length dev) hidden s'.
Proof.
  intros -> Hs Hbb -> Hd R Hid Hg. destruct R as [R1 R2 R3 R4 R5 R6].
  exists (content (world s)), f, nb. cbv zeta.
  assert (H0 : content (world s') 0 = m).
  { rewrite R5. destruct f; [|done]. destruct (R4 eq_refl) as (_ & Hnz & _).
    by rewrite (proj2 (Z.eqb_neq 0 nb)) by lia. }
  split_and!; [done|done|congruence|done| | |].
  - intros ->. destruct (R4 eq_refl) as (E & Hnz & Hr & Hl).
    assert (Hnb : content (world s') nb = bm).
    { rewrite R5. simpl. by rewrite Z.eqb_refl. }
    assert (0 <= nb).
    { rewrite E. unfold get_le16. apply u16_range. }
    rewrite Hnb, H0. split_and!; [lia|lia|lia| |auto].
    rewrite R2, R3, Hbb by done. done.
  - intros k Hk Hnb. rewrite R5. destruct (k =? 0) eqn:E0; breflect; [done|].
    destruct f; [|done]. simpl. destruct (k =? nb) eqn:En; breflect; [|done]. by destruct Hnb.
  - by rewrite R6, Hd.
Qed.

(** [grown] and the protocol depend only on the sectors and the events. *)
Lemma grown_ext w len hd s s' :
  (forall k, content (world s') k = content (world s) k) -> disk_events s' = disk_events s ->
  grown w len hd s -> grown w len hd s'.
Proof.
  intros Hc He (c & f & nb & Hg). exists c, f, nb. cbv zeta in *. rewrite He, !Hc.
  destruct Hg as (? & ? & ? & ? & ? & Hk & ?). split_and!; try done.
  intros k ? ?. rewrite Hc. auto.
Qed.

Lemma protocol_ext w s s' :
  disk_events s' = disk_events s -> disk_events s <> [] -> disk_protocol w s -> disk_protocol w s'.
Proof.
  unfold disk_protocol. intros -> Hne [[_ Hu]|Hp]; [done|by right].
Qed.

Lemma restored_events s s' dev before bb f h m bm nb :
  restored s s' dev before bb f h m bm nb -> disk_events s' <> [].
Proof. intros [_ _ _ _ _ ->]. by destruct (disk_events s). Qed.

(** What [run_body] and so [run] can end with. *)
Definition hidden_of (is_block : bool) (start : Z) (before : list Z) : Z :=
  if is_block then start else get_le32 before FAT_BPB_HIDDEN_SECTORS.

Definition succeeded (w : W) (is_block : bool) (start : Z) (s : st) : Prop :=
  untouched w s \/ exists len, grown w len (hidden_of is_block start) s.

Lemma run_body_spec w path is_block start s :
  untouched w s ->
  wp (run_body path is_block start)
     (fun r s' => r = 0 /\ disk_protocol w s' /\ succeeded w is_block start s')
     (disk_protocol w) s.
Proof.
  intros Hs. unfold run_body. pose proof (untouched_protocol w) as HP.
  wp_step. eapply wp_mono; [| |by apply (open_device_untouched w)]; [|eauto]. intros dev s1 U1.
  wp_step. eapply wp_mono; [| |by apply (check_image_untouched w)]; [|eauto]. intros ? s2 U2.
  wp_step. eapply wp_mono; [| |by apply (read_boot_untouched w)]; [|eauto].
  intros before s3 (U3 & Hb & Hsec).
  wp_step. eapply wp_mono; [| |by apply (open_fs_untouched w)]; [|eauto].
  intros [name len] s4 (U4 & Hname). simpl in Hname.
  wp_step. wp_step; [|eauto]. wp_step; [wp_step; unfold succeeded; eauto|].
  wp_step. eapply wp_mono; [| |by apply (check_backup_untouched w)]; [|eauto].
  intros bb s5 (U5 & Hbb).
  wp_step. eapply wp_mono; [| |by apply (resize_spec w)]; [|eauto]. intros ? s6 U6.
  wp_step. eapply wp_mono; [| |by apply (restore_spec w)]; [|eauto].
  intros [[m bm] nb] s7 R. simpl in R. pose proof (restored_protocol w _ _ _ _ _ _ _ _ _ _ U6 R).
  pose proof (restored_events _ _ _ _ _ _ _ _ _ _ R).
  wp_step. eapply wp_mono; [| |by apply verify_boot_spec];
    [|intros ? E'; eapply protocol_ext; [exact E'|done..]].
  intros ? s8 (C8 & E8 & I8 & B8).
  wp_step. eapply wp_mono; [| |by apply verify_fs_spec];
    [|intros ? E'; cbv beta in E'; eapply protocol_ext; [|done|done]; congruence].
  intros ? s9 (C9 & E9). wp_step. split_and!; [done| |].
  - eapply protocol_ext; [|done|done]. congruence.
  - right. exists (dev_length dev). eapply (grown_ext _ _ _ s7); [content_rw|congruence|].
    eapply (restored_grown w s6 s7); [done|done|exact Hbb|reflexivity|done|exact R|done|].
    intros Hf. by destruct (B8 Hf) as (_ & _ & ?).
Qed.

Lemma cleanup_spec s :
  wp run_cleanup
     (fun _ s' => (forall k, content (world s') k = content (world s) k) /\
        disk_events s' = disk_events s) (fun _ => False) s.
Proof.
  unfold run_cleanup. repeat (fat_go; simpl in *); split_and?; first [content_rw | trace_solve; fail].
Qed.

Lemma protocol_keep w s s' :
  (forall k, content (world s') k = content (world s) k) -> disk_events s' = disk_events s ->
  disk_protocol w s -> disk_protocol w s'.
Proof.
  intros Hc He [[Hu Hd]|Hp]; [left|right; by rewrite He].
  split; [|congruence]. intros k. by rewrite Hc.
Qed.

(** [run] is its body and then its cleanup, or refuses up front. *)
Lemma run_cases env path s r s' (P : Prop) :
  run env path s = (r, s') ->
  (r = 1 -> s' = s -> P) ->
  (forall is_block start r1 s1 s2 u, run_body path is_block start s = (r1, s1) ->
     run_cleanup s1 = (u, s2) -> r = default 1 r1 -> s' = s2 -> P) -> P.
Proof.
  intros Hr H1 H2. unfold run in Hr.
  destruct (sys_stat env path) as [stt|]; [|simplify_eq; auto].
  repeat (case_match; simplify_eq; auto).
  all: eauto.
Qed.

Lemma run_spec w env path r s' :
  run env path (init w) = (r, s') ->
  disk_protocol w s' /\
  (r = 0 -> exists is_block start, succeeded w is_block start s').
Proof.
  intros Hr. assert (U0 : untouched w (init w)) by done.
  eapply run_cases; [exact Hr| |].
  { intros -> ->. split; [by left|done]. }
  intros ib start r1 s1 s2 u Hb Hc -> ->.
  pose proof (run_body_spec w path ib start (init w) U0) as Hw. unfold wp in Hw. rewrite Hb in Hw.
  pose proof (cleanup_spec s1) as Hcl. unfold wp in Hcl. rewrite Hc in Hcl.
  destruct u; [|done]. destruct Hcl as [Hk He].
  destruct r1 as [r1|]; simpl; [destruct Hw as (-> & Hp & Hs)|]; (split; [by eapply protocol_keep|]);
    intros E; [|done]. exists ib, start. destruct Hs as [[Hu Hd]|[len Hg]].
  - left. split; [|congruence]. intros k. by rewrite Hk.
  - right. exists len. by eapply grown_ext.
Qed.

(** ** Resources *)

Definition count_ev (e : event) (s : st) : nat :=
  length (List.filter (fun x => bool_decide (x = e)) (trace s)).

(** Everything opened and not yet closed is recorded in a local of [run]. *)
Definition handles (s : st) : Prop :=
  count_ev EvFsOpen s = (count_ev EvFsClose s + Nat.b2n (fs s) + Nat.b2n (verified s))%nat /\
  count_ev EvGeomNew s = (count_ev EvGeomDestroy s + Nat.b2n (target s))%nat /\
  count_ev EvDiskNew s = count_ev EvDiskDestroy s.

Ltac handle_step :=
  first
    [ wp_step
    | lazymatch goal with
      | |- wp (call _) _ _ _ =>
          eapply (wp_call (fun _ _ => True)); [apply pall_True|]; intros ? ? ? _; cbv beta
      | |- wp (let '(_, _) := ?x in _) _ _ _ => destruct x
      | |- wp (match ?x with _ => _ end) _ _ _ => destruct x
      end ].

Definition locals (s : st) : bool * bool * bool := (target s, fs s, verified s).

Definition held (l : bool * bool * bool) (s : st) : Prop := handles s /\ locals s = l.

Lemma held_handles l s : held l s -> handles s.
Proof. by intros [? _]. Qed.

Ltac handle_solve :=
  repeat match goal with H : held _ _ |- _ => destruct H end;
  unfold held, handles, count_ev, locals in *; simpl in *;
  rewrite ?List.filter_app, ?length_app in *; simpl in *; simplify_eq;
  repeat match goal with H : _ = true |- _ => rewrite H in * | H : _ = false |- _ => rewrite H in * end;
  simpl in *;
  split_and?; try done; try lia.

Lemma open_device_handles p l s :
  held l s -> wp (run_open_device p) (fun _ => held l) handles s.
Proof. intros. unfold run_open_device. repeat handle_step; handle_solve. Qed.

Lemma check_image_handles b l s :
  held l s -> wp (run_check_image b) (fun _ => held l) handles s.
Proof. intros. unfold run_check_image. repeat handle_step; handle_solve. Qed.

Lemma read_boot_handles dev s :
  held (false, false, false) s ->
  wp (run_read_boot dev) (fun _ => held (true, false, false)) handles s.
Proof. intros. unfold run_read_boot. repeat handle_step; subst; handle_solve. Qed.

Lemma open_fs_handles s :
  held (true, false, false) s -> wp run_open_fs (fun _ => held (true, true, false)) handles s.
Proof. intros. unfold run_open_fs. repeat handle_step; handle_solve. Qed.

Lemma check_backup_handles dev before f l s :
  held l s -> wp (run_check_backup dev before f) (fun _ => held l) handles s.
Proof. intros. unfold run_check_backup. repeat handle_step; handle_solve. Qed.

Lemma resize_handles f l s : held l s -> wp (run_resize f) (fun _ => held l) handles s.
Proof. intros. unfold run_resize. repeat handle_step; handle_solve. Qed.

Lemma restore_handles dev before bb f h l s :
  held l s -> wp (run_restore_identity dev before bb f h) (fun _ => held l) handles s.
Proof. intros. unfold run_restore_identity. repeat handle_step; handle_solve. Qed.

Lemma verify_boot_handles before bb m bm f h nb l s :
  held l s -> wp (run_verify_boot before bb m bm f h nb) (fun _ => held l) handles s.
Proof. intros. unfold run_verify_boot. repeat handle_step; handle_solve. Qed.

Lemma verify_fs_handles dev name s :
  held (true, true, false) s -> wp (run_verify_fs dev name) (fun _ => handles) handles s.
Proof. intros. unfold run_verify_fs. repeat handle_step; handle_solve. Qed.

Lemma body_handles w path is_block start :
  wp (run_body path is_block start) (fun _ s => handles s) handles (init w).
Proof.
  unfold run_body. assert (U0 : held (false, false, false) (init w)) by done.
  wp_step. eapply wp_mono; [| |by apply open_device_handles]; [|done]. intros dev s1 U1.
  wp_step. eapply wp_mono; [| |by apply (check_image_handles _ (false, false, false))]; [|done].
  intros ? s2 U2.
  wp_step. eapply wp_mono; [| |by apply read_boot_handles]; [|done]. intros before s3 U3.
  wp_step. eapply wp_mono; [| |by apply open_fs_handles]; [|done]. intros [name len] s4 U4.
  pose proof (held_handles _ _ U4) as U4'.
  wp_step. wp_step; [|done]. wp_step; [by wp_step|].
  wp_step. eapply wp_mono; [| |by apply (check_backup_handles _ _ _ (true, true, false))]; [|done]. intros bb s5 U5.
  wp_step. eapply wp_mono; [| |by apply (resize_handles _ (true, true, false))]; [|done]. intros ? s6 U6.
  wp_step. eapply wp_mono; [| |by apply (restore_handles _ _ _ _ _ (true, true, false))]; [|done]. intros [[m bm] nb] s7 U7.
  wp_step. eapply wp_mono; [| |by apply (verify_boot_handles _ _ _ _ _ _ _ (true, true, false))]; [|done]. intros ? s8 U8.
  wp_step. eapply wp_mono; [| |by apply verify_fs_handles]; [|done]. intros ? s9 U9.
  by wp_step.
Qed.

Lemma cleanup_handles s :
  handles s ->
  wp run_cleanup (fun _ s' => count_ev EvFsOpen s' = count_ev EvFsClose s' /\
    count_ev EvGeomNew s' = count_ev EvGeomDestroy s' /\
    count_ev EvDiskNew s' = count_ev EvDiskDestroy s') (fun _ => False) s.
Proof.
  unfold handles. intros (H1 & H2 & H3). unfold run_cleanup.
  repeat handle_step; unfold count_ev in *; simpl in *;
    rewrite ?List.filter_app, ?length_app in *; simpl in *;
    repeat match goal with H : _ = true |- _ => rewrite H in * | H : _ = false |- _ => rewrite H in * end;
    simpl in *; lia.
Qed.

(** ** Properties of [run] *)


(** C2: Whatever the exit code, the disk accesses of a run are, in this
    order: none at all with every sector unchanged, or one resize, or after a
    successful resize a write of sector 0, or that and then one write of a
    sector between 1 and 65535.  No write is ever made before the resize
    succeeded, or after a failed one. *)
Theorem run_disk_accesses w env path r s' :
  run env path (init w) = (r, s') -> disk_protocol w s'.
Proof. intros Hr. by apply (run_spec w env path r s' Hr). Qed.

(** C3: On every path out of [run], each file system, geometry and disk label
    that was opened has been closed exactly once. *)
Theorem run_releases_handles w env path r s' :
  run env path (init w) = (r, s') ->
  count_ev EvFsOpen s' = count_ev EvFsClose s' /\
  count_ev EvGeomNew s' = count_ev EvGeomDestroy s' /\
  count_ev EvDiskNew s' = count_ev EvDiskDestroy s'.
Proof.
  intros Hr. eapply run_cases; [exact Hr|by intros _ -> |].
  intros ib start r1 s1 s2 u Hb Hc _ ->.
  pose proof (body_handles w path ib start) as Hw. unfold wp in Hw. rewrite Hb in Hw.
  assert (Hh : handles s1) by (destruct r1; exact Hw).
  pose proof (cleanup_handles s1 Hh) as Hcl. unfold wp in Hcl. rewrite Hc in Hcl.
  by destruct u.
Qed.

(** C4: A resize that [run] accepts raised no exception other than the
    question which FAT type to keep, and the permission to answer it is
    withdrawn again whether or not the resize is accepted. *)
Theorem resize_only_same_type_question is_fat32 s r s' :
  run_resize is_fat32 s = (r, s') ->
  allow_same_type_choice s' = false /\
  (r = Some tt ->
   Forall same_type_question
     (raised (ped_file_system_resize (world s))
        (set_choice true (if is_fat32 then PED_EXCEPTION_YES else PED_EXCEPTION_NO)
           (set_exception_seen false s)))).
Proof.
  unfold run_resize, bind, modify, gets, call. simpl.
  set (s1 := set_choice true _ (set_exception_seen false s)).
  destruct (run_pcall (ped_file_system_resize (world s)) s1) as [ok s2] eqn:E.
  simpl. unfold require. destruct (ok && negb (exception_seen s2)) eqn:Eo;
    intros [= <- <-]; (split; [done|]); [|done]. intros _. breflect.
  pose proof (run_pcall_unseen (ped_file_system_resize (world s)) s1) as Hu.
  rewrite E in Hu. by destruct (Hu Eo1) as (_ & ? & _).
Qed.

End WithParted.
Arguments PartedLaws W {_}.

(** ** A small libparted to run the program on *)

Module Toy.

Record world := { secs : list (Z * list Z); fs_len : Z; opens : Z }.

Definition look (w : world) (k : Z) : list Z :=
  match find (fun p => fst p =? k) (secs w) with
  | Some (_, b) => b
  | None => replicate 512 0
  end.

Definition store (w : world) (k : Z) (b : list Z) : world :=
  {| secs := (k, b) :: secs w; fs_len := fs_len w; opens := opens w |}.

(** A FAT32 boot sector with 32 reserved sectors and its backup at 6. *)
Definition boot (oem : string) (total hidden : Z) : list Z :=
  put_le32 (put_le32
    (blit 510 [85; 170] (blit 50 [6; 0] (blit 14 [32; 0] (blit 11 [0; 2] (blit 3 (bs oem)
      (replicate 512 0)))))) 32 total) 28 hidden.

#[global] Instance parted : Parted world := {
  ped_device_get _ w := PRet (Some {| sector_size := 512; dev_length := 64 |}) w;
  ped_device_open w := PRet true {| secs := secs w; fs_len := fs_len w; opens := opens w + 1 |};
  ped_device_open_count w := opens w;
  ped_device_close w := PRet tt {| secs := secs w; fs_len := fs_len w; opens := opens w - 1 |};
  ped_device_destroy w := PRet tt w;
  ped_disk_new w := PRet (Some (Some (bs "loop"))) w;
  ped_disk_destroy w := PRet tt w;
  ped_geometry_new _ _ w := PRet true w;
  ped_geometry_read k w :=
    PRet (if bool_decide (length (look w k) = 512%nat) then Some (look w k) else None) w;
  ped_geometry_write k b w := PRet true (store w k b);
  ped_geometry_sync w := PRet true w;
  ped_geometry_destroy w := PRet tt w;
  ped_file_system_open w :=
    PRet (Some {| fs_type_name := Some (bs "fat32"); fs_length := fs_len w |}) w;
  ped_file_system_resize w :=
    PThrow {| exc_type := PED_EXCEPTION_INFORMATION; exc_options := PED_EXCEPTION_YES_NO_CANCEL |}
      (fun o => PRet (bool_decide (o = PED_EXCEPTION_YES))
         {| secs := (0, boot "mkfs.fat" 64 0) :: (6, boot "mkfs.fat" 64 0) :: secs w;
            fs_len := 64; opens := opens w |});
  ped_file_system_close w := PRet tt w
}.

#[global] Instance laws : PartedLaws world.
Proof.
  refine {| content := look |}; try done.
  - intros n w. simpl. split; [done|]. intros b. case_bool_decide; [|done].
    by intros [= <-].
  - intros n b w. simpl. intros _ k. unfold look at 1. simpl.
    destruct (n =? k) eqn:E; breflect; [by rewrite decide_True|].
    by rewrite decide_False by congruence.
Defined.

Definition w0 : world :=
  {| secs := [(0, boot "MSDOS5.0" 48 2048); (6, boot "MSDOS5.0" 48 2048)]; fs_len := 48; opens := 0 |}.

Definition env : sysenv := {|
  sys_stat _ := Some {| st_kind := S_IFREG; st_major := 0; st_minor := 0 |};
  sys_fopen _ := None; sys_access _ := false |}.

Definition final : st world := snd (run env (bs "fat.img") (init w0)).

Lemma run_ok : run env (bs "fat.img") (init w0) = (0, final).
Proof. vm_compute. reflexivity. Qed.

End Toy.


Lemma run_disk_accesses_witness :
  run Toy.env (bs "fat.img") (init Toy.w0) = (0, Toy.final) /\ disk_protocol Toy.w0 Toy.final.
Proof.
  split; [exact Toy.run_ok|].
  exact (run_disk_accesses Toy.w0 Toy.env (bs "fat.img") 0 Toy.final Toy.run_ok).
Defined.

Lemma run_releases_handles_witness :
  count_ev EvFsOpen Toy.final = 2%nat /\ count_ev EvFsOpen Toy.final = count_ev EvFsClose Toy.final.
Proof.
  split; [vm_compute; reflexivity|].
  exact (proj1 (run_releases_handles Toy.w0 Toy.env (bs "fat.img") 0 Toy.final Toy.run_ok)).
Defined.

Lemma resize_only_same_type_question_witness :
  exists r s', run_resize true (init Toy.w0) = (r, s') /\ r = Some tt /\
    allow_same_type_choice s' = false.
Proof.
  exists (fst (run_resize true (init Toy.w0))), (snd (run_resize true (init Toy.w0))).
  split; [reflexivity|]. split; [vm_compute; reflexivity|].
  apply (resize_only_same_type_question true (init Toy.w0)
    (fst (run_resize true (init Toy.w0)))). reflexivity.
Defined.

End RunSpec.
