(* ===== verification/StorageIO.v ===== *)
(** * rootpxe-storage-io: JSON access, path syntax and framed I/O

    Models the helpers of [storage_context.c] up to [rx_emit].

    json-c and the kernel are interfaces: [JsonC] gives the accessors of
    [struct json_object] the program calls, [KernelIO] the [read] and [write]
    system calls.  Laws are the separate classes [JsonCLaws] and
    [KernelIOLaws].  [EINTR] returns are finite: [intr] bounds how many the
    rest of the run can still see, and the retry loops take their fuel from
    it. *)
From S2P Require Import Prelude CLib.
Local Open Scope Z_scope.
Local Open Scope list_scope.

Inductive json_type :=
  | json_type_object | json_type_string | json_type_int | json_type_boolean | json_type_other.

Class JsonC (J : Type) := {
  json_object_is_type : J -> json_type -> bool;
  json_object_object_get_ex : J -> list Z -> option J;
  (** the bytes of [json_object_get_string], as many as
      [json_object_get_string_len]; the decimal text of an integer *)
  json_object_get_string : J -> list Z;
  json_object_get_boolean : J -> bool;
  json_object_equal : J -> J -> bool;
  json_object_to_json_string : J -> list Z;
  (** [json_tokener_parse_ex] with depth 32, strict and UTF-8 validating: the
      value on success and how many bytes were consumed *)
  json_tokener_parse : list Z -> option J * nat;
  json_object_new_object : J;
  json_object_new_string : list Z -> J;
  json_object_new_int : Z -> J;
  json_object_new_boolean : bool -> J;
  json_object_new_array : list J -> J;
  json_object_object_add : J -> list Z -> J -> J
}.

Inductive errno_t := EINTR | ENOENT | EINVAL | EOPNOTSUPP | ENOSYS | EPROTONOSUPPORT | ECANCELED
  | EOTHER (code : Z).

#[export] Instance errno_eq_dec : EqDecision errno_t.
Proof. solve_decision. Defined.

Inductive io_result (A : Type) := IoOk (a : A) | IoErr (e : errno_t).
Arguments IoOk {A} _.
Arguments IoErr {A} _.

Class KernelIO (W : Type) := {
  intr : W -> nat;
  sys_read : Z -> nat -> W -> io_result (list Z) * W;
  sys_write : Z -> list Z -> W -> io_result nat * W
}.

(** [strlen] of a buffer that ends with a NUL. *)
Fixpoint cstrlen (s : list Z) : nat :=
  match s with
  | [] => 0
  | c :: s' => if c =? 0 then 0 else S (cstrlen s')
  end.

Definition RX_COMMAND_MAX : nat := Z.to_nat 16384.
Definition RX_RESULT_MAX : nat := Z.to_nat 65536.
Definition RX_DATA_MAX : nat := Z.to_nat 131072.

Section Json.
Context {J : Type} `{JsonC J}.

Definition rx_string (o : J) (key : list Z) (max : nat) : option (list Z) :=
  match json_object_object_get_ex o key with
  | None => None
  | Some v =>
      if negb (json_object_is_type v json_type_string) then None
      else
        let s := json_object_get_string v in
        let n := length s in
        if (n <=? max)%nat && (cstrlen s =? n)%nat then Some s else None
  end.

Definition rx_u64 (o : J) (key : list Z) : option Z :=
  match json_object_object_get_ex o key with
  | None => None
  | Some v =>
      if negb (json_object_is_type v json_type_int) then None
      else
        let s := json_object_get_string v in
        if bool_decide (head s = Some 45) then None
        else
          let '(n, e, erange) := strtoull 10 s in
          if erange || negb (beq e []) then None else Some n
  end.

Definition rx_sequence (o : J) : option Z :=
  match rx_string o (bs "sequence") 20 with
  | None => None
  | Some s =>
      match s with
      | [] => None
      | c :: _ =>
          if c =? 48 then None
          else if negb (forallb is_digit s) then None
          else
            let '(n, e, erange) := strtoull 10 s in
            if erange || negb (beq e []) then None else Some n
      end
  end.
End Json.

Definition hex_char (c : Z) : bool :=
  ((48 <=? c) && (c <=? 57)) || ((97 <=? c) && (c <=? 102)).

(** [rx_hex]: exactly [n] lower-case hexadecimal digits, not all zero; a null
    pointer is refused. *)
Definition rx_hex (s : option (list Z)) (n : nat) : bool :=
  match s with
  | None => false
  | Some s =>
      if negb (length s =? n)%nat then false
      else if negb (forallb hex_char s) then false
      else existsb (fun c => negb (c =? 48)) s
  end.

Definition path_char_ok (c : Z) : bool := negb ((c <? 32) || (c =? 127) || (c =? 92)).

(** The loop of [rx_relative] from position [p], [atoms] components seen. *)
Fixpoint rx_relative_loop (fuel : nat) (p : list Z) (atoms : nat) : bool :=
  match fuel with
  | O => true
  | S fuel =>
      match p with
      | [] => true
      | _ =>
          let '(atom, rest) :=
            match strchr 47 p with
            | Some (a, r) => (a, Some r)
            | None => (p, None)
            end in
          let n := length atom in
          if (n =? 0)%nat || (255 <? n)%nat || beq atom (bs ".") || beq atom (bs "..")
             || (32 <? S atoms)%nat then false
          else if negb (forallb path_char_ok atom) then false
          else match rest with
               | None => true
               | Some r => rx_relative_loop fuel r (S atoms)
               end
      end
  end.

Definition rx_relative (path : option (list Z)) (empty : bool) : bool :=
  match path with
  | None => false
  | Some path =>
      if (4095 <? length path)%nat then false
      else match path with
           | [] => empty
           | c :: _ =>
               if (c =? 47) || (List.last path 0 =? 47) then false
               else rx_relative_loop (length path) path 0
           end
  end.

Section IO.
Context {W : Type} `{KernelIO W}.

Fixpoint write_loop (fuel : nat) (fd : Z) (p : list Z) (w : W) : bool * W :=
  match p with
  | [] => (true, w)
  | _ =>
      match fuel with
      | O => (false, w)
      | S fuel =>
          match sys_write fd p w with
          | (IoErr EINTR, w') => write_loop fuel fd p w'
          | (IoErr _, w') => (false, w')
          | (IoOk n, w') =>
              if (n =? 0)%nat then (false, w') else write_loop fuel fd (drop n p) w'
          end
      end
  end.

Definition rx_write_all (fd : Z) (data : list Z) (w : W) : bool * W :=
  write_loop (length data + intr w) fd data w.

(** The byte loop of [rx_read_json]: the bytes before the terminator, [None]
    when the read failed or the input was not complete. *)
Fixpoint read_loop (fuel : nat) (fd : Z) (max : nat) (line : bool) (b : list Z) (w : W)
    : option (list Z) * W :=
  if (max <=? length b)%nat then (None, w) else
  match fuel with
  | O => (None, w)
  | S fuel =>
      match sys_read fd 1 w with
      | (IoErr EINTR, w') => read_loop fuel fd max line b w'
      | (IoErr _, w') => (None, w')
      | (IoOk [], w') => ((if line then None else Some b), w')
      | (IoOk (c :: _), w') =>
          if c =? 0 then (None, w')
          else if line && (c =? 10) then (Some b, w')
          else read_loop fuel fd max line (b ++ [c]) w'
      end
  end.

Context {J : Type} `{JsonC J}.

(** [json_tokener_parse_ex] must consume the whole text and give an object. *)
Definition parse_object (b : list Z) : option J :=
  let '(o, parse_end) := json_tokener_parse b in
  match o with
  | None => None
  | Some o =>
      if negb (parse_end =? length b)%nat || negb (json_object_is_type o json_type_object)
      then None else Some o
  end.

Definition rx_read_json (fd : Z) (max : nat) (line : bool) (w : W) : option J * W :=
  let '(b, w') := read_loop (max + intr w) fd max line [] w in
  match b with
  | None => (None, w')
  | Some [] => (None, w')
  | Some b => (parse_object b, w')
  end.

Definition rx_emit (fd : Z) (o : J) (w : W) : bool * W :=
  let s := json_object_to_json_string o in
  let n := cstrlen s in
  if negb (n <? RX_RESULT_MAX)%nat then (false, w)
  else
    let '(ok, w1) := rx_write_all fd (take n s) w in
    if ok then rx_write_all fd [10] w1 else (false, w1).
End IO.

(** ** What the kernel promises *)

(** [sunk fd]: the bytes accepted on a descriptor so far; [pending fd]: the
    bytes still to come from it until end of file. *)
Class KernelIOLaws (W : Type) `{KernelIO W} := {
  sunk : Z -> W -> list Z;
  pending : Z -> W -> list Z;
  write_ok_law fd p w n w' : sys_write fd p w = (IoOk n, w') ->
    (n <= length p)%nat /\ sunk fd w' = sunk fd w ++ take n p /\
    (forall fd', fd' <> fd -> sunk fd' w' = sunk fd' w) /\
    (forall fd', pending fd' w' = pending fd' w) /\ (intr w' <= intr w)%nat;
  write_err_law fd p w e w' : sys_write fd p w = (IoErr e, w') ->
    (forall fd', sunk fd' w' = sunk fd' w) /\ (forall fd', pending fd' w' = pending fd' w) /\
    (intr w' <= intr w)%nat /\ (e = EINTR -> (intr w' < intr w)%nat);
  read_ok_law fd n w b w' : sys_read fd n w = (IoOk b, w') ->
    (length b <= n)%nat /\ pending fd w = b ++ pending fd w' /\
    (b = [] -> (0 < n)%nat -> pending fd w = []) /\
    (forall fd', fd' <> fd -> pending fd' w' = pending fd' w) /\
    (forall fd', sunk fd' w' = sunk fd' w) /\ (intr w' <= intr w)%nat;
  read_err_law fd n w e w' : sys_read fd n w = (IoErr e, w') ->
    (forall fd', pending fd' w' = pending fd' w) /\ (forall fd', sunk fd' w' = sunk fd' w) /\
    (intr w' <= intr w)%nat /\ (e = EINTR -> (intr w' < intr w)%nat)
}.

(** ** Paths *)

Lemma strchr_Some c s a b : strchr c s = Some (a, b) <-> s = a ++ c :: b /\ c ∉ a.
Proof.
  revert a b. induction s as [|x s IH]; intros a b; simpl.
  - split; [done|]. by intros [? _]; destruct a.
  - destruct (x =? c) eqn:E; breflect.
    + subst. split; [intros [= <- <-]; split; [done|by apply not_elem_of_nil]|].
      intros [Hs Ha]. destruct a as [|y a]; simplify_eq/=; [done|].
      exfalso. apply Ha. by left.
    + destruct (strchr c s) as [[a' b']|] eqn:Es.
      * split.
        -- intros [= <- <-]. destruct (proj1 (IH a' b') eq_refl) as [-> Hn]. split; [done|].
           rewrite not_elem_of_cons. by split.
        -- intros [Hs Ha]. destruct a as [|y a]; simplify_eq/=.
           rewrite not_elem_of_cons in Ha. destruct Ha as [_ Ha].
           assert (Hx : Some (a', b') = Some (a, b)) by (apply IH; done). by simplify_eq.
      * split; [done|]. intros [Hs Ha]. destruct a as [|y a]; simplify_eq/=.
        rewrite not_elem_of_cons in Ha. destruct Ha as [_ Ha].
        assert (Hx : None = Some (a, b)) by (apply IH; done). done.
Qed.

Lemma strchr_None c s : strchr c s = None <-> c ∉ s.
Proof.
  induction s as [|x s IH]; simpl.
  - split; [|done]. intros _. apply not_elem_of_nil.
  - rewrite not_elem_of_cons. destruct (x =? c) eqn:E; breflect.
    + split; [done|]. intros [? _]. congruence.
    + destruct (strchr c s) as [[a b]|]; [split; [done|]|].
      * intros [_ Hs]. by apply IH in Hs.
      * split; [|done]. intros _. split; [congruence|]. by apply IH.
Qed.

(** A component of a relative path. *)
Definition atom_ok (a : list Z) : Prop :=
  a <> [] /\ (length a <= 255)%nat /\ a <> bs "." /\ a <> bs ".." /\
  Forall (fun c => path_char_ok c = true) a /\ 47 ∉ a.

Fixpoint join (atoms : list (list Z)) : list Z :=
  match atoms with
  | [] => []
  | [a] => a
  | a :: atoms' => a ++ 47 :: join atoms'
  end.

(** A path of 1 to 32 components, each a plain file name. *)
Definition relative_path (p : list Z) : Prop :=
  (length p <= 4095)%nat /\
  exists atoms, p = join atoms /\ (1 <= length atoms <= 32)%nat /\ Forall atom_ok atoms.

Lemma join_cons a l : l <> [] -> join (a :: l) = a ++ 47 :: join l.
Proof. by destruct l. Qed.

Lemma join_nonempty l : l <> [] -> Forall atom_ok l -> join l <> [].
Proof.
  intros Hl Ha. destruct Ha as [|a l [Hne _] _]; [done|].
  destruct l; simpl; [done|]. by destruct a.
Qed.

Lemma last_app_cons (a b : list Z) c : List.last (a ++ c :: b) 0 = List.last (c :: b) 0.
Proof. induction a as [|x a IH]; [done|]. simpl app. destruct a; simpl in *; done. Qed.

Lemma join_head a r l :
  47 ∉ a -> Forall atom_ok l -> a ++ 47 :: r = join l ->
  exists l', l = a :: l' /\ l' <> [] /\ r = join l'.
Proof.
  intros Ha Hl E. destruct l as [|b l]; [by destruct a|].
  inversion_clear Hl as [|? ? (_ & _ & _ & _ & _ & Hb) _]. destruct l as [|b' l].
  - simpl in E. exfalso. apply Hb. rewrite <- E. set_solver.
  - rewrite join_cons in E by done.
    assert (H1 : strchr 47 (a ++ 47 :: r) = Some (a, r)) by (by apply strchr_Some).
    rewrite E in H1. assert (H2 : strchr 47 (b ++ 47 :: join (b' :: l)) = Some (b, join (b' :: l)))
      by (by apply strchr_Some).
    rewrite H2 in H1. injection H1 as E1 E2. exists (b' :: l).
    split_and!; [by subst|done|exact (eq_sym E2)].
Qed.

Lemma join_single p l : 47 ∉ p -> l <> [] -> p = join l -> l = [p].
Proof.
  intros Hp Hl E. destruct l as [|a [|b l]]; [done|by simpl in E; subst|].
  exfalso. apply Hp. rewrite E, join_cons by done. set_solver.
Qed.

(** The tests the loop makes on one component. *)
Lemma atom_tests a k :
  47 ∉ a ->
  ((length a =? 0)%nat || (255 <? length a)%nat || beq a (bs ".") || beq a (bs "..")
     || (32 <? S k)%nat = false /\ negb (forallb path_char_ok a) = false) <->
  atom_ok a /\ (k < 32)%nat.
Proof.
  intros Hn. unfold atom_ok. rewrite !orb_false_iff, !beq_false, negb_false_iff,
    Nat.eqb_neq, !Nat.ltb_ge, forallb_iff.
  destruct a; simpl length; split; intros ?; destruct_and?; split_and?; (done || lia).
Qed.

Lemma two_guards (b1 b2 x : bool) :
  (if b1 then false else if b2 then false else x) = true <->
  (b1 = false /\ b2 = false) /\ x = true.
Proof. destruct b1, b2, x; intuition congruence. Qed.

Lemma rx_relative_loop_spec fuel p k :
  (length p <= fuel)%nat -> p <> [] -> List.last p 0 <> 47 ->
  rx_relative_loop fuel p k = true <->
  exists l, p = join l /\ l <> [] /\ (k + length l <= 32)%nat /\ Forall atom_ok l.
Proof.
  revert p k. induction fuel as [|fuel IH]; intros p k Hf Hp Hlast; [destruct p; simpl in *; [done|lia]|].
  cbn [rx_relative_loop]. destruct p as [|c0 p0]; [done|]. set (p := c0 :: p0) in *.
  destruct (strchr 47 p) as [[a r]|] eqn:Es.
  - apply strchr_Some in Es as [Ep Hn]. rewrite Ep in Hlast. rewrite last_app_cons in Hlast.
    assert (Hr : r <> []) by (by intros ->).
    assert (Hlr : List.last r 0 <> 47) by (by destruct r).
    assert (Hlen : (length r <= fuel)%nat) by (rewrite Ep, length_app in Hf; simpl in Hf; lia).
    specialize (IH r (S k) Hlen Hr Hlr). pose proof (atom_tests a k Hn) as Ht.
    transitivity ((atom_ok a /\ (k < 32)%nat) /\ rx_relative_loop fuel r (S k) = true).
    { rewrite <- Ht. apply two_guards. }
    rewrite IH. split.
    + intros ((Ha & Hk) & l & -> & Hl & Hkl & Hfl). exists (a :: l).
      rewrite join_cons by done. split_and!; [done|done|simpl; lia|by constructor].
    + intros (l & El & Hl & Hk & Hfl). rewrite Ep in El.
      destruct (join_head a r l Hn Hfl El) as (l' & -> & Hl' & ->).
      inversion_clear Hfl. simpl in Hk. split; [split; [done|lia]|]. exists l'. split_and!; [done..|lia|done].
  - apply strchr_None in Es. pose proof (atom_tests p k Es) as Ht.
    transitivity ((atom_ok p /\ (k < 32)%nat) /\ true = true).
    { rewrite <- Ht. apply two_guards. }
    split.
    + intros [[Ha Hk] _]. exists [p]. split_and!; [done|done|simpl; lia|].
      by apply Forall_singleton.
    + intros (l & El & Hl & Hk & Hfl). rewrite (join_single p l) in * by done.
      inversion_clear Hfl. simpl in Hk. split; [split; [done|lia]|done].
Qed.

Lemma join_last l : l <> [] -> Forall atom_ok l -> List.last (join l) 0 <> 47.
Proof.
  intros Hl Ha. induction Ha as [|a l Ha Hf IH]; [done|]. destruct Ha as (Hne & _ & _ & _ & _ & Hn).
  destruct l as [|b l].
  - simpl. intros E. apply Hn. rewrite <- E. destruct (exists_last Hne) as (x & y & ->).
    rewrite last_app_cons. simpl. set_solver.
  - rewrite join_cons by done. rewrite last_app_cons.
    pose proof (join_nonempty (b :: l) ltac:(done) Hf). destruct (join (b :: l)); [done|]. by apply IH.
Qed.

Lemma rx_relative_iff p empty :
  rx_relative (Some p) empty = true <-> (p = [] /\ empty = true) \/ relative_path p.
Proof.
  unfold rx_relative, relative_path. destruct (4095 <? length p)%nat eqn:El; breflect.
  { split; [done|]. intros [[-> _]|[? _]]; [simpl in El|]; lia. }
  destruct p as [|c p].
  { split; [by left|]. intros [[_ ->]|(_ & l & El' & Hl & Ha)]; [done|].
    exfalso. eapply (join_nonempty l); [by destruct l; simpl in Hl; [lia|]|done|done]. }
  set (q := c :: p) in *.
  transitivity (c <> 47 /\ List.last q 0 <> 47 /\ rx_relative_loop (length q) q 0 = true).
  { destruct ((c =? 47) || (List.last q 0 =? 47)) eqn:E.
    - split; [done|]. intros (? & ? & _). breflect. by destruct E; breflect.
    - breflect. tauto. }
  split.
  - intros (Hc & Hlast & Hloop). right. split; [done|].
    apply rx_relative_loop_spec in Hloop as (l & ? & ? & ? & ?); [|done..].
    exists l. split_and!; [done| |lia|done]. destruct l; simpl; [done|lia].
  - intros [[? _]|(_ & l & Eq & Hl & Ha)]; [done|].
    assert (Hne : l <> []) by (destruct l; simpl in Hl; [lia|done]).
    assert (Hlast : List.last q 0 <> 47) by (rewrite Eq; by apply join_last).
    split_and!; [|done|].
    + intros ->. destruct l as [|a l]; [done|]. inversion_clear Ha as [|? ? (Hna & _ & _ & _ & _ & Hn) _].
      destruct a as [|x a]; [done|]. assert (x = 47) as -> by (unfold q in Eq; destruct l; simpl in Eq; congruence).
      apply Hn. by left.
    + apply rx_relative_loop_spec; [done..|]. exists l. split_and!; [done|done|lia|done].
Qed.

(** ** Numbers *)

Lemma rx_sequence_iff {J} `{JsonC J} (o : J) n :
  rx_sequence o = Some n <->
  rx_string o (bs "sequence") 20 = Some (print_dec n) /\ 1 <= n <= UINT64_MAX.
Proof.
  unfold rx_sequence. destruct (rx_string o (bs "sequence") 20) as [s|]; [|by split; [|intros [? _]]].
  destruct s as [|c s].
  { split; [done|]. intros [[= E] _]. by destruct (print_base_nonempty 10 n). }
  destruct (c =? 48) eqn:E0; breflect.
  { split; [done|]. intros [[= E] Hn]. subst c. exfalso.
    exact (print_dec_no_leading_zero n s ltac:(lia) (eq_sym E)). }
  destruct (forallb is_digit (c :: s)) eqn:Ed; cbn [negb].
  - apply forallb_iff in Ed. destruct (print_scan_dec s c Ed E0) as (Hpos & Hrest & Hp).
    inversion_clear Ed as [|? ? Hc _].
    pose proof (strtoull_digits c s Hc) as S1. pose proof (strtoull_overflow c s Hc) as S2.
    destruct (scan_digits 10 0 (c :: s)) as [v rest]. cbn [fst snd] in *. subst rest. rewrite <- Hp.
    rewrite <- Hp in S1, S2. destruct (decide (v <= UINT64_MAX)) as [Hle|Hgt].
    + rewrite S1 by done. cbn [orb]. rewrite beq_refl. cbn [negb].
      split; [intros [= <-]; split; [done|lia]|]. intros [[= Es] Hn]. f_equal.
      apply print_dec_inj; [lia|lia|done].
    + rewrite S2 by lia. split; [done|]. intros [[= Es] Hn]. exfalso. apply Hgt.
      apply print_dec_inj in Es; lia.
  - split; [done|]. intros [[= Es] _]. exfalso.
    assert (forallb is_digit (c :: s) = true); [|congruence].
    rewrite Es. apply forallb_iff, print_dec_digits.
Qed.

(** The sequence numbers [rx_sequence] accepts are exactly the decimal
    texts [%llu] prints for 1 to 2^64-1: so parsing a printed number gives it
    back, and comparing two accepted texts compares their values. *)
Theorem rx_sequence_canonical {J} `{JsonC J} (o : J) n :
  rx_sequence o = Some n <->
  rx_string o (bs "sequence") 20 = Some (print_dec n) /\ 1 <= n <= UINT64_MAX.
Proof. apply rx_sequence_iff. Qed.

(** ** Framed I/O *)

Section IOSpec.
Context {W : Type} `{KIO : KernelIO W} `{!KernelIOLaws W}.
Implicit Types w : W.

(** What stays the same on a descriptor other than the one written. *)
Definition io_frame (fd : Z) w w' : Prop :=
  (forall fd', fd' <> fd -> sunk fd' w' = sunk fd' w) /\
  (forall fd', pending fd' w' = pending fd' w) /\ (intr w' <= intr w)%nat.

Lemma io_frame_trans fd w1 w2 w3 : io_frame fd w1 w2 -> io_frame fd w2 w3 -> io_frame fd w1 w3.
Proof.
  intros (A1 & B1 & C1) (A2 & B2 & C2). split_and!; [..|lia].
  - intros fd' Hfd. by rewrite A2, A1.
  - intros fd'. by rewrite B2.
Qed.

Lemma write_loop_spec fuel fd p w ok w' :
  (length p + intr w <= fuel)%nat -> write_loop fuel fd p w = (ok, w') ->
  exists k, (k <= length p)%nat /\ sunk fd w' = sunk fd w ++ take k p /\
    (ok = true <-> k = length p) /\ io_frame fd w w'.
Proof.
  revert p w. induction fuel as [|fuel IH]; intros p w Hf Hw.
  { destruct p; [|simpl in Hf; lia]. simplify_eq/=. exists 0%nat. simpl. rewrite app_nil_r.
    split_and!; try done. }
  destruct p as [|c p]; [simplify_eq/=; exists 0%nat; simpl; rewrite app_nil_r; split_and!; done|].
  set (q := c :: p) in *. cbn [write_loop] in Hw. unfold q at 1 in Hw.
  destruct (sys_write fd q w) as [[n|e] w1] eqn:Es.
  - apply write_ok_law in Es as (Hn & Hs & Ho & Hp & Hi).
    assert (F : io_frame fd w w1) by done.
    destruct (n =? 0)%nat eqn:E0; breflect.
    + simplify_eq. exists 0%nat. rewrite Hs. split_and!; [lia|done|by split|done].
    + destruct (IH (drop n q) w1) as (k & Hk & Hsk & Hok & F'); [|done|].
      { rewrite length_drop. lia. }
      rewrite length_drop in Hk. exists (n + k)%nat.
      split_and!; [lia| | |by eapply io_frame_trans].
      * by rewrite Hsk, Hs, <- app_assoc, <- take_take_drop.
      * rewrite Hok, length_drop. lia.
  - apply write_err_law in Es as (Hs & Hp & Hi & He).
    assert (F : io_frame fd w w1) by (split_and!; [intros; apply Hs|done|done]).
    destruct (decide (e = EINTR)) as [->|Hne].
    + destruct (IH q w1) as (k & Hk & Hsk & Hok & F'); [specialize (He eq_refl); lia|done|].
      exists k. split_and!; [done|by rewrite Hsk, Hs|done|by eapply io_frame_trans].
    + assert (Hx : (false, w1) = (ok, w')) by (by destruct e). simplify_eq.
      exists 0%nat. simpl. rewrite Hs, app_nil_r. split_and!; [lia|done|by split|done].
Qed.

Lemma write_loop_more fuel extra fd p w :
  (length p + intr w <= fuel)%nat -> write_loop (fuel + extra) fd p w = write_loop fuel fd p w.
Proof.
  revert p w. induction fuel as [|fuel IH]; intros p w Hf.
  { destruct p; [|simpl in Hf; lia]. by destruct extra. }
  destruct p as [|c p]; [done|]. set (q := c :: p) in *. simpl plus. cbn [write_loop]. unfold q at 1 4.
  destruct (sys_write fd q w) as [[n|e] w1] eqn:Es.
  - apply write_ok_law in Es as (Hn & _ & _ & _ & Hi). destruct (n =? 0)%nat eqn:E0; [done|].
    breflect. apply IH. rewrite length_drop. lia.
  - apply write_err_law in Es as (_ & _ & Hi & He). destruct e; try done.
    apply IH. specialize (He eq_refl). lia.
Qed.

(** C36: [rx_write_all] always returns, however the kernel splits the data and
    interrupts it: more iterations than the bytes to write plus the remaining
    interruptions change nothing.  What reached the descriptor is a prefix of
    the data, all of it exactly when the call reports success, and nothing
    else was written or consumed. *)
Theorem rx_write_all_spec fd data w ok w' :
  rx_write_all fd data w = (ok, w') ->
  (forall extra, write_loop (length data + intr w + extra) fd data w = (ok, w')) /\
  exists k, (k <= length data)%nat /\ sunk fd w' = sunk fd w ++ take k data /\
    (ok = true <-> k = length data) /\ io_frame fd w w'.
Proof.
  intros Hw. split.
  - intros extra. rewrite write_loop_more by lia. exact Hw.
  - eapply write_loop_spec; [|exact Hw]. done.
Qed.

Lemma read_loop_sound fuel fd max line b w r w' :
  0 ∉ b -> (line = true -> 10 ∉ b) ->
  read_loop fuel fd max line b w = (Some r, w') ->
  exists t, r = b ++ t /\ (length r < max)%nat /\ (0 ∉ r) /\
    (if line then (10 ∉ r) /\ pending fd w = t ++ 10 :: pending fd w'
     else pending fd w = t /\ pending fd w' = []) /\
    (forall fd', sunk fd' w' = sunk fd' w).
Proof.
  revert b w. induction fuel as [|fuel IH]; intros b w Hb Hl Hr; cbn [read_loop] in Hr.
  { by destruct (max <=? length b)%nat. }
  destruct (max <=? length b)%nat eqn:Em; [done|]. breflect.
  destruct (sys_read fd 1 w) as [[l|e] w1] eqn:Es.
  - apply read_ok_law in Es as (Hlen & Hpe & Heof & _ & Hsu & _). destruct l as [|c l].
    + destruct line; simplify_eq. exists []. rewrite app_nil_r.
      specialize (Heof eq_refl ltac:(lia)). rewrite Heof in Hpe. simpl in Hpe.
      split_and!; [done|done|done|done|by symmetry|done].
    + assert (l = []) as -> by (destruct l; simpl in Hlen; [done|lia]).
      destruct (c =? 0) eqn:Ec; [done|]. breflect.
      destruct (line && (c =? 10)) eqn:E10.
      * breflect. subst. simplify_eq. exists []. rewrite app_nil_r. split_and!; try done.
        by apply Hl.
      * apply IH in Hr as (t & -> & Hm & H0 & Ht & Hs).
        -- exists (c :: t). rewrite <- app_assoc in *. split_and!; [done|done|done| |].
           ++ rewrite Hpe. destruct line; [|by destruct Ht as [-> ->]].
              destruct Ht as [Hn ->]. by split.
           ++ intros fd'. by rewrite Hs.
        -- rewrite not_elem_of_app, not_elem_of_cons. split_and!; [done|done|apply not_elem_of_nil].
        -- intros ->. simpl in E10. breflect. rewrite not_elem_of_app, not_elem_of_cons.
           split_and!; [by apply Hl|done|apply not_elem_of_nil].
  - apply read_err_law in Es as (Hpe & Hsu & _ & _). destruct e; try done.
    apply IH in Hr as (t & ? & ? & ? & Ht & Hs); [|done|done].
    exists t. rewrite !Hpe in Ht. split_and!; try done. intros fd'. by rewrite Hs.
Qed.

Context {J : Type} `{!JsonC J}.

(** C37: A message [rx_read_json] returns is what the peer sent: in line mode
    the bytes up to the first newline, which is consumed, with nothing read
    past it; otherwise the whole input up to end of file.  It is not empty,
    shorter than the limit, has no NUL byte, and the parser consumed all of
    it and produced an object. *)
Theorem rx_read_json_framing fd max line w (o : J) w' :
  rx_read_json fd max line w = (Some o, w') ->
  exists b, parse_object b = Some o /\ b <> [] /\ (length b < max)%nat /\ (0 ∉ b) /\
    (if line then (10 ∉ b) /\ pending fd w = b ++ 10 :: pending fd w'
     else pending fd w = b /\ pending fd w' = []) /\
    (forall fd', sunk fd' w' = sunk fd' w).
Proof.
  unfold rx_read_json. destruct (read_loop (max + intr w) fd max line [] w) as [[b|] w1] eqn:Er; [|done].
  destruct b as [|c b]; [done|]. intros Hp. simplify_eq.
  apply read_loop_sound in Er as (t & E & Hm & H0 & Ht & Hs);
    [|apply not_elem_of_nil|intros; apply not_elem_of_nil].
  simpl in E. subst t. exists (c :: b). by split_and!.
Qed.

(** The only error reads report is an interruption. *)
Definition reads_never_fail : Prop :=
  forall fd n w e w', sys_read fd n w = (IoErr e, w') -> e = EINTR.

Lemma read_loop_complete fuel fd max l rest b w :
  reads_never_fail -> (max - length b + intr w <= fuel)%nat ->
  pending fd w = l ++ 10 :: rest -> 0 ∉ l -> 10 ∉ l -> (length b + length l < max)%nat ->
  exists w', read_loop fuel fd max true b w = (Some (b ++ l), w') /\ pending fd w' = rest.
Proof.
  intros Hne. revert l b w. induction fuel as [|fuel IH]; intros l b w Hf Hp H0 H10 Hlen; [lia|].
  cbn [read_loop]. replace (max <=? length b)%nat with false by (symmetry; apply Nat.leb_gt; lia).
  destruct (sys_read fd 1 w) as [[a|e] w1] eqn:Es.
  - apply read_ok_law in Es as (Hla & Hpe & Heof & _ & _ & Hi). rewrite Hp in Hpe. destruct a as [|c a].
    { specialize (Heof eq_refl ltac:(lia)). rewrite Hp in Heof. by destruct l. }
    assert (a = []) as -> by (destruct a; simpl in Hla; [done|lia]). simpl in Hpe.
    destruct l as [|x l]; injection Hpe as <- Hpe.
    + exists w1. rewrite app_nil_r. simpl. split; [done|congruence].
    + rewrite not_elem_of_cons in H0, H10. destruct H0 as [Hx0 H0], H10 as [Hx10 H10].
      rewrite (proj2 (Z.eqb_neq x 0)) by congruence.
      rewrite (proj2 (Z.eqb_neq x 10)) by congruence. simpl in Hlen. cbn [andb].
      destruct (IH l (b ++ [x]) w1) as (w' & E & Hr); try done.
      * rewrite length_app. simpl. lia.
      * rewrite length_app. simpl. lia.
      * exists w'. rewrite E, <- app_assoc. done.
  - pose proof (Hne _ _ _ _ _ Es) as ->. apply read_err_law in Es as (Hpe & _ & _ & Hi).
    apply IH; try done; [specialize (Hi eq_refl); lia|]. by rewrite Hpe.
Qed.

(** C38: When reads do not fail, a line of 1 to max-1 bytes is always
    received whole, whatever the interruptions: the message is the parse of
    that line and the input goes on right after its newline. *)
Theorem rx_read_json_delivers fd max l rest w :
  reads_never_fail -> pending fd w = l ++ 10 :: rest -> 0 ∉ l -> 10 ∉ l ->
  (0 < length l < max)%nat ->
  exists w', rx_read_json fd max true w = (parse_object l, w') /\ pending fd w' = rest.
Proof.
  intros Hne Hp H0 H10 Hl. unfold rx_read_json.
  destruct (read_loop_complete (max + intr w) fd max l rest [] w) as (w' & -> & Hr);
    try done; [simpl; lia|simpl; lia|]. exists w'. simpl. by destruct l; [simpl in Hl; lia|].
Qed.
End IOSpec.

(** ** A concrete peer

    A JSON value as a tree, a tokener that reads the whole text as one given
    document (here the sequence number of a message), and a kernel with one input and one output
    log whose first [intr] calls are interrupted and which moves at most two
    bytes at a time. *)
Module ToyIO.
Inductive json :=
  | JObj (fields : list (list Z * json))
  | JStr (s : list Z)
  | JInt (n : Z)
  | JBool (b : bool)
  | JArr (l : list json).

Fixpoint field (fs : list (list Z * json)) (k : list Z) : option json :=
  match fs with
  | [] => None
  | (k', v) :: fs => if beq k k' then Some v else field fs k
  end.

Definition is_type (j : json) (t : json_type) : bool :=
  match j, t with
  | JObj _, json_type_object | JStr _, json_type_string | JInt _, json_type_int
  | JBool _, json_type_boolean => true
  | _, _ => false
  end.

Definition text (j : json) : list Z :=
  match j with
  | JStr s => s
  | JInt n => print_signed n
  | _ => []
  end.

Fixpoint json_eqb (a b : json) : bool :=
  match a, b with
  | JObj l, JObj m =>
      (fix go l m := match l, m with
       | [], [] => true
       | (k, v) :: l', (k', v') :: m' => beq k k' && json_eqb v v' && go l' m'
       | _, _ => false
       end) l m
  | JStr s, JStr t => beq s t
  | JInt n, JInt m => n =? m
  | JBool x, JBool y => Bool.eqb x y
  | JArr l, JArr m =>
      (fix go l m := match l, m with
       | [], [] => true
       | v :: l', v' :: m' => json_eqb v v' && go l' m'
       | _, _ => false
       end) l m
  | _, _ => false
  end.

Definition json_c_of (doc : list Z -> json) : JsonC json := {|
  json_object_is_type := is_type;
  json_object_object_get_ex j k := match j with JObj fs => field fs k | _ => None end;
  json_object_get_string := text;
  json_object_get_boolean j := match j with JBool b => b | _ => false end;
  json_object_equal := json_eqb;
  json_object_to_json_string := text;
  json_tokener_parse b := (Some (doc b), length b);
  json_object_new_object := JObj [];
  json_object_new_string := JStr;
  json_object_new_int := JInt;
  json_object_new_boolean := JBool;
  json_object_new_array := JArr;
  json_object_object_add j k v := match j with JObj fs => JObj ((k, v) :: fs) | _ => j end
|}.

#[global] Instance json_c : JsonC json := json_c_of (fun b => JObj [(bs "sequence", JStr b)]).

Record world := { w_intr : nat; w_in : Z -> list Z; w_out : Z -> list Z }.

Definition upd (f : Z -> list Z) (fd : Z) (v : list Z) : Z -> list Z :=
  fun fd' => if fd' =? fd then v else f fd'.

Definition chunk (n : nat) : nat := Nat.min 2 n.
Arguments chunk : simpl never.

#[global] Instance kernel : KernelIO world := {
  intr := w_intr;
  sys_read fd n w :=
    match w_intr w with
    | S k => (IoErr EINTR, {| w_intr := k; w_in := w_in w; w_out := w_out w |})
    | O => let l := take (chunk n) (w_in w fd) in
           (IoOk l, {| w_intr := O; w_in := upd (w_in w) fd (drop (chunk n) (w_in w fd));
                       w_out := w_out w |})
    end;
  sys_write fd p w :=
    match w_intr w with
    | S k => (IoErr EINTR, {| w_intr := k; w_in := w_in w; w_out := w_out w |})
    | O => let n := chunk (length p) in
           (IoOk n, {| w_intr := O; w_in := w_in w;
                       w_out := upd (w_out w) fd (w_out w fd ++ take n p) |})
    end
}.

Lemma upd_same f fd v : upd f fd v fd = v.
Proof. unfold upd. by rewrite Z.eqb_refl. Qed.

Lemma upd_other f fd v fd' : fd' <> fd -> upd f fd v fd' = f fd'.
Proof. intros. unfold upd. by rewrite (proj2 (Z.eqb_neq _ _)). Qed.

#[global] Program Instance kernel_laws : KernelIOLaws world := {
  sunk fd w := w_out w fd;
  pending fd w := w_in w fd
}.
Next Obligation.
  intros fd p w n w' E. simpl in E. destruct (w_intr w) eqn:Ei; simplify_eq/=.
  rewrite upd_same. unfold chunk. split_and!; [lia|done| |done|lia].
  intros. by apply upd_other.
Qed.
Next Obligation.
  intros fd p w e w' E. simpl in E. destruct (w_intr w) eqn:Ei; simplify_eq/=.
  split_and!; [done|done|lia|lia].
Qed.
Next Obligation.
  intros fd n w b w' E. simpl in E. destruct (w_intr w) eqn:Ei; simplify_eq/=.
  pose proof (Nat.le_min_r 2 n : (chunk n <= n)%nat).
  rewrite upd_same, take_drop.
  split_and!; [rewrite length_take; lia|done| |by intros; apply upd_other|done|lia].
  intros Hl Hn. assert (0 < chunk n)%nat by (unfold chunk; lia).
  apply (f_equal length) in Hl. rewrite length_take in Hl. simpl in Hl.
  destruct (w_in w fd); simpl in *; [done|lia].
Qed.
Next Obligation.
  intros fd n w e w' E. simpl in E. destruct (w_intr w) eqn:Ei; simplify_eq/=.
  split_and!; [done|done|lia|lia].
Qed.

(** Input "7", newline, "rest" on descriptor 4, three interruptions to come. *)
Definition w0 : world :=
  {| w_intr := 3; w_in := upd (fun _ => []) 4 (bs "7" ++ 10 :: bs "rest"); w_out := fun _ => [] |}.

Lemma w0_reads_never_fail : reads_never_fail (W := world).
Proof. intros fd n w e w' E. simpl in E. destruct (w_intr w); by simplify_eq/=. Qed.
End ToyIO.

Lemma rx_write_all_spec_witness :
  exists w', rx_write_all 5 (bs "event") ToyIO.w0 = (true, w') /\
  exists k, sunk 5 w' = take k (bs "event").
Proof.
  assert (H : rx_write_all 5 (bs "event") ToyIO.w0 = (true, snd (rx_write_all 5 (bs "event") ToyIO.w0)))
    by reflexivity.
  eexists. split; [exact H|].
  destruct (rx_write_all_spec _ _ _ _ _ H) as (_ & k & _ & E & _). exists k. exact E.
Defined.

Lemma rx_read_json_framing_witness :
  exists w' b, parse_object b = Some (ToyIO.JObj [(bs "sequence", ToyIO.JStr (bs "7"))]) /\
    pending 4 ToyIO.w0 = b ++ 10 :: pending 4 w'.
Proof.
  assert (H : rx_read_json 4 100 true ToyIO.w0 =
    (Some (ToyIO.JObj [(bs "sequence", ToyIO.JStr (bs "7"))]),
     snd (rx_read_json (J := ToyIO.json) 4 100 true ToyIO.w0))) by reflexivity.
  eexists. destruct (rx_read_json_framing _ _ _ _ _ _ H) as (b & Hp & _ & _ & _ & [_ E] & _).
  exists b. split; [exact Hp|exact E].
Defined.

Lemma rx_read_json_delivers_witness :
  exists w', rx_read_json (J := ToyIO.json) 4 100 true ToyIO.w0 = (parse_object (bs "7"), w') /\
    pending 4 w' = bs "rest".
Proof.
  apply (rx_read_json_delivers 4 100 (bs "7") (bs "rest") ToyIO.w0).
  - exact ToyIO.w0_reads_never_fail.
  - reflexivity.
  - intros [=]%list_elem_of_singleton.
  - intros [=]%list_elem_of_singleton.
  - simpl. lia.
Defined.
