(* ===== verification/StorageContext.v ===== *)
(** * rootpxe-storage-io: the context and the identity of the helper

    Models the rest of [storage_context.c]: [rx_load_context], which reads and
    validates the job description, [rx_identity], which gives up privileges,
    and [rx_fd_contract], which checks the inherited descriptors.

    The kernel calls they use are the class [KernelProc]; a call that can fail
    is a computation of [M W] that exits early when it does, as the code
    returns -1.  What the calls do to the credentials of the process is the
    class [KernelProcLaws]. *)
From S2P Require Import Prelude CLib StorageIO.
Local Open Scope Z_scope.
Local Open Scope list_scope.
Local Open Scope cmonad_scope.

Definition NFS_SUPER_MAGIC : Z := 26985.
Definition CIFS_SUPER_MAGIC : Z := 4283649346.
Definition SMB2_SUPER_MAGIC : Z := 4266872130.
Definition SMB_SUPER_MAGIC : Z := 20859.

Definition S_IFMT (mode : Z) : Z := Z.land mode 61440.
Definition S_ISREG (mode : Z) : bool := S_IFMT mode =? 32768.
Definition S_ISDIR (mode : Z) : bool := S_IFMT mode =? 16384.
Definition S_ISBLK (mode : Z) : bool := S_IFMT mode =? 24576.
Definition S_ISCHR (mode : Z) : bool := S_IFMT mode =? 8192.
Definition S_ISFIFO (mode : Z) : bool := S_IFMT mode =? 4096.

Definition CAP_SYS_ADMIN : Z := 21.
Definition SIGTERM : Z := 15.

Record stat := { st_mode : Z; st_uid : Z }.

Class KernelProc (W : Type) := {
  sys_getppid : W -> Z * W;
  sys_fstat : Z -> M W stat;
  (** the [f_type] of [fstatfs] *)
  sys_fstatfs : Z -> M W Z;
  sys_ambient_clear_all : M W unit;
  sys_capbset_read : Z -> W -> io_result bool * W;
  sys_capbset_drop : Z -> M W unit;
  sys_set_keepcaps : bool -> M W unit;
  sys_setgroups : list Z -> M W unit;
  sys_setresgid : Z -> M W unit;
  sys_setresuid : Z -> M W unit;
  sys_getresuid : M W (Z * Z * Z);
  sys_getresgid : M W (Z * Z * Z);
  (** [setfsuid(-1)] and [setfsgid(-1)]: the current value, unchanged *)
  sys_fsuid : W -> Z * W;
  sys_fsgid : W -> Z * W;
  (** [getgroups(2, observed)]: fails when there are more than two *)
  sys_getgroups : M W (list Z);
  (** [capset] of version 3: the effective, permitted and inheritable masks *)
  sys_capset : Z -> Z -> Z -> M W unit;
  sys_set_no_new_privs : M W unit;
  sys_set_pdeathsig : Z -> M W unit
}.

Record storage_context (J : Type) := mk_context {
  json : J; owner : J;
  protocol : list Z; server : list Z; export_path : list Z; image_path : list Z;
  version : list Z; stage : list Z; lock : list Z; numeric_address_buf : list Z;
  uid : Z; gid : Z; port : Z; sequence : Z; data_write : bool; parent : Z
}.
Arguments mk_context {J}.
Arguments json {J} _.
Arguments owner {J} _.
Arguments protocol {J} _.
Arguments server {J} _.
Arguments export_path {J} _.
Arguments image_path {J} _.
Arguments version {J} _.
Arguments stage {J} _.
Arguments lock {J} _.
Arguments numeric_address_buf {J} _.
Arguments uid {J} _.
Arguments gid {J} _.
Arguments port {J} _.
Arguments sequence {J} _.
Arguments data_write {J} _.
Arguments parent {J} _.

Definition one_of (v : list Z) (l : list string) : bool := existsb (fun x => beq v (bs x)) l.

Definition version_ok (p v : list Z) : bool :=
  if beq p (bs "nfs") then one_of v ["auto"; "3"; "4.0"; "4.1"; "4.2"]%string
  else one_of v ["auto"; "2.1"; "3.0"; "3.0.2"; "3.1.1"]%string.

Definition server_char_ok (c : Z) : bool :=
  negb ((c <=? 32) || (c =? 127) || mem_byte c (bs "/,\;|&$`")).

(** The host part left in [c->server] and the text after the port's colon. *)
Definition split_server (s : list Z) : option (list Z * option (list Z)) :=
  match s with
  | 91 :: _ =>
      match strchr 93 s with
      | None => None
      | Some (a, []) => Some (s, None)
      | Some (a, c :: ps) => if negb (c =? 58) then None else Some (a ++ [93], Some ps)
      end
  | _ =>
      match strchr 58 s, strrchr 58 s with
      | Some (a, ps), Some (a', _) => if beq a a' then Some (a, Some ps) else Some (s, None)
      | _, _ => Some (s, None)
      end
  end.

Definition parse_port (default : Z) (ps : option (list Z)) : option Z :=
  match ps with
  | None => Some default
  | Some ps =>
      if beq ps [] || negb (forallb is_digit ps) then None
      else
        let '(port, e, erange) := strtoull 10 ps in
        if erange || negb (beq e []) || (port =? 0) || (65535 <? port) then None else Some port
  end.

(** The host and the port of a server address. *)
Definition parse_server (default : Z) (s : list Z) : option (list Z * Z) :=
  match split_server s with
  | None => None
  | Some (host, ps) =>
      match parse_port default ps with
      | None => None
      | Some port => Some (host, port)
      end
  end.

(** [snprintf] into a buffer of [size] bytes. *)
Definition snprintf (size : nat) (text : list Z) : list Z := take (size - 1) text.

Section Context.
Context {J : Type} `{JsonC J}.

Definition rx_hex_field (o : J) (key : list Z) (n : nat) : option (list Z) :=
  match rx_string o key n with
  | Some s => if rx_hex (Some s) n then Some s else None
  | None => None
  end.

(** The [execution] object: the owner, the task and attempt of the stage
    directory and the target of the lock. *)
Definition load_owner (o : J) : option (list Z * Z * list Z) :=
  _ ← rx_hex_field o (bs "domainId") 32;
  kind ← rx_string o (bs "taskType") 7;
  if negb (one_of kind ["capture"; "deploy"]%string) then None else
  task ← rx_string o (bs "taskId") 64;
  if beq task [] || negb (rx_relative (Some task) false) || mem_byte 47 task then None else
  _ ← rx_hex_field o (bs "nonce") 32;
  target ← rx_hex_field o (bs "targetKey") 64;
  _ ← rx_hex_field o (bs "configRevision") 64;
  attempt ← rx_u64 o (bs "executionAttempt");
  if attempt =? 0 then None else Some (task, attempt, target).

Definition load_sequence (j : J) : option Z :=
  s ← rx_string j (bs "sequence") 20;
  if beq s [] then None
  else if beq s (bs "0") then Some 0 else rx_sequence j.

(** The numeric identity of an NFS job and the syntax of its export path. *)
Definition load_identity (j : J) (p root : list Z) : option (Z * Z) :=
  if beq p (bs "nfs") then
    match root with
    | 47 :: r =>
        if negb (beq r []) && negb (rx_relative (Some r) false) then None
        else
          uid ← rx_u64 j (bs "nfsUid");
          gid ← rx_u64 j (bs "nfsGid");
          if (4294967294 <? uid) || (4294967294 <? gid) then None else Some (uid, gid)
    | _ => None
    end
  else if negb (rx_relative (Some root) false) then None else Some (0, 0).

(** [rx_load_context] from the parsed document on. *)
Definition load_fields (j : J) (ppid : Z) : option (storage_context J) :=
  v ← rx_u64 j (bs "version");
  if negb (v =? 1) then None else
  p ← rx_string j (bs "protocol") 3;
  srv ← rx_string j (bs "server") 255;
  root ← rx_string j (bs "exportPath") 4095;
  image ← rx_string j (bs "imagePath") 4095;
  dir ← rx_string j (bs "direction") 5;
  if negb (one_of p ["nfs"; "smb"]%string) || beq srv [] || beq root []
     || negb (rx_relative (Some image) false) || negb (one_of dir ["read"; "write"]%string)
  then None else
  if negb (forallb server_char_ok srv) then None else
  '(host, port) ← parse_server (if beq p (bs "nfs") then 2049 else 445) srv;
  seq ← load_sequence j;
  o ← json_object_object_get_ex j (bs "execution");
  if negb (json_object_is_type o json_type_object) then None else
  '(task, attempt, target) ← load_owner o;
  let stage := snprintf 256 (bs "dev/" ++ task ++ [47] ++ print_dec attempt) in
  let lock := snprintf 128 (bs ".locks/" ++ target) in
  ver ← rx_string j (if beq p (bs "nfs") then bs "nfsVersion" else bs "smbVersion") 15;
  if negb (version_ok p ver) then None else
  '(uid, gid) ← load_identity j p root;
  Some (mk_context j o p host root image ver stage lock [] uid gid port seq
          (beq dir (bs "write")) ppid).
End Context.

Section Proc.
Context {W : Type} `{KernelProc W} {J : Type}.

Section Load.
Context `{KernelIO W} `{JsonC J}.

Definition rx_load_context (fd : Z) : M W (storage_context J) :=
  ppid <- total sys_getppid ;;
  s <- sys_fstat fd ;;
  require (S_ISREG (st_mode s) && (st_uid s =? 0) && (Z.land (st_mode s) 63 =? 0)) ;;;
  f_type <- sys_fstatfs fd ;;
  require (negb (f_type =? NFS_SUPER_MAGIC) && negb (f_type =? CIFS_SUPER_MAGIC)) ;;;
  j <- rx_read_json fd RX_COMMAND_MAX false ;;
  fun w => (load_fields j ppid, w).
End Load.

(** The two capability words of [capset] as one mask each. *)
Definition caps_only (admin : bool) : M W unit :=
  let caps := if admin then Z.shiftl 1 CAP_SYS_ADMIN else 0 in
  sys_capset caps caps 0.

Definition rx_clear_capabilities : M W unit := caps_only false.

Definition rx_parent_alive (c : storage_context J) : M W bool :=
  if 1 <? parent c then
    pp <- total sys_getppid ;; ret (pp =? parent c)
  else ret false.

(** The loop over the bounding set from capability [cap], [n] to go. *)
Fixpoint drop_bounding (n : nat) (cap : Z) (mount_only : bool) : M W unit :=
  match n with
  | O => ret tt
  | S n =>
      present <- total (sys_capbset_read cap) ;;
      match present with
      | IoErr EINVAL => ret tt
      | IoErr _ => fail
      | IoOk present =>
          (if present && (negb mount_only || negb (cap =? CAP_SYS_ADMIN))
           then sys_capbset_drop cap else ret tt) ;;;
          drop_bounding n (cap + 1) mount_only
      end
  end.

Definition triple_is (t : Z * Z * Z) (v : Z) : bool :=
  let '(a, b, c) := t in (a =? v) && (b =? v) && (c =? v).

Definition become_nfs_user (c : storage_context J) (mount_only : bool) : M W unit :=
  sys_set_keepcaps mount_only ;;;
  sys_setgroups [gid c] ;;;
  sys_setresgid (gid c) ;;;
  sys_setresuid (uid c) ;;;
  us <- sys_getresuid ;;
  gs <- sys_getresgid ;;
  require (triple_is us (uid c) && triple_is gs (gid c)) ;;;
  fsu <- total sys_fsuid ;;
  require (fsu =? uid c) ;;;
  fsg <- total sys_fsgid ;;
  require (fsg =? gid c) ;;;
  observed <- sys_getgroups ;;
  require (bool_decide (observed = [gid c])).

Definition rx_identity (c : storage_context J) (mount_only : bool) : M W unit :=
  sys_ambient_clear_all ;;;
  drop_bounding 64 0 mount_only ;;;
  (if beq (protocol c) (bs "nfs") then become_nfs_user c mount_only
   else require (negb mount_only)) ;;;
  caps_only mount_only ;;;
  sys_set_no_new_privs ;;;
  sys_set_pdeathsig SIGTERM ;;;
  alive <- rx_parent_alive c ;;
  require alive.

Definition net_magic (t : Z) : bool :=
  (t =? NFS_SUPER_MAGIC) || (t =? CIFS_SUPER_MAGIC) || (t =? SMB2_SUPER_MAGIC)
  || (t =? SMB_SUPER_MAGIC).

Fixpoint fd_contract_loop (n : nat) (fd request data result : Z) : M W unit :=
  match n with
  | O => ret tt
  | S n =>
      require ((fd =? request) || (fd =? data) || (fd =? result) || (fd =? 3)) ;;;
      s <- sys_fstat fd ;;
      t <- sys_fstatfs fd ;;
      require (negb (net_magic t || S_ISBLK (st_mode s) || S_ISCHR (st_mode s))) ;;;
      require ((fd =? 3) || S_ISFIFO (st_mode s)) ;;;
      fd_contract_loop n (fd + 1) request data result
  end.

Definition rx_fd_contract (request data result : Z) : M W unit :=
  fd_contract_loop 4 3 request data result.
End Proc.

(** ** What the kernel promises about credentials *)

Record creds_t := mk_creds {
  c_ambient : bool;  (** some ambient capability is set *)
  c_bset : Z -> bool;
  c_uids : Z * Z * Z; c_gids : Z * Z * Z; c_fsuid : Z; c_fsgid : Z; c_groups : list Z;
  c_eff : Z; c_perm : Z; c_inh : Z;
  c_no_new_privs : bool; c_pdeathsig : option Z
}.

Definition with_bset b k := mk_creds (c_ambient k) b (c_uids k) (c_gids k) (c_fsuid k) (c_fsgid k)
  (c_groups k) (c_eff k) (c_perm k) (c_inh k) (c_no_new_privs k) (c_pdeathsig k).
Definition with_groups g k := mk_creds (c_ambient k) (c_bset k) (c_uids k) (c_gids k) (c_fsuid k)
  (c_fsgid k) g (c_eff k) (c_perm k) (c_inh k) (c_no_new_privs k) (c_pdeathsig k).
Definition with_gid g k := mk_creds (c_ambient k) (c_bset k) (c_uids k) (g, g, g) (c_fsuid k)
  g (c_groups k) (c_eff k) (c_perm k) (c_inh k) (c_no_new_privs k) (c_pdeathsig k).
Definition with_uid u k := mk_creds (c_ambient k) (c_bset k) (u, u, u) (c_gids k) u
  (c_fsgid k) (c_groups k) (c_eff k) (c_perm k) (c_inh k) (c_no_new_privs k) (c_pdeathsig k).
Definition with_caps e p i k := mk_creds (c_ambient k) (c_bset k) (c_uids k) (c_gids k) (c_fsuid k)
  (c_fsgid k) (c_groups k) e p i (c_no_new_privs k) (c_pdeathsig k).
Definition with_flags a n d k := mk_creds a (c_bset k) (c_uids k) (c_gids k) (c_fsuid k)
  (c_fsgid k) (c_groups k) (c_eff k) (c_perm k) (c_inh k) n d.

Definition unset (b : Z -> bool) (cap : Z) : Z -> bool := fun c => if c =? cap then false else b c.

Class KernelProcLaws (W : Type) `{KernelProc W} := {
  creds : W -> creds_t;
  fd_stat : W -> Z -> option stat;
  fd_type : W -> Z -> option Z;
  getppid_law w : creds (snd (sys_getppid w)) = creds w /\
    fd_stat (snd (sys_getppid w)) = fd_stat w /\ fd_type (snd (sys_getppid w)) = fd_type w;
  fstat_law fd w : fst (sys_fstat fd w) = fd_stat w fd /\
    fd_stat (snd (sys_fstat fd w)) = fd_stat w /\ fd_type (snd (sys_fstat fd w)) = fd_type w;
  fstatfs_law fd w : fst (sys_fstatfs fd w) = fd_type w fd /\
    fd_stat (snd (sys_fstatfs fd w)) = fd_stat w /\ fd_type (snd (sys_fstatfs fd w)) = fd_type w;
  ambient_law w w' : sys_ambient_clear_all w = (Some tt, w') ->
    creds w' = with_flags false (c_no_new_privs (creds w)) (c_pdeathsig (creds w)) (creds w);
  capbset_read_law cap w r w' : sys_capbset_read cap w = (r, w') -> creds w' = creds w /\
    match r with
    | IoOk b => b = c_bset (creds w) cap
    | IoErr e => e = EINVAL -> forall cap', cap <= cap' -> c_bset (creds w) cap' = false
    end;
  capbset_drop_law cap w w' : sys_capbset_drop cap w = (Some tt, w') ->
    creds w' = with_bset (unset (c_bset (creds w)) cap) (creds w);
  keepcaps_law b w w' : sys_set_keepcaps b w = (Some tt, w') -> creds w' = creds w;
  setgroups_law l w w' : sys_setgroups l w = (Some tt, w') -> creds w' = with_groups l (creds w);
  setresgid_law g w w' : sys_setresgid g w = (Some tt, w') -> creds w' = with_gid g (creds w);
  (** capabilities may be cleared, depending on KEEPCAPS *)
  setresuid_law u w w' : sys_setresuid u w = (Some tt, w') ->
    exists e p i, creds w' = with_caps e p i (with_uid u (creds w));
  getresuid_law w r w' : sys_getresuid w = (Some r, w') -> creds w' = creds w /\ r = c_uids (creds w);
  getresgid_law w r w' : sys_getresgid w = (Some r, w') -> creds w' = creds w /\ r = c_gids (creds w);
  fsuid_law w r w' : sys_fsuid w = (r, w') -> creds w' = creds w /\ r = c_fsuid (creds w);
  fsgid_law w r w' : sys_fsgid w = (r, w') -> creds w' = creds w /\ r = c_fsgid (creds w);
  getgroups_law w r w' : sys_getgroups w = (Some r, w') ->
    creds w' = creds w /\ r = c_groups (creds w);
  capset_law e p i w w' : sys_capset e p i w = (Some tt, w') ->
    creds w' = with_caps e p i (creds w);
  no_new_privs_law w w' : sys_set_no_new_privs w = (Some tt, w') ->
    creds w' = with_flags (c_ambient (creds w)) true (c_pdeathsig (creds w)) (creds w);
  pdeathsig_law s w w' : sys_set_pdeathsig s w = (Some tt, w') ->
    creds w' = with_flags (c_ambient (creds w)) (c_no_new_privs (creds w)) (Some s) (creds w)
}.

Section Identity.
Context {W : Type} `{KPL : KernelProcLaws W} {J : Type}.
Implicit Types w : W.

(** Only the bounding set changes, and what is left of it from [cap] on is at
    most CAP_SYS_ADMIN, when mounting. *)
Lemma drop_bounding_spec n cap mo w u w' :
  drop_bounding n cap mo w = (Some u, w') ->
  exists b, creds w' = with_bset b (creds w) /\
    (forall c, b c = true -> c_bset (creds w) c = true) /\
    (forall c, cap <= c < cap + Z.of_nat n -> b c = true -> mo = true /\ c = CAP_SYS_ADMIN).
Proof.
  revert cap w. induction n as [|n IH]; intros cap w Hr; simpl in Hr.
  { injection Hr as _ <-. exists (c_bset (creds w)). split_and!; [by destruct (creds w)|done|lia]. }
  apply run_bind in Hr as (r & w1 & R & Hr). apply run_total, capbset_read_law in R as [E Hb].
  destruct r as [p|e].
  - apply run_bind in Hr as (x & w2 & R2 & Hr). apply IH in Hr as (b & Eb & Hsub & Hb').
    assert (Hw2 : exists b2, creds w2 = with_bset b2 (creds w) /\
      (forall c, b2 c = true -> c_bset (creds w) c = true) /\
      (b2 cap = true -> mo = true /\ cap = CAP_SYS_ADMIN)).
    { destruct (p && _) eqn:Ep.
      - destruct x. apply capbset_drop_law in R2. rewrite R2, E. eexists. split_and!; [done|..].
        + intros c. unfold unset. by destruct (c =? cap).
        + unfold unset. by rewrite Z.eqb_refl.
      - injection R2 as _ <-. exists (c_bset (creds w)). rewrite E.
        split_and!; [by destruct (creds w)|done|]. rewrite <- Hb. intros ->.
        simpl in Ep. breflect. done. }
    destruct Hw2 as (b2 & E2 & Hs2 & H2). rewrite E2 in Eb, Hsub. exists b.
    split_and!; [done|intros; by apply Hs2, Hsub|].
    intros c Hc Hbc. destruct (decide (c = cap)) as [->|]; [by apply H2, Hsub|].
    apply Hb'; [lia|done].
  - destruct (decide (e = EINVAL)) as [->|]; [|by destruct e].
    assert (ret tt w1 = (Some u, w')) as [= _ <-] by done.
    exists (c_bset (creds w)). rewrite E. split_and!; [by destruct (creds w)|done|].
    intros c Hc. rewrite Hb by (done || lia). done.
Qed.

(** The identity of the process after [become_nfs_user]. *)
Definition is_user (c : storage_context J) (k : creds_t) : Prop :=
  c_uids k = (uid c, uid c, uid c) /\ c_gids k = (gid c, gid c, gid c) /\
  c_fsuid k = uid c /\ c_fsgid k = gid c /\ c_groups k = [gid c].

Lemma become_nfs_user_spec (c : storage_context J) mo w u w' :
  become_nfs_user c mo w = (Some u, w') ->
  is_user c (creds w') /\ exists e p i,
    creds w' = with_caps e p i (with_uid (uid c) (with_gid (gid c) (with_groups [gid c] (creds w)))).
Proof.
  unfold become_nfs_user. intros Hr. run_inv.
  repeat match goal with u : unit |- _ => destruct u end.
  repeat match goal with
  | H : sys_set_keepcaps _ _ = _ |- _ => apply keepcaps_law in H
  | H : sys_setgroups _ _ = _ |- _ => apply setgroups_law in H
  | H : sys_setresgid _ _ = _ |- _ => apply setresgid_law in H
  | H : sys_setresuid _ _ = _ |- _ => apply setresuid_law in H as (e & p & i & H)
  | H : sys_getresuid _ = _ |- _ => apply getresuid_law in H as [H ?]
  | H : sys_getresgid _ = _ |- _ => apply getresgid_law in H as [H ?]
  | H : sys_fsuid _ = _ |- _ => apply fsuid_law in H as [H ?]
  | H : sys_fsgid _ = _ |- _ => apply fsgid_law in H as [H ?]
  | H : sys_getgroups _ = _ |- _ => apply getgroups_law in H as [H ?]
  end.
  match goal with |- is_user _ ?k /\ _ =>
    assert (E : exists e p i,
      k = with_caps e p i (with_uid (uid c) (with_gid (gid c) (with_groups [gid c] (creds w)))))
  end.
  { exists e, p, i. congruence. }
  split; [|exact E]. destruct E as (? & ? & ? & ->). by split_and!.
Qed.
Definition job_caps (mount_only : bool) : Z := if mount_only then 2 ^ 21 else 0.

Lemma rx_identity_post (c : storage_context J) mo w w' :
  rx_identity c mo w = (Some tt, w') ->
  let k := creds w' in
  (c_eff k = job_caps mo /\ c_perm k = job_caps mo /\ c_inh k = 0 /\ c_ambient k = false) /\
  (forall cap, 0 <= cap < 64 -> c_bset k cap = true -> mo = true /\ cap = CAP_SYS_ADMIN) /\
  c_no_new_privs k = true /\ c_pdeathsig k = Some SIGTERM /\ 1 < parent c /\
  (if beq (protocol c) (bs "nfs") then is_user c k
   else mo = false /\ c_uids k = c_uids (creds w)).
Proof.
  unfold rx_identity, caps_only, rx_parent_alive. intros Hr. run_inv.
  repeat match goal with u : unit |- _ => destruct u end.
  repeat match goal with
  | H : sys_ambient_clear_all _ = _ |- _ => apply ambient_law in H
  | H : drop_bounding _ _ _ _ = _ |- _ => apply drop_bounding_spec in H as (b & H & _ & Hb)
  | H : sys_capset _ _ _ _ = _ |- _ => apply capset_law in H
  | H : sys_set_no_new_privs _ = _ |- _ => apply no_new_privs_law in H
  | H : sys_set_pdeathsig _ _ = _ |- _ => apply pdeathsig_law in H
  end.
  destruct (1 <? parent c) eqn:Ep; [|by run_inv]. breflect. run_inv.
  match goal with H : sys_getppid ?w0 = (_, ?w1) |- _ =>
    destruct (getppid_law w0) as [Hpp _]; rewrite H in Hpp; cbn [snd] in Hpp end.
  assert (Ek : (if mo then Z.shiftl 1 CAP_SYS_ADMIN else 0) = job_caps mo) by (by destruct mo).
  rewrite Ek in R2. cbv zeta. rewrite Hpp, R4, R3, R2.
  destruct (beq (protocol c) (bs "nfs")); cbn.
  - apply become_nfs_user_spec in R1 as [_ (e & p & i & E)].
    rewrite E, R0, R. cbn. split_and!; done || exact Hb.
  - run_inv. rewrite R0, R. cbn. breflect. split_and!; done || exact Hb.
Qed.


Lemma fd_contract_loop_spec n fd r d q w u w' :
  fd_contract_loop n fd r d q w = (Some u, w') ->
  forall i, fd <= i < fd + Z.of_nat n ->
  (i = r \/ i = d \/ i = q \/ i = 3) /\
  exists s t, fd_stat w i = Some s /\ fd_type w i = Some t /\ net_magic t = false /\
    S_ISBLK (st_mode s) = false /\ S_ISCHR (st_mode s) = false /\
    (i <> 3 -> S_ISFIFO (st_mode s) = true).
Proof.
  revert fd w. induction n as [|n IH]; intros fd w Hr i Hi; [lia|]. cbn [fd_contract_loop] in Hr.
  run_inv.
  match goal with H : sys_fstat _ _ = _ |- _ =>
    destruct (fstat_law fd w) as (F1 & F2 & F3); rewrite H in F1, F2, F3; cbn [fst snd] in * end.
  match goal with H : sys_fstatfs _ ?w1 = _ |- _ =>
    destruct (fstatfs_law fd w1) as (G1 & G2 & G3); rewrite H in G1, G2, G3; cbn [fst snd] in * end.
  destruct (decide (i = fd)) as [->|].
  - rewrite <- F1, <- F3, <- G1. split.
    + repeat match goal with H : _ || _ = true |- _ => apply orb_true_iff in H as [H|H] end;
        breflect; tauto.
    + eexists _, _. breflect. split_and!; try done. intros ?. destruct Q; by breflect.
  - apply IH with (i := i) in Hr; [|lia]. by rewrite G2, F2, G3, F3 in Hr.
Qed.

(** [rx_fd_contract] accepts the three pipe descriptors exactly as 4, 5
    and 6 in some order: each is a FIFO, the context descriptor 3 is neither a
    block nor a character device, and none of the four is on a network file
    system. *)
Theorem rx_fd_contract_spec r d q w w' :
  rx_fd_contract r d q w = (Some tt, w') ->
  Permutation [4; 5; 6] [r; d; q] /\
  forall fd, 3 <= fd <= 6 -> exists s t, fd_stat w fd = Some s /\ fd_type w fd = Some t /\
    net_magic t = false /\ S_ISBLK (st_mode s) = false /\ S_ISCHR (st_mode s) = false /\
    (fd <> 3 -> S_ISFIFO (st_mode s) = true).
Proof.
  intros Hr. pose proof (fd_contract_loop_spec _ _ _ _ _ _ _ _ Hr) as Hs. split.
  - apply NoDup_Permutation_bis; [|simpl; lia|].
    + repeat constructor; simpl; lia.
    + intros x Hx. simpl in Hx. destruct (Hs x ltac:(lia)) as [Hx' _]. simpl. lia.
  - intros fd Hfd. exact (proj2 (Hs fd ltac:(lia))).
Qed.
End Identity.

(** ** The server address *)

Lemma split_no_bracket h p :
  head h <> Some 91 -> 58 ∉ h -> 58 ∉ p -> split_server (h ++ 58 :: p) = Some (h, Some p).
Proof.
  intros Hb Hh Hp.
  assert (H1 : strchr 58 (h ++ 58 :: p) = Some (h, p)) by (by apply strchr_Some).
  assert (H2 : strrchr 58 (h ++ 58 :: p) = Some (h, p)) by (by apply strrchr_Some).
  unfold split_server. rewrite H1, H2, beq_refl.
  destruct h as [|c h]; [done|]. simpl. destruct (decide (c = 91)) as [->|]; [done|].
  destruct c as [|q|q]; try done. by repeat (destruct q as [q|q|]; try done).
Qed.

Lemma parse_port_print d n : 1 <= n <= 65535 -> parse_port d (Some (print_dec n)) = Some n.
Proof.
  intros Hn. unfold parse_port. rewrite (proj2 (beq_false _ _)) by apply print_base_nonempty.
  rewrite (proj2 (forallb_iff _ _)) by apply print_dec_digits. simpl negb. cbn [orb].
  rewrite strtoull_print_dec by (unfold UINT64_MAX; lia). rewrite beq_refl. cbn [orb negb].
  by rewrite (proj2 (Z.eqb_neq n 0)), (proj2 (Z.ltb_ge 65535 n)) by lia.
Qed.

Lemma parse_port_range d ps n :
  1 <= d <= 65535 -> parse_port d ps = Some n -> 1 <= n <= 65535.
Proof.
  intros Hd. unfold parse_port. destruct ps as [ps|]; [|by intros [= <-]].
  destruct (_ || _); [done|]. pose proof (strtoull_range 10 ps ltac:(lia)) as Hr.
  destruct (strtoull 10 ps) as [[v e] er]. destruct (_ || _) eqn:E; [done|].
  intros [= <-]. breflect. simpl in Hr. lia.
Qed.

(** The forms of a server address: [host:port] gives the host and the
    port, [[address]:port] keeps the brackets, and an address with no port -
    a bare host, a bracketed address, or an IPv6 address with more than one
    colon - is kept whole with the protocol's default port. *)
Theorem server_address_forms d n h :
  1 <= n <= 65535 ->
  let parse := parse_server d in
  (head h <> Some 91 -> 58 ∉ h -> parse (h ++ 58 :: print_dec n) = Some (h, n) /\ parse h = Some (h, d)) /\
  (93 ∉ h -> parse (91 :: h ++ 93 :: 58 :: print_dec n) = Some (91 :: h ++ [93], n) /\
    parse (91 :: h ++ [93]) = Some (91 :: h ++ [93], d)) /\
  (forall a b c, head a <> Some 91 -> h = a ++ 58 :: b ++ 58 :: c -> 58 ∉ a -> 58 ∉ c ->
    parse h = Some (h, d)).
Proof.
  intros Hn parse.
  assert (Hdig : 58 ∉ print_dec n).
  { pose proof (print_dec_digits n) as Hd. rewrite Forall_forall in Hd. intros Hin. by apply Hd in Hin. }
  assert (Hplain : forall s, head s <> Some 91 ->
    split_server s = match strchr 58 s, strrchr 58 s with
      | Some (a, ps), Some (a', _) => if beq a a' then Some (a, Some ps) else Some (s, None)
      | _, _ => Some (s, None) end).
  { intros [|c s] Hs; [done|]. simpl. destruct (decide (c = 91)) as [->|]; [done|].
    destruct c as [|q|q]; try done. by repeat (destruct q as [q|q|]; try done). }
  split_and!.
  - intros Hb Hh. unfold parse, parse_server. split.
    + rewrite split_no_bracket by done. by rewrite parse_port_print.
    + rewrite Hplain by done. by rewrite (proj2 (strchr_None 58 h)).
  - intros Hh. unfold parse, parse_server. split.
    + assert (E : strchr 93 (91 :: h ++ 93 :: 58 :: print_dec n) = Some (91 :: h, 58 :: print_dec n)).
      { apply strchr_Some. split; [done|]. rewrite not_elem_of_cons. by split. }
      unfold split_server. rewrite E. cbn [Z.eqb Pos.eqb negb]. by rewrite parse_port_print.
    + assert (E : strchr 93 (91 :: h ++ [93]) = Some (91 :: h, [])).
      { apply strchr_Some. split; [done|]. rewrite not_elem_of_cons. by split. }
      unfold split_server. by rewrite E.
  - intros a b c Hb -> Ha Hc. unfold parse, parse_server. rewrite Hplain.
    2:{ by destruct a. }
    rewrite (proj2 (strchr_Some 58 _ a (b ++ 58 :: c))) by done.
    rewrite (proj2 (strrchr_Some 58 _ (a ++ 58 :: b) c)) by (by rewrite <- app_assoc).
    rewrite (proj2 (beq_false _ _)); [done|]. intros E.
    apply (f_equal length) in E. rewrite length_app in E. simpl in E. lia.
Qed.

Lemma server_address_forms_witness :
  parse_server 2049 (bs "nas:2050") = Some (bs "nas", 2050).
Proof.
  destruct (server_address_forms 2049 2050 (bs "nas") ltac:(lia)) as [H _].
  apply H; [done|]. apply (proj1 (mem_byte_false 58 (bs "nas"))). reflexivity.
Defined.

Lemma split_server_host s h ps : split_server s = Some (h, ps) -> exists t, s = h ++ t.
Proof.
  unfold split_server. intros H.
  assert (Hchr : forall c a b, strchr c s = Some (a, b) -> s = a ++ c :: b) by (intros c a b E; by apply strchr_Some in E as [-> _]).
  assert (Hrest : match strchr 58 s, strrchr 58 s with
      | Some (a, ps), Some (a', _) => if beq a a' then Some (a, Some ps) else Some (s, None)
      | _, _ => Some (s, None) end = Some (h, ps) -> exists t, s = h ++ t).
  { destruct (strchr 58 s) as [[a b]|] eqn:E1; [|intros; simplify_eq; exists []; by rewrite app_nil_r].
    destruct (strrchr 58 s) as [[a' b']|]; [|intros; simplify_eq; exists []; by rewrite app_nil_r].
    destruct (beq a a'); intros; simplify_eq; [exists (58 :: b); by apply Hchr|exists []; by rewrite app_nil_r]. }
  destruct (decide (head s = Some 91)) as [Hb|Hb].
  - destruct s as [|c s]; [done|]. injection Hb as ->. simpl in H.
    destruct (strchr 93 s) as [[a b]|] eqn:E; [|done]. apply strchr_Some in E as [-> _].
    destruct b as [|x b]; [simplify_eq; exists []; by rewrite app_nil_r|].
    destruct (x =? 58); [|done]. simplify_eq/=. exists (x :: b). by rewrite <- app_assoc.
  - apply Hrest. destruct s as [|c s]; [done|]. simpl in Hb. assert (c <> 91) by congruence.
    destruct c as [|q|q]; try exact H. by repeat (destruct q as [q|q|]; try exact H).
Qed.

(** The test for an empty server is made before the port is cut off: an
    address that is only a port leaves an empty host. *)
Example empty_host_accepted : parse_server 445 (bs ":445") = Some ([], 445).
Proof. reflexivity. Qed.

(** ** A loaded context is well formed *)

Lemma digits_atom n : 0 <= n <= UINT64_MAX -> atom_ok (print_dec n).
Proof.
  intros Hn. pose proof (print_dec_digits n) as Hd. pose proof (print_dec_u64_length n Hn).
  assert (Hc : Forall (fun c => 48 <= c <= 57) (print_dec n)).
  { eapply Forall_impl; [exact Hd|]. intros c Hc. by apply is_digit_iff. }
  assert (Hdot : 46 ∉ print_dec n) by (intros Hin; rewrite Forall_forall in Hc; apply Hc in Hin; lia).
  split_and!; [apply print_base_nonempty|lia| | | |].
  - intros E. apply Hdot. rewrite E. by left.
  - intros E. apply Hdot. rewrite E. by left.
  - eapply Forall_impl; [exact Hc|]. simpl. intros c ?. unfold path_char_ok. bgoal. lia.
  - intros Hin. rewrite Forall_forall in Hc. apply Hc in Hin. lia.
Qed.

Lemma hex_atom s n : (0 < n <= 255)%nat -> rx_hex (Some s) n = true ->
  atom_ok s /\ length s = n /\ Forall (fun c => hex_char c = true) s.
Proof.
  intros Hn. unfold rx_hex. destruct (length s =? n)%nat eqn:El; [|done]. cbn [negb].
  destruct (forallb hex_char s) eqn:Ef; [|done]. intros _. breflect. apply forallb_iff in Ef.
  assert (Hc : Forall (fun c => 48 <= c <= 102) s).
  { eapply Forall_impl; [exact Ef|]. simpl. intros c Hc. unfold hex_char in Hc. blia. }
  assert (Hdot : 46 ∉ s) by (intros Hin; rewrite Forall_forall in Hc; apply Hc in Hin; lia).
  split; [|done]. split_and!; [by destruct s; simpl in *; [lia|]|lia| | | |].
  - intros ->. apply Hdot. by left.
  - intros ->. apply Hdot. by left.
  - eapply Forall_impl; [exact Ef|]. simpl. intros c Hx. unfold hex_char, path_char_ok in *. blia.
  - intros Hin. rewrite Forall_forall in Ef. by apply Ef in Hin.
Qed.

Lemma single_atom t : t <> [] -> rx_relative (Some t) false = true -> 47 ∉ t -> atom_ok t.
Proof.
  intros Hne Hr Hn. apply rx_relative_iff in Hr as [[? _]|(_ & l & E & Hl & Ha)]; [done|].
  apply join_single in E; [|done|by destruct l; simpl in Hl; [lia|]]. subst l. by inversion Ha.
Qed.

Lemma rx_string_length {J} `{JsonC J} (o : J) k n s :
  rx_string o k n = Some s -> (length s <= n)%nat.
Proof. unfold rx_string. intros H0. repeat case_match; simplify_eq. breflect. done. Qed.

Lemma rx_u64_range {J} `{JsonC J} (o : J) k n : rx_u64 o k = Some n -> 0 <= n <= UINT64_MAX.
Proof.
  unfold rx_u64. destruct (json_object_object_get_ex o k) as [v|]; [|done].
  destruct (negb _); [done|]. destruct (bool_decide _); [done|].
  pose proof (strtoull_range 10 (json_object_get_string v) ltac:(lia)) as Hr.
  destruct (strtoull 10 _) as [[m e] er]. destruct (_ || _); [done|]. by intros [= <-].
Qed.

Section Loaded.
Context {J : Type} `{JsonC J}.
Implicit Types c : storage_context J.

(** The export path: absolute for NFS, share and directory for SMB. *)
Definition export_ok c : Prop :=
  if beq (protocol c) (bs "nfs")
  then export_path c = bs "/" \/ exists r, export_path c = 47 :: r /\ relative_path r
  else relative_path (export_path c).

Definition stage_ok c : Prop :=
  exists task attempt, atom_ok task /\ (length task <= 64)%nat /\ 1 <= attempt <= UINT64_MAX /\
    stage c = join [bs "dev"; task; print_dec attempt].

Definition lock_ok c : Prop :=
  exists target, length target = 64%nat /\ Forall (fun x => hex_char x = true) target /\
    lock c = join [bs ".locks"; target].

Definition context_ok c : Prop :=
  (protocol c = bs "nfs" \/ protocol c = bs "smb") /\
  ((length (server c) <= 255)%nat /\ Forall (fun x => server_char_ok x = true) (server c)) /\
  ((length (export_path c) <= 4095)%nat /\ export_ok c) /\
  ((length (version c) <= 15)%nat /\ version_ok (protocol c) (version c) = true) /\
  relative_path (image_path c) /\
  (stage_ok c /\ relative_path (stage c) /\ (length (stage c) <= 255)%nat) /\
  (lock_ok c /\ relative_path (lock c) /\ (length (lock c) <= 127)%nat) /\
  (1 <= port c <= 65535 /\ 0 <= sequence c <= UINT64_MAX) /\
  (0 <= uid c <= 4294967294 /\ 0 <= gid c <= 4294967294).

Lemma rx_relative_false s : rx_relative (Some s) false = true -> relative_path s.
Proof. intros Hr. by apply rx_relative_iff in Hr as [[_ ?]|?]. Qed.

Lemma load_identity_ok j p root u g :
  load_identity j p root = Some (u, g) ->
  (0 <= u <= 4294967294 /\ 0 <= g <= 4294967294) /\
  (if beq p (bs "nfs") then root = bs "/" \/ exists r, root = 47 :: r /\ relative_path r
   else relative_path root).
Proof.
  unfold load_identity. destruct (beq p (bs "nfs")).
  - destruct (decide (head root = Some 47)) as [Hh|Hh].
    2:{ destruct root as [|x root]; [done|]. simpl in Hh. assert (x <> 47) by congruence.
        destruct x as [|q|q]; try done. by repeat (destruct q as [q|q|]; try done). }
    destruct root as [|x r]; [done|]. injection Hh as ->.
    destruct (negb (beq r []) && negb (rx_relative (Some r) false)) eqn:Er; [done|].
    destruct (rx_u64 j (bs "nfsUid")) as [u'|] eqn:Eu; [|done].
    destruct (rx_u64 j (bs "nfsGid")) as [g'|] eqn:Eg; [|done]. simpl.
    apply rx_u64_range in Eu, Eg. destruct (_ || _) eqn:El; [done|]. intros [= <- <-]. breflect.
    split; [lia|]. destruct Er as [Er|Er]; breflect.
    + left. by subst.
    + right. exists r. split; [done|]. by apply rx_relative_false.
  - destruct (rx_relative (Some root) false) eqn:Er; [|done]. intros [= <- <-].
    split; [lia|]. by apply rx_relative_false.
Qed.

Lemma rx_hex_field_ok (o : J) k n s :
  (0 < n <= 255)%nat -> rx_hex_field o k n = Some s ->
  atom_ok s /\ length s = n /\ Forall (fun x => hex_char x = true) s.
Proof.
  unfold rx_hex_field. intros Hn Hs. destruct (rx_string o k n); [|done].
  destruct (rx_hex _ n) eqn:E; [|done]. simplify_eq. by apply hex_atom.
Qed.

Lemma load_owner_ok (o : J) task attempt target :
  load_owner o = Some (task, attempt, target) ->
  atom_ok task /\ (length task <= 64)%nat /\ 1 <= attempt <= UINT64_MAX /\
  atom_ok target /\ length target = 64%nat /\ Forall (fun x => hex_char x = true) target.
Proof.
  unfold load_owner. intros Hl. opt_inv Hl. simplify_eq. breflect.
  match goal with H : rx_string o (bs "taskId") _ = _ |- _ => apply rx_string_length in H end.
  match goal with H : rx_u64 _ _ = _ |- _ => apply rx_u64_range in H end.
  match goal with H : rx_hex_field o (bs "targetKey") _ = _ |- _ =>
    apply rx_hex_field_ok in H as (? & ? & ?); [|lia] end.
  split_and!; try done; try lia. apply single_atom; [done..|]. by apply mem_byte_false.
Qed.

Lemma load_sequence_ok (j : J) n : load_sequence j = Some n -> 0 <= n <= UINT64_MAX.
Proof.
  unfold load_sequence. intros Hl. opt_inv Hl. destruct (beq _ (bs "0")); [simplify_eq; unfold UINT64_MAX; lia|].
  apply rx_sequence_iff in Hl. lia.
Qed.
Lemma dev_atom : atom_ok (bs "dev").
Proof.
  split_and!; try done; [by apply Nat.leb_le|by repeat constructor|]. by apply (proj1 (mem_byte_false 47 _)).
Qed.

Lemma locks_atom : atom_ok (bs ".locks").
Proof.
  split_and!; try done; [by apply Nat.leb_le|by repeat constructor|]. by apply (proj1 (mem_byte_false 47 _)).
Qed.

Lemma dev_path_ok task n :
  atom_ok task -> (length task <= 64)%nat -> 1 <= n <= UINT64_MAX ->
  snprintf 256 (bs "dev/" ++ task ++ [47] ++ print_dec n) = join [bs "dev"; task; print_dec n] /\
  relative_path (join [bs "dev"; task; print_dec n]) /\
  (length (join [bs "dev"; task; print_dec n]) <= 255)%nat.
Proof.
  intros Ht Hl Hn. pose proof (print_dec_u64_length n ltac:(lia)).
  assert (Hlen : (length (join [bs "dev"; task; print_dec n]) <= 100)%nat).
  { cbn [join]. rewrite length_app. cbn [length]. rewrite length_app. cbn [length].
    change (length (bs "dev")) with 3%nat. lia. }
  split_and!; [|split; [lia|]|lia].
  - unfold snprintf. rewrite take_ge; [done|]. etrans; [exact Hlen|lia].
  - eexists. split_and!; [done|simpl; lia..|]. rewrite !Forall_cons.
    split_and!; [apply dev_atom|done|apply digits_atom; lia|constructor].
Qed.

Lemma lock_path_ok target :
  atom_ok target -> length target = 64%nat ->
  snprintf 128 (bs ".locks/" ++ target) = join [bs ".locks"; target] /\
  relative_path (join [bs ".locks"; target]) /\ (length (join [bs ".locks"; target]) <= 127)%nat.
Proof.
  intros Ht Hl.
  assert (Hlen : (length (join [bs ".locks"; target]) <= 71)%nat).
  { cbn [join]. rewrite length_app. cbn [length]. change (length (bs ".locks")) with 6%nat. lia. }
  split_and!; [|split; [lia|]|lia].
  - unfold snprintf. rewrite take_ge; [done|]. etrans; [exact Hlen|lia].
  - eexists. split_and!; [done|simpl; lia..|]. rewrite !Forall_cons.
    split_and!; [apply locks_atom|done|constructor].
Qed.

Lemma parse_server_ok d s host port :
  1 <= d <= 65535 -> forallb server_char_ok s = true -> (length s <= 255)%nat ->
  parse_server d s = Some (host, port) -> 1 <= port <= 65535 /\
  (length host <= 255)%nat /\ Forall (fun x => server_char_ok x = true) host.
Proof.
  intros Hd Hc Hl. unfold parse_server. destruct (split_server s) as [[h ps]|] eqn:Es; [|done].
  destruct (parse_port d ps) eqn:Ep; [|done]. intros [= <- <-].
  apply parse_port_range in Ep; [|done]. apply split_server_host in Es as [t ->].
  apply forallb_iff, Forall_app in Hc as [Hc _]. rewrite length_app in Hl. split_and!; [lia|lia|lia|done].
Qed.

Lemma load_fields_ok (j : J) ppid c :
  load_fields j ppid = Some c -> context_ok c /\ parent c = ppid.
Proof.
  unfold load_fields. intros Hl. opt_inv Hl. subst c. breflect.
  repeat match goal with H : rx_string _ _ _ = Some _ |- _ => apply rx_string_length in H end.
  match goal with H : load_owner _ = _ |- _ =>
    apply load_owner_ok in H as (Ht & Htl & Ha & Hg & Hgl & Hgh) end.
  match goal with H : load_sequence _ = _ |- _ => apply load_sequence_ok in H end.
  match goal with H : load_identity _ _ _ = _ |- _ => apply load_identity_ok in H as [Hid Hexp] end.
  match goal with H : parse_server _ _ = _ |- _ =>
    apply parse_server_ok in H as (Hport & Hserver); [|destruct (beq _ _); lia|done..] end.
  edestruct dev_path_ok as (-> & Hs1 & Hs2); [done..|].
  edestruct lock_path_ok as (-> & Hk1 & Hk2); [done..|].
  split; [|done]. unfold context_ok, stage_ok, lock_ok, export_ok. cbn [protocol server export_path
    version image_path stage lock port sequence uid gid].
  split_and!; try done; try lia.
  - unfold one_of in G0. cbn [existsb] in G0. rewrite !orb_true_iff, !beq_true in G0.
    by destruct G0 as [?|[?|?]]; auto.
  - apply Hserver.
  - by apply rx_relative_false.
  - exists l1, z0. split_and!; done || lia.
  - exists l0. by split_and!.
Qed.
Context {W : Type} `{KernelIO W} `{KPL : KernelProcLaws W}.

(** C12: A context [rx_load_context] accepts is well formed: every string
    fits the buffer it is copied to, the paths the job may touch - image,
    stage directory ["dev/<task>/<attempt>"], lock [".locks/<target>"] and
    export - are relative paths that cannot escape (none was truncated by
    [snprintf]), the port, the sequence number and the numeric identity are
    in range.  It came from a regular file of root that nobody else can
    access and that is not on a network file system. *)
Theorem rx_load_context_ok fd (w w' : W) c :
  rx_load_context fd w = (Some c, w') ->
  context_ok c /\ parent c = fst (sys_getppid w) /\
  exists s t, fd_stat w fd = Some s /\ fd_type w fd = Some t /\
    S_ISREG (st_mode s) = true /\ st_uid s = 0 /\ Z.land (st_mode s) 63 = 0 /\
    t <> NFS_SUPER_MAGIC /\ t <> CIFS_SUPER_MAGIC.
Proof.
  unfold rx_load_context. intros Hr. run_inv. injection Hr as Hl <-.
  apply load_fields_ok in Hl as [Hok Hp]. split; [done|].
  match goal with H : sys_getppid _ = _ |- _ =>
    destruct (getppid_law w) as (_ & P2 & P3); rewrite H in *; cbn [fst snd] in * end.
  match goal with H : sys_fstat _ ?w1 = _ |- _ =>
    destruct (fstat_law fd w1) as (F1 & F2 & F3); rewrite H in F1, F2, F3; cbn [fst snd] in * end.
  match goal with H : sys_fstatfs _ ?w1 = _ |- _ =>
    destruct (fstatfs_law fd w1) as (G1 & _); rewrite H in G1; cbn [fst] in * end.
  split; [done|]. breflect. rewrite <- P2, <- P3, <- F1, <- F3, <- G1. eexists _, _. by split_and!.
Qed.
End Loaded.

(** ** A concrete process *)
Module ToyProc.
Record world := mk_world {
  io : ToyIO.world; ppid : Z; cr : creds_t; st : Z -> option stat; ty : Z -> option Z;
  mounts : list (list Z * list Z * Z * list Z * io_result unit)
}.

Definition set_io i w := mk_world i (ppid w) (cr w) (st w) (ty w) (mounts w).
Definition set_cr k w := mk_world (io w) (ppid w) k (st w) (ty w) (mounts w).
Definition add_mount m w := mk_world (io w) (ppid w) (cr w) (st w) (ty w) (mounts w ++ [m]).

#[global] Instance kernel_io : KernelIO world := {
  intr w := intr (io w);
  sys_read fd n w := let '(r, i) := sys_read fd n (io w) in (r, set_io i w);
  sys_write fd p w := let '(r, i) := sys_write fd p (io w) in (r, set_io i w)
}.

Definition change (f : creds_t -> creds_t) : M world unit := modify (fun w => set_cr (f (cr w)) w).

#[global] Instance kernel_proc : KernelProc world := {
  sys_getppid w := (ppid w, w);
  sys_fstat fd w := (st w fd, w);
  sys_fstatfs fd w := (ty w fd, w);
  sys_ambient_clear_all := change (fun k => with_flags false (c_no_new_privs k) (c_pdeathsig k) k);
  sys_capbset_read cap w := (IoOk (c_bset (cr w) cap), w);
  sys_capbset_drop cap := change (fun k => with_bset (unset (c_bset k) cap) k);
  sys_set_keepcaps _ := ret tt;
  sys_setgroups l := change (with_groups l);
  sys_setresgid g := change (with_gid g);
  sys_setresuid u := change (fun k => with_caps 0 0 0 (with_uid u k));
  sys_getresuid := gets (fun w => c_uids (cr w));
  sys_getresgid := gets (fun w => c_gids (cr w));
  sys_fsuid w := (c_fsuid (cr w), w);
  sys_fsgid w := (c_fsgid (cr w), w);
  sys_getgroups := gets (fun w => c_groups (cr w));
  sys_capset e p i := change (with_caps e p i);
  sys_set_no_new_privs := change (fun k => with_flags (c_ambient k) true (c_pdeathsig k) k);
  sys_set_pdeathsig s := change (fun k => with_flags (c_ambient k) (c_no_new_privs k) (Some s) k)
}.

#[global] Program Instance proc_laws : KernelProcLaws world := {
  creds := cr;
  fd_stat := st;
  fd_type := ty
}.
Solve All Obligations with (intros; simpl in *; unfold change, modify, gets, ret in *; simplify_eq; try done).
Next Obligation.
  intros u w w' E. simpl in E. unfold change, modify in E. simplify_eq. by eexists 0, 0, 0.
Qed.

Definition root_creds : creds_t :=
  mk_creds true (fun c => c <? 41) (0, 0, 0) (0, 0, 0) 0 0 [0; 10] (2 ^ 41 - 1) (2 ^ 41 - 1) 0 false None.

(** A started helper: the context file on 3, pipes on 4, 5 and 6. *)
Definition w0 : world :=
  mk_world {| ToyIO.w_intr := 2; ToyIO.w_in := ToyIO.upd (fun _ => []) 3 (bs "job");
              ToyIO.w_out := fun _ => [] |}
    77 root_creds
    (fun fd => if fd =? 3 then Some {| st_mode := 33152; st_uid := 0 |}
               else Some {| st_mode := 4480; st_uid := 0 |})
    (fun _ => Some 16914836) [].

Definition hex64 : list Z := repeat 97 64.
Definition hex32 : list Z := repeat 98 32.

Definition job : ToyIO.json :=
  ToyIO.JObj [(bs "version", ToyIO.JInt 1); (bs "protocol", ToyIO.JStr (bs "nfs"));
    (bs "server", ToyIO.JStr (bs "nas:2050")); (bs "exportPath", ToyIO.JStr (bs "/images"));
    (bs "imagePath", ToyIO.JStr (bs "win11")); (bs "direction", ToyIO.JStr (bs "write"));
    (bs "sequence", ToyIO.JStr (bs "0")); (bs "nfsVersion", ToyIO.JStr (bs "4.2"));
    (bs "nfsUid", ToyIO.JInt 1000); (bs "nfsGid", ToyIO.JInt 1001);
    (bs "execution", ToyIO.JObj [(bs "domainId", ToyIO.JStr hex32);
      (bs "taskType", ToyIO.JStr (bs "capture")); (bs "taskId", ToyIO.JStr (bs "t1"));
      (bs "nonce", ToyIO.JStr hex32); (bs "targetKey", ToyIO.JStr hex64);
      (bs "configRevision", ToyIO.JStr hex64); (bs "executionAttempt", ToyIO.JInt 1)])].

#[global] Instance json_c : JsonC ToyIO.json := ToyIO.json_c_of (fun _ => job).

Definition run {A} (m : M world A) : world := snd (m w0).

Definition c0 : storage_context ToyIO.json :=
  mk_context job job (bs "nfs") (bs "nas") (bs "/images") (bs "win11") (bs "4.2")
    (bs "dev/t1/1") (bs ".locks/" ++ hex64) [] 1000 1001 2050 0 true 77.
End ToyProc.


Lemma rx_fd_contract_spec_witness : Permutation [4; 5; 6] [4; 5; 6].
Proof.
  exact (proj1 (rx_fd_contract_spec 4 5 6 ToyProc.w0 (ToyProc.run (rx_fd_contract 4 5 6)) eq_refl)).
Defined.

Lemma rx_load_context_ok_witness :
  exists c : storage_context ToyIO.json, context_ok c /\ stage c = bs "dev/t1/1".
Proof.
  destruct (rx_load_context (J := ToyIO.json) 3 ToyProc.w0) as [[c|] w'] eqn:E.
  - exists c. split; [exact (proj1 (rx_load_context_ok 3 ToyProc.w0 w' c E))|].
    vm_compute in E. injection E as <- _. reflexivity.
  - vm_compute in E. discriminate E.
Defined.
