(* ===== verification/StorageFs.v ===== *)
(** * rootpxe-storage-io: commands on the mounted storage

    Models [storage_fs.c].  The file system calls are the class [KernelFS] and
    OpenSSL's digests the class [Evp]; both act on the world [W].  The
    reference counts of json-c are not modelled: values are immutable here,
    and the program never changes an object after sharing it. *)
From S2P Require Import Prelude CLib StorageIO StorageContext.
Local Open Scope Z_scope.
Local Open Scope list_scope.
Local Open Scope cmonad_scope.

Record statx := mk_statx {
  stx_ino : Z; stx_dev_major : Z; stx_dev_minor : Z; stx_mode : Z; stx_size : Z;
  stx_mtime_sec : Z; stx_mtime_nsec : Z; stx_ctime_sec : Z; stx_ctime_nsec : Z
}.

Definition O_RDONLY : Z := 0.
Definition O_RDWR : Z := 2.
Definition O_CREAT : Z := 64.
Definition O_EXCL : Z := 128.
Definition O_DIRECTORY : Z := 65536.
Definition O_NOFOLLOW : Z := 131072.
Definition O_CLOEXEC : Z := 524288.

(** TYPE, MODE, INO, SIZE, MTIME and CTIME. *)
Definition STATX_WANTED : Z := 1 + 2 + 256 + 512 + 64 + 128.

Class KernelFS (W : Type) := {
  (** at most this many bytes, or entries of a directory, are still to come *)
  bytes_left : Z -> W -> nat;
  entries_left : Z -> W -> nat;
  sys_open_path : list Z -> Z -> M W Z;
  (** the fields and [stx_mask] *)
  sys_statx : Z -> M W (statx * Z);
  (** [statx(dir, name, AT_SYMLINK_NOFOLLOW, STATX_INO, ...)] *)
  sys_statx_at : Z -> list Z -> W -> io_result unit * W;
  sys_dup : Z -> M W Z;
  sys_close : Z -> W -> bool * W;
  sys_openat : Z -> list Z -> Z -> M W Z;
  sys_mkdirat : Z -> list Z -> M W unit;
  sys_unlinkat : Z -> list Z -> bool -> M W unit;
  sys_renameat2_noreplace : Z -> list Z -> Z -> list Z -> W -> io_result unit * W;
  sys_renameat : Z -> list Z -> Z -> list Z -> M W unit;
  (** the directory stream takes the descriptor over *)
  sys_fdopendir : Z -> M W unit;
  sys_readdir : Z -> W -> io_result (option (list Z)) * W;
  sys_closedir : Z -> W -> bool * W;
  sys_fsync : Z -> M W unit;
  sys_lseek_start : Z -> M W unit
}.

Class Evp (W : Type) := {
  evp_digest : list Z -> M W (list Z);
  (** the one digest context in use *)
  evp_new : M W unit;
  evp_init : M W unit;
  evp_update : list Z -> M W unit;
  evp_final : M W (list Z);
  evp_free : W -> unit * W
}.

Record storage_fs (J : Type) := mk_fs {
  context : storage_context J; root : Z; result : Z; root_stat : statx;
  last_count : Z; last_sequence : Z
}.
Arguments mk_fs {J}.
Arguments context {J} _.
Arguments root {J} _.
Arguments result {J} _.
Arguments root_stat {J} _.
Arguments last_count {J} _.
Arguments last_sequence {J} _.

Definition same_runtime (a b : statx) : bool :=
  (stx_ino a =? stx_ino b) && (stx_dev_major a =? stx_dev_major b) &&
  (stx_dev_minor a =? stx_dev_minor b) && (stx_mode a =? stx_mode b) &&
  (stx_size a =? stx_size b) && (stx_mtime_sec a =? stx_mtime_sec b) &&
  (stx_mtime_nsec a =? stx_mtime_nsec b) && (stx_ctime_sec a =? stx_ctime_sec b) &&
  (stx_ctime_nsec a =? stx_ctime_nsec b).

(** [path] is [base] or lies below it. *)
Definition contained (base path : list Z) : bool :=
  starts_with base path &&
  match drop (length base) path with
  | [] => true
  | c :: _ => c =? 47
  end.

Definition hex_bytes (d : list Z) : list Z := flat_map (fun b => zero_pad 2 (print_hex b)) d.

Section Pure.
Context {J : Type} `{JsonC J}.

Definition add_string (k v : list Z) (o : J) : J :=
  json_object_object_add o k (json_object_new_string v).

Definition rx_node_json (s : statx) : J :=
  add_string (bs "size") (print_dec (stx_size s))
    (add_string (bs "kind")
       (if S_ISDIR (stx_mode s) then bs "dir" else if S_ISREG (stx_mode s) then bs "file"
        else bs "unsafe")
       (add_string (bs "fileId") (print_hex (stx_ino s)) json_object_new_object)).

Definition path_allowed (c : storage_context J) (path : list Z) (mutate : bool) : bool :=
  if negb (rx_relative (Some path) true) then false
  else if negb mutate then
    beq path [] || contained (image_path c) path || contained (stage c) path
    || contained (lock c) path
  else if negb (bool_decide (rx_string (owner c) (bs "taskType") 7 = Some (bs "capture"))) then false
  else
    contained (stage c) path || contained (lock c) path || contained (image_path c) path
    || beq path (bs "dev") || beq path (bs ".locks")
    || (starts_with path (stage c)
        && bool_decide (head (drop (length path) (stage c)) = Some 47)).

Definition event_for (c : storage_context J) (phase op path : list Z) (to : option (list Z))
    (seq : Z) : J :=
  let o := add_string (bs "path") path (add_string (bs "operation") op
             (add_string (bs "event") phase json_object_new_object)) in
  let o := match to with
           | Some (c :: t) => add_string (bs "to") (c :: t) o
           | _ => o
           end in
  json_object_object_add (add_string (bs "sequence") (print_dec seq) o)
    (bs "execution") (owner c).
End Pure.

(** [goto fail] with the descriptor [fd] open: it is closed on a failure. *)
Definition or_close {W A} `{KernelFS W} (fd : Z) (m : M W A) : M W A := fun w =>
  match m w with
  | (None, w') => (None, snd (sys_close fd w'))
  | r => r
  end.

Section Ops.
Context {W J : Type} `{KernelIO W} `{KernelProc W} `{KernelFS W} `{Evp W} `{JsonC J}.

Definition rx_stat_fd (fd : Z) : M W statx :=
  s <- sys_statx fd ;;
  require (Z.land (snd s) STATX_WANTED =? STATX_WANTED) ;;;
  ret (fst s).

Definition rx_fs_open (c : storage_context J) (fs : storage_fs J) : M W (storage_fs J) :=
  r <- sys_open_path (bs "/storage") (Z.lor O_RDONLY (Z.lor O_DIRECTORY (Z.lor O_NOFOLLOW O_CLOEXEC))) ;;
  s <- rx_stat_fd r ;;
  ret (mk_fs c r (result fs) s (last_count fs) (last_sequence fs)).

Definition proof_key (path : list Z) : M W (list Z) :=
  d <- evp_digest path ;;
  require (length d =? 32)%nat ;;;
  ret (hex_bytes d).

(** What the proof of a node records against what the node is. *)
Definition node_matches (p : J) (s : statx) : bool :=
  match rx_string p (bs "fileId") 16, rx_string p (bs "kind") 4 with
  | Some id, Some kind =>
      if negb (beq id (print_hex (stx_ino s))) then false
      else if beq kind (bs "dir") then S_ISDIR (stx_mode s)
      else if negb (beq kind (bs "file")) || negb (S_ISREG (stx_mode s)) then false
      else
        match rx_string p (bs "size") 20, rx_string p (bs "mtimeSec") 21,
              rx_string p (bs "mtimeNsec") 9 with
        | Some size, Some seconds, Some nanos =>
            beq size (print_dec (stx_size s)) && beq seconds (print_signed (stx_mtime_sec s))
            && beq nanos (print_dec (stx_mtime_nsec s))
        | _, _, _ => false
        end
  | _, _ => false
  end.

(** [proof_matches]: fails where the code returns 0. *)
Definition proof_matches (proof : J) (path : list Z) (s : statx) : M W unit :=
  key <- proof_key path ;;
  match json_object_object_get_ex proof key with
  | None => fail
  | Some p => require (node_matches p s)
  end.

Definition extend (prefix part : list Z) : list Z :=
  match prefix with
  | [] => part
  | _ => prefix ++ 47 :: part
  end.

Definition same_device (fs : storage_fs J) (s : statx) : bool :=
  (stx_dev_major s =? stx_dev_major (root_stat fs))
  && (stx_dev_minor s =? stx_dev_minor (root_stat fs)).

(** The loop of [open_bound] with [fd] open on [prefix]. *)
Fixpoint open_walk (fs : storage_fs J) (proof : J) (flags : Z) (parts : list (list Z))
    (prefix : list Z) (fd : Z) : M W Z :=
  match parts with
  | [] => ret fd
  | part :: next =>
      let prefix' := extend prefix part in
      let how := match next with [] => flags | _ => Z.lor O_RDONLY O_DIRECTORY end in
      child <- or_close fd (sys_openat fd part (Z.lor how (Z.lor O_NOFOLLOW O_CLOEXEC))) ;;
      _ <- total (sys_close fd) ;;
      or_close child
        (s <- rx_stat_fd child ;;
         require (same_device fs s) ;;;
         proof_matches proof prefix' s) ;;;
      open_walk fs proof flags next prefix' child
  end.

Definition open_bound (fs : storage_fs J) (path : list Z) (proof : J) (flags : Z) : M W Z :=
  require (rx_relative (Some path) true) ;;;
  fd <- sys_dup (root fs) ;;
  or_close fd (s <- rx_stat_fd fd ;; proof_matches proof [] s) ;;;
  open_walk fs proof flags (strtok 47 path) [] fd.

(** The parent directory, open, and the last component of the path. *)
Definition bound_parent (fs : storage_fs J) (path : list Z) (proof : J) : M W (Z * list Z) :=
  let '(par, name) := match strrchr 47 path with
                      | Some (a, b) => (a, b)
                      | None => ([], path)
                      end in
  fd <- open_bound fs par proof (Z.lor O_RDONLY O_DIRECTORY) ;;
  ret (fd, name).

Definition same_string (a b : option (list Z)) : bool :=
  match a, b with
  | Some x, Some y => beq x y
  | _, _ => false
  end.

(** The acknowledgement [a] answers the event: the echoed fields. *)
Definition ack_echoes (event a : J) : bool :=
  let to := rx_string event (bs "to") 4095 in
  let ack_to := rx_string a (bs "to") 4095 in
  same_string (rx_string event (bs "operation") 24) (rx_string a (bs "operation") 24)
  && same_string (rx_string event (bs "path") 4095) (rx_string a (bs "path") 4095)
  && same_string (rx_string event (bs "event") 8) (rx_string a (bs "phase") 8)
  && (bool_decide (to = None /\ ack_to = None) || same_string to ack_to).

Definition ack (c : storage_context J) (event : J) (request result : Z) : M W J :=
  alive <- rx_parent_alive c ;;
  require alive ;;;
  sent <- total (rx_emit result event) ;;
  require sent ;;;
  a <- rx_read_json request RX_COMMAND_MAX true ;;
  require (bool_decide (rx_string a (bs "event") 8 = Some (bs "ack"))
           && same_string (rx_string event (bs "sequence") 20) (rx_string a (bs "sequence") 20)) ;;;
  match json_object_object_get_ex a (bs "execution"), json_object_object_get_ex a (bs "proof") with
  | Some own, Some p =>
      require (json_object_equal own (owner c) && json_object_is_type p json_type_object) ;;;
      alive <- rx_parent_alive c ;;
      require (alive && ack_echoes event a) ;;;
      ret p
  | _, _ => fail
  end.
End Ops.

(** [out:] with a cleanup that cannot fail. *)
Definition finally {W A} (m : M W A) (cleanup : W -> unit * W) : M W A := fun w =>
  let '(r, w') := m w in (r, snd (cleanup w')).

Section Stream.
Context {W J : Type} `{KernelIO W} `{KernelProc W} `{KernelFS W} `{Evp W} `{JsonC J}.

Definition stream_progress (fs : storage_fs J) (stage : list Z) (bytes : Z) : M W unit :=
  ok <- total (rx_emit (result fs)
    (add_string (bs "bytes") (print_dec bytes)
       (add_string (bs "stage") stage
          (add_string (bs "event") (bs "progress") json_object_new_object)))) ;;
  require ok.

(** After [count] bytes: a progress event for each MiB. *)
Definition report (fs : storage_fs J) (stage : list Z) (count progress : Z) : M W Z :=
  if 1048576 <=? count - progress
  then stream_progress fs stage count ;;; ret count
  else ret progress.

(** How much to ask for; 0 ends the loop. *)
Definition wanted (writing : bool) (limit size count : Z) : Z :=
  let most := Z.of_nat RX_DATA_MAX in
  if negb writing then Z.min (size - count) most
  else if limit =? 0 then most else Z.min (limit - count) most.

Fixpoint copy_loop (fuel : nat) (fs : storage_fs J) (src dst : Z) (writing : bool)
    (limit size count progress : Z) : M W Z :=
  match fuel with
  | O => fail
  | S fuel =>
      alive <- rx_parent_alive (context fs) ;;
      require alive ;;;
      let want := wanted writing limit size count in
      if want =? 0 then ret count
      else
        r <- total (sys_read src (Z.to_nat want)) ;;
        match r with
        | IoErr EINTR => copy_loop fuel fs src dst writing limit size count progress
        | IoErr _ => fail
        | IoOk [] => if writing then ret count else fail
        | IoOk buffer =>
            let count' := count + Z.of_nat (length buffer) in
            require (count' <=? INT64_MAX) ;;;
            ok <- total (rx_write_all dst buffer) ;;
            require ok ;;;
            evp_update buffer ;;;
            progress' <- report fs (if writing then bs "write" else bs "read") count' progress ;;
            copy_loop fuel fs src dst writing limit size count' progress'
        end
  end.

Fixpoint readback_loop (fuel : nat) (fs : storage_fs J) (fd count readback progress : Z)
    : M W unit :=
  if negb (readback <? count) then ret tt else
  match fuel with
  | O => fail
  | S fuel =>
      r <- total (sys_read fd (Z.to_nat (Z.min (count - readback) (Z.of_nat RX_DATA_MAX)))) ;;
      match r with
      | IoErr EINTR => readback_loop fuel fs fd count readback progress
      | IoErr _ => fail
      | IoOk [] => fail
      | IoOk buffer =>
          evp_update buffer ;;;
          let readback' := readback + Z.of_nat (length buffer) in
          progress' <- report fs (bs "readback") readback' progress ;;
          readback_loop fuel fs fd count readback' progress'
      end
  end.

(** The written file is read again and must have the same digest. *)
Definition verify_written (fs : storage_fs J) (fd count : Z) (digest : list Z) (sealed : statx)
    : M W statx :=
  sys_lseek_start fd ;;;
  evp_init ;;;
  fuel <- gets (fun w => bytes_left fd w + intr w)%nat ;;
  readback_loop fuel fs fd count 0 0 ;;;
  verified <- evp_final ;;
  require ((length verified =? 32)%nat && beq digest verified) ;;;
  after <- rx_stat_fd fd ;;
  require (same_runtime sealed after) ;;;
  ret after.

Definition stream_body (fs : storage_fs J) (fd data : Z) (writing : bool) (limit : Z)
    (before : statx) : M W J :=
  let src := if writing then data else fd in
  let dst := if writing then fd else data in
  fuel <- gets (fun w => S (bytes_left src w + intr w)) ;;
  count <- copy_loop fuel fs src dst writing limit (stx_size before) 0 0 ;;
  (if writing then sys_fsync fd else ret tt) ;;;
  after <- rx_stat_fd fd ;;
  require ((writing || same_runtime before after) && (stx_size after =? count)) ;;;
  digest <- evp_final ;;
  require (length digest =? 32)%nat ;;;
  after <- (if writing then verify_written fs fd count digest after else ret after) ;;
  ret (add_string (bs "sha256") (hex_bytes digest) (rx_node_json after)).

Definition stream_file (fs : storage_fs J) (fd data : Z) (writing : bool) (limit : Z) : M W J :=
  before <- rx_stat_fd fd ;;
  require (S_ISREG (stx_mode before)) ;;;
  finally (evp_new ;;; stream_body fs fd data writing limit before) evp_free.
End Stream.

(** ** Commands *)

(** The locals of [rx_command] that the code after [out:] reads, and the
    world. *)
Record cmd_st (W J : Type) := mk_cmd { cw : W; c_fd : Z; c_parent : Z; c_details : option J }.
Arguments mk_cmd {W J}.
Arguments cw {W J} _.
Arguments c_fd {W J} _.
Arguments c_parent {W J} _.
Arguments c_details {W J} _.

Section Command.
Context {W J : Type} `{KernelIO W} `{KernelProc W} `{KernelFS W} `{Evp W} `{JsonC J}.

Definition sys {A} (m : M W A) : M (cmd_st W J) A := fun s =>
  let '(r, w') := m (cw s) in (r, mk_cmd w' (c_fd s) (c_parent s) (c_details s)).

Definition set_fd (fd : Z) : M (cmd_st W J) unit :=
  modify (fun s => mk_cmd (cw s) fd (c_parent s) (c_details s)).
Definition set_parent (fd : Z) : M (cmd_st W J) unit :=
  modify (fun s => mk_cmd (cw s) (c_fd s) fd (c_details s)).
Definition set_details (o : option J) : M (cmd_st W J) unit :=
  modify (fun s => mk_cmd (cw s) (c_fd s) (c_parent s) o).

(** The entries of a directory, read one at a time; "." and ".." are skipped. *)
Fixpoint list_loop (fuel : nat) (dir : Z) (names : list J) (count : Z) : M W (list J) :=
  match fuel with
  | O => fail
  | S fuel =>
      r <- total (sys_readdir dir) ;;
      match r with
      | IoErr _ => fail
      | IoOk None => ret names
      | IoOk (Some name) =>
          if beq name (bs ".") || beq name (bs "..") then list_loop fuel dir names count
          else
            require (negb ((4096 <? count + 1) || negb (rx_relative (Some name) false)
                           || mem_byte 47 name)) ;;;
            list_loop fuel dir (names ++ [json_object_new_string name]) (count + 1)
      end
  end.

Definition list_dir (fd : Z) : M W J :=
  d <- sys_dup fd ;;
  sys_fdopendir d ;;;
  fuel <- gets (fun w => S (entries_left d w)) ;;
  names <- (fun w => match list_loop fuel d [] 0 w with
                     | (None, w') => (None, snd (sys_closedir d w'))
                     | r => r
                     end) ;;
  closed <- total (sys_closedir d) ;;
  require closed ;;;
  ret (json_object_new_array names).

(** [stat], [list], [read] and [seal]. *)
Definition op_inspect (fs : storage_fs J) (op path : list Z) (data : Z) (proof : J)
    : M (cmd_st W J) unit :=
  fd <- sys (open_bound fs path proof O_RDONLY) ;;
  set_fd fd ;;;
  before <- sys (rx_stat_fd fd) ;;
  set_details (Some (rx_node_json before)) ;;;
  (if beq op (bs "list") then
     require (S_ISDIR (stx_mode before)) ;;;
     names <- sys (list_dir fd) ;;
     set_details (Some (json_object_object_add (rx_node_json before) (bs "names") names))
   else if beq op (bs "read") then
     require (negb (data_write (context fs))) ;;;
     set_details None ;;;
     d <- sys (stream_file fs fd data false 0) ;;
     set_details (Some d)
   else ret tt) ;;;
  after <- sys (rx_stat_fd fd) ;;
  require (negb (beq op (bs "list")) || same_runtime before after).

Definition created (b : bool) (s : statx) : J :=
  json_object_object_add (rx_node_json s) (bs "created") (json_object_new_boolean b).

(** The declared length of a [write]: whether it is fixed, and to what. *)
Definition write_length (command : J) : option (option Z) :=
  match rx_string command (bs "lengthMode") 6 with
  | None => None
  | Some mode =>
      if beq mode (bs "fixed") then
        match rx_string command (bs "expectedSize") 20 with
        | None => None
        | Some expected =>
            if beq expected [] || negb (forallb is_digit expected) then None
            else
              let '(n, e, erange) := strtoull 10 expected in
              if erange || negb (beq e []) || (INT64_MAX <? n) then None else Some (Some n)
        end
      else if beq mode (bs "stream") then Some None
      else None
  end.

Definition op_write (fs : storage_fs J) (command : J) (op path : list Z) (to : option (list Z))
    (seq request data : Z) (parent : Z) (name : list Z) : M (cmd_st W J) unit :=
  require (data_write (context fs)) ;;;
  match write_length command with
  | None => fail
  | Some fixed =>
      fd <- sys (sys_openat parent name
                   (Z.lor O_RDWR (Z.lor O_CREAT (Z.lor O_EXCL (Z.lor O_NOFOLLOW O_CLOEXEC))))) ;;
      set_fd fd ;;;
      after <- sys (rx_stat_fd fd) ;;
      let event := json_object_object_add
        (event_for (context fs) (bs "created") op path to (seq + 1)) (bs "node") (created true after) in
      _ <- sys (ack (context fs) event request (result fs)) ;;
      let limit := match fixed with Some n => n + 1 | None => 0 end in
      d <- sys (stream_file fs fd data true limit) ;;
      set_details (Some d) ;;;
      match fixed with
      | None => ret tt
      | Some n =>
          sealed <- sys (rx_stat_fd fd) ;;
          require (stx_size sealed =? n)
      end
  end.

(** [mkdir-owned] and [write]. *)
Definition op_create (fs : storage_fs J) (command : J) (op path : list Z) (to : option (list Z))
    (seq request data : Z) (proof : J) : M (cmd_st W J) unit :=
  pn <- sys (bound_parent fs path proof) ;;
  let '(parent, name) := (pn : Z * list Z) in
  set_parent parent ;;;
  key <- sys (proof_key path) ;;
  match json_object_object_get_ex proof key with
  | Some _ =>
      require (beq op (bs "mkdir-owned")) ;;;
      fd <- sys (open_bound fs path proof (Z.lor O_RDONLY O_DIRECTORY)) ;;
      set_fd fd ;;;
      after <- sys (rx_stat_fd fd) ;;
      set_details (Some (created false after))
  | None =>
      if beq op (bs "mkdir-owned") then
        sys (sys_mkdirat parent name) ;;;
        fd <- sys (sys_openat parent name
                     (Z.lor O_RDONLY (Z.lor O_DIRECTORY (Z.lor O_NOFOLLOW O_CLOEXEC)))) ;;
        set_fd fd ;;;
        after <- sys (rx_stat_fd fd) ;;
        set_details (Some (created true after))
      else op_write fs command op path to seq request data parent name
  end.

(** [dest] does not exist in [target]. *)
Definition absent (target : Z) (dest : list Z) : M W unit :=
  r <- total (sys_statx_at target dest) ;;
  match r with
  | IoErr ENOENT => ret tt
  | _ => fail
  end.

(** The rename when the kernel cannot do it without replacing: only with the
    permission of the proof, after checking both ends again. *)
Definition controlled_rename (fs : storage_fs J) (path : list Z) (proof : J) (before : statx)
    (parent : Z) (name : list Z) (target : Z) (dest : list Z) : M W unit :=
  match json_object_object_get_ex proof (bs "controlledRename") with
  | None => fail
  | Some allow =>
      require (json_object_is_type allow json_type_boolean && json_object_get_boolean allow) ;;;
      verify <- open_bound fs path proof O_RDONLY ;;
      or_close verify (after <- rx_stat_fd verify ;; require (same_runtime before after)) ;;;
      _ <- total (sys_close verify) ;;
      absent target dest ;;;
      sys_renameat parent name target dest
  end.

Definition rename_into (fs : storage_fs J) (path : list Z) (proof : J) (before : statx)
    (parent : Z) (name : list Z) (target : Z) (dest : list Z) : M W unit :=
  absent target dest ;;;
  r <- total (sys_renameat2_noreplace parent name target dest) ;;
  match r with
  | IoOk _ => ret tt
  | IoErr EINVAL | IoErr EOPNOTSUPP | IoErr ENOSYS =>
      controlled_rename fs path proof before parent name target dest
  | IoErr _ => fail
  end.

(** [rename-owned] and [remove-owned]. *)
Definition op_move (fs : storage_fs J) (op path : list Z) (to : option (list Z)) (proof : J)
    : M (cmd_st W J) unit :=
  fd <- sys (open_bound fs path proof O_RDONLY) ;;
  set_fd fd ;;;
  before <- sys (rx_stat_fd fd) ;;
  _ <- sys (total (sys_close fd)) ;;
  set_fd (-1) ;;;
  pn <- sys (bound_parent fs path proof) ;;
  let '(parent, name) := (pn : Z * list Z) in
  set_parent parent ;;;
  if beq op (bs "remove-owned") then
    sys (sys_unlinkat parent name (S_ISDIR (stx_mode before))) ;;;
    set_details (Some (json_object_object_add (rx_node_json before) (bs "removed")
                         (json_object_new_boolean true)))
  else
    match to with
    | None => fail
    | Some to =>
        td <- sys (bound_parent fs to proof) ;;
        let '(target, dest) := (td : Z * list Z) in
        sys (or_close target (rename_into fs path proof before parent name target dest)) ;;;
        fd <- sys (or_close target
                     (sys_openat target dest (Z.lor O_RDONLY (Z.lor O_NOFOLLOW O_CLOEXEC)))) ;;
        _ <- sys (total (sys_close target)) ;;
        set_fd fd ;;;
        after <- sys (rx_stat_fd fd) ;;
        require ((stx_ino after =? stx_ino before)
                 && (stx_dev_major after =? stx_dev_major before)
                 && (stx_dev_minor after =? stx_dev_minor before)) ;;;
        set_details (Some (rx_node_json after))
    end.

Definition dispatch (fs : storage_fs J) (command : J) (op path : list Z) (to : option (list Z))
    (seq request data : Z) (proof : J) : M (cmd_st W J) unit :=
  if one_of op ["stat"; "list"; "read"; "seal"]%string then op_inspect fs op path data proof
  else if one_of op ["mkdir-owned"; "write"]%string
  then op_create fs command op path to seq request data proof
  else if one_of op ["rename-owned"; "remove-owned"]%string then op_move fs op path to proof
  else fail.

(** [out:]: both descriptors are closed, and a failing close is an error. *)
Definition close_if (fd : Z) (w : W) : bool * W :=
  if 0 <=? fd then sys_close fd w else (true, w).

Definition command_out (rc : option unit) (s : cmd_st W J) : option J * W :=
  let '(ok1, w1) := close_if (c_fd s) (cw s) in
  let '(ok2, w2) := close_if (c_parent s) w1 in
  ((if bool_decide (rc = Some tt) && ok1 && ok2 then c_details s else None), w2).

Definition is_mutation (op : list Z) : bool :=
  one_of op ["write"; "mkdir-owned"; "rename-owned"; "remove-owned"]%string.

(** The checks before anything is sent. *)
Definition accept_command (fs : storage_fs J) (command : J)
    : option (list Z * list Z * option (list Z) * Z) :=
  op ← rx_string command (bs "operation") 24;
  path ← rx_string command (bs "path") 4095;
  let to := rx_string command (bs "to") 4095 in
  seq ← rx_sequence command;
  if (UINT64_MAX - 2 <=? seq) || (last_sequence fs =? UINT64_MAX)
     || negb (seq =? last_sequence fs + 1) then None else
  own ← json_object_object_get_ex command (bs "execution");
  if negb (json_object_equal own (owner (context fs))) then None else
  let mutate := is_mutation op in
  if negb (path_allowed (context fs) path mutate)
     || negb (match to with Some t => path_allowed (context fs) t mutate | None => true end)
  then None else Some (op, path, to, seq).

(** From the intent to the node of the result, descriptors closed. *)
Definition perform (fs : storage_fs J) (command : J) (op path : list Z) (to : option (list Z))
    (seq request data : Z) : M W J :=
  proof <- ack (context fs) (event_for (context fs) (bs "intent") op path to seq) request (result fs) ;;
  fun w =>
    let '(rc, s) := dispatch fs command op path to seq request data proof
                      (mk_cmd w (-1) (-1) None) in
    command_out rc s.

Definition rx_command (fs : storage_fs J) (command : J) (request data result : Z) (w : W)
    : bool * storage_fs J * W :=
  let fs := mk_fs (context fs) (root fs) result (root_stat fs) (last_count fs) (last_sequence fs) in
  match accept_command fs command with
  | None => (false, fs, w)
  | Some (op, path, to, seq) =>
      match perform fs command op path to seq request data w with
      | (None, w1) => (false, fs, w1)
      | (Some details, w1) =>
          let writing := beq op (bs "write") in
          match (if writing then rx_string details (bs "size") 20 else Some []) with
          | None => (false, fs, w1)
          | Some size =>
              let count := if writing then fst (fst (strtoull 10 size)) else last_count fs in
              let result_sequence := seq + (if writing then 2 else 1) in
              let event := json_object_object_add
                (event_for (context fs) (bs "result") op path to result_sequence)
                (bs "node") details in
              match ack (context fs) event request result w1 with
              | (None, w2) =>
                  (false, mk_fs (context fs) (root fs) result (root_stat fs) count (last_sequence fs), w2)
              | (Some _, w2) =>
                  (true, mk_fs (context fs) (root fs) result (root_stat fs) count result_sequence, w2)
              end
          end
      end
  end.
End Command.
