(* ===== verification/StorageFsSpec.v ===== *)
(** * rootpxe-storage-io: properties of the commands

    [Paths]: which paths a task may touch, as lists of components.
    [Ghost]: descriptors and mutations of the file system, as the kernel
    promises them, and what a command does to them.
    [Streams]: what a transfer moves and which digest it reports. *)
From S2P Require Import Prelude CLib StorageIO StorageContext StorageFs.
Local Open Scope Z_scope.
Local Open Scope list_scope.
Local Open Scope cmonad_scope.

(** ** Paths as component lists *)

Lemma starts_with_app p s : starts_with p s = true <-> exists t, s = p ++ t.
Proof.
  revert s. induction p as [|x p IH]; intros s; simpl.
  - split; [by exists s|done].
  - destruct s as [|y s]; [split; [done|by intros [? ?]]|]. rewrite andb_true_iff, IH, Z.eqb_eq. split.
    + intros [-> [t ->]]. by exists t.
    + intros [t [= -> ->]]. split; [done|by exists t].
Qed.

Lemma join_app l1 l2 : l1 <> [] -> l2 <> [] -> join (l1 ++ l2) = join l1 ++ 47 :: join l2.
Proof.
  intros H1 H2. induction l1 as [|a l1 IH]; [done|]. destruct l1 as [|b l1].
  - simpl app. by rewrite join_cons.
  - simpl app in *. rewrite !(join_cons a) by done. rewrite IH by done. by rewrite <- app_assoc.
Qed.

(** A path that continues another one with a slash continues its components. *)
Lemma join_prefix b t l :
  Forall atom_ok b -> Forall atom_ok l -> b <> [] -> join l = join b ++ 47 :: t ->
  exists l', l = b ++ l' /\ l' <> [] /\ t = join l'.
Proof.
  revert l. induction b as [|a b IH]; intros l Hb Hl Hne E; [done|].
  inversion_clear Hb as [|? ? Ha Hb']. destruct b as [|a' b].
  - symmetry in E. simpl in E. apply join_head in E as (l' & -> & ? & ->); [by exists l'| |done].
    apply Ha.
  - rewrite join_cons in E by done. rewrite <- app_assoc in E. symmetry in E.
    apply join_head in E as (l' & -> & Hl' & E); [|apply Ha|done].
    inversion_clear Hl. symmetry in E. apply (IH l') in E as (l'' & -> & ? & ->); [|done..].
    by exists l''.
Qed.

Lemma join_inj b l :
  Forall atom_ok b -> Forall atom_ok l -> b <> [] -> l <> [] -> join b = join l -> b = l.
Proof.
  revert l. induction b as [|a b IH]; intros l Hb Hl Hnb Hnl E; [done|].
  inversion_clear Hb as [|? ? Ha Hb']. destruct b as [|a' b].
  - symmetry. apply join_single; [apply Ha|done|done].
  - rewrite join_cons in E by done. apply join_head in E as (l' & -> & Hl' & E); [|apply Ha|done].
    inversion_clear Hl. f_equal. by apply IH.
Qed.

Lemma contained_join b l :
  Forall atom_ok b -> Forall atom_ok l -> b <> [] -> l <> [] ->
  contained (join b) (join l) = true <-> b `prefix_of` l.
Proof.
  intros Hb Hl Hnb Hnl. unfold contained. rewrite andb_true_iff, starts_with_app. split.
  - intros [[t E] Hd]. rewrite E, drop_app_length in Hd. destruct t as [|c t].
    + rewrite app_nil_r in E. exists []. rewrite app_nil_r. by apply join_inj.
    + breflect. subst. apply join_prefix in E as (l' & -> & _); [|done..]. by exists l'.
  - intros [l' ->]. destruct l' as [|a l']; [rewrite app_nil_r in *|].
    + split; [exists []; by rewrite app_nil_r|]. by rewrite drop_all.
    + rewrite join_app by done. split; [by eexists|]. by rewrite drop_app_length.
Qed.

Lemma above_join l b :
  Forall atom_ok b -> Forall atom_ok l -> b <> [] -> l <> [] ->
  starts_with (join l) (join b) && bool_decide (head (drop (length (join l)) (join b)) = Some 47) = true
  <-> exists l', b = l ++ l' /\ l' <> [].
Proof.
  intros Hb Hl Hnb Hnl. rewrite andb_true_iff, starts_with_app, bool_decide_eq_true. split.
  - intros [[t E] Hd]. rewrite E, drop_app_length in Hd. destruct t as [|x t]; [done|].
    injection Hd as ->. apply join_prefix in E as (l' & -> & ? & _); [|done..]. by exists l'.
  - intros (l' & -> & Hl'). rewrite join_app by done. split; [by eexists|]. by rewrite drop_app_length.
Qed.

Lemma join_eq_single l a : Forall atom_ok l -> l <> [] -> atom_ok a -> join l = a <-> l = [a].
Proof.
  intros Hl Hn Ha. split; [|by intros ->]. intros E. apply join_inj; [done|by apply Forall_singleton|done..].
Qed.

Section Allowed.
Context {J : Type} `{JsonC J}.
Implicit Types c : storage_context J.

(** The subtrees of a task: its stage directory, its lock and its image. *)
Definition in_subtree (st lk im l : list (list Z)) : Prop :=
  st `prefix_of` l \/ lk `prefix_of` l \/ im `prefix_of` l.

Lemma path_allowed_components c st lk im path l mutate :
  Forall atom_ok st -> Forall atom_ok lk -> Forall atom_ok im -> Forall atom_ok l ->
  st <> [] -> lk <> [] -> im <> [] -> l <> [] ->
  stage c = join st -> lock c = join lk -> image_path c = join im -> head st = Some (bs "dev") ->
  (2 <= length st)%nat -> path = join l -> relative_path path ->
  path_allowed c path mutate = true <->
  if mutate
  then rx_string (owner c) (bs "taskType") 7 = Some (bs "capture") /\
       (in_subtree st lk im l \/ l = [bs ".locks"] \/ exists l', st = l ++ l' /\ l' <> [])
  else in_subtree st lk im l.
Proof.
  intros Fs Fk Fi Fl Ns Nk Ni Nl Es Ek Ei Hdev Hlen -> Hr.
  unfold path_allowed, in_subtree. rewrite Es, Ek, Ei.
  rewrite (proj2 (rx_relative_iff (join l) true)) by (by right). cbn [negb].
  pose proof (contained_join st l Fs Fl Ns Nl) as H1. pose proof (contained_join lk l Fk Fl Nk Nl) as H2.
  pose proof (contained_join im l Fi Fl Ni Nl) as H3. pose proof (above_join l st Fs Fl Ns Nl) as H4.
  pose proof (join_nonempty l Nl Fl) as Hj.
  destruct mutate; cbn [negb].
  - destruct (bool_decide (rx_string (owner c) (bs "taskType") 7 = Some (bs "capture"))) eqn:Ec;
      breflect; [cbn [negb]|by split; [|intros [? _]]].
    rewrite !orb_true_iff, H1, H2, H3, H4, !beq_true.
    rewrite (join_eq_single l (bs "dev")), (join_eq_single l (bs ".locks"))
      by (done || apply dev_atom || apply locks_atom).
    assert (Hd : l = [bs "dev"] -> exists l', st = l ++ l' /\ l' <> []).
    { intros ->. destruct st as [|a [|b st]]; simpl in *; [done|lia|]. injection Hdev as ->.
      by exists (b :: st). }
    tauto.
  - rewrite !orb_true_iff, H1, H2, H3, beq_true. tauto.
Qed.

(** C9: The paths a task may use, as lists of components.  With the stage
    directory, the lock and the image of a loaded context: a path is readable
    exactly when it is the root or lies in one of these three subtrees; it
    may be changed exactly when the task is a capture and the path lies in one
    of them, is [".locks"] itself, or is a proper ancestor of the stage
    directory other than the root.  So no path outside these can be read or
    changed, whatever bytes the request has. *)
Theorem path_allowed_spec c :
  context_ok c -> exists st lk im,
  stage c = join st /\ lock c = join lk /\ image_path c = join im /\
  forall path,
  (path_allowed c path false = true <->
     path = [] \/ exists l, path = join l /\ relative_path path /\ Forall atom_ok l /\ l <> [] /\
       in_subtree st lk im l) /\
  (path_allowed c path true = true <->
     rx_string (owner c) (bs "taskType") 7 = Some (bs "capture") /\
     exists l, path = join l /\ relative_path path /\ Forall atom_ok l /\ l <> [] /\
       (in_subtree st lk im l \/ l = [bs ".locks"] \/ exists l', st = l ++ l' /\ l' <> [])).
Proof.
  intros (_ & _ & _ & _ & Him & ((task & n & Ht & _ & Hn & Es) & _) & ((tg & Hl & Hh & Ek) & Hk & _) & _).
  destruct Him as (_ & im & Ei & Hni & Fi). destruct Hk as (_ & lk & Ek' & Hnk & Fk).
  exists [bs "dev"; task; print_dec n], lk, im. split_and!; [done..|]. intros path.
  assert (Fs : Forall atom_ok [bs "dev"; task; print_dec n]).
  { rewrite !Forall_cons. split_and!; [apply dev_atom|done|apply digits_atom; lia|constructor]. }
  assert (Nk : lk <> []) by (by intros ->; simpl in Hnk; lia).
  assert (Ni : im <> []) by (by intros ->; simpl in Hni; lia).
  assert (Hsplit : forall m, path_allowed c path m = true -> (path = [] /\ m = false) \/
    exists l, path = join l /\ relative_path path /\ Forall atom_ok l /\ l <> []).
  { intros m Hm. unfold path_allowed in Hm. destruct (rx_relative (Some path) true) eqn:Er; [|done].
    apply rx_relative_iff in Er as [[-> _]|Hr].
    - left. split; [done|]. destruct m; [|done]. exfalso. revert Hm. simpl negb. cbv iota.
      rewrite Es, Ek', Ei. destruct (bool_decide _); [|done]. simpl negb. cbv iota.
      assert (Hc : forall b, b <> [] -> contained b [] = false) by (by intros [|]).
      rewrite !Hc by (by apply join_nonempty). done.
    - right. pose proof Hr as (_ & l & -> & Hll & Fl). exists l. split_and!; try done.
      by intros ->; simpl in Hll; lia. }
  pose proof (fun l m => path_allowed_components c _ lk im path l m Fs Fk Fi) as Hc.
  split; split.
  - intros Hm. destruct (Hsplit _ Hm) as [[-> _]|(l & El & Hr & Fl & Nl)]; [by left|]. right.
    exists l. split_and!; try done. eapply (Hc l false); done || (simpl; lia).
  - intros [->|(l & El & Hr & Fl & Nl & Hin)]; [done|]. eapply (Hc l false); done || (simpl; lia).
  - intros Hm. destruct (Hsplit _ Hm) as [[_ ?]|(l & El & Hr & Fl & Nl)]; [done|].
    eapply (Hc l true) in Hm; try done; [|simpl; lia]. destruct Hm as [? Hm]. split; [done|].
    exists l. by split_and!.
  - intros [Ht' (l & El & Hr & Fl & Nl & Hin)]. eapply (Hc l true); done || (simpl; lia).
Qed.

Lemma allowed_mutation_nonempty c path :
  context_ok c -> path_allowed c path true = true -> relative_path path.
Proof.
  intros (_ & _ & _ & _ & Him & ((task & n & Ht & _ & Hn & Es) & _ & _) & ((tg & _ & _ & Ek) & _ & _) & _) Hm.
  unfold path_allowed in Hm. destruct (rx_relative (Some path) true) eqn:Er; [|done].
  apply rx_relative_iff in Er as [[-> _]|Hr]; [|done]. exfalso. revert Hm.
  destruct Him as (_ & im & Ei & Hni & Fi).
  assert (Hc : forall b, b <> [] -> contained b [] = false) by (by intros [|]).
  rewrite Es, Ek, Ei. simpl negb. cbv iota. destruct (bool_decide _); [|done]. simpl negb. cbv iota.
  rewrite !Hc; [done| |done|done]. apply join_nonempty; [|done]. by intros ->; simpl in Hni; lia.
Qed.
End Allowed.

(** ** Descriptors and mutations *)

(** A change of the name space: directory descriptor and name. *)
Inductive mutation :=
  | MMkdir (dir : Z) (name : list Z)
  | MCreate (dir : Z) (name : list Z)
  | MUnlink (dir : Z) (name : list Z)
  | MRename (dir : Z) (name : list Z) (dir' : Z) (name' : list Z).

(** The open descriptors of the process and the mutations made so far. *)
Definition ghost : Type := gset Z * list mutation.

Section Ghost.
Context {W : Type} (gh : W -> ghost).

Definition keeps {R} (f : W -> R * W) : Prop := forall w, gh (snd (f w)) = gh w.

Definition closing (fd : Z) (f : W -> bool * W) : Prop :=
  forall w, gh (snd (f w)) = ((gh w).1 ∖ {[fd]}, (gh w).2).

(** A call that opens a descriptor, and one that may also make mutation [m]. *)
Definition opening_with (fx : list mutation) {A} (fd_of : A -> Z) (f : M W A) : Prop :=
  forall w, match f w with
  | (Some a, w') => 0 <= fd_of a /\ (fd_of a ∉ (gh w).1) /\
                    gh w' = ({[fd_of a]} ∪ (gh w).1, (gh w).2 ++ fx)
  | (None, w') => (gh w').1 = (gh w).1 /\ ((gh w').2 = (gh w).2 \/ (gh w').2 = (gh w).2 ++ fx)
  end.

Definition may_make (m : mutation) (g g' : ghost) : Prop :=
  g'.1 = g.1 /\ (g'.2 = g.2 \/ g'.2 = g.2 ++ [m]).

Definition mutating {R} (m : mutation) (f : W -> R * W) : Prop :=
  forall w, may_make m (gh w) (gh (snd (f w))).
End Ghost.

Definition opening {W} (g : W -> ghost) (f : M W Z) : Prop := opening_with g [] id f.

(** What the kernel and OpenSSL promise: which calls open and close
    descriptors and which change names.  A failed change may or may not have
    happened, but a rename that is not supported has not.  [openat] creates
    only with [O_CREAT]. *)
Class KernelFSLaws (W : Type) `{KernelIO W, KernelProc W, KernelFS W, Evp W} := {
  gh : W -> ghost;
  read_keeps fd n : keeps gh (sys_read fd n);
  write_keeps fd p : keeps gh (sys_write fd p);
  getppid_keeps : keeps gh sys_getppid;
  statx_keeps fd : keeps gh (sys_statx fd);
  statx_at_keeps fd n : keeps gh (sys_statx_at fd n);
  readdir_keeps d : keeps gh (sys_readdir d);
  fsync_keeps fd : keeps gh (sys_fsync fd);
  lseek_keeps fd : keeps gh (sys_lseek_start fd);
  digest_keeps p : keeps gh (evp_digest p);
  evp_new_keeps : keeps gh evp_new;
  evp_init_keeps : keeps gh evp_init;
  evp_update_keeps p : keeps gh (evp_update p);
  evp_final_keeps : keeps gh evp_final;
  evp_free_keeps : keeps gh evp_free;
  close_law fd : closing gh fd (sys_close fd);
  closedir_law fd : closing gh fd (sys_closedir fd);
  dup_law fd : opening gh (sys_dup fd);
  openat_law fd n fl : Z.land fl O_CREAT = 0 -> opening gh (sys_openat fd n fl);
  create_law fd n fl : Z.land fl O_CREAT <> 0 -> opening_with gh [MCreate fd n] id (sys_openat fd n fl);
  fdopendir_keeps d : keeps gh (sys_fdopendir d);
  mkdirat_law d n : mutating gh (MMkdir d n) (sys_mkdirat d n);
  unlinkat_law d n b : mutating gh (MUnlink d n) (sys_unlinkat d n b);
  renameat_law d n d' n' : mutating gh (MRename d n d' n') (sys_renameat d n d' n');
  renameat2_law d n d' n' : mutating gh (MRename d n d' n') (sys_renameat2_noreplace d n d' n');
  renameat2_unsupported d n d' n' w e w' :
    sys_renameat2_noreplace d n d' n' w = (IoErr e, w') ->
    e = EINVAL \/ e = EOPNOTSUPP \/ e = ENOSYS -> gh w' = gh w
}.

(** *** Keeping *)
Section Keeping.
Context {W : Type} (g : W -> ghost).

Lemma keeps_ret {A} (a : A) : keeps g (ret a).
Proof. done. Qed.

Lemma keeps_fail {A} : keeps g (fail (A := A)).
Proof. done. Qed.

Lemma keeps_require b : keeps g (require b).
Proof. by destruct b. Qed.

Lemma keeps_gets {A} (f : W -> A) : keeps g (gets f).
Proof. done. Qed.

Lemma keeps_bind {A B} (m : M W A) (k : A -> M W B) :
  keeps g m -> (forall a, keeps g (k a)) -> keeps g (bind m k).
Proof.
  intros Hm Hk w. specialize (Hm w). unfold bind. destruct (m w) as [[a|] w1]; simpl in *; [|done].
  by rewrite (Hk a w1).
Qed.

Lemma keeps_total {A} (f : W -> A * W) : keeps g f -> keeps g (total f).
Proof. intros Hf w. specialize (Hf w). unfold total. by destruct (f w). Qed.

Lemma keeps_if {A} (b : bool) (m1 m2 : M W A) :
  keeps g m1 -> keeps g m2 -> keeps g (if b then m1 else m2).
Proof. by destruct b. Qed.

Lemma keeps_finally {A} (m : M W A) f : keeps g m -> keeps g f -> keeps g (finally m f).
Proof.
  intros Hm Hf w. specialize (Hm w). unfold finally. destruct (m w) as [r w1]. simpl in *.
  by rewrite (Hf w1).
Qed.
End Keeping.

Create HintDb keeps.
#[export] Hint Resolve keeps_ret keeps_fail keeps_require keeps_gets keeps_total keeps_if
  keeps_finally read_keeps write_keeps getppid_keeps statx_keeps statx_at_keeps readdir_keeps fdopendir_keeps
  fsync_keeps lseek_keeps digest_keeps evp_new_keeps evp_init_keeps evp_update_keeps
  evp_final_keeps evp_free_keeps : keeps.

(** Prove that a body keeps the ghost state, call by call. *)
Ltac keeps :=
  repeat first
    [ lazymatch goal with |- keeps _ (bind _ _) => apply keeps_bind; [|intros ?] end
    | progress eauto 3 with keeps
    | match goal with |- keeps _ (match ?x with _ => _ end) => destruct x end ].

Section Keeps.
Context {W J : Type} `{KernelFSLaws W} `{!JsonC J}.
Implicit Types (c : storage_context J) (fs : storage_fs J).

Lemma write_loop_keeps fuel fd p : keeps gh (write_loop (W := W) fuel fd p).
Proof.
  revert p. induction fuel as [|fuel IH]; intros [|x p] w; try done. simpl.
  pose proof (write_keeps fd (x :: p) w) as Hw.
  destruct (sys_write fd (x :: p) w) as [[n|e] w1]; simpl in *.
  - destruct (n =? 0)%nat; [done|]. by rewrite (IH _ w1).
  - destruct e; try done. by rewrite (IH _ w1).
Qed.

Lemma rx_emit_keeps fd (o : J) : keeps gh (rx_emit (W := W) fd o).
Proof.
  intros w. unfold rx_emit. destruct (negb _); [done|]. unfold rx_write_all at 1.
  pose proof (write_loop_keeps (length (take (cstrlen (json_object_to_json_string o))
    (json_object_to_json_string o)) + intr w) fd (take (cstrlen (json_object_to_json_string o))
    (json_object_to_json_string o)) w) as Hw.
  destruct (write_loop _ fd _ w) as [[] w1]; simpl in *; [|done].
  rewrite <- Hw. apply write_loop_keeps.
Qed.

Lemma read_loop_keeps fuel fd max line b : keeps gh (read_loop (W := W) fuel fd max line b).
Proof.
  revert b. induction fuel as [|fuel IH]; intros b w; cbn [read_loop];
    destruct (max <=? length b)%nat; try done.
  pose proof (read_keeps fd 1 w) as Hw. destruct (sys_read fd 1 w) as [[[|x l]|e] w1]; simpl in Hw.
  - done.
  - destruct (x =? 0); [done|]. destruct (line && (x =? 10)); [done|]. by rewrite (IH _ w1).
  - destruct e; try done. by rewrite (IH _ w1).
Qed.

Lemma rx_read_json_keeps fd max line : keeps gh (rx_read_json (W := W) (J := J) fd max line).
Proof.
  intros w. unfold rx_read_json. pose proof (read_loop_keeps (max + intr w) fd max line [] w) as Hw.
  destruct (read_loop _ fd max line [] w) as [[[|x b]|] w1]; done.
Qed.

Lemma rx_parent_alive_keeps c : keeps gh (rx_parent_alive (W := W) c).
Proof. unfold rx_parent_alive. keeps. Qed.

Lemma rx_stat_fd_keeps fd : keeps gh (rx_stat_fd (W := W) fd).
Proof. unfold rx_stat_fd. keeps. Qed.

Lemma proof_key_keeps p : keeps gh (proof_key (W := W) p).
Proof. unfold proof_key. keeps. Qed.

Lemma proof_matches_keeps (proof : J) p s : keeps gh (proof_matches (W := W) proof p s).
Proof. unfold proof_matches. apply keeps_bind; [apply proof_key_keeps|]. intros k. keeps. Qed.

#[local] Hint Resolve rx_emit_keeps rx_read_json_keeps rx_parent_alive_keeps rx_stat_fd_keeps
  proof_key_keeps proof_matches_keeps : keeps.

Lemma rx_write_all_keeps fd p : keeps gh (rx_write_all (W := W) fd p).
Proof. intros w. apply write_loop_keeps. Qed.

#[local] Hint Resolve rx_write_all_keeps : keeps.

Lemma ack_keeps c event q r : keeps gh (ack (W := W) c event q r).
Proof. unfold ack. keeps. Qed.

Lemma report_keeps fs st n p : keeps gh (report (W := W) fs st n p).
Proof. unfold report, stream_progress. keeps. Qed.

#[local] Hint Resolve ack_keeps report_keeps : keeps.

Lemma copy_loop_keeps fuel fs src dst wr lim size n p :
  keeps gh (copy_loop (W := W) fuel fs src dst wr lim size n p).
Proof.
  revert n p. induction fuel as [|fuel IH]; intros n p; cbn [copy_loop]; [done|]. keeps.
Qed.

Lemma readback_loop_keeps fuel fs fd n r p :
  keeps gh (readback_loop (W := W) fuel fs fd n r p).
Proof.
  revert r p. induction fuel as [|fuel IH]; intros r p; cbn [readback_loop];
    destruct (negb (r <? n)); try done. keeps.
Qed.

#[local] Hint Resolve copy_loop_keeps readback_loop_keeps : keeps.

Lemma stream_file_keeps fs fd data wr lim : keeps gh (stream_file (W := W) fs fd data wr lim).
Proof.
  unfold stream_file. keeps. apply keeps_finally; [|apply evp_free_keeps].
  unfold stream_body, verify_written. keeps.
Qed.

Lemma list_loop_keeps fuel d (l : list J) n : keeps gh (list_loop (W := W) fuel d l n).
Proof.
  revert l n. induction fuel as [|fuel IH]; intros l n; cbn [list_loop]; [done|]. keeps.
Qed.

Lemma absent_keeps d n : keeps gh (absent (W := W) d n).
Proof. unfold absent. keeps. Qed.
End Keeps.

#[export] Hint Resolve rx_emit_keeps rx_read_json_keeps rx_parent_alive_keeps rx_stat_fd_keeps
  proof_key_keeps proof_matches_keeps rx_write_all_keeps ack_keeps report_keeps copy_loop_keeps
  readback_loop_keeps stream_file_keeps list_loop_keeps absent_keeps : keeps.

(** *** Opening *)
Section Opening.
Context {W J : Type} `{KL : KernelFSLaws W} `{!JsonC J}.
Implicit Types (fs : storage_fs J) (w : W) (F : gset Z) (L : list mutation).

(** The world with exactly [fd] open besides [F]. *)
Definition holding (fd : Z) F L w : Prop := 0 <= fd /\ (fd ∉ F) /\ gh w = ({[fd]} ∪ F, L).

Lemma holding_close fd F L w : holding fd F L w -> gh (snd (sys_close fd w)) = (F, L).
Proof.
  intros (_ & Hn & E). rewrite close_law, E. simpl. f_equal. set_solver.
Qed.

Lemma holding_keeps {R} (f : W -> R * W) fd F L w :
  keeps gh f -> holding fd F L w -> holding fd F L (snd (f w)).
Proof. intros Hf (? & ? & E). split_and!; [done|done|]. by rewrite Hf. Qed.

(** What a function that opens a descriptor does from a known state. *)
Definition opens {A} (fd_of : A -> Z) F L (r : option A * W) : Prop :=
  match r with
  | (Some a, w') => holding (fd_of a) F L w'
  | (None, w') => gh w' = (F, L)
  end.

Lemma opening_opens (f : M W Z) F L w : opening gh f -> gh w = (F, L) -> opens id F L (f w).
Proof.
  intros Hf E. specialize (Hf w). unfold opens. rewrite E in Hf. simpl in Hf.
  destruct (f w) as [[a|] w']; rewrite ?app_nil_r in Hf; [exact Hf|].
  destruct Hf as [E1 [E2|E2]]; destruct (gh w'); simpl in *; by subst.
Qed.

Lemma or_close_keeps {A} (m : M W A) fd F L w :
  keeps gh m -> holding fd F L w ->
  match or_close fd m w with
  | (Some _, w') => holding fd F L w'
  | (None, w') => gh w' = (F, L)
  end.
Proof.
  intros Hm Hh. apply (holding_keeps m) in Hh; [|done]. unfold or_close.
  destruct (m w) as [[a|] w']; simpl in *; [done|]. by apply holding_close.
Qed.

Lemma no_creat fl x : Z.land fl O_CREAT = 0 -> Z.land x O_CREAT = 0 -> Z.land (Z.lor fl x) O_CREAT = 0.
Proof. intros E1 E2. by rewrite Z.land_lor_distr_l, E1, E2. Qed.

Lemma open_walk_opens fs (proof : J) fl parts prefix fd F L w :
  Z.land fl O_CREAT = 0 -> holding fd F L w ->
  opens id F L (open_walk fs proof fl parts prefix fd w).
Proof.
  intros Hfl. revert prefix fd w. induction parts as [|part next IH]; intros prefix fd w Hh; [done|].
  cbn [open_walk]. unfold bind at 1, or_close at 1.
  destruct Hh as (Hp & Hn & E).
  pose proof (openat_law fd part
    (Z.lor (match next with [] => fl | _ => Z.lor O_RDONLY O_DIRECTORY end) (Z.lor O_NOFOLLOW O_CLOEXEC))) as Ho.
  eapply opening_opens in Ho; [|by apply no_creat; [destruct next|]|exact E].
  destruct (sys_openat fd part _ w) as [[child|] w1]; cbn [opens id] in Ho.
  - unfold bind at 1, total. pose proof (close_law fd w1) as Hc.
    destruct (sys_close fd w1) as [b w2]. cbn [snd] in Hc.
    assert (Hh : holding child F L w2).
    { destruct Ho as (O1 & O2 & O3). split_and!; [done|set_solver|]. rewrite Hc, O3. simpl. f_equal.
      set_solver. }
    unfold bind at 1.
    eapply (or_close_keeps (bind (rx_stat_fd child) (fun s =>
      bind (require (same_device fs s)) (fun _ => proof_matches proof (extend prefix part) s)))) in Hh.
    2:{ keeps. }
    destruct (or_close child _ w2) as [[u|] w3]; [by apply IH|done].
  - cbn [opens]. rewrite close_law, Ho. simpl. f_equal. set_solver.
Qed.

Lemma open_bound_opens fs path (proof : J) fl F L w :
  Z.land fl O_CREAT = 0 -> gh w = (F, L) -> opens id F L (open_bound fs path proof fl w).
Proof.
  intros Hfl E. unfold open_bound. unfold bind at 1. destruct (rx_relative _ _); [|done]. simpl require.
  unfold ret. unfold bind at 1. pose proof (opening_opens _ _ _ _ (dup_law (root fs)) E) as Ho.
  destruct (sys_dup (root fs) w) as [[fd|] w1]; [|done]. cbn [opens id] in Ho.
  unfold bind at 1.
  eapply (or_close_keeps (bind (rx_stat_fd fd) (fun s => proof_matches proof [] s))) in Ho.
  2:{ keeps. }
  destruct (or_close fd _ w1) as [[u|] w2]; [|done]. by apply open_walk_opens.
Qed.

Definition basename (path : list Z) : list Z :=
  match strrchr 47 path with Some (_, b) => b | None => path end.

Lemma bound_parent_opens fs path (proof : J) F L w :
  gh w = (F, L) ->
  opens fst F L (bound_parent fs path proof w) /\
  (forall p w', bound_parent fs path proof w = (Some p, w') -> snd p = basename path).
Proof.
  intros E. unfold bound_parent, basename.
  destruct (match strrchr 47 path with Some (a, b) => (a, b) | None => ([], path) end) as [par name] eqn:Ep.
  assert (En : name = match strrchr 47 path with Some (_, b) => b | None => path end)
    by (destruct (strrchr 47 path) as [[? ?]|]; by simplify_eq).
  unfold bind. pose proof (open_bound_opens fs par proof (Z.lor O_RDONLY O_DIRECTORY) F L w eq_refl E) as Ho.
  destruct (open_bound fs par proof _ w) as [[fd|] w1]; simpl in *; [|done].
  split; [done|]. intros p w' [= <- <-]. done.
Qed.

(** A directory stream can always be opened on a duplicated descriptor. *)
Definition fdopendir_never_fails : Prop := forall d w, is_Some (fst (sys_fdopendir d w)).

Lemma list_dir_keeps fd : fdopendir_never_fails -> keeps gh (list_dir (W := W) (J := J) fd).
Proof.
  intros Hd w. unfold list_dir. unfold bind at 1. destruct (gh w) as [F L] eqn:E.
  pose proof (opening_opens _ _ _ _ (dup_law fd) E) as Ho.
  destruct (sys_dup fd w) as [[d|] w1]; [|done]. cbn [opens id] in Ho.
  unfold bind at 1. apply (holding_keeps (sys_fdopendir d)) in Ho; [|apply fdopendir_keeps].
  destruct (Hd d w1) as [u Hu]. destruct (sys_fdopendir d w1) as [r w2]. simpl in *. subst r.
  unfold bind at 1, gets. unfold bind at 1.
  apply (holding_keeps (list_loop (S (entries_left d w2)) d [] 0)) in Ho; [|apply list_loop_keeps].
  destruct (list_loop _ d [] 0 w2) as [[names|] w3]; simpl in Ho; destruct Ho as (_ & Hn & Eg).
  - unfold bind, total. pose proof (closedir_law d w3) as Hc.
    destruct (sys_closedir d w3) as [b w4]. simpl in Hc. rewrite Eg in Hc. simpl in Hc.
    destruct b; simpl; rewrite Hc; f_equal; set_solver.
  - simpl. rewrite closedir_law, Eg. simpl. f_equal. set_solver.
Qed.
End Opening.

(** *** A command from start to end *)
Section CommandGhost.
Context {W J : Type} `{KL : KernelFSLaws W} `{!JsonC J}.
Implicit Types (fs : storage_fs J) (w : W) (F : gset Z) (L : list mutation) (s : cmd_st W J).

Definition held (fd : Z) : gset Z := if 0 <=? fd then {[fd]} else ∅.

(** The descriptors open are [F] and the two locals, all different. *)
Definition cmd_inv F L s : Prop :=
  gh (cw s) = (held (c_fd s) ∪ (held (c_parent s) ∪ F), L) /\
  held (c_fd s) ## held (c_parent s) ∪ F /\ held (c_parent s) ## F.

Lemma held_nonneg fd : 0 <= fd -> held fd = {[fd]}.
Proof. intros. unfold held. by rewrite (proj2 (Z.leb_le 0 fd)). Qed.

Lemma close_if_ghost fd F L w :
  gh w = (held fd ∪ F, L) -> held fd ## F -> gh (snd (close_if fd w)) = (F, L).
Proof.
  unfold held, close_if. destruct (0 <=? fd); intros E Hd.
  - rewrite close_law, E. simpl. f_equal. set_solver.
  - cbn [snd]. rewrite E. by rewrite union_empty_l_L.
Qed.

Lemma command_out_ghost rc F L s : cmd_inv F L s -> gh (snd (command_out rc s)) = (F, L).
Proof.
  intros (E & D1 & D2). unfold command_out.
  pose proof (close_if_ghost _ _ _ _ E D1) as Hc. destruct (close_if (c_fd s) (cw s)) as [ok1 w1].
  cbn [snd] in Hc.
  pose proof (close_if_ghost _ _ _ _ Hc D2) as Hc'. by destruct (close_if (c_parent s) w1).
Qed.

(** The end of a command: at most one mutation, an allowed one, was made. *)
Definition at_end (auth : mutation -> Prop) F L s : Prop :=
  exists l, cmd_inv F l s /\ (l = L \/ exists m, l = L ++ [m] /\ auth m).

Section Steps.
Context {A : Type} (Q : A -> cmd_st W J -> Prop) (E : cmd_st W J -> Prop) (F : gset Z) (L : list mutation).

Lemma wp_sys_keeps {B} (m : M W B) (k : B -> M (cmd_st W J) A) s :
  keeps gh m -> cmd_inv F L s ->
  (forall s', cmd_inv F L s' -> E s') ->
  (forall b s', cmd_inv F L s' -> c_fd s' = c_fd s -> c_parent s' = c_parent s -> wp (k b) Q E s') ->
  wp (bind (sys m) k) Q E s.
Proof.
  intros Hm Hi HE Hk. unfold wp, bind, sys. specialize (Hm (cw s)).
  destruct (m (cw s)) as [[b|] w']; simpl in Hm.
  - apply Hk; try done. unfold cmd_inv in *. simpl. by rewrite Hm.
  - apply HE. unfold cmd_inv in *. simpl. by rewrite Hm.
Qed.

Lemma wp_open_fd (m : M W Z) (k : Z -> M (cmd_st W J) A) s :
  opens id (held (c_parent s) ∪ F) L (m (cw s)) -> c_fd s = -1 -> held (c_parent s) ## F ->
  (forall s', cmd_inv F L s' -> E s') ->
  (forall fd s', cmd_inv F L s' -> c_fd s' = fd -> c_parent s' = c_parent s -> 0 <= fd -> wp (k fd) Q E s') ->
  wp (bind (sys m) (fun fd => bind (set_fd fd) (fun _ => k fd))) Q E s.
Proof.
  intros Ho Hfd Hd HE Hk. unfold wp, bind, sys, set_fd, modify. destruct (m (cw s)) as [[fd|] w']; simpl in *.
  - destruct Ho as (Hp & Hn & Eg). unfold id in *. apply Hk; try done. unfold cmd_inv. simpl.
    rewrite held_nonneg by done. split_and!; [done|set_solver|done].
  - apply HE. unfold cmd_inv. simpl. rewrite Hfd. unfold held at 1 3. simpl.
    rewrite union_empty_l_L. split_and!; [done|set_solver|done].
Qed.

Lemma wp_open_parent (m : M W (Z * list Z)) (k : Z -> list Z -> M (cmd_st W J) A) name s :
  opens fst F L (m (cw s)) -> (forall p w', m (cw s) = (Some p, w') -> snd p = name) ->
  c_fd s = -1 -> c_parent s = -1 ->
  (forall s', cmd_inv F L s' -> E s') ->
  (forall fd s', cmd_inv F L s' -> c_fd s' = -1 -> c_parent s' = fd -> 0 <= fd -> wp (k fd name) Q E s') ->
  wp (bind (sys m) (fun pn => let '(p, n) := pn in bind (set_parent p) (fun _ => k p n))) Q E s.
Proof.
  intros Ho Hn Hfd Hpar HE Hk. unfold wp, bind, sys, set_parent, modify.
  destruct (m (cw s)) as [[[p n]|] w']; simpl in *.
  - specialize (Hn _ _ eq_refl) as <-. destruct Ho as (Hp & Hf & Eg). simpl in *.
    apply Hk; try done. unfold cmd_inv. simpl. rewrite Hfd, (held_nonneg p) by done. unfold held. simpl.
    rewrite union_empty_l_L. split_and!; [done|set_solver|set_solver].
  - apply HE. unfold cmd_inv. simpl. rewrite Hfd, Hpar. unfold held. simpl.
    rewrite !union_empty_l_L. split_and!; [done|set_solver|set_solver].
Qed.

Lemma wp_details o (k : unit -> M (cmd_st W J) A) s :
  cmd_inv F L s ->
  (forall s', cmd_inv F L s' -> c_fd s' = c_fd s -> c_parent s' = c_parent s -> wp (k tt) Q E s') ->
  wp (bind (set_details o) k) Q E s.
Proof. intros Hi Hk. unfold wp, bind, set_details, modify. by apply Hk. Qed.
End Steps.

Lemma at_end_same auth F L s : cmd_inv F L s -> at_end auth F L s.
Proof. intros. exists L. auto. Qed.

Lemma at_end_one (auth : mutation -> Prop) F L m s : auth m -> cmd_inv F (L ++ [m]) s -> at_end auth F L s.
Proof. intros. exists (L ++ [m]). eauto. Qed.
#[local] Hint Resolve at_end_same : core.

Lemma wp_require_end auth F L b s :
  cmd_inv F L s -> wp (require b) (fun _ => at_end auth F L) (at_end auth F L) s.
Proof. intros. apply wp_require; eauto. Qed.

(** A call that makes mutation [m], then code that only keeps. *)
Lemma wp_mutating {A} auth F L m {R} (f : M W R) (k : R -> M (cmd_st W J) A) s :
  mutating gh m f -> auth m -> cmd_inv F L s ->
  (forall r l s', cmd_inv F l s' -> l = L \/ l = L ++ [m] -> c_fd s' = c_fd s -> c_parent s' = c_parent s ->
     wp (k r) (fun _ => at_end auth F L) (at_end auth F L) s') ->
  wp (bind (sys f) k) (fun _ => at_end auth F L) (at_end auth F L) s.
Proof.
  intros Hm Ha (Eg & D1 & D2) Hk. unfold wp, bind, sys. destruct (Hm (cw s)) as [M1 M2].
  rewrite Eg in M1, M2. simpl in M1, M2.
  assert (Hi : exists l, cmd_inv F l (mk_cmd (snd (f (cw s))) (c_fd s) (c_parent s) (c_details s)) /\
    (l = L \/ l = L ++ [m])).
  { destruct (gh (snd (f (cw s)))) as [F' l] eqn:E'. simpl in M1, M2. exists l. split; [|done].
    unfold cmd_inv. simpl. rewrite E', M1. done. }
  destruct Hi as (l & Hi & Hl). destruct (f (cw s)) as [[r|] w']; simpl in *.
  - by eapply Hk.
  - exists l. split; [done|]. destruct Hl as [->| ->]; eauto.
Qed.

Lemma op_inspect_ghost auth fs op path data (proof : J) F L s :
  fdopendir_never_fails (W := W) -> cmd_inv F L s -> c_fd s = -1 -> c_parent s = -1 ->
  wp (op_inspect fs op path data proof) (fun _ => at_end auth F L) (at_end auth F L) s.
Proof.
  intros Hd Hi Hfd Hpar. unfold op_inspect.
  assert (Eg : gh (cw s) = (held (c_parent s) ∪ F, L)).
  { destruct Hi as (-> & _). rewrite Hfd. unfold held at 1. simpl. by rewrite union_empty_l_L. }
  eapply wp_open_fd; [by apply open_bound_opens|done|apply Hi|eauto|].
  intros fd s1 Hi1 Hf1 Hp1 _. eapply wp_sys_keeps; [apply rx_stat_fd_keeps|done|eauto|].
  intros before s2 Hi2 Hf2 Hp2. eapply wp_details; [done|]. intros s3 Hi3 Hf3 Hp3.
  apply wp_bind.
  assert (Hend : forall s', cmd_inv F L s' ->
    wp (bind (sys (rx_stat_fd fd)) (fun after => require (negb (beq op (bs "list")) || same_runtime before after)))
      (fun _ => at_end auth F L) (at_end auth F L) s').
  { intros s' Hs'. eapply wp_sys_keeps; [apply rx_stat_fd_keeps|done|eauto|]. intros. by apply wp_require_end. }
  destruct (beq op (bs "list")); [|destruct (beq op (bs "read"))].
  - apply wp_bind, wp_require; intros _; [|by eauto].
    eapply wp_sys_keeps; [by apply list_dir_keeps|done|eauto|]. intros names s4 Hi4 _ _.
    apply wp_modify. by apply Hend.
  - apply wp_bind, wp_require; intros _; [|by eauto].
    eapply wp_details; [done|]. intros s4 Hi4 _ _.
    eapply wp_sys_keeps; [apply stream_file_keeps|done|eauto|]. intros d s5 Hi5 _ _.
    apply wp_modify. by apply Hend.
  - apply wp_ret. by apply Hend.
Qed.

Lemma op_write_ghost auth fs (command : J) op path to seq request data parent name F L s :
  auth (MCreate parent name) -> cmd_inv F L s -> c_fd s = -1 ->
  wp (op_write fs command op path to seq request data parent name)
    (fun _ => at_end auth F L) (at_end auth F L) s.
Proof.
  intros Ha Hi Hfd. unfold op_write. apply wp_bind, wp_require; intros _; [|by eauto].
  destruct (write_length command) as [fixed|]; [|apply wp_fail; eauto].
  unfold wp, bind at 1, sys at 1.
  match goal with |- context [sys_openat parent name ?fl] =>
    pose proof (create_law parent name fl ltac:(done) (cw s)) as Hc end.
  destruct (sys_openat parent name _ (cw s)) as [[fd|] w1]; destruct Hi as (Eg & D1 & D2);
    rewrite Eg in Hc; simpl in Hc.
  2:{ destruct Hc as [C1 C2]. destruct (gh w1) as [F' l] eqn:E'. simpl in C1, C2. subst F'.
      exists l. split; [by unfold cmd_inv; simpl; rewrite E'|]. destruct C2 as [->| ->]; eauto. }
  unfold id in Hc. destruct Hc as (Hp & Hn & E').
  match goal with |- match ?m _ with _ => _ end =>
    change (wp m (fun _ => at_end auth F L) (at_end auth F L)
      (mk_cmd w1 (c_fd s) (c_parent s) (c_details s))) end.
  apply wp_bind, wp_modify. simpl.
  assert (Hi1 : cmd_inv F (L ++ [MCreate parent name]) (mk_cmd w1 fd (c_parent s) (c_details s))).
  { unfold cmd_inv. simpl. rewrite E', Hfd, (held_nonneg fd) by done. rewrite Hfd in Hn. unfold held at 1 in Hn.
    simpl in Hn. unfold held at 1. simpl. rewrite union_empty_l_L in *. split_and!; [done|set_solver|done]. }
  assert (Hend : forall s', cmd_inv F (L ++ [MCreate parent name]) s' -> at_end auth F L s')
    by (intros; by eapply at_end_one).
  eapply wp_sys_keeps; [apply rx_stat_fd_keeps|exact Hi1|exact Hend|]. intros after s2 Hi2 _ _.
  eapply wp_sys_keeps; [apply ack_keeps|exact Hi2|exact Hend|]. intros pr s3 Hi3 _ _.
  eapply wp_sys_keeps; [apply stream_file_keeps|exact Hi3|exact Hend|]. intros d s4 Hi4 _ _.
  eapply wp_details; [exact Hi4|]. intros s5 Hi5 _ _. destruct fixed; [|by apply wp_ret, Hend].
  eapply wp_sys_keeps; [apply rx_stat_fd_keeps|exact Hi5|exact Hend|]. intros sealed s6 Hi6 _ _.
  apply wp_require; intros _; by apply Hend.
Qed.

Lemma cmd_inv_bare F L s : cmd_inv F L s -> c_fd s = -1 -> gh (cw s) = (held (c_parent s) ∪ F, L).
Proof. intros (-> & _) ->. unfold held at 1. simpl. by rewrite union_empty_l_L. Qed.

Lemma op_create_ghost (auth : mutation -> Prop) fs (command : J) op path to seq request data (proof : J) F L s :
  (forall d, op = bs "mkdir-owned" -> auth (MMkdir d (basename path))) ->
  (forall d, op <> bs "mkdir-owned" -> auth (MCreate d (basename path))) ->
  cmd_inv F L s -> c_fd s = -1 -> c_parent s = -1 ->
  wp (op_create fs command op path to seq request data proof)
    (fun _ => at_end auth F L) (at_end auth F L) s.
Proof.
  intros Hmk Hcr Hi Hfd Hpar. unfold op_create.
  assert (Eg : gh (cw s) = (F, L)).
  { rewrite (cmd_inv_bare F L s) by done. rewrite Hpar. unfold held. simpl. by rewrite union_empty_l_L. }
  eapply wp_open_parent; [by apply bound_parent_opens|by apply (bound_parent_opens _ _ _ F L)|done|done|eauto|].
  intros par s1 Hi1 Hf1 Hp1 _. eapply wp_sys_keeps; [apply proof_key_keeps|done|eauto|].
  intros key s2 Hi2 Hf2 Hp2. rewrite Hf1 in Hf2. pose proof (cmd_inv_bare _ _ _ Hi2 Hf2) as Eg2.
  destruct (json_object_object_get_ex proof key).
  - apply wp_bind, wp_require; intros _; [|by eauto].
    eapply wp_open_fd; [by apply open_bound_opens|done|apply Hi2|eauto|]. intros fd s3 Hi3 _ _ _.
    eapply wp_sys_keeps; [apply rx_stat_fd_keeps|done|eauto|]. intros. apply wp_modify; eauto.
  - destruct (beq op (bs "mkdir-owned")) eqn:Eop; breflect; [|by apply op_write_ghost; auto].
    eapply wp_mutating; [apply mkdirat_law|by apply Hmk|done|]. intros r l s3 Hi3 Hl Hf3 _.
    assert (Hend : forall s', cmd_inv F l s' -> at_end auth F L s').
    { intros s' Hs'. destruct Hl as [-> | ->]; [eauto|]. eapply at_end_one; [|done]. by apply Hmk. }
    rewrite Hf2 in Hf3. pose proof (cmd_inv_bare _ _ _ Hi3 Hf3) as Eg3.
    eapply wp_open_fd; [by apply opening_opens; [apply openat_law|]|done|apply Hi3|exact Hend|].
    intros fd s4 Hi4 _ _ _.
    eapply wp_sys_keeps; [apply rx_stat_fd_keeps|exact Hi4|exact Hend|]. intros after s5 Hi5 _ _.
    by apply wp_modify, Hend.
Qed.

Lemma mutating_after {A B} m (f : M W A) (k : A -> M W B) :
  keeps gh f -> (forall a, mutating gh m (k a)) -> mutating gh m (bind f k).
Proof.
  intros Hf Hk w. specialize (Hf w). unfold bind. destruct (f w) as [[a|] w1]; simpl in *.
  - rewrite <- Hf. apply Hk.
  - rewrite Hf. by split; [|left].
Qed.

Lemma controlled_rename_mutating fs path (proof : J) before par name target dest :
  mutating gh (MRename par name target dest)
    (controlled_rename (W := W) fs path proof before par name target dest).
Proof.
  unfold controlled_rename. destruct (json_object_object_get_ex proof _); [|intros w; by split; [|left]].
  apply mutating_after; [apply keeps_require|]. intros _ w. destruct (gh w) as [F L] eqn:E.
  unfold bind at 1. pose proof (open_bound_opens fs path proof O_RDONLY F L w eq_refl E) as Ho.
  destruct (open_bound fs path proof O_RDONLY w) as [[fd|] w1]; cbn [opens id] in Ho.
  2:{ cbn [snd]. rewrite Ho. by split; [|left]. }
  unfold bind at 1.
  eapply (or_close_keeps (bind (rx_stat_fd fd) (fun after => require (same_runtime before after)))) in Ho.
  2:{ keeps. }
  destruct (or_close fd _ w1) as [[u|] w2]; [|cbn [snd]; rewrite Ho; by split; [|left]].
  unfold bind at 1, total. apply holding_close in Ho. destruct (sys_close fd w2) as [b w3].
  cbn [snd] in Ho. rewrite <- Ho.
  apply (mutating_after (MRename par name target dest) (absent target dest)
    (fun _ => sys_renameat par name target dest)); [apply absent_keeps|]. intros _. apply renameat_law.
Qed.

Lemma rename_into_mutating fs path (proof : J) before par name target dest :
  mutating gh (MRename par name target dest)
    (rename_into (W := W) fs path proof before par name target dest).
Proof.
  unfold rename_into. apply mutating_after; [apply absent_keeps|]. intros _ w.
  unfold bind at 1, total. pose proof (renameat2_law par name target dest w) as Hm.
  pose proof (renameat2_unsupported par name target dest w) as Hu.
  destruct (sys_renameat2_noreplace par name target dest w) as [[u|e] w1]; simpl in Hm; [done|].
  pose proof (controlled_rename_mutating fs path proof before par name target dest w1) as Hc.
  destruct e; try done; rewrite (Hu _ _ eq_refl ltac:(tauto)) in Hc; exact Hc.
Qed.

(** The same with a third descriptor [t], the target directory, open. *)
Lemma drop_target t F L s w' l :
  cmd_inv ({[t]} ∪ F) L s -> t ∉ F -> gh w' = ((gh (cw s)).1, l) ->
  cmd_inv F l (mk_cmd (snd (sys_close t w')) (c_fd s) (c_parent s) (c_details s)).
Proof.
  intros (Eg & D1 & D2) Hn E'. unfold cmd_inv. simpl. rewrite close_law, E', Eg. simpl.
  split_and!; [f_equal; set_solver|set_solver|set_solver].
Qed.

Lemma wp_target_mutating {A} (auth : mutation -> Prop) t F L m (f : M W unit)
    (k : unit -> M (cmd_st W J) A) s :
  mutating gh m f -> auth m -> cmd_inv ({[t]} ∪ F) L s -> t ∉ F ->
  (forall l s', cmd_inv ({[t]} ∪ F) l s' -> l = L \/ l = L ++ [m] -> c_fd s' = c_fd s ->
     wp (k tt) (fun _ => at_end auth F L) (at_end auth F L) s') ->
  wp (bind (sys (or_close t f)) k) (fun _ => at_end auth F L) (at_end auth F L) s.
Proof.
  intros Hm Ha Hi Hn Hk. unfold wp, bind, sys, or_close. destruct (Hm (cw s)) as [M1 M2].
  destruct (f (cw s)) as [[[]|] w']; cbn [snd] in M1, M2; destruct (gh w') as [F' l] eqn:E';
    simpl in M1, M2; subst F'; (assert (Hl : l = L \/ l = L ++ [m]) by (by destruct Hi as [Eg _]; rewrite Eg in M2)).
  - apply (Hk l); try done. destruct Hi as (Eg & D1 & D2). unfold cmd_inv. simpl. by rewrite E', Eg.
  - exists l. split; [by eapply drop_target|]. destruct Hl as [-> | ->]; eauto.
Qed.

Lemma wp_target_open {A} (Q : A -> cmd_st W J -> Prop) E t F L (f : M W Z)
    (k : Z -> M (cmd_st W J) A) s :
  opening gh f -> cmd_inv ({[t]} ∪ F) L s -> t ∉ F -> c_fd s = -1 ->
  (forall s', cmd_inv F L s' -> E s') -> (forall fd s', cmd_inv F L s' -> wp (k fd) Q E s') ->
  wp (bind (sys (or_close t f)) (fun fd => bind (sys (total (sys_close t)))
        (fun _ => bind (set_fd fd) (fun _ => k fd)))) Q E s.
Proof.
  intros Hf Hi Hn Hfd HE Hk. destruct (Hi) as (Eg & D1 & D2).
  pose proof (opening_opens _ _ _ _ Hf Eg) as Ho. unfold wp, bind, sys, or_close, total, set_fd, modify.
  destruct (f (cw s)) as [[fd|] w'] eqn:Ef; cbn [opens id] in Ho.
  - destruct Ho as (Hp & Hq & E'). rewrite Hfd in *. unfold held in D1, Hq, E' at 1. simpl in D1, Hq, E'.
    unfold id in *. cbn [cw]. pose proof (close_law t w') as Hc. destruct (sys_close t w') as [b w2].
    simpl in *. apply Hk. unfold cmd_inv. cbn [cw c_fd c_parent]. rewrite (held_nonneg fd) by done.
    rewrite Hc, E'. simpl. split_and!; [f_equal; set_solver|set_solver|set_solver].
  - apply HE. eapply drop_target; [done|done|]. by rewrite Ho, Eg.
Qed.

Lemma op_move_ghost (auth : mutation -> Prop) fs op path to (proof : J) F L s :
  (forall d, op = bs "remove-owned" -> auth (MUnlink d (basename path))) ->
  (forall d d' t, op <> bs "remove-owned" -> to = Some t ->
     auth (MRename d (basename path) d' (basename t))) ->
  cmd_inv F L s -> c_fd s = -1 -> c_parent s = -1 ->
  wp (op_move fs op path to proof) (fun _ => at_end auth F L) (at_end auth F L) s.
Proof.
  intros Hrm Hmv Hi Hfd Hpar. unfold op_move.
  eapply wp_open_fd; [apply open_bound_opens; [done|by apply cmd_inv_bare]|done|apply Hi|eauto|].
  intros fd s1 Hi1 Hf1 Hp1 Hge. rewrite Hpar in Hp1.
  eapply wp_sys_keeps; [apply rx_stat_fd_keeps|done|eauto|]. intros before s2 Hi2 Hf2 Hp2.
  rewrite Hf1 in Hf2. rewrite Hp1 in Hp2.
  assert (Eg : gh (snd (sys_close fd (cw s2))) = (F, L)).
  { destruct Hi2 as (E2 & D1 & D2). rewrite close_law, E2, Hp2, Hf2, held_nonneg by done.
    rewrite Hp2, Hf2, held_nonneg in D1 by done. unfold held in *. simpl in *. f_equal. set_solver. }
  unfold wp, bind at 1, sys at 1, total. destruct (sys_close fd (cw s2)) as [b w3]. cbn [snd] in Eg.
  match goal with |- match ?m _ with _ => _ end =>
    change (wp m (fun _ => at_end auth F L) (at_end auth F L)
      (mk_cmd w3 (c_fd s2) (c_parent s2) (c_details s2))) end.
  apply wp_bind, wp_modify. cbn [cw c_parent c_details].
  eapply (wp_open_parent _ _ F L _ _ (basename path));
    [by apply bound_parent_opens|by apply (bound_parent_opens _ _ _ F L)|done|done|eauto|].
  intros par s3 Hi3 Hf3 Hp3 Hge3. destruct (beq op (bs "remove-owned")) eqn:Eop; breflect.
  - eapply wp_mutating; [apply unlinkat_law|by apply Hrm|done|]. intros r l s4 Hi4 Hl _ _.
    apply wp_modify. destruct Hl as [-> | ->]; [by eauto|]. eapply at_end_one; [|done]. by apply Hrm.
  - destruct to as [to|]; [|by apply wp_fail; eauto].
    unfold wp, bind at 1, sys at 1.
    destruct (bound_parent_opens fs to proof _ _ _ (cmd_inv_bare _ _ _ Hi3 Hf3)) as [Ho Hb].
    destruct (bound_parent fs to proof (cw s3)) as [[[target dest]|] w4].
    2:{ cbn [opens] in Ho. apply at_end_same. destruct Hi3 as (_ & D1 & D2). unfold cmd_inv. cbn [cw c_fd c_parent].
        rewrite Ho, Hf3. unfold held at 2 4. simpl. rewrite union_empty_l_L. split_and!; [done|set_solver|done]. }
    specialize (Hb _ _ eq_refl). cbn [snd] in Hb. subst dest. destruct Ho as (Ht & Hn & E4). cbn [fst] in *.
    match goal with |- match ?m _ with _ => _ end =>
      change (wp m (fun _ => at_end auth F L) (at_end auth F L)
        (mk_cmd w4 (c_fd s3) (c_parent s3) (c_details s3))) end.
    eapply (wp_target_mutating auth target F L); [apply rename_into_mutating|by apply Hmv| |set_solver|].
    { destruct Hi3 as (_ & D1 & D2). unfold cmd_inv. cbn [cw c_fd c_parent]. rewrite E4, Hf3.
      unfold held at 2 4. simpl. split_and!; [f_equal; set_solver|set_solver|set_solver]. }
    intros l s5 Hi5 Hl Hf5. cbn [c_fd] in Hf5. rewrite Hf3 in Hf5.
    assert (Hend : forall s', cmd_inv F l s' -> at_end auth F L s').
    { intros s' Hs'. destruct Hl as [-> | ->]; [eauto|]. eapply at_end_one; [|done]. by apply Hmv. }
    eapply (wp_target_open _ _ target F l); [by apply openat_law|done|set_solver|done|exact Hend|].
    intros fd' s6 Hi6. eapply wp_sys_keeps; [apply rx_stat_fd_keeps|exact Hi6|exact Hend|].
    intros after s7 Hi7 _ _. apply wp_bind, wp_require; intros _; [|by apply Hend].
    by apply wp_modify, Hend.
Qed.

(** The mutation an operation may make, by its name and its paths. *)
Definition authorized (op path : list Z) (to : option (list Z)) (m : mutation) : Prop :=
  match m with
  | MMkdir _ n => op = bs "mkdir-owned" /\ n = basename path
  | MCreate _ n => op = bs "write" /\ n = basename path
  | MUnlink _ n => op = bs "remove-owned" /\ n = basename path
  | MRename _ n _ n' => op = bs "rename-owned" /\ n = basename path /\
      exists t, to = Some t /\ n' = basename t
  end.

Definition names_of (m : mutation) : list (list Z) :=
  match m with
  | MMkdir _ n | MCreate _ n | MUnlink _ n => [n]
  | MRename _ n _ n' => [n; n']
  end.

Lemma one_of_two op a b : one_of op [a; b] = true <-> op = bs a \/ op = bs b.
Proof. unfold one_of. simpl. rewrite !orb_true_iff, !beq_true. intuition congruence. Qed.

Lemma dispatch_ghost fs (command : J) op path to seq request data (proof : J) F L s :
  fdopendir_never_fails (W := W) -> cmd_inv F L s -> c_fd s = -1 -> c_parent s = -1 ->
  wp (dispatch fs command op path to seq request data proof)
    (fun _ => at_end (authorized op path to) F L) (at_end (authorized op path to) F L) s.
Proof.
  intros Hd Hi Hf Hp. unfold dispatch.
  apply wp_if; intros E1; [by apply op_inspect_ghost|].
  apply wp_if; intros E2; [apply one_of_two in E2|].
  { apply op_create_ghost; try done. simpl. intros d Hop. split; [tauto|done]. }
  apply wp_if; intros E3; [apply one_of_two in E3|apply wp_fail; eauto].
  apply op_move_ghost; try done. simpl.
  intros d d' t Hop ->. split_and!; [tauto|done|by exists t].
Qed.

Lemma perform_ghost fs (command : J) op path to seq request data F L w :
  fdopendir_never_fails (W := W) -> gh w = (F, L) ->
  let g := gh (snd (perform fs command op path to seq request data w)) in
  g.1 = F /\ (g.2 = L \/ exists m, g.2 = L ++ [m] /\ authorized op path to m).
Proof.
  intros Hd E. unfold perform, bind.
  pose proof (ack_keeps (context fs) (event_for (context fs) (bs "intent") op path to seq) request (result fs) w) as Hk.
  destruct (ack _ _ request (result fs) w) as [[proof|] w1]; cbn [snd] in *; rewrite E in Hk;
    [|rewrite Hk; auto].
  assert (Hi : cmd_inv F L (mk_cmd (J := J) w1 (-1) (-1) None)).
  { unfold cmd_inv, held. simpl. rewrite Hk, !union_empty_l_L. split_and!; [done|set_solver|set_solver]. }
  pose proof (dispatch_ghost fs command op path to seq request data proof F L _ Hd Hi eq_refl eq_refl) as Hw.
  unfold wp in Hw. destruct (dispatch fs command op path to seq request data proof _) as [rc s].
  assert (Hend : at_end (authorized op path to) F L s) by (by destruct rc).
  destruct Hend as (l & Hinv & Hl). rewrite (command_out_ghost rc F l s Hinv). simpl.
  split; [done|]. destruct Hl as [->|(m & -> & ?)]; eauto.
Qed.

Lemma basename_atom p : relative_path p -> atom_ok (basename p).
Proof.
  intros (_ & l & -> & Hl & Fl). destruct (exists_last (l := l)) as (l' & a & ->).
  { by intros ->; simpl in Hl; lia. }
  apply Forall_app in Fl as [_ Fa]. inversion_clear Fa as [|? ? Ha _]. destruct l' as [|b l'].
  - simpl. unfold basename. by rewrite (proj2 (strrchr_None 47 a)) by apply Ha.
  - rewrite join_app by done. unfold basename.
    by rewrite (proj2 (strrchr_Some 47 _ (join (b :: l')) a)) by (split; [done|apply Ha]).
Qed.

Lemma accept_command_inv fs (command : J) op path to seq :
  accept_command fs command = Some (op, path, to, seq) ->
  rx_string command (bs "operation") 24 = Some op /\ rx_string command (bs "path") 4095 = Some path /\
  rx_string command (bs "to") 4095 = to /\
  rx_sequence command = Some seq /\ seq = last_sequence fs + 1 /\ seq < UINT64_MAX - 2 /\
  path_allowed (context fs) path (is_mutation op) = true /\
  (forall t, to = Some t -> path_allowed (context fs) t (is_mutation op) = true).
Proof.
  unfold accept_command. intros Ha. opt_inv Ha. simplify_eq. breflect. split_and!; try done.
  intros t Ht. by rewrite Ht in *.
Qed.

Lemma authorized_names fs (command : J) op path to seq m :
  context_ok (context fs) -> accept_command fs command = Some (op, path, to, seq) ->
  authorized op path to m ->
  path_allowed (context fs) path true = true /\ Forall atom_ok (names_of m).
Proof.
  intros Hc Ha Hm. apply accept_command_inv in Ha as (_ & _ & _ & _ & _ & _ & Hp & Ht).
  assert (Emut : is_mutation op = true).
  { unfold is_mutation, one_of. simpl. rewrite !orb_true_iff, !beq_true.
    destruct m; simpl in Hm; destruct_and?; auto. }
  rewrite Emut in *. split; [done|]. assert (Hb : atom_ok (basename path)).
  { apply basename_atom. by eapply allowed_mutation_nonempty. }
  destruct m; simpl in Hm; try (destruct Hm as [_ ->]; by apply Forall_singleton).
  destruct Hm as (_ & -> & t & -> & ->). simpl. rewrite !Forall_cons. split_and!; [done| |constructor].
  apply basename_atom. eapply allowed_mutation_nonempty; [done|]. by apply Ht.
Qed.

Lemma rx_command_ghost fs (command : J) request data res w ok fs' w' :
  fdopendir_never_fails (W := W) -> context_ok (context fs) ->
  rx_command fs command request data res w = (ok, fs', w') ->
  (gh w').1 = (gh w).1 /\
  ((gh w').2 = (gh w).2 \/
   exists m op path, (gh w').2 = (gh w).2 ++ [m] /\
     rx_string command (bs "operation") 24 = Some op /\
     rx_string command (bs "path") 4095 = Some path /\
     path_allowed (context fs) path true = true /\
     authorized op path (rx_string command (bs "to") 4095) m /\ Forall atom_ok (names_of m)).
Proof.
  intros Hd Hc Hr. destruct (gh w) as [F L] eqn:E. simpl. unfold rx_command in Hr.
  set (fs1 := mk_fs (context fs) (root fs) res (root_stat fs) (last_count fs) (last_sequence fs)) in *.
  destruct (accept_command fs1 command) as [[[[op path] to] seq]|] eqn:Ea.
  2:{ simplify_eq. rewrite E. auto. }
  pose proof (perform_ghost fs1 command op path to seq request data F L w Hd E) as [G1 G2].
  assert (Hlast : gh w' = gh (snd (perform fs1 command op path to seq request data w))).
  { destruct (perform fs1 command op path to seq request data w) as [[details|] w1]; [|by simplify_eq].
    destruct (if beq op (bs "write") then _ else _) as [size|]; [|by simplify_eq]. cbn [snd].
    match type of Hr with context [ack ?c ?e request res w1] =>
      pose proof (ack_keeps c e request res w1) as Hk; destruct (ack c e request res w1) as [[p|] w2] end;
      cbn [snd] in Hk; by simplify_eq. }
  rewrite Hlast. split; [done|]. destruct G2 as [G2|(m & G2 & Hm)]; [by left|]. right.
  destruct (authorized_names fs1 command op path to seq m Hc Ea Hm) as [Hp Hn].
  apply accept_command_inv in Ea as (-> & -> & -> & _). exists m, op, path. by split_and!.
Qed.


Lemma rx_command_seq fs (command : J) request data res w ok fs' w' :
  rx_command fs command request data res w = (ok, fs', w') ->
  context fs' = context fs /\
  match accept_command fs command with
  | None => ok = false /\ last_sequence fs' = last_sequence fs /\ w' = w
  | Some (op, _, _, seq) =>
      rx_sequence command = Some (last_sequence fs + 1) /\ seq = last_sequence fs + 1 /\
      last_sequence fs' =
        (if ok then last_sequence fs + (if beq op (bs "write") then 3 else 2)
         else last_sequence fs) /\
      last_sequence fs' < UINT64_MAX
  end.
Proof.
  intros Hr. unfold rx_command in Hr.
  set (fs1 := mk_fs (context fs) (root fs) res (root_stat fs) (last_count fs) (last_sequence fs)) in *.
  change (accept_command fs command) with (accept_command fs1 command).
  destruct (accept_command fs1 command) as [[[[op path] to] seq]|] eqn:Ea; [|by simplify_eq].
  apply accept_command_inv in Ea as (_ & _ & _ & Hs & -> & Hlt & _). subst fs1.
  cbn [last_sequence context root root_stat last_count] in *.
  assert (Hend : forall d, 0 <= d <= 3 -> last_sequence fs + d < UINT64_MAX) by (intros; lia).
  pose proof (Hend 0 ltac:(lia)) as H0'. rewrite Z.add_0_r in H0'.
  destruct (perform _ command op path to _ request data w) as [[details|] w1];
    [|injection Hr as <- <- <-; cbn [last_sequence context]; by split_and!].
  destruct (if beq op (bs "write") then _ else _) as [size|];
    [|injection Hr as <- <- <-; cbn [last_sequence context]; by split_and!].
  destruct (ack _ _ request res w1) as [[p|] w2]; injection Hr as <- <- <-;
    cbn [last_sequence context]; [|by split_and!].
  split_and!; [done|done|done| |].
  - destruct (beq op (bs "write")); lia.
  - pose proof (Hend 2) as E1. pose proof (Hend 3) as E2. destruct (beq op (bs "write")); lia.
Qed.

(** C13: Sequence numbers.  A command runs only when it carries the number
    after the last one acknowledged; when it succeeds the last number has
    advanced by two, the intent and the result, by three for a write (whose
    creation is acknowledged on its own), without ever wrapping; when it fails the number is unchanged, and a
    command refused by the checks has not touched the world at all. *)
Theorem rx_command_sequence fs (command : J) request data res w ok fs' w' :
  rx_command fs command request data res w = (ok, fs', w') ->
  context fs' = context fs /\
  match accept_command fs command with
  | None => ok = false /\ last_sequence fs' = last_sequence fs /\ w' = w
  | Some (op, _, _, seq) =>
      rx_sequence command = Some (last_sequence fs + 1) /\ seq = last_sequence fs + 1 /\
      last_sequence fs' =
        (if ok then last_sequence fs + (if beq op (bs "write") then 3 else 2)
         else last_sequence fs) /\
      last_sequence fs' < UINT64_MAX
  end.
Proof. apply rx_command_seq. Qed.
End CommandGhost.
