(* ===== verification/StorageStream.v ===== *)
(** * rootpxe-storage-io: what a transfer moves

    The bytes a [stream_file] forwards, the digest it reports for them, and
    that its loops end, from what the kernel and OpenSSL promise. *)
From S2P Require Import Prelude CLib StorageIO StorageContext StorageFs.
Local Open Scope Z_scope.
Local Open Scope list_scope.
Local Open Scope cmonad_scope.

(** [absorbed]: what the digest context has been fed since it was started. *)
Class StreamLaws (W : Type) `{KernelIOLaws W} `{KernelProc W, KernelFS W, Evp W} := {
  sha256 : list Z -> list Z;
  absorbed : W -> list Z;
  quiet (w w' : W) : Prop :=
    (forall fd, sunk fd w' = sunk fd w) /\ (forall fd, pending fd w' = pending fd w) /\
    (intr w' <= intr w)%nat;
  getppid_quiet w : quiet w (snd (sys_getppid w)) /\ absorbed (snd (sys_getppid w)) = absorbed w;
  statx_quiet fd w : quiet w (snd (sys_statx fd w)) /\ absorbed (snd (sys_statx fd w)) = absorbed w;
  fsync_quiet fd w : quiet w (snd (sys_fsync fd w)) /\ absorbed (snd (sys_fsync fd w)) = absorbed w;
  lseek_law fd w : let w' := snd (sys_lseek_start fd w) in
    (forall fd', sunk fd' w' = sunk fd' w) /\ (forall fd', fd' <> fd -> pending fd' w' = pending fd' w) /\
    (intr w' <= intr w)%nat /\ absorbed w' = absorbed w;
  read_absorbed fd n w : absorbed (snd (sys_read fd n w)) = absorbed w;
  write_absorbed fd p w : absorbed (snd (sys_write fd p w)) = absorbed w;
  evp_new_law w : quiet w (snd (evp_new w)) /\ (fst (evp_new w) = Some tt -> absorbed (snd (evp_new w)) = []);
  evp_init_law w : quiet w (snd (evp_init w)) /\ (fst (evp_init w) = Some tt -> absorbed (snd (evp_init w)) = []);
  evp_update_law p w : quiet w (snd (evp_update p w)) /\
    (fst (evp_update p w) = Some tt -> absorbed (snd (evp_update p w)) = absorbed w ++ p);
  evp_final_law w : quiet w (snd (evp_final w)) /\
    (forall d, fst (evp_final w) = Some d -> d = sha256 (absorbed w));
  evp_free_law w : quiet w (snd (evp_free w));
  bytes_left_law fd w : (length (pending fd w) <= bytes_left fd w)%nat
}.

Section Streams.
Context {W J : Type} `{SL : StreamLaws W} `{!JsonC J}.
Implicit Types (fs : storage_fs J) (w : W).

(** Only the descriptor [res] may have received something. *)
Definition only_sunk (res : Z) w w' : Prop :=
  (forall fd, fd <> res -> sunk fd w' = sunk fd w) /\ (forall fd, pending fd w' = pending fd w) /\
  (intr w' <= intr w)%nat.

Lemma quiet_only res w w' : quiet w w' -> only_sunk res w w'.
Proof. intros (A & B & C). by split_and!. Qed.

Lemma only_sunk_refl res w : only_sunk res w w.
Proof. by split_and!. Qed.

Lemma only_sunk_trans res w1 w2 w3 : only_sunk res w1 w2 -> only_sunk res w2 w3 -> only_sunk res w1 w3.
Proof.
  intros (A1 & B1 & C1) (A2 & B2 & C2). split_and!; [..|lia].
  - intros fd Hfd. by rewrite A2, A1.
  - intros fd. by rewrite B2, B1.
Qed.

Lemma rx_parent_alive_quiet (c : storage_context J) w :
  quiet w (snd (rx_parent_alive c w)) /\ absorbed (snd (rx_parent_alive c w)) = absorbed w.
Proof.
  unfold rx_parent_alive. destruct (1 <? parent c); [|by split_and!].
  unfold bind, total. pose proof (getppid_quiet w) as Hq. by destruct (sys_getppid w).
Qed.

Lemma rx_stat_fd_quiet fd w :
  quiet w (snd (rx_stat_fd fd w)) /\ absorbed (snd (rx_stat_fd fd w)) = absorbed w.
Proof.
  unfold rx_stat_fd, bind. pose proof (statx_quiet fd w) as Hq.
  destruct (sys_statx fd w) as [[s|] w1]; [|done]. by destruct (Z.land _ _ =? _).
Qed.

Lemma write_loop_absorbed fuel fd p w : absorbed (snd (write_loop fuel fd p w)) = absorbed w.
Proof.
  revert p w. induction fuel as [|fuel IH]; intros [|x p] w; try done. simpl.
  pose proof (write_absorbed fd (x :: p) w) as Hw.
  destruct (sys_write fd (x :: p) w) as [[n|e] w1]; simpl in *.
  - destruct (n =? 0)%nat; [done|]. by rewrite IH.
  - destruct e; try done. by rewrite IH.
Qed.

Lemma rx_write_all_effect fd p w ok w' :
  rx_write_all fd p w = (ok, w') ->
  only_sunk fd w w' /\ absorbed w' = absorbed w /\ (ok = true -> sunk fd w' = sunk fd w ++ p).
Proof.
  intros E. pose proof (write_loop_absorbed (length p + intr w) fd p w) as Ha.
  unfold rx_write_all in E. rewrite E in Ha.
  apply write_loop_spec in E as (k & Hk & Hs & Hok & F); [|lia]. split_and!; try apply F; [done|].
  intros ->. rewrite Hs. f_equal. apply take_ge. by rewrite (proj1 Hok eq_refl).
Qed.

Lemma rx_emit_effect fd (o : J) w :
  only_sunk fd w (snd (rx_emit fd o w)) /\ absorbed (snd (rx_emit fd o w)) = absorbed w.
Proof.
  unfold rx_emit. destruct (negb _); [split; [apply only_sunk_refl|done]|].
  destruct (rx_write_all fd (take _ _) w) as [ok w1] eqn:E1. apply rx_write_all_effect in E1 as (A1 & B1 & _).
  destruct ok; [|done]. destruct (rx_write_all fd [10] w1) as [ok w2] eqn:E2.
  apply rx_write_all_effect in E2 as (A2 & B2 & _). cbn [snd].
  split; [by eapply only_sunk_trans|congruence].
Qed.

Lemma report_effect fs st n p w :
  only_sunk (result fs) w (snd (report fs st n p w)) /\ absorbed (snd (report fs st n p w)) = absorbed w.
Proof.
  unfold report, stream_progress. destruct (1048576 <=? n - p); [|split; [apply only_sunk_refl|done]].
  unfold bind, total. match goal with |- context [rx_emit ?fd ?o w] => pose proof (rx_emit_effect fd o w) as He;
    destruct (rx_emit fd o w) as [[] w1] end; exact He.
Qed.
(** [bytes] went from [src] to [dst], through the digest. *)
Definition moved (src dst res : Z) (bytes : list Z) w w' : Prop :=
  pending src w = bytes ++ pending src w' /\ sunk dst w' = sunk dst w ++ bytes /\
  absorbed w' = absorbed w ++ bytes /\ (intr w' <= intr w)%nat /\
  (forall fd, fd <> src -> pending fd w' = pending fd w).

Lemma moved_nil src dst res w w' :
  only_sunk res w w' -> absorbed w' = absorbed w -> dst <> res -> moved src dst res [] w w'.
Proof.
  intros (A & B & C) Ha Hd. unfold moved. rewrite !app_nil_r, A, B by done. split_and!; done || auto.
Qed.

Lemma moved_trans src dst res b1 b2 w1 w2 w3 :
  moved src dst res b1 w1 w2 -> moved src dst res b2 w2 w3 -> moved src dst res (b1 ++ b2) w1 w3.
Proof.
  intros (P1 & S1 & A1 & I1 & O1) (P2 & S2 & A2 & I2 & O2).
  split_and!; [by rewrite P1, P2, <- app_assoc|by rewrite S2, S1, <- app_assoc
    |by rewrite A2, A1, <- app_assoc|lia|]. intros fd Hfd. by rewrite O2, O1.
Qed.

(** What the loop does with a block it has read. *)
Lemma copy_block fs src dst want b st n p p' w w' w1 u w2 w3 :
  dst <> result fs -> sys_read src want w = (IoOk b, w') ->
  rx_write_all dst b w' = (true, w1) -> evp_update b w1 = (Some u, w2) ->
  report fs st n p w2 = (Some p', w3) -> moved src dst (result fs) b w w3.
Proof.
  intros Hd Hr Hw Hu Hp. pose proof (read_absorbed src want w) as Ra. rewrite Hr in Ra.
  apply read_ok_law in Hr as (_ & Rp & _ & Ro & Rs & Ri).
  apply rx_write_all_effect in Hw as ((W1 & W2 & W3) & Wa & Ws). specialize (Ws eq_refl).
  pose proof (evp_update_law b w1) as [(U1 & U2 & U3) Ua]. rewrite Hu in *. cbn [fst snd] in *.
  destruct u. specialize (Ua eq_refl).
  pose proof (report_effect fs st n p w2) as [(P1 & P2 & P3) Pa]. rewrite Hp in *. cbn [snd] in *.
  split_and!; [by rewrite P2, U2, W2, <- Rp|by rewrite P1, U1, Ws, Rs|by rewrite Pa, Ua, Wa, Ra|lia|].
  intros fd Hfd. by rewrite P2, U2, W2, Ro.
Qed.

Lemma read_err_moved fd want w e w' src dst res :
  sys_read fd want w = (IoErr e, w') -> moved src dst res [] w w'.
Proof.
  intros Hr. pose proof (read_absorbed fd want w) as Ra. rewrite Hr in Ra. cbn [snd] in Ra.
  apply read_err_law in Hr as (Hp & Hs & Hi & _). unfold moved. rewrite !app_nil_r, Hs, Hp, Ra.
  split_and!; done || auto.
Qed.

Lemma wanted_range wr lim size count :
  wr = true -> 0 < lim -> count <= lim -> 0 <= wanted wr lim size count <= lim - count.
Proof.
  intros -> Hl Hc. unfold wanted. simpl negb. cbv iota. rewrite (proj2 (Z.eqb_neq lim 0)) by lia. lia.
Qed.

Lemma copy_loop_moves fuel fs src dst wr lim size count p w n w' :
  dst <> result fs -> copy_loop fuel fs src dst wr lim size count p w = (Some n, w') ->
  exists bytes, moved src dst (result fs) bytes w w' /\ n = count + Z.of_nat (length bytes) /\
    (wr = true -> 0 < lim -> count <= lim -> n <= lim).
Proof.
  intros Hd. revert count p w. induction fuel as [|fuel IH]; intros count p w Hr; [done|].
  cbn [copy_loop] in Hr. apply run_bind in Hr as (alive & w1 & R1 & Hr).
  pose proof (rx_parent_alive_quiet (context fs) w) as [Q1 Qa]. rewrite R1 in Q1, Qa. cbn [snd] in Q1, Qa.
  assert (M1 : moved src dst (result fs) [] w w1) by (by apply moved_nil; [apply quiet_only|..]).
  apply run_bind in Hr as (u1 & w1' & R2 & Hr). apply run_require in R2 as [_ ->].
  destruct (wanted wr lim size count =? 0).
  { injection Hr as <- <-. exists []. split_and!; [done|simpl; lia|done]. }
  apply run_bind in Hr as (r & w2 & R2 & Hr). apply run_total in R2.
  destruct r as [[|x b]|e].
  - destruct wr; [|done]. injection Hr as <- <-. exists []. split_and!; [|simpl; lia|done].
    pose proof (read_absorbed src (Z.to_nat (wanted true lim size count)) w1) as Ra. rewrite R2 in Ra.
    cbn [snd] in Ra. apply read_ok_law in R2 as (_ & Rp & _ & Ro & Rs & Ri).
    apply (moved_trans _ _ _ [] [] _ w1); [done|]. split_and!; rewrite ?app_nil_r; done || auto.
  - pose proof (read_ok_law _ _ _ _ _ R2) as (Hlen & _). run_inv.
    match goal with H : copy_loop _ _ _ _ _ _ _ _ _ _ = _ |- _ =>
      apply IH in H as (bytes & M3 & -> & Hlim) end.
    exists ((x :: b) ++ bytes). split_and!; [| |].
    + apply (moved_trans _ _ _ [] ((x :: b) ++ bytes) _ w1); [done|].
      eapply (moved_trans _ _ _ (x :: b) bytes); [|exact M3].
      eapply copy_block; done.
    + rewrite length_app. lia.
    + intros Hw Hl Hc. pose proof (wanted_range wr lim size count Hw Hl Hc). apply Hlim; [done|done|lia].
  - destruct e; try done. apply IH in Hr as (bytes & M3 & -> & Hlim). exists bytes.
    split_and!; [|done|done]. apply (moved_trans _ _ _ [] _ _ w1); [done|].
    apply (moved_trans _ _ _ [] _ _ w2); [by eapply read_err_moved|done].
Qed.

Lemma readback_reads fuel fs fd count rb p w u w' :
  fd <> result fs -> rb <= count -> readback_loop fuel fs fd count rb p w = (Some u, w') ->
  exists content, pending fd w = content ++ pending fd w' /\ absorbed w' = absorbed w ++ content /\
    Z.of_nat (length content) = count - rb /\ (forall x, x <> fd -> pending x w' = pending x w) /\
    (forall x, x <> result fs -> sunk x w' = sunk x w).
Proof.
  intros Hd. revert rb p w. induction fuel as [|fuel IH]; intros rb p w Hc Hr; cbn [readback_loop] in Hr;
    destruct (negb (rb <? count)) eqn:El; breflect; try done;
    try (injection Hr as _ <-; exists []; rewrite app_nil_r; split_and!; done || (simpl; lia)).
  apply run_bind in Hr as (r & w1 & R & Hr). apply run_total in R.
  pose proof (read_absorbed fd (Z.to_nat (Z.min (count - rb) (Z.of_nat RX_DATA_MAX))) w) as Ra.
  rewrite R in Ra. cbn [snd] in Ra. destruct r as [[|x b]|e]; [done| |].
  - apply read_ok_law in R as (Hlen & Rp & _ & Ro & Rs & Ri). run_inv.
    match goal with H : evp_update ?b ?w1 = _ |- _ =>
      pose proof (evp_update_law b w1) as [(U1 & U2 & U3) Ua]; rewrite H in * end.
    match goal with H : report fs ?st ?n ?p ?w1 = _ |- _ =>
      pose proof (report_effect fs st n p w1) as [(P1 & P2 & P3) Pa]; rewrite H in * end.
    cbn [fst snd] in *.
    repeat match goal with u : unit |- _ => destruct u end. specialize (Ua eq_refl).
    apply IH in Hr as (content & C1 & C2 & C3 & C4 & C5); [|lia].
    exists ((x :: b) ++ content). split_and!.
    + by rewrite Rp, <- U2, <- P2, C1, <- app_assoc.
    + by rewrite C2, Pa, Ua, Ra, <- app_assoc.
    + rewrite length_app. lia.
    + intros y Hy. by rewrite C4, P2, U2, Ro.
    + intros y Hy. by rewrite C5, P1, U1, Rs.
  - destruct e; try done. apply read_err_law in R as (Rp & Rs & Ri & _).
    apply IH in Hr as (content & C1 & C2 & C3 & C4 & C5); [|done]. exists content.
    split_and!; [by rewrite <- Rp|by rewrite C2, Ra|done| |].
    + intros y Hy. by rewrite C4, Rp.
    + intros y Hy. by rewrite C5, Rs.
Qed.
Lemma verify_written_reads fs fd count digest sealed w after w' :
  fd <> result fs -> 0 <= count -> verify_written fs fd count digest sealed w = (Some after, w') ->
  exists content : list Z, sha256 (W := W) content = digest /\ Z.of_nat (length content) = count /\
    stx_size after = stx_size sealed /\
    (forall x, x <> fd -> pending x w' = pending x w) /\ (forall x, x <> result fs -> sunk x w' = sunk x w).
Proof.
  intros Hd Hc. unfold verify_written. intros Hr. run_inv.
  repeat match goal with u : unit |- _ => destruct u end.
  match goal with H : gets _ _ = _ |- _ => injection H as <- <- end.
  match goal with H : sys_lseek_start fd ?w1 = _ |- _ =>
    pose proof (lseek_law fd w1) as (L1 & L2 & L3 & L4); rewrite H in * end.
  match goal with H : evp_init ?w1 = _ |- _ =>
    pose proof (evp_init_law w1) as [(I1 & I2 & _) Ia]; rewrite H in * end.
  match goal with H : readback_loop _ _ _ _ _ _ _ = _ |- _ =>
    apply readback_reads in H as (content & C1 & C2 & C3 & C4 & C5); [|done|done] end.
  match goal with H : evp_final ?w1 = _ |- _ =>
    pose proof (evp_final_law w1) as [(F1 & F2 & _) Fa]; rewrite H in * end.
  match goal with H : rx_stat_fd fd ?w1 = _ |- _ =>
    pose proof (rx_stat_fd_quiet fd w1) as [(S1 & S2 & _) _]; rewrite H in * end.
  cbn [fst snd] in *. specialize (Ia eq_refl). specialize (Fa _ eq_refl). breflect. subst.
  exists content. rewrite C2, Ia. split_and!; [done|lia| | |].
  - unfold same_runtime in *. breflect. congruence.
  - intros x Hx. by rewrite S2, F2, C4, I2, L2.
  - intros x Hx. by rewrite S1, F1, C5, I1, L1.
Qed.


(** The copy loop ends: with more iterations than the bytes the source
    still has plus the interruptions still to come, further fuel changes
    nothing; [stream_file] runs it with that many. *)
Theorem copy_loop_terminates fuel extra fs src dst wr lim size count p w :
  (length (pending src w) + intr w < fuel)%nat ->
  copy_loop (fuel + extra) fs src dst wr lim size count p w =
  copy_loop fuel fs src dst wr lim size count p w.
Proof.
  revert count p w. induction fuel as [|fuel IH]; intros count p w Hf; [lia|].
  simpl plus. cbn [copy_loop]. apply bind_ext. intros alive w1 R1.
  pose proof (rx_parent_alive_quiet (context fs) w) as [(_ & Q2 & Q3) _]. rewrite R1 in *. cbn [snd] in *.
  apply bind_ext. intros u ? Hu. apply run_require in Hu as [_ ->].
  destruct (wanted wr lim size count =? 0); [done|]. apply bind_ext. intros r w2 R. apply run_total in R.
  destruct r as [[|x b]|e]; [done| |].
  - apply read_ok_law in R as (_ & Rp & _ & _ & _ & Ri). apply bind_ext. intros u1 ? Hu.
    apply run_require in Hu as [_ ->]. apply bind_ext. intros ok w3 Ew.
    apply run_total, rx_write_all_effect in Ew as ((_ & W2 & W3) & _).
    apply bind_ext. intros u2 ? Hu. apply run_require in Hu as [_ ->].
    apply bind_ext. intros u3 w4 Eu. pose proof (evp_update_law (x :: b) w3) as [(_ & U2 & U3) _].
    rewrite Eu in *. cbn [snd] in *. apply bind_ext. intros p' w5 Ep.
    match type of Ep with report fs ?st ?n p w4 = _ =>
      pose proof (report_effect fs st n p w4) as [(_ & P2 & P3) _] end. rewrite Ep in *. cbn [snd] in *.
    apply IH. rewrite P2, U2, W2. rewrite <- Q2, Rp, length_app in Hf. simpl in Hf. lia.
  - apply read_err_law in R as (Rp & _ & _ & Ri). destruct e; try done. apply IH.
    rewrite Rp, Q2. specialize (Ri eq_refl). lia.
Qed.
End Streams.
