(* ===== verification/StorageToy.v ===== *)
(** * rootpxe-storage-io: a concrete storage

    A small world in which the interfaces of the storage helper are concrete
    functions that satisfy their laws, and runs of the program in it. *)
From S2P Require Import Prelude CLib StorageIO StorageContext StorageFs StorageFsSpec StorageStream.
Local Open Scope Z_scope.
Local Open Scope list_scope.

Module ToyFs.
(** Descriptor 7 is a regular file whose content is what was written to it;
    every other descriptor is a directory. *)
Record world := mk_world { io : ToyIO.world; open_fds : gset Z; muts : list mutation; fed : list Z }.

Definition set_io i w := mk_world i (open_fds w) (muts w) (fed w).
Definition set_fed l w := mk_world (io w) (open_fds w) (muts w) l.
Definition add_mut m w := mk_world (io w) (open_fds w) (muts w ++ [m]) (fed w).
Definition without fd w := mk_world (io w) (open_fds w ∖ {[fd]}) (muts w) (fed w).

Definition max_of (l : list Z) : Z := foldr Z.max 0 l.

Definition open_new (fx : list mutation) (w : world) : option Z * world :=
  let fd := 1 + max_of (elements (open_fds w)) in
  (Some fd, mk_world (io w) ({[fd]} ∪ open_fds w) (muts w ++ fx) (fed w)).

Definition digest (l : list Z) : list Z := repeat (Z.of_nat (length l) mod 256) 32.

Definition node (fd : Z) (w : world) : statx :=
  mk_statx 5 8 1 (if fd =? 7 then 33152 else 16877) (Z.of_nat (length (ToyIO.w_out (io w) fd))) 0 0 0 0.

#[global] Instance kernel_io : KernelIO world := {
  intr w := intr (io w);
  sys_read fd n w := let '(r, i) := sys_read fd n (io w) in (r, set_io i w);
  sys_write fd p w := let '(r, i) := sys_write fd p (io w) in (r, set_io i w)
}.

#[global] Instance kernel_proc : KernelProc world := {
  sys_getppid w := (77, w);
  sys_fstat _ := fail; sys_fstatfs _ := fail; sys_ambient_clear_all := ret tt;
  sys_capbset_read _ w := (IoErr EINVAL, w); sys_capbset_drop _ := ret tt;
  sys_set_keepcaps _ := ret tt; sys_setgroups _ := ret tt; sys_setresgid _ := ret tt;
  sys_setresuid _ := ret tt; sys_getresuid := ret (0, 0, 0); sys_getresgid := ret (0, 0, 0);
  sys_fsuid w := (0, w); sys_fsgid w := (0, w); sys_getgroups := ret [0];
  sys_capset _ _ _ := ret tt; sys_set_no_new_privs := ret tt; sys_set_pdeathsig _ := ret tt
}.

#[global] Instance kernel_fs : KernelFS world := {
  bytes_left fd w := length (ToyIO.w_in (io w) fd);
  entries_left _ _ := 0%nat;
  sys_open_path _ _ := open_new [];
  sys_statx fd w := (Some (node fd w, STATX_WANTED), w);
  sys_statx_at _ _ w := (IoErr ENOENT, w);
  sys_dup _ := open_new [];
  sys_close fd w := (true, without fd w);
  sys_openat d n fl := open_new (if Z.land fl O_CREAT =? 0 then [] else [MCreate d n]);
  sys_mkdirat d n := modify (add_mut (MMkdir d n));
  sys_unlinkat d n _ := modify (add_mut (MUnlink d n));
  sys_renameat2_noreplace d n d' n' w := (IoOk tt, add_mut (MRename d n d' n') w);
  sys_renameat d n d' n' := modify (add_mut (MRename d n d' n'));
  sys_fdopendir _ := ret tt;
  sys_readdir _ w := (IoOk None, w);
  sys_closedir fd w := (true, without fd w);
  sys_fsync _ := ret tt;
  sys_lseek_start fd := modify (fun w => set_io
    {| ToyIO.w_intr := ToyIO.w_intr (io w);
       ToyIO.w_in := ToyIO.upd (ToyIO.w_in (io w)) fd (ToyIO.w_out (io w) fd);
       ToyIO.w_out := ToyIO.w_out (io w) |} w)
}.

#[global] Instance evp : Evp world := {
  evp_digest p := ret (digest p);
  evp_new := modify (set_fed []);
  evp_init := modify (set_fed []);
  evp_update p := modify (fun w => set_fed (fed w ++ p) w);
  evp_final := gets (fun w => digest (fed w));
  evp_free w := (tt, w)
}.

Lemma max_of_bound l x : x ∈ l -> x <= max_of l.
Proof.
  intros Hx. induction l as [|y l IH]; [by apply not_elem_of_nil in Hx|].
  apply elem_of_cons in Hx as [->|Hx]; simpl; [lia|]. specialize (IH Hx). lia.
Qed.

Lemma max_of_nonneg l : 0 <= max_of l.
Proof. induction l; simpl; lia. Qed.

Definition ghost_of (w : world) : ghost := (open_fds w, muts w).

Lemma open_new_law fx : opening_with ghost_of fx id (open_new fx).
Proof.
  intros w. unfold open_new, id, ghost_of. simpl. pose proof (max_of_nonneg (elements (open_fds w))).
  split_and!; [lia| |done]. intros Hin. apply elem_of_elements, max_of_bound in Hin. lia.
Qed.

#[global] Program Instance fs_laws : KernelFSLaws world := { gh := ghost_of }.
Solve All Obligations with
  (intros; try intros w; try apply open_new_law; unfold ghost_of; simpl;
   try destruct (ToyIO.w_intr (io w)); simpl; try done; try by split; [|right]).
Next Obligation. intros fd n fl Hfl. simpl. rewrite Hfl. apply open_new_law. Qed.
Next Obligation.
  intros fd n fl Hfl. simpl. rewrite (proj2 (Z.eqb_neq _ _)) by done. apply open_new_law.
Qed.
#[global] Program Instance io_laws : KernelIOLaws world := {
  sunk fd w := sunk fd (io w);
  pending fd w := pending fd (io w)
}.
Next Obligation.
  intros fd p w n w' E. unfold sys_write in E. simpl in E. destruct (ToyIO.w_intr (io w)) eqn:Ei; [|done].
  simplify_eq. apply (write_ok_law (W := ToyIO.world)). simpl. by rewrite Ei.
Qed.
Next Obligation.
  intros fd p w e w' E. simpl in E. destruct (ToyIO.w_intr (io w)) eqn:Ei; [done|].
  simplify_eq. apply (write_err_law (W := ToyIO.world) fd p). simpl. by rewrite Ei.
Qed.
Next Obligation.
  intros fd n w b w' E. simpl in E. destruct (ToyIO.w_intr (io w)) eqn:Ei; [|done].
  simplify_eq. apply (read_ok_law (W := ToyIO.world)). simpl. by rewrite Ei.
Qed.
Next Obligation.
  intros fd n w e w' E. simpl in E. destruct (ToyIO.w_intr (io w)) eqn:Ei; [done|].
  simplify_eq. apply (read_err_law (W := ToyIO.world) fd n). simpl. by rewrite Ei.
Qed.

#[global] Program Instance stream_laws : StreamLaws world := { sha256 := digest; absorbed := fed }.
Solve All Obligations with
  (intros; simpl; repeat case_match; simplify_eq/=; split_and?; intros; simpl; try congruence; try lia; try done).
Next Obligation.
  intros fd w. simpl. split_and!; try done. intros fd' Hfd. by apply ToyIO.upd_other.
Qed.

(** A capture task that has the peer's answers in its input. *)
Definition own : ToyIO.json := ToyIO.JObj [(bs "taskType", ToyIO.JStr (bs "capture"))].

Definition ctx : storage_context ToyIO.json :=
  mk_context own own (bs "nfs") (bs "nas") (bs "/images") (bs "win11") (bs "4.2")
    (bs "dev/t1/1") (bs ".locks/" ++ ToyProc.hex64) [] 1000 1001 2050 0 true 77.

Definition root_key : list Z := hex_bytes (digest []).

Definition proof : ToyIO.json :=
  ToyIO.JObj [(root_key, ToyIO.JObj [(bs "fileId", ToyIO.JStr (bs "5")); (bs "kind", ToyIO.JStr (bs "dir"))])].

(** The answer to the event of a phase and sequence number. *)
Definition answer (phase seq : string) : ToyIO.json :=
  ToyIO.JObj [(bs "event", ToyIO.JStr (bs "ack")); (bs "sequence", ToyIO.JStr (bs seq));
    (bs "execution", own); (bs "proof", proof); (bs "operation", ToyIO.JStr (bs "mkdir-owned"));
    (bs "path", ToyIO.JStr (bs "dev")); (bs "phase", ToyIO.JStr (bs phase))].

Definition command : ToyIO.json :=
  ToyIO.JObj [(bs "operation", ToyIO.JStr (bs "mkdir-owned")); (bs "path", ToyIO.JStr (bs "dev"));
    (bs "sequence", ToyIO.JStr (bs "1")); (bs "execution", own)].

#[global] Instance json_c : JsonC ToyIO.json :=
  ToyIO.json_c_of (fun b => if beq b (bs "i") then answer "intent" "1" else answer "result" "2").

Definition fs0 : storage_fs ToyIO.json := mk_fs ctx 3 6 (mk_statx 5 8 1 16877 0 0 0 0 0) 0 0.

Definition w0 : world :=
  mk_world {| ToyIO.w_intr := 2;
              ToyIO.w_in := ToyIO.upd (ToyIO.upd (fun _ => []) 4 (bs "i" ++ 10 :: bs "r" ++ [10])) 5 (bs "hello");
              ToyIO.w_out := fun _ => [] |} {[3; 4; 5; 6; 7]} [] [].

Definition run_mkdir : bool * storage_fs ToyIO.json * world := rx_command fs0 command 4 5 6 w0.
End ToyFs.

(** The run succeeds, makes one directory and answers with number 2. *)
Example toy_mkdir :
  let '(ok, fs, w) := ToyFs.run_mkdir in
  ok = true /\ last_sequence fs = 2 /\ ToyFs.muts w = [MMkdir 8 (bs "dev")].
Proof. vm_compute. done. Qed.

Lemma ctx_ok : context_ok ToyFs.ctx.
Proof.
  assert (Hatom : forall s, rx_relative (Some s) false = true -> relative_path s).
  { intros s Hs. by apply rx_relative_iff in Hs as [[_ ?]|?]. }
  assert (Hle : forall n m, (n <=? m)%nat = true -> (n <= m)%nat) by (intros n m; apply Nat.leb_le).
  unfold context_ok. split; [by left|]. split; [split; [by apply Hle|by repeat constructor]|].
  split; [split; [by apply Hle|]|].
  { right. exists (bs "images"). split; [done|]. by apply Hatom. }
  split; [split; [by apply Hle|done]|]. split; [by apply Hatom|].
  split; [split; [|split; [by apply Hatom|by apply Hle]]|].
  { exists (bs "t1"), 1. split; [|split; [by apply Hle|by split]].
    apply single_atom; [done..|]. by apply (proj1 (mem_byte_false 47 _)). }
  split; [split; [|split; [by apply Hatom|by apply Hle]]|].
  { exists ToyProc.hex64. split; [done|split; [by repeat constructor|done]]. }
  split; split; by split.
Qed.

Lemma path_allowed_spec_witness :
  exists st lk im, stage ToyFs.ctx = join st /\ lock ToyFs.ctx = join lk /\ image_path ToyFs.ctx = join im.
Proof.
  destruct (path_allowed_spec ToyFs.ctx ctx_ok) as (st & lk & im & E1 & E2 & E3 & _).
  exists st, lk, im. split; [exact E1|split; [exact E2|exact E3]].
Defined.


Lemma rx_command_sequence_witness :
  context (snd (fst ToyFs.run_mkdir)) = ToyFs.ctx.
Proof.
  unfold ToyFs.run_mkdir. destruct (rx_command ToyFs.fs0 ToyFs.command 4 5 6 ToyFs.w0) as [[ok fs'] w'] eqn:E.
  exact (proj1 (rx_command_sequence ToyFs.fs0 ToyFs.command 4 5 6 ToyFs.w0 ok fs' w' E)).
Defined.

(** Five bytes from the pipe 5 into the file 7. *)
Definition toy_write := stream_file ToyFs.fs0 7 5 true 0 ToyFs.w0.


Lemma copy_loop_terminates_witness :
  copy_loop (8 + 5) ToyFs.fs0 5 7 true 0 0 0 0 ToyFs.w0 = copy_loop 8 ToyFs.fs0 5 7 true 0 0 0 0 ToyFs.w0.
Proof.
  apply (copy_loop_terminates 8 5 ToyFs.fs0 5 7 true 0 0 0 0 ToyFs.w0).
  apply (proj1 (Nat.ltb_lt _ _)). reflexivity.
Defined.
