(* ===== verification/StorageMount.v ===== *)
(** * rootpxe-storage-io: mounting and checking the mount

    Models [storage_mount.c].  Name resolution, [inet_ntop]/[inet_pton], the
    [mount] system call and the CIFS ioctl are the class [KernelMount]. *)
From S2P Require Import Prelude CLib StorageIO StorageContext StorageFs.
Local Open Scope Z_scope.
Local Open Scope list_scope.
Local Open Scope cmonad_scope.

Inductive family := AF_INET | AF_INET6 | AF_OTHER.

Class KernelMount (W : Type) := {
  sys_getaddrinfo : list Z -> M W (list (family * list Z));
  inet_ntop : family -> list Z -> option (list Z);
  inet_pton : family -> list Z -> option (list Z);
  (** source, file system type, flags, options; the target is [/storage] *)
  sys_mount : list Z -> list Z -> Z -> list Z -> W -> io_result unit * W;
  (** tree id and session id of [RX_GET_TCON] *)
  sys_get_tcon : Z -> M W (Z * Z)
}.

(** ** Text *)

Definition octal (c : Z) : bool := (48 <=? c) && (c <=? 55).

(** The octal escapes of mountinfo. *)
Fixpoint unescape (p : list Z) : option (list Z) :=
  match p with
  | [] => Some []
  | c :: r =>
      if c =? 92 then
        match r with
        | a :: b :: d :: r' =>
            if octal a && octal b && octal d then
              let v := (a - 48) * 64 + (b - 48) * 8 + (d - 48) in
              if (v =? 0) || (255 <? v) then None
              else option_map (cons v) (unescape r')
            else None
        | _ => None
        end
      else option_map (cons c) (unescape r)
  end.

Definition canonical_version (protocol v : list Z) : option (list Z) :=
  if beq protocol (bs "nfs") then
    if beq v (bs "3") then Some (bs "3")
    else if beq v (bs "4.0") || beq v (bs "4") then Some (bs "4.0")
    else if beq v (bs "4.1") then Some (bs "4.1")
    else if beq v (bs "4.2") then Some (bs "4.2")
    else None
  else if beq v (bs "2.1") then Some (bs "2.1")
  else if beq v (bs "3.0") then Some (bs "3.0")
  else if beq v (bs "3.02") || beq v (bs "3.0.2") then Some (bs "3.0.2")
  else if beq v (bs "3.11") || beq v (bs "3.1.1") then Some (bs "3.1.1")
  else None.

Definition tolower (c : Z) : Z := if (65 <=? c) && (c <=? 90) then c + 32 else c.
Definition strcasecmp_eq (a b : list Z) : bool := beq (map tolower a) (map tolower b).

(** The suffix after position of a match of [p]. *)
Definition after_match (p s : list Z) : option (list Z * list Z) :=
  match strstr p s with
  | Some (a, b) => Some (a, drop (length p) b)
  | None => None
  end.

Section Text.
Context {J : Type}.

Definition source_nfs (c : storage_context J) (length_ : nat) : option (list Z) :=
  let host := server c in
  let fits s := if (length s <? length_)%nat then Some s else None in
  match host with
  | 91 :: _ =>
      if (length host <? 3)%nat || negb (List.last host 0 =? 93) then None
      else fits (host ++ 58 :: export_path c)
  | _ =>
      if mem_byte 58 host then fits (91 :: host ++ 93 :: 58 :: export_path c)
      else fits (host ++ 58 :: export_path c)
  end.

(** The share of an SMB export and the directory below it. *)
Definition split_share (path : list Z) : list Z * list Z :=
  match strchr 47 path with
  | Some (a, b) => (a, b)
  | None => (path, [])
  end.

(** The options: the one [vers=] value, and whether [serverino] was seen; the
    loop stops at a second or an oversized [vers=]. *)
Fixpoint scan_options (opts : list (list Z)) (version : list Z) (found : nat) (serverino : bool)
    : list Z * nat * bool :=
  match opts with
  | [] => (version, found, serverino)
  | v :: opts =>
      if starts_with (bs "vers=") v then
        let value := drop 5 v in
        if negb (S found =? 1)%nat || (32 <=? length value)%nat then (version, S found, serverino)
        else scan_options opts value (S found) (serverino || beq v (bs "serverino"))
      else scan_options opts version found (serverino || beq v (bs "serverino"))
  end.

Definition source_matches (c : storage_context J) (type source root : list Z) : bool :=
  if beq (protocol c) (bs "nfs") then
    match source_nfs c 4608 with
    | None => false
    | Some expected => (beq type (bs "nfs") || beq type (bs "nfs4")) && beq expected source
    end
  else
    let '(share, subdir) := split_share (export_path c) in
    let expected := snprintf 4608 (bs "//" ++ server c ++ [47] ++ share) in
    let full := snprintf 4608 (bs "//" ++ server c ++ [47] ++ export_path c) in
    beq type (bs "cifs") && (strcasecmp_eq source expected || strcasecmp_eq source full)
    && beq root (snprintf 4096 (47 :: subdir)).

(** One line of mountinfo: not about /storage, about it but not acceptable,
    or acceptable with this version. *)
Inductive line_kind := LineOther | LineBad | LineGood (version : list Z).

Definition check_options (c : storage_context J) (options : list Z) : line_kind :=
  let '(version_text, found, serverino) := scan_options (strtok 44 options) [] 0 false in
  match canonical_version (protocol c) version_text with
  | None => LineBad
  | Some canonical =>
      if negb (found =? 1)%nat
         || (negb (beq (version c) (bs "auto")) && negb (beq (version c) canonical))
         || (beq (protocol c) (bs "smb") && negb serverino) then LineBad
      else LineGood canonical
  end.

Definition check_tail (c : storage_context J) (root tail : list Z) : line_kind :=
  match strtok 32 tail with
  | type :: source :: options :: _ =>
      match unescape source with
      | None => LineBad
      | Some source =>
          if source_matches c type source root then check_options c options else LineBad
      end
  | _ => LineBad
  end.

Definition mount_line (c : storage_context J) (line : list Z) : line_kind :=
  match after_match (bs " - ") line with
  | None => LineOther
  | Some (front, tail) =>
      match strtok 32 front with
      | _ :: _ :: _ :: root :: target :: _ :: _ =>
          match unescape root, unescape target with
          | Some root, Some target => if beq target (bs "/storage") then check_tail c root tail else LineOther
          | _, _ => LineOther
          end
      | _ => LineOther
      end
  end.

Fixpoint mountinfo_loop (c : storage_context J) (lines : list (list Z)) (matches good : nat)
    (actual : list Z) : nat * nat * list Z :=
  match lines with
  | [] => (matches, good, actual)
  | l :: lines =>
      match mount_line c l with
      | LineOther => mountinfo_loop c lines matches good actual
      | LineBad => mountinfo_loop c lines (S matches) good actual
      | LineGood v => mountinfo_loop c lines (S matches) (S good) v
      end
  end.

Definition rx_parse_mountinfo (text : list Z) (c : storage_context J) : option (list Z) :=
  let '(matches, good, actual) := mountinfo_loop c (strtok 10 text) 0 0 [] in
  if (matches =? 1)%nat && (good =? 1)%nat then Some actual else None.
End Text.

Section Mount.
Context {W J : Type} `{KernelIO W} `{KernelProc W} `{KernelFS W} `{KernelMount W} `{JsonC J}.

(** [fuel]: a byte or an interruption for each iteration, and the end. *)
Fixpoint read_bounded_loop (fuel : nat) (fd : Z) (limit : nat) (b : list Z) : M W (list Z) :=
  match fuel with
  | O => fail
  | S fuel =>
      if (length b =? limit)%nat then
        r <- total (sys_read fd 1) ;;
        match r with
        | IoOk [] => ret b
        | _ => fail
        end
      else
        r <- total (sys_read fd (limit - length b)) ;;
        match r with
        | IoErr EINTR => read_bounded_loop fuel fd limit b
        | IoErr _ => fail
        | IoOk [] => ret b
        | IoOk d => read_bounded_loop fuel fd limit (b ++ d)
        end
  end.

Definition read_bounded (path : list Z) (limit : nat) : M W (list Z) :=
  fd <- sys_open_path path (Z.lor O_RDONLY (Z.lor O_NOFOLLOW O_CLOEXEC)) ;;
  fuel <- gets (fun w => S (limit + intr w)) ;;
  b <- or_close fd (read_bounded_loop fuel fd limit []) ;;
  _ <- total (sys_close fd) ;;
  ret (take (cstrlen b) b).

(** The first address that can be printed. *)
Fixpoint first_numeric (addresses : list (family * list Z)) : option (list Z) :=
  match addresses with
  | [] => None
  | (f, bytes) :: rest =>
      match f with
      | AF_OTHER => first_numeric rest
      | _ => match inet_ntop f bytes with
             | Some text => Some text
             | None => first_numeric rest
             end
      end
  end.

Definition bare_host (host : list Z) : option (list Z) :=
  if (256 <=? length host)%nat then None
  else match host with
       | 91 :: name =>
           match strchr 93 name with
           | Some (a, []) => Some a
           | _ => None
           end
       | _ => Some host
       end.

Definition numeric_address (host : list Z) : M W (list Z) :=
  match bare_host host with
  | None => fail
  | Some name =>
      addresses <- sys_getaddrinfo name ;;
      match first_numeric addresses with
      | None => fail
      | Some text => ret text
      end
  end.

Definition with_address (c : storage_context J) (a : list Z) : storage_context J :=
  mk_context (json c) (owner c) (protocol c) (server c) (export_path c) (image_path c) (version c)
    (stage c) (lock c) a (uid c) (gid c) (port c) (sequence c) (data_write c) (parent c).

Definition rx_resolve_server (c : storage_context J) : M W (storage_context J * J) :=
  a <- numeric_address (server c) ;;
  ret (with_address c a,
       json_object_object_add
         (add_string (bs "mountServer") (server c)
            (add_string (bs "numericAddress") a json_object_new_object))
         (bs "port") (json_object_new_int (port c))).

Definition errno_code (e : errno_t) : Z :=
  match e with
  | EINTR => 4 | ENOENT => 2 | EINVAL => 22 | EOPNOTSUPP => 95 | ENOSYS => 38
  | EPROTONOSUPPORT => 93 | ECANCELED => 125 | EOTHER n => n
  end.

Definition MS_RDONLY : Z := 1.
Definition MS_NOSUID : Z := 2.
Definition MS_NODEV : Z := 4.

Definition mount_flags (c : storage_context J) : Z :=
  Z.lor MS_NODEV (Z.lor MS_NOSUID (if data_write c then 0 else MS_RDONLY)).

Definition mount_options (c : storage_context J) (version : list Z) : list Z :=
  snprintf 256 (bs "addr=" ++ numeric_address_buf c ++ bs ",port=" ++ print_dec (port c)
    ++ bs ",proto=tcp,sec=sys,vers=" ++ version
    ++ (if beq version (bs "3") then bs ",mountproto=tcp,mountvers=3" else [])).

Definition mount_type (version : list Z) : list Z := if beq version (bs "3") then bs "nfs" else bs "nfs4".

(** The loop over the versions: the last error and whether it is mounted. *)
Fixpoint mount_loop (c : storage_context J) (source : list Z) (versions : list (list Z))
    (last : errno_t) (w : W) : Z * bool * W :=
  match versions with
  | [] => (errno_code last, false, w)
  | v :: versions =>
      if negb (beq (version c) (bs "auto")) && negb (beq (version c) v)
      then mount_loop c source versions last w
      else
        match rx_parent_alive c w with
        | (Some true, w1) =>
            match sys_mount source (mount_type v) (mount_flags c) (mount_options c v) w1 with
            | (IoOk _, w2) => (0, true, w2)
            | (IoErr e, w2) =>
                if negb (beq (version c) (bs "auto")) || negb (bool_decide (e = EPROTONOSUPPORT))
                then (errno_code e, false, w2)
                else mount_loop c source versions e w2
            end
        | (_, w1) => (errno_code ECANCELED, false, w1)
        end
  end.

Definition nfs_versions : list (list Z) := [bs "4.2"; bs "4.1"; bs "4.0"; bs "3"].

Definition rx_mount_nfs (c : storage_context J) (result : Z) : M W unit :=
  require (beq (protocol c) (bs "nfs")) ;;;
  a <- numeric_address (server c) ;;
  let c := with_address c a in
  match source_nfs c 4608 with
  | None => fail
  | Some source =>
      rx_identity c true ;;;
      fun w =>
        let '(last, mounted, w1) := mount_loop c source nfs_versions EPROTONOSUPPORT w in
        let '(cleared, w2) := rx_clear_capabilities w1 in
        let o := json_object_object_add
                   (json_object_object_add
                      (add_string (bs "event") (bs "mount") json_object_new_object)
                      (bs "errno") (json_object_new_int last))
                   (bs "mounted") (json_object_new_boolean mounted) in
        match cleared with
        | None => (None, w2)
        | Some _ =>
            let '(ok, w3) := rx_emit result o w2 in
            ((if ok && mounted then Some tt else None), w3)
        end
  end.

Definition same_address (a b : list Z) : bool :=
  let f := if mem_byte 58 a then AF_INET6 else AF_INET in
  match inet_pton f a, inet_pton f b with
  | Some x, Some y => beq x y
  | _, _ => false
  end.

(** How often [unc] is followed by its mount count. *)
Fixpoint count_shares (fuel : nat) (unc body : list Z) : nat :=
  match fuel with
  | O => 0
  | S fuel =>
      match after_match unc body with
      | None => 0
      | Some (_, rest) =>
          (if starts_with (bs " Mounts: ") rest then 1 else 0) + count_shares fuel unc rest
      end
  end.

Fixpoint ip_text (s : list Z) (room : nat) : list Z :=
  match room, s with
  | S room, c :: s => if c =? 32 then [] else c :: ip_text s room
  | _, _ => []
  end.

(** Whether the block is about the session, and then whether it is normal. *)
Definition session_block (address unc : list Z) (session : Z) (by_address : bool) (body : list Z)
    : option bool :=
  match after_match (bs " SessionId: 0x") body with
  | None => None
  | Some (_, sid) =>
      let '(id, after, erange) := strtoull 16 sid in
      if erange || negb (id =? session)
         || negb (match after with [] => true | c :: _ => (c =? 32) || (c =? 10) end) then None
      else
        let valid := by_address && same_address (ip_text (drop 9 body) 63) address in
        let bad := existsb (fun t => bool_decide (is_Some (strstr (bs t) body)))
          ["Guest "; "Anonymous "; "DISCONNECTED"; "RECONNECTING"; "password no longer valid"]%string in
        Some (valid && negb bad && (count_shares (length body) unc body =? 1)%nat)
  end.

Fixpoint skip_digits (s : list Z) : list Z :=
  match s with
  | c :: s' => if is_digit c then skip_digits s' else s
  | [] => []
  end.

Fixpoint cifs_loop (fuel : nat) (address unc : list Z) (session : Z) (cursor : list Z)
    (matches normal : nat) : option (nat * nat) :=
  match fuel with
  | O => None
  | S fuel =>
      match after_match [10; 9] cursor with
      | None => Some (matches, normal)
      | Some (_, cursor) =>
          let n := skip_digits cursor in
          if (length n =? length cursor)%nat || negb (starts_with (bs ") ") n)
          then cifs_loop fuel address unc session cursor matches normal
          else
            let start := drop 2 n in
            let by_address := starts_with (bs "Address: ") start in
            if negb by_address && negb (starts_with (bs "Name: ") start)
            then cifs_loop fuel address unc session cursor matches normal
            else
              match after_match (10 :: bs "--" ++ [10]) start with
              | None => None
              | Some (body, rest) =>
                  match session_block address unc session by_address body with
                  | None => cifs_loop fuel address unc session rest matches normal
                  | Some valid =>
                      cifs_loop fuel address unc session rest (S matches)
                        (normal + if (valid : bool) then 1 else 0)
                  end
              end
      end
  end.

Definition rx_parse_cifs_session (text address unc : list Z) (session : Z) : bool :=
  if (Z.to_nat 1048576 <? length text)%nat || negb (cstrlen text =? length text)%nat then false
  else match cifs_loop (S (length text)) address unc session text 0 0 with
       | Some (matches, normal) => (matches =? 1)%nat && (normal =? 1)%nat
       | None => false
       end.

Definition check_session (c : storage_context J) (root : Z) : M W (storage_context J) :=
  before <- sys_get_tcon root ;;
  require (negb (fst before =? 0) && negb (snd before =? 0)) ;;;
  a <- numeric_address (server c) ;;
  debug <- read_bounded (bs "/proc/fs/cifs/DebugData") (Z.to_nat 1048576) ;;
  let '(share, _) := split_share (export_path c) in
  let unc := snprintf 4608 ([92; 92] ++ server c ++ [92] ++ share) in
  require (rx_parse_cifs_session debug a unc (snd before)) ;;;
  after <- sys_get_tcon root ;;
  require (bool_decide (before = after)) ;;;
  ret (with_address c a).

Definition rx_mount_info (c : storage_context J) (root : Z) : M W (storage_context J * J) :=
  mounts <- read_bounded (bs "/proc/self/mountinfo") (Z.to_nat 1048576) ;;
  match rx_parse_mountinfo mounts c with
  | None => fail
  | Some actual =>
      c' <- (if beq (protocol c) (bs "smb") then check_session c root else ret c) ;;
      ret (c', add_string (bs "actualVersion") actual
                 (add_string (bs "configuredVersion") (version c)
                    (add_string (bs "protocol") (protocol c) json_object_new_object)))
  end.
End Mount.

(** ** Escapes *)

(** How the kernel writes a path into mountinfo: the bytes of a set that has
    at least the backslash as three octal digits, the others as they are. *)
Definition escape_byte (special : Z -> bool) (c : Z) : list Z :=
  if special c then [92; 48 + c / 64; 48 + (c / 8) mod 8; 48 + c mod 8] else [c].

Definition escape (special : Z -> bool) (s : list Z) : list Z := flat_map (escape_byte special) s.

(** [unescape] undoes the kernel's escaping of mountinfo fields: for any
    set of escaped bytes that has the backslash, every path of non-NUL bytes
    is recovered from its escaped form. *)
Theorem unescape_escape special s :
  special 92 = true -> Forall (fun c => 0 < c < 256) s -> unescape (escape special s) = Some s.
Proof.
  intros Hb Hs. induction Hs as [|c s Hc _ IH]; [done|]. unfold escape in *. simpl. unfold escape_byte at 1.
  destruct (special c) eqn:Es.
  - set (a := 48 + c / 64). set (b := 48 + (c / 8) mod 8). set (d := 48 + c mod 8).
    simpl app. assert (Ha : octal a = true) by (unfold octal, a; bgoal; Z.to_euclidean_division_equations; lia).
    assert (Hb' : octal b = true) by (unfold octal, b; bgoal; Z.to_euclidean_division_equations; lia).
    assert (Hd : octal d = true) by (unfold octal, d; bgoal; Z.to_euclidean_division_equations; lia).
    cbn [unescape]. change (92 =? 92) with true. cbv iota. rewrite Ha, Hb', Hd. cbn [andb].
    replace ((a - 48) * 64 + (b - 48) * 8 + (d - 48)) with c by (unfold a, b, d; Z.to_euclidean_division_equations; lia).
    rewrite (proj2 (Z.eqb_neq c 0)), (proj2 (Z.ltb_ge 255 c)) by lia. simpl orb. cbv iota. by rewrite IH.
  - simpl app. cbn [unescape]. rewrite (proj2 (Z.eqb_neq c 92)) by (by intros ->; congruence). by rewrite IH.
Qed.

Lemma unescape_escape_witness :
  unescape (escape (fun c => mem_byte c [32; 9; 10; 92]) (bs "/my share")) = Some (bs "/my share").
Proof.
  apply unescape_escape; [reflexivity|]. repeat constructor; reflexivity.
Defined.

(** ** The mount table *)

Section MountSpec.
Context {J : Type}.
Implicit Types c : storage_context J.

Lemma mountinfo_loop_count c lines m g a m' g' a' :
  mountinfo_loop c lines m g a = (m', g', a') -> (m <= m' /\ g <= g' /\ m' - m >= g' - g)%nat.
Proof.
  revert m g a. induction lines as [|l lines IH]; intros m g a E; simpl in E; [simplify_eq; lia|].
  destruct (mount_line c l); apply IH in E; lia.
Qed.

Lemma mountinfo_loop_none c lines m g a a' :
  mountinfo_loop c lines m g a = (m, g, a') <->
  a' = a /\ Forall (fun l => mount_line c l = LineOther) lines.
Proof.
  induction lines as [|l lines IH]; simpl.
  - split; [intros; simplify_eq; by split|by intros [-> _]].
  - rewrite Forall_cons. destruct (mount_line c l) eqn:El.
    + rewrite IH. tauto.
    + split; [intros E; apply mountinfo_loop_count in E; lia|]. by intros (_ & ? & _).
    + split; [intros E; apply mountinfo_loop_count in E; lia|]. by intros (_ & ? & _).
Qed.

Lemma mountinfo_loop_one c lines a v :
  mountinfo_loop c lines 0 0 a = (1%nat, 1%nat, v) <->
  exists l1 l l2, lines = l1 ++ l :: l2 /\ mount_line c l = LineGood v /\
    Forall (fun l => mount_line c l = LineOther) (l1 ++ l2).
Proof.
  induction lines as [|x lines IH]; simpl.
  { split; [done|]. by intros ([|] & ? & ? & ? & _). }
  destruct (mount_line c x) as [| |u] eqn:Ex.
  - rewrite IH. split.
    + intros (l1 & l & l2 & -> & Hl & Hf). exists (x :: l1), l, l2. split_and!; [done..|]. by constructor.
    + intros ([|y l1] & l & l2 & E & Hl & Hf); simplify_eq/=; [congruence|].
      exists l1, l, l2. inversion_clear Hf. by split_and!.
  - split.
    + intros E. pose proof (mountinfo_loop_count _ _ _ _ _ _ _ _ E). lia.
    + intros ([|y l1] & l & l2 & E & Hl & Hf); simplify_eq/=; [congruence|]. inversion_clear Hf. congruence.
  - rewrite mountinfo_loop_none. split.
    + intros [-> Hf]. exists [], x, lines. by split_and!.
    + intros ([|y l1] & l & l2 & E & Hl & Hf); simplify_eq/=.
      * split; [congruence|done].
      * inversion_clear Hf. congruence.
Qed.

Lemma check_options_version c options v :
  check_options c options = LineGood v ->
  version c = bs "auto" \/ version c = v.
Proof.
  unfold check_options. destruct (scan_options _ _ _ _) as [[text found] si].
  destruct (canonical_version (protocol c) text) as [canonical|] eqn:Ec; [|done].
  destruct (_ || _) eqn:E; [done|]. intros [= ->].
  apply orb_false_iff in E as [E _]. apply orb_false_iff in E as [_ E].
  destruct (beq (version c) (bs "auto")) eqn:Ea; [left; by apply beq_true|right].
  cbn [negb andb] in E. by apply negb_false_iff, beq_true in E.
Qed.


(** The versions the parser reports are those the configuration can name. *)
Lemma canonical_version_ok p v v' :
  canonical_version p v = Some v' -> version_ok p v' = true.
Proof.
  unfold canonical_version, version_ok. destruct (beq p (bs "nfs")); intros E;
    repeat (match type of E with context [if ?b then _ else _] => destruct b end; [by simplify_eq|]); done.
Qed.
End MountSpec.

(** ** Mounting *)

(** A call of [mount]: source, type, flags, options and how it ended. *)
Definition attempt : Type := list Z * list Z * Z * list Z * io_result unit.

Class MountLaws (W : Type) `{KernelIO W} `{KernelProcLaws W} `{KernelMount W} := {
  attempts : W -> list attempt;
  mount_law s t f o w r w' : sys_mount s t f o w = (r, w') ->
    attempts w' = attempts w ++ [(s, t, f, o, r)] /\ creds w' = creds w;
  getppid_attempts w : attempts (snd (sys_getppid w)) = attempts w;
  write_creds fd p w : creds (snd (sys_write fd p w)) = creds w
}.

Section MountNfs.
Context {W J : Type} `{KernelFS W} `{ML : MountLaws W} `{!JsonC J}.
Implicit Types (c : storage_context J) (w : W).

Definition eligible c (v : list Z) : bool := beq (version c) (bs "auto") || beq (version c) v.

(** The attempts made for versions [vs] with results [rs]. *)
Definition tried c source (vs : list (list Z)) (rs : list (io_result unit)) : list attempt :=
  zip_with (fun v r => (source, mount_type v, mount_flags c, mount_options c v, r)) vs rs.

Lemma rx_parent_alive_mount c w :
  attempts (snd (rx_parent_alive c w)) = attempts w /\ creds (snd (rx_parent_alive c w)) = creds w.
Proof.
  unfold rx_parent_alive. destruct (1 <? parent c); [|done]. unfold bind, total.
  pose proof (getppid_attempts w) as H1'. pose proof (getppid_law w) as (H2' & _).
  by destruct (sys_getppid w).
Qed.

Lemma mount_loop_attempts c source versions last w code mounted w' :
  mount_loop c source versions last w = (code, mounted, w') ->
  creds w' = creds w /\
  exists vs rs, vs `prefix_of` filter (fun v => eligible c v = true) versions /\
    length rs = length vs /\ attempts w' = attempts w ++ tried c source vs rs /\
    Forall (fun r => r = IoErr EPROTONOSUPPORT) (removelast rs) /\
    (mounted = true <-> List.last rs (IoErr EINVAL) = IoOk tt).
Proof.
  revert last w. induction versions as [|v versions IH]; intros last w Hr; simpl in Hr.
  { simplify_eq. split; [done|]. exists [], []. simpl. rewrite app_nil_r. split_and!; [done..|]. by split. }
  destruct (negb (beq (version c) (bs "auto")) && negb (beq (version c) v)) eqn:Ev.
  - apply IH in Hr. rewrite filter_cons_False; [done|]. unfold eligible.
    rewrite <- negb_orb in Ev. apply negb_true_iff in Ev. by rewrite Ev.
  - assert (El : eligible c v = true) by (rewrite <- negb_orb in Ev; by apply negb_false_iff in Ev).
    rewrite filter_cons_True by done. pose proof (rx_parent_alive_mount c w) as [A1 A2].
    assert (Hnone : forall w1, creds w1 = creds w -> attempts w1 = attempts w -> mounted = false -> w' = w1 ->
      creds w' = creds w /\ exists vs rs, vs `prefix_of` v :: filter (fun v => eligible c v = true) versions /\
        length rs = length vs /\ attempts w' = attempts w ++ tried c source vs rs /\
        Forall (fun r => r = IoErr EPROTONOSUPPORT) (removelast rs) /\
        (mounted = true <-> List.last rs (IoErr EINVAL) = IoOk tt)).
    { intros w1 Hc Ha -> ->. split; [done|]. exists [], []. simpl. rewrite app_nil_r.
      split_and!; [apply prefix_nil|done|done|done|]. by split. }
    destruct (rx_parent_alive c w) as [[[]|] w1]; simpl in A1, A2; [|by injection Hr as _ <- <-; eapply Hnone..].
    destruct (sys_mount source _ _ _ w1) as [r w2] eqn:Em. apply mount_law in Em as [M1 M2].
    destruct r as [[]|e].
    + simplify_eq. split; [congruence|]. exists [v], [IoOk tt]. simpl.
      split_and!; [by apply prefix_cons, prefix_nil|done|by rewrite M1, A1|done|done].
    + destruct (negb (beq (version c) (bs "auto")) || negb (bool_decide (e = EPROTONOSUPPORT))) eqn:Ee.
      * simplify_eq. split; [congruence|]. exists [v], [IoErr e]. simpl.
        split_and!; [by apply prefix_cons, prefix_nil|done|by rewrite M1, A1|done|by split].
      * breflect. subst e. apply IH in Hr as (Hc & vs & rs & Hp & Hl & Ha & Hf & Hm).
        split; [congruence|]. exists (v :: vs), (IoErr EPROTONOSUPPORT :: rs).
        split_and!; [by apply prefix_cons|simpl; by f_equal| | |].
        -- rewrite Ha, M1, A1, <- app_assoc. done.
        -- destruct rs as [|r rs]; simpl in *; [done|]. by constructor.
        -- rewrite Hm. by destruct rs.
Qed.

Lemma write_loop_creds fuel fd p w : creds (snd (write_loop fuel fd p w)) = creds w.
Proof.
  revert p w. induction fuel as [|fuel IH]; intros [|x p] w; try done. simpl.
  pose proof (write_creds fd (x :: p) w) as Hw.
  destruct (sys_write fd (x :: p) w) as [[n|e] w1]; simpl in *.
  - destruct (n =? 0)%nat; [done|]. by rewrite IH.
  - destruct e; try done. by rewrite IH.
Qed.

Lemma rx_emit_creds fd (o : J) w : creds (snd (rx_emit fd o w)) = creds w.
Proof.
  unfold rx_emit. destruct (negb _); [done|]. unfold rx_write_all at 1.
  match goal with |- context [write_loop ?n fd ?p w] => pose proof (write_loop_creds n fd p w) as Hw;
    destruct (write_loop n fd p w) as [[] w1] end; simpl in *; [|done].
  rewrite <- Hw. apply write_loop_creds.
Qed.

End MountNfs.

(** A table with one line about /storage. *)
Definition toy_ctx : storage_context unit :=
  mk_context tt tt (bs "nfs") (bs "nas") (bs "/img") (bs "win11") (bs "auto") (bs "dev/t/1") (bs ".locks/x")
    [] 0 0 2049 0 false 7.

Definition toy_table : list Z :=
  bs "22 1 0:20 / /proc rw - proc proc rw" ++ [10] ++
  bs "36 1 0:44 / /storage rw,nodev - nfs4 nas:/img rw,vers=4.2,addr=10.0.0.2" ++ [10].


(** A server that refuses everything but version 4.0. *)
Module ToyMount.
Definition answer (options : list Z) : io_result unit :=
  if bool_decide (is_Some (strstr (bs "vers=4.0") options)) then IoOk tt else IoErr EPROTONOSUPPORT.

#[global] Instance kernel_mount : KernelMount ToyProc.world := {
  sys_getaddrinfo _ := ret [(AF_INET, [10; 0; 0; 2])];
  inet_ntop _ _ := Some (bs "10.0.0.2");
  inet_pton _ _ := None;
  sys_mount s t f o w := (answer o, ToyProc.add_mount (s, t, f, o, answer o) w);
  sys_get_tcon _ := fail
}.

#[global] Program Instance mount_laws : MountLaws ToyProc.world := { attempts := ToyProc.mounts }.
Solve All Obligations with
  (intros; simpl in *; simplify_eq; try done; by destruct (ToyIO.w_intr _)).

Definition c : storage_context ToyIO.json :=
  mk_context ToyProc.job ToyProc.job (bs "nfs") (bs "nas") (bs "/images") (bs "win11") (bs "auto")
    (bs "dev/t1/1") (bs ".locks/" ++ ToyProc.hex64) [] 1000 1001 2049 0 true 77.
End ToyMount.


Example toy_attempts :
  map (fun a => a.2) (ToyProc.mounts (snd (rx_mount_nfs ToyMount.c 6 ToyProc.w0))) =
  [IoErr EPROTONOSUPPORT; IoErr EPROTONOSUPPORT; IoOk tt].
Proof. vm_compute. reflexivity. Qed.
