(* ===== verification/StorageMain.v ===== *)
(** * rootpxe-storage-io: the program

    Models [main] of [rootpxe-storage-io.c]: the arguments, the three modes
    (resolve a server, mount, serve commands) and the session loop, and what a
    whole session can do to the storage. *)
From S2P Require Import Prelude CLib StorageIO StorageContext StorageFs StorageFsSpec StorageStream StorageToy StorageMount.
Local Open Scope Z_scope.
Local Open Scope list_scope.

Class KernelMain (W : Type) := {
  sys_ignore_sigpipe : W -> unit * W;
  sys_chdir_root : M W unit;
  sys_close_range_from : Z -> M W unit;
  sys_open_null : M W Z
}.

Record args_t := mk_args { a_mount : Z; a_context : Z; a_request : Z; a_data : Z; a_result : Z }.

(** The options after the program name: [None] is exit code 2. *)
Fixpoint parse_args (fuel : nat) (argv : list (list Z)) (a : args_t) : option args_t :=
  match fuel, argv with
  | _, [] => Some a
  | O, _ => None
  | S fuel, x :: rest =>
      if beq x (bs "--mount-nfs") || beq x (bs "--resolve") then
        if negb (a_mount a =? 0) then None
        else parse_args fuel rest (mk_args (if beq x (bs "--resolve") then 2 else 1)
               (a_context a) (a_request a) (a_data a) (a_result a))
      else
        match rest with
        | [] => None
        | v :: rest =>
            match v with
            | [d] =>
                if (d <? 51) || (54 <? d) then None
                else
                  let fd := d - 48 in
                  if beq x (bs "--context-fd") && (a_context a <? 0)
                  then parse_args fuel rest (mk_args (a_mount a) fd (a_request a) (a_data a) (a_result a))
                  else if beq x (bs "--request-fd") && (a_request a <? 0)
                  then parse_args fuel rest (mk_args (a_mount a) (a_context a) fd (a_data a) (a_result a))
                  else if beq x (bs "--data-fd") && (a_data a <? 0)
                  then parse_args fuel rest (mk_args (a_mount a) (a_context a) (a_request a) fd (a_result a))
                  else if beq x (bs "--result-fd") && (a_result a <? 0)
                  then parse_args fuel rest (mk_args (a_mount a) (a_context a) (a_request a) (a_data a) fd)
                  else None
            | _ => None
            end
        end
  end.

Definition args_ok (a : args_t) : bool :=
  negb (negb (a_context a =? 3) || negb (a_result a =? 6)
        || ((a_mount a =? 0) && (negb (a_request a =? 4) || negb (a_data a =? 5)))
        || (negb (a_mount a =? 0) && (negb (a_request a =? -1) || negb (a_data a =? -1)))).

Section Main.
Context {W J : Type} `{KernelIO W} `{KernelProc W} `{KernelFS W} `{Evp W} `{KernelMount W}
  `{KernelMain W} `{JsonC J}.

(** The session: the exit code so far, the state and the world.  [fuel]
    bounds the commands: each one takes at least a byte from [request]. *)
Fixpoint serve (fuel : nat) (fs : storage_fs J) (request data result : Z) (w : W)
    : Z * storage_fs J * W :=
  match fuel with
  | O => (0, fs, w)
  | S fuel =>
      match rx_parent_alive (context fs) w with
      | (Some true, w1) =>
          match rx_read_json request RX_COMMAND_MAX true w1 with
          | (None, w2) => (0, fs, w2)
          | (Some command, w2) =>
              match rx_command fs command request data result w2 with
              | (false, fs', w3) => (7, fs', w3)
              | (true, fs', w3) =>
                  let complete := add_string (bs "sequence") (print_dec (last_sequence fs'))
                    (add_string (bs "event") (bs "done") json_object_new_object) in
                  match rx_emit result complete w3 with
                  | (false, w4) => (7, fs', w4)
                  | (true, w4) => serve fuel fs' request data result w4
                  end
              end
          end
      | (_, w1) => (0, fs, w1)
      end
  end.

(** A step that, when it fails, ends the program with [code]. *)
Definition exit_on {A} (code : Z) (m : M W A) (k : A -> W -> Z * W) (w : W) : Z * W :=
  match m w with
  | (Some a, w') => k a w'
  | (None, w') => (code, w')
  end.

Fixpoint replace_stdio (n : nat) (fd : Z) : M W unit :=
  match n with
  | O => ret tt
  | S n =>
      bind (total (sys_close fd)) (fun _ =>
      bind sys_open_null (fun null =>
      bind (require (null =? fd)) (fun _ => replace_stdio n (fd + 1))))
  end.

Definition require_fifo (fd : Z) : M W unit :=
  bind (sys_fstat fd) (fun s => require (S_ISFIFO (st_mode s))).

(** The serving mode, after the descriptors have been checked. *)
Definition serve_mode (c : storage_context J) (a : args_t) (w : W) : Z * W :=
  exit_on 3 (bind (require_fifo 4) (fun _ => bind (require_fifo 5) (fun _ => require_fifo 6))) (fun _ w =>
  exit_on 4 (rx_identity c false) (fun _ w =>
  exit_on 5 (rx_fs_open c (mk_fs c 0 0 (mk_statx 0 0 0 0 0 0 0 0 0) 0 (sequence c))) (fun fs w =>
  match rx_mount_info c (root fs) w with
  | (None, w) => (5, snd (sys_close (root fs) w))
  | (Some (c', info), w) =>
      let ready := json_object_object_add
        (json_object_object_add (add_string (bs "event") (bs "connection-info") json_object_new_object)
           (bs "connection") info) (bs "node") (rx_node_json (root_stat fs)) in
      match rx_emit (a_result a) ready w with
      | (false, w) => (6, snd (sys_close (root fs) w))
      | (true, w) =>
          let fs := mk_fs c' (root fs) (result fs) (root_stat fs) (last_count fs) (last_sequence fs) in
          let '(rc, fs, w) := serve (S (bytes_left (a_request a) w)) fs (a_request a) (a_data a) (a_result a) w in
          let '(closed, w) := sys_close (root fs) w in
          ((if closed then rc else 7), w)
      end
  end) w) w) w.

Definition storage_main (argv : list (list Z)) (w : W) : Z * W :=
  match argv with
  | [_; x] =>
      if beq x (bs "--capabilities") then
        let '(ok, w) := rx_write_all 1
          (bs "{" ++ [34] ++ bs "version" ++ [34] ++ bs ":1," ++ [34] ++ bs "helper" ++ [34] ++ bs ":true,"
             ++ [34] ++ bs "numericIdentity" ++ [34] ++ bs ":true," ++ [34] ++ bs "durablePublish" ++ [34]
             ++ bs ":true}" ++ [10]) w in
        ((if ok then 0 else 1), w)
      else (2, w)
  | _ =>
      match parse_args (length argv) (drop 1 argv) (mk_args 0 (-1) (-1) (-1) (-1)) with
      | None => (2, w)
      | Some a =>
          if negb (args_ok a) then (2, w)
          else
            let w := snd (sys_ignore_sigpipe w) in
            exit_on 3 (rx_load_context (a_context a)) (fun c w =>
            exit_on 3 (if a_mount a =? 0 then rx_fd_contract (a_request a) (a_data a) (a_result a)
                       else ret tt) (fun _ w =>
            exit_on 3 (require_fifo (a_result a)) (fun _ w =>
            let w := snd (sys_close (a_context a) w) in
            let w := if negb (a_mount a =? 0) then snd (sys_close 5 (snd (sys_close 4 w))) else w in
            exit_on 3 (bind sys_chdir_root (fun _ => sys_close_range_from 7)) (fun _ w =>
            exit_on 3 (replace_stdio 3 0) (fun _ w =>
            if a_mount a =? 2 then
              match rx_resolve_server c w with
              | (None, w) => (4, w)
              | (Some (_, resolved), w) =>
                  let '(ok, w) := rx_emit (a_result a) resolved w in ((if ok then 0 else 4), w)
              end
            else if a_mount a =? 1 then
              let '(rc, w) := rx_mount_nfs c (a_result a) w in
              let '(clear, w) := rx_clear_capabilities w in
              let '(keep, w) := sys_set_keepcaps false w in
              ((if bool_decide (rc = Some tt) && bool_decide (clear = Some tt) && bool_decide (keep = Some tt)
                then 0 else 4), w)
            else serve_mode c a w) w) w) w) w) w
      end
  end.
End Main.

(** ** A whole session *)

Section Session.
Context {W J : Type} `{KL : KernelFSLaws W} `{!JsonC J}.
Implicit Types (fs : storage_fs J) (c : storage_context J) (w : W).

(** A mutation some command of a task with context [c] may make. *)
Definition permitted c (m : mutation) : Prop :=
  exists op path to, path_allowed c path true = true /\ authorized op path to m /\
    Forall atom_ok (names_of m).

Lemma rx_command_session fs (command : J) q d r w ok fs' w' :
  fdopendir_never_fails (W := W) -> context_ok (context fs) ->
  rx_command fs command q d r w = (ok, fs', w') ->
  context fs' = context fs /\ (gh w').1 = (gh w).1 /\
  exists ms, (gh w').2 = (gh w).2 ++ ms /\ Forall (permitted (context fs)) ms /\
    (length ms <= 1)%nat /\
    last_sequence fs + (if ok then 2 else 0) <= last_sequence fs'.
Proof.
  intros Hd Hc Hr. destruct (rx_command_ghost fs command q d r w ok fs' w' Hd Hc Hr) as [G1 G2].
  destruct (rx_command_seq fs command q d r w ok fs' w' Hr) as [S1 S2].
  assert (Hl : last_sequence fs + (if ok then 2 else 0) <= last_sequence fs').
  { destruct (accept_command fs command) as [[[[op path] to] seq]|].
    - destruct S2 as (_ & _ & -> & _). destruct ok; [destruct (beq op _)|]; lia.
    - destruct S2 as (-> & -> & _). lia. }
  split; [done|]. split; [done|]. destruct G2 as [G2|(m & op & path & G2 & _ & _ & Hp & Ha & Hn)].
  - exists []. rewrite app_nil_r. split_and!; [done|constructor|simpl; lia|done].
  - exists [m]. split_and!; [done| |simpl; lia|done]. apply Forall_singleton. by exists op, path, (rx_string command (bs "to") 4095).
Qed.

End Session.

