(* ===== verification/OfflineIdentities.v ===== *)
(** * rootpxe-offline-identities: host names in an offline SYSTEM hive

    Models [rootpxe-offline-identities.c].  hivex, the registry reader, is the
    class [Hivex]: the hive is opened read-only, so its accessors are
    functions of the hive; a null pointer or a zero handle is [None], and the
    zero-terminated handle arrays are lists of handles.  [lstat] is a
    parameter too.  What is printed is returned as a list of lines. *)
From S2P Require Import Prelude CLib.
Local Open Scope Z_scope.
Local Open Scope list_scope.

Inductive hive_type := hive_t_string | hive_t_dword | hive_t_other.

#[export] Instance hive_type_eq_dec : EqDecision hive_type.
Proof. solve_decision. Defined.

Class Hivex (H : Type) := {
  (** [lstat] says a regular file, and not a symbolic link *)
  regular : list Z -> bool;
  hivex_open : list Z -> option H;
  hivex_root : H -> option Z;
  hivex_node_children : H -> Z -> option (list Z);
  hivex_node_name : H -> Z -> option (list Z);
  hivex_node_values : H -> Z -> option (list Z);
  hivex_value_key : H -> Z -> option (list Z);
  hivex_value_value : H -> Z -> option (hive_type * list Z)
}.

(** The four bytes as a C [int]. *)
Definition le32 (value : list Z) : Z :=
  s32 (Z.lor (at_ value 0) (Z.lor (Z.shiftl (at_ value 1) 8)
        (Z.lor (Z.shiftl (at_ value 2) 16) (Z.shiftl (at_ value 3) 24)))).

Definition lower (c : Z) : Z := if (65 <=? c) && (c <=? 90) then c - 65 + 97 else c.

Fixpoint ascii_case_equal (actual expected : list Z) : bool :=
  match actual, expected with
  | [], [] => true
  | a :: actual', e :: expected' =>
      if lower a =? lower e then ascii_case_equal actual' expected' else false
  | _, _ => false
  end.

(** The scan both lookups make: [None] on an unreadable name or a second
    match, otherwise the match found, if any. *)
Fixpoint ci_scan (name_of : Z -> option (list Z)) (expected : list Z) (items : list Z)
    (found : option (Z * list Z)) : option (option (Z * list Z)) :=
  match items with
  | [] => Some found
  | i :: items =>
      match name_of i with
      | None => None
      | Some name =>
          if ascii_case_equal name expected then
            match found with
            | Some _ => None
            | None => ci_scan name_of expected items (Some (i, name))
            end
          else ci_scan name_of expected items found
      end
  end.

Definition join_result {A} (x : option (option A)) : option A :=
  match x with
  | Some r => r
  | None => None
  end.

(** ["ControlSet%03u"], in a buffer of 16 bytes. *)
Definition control_set_name (n : Z) : option (list Z) :=
  let s := bs "ControlSet" ++ zero_pad 3 (print_dec n) in
  if (16 <=? length s)%nat then None else Some s.

Section Offline.
Context {H : Type} `{Hivex H}.

(** The node or value and its stored spelling. *)
Definition hostname_child_ci (hive : H) (parent : Z) (expected : list Z) : option (Z * list Z) :=
  children ← hivex_node_children hive parent;
  join_result (ci_scan (hivex_node_name hive) expected children None).

Definition hostname_value_ci (hive : H) (parent : Z) (expected : list Z) : option (Z * list Z) :=
  values ← hivex_node_values hive parent;
  join_result (ci_scan (hivex_value_key hive) expected values None).

Fixpoint hostname_path_ci (hive : H) (start : Z) (parts : list (list Z)) : option Z :=
  match parts with
  | [] => Some start
  | part :: parts =>
      '(n, _) ← hostname_child_ci hive start part;
      hostname_path_ci hive n parts
  end.

Fixpoint utf16_prefix (data hostname : list Z) : bool :=
  match hostname with
  | [] => match data with d0 :: d1 :: _ => (d0 =? 0) && (d1 =? 0) | _ => false end
  | c :: hostname' =>
      match data with
      | d0 :: d1 :: data' => if negb (d0 =? c) || negb (d1 =? 0) then false else utf16_prefix data' hostname'
      | _ => false
      end
  end.

Definition hostname_value_matches (hive : H) (node : Z) (key hostname : list Z) : bool :=
  match hostname_value_ci hive node key with
  | None => false
  | Some (value, _) =>
      match hivex_value_value hive value with
      | None => false
      | Some (type, data) =>
          if negb (bool_decide (type = hive_t_string))
             || negb (length data =? (length hostname + 1) * 2)%nat then false
          else utf16_prefix data hostname
      end
  end.

Definition hostname_dword (hive : H) (node : Z) (key : list Z) : option Z :=
  '(value, _) ← hostname_value_ci hive node key;
  '(type, data) ← hivex_value_value hive value;
  if negb (bool_decide (type = hive_t_dword)) || negb (length data =? 4)%nat then None else
  let result := u32 (le32 data) in
  if (result =? 0) || (999 <? result) then None else Some result.

Definition selected_hostname_control_sets (hive : H) (root : Z) : option (list Z) :=
  '(select, _) ← hostname_child_ci hive root (bs "Select");
  current ← hostname_dword hive select (bs "Current");
  fallback ← hostname_dword hive select (bs "Default");
  let selected := if negb (fallback =? current) then [current; fallback] else [current] in
  if forallb (fun n => match control_set_name n with
                       | None => false
                       | Some control => bool_decide (is_Some (hostname_child_ci hive root control))
                       end) selected
  then Some selected else None.

Definition host_char (c : Z) : bool :=
  (c =? 45) || ((65 <=? c) && (c <=? 90)) || ((97 <=? c) && (c <=? 122)) || is_digit c.

Definition valid_windows_hostname (hostname : list Z) : bool :=
  if beq hostname [] || (15 <? length hostname)%nat then false
  else if negb (forallb host_char hostname) then false
  else negb (forallb is_digit hostname).

Definition is_string_value (hive : H) (value : Z) : bool :=
  match hivex_value_value hive value with
  | Some (type, _) => bool_decide (type = hive_t_string)
  | None => false
  end.

(** A registry path of five names in a buffer of 160 bytes. *)
Definition reged_path (names : list (list Z)) : option (list Z) :=
  let s := flat_map (fun n => 92 :: n) names in
  if (160 <=? length s)%nat then None else Some s.

(** The three paths of one control set. *)
Definition control_set_paths (hive : H) (root n : Z) : option (list (list Z)) :=
  expected ← control_set_name n;
  '(control_set, control_name) ← hostname_child_ci hive root expected;
  '(services, services_name) ← hostname_child_ci hive control_set (bs "Services");
  '(tcpip, tcpip_name) ← hostname_child_ci hive services (bs "Tcpip");
  '(tcp, parameters_name) ← hostname_child_ci hive tcpip (bs "Parameters");
  '(control, control_key) ← hostname_child_ci hive control_set (bs "Control");
  '(computer, computer_name) ← hostname_child_ci hive control (bs "ComputerName");
  '(computer_key, computer_key_name) ← hostname_child_ci hive computer (bs "ComputerName");
  '(nv, nv_hostname) ← hostname_value_ci hive tcp (bs "NV Hostname");
  if negb (is_string_value hive nv) then None else
  '(hn, hostname) ← hostname_value_ci hive tcp (bs "Hostname");
  if negb (is_string_value hive hn) then None else
  '(cv, computer_value) ← hostname_value_ci hive computer_key (bs "ComputerName");
  if negb (is_string_value hive cv) then None else
  p1 ← reged_path [control_name; services_name; tcpip_name; parameters_name; nv_hostname];
  p2 ← reged_path [control_name; services_name; tcpip_name; parameters_name; hostname];
  p3 ← reged_path [control_name; control_key; computer_name; computer_key_name; computer_value];
  Some [p1; p2; p3].

Fixpoint write_paths_loop (hive : H) (root : Z) (sets : list Z) (paths : list (list Z))
    : option (list (list Z)) :=
  match sets with
  | [] => Some paths
  | n :: sets =>
      if (6 <? length paths + 3)%nat then None else
      new ← control_set_paths hive root n;
      write_paths_loop hive root sets (paths ++ new)
  end.

(** The lines printed on success. *)
Definition windows_hostname_write_paths (system : list Z) : option (list (list Z)) :=
  if negb (regular system) then None else
  hive ← hivex_open system;
  root ← hivex_root hive;
  selected ← selected_hostname_control_sets hive root;
  write_paths_loop hive root selected [].

Definition control_set_verified (hive : H) (current_set : Z) (hostname : list Z) : bool :=
  match hostname_path_ci hive current_set [bs "Services"; bs "Tcpip"; bs "Parameters"],
        hostname_path_ci hive current_set [bs "Control"; bs "ComputerName"; bs "ComputerName"] with
  | Some tcp, Some computer =>
      hostname_value_matches hive tcp (bs "Hostname") hostname
      && hostname_value_matches hive tcp (bs "NV Hostname") hostname
      && hostname_value_matches hive computer (bs "ComputerName") hostname
  | _, _ => false
  end.

(** The loop of [windows_hostname_inspect_or_verify]: whether it got through,
    and the lines printed until then. *)
Fixpoint inspect_loop (hive : H) (root : Z) (hostname : option (list Z)) (sets : list Z)
    (out : list (list Z)) : bool * list (list Z) :=
  match sets with
  | [] => (true, out)
  | n :: sets =>
      match control_set_name n with
      | None => (false, out)
      | Some control =>
          match hostname_child_ci hive root control with
          | None => (false, out)
          | Some (current_set, _) =>
              match hostname with
              | None => inspect_loop hive root hostname sets (out ++ [control])
              | Some h =>
                  if control_set_verified hive current_set h
                  then inspect_loop hive root hostname sets out else (false, out)
              end
          end
      end
  end.

Definition windows_hostname_inspect_or_verify (system : list Z) (hostname : option (list Z))
    : bool * list (list Z) :=
  if negb (regular system)
     || match hostname with Some h => negb (valid_windows_hostname h) | None => false end
  then (false, [])
  else match hivex_open system with
       | None => (false, [])
       | Some hive =>
           match hivex_root hive with
           | None => (false, [])
           | Some root =>
               match selected_hostname_control_sets hive root with
               | None => (false, [])
               | Some selected => inspect_loop hive root hostname selected []
               end
           end
       end.

(** [main]: the exit code and the lines on standard output. *)
Definition offline_main (args : list (list Z)) : Z * list (list Z) :=
  match args with
  | [_; cmd; system] =>
      if beq cmd (bs "windows-hostname-inspect") then
        let '(ok, out) := windows_hostname_inspect_or_verify system None in ((if ok then 0 else 1), out)
      else if beq cmd (bs "windows-hostname-write-paths") then
        match windows_hostname_write_paths system with
        | Some out => (0, out)
        | None => (1, [])
        end
      else (2, [])
  | [_; cmd; system; hostname] =>
      if beq cmd (bs "windows-hostname-verify") then
        let '(ok, out) := windows_hostname_inspect_or_verify system (Some hostname) in
        ((if ok then 0 else 1), out)
      else (2, [])
  | _ => (2, [])
  end.
End Offline.

(** ** Case-insensitive lookup *)

Lemma ascii_case_equal_iff a e : ascii_case_equal a e = true <-> map lower a = map lower e.
Proof.
  revert e. induction a as [|x a IH]; intros [|y e]; simpl; try done.
  destruct (lower x =? lower y) eqn:E; breflect.
  - rewrite IH. split; [by intros ->; f_equal|by intros [= _ ->]].
  - split; [done|]. by intros [= ? _].
Qed.

Lemma ascii_case_equal_trans a b e :
  ascii_case_equal a e = true -> ascii_case_equal b e = ascii_case_equal b a.
Proof.
  intros Ha. apply ascii_case_equal_iff in Ha.
  destruct (ascii_case_equal b a) eqn:E1, (ascii_case_equal b e) eqn:E2; try done.
  - apply ascii_case_equal_iff in E1. assert (ascii_case_equal b e = true); [|congruence].
    apply ascii_case_equal_iff. congruence.
  - apply ascii_case_equal_iff in E2. assert (ascii_case_equal b a = true); [|congruence].
    apply ascii_case_equal_iff. congruence.
Qed.

(** Item [i], spelled [name], is the one match; every name is readable. *)
Definition unique_ci (name_of : Z -> option (list Z)) (expected : list Z) (items : list Z)
    (i : Z) (name : list Z) : Prop :=
  exists l1 l2, items = l1 ++ i :: l2 /\ name_of i = Some name /\
    map lower name = map lower expected /\
    Forall (fun j => exists s, name_of j = Some s /\ map lower s <> map lower expected) (l1 ++ l2).

Section Scan.
Context (name_of : Z -> option (list Z)) (expected : list Z).

Definition no_match (j : Z) : Prop :=
  exists s, name_of j = Some s /\ map lower s <> map lower expected.

Lemma ci_scan_found items r :
  ci_scan name_of expected items (Some r) = Some (Some r) <-> Forall no_match items.
Proof.
  induction items as [|i items IH]; simpl; [split; [constructor|done]|].
  rewrite Forall_cons. unfold no_match at 1. destruct (name_of i) as [s|]; [|by split; [|intros [(? & ? & _) _]]].
  destruct (ascii_case_equal s expected) eqn:E.
  - apply ascii_case_equal_iff in E. split; [done|]. intros [(s' & Es & ?) _]. by simplify_eq.
  - rewrite IH. split; [|by intros [_ ?]]. intros ?. split; [|done]. exists s. split; [done|].
    intros Hm. apply ascii_case_equal_iff in Hm. congruence.
Qed.

Lemma ci_scan_found_inv items r x :
  ci_scan name_of expected items (Some r) = Some x -> x = Some r.
Proof. induction items as [|i items IH]; simpl; [congruence|]. repeat case_match; auto; congruence. Qed.

Lemma ci_scan_unique items i name :
  join_result (ci_scan name_of expected items None) = Some (i, name) <->
  unique_ci name_of expected items i name.
Proof.
  unfold unique_ci. induction items as [|j items IH]; simpl.
  { split; [done|]. by intros ([|] & ? & ? & _). }
  destruct (name_of j) as [s|] eqn:Ej.
  2:{ split; [done|]. intros ([|k l1] & l2 & E & Hi & _ & Hf); simplify_eq/=.
      inversion_clear Hf as [|? ? (? & ? & _) _]. congruence. }
  destruct (ascii_case_equal s expected) eqn:E.
  - apply ascii_case_equal_iff in E.
    transitivity (ci_scan name_of expected items (Some (j, s)) = Some (Some (j, s)) /\ (j, s) = (i, name)).
    { destruct (ci_scan name_of expected items (Some (j, s))) as [x|] eqn:Ex; simpl; [|by split; [|intros [? _]]].
      apply ci_scan_found_inv in Ex as ->. split; [intros [= -> ->]; done|intros [_ [= -> ->]]; done]. }
    rewrite ci_scan_found. split.
    + intros [Hf [= -> ->]]. exists [], items. by split_and!.
    + intros ([|k l1] & l2 & El & Hi & Hm & Hf); simplify_eq/=; [by split|].
      inversion_clear Hf as [|? ? (s' & Hs' & Hne) _]. congruence.
  - rewrite IH. assert (Hne : map lower s <> map lower expected).
    { intros Hm. apply ascii_case_equal_iff in Hm. congruence. }
    split.
    + intros (l1 & l2 & -> & ? & ? & ?). exists (j :: l1), l2. split_and!; [done..|].
      simpl. constructor; [by exists s|done].
    + intros ([|k l1] & l2 & El & Hi & Hm & Hf); simplify_eq/=. exists l1, l2.
      inversion_clear Hf. by split_and!.
Qed.

(** Whatever item has the same spelling is the match. *)
Lemma unique_ci_eq items i name j s :
  unique_ci name_of expected items i name -> j ∈ items -> name_of j = Some s ->
  map lower s = map lower expected -> j = i /\ s = name.
Proof.
  intros (l1 & l2 & -> & Hi & Hm & Hf) Hj Hs Hms. rewrite Forall_forall in Hf.
  destruct (decide (j = i)) as [->|Hne]; [split; [done|congruence]|]. exfalso.
  assert (Hj' : j ∈ l1 ++ l2).
  { rewrite elem_of_app, elem_of_cons in Hj. rewrite elem_of_app. tauto. }
  destruct (Hf j Hj') as (s' & Hs' & Hn). congruence.
Qed.
End Scan.

Section OfflineSpec.
Context {H : Type} `{HX : Hivex H}.
Implicit Types hive : H.

(** The node has exactly one child (value) with this name, whatever the case
    of its letters. *)
Definition child_is hive parent expected n name : Prop :=
  exists children, hivex_node_children hive parent = Some children /\
    unique_ci (hivex_node_name hive) expected children n name.

Definition value_is hive node expected v name : Prop :=
  exists values, hivex_node_values hive node = Some values /\
    unique_ci (hivex_value_key hive) expected values v name.

Lemma hostname_child_iff hive p e n name :
  hostname_child_ci hive p e = Some (n, name) <-> child_is hive p e n name.
Proof.
  unfold hostname_child_ci, child_is. destruct (hivex_node_children hive p) as [l|]; simpl.
  - rewrite ci_scan_unique. split; [by exists l|]. by intros (? & [= <-] & ?).
  - split; [done|]. by intros (? & ? & _).
Qed.

Lemma hostname_value_iff hive p e n name :
  hostname_value_ci hive p e = Some (n, name) <-> value_is hive p e n name.
Proof.
  unfold hostname_value_ci, value_is. destruct (hivex_node_values hive p) as [l|]; simpl.
  - rewrite ci_scan_unique. split; [by exists l|]. by intros (? & [= <-] & ?).
  - split; [done|]. by intros (? & ? & _).
Qed.

(** The lookups are exact: [hostname_child_ci] and [hostname_value_ci]
    return a handle and its stored spelling exactly when every name at that
    place can be read and this is the only one that equals the expected name
    up to the case of its ASCII letters. *)
Theorem lookup_ci_unique hive p e n name :
  (hostname_child_ci hive p e = Some (n, name) <-> child_is hive p e n name) /\
  (hostname_value_ci hive p e = Some (n, name) <-> value_is hive p e n name).
Proof. split; [apply hostname_child_iff|apply hostname_value_iff]. Qed.
(** ** Verification *)

(** A host name as the registry stores it: UTF-16LE with a terminator. *)
Definition utf16z (h : list Z) : list Z := flat_map (fun c => [c; 0]) h ++ [0; 0].

Lemma utf16_prefix_iff data h :
  length data = ((length h + 1) * 2)%nat -> utf16_prefix data h = true <-> data = utf16z h.
Proof.
  revert data. induction h as [|c h IH]; intros data Hl.
  - destruct data as [|d0 [|d1 [|]]]; simpl in Hl; try lia. simpl. rewrite andb_true_iff, !Z.eqb_eq.
    unfold utf16z. simpl. split; [by intros [-> ->]|by intros [= -> ->]].
  - destruct data as [|d0 [|d1 data]]; simpl in Hl; try lia. simpl.
    destruct (negb (d0 =? c) || negb (d1 =? 0)) eqn:E.
    + split; [done|]. unfold utf16z. simpl. intros [= -> -> _]. rewrite !Z.eqb_refl in E. done.
    + breflect. subst. rewrite IH by lia. unfold utf16z. simpl. split; [by intros ->|by intros [= ->]].
Qed.

Lemma utf16z_length h : length (utf16z h) = ((length h + 1) * 2)%nat.
Proof. unfold utf16z. rewrite length_app. induction h; simpl in *; lia. Qed.

(** The value holds the host name as a string. *)
Definition holds hive node key h : Prop :=
  exists v nm, value_is hive node key v nm /\ hivex_value_value hive v = Some (hive_t_string, utf16z h).

Lemma hostname_value_matches_iff hive node key h :
  hostname_value_matches hive node key h = true <-> holds hive node key h.
Proof.
  unfold hostname_value_matches, holds. destruct (hostname_value_ci hive node key) as [[v nm]|] eqn:E.
  - pose proof (proj1 (hostname_value_iff _ _ _ _ _) E) as Hv.
    assert (Hu : forall v' nm', value_is hive node key v' nm' -> v' = v).
    { intros v' nm' Hv'. apply hostname_value_iff in Hv'. congruence. }
    destruct (hivex_value_value hive v) as [[ty data]|] eqn:Ed.
    + destruct (negb (bool_decide (ty = hive_t_string)) || negb (length data =? (length h + 1) * 2)%nat) eqn:Eg.
      * split; [done|]. intros (v' & nm' & Hv' & Hd). rewrite (Hu _ _ Hv'), Ed in Hd. simplify_eq.
        rewrite utf16z_length, Nat.eqb_refl, bool_decide_true in Eg by done. done.
      * breflect. subst ty. rewrite utf16_prefix_iff by done. split.
        -- intros ->. by exists v, nm.
        -- intros (v' & nm' & Hv' & Hd). rewrite (Hu _ _ Hv'), Ed in Hd. by simplify_eq.
    + split; [done|]. intros (v' & nm' & Hv' & Hd). rewrite (Hu _ _ Hv'), Ed in Hd. done.
  - split; [done|]. intros (v & nm & Hv & _). apply hostname_value_iff in Hv. congruence.
Qed.

Fixpoint path_is hive (start : Z) (parts : list (list Z)) (n : Z) : Prop :=
  match parts with
  | [] => n = start
  | p :: parts => exists m nm, child_is hive start p m nm /\ path_is hive m parts n
  end.

Lemma hostname_path_iff hive start parts n :
  hostname_path_ci hive start parts = Some n <-> path_is hive start parts n.
Proof.
  revert start. induction parts as [|p parts IH]; intros start; simpl.
  - split; [by intros [= ->]|by intros ->].
  - rewrite bind_Some. split.
    + intros ([m nm] & Hc & Hp). exists m, nm. split; [by apply hostname_child_iff|by apply IH].
    + intros (m & nm & Hc & Hp). exists (m, nm). split; [by apply hostname_child_iff|by apply IH].
Qed.

Definition tcp_path : list (list Z) := [bs "Services"; bs "Tcpip"; bs "Parameters"].
Definition computer_path : list (list Z) := [bs "Control"; bs "ComputerName"; bs "ComputerName"].

(** All three persistent fields of a control set hold the host name. *)
Definition set_has_name hive control_set h : Prop :=
  exists tcp computer, path_is hive control_set tcp_path tcp /\
    path_is hive control_set computer_path computer /\
    holds hive tcp (bs "Hostname") h /\ holds hive tcp (bs "NV Hostname") h /\
    holds hive computer (bs "ComputerName") h.

Lemma control_set_verified_iff hive cs h :
  control_set_verified hive cs h = true <-> set_has_name hive cs h.
Proof.
  unfold control_set_verified, set_has_name. fold tcp_path computer_path.
  destruct (hostname_path_ci hive cs tcp_path) as [tcp|] eqn:E1.
  2:{ split; [done|]. intros (t & c & Ht & _). apply hostname_path_iff in Ht. congruence. }
  destruct (hostname_path_ci hive cs computer_path) as [comp|] eqn:E2.
  2:{ split; [done|]. intros (t & c & _ & Hc & _). apply hostname_path_iff in Hc. congruence. }
  rewrite !andb_true_iff, !hostname_value_matches_iff. split.
  - intros [[? ?] ?]. exists tcp, comp. split_and!; try done; by apply hostname_path_iff.
  - intros (t & c & Ht & Hc & ? & ? & ?). apply hostname_path_iff in Ht, Hc.
    assert (t = tcp) as -> by congruence. assert (c = comp) as -> by congruence. done.
Qed.

Definition control_set_is hive root n cs : Prop :=
  exists name nm, control_set_name n = Some name /\ child_is hive root name cs nm.

Lemma verify_loop_iff hive root h sets out r :
  inspect_loop hive root (Some h) sets out = (true, r) <->
  r = out /\ Forall (fun n => exists cs, control_set_is hive root n cs /\ set_has_name hive cs h) sets.
Proof.
  revert out. induction sets as [|n sets IH]; intros out; simpl.
  { split; [intros [= ->]; by split|by intros [-> _]]. }
  rewrite Forall_cons. unfold control_set_is. destruct (control_set_name n) as [name|] eqn:En.
  2:{ split; [done|]. by intros (_ & (cs & (? & ? & ? & _) & _) & _). }
  destruct (hostname_child_ci hive root name) as [[cs nm]|] eqn:Ec.
  2:{ split; [done|]. intros (_ & (cs & (? & nm & [= <-] & Hc) & _) & _).
      apply hostname_child_iff in Hc. congruence. }
  destruct (control_set_verified hive cs h) eqn:Ev.
  - apply control_set_verified_iff in Ev. apply hostname_child_iff in Ec. rewrite IH. split.
    + intros [-> Hf]. split_and!; [done| |done]. exists cs. split; [by exists name, nm|done].
    + by intros (-> & _ & Hf).
  - split; [done|]. intros (_ & (cs' & (? & nm' & [= <-] & Hc) & Hs) & _).
    apply hostname_child_iff in Hc. apply control_set_verified_iff in Hs. congruence.
Qed.

Lemma selected_range hive root sets :
  selected_hostname_control_sets hive root = Some sets ->
  (1 <= length sets <= 2)%nat /\ Forall (fun n => 1 <= n <= 999) sets /\
  Forall (fun n => exists cs, control_set_is hive root n cs) sets.
Proof.
  unfold selected_hostname_control_sets. intros Hs. apply bind_Some in Hs as ([s nm] & _ & Hs).
  apply bind_Some in Hs as (cur & Hc & Hs). apply bind_Some in Hs as (fb & Hf & Hs).
  assert (Hd : forall k n, hostname_dword hive s k = Some n -> 1 <= n <= 999).
  { unfold hostname_dword. intros k n Hn. apply bind_Some in Hn as ([? ?] & _ & Hn).
    apply bind_Some in Hn as ([? ?] & _ & Hn). opt_inv Hn. subst n. breflect.
    match goal with |- context [u32 ?z] => pose proof (u32_range z) end. lia. }
  apply Hd in Hc, Hf. destruct (forallb _ _) eqn:Ef; [|done]. apply Some_eq in Hs. subst sets.
  apply forallb_iff in Ef. split; [|split].
  - destruct (negb (fb =? cur)); simpl; lia.
  - destruct (negb (fb =? cur)); rewrite ?Forall_cons; auto.
  - eapply Forall_impl; [exact Ef|]. cbv beta. intros n Hn. destruct (control_set_name n) as [name|] eqn:En; [|done].
    breflect. destruct Hn as [[cs nm'] Hcs]. exists cs, name, nm'. split; [done|]. by apply hostname_child_iff.
Qed.

Lemma verify_iff prog system h :
  fst (offline_main [prog; bs "windows-hostname-verify"; system; h]) = 0 <->
  regular system = true /\ valid_windows_hostname h = true /\
  exists hive root sets, hivex_open system = Some hive /\ hivex_root hive = Some root /\
    selected_hostname_control_sets hive root = Some sets /\
    (1 <= length sets <= 2)%nat /\ Forall (fun n => 1 <= n <= 999) sets /\
    Forall (fun n => exists cs, control_set_is hive root n cs /\ set_has_name hive cs h) sets.
Proof.
  unfold offline_main. rewrite beq_refl. unfold windows_hostname_inspect_or_verify.
  destruct (regular system); [|by split; [|intros [? _]]]. simpl negb. cbn [orb].
  destruct (valid_windows_hostname h); [|by split; [|intros (_ & ? & _)]]. simpl negb. cbv iota.
  destruct (hivex_open system) as [hive|] eqn:Eo; [|by split; [|intros (_ & _ & ? & ? & ? & ? & _)]].
  destruct (hivex_root hive) as [root|] eqn:Er.
  2:{ split; [done|]. intros (_ & _ & ? & ? & ? & [= <-] & ? & _). congruence. }
  destruct (selected_hostname_control_sets hive root) as [sets|] eqn:Es.
  2:{ split; [done|]. intros (_ & _ & ? & ? & ? & [= <-] & E & Es' & _). congruence. }
  pose proof (verify_loop_iff hive root h sets []) as Hl.
  destruct (inspect_loop hive root (Some h) sets []) as [ok out]. split.
  - intros E. destruct ok; [|done]. destruct (proj1 (Hl out) eq_refl) as [-> Hf]. split_and!; [done..|].
    destruct (selected_range hive root sets Es) as (? & ? & _). by exists hive, root, sets.
  - intros (_ & _ & hv & rt & st & [= <-] & E1 & E2 & _ & _ & Hf).
    assert (rt = root) as -> by congruence. assert (st = sets) as -> by congruence.
    assert (Eq : (ok, out) = (true, [])) by (by apply Hl). by injection Eq as -> _.
Qed.

(** C40: Verification is exact: [windows-hostname-verify] exits with 0 exactly
    when the file is a regular file, the host name is valid, and in every
    control set selected by Select\Current and Select\Default (one or two,
    numbered 1 to 999) the values Hostname and NV Hostname of
    Services\Tcpip\Parameters and ComputerName of
    Control\ComputerName\ComputerName are strings holding that name in
    UTF-16LE with its terminator. *)
Theorem verify_exact prog system h :
  fst (offline_main [prog; bs "windows-hostname-verify"; system; h]) = 0 <->
  regular system = true /\ valid_windows_hostname h = true /\
  exists hive root sets, hivex_open system = Some hive /\ hivex_root hive = Some root /\
    selected_hostname_control_sets hive root = Some sets /\
    (1 <= length sets <= 2)%nat /\ Forall (fun n => 1 <= n <= 999) sets /\
    Forall (fun n => exists cs, control_set_is hive root n cs /\ set_has_name hive cs h) sets.
Proof. apply verify_iff. Qed.
(** ** The paths given to the writer *)

Definition has_child hive p name n : Prop :=
  exists l, hivex_node_children hive p = Some l /\ n ∈ l /\ hivex_node_name hive n = Some name.

Definition has_value hive p name v : Prop :=
  exists l, hivex_node_values hive p = Some l /\ v ∈ l /\ hivex_value_key hive v = Some name.

(** The registry path [path] leads to value [v], name by name. *)
Definition denotes hive root (path : list Z) (v : Z) : Prop :=
  exists a b c d e n1 n2 n3 n4, path = flat_map (fun n => 92 :: n) [a; b; c; d; e] /\
    has_child hive root a n1 /\ has_child hive n1 b n2 /\ has_child hive n2 c n3 /\
    has_child hive n3 d n4 /\ has_value hive n4 e v.

Lemma child_is_has hive p e n name : child_is hive p e n name -> has_child hive p name n.
Proof.
  intros (l & Hl & l1 & l2 & -> & Hn & _). eexists. split_and!; [done|apply elem_of_middle|done].
Qed.

Lemma value_is_has hive p e n name : value_is hive p e n name -> has_value hive p name n.
Proof.
  intros (l & Hl & l1 & l2 & -> & Hn & _). eexists. split_and!; [done|apply elem_of_middle|done].
Qed.

Lemma reged_path_ok hive root a b c d e n1 n2 n3 n4 v p :
  reged_path [a; b; c; d; e] = Some p ->
  has_child hive root a n1 -> has_child hive n1 b n2 -> has_child hive n2 c n3 ->
  has_child hive n3 d n4 -> has_value hive n4 e v ->
  denotes hive root p v /\ (length p < 160)%nat.
Proof.
  unfold reged_path. intros Hp. opt_inv Hp. subst p. intros. split; [by exists a, b, c, d, e, n1, n2, n3, n4|].
  by apply Nat.leb_gt.
Qed.

(** Where one control set keeps the host name. *)
Record fields := { f_nv : Z; f_hn : Z; f_cn : Z }.
Definition handles (f : fields) : list Z := [f_nv f; f_hn f; f_cn f].

Definition set_fields hive root n (f : fields) : Prop :=
  exists cs tcp comp s1 s2 s3, control_set_is hive root n cs /\ path_is hive cs tcp_path tcp /\
    path_is hive cs computer_path comp /\ value_is hive tcp (bs "NV Hostname") (f_nv f) s1 /\
    value_is hive tcp (bs "Hostname") (f_hn f) s2 /\
    value_is hive comp (bs "ComputerName") (f_cn f) s3 /\
    Forall (fun v => is_string_value hive v = true) (handles f).

Lemma control_set_paths_ok hive root n ps :
  control_set_paths hive root n = Some ps ->
  exists f, set_fields hive root n f /\ Forall2 (denotes hive root) ps (handles f) /\
    Forall (fun p => (length p < 160)%nat) ps /\ length ps = 3%nat.
Proof.
  unfold control_set_paths. intros Hp. opt_inv Hp. subst ps. breflect.
  repeat match goal with
  | H : hostname_child_ci _ _ _ = _ |- _ => apply hostname_child_iff in H
  | H : hostname_value_ci _ _ _ = _ |- _ => apply hostname_value_iff in H
  end.
  repeat match goal with
  | H : reged_path _ = Some _ |- _ =>
      eapply reged_path_ok in H; [destruct H as [? ?]|by eapply child_is_has..|by eapply value_is_has]
  end.
  match goal with N : value_is hive ?tcp (bs "NV Hostname") ?nv ?s1, O : value_is hive ?tcp (bs "Hostname") ?hn ?s2,
    C : value_is hive ?comp (bs "ComputerName") ?cn ?s3, S : child_is hive root _ ?cs _ |- _ =>
    exists {| f_nv := nv; f_hn := hn; f_cn := cn |}; split; [exists cs, tcp, comp, s1, s2, s3|] end.
  - split_and!; try done; [by eexists _, _|by repeat (eexists _, _; split; [done|])..|].
    unfold handles. by rewrite !Forall_cons.
  - split_and!; [by repeat constructor| |done]. by rewrite !Forall_cons.
Qed.

Lemma write_paths_loop_ok hive root sets acc paths :
  write_paths_loop hive root sets acc = Some paths ->
  exists new fs, paths = acc ++ new /\ Forall2 (set_fields hive root) sets fs /\
    Forall2 (denotes hive root) new (flat_map handles fs) /\
    Forall (fun p => (length p < 160)%nat) new /\ (sets <> [] -> (length paths <= 6)%nat).
Proof.
  revert acc. induction sets as [|n sets IH]; intros acc Hp; simpl in Hp.
  { apply Some_eq in Hp. subst. exists [], []. rewrite app_nil_r. by split_and!. }
  opt_inv Hp. breflect. match goal with H : control_set_paths _ _ _ = _ |- _ =>
    apply control_set_paths_ok in H as (f & Hf & Hd & Hl & H3) end.
  match goal with H : write_paths_loop _ _ _ _ = Some _ |- _ => pose proof H as Hw;
    apply IH in H as (new & fs & -> & Hs & Hds & Hls & Hle) end.
  eexists (_ ++ new), (f :: fs). rewrite app_assoc. split_and!; [done|by constructor| | |].
  - change (flat_map handles (f :: fs)) with (handles f ++ flat_map handles fs). by apply Forall2_app.
  - by apply Forall_app.
  - intros _. destruct sets as [|m sets].
    + simpl in Hw. apply Some_eq in Hw. rewrite <- Hw, length_app. lia.
    + by apply Hle.
Qed.

(** Two hives with the same keys and value names. *)
Definition same_tree hive hive' : Prop :=
  hivex_root hive' = hivex_root hive /\
  (forall n, hivex_node_children hive' n = hivex_node_children hive n) /\
  (forall n, hivex_node_name hive' n = hivex_node_name hive n) /\
  (forall n, hivex_node_values hive' n = hivex_node_values hive n) /\
  (forall v, hivex_value_key hive' v = hivex_value_key hive v).

Lemma ci_scan_ext f g e items found :
  (forall i, f i = g i) -> ci_scan f e items found = ci_scan g e items found.
Proof.
  intros E. revert found. induction items as [|i items IH]; intros found; simpl; [done|].
  rewrite E. repeat case_match; done || apply IH.
Qed.

Lemma same_tree_child hive hive' p e :
  same_tree hive hive' -> hostname_child_ci hive' p e = hostname_child_ci hive p e.
Proof.
  intros (_ & Ec & En & _). unfold hostname_child_ci. rewrite Ec.
  destruct (hivex_node_children hive p); simpl; [|done]. by rewrite (ci_scan_ext _ _ _ _ _ En).
Qed.

Lemma same_tree_value hive hive' p e :
  same_tree hive hive' -> hostname_value_ci hive' p e = hostname_value_ci hive p e.
Proof.
  intros (_ & _ & _ & Ev & Ek). unfold hostname_value_ci. rewrite Ev.
  destruct (hivex_node_values hive p); simpl; [|done]. by rewrite (ci_scan_ext _ _ _ _ _ Ek).
Qed.

Lemma same_tree_child_is hive hive' p e n s :
  same_tree hive hive' -> child_is hive p e n s -> child_is hive' p e n s.
Proof. intros Ht Hc. apply hostname_child_iff in Hc. apply hostname_child_iff. by rewrite (same_tree_child hive). Qed.

Lemma same_tree_value_is hive hive' p e n s :
  same_tree hive hive' -> value_is hive p e n s -> value_is hive' p e n s.
Proof. intros Ht Hc. apply hostname_value_iff in Hc. apply hostname_value_iff. by rewrite (same_tree_value hive). Qed.

Lemma same_tree_path hive hive' cs parts n :
  same_tree hive hive' -> path_is hive cs parts n -> path_is hive' cs parts n.
Proof.
  intros Ht. revert cs. induction parts as [|p parts IH]; intros cs; simpl; [done|].
  intros (m & nm & Hc & Hp). exists m, nm. split; [by eapply same_tree_child_is|by apply IH].
Qed.

(** The numbers in Select do not change with the host name. *)
Lemma same_selected hive hive' root vs :
  same_tree hive hive' -> Forall (fun v => is_string_value hive v = true) vs ->
  (forall v, v ∉ vs -> hivex_value_value hive' v = hivex_value_value hive v) ->
  forall sets, selected_hostname_control_sets hive root = Some sets ->
  selected_hostname_control_sets hive' root = Some sets.
Proof.
  intros Ht Hs Hv sets.
  assert (Hd : forall s k n, hostname_dword hive s k = Some n -> hostname_dword hive' s k = Some n).
  { unfold hostname_dword. intros s k n. rewrite (same_tree_value hive hive') by done.
    destruct (hostname_value_ci hive s k) as [[v nm]|]; simpl; [|done].
    destruct (hivex_value_value hive v) as [[ty data]|] eqn:E; simpl; [|done].
    destruct (bool_decide (ty = hive_t_dword)) eqn:Ety; simpl; [|done]. breflect. subst ty.
    rewrite Hv, E; [done|]. intros Hin. rewrite Forall_forall in Hs. apply Hs in Hin.
    unfold is_string_value in Hin. by rewrite E in Hin. }
  unfold selected_hostname_control_sets. rewrite (same_tree_child hive hive') by done. intros Hsel.
  apply bind_Some in Hsel as ([s nm] & -> & Hsel). simpl.
  apply bind_Some in Hsel as (cur & Hc & Hsel). apply bind_Some in Hsel as (fb & Hf & Hsel).
  rewrite (Hd _ _ _ Hc). simpl. rewrite (Hd _ _ _ Hf). simpl.
  erewrite forallb_ext; [exact Hsel|]. intros n. cbv beta. destruct (control_set_name n); [|done].
  by rewrite (same_tree_child hive hive').
Qed.

Lemma fields_give_name hive hive' root n f h :
  same_tree hive hive' -> set_fields hive root n f ->
  Forall (fun v => hivex_value_value hive' v = Some (hive_t_string, utf16z h)) (handles f) ->
  exists cs, control_set_is hive' root n cs /\ set_has_name hive' cs h.
Proof.
  intros Ht (cs & tcp & comp & s1 & s2 & s3 & (name & nm & Hn & Hc) & Hp1 & Hp2 & V1 & V2 & V3 & _) Hv.
  unfold handles in Hv. rewrite !Forall_cons in Hv. destruct Hv as (W1 & W2 & W3 & _).
  exists cs. split; [exists name, nm; split; [done|by eapply same_tree_child_is]|].
  exists tcp, comp. split_and!; [by eapply same_tree_path..| | |]; eexists _, _; (split; [by eapply same_tree_value_is|done]).
Qed.

(** C39: The paths are enough: when [windows-hostname-write-paths] exits with
    0 it has printed at most six paths of fewer than 160 bytes, each naming
    one value of the hive; and if a writer stores a valid host name as
    UTF-16LE string in exactly those values and changes nothing else, then
    [windows-hostname-verify] of that name exits with 0 on the result. *)
Theorem write_paths_suffice prog system hive root paths :
  hivex_open system = Some hive -> hivex_root hive = Some root ->
  offline_main [prog; bs "windows-hostname-write-paths"; system] = (0, paths) ->
  (length paths <= 6)%nat /\ Forall (fun p => (length p < 160)%nat) paths /\
  exists vs, Forall2 (denotes hive root) paths vs /\
  forall system' hive' h, regular system' = true -> hivex_open system' = Some hive' ->
    same_tree hive hive' -> valid_windows_hostname h = true ->
    (forall v, v ∈ vs -> hivex_value_value hive' v = Some (hive_t_string, utf16z h)) ->
    (forall v, v ∉ vs -> hivex_value_value hive' v = hivex_value_value hive v) ->
    fst (offline_main [prog; bs "windows-hostname-verify"; system'; h]) = 0.
Proof.
  intros Ho Hr Hm. simpl in Hm.
  destruct (windows_hostname_write_paths system) as [out|] eqn:E; [|done]. injection Hm as ->.
  unfold windows_hostname_write_paths in E. destruct (regular system); [|done]. simpl in E.
  rewrite Ho in E. simpl in E. rewrite Hr in E. simpl in E.
  destruct (selected_hostname_control_sets hive root) as [sets|] eqn:Es; [|done]. simpl in E.
  apply write_paths_loop_ok in E as (new & fs & -> & Hf & Hd & Hl & Hle). cbn [app] in *.
  destruct (selected_range hive root sets Es) as (Hlen & Hrange & _).
  split; [apply Hle; by intros ->; simpl in Hlen; lia|]. split; [done|].
  exists (flat_map handles fs). split; [done|]. intros system' hive' h Hreg Ho' Ht Hv Hin Hout.
  apply verify_iff. split; [done|]. split; [done|]. exists hive', root, sets.
  split; [done|]. split; [by destruct Ht as [-> _]|]. split.
  { eapply same_selected; [done| |done|done]. apply Forall_forall. intros v Hvin.
    apply list_elem_of_In, in_flat_map in Hvin as (f & Hfin & Hvf).
    apply list_elem_of_In in Hfin. apply list_elem_of_In in Hvf.
    apply list_elem_of_lookup in Hfin as [i Hi].
    destruct (Forall2_lookup_r _ _ _ _ _ Hf Hi) as (n & _ & Hsf).
    destruct Hsf as (? & ? & ? & ? & ? & ? & _ & _ & _ & _ & _ & _ & Hstr).
    rewrite Forall_forall in Hstr. by apply Hstr. }
  split; [done|]. split; [done|].
  apply Forall_forall. intros n Hn. apply list_elem_of_lookup in Hn as [i Hi].
  destruct (Forall2_lookup_l _ _ _ _ _ Hf Hi) as (f & Hfi & Hsf).
  eapply fields_give_name; [done|done|]. apply Forall_forall. intros v Hvf. apply Hin.
  apply list_elem_of_In, in_flat_map. exists f. split; apply list_elem_of_In; [|done].
  by eapply list_elem_of_lookup_2.
Qed.
End OfflineSpec.

(** ** A concrete hive

    One control set, number 1.  Nodes: 1 root, 2 Select, 3 ControlSet001,
    4 Services, 5 Tcpip, 6 Parameters, 7 Control, 8 and 9 ComputerName.
    Values: 20 Current, 21 Default, 22 Hostname, 23 NV Hostname,
    24 ComputerName. *)
Module ToyHive.
Inductive hive := Hive (name : list Z).

Definition children (n : Z) : list Z :=
  if n =? 1 then [2; 3] else if n =? 3 then [4; 7] else if n =? 4 then [5] else if n =? 5 then [6]
  else if n =? 7 then [8] else if n =? 8 then [9] else [].

Definition node_name (n : Z) : list Z :=
  if n =? 2 then bs "Select" else if n =? 3 then bs "ControlSet001" else if n =? 4 then bs "services"
  else if n =? 5 then bs "Tcpip" else if n =? 6 then bs "PARAMETERS" else if n =? 7 then bs "Control"
  else bs "ComputerName".

Definition values (n : Z) : list Z :=
  if n =? 2 then [20; 21] else if n =? 6 then [22; 23] else if n =? 9 then [24] else [].

Definition key (v : Z) : list Z :=
  if v =? 20 then bs "Current" else if v =? 21 then bs "Default" else if v =? 22 then bs "HostName"
  else if v =? 23 then bs "NV HostName" else bs "ComputerName".

#[global] Instance hivex : Hivex hive := {
  regular _ := true;
  hivex_open system := Some (Hive system);
  hivex_root _ := Some 1;
  hivex_node_children _ n := Some (children n);
  hivex_node_name _ n := Some (node_name n);
  hivex_node_values _ n := Some (values n);
  hivex_value_key _ v := Some (key v);
  hivex_value_value h v :=
    if v <? 22 then Some (hive_t_dword, [1; 0; 0; 0])
    else match h with Hive name => Some (hive_t_string, utf16z name) end
}.
End ToyHive.

(** A hive is named after the host name it stores. *)
Lemma write_paths_suffice_witness :
  exists paths, offline_main [bs "p"; bs "windows-hostname-write-paths"; bs "OLD"] = (0, paths) /\
    (length paths <= 6)%nat.
Proof.
  eexists. split; [reflexivity|].
  refine (proj1 (write_paths_suffice (bs "p") (bs "OLD") (ToyHive.Hive (bs "OLD")) 1 _ _ _ _));
    reflexivity.
Defined.

Example toy_verify :
  fst (offline_main [bs "p"; bs "windows-hostname-verify"; bs "PC-7"; bs "PC-7"]) = 0 /\
  fst (offline_main [bs "p"; bs "windows-hostname-verify"; bs "PC-8"; bs "PC-7"]) = 1.
Proof. split; reflexivity. Qed.
