(* ===== verification/RtlBase.v ===== *)
(** * Register access of the Realtek drivers: the shared base

    The Ethernet drivers under src/KernelPackages/drivers/net/ethernet/realtek
    keep their state in a private structure and act on the controller through
    memory-mapped registers.  This file has the monad the driver functions are
    written in, the interface of the controller ([Mmio], what readb, writel and
    the configuration-space accessors do, a parameter of every definition), the
    fields of [struct rtl8125_private] the modelled code uses, the bounded
    polling loop all channels share, and the symbolic execution rules.

    Delays ([udelay], [fsleep]) and log messages have no effect on the model's
    state and are left out; a parameter of a narrower C type is truncated at
    the entry of the function that declares it. *)
From S2P Require Import Prelude.
Local Open Scope Z_scope.

(** ** A state monad

    Driver functions always return, so a computation is a total function from
    the state to a value and the state after it. *)

Definition St (S A : Type) : Type := S -> A * S.

Definition sret {S A} (a : A) : St S A := fun s => (a, s).

Definition sbind {S A B} (m : St S A) (k : A -> St S B) : St S B := fun s =>
  let '(a, s') := m s in k a s'.

Definition sgets {S A} (f : S -> A) : St S A := fun s => (f s, s).

Definition smodify {S} (f : S -> S) : St S unit := fun s => (tt, f s).

Declare Scope rtl_scope.
Delimit Scope rtl_scope with rtl.
Notation "x <- m ;; k" := (sbind m (fun x => k))
  (at level 100, m at next level, right associativity) : rtl_scope.
Notation "m ;;; k" := (sbind m (fun _ => k))
  (at level 100, right associativity) : rtl_scope.
Local Open Scope rtl_scope.

(** [if (c) m], with no [else]. *)
Definition swhen {S} (b : bool) (m : St S unit) : St S unit := if b then m else sret tt.

(** [for (i = 0; i < n; i++) if (c) break;]: the test [c] is run at most [n]
    times; the value says whether the loop was left by the [break]. *)
Fixpoint poll {S} (n : nat) (c : St S bool) : St S bool :=
  match n with
  | O => sret false
  | S n' => b <- c ;; if b then sret true else poll n' c
  end.

(** A loop over known indices. *)
Fixpoint sfor {S A} (l : list A) (f : A -> St S unit) : St S unit :=
  match l with
  | [] => sret tt
  | x :: l' => f x ;;; sfor l' f
  end.

(** C's truth value of an integer, and a mask test [x & m]. *)
Definition tst (x : Z) : bool := negb (x =? 0).
Definition has (x m : Z) : bool := tst (Z.land x m).

(** [x &= ~clear; x |= set], before the truncation of the assignment. *)
Definition clear_set (x clearmask setmask : Z) : Z :=
  Z.lor (Z.land x (Z.lnot clearmask)) setmask.

Definition BIT (n : Z) : Z := Z.shiftl 1 n.

(** The little-endian 32-bit word at an offset. *)
Definition le32_to_cpu (b : list Z) (off : nat) : Z :=
  Z.lor (at_ b off)
    (Z.lor (Z.shiftl (at_ b (off + 1)) 8)
       (Z.lor (Z.shiftl (at_ b (off + 2)) 16) (Z.shiftl (at_ b (off + 3)) 24))).

(** ** The controller *)

(** What the code uses of the hardware and of the kernel's accessors to it:
    reads may change the controller (status registers, counters), writes do. *)
Class Mmio (D : Type) := {
  readb : Z -> D -> Z * D;
  readw : Z -> D -> Z * D;
  readl : Z -> D -> Z * D;
  writeb : Z -> Z -> D -> D;
  writew : Z -> Z -> D -> D;
  writel : Z -> Z -> D -> D;
  pci_read_config : Z -> Z -> D -> Z * D;
  pci_write_config : Z -> Z -> Z -> D -> D
}.

(** ** The private structure

    The fields of [struct rtl8125_private] the modelled functions use, grouped
    by the component that changes them; [hw_info] is fixed after probing.
    [netdev_rxhash] is [dev->features & NETIF_F_RXHASH], [timer_count] the
    module parameter and [pci_resource_len2] the length of the register BAR. *)

Record hw_info := MkHw {
  mcfg : Z;
  AllowAccessDashOcp : Z;
  HwSuppOcpChannelVer : Z;
  HwSuppDashVer : Z;
  DASH : Z;
  HwSuppCheckPhyDisableModeVer : Z;
  HwSuppIsrVer : Z;
  HwCurrIsrVer : Z;
  HwSuppIntMitiVer : Z;
  intr_mask : Z;
  timer_intr_mask : Z;
  use_timer_interrupt : Z;
  timer_count : Z;
  num_tx_rings : Z;
  num_rx_rings : Z;
  HwSuppNumRxQueues : Z;
  isr_reg : list Z;
  imr_reg : list Z;
  EnableRss : Z;
  HwSuppIndirTblEntries : Z;
  InitRxDescType : Z;
  netdev_rxhash : Z;
  pci_resource_len2 : Z
}.

Record ocp_state := MkOcp { cur_page : Z; ocp_base : Z; rtk_enable_diag : Z }.

Record eeprom_state := MkEeprom { eeprom_type : Z; eeprom_len : Z }.

Record fiber_state := MkFiber { HwFiberModeVer : Z; HwFiberStat : Z }.

Record rss_state := MkRss { rss_flags : Z; rss_key : list Z; rss_indir_tbl : list Z }.

(** What [rtl8125_init_software_variable] finds out about the chip beyond
    [hw_info], and the module parameters; fixed after probing. *)
Record hw_features := MkFeat {
  HwIcVerUnknown : Z;
  HwSuppMaxPhyLinkSpeed : Z;
  HwSuppMagicPktVer : Z;
  HwSuppLinkChgWakeUpVer : Z;
  HwSuppD0SpeedUpVer : Z;
  HwSuppExtendTallyCounterVer : Z;
  HwSuppNowIsOobVer : Z;
  HwSuppMacMcuVer : Z;
  MacMcuPageSize : Z;
  HwSuppTcamVer : Z;
  HwSuppEsdVer : Z;
  HwSuppRxDescType : Z;
  HwPcieSNOffset : Z;
  TestPhyOcpReg : Z;
  RequiredPfmPatch : Z;
  RequirePhyMdiSwapPatch : Z;
  NotWrRamCodeToMicroP : Z;
  NotWrMcuPatchCode : Z;
  sw_ram_code_ver : Z;
  org_pci_offset_99 : Z;
  org_pci_offset_180 : Z;
  EnableTxNoClose : Z;
  irq_nvecs : Z;
  RTL_FEATURE_MSIX_on : bool;
  pm_cap : Z;
  tally_paddr : Z;
  rx_config_base : Z;
  RxConfigMask : Z;
  aspm : Z;
  eee_giga_lite : Z;
  disable_wol_support : Z;
  s0_magic_packet : Z;
  hwoptimize : Z;
  enable_double_vlan : Z;
  timer_count_v2 : Z
}.

(** The link settings, what the PHY was told to advertise and what the link
    partner answered, wake-up, energy efficient Ethernet, the microcode
    versions, and the kernel's view of the interface. *)
Record speed_state := MkSpeed {
  autoneg : Z; speed : Z; duplex : Z; advertising : Z; fcpause : Z; D0SpeedUpSpeed : Z
}.

Record nego_state := MkNego {
  phy_auto_nego_reg : Z; phy_1000_ctrl_reg : Z; phy_2500_ctrl_reg : Z;
  phy_reg_aner : Z; phy_reg_anlpar : Z; phy_reg_gbsr : Z; phy_reg_status_2500 : Z
}.

Record wol_state := MkWol {
  wol_opts : Z; wol_enabled : Z; resume_not_chg_speed : Z; check_keep_link_speed : Z
}.

Record eee_state := MkEee {
  eee_supported : Z; eee_advertised : Z; eee_enabled : Z; tx_lpi_timer : Z
}.

Record mcu_state := MkMcu {
  HwHasWrRamCodeToMicroP : Z; hw_ram_code_ver : Z; hw_mcu_patch_code_ver : Z; bin_mcu_patch_code_ver : Z
}.

Record net_state := MkNet {
  netif_running : bool; netif_carrier_ok : bool; tx_queues_on : bool;
  mtu : Z; rms : Z; cp_cmd : Z; rtl8125_rx_config : Z
}.

(** What is saved to be restored: LED and fuse registers, the configuration
    space (in the order it is read), and the addresses. *)
Record bak_state := MkBak {
  BackupLedSel : list Z; BackupPhyFuseDout : list Z; pci_cfg_space : list Z; pci_cfg_is_read : Z;
  esd_flag : Z; dev_addr : list Z; org_mac_addr : list Z; random_mac : Z
}.

Record drv_state := MkDrv {
  spd : speed_state; nego : nego_state; wol : wol_state; eee : eee_state;
  mcu : mcu_state; net : net_state; bak : bak_state
}.

Record nic (D : Type) := MkNic {
  hw : hw_info;
  feat : hw_features;
  ocp : ocp_state;
  eeprom : eeprom_state;
  fiber : fiber_state;
  rss : rss_state;
  drv : drv_state;
  dev : D
}.

Arguments MkNic {D}.
Arguments hw {D}.
Arguments feat {D}.
Arguments ocp {D}.
Arguments eeprom {D}.
Arguments fiber {D}.
Arguments rss {D}.
Arguments drv {D}.
Arguments dev {D}.

Coercion hw : nic >-> hw_info.
Coercion feat : nic >-> hw_features.
Coercion ocp : nic >-> ocp_state.
Coercion eeprom : nic >-> eeprom_state.
Coercion fiber : nic >-> fiber_state.
Coercion rss : nic >-> rss_state.
Coercion drv : nic >-> drv_state.
Coercion spd : drv_state >-> speed_state.
Coercion nego : drv_state >-> nego_state.
Coercion wol : drv_state >-> wol_state.
Coercion eee : drv_state >-> eee_state.
Coercion mcu : drv_state >-> mcu_state.
Coercion net : drv_state >-> net_state.
Coercion bak : drv_state >-> bak_state.

Section Nic.
Context {D : Type}.

Definition set_dev (v : D) (s : nic D) :=
  MkNic (hw s) (feat s) (ocp s) (eeprom s) (fiber s) (rss s) (drv s) v.

Definition set_hw (v : hw_info) (s : nic D) :=
  MkNic v (feat s) (ocp s) (eeprom s) (fiber s) (rss s) (drv s) (dev s).

Definition set_feat (v : hw_features) (s : nic D) :=
  MkNic (hw s) v (ocp s) (eeprom s) (fiber s) (rss s) (drv s) (dev s).

Definition set_ocp (v : ocp_state) (s : nic D) :=
  MkNic (hw s) (feat s) v (eeprom s) (fiber s) (rss s) (drv s) (dev s).

Definition set_eeprom (v : eeprom_state) (s : nic D) :=
  MkNic (hw s) (feat s) (ocp s) v (fiber s) (rss s) (drv s) (dev s).

Definition set_fiber (v : fiber_state) (s : nic D) :=
  MkNic (hw s) (feat s) (ocp s) (eeprom s) v (rss s) (drv s) (dev s).

Definition set_rss (v : rss_state) (s : nic D) :=
  MkNic (hw s) (feat s) (ocp s) (eeprom s) (fiber s) v (drv s) (dev s).

Definition set_drv (v : drv_state) (s : nic D) :=
  MkNic (hw s) (feat s) (ocp s) (eeprom s) (fiber s) (rss s) v (dev s).

Definition set_cur_page v s := set_ocp (MkOcp v (ocp_base (ocp s)) (rtk_enable_diag (ocp s))) s.
Definition set_ocp_base v s := set_ocp (MkOcp (cur_page (ocp s)) v (rtk_enable_diag (ocp s))) s.
Definition set_rtk_enable_diag v s := set_ocp (MkOcp (cur_page (ocp s)) (ocp_base (ocp s)) v) s.

Definition set_spd (v : speed_state) (s : nic D) := set_drv (MkDrv v (nego s) (wol s) (eee s) (mcu s) (net s) (bak s)) s.
Definition set_nego (v : nego_state) (s : nic D) := set_drv (MkDrv (spd s) v (wol s) (eee s) (mcu s) (net s) (bak s)) s.
Definition set_wol (v : wol_state) (s : nic D) := set_drv (MkDrv (spd s) (nego s) v (eee s) (mcu s) (net s) (bak s)) s.
Definition set_eee (v : eee_state) (s : nic D) := set_drv (MkDrv (spd s) (nego s) (wol s) v (mcu s) (net s) (bak s)) s.
Definition set_mcu (v : mcu_state) (s : nic D) := set_drv (MkDrv (spd s) (nego s) (wol s) (eee s) v (net s) (bak s)) s.
Definition set_net (v : net_state) (s : nic D) := set_drv (MkDrv (spd s) (nego s) (wol s) (eee s) (mcu s) v (bak s)) s.
Definition set_bak (v : bak_state) (s : nic D) :=
  set_drv (MkDrv (spd s) (nego s) (wol s) (eee s) (mcu s) (net s) v) s.

(** [tp->field] *)
Definition tp_get {A} (f : nic D -> A) : St (nic D) A := sgets f.

(** ** The register macros *)

Context {HM : Mmio D}.

Definition on_dev {A} (f : D -> A * D) : St (nic D) A := fun s =>
  let '(a, d) := f (dev s) in (a, set_dev d s).

Definition on_dev_ (f : D -> D) : St (nic D) unit := fun s => (tt, set_dev (f (dev s)) s).

Definition RTL_R8 (reg : Z) : St (nic D) Z := on_dev (fun d => let '(v, d') := readb reg d in (u8 v, d')).
Definition RTL_R16 (reg : Z) : St (nic D) Z := on_dev (fun d => let '(v, d') := readw reg d in (u16 v, d')).
Definition RTL_R32 (reg : Z) : St (nic D) Z := on_dev (fun d => let '(v, d') := readl reg d in (u32 v, d')).
Definition RTL_W8 (reg v : Z) : St (nic D) unit := on_dev_ (writeb reg (u8 v)).
Definition RTL_W16 (reg v : Z) : St (nic D) unit := on_dev_ (writew reg (u16 v)).
Definition RTL_W32 (reg v : Z) : St (nic D) unit := on_dev_ (writel reg (u32 v)).

End Nic.

(** ** Symbolic execution *)

(** [Q] of the value and the state [m] ends with. *)
Definition swp {S A} (m : St S A) (Q : A -> S -> Prop) (s : S) : Prop :=
  let '(a, s') := m s in Q a s'.

Section Swp.
Context {S : Type}.

Lemma swp_ret {A} (a : A) Q (s : S) : Q a s -> swp (sret a) Q s.
Proof. done. Qed.

Lemma swp_bind {A B} (m : St S A) (k : A -> St S B) Q s :
  swp m (fun a s' => swp (k a) Q s') s -> swp (sbind m k) Q s.
Proof. unfold swp, sbind. by destruct (m s). Qed.

Lemma swp_gets {A} (f : S -> A) Q s : Q (f s) s -> swp (sgets f) Q s.
Proof. done. Qed.

Lemma swp_modify (f : S -> S) Q s : Q tt (f s) -> swp (smodify f) Q s.
Proof. done. Qed.

Lemma swp_mono {A} (m : St S A) (Q Q' : A -> S -> Prop) s :
  (forall a s', Q a s' -> Q' a s') -> swp m Q s -> swp m Q' s.
Proof. unfold swp. intros. destruct (m s). auto. Qed.

Lemma swp_if {A} (b : bool) (m1 m2 : St S A) Q s :
  (b = true -> swp m1 Q s) -> (b = false -> swp m2 Q s) -> swp (if b then m1 else m2) Q s.
Proof. destruct b; auto. Qed.

Lemma swp_when (b : bool) m Q (s : S) :
  (b = true -> swp m Q s) -> (b = false -> Q tt s) -> swp (swhen b m) Q s.
Proof. intros Ht Hf. destruct b; [by apply Ht|by apply Hf]. Qed.

(** Whatever [m] gives, the rest is fine. *)
Lemma swp_bind_any {A B} (m : St S A) (k : A -> St S B) Q s :
  (forall a s', swp (k a) Q s') -> swp (sbind m k) Q s.
Proof. intros Hk. apply swp_bind. unfold swp at 1. destruct (m s). apply Hk. Qed.

Lemma swp_run {A} (m : St S A) (Q : A -> S -> Prop) s a s' : swp m Q s -> m s = (a, s') -> Q a s'.
Proof. unfold swp. intros H E. by rewrite E in H. Qed.

Lemma swp_eq {A} (m : St S A) s a s' : swp m (fun x t => x = a /\ t = s') s -> m s = (a, s').
Proof. unfold swp. destruct (m s). intros [-> ->]. done. Qed.

(** A property the body of a loop keeps is kept by the loop. *)
Lemma swp_for {A} (l : list A) f (I : S -> Prop) s :
  I s -> (forall x t, x ∈ l -> I t -> swp (f x) (fun _ => I) t) -> swp (sfor l f) (fun _ => I) s.
Proof.
  revert s. induction l as [|x l IH]; intros s Hs Hf; simpl; [done|].
  apply swp_bind. eapply swp_mono; [|apply Hf; [left|done]].
  intros ? t Ht. apply IH; [done|]. intros y u Hy. apply Hf. by right.
Qed.

Lemma swp_poll n (c : St S bool) (I : S -> Prop) s :
  I s -> (forall t, I t -> swp c (fun _ => I) t) -> swp (poll n c) (fun _ => I) s.
Proof.
  revert s. induction n as [|n IH]; intros s Hs Hc; simpl; [done|].
  apply swp_bind. eapply swp_mono; [|by apply Hc]. intros [] t Ht; [by apply swp_ret|by apply IH].
Qed.
End Swp.

Ltac swp_step :=
  lazymatch goal with
  | |- swp (sbind _ _) _ _ => apply swp_bind
  | |- swp (sret _) _ _ => apply swp_ret
  | |- swp (sgets _) _ _ => apply swp_gets
  | |- swp (tp_get _) _ _ => apply swp_gets
  | |- swp (smodify _) _ _ => apply swp_modify
  | |- swp (swhen _ _) _ _ => apply swp_when; intros ?
  | |- swp (if _ then _ else _) _ _ => apply swp_if; intros ?
  end; cbv beta.

(** Turn a goal about the result of the run [E] into symbolic execution. *)
Ltac swp_start E :=
  lazymatch type of E with
  | _ = (?a, ?s') => pattern a, s'; eapply swp_run; [clear E|exact E]
  end; cbv beta.

(** Drop the truncations of values that are in range. *)
Ltac wrap_simpl :=
  repeat match goal with |- context [wrap ?w ?z] => rewrite (wrap_small w z) by lia end.

(** ** Truth and masks *)

Lemma tst_true x : tst x = true <-> x <> 0.
Proof. unfold tst. rewrite negb_true_iff, Z.eqb_neq. done. Qed.

Lemma tst_false x : tst x = false <-> x = 0.
Proof. unfold tst. rewrite negb_false_iff, Z.eqb_eq. done. Qed.

(** A test of one bit. *)
Lemma has_bit x n : 0 <= n -> has x (2 ^ n) = Z.testbit x n.
Proof.
  intros Hn. unfold has. destruct (Z.testbit x n) eqn:E.
  - apply tst_true. intros H0. apply (f_equal (fun z => Z.testbit z n)) in H0.
    rewrite Z.land_spec, Z.pow2_bits_true, E, Z.bits_0 in H0 by done. done.
  - apply tst_false. apply Z.bits_inj'. intros i Hi.
    rewrite Z.land_spec, Z.bits_0. destruct (decide (i = n)) as [->|]; [by rewrite E|].
    rewrite Z.pow2_bits_false by lia. apply andb_false_r.
Qed.

Lemma clear_set_testbit x c m i : 0 <= i ->
  Z.testbit (clear_set x c m) i = Z.testbit x i && negb (Z.testbit c i) || Z.testbit m i.
Proof. intros. unfold clear_set. bits_rw. done. Qed.
