(* ===== verification/RtlHw.v ===== *)
(** * r8125: PHY, MAC, EPHY, CSI and ERI register channels

    The indirect register channels of src/.../realtek/r8125/r8125_n.c, lines
    3260 to 4320: PHY registers over the PHYOCP channel with the page logic of
    [mdio_real_write], MAC OCP registers, the PCIe PHY (EPHY), configuration
    space through CSI, the byte-granular ERI and OOB windows, the DASH mailbox
    and mutex, and the requests that stop the transmit and receive engines.

    The configuration is the Makefile's: ENABLE_DASH_SUPPORT and
    ENABLE_LIB_SUPPORT are not defined. *)
From S2P Require Import Prelude RtlBase.
Local Open Scope Z_scope.
Local Open Scope rtl_scope.

(** ** Registers and their fields (r8125.h) *)

Definition OCPR_Write : Z := 0x80000000.
Definition OCPR_Addr_Reg_shift : Z := 16.
Definition OCPR_Flag : Z := 0x80000000.
Definition OCPDR_Data_Mask : Z := 0xFFFF.
Definition OCP_STD_PHY_BASE_PAGE : Z := 0x0A40.
Definition PHYOCP : Z := 0xB8.
Definition MACOCP : Z := 0xB0.
Definition EPHYAR : Z := 0x80.
Definition EPHYAR_Flag : Z := 0x80000000.
Definition EPHYAR_Write : Z := 0x80000000.
Definition EPHYAR_Read : Z := 0.
Definition EPHYAR_Reg_Mask_v2 : Z := 0x7f.
Definition EPHYAR_Reg_shift : Z := 16.
Definition EPHYAR_Data_Mask : Z := 0xffff.
Definition CSIDR : Z := 0x64.
Definition CSIAR : Z := 0x68.
Definition CSIAR_Flag : Z := 0x80000000.
Definition CSIAR_Write : Z := 0x80000000.
Definition CSIAR_Read : Z := 0.
Definition CSIAR_ByteEn : Z := 0x0f.
Definition CSIAR_ByteEn_shift : Z := 12.
Definition CSIAR_Addr_Mask : Z := 0x0fff.
Definition ERIDR : Z := 0x70.
Definition ERIAR : Z := 0x74.
Definition ERIAR_Flag : Z := 0x80000000.
Definition ERIAR_Write : Z := 0x80000000.
Definition ERIAR_Read : Z := 0.
Definition ERIAR_Addr_Align : Z := 4.
Definition ERIAR_ExGMAC : Z := 0.
Definition ERIAR_OOB : Z := 2.
Definition ERIAR_Type_shift : Z := 16.
Definition ERIAR_ByteEn : Z := 0x0f.
Definition ERIAR_ByteEn_shift : Z := 12.
Definition NO_BASE_ADDRESS : Z := 0.
Definition ChipCmd : Z := 0x37.
Definition StopReq : Z := 0x80.
Definition CmdReset : Z := 0x10.
Definition CmdRxEnb : Z := 0x08.
Definition CmdTxEnb : Z := 0x04.
Definition MCUCmd_reg : Z := 0xD3.
Definition Txfifo_empty : Z := BIT 5.
Definition Rxfifo_empty : Z := BIT 4.
Definition IntrMitigate : Z := 0xE2.
Definition OCP_REG_FIRMWARE_MAJOR_VERSION : Z := 0x120.
Definition IB2SOC_SET : Z := 0x10.
Definition IB2SOC_DATA : Z := 0x14.
Definition IB2SOC_CMD : Z := 0x18.
Definition OOB_CMD_DRIVER_START : Z := 5.
Definition OOB_CMD_DRIVER_STOP : Z := 6.
Definition CFG_METHOD_DEFAULT : Z := 13.

Definition R8125_CHANNEL_WAIT_COUNT : nat := Z.to_nat 20000.

(** The DASH support macros of r8125_dash.h. *)
Definition HW_DASH_SUPPORT_DASH (h : hw_info) : bool := HwSuppDashVer h >? 0.
Definition HW_DASH_SUPPORT_CMAC (h : hw_info) : bool :=
  (HwSuppDashVer h =? 2) || (HwSuppDashVer h =? 3).
Definition HW_DASH_SUPPORT_IPC2 (h : hw_info) : bool := HwSuppDashVer h =? 4.
Definition HW_DASH_SUPPORT_GET_FIRMWARE_VERSION (h : hw_info) : bool :=
  (HwSuppDashVer h =? 2) || (HwSuppDashVer h =? 3) || (HwSuppDashVer h =? 4).

(** ** PHY registers *)

Definition map_phy_ocp_addr (PageNum RegNum : Z) : Z :=
  let PageNum := u16 PageNum in
  let RegNum := u8 RegNum in
  let '(OcpPageNum, OcpRegNum) :=
    if PageNum =? 0
    then (u16 (OCP_STD_PHY_BASE_PAGE + RegNum / 8), u8 (0x10 + RegNum mod 8))
    else (PageNum, RegNum) in
  let OcpPageNum := u16 (Z.shiftl OcpPageNum 4) in
  if OcpRegNum <? 16 then 0
  else
    let OcpRegNum := u8 (OcpRegNum - 16) in
    let OcpRegNum := u8 (Z.shiftl OcpRegNum 1) in
    u16 (OcpPageNum + OcpRegNum).

Section Channels.
Context {D : Type} `{HM : Mmio D}.
Abbreviation ST := (St (nic D)).

(** The test of a poll loop: the register has the flag, or no longer has it. *)
Definition flag_set (reg flag : Z) : ST bool := v <- RTL_R32 reg ;; sret (has v flag).
Definition flag_clear (reg flag : Z) : ST bool := v <- RTL_R32 reg ;; sret (negb (has v flag)).

Definition mdio_real_direct_write_phy_ocp (RegAddr value : Z) : ST unit :=
  let RegAddr := u16 RegAddr in
  let value := u16 value in
  let data32 := u32 (Z.shiftl (RegAddr / 2) OCPR_Addr_Reg_shift) in
  let data32 := Z.lor data32 (Z.lor OCPR_Write value) in
  RTL_W32 PHYOCP data32 ;;;
  poll R8125_CHANNEL_WAIT_COUNT (flag_clear PHYOCP OCPR_Flag) ;;;
  sret tt.

Definition rtl8125_mdio_direct_write_phy_ocp (RegAddr value : Z) : ST unit :=
  diag <- tp_get (fun s => rtk_enable_diag s) ;;
  if tst diag then sret tt else mdio_real_direct_write_phy_ocp RegAddr value.

Definition rtl8125_mdio_real_write_phy_ocp (PageNum RegAddr value : Z) : ST unit :=
  let ocp_addr := map_phy_ocp_addr PageNum (u32 RegAddr) in
  mdio_real_direct_write_phy_ocp ocp_addr (u32 value).

Definition mdio_real_write (RegAddr value : Z) : ST unit :=
  let RegAddr := u16 RegAddr in
  let value := u16 value in
  if RegAddr =? 0x1F then smodify (set_cur_page value)
  else
    page <- tp_get (fun s => cur_page s) ;;
    rtl8125_mdio_real_write_phy_ocp page RegAddr value.

Definition rtl8125_mdio_write (RegAddr value : Z) : ST unit :=
  diag <- tp_get (fun s => rtk_enable_diag s) ;;
  if tst diag then sret tt else mdio_real_write RegAddr value.

Definition rtl8125_mdio_prot_write (RegAddr value : Z) : ST unit := mdio_real_write RegAddr value.

Definition rtl8125_mdio_prot_direct_write_phy_ocp (RegAddr value : Z) : ST unit :=
  mdio_real_direct_write_phy_ocp RegAddr value.

Definition mdio_real_direct_read_phy_ocp (RegAddr : Z) : ST Z :=
  let RegAddr := u16 RegAddr in
  let data32 := u32 (Z.shiftl (RegAddr / 2) OCPR_Addr_Reg_shift) in
  RTL_W32 PHYOCP data32 ;;;
  poll R8125_CHANNEL_WAIT_COUNT (flag_set PHYOCP OCPR_Flag) ;;;
  v <- RTL_R32 PHYOCP ;;
  sret (Z.land v OCPDR_Data_Mask).

Definition rtl8125_mdio_direct_read_phy_ocp (RegAddr : Z) : ST Z :=
  diag <- tp_get (fun s => rtk_enable_diag s) ;;
  if tst diag then sret 0xffffffff else mdio_real_direct_read_phy_ocp RegAddr.

Definition rtl8125_mdio_real_read_phy_ocp (PageNum RegAddr : Z) : ST Z :=
  let ocp_addr := map_phy_ocp_addr PageNum (u32 RegAddr) in
  mdio_real_direct_read_phy_ocp ocp_addr.

Definition mdio_real_read (RegAddr : Z) : ST Z :=
  page <- tp_get (fun s => cur_page s) ;;
  rtl8125_mdio_real_read_phy_ocp page (u16 RegAddr).

Definition rtl8125_mdio_read (RegAddr : Z) : ST Z :=
  diag <- tp_get (fun s => rtk_enable_diag s) ;;
  if tst diag then sret 0xffffffff else mdio_real_read RegAddr.

Definition rtl8125_mdio_prot_read (RegAddr : Z) : ST Z := mdio_real_read RegAddr.

Definition rtl8125_mdio_prot_direct_read_phy_ocp (RegAddr : Z) : ST Z :=
  mdio_real_direct_read_phy_ocp RegAddr.

Definition rtl8125_clear_and_set_eth_phy_bit (addr clearmask setmask : Z) : ST unit :=
  v <- rtl8125_mdio_read (u8 addr) ;;
  rtl8125_mdio_write (u8 addr) (clear_set (u16 v) (u16 clearmask) (u16 setmask)).

Definition rtl8125_clear_eth_phy_bit (addr mask : Z) : ST unit :=
  rtl8125_clear_and_set_eth_phy_bit addr mask 0.

Definition rtl8125_set_eth_phy_bit (addr mask : Z) : ST unit :=
  rtl8125_clear_and_set_eth_phy_bit addr 0 mask.

Definition rtl8125_clear_and_set_eth_phy_ocp_bit (addr clearmask setmask : Z) : ST unit :=
  v <- rtl8125_mdio_direct_read_phy_ocp addr ;;
  rtl8125_mdio_direct_write_phy_ocp addr (clear_set (u16 v) (u16 clearmask) (u16 setmask)).

Definition rtl8125_clear_eth_phy_ocp_bit (addr mask : Z) : ST unit :=
  rtl8125_clear_and_set_eth_phy_ocp_bit addr mask 0.

Definition rtl8125_set_eth_phy_ocp_bit (addr mask : Z) : ST unit :=
  rtl8125_clear_and_set_eth_phy_ocp_bit addr 0 mask.

(** ** MAC OCP registers *)

Definition rtl8125_mac_ocp_write (reg_addr value : Z) : ST unit :=
  let reg_addr := u16 reg_addr in
  let value := u16 value in
  let data32 := u32 (Z.shiftl (reg_addr / 2) OCPR_Addr_Reg_shift) in
  let data32 := u32 (data32 + value) in
  let data32 := Z.lor data32 OCPR_Write in
  RTL_W32 MACOCP data32.

Definition rtl8125_mac_ocp_read (reg_addr : Z) : ST Z :=
  let reg_addr := u16 reg_addr in
  let data32 := u32 (Z.shiftl (reg_addr / 2) OCPR_Addr_Reg_shift) in
  RTL_W32 MACOCP data32 ;;;
  v <- RTL_R32 MACOCP ;;
  sret (u16 v).

Definition mac_mcu_write (reg value : Z) : ST unit :=
  let reg := u16 reg in
  let value := u16 value in
  if reg =? 0x1f then smodify (set_ocp_base (u32 (Z.shiftl value 4)))
  else
    base <- tp_get (fun s => ocp_base s) ;;
    rtl8125_mac_ocp_write (u32 (base + reg)) value.

Definition mac_mcu_read (reg : Z) : ST Z :=
  base <- tp_get (fun s => ocp_base s) ;;
  rtl8125_mac_ocp_read (u32 (base + u16 reg)).

Definition rtl8125_clear_set_mac_ocp_bit (addr clearmask setmask : Z) : ST unit :=
  v <- rtl8125_mac_ocp_read addr ;;
  rtl8125_mac_ocp_write addr (clear_set v (u16 clearmask) (u16 setmask)).

Definition rtl8125_clear_mac_ocp_bit (addr mask : Z) : ST unit :=
  rtl8125_clear_set_mac_ocp_bit addr mask 0.

Definition rtl8125_set_mac_ocp_bit (addr mask : Z) : ST unit :=
  rtl8125_clear_set_mac_ocp_bit addr 0 mask.

(** ** PCIe PHY registers *)

Definition rtl8125_ephy_write (RegAddr value : Z) : ST unit :=
  RTL_W32 EPHYAR
    (Z.lor (Z.lor EPHYAR_Write (Z.shiftl (Z.land RegAddr EPHYAR_Reg_Mask_v2) EPHYAR_Reg_shift))
           (Z.land value EPHYAR_Data_Mask)) ;;;
  poll R8125_CHANNEL_WAIT_COUNT (flag_clear EPHYAR EPHYAR_Flag) ;;;
  sret tt.

Definition rtl8125_ephy_read (RegAddr : Z) : ST Z :=
  RTL_W32 EPHYAR
    (Z.lor EPHYAR_Read (Z.shiftl (Z.land RegAddr EPHYAR_Reg_Mask_v2) EPHYAR_Reg_shift)) ;;;
  done <- poll R8125_CHANNEL_WAIT_COUNT (flag_set EPHYAR EPHYAR_Flag) ;;
  if done : bool then v <- RTL_R32 EPHYAR ;; sret (u16 (Z.land v EPHYAR_Data_Mask))
  else sret 0xffff.

Definition ClearAndSetPCIePhyBit (addr clearmask setmask : Z) : ST unit :=
  v <- rtl8125_ephy_read (u8 addr) ;;
  rtl8125_ephy_write (u8 addr) (u16 (clear_set v (u16 clearmask) (u16 setmask))).

Definition ClearPCIePhyBit (addr mask : Z) : ST unit := ClearAndSetPCIePhyBit addr mask 0.

Definition SetPCIePhyBit (addr mask : Z) : ST unit := ClearAndSetPCIePhyBit addr 0 mask.

(** ** Configuration space through CSI *)

Definition csi_cmd (op fun_sel addr : Z) : Z :=
  Z.lor (Z.lor (Z.lor op (Z.shiftl CSIAR_ByteEn CSIAR_ByteEn_shift)) (Z.land addr CSIAR_Addr_Mask))
        (Z.shiftl fun_sel 16).

Definition rtl8125_csi_other_fun_read (multi_fun_sel_bit addr : Z) : ST Z :=
  m <- tp_get (fun s => mcfg s) ;;
  let multi_fun_sel_bit := if m =? CFG_METHOD_DEFAULT then 0 else u8 multi_fun_sel_bit in
  if multi_fun_sel_bit >? 7 then sret 0xffffffff
  else
    RTL_W32 CSIAR (csi_cmd CSIAR_Read multi_fun_sel_bit (u32 addr)) ;;;
    done <- poll R8125_CHANNEL_WAIT_COUNT (flag_set CSIAR CSIAR_Flag) ;;
    if done : bool then RTL_R32 CSIDR else sret 0xffffffff.

Definition rtl8125_csi_other_fun_write (multi_fun_sel_bit addr value : Z) : ST unit :=
  RTL_W32 CSIDR (u32 value) ;;;
  m <- tp_get (fun s => mcfg s) ;;
  let multi_fun_sel_bit := if m =? CFG_METHOD_DEFAULT then 0 else u8 multi_fun_sel_bit in
  if multi_fun_sel_bit >? 7 then sret tt
  else
    RTL_W32 CSIAR (csi_cmd CSIAR_Write multi_fun_sel_bit (u32 addr)) ;;;
    poll R8125_CHANNEL_WAIT_COUNT (flag_clear CSIAR CSIAR_Flag) ;;;
    sret tt.

Definition rtl8125_csi_read (addr : Z) : ST Z := rtl8125_csi_other_fun_read 0 addr.

Definition rtl8125_csi_write (addr value : Z) : ST unit :=
  rtl8125_csi_other_fun_write 0 addr value.

Definition rtl8125_csi_fun0_read_byte (addr : Z) : ST Z :=
  m <- tp_get (fun s => mcfg s) ;;
  if m =? CFG_METHOD_DEFAULT then v <- on_dev (pci_read_config 1 (u32 addr)) ;; sret (u8 v)
  else
    let RegAlignAddr := u16 (Z.land (u32 addr) (Z.lnot 3)) in
    let ShiftByte := Z.land (u32 addr) 3 in
    TmpUlong <- rtl8125_csi_other_fun_read 0 RegAlignAddr ;;
    sret (u8 (Z.shiftr TmpUlong (8 * ShiftByte))).

Definition rtl8125_csi_fun0_write_byte (addr value : Z) : ST unit :=
  let value := u8 value in
  m <- tp_get (fun s => mcfg s) ;;
  if m =? CFG_METHOD_DEFAULT then on_dev_ (pci_write_config 1 (u32 addr) value)
  else
    let RegAlignAddr := u16 (Z.land (u32 addr) (Z.lnot 3)) in
    let ShiftByte := Z.land (u32 addr) 3 in
    TmpUlong <- rtl8125_csi_other_fun_read 0 RegAlignAddr ;;
    rtl8125_csi_other_fun_write 0 RegAlignAddr
      (u32 (clear_set TmpUlong (Z.shiftl 0xFF (8 * ShiftByte)) (Z.shiftl value (8 * ShiftByte)))).

(** ** ERI: extended registers, byte granular *)

Definition transform_base_address (base_address : Z) : Z :=
  u32 (Z.lor (Z.shiftl (Z.land base_address 0x00FFF000) 6) (Z.land base_address 0x000FFF)).

(** The command word for the aligned address [addr]. *)
Definition eri_cmd (op base type addr : Z) : Z :=
  let cmd := u32 (Z.lor (Z.lor (Z.lor (Z.lor op (transform_base_address base))
                                      (Z.shiftl type ERIAR_Type_shift))
                               (Z.shiftl ERIAR_ByteEn ERIAR_ByteEn_shift))
                        (Z.land addr 0x0FFF)) in
  if has addr 0xF000
  then let tmp := Z.shiftr (Z.land addr 0xF000) 12 in
       Z.lor cmd (Z.land (Z.shiftl tmp 20) 0x00F00000)
  else cmd.

Definition eri_mask (len val_shift : Z) : Z :=
  u32 (Z.shiftl (if len =? 1 then 0xFF else if len =? 2 then 0xFFFF
                 else if len =? 3 then 0xFFFFFF else 0xFFFFFFFF) (val_shift * 8)).

(** The [while (len > 0)] loop: every round but the last consumes at least one
    byte, and a request of at most four bytes spans at most two words, so two
    rounds are enough (see [eri_read_loop_two]). *)
Fixpoint eri_read_loop (fuel : nat) (type base addr len shift value2 : Z) : ST Z :=
  match fuel with
  | O => sret value2
  | S fuel' =>
      if len >? 0 then
        let val_shift := Z.rem addr ERIAR_Addr_Align in
        let addr := Z.land addr (Z.lnot 3) in
        RTL_W32 ERIAR (eri_cmd ERIAR_Read base type addr) ;;;
        poll R8125_CHANNEL_WAIT_COUNT (flag_set ERIAR ERIAR_Flag) ;;;
        v <- RTL_R32 ERIDR ;;
        let value1 := Z.land v (eri_mask len val_shift) in
        let value2 := Z.lor value2 (u32 (Z.shiftl (Z.shiftr value1 (val_shift * 8)) (shift * 8))) in
        if len <=? 4 - val_shift then sret value2
        else eri_read_loop fuel' type base (addr + 4) (len - (4 - val_shift)) (4 - val_shift) value2
      else sret value2
  end.

Definition rtl8125_eri_read_with_oob_base_address (addr len type base_address : Z) : ST Z :=
  let addr := s32 addr in
  let len := s32 len in
  if (len >? 4) || (len <=? 0) then sret 0xffffffff
  else eri_read_loop 2 type (u32 base_address) addr len 0 0.

Definition rtl8125_eri_read (addr len type : Z) : ST Z :=
  rtl8125_eri_read_with_oob_base_address addr len type 0.

Fixpoint eri_write_loop (fuel : nat) (type base addr len shift value : Z) : ST Z :=
  match fuel with
  | O => sret 0
  | S fuel' =>
      if len >? 0 then
        let val_shift := Z.rem addr ERIAR_Addr_Align in
        let addr := Z.land addr (Z.lnot 3) in
        v <- rtl8125_eri_read_with_oob_base_address addr 4 type base ;;
        let value1 := Z.land v (Z.lnot (eri_mask len val_shift)) in
        let value1 := Z.lor value1 (Z.shiftr (u32 (Z.shiftl value (val_shift * 8))) (shift * 8)) in
        RTL_W32 ERIDR value1 ;;;
        RTL_W32 ERIAR (eri_cmd ERIAR_Write base type addr) ;;;
        poll R8125_CHANNEL_WAIT_COUNT (flag_clear ERIAR ERIAR_Flag) ;;;
        if len <=? 4 - val_shift then sret 0
        else eri_write_loop fuel' type base (addr + 4) (len - (4 - val_shift)) (4 - val_shift) value
      else sret 0
  end.

Definition rtl8125_eri_write_with_oob_base_address (addr len value type base_address : Z) : ST Z :=
  let addr := s32 addr in
  let len := s32 len in
  if (len >? 4) || (len <=? 0) then sret (-1)
  else eri_write_loop 2 type (u32 base_address) addr len 0 (u32 value).

Definition rtl8125_eri_write (addr len value type : Z) : ST Z :=
  rtl8125_eri_write_with_oob_base_address addr len value type NO_BASE_ADDRESS.

(** ** The OOB (DASH) window *)

Definition rtl8125_ocp_read_with_oob_base_address (addr len base_address : Z) : ST Z :=
  rtl8125_eri_read_with_oob_base_address (u16 addr) (u8 len) ERIAR_OOB base_address.

(** [!tp->AllowAccessDashOcp || tp->HwSuppOcpChannelVer != 2] *)
Definition dash_ocp_denied (h : hw_info) : bool :=
  negb (tst (AllowAccessDashOcp h)) || negb (HwSuppOcpChannelVer h =? 2).

Definition rtl8125_ocp_read (addr len : Z) : ST Z :=
  denied <- tp_get (fun s => dash_ocp_denied (hw s)) ;;
  if denied : bool then sret 0xffffffff
  else rtl8125_ocp_read_with_oob_base_address addr len NO_BASE_ADDRESS.

Definition rtl8125_ocp_write_with_oob_base_address (addr len value base_address : Z) : ST Z :=
  rtl8125_eri_write_with_oob_base_address (u16 addr) (u8 len) value ERIAR_OOB base_address.

Definition rtl8125_ocp_write (addr len value : Z) : ST unit :=
  denied <- tp_get (fun s => dash_ocp_denied (hw s)) ;;
  if denied : bool then sret tt
  else rtl8125_ocp_write_with_oob_base_address addr len value NO_BASE_ADDRESS ;;; sret tt.

Definition ocp_reg_mutex_oob : Z := 0x110.
Definition ocp_reg_mutex_ib : Z := 0x114.
Definition ocp_reg_mutex_prio : Z := 0x11C.

(** [while (reg_a0) { reg_a0 = read; if (++wait_Cnt_1 > 2000) break; }] with
    [n] rounds left. *)
Fixpoint oob_wait_prio (n : nat) (reg_a0 : Z) : ST unit :=
  match n with
  | O => sret tt
  | S n' =>
      if tst reg_a0 then
        v <- rtl8125_ocp_read ocp_reg_mutex_prio 1 ;;
        oob_wait_prio n' (u8 v)
      else sret tt
  end.

Fixpoint oob_wait_mutex (n : nat) (reg_16 : Z) : ST unit :=
  match n with
  | O => sret tt
  | S n' =>
      if tst reg_16 then
        reg_a0 <- rtl8125_ocp_read ocp_reg_mutex_prio 1 ;;
        swhen (tst (u8 reg_a0))
          (rtl8125_ocp_write ocp_reg_mutex_ib 1 0 ;;;
           reg_a0 <- rtl8125_ocp_read ocp_reg_mutex_prio 1 ;;
           oob_wait_prio (Z.to_nat 2001) (u8 reg_a0) ;;;
           rtl8125_ocp_write ocp_reg_mutex_ib 1 (BIT 0)) ;;;
        v <- rtl8125_ocp_read ocp_reg_mutex_oob 1 ;;
        oob_wait_mutex n' (u8 v)
      else sret tt
  end.

Definition rtl8125_oob_mutex_lock : ST unit :=
  h <- tp_get hw ;;
  if negb (HW_DASH_SUPPORT_DASH h) then sret tt
  else if negb (tst (DASH h)) then sret tt
  else
    rtl8125_ocp_write ocp_reg_mutex_ib 1 (BIT 0) ;;;
    reg_16 <- rtl8125_ocp_read ocp_reg_mutex_oob 1 ;;
    oob_wait_mutex (Z.to_nat 2001) (u8 reg_16).

Definition rtl8125_oob_mutex_unlock : ST unit :=
  h <- tp_get hw ;;
  if negb (HW_DASH_SUPPORT_DASH h) then sret tt
  else if negb (tst (DASH h)) then sret tt
  else
    rtl8125_ocp_write ocp_reg_mutex_prio 1 (BIT 0) ;;;
    rtl8125_ocp_write ocp_reg_mutex_ib 1 0.

Definition rtl8125_is_allow_access_dash_ocp : ST bool :=
  h <- tp_get hw ;;
  if negb (HW_DASH_SUPPORT_DASH h) then sret false
  else if (mcfg h =? 2) || (mcfg h =? 3) then
    mac_ocp_data <- rtl8125_mac_ocp_read 0xd460 ;;
    sret (negb ((mac_ocp_data =? 0xffff) || negb (has mac_ocp_data (BIT 0))))
  else if (mcfg h =? 8) || (mcfg h =? 9) then
    mac_ocp_data <- rtl8125_mac_ocp_read 0xd4c0 ;;
    sret (negb ((mac_ocp_data =? 0xffff) || has mac_ocp_data (BIT 3)))
  else sret true.

Definition rtl8125_get_dash_fw_ver : ST Z :=
  h <- tp_get hw ;;
  if negb (HW_DASH_SUPPORT_GET_FIRMWARE_VERSION h) then sret 0xffffffff
  else rtl8125_ocp_read OCP_REG_FIRMWARE_MAJOR_VERSION 4.

Definition _rtl8125_check_dash : ST bool :=
  h <- tp_get hw ;;
  if negb (tst (AllowAccessDashOcp h)) then sret false
  else if negb (HW_DASH_SUPPORT_IPC2 h) then sret false
  else v <- rtl8125_ocp_read 0x128 1 ;; sret (has v (BIT 0)).

Definition rtl8125_check_dash : ST bool :=
  h <- tp_get hw ;;
  if HW_DASH_SUPPORT_DASH h then
    b <- _rtl8125_check_dash ;;
    if b : bool then
      ver <- rtl8125_get_dash_fw_ver ;;
      sret (negb ((ver =? 0) || (ver =? 0xffffffff)))
    else sret false
  else sret false.

Definition rtl8125_wait_dash_fw_ready : ST Z :=
  h <- tp_get hw ;;
  if negb (tst (DASH h)) then sret (-1)
  else
    ready <- poll 10 (v <- rtl8125_ocp_read 0x124 1 ;; sret (has v (BIT 0))) ;;
    sret (if ready : bool then 1 else 0).

Definition rtl8125_notify_dash_oob_cmac (cmd : Z) : ST unit :=
  h <- tp_get hw ;;
  if negb (HW_DASH_SUPPORT_CMAC h) then sret tt
  else
    rtl8125_ocp_write 0x180 4 cmd ;;;
    val <- rtl8125_ocp_read 0x30 4 ;;
    rtl8125_ocp_write 0x30 4 (Z.lor val (BIT 0)).

Definition rtl8125_notify_dash_oob_ipc2 (cmd : Z) : ST unit :=
  h <- tp_get hw ;;
  if negb (HW_DASH_SUPPORT_IPC2 h) then sret tt
  else
    rtl8125_ocp_write IB2SOC_DATA 4 cmd ;;;
    rtl8125_ocp_write IB2SOC_CMD 4 0 ;;;
    rtl8125_ocp_write IB2SOC_SET 4 1.

Definition rtl8125_notify_dash_oob (cmd : Z) : ST unit :=
  h <- tp_get hw ;;
  if HW_DASH_SUPPORT_CMAC h then rtl8125_notify_dash_oob_cmac cmd
  else if HW_DASH_SUPPORT_IPC2 h then rtl8125_notify_dash_oob_ipc2 cmd
  else sret tt.

Definition rtl8125_driver_start : ST unit :=
  h <- tp_get hw ;;
  if negb (tst (AllowAccessDashOcp h)) then sret tt
  else rtl8125_notify_dash_oob OOB_CMD_DRIVER_START ;;; rtl8125_wait_dash_fw_ready ;;; sret tt.

Definition rtl8125_driver_stop : ST unit :=
  h <- tp_get hw ;;
  if negb (tst (AllowAccessDashOcp h)) then sret tt
  else rtl8125_notify_dash_oob OOB_CMD_DRIVER_STOP ;;; rtl8125_wait_dash_fw_ready ;;; sret tt.

(** ** Stopping the engines *)

Definition rtl8125_enable_rxdvgate : ST unit :=
  v <- RTL_R8 0xF2 ;; RTL_W8 0xF2 (Z.lor v (BIT 3)).

Definition rtl8125_disable_rxdvgate : ST unit :=
  v <- RTL_R8 0xF2 ;; RTL_W8 0xF2 (Z.land v (Z.lnot (BIT 3))).

Definition rtl8125_is_gpio_low : ST bool :=
  ver <- tp_get (fun s => HwSuppCheckPhyDisableModeVer s) ;;
  if ver =? 3 then v <- rtl8125_mac_ocp_read 0xDC04 ;; sret (negb (has v (BIT 13)))
  else sret false.

Definition rtl8125_is_phy_disable_mode_enabled : ST bool :=
  ver <- tp_get (fun s => HwSuppCheckPhyDisableModeVer s) ;;
  if ver =? 3 then v <- RTL_R8 0xF2 ;; sret (has v (BIT 5))
  else sret false.

Definition rtl8125_is_in_phy_disable_mode : ST bool :=
  b <- rtl8125_is_phy_disable_mode_enabled ;;
  if b : bool then rtl8125_is_gpio_low else sret false.

Definition rtl8125_stop_all_request : ST bool :=
  v <- RTL_R8 ChipCmd ;;
  RTL_W8 ChipCmd (Z.lor v StopReq) ;;;
  m <- tp_get (fun s => mcfg s) ;;
  if (m =? 2) || (m =? 3) || (m =? 6) then
    poll 20 (v <- RTL_R8 ChipCmd ;; sret (negb (has v StopReq)))
  else sret true.

Definition rtl8125_clear_stop_all_request : ST unit :=
  v <- RTL_R8 ChipCmd ;;
  RTL_W8 ChipCmd (Z.land v (Z.lor CmdTxEnb CmdRxEnb)).

Definition rtl8125_wait_txrx_fifo_empty : ST unit :=
  let both := Z.lor Txfifo_empty Rxfifo_empty in
  poll (Z.to_nat 3000) (v <- RTL_R8 MCUCmd_reg ;; sret (Z.land v both =? both)) ;;;
  m <- tp_get (fun s => mcfg s) ;;
  if existsb (Z.eqb m) [4; 5; 7; 8; 9; 10; 11; 12] then
    let idle := Z.lor (Z.lor (BIT 0) (BIT 1)) (BIT 8) in
    poll (Z.to_nat 3000) (v <- RTL_R16 IntrMitigate ;; sret (Z.land v idle =? idle)) ;;;
    sret tt
  else sret tt.

End Channels.
