(* ===== verification/RtlHwSpec.v ===== *)
(** * r8125: the register channels implement memories

    Each indirect channel of the controller stands for a memory: the laws below
    say what the hardware does with one command word, the theorems what the
    driver functions make of it: 16-bit PHY and MAC registers with the page
    logic, and the byte-granular ERI window. *)
From S2P Require Import Prelude RtlBase RtlHw.
Local Open Scope Z_scope.
Local Open Scope rtl_scope.

(** ** What the hardware does *)

(** The registers behind the channels, by the address field of the command, and
    the plain registers of the window. *)
Record chan_mem := MkChan {
  phy : gmap Z Z; mac : gmap Z Z; ephy : gmap Z Z; eri : gmap Z Z; regs : gmap Z Z
}.

Definition upd_phy (a v : Z) (m : chan_mem) :=
  MkChan (<[a := v]> (phy m)) (mac m) (ephy m) (eri m) (regs m).
Definition upd_mac (a v : Z) (m : chan_mem) :=
  MkChan (phy m) (<[a := v]> (mac m)) (ephy m) (eri m) (regs m).
Definition upd_ephy (a v : Z) (m : chan_mem) :=
  MkChan (phy m) (mac m) (<[a := v]> (ephy m)) (eri m) (regs m).
Definition upd_eri (a v : Z) (m : chan_mem) :=
  MkChan (phy m) (mac m) (ephy m) (<[a := v]> (eri m)) (regs m).
Definition upd_reg (r v : Z) (m : chan_mem) :=
  MkChan (phy m) (mac m) (ephy m) (eri m) (<[r := v]> (regs m)).

(** The RAM of the MAC microcontroller, 256 words from 0xF800, is banked: the
    low bits of 0xE446 select the bank.  [mac_cell m a] is the cell the word
    address [a] stands for. *)
Definition MAC_PAGE_SEL : Z := 0xE446 / 2.
Definition mac_page (m : chan_mem) : Z := mac m !!! MAC_PAGE_SEL mod 4.
Definition in_mac_ram (a : Z) : bool := (0x7C00 <=? a) && (a <? 0x7D00).
Definition mac_cell (m : chan_mem) (a : Z) : Z :=
  if in_mac_ram a then a + 0x10000 * mac_page m else a.

(** The control register of the PHY; its bit 15 resets the PHY. *)
Definition PHY_BMCR : Z := 0xA400 / 2.
Definition phy_reset (a v : Z) : bool := (a =? PHY_BMCR) && Z.testbit v 15.

(** The byte registers that hold what is written to them; the Config registers
    take a write only while both mode bits of Cfg9346 are set. *)
Definition plain8 (r : Z) : bool :=
  existsb (Z.eqb r) [0x34; 0x50; 0x52; 0x53; 0x54; 0x56; 0x6F; 0xD0; 0xF1; 0xF2].
Definition is_config (r : Z) : bool := existsb (Z.eqb r) [0x52; 0x53; 0x54; 0x56].
Definition config_open (m : chan_mem) : bool := Z.land (regs m !!! 0x50) 0xC0 =? 0xC0.
Definition put_reg8 (r v : Z) (m : chan_mem) : chan_mem :=
  if is_config r && negb (config_open m) then m else upd_reg r v m.

(** One of the first [n] reads of [reg] from [d] shows the flag as wanted, and
    [P] holds of the controller after it. *)
Fixpoint settles {D} `{Mmio D} (n : nat) (reg flag : Z) (want : bool) (P : D -> Prop) (d : D) : Prop :=
  match n with
  | O => False
  | S n' =>
      let '(v, d') := readl reg d in
      if eqb (has (u32 v) flag) want then P d' else settles n' reg flag want P d'
  end.

(** The documented behaviour of the channels: a command is completed within
    the channel wait, and then the addressed register was read or written.  Of
    the PHY and MAC registers only the plain ones ([phy_plain], [mac_plain]),
    which hold what is written to them, are described; nothing is said about
    what a status register shows, or about a PHY that is reset. *)
Class NicLaws (D : Type) `{HM : Mmio D} := {
  chan : D -> chan_mem;
  phy_plain : Z -> bool;
  mac_plain : Z -> bool;
  phy_read_cmd d a : 0 <= a < 2 ^ 15 ->
    settles R8125_CHANNEL_WAIT_COUNT PHYOCP OCPR_Flag true
      (fun d' => chan d' = chan d /\
                 let '(v, d2) := readl PHYOCP d' in
                 (phy_plain a = true -> u16 v = u16 (phy (chan d) !!! a)) /\ chan d2 = chan d)
      (writel PHYOCP (a * 2 ^ 16) d);
  phy_write_cmd d a v : 0 <= a < 2 ^ 15 -> 0 <= v < 2 ^ 16 -> phy_reset a v = false ->
    settles R8125_CHANNEL_WAIT_COUNT PHYOCP OCPR_Flag false
      (fun d' => chan d' = if phy_plain a then upd_phy a v (chan d) else chan d)
      (writel PHYOCP (2 ^ 31 + a * 2 ^ 16 + v) d);
  mac_read_cmd d a : 0 <= a < 2 ^ 15 ->
    let '(v, d') := readl MACOCP (writel MACOCP (a * 2 ^ 16) d) in
    (mac_plain a = true -> u16 v = u16 (mac (chan d) !!! mac_cell (chan d) a)) /\ chan d' = chan d;
  mac_write_cmd d a v : 0 <= a < 2 ^ 15 -> 0 <= v < 2 ^ 16 ->
    chan (writel MACOCP (2 ^ 31 + a * 2 ^ 16 + v) d) =
    if mac_plain a then upd_mac (mac_cell (chan d) a) v (chan d) else chan d;
  mac_page_plain : mac_plain MAC_PAGE_SEL = true;
  mac_ram_plain a : in_mac_ram a = true -> mac_plain a = true;
  read_plain8 d r : plain8 r = true ->
    let '(v, d') := readb r d in u8 v = u8 (regs (chan d) !!! r) /\ chan d' = chan d;
  write_plain8 d r v : plain8 r = true -> 0 <= v < 256 ->
    chan (writeb r v d) = put_reg8 r v (chan d);
  ephy_read_cmd d a : 0 <= a < 2 ^ 7 ->
    settles R8125_CHANNEL_WAIT_COUNT EPHYAR EPHYAR_Flag true
      (fun d' => chan d' = chan d /\
                 let '(v, d2) := readl EPHYAR d' in
                 u16 v = u16 (ephy (chan d) !!! a) /\ chan d2 = chan d)
      (writel EPHYAR (a * 2 ^ 16) d);
  ephy_write_cmd d a v : 0 <= a < 2 ^ 7 -> 0 <= v < 2 ^ 16 ->
    settles R8125_CHANNEL_WAIT_COUNT EPHYAR EPHYAR_Flag false
      (fun d' => chan d' = upd_ephy a v (chan d))
      (writel EPHYAR (2 ^ 31 + a * 2 ^ 16 + v) d);
  eri_read_cmd d c : 0 <= c < 2 ^ 31 ->
    settles R8125_CHANNEL_WAIT_COUNT ERIAR ERIAR_Flag true
      (fun d' => chan d' = chan d /\
                 let '(v, d2) := readl ERIDR d' in
                 u32 v = u32 (eri (chan d) !!! c) /\ chan d2 = chan d)
      (writel ERIAR c d);
  eri_write_cmd d c v : 0 <= c < 2 ^ 31 -> 0 <= v < 2 ^ 32 ->
    settles R8125_CHANNEL_WAIT_COUNT ERIAR ERIAR_Flag false
      (fun d' => chan d' = upd_eri c v (chan d))
      (writel ERIAR (2 ^ 31 + c) (writel ERIDR v d))
}.

(** ** Command words *)

Lemma has_flag31 v : has v (2 ^ 31) = Z.testbit v 31.
Proof. by apply has_bit. Qed.

(** The address field of a 16-bit channel. *)
Lemma ocp_addr_word a : 0 <= a < 65536 ->
  u32 (Z.shiftl (a / 2) OCPR_Addr_Reg_shift) = (a / 2) * 2 ^ 16 /\ 0 <= a / 2 < 2 ^ 15.
Proof.
  intros Ha. unfold OCPR_Addr_Reg_shift. rewrite Z.shiftl_mul_pow2 by lia.
  assert (0 <= a / 2 < 2 ^ 15) by (Z.to_euclidean_division_equations; lia).
  split; [|done]. apply wrap_small. lia.
Qed.

Lemma lor_flag31 v : 0 <= v < 2 ^ 31 -> Z.lor v (2 ^ 31) = 2 ^ 31 + v.
Proof.
  intros Hv. rewrite <- (Z.mul_1_l (2 ^ 31)) at 1. rewrite lor_disjoint_add by lia. lia.
Qed.

Lemma ocp_write_word a v : 0 <= a < 65536 -> 0 <= v < 65536 ->
  Z.lor ((a / 2) * 2 ^ 16) (Z.lor OCPR_Write v) = 2 ^ 31 + (a / 2) * 2 ^ 16 + v.
Proof.
  intros Ha Hv. change OCPR_Write with (2 ^ 31).
  rewrite Z.lor_assoc, (Z.lor_comm _ v), Z.lor_assoc, lor_disjoint_add by lia.
  rewrite lor_flag31 by (Z.to_euclidean_division_equations; lia). lia.
Qed.

Section Laws.
Context {D : Type} `{HL : NicLaws D}.
Abbreviation mem s := (chan (dev s)).

(** The state differs only in the controller. *)
Definition dev_only (s s' : nic D) : Prop := s' = set_dev (dev s') s.

Lemma dev_only_refl s : dev_only s s.
Proof. by destruct s. Qed.

Lemma dev_only_set d s : dev_only s (set_dev d s).
Proof. by destruct s. Qed.

Lemma dev_only_trans s1 s2 s3 : dev_only s1 s2 -> dev_only s2 s3 -> dev_only s1 s3.
Proof. unfold dev_only. intros -> ->. done. Qed.

Lemma dev_only_hw s s' : dev_only s s' -> hw s' = hw s /\ ocp s' = ocp s.
Proof. intros ->. done. Qed.

(** A poll loop on a register that settles ends with the break. *)
Lemma swp_poll_settles (t : Z -> bool) n reg flag want (P : D -> Prop) (s : nic D)
    (Q : bool -> nic D -> Prop) :
  (forall v, t v = eqb (has v flag) want) ->
  settles n reg flag want P (dev s) ->
  (forall d', P d' -> Q true (set_dev d' s)) ->
  swp (poll n (v <- RTL_R32 reg ;; sret (t v))) Q s.
Proof.
  intros Ht Hs HQ. revert s Hs HQ. induction n as [|n IH]; intros s Hs HQ; [done|].
  cbn [poll]. do 2 swp_step. unfold swp at 1, RTL_R32, on_dev. cbn [settles] in Hs.
  destruct (readl reg (dev s)) as [v d'] eqn:E. swp_step. rewrite Ht.
  apply swp_if; intros Hb; rewrite Hb in Hs; [by apply swp_ret, HQ|].
  apply IH; [done|]. destruct s. apply HQ.
Qed.

Lemma swp_flag_set reg flag P s Q :
  settles R8125_CHANNEL_WAIT_COUNT reg flag true P (dev s) ->
  (forall d', P d' -> Q true (set_dev d' s)) ->
  swp (poll R8125_CHANNEL_WAIT_COUNT (flag_set reg flag)) Q s.
Proof. apply swp_poll_settles. intros v. by destruct (has v flag). Qed.

Lemma swp_flag_clear reg flag P s Q :
  settles R8125_CHANNEL_WAIT_COUNT reg flag false P (dev s) ->
  (forall d', P d' -> Q true (set_dev d' s)) ->
  swp (poll R8125_CHANNEL_WAIT_COUNT (flag_clear reg flag)) Q s.
Proof. apply (swp_poll_settles (fun v => negb (has v flag))). intros v. by destruct (has v flag). Qed.

Lemma swp_w32 reg v s Q : Q tt (set_dev (writel reg (u32 v) (dev s)) s) -> swp (RTL_W32 reg v) Q s.
Proof. done. Qed.

Lemma swp_r32 reg s Q :
  (let '(v, d') := readl reg (dev s) in Q (u32 v) (set_dev d' s)) -> swp (RTL_R32 reg) Q s.
Proof. unfold swp, RTL_R32, on_dev. destruct (readl reg (dev s)). done. Qed.

(** ** Sixteen-bit channels *)

(** What a write to a plain or to another register makes of the memory. *)
Definition phy_put (a v : Z) (m : chan_mem) : chan_mem := if phy_plain a then upd_phy a v m else m.
Definition mac_put (a v : Z) (m : chan_mem) : chan_mem :=
  if mac_plain a then upd_mac (mac_cell m a) v m else m.

Lemma swp_phy_write a v s (Q : unit -> nic D -> Prop) :
  phy_reset (u16 a / 2) (u16 v) = false ->
  (forall d', chan d' = phy_put (u16 a / 2) (u16 v) (mem s) -> Q tt (set_dev d' s)) ->
  swp (mdio_real_direct_write_phy_ocp a v) Q s.
Proof.
  intros Hr HQ. unfold mdio_real_direct_write_phy_ocp. swp_step.
  pose proof (u16_range a). pose proof (u16_range v).
  destruct (ocp_addr_word (u16 a)) as [-> Ha]; [done|]. rewrite ocp_write_word by done.
  apply swp_w32. rewrite (wrap_small 32) by lia. swp_step.
  eapply swp_flag_clear; [apply phy_write_cmd; [done|lia|done]|].
  intros d' Hd. swp_step. apply HQ. exact Hd.
Qed.

Lemma land_ffff v : Z.land v 0xFFFF = u16 v.
Proof. change 0xFFFF with (Z.ones 16). by rewrite Z.land_ones. Qed.

Lemma u16_u32 v : u16 (u32 v) = u16 v.
Proof. unfold u16, u32. bits i. destruct (i <? 16) eqn:?; destruct (i <? 32) eqn:?; breflect; try done; lia. Qed.

Lemma swp_phy_read a s (Q : Z -> nic D -> Prop) :
  (forall d' v, chan d' = mem s -> 0 <= v < 65536 ->
     (phy_plain (u16 a / 2) = true -> v = u16 (phy (mem s) !!! (u16 a / 2))) -> Q v (set_dev d' s)) ->
  swp (mdio_real_direct_read_phy_ocp a) Q s.
Proof.
  intros HQ. unfold mdio_real_direct_read_phy_ocp. swp_step. pose proof (u16_range a).
  destruct (ocp_addr_word (u16 a)) as [-> Ha]; [done|].
  apply swp_w32. rewrite (wrap_small 32) by lia. swp_step.
  eapply swp_flag_set; [by apply phy_read_cmd|].
  intros d' [Hd Hr]. swp_step. apply swp_r32. cbn [dev set_dev].
  destruct (readl PHYOCP d') as [v d2]. destruct Hr as [Hv Hd2]. swp_step.
  unfold OCPDR_Data_Mask. rewrite land_ffff, u16_u32. apply (HQ d2); [done|apply u16_range|done].
Qed.

Lemma swp_mac_write a v s (Q : unit -> nic D -> Prop) :
  (forall d', chan d' = mac_put (u16 a / 2) (u16 v) (mem s) -> Q tt (set_dev d' s)) ->
  swp (rtl8125_mac_ocp_write a v) Q s.
Proof.
  intros HQ. unfold rtl8125_mac_ocp_write. pose proof (u16_range a). pose proof (u16_range v).
  destruct (ocp_addr_word (u16 a)) as [-> Ha]; [done|].
  rewrite (wrap_small 32 (_ + _)) by lia. change OCPR_Write with (2 ^ 31).
  rewrite lor_flag31 by lia. apply swp_w32. rewrite (wrap_small 32) by lia.
  apply HQ. rewrite Z.add_assoc. apply mac_write_cmd; [done|lia].
Qed.

Lemma swp_mac_read a s (Q : Z -> nic D -> Prop) :
  (forall d' v, chan d' = mem s -> 0 <= v < 65536 ->
     (mac_plain (u16 a / 2) = true -> v = u16 (mac (mem s) !!! mac_cell (mem s) (u16 a / 2))) ->
     Q v (set_dev d' s)) ->
  swp (rtl8125_mac_ocp_read a) Q s.
Proof.
  intros HQ. unfold rtl8125_mac_ocp_read. swp_step. pose proof (u16_range a).
  destruct (ocp_addr_word (u16 a)) as [-> Ha]; [done|].
  apply swp_w32. rewrite (wrap_small 32) by lia. swp_step. apply swp_r32. cbn [dev set_dev].
  pose proof (mac_read_cmd (dev s) (u16 a / 2) Ha) as Hm. destruct (readl MACOCP _) as [v d'].
  destruct Hm as [Hv Hd]. swp_step. rewrite u16_u32. apply (HQ d'); [done|apply u16_range|done].
Qed.

Lemma swp_reg8_read r s (Q : Z -> nic D -> Prop) : plain8 r = true ->
  (forall d', chan d' = mem s -> Q (u8 (regs (mem s) !!! r)) (set_dev d' s)) ->
  swp (RTL_R8 r) Q s.
Proof.
  intros Hp HQ. pose proof (read_plain8 (dev s) r Hp) as Hr.
  unfold swp, RTL_R8, on_dev. destruct (readb r (dev s)) as [v d']. destruct Hr as [-> Hd]. by apply HQ.
Qed.

Lemma swp_reg8_write r v s (Q : unit -> nic D -> Prop) : plain8 r = true ->
  (forall d', chan d' = put_reg8 r (u8 v) (mem s) -> Q tt (set_dev d' s)) ->
  swp (RTL_W8 r v) Q s.
Proof. intros Hp HQ. apply HQ. apply write_plain8; [done|]. pose proof (u8_range v). unfold is_byte in *. lia. Qed.

(** ** Paged PHY registers *)

(** The OCP address of a register of a page: page 0 is the standard register
    block at 0xA400, eight registers to a page of 16 bytes. *)
Definition phy_ocp_addr (page reg : Z) : Z :=
  if page =? 0 then 0xA400 + 2 * reg else 16 * page + 2 * (reg - 16).

(** The registers a page has. *)
Definition phy_reg_ok (page reg : Z) : Prop :=
  (page = 0 /\ 0 <= reg < 32) \/ (0 < page < 4096 /\ 16 <= reg < 24).

Lemma map_phy_ocp_addr_ok page reg : phy_reg_ok page reg ->
  map_phy_ocp_addr page reg = phy_ocp_addr page reg.
Proof.
  intros [[-> Hr]|[Hp Hr]]; unfold map_phy_ocp_addr, phy_ocp_addr.
  - unfold u8. rewrite (wrap_small 8 reg) by lia. change (u16 0 =? 0) with true. cbv iota beta zeta.
    unfold OCP_STD_PHY_BASE_PAGE, u16.
    assert (0 <= reg / 8 < 4 /\ 0 <= reg mod 8 < 8 /\ reg = 8 * (reg / 8) + reg mod 8)
      by (Z.to_euclidean_division_equations; lia).
    rewrite (wrap_small 8) by lia. destruct (0x10 + reg mod 8 <? 16) eqn:E; [breflect; lia|].
    rewrite !Z.shiftl_mul_pow2 by lia. wrap_simpl. change (0 =? 0) with true. cbv iota. lia.
  - unfold u16, u8. rewrite (wrap_small 16 page), (wrap_small 8 reg) by lia.
    destruct (page =? 0) eqn:Ep; [breflect; lia|]. cbv iota beta zeta.
    destruct (reg <? 16) eqn:E; [breflect; lia|].
    rewrite !Z.shiftl_mul_pow2 by lia. wrap_simpl. lia.
Qed.

Lemma phy_ocp_addr_range page reg : phy_reg_ok page reg ->
  0 <= phy_ocp_addr page reg < 65536 /\ phy_ocp_addr page reg mod 2 = 0.
Proof.
  unfold phy_ocp_addr. intros [[-> Hr]|[Hp Hr]].
  - change (0 =? 0) with true. cbv iota. split; [lia|]. Z.to_euclidean_division_equations; lia.
  - destruct (page =? 0) eqn:Ep; [breflect; lia|]. split; [lia|]. Z.to_euclidean_division_equations; lia.
Qed.

(** The three accesses of a paged round trip. *)
Definition select_write_read (page reg v : Z) : St (nic D) Z :=
  rtl8125_mdio_write 0x1F page ;;; rtl8125_mdio_write reg v ;;; rtl8125_mdio_read reg.

Lemma swp_mdio_select page (s : nic D) (Q : unit -> nic D -> Prop) : rtk_enable_diag s = 0 ->
  Q tt (set_cur_page (u16 page) s) -> swp (rtl8125_mdio_write 0x1F page) Q s.
Proof. intros Hd HQ. unfold rtl8125_mdio_write. do 2 swp_step. rewrite Hd. exact HQ. Qed.

Lemma swp_mdio_write page reg v (s : nic D) (Q : unit -> nic D -> Prop) :
  rtk_enable_diag s = 0 -> cur_page s = page -> phy_reg_ok page reg -> reg <> 0x1F ->
  phy_reset (phy_ocp_addr page reg / 2) (u16 v) = false ->
  (forall d', chan d' = phy_put (phy_ocp_addr page reg / 2) (u16 v) (mem s) -> Q tt (set_dev d' s)) ->
  swp (rtl8125_mdio_write reg v) Q s.
Proof.
  intros Hd Hp Hok Hne Hrst HQ. destruct (phy_ocp_addr_range _ _ Hok) as [Ha _].
  assert (0 <= reg < 32) by (destruct Hok; lia).
  unfold rtl8125_mdio_write. do 2 swp_step. rewrite Hd. change (tst 0) with false. cbv iota.
  unfold mdio_real_write, rtl8125_mdio_real_write_phy_ocp.
  change (u16 reg) with (wrap 16 reg). rewrite (wrap_small 16 reg) by lia.
  destruct (reg =? 0x1F) eqn:E; [breflect; lia|]. do 2 swp_step. rewrite Hp.
  unfold u32 at 1. rewrite (wrap_small 32 reg), map_phy_ocp_addr_ok by (done || lia).
  assert (u16 (phy_ocp_addr page reg) = phy_ocp_addr page reg) as Eu by (by apply wrap_small).
  assert (u16 (u32 (u16 v)) = u16 v) as Ev by (rewrite u16_u32; apply wrap_wrap).
  apply swp_phy_write; rewrite Eu, Ev; done.
Qed.

Lemma swp_mdio_read page reg (s : nic D) (Q : Z -> nic D -> Prop) :
  rtk_enable_diag s = 0 -> cur_page s = page -> phy_reg_ok page reg ->
  (forall d' v, chan d' = mem s -> 0 <= v < 65536 ->
     (phy_plain (phy_ocp_addr page reg / 2) = true ->
      v = u16 (phy (mem s) !!! (phy_ocp_addr page reg / 2))) -> Q v (set_dev d' s)) ->
  swp (rtl8125_mdio_read reg) Q s.
Proof.
  intros Hd Hp Hok HQ. destruct (phy_ocp_addr_range _ _ Hok) as [Ha _].
  assert (0 <= reg < 32) by (destruct Hok; lia).
  unfold rtl8125_mdio_read. do 2 swp_step. rewrite Hd. change (tst 0) with false. cbv iota.
  unfold mdio_real_read, rtl8125_mdio_real_read_phy_ocp. do 2 swp_step. rewrite Hp.
  change (u16 reg) with (wrap 16 reg). rewrite (wrap_small 16 reg) by lia.
  unfold u32 at 1. rewrite (wrap_small 32 reg), map_phy_ocp_addr_ok by (done || lia).
  assert (u16 (phy_ocp_addr page reg) = phy_ocp_addr page reg) as Eu by (by apply wrap_small).
  apply swp_phy_read. rewrite Eu. exact HQ.
Qed.

(** C29: Selecting a page, writing a plain register and reading it back gives
    the value written, cut to 16 bits.  Only the register at the page's OCP
    address changes on the controller (page 0 being the standard block at
    0xA400), the page stays selected, and nothing else of the driver's state
    changes.  (A value that resets the PHY is excluded.) *)
Theorem mdio_paged_round_trip page reg v (s : nic D) r s' :
  rtk_enable_diag s = 0 -> phy_reg_ok page reg -> reg <> 0x1F ->
  phy_plain (phy_ocp_addr page reg / 2) = true ->
  phy_reset (phy_ocp_addr page reg / 2) (u16 v) = false ->
  select_write_read page reg v s = (r, s') ->
  r = u16 v /\
  chan (dev s') = upd_phy (phy_ocp_addr page reg / 2) (u16 v) (chan (dev s)) /\
  s' = set_dev (dev s') (set_cur_page page s).
Proof.
  intros Hd Hok Hne Hpl Hrst E. swp_start E. unfold select_write_read.
  assert (u16 page = page) as Hp by (apply wrap_small; destruct Hok; lia).
  swp_step. apply swp_mdio_select; [done|]. rewrite Hp. swp_step.
  apply (swp_mdio_write page); [done..|]. unfold phy_put. rewrite Hpl. intros d1 Hm1.
  apply (swp_mdio_read page); [done..|]. intros d2 x Hm2 Hx Hv. cbn [dev set_dev] in *.
  rewrite (Hv Hpl), Hm1 in *. cbn [upd_phy phy]. rewrite lookup_total_insert_eq. split_and!; [|done..].
  apply wrap_wrap.
Qed.

End Laws.
