(* ===== verification/RtlEri.v ===== *)
(** * r8125: the ERI window is a byte memory

    [rtl8125_eri_read] and [rtl8125_eri_write] of r8125_n.c access one to four
    bytes at any address through a channel that moves aligned words; here they
    are shown to implement the reads and writes of a memory of bytes. *)
From Stdlib Require Import Btauto.
From S2P Require Import Prelude RtlBase RtlHw RtlHwSpec.
Local Open Scope Z_scope.
Local Open Scope rtl_scope.

(** ** The specification: bytes *)

(** The word address of the command for an aligned address of a window. *)
Definition eri_key (type addr : Z) : Z :=
  addr mod 4096 + 15 * 2 ^ 12 + type * 2 ^ 16 + addr / 4096 * 2 ^ 20.

Definition byte_of (v i : Z) : Z := u8 (Z.shiftr v (8 * i)).

(** The byte at address [a] of window [type]. *)
Definition eri_byte (m : chan_mem) (type a : Z) : Z :=
  byte_of (eri m !!! eri_key type (a / 4 * 4)) (a mod 4).

(** [n] bytes from [a], the first one lowest. *)
Fixpoint eri_bytes (m : chan_mem) (type a : Z) (n : nat) : Z :=
  match n with
  | O => 0
  | S n' => eri_byte m type a + 256 * eri_bytes m type (a + 1) n'
  end.

(** [m'] is [m] with the bytes [f] at [a <= b < a + n] of window [type]. *)
Definition eri_stored (m m' : chan_mem) (type a n : Z) (f : Z -> Z) : Prop :=
  (phy m' = phy m /\ mac m' = mac m /\ ephy m' = ephy m) /\
  forall ty b, 0 <= ty < 16 -> 0 <= b < 65536 ->
    eri_byte m' ty b =
    if (ty =? type) && (a <=? b) && (b <? a + n) then f b else eri_byte m ty b.

(** ** Bits of the command and of the masks *)

Lemma byte_of_testbit v i j : 0 <= i -> 0 <= j ->
  Z.testbit (byte_of v i) j = (j <? 8) && Z.testbit v (j + 8 * i).
Proof. intros. unfold byte_of, u8. bits_rw. done. Qed.

Lemma addr_page addr : 0 <= addr < 65536 ->
  Z.land addr 0xF000 = addr / 4096 * 2 ^ 12 /\ 0 <= addr / 4096 < 16.
Proof.
  intros Ha. assert (0 <= addr / 4096 < 16) by (Z.to_euclidean_division_equations; lia).
  split; [|done]. change 0xF000 with (Z.shiftl (Z.ones 4) 12). change 4096 with (2 ^ 12).
  rewrite <- Z.shiftr_div_pow2, <- Z.shiftl_mul_pow2 by lia. bits i.
  destruct (decide (i < 12)); [by rewrite !(Z.testbit_neg_r _ (i - 12)), andb_false_r by lia|].
  bits_rw. replace (i - 12 + 12) with i by lia. destruct (i - 12 <? 4) eqn:E; [by rewrite andb_true_r|].
  breflect. rewrite (testbit_high addr 16) by lia. done.
Qed.

Lemma page_field t : 0 <= t < 16 -> Z.land (Z.shiftl t 20) 0x00F00000 = t * 2 ^ 20.
Proof.
  intros Ht. change 0x00F00000 with (Z.shiftl (Z.ones 4) 20). rewrite <- Z.shiftl_mul_pow2 by lia.
  rewrite <- Z.shiftl_land, Z.land_ones by lia. by rewrite Z.mod_small by lia.
Qed.

(** The operation bit above the fields of a command. *)
Lemma lor_op op y : op = 0 \/ op = 2 ^ 31 -> 0 <= y < 2 ^ 31 -> Z.lor y op = op + y.
Proof. intros [->| ->] Hy; [by rewrite Z.lor_0_r|by apply lor_flag31]. Qed.

Lemma eri_cmd_word op type addr : op = 0 \/ op = 2 ^ 31 -> 0 <= type < 16 -> 0 <= addr < 65536 ->
  eri_cmd op 0 type addr = op + eri_key type addr /\ 0 <= eri_key type addr < 2 ^ 31.
Proof.
  intros Hop Ht Ha. destruct (addr_page addr Ha) as [Hp Hq].
  assert (0 <= addr mod 4096 < 4096) by (apply Z.mod_pos_bound; lia).
  unfold eri_key. split; [|lia]. unfold eri_cmd, has. rewrite Hp.
  change (transform_base_address 0) with 0. rewrite Z.lor_0_r.
  unfold ERIAR_Type_shift, ERIAR_ByteEn, ERIAR_ByteEn_shift. change (Z.shiftl 0x0f 12) with (15 * 2 ^ 12).
  rewrite (Z.shiftl_mul_pow2 type), (Z.shiftr_div_pow2 _ 12), Z.div_mul by lia.
  change 0x0FFF with (Z.ones 12). rewrite (Z.land_ones addr 12) by lia. change (addr mod 2 ^ 12) with (addr mod 4096).
  set (lo := addr mod 4096) in *. set (p := addr / 4096) in *.
  set (y := lo + 15 * 2 ^ 12 + type * 2 ^ 16). assert (0 <= y < 2 ^ 20) by (unfold y; lia).
  assert (Z.lor (Z.lor (Z.lor op (type * 2 ^ 16)) (15 * 2 ^ 12)) lo = Z.lor y op) as ->.
  { assert (y = Z.lor (Z.lor lo (15 * 2 ^ 12)) (type * 2 ^ 16)) as ->.
    { rewrite (lor_disjoint_add lo 15 12) by lia. by rewrite (lor_disjoint_add _ type 16) by lia. }
    bits i. destruct (Z.testbit lo i), (Z.testbit op i), (Z.testbit (type * 2 ^ 16) i); btauto. }
  rewrite (lor_op op y) by (done || lia). unfold u32. rewrite (wrap_small 32) by (destruct Hop; lia).
  destruct (tst (p * 2 ^ 12)) eqn:Ez; [|apply tst_false in Ez; lia].
  rewrite page_field, <- (lor_op op y) by (done || lia).
  assert (Z.lor (Z.lor y op) (p * 2 ^ 20) = Z.lor (Z.lor y (p * 2 ^ 20)) op) as ->
    by (rewrite <- !Z.lor_assoc; f_equal; apply Z.lor_comm).
  rewrite (lor_disjoint_add y p 20), lor_op; [lia|done|lia..].
Qed.

Lemma eri_key_inj ty a ty' a' : 0 <= ty < 16 -> 0 <= ty' < 16 -> 0 <= a < 65536 -> 0 <= a' < 65536 ->
  eri_key ty a = eri_key ty' a' -> ty = ty' /\ a = a'.
Proof. unfold eri_key. intros. Z.to_euclidean_division_equations. lia. Qed.

Lemma eri_mask_bits len vs k : 1 <= len <= 4 -> 0 <= vs < 4 -> 0 <= k ->
  Z.testbit (eri_mask len vs) k = (k <? 32) && (vs * 8 <=? k) && (k <? vs * 8 + len * 8).
Proof.
  intros Hl Hv Hk. unfold eri_mask, u32.
  assert ((if len =? 1 then 0xFF else if len =? 2 then 0xFFFF else if len =? 3 then 0xFFFFFF
           else 0xFFFFFFFF) = Z.ones (len * 8)) as ->.
  { assert (len = 1 \/ len = 2 \/ len = 3 \/ len = 4) as [->|[->|[->| ->]]] by lia; done. }
  bits_rw. rewrite <- andb_assoc. f_equal. destruct (vs * 8 <=? k) eqn:E; breflect.
  - rewrite Z.testbit_ones_nonneg by lia. apply eq_true_iff_eq. rewrite !Z.ltb_lt. lia.
  - by rewrite Z.testbit_neg_r by lia.
Qed.

(** The bits one round of a read contributes. *)
Lemma eri_round_bits w len vs shift k : 1 <= len <= 4 -> 0 <= vs < 4 -> 0 <= shift < 4 -> 0 <= k ->
  Z.testbit (u32 (Z.shiftl (Z.shiftr (Z.land w (eri_mask len vs)) (vs * 8)) (shift * 8))) k =
  (k <? 32) && (shift * 8 <=? k) && (k - shift * 8 <? len * 8) && (k - shift * 8 + vs * 8 <? 32)
  && Z.testbit w (k - shift * 8 + vs * 8).
Proof.
  intros Hl Hv Hs Hk. unfold u32. bits_rw. destruct (shift * 8 <=? k) eqn:E; breflect.
  - bits_rw. rewrite eri_mask_bits by lia. rewrite (andb_comm (Z.testbit w _)), !andb_assoc. f_equal.
    apply eq_true_iff_eq. blia.
  - rewrite Z.testbit_neg_r by lia. by rewrite !andb_false_r.
Qed.

(** ** Bits of a row of bytes *)

Lemma eri_byte_range m ty a : 0 <= eri_byte m ty a < 256.
Proof. apply u8_range. Qed.

Lemma eri_bytes_testbit m ty a n k : 0 <= k ->
  Z.testbit (eri_bytes m ty a n) k =
  (k <? 8 * Z.of_nat n) && Z.testbit (eri_byte m ty (a + k / 8)) (k mod 8).
Proof.
  revert a k. induction n as [|n IH]; intros a k Hk; cbn [eri_bytes].
  { rewrite Z.bits_0. destruct (k <? _) eqn:E; [breflect; lia|done]. }
  rewrite Z.mul_comm. change 256 with (2 ^ 8).
  rewrite <- lor_disjoint_add by (lia || apply eri_byte_range).
  rewrite <- Z.shiftl_mul_pow2, Z.lor_spec, Z.shiftl_spec by lia. destruct (decide (k < 8)).
  - rewrite (Z.testbit_neg_r _ (k - 8)), orb_false_r by lia.
    rewrite (Z.div_small k 8), (Z.mod_small k 8), Z.add_0_r by lia.
    destruct (k <? _) eqn:E; [done|breflect; lia].
  - rewrite (testbit_high (eri_byte m ty a) 8) by (lia || apply eri_byte_range). cbn [orb].
    rewrite IH by lia.
    replace (a + 1 + (k - 8) / 8) with (a + k / 8) by (Z.to_euclidean_division_equations; lia).
    replace ((k - 8) mod 8) with (k mod 8) by (Z.to_euclidean_division_equations; lia).
    f_equal. apply eq_true_iff_eq. rewrite !Z.ltb_lt. lia.
Qed.

(** A bit of the byte at [a] as a bit of its word. *)
Lemma eri_byte_testbit m ty a j : 0 <= j -> 0 <= a ->
  Z.testbit (eri_byte m ty a) j =
  (j <? 8) && Z.testbit (eri m !!! eri_key ty (a / 4 * 4)) (j + 8 * (a mod 4)).
Proof.
  intros Hj Ha. unfold eri_byte. apply byte_of_testbit; [|done]. apply Z.mod_pos_bound. lia.
Qed.

Lemma align4 a : 0 <= a -> Z.land a (Z.lnot 3) = a / 4 * 4.
Proof.
  intros Ha. change 4 with (2 ^ 2). rewrite <- Z.shiftr_div_pow2, <- Z.shiftl_mul_pow2 by lia.
  change 3 with (Z.ones 2). bits i. destruct (decide (i < 2)).
  - rewrite (Z.testbit_neg_r _ (i - 2)) by lia. destruct (i <? 2) eqn:E; [|breflect; lia].
    by rewrite andb_false_r.
  - bits_rw. replace (i - 2 + 2) with i by lia. destruct (i <? 2) eqn:E; [breflect; lia|].
    by rewrite andb_true_r.
Qed.

Section Eri.
Context {D : Type} `{HL : NicLaws D}.
Abbreviation mem s := (chan (dev s)).

(** One word read: command, wait, data. *)
Lemma swp_eri_word type addr (k : bool -> Z -> St (nic D) Z) (s : nic D) (Q : Z -> nic D -> Prop) :
  0 <= type < 16 -> 0 <= addr < 65536 ->
  (forall b s', dev_only s s' -> mem s' = mem s ->
     swp (k b (u32 (eri (mem s) !!! eri_key type addr))) Q s') ->
  swp (RTL_W32 ERIAR (eri_cmd ERIAR_Read 0 type addr) ;;;
       b <- poll R8125_CHANNEL_WAIT_COUNT (flag_set ERIAR ERIAR_Flag) ;;
       v <- RTL_R32 ERIDR ;; k b v) Q s.
Proof.
  intros Ht Ha HQ. destruct (eri_cmd_word ERIAR_Read type addr) as [-> Hk]; [by left|done..|].
  change ERIAR_Read with 0. rewrite Z.add_0_l. swp_step. apply swp_w32.
  unfold u32 at 1. rewrite (wrap_small 32) by lia. swp_step.
  eapply swp_flag_set; [by apply eri_read_cmd|]. intros d' [Hd Hr]. swp_step.
  apply swp_r32. cbn [dev set_dev]. destruct (readl ERIDR d') as [v d2]. destruct Hr as [Hv Hd2].
  rewrite Hv. apply HQ; [by destruct s|done].
Qed.

(** The address a round continues at, and what is left. *)
Lemma eri_next addr : 0 <= addr ->
  0 <= addr mod 4 < 4 /\ addr = addr / 4 * 4 + addr mod 4 /\
  (addr / 4 * 4) mod 4 = 0 /\ addr / 4 * 4 / 4 * 4 = addr / 4 * 4.
Proof. intros. Z.to_euclidean_division_equations. lia. Qed.

(** A bit of a row of bytes as a bit of one of the two words it lies in. *)
Lemma eri_bytes_word_bit m ty addr n k : 0 <= addr -> 0 <= k < 8 * Z.of_nat n -> (n <= 4)%nat ->
  Z.testbit (eri_bytes m ty addr n) k =
  if addr mod 4 * 8 + k <? 32
  then Z.testbit (eri m !!! eri_key ty (addr / 4 * 4)) (addr mod 4 * 8 + k)
  else Z.testbit (eri m !!! eri_key ty (addr / 4 * 4 + 4)) (addr mod 4 * 8 + k - 32).
Proof.
  intros Ha Hk Hn. rewrite eri_bytes_testbit by lia. destruct (k <? _) eqn:E; [clear E|blia].
  rewrite eri_byte_testbit by (Z.to_euclidean_division_equations; lia).
  destruct (k mod 8 <? 8) eqn:E; [clear E; cbn [andb]|Z.to_euclidean_division_equations; blia].
  destruct (addr mod 4 * 8 + k <? 32) eqn:E; breflect; (f_equal; [do 2 f_equal|]);
    Z.to_euclidean_division_equations; lia.
Qed.

(** Bits past the row are clear. *)
Lemma eri_bytes_high m ty addr n k : 8 * Z.of_nat n <= k -> Z.testbit (eri_bytes m ty addr n) k = false.
Proof. intros Hk. rewrite eri_bytes_testbit by lia. destruct (k <? _) eqn:E; [blia|done]. Qed.

Definition eri_round (w len vs shift : Z) : Z :=
  u32 (Z.shiftl (Z.shiftr (Z.land (u32 w) (eri_mask len vs)) (vs * 8)) (shift * 8)).

Lemma eri_round_spec w len vs shift k : 1 <= len <= 4 -> 0 <= vs < 4 -> 0 <= shift < 4 -> 0 <= k ->
  Z.testbit (eri_round w len vs shift) k =
  (k <? 32) && (shift * 8 <=? k) && (k - shift * 8 <? len * 8) && (k - shift * 8 + vs * 8 <? 32)
  && Z.testbit w (k - shift * 8 + vs * 8).
Proof.
  intros. unfold eri_round. rewrite eri_round_bits by lia. destruct (shift * 8 <=? k) eqn:E; breflect.
  - unfold u32. bits_rw. destruct (k - shift * 8 + vs * 8 <? 32); btauto.
  - by rewrite !andb_false_r.
Qed.

(** A request inside one word, and one that spans two. *)
Lemma eri_one_round m ty addr len : 0 <= addr -> 1 <= len <= 4 - addr mod 4 ->
  eri_round (eri m !!! eri_key ty (addr / 4 * 4)) len (addr mod 4) 0 =
  eri_bytes m ty addr (Z.to_nat len).
Proof.
  intros Ha Hl. destruct (eri_next addr Ha) as (Hv & _). apply Z.bits_inj'. intros k Hk.
  rewrite eri_round_spec by lia. destruct (decide (k < 8 * len)).
  - rewrite eri_bytes_word_bit by lia. destruct (addr mod 4 * 8 + k <? 32) eqn:E; [|blia].
    rewrite Z.mul_0_l, Z.sub_0_r, (Z.add_comm k), E.
    assert ((k <? 32) = true) as -> by blia. assert ((0 <=? k) = true) as -> by blia.
    assert ((k <? len * 8) = true) as -> by blia. done.
  - rewrite eri_bytes_high by lia. assert ((k - 0 * 8 <? len * 8) = false) as -> by blia.
    by rewrite andb_false_r.
Qed.

Lemma eri_two_rounds m ty addr len : 0 <= addr -> 4 - addr mod 4 < len <= 4 ->
  Z.lor (eri_round (eri m !!! eri_key ty (addr / 4 * 4)) len (addr mod 4) 0)
        (eri_round (eri m !!! eri_key ty (addr / 4 * 4 + 4)) (len - (4 - addr mod 4)) 0 (4 - addr mod 4)) =
  eri_bytes m ty addr (Z.to_nat len).
Proof.
  intros Ha Hl. destruct (eri_next addr Ha) as (Hv & _). apply Z.bits_inj'. intros k Hk.
  rewrite Z.lor_spec, !eri_round_spec by lia. destruct (decide (k < 8 * len)).
  - rewrite eri_bytes_word_bit by lia. rewrite !Z.mul_0_l, !Z.sub_0_r, !Z.add_0_r, (Z.add_comm k).
    assert ((k <? 32) = true) as -> by blia. assert ((0 <=? k) = true) as -> by blia.
    assert ((k <? len * 8) = true) as -> by blia. cbn [andb].
    destruct (addr mod 4 * 8 + k <? 32) eqn:E.
    + assert (((4 - addr mod 4) * 8 <=? k) = false) as -> by blia. cbn [andb]. by rewrite orb_false_r.
    + assert (((4 - addr mod 4) * 8 <=? k) = true) as -> by blia.
      assert ((k - (4 - addr mod 4) * 8 <? (len - (4 - addr mod 4)) * 8) = true) as -> by blia.
      assert ((k - (4 - addr mod 4) * 8 <? 32) = true) as -> by blia. cbn [andb orb]. f_equal. lia.
  - rewrite eri_bytes_high by lia. assert ((k - 0 * 8 <? len * 8) = false) as -> by blia.
    assert ((k - (4 - addr mod 4) * 8 <? (len - (4 - addr mod 4)) * 8) = false) as -> by blia.
    by rewrite !andb_false_r.
Qed.

Lemma swp_eri_read addr len type (s : nic D) (Q : Z -> nic D -> Prop) :
  0 <= type < 16 -> 0 <= addr -> 1 <= len <= 4 -> addr + len <= 65536 ->
  (forall s', dev_only s s' -> mem s' = mem s -> Q (eri_bytes (mem s) type addr (Z.to_nat len)) s') ->
  swp (rtl8125_eri_read addr len type) Q s.
Proof.
  intros Ht Ha Hl Hb HQ. unfold rtl8125_eri_read, rtl8125_eri_read_with_oob_base_address, s32.
  rewrite !(wrap_small 32) by lia. rewrite !Z.add_simpl_r.
  destruct ((len >? 4) || (len <=? 0)) eqn:E; [blia|clear E]. change (u32 0) with 0.
  cbn [eri_read_loop]. destruct (len >? 0) eqn:E; [clear E|blia].
  unfold ERIAR_Addr_Align. rewrite Z.rem_mod_nonneg, align4 by lia.
  destruct (eri_next addr Ha) as (Hv & Had & Hm0 & Hal).
  apply (swp_eri_word type _ (fun _ v => _)); [done|lia|]. intros _ s1 H1 Hm1.
  swp_step; breflect.
  - swp_step. rewrite Z.lor_0_l. rewrite <- (eri_one_round (mem s) type addr len) in HQ by lia.
    by apply HQ.
  - destruct (len - _ >? 0) eqn:E; [clear E|blia].
    rewrite (Z.rem_mod_nonneg (_ + 4)), align4 by lia.
    replace ((addr / 4 * 4 + 4) mod 4) with 0 by (Z.to_euclidean_division_equations; lia).
    replace ((addr / 4 * 4 + 4) / 4 * 4) with (addr / 4 * 4 + 4) by (Z.to_euclidean_division_equations; lia).
    apply (swp_eri_word type _ (fun _ v => _)); [done|lia|]. intros _ s2 H2 Hm2.
    destruct (len - (4 - addr mod 4) <=? 4 - 0) eqn:E; [clear E|blia]. swp_step.
    rewrite Z.lor_0_l, Hm1. rewrite <- (eri_two_rounds (mem s) type addr len) in HQ by lia.
    apply HQ; [exact (dev_only_trans _ _ _ H1 H2)|congruence].
Qed.
(** ** Writes *)

(** Replacing one word: bytes [lo <= i < hi] of it come from [f]. *)
Lemma eri_word_stored m type A new lo hi f :
  0 <= type < 16 -> 0 <= A < 65536 -> A mod 4 = 0 -> 0 <= lo <= hi -> hi <= 4 ->
  (forall i, 0 <= i < 4 ->
     byte_of new i = if (lo <=? i) && (i <? hi) then f (A + i)
                     else byte_of (eri m !!! eri_key type A) i) ->
  eri_stored m (upd_eri (eri_key type A) new m) type (A + lo) (hi - lo) f.
Proof.
  intros Ht HA Hal Hlh Hh Hn. split; [done|]. intros ty b Hty Hb. unfold eri_byte. cbn [upd_eri eri].
  destruct (eri_next b) as (Hv & Hbd & _); [lia|].
  destruct (decide (ty = type /\ b / 4 * 4 = A)) as [[-> Hw]|Hne].
  - rewrite Hw, lookup_total_insert_eq, Hn by lia. rewrite Z.eqb_refl. cbn [andb].
    replace (A + b mod 4) with b by lia.
    replace ((lo <=? b mod 4) && (b mod 4 <? hi)) with ((A + lo <=? b) && (b <? A + lo + (hi - lo)));
      [done|]. apply eq_true_iff_eq. blia.
  - rewrite lookup_total_insert_ne; [|intros Hk; apply Hne; apply eri_key_inj in Hk; lia].
    destruct ((ty =? type) && (A + lo <=? b) && (b <? A + lo + (hi - lo))) eqn:E; [|done].
    exfalso. breflect. apply Hne. Z.to_euclidean_division_equations. lia.
Qed.

(** Adjacent stores are one store. *)
Lemma eri_stored_app m m1 m2 type a n n' f : 0 <= n -> 0 <= n' ->
  eri_stored m m1 type a n f -> eri_stored m1 m2 type (a + n) n' f ->
  eri_stored m m2 type a (n + n') f.
Proof.
  intros Hn Hn' [(P1 & P2 & P3) F1] [(P4 & P5 & P6) F2]. split; [split_and!; congruence|].
  intros ty b Hty Hb. rewrite F2, F1 by done. destruct (ty =? type); [|done]. cbn [andb].
  destruct (a + n <=? b) eqn:E1, (b <? a + n + n') eqn:E2, (a <=? b) eqn:E3, (b <? a + n) eqn:E4,
    (b <? a + (n + n')) eqn:E5; cbn [andb]; try done; blia.
Qed.

(** The word a round of a write puts back. *)
Definition eri_merge (w value len vs shift : Z) : Z :=
  Z.lor (Z.land w (Z.lnot (eri_mask len vs)))
        (Z.shiftr (u32 (Z.shiftl value (vs * 8))) (shift * 8)).

Lemma eri_merge_bytes w value len vs shift tot i :
  1 <= len <= 4 -> 0 <= vs < 4 -> 0 <= shift < 4 -> shift = 0 \/ vs = 0 ->
  0 <= value < 2 ^ (8 * tot) -> tot = len + shift -> 0 <= tot <= 4 -> 0 <= i < 4 ->
  byte_of (eri_merge w value len vs shift) i =
  if (vs <=? i) && (i <? vs + len) then byte_of value (i - vs + shift) else byte_of w i.
Proof.
  intros Hl Hv Hs Hsv Hval Ht Ht4 Hi.
  assert (forall k, 0 <= k < 32 -> Z.testbit (eri_merge w value len vs shift) k =
    if (vs * 8 <=? k) && (k <? vs * 8 + len * 8) then Z.testbit value (k - vs * 8 + shift * 8)
    else Z.testbit w k) as Hbit.
  { intros k Hk. unfold eri_merge, u32. bits_rw. rewrite eri_mask_bits by lia.
    assert ((k <? 32) = true) as -> by blia. cbn [andb].
    destruct ((vs * 8 <=? k) && (k <? vs * 8 + len * 8)) eqn:E; cbn [negb].
    - rewrite andb_false_r. cbn [orb]. replace (k + shift * 8 - vs * 8) with (k - vs * 8 + shift * 8) by lia.
      destruct (k + shift * 8 <? 32) eqn:E2; [done|]. cbn [andb].
      rewrite (testbit_high value (8 * tot)) by blia. done.
    - rewrite andb_true_r. replace (k + shift * 8 - vs * 8) with (k - vs * 8 + shift * 8) by lia.
      destruct (decide (k < vs * 8)); [rewrite (Z.testbit_neg_r value) by lia|
        rewrite (testbit_high value (8 * tot)) by blia]; by rewrite andb_false_r, orb_false_r. }
  apply Z.bits_inj'. intros j Hj. rewrite byte_of_testbit by lia. destruct (j <? 8) eqn:Ej; cbn [andb].
  2: { destruct ((vs <=? i) && (i <? vs + len)) eqn:E; rewrite byte_of_testbit, Ej by blia; done. }
  rewrite Hbit by blia. destruct ((vs <=? i) && (i <? vs + len)) eqn:E.
  - rewrite byte_of_testbit, Ej by blia. cbn [andb].
    destruct ((vs * 8 <=? j + 8 * i) && (j + 8 * i <? vs * 8 + len * 8)) eqn:E2; [|blia]. f_equal. lia.
  - rewrite byte_of_testbit, Ej by blia. cbn [andb].
    destruct ((vs * 8 <=? j + 8 * i) && (j + 8 * i <? vs * 8 + len * 8)) eqn:E2; [blia|done].
Qed.
(** One word written: data, command, wait. *)
Lemma swp_eri_put type addr new (k : bool -> St (nic D) Z) (s : nic D) (Q : Z -> nic D -> Prop) :
  0 <= type < 16 -> 0 <= addr < 65536 ->
  (forall b s', dev_only s s' -> mem s' = upd_eri (eri_key type addr) (u32 new) (mem s) ->
     swp (k b) Q s') ->
  swp (RTL_W32 ERIDR new ;;;
       RTL_W32 ERIAR (eri_cmd ERIAR_Write 0 type addr) ;;;
       b <- poll R8125_CHANNEL_WAIT_COUNT (flag_clear ERIAR ERIAR_Flag) ;; k b) Q s.
Proof.
  intros Ht Ha HQ. destruct (eri_cmd_word ERIAR_Write type addr) as [-> Hk]; [by right|done..|].
  swp_step. apply swp_w32. swp_step. apply swp_w32. unfold u32 at 2.
  change ERIAR_Write with (2 ^ 31). rewrite (wrap_small 32) by lia. swp_step.
  eapply swp_flag_clear; [apply eri_write_cmd; [done|apply (wrap_range 32); lia]|].
  intros d' Hd. apply HQ; [by destruct s|done].
Qed.

(** Reading a whole aligned word keeps its bytes. *)
Lemma eri_bytes_aligned m type A i : 0 <= A -> A mod 4 = 0 -> 0 <= i < 4 ->
  byte_of (eri_bytes m type A 4) i = byte_of (eri m !!! eri_key type A) i.
Proof.
  intros HA Hal Hi. apply Z.bits_inj'. intros j Hj. rewrite !byte_of_testbit by lia.
  destruct (j <? 8) eqn:E; [|done]. cbn [andb]. breflect.
  rewrite eri_bytes_word_bit by lia. rewrite Hal. destruct (_ <? 32) eqn:E2; [|blia].
  replace (A / 4 * 4) with A by (Z.to_euclidean_division_equations; lia). done.
Qed.

Lemma byte_of_u32 w i : 0 <= i < 4 -> byte_of (u32 w) i = byte_of w i.
Proof.
  intros Hi. apply Z.bits_inj'. intros j Hj. rewrite !byte_of_testbit by lia. unfold u32. bits_rw.
  destruct (j <? 8) eqn:E; [|done]. breflect. by assert ((j + 8 * i <? 32) = true) as -> by blia.
Qed.

(** A round of a write: the bytes of [addr .. addr + n - 1] that lie in the
    word of [addr] are replaced. *)
Lemma swp_eri_write_round type addr0 addr len value shift tot (k : bool -> St (nic D) Z)
    (s : nic D) (Q : Z -> nic D -> Prop) :
  0 <= type < 16 -> 0 <= addr -> addr + len <= 65536 -> 1 <= len <= 4 ->
  addr = addr0 + shift -> 0 <= shift < 4 -> shift = 0 \/ addr mod 4 = 0 ->
  tot = len + shift -> tot <= 4 -> 0 <= value < 2 ^ (8 * tot) ->
  (forall b s', dev_only s s' ->
     eri_stored (mem s) (mem s') type addr (Z.min len (4 - addr mod 4))
       (fun a => byte_of value (a - addr0)) -> swp (k b) Q s') ->
  swp (v <- rtl8125_eri_read_with_oob_base_address (addr / 4 * 4) 4 type 0 ;;
       RTL_W32 ERIDR (eri_merge v value len (addr mod 4) shift) ;;;
       RTL_W32 ERIAR (eri_cmd ERIAR_Write 0 type (addr / 4 * 4)) ;;;
       b <- poll R8125_CHANNEL_WAIT_COUNT (flag_clear ERIAR ERIAR_Flag) ;; k b) Q s.
Proof.
  intros Ht Ha Hb Hl Has Hsh Hsv Htot Htot4 Hval HQ.
  destruct (eri_next addr Ha) as (Hv & Had & Hm0 & Hal).
  assert (addr / 4 * 4 + 4 <= 65536) by (Z.to_euclidean_division_equations; lia).
  swp_step. apply swp_eri_read; [done|lia..|]. intros s1 H1 Hm1.
  apply (swp_eri_put type _ _ k); [done|lia|]. intros b s2 H2 Hm2.
  apply HQ; [exact (dev_only_trans _ _ _ H1 H2)|]. rewrite Hm2, Hm1.
  pose proof (eri_word_stored (mem s) type (addr / 4 * 4)
    (u32 (eri_merge (eri_bytes (mem s) type (addr / 4 * 4) 4) value len (addr mod 4) shift))
    (addr mod 4) (Z.min 4 (addr mod 4 + len)) (fun a => byte_of value (a - addr0))) as Hst.
  rewrite <- Had in Hst. replace (Z.min len (4 - addr mod 4)) with (Z.min 4 (addr mod 4 + len) - addr mod 4) by lia.
  apply Hst; [done|lia|done|lia|lia|]. intros i Hi.
  rewrite byte_of_u32 by done.
  rewrite (eri_merge_bytes _ _ _ _ _ tot), eri_bytes_aligned by lia.
  replace ((addr mod 4 <=? i) && (i <? addr mod 4 + len))
    with ((addr mod 4 <=? i) && (i <? Z.min 4 (addr mod 4 + len))) by (apply eq_true_iff_eq; blia).
  destruct (_ && _); [|done]. f_equal. lia.
Qed.

Lemma swp_eri_write addr len value type (s : nic D) (Q : Z -> nic D -> Prop) :
  0 <= type < 16 -> 0 <= addr -> 1 <= len <= 4 -> addr + len <= 65536 -> 0 <= value < 2 ^ (8 * len) ->
  (forall s', dev_only s s' ->
     eri_stored (mem s) (mem s') type addr len (fun a => byte_of value (a - addr)) -> Q 0 s') ->
  swp (rtl8125_eri_write addr len value type) Q s.
Proof.
  intros Ht Ha Hl Hb Hval HQ. unfold rtl8125_eri_write, rtl8125_eri_write_with_oob_base_address, s32.
  assert (2 ^ (8 * len) <= 2 ^ 32) by (apply Z.pow_le_mono_r; lia).
  unfold u32 at 2. rewrite (wrap_small 32 (addr + _)), (wrap_small 32 (len + _)), (wrap_small 32 value) by lia.
  rewrite !Z.add_simpl_r.
  destruct ((len >? 4) || (len <=? 0)) eqn:E; [blia|clear E]. change (u32 NO_BASE_ADDRESS) with 0.
  cbn [eri_write_loop]. destruct (len >? 0) eqn:E; [clear E|blia].
  unfold ERIAR_Addr_Align. rewrite Z.rem_mod_nonneg, align4 by lia.
  destruct (eri_next addr Ha) as (Hv & Had & Hm0 & Hal).
  apply (swp_eri_write_round type addr addr len value 0 len (fun _ => _)); [done|lia..| |].
  { exact Hval. }
  intros _ s1 H1 Hst1. swp_step; breflect.
  - swp_step. apply HQ; [done|]. by rewrite Z.min_l in Hst1 by lia.
  - destruct (len - _ >? 0) eqn:E; [clear E|blia]. rewrite Z.min_r in Hst1 by lia.
    rewrite (Z.rem_mod_nonneg (_ + 4)), align4 by lia.
    assert ((addr / 4 * 4 + 4) mod 4 = 0) as Hz by (Z.to_euclidean_division_equations; lia).
    apply (swp_eri_write_round type addr (addr / 4 * 4 + 4) (len - (4 - addr mod 4)) value
             (4 - addr mod 4) len (fun _ => _)); [done|lia..| |]; [exact Hval|].
    intros _ s2 H2 Hst2. rewrite Hz in *. destruct (_ <=? 4 - 0) eqn:E; [clear E|blia]. swp_step.
    apply HQ; [exact (dev_only_trans _ _ _ H1 H2)|].
    replace len with ((4 - addr mod 4) + (len - (4 - addr mod 4))) by lia.
    rewrite Z.min_l in Hst2 by lia. eapply eri_stored_app; [lia..|exact Hst1|].
    by replace (addr + (4 - addr mod 4)) with (addr / 4 * 4 + 4) by lia.
Qed.
(** What was stored reads back. *)
Lemma eri_stored_bytes m m' type addr len value :
  0 <= type < 16 -> 0 <= addr -> 1 <= len <= 4 -> addr + len <= 65536 -> 0 <= value < 2 ^ (8 * len) ->
  eri_stored m m' type addr len (fun a => byte_of value (a - addr)) ->
  eri_bytes m' type addr (Z.to_nat len) = value.
Proof.
  intros Ht Ha Hl Hb Hv [_ Hst]. apply Z.bits_inj'. intros k Hk. rewrite eri_bytes_testbit by lia.
  destruct (k <? _) eqn:E; breflect.
  - assert (0 <= k / 8 < len /\ 0 <= k mod 8 < 8 /\ k = 8 * (k / 8) + k mod 8)
      by (Z.to_euclidean_division_equations; lia).
    rewrite Hst by lia. rewrite Z.eqb_refl. cbn [andb].
    destruct ((addr <=? _) && (_ <? addr + len)) eqn:E2; [|blia].
    rewrite byte_of_testbit by lia. destruct (k mod 8 <? 8) eqn:E3; [|blia]. cbn [andb]. f_equal. lia.
  - by rewrite (testbit_high value (8 * len)) by lia.
Qed.

(** C28: The ERI window is a byte memory.  Writing [len] bytes (1 to 4) at any
    address, aligned or not, returns 0, replaces exactly those bytes of that
    window, low byte first, and changes no other register of the controller
    and nothing of the driver; a later read of any range returns the bytes it
    covers and changes nothing, so that reading the range back gives the value.
    The value must fit in [len] bytes. *)
Theorem eri_is_byte_memory addr len value type addr' len' type' (s : nic D) r s1 r' s2 :
  0 <= type < 16 -> 0 <= addr -> 1 <= len <= 4 -> addr + len <= 65536 ->
  0 <= value < 2 ^ (8 * len) ->
  0 <= type' < 16 -> 0 <= addr' -> 1 <= len' <= 4 -> addr' + len' <= 65536 ->
  rtl8125_eri_write addr len value type s = (r, s1) ->
  rtl8125_eri_read addr' len' type' s1 = (r', s2) ->
  r = 0 /\
  eri_stored (chan (dev s)) (chan (dev s1)) type addr len (fun a => byte_of value (a - addr)) /\
  r' = eri_bytes (chan (dev s1)) type' addr' (Z.to_nat len') /\
  chan (dev s2) = chan (dev s1) /\
  s2 = set_dev (dev s2) s /\
  (type' = type -> addr' = addr -> len' = len -> r' = value).
Proof.
  intros Ht Ha Hl Hb Hv Ht' Ha' Hl' Hb' E. revert r' s2. swp_start E.
  apply swp_eri_write; [done..|]. intros s1' H1 Hst r' s2 E2. swp_start E2.
  apply swp_eri_read; [done..|]. intros s2' H2 Hm. split_and!; try done.
  - exact (dev_only_trans _ _ _ H1 H2).
  - intros -> -> ->. by eapply eri_stored_bytes.
Qed.
End Eri.
