(* ===== verification/RtlToy.v ===== *)
(** * A concrete controller

    A controller that completes every command at once, as an instance of the
    register interface and of the channel laws; the theorems about the driver
    are applied to it on concrete inputs. *)
From S2P Require Import Prelude RtlBase RtlHw RtlHwSpec RtlEri.
Local Open Scope Z_scope.

(** The memories behind the channels with the plain registers, and what the
    other registers hold. *)
Record toy_nic := MkToyNic { t_chan : chan_mem; t_regs : gmap Z Z }.

Definition toy_get (r : Z) (d : toy_nic) : Z := t_regs d !!! r.
Definition toy_set (r v : Z) (d : toy_nic) : toy_nic := MkToyNic (t_chan d) (<[r := v]> (t_regs d)).
Definition toy_chan (f : chan_mem -> chan_mem) (d : toy_nic) : toy_nic :=
  MkToyNic (f (t_chan d)) (t_regs d).

(** The PHY microcontroller answers a patch request (0xB820 bit 4) at once, in
    bit 6 of 0xB800. *)
Definition toy_phy (m : chan_mem) (a : Z) : Z :=
  if a =? 0x5C00 then (if Z.testbit (phy m !!! 0x5C10) 4 then 0x40 else 0) else phy m !!! a.

Definition toy_put_phy (a v : Z) (m : chan_mem) : chan_mem := if a =? 0x5C00 then m else upd_phy a v m.

(** A command on a 16-bit channel: bit 31 writes; a read sets it when done. *)
Definition toy_cmd16 (reg v : Z) (rd : chan_mem -> Z -> Z) (upd : Z -> Z -> chan_mem -> chan_mem)
    (d : toy_nic) : toy_nic :=
  if 2 ^ 31 <=? v
  then toy_set reg (v - 2 ^ 31) (toy_chan (upd ((v - 2 ^ 31) / 2 ^ 16) (v mod 2 ^ 16)) d)
  else toy_set reg (2 ^ 31 + u16 (rd (t_chan d) (v / 2 ^ 16))) d.

Definition toy_writel (reg v : Z) (d : toy_nic) : toy_nic :=
  if reg =? PHYOCP then toy_cmd16 PHYOCP v toy_phy toy_put_phy d
  else if reg =? MACOCP then toy_cmd16 MACOCP v (fun m a => mac m !!! mac_cell m a) (fun a v m => upd_mac (mac_cell m a) v m) d
  else if reg =? EPHYAR then toy_cmd16 EPHYAR v (fun m a => ephy m !!! a) upd_ephy d
  else if reg =? ERIAR then
    if 2 ^ 31 <=? v
    then toy_set ERIAR (v - 2 ^ 31) (toy_chan (upd_eri (v - 2 ^ 31) (toy_get ERIDR d)) d)
    else toy_set ERIAR (2 ^ 31 + v) (toy_set ERIDR (eri (t_chan d) !!! v) d)
  else toy_set reg v d.

#[export] Instance toy_mmio : Mmio toy_nic := {
  readb r d := (if plain8 r then regs (t_chan d) !!! r else toy_get r d, d);
  readw r d := (toy_get r d, d);
  readl r d := (toy_get r d, d);
  writeb r v d := if plain8 r then toy_chan (put_reg8 r v) d else toy_set r v d;
  writew := toy_set;
  writel := toy_writel;
  pci_read_config _ r d := (toy_get (65536 + r) d, d);
  pci_write_config _ r v d := toy_set (65536 + r) v d
}.

Lemma toy_get_set r v d : toy_get r (toy_set r v d) = v.
Proof. apply lookup_total_insert_eq. Qed.

Lemma toy_get_set_ne r r' v d : r <> r' -> toy_get r (toy_set r' v d) = toy_get r d.
Proof. intros. apply lookup_total_insert_ne. congruence. Qed.

Lemma has_flag31_leb v : 0 <= v < 2 ^ 32 -> has v (2 ^ 31) = (2 ^ 31 <=? v).
Proof.
  intros Hv. rewrite has_flag31. apply eq_true_iff_eq. rewrite Z.testbit_true, Z.leb_le by lia.
  Z.to_euclidean_division_equations; lia.
Qed.

Lemma settles_now reg flag want (P : toy_nic -> Prop) d :
  has (u32 (toy_get reg d)) flag = want -> P d ->
  settles R8125_CHANNEL_WAIT_COUNT reg flag want P d.
Proof.
  intros Hf HP. unfold R8125_CHANNEL_WAIT_COUNT. replace 20000 with (Z.succ 19999) by done.
  rewrite Z2Nat.inj_succ by lia. cbn [settles readl toy_mmio]. rewrite Hf.
  by destruct want.
Qed.

Lemma settles_mono {D} `{Mmio D} n reg flag want (P P' : D -> Prop) d :
  (forall d', P d' -> P' d') -> settles n reg flag want P d -> settles n reg flag want P' d.
Proof.
  intros HP. revert d. induction n as [|n IH]; intros d; [done|]. cbn [settles].
  destruct (readl reg d). destruct (eqb _ want); auto.
Qed.

Lemma u16_sum31 x : u16 (2 ^ 31 + u16 x) = u16 x.
Proof. unfold u16, wrap. Z.to_euclidean_division_equations; lia. Qed.

(** The commands of a 16-bit channel [reg] of the toy controller. *)
Section Cmd16.
Variables (reg n : Z) (rd : chan_mem -> Z -> Z) (upd : Z -> Z -> chan_mem -> chan_mem).
Hypothesis Hreg : forall v d, toy_writel reg v d = toy_cmd16 reg v rd upd d.
Hypothesis Hn : 0 <= n <= 15.

Lemma toy_read16 d a : 0 <= a < 2 ^ n ->
  writel reg (a * 2 ^ 16) d = toy_set reg (2 ^ 31 + u16 (rd (t_chan d) a)) d.
Proof.
  intros Ha. assert (2 ^ n <= 2 ^ 15) by (apply Z.pow_le_mono_r; lia).
  cbn [writel toy_mmio]. rewrite Hreg. unfold toy_cmd16.
  destruct (2 ^ 31 <=? a * 2 ^ 16) eqn:E; [blia|]. by rewrite Z.div_mul by lia.
Qed.

Lemma toy_write16 d a v : 0 <= a < 2 ^ n -> 0 <= v < 2 ^ 16 ->
  writel reg (2 ^ 31 + a * 2 ^ 16 + v) d = toy_set reg (a * 2 ^ 16 + v) (toy_chan (upd a v) d).
Proof.
  intros Ha Hv. assert (2 ^ n <= 2 ^ 15) by (apply Z.pow_le_mono_r; lia).
  cbn [writel toy_mmio]. rewrite Hreg. unfold toy_cmd16.
  destruct (2 ^ 31 <=? 2 ^ 31 + a * 2 ^ 16 + v) eqn:E; [clear E|blia].
  replace (2 ^ 31 + a * 2 ^ 16 + v - 2 ^ 31) with (v + a * 2 ^ 16) by lia.
  replace (2 ^ 31 + a * 2 ^ 16 + v) with (v + (2 ^ 15 + a) * 2 ^ 16) by lia.
  rewrite Z.div_add, Z.div_small, Z.mod_add, Z.mod_small by lia. f_equal. lia.
Qed.

Lemma toy_settles_read d a : 0 <= a < 2 ^ n ->
  settles R8125_CHANNEL_WAIT_COUNT reg (2 ^ 31) true
    (fun d' => t_chan d' = t_chan d /\
               let '(v, d2) := readl reg d' in
               u16 v = u16 (rd (t_chan d) a) /\ t_chan d2 = t_chan d)
    (writel reg (a * 2 ^ 16) d).
Proof.
  intros Ha. rewrite toy_read16 by done. pose proof (u16_range (rd (t_chan d) a)).
  apply settles_now.
  - rewrite toy_get_set. unfold u32. rewrite wrap_small by lia. rewrite has_flag31_leb by lia. blia.
  - cbn [readl toy_mmio]. rewrite toy_get_set, u16_sum31. done.
Qed.

Lemma toy_settles_write d a v : 0 <= a < 2 ^ n -> 0 <= v < 2 ^ 16 ->
  settles R8125_CHANNEL_WAIT_COUNT reg (2 ^ 31) false
    (fun d' => t_chan d' = upd a v (t_chan d)) (writel reg (2 ^ 31 + a * 2 ^ 16 + v) d).
Proof.
  intros Ha Hv. assert (2 ^ n <= 2 ^ 15) by (apply Z.pow_le_mono_r; lia).
  rewrite toy_write16 by done. apply settles_now; [|done].
  rewrite toy_get_set. unfold u32. rewrite wrap_small by lia. rewrite has_flag31_leb by lia. blia.
Qed.
End Cmd16.

Lemma toy_writel_eriar v d : toy_writel ERIAR v d =
  if 2 ^ 31 <=? v
  then toy_set ERIAR (v - 2 ^ 31) (toy_chan (upd_eri (v - 2 ^ 31) (toy_get ERIDR d)) d)
  else toy_set ERIAR (2 ^ 31 + v) (toy_set ERIDR (eri (t_chan d) !!! v) d).
Proof. done. Qed.

#[export] Instance toy_laws : NicLaws toy_nic.
Proof.
  refine {| chan := t_chan; phy_plain a := negb (a =? 0x5C00); mac_plain _ := true |}.
  - intros d a Ha. pose proof (toy_settles_read PHYOCP 15 toy_phy toy_put_phy
      ltac:(done) ltac:(lia) d a Ha) as H.
    eapply settles_mono; [|exact H]. intros d' [Hc Hr]. split; [done|].
    destruct (readl PHYOCP d') as [v d2]. destruct Hr as [-> ?]. split; [|done].
    unfold toy_phy. destruct (a =? 0x5C00); done.
  - intros d a v Ha Hv _. pose proof (toy_settles_write PHYOCP 15 toy_phy toy_put_phy
      ltac:(done) ltac:(lia) d a v Ha Hv) as H.
    eapply settles_mono; [|exact H]. intros d' ->. unfold toy_put_phy. by destruct (a =? 0x5C00).
  - intros d a Ha. rewrite (toy_read16 MACOCP 15 (fun m a => mac m !!! mac_cell m a)
      (fun a v m => upd_mac (mac_cell m a) v m)) by done.
    cbn [readl toy_mmio]. rewrite toy_get_set, u16_sum31. done.
  - intros d a v Ha Hv. by rewrite (toy_write16 MACOCP 15 (fun m a => mac m !!! mac_cell m a)
      (fun a v m => upd_mac (mac_cell m a) v m)).
  - done.
  - done.
  - intros d r Hr. cbn [readb toy_mmio]. by rewrite Hr.
  - intros d r v Hr Hv. cbn [writeb toy_mmio]. by rewrite Hr.
  - intros. by apply (toy_settles_read EPHYAR 7 (fun m a => ephy m !!! a) upd_ephy).
  - intros. by apply (toy_settles_write EPHYAR 7 (fun m a => ephy m !!! a) upd_ephy).
  - intros d c Hc. cbn [writel toy_mmio]. rewrite toy_writel_eriar.
    destruct (2 ^ 31 <=? c) eqn:E; [blia|]. apply settles_now.
    + rewrite toy_get_set. unfold u32. rewrite wrap_small by lia.
      change ERIAR_Flag with (2 ^ 31). rewrite has_flag31_leb by lia. blia.
    + cbn [readl toy_mmio]. rewrite toy_get_set_ne, toy_get_set by done. done.
  - intros d c v Hc Hv. cbn [writel toy_mmio]. rewrite toy_writel_eriar.
    change (toy_writel ERIDR v d) with (toy_set ERIDR v d).
    destruct (2 ^ 31 <=? 2 ^ 31 + c) eqn:E; [clear E|blia]. rewrite toy_get_set, Z.add_simpl_l.
    apply settles_now; [|done]. rewrite toy_get_set. unfold u32. rewrite wrap_small by lia.
    change ERIAR_Flag with (2 ^ 31). rewrite has_flag31_leb by lia. blia.
Defined.

(** A driver on a fresh controller. *)
Definition toy_hw : hw_info :=
  MkHw 4 1 2 4 1 3 5 5 6 0xFF 0xFF 0 0x2600 2 4 4 [0x3C] [0x38] 1 128 4 1 0x10000.

(** A chip of CFG_METHOD_4: 2.5G, magic packets, the page size of the MAC
    microcode; gigabit lite on. *)
Definition toy_feat : hw_features :=
  MkFeat 0 2500 3 3 1 1 1 2 256 1 1 3 0x16C 0 0 0 0 0 0x0b17 0 0 1 32 true 0x40 0 0 0
    1 1 0 0 0 0 0x26.

Definition toy_drv : drv_state :=
  MkDrv (MkSpeed 1 2500 1 0 1 0) (MkNego 0 0 0 0 0 0 0) (MkWol 0 0 0 0) (MkEee 0x8028 0x8028 1 1546)
    (MkMcu 1 0x0b17 0 0) (MkNet true false false 1500 0x600 0 0)
    (MkBak [] [] [] 0 0 [0; 0xE0; 0x4C; 1; 2; 3] [] 0).

Definition toy : nic toy_nic :=
  MkNic toy_hw toy_feat (MkOcp 0 0 0) (MkEeprom 0 0) (MkFiber 0 0) (MkRss 0 [] []) toy_drv
    (MkToyNic (MkChan ∅ ∅ ∅ ∅ ∅) ∅).

(** The same driver on a chip of CFG_METHOD_[m], with the management firmware
    [dash] on or off. *)
Definition toy_chip (m dash : Z) : nic toy_nic :=
  set_hw (MkHw m 1 2 4 dash 3 5 5 6 0xFF 0xFF 0 0x2600 2 4 4 [0x3C] [0x38] 1 128 4 1 0x10000) toy.

Lemma mdio_paged_round_trip_witness :
  exists s', select_write_read 0xA43 0x10 0x12345 toy = (0x2345, s') /\ phy (t_chan (dev s')) !! 0x521A = None.
Proof.
  destruct (select_write_read 0xA43 0x10 0x12345 toy) as [r s'] eqn:E. exists s'.
  destruct (mdio_paged_round_trip 0xA43 0x10 0x12345 toy r s') as (-> & Hm & _);
    [done|right; lia|lia|done|done|exact E|]. split; [done|]. cbn [chan toy_laws] in Hm. by rewrite Hm.
Defined.

Lemma eri_is_byte_memory_witness :
  exists s1 s2, rtl8125_eri_write 0x1003 2 0xBEEF 2 toy = (0, s1) /\
    rtl8125_eri_read 0x1003 2 2 s1 = (0xBEEF, s2).
Proof.
  destruct (rtl8125_eri_write 0x1003 2 0xBEEF 2 toy) as [r s1] eqn:E1.
  destruct (rtl8125_eri_read 0x1003 2 2 s1) as [r' s2] eqn:E2. exists s1, s2.
  destruct (eri_is_byte_memory 0x1003 2 0xBEEF 2 0x1003 2 2 toy r s1 r' s2)
    as (Hr & _ & _ & _ & _ & Hr');
    [lia|lia|lia|lia|lia|lia|lia|lia|lia|exact E1|exact E2|].
  rewrite E2, Hr, (Hr' eq_refl eq_refl eq_refl). split; reflexivity.
Defined.

(** A value that does not fit in the length spills into the bytes above it:
    one byte is asked for at address 0 and the byte at address 1 changes. *)
Example eri_write_spills :
  fst (rtl8125_eri_read 1 1 0 (snd (rtl8125_eri_write 0 1 0x1FF 0 toy))) = 1.
Proof. vm_compute. reflexivity. Qed.
