(* ===== verification/RtlIrq.v ===== *)
(** * r8125: interrupt masks, vectors, mitigation and reset

    src/.../realtek/r8125/r8125_n.c lines 4353 to 4721 (and the two inline
    helpers of r8125.h): which mask and status registers each interrupt scheme
    ([HwCurrIsrVer], [HwSuppIsrVer]) uses, which queue an MSI-X message belongs
    to, the mitigation timers, and the reset of the controller. *)
From S2P Require Import Prelude RtlBase RtlHw.
Local Open Scope Z_scope.
Local Open Scope rtl_scope.

Definition IMR_V2_CLEAR_REG_8125 : Z := 0x0D00.
Definition ISR_V2_8125 : Z := 0x0D04.
Definition IMR_V2_SET_REG_8125 : Z := 0x0D0C.
Definition IMR_V4_L2_CLEAR_REG_8125 : Z := 0x0D10.
Definition ISR_V4_L2_8125 : Z := 0x0D14.
Definition ISRIMR_V2_LINKCHG : Z := BIT 21.
Definition ISRIMR_V4_LINKCHG : Z := BIT 29.
Definition ISRIMR_V5_LINKCHG : Z := BIT 18.
Definition ISRIMR_V7_LINKCHG : Z := BIT 29.
Definition LinkChg : Z := 0x20.
Definition other_q_intr_mask : Z := 3.
Definition TCTR0_8125 : Z := 0x48.
Definition TIMER_INT0_8125 : Z := 0x58.
Definition TIMER_INT1_8125 : Z := 0x5C.
Definition TIMER_INT2_8125 : Z := 0x8C.
Definition TIMER_INT3_8125 : Z := 0xF4.
Definition INT_CFG0_8125 : Z := 0x34.
Definition INT_CFG1_8125 : Z := 0x7A.
Definition INT_CFG0_ENABLE_8125 : Z := BIT 0.
Definition INT_CFG0_TIMEOUT0_BYPASS_8125 : Z := BIT 1.
Definition INT_CFG0_MITIGATION_BYPASS_8125 : Z := BIT 2.
Definition INT_CFG0_RDU_BYPASS_8126 : Z := BIT 4.
Definition INT_CFG0_MSIX_ENTRY_NUM_MODE : Z := BIT 5.
Definition INT_CFG0_AUTO_CLEAR_IMR : Z := BIT 5.
Definition INT_CFG0_AVOID_MISS_INTR : Z := BIT 6.
Definition INT_MITI_V2_0_RX : Z := 0x0A00.
Definition INT_MITI_V2_0_TX : Z := 0x0A02.
Definition R8125_MAX_RX_QUEUES_VEC_V3 : Z := 16.
Definition RxConfig : Z := 0x44.
(** AcceptErr, AcceptRunt, AcceptBroadcast, AcceptMulticast, AcceptMyPhys and
    AcceptAllPhys together. *)
Definition accept_mask : Z := Z.lor 0x20 (Z.lor 0x10 (Z.lor 8 (Z.lor 4 (Z.lor 2 1)))).
Definition RX_DMA_BURST_512 : Z := 5.
Definition RxCfgDMAShift : Z := 8.

(** [R8125_MULTI_RX_Q] *)
Definition R8125_MULTI_RX_Q (h : hw_info) : bool := num_rx_rings h >? 1.

(** The array entries a loop [for (i = 1; i < num_rx_rings; i++)] visits. *)
Definition other_queues (h : hw_info) : list nat := seq 1 (Z.to_nat (num_rx_rings h) - 1).

Definition imr (h : hw_info) (i : nat) : Z := nth i (imr_reg h) 0.
Definition isr (h : hw_info) (i : nat) : Z := nth i (isr_reg h) 0.

Section Irq.
Context {D : Type} `{HM : Mmio D}.
Abbreviation ST := (St (nic D)).

Definition rtl8125_enable_hw_linkchg_interrupt : ST unit :=
  h <- tp_get hw ;;
  if HwCurrIsrVer h =? 7 then RTL_W32 IMR_V2_SET_REG_8125 ISRIMR_V7_LINKCHG
  else if HwCurrIsrVer h =? 5 then RTL_W32 IMR_V2_SET_REG_8125 ISRIMR_V5_LINKCHG
  else if HwCurrIsrVer h =? 4 then RTL_W32 IMR_V2_SET_REG_8125 ISRIMR_V4_LINKCHG
  else if (HwCurrIsrVer h =? 2) || (HwCurrIsrVer h =? 3) then
    RTL_W32 IMR_V2_SET_REG_8125 ISRIMR_V2_LINKCHG
  else if HwCurrIsrVer h =? 1 then
    v <- RTL_R32 (imr h 0) ;; RTL_W32 (imr h 0) (Z.lor LinkChg v)
  else sret tt.

Definition rtl8125_enable_hw_interrupt : ST unit :=
  h <- tp_get hw ;;
  if existsb (Z.eqb (HwCurrIsrVer h)) [2; 3; 4; 5; 7] then
    RTL_W32 IMR_V2_SET_REG_8125 (intr_mask h)
  else if HwCurrIsrVer h =? 1 then
    RTL_W32 (imr h 0) (intr_mask h) ;;;
    swhen (R8125_MULTI_RX_Q h)
      (sfor (other_queues h) (fun i => RTL_W16 (imr h i) other_q_intr_mask))
  else sret tt.

Definition rtl8125_clear_hw_isr_v2 (message_id : Z) : ST unit :=
  RTL_W32 ISR_V2_8125 (BIT message_id).

Definition rtl8125_disable_hw_interrupt_v2 (message_id : Z) : ST unit :=
  RTL_W32 IMR_V2_CLEAR_REG_8125 (BIT message_id).

Definition rtl8125_enable_hw_interrupt_v2 (message_id : Z) : ST unit :=
  RTL_W32 IMR_V2_SET_REG_8125 (BIT message_id).

Definition rtl8125_disable_hw_interrupt : ST unit :=
  h <- tp_get hw ;;
  if HwCurrIsrVer h >? 1 then
    RTL_W32 IMR_V2_CLEAR_REG_8125 0xFFFFFFFF ;;;
    swhen (HwCurrIsrVer h >? 3) (RTL_W32 IMR_V4_L2_CLEAR_REG_8125 0xFFFFFFFF)
  else
    RTL_W32 (imr h 0) 0 ;;;
    swhen (R8125_MULTI_RX_Q h) (sfor (other_queues h) (fun i => RTL_W16 (imr h i) 0)).

Definition rtl8125_switch_to_hw_interrupt : ST unit :=
  RTL_W32 TIMER_INT0_8125 0 ;;; rtl8125_enable_hw_interrupt.

Definition rtl8125_switch_to_timer_interrupt : ST unit :=
  h <- tp_get hw ;;
  if tst (use_timer_interrupt h) then
    RTL_W32 TIMER_INT0_8125 (timer_count h) ;;;
    RTL_W32 TCTR0_8125 (timer_count h) ;;;
    RTL_W32 (imr h 0) (timer_intr_mask h)
  else rtl8125_switch_to_hw_interrupt.

Definition rtl8125_irq_mask_and_ack : ST unit :=
  rtl8125_disable_hw_interrupt ;;;
  h <- tp_get hw ;;
  if HwCurrIsrVer h >? 1 then
    RTL_W32 ISR_V2_8125 0xFFFFFFFF ;;;
    swhen (HwCurrIsrVer h >? 3) (RTL_W32 ISR_V4_L2_8125 0xFFFFFFFF)
  else
    v <- RTL_R32 (isr h 0) ;;
    RTL_W32 (isr h 0) v ;;;
    swhen (R8125_MULTI_RX_Q h)
      (sfor (other_queues h) (fun i => v <- RTL_R16 (isr h i) ;; RTL_W16 (isr h i) v)).

Definition rtl8125_disable_rx_packet_filter : ST unit :=
  v <- RTL_R32 RxConfig ;;
  RTL_W32 RxConfig (Z.land v (Z.lnot accept_mask)).

Definition rtl8125_nic_reset : ST unit :=
  rtl8125_disable_rx_packet_filter ;;;
  rtl8125_enable_rxdvgate ;;;
  rtl8125_stop_all_request ;;;
  rtl8125_wait_txrx_fifo_empty ;;;
  rtl8125_clear_stop_all_request ;;;
  RTL_W8 ChipCmd CmdReset ;;;
  poll 100 (v <- RTL_R8 ChipCmd ;; sret (Z.land v CmdReset =? 0)) ;;;
  RTL_W32 RxConfig (Z.shiftl RX_DMA_BURST_512 RxCfgDMAShift).

Definition rtl8125_hw_set_interrupt_type (isr_ver : Z) : ST unit :=
  let isr_ver := u8 isr_ver in
  h <- tp_get hw ;;
  let ver := HwSuppIsrVer h in
  if ver <? 2 then sret tt
  else
    tmp <- RTL_R8 INT_CFG0_8125 ;;
    if existsb (Z.eqb ver) [2; 3; 4; 5; 7] then
      let tmp := if ver =? 7 then Z.land tmp (Z.lnot INT_CFG0_AVOID_MISS_INTR) else tmp in
      let tmp := if ver =? 7 then Z.land tmp (Z.lnot INT_CFG0_AUTO_CLEAR_IMR)
                 else if (ver =? 4) || (ver =? 5)
                      then Z.land tmp (Z.lnot INT_CFG0_MSIX_ENTRY_NUM_MODE)
                      else tmp in
      let tmp := Z.land tmp (Z.lnot INT_CFG0_ENABLE_8125) in
      let tmp := if isr_ver >? 1 then Z.lor tmp INT_CFG0_ENABLE_8125 else tmp in
      RTL_W8 INT_CFG0_8125 tmp
    else sret tt.

Definition rtl8125_hw_clear_timer_int : ST unit :=
  RTL_W32 TIMER_INT0_8125 0 ;;;
  RTL_W32 TIMER_INT1_8125 0 ;;;
  RTL_W32 TIMER_INT2_8125 0 ;;;
  RTL_W32 TIMER_INT3_8125 0.

(** The registers of [for (i = 0xA00; i < 0xA00 + 4 * n; i += 4)]. *)
Definition int_miti_regs (n : nat) : list Z := map (fun k => 0xA00 + 4 * Z.of_nat k) (seq 0 n).

Definition rtl8125_hw_clear_int_miti : ST unit :=
  h <- tp_get hw ;;
  let ver := HwSuppIntMitiVer h in
  if (ver =? 3) || (ver =? 6) then sfor (int_miti_regs 64) (fun i => RTL_W32 i 0)
  else if (ver =? 4) || (ver =? 5) then
    sfor (int_miti_regs 32) (fun i => RTL_W32 i 0) ;;;
    v <- RTL_R8 INT_CFG0_8125 ;;
    RTL_W8 INT_CFG0_8125
      (Z.land v (Z.lnot
        (if ver =? 5
         then Z.lor (Z.lor INT_CFG0_TIMEOUT0_BYPASS_8125 INT_CFG0_MITIGATION_BYPASS_8125)
                    INT_CFG0_RDU_BYPASS_8126
         else Z.lor INT_CFG0_TIMEOUT0_BYPASS_8125 INT_CFG0_MITIGATION_BYPASS_8125))) ;;;
    RTL_W16 INT_CFG1_8125 0
  else sret tt.

(** The message ids of the two transmit queues, per interrupt scheme. *)
Definition rtl8125_vec_2_tx_q_num (h : hw_info) (messageId : Z) : option Z :=
  let q (m0 m1 : Z) :=
    if messageId =? m0 then Some 0
    else if (messageId =? m1) && (num_tx_rings h >? 1) then Some 1
    else None in
  if HwSuppIsrVer h =? 2 then q 0x10 0x12
  else if (HwSuppIsrVer h =? 3) || (HwSuppIsrVer h =? 4) then q 0x00 0x01
  else if HwSuppIsrVer h =? 5 then q 0x10 0x11
  else if HwSuppIsrVer h =? 6 then q 0x08 0x09
  else if HwSuppIsrVer h =? 7 then q 0x1B 0x1C
  else None.

Definition rtl8125_vec_2_rx_q_num (h : hw_info) (messageId : Z) : option Z :=
  if existsb (Z.eqb (HwSuppIsrVer h)) [2; 3; 4; 5; 6; 7]
  then if messageId <? HwSuppNumRxQueues h then Some messageId else None
  else None.

Definition rtl8125_hw_set_timer_int (message_id timer_intmiti_val : Z) : ST unit :=
  let timer_intmiti_val := u8 timer_intmiti_val in
  h <- tp_get hw ;;
  if existsb (Z.eqb (HwSuppIntMitiVer h)) [4; 5; 6] then
    let val := if (HwCurrIsrVer h =? 2) && (message_id <? R8125_MAX_RX_QUEUES_VEC_V3)
               then 0 else timer_intmiti_val in
    match rtl8125_vec_2_rx_q_num h message_id with
    | Some qnum => RTL_W8 (INT_MITI_V2_0_RX + 8 * qnum) val
    | None => sret tt
    end ;;;
    match rtl8125_vec_2_tx_q_num h message_id with
    | Some qnum => RTL_W8 (INT_MITI_V2_0_TX + 8 * qnum) val
    | None => sret tt
    end
  else sret tt.

Definition rtl8125_hw_reset : ST unit :=
  rtl8125_irq_mask_and_ack ;;;
  rtl8125_hw_clear_timer_int ;;;
  rtl8125_nic_reset.

End Irq.
