(* ===== verification/RtlWol.v ===== *)
(** * r8125: configuration lock, wake-up and low-power settings

    src/.../realtek/r8125/r8125_n.c: the write lock of the configuration
    registers (Cfg9346), the wake-up options and how they are put into the
    Config registers and the MAC, the speed-up of D0, the PCI offsets 0x99 and
    0x180, and what the driver sets before the controller enters D3.

    ENABLE_REALWOW_SUPPORT is not defined in the Makefile. *)
From S2P Require Import Prelude RtlBase RtlHw RtlIrq.
Local Open Scope Z_scope.
Local Open Scope rtl_scope.

(** ** Registers (r8125.h) and wake-up options (ethtool.h) *)

Definition Cfg9346 : Z := 0x50.
Definition Config1 : Z := 0x52.
Definition Config2 : Z := 0x53.
Definition Config3 : Z := 0x54.
Definition Config5 : Z := 0x56.
Definition RxMaxSize : Z := 0xDA.
Definition Cfg9346_EEM_MASK : Z := 0xC0.
Definition Cfg9346_Unlock : Z := 0xC0.
Definition PMEnable : Z := BIT 0.
Definition LinkUp : Z := BIT 4.
Definition BWF : Z := BIT 6.
Definition MWF : Z := BIT 5.
Definition UWF : Z := BIT 4.
Definition LanWake : Z := BIT 1.
Definition RX_BUF_SIZE : Z := 0x05F2.

Definition WAKE_PHY : Z := BIT 0.
Definition WAKE_UCAST : Z := BIT 1.
Definition WAKE_MCAST : Z := BIT 2.
Definition WAKE_BCAST : Z := BIT 3.
Definition WAKE_MAGIC : Z := BIT 5.
Definition WAKE_ANY : Z :=
  Z.lor WAKE_PHY (Z.lor WAKE_MAGIC (Z.lor WAKE_UCAST (Z.lor WAKE_BCAST WAKE_MCAST))).
Definition WOL_DISABLED : Z := 0.
Definition WOL_ENABLED : Z := 1.
Definition WAKEUP_MAGIC_PACKET_V3 : Z := 3.
Definition WAKEUP_MAGIC_PACKET_NOT_SUPPORT : Z := 0.

Definition D0_SPEED_UP_SPEED_DISABLE : Z := 0.
Definition D0_SPEED_UP_SPEED_1000 : Z := 1.
Definition D0_SPEED_UP_SPEED_2500 : Z := 2.
Definition rtl8125_fc_none : Z := 0.
Definition rtl8125_fc_rx_pause : Z := 1.
Definition rtl8125_fc_tx_pause : Z := 2.
Definition rtl8125_fc_full : Z := 3.
Definition PCI_PM_CTRL : Z := 4.
Definition PCI_PM_CTRL_PME_STATUS : Z := 0x8000.
Definition PCI_PM_CTRL_PME_ENABLE : Z := 0x0100.
Definition EOPNOTSUPP : Z := 95.

(** The bits [n] to [m] of a mask, as [BIT_n | .. | BIT_m]. *)
Definition bits_or (l : list Z) : Z := foldr (fun n m => Z.lor (BIT n) m) 0 l.

Definition HW_SUPPORT_D0_SPEED_UP (f : hw_features) : bool := HwSuppD0SpeedUpVer f >? 0.

Section Wol.
Context {D : Type} `{HM : Mmio D}.
Abbreviation ST := (St (nic D)).

(** [RTL_W8(tp, reg, RTL_R8(tp, reg) | m)] and [.. & ~m)]. *)
Definition RTL_set8 (reg m : Z) : ST unit := v <- RTL_R8 reg ;; RTL_W8 reg (Z.lor v m).
Definition RTL_clear8 (reg m : Z) : ST unit := v <- RTL_R8 reg ;; RTL_W8 reg (Z.land v (Z.lnot m)).

(** ** The lock of the configuration registers *)

Definition rtl8125_enable_cfg9346_write : ST unit := RTL_set8 Cfg9346 Cfg9346_Unlock.

Definition rtl8125_disable_cfg9346_write : ST unit := RTL_clear8 Cfg9346 Cfg9346_Unlock.

Definition rtl8125_enable_force_clkreq (enable : bool) : ST unit :=
  if enable then RTL_set8 0xF1 (BIT 7) else RTL_clear8 0xF1 (BIT 7).

Definition rtl8125_enable_aspm_clkreq_lock (enable : bool) : ST unit :=
  v <- RTL_R8 Cfg9346 ;;
  let unlock_cfg_wr := negb (Z.land v Cfg9346_EEM_MASK =? Cfg9346_Unlock) in
  swhen unlock_cfg_wr rtl8125_enable_cfg9346_write ;;;
  (if enable then RTL_set8 Config2 (BIT 7) ;;; RTL_set8 Config5 (BIT 0)
   else RTL_clear8 Config2 (BIT 7) ;;; RTL_clear8 Config5 (BIT 0)) ;;;
  swhen unlock_cfg_wr rtl8125_disable_cfg9346_write.

(** ** Wake-up *)

Definition rtl8125_enable_magic_packet : ST unit :=
  f <- tp_get feat ;;
  swhen (HwSuppMagicPktVer f =? WAKEUP_MAGIC_PACKET_V3)
    (v <- rtl8125_mac_ocp_read 0xC0B6 ;; rtl8125_mac_ocp_write 0xC0B6 (Z.lor v (BIT 0))).

Definition rtl8125_disable_magic_packet : ST unit :=
  f <- tp_get feat ;;
  swhen (HwSuppMagicPktVer f =? WAKEUP_MAGIC_PACKET_V3)
    (v <- rtl8125_mac_ocp_read 0xC0B6 ;; rtl8125_mac_ocp_write 0xC0B6 (Z.land v (Z.lnot (BIT 0)))).

Definition rtl8125_enable_linkchg_wakeup : ST unit :=
  f <- tp_get feat ;;
  swhen (HwSuppLinkChgWakeUpVer f =? 3)
    (RTL_set8 Config3 LinkUp ;;;
     rtl8125_clear_set_mac_ocp_bit 0xE0C6 (bits_or [5; 3; 2]) (bits_or [4; 1; 0])).

Definition rtl8125_disable_linkchg_wakeup : ST unit :=
  f <- tp_get feat ;;
  swhen (HwSuppLinkChgWakeUpVer f =? 3)
    (RTL_clear8 Config3 LinkUp ;;;
     v <- rtl8125_mac_ocp_read 0xE0C6 ;;
     swhen (negb (has v (BIT 0)))
       (rtl8125_clear_set_mac_ocp_bit 0xE0C6 (bits_or [5; 3; 2; 1]) (BIT 4))).

(** [if (options & bit) wol_opts |= opt;] *)
Definition wol_bit (options bit opt : Z) : Z := if has options bit then opt else 0.

Definition rtl8125_get_hw_wol : ST Z :=
  f <- tp_get feat ;;
  if tst (disable_wol_support f) then sret 0
  else
    options <- RTL_R8 Config1 ;;
    if negb (has options PMEnable) then sret 0
    else
      options <- RTL_R8 Config3 ;;
      let wol_opts := wol_bit options LinkUp WAKE_PHY in
      magic <- (if HwSuppMagicPktVer f =? WAKEUP_MAGIC_PACKET_V3
                then csi_tmp <- rtl8125_mac_ocp_read 0xC0B6 ;; sret (wol_bit csi_tmp (BIT 0) WAKE_MAGIC)
                else sret 0) ;;
      let wol_opts := Z.lor wol_opts magic in
      options <- RTL_R8 Config5 ;;
      let wol_opts := Z.lor wol_opts (wol_bit options UWF WAKE_UCAST) in
      let wol_opts := Z.lor wol_opts (wol_bit options BWF WAKE_BCAST) in
      sret (Z.lor wol_opts (wol_bit options MWF WAKE_MCAST)).

(** The rows of [cfg] the loop of [rtl8125_set_hw_wol] uses: the magic-packet
    row, the last one, is left out on every path ([tmp = ARRAY_SIZE(cfg) - 1]). *)
Definition wol_cfg : list (Z * (Z * Z)) :=
  [(WAKE_PHY, (Config3, LinkUp)); (WAKE_UCAST, (Config5, UWF)); (WAKE_BCAST, (Config5, BWF));
   (WAKE_MCAST, (Config5, MWF)); (WAKE_ANY, (Config5, LanWake))].

Definition wol_row (wolopts : Z) (row : Z * (Z * Z)) : ST unit :=
  let '(opt, (reg, mask)) := row in
  v <- RTL_R8 reg ;;
  let options := u8 (Z.land v (Z.lnot mask)) in
  RTL_W8 reg (if has wolopts opt then Z.lor options mask else options).

Definition rtl8125_set_hw_wol (wolopts : Z) : ST unit :=
  (if has wolopts WAKE_MAGIC then rtl8125_enable_magic_packet else rtl8125_disable_magic_packet) ;;;
  rtl8125_enable_cfg9346_write ;;;
  sfor wol_cfg (wol_row wolopts) ;;;
  f <- tp_get feat ;;
  swhen (HwSuppLinkChgWakeUpVer f =? 3)
    (if has wolopts WAKE_PHY then rtl8125_enable_linkchg_wakeup else rtl8125_disable_linkchg_wakeup) ;;;
  rtl8125_disable_cfg9346_write.

(** [rtl8125_get_wol]: the supported options and the current ones. *)
Definition rtl8125_get_wol : ST (Z * Z) :=
  m <- tp_get (fun s => mcfg s) ;;
  f <- tp_get feat ;;
  if (m =? CFG_METHOD_DEFAULT) || tst (disable_wol_support f) then sret (0, 0)
  else
    options <- RTL_R8 Config1 ;;
    if negb (has options PMEnable) then sret (WAKE_ANY, 0)
    else
      w <- tp_get (fun s => wol_opts s) ;;
      sret (WAKE_ANY, w).

Definition set_wol_request (opts enabled : Z) (s : nic D) : nic D :=
  set_wol (MkWol opts enabled (resume_not_chg_speed s) (check_keep_link_speed s)) s.

Definition rtl8125_set_wol (wolopts : Z) : ST Z :=
  m <- tp_get (fun s => mcfg s) ;;
  f <- tp_get feat ;;
  if (m =? CFG_METHOD_DEFAULT) || tst (disable_wol_support f) then sret (- EOPNOTSUPP)
  else
    smodify (set_wol_request wolopts (if tst wolopts then WOL_ENABLED else WOL_DISABLED)) ;;;
    sret 0.

(** The initial options, read back from the controller when it is probed (the
    last lines of [rtl8125_init_software_variable]). *)
Definition init_wol : ST unit :=
  w <- rtl8125_get_hw_wol ;;
  smodify (set_wol_request w (if tst w then WOL_ENABLED else WOL_DISABLED)).

Definition rtl8125_set_pci_pme (set : Z) : ST unit :=
  f <- tp_get feat ;;
  if negb (tst (pm_cap f)) then sret tt
  else
    pmc <- on_dev (pci_read_config 2 (pm_cap f + PCI_PM_CTRL)) ;;
    let pmc := Z.lor (u16 pmc) PCI_PM_CTRL_PME_STATUS in
    let pmc := if tst set then Z.lor pmc PCI_PM_CTRL_PME_ENABLE
               else Z.land pmc (Z.lnot PCI_PM_CTRL_PME_ENABLE) in
    on_dev_ (pci_write_config 2 (pm_cap f + PCI_PM_CTRL) (u16 pmc)).

(** ** Speed-up in D0 *)

(** The clear and set masks of the flow control word of the speed-up. *)
Definition d0_flow_mask (f : hw_features) : Z :=
  if HwSuppD0SpeedUpVer f =? 2 then bits_or [15; 14; 13] else bits_or [15; 14].

Definition rtl8125_enable_d0_speedup : ST unit :=
  s <- tp_get id ;;
  if negb (HW_SUPPORT_D0_SPEED_UP s) then sret tt
  else if D0SpeedUpSpeed s =? D0_SPEED_UP_SPEED_DISABLE then sret tt
  else
    swhen ((HwSuppD0SpeedUpVer s =? 1) || (HwSuppD0SpeedUpVer s =? 2))
      (rtl8125_clear_set_mac_ocp_bit 0xE10A (bits_or [10; 9; 8; 7])
         (if D0SpeedUpSpeed s =? D0_SPEED_UP_SPEED_2500 then BIT 7 else 0) ;;;
       rtl8125_clear_set_mac_ocp_bit 0xE860 (d0_flow_mask s)
         (if fcpause s =? rtl8125_fc_full then d0_flow_mask s else 0)) ;;;
    RTL_set8 0xD0 (BIT 3).

Definition rtl8125_disable_d0_speedup : ST unit :=
  f <- tp_get feat ;;
  if negb (HW_SUPPORT_D0_SPEED_UP f) then sret tt else RTL_clear8 0xD0 (BIT 3).

(** ** PCI offsets 0x99 and 0x180, the L1 mask, the tally counter *)

Definition rtl8125_issue_offset_99_event : ST unit :=
  v <- rtl8125_mac_ocp_read 0xE09A ;; rtl8125_mac_ocp_write 0xE09A (Z.lor v (BIT 0)).

Definition rtl8125_disable_pci_offset_99 : ST unit :=
  v <- rtl8125_mac_ocp_read 0xE032 ;;
  rtl8125_mac_ocp_write 0xE032 (Z.land v (Z.lnot (bits_or [0; 1]))) ;;;
  rtl8125_csi_fun0_write_byte 0x99 0x00.

Definition rtl8125_enable_pci_offset_99 : ST unit :=
  org <- tp_get (fun s => org_pci_offset_99 s) ;;
  rtl8125_csi_fun0_write_byte 0x99 org ;;;
  csi_tmp <- rtl8125_mac_ocp_read 0xE032 ;;
  let csi_tmp := Z.land csi_tmp (Z.lnot (bits_or [0; 1])) in
  let csi_tmp := if has org (bits_or [5; 6]) then Z.lor csi_tmp (BIT 1) else csi_tmp in
  let csi_tmp := if has org (BIT 2) then Z.lor csi_tmp (BIT 0) else csi_tmp in
  rtl8125_mac_ocp_write 0xE032 csi_tmp.

Definition rtl8125_init_pci_offset_99 : ST unit :=
  rtl8125_mac_ocp_write 0xCDD0 0x9003 ;;;
  rtl8125_set_mac_ocp_bit 0xE034 (bits_or [15; 14]) ;;;
  rtl8125_mac_ocp_write 0xCDD2 0x889C ;;;
  rtl8125_mac_ocp_write 0xCDD8 0x9003 ;;;
  rtl8125_mac_ocp_write 0xCDD4 0x8C30 ;;;
  rtl8125_mac_ocp_write 0xCDDA 0x9003 ;;;
  rtl8125_mac_ocp_write 0xCDD6 0x9003 ;;;
  rtl8125_mac_ocp_write 0xCDDC 0x9003 ;;;
  rtl8125_mac_ocp_write 0xCDE8 0x883E ;;;
  rtl8125_mac_ocp_write 0xCDEA 0x9003 ;;;
  rtl8125_mac_ocp_write 0xCDEC 0x889C ;;;
  rtl8125_mac_ocp_write 0xCDEE 0x9003 ;;;
  rtl8125_mac_ocp_write 0xCDF0 0x8C09 ;;;
  rtl8125_mac_ocp_write 0xCDF2 0x9003 ;;;
  rtl8125_set_mac_ocp_bit 0xE032 (BIT 14) ;;;
  rtl8125_set_mac_ocp_bit 0xE0A2 (BIT 0) ;;;
  rtl8125_enable_pci_offset_99.

Definition rtl8125_disable_pci_offset_180 : ST unit := rtl8125_clear_mac_ocp_bit 0xE092 0x00FF.

Definition rtl8125_enable_pci_offset_180 : ST unit :=
  rtl8125_clear_mac_ocp_bit 0xE094 0xFF00 ;;;
  rtl8125_clear_set_mac_ocp_bit 0xE092 0x00FF (BIT 2).

Definition rtl8125_init_pci_offset_180 : ST unit := rtl8125_enable_pci_offset_180.

Definition rtl8125_set_pci_99_exit_driver_para : ST unit :=
  org <- tp_get (fun s => org_pci_offset_99 s) ;;
  swhen (has org (BIT 2)) rtl8125_issue_offset_99_event ;;;
  rtl8125_disable_pci_offset_99.

Definition rtl8125_enable_exit_l1_mask : ST unit :=
  rtl8125_set_mac_ocp_bit 0xC0AC (bits_or [7; 8; 9; 10; 11; 12]).

Definition rtl8125_disable_exit_l1_mask : ST unit :=
  rtl8125_clear_mac_ocp_bit 0xC0AC (bits_or [7; 8; 9; 10; 11; 12]).

Definition rtl8125_enable_extend_tally_couter : ST unit :=
  v <- tp_get (fun s => HwSuppExtendTallyCounterVer s) ;;
  swhen (v =? 1) (rtl8125_set_mac_ocp_bit 0xEA84 (bits_or [1; 0])).

Definition rtl8125_disable_extend_tally_couter : ST unit :=
  v <- tp_get (fun s => HwSuppExtendTallyCounterVer s) ;;
  swhen (v =? 1) (rtl8125_clear_mac_ocp_bit 0xEA84 (bits_or [1; 0])).

Definition rtl8125_set_reg_oobs_en_sel (enable : bool) : ST unit :=
  m <- tp_get (fun s => mcfg s) ;;
  swhen (existsb (Z.eqb m) [10; 11; 12])
    (if enable then rtl8125_set_mac_ocp_bit 0xD434 (BIT 1)
     else rtl8125_clear_mac_ocp_bit 0xD434 (BIT 1)).

Definition rtl8125_enable_eee_plus : ST unit :=
  v <- rtl8125_mac_ocp_read 0xE080 ;; rtl8125_mac_ocp_write 0xE080 (Z.lor v (BIT 1)).

Definition rtl8125_disable_eee_plus : ST unit :=
  v <- rtl8125_mac_ocp_read 0xE080 ;; rtl8125_mac_ocp_write 0xE080 (Z.land v (Z.lnot (BIT 1))).

Definition rtl8125_enable_double_vlan : ST unit := RTL_W16 0x1000 0xf002.
Definition rtl8125_disable_double_vlan : ST unit := RTL_W16 0x1000 0.

Definition rtl8125_set_pfm_patch (enable : bool) : ST unit :=
  f <- tp_get feat ;;
  if negb (tst (RequiredPfmPatch f)) then sret tt
  else if enable then
    rtl8125_set_mac_ocp_bit 0xD3F0 (BIT 0) ;;;
    rtl8125_set_mac_ocp_bit 0xD3F2 (BIT 0) ;;;
    rtl8125_set_mac_ocp_bit 0xE85A (BIT 6)
  else
    rtl8125_clear_mac_ocp_bit 0xD3F0 (BIT 0) ;;;
    rtl8125_clear_mac_ocp_bit 0xD3F2 (BIT 0) ;;;
    rtl8125_clear_mac_ocp_bit 0xE85A (BIT 6).

End Wol.
