(* ===== verification/RtlMcu.v ===== *)
(** * r8125: loading microcode into the MAC and the PHY

    src/.../realtek/r8125/r8125_n.c: the paged RAM of the MAC microcontroller
    and the version stored in it, the request that stops the PHY
    microcontroller while its RAM is patched, the patch key, and the writing of
    a patch given as address/value pairs.  The patches themselves are the
    tables of [RtlRamCode]; ENABLE_USE_FIRMWARE_FILE is not defined in the
    Makefile. *)
From S2P Require Import Prelude RtlBase RtlHw RtlIrq RtlWol.
Local Open Scope Z_scope.
Local Open Scope rtl_scope.

Definition HW_SUPPORT_MAC_MCU (f : hw_features) : bool := HwSuppMacMcuVer f >? 0.
Definition HW_HAS_WRITE_PHY_MCU_RAM_CODE (m : mcu_state) : bool := HwHasWrRamCodeToMicroP m =? 1.
Definition HW_SUPPORT_CHECK_PHY_DISABLE_MODE (h : hw_info) : bool := HwSuppCheckPhyDisableModeVer h >? 0.

(** A 64-bit version from its four words, the first the highest. *)
Definition ver_of_words (ws : list Z) : Z := fold_left (fun ver w => Z.lor (u64 (Z.shiftl ver 16)) w) ws 0.

Section Mcu.
Context {D : Type} `{HM : Mmio D}.
Abbreviation ST := (St (nic D)).

Definition set_HwHasWr v (s : nic D) :=
  set_mcu (MkMcu v (hw_ram_code_ver s) (hw_mcu_patch_code_ver s) (bin_mcu_patch_code_ver s)) s.
Definition set_hw_ram_code_ver v (s : nic D) :=
  set_mcu (MkMcu (HwHasWrRamCodeToMicroP s) v (hw_mcu_patch_code_ver s) (bin_mcu_patch_code_ver s)) s.
Definition set_patch_code_ver v (s : nic D) :=
  set_mcu (MkMcu (HwHasWrRamCodeToMicroP s) (hw_ram_code_ver s) v (bin_mcu_patch_code_ver s)) s.
Definition set_bin_code_ver v (s : nic D) :=
  set_mcu (MkMcu (HwHasWrRamCodeToMicroP s) (hw_ram_code_ver s) (hw_mcu_patch_code_ver s) v) s.

(** ** MAC microcode *)

(** The 16 break point registers from 0xFC28. *)
Definition mac_bp_regs : list Z := map (fun i => 0xFC28 + 2 * Z.of_nat i) (seq 0 16).

Definition rtl8125_hw_disable_mac_mcu_bps : ST unit :=
  rtl8125_enable_aspm_clkreq_lock false ;;;
  rtl8125_mac_ocp_write 0xFC48 0x0000 ;;;
  sfor mac_bp_regs (fun regAddr => rtl8125_mac_ocp_write regAddr 0x0000) ;;;
  rtl8125_mac_ocp_write 0xFC26 0x0000.

Definition rtl8125_switch_mac_mcu_ram_code_page (page : Z) : ST unit :=
  let page := Z.land (u16 page) (bits_or [1; 0]) in
  tmpUshort <- rtl8125_mac_ocp_read 0xE446 ;;
  let tmpUshort := Z.land tmpUshort (Z.lnot (bits_or [1; 0])) in
  rtl8125_mac_ocp_write 0xE446 (Z.lor tmpUshort page).

(** The loop [for (i = 0; i < 8; i += 2)] writes the low word first, at the
    highest address. *)
Fixpoint set_ver_loop (idx : list Z) (ver : Z) : ST unit :=
  match idx with
  | [] => sret tt
  | i :: idx' => rtl8125_mac_ocp_write (0xF9F8 + 6 - i) (u16 ver) ;;; set_ver_loop idx' (Z.shiftr ver 16)
  end.

Definition _rtl8125_set_hw_mcu_patch_code_ver (ver : Z) : ST unit :=
  rtl8125_switch_mac_mcu_ram_code_page 2 ;;;
  set_ver_loop [0; 2; 4; 6] (u64 ver) ;;;
  rtl8125_switch_mac_mcu_ram_code_page 0.

Definition rtl8125_set_hw_mcu_patch_code_ver (ver : Z) : ST unit :=
  _rtl8125_set_hw_mcu_patch_code_ver ver ;;;
  smodify (set_patch_code_ver ver).

Fixpoint get_ver_loop (idx : list Z) (ver : Z) : ST Z :=
  match idx with
  | [] => sret ver
  | i :: idx' =>
      v <- rtl8125_mac_ocp_read (0xF9F8 + i) ;;
      get_ver_loop idx' (Z.lor (u64 (Z.shiftl ver 16)) v)
  end.

Definition rtl8125_get_hw_mcu_patch_code_ver : ST Z :=
  rtl8125_switch_mac_mcu_ram_code_page 2 ;;;
  ver <- get_ver_loop [0; 2; 4; 6] 0 ;;
  rtl8125_switch_mac_mcu_ram_code_page 0 ;;;
  sret ver.

(** The version of a patch is in its last four words; a null table is the
    empty list. *)
Definition rtl8125_get_bin_mcu_patch_code_ver (entry : list Z) : Z :=
  if (length entry <? 4)%nat then 0 else ver_of_words (drop (length entry - 4) entry).

Fixpoint write_mac_words (i : Z) (entry : list Z) : ST unit :=
  match entry with
  | [] => sret tt
  | w :: entry' => rtl8125_mac_ocp_write (0xF800 + i * 2) w ;;; write_mac_words (i + 1) entry'
  end.

Definition _rtl8125_write_mac_mcu_ram_code (entry : list Z) : ST unit := write_mac_words 0 entry.

Fixpoint write_mac_pages (i page_size : Z) (entry : list Z) : ST unit :=
  match entry with
  | [] => sret tt
  | w :: entry' =>
      let offset := i mod page_size in
      swhen (offset =? 0) (rtl8125_switch_mac_mcu_ram_code_page (i / page_size)) ;;;
      rtl8125_mac_ocp_write (0xF800 + offset * 2) w ;;;
      write_mac_pages (i + 1) page_size entry'
  end.

Definition _rtl8125_write_mac_mcu_ram_code_with_page (entry : list Z) (page_size : Z) : ST unit :=
  if page_size =? 0 then sret tt else write_mac_pages 0 page_size entry.

Definition rtl8125_write_mac_mcu_ram_code (entry : list Z) : ST unit :=
  f <- tp_get feat ;;
  if negb (HW_SUPPORT_MAC_MCU f) || (length entry =? 0)%nat then sret tt
  else
    (if MacMcuPageSize f >? 0
     then _rtl8125_write_mac_mcu_ram_code_with_page entry (MacMcuPageSize f)
     else _rtl8125_write_mac_mcu_ram_code entry) ;;;
    bin_ver <- tp_get (fun s => bin_mcu_patch_code_ver s) ;;
    swhen (bin_ver >? 0) (rtl8125_set_hw_mcu_patch_code_ver bin_ver).

(** The common part of the [rtl8125_set_mac_mcu_*]: the table is written only
    when the controller has another version. *)
Definition update_mac_mcu (mcu_patch_code : list Z) : ST unit :=
  smodify (set_bin_code_ver (rtl8125_get_bin_mcu_patch_code_ver mcu_patch_code)) ;;;
  m <- tp_get (fun s => mcu s) ;;
  swhen (negb (hw_mcu_patch_code_ver m =? bin_mcu_patch_code_ver m))
    (rtl8125_write_mac_mcu_ram_code mcu_patch_code).

(** ** PHY microcode *)

Definition rtl8125_get_hw_phy_mcu_code_ver : ST Z :=
  rtl8125_mdio_direct_write_phy_ocp 0xA436 0x801E ;;;
  v <- rtl8125_mdio_direct_read_phy_ocp 0xA438 ;;
  sret (u16 v).

Definition rtl8125_check_hw_phy_mcu_code_ver : ST Z :=
  v <- rtl8125_get_hw_phy_mcu_code_ver ;;
  smodify (set_hw_ram_code_ver v) ;;;
  sw <- tp_get (fun s => sw_ram_code_ver s) ;;
  if v =? sw then smodify (set_HwHasWr 1) ;;; sret 1 else smodify (set_HwHasWr 0) ;;; sret 0.

(** [do { gphy_val = read; WaitCount++; } while (!done && WaitCount < 1000)];
    the result says whether the last read was [done]. *)
Definition wait_patch_ready (ready : bool) : ST bool :=
  poll 1000 (v <- rtl8125_mdio_direct_read_phy_ocp 0xB800 ;; sret (eqb (has (u16 v) (BIT 6)) ready)).

Definition rtl8125_set_phy_mcu_patch_request : ST bool :=
  rtl8125_set_eth_phy_ocp_bit 0xB820 (BIT 4) ;;; wait_patch_ready true.

Definition rtl8125_clear_phy_mcu_patch_request : ST bool :=
  rtl8125_clear_eth_phy_ocp_bit 0xB820 (BIT 4) ;;; wait_patch_ready false.

Definition rtl8125_write_hw_phy_mcu_code_ver : ST unit :=
  sw <- tp_get (fun s => sw_ram_code_ver s) ;;
  rtl8125_mdio_direct_write_phy_ocp 0xA436 0x801E ;;;
  rtl8125_mdio_direct_write_phy_ocp 0xA438 sw ;;;
  smodify (set_hw_ram_code_ver sw).

(** The key of the chips that have one. *)
Definition patch_key (m : Z) : option Z :=
  if m =? 2 then Some 0x8600
  else if (m =? 3) || (m =? 6) then Some 0x8601
  else if m =? 4 then Some 0x3700
  else if (m =? 5) || (m =? 7) then Some 0x3701
  else None.

Definition rtl8125_acquire_phy_mcu_patch_key_lock : ST unit :=
  m <- tp_get (fun s => mcfg s) ;;
  match patch_key m with
  | None => sret tt
  | Some PatchKey =>
      rtl8125_mdio_direct_write_phy_ocp 0xA436 0x8024 ;;;
      rtl8125_mdio_direct_write_phy_ocp 0xA438 PatchKey ;;;
      rtl8125_mdio_direct_write_phy_ocp 0xA436 0xB82E ;;;
      rtl8125_mdio_direct_write_phy_ocp 0xA438 0x0001
  end.

Definition rtl8125_release_phy_mcu_patch_key_lock : ST unit :=
  m <- tp_get (fun s => mcfg s) ;;
  swhen ((2 <=? m) && (m <=? 7))
    (rtl8125_mdio_direct_write_phy_ocp 0xA436 0x0000 ;;;
     rtl8125_mdio_direct_write_phy_ocp 0xA438 0x0000 ;;;
     rtl8125_clear_eth_phy_ocp_bit 0xB82E (BIT 0) ;;;
     rtl8125_mdio_direct_write_phy_ocp 0xA436 0x8024 ;;;
     rtl8125_mdio_direct_write_phy_ocp 0xA438 0x0000).

(** The pairs up to the end mark [0xFFFF, 0xFFFF]. *)
Fixpoint ram_code_loop (ramcode : list Z) : ST unit :=
  match ramcode with
  | addr :: val :: ramcode' =>
      if (addr =? 0xFFFF) && (val =? 0xFFFF) then sret tt
      else rtl8125_mdio_direct_write_phy_ocp addr val ;;; ram_code_loop ramcode'
  | _ => sret tt
  end.

Definition rtl8125_set_phy_mcu_ram_code (ramcode : list Z) : ST unit :=
  if Nat.odd (length ramcode) then sret tt else ram_code_loop ramcode.

Definition rtl8125_enable_phy_disable_mode : ST unit :=
  v <- tp_get (fun s => HwSuppCheckPhyDisableModeVer s) ;;
  swhen (v =? 3) (RTL_set8 0xF2 (BIT 5)).

Definition rtl8125_disable_phy_disable_mode : ST unit :=
  v <- tp_get (fun s => HwSuppCheckPhyDisableModeVer s) ;;
  swhen (v =? 3) (RTL_clear8 0xF2 (BIT 5)).

Definition rtl8125_disable_ocp_phy_power_saving : ST unit :=
  m <- tp_get (fun s => mcfg s) ;;
  swhen (existsb (Z.eqb m) [2; 3; 6])
    (val <- rtl8125_mdio_direct_read_phy_ocp 0xC416 ;;
     swhen (negb (u16 val =? 0x0500))
       (rtl8125_set_phy_mcu_patch_request ;;;
        rtl8125_mdio_direct_write_phy_ocp 0xC416 0x0000 ;;;
        rtl8125_mdio_direct_write_phy_ocp 0xC416 0x0500 ;;;
        rtl8125_clear_phy_mcu_patch_request ;;;
        sret tt)).

(** A patch between the request and its withdrawal. *)
Definition with_patch_request (m : ST unit) : ST unit :=
  rtl8125_set_phy_mcu_patch_request ;;; m ;;; rtl8125_clear_phy_mcu_patch_request ;;; sret tt.

Definition rtl8125_set_hw_phy_before_init_phy_mcu : ST unit :=
  m <- tp_get (fun s => mcfg s) ;;
  swhen (m =? 4)
    (rtl8125_mdio_direct_write_phy_ocp 0xBF86 0x9000 ;;;
     rtl8125_set_eth_phy_ocp_bit 0xC402 (BIT 10) ;;;
     rtl8125_clear_eth_phy_ocp_bit 0xC402 (BIT 10) ;;;
     rtl8125_mdio_direct_read_phy_ocp 0xBF86 ;;;
     rtl8125_mdio_direct_write_phy_ocp 0xBD86 0x1010 ;;;
     rtl8125_mdio_direct_write_phy_ocp 0xBD88 0x1010 ;;;
     rtl8125_clear_and_set_eth_phy_ocp_bit 0xBD4E (bits_or [11; 10]) (BIT 11) ;;;
     rtl8125_clear_and_set_eth_phy_ocp_bit 0xBF46 (bits_or [11; 10; 9; 8]) (bits_or [10; 9; 8])).

Definition rtl8125_enable_phy_aldps : ST unit := rtl8125_set_eth_phy_ocp_bit 0xA430 (BIT 2).

(** ** The state of the PHY microcontroller *)

Definition rtl8125_clear_phy_ups_reg : ST unit :=
  m <- tp_get (fun s => mcfg s) ;;
  swhen (existsb (Z.eqb m) [4; 5; 7; 8; 9; 10; 11; 12])
    (rtl8125_clear_eth_phy_ocp_bit 0xA466 (BIT 0)) ;;;
  rtl8125_clear_eth_phy_ocp_bit 0xA468 (bits_or [3; 1]).

Definition rtl8125_is_ups_resume : ST bool :=
  v <- rtl8125_mac_ocp_read 0xD42C ;; sret (has v (BIT 8)).

Definition rtl8125_clear_ups_resume_bit : ST unit := rtl8125_clear_mac_ocp_bit 0xD42C (BIT 8).

Definition rtl8125_get_phy_state : ST Z :=
  v <- rtl8125_mdio_direct_read_phy_ocp 0xA420 ;; sret (u8 (Z.land v 0x7)).

(** The number of reads [rtl8125_wait_phy_state_ready] makes at most. *)
Definition phy_state_wait_cnt (ms : Z) : nat := Z.to_nat (if ms >=? 1000 then ms / 1000 else 100).

Definition rtl8125_wait_phy_state_ready (state ms : Z) : ST bool :=
  poll (phy_state_wait_cnt ms) (tmp_state <- rtl8125_get_phy_state ;; sret (tmp_state =? state)).

Definition rtl8125_wait_phy_ups_resume (PhyState : Z) : ST unit :=
  poll 100 (v <- rtl8125_get_phy_state ;; sret (v =? PhyState)) ;;; sret tt.

Definition rtl8125_set_mcu_d3_stack : ST unit :=
  m <- tp_get (fun s => mcfg s) ;;
  let stack (v : Z) := rtl8125_mac_ocp_write 0xD018 0xD116 ;;; rtl8125_mac_ocp_write 0xD116 v in
  if (m =? 5) || (m =? 7) then stack 0x45E0
  else if m =? 9 then stack 0x4782
  else if m =? 12 then stack 0x4C76
  else sret tt.

Definition Now_is_oob : Z := BIT 7.

Definition _rtl8125_enable_now_is_oob : ST unit :=
  v <- tp_get (fun s => HwSuppNowIsOobVer s) ;;
  swhen (v =? 1) (RTL_set8 MCUCmd_reg Now_is_oob).

Definition rtl8125_enable_now_is_oob : ST unit :=
  rtl8125_set_mcu_d3_stack ;;; _rtl8125_enable_now_is_oob.

Definition rtl8125_disable_now_is_oob : ST unit :=
  v <- tp_get (fun s => HwSuppNowIsOobVer s) ;;
  swhen (v =? 1) (RTL_clear8 MCUCmd_reg Now_is_oob).

Definition rtl8125_wait_ll_share_fifo_ready : ST unit :=
  poll 10 (v <- RTL_R16 0xD2 ;; sret (has v (BIT 9))) ;;; sret tt.

End Mcu.

(** ** Sequences of PHY register writes

    The tuning functions are long sequences of writes and masked updates of PHY
    registers with constants; they are written as lists. *)
Inductive phy_op :=
  | wr (addr value : Z)              (* rtl8125_mdio_direct_write_phy_ocp *)
  | mo (addr clearmask setmask : Z). (* rtl8125_clear_and_set_eth_phy_ocp_bit *)

(** rtl8125_set_eth_phy_ocp_bit and rtl8125_clear_eth_phy_ocp_bit *)
Definition se (addr mask : Z) : phy_op := mo addr 0 mask.
Definition cl (addr mask : Z) : phy_op := mo addr mask 0.

Definition run_phy_op {D} `{Mmio D} (op : phy_op) : St (nic D) unit :=
  match op with
  | wr addr value => rtl8125_mdio_direct_write_phy_ocp addr value
  | mo addr clearmask setmask => rtl8125_clear_and_set_eth_phy_ocp_bit addr clearmask setmask
  end.

Definition phy_seq {D} `{Mmio D} (ops : list phy_op) : St (nic D) unit := sfor ops run_phy_op.
