(* ===== verification/RtlRamCode.v ===== *)
(** * r8125: the microcode tables

    The constant arrays of src/.../realtek/r8125/r8125_n.c, word for word (a
    run of unused zero words as [zeros n]): the
    patches of the PHY microcontroller as address/value pairs with an end mark,
    and the [mcu_patch_code] of each [rtl8125_set_mac_mcu_*], whose last four
    words are the version. *)
From S2P Require Import Prelude.
Local Open Scope Z_scope.

Definition zeros (n : nat) : list Z := replicate n 0x0000.

(** ** PHY *)

Definition phy_mcu_ram_code_8125b_1 : list Z := [
  0xa436; 0x8024; 0xa438; 0x3700; 0xa436; 0xB82E; 0xa438; 0x0001; 0xb820; 0x0090; 0xa436; 0xA016;
  0xa438; 0x0000; 0xa436; 0xA012; 0xa438; 0x0000; 0xa436; 0xA014; 0xa438; 0x1800; 0xa438; 0x8010;
  0xa438; 0x1800; 0xa438; 0x8025; 0xa438; 0x1800; 0xa438; 0x803a; 0xa438; 0x1800; 0xa438; 0x8044;
  0xa438; 0x1800; 0xa438; 0x8083; 0xa438; 0x1800; 0xa438; 0x808d; 0xa438; 0x1800; 0xa438; 0x808d;
  0xa438; 0x1800; 0xa438; 0x808d; 0xa438; 0xd712; 0xa438; 0x4077; 0xa438; 0xd71e; 0xa438; 0x4159;
  0xa438; 0xd71e; 0xa438; 0x6099; 0xa438; 0x7f44; 0xa438; 0x1800; 0xa438; 0x1a14; 0xa438; 0x9040;
  0xa438; 0x9201; 0xa438; 0x1800; 0xa438; 0x1b1a; 0xa438; 0xd71e; 0xa438; 0x2425; 0xa438; 0x1a14;
  0xa438; 0xd71f; 0xa438; 0x3ce5; 0xa438; 0x1afb; 0xa438; 0x1800; 0xa438; 0x1b00; 0xa438; 0xd712;
  0xa438; 0x4077; 0xa438; 0xd71e; 0xa438; 0x4159; 0xa438; 0xd71e; 0xa438; 0x60b9; 0xa438; 0x2421;
  0xa438; 0x1c17; 0xa438; 0x1800; 0xa438; 0x1a14; 0xa438; 0x9040; 0xa438; 0x1800; 0xa438; 0x1c2c;
  0xa438; 0xd71e; 0xa438; 0x2425; 0xa438; 0x1a14; 0xa438; 0xd71f; 0xa438; 0x3ce5; 0xa438; 0x1c0f;
  0xa438; 0x1800; 0xa438; 0x1c13; 0xa438; 0xd702; 0xa438; 0xd501; 0xa438; 0x6072; 0xa438; 0x8401;
  0xa438; 0xf002; 0xa438; 0xa401; 0xa438; 0x1000; 0xa438; 0x146e; 0xa438; 0x1800; 0xa438; 0x0b77;
  0xa438; 0xd703; 0xa438; 0x665d; 0xa438; 0x653e; 0xa438; 0x641f; 0xa438; 0xd700; 0xa438; 0x62c4;
  0xa438; 0x6185; 0xa438; 0x6066; 0xa438; 0x1800; 0xa438; 0x165a; 0xa438; 0xc101; 0xa438; 0xcb00;
  0xa438; 0x1000; 0xa438; 0x1945; 0xa438; 0xd700; 0xa438; 0x7fa6; 0xa438; 0x1800; 0xa438; 0x807d;
  0xa438; 0xc102; 0xa438; 0xcb00; 0xa438; 0x1000; 0xa438; 0x1945; 0xa438; 0xd700; 0xa438; 0x2569;
  0xa438; 0x8058; 0xa438; 0x1800; 0xa438; 0x807d; 0xa438; 0xc104; 0xa438; 0xcb00; 0xa438; 0x1000;
  0xa438; 0x1945; 0xa438; 0xd700; 0xa438; 0x7fa4; 0xa438; 0x1800; 0xa438; 0x807d; 0xa438; 0xc120;
  0xa438; 0xcb00; 0xa438; 0x1000; 0xa438; 0x1945; 0xa438; 0xd703; 0xa438; 0x7fbf; 0xa438; 0x1800;
  0xa438; 0x807d; 0xa438; 0xc140; 0xa438; 0xcb00; 0xa438; 0x1000; 0xa438; 0x1945; 0xa438; 0xd703;
  0xa438; 0x7fbe; 0xa438; 0x1800; 0xa438; 0x807d; 0xa438; 0xc180; 0xa438; 0xcb00; 0xa438; 0x1000;
  0xa438; 0x1945; 0xa438; 0xd703; 0xa438; 0x7fbd; 0xa438; 0xc100; 0xa438; 0xcb00; 0xa438; 0xd708;
  0xa438; 0x6018; 0xa438; 0x1800; 0xa438; 0x165a; 0xa438; 0x1000; 0xa438; 0x14f6; 0xa438; 0xd014;
  0xa438; 0xd1e3; 0xa438; 0x1000; 0xa438; 0x1356; 0xa438; 0xd705; 0xa438; 0x5fbe; 0xa438; 0x1800;
  0xa438; 0x1559; 0xa436; 0xA026; 0xa438; 0xffff; 0xa436; 0xA024; 0xa438; 0xffff; 0xa436; 0xA022;
  0xa438; 0xffff; 0xa436; 0xA020; 0xa438; 0x1557; 0xa436; 0xA006; 0xa438; 0x1677; 0xa436; 0xA004;
  0xa438; 0x0b75; 0xa436; 0xA002; 0xa438; 0x1c17; 0xa436; 0xA000; 0xa438; 0x1b04; 0xa436; 0xA008;
  0xa438; 0x1f00; 0xa436; 0xA016; 0xa438; 0x0020; 0xa436; 0xA012; 0xa438; 0x0000; 0xa436; 0xA014;
  0xa438; 0x1800; 0xa438; 0x8010; 0xa438; 0x1800; 0xa438; 0x817f; 0xa438; 0x1800; 0xa438; 0x82ab;
  0xa438; 0x1800; 0xa438; 0x83f8; 0xa438; 0x1800; 0xa438; 0x8444; 0xa438; 0x1800; 0xa438; 0x8454;
  0xa438; 0x1800; 0xa438; 0x8459; 0xa438; 0x1800; 0xa438; 0x8465; 0xa438; 0xcb11; 0xa438; 0xa50c;
  0xa438; 0x8310; 0xa438; 0xd701; 0xa438; 0x4076; 0xa438; 0x0c03; 0xa438; 0x0903; 0xa438; 0xd700;
  0xa438; 0x6083; 0xa438; 0x0c1f; 0xa438; 0x0d00; 0xa438; 0xf003; 0xa438; 0x0c1f; 0xa438; 0x0d00;
  0xa438; 0x1000; 0xa438; 0x0a7d; 0xa438; 0x1000; 0xa438; 0x0a4d; 0xa438; 0xcb12; 0xa438; 0x1000;
  0xa438; 0x0a5e; 0xa438; 0xd71f; 0xa438; 0x5f84; 0xa438; 0xd102; 0xa438; 0xd040; 0xa438; 0x1000;
  0xa438; 0x0a5e; 0xa438; 0xd700; 0xa438; 0x5fb4; 0xa438; 0xd701; 0xa438; 0x60f3; 0xa438; 0xd413;
  0xa438; 0x1000; 0xa438; 0x0a37; 0xa438; 0xd410; 0xa438; 0x1000; 0xa438; 0x0a37; 0xa438; 0xcb13;
  0xa438; 0xa108; 0xa438; 0x1000; 0xa438; 0x0a42; 0xa438; 0x8108; 0xa438; 0xa00a; 0xa438; 0xa910;
  0xa438; 0xa780; 0xa438; 0xd14a; 0xa438; 0xd048; 0xa438; 0x1000; 0xa438; 0x0a5e; 0xa438; 0xd701;
  0xa438; 0x6255; 0xa438; 0xd700; 0xa438; 0x5f74; 0xa438; 0x6326; 0xa438; 0xd702; 0xa438; 0x5f07;
  0xa438; 0x800a; 0xa438; 0xa004; 0xa438; 0x1000; 0xa438; 0x0a42; 0xa438; 0x8004; 0xa438; 0xa001;
  0xa438; 0x1000; 0xa438; 0x0a42; 0xa438; 0x8001; 0xa438; 0x0c03; 0xa438; 0x0902; 0xa438; 0xffe2;
  0xa438; 0x1000; 0xa438; 0x0a5e; 0xa438; 0xd71f; 0xa438; 0x5fab; 0xa438; 0xba08; 0xa438; 0x1000;
  0xa438; 0x0a5e; 0xa438; 0xd71f; 0xa438; 0x7f8b; 0xa438; 0x9a08; 0xa438; 0x800a; 0xa438; 0xd702;
  0xa438; 0x6535; 0xa438; 0xd40d; 0xa438; 0x1000; 0xa438; 0x0a37; 0xa438; 0xcb14; 0xa438; 0xa004;
  0xa438; 0x1000; 0xa438; 0x0a42; 0xa438; 0x8004; 0xa438; 0xa001; 0xa438; 0x1000; 0xa438; 0x0a42;
  0xa438; 0x8001; 0xa438; 0xa00a; 0xa438; 0xa780; 0xa438; 0xd14a; 0xa438; 0xd048; 0xa438; 0x1000;
  0xa438; 0x0a5e; 0xa438; 0xd700; 0xa438; 0x5fb4; 0xa438; 0x6206; 0xa438; 0xd702; 0xa438; 0x5f47;
  0xa438; 0x800a; 0xa438; 0xa004; 0xa438; 0x1000; 0xa438; 0x0a42; 0xa438; 0x8004; 0xa438; 0xa001;
  0xa438; 0x1000; 0xa438; 0x0a42; 0xa438; 0x8001; 0xa438; 0x0c03; 0xa438; 0x0902; 0xa438; 0x1800;
  0xa438; 0x8064; 0xa438; 0x800a; 0xa438; 0xd40e; 0xa438; 0x1000; 0xa438; 0x0a37; 0xa438; 0xb920;
  0xa438; 0x1000; 0xa438; 0x0a5e; 0xa438; 0xd71f; 0xa438; 0x5fac; 0xa438; 0x9920; 0xa438; 0x1000;
  0xa438; 0x0a5e; 0xa438; 0xd71f; 0xa438; 0x7f8c; 0xa438; 0xd701; 0xa438; 0x6073; 0xa438; 0xd701;
  0xa438; 0x4216; 0xa438; 0xa004; 0xa438; 0x1000; 0xa438; 0x0a42; 0xa438; 0x8004; 0xa438; 0xa001;
  0xa438; 0x1000; 0xa438; 0x0a42; 0xa438; 0x8001; 0xa438; 0xd120; 0xa438; 0xd040; 0xa438; 0x1000;
  0xa438; 0x0a5e; 0xa438; 0xd700; 0xa438; 0x5fb4; 0xa438; 0x8504; 0xa438; 0xcb21; 0xa438; 0xa301;
  0xa438; 0x1000; 0xa438; 0x0a5e; 0xa438; 0xd700; 0xa438; 0x5f9f; 0xa438; 0x8301; 0xa438; 0xd704;
  0xa438; 0x40e0; 0xa438; 0xd196; 0xa438; 0xd04d; 0xa438; 0x1000; 0xa438; 0x0a5e; 0xa438; 0xd700;
  0xa438; 0x5fb4; 0xa438; 0xcb22; 0xa438; 0x1000; 0xa438; 0x0a6d; 0xa438; 0x0c03; 0xa438; 0x1502;
  0xa438; 0xa640; 0xa438; 0x9503; 0xa438; 0x8910; 0xa438; 0x8720; 0xa438; 0xd700; 0xa438; 0x6083;
  0xa438; 0x0c1f; 0xa438; 0x0d01; 0xa438; 0xf003; 0xa438; 0x0c1f; 0xa438; 0x0d01; 0xa438; 0x1000;
  0xa438; 0x0a7d; 0xa438; 0x0c1f; 0xa438; 0x0f14; 0xa438; 0xcb23; 0xa438; 0x8fc0; 0xa438; 0x1000;
  0xa438; 0x0a25; 0xa438; 0xaf40; 0xa438; 0x1000; 0xa438; 0x0a25; 0xa438; 0x0cc0; 0xa438; 0x0f80;
  0xa438; 0x1000; 0xa438; 0x0a25; 0xa438; 0xafc0; 0xa438; 0x1000; 0xa438; 0x0a25; 0xa438; 0x1000;
  0xa438; 0x0a5e; 0xa438; 0xd701; 0xa438; 0x5dee; 0xa438; 0xcb24; 0xa438; 0x8f1f; 0xa438; 0x1000;
  0xa438; 0x0a5e; 0xa438; 0xd701; 0xa438; 0x7f6e; 0xa438; 0xa111; 0xa438; 0xa215; 0xa438; 0xa401;
  0xa438; 0x8404; 0xa438; 0xa720; 0xa438; 0xcb25; 0xa438; 0x0c03; 0xa438; 0x1502; 0xa438; 0x8640;
  0xa438; 0x9503; 0xa438; 0x1000; 0xa438; 0x0b43; 0xa438; 0x1000; 0xa438; 0x0b86; 0xa438; 0x1000;
  0xa438; 0x0a5e; 0xa438; 0xb920; 0xa438; 0x1000; 0xa438; 0x0a5e; 0xa438; 0xd71f; 0xa438; 0x5fac;
  0xa438; 0x9920; 0xa438; 0x1000; 0xa438; 0x0a5e; 0xa438; 0xd71f; 0xa438; 0x7f8c; 0xa438; 0xcb26;
  0xa438; 0x1000; 0xa438; 0x0a5e; 0xa438; 0xd71f; 0xa438; 0x5f82; 0xa438; 0x8111; 0xa438; 0x8205;
  0xa438; 0x8404; 0xa438; 0xcb27; 0xa438; 0xd404; 0xa438; 0x1000; 0xa438; 0x0a37; 0xa438; 0xd700;
  0xa438; 0x6083; 0xa438; 0x0c1f; 0xa438; 0x0d02; 0xa438; 0xf003; 0xa438; 0x0c1f; 0xa438; 0x0d02;
  0xa438; 0x1000; 0xa438; 0x0a7d; 0xa438; 0xa710; 0xa438; 0xa104; 0xa438; 0x1000; 0xa438; 0x0a42;
  0xa438; 0x8104; 0xa438; 0xa001; 0xa438; 0x1000; 0xa438; 0x0a42; 0xa438; 0x8001; 0xa438; 0xa120;
  0xa438; 0xaa0f; 0xa438; 0x8110; 0xa438; 0xa284; 0xa438; 0xa404; 0xa438; 0xa00a; 0xa438; 0xd193;
  0xa438; 0xd046; 0xa438; 0x1000; 0xa438; 0x0a5e; 0xa438; 0xd700; 0xa438; 0x5fb4; 0xa438; 0xcb28;
  0xa438; 0xa110; 0xa438; 0x1000; 0xa438; 0x0a5e; 0xa438; 0xd700; 0xa438; 0x5fa8; 0xa438; 0x8110;
  0xa438; 0x8284; 0xa438; 0xa404; 0xa438; 0x800a; 0xa438; 0x8710; 0xa438; 0xb804; 0xa438; 0x1000;
  0xa438; 0x0a5e; 0xa438; 0xd71f; 0xa438; 0x7f82; 0xa438; 0x9804; 0xa438; 0xcb29; 0xa438; 0x1000;
  0xa438; 0x0a5e; 0xa438; 0xd71f; 0xa438; 0x5f85; 0xa438; 0xa710; 0xa438; 0xb820; 0xa438; 0x1000;
  0xa438; 0x0a5e; 0xa438; 0xd71f; 0xa438; 0x7f65; 0xa438; 0x9820; 0xa438; 0xcb2a; 0xa438; 0xa190;
  0xa438; 0xa284; 0xa438; 0xa404; 0xa438; 0xa00a; 0xa438; 0xd13d; 0xa438; 0xd04a; 0xa438; 0x1000;
  0xa438; 0x0a5e; 0xa438; 0xd700; 0xa438; 0x3444; 0xa438; 0x8149; 0xa438; 0xa220; 0xa438; 0xd1a0;
  0xa438; 0xd040; 0xa438; 0x1000; 0xa438; 0x0a5e; 0xa438; 0xd700; 0xa438; 0x3444; 0xa438; 0x8151;
  0xa438; 0xd702; 0xa438; 0x5f51; 0xa438; 0xcb2f; 0xa438; 0xa302; 0xa438; 0x1000; 0xa438; 0x0a5e;
  0xa438; 0xd708; 0xa438; 0x5f63; 0xa438; 0xd411; 0xa438; 0x1000; 0xa438; 0x0a37; 0xa438; 0x8302;
  0xa438; 0xd409; 0xa438; 0x1000; 0xa438; 0x0a37; 0xa438; 0xb920; 0xa438; 0x1000; 0xa438; 0x0a5e;
  0xa438; 0xd71f; 0xa438; 0x5fac; 0xa438; 0x9920; 0xa438; 0x1000; 0xa438; 0x0a5e; 0xa438; 0xd71f;
  0xa438; 0x7f8c; 0xa438; 0x1000; 0xa438; 0x0a5e; 0xa438; 0xd71f; 0xa438; 0x5fa3; 0xa438; 0x8190;
  0xa438; 0x82a4; 0xa438; 0x8404; 0xa438; 0x800a; 0xa438; 0xb808; 0xa438; 0x1000; 0xa438; 0x0a5e;
  0xa438; 0xd71f; 0xa438; 0x7fa3; 0xa438; 0x9808; 0xa438; 0x1800; 0xa438; 0x0433; 0xa438; 0xcb15;
  0xa438; 0xa508; 0xa438; 0xd700; 0xa438; 0x6083; 0xa438; 0x0c1f; 0xa438; 0x0d01; 0xa438; 0xf003;
  0xa438; 0x0c1f; 0xa438; 0x0d01; 0xa438; 0x1000; 0xa438; 0x0a7d; 0xa438; 0x1000; 0xa438; 0x0a4d;
  0xa438; 0xa301; 0xa438; 0x1000; 0xa438; 0x0a5e; 0xa438; 0xd700; 0xa438; 0x5f9f; 0xa438; 0x8301;
  0xa438; 0xd704; 0xa438; 0x40e0; 0xa438; 0xd115; 0xa438; 0xd04f; 0xa438; 0x1000; 0xa438; 0x0a5e;
  0xa438; 0xd700; 0xa438; 0x5fb4; 0xa438; 0xd413; 0xa438; 0x1000; 0xa438; 0x0a37; 0xa438; 0xcb16;
  0xa438; 0x1000; 0xa438; 0x0a6d; 0xa438; 0x0c03; 0xa438; 0x1502; 0xa438; 0xa640; 0xa438; 0x9503;
  0xa438; 0x8720; 0xa438; 0xd17a; 0xa438; 0xd04c; 0xa438; 0x0c1f; 0xa438; 0x0f14; 0xa438; 0xcb17;
  0xa438; 0x8fc0; 0xa438; 0x1000; 0xa438; 0x0a25; 0xa438; 0xaf40; 0xa438; 0x1000; 0xa438; 0x0a25;
  0xa438; 0x0cc0; 0xa438; 0x0f80; 0xa438; 0x1000; 0xa438; 0x0a25; 0xa438; 0xafc0; 0xa438; 0x1000;
  0xa438; 0x0a25; 0xa438; 0x1000; 0xa438; 0x0a5e; 0xa438; 0xd701; 0xa438; 0x61ce; 0xa438; 0xd700;
  0xa438; 0x5db4; 0xa438; 0xcb18; 0xa438; 0x0c03; 0xa438; 0x1502; 0xa438; 0x8640; 0xa438; 0x9503;
  0xa438; 0xa720; 0xa438; 0x1000; 0xa438; 0x0b43; 0xa438; 0x1000; 0xa438; 0x0a5e; 0xa438; 0xffd6;
  0xa438; 0x8f1f; 0xa438; 0x1000; 0xa438; 0x0a5e; 0xa438; 0xd701; 0xa438; 0x7f8e; 0xa438; 0xa131;
  0xa438; 0xaa0f; 0xa438; 0xa2d5; 0xa438; 0xa407; 0xa438; 0xa720; 0xa438; 0x8310; 0xa438; 0xa308;
  0xa438; 0x8308; 0xa438; 0xcb19; 0xa438; 0x0c03; 0xa438; 0x1502; 0xa438; 0x8640; 0xa438; 0x9503;
  0xa438; 0x1000; 0xa438; 0x0b43; 0xa438; 0x1000; 0xa438; 0x0b86; 0xa438; 0x1000; 0xa438; 0x0a5e;
  0xa438; 0xb920; 0xa438; 0x1000; 0xa438; 0x0a5e; 0xa438; 0xd71f; 0xa438; 0x5fac; 0xa438; 0x9920;
  0xa438; 0x1000; 0xa438; 0x0a5e; 0xa438; 0xd71f; 0xa438; 0x7f8c; 0xa438; 0xcb1a; 0xa438; 0x1000;
  0xa438; 0x0a5e; 0xa438; 0xd71f; 0xa438; 0x5f82; 0xa438; 0x8111; 0xa438; 0x82c5; 0xa438; 0xa404;
  0xa438; 0x8402; 0xa438; 0xb804; 0xa438; 0x1000; 0xa438; 0x0a5e; 0xa438; 0xd71f; 0xa438; 0x7f82;
  0xa438; 0x9804; 0xa438; 0xcb1b; 0xa438; 0x1000; 0xa438; 0x0a5e; 0xa438; 0xd71f; 0xa438; 0x5f85;
  0xa438; 0xa710; 0xa438; 0xb820; 0xa438; 0x1000; 0xa438; 0x0a5e; 0xa438; 0xd71f; 0xa438; 0x7f65;
  0xa438; 0x9820; 0xa438; 0xcb1c; 0xa438; 0xd700; 0xa438; 0x6083; 0xa438; 0x0c1f; 0xa438; 0x0d02;
  0xa438; 0xf003; 0xa438; 0x0c1f; 0xa438; 0x0d02; 0xa438; 0x1000; 0xa438; 0x0a7d; 0xa438; 0xa110;
  0xa438; 0xa284; 0xa438; 0xa404; 0xa438; 0x8402; 0xa438; 0x1000; 0xa438; 0x0a5e; 0xa438; 0xd700;
  0xa438; 0x5fa8; 0xa438; 0xcb1d; 0xa438; 0xa180; 0xa438; 0xa402; 0xa438; 0x1000; 0xa438; 0x0a5e;
  0xa438; 0xd700; 0xa438; 0x5fa8; 0xa438; 0xa220; 0xa438; 0xd1f5; 0xa438; 0xd049; 0xa438; 0x1000;
  0xa438; 0x0a5e; 0xa438; 0xd700; 0xa438; 0x3444; 0xa438; 0x8221; 0xa438; 0xd702; 0xa438; 0x5f51;
  0xa438; 0xb920; 0xa438; 0x1000; 0xa438; 0x0a5e; 0xa438; 0xd71f; 0xa438; 0x5fac; 0xa438; 0x9920;
  0xa438; 0x1000; 0xa438; 0x0a5e; 0xa438; 0xd71f; 0xa438; 0x7f8c; 0xa438; 0x1000; 0xa438; 0x0a5e;
  0xa438; 0xd71f; 0xa438; 0x5fa3; 0xa438; 0xa504; 0xa438; 0xd700; 0xa438; 0x6083; 0xa438; 0x0c1f;
  0xa438; 0x0d00; 0xa438; 0xf003; 0xa438; 0x0c1f; 0xa438; 0x0d00; 0xa438; 0x1000; 0xa438; 0x0a7d;
  0xa438; 0xa00a; 0xa438; 0x8190; 0xa438; 0x82a4; 0xa438; 0x8402; 0xa438; 0xa404; 0xa438; 0xb808;
  0xa438; 0x1000; 0xa438; 0x0a5e; 0xa438; 0xd71f; 0xa438; 0x7fa3; 0xa438; 0x9808; 0xa438; 0xcb2b;
  0xa438; 0xcb2c; 0xa438; 0x1000; 0xa438; 0x0a5e; 0xa438; 0xd71f; 0xa438; 0x5f84; 0xa438; 0xd14a;
  0xa438; 0xd048; 0xa438; 0xa780; 0xa438; 0xcb2d; 0xa438; 0x1000; 0xa438; 0x0a5e; 0xa438; 0xd700;
  0xa438; 0x5f94; 0xa438; 0x6208; 0xa438; 0xd702; 0xa438; 0x5f27; 0xa438; 0x800a; 0xa438; 0xa004;
  0xa438; 0x1000; 0xa438; 0x0a42; 0xa438; 0x8004; 0xa438; 0xa001; 0xa438; 0x1000; 0xa438; 0x0a42;
  0xa438; 0x8001; 0xa438; 0x0c03; 0xa438; 0x0902; 0xa438; 0xa00a; 0xa438; 0xffe9; 0xa438; 0xcb2e;
  0xa438; 0xd700; 0xa438; 0x6083; 0xa438; 0x0c1f; 0xa438; 0x0d02; 0xa438; 0xf003; 0xa438; 0x0c1f;
  0xa438; 0x0d02; 0xa438; 0x1000; 0xa438; 0x0a7d; 0xa438; 0xa190; 0xa438; 0xa284; 0xa438; 0xa406;
  0xa438; 0x1000; 0xa438; 0x0a5e; 0xa438; 0xd700; 0xa438; 0x5fa8; 0xa438; 0xa220; 0xa438; 0xd1a0;
  0xa438; 0xd040; 0xa438; 0x1000; 0xa438; 0x0a5e; 0xa438; 0xd700; 0xa438; 0x3444; 0xa438; 0x827d;
  0xa438; 0xd702; 0xa438; 0x5f51; 0xa438; 0xcb2f; 0xa438; 0xa302; 0xa438; 0x1000; 0xa438; 0x0a5e;
  0xa438; 0xd708; 0xa438; 0x5f63; 0xa438; 0xd411; 0xa438; 0x1000; 0xa438; 0x0a37; 0xa438; 0x8302;
  0xa438; 0xd409; 0xa438; 0x1000; 0xa438; 0x0a37; 0xa438; 0xb920; 0xa438; 0x1000; 0xa438; 0x0a5e;
  0xa438; 0xd71f; 0xa438; 0x5fac; 0xa438; 0x9920; 0xa438; 0x1000; 0xa438; 0x0a5e; 0xa438; 0xd71f;
  0xa438; 0x7f8c; 0xa438; 0x1000; 0xa438; 0x0a5e; 0xa438; 0xd71f; 0xa438; 0x5fa3; 0xa438; 0x8190;
  0xa438; 0x82a4; 0xa438; 0x8406; 0xa438; 0x800a; 0xa438; 0xb808; 0xa438; 0x1000; 0xa438; 0x0a5e;
  0xa438; 0xd71f; 0xa438; 0x7fa3; 0xa438; 0x9808; 0xa438; 0x1800; 0xa438; 0x0433; 0xa438; 0xcb30;
  0xa438; 0x8380; 0xa438; 0xcb31; 0xa438; 0x1000; 0xa438; 0x0a5e; 0xa438; 0xd71f; 0xa438; 0x5f86;
  0xa438; 0x9308; 0xa438; 0xb204; 0xa438; 0xb301; 0xa438; 0x1000; 0xa438; 0x0a5e; 0xa438; 0xd701;
  0xa438; 0x5fa2; 0xa438; 0xb302; 0xa438; 0x9204; 0xa438; 0xcb32; 0xa438; 0xd408; 0xa438; 0x1000;
  0xa438; 0x0a37; 0xa438; 0xd141; 0xa438; 0xd043; 0xa438; 0x1000; 0xa438; 0x0a5e; 0xa438; 0xd700;
  0xa438; 0x5fb4; 0xa438; 0xd704; 0xa438; 0x4ccc; 0xa438; 0xd700; 0xa438; 0x4c81; 0xa438; 0xd702;
  0xa438; 0x609e; 0xa438; 0xd1e5; 0xa438; 0xd04d; 0xa438; 0xf003; 0xa438; 0xd1e5; 0xa438; 0xd04d;
  0xa438; 0x1000; 0xa438; 0x0a5e; 0xa438; 0xd700; 0xa438; 0x5fb4; 0xa438; 0xd700; 0xa438; 0x6083;
  0xa438; 0x0c1f; 0xa438; 0x0d01; 0xa438; 0xf003; 0xa438; 0x0c1f; 0xa438; 0x0d01; 0xa438; 0x1000;
  0xa438; 0x0a7d; 0xa438; 0x8710; 0xa438; 0xa108; 0xa438; 0x1000; 0xa438; 0x0a42; 0xa438; 0x8108;
  0xa438; 0xa203; 0xa438; 0x8120; 0xa438; 0x8a0f; 0xa438; 0xa111; 0xa438; 0x8204; 0xa438; 0xa140;
  0xa438; 0x1000; 0xa438; 0x0a42; 0xa438; 0x8140; 0xa438; 0xd17a; 0xa438; 0xd04b; 0xa438; 0x1000;
  0xa438; 0x0a5e; 0xa438; 0xd700; 0xa438; 0x5fb4; 0xa438; 0xa204; 0xa438; 0x1000; 0xa438; 0x0a5e;
  0xa438; 0xd700; 0xa438; 0x5fa7; 0xa438; 0xb920; 0xa438; 0x1000; 0xa438; 0x0a5e; 0xa438; 0xd71f;
  0xa438; 0x5fac; 0xa438; 0x9920; 0xa438; 0x1000; 0xa438; 0x0a5e; 0xa438; 0xd71f; 0xa438; 0x7f8c;
  0xa438; 0xd404; 0xa438; 0x1000; 0xa438; 0x0a37; 0xa438; 0xd700; 0xa438; 0x6083; 0xa438; 0x0c1f;
  0xa438; 0x0d02; 0xa438; 0xf003; 0xa438; 0x0c1f; 0xa438; 0x0d02; 0xa438; 0x1000; 0xa438; 0x0a7d;
  0xa438; 0xa710; 0xa438; 0x8101; 0xa438; 0x8201; 0xa438; 0xa104; 0xa438; 0x1000; 0xa438; 0x0a42;
  0xa438; 0x8104; 0xa438; 0xa120; 0xa438; 0xaa0f; 0xa438; 0x8110; 0xa438; 0xa284; 0xa438; 0xa404;
  0xa438; 0xa00a; 0xa438; 0xd193; 0xa438; 0xd047; 0xa438; 0x1000; 0xa438; 0x0a5e; 0xa438; 0xd700;
  0xa438; 0x5fb4; 0xa438; 0xa110; 0xa438; 0x1000; 0xa438; 0x0a5e; 0xa438; 0xd700; 0xa438; 0x5fa8;
  0xa438; 0xa180; 0xa438; 0xd13d; 0xa438; 0xd04a; 0xa438; 0x1000; 0xa438; 0x0a5e; 0xa438; 0xd700;
  0xa438; 0x5fb4; 0xa438; 0xf024; 0xa438; 0xa710; 0xa438; 0xa00a; 0xa438; 0x8190; 0xa438; 0x8204;
  0xa438; 0xa280; 0xa438; 0xa404; 0xa438; 0x1000; 0xa438; 0x0a5e; 0xa438; 0xd700; 0xa438; 0x5fa7;
  0xa438; 0x8710; 0xa438; 0xb920; 0xa438; 0x1000; 0xa438; 0x0a5e; 0xa438; 0xd71f; 0xa438; 0x5fac;
  0xa438; 0x9920; 0xa438; 0x1000; 0xa438; 0x0a5e; 0xa438; 0xd71f; 0xa438; 0x7f8c; 0xa438; 0x800a;
  0xa438; 0x8190; 0xa438; 0x8284; 0xa438; 0x8406; 0xa438; 0xd700; 0xa438; 0x4121; 0xa438; 0xd701;
  0xa438; 0x60f3; 0xa438; 0xd1e5; 0xa438; 0xd04d; 0xa438; 0x1000; 0xa438; 0x0a5e; 0xa438; 0xd700;
  0xa438; 0x5fb4; 0xa438; 0x8710; 0xa438; 0xa00a; 0xa438; 0x8190; 0xa438; 0x8204; 0xa438; 0xa280;
  0xa438; 0xa404; 0xa438; 0xb920; 0xa438; 0x1000; 0xa438; 0x0a5e; 0xa438; 0xd71f; 0xa438; 0x5fac;
  0xa438; 0x9920; 0xa438; 0x1000; 0xa438; 0x0a5e; 0xa438; 0xd71f; 0xa438; 0x7f8c; 0xa438; 0xcb33;
  0xa438; 0x1000; 0xa438; 0x0a5e; 0xa438; 0xd71f; 0xa438; 0x5f85; 0xa438; 0xa710; 0xa438; 0xb820;
  0xa438; 0x1000; 0xa438; 0x0a5e; 0xa438; 0xd71f; 0xa438; 0x7f65; 0xa438; 0x9820; 0xa438; 0xcb34;
  0xa438; 0xa00a; 0xa438; 0xa190; 0xa438; 0xa284; 0xa438; 0xa404; 0xa438; 0x1000; 0xa438; 0x0a5e;
  0xa438; 0xd700; 0xa438; 0x5fa9; 0xa438; 0xd701; 0xa438; 0x6853; 0xa438; 0xd700; 0xa438; 0x6083;
  0xa438; 0x0c1f; 0xa438; 0x0d00; 0xa438; 0xf003; 0xa438; 0x0c1f; 0xa438; 0x0d00; 0xa438; 0x1000;
  0xa438; 0x0a7d; 0xa438; 0x8190; 0xa438; 0x8284; 0xa438; 0xcb35; 0xa438; 0xd407; 0xa438; 0x1000;
  0xa438; 0x0a37; 0xa438; 0x8110; 0xa438; 0x8204; 0xa438; 0xa280; 0xa438; 0xa00a; 0xa438; 0xd704;
  0xa438; 0x4215; 0xa438; 0xa304; 0xa438; 0x1000; 0xa438; 0x0a5e; 0xa438; 0xd700; 0xa438; 0x5fb8;
  0xa438; 0xd1c3; 0xa438; 0xd043; 0xa438; 0x1000; 0xa438; 0x0a5e; 0xa438; 0xd700; 0xa438; 0x5fb4;
  0xa438; 0x8304; 0xa438; 0xd700; 0xa438; 0x4109; 0xa438; 0xf01e; 0xa438; 0xcb36; 0xa438; 0xd412;
  0xa438; 0x1000; 0xa438; 0x0a37; 0xa438; 0xd700; 0xa438; 0x6309; 0xa438; 0xd702; 0xa438; 0x42c7;
  0xa438; 0x800a; 0xa438; 0x8180; 0xa438; 0x8280; 0xa438; 0x8404; 0xa438; 0xa004; 0xa438; 0x1000;
  0xa438; 0x0a42; 0xa438; 0x8004; 0xa438; 0xa001; 0xa438; 0x1000; 0xa438; 0x0a42; 0xa438; 0x8001;
  0xa438; 0x0c03; 0xa438; 0x0902; 0xa438; 0xa00a; 0xa438; 0xd14a; 0xa438; 0xd048; 0xa438; 0x1000;
  0xa438; 0x0a5e; 0xa438; 0xd700; 0xa438; 0x5fb4; 0xa438; 0xd700; 0xa438; 0x6083; 0xa438; 0x0c1f;
  0xa438; 0x0d02; 0xa438; 0xf003; 0xa438; 0x0c1f; 0xa438; 0x0d02; 0xa438; 0x1000; 0xa438; 0x0a7d;
  0xa438; 0xcc55; 0xa438; 0xcb37; 0xa438; 0xa00a; 0xa438; 0xa190; 0xa438; 0xa2a4; 0xa438; 0xa404;
  0xa438; 0xd700; 0xa438; 0x6041; 0xa438; 0xa402; 0xa438; 0xd13d; 0xa438; 0xd04a; 0xa438; 0x1000;
  0xa438; 0x0a5e; 0xa438; 0xd700; 0xa438; 0x5fb4; 0xa438; 0x1000; 0xa438; 0x0a5e; 0xa438; 0xd700;
  0xa438; 0x5fa9; 0xa438; 0xd702; 0xa438; 0x5f71; 0xa438; 0xcb38; 0xa438; 0x8224; 0xa438; 0xa288;
  0xa438; 0x8180; 0xa438; 0xa110; 0xa438; 0xa404; 0xa438; 0x800a; 0xa438; 0xd700; 0xa438; 0x6041;
  0xa438; 0x8402; 0xa438; 0xd415; 0xa438; 0x1000; 0xa438; 0x0a37; 0xa438; 0xd13d; 0xa438; 0xd04a;
  0xa438; 0x1000; 0xa438; 0x0a5e; 0xa438; 0xd700; 0xa438; 0x5fb4; 0xa438; 0xcb39; 0xa438; 0xa00a;
  0xa438; 0xa190; 0xa438; 0xa2a0; 0xa438; 0xa404; 0xa438; 0xd700; 0xa438; 0x6041; 0xa438; 0xa402;
  0xa438; 0xd17a; 0xa438; 0xd047; 0xa438; 0x1000; 0xa438; 0x0a5e; 0xa438; 0xd700; 0xa438; 0x5fb4;
  0xa438; 0x1800; 0xa438; 0x0560; 0xa438; 0xa111; 0xa438; 0x0000; 0xa438; 0x0000; 0xa438; 0x0000;
  0xa438; 0x0000; 0xa438; 0xd3f5; 0xa438; 0xd219; 0xa438; 0x1000; 0xa438; 0x0c31; 0xa438; 0xd708;
  0xa438; 0x5fa5; 0xa438; 0xa215; 0xa438; 0xd30e; 0xa438; 0xd21a; 0xa438; 0x1000; 0xa438; 0x0c31;
  0xa438; 0xd708; 0xa438; 0x63e9; 0xa438; 0xd708; 0xa438; 0x5f65; 0xa438; 0xd708; 0xa438; 0x7f36;
  0xa438; 0xa004; 0xa438; 0x1000; 0xa438; 0x0c35; 0xa438; 0x8004; 0xa438; 0xa001; 0xa438; 0x1000;
  0xa438; 0x0c35; 0xa438; 0x8001; 0xa438; 0xd708; 0xa438; 0x4098; 0xa438; 0xd102; 0xa438; 0x9401;
  0xa438; 0xf003; 0xa438; 0xd103; 0xa438; 0xb401; 0xa438; 0x1000; 0xa438; 0x0c27; 0xa438; 0xa108;
  0xa438; 0x1000; 0xa438; 0x0c35; 0xa438; 0x8108; 0xa438; 0x8110; 0xa438; 0x8294; 0xa438; 0xa202;
  0xa438; 0x1800; 0xa438; 0x0bdb; 0xa438; 0xd39c; 0xa438; 0xd210; 0xa438; 0x1000; 0xa438; 0x0c31;
  0xa438; 0xd708; 0xa438; 0x5fa5; 0xa438; 0xd39c; 0xa438; 0xd210; 0xa438; 0x1000; 0xa438; 0x0c31;
  0xa438; 0xd708; 0xa438; 0x5fa5; 0xa438; 0x1000; 0xa438; 0x0c31; 0xa438; 0xd708; 0xa438; 0x29b5;
  0xa438; 0x840e; 0xa438; 0xd708; 0xa438; 0x5f4a; 0xa438; 0x0c1f; 0xa438; 0x1014; 0xa438; 0x1000;
  0xa438; 0x0c31; 0xa438; 0xd709; 0xa438; 0x7fa4; 0xa438; 0x901f; 0xa438; 0x1800; 0xa438; 0x0c23;
  0xa438; 0xcb43; 0xa438; 0xa508; 0xa438; 0xd701; 0xa438; 0x3699; 0xa438; 0x844a; 0xa438; 0xa504;
  0xa438; 0xa190; 0xa438; 0xa2a0; 0xa438; 0xa404; 0xa438; 0xa00a; 0xa438; 0xd700; 0xa438; 0x2109;
  0xa438; 0x05ea; 0xa438; 0xa402; 0xa438; 0x1800; 0xa438; 0x05ea; 0xa438; 0xcb90; 0xa438; 0x0cf0;
  0xa438; 0x0ca0; 0xa438; 0x1800; 0xa438; 0x06db; 0xa438; 0xd1ff; 0xa438; 0xd052; 0xa438; 0xa508;
  0xa438; 0x8718; 0xa438; 0xa00a; 0xa438; 0xa190; 0xa438; 0xa2a0; 0xa438; 0xa404; 0xa438; 0x0cf0;
  0xa438; 0x0c50; 0xa438; 0x1800; 0xa438; 0x09ef; 0xa438; 0x1000; 0xa438; 0x0a5e; 0xa438; 0xd704;
  0xa438; 0x2e70; 0xa438; 0x06da; 0xa438; 0xd700; 0xa438; 0x5f55; 0xa438; 0xa90c; 0xa438; 0x1800;
  0xa438; 0x0645; 0xa436; 0xA10E; 0xa438; 0x0644; 0xa436; 0xA10C; 0xa438; 0x09e9; 0xa436; 0xA10A;
  0xa438; 0x06da; 0xa436; 0xA108; 0xa438; 0x05e1; 0xa436; 0xA106; 0xa438; 0x0be4; 0xa436; 0xA104;
  0xa438; 0x0435; 0xa436; 0xA102; 0xa438; 0x0141; 0xa436; 0xA100; 0xa438; 0x026d; 0xa436; 0xA110;
  0xa438; 0x00ff; 0xa436; 0xb87c; 0xa438; 0x85fe; 0xa436; 0xb87e; 0xa438; 0xaf86; 0xa438; 0x16af;
  0xa438; 0x8699; 0xa438; 0xaf86; 0xa438; 0xe5af; 0xa438; 0x86f9; 0xa438; 0xaf87; 0xa438; 0x7aaf;
  0xa438; 0x883a; 0xa438; 0xaf88; 0xa438; 0x58af; 0xa438; 0x8b6c; 0xa438; 0xd48b; 0xa438; 0x7c02;
  0xa438; 0x8644; 0xa438; 0x2c00; 0xa438; 0x503c; 0xa438; 0xffd6; 0xa438; 0xac27; 0xa438; 0x18e1;
  0xa438; 0x82fe; 0xa438; 0xad28; 0xa438; 0x0cd4; 0xa438; 0x8b84; 0xa438; 0x0286; 0xa438; 0x442c;
  0xa438; 0x003c; 0xa438; 0xac27; 0xa438; 0x06ee; 0xa438; 0x8299; 0xa438; 0x01ae; 0xa438; 0x04ee;
  0xa438; 0x8299; 0xa438; 0x00af; 0xa438; 0x23dc; 0xa438; 0xf9fa; 0xa438; 0xcefa; 0xa438; 0xfbef;
  0xa438; 0x79fb; 0xa438; 0xc4bf; 0xa438; 0x8b76; 0xa438; 0x026c; 0xa438; 0x6dac; 0xa438; 0x2804;
  0xa438; 0xd203; 0xa438; 0xae02; 0xa438; 0xd201; 0xa438; 0xbdd8; 0xa438; 0x19d9; 0xa438; 0xef94;
  0xa438; 0x026c; 0xa438; 0x6d78; 0xa438; 0x03ef; 0xa438; 0x648a; 0xa438; 0x0002; 0xa438; 0xbdd8;
  0xa438; 0x19d9; 0xa438; 0xef94; 0xa438; 0x026c; 0xa438; 0x6d78; 0xa438; 0x03ef; 0xa438; 0x7402;
  0xa438; 0x72cd; 0xa438; 0xac50; 0xa438; 0x02ef; 0xa438; 0x643a; 0xa438; 0x019f; 0xa438; 0xe4ef;
  0xa438; 0x4678; 0xa438; 0x03ac; 0xa438; 0x2002; 0xa438; 0xae02; 0xa438; 0xd0ff; 0xa438; 0xffef;
  0xa438; 0x97ff; 0xa438; 0xfec6; 0xa438; 0xfefd; 0xa438; 0x041f; 0xa438; 0x771f; 0xa438; 0x221c;
  0xa438; 0x450d; 0xa438; 0x481f; 0xa438; 0x00ac; 0xa438; 0x7f04; 0xa438; 0x1a94; 0xa438; 0xae08;
  0xa438; 0x1a94; 0xa438; 0xac7f; 0xa438; 0x03d7; 0xa438; 0x0100; 0xa438; 0xef46; 0xa438; 0x0d48;
  0xa438; 0x1f00; 0xa438; 0x1c45; 0xa438; 0xef69; 0xa438; 0xef57; 0xa438; 0xef74; 0xa438; 0x0272;
  0xa438; 0xe8a7; 0xa438; 0xffff; 0xa438; 0x0d1a; 0xa438; 0x941b; 0xa438; 0x979e; 0xa438; 0x072d;
  0xa438; 0x0100; 0xa438; 0x1a64; 0xa438; 0xef76; 0xa438; 0xef97; 0xa438; 0x0d98; 0xa438; 0xd400;
  0xa438; 0xff1d; 0xa438; 0x941a; 0xa438; 0x89cf; 0xa438; 0x1a75; 0xa438; 0xaf74; 0xa438; 0xf9bf;
  0xa438; 0x8b79; 0xa438; 0x026c; 0xa438; 0x6da1; 0xa438; 0x0005; 0xa438; 0xe180; 0xa438; 0xa0ae;
  0xa438; 0x03e1; 0xa438; 0x80a1; 0xa438; 0xaf26; 0xa438; 0x9aac; 0xa438; 0x284d; 0xa438; 0xe08f;
  0xa438; 0xffef; 0xa438; 0x10c0; 0xa438; 0xe08f; 0xa438; 0xfe10; 0xa438; 0x1b08; 0xa438; 0xa000;
  0xa438; 0x04c8; 0xa438; 0xaf40; 0xa438; 0x67c8; 0xa438; 0xbf8b; 0xa438; 0x8c02; 0xa438; 0x6c4e;
  0xa438; 0xc4bf; 0xa438; 0x8b8f; 0xa438; 0x026c; 0xa438; 0x6def; 0xa438; 0x74e0; 0xa438; 0x830c;
  0xa438; 0xad20; 0xa438; 0x0302; 0xa438; 0x74ac; 0xa438; 0xccef; 0xa438; 0x971b; 0xa438; 0x76ad;
  0xa438; 0x5f02; 0xa438; 0xae13; 0xa438; 0xef69; 0xa438; 0xef30; 0xa438; 0x1b32; 0xa438; 0xc4ef;
  0xa438; 0x46e4; 0xa438; 0x8ffb; 0xa438; 0xe58f; 0xa438; 0xfce7; 0xa438; 0x8ffd; 0xa438; 0xcc10;
  0xa438; 0x11ae; 0xa438; 0xb8d1; 0xa438; 0x00a1; 0xa438; 0x1f03; 0xa438; 0xaf40; 0xa438; 0x4fbf;
  0xa438; 0x8b8c; 0xa438; 0x026c; 0xa438; 0x4ec4; 0xa438; 0xbf8b; 0xa438; 0x8f02; 0xa438; 0x6c6d;
  0xa438; 0xef74; 0xa438; 0xe083; 0xa438; 0x0cad; 0xa438; 0x2003; 0xa438; 0x0274; 0xa438; 0xaccc;
  0xa438; 0xef97; 0xa438; 0x1b76; 0xa438; 0xad5f; 0xa438; 0x02ae; 0xa438; 0x04ef; 0xa438; 0x69ef;
  0xa438; 0x3111; 0xa438; 0xaed1; 0xa438; 0x0287; 0xa438; 0x80af; 0xa438; 0x2293; 0xa438; 0xf8f9;
  0xa438; 0xfafb; 0xa438; 0xef59; 0xa438; 0xe080; 0xa438; 0x13ad; 0xa438; 0x252f; 0xa438; 0xbf88;
  0xa438; 0x2802; 0xa438; 0x6c6d; 0xa438; 0xef64; 0xa438; 0x1f44; 0xa438; 0xe18f; 0xa438; 0xb91b;
  0xa438; 0x64ad; 0xa438; 0x4f1d; 0xa438; 0xd688; 0xa438; 0x2bd7; 0xa438; 0x882e; 0xa438; 0x0274;
  0xa438; 0x73ad; 0xa438; 0x5008; 0xa438; 0xbf88; 0xa438; 0x3102; 0xa438; 0x737c; 0xa438; 0xae03;
  0xa438; 0x0287; 0xa438; 0xd0bf; 0xa438; 0x882b; 0xa438; 0x0273; 0xa438; 0x73e0; 0xa438; 0x824c;
  0xa438; 0xf621; 0xa438; 0xe482; 0xa438; 0x4cbf; 0xa438; 0x8834; 0xa438; 0x0273; 0xa438; 0x7cef;
  0xa438; 0x95ff; 0xa438; 0xfefd; 0xa438; 0xfc04; 0xa438; 0xf8f9; 0xa438; 0xfafb; 0xa438; 0xef79;
  0xa438; 0xbf88; 0xa438; 0x1f02; 0xa438; 0x737c; 0xa438; 0x1f22; 0xa438; 0xac32; 0xa438; 0x31ef;
  0xa438; 0x12bf; 0xa438; 0x8822; 0xa438; 0x026c; 0xa438; 0x4ed6; 0xa438; 0x8fba; 0xa438; 0x1f33;
  0xa438; 0xac3c; 0xa438; 0x1eef; 0xa438; 0x13bf; 0xa438; 0x8837; 0xa438; 0x026c; 0xa438; 0x4eef;
  0xa438; 0x96d8; 0xa438; 0x19d9; 0xa438; 0xbf88; 0xa438; 0x2502; 0xa438; 0x6c4e; 0xa438; 0xbf88;
  0xa438; 0x2502; 0xa438; 0x6c4e; 0xa438; 0x1616; 0xa438; 0x13ae; 0xa438; 0xdf12; 0xa438; 0xaecc;
  0xa438; 0xbf88; 0xa438; 0x1f02; 0xa438; 0x7373; 0xa438; 0xef97; 0xa438; 0xfffe; 0xa438; 0xfdfc;
  0xa438; 0x0466; 0xa438; 0xac88; 0xa438; 0x54ac; 0xa438; 0x88f0; 0xa438; 0xac8a; 0xa438; 0x92ac;
  0xa438; 0xbadd; 0xa438; 0xac6c; 0xa438; 0xeeac; 0xa438; 0x6cff; 0xa438; 0xad02; 0xa438; 0x99ac;
  0xa438; 0x0030; 0xa438; 0xac88; 0xa438; 0xd4c3; 0xa438; 0x5000; 0xa438; 0x0000; 0xa438; 0x0000;
  0xa438; 0x0000; 0xa438; 0x0000; 0xa438; 0x0000; 0xa438; 0x0000; 0xa438; 0x0000; 0xa438; 0x0000;
  0xa438; 0x00b4; 0xa438; 0xecee; 0xa438; 0x8298; 0xa438; 0x00af; 0xa438; 0x1412; 0xa438; 0xf8bf;
  0xa438; 0x8b5d; 0xa438; 0x026c; 0xa438; 0x6d58; 0xa438; 0x03e1; 0xa438; 0x8fb8; 0xa438; 0x2901;
  0xa438; 0xe58f; 0xa438; 0xb8a0; 0xa438; 0x0049; 0xa438; 0xef47; 0xa438; 0xe483; 0xa438; 0x02e5;
  0xa438; 0x8303; 0xa438; 0xbfc2; 0xa438; 0x5f1a; 0xa438; 0x95f7; 0xa438; 0x05ee; 0xa438; 0xffd2;
  0xa438; 0x00d8; 0xa438; 0xf605; 0xa438; 0x1f11; 0xa438; 0xef60; 0xa438; 0xbf8b; 0xa438; 0x3002;
  0xa438; 0x6c4e; 0xa438; 0xbf8b; 0xa438; 0x3302; 0xa438; 0x6c6d; 0xa438; 0xf728; 0xa438; 0xbf8b;
  0xa438; 0x3302; 0xa438; 0x6c4e; 0xa438; 0xf628; 0xa438; 0xbf8b; 0xa438; 0x3302; 0xa438; 0x6c4e;
  0xa438; 0x0c64; 0xa438; 0xef46; 0xa438; 0xbf8b; 0xa438; 0x6002; 0xa438; 0x6c4e; 0xa438; 0x0289;
  0xa438; 0x9902; 0xa438; 0x3920; 0xa438; 0xaf89; 0xa438; 0x96a0; 0xa438; 0x0149; 0xa438; 0xef47;
  0xa438; 0xe483; 0xa438; 0x04e5; 0xa438; 0x8305; 0xa438; 0xbfc2; 0xa438; 0x5f1a; 0xa438; 0x95f7;
  0xa438; 0x05ee; 0xa438; 0xffd2; 0xa438; 0x00d8; 0xa438; 0xf605; 0xa438; 0x1f11; 0xa438; 0xef60;
  0xa438; 0xbf8b; 0xa438; 0x3002; 0xa438; 0x6c4e; 0xa438; 0xbf8b; 0xa438; 0x3302; 0xa438; 0x6c6d;
  0xa438; 0xf729; 0xa438; 0xbf8b; 0xa438; 0x3302; 0xa438; 0x6c4e; 0xa438; 0xf629; 0xa438; 0xbf8b;
  0xa438; 0x3302; 0xa438; 0x6c4e; 0xa438; 0x0c64; 0xa438; 0xef46; 0xa438; 0xbf8b; 0xa438; 0x6302;
  0xa438; 0x6c4e; 0xa438; 0x0289; 0xa438; 0x9902; 0xa438; 0x3920; 0xa438; 0xaf89; 0xa438; 0x96a0;
  0xa438; 0x0249; 0xa438; 0xef47; 0xa438; 0xe483; 0xa438; 0x06e5; 0xa438; 0x8307; 0xa438; 0xbfc2;
  0xa438; 0x5f1a; 0xa438; 0x95f7; 0xa438; 0x05ee; 0xa438; 0xffd2; 0xa438; 0x00d8; 0xa438; 0xf605;
  0xa438; 0x1f11; 0xa438; 0xef60; 0xa438; 0xbf8b; 0xa438; 0x3002; 0xa438; 0x6c4e; 0xa438; 0xbf8b;
  0xa438; 0x3302; 0xa438; 0x6c6d; 0xa438; 0xf72a; 0xa438; 0xbf8b; 0xa438; 0x3302; 0xa438; 0x6c4e;
  0xa438; 0xf62a; 0xa438; 0xbf8b; 0xa438; 0x3302; 0xa438; 0x6c4e; 0xa438; 0x0c64; 0xa438; 0xef46;
  0xa438; 0xbf8b; 0xa438; 0x6602; 0xa438; 0x6c4e; 0xa438; 0x0289; 0xa438; 0x9902; 0xa438; 0x3920;
  0xa438; 0xaf89; 0xa438; 0x96ef; 0xa438; 0x47e4; 0xa438; 0x8308; 0xa438; 0xe583; 0xa438; 0x09bf;
  0xa438; 0xc25f; 0xa438; 0x1a95; 0xa438; 0xf705; 0xa438; 0xeeff; 0xa438; 0xd200; 0xa438; 0xd8f6;
  0xa438; 0x051f; 0xa438; 0x11ef; 0xa438; 0x60bf; 0xa438; 0x8b30; 0xa438; 0x026c; 0xa438; 0x4ebf;
  0xa438; 0x8b33; 0xa438; 0x026c; 0xa438; 0x6df7; 0xa438; 0x2bbf; 0xa438; 0x8b33; 0xa438; 0x026c;
  0xa438; 0x4ef6; 0xa438; 0x2bbf; 0xa438; 0x8b33; 0xa438; 0x026c; 0xa438; 0x4e0c; 0xa438; 0x64ef;
  0xa438; 0x46bf; 0xa438; 0x8b69; 0xa438; 0x026c; 0xa438; 0x4e02; 0xa438; 0x8999; 0xa438; 0x0239;
  0xa438; 0x20af; 0xa438; 0x8996; 0xa438; 0xaf39; 0xa438; 0x1ef8; 0xa438; 0xf9fa; 0xa438; 0xe08f;
  0xa438; 0xb838; 0xa438; 0x02ad; 0xa438; 0x2702; 0xa438; 0xae03; 0xa438; 0xaf8b; 0xa438; 0x201f;
  0xa438; 0x66ef; 0xa438; 0x65bf; 0xa438; 0xc21f; 0xa438; 0x1a96; 0xa438; 0xf705; 0xa438; 0xeeff;
  0xa438; 0xd200; 0xa438; 0xdaf6; 0xa438; 0x05bf; 0xa438; 0xc22f; 0xa438; 0x1a96; 0xa438; 0xf705;
  0xa438; 0xeeff; 0xa438; 0xd200; 0xa438; 0xdbf6; 0xa438; 0x05ef; 0xa438; 0x021f; 0xa438; 0x110d;
  0xa438; 0x42bf; 0xa438; 0x8b3c; 0xa438; 0x026c; 0xa438; 0x4eef; 0xa438; 0x021b; 0xa438; 0x031f;
  0xa438; 0x110d; 0xa438; 0x42bf; 0xa438; 0x8b36; 0xa438; 0x026c; 0xa438; 0x4eef; 0xa438; 0x021a;
  0xa438; 0x031f; 0xa438; 0x110d; 0xa438; 0x42bf; 0xa438; 0x8b39; 0xa438; 0x026c; 0xa438; 0x4ebf;
  0xa438; 0xc23f; 0xa438; 0x1a96; 0xa438; 0xf705; 0xa438; 0xeeff; 0xa438; 0xd200; 0xa438; 0xdaf6;
  0xa438; 0x05bf; 0xa438; 0xc24f; 0xa438; 0x1a96; 0xa438; 0xf705; 0xa438; 0xeeff; 0xa438; 0xd200;
  0xa438; 0xdbf6; 0xa438; 0x05ef; 0xa438; 0x021f; 0xa438; 0x110d; 0xa438; 0x42bf; 0xa438; 0x8b45;
  0xa438; 0x026c; 0xa438; 0x4eef; 0xa438; 0x021b; 0xa438; 0x031f; 0xa438; 0x110d; 0xa438; 0x42bf;
  0xa438; 0x8b3f; 0xa438; 0x026c; 0xa438; 0x4eef; 0xa438; 0x021a; 0xa438; 0x031f; 0xa438; 0x110d;
  0xa438; 0x42bf; 0xa438; 0x8b42; 0xa438; 0x026c; 0xa438; 0x4eef; 0xa438; 0x56d0; 0xa438; 0x201f;
  0xa438; 0x11bf; 0xa438; 0x8b4e; 0xa438; 0x026c; 0xa438; 0x4ebf; 0xa438; 0x8b48; 0xa438; 0x026c;
  0xa438; 0x4ebf; 0xa438; 0x8b4b; 0xa438; 0x026c; 0xa438; 0x4ee1; 0xa438; 0x8578; 0xa438; 0xef03;
  0xa438; 0x480a; 0xa438; 0x2805; 0xa438; 0xef20; 0xa438; 0x1b01; 0xa438; 0xad27; 0xa438; 0x3f1f;
  0xa438; 0x44e0; 0xa438; 0x8560; 0xa438; 0xe185; 0xa438; 0x61bf; 0xa438; 0x8b51; 0xa438; 0x026c;
  0xa438; 0x4ee0; 0xa438; 0x8566; 0xa438; 0xe185; 0xa438; 0x67bf; 0xa438; 0x8b54; 0xa438; 0x026c;
  0xa438; 0x4ee0; 0xa438; 0x856c; 0xa438; 0xe185; 0xa438; 0x6dbf; 0xa438; 0x8b57; 0xa438; 0x026c;
  0xa438; 0x4ee0; 0xa438; 0x8572; 0xa438; 0xe185; 0xa438; 0x73bf; 0xa438; 0x8b5a; 0xa438; 0x026c;
  0xa438; 0x4ee1; 0xa438; 0x8fb8; 0xa438; 0x5900; 0xa438; 0xf728; 0xa438; 0xe58f; 0xa438; 0xb8af;
  0xa438; 0x8b2c; 0xa438; 0xe185; 0xa438; 0x791b; 0xa438; 0x21ad; 0xa438; 0x373e; 0xa438; 0x1f44;
  0xa438; 0xe085; 0xa438; 0x62e1; 0xa438; 0x8563; 0xa438; 0xbf8b; 0xa438; 0x5102; 0xa438; 0x6c4e;
  0xa438; 0xe085; 0xa438; 0x68e1; 0xa438; 0x8569; 0xa438; 0xbf8b; 0xa438; 0x5402; 0xa438; 0x6c4e;
  0xa438; 0xe085; 0xa438; 0x6ee1; 0xa438; 0x856f; 0xa438; 0xbf8b; 0xa438; 0x5702; 0xa438; 0x6c4e;
  0xa438; 0xe085; 0xa438; 0x74e1; 0xa438; 0x8575; 0xa438; 0xbf8b; 0xa438; 0x5a02; 0xa438; 0x6c4e;
  0xa438; 0xe18f; 0xa438; 0xb859; 0xa438; 0x00f7; 0xa438; 0x28e5; 0xa438; 0x8fb8; 0xa438; 0xae4a;
  0xa438; 0x1f44; 0xa438; 0xe085; 0xa438; 0x64e1; 0xa438; 0x8565; 0xa438; 0xbf8b; 0xa438; 0x5102;
  0xa438; 0x6c4e; 0xa438; 0xe085; 0xa438; 0x6ae1; 0xa438; 0x856b; 0xa438; 0xbf8b; 0xa438; 0x5402;
  0xa438; 0x6c4e; 0xa438; 0xe085; 0xa438; 0x70e1; 0xa438; 0x8571; 0xa438; 0xbf8b; 0xa438; 0x5702;
  0xa438; 0x6c4e; 0xa438; 0xe085; 0xa438; 0x76e1; 0xa438; 0x8577; 0xa438; 0xbf8b; 0xa438; 0x5a02;
  0xa438; 0x6c4e; 0xa438; 0xe18f; 0xa438; 0xb859; 0xa438; 0x00f7; 0xa438; 0x28e5; 0xa438; 0x8fb8;
  0xa438; 0xae0c; 0xa438; 0xe18f; 0xa438; 0xb839; 0xa438; 0x04ac; 0xa438; 0x2f04; 0xa438; 0xee8f;
  0xa438; 0xb800; 0xa438; 0xfefd; 0xa438; 0xfc04; 0xa438; 0xf0ac; 0xa438; 0x8efc; 0xa438; 0xac8c;
  0xa438; 0xf0ac; 0xa438; 0xfaf0; 0xa438; 0xacf8; 0xa438; 0xf0ac; 0xa438; 0xf6f0; 0xa438; 0xad00;
  0xa438; 0xf0ac; 0xa438; 0xfef0; 0xa438; 0xacfc; 0xa438; 0xf0ac; 0xa438; 0xf4f0; 0xa438; 0xacf2;
  0xa438; 0xf0ac; 0xa438; 0xf0f0; 0xa438; 0xacb0; 0xa438; 0xf0ac; 0xa438; 0xaef0; 0xa438; 0xacac;
  0xa438; 0xf0ac; 0xa438; 0xaaf0; 0xa438; 0xacee; 0xa438; 0xf0b0; 0xa438; 0x24f0; 0xa438; 0xb0a4;
  0xa438; 0xf0b1; 0xa438; 0x24f0; 0xa438; 0xb1a4; 0xa438; 0xee8f; 0xa438; 0xb800; 0xa438; 0xd400;
  0xa438; 0x00af; 0xa438; 0x3976; 0xa438; 0x66ac; 0xa438; 0xeabb; 0xa438; 0xa430; 0xa438; 0x6e50;
  0xa438; 0x6e53; 0xa438; 0x6e56; 0xa438; 0x6e59; 0xa438; 0x6e5c; 0xa438; 0x6e5f; 0xa438; 0x6e62;
  0xa438; 0x6e65; 0xa438; 0xd9ac; 0xa438; 0x70f0; 0xa438; 0xac6a; 0xa436; 0xb85e; 0xa438; 0x23b7;
  0xa436; 0xb860; 0xa438; 0x74db; 0xa436; 0xb862; 0xa438; 0x268c; 0xa436; 0xb864; 0xa438; 0x3FE5;
  0xa436; 0xb886; 0xa438; 0x2250; 0xa436; 0xb888; 0xa438; 0x140e; 0xa436; 0xb88a; 0xa438; 0x3696;
  0xa436; 0xb88c; 0xa438; 0x3973; 0xa436; 0xb838; 0xa438; 0x00ff; 0xb820; 0x0010; 0xa436; 0x8464;
  0xa438; 0xaf84; 0xa438; 0x7caf; 0xa438; 0x8485; 0xa438; 0xaf85; 0xa438; 0x13af; 0xa438; 0x851e;
  0xa438; 0xaf85; 0xa438; 0xb9af; 0xa438; 0x8684; 0xa438; 0xaf87; 0xa438; 0x01af; 0xa438; 0x8701;
  0xa438; 0xac38; 0xa438; 0x03af; 0xa438; 0x38bb; 0xa438; 0xaf38; 0xa438; 0xc302; 0xa438; 0x4618;
  0xa438; 0xbf85; 0xa438; 0x0a02; 0xa438; 0x54b7; 0xa438; 0xbf85; 0xa438; 0x1002; 0xa438; 0x54c0;
  0xa438; 0xd400; 0xa438; 0x0fbf; 0xa438; 0x8507; 0xa438; 0x024f; 0xa438; 0x48bf; 0xa438; 0x8504;
  0xa438; 0x024f; 0xa438; 0x6759; 0xa438; 0xf0a1; 0xa438; 0x3008; 0xa438; 0xbf85; 0xa438; 0x0d02;
  0xa438; 0x54c0; 0xa438; 0xae06; 0xa438; 0xbf85; 0xa438; 0x0d02; 0xa438; 0x54b7; 0xa438; 0xbf85;
  0xa438; 0x0402; 0xa438; 0x4f67; 0xa438; 0xa183; 0xa438; 0x02ae; 0xa438; 0x15a1; 0xa438; 0x8502;
  0xa438; 0xae10; 0xa438; 0x59f0; 0xa438; 0xa180; 0xa438; 0x16bf; 0xa438; 0x8501; 0xa438; 0x024f;
  0xa438; 0x67a1; 0xa438; 0x381b; 0xa438; 0xae0b; 0xa438; 0xe18f; 0xa438; 0xffbf; 0xa438; 0x84fe;
  0xa438; 0x024f; 0xa438; 0x48ae; 0xa438; 0x17bf; 0xa438; 0x84fe; 0xa438; 0x0254; 0xa438; 0xb7bf;
  0xa438; 0x84fb; 0xa438; 0x0254; 0xa438; 0xb7ae; 0xa438; 0x09a1; 0xa438; 0x5006; 0xa438; 0xbf84;
  0xa438; 0xfb02; 0xa438; 0x54c0; 0xa438; 0xaf04; 0xa438; 0x4700; 0xa438; 0xad34; 0xa438; 0xfdad;
  0xa438; 0x0670; 0xa438; 0xae14; 0xa438; 0xf0a6; 0xa438; 0x00b8; 0xa438; 0xbd32; 0xa438; 0x30bd;
  0xa438; 0x30aa; 0xa438; 0xbd2c; 0xa438; 0xccbd; 0xa438; 0x2ca1; 0xa438; 0x0705; 0xa438; 0xec80;
  0xa438; 0xaf40; 0xa438; 0xf7af; 0xa438; 0x40f5; 0xa438; 0xd101; 0xa438; 0xbf85; 0xa438; 0xa402;
  0xa438; 0x4f48; 0xa438; 0xbf85; 0xa438; 0xa702; 0xa438; 0x54c0; 0xa438; 0xd10f; 0xa438; 0xbf85;
  0xa438; 0xaa02; 0xa438; 0x4f48; 0xa438; 0x024d; 0xa438; 0x6abf; 0xa438; 0x85ad; 0xa438; 0x024f;
  0xa438; 0x67bf; 0xa438; 0x8ff7; 0xa438; 0xddbf; 0xa438; 0x85b0; 0xa438; 0x024f; 0xa438; 0x67bf;
  0xa438; 0x8ff8; 0xa438; 0xddbf; 0xa438; 0x85b3; 0xa438; 0x024f; 0xa438; 0x67bf; 0xa438; 0x8ff9;
  0xa438; 0xddbf; 0xa438; 0x85b6; 0xa438; 0x024f; 0xa438; 0x67bf; 0xa438; 0x8ffa; 0xa438; 0xddd1;
  0xa438; 0x00bf; 0xa438; 0x85aa; 0xa438; 0x024f; 0xa438; 0x4802; 0xa438; 0x4d6a; 0xa438; 0xbf85;
  0xa438; 0xad02; 0xa438; 0x4f67; 0xa438; 0xbf8f; 0xa438; 0xfbdd; 0xa438; 0xbf85; 0xa438; 0xb002;
  0xa438; 0x4f67; 0xa438; 0xbf8f; 0xa438; 0xfcdd; 0xa438; 0xbf85; 0xa438; 0xb302; 0xa438; 0x4f67;
  0xa438; 0xbf8f; 0xa438; 0xfddd; 0xa438; 0xbf85; 0xa438; 0xb602; 0xa438; 0x4f67; 0xa438; 0xbf8f;
  0xa438; 0xfedd; 0xa438; 0xbf85; 0xa438; 0xa702; 0xa438; 0x54b7; 0xa438; 0xbf85; 0xa438; 0xa102;
  0xa438; 0x54b7; 0xa438; 0xaf3c; 0xa438; 0x2066; 0xa438; 0xb800; 0xa438; 0xb8bd; 0xa438; 0x30ee;
  0xa438; 0xbd2c; 0xa438; 0xb8bd; 0xa438; 0x7040; 0xa438; 0xbd86; 0xa438; 0xc8bd; 0xa438; 0x8640;
  0xa438; 0xbd88; 0xa438; 0xc8bd; 0xa438; 0x8802; 0xa438; 0x1929; 0xa438; 0xa202; 0xa438; 0x02ae;
  0xa438; 0x03a2; 0xa438; 0x032e; 0xa438; 0xd10f; 0xa438; 0xbf85; 0xa438; 0xaa02; 0xa438; 0x4f48;
  0xa438; 0xe18f; 0xa438; 0xf7bf; 0xa438; 0x85ad; 0xa438; 0x024f; 0xa438; 0x48e1; 0xa438; 0x8ff8;
  0xa438; 0xbf85; 0xa438; 0xb002; 0xa438; 0x4f48; 0xa438; 0xe18f; 0xa438; 0xf9bf; 0xa438; 0x85b3;
  0xa438; 0x024f; 0xa438; 0x48e1; 0xa438; 0x8ffa; 0xa438; 0xbf85; 0xa438; 0xb602; 0xa438; 0x4f48;
  0xa438; 0xae2c; 0xa438; 0xd100; 0xa438; 0xbf85; 0xa438; 0xaa02; 0xa438; 0x4f48; 0xa438; 0xe18f;
  0xa438; 0xfbbf; 0xa438; 0x85ad; 0xa438; 0x024f; 0xa438; 0x48e1; 0xa438; 0x8ffc; 0xa438; 0xbf85;
  0xa438; 0xb002; 0xa438; 0x4f48; 0xa438; 0xe18f; 0xa438; 0xfdbf; 0xa438; 0x85b3; 0xa438; 0x024f;
  0xa438; 0x48e1; 0xa438; 0x8ffe; 0xa438; 0xbf85; 0xa438; 0xb602; 0xa438; 0x4f48; 0xa438; 0xbf86;
  0xa438; 0x7e02; 0xa438; 0x4f67; 0xa438; 0xa100; 0xa438; 0x02ae; 0xa438; 0x25a1; 0xa438; 0x041d;
  0xa438; 0xe18f; 0xa438; 0xf1bf; 0xa438; 0x8675; 0xa438; 0x024f; 0xa438; 0x48e1; 0xa438; 0x8ff2;
  0xa438; 0xbf86; 0xa438; 0x7802; 0xa438; 0x4f48; 0xa438; 0xe18f; 0xa438; 0xf3bf; 0xa438; 0x867b;
  0xa438; 0x024f; 0xa438; 0x48ae; 0xa438; 0x29a1; 0xa438; 0x070b; 0xa438; 0xae24; 0xa438; 0xbf86;
  0xa438; 0x8102; 0xa438; 0x4f67; 0xa438; 0xad28; 0xa438; 0x1be1; 0xa438; 0x8ff4; 0xa438; 0xbf86;
  0xa438; 0x7502; 0xa438; 0x4f48; 0xa438; 0xe18f; 0xa438; 0xf5bf; 0xa438; 0x8678; 0xa438; 0x024f;
  0xa438; 0x48e1; 0xa438; 0x8ff6; 0xa438; 0xbf86; 0xa438; 0x7b02; 0xa438; 0x4f48; 0xa438; 0xaf09;
  0xa438; 0x8420; 0xa438; 0xbc32; 0xa438; 0x20bc; 0xa438; 0x3e76; 0xa438; 0xbc08; 0xa438; 0xfda6;
  0xa438; 0x1a00; 0xa438; 0xb64e; 0xa438; 0xd101; 0xa438; 0xbf85; 0xa438; 0xa402; 0xa438; 0x4f48;
  0xa438; 0xbf85; 0xa438; 0xa702; 0xa438; 0x54c0; 0xa438; 0xd10f; 0xa438; 0xbf85; 0xa438; 0xaa02;
  0xa438; 0x4f48; 0xa438; 0x024d; 0xa438; 0x6abf; 0xa438; 0x85ad; 0xa438; 0x024f; 0xa438; 0x67bf;
  0xa438; 0x8ff7; 0xa438; 0xddbf; 0xa438; 0x85b0; 0xa438; 0x024f; 0xa438; 0x67bf; 0xa438; 0x8ff8;
  0xa438; 0xddbf; 0xa438; 0x85b3; 0xa438; 0x024f; 0xa438; 0x67bf; 0xa438; 0x8ff9; 0xa438; 0xddbf;
  0xa438; 0x85b6; 0xa438; 0x024f; 0xa438; 0x67bf; 0xa438; 0x8ffa; 0xa438; 0xddd1; 0xa438; 0x00bf;
  0xa438; 0x85aa; 0xa438; 0x024f; 0xa438; 0x4802; 0xa438; 0x4d6a; 0xa438; 0xbf85; 0xa438; 0xad02;
  0xa438; 0x4f67; 0xa438; 0xbf8f; 0xa438; 0xfbdd; 0xa438; 0xbf85; 0xa438; 0xb002; 0xa438; 0x4f67;
  0xa438; 0xbf8f; 0xa438; 0xfcdd; 0xa438; 0xbf85; 0xa438; 0xb302; 0xa438; 0x4f67; 0xa438; 0xbf8f;
  0xa438; 0xfddd; 0xa438; 0xbf85; 0xa438; 0xb602; 0xa438; 0x4f67; 0xa438; 0xbf8f; 0xa438; 0xfedd;
  0xa438; 0xbf85; 0xa438; 0xa702; 0xa438; 0x54b7; 0xa438; 0xaf00; 0xa438; 0x8800; 0xa436; 0xb818;
  0xa438; 0x38b8; 0xa436; 0xb81a; 0xa438; 0x0444; 0xa436; 0xb81c; 0xa438; 0x40ee; 0xa436; 0xb81e;
  0xa438; 0x3C1A; 0xa436; 0xb850; 0xa438; 0x0981; 0xa436; 0xb852; 0xa438; 0x0085; 0xa436; 0xb878;
  0xa438; 0xffff; 0xa436; 0xb884; 0xa438; 0xffff; 0xa436; 0xb832; 0xa438; 0x003f; 0xa436; 0x0000;
  0xa438; 0x0000; 0xa436; 0xB82E; 0xa438; 0x0000; 0xa436; 0x8024; 0xa438; 0x0000; 0xb820; 0x0000;
  0xa436; 0x801E; 0xa438; 0x0021; 0xFFFF; 0xFFFF].

Definition phy_mcu_ram_code_8125b_2 : list Z := [
  0xa436; 0x8024; 0xa438; 0x3701; 0xa436; 0xB82E; 0xa438; 0x0001; 0xb820; 0x0090; 0xa436; 0xA016;
  0xa438; 0x0000; 0xa436; 0xA012; 0xa438; 0x0000; 0xa436; 0xA014; 0xa438; 0x1800; 0xa438; 0x8010;
  0xa438; 0x1800; 0xa438; 0x801a; 0xa438; 0x1800; 0xa438; 0x803f; 0xa438; 0x1800; 0xa438; 0x8045;
  0xa438; 0x1800; 0xa438; 0x8067; 0xa438; 0x1800; 0xa438; 0x806d; 0xa438; 0x1800; 0xa438; 0x8071;
  0xa438; 0x1800; 0xa438; 0x80b1; 0xa438; 0xd093; 0xa438; 0xd1c4; 0xa438; 0x1000; 0xa438; 0x135c;
  0xa438; 0xd704; 0xa438; 0x5fbc; 0xa438; 0xd504; 0xa438; 0xc9f1; 0xa438; 0x1800; 0xa438; 0x0fc9;
  0xa438; 0xbb50; 0xa438; 0xd505; 0xa438; 0xa202; 0xa438; 0xd504; 0xa438; 0x8c0f; 0xa438; 0xd500;
  0xa438; 0x1000; 0xa438; 0x1519; 0xa438; 0x1000; 0xa438; 0x135c; 0xa438; 0xd75e; 0xa438; 0x5fae;
  0xa438; 0x9b50; 0xa438; 0x1000; 0xa438; 0x135c; 0xa438; 0xd75e; 0xa438; 0x7fae; 0xa438; 0x1000;
  0xa438; 0x135c; 0xa438; 0xd707; 0xa438; 0x40a7; 0xa438; 0xd719; 0xa438; 0x4071; 0xa438; 0x1800;
  0xa438; 0x1557; 0xa438; 0xd719; 0xa438; 0x2f70; 0xa438; 0x803b; 0xa438; 0x2f73; 0xa438; 0x156a;
  0xa438; 0x5e70; 0xa438; 0x1800; 0xa438; 0x155d; 0xa438; 0xd505; 0xa438; 0xa202; 0xa438; 0xd500;
  0xa438; 0xffed; 0xa438; 0xd709; 0xa438; 0x4054; 0xa438; 0xa788; 0xa438; 0xd70b; 0xa438; 0x1800;
  0xa438; 0x172a; 0xa438; 0xc0c1; 0xa438; 0xc0c0; 0xa438; 0xd05a; 0xa438; 0xd1ba; 0xa438; 0xd701;
  0xa438; 0x2529; 0xa438; 0x022a; 0xa438; 0xd0a7; 0xa438; 0xd1b9; 0xa438; 0xa208; 0xa438; 0x1000;
  0xa438; 0x080e; 0xa438; 0xd701; 0xa438; 0x408b; 0xa438; 0x1000; 0xa438; 0x0a65; 0xa438; 0xf003;
  0xa438; 0x1000; 0xa438; 0x0a6b; 0xa438; 0xd701; 0xa438; 0x1000; 0xa438; 0x0920; 0xa438; 0x1000;
  0xa438; 0x0915; 0xa438; 0x1000; 0xa438; 0x0909; 0xa438; 0x228f; 0xa438; 0x804e; 0xa438; 0x9801;
  0xa438; 0xd71e; 0xa438; 0x5d61; 0xa438; 0xd701; 0xa438; 0x1800; 0xa438; 0x022a; 0xa438; 0x2005;
  0xa438; 0x091a; 0xa438; 0x3bd9; 0xa438; 0x0919; 0xa438; 0x1800; 0xa438; 0x0916; 0xa438; 0xd090;
  0xa438; 0xd1c9; 0xa438; 0x1800; 0xa438; 0x1064; 0xa438; 0xd096; 0xa438; 0xd1a9; 0xa438; 0xd503;
  0xa438; 0xa104; 0xa438; 0x0c07; 0xa438; 0x0902; 0xa438; 0xd500; 0xa438; 0xbc10; 0xa438; 0xd501;
  0xa438; 0xce01; 0xa438; 0xa201; 0xa438; 0x8201; 0xa438; 0xce00; 0xa438; 0xd500; 0xa438; 0xc484;
  0xa438; 0xd503; 0xa438; 0xcc02; 0xa438; 0xcd0d; 0xa438; 0xaf01; 0xa438; 0xd500; 0xa438; 0xd703;
  0xa438; 0x4371; 0xa438; 0xbd08; 0xa438; 0x1000; 0xa438; 0x135c; 0xa438; 0xd75e; 0xa438; 0x5fb3;
  0xa438; 0xd503; 0xa438; 0xd0f5; 0xa438; 0xd1c6; 0xa438; 0x0cf0; 0xa438; 0x0e50; 0xa438; 0xd704;
  0xa438; 0x401c; 0xa438; 0xd0f5; 0xa438; 0xd1c6; 0xa438; 0x0cf0; 0xa438; 0x0ea0; 0xa438; 0x401c;
  0xa438; 0xd07b; 0xa438; 0xd1c5; 0xa438; 0x8ef0; 0xa438; 0x401c; 0xa438; 0x9d08; 0xa438; 0x1000;
  0xa438; 0x135c; 0xa438; 0xd75e; 0xa438; 0x7fb3; 0xa438; 0x1000; 0xa438; 0x135c; 0xa438; 0xd75e;
  0xa438; 0x5fad; 0xa438; 0x1000; 0xa438; 0x14c5; 0xa438; 0xd703; 0xa438; 0x3181; 0xa438; 0x80af;
  0xa438; 0x60ad; 0xa438; 0x1000; 0xa438; 0x135c; 0xa438; 0xd703; 0xa438; 0x5fba; 0xa438; 0x1800;
  0xa438; 0x0cc7; 0xa438; 0xa802; 0xa438; 0xa301; 0xa438; 0xa801; 0xa438; 0xc004; 0xa438; 0xd710;
  0xa438; 0x4000; 0xa438; 0x1800; 0xa438; 0x1e79; 0xa436; 0xA026; 0xa438; 0x1e78; 0xa436; 0xA024;
  0xa438; 0x0c93; 0xa436; 0xA022; 0xa438; 0x1062; 0xa436; 0xA020; 0xa438; 0x0915; 0xa436; 0xA006;
  0xa438; 0x020a; 0xa436; 0xA004; 0xa438; 0x1726; 0xa436; 0xA002; 0xa438; 0x1542; 0xa436; 0xA000;
  0xa438; 0x0fc7; 0xa436; 0xA008; 0xa438; 0xff00; 0xa436; 0xA016; 0xa438; 0x0010; 0xa436; 0xA012;
  0xa438; 0x0000; 0xa436; 0xA014; 0xa438; 0x1800; 0xa438; 0x8010; 0xa438; 0x1800; 0xa438; 0x801d;
  0xa438; 0x1800; 0xa438; 0x802c; 0xa438; 0x1800; 0xa438; 0x802c; 0xa438; 0x1800; 0xa438; 0x802c;
  0xa438; 0x1800; 0xa438; 0x802c; 0xa438; 0x1800; 0xa438; 0x802c; 0xa438; 0x1800; 0xa438; 0x802c;
  0xa438; 0xd700; 0xa438; 0x6090; 0xa438; 0x60d1; 0xa438; 0xc95c; 0xa438; 0xf007; 0xa438; 0x60b1;
  0xa438; 0xc95a; 0xa438; 0xf004; 0xa438; 0xc956; 0xa438; 0xf002; 0xa438; 0xc94e; 0xa438; 0x1800;
  0xa438; 0x00cd; 0xa438; 0xd700; 0xa438; 0x6090; 0xa438; 0x60d1; 0xa438; 0xc95c; 0xa438; 0xf007;
  0xa438; 0x60b1; 0xa438; 0xc95a; 0xa438; 0xf004; 0xa438; 0xc956; 0xa438; 0xf002; 0xa438; 0xc94e;
  0xa438; 0x1000; 0xa438; 0x022a; 0xa438; 0x1800; 0xa438; 0x0132; 0xa436; 0xA08E; 0xa438; 0xffff;
  0xa436; 0xA08C; 0xa438; 0xffff; 0xa436; 0xA08A; 0xa438; 0xffff; 0xa436; 0xA088; 0xa438; 0xffff;
  0xa436; 0xA086; 0xa438; 0xffff; 0xa436; 0xA084; 0xa438; 0xffff; 0xa436; 0xA082; 0xa438; 0x012f;
  0xa436; 0xA080; 0xa438; 0x00cc; 0xa436; 0xA090; 0xa438; 0x0103; 0xa436; 0xA016; 0xa438; 0x0020;
  0xa436; 0xA012; 0xa438; 0x0000; 0xa436; 0xA014; 0xa438; 0x1800; 0xa438; 0x8010; 0xa438; 0x1800;
  0xa438; 0x8020; 0xa438; 0x1800; 0xa438; 0x802a; 0xa438; 0x1800; 0xa438; 0x8035; 0xa438; 0x1800;
  0xa438; 0x803c; 0xa438; 0x1800; 0xa438; 0x803c; 0xa438; 0x1800; 0xa438; 0x803c; 0xa438; 0x1800;
  0xa438; 0x803c; 0xa438; 0xd107; 0xa438; 0xd042; 0xa438; 0xa404; 0xa438; 0x1000; 0xa438; 0x09df;
  0xa438; 0xd700; 0xa438; 0x5fb4; 0xa438; 0x8280; 0xa438; 0xd700; 0xa438; 0x6065; 0xa438; 0xd125;
  0xa438; 0xf002; 0xa438; 0xd12b; 0xa438; 0xd040; 0xa438; 0x1800; 0xa438; 0x077f; 0xa438; 0x0cf0;
  0xa438; 0x0c50; 0xa438; 0xd104; 0xa438; 0xd040; 0xa438; 0x1000; 0xa438; 0x0aa8; 0xa438; 0xd700;
  0xa438; 0x5fb4; 0xa438; 0x1800; 0xa438; 0x0a2e; 0xa438; 0xcb9b; 0xa438; 0xd110; 0xa438; 0xd040;
  0xa438; 0x1000; 0xa438; 0x0b7b; 0xa438; 0x1000; 0xa438; 0x09df; 0xa438; 0xd700; 0xa438; 0x5fb4;
  0xa438; 0x1800; 0xa438; 0x081b; 0xa438; 0x1000; 0xa438; 0x09df; 0xa438; 0xd704; 0xa438; 0x7fb8;
  0xa438; 0xa718; 0xa438; 0x1800; 0xa438; 0x074e; 0xa436; 0xA10E; 0xa438; 0xffff; 0xa436; 0xA10C;
  0xa438; 0xffff; 0xa436; 0xA10A; 0xa438; 0xffff; 0xa436; 0xA108; 0xa438; 0xffff; 0xa436; 0xA106;
  0xa438; 0x074d; 0xa436; 0xA104; 0xa438; 0x0818; 0xa436; 0xA102; 0xa438; 0x0a2c; 0xa436; 0xA100;
  0xa438; 0x077e; 0xa436; 0xA110; 0xa438; 0x000f; 0xa436; 0xb87c; 0xa438; 0x8625; 0xa436; 0xb87e;
  0xa438; 0xaf86; 0xa438; 0x3daf; 0xa438; 0x8689; 0xa438; 0xaf88; 0xa438; 0x69af; 0xa438; 0x8887;
  0xa438; 0xaf88; 0xa438; 0x9caf; 0xa438; 0x88be; 0xa438; 0xaf88; 0xa438; 0xbeaf; 0xa438; 0x88be;
  0xa438; 0xbf86; 0xa438; 0x49d7; 0xa438; 0x0040; 0xa438; 0x0277; 0xa438; 0x7daf; 0xa438; 0x2727;
  0xa438; 0x0000; 0xa438; 0x7205; 0xa438; 0x0000; 0xa438; 0x7208; 0xa438; 0x0000; 0xa438; 0x71f3;
  0xa438; 0x0000; 0xa438; 0x71f6; 0xa438; 0x0000; 0xa438; 0x7229; 0xa438; 0x0000; 0xa438; 0x722c;
  0xa438; 0x0000; 0xa438; 0x7217; 0xa438; 0x0000; 0xa438; 0x721a; 0xa438; 0x0000; 0xa438; 0x721d;
  0xa438; 0x0000; 0xa438; 0x7211; 0xa438; 0x0000; 0xa438; 0x7220; 0xa438; 0x0000; 0xa438; 0x7214;
  0xa438; 0x0000; 0xa438; 0x722f; 0xa438; 0x0000; 0xa438; 0x7223; 0xa438; 0x0000; 0xa438; 0x7232;
  0xa438; 0x0000; 0xa438; 0x7226; 0xa438; 0xf8f9; 0xa438; 0xfae0; 0xa438; 0x85b3; 0xa438; 0x3802;
  0xa438; 0xad27; 0xa438; 0x02ae; 0xa438; 0x03af; 0xa438; 0x8830; 0xa438; 0x1f66; 0xa438; 0xef65;
  0xa438; 0xbfc2; 0xa438; 0x1f1a; 0xa438; 0x96f7; 0xa438; 0x05ee; 0xa438; 0xffd2; 0xa438; 0x00da;
  0xa438; 0xf605; 0xa438; 0xbfc2; 0xa438; 0x2f1a; 0xa438; 0x96f7; 0xa438; 0x05ee; 0xa438; 0xffd2;
  0xa438; 0x00db; 0xa438; 0xf605; 0xa438; 0xef02; 0xa438; 0x1f11; 0xa438; 0x0d42; 0xa438; 0xbf88;
  0xa438; 0x4202; 0xa438; 0x6e7d; 0xa438; 0xef02; 0xa438; 0x1b03; 0xa438; 0x1f11; 0xa438; 0x0d42;
  0xa438; 0xbf88; 0xa438; 0x4502; 0xa438; 0x6e7d; 0xa438; 0xef02; 0xa438; 0x1a03; 0xa438; 0x1f11;
  0xa438; 0x0d42; 0xa438; 0xbf88; 0xa438; 0x4802; 0xa438; 0x6e7d; 0xa438; 0xbfc2; 0xa438; 0x3f1a;
  0xa438; 0x96f7; 0xa438; 0x05ee; 0xa438; 0xffd2; 0xa438; 0x00da; 0xa438; 0xf605; 0xa438; 0xbfc2;
  0xa438; 0x4f1a; 0xa438; 0x96f7; 0xa438; 0x05ee; 0xa438; 0xffd2; 0xa438; 0x00db; 0xa438; 0xf605;
  0xa438; 0xef02; 0xa438; 0x1f11; 0xa438; 0x0d42; 0xa438; 0xbf88; 0xa438; 0x4b02; 0xa438; 0x6e7d;
  0xa438; 0xef02; 0xa438; 0x1b03; 0xa438; 0x1f11; 0xa438; 0x0d42; 0xa438; 0xbf88; 0xa438; 0x4e02;
  0xa438; 0x6e7d; 0xa438; 0xef02; 0xa438; 0x1a03; 0xa438; 0x1f11; 0xa438; 0x0d42; 0xa438; 0xbf88;
  0xa438; 0x5102; 0xa438; 0x6e7d; 0xa438; 0xef56; 0xa438; 0xd020; 0xa438; 0x1f11; 0xa438; 0xbf88;
  0xa438; 0x5402; 0xa438; 0x6e7d; 0xa438; 0xbf88; 0xa438; 0x5702; 0xa438; 0x6e7d; 0xa438; 0xbf88;
  0xa438; 0x5a02; 0xa438; 0x6e7d; 0xa438; 0xe185; 0xa438; 0xa0ef; 0xa438; 0x0348; 0xa438; 0x0a28;
  0xa438; 0x05ef; 0xa438; 0x201b; 0xa438; 0x01ad; 0xa438; 0x2735; 0xa438; 0x1f44; 0xa438; 0xe085;
  0xa438; 0x88e1; 0xa438; 0x8589; 0xa438; 0xbf88; 0xa438; 0x5d02; 0xa438; 0x6e7d; 0xa438; 0xe085;
  0xa438; 0x8ee1; 0xa438; 0x858f; 0xa438; 0xbf88; 0xa438; 0x6002; 0xa438; 0x6e7d; 0xa438; 0xe085;
  0xa438; 0x94e1; 0xa438; 0x8595; 0xa438; 0xbf88; 0xa438; 0x6302; 0xa438; 0x6e7d; 0xa438; 0xe085;
  0xa438; 0x9ae1; 0xa438; 0x859b; 0xa438; 0xbf88; 0xa438; 0x6602; 0xa438; 0x6e7d; 0xa438; 0xaf88;
  0xa438; 0x3cbf; 0xa438; 0x883f; 0xa438; 0x026e; 0xa438; 0x9cad; 0xa438; 0x2835; 0xa438; 0x1f44;
  0xa438; 0xe08f; 0xa438; 0xf8e1; 0xa438; 0x8ff9; 0xa438; 0xbf88; 0xa438; 0x5d02; 0xa438; 0x6e7d;
  0xa438; 0xe08f; 0xa438; 0xfae1; 0xa438; 0x8ffb; 0xa438; 0xbf88; 0xa438; 0x6002; 0xa438; 0x6e7d;
  0xa438; 0xe08f; 0xa438; 0xfce1; 0xa438; 0x8ffd; 0xa438; 0xbf88; 0xa438; 0x6302; 0xa438; 0x6e7d;
  0xa438; 0xe08f; 0xa438; 0xfee1; 0xa438; 0x8fff; 0xa438; 0xbf88; 0xa438; 0x6602; 0xa438; 0x6e7d;
  0xa438; 0xaf88; 0xa438; 0x3ce1; 0xa438; 0x85a1; 0xa438; 0x1b21; 0xa438; 0xad37; 0xa438; 0x341f;
  0xa438; 0x44e0; 0xa438; 0x858a; 0xa438; 0xe185; 0xa438; 0x8bbf; 0xa438; 0x885d; 0xa438; 0x026e;
  0xa438; 0x7de0; 0xa438; 0x8590; 0xa438; 0xe185; 0xa438; 0x91bf; 0xa438; 0x8860; 0xa438; 0x026e;
  0xa438; 0x7de0; 0xa438; 0x8596; 0xa438; 0xe185; 0xa438; 0x97bf; 0xa438; 0x8863; 0xa438; 0x026e;
  0xa438; 0x7de0; 0xa438; 0x859c; 0xa438; 0xe185; 0xa438; 0x9dbf; 0xa438; 0x8866; 0xa438; 0x026e;
  0xa438; 0x7dae; 0xa438; 0x401f; 0xa438; 0x44e0; 0xa438; 0x858c; 0xa438; 0xe185; 0xa438; 0x8dbf;
  0xa438; 0x885d; 0xa438; 0x026e; 0xa438; 0x7de0; 0xa438; 0x8592; 0xa438; 0xe185; 0xa438; 0x93bf;
  0xa438; 0x8860; 0xa438; 0x026e; 0xa438; 0x7de0; 0xa438; 0x8598; 0xa438; 0xe185; 0xa438; 0x99bf;
  0xa438; 0x8863; 0xa438; 0x026e; 0xa438; 0x7de0; 0xa438; 0x859e; 0xa438; 0xe185; 0xa438; 0x9fbf;
  0xa438; 0x8866; 0xa438; 0x026e; 0xa438; 0x7dae; 0xa438; 0x0ce1; 0xa438; 0x85b3; 0xa438; 0x3904;
  0xa438; 0xac2f; 0xa438; 0x04ee; 0xa438; 0x85b3; 0xa438; 0x00af; 0xa438; 0x39d9; 0xa438; 0x22ac;
  0xa438; 0xeaf0; 0xa438; 0xacf6; 0xa438; 0xf0ac; 0xa438; 0xfaf0; 0xa438; 0xacf8; 0xa438; 0xf0ac;
  0xa438; 0xfcf0; 0xa438; 0xad00; 0xa438; 0xf0ac; 0xa438; 0xfef0; 0xa438; 0xacf0; 0xa438; 0xf0ac;
  0xa438; 0xf4f0; 0xa438; 0xacf2; 0xa438; 0xf0ac; 0xa438; 0xb0f0; 0xa438; 0xacae; 0xa438; 0xf0ac;
  0xa438; 0xacf0; 0xa438; 0xacaa; 0xa438; 0xa100; 0xa438; 0x0ce1; 0xa438; 0x8ff7; 0xa438; 0xbf88;
  0xa438; 0x8402; 0xa438; 0x6e7d; 0xa438; 0xaf26; 0xa438; 0xe9e1; 0xa438; 0x8ff6; 0xa438; 0xbf88;
  0xa438; 0x8402; 0xa438; 0x6e7d; 0xa438; 0xaf26; 0xa438; 0xf520; 0xa438; 0xac86; 0xa438; 0xbf88;
  0xa438; 0x3f02; 0xa438; 0x6e9c; 0xa438; 0xad28; 0xa438; 0x03af; 0xa438; 0x3324; 0xa438; 0xad38;
  0xa438; 0x03af; 0xa438; 0x32e6; 0xa438; 0xaf32; 0xa438; 0xfbee; 0xa438; 0x826a; 0xa438; 0x0002;
  0xa438; 0x88a6; 0xa438; 0xaf04; 0xa438; 0x78f8; 0xa438; 0xfaef; 0xa438; 0x69e0; 0xa438; 0x8015;
  0xa438; 0xad20; 0xa438; 0x06bf; 0xa438; 0x88bb; 0xa438; 0x0275; 0xa438; 0xb1ef; 0xa438; 0x96fe;
  0xa438; 0xfc04; 0xa438; 0x00b8; 0xa438; 0x7a00; 0xa436; 0xb87c; 0xa438; 0x8ff6; 0xa436; 0xb87e;
  0xa438; 0x0705; 0xa436; 0xb87c; 0xa438; 0x8ff8; 0xa436; 0xb87e; 0xa438; 0x19cc; 0xa436; 0xb87c;
  0xa438; 0x8ffa; 0xa436; 0xb87e; 0xa438; 0x28e3; 0xa436; 0xb87c; 0xa438; 0x8ffc; 0xa436; 0xb87e;
  0xa438; 0x1047; 0xa436; 0xb87c; 0xa438; 0x8ffe; 0xa436; 0xb87e; 0xa438; 0x0a45; 0xa436; 0xb85e;
  0xa438; 0x271E; 0xa436; 0xb860; 0xa438; 0x3846; 0xa436; 0xb862; 0xa438; 0x26E6; 0xa436; 0xb864;
  0xa438; 0x32E3; 0xa436; 0xb886; 0xa438; 0x0474; 0xa436; 0xb888; 0xa438; 0xffff; 0xa436; 0xb88a;
  0xa438; 0xffff; 0xa436; 0xb88c; 0xa438; 0xffff; 0xa436; 0xb838; 0xa438; 0x001f; 0xb820; 0x0010;
  0xa436; 0x846e; 0xa438; 0xaf84; 0xa438; 0x86af; 0xa438; 0x8690; 0xa438; 0xaf86; 0xa438; 0xa4af;
  0xa438; 0x8934; 0xa438; 0xaf89; 0xa438; 0x60af; 0xa438; 0x897e; 0xa438; 0xaf89; 0xa438; 0xa9af;
  0xa438; 0x89a9; 0xa438; 0xee82; 0xa438; 0x5f00; 0xa438; 0x0284; 0xa438; 0x90af; 0xa438; 0x0441;
  0xa438; 0xf8e0; 0xa438; 0x8ff3; 0xa438; 0xa000; 0xa438; 0x0502; 0xa438; 0x84a4; 0xa438; 0xae06;
  0xa438; 0xa001; 0xa438; 0x0302; 0xa438; 0x84c8; 0xa438; 0xfc04; 0xa438; 0xf8f9; 0xa438; 0xef59;
  0xa438; 0xe080; 0xa438; 0x15ad; 0xa438; 0x2702; 0xa438; 0xae03; 0xa438; 0xaf84; 0xa438; 0xc3bf;
  0xa438; 0x53ca; 0xa438; 0x0252; 0xa438; 0xc8ad; 0xa438; 0x2807; 0xa438; 0x0285; 0xa438; 0x2cee;
  0xa438; 0x8ff3; 0xa438; 0x01ef; 0xa438; 0x95fd; 0xa438; 0xfc04; 0xa438; 0xf8f9; 0xa438; 0xfaef;
  0xa438; 0x69bf; 0xa438; 0x53ca; 0xa438; 0x0252; 0xa438; 0xc8ac; 0xa438; 0x2822; 0xa438; 0xd480;
  0xa438; 0x00bf; 0xa438; 0x8684; 0xa438; 0x0252; 0xa438; 0xa9bf; 0xa438; 0x8687; 0xa438; 0x0252;
  0xa438; 0xa9bf; 0xa438; 0x868a; 0xa438; 0x0252; 0xa438; 0xa9bf; 0xa438; 0x868d; 0xa438; 0x0252;
  0xa438; 0xa9ee; 0xa438; 0x8ff3; 0xa438; 0x00af; 0xa438; 0x8526; 0xa438; 0xe08f; 0xa438; 0xf4e1;
  0xa438; 0x8ff5; 0xa438; 0xe28f; 0xa438; 0xf6e3; 0xa438; 0x8ff7; 0xa438; 0x1b45; 0xa438; 0xac27;
  0xa438; 0x0eee; 0xa438; 0x8ff4; 0xa438; 0x00ee; 0xa438; 0x8ff5; 0xa438; 0x0002; 0xa438; 0x852c;
  0xa438; 0xaf85; 0xa438; 0x26e0; 0xa438; 0x8ff4; 0xa438; 0xe18f; 0xa438; 0xf52c; 0xa438; 0x0001;
  0xa438; 0xe48f; 0xa438; 0xf4e5; 0xa438; 0x8ff5; 0xa438; 0xef96; 0xa438; 0xfefd; 0xa438; 0xfc04;
  0xa438; 0xf8f9; 0xa438; 0xef59; 0xa438; 0xbf53; 0xa438; 0x2202; 0xa438; 0x52c8; 0xa438; 0xa18b;
  0xa438; 0x02ae; 0xa438; 0x03af; 0xa438; 0x85da; 0xa438; 0xbf57; 0xa438; 0x7202; 0xa438; 0x52c8;
  0xa438; 0xe48f; 0xa438; 0xf8e5; 0xa438; 0x8ff9; 0xa438; 0xbf57; 0xa438; 0x7502; 0xa438; 0x52c8;
  0xa438; 0xe48f; 0xa438; 0xfae5; 0xa438; 0x8ffb; 0xa438; 0xbf57; 0xa438; 0x7802; 0xa438; 0x52c8;
  0xa438; 0xe48f; 0xa438; 0xfce5; 0xa438; 0x8ffd; 0xa438; 0xbf57; 0xa438; 0x7b02; 0xa438; 0x52c8;
  0xa438; 0xe48f; 0xa438; 0xfee5; 0xa438; 0x8fff; 0xa438; 0xbf57; 0xa438; 0x6c02; 0xa438; 0x52c8;
  0xa438; 0xa102; 0xa438; 0x13ee; 0xa438; 0x8ffc; 0xa438; 0x80ee; 0xa438; 0x8ffd; 0xa438; 0x00ee;
  0xa438; 0x8ffe; 0xa438; 0x80ee; 0xa438; 0x8fff; 0xa438; 0x00af; 0xa438; 0x8599; 0xa438; 0xa101;
  0xa438; 0x0cbf; 0xa438; 0x534c; 0xa438; 0x0252; 0xa438; 0xc8a1; 0xa438; 0x0303; 0xa438; 0xaf85;
  0xa438; 0x77bf; 0xa438; 0x5322; 0xa438; 0x0252; 0xa438; 0xc8a1; 0xa438; 0x8b02; 0xa438; 0xae03;
  0xa438; 0xaf86; 0xa438; 0x64e0; 0xa438; 0x8ff8; 0xa438; 0xe18f; 0xa438; 0xf9bf; 0xa438; 0x8684;
  0xa438; 0x0252; 0xa438; 0xa9e0; 0xa438; 0x8ffa; 0xa438; 0xe18f; 0xa438; 0xfbbf; 0xa438; 0x8687;
  0xa438; 0x0252; 0xa438; 0xa9e0; 0xa438; 0x8ffc; 0xa438; 0xe18f; 0xa438; 0xfdbf; 0xa438; 0x868a;
  0xa438; 0x0252; 0xa438; 0xa9e0; 0xa438; 0x8ffe; 0xa438; 0xe18f; 0xa438; 0xffbf; 0xa438; 0x868d;
  0xa438; 0x0252; 0xa438; 0xa9af; 0xa438; 0x867f; 0xa438; 0xbf53; 0xa438; 0x2202; 0xa438; 0x52c8;
  0xa438; 0xa144; 0xa438; 0x3cbf; 0xa438; 0x547b; 0xa438; 0x0252; 0xa438; 0xc8e4; 0xa438; 0x8ff8;
  0xa438; 0xe58f; 0xa438; 0xf9bf; 0xa438; 0x547e; 0xa438; 0x0252; 0xa438; 0xc8e4; 0xa438; 0x8ffa;
  0xa438; 0xe58f; 0xa438; 0xfbbf; 0xa438; 0x5481; 0xa438; 0x0252; 0xa438; 0xc8e4; 0xa438; 0x8ffc;
  0xa438; 0xe58f; 0xa438; 0xfdbf; 0xa438; 0x5484; 0xa438; 0x0252; 0xa438; 0xc8e4; 0xa438; 0x8ffe;
  0xa438; 0xe58f; 0xa438; 0xffbf; 0xa438; 0x5322; 0xa438; 0x0252; 0xa438; 0xc8a1; 0xa438; 0x4448;
  0xa438; 0xaf85; 0xa438; 0xa7bf; 0xa438; 0x5322; 0xa438; 0x0252; 0xa438; 0xc8a1; 0xa438; 0x313c;
  0xa438; 0xbf54; 0xa438; 0x7b02; 0xa438; 0x52c8; 0xa438; 0xe48f; 0xa438; 0xf8e5; 0xa438; 0x8ff9;
  0xa438; 0xbf54; 0xa438; 0x7e02; 0xa438; 0x52c8; 0xa438; 0xe48f; 0xa438; 0xfae5; 0xa438; 0x8ffb;
  0xa438; 0xbf54; 0xa438; 0x8102; 0xa438; 0x52c8; 0xa438; 0xe48f; 0xa438; 0xfce5; 0xa438; 0x8ffd;
  0xa438; 0xbf54; 0xa438; 0x8402; 0xa438; 0x52c8; 0xa438; 0xe48f; 0xa438; 0xfee5; 0xa438; 0x8fff;
  0xa438; 0xbf53; 0xa438; 0x2202; 0xa438; 0x52c8; 0xa438; 0xa131; 0xa438; 0x03af; 0xa438; 0x85a7;
  0xa438; 0xd480; 0xa438; 0x00bf; 0xa438; 0x8684; 0xa438; 0x0252; 0xa438; 0xa9bf; 0xa438; 0x8687;
  0xa438; 0x0252; 0xa438; 0xa9bf; 0xa438; 0x868a; 0xa438; 0x0252; 0xa438; 0xa9bf; 0xa438; 0x868d;
  0xa438; 0x0252; 0xa438; 0xa9ef; 0xa438; 0x95fd; 0xa438; 0xfc04; 0xa438; 0xf0d1; 0xa438; 0x2af0;
  0xa438; 0xd12c; 0xa438; 0xf0d1; 0xa438; 0x44f0; 0xa438; 0xd146; 0xa438; 0xbf86; 0xa438; 0xa102;
  0xa438; 0x52c8; 0xa438; 0xbf86; 0xa438; 0xa102; 0xa438; 0x52c8; 0xa438; 0xd101; 0xa438; 0xaf06;
  0xa438; 0xa570; 0xa438; 0xce42; 0xa438; 0xee83; 0xa438; 0xc800; 0xa438; 0x0286; 0xa438; 0xba02;
  0xa438; 0x8728; 0xa438; 0x0287; 0xa438; 0xbe02; 0xa438; 0x87f9; 0xa438; 0x0288; 0xa438; 0xc3af;
  0xa438; 0x4771; 0xa438; 0xf8f9; 0xa438; 0xfafb; 0xa438; 0xef69; 0xa438; 0xfae0; 0xa438; 0x8015;
  0xa438; 0xad25; 0xa438; 0x45d2; 0xa438; 0x0002; 0xa438; 0x8714; 0xa438; 0xac4f; 0xa438; 0x02ae;
  0xa438; 0x0bef; 0xa438; 0x46f6; 0xa438; 0x273c; 0xa438; 0x0400; 0xa438; 0xab26; 0xa438; 0xae30;
  0xa438; 0xe08f; 0xa438; 0xe9e1; 0xa438; 0x8fea; 0xa438; 0x1b46; 0xa438; 0xab26; 0xa438; 0xef32;
  0xa438; 0x0c31; 0xa438; 0xbf8f; 0xa438; 0xe91a; 0xa438; 0x93d8; 0xa438; 0x19d9; 0xa438; 0x1b46;
  0xa438; 0xab0a; 0xa438; 0x19d8; 0xa438; 0x19d9; 0xa438; 0x1b46; 0xa438; 0xaa02; 0xa438; 0xae0c;
  0xa438; 0xbf57; 0xa438; 0x1202; 0xa438; 0x58b1; 0xa438; 0xbf57; 0xa438; 0x1202; 0xa438; 0x58a8;
  0xa438; 0xfeef; 0xa438; 0x96ff; 0xa438; 0xfefd; 0xa438; 0xfc04; 0xa438; 0xf8fb; 0xa438; 0xef79;
  0xa438; 0xa200; 0xa438; 0x08bf; 0xa438; 0x892e; 0xa438; 0x0252; 0xa438; 0xc8ef; 0xa438; 0x64ef;
  0xa438; 0x97ff; 0xa438; 0xfc04; 0xa438; 0xf8f9; 0xa438; 0xfafb; 0xa438; 0xef69; 0xa438; 0xfae0;
  0xa438; 0x8015; 0xa438; 0xad25; 0xa438; 0x50d2; 0xa438; 0x0002; 0xa438; 0x878d; 0xa438; 0xac4f;
  0xa438; 0x02ae; 0xa438; 0x0bef; 0xa438; 0x46f6; 0xa438; 0x273c; 0xa438; 0x1000; 0xa438; 0xab31;
  0xa438; 0xae29; 0xa438; 0xe08f; 0xa438; 0xede1; 0xa438; 0x8fee; 0xa438; 0x1b46; 0xa438; 0xab1f;
  0xa438; 0xa200; 0xa438; 0x04ef; 0xa438; 0x32ae; 0xa438; 0x02d3; 0xa438; 0x010c; 0xa438; 0x31bf;
  0xa438; 0x8fed; 0xa438; 0x1a93; 0xa438; 0xd819; 0xa438; 0xd91b; 0xa438; 0x46ab; 0xa438; 0x0e19;
  0xa438; 0xd819; 0xa438; 0xd91b; 0xa438; 0x46aa; 0xa438; 0x0612; 0xa438; 0xa205; 0xa438; 0xc0ae;
  0xa438; 0x0cbf; 0xa438; 0x5712; 0xa438; 0x0258; 0xa438; 0xb1bf; 0xa438; 0x5712; 0xa438; 0x0258;
  0xa438; 0xa8fe; 0xa438; 0xef96; 0xa438; 0xfffe; 0xa438; 0xfdfc; 0xa438; 0x04f8; 0xa438; 0xfbef;
  0xa438; 0x79a2; 0xa438; 0x0005; 0xa438; 0xbf89; 0xa438; 0x1fae; 0xa438; 0x1ba2; 0xa438; 0x0105;
  0xa438; 0xbf89; 0xa438; 0x22ae; 0xa438; 0x13a2; 0xa438; 0x0205; 0xa438; 0xbf89; 0xa438; 0x25ae;
  0xa438; 0x0ba2; 0xa438; 0x0305; 0xa438; 0xbf89; 0xa438; 0x28ae; 0xa438; 0x03bf; 0xa438; 0x892b;
  0xa438; 0x0252; 0xa438; 0xc8ef; 0xa438; 0x64ef; 0xa438; 0x97ff; 0xa438; 0xfc04; 0xa438; 0xf8f9;
  0xa438; 0xfaef; 0xa438; 0x69fa; 0xa438; 0xe080; 0xa438; 0x15ad; 0xa438; 0x2628; 0xa438; 0xe081;
  0xa438; 0xabe1; 0xa438; 0x81ac; 0xa438; 0xef64; 0xa438; 0xbf57; 0xa438; 0x1802; 0xa438; 0x52c8;
  0xa438; 0x1b46; 0xa438; 0xaa0a; 0xa438; 0xbf57; 0xa438; 0x1b02; 0xa438; 0x52c8; 0xa438; 0x1b46;
  0xa438; 0xab0c; 0xa438; 0xbf57; 0xa438; 0x1502; 0xa438; 0x58b1; 0xa438; 0xbf57; 0xa438; 0x1502;
  0xa438; 0x58a8; 0xa438; 0xfeef; 0xa438; 0x96fe; 0xa438; 0xfdfc; 0xa438; 0x04f8; 0xa438; 0xf9ef;
  0xa438; 0x59f9; 0xa438; 0xe080; 0xa438; 0x15ad; 0xa438; 0x2622; 0xa438; 0xbf53; 0xa438; 0x2202;
  0xa438; 0x52c8; 0xa438; 0x3972; 0xa438; 0x9e10; 0xa438; 0xe083; 0xa438; 0xc9ac; 0xa438; 0x2605;
  0xa438; 0x0288; 0xa438; 0x2cae; 0xa438; 0x0d02; 0xa438; 0x8870; 0xa438; 0xae08; 0xa438; 0xe283;
  0xa438; 0xc9f6; 0xa438; 0x36e6; 0xa438; 0x83c9; 0xa438; 0xfdef; 0xa438; 0x95fd; 0xa438; 0xfc04;
  0xa438; 0xf8f9; 0xa438; 0xfafb; 0xa438; 0xef79; 0xa438; 0xfbbf; 0xa438; 0x5718; 0xa438; 0x0252;
  0xa438; 0xc8ef; 0xa438; 0x64e2; 0xa438; 0x8fe5; 0xa438; 0xe38f; 0xa438; 0xe61b; 0xa438; 0x659e;
  0xa438; 0x10e4; 0xa438; 0x8fe5; 0xa438; 0xe58f; 0xa438; 0xe6e2; 0xa438; 0x83c9; 0xa438; 0xf636;
  0xa438; 0xe683; 0xa438; 0xc9ae; 0xa438; 0x13e2; 0xa438; 0x83c9; 0xa438; 0xf736; 0xa438; 0xe683;
  0xa438; 0xc902; 0xa438; 0x5820; 0xa438; 0xef57; 0xa438; 0xe68f; 0xa438; 0xe7e7; 0xa438; 0x8fe8;
  0xa438; 0xffef; 0xa438; 0x97ff; 0xa438; 0xfefd; 0xa438; 0xfc04; 0xa438; 0xf8f9; 0xa438; 0xfafb;
  0xa438; 0xef79; 0xa438; 0xfbe2; 0xa438; 0x8fe7; 0xa438; 0xe38f; 0xa438; 0xe8ef; 0xa438; 0x65e2;
  0xa438; 0x81b8; 0xa438; 0xe381; 0xa438; 0xb9ef; 0xa438; 0x7502; 0xa438; 0x583b; 0xa438; 0xac50;
  0xa438; 0x1abf; 0xa438; 0x5718; 0xa438; 0x0252; 0xa438; 0xc8ef; 0xa438; 0x64e2; 0xa438; 0x8fe5;
  0xa438; 0xe38f; 0xa438; 0xe61b; 0xa438; 0x659e; 0xa438; 0x1ce4; 0xa438; 0x8fe5; 0xa438; 0xe58f;
  0xa438; 0xe6ae; 0xa438; 0x0cbf; 0xa438; 0x5715; 0xa438; 0x0258; 0xa438; 0xb1bf; 0xa438; 0x5715;
  0xa438; 0x0258; 0xa438; 0xa8e2; 0xa438; 0x83c9; 0xa438; 0xf636; 0xa438; 0xe683; 0xa438; 0xc9ff;
  0xa438; 0xef97; 0xa438; 0xfffe; 0xa438; 0xfdfc; 0xa438; 0x04f8; 0xa438; 0xf9fa; 0xa438; 0xef69;
  0xa438; 0xe080; 0xa438; 0x15ad; 0xa438; 0x264b; 0xa438; 0xbf53; 0xa438; 0xca02; 0xa438; 0x52c8;
  0xa438; 0xad28; 0xa438; 0x42bf; 0xa438; 0x8931; 0xa438; 0x0252; 0xa438; 0xc8ef; 0xa438; 0x54bf;
  0xa438; 0x576c; 0xa438; 0x0252; 0xa438; 0xc8a1; 0xa438; 0x001b; 0xa438; 0xbf53; 0xa438; 0x4c02;
  0xa438; 0x52c8; 0xa438; 0xac29; 0xa438; 0x0dac; 0xa438; 0x2805; 0xa438; 0xa302; 0xa438; 0x16ae;
  0xa438; 0x20a3; 0xa438; 0x0311; 0xa438; 0xae1b; 0xa438; 0xa304; 0xa438; 0x0cae; 0xa438; 0x16a3;
  0xa438; 0x0802; 0xa438; 0xae11; 0xa438; 0xa309; 0xa438; 0x02ae; 0xa438; 0x0cbf; 0xa438; 0x5715;
  0xa438; 0x0258; 0xa438; 0xb1bf; 0xa438; 0x5715; 0xa438; 0x0258; 0xa438; 0xa8ef; 0xa438; 0x96fe;
  0xa438; 0xfdfc; 0xa438; 0x04f0; 0xa438; 0xa300; 0xa438; 0xf0a3; 0xa438; 0x02f0; 0xa438; 0xa304;
  0xa438; 0xf0a3; 0xa438; 0x06f0; 0xa438; 0xa308; 0xa438; 0xf0a2; 0xa438; 0x8074; 0xa438; 0xa600;
  0xa438; 0xac4f; 0xa438; 0x02ae; 0xa438; 0x0bef; 0xa438; 0x46f6; 0xa438; 0x273c; 0xa438; 0x1000;
  0xa438; 0xab1b; 0xa438; 0xae16; 0xa438; 0xe081; 0xa438; 0xabe1; 0xa438; 0x81ac; 0xa438; 0x1b46;
  0xa438; 0xab0c; 0xa438; 0xac32; 0xa438; 0x04ef; 0xa438; 0x32ae; 0xa438; 0x02d3; 0xa438; 0x04af;
  0xa438; 0x486c; 0xa438; 0xaf48; 0xa438; 0x82af; 0xa438; 0x4888; 0xa438; 0xe081; 0xa438; 0x9be1;
  0xa438; 0x819c; 0xa438; 0xe28f; 0xa438; 0xe3ad; 0xa438; 0x3009; 0xa438; 0x1f55; 0xa438; 0xe38f;
  0xa438; 0xe20c; 0xa438; 0x581a; 0xa438; 0x45e4; 0xa438; 0x83a6; 0xa438; 0xe583; 0xa438; 0xa7af;
  0xa438; 0x2a75; 0xa438; 0xe08f; 0xa438; 0xe3ad; 0xa438; 0x201c; 0xa438; 0x1f44; 0xa438; 0xe18f;
  0xa438; 0xe10c; 0xa438; 0x44ef; 0xa438; 0x64e0; 0xa438; 0x8232; 0xa438; 0xe182; 0xa438; 0x331b;
  0xa438; 0x649f; 0xa438; 0x091f; 0xa438; 0x44e1; 0xa438; 0x8fe2; 0xa438; 0x0c48; 0xa438; 0x1b54;
  0xa438; 0xe683; 0xa438; 0xa6e7; 0xa438; 0x83a7; 0xa438; 0xaf2b; 0xa438; 0xd900; 0xa436; 0xb818;
  0xa438; 0x043d; 0xa436; 0xb81a; 0xa438; 0x06a3; 0xa436; 0xb81c; 0xa438; 0x476d; 0xa436; 0xb81e;
  0xa438; 0x4852; 0xa436; 0xb850; 0xa438; 0x2A69; 0xa436; 0xb852; 0xa438; 0x2BD3; 0xa436; 0xb878;
  0xa438; 0xffff; 0xa436; 0xb884; 0xa438; 0xffff; 0xa436; 0xb832; 0xa438; 0x003f; 0xb844; 0xffff;
  0xa436; 0x8fe9; 0xa438; 0x0000; 0xa436; 0x8feb; 0xa438; 0x02fe; 0xa436; 0x8fed; 0xa438; 0x0019;
  0xa436; 0x8fef; 0xa438; 0x0bdb; 0xa436; 0x8ff1; 0xa438; 0x0ca4; 0xa436; 0x0000; 0xa438; 0x0000;
  0xa436; 0xB82E; 0xa438; 0x0000; 0xa436; 0x8024; 0xa438; 0x0000; 0xa436; 0x801E; 0xa438; 0x0024;
  0xb820; 0x0000; 0xFFFF; 0xFFFF].

Definition phy_mcu_ram_code_8125d_1_1 : list Z := [
  0xa436; 0x8023; 0xa438; 0x3800; 0xa436; 0xB82E; 0xa438; 0x0001; 0xb820; 0x0090; 0xa436; 0xA016;
  0xa438; 0x0000; 0xa436; 0xA012; 0xa438; 0x0000; 0xa436; 0xA014; 0xa438; 0x1800; 0xa438; 0x8010;
  0xa438; 0x1800; 0xa438; 0x8018; 0xa438; 0x1800; 0xa438; 0x8021; 0xa438; 0x1800; 0xa438; 0x8029;
  0xa438; 0x1800; 0xa438; 0x8031; 0xa438; 0x1800; 0xa438; 0x8035; 0xa438; 0x1800; 0xa438; 0x819c;
  0xa438; 0x1800; 0xa438; 0x81e9; 0xa438; 0xd711; 0xa438; 0x6081; 0xa438; 0x8904; 0xa438; 0x1800;
  0xa438; 0x2021; 0xa438; 0xa904; 0xa438; 0x1800; 0xa438; 0x2021; 0xa438; 0xd75f; 0xa438; 0x4083;
  0xa438; 0xd503; 0xa438; 0xa908; 0xa438; 0x87f0; 0xa438; 0x1000; 0xa438; 0x17e0; 0xa438; 0x1800;
  0xa438; 0x13c3; 0xa438; 0xd707; 0xa438; 0x2005; 0xa438; 0x8027; 0xa438; 0xd75e; 0xa438; 0x1800;
  0xa438; 0x1434; 0xa438; 0x1800; 0xa438; 0x14a5; 0xa438; 0xc504; 0xa438; 0xce20; 0xa438; 0xcf01;
  0xa438; 0xd70a; 0xa438; 0x4005; 0xa438; 0xcf02; 0xa438; 0x1800; 0xa438; 0x1c50; 0xa438; 0xa980;
  0xa438; 0xd500; 0xa438; 0x1800; 0xa438; 0x14f3; 0xa438; 0xd75e; 0xa438; 0x67b1; 0xa438; 0xd504;
  0xa438; 0xd71e; 0xa438; 0x65bb; 0xa438; 0x63da; 0xa438; 0x61f9; 0xa438; 0x0cf0; 0xa438; 0x0c10;
  0xa438; 0xd505; 0xa438; 0x0c0f; 0xa438; 0x0808; 0xa438; 0xd501; 0xa438; 0xce01; 0xa438; 0x0cf0;
  0xa438; 0x0470; 0xa438; 0x0cf0; 0xa438; 0x0430; 0xa438; 0x0cf0; 0xa438; 0x0410; 0xa438; 0xf02a;
  0xa438; 0x0cf0; 0xa438; 0x0c20; 0xa438; 0xd505; 0xa438; 0x0c0f; 0xa438; 0x0804; 0xa438; 0xd501;
  0xa438; 0xce01; 0xa438; 0x0cf0; 0xa438; 0x0470; 0xa438; 0x0cf0; 0xa438; 0x0430; 0xa438; 0x0cf0;
  0xa438; 0x0420; 0xa438; 0xf01c; 0xa438; 0x0cf0; 0xa438; 0x0c40; 0xa438; 0xd505; 0xa438; 0x0c0f;
  0xa438; 0x0802; 0xa438; 0xd501; 0xa438; 0xce01; 0xa438; 0x0cf0; 0xa438; 0x0470; 0xa438; 0x0cf0;
  0xa438; 0x0450; 0xa438; 0x0cf0; 0xa438; 0x0440; 0xa438; 0xf00e; 0xa438; 0x0cf0; 0xa438; 0x0c80;
  0xa438; 0xd505; 0xa438; 0x0c0f; 0xa438; 0x0801; 0xa438; 0xd501; 0xa438; 0xce01; 0xa438; 0x0cf0;
  0xa438; 0x04b0; 0xa438; 0x0cf0; 0xa438; 0x0490; 0xa438; 0x0cf0; 0xa438; 0x0480; 0xa438; 0xd501;
  0xa438; 0xce00; 0xa438; 0xd500; 0xa438; 0xc48e; 0xa438; 0x1000; 0xa438; 0x1a41; 0xa438; 0xd718;
  0xa438; 0x5faf; 0xa438; 0xd504; 0xa438; 0x8e01; 0xa438; 0x8c0f; 0xa438; 0xd500; 0xa438; 0x1000;
  0xa438; 0x17e0; 0xa438; 0xd504; 0xa438; 0xd718; 0xa438; 0x4074; 0xa438; 0x6195; 0xa438; 0xf005;
  0xa438; 0x60f5; 0xa438; 0x0c03; 0xa438; 0x0d00; 0xa438; 0xf009; 0xa438; 0x0c03; 0xa438; 0x0d01;
  0xa438; 0xf006; 0xa438; 0x0c03; 0xa438; 0x0d02; 0xa438; 0xf003; 0xa438; 0x0c03; 0xa438; 0x0d03;
  0xa438; 0xd500; 0xa438; 0xd706; 0xa438; 0x2529; 0xa438; 0x809c; 0xa438; 0xd718; 0xa438; 0x607b;
  0xa438; 0x40da; 0xa438; 0xf00f; 0xa438; 0x431a; 0xa438; 0xf021; 0xa438; 0xd718; 0xa438; 0x617b;
  0xa438; 0x1000; 0xa438; 0x1a41; 0xa438; 0x1000; 0xa438; 0x1ad1; 0xa438; 0xd718; 0xa438; 0x608e;
  0xa438; 0xd73e; 0xa438; 0x5f34; 0xa438; 0xf020; 0xa438; 0xf053; 0xa438; 0x1000; 0xa438; 0x1a41;
  0xa438; 0x1000; 0xa438; 0x1ad1; 0xa438; 0xd718; 0xa438; 0x608e; 0xa438; 0xd73e; 0xa438; 0x5f34;
  0xa438; 0xf023; 0xa438; 0xf067; 0xa438; 0x1000; 0xa438; 0x1a41; 0xa438; 0x1000; 0xa438; 0x1ad1;
  0xa438; 0xd718; 0xa438; 0x608e; 0xa438; 0xd73e; 0xa438; 0x5f34; 0xa438; 0xf026; 0xa438; 0xf07b;
  0xa438; 0x1000; 0xa438; 0x1a41; 0xa438; 0x1000; 0xa438; 0x1ad1; 0xa438; 0xd718; 0xa438; 0x608e;
  0xa438; 0xd73e; 0xa438; 0x5f34; 0xa438; 0xf029; 0xa438; 0xf08f; 0xa438; 0x1000; 0xa438; 0x8173;
  0xa438; 0x1000; 0xa438; 0x1a41; 0xa438; 0xd73e; 0xa438; 0x7fb4; 0xa438; 0x1000; 0xa438; 0x8188;
  0xa438; 0x1000; 0xa438; 0x1a41; 0xa438; 0xd718; 0xa438; 0x5fae; 0xa438; 0xf028; 0xa438; 0x1000;
  0xa438; 0x8173; 0xa438; 0x1000; 0xa438; 0x1a41; 0xa438; 0xd73e; 0xa438; 0x7fb4; 0xa438; 0x1000;
  0xa438; 0x8188; 0xa438; 0x1000; 0xa438; 0x1a41; 0xa438; 0xd718; 0xa438; 0x5fae; 0xa438; 0xf039;
  0xa438; 0x1000; 0xa438; 0x8173; 0xa438; 0x1000; 0xa438; 0x1a41; 0xa438; 0xd73e; 0xa438; 0x7fb4;
  0xa438; 0x1000; 0xa438; 0x8188; 0xa438; 0x1000; 0xa438; 0x1a41; 0xa438; 0xd718; 0xa438; 0x5fae;
  0xa438; 0xf04a; 0xa438; 0x1000; 0xa438; 0x8173; 0xa438; 0x1000; 0xa438; 0x1a41; 0xa438; 0xd73e;
  0xa438; 0x7fb4; 0xa438; 0x1000; 0xa438; 0x8188; 0xa438; 0x1000; 0xa438; 0x1a41; 0xa438; 0xd718;
  0xa438; 0x5fae; 0xa438; 0xf05b; 0xa438; 0xd719; 0xa438; 0x4119; 0xa438; 0xd504; 0xa438; 0xac01;
  0xa438; 0xae01; 0xa438; 0xd500; 0xa438; 0x1000; 0xa438; 0x1a2f; 0xa438; 0xf00a; 0xa438; 0xd719;
  0xa438; 0x4118; 0xa438; 0xd504; 0xa438; 0xac11; 0xa438; 0xd501; 0xa438; 0xce01; 0xa438; 0xa410;
  0xa438; 0xce00; 0xa438; 0xd500; 0xa438; 0x1000; 0xa438; 0x1a41; 0xa438; 0xd718; 0xa438; 0x5fb0;
  0xa438; 0xd505; 0xa438; 0xd719; 0xa438; 0x4079; 0xa438; 0xa80f; 0xa438; 0xf05d; 0xa438; 0x4b98;
  0xa438; 0xa808; 0xa438; 0xf05a; 0xa438; 0xd719; 0xa438; 0x4119; 0xa438; 0xd504; 0xa438; 0xac02;
  0xa438; 0xae01; 0xa438; 0xd500; 0xa438; 0x1000; 0xa438; 0x1a2f; 0xa438; 0xf00a; 0xa438; 0xd719;
  0xa438; 0x4118; 0xa438; 0xd504; 0xa438; 0xac22; 0xa438; 0xd501; 0xa438; 0xce01; 0xa438; 0xa420;
  0xa438; 0xce00; 0xa438; 0xd500; 0xa438; 0x1000; 0xa438; 0x1a41; 0xa438; 0xd718; 0xa438; 0x5fb0;
  0xa438; 0xd505; 0xa438; 0xd719; 0xa438; 0x4079; 0xa438; 0xa80f; 0xa438; 0xf03f; 0xa438; 0x47d8;
  0xa438; 0xa804; 0xa438; 0xf03c; 0xa438; 0xd719; 0xa438; 0x4119; 0xa438; 0xd504; 0xa438; 0xac04;
  0xa438; 0xae01; 0xa438; 0xd500; 0xa438; 0x1000; 0xa438; 0x1a2f; 0xa438; 0xf00a; 0xa438; 0xd719;
  0xa438; 0x4118; 0xa438; 0xd504; 0xa438; 0xac44; 0xa438; 0xd501; 0xa438; 0xce01; 0xa438; 0xa440;
  0xa438; 0xce00; 0xa438; 0xd500; 0xa438; 0x1000; 0xa438; 0x1a41; 0xa438; 0xd718; 0xa438; 0x5fb0;
  0xa438; 0xd505; 0xa438; 0xd719; 0xa438; 0x4079; 0xa438; 0xa80f; 0xa438; 0xf021; 0xa438; 0x4418;
  0xa438; 0xa802; 0xa438; 0xf01e; 0xa438; 0xd719; 0xa438; 0x4119; 0xa438; 0xd504; 0xa438; 0xac08;
  0xa438; 0xae01; 0xa438; 0xd500; 0xa438; 0x1000; 0xa438; 0x1a2f; 0xa438; 0xf00a; 0xa438; 0xd719;
  0xa438; 0x4118; 0xa438; 0xd504; 0xa438; 0xac88; 0xa438; 0xd501; 0xa438; 0xce01; 0xa438; 0xa480;
  0xa438; 0xce00; 0xa438; 0xd500; 0xa438; 0x1000; 0xa438; 0x1a41; 0xa438; 0xd718; 0xa438; 0x5fb0;
  0xa438; 0xd505; 0xa438; 0xd719; 0xa438; 0x4079; 0xa438; 0xa80f; 0xa438; 0xf003; 0xa438; 0x4058;
  0xa438; 0xa801; 0xa438; 0x1800; 0xa438; 0x16ed; 0xa438; 0xd73e; 0xa438; 0xd505; 0xa438; 0x3088;
  0xa438; 0x817a; 0xa438; 0x6193; 0xa438; 0x6132; 0xa438; 0x60d1; 0xa438; 0x3298; 0xa438; 0x8185;
  0xa438; 0xf00a; 0xa438; 0xa808; 0xa438; 0xf008; 0xa438; 0xa804; 0xa438; 0xf006; 0xa438; 0xa802;
  0xa438; 0xf004; 0xa438; 0xa801; 0xa438; 0xf002; 0xa438; 0xa80f; 0xa438; 0xd500; 0xa438; 0x0800;
  0xa438; 0xd505; 0xa438; 0xd75e; 0xa438; 0x6211; 0xa438; 0xd71e; 0xa438; 0x619b; 0xa438; 0x611a;
  0xa438; 0x6099; 0xa438; 0x0c0f; 0xa438; 0x0808; 0xa438; 0xf009; 0xa438; 0x0c0f; 0xa438; 0x0804;
  0xa438; 0xf006; 0xa438; 0x0c0f; 0xa438; 0x0802; 0xa438; 0xf003; 0xa438; 0x0c0f; 0xa438; 0x0801;
  0xa438; 0xd500; 0xa438; 0x0800; 0xa438; 0xd500; 0xa438; 0xc48d; 0xa438; 0xd504; 0xa438; 0x8d03;
  0xa438; 0xd701; 0xa438; 0x4045; 0xa438; 0xad02; 0xa438; 0xd504; 0xa438; 0xd706; 0xa438; 0x2529;
  0xa438; 0x81ad; 0xa438; 0xd718; 0xa438; 0x607b; 0xa438; 0x40da; 0xa438; 0xf013; 0xa438; 0x441a;
  0xa438; 0xf02d; 0xa438; 0xd718; 0xa438; 0x61fb; 0xa438; 0xbb01; 0xa438; 0xd75e; 0xa438; 0x6171;
  0xa438; 0x0cf0; 0xa438; 0x0c10; 0xa438; 0xd501; 0xa438; 0xce01; 0xa438; 0x0cf0; 0xa438; 0x0410;
  0xa438; 0xce00; 0xa438; 0xd505; 0xa438; 0x0c0f; 0xa438; 0x0808; 0xa438; 0xf02a; 0xa438; 0xbb02;
  0xa438; 0xd75e; 0xa438; 0x6171; 0xa438; 0x0cf0; 0xa438; 0x0c20; 0xa438; 0xd501; 0xa438; 0xce01;
  0xa438; 0x0cf0; 0xa438; 0x0420; 0xa438; 0xce00; 0xa438; 0xd505; 0xa438; 0x0c0f; 0xa438; 0x0804;
  0xa438; 0xf01c; 0xa438; 0xbb04; 0xa438; 0xd75e; 0xa438; 0x6171; 0xa438; 0x0cf0; 0xa438; 0x0c40;
  0xa438; 0xd501; 0xa438; 0xce01; 0xa438; 0x0cf0; 0xa438; 0x0440; 0xa438; 0xce00; 0xa438; 0xd505;
  0xa438; 0x0c0f; 0xa438; 0x0802; 0xa438; 0xf00e; 0xa438; 0xbb08; 0xa438; 0xd75e; 0xa438; 0x6171;
  0xa438; 0x0cf0; 0xa438; 0x0c80; 0xa438; 0xd501; 0xa438; 0xce01; 0xa438; 0x0cf0; 0xa438; 0x0480;
  0xa438; 0xce00; 0xa438; 0xd505; 0xa438; 0x0c0f; 0xa438; 0x0801; 0xa438; 0xd500; 0xa438; 0x1800;
  0xa438; 0x1616; 0xa436; 0xA026; 0xa438; 0xffff; 0xa436; 0xA024; 0xa438; 0x15d8; 0xa436; 0xA022;
  0xa438; 0x161f; 0xa436; 0xA020; 0xa438; 0x14f2; 0xa436; 0xA006; 0xa438; 0x1c4f; 0xa436; 0xA004;
  0xa438; 0x1433; 0xa436; 0xA002; 0xa438; 0x13c1; 0xa436; 0xA000; 0xa438; 0x2020; 0xa436; 0xA008;
  0xa438; 0x7f00; 0xa436; 0xA016; 0xa438; 0x0000; 0xa436; 0xA012; 0xa438; 0x07f8; 0xa436; 0xA014;
  0xa438; 0xd04d; 0xa438; 0x8904; 0xa438; 0x813C; 0xa438; 0xA13D; 0xa438; 0xcc01; 0xa438; 0x0000;
  0xa438; 0x0000; 0xa438; 0x0000; 0xa436; 0xA152; 0xa438; 0x1384; 0xa436; 0xA154; 0xa438; 0x1fa8;
  0xa436; 0xA156; 0xa438; 0x218B; 0xa436; 0xA158; 0xa438; 0x21B8; 0xa436; 0xA15A; 0xa438; 0x021c;
  0xa436; 0xA15C; 0xa438; 0x3fff; 0xa436; 0xA15E; 0xa438; 0x3fff; 0xa436; 0xA160; 0xa438; 0x3fff;
  0xa436; 0xA150; 0xa438; 0x001f; 0xa436; 0xA016; 0xa438; 0x0010; 0xa436; 0xA012; 0xa438; 0x0000;
  0xa436; 0xA014; 0xa438; 0x1800; 0xa438; 0x8010; 0xa438; 0x1800; 0xa438; 0x8013; 0xa438; 0x1800;
  0xa438; 0x803a; 0xa438; 0x1800; 0xa438; 0x8045; 0xa438; 0x1800; 0xa438; 0x8049; 0xa438; 0x1800;
  0xa438; 0x804d; 0xa438; 0x1800; 0xa438; 0x8059; 0xa438; 0x1800; 0xa438; 0x805d; 0xa438; 0xc2ff;
  0xa438; 0x1800; 0xa438; 0x0042; 0xa438; 0x1000; 0xa438; 0x02e5; 0xa438; 0x1000; 0xa438; 0x02b4;
  0xa438; 0xd701; 0xa438; 0x40e3; 0xa438; 0xd700; 0xa438; 0x5f6c; 0xa438; 0x1000; 0xa438; 0x8021;
  0xa438; 0x1800; 0xa438; 0x0073; 0xa438; 0x1800; 0xa438; 0x0084; 0xa438; 0xd701; 0xa438; 0x4061;
  0xa438; 0xba0f; 0xa438; 0xf004; 0xa438; 0x4060; 0xa438; 0x1000; 0xa438; 0x802a; 0xa438; 0xba10;
  0xa438; 0x0800; 0xa438; 0xd700; 0xa438; 0x60bb; 0xa438; 0x611c; 0xa438; 0x0c0f; 0xa438; 0x1a01;
  0xa438; 0xf00a; 0xa438; 0x60fc; 0xa438; 0x0c0f; 0xa438; 0x1a02; 0xa438; 0xf006; 0xa438; 0x0c0f;
  0xa438; 0x1a04; 0xa438; 0xf003; 0xa438; 0x0c0f; 0xa438; 0x1a08; 0xa438; 0x0800; 0xa438; 0x0c0f;
  0xa438; 0x0504; 0xa438; 0xad02; 0xa438; 0x1000; 0xa438; 0x02c0; 0xa438; 0xd700; 0xa438; 0x5fac;
  0xa438; 0x1000; 0xa438; 0x8021; 0xa438; 0x1800; 0xa438; 0x0139; 0xa438; 0x9a1f; 0xa438; 0x8bf0;
  0xa438; 0x1800; 0xa438; 0x02df; 0xa438; 0x9a1f; 0xa438; 0x9910; 0xa438; 0x1800; 0xa438; 0x02d7;
  0xa438; 0xad02; 0xa438; 0x8d01; 0xa438; 0x9a1f; 0xa438; 0x9910; 0xa438; 0x9860; 0xa438; 0xcb00;
  0xa438; 0xd501; 0xa438; 0xce01; 0xa438; 0x85f0; 0xa438; 0xd500; 0xa438; 0x1800; 0xa438; 0x015c;
  0xa438; 0x8580; 0xa438; 0x8d02; 0xa438; 0x1800; 0xa438; 0x018f; 0xa438; 0x0c0f; 0xa438; 0x0503;
  0xa438; 0xad02; 0xa438; 0x1800; 0xa438; 0x00dd; 0xa436; 0xA08E; 0xa438; 0x00db; 0xa436; 0xA08C;
  0xa438; 0x018e; 0xa436; 0xA08A; 0xa438; 0x015a; 0xa436; 0xA088; 0xa438; 0x02d6; 0xa436; 0xA086;
  0xa438; 0x02de; 0xa436; 0xA084; 0xa438; 0x0137; 0xa436; 0xA082; 0xa438; 0x0071; 0xa436; 0xA080;
  0xa438; 0x0041; 0xa436; 0xA090; 0xa438; 0x00ff; 0xa436; 0xA016; 0xa438; 0x0020; 0xa436; 0xA012;
  0xa438; 0x1ff8; 0xa436; 0xA014; 0xa438; 0x001c; 0xa438; 0xce15; 0xa438; 0xd105; 0xa438; 0xa410;
  0xa438; 0x8320; 0xa438; 0xFFD7; 0xa438; 0x0000; 0xa438; 0x0000; 0xa436; 0xA164; 0xa438; 0x0260;
  0xa436; 0xA166; 0xa438; 0x0add; 0xa436; 0xA168; 0xa438; 0x05CC; 0xa436; 0xA16A; 0xa438; 0x05C5;
  0xa436; 0xA16C; 0xa438; 0x0429; 0xa436; 0xA16E; 0xa438; 0x07B6; 0xa436; 0xA170; 0xa438; 0x0259;
  0xa436; 0xA172; 0xa438; 0x3fff; 0xa436; 0xA162; 0xa438; 0x003f; 0xa436; 0xA016; 0xa438; 0x0020;
  0xa436; 0xA012; 0xa438; 0x0000; 0xa436; 0xA014; 0xa438; 0x1800; 0xa438; 0x8010; 0xa438; 0x1800;
  0xa438; 0x8023; 0xa438; 0x1800; 0xa438; 0x814c; 0xa438; 0x1800; 0xa438; 0x8156; 0xa438; 0x1800;
  0xa438; 0x815e; 0xa438; 0x1800; 0xa438; 0x8210; 0xa438; 0x1800; 0xa438; 0x8221; 0xa438; 0x1800;
  0xa438; 0x822f; 0xa438; 0xa801; 0xa438; 0x9308; 0xa438; 0xb201; 0xa438; 0xb301; 0xa438; 0xd701;
  0xa438; 0x4000; 0xa438; 0xd2ff; 0xa438; 0xb302; 0xa438; 0xd200; 0xa438; 0xb201; 0xa438; 0xb309;
  0xa438; 0xd701; 0xa438; 0x4000; 0xa438; 0xd2ff; 0xa438; 0xb302; 0xa438; 0xd200; 0xa438; 0xa800;
  0xa438; 0x1800; 0xa438; 0x0031; 0xa438; 0xd700; 0xa438; 0x4543; 0xa438; 0xd71f; 0xa438; 0x40fe;
  0xa438; 0xd1b7; 0xa438; 0xd049; 0xa438; 0x1000; 0xa438; 0x109e; 0xa438; 0xd700; 0xa438; 0x5fbb;
  0xa438; 0xa220; 0xa438; 0x8501; 0xa438; 0x0c03; 0xa438; 0x1502; 0xa438; 0x0c70; 0xa438; 0x0b00;
  0xa438; 0x0c07; 0xa438; 0x0604; 0xa438; 0x9503; 0xa438; 0xa510; 0xa438; 0xce49; 0xa438; 0x1000;
  0xa438; 0x10be; 0xa438; 0x8520; 0xa438; 0xa520; 0xa438; 0xa501; 0xa438; 0xd105; 0xa438; 0xd047;
  0xa438; 0x1000; 0xa438; 0x109e; 0xa438; 0xd707; 0xa438; 0x6087; 0xa438; 0xd700; 0xa438; 0x5f7b;
  0xa438; 0xffe9; 0xa438; 0x1000; 0xa438; 0x109e; 0xa438; 0x8501; 0xa438; 0xd707; 0xa438; 0x5e08;
  0xa438; 0x8530; 0xa438; 0xba20; 0xa438; 0xf00c; 0xa438; 0xd700; 0xa438; 0x4098; 0xa438; 0xd1ef;
  0xa438; 0xd047; 0xa438; 0xf003; 0xa438; 0xd1db; 0xa438; 0xd040; 0xa438; 0x1000; 0xa438; 0x109e;
  0xa438; 0xd700; 0xa438; 0x5fbb; 0xa438; 0x8980; 0xa438; 0xd702; 0xa438; 0x6126; 0xa438; 0xd704;
  0xa438; 0x4063; 0xa438; 0xd702; 0xa438; 0x6060; 0xa438; 0xd702; 0xa438; 0x6077; 0xa438; 0x8410;
  0xa438; 0xf002; 0xa438; 0xa410; 0xa438; 0xce02; 0xa438; 0x1000; 0xa438; 0x10be; 0xa438; 0xcd81;
  0xa438; 0xd412; 0xa438; 0x1000; 0xa438; 0x1069; 0xa438; 0xcd82; 0xa438; 0xd40e; 0xa438; 0x1000;
  0xa438; 0x1069; 0xa438; 0xcd83; 0xa438; 0x1000; 0xa438; 0x109e; 0xa438; 0xd71f; 0xa438; 0x5fb4;
  0xa438; 0xd702; 0xa438; 0x6c26; 0xa438; 0xd704; 0xa438; 0x4063; 0xa438; 0xd702; 0xa438; 0x6060;
  0xa438; 0xd702; 0xa438; 0x6b77; 0xa438; 0xa340; 0xa438; 0x0c06; 0xa438; 0x0102; 0xa438; 0xce01;
  0xa438; 0x1000; 0xa438; 0x10be; 0xa438; 0xa240; 0xa438; 0xa902; 0xa438; 0xa204; 0xa438; 0xa280;
  0xa438; 0xa364; 0xa438; 0xab02; 0xa438; 0x8380; 0xa438; 0xa00a; 0xa438; 0xcd8d; 0xa438; 0x1000;
  0xa438; 0x109e; 0xa438; 0xd706; 0xa438; 0x5fb5; 0xa438; 0xb920; 0xa438; 0x1000; 0xa438; 0x109e;
  0xa438; 0xd71f; 0xa438; 0x7fb4; 0xa438; 0x9920; 0xa438; 0x1000; 0xa438; 0x109e; 0xa438; 0xd71f;
  0xa438; 0x6065; 0xa438; 0x7c74; 0xa438; 0xfffb; 0xa438; 0xb820; 0xa438; 0x1000; 0xa438; 0x109e;
  0xa438; 0xd71f; 0xa438; 0x7fa5; 0xa438; 0x9820; 0xa438; 0xa410; 0xa438; 0x8902; 0xa438; 0xa120;
  0xa438; 0xa380; 0xa438; 0xce02; 0xa438; 0x1000; 0xa438; 0x10be; 0xa438; 0x8280; 0xa438; 0xa324;
  0xa438; 0xab02; 0xa438; 0xa00a; 0xa438; 0x8118; 0xa438; 0x863f; 0xa438; 0x87fb; 0xa438; 0xcd8e;
  0xa438; 0xd193; 0xa438; 0xd047; 0xa438; 0x1000; 0xa438; 0x109e; 0xa438; 0x1000; 0xa438; 0x10a3;
  0xa438; 0xd700; 0xa438; 0x5f7b; 0xa438; 0xa280; 0xa438; 0x1000; 0xa438; 0x109e; 0xa438; 0x1000;
  0xa438; 0x10a3; 0xa438; 0xd706; 0xa438; 0x5f78; 0xa438; 0xa210; 0xa438; 0xd700; 0xa438; 0x6083;
  0xa438; 0xd101; 0xa438; 0xd047; 0xa438; 0xf003; 0xa438; 0xd160; 0xa438; 0xd04b; 0xa438; 0x1000;
  0xa438; 0x109e; 0xa438; 0x1000; 0xa438; 0x10a3; 0xa438; 0xd700; 0xa438; 0x5f7b; 0xa438; 0x1000;
  0xa438; 0x109e; 0xa438; 0x1000; 0xa438; 0x10a3; 0xa438; 0xd706; 0xa438; 0x5f79; 0xa438; 0x8120;
  0xa438; 0xbb20; 0xa438; 0xf04c; 0xa438; 0xa00a; 0xa438; 0xa340; 0xa438; 0x0c06; 0xa438; 0x0102;
  0xa438; 0xa240; 0xa438; 0xa290; 0xa438; 0xa324; 0xa438; 0xab02; 0xa438; 0xd13e; 0xa438; 0xd05a;
  0xa438; 0xd13e; 0xa438; 0xd06b; 0xa438; 0xcd84; 0xa438; 0x1000; 0xa438; 0x109e; 0xa438; 0xd706;
  0xa438; 0x6079; 0xa438; 0xd700; 0xa438; 0x5f5c; 0xa438; 0xcd8a; 0xa438; 0x1000; 0xa438; 0x109e;
  0xa438; 0xd706; 0xa438; 0x6079; 0xa438; 0xd700; 0xa438; 0x5f5d; 0xa438; 0xcd8b; 0xa438; 0x1000;
  0xa438; 0x109e; 0xa438; 0xcd8c; 0xa438; 0xd700; 0xa438; 0x6050; 0xa438; 0xab04; 0xa438; 0xd700;
  0xa438; 0x4083; 0xa438; 0xd160; 0xa438; 0xd04b; 0xa438; 0xf003; 0xa438; 0xd193; 0xa438; 0xd047;
  0xa438; 0x1000; 0xa438; 0x109e; 0xa438; 0xd700; 0xa438; 0x5fbb; 0xa438; 0x1000; 0xa438; 0x109e;
  0xa438; 0x8410; 0xa438; 0xd71f; 0xa438; 0x5f94; 0xa438; 0xb920; 0xa438; 0x1000; 0xa438; 0x109e;
  0xa438; 0xd71f; 0xa438; 0x7fb4; 0xa438; 0x9920; 0xa438; 0x1000; 0xa438; 0x109e; 0xa438; 0xd71f;
  0xa438; 0x6105; 0xa438; 0x6054; 0xa438; 0xfffb; 0xa438; 0x1000; 0xa438; 0x109e; 0xa438; 0xd706;
  0xa438; 0x5fb9; 0xa438; 0xfff0; 0xa438; 0xa410; 0xa438; 0xb820; 0xa438; 0xcd85; 0xa438; 0x1000;
  0xa438; 0x109e; 0xa438; 0xd71f; 0xa438; 0x7fa5; 0xa438; 0x9820; 0xa438; 0xbb20; 0xa438; 0xd105;
  0xa438; 0xd042; 0xa438; 0x1000; 0xa438; 0x109e; 0xa438; 0xd706; 0xa438; 0x5fbb; 0xa438; 0x5f85;
  0xa438; 0xd700; 0xa438; 0x5f5b; 0xa438; 0xd700; 0xa438; 0x6090; 0xa438; 0xd700; 0xa438; 0x4043;
  0xa438; 0xaa20; 0xa438; 0xcd86; 0xa438; 0xd700; 0xa438; 0x6083; 0xa438; 0xd1c7; 0xa438; 0xd045;
  0xa438; 0xf003; 0xa438; 0xd17a; 0xa438; 0xd04b; 0xa438; 0x1000; 0xa438; 0x109e; 0xa438; 0xd700;
  0xa438; 0x5fbb; 0xa438; 0x0c18; 0xa438; 0x0108; 0xa438; 0x0c3f; 0xa438; 0x0609; 0xa438; 0x0cfb;
  0xa438; 0x0729; 0xa438; 0xa308; 0xa438; 0x8320; 0xa438; 0xd105; 0xa438; 0xd042; 0xa438; 0x1000;
  0xa438; 0x109e; 0xa438; 0xd700; 0xa438; 0x5fbb; 0xa438; 0x1800; 0xa438; 0x08f7; 0xa438; 0x1000;
  0xa438; 0x109e; 0xa438; 0x1000; 0xa438; 0x10a3; 0xa438; 0xd700; 0xa438; 0x607b; 0xa438; 0xd700;
  0xa438; 0x5f2b; 0xa438; 0x1800; 0xa438; 0x0a81; 0xa438; 0xd700; 0xa438; 0x40bd; 0xa438; 0xd707;
  0xa438; 0x4065; 0xa438; 0x1800; 0xa438; 0x1121; 0xa438; 0x1800; 0xa438; 0x1124; 0xa438; 0x0c03;
  0xa438; 0x1502; 0xa438; 0x8f80; 0xa438; 0x9503; 0xa438; 0xd705; 0xa438; 0x641d; 0xa438; 0xd704;
  0xa438; 0x62b2; 0xa438; 0xd702; 0xa438; 0x4116; 0xa438; 0xce15; 0xa438; 0x1000; 0xa438; 0x10be;
  0xa438; 0x0c03; 0xa438; 0x1502; 0xa438; 0x8f40; 0xa438; 0x9503; 0xa438; 0xa00a; 0xa438; 0xd704;
  0xa438; 0x4247; 0xa438; 0xd700; 0xa438; 0x3691; 0xa438; 0x8183; 0xa438; 0x0c03; 0xa438; 0x1502;
  0xa438; 0xa570; 0xa438; 0x9503; 0xa438; 0xf00a; 0xa438; 0x0c03; 0xa438; 0x1502; 0xa438; 0xaf40;
  0xa438; 0x9503; 0xa438; 0x800a; 0xa438; 0x0c03; 0xa438; 0x1502; 0xa438; 0x8570; 0xa438; 0x9503;
  0xa438; 0x1000; 0xa438; 0x109e; 0xa438; 0x1000; 0xa438; 0x1108; 0xa438; 0xcd64; 0xa438; 0xd704;
  0xa438; 0x3398; 0xa438; 0x8203; 0xa438; 0xd71f; 0xa438; 0x620e; 0xa438; 0xd704; 0xa438; 0x6096;
  0xa438; 0xd705; 0xa438; 0x6051; 0xa438; 0xf004; 0xa438; 0xd705; 0xa438; 0x605d; 0xa438; 0xf008;
  0xa438; 0xd706; 0xa438; 0x609d; 0xa438; 0xd705; 0xa438; 0x405f; 0xa438; 0xf003; 0xa438; 0xd700;
  0xa438; 0x58fb; 0xa438; 0x0c03; 0xa438; 0x1502; 0xa438; 0xc7aa; 0xa438; 0x9503; 0xa438; 0xd71f;
  0xa438; 0x6d2e; 0xa438; 0xd704; 0xa438; 0x6096; 0xa438; 0xd705; 0xa438; 0x6051; 0xa438; 0xf005;
  0xa438; 0xd705; 0xa438; 0x607d; 0xa438; 0x1800; 0xa438; 0x0cc7; 0xa438; 0xd706; 0xa438; 0x60bd;
  0xa438; 0xd705; 0xa438; 0x407f; 0xa438; 0x1800; 0xa438; 0x0e42; 0xa438; 0xd702; 0xa438; 0x40a4;
  0xa438; 0x0c03; 0xa438; 0x1502; 0xa438; 0x8e20; 0xa438; 0x9503; 0xa438; 0xd702; 0xa438; 0x40a5;
  0xa438; 0x0c03; 0xa438; 0x1502; 0xa438; 0x8e40; 0xa438; 0x9503; 0xa438; 0xd705; 0xa438; 0x659d;
  0xa438; 0xd704; 0xa438; 0x62b2; 0xa438; 0xd702; 0xa438; 0x4116; 0xa438; 0xce15; 0xa438; 0x1000;
  0xa438; 0x10be; 0xa438; 0x0c03; 0xa438; 0x1502; 0xa438; 0x8f40; 0xa438; 0x9503; 0xa438; 0xa00a;
  0xa438; 0xd704; 0xa438; 0x4247; 0xa438; 0xd700; 0xa438; 0x3691; 0xa438; 0x81de; 0xa438; 0x0c03;
  0xa438; 0x1502; 0xa438; 0xa570; 0xa438; 0x9503; 0xa438; 0xf00a; 0xa438; 0x0c03; 0xa438; 0x1502;
  0xa438; 0xaf40; 0xa438; 0x9503; 0xa438; 0x800a; 0xa438; 0x0c03; 0xa438; 0x1502; 0xa438; 0x8570;
  0xa438; 0x9503; 0xa438; 0xd706; 0xa438; 0x60e4; 0xa438; 0x0c03; 0xa438; 0x1502; 0xa438; 0x0cf0;
  0xa438; 0x07a0; 0xa438; 0x9503; 0xa438; 0xf005; 0xa438; 0x0c03; 0xa438; 0x1502; 0xa438; 0x87f0;
  0xa438; 0x9503; 0xa438; 0x1000; 0xa438; 0x109e; 0xa438; 0x1000; 0xa438; 0x1108; 0xa438; 0xcd61;
  0xa438; 0xd704; 0xa438; 0x3398; 0xa438; 0x8203; 0xa438; 0xd704; 0xa438; 0x6096; 0xa438; 0xd705;
  0xa438; 0x6051; 0xa438; 0xf005; 0xa438; 0xd705; 0xa438; 0x607d; 0xa438; 0x1800; 0xa438; 0x0cc7;
  0xa438; 0xd71f; 0xa438; 0x61ce; 0xa438; 0xd706; 0xa438; 0x767d; 0xa438; 0xd705; 0xa438; 0x563f;
  0xa438; 0x1800; 0xa438; 0x0e42; 0xa438; 0x800a; 0xa438; 0x0c03; 0xa438; 0x1502; 0xa438; 0xae40;
  0xa438; 0x9503; 0xa438; 0x1800; 0xa438; 0x0c47; 0xa438; 0x0c03; 0xa438; 0x1502; 0xa438; 0xaf80;
  0xa438; 0x9503; 0xa438; 0x1800; 0xa438; 0x0b5f; 0xa438; 0x607c; 0xa438; 0x1800; 0xa438; 0x027a;
  0xa438; 0x0c03; 0xa438; 0x1502; 0xa438; 0xae01; 0xa438; 0x9503; 0xa438; 0x1000; 0xa438; 0x109e;
  0xa438; 0xd702; 0xa438; 0x5fa3; 0xa438; 0x0c03; 0xa438; 0x1502; 0xa438; 0x8e01; 0xa438; 0x9503;
  0xa438; 0x1800; 0xa438; 0x027d; 0xa438; 0x1000; 0xa438; 0x10be; 0xa438; 0xd702; 0xa438; 0x40a5;
  0xa438; 0x0c03; 0xa438; 0x1502; 0xa438; 0x8e40; 0xa438; 0x9503; 0xa438; 0xd73e; 0xa438; 0x6065;
  0xa438; 0x1800; 0xa438; 0x0cea; 0xa438; 0x1800; 0xa438; 0x0cf4; 0xa438; 0xd701; 0xa438; 0x6fd1;
  0xa438; 0xd71f; 0xa438; 0x6eee; 0xa438; 0xd707; 0xa438; 0x4d0f; 0xa438; 0xd73e; 0xa438; 0x4cc5;
  0xa438; 0xd705; 0xa438; 0x4c99; 0xa438; 0xd704; 0xa438; 0x6c57; 0xa438; 0xd702; 0xa438; 0x6c11;
  0xa438; 0x0c03; 0xa438; 0x1502; 0xa438; 0x8c20; 0xa438; 0xa608; 0xa438; 0x9503; 0xa438; 0xa201;
  0xa438; 0xa804; 0xa438; 0xd704; 0xa438; 0x40a7; 0xa438; 0x0c03; 0xa438; 0x1502; 0xa438; 0xa620;
  0xa438; 0x9503; 0xa438; 0x0c03; 0xa438; 0x1502; 0xa438; 0xac40; 0xa438; 0x9503; 0xa438; 0x800a;
  0xa438; 0x8290; 0xa438; 0x8306; 0xa438; 0x8b02; 0xa438; 0x0c03; 0xa438; 0x1502; 0xa438; 0x8570;
  0xa438; 0x9503; 0xa438; 0xce00; 0xa438; 0x1000; 0xa438; 0x10be; 0xa438; 0xcd99; 0xa438; 0x1000;
  0xa438; 0x109e; 0xa438; 0x1000; 0xa438; 0x10cc; 0xa438; 0xd701; 0xa438; 0x69f1; 0xa438; 0xd71f;
  0xa438; 0x690e; 0xa438; 0xd73e; 0xa438; 0x5ee6; 0xa438; 0x0c03; 0xa438; 0x1502; 0xa438; 0x87f0;
  0xa438; 0x9503; 0xa438; 0xce46; 0xa438; 0x1000; 0xa438; 0x10be; 0xa438; 0xa00a; 0xa438; 0xd704;
  0xa438; 0x40a7; 0xa438; 0x0c03; 0xa438; 0x1502; 0xa438; 0xa570; 0xa438; 0x9503; 0xa438; 0xcd9a;
  0xa438; 0xd700; 0xa438; 0x6078; 0xa438; 0xd700; 0xa438; 0x609a; 0xa438; 0xd109; 0xa438; 0xd074;
  0xa438; 0xf003; 0xa438; 0xd109; 0xa438; 0xd075; 0xa438; 0x1000; 0xa438; 0x109e; 0xa438; 0x1000;
  0xa438; 0x10cc; 0xa438; 0xd701; 0xa438; 0x65b1; 0xa438; 0xd71f; 0xa438; 0x64ce; 0xa438; 0xd700;
  0xa438; 0x5efe; 0xa438; 0xce00; 0xa438; 0x1000; 0xa438; 0x10be; 0xa438; 0x0c03; 0xa438; 0x1502;
  0xa438; 0x8608; 0xa438; 0x8c40; 0xa438; 0x9503; 0xa438; 0x8201; 0xa438; 0x800a; 0xa438; 0x8290;
  0xa438; 0x8306; 0xa438; 0x8b02; 0xa438; 0x0c03; 0xa438; 0x1502; 0xa438; 0xc7aa; 0xa438; 0x8570;
  0xa438; 0x8d08; 0xa438; 0x9503; 0xa438; 0xcd9b; 0xa438; 0x1800; 0xa438; 0x0c8b; 0xa438; 0x1000;
  0xa438; 0x109e; 0xa438; 0xd705; 0xa438; 0x61d9; 0xa438; 0xd704; 0xa438; 0x4193; 0xa438; 0x800a;
  0xa438; 0x0c03; 0xa438; 0x1502; 0xa438; 0xae40; 0xa438; 0x9503; 0xa438; 0x1800; 0xa438; 0x0c47;
  0xa438; 0x1800; 0xa438; 0x0df8; 0xa438; 0x1800; 0xa438; 0x8339; 0xa438; 0x0800; 0xa438; 0x0c03;
  0xa438; 0x1502; 0xa438; 0x8d08; 0xa438; 0x8f02; 0xa438; 0x8c40; 0xa438; 0x9503; 0xa438; 0x8201;
  0xa438; 0xa804; 0xa438; 0xd704; 0xa438; 0x40a7; 0xa438; 0x0c03; 0xa438; 0x1502; 0xa438; 0xa620;
  0xa438; 0x9503; 0xa438; 0x800a; 0xa438; 0x8290; 0xa438; 0x8306; 0xa438; 0x8b02; 0xa438; 0x8010;
  0xa438; 0x0c03; 0xa438; 0x1502; 0xa438; 0x8570; 0xa438; 0x9503; 0xa438; 0xaa03; 0xa438; 0x0c03;
  0xa438; 0x1502; 0xa438; 0xac20; 0xa438; 0xa608; 0xa438; 0x9503; 0xa438; 0xce00; 0xa438; 0x1000;
  0xa438; 0x10be; 0xa438; 0xcd95; 0xa438; 0x1000; 0xa438; 0x109e; 0xa438; 0xd701; 0xa438; 0x7b91;
  0xa438; 0xd71f; 0xa438; 0x7aae; 0xa438; 0xd701; 0xa438; 0x7ab0; 0xa438; 0xd704; 0xa438; 0x7ef3;
  0xa438; 0xd701; 0xa438; 0x5eb3; 0xa438; 0x84b0; 0xa438; 0x0c03; 0xa438; 0x1502; 0xa438; 0xa608;
  0xa438; 0xc700; 0xa438; 0x9503; 0xa438; 0xce54; 0xa438; 0x1000; 0xa438; 0x10be; 0xa438; 0xa290;
  0xa438; 0xa304; 0xa438; 0xab02; 0xa438; 0xd700; 0xa438; 0x6050; 0xa438; 0xab04; 0xa438; 0x0c38;
  0xa438; 0x0608; 0xa438; 0xaa0b; 0xa438; 0x0c03; 0xa438; 0x1502; 0xa438; 0x8d01; 0xa438; 0x0c03;
  0xa438; 0x1502; 0xa438; 0xae40; 0xa438; 0x9503; 0xa438; 0xd702; 0xa438; 0x40a4; 0xa438; 0x0c03;
  0xa438; 0x1502; 0xa438; 0x8e20; 0xa438; 0x9503; 0xa438; 0x0c03; 0xa438; 0x1502; 0xa438; 0x8c20;
  0xa438; 0x9503; 0xa438; 0xd700; 0xa438; 0x6078; 0xa438; 0xd700; 0xa438; 0x609a; 0xa438; 0xd109;
  0xa438; 0xd074; 0xa438; 0xf003; 0xa438; 0xd109; 0xa438; 0xd075; 0xa438; 0xd704; 0xa438; 0x62b2;
  0xa438; 0xd702; 0xa438; 0x4116; 0xa438; 0xce54; 0xa438; 0x1000; 0xa438; 0x10be; 0xa438; 0x0c03;
  0xa438; 0x1502; 0xa438; 0x8f40; 0xa438; 0x9503; 0xa438; 0xa00a; 0xa438; 0xd704; 0xa438; 0x4247;
  0xa438; 0xd700; 0xa438; 0x3691; 0xa438; 0x8326; 0xa438; 0x0c03; 0xa438; 0x1502; 0xa438; 0xa570;
  0xa438; 0x9503; 0xa438; 0xf00a; 0xa438; 0x0c03; 0xa438; 0x1502; 0xa438; 0xaf40; 0xa438; 0x9503;
  0xa438; 0x800a; 0xa438; 0x0c03; 0xa438; 0x1502; 0xa438; 0x8570; 0xa438; 0x9503; 0xa438; 0x1000;
  0xa438; 0x109e; 0xa438; 0xd704; 0xa438; 0x60f3; 0xa438; 0xd71f; 0xa438; 0x618e; 0xa438; 0xd700;
  0xa438; 0x5b5e; 0xa438; 0x1800; 0xa438; 0x0deb; 0xa438; 0x800a; 0xa438; 0x0c03; 0xa438; 0x1502;
  0xa438; 0xae40; 0xa438; 0x9503; 0xa438; 0x1800; 0xa438; 0x0c47; 0xa438; 0x1800; 0xa438; 0x0df8;
  0xa438; 0x0c03; 0xa438; 0x1502; 0xa438; 0x8608; 0xa438; 0x9503; 0xa438; 0x1800; 0xa438; 0x0e2b;
  0xa436; 0xA10E; 0xa438; 0x0d14; 0xa436; 0xA10C; 0xa438; 0x0ce8; 0xa436; 0xA10A; 0xa438; 0x0279;
  0xa436; 0xA108; 0xa438; 0x0b19; 0xa436; 0xA106; 0xa438; 0x111f; 0xa436; 0xA104; 0xa438; 0x0a7b;
  0xa436; 0xA102; 0xa438; 0x0ba3; 0xa436; 0xA100; 0xa438; 0x0022; 0xa436; 0xA110; 0xa438; 0x00ff;
  0xa436; 0xb87c; 0xa438; 0x859b; 0xa436; 0xb87e; 0xa438; 0xaf85; 0xa438; 0xb3af; 0xa438; 0x863b;
  0xa438; 0xaf86; 0xa438; 0x4caf; 0xa438; 0x8688; 0xa438; 0xaf86; 0xa438; 0xceaf; 0xa438; 0x8744;
  0xa438; 0xaf87; 0xa438; 0x68af; 0xa438; 0x8781; 0xa438; 0xbf5e; 0xa438; 0x7202; 0xa438; 0x5f7e;
  0xa438; 0xac28; 0xa438; 0x68e1; 0xa438; 0x84e6; 0xa438; 0xad28; 0xa438; 0x09bf; 0xa438; 0x5e75;
  0xa438; 0x025f; 0xa438; 0x7eac; 0xa438; 0x2d59; 0xa438; 0xe18f; 0xa438; 0xebad; 0xa438; 0x2809;
  0xa438; 0xbf5e; 0xa438; 0x7502; 0xa438; 0x5f7e; 0xa438; 0xac2e; 0xa438; 0x50e1; 0xa438; 0x84e6;
  0xa438; 0xac28; 0xa438; 0x08bf; 0xa438; 0x873e; 0xa438; 0x025f; 0xa438; 0x3cae; 0xa438; 0x06bf;
  0xa438; 0x873e; 0xa438; 0x025f; 0xa438; 0x33bf; 0xa438; 0x8741; 0xa438; 0x025f; 0xa438; 0x33ee;
  0xa438; 0x8fea; 0xa438; 0x02e1; 0xa438; 0x84e4; 0xa438; 0xad28; 0xa438; 0x14e1; 0xa438; 0x8fe8;
  0xa438; 0xad28; 0xa438; 0x17e1; 0xa438; 0x84e5; 0xa438; 0x11e5; 0xa438; 0x84e5; 0xa438; 0xa10c;
  0xa438; 0x04ee; 0xa438; 0x84e5; 0xa438; 0x0002; 0xa438; 0x4977; 0xa438; 0xee84; 0xa438; 0xdc03;
  0xa438; 0xae1d; 0xa438; 0xe18f; 0xa438; 0xe811; 0xa438; 0xe58f; 0xa438; 0xe8ae; 0xa438; 0x14bf;
  0xa438; 0x873e; 0xa438; 0x025f; 0xa438; 0x3cbf; 0xa438; 0x8741; 0xa438; 0x025f; 0xa438; 0x3cee;
  0xa438; 0x8fea; 0xa438; 0x01ee; 0xa438; 0x84e4; 0xa438; 0x00af; 0xa438; 0x50c1; 0xa438; 0x1f00;
  0xa438; 0xbf5a; 0xa438; 0x6102; 0xa438; 0x5f5f; 0xa438; 0xbf5a; 0xa438; 0x5e02; 0xa438; 0x5f3c;
  0xa438; 0xaf45; 0xa438; 0x7be0; 0xa438; 0x8012; 0xa438; 0xad23; 0xa438; 0x141f; 0xa438; 0x001f;
  0xa438; 0x22d1; 0xa438; 0x00bf; 0xa438; 0x3fcf; 0xa438; 0x0261; 0xa438; 0x3412; 0xa438; 0xa204;
  0xa438; 0xf6ee; 0xa438; 0x8317; 0xa438; 0x00e0; 0xa438; 0x8012; 0xa438; 0xad24; 0xa438; 0x141f;
  0xa438; 0x001f; 0xa438; 0x22d1; 0xa438; 0x00bf; 0xa438; 0x3fd7; 0xa438; 0x0261; 0xa438; 0x3412;
  0xa438; 0xa204; 0xa438; 0xf6ee; 0xa438; 0x8317; 0xa438; 0x00ef; 0xa438; 0x96fe; 0xa438; 0xfdfc;
  0xa438; 0xaf42; 0xa438; 0x9802; 0xa438; 0x56ec; 0xa438; 0xf70b; 0xa438; 0xac13; 0xa438; 0x0fbf;
  0xa438; 0x5e75; 0xa438; 0x025f; 0xa438; 0x7eac; 0xa438; 0x280c; 0xa438; 0xe2ff; 0xa438; 0xcfad;
  0xa438; 0x32ee; 0xa438; 0x0257; 0xa438; 0x05af; 0xa438; 0x00a4; 0xa438; 0x0286; 0xa438; 0xaaae;
  0xa438; 0xeff8; 0xa438; 0xf9ef; 0xa438; 0x5902; 0xa438; 0x1fe1; 0xa438; 0xbf59; 0xa438; 0x4d02;
  0xa438; 0x5f3c; 0xa438; 0xac13; 0xa438; 0x09bf; 0xa438; 0x5e75; 0xa438; 0x025f; 0xa438; 0x7ea1;
  0xa438; 0x00f4; 0xa438; 0xbf59; 0xa438; 0x4d02; 0xa438; 0x5f33; 0xa438; 0xef95; 0xa438; 0xfdfc;
  0xa438; 0x04bf; 0xa438; 0x5e72; 0xa438; 0x025f; 0xa438; 0x7eac; 0xa438; 0x284a; 0xa438; 0xe184;
  0xa438; 0xe6ad; 0xa438; 0x2809; 0xa438; 0xbf5e; 0xa438; 0x7502; 0xa438; 0x5f7e; 0xa438; 0xac2d;
  0xa438; 0x3be1; 0xa438; 0x8feb; 0xa438; 0xad28; 0xa438; 0x09bf; 0xa438; 0x5e75; 0xa438; 0x025f;
  0xa438; 0x7eac; 0xa438; 0x2e32; 0xa438; 0xe184; 0xa438; 0xe6ac; 0xa438; 0x2808; 0xa438; 0xbf87;
  0xa438; 0x3e02; 0xa438; 0x5f3c; 0xa438; 0xae06; 0xa438; 0xbf87; 0xa438; 0x3e02; 0xa438; 0x5f33;
  0xa438; 0xbf87; 0xa438; 0x4102; 0xa438; 0x5f33; 0xa438; 0xee8f; 0xa438; 0xea04; 0xa438; 0xbf5e;
  0xa438; 0x4e02; 0xa438; 0x5f7e; 0xa438; 0xad28; 0xa438; 0x1f02; 0xa438; 0x4b12; 0xa438; 0xae1a;
  0xa438; 0xbf87; 0xa438; 0x3e02; 0xa438; 0x5f3c; 0xa438; 0xbf87; 0xa438; 0x4102; 0xa438; 0x5f3c;
  0xa438; 0xee8f; 0xa438; 0xea03; 0xa438; 0xbf5e; 0xa438; 0x2a02; 0xa438; 0x5f33; 0xa438; 0xee84;
  0xa438; 0xe701; 0xa438; 0xaf4a; 0xa438; 0x7444; 0xa438; 0xac0e; 0xa438; 0x55ac; 0xa438; 0x0ebf;
  0xa438; 0x5e75; 0xa438; 0x025f; 0xa438; 0x7ead; 0xa438; 0x2d0b; 0xa438; 0xbf5e; 0xa438; 0x36e1;
  0xa438; 0x8fe9; 0xa438; 0x025f; 0xa438; 0x5fae; 0xa438; 0x09bf; 0xa438; 0x5e36; 0xa438; 0xe184;
  0xa438; 0xe102; 0xa438; 0x5f5f; 0xa438; 0xee8f; 0xa438; 0xe800; 0xa438; 0xaf49; 0xa438; 0xcdbf;
  0xa438; 0x595c; 0xa438; 0x025f; 0xa438; 0x7ea1; 0xa438; 0x0203; 0xa438; 0xaf87; 0xa438; 0x79d1;
  0xa438; 0x00af; 0xa438; 0x877c; 0xa438; 0xe181; 0xa438; 0x941f; 0xa438; 0x00af; 0xa438; 0x3ff7;
  0xa438; 0xac4e; 0xa438; 0x06ac; 0xa438; 0x4003; 0xa438; 0xaf24; 0xa438; 0x97af; 0xa438; 0x2467;
  0xa436; 0xb85e; 0xa438; 0x5082; 0xa436; 0xb860; 0xa438; 0x4575; 0xa436; 0xb862; 0xa438; 0x425F;
  0xa436; 0xb864; 0xa438; 0x0096; 0xa436; 0xb886; 0xa438; 0x4A44; 0xa436; 0xb888; 0xa438; 0x49c4;
  0xa436; 0xb88a; 0xa438; 0x3FF2; 0xa436; 0xb88c; 0xa438; 0x245C; 0xa436; 0xb838; 0xa438; 0x00ff;
  0xb820; 0x0010; 0xa436; 0x843d; 0xa438; 0xaf84; 0xa438; 0xa6af; 0xa438; 0x8540; 0xa438; 0xaf85;
  0xa438; 0xaeaf; 0xa438; 0x85b5; 0xa438; 0xaf87; 0xa438; 0x7daf; 0xa438; 0x8784; 0xa438; 0xaf87;
  0xa438; 0x87af; 0xa438; 0x87e5; 0xa438; 0x0066; 0xa438; 0x0a03; 0xa438; 0x6607; 0xa438; 0x2666;
  0xa438; 0x1c00; 0xa438; 0x660d; 0xa438; 0x0166; 0xa438; 0x1004; 0xa438; 0x6616; 0xa438; 0x0566;
  0xa438; 0x1f06; 0xa438; 0x6a5d; 0xa438; 0x2766; 0xa438; 0x1900; 0xa438; 0x6625; 0xa438; 0x2466;
  0xa438; 0x2820; 0xa438; 0x662b; 0xa438; 0x2466; 0xa438; 0x4600; 0xa438; 0x664c; 0xa438; 0x0166;
  0xa438; 0x4902; 0xa438; 0x8861; 0xa438; 0x0388; 0xa438; 0x5e05; 0xa438; 0x886d; 0xa438; 0x0588;
  0xa438; 0x7005; 0xa438; 0x8873; 0xa438; 0x0588; 0xa438; 0x7605; 0xa438; 0x8879; 0xa438; 0x0588;
  0xa438; 0x7c05; 0xa438; 0x887f; 0xa438; 0x0588; 0xa438; 0x8205; 0xa438; 0x8885; 0xa438; 0x0588;
  0xa438; 0x881e; 0xa438; 0x13ad; 0xa438; 0x2841; 0xa438; 0xbf64; 0xa438; 0xf102; 0xa438; 0x6b9d;
  0xa438; 0xad28; 0xa438; 0x03af; 0xa438; 0x15fc; 0xa438; 0xbf65; 0xa438; 0xcb02; 0xa438; 0x6b9d;
  0xa438; 0x0d11; 0xa438; 0xf62f; 0xa438; 0xef31; 0xa438; 0xd202; 0xa438; 0xbf88; 0xa438; 0x6402;
  0xa438; 0x6b52; 0xa438; 0xe082; 0xa438; 0x020d; 0xa438; 0x01f6; 0xa438; 0x271b; 0xa438; 0x03aa;
  0xa438; 0x0182; 0xa438; 0xe082; 0xa438; 0x010d; 0xa438; 0x01f6; 0xa438; 0x271b; 0xa438; 0x03aa;
  0xa438; 0x0782; 0xa438; 0xbf88; 0xa438; 0x6402; 0xa438; 0x6b5b; 0xa438; 0xaf15; 0xa438; 0xf9bf;
  0xa438; 0x65cb; 0xa438; 0x026b; 0xa438; 0x9d0d; 0xa438; 0x11f6; 0xa438; 0x2fef; 0xa438; 0x31e0;
  0xa438; 0x8ff7; 0xa438; 0x0d01; 0xa438; 0xf627; 0xa438; 0x1b03; 0xa438; 0xaa20; 0xa438; 0xe18f;
  0xa438; 0xf4d0; 0xa438; 0x00bf; 0xa438; 0x6587; 0xa438; 0x026b; 0xa438; 0x7ee1; 0xa438; 0x8ff5;
  0xa438; 0xbf65; 0xa438; 0x8a02; 0xa438; 0x6b7e; 0xa438; 0xe18f; 0xa438; 0xf6bf; 0xa438; 0x6584;
  0xa438; 0x026b; 0xa438; 0x7eaf; 0xa438; 0x15fc; 0xa438; 0xe18f; 0xa438; 0xf1d0; 0xa438; 0x00bf;
  0xa438; 0x6587; 0xa438; 0x026b; 0xa438; 0x7ee1; 0xa438; 0x8ff2; 0xa438; 0xbf65; 0xa438; 0x8a02;
  0xa438; 0x6b7e; 0xa438; 0xe18f; 0xa438; 0xf3bf; 0xa438; 0x6584; 0xa438; 0xaf15; 0xa438; 0xfcd1;
  0xa438; 0x07bf; 0xa438; 0x65ce; 0xa438; 0x026b; 0xa438; 0x7ed1; 0xa438; 0x0cbf; 0xa438; 0x65d1;
  0xa438; 0x026b; 0xa438; 0x7ed1; 0xa438; 0x03bf; 0xa438; 0x885e; 0xa438; 0x026b; 0xa438; 0x7ed1;
  0xa438; 0x05bf; 0xa438; 0x8867; 0xa438; 0x026b; 0xa438; 0x7ed1; 0xa438; 0x07bf; 0xa438; 0x886a;
  0xa438; 0x026b; 0xa438; 0x7ebf; 0xa438; 0x6a6c; 0xa438; 0x026b; 0xa438; 0x5b02; 0xa438; 0x62b5;
  0xa438; 0xbf6a; 0xa438; 0x0002; 0xa438; 0x6b5b; 0xa438; 0xbf64; 0xa438; 0x4e02; 0xa438; 0x6b9d;
  0xa438; 0xac28; 0xa438; 0x0bbf; 0xa438; 0x6412; 0xa438; 0x026b; 0xa438; 0x9da1; 0xa438; 0x0502;
  0xa438; 0xaeec; 0xa438; 0xd104; 0xa438; 0xbf65; 0xa438; 0xce02; 0xa438; 0x6b7e; 0xa438; 0xd104;
  0xa438; 0xbf65; 0xa438; 0xd102; 0xa438; 0x6b7e; 0xa438; 0xd102; 0xa438; 0xbf88; 0xa438; 0x6702;
  0xa438; 0x6b7e; 0xa438; 0xd104; 0xa438; 0xbf88; 0xa438; 0x6a02; 0xa438; 0x6b7e; 0xa438; 0xaf62;
  0xa438; 0x72f6; 0xa438; 0x0af6; 0xa438; 0x09af; 0xa438; 0x34e3; 0xa438; 0x0285; 0xa438; 0xbe02;
  0xa438; 0x106c; 0xa438; 0xaf10; 0xa438; 0x6bf8; 0xa438; 0xfaef; 0xa438; 0x69e0; 0xa438; 0x804c;
  0xa438; 0xac25; 0xa438; 0x17e0; 0xa438; 0x8040; 0xa438; 0xad25; 0xa438; 0x1a02; 0xa438; 0x85ed;
  0xa438; 0xe080; 0xa438; 0x40ac; 0xa438; 0x2511; 0xa438; 0xbf87; 0xa438; 0x6502; 0xa438; 0x6b5b;
  0xa438; 0xae09; 0xa438; 0x0287; 0xa438; 0x2402; 0xa438; 0x875a; 0xa438; 0x0287; 0xa438; 0x4fef;
  0xa438; 0x96fe; 0xa438; 0xfc04; 0xa438; 0xf8e0; 0xa438; 0x8019; 0xa438; 0xad20; 0xa438; 0x11e0;
  0xa438; 0x8fe3; 0xa438; 0xac20; 0xa438; 0x0502; 0xa438; 0x860a; 0xa438; 0xae03; 0xa438; 0x0286;
  0xa438; 0x7802; 0xa438; 0x86c1; 0xa438; 0x0287; 0xa438; 0x4ffc; 0xa438; 0x04f8; 0xa438; 0xf9ef;
  0xa438; 0x79fb; 0xa438; 0xbf87; 0xa438; 0x6802; 0xa438; 0x6b9d; 0xa438; 0x5c20; 0xa438; 0x000d;
  0xa438; 0x4da1; 0xa438; 0x0151; 0xa438; 0xbf87; 0xa438; 0x6802; 0xa438; 0x6b9d; 0xa438; 0x5c07;
  0xa438; 0xffe3; 0xa438; 0x8fe4; 0xa438; 0x1b31; 0xa438; 0x9f41; 0xa438; 0x0d48; 0xa438; 0xe38f;
  0xa438; 0xe51b; 0xa438; 0x319f; 0xa438; 0x38bf; 0xa438; 0x876b; 0xa438; 0x026b; 0xa438; 0x9d5c;
  0xa438; 0x07ff; 0xa438; 0xe38f; 0xa438; 0xe61b; 0xa438; 0x319f; 0xa438; 0x280d; 0xa438; 0x48e3;
  0xa438; 0x8fe7; 0xa438; 0x1b31; 0xa438; 0x9f1f; 0xa438; 0xbf87; 0xa438; 0x6e02; 0xa438; 0x6b9d;
  0xa438; 0x5c07; 0xa438; 0xffe3; 0xa438; 0x8fe8; 0xa438; 0x1b31; 0xa438; 0x9f0f; 0xa438; 0x0d48;
  0xa438; 0xe38f; 0xa438; 0xe91b; 0xa438; 0x319f; 0xa438; 0x06ee; 0xa438; 0x8fe3; 0xa438; 0x01ae;
  0xa438; 0x04ee; 0xa438; 0x8fe3; 0xa438; 0x00ff; 0xa438; 0xef97; 0xa438; 0xfdfc; 0xa438; 0x04f8;
  0xa438; 0xf9ef; 0xa438; 0x79fb; 0xa438; 0xbf87; 0xa438; 0x6802; 0xa438; 0x6b9d; 0xa438; 0x5c20;
  0xa438; 0x000d; 0xa438; 0x4da1; 0xa438; 0x0020; 0xa438; 0xbf87; 0xa438; 0x6802; 0xa438; 0x6b9d;
  0xa438; 0x5c06; 0xa438; 0x000d; 0xa438; 0x49e3; 0xa438; 0x8fea; 0xa438; 0x1b31; 0xa438; 0x9f0e;
  0xa438; 0xbf87; 0xa438; 0x7102; 0xa438; 0x6b5b; 0xa438; 0xbf87; 0xa438; 0x7702; 0xa438; 0x6b5b;
  0xa438; 0xae0c; 0xa438; 0xbf87; 0xa438; 0x7102; 0xa438; 0x6b52; 0xa438; 0xbf87; 0xa438; 0x7702;
  0xa438; 0x6b52; 0xa438; 0xee8f; 0xa438; 0xe300; 0xa438; 0xffef; 0xa438; 0x97fd; 0xa438; 0xfc04;
  0xa438; 0xf8f9; 0xa438; 0xef79; 0xa438; 0xfbbf; 0xa438; 0x8768; 0xa438; 0x026b; 0xa438; 0x9d5c;
  0xa438; 0x2000; 0xa438; 0x0d4d; 0xa438; 0xa101; 0xa438; 0x4abf; 0xa438; 0x8768; 0xa438; 0x026b;
  0xa438; 0x9d5c; 0xa438; 0x07ff; 0xa438; 0xe38f; 0xa438; 0xeb1b; 0xa438; 0x319f; 0xa438; 0x3a0d;
  0xa438; 0x48e3; 0xa438; 0x8fec; 0xa438; 0x1b31; 0xa438; 0x9f31; 0xa438; 0xbf87; 0xa438; 0x6b02;
  0xa438; 0x6b9d; 0xa438; 0xe38f; 0xa438; 0xed1b; 0xa438; 0x319f; 0xa438; 0x240d; 0xa438; 0x48e3;
  0xa438; 0x8fee; 0xa438; 0x1b31; 0xa438; 0x9f1b; 0xa438; 0xbf87; 0xa438; 0x6e02; 0xa438; 0x6b9d;
  0xa438; 0xe38f; 0xa438; 0xef1b; 0xa438; 0x319f; 0xa438; 0x0ebf; 0xa438; 0x8774; 0xa438; 0x026b;
  0xa438; 0x5bbf; 0xa438; 0x877a; 0xa438; 0x026b; 0xa438; 0x5bae; 0xa438; 0x00ff; 0xa438; 0xef97;
  0xa438; 0xfdfc; 0xa438; 0x04f8; 0xa438; 0xef79; 0xa438; 0xfbe0; 0xa438; 0x8019; 0xa438; 0xad20;
  0xa438; 0x1cee; 0xa438; 0x8fe3; 0xa438; 0x00bf; 0xa438; 0x8771; 0xa438; 0x026b; 0xa438; 0x52bf;
  0xa438; 0x8777; 0xa438; 0x026b; 0xa438; 0x52bf; 0xa438; 0x8774; 0xa438; 0x026b; 0xa438; 0x52bf;
  0xa438; 0x877a; 0xa438; 0x026b; 0xa438; 0x52ff; 0xa438; 0xef97; 0xa438; 0xfc04; 0xa438; 0xf8e0;
  0xa438; 0x8040; 0xa438; 0xf625; 0xa438; 0xe480; 0xa438; 0x40fc; 0xa438; 0x04f8; 0xa438; 0xe080;
  0xa438; 0x4cf6; 0xa438; 0x25e4; 0xa438; 0x804c; 0xa438; 0xfc04; 0xa438; 0x55a4; 0xa438; 0xbaf0;
  0xa438; 0xa64a; 0xa438; 0xf0a6; 0xa438; 0x4cf0; 0xa438; 0xa64e; 0xa438; 0x66a4; 0xa438; 0xb655;
  0xa438; 0xa4b6; 0xa438; 0x00ac; 0xa438; 0x0e66; 0xa438; 0xac0e; 0xa438; 0xee80; 0xa438; 0x4c3a;
  0xa438; 0xaf07; 0xa438; 0xd0af; 0xa438; 0x26d0; 0xa438; 0xa201; 0xa438; 0x0ebf; 0xa438; 0x663d;
  0xa438; 0x026b; 0xa438; 0x52bf; 0xa438; 0x6643; 0xa438; 0x026b; 0xa438; 0x52ae; 0xa438; 0x11bf;
  0xa438; 0x6643; 0xa438; 0x026b; 0xa438; 0x5bd4; 0xa438; 0x0054; 0xa438; 0xb4fe; 0xa438; 0xbf66;
  0xa438; 0x3d02; 0xa438; 0x6b5b; 0xa438; 0xd300; 0xa438; 0x020d; 0xa438; 0xf6a2; 0xa438; 0x0405;
  0xa438; 0xe081; 0xa438; 0x47ae; 0xa438; 0x03e0; 0xa438; 0x8148; 0xa438; 0xac23; 0xa438; 0x02ae;
  0xa438; 0x0268; 0xa438; 0xf01a; 0xa438; 0x10ad; 0xa438; 0x2f04; 0xa438; 0xd100; 0xa438; 0xae05;
  0xa438; 0xad2c; 0xa438; 0x02d1; 0xa438; 0x0f1f; 0xa438; 0x00a2; 0xa438; 0x0407; 0xa438; 0x3908;
  0xa438; 0xad2f; 0xa438; 0x02d1; 0xa438; 0x0002; 0xa438; 0x0e1c; 0xa438; 0x2b01; 0xa438; 0xad3a;
  0xa438; 0xc9af; 0xa438; 0x0dee; 0xa438; 0xa000; 0xa438; 0x2702; 0xa438; 0x1beb; 0xa438; 0xe18f;
  0xa438; 0xe1ac; 0xa438; 0x2819; 0xa438; 0xee8f; 0xa438; 0xe101; 0xa438; 0x1f44; 0xa438; 0xbf65;
  0xa438; 0x9302; 0xa438; 0x6b9d; 0xa438; 0xe58f; 0xa438; 0xe21f; 0xa438; 0x44d1; 0xa438; 0x02bf;
  0xa438; 0x6593; 0xa438; 0x026b; 0xa438; 0x7ee0; 0xa438; 0x82b1; 0xa438; 0xae49; 0xa438; 0xa001;
  0xa438; 0x0502; 0xa438; 0x1c4d; 0xa438; 0xae41; 0xa438; 0xa002; 0xa438; 0x0502; 0xa438; 0x1c90;
  0xa438; 0xae39; 0xa438; 0xa003; 0xa438; 0x0502; 0xa438; 0x1c9d; 0xa438; 0xae31; 0xa438; 0xa004;
  0xa438; 0x0502; 0xa438; 0x1cbc; 0xa438; 0xae29; 0xa438; 0xa005; 0xa438; 0x1e02; 0xa438; 0x1cc9;
  0xa438; 0xe080; 0xa438; 0xdfac; 0xa438; 0x2013; 0xa438; 0xac21; 0xa438; 0x10ac; 0xa438; 0x220d;
  0xa438; 0xe18f; 0xa438; 0xe2bf; 0xa438; 0x6593; 0xa438; 0x026b; 0xa438; 0x7eee; 0xa438; 0x8fe1;
  0xa438; 0x00ae; 0xa438; 0x08a0; 0xa438; 0x0605; 0xa438; 0x021d; 0xa438; 0x07ae; 0xa438; 0x00e0;
  0xa438; 0x82b1; 0xa438; 0xaf1b; 0xa438; 0xe910; 0xa438; 0xbf4a; 0xa438; 0x99bf; 0xa438; 0x4a00;
  0xa438; 0xa86a; 0xa438; 0xfdad; 0xa438; 0x5eca; 0xa438; 0xad5e; 0xa438; 0x88bd; 0xa438; 0x2c99;
  0xa438; 0xbd2c; 0xa438; 0x33bd; 0xa438; 0x3222; 0xa438; 0xbd32; 0xa438; 0x11bd; 0xa438; 0x3200;
  0xa438; 0xbd32; 0xa438; 0x77bd; 0xa438; 0x3266; 0xa438; 0xbd32; 0xa438; 0x55bd; 0xa438; 0x3244;
  0xa438; 0xbd32; 0xa436; 0xb818; 0xa438; 0x15c5; 0xa436; 0xb81a; 0xa438; 0x6255; 0xa436; 0xb81c;
  0xa438; 0x34e1; 0xa436; 0xb81e; 0xa438; 0x1068; 0xa436; 0xb850; 0xa438; 0x07cc; 0xa436; 0xb852;
  0xa438; 0x26ca; 0xa436; 0xb878; 0xa438; 0x0dbf; 0xa436; 0xb884; 0xa438; 0x1BB1; 0xa436; 0xb832;
  0xa438; 0x00ff; 0xa436; 0x0000; 0xa438; 0x0000; 0xB82E; 0x0000; 0xa436; 0x8023; 0xa438; 0x0000;
  0xa436; 0x801E; 0xa438; 0x0031; 0xB820; 0x0000; 0xFFFF; 0xFFFF].

Definition phy_mcu_ram_code_8125d_1_2 : list Z := [
  0xb892; 0x0000; 0xB88E; 0xC28F; 0xB890; 0x252D; 0xB88E; 0xC290; 0xB890; 0xC924; 0xB88E; 0xC291;
  0xB890; 0xC92E; 0xB88E; 0xC292; 0xB890; 0xF626; 0xB88E; 0xC293; 0xB890; 0xF630; 0xB88E; 0xC294;
  0xB890; 0xA328; 0xB88E; 0xC295; 0xB890; 0xA332; 0xB88E; 0xC296; 0xB890; 0xD72B; 0xB88E; 0xC297;
  0xB890; 0xD735; 0xB88E; 0xC298; 0xB890; 0x8A2E; 0xB88E; 0xC299; 0xB890; 0x8A38; 0xB88E; 0xC29A;
  0xB890; 0xBE32; 0xB88E; 0xC29B; 0xB890; 0xBE3C; 0xB88E; 0xC29C; 0xB890; 0x7436; 0xB88E; 0xC29D;
  0xB890; 0x7440; 0xB88E; 0xC29E; 0xB890; 0xAD3B; 0xB88E; 0xC29F; 0xB890; 0xAD45; 0xB88E; 0xC2A0;
  0xB890; 0x6640; 0xB88E; 0xC2A1; 0xB890; 0x664A; 0xB88E; 0xC2A2; 0xB890; 0xA646; 0xB88E; 0xC2A3;
  0xB890; 0xA650; 0xB88E; 0xC2A4; 0xB890; 0x624C; 0xB88E; 0xC2A5; 0xB890; 0x6256; 0xB88E; 0xC2A6;
  0xB890; 0xA453; 0xB88E; 0xC2A7; 0xB890; 0xA45D; 0xB88E; 0xC2A8; 0xB890; 0x665A; 0xB88E; 0xC2A9;
  0xB890; 0x6664; 0xB88E; 0xC2AA; 0xB890; 0xAC62; 0xB88E; 0xC2AB; 0xB890; 0xAC6C; 0xB88E; 0xC2AC;
  0xB890; 0x746A; 0xB88E; 0xC2AD; 0xB890; 0x7474; 0xB88E; 0xC2AE; 0xB890; 0xBCFA; 0xB88E; 0xC2AF;
  0xB890; 0xBCFD; 0xB88E; 0xC2B0; 0xB890; 0x79FF; 0xB88E; 0xC2B1; 0xB890; 0x7901; 0xB88E; 0xC2B2;
  0xB890; 0xF703; 0xB88E; 0xC2B3; 0xB890; 0xF706; 0xB88E; 0xC2B4; 0xB890; 0x7408; 0xB88E; 0xC2B5;
  0xB890; 0x740A; 0xB88E; 0xC2B6; 0xB890; 0xF10C; 0xB88E; 0xC2B7; 0xB890; 0xF10F; 0xB88E; 0xC2B8;
  0xB890; 0x6F10; 0xB88E; 0xC2B9; 0xB890; 0x6F13; 0xB88E; 0xC2BA; 0xB890; 0xEC15; 0xB88E; 0xC2BB;
  0xB890; 0xEC18; 0xB88E; 0xC2BC; 0xB890; 0x6A1A; 0xB88E; 0xC2BD; 0xB890; 0x6A1C; 0xB88E; 0xC2BE;
  0xB890; 0xE71E; 0xB88E; 0xC2BF; 0xB890; 0xE721; 0xB88E; 0xC2C0; 0xB890; 0x6424; 0xB88E; 0xC2C1;
  0xB890; 0x6425; 0xB88E; 0xC2C2; 0xB890; 0xE228; 0xB88E; 0xC2C3; 0xB890; 0xE22A; 0xB88E; 0xC2C4;
  0xB890; 0x5F2B; 0xB88E; 0xC2C5; 0xB890; 0x5F2E; 0xB88E; 0xC2C6; 0xB890; 0xDC31; 0xB88E; 0xC2C7;
  0xB890; 0xDC33; 0xB88E; 0xC2C8; 0xB890; 0x2035; 0xB88E; 0xC2C9; 0xB890; 0x2036; 0xB88E; 0xC2CA;
  0xB890; 0x9F3A; 0xB88E; 0xC2CB; 0xB890; 0x9F3A; 0xB88E; 0xC2CC; 0xB890; 0x4430; 0xFFFF; 0xFFFF].

Definition phy_mcu_ram_code_8125d_1_3 : list Z := [
  0xa436; 0xacca; 0xa438; 0x0104; 0xa436; 0xaccc; 0xa438; 0x8000; 0xa436; 0xacce; 0xa438; 0xffff;
  0xa436; 0xacd0; 0xa438; 0x0fff; 0xa436; 0xacce; 0xa438; 0xfd47; 0xa436; 0xacd0; 0xa438; 0x0fff;
  0xa436; 0xacce; 0xa438; 0xffff; 0xa436; 0xacd0; 0xa438; 0x07ff; 0xa436; 0xacce; 0xa438; 0xe56f;
  0xa436; 0xacd0; 0xa438; 0x01c0; 0xa436; 0xacce; 0xa438; 0xffff; 0xa436; 0xacd0; 0xa438; 0x07ff;
  0xa436; 0xacce; 0xa438; 0xed97; 0xa436; 0xacd0; 0xa438; 0x01c8; 0xa436; 0xacce; 0xa438; 0xffff;
  0xa436; 0xacd0; 0xa438; 0x07ff; 0xa436; 0xacce; 0xa438; 0xf5bf; 0xa436; 0xacd0; 0xa438; 0x01d0;
  0xa436; 0xacce; 0xa438; 0xfb07; 0xa436; 0xacd0; 0xa438; 0x07ff; 0xa436; 0xacce; 0xa438; 0xfb0f;
  0xa436; 0xacd0; 0xa438; 0x01d8; 0xa436; 0xacce; 0xa438; 0xa087; 0xa436; 0xacd0; 0xa438; 0x0180;
  0xa436; 0xacce; 0xa438; 0xa00f; 0xa436; 0xacd0; 0xa438; 0x0108; 0xa436; 0xacce; 0xa438; 0xa807;
  0xa436; 0xacd0; 0xa438; 0x0100; 0xa436; 0xacce; 0xa438; 0xa88f; 0xa436; 0xacd0; 0xa438; 0x0188;
  0xa436; 0xacce; 0xa438; 0xb027; 0xa436; 0xacd0; 0xa438; 0x0120; 0xa436; 0xacce; 0xa438; 0xb02f;
  0xa436; 0xacd0; 0xa438; 0x0128; 0xa436; 0xacce; 0xa438; 0xb847; 0xa436; 0xacd0; 0xa438; 0x0140;
  0xa436; 0xacce; 0xa438; 0xb84f; 0xa436; 0xacd0; 0xa438; 0x0148; 0xa436; 0xacce; 0xa438; 0xfb17;
  0xa436; 0xacd0; 0xa438; 0x07ff; 0xa436; 0xacce; 0xa438; 0xfb1f; 0xa436; 0xacd0; 0xa438; 0x07ff;
  0xa436; 0xacce; 0xa438; 0xa017; 0xa436; 0xacd0; 0xa438; 0x0110; 0xa436; 0xacce; 0xa438; 0xa01f;
  0xa436; 0xacd0; 0xa438; 0x0118; 0xa436; 0xacce; 0xa438; 0xa837; 0xa436; 0xacd0; 0xa438; 0x0130;
  0xa436; 0xacce; 0xa438; 0xa83f; 0xa436; 0xacd0; 0xa438; 0x0138; 0xa436; 0xacce; 0xa438; 0xb097;
  0xa436; 0xacd0; 0xa438; 0x0190; 0xa436; 0xacce; 0xa438; 0xb05f; 0xa436; 0xacd0; 0xa438; 0x0158;
  0xa436; 0xacce; 0xa438; 0xb857; 0xa436; 0xacd0; 0xa438; 0x0150; 0xa436; 0xacce; 0xa438; 0xb89f;
  0xa436; 0xacd0; 0xa438; 0x0198; 0xa436; 0xacce; 0xa438; 0xfb27; 0xa436; 0xacd0; 0xa438; 0x07ff;
  0xa436; 0xacce; 0xa438; 0xfb2f; 0xa436; 0xacd0; 0xa438; 0x07ff; 0xa436; 0xacce; 0xa438; 0x8087;
  0xa436; 0xacd0; 0xa438; 0x0180; 0xa436; 0xacce; 0xa438; 0x800f; 0xa436; 0xacd0; 0xa438; 0x0108;
  0xa436; 0xacce; 0xa438; 0x8807; 0xa436; 0xacd0; 0xa438; 0x0100; 0xa436; 0xacce; 0xa438; 0x888f;
  0xa436; 0xacd0; 0xa438; 0x0188; 0xa436; 0xacce; 0xa438; 0x9027; 0xa436; 0xacd0; 0xa438; 0x0120;
  0xa436; 0xacce; 0xa438; 0x902f; 0xa436; 0xacd0; 0xa438; 0x0128; 0xa436; 0xacce; 0xa438; 0x9847;
  0xa436; 0xacd0; 0xa438; 0x0140; 0xa436; 0xacce; 0xa438; 0x984f; 0xa436; 0xacd0; 0xa438; 0x0148;
  0xa436; 0xacce; 0xa438; 0xa0a7; 0xa436; 0xacd0; 0xa438; 0x01a0; 0xa436; 0xacce; 0xa438; 0xa8af;
  0xa436; 0xacd0; 0xa438; 0x01a8; 0xa436; 0xacce; 0xa438; 0xa067; 0xa436; 0xacd0; 0xa438; 0x0161;
  0xa436; 0xacce; 0xa438; 0xa86f; 0xa436; 0xacd0; 0xa438; 0x0169; 0xa436; 0xacce; 0xa438; 0xfb37;
  0xa436; 0xacd0; 0xa438; 0x07ff; 0xa436; 0xacce; 0xa438; 0xfb3f; 0xa436; 0xacd0; 0xa438; 0x07ff;
  0xa436; 0xacce; 0xa438; 0x8017; 0xa436; 0xacd0; 0xa438; 0x0110; 0xa436; 0xacce; 0xa438; 0x801f;
  0xa436; 0xacd0; 0xa438; 0x0118; 0xa436; 0xacce; 0xa438; 0x8837; 0xa436; 0xacd0; 0xa438; 0x0130;
  0xa436; 0xacce; 0xa438; 0x883f; 0xa436; 0xacd0; 0xa438; 0x0138; 0xa436; 0xacce; 0xa438; 0x9097;
  0xa436; 0xacd0; 0xa438; 0x0190; 0xa436; 0xacce; 0xa438; 0x905f; 0xa436; 0xacd0; 0xa438; 0x0158;
  0xa436; 0xacce; 0xa438; 0x9857; 0xa436; 0xacd0; 0xa438; 0x0150; 0xa436; 0xacce; 0xa438; 0x989f;
  0xa436; 0xacd0; 0xa438; 0x0198; 0xa436; 0xacce; 0xa438; 0xb0b7; 0xa436; 0xacd0; 0xa438; 0x01b0;
  0xa436; 0xacce; 0xa438; 0xb8bf; 0xa436; 0xacd0; 0xa438; 0x01b8; 0xa436; 0xacce; 0xa438; 0xb077;
  0xa436; 0xacd0; 0xa438; 0x0171; 0xa436; 0xacce; 0xa438; 0xb87f; 0xa436; 0xacd0; 0xa438; 0x0179;
  0xa436; 0xacce; 0xa438; 0xfb47; 0xa436; 0xacd0; 0xa438; 0x07ff; 0xa436; 0xacce; 0xa438; 0xfb4f;
  0xa436; 0xacd0; 0xa438; 0x07ff; 0xa436; 0xacce; 0xa438; 0x6087; 0xa436; 0xacd0; 0xa438; 0x0180;
  0xa436; 0xacce; 0xa438; 0x600f; 0xa436; 0xacd0; 0xa438; 0x0108; 0xa436; 0xacce; 0xa438; 0x6807;
  0xa436; 0xacd0; 0xa438; 0x0100; 0xa436; 0xacce; 0xa438; 0x688f; 0xa436; 0xacd0; 0xa438; 0x0188;
  0xa436; 0xacce; 0xa438; 0x7027; 0xa436; 0xacd0; 0xa438; 0x0120; 0xa436; 0xacce; 0xa438; 0x702f;
  0xa436; 0xacd0; 0xa438; 0x0128; 0xa436; 0xacce; 0xa438; 0x7847; 0xa436; 0xacd0; 0xa438; 0x0140;
  0xa436; 0xacce; 0xa438; 0x784f; 0xa436; 0xacd0; 0xa438; 0x0148; 0xa436; 0xacce; 0xa438; 0x80a7;
  0xa436; 0xacd0; 0xa438; 0x01a0; 0xa436; 0xacce; 0xa438; 0x88af; 0xa436; 0xacd0; 0xa438; 0x01a8;
  0xa436; 0xacce; 0xa438; 0x8067; 0xa436; 0xacd0; 0xa438; 0x0161; 0xa436; 0xacce; 0xa438; 0x886f;
  0xa436; 0xacd0; 0xa438; 0x0169; 0xa436; 0xacce; 0xa438; 0xfb57; 0xa436; 0xacd0; 0xa438; 0x07ff;
  0xa436; 0xacce; 0xa438; 0xfb5f; 0xa436; 0xacd0; 0xa438; 0x07ff; 0xa436; 0xacce; 0xa438; 0x6017;
  0xa436; 0xacd0; 0xa438; 0x0110; 0xa436; 0xacce; 0xa438; 0x601f; 0xa436; 0xacd0; 0xa438; 0x0118;
  0xa436; 0xacce; 0xa438; 0x6837; 0xa436; 0xacd0; 0xa438; 0x0130; 0xa436; 0xacce; 0xa438; 0x683f;
  0xa436; 0xacd0; 0xa438; 0x0138; 0xa436; 0xacce; 0xa438; 0x7097; 0xa436; 0xacd0; 0xa438; 0x0190;
  0xa436; 0xacce; 0xa438; 0x705f; 0xa436; 0xacd0; 0xa438; 0x0158; 0xa436; 0xacce; 0xa438; 0x7857;
  0xa436; 0xacd0; 0xa438; 0x0150; 0xa436; 0xacce; 0xa438; 0x789f; 0xa436; 0xacd0; 0xa438; 0x0198;
  0xa436; 0xacce; 0xa438; 0x90b7; 0xa436; 0xacd0; 0xa438; 0x01b0; 0xa436; 0xacce; 0xa438; 0x98bf;
  0xa436; 0xacd0; 0xa438; 0x01b8; 0xa436; 0xacce; 0xa438; 0x9077; 0xa436; 0xacd0; 0xa438; 0x0171;
  0xa436; 0xacce; 0xa438; 0x987f; 0xa436; 0xacd0; 0xa438; 0x0179; 0xa436; 0xacce; 0xa438; 0xfb67;
  0xa436; 0xacd0; 0xa438; 0x07ff; 0xa436; 0xacce; 0xa438; 0xfb6f; 0xa436; 0xacd0; 0xa438; 0x07ff;
  0xa436; 0xacce; 0xa438; 0x4087; 0xa436; 0xacd0; 0xa438; 0x0180; 0xa436; 0xacce; 0xa438; 0x400f;
  0xa436; 0xacd0; 0xa438; 0x0108; 0xa436; 0xacce; 0xa438; 0x4807; 0xa436; 0xacd0; 0xa438; 0x0100;
  0xa436; 0xacce; 0xa438; 0x488f; 0xa436; 0xacd0; 0xa438; 0x0188; 0xa436; 0xacce; 0xa438; 0x5027;
  0xa436; 0xacd0; 0xa438; 0x0120; 0xa436; 0xacce; 0xa438; 0x502f; 0xa436; 0xacd0; 0xa438; 0x0128;
  0xa436; 0xacce; 0xa438; 0x5847; 0xa436; 0xacd0; 0xa438; 0x0140; 0xa436; 0xacce; 0xa438; 0x584f;
  0xa436; 0xacd0; 0xa438; 0x0148; 0xa436; 0xacce; 0xa438; 0x60a7; 0xa436; 0xacd0; 0xa438; 0x01a0;
  0xa436; 0xacce; 0xa438; 0x68af; 0xa436; 0xacd0; 0xa438; 0x01a8; 0xa436; 0xacce; 0xa438; 0x6067;
  0xa436; 0xacd0; 0xa438; 0x0161; 0xa436; 0xacce; 0xa438; 0x686f; 0xa436; 0xacd0; 0xa438; 0x0169;
  0xa436; 0xacce; 0xa438; 0xfb77; 0xa436; 0xacd0; 0xa438; 0x07ff; 0xa436; 0xacce; 0xa438; 0xfb7f;
  0xa436; 0xacd0; 0xa438; 0x07ff; 0xa436; 0xacce; 0xa438; 0x4017; 0xa436; 0xacd0; 0xa438; 0x0110;
  0xa436; 0xacce; 0xa438; 0x401f; 0xa436; 0xacd0; 0xa438; 0x0118; 0xa436; 0xacce; 0xa438; 0x4837;
  0xa436; 0xacd0; 0xa438; 0x0130; 0xa436; 0xacce; 0xa438; 0x483f; 0xa436; 0xacd0; 0xa438; 0x0138;
  0xa436; 0xacce; 0xa438; 0x5097; 0xa436; 0xacd0; 0xa438; 0x0190; 0xa436; 0xacce; 0xa438; 0x505f;
  0xa436; 0xacd0; 0xa438; 0x0158; 0xa436; 0xacce; 0xa438; 0x5857; 0xa436; 0xacd0; 0xa438; 0x0150;
  0xa436; 0xacce; 0xa438; 0x589f; 0xa436; 0xacd0; 0xa438; 0x0198; 0xa436; 0xacce; 0xa438; 0x70b7;
  0xa436; 0xacd0; 0xa438; 0x01b0; 0xa436; 0xacce; 0xa438; 0x78bf; 0xa436; 0xacd0; 0xa438; 0x01b8;
  0xa436; 0xacce; 0xa438; 0x7077; 0xa436; 0xacd0; 0xa438; 0x0171; 0xa436; 0xacce; 0xa438; 0x787f;
  0xa436; 0xacd0; 0xa438; 0x0179; 0xa436; 0xacce; 0xa438; 0xfb87; 0xa436; 0xacd0; 0xa438; 0x07ff;
  0xa436; 0xacce; 0xa438; 0xfb8f; 0xa436; 0xacd0; 0xa438; 0x07ff; 0xa436; 0xacce; 0xa438; 0x40a7;
  0xa436; 0xacd0; 0xa438; 0x01a0; 0xa436; 0xacce; 0xa438; 0x48af; 0xa436; 0xacd0; 0xa438; 0x01a8;
  0xa436; 0xacce; 0xa438; 0x4067; 0xa436; 0xacd0; 0xa438; 0x0161; 0xa436; 0xacce; 0xa438; 0x486f;
  0xa436; 0xacd0; 0xa438; 0x0169; 0xa436; 0xacce; 0xa438; 0xfb97; 0xa436; 0xacd0; 0xa438; 0x07ff;
  0xa436; 0xacce; 0xa438; 0xfb9f; 0xa436; 0xacd0; 0xa438; 0x07ff; 0xa436; 0xacce; 0xa438; 0x50b7;
  0xa436; 0xacd0; 0xa438; 0x01b0; 0xa436; 0xacce; 0xa438; 0x58bf; 0xa436; 0xacd0; 0xa438; 0x01b8;
  0xa436; 0xacce; 0xa438; 0x5077; 0xa436; 0xacd0; 0xa438; 0x0171; 0xa436; 0xacce; 0xa438; 0x587f;
  0xa436; 0xacd0; 0xa438; 0x0179; 0xa436; 0xacce; 0xa438; 0xfba7; 0xa436; 0xacd0; 0xa438; 0x07ff;
  0xa436; 0xacce; 0xa438; 0xfbaf; 0xa436; 0xacd0; 0xa438; 0x07ff; 0xa436; 0xacce; 0xa438; 0x2067;
  0xa436; 0xacd0; 0xa438; 0x0161; 0xa436; 0xacce; 0xa438; 0x286f; 0xa436; 0xacd0; 0xa438; 0x0169;
  0xa436; 0xacce; 0xa438; 0xfbb7; 0xa436; 0xacd0; 0xa438; 0x07ff; 0xa436; 0xacce; 0xa438; 0xfbbf;
  0xa436; 0xacd0; 0xa438; 0x07ff; 0xa436; 0xacce; 0xa438; 0x3077; 0xa436; 0xacd0; 0xa438; 0x0171;
  0xa436; 0xacce; 0xa438; 0x387f; 0xa436; 0xacd0; 0xa438; 0x0179; 0xa436; 0xacce; 0xa438; 0xfff9;
  0xa436; 0xacd0; 0xa438; 0x17ff; 0xa436; 0xacce; 0xa438; 0xfff9; 0xa436; 0xacd0; 0xa438; 0x17ff;
  0xa436; 0xacce; 0xa438; 0xffff; 0xa436; 0xacd0; 0xa438; 0x0fff; 0xa436; 0xacce; 0xa438; 0xfff8;
  0xa436; 0xacd0; 0xa438; 0x0fff; 0xa436; 0xacce; 0xa438; 0xffff; 0xa436; 0xacd0; 0xa438; 0x07ff;
  0xa436; 0xacce; 0xa438; 0xffff; 0xa436; 0xacd0; 0xa438; 0x07ff; 0xa436; 0xacce; 0xa438; 0xffff;
  0xa436; 0xacd0; 0xa438; 0x07ff; 0xa436; 0xacce; 0xa438; 0xffff; 0xa436; 0xacd0; 0xa438; 0x07ff;
  0xa436; 0xacce; 0xa438; 0xffff; 0xa436; 0xacd0; 0xa438; 0x07ff; 0xa436; 0xacce; 0xa438; 0xffff;
  0xa436; 0xacd0; 0xa438; 0x07ff; 0xa436; 0xacce; 0xa438; 0xffff; 0xa436; 0xacd0; 0xa438; 0x07ff;
  0xa436; 0xacce; 0xa438; 0xffff; 0xa436; 0xacd0; 0xa438; 0x07ff; 0xa436; 0xacce; 0xa438; 0xffff;
  0xa436; 0xacd0; 0xa438; 0x07ff; 0xa436; 0xacce; 0xa438; 0xffff; 0xa436; 0xacd0; 0xa438; 0x07ff;
  0xa436; 0xacce; 0xa438; 0xfb47; 0xa436; 0xacd0; 0xa438; 0x07ff; 0xa436; 0xacce; 0xa438; 0xfb4f;
  0xa436; 0xacd0; 0xa438; 0x07ff; 0xa436; 0xacce; 0xa438; 0x6087; 0xa436; 0xacd0; 0xa438; 0x0180;
  0xa436; 0xacce; 0xa438; 0x600f; 0xa436; 0xacd0; 0xa438; 0x0108; 0xa436; 0xacce; 0xa438; 0x6807;
  0xa436; 0xacd0; 0xa438; 0x0100; 0xa436; 0xacce; 0xa438; 0x688f; 0xa436; 0xacd0; 0xa438; 0x0188;
  0xa436; 0xacce; 0xa438; 0x7027; 0xa436; 0xacd0; 0xa438; 0x0120; 0xa436; 0xacce; 0xa438; 0x702f;
  0xa436; 0xacd0; 0xa438; 0x0128; 0xa436; 0xacce; 0xa438; 0x7847; 0xa436; 0xacd0; 0xa438; 0x0140;
  0xa436; 0xacce; 0xa438; 0x784f; 0xa436; 0xacd0; 0xa438; 0x0148; 0xa436; 0xacce; 0xa438; 0x80a7;
  0xa436; 0xacd0; 0xa438; 0x01a0; 0xa436; 0xacce; 0xa438; 0x88af; 0xa436; 0xacd0; 0xa438; 0x01a8;
  0xa436; 0xacce; 0xa438; 0x8067; 0xa436; 0xacd0; 0xa438; 0x0161; 0xa436; 0xacce; 0xa438; 0x886f;
  0xa436; 0xacd0; 0xa438; 0x0169; 0xa436; 0xacce; 0xa438; 0xfb57; 0xa436; 0xacd0; 0xa438; 0x07ff;
  0xa436; 0xacce; 0xa438; 0xfb5f; 0xa436; 0xacd0; 0xa438; 0x07ff; 0xa436; 0xacce; 0xa438; 0x6017;
  0xa436; 0xacd0; 0xa438; 0x0110; 0xa436; 0xacce; 0xa438; 0x601f; 0xa436; 0xacd0; 0xa438; 0x0118;
  0xa436; 0xacce; 0xa438; 0x6837; 0xa436; 0xacd0; 0xa438; 0x0130; 0xa436; 0xacce; 0xa438; 0x683f;
  0xa436; 0xacd0; 0xa438; 0x0138; 0xa436; 0xacce; 0xa438; 0x7097; 0xa436; 0xacd0; 0xa438; 0x0190;
  0xa436; 0xacce; 0xa438; 0x705f; 0xa436; 0xacd0; 0xa438; 0x0158; 0xa436; 0xacce; 0xa438; 0x7857;
  0xa436; 0xacd0; 0xa438; 0x0150; 0xa436; 0xacce; 0xa438; 0x789f; 0xa436; 0xacd0; 0xa438; 0x0198;
  0xa436; 0xacce; 0xa438; 0x90b7; 0xa436; 0xacd0; 0xa438; 0x01b0; 0xa436; 0xacce; 0xa438; 0x98bf;
  0xa436; 0xacd0; 0xa438; 0x01b8; 0xa436; 0xacce; 0xa438; 0x9077; 0xa436; 0xacd0; 0xa438; 0x1171;
  0xa436; 0xacce; 0xa438; 0x987f; 0xa436; 0xacd0; 0xa438; 0x1179; 0xa436; 0xacca; 0xa438; 0x0004;
  0xa436; 0xacc6; 0xa438; 0x0008; 0xa436; 0xacc8; 0xa438; 0xc000; 0xa436; 0xacc6; 0xa438; 0x0015;
  0xa436; 0xacc8; 0xa438; 0xc043; 0xa436; 0xacc8; 0xa438; 0x0000; 0xB820; 0x0000; 0xFFFF; 0xFFFF].

Definition phy_mcu_ram_code_8125d_1_efuse : list Z := [
  0xB87C; 0x8014; 0xB87E; 0x90C0; 0xa436; 0x8023; 0xa438; 0x3800; 0xa436; 0xB82E; 0xa438; 0x0001;
  0xb820; 0x0010; 0xa436; 0x843d; 0xa438; 0xaf84; 0xa438; 0x55af; 0xa438; 0x8458; 0xa438; 0xaf84;
  0xa438; 0x58af; 0xa438; 0x8458; 0xa438; 0xaf84; 0xa438; 0x58af; 0xa438; 0x8458; 0xa438; 0xaf84;
  0xa438; 0x58af; 0xa438; 0x8458; 0xa438; 0xaf26; 0xa438; 0xd000; 0xa436; 0xb818; 0xa438; 0x26ca;
  0xa436; 0xb81a; 0xa438; 0xffff; 0xa436; 0xb81c; 0xa438; 0xffff; 0xa436; 0xb81e; 0xa438; 0xffff;
  0xa436; 0xb850; 0xa438; 0xffff; 0xa436; 0xb852; 0xa438; 0xffff; 0xa436; 0xb878; 0xa438; 0xffff;
  0xa436; 0xb884; 0xa438; 0xffff; 0xa436; 0xb832; 0xa438; 0x0001; 0xa436; 0x0000; 0xa438; 0x0000;
  0xB82E; 0x0000; 0xa436; 0x8023; 0xa438; 0x0000; 0xB820; 0x0000; 0xFFFF; 0xFFFF].

Definition phy_mcu_ram_code_8125d_2_1 : list Z := [
  0xa436; 0x8023; 0xa438; 0x3801; 0xa436; 0xB82E; 0xa438; 0x0001; 0xb820; 0x0090; 0xa436; 0xA016;
  0xa438; 0x0000; 0xa436; 0xA012; 0xa438; 0x0000; 0xa436; 0xA014; 0xa438; 0x1800; 0xa438; 0x8010;
  0xa438; 0x1800; 0xa438; 0x808e; 0xa438; 0x1800; 0xa438; 0x80d6; 0xa438; 0x1800; 0xa438; 0x81e2;
  0xa438; 0x1800; 0xa438; 0x81e2; 0xa438; 0x1800; 0xa438; 0x81e2; 0xa438; 0x1800; 0xa438; 0x81e2;
  0xa438; 0x1800; 0xa438; 0x81e2; 0xa438; 0xd500; 0xa438; 0xc48d; 0xa438; 0xd504; 0xa438; 0x8d03;
  0xa438; 0xd701; 0xa438; 0x4045; 0xa438; 0xad02; 0xa438; 0xd504; 0xa438; 0xd706; 0xa438; 0x2529;
  0xa438; 0x8021; 0xa438; 0xd718; 0xa438; 0x607b; 0xa438; 0x40da; 0xa438; 0xf019; 0xa438; 0x459a;
  0xa438; 0xf03f; 0xa438; 0xd718; 0xa438; 0x62bb; 0xa438; 0xbb01; 0xa438; 0xd75e; 0xa438; 0x6231;
  0xa438; 0x0cf0; 0xa438; 0x0c10; 0xa438; 0xd501; 0xa438; 0xce01; 0xa438; 0xd70c; 0xa438; 0x6147;
  0xa438; 0x8480; 0xa438; 0x8440; 0xa438; 0x8420; 0xa438; 0xa410; 0xa438; 0xce00; 0xa438; 0xd505;
  0xa438; 0x0c0f; 0xa438; 0x0808; 0xa438; 0xf002; 0xa438; 0xa4f0; 0xa438; 0xf03c; 0xa438; 0xbb02;
  0xa438; 0xd75e; 0xa438; 0x6231; 0xa438; 0x0cf0; 0xa438; 0x0c20; 0xa438; 0xd501; 0xa438; 0xce01;
  0xa438; 0xd70c; 0xa438; 0x6147; 0xa438; 0x8480; 0xa438; 0x8440; 0xa438; 0xa420; 0xa438; 0x8410;
  0xa438; 0xce00; 0xa438; 0xd505; 0xa438; 0x0c0f; 0xa438; 0x0804; 0xa438; 0xf002; 0xa438; 0xa4f0;
  0xa438; 0xf028; 0xa438; 0xbb04; 0xa438; 0xd75e; 0xa438; 0x6231; 0xa438; 0x0cf0; 0xa438; 0x0c40;
  0xa438; 0xd501; 0xa438; 0xce01; 0xa438; 0xd70c; 0xa438; 0x6147; 0xa438; 0x8480; 0xa438; 0xa440;
  0xa438; 0x8420; 0xa438; 0x8410; 0xa438; 0xce00; 0xa438; 0xd505; 0xa438; 0x0c0f; 0xa438; 0x0802;
  0xa438; 0xf002; 0xa438; 0xa4f0; 0xa438; 0xf014; 0xa438; 0xbb08; 0xa438; 0xd75e; 0xa438; 0x6231;
  0xa438; 0x0cf0; 0xa438; 0x0c80; 0xa438; 0xd501; 0xa438; 0xce01; 0xa438; 0xd70c; 0xa438; 0x6147;
  0xa438; 0xa480; 0xa438; 0x8440; 0xa438; 0x8420; 0xa438; 0x8410; 0xa438; 0xce00; 0xa438; 0xd505;
  0xa438; 0x0c0f; 0xa438; 0x0801; 0xa438; 0xf002; 0xa438; 0xa4f0; 0xa438; 0xce00; 0xa438; 0xd500;
  0xa438; 0x1000; 0xa438; 0x1a8a; 0xa438; 0x1000; 0xa438; 0x1829; 0xa438; 0xd73e; 0xa438; 0x6074;
  0xa438; 0xd718; 0xa438; 0x5f2d; 0xa438; 0x1000; 0xa438; 0x81b7; 0xa438; 0x1000; 0xa438; 0x1a8a;
  0xa438; 0x1000; 0xa438; 0x1829; 0xa438; 0xd73e; 0xa438; 0x7f74; 0xa438; 0x1000; 0xa438; 0x81ce;
  0xa438; 0x1000; 0xa438; 0x1a8a; 0xa438; 0x1000; 0xa438; 0x1829; 0xa438; 0xd718; 0xa438; 0x5f6d;
  0xa438; 0x1800; 0xa438; 0x1660; 0xa438; 0xd75e; 0xa438; 0x68b1; 0xa438; 0xd504; 0xa438; 0xd71e;
  0xa438; 0x667b; 0xa438; 0x645a; 0xa438; 0x6239; 0xa438; 0x0cf0; 0xa438; 0x0c10; 0xa438; 0xd505;
  0xa438; 0x0c0f; 0xa438; 0x0808; 0xa438; 0xd501; 0xa438; 0xce01; 0xa438; 0xd70c; 0xa438; 0x60c7;
  0xa438; 0x8480; 0xa438; 0x8440; 0xa438; 0x8420; 0xa438; 0xa410; 0xa438; 0xf032; 0xa438; 0xa4f0;
  0xa438; 0xf030; 0xa438; 0x0cf0; 0xa438; 0x0c20; 0xa438; 0xd505; 0xa438; 0x0c0f; 0xa438; 0x0804;
  0xa438; 0xd501; 0xa438; 0xce01; 0xa438; 0xd70c; 0xa438; 0x60c7; 0xa438; 0x8480; 0xa438; 0x8440;
  0xa438; 0xa420; 0xa438; 0x8410; 0xa438; 0xf022; 0xa438; 0xa4f0; 0xa438; 0xf020; 0xa438; 0x0cf0;
  0xa438; 0x0c40; 0xa438; 0xd505; 0xa438; 0x0c0f; 0xa438; 0x0802; 0xa438; 0xd501; 0xa438; 0xce01;
  0xa438; 0xd70c; 0xa438; 0x60c7; 0xa438; 0x8480; 0xa438; 0xa440; 0xa438; 0x8420; 0xa438; 0x8410;
  0xa438; 0xf012; 0xa438; 0xa4f0; 0xa438; 0xf010; 0xa438; 0x0cf0; 0xa438; 0x0c80; 0xa438; 0xd505;
  0xa438; 0x0c0f; 0xa438; 0x0801; 0xa438; 0xd501; 0xa438; 0xce01; 0xa438; 0xd70c; 0xa438; 0x60c7;
  0xa438; 0xa480; 0xa438; 0x8440; 0xa438; 0x8420; 0xa438; 0x8410; 0xa438; 0xf002; 0xa438; 0xa4f0;
  0xa438; 0x1800; 0xa438; 0x168c; 0xa438; 0xd500; 0xa438; 0xd706; 0xa438; 0x2529; 0xa438; 0x80e0;
  0xa438; 0xd718; 0xa438; 0x607b; 0xa438; 0x40da; 0xa438; 0xf00f; 0xa438; 0x431a; 0xa438; 0xf021;
  0xa438; 0xd718; 0xa438; 0x617b; 0xa438; 0x1000; 0xa438; 0x1a8a; 0xa438; 0x1000; 0xa438; 0x1b1a;
  0xa438; 0xd718; 0xa438; 0x608e; 0xa438; 0xd73e; 0xa438; 0x5f34; 0xa438; 0xf020; 0xa438; 0xf053;
  0xa438; 0x1000; 0xa438; 0x1a8a; 0xa438; 0x1000; 0xa438; 0x1b1a; 0xa438; 0xd718; 0xa438; 0x608e;
  0xa438; 0xd73e; 0xa438; 0x5f34; 0xa438; 0xf023; 0xa438; 0xf067; 0xa438; 0x1000; 0xa438; 0x1a8a;
  0xa438; 0x1000; 0xa438; 0x1b1a; 0xa438; 0xd718; 0xa438; 0x608e; 0xa438; 0xd73e; 0xa438; 0x5f34;
  0xa438; 0xf026; 0xa438; 0xf07b; 0xa438; 0x1000; 0xa438; 0x1a8a; 0xa438; 0x1000; 0xa438; 0x1b1a;
  0xa438; 0xd718; 0xa438; 0x608e; 0xa438; 0xd73e; 0xa438; 0x5f34; 0xa438; 0xf029; 0xa438; 0xf08f;
  0xa438; 0x1000; 0xa438; 0x81b7; 0xa438; 0x1000; 0xa438; 0x1a8a; 0xa438; 0xd73e; 0xa438; 0x7fb4;
  0xa438; 0x1000; 0xa438; 0x81ce; 0xa438; 0x1000; 0xa438; 0x1a8a; 0xa438; 0xd718; 0xa438; 0x5fae;
  0xa438; 0xf028; 0xa438; 0x1000; 0xa438; 0x81b7; 0xa438; 0x1000; 0xa438; 0x1a8a; 0xa438; 0xd73e;
  0xa438; 0x7fb4; 0xa438; 0x1000; 0xa438; 0x81ce; 0xa438; 0x1000; 0xa438; 0x1a8a; 0xa438; 0xd718;
  0xa438; 0x5fae; 0xa438; 0xf039; 0xa438; 0x1000; 0xa438; 0x81b7; 0xa438; 0x1000; 0xa438; 0x1a8a;
  0xa438; 0xd73e; 0xa438; 0x7fb4; 0xa438; 0x1000; 0xa438; 0x81ce; 0xa438; 0x1000; 0xa438; 0x1a8a;
  0xa438; 0xd718; 0xa438; 0x5fae; 0xa438; 0xf04a; 0xa438; 0x1000; 0xa438; 0x81b7; 0xa438; 0x1000;
  0xa438; 0x1a8a; 0xa438; 0xd73e; 0xa438; 0x7fb4; 0xa438; 0x1000; 0xa438; 0x81ce; 0xa438; 0x1000;
  0xa438; 0x1a8a; 0xa438; 0xd718; 0xa438; 0x5fae; 0xa438; 0xf05b; 0xa438; 0xd719; 0xa438; 0x4119;
  0xa438; 0xd504; 0xa438; 0xac01; 0xa438; 0xae01; 0xa438; 0xd500; 0xa438; 0x1000; 0xa438; 0x1a78;
  0xa438; 0xf00a; 0xa438; 0xd719; 0xa438; 0x4118; 0xa438; 0xd504; 0xa438; 0xac11; 0xa438; 0xd501;
  0xa438; 0xce01; 0xa438; 0xa410; 0xa438; 0xce00; 0xa438; 0xd500; 0xa438; 0x1000; 0xa438; 0x1a8a;
  0xa438; 0xd718; 0xa438; 0x5fb0; 0xa438; 0xd505; 0xa438; 0xd719; 0xa438; 0x4079; 0xa438; 0xa80f;
  0xa438; 0xf05d; 0xa438; 0x4b98; 0xa438; 0xa808; 0xa438; 0xf05a; 0xa438; 0xd719; 0xa438; 0x4119;
  0xa438; 0xd504; 0xa438; 0xac02; 0xa438; 0xae01; 0xa438; 0xd500; 0xa438; 0x1000; 0xa438; 0x1a78;
  0xa438; 0xf00a; 0xa438; 0xd719; 0xa438; 0x4118; 0xa438; 0xd504; 0xa438; 0xac22; 0xa438; 0xd501;
  0xa438; 0xce01; 0xa438; 0xa420; 0xa438; 0xce00; 0xa438; 0xd500; 0xa438; 0x1000; 0xa438; 0x1a8a;
  0xa438; 0xd718; 0xa438; 0x5fb0; 0xa438; 0xd505; 0xa438; 0xd719; 0xa438; 0x4079; 0xa438; 0xa80f;
  0xa438; 0xf03f; 0xa438; 0x47d8; 0xa438; 0xa804; 0xa438; 0xf03c; 0xa438; 0xd719; 0xa438; 0x4119;
  0xa438; 0xd504; 0xa438; 0xac04; 0xa438; 0xae01; 0xa438; 0xd500; 0xa438; 0x1000; 0xa438; 0x1a78;
  0xa438; 0xf00a; 0xa438; 0xd719; 0xa438; 0x4118; 0xa438; 0xd504; 0xa438; 0xac44; 0xa438; 0xd501;
  0xa438; 0xce01; 0xa438; 0xa440; 0xa438; 0xce00; 0xa438; 0xd500; 0xa438; 0x1000; 0xa438; 0x1a8a;
  0xa438; 0xd718; 0xa438; 0x5fb0; 0xa438; 0xd505; 0xa438; 0xd719; 0xa438; 0x4079; 0xa438; 0xa80f;
  0xa438; 0xf021; 0xa438; 0x4418; 0xa438; 0xa802; 0xa438; 0xf01e; 0xa438; 0xd719; 0xa438; 0x4119;
  0xa438; 0xd504; 0xa438; 0xac08; 0xa438; 0xae01; 0xa438; 0xd500; 0xa438; 0x1000; 0xa438; 0x1a78;
  0xa438; 0xf00a; 0xa438; 0xd719; 0xa438; 0x4118; 0xa438; 0xd504; 0xa438; 0xac88; 0xa438; 0xd501;
  0xa438; 0xce01; 0xa438; 0xa480; 0xa438; 0xce00; 0xa438; 0xd500; 0xa438; 0x1000; 0xa438; 0x1a8a;
  0xa438; 0xd718; 0xa438; 0x5fb0; 0xa438; 0xd505; 0xa438; 0xd719; 0xa438; 0x4079; 0xa438; 0xa80f;
  0xa438; 0xf003; 0xa438; 0x4058; 0xa438; 0xa801; 0xa438; 0x1800; 0xa438; 0x1736; 0xa438; 0xd73e;
  0xa438; 0xd505; 0xa438; 0x3088; 0xa438; 0x81c0; 0xa438; 0x61d3; 0xa438; 0x6172; 0xa438; 0x6111;
  0xa438; 0x60b0; 0xa438; 0xf00d; 0xa438; 0x3298; 0xa438; 0x81cb; 0xa438; 0xf00a; 0xa438; 0xa808;
  0xa438; 0xf008; 0xa438; 0xa804; 0xa438; 0xf006; 0xa438; 0xa802; 0xa438; 0xf004; 0xa438; 0xa801;
  0xa438; 0xf002; 0xa438; 0xa80f; 0xa438; 0xd500; 0xa438; 0x0800; 0xa438; 0xd505; 0xa438; 0xd75e;
  0xa438; 0x6211; 0xa438; 0xd71e; 0xa438; 0x619b; 0xa438; 0x611a; 0xa438; 0x6099; 0xa438; 0x0c0f;
  0xa438; 0x0808; 0xa438; 0xf009; 0xa438; 0x0c0f; 0xa438; 0x0804; 0xa438; 0xf006; 0xa438; 0x0c0f;
  0xa438; 0x0802; 0xa438; 0xf003; 0xa438; 0x0c0f; 0xa438; 0x0801; 0xa438; 0xd500; 0xa438; 0x0800;
  0xa436; 0xA026; 0xa438; 0xffff; 0xa436; 0xA024; 0xa438; 0xffff; 0xa436; 0xA022; 0xa438; 0xffff;
  0xa436; 0xA020; 0xa438; 0xffff; 0xa436; 0xA006; 0xa438; 0xffff; 0xa436; 0xA004; 0xa438; 0x16ab;
  0xa436; 0xA002; 0xa438; 0x1663; 0xa436; 0xA000; 0xa438; 0x1608; 0xa436; 0xA008; 0xa438; 0x0700;
  0xa436; 0xA016; 0xa438; 0x0000; 0xa436; 0xA012; 0xa438; 0x07f8; 0xa436; 0xA014; 0xa438; 0xcc01;
  0xa438; 0x20f6; 0xa438; 0x0000; 0xa438; 0x0000; 0xa438; 0x0000; 0xa438; 0x0000; 0xa438; 0x0000;
  0xa438; 0x0000; 0xa436; 0xA152; 0xa438; 0x021c; 0xa436; 0xA154; 0xa438; 0x2100; 0xa436; 0xA156;
  0xa438; 0x3fff; 0xa436; 0xA158; 0xa438; 0x3fff; 0xa436; 0xA15A; 0xa438; 0x3fff; 0xa436; 0xA15C;
  0xa438; 0x3fff; 0xa436; 0xA15E; 0xa438; 0x3fff; 0xa436; 0xA160; 0xa438; 0x3fff; 0xa436; 0xA150;
  0xa438; 0x0003; 0xa436; 0xA016; 0xa438; 0x0010; 0xa436; 0xA012; 0xa438; 0x0000; 0xa436; 0xA014;
  0xa438; 0x1800; 0xa438; 0x8010; 0xa438; 0x1800; 0xa438; 0x8014; 0xa438; 0x1800; 0xa438; 0x803d;
  0xa438; 0x1800; 0xa438; 0x804a; 0xa438; 0x1800; 0xa438; 0x804e; 0xa438; 0x1800; 0xa438; 0x8052;
  0xa438; 0x1800; 0xa438; 0x8092; 0xa438; 0x1800; 0xa438; 0x80a0; 0xa438; 0xc2ff; 0xa438; 0x9a40;
  0xa438; 0x1800; 0xa438; 0x0042; 0xa438; 0x1000; 0xa438; 0x02e5; 0xa438; 0xba20; 0xa438; 0x1000;
  0xa438; 0x02b4; 0xa438; 0xd701; 0xa438; 0x4103; 0xa438; 0xd700; 0xa438; 0x5f6c; 0xa438; 0x1000;
  0xa438; 0x8024; 0xa438; 0x9a20; 0xa438; 0x1800; 0xa438; 0x0073; 0xa438; 0x1800; 0xa438; 0x0084;
  0xa438; 0xd701; 0xa438; 0x4061; 0xa438; 0xba0f; 0xa438; 0xf004; 0xa438; 0x4060; 0xa438; 0x1000;
  0xa438; 0x802d; 0xa438; 0xba10; 0xa438; 0x0800; 0xa438; 0xd700; 0xa438; 0x60bb; 0xa438; 0x611c;
  0xa438; 0x0c0f; 0xa438; 0x1a01; 0xa438; 0xf00a; 0xa438; 0x60fc; 0xa438; 0x0c0f; 0xa438; 0x1a02;
  0xa438; 0xf006; 0xa438; 0x0c0f; 0xa438; 0x1a04; 0xa438; 0xf003; 0xa438; 0x0c0f; 0xa438; 0x1a08;
  0xa438; 0x0800; 0xa438; 0x0c0f; 0xa438; 0x0504; 0xa438; 0xad02; 0xa438; 0xd73e; 0xa438; 0x40f6;
  0xa438; 0x1000; 0xa438; 0x02c0; 0xa438; 0xd700; 0xa438; 0x5fac; 0xa438; 0x1000; 0xa438; 0x8024;
  0xa438; 0x1800; 0xa438; 0x0139; 0xa438; 0x9a3f; 0xa438; 0x8bf0; 0xa438; 0x1800; 0xa438; 0x02df;
  0xa438; 0x9a3f; 0xa438; 0x9910; 0xa438; 0x1800; 0xa438; 0x02d7; 0xa438; 0xad02; 0xa438; 0x8d01;
  0xa438; 0x9a7f; 0xa438; 0x9910; 0xa438; 0x9860; 0xa438; 0xcb00; 0xa438; 0xd501; 0xa438; 0xce01;
  0xa438; 0x85f0; 0xa438; 0xd500; 0xa438; 0x0c0f; 0xa438; 0x0505; 0xa438; 0xb820; 0xa438; 0xc000;
  0xa438; 0xc100; 0xa438; 0xc628; 0xa438; 0xc700; 0xa438; 0xc801; 0xa438; 0xc91e; 0xa438; 0xc001;
  0xa438; 0x4019; 0xa438; 0xc6f8; 0xa438; 0xc702; 0xa438; 0xc809; 0xa438; 0xc940; 0xa438; 0xc002;
  0xa438; 0x4019; 0xa438; 0x1000; 0xa438; 0x02cc; 0xa438; 0xd700; 0xa438; 0x5fa7; 0xa438; 0xc010;
  0xa438; 0x1000; 0xa438; 0x02cc; 0xa438; 0xd700; 0xa438; 0x5fa0; 0xa438; 0xc020; 0xa438; 0x1000;
  0xa438; 0x02cc; 0xa438; 0xd700; 0xa438; 0x5fa1; 0xa438; 0x0c0f; 0xa438; 0x0506; 0xa438; 0xb840;
  0xa438; 0xc6ca; 0xa438; 0xc701; 0xa438; 0xc809; 0xa438; 0xc900; 0xa438; 0xc001; 0xa438; 0x4019;
  0xa438; 0xc6b8; 0xa438; 0xc700; 0xa438; 0xc800; 0xa438; 0xc900; 0xa438; 0xc008; 0xa438; 0x4019;
  0xa438; 0x1000; 0xa438; 0x02cc; 0xa438; 0xd700; 0xa438; 0x5fa5; 0xa438; 0x8580; 0xa438; 0x8d02;
  0xa438; 0x1800; 0xa438; 0x018f; 0xa438; 0x1000; 0xa438; 0x02cc; 0xa438; 0xd700; 0xa438; 0x6124;
  0xa438; 0xd73e; 0xa438; 0x5f75; 0xa438; 0xd700; 0xa438; 0x5f2c; 0xa438; 0x1000; 0xa438; 0x8024;
  0xa438; 0x9a20; 0xa438; 0xfff5; 0xa438; 0x1800; 0xa438; 0x00b8; 0xa438; 0x0c0f; 0xa438; 0x0503;
  0xa438; 0xad02; 0xa438; 0x68c8; 0xa438; 0x1000; 0xa438; 0x02c0; 0xa438; 0xd700; 0xa438; 0x6848;
  0xa438; 0x604d; 0xa438; 0xfffb; 0xa438; 0xd73e; 0xa438; 0x6082; 0xa438; 0x1000; 0xa438; 0x02a1;
  0xa438; 0x8a0f; 0xa438; 0x1000; 0xa438; 0x02c0; 0xa438; 0xd700; 0xa438; 0x5fae; 0xa438; 0x1000;
  0xa438; 0x02de; 0xa438; 0x1000; 0xa438; 0x02c0; 0xa438; 0xd700; 0xa438; 0x5faf; 0xa438; 0x8d01;
  0xa438; 0x8b0f; 0xa438; 0x1000; 0xa438; 0x02c0; 0xa438; 0xd700; 0xa438; 0x2a58; 0xa438; 0x80c5;
  0xa438; 0x2a5b; 0xa438; 0x80cd; 0xa438; 0x2b53; 0xa438; 0x80d9; 0xa438; 0xfff7; 0xa438; 0x1000;
  0xa438; 0x022a; 0xa438; 0x1000; 0xa438; 0x02e5; 0xa438; 0xba40; 0xa438; 0x1000; 0xa438; 0x02fd;
  0xa438; 0xf018; 0xa438; 0x1000; 0xa438; 0x022a; 0xa438; 0x1000; 0xa438; 0x02e5; 0xa438; 0xba40;
  0xa438; 0x1000; 0xa438; 0x02c0; 0xa438; 0xd700; 0xa438; 0x5faa; 0xa438; 0x1000; 0xa438; 0x02fd;
  0xa438; 0xf00c; 0xa438; 0x1000; 0xa438; 0x022a; 0xa438; 0x1000; 0xa438; 0x02fd; 0xa438; 0x1000;
  0xa438; 0x02c0; 0xa438; 0xd700; 0xa438; 0x5fab; 0xa438; 0x1000; 0xa438; 0x02e5; 0xa438; 0xba40;
  0xa438; 0x1000; 0xa438; 0x02c0; 0xa438; 0xd700; 0xa438; 0x6088; 0xa438; 0xfffc; 0xa438; 0x1800;
  0xa438; 0x0120; 0xa438; 0x1800; 0xa438; 0x0122; 0xa436; 0xA08E; 0xa438; 0x00db; 0xa436; 0xA08C;
  0xa438; 0x00b4; 0xa436; 0xA08A; 0xa438; 0x015a; 0xa436; 0xA088; 0xa438; 0x02d6; 0xa436; 0xA086;
  0xa438; 0x02de; 0xa436; 0xA084; 0xa438; 0x0137; 0xa436; 0xA082; 0xa438; 0x0071; 0xa436; 0xA080;
  0xa438; 0x0041; 0xa436; 0xA090; 0xa438; 0x00ff; 0xa436; 0xA016; 0xa438; 0x0020; 0xa436; 0xA012;
  0xa438; 0x0000; 0xa436; 0xA014; 0xa438; 0x1800; 0xa438; 0x8010; 0xa438; 0x1800; 0xa438; 0x801d;
  0xa438; 0x1800; 0xa438; 0x808a; 0xa438; 0x1800; 0xa438; 0x80a5; 0xa438; 0x1800; 0xa438; 0x80b8;
  0xa438; 0x1800; 0xa438; 0x8108; 0xa438; 0x1800; 0xa438; 0x810f; 0xa438; 0x1800; 0xa438; 0x811b;
  0xa438; 0x8980; 0xa438; 0xd702; 0xa438; 0x6126; 0xa438; 0xd704; 0xa438; 0x4063; 0xa438; 0xd702;
  0xa438; 0x6060; 0xa438; 0xd702; 0xa438; 0x6077; 0xa438; 0x1800; 0xa438; 0x0c29; 0xa438; 0x1800;
  0xa438; 0x0c2b; 0xa438; 0x1000; 0xa438; 0x115a; 0xa438; 0xd71f; 0xa438; 0x5fb4; 0xa438; 0xd702;
  0xa438; 0x6c46; 0xa438; 0xd704; 0xa438; 0x4063; 0xa438; 0xd702; 0xa438; 0x6060; 0xa438; 0xd702;
  0xa438; 0x6b97; 0xa438; 0xa340; 0xa438; 0x0c06; 0xa438; 0x0102; 0xa438; 0xce01; 0xa438; 0x1000;
  0xa438; 0x117a; 0xa438; 0xa240; 0xa438; 0xa902; 0xa438; 0xa204; 0xa438; 0xa280; 0xa438; 0xa364;
  0xa438; 0xab02; 0xa438; 0x8380; 0xa438; 0xa00a; 0xa438; 0xcd8d; 0xa438; 0x1000; 0xa438; 0x115a;
  0xa438; 0xd706; 0xa438; 0x5fb5; 0xa438; 0xb920; 0xa438; 0x1000; 0xa438; 0x115a; 0xa438; 0xd71f;
  0xa438; 0x7fb4; 0xa438; 0x9920; 0xa438; 0x1000; 0xa438; 0x115a; 0xa438; 0xd71f; 0xa438; 0x6065;
  0xa438; 0x7c74; 0xa438; 0xfffb; 0xa438; 0xb820; 0xa438; 0x1000; 0xa438; 0x115a; 0xa438; 0xd71f;
  0xa438; 0x7fa5; 0xa438; 0x9820; 0xa438; 0xa410; 0xa438; 0x8902; 0xa438; 0xa120; 0xa438; 0xa380;
  0xa438; 0xce02; 0xa438; 0x1000; 0xa438; 0x117a; 0xa438; 0x8280; 0xa438; 0xa324; 0xa438; 0xab02;
  0xa438; 0xa00a; 0xa438; 0x8118; 0xa438; 0x863f; 0xa438; 0x87fb; 0xa438; 0xcd8e; 0xa438; 0xd193;
  0xa438; 0xd047; 0xa438; 0x1000; 0xa438; 0x115a; 0xa438; 0x1000; 0xa438; 0x115f; 0xa438; 0xd700;
  0xa438; 0x5f7b; 0xa438; 0xa280; 0xa438; 0x1000; 0xa438; 0x115a; 0xa438; 0x1000; 0xa438; 0x115f;
  0xa438; 0xd706; 0xa438; 0x5f78; 0xa438; 0xa210; 0xa438; 0xd700; 0xa438; 0x6083; 0xa438; 0xd101;
  0xa438; 0xd047; 0xa438; 0xf003; 0xa438; 0xd160; 0xa438; 0xd04b; 0xa438; 0x1000; 0xa438; 0x115a;
  0xa438; 0x1000; 0xa438; 0x115f; 0xa438; 0xd700; 0xa438; 0x5f7b; 0xa438; 0x1000; 0xa438; 0x115a;
  0xa438; 0x1000; 0xa438; 0x115f; 0xa438; 0xd706; 0xa438; 0x5f79; 0xa438; 0x8120; 0xa438; 0xbb20;
  0xa438; 0x1800; 0xa438; 0x0c8b; 0xa438; 0x0c03; 0xa438; 0x1502; 0xa438; 0x8f80; 0xa438; 0x9503;
  0xa438; 0x1800; 0xa438; 0x0c3c; 0xa438; 0x0c03; 0xa438; 0x1502; 0xa438; 0xa608; 0xa438; 0x9503;
  0xa438; 0x0c03; 0xa438; 0x1502; 0xa438; 0x8f80; 0xa438; 0x9503; 0xa438; 0xd704; 0xa438; 0x6192;
  0xa438; 0xd702; 0xa438; 0x4116; 0xa438; 0xce04; 0xa438; 0x1000; 0xa438; 0x117a; 0xa438; 0x0c03;
  0xa438; 0x1502; 0xa438; 0x8f40; 0xa438; 0x9503; 0xa438; 0x1800; 0xa438; 0x0b3d; 0xa438; 0x0c03;
  0xa438; 0x1502; 0xa438; 0xaf40; 0xa438; 0x9503; 0xa438; 0x1800; 0xa438; 0x0b48; 0xa438; 0xd704;
  0xa438; 0x6192; 0xa438; 0xd702; 0xa438; 0x4116; 0xa438; 0xce04; 0xa438; 0x1000; 0xa438; 0x117a;
  0xa438; 0x0c03; 0xa438; 0x1502; 0xa438; 0x8f40; 0xa438; 0x9503; 0xa438; 0x1800; 0xa438; 0x1269;
  0xa438; 0x0c03; 0xa438; 0x1502; 0xa438; 0xaf40; 0xa438; 0x9503; 0xa438; 0x1800; 0xa438; 0x1274;
  0xa438; 0x0c03; 0xa438; 0x1502; 0xa438; 0xa608; 0xa438; 0xc700; 0xa438; 0x9503; 0xa438; 0xce54;
  0xa438; 0x1000; 0xa438; 0x117a; 0xa438; 0xa290; 0xa438; 0xa304; 0xa438; 0xab02; 0xa438; 0xd700;
  0xa438; 0x6050; 0xa438; 0xab04; 0xa438; 0x0c38; 0xa438; 0x0608; 0xa438; 0xaa0b; 0xa438; 0xd702;
  0xa438; 0x0c03; 0xa438; 0x1502; 0xa438; 0x8d01; 0xa438; 0xae40; 0xa438; 0x4044; 0xa438; 0x8e20;
  0xa438; 0x9503; 0xa438; 0x0c03; 0xa438; 0x1502; 0xa438; 0x8c20; 0xa438; 0x9503; 0xa438; 0xd700;
  0xa438; 0x6078; 0xa438; 0xd700; 0xa438; 0x609a; 0xa438; 0xd109; 0xa438; 0xd074; 0xa438; 0xf003;
  0xa438; 0xd109; 0xa438; 0xd075; 0xa438; 0x1000; 0xa438; 0x115a; 0xa438; 0xd704; 0xa438; 0x6252;
  0xa438; 0xd702; 0xa438; 0x4116; 0xa438; 0xce54; 0xa438; 0x1000; 0xa438; 0x117a; 0xa438; 0x0c03;
  0xa438; 0x1502; 0xa438; 0x8f40; 0xa438; 0x9503; 0xa438; 0xa00a; 0xa438; 0xd704; 0xa438; 0x41e7;
  0xa438; 0x0c03; 0xa438; 0x1502; 0xa438; 0xa570; 0xa438; 0x9503; 0xa438; 0xf00a; 0xa438; 0x0c03;
  0xa438; 0x1502; 0xa438; 0xaf40; 0xa438; 0x9503; 0xa438; 0x800a; 0xa438; 0x0c03; 0xa438; 0x1502;
  0xa438; 0x8570; 0xa438; 0x9503; 0xa438; 0xd704; 0xa438; 0x60f3; 0xa438; 0xd71f; 0xa438; 0x60ee;
  0xa438; 0xd700; 0xa438; 0x5bbe; 0xa438; 0x1800; 0xa438; 0x0e71; 0xa438; 0x1800; 0xa438; 0x0e7c;
  0xa438; 0x1800; 0xa438; 0x0e7e; 0xa438; 0x0c03; 0xa438; 0x1502; 0xa438; 0xaf80; 0xa438; 0x9503;
  0xa438; 0xcd62; 0xa438; 0x1800; 0xa438; 0x0bd2; 0xa438; 0x800a; 0xa438; 0x8530; 0xa438; 0x0c03;
  0xa438; 0x1502; 0xa438; 0x8d10; 0xa438; 0x9503; 0xa438; 0xd700; 0xa438; 0x6050; 0xa438; 0xaa20;
  0xa438; 0x8306; 0xa438; 0x1800; 0xa438; 0x0cb6; 0xa438; 0xd105; 0xa438; 0xd040; 0xa438; 0x1000;
  0xa438; 0x0d8f; 0xa438; 0xd700; 0xa438; 0x5fbb; 0xa438; 0x0c03; 0xa438; 0x1502; 0xa438; 0x8608;
  0xa438; 0x9503; 0xa438; 0x1000; 0xa438; 0x0d8f; 0xa438; 0xd704; 0xa438; 0x7fb6; 0xa438; 0x0c03;
  0xa438; 0x1502; 0xa438; 0x87f0; 0xa438; 0x9503; 0xa438; 0xce88; 0xa438; 0x1000; 0xa438; 0x117a;
  0xa438; 0x0c03; 0xa438; 0x1502; 0xa438; 0xa608; 0xa438; 0x9503; 0xa438; 0xd73e; 0xa438; 0x60a5;
  0xa438; 0xd705; 0xa438; 0x4071; 0xa438; 0x1800; 0xa438; 0x0d65; 0xa438; 0x1800; 0xa438; 0x0d6f;
  0xa436; 0xA10E; 0xa438; 0x0d58; 0xa436; 0xA10C; 0xa438; 0x0cb5; 0xa436; 0xA10A; 0xa438; 0x0bd1;
  0xa436; 0xA108; 0xa438; 0x0e37; 0xa436; 0xA106; 0xa438; 0x1267; 0xa436; 0xA104; 0xa438; 0x0b3b;
  0xa436; 0xA102; 0xa438; 0x0c38; 0xa436; 0xA100; 0xa438; 0x0c24; 0xa436; 0xA110; 0xa438; 0x00ff;
  0xa436; 0xA016; 0xa438; 0x0020; 0xa436; 0xA012; 0xa438; 0x1ff8; 0xa436; 0xA014; 0xa438; 0x0000;
  0xa438; 0x0000; 0xa438; 0x0000; 0xa438; 0x0000; 0xa438; 0x0000; 0xa438; 0x0000; 0xa438; 0x0000;
  0xa438; 0x0000; 0xa436; 0xA164; 0xa438; 0x0ceb; 0xa436; 0xA166; 0xa438; 0x0e73; 0xa436; 0xA168;
  0xa438; 0x0deb; 0xa436; 0xA16A; 0xa438; 0x3fff; 0xa436; 0xA16C; 0xa438; 0x3fff; 0xa436; 0xA16E;
  0xa438; 0x3fff; 0xa436; 0xA170; 0xa438; 0x3fff; 0xa436; 0xA172; 0xa438; 0x3fff; 0xa436; 0xA162;
  0xa438; 0x0007; 0xa436; 0xb87c; 0xa438; 0x85bf; 0xa436; 0xb87e; 0xa438; 0xaf85; 0xa438; 0xd7af;
  0xa438; 0x85fb; 0xa438; 0xaf86; 0xa438; 0x10af; 0xa438; 0x8638; 0xa438; 0xaf86; 0xa438; 0x47af;
  0xa438; 0x8647; 0xa438; 0xaf86; 0xa438; 0x47af; 0xa438; 0x8647; 0xa438; 0xbf85; 0xa438; 0xf802;
  0xa438; 0x627f; 0xa438; 0xbf61; 0xa438; 0xc702; 0xa438; 0x627f; 0xa438; 0xae0c; 0xa438; 0xbf85;
  0xa438; 0xf802; 0xa438; 0x6276; 0xa438; 0xbf61; 0xa438; 0xc702; 0xa438; 0x6276; 0xa438; 0xee85;
  0xa438; 0x4200; 0xa438; 0xaf1b; 0xa438; 0x2333; 0xa438; 0xa484; 0xa438; 0xbf86; 0xa438; 0x0a02;
  0xa438; 0x627f; 0xa438; 0xbf86; 0xa438; 0x0d02; 0xa438; 0x627f; 0xa438; 0xaf1b; 0xa438; 0x8422;
  0xa438; 0xa484; 0xa438; 0x66ac; 0xa438; 0x0ef8; 0xa438; 0xfbef; 0xa438; 0x79fb; 0xa438; 0xe080;
  0xa438; 0x16ad; 0xa438; 0x230f; 0xa438; 0xee85; 0xa438; 0x4200; 0xa438; 0x1f44; 0xa438; 0xbf86;
  0xa438; 0x30d7; 0xa438; 0x0008; 0xa438; 0x0264; 0xa438; 0xa3ff; 0xa438; 0xef97; 0xa438; 0xfffc;
  0xa438; 0x0485; 0xa438; 0xf861; 0xa438; 0xc786; 0xa438; 0x0a86; 0xa438; 0x0de1; 0xa438; 0x8feb;
  0xa438; 0xe583; 0xa438; 0x20e1; 0xa438; 0x8fea; 0xa438; 0xe583; 0xa438; 0x21af; 0xa438; 0x41a7;
  0xa436; 0xb85e; 0xa438; 0x1b05; 0xa436; 0xb860; 0xa438; 0x1b78; 0xa436; 0xb862; 0xa438; 0x1a08;
  0xa436; 0xb864; 0xa438; 0x419F; 0xa436; 0xb886; 0xa438; 0xffff; 0xa436; 0xb888; 0xa438; 0xffff;
  0xa436; 0xb88a; 0xa438; 0xffff; 0xa436; 0xb88c; 0xa438; 0xffff; 0xa436; 0xb838; 0xa438; 0x000f;
  0xb820; 0x0010; 0xa436; 0x0000; 0xa438; 0x0000; 0xB82E; 0x0000; 0xa436; 0x8023; 0xa438; 0x0000;
  0xa436; 0x801E; 0xa438; 0x0013; 0xB820; 0x0000; 0xFFFF; 0xFFFF].

Definition phy_mcu_ram_code_8125d_2_2 : list Z := [
  0xa436; 0xacca; 0xa438; 0x0104; 0xa436; 0xaccc; 0xa438; 0x8000; 0xa436; 0xacce; 0xa438; 0xffff;
  0xa436; 0xacd0; 0xa438; 0x0fff; 0xa436; 0xacce; 0xa438; 0xfd47; 0xa436; 0xacd0; 0xa438; 0x0fff;
  0xa436; 0xacce; 0xa438; 0xffff; 0xa436; 0xacd0; 0xa438; 0x07ff; 0xa436; 0xacce; 0xa438; 0xe56f;
  0xa436; 0xacd0; 0xa438; 0x01c0; 0xa436; 0xacce; 0xa438; 0xffff; 0xa436; 0xacd0; 0xa438; 0x07ff;
  0xa436; 0xacce; 0xa438; 0xed97; 0xa436; 0xacd0; 0xa438; 0x01c8; 0xa436; 0xacce; 0xa438; 0xffff;
  0xa436; 0xacd0; 0xa438; 0x07ff; 0xa436; 0xacce; 0xa438; 0xf5bf; 0xa436; 0xacd0; 0xa438; 0x01d0;
  0xa436; 0xacce; 0xa438; 0xfb07; 0xa436; 0xacd0; 0xa438; 0x07ff; 0xa436; 0xacce; 0xa438; 0xfb0f;
  0xa436; 0xacd0; 0xa438; 0x01d8; 0xa436; 0xacce; 0xa438; 0xa087; 0xa436; 0xacd0; 0xa438; 0x0180;
  0xa436; 0xacce; 0xa438; 0xa00f; 0xa436; 0xacd0; 0xa438; 0x0108; 0xa436; 0xacce; 0xa438; 0xa807;
  0xa436; 0xacd0; 0xa438; 0x0100; 0xa436; 0xacce; 0xa438; 0xa88f; 0xa436; 0xacd0; 0xa438; 0x0188;
  0xa436; 0xacce; 0xa438; 0xb027; 0xa436; 0xacd0; 0xa438; 0x0120; 0xa436; 0xacce; 0xa438; 0xb02f;
  0xa436; 0xacd0; 0xa438; 0x0128; 0xa436; 0xacce; 0xa438; 0xb847; 0xa436; 0xacd0; 0xa438; 0x0140;
  0xa436; 0xacce; 0xa438; 0xb84f; 0xa436; 0xacd0; 0xa438; 0x0148; 0xa436; 0xacce; 0xa438; 0xfb17;
  0xa436; 0xacd0; 0xa438; 0x07ff; 0xa436; 0xacce; 0xa438; 0xfb1f; 0xa436; 0xacd0; 0xa438; 0x07ff;
  0xa436; 0xacce; 0xa438; 0xa017; 0xa436; 0xacd0; 0xa438; 0x0110; 0xa436; 0xacce; 0xa438; 0xa01f;
  0xa436; 0xacd0; 0xa438; 0x0118; 0xa436; 0xacce; 0xa438; 0xa837; 0xa436; 0xacd0; 0xa438; 0x0130;
  0xa436; 0xacce; 0xa438; 0xa83f; 0xa436; 0xacd0; 0xa438; 0x0138; 0xa436; 0xacce; 0xa438; 0xb097;
  0xa436; 0xacd0; 0xa438; 0x0190; 0xa436; 0xacce; 0xa438; 0xb05f; 0xa436; 0xacd0; 0xa438; 0x0158;
  0xa436; 0xacce; 0xa438; 0xb857; 0xa436; 0xacd0; 0xa438; 0x0150; 0xa436; 0xacce; 0xa438; 0xb89f;
  0xa436; 0xacd0; 0xa438; 0x0198; 0xa436; 0xacce; 0xa438; 0xfb27; 0xa436; 0xacd0; 0xa438; 0x07ff;
  0xa436; 0xacce; 0xa438; 0xfb2f; 0xa436; 0xacd0; 0xa438; 0x07ff; 0xa436; 0xacce; 0xa438; 0x8087;
  0xa436; 0xacd0; 0xa438; 0x0180; 0xa436; 0xacce; 0xa438; 0x800f; 0xa436; 0xacd0; 0xa438; 0x0108;
  0xa436; 0xacce; 0xa438; 0x8807; 0xa436; 0xacd0; 0xa438; 0x0100; 0xa436; 0xacce; 0xa438; 0x888f;
  0xa436; 0xacd0; 0xa438; 0x0188; 0xa436; 0xacce; 0xa438; 0x9027; 0xa436; 0xacd0; 0xa438; 0x0120;
  0xa436; 0xacce; 0xa438; 0x902f; 0xa436; 0xacd0; 0xa438; 0x0128; 0xa436; 0xacce; 0xa438; 0x9847;
  0xa436; 0xacd0; 0xa438; 0x0140; 0xa436; 0xacce; 0xa438; 0x984f; 0xa436; 0xacd0; 0xa438; 0x0148;
  0xa436; 0xacce; 0xa438; 0xa0a7; 0xa436; 0xacd0; 0xa438; 0x01a0; 0xa436; 0xacce; 0xa438; 0xa8af;
  0xa436; 0xacd0; 0xa438; 0x01a8; 0xa436; 0xacce; 0xa438; 0xa067; 0xa436; 0xacd0; 0xa438; 0x0161;
  0xa436; 0xacce; 0xa438; 0xa86f; 0xa436; 0xacd0; 0xa438; 0x0169; 0xa436; 0xacce; 0xa438; 0xfb37;
  0xa436; 0xacd0; 0xa438; 0x07ff; 0xa436; 0xacce; 0xa438; 0xfb3f; 0xa436; 0xacd0; 0xa438; 0x07ff;
  0xa436; 0xacce; 0xa438; 0x8017; 0xa436; 0xacd0; 0xa438; 0x0110; 0xa436; 0xacce; 0xa438; 0x801f;
  0xa436; 0xacd0; 0xa438; 0x0118; 0xa436; 0xacce; 0xa438; 0x8837; 0xa436; 0xacd0; 0xa438; 0x0130;
  0xa436; 0xacce; 0xa438; 0x883f; 0xa436; 0xacd0; 0xa438; 0x0138; 0xa436; 0xacce; 0xa438; 0x9097;
  0xa436; 0xacd0; 0xa438; 0x0190; 0xa436; 0xacce; 0xa438; 0x905f; 0xa436; 0xacd0; 0xa438; 0x0158;
  0xa436; 0xacce; 0xa438; 0x9857; 0xa436; 0xacd0; 0xa438; 0x0150; 0xa436; 0xacce; 0xa438; 0x989f;
  0xa436; 0xacd0; 0xa438; 0x0198; 0xa436; 0xacce; 0xa438; 0xb0b7; 0xa436; 0xacd0; 0xa438; 0x01b0;
  0xa436; 0xacce; 0xa438; 0xb8bf; 0xa436; 0xacd0; 0xa438; 0x01b8; 0xa436; 0xacce; 0xa438; 0xb077;
  0xa436; 0xacd0; 0xa438; 0x0171; 0xa436; 0xacce; 0xa438; 0xb87f; 0xa436; 0xacd0; 0xa438; 0x0179;
  0xa436; 0xacce; 0xa438; 0xfb47; 0xa436; 0xacd0; 0xa438; 0x07ff; 0xa436; 0xacce; 0xa438; 0xfb4f;
  0xa436; 0xacd0; 0xa438; 0x07ff; 0xa436; 0xacce; 0xa438; 0x6087; 0xa436; 0xacd0; 0xa438; 0x0180;
  0xa436; 0xacce; 0xa438; 0x600f; 0xa436; 0xacd0; 0xa438; 0x0108; 0xa436; 0xacce; 0xa438; 0x6807;
  0xa436; 0xacd0; 0xa438; 0x0100; 0xa436; 0xacce; 0xa438; 0x688f; 0xa436; 0xacd0; 0xa438; 0x0188;
  0xa436; 0xacce; 0xa438; 0x7027; 0xa436; 0xacd0; 0xa438; 0x0120; 0xa436; 0xacce; 0xa438; 0x702f;
  0xa436; 0xacd0; 0xa438; 0x0128; 0xa436; 0xacce; 0xa438; 0x7847; 0xa436; 0xacd0; 0xa438; 0x0140;
  0xa436; 0xacce; 0xa438; 0x784f; 0xa436; 0xacd0; 0xa438; 0x0148; 0xa436; 0xacce; 0xa438; 0x80a7;
  0xa436; 0xacd0; 0xa438; 0x01a0; 0xa436; 0xacce; 0xa438; 0x88af; 0xa436; 0xacd0; 0xa438; 0x01a8;
  0xa436; 0xacce; 0xa438; 0x8067; 0xa436; 0xacd0; 0xa438; 0x0161; 0xa436; 0xacce; 0xa438; 0x886f;
  0xa436; 0xacd0; 0xa438; 0x0169; 0xa436; 0xacce; 0xa438; 0xfb57; 0xa436; 0xacd0; 0xa438; 0x07ff;
  0xa436; 0xacce; 0xa438; 0xfb5f; 0xa436; 0xacd0; 0xa438; 0x07ff; 0xa436; 0xacce; 0xa438; 0x6017;
  0xa436; 0xacd0; 0xa438; 0x0110; 0xa436; 0xacce; 0xa438; 0x601f; 0xa436; 0xacd0; 0xa438; 0x0118;
  0xa436; 0xacce; 0xa438; 0x6837; 0xa436; 0xacd0; 0xa438; 0x0130; 0xa436; 0xacce; 0xa438; 0x683f;
  0xa436; 0xacd0; 0xa438; 0x0138; 0xa436; 0xacce; 0xa438; 0x7097; 0xa436; 0xacd0; 0xa438; 0x0190;
  0xa436; 0xacce; 0xa438; 0x705f; 0xa436; 0xacd0; 0xa438; 0x0158; 0xa436; 0xacce; 0xa438; 0x7857;
  0xa436; 0xacd0; 0xa438; 0x0150; 0xa436; 0xacce; 0xa438; 0x789f; 0xa436; 0xacd0; 0xa438; 0x0198;
  0xa436; 0xacce; 0xa438; 0x90b7; 0xa436; 0xacd0; 0xa438; 0x01b0; 0xa436; 0xacce; 0xa438; 0x98bf;
  0xa436; 0xacd0; 0xa438; 0x01b8; 0xa436; 0xacce; 0xa438; 0x9077; 0xa436; 0xacd0; 0xa438; 0x0171;
  0xa436; 0xacce; 0xa438; 0x987f; 0xa436; 0xacd0; 0xa438; 0x0179; 0xa436; 0xacce; 0xa438; 0xfb67;
  0xa436; 0xacd0; 0xa438; 0x07ff; 0xa436; 0xacce; 0xa438; 0xfb6f; 0xa436; 0xacd0; 0xa438; 0x07ff;
  0xa436; 0xacce; 0xa438; 0x4087; 0xa436; 0xacd0; 0xa438; 0x0180; 0xa436; 0xacce; 0xa438; 0x400f;
  0xa436; 0xacd0; 0xa438; 0x0108; 0xa436; 0xacce; 0xa438; 0x4807; 0xa436; 0xacd0; 0xa438; 0x0100;
  0xa436; 0xacce; 0xa438; 0x488f; 0xa436; 0xacd0; 0xa438; 0x0188; 0xa436; 0xacce; 0xa438; 0x5027;
  0xa436; 0xacd0; 0xa438; 0x0120; 0xa436; 0xacce; 0xa438; 0x502f; 0xa436; 0xacd0; 0xa438; 0x0128;
  0xa436; 0xacce; 0xa438; 0x5847; 0xa436; 0xacd0; 0xa438; 0x0140; 0xa436; 0xacce; 0xa438; 0x584f;
  0xa436; 0xacd0; 0xa438; 0x0148; 0xa436; 0xacce; 0xa438; 0x60a7; 0xa436; 0xacd0; 0xa438; 0x01a0;
  0xa436; 0xacce; 0xa438; 0x68af; 0xa436; 0xacd0; 0xa438; 0x01a8; 0xa436; 0xacce; 0xa438; 0x6067;
  0xa436; 0xacd0; 0xa438; 0x0161; 0xa436; 0xacce; 0xa438; 0x686f; 0xa436; 0xacd0; 0xa438; 0x0169;
  0xa436; 0xacce; 0xa438; 0xfb77; 0xa436; 0xacd0; 0xa438; 0x07ff; 0xa436; 0xacce; 0xa438; 0xfb7f;
  0xa436; 0xacd0; 0xa438; 0x07ff; 0xa436; 0xacce; 0xa438; 0x4017; 0xa436; 0xacd0; 0xa438; 0x0110;
  0xa436; 0xacce; 0xa438; 0x401f; 0xa436; 0xacd0; 0xa438; 0x0118; 0xa436; 0xacce; 0xa438; 0x4837;
  0xa436; 0xacd0; 0xa438; 0x0130; 0xa436; 0xacce; 0xa438; 0x483f; 0xa436; 0xacd0; 0xa438; 0x0138;
  0xa436; 0xacce; 0xa438; 0x5097; 0xa436; 0xacd0; 0xa438; 0x0190; 0xa436; 0xacce; 0xa438; 0x505f;
  0xa436; 0xacd0; 0xa438; 0x0158; 0xa436; 0xacce; 0xa438; 0x5857; 0xa436; 0xacd0; 0xa438; 0x0150;
  0xa436; 0xacce; 0xa438; 0x589f; 0xa436; 0xacd0; 0xa438; 0x0198; 0xa436; 0xacce; 0xa438; 0x70b7;
  0xa436; 0xacd0; 0xa438; 0x01b0; 0xa436; 0xacce; 0xa438; 0x78bf; 0xa436; 0xacd0; 0xa438; 0x01b8;
  0xa436; 0xacce; 0xa438; 0x7077; 0xa436; 0xacd0; 0xa438; 0x0171; 0xa436; 0xacce; 0xa438; 0x787f;
  0xa436; 0xacd0; 0xa438; 0x0179; 0xa436; 0xacce; 0xa438; 0xfb87; 0xa436; 0xacd0; 0xa438; 0x07ff;
  0xa436; 0xacce; 0xa438; 0xfb8f; 0xa436; 0xacd0; 0xa438; 0x07ff; 0xa436; 0xacce; 0xa438; 0x40a7;
  0xa436; 0xacd0; 0xa438; 0x01a0; 0xa436; 0xacce; 0xa438; 0x48af; 0xa436; 0xacd0; 0xa438; 0x01a8;
  0xa436; 0xacce; 0xa438; 0x4067; 0xa436; 0xacd0; 0xa438; 0x0161; 0xa436; 0xacce; 0xa438; 0x486f;
  0xa436; 0xacd0; 0xa438; 0x0169; 0xa436; 0xacce; 0xa438; 0xfb97; 0xa436; 0xacd0; 0xa438; 0x07ff;
  0xa436; 0xacce; 0xa438; 0xfb9f; 0xa436; 0xacd0; 0xa438; 0x07ff; 0xa436; 0xacce; 0xa438; 0x50b7;
  0xa436; 0xacd0; 0xa438; 0x01b0; 0xa436; 0xacce; 0xa438; 0x58bf; 0xa436; 0xacd0; 0xa438; 0x01b8;
  0xa436; 0xacce; 0xa438; 0x5077; 0xa436; 0xacd0; 0xa438; 0x0171; 0xa436; 0xacce; 0xa438; 0x587f;
  0xa436; 0xacd0; 0xa438; 0x0179; 0xa436; 0xacce; 0xa438; 0xfba7; 0xa436; 0xacd0; 0xa438; 0x07ff;
  0xa436; 0xacce; 0xa438; 0xfbaf; 0xa436; 0xacd0; 0xa438; 0x07ff; 0xa436; 0xacce; 0xa438; 0x2067;
  0xa436; 0xacd0; 0xa438; 0x0161; 0xa436; 0xacce; 0xa438; 0x286f; 0xa436; 0xacd0; 0xa438; 0x0169;
  0xa436; 0xacce; 0xa438; 0xfbb7; 0xa436; 0xacd0; 0xa438; 0x07ff; 0xa436; 0xacce; 0xa438; 0xfbbf;
  0xa436; 0xacd0; 0xa438; 0x07ff; 0xa436; 0xacce; 0xa438; 0x3077; 0xa436; 0xacd0; 0xa438; 0x0171;
  0xa436; 0xacce; 0xa438; 0x387f; 0xa436; 0xacd0; 0xa438; 0x0179; 0xa436; 0xacce; 0xa438; 0xfff9;
  0xa436; 0xacd0; 0xa438; 0x17ff; 0xa436; 0xacce; 0xa438; 0xfff9; 0xa436; 0xacd0; 0xa438; 0x17ff;
  0xa436; 0xacca; 0xa438; 0x0004; 0xa436; 0xacc6; 0xa438; 0x0008; 0xa436; 0xacc8; 0xa438; 0xc000;
  0xa436; 0xacc8; 0xa438; 0x0000; 0xB820; 0x0000; 0xFFFF; 0xFFFF].

Definition phy_mcu_ram_code_8125bp_1_1 : list Z := [
  0xa436; 0x8024; 0xa438; 0x3600; 0xa436; 0xB82E; 0xa438; 0x0001; 0xb820; 0x0090; 0xa436; 0xA016;
  0xa438; 0x0000; 0xa436; 0xA012; 0xa438; 0x0000; 0xa436; 0xA014; 0xa438; 0x1800; 0xa438; 0x8010;
  0xa438; 0x1800; 0xa438; 0x8014; 0xa438; 0x1800; 0xa438; 0x8018; 0xa438; 0x1800; 0xa438; 0x801c;
  0xa438; 0x1800; 0xa438; 0x8020; 0xa438; 0x1800; 0xa438; 0x8024; 0xa438; 0x1800; 0xa438; 0x8028;
  0xa438; 0x1800; 0xa438; 0x8028; 0xa438; 0xdb20; 0xa438; 0xd501; 0xa438; 0x1800; 0xa438; 0x034c;
  0xa438; 0xdb10; 0xa438; 0xd501; 0xa438; 0x1800; 0xa438; 0x032c; 0xa438; 0x8620; 0xa438; 0xa480;
  0xa438; 0x1800; 0xa438; 0x1cfe; 0xa438; 0xbf40; 0xa438; 0xd703; 0xa438; 0x1800; 0xa438; 0x0ce9;
  0xa438; 0x9c10; 0xa438; 0x9f40; 0xa438; 0x1800; 0xa438; 0x137a; 0xa438; 0x9f20; 0xa438; 0x9f40;
  0xa438; 0x1800; 0xa438; 0x16c4; 0xa436; 0xA026; 0xa438; 0xffff; 0xa436; 0xA024; 0xa438; 0xffff;
  0xa436; 0xA022; 0xa438; 0x16c3; 0xa436; 0xA020; 0xa438; 0x1379; 0xa436; 0xA006; 0xa438; 0x0ce8;
  0xa436; 0xA004; 0xa438; 0x1cfd; 0xa436; 0xA002; 0xa438; 0x032b; 0xa436; 0xA000; 0xa438; 0x034b;
  0xa436; 0xA008; 0xa438; 0x3f00; 0xa436; 0xA016; 0xa438; 0x0020; 0xa436; 0xA012; 0xa438; 0x0000;
  0xa436; 0xA014; 0xa438; 0x1800; 0xa438; 0x8010; 0xa438; 0x1800; 0xa438; 0x8018; 0xa438; 0x1800;
  0xa438; 0x8021; 0xa438; 0x1800; 0xa438; 0x802b; 0xa438; 0x1800; 0xa438; 0x8055; 0xa438; 0x1800;
  0xa438; 0x805a; 0xa438; 0x1800; 0xa438; 0x805e; 0xa438; 0x1800; 0xa438; 0x8062; 0xa438; 0x0000;
  0xa438; 0x0000; 0xa438; 0xcb11; 0xa438; 0xd1b9; 0xa438; 0xd05b; 0xa438; 0x0000; 0xa438; 0x1800;
  0xa438; 0x0284; 0xa438; 0x0000; 0xa438; 0x0000; 0xa438; 0xd700; 0xa438; 0x5fb4; 0xa438; 0x5f95;
  0xa438; 0x0000; 0xa438; 0x0000; 0xa438; 0x1800; 0xa438; 0x02b7; 0xa438; 0x0000; 0xa438; 0x0000;
  0xa438; 0xcb21; 0xa438; 0x1000; 0xa438; 0x0b34; 0xa438; 0xd71f; 0xa438; 0x5f5e; 0xa438; 0x0000;
  0xa438; 0x1800; 0xa438; 0x0322; 0xa438; 0xd700; 0xa438; 0xd113; 0xa438; 0xd040; 0xa438; 0x1000;
  0xa438; 0x0a57; 0xa438; 0xd700; 0xa438; 0x5fb4; 0xa438; 0xd700; 0xa438; 0x6065; 0xa438; 0xd122;
  0xa438; 0xf002; 0xa438; 0xd122; 0xa438; 0xd040; 0xa438; 0x1000; 0xa438; 0x0b53; 0xa438; 0xa008;
  0xa438; 0xd704; 0xa438; 0x4052; 0xa438; 0xa002; 0xa438; 0xd704; 0xa438; 0x4054; 0xa438; 0xa740;
  0xa438; 0x1000; 0xa438; 0x0a57; 0xa438; 0xd700; 0xa438; 0x5fb4; 0xa438; 0xcb9b; 0xa438; 0xd110;
  0xa438; 0xd040; 0xa438; 0x1000; 0xa438; 0x0c01; 0xa438; 0x1000; 0xa438; 0x0a57; 0xa438; 0xd700;
  0xa438; 0x5fb4; 0xa438; 0x801a; 0xa438; 0x1000; 0xa438; 0x0a57; 0xa438; 0xd704; 0xa438; 0x7fb9;
  0xa438; 0x1800; 0xa438; 0x088d; 0xa438; 0xcb62; 0xa438; 0xd700; 0xa438; 0x8880; 0xa438; 0x1800;
  0xa438; 0x06cb; 0xa438; 0xbe02; 0xa438; 0x0000; 0xa438; 0x1800; 0xa438; 0x002c; 0xa438; 0xbe04;
  0xa438; 0x0000; 0xa438; 0x1800; 0xa438; 0x002c; 0xa438; 0xbe08; 0xa438; 0x0000; 0xa438; 0x1800;
  0xa438; 0x002c; 0xa436; 0xA10E; 0xa438; 0x802a; 0xa436; 0xA10C; 0xa438; 0x8026; 0xa436; 0xA10A;
  0xa438; 0x8022; 0xa436; 0xA108; 0xa438; 0x06ca; 0xa436; 0xA106; 0xa438; 0x086f; 0xa436; 0xA104;
  0xa438; 0x0321; 0xa436; 0xA102; 0xa438; 0x02b5; 0xa436; 0xA100; 0xa438; 0x0283; 0xa436; 0xA110;
  0xa438; 0x001f; 0xb820; 0x0010; 0xb82e; 0x0000; 0xa436; 0x8024; 0xa438; 0x0000; 0xB820; 0x0000;
  0xFFFF; 0xFFFF].

Definition phy_mcu_ram_code_8125bp_1_2 : list Z := [
  0xb892; 0x0000; 0xb88e; 0xC201; 0xb890; 0x2C01; 0xb890; 0xCD02; 0xb890; 0x0602; 0xb890; 0x5502;
  0xb890; 0xB903; 0xb890; 0x3303; 0xb890; 0xC204; 0xb890; 0x6605; 0xb890; 0x1F05; 0xb890; 0xEE06;
  0xb890; 0xD207; 0xb890; 0xCC08; 0xb890; 0xDA09; 0xb890; 0xFF0B; 0xb890; 0x380C; 0xb890; 0x87F3;
  0xb88e; 0xC27F; 0xb890; 0x2B66; 0xb890; 0x6666; 0xb890; 0x6666; 0xb890; 0x6666; 0xb890; 0x6666;
  0xb890; 0x6666; 0xb890; 0x6666; 0xb890; 0x6666; 0xb890; 0x66C2; 0xb88e; 0xC26F; 0xb890; 0x751D;
  0xb890; 0x1D1F; 0xb890; 0x2022; 0xb890; 0x2325; 0xb890; 0x2627; 0xb890; 0x2829; 0xb890; 0x2929;
  0xb890; 0x2A2A; 0xb890; 0x2B66; 0xB820; 0x0000; 0xFFFF; 0xFFFF].

Definition phy_mcu_ram_code_8125cp_1_1 : list Z := [
  0xa436; 0x8023; 0xa438; 0x2300; 0xa436; 0xB82E; 0xa438; 0x0001; 0xb820; 0x0090; 0xa436; 0xA016;
  0xa438; 0x0000; 0xa436; 0xA012; 0xa438; 0x07f8; 0xa436; 0xA014; 0xa438; 0xcc01; 0xa438; 0x2166;
  0xa438; 0x0000; 0xa438; 0x0000; 0xa438; 0x0000; 0xa438; 0x0000; 0xa438; 0x0000; 0xa438; 0x0000;
  0xa436; 0xA152; 0xa438; 0x021c; 0xa436; 0xA154; 0xa438; 0x2170; 0xa436; 0xA156; 0xa438; 0x3fff;
  0xa436; 0xA158; 0xa438; 0x3fff; 0xa436; 0xA15A; 0xa438; 0x3fff; 0xa436; 0xA15C; 0xa438; 0x3fff;
  0xa436; 0xA15E; 0xa438; 0x3fff; 0xa436; 0xA160; 0xa438; 0x3fff; 0xa436; 0xA150; 0xa438; 0x0003;
  0xa436; 0xA016; 0xa438; 0x0020; 0xa436; 0xA012; 0xa438; 0x0000; 0xa436; 0xA014; 0xa438; 0x1800;
  0xa438; 0x8010; 0xa438; 0x1800; 0xa438; 0x801b; 0xa438; 0x1800; 0xa438; 0x802b; 0xa438; 0x1800;
  0xa438; 0x8031; 0xa438; 0x1800; 0xa438; 0x8037; 0xa438; 0x1800; 0xa438; 0x8037; 0xa438; 0x1800;
  0xa438; 0x8037; 0xa438; 0x1800; 0xa438; 0x8037; 0xa438; 0x800a; 0xa438; 0x8530; 0xa438; 0x0c03;
  0xa438; 0x1502; 0xa438; 0x8d10; 0xa438; 0x9503; 0xa438; 0xd700; 0xa438; 0x6050; 0xa438; 0xaa20;
  0xa438; 0x1800; 0xa438; 0x0d53; 0xa438; 0xd707; 0xa438; 0x40f6; 0xa438; 0x8901; 0xa438; 0xd704;
  0xa438; 0x6091; 0xa438; 0x8306; 0xa438; 0x8b02; 0xa438; 0x8290; 0xa438; 0x1000; 0xa438; 0x0e4d;
  0xa438; 0x1000; 0xa438; 0x1277; 0xa438; 0xd704; 0xa438; 0x7e77; 0xa438; 0x1800; 0xa438; 0x0dc5;
  0xa438; 0xd700; 0xa438; 0x4063; 0xa438; 0x1800; 0xa438; 0x0d15; 0xa438; 0x1800; 0xa438; 0x0d18;
  0xa438; 0xd700; 0xa438; 0x6063; 0xa438; 0x1800; 0xa438; 0x0ca6; 0xa438; 0x1800; 0xa438; 0x0ca7;
  0xa436; 0xA10E; 0xa438; 0xffff; 0xa436; 0xA10C; 0xa438; 0xffff; 0xa436; 0xA10A; 0xa438; 0xffff;
  0xa436; 0xA108; 0xa438; 0xffff; 0xa436; 0xA106; 0xa438; 0x0ca2; 0xa436; 0xA104; 0xa438; 0x0d13;
  0xa436; 0xA102; 0xa438; 0x0dbf; 0xa436; 0xA100; 0xa438; 0x0d52; 0xa436; 0xA110; 0xa438; 0x000f;
  0xa436; 0xb87c; 0xa438; 0x85bd; 0xa436; 0xb87e; 0xa438; 0xaf85; 0xa438; 0xd5af; 0xa438; 0x85fb;
  0xa438; 0xaf85; 0xa438; 0xfbaf; 0xa438; 0x85fb; 0xa438; 0xaf85; 0xa438; 0xfbaf; 0xa438; 0x85fb;
  0xa438; 0xaf85; 0xa438; 0xfbaf; 0xa438; 0x85fb; 0xa438; 0xac28; 0xa438; 0x0bd4; 0xa438; 0x0294;
  0xa438; 0xbf85; 0xa438; 0xf802; 0xa438; 0x61c2; 0xa438; 0xae09; 0xa438; 0xd414; 0xa438; 0x50bf;
  0xa438; 0x85f8; 0xa438; 0x0261; 0xa438; 0xc2bf; 0xa438; 0x60de; 0xa438; 0x0261; 0xa438; 0xe1bf;
  0xa438; 0x80cf; 0xa438; 0xaf24; 0xa438; 0xe8f0; 0xa438; 0xac52; 0xa436; 0xb85e; 0xa438; 0x24e5;
  0xa436; 0xb860; 0xa438; 0xffff; 0xa436; 0xb862; 0xa438; 0xffff; 0xa436; 0xb864; 0xa438; 0xffff;
  0xa436; 0xb886; 0xa438; 0xffff; 0xa436; 0xb888; 0xa438; 0xffff; 0xa436; 0xb88a; 0xa438; 0xffff;
  0xa436; 0xb88c; 0xa438; 0xffff; 0xa436; 0xb838; 0xa438; 0x0001; 0xb820; 0x0010; 0xB82E; 0x0000;
  0xa436; 0x8023; 0xa438; 0x0000; 0xB820; 0x0000; 0xFFFF; 0xFFFF].

(** ** MAC *)

Definition mcu_patch_code_8125a_2 : list Z := [
  0xE010; 0xE012; 0xE022; 0xE024; 0xE029; 0xE02B; 0xE094; 0xE09D; 0xE09F; 0xE0AA; 0xE0B5; 0xE0C6;
  0xE0CC; 0xE0D1; 0xE0D6; 0xE0D8; 0xC602; 0xBE00; 0x0000; 0xC60F; 0x73C4; 0x49B3; 0xF106; 0x73C2;
  0xC608; 0xB406; 0xC609; 0xFF80; 0xC605; 0xB406; 0xC605; 0xFF80; 0x0544; 0x0568; 0xE906; 0xCDE8;
  0xC602; 0xBE00; 0x0000; 0x48C1; 0x48C2; 0x9C46; 0xC402; 0xBC00; 0x0A12; 0xC602; 0xBE00; 0x0EBA;
  0x1501; 0xF02A; 0x1500; 0xF15D; 0xC661; 0x75C8; 0x49D5; 0xF00A; 0x49D6; 0xF008; 0x49D7; 0xF006;
  0x49D8; 0xF004; 0x75D2; 0x49D9; 0xF150; 0xC553; 0x77A0; 0x75C8; 0x4855; 0x4856; 0x4857; 0x4858;
  0x48DA; 0x48DB; 0x49FE; 0xF002; 0x485A; 0x49FF; 0xF002; 0x485B; 0x9DC8; 0x75D2; 0x4859; 0x9DD2;
  0xC643; 0x75C0; 0x49D4; 0xF033; 0x49D0; 0xF137; 0xE030; 0xC63A; 0x75C8; 0x49D5; 0xF00E; 0x49D6;
  0xF00C; 0x49D7; 0xF00A; 0x49D8; 0xF008; 0x75D2; 0x49D9; 0xF005; 0xC62E; 0x75C0; 0x49D7; 0xF125;
  0xC528; 0x77A0; 0xC627; 0x75C8; 0x4855; 0x4856; 0x4857; 0x4858; 0x48DA; 0x48DB; 0x49FE; 0xF002;
  0x485A; 0x49FF; 0xF002; 0x485B; 0x9DC8; 0x75D2; 0x4859; 0x9DD2; 0xC616; 0x75C0; 0x4857; 0x9DC0;
  0xC613; 0x75C0; 0x49DA; 0xF003; 0x49D0; 0xF107; 0xC60B; 0xC50E; 0x48D9; 0x9DC0; 0x4859; 0x9DC0;
  0xC608; 0xC702; 0xBF00; 0x3AE0; 0xE860; 0xB400; 0xB5D4; 0xE908; 0xE86C; 0x1200; 0xC409; 0x6780;
  0x48F1; 0x8F80; 0xC404; 0xC602; 0xBE00; 0x10AA; 0xC010; 0xEA7C; 0xC602; 0xBE00; 0x0000; 0x740A;
  0x4846; 0x4847; 0x9C0A; 0xC607; 0x74C0; 0x48C6; 0x9CC0; 0xC602; 0xBE00; 0x13FE; 0xE054; 0x72CA;
  0x4826; 0x4827; 0x9ACA; 0xC607; 0x72C0; 0x48A6; 0x9AC0; 0xC602; 0xBE00; 0x07DC; 0xE054; 0xC60F;
  0x74C4; 0x49CC; 0xF109; 0xC60C; 0x74CA; 0x48C7; 0x9CCA; 0xC609; 0x74C0; 0x4846; 0x9CC0; 0xC602;
  0xBE00; 0x2480; 0xE092; 0xE0C0; 0xE054; 0x7420; 0x48C0; 0x9C20; 0x7444; 0xC602; 0xBE00; 0x12F8;
  0x1BFF; 0x46EB; 0x1BFF; 0xC102; 0xB900; 0x0D5A; 0x1BFF; 0x46EB; 0x1BFF; 0xC102; 0xB900; 0x0E2A;
  0xC602; 0xBE00; 0x0000; 0xC602; 0xBE00] ++ zeros 531 ++ [
  0x6486; 0x0B15; 0x090E; 0x1139].

Definition mcu_patch_code_8125b_2 : list Z := [
  0xE010; 0xE01B; 0xE026; 0xE037; 0xE03D; 0xE057; 0xE05B; 0xE060; 0xE0B6; 0xE103; 0xE14C; 0xE150;
  0xE152; 0xE154; 0xE156; 0xE158; 0x740A; 0x4846; 0x4847; 0x9C0A; 0xC607; 0x74C0; 0x48C6; 0x9CC0;
  0xC602; 0xBE00; 0x13F0; 0xE054; 0x72CA; 0x4826; 0x4827; 0x9ACA; 0xC607; 0x72C0; 0x48A6; 0x9AC0;
  0xC602; 0xBE00; 0x081C; 0xE054; 0xC60F; 0x74C4; 0x49CC; 0xF109; 0xC60C; 0x74CA; 0x48C7; 0x9CCA;
  0xC609; 0x74C0; 0x4846; 0x9CC0; 0xC602; 0xBE00; 0x2494; 0xE092; 0xE0C0; 0xE054; 0x7420; 0x48C0;
  0x9C20; 0x7444; 0xC602; 0xBE00; 0x12DC; 0x733A; 0x21B5; 0x25BC; 0x1304; 0xF111; 0x1B12; 0x1D2A;
  0x3168; 0x3ADA; 0x31AB; 0x1A00; 0x9AC0; 0x1300; 0xF1FB; 0x7620; 0x236E; 0x276F; 0x1A3C; 0x22A1;
  0x41B5; 0x9EE2; 0x76E4; 0x486F; 0x9EE4; 0xC602; 0xBE00; 0x4A26; 0x733A; 0x49BB; 0xC602; 0xBE00;
  0x47A2; 0x48C1; 0x48C2; 0x9C46; 0xC402; 0xBC00; 0x0A52; 0xC74B; 0x76E2; 0xC54A; 0x402E; 0xF034;
  0x76E0; 0x402E; 0xF006; 0xC703; 0xC403; 0xBC00; 0xC0BC; 0x0980; 0x76F0; 0x1601; 0xF023; 0xC741;
  0x1E04; 0x9EE0; 0x1E40; 0x9EE4; 0xC63D; 0x9EE8; 0xC73D; 0x76E0; 0x4863; 0x9EE0; 0xC73A; 0x76E0;
  0x48EA; 0x48EB; 0x9EE0; 0xC736; 0x1E01; 0x9EE2; 0xC72D; 0x76E0; 0x486F; 0x9EE0; 0xC72D; 0x76E0;
  0x48E3; 0x9EE0; 0xC728; 0x1E0E; 0x9EE0; 0xC71D; 0x1E01; 0x9EE4; 0xE00D; 0x1E00; 0x9EF0; 0x1E05;
  0xC715; 0x9EE0; 0xE00A; 0x1E00; 0x9EE2; 0xC614; 0x75CC; 0x48D2; 0x9DCC; 0x1E04; 0xC70B; 0x9EE0;
  0xB000; 0xB001; 0xB002; 0xB003; 0xB004; 0xB005; 0xB006; 0xB007; 0xFFC0; 0xE428; 0xD3C0; 0xBEEF;
  0x473E; 0xDC46; 0xE0CC; 0xE84E; 0xC0A2; 0x0100; 0xC010; 0xE85A; 0xE812; 0xC0B4; 0xC5F4; 0x74A0;
  0xC6F3; 0x4026; 0xF107; 0x74A2; 0xC6EF; 0x4026; 0xF107; 0xC6ED; 0xBE00; 0x753A; 0xC602; 0xBE00;
  0x462E; 0x7520; 0x49DE; 0xF102; 0xE7F9; 0xC6A1; 0x67C6; 0x7520; 0x22D2; 0x26DD; 0x1500; 0xF002;
  0xE7F1; 0x7532; 0x26D5; 0x0530; 0x0D6C; 0xC42D; 0x308D; 0x7540; 0x4025; 0xF11E; 0x7542; 0x4025;
  0xF11B; 0x7544; 0x4025; 0xF118; 0xC423; 0x7546; 0x4025; 0xF114; 0x7548; 0x4025; 0xF111; 0x754A;
  0x4025; 0xF10E; 0xC5C0; 0xC4C0; 0x9CA2; 0xC6C0; 0x75CC; 0x4852; 0x9DCC; 0xC6B8; 0x1D7D; 0x9DC2;
  0x1D01; 0x9DC0; 0xE7C9; 0xC40B; 0x7546; 0x4025; 0xF1FC; 0x7548; 0x4025; 0xF1F9; 0x754A; 0x4025;
  0xF1F6; 0xE7C0; 0xFFFF; 0xEEEE; 0xC2A6; 0x7340; 0xC2A5; 0x4013; 0xF013; 0xC2AC; 0x7340; 0x4835;
  0x9B40; 0xC240; 0x7358; 0x48B7; 0x48B2; 0x9B58; 0x7346; 0x48B7; 0x48B2; 0x9B46; 0x7340; 0x48B7;
  0x48B2; 0x9B40; 0xE012; 0xC29A; 0x7340; 0x48B5; 0x9B40; 0xC22E; 0x7358; 0x4837; 0x4832; 0x9B58;
  0x7346; 0x4837; 0x4832; 0x9B46; 0x7340; 0x4837; 0x4832; 0x9B40; 0xC283; 0x7340; 0x49BF; 0xF010;
  0xC21B; 0x7344; 0x1300; 0xF104; 0x1B00; 0xC217; 0x9B40; 0x1B01; 0xC213; 0x9B44; 0xC213; 0x734C;
  0x48B7; 0x9B4C; 0xE008; 0xC20C; 0x1B00; 0x9B44; 0xC20B; 0x734C; 0x4837; 0x9B4C; 0xC204; 0xC302;
  0xBB00; 0x2230; 0xE092; 0xD3C0; 0xE428; 0xDC46; 0xC104; 0xC202; 0xBA00; 0x21F8; 0xD116; 0xC602;
  0xBE00; 0x0000; 0xC602; 0xBE00; 0x0000; 0xC602; 0xBE00; 0x0000; 0xC602; 0xBE00; 0x0000; 0xC602;
  0xBE00; 0x0000; 0x6637; 0x0019; 0x0415; 0x0B13].

Definition mcu_patch_code_8125bp_1 : list Z := [
  0xE010; 0xE014; 0xE027; 0xE04A; 0xE04D; 0xE050; 0xE052; 0xE054; 0xE056; 0xE058; 0xE05A; 0xE05C;
  0xE05E; 0xE060; 0xE062; 0xE064; 0x1BC8; 0x46EB; 0xC302; 0xBB00; 0x0F14; 0xC211; 0x400A; 0xF00A;
  0xC20F; 0x400A; 0xF007; 0x73A4; 0xC20C; 0x400A; 0xF102; 0x48B0; 0x9B20; 0x1B00; 0x9BA0; 0xC602;
  0xBE00; 0x4364; 0xE6E0; 0xE6E2; 0xC01C; 0xB406; 0x1000; 0xF016; 0xC61F; 0x400E; 0xF012; 0x218E;
  0x25BE; 0x1300; 0xF007; 0x7340; 0xC618; 0x400E; 0xF102; 0x48B0; 0x8320; 0xB400; 0x2402; 0x1000;
  0xF003; 0x7342; 0x8322; 0xB000; 0xE007; 0x7322; 0x9B42; 0x7320; 0x9B40; 0x0300; 0x0300; 0xB006;
  0xC302; 0xBB00; 0x413E; 0xE6E0; 0xC01C; 0x49D1; 0xC602; 0xBE00; 0x3F94; 0x49D1; 0xC602; 0xBE00;
  0x4030; 0xC602; 0xBE00; 0x3FDA; 0xC102; 0xB900; 0x401A; 0xC102; 0xB900; 0x0000; 0xC002; 0xB800;
  0x0000; 0xC602; 0xBE00; 0x0000; 0xC602; 0xBE00; 0x0000; 0xC602; 0xBE00; 0x0000; 0xC602; 0xBE00;
  0x0000; 0xC602; 0xBE00; 0x0000; 0xC602; 0xBE00; 0x0000; 0xC602; 0xBE00; 0x0000; 0x6936; 0x0A18;
  0x0C02; 0x0D21].

Definition mcu_patch_code_8125bp_2 : list Z := [
  0xE010; 0xE033; 0xE046; 0xE04A; 0xE04D; 0xE050; 0xE054; 0xE056; 0xE058; 0xE05A; 0xE05C; 0xE05E;
  0xE060; 0xE062; 0xE064; 0xE066; 0xB406; 0x1000; 0xF016; 0xC61F; 0x400E; 0xF012; 0x218E; 0x25BE;
  0x1300; 0xF007; 0x7340; 0xC618; 0x400E; 0xF102; 0x48B0; 0x8320; 0xB400; 0x2402; 0x1000; 0xF003;
  0x7342; 0x8322; 0xB000; 0xE007; 0x7322; 0x9B42; 0x7320; 0x9B40; 0x0300; 0x0300; 0xB006; 0xC302;
  0xBB00; 0x4168; 0xE6E0; 0xC01C; 0xC211; 0x400A; 0xF00A; 0xC20F; 0x400A; 0xF007; 0x73A4; 0xC20C;
  0x400A; 0xF102; 0x48B0; 0x9B20; 0x1B00; 0x9BA0; 0xC602; 0xBE00; 0x4392; 0xE6E0; 0xE6E2; 0xC01C;
  0x4166; 0x9CF6; 0xC002; 0xB800; 0x143C; 0x49D1; 0xC602; 0xBE00; 0x3FC4; 0x49D1; 0xC602; 0xBE00;
  0x405A; 0xC104; 0xC202; 0xBA00; 0x22E6; 0xD116; 0xC602; 0xBE00; 0x0000; 0xC102; 0xB900; 0x0000;
  0xC002; 0xB800; 0x0000; 0xC602; 0xBE00; 0x0000; 0xC602; 0xBE00; 0x0000; 0xC602; 0xBE00; 0x0000;
  0xC602; 0xBE00; 0x0000; 0xC602; 0xBE00; 0x0000; 0xC602; 0xBE00; 0x0000; 0xC602; 0xBE00; 0x0000;
  0x6936; 0x0119; 0x030E; 0x0B18].

Definition mcu_patch_code_8125d_1 : list Z := [
  0xE010; 0xE014; 0xE018; 0xE01A; 0xE01C; 0xE01E; 0xE020; 0xE022; 0xE024; 0xE026; 0xE028; 0xE02A;
  0xE02C; 0xE02E; 0xE030; 0xE032; 0x4166; 0x9CF6; 0xC002; 0xB800; 0x14A4; 0xC104; 0xC202; 0xBA00;
  0x2378; 0xD116; 0xC602; 0xBE00; 0x0000; 0xC602; 0xBE00; 0x0000; 0xC602; 0xBE00; 0x0000; 0xC602;
  0xBE00; 0x0000; 0xC602; 0xBE00; 0x0000; 0xC602; 0xBE00; 0x0000; 0xC602; 0xBE00; 0x0000; 0xC602;
  0xBE00; 0x0000; 0xC602; 0xBE00; 0x0000; 0xC602; 0xBE00; 0x0000; 0xC602; 0xBE00; 0x0000; 0xC602;
  0xBE00; 0x0000; 0xC602; 0xBE00; 0x0000; 0xC602; 0xBE00] ++ zeros 697 ++ [
  0x6938; 0x0A19; 0x030E; 0x0B2B].

Definition mcu_patch_code_8125d_2 : list Z := [
  0xE010; 0xE014; 0xE016; 0xE018; 0xE01A; 0xE01C; 0xE01E; 0xE020; 0xE022; 0xE024; 0xE026; 0xE028;
  0xE02A; 0xE02C; 0xE02E; 0xE030; 0xC104; 0xC202; 0xBA00; 0x2384; 0xD116; 0xC602; 0xBE00; 0x0000;
  0xC602; 0xBE00; 0x0000; 0xC602; 0xBE00; 0x0000; 0xC602; 0xBE00; 0x0000; 0xC602; 0xBE00; 0x0000;
  0xC602; 0xBE00; 0x0000; 0xC602; 0xBE00; 0x0000; 0xC602; 0xBE00; 0x0000; 0xC602; 0xBE00; 0x0000;
  0xC602; 0xBE00; 0x0000; 0xC602; 0xBE00; 0x0000; 0xC602; 0xBE00; 0x0000; 0xC602; 0xBE00; 0x0000;
  0xC602; 0xBE00; 0x0000; 0xC602; 0xBE00] ++ zeros 699 ++ [
  0x6938; 0x0A19; 0x030E; 0x0B2F].

Definition mcu_patch_code_8125cp_1 : list Z := [
  0xE010; 0xE014; 0xE016; 0xE018; 0xE01A; 0xE01C; 0xE01E; 0xE020; 0xE022; 0xE024; 0xE026; 0xE028;
  0xE02A; 0xE02C; 0xE02E; 0xE030; 0xC104; 0xC202; 0xBA00; 0x2438; 0xD116; 0xC602; 0xBE00; 0x0000;
  0xC602; 0xBE00; 0x0000; 0xC602; 0xBE00; 0x0000; 0xC602; 0xBE00; 0x0000; 0xC602; 0xBE00; 0x0000;
  0xC602; 0xBE00; 0x0000; 0xC602; 0xBE00; 0x0000; 0xC602; 0xBE00; 0x0000; 0xC602; 0xBE00; 0x0000;
  0xC602; 0xBE00; 0x0000; 0xC602; 0xBE00; 0x0000; 0xC602; 0xBE00; 0x0000; 0xC602; 0xBE00; 0x0000;
  0xC602; 0xBE00; 0x0000; 0xC602; 0xBE00; 0x0000; 0x7023; 0x0019; 0x031A; 0x0E20].
