(* ===== verification/RtlPhyConfig.v ===== *)
(** * r8125: PHY tuning

    The tuning sequences of src/.../realtek/r8125/r8125_n.c, one function per
    chip, and the patches of the 8125A microcontroller that are written out as
    register writes.  A sequence of more than a hundred lines is cut into
    numbered lists. *)
From S2P Require Import Prelude RtlBase RtlHw RtlIrq RtlWol RtlMcu.
Local Open Scope Z_scope.
Local Open Scope rtl_scope.

Definition phy_mcu_8125a_1_1 : list phy_op := [
   se 0xB820 (BIT 7); wr 0xA436 0xA016; wr 0xA438 0x0000; wr 0xA436 0xA012; wr 0xA438 0x0000;
   wr 0xA436 0xA014; wr 0xA438 0x1800; wr 0xA438 0x8010; wr 0xA438 0x1800; wr 0xA438 0x8013;
   wr 0xA438 0x1800; wr 0xA438 0x8021; wr 0xA438 0x1800; wr 0xA438 0x802f; wr 0xA438 0x1800;
   wr 0xA438 0x803d; wr 0xA438 0x1800; wr 0xA438 0x8042; wr 0xA438 0x1800; wr 0xA438 0x8051;
   wr 0xA438 0x1800; wr 0xA438 0x8051; wr 0xA438 0xa088; wr 0xA438 0x1800; wr 0xA438 0x0a50;
   wr 0xA438 0x8008; wr 0xA438 0xd014; wr 0xA438 0xd1a3; wr 0xA438 0xd700; wr 0xA438 0x401a;
   wr 0xA438 0xd707; wr 0xA438 0x40c2; wr 0xA438 0x60a6; wr 0xA438 0xd700; wr 0xA438 0x5f8b;
   wr 0xA438 0x1800; wr 0xA438 0x0a86; wr 0xA438 0x1800; wr 0xA438 0x0a6c; wr 0xA438 0x8080;
   wr 0xA438 0xd019; wr 0xA438 0xd1a2; wr 0xA438 0xd700; wr 0xA438 0x401a; wr 0xA438 0xd707;
   wr 0xA438 0x40c4; wr 0xA438 0x60a6; wr 0xA438 0xd700; wr 0xA438 0x5f8b; wr 0xA438 0x1800;
   wr 0xA438 0x0a86; wr 0xA438 0x1800; wr 0xA438 0x0a84; wr 0xA438 0xd503; wr 0xA438 0x8970;
   wr 0xA438 0x0c07; wr 0xA438 0x0901; wr 0xA438 0xd500; wr 0xA438 0xce01; wr 0xA438 0xcf09;
   wr 0xA438 0xd705; wr 0xA438 0x4000; wr 0xA438 0xceff; wr 0xA438 0xaf0a; wr 0xA438 0xd504;
   wr 0xA438 0x1800; wr 0xA438 0x1213; wr 0xA438 0x8401; wr 0xA438 0xd500; wr 0xA438 0x8580;
   wr 0xA438 0x1800; wr 0xA438 0x1253; wr 0xA438 0xd064; wr 0xA438 0xd181; wr 0xA438 0xd704;
   wr 0xA438 0x4018; wr 0xA438 0xd504; wr 0xA438 0xc50f; wr 0xA438 0xd706; wr 0xA438 0x2c59;
   wr 0xA438 0x804d; wr 0xA438 0xc60f; wr 0xA438 0xf002; wr 0xA438 0xc605; wr 0xA438 0xae02;
   wr 0xA438 0x1800; wr 0xA438 0x10fd; wr 0xA436 0xA026; wr 0xA438 0xffff; wr 0xA436 0xA024;
   wr 0xA438 0xffff; wr 0xA436 0xA022; wr 0xA438 0x10f4; wr 0xA436 0xA020; wr 0xA438 0x1252;
   wr 0xA436 0xA006; wr 0xA438 0x1206; wr 0xA436 0xA004; wr 0xA438 0x0a78; wr 0xA436 0xA002;
   wr 0xA438 0x0a60; wr 0xA436 0xA000; wr 0xA438 0x0a4f; wr 0xA436 0xA008; wr 0xA438 0x3f00;
   wr 0xA436 0xA016; wr 0xA438 0x0010; wr 0xA436 0xA012; wr 0xA438 0x0000].

Definition phy_mcu_8125a_1_2 : list phy_op := [
   wr 0xA436 0xA014; wr 0xA438 0x1800; wr 0xA438 0x8010; wr 0xA438 0x1800; wr 0xA438 0x8066;
   wr 0xA438 0x1800; wr 0xA438 0x807c; wr 0xA438 0x1800; wr 0xA438 0x8089; wr 0xA438 0x1800;
   wr 0xA438 0x808e; wr 0xA438 0x1800; wr 0xA438 0x80a0; wr 0xA438 0x1800; wr 0xA438 0x80b2;
   wr 0xA438 0x1800; wr 0xA438 0x80c2; wr 0xA438 0xd501; wr 0xA438 0xce01; wr 0xA438 0xd700;
   wr 0xA438 0x62db; wr 0xA438 0x655c; wr 0xA438 0xd73e; wr 0xA438 0x60e9; wr 0xA438 0x614a;
   wr 0xA438 0x61ab; wr 0xA438 0x0c0f; wr 0xA438 0x0501; wr 0xA438 0x1800; wr 0xA438 0x0304;
   wr 0xA438 0x0c0f; wr 0xA438 0x0503; wr 0xA438 0x1800; wr 0xA438 0x0304; wr 0xA438 0x0c0f;
   wr 0xA438 0x0505; wr 0xA438 0x1800; wr 0xA438 0x0304; wr 0xA438 0x0c0f; wr 0xA438 0x0509;
   wr 0xA438 0x1800; wr 0xA438 0x0304; wr 0xA438 0x653c; wr 0xA438 0xd73e; wr 0xA438 0x60e9;
   wr 0xA438 0x614a; wr 0xA438 0x61ab; wr 0xA438 0x0c0f; wr 0xA438 0x0503; wr 0xA438 0x1800;
   wr 0xA438 0x0304; wr 0xA438 0x0c0f; wr 0xA438 0x0502; wr 0xA438 0x1800; wr 0xA438 0x0304;
   wr 0xA438 0x0c0f; wr 0xA438 0x0506; wr 0xA438 0x1800; wr 0xA438 0x0304; wr 0xA438 0x0c0f;
   wr 0xA438 0x050a; wr 0xA438 0x1800; wr 0xA438 0x0304; wr 0xA438 0xd73e; wr 0xA438 0x60e9;
   wr 0xA438 0x614a; wr 0xA438 0x61ab; wr 0xA438 0x0c0f; wr 0xA438 0x0505; wr 0xA438 0x1800;
   wr 0xA438 0x0304; wr 0xA438 0x0c0f; wr 0xA438 0x0506; wr 0xA438 0x1800; wr 0xA438 0x0304;
   wr 0xA438 0x0c0f; wr 0xA438 0x0504; wr 0xA438 0x1800; wr 0xA438 0x0304; wr 0xA438 0x0c0f;
   wr 0xA438 0x050c; wr 0xA438 0x1800; wr 0xA438 0x0304; wr 0xA438 0xd73e; wr 0xA438 0x60e9;
   wr 0xA438 0x614a; wr 0xA438 0x61ab; wr 0xA438 0x0c0f; wr 0xA438 0x0509; wr 0xA438 0x1800;
   wr 0xA438 0x0304; wr 0xA438 0x0c0f; wr 0xA438 0x050a; wr 0xA438 0x1800; wr 0xA438 0x0304;
   wr 0xA438 0x0c0f; wr 0xA438 0x050c; wr 0xA438 0x1800; wr 0xA438 0x0304; wr 0xA438 0x0c0f;
   wr 0xA438 0x0508; wr 0xA438 0x1800; wr 0xA438 0x0304; wr 0xA438 0xd501; wr 0xA438 0xce01;
   wr 0xA438 0xd73e; wr 0xA438 0x60e9; wr 0xA438 0x614a; wr 0xA438 0x61ab; wr 0xA438 0x0c0f;
   wr 0xA438 0x0501; wr 0xA438 0x1800; wr 0xA438 0x0321; wr 0xA438 0x0c0f; wr 0xA438 0x0502;
   wr 0xA438 0x1800; wr 0xA438 0x0321; wr 0xA438 0x0c0f; wr 0xA438 0x0504; wr 0xA438 0x1800;
   wr 0xA438 0x0321; wr 0xA438 0x0c0f; wr 0xA438 0x0508; wr 0xA438 0x1800; wr 0xA438 0x0321;
   wr 0xA438 0x1000; wr 0xA438 0x0346; wr 0xA438 0xd501; wr 0xA438 0xce01; wr 0xA438 0x8208;
   wr 0xA438 0x609d; wr 0xA438 0xa50f; wr 0xA438 0x1800; wr 0xA438 0x001a; wr 0xA438 0x0c0f;
   wr 0xA438 0x0503; wr 0xA438 0x1800; wr 0xA438 0x001a; wr 0xA438 0x607d; wr 0xA438 0x1800].

Definition phy_mcu_8125a_1_3 : list phy_op := [
   wr 0xA438 0x00ab; wr 0xA438 0x1800; wr 0xA438 0x00ab; wr 0xA438 0xd501; wr 0xA438 0xce01;
   wr 0xA438 0xd700; wr 0xA438 0x60fd; wr 0xA438 0xa50f; wr 0xA438 0xce00; wr 0xA438 0xd500;
   wr 0xA438 0xaa0f; wr 0xA438 0x1800; wr 0xA438 0x017b; wr 0xA438 0x0c0f; wr 0xA438 0x0503;
   wr 0xA438 0xce00; wr 0xA438 0xd500; wr 0xA438 0x0c0f; wr 0xA438 0x0a05; wr 0xA438 0x1800;
   wr 0xA438 0x017b; wr 0xA438 0xd501; wr 0xA438 0xce01; wr 0xA438 0xd700; wr 0xA438 0x60fd;
   wr 0xA438 0xa50f; wr 0xA438 0xce00; wr 0xA438 0xd500; wr 0xA438 0xaa0f; wr 0xA438 0x1800;
   wr 0xA438 0x01e0; wr 0xA438 0x0c0f; wr 0xA438 0x0503; wr 0xA438 0xce00; wr 0xA438 0xd500;
   wr 0xA438 0x0c0f; wr 0xA438 0x0a05; wr 0xA438 0x1800; wr 0xA438 0x01e0; wr 0xA438 0xd700;
   wr 0xA438 0x60fd; wr 0xA438 0xa50f; wr 0xA438 0xce00; wr 0xA438 0xd500; wr 0xA438 0xaa0f;
   wr 0xA438 0x1800; wr 0xA438 0x0231; wr 0xA438 0x0c0f; wr 0xA438 0x0503; wr 0xA438 0xce00;
   wr 0xA438 0xd500; wr 0xA438 0x0c0f; wr 0xA438 0x0a05; wr 0xA438 0x1800; wr 0xA438 0x0231;
   wr 0xA436 0xA08E; wr 0xA438 0xffff; wr 0xA436 0xA08C; wr 0xA438 0x0221; wr 0xA436 0xA08A;
   wr 0xA438 0x01ce; wr 0xA436 0xA088; wr 0xA438 0x0169; wr 0xA436 0xA086; wr 0xA438 0x00a6;
   wr 0xA436 0xA084; wr 0xA438 0x000d; wr 0xA436 0xA082; wr 0xA438 0x0308; wr 0xA436 0xA080;
   wr 0xA438 0x029f; wr 0xA436 0xA090; wr 0xA438 0x007f; wr 0xA436 0xA016; wr 0xA438 0x0020;
   wr 0xA436 0xA012; wr 0xA438 0x0000].

Definition phy_mcu_8125a_1_4 : list phy_op := [
   wr 0xA436 0xA014; wr 0xA438 0x1800; wr 0xA438 0x8010; wr 0xA438 0x1800; wr 0xA438 0x8017;
   wr 0xA438 0x1800; wr 0xA438 0x801b; wr 0xA438 0x1800; wr 0xA438 0x8029; wr 0xA438 0x1800;
   wr 0xA438 0x8054; wr 0xA438 0x1800; wr 0xA438 0x805a; wr 0xA438 0x1800; wr 0xA438 0x8064;
   wr 0xA438 0x1800; wr 0xA438 0x80a7; wr 0xA438 0x9430; wr 0xA438 0x9480; wr 0xA438 0xb408;
   wr 0xA438 0xd120; wr 0xA438 0xd057; wr 0xA438 0x1800; wr 0xA438 0x064b; wr 0xA438 0xcb80;
   wr 0xA438 0x9906; wr 0xA438 0x1800; wr 0xA438 0x0567; wr 0xA438 0xcb94; wr 0xA438 0x8190;
   wr 0xA438 0x82a0; wr 0xA438 0x800a; wr 0xA438 0x8406; wr 0xA438 0x8010; wr 0xA438 0xa740;
   wr 0xA438 0x8dff; wr 0xA438 0x1000; wr 0xA438 0x07e4; wr 0xA438 0xa840; wr 0xA438 0x0000;
   wr 0xA438 0x1800; wr 0xA438 0x0773; wr 0xA438 0xcb91; wr 0xA438 0x0000; wr 0xA438 0xd700;
   wr 0xA438 0x4063; wr 0xA438 0xd139; wr 0xA438 0xf002; wr 0xA438 0xd140; wr 0xA438 0xd040;
   wr 0xA438 0xb404; wr 0xA438 0x0c0f; wr 0xA438 0x0d00; wr 0xA438 0x1000; wr 0xA438 0x07dc;
   wr 0xA438 0xa610; wr 0xA438 0xa110; wr 0xA438 0xa2a0; wr 0xA438 0xa404; wr 0xA438 0xd704;
   wr 0xA438 0x4045; wr 0xA438 0xa180; wr 0xA438 0xd704; wr 0xA438 0x405d; wr 0xA438 0xa720;
   wr 0xA438 0x1000; wr 0xA438 0x0742; wr 0xA438 0x1000; wr 0xA438 0x07ec; wr 0xA438 0xd700;
   wr 0xA438 0x5f74; wr 0xA438 0x1000; wr 0xA438 0x0742; wr 0xA438 0xd702; wr 0xA438 0x7fb6;
   wr 0xA438 0x8190; wr 0xA438 0x82a0; wr 0xA438 0x8404; wr 0xA438 0x8610; wr 0xA438 0x0c0f;
   wr 0xA438 0x0d01; wr 0xA438 0x1000; wr 0xA438 0x07dc; wr 0xA438 0x1800; wr 0xA438 0x064b;
   wr 0xA438 0x1000; wr 0xA438 0x07c0; wr 0xA438 0xd700; wr 0xA438 0x5fa7; wr 0xA438 0x1800;
   wr 0xA438 0x0481; wr 0xA438 0x0000; wr 0xA438 0x94bc; wr 0xA438 0x870c; wr 0xA438 0xa190;
   wr 0xA438 0xa00a; wr 0xA438 0xa280; wr 0xA438 0xa404; wr 0xA438 0x8220; wr 0xA438 0x1800;
   wr 0xA438 0x078e; wr 0xA438 0xcb92; wr 0xA438 0xa840; wr 0xA438 0xd700; wr 0xA438 0x4063;
   wr 0xA438 0xd140; wr 0xA438 0xf002; wr 0xA438 0xd150; wr 0xA438 0xd040; wr 0xA438 0xd703;
   wr 0xA438 0x60a0; wr 0xA438 0x6121; wr 0xA438 0x61a2; wr 0xA438 0x6223; wr 0xA438 0xf02f;
   wr 0xA438 0x0cf0; wr 0xA438 0x0d10; wr 0xA438 0x8010; wr 0xA438 0xa740; wr 0xA438 0xf00f;
   wr 0xA438 0x0cf0; wr 0xA438 0x0d20; wr 0xA438 0x8010; wr 0xA438 0xa740; wr 0xA438 0xf00a;
   wr 0xA438 0x0cf0; wr 0xA438 0x0d30; wr 0xA438 0x8010; wr 0xA438 0xa740; wr 0xA438 0xf005;
   wr 0xA438 0x0cf0; wr 0xA438 0x0d40; wr 0xA438 0x8010; wr 0xA438 0xa740; wr 0xA438 0x1000;
   wr 0xA438 0x07e4; wr 0xA438 0xa610; wr 0xA438 0xa008; wr 0xA438 0xd704; wr 0xA438 0x4046].

Definition phy_mcu_8125a_1_5 : list phy_op := [
   wr 0xA438 0xa002; wr 0xA438 0xd704; wr 0xA438 0x405d; wr 0xA438 0xa720; wr 0xA438 0x1000;
   wr 0xA438 0x0742; wr 0xA438 0x1000; wr 0xA438 0x07f7; wr 0xA438 0xd700; wr 0xA438 0x5f74;
   wr 0xA438 0x1000; wr 0xA438 0x0742; wr 0xA438 0xd702; wr 0xA438 0x7fb5; wr 0xA438 0x800a;
   wr 0xA438 0x0cf0; wr 0xA438 0x0d00; wr 0xA438 0x1000; wr 0xA438 0x07e4; wr 0xA438 0x8010;
   wr 0xA438 0xa740; wr 0xA438 0xd701; wr 0xA438 0x3ad4; wr 0xA438 0x0537; wr 0xA438 0x8610;
   wr 0xA438 0x8840; wr 0xA438 0x1800; wr 0xA438 0x064b; wr 0xA438 0x8301; wr 0xA438 0x800a;
   wr 0xA438 0x8190; wr 0xA438 0x82a0; wr 0xA438 0x8404; wr 0xA438 0xa70c; wr 0xA438 0x9402;
   wr 0xA438 0x890c; wr 0xA438 0x8840; wr 0xA438 0x1800; wr 0xA438 0x064b; wr 0xA436 0xA10E;
   wr 0xA438 0x0642; wr 0xA436 0xA10C; wr 0xA438 0x0686; wr 0xA436 0xA10A; wr 0xA438 0x0788;
   wr 0xA436 0xA108; wr 0xA438 0x047b; wr 0xA436 0xA106; wr 0xA438 0x065c; wr 0xA436 0xA104;
   wr 0xA438 0x0769; wr 0xA436 0xA102; wr 0xA438 0x0565; wr 0xA436 0xA100; wr 0xA438 0x06f9;
   wr 0xA436 0xA110; wr 0xA438 0x00ff; wr 0xA436 0xb87c; wr 0xA438 0x8530].

Definition phy_mcu_8125a_1_6 : list phy_op := [
   wr 0xA436 0xb87e; wr 0xA438 0xaf85; wr 0xA438 0x3caf; wr 0xA438 0x8593; wr 0xA438 0xaf85;
   wr 0xA438 0x9caf; wr 0xA438 0x85a5; wr 0xA438 0xbf86; wr 0xA438 0xd702; wr 0xA438 0x5afb;
   wr 0xA438 0xe083; wr 0xA438 0xfb0c; wr 0xA438 0x020d; wr 0xA438 0x021b; wr 0xA438 0x10bf;
   wr 0xA438 0x86d7; wr 0xA438 0x025a; wr 0xA438 0xb7bf; wr 0xA438 0x86da; wr 0xA438 0x025a;
   wr 0xA438 0xfbe0; wr 0xA438 0x83fc; wr 0xA438 0x0c02; wr 0xA438 0x0d02; wr 0xA438 0x1b10;
   wr 0xA438 0xbf86; wr 0xA438 0xda02; wr 0xA438 0x5ab7; wr 0xA438 0xbf86; wr 0xA438 0xdd02;
   wr 0xA438 0x5afb; wr 0xA438 0xe083; wr 0xA438 0xfd0c; wr 0xA438 0x020d; wr 0xA438 0x021b;
   wr 0xA438 0x10bf; wr 0xA438 0x86dd; wr 0xA438 0x025a; wr 0xA438 0xb7bf; wr 0xA438 0x86e0;
   wr 0xA438 0x025a; wr 0xA438 0xfbe0; wr 0xA438 0x83fe; wr 0xA438 0x0c02; wr 0xA438 0x0d02;
   wr 0xA438 0x1b10; wr 0xA438 0xbf86; wr 0xA438 0xe002; wr 0xA438 0x5ab7; wr 0xA438 0xaf2f;
   wr 0xA438 0xbd02; wr 0xA438 0x2cac; wr 0xA438 0x0286; wr 0xA438 0x65af; wr 0xA438 0x212b;
   wr 0xA438 0x022c; wr 0xA438 0x6002; wr 0xA438 0x86b6; wr 0xA438 0xaf21; wr 0xA438 0x0cd1;
   wr 0xA438 0x03bf; wr 0xA438 0x8710; wr 0xA438 0x025a; wr 0xA438 0xb7bf; wr 0xA438 0x870d;
   wr 0xA438 0x025a; wr 0xA438 0xb7bf; wr 0xA438 0x8719; wr 0xA438 0x025a; wr 0xA438 0xb7bf;
   wr 0xA438 0x8716; wr 0xA438 0x025a; wr 0xA438 0xb7bf; wr 0xA438 0x871f; wr 0xA438 0x025a;
   wr 0xA438 0xb7bf; wr 0xA438 0x871c; wr 0xA438 0x025a; wr 0xA438 0xb7bf; wr 0xA438 0x8728;
   wr 0xA438 0x025a; wr 0xA438 0xb7bf; wr 0xA438 0x8725; wr 0xA438 0x025a; wr 0xA438 0xb7bf;
   wr 0xA438 0x8707; wr 0xA438 0x025a; wr 0xA438 0xfbad; wr 0xA438 0x281c; wr 0xA438 0xd100;
   wr 0xA438 0xbf87; wr 0xA438 0x0a02; wr 0xA438 0x5ab7; wr 0xA438 0xbf87; wr 0xA438 0x1302;
   wr 0xA438 0x5ab7; wr 0xA438 0xbf87; wr 0xA438 0x2202; wr 0xA438 0x5ab7; wr 0xA438 0xbf87;
   wr 0xA438 0x2b02; wr 0xA438 0x5ab7; wr 0xA438 0xae1a; wr 0xA438 0xd101; wr 0xA438 0xbf87;
   wr 0xA438 0x0a02; wr 0xA438 0x5ab7; wr 0xA438 0xbf87; wr 0xA438 0x1302; wr 0xA438 0x5ab7;
   wr 0xA438 0xbf87; wr 0xA438 0x2202; wr 0xA438 0x5ab7; wr 0xA438 0xbf87; wr 0xA438 0x2b02;
   wr 0xA438 0x5ab7; wr 0xA438 0xd101; wr 0xA438 0xbf87; wr 0xA438 0x3402; wr 0xA438 0x5ab7;
   wr 0xA438 0xbf87; wr 0xA438 0x3102; wr 0xA438 0x5ab7; wr 0xA438 0xbf87; wr 0xA438 0x3d02;
   wr 0xA438 0x5ab7; wr 0xA438 0xbf87; wr 0xA438 0x3a02; wr 0xA438 0x5ab7; wr 0xA438 0xbf87;
   wr 0xA438 0x4302; wr 0xA438 0x5ab7; wr 0xA438 0xbf87; wr 0xA438 0x4002; wr 0xA438 0x5ab7;
   wr 0xA438 0xbf87; wr 0xA438 0x4c02; wr 0xA438 0x5ab7; wr 0xA438 0xbf87; wr 0xA438 0x4902].

Definition phy_mcu_8125a_1_7 : list phy_op := [
   wr 0xA438 0x5ab7; wr 0xA438 0xd100; wr 0xA438 0xbf87; wr 0xA438 0x2e02; wr 0xA438 0x5ab7;
   wr 0xA438 0xbf87; wr 0xA438 0x3702; wr 0xA438 0x5ab7; wr 0xA438 0xbf87; wr 0xA438 0x4602;
   wr 0xA438 0x5ab7; wr 0xA438 0xbf87; wr 0xA438 0x4f02; wr 0xA438 0x5ab7; wr 0xA438 0xaf35;
   wr 0xA438 0x7ff8; wr 0xA438 0xfaef; wr 0xA438 0x69bf; wr 0xA438 0x86e3; wr 0xA438 0x025a;
   wr 0xA438 0xfbbf; wr 0xA438 0x86fb; wr 0xA438 0x025a; wr 0xA438 0xb7bf; wr 0xA438 0x86e6;
   wr 0xA438 0x025a; wr 0xA438 0xfbbf; wr 0xA438 0x86fe; wr 0xA438 0x025a; wr 0xA438 0xb7bf;
   wr 0xA438 0x86e9; wr 0xA438 0x025a; wr 0xA438 0xfbbf; wr 0xA438 0x8701; wr 0xA438 0x025a;
   wr 0xA438 0xb7bf; wr 0xA438 0x86ec; wr 0xA438 0x025a; wr 0xA438 0xfbbf; wr 0xA438 0x8704;
   wr 0xA438 0x025a; wr 0xA438 0xb7bf; wr 0xA438 0x86ef; wr 0xA438 0x0262; wr 0xA438 0x7cbf;
   wr 0xA438 0x86f2; wr 0xA438 0x0262; wr 0xA438 0x7cbf; wr 0xA438 0x86f5; wr 0xA438 0x0262;
   wr 0xA438 0x7cbf; wr 0xA438 0x86f8; wr 0xA438 0x0262; wr 0xA438 0x7cef; wr 0xA438 0x96fe;
   wr 0xA438 0xfc04; wr 0xA438 0xf8fa; wr 0xA438 0xef69; wr 0xA438 0xbf86; wr 0xA438 0xef02;
   wr 0xA438 0x6273; wr 0xA438 0xbf86; wr 0xA438 0xf202; wr 0xA438 0x6273; wr 0xA438 0xbf86;
   wr 0xA438 0xf502; wr 0xA438 0x6273; wr 0xA438 0xbf86; wr 0xA438 0xf802; wr 0xA438 0x6273;
   wr 0xA438 0xef96; wr 0xA438 0xfefc; wr 0xA438 0x0420; wr 0xA438 0xb540; wr 0xA438 0x53b5;
   wr 0xA438 0x4086; wr 0xA438 0xb540; wr 0xA438 0xb9b5; wr 0xA438 0x40c8; wr 0xA438 0xb03a;
   wr 0xA438 0xc8b0; wr 0xA438 0xbac8; wr 0xA438 0xb13a; wr 0xA438 0xc8b1; wr 0xA438 0xba77;
   wr 0xA438 0xbd26; wr 0xA438 0xffbd; wr 0xA438 0x2677; wr 0xA438 0xbd28; wr 0xA438 0xffbd;
   wr 0xA438 0x2840; wr 0xA438 0xbd26; wr 0xA438 0xc8bd; wr 0xA438 0x2640; wr 0xA438 0xbd28;
   wr 0xA438 0xc8bd; wr 0xA438 0x28bb; wr 0xA438 0xa430; wr 0xA438 0x98b0; wr 0xA438 0x1eba;
   wr 0xA438 0xb01e; wr 0xA438 0xdcb0; wr 0xA438 0x1e98; wr 0xA438 0xb09e; wr 0xA438 0xbab0;
   wr 0xA438 0x9edc; wr 0xA438 0xb09e; wr 0xA438 0x98b1; wr 0xA438 0x1eba; wr 0xA438 0xb11e;
   wr 0xA438 0xdcb1; wr 0xA438 0x1e98; wr 0xA438 0xb19e; wr 0xA438 0xbab1; wr 0xA438 0x9edc;
   wr 0xA438 0xb19e; wr 0xA438 0x11b0; wr 0xA438 0x1e22; wr 0xA438 0xb01e; wr 0xA438 0x33b0;
   wr 0xA438 0x1e11; wr 0xA438 0xb09e; wr 0xA438 0x22b0; wr 0xA438 0x9e33; wr 0xA438 0xb09e;
   wr 0xA438 0x11b1; wr 0xA438 0x1e22; wr 0xA438 0xb11e; wr 0xA438 0x33b1; wr 0xA438 0x1e11;
   wr 0xA438 0xb19e; wr 0xA438 0x22b1; wr 0xA438 0x9e33; wr 0xA438 0xb19e; wr 0xA436 0xb85e;
   wr 0xA438 0x2f71; wr 0xA436 0xb860; wr 0xA438 0x20d9; wr 0xA436 0xb862; wr 0xA438 0x2109].

Definition phy_mcu_8125a_1_8 : list phy_op := [
   wr 0xA436 0xb864; wr 0xA438 0x34e7; wr 0xA436 0xb878; wr 0xA438 0x000f; cl 0xB820 (BIT 7)].

Definition rtl8125_real_set_phy_mcu_8125a_1 {D} `{Mmio D} : St (nic D) unit :=
  rtl8125_acquire_phy_mcu_patch_key_lock ;;;
  phy_seq phy_mcu_8125a_1_1 ;;;
  phy_seq phy_mcu_8125a_1_2 ;;;
  phy_seq phy_mcu_8125a_1_3 ;;;
  phy_seq phy_mcu_8125a_1_4 ;;;
  phy_seq phy_mcu_8125a_1_5 ;;;
  phy_seq phy_mcu_8125a_1_6 ;;;
  phy_seq phy_mcu_8125a_1_7 ;;;
  phy_seq phy_mcu_8125a_1_8 ;;;
  rtl8125_release_phy_mcu_patch_key_lock.

Definition phy_mcu_8125a_2_1 : list phy_op := [
   se 0xB820 (BIT 7); wr 0xA436 0xA016; wr 0xA438 0x0000; wr 0xA436 0xA012; wr 0xA438 0x0000].

Definition phy_mcu_8125a_2_2 : list phy_op := [
   wr 0xA436 0xA014; wr 0xA438 0x1800; wr 0xA438 0x8010; wr 0xA438 0x1800; wr 0xA438 0x808b;
   wr 0xA438 0x1800; wr 0xA438 0x808f; wr 0xA438 0x1800; wr 0xA438 0x8093; wr 0xA438 0x1800;
   wr 0xA438 0x8097; wr 0xA438 0x1800; wr 0xA438 0x809d; wr 0xA438 0x1800; wr 0xA438 0x80a1;
   wr 0xA438 0x1800; wr 0xA438 0x80aa; wr 0xA438 0xd718; wr 0xA438 0x607b; wr 0xA438 0x40da;
   wr 0xA438 0xf00e; wr 0xA438 0x42da; wr 0xA438 0xf01e; wr 0xA438 0xd718; wr 0xA438 0x615b;
   wr 0xA438 0x1000; wr 0xA438 0x1456; wr 0xA438 0x1000; wr 0xA438 0x14a4; wr 0xA438 0x1000;
   wr 0xA438 0x14bc; wr 0xA438 0xd718; wr 0xA438 0x5f2e; wr 0xA438 0xf01c; wr 0xA438 0x1000;
   wr 0xA438 0x1456; wr 0xA438 0x1000; wr 0xA438 0x14a4; wr 0xA438 0x1000; wr 0xA438 0x14bc;
   wr 0xA438 0xd718; wr 0xA438 0x5f2e; wr 0xA438 0xf024; wr 0xA438 0x1000; wr 0xA438 0x1456;
   wr 0xA438 0x1000; wr 0xA438 0x14a4; wr 0xA438 0x1000; wr 0xA438 0x14bc; wr 0xA438 0xd718;
   wr 0xA438 0x5f2e; wr 0xA438 0xf02c; wr 0xA438 0x1000; wr 0xA438 0x1456; wr 0xA438 0x1000;
   wr 0xA438 0x14a4; wr 0xA438 0x1000; wr 0xA438 0x14bc; wr 0xA438 0xd718; wr 0xA438 0x5f2e;
   wr 0xA438 0xf034; wr 0xA438 0xd719; wr 0xA438 0x4118; wr 0xA438 0xd504; wr 0xA438 0xac11;
   wr 0xA438 0xd501; wr 0xA438 0xce01; wr 0xA438 0xa410; wr 0xA438 0xce00; wr 0xA438 0xd500;
   wr 0xA438 0x4779; wr 0xA438 0xd504; wr 0xA438 0xac0f; wr 0xA438 0xae01; wr 0xA438 0xd500;
   wr 0xA438 0x1000; wr 0xA438 0x1444; wr 0xA438 0xf034; wr 0xA438 0xd719; wr 0xA438 0x4118;
   wr 0xA438 0xd504; wr 0xA438 0xac22; wr 0xA438 0xd501; wr 0xA438 0xce01; wr 0xA438 0xa420;
   wr 0xA438 0xce00; wr 0xA438 0xd500; wr 0xA438 0x4559; wr 0xA438 0xd504; wr 0xA438 0xac0f;
   wr 0xA438 0xae01; wr 0xA438 0xd500; wr 0xA438 0x1000; wr 0xA438 0x1444; wr 0xA438 0xf023;
   wr 0xA438 0xd719; wr 0xA438 0x4118; wr 0xA438 0xd504; wr 0xA438 0xac44; wr 0xA438 0xd501;
   wr 0xA438 0xce01; wr 0xA438 0xa440; wr 0xA438 0xce00; wr 0xA438 0xd500; wr 0xA438 0x4339;
   wr 0xA438 0xd504; wr 0xA438 0xac0f; wr 0xA438 0xae01; wr 0xA438 0xd500; wr 0xA438 0x1000;
   wr 0xA438 0x1444; wr 0xA438 0xf012; wr 0xA438 0xd719; wr 0xA438 0x4118; wr 0xA438 0xd504;
   wr 0xA438 0xac88; wr 0xA438 0xd501; wr 0xA438 0xce01; wr 0xA438 0xa480; wr 0xA438 0xce00;
   wr 0xA438 0xd500; wr 0xA438 0x4119; wr 0xA438 0xd504; wr 0xA438 0xac0f; wr 0xA438 0xae01;
   wr 0xA438 0xd500; wr 0xA438 0x1000; wr 0xA438 0x1444; wr 0xA438 0xf001; wr 0xA438 0x1000;
   wr 0xA438 0x1456; wr 0xA438 0xd718; wr 0xA438 0x5fac; wr 0xA438 0xc48f; wr 0xA438 0x1000;
   wr 0xA438 0x141b; wr 0xA438 0xd504; wr 0xA438 0x8010; wr 0xA438 0x1800; wr 0xA438 0x121a].

Definition phy_mcu_8125a_2_3 : list phy_op := [
   wr 0xA438 0xd0b4; wr 0xA438 0xd1bb; wr 0xA438 0x1800; wr 0xA438 0x0898; wr 0xA438 0xd0b4;
   wr 0xA438 0xd1bb; wr 0xA438 0x1800; wr 0xA438 0x0a0e; wr 0xA438 0xd064; wr 0xA438 0xd18a;
   wr 0xA438 0x1800; wr 0xA438 0x0b7e; wr 0xA438 0x401c; wr 0xA438 0xd501; wr 0xA438 0xa804;
   wr 0xA438 0x8804; wr 0xA438 0x1800; wr 0xA438 0x053b; wr 0xA438 0xd500; wr 0xA438 0xa301;
   wr 0xA438 0x1800; wr 0xA438 0x0648; wr 0xA438 0xc520; wr 0xA438 0xa201; wr 0xA438 0xd701;
   wr 0xA438 0x252d; wr 0xA438 0x1646; wr 0xA438 0xd708; wr 0xA438 0x4006; wr 0xA438 0x1800;
   wr 0xA438 0x1646; wr 0xA438 0x1800; wr 0xA438 0x0308; wr 0xA436 0xA026; wr 0xA438 0x0307;
   wr 0xA436 0xA024; wr 0xA438 0x1645; wr 0xA436 0xA022; wr 0xA438 0x0647; wr 0xA436 0xA020;
   wr 0xA438 0x053a; wr 0xA436 0xA006; wr 0xA438 0x0b7c; wr 0xA436 0xA004; wr 0xA438 0x0a0c;
   wr 0xA436 0xA002; wr 0xA438 0x0896; wr 0xA436 0xA000; wr 0xA438 0x11a1; wr 0xA436 0xA008;
   wr 0xA438 0xff00; wr 0xA436 0xA016; wr 0xA438 0x0010; wr 0xA436 0xA012; wr 0xA438 0x0000;
   wr 0xA436 0xA014; wr 0xA438 0x1800; wr 0xA438 0x8010; wr 0xA438 0x1800; wr 0xA438 0x8015;
   wr 0xA438 0x1800; wr 0xA438 0x801a; wr 0xA438 0x1800; wr 0xA438 0x801a; wr 0xA438 0x1800;
   wr 0xA438 0x801a; wr 0xA438 0x1800; wr 0xA438 0x801a; wr 0xA438 0x1800; wr 0xA438 0x801a;
   wr 0xA438 0x1800; wr 0xA438 0x801a; wr 0xA438 0xad02; wr 0xA438 0x1000; wr 0xA438 0x02d7;
   wr 0xA438 0x1800; wr 0xA438 0x00ed; wr 0xA438 0x0c0f; wr 0xA438 0x0509; wr 0xA438 0xc100;
   wr 0xA438 0x1800; wr 0xA438 0x008f; wr 0xA436 0xA08E; wr 0xA438 0xffff; wr 0xA436 0xA08C;
   wr 0xA438 0xffff; wr 0xA436 0xA08A; wr 0xA438 0xffff; wr 0xA436 0xA088; wr 0xA438 0xffff;
   wr 0xA436 0xA086; wr 0xA438 0xffff; wr 0xA436 0xA084; wr 0xA438 0xffff; wr 0xA436 0xA082;
   wr 0xA438 0x008d; wr 0xA436 0xA080; wr 0xA438 0x00eb; wr 0xA436 0xA090; wr 0xA438 0x0103;
   wr 0xA436 0xA016; wr 0xA438 0x0020; wr 0xA436 0xA012; wr 0xA438 0x0000].

Definition phy_mcu_8125a_2_4 : list phy_op := [
   wr 0xA436 0xA014; wr 0xA438 0x1800; wr 0xA438 0x8010; wr 0xA438 0x1800; wr 0xA438 0x8014;
   wr 0xA438 0x1800; wr 0xA438 0x8018; wr 0xA438 0x1800; wr 0xA438 0x8024; wr 0xA438 0x1800;
   wr 0xA438 0x8051; wr 0xA438 0x1800; wr 0xA438 0x8055; wr 0xA438 0x1800; wr 0xA438 0x8072;
   wr 0xA438 0x1800; wr 0xA438 0x80dc; wr 0xA438 0x0000; wr 0xA438 0x0000; wr 0xA438 0x0000;
   wr 0xA438 0xfffd; wr 0xA438 0x0000; wr 0xA438 0x0000; wr 0xA438 0x0000; wr 0xA438 0xfffd;
   wr 0xA438 0x8301; wr 0xA438 0x800a; wr 0xA438 0x8190; wr 0xA438 0x82a0; wr 0xA438 0x8404;
   wr 0xA438 0xa70c; wr 0xA438 0x9402; wr 0xA438 0x890c; wr 0xA438 0x8840; wr 0xA438 0xa380;
   wr 0xA438 0x1800; wr 0xA438 0x066e; wr 0xA438 0xcb91; wr 0xA438 0xd700; wr 0xA438 0x4063;
   wr 0xA438 0xd139; wr 0xA438 0xf002; wr 0xA438 0xd140; wr 0xA438 0xd040; wr 0xA438 0xb404;
   wr 0xA438 0x0c0f; wr 0xA438 0x0d00; wr 0xA438 0x1000; wr 0xA438 0x07e0; wr 0xA438 0xa610;
   wr 0xA438 0xa110; wr 0xA438 0xa2a0; wr 0xA438 0xa404; wr 0xA438 0xd704; wr 0xA438 0x4085;
   wr 0xA438 0xa180; wr 0xA438 0xa404; wr 0xA438 0x8280; wr 0xA438 0xd704; wr 0xA438 0x405d;
   wr 0xA438 0xa720; wr 0xA438 0x1000; wr 0xA438 0x0743; wr 0xA438 0x1000; wr 0xA438 0x07f0;
   wr 0xA438 0xd700; wr 0xA438 0x5f74; wr 0xA438 0x1000; wr 0xA438 0x0743; wr 0xA438 0xd702;
   wr 0xA438 0x7fb6; wr 0xA438 0x8190; wr 0xA438 0x82a0; wr 0xA438 0x8404; wr 0xA438 0x8610;
   wr 0xA438 0x0000; wr 0xA438 0x0c0f; wr 0xA438 0x0d01; wr 0xA438 0x1000; wr 0xA438 0x07e0;
   wr 0xA438 0x1800; wr 0xA438 0x066e; wr 0xA438 0xd158; wr 0xA438 0xd04d; wr 0xA438 0x1800;
   wr 0xA438 0x03d4; wr 0xA438 0x94bc; wr 0xA438 0x870c; wr 0xA438 0x8380; wr 0xA438 0xd10d;
   wr 0xA438 0xd040; wr 0xA438 0x1000; wr 0xA438 0x07c4; wr 0xA438 0xd700; wr 0xA438 0x5fb4;
   wr 0xA438 0xa190; wr 0xA438 0xa00a; wr 0xA438 0xa280; wr 0xA438 0xa404; wr 0xA438 0xa220;
   wr 0xA438 0xd130; wr 0xA438 0xd040; wr 0xA438 0x1000; wr 0xA438 0x07c4; wr 0xA438 0xd700;
   wr 0xA438 0x5fb4; wr 0xA438 0xbb80; wr 0xA438 0xd1c4; wr 0xA438 0xd074; wr 0xA438 0xa301;
   wr 0xA438 0xd704; wr 0xA438 0x604b; wr 0xA438 0xa90c; wr 0xA438 0x1800; wr 0xA438 0x0556;
   wr 0xA438 0xcb92; wr 0xA438 0xd700; wr 0xA438 0x4063; wr 0xA438 0xd116; wr 0xA438 0xf002;
   wr 0xA438 0xd119; wr 0xA438 0xd040; wr 0xA438 0xd703; wr 0xA438 0x60a0; wr 0xA438 0x6241;
   wr 0xA438 0x63e2; wr 0xA438 0x6583; wr 0xA438 0xf054; wr 0xA438 0xd701; wr 0xA438 0x611e;
   wr 0xA438 0xd701; wr 0xA438 0x40da; wr 0xA438 0x0cf0; wr 0xA438 0x0d10; wr 0xA438 0xa010;
   wr 0xA438 0x8740; wr 0xA438 0xf02f; wr 0xA438 0x0cf0; wr 0xA438 0x0d50; wr 0xA438 0x8010].

Definition phy_mcu_8125a_2_5 : list phy_op := [
   wr 0xA438 0xa740; wr 0xA438 0xf02a; wr 0xA438 0xd701; wr 0xA438 0x611e; wr 0xA438 0xd701;
   wr 0xA438 0x40da; wr 0xA438 0x0cf0; wr 0xA438 0x0d20; wr 0xA438 0xa010; wr 0xA438 0x8740;
   wr 0xA438 0xf021; wr 0xA438 0x0cf0; wr 0xA438 0x0d60; wr 0xA438 0x8010; wr 0xA438 0xa740;
   wr 0xA438 0xf01c; wr 0xA438 0xd701; wr 0xA438 0x611e; wr 0xA438 0xd701; wr 0xA438 0x40da;
   wr 0xA438 0x0cf0; wr 0xA438 0x0d30; wr 0xA438 0xa010; wr 0xA438 0x8740; wr 0xA438 0xf013;
   wr 0xA438 0x0cf0; wr 0xA438 0x0d70; wr 0xA438 0x8010; wr 0xA438 0xa740; wr 0xA438 0xf00e;
   wr 0xA438 0xd701; wr 0xA438 0x611e; wr 0xA438 0xd701; wr 0xA438 0x40da; wr 0xA438 0x0cf0;
   wr 0xA438 0x0d40; wr 0xA438 0xa010; wr 0xA438 0x8740; wr 0xA438 0xf005; wr 0xA438 0x0cf0;
   wr 0xA438 0x0d80; wr 0xA438 0x8010; wr 0xA438 0xa740; wr 0xA438 0x1000; wr 0xA438 0x07e8;
   wr 0xA438 0xa610; wr 0xA438 0xd704; wr 0xA438 0x405d; wr 0xA438 0xa720; wr 0xA438 0xd700;
   wr 0xA438 0x5ff4; wr 0xA438 0xa008; wr 0xA438 0xd704; wr 0xA438 0x4046; wr 0xA438 0xa002;
   wr 0xA438 0x1000; wr 0xA438 0x0743; wr 0xA438 0x1000; wr 0xA438 0x07fb; wr 0xA438 0xd703;
   wr 0xA438 0x7f6f; wr 0xA438 0x7f4e; wr 0xA438 0x7f2d; wr 0xA438 0x7f0c; wr 0xA438 0x800a;
   wr 0xA438 0x0cf0; wr 0xA438 0x0d00; wr 0xA438 0x1000; wr 0xA438 0x07e8; wr 0xA438 0x8010;
   wr 0xA438 0xa740; wr 0xA438 0x1000; wr 0xA438 0x0743; wr 0xA438 0xd702; wr 0xA438 0x7fb5;
   wr 0xA438 0xd701; wr 0xA438 0x3ad4; wr 0xA438 0x0556; wr 0xA438 0x8610; wr 0xA438 0x1800;
   wr 0xA438 0x066e; wr 0xA438 0xd1f5; wr 0xA438 0xd049; wr 0xA438 0x1800; wr 0xA438 0x01ec;
   wr 0xA436 0xA10E; wr 0xA438 0x01ea; wr 0xA436 0xA10C; wr 0xA438 0x06a9; wr 0xA436 0xA10A;
   wr 0xA438 0x078a; wr 0xA436 0xA108; wr 0xA438 0x03d2; wr 0xA436 0xA106; wr 0xA438 0x067f;
   wr 0xA436 0xA104; wr 0xA438 0x0665; wr 0xA436 0xA102; wr 0xA438 0x0000; wr 0xA436 0xA100;
   wr 0xA438 0x0000; wr 0xA436 0xA110; wr 0xA438 0x00fc; wr 0xA436 0xb87c; wr 0xA438 0x8530].

Definition phy_mcu_8125a_2_6 : list phy_op := [
   wr 0xA436 0xb87e; wr 0xA438 0xaf85; wr 0xA438 0x3caf; wr 0xA438 0x8545; wr 0xA438 0xaf85;
   wr 0xA438 0x45af; wr 0xA438 0x8545; wr 0xA438 0xee82; wr 0xA438 0xf900; wr 0xA438 0x0103;
   wr 0xA438 0xaf03; wr 0xA438 0xb7f8; wr 0xA438 0xe0a6; wr 0xA438 0x00e1; wr 0xA438 0xa601;
   wr 0xA438 0xef01; wr 0xA438 0x58f0; wr 0xA438 0xa080; wr 0xA438 0x37a1; wr 0xA438 0x8402;
   wr 0xA438 0xae16; wr 0xA438 0xa185; wr 0xA438 0x02ae; wr 0xA438 0x11a1; wr 0xA438 0x8702;
   wr 0xA438 0xae0c; wr 0xA438 0xa188; wr 0xA438 0x02ae; wr 0xA438 0x07a1; wr 0xA438 0x8902;
   wr 0xA438 0xae02; wr 0xA438 0xae1c; wr 0xA438 0xe0b4; wr 0xA438 0x62e1; wr 0xA438 0xb463;
   wr 0xA438 0x6901; wr 0xA438 0xe4b4; wr 0xA438 0x62e5; wr 0xA438 0xb463; wr 0xA438 0xe0b4;
   wr 0xA438 0x62e1; wr 0xA438 0xb463; wr 0xA438 0x6901; wr 0xA438 0xe4b4; wr 0xA438 0x62e5;
   wr 0xA438 0xb463; wr 0xA438 0xfc04; wr 0xA436 0xb85e; wr 0xA438 0x03b3; wr 0xA436 0xb860;
   wr 0xA438 0xffff; wr 0xA436 0xb862; wr 0xA438 0xffff; wr 0xA436 0xb864; wr 0xA438 0xffff;
   wr 0xA436 0xb878; wr 0xA438 0x0001; cl 0xB820 (BIT 7)].

Definition rtl8125_real_set_phy_mcu_8125a_2 {D} `{Mmio D} : St (nic D) unit :=
  rtl8125_acquire_phy_mcu_patch_key_lock ;;;
  phy_seq phy_mcu_8125a_2_1 ;;;
  phy_seq phy_mcu_8125a_2_2 ;;;
  phy_seq phy_mcu_8125a_2_3 ;;;
  phy_seq phy_mcu_8125a_2_4 ;;;
  phy_seq phy_mcu_8125a_2_5 ;;;
  phy_seq phy_mcu_8125a_2_6 ;;;
  rtl8125_release_phy_mcu_patch_key_lock.

Definition rtl8125_hw_phy_config_8125a_1 {D} `{Mmio D} : St (nic D) unit :=
  s <- tp_get id ;;
  phy_seq [
       mo 0xAD40 0x03FF 0x84; se 0xAD4E (BIT 4); mo 0xAD16 0x03FF 0x0006; mo 0xAD32 0x003F 0x0006;
       cl 0xAC08 (BIT 12); cl 0xAC08 (BIT 8);
       mo 0xAC8A (bits_or [15; 14; 13; 12]) (bits_or [14; 13; 12]); se 0xAD18 (BIT 10);
       se 0xAD1A 0x3FF; se 0xAD1C 0x3FF; wr 0xA436 0x80EA; mo 0xA438 0xFF00 0xC400;
       wr 0xA436 0x80EB; mo 0xA438 0x0700 0x0300; wr 0xA436 0x80F8; mo 0xA438 0xFF00 0x1C00;
       wr 0xA436 0x80F1; mo 0xA438 0xFF00 0x3000; wr 0xA436 0x80FE; mo 0xA438 0xFF00 0xA500;
       wr 0xA436 0x8102; mo 0xA438 0xFF00 0x5000; wr 0xA436 0x8105; mo 0xA438 0xFF00 0x3300;
       wr 0xA436 0x8100; mo 0xA438 0xFF00 0x7000; wr 0xA436 0x8104; mo 0xA438 0xFF00 0xF000;
       wr 0xA436 0x8106; mo 0xA438 0xFF00 0x6500; wr 0xA436 0x80DC; mo 0xA438 0xFF00 0xED00;
       wr 0xA436 0x80DF; se 0xA438 (BIT 8); wr 0xA436 0x80E1; cl 0xA438 (BIT 8);
       mo 0xBF06 0x003F 0x38; wr 0xA436 0x819F; wr 0xA438 0xD0B6; wr 0xBC34 0x5555;
       mo 0xBF0A (bits_or [11; 10; 9]) (bits_or [11; 9]); cl 0xA5C0 (BIT 10); se 0xA442 (BIT 11)] ;;;
  swhen (tst (aspm s) && HW_HAS_WRITE_PHY_MCU_RAM_CODE s) rtl8125_enable_phy_aldps.

Definition phy_config_8125a_2_1 : list phy_op := [
   se 0xAD4E (BIT 4); mo 0xAD16 0x03FF 0x03FF; mo 0xAD32 0x003F 0x0006; cl 0xAC08 (BIT 12);
   cl 0xAC08 (BIT 8); mo 0xACC0 (bits_or [1; 0]) (BIT 1); mo 0xAD40 (bits_or [7; 6; 5]) (BIT 6);
   mo 0xAD40 (bits_or [2; 1; 0]) (BIT 2); cl 0xAC14 (BIT 7); cl 0xAC80 (bits_or [9; 8]);
   mo 0xAC5E (bits_or [2; 1; 0]) (BIT 1); wr 0xAD4C 0x00A8; wr 0xAC5C 0x01FF;
   mo 0xAC8A (bits_or [7; 6; 5; 4]) (bits_or [5; 4]); wr 0xB87C 0x8157; mo 0xB87E 0xFF00 0x0500;
   wr 0xB87C 0x8159; mo 0xB87E 0xFF00 0x0700; wr 0xB87C 0x80A2; wr 0xB87E 0x0153;
   wr 0xB87C 0x809C; wr 0xB87E 0x0153; wr 0xA436 0x81B3; wr 0xA438 0x0043; wr 0xA438 0x00A7;
   wr 0xA438 0x00D6; wr 0xA438 0x00EC; wr 0xA438 0x00F6; wr 0xA438 0x00FB; wr 0xA438 0x00FD;
   wr 0xA438 0x00FF; wr 0xA438 0x00BB; wr 0xA438 0x0058; wr 0xA438 0x0029; wr 0xA438 0x0013;
   wr 0xA438 0x0009; wr 0xA438 0x0004; wr 0xA438 0x0002; wr 0xA438 0x0000; wr 0xA438 0x0000;
   wr 0xA438 0x0000; wr 0xA438 0x0000; wr 0xA438 0x0000; wr 0xA438 0x0000; wr 0xA438 0x0000;
   wr 0xA438 0x0000; wr 0xA438 0x0000; wr 0xA438 0x0000; wr 0xA438 0x0000; wr 0xA438 0x0000;
   wr 0xA438 0x0000; wr 0xA438 0x0000; wr 0xA438 0x0000; wr 0xA438 0x0000; wr 0xA438 0x0000;
   wr 0xA438 0x0000; wr 0xA438 0x0000; wr 0xA438 0x0000; wr 0xA438 0x0000; wr 0xA438 0x0000;
   wr 0xA438 0x0000; wr 0xA438 0x0000; wr 0xA438 0x0000; wr 0xA436 0x8257; wr 0xA438 0x020F;
   wr 0xA436 0x80EA; wr 0xA438 0x7843].

Definition phy_config_8125a_2_2 : list phy_op := [
   cl 0xB896 (BIT 0); cl 0xB892 0xFF00; wr 0xB88E 0xC091; wr 0xB890 0x6E12; wr 0xB88E 0xC092;
   wr 0xB890 0x1214; wr 0xB88E 0xC094; wr 0xB890 0x1516; wr 0xB88E 0xC096; wr 0xB890 0x171B;
   wr 0xB88E 0xC098; wr 0xB890 0x1B1C; wr 0xB88E 0xC09A; wr 0xB890 0x1F1F; wr 0xB88E 0xC09C;
   wr 0xB890 0x2021; wr 0xB88E 0xC09E; wr 0xB890 0x2224; wr 0xB88E 0xC0A0; wr 0xB890 0x2424;
   wr 0xB88E 0xC0A2; wr 0xB890 0x2424; wr 0xB88E 0xC0A4; wr 0xB890 0x2424; wr 0xB88E 0xC018;
   wr 0xB890 0x0AF2; wr 0xB88E 0xC01A; wr 0xB890 0x0D4A; wr 0xB88E 0xC01C; wr 0xB890 0x0F26;
   wr 0xB88E 0xC01E; wr 0xB890 0x118D; wr 0xB88E 0xC020; wr 0xB890 0x14F3; wr 0xB88E 0xC022;
   wr 0xB890 0x175A; wr 0xB88E 0xC024; wr 0xB890 0x19C0; wr 0xB88E 0xC026; wr 0xB890 0x1C26;
   wr 0xB88E 0xC089; wr 0xB890 0x6050; wr 0xB88E 0xC08A; wr 0xB890 0x5F6E; wr 0xB88E 0xC08C;
   wr 0xB890 0x6E6E; wr 0xB88E 0xC08E; wr 0xB890 0x6E6E; wr 0xB88E 0xC090; wr 0xB890 0x6E12;
   se 0xB896 (BIT 0)].

Definition rtl8125_hw_phy_config_8125a_2 {D} `{Mmio D} : St (nic D) unit :=
  s <- tp_get id ;;
  phy_seq phy_config_8125a_2_1 ;;;
  rtl8125_set_phy_mcu_patch_request ;;;
  phy_seq phy_config_8125a_2_2 ;;;
  rtl8125_clear_phy_mcu_patch_request ;;;
  phy_seq [
       se 0xD068 (BIT 13); wr 0xA436 0x81A2; se 0xA438 (BIT 8); mo 0xB54C 0xFF00 0xDB00;
       cl 0xA454 (BIT 0); se 0xA5D4 (BIT 5); cl 0xAD4E (BIT 4); cl 0xA86A (BIT 0);
       se 0xA442 (BIT 11)] ;;;
  swhen (tst (RequirePhyMdiSwapPatch s))
      (phy_seq [
            mo 0xD068 0x0007 0x0001; mo 0xD068 0x0018 0x0000] ;;;
       adccal_offset_p0 <- rtl8125_mdio_direct_read_phy_ocp 0xD06A ;;
       let adccal_offset_p0 := Z.land (u16 adccal_offset_p0) 0x07FF in
       phy_seq [
            mo 0xD068 0x0018 0x0008] ;;;
       adccal_offset_p1 <- rtl8125_mdio_direct_read_phy_ocp 0xD06A ;;
       let adccal_offset_p1 := Z.land (u16 adccal_offset_p1) 0x07FF in
       phy_seq [
            mo 0xD068 0x0018 0x0010] ;;;
       adccal_offset_p2 <- rtl8125_mdio_direct_read_phy_ocp 0xD06A ;;
       let adccal_offset_p2 := Z.land (u16 adccal_offset_p2) 0x07FF in
       phy_seq [
            mo 0xD068 0x0018 0x0018] ;;;
       adccal_offset_p3 <- rtl8125_mdio_direct_read_phy_ocp 0xD06A ;;
       let adccal_offset_p3 := Z.land (u16 adccal_offset_p3) 0x07FF in
       phy_seq [
            mo 0xD068 0x0018 0x0000] ;;;
       run_phy_op (mo 0xD06A 0x07FF adccal_offset_p3) ;;;
       phy_seq [
            mo 0xD068 0x0018 0x0008] ;;;
       run_phy_op (mo 0xD06A 0x07FF adccal_offset_p2) ;;;
       phy_seq [
            mo 0xD068 0x0018 0x0010] ;;;
       run_phy_op (mo 0xD06A 0x07FF adccal_offset_p1) ;;;
       phy_seq [
            mo 0xD068 0x0018 0x0018] ;;;
       run_phy_op (mo 0xD06A 0x07FF adccal_offset_p0) ;;;
       rg_lpf_cap_xg_p0 <- rtl8125_mdio_direct_read_phy_ocp 0xBD5A ;;
       let rg_lpf_cap_xg_p0 := Z.land (u16 rg_lpf_cap_xg_p0) 0x001F in
       rg_lpf_cap_xg_p1 <- rtl8125_mdio_direct_read_phy_ocp 0xBD5A ;;
       let rg_lpf_cap_xg_p1 := Z.land (u16 rg_lpf_cap_xg_p1) 0x1F00 in
       rg_lpf_cap_xg_p2 <- rtl8125_mdio_direct_read_phy_ocp 0xBD5C ;;
       let rg_lpf_cap_xg_p2 := Z.land (u16 rg_lpf_cap_xg_p2) 0x001F in
       rg_lpf_cap_xg_p3 <- rtl8125_mdio_direct_read_phy_ocp 0xBD5C ;;
       let rg_lpf_cap_xg_p3 := Z.land (u16 rg_lpf_cap_xg_p3) 0x1F00 in
       rg_lpf_cap_p0 <- rtl8125_mdio_direct_read_phy_ocp 0xBC18 ;;
       let rg_lpf_cap_p0 := Z.land (u16 rg_lpf_cap_p0) 0x001F in
       rg_lpf_cap_p1 <- rtl8125_mdio_direct_read_phy_ocp 0xBC18 ;;
       let rg_lpf_cap_p1 := Z.land (u16 rg_lpf_cap_p1) 0x1F00 in
       rg_lpf_cap_p2 <- rtl8125_mdio_direct_read_phy_ocp 0xBC1A ;;
       let rg_lpf_cap_p2 := Z.land (u16 rg_lpf_cap_p2) 0x001F in
       rg_lpf_cap_p3 <- rtl8125_mdio_direct_read_phy_ocp 0xBC1A ;;
       let rg_lpf_cap_p3 := Z.land (u16 rg_lpf_cap_p3) 0x1F00 in
       run_phy_op (mo 0xBD5A 0x001F (Z.shiftr rg_lpf_cap_xg_p3 8)) ;;;
       run_phy_op (mo 0xBD5A 0x1F00 (Z.shiftl rg_lpf_cap_xg_p2 8)) ;;;
       run_phy_op (mo 0xBD5C 0x001F (Z.shiftr rg_lpf_cap_xg_p1 8)) ;;;
       run_phy_op (mo 0xBD5C 0x1F00 (Z.shiftl rg_lpf_cap_xg_p0 8)) ;;;
       run_phy_op (mo 0xBC18 0x001F (Z.shiftr rg_lpf_cap_p3 8)) ;;;
       run_phy_op (mo 0xBC18 0x1F00 (Z.shiftl rg_lpf_cap_p2 8)) ;;;
       run_phy_op (mo 0xBC1A 0x001F (Z.shiftr rg_lpf_cap_p1 8)) ;;;
       run_phy_op (mo 0xBC1A 0x1F00 (Z.shiftl rg_lpf_cap_p0 8))) ;;;
  phy_seq [
       se 0xA424 (BIT 3)] ;;;
  swhen (tst (aspm s) && HW_HAS_WRITE_PHY_MCU_RAM_CODE s) rtl8125_enable_phy_aldps.

Definition phy_config_8125b_1_1 : list phy_op := [
   mo 0xACDA 0xFF00 0xFF00; mo 0xACDE 0xF000 0xF000; wr 0xB87C 0x80D6; wr 0xB87E 0x2801;
   wr 0xB87C 0x80F2; wr 0xB87E 0x2801; wr 0xB87C 0x80F4; wr 0xB87E 0x6077; wr 0xB506 0x01E7;
   wr 0xAC8C 0x0FFC; wr 0xAC46 0xB7B4; wr 0xAC50 0x0FBC; wr 0xAC3C 0x9240; wr 0xAC4E 0x0DB4;
   wr 0xACC6 0x0707; wr 0xACC8 0xA0D3; wr 0xAD08 0x0007; wr 0xB87C 0x8013; wr 0xB87E 0x0700;
   wr 0xB87C 0x8FB9; wr 0xB87E 0x2801; wr 0xB87C 0x8FBA; wr 0xB87E 0x0100; wr 0xB87C 0x8FBC;
   wr 0xB87E 0x1900; wr 0xB87C 0x8FBE; wr 0xB87E 0xE100; wr 0xB87C 0x8FC0; wr 0xB87E 0x0800;
   wr 0xB87C 0x8FC2; wr 0xB87E 0xE500; wr 0xB87C 0x8FC4; wr 0xB87E 0x0F00; wr 0xB87C 0x8FC6;
   wr 0xB87E 0xF100; wr 0xB87C 0x8FC8; wr 0xB87E 0x0400; wr 0xB87C 0x8FCa; wr 0xB87E 0xF300;
   wr 0xB87C 0x8FCc; wr 0xB87E 0xFD00; wr 0xB87C 0x8FCe; wr 0xB87E 0xFF00; wr 0xB87C 0x8FD0;
   wr 0xB87E 0xFB00; wr 0xB87C 0x8FD2; wr 0xB87E 0x0100; wr 0xB87C 0x8FD4; wr 0xB87E 0xF400;
   wr 0xB87C 0x8FD6; wr 0xB87E 0xFF00; wr 0xB87C 0x8FD8; wr 0xB87E 0xF600; wr 0xB87C 0x813D;
   wr 0xB87E 0x390E; wr 0xB87C 0x814F; wr 0xB87E 0x790E; wr 0xB87C 0x80B0; wr 0xB87E 0x0F31;
   se 0xBF4C (BIT 1); se 0xBCCA (bits_or [9; 8]); wr 0xB87C 0x8141; wr 0xB87E 0x320E;
   wr 0xB87C 0x8153; wr 0xB87E 0x720E; cl 0xA432 (BIT 6); wr 0xB87C 0x8529; wr 0xB87E 0x050E;
   wr 0xA436 0x816C; wr 0xA438 0xC4A0; wr 0xA436 0x8170; wr 0xA438 0xC4A0; wr 0xA436 0x8174;
   wr 0xA438 0x04A0; wr 0xA436 0x8178; wr 0xA438 0x04A0; wr 0xA436 0x817C; wr 0xA438 0x0719].

Definition phy_config_8125b_1_2 : list phy_op := [
   wr 0xBF4A 0x001B; wr 0xB87C 0x8033; wr 0xB87E 0x7C13; wr 0xB87C 0x8037; wr 0xB87E 0x7C13;
   wr 0xB87C 0x803B; wr 0xB87E 0xFC32; wr 0xB87C 0x803F; wr 0xB87E 0x7C13; wr 0xB87C 0x8043;
   wr 0xB87E 0x7C13; wr 0xB87C 0x8047; wr 0xB87E 0x7C13; wr 0xB87C 0x8145; wr 0xB87E 0x370E;
   wr 0xB87C 0x8157; wr 0xB87E 0x770E; wr 0xB87C 0x8169; wr 0xB87E 0x0D0A; wr 0xB87C 0x817B;
   wr 0xB87E 0x1D0A; wr 0xA436 0x8217; mo 0xA438 0xFF00 0x5000; wr 0xA436 0x821A;
   mo 0xA438 0xFF00 0x5000; wr 0xA436 0x80DA; wr 0xA438 0x0403; wr 0xA436 0x80DC;
   mo 0xA438 0xFF00 0x1000; wr 0xA436 0x80B3; wr 0xA438 0x0384; wr 0xA436 0x80B7;
   wr 0xA438 0x2007; wr 0xA436 0x80BA; mo 0xA438 0xFF00 0x6C00; wr 0xA436 0x80B5;
   wr 0xA438 0xF009; wr 0xA436 0x80BD; mo 0xA438 0xFF00 0x9F00; wr 0xA436 0x80C7;
   wr 0xA438 0xf083; wr 0xA436 0x80DD; wr 0xA438 0x03f0; wr 0xA436 0x80DF;
   mo 0xA438 0xFF00 0x1000; wr 0xA436 0x80CB; wr 0xA438 0x2007; wr 0xA436 0x80CE;
   mo 0xA438 0xFF00 0x6C00; wr 0xA436 0x80C9; wr 0xA438 0x8009; wr 0xA436 0x80D1;
   mo 0xA438 0xFF00 0x8000; wr 0xA436 0x80A3; wr 0xA438 0x200A; wr 0xA436 0x80A5;
   wr 0xA438 0xF0AD; wr 0xA436 0x809F; wr 0xA438 0x6073; wr 0xA436 0x80A1; wr 0xA438 0x000B;
   wr 0xA436 0x80A9; mo 0xA438 0xFF00 0xC000].

Definition rtl8125_hw_phy_config_8125b_1 {D} `{Mmio D} : St (nic D) unit :=
  s <- tp_get id ;;
  phy_seq [
       se 0xA442 (BIT 11); se 0xBC08 (bits_or [3; 2])] ;;;
  swhen (HW_HAS_WRITE_PHY_MCU_RAM_CODE s)
      (phy_seq [
            wr 0xA436 0x8FFF; mo 0xA438 0xFF00 0x0400]) ;;;
  phy_seq [
       wr 0xB87C 0x8560; wr 0xB87E 0x19CC; wr 0xB87C 0x8562; wr 0xB87E 0x19CC; wr 0xB87C 0x8564;
       wr 0xB87E 0x19CC; wr 0xB87C 0x8566; wr 0xB87E 0x147D; wr 0xB87C 0x8568; wr 0xB87E 0x147D;
       wr 0xB87C 0x856A; wr 0xB87E 0x147D] ;;;
  swhen (HW_HAS_WRITE_PHY_MCU_RAM_CODE s)
      (phy_seq [
            wr 0xB87C 0x8FFE; wr 0xB87E 0x0907]) ;;;
  phy_seq phy_config_8125b_1_1 ;;;
  swhen (HW_HAS_WRITE_PHY_MCU_RAM_CODE s)
      (phy_seq [
            wr 0xA436 0x8FF4; wr 0xA438 0x0400; wr 0xA436 0x8FF1; wr 0xA438 0x0404]) ;;;
  phy_seq phy_config_8125b_1_2 ;;;
  rtl8125_set_phy_mcu_patch_request ;;;
  phy_seq [
       cl 0xB896 (BIT 0); cl 0xB892 0xFF00; wr 0xB88E 0xC23E; wr 0xB890 0x0000; wr 0xB88E 0xC240;
       wr 0xB890 0x0103; wr 0xB88E 0xC242; wr 0xB890 0x0507; wr 0xB88E 0xC244; wr 0xB890 0x090B;
       wr 0xB88E 0xC246; wr 0xB890 0x0C0E; wr 0xB88E 0xC248; wr 0xB890 0x1012; wr 0xB88E 0xC24A;
       wr 0xB890 0x1416; se 0xB896 (BIT 0)] ;;;
  rtl8125_clear_phy_mcu_patch_request ;;;
  phy_seq [
       se 0xA86A (BIT 0); se 0xA6F0 (BIT 0); wr 0xBFA0 0xD70D; wr 0xBFA2 0x4100; wr 0xBFA4 0xE868;
       wr 0xBFA6 0xDC59; wr 0xB54C 0x3C18; cl 0xBFA4 (BIT 5); wr 0xA436 0x817D; se 0xA438 (BIT 12)] ;;;
  swhen (tst (aspm s) && HW_HAS_WRITE_PHY_MCU_RAM_CODE s) rtl8125_enable_phy_aldps.

Definition rtl8125_hw_phy_config_8125b_2 {D} `{Mmio D} : St (nic D) unit :=
  s <- tp_get id ;;
  phy_seq [
       se 0xA442 (BIT 11); mo 0xAC46 0x00F0 0x0090; mo 0xAD30 0x0003 0x0001; wr 0xB87C 0x80F5;
       wr 0xB87E 0x760E; wr 0xB87C 0x8107; wr 0xB87E 0x360E; wr 0xB87C 0x8551;
       mo 0xB87E (bits_or [15; 14; 13; 12; 11; 10; 9; 8]) (BIT 11); mo 0xbf00 0xE000 0xA000;
       mo 0xbf46 0x0F00 0x0300; wr 0xa436 0x8044; wr 0xa438 0x2417; wr 0xa436 0x804A;
       wr 0xa438 0x2417; wr 0xa436 0x8050; wr 0xa438 0x2417; wr 0xa436 0x8056; wr 0xa438 0x2417;
       wr 0xa436 0x805C; wr 0xa438 0x2417; wr 0xa436 0x8062; wr 0xa438 0x2417; wr 0xa436 0x8068;
       wr 0xa438 0x2417; wr 0xa436 0x806E; wr 0xa438 0x2417; wr 0xa436 0x8074; wr 0xa438 0x2417;
       wr 0xa436 0x807A; wr 0xa438 0x2417; se 0xA4CA (BIT 6);
       mo 0xBF84 (bits_or [15; 14; 13]) (bits_or [15; 13]); wr 0xA436 0x8170;
       mo 0xA438 (bits_or [13; 10; 9; 8]) (bits_or [15; 14; 12; 11]); wr 0xB87C 0x8015;
       se 0xB87E (BIT 8)] ;;;
  rtl8125_mdio_direct_read_phy_ocp 0xB906 ;;;
  phy_seq [
       se 0xA424 (BIT 3)] ;;;
  swhen (tst (aspm s) && HW_HAS_WRITE_PHY_MCU_RAM_CODE s) rtl8125_enable_phy_aldps.

Definition rtl8125_hw_phy_config_8125bp_1 {D} `{Mmio D} : St (nic D) unit :=
  s <- tp_get id ;;
  phy_seq [
       se 0xA442 (BIT 11); mo 0xA80C (BIT 14) (bits_or [15; 11; 10]); wr 0xA436 0x8010;
       cl 0xA438 (BIT 11); wr 0xB87C 0x8088; mo 0xB87E 0xFF00 0x9000; wr 0xB87C 0x808F;
       mo 0xB87E 0xFF00 0x9000; wr 0xA436 0x8174; mo 0xA438 (BIT 13) (bits_or [12; 11])] ;;;
  swhen (tst (aspm s) && HW_HAS_WRITE_PHY_MCU_RAM_CODE s) rtl8125_enable_phy_aldps.

Definition rtl8125_hw_phy_config_8125bp_2 {D} `{Mmio D} : St (nic D) unit :=
  s <- tp_get id ;;
  phy_seq [
       se 0xA442 (BIT 11); wr 0xA436 0x8010; cl 0xA438 (BIT 11); wr 0xB87C 0x8088;
       mo 0xB87E 0xFF00 0x9000; wr 0xB87C 0x808F; mo 0xB87E 0xFF00 0x9000; wr 0xA436 0x8174;
       mo 0xA438 (BIT 13) (bits_or [12; 11])] ;;;
  swhen (tst (aspm s) && HW_HAS_WRITE_PHY_MCU_RAM_CODE s) rtl8125_enable_phy_aldps.

Definition rtl8125_hw_phy_config_8125cp_1 {D} `{Mmio D} : St (nic D) unit :=
  s <- tp_get id ;;
  phy_seq [
       se 0xA442 (BIT 11); mo 0xad0e 0x007F 0x000B; se 0xad78 (BIT 4); wr 0xA436 0x81B8;
       wr 0xA438 0x00B4; wr 0xA436 0x81BA; wr 0xA438 0x00E4; wr 0xA436 0x81C5; wr 0xA438 0x0104;
       wr 0xA436 0x81D0; wr 0xA438 0x054D] ;;;
  swhen (tst (aspm s) && HW_HAS_WRITE_PHY_MCU_RAM_CODE s) rtl8125_enable_phy_aldps.

Definition phy_config_8125d_1_1 : list phy_op := [
   se 0xBF96 (BIT 15); mo 0xBF94 0x0007 0x0005; mo 0xBF8E 0x3C00 0x2800; mo 0xBCD8 0xC000 0x4000;
   se 0xBCD8 (bits_or [15; 14]); mo 0xBCD8 0xC000 0x4000; mo 0xBC80 0x001F 0x0004;
   se 0xBC82 (bits_or [15; 14; 13]); se 0xBC82 (bits_or [12; 11; 10]); mo 0xBC80 0x001F 0x0005;
   mo 0xBC82 0x00E0 0x0040; se 0xBC82 (bits_or [4; 3; 2]); cl 0xBCD8 (bits_or [15; 14]);
   mo 0xBCD8 0xC000 0x8000; cl 0xBCD8 (bits_or [15; 14]); cl 0xBD70 (BIT 8); se 0xA466 (BIT 1);
   wr 0xA436 0x836a; cl 0xA438 0xFF00].

Definition phy_config_8125d_1_2 : list phy_op := [
   wr 0xB87C 0x832C; mo 0xB87E 0xFF00 0x0500; mo 0xB106 0x0700 0x0100; mo 0xB206 0x0700 0x0200;
   mo 0xB306 0x0700 0x0300; wr 0xB87C 0x80CB; mo 0xB87E 0xFF00 0x0300; wr 0xBCF4 0x0000;
   wr 0xBCF6 0x0000; wr 0xBC12 0x0000; wr 0xB87C 0x844d; mo 0xB87E 0xFF00 0x0200].

Definition phy_config_8125d_1_3 : list phy_op := [
   mo 0xAC7E 0x01FC 0x00B4; wr 0xB87C 0x8105; mo 0xB87E 0xFF00 0x7A00; wr 0xB87C 0x8117;
   mo 0xB87E 0xFF00 0x3A00; wr 0xB87C 0x8103; mo 0xB87E 0xFF00 0x7400; wr 0xB87C 0x8115;
   mo 0xB87E 0xFF00 0x3400; cl 0xAD40 (bits_or [5; 4]); mo 0xAD66 0x000F 0x0007;
   mo 0xAD68 0xF000 0x8000; mo 0xAD68 0x0F00 0x0500; mo 0xAD68 0x000F 0x0002;
   mo 0xAD6A 0xF000 0x7000; wr 0xAC50 0x01E8; wr 0xA436 0x81FA; mo 0xA438 0xFF00 0x5400;
   mo 0xA864 0x00F0 0x00C0; mo 0xA42C 0x00FF 0x0002; wr 0xA436 0x80E1; mo 0xA438 0xFF00 0x0F00;
   wr 0xA436 0x80DE; mo 0xA438 0xF000 0x0700; se 0xA846 (BIT 7); wr 0xA436 0x80BA;
   wr 0xA438 0x8A04; wr 0xA436 0x80BD; mo 0xA438 0xFF00 0xCA00; wr 0xA436 0x80B7;
   mo 0xA438 0xFF00 0xB300; wr 0xA436 0x80CE; wr 0xA438 0x8A04; wr 0xA436 0x80D1;
   mo 0xA438 0xFF00 0xCA00; wr 0xA436 0x80CB; mo 0xA438 0xFF00 0xBB00; wr 0xA436 0x80A6;
   wr 0xA438 0x4909; wr 0xA436 0x80A8; wr 0xA438 0x05B8; wr 0xA436 0x8200;
   mo 0xA438 0xFF00 0x5800; wr 0xA436 0x8FF1; wr 0xA438 0x7078; wr 0xA436 0x8FF3;
   wr 0xA438 0x5D78; wr 0xA436 0x8FF5; wr 0xA438 0x7862; wr 0xA436 0x8FF7;
   mo 0xA438 0xFF00 0x1400].

Definition phy_config_8125d_1_4 : list phy_op := [
   mo 0xBC3A 0x000F 0x0006; wr 0xA436 0x8064; cl 0xA438 (bits_or [10; 9; 8]); wr 0xA436 0x8067;
   cl 0xA438 (bits_or [10; 9; 8]); wr 0xA436 0x806A; cl 0xA438 (bits_or [10; 9; 8]);
   wr 0xA436 0x806D; cl 0xA438 (bits_or [10; 9; 8]); wr 0xA436 0x8070;
   cl 0xA438 (bits_or [10; 9; 8]); wr 0xA436 0x8073; cl 0xA438 (bits_or [10; 9; 8]);
   wr 0xA436 0x8076; cl 0xA438 (bits_or [10; 9; 8]); wr 0xA436 0x8079;
   cl 0xA438 (bits_or [10; 9; 8]); wr 0xA436 0x807C; cl 0xA438 (bits_or [10; 9; 8]);
   wr 0xA436 0x807F; cl 0xA438 (bits_or [10; 9; 8]); mo 0xBFA0 0xFF70 0x5500; wr 0xBFA2 0x9D00;
   wr 0xA436 0x8165; mo 0xA438 0x0700 0x0200].

Definition rtl8125_hw_phy_config_8125d_1 {D} `{Mmio D} : St (nic D) unit :=
  s <- tp_get id ;;
  phy_seq [
       se 0xA442 (BIT 11)] ;;;
  rtl8125_set_phy_mcu_patch_request ;;;
  phy_seq phy_config_8125d_1_1 ;;;
  rtl8125_clear_phy_mcu_patch_request ;;;
  phy_seq phy_config_8125d_1_2 ;;;
  swhen (HW_HAS_WRITE_PHY_MCU_RAM_CODE s)
      (phy_seq [
            wr 0xB87C 0x8feb; mo 0xB87E 0xFF00 0x0100; wr 0xB87C 0x8fe9; mo 0xB87E 0xFF00 0x0600]) ;;;
  phy_seq phy_config_8125d_1_3 ;;;
  swhen (HW_HAS_WRITE_PHY_MCU_RAM_CODE s)
      (phy_seq [
            wr 0xA436 0x814C; wr 0xA438 0x8455; wr 0xA436 0x814E; wr 0xA438 0x84A6; wr 0xA436 0x8163;
            mo 0xA438 0xFF00 0x0600; wr 0xA436 0x816A; mo 0xA438 0xFF00 0x0500; wr 0xA436 0x8171;
            mo 0xA438 0xFF00 0x1f00]) ;;;
  phy_seq phy_config_8125d_1_4 ;;;
  swhen (HW_HAS_WRITE_PHY_MCU_RAM_CODE s)
      (phy_seq [
            wr 0xA436 0x8019; se 0xA438 (BIT 8); wr 0xA436 0x8FE3; wr 0xA438 0x0005; wr 0xA438 0x0000;
            wr 0xA438 0x00ED; wr 0xA438 0x0502; wr 0xA438 0x0B00; wr 0xA438 0xD401;
            mo 0xA438 0xFF00 0x2900]) ;;;
  phy_seq [
       wr 0xA436 0x8018; mo 0xA438 0xFF00 0x1700] ;;;
  swhen (HW_HAS_WRITE_PHY_MCU_RAM_CODE s)
      (phy_seq [
            wr 0xA436 0x815B; mo 0xA438 0xFF00 0x1700]) ;;;
  phy_seq [
       cl 0xA4E0 (BIT 15); cl 0xA5D4 (BIT 5); cl 0xA654 (BIT 11); se 0xA430 (bits_or [12; 0]);
       se 0xA442 (BIT 7)] ;;;
  swhen (tst (aspm s) && HW_HAS_WRITE_PHY_MCU_RAM_CODE s) rtl8125_enable_phy_aldps.

Definition rtl8125_hw_phy_config_8125d_2 {D} `{Mmio D} : St (nic D) unit :=
  s <- tp_get id ;;
  phy_seq [
       se 0xA442 (BIT 11)] ;;;
  rtl8125_set_phy_mcu_patch_request ;;;
  phy_seq [
       mo 0xBCD8 0xC000 0x4000; se 0xBCD8 (bits_or [15; 14]); mo 0xBCD8 0xC000 0x4000;
       mo 0xBC80 0x001F 0x0004; se 0xBC82 (bits_or [15; 14; 13]); se 0xBC82 (bits_or [12; 11; 10]);
       mo 0xBC80 0x001F 0x0005; mo 0xBC82 0x00E0 0x0040; se 0xBC82 (bits_or [4; 3; 2]);
       cl 0xBCD8 (bits_or [15; 14]); mo 0xBCD8 0xC000 0x8000; cl 0xBCD8 (bits_or [15; 14])] ;;;
  rtl8125_clear_phy_mcu_patch_request ;;;
  phy_seq [
       mo 0xAC7E 0x01FC 0x00B4; wr 0xB87C 0x8105; mo 0xB87E 0xFF00 0x7A00; wr 0xB87C 0x8117;
       mo 0xB87E 0xFF00 0x3A00; wr 0xB87C 0x8103; mo 0xB87E 0xFF00 0x7400; wr 0xB87C 0x8115;
       mo 0xB87E 0xFF00 0x3400; wr 0xB87C 0x8FEB; mo 0xB87E 0xFF00 0x0500; wr 0xB87C 0x8FEA;
       mo 0xB87E 0xFF00 0x0700; wr 0xB87C 0x80D6; mo 0xB87E 0xFF00 0xEF00; cl 0xA5D4 (BIT 5);
       cl 0xA654 (BIT 11); cl 0xA448 (BIT 10); cl 0xA586 (BIT 10); se 0xA430 (bits_or [12; 0]);
       se 0xA442 (BIT 7)] ;;;
  swhen (tst (aspm s) && HW_HAS_WRITE_PHY_MCU_RAM_CODE s) rtl8125_enable_phy_aldps.
