(* ===== verification/RtlChip.v ===== *)
(** * r8125: microcode and tuning, chip by chip

    The dispatchers of src/.../realtek/r8125/r8125_n.c that pick the MAC
    microcode, the PHY microcode and the tuning of the chip: [mcfg] is the
    CFG_METHOD number found from the version register.  The break points of the
    MAC microcode and the settings of the PCIe PHY are here too. *)
From S2P Require Import Prelude RtlBase RtlHw RtlIrq RtlWol RtlMcu RtlRamCode RtlPhyConfig.
Local Open Scope Z_scope.
Local Open Scope rtl_scope.

Section Chip.
Context {D : Type} `{HM : Mmio D}.
Abbreviation ST := (St (nic D)).

(** ** MAC microcode *)

(** The break points, written after the microcode. *)
Definition mac_bps (bps : list (Z * Z)) : ST unit :=
  sfor bps (fun '(reg, val) => rtl8125_mac_ocp_write reg val).

Definition rtl8125_set_mac_mcu_8125a_2 : ST unit :=
  update_mac_mcu mcu_patch_code_8125a_2 ;;;
  mac_bps
    [(0xFC26, 0x8000); (0xFC2A, 0x0540); (0xFC2E, 0x0A06); (0xFC30, 0x0EB8); (0xFC32, 0x3A5C);
     (0xFC34, 0x10A8); (0xFC40, 0x0D54); (0xFC42, 0x0E24); (0xFC48, 0x307A)].

Definition rtl8125_set_mac_mcu_8125b_2 : ST unit :=
  update_mac_mcu mcu_patch_code_8125b_2 ;;;
  mac_bps
    [(0xFC26, 0x8000); (0xFC28, 0x13E6); (0xFC2A, 0x0812); (0xFC2C, 0x248C); (0xFC2E, 0x12DA);
     (0xFC30, 0x4A20); (0xFC32, 0x47A0); (0xFC36, 0x097E); (0xFC38, 0x462C); (0xFC3A, 0x222E);
     (0xFC3C, 0x21F6); (0xFC48, 0x07BF)].

Definition rtl8125_set_mac_mcu_8125bp_1 : ST unit :=
  update_mac_mcu mcu_patch_code_8125bp_1 ;;;
  mac_bps
    [(0xFC26, 0x8000); (0xFC28, 0x0f10); (0xFC2A, 0x435c); (0xFC2C, 0x4112); (0xFC2E, 0x3F92);
     (0xFC30, 0x402E); (0xFC32, 0x3FD6); (0xFC34, 0x4018); (0xFC48, 0x007F)].

Definition rtl8125_set_mac_mcu_8125bp_2 : ST unit :=
  update_mac_mcu mcu_patch_code_8125bp_2 ;;;
  mac_bps
    [(0xFC26, 0x8000); (0xFC28, 0x413C); (0xFC2A, 0x438A); (0xFC2C, 0x143A); (0xFC2E, 0x3FC2);
     (0xFC30, 0x4058); (0xFC32, 0x22E4); (0xFC48, 0x003F)].

Definition rtl8125_set_mac_mcu_8125d_1 : ST unit :=
  update_mac_mcu mcu_patch_code_8125d_1 ;;;
  mac_bps
    [(0xFC26, 0x8000); (0xFC28, 0x14A2); (0xFC2A, 0x2376); (0xFC48, 0x0003)].

Definition rtl8125_set_mac_mcu_8125d_2 : ST unit :=
  update_mac_mcu mcu_patch_code_8125d_2 ;;;
  mac_bps
    [(0xFC26, 0x8000); (0xFC28, 0x2382); (0xFC48, 0x0001)].

Definition rtl8125_set_mac_mcu_8125cp_1 : ST unit :=
  update_mac_mcu mcu_patch_code_8125cp_1 ;;;
  mac_bps
    [(0xFC26, 0x8000); (0xFC28, 0x2436); (0xFC48, 0x0001)].

Definition rtl8125_hw_mac_mcu_config : ST unit :=
  s <- tp_get id ;;
  if NotWrMcuPatchCode s =? 1 then sret tt
  else
    rtl8125_hw_disable_mac_mcu_bps ;;;
    v <- rtl8125_get_hw_mcu_patch_code_ver ;;
    smodify (set_patch_code_ver v) ;;;
    let m := mcfg s in
    if (m =? 3) || (m =? 6) then rtl8125_set_mac_mcu_8125a_2
    else if (m =? 5) || (m =? 7) then rtl8125_set_mac_mcu_8125b_2
    else if m =? 8 then rtl8125_set_mac_mcu_8125bp_1
    else if m =? 9 then rtl8125_set_mac_mcu_8125bp_2
    else if m =? 10 then rtl8125_set_mac_mcu_8125d_1
    else if m =? 11 then rtl8125_set_mac_mcu_8125d_2
    else if m =? 12 then rtl8125_set_mac_mcu_8125cp_1
    else sret tt.

Definition rtl8125_hw_init : ST unit :=
  rtl8125_enable_aspm_clkreq_lock false ;;;
  rtl8125_enable_force_clkreq false ;;;
  rtl8125_set_reg_oobs_en_sel true ;;;
  v <- rtl8125_mac_ocp_read 0xD40A ;;
  rtl8125_mac_ocp_write 0xD40A (Z.land v (Z.lnot (BIT 4))) ;;;
  rtl8125_hw_mac_mcu_config ;;;
  s <- tp_get id ;;
  swhen (existsb (Z.eqb (mcfg s)) [2; 3; 6]) rtl8125_disable_ocp_phy_power_saving ;;;
  csi_tmp <- rtl8125_csi_read 0x108 ;;
  rtl8125_csi_write 0x108 (Z.lor csi_tmp (BIT 20)) ;;;
  rtl8125_enable_cfg9346_write ;;;
  rtl8125_disable_linkchg_wakeup ;;;
  rtl8125_disable_cfg9346_write ;;;
  rtl8125_disable_magic_packet ;;;
  rtl8125_disable_d0_speedup ;;;
  rtl8125_set_pci_pme 0 ;;;
  swhen (s0_magic_packet s =? 1) rtl8125_enable_magic_packet.

(** ** The PCIe PHY *)

(** [rtl8125_ephy_write] and [ClearAndSetPCIePhyBit] (with an empty mask,
    [ClearPCIePhyBit] and [SetPCIePhyBit]). *)
Inductive ephy_op := ew (reg value : Z) | em (reg clearmask setmask : Z).

Definition run_ephy_op (op : ephy_op) : ST unit :=
  match op with
  | ew reg value => rtl8125_ephy_write reg value
  | em reg clearmask setmask => ClearAndSetPCIePhyBit reg clearmask setmask
  end.

Definition ephy_config (m : Z) : list ephy_op :=
  if m =? 2 then [
    ew 0x01 0xA812; ew 0x09 0x520C; ew 0x04 0xD000; ew 0x0D 0xF702; ew 0x0A 0x8653;
    ew 0x06 0x001E; ew 0x08 0x3595; ew 0x20 0x9455; ew 0x21 0x99FF; ew 0x02 0x6046;
    ew 0x29 0xFE00; ew 0x23 0xAB62; ew 0x41 0xA80C; ew 0x49 0x520C; ew 0x44 0xD000;
    ew 0x4D 0xF702; ew 0x4A 0x8653; ew 0x46 0x001E; ew 0x48 0x3595; ew 0x60 0x9455;
    ew 0x61 0x99FF; ew 0x42 0x6046; ew 0x69 0xFE00; ew 0x63 0xAB62]
  else
  if (m =? 3) || (m =? 6) then [
    ew 0x04 0xD000; ew 0x0A 0x8653; ew 0x23 0xAB66; ew 0x20 0x9455; ew 0x21 0x99FF;
    ew 0x29 0xFE04; ew 0x44 0xD000; ew 0x4A 0x8653; ew 0x63 0xAB66; ew 0x60 0x9455;
    ew 0x61 0x99FF; ew 0x69 0xFE04; em 0x2A (bits_or [14; 13; 12]) (bits_or [13; 12]);
    em 0x19 (BIT 6) 0; em 0x1B 0 (bits_or [11; 10; 9]); em 0x1B (bits_or [14; 13; 12]) 0;
    ew 0x02 0x6042; ew 0x06 0x0014; em 0x6A (bits_or [14; 13; 12]) (bits_or [13; 12]);
    em 0x59 (BIT 6) 0; em 0x5B 0 (bits_or [11; 10; 9]); em 0x5B (bits_or [14; 13; 12]) 0;
    ew 0x42 0x6042; ew 0x46 0x0014]
  else
  if m =? 4 then [
    ew 0x06 0x001F; ew 0x0A 0xB66B; ew 0x01 0xA852; ew 0x24 0x0008; ew 0x2F 0x6052;
    ew 0x0D 0xF716; ew 0x20 0xD477; ew 0x21 0x4477; ew 0x22 0x0013; ew 0x23 0xBB66;
    ew 0x0B 0xA909; ew 0x29 0xFF04; ew 0x1B 0x1EA0; ew 0x46 0x001F; ew 0x4A 0xB66B;
    ew 0x41 0xA84A; ew 0x64 0x000C; ew 0x6F 0x604A; ew 0x4D 0xF716; ew 0x60 0xD477;
    ew 0x61 0x4477; ew 0x62 0x0013; ew 0x63 0xBB66; ew 0x4B 0xA909; ew 0x69 0xFF04;
    ew 0x5B 0x1EA0]
  else
  if (m =? 5) || (m =? 7) then [
    ew 0x0B 0xA908; ew 0x1E 0x20EB; ew 0x22 0x0023; ew 0x02 0x60C2; ew 0x29 0xFF00;
    ew 0x4B 0xA908; ew 0x5E 0x28EB; ew 0x62 0x0023; ew 0x42 0x60C2; ew 0x69 0xFF00]
  else
  [].

Definition rtl8125_hw_ephy_config : ST unit :=
  m <- tp_get (fun s => mcfg s) ;; sfor (ephy_config m) run_ephy_op.

(** ** PHY microcode *)

Definition rtl8125_real_set_phy_mcu_8125b_1 : ST unit :=
  rtl8125_set_phy_mcu_ram_code phy_mcu_ram_code_8125b_1.

Definition rtl8125_real_set_phy_mcu_8125b_2 : ST unit :=
  rtl8125_set_phy_mcu_ram_code phy_mcu_ram_code_8125b_2.

Definition rtl8125_real_set_phy_mcu_8125d_1_1 : ST unit :=
  rtl8125_set_phy_mcu_ram_code phy_mcu_ram_code_8125d_1_1.

Definition rtl8125_real_set_phy_mcu_8125d_1_2 : ST unit :=
  rtl8125_set_phy_mcu_ram_code phy_mcu_ram_code_8125d_1_2.

Definition rtl8125_real_set_phy_mcu_8125d_1_3 : ST unit :=
  rtl8125_set_phy_mcu_ram_code phy_mcu_ram_code_8125d_1_3.

Definition rtl8125_real_set_phy_mcu_8125d_2_1 : ST unit :=
  rtl8125_set_phy_mcu_ram_code phy_mcu_ram_code_8125d_2_1.

Definition rtl8125_real_set_phy_mcu_8125d_2_2 : ST unit :=
  rtl8125_set_phy_mcu_ram_code phy_mcu_ram_code_8125d_2_2.

Definition rtl8125_real_set_phy_mcu_8125bp_1_1 : ST unit :=
  rtl8125_set_phy_mcu_ram_code phy_mcu_ram_code_8125bp_1_1.

Definition rtl8125_real_set_phy_mcu_8125bp_1_2 : ST unit :=
  rtl8125_set_phy_mcu_ram_code phy_mcu_ram_code_8125bp_1_2.

Definition rtl8125_real_set_phy_mcu_8125cp_1_1 : ST unit :=
  rtl8125_set_phy_mcu_ram_code phy_mcu_ram_code_8125cp_1_1.

Definition rtl8125_set_phy_mcu_8125d_1_efuse : ST unit :=
  rtl8125_set_phy_mcu_ram_code phy_mcu_ram_code_8125d_1_efuse.

Definition rtl8125_set_phy_mcu_8125a_1 : ST unit :=
  with_patch_request rtl8125_real_set_phy_mcu_8125a_1.

Definition rtl8125_set_phy_mcu_8125a_2 : ST unit :=
  with_patch_request rtl8125_real_set_phy_mcu_8125a_2.

Definition rtl8125_set_phy_mcu_8125b_1 : ST unit :=
  with_patch_request rtl8125_real_set_phy_mcu_8125b_1.

Definition rtl8125_set_phy_mcu_8125b_2 : ST unit :=
  with_patch_request rtl8125_real_set_phy_mcu_8125b_2.

Definition rtl8125_set_phy_mcu_8125d_1 : ST unit :=
  with_patch_request rtl8125_real_set_phy_mcu_8125d_1_1 ;;;
  with_patch_request rtl8125_real_set_phy_mcu_8125d_1_2 ;;;
  with_patch_request rtl8125_real_set_phy_mcu_8125d_1_3.

Definition rtl8125_set_phy_mcu_8125d_2 : ST unit :=
  with_patch_request rtl8125_real_set_phy_mcu_8125d_2_1 ;;;
  with_patch_request rtl8125_real_set_phy_mcu_8125d_2_2.

Definition rtl8125_set_phy_mcu_8125bp_1 : ST unit :=
  with_patch_request rtl8125_real_set_phy_mcu_8125bp_1_1 ;;;
  with_patch_request rtl8125_real_set_phy_mcu_8125bp_1_2.

Definition rtl8125_set_phy_mcu_8125cp_1 : ST unit :=
  with_patch_request rtl8125_real_set_phy_mcu_8125cp_1_1.

(** The microcode of the chip; the 8125BP_2 has none. *)
Definition set_phy_mcu (m : Z) : ST unit :=
  if m =? 2 then rtl8125_set_phy_mcu_8125a_1
  else if (m =? 3) || (m =? 6) then rtl8125_set_phy_mcu_8125a_2
  else if m =? 4 then rtl8125_set_phy_mcu_8125b_1
  else if (m =? 5) || (m =? 7) then rtl8125_set_phy_mcu_8125b_2
  else if m =? 8 then rtl8125_set_phy_mcu_8125bp_1
  else if m =? 10 then rtl8125_set_phy_mcu_8125d_1
  else if m =? 11 then rtl8125_set_phy_mcu_8125d_2
  else if m =? 12 then rtl8125_set_phy_mcu_8125cp_1
  else sret tt.

Definition rtl8125_init_hw_phy_mcu : ST unit :=
  s <- tp_get id ;;
  if NotWrRamCodeToMicroP s =? 1 then sret tt
  else if HW_HAS_WRITE_PHY_MCU_RAM_CODE s then sret tt
  else
    require_disable_phy_disable_mode <-
      (if HW_SUPPORT_CHECK_PHY_DISABLE_MODE s then rtl8125_is_in_phy_disable_mode else sret false) ;;
    swhen require_disable_phy_disable_mode rtl8125_disable_phy_disable_mode ;;;
    set_phy_mcu (mcfg s) ;;;
    swhen require_disable_phy_disable_mode rtl8125_enable_phy_disable_mode ;;;
    rtl8125_write_hw_phy_mcu_code_ver ;;;
    rtl8125_mdio_write 0x1F 0x0000 ;;;
    smodify (set_HwHasWr 1).

(** ** PHY tuning *)

(** The [switch] of [rtl8125_hw_phy_config]. *)
Definition phy_config (m : Z) : ST unit :=
  if m =? 2 then rtl8125_hw_phy_config_8125a_1
  else if (m =? 3) || (m =? 6) then rtl8125_hw_phy_config_8125a_2
  else if m =? 4 then rtl8125_hw_phy_config_8125b_1
  else if (m =? 5) || (m =? 7) then rtl8125_hw_phy_config_8125b_2
  else if m =? 8 then rtl8125_hw_phy_config_8125bp_1
  else if m =? 9 then rtl8125_hw_phy_config_8125bp_2
  else if m =? 10 then rtl8125_hw_phy_config_8125d_1
  else if m =? 11 then rtl8125_hw_phy_config_8125d_2
  else if m =? 12 then rtl8125_hw_phy_config_8125cp_1
  else sret tt.

End Chip.
