(* ===== verification/RtlEeprom.v ===== *)
(** * r8125: the serial EEPROM

    src/.../realtek/r8125/rtl_eeprom.c: words of a 93C46 or 93C56 EEPROM are
    read and written bit by bit over four pins of the Cfg9346 register. *)
From S2P Require Import Prelude RtlBase RtlHw RtlIrq.
Local Open Scope Z_scope.
Local Open Scope rtl_scope.

Definition EEPROM_TYPE_NONE : Z := 0.
Definition EEPROM_TYPE_93C46 : Z := 1.
Definition EEPROM_TYPE_93C56 : Z := 2.
Definition Cfg9346 : Z := 0x50.
Definition Cfg9346_EEDO : Z := BIT 0.
Definition Cfg9346_EEDI : Z := BIT 1.
Definition Cfg9346_EESK : Z := BIT 2.
Definition Cfg9346_EECS : Z := BIT 3.
Definition Cfg9346_EEM1 : Z := BIT 7.
Definition RxCfg_9356SEL : Z := BIT 6.
Definition RTL_EEPROM_READ_OPCODE : Z := 6.
Definition RTL_EEPROM_WRITE_OPCODE : Z := 5.
Definition RTL_EEPROM_ERASE_OPCODE : Z := 7.
Definition RTL_EEPROM_EWEN_OPCODE : Z := 19.
Definition RTL_EEPROM_EWDS_OPCODE : Z := 16.

Section Eeprom.
Context {D : Type} `{HM : Mmio D}.
Abbreviation ST := (St (nic D)).

(** The functions that take [u8 *x] return the new value of [x]. *)
Definition rtl8125_raise_clock (x : Z) : ST Z :=
  let x := u8 (Z.lor x Cfg9346_EESK) in RTL_W8 Cfg9346 x ;;; sret x.

Definition rtl8125_lower_clock (x : Z) : ST Z :=
  let x := u8 (Z.land x (Z.lnot Cfg9346_EESK)) in RTL_W8 Cfg9346 x ;;; sret x.

(** The [do { ... mask >>= 1 } while (mask)] loop; [mask] starts as
    [1 << (count - 1)], so [count] rounds are enough. *)
Fixpoint shift_out_loop (fuel : nat) (data mask x : Z) : ST Z :=
  match fuel with
  | O => sret x
  | S fuel' =>
      let x := u8 (if has data mask then Z.lor x Cfg9346_EEDI
                   else Z.land x (Z.lnot Cfg9346_EEDI)) in
      RTL_W8 Cfg9346 x ;;;
      x <- rtl8125_raise_clock x ;;
      x <- rtl8125_lower_clock x ;;
      let mask := Z.shiftr mask 1 in
      if tst mask then shift_out_loop fuel' data mask x else sret x
  end.

Definition rtl8125_shift_out_bits (data count : Z) : ST unit :=
  let mask := Z.shiftl 1 (count - 1) in
  x <- RTL_R8 Cfg9346 ;;
  let x := u8 (Z.land x (Z.lnot (Z.lor Cfg9346_EEDI Cfg9346_EEDO))) in
  x <- shift_out_loop (Z.to_nat count) data mask x ;;
  RTL_W8 Cfg9346 (Z.land x (Z.lnot Cfg9346_EEDI)).

Fixpoint shift_in_loop (n : nat) (d x : Z) : ST Z :=
  match n with
  | O => sret d
  | S n' =>
      let d := u16 (Z.shiftl d 1) in
      rtl8125_raise_clock x ;;;
      x <- RTL_R8 Cfg9346 ;;
      let x := u8 (Z.land x (Z.lnot Cfg9346_EEDI)) in
      let d := if has x Cfg9346_EEDO then Z.lor d 1 else d in
      x <- rtl8125_lower_clock x ;;
      shift_in_loop n' d x
  end.

Definition rtl8125_shift_in_bits : ST Z :=
  x <- RTL_R8 Cfg9346 ;;
  let x := u8 (Z.land x (Z.lnot (Z.lor Cfg9346_EEDI Cfg9346_EEDO))) in
  shift_in_loop 16 0 x.

Definition rtl8125_stand_by : ST unit :=
  x <- RTL_R8 Cfg9346 ;;
  let x := u8 (Z.land x (Z.lnot (Z.lor Cfg9346_EECS Cfg9346_EESK))) in
  RTL_W8 Cfg9346 x ;;;
  RTL_W8 Cfg9346 (Z.lor x Cfg9346_EECS).

Definition rtl8125_set_eeprom_sel_low : ST unit :=
  RTL_W8 Cfg9346 Cfg9346_EEM1 ;;;
  RTL_W8 Cfg9346 (Z.lor Cfg9346_EEM1 Cfg9346_EESK) ;;;
  RTL_W8 Cfg9346 Cfg9346_EEM1.

Definition rtl8125_eeprom_cleanup : ST unit :=
  x <- RTL_R8 Cfg9346 ;;
  let x := u8 (Z.land x (Z.lnot (Z.lor Cfg9346_EEDI Cfg9346_EECS))) in
  RTL_W8 Cfg9346 x ;;;
  x <- rtl8125_raise_clock x ;;
  rtl8125_lower_clock x ;;;
  sret tt.

(** [true] for the return value 0, [false] for -1. *)
Definition rtl8125_eeprom_cmd_done : ST bool :=
  rtl8125_stand_by ;;;
  poll (Z.to_nat 50000) (x <- RTL_R8 Cfg9346 ;; sret (has x Cfg9346_EEDO)).

(** [addr_sz] keeps its initial value 6 for the other types. *)
Definition addr_sz (type : Z) : Z := if type =? EEPROM_TYPE_93C56 then 8 else 6.

Definition w_dummy_addr (type : Z) : Z := if type =? EEPROM_TYPE_93C56 then 6 else 4.

Definition rtl8125_eeprom_read_sc (reg : Z) : ST Z :=
  let reg := u16 reg in
  type <- tp_get (fun s => eeprom_type s) ;;
  if type =? EEPROM_TYPE_NONE then sret 0xffff
  else
    RTL_W8 Cfg9346 (Z.lor Cfg9346_EEM1 Cfg9346_EECS) ;;;
    rtl8125_shift_out_bits RTL_EEPROM_READ_OPCODE 3 ;;;
    rtl8125_shift_out_bits reg (addr_sz type) ;;;
    data <- rtl8125_shift_in_bits ;;
    rtl8125_eeprom_cleanup ;;;
    RTL_W8 Cfg9346 0 ;;;
    sret data.

Definition rtl8125_eeprom_write_sc (reg data : Z) : ST unit :=
  let reg := u16 reg in
  let data := u16 data in
  type <- tp_get (fun s => eeprom_type s) ;;
  if type =? EEPROM_TYPE_NONE then sret tt
  else
    RTL_W8 Cfg9346 (Z.lor Cfg9346_EEM1 Cfg9346_EECS) ;;;
    rtl8125_shift_out_bits RTL_EEPROM_EWEN_OPCODE 5 ;;;
    rtl8125_shift_out_bits reg (w_dummy_addr type) ;;;
    rtl8125_stand_by ;;;
    rtl8125_shift_out_bits RTL_EEPROM_ERASE_OPCODE 3 ;;;
    rtl8125_shift_out_bits reg (addr_sz type) ;;;
    erased <- rtl8125_eeprom_cmd_done ;;
    if negb erased then sret tt
    else
      rtl8125_stand_by ;;;
      rtl8125_shift_out_bits RTL_EEPROM_WRITE_OPCODE 3 ;;;
      rtl8125_shift_out_bits reg (addr_sz type) ;;;
      rtl8125_shift_out_bits data 16 ;;;
      written <- rtl8125_eeprom_cmd_done ;;
      if negb written then sret tt
      else
        rtl8125_stand_by ;;;
        rtl8125_shift_out_bits RTL_EEPROM_EWDS_OPCODE 5 ;;;
        rtl8125_shift_out_bits reg (w_dummy_addr type) ;;;
        rtl8125_eeprom_cleanup ;;;
        RTL_W8 Cfg9346 0.

(** The label [out_no_eeprom], with the word read from the EEPROM or 0. *)
Definition out_no_eeprom (magic : Z) : ST unit :=
  if negb (magic =? 0x8129) && negb (magic =? 0x8128)
  then smodify (set_eeprom (MkEeprom EEPROM_TYPE_NONE 0))
  else sret tt.

Definition rtl8125_eeprom_type : ST unit :=
  m <- tp_get (fun s => mcfg s) ;;
  if m =? CFG_METHOD_DEFAULT then out_no_eeprom 0
  else
    d2 <- RTL_R8 0xD2 ;;
    if has d2 0x04 then out_no_eeprom 0
    else
      rc <- RTL_R32 RxConfig ;;
      smodify (set_eeprom (if has rc RxCfg_9356SEL then MkEeprom EEPROM_TYPE_93C56 256
                           else MkEeprom EEPROM_TYPE_93C46 128)) ;;;
      magic <- rtl8125_eeprom_read_sc 0 ;;
      out_no_eeprom magic.

End Eeprom.
