(* ===== verification/RtlFiber.v ===== *)
(** * r8125: the fibre PHY

    src/.../realtek/r8125/r8125_fiber.c: the RTL8221D behind two GPIO pins is
    reached with bit-banged clause 45 MDIO frames; the MAC OCP registers 0xDC4C
    (direction), 0xDC52 (output: bit 7 clock, bit 2 data) and 0xDC58 (input)
    are the pins. *)
From S2P Require Import Prelude RtlBase RtlHw.
Local Open Scope Z_scope.
Local Open Scope rtl_scope.

Definition FIBER_MODE_NIC_ONLY : Z := 0.
Definition FIBER_MODE_RTL8125D_RTL8221D : Z := 1.
Definition FIBER_STAT_NOT_CHECKED : Z := 0.
Definition FIBER_STAT_DISCONNECT : Z := 1.
Definition FIBER_STAT_CONNECT_GPO_C45 : Z := 2.

Definition R8125_FIBER_ST : Z := 1.
Definition R8125_FIBER_TA : Z := 2.
Definition R8125_FIBER_MDIO_C45 : Z := BIT 15.
Definition R8125_FIBER_C45_ST : Z := Z.lor R8125_FIBER_MDIO_C45 0.
Definition R8125_FIBER_C45_OP_ADDR : Z := Z.lor R8125_FIBER_MDIO_C45 0.
Definition R8125_FIBER_C45_OP_W : Z := Z.lor R8125_FIBER_MDIO_C45 1.
Definition R8125_FIBER_C45_OP_R : Z := Z.lor R8125_FIBER_MDIO_C45 3.
Definition RTL8221D_PHY_ID_1 : Z := 0x001C.
Definition RTL8221D_PHY_ID_2 : Z := 0xC849.
Definition SPEED_2500 : Z := 2500.

Definition R8125_MAKE_C45_ADDR (mmd addr : Z) : Z := Z.lor (Z.shiftl mmd 16) addr.

(** The bit numbers [count - 1] down to [0]. *)
Definition bits_down (count : nat) : list Z := rev (map Z.of_nat (seq 0 count)).

Section Fiber.
Context {D : Type} `{HM : Mmio D}.
Abbreviation ST := (St (nic D)).

Definition rtl8125_fiber_set_mdc_gpio_c45 (pu : bool) : ST unit :=
  if pu then rtl8125_set_mac_ocp_bit 0xDC52 (BIT 7) else rtl8125_clear_mac_ocp_bit 0xDC52 (BIT 7).

Definition rtl8125_fiber_set_mdc (pu : bool) : ST unit := rtl8125_fiber_set_mdc_gpio_c45 pu.

Definition rtl8125_fiber_set_mdcDownUp : ST unit :=
  rtl8125_fiber_set_mdc false ;;; rtl8125_fiber_set_mdc true.

Definition rtl8125_fiber_set_mdio_bit_gpio_c45 (pu : bool) : ST unit :=
  (if pu then rtl8125_set_mac_ocp_bit 0xDC52 (BIT 2)
   else rtl8125_clear_mac_ocp_bit 0xDC52 (BIT 2)) ;;;
  rtl8125_fiber_set_mdcDownUp.

Definition rtl8125_fiber_set_mdio_bit (pu : bool) : ST unit :=
  rtl8125_fiber_set_mdio_bit_gpio_c45 pu.

(** [!!(value & BIT(2))], 0 or 1. *)
Definition rtl8125_fiber_get_mdio_bit_gpio_c45 : ST Z :=
  rtl8125_fiber_set_mdcDownUp ;;;
  v <- rtl8125_mac_ocp_read 0xDC58 ;;
  sret (if has v (BIT 2) then 1 else 0).

Definition rtl8125_fiber_get_mdio_bit : ST Z := rtl8125_fiber_get_mdio_bit_gpio_c45.

Definition rtl8125_fiber_shift_bit_in (val : Z) (count : nat) : ST unit :=
  sfor (bits_down count) (fun i => rtl8125_fiber_set_mdio_bit (has (u32 val) (BIT i))).

(** [data += get_mdio_bit << i] for [i] from the list down to 0. *)
Fixpoint fiber_shift_loop (idx : list Z) (data : Z) : ST Z :=
  match idx with
  | [] => sret data
  | i :: idx' =>
      b <- rtl8125_fiber_get_mdio_bit ;;
      fiber_shift_loop idx' (u16 (data + Z.shiftl b i))
  end.

Definition rtl8125_fiber_shift_bit_out : ST Z := fiber_shift_loop (bits_down 16) 0.

Definition rtl8125_fiber_dir_gpio_c45 (output_mode : bool) : ST unit :=
  if output_mode then rtl8125_set_mac_ocp_bit 0xDC4C (BIT 2)
  else rtl8125_clear_mac_ocp_bit 0xDC4C (BIT 2).

Definition rtl8125_fiber_dir (output_mode : bool) : ST unit := rtl8125_fiber_dir_gpio_c45 output_mode.

Definition rtl8125_fiber_cmd (cmd phy_addr reg : Z) : ST unit :=
  rtl8125_fiber_dir true ;;;
  rtl8125_fiber_shift_bit_in 0xFFFFFFFF 32 ;;;
  (if has cmd R8125_FIBER_MDIO_C45 then rtl8125_fiber_shift_bit_in R8125_FIBER_C45_ST 2
   else rtl8125_fiber_shift_bit_in R8125_FIBER_ST 2) ;;;
  rtl8125_fiber_shift_bit_in cmd 2 ;;;
  rtl8125_fiber_shift_bit_in (u8 phy_addr) 5 ;;;
  rtl8125_fiber_shift_bit_in reg 5.

Definition rtl8125_fiber_cmdAddr (phy_addr reg : Z) : ST Z :=
  let dev_addr := u8 (Z.land (Z.shiftr (u32 reg) 16) 0x1F) in
  let addr := u16 reg in
  rtl8125_fiber_cmd R8125_FIBER_C45_OP_ADDR phy_addr dev_addr ;;;
  rtl8125_fiber_shift_bit_in R8125_FIBER_TA 2 ;;;
  rtl8125_fiber_shift_bit_in addr 16 ;;;
  rtl8125_fiber_dir false ;;;
  rtl8125_fiber_get_mdio_bit ;;;
  sret dev_addr.

Definition rtl8125_fiber_reset_gpio_c45 : ST unit :=
  rtl8125_set_mac_ocp_bit 0xDC4C (Z.lor (BIT 7) (BIT 2)) ;;;
  rtl8125_clear_mac_ocp_bit 0xDC52 (BIT 7) ;;;
  rtl8125_set_mac_ocp_bit 0xDC52 (BIT 2).

Definition rtl8125_fiber_write_common (val : Z) : ST unit :=
  rtl8125_fiber_shift_bit_in R8125_FIBER_TA 2 ;;;
  rtl8125_fiber_shift_bit_in (u16 val) 16 ;;;
  rtl8125_fiber_dir false ;;;
  rtl8125_fiber_get_mdio_bit ;;;
  sret tt.

Definition rtl8125_fiber_mdio_write_gpio_c45 (reg val phy_addr : Z) : ST unit :=
  reg <- rtl8125_fiber_cmdAddr phy_addr reg ;;
  rtl8125_fiber_cmd R8125_FIBER_C45_OP_W phy_addr reg ;;;
  rtl8125_fiber_write_common val.

Definition rtl8125_fiber_read_common : ST Z :=
  rtl8125_fiber_dir false ;;;
  rtl8125_fiber_get_mdio_bit ;;;
  data <- rtl8125_fiber_shift_bit_out ;;
  rtl8125_fiber_get_mdio_bit ;;;
  sret data.

Definition rtl8125_fiber_mdio_read_gpio_c45 (reg phy_addr : Z) : ST Z :=
  reg <- rtl8125_fiber_cmdAddr phy_addr reg ;;
  rtl8125_fiber_cmd R8125_FIBER_C45_OP_R phy_addr reg ;;;
  rtl8125_fiber_read_common.

Definition rtl8125_fiber_mdio_write (reg val : Z) : ST unit :=
  stat <- tp_get (fun s => HwFiberStat s) ;;
  if stat =? FIBER_STAT_CONNECT_GPO_C45 then rtl8125_fiber_mdio_write_gpio_c45 reg val 0
  else sret tt.

Definition rtl8125_fiber_mdio_read (reg : Z) : ST Z :=
  stat <- tp_get (fun s => HwFiberStat s) ;;
  if stat =? FIBER_STAT_CONNECT_GPO_C45 then rtl8125_fiber_mdio_read_gpio_c45 reg 0
  else sret 0xffff.

Definition rtl8125_fiber_clear_and_set_phy_bit (addr clearmask setmask : Z) : ST unit :=
  v <- rtl8125_fiber_mdio_read addr ;;
  rtl8125_fiber_mdio_write addr (u16 (clear_set v (u16 clearmask) (u16 setmask))).

Definition rtl8125_fiber_clear_phy_bit (addr mask : Z) : ST unit :=
  rtl8125_fiber_clear_and_set_phy_bit addr mask 0.

Definition rtl8125_fiber_set_phy_bit (addr mask : Z) : ST unit :=
  rtl8125_fiber_clear_and_set_phy_bit addr 0 mask.

(** [do { read; Timeout++ } while ((value & BIT_15) && Timeout < 20)]: at most
    twenty reads, left when the bit is clear. *)
Definition rtl8125_fiber_phy_reset_8221d : ST unit :=
  rtl8125_fiber_set_phy_bit (R8125_MAKE_C45_ADDR 1 0) (BIT 15) ;;;
  poll 20 (v <- rtl8125_fiber_mdio_read (R8125_MAKE_C45_ADDR 1 0) ;; sret (negb (has v (BIT 15)))) ;;;
  sret tt.

Definition rtl8125_fiber_phy_reset : ST unit :=
  ver <- tp_get (fun s => HwFiberModeVer s) ;;
  swhen (ver =? FIBER_MODE_RTL8125D_RTL8221D) rtl8125_fiber_phy_reset_8221d.

Definition rtl8125_fiber_set_rtl8221d_phy_mode (mode : Z) : ST unit :=
  let mode := Z.land (u16 mode) 0x3f in
  rtl8125_fiber_clear_phy_bit (R8125_MAKE_C45_ADDR 30 0x75F3) (BIT 0) ;;;
  rtl8125_fiber_clear_and_set_phy_bit (R8125_MAKE_C45_ADDR 30 0x697A) 0x003F mode.

Definition rtl8125_fiber_set_phy_mode (mode : Z) : ST unit :=
  ver <- tp_get (fun s => HwFiberModeVer s) ;;
  swhen (ver =? FIBER_MODE_RTL8125D_RTL8221D) (rtl8125_fiber_set_rtl8221d_phy_mode mode).

Definition rtl8125_hw_rtl8221d_phy_config : ST unit :=
  rtl8125_fiber_reset_gpio_c45 ;;;
  spd <- tp_get (fun s => speed s) ;;
  rtl8125_fiber_set_phy_mode (if spd =? SPEED_2500 then 0x02 else 0x04) ;;;
  rtl8125_fiber_clear_phy_bit (R8125_MAKE_C45_ADDR 7 0x3C) (Z.lor (BIT 2) (BIT 1)) ;;;
  rtl8125_fiber_clear_phy_bit (R8125_MAKE_C45_ADDR 7 0x3E) (Z.lor (BIT 1) (BIT 0)) ;;;
  rtl8125_fiber_phy_reset.

Definition rtl8125_hw_fiber_phy_config : ST unit :=
  ver <- tp_get (fun s => HwFiberModeVer s) ;;
  swhen (ver =? FIBER_MODE_RTL8125D_RTL8221D) rtl8125_hw_rtl8221d_phy_config.

(** [n] more identity checks; both identifier words must read back each time.
    The second read is skipped when the first differs. *)
Fixpoint fiber_check_id (n : nat) : ST Z :=
  match n with
  | O => sret FIBER_STAT_CONNECT_GPO_C45
  | S n' =>
      id1 <- rtl8125_fiber_mdio_read_gpio_c45 (R8125_MAKE_C45_ADDR 1 2) 0 ;;
      if negb (id1 =? RTL8221D_PHY_ID_1) then sret FIBER_STAT_DISCONNECT
      else
        id2 <- rtl8125_fiber_mdio_read_gpio_c45 (R8125_MAKE_C45_ADDR 1 3) 0 ;;
        if negb (id2 =? RTL8221D_PHY_ID_2) then sret FIBER_STAT_DISCONNECT
        else fiber_check_id n'
  end.

Definition rtl8125_fiber_get_connect_status_8221d : ST Z :=
  rtl8125_fiber_reset_gpio_c45 ;;; fiber_check_id 4.

Definition rtl8125_fiber_get_connect_status : ST Z :=
  ver <- tp_get (fun s => HwFiberModeVer s) ;;
  if ver =? FIBER_MODE_RTL8125D_RTL8221D then rtl8125_fiber_get_connect_status_8221d
  else sret FIBER_STAT_NOT_CHECKED.

Definition set_HwFiberModeVer v (s : nic D) := set_fiber (MkFiber v (HwFiberStat s)) s.
Definition set_HwFiberStat v (s : nic D) := set_fiber (MkFiber (HwFiberModeVer s) v) s.

Definition rtl8125_check_fiber_mode_support : ST unit :=
  m <- tp_get (fun s => mcfg s) ;;
  swhen ((m =? 10) || (m =? 11))
    (tmp <- rtl8125_mac_ocp_read 0xD006 ;;
     swhen (u8 tmp =? 0x03) (smodify (set_HwFiberModeVer FIBER_MODE_RTL8125D_RTL8221D))) ;;;
  ver <- tp_get (fun s => HwFiberModeVer s) ;;
  swhen (ver >? 0)
    (stat <- rtl8125_fiber_get_connect_status ;; smodify (set_HwFiberStat stat)).

Definition rtl8125_fiber_link_ok : ST Z :=
  stat <- tp_get (fun s => HwFiberStat s) ;;
  if stat =? FIBER_STAT_CONNECT_GPO_C45 then
    status <- rtl8125_fiber_mdio_read (R8125_MAKE_C45_ADDR 30 0x758D) ;;
    sret (if negb (status =? 0xffff) && has status (BIT 1) then 1 else 0)
  else sret 0.

End Fiber.
