(* ===== verification/RtlLink.v ===== *)
(** * r8125: the link

    src/.../realtek/r8125/r8125_n.c: the standard PHY registers through which
    the driver resets the PHY, forces a speed or starts auto-negotiation, what
    it advertises, the settings ethtool asks for and reads back, and the link
    speed of the powered-down controller.  The spin lock [phy_lock] is not
    modelled: the functions run one after another.

    DASH is 0 or 1; EnableKCPOffload and [system_state] are arguments. *)
From S2P Require Import Prelude RtlBase RtlHw RtlIrq RtlWol RtlMcu RtlFiber.
Local Open Scope Z_scope.
Local Open Scope rtl_scope.

(** ** mii.h, ethtool.h and r8125.h *)

Definition MII_BMCR : Z := 0.
Definition MII_ADVERTISE : Z := 4.
Definition MII_LPA : Z := 5.
Definition MII_EXPANSION : Z := 6.
Definition MII_CTRL1000 : Z := 9.
Definition MII_STAT1000 : Z := 10.
Definition BMCR_RESET : Z := 0x8000.
Definition BMCR_ANENABLE : Z := 0x1000.
Definition BMCR_PDOWN : Z := 0x0800.
Definition BMCR_ANRESTART : Z := 0x0200.
Definition BMCR_SPEED10 : Z := 0.
Definition BMCR_SPEED100 : Z := 0x2000.
Definition BMCR_FULLDPLX : Z := 0x0100.
Definition ADVERTISE_10HALF : Z := 0x0020.
Definition ADVERTISE_10FULL : Z := 0x0040.
Definition ADVERTISE_100HALF : Z := 0x0080.
Definition ADVERTISE_100FULL : Z := 0x0100.
Definition ADVERTISE_PAUSE_CAP : Z := 0x0400.
Definition ADVERTISE_PAUSE_ASYM : Z := 0x0800.
Definition ADVERTISE_1000HALF : Z := 0x0100.
Definition ADVERTISE_1000FULL : Z := 0x0200.
Definition RTK_ADVERTISE_2500FULL : Z := 0x80.
Definition LPA_10HALF : Z := 0x0020.
Definition LPA_10FULL : Z := 0x0040.
Definition LPA_100HALF : Z := 0x0080.
Definition LPA_100FULL : Z := 0x0100.
Definition LPA_PAUSE_CAP : Z := 0x0400.
Definition LPA_PAUSE_ASYM : Z := 0x0800.
Definition LPA_1000HALF : Z := 0x0400.
Definition LPA_1000FULL : Z := 0x0800.
Definition RTK_LPA_ADVERTISE_2500FULL : Z := 0x20.
Definition EXPANSION_NWAY : Z := 0x0001.

Definition ADVERTISED_10baseT_Half : Z := BIT 0.
Definition ADVERTISED_10baseT_Full : Z := BIT 1.
Definition ADVERTISED_100baseT_Half : Z := BIT 2.
Definition ADVERTISED_100baseT_Full : Z := BIT 3.
Definition ADVERTISED_1000baseT_Half : Z := BIT 4.
Definition ADVERTISED_1000baseT_Full : Z := BIT 5.
Definition ADVERTISED_Autoneg : Z := BIT 6.
Definition ADVERTISED_TP : Z := BIT 7.
Definition ADVERTISED_Pause : Z := BIT 13.
Definition ADVERTISED_Asym_Pause : Z := BIT 14.
Definition ADVERTISED_2500baseX_Full : Z := BIT 15.

Definition SPEED_10 : Z := 10.
Definition SPEED_100 : Z := 100.
Definition SPEED_1000 : Z := 1000.
(** -1, as a u32 *)
Definition SPEED_UNKNOWN : Z := 0xFFFFFFFF.
Definition DUPLEX_HALF : Z := 0.
Definition DUPLEX_FULL : Z := 1.
Definition DUPLEX_UNKNOWN : Z := 0xff.
Definition AUTONEG_DISABLE : Z := 0.
Definition AUTONEG_ENABLE : Z := 1.
Definition EINVAL : Z := 22.
Definition EBUSY : Z := 16.

Definition PHYstatus : Z := 0x6C.
Definition _1000bpsL : Z := 0x80000.
Definition _2500bpsF : Z := 0x400.
Definition _2500bpsL : Z := 0x200.
Definition TxFlowCtrl : Z := 0x40.
Definition RxFlowCtrl : Z := 0x20.
Definition _1000bpsF : Z := 0x10.
Definition _100bps : Z := 0x08.
Definition _10bps : Z := 0x04.
Definition LinkStatus : Z := 0x02.
Definition FullDup : Z := 0x01.
Definition R8125_LINK_STATE_OFF : Z := 0.
Definition R8125_LINK_STATE_ON : Z := 1.
Definition PMCH : Z := 0x6F.
Definition PMSTS_En : Z := BIT 5.

Definition HW_FIBER_MODE_ENABLED (f : fiber_state) : bool := HwFiberModeVer f >? 0.
Definition HW_SUPP_PHY_LINK_SPEED_2500M (f : hw_features) : bool := HwSuppMaxPhyLinkSpeed f >=? 2500.

(** [if (x & m) r |= v;], a row of a translation between bit sets. *)
Definition map_bits (rows : list (Z * Z)) (x r : Z) : Z :=
  fold_left (fun r '(m, v) => if has x m then Z.lor r v else r) rows r.

(** The advertised modes of the auto-negotiation register 4. *)
Definition ADVERTISE_10_100 : Z :=
  Z.lor ADVERTISE_10HALF (Z.lor ADVERTISE_10FULL (Z.lor ADVERTISE_100HALF ADVERTISE_100FULL)).
Definition ADVERTISE_PAUSE_BOTH : Z := Z.lor ADVERTISE_PAUSE_CAP ADVERTISE_PAUSE_ASYM.
Definition ADVERTISE_1000 : Z := Z.lor ADVERTISE_1000HALF ADVERTISE_1000FULL.

Definition adv_rows_10_100 : list (Z * Z) :=
  [(ADVERTISED_10baseT_Half, ADVERTISE_10HALF); (ADVERTISED_10baseT_Full, ADVERTISE_10FULL);
   (ADVERTISED_100baseT_Half, ADVERTISE_100HALF); (ADVERTISED_100baseT_Full, ADVERTISE_100FULL)].
Definition adv_rows_1000 : list (Z * Z) :=
  [(ADVERTISED_1000baseT_Half, ADVERTISE_1000HALF); (ADVERTISED_1000baseT_Full, ADVERTISE_1000FULL)].
Definition adv_rows_2500 : list (Z * Z) := [(ADVERTISED_2500baseX_Full, RTK_ADVERTISE_2500FULL)].

Definition rtl8125_convert_link_speed (status : Z) : Z :=
  if negb (has status LinkStatus) then SPEED_UNKNOWN
  else if has status _2500bpsF then SPEED_2500
  else if has status (Z.lor _1000bpsF (Z.lor _2500bpsL _1000bpsL)) then SPEED_1000
  else if has status _100bps then SPEED_100
  else if has status _10bps then SPEED_10
  else SPEED_UNKNOWN.

Definition rtl8125_is_autoneg_mode_valid (autoneg : Z) : bool :=
  (autoneg =? AUTONEG_ENABLE) || (autoneg =? AUTONEG_DISABLE).
Definition rtl8125_is_speed_mode_valid (sp : Z) : bool :=
  existsb (Z.eqb sp) [SPEED_2500; SPEED_1000; SPEED_100; SPEED_10].
Definition rtl8125_is_duplex_mode_valid (duplex : Z) : bool :=
  (duplex =? DUPLEX_FULL) || (duplex =? DUPLEX_HALF).

(** The modes up to one gigabit, and with 2.5 gigabit. *)
Definition ADVERTISED_upto_1000 : Z :=
  Z.lor ADVERTISED_10baseT_Half (Z.lor ADVERTISED_10baseT_Full (Z.lor ADVERTISED_100baseT_Half
    (Z.lor ADVERTISED_100baseT_Full (Z.lor ADVERTISED_1000baseT_Half ADVERTISED_1000baseT_Full)))).

(** ** What ethtool is told

    The link modes of the kernel are a bit set; the driver works with the
    old-style mask, its low 32 bits, in which 2.5 gigabit has the bit of
    2500baseX. *)
Definition LINK_MODE_2500baseX_Full_BIT : Z := 15.
Definition LINK_MODE_2500baseT_Full_BIT : Z := 47.

(** [linkmode_mod_bit] *)
Definition linkmode_mod_bit (nr : Z) (mode : Z) (set : bool) : Z :=
  if set then Z.setbit mode nr else Z.clearbit mode nr.

(** The conversion from ethtool's masks, at the head of [rtl8125_set_settings]. *)
Definition legacy_of_link_modes (modes : Z) : Z :=
  if Z.testbit modes LINK_MODE_2500baseT_Full_BIT
  then Z.lor (u32 modes) ADVERTISED_2500baseX_Full else u32 modes.

(** The conversion to them, at the end of [rtl8125_gset_xmii]. *)
Definition link_modes_of_legacy (legacy : Z) : Z :=
  if has legacy ADVERTISED_2500baseX_Full
  then linkmode_mod_bit LINK_MODE_2500baseT_Full_BIT
         (linkmode_mod_bit LINK_MODE_2500baseX_Full_BIT (u32 legacy) false) true
  else u32 legacy.

Record ksettings := MkKset {
  k_supported : Z; k_advertising : Z; k_lp_advertising : Z;
  k_autoneg : Z; k_speed : Z; k_duplex : Z; k_mdix : Z
}.

(** What the chip can do, of which 2.5 gigabit may be missing. *)
Definition supported_modes (f : hw_features) : Z :=
  let all := bits_or [0; 1; 2; 3; 5; 15; 6; 7; 13; 14] in
  if HW_SUPP_PHY_LINK_SPEED_2500M f then all else Z.land all (Z.lnot ADVERTISED_2500baseX_Full).

(** What was advertised to the partner, in the order of the tests. *)
Definition adv_of_regs (auto_nego_reg ctrl_1000 ctrl_2500 : Z) : Z :=
  let v := map_bits [(ADVERTISE_10HALF, ADVERTISED_10baseT_Half); (ADVERTISE_10FULL, ADVERTISED_10baseT_Full);
             (ADVERTISE_100HALF, ADVERTISED_100baseT_Half); (ADVERTISE_100FULL, ADVERTISED_100baseT_Full)]
             auto_nego_reg 0 in
  let v := map_bits [(ADVERTISE_1000FULL, ADVERTISED_1000baseT_Full)] ctrl_1000 v in
  map_bits [(RTK_ADVERTISE_2500FULL, ADVERTISED_2500baseX_Full)] ctrl_2500 v.

(** What the link partner answered. *)
Definition lpa_of_regs (aner anlpar gbsr status_2500 : Z) : Z :=
  let v := map_bits [(EXPANSION_NWAY, ADVERTISED_Autoneg)] aner 0 in
  let v := map_bits [(LPA_10HALF, ADVERTISED_10baseT_Half); (LPA_10FULL, ADVERTISED_10baseT_Full);
             (LPA_100HALF, ADVERTISED_100baseT_Half); (LPA_100FULL, ADVERTISED_100baseT_Full);
             (LPA_PAUSE_CAP, ADVERTISED_Pause); (LPA_PAUSE_ASYM, ADVERTISED_Asym_Pause)] anlpar v in
  let v := map_bits [(LPA_1000HALF, ADVERTISED_1000baseT_Half);
             (LPA_1000FULL, ADVERTISED_1000baseT_Full)] gbsr v in
  map_bits [(RTK_LPA_ADVERTISE_2500FULL, ADVERTISED_2500baseX_Full)] status_2500 v.

Section Link.
Context {D : Type} `{HM : Mmio D}.
Abbreviation ST := (St (nic D)).

(** ** Link state and PHY reset *)

Definition rtl8125_get_phy_status : ST Z := RTL_R32 PHYstatus.

Definition rtl8125_xmii_reset_pending : ST Z :=
  rtl8125_mdio_write 0x1f 0x0000 ;;;
  v <- rtl8125_mdio_read MII_BMCR ;; sret (Z.land v BMCR_RESET).

Definition _rtl8125_xmii_link_ok : ST Z :=
  status <- rtl8125_get_phy_status ;;
  sret (if status =? 0xFFFFFFFF then 0 else if has status LinkStatus then 1 else 0).

Definition rtl8125_xmii_link_ok : ST Z :=
  link_state <- _rtl8125_xmii_link_ok ;;
  f <- tp_get fiber ;;
  if HW_FIBER_MODE_ENABLED f && (link_state =? R8125_LINK_STATE_ON) then rtl8125_fiber_link_ok
  else sret link_state.

(** 0 when the reset bit is seen clear within 2500 reads, otherwise -1. *)
Definition rtl8125_wait_phy_reset_complete : ST Z :=
  done <- poll (Z.to_nat 2500) (val <- rtl8125_mdio_read MII_BMCR ;; sret (negb (has val BMCR_RESET))) ;;
  sret (if done : bool then 0 else -1).

Definition rtl8125_xmii_reset_enable : ST unit :=
  b <- rtl8125_is_in_phy_disable_mode ;;
  if b : bool then sret tt
  else
    rtl8125_mdio_write 0x1f 0x0000 ;;;
    v <- rtl8125_mdio_read MII_ADVERTISE ;;
    rtl8125_mdio_write MII_ADVERTISE (Z.land v (Z.lnot ADVERTISE_10_100)) ;;;
    v <- rtl8125_mdio_read MII_CTRL1000 ;;
    rtl8125_mdio_write MII_CTRL1000 (Z.land v (Z.lnot ADVERTISE_1000)) ;;;
    v <- rtl8125_mdio_direct_read_phy_ocp 0xA5D4 ;;
    rtl8125_mdio_direct_write_phy_ocp 0xA5D4 (Z.land v (Z.lnot RTK_ADVERTISE_2500FULL)) ;;;
    rtl8125_mdio_write MII_BMCR (Z.lor BMCR_RESET BMCR_ANENABLE) ;;;
    rtl8125_wait_phy_reset_complete ;;;
    sret tt.

Definition rtl8125_phy_restart_nway : ST unit :=
  b <- rtl8125_is_in_phy_disable_mode ;;
  if b : bool then sret tt
  else
    rtl8125_mdio_write 0x1F 0x0000 ;;;
    rtl8125_mdio_write MII_BMCR (Z.lor BMCR_ANENABLE BMCR_ANRESTART).

(** The value of the control register for a forced speed, if there is one. *)
Definition bmcr_true_force (sp duplex : Z) : option Z :=
  if (sp =? SPEED_10) && (duplex =? DUPLEX_HALF) then Some BMCR_SPEED10
  else if (sp =? SPEED_10) && (duplex =? DUPLEX_FULL) then Some (Z.lor BMCR_SPEED10 BMCR_FULLDPLX)
  else if (sp =? SPEED_100) && (duplex =? DUPLEX_HALF) then Some BMCR_SPEED100
  else if (sp =? SPEED_100) && (duplex =? DUPLEX_FULL) then Some (Z.lor BMCR_SPEED100 BMCR_FULLDPLX)
  else None.

Definition rtl8125_phy_setup_force_mode (sp duplex : Z) : ST unit :=
  b <- rtl8125_is_in_phy_disable_mode ;;
  if b : bool then sret tt
  else
    match bmcr_true_force sp (u8 duplex) with
    | None => sret tt
    | Some v => rtl8125_mdio_write 0x1F 0x0000 ;;; rtl8125_mdio_write MII_BMCR v
    end.

Definition rtl8125_phy_power_up : ST unit :=
  b <- rtl8125_is_in_phy_disable_mode ;;
  if b : bool then sret tt
  else
    rtl8125_mdio_write 0x1F 0x0000 ;;;
    rtl8125_mdio_write MII_BMCR BMCR_ANENABLE ;;;
    rtl8125_wait_phy_ups_resume 3.

Definition rtl8125_phy_power_down : ST unit :=
  f <- tp_get fiber ;;
  if HW_FIBER_MODE_ENABLED f then sret tt
  else
    rtl8125_mdio_write 0x1F 0x0000 ;;;
    rtl8125_mdio_write MII_BMCR (Z.lor BMCR_ANENABLE BMCR_PDOWN).

Definition rtl8125_enable_giga_lite (adv : Z) : ST unit :=
  (if has adv ADVERTISED_1000baseT_Full then rtl8125_set_eth_phy_ocp_bit 0xA428 (BIT 9)
   else rtl8125_clear_eth_phy_ocp_bit 0xA428 (BIT 9)) ;;;
  (if has adv ADVERTISED_2500baseX_Full then rtl8125_set_eth_phy_ocp_bit 0xA5EA (BIT 0)
   else rtl8125_clear_eth_phy_ocp_bit 0xA5EA (BIT 0)).

Definition rtl8125_disable_giga_lite : ST unit :=
  rtl8125_clear_eth_phy_ocp_bit 0xA428 (BIT 9) ;;;
  rtl8125_clear_eth_phy_ocp_bit 0xA5EA (BIT 0).

(** [rtl_nway_reset]: 0, -EBUSY in diagnostic mode, or -EINVAL. *)
Definition rtl_nway_reset : ST Z :=
  diag <- tp_get (fun s => rtk_enable_diag s) ;;
  if tst diag then sret (- EBUSY)
  else
    rtl8125_mdio_write 0x1F 0x0000 ;;;
    bmcr <- rtl8125_mdio_read MII_BMCR ;;
    if has bmcr BMCR_ANENABLE
    then rtl8125_mdio_write MII_BMCR (Z.lor bmcr BMCR_ANRESTART) ;;; sret 0
    else sret (- EINVAL).

(** ** Settings *)

Definition rtl8125_set_link_option (an sp dup fc : Z) : ST unit :=
  f <- tp_get feat ;;
  let sp := if rtl8125_is_speed_mode_valid (u32 sp) then u32 sp else SPEED_2500 in
  let dup := if rtl8125_is_duplex_mode_valid (u8 dup) then u8 dup else DUPLEX_FULL in
  let an := if rtl8125_is_autoneg_mode_valid (u8 an) then u8 an else AUTONEG_ENABLE in
  let sp := Z.min sp (HwSuppMaxPhyLinkSpeed f) in
  let adv := if sp =? SPEED_2500 then Z.lor ADVERTISED_2500baseX_Full ADVERTISED_upto_1000
             else ADVERTISED_upto_1000 in
  smodify (fun s : nic D => set_spd (MkSpeed an sp dup adv fc (D0SpeedUpSpeed s)) s).

Definition set_D0 (v : Z) (s : nic D) : nic D :=
  set_spd (MkSpeed (autoneg s) (speed s) (duplex s) (advertising s) (fcpause s) v) s.

Definition rtl8125_set_d0_speedup_speed : ST unit :=
  s <- tp_get id ;;
  if negb (HW_SUPPORT_D0_SPEED_UP s) then sret tt
  else
    smodify (set_D0
      (if autoneg s =? AUTONEG_ENABLE
       then if speed s =? SPEED_2500 then D0_SPEED_UP_SPEED_2500
            else if speed s =? SPEED_1000 then D0_SPEED_UP_SPEED_1000
            else D0_SPEED_UP_SPEED_DISABLE
       else D0_SPEED_UP_SPEED_DISABLE)).

(** [tp->phy_auto_nego_reg = a; tp->phy_1000_ctrl_reg = g; tp->phy_2500_ctrl_reg = c;] *)
Definition set_adv_regs (a g c : Z) (s : nic D) : nic D :=
  set_nego (MkNego a g c (phy_reg_aner s) (phy_reg_anlpar s) (phy_reg_gbsr s)
              (phy_reg_status_2500 s)) s.

Definition set_link_settings (an sp dup adv : Z) (s : nic D) : nic D :=
  set_spd (MkSpeed an sp dup adv (fcpause s) (D0SpeedUpSpeed s)) s.

(** The auto-negotiation branch of [rtl8125_set_speed_xmii]: the words for the
    registers 4, 9 and 0xA5D4 from what they hold and what is advertised. *)
Definition nego_word (old adv fc : Z) : Z :=
  let v := map_bits adv_rows_10_100 adv
    (Z.land old (Z.lnot (Z.lor ADVERTISE_10_100 ADVERTISE_PAUSE_BOTH))) in
  if fc =? rtl8125_fc_full then Z.lor v ADVERTISE_PAUSE_BOTH else v.
Definition giga_word (old adv : Z) : Z := map_bits adv_rows_1000 adv (Z.land old (Z.lnot ADVERTISE_1000)).
Definition ctrl_2500_word (old adv : Z) : Z :=
  map_bits adv_rows_2500 adv (Z.land old (Z.lnot RTK_ADVERTISE_2500FULL)).

Definition finish_set_speed (an sp dup adv : Z) : ST Z :=
  smodify (set_link_settings an sp dup adv) ;;;
  rtl8125_set_d0_speedup_speed ;;;
  rtl8125_hw_fiber_phy_config ;;;
  sret 0.

Definition rtl8125_set_speed_xmii (an sp dup adv : Z) : ST Z :=
  s <- tp_get id ;;
  let valid := rtl8125_is_speed_mode_valid sp in
  let '(sp, dup, adv) :=
    if valid then (sp, dup, adv) else (SPEED_2500, DUPLEX_FULL, Z.lor adv (advertising s)) in
  (if tst (eee_giga_lite s) && (an =? AUTONEG_ENABLE) then rtl8125_enable_giga_lite adv
   else rtl8125_disable_giga_lite) ;;;
  giga <- rtl8125_mdio_read MII_CTRL1000 ;;
  c2500 <- rtl8125_mdio_direct_read_phy_ocp 0xA5D4 ;;
  if an =? AUTONEG_ENABLE then
    nego <- rtl8125_mdio_read MII_ADVERTISE ;;
    let auto_nego := nego_word nego adv (fcpause s) in
    let giga_ctrl := giga_word giga adv in
    let ctrl_2500 := ctrl_2500_word c2500 adv in
    smodify (set_adv_regs auto_nego giga_ctrl ctrl_2500) ;;;
    rtl8125_mdio_write 0x1f 0x0000 ;;;
    rtl8125_mdio_write MII_ADVERTISE auto_nego ;;;
    rtl8125_mdio_write MII_CTRL1000 giga_ctrl ;;;
    rtl8125_mdio_direct_write_phy_ocp 0xA5D4 ctrl_2500 ;;;
    rtl8125_phy_restart_nway ;;;
    finish_set_speed an sp dup adv
  else if (sp =? SPEED_10) || (sp =? SPEED_100) then
    rtl8125_phy_setup_force_mode sp dup ;;;
    finish_set_speed an sp dup adv
  else sret (- EINVAL).

Definition rtl8125_set_speed (an sp dup adv : Z) : ST Z :=
  keep <- tp_get (fun s => resume_not_chg_speed s) ;;
  if tst keep then sret 0 else rtl8125_set_speed_xmii (u8 an) (u32 sp) (u8 dup) (u64 adv).

(** [rtl8125_get_pauseparam]: autoneg, rx and tx. *)
Definition rtl8125_get_pauseparam (sp : speed_state) : Z * bool * bool :=
  let full := fcpause sp =? rtl8125_fc_full in
  (if tst (autoneg sp) then AUTONEG_ENABLE else AUTONEG_DISABLE,
   (fcpause sp =? rtl8125_fc_rx_pause) || full,
   (fcpause sp =? rtl8125_fc_tx_pause) || full).

Definition set_fcpause (v : Z) (s : nic D) : nic D :=
  set_spd (MkSpeed (autoneg s) (speed s) (duplex s) (advertising s) v (D0SpeedUpSpeed s)) s.

Definition rtl8125_set_pauseparam (rx_pause tx_pause : bool) : ST Z :=
  let newfc := if tx_pause || rx_pause then rtl8125_fc_full else rtl8125_fc_none in
  s <- tp_get id ;;
  swhen (negb (fcpause s =? newfc))
    (smodify (set_fcpause newfc) ;;;
     rtl8125_set_speed (autoneg s) (speed s) (duplex s) (advertising s) ;;;
     sret tt) ;;;
  sret 0.

Definition rtl8125_set_settings (an sp dup supported advertising : Z) : ST Z :=
  let supported := legacy_of_link_modes supported in
  let advertising := legacy_of_link_modes advertising in
  if tst (Z.land advertising (Z.lnot supported)) then sret (- EINVAL)
  else rtl8125_set_speed an sp dup advertising.

Definition rtl8125_get_mdi_status : ST Z :=
  ok <- rtl8125_xmii_link_ok ;;
  if negb (tst ok) then sret 0
  else v <- rtl8125_mdio_direct_read_phy_ocp 0xA444 ;; sret (if has v (BIT 1) then 1 else 2).

Definition rtl8125_gset_xmii : ST ksettings :=
  s <- tp_get id ;;
  let advertising :=
    if tst (phy_auto_nego_reg s) || tst (phy_1000_ctrl_reg s) || tst (phy_2500_ctrl_reg s)
    then adv_of_regs (phy_auto_nego_reg s) (phy_1000_ctrl_reg s) (phy_2500_ctrl_reg s)
    else advertising s in
  rtl8125_mdio_write 0x1F 0x0000 ;;;
  bmcr <- rtl8125_mdio_read MII_BMCR ;;
  let an := has (u16 bmcr) BMCR_ANENABLE in
  let advertising := if an then Z.lor advertising ADVERTISED_Autoneg else advertising in
  let advertising := Z.lor advertising ADVERTISED_TP in
  status <- rtl8125_get_phy_status ;;
  fiber_ok <- (if HW_FIBER_MODE_ENABLED s
               then v <- rtl8125_fiber_link_ok ;; sret (v =? R8125_LINK_STATE_ON) else sret true) ;;
  let report_lpa := netif_running s && has status LinkStatus && fiber_ok in
  let advertising :=
    if report_lpa
    then map_bits [(TxFlowCtrl, ADVERTISED_Asym_Pause); (RxFlowCtrl, ADVERTISED_Pause)] status advertising
    else advertising in
  let lpa_adv := if report_lpa
    then lpa_of_regs (phy_reg_aner s) (phy_reg_anlpar s) (phy_reg_gbsr s) (phy_reg_status_2500 s) else 0 in
  mdix <- rtl8125_get_mdi_status ;;
  sret (MkKset
    (link_modes_of_legacy (supported_modes s)) (link_modes_of_legacy advertising)
    (link_modes_of_legacy lpa_adv) (if an then AUTONEG_ENABLE else AUTONEG_DISABLE)
    (if report_lpa then rtl8125_convert_link_speed status else SPEED_UNKNOWN)
    (if report_lpa
     then if has status (Z.lor _1000bpsF _2500bpsF) || has status FullDup then DUPLEX_FULL else DUPLEX_HALF
     else DUPLEX_UNKNOWN) mdix).

(** ** Power *)

Definition rtl8125_hw_d3_para : ST unit :=
  RTL_W16 RxMaxSize RX_BUF_SIZE ;;;
  rtl8125_enable_force_clkreq false ;;;
  rtl8125_enable_aspm_clkreq_lock false ;;;
  rtl8125_disable_exit_l1_mask ;;;
  rtl8125_set_pci_99_exit_driver_para ;;;
  m <- tp_get (fun s => mcfg s) ;;
  swhen (existsb (Z.eqb m) [2; 3; 6]) rtl8125_disable_ocp_phy_power_saving ;;;
  rtl8125_disable_rxdvgate ;;;
  rtl8125_disable_extend_tally_couter ;;;
  rtl8125_set_reg_oobs_en_sel false.

(** The speeds the partner and the driver have in common: the slowest one, as
    the words to advertise it with; [None] is [goto exit]. *)
Definition wol_speed_words (adv aner anlpar gbsr status_2500 auto_nego giga_ctrl ctrl_2500 : Z)
    : option (Z * Z * Z) :=
  let both a p reg := has adv a && has reg p in
  if Z.lor (Z.lor (Z.lor aner anlpar) gbsr) status_2500 =? 0 then
    let auto_nego_tmp := map_bits adv_rows_10_100 adv 0 in
    if auto_nego_tmp =? 0 then None else Some (Z.lor auto_nego auto_nego_tmp, giga_ctrl, ctrl_2500)
  else if negb (has aner EXPANSION_NWAY) then None
  else if both ADVERTISED_10baseT_Half LPA_10HALF anlpar
    then Some (Z.lor auto_nego ADVERTISE_10HALF, giga_ctrl, ctrl_2500)
  else if both ADVERTISED_10baseT_Full LPA_10FULL anlpar
    then Some (Z.lor auto_nego ADVERTISE_10FULL, giga_ctrl, ctrl_2500)
  else if both ADVERTISED_100baseT_Half LPA_100HALF anlpar
    then Some (Z.lor auto_nego ADVERTISE_100HALF, giga_ctrl, ctrl_2500)
  else if both ADVERTISED_100baseT_Full LPA_100FULL anlpar
    then Some (Z.lor auto_nego ADVERTISE_100FULL, giga_ctrl, ctrl_2500)
  else if both ADVERTISED_1000baseT_Half LPA_1000HALF gbsr
    then Some (auto_nego, Z.lor giga_ctrl ADVERTISE_1000HALF, ctrl_2500)
  else if both ADVERTISED_1000baseT_Full LPA_1000FULL gbsr
    then Some (auto_nego, Z.lor giga_ctrl ADVERTISE_1000FULL, ctrl_2500)
  else if both ADVERTISED_2500baseX_Full RTK_LPA_ADVERTISE_2500FULL status_2500
    then Some (auto_nego, giga_ctrl, Z.lor ctrl_2500 RTK_ADVERTISE_2500FULL)
  else None.

(** The result is the word for register 4, also where nothing was written. *)
Definition rtl8125_set_wol_link_speed : ST Z :=
  s <- tp_get id ;;
  if negb (autoneg s =? AUTONEG_ENABLE) then sret 0
  else
    rtl8125_mdio_write 0x1F 0x0000 ;;;
    auto_nego <- rtl8125_mdio_read MII_ADVERTISE ;;
    let auto_nego := Z.land auto_nego (Z.lnot ADVERTISE_10_100) in
    giga_ctrl <- rtl8125_mdio_read MII_CTRL1000 ;;
    let giga_ctrl := Z.land giga_ctrl (Z.lnot ADVERTISE_1000) in
    ctrl_2500 <- rtl8125_mdio_direct_read_phy_ocp 0xA5D4 ;;
    let ctrl_2500 := Z.land ctrl_2500 (Z.lnot RTK_ADVERTISE_2500FULL) in
    ok <- rtl8125_xmii_link_ok ;;
    partner <-
      (if tst ok then
         aner <- rtl8125_mdio_read MII_EXPANSION ;;
         anlpar <- rtl8125_mdio_read MII_LPA ;;
         gbsr <- rtl8125_mdio_read MII_STAT1000 ;;
         status_2500 <- rtl8125_mdio_direct_read_phy_ocp 0xA5D6 ;;
         sret (u16 aner, u16 anlpar, u16 gbsr, u16 status_2500)
       else sret (phy_reg_aner s, phy_reg_anlpar s, phy_reg_gbsr s, phy_reg_status_2500 s)) ;;
    let '(aner, anlpar, gbsr, status_2500) := partner in
    match wol_speed_words (advertising s) aner anlpar gbsr status_2500 auto_nego giga_ctrl ctrl_2500 with
    | None => sret auto_nego
    | Some (auto_nego, giga_ctrl, ctrl_2500) =>
        let auto_nego := if tst (DASH s) then Z.lor auto_nego ADVERTISE_10_100 else auto_nego in
        rtl8125_mdio_write MII_ADVERTISE auto_nego ;;;
        rtl8125_mdio_write MII_CTRL1000 giga_ctrl ;;;
        rtl8125_mdio_direct_write_phy_ocp 0xA5D4 ctrl_2500 ;;;
        rtl8125_disable_giga_lite ;;;
        rtl8125_phy_restart_nway ;;;
        sret auto_nego
    end.

Definition rtl8125_keep_wol_link_speed (from_suspend : bool) : ST bool :=
  s <- tp_get id ;;
  ok <- (if from_suspend then rtl8125_xmii_link_ok else sret 0) ;;
  sret (if from_suspend && tst ok && has (wol_opts s) WAKE_PHY then true
        else negb from_suspend && tst (resume_not_chg_speed s)).

Definition set_check_keep (v : Z) (s : nic D) : nic D :=
  set_wol (MkWol (wol_opts s) (wol_enabled s) (resume_not_chg_speed s) v) s.

(** The branch of [rtl8125_powerdown_pll] that leaves the link up for wake-up. *)
Definition powerdown_for_wol (from_suspend : bool) : ST unit :=
  s <- tp_get id ;;
  rtl8125_set_hw_wol (wol_opts s) ;;;
  rtl8125_enable_cfg9346_write ;;;
  RTL_set8 Config2 PMSTS_En ;;;
  rtl8125_disable_cfg9346_write ;;;
  rtl8125_set_pci_pme 1 ;;;
  if HW_FIBER_MODE_ENABLED s then sret tt
  else
    keep <- rtl8125_keep_wol_link_speed from_suspend ;;
    (if keep : bool then smodify (set_check_keep 1)
     else
       swhen (negb (D0SpeedUpSpeed s =? D0_SPEED_UP_SPEED_DISABLE))
         (rtl8125_enable_d0_speedup ;;; smodify (set_check_keep 1)) ;;;
       auto_nego <- rtl8125_set_wol_link_speed ;;
       swhen (tst (RequiredPfmPatch s))
         (rtl8125_set_pfm_patch (has auto_nego (Z.lor ADVERTISE_10HALF ADVERTISE_10FULL)))) ;;;
    v <- RTL_R32 RxConfig ;;
    RTL_W32 RxConfig (Z.lor v (bits_or [3; 2; 1])).

(** [restart] is [system_state == SYSTEM_RESTART], [kcp] [tp->EnableKCPOffload]. *)
Definition rtl8125_powerdown_pll (restart : bool) (kcp : Z) (from_suspend : bool) : ST unit :=
  if restart then sret tt
  else
    smodify (set_check_keep 0) ;;;
    s <- tp_get id ;;
    if (wol_enabled s =? WOL_ENABLED) || tst (DASH s) || tst kcp then powerdown_for_wol from_suspend
    else if HW_FIBER_MODE_ENABLED s then sret tt
    else if tst (DASH s) then sret tt
    else
      rtl8125_phy_power_down ;;;
      swhen (negb (tst (HwIcVerUnknown s))) (RTL_clear8 PMCH (BIT 7)) ;;;
      RTL_clear8 0xF2 (BIT 6).

Definition rtl8125_powerup_pll : ST unit :=
  RTL_set8 PMCH (Z.lor (BIT 7) (BIT 6)) ;;;
  keep <- tp_get (fun s => resume_not_chg_speed s) ;;
  if tst keep then sret tt else rtl8125_phy_power_up.

End Link.
