(* ===== verification/RtlEee.v ===== *)
(** * r8125: energy efficient Ethernet

    src/.../realtek/r8125/r8125_n.c: the speeds at which the link may go to
    low power, as ethtool sets and reads them (the code for kernels from 6.9
    on, where they are sets of link modes), and the MAC and PHY registers
    behind them.  A set of link modes is a bit set.

    The kernel's conversions between link modes and the EEE registers of the
    standard are not part of the repository: [LinkModes] has them. *)
From S2P Require Import Prelude RtlBase RtlHw RtlIrq RtlWol RtlMcu RtlFiber RtlLink.
Local Open Scope Z_scope.
Local Open Scope rtl_scope.

Definition EEE_TXIDLE_TIMER_8125 : Z := 0x6048.
Definition MDIO_EEE_100TX : Z := 0x0002.
Definition MDIO_EEE_1000T : Z := 0x0004.
Definition MDIO_EEE_2_5GT : Z := 0x0001.

(** Bit numbers of ethtool's link modes. *)
Definition LINK_MODE_100baseT_Full_BIT : Z := 3.
Definition LINK_MODE_1000baseT_Full_BIT : Z := 5.

(** The kernel functions of these names, from and to linkmodes. *)
Class LinkModes := {
  linkmode_to_mii_eee_cap1_t : Z -> Z;
  linkmode_to_mii_eee_cap2_t : Z -> Z;
  mii_eee_cap1_mod_linkmode_t : Z -> Z -> Z;
  mii_eee_cap2_mod_linkmode_sup_t : Z -> Z -> Z
}.

(** The rows of [rtl8125_adv_to_linkmode]. *)
Definition linkmode_rows : list (Z * Z) :=
  [(ADVERTISED_10baseT_Half, BIT 0); (ADVERTISED_10baseT_Full, BIT 1);
   (ADVERTISED_100baseT_Half, BIT 2); (ADVERTISED_100baseT_Full, BIT 3);
   (ADVERTISED_1000baseT_Half, BIT 4); (ADVERTISED_1000baseT_Full, BIT 5);
   (ADVERTISED_2500baseX_Full, BIT LINK_MODE_2500baseT_Full_BIT)].

Definition rtl8125_adv_to_linkmode (adv : Z) : Z := map_bits linkmode_rows adv 0.

(** The chips whose PHY does 2.5 gigabit without EEE, and all the others. *)
Definition is_8125a (m : Z) : bool := existsb (Z.eqb m) [2; 3; 6].
Definition is_after_8125a (m : Z) : bool := existsb (Z.eqb m) [4; 5; 7; 8; 9; 10; 11; 12].

Section Eee.
Context {D : Type} `{HM : Mmio D} `{HK : LinkModes}.
Abbreviation ST := (St (nic D)).

Definition rtl8125_set_eee_lpi_timer : ST unit :=
  t <- tp_get (fun s => tx_lpi_timer s) ;; RTL_W16 EEE_TXIDLE_TIMER_8125 t.

Definition rtl8125_is_adv_eee_enabled : ST bool :=
  m <- tp_get (fun s => mcfg s) ;;
  if existsb (Z.eqb m) [2; 3; 4; 5; 6; 7; 8; 9; 12]
  then v <- rtl8125_mdio_direct_read_phy_ocp 0xA430 ;; sret (has v (BIT 15))
  else sret false.

Definition _rtl8125_disable_adv_eee : ST unit :=
  lock <- rtl8125_is_adv_eee_enabled ;;
  swhen lock (rtl8125_set_phy_mcu_patch_request ;;; sret tt) ;;;
  rtl8125_clear_mac_ocp_bit 0xE052 (BIT 0) ;;;
  rtl8125_clear_eth_phy_ocp_bit 0xA442 (Z.lor (BIT 12) (BIT 13)) ;;;
  rtl8125_clear_eth_phy_ocp_bit 0xA430 (BIT 15) ;;;
  swhen lock (rtl8125_clear_phy_mcu_patch_request ;;; sret tt).

Definition rtl8125_disable_adv_eee : ST unit :=
  rtl8125_oob_mutex_lock ;;; _rtl8125_disable_adv_eee ;;; rtl8125_oob_mutex_unlock.

(** The end of both branches of [rtl8125_enable_eee] and [rtl8125_disable_eee]. *)
Definition eee_common : list phy_op := [cl 0xA6D8 (BIT 4); cl 0xA428 (BIT 7); cl 0xA4A2 (BIT 9)].

Definition rtl8125_enable_eee : ST Z :=
  s <- tp_get id ;;
  let eee_adv_cap1_t := u16 (linkmode_to_mii_eee_cap1_t (eee_advertised s)) in
  let eee_adv_cap2_t := u16 (linkmode_to_mii_eee_cap2_t (eee_advertised s)) in
  ret <-
    (if is_8125a (mcfg s) then
       rtl8125_set_mac_ocp_bit 0xE040 (Z.lor (BIT 1) (BIT 0)) ;;;
       rtl8125_set_mac_ocp_bit 0xEB62 (Z.lor (BIT 2) (BIT 1)) ;;;
       phy_seq [se 0xA432 (BIT 4); mo 0xA5D0 (Z.lor MDIO_EEE_100TX MDIO_EEE_1000T) eee_adv_cap1_t;
                cl 0xA6D4 MDIO_EEE_2_5GT] ;;;
       phy_seq eee_common ;;; sret 0
     else if is_after_8125a (mcfg s) then
       rtl8125_set_mac_ocp_bit 0xE040 (Z.lor (BIT 1) (BIT 0)) ;;;
       phy_seq [se 0xA432 (BIT 4); mo 0xA5D0 (Z.lor MDIO_EEE_100TX MDIO_EEE_1000T) eee_adv_cap1_t;
                mo 0xA6D4 MDIO_EEE_2_5GT eee_adv_cap2_t] ;;;
       phy_seq eee_common ;;; sret 0
     else sret (- EOPNOTSUPP)) ;;
  rtl8125_disable_adv_eee ;;;
  sret ret.

Definition rtl8125_disable_eee : ST Z :=
  m <- tp_get (fun s => mcfg s) ;;
  ret <-
    (if is_8125a m then
       rtl8125_clear_mac_ocp_bit 0xE040 (Z.lor (BIT 1) (BIT 0)) ;;;
       rtl8125_clear_mac_ocp_bit 0xEB62 (Z.lor (BIT 2) (BIT 1)) ;;;
       phy_seq [cl 0xA432 (BIT 4); cl 0xA5D0 (Z.lor MDIO_EEE_100TX MDIO_EEE_1000T); cl 0xA6D4 (BIT 0)] ;;;
       phy_seq eee_common ;;; sret 0
     else if is_after_8125a m then
       rtl8125_clear_mac_ocp_bit 0xE040 (Z.lor (BIT 1) (BIT 0)) ;;;
       phy_seq [se 0xA432 (BIT 4); cl 0xA5D0 (Z.lor MDIO_EEE_100TX MDIO_EEE_1000T);
                cl 0xA6D4 MDIO_EEE_2_5GT] ;;;
       phy_seq eee_common ;;; sret 0
     else sret (- EOPNOTSUPP)) ;;
  rtl8125_disable_adv_eee ;;;
  sret ret.

(** Microseconds from the timer of the controller, whose unit depends on the
    speed. *)
Definition rtl8125_device_lpi_t_to_ethtool_lpi_t (lpi_timer : Z) : ST Z :=
  status <- rtl8125_get_phy_status ;;
  let to_us :=
    if has status LinkStatus then
      if has status _2500bpsF then u32 (lpi_timer * 32) / 10
      else if has status _1000bpsF then u32 (lpi_timer * 8)
      else u32 (lpi_timer * 80)
    else u32 (lpi_timer * 80) in
  sret (to_us / 1000).

Record keee := MkKeee {
  k_eee_supported : Z; k_eee_advertised : Z; k_eee_lp : Z;
  k_eee_enabled : bool; k_eee_active : bool; k_tx_lpi_enabled : bool; k_tx_lpi_timer : Z
}.

(** [edata] comes zeroed. *)
Definition rtl_ethtool_get_eee : ST (Z * keee) :=
  s <- tp_get id ;;
  if tst (rtk_enable_diag s) then sret (- EBUSY, MkKeee 0 0 0 false false false 0)
  else
    val <- rtl8125_mdio_direct_read_phy_ocp 0xA5D2 ;;
    let lp := mii_eee_cap1_mod_linkmode_t 0 (u16 val) in
    val <- rtl8125_mdio_direct_read_phy_ocp 0xA6D0 ;;
    let lp := mii_eee_cap2_mod_linkmode_sup_t lp (u16 val) in
    timer <- rtl8125_device_lpi_t_to_ethtool_lpi_t (tx_lpi_timer s) ;;
    val <- rtl8125_mac_ocp_read 0xE040 ;;
    let enabled := has (u16 val) (Z.lor (BIT 1) (BIT 0)) in
    sret (0, MkKeee (eee_supported s) (eee_advertised s) lp enabled
               (tst (Z.land (eee_advertised s) lp)) enabled timer).

Definition set_eee_adv (adv enabled : Z) (s : nic D) : nic D :=
  set_eee (MkEee (eee_supported s) adv enabled (tx_lpi_timer s)) s.

(** The modes EEE will be advertised for, or an error. *)
Definition eee_request (requested advertising supported : Z) : Z + Z :=
  let a := if requested =? 0 then inl (Z.land advertising supported)
           else if tst (Z.land requested (Z.lnot advertising)) then inr (- EINVAL)
           else inl requested in
  match a with
  | inl adv => if tst (Z.land adv (Z.lnot supported)) then inr (- EINVAL) else inl adv
  | inr e => inr e
  end.

Definition rtl_ethtool_set_eee (advertised enabled : Z) : ST Z :=
  s <- tp_get id ;;
  if negb (HW_HAS_WRITE_PHY_MCU_RAM_CODE s) || tst (DASH s) then sret (- EOPNOTSUPP)
  else if tst (rtk_enable_diag s) then sret (- EBUSY)
  else if negb (autoneg s =? AUTONEG_ENABLE) then sret (- EINVAL)
  else
    match eee_request advertised (rtl8125_adv_to_linkmode (advertising s)) (eee_supported s) with
    | inr e => sret e
    | inl adv =>
        smodify (set_eee_adv adv enabled) ;;;
        (if tst enabled then rtl8125_enable_eee else rtl8125_disable_eee) ;;;
        rtl_nway_reset ;;;
        sret 0
    end.

End Eee.
