(* ===== verification/RtlConfig.v ===== *)
(** * r8125: configuring the controller

    src/.../realtek/r8125/r8125_n.c: [rtl8125_hw_config], which puts the
    controller into its working state, and what it uses: the receive filter,
    the receive features, the descriptor addresses, the latencies and sizes in
    the PCI configuration space, leaving out-of-band mode, and the MAC address.

    What the kernel keeps of the interface and the driver only reads is
    [netdev]: the flags, the multicast list, the features and the rings with
    their registers and bus addresses.  [ether_crc] is the kernel's function of
    that name.  ENABLE_RSS_SUPPORT, ENABLE_LIB_SUPPORT, ENABLE_DASH_SUPPORT and
    ENABLE_REALWOW_SUPPORT are not defined; the checksum command words, which
    [rtl8125_hw_config] sets to constants, belong to [RtlTx]. *)
From S2P Require Import Prelude RtlBase RtlHw RtlIrq RtlWol RtlMcu RtlRamCode RtlPhyConfig RtlChip RtlFiber RtlLink RtlEee.
Local Open Scope Z_scope.
Local Open Scope rtl_scope.

(** ** Registers and bits (r8125.h, pci_regs.h) *)

Definition MAC0 : Z := 0.
Definition MAC4 : Z := 4.
Definition MAR0 : Z := 0x08.
Definition CounterAddrLow : Z := 0x10.
Definition CounterAddrHigh : Z := 0x14.
Definition CounterReset : Z := 0x1.
Definition TxConfig : Z := 0x40.
Definition TDFNR : Z := 0x57.
Definition CPlusCmd : Z := 0xE0.
Definition BACKUP_ADDR0_8125 : Z := 0x19E0.
Definition BACKUP_ADDR1_8125 : Z := 0x19E4.
Definition RSS_CTRL_REG : Z := 0x4500.
Definition Q_NUM_CTRL_8125 : Z := 0x4800.
Definition AcceptErr : Z := 0x20.
Definition AcceptRunt : Z := 0x10.
Definition AcceptBroadcast : Z := 0x08.
Definition AcceptMulticast : Z := 0x04.
Definition AcceptMyPhys : Z := 0x02.
Definition AcceptAllPhys : Z := 0x01.
Definition AcceppVlanPhys : Z := 0x8000.
Definition EnableOuterVlan : Z := BIT 23.
Definition EnableInnerVlan : Z := BIT 22.
Definition EnableRxDescV4_0 : Z := BIT 1.
Definition RxChkSum : Z := BIT 5.
Definition RX_DESC_RING_TYPE_1 : Z := 1.
Definition RX_DESC_RING_TYPE_3 : Z := 3.
Definition RX_DESC_RING_TYPE_4 : Z := 4.
Definition HW_PATCH_SOC_LAN : Z := BIT 0.
(** EnableBist, Macdbgo_oe, Force_halfdup, Force_rxflow_en, Force_txflow_en,
    Cxpl_dbg_sel, ASF and Macdbgo_sel. *)
Definition cp_cmd_off : Z := Z.lor (bits_or [15; 14; 12; 11; 10; 9; 8]) 0x001C.
Definition EADDRNOTAVAIL : Z := 99.

Definition HW_SUPPORT_TCAM (f : hw_features) : bool := HwSuppTcamVer f >? 0.

(** The interface, as the driver reads it. *)
Record netdev := MkNetdev {
  IFF_PROMISC : bool; IFF_ALLMULTI : bool; mc_list : list (list Z);
  NETIF_F_RXALL : bool; NETIF_F_HW_VLAN_RX : bool; NETIF_F_RXCSUM : bool;
  tx_rings : list (Z * Z); (* tdsar_reg and TxPhyAddr *)
  rx_rings : list (Z * Z)  (* rdsar_reg and RxPhyAddr *)
}.

(** The cells of the configuration space [rtl8125_hw_config] saves: width and
    offset.  cmd, io_base_l, io_base_h, mem_base_l, mem_base_h, resv_0x1c_l,
    resv_0x1c_h, ilr, resv_0x20_l, resv_0x20_h, resv_0x24_l, resv_0x24_h,
    resv_0x2c_l, resv_0x2c_h. *)
Definition pci_cfg_cells : list (Z * Z) :=
  [(1, 0x04); (2, 0x10); (2, 0x12); (2, 0x18); (2, 0x1A); (2, 0x1C); (2, 0x1E); (1, 0x3C);
   (2, 0x20); (2, 0x22); (2, 0x24); (2, 0x26); (2, 0x2C); (2, 0x2E)].

(** [swab32] *)
Definition swab32 (x : Z) : Z :=
  Z.lor (Z.shiftl (Z.land x 0xFF) 24)
    (Z.lor (Z.shiftl (Z.land (Z.shiftr x 8) 0xFF) 16)
       (Z.lor (Z.shiftl (Z.land (Z.shiftr x 16) 0xFF) 8) (Z.land (Z.shiftr x 24) 0xFF))).

Definition is_valid_ether_addr (a : list Z) : bool :=
  negb (Z.testbit (at_ a 0) 0) && negb (forallb (Z.eqb 0) (firstn 6 a)).

Section Config.
Context {D : Type} `{HM : Mmio D} `{HK : LinkModes}.
Variable ether_crc : list Z -> Z.
Abbreviation ST := (St (nic D)).

(** ** The receive filter *)

(** The body of [netdev_for_each_mc_addr] on the filter words 0 and 1. *)
Definition mc_add (filter : Z * Z) (addr : list Z) : Z * Z :=
  let bit_nr := Z.shiftr (u32 (ether_crc addr)) 26 in
  let m := Z.shiftl 1 (Z.land bit_nr 31) in
  if Z.shiftr bit_nr 5 =? 0 then (Z.lor (fst filter) m, snd filter)
  else (fst filter, Z.lor (snd filter) m).

(** The receive mode and the two words of the filter. *)
Definition rx_mode_filter (n : netdev) : Z * (Z * Z) :=
  if IFF_PROMISC n then (bits_or [3; 2; 1; 0], (0xffffffff, 0xffffffff))
  else if IFF_ALLMULTI n then (bits_or [3; 2; 1], (0xffffffff, 0xffffffff))
  else
    (if (length (mc_list n) =? 0)%nat then Z.lor AcceptBroadcast AcceptMyPhys
     else Z.lor (Z.lor AcceptBroadcast AcceptMyPhys) AcceptMulticast,
     fold_left mc_add (mc_list n) (0, 0)).

Definition rtl8125_hw_set_rx_packet_filter (n : netdev) : ST unit :=
  s <- tp_get id ;;
  let '(rx_mode, (mc0, mc1)) := rx_mode_filter n in
  let rx_mode := if NETIF_F_RXALL n then Z.lor rx_mode (Z.lor AcceptErr AcceptRunt) else rx_mode in
  v <- RTL_R32 RxConfig ;;
  RTL_W32 RxConfig (Z.lor (Z.lor (rtl8125_rx_config s) rx_mode) (Z.land v (RxConfigMask s))) ;;;
  RTL_W32 MAR0 (swab32 mc1) ;;;
  RTL_W32 (MAR0 + 4) (swab32 mc0).

Definition rtl8125_set_rx_mode (n : netdev) : ST unit := rtl8125_hw_set_rx_packet_filter n.

(** ** Features and sizes *)

Definition set_rx_config_cp (rxc cp : Z) (s : nic D) : nic D :=
  set_net (MkNet (netif_running s) (netif_carrier_ok s) (tx_queues_on s) (mtu s) (rms s) cp rxc) s.

Definition set_or_clear (b : bool) (v m : Z) : Z := if b then Z.lor v m else Z.land v (Z.lnot m).

Definition rtl8125_hw_set_features (rxall vlan csum : bool) : ST Z :=
  v <- RTL_R32 RxConfig ;;
  s <- tp_get id ;;
  let upd x := set_or_clear vlan (set_or_clear rxall x (Z.lor AcceptErr AcceptRunt))
                 (Z.lor EnableInnerVlan EnableOuterVlan) in
  let cp := u16 (set_or_clear csum (cp_cmd s) RxChkSum) in
  smodify (set_rx_config_cp (u32 (upd (rtl8125_rx_config s))) (cp_cmd s)) ;;;
  RTL_W32 RxConfig (upd v) ;;;
  smodify (fun s : nic D => set_rx_config_cp (rtl8125_rx_config s) cp s) ;;;
  RTL_W16 CPlusCmd cp ;;;
  RTL_R16 CPlusCmd ;;;
  sret 0.

Definition rtl8125_set_features (n : netdev) : ST Z :=
  rtl8125_hw_set_features (NETIF_F_RXALL n) (NETIF_F_HW_VLAN_RX n) (NETIF_F_RXCSUM n).

Definition rtl8125_set_rms (v : Z) : ST unit :=
  m <- tp_get (fun s => mcfg s) ;;
  let v := u16 v in
  RTL_W16 RxMaxSize
    (if existsb (Z.eqb m) [8; 9; 10; 11; 12] then Z.lor v AcceppVlanPhys
     else Z.land v (Z.lnot AcceppVlanPhys)).

(** [rtl8125_set_rxbufsize]: [rms], which is also the buffer size
    (ETH_HLEN 14, RT_VALN_HLEN 4, ETH_FCS_LEN 4). *)
Definition rxbufsize (mtu : Z) : Z := if mtu >? 1500 then mtu + 14 + 4 + 4 else RX_BUF_SIZE.

Definition rtl8125_set_rxbufsize : ST unit :=
  smodify (fun s : nic D =>
    set_net (MkNet (netif_running s) (netif_carrier_ok s) (tx_queues_on s) (mtu s) (rxbufsize (mtu s))
               (cp_cmd s) (rtl8125_rx_config s)) s).

Definition rtl8125_set_rx_q_num (num_rx_queues : Z) : ST unit :=
  let rx_q_num := Z.shiftl (Z.land (u16 (Z.log2 num_rx_queues)) (bits_or [0; 1; 2])) 2 in
  q_ctrl <- RTL_R16 Q_NUM_CTRL_8125 ;;
  RTL_W16 Q_NUM_CTRL_8125 (Z.lor (Z.land q_ctrl (Z.lnot (bits_or [2; 3; 4]))) rx_q_num).

Definition rtl8125_set_tx_q_num (num_tx_queues : Z) : ST unit :=
  v <- rtl8125_mac_ocp_read 0xE63E ;;
  rtl8125_mac_ocp_write 0xE63E
    (Z.lor (Z.land v (Z.lnot (bits_or [11; 10]))) (Z.shiftl (Z.land (Z.log2 num_tx_queues) 0x03) 10)).

Definition rtl8125_enable_mcu (enable : bool) : ST unit :=
  f <- tp_get feat ;;
  if negb (HW_SUPPORT_MAC_MCU f) then sret tt
  else if enable then rtl8125_set_mac_ocp_bit 0xC0B4 (BIT 0)
  else rtl8125_clear_mac_ocp_bit 0xC0B4 (BIT 0).

Definition rtl8125_clear_tcam_entries : ST unit :=
  f <- tp_get feat ;;
  if negb (HW_SUPPORT_TCAM f) then sret tt
  else rtl8125_set_mac_ocp_bit 0xEB54 (BIT 0) ;;; rtl8125_clear_mac_ocp_bit 0xEB54 (BIT 0).

Definition rtl8125_enable_tcam : ST unit :=
  f <- tp_get feat ;; swhen (HwSuppTcamVer f =? 1) (RTL_W16 0x382 0x221B).

Definition rtl8125_get_l1off_cap_bits (m : Z) : Z :=
  if existsb (Z.eqb m) [4; 5; 7; 8; 9; 10; 11; 12] then bits_or [0; 1; 2; 3] else bits_or [0; 1].

Definition _rtl8125_set_l1_l0s_entry_latency (setting : Z) : ST unit :=
  let temp := Z.shiftl (Z.land (u8 setting) 0x3f) 24 in
  v <- rtl8125_csi_read 0x70c ;;
  rtl8125_csi_write 0x70c (Z.lor (Z.land v 0xc0ffffff) temp).

Definition rtl8125_set_l1_l0s_entry_latency : ST unit := _rtl8125_set_l1_l0s_entry_latency 0x27.

Definition _rtl8125_set_mrrs (setting : Z) : ST unit :=
  v <- on_dev (pci_read_config 1 0x79) ;;
  on_dev_ (pci_write_config 1 0x79 (u8 (Z.lor (Z.land (u8 v) (Z.lnot 0x70)) (u8 setting)))).

Definition rtl8125_set_mrrs : ST unit :=
  f <- tp_get feat ;;
  if has (hwoptimize f) HW_PATCH_SOC_LAN then sret tt else _rtl8125_set_mrrs 0x40.

Definition rtl8125_tally_counter_addr_fill : ST unit :=
  f <- tp_get feat ;;
  if negb (tst (tally_paddr f)) then sret tt
  else
    RTL_W32 CounterAddrHigh (Z.shiftr (tally_paddr f) 32) ;;;
    RTL_W32 CounterAddrLow (tally_paddr f).

Definition rtl8125_tally_counter_clear : ST unit :=
  f <- tp_get feat ;;
  if negb (tst (tally_paddr f)) then sret tt
  else
    RTL_W32 CounterAddrHigh (Z.shiftr (tally_paddr f) 32) ;;;
    RTL_W32 CounterAddrLow (Z.lor (u32 (tally_paddr f)) CounterReset).

(** The first [num_tx_rings] and [num_rx_rings] rings. *)
Definition rtl8125_desc_addr_fill (n : netdev) : ST unit :=
  h <- tp_get hw ;;
  let fill '(reg, addr) := RTL_W32 reg addr ;;; RTL_W32 (reg + 4) (Z.shiftr addr 32) in
  sfor (firstn (Z.to_nat (num_tx_rings h)) (tx_rings n)) fill ;;;
  sfor (firstn (Z.to_nat (num_rx_rings h)) (rx_rings n)) fill.

(** ** Leaving out-of-band mode *)

Definition rtl8125_exit_oob : ST unit :=
  rtl8125_disable_rx_packet_filter ;;;
  h <- tp_get hw ;;
  swhen (HW_DASH_SUPPORT_DASH h) rtl8125_driver_start ;;;
  rtl8125_mac_ocp_write 0xC0BC 0x00FF ;;;
  rtl8125_nic_reset ;;;
  rtl8125_disable_now_is_oob ;;;
  v <- rtl8125_mac_ocp_read 0xE8DE ;;
  rtl8125_mac_ocp_write 0xE8DE (Z.land v (Z.lnot (BIT 14))) ;;;
  rtl8125_wait_ll_share_fifo_ready ;;;
  rtl8125_mac_ocp_write 0xC0AA 0x07D0 ;;;
  rtl8125_mac_ocp_write 0xC0A6 0x01B5 ;;;
  rtl8125_mac_ocp_write 0xC01E 0x5555 ;;;
  rtl8125_wait_ll_share_fifo_ready ;;;
  b <- rtl8125_is_ups_resume ;;
  swhen b
    (rtl8125_wait_phy_ups_resume 2 ;;; rtl8125_clear_ups_resume_bit ;;; rtl8125_clear_phy_ups_reg).

(** ** The whole configuration *)

(** [v = read(reg); v &= ~clear; v |= set; write(reg, v)] on a MAC register. *)
Definition mac_modify (reg clear set : Z) : ST unit :=
  v <- rtl8125_mac_ocp_read reg ;;
  rtl8125_mac_ocp_write reg (Z.lor (Z.land v (Z.lnot clear)) set).

(** The first part, up to the receive rings. *)
Definition hw_config_rings (n : netdev) : ST unit :=
  s <- tp_get id ;;
  rtl8125_disable_rx_packet_filter ;;;
  rtl8125_hw_reset ;;;
  rtl8125_enable_cfg9346_write ;;;
  rtl8125_enable_force_clkreq false ;;;
  rtl8125_enable_aspm_clkreq_lock false ;;;
  rtl8125_set_eee_lpi_timer ;;;
  v <- rtl8125_mac_ocp_read 0xC0B6 ;;
  rtl8125_mac_ocp_write 0xC0B6 (Z.land v (BIT 0)) ;;;
  rtl8125_tally_counter_addr_fill ;;;
  rtl8125_enable_extend_tally_couter ;;;
  rtl8125_desc_addr_fill n ;;;
  RTL_W32 TxConfig (Z.lor (Z.shiftl 7 8) (Z.shiftl 0x03 24)) ;;;
  swhen (tst (EnableTxNoClose s)) (v <- RTL_R32 TxConfig ;; RTL_W32 TxConfig (Z.lor v (BIT 6))) ;;;
  (if tst (enable_double_vlan s) then rtl8125_enable_double_vlan else rtl8125_disable_double_vlan) ;;;
  swhen ((2 <=? mcfg s) && (mcfg s <=? 7)) rtl8125_enable_tcam ;;;
  rtl8125_set_l1_l0s_entry_latency ;;;
  rtl8125_set_mrrs ;;;
  RTL_W32 RSS_CTRL_REG 0x00 ;;;
  rtl8125_set_rx_q_num (num_rx_rings s) ;;;
  RTL_clear8 Config1 0x10.

(** The MAC registers that are set to fixed values. *)
Definition hw_config_mac : ST unit :=
  s <- tp_get id ;;
  let m := mcfg s in
  let mutex := existsb (Z.eqb m) [2; 3; 6; 8; 9; 12] in
  rtl8125_mac_ocp_write 0xC140 0xFFFF ;;;
  rtl8125_mac_ocp_write 0xC142 0xFFFF ;;;
  mac_modify 0xEB58 0 (BIT 0) ;;;
  mac_modify 0xE614 (bits_or [10; 9; 8])
    (Z.shiftl (if (m =? 4) || (m =? 5) || (m =? 7) then 2 else 3) 8) ;;;
  rtl8125_set_tx_q_num (num_tx_rings s) ;;;
  mac_modify 0xE63E (bits_or [5; 4]) (Z.shiftl 2 4) ;;;
  rtl8125_enable_mcu false ;;;
  rtl8125_enable_mcu true ;;;
  mac_modify 0xC0B4 0 (bits_or [3; 2]) ;;;
  mac_modify 0xEB6A (bits_or [7; 6; 5; 4; 3; 2; 1; 0]) (bits_or [5; 4; 1; 0]) ;;;
  mac_modify 0xEB50 (bits_or [9; 8; 7; 6; 5]) (BIT 6) ;;;
  mac_modify 0xE056 (bits_or [7; 6; 5; 4]) 0 ;;;
  RTL_W8 TDFNR 0x10 ;;;
  mac_modify 0xE040 (BIT 12) 0 ;;;
  mac_modify 0xEA1C (bits_or [1; 0]) (BIT 0) ;;;
  swhen mutex rtl8125_oob_mutex_lock ;;;
  rtl8125_mac_ocp_write 0xE0C0 (if (m =? 10) || (m =? 11) then 0x4403 else 0x4000) ;;;
  rtl8125_set_mac_ocp_bit 0xE052 (bits_or [6; 5]) ;;;
  rtl8125_clear_mac_ocp_bit 0xE052 (bits_or [3; 7]) ;;;
  swhen mutex rtl8125_oob_mutex_unlock ;;;
  mac_modify 0xD430 (bits_or [11; 10; 9; 8; 7; 6; 5; 4; 3; 2; 1; 0]) 0x45F ;;;
  (if tst (DASH s) then RTL_clear8 0xD0 (bits_or [6; 7]) else RTL_set8 0xD0 (bits_or [6; 7])) ;;;
  swhen (is_8125a m) (RTL_set8 MCUCmd_reg (BIT 0)) ;;;
  swhen (negb (m =? 10) && negb (m =? 11)) rtl8125_disable_eee_plus ;;;
  mac_modify 0xEA1C (BIT 2) 0 ;;;
  rtl8125_clear_tcam_entries ;;;
  v <- RTL_R16 0x1880 ;;
  RTL_W16 0x1880 (Z.land v (Z.lnot (bits_or [4; 5]))) ;;;
  swhen (HwSuppRxDescType s =? RX_DESC_RING_TYPE_4)
    (if InitRxDescType s =? RX_DESC_RING_TYPE_4
     then RTL_set8 0xd8 EnableRxDescV4_0 else RTL_clear8 0xd8 EnableRxDescV4_0) ;;;
  swhen (m =? 12)
    (rtl8125_clear_mac_ocp_bit 0xE00C (BIT 12) ;;; rtl8125_clear_mac_ocp_bit 0xC0C2 (BIT 6)).

(** Interrupts, low-power states, features. *)
Definition hw_config_irq (n : netdev) : ST unit :=
  s <- tp_get id ;;
  swhen (HwSuppIsrVer s >? 1) (rtl8125_hw_set_interrupt_type (HwCurrIsrVer s)) ;;;
  rtl8125_hw_clear_timer_int ;;;
  rtl8125_hw_clear_int_miti ;;;
  swhen (tst (use_timer_interrupt s) && (HwCurrIsrVer s >? 1) && (HwSuppIntMitiVer s >? 3)
         && RTL_FEATURE_MSIX_on s)
    (sfor (map Z.of_nat (seq 0 (Z.to_nat (irq_nvecs s))))
       (fun i => rtl8125_hw_set_timer_int i (timer_count_v2 s))) ;;;
  rtl8125_enable_exit_l1_mask ;;;
  rtl8125_mac_ocp_write 0xE098 0xC302 ;;;
  (if tst (aspm s) && has (org_pci_offset_99 s) (bits_or [2; 5; 6])
   then rtl8125_init_pci_offset_99 else rtl8125_disable_pci_offset_99) ;;;
  (if tst (aspm s) && has (org_pci_offset_180 s) (rtl8125_get_l1off_cap_bits (mcfg s))
   then rtl8125_init_pci_offset_180 else rtl8125_disable_pci_offset_180) ;;;
  swhen (tst (RequiredPfmPatch s)) (rtl8125_set_pfm_patch false) ;;;
  smodify (fun s : nic D => set_rx_config_cp (rtl8125_rx_config s) (Z.land (cp_cmd s) (Z.lnot cp_cmd_off)) s) ;;;
  rtl8125_hw_set_features (NETIF_F_RXALL n) (NETIF_F_HW_VLAN_RX n) (NETIF_F_RXCSUM n) ;;;
  rtl8125_set_rms (rms s) ;;;
  rtl8125_disable_rxdvgate.

(** The cells of the configuration space, one after the other. *)
Fixpoint read_cfg_cells (cells : list (Z * Z)) : ST (list Z) :=
  match cells with
  | [] => sret []
  | (w, off) :: cells' =>
      v <- on_dev (pci_read_config w off) ;;
      vs <- read_cfg_cells cells' ;; sret (wrap (8 * w) v :: vs)
  end.

Definition set_pci_cfg (cells : list Z) (s : nic D) : nic D :=
  set_bak (MkBak (BackupLedSel s) (BackupPhyFuseDout s) cells 1 (esd_flag s) (dev_addr s)
             (org_mac_addr s) (random_mac s)) s.

(** The branch [if (!tp->pci_cfg_is_read)]; the serial number comes last. *)
Definition save_pci_cfg : ST unit :=
  s <- tp_get id ;;
  swhen (negb (tst (pci_cfg_is_read s)))
    (cells <- read_cfg_cells pci_cfg_cells ;;
     sn <- (if HwPcieSNOffset s >? 0
            then l <- rtl8125_csi_read (HwPcieSNOffset s) ;;
                 h <- rtl8125_csi_read (HwPcieSNOffset s + 4) ;; sret [l; h]
            else sret [0; 0]) ;;
     smodify (set_pci_cfg (cells ++ sn))).

Definition rtl8125_hw_config (n : netdev) : ST unit :=
  hw_config_rings n ;;;
  hw_config_mac ;;;
  hw_config_irq n ;;;
  save_pci_cfg ;;;
  rtl8125_hw_set_rx_packet_filter n ;;;
  f <- tp_get feat ;;
  rtl8125_enable_aspm_clkreq_lock (tst (aspm f)) ;;;
  rtl8125_disable_cfg9346_write.

Definition rtl8125_hw_start : ST unit :=
  RTL_W8 ChipCmd (Z.lor CmdTxEnb CmdRxEnb) ;;; rtl8125_enable_hw_interrupt.

(** ** PHY configuration and start-up *)

Definition rtl8125_hw_phy_config : ST unit :=
  s <- tp_get id ;;
  if tst (resume_not_chg_speed s) then sret tt
  else
    rtl8125_xmii_reset_enable ;;;
    rtl8125_set_hw_phy_before_init_phy_mcu ;;;
    rtl8125_init_hw_phy_mcu ;;;
    phy_config (mcfg s) ;;;
    rtl8125_clear_eth_phy_ocp_bit 0xA5B4 (BIT 15) ;;;
    rtl8125_hw_fiber_phy_config ;;;
    rtl8125_mdio_write 0x1F 0x0000 ;;;
    s <- tp_get id ;;
    swhen (HW_HAS_WRITE_PHY_MCU_RAM_CODE s)
      ((if tst (eee_enabled s) then rtl8125_enable_eee else rtl8125_disable_eee) ;;; sret tt).

Definition rtl8125_up (n : netdev) : ST unit :=
  rtl8125_hw_init ;;;
  rtl8125_hw_reset ;;;
  rtl8125_powerup_pll ;;;
  rtl8125_hw_ephy_config ;;;
  rtl8125_hw_phy_config ;;;
  rtl8125_hw_config n.

(** ** The MAC address *)

Definition rtl8125_rar_set (addr : list Z) : ST unit :=
  let rar_low := Z.lor (at_ addr 0) (Z.lor (Z.shiftl (at_ addr 1) 8)
                   (Z.lor (Z.shiftl (at_ addr 2) 16) (Z.shiftl (at_ addr 3) 24))) in
  let rar_high := Z.lor (at_ addr 4) (Z.shiftl (at_ addr 5) 8) in
  rtl8125_enable_cfg9346_write ;;;
  RTL_W32 MAC0 rar_low ;;;
  RTL_W32 MAC4 rar_high ;;;
  rtl8125_disable_cfg9346_write.

Definition set_dev_addr (a : list Z) (s : nic D) : nic D :=
  set_bak (MkBak (BackupLedSel s) (BackupPhyFuseDout s) (pci_cfg_space s) (pci_cfg_is_read s) (esd_flag s)
             a (org_mac_addr s) (random_mac s)) s.

Definition set_org_mac (random : Z) (s : nic D) : nic D :=
  set_bak (MkBak (BackupLedSel s) (BackupPhyFuseDout s) (pci_cfg_space s) (pci_cfg_is_read s) (esd_flag s)
             (dev_addr s) (dev_addr s) random) s.

(** The bytes of a little-endian word. *)
Definition le_bytes (n : nat) (v : Z) : list Z := map (fun i => u8 (Z.shiftr v (8 * Z.of_nat i))) (seq 0 n).

(** [random] is what [eth_random_addr] gives.  The bytes first read from MAC0
    are overwritten by those of the backup registers. *)
Definition rtl8125_get_mac_address (random : list Z) : ST Z :=
  sfor (map Z.of_nat (seq 0 6)) (fun i => RTL_R8 (MAC0 + i) ;;; sret tt) ;;;
  lo <- RTL_R32 BACKUP_ADDR0_8125 ;;
  hi <- RTL_R16 BACKUP_ADDR1_8125 ;;
  let mac_addr := le_bytes 4 lo ++ le_bytes 2 hi in
  s <- tp_get id ;;
  let '(mac_addr, rnd) := if is_valid_ether_addr mac_addr then (mac_addr, random_mac s) else (random, 1) in
  smodify (set_dev_addr mac_addr) ;;;
  rtl8125_rar_set mac_addr ;;;
  smodify (set_org_mac rnd) ;;;
  sret 0.

Definition rtl8125_set_mac_address (addr : list Z) : ST Z :=
  if negb (is_valid_ether_addr addr) then sret (- EADDRNOTAVAIL)
  else smodify (set_dev_addr addr) ;;; rtl8125_rar_set addr ;;; sret 0.

End Config.
