(* ===== verification/RtlEsd.v ===== *)
(** * r8125: link changes and recovery

    src/.../realtek/r8125/r8125_n.c: what the driver does when the link comes up
    or goes down, and the periodic check that a discharge has not upset the
    chip: the configuration space is compared with what was saved and put back,
    the microcontroller of the PHY is asked whether it has stopped and is
    restarted, and the whole chip is set up again.

    Emptying and filling the rings ([rtl8125_tx_clear], [rtl8125_rx_clear],
    [rtl8125_init_ring]) changes the rings of [RtlTx] and [RtlRx] and neither
    the controller nor the fields of [nic]; these calls are left out. *)
From S2P Require Import Prelude RtlBase RtlHw RtlIrq RtlWol RtlMcu RtlRamCode RtlPhyConfig RtlChip RtlFiber RtlLink RtlEee RtlConfig.
Local Open Scope Z_scope.
Local Open Scope rtl_scope.

Definition CustomLED : Z := 0x18.
Definition LEDSEL_2_8125 : Z := 0x84.
Definition LEDSEL_1_8125 : Z := 0x86.
Definition LEDSEL_3_8125 : Z := 0x96.
Definition R8125_PHY_FUSE_DOUT_NUM : nat := 32.
Definition USHRT_MAX : Z := 0xFFFF.
Definition HW_PHY_STATUS_INI : Z := 1.
Definition HW_PHY_STATUS_LAN_ON : Z := 3.
Definition R8125_LINK_STATE_UNKNOWN : Z := 2.

(** The cells [rtl8125_esd_checker] compares: index in [pci_cfg_cells] and bit
    of [esd_flag]; cmd (index 0) comes before them. *)
Definition esd_cells : list (nat * Z) :=
  [(1%nat, 1); (3%nat, 2); (4%nat, 3); (5%nat, 4); (6%nat, 5); (8%nat, 6); (9%nat, 7); (10%nat, 8);
   (11%nat, 9); (7%nat, 10); (12%nat, 11); (13%nat, 12)].

Section Esd.
Context {D : Type} `{HM : Mmio D} `{HK : LinkModes}.
Variable ether_crc : list Z -> Z.
Abbreviation ST := (St (nic D)).

Definition upd_bak (led fuse : list Z) (flag : Z) (s : nic D) : nic D :=
  set_bak (MkBak led fuse (pci_cfg_space s) (pci_cfg_is_read s) flag (dev_addr s) (org_mac_addr s)
             (random_mac s)) s.

(** ** LED and fuse registers *)

Definition rtl8125_backup_led_select : ST unit :=
  l1 <- RTL_R16 LEDSEL_1_8125 ;;
  l2 <- RTL_R16 LEDSEL_2_8125 ;;
  l3 <- RTL_R16 LEDSEL_3_8125 ;;
  l0 <- RTL_R16 CustomLED ;;
  smodify (fun s : nic D => upd_bak [l0; l1; l2; l3] (BackupPhyFuseDout s) (esd_flag s) s).

Definition rtl8125_restore_led_select : ST unit :=
  led <- tp_get (fun s => BackupLedSel s) ;;
  RTL_W16 LEDSEL_1_8125 (at_ led 1) ;;;
  RTL_W16 LEDSEL_2_8125 (at_ led 2) ;;;
  RTL_W16 LEDSEL_3_8125 (at_ led 3) ;;;
  RTL_W16 CustomLED (at_ led 0).

Fixpoint read_fuses (idx : list nat) : ST (list Z) :=
  match idx with
  | [] => sret []
  | i :: idx' =>
      rtl8125_clear_and_set_eth_phy_ocp_bit 0xA460 0x001F (Z.of_nat i) ;;;
      v <- rtl8125_mdio_direct_read_phy_ocp 0xA462 ;;
      vs <- read_fuses idx' ;; sret (u16 v :: vs)
  end.

(** The corrections made to the words read; 0xFFFF marks a word that will not
    be written back. *)
Definition fix_fuses (ver : Z) (f : list Z) : list Z :=
  if ver =? 4 then
    <[6%nat := USHRT_MAX]> (<[5%nat := USHRT_MAX]> (<[4%nat := USHRT_MAX]>
      (<[7%nat := Z.lor (at_ f 7) 0x03FF]> (<[3%nat := Z.lor (at_ f 3) 0xF000]> f))))
  else if ver =? 5 then <[31%nat := USHRT_MAX]> (<[30%nat := USHRT_MAX]> f)
  else f.

Definition _rtl8125_backup_phy_fuse_dout_v4 : ST bool :=
  f <- read_fuses (seq 0 R8125_PHY_FUSE_DOUT_NUM) ;;
  s <- tp_get id ;;
  smodify (upd_bak (BackupLedSel s) (fix_fuses (HwSuppEsdVer s) f) (esd_flag s)) ;;;
  sret true.

Definition rtl8125_backup_phy_fuse_dout : ST bool :=
  v <- tp_get (fun s => HwSuppEsdVer s) ;;
  if (v =? 4) || (v =? 5) then _rtl8125_backup_phy_fuse_dout_v4 else sret false.

Definition _rtl8125_restore_phy_fuse_dout_v4 : ST unit :=
  f <- tp_get (fun s => BackupPhyFuseDout s) ;;
  sfor (seq 0 R8125_PHY_FUSE_DOUT_NUM) (fun i =>
    if at_ f i =? USHRT_MAX then sret tt
    else
      rtl8125_clear_and_set_eth_phy_ocp_bit 0xA460 0x001F (Z.of_nat i) ;;;
      rtl8125_mdio_direct_write_phy_ocp 0xA462 (at_ f i)).

Definition rtl8125_restore_phy_fuse_dout : ST unit :=
  v <- tp_get (fun s => HwSuppEsdVer s) ;;
  if (v =? 4) || (v =? 5) then _rtl8125_restore_phy_fuse_dout_v4 else sret tt.

(** ** A stopped PHY microcontroller *)

(** [while ((val & m) && wait_cnt < 5)]: [n] more rounds. *)
Fixpoint phy_unlock_loop (n : nat) (m : Z) (body : ST unit) (val : Z) : ST unit :=
  match n with
  | O => sret tt
  | S n' =>
      if has val m then
        body ;;;
        v <- rtl8125_mdio_direct_read_phy_ocp 0xC404 ;;
        phy_unlock_loop n' m body (u16 v)
      else sret tt
  end.

Definition phy_unlock_v4 : list phy_op :=
  [se 0xBC02 0x000C; se 0xBC04 0x03FC; se 0xBC4C 0x1F00; se 0xBC06 0x7F00; se 0xC402 (BIT 10);
   cl 0xC402 (BIT 10); cl 0xBC06 0x7F00; cl 0xBC4C 0x1F00; cl 0xBC04 0x03FC; cl 0xBC02 0x000C].

Definition phy_unlock_v5 : list phy_op :=
  [se 0xBC02 0x000C; se 0xBC04 0x03FC; se 0xBC4C 0x1F00; se 0xBC06 0x4F00; mo 0xBC06 0x7F00 0x4F00;
   se 0xC402 (BIT 10); cl 0xC402 (BIT 10); cl 0xBC06 0x7F00; cl 0xBC4C 0x1F00; cl 0xBC04 0x03FC;
   cl 0xBC02 0x000C].

(** [rtl8125_test_phy_ocp_v4] from the test on: the microcontroller is
    restarted and its microcode marked as gone. *)
Definition restart_phy_v4 (uc2_response : bool) (phy_fatal_err : Z) : ST unit :=
  rtl8125_set_eth_phy_ocp_bit 0xC418 (BIT 0) ;;;
  val <- rtl8125_mdio_direct_read_phy_ocp 0xC404 ;;
  phy_unlock_loop 5 0x03 (phy_seq phy_unlock_v4) (u16 val) ;;;
  rtl8125_restore_phy_fuse_dout ;;;
  rtl8125_wait_phy_state_ready HW_PHY_STATUS_INI 5000000 ;;;
  rtl8125_set_eth_phy_ocp_bit 0xA468 (BIT 0) ;;;
  rtl8125_wait_phy_state_ready HW_PHY_STATUS_LAN_ON 500000 ;;;
  swhen (tst phy_fatal_err) (phy_seq [wr 0xA436 0x801C; wr 0xA438 phy_fatal_err]) ;;;
  swhen uc2_response (phy_seq [wr 0xA436 0x801B; se 0xA438 (BIT 8)]) ;;;
  rtl8125_restore_led_select ;;;
  smodify (set_HwHasWr 0).

Definition rtl8125_test_phy_ocp_v4 : ST bool :=
  m <- tp_get (fun s => mcu s) ;;
  restore <-
    (if negb (HW_HAS_WRITE_PHY_MCU_RAM_CODE m) then sret false
     else
       u <- rtl8125_mdio_direct_read_phy_ocp 0xB87A ;;
       e <- rtl8125_mdio_direct_read_phy_ocp 0xB98E ;;
       let uc2_response := has u (BIT 0) in
       if negb uc2_response && (u8 e =? 0) then sret false
       else restart_phy_v4 uc2_response (u8 e) ;;; sret true) ;;
  rtl8125_set_eth_phy_ocp_bit 0xB87A (BIT 0) ;;;
  rtl8125_mdio_write 0x1F 0x0000 ;;;
  sret restore.

Definition restart_phy_v5 (phy_fatal_err : Z) : ST unit :=
  rtl8125_set_eth_phy_ocp_bit 0xC418 (BIT 0) ;;;
  val <- rtl8125_mdio_direct_read_phy_ocp 0xC404 ;;
  phy_unlock_loop 5 0x0F (phy_seq phy_unlock_v5) (u16 val) ;;;
  rtl8125_restore_phy_fuse_dout ;;;
  rtl8125_wait_phy_state_ready HW_PHY_STATUS_INI 5000000 ;;;
  m <- tp_get (fun s => mcfg s) ;;
  swhen (m =? 10) rtl8125_set_phy_mcu_8125d_1_efuse ;;;
  rtl8125_set_eth_phy_ocp_bit 0xA468 (BIT 0) ;;;
  rtl8125_clear_phy_ups_reg ;;;
  rtl8125_wait_phy_state_ready HW_PHY_STATUS_LAN_ON 500000 ;;;
  swhen (tst phy_fatal_err) (phy_seq [wr 0xA436 0x801C; wr 0xA438 phy_fatal_err]) ;;;
  rtl8125_restore_led_select ;;;
  smodify (set_HwHasWr 0).

Definition rtl8125_test_phy_ocp_v5 : ST bool :=
  m <- tp_get (fun s => mcu s) ;;
  restore <-
    (if negb (HW_HAS_WRITE_PHY_MCU_RAM_CODE m) then sret false
     else
       e <- rtl8125_mdio_direct_read_phy_ocp 0xB98C ;;
       if u8 e =? 0 then sret false else restart_phy_v5 (u8 e) ;;; sret true) ;;
  rtl8125_mdio_write 0x1F 0x0000 ;;;
  sret restore.

Definition rtl8125_test_phy_ocp : ST bool :=
  f <- tp_get feat ;;
  if negb (tst (TestPhyOcpReg f)) then sret false
  else if HwSuppEsdVer f =? 4 then rtl8125_test_phy_ocp_v4
  else if HwSuppEsdVer f =? 5 then rtl8125_test_phy_ocp_v5
  else sret false.

(** ** Link up and down *)

Definition set_iface (carrier queues : bool) (s : nic D) : nic D :=
  set_net (MkNet (netif_running s) carrier queues (mtu s) (rms s) (cp_cmd s) (rtl8125_rx_config s)) s.

Definition set_partner (aner anlpar gbsr status_2500 : Z) (s : nic D) : nic D :=
  set_nego (MkNego (phy_auto_nego_reg s) (phy_1000_ctrl_reg s) (phy_2500_ctrl_reg s) aner anlpar gbsr
              status_2500) s.

(** CFG_METHOD_10 and 11 have no "EEE plus". *)
Definition has_eee_plus (m : Z) : bool := existsb (Z.eqb m) [2; 3; 4; 5; 6; 7; 8; 9; 12].

Definition rtl8125_link_on_patch (n : netdev) : ST unit :=
  rtl8125_hw_config ether_crc n ;;;
  s <- tp_get id ;;
  swhen ((mcfg s =? 2) && netif_running s)
    (status <- rtl8125_get_phy_status ;;
     v <- RTL_R32 TxConfig ;;
     RTL_W32 TxConfig
       (if has status FullDup then Z.land (Z.lor v (Z.lor (BIT 24) (BIT 25))) (Z.lnot (BIT 19))
        else Z.land (Z.lor v (BIT 25)) (Z.lnot (Z.lor (BIT 19) (BIT 24))))) ;;;
  status <- rtl8125_get_phy_status ;;
  swhen (has_eee_plus (mcfg s) && has status _10bps) rtl8125_enable_eee_plus ;;;
  swhen (tst (RequiredPfmPatch s)) (rtl8125_set_pfm_patch (has status _10bps)) ;;;
  rtl8125_hw_start ;;;
  smodify (set_iface true true) ;;;
  aner <- rtl8125_mdio_read MII_EXPANSION ;;
  anlpar <- rtl8125_mdio_read MII_LPA ;;
  gbsr <- rtl8125_mdio_read MII_STAT1000 ;;
  status_2500 <- rtl8125_mdio_direct_read_phy_ocp 0xA5D6 ;;
  smodify (set_partner (u16 aner) (u16 anlpar) (u16 gbsr) (u16 status_2500)).

Definition rtl8125_link_down_patch : ST unit :=
  smodify (set_partner 0 0 0 0) ;;;
  s <- tp_get id ;;
  swhen (has_eee_plus (mcfg s)) rtl8125_disable_eee_plus ;;;
  swhen (tst (RequiredPfmPatch s)) (rtl8125_set_pfm_patch true) ;;;
  smodify (set_iface false false) ;;;
  rtl8125_hw_reset ;;;
  rtl8125_enable_hw_linkchg_interrupt.

Definition _rtl8125_check_link_status (n : netdev) (link_state : Z) : ST unit :=
  link_state <-
    (if negb (link_state =? R8125_LINK_STATE_OFF) && negb (link_state =? R8125_LINK_STATE_ON)
     then rtl8125_xmii_link_ok else sret link_state) ;;
  if link_state =? R8125_LINK_STATE_ON then rtl8125_link_on_patch n else rtl8125_link_down_patch.

Definition clear_not_chg_speed (s : nic D) : nic D :=
  set_wol (MkWol (wol_opts s) (wol_enabled s) 0 (check_keep_link_speed s)) s.

Definition rtl8125_check_link_status (n : netdev) : ST unit :=
  smodify clear_not_chg_speed ;;;
  link_status_on <- rtl8125_xmii_link_ok ;;
  s <- tp_get id ;;
  if (if netif_carrier_ok s then 1 else 0) =? link_status_on then rtl8125_enable_hw_linkchg_interrupt
  else _rtl8125_check_link_status n link_status_on.

(** ** The periodic check *)

(** One cell: [true] when it had to be put back. *)
Definition esd_cell (i : nat) : ST bool :=
  saved <- tp_get (fun s => pci_cfg_space s) ;;
  let '(w, off) := nth i pci_cfg_cells (0, 0) in
  v <- on_dev (pci_read_config w off) ;;
  if wrap (8 * w) v =? at_ saved i then sret false
  else on_dev_ (pci_write_config w off (at_ saved i)) ;;; sret true.

Fixpoint esd_cells_loop (cells : list (nat * Z)) (flag : Z) : ST Z :=
  match cells with
  | [] => sret flag
  | (i, b) :: cells' =>
      bad <- esd_cell i ;;
      esd_cells_loop cells' (if bad : bool then Z.lor flag (BIT b) else flag)
  end.

(** The two words of the serial number, saved after the cells. *)
Definition esd_sn (i : nat) (off b flag : Z) : ST Z :=
  saved <- tp_get (fun s => pci_cfg_space s) ;;
  v <- rtl8125_csi_read off ;;
  if v =? at_ saved i then sret flag
  else rtl8125_csi_write off (at_ saved i) ;;; sret (Z.lor flag (BIT b)).

(** The comparisons after that of cmd, then the PHY; the result is [esd_flag]. *)
Definition esd_compare (flag : Z) : ST Z :=
  flag <- esd_cells_loop esd_cells flag ;;
  f <- tp_get feat ;;
  flag <- (if HwPcieSNOffset f >? 0
           then flag <- esd_sn 14 (HwPcieSNOffset f) 13 flag ;; esd_sn 15 (HwPcieSNOffset f + 4) 14 flag
           else sret flag) ;;
  bad <- (if tst (TestPhyOcpReg f) then rtl8125_test_phy_ocp else sret false) ;;
  sret (if bad : bool then Z.lor flag (BIT 15) else flag).

(** Setting the chip up again. *)
Definition esd_recover (n : netdev) : ST unit :=
  smodify (set_iface false false) ;;;
  rtl8125_hw_reset ;;;
  rtl8125_up ether_crc n ;;;
  rtl8125_enable_hw_linkchg_interrupt ;;;
  s <- tp_get id ;;
  rtl8125_set_speed (autoneg s) (speed s) (duplex s) (advertising s) ;;;
  sret tt.

Definition set_esd_flag (v : Z) (s : nic D) : nic D := upd_bak (BackupLedSel s) (BackupPhyFuseDout s) v s.

Definition rtl8125_esd_checker (n : netdev) : ST unit :=
  diag <- tp_get (fun s => rtk_enable_diag s) ;;
  if tst diag then sret tt
  else
    smodify (set_esd_flag 0) ;;;
    bad <- esd_cell 0 ;;
    cmd <- (if bad : bool then smodify (set_esd_flag (BIT 0)) ;;; on_dev (pci_read_config 1 4) else sret 0) ;;
    if u8 cmd =? 0xff then sret tt
    else
      flag <- esd_compare (if bad : bool then BIT 0 else 0) ;;
      smodify (set_esd_flag flag) ;;;
      swhen (tst flag) (esd_recover n ;;; smodify (set_esd_flag 0)).

End Esd.
