(* ===== verification/RtlProbe.v ===== *)
(** * r8125: identifying the chip, and interrupts

    src/.../realtek/r8125/r8125_n.c: which chip it is, how many interrupt
    vectors it gets, everything [rtl8125_init_software_variable] finds out when
    the device is probed, the interrupt mask, and the two interrupt handlers,
    which say what is to be done: serve a ring, or look at the link.

    The functions [pci_alloc_irq_vectors] and [pci_dev_msi_enabled] are
    arguments.  CONFIG_R8125_NAPI is not defined: the handlers serve the rings
    themselves.  The options ENABLE_MULTIPLE_TX_QUEUE, ENABLE_RSS_SUPPORT and
    ENABLE_PTP_SUPPORT, which the Makefile leaves out, are kept as arguments;
    [rtl8125_interrupt] serves every ring of the list it is written with. *)
From S2P Require Import Prelude RtlBase RtlHw RtlIrq RtlWol RtlMcu RtlRamCode RtlPhyConfig RtlChip RtlFiber RtlLink RtlEee RtlConfig RtlEsd.
Local Open Scope Z_scope.
Local Open Scope rtl_scope.

(** ** The chip *)

Definition EFUSE_NOT_SUPPORT : Z := 0.
Definition EFUSE_SUPPORT_V4 : Z := 4.

(** The chips of the version register: the first method is for identifier 0,
    the second for identifier 1 and for any other, which is unknown. *)
Definition mac_versions : list (Z * (Z * Z)) :=
  [(0x60800000, (2, 3)); (0x64000000, (4, 5)); (0x68000000, (8, 9)); (0x68800000, (10, 11))].

(** [rtl8125_get_mac_version], from TxConfig and the PCI device: the method,
    whether it is unknown, and the efuse version. *)
Definition mac_version (val32 device : Z) : Z * bool * Z :=
  let reg := Z.land val32 0x7c800000 in
  let ICVerID := Z.land val32 0x00700000 in
  let '(m, unknown, efuse) :=
    match List.find (fun r => fst r =? reg) mac_versions with
    | Some (_, (m0, m1)) =>
        if ICVerID =? 0 then (m0, false, EFUSE_SUPPORT_V4)
        else (m1, negb (ICVerID =? 0x100000), EFUSE_SUPPORT_V4)
    | None =>
        if reg =? 0x70800000 then (12, negb (ICVerID =? 0), EFUSE_SUPPORT_V4)
        else (CFG_METHOD_DEFAULT, true, EFUSE_NOT_SUPPORT)
    end in
  (if device =? 0x8162 then if m =? 3 then 6 else if m =? 5 then 7 else m else m, unknown, efuse).

(** ** Interrupt vectors *)

(** [hw_supp_irq_nvecs], [min_irq_nvecs] and [max_irq_nvecs] of a chip. *)
Definition irq_vecs (m : Z) : Z * Z * Z :=
  let supp := if (m =? 2) || (m =? 3) then 4
              else if (4 <=? m) && (m <=? 12) then 32 else 1 in
  if (m =? 4) || (m =? 5) || (m =? 7) then (supp, 22, supp)
  else if (m =? 8) || (m =? 9) then (supp, 32, supp)
  else if (m =? 10) || (m =? 11) then (supp, 20, supp)
  else if m =? 12 then (supp, 31, supp)
  else (supp, 1, 1).

Record msi_result := MkMsi { m_nvecs : Z; m_msix : bool; m_msi : bool }.

(** [rtl8125_try_msi]: [alloc_msix] is [pci_alloc_irq_vectors] for MSI-X from
    the smallest to the largest number, [alloc_any] the same for one vector of
    any type, [msi_enabled] is [pci_dev_msi_enabled]. *)
Definition rtl8125_try_msi (alloc_msix : Z -> Z -> Z) (alloc_any : Z) (msi_enabled : bool) (m : Z)
    : msi_result :=
  let '(_, lo, hi) := irq_vecs m in
  let nvecs := alloc_msix lo hi in
  if nvecs >? 0 then MkMsi nvecs true false
  else MkMsi 1 false ((alloc_any >? 0) && msi_enabled).

(** ** The interrupt mask *)

Record build_opts := MkOpts { ENABLE_MULTIPLE_TX_QUEUE : bool; ENABLE_RSS_SUPPORT : bool; ENABLE_PTP_SUPPORT : bool }.

(** The mask of the receive queues, [ISRIMR_.._ROK_Q0 << i] for all [i] below
    [n]. *)
Definition rok_mask (n : Z) : Z :=
  fold_left (fun m i => Z.lor m (Z.shiftl 1 (Z.of_nat i))) (seq 0 (Z.to_nat n)) 0.

(** [rtl8125_setup_interrupt_mask]: [intr_mask], [intr_l2_mask] and
    [timer_intr_mask]. *)
Definition interrupt_mask (ver num_tx num_rx dash l2 timer : Z) : Z * Z * Z :=
  let two (linkchg q0 q1 : Z) :=
    Z.lor (Z.lor (Z.lor linkchg q0) (if num_tx >? 1 then q1 else 0)) (rok_mask num_rx) in
  if ver =? 7 then (two (BIT 29) (BIT 27) (BIT 28), l2, timer)
  else if ver =? 5 then (two (BIT 18) (BIT 16) (BIT 17), l2, timer)
  else if ver =? 4 then
    let l2 := if tst dash then Z.lor l2 (BIT 17) else l2 in
    let m := Z.lor (BIT 29) (rok_mask (Z.max num_tx num_rx)) in
    (if l2 >? 0 then Z.lor m (BIT 31) else m, l2, timer)
  else if ver =? 3 then (Z.lor (BIT 21) (rok_mask (Z.max num_tx num_rx)), l2, timer)
  else if ver =? 2 then (two (BIT 21) (BIT 16) (BIT 18), l2, timer)
  else (Z.lor 0x20 (Z.lor 0x10 (Z.lor 0x4 (Z.lor 0x1 0x100))), l2, Z.lor 0x20 0x4000).

(** ** What is to be done *)

Inductive work := serve_tx (q : Z) | serve_rx (q : Z) | check_link.

Definition rtl8125_linkchg_interrupt (h : hw_info) (status : Z) : bool :=
  let v := HwCurrIsrVer h in
  if (v =? 2) || (v =? 3) then has status ISRIMR_V2_LINKCHG
  else if v =? 4 then has status ISRIMR_V4_LINKCHG
  else if v =? 5 then has status ISRIMR_V5_LINKCHG
  else if v =? 7 then has status ISRIMR_V7_LINKCHG
  else has status LinkChg.

Definition rtl8125_get_linkchg_message_id (h : hw_info) : Z :=
  let v := HwCurrIsrVer h in
  if (v =? 4) || (v =? 7) then 29 else if v =? 5 then 18 else 21.

Definition rtl8125_tx_interrupt_with_vector (o : build_opts) (h : hw_info) (message_id : Z) : list work :=
  let v := HwCurrIsrVer h in
  let two m0 m1 :=
    if message_id =? m0 then [serve_tx 0]
    else if ENABLE_MULTIPLE_TX_QUEUE o && (message_id =? m1) && (num_tx_rings h >? 1) then [serve_tx 1]
    else [] in
  if (v =? 3) || (v =? 4) then if message_id <? num_tx_rings h then [serve_tx message_id] else []
  else if v =? 5 then two 16 17
  else if v =? 7 then two 27 28
  else two 16 18.

Section Handlers.
Context {D : Type} `{HM : Mmio D}.
Abbreviation ST := (St (nic D)).

(** [requested] is [tp->irq_tbl[message_id].requested]. *)
Definition rtl8125_interrupt_msix (o : build_opts) (requested : bool) (message_id : Z) : ST (list work) :=
  h <- tp_get hw ;;
  if negb requested then sret []
  else if message_id =? rtl8125_get_linkchg_message_id h then
    rtl8125_disable_hw_interrupt_v2 message_id ;;;
    rtl8125_clear_hw_isr_v2 message_id ;;;
    sret [check_link]
  else
    rtl8125_disable_hw_interrupt_v2 message_id ;;;
    rtl8125_clear_hw_isr_v2 message_id ;;;
    let tx := rtl8125_tx_interrupt_with_vector o h message_id in
    let rx := if message_id <? num_rx_rings h then [serve_rx message_id] else [] in
    rtl8125_enable_hw_interrupt_v2 message_id ;;;
    sret (tx ++ rx).

Definition RTK_KEEP_INTERRUPT_COUNT : Z := 10.
Definition RxFIFOOver : Z := 0x0040.

(** The legacy handler; the count of interrupts without work is an argument and
    part of the result, after [handled] and the work. *)
Definition rtl8125_interrupt (msi_or_msix requested : bool) (keep_intr_cnt : Z) : ST (bool * list work * Z) :=
  h <- tp_get hw ;;
  status <- RTL_R32 (isr h 0) ;;
  if negb msi_or_msix && ((status =? 0) || (status =? 0xFFFFFFFF)
       || negb (has status (Z.lor (intr_mask h) (timer_intr_mask h))))
  then sret (false, [], keep_intr_cnt)
  else if negb requested then sret (true, [], keep_intr_cnt)
  else
    rtl8125_disable_hw_interrupt ;;;
    RTL_W32 (isr h 0) (Z.land status (Z.lnot RxFIFOOver)) ;;;
    let link := if rtl8125_linkchg_interrupt h status then [check_link] else [] in
    if has status (intr_mask h) || (keep_intr_cnt >? 0) then
      let cnt := if has status (intr_mask h) then RTK_KEEP_INTERRUPT_COUNT else keep_intr_cnt - 1 in
      rtl8125_switch_to_timer_interrupt ;;;
      sret (true, link ++ map (fun i => serve_tx (Z.of_nat i)) (seq 0 (Z.to_nat (num_tx_rings h)))
              ++ [serve_rx 0], cnt)
    else
      rtl8125_switch_to_hw_interrupt ;;;
      sret (true, link, RTK_KEEP_INTERRUPT_COUNT).

End Handlers.

(** ** What the driver finds out when the device is probed *)

(** The module parameters, of which [rtl8125_init_software_variable] changes
    [eee_enable] and [tx_no_close_enable] for every device probed after. *)
Record mod_params := MkParams {
  p_eee_enable : Z; p_tx_no_close_enable : Z; p_timer_count : Z;
  p_autoneg_mode : Z; p_speed_mode : Z; p_duplex_mode : Z
}.

(** Fields of the private structure that no modelled function reads. *)
Record soft_vars := MkSoft {
  HwPkgDet : Z; DashFirmwareVersion : Z; org_pci_offset_80 : Z; org_pci_offset_81 : Z;
  HwSuppTxNoCloseVer : Z; MaxTxDescPtrMask : Z; RequireLSOPatch : bool; HwSuppNumTxQueues : Z;
  HwSuppPtpVer : Z; EnablePtp : bool; HwSuppRssVer : Z; intr_l2_mask : Z;
  tdsar_regs : list Z; rdsar_regs : list Z; hw_clo_ptr_regs : list Z; sw_tail_ptr_regs : list Z
}.

(** The version of the PHY microcode of a chip. *)
Definition NIC_RAMCODE_VERSION (m : Z) : Z :=
  if m =? 2 then 0x0b11 else if (m =? 3) || (m =? 6) then 0x0b33
  else if m =? 4 then 0x0b17 else if (m =? 5) || (m =? 7) then 0x0b99
  else if m =? 8 then 0x0013 else if m =? 9 then 0x0001 else if m =? 10 then 0x0027
  else if m =? 11 then 0x0031 else if m =? 12 then 0x0010 else 0.

(** The [switch]es over the chip that assign constants. *)
Definition isr_ver (m : Z) : Z :=
  if (m =? 4) || (m =? 5) || (m =? 7) then 2 else if (m =? 8) || (m =? 9) then 4
  else if (m =? 10) || (m =? 11) then 5 else if m =? 12 then 7 else 1.
Definition tx_no_close_ver (m : Z) : Z :=
  if (2 <=? m) && (m <=? 7) then 3 else if (8 <=? m) && (m <=? 12) then 6 else 0.
Definition max_link_speed (m : Z) : Z :=
  if existsb (Z.eqb m) [2; 3; 4; 5; 8; 9; 10; 11; 12] then 2500 else 1000.
Definition magic_pkt_ver (m : Z) : Z :=
  if existsb (Z.eqb m) [2; 3; 4; 5; 6; 7; 10; 11] then WAKEUP_MAGIC_PACKET_V3
  else WAKEUP_MAGIC_PACKET_NOT_SUPPORT.
Definition esd_ver (m : Z) : Z := if (m =? 5) || (m =? 7) then 4 else if m =? 10 then 5 else 1.
Definition d0_speedup_ver (m : Z) : Z :=
  if (3 <=? m) && (m <=? 9) then 1 else if (10 <=? m) && (m <=? 12) then 2 else 0.
Definition pcie_sn_offset (m : Z) : Z :=
  if (2 <=? m) && (m <=? 7) then 0x16C else if (8 <=? m) && (m <=? 12) then 0x168 else 0.
Definition supp_queues (m : Z) : Z * Z :=
  if existsb (Z.eqb m) [4; 5; 7; 8; 9; 10; 11; 12] then (2, 4) else (1, 1).
Definition ptp_ver (m : Z) : Z :=
  if (m =? 4) || (m =? 5) || (m =? 7) then 1 else if (10 <=? m) && (m <=? 12) then 3 else 0.
Definition int_miti_ver (m : Z) : Z :=
  if (m =? 2) || (m =? 3) || (m =? 6) then 3 else if (m =? 4) || (m =? 5) || (m =? 7) then 4
  else if (8 <=? m) && (m <=? 12) then 6 else 0.
Definition rx_desc_type (m : Z) : Z :=
  if (2 <=? m) && (m <=? 7) then RX_DESC_RING_TYPE_3
  else if (8 <=? m) && (m <=? 12) then RX_DESC_RING_TYPE_4 else RX_DESC_RING_TYPE_1.
Definition pci_offset_180_addr (m : Z) : option Z :=
  if (m =? 2) || (m =? 3) || (m =? 6) then Some 0x264
  else if (m =? 4) || (m =? 5) || (m =? 7) then Some 0x214
  else if (8 <=? m) && (m <=? 11) then Some 0x210
  else if m =? 12 then Some 0x184 else None.

(** The interrupt scheme in use, and the numbers of rings. *)
Definition curr_isr_ver (supp : Z) (msix : bool) (nvecs min_nvecs : Z) : Z :=
  if (supp >? 1) && (negb msix || (nvecs <? min_nvecs)) then 1 else supp.

Definition num_rings (o : build_opts) (m nvecs curr_isr default_queues : Z) : Z * Z :=
  let '(supp_tx, supp_rx) := supp_queues m in
  let tx := if ENABLE_MULTIPLE_TX_QUEUE o then supp_tx else 1 in
  let tx := if (curr_isr <? 2) || ((curr_isr =? 2) && (nvecs <? 19)) then 1 else tx in
  let rss := existsb (Z.eqb m) [4; 5; 7; 8; 9; 10; 11; 12] in
  let rx :=
    if ENABLE_RSS_SUPPORT o && rss && (curr_isr >? 1) then
      let q := u8 default_queues in
      let n := if supp_rx >? q then q else supp_rx in
      if negb ((n >=? 2) && (nvecs >=? n)) then 1 else n
    else 1 in
  (tx, rx).

(** [rtl8125_setup_mqs_reg]: registers of queue 0 and of the others. *)
Definition queue_regs (first next step n : Z) : list Z :=
  map (fun i => if (i =? 0)%nat then first else u16 (next + (Z.of_nat i - 1) * step)) (seq 0 (Z.to_nat n)).

Definition ptr_regs (base len n : Z) : list Z :=
  map (fun i => u16 (base + Z.of_nat i * len)) (seq 0 (Z.to_nat n)).

Definition no_close_regs (ver : Z) : Z * Z * Z :=
  if (ver =? 4) || (ver =? 5) then (0x2800, 0x2800, 4)
  else if ver =? 6 then (0x0D34, 0x0D30, 8) else (0x2802, 0x2800, 4).

(** RCR_Cfg of [rtl_chip_info], and what the descriptor type makes of it. *)
Definition RCR_Cfg (m : Z) : Z :=
  if m =? CFG_METHOD_DEFAULT then Z.shiftl 5 8
  else
    let v := Z.lor (BIT 30) (Z.lor (BIT 22) (Z.lor (BIT 23) (Z.shiftl 4 8))) in
    if (m =? 4) || (m =? 5) || (m =? 7) then Z.lor v (BIT 11)
    else if (8 <=? m) && (m <=? 12) then Z.lor v (Z.lor (BIT 21) (BIT 11)) else v.

Definition initial_rx_config (rcr desc_type : Z) : Z :=
  if desc_type =? RX_DESC_RING_TYPE_3 then Z.lor rcr (BIT 24)
  else if desc_type =? RX_DESC_RING_TYPE_4 then Z.land rcr (Z.lnot (BIT 24)) else rcr.

Definition init_desc_type (supp : Z) (rss ptp : bool) : Z :=
  if (supp =? RX_DESC_RING_TYPE_3) && (rss || ptp) then RX_DESC_RING_TYPE_3
  else if (supp =? RX_DESC_RING_TYPE_4) && rss then RX_DESC_RING_TYPE_4
  else RX_DESC_RING_TYPE_1.

(** The modes EEE supports and advertises. *)
Definition eee_modes (m maxspeed : Z) : Z :=
  let v := Z.lor (BIT LINK_MODE_100baseT_Full_BIT) (BIT LINK_MODE_1000baseT_Full_BIT) in
  if (m =? 2) || (m =? 3) then v
  else if maxspeed >=? 2500 then Z.lor v (BIT LINK_MODE_2500baseT_Full_BIT) else v.

Section Init.
Context {D : Type} `{HM : Mmio D}.
Abbreviation ST := (St (nic D)).

Definition set_dash (supp ocpver allow dash : Z) (s : nic D) : nic D :=
  set_hw (MkHw (mcfg s) allow ocpver supp dash (HwSuppCheckPhyDisableModeVer s) (HwSuppIsrVer s)
    (HwCurrIsrVer s) (HwSuppIntMitiVer s) (intr_mask s) (timer_intr_mask s) (use_timer_interrupt s)
    (timer_count s) (num_tx_rings s) (num_rx_rings s) (HwSuppNumRxQueues s) (isr_reg s) (imr_reg s)
    (EnableRss s) (HwSuppIndirTblEntries s) (InitRxDescType s) (netdev_rxhash s) (pci_resource_len2 s)) s.

(** DASH: the version, the OCP channel, and whether the firmware is there. *)
Definition init_dash : ST Z :=
  s <- tp_get id ;;
  let m := mcfg s in
  dashver <-
    (if (m =? 2) || (m =? 3) then
       v <- rtl8125_mac_ocp_read 0xD006 ;;
       sret (if (u8 v =? 0x02) || (u8 v =? 0x04) then 2 else HwSuppDashVer s)
     else sret (if (m =? 8) || (m =? 9) then 4 else 0)) ;;
  let chan := if ((m =? 2) || (m =? 3)) && (dashver >? 0) then 2
              else if (m =? 8) || (m =? 9) || (m =? 12) then 2 else HwSuppOcpChannelVer s in
  smodify (set_dash dashver chan (AllowAccessDashOcp s) (DASH s)) ;;;
  allow <- rtl8125_is_allow_access_dash_ocp ;;
  smodify (set_dash dashver chan (if allow : bool then 1 else 0) (DASH s)) ;;;
  pkg <- rtl8125_mac_ocp_read 0xDC00 ;;
  dash <- rtl8125_check_dash ;;
  smodify (set_dash dashver chan (if allow : bool then 1 else 0) (if dash : bool then 1 else 0)) ;;;
  sret (Z.land (Z.shiftr pkg 3) 0x07).

(** The PCI offsets saved when ASPM is on: 0x99 and 0x180. *)
Definition init_pci_offsets : ST (Z * Z) :=
  s <- tp_get id ;;
  if tst (aspm s) then
    v <- rtl8125_csi_fun0_read_byte 0x99 ;;
    w <- (match pci_offset_180_addr (mcfg s) with
          | Some a => rtl8125_csi_fun0_read_byte a
          | None => sret (org_pci_offset_180 s)
          end) ;;
    sret (u8 (Z.land v (Z.lnot (bits_or [5; 6]))), u8 w)
  else sret (org_pci_offset_99 s, org_pci_offset_180 s).

(** The fields of [hw_features] that depend on the chip alone. *)
Definition chip_features (m : Z) (o99 o180 no_close timer_v2 : Z) (f : hw_features) : hw_features :=
  MkFeat (HwIcVerUnknown f) (max_link_speed m) (magic_pkt_ver m) 3 (d0_speedup_ver m) 1 1 2 256 1
    (esd_ver m) (rx_desc_type m) (pcie_sn_offset m) (TestPhyOcpReg f)
    (if (m =? 10) || (m =? 11) then 1 else RequiredPfmPatch f) (RequirePhyMdiSwapPatch f)
    (if tst (HwIcVerUnknown f) then 1 else NotWrRamCodeToMicroP f)
    (if tst (HwIcVerUnknown f) then 1 else NotWrMcuPatchCode f)
    (NIC_RAMCODE_VERSION m) o99 o180 no_close (irq_nvecs f) (RTL_FEATURE_MSIX_on f) (pm_cap f)
    (tally_paddr f) (RCR_Cfg m) 0xff7e5880 (aspm f) (eee_giga_lite f) (disable_wol_support f)
    (s0_magic_packet f) (hwoptimize f) (enable_double_vlan f) timer_v2.

Definition set_phy_tests (test swap : Z) (f : hw_features) : hw_features :=
  MkFeat (HwIcVerUnknown f) (HwSuppMaxPhyLinkSpeed f) (HwSuppMagicPktVer f) (HwSuppLinkChgWakeUpVer f)
    (HwSuppD0SpeedUpVer f) (HwSuppExtendTallyCounterVer f) (HwSuppNowIsOobVer f) (HwSuppMacMcuVer f)
    (MacMcuPageSize f) (HwSuppTcamVer f) (HwSuppEsdVer f) (HwSuppRxDescType f) (HwPcieSNOffset f) test
    (RequiredPfmPatch f) swap (NotWrRamCodeToMicroP f) (NotWrMcuPatchCode f) (sw_ram_code_ver f)
    (org_pci_offset_99 f) (org_pci_offset_180 f) (EnableTxNoClose f) (irq_nvecs f) (RTL_FEATURE_MSIX_on f)
    (pm_cap f) (tally_paddr f) (rx_config_base f) (RxConfigMask f) (aspm f) (eee_giga_lite f)
    (disable_wol_support f) (s0_magic_packet f) (hwoptimize f) (enable_double_vlan f) (timer_count_v2 f).

(** Interrupts, rings and descriptors. *)
Definition chip_hw (o : build_opts) (p : mod_params) (default_queues : Z) (f : hw_features) (h : hw_info)
    : hw_info * Z :=
  let m := mcfg h in
  let '(nsupp, min_nvecs, _) := irq_vecs m in
  let curr := curr_isr_ver (isr_ver m) (RTL_FEATURE_MSIX_on f) (irq_nvecs f) min_nvecs in
  let '(tx, rx) := num_rings o m (irq_nvecs f) curr default_queues in
  let rss := rx >=? 2 in
  let '(mask, l2, timer) := interrupt_mask curr tx rx (DASH h) 0 (timer_intr_mask h) in
  (MkHw m (AllowAccessDashOcp h) (HwSuppOcpChannelVer h) (HwSuppDashVer h) (DASH h) 3 (isr_ver m) curr
     (int_miti_ver m) mask timer
     (if (p_timer_count p =? 0) || (m =? CFG_METHOD_DEFAULT) then 0 else 1) (p_timer_count p) tx rx
     (snd (supp_queues m)) (queue_regs 0x3C 0x802 4 nsupp) (queue_regs 0x38 0x800 4 nsupp)
     (if rss then 1 else EnableRss h)
     (if existsb (Z.eqb m) [4; 5; 7; 8; 9; 10; 11; 12] then 128 else HwSuppIndirTblEntries h)
     (init_desc_type (rx_desc_type m) rss (ENABLE_PTP_SUPPORT o && (ptp_ver m >? 0)))
     (netdev_rxhash h) (pci_resource_len2 h), l2).

(** [default_queues] is [netif_get_num_default_rss_queues()]. *)
Definition rtl8125_init_software_variable (o : build_opts) (p : mod_params) (default_queues : Z)
    : ST (soft_vars * mod_params) :=
  pkg <- init_dash ;;
  s <- tp_get id ;;
  let m := mcfg s in
  let p := if tst (DASH s)
           then MkParams 0 (p_tx_no_close_enable p) (p_timer_count p) (p_autoneg_mode p) (p_speed_mode p)
                  (p_duplex_mode p)
           else p in
  fw <- (if tst (DASH s) then rtl8125_get_dash_fw_ver else sret 0) ;;
  offs <- init_pci_offsets ;;
  o80 <- on_dev (pci_read_config 1 0x80) ;;
  o81 <- on_dev (pci_read_config 1 0x81) ;;
  rtl8125_check_fiber_mode_support ;;;
  let nc := tx_no_close_ver m in
  let p := if nc =? 0
           then MkParams (p_eee_enable p) 0 (p_timer_count p) (p_autoneg_mode p) (p_speed_mode p)
                  (p_duplex_mode p)
           else p in
  let no_close := if (nc >? 0) && (p_tx_no_close_enable p =? 1) then 1 else EnableTxNoClose s in
  let tv2 := Z.quot (p_timer_count p) 0x100 in
  let tv2 := if (8 <=? m) && (m <=? 12) then Z.quot tv2 2 else tv2 in
  smodify (fun s : nic D => set_feat (chip_features m (fst offs) (snd offs) no_close tv2 (feat s)) s) ;;;
  saved <- rtl8125_backup_phy_fuse_dout ;;
  smodify (fun s : nic D =>
    set_feat (set_phy_tests (if saved : bool then 1 else TestPhyOcpReg s) (RequirePhyMdiSwapPatch s) (feat s)) s) ;;;
  rtl8125_check_hw_phy_mcu_code_ver ;;;
  swap <- (if (m =? 3) || (m =? 6) then
             a <- rtl8125_mac_ocp_read 0xD442 ;;
             if has a (BIT 5)
             then b <- rtl8125_mdio_direct_read_phy_ocp 0xD068 ;; sret (has b (BIT 1))
             else sret false
           else sret false) ;;
  swhen swap (smodify (fun s : nic D => set_feat (set_phy_tests (TestPhyOcpReg s) 1 (feat s)) s)) ;;;
  s <- tp_get id ;;
  let '(h, l2) := chip_hw o p default_queues (feat s) (hw s) in
  smodify (set_hw h) ;;;
  smodify (fun s : nic D =>
    set_rx_config_cp (initial_rx_config (rx_config_base s) (InitRxDescType h)) (cp_cmd s) s) ;;;
  rtl8125_backup_led_select ;;;
  init_wol ;;;
  rtl8125_set_link_option (p_autoneg_mode p) (p_speed_mode p) (p_duplex_mode p) rtl8125_fc_full ;;;
  swhen (negb (m =? CFG_METHOD_DEFAULT))
    (smodify (fun s : nic D =>
       set_eee (MkEee (Z.lor (eee_supported s) (eee_modes m (HwSuppMaxPhyLinkSpeed s)))
                  (Z.lor (eee_advertised s) (eee_modes m (HwSuppMaxPhyLinkSpeed s)))
                  (if tst (p_eee_enable p) then 1 else 0) (u32 (mtu s + 14 + 0x20))) s)) ;;;
  let '(clo, tail, len) := no_close_regs nc in
  let '(ntx, nrx) := supp_queues m in
  sret (MkSoft pkg fw (u8 o80) (u8 o81) nc
          (if (nc =? 5) || (nc =? 6) then 0x7FFFFFFF else if nc =? 4 then 0xFFFFFFFF
           else if nc =? 3 then 0xFFFF else 0)
          ((m =? 2) || (m =? 3) || (m =? 6)) ntx (ptp_ver m) (ENABLE_PTP_SUPPORT o && (ptp_ver m >? 0))
          (if existsb (Z.eqb m) [4; 5; 7; 8; 9; 10; 11; 12] then 5 else 0) l2
          (queue_regs 0x20 0x2100 8 ntx) (queue_regs 0xE4 0x4000 8 nrx)
          (ptr_regs clo len ntx) (ptr_regs tail len ntx), p).

End Init.
