(* ===== verification/RtlIface.v ===== *)
(** * r8125: opening, closing, sleeping, and the deferred work

    src/.../realtek/r8125/r8125_n.c: the resources of an open interface
    (descriptor rings, receive buffers, interrupts, bus mastering), the
    operations of the kernel that acquire and release them, suspend and resume,
    and the deferred works with their pending flags in [task_flags].

    The kernel is the class [Kern]: the allocators and [pci_enable_device] may
    fail.  [alloc_rx_buffers] stands for the allocations of
    [rtl8125_init_ring], which gives all buffers back when one fails (that
    function is in [RtlRx]).  The waits for running handlers and transmitters,
    and the PCI power calls that have no result, are left out.
    ENABLE_S5WOL is defined, ENABLE_S5_KEEP_CURR_MAC is not: [s5wol] and
    [s5_keep_curr_mac] are arguments, like the [system_state]. *)
From S2P Require Import Prelude RtlBase RtlHw RtlIrq RtlWol RtlMcu RtlRamCode RtlPhyConfig RtlChip RtlFiber RtlLink RtlEee RtlConfig RtlEsd RtlProbe.
Local Open Scope Z_scope.
Local Open Scope rtl_scope.

Definition ENOMEM : Z := 12.
Definition MII_BMSR : Z := 1.
Definition BMSR_ANEGCOMPLETE : Z := 0x0020.

Class Kern (K : Type) := {
  dma_alloc_coherent : K -> bool * K;
  alloc_rx_buffers : K -> bool * K;
  pci_request_irq : Z -> K -> Z * K;
  pci_enable_device : K -> Z * K
}.

Inductive task := reset_work | esd_work | linkchg_work | link_work | dash_work.

#[export] Instance task_eq_dec : EqDecision task.
Proof. solve_decision. Defined.

(** Descriptor rings and interrupts are listed by index. *)
Record resources := MkRes {
  tx_desc : list bool; rx_desc : list bool; rx_bufs : bool; irq_requested : list bool; bus_master : bool
}.

(** [R8125_FLAG_DOWN], the pending flags, and the works that are queued. *)
Record task_state := MkTask { flag_down : bool; pending : list task; queued : list task }.

Record ifc (D K : Type) := MkIfc { card : nic D; kern : K; res : resources; tasks : task_state }.
Arguments MkIfc {D K}.
Arguments card {D K}.
Arguments kern {D K}.
Arguments res {D K}.
Arguments tasks {D K}.

Definition add_task (t : task) (l : list task) : list task := if decide (t ∈ l) then l else t :: l.
Definition del_task (t : task) (l : list task) : list task := filter (fun x => x <> t) l.

Section Iface.
Context {D K : Type} `{HM : Mmio D} `{HK : LinkModes} `{HN : Kern K}.
Variable ether_crc : list Z -> Z.
Abbreviation ST := (St (nic D)).
Abbreviation IF := (St (ifc D K)).

Definition on_card {A} (m : ST A) : IF A := fun s =>
  let '(a, c) := m (card s) in (a, MkIfc c (kern s) (res s) (tasks s)).
Definition on_kern {A} (f : K -> A * K) : IF A := fun s =>
  let '(a, k) := f (kern s) in (a, MkIfc (card s) k (res s) (tasks s)).
Definition upd_res (f : resources -> resources) : IF unit := fun s =>
  (tt, MkIfc (card s) (kern s) (f (res s)) (tasks s)).
Definition upd_tasks (f : task_state -> task_state) : IF unit := fun s =>
  (tt, MkIfc (card s) (kern s) (res s) (f (tasks s))).
Definition get_card {A} (f : nic D -> A) : IF A := sgets (fun s => f (card s)).

Definition set_tx_desc (i : nat) (b : bool) (r : resources) : resources :=
  MkRes (<[i := b]> (tx_desc r)) (rx_desc r) (rx_bufs r) (irq_requested r) (bus_master r).
Definition set_rx_desc (i : nat) (b : bool) (r : resources) : resources :=
  MkRes (tx_desc r) (<[i := b]> (rx_desc r)) (rx_bufs r) (irq_requested r) (bus_master r).
Definition set_rx_bufs (b : bool) (r : resources) : resources :=
  MkRes (tx_desc r) (rx_desc r) b (irq_requested r) (bus_master r).
Definition set_requested (i : nat) (b : bool) (r : resources) : resources :=
  MkRes (tx_desc r) (rx_desc r) (rx_bufs r) (<[i := b]> (irq_requested r)) (bus_master r).
Definition set_master (b : bool) (r : resources) : resources :=
  MkRes (tx_desc r) (rx_desc r) (rx_bufs r) (irq_requested r) b.

(** The indices of [for (i = 0; i < n; i++)]. *)
Definition below (n : Z) : list nat := seq 0 (Z.to_nat n).

(** ** Resources *)

(** The loops of [rtl8125_alloc_tx_desc] and [rtl8125_alloc_rx_desc]; a pointer
    the allocator did not give is null. *)
Fixpoint alloc_loop (set : nat -> bool -> resources -> resources) (idx : list nat) : IF Z :=
  match idx with
  | [] => sret 0
  | i :: idx' =>
      ok <- on_kern dma_alloc_coherent ;;
      upd_res (set i ok) ;;;
      if ok : bool then alloc_loop set idx' else sret (-1)
  end.

Definition rtl8125_alloc_tx_desc : IF Z :=
  n <- get_card (fun s => num_tx_rings s) ;; alloc_loop set_tx_desc (below n).
Definition rtl8125_alloc_rx_desc : IF Z :=
  n <- get_card (fun s => num_rx_rings s) ;; alloc_loop set_rx_desc (below n).

Definition rtl8125_free_tx_desc : IF unit :=
  n <- get_card (fun s => num_tx_rings s) ;; sfor (below n) (fun i => upd_res (set_tx_desc i false)).
Definition rtl8125_free_rx_desc : IF unit :=
  n <- get_card (fun s => num_rx_rings s) ;; sfor (below n) (fun i => upd_res (set_rx_desc i false)).

Definition rtl8125_free_alloc_resources : IF unit := rtl8125_free_rx_desc ;;; rtl8125_free_tx_desc.

Definition rtl8125_init_ring : IF Z :=
  ok <- on_kern alloc_rx_buffers ;;
  upd_res (set_rx_bufs ok) ;;;
  sret (if ok : bool then 0 else - ENOMEM).

Definition rtl8125_rx_clear : IF unit := upd_res (set_rx_bufs false).

Definition rtl8125_free_irq : IF unit :=
  n <- get_card (fun s => irq_nvecs s) ;; sfor (below n) (fun i => upd_res (set_requested i false)).

Fixpoint request_loop (idx : list nat) : IF Z :=
  match idx with
  | [] => sret 0
  | i :: idx' =>
      rc <- on_kern (pci_request_irq (Z.of_nat i)) ;;
      if tst rc then sret rc else upd_res (set_requested i true) ;;; request_loop idx'
  end.

Definition rtl8125_alloc_irq : IF Z :=
  n <- get_card (fun s => irq_nvecs s) ;;
  rc <- request_loop (below n) ;;
  swhen (tst rc) rtl8125_free_irq ;;;
  sret rc.

Definition rtl8125_resource_freed : IF bool :=
  s <- sgets id ;;
  let free n l := forallb (fun i => negb (nth i l false)) (below n) in
  sret (free (num_tx_rings (card s)) (tx_desc (res s)) && free (num_rx_rings (card s)) (rx_desc (res s))).

(** ** Deferred work *)

(** [set_bit(.._PENDING); schedule_delayed_work(..)], which does nothing when
    the work is queued already. *)
Definition schedule (t : task) : IF unit :=
  upd_tasks (fun x => MkTask (flag_down x) (add_task t (pending x)) (add_task t (queued x))).

Definition rtl8125_schedule_reset_work : IF unit := schedule reset_work.
Definition rtl8125_schedule_esd_work : IF unit := schedule esd_work.
Definition rtl8125_schedule_linkchg_work : IF unit := schedule linkchg_work.
Definition rtl8125_schedule_link_work : IF unit := schedule link_work.

Definition set_down (b : bool) : IF unit := upd_tasks (fun x => MkTask b (pending x) (queued x)).

(** ** Open and close *)

Definition rtl8125_open (n : netdev) : IF Z :=
  on_card rtl8125_set_rxbufsize ;;;
  a <- rtl8125_alloc_tx_desc ;;
  b <- (if a <? 0 then sret (-1) else rtl8125_alloc_rx_desc) ;;
  retval <-
    (if b <? 0 then sret (- ENOMEM)
     else
       v <- rtl8125_init_ring ;;
       if v <? 0 then sret v else rtl8125_alloc_irq) ;;
  if retval <? 0 then rtl8125_free_alloc_resources ;;; sret retval
  else
    upd_res (set_master true) ;;;
    on_card rtl8125_exit_oob ;;;
    on_card (rtl8125_up ether_crc n) ;;;
    set_down false ;;;
    s <- get_card id ;;
    (if tst (resume_not_chg_speed s)
     then on_card (_rtl8125_check_link_status ether_crc n R8125_LINK_STATE_UNKNOWN)
     else on_card (rtl8125_set_speed (autoneg s) (speed s) (duplex s) (advertising s)) ;;; sret tt) ;;;
    s <- get_card id ;;
    swhen (esd_flag s =? 0) rtl8125_schedule_esd_work ;;;
    swhen (HW_FIBER_MODE_ENABLED s) rtl8125_schedule_link_work ;;;
    on_card rtl8125_enable_hw_linkchg_interrupt ;;;
    sret retval.

(** [_rtl8125_wait_for_quiescence] masks the interrupts. *)
Definition rtl8125_down : IF unit :=
  on_card (smodify (set_iface false false)) ;;;
  on_card rtl8125_irq_mask_and_ack ;;;
  on_card rtl8125_hw_reset ;;;
  rtl8125_rx_clear.

Definition rtl8125_close (restart : bool) (kcp : Z) : IF Z :=
  freed <- rtl8125_resource_freed ;;
  (if freed : bool then
     on_card rtl8125_hw_d3_para ;;;
     on_card (rtl8125_powerdown_pll restart kcp false)
   else
     set_down true ;;;
     rtl8125_down ;;;
     upd_res (set_master false) ;;;
     on_card rtl8125_hw_d3_para ;;;
     on_card (rtl8125_powerdown_pll restart kcp false) ;;;
     rtl8125_free_irq ;;;
     rtl8125_free_alloc_resources) ;;;
  sret 0.

Definition set_wol_enabled (v : Z) (s : nic D) : nic D :=
  set_wol (MkWol (wol_opts s) v (resume_not_chg_speed s) (check_keep_link_speed s)) s.

(** MSI-X off, at the end of [rtl8125_shutdown]. *)
Definition rtl8125_shutdown (restart power_off : bool) (kcp s5wol s5_keep_curr_mac : Z) : IF unit :=
  s <- get_card id ;;
  swhen (HW_DASH_SUPPORT_DASH s) (on_card rtl8125_driver_stop) ;;;
  on_card rtl8125_disable_pci_offset_180 ;;;
  swhen ((s5_keep_curr_mac =? 0) && (random_mac s =? 0)) (on_card (rtl8125_rar_set (org_mac_addr s))) ;;;
  swhen (s5wol =? 0) (on_card (smodify (set_wol_enabled WOL_DISABLED))) ;;;
  rtl8125_close restart kcp ;;;
  swhen power_off (upd_res (set_master false)).

Definition rtl8125_suspend (restart : bool) (kcp : Z) : IF Z :=
  s <- get_card id ;;
  swhen (netif_running s)
    (set_down true ;;;
     on_card (smodify (set_iface false false)) ;;;
     on_card rtl8125_hw_reset ;;;
     upd_res (set_master false) ;;;
     on_card rtl8125_hw_d3_para ;;;
     on_card (rtl8125_powerdown_pll restart kcp true)) ;;;
  swhen (HW_DASH_SUPPORT_DASH s) (on_card rtl8125_driver_stop) ;;;
  sret 0.

Definition rtl8125_hw_d3_not_power_off : ST Z := rtl8125_check_hw_phy_mcu_code_ver.

Definition rtl8125_wait_phy_nway_complete_sleep : ST Z :=
  done <- poll 30 (v <- rtl8125_mdio_read MII_BMSR ;; sret (has v BMSR_ANEGCOMPLETE)) ;;
  sret (if done : bool then 0 else -1).

Definition set_not_chg_speed (v : Z) (s : nic D) : nic D :=
  set_wol (MkWol (wol_opts s) (wol_enabled s) v (check_keep_link_speed s)) s.

(** Whether the link has survived the sleep. *)
Definition resume_link : ST unit :=
  rtl8125_check_hw_phy_mcu_code_ver ;;;
  smodify (set_not_chg_speed 0) ;;;
  s <- tp_get id ;;
  swhen (tst (check_keep_link_speed s))
    (v <- rtl8125_hw_d3_not_power_off ;;
     swhen (tst v)
       (w <- rtl8125_wait_phy_nway_complete_sleep ;;
        swhen (w =? 0) (smodify (set_not_chg_speed 1)))).

Definition rtl8125_resume (n : netdev) : IF Z :=
  err <- on_kern pci_enable_device ;;
  if tst err then sret err
  else
    s <- get_card id ;;
    on_card (rtl8125_rar_set (dev_addr s)) ;;;
    on_card resume_link ;;;
    if negb (netif_running s) then sret err
    else
      upd_res (set_master true) ;;;
      on_card rtl8125_exit_oob ;;;
      on_card (rtl8125_up ether_crc n) ;;;
      set_down false ;;;
      rtl8125_schedule_reset_work ;;;
      rtl8125_schedule_esd_work ;;;
      s <- get_card id ;;
      swhen (HW_FIBER_MODE_ENABLED s) rtl8125_schedule_link_work ;;;
      sret err.

(** ** The works *)

(** The work queue takes the work off and calls it; the test at the head of
    every task: not running, going down, or not pending any more. *)
Definition run_task (t : task) (body : IF unit) : IF unit :=
  upd_tasks (fun x => MkTask (flag_down x) (pending x) (del_task t (queued x))) ;;;
  s <- sgets id ;;
  if negb (netif_running (card s)) || flag_down (tasks s) then sret tt
  else if decide (t ∈ pending (tasks s)) then
    upd_tasks (fun x => MkTask (flag_down x) (del_task t (pending x)) (queued x)) ;;; body
  else sret tt.

(** The receive descriptors are given back to the controller as they are. *)
Definition rtl8125_reset_task (n : netdev) : IF unit :=
  run_task reset_work
    (on_card (smodify (set_iface false false)) ;;;
     on_card rtl8125_irq_mask_and_ack ;;;
     on_card rtl8125_hw_reset ;;;
     s <- get_card id ;;
     if tst (resume_not_chg_speed s) then
       on_card (_rtl8125_check_link_status ether_crc n R8125_LINK_STATE_UNKNOWN) ;;;
       on_card (smodify (set_not_chg_speed 0))
     else
       on_card rtl8125_enable_hw_linkchg_interrupt ;;;
       on_card (rtl8125_set_speed (autoneg s) (speed s) (duplex s) (advertising s)) ;;;
       sret tt).

Definition rtl8125_esd_task (n : netdev) : IF unit :=
  run_task esd_work (on_card (rtl8125_esd_checker ether_crc n) ;;; rtl8125_schedule_esd_work).

Definition rtl8125_linkchg_task (n : netdev) : IF unit :=
  run_task linkchg_work (on_card (rtl8125_check_link_status ether_crc n)).

Definition rtl8125_link_task : IF unit :=
  run_task link_work
    (ok <- on_card rtl8125_xmii_link_ok ;;
     s <- get_card id ;;
     swhen (negb ((if netif_carrier_ok s then 1 else 0) =? ok)) rtl8125_schedule_linkchg_work ;;;
     rtl8125_schedule_link_work).

(** [rtl8125_change_mtu] for kernels from 4.10 on, where the range has been
    checked. *)
Definition rtl8125_change_mtu (n : netdev) (new_mtu : Z) : IF Z :=
  on_card (smodify (fun s : nic D =>
    set_net (MkNet (netif_running s) (netif_carrier_ok s) (tx_queues_on s) new_mtu (rms s) (cp_cmd s)
               (rtl8125_rx_config s))
      (set_eee (MkEee (eee_supported s) (eee_advertised s) (eee_enabled s) (u32 (new_mtu + 14 + 0x20))) s))) ;;;
  s <- get_card id ;;
  if negb (netif_running s) then sret 0
  else
    rtl8125_down ;;;
    on_card rtl8125_set_rxbufsize ;;;
    ret <- rtl8125_init_ring ;;
    if ret <? 0 then sret ret
    else
      ok <- on_card rtl8125_xmii_link_ok ;;
      on_card (if tst ok then rtl8125_link_on_patch ether_crc n else rtl8125_link_down_patch) ;;;
      sret ret.

End Iface.
