(* ===== verification/RtlCable.v ===== *)
(** * r8125: cable diagnostics, temperature, counters

    src/.../realtek/r8125/r8125_n.c, the first functions: the thermal sensor, the
    dump of the tally counters into memory, and the test that finds open,
    shorted and mismatched pairs of the cable.  A result array is a list. *)
From S2P Require Import Prelude RtlBase RtlHw RtlIrq RtlWol RtlMcu RtlFiber RtlLink.
Local Open Scope Z_scope.
Local Open Scope rtl_scope.

Definition CounterDump : Z := 0x8.
Definition RTL8125_CP_NUM : nat := 4.
Definition RTL8125_MAX_SUPPORT_CP_LEN : Z := 110.

Inductive rtl8125_cp_status :=
  rtl8125_cp_normal | rtl8125_cp_short | rtl8125_cp_open | rtl8125_cp_mismatch | rtl8125_cp_unknown.

Definition __rtl8125_get_cp_status (val : Z) : rtl8125_cp_status :=
  if val =? 0x0060 then rtl8125_cp_normal
  else if val =? 0x0048 then rtl8125_cp_open
  else if val =? 0x0050 then rtl8125_cp_short
  else if (val =? 0x0042) || (val =? 0x0044) then rtl8125_cp_mismatch
  else rtl8125_cp_normal.

Definition rtl8125_get_cp_status_string (st : rtl8125_cp_status) : string :=
  match st with
  | rtl8125_cp_normal => "normal  "
  | rtl8125_cp_short => "short   "
  | rtl8125_cp_open => "open    "
  | rtl8125_cp_mismatch => "mismatch"
  | rtl8125_cp_unknown => "unknown "
  end.

Section Cable.
Context {D : Type} `{HM : Mmio D}.
Abbreviation ST := (St (nic D)).

Definition rtl8125_read_thermal_sensor : ST Z :=
  m <- tp_get (fun s => mcfg s) ;;
  if existsb (Z.eqb m) [4; 5; 7; 8; 9; 10; 11; 12]
  then v <- rtl8125_mdio_direct_read_phy_ocp 0xBD84 ;; sret (Z.land (u16 v) 0x3ff)
  else sret 0xffff.

(** [while (read & CounterDump) { WaitCnt++; if (WaitCnt > 20) break; }]: at
    most 21 reads; 0 when one of them shows the bit clear. *)
Definition rtl8125_dump_tally_counter (paddr : Z) : ST Z :=
  RTL_W32 0x14 (Z.shiftr (u64 paddr) 32) ;;;
  let cmd := u32 paddr in
  RTL_W32 0x10 cmd ;;;
  RTL_W32 0x10 (Z.lor cmd CounterDump) ;;;
  done <- poll 21 (v <- RTL_R32 0x10 ;; sret (negb (has v CounterDump))) ;;
  sret (if done : bool then 0 else -1).

(** [!!(x & BIT_n) << k] *)
Definition move_bit (x n k : Z) : Z := Z.shiftl (if has x (BIT n) then 1 else 0) k.

Definition rtl8125_mdi_swap : ST unit :=
  m <- tp_get (fun s => mcfg s) ;;
  let reg := if (m =? 2) || (m =? 3) || (m =? 6) then Some 0x8284
             else if (m =? 4) || (m =? 5) || (m =? 7) then Some 0x81aa else None in
  match reg with
  | None => sret tt
  | Some reg =>
      v <- rtl8125_mac_ocp_read 0xD440 ;;
      let tps := Z.land (u16 v) 0xF000 in
      mdi_reverse <- rtl8125_mac_ocp_read 0xD442 ;;
      let rev := has (u16 mdi_reverse) (BIT 5) in
      if rev && (tps =? 0xA000) then sret tt
      else
        let val :=
          if rev then Z.lor (move_bit tps 15 8) (Z.lor (move_bit tps 14 9)
                        (Z.lor (move_bit tps 13 10) (move_bit tps 12 11)))
          else Z.lor (move_bit tps 12 8) (Z.lor (move_bit tps 13 9)
                 (Z.lor (move_bit tps 14 10) (move_bit tps 15 11))) in
        sfor [8; 9; 10; 11] (fun i =>
          rtl8125_mdio_direct_write_phy_ocp 0xA436 reg ;;;
          rtl8125_clear_and_set_eth_phy_ocp_bit 0xA438 (BIT i) (Z.land val (BIT i)))
  end.

(** [do { read; wait_cnt++ } while (!(val & BIT_15) && wait_cnt < n)]: the
    number of reads made. *)
Fixpoint vcd_wait (n : nat) (cnt : Z) : ST Z :=
  match n with
  | O => sret cnt
  | S n' =>
      val <- rtl8125_mdio_direct_read_phy_ocp 0xA422 ;;
      if has (u16 val) (BIT 15) then sret (cnt + 1) else vcd_wait n' (cnt + 1)
  end.

(** The count decides: a bit first seen in the last read counts as a timeout. *)
Definition _rtl8125_vcd_test : ST Z :=
  rtl8125_mdi_swap ;;;
  rtl8125_clear_eth_phy_ocp_bit 0xA422 (BIT 0) ;;;
  rtl8125_set_eth_phy_ocp_bit 0xA422 0x00F0 ;;;
  rtl8125_set_eth_phy_ocp_bit 0xA422 (BIT 0) ;;;
  cnt <- vcd_wait (Z.to_nat 5000) 0 ;;
  sret (if cnt =? 5000 then -1 else 0).

Definition rtl8125_vcd_test (poe_mode : bool) : ST Z :=
  m <- tp_get (fun s => mcfg s) ;;
  if existsb (Z.eqb m) [4; 5; 7] then
    phy_seq [wr 0xA436 0x8FE1; wr 0xA438 (if poe_mode then 0x0A44 else 0x0000);
             wr 0xA436 0x8FE3; wr 0xA438 (if poe_mode then 0x0100 else 0x0000)] ;;;
    ret <- _rtl8125_vcd_test ;;
    phy_seq [wr 0xA436 0x8FE3; wr 0xA438 0x0000; wr 0xA436 0x8FE1; wr 0xA438 0x0000] ;;;
    sret ret
  else _rtl8125_vcd_test.

(** The length in metres, the same for the four pairs; -1 when it is not known. *)
Definition rtl8125_get_cp_len : ST (list Z) :=
  m <- tp_get (fun s => mcfg s) ;;
  status <- rtl8125_get_phy_status ;;
  tmp_cp_len <-
    (if negb (has status LinkStatus) then sret 0
     else if has status _10bps then sret (-1)
     else if has status (Z.lor _100bps _1000bpsF) then
       rtl8125_mdio_write 0x1f 0x0a88 ;;; rtl8125_mdio_read 0x10
     else if has status _2500bpsF then
       if (m =? 2) || (m =? 3) || (m =? 6) then
         rtl8125_mdio_write 0x1f 0x0ac5 ;;; v <- rtl8125_mdio_read 0x14 ;; sret (Z.shiftr v 4)
       else
         rtl8125_mdio_write 0x1f 0x0acb ;;; v <- rtl8125_mdio_read 0x15 ;; sret (Z.shiftr v 2)
     else sret 0) ;;
  let len := if tmp_cp_len >? 0 then Z.land tmp_cp_len 0xff else tmp_cp_len in
  rtl8125_mdio_write 0x1f 0x0000 ;;;
  sret (repeat (if len >? RTL8125_MAX_SUPPORT_CP_LEN then RTL8125_MAX_SUPPORT_CP_LEN else len)
          RTL8125_CP_NUM).

Definition _rtl8125_get_cp_status (pair_num : Z) : ST rtl8125_cp_status :=
  let pair_num := u8 pair_num in
  if pair_num >? 3 then sret rtl8125_cp_unknown
  else
    rtl8125_mdio_direct_write_phy_ocp 0xA436 (0x8027 + 4 * pair_num) ;;;
    val <- rtl8125_mdio_direct_read_phy_ocp 0xA438 ;;
    sret (__rtl8125_get_cp_status (u16 val)).

Definition rtl8125_get_cp_pp (pair_num : Z) : ST Z :=
  let pair_num := u8 pair_num in
  if pair_num >? 3 then sret 0
  else
    rtl8125_mdio_direct_write_phy_ocp 0xA436 (0x8029 + 4 * pair_num) ;;;
    pp <- rtl8125_mdio_direct_read_phy_ocp 0xA438 ;;
    sret (Z.land (u16 pp) 0x3fff / 80).

(** The pairs one after the other. *)
Fixpoint cp_status_loop (idx : list nat) : ST (list rtl8125_cp_status) :=
  match idx with
  | [] => sret []
  | i :: idx' =>
      st <- _rtl8125_get_cp_status (Z.of_nat i) ;;
      sts <- cp_status_loop idx' ;; sret (st :: sts)
  end.

Definition rtl8125_get_cp_status (poe_mode : bool) : ST (list rtl8125_cp_status) :=
  status <- rtl8125_get_phy_status ;;
  cp_status <-
    (if has status LinkStatus && negb (has status (Z.lor _10bps _100bps))
     then sret (repeat rtl8125_cp_normal RTL8125_CP_NUM)
     else rtl8125_vcd_test poe_mode ;;; cp_status_loop (seq 0 RTL8125_CP_NUM)) ;;
  sret (if poe_mode
        then map (fun st => match st with rtl8125_cp_mismatch => rtl8125_cp_normal | _ => st end) cp_status
        else cp_status).

End Cable.
