(* ===== verification/RtlChanSpec.v ===== *)
(** * r8125: symbolic execution of the register functions

    The rules by which the driver's register functions are executed over the
    memories of [RtlHwSpec]: direct accesses, masked updates of PHY and MAC
    registers, byte registers, and the lists of PHY operations.  Each rule
    leaves the new controller [d'] with the memory it now stands for. *)
From S2P Require Import Prelude RtlBase RtlHw RtlHwSpec RtlIrq RtlWol RtlMcu.
Local Open Scope Z_scope.
Local Open Scope rtl_scope.

(** ** Words *)

Lemma u16_idem x : u16 (u16 x) = u16 x.
Proof. apply wrap_wrap. Qed.

Lemma u16_clear_set x c m : u16 (clear_set (u16 x) (u16 c) (u16 m)) = u16 (clear_set x c m).
Proof. unfold clear_set, u16. bits i. bcase. Qed.

Lemma u16_clear_set_l x c m : u16 (clear_set (u16 x) c m) = u16 (clear_set x c m).
Proof. unfold clear_set, u16. bits i. bcase. Qed.

Lemma u16_clear_set_m x c m : u16 (clear_set x (u16 c) (u16 m)) = u16 (clear_set x c m).
Proof. unfold clear_set, u16. bits i. bcase. Qed.

Lemma u16_lor x y : u16 (Z.lor x y) = Z.lor (u16 x) (u16 y).
Proof. unfold u16. bits i. bcase. Qed.

Lemma u16_land x y : u16 (Z.land x y) = Z.land (u16 x) y.
Proof. unfold u16. bits i. bcase. Qed.

Lemma u16_testbit x i : 0 <= i < 16 -> Z.testbit (u16 x) i = Z.testbit x i.
Proof. intros. unfold u16. bits_rw. destruct (i <? 16) eqn:E; [done|blia]. Qed.

(** ** The effect on the memories *)

Section Effects.
Context {D : Type} `{HL : NicLaws D}.
Abbreviation mem s := (chan (dev s)).

(** A masked update of a PHY or MAC register, by its address in bytes. *)
Definition phy_mod (addr c m : Z) (x : chan_mem) : chan_mem :=
  phy_put (u16 addr / 2) (u16 (clear_set (phy x !!! (u16 addr / 2)) c m)) x.

Definition mac_mod (addr c m : Z) (x : chan_mem) : chan_mem :=
  mac_put (u16 addr / 2) (u16 (clear_set (mac x !!! mac_cell x (u16 addr / 2)) c m)) x.

Definition reg_mod (r : Z) (f : Z -> Z) (x : chan_mem) : chan_mem := put_reg8 r (u8 (f (u8 (regs x !!! r)))) x.

(** What an operation of a list does. *)
Definition phy_eff (x : chan_mem) (op : phy_op) : chan_mem :=
  match op with
  | wr a v => phy_put (u16 a / 2) (u16 v) x
  | mo a c m => phy_mod a c m x
  end.

(** Operations that do not reset the PHY. *)
Definition op_addr (op : phy_op) : Z := match op with wr a _ => a | mo a _ _ => a end.
Definition op_ok (op : phy_op) : bool := negb (u16 (op_addr op) / 2 =? PHY_BMCR).

Lemma no_reset a v : negb (a =? PHY_BMCR) = true -> phy_reset a v = false.
Proof. unfold phy_reset. by destruct (a =? PHY_BMCR). Qed.

(** ** The rules *)

Lemma swp_direct_write a v (s : nic D) (Q : unit -> nic D -> Prop) :
  rtk_enable_diag s = 0 -> phy_reset (u16 a / 2) (u16 v) = false ->
  (forall d', chan d' = phy_put (u16 a / 2) (u16 v) (mem s) -> Q tt (set_dev d' s)) ->
  swp (rtl8125_mdio_direct_write_phy_ocp a v) Q s.
Proof.
  intros Hd Hr HQ. unfold rtl8125_mdio_direct_write_phy_ocp. do 2 swp_step. rewrite Hd.
  by apply swp_phy_write.
Qed.

Lemma swp_direct_read a (s : nic D) (Q : Z -> nic D -> Prop) :
  rtk_enable_diag s = 0 ->
  (forall d' v, chan d' = mem s -> 0 <= v < 65536 ->
     (phy_plain (u16 a / 2) = true -> v = u16 (phy (mem s) !!! (u16 a / 2))) -> Q v (set_dev d' s)) ->
  swp (rtl8125_mdio_direct_read_phy_ocp a) Q s.
Proof.
  intros Hd HQ. unfold rtl8125_mdio_direct_read_phy_ocp. do 2 swp_step. rewrite Hd.
  by apply swp_phy_read.
Qed.

Lemma swp_phy_mod a c m (s : nic D) (Q : unit -> nic D -> Prop) :
  rtk_enable_diag s = 0 -> negb (u16 a / 2 =? PHY_BMCR) = true ->
  (forall d', chan d' = phy_mod a c m (mem s) -> Q tt (set_dev d' s)) ->
  swp (rtl8125_clear_and_set_eth_phy_ocp_bit a c m) Q s.
Proof.
  intros Hd Hr HQ. unfold rtl8125_clear_and_set_eth_phy_ocp_bit. swp_step.
  apply swp_direct_read; [done|]. intros d1 v H1 Hv Hv'.
  apply swp_direct_write; [done|by apply no_reset|]. intros d2 H2. cbn [dev set_dev] in H2.
  apply (HQ d2). rewrite H2, H1. unfold phy_mod, phy_put. destruct (phy_plain (u16 a / 2)) eqn:E; [|done].
  f_equal. rewrite Hv' by done. by rewrite u16_clear_set, u16_clear_set_l.
Qed.

Lemma swp_phy_set a m (s : nic D) (Q : unit -> nic D -> Prop) :
  rtk_enable_diag s = 0 -> negb (u16 a / 2 =? PHY_BMCR) = true ->
  (forall d', chan d' = phy_mod a 0 m (mem s) -> Q tt (set_dev d' s)) ->
  swp (rtl8125_set_eth_phy_ocp_bit a m) Q s.
Proof. apply swp_phy_mod. Qed.

Lemma swp_phy_clear a m (s : nic D) (Q : unit -> nic D -> Prop) :
  rtk_enable_diag s = 0 -> negb (u16 a / 2 =? PHY_BMCR) = true ->
  (forall d', chan d' = phy_mod a m 0 (mem s) -> Q tt (set_dev d' s)) ->
  swp (rtl8125_clear_eth_phy_ocp_bit a m) Q s.
Proof. apply swp_phy_mod. Qed.

Lemma swp_mac_mod a c m (s : nic D) (Q : unit -> nic D -> Prop) :
  (forall d', chan d' = mac_mod a c m (mem s) -> Q tt (set_dev d' s)) ->
  swp (rtl8125_clear_set_mac_ocp_bit a c m) Q s.
Proof.
  intros HQ. unfold rtl8125_clear_set_mac_ocp_bit. swp_step. apply swp_mac_read. intros d1 v H1 Hv Hv'.
  apply swp_mac_write. intros d2 H2. cbn [dev set_dev] in H2. apply (HQ d2). rewrite H2, H1.
  unfold mac_mod, mac_put. destruct (mac_plain (u16 a / 2)) eqn:E; [|done]. f_equal.
  rewrite Hv' by done. by rewrite u16_clear_set_m, u16_clear_set_l.
Qed.

Lemma swp_mac_set a m (s : nic D) (Q : unit -> nic D -> Prop) :
  (forall d', chan d' = mac_mod a 0 m (mem s) -> Q tt (set_dev d' s)) -> swp (rtl8125_set_mac_ocp_bit a m) Q s.
Proof. apply swp_mac_mod. Qed.

Lemma swp_mac_clear a m (s : nic D) (Q : unit -> nic D -> Prop) :
  (forall d', chan d' = mac_mod a m 0 (mem s) -> Q tt (set_dev d' s)) -> swp (rtl8125_clear_mac_ocp_bit a m) Q s.
Proof. apply swp_mac_mod. Qed.

Lemma swp_set8 r m (s : nic D) (Q : unit -> nic D -> Prop) : plain8 r = true ->
  (forall d', chan d' = reg_mod r (fun v => Z.lor v m) (mem s) -> Q tt (set_dev d' s)) ->
  swp (RTL_set8 r m) Q s.
Proof.
  intros Hp HQ. unfold RTL_set8. swp_step. apply swp_reg8_read; [done|]. intros d1 H1.
  apply swp_reg8_write; [done|]. intros d2 H2. cbn [dev set_dev] in *. apply (HQ d2). by rewrite H2, H1.
Qed.

Lemma swp_clear8 r m (s : nic D) (Q : unit -> nic D -> Prop) : plain8 r = true ->
  (forall d', chan d' = reg_mod r (fun v => Z.land v (Z.lnot m)) (mem s) -> Q tt (set_dev d' s)) ->
  swp (RTL_clear8 r m) Q s.
Proof.
  intros Hp HQ. unfold RTL_clear8. swp_step. apply swp_reg8_read; [done|]. intros d1 H1.
  apply swp_reg8_write; [done|]. intros d2 H2. cbn [dev set_dev] in *. apply (HQ d2). by rewrite H2, H1.
Qed.

Lemma swp_phy_op op (s : nic D) (Q : unit -> nic D -> Prop) : rtk_enable_diag s = 0 -> op_ok op = true ->
  (forall d', chan d' = phy_eff (mem s) op -> Q tt (set_dev d' s)) -> swp (run_phy_op op) Q s.
Proof.
  intros Hd Hok. destruct op; cbn [run_phy_op phy_eff]; [|by apply swp_phy_mod].
  apply swp_direct_write; [done|]. apply no_reset. exact Hok.
Qed.

Lemma swp_phy_seq ops (s : nic D) (Q : unit -> nic D -> Prop) :
  rtk_enable_diag s = 0 -> forallb op_ok ops = true ->
  (forall d', chan d' = fold_left phy_eff ops (mem s) -> Q tt (set_dev d' s)) -> swp (phy_seq ops) Q s.
Proof.
  unfold phy_seq. revert s. induction ops as [|op ops IH]; intros s Hd Hok HQ; cbn [sfor].
  - apply swp_ret. rewrite (dev_only_refl s). apply HQ. done.
  - cbn [forallb] in Hok. apply andb_true_iff in Hok as [Ho Hok]. swp_step. apply swp_phy_op; [done..|].
    intros d1 H1. apply IH; [done..|]. intros d2 H2. cbn [dev set_dev] in H2. apply (HQ d2).
    by rewrite H2, H1.
Qed.

(** A loop of tests ends in a state where only the controller's memory may have
    changed as the test changes it. *)
Lemma swp_poll_mem n (c : St (nic D) bool) (s : nic D) (Q : bool -> nic D -> Prop) :
  (forall d, chan d = mem s ->
     swp c (fun _ t => exists d', t = set_dev d' s /\ chan d' = mem s) (set_dev d s)) ->
  (forall b d', chan d' = mem s -> Q b (set_dev d' s)) ->
  swp (poll n c) Q s.
Proof.
  intros Hc HQ.
  enough (forall d, chan d = mem s -> swp (poll n c) Q (set_dev d s)) as HH.
  { specialize (HH (dev s) eq_refl). by rewrite <- (dev_only_refl s) in HH. }
  induction n as [|n IH]; intros d Hd; cbn [poll]; [by apply swp_ret, HQ|]. swp_step.
  eapply swp_mono; [|by apply Hc]. intros b t (d' & -> & Hd'). cbv beta. destruct b.
  - by apply swp_ret, HQ.
  - by apply IH.
Qed.

Lemma swp_wait_patch ready (s : nic D) (Q : bool -> nic D -> Prop) : rtk_enable_diag s = 0 ->
  (forall b d', chan d' = mem s -> Q b (set_dev d' s)) -> swp (wait_patch_ready ready) Q s.
Proof.
  intros Hd HQ. apply swp_poll_mem; [|done]. intros d1 H1. swp_step. apply swp_direct_read; [done|].
  intros d2 v H2 _ _. swp_step. exists d2. split; [done|]. cbn [dev set_dev] in H2. by rewrite H2, H1.
Qed.

(** ** What a change leaves alone *)

Lemma phy_put_other a b v x : a <> b -> phy (phy_put a v x) !!! b = phy x !!! b.
Proof. intros. unfold phy_put. destruct (phy_plain a); [|done]. by apply lookup_total_insert_ne. Qed.

Lemma phy_put_this a v x : phy_plain a = true -> phy (phy_put a v x) !!! a = v.
Proof. intros H. unfold phy_put. rewrite H. apply lookup_total_insert_eq. Qed.

Lemma phy_mod_other addr c m b x : u16 addr / 2 <> b -> phy (phy_mod addr c m x) !!! b = phy x !!! b.
Proof. apply phy_put_other. Qed.

Lemma phy_mod_this addr c m x : phy_plain (u16 addr / 2) = true ->
  phy (phy_mod addr c m x) !!! (u16 addr / 2) = u16 (clear_set (phy x !!! (u16 addr / 2)) c m).
Proof. apply phy_put_this. Qed.

Lemma phy_put_rest a v x :
  mac (phy_put a v x) = mac x /\ regs (phy_put a v x) = regs x /\ eri (phy_put a v x) = eri x
  /\ ephy (phy_put a v x) = ephy x.
Proof. unfold phy_put. by destruct (phy_plain a). Qed.

Lemma mac_put_rest a v x :
  phy (mac_put a v x) = phy x /\ regs (mac_put a v x) = regs x /\ eri (mac_put a v x) = eri x
  /\ ephy (mac_put a v x) = ephy x.
Proof. unfold mac_put. by destruct (mac_plain a). Qed.

Lemma put_reg8_rest r v x :
  phy (put_reg8 r v x) = phy x /\ mac (put_reg8 r v x) = mac x.
Proof. unfold put_reg8. by destruct (is_config r && negb (config_open x)). Qed.

End Effects.

(** Run one register function of a sequence. *)
Ltac reg_step :=
  lazymatch goal with
  | |- swp (rtl8125_mdio_direct_write_phy_ocp _ _) _ _ =>
      apply swp_direct_write; [done|try reflexivity|intros ?d ?Hd; cbn [dev set_dev] in *]
  | |- swp (rtl8125_mdio_direct_read_phy_ocp _) _ _ =>
      apply swp_direct_read; [done|intros ?d ?v ?Hd ?Hr ?Hv; cbn [dev set_dev] in *]
  | |- swp (rtl8125_set_eth_phy_ocp_bit _ _) _ _ =>
      apply swp_phy_set; [done|reflexivity|intros ?d ?Hd; cbn [dev set_dev] in *]
  | |- swp (rtl8125_clear_eth_phy_ocp_bit _ _) _ _ =>
      apply swp_phy_clear; [done|reflexivity|intros ?d ?Hd; cbn [dev set_dev] in *]
  | |- swp (rtl8125_clear_and_set_eth_phy_ocp_bit _ _ _) _ _ =>
      apply swp_phy_mod; [done|reflexivity|intros ?d ?Hd; cbn [dev set_dev] in *]
  | |- swp (rtl8125_mac_ocp_write _ _) _ _ => apply swp_mac_write; intros ?d ?Hd; cbn [dev set_dev] in *
  | |- swp (rtl8125_mac_ocp_read _) _ _ =>
      apply swp_mac_read; intros ?d ?v ?Hd ?Hr ?Hv; cbn [dev set_dev] in *
  | |- swp (rtl8125_set_mac_ocp_bit _ _) _ _ => apply swp_mac_set; intros ?d ?Hd; cbn [dev set_dev] in *
  | |- swp (rtl8125_clear_mac_ocp_bit _ _) _ _ => apply swp_mac_clear; intros ?d ?Hd; cbn [dev set_dev] in *
  | |- swp (rtl8125_clear_set_mac_ocp_bit _ _ _) _ _ =>
      apply swp_mac_mod; intros ?d ?Hd; cbn [dev set_dev] in *
  | |- swp (RTL_set8 _ _) _ _ => apply swp_set8; [reflexivity|intros ?d ?Hd; cbn [dev set_dev] in *]
  | |- swp (RTL_clear8 _ _) _ _ => apply swp_clear8; [reflexivity|intros ?d ?Hd; cbn [dev set_dev] in *]
  | |- swp (RTL_W8 _ _) _ _ => apply swp_reg8_write; [reflexivity|intros ?d ?Hd; cbn [dev set_dev] in *]
  | |- swp (RTL_R8 _) _ _ => apply swp_reg8_read; [reflexivity|intros ?d ?Hd; cbn [dev set_dev] in *]
  | |- swp (phy_seq _) _ _ => apply swp_phy_seq; [done|reflexivity|intros ?d ?Hd; cbn [dev set_dev] in *]
  | |- _ => swp_step
  end.
