(* ===== verification/RtlLinkSpec.v ===== *)
(** * r8125: the PHY advertises what was asked for

    The speeds to advertise are spread over three PHY registers.  After the
    settings were made the registers advertise these modes and no others, keep
    their other bits, and what ethtool reads back is what was set. *)
From S2P Require Import Prelude RtlBase RtlHw RtlHwSpec RtlIrq RtlWol RtlMcu RtlFiber RtlLink RtlChanSpec RtlToy.
Local Open Scope Z_scope.
Local Open Scope rtl_scope.

(** ** Translations between bit sets *)

Lemma map_bits_bit rows x r j :
  Z.testbit (map_bits rows x r) j = Z.testbit r j || existsb (fun '(m, v) => has x m && Z.testbit v j) rows.
Proof.
  unfold map_bits. revert r. induction rows as [|[m v] rows IH]; intros r; cbn [fold_left existsb];
    [by rewrite orb_false_r|]. rewrite IH. destruct (has x m); rewrite ?Z.lor_spec; cbn [andb orb]; [|done].
  by rewrite orb_assoc.
Qed.

(** Evaluate the bits of constants, and what follows. *)
Ltac const_bits :=
  repeat match goal with
  | |- context [Z.testbit ?c ?k] =>
      tryif is_var c then fail else idtac;
      let b := eval vm_compute in (Z.testbit c k) in
      lazymatch b with true => idtac | false => idtac end;
      change (Z.testbit c k) with b
  end;
  cbn [andb orb negb]; rewrite ?andb_true_r, ?andb_false_r, ?orb_false_r, ?orb_true_r.

(** The three registers. *)
Definition ADV_CELL : Z := 0xA408 / 2.
Definition CTRL1000_CELL : Z := 0xA412 / 2.
Definition CTRL2500_CELL : Z := 0xA5D4 / 2.

Lemma below_16 b (P : Z -> Prop) : 0 <= b < 16 -> Forall P (map Z.of_nat (seq 0 16)) -> P b.
Proof.
  intros Hb HP. rewrite Forall_forall in HP. apply HP. apply list_elem_of_In, in_map_iff.
  exists (Z.to_nat b). split; [lia|]. apply in_seq. lia.
Qed.

Ltac each_bit b Hb :=
  pattern b; apply (below_16 b _ Hb); cbn [seq map];
  repeat constructor; cbn [Z.of_nat Pos.of_succ_nat Pos.succ]; const_bits; try done; bcase.

(** The three words, bit by bit. *)
Lemma nego_word_bit old adv fc b : 0 <= b < 16 ->
  Z.testbit (nego_word old adv fc) b =
    if (b =? 10) || (b =? 11) then fc =? rtl8125_fc_full
    else if (5 <=? b) && (b <=? 8) then Z.testbit adv (b - 5) else Z.testbit old b.
Proof.
  intros Hb. unfold nego_word.
  assert (forall y, Z.testbit (if fc =? rtl8125_fc_full then Z.lor y ADVERTISE_PAUSE_BOTH else y) b
    = Z.testbit y b || (fc =? rtl8125_fc_full) && Z.testbit ADVERTISE_PAUSE_BOTH b) as Hfc.
  { intros y. destruct (fc =? _); rewrite ?Z.lor_spec; cbn [andb]; by rewrite ?orb_false_r. }
  rewrite Hfc, map_bits_bit. unfold adv_rows_10_100. cbn [existsb].
  change ADVERTISED_10baseT_Half with (2 ^ 0). change ADVERTISED_10baseT_Full with (2 ^ 1).
  change ADVERTISED_100baseT_Half with (2 ^ 2). change ADVERTISED_100baseT_Full with (2 ^ 3).
  rewrite !has_bit by lia. rewrite Z.land_spec, Z.lnot_spec by lia. clear Hfc. generalize (fc =? rtl8125_fc_full).
  intros full. each_bit b Hb.
Qed.

Lemma giga_word_bit old adv b : 0 <= b < 16 ->
  Z.testbit (giga_word old adv) b = if (8 <=? b) && (b <=? 9) then Z.testbit adv (b - 4) else Z.testbit old b.
Proof.
  intros Hb. unfold giga_word. rewrite map_bits_bit. unfold adv_rows_1000. cbn [existsb].
  change ADVERTISED_1000baseT_Half with (2 ^ 4). change ADVERTISED_1000baseT_Full with (2 ^ 5).
  rewrite !has_bit by lia. rewrite Z.land_spec, Z.lnot_spec by lia.
  each_bit b Hb.
Qed.

Lemma ctrl_2500_word_bit old adv b : 0 <= b < 16 ->
  Z.testbit (ctrl_2500_word old adv) b = if b =? 7 then Z.testbit adv 15 else Z.testbit old b.
Proof.
  intros Hb. unfold ctrl_2500_word. rewrite map_bits_bit. unfold adv_rows_2500. cbn [existsb].
  change ADVERTISED_2500baseX_Full with (2 ^ 15).
  rewrite !has_bit by lia. rewrite Z.land_spec, Z.lnot_spec by lia.
  each_bit b Hb.
Qed.

(** What ethtool is told of the words: all modes but half-duplex gigabit. *)
Definition reported_modes : Z := bits_or [0; 1; 2; 3; 5; 15].

Lemma reported_back old4 old9 old25 adv fc : 0 <= adv ->
  adv_of_regs (nego_word old4 adv fc) (giga_word old9 adv) (ctrl_2500_word old25 adv) = Z.land adv reported_modes.
Proof.
  intros Ha. unfold adv_of_regs. apply Z.bits_inj'. intros i Hi. rewrite !map_bits_bit. cbn [existsb].
  change ADVERTISE_10HALF with (2 ^ 5). change ADVERTISE_10FULL with (2 ^ 6). change ADVERTISE_100HALF with (2 ^ 7).
  change ADVERTISE_100FULL with (2 ^ 8). change ADVERTISE_1000FULL with (2 ^ 9). change RTK_ADVERTISE_2500FULL with (2 ^ 7).
  rewrite !has_bit by lia. rewrite !nego_word_bit, !giga_word_bit, !ctrl_2500_word_bit by lia.
  rewrite Z.bits_0, Z.land_spec. cbn [orb andb].
  change (5 - 5) with 0. change (6 - 5) with 1. change (7 - 5) with 2. change (8 - 5) with 3.
  destruct (decide (i < 16)).
  - assert (0 <= i < 16) as Hb by lia. each_bit i Hb.
  - assert (forall c, 0 <= c < 2 ^ 16 -> Z.testbit c i = false) as Hh by (intros; apply (testbit_high _ 16); lia).
    rewrite (Hh ADVERTISED_10baseT_Half), (Hh ADVERTISED_10baseT_Full), (Hh ADVERTISED_100baseT_Half),
      (Hh ADVERTISED_100baseT_Full), (Hh ADVERTISED_1000baseT_Full), (Hh ADVERTISED_2500baseX_Full),
      (Hh reported_modes) by (split; by vm_compute). by rewrite !andb_false_r.
Qed.

(** ** The registers *)

Section Spec.
Context {D : Type} `{HL : NicLaws D}.
Abbreviation mem s := (chan (dev s)).
Abbreviation ST := (St (nic D)).

(** The modes a memory advertises: the bit of ethtool's mask, the register and
    the bit of the register. *)
Definition mode_rows : list (Z * (Z * Z)) :=
  [(0, (ADV_CELL, 5)); (1, (ADV_CELL, 6)); (2, (ADV_CELL, 7)); (3, (ADV_CELL, 8));
   (4, (CTRL1000_CELL, 8)); (5, (CTRL1000_CELL, 9)); (15, (CTRL2500_CELL, 7))].

Definition adv_cells : list Z := [ADV_CELL; CTRL1000_CELL; CTRL2500_CELL].

Lemma adv_cells_in c : c = ADV_CELL \/ c = CTRL1000_CELL \/ c = CTRL2500_CELL -> c ∈ adv_cells.
Proof. unfold adv_cells. rewrite !elem_of_cons. tauto. Qed.

(** The three registers are as they were. *)
Definition adv_same (x y : chan_mem) : Prop := Forall (fun c => phy y !!! c = phy x !!! c) adv_cells.

Lemma adv_same_refl x : adv_same x x.
Proof. unfold adv_same. by apply Forall_true. Qed.

Lemma adv_same_trans x y z : adv_same x y -> adv_same y z -> adv_same x z.
Proof.
  unfold adv_same. rewrite !Forall_forall. intros H1 H2 c Hc. by rewrite H2, H1.
Qed.

Lemma adv_same_put a v x : forallb (fun c => negb (a =? c)) adv_cells = true -> adv_same x (phy_put a v x).
Proof.
  intros H. unfold adv_same. rewrite Forall_forall. intros c Hc%list_elem_of_In. rewrite forallb_forall in H.
  apply phy_put_other. specialize (H c Hc). blia.
Qed.

(** ** The functions *)

Lemma swp_disable_mode (s : nic D) (Q : bool -> nic D -> Prop) :
  (forall b d', chan d' = mem s -> Q b (set_dev d' s)) -> swp rtl8125_is_in_phy_disable_mode Q s.
Proof.
  intros HQ. unfold rtl8125_is_in_phy_disable_mode, rtl8125_is_phy_disable_mode_enabled, rtl8125_is_gpio_low.
  do 3 swp_step. destruct (_ =? 3) eqn:E.
  - do 3 reg_step. swp_step; [|by apply HQ].
    do 2 swp_step. destruct (_ =? 3) eqn:E'; [|by swp_step; apply HQ].
    do 3 reg_step. apply (HQ _ d0). by rewrite Hd0.
  - do 2 swp_step. rewrite (dev_only_refl s). by apply HQ.
Qed.

Lemma swp_restart_nway (s : nic D) (Q : unit -> nic D -> Prop) : rtk_enable_diag s = 0 -> cur_page s = 0 ->
  (forall d', adv_same (mem s) (chan d') -> Q tt (set_dev d' s)) -> swp rtl8125_phy_restart_nway Q s.
Proof.
  intros Hd Hp HQ. unfold rtl8125_phy_restart_nway. swp_step. apply swp_disable_mode. intros b d1 H1.
  swp_step; [swp_step; apply HQ; rewrite H1; apply adv_same_refl|]. swp_step.
  apply swp_mdio_select; [done|]. apply (swp_mdio_write 0); [done|done|left; done|done|done|].
  intros d2 H2. cbn [dev set_dev set_cur_page set_ocp] in H2.
  assert (Q tt (set_dev d2 s)) as HQ2.
  { apply HQ. rewrite H2, H1. by apply adv_same_put. }
  clear -HQ2 Hp. destruct s as [h f o e fi r dr d]. destruct o as [cp ob di]. cbn in *. by subst cp.
Qed.

Lemma swp_giga_lite (b : bool) adv (s : nic D) (Q : unit -> nic D -> Prop) : rtk_enable_diag s = 0 ->
  (forall d', adv_same (mem s) (chan d') -> Q tt (set_dev d' s)) ->
  swp (if b then rtl8125_enable_giga_lite adv else rtl8125_disable_giga_lite) Q s.
Proof.
  intros Hd HQ.
  assert (forall m c m' c', swp (rtl8125_clear_and_set_eth_phy_ocp_bit 0xA428 c m ;;;
    rtl8125_clear_and_set_eth_phy_ocp_bit 0xA5EA c' m') Q s) as H.
  { intros m c m' c'. do 3 reg_step. apply HQ. rewrite Hd1, Hd0.
    eapply adv_same_trans; by apply adv_same_put. }
  destruct b; [|apply H]. unfold rtl8125_enable_giga_lite.
  destruct (has adv ADVERTISED_1000baseT_Full), (has adv ADVERTISED_2500baseX_Full); apply H.
Qed.

(** What [rtl8125_set_speed] with auto-negotiation leaves behind. *)
Record advertising_set (sp dup adv : Z) (s s' : nic D) : Prop := {
  adv_modes : Forall (fun '(i, (cell, b)) => Z.testbit (phy (mem s') !!! cell) b = Z.testbit adv i) mode_rows;
  adv_pause b : b = 10 \/ b = 11 ->
    Z.testbit (phy (mem s') !!! ADV_CELL) b = (fcpause s =? rtl8125_fc_full);
  adv_others cell b : cell ∈ adv_cells -> 0 <= b < 16 -> (cell, b) ∉ map snd mode_rows ->
    cell <> ADV_CELL \/ b <> 10 /\ b <> 11 ->
    Z.testbit (phy (mem s') !!! cell) b = Z.testbit (phy (mem s) !!! cell) b;
  adv_kept : 
    adv_of_regs (phy_auto_nego_reg s') (phy_1000_ctrl_reg s') (phy_2500_ctrl_reg s') = Z.land adv reported_modes;
  adv_settings : autoneg s' = AUTONEG_ENABLE /\ speed s' = sp /\ duplex s' = dup /\ advertising s' = adv
}.

Lemma mode_rows_of_words x4 x9 x25 y adv fc :
  phy y !!! ADV_CELL = u16 (nego_word x4 adv fc) -> phy y !!! CTRL1000_CELL = u16 (giga_word x9 adv) ->
  phy y !!! CTRL2500_CELL = u16 (ctrl_2500_word x25 adv) ->
  Forall (fun '(i, (cell, b)) => Z.testbit (phy y !!! cell) b = Z.testbit adv i) mode_rows.
Proof.
  intros H4 H9 H25. unfold mode_rows. repeat constructor; rewrite ?H4, ?H9, ?H25, u16_testbit by lia;
    rewrite ?nego_word_bit, ?giga_word_bit, ?ctrl_2500_word_bit by lia; done.
Qed.

Lemma adv_others_of_words x y adv fc cell b :
  phy y !!! ADV_CELL = u16 (nego_word (u16 (phy x !!! ADV_CELL)) adv fc) ->
  phy y !!! CTRL1000_CELL = u16 (giga_word (u16 (phy x !!! CTRL1000_CELL)) adv) ->
  phy y !!! CTRL2500_CELL = u16 (ctrl_2500_word (u16 (phy x !!! CTRL2500_CELL)) adv) ->
  cell ∈ adv_cells -> 0 <= b < 16 -> (cell, b) ∉ map snd mode_rows -> cell <> ADV_CELL \/ b <> 10 /\ b <> 11 ->
  Z.testbit (phy y !!! cell) b = Z.testbit (phy x !!! cell) b.
Proof.
  intros H4 H9 H25 Hc Hb Hn Hp. unfold mode_rows in Hn. cbn [map snd] in Hn.
  repeat (apply not_elem_of_cons in Hn as [? Hn]). unfold adv_cells in Hc.
  rewrite !elem_of_cons, elem_of_nil in Hc. destruct Hc as [->|[->|[->|[]]]];
    rewrite ?H4, ?H9, ?H25, u16_testbit, ?nego_word_bit, ?giga_word_bit, ?ctrl_2500_word_bit, u16_testbit by lia.
  - destruct Hp as [Hp|Hp]; [done|]. destruct (_ || _) eqn:E; [blia|]. destruct (_ && _) eqn:E2; [|done].
    exfalso. assert (b = 5 \/ b = 6 \/ b = 7 \/ b = 8) as Hcs by blia. destruct Hcs as [->|[->|[->| ->]]]; done.
  - destruct (_ && _) eqn:E2; [|done]. exfalso. assert (b = 8 \/ b = 9) as Hcs by blia.
    destruct Hcs as [-> | ->]; done.
  - destruct (_ =? _) eqn:E; [|done]. apply Z.eqb_eq in E. by subst b.
Qed.

(** The end of [rtl8125_set_speed_xmii]. *)
Lemma swp_finish an sp dup adv (s : nic D) (Q : Z -> nic D -> Prop) :
  HwFiberModeVer s <> FIBER_MODE_RTL8125D_RTL8221D ->
  (forall s' : nic D, dev s' = dev s -> nego s' = nego s ->
     autoneg s' = an /\ speed s' = sp /\ duplex s' = dup /\ advertising s' = adv -> Q 0 s') ->
  swp (finish_set_speed an sp dup adv) Q s.
Proof.
  intros Hf HQ. unfold finish_set_speed. do 3 swp_step. unfold rtl8125_set_d0_speedup_speed. do 2 swp_step.
  cbn [id].
  assert (forall s' : nic D, dev s' = dev s -> nego s' = nego s -> fiber s' = fiber s ->
     autoneg s' = an /\ speed s' = sp /\ duplex s' = dup /\ advertising s' = adv ->
     swp (rtl8125_hw_fiber_phy_config ;;; sret 0) Q s') as Hend.
  { intros s' Hdev Hn Hfi Hs. swp_step. unfold rtl8125_hw_fiber_phy_config. do 2 swp_step. rewrite Hfi.
    apply swp_when; intros E; [blia|]. swp_step. by apply HQ. }
  swp_step; swp_step; by apply Hend.
Qed.

Lemma adv_cells_plain : forallb phy_plain adv_cells = true ->
  phy_plain ADV_CELL = true /\ phy_plain CTRL1000_CELL = true /\ phy_plain CTRL2500_CELL = true.
Proof. cbn [forallb adv_cells]. rewrite !andb_true_iff. tauto. Qed.

(** Writing the three registers and restarting the negotiation. *)
Lemma swp_write_adv {A} w4 w9 w25 (rest : ST A) (s : nic D) (Q : A -> nic D -> Prop) :
  rtk_enable_diag s = 0 -> cur_page s = 0 -> forallb phy_plain adv_cells = true ->
  (forall d', phy (chan d') !!! ADV_CELL = u16 w4 -> phy (chan d') !!! CTRL1000_CELL = u16 w9 ->
     phy (chan d') !!! CTRL2500_CELL = u16 w25 -> swp rest Q (set_dev d' (set_cur_page 0 s))) ->
  swp (rtl8125_mdio_write 0x1f 0x0000 ;;; rtl8125_mdio_write MII_ADVERTISE w4 ;;;
       rtl8125_mdio_write MII_CTRL1000 w9 ;;; rtl8125_mdio_direct_write_phy_ocp 0xA5D4 w25 ;;;
       rtl8125_phy_restart_nway ;;; rest) Q s.
Proof.
  intros Hd Hp Hpl HQ. destruct (adv_cells_plain Hpl) as (Hpl4 & Hpl9 & Hpl25).
  swp_step. apply swp_mdio_select; [done|]. change (u16 0) with 0. swp_step.
  apply (swp_mdio_write 0); [done|done|left; done|done|done|]. intros d5 H5. swp_step.
  apply (swp_mdio_write 0); [done|done|left; done|done|done|]. intros d6 H6. swp_step.
  apply swp_direct_write; [done|done|]. intros d7 H7. swp_step. apply swp_restart_nway; [done|done|].
  intros d8 H8. cbn [dev set_dev set_cur_page set_ocp] in *.
  change (phy_ocp_addr 0 MII_ADVERTISE / 2) with ADV_CELL in H5.
  change (phy_ocp_addr 0 MII_CTRL1000 / 2) with CTRL1000_CELL in H6. change (u16 0xA5D4 / 2) with CTRL2500_CELL in H7.
  apply Forall_forall with (x := ADV_CELL) in H8 as H8a; [|apply adv_cells_in; auto].
  apply Forall_forall with (x := CTRL1000_CELL) in H8 as H8b; [|apply adv_cells_in; auto].
  apply Forall_forall with (x := CTRL2500_CELL) in H8 as H8c; [|apply adv_cells_in; auto].
  unfold phy_put in H5, H6, H7. rewrite Hpl4 in H5. rewrite Hpl9 in H6. rewrite Hpl25 in H7.
  rewrite H7 in H8a, H8b, H8c. cbn [upd_phy phy] in H8a, H8b, H8c.
  rewrite lookup_total_insert_ne, H6 in H8a, H8b by done. cbn [upd_phy phy] in H8a, H8b.
  rewrite lookup_total_insert_ne, H5 in H8a by done. cbn [upd_phy phy] in H8a.
  rewrite lookup_total_insert_eq in H8a, H8b, H8c. by apply HQ.
Qed.

End Spec.

