(* ===== verification/RtlMcuSpec.v ===== *)
(** * r8125: the microcode arrives

    The patch of the MAC microcontroller is written bank by bank and its version
    can be read back, so that it is not written a second time; the patch of the
    PHY microcontroller is written while the microcontroller is stopped, and it
    is always let go again. *)
From S2P Require Import Prelude RtlBase RtlHw RtlHwSpec RtlIrq RtlWol RtlMcu RtlRamCode RtlPhyConfig RtlChip RtlChanSpec RtlToy.
Local Open Scope Z_scope.
Local Open Scope rtl_scope.

(** ** The RAM of the MAC microcontroller *)

(** The cell of word [k]: 256 words to a bank. *)
Definition ram_cell (k : Z) : Z := 0x7C00 + k mod 256 + 0x10000 * (k / 256).

Lemma ram_cell_inj k l : 0 <= k < 1024 -> 0 <= l < 1024 -> ram_cell k = ram_cell l -> k = l.
Proof. unfold ram_cell. intros. Z.to_euclidean_division_equations; lia. Qed.

Lemma ram_cell_page k x : 0 <= k < 1024 -> mac_page x = k / 256 ->
  mac_cell x (u16 (0xF800 + k mod 256 * 2) / 2) = ram_cell k.
Proof.
  intros Hk Hp. unfold u16. rewrite wrap_small by (Z.to_euclidean_division_equations; lia).
  replace ((0xF800 + k mod 256 * 2) / 2) with (0x7C00 + k mod 256)
    by (Z.to_euclidean_division_equations; lia).
  unfold mac_cell, in_mac_ram. rewrite Hp. unfold ram_cell.
  destruct (_ && _) eqn:E; [done|]. Z.to_euclidean_division_equations; blia.
Qed.

(** The version the RAM holds: four words at the end of bank 2. *)
Definition version_words : list Z := [764; 765; 766; 767].
Definition stored_version (x : chan_mem) : Z :=
  ver_of_words (map (fun k => u16 (mac x !!! ram_cell k)) version_words).

(** Nothing but MAC registers changed. *)
Definition only_mac (x x' : chan_mem) : Prop :=
  phy x' = phy x /\ ephy x' = ephy x /\ eri x' = eri x /\ regs x' = regs x.

Lemma only_mac_refl x : only_mac x x.
Proof. done. Qed.

Lemma only_mac_trans x y z : only_mac x y -> only_mac y z -> only_mac x z.
Proof. unfold only_mac. intros (-> & -> & -> & ->) (-> & -> & -> & ->). done. Qed.

Section Spec.
Context {D : Type} `{HL : NicLaws D}.
Abbreviation mem s := (chan (dev s)).
Abbreviation ST := (St (nic D)).

Lemma only_mac_put a v x : only_mac x (mac_put a v x).
Proof. unfold only_mac, mac_put. by destruct (mac_plain a). Qed.

Lemma page_word old p : 0 <= p < 4 ->
  wrap 2 (u16 (Z.lor (Z.land old (Z.lnot (bits_or [1; 0]))) (Z.land (u16 p) (bits_or [1; 0])))) = p.
Proof.
  intros Hp. rewrite <- (wrap_small 2 p) at 2 by lia. change (bits_or [1; 0]) with (Z.ones 2).
  unfold u16. bits i. destruct (i <? 2) eqn:E; [|done]. destruct (i <? 16) eqn:E'; [|blia].
  by destruct (Z.testbit old i), (Z.testbit p i).
Qed.

Lemma swp_switch_page p (s : nic D) (Q : unit -> nic D -> Prop) : 0 <= p < 4 ->
  (forall d', mac_page (chan d') = p -> only_mac (mem s) (chan d') ->
     (forall a, a <> MAC_PAGE_SEL -> mac (chan d') !!! a = mac (mem s) !!! a) -> Q tt (set_dev d' s)) ->
  swp (rtl8125_switch_mac_mcu_ram_code_page p) Q s.
Proof.
  intros Hp HQ. unfold rtl8125_switch_mac_mcu_ram_code_page. do 3 reg_step. rewrite Hd in Hd0.
  change (u16 0xE446 / 2) with MAC_PAGE_SEL in Hd0. unfold mac_put in Hd0. rewrite mac_page_plain in Hd0.
  change (mac_cell (mem s) MAC_PAGE_SEL) with MAC_PAGE_SEL in Hd0.
  apply (HQ d0); rewrite Hd0.
  - unfold mac_page. cbn [upd_mac mac]. rewrite lookup_total_insert_eq. by apply page_word.
  - done.
  - intros a Ha. cbn [upd_mac mac]. by apply lookup_total_insert_ne.
Qed.
Lemma ram_cell_big k : 0 <= k < 1024 -> 0x7C00 <= ram_cell k.
Proof. unfold ram_cell. Z.to_euclidean_division_equations; lia. Qed.

Lemma ram_cell_not_sel k : 0 <= k < 1024 -> ram_cell k <> MAC_PAGE_SEL.
Proof. intros Hk. pose proof (ram_cell_big k Hk). change MAC_PAGE_SEL with 0x7223. lia. Qed.

(** Word [k] of the RAM, with its bank selected. *)
Lemma swp_write_ram k w (s : nic D) (Q : unit -> nic D -> Prop) : 0 <= k < 1024 ->
  mac_page (mem s) = k / 256 ->
  (forall d', chan d' = upd_mac (ram_cell k) (u16 w) (mem s) -> Q tt (set_dev d' s)) ->
  swp (rtl8125_mac_ocp_write (0xF800 + k mod 256 * 2) w) Q s.
Proof.
  intros Hk Hp HQ. reg_step. apply HQ. unfold mac_put in Hd. rewrite ram_cell_page in Hd by done.
  rewrite mac_ram_plain in Hd; [done|]. unfold in_mac_ram, u16.
  rewrite wrap_small by (Z.to_euclidean_division_equations; lia).
  bgoal. Z.to_euclidean_division_equations; lia.
Qed.

Lemma swp_read_ram k (s : nic D) (Q : Z -> nic D -> Prop) : 0 <= k < 1024 ->
  mac_page (mem s) = k / 256 ->
  (forall d', chan d' = mem s -> Q (u16 (mac (mem s) !!! ram_cell k)) (set_dev d' s)) ->
  swp (rtl8125_mac_ocp_read (0xF800 + k mod 256 * 2)) Q s.
Proof.
  intros Hk Hp HQ. reg_step. rewrite Hv.
  - rewrite ram_cell_page by done. by apply HQ.
  - apply mac_ram_plain. unfold in_mac_ram, u16.
    rewrite wrap_small by (Z.to_euclidean_division_equations; lia).
    bgoal. Z.to_euclidean_division_equations; lia.
Qed.

Lemma upd_ram_page k w x : 0 <= k < 1024 -> mac_page (upd_mac (ram_cell k) w x) = mac_page x.
Proof.
  intros Hk. unfold mac_page. cbn [upd_mac mac]. rewrite lookup_total_insert_ne; [done|].
  by apply ram_cell_not_sel.
Qed.

(** The words [l] stand in the RAM from word [i] on; the rest of it and
    everything else is as in [x]. *)
Definition ram_written (i : Z) (l : list Z) (x x' : chan_mem) : Prop :=
  only_mac x x' /\
  forall k, 0 <= k < 1024 -> mac x' !!! ram_cell k =
    if (i <=? k) && (k <? i + Z.of_nat (length l)) then u16 (at_ l (Z.to_nat (k - i)))
    else mac x !!! ram_cell k.

Lemma ram_written_nil i x : ram_written i [] x x.
Proof.
  split; [done|]. intros k _. cbn [length]. destruct (_ && _) eqn:E; [blia|done].
Qed.

Lemma ram_written_cons i w l x x1 x' : 0 <= i < 1024 ->
  only_mac x x1 -> (forall k, 0 <= k < 1024 -> mac x1 !!! ram_cell k = mac x !!! ram_cell k) ->
  ram_written (i + 1) l (upd_mac (ram_cell i) (u16 w) x1) x' -> ram_written i (w :: l) x x'.
Proof.
  intros Hi Ho Hx [Ho' Hk]. split; [by eapply only_mac_trans|]. intros k Hkr. rewrite (Hk k Hkr).
  cbn [length upd_mac mac]. destruct (decide (k = i)) as [->|Hne].
  - rewrite lookup_total_insert_eq, Z.sub_diag.
    destruct (_ && _) eqn:E; [blia|]. destruct (_ && _) eqn:E2 in |- *; [done|blia].
  - rewrite lookup_total_insert_ne, Hx by (done || (intros Hc; apply ram_cell_inj in Hc; lia)).
    destruct (_ && _) eqn:E; destruct ((i <=? k) && _) eqn:E2; try done; try blia.
    replace (Z.to_nat (k - i)) with (S (Z.to_nat (k - (i + 1)))) by blia. done.
Qed.

Lemma swp_write_pages l i (s : nic D) (Q : unit -> nic D -> Prop) :
  0 <= i -> i + Z.of_nat (length l) <= 1024 ->
  (i mod 256 <> 0 -> mac_page (mem s) = i / 256) ->
  (forall d', ram_written i l (mem s) (chan d') -> Q tt (set_dev d' s)) ->
  swp (write_mac_pages i 256 l) Q s.
Proof.
  revert i s. induction l as [|w l IH]; intros i s Hi Hl Hp HQ; cbn [write_mac_pages].
  { swp_step. rewrite (dev_only_refl s). apply HQ, ram_written_nil. }
  cbn [length] in Hl. assert (0 <= i / 256 < 4) by (Z.to_euclidean_division_equations; lia).
  assert (forall d1, mac_page (chan d1) = i / 256 -> only_mac (mem s) (chan d1) ->
    (forall k, 0 <= k < 1024 -> mac (chan d1) !!! ram_cell k = mac (mem s) !!! ram_cell k) ->
    swp (rtl8125_mac_ocp_write (0xF800 + i mod 256 * 2) w ;;; write_mac_pages (i + 1) 256 l) Q (set_dev d1 s))
    as Hrest.
  { intros d1 Hp1 Ho1 Hk1. swp_step. apply swp_write_ram; [lia|done|]. intros d2 H2. cbn [dev set_dev] in *.
    apply IH; [lia|lia| |].
    - intros Hm. cbn [dev set_dev]. rewrite H2, upd_ram_page, Hp1 by lia.
      Z.to_euclidean_division_equations; lia.
    - intros d3 H3. cbn [dev set_dev] in H3. rewrite H2 in H3. apply (HQ d3).
      by eapply ram_written_cons; [lia|..]. }
  swp_step. apply swp_when; intros Hm.
  - apply swp_switch_page; [done|]. intros d1 Hp1 Ho1 Hk1. apply Hrest; [done..|].
    intros k Hk. apply Hk1. by apply ram_cell_not_sel.
  - rewrite (dev_only_refl s). apply Hrest; [apply Hp; blia|done|done].
Qed.

(** ** The version *)

Lemma ver_push a b : 0 <= b < 65536 -> 0 <= a < 2 ^ 48 -> Z.lor (u64 (Z.shiftl a 16)) b = a * 65536 + b.
Proof.
  intros Hb Ha. rewrite Z.shiftl_mul_pow2 by lia. unfold u64. rewrite wrap_small by lia.
  rewrite Z.lor_comm, lor_disjoint_add by lia. lia.
Qed.

Lemma ver_of_parts v : 0 <= v < 2 ^ 64 ->
  ver_of_words [u16 (Z.shiftr (Z.shiftr (Z.shiftr v 16) 16) 16); u16 (Z.shiftr (Z.shiftr v 16) 16);
                u16 (Z.shiftr v 16); u16 v] = v.
Proof.
  intros Hv. unfold ver_of_words. cbn [fold_left]. change (Z.shiftl 0 16) with 0.
  change (u64 0) with 0. rewrite Z.lor_0_l, !Z.shiftr_div_pow2 by lia.
  unfold u16, wrap. change (2 ^ 16) with 65536.
  pose proof (Z.div_mod v 65536 ltac:(done)). pose proof (Z.mod_pos_bound v 65536 ltac:(lia)).
  set (a := v / 65536) in *.
  pose proof (Z.div_mod a 65536 ltac:(done)). pose proof (Z.mod_pos_bound a 65536 ltac:(lia)).
  set (b := a / 65536) in *.
  pose proof (Z.div_mod b 65536 ltac:(done)). pose proof (Z.mod_pos_bound b 65536 ltac:(lia)).
  set (c := b / 65536) in *.
  rewrite (Z.mod_small c) by lia.
  rewrite (ver_push c) by lia. replace (c * 65536 + b mod 65536) with b by lia.
  rewrite (ver_push b) by lia. replace (b * 65536 + a mod 65536) with a by lia.
  rewrite (ver_push a) by lia. lia.
Qed.

(** ** Accesses that leave the RAM alone *)

Definition ram_same (x x' : chan_mem) : Prop :=
  forall k, 0 <= k < 1024 -> mac x' !!! ram_cell k = mac x !!! ram_cell k.

Lemma ram_same_refl x : ram_same x x.
Proof. done. Qed.

Lemma ram_same_trans x y z : ram_same x y -> ram_same y z -> ram_same x z.
Proof. intros H H' k Hk. by rewrite H', H. Qed.

Lemma ram_same_version x x' : ram_same x x' -> stored_version x' = stored_version x.
Proof. intros H. unfold stored_version, version_words. cbn [map]. by rewrite !H by lia. Qed.

Lemma ram_same_mac x x' : mac x' = mac x -> ram_same x x'.
Proof. intros H k _. by rewrite H. Qed.

Definition off_ram (a : Z) : bool := negb (in_mac_ram a).

Lemma mac_put_off a v x : 0 <= a < 0x10000 -> off_ram a = true -> ram_same x (mac_put a v x).
Proof.
  intros Ha Ho k Hk. unfold mac_put, mac_cell. unfold off_ram in Ho. apply negb_true_iff in Ho. rewrite Ho.
  destruct (mac_plain a); [|done]. cbn [upd_mac mac]. apply lookup_total_insert_ne. intros ->.
  unfold in_mac_ram, ram_cell in *. Z.to_euclidean_division_equations; blia.
Qed.

(** An operation that only talks to the controller, and not to the RAM. *)
Definition keeps_ram (m : ST unit) : Prop := forall (s : nic D) (Q : unit -> nic D -> Prop),
  (forall d', ram_same (mem s) (chan d') -> Q tt (set_dev d' s)) -> swp m Q s.

Lemma keeps_ram_ret : keeps_ram (sret tt).
Proof. intros s Q HQ. apply swp_ret. rewrite (dev_only_refl s). by apply HQ. Qed.

Lemma keeps_ram_bind m m' : keeps_ram m -> keeps_ram m' -> keeps_ram (m ;;; m').
Proof.
  intros H H' s Q HQ. swp_step. apply H. intros d1 H1. apply H'. intros d2 H2. apply (HQ d2).
  by eapply ram_same_trans.
Qed.

Lemma keeps_ram_when b m : keeps_ram m -> keeps_ram (swhen b m).
Proof. intros H. destruct b; [done|apply keeps_ram_ret]. Qed.

Lemma keeps_ram_sfor {A} (l : list A) (f : A -> ST unit) : Forall (fun a => keeps_ram (f a)) l -> keeps_ram (sfor l f).
Proof. induction 1; cbn [sfor]; [apply keeps_ram_ret|by apply keeps_ram_bind]. Qed.

Lemma keeps_mac_write a v : off_ram (u16 a / 2) = true -> keeps_ram (rtl8125_mac_ocp_write a v).
Proof.
  intros Ho s Q HQ. reg_step. apply HQ. rewrite Hd. apply mac_put_off; [|done].
  pose proof (u16_range a). Z.to_euclidean_division_equations; lia.
Qed.

Lemma keeps_set8 r m : plain8 r = true -> keeps_ram (RTL_set8 r m).
Proof.
  intros Hp s Q HQ. apply swp_set8; [done|]. intros d Hd. apply HQ, ram_same_mac. rewrite Hd.
  apply put_reg8_rest.
Qed.

Lemma keeps_clear8 r m : plain8 r = true -> keeps_ram (RTL_clear8 r m).
Proof.
  intros Hp s Q HQ. apply swp_clear8; [done|]. intros d Hd. apply HQ, ram_same_mac. rewrite Hd.
  apply put_reg8_rest.
Qed.

(** What [enable_aspm_clkreq_lock] of the three drivers has in common. *)
Lemma keeps_locked (m : ST unit) : keeps_ram m ->
  keeps_ram (v <- RTL_R8 Cfg9346 ;;
    let unlock_cfg_wr := negb (Z.land v Cfg9346_EEM_MASK =? Cfg9346_Unlock) in
    swhen unlock_cfg_wr rtl8125_enable_cfg9346_write ;;; m ;;;
    swhen unlock_cfg_wr rtl8125_disable_cfg9346_write).
Proof.
  intros Hm s Q HQ. do 2 reg_step. set (u := negb _).
  assert (keeps_ram (swhen u rtl8125_enable_cfg9346_write ;;; m ;;; swhen u rtl8125_disable_cfg9346_write)) as H.
  { apply keeps_ram_bind; [by apply keeps_ram_when, keeps_set8|]. apply keeps_ram_bind; [done|].
    by apply keeps_ram_when, keeps_clear8. }
  apply H. intros d' Hd'. apply (HQ d'). cbn [dev set_dev] in Hd'. by rewrite Hd in Hd'.
Qed.

Lemma keeps_ram_tp {A} (f : nic D -> A) (m : A -> ST unit) :
  (forall a, keeps_ram (m a)) -> keeps_ram (a <- tp_get f ;; m a).
Proof. intros H s Q HQ. do 2 swp_step. by apply H. Qed.

Lemma keeps_toggle (b : bool) r r' m m' : plain8 r = true -> plain8 r' = true ->
  keeps_ram (if b then RTL_set8 r m ;;; RTL_set8 r' m' else RTL_clear8 r m ;;; RTL_clear8 r' m').
Proof. intros. destruct b; apply keeps_ram_bind; by (apply keeps_set8 || apply keeps_clear8). Qed.

Lemma keeps_aspm b : keeps_ram (rtl8125_enable_aspm_clkreq_lock b).
Proof. by apply keeps_locked, keeps_toggle. Qed.

Lemma keeps_bps l : forallb (fun bp => off_ram (u16 bp.1 / 2)) l = true -> keeps_ram (mac_bps l).
Proof.
  intros H. apply keeps_ram_sfor. apply Forall_forall. intros [r v] Hin. apply keeps_mac_write.
  rewrite forallb_forall in H. apply (H (r, v)). by apply list_elem_of_In.
Qed.

(** The break points off, after [m]. *)
Lemma keeps_clear_bps (m : ST unit) : keeps_ram m ->
  keeps_ram (m ;;; rtl8125_mac_ocp_write 0xFC48 0x0000 ;;;
    sfor mac_bp_regs (fun regAddr => rtl8125_mac_ocp_write regAddr 0x0000) ;;;
    rtl8125_mac_ocp_write 0xFC26 0x0000).
Proof.
  intros Hm. apply keeps_ram_bind; [done|]. apply keeps_ram_bind; [by apply keeps_mac_write|].
  apply keeps_ram_bind; [|by apply keeps_mac_write].
  apply keeps_ram_sfor. unfold mac_bp_regs. cbn [seq map]. repeat constructor; by apply keeps_mac_write.
Qed.

Lemma keeps_disable_bps : keeps_ram rtl8125_hw_disable_mac_mcu_bps.
Proof. apply keeps_clear_bps, keeps_aspm. Qed.

(** ** The version on the controller *)

Lemma swp_read_version (s : nic D) (Q : Z -> nic D -> Prop) :
  (forall d', ram_same (mem s) (chan d') -> Q (stored_version (mem s)) (set_dev d' s)) ->
  swp rtl8125_get_hw_mcu_patch_code_ver Q s.
Proof.
  intros HQ. unfold rtl8125_get_hw_mcu_patch_code_ver. swp_step. apply swp_switch_page; [lia|].
  intros d1 Hp1 _ Hk1. swp_step. cbn [get_ver_loop].
  assert (ram_same (mem s) (chan d1)) as HS1 by (intros k Hk; by apply Hk1, ram_cell_not_sel).
  swp_step. apply (swp_read_ram 764); [lia|done|]. intros d2 H2. cbn [dev set_dev] in *.
  swp_step. apply (swp_read_ram 765); [lia|by cbn [dev set_dev]; rewrite H2|]. intros d3 H3. cbn [dev set_dev] in *.
  rewrite H2 in *.
  swp_step. apply (swp_read_ram 766); [lia|by cbn [dev set_dev]; rewrite H3|]. intros d4 H4. cbn [dev set_dev] in *.
  rewrite H3 in *.
  swp_step. apply (swp_read_ram 767); [lia|by cbn [dev set_dev]; rewrite H4|]. intros d5 H5. cbn [dev set_dev] in *.
  rewrite H4 in *. do 2 swp_step. apply swp_switch_page; [lia|]. intros d6 _ _ Hk6. cbn [dev set_dev] in *. swp_step.
  match goal with |- Q ?v _ => replace v with (stored_version (mem s)) end.
  - apply (HQ d6). eapply ram_same_trans; [exact HS1|]. intros k Hk. rewrite Hk6, H5 by (by apply ram_cell_not_sel). done.
  - rewrite <- (ram_same_version _ _ HS1). done.
Qed.

(** After the version [v] was written. *)
Definition version_put (v : Z) (x x' : chan_mem) : Prop :=
  stored_version x' = v /\
  (forall k, 0 <= k < 1024 -> ~ (764 <= k < 768) -> mac x' !!! ram_cell k = mac x !!! ram_cell k).

Lemma swp_write_version v (s : nic D) (Q : unit -> nic D -> Prop) : 0 <= v < 2 ^ 64 ->
  (forall d', version_put v (mem s) (chan d') -> Q tt (set_dev d' s)) ->
  swp (_rtl8125_set_hw_mcu_patch_code_ver v) Q s.
Proof.
  intros Hv HQ. unfold _rtl8125_set_hw_mcu_patch_code_ver. swp_step. apply swp_switch_page; [lia|].
  intros d1 Hp1 _ Hk1. swp_step. cbn [set_ver_loop]. unfold u64. rewrite wrap_small by done.
  swp_step. apply (swp_write_ram 767); [lia|done|]. intros d2 H2. cbn [dev set_dev] in *.
  swp_step. apply (swp_write_ram 766); [lia|by cbn [dev set_dev]; rewrite H2, upd_ram_page|].
  intros d3 H3. cbn [dev set_dev] in *. rewrite H2 in *.
  swp_step. apply (swp_write_ram 765); [lia|by cbn [dev set_dev]; rewrite H3, !upd_ram_page|].
  intros d4 H4. cbn [dev set_dev] in *. rewrite H3 in *.
  swp_step. apply (swp_write_ram 764); [lia|by cbn [dev set_dev]; rewrite H4, !upd_ram_page|].
  intros d5 H5. cbn [dev set_dev] in *. rewrite H4 in *. swp_step.
  apply swp_switch_page; [lia|]. intros d6 _ _ Hk6. cbn [dev set_dev] in *. apply (HQ d6).
  assert (forall k, 0 <= k < 1024 -> mac (chan d6) !!! ram_cell k = mac (chan d5) !!! ram_cell k) as HS
    by (intros k Hk; by apply Hk6, ram_cell_not_sel).
  split.
  - unfold stored_version, version_words. cbn [map]. rewrite !HS, H5 by lia. cbn [upd_mac mac].
    repeat first [rewrite lookup_total_insert_eq | rewrite lookup_total_insert_ne by done].
    rewrite !u16_idem. by apply ver_of_parts.
  - intros k Hk Hn. rewrite HS, H5 by lia. cbn [upd_mac mac].
    rewrite !lookup_total_insert_ne by (intros Hc; apply ram_cell_inj in Hc; lia).
    by apply Hk1, ram_cell_not_sel.
Qed.

(** ** Installing a patch *)

(** The microcode of the chip. *)
Definition mac_mcu_code (m : Z) : option (list Z) :=
  if (m =? 3) || (m =? 6) then Some mcu_patch_code_8125a_2
  else if (m =? 5) || (m =? 7) then Some mcu_patch_code_8125b_2
  else if m =? 8 then Some mcu_patch_code_8125bp_1
  else if m =? 9 then Some mcu_patch_code_8125bp_2
  else if m =? 10 then Some mcu_patch_code_8125d_1
  else if m =? 11 then Some mcu_patch_code_8125d_2
  else if m =? 12 then Some mcu_patch_code_8125cp_1
  else None.

(** The patch with its version is in the RAM. *)
Definition mcu_installed (code : list Z) (x : chan_mem) : Prop :=
  stored_version x = rtl8125_get_bin_mcu_patch_code_ver code /\
  forall k, 0 <= k < Z.of_nat (length code) -> k < 764 -> mac x !!! ram_cell k = u16 (at_ code (Z.to_nat k)).

(** A patch that fits below the end of bank 2 and has a version. *)
Definition mcu_code_ok (code : list Z) : bool :=
  (4 <=? length code)%nat && (length code <=? 768)%nat &&
  (0 <? rtl8125_get_bin_mcu_patch_code_ver code) && (rtl8125_get_bin_mcu_patch_code_ver code <? 2 ^ 64).

Lemma swp_write_code code (s : nic D) (Q : unit -> nic D -> Prop) :
  HwSuppMacMcuVer s > 0 -> MacMcuPageSize s = 256 -> mcu_code_ok code = true ->
  bin_mcu_patch_code_ver s = rtl8125_get_bin_mcu_patch_code_ver code ->
  (forall d', mcu_installed code (chan d') ->
     Q tt (set_dev d' (set_patch_code_ver (rtl8125_get_bin_mcu_patch_code_ver code) s))) ->
  swp (rtl8125_write_mac_mcu_ram_code code) Q s.
Proof.
  intros Hm Hp Hok Hb HQ. unfold mcu_code_ok in Hok. unfold rtl8125_write_mac_mcu_ram_code.
  set (v := rtl8125_get_bin_mcu_patch_code_ver code) in *.
  assert ((4 <= length code <= 768)%nat /\ 0 < v < 2 ^ 64) as [Hl Hv].
  { rewrite !andb_true_iff in Hok. destruct Hok as [[[H1 H2] H3] H4].
    apply Nat.leb_le in H1, H2. blia. }
  do 2 swp_step. unfold HW_SUPPORT_MAC_MCU.
  destruct (negb _ || _) eqn:E.
  { apply orb_true_iff in E as [E|E]; [apply negb_true_iff in E; blia|apply Nat.eqb_eq in E; lia]. }
  clear E. rewrite Hp. change (256 >? 0) with true. cbv iota.
  unfold _rtl8125_write_mac_mcu_ram_code_with_page. change (256 =? 0) with false. cbv iota.
  swp_step. apply swp_write_pages; [lia|lia|done|]. intros d1 [_ H1]. do 2 swp_step.
  cbn [set_dev]. change (bin_mcu_patch_code_ver (set_dev d1 s)) with (bin_mcu_patch_code_ver s). rewrite Hb.
  apply swp_when; intros Hv0; [|blia]. unfold rtl8125_set_hw_mcu_patch_code_ver. swp_step.
  apply swp_write_version; [lia|]. intros d2 [H2 H3]. cbn [dev set_dev] in *. swp_step.
  apply (HQ d2). split; [done|]. intros k Hk Hk'. rewrite H3, H1 by lia.
  destruct ((0 <=? k) && _) eqn:E; [f_equal; f_equal; lia|blia].
Qed.

(** What [rtl8125_set_mac_mcu_*] achieves when the version read was [stored_version]. *)
Lemma swp_update code (s : nic D) (Q : unit -> nic D -> Prop) :
  HwSuppMacMcuVer s > 0 -> MacMcuPageSize s = 256 -> mcu_code_ok code = true ->
  hw_mcu_patch_code_ver s = stored_version (mem s) ->
  (forall s' : nic D, hw_mcu_patch_code_ver s' = rtl8125_get_bin_mcu_patch_code_ver code ->
     (if stored_version (mem s) =? rtl8125_get_bin_mcu_patch_code_ver code then ram_same (mem s) (mem s')
      else mcu_installed code (mem s')) -> Q tt s') ->
  swp (update_mac_mcu code) Q s.
Proof.
  intros Hm Hp Hok Hh HQ. unfold update_mac_mcu. do 3 swp_step.
  set (v := rtl8125_get_bin_mcu_patch_code_ver code) in *.
  set (s1 := set_bin_code_ver v s).
  swp_step. change (hw_mcu_patch_code_ver s1) with (hw_mcu_patch_code_ver s). change (bin_mcu_patch_code_ver s1) with v. rewrite Hh. apply swp_when; intros Hc.
  - apply swp_write_code; [done..|]. intros d' Hd'. apply HQ; [done|].
    destruct (_ =? v) eqn:E; [blia|done].
  - apply HQ; [change (hw_mcu_patch_code_ver s1) with (hw_mcu_patch_code_ver s); blia|].
    destruct (_ =? v) eqn:E; [done|blia].
Qed.

Lemma swp_set_mac_mcu code bps (s : nic D) (Q : unit -> nic D -> Prop) :
  HwSuppMacMcuVer s > 0 -> MacMcuPageSize s = 256 -> mcu_code_ok code = true ->
  forallb (fun bp => off_ram (u16 bp.1 / 2)) bps = true ->
  hw_mcu_patch_code_ver s = stored_version (mem s) ->
  (forall s' : nic D, hw_mcu_patch_code_ver s' = rtl8125_get_bin_mcu_patch_code_ver code ->
     (if stored_version (mem s) =? rtl8125_get_bin_mcu_patch_code_ver code then ram_same (mem s) (mem s')
      else mcu_installed code (mem s')) -> Q tt s') ->
  swp (update_mac_mcu code ;;; mac_bps bps) Q s.
Proof.
  intros Hm Hp Hok Hb Hh HQ. swp_step. apply swp_update; [done..|]. intros s1 H1 Hx.
  apply keeps_bps; [done|]. intros d2 H2. apply HQ; [done|]. cbn [dev set_dev].
  destruct (_ =? _); [by eapply ram_same_trans|]. destruct Hx as [Hx1 Hx2]. split.
  - by rewrite (ram_same_version _ _ H2).
  - intros k Hk Hk'. rewrite H2 by lia. by apply Hx2.
Qed.

(** After [hw_mac_mcu_config] with the table [code], from [s] to [s']. *)
Definition mac_installed (code : list Z) (s s' : nic D) : Prop :=
  let v := rtl8125_get_bin_mcu_patch_code_ver code in
  hw_mcu_patch_code_ver s' = v /\ stored_version (mem s') = v /\
  (stored_version (mem s) <> v -> mcu_installed code (mem s')) /\
  (stored_version (mem s) = v -> ram_same (mem s) (mem s')).

(** The common course of the drivers: break points off, the stored version
    read, the table updated, break points on. *)
Lemma swp_mac_config {A} (off : ST unit) (rest : Z -> ST A) (s : nic D) (Q : A -> nic D -> Prop) :
  keeps_ram off ->
  (forall s2 : nic D, hw_mcu_patch_code_ver s2 = stored_version (mem s2) ->
     mcfg s2 = mcfg s -> HwSuppMacMcuVer s2 = HwSuppMacMcuVer s -> MacMcuPageSize s2 = MacMcuPageSize s ->
     ram_same (mem s) (mem s2) -> forall v, swp (rest v) Q s2) ->
  swp (off ;;; v <- rtl8125_get_hw_mcu_patch_code_ver ;; smodify (set_patch_code_ver v) ;;; rest v) Q s.
Proof.
  intros Hoff HQ. swp_step. apply Hoff. intros d1 H1. swp_step.
  apply swp_read_version. intros d2 H2. cbn [dev set_dev] in *. do 2 swp_step.
  apply HQ; [|done|done|done|by eapply ram_same_trans].
  set (s2 := set_patch_code_ver _ _).
  assert (ram_same (mem s) (mem s2)) as H12 by (by eapply ram_same_trans).
  rewrite (ram_same_version (mem s) (mem s2) H12), <- (ram_same_version _ _ H1). done.
Qed.

Lemma swp_mac_table code bps (s s2 : nic D) :
  HwSuppMacMcuVer s2 > 0 -> MacMcuPageSize s2 = 256 -> mcu_code_ok code = true ->
  forallb (fun bp => off_ram (u16 bp.1 / 2)) bps = true ->
  hw_mcu_patch_code_ver s2 = stored_version (mem s2) -> ram_same (mem s) (mem s2) ->
  swp (update_mac_mcu code ;;; mac_bps bps) (fun _ s' => mac_installed code s s') s2.
Proof.
  intros Hm Hp Hok Hb Hh H12. apply swp_set_mac_mcu; [done..|]. intros s3 H3 Hx.
  rewrite (ram_same_version _ _ H12) in Hx. unfold mac_installed.
  set (v := rtl8125_get_bin_mcu_patch_code_ver code) in *. destruct (_ =? v) eqn:Ev.
  - split_and!; [done| |intros; blia|intros; by eapply ram_same_trans].
    rewrite (ram_same_version _ _ Hx), (ram_same_version _ _ H12). blia.
  - split_and!; [done|apply Hx|done|intros; blia].
Qed.

(** r8125: the table of the chip is installed. *)
Theorem mac_microcode_installed (s : nic D) code r s' :
  mac_mcu_code (mcfg s) = Some code -> NotWrMcuPatchCode s <> 1 ->
  HwSuppMacMcuVer s > 0 -> MacMcuPageSize s = 256 ->
  rtl8125_hw_mac_mcu_config s = (r, s') -> mac_installed code s s'.
Proof.
  intros Hc Hn Hm Hp E. swp_start E. unfold rtl8125_hw_mac_mcu_config. do 2 swp_step. cbn [id].
  destruct (_ =? 1) eqn:E1; [blia|]. apply swp_mac_config; [apply keeps_disable_bps|].
  intros s2 Hh _ Hm2 Hp2 H12 _. rewrite <- Hm2 in Hm. rewrite <- Hp2 in Hp.
  revert Hc. unfold mac_mcu_code. generalize (mcfg s). intros m.
  repeat match goal with
  | |- context [if ?b then _ else _] =>
      destruct b; [intros [= <-]; apply swp_mac_table; done || (vm_compute; reflexivity)|]
  end. done.
Qed.
End Spec.


(** On a fresh controller the patch of the 8125D is written, and then left alone. *)
Lemma mac_microcode_installed_witness :
  exists s1 s2, rtl8125_hw_mac_mcu_config (toy_chip 10 0) = (tt, s1) /\
    rtl8125_hw_mac_mcu_config s1 = (tt, s2) /\
    mcu_installed mcu_patch_code_8125d_1 (t_chan (dev s1)) /\
    ram_same (t_chan (dev s1)) (t_chan (dev s2)).
Proof.
  destruct (rtl8125_hw_mac_mcu_config (toy_chip 10 0)) as [[] s1] eqn:E1.
  destruct (rtl8125_hw_mac_mcu_config s1) as [[] s2] eqn:E2. exists s1, s2.
  destruct (mac_microcode_installed (toy_chip 10 0) mcu_patch_code_8125d_1 tt s1)
    as (_ & Hv1 & Hi1 & _); [reflexivity|discriminate|reflexivity|reflexivity|exact E1|].
  assert (mcfg s1 = 10 /\ NotWrMcuPatchCode s1 = 0 /\ HwSuppMacMcuVer s1 = 2 /\ MacMcuPageSize s1 = 256)
    as (Hm & Hn & Hs & Hp).
  { replace s1 with (snd (rtl8125_hw_mac_mcu_config (toy_chip 10 0))) by (by rewrite E1).
    vm_compute. repeat split. }
  destruct (mac_microcode_installed s1 mcu_patch_code_8125d_1 tt s2) as (_ & _ & _ & Hi2);
    [by rewrite Hm|by rewrite Hn|by rewrite Hs|done|exact E2|].
  split_and!; [done|done| |by apply Hi2]. apply Hi1. vm_compute. discriminate.
Defined.
