(* ===== verification/RtlPhyMcuSpec.v ===== *)
(** * r8125: the PHY microcode and its request

    The microcode of the PHY is loaded by a long sequence of writes.  The bits
    of the register 0xB820 tell the PHY what is going on: bit 4 asks its
    microcontroller to stop, bit 7 opens the window through which its RAM is
    written.  Whatever the chip, the writes are those of the chip's tables, the
    window is open only while the request stands, and neither bit is left
    behind. *)
From S2P Require Import Prelude RtlBase RtlHw RtlHwSpec RtlIrq RtlWol RtlMcu RtlRamCode RtlPhyConfig RtlChip RtlChanSpec RtlToy.
Local Open Scope Z_scope.
Local Open Scope rtl_scope.

(** ** The operations of a chip's microcode *)

(** The pairs of a table up to its end mark. *)
Fixpoint table_ops (ramcode : list Z) : list phy_op :=
  match ramcode with
  | addr :: val :: ramcode' =>
      if (addr =? 0xFFFF) && (val =? 0xFFFF) then [] else wr addr val :: table_ops ramcode'
  | _ => []
  end.

Definition requested (ops : list phy_op) : list phy_op := [se 0xB820 (BIT 4)] ++ ops ++ [cl 0xB820 (BIT 4)].

Definition key_ops (m : Z) : list phy_op :=
  match patch_key m with
  | None => []
  | Some key => [wr 0xA436 0x8024; wr 0xA438 key; wr 0xA436 0xB82E; wr 0xA438 0x0001]
  end.

Definition release_ops (m : Z) : list phy_op :=
  if (2 <=? m) && (m <=? 7)
  then [wr 0xA436 0x0000; wr 0xA438 0x0000; cl 0xB82E (BIT 0); wr 0xA436 0x8024; wr 0xA438 0x0000]
  else [].

Definition ops_8125a_1 : list phy_op :=
  phy_mcu_8125a_1_1 ++ phy_mcu_8125a_1_2 ++ phy_mcu_8125a_1_3 ++ phy_mcu_8125a_1_4 ++ phy_mcu_8125a_1_5
  ++ phy_mcu_8125a_1_6 ++ phy_mcu_8125a_1_7 ++ phy_mcu_8125a_1_8.

Definition ops_8125a_2 : list phy_op :=
  phy_mcu_8125a_2_1 ++ phy_mcu_8125a_2_2 ++ phy_mcu_8125a_2_3 ++ phy_mcu_8125a_2_4 ++ phy_mcu_8125a_2_5
  ++ phy_mcu_8125a_2_6.

(** What the chip's microcode writes. *)
Definition phy_mcu_ops (m : Z) : list phy_op :=
  if m =? 2 then requested (key_ops m ++ ops_8125a_1 ++ release_ops m)
  else if (m =? 3) || (m =? 6) then requested (key_ops m ++ ops_8125a_2 ++ release_ops m)
  else if m =? 4 then requested (table_ops phy_mcu_ram_code_8125b_1)
  else if (m =? 5) || (m =? 7) then requested (table_ops phy_mcu_ram_code_8125b_2)
  else if m =? 8 then
    requested (table_ops phy_mcu_ram_code_8125bp_1_1) ++ requested (table_ops phy_mcu_ram_code_8125bp_1_2)
  else if m =? 10 then
    requested (table_ops phy_mcu_ram_code_8125d_1_1) ++ requested (table_ops phy_mcu_ram_code_8125d_1_2)
    ++ requested (table_ops phy_mcu_ram_code_8125d_1_3)
  else if m =? 11 then
    requested (table_ops phy_mcu_ram_code_8125d_2_1) ++ requested (table_ops phy_mcu_ram_code_8125d_2_2)
  else if m =? 12 then requested (table_ops phy_mcu_ram_code_8125cp_1_1)
  else [].

(** ** The register 0xB820 *)

Definition PATCH_CELL : Z := 0xB820 / 2.

(** A bit of it under an operation. *)
Definition patch_bit (i : Z) (b : bool) (op : phy_op) : bool :=
  if u16 (op_addr op) / 2 =? PATCH_CELL
  then match op with wr _ v => Z.testbit v i | mo _ c m => b && negb (Z.testbit c i) || Z.testbit m i end
  else b.

(** From the request bit [b4] and the window bit [b7] on: at every moment the
    window is open only under the request, and at the end both are clear. *)
Fixpoint window_ok (ops : list phy_op) (b4 b7 : bool) : bool :=
  implb b7 b4 &&
  match ops with
  | [] => negb b4 && negb b7
  | op :: ops' => window_ok ops' (patch_bit 4 b4 op) (patch_bit 7 b7 op)
  end.

(** The chips with microcode. *)
Definition phy_mcu_chips : list Z := [2; 3; 4; 5; 6; 7; 8; 10; 11; 12].

Lemma phy_mcu_ops_in_order m : existsb (Z.eqb m) phy_mcu_chips = true ->
  forallb op_ok (phy_mcu_ops m) = true /\ forall b4, window_ok (phy_mcu_ops m) b4 false = true.
Proof.
  assert (forallb (fun m => forallb op_ok (phy_mcu_ops m) && window_ok (phy_mcu_ops m) false false
                    && window_ok (phy_mcu_ops m) true false) phy_mcu_chips = true) as H
    by (vm_compute; reflexivity).
  intros (x & Hx & <-%Z.eqb_eq)%existsb_exists. rewrite forallb_forall in H. specialize (H _ Hx).
  rewrite !andb_true_iff in H. destruct H as [[H1 H2] H3]. split; [done|]. by intros [].
Qed.

Section Spec.
Context {D : Type} `{HL : NicLaws D}.
Abbreviation mem s := (chan (dev s)).
Abbreviation ST := (St (nic D)).

(** ** The bits in the memory *)

Definition patch_of (x : chan_mem) (i : Z) : bool := Z.testbit (phy x !!! PATCH_CELL) i.

Lemma patch_bit_spec x op i : phy_plain PATCH_CELL = true -> 0 <= i < 16 ->
  patch_of (phy_eff x op) i = patch_bit i (patch_of x i) op.
Proof.
  intros Hp Hi. unfold patch_of, patch_bit. destruct op as [a v|a c m]; cbn [phy_eff op_addr];
    destruct (u16 a / 2 =? PATCH_CELL) eqn:E; try apply Z.eqb_eq in E.
  - rewrite E, phy_put_this by done. by apply u16_testbit.
  - rewrite phy_put_other; [done|]. by apply Z.eqb_neq in E.
  - unfold phy_mod. rewrite E, phy_put_this, u16_testbit by done. unfold clear_set.
    rewrite Z.lor_spec, Z.land_spec, Z.lnot_spec by lia. done.
  - rewrite phy_mod_other; [done|]. by apply Z.eqb_neq in E.
Qed.

Lemma window_ok_sound ops x : phy_plain PATCH_CELL = true ->
  window_ok ops (patch_of x 4) (patch_of x 7) = true ->
  (forall n, let y := fold_left phy_eff (take n ops) x in patch_of y 7 = true -> patch_of y 4 = true) /\
  (let y := fold_left phy_eff ops x in patch_of y 4 = false /\ patch_of y 7 = false).
Proof.
  intros Hp. revert x. induction ops as [|op ops IH]; intros x; cbn [window_ok];
    rewrite andb_true_iff; intros [H0 H].
  - split.
    + intros n. rewrite take_nil. cbn [take fold_left]. cbv zeta. revert H0. by destruct (patch_of x 7), (patch_of x 4).
    + cbn [take fold_left]. cbv zeta. revert H. by destruct (patch_of x 7), (patch_of x 4).
  - rewrite <- !patch_bit_spec in H by (done || lia). destruct (IH _ H) as [Hn He]. split; [|exact He].
    intros [|n]; [|by apply Hn]. cbn [take fold_left]. cbv zeta. revert H0. by destruct (patch_of x 7), (patch_of x 4).
Qed.

(** ** The driver writes these operations *)

Section Writes.
Variable chip : Z.

(** An operation of the driver that on this chip does the writes [ops] and
    changes nothing else. *)
Definition writes (m : ST unit) (ops : list phy_op) : Prop :=
  forall (s : nic D) (Q : unit -> nic D -> Prop), rtk_enable_diag s = 0 -> mcfg s = chip ->
  (forall d', chan d' = fold_left phy_eff ops (mem s) -> Q tt (set_dev d' s)) -> swp m Q s.

Lemma writes_bind m1 m2 l1 l2 : writes m1 l1 -> writes m2 l2 -> writes (m1 ;;; m2) (l1 ++ l2).
Proof.
  intros H1 H2 s Q Hd Hc HQ. swp_step. apply H1; [done..|]. intros d1 E1. apply H2; [done..|]. intros d2 E2.
  cbn [dev set_dev] in E2. apply (HQ d2). by rewrite fold_left_app, <- E1.
Qed.

Lemma writes_nil : writes (sret tt) [].
Proof. intros s Q _ _ HQ. apply swp_ret. rewrite (dev_only_refl s). by apply HQ. Qed.

Lemma writes_seq ops : forallb op_ok ops = true -> writes (phy_seq ops) ops.
Proof. intros Hok s Q Hd Hc HQ. by apply swp_phy_seq. Qed.

Lemma writes_op op : op_ok op = true -> writes (run_phy_op op) [op].
Proof. intros Hok s Q Hd Hc HQ. by apply swp_phy_op. Qed.

Lemma writes_table code : forallb op_ok (table_ops code) = true -> writes (ram_code_loop code) (table_ops code).
Proof.
  enough (forall n code, (length code <= n)%nat -> forallb op_ok (table_ops code) = true ->
    writes (ram_code_loop code) (table_ops code)) as H by (by apply (H (length code))).
  clear. induction n as [|n IH]; intros code Hl Hok.
  - destruct code; [|cbn in Hl; lia]. apply writes_nil.
  - destruct code as [|a [|v code]]; [apply writes_nil..|]. cbn [ram_code_loop table_ops] in *.
    destruct (_ && _); [apply writes_nil|]. cbn [forallb] in Hok. apply andb_true_iff in Hok as [Ho Hok].
    apply (writes_bind _ _ [wr a v]); [by apply (writes_op (wr a v))|]. apply IH; [cbn in Hl; lia|done].
Qed.

Lemma writes_ram_code code : Nat.even (length code) && forallb op_ok (table_ops code) = true ->
  writes (rtl8125_set_phy_mcu_ram_code code) (table_ops code).
Proof.
  intros [He Hok]%andb_true_iff. unfold rtl8125_set_phy_mcu_ram_code. unfold Nat.odd. rewrite He.
  by apply writes_table.
Qed.

Lemma writes_request m ops : writes m ops -> writes (with_patch_request m) (requested ops).
Proof.
  intros H s Q Hd Hc HQ. unfold with_patch_request, rtl8125_set_phy_mcu_patch_request,
    rtl8125_clear_phy_mcu_patch_request. do 3 reg_step. apply swp_wait_patch; [done|]. intros b d1 H1.
  cbn [dev set_dev] in H1. swp_step. apply H; [done..|]. intros d2 H2. cbn [dev set_dev] in H2. do 3 reg_step.
  apply swp_wait_patch; [done|]. intros b' d4 H4. cbn [dev set_dev] in H4. swp_step. apply (HQ d4).
  unfold requested. rewrite !fold_left_app. cbn [fold_left phy_eff se cl].
  by rewrite H4, Hd1, H2, H1, Hd0.
Qed.

Lemma writes_key : writes rtl8125_acquire_phy_mcu_patch_key_lock (key_ops chip).
Proof.
  intros s Q Hd Hc HQ. unfold rtl8125_acquire_phy_mcu_patch_key_lock. do 2 swp_step. rewrite Hc.
  unfold key_ops in HQ. destruct (patch_key chip) as [key|].
  - do 7 reg_step. apply HQ. cbn [fold_left phy_eff]. congruence.
  - by apply writes_nil.
Qed.

Lemma writes_release : writes rtl8125_release_phy_mcu_patch_key_lock (release_ops chip).
Proof.
  intros s Q Hd Hc HQ. unfold rtl8125_release_phy_mcu_patch_key_lock. do 2 swp_step. rewrite Hc.
  unfold release_ops in HQ. destruct (_ && _); cbn [swhen].
  - do 9 reg_step. apply HQ. cbn [fold_left phy_eff cl]. congruence.
  - by apply writes_nil.
Qed.

Lemma writes_8125a_1 : writes rtl8125_real_set_phy_mcu_8125a_1 (key_ops chip ++ ops_8125a_1 ++ release_ops chip).
Proof.
  unfold rtl8125_real_set_phy_mcu_8125a_1, ops_8125a_1. rewrite <- !app_assoc.
  apply writes_bind; [apply writes_key|]. do 8 (apply writes_bind; [by apply writes_seq; vm_compute|]).
  apply writes_release.
Qed.

Lemma writes_8125a_2 : writes rtl8125_real_set_phy_mcu_8125a_2 (key_ops chip ++ ops_8125a_2 ++ release_ops chip).
Proof.
  unfold rtl8125_real_set_phy_mcu_8125a_2, ops_8125a_2. rewrite <- !app_assoc.
  apply writes_bind; [apply writes_key|]. do 6 (apply writes_bind; [by apply writes_seq; vm_compute|]).
  apply writes_release.
Qed.

Ltac table := apply writes_request, writes_ram_code; vm_compute; reflexivity.

Lemma writes_set_phy_mcu : writes (set_phy_mcu chip) (phy_mcu_ops chip).
Proof.
  unfold set_phy_mcu, phy_mcu_ops.
  destruct (chip =? 2); [apply writes_request, writes_8125a_1|].
  destruct (_ || _); [apply writes_request, writes_8125a_2|].
  destruct (chip =? 4); [table|]. destruct (_ || _); [table|].
  destruct (chip =? 8); [apply writes_bind; table|].
  destruct (chip =? 10); [apply writes_bind; [table|apply writes_bind; table]|].
  destruct (chip =? 11); [apply writes_bind; table|].
  destruct (chip =? 12); [table|apply writes_nil].
Qed.
End Writes.

(** From [s] to [s'] the writes [ops] were made and nothing else, the window was
    open only under the request, and both are closed at the end. *)
Definition window_kept (ops : list phy_op) (s s' : nic D) : Prop :=
  dev_only s s' /\ mem s' = fold_left phy_eff ops (mem s) /\
  (forall n, let y := fold_left phy_eff (take n ops) (mem s) in patch_of y 7 = true -> patch_of y 4 = true) /\
  patch_of (mem s') 4 = false /\ patch_of (mem s') 7 = false.

Lemma writes_window m ops (s s' : nic D) r :
  writes (mcfg s) m ops -> (forall b4, window_ok ops b4 false = true) ->
  rtk_enable_diag s = 0 -> phy_plain PATCH_CELL = true -> patch_of (mem s) 7 = false ->
  m s = (r, s') -> window_kept ops s s'.
Proof.
  intros Hm Hw Hd Hp Hb E. swp_start E. apply Hm; [done..|]. intros d' Hd'.
  specialize (Hw (patch_of (mem s) 4)). rewrite <- Hb in Hw.
  destruct (window_ok_sound _ _ Hp Hw) as [Hn He]. unfold window_kept. cbn [dev set_dev].
  split_and!; [apply dev_only_set|done|exact Hn| |]; rewrite Hd'; apply He.
Qed.

(** r8125 loads its microcode through a window that is never left open. *)
Theorem phy_microcode_window (s : nic D) r s' :
  existsb (Z.eqb (mcfg s)) phy_mcu_chips = true -> rtk_enable_diag s = 0 ->
  phy_plain PATCH_CELL = true -> patch_of (mem s) 7 = false ->
  set_phy_mcu (mcfg s) s = (r, s') -> window_kept (phy_mcu_ops (mcfg s)) s s'.
Proof.
  intros Hc Hd Hp Hb E. eapply writes_window; [apply writes_set_phy_mcu| |done..|exact E].
  by apply phy_mcu_ops_in_order.
Qed.
End Spec.

Lemma phy_microcode_window_witness :
  exists s', set_phy_mcu (mcfg (toy_chip 10 0)) (toy_chip 10 0) = (tt, s') /\
    patch_of (t_chan (dev s')) 4 = false /\ patch_of (t_chan (dev s')) 7 = false.
Proof.
  destruct (set_phy_mcu (mcfg (toy_chip 10 0)) (toy_chip 10 0)) as [[] s'] eqn:E. exists s'.
  destruct (phy_microcode_window (toy_chip 10 0) tt s') as (_ & _ & _ & H4 & H7);
    [reflexivity|reflexivity|reflexivity|reflexivity|exact E|]. split; [reflexivity|]. exact (conj H4 H7).
Defined.
