(* ===== verification/RtlWolSpec.v ===== *)
(** * r8125: wake-up options reach the controller

    The options are spread over the Config registers, which take a write only
    while the configuration lock is open, and a register of the MAC.  What is
    put there can be read back, other bits are kept, and the lock is closed
    again. *)
From S2P Require Import Prelude RtlBase RtlHw RtlHwSpec RtlIrq RtlWol RtlChanSpec RtlToy.
Local Open Scope Z_scope.
Local Open Scope rtl_scope.

(** A byte of the register window, and a bit of one. *)
Definition reg8 (x : chan_mem) (r : Z) : Z := u8 (regs x !!! r).
Definition reg_bit (x : chan_mem) (r i : Z) : bool := Z.testbit (reg8 x r) i.

Lemma u8_testbit x i : 0 <= i < 8 -> Z.testbit (u8 x) i = Z.testbit x i.
Proof. intros. unfold u8. bits_rw. destruct (i <? 8) eqn:E; [done|blia]. Qed.

Lemma reg_bit_upd_eq r v x i : 0 <= i < 8 -> reg_bit (upd_reg r v x) r i = Z.testbit v i.
Proof.
  intros Hi. unfold reg_bit, reg8. cbn [upd_reg regs]. rewrite lookup_total_insert_eq. by apply u8_testbit.
Qed.

Lemma reg_bit_upd_ne r r' v x i : r <> r' -> reg_bit (upd_reg r v x) r' i = reg_bit x r' i.
Proof. intros. unfold reg_bit, reg8. cbn [upd_reg regs]. by rewrite lookup_total_insert_ne. Qed.

Lemma config_open_bits x : config_open x = reg_bit x 0x50 7 && reg_bit x 0x50 6.
Proof.
  unfold config_open, reg_bit, reg8. rewrite !u8_testbit by lia. generalize (regs x !!! 0x50). intros v.
  destruct (_ =? _) eqn:E; symmetry.
  - apply Z.eqb_eq in E. rewrite andb_true_iff.
    split; [apply (f_equal (fun z => Z.testbit z 7)) in E|apply (f_equal (fun z => Z.testbit z 6)) in E];
      rewrite Z.land_spec, andb_true_r in E; exact E.
  - apply Z.eqb_neq in E. apply not_true_iff_false. intros [H7 H6]%andb_true_iff. apply E.
    apply Z.bits_inj'. intros i Hi. rewrite Z.land_spec.
    destruct (Z.testbit 0xC0 i) eqn:Ei; [|apply andb_false_r]. rewrite andb_true_r.
    destruct (decide (i = 7)) as [->|]; [done|]. destruct (decide (i = 6)) as [->|]; [done|].
    exfalso. destruct (decide (i < 8)).
    + assert (i = 0 \/ i = 1 \/ i = 2 \/ i = 3 \/ i = 4 \/ i = 5) as Hc by lia.
      destruct Hc as [->|[->|[->|[->|[->| ->]]]]]; discriminate.
    + rewrite (testbit_high 0xC0 8) in Ei by lia. discriminate.
Qed.

(** A row of the table on a bit. *)
Definition row_val (w opt mask v : Z) : Z :=
  let options := u8 (Z.land v (Z.lnot mask)) in if has w opt then Z.lor options mask else options.

Lemma row_val_bit w opt mask v i : 0 <= i < 8 ->
  Z.testbit (row_val w opt mask v) i = if Z.testbit mask i then has w opt else Z.testbit v i.
Proof.
  intros Hi. unfold row_val. destruct (has w opt); rewrite ?Z.lor_spec, u8_testbit, Z.land_spec, Z.lnot_spec by lia;
    by destruct (Z.testbit mask i), (Z.testbit v i).
Qed.

Section Spec.
Context {D : Type} `{HL : NicLaws D}.
Abbreviation mem s := (chan (dev s)).
Abbreviation ST := (St (nic D)).

Lemma swp_wol_row w opt reg mask (s : nic D) (Q : unit -> nic D -> Prop) :
  plain8 reg = true -> config_open (mem s) = true ->
  (forall d', chan d' = upd_reg reg (u8 (row_val w opt mask (reg8 (mem s) reg))) (mem s) -> Q tt (set_dev d' s)) ->
  swp (wol_row w (opt, (reg, mask))) Q s.
Proof.
  intros Hp Ho HQ. unfold wol_row. swp_step. apply swp_reg8_read; [done|]. intros d1 H1.
  apply swp_reg8_write; [done|]. intros d2 H2. cbn [dev set_dev] in *. apply (HQ d2). rewrite H2, H1.
  unfold put_reg8. rewrite Ho, andb_false_r. done.
Qed.

(** ** The magic packet bit of the MAC *)

Definition MAGIC_CELL : Z := 0xC0B6 / 2.
Definition magic_bit (x : chan_mem) : bool := Z.testbit (mac x !!! MAGIC_CELL) 0.

Lemma magic_put v x : mac_plain MAGIC_CELL = true ->
  regs (mac_put MAGIC_CELL v x) = regs x /\ magic_bit (mac_put MAGIC_CELL v x) = Z.testbit v 0.
Proof.
  intros Hp. unfold magic_bit, mac_put. rewrite Hp. change (mac_cell x MAGIC_CELL) with MAGIC_CELL.
  cbn [upd_mac mac regs]. rewrite lookup_total_insert_eq. done.
Qed.

Lemma magic_mod_other a c m x : in_mac_ram (u16 a / 2) = false -> u16 a / 2 <> MAGIC_CELL ->
  magic_bit (mac_mod a c m x) = magic_bit x.
Proof.
  intros Hr Hne. unfold magic_bit, mac_mod, mac_put, mac_cell. rewrite Hr.
  destruct (mac_plain _); [|done]. cbn [upd_mac mac]. by rewrite lookup_total_insert_ne.
Qed.

Definition MAGIC_V3 (s : nic D) : bool := HwSuppMagicPktVer s =? WAKEUP_MAGIC_PACKET_V3.

Lemma swp_magic (b : bool) (s : nic D) (Q : unit -> nic D -> Prop) : mac_plain MAGIC_CELL = true ->
  (forall d', regs (chan d') = regs (mem s) -> (MAGIC_V3 s = true -> magic_bit (chan d') = b) ->
     Q tt (set_dev d' s)) ->
  swp (if b then rtl8125_enable_magic_packet else rtl8125_disable_magic_packet) Q s.
Proof.
  intros Hp HQ. unfold MAGIC_V3 in HQ.
  destruct b; unfold rtl8125_enable_magic_packet, rtl8125_disable_magic_packet; do 2 swp_step;
    (apply swp_when; intros Hv; [|rewrite (dev_only_refl s); apply HQ; [done|by rewrite Hv]]);
    do 3 reg_step; destruct (magic_put (u16 (Z.lor v (BIT 0))) (mem s) Hp) as [H1 H2];
    destruct (magic_put (u16 (Z.land v (Z.lnot (BIT 0)))) (mem s) Hp) as [H3 H4];
    rewrite Hd in Hd0; change (u16 0xC0B6 / 2) with MAGIC_CELL in Hd0; apply HQ; rewrite Hd0; try done; intros _.
  - rewrite H2, u16_testbit, Z.lor_spec by lia. apply orb_true_r.
  - rewrite H4, u16_testbit, Z.land_spec by lia. apply andb_false_r.
Qed.

(** ** The link-change wake-up *)

(** Bit 4 of Config3 is [b], and nothing else of the registers changed. *)
Definition link_put (b : bool) (x x' : chan_mem) : Prop :=
  (forall r, r <> Config3 -> regs x' !!! r = regs x !!! r) /\
  (forall i, 0 <= i < 8 -> reg_bit x' Config3 i = if i =? 4 then b else reg_bit x Config3 i) /\
  magic_bit x' = magic_bit x.

Lemma reg_mod_open r f x : config_open x = true -> reg_mod r f x = upd_reg r (u8 (f (reg8 x r))) x.
Proof. intros Ho. unfold reg_mod, put_reg8. rewrite Ho, andb_false_r. done. Qed.

Lemma link_set b x : config_open x = true ->
  link_put b x (reg_mod Config3 (fun v => if b then Z.lor v LinkUp else Z.land v (Z.lnot LinkUp)) x).
Proof.
  intros Ho. rewrite reg_mod_open by done. split_and!; [intros; by apply lookup_total_insert_ne| |done].
  intros i Hi. rewrite reg_bit_upd_eq by done. rewrite u8_testbit by lia. change LinkUp with (2 ^ 4).
  unfold reg_bit. destruct b; bits_rw; rewrite Z.pow2_bits_eqb by lia; rewrite (Z.eqb_sym 4 i);
    destruct (i =? 4), (Z.testbit (reg8 x Config3) i); done.
Qed.

Lemma link_put_mac_mod b a c m x x' : link_put b x x' -> in_mac_ram (u16 a / 2) = false ->
  u16 a / 2 <> MAGIC_CELL -> link_put b x (mac_mod a c m x').
Proof.
  intros (H1 & H2 & H3) Hr Hne.
  assert (regs (mac_mod a c m x') = regs x') as Er by (unfold mac_mod, mac_put; by destruct (mac_plain _)).
  split_and!.
  - intros r Hne'. rewrite Er. by apply H1.
  - intros i Hi. unfold reg_bit, reg8. rewrite Er. by apply H2.
  - by rewrite magic_mod_other.
Qed.

Lemma swp_linkchg (b : bool) (s : nic D) (Q : unit -> nic D -> Prop) : config_open (mem s) = true ->
  reg_bit (mem s) Config3 4 = b ->
  (forall d', link_put b (mem s) (chan d') -> Q tt (set_dev d' s)) ->
  swp (if b then rtl8125_enable_linkchg_wakeup else rtl8125_disable_linkchg_wakeup) Q s.
Proof.
  intros Ho Hb HQ.
  assert (link_put b (mem s) (mem s)) as Hr.
  { split_and!; [done| |done]. intros i Hi. destruct (i =? 4) eqn:E; [|done]. apply Z.eqb_eq in E. by subst. }
  pose proof (link_set b (mem s) Ho) as Hl.
  destruct b; unfold rtl8125_enable_linkchg_wakeup, rtl8125_disable_linkchg_wakeup; do 2 swp_step;
    (apply swp_when; intros Hv; [|rewrite (dev_only_refl s); by apply HQ]); do 2 reg_step.
  - reg_step. apply (HQ d0). rewrite Hd0, Hd. by apply link_put_mac_mod.
  - do 2 reg_step. apply swp_when; intros Hc.
    + reg_step. apply (HQ d1). rewrite Hd1, Hd0, Hd. by apply link_put_mac_mod.
    + apply (HQ d0). by rewrite Hd0, Hd.
Qed.

(** ** The lock *)

Lemma swp_config_unlock (s : nic D) (Q : unit -> nic D -> Prop) :
  (forall d', config_open (chan d') = true -> (forall r, r <> Cfg9346 -> regs (chan d') !!! r = regs (mem s) !!! r) ->
     magic_bit (chan d') = magic_bit (mem s) -> Q tt (set_dev d' s)) ->
  swp rtl8125_enable_cfg9346_write Q s.
Proof.
  intros HQ. unfold rtl8125_enable_cfg9346_write. reg_step. unfold reg_mod, put_reg8 in Hd.
  change (is_config Cfg9346) with false in Hd. apply (HQ d); rewrite Hd; cbn [andb negb].
  - rewrite config_open_bits. rewrite !reg_bit_upd_eq, !u8_testbit, !Z.lor_spec, !orb_true_r by lia. done.
  - intros r Hr. by apply lookup_total_insert_ne.
  - done.
Qed.

Lemma swp_config_lock (s : nic D) (Q : unit -> nic D -> Prop) :
  (forall d', config_open (chan d') = false -> (forall r, r <> Cfg9346 -> regs (chan d') !!! r = regs (mem s) !!! r) ->
     magic_bit (chan d') = magic_bit (mem s) -> Q tt (set_dev d' s)) ->
  swp rtl8125_disable_cfg9346_write Q s.
Proof.
  intros HQ. unfold rtl8125_disable_cfg9346_write. reg_step. unfold reg_mod, put_reg8 in Hd.
  change (is_config Cfg9346) with false in Hd. apply (HQ d); rewrite Hd; cbn [andb negb].
  - rewrite config_open_bits. rewrite !reg_bit_upd_eq, !u8_testbit, !Z.land_spec, !andb_false_r by lia. done.
  - intros r Hr. by apply lookup_total_insert_ne.
  - done.
Qed.

(** ** The options *)

(** What the options [w] make of the registers. *)
Definition cfg5_bit (w i : Z) (old : bool) : bool :=
  if i =? 4 then has w WAKE_UCAST else if i =? 6 then has w WAKE_BCAST else if i =? 5 then has w WAKE_MCAST
  else if i =? 1 then has w WAKE_ANY else old.

Record wol_put (w : Z) (v3 : bool) (x x' : chan_mem) : Prop := {
  put_cfg3 i : 0 <= i < 8 -> reg_bit x' Config3 i = if i =? 4 then has w WAKE_PHY else reg_bit x Config3 i;
  put_cfg5 i : 0 <= i < 8 -> reg_bit x' Config5 i = cfg5_bit w i (reg_bit x Config5 i);
  put_rest r : existsb (Z.eqb r) [Cfg9346; Config3; Config5] = false -> regs x' !!! r = regs x !!! r;
  put_magic : v3 = true -> magic_bit x' = has w WAKE_MAGIC;
  put_locked : config_open x' = false
}.

Lemma row_bit w opt k x r i : 0 <= i < 8 -> 0 <= k ->
  Z.testbit (row_val w opt (2 ^ k) (reg8 x r)) i = if i =? k then has w opt else reg_bit x r i.
Proof.
  intros Hi Hk. rewrite row_val_bit by done. rewrite Z.pow2_bits_eqb, Z.eqb_sym by lia.
  by destruct (i =? k).
Qed.

(** The five rows. *)
Definition rows_put (w : Z) (x : chan_mem) : chan_mem :=
  fold_left (fun y '(opt, (reg, mask)) => upd_reg reg (u8 (row_val w opt mask (reg8 y reg))) y) wol_cfg x.

Lemma upd_config_open r v x : r <> Cfg9346 -> config_open (upd_reg r v x) = config_open x.
Proof. intros Hr. unfold config_open. cbn [upd_reg regs]. by rewrite lookup_total_insert_ne. Qed.

Lemma swp_rows w (s : nic D) (Q : unit -> nic D -> Prop) : config_open (mem s) = true ->
  (forall d', chan d' = rows_put w (mem s) -> Q tt (set_dev d' s)) -> swp (sfor wol_cfg (wol_row w)) Q s.
Proof.
  unfold rows_put. assert (Forall (fun row => plain8 row.2.1 = true /\ row.2.1 <> Cfg9346) wol_cfg) as Hl
    by (repeat constructor; done).
  revert s. induction Hl as [|[opt [reg mask]] l [Hp Hne] _ IH]; intros s Ho HQ; cbn [sfor fold_left].
  - swp_step. rewrite (dev_only_refl s). by apply HQ.
  - swp_step. apply swp_wol_row; [done..|]. intros d1 H1. apply IH; cbn [dev set_dev].
    + rewrite H1. by rewrite upd_config_open.
    + intros d2 H2. apply (HQ d2). by rewrite H2, H1.
Qed.

Lemma rows_bits w x i : 0 <= i < 8 ->
  reg_bit (rows_put w x) Config3 i = (if i =? 4 then has w WAKE_PHY else reg_bit x Config3 i) /\
  reg_bit (rows_put w x) Config5 i = cfg5_bit w i (reg_bit x Config5 i).
Proof.
  intros Hi. unfold rows_put, wol_cfg. cbn [fold_left].
  change LinkUp with (2 ^ 4). change UWF with (2 ^ 4). change BWF with (2 ^ 6). change MWF with (2 ^ 5).
  change LanWake with (2 ^ 1). split.
  - rewrite !(reg_bit_upd_ne Config5 Config3) by done. rewrite reg_bit_upd_eq, u8_testbit by done.
    by apply row_bit.
  - do 4 (rewrite reg_bit_upd_eq, u8_testbit, row_bit by lia).
    rewrite (reg_bit_upd_ne Config3) by done. unfold cfg5_bit.
    destruct (i =? 1) eqn:E1, (i =? 4) eqn:E4, (i =? 5) eqn:E5, (i =? 6) eqn:E6; try done; blia.
Qed.

Lemma rows_rest w x r : r <> Config3 -> r <> Config5 -> regs (rows_put w x) !!! r = regs x !!! r.
Proof.
  intros. unfold rows_put, wol_cfg. cbn [fold_left upd_reg regs]. by rewrite !lookup_total_insert_ne.
Qed.

Lemma swp_set_wol w (s : nic D) (Q : unit -> nic D -> Prop) : mac_plain MAGIC_CELL = true ->
  (forall d', wol_put w (MAGIC_V3 s) (mem s) (chan d') -> Q tt (set_dev d' s)) ->
  swp (rtl8125_set_hw_wol w) Q s.
Proof.
  intros Hp HQ. unfold rtl8125_set_hw_wol. swp_step. apply swp_magic; [done|]. intros d1 Hr1 Hm1. swp_step.
  apply swp_config_unlock. intros d2 Ho2 Hr2 Hm2. cbn [dev set_dev] in *. swp_step.
  apply swp_rows; [done|]. intros d3 H3. cbn [dev set_dev] in *. do 2 swp_step.
  assert (forall i, 0 <= i < 8 -> reg_bit (chan d2) Config3 i = reg_bit (mem s) Config3 i
            /\ reg_bit (chan d2) Config5 i = reg_bit (mem s) Config5 i) as Hb2.
  { intros i Hi. unfold reg_bit, reg8. by rewrite !Hr2, Hr1. }
  assert (forall d', link_put (has w WAKE_PHY) (chan d3) (chan d') ->
    swp rtl8125_disable_cfg9346_write Q (set_dev d' s)) as Hend.
  { intros d4 (H4r & H4b & H4m). apply swp_config_lock. intros d5 Ho5 Hr5 Hm5. cbn [dev set_dev] in *.
    apply (HQ d5). rewrite H3 in *. split.
    - intros i Hi. unfold reg_bit, reg8. rewrite Hr5 by done. fold (reg8 (chan d4) Config3).
      fold (reg_bit (chan d4) Config3 i). rewrite H4b by done. destruct (i =? 4) eqn:E; [done|].
      destruct (rows_bits w (chan d2) i Hi) as [-> _]. rewrite E. by apply Hb2.
    - intros i Hi. unfold reg_bit, reg8. rewrite Hr5, H4r by done. fold (reg8 (rows_put w (chan d2)) Config5).
      fold (reg_bit (rows_put w (chan d2)) Config5 i). destruct (rows_bits w (chan d2) i Hi) as [_ ->].
      destruct (Hb2 i Hi) as [_ ->]. done.
    - intros r Hr. cbn [existsb] in Hr. rewrite !orb_false_iff, !Z.eqb_neq in Hr.
      destruct Hr as (H0 & Hc3 & Hc5 & _).
      rewrite Hr5, H4r, rows_rest, Hr2, Hr1 by done. done.
    - intros Hv. rewrite Hm5, H4m. unfold magic_bit, rows_put, wol_cfg. cbn [fold_left upd_reg mac].
      fold (magic_bit (chan d2)). rewrite Hm2. by apply Hm1.
    - done. }
  swp_step. apply swp_when; intros Hv.
  - apply swp_linkchg; cbn [dev set_dev]; [| |done].
    + rewrite H3. unfold config_open. rewrite rows_rest by done. exact Ho2.
    + rewrite H3. by apply (rows_bits w (chan d2) 4).
  - apply Hend. split_and!; [done| |done]. intros i Hi. rewrite H3. destruct (i =? 4) eqn:E; [|done].
    apply Z.eqb_eq in E. subst i. by apply (rows_bits w (chan d2) 4).
Qed.

(** ** Reading the options back *)

Definition wol_supported (v3 : bool) : Z := if v3 then WAKE_ANY else Z.lor WAKE_PHY (Z.lor WAKE_UCAST (Z.lor WAKE_BCAST WAKE_MCAST)).

Lemma wol_bits_gather w (v3 : bool) :
  Z.lor (Z.lor (Z.lor (Z.lor (if has w WAKE_PHY then WAKE_PHY else 0) (if v3 then if has w WAKE_MAGIC then WAKE_MAGIC else 0 else 0))
    (if has w WAKE_UCAST then WAKE_UCAST else 0)) (if has w WAKE_BCAST then WAKE_BCAST else 0))
    (if has w WAKE_MCAST then WAKE_MCAST else 0) = Z.land w (wol_supported v3).
Proof.
  change WAKE_PHY with (2 ^ 0). change WAKE_UCAST with (2 ^ 1). change WAKE_MCAST with (2 ^ 2).
  change WAKE_BCAST with (2 ^ 3). change WAKE_MAGIC with (2 ^ 5). rewrite !has_bit by lia.
  apply Z.bits_inj'. intros i Hi. rewrite Z.land_spec.
  assert (i = 0 \/ i = 1 \/ i = 2 \/ i = 3 \/ i = 4 \/ i = 5 \/ 6 <= i) as Hc by lia.
  assert (forall b : bool, forall k, Z.testbit (if b then 2 ^ k else 0) i = b && Z.testbit (2 ^ k) i) as Hif
    by (intros [] k; [done|apply Z.bits_0]).
  rewrite !Z.lor_spec. rewrite !Hif.
  destruct v3; rewrite ?Hif, ?Z.bits_0.
  all: destruct Hc as [->|[->|[->|[->|[->|[->|?]]]]]].
  7, 14: rewrite ?(testbit_high (2 ^ _) 6 i), (testbit_high (wol_supported _) 6 i)
    by first [lia | split; [by vm_compute|by vm_compute]].
  all: repeat match goal with
       | |- context [Z.testbit (2 ^ ?k) ?i] =>
           let b := eval vm_compute in (Z.testbit (2 ^ k) i) in change (Z.testbit (2 ^ k) i) with b
       | |- context [Z.testbit (wol_supported ?v) ?i] =>
           let b := eval vm_compute in (Z.testbit (wol_supported v) i) in change (Z.testbit (wol_supported v) i) with b
       end.
  all: bcase.
Qed.

Lemma wol_bit_reg x r k opt : 0 <= k < 8 ->
  wol_bit (u8 (regs x !!! r)) (2 ^ k) opt = if reg_bit x r k then opt else 0.
Proof. intros Hk. unfold wol_bit. by rewrite has_bit by lia. Qed.

Lemma swp_get_wol w x (s : nic D) (Q : Z -> nic D -> Prop) : mac_plain MAGIC_CELL = true ->
  disable_wol_support s = 0 -> reg_bit (mem s) Config1 0 = true -> wol_put w (MAGIC_V3 s) x (mem s) ->
  (forall d', chan d' = mem s -> Q (Z.land w (wol_supported (MAGIC_V3 s))) (set_dev d' s)) ->
  swp rtl8125_get_hw_wol Q s.
Proof.
  intros Hp Hs Hpm [H3 H5 _ Hm _] HQ. unfold rtl8125_get_hw_wol. do 2 swp_step. rewrite Hs.
  change (tst 0) with false. cbv iota. do 2 reg_step. change PMEnable with (2 ^ 0). rewrite has_bit by lia.
  fold (reg8 (mem s) Config1). fold (reg_bit (mem s) Config1 0). rewrite Hpm. cbn [negb].
  do 2 reg_step. rewrite Hd in *. change LinkUp with (2 ^ 4). rewrite wol_bit_reg, H3 by lia. swp_step.
  rewrite <- wol_bits_gather in HQ. unfold MAGIC_V3 in *.
  assert (forall d', chan d' = mem s ->
    swp (options <- RTL_R8 Config5 ;;
         sret (Z.lor (Z.lor (Z.lor (Z.lor (if has w WAKE_PHY then WAKE_PHY else 0)
            (if HwSuppMagicPktVer s =? WAKEUP_MAGIC_PACKET_V3 then if has w WAKE_MAGIC then WAKE_MAGIC else 0 else 0))
            (wol_bit options UWF WAKE_UCAST)) (wol_bit options BWF WAKE_BCAST)) (wol_bit options MWF WAKE_MCAST)))
      Q (set_dev d' s)) as Hend.
  { intros d' Hd'. do 2 reg_step. rewrite Hd' in *. swp_step. change UWF with (2 ^ 4). change BWF with (2 ^ 6).
    change MWF with (2 ^ 5). rewrite !wol_bit_reg, !H5 by lia. by apply HQ. }
  destruct (_ =? WAKEUP_MAGIC_PACKET_V3) eqn:Ev.
  - do 2 reg_step. rewrite Hd0 in *. change (u16 0xC0B6 / 2) with MAGIC_CELL in Hv.
    rewrite (Hv Hp). change (mac_cell (mem s) MAGIC_CELL) with MAGIC_CELL. swp_step.
    unfold wol_bit at 1. change (BIT 0) with (2 ^ 0). rewrite has_bit, u16_testbit by lia.
    fold (magic_bit (mem s)). rewrite (Hm eq_refl). by apply Hend.
  - swp_step. by apply Hend.
Qed.

(** C26: Wake-up options that were put into the controller are read back as
    they were, save those the chip does not have (the magic packet, where the
    chip's version does not support it).  Of the Config registers only the
    bits of the options change, and the configuration lock is closed
    afterwards. *)
Theorem wol_round_trip w (s : nic D) r s' : mac_plain MAGIC_CELL = true ->
  disable_wol_support s = 0 -> reg_bit (mem s) Config1 0 = true ->
  (rtl8125_set_hw_wol w ;;; rtl8125_get_hw_wol) s = (r, s') ->
  r = Z.land w (wol_supported (MAGIC_V3 s)) /\ wol_put w (MAGIC_V3 s) (mem s) (mem s') /\ dev_only s s'.
Proof.
  intros Hp Hs Hpm E. swp_start E. swp_step. apply swp_set_wol; [done|]. intros d1 H1.
  eapply (swp_get_wol w (mem s)); [done|done| |exact H1|].
  - cbn [dev set_dev]. unfold reg_bit, reg8. by rewrite (put_rest _ _ _ _ H1).
  - intros d2 H2. cbn [dev set_dev] in *. rewrite H2. split_and!; [done|done|done].
Qed.
End Spec.

(** Config1 with PMEnable set. *)
Definition toy_pm : nic toy_nic := set_dev (MkToyNic (upd_reg Config1 1 (MkChan ∅ ∅ ∅ ∅ ∅)) ∅) toy.

Lemma wol_round_trip_witness :
  exists s', (rtl8125_set_hw_wol (Z.lor WAKE_MAGIC WAKE_BCAST) ;;; rtl8125_get_hw_wol) toy_pm
    = (Z.lor WAKE_MAGIC WAKE_BCAST, s') /\ config_open (t_chan (dev s')) = false.
Proof.
  destruct ((rtl8125_set_hw_wol (Z.lor WAKE_MAGIC WAKE_BCAST) ;;; rtl8125_get_hw_wol) toy_pm) as [r s'] eqn:E.
  exists s'. destruct (wol_round_trip (Z.lor WAKE_MAGIC WAKE_BCAST) toy_pm r s') as (-> & Hw & _);
    [reflexivity|reflexivity|reflexivity|exact E|]. split; [reflexivity|]. apply Hw.
Defined.
