(* ===== verification/RtlConfigSpec.v ===== *)
(** * r8125: the receive filter admits what was joined

    Multicast frames are filtered by a hash of their address: six bits of the
    checksum pick one of 64 bits of the MAR registers.  The filter has the bits
    of the joined addresses and no others, in the byte order the controller
    wants. *)
From S2P Require Import Prelude RtlBase RtlHw RtlIrq RtlWol RtlMcu RtlLink RtlEee RtlConfig RtlToy.
Local Open Scope Z_scope.
Local Open Scope rtl_scope.

(** ** Byte order *)

Lemma testbit_ff i : Z.testbit 0xFF i = (0 <=? i) && (i <? 8).
Proof.
  change 0xFF with (Z.ones 8). destruct (decide (0 <= i)).
  - rewrite Z.testbit_ones_nonneg by lia. destruct (0 <=? i) eqn:E; [done|blia].
  - rewrite Z.testbit_neg_r by lia. destruct (0 <=? i) eqn:E; [blia|done].
Qed.

Lemma swab32_bit x k j : 0 <= k < 4 -> 0 <= j < 8 ->
  Z.testbit (swab32 x) (8 * (3 - k) + j) = Z.testbit x (8 * k + j).
Proof.
  intros Hk Hj. unfold swab32. rewrite !Z.lor_spec.
  rewrite !Z.shiftl_spec by lia. rewrite !Z.land_spec, !testbit_ff.
  assert (k = 0 \/ k = 1 \/ k = 2 \/ k = 3) as Hc by lia.
  destruct Hc as [->|[->|[->| ->]]];
    repeat match goal with
    | |- context [?a <=? ?b] => first [rewrite (proj2 (Z.leb_le a b)) by lia | rewrite (proj2 (Z.leb_gt a b)) by lia]
    | |- context [?a <? ?b] => first [rewrite (proj2 (Z.ltb_lt a b)) by lia | rewrite (proj2 (Z.ltb_ge a b)) by lia]
    end; cbn [andb]; rewrite ?andb_false_r, ?andb_true_r, ?orb_false_r, ?orb_false_l;
    rewrite ?Z.shiftr_spec by lia; f_equal; lia.
Qed.

Lemma u32_testbit x i : 0 <= i < 32 -> Z.testbit (u32 x) i = Z.testbit x i.
Proof. intros. unfold u32. bits_rw. destruct (i <? 32) eqn:E; [done|blia]. Qed.

Section Filter.
Variable ether_crc : list Z -> Z.

(** The bit an address stands for. *)
Definition mc_hash (addr : list Z) : Z := Z.shiftr (u32 (ether_crc addr)) 26.

Lemma mc_hash_range addr : 0 <= mc_hash addr < 64.
Proof.
  unfold mc_hash. rewrite Z.shiftr_div_pow2 by lia. unfold u32, wrap.
  pose proof (Z.mod_pos_bound (ether_crc addr) (2 ^ 32) ltac:(lia)). Z.to_euclidean_division_equations; lia.
Qed.

(** The 64 bits of the two words. *)
Definition filter_bit (f : Z * Z) (h : Z) : bool :=
  if h <? 32 then Z.testbit (fst f) h else Z.testbit (snd f) (h - 32).

Lemma mc_add_bit f addr h : 0 <= h < 64 ->
  filter_bit (mc_add ether_crc f addr) h = filter_bit f h || (mc_hash addr =? h).
Proof.
  intros Hh. pose proof (mc_hash_range addr) as Hr. unfold mc_add. fold (mc_hash addr). cbv zeta.
  set (b := mc_hash addr) in *. change 31 with (Z.ones 5). rewrite Z.land_ones, Z.shiftr_div_pow2 by lia.
  change (2 ^ 5) with 32. unfold filter_bit. rewrite Z.shiftl_mul_pow2, Z.mul_1_l by (apply Z.mod_pos_bound; lia).
  assert (0 <= b mod 32 < 32) as Hm by (apply Z.mod_pos_bound; lia).
  assert (b = 32 * (b / 32) + b mod 32) as Hb by (apply Z.div_mod; lia).
  destruct (b / 32 =? 0) eqn:E, (h <? 32) eqn:E'; cbn [fst snd];
    rewrite ?Z.lor_spec, ?Z.pow2_bits_eqb by lia.
  - f_equal. apply eq_true_iff_eq. rewrite !Z.eqb_eq. blia.
  - replace (b =? h) with false; [by rewrite orb_false_r|]. symmetry. apply Z.eqb_neq. blia.
  - replace (b =? h) with false; [by rewrite orb_false_r|]. symmetry. apply Z.eqb_neq.
    assert (0 <= b / 32 <= 1) by (Z.to_euclidean_division_equations; lia). blia.
  - f_equal. apply eq_true_iff_eq. rewrite !Z.eqb_eq.
    assert (0 <= b / 32 <= 1) by (Z.to_euclidean_division_equations; lia). blia.
Qed.

Lemma mc_fold_bit l f h : 0 <= h < 64 ->
  filter_bit (fold_left (mc_add ether_crc) l f) h = filter_bit f h || existsb (fun a => mc_hash a =? h) l.
Proof.
  intros Hh. revert f. induction l as [|a l IH]; intros f; cbn [fold_left existsb]; [by rewrite orb_false_r|].
  by rewrite IH, mc_add_bit, orb_assoc by done.
Qed.

(** Whether frames with hash [h] are to be taken. *)
Definition wants_hash (n : netdev) (h : Z) : bool :=
  IFF_PROMISC n || IFF_ALLMULTI n || existsb (fun a => mc_hash a =? h) (mc_list n).

Lemma rx_mode_filter_bit n h : 0 <= h < 64 -> filter_bit (snd (rx_mode_filter ether_crc n)) h = wants_hash n h.
Proof.
  intros Hh. unfold rx_mode_filter, wants_hash.
  assert (filter_bit (0xffffffff, 0xffffffff) h = true) as Hall.
  { unfold filter_bit. cbn [fst snd]. change 0xffffffff with (Z.ones 32).
    destruct (h <? 32) eqn:E; rewrite Z.testbit_ones_nonneg by blia; blia. }
  destruct (IFF_PROMISC n); [exact Hall|]. destruct (IFF_ALLMULTI n); [exact Hall|]. cbn [snd orb].
  rewrite mc_fold_bit by done. unfold filter_bit. cbn [fst snd]. rewrite !Z.bits_0. by destruct (h <? 32).
Qed.

(** Bit [h] of the filter in the MAR registers, [mar] being their eight bytes
    as one little-endian number: the bytes are in reverse order. *)
Definition mar_bit (mar h : Z) : bool := Z.testbit mar (8 * (7 - h / 8) + h mod 8).

Lemma mar_bit_swab f h : 0 <= h < 64 ->
  mar_bit (Z.lor (u32 (swab32 (snd f))) (Z.shiftl (u32 (swab32 (fst f))) 32)) h = filter_bit f h.
Proof.
  intros Hh. unfold mar_bit, filter_bit.
  assert (exists k j, h / 8 = k /\ h mod 8 = j /\ 0 <= k < 8 /\ 0 <= j < 8 /\ h = 8 * k + j)
    as (k & j & -> & -> & Hk & Hj & ->).
  { exists (h / 8), (h mod 8). split_and!; try done; Z.to_euclidean_division_equations; lia. }
  rewrite Z.lor_spec, Z.shiftl_spec by lia. destruct (8 * k + j <? 32) eqn:E.
  - assert (k < 4) by blia. unfold u32 at 1. rewrite wrap_testbit by lia.
    destruct (8 * (7 - k) + j <? 32) eqn:E2; [blia|]. cbn [andb orb].
    rewrite u32_testbit by lia. rewrite <- (swab32_bit (fst f) k j) by lia. f_equal. lia.
  - assert (4 <= k) by blia. rewrite (Z.testbit_neg_r _ (_ - 32)) by lia. rewrite orb_false_r.
    rewrite u32_testbit by lia. replace (8 * k + j - 32) with (8 * (k - 4) + j) by lia.
    rewrite <- (swab32_bit (snd f) (k - 4) j) by lia. f_equal. lia.
Qed.

Context {D : Type} `{HM : Mmio D}.

(** C27: The last writes of [rtl8125_hw_set_rx_packet_filter] put into the MAR
    registers a filter with bit [h] set exactly when the interface is
    promiscuous, takes all multicast, or has joined an address with hash [h]:
    no joined address is lost, and other hashes are filtered.  The receive
    configuration written with it accepts broadcast and the own address always,
    multicast as soon as any is wanted, and all addresses when promiscuous. *)
Theorem rx_filter_exact n (s : nic D) r s' :
  rtl8125_hw_set_rx_packet_filter ether_crc n s = (r, s') ->
  exists d cfg mar_low mar_high,
    dev s' = writel (MAR0 + 4) mar_high (writel MAR0 mar_low (writel RxConfig cfg d)) /\
    (forall h, 0 <= h < 64 -> mar_bit (Z.lor mar_low (Z.shiftl mar_high 32)) h = wants_hash n h) /\
    has cfg AcceptBroadcast = true /\ has cfg AcceptMyPhys = true /\
    (IFF_PROMISC n || IFF_ALLMULTI n || negb (length (mc_list n) =? 0)%nat = true -> has cfg AcceptMulticast = true) /\
    (IFF_PROMISC n = true -> has cfg AcceptAllPhys = true).
Proof.
  unfold rtl8125_hw_set_rx_packet_filter. unfold sbind, tp_get, sgets. cbn [id].
  pose proof (rx_mode_filter_bit n) as Hf.
  assert (forall b, Z.testbit (if IFF_PROMISC n then bits_or [3; 2; 1; 0] else if IFF_ALLMULTI n then bits_or [3; 2; 1]
    else if (length (mc_list n) =? 0)%nat then Z.lor AcceptBroadcast AcceptMyPhys
         else Z.lor (Z.lor AcceptBroadcast AcceptMyPhys) AcceptMulticast) b
    = Z.testbit (fst (rx_mode_filter ether_crc n)) b) as Hm.
  { intros b. unfold rx_mode_filter. by destruct (IFF_PROMISC n), (IFF_ALLMULTI n), (length (mc_list n) =? 0)%nat. }
  destruct (rx_mode_filter ether_crc n) as [mode [mc0 mc1]]. cbn [fst snd] in *.
  unfold RTL_R32, RTL_W32, on_dev, on_dev_. destruct (readl RxConfig (dev s)) as [v d] eqn:Ev.
  intros [= <- <-]. cbn [dev set_dev].
  eexists d, _, _, _. split; [reflexivity|]. split.
  - intros h Hh. rewrite (mar_bit_swab (mc0, mc1)) by done. by apply Hf.
  - change AcceptBroadcast with (2 ^ 3). change AcceptMyPhys with (2 ^ 1). change AcceptMulticast with (2 ^ 2).
    change AcceptAllPhys with (2 ^ 0). rewrite !has_bit, !u32_testbit, !Z.lor_spec by lia.
    assert (forall b, Z.testbit (if NETIF_F_RXALL n then Z.lor mode (Z.lor AcceptErr AcceptRunt) else mode) b = true
      \/ Z.testbit mode b = false) as Hx.
    { intros b. destruct (NETIF_F_RXALL n); rewrite ?Z.lor_spec; destruct (Z.testbit mode b); auto. }
    assert (forall b c, Z.testbit mode b = true ->
      Z.testbit c b || Z.testbit (if NETIF_F_RXALL n then Z.lor mode (Z.lor AcceptErr AcceptRunt) else mode) b = true) as Hor.
    { intros b c Hb. destruct (Hx b) as [-> | Hc]; [apply orb_true_r|congruence]. }
    split_and!; [|..]; intros; apply orb_true_iff; left; apply Hor; rewrite <- Hm.
    + by destruct (IFF_PROMISC n), (IFF_ALLMULTI n), (length (mc_list n) =? 0)%nat.
    + by destruct (IFF_PROMISC n), (IFF_ALLMULTI n), (length (mc_list n) =? 0)%nat.
    + by destruct (IFF_PROMISC n), (IFF_ALLMULTI n), (length (mc_list n) =? 0)%nat.
    + by destruct (IFF_PROMISC n).
Qed.
End Filter.

(** Two addresses on the toy controller, hashed by their last byte. *)
Lemma rx_filter_exact_witness :
  let crc := fun a => Z.shiftl (at_ a 5) 26 in
  let n := MkNetdev false false [[1; 0; 0x5E; 0; 0; 3]; [1; 0; 0x5E; 0; 0; 40]] false false true [] [] in
  exists d cfg lo hi, dev (snd (rtl8125_hw_set_rx_packet_filter crc n toy))
      = writel (MAR0 + 4) hi (writel MAR0 lo (writel RxConfig cfg d)) /\
    mar_bit (Z.lor lo (Z.shiftl hi 32)) 40 = true /\ mar_bit (Z.lor lo (Z.shiftl hi 32)) 41 = false.
Proof.
  intros crc n. destruct (rtl8125_hw_set_rx_packet_filter crc n toy) as [r s'] eqn:E.
  destruct (rx_filter_exact crc n toy r s' E) as (d & cfg & lo & hi & Hd & Hh & _).
  exists d, cfg, lo, hi. split; [exact Hd|]. split; [exact (Hh 40 ltac:(lia))|exact (Hh 41 ltac:(lia))].
Defined.
