(* ===== verification/RtlProbeSpec.v ===== *)
(** * r8125: every interrupt has a vector and somebody who serves it

    The interrupt scheme, the number of vectors and the numbers of rings are
    chosen when the device is probed; the mask is built from them, and the
    handler looks at the number of the message alone. *)
From S2P Require Import Prelude RtlBase RtlHw RtlIrq RtlWol RtlMcu RtlFiber RtlLink RtlEee RtlConfig RtlProbe RtlToy.
Local Open Scope Z_scope.
Local Open Scope rtl_scope.

(** What a message asks for, when its interrupt was requested. *)
Definition msix_work (o : build_opts) (h : hw_info) (message_id : Z) : list work :=
  if message_id =? rtl8125_get_linkchg_message_id h then [check_link]
  else rtl8125_tx_interrupt_with_vector o h message_id
       ++ (if message_id <? num_rx_rings h then [serve_rx message_id] else []).

Lemma interrupt_msix_work {D} `{Mmio D} o message_id (s : nic D) :
  fst (rtl8125_interrupt_msix o true message_id s) = msix_work o s message_id.
Proof.
  unfold rtl8125_interrupt_msix, msix_work. cbn [tp_get sgets sbind negb].
  destruct (_ =? _); [done|]. done.
Qed.

(** The bit of the mask the controller sets for events of its second level,
    which no message stands for. *)
Definition L2_BIT : Z := 31.

(** The schemes with more than one message. *)
Definition msix_vers : list Z := [2; 4; 5; 7].
Definition mask_of (v tx rx dash : Z) : Z := fst (fst (interrupt_mask v tx rx dash 0 0)).

(** Each ring and the link have a bit. *)
Definition tx_bit (v q : Z) : Z :=
  if (v =? 3) || (v =? 4) then q
  else if v =? 5 then 16 + q else if v =? 7 then 27 + q else if q =? 0 then 16 else 18.
Definition linkchg_bit (v : Z) : Z := if (v =? 4) || (v =? 7) then 29 else if v =? 5 then 18 else 21.

(** The sources a bit may stand for. *)
Definition bit_sources (v tx rx dash i : Z) : bool :=
  (i =? linkchg_bit v) || (i <? rx) || existsb (fun q => i =? tx_bit v q) (map Z.of_nat (seq 0 (Z.to_nat tx)))
  || ((i =? L2_BIT) && (v =? 4) && tst dash).

(** The number of messages a scheme needs. *)
Definition ver_vecs (v : Z) : Z := if v =? 2 then 22 else if v =? 5 then 20 else if v =? 7 then 31 else 32.

Definition mask_ok (v tx rx dash : Z) : bool :=
  let m := mask_of v tx rx dash in
  forallb (fun i => eqb (Z.testbit m i) (bit_sources v tx rx dash i)) (map Z.of_nat (seq 0 32))
  && (0 <=? m) && (m <? 2 ^ ver_vecs v).

Lemma mask_is_ok v tx rx dash : existsb (Z.eqb v) msix_vers = true -> 1 <= tx <= 2 -> 1 <= rx <= 4 ->
  (dash = 0 \/ dash = 1) -> mask_ok v tx rx dash = true.
Proof.
  intros Hv Htx Hrx Hd.
  assert (forallb (fun v => forallb (fun tx => forallb (fun rx => forallb (mask_ok v tx rx) [0; 1]) [1; 2; 3; 4])
            [1; 2]) msix_vers = true) as H by (vm_compute; reflexivity).
  apply existsb_exists in Hv as (x & Hx & <-%Z.eqb_eq). rewrite forallb_forall in H. specialize (H _ Hx).
  rewrite forallb_forall in H. specialize (H tx ltac:(cbn; lia)). rewrite forallb_forall in H.
  specialize (H rx ltac:(cbn; lia)). rewrite forallb_forall in H. apply H. cbn. lia.
Qed.

Lemma mask_bits v tx rx dash i : existsb (Z.eqb v) msix_vers = true -> 1 <= tx <= 2 -> 1 <= rx <= 4 ->
  (dash = 0 \/ dash = 1) ->
  (Z.testbit (mask_of v tx rx dash) i = true <-> 0 <= i < ver_vecs v /\ bit_sources v tx rx dash i = true).
Proof.
  intros Hv Htx Hrx Hd. pose proof (mask_is_ok v tx rx dash Hv Htx Hrx Hd) as H. unfold mask_ok in H.
  rewrite !andb_true_iff, Z.leb_le, Z.ltb_lt, forallb_forall in H. destruct H as [[H H0] H1].
  assert (0 < ver_vecs v <= 32) as Hn by (unfold ver_vecs; repeat destruct (_ =? _); lia).
  destruct (decide (0 <= i < 32)) as [Hi|Hi].
  - specialize (H i). rewrite eqb_true_iff in H. rewrite H.
    + split; [|tauto]. intros Hs. split; [|done]. split; [lia|]. destruct (decide (i < ver_vecs v)); [done|].
      rewrite <- H, (testbit_high _ (ver_vecs v)) in Hs by
        (lia || (apply in_map_iff; exists (Z.to_nat i); split; [lia|]; apply in_seq; lia)). done.
    + apply in_map_iff. exists (Z.to_nat i). split; [lia|]. apply in_seq. lia.
  - split; [|lia]. intros Ht. exfalso. destruct (decide (i < 0)).
    + rewrite Z.testbit_neg_r in Ht by lia. done.
    + rewrite (testbit_high _ (ver_vecs v)) in Ht by lia. done.
Qed.

(** The scheme of a probed chip. *)
Record scheme_ok (o : build_opts) (f : hw_features) (h : hw_info) : Prop := {
  scheme_ver : existsb (Z.eqb (HwCurrIsrVer h)) msix_vers = true;
  scheme_vecs : ver_vecs (HwCurrIsrVer h) <= irq_nvecs f;
  scheme_dash : DASH h = 0 \/ DASH h = 1;
  scheme_tx : num_tx_rings h = 1 \/ num_tx_rings h = 2 /\ ENABLE_MULTIPLE_TX_QUEUE o = true;
  scheme_rx : 1 <= num_rx_rings h <= 4;
  scheme_mask : intr_mask h = mask_of (HwCurrIsrVer h) (num_tx_rings h) (num_rx_rings h) (DASH h)
}.

Lemma num_rings_ok o m nvecs curr q : let '(tx, rx) := num_rings o m nvecs curr q in
  (tx = 1 \/ tx = 2 /\ ENABLE_MULTIPLE_TX_QUEUE o = true) /\ 1 <= rx <= 4.
Proof.
  unfold num_rings, supp_queues. pose proof (u8_range q) as Hq. unfold is_byte in Hq.
  destruct (existsb _ _); split.
  all: try (destruct (ENABLE_MULTIPLE_TX_QUEUE o), (_ || _); auto; fail).
  all: repeat match goal with |- context [if ?b then _ else _] => destruct b eqn:? end; blia.
Qed.

Lemma mask_of_any v tx rx dash timer : existsb (Z.eqb v) msix_vers = true ->
  fst (fst (interrupt_mask v tx rx dash 0 timer)) = mask_of v tx rx dash.
Proof.
  intros (x & Hx & <-%Z.eqb_eq)%existsb_exists. destruct Hx as [<-|[<-|[<-|[<-|[]]]]]; done.
Qed.

Lemma chip_hw_scheme o p q f h h' l2 : 2 <= mcfg h <= 12 -> (DASH h = 0 \/ DASH h = 1) ->
  chip_hw o p q f h = (h', l2) -> HwCurrIsrVer h' > 1 -> scheme_ok o f h'.
Proof.
  intros Hm Hd. unfold chip_hw.
  destruct (irq_vecs (mcfg h)) as [[nsupp min_nvecs] hi] eqn:Ei.
  set (v := curr_isr_ver _ _ _ _). pose proof (num_rings_ok o (mcfg h) (irq_nvecs f) v q) as Hr.
  destruct (num_rings _ _ _ _ _) as [tx rx]. destruct Hr as [Htx Hrx].
  destruct (interrupt_mask v tx rx (DASH h) 0 _) as [[mask l2'] timer] eqn:Ek. intros [= <- _]. cbn. intros Hv.
  assert (existsb (Z.eqb v) msix_vers = true /\ ver_vecs v <= irq_nvecs f) as [Hv1 Hv2].
  { clear Ek. subst v. revert Hv Ei. unfold curr_isr_ver. intros Hv Ei.
    destruct ((isr_ver (mcfg h) >? 1) && _) eqn:E; [blia|].
    assert (irq_nvecs f >= min_nvecs) as Hn by blia. clear E.
    assert (mcfg h = 2 \/ mcfg h = 3 \/ mcfg h = 4 \/ mcfg h = 5 \/ mcfg h = 6 \/ mcfg h = 7 \/ mcfg h = 8
      \/ mcfg h = 9 \/ mcfg h = 10 \/ mcfg h = 11 \/ mcfg h = 12) as Hc by lia.
    revert Hv Ei. destruct Hc as [->|[->|[->|[->|[->|[->|[->|[->|[->|[->| ->]]]]]]]]]]; cbn; intros Hv [= <- <- <-];
      (lia || (split; [done|lia])). }
  split; cbn; try done. rewrite <- (mask_of_any v tx rx (DASH h) (timer_intr_mask h)) by done. by rewrite Ek.
Qed.

Lemma isr_ver_cases v : existsb (Z.eqb v) msix_vers = true -> v = 2 \/ v = 4 \/ v = 5 \/ v = 7.
Proof. cbn. blia. Qed.

Lemma linkchg_message h : existsb (Z.eqb (HwCurrIsrVer h)) msix_vers = true ->
  rtl8125_get_linkchg_message_id h = linkchg_bit (HwCurrIsrVer h).
Proof. done. Qed.

Lemma tx_message_served o f h r : scheme_ok o f h -> 0 <= r < num_tx_rings h ->
  serve_tx r ∈ msix_work o h (tx_bit (HwCurrIsrVer h) r).
Proof.
  intros [Hv _ _ Htx _ _] Hr. unfold msix_work, rtl8125_get_linkchg_message_id, rtl8125_tx_interrupt_with_vector.
  assert (r = 0 \/ r = 1 /\ num_tx_rings h = 2 /\ ENABLE_MULTIPLE_TX_QUEUE o = true) as Hc.
  { destruct Htx as [?|[? ?]]; [lia|]. destruct (decide (r = 0)); [by left|right; split; [lia|done]]. }
  apply isr_ver_cases in Hv as [->|[->|[->| ->]]]; destruct Hc as [->|(-> & -> & ->)]; cbn; try left.
  destruct (0 <? num_tx_rings h) eqn:E; [left|blia].
Qed.

Lemma rx_message_served o h r : existsb (Z.eqb (HwCurrIsrVer h)) msix_vers = true ->
  0 <= r < num_rx_rings h -> num_rx_rings h <= 4 -> serve_rx r ∈ msix_work o h r.
Proof.
  intros Hv Hr Hn. unfold msix_work. rewrite linkchg_message by done.
  assert (linkchg_bit (HwCurrIsrVer h) > 4) as Hl 
    by (apply isr_ver_cases in Hv as [->|[->|[->| ->]]]; done).
  destruct (r =? _) eqn:E; [blia|]. destruct (r <? num_rx_rings h) eqn:E'; [|blia].
  apply elem_of_app. right. left.
Qed.

Lemma elem_of_nonempty {A} (x : A) l : x ∈ l -> l <> [].
Proof. intros Hx ->. by apply not_elem_of_nil in Hx. Qed.

Lemma source_served o f h i : scheme_ok o f h -> 0 <= i ->
  bit_sources (HwCurrIsrVer h) (num_tx_rings h) (num_rx_rings h) (DASH h) i = true ->
  msix_work o h i <> [] \/ i = L2_BIT /\ DASH h = 1.
Proof.
  intros Hs Hi. pose proof Hs as [Hv _ Hd _ Hrx _]. unfold bit_sources. rewrite !orb_true_iff.
  intros [[[Hl|Hr]|Ht]|H2].
  - left. unfold msix_work. by rewrite linkchg_message, Hl.
  - left. eapply elem_of_nonempty, (rx_message_served o h i); [done|blia|lia].
  - left. apply existsb_exists in Ht as (q & Hq & ->%Z.eqb_eq). apply in_map_iff in Hq as (k & <- & Hk%in_seq).
    eapply elem_of_nonempty, tx_message_served; [done|lia].
  - right. rewrite !andb_true_iff in H2. destruct H2 as [[H2 _] H3]. split; [blia|].
    destruct Hd as [Hd|Hd]; [by rewrite Hd in H3|done].
Qed.


(** The 8125B with 22 vectors and the multi-queue options. *)
Definition toy_probe : hw_info * Z :=
  chip_hw (MkOpts true true false) (MkParams 1 1 0x2600 1 2500 1) 4
    (MkFeat 0 2500 3 3 1 1 1 2 256 1 1 3 0x16C 0 0 0 0 0 0x0b17 0 0 1 22 true 0x40 0 0 0 1 1 0 0 0 0 0x26)
    toy_hw.

