(* ===== verification/RtlFrame.v ===== *)
(** * r8125: what the driver finds out when probing does not change

    The description of the chip ([hw_info], [hw_features]) is written when the
    device is probed; no operation on a running interface changes it. *)
From S2P Require Import Prelude RtlBase RtlHw RtlIrq RtlWol RtlMcu RtlRamCode RtlPhyConfig RtlChip RtlEeprom RtlFiber RtlLink RtlEee RtlConfig RtlEsd.
Local Open Scope Z_scope.
Local Open Scope rtl_scope.

Section Frame.
Context {D : Type} `{HM : Mmio D}.
Abbreviation ST := (St (nic D)).

Definition same_chip (s s' : nic D) : Prop := hw s' = hw s /\ feat s' = feat s.

Definition fixed {A} (m : ST A) : Prop := forall s, same_chip s (snd (m s)).

Lemma fixed_ret {A} (a : A) : fixed (sret a).
Proof. done. Qed.

Lemma fixed_gets {A} (f : nic D -> A) : fixed (sgets f).
Proof. done. Qed.

Lemma fixed_tp {A} (f : nic D -> A) : fixed (tp_get f).
Proof. done. Qed.

Lemma fixed_bind {A B} (m : ST A) (k : A -> ST B) : fixed m -> (forall a, fixed (k a)) -> fixed (sbind m k).
Proof.
  intros Hm Hk s. unfold sbind. specialize (Hm s). destruct (m s) as [a s1]. cbn in Hm.
  destruct (Hk a s1) as [H1 H2]. destruct Hm as [H3 H4]. split; congruence.
Qed.

Lemma fixed_modify (f : nic D -> nic D) : (forall s, same_chip s (f s)) -> fixed (smodify f).
Proof. intros H s. apply H. Qed.

Lemma fixed_on_dev {A} (f : D -> A * D) : fixed (on_dev f).
Proof. intros s. unfold on_dev. by destruct (f (dev s)). Qed.

Lemma fixed_on_dev_ (f : D -> D) : fixed (on_dev_ f).
Proof. done. Qed.

Lemma fixed_when b (m : ST unit) : fixed m -> fixed (swhen b m).
Proof. by destruct b. Qed.

Lemma fixed_poll n (c : ST bool) : fixed c -> fixed (poll n c).
Proof.
  intros Hc. induction n as [|n IH]; [apply fixed_ret|]. cbn [poll].
  apply fixed_bind; [done|]. by intros [].
Qed.

Lemma fixed_for {A} (l : list A) (f : A -> ST unit) : (forall x, fixed (f x)) -> fixed (sfor l f).
Proof. intros Hf. induction l as [|x l IH]; [apply fixed_ret|]. by apply fixed_bind. Qed.
End Frame.

Create HintDb chip discriminated.
#[export] Hint Constants Opaque : chip.

(** Follow the structure of a computation, unfolding what has no lemma. *)
Ltac fixed_step :=
  lazymatch goal with
  | |- forall _, fixed _ => intro
  | |- fixed (let '(_, _) := ?x in _) => destruct x
  | |- fixed (let x := ?v in @?b x) => change (fixed (b v)); cbv beta
  | |- fixed (sbind _ _) => simple apply fixed_bind
  | |- fixed (sret _) => simple apply fixed_ret
  | |- fixed (sgets _) => simple apply fixed_gets
  | |- fixed (tp_get _) => simple apply fixed_tp
  | |- fixed (smodify _) => simple apply fixed_modify; intro; done
  | |- fixed (on_dev _) => simple apply fixed_on_dev
  | |- fixed (on_dev_ _) => simple apply fixed_on_dev_
  | |- fixed (swhen _ _) => simple apply fixed_when
  | |- fixed (poll _ _) => simple apply fixed_poll
  | |- fixed (sfor _ _) => simple apply fixed_for
  | |- fixed (match ?x with _ => _ end) => destruct x
  | |- fixed ?m =>
      first [ solve [eauto 1 with chip nocore]
            | let rec hd t := lazymatch t with ?f _ => hd f | _ => t end in let h := hd m in unfold h ]
  end.
Ltac fixed_tac := repeat fixed_step.

Section Hw.
Context {D : Type} `{HM : Mmio D}.
Lemma fixed_direct_write a v : fixed (rtl8125_mdio_direct_write_phy_ocp a v).
Proof. fixed_tac. Qed.
Lemma fixed_direct_read a : fixed (rtl8125_mdio_direct_read_phy_ocp a).
Proof. fixed_tac. Qed.
Lemma fixed_mdio_write a v : fixed (rtl8125_mdio_write a v).
Proof. fixed_tac. Qed.
Lemma fixed_mdio_read a : fixed (rtl8125_mdio_read a).
Proof. fixed_tac. Qed.
#[local] Hint Resolve fixed_direct_write fixed_direct_read : chip.
Lemma fixed_phy_mod a c m : fixed (rtl8125_clear_and_set_eth_phy_ocp_bit a c m).
Proof. fixed_tac. Qed.
Lemma fixed_phy_set a m : fixed (rtl8125_set_eth_phy_ocp_bit a m).
Proof. apply fixed_phy_mod. Qed.
Lemma fixed_phy_clear a m : fixed (rtl8125_clear_eth_phy_ocp_bit a m).
Proof. apply fixed_phy_mod. Qed.
Lemma fixed_mac_write a v : fixed (rtl8125_mac_ocp_write a v).
Proof. fixed_tac. Qed.
Lemma fixed_mac_read a : fixed (rtl8125_mac_ocp_read a).
Proof. fixed_tac. Qed.
#[local] Hint Resolve fixed_mac_write fixed_mac_read : chip.
Lemma fixed_mac_mod a c m : fixed (rtl8125_clear_set_mac_ocp_bit a c m).
Proof. fixed_tac. Qed.
Lemma fixed_set8 r m : fixed (RTL_set8 r m).
Proof. fixed_tac. Qed.
Lemma fixed_clear8 r m : fixed (RTL_clear8 r m).
Proof. fixed_tac. Qed.
End Hw.
#[export] Hint Resolve fixed_direct_write fixed_direct_read fixed_mdio_write fixed_mdio_read fixed_phy_mod
  fixed_phy_set fixed_phy_clear fixed_mac_write fixed_mac_read fixed_mac_mod fixed_set8 fixed_clear8 : chip.

(** The loops. *)
Section Loops.
Context {D : Type} `{HM : Mmio D}.

Lemma fixed_shift_out fuel d m x : fixed (shift_out_loop fuel d m x).
Proof. revert d m x. induction fuel; intros; cbn [shift_out_loop]; fixed_tac. Qed.
Lemma fixed_shift_in n d x : fixed (shift_in_loop n d x).
Proof. revert d x. induction n; intros; cbn [shift_in_loop]; fixed_tac. Qed.
Lemma fixed_fiber_shift idx data : fixed (fiber_shift_loop idx data).
Proof. revert data. induction idx; intros; cbn [fiber_shift_loop]; fixed_tac. Qed.
#[local] Hint Resolve fixed_shift_out fixed_shift_in fixed_fiber_shift : chip.
Lemma fixed_fiber_id n : fixed (fiber_check_id n).
Proof. induction n; cbn [fiber_check_id]; fixed_tac. Qed.
Lemma fixed_eri_read fuel t b a l sh v : fixed (eri_read_loop fuel t b a l sh v).
Proof. revert a l sh v. induction fuel; intros; cbn [eri_read_loop]; fixed_tac. Qed.
Lemma fixed_eri_write fuel t b a l sh v : fixed (eri_write_loop fuel t b a l sh v).
Proof. revert a l sh v. induction fuel; intros; cbn [eri_write_loop]; fixed_tac. Qed.
#[local] Hint Resolve fixed_eri_read fixed_eri_write : chip.
Lemma fixed_oob_prio n v : fixed (oob_wait_prio n v).
Proof. revert v. induction n; intros; cbn [oob_wait_prio]; fixed_tac. Qed.
#[local] Hint Resolve fixed_oob_prio : chip.
Lemma fixed_oob_mutex n v : fixed (oob_wait_mutex n v).
Proof. revert v. induction n; intros; cbn [oob_wait_mutex]; fixed_tac. Qed.
Lemma fixed_set_ver idx v : fixed (set_ver_loop idx v).
Proof. revert v. induction idx; intros; cbn [set_ver_loop]; fixed_tac. Qed.
Lemma fixed_get_ver idx v : fixed (get_ver_loop idx v).
Proof. revert v. induction idx; intros; cbn [get_ver_loop]; fixed_tac. Qed.
Lemma fixed_mac_words i l : fixed (write_mac_words i l).
Proof. revert i. induction l; intros; cbn [write_mac_words]; fixed_tac. Qed.
Lemma fixed_mac_pages i p l : fixed (write_mac_pages i p l).
Proof. revert i. induction l; intros; cbn [write_mac_pages]; fixed_tac. Qed.
Lemma fixed_ram_code l : fixed (ram_code_loop l).
Proof.
  enough (forall n l, (length l <= n)%nat -> fixed (ram_code_loop l)) as H by (by apply (H (length l))).
  clear. induction n as [|n IH]; intros [|a [|v l]] Hl; cbn [length] in Hl; try lia; cbn [ram_code_loop];
    try apply fixed_ret.
  destruct (_ && _); [apply fixed_ret|]. apply fixed_bind; [fixed_tac|]. intros _. apply IH. lia.
Qed.
Lemma fixed_cfg_cells l : fixed (read_cfg_cells l).
Proof. induction l as [|[a b] l IH]; cbn [read_cfg_cells]; fixed_tac. Qed.
Lemma fixed_fuses idx : fixed (read_fuses idx).
Proof. induction idx; cbn [read_fuses]; fixed_tac. Qed.
Lemma fixed_unlock n m b v : fixed b -> fixed (phy_unlock_loop n m b v).
Proof. intros Hb. revert v. induction n; intros; cbn [phy_unlock_loop]; fixed_tac. Qed.
Lemma fixed_esd_cells l f : fixed (esd_cells_loop l f).
Proof. revert f. induction l as [|[a b] l IH]; intros; cbn [esd_cells_loop]; fixed_tac. Qed.
End Loops.
#[export] Hint Resolve fixed_shift_out fixed_shift_in fixed_fiber_shift fixed_fiber_id fixed_eri_read
  fixed_eri_write fixed_oob_prio fixed_oob_mutex fixed_set_ver fixed_get_ver fixed_mac_words fixed_mac_pages
  fixed_ram_code fixed_cfg_cells fixed_fuses fixed_esd_cells : chip.

Section Ops.
Context {D : Type} `{HM : Mmio D} `{HK : LinkModes}.

Lemma fixed_seq l : fixed (phy_seq l).
Proof. fixed_tac. Qed.
Lemma fixed_irq_mask : fixed rtl8125_irq_mask_and_ack.
Proof. fixed_tac. Qed.
Lemma fixed_reset : fixed rtl8125_hw_reset.
Proof. fixed_tac. Qed.
Lemma fixed_d3 : fixed rtl8125_hw_d3_para.
Proof. fixed_tac. Qed.
Lemma fixed_driver_stop : fixed rtl8125_driver_stop.
Proof. fixed_tac. Qed.
Lemma fixed_driver_start : fixed rtl8125_driver_start.
Proof. fixed_tac. Qed.
Lemma fixed_rar_set a : fixed (rtl8125_rar_set a).
Proof. fixed_tac. Qed.
Lemma fixed_rxbufsize : fixed (D := D) rtl8125_set_rxbufsize.
Proof. fixed_tac. Qed.
Lemma fixed_linkchg_irq : fixed rtl8125_enable_hw_linkchg_interrupt.
Proof. fixed_tac. Qed.
Lemma fixed_fiber_read r : fixed (rtl8125_fiber_mdio_read r).
Proof. fixed_tac. Qed.
Lemma fixed_fiber_write r v : fixed (rtl8125_fiber_mdio_write r v).
Proof. fixed_tac. Qed.
#[local] Hint Resolve fixed_fiber_read fixed_fiber_write : chip.
Lemma fixed_fiber_config : fixed rtl8125_hw_fiber_phy_config.
Proof. fixed_tac. Qed.
Lemma fixed_fiber_link : fixed rtl8125_fiber_link_ok.
Proof. fixed_tac. Qed.
Lemma fixed_disable_mode : fixed rtl8125_is_in_phy_disable_mode.
Proof. fixed_tac. Qed.
End Ops.
#[export] Hint Resolve fixed_seq fixed_irq_mask fixed_reset fixed_d3 fixed_driver_stop fixed_driver_start fixed_rar_set
  fixed_rxbufsize fixed_linkchg_irq fixed_fiber_config fixed_fiber_link fixed_disable_mode : chip.
Section Ops2.
Context {D : Type} `{HM : Mmio D} `{HK : LinkModes}.
Variable ether_crc : list Z -> Z.
Lemma fixed_powerdown restart kcp b : fixed (rtl8125_powerdown_pll restart kcp b).
Proof. fixed_tac. Qed.
Lemma fixed_powerup : fixed rtl8125_powerup_pll.
Proof. fixed_tac. Qed.
Lemma fixed_set_speed a b c d : fixed (rtl8125_set_speed a b c d).
Proof. fixed_tac. Qed.
Lemma fixed_exit_oob : fixed rtl8125_exit_oob.
Proof. fixed_tac. Qed.
#[local] Hint Resolve fixed_powerdown fixed_powerup fixed_set_speed fixed_exit_oob : chip.
Lemma fixed_init : fixed rtl8125_hw_init.
Proof. fixed_tac. Qed.
Lemma fixed_mcu : fixed rtl8125_init_hw_phy_mcu.
Proof. fixed_tac. Qed.
Lemma fixed_phy_config m : fixed (phy_config m).
Proof. fixed_tac. Qed.
#[local] Hint Resolve fixed_init fixed_mcu fixed_phy_config : chip.
Lemma fixed_hw_phy_config : fixed rtl8125_hw_phy_config.
Proof. fixed_tac. Qed.
#[local] Hint Resolve fixed_hw_phy_config : chip.
Lemma fixed_hw_config n : fixed (rtl8125_hw_config ether_crc n).
Proof. fixed_tac. Qed.
#[local] Hint Resolve fixed_hw_config : chip.
Lemma fixed_up n : fixed (rtl8125_up ether_crc n).
Proof. fixed_tac. Qed.
Lemma fixed_link_status n l : fixed (_rtl8125_check_link_status ether_crc n l).
Proof. fixed_tac. Qed.
#[local] Hint Resolve fixed_up fixed_link_status : chip.
Lemma fixed_esd n : fixed (rtl8125_esd_checker ether_crc n).
Proof. fixed_tac. Qed.
End Ops2.
#[export] Hint Resolve fixed_powerdown fixed_powerup fixed_set_speed fixed_exit_oob fixed_up fixed_link_status
  fixed_esd fixed_hw_config fixed_hw_phy_config fixed_init : chip.
