(* ===== verification/RtlIfaceSpec.v ===== *)
(** * r8125: what an interface holds

    Opening an interface acquires its descriptor rings, receive buffers and
    interrupts, and closing it gives everything back; an open that fails keeps
    no descriptors and no interrupts. *)
From S2P Require Import Prelude RtlBase RtlHw RtlIrq RtlWol RtlMcu RtlRamCode RtlPhyConfig RtlChip RtlFiber RtlLink RtlEee RtlConfig RtlEsd RtlProbe RtlIface RtlFrame RtlToy.
Local Open Scope Z_scope.
Local Open Scope rtl_scope.

Definition none (l : list bool) : Prop := Forall (eq false) l.
Definition full (l : list bool) : Prop := Forall (eq true) l.

Lemma Forall_of_lookup (b : bool) (l : list bool) n : length l = n ->
  (forall i, (i < n)%nat -> l !! i = Some b) -> Forall (eq b) l.
Proof.
  intros Hl H. apply Forall_lookup. intros i x Hx. pose proof (lookup_lt_Some _ _ _ Hx).
  rewrite H in Hx by lia. congruence.
Qed.

Section Spec.
Context {D K : Type} `{HM : Mmio D} `{HK : LinkModes} `{HN : Kern K}.
Variable ether_crc : list Z -> Z.
Abbreviation IF := (St (ifc D K)).

(** The lists have an entry for each ring and each vector. *)
Definition sized (c : nic D) (r : resources) : Prop :=
  length (tx_desc r) = Z.to_nat (num_tx_rings c) /\ length (rx_desc r) = Z.to_nat (num_rx_rings c)
  /\ length (irq_requested r) = Z.to_nat (irq_nvecs c).

(** Nothing is held, but possibly bus mastering. *)
Definition released (r : resources) : Prop :=
  none (tx_desc r) /\ none (rx_desc r) /\ none (irq_requested r) /\ rx_bufs r = false.

(** Everything is. *)
Definition acquired (r : resources) : Prop :=
  full (tx_desc r) /\ full (rx_desc r) /\ full (irq_requested r) /\ rx_bufs r = true /\ bus_master r = true.

Lemma sized_chip c c' r : same_chip c c' -> sized c r -> sized c' r.
Proof. intros [Hh Hf]. unfold sized. by rewrite Hh, Hf. Qed.

(** ** Operations on the card *)

Lemma swp_card {A} (m : St (nic D) A) (s : ifc D K) (Q : A -> ifc D K -> Prop) : fixed m ->
  (forall a c, same_chip (card s) c -> Q a (MkIfc c (kern s) (res s) (tasks s))) -> swp (on_card m) Q s.
Proof.
  intros Hm HQ. unfold swp, on_card. specialize (Hm (card s)). destruct (m (card s)) as [a c]. by apply HQ.
Qed.

Lemma swp_get_card {A} (f : nic D -> A) (s : ifc D K) (Q : A -> ifc D K -> Prop) :
  Q (f (card s)) s -> swp (get_card f) Q s.
Proof. done. Qed.

Lemma swp_upd_res f (s : ifc D K) (Q : unit -> ifc D K -> Prop) :
  Q tt (MkIfc (card s) (kern s) (f (res s)) (tasks s)) -> swp (upd_res f) Q s.
Proof. done. Qed.

Lemma swp_upd_tasks f (s : ifc D K) (Q : unit -> ifc D K -> Prop) :
  Q tt (MkIfc (card s) (kern s) (res s) (f (tasks s))) -> swp (upd_tasks f) Q s.
Proof. done. Qed.

Lemma swp_on_kern {A} (f : K -> A * K) (s : ifc D K) (Q : A -> ifc D K -> Prop) :
  (forall k, Q (fst (f (kern s))) (MkIfc (card s) k (res s) (tasks s))) -> swp (on_kern f) Q s.
Proof. intros HQ. unfold swp, on_kern. destruct (f (kern s)) as [a k] eqn:E. apply (HQ k). Qed.

(** ** The loops over the entries of one list *)

Section Entries.
Context {T : Type}.
Variables (get : resources -> list bool) (set : nat -> bool -> resources -> resources) (rest : resources -> T).
Hypothesis get_set : forall i b r, get (set i b r) = <[i := b]> (get r).
Hypothesis rest_set : forall i b r, rest (set i b r) = rest r.

(** From [a] on [k] entries are [b]; other entries and the rest are as before. *)
Definition entries_are (b : bool) (a k : nat) (r r' : resources) : Prop :=
  rest r' = rest r /\ length (get r') = length (get r) /\
  forall i, (i < length (get r))%nat ->
    get r' !! i = if decide (a <= i < a + k)%nat then Some b else get r !! i.

(** The same without a word on the entries. *)
Definition entries_any (r r' : resources) : Prop := rest r' = rest r /\ length (get r') = length (get r).

Lemma entries_refl b a r : entries_are b a 0 r r.
Proof. split_and!; try done. intros i Hi. by case_decide; [lia|]. Qed.

Lemma entries_step b a k r r' : entries_are b (S a) k (set a b r) r' -> entries_are b a (S k) r r'.
Proof.
  intros (Hr & Hl & He). rewrite rest_set in Hr. rewrite get_set in *. rewrite length_insert in *.
  split_and!; [done|done|]. intros i Hi. rewrite He by done. destruct (decide (i = a)) as [->|].
  - rewrite list_lookup_insert_eq by done. repeat case_decide; try done; lia.
  - rewrite list_lookup_insert_ne by done. repeat case_decide; try done; lia.
Qed.

Lemma any_step i b r r' : entries_any (set i b r) r' -> entries_any r r'.
Proof. intros [Hr Hl]. rewrite rest_set in Hr. rewrite get_set, length_insert in Hl. done. Qed.

Lemma swp_entries b a k (s : ifc D K) (Q : unit -> ifc D K -> Prop) :
  (forall r', entries_are b a k (res s) r' -> Q tt (MkIfc (card s) (kern s) r' (tasks s))) ->
  swp (sfor (seq a k) (fun i => upd_res (set i b))) Q s.
Proof.
  revert a s. induction k as [|k IH]; intros a s HQ; cbn [seq sfor].
  - swp_step. destruct s. apply HQ, entries_refl.
  - swp_step. apply swp_upd_res. apply IH. intros r' Hr'. apply HQ. by apply entries_step.
Qed.

Lemma swp_alloc_rings a k (s : ifc D K) (Q : Z -> ifc D K -> Prop) :
  (forall kn r', entries_are true a k (res s) r' -> Q 0 (MkIfc (card s) kn r' (tasks s))) ->
  (forall kn r', entries_any (res s) r' -> Q (-1) (MkIfc (card s) kn r' (tasks s))) ->
  swp (alloc_loop set (seq a k)) Q s.
Proof.
  revert a s. induction k as [|k IH]; intros a s H0 H1; cbn [seq alloc_loop].
  - swp_step. destruct s. apply H0, entries_refl.
  - swp_step. apply swp_on_kern. intros kn. swp_step. apply swp_upd_res. cbn [res card kern tasks].
    destruct (fst _).
    + apply IH; cbn [res card kern tasks]; intros kn' r' Hr'; [apply H0; by apply entries_step|].
      apply H1. by eapply any_step.
    + swp_step. apply H1. by apply (any_step a false).
Qed.
End Entries.

Lemma entries_all {T} (get : resources -> list bool) (rest : resources -> T) b k r r' :
  length (get r) = k -> entries_are get rest b 0 k r r' -> Forall (eq b) (get r').
Proof.
  intros Hk (_ & Hl & He). apply (Forall_of_lookup b _ k); [lia|]. intros i Hi. rewrite He by lia.
  case_decide; [done|lia].
Qed.

(** ** Acquiring and giving back *)

Definition rest_of_tx r := (rx_desc r, rx_bufs r, irq_requested r, bus_master r).
Definition rest_of_rx r := (tx_desc r, rx_bufs r, irq_requested r, bus_master r).
Definition rest_of_irq r := (tx_desc r, rx_desc r, rx_bufs r, bus_master r).

Lemma swp_alloc_tx (s : ifc D K) (Q : Z -> ifc D K -> Prop) : sized (card s) (res s) ->
  (forall rc kn r, rest_of_tx r = rest_of_tx (res s) -> sized (card s) r ->
     (rc = 0 /\ full (tx_desc r) \/ rc = -1) -> Q rc (MkIfc (card s) kn r (tasks s))) ->
  swp rtl8125_alloc_tx_desc Q s.
Proof.
  intros (H1 & H2 & H3) HQ. unfold rtl8125_alloc_tx_desc. swp_step. apply swp_get_card.
  apply (swp_alloc_rings tx_desc set_tx_desc rest_of_tx); [done|done| |].
  - intros kn r Hr. apply HQ; [apply Hr| |left; split; [done|by eapply entries_all]].
    pose proof Hr as (Hx & Hl & _). injection Hx as Hx1 _ Hx2 _. unfold sized. rewrite Hx1, Hx2, Hl. done.
  - intros kn r (Hx & Hl). apply HQ; [done| |by right]. injection Hx as Hx1 _ Hx2 _.
    unfold sized. rewrite Hx1, Hx2, Hl. done.
Qed.

Lemma swp_alloc_rx (s : ifc D K) (Q : Z -> ifc D K -> Prop) : sized (card s) (res s) ->
  (forall rc kn r, rest_of_rx r = rest_of_rx (res s) -> sized (card s) r ->
     (rc = 0 /\ full (rx_desc r) \/ rc = -1) -> Q rc (MkIfc (card s) kn r (tasks s))) ->
  swp rtl8125_alloc_rx_desc Q s.
Proof.
  intros (H1 & H2 & H3) HQ. unfold rtl8125_alloc_rx_desc. swp_step. apply swp_get_card.
  apply (swp_alloc_rings rx_desc set_rx_desc rest_of_rx); [done|done| |].
  - intros kn r Hr. apply HQ; [apply Hr| |left; split; [done|by eapply entries_all]].
    pose proof Hr as (Hx & Hl & _). injection Hx as Hx1 _ Hx2 _. unfold sized. rewrite Hx1, Hx2, Hl. done.
  - intros kn r (Hx & Hl). apply HQ; [done| |by right]. injection Hx as Hx1 _ Hx2 _.
    unfold sized. rewrite Hx1, Hx2, Hl. done.
Qed.

Lemma swp_free_desc (s : ifc D K) (Q : unit -> ifc D K -> Prop) : sized (card s) (res s) ->
  (forall r, none (tx_desc r) -> none (rx_desc r) -> sized (card s) r -> rx_bufs r = rx_bufs (res s) ->
     irq_requested r = irq_requested (res s) -> bus_master r = bus_master (res s) ->
     Q tt (MkIfc (card s) (kern s) r (tasks s))) ->
  swp rtl8125_free_alloc_resources Q s.
Proof.
  intros (H1 & H2 & H3) HQ. unfold rtl8125_free_alloc_resources, rtl8125_free_rx_desc, rtl8125_free_tx_desc.
  do 2 swp_step. apply swp_get_card. apply (swp_entries rx_desc set_rx_desc rest_of_rx); [done|done|].
  intros r Hr. swp_step. apply swp_get_card. apply (swp_entries tx_desc set_tx_desc rest_of_tx); [done|done|].
  cbn [card kern res tasks]. intros r' Hr'.
  pose proof Hr as (Hx & Hl & _). injection Hx as Ht Hb Hi Hm.
  pose proof Hr' as (Hx' & Hl' & _). injection Hx' as Ht' Hb' Hi' Hm'. apply HQ.
  - eapply entries_all; [|exact Hr']. by rewrite Ht.
  - unfold none. rewrite Ht'. exact (entries_all _ _ _ _ _ _ H2 Hr).
  - unfold sized. rewrite Hl', Ht, Ht', Hl, Hi', Hi. done.
  - congruence.
  - congruence.
  - congruence.
Qed.

Lemma swp_free_irq (s : ifc D K) (Q : unit -> ifc D K -> Prop) : sized (card s) (res s) ->
  (forall r, rest_of_irq r = rest_of_irq (res s) -> none (irq_requested r) -> sized (card s) r ->
     Q tt (MkIfc (card s) (kern s) r (tasks s))) ->
  swp rtl8125_free_irq Q s.
Proof.
  intros (H1 & H2 & H3) HQ. unfold rtl8125_free_irq. swp_step. apply swp_get_card.
  apply (swp_entries irq_requested set_requested rest_of_irq); [done|done|]. intros r Hr.
  pose proof Hr as (Hx & Hl & _). apply HQ; [done|exact (entries_all _ _ _ _ _ _ H3 Hr)|].
  injection Hx as Ht Hx _ _. unfold sized. rewrite Ht, Hx, Hl. done.
Qed.

(** The answers the kernel gives to a request. *)
Definition irq_answer (rc : Z) : Prop := exists i kn, rc = fst (pci_request_irq (Kern := HN) i kn).

Lemma swp_request a k (s : ifc D K) (Q : Z -> ifc D K -> Prop) :
  (forall kn r, entries_are irq_requested rest_of_irq true a k (res s) r ->
     Q 0 (MkIfc (card s) kn r (tasks s))) ->
  (forall rc kn r, rc <> 0 -> irq_answer rc -> entries_any irq_requested rest_of_irq (res s) r ->
     Q rc (MkIfc (card s) kn r (tasks s))) ->
  swp (request_loop (seq a k)) Q s.
Proof.
  revert a s. induction k as [|k IH]; intros a s H0 H1; cbn [seq request_loop].
  - swp_step. destruct s. apply H0, entries_refl.
  - swp_step. apply swp_on_kern. intros kn. apply swp_if; intros Ht.
    + swp_step. apply H1; [by apply tst_true|by do 2 eexists|done].
    + swp_step. apply swp_upd_res. cbn [res card kern tasks].
      apply IH; cbn [res card kern tasks]; [intros kn' r Hr; apply H0; apply (entries_step _ set_requested); [done..|exact Hr]|].
      intros rc kn' r Hrc Ha Hr. apply H1; [done|done|]. eapply (any_step _ set_requested); [done..|exact Hr].
Qed.

Lemma swp_alloc_irq (s : ifc D K) (Q : Z -> ifc D K -> Prop) : sized (card s) (res s) ->
  (forall rc kn r, rest_of_irq r = rest_of_irq (res s) -> sized (card s) r ->
     (rc = 0 /\ full (irq_requested r) \/ rc <> 0 /\ irq_answer rc /\ none (irq_requested r)) ->
     Q rc (MkIfc (card s) kn r (tasks s))) ->
  swp rtl8125_alloc_irq Q s.
Proof.
  intros Hs HQ. pose proof Hs as (H1 & H2 & H3). unfold rtl8125_alloc_irq. swp_step. apply swp_get_card. swp_step.
  apply swp_request.
  - intros kn r Hr. do 2 swp_step; [done|]. swp_step. pose proof Hr as (Hx & Hl & _). apply HQ; [done| |].
    + injection Hx as Ht Hx _ _. unfold sized. rewrite Ht, Hx, Hl. done.
    + left. split; [done|exact (entries_all _ _ _ _ _ _ H3 Hr)].
  - intros rc kn r Hrc Ha (Hx & Hl). swp_step.
    assert (sized (card s) r) as Hs' by (injection Hx as Ht Hx _ _; unfold sized; rewrite Ht, Hx, Hl; done).
    apply swp_when; [|by rewrite (proj2 (tst_true rc) Hrc)]. intros _. apply swp_free_irq; [done|].
    intros r' Hx' Hn Hs''. cbn [card kern res tasks] in *. swp_step. apply HQ; [congruence|done|by right].
Qed.

Lemma swp_init_ring (s : ifc D K) (Q : Z -> ifc D K -> Prop) :
  (forall (ok : bool) kn, Q (if ok then 0 else - ENOMEM) (MkIfc (card s) kn (set_rx_bufs ok (res s)) (tasks s))) ->
  swp rtl8125_init_ring Q s.
Proof.
  intros HQ. unfold rtl8125_init_ring. swp_step. apply swp_on_kern. intros kn. swp_step. apply swp_upd_res.
  swp_step. apply HQ.
Qed.

Lemma fixed_iface_open n : fixed rtl8125_exit_oob /\ fixed (rtl8125_up ether_crc n).
Proof. split; eauto with chip. Qed.

(** The part of [rtl8125_open] after everything is acquired. *)
Lemma swp_open_tail n (s : ifc D K) (Q : Z -> ifc D K -> Prop) rc :
  (forall c t, same_chip (card s) c -> flag_down t = false ->
     Q rc (MkIfc c (kern s) (set_master true (res s)) t)) ->
  swp (upd_res (set_master true) ;;;
    on_card rtl8125_exit_oob ;;;
    on_card (rtl8125_up ether_crc n) ;;;
    set_down false ;;;
    s <- get_card id ;;
    (if tst (resume_not_chg_speed s)
     then on_card (_rtl8125_check_link_status ether_crc n R8125_LINK_STATE_UNKNOWN)
     else on_card (rtl8125_set_speed (autoneg s) (speed s) (duplex s) (advertising s)) ;;; sret tt) ;;;
    s <- get_card id ;;
    swhen (esd_flag s =? 0) rtl8125_schedule_esd_work ;;;
    swhen (HW_FIBER_MODE_ENABLED s) rtl8125_schedule_link_work ;;;
    on_card rtl8125_enable_hw_linkchg_interrupt ;;;
    sret rc) Q s.
Proof.
  intros HQ.
  assert (forall c c', same_chip (card s) c -> same_chip c c' -> same_chip (card s) c') as Htr
    by (intros c c' [H1 H2] [H3 H4]; split; congruence).
  swp_step. apply swp_upd_res. swp_step. apply swp_card; [eauto with chip|]. cbn [card kern res tasks]. intros _ c1 H1.
  swp_step. apply swp_card; [eauto with chip|]. cbn [card kern res tasks]. intros _ c2 H2.
  swp_step. apply swp_upd_tasks. swp_step. apply swp_get_card. cbn [card kern res tasks]. swp_step.
  assert (forall c t, same_chip (card s) c -> flag_down t = false ->
    swp (s <- get_card id ;;
      swhen (esd_flag s =? 0) rtl8125_schedule_esd_work ;;;
      swhen (HW_FIBER_MODE_ENABLED s) rtl8125_schedule_link_work ;;;
      on_card rtl8125_enable_hw_linkchg_interrupt ;;;
      sret rc) Q (MkIfc c (kern s) (set_master true (res s)) t)) as Hend.
  { intros c t Hc Ht. swp_step. apply swp_get_card. swp_step.
    assert (forall t, flag_down t = false ->
      swp (swhen (HW_FIBER_MODE_ENABLED c) rtl8125_schedule_link_work ;;;
        on_card rtl8125_enable_hw_linkchg_interrupt ;;; sret rc) Q
        (MkIfc c (kern s) (set_master true (res s)) t)) as Hl.
    { intros t' Ht'. swp_step.
      assert (forall t, flag_down t = false -> swp (on_card rtl8125_enable_hw_linkchg_interrupt ;;; sret rc) Q
        (MkIfc c (kern s) (set_master true (res s)) t)) as Hi.
      { intros t'' Ht''. swp_step. apply swp_card; [eauto with chip|]. intros _ c' Hc'. swp_step.
        apply HQ; [by eapply Htr|done]. }
      swp_step; [|by apply Hi]. apply swp_upd_tasks. by apply Hi. }
    swp_step; [|by apply Hl]. apply swp_upd_tasks. by apply Hl. }
  swp_step.
  - apply swp_card; [eauto with chip|]. intros _ c3 H3. apply Hend; [|done].
    eapply Htr; [|exact H3]. by eapply Htr.
  - swp_step. apply swp_card; [eauto with chip|]. intros _ c3 H3. swp_step. apply Hend; [|done].
    eapply Htr; [|exact H3]. by eapply Htr.
Qed.

(** What an open may end with. *)
Definition open_result (s : ifc D K) (rc : Z) (s' : ifc D K) : Prop :=
  same_chip (card s) (card s') /\ sized (card s) (res s') /\
  (rc = 0 /\ acquired (res s') /\ flag_down (tasks s') = false \/
   rc < 0 /\ none (tx_desc (res s')) /\ none (rx_desc (res s')) /\ none (irq_requested (res s')) /\
   bus_master (res s') = bus_master (res s) /\ tasks s' = tasks s /\
   (rx_bufs (res s') = true -> irq_answer rc)).

Lemma open_failed (s s1 : ifc D K) rc : rc < 0 -> same_chip (card s) (card s1) -> sized (card s1) (res s1) ->
  none (irq_requested (res s1)) -> bus_master (res s1) = bus_master (res s) -> tasks s1 = tasks s ->
  (rx_bufs (res s1) = true -> irq_answer rc) ->
  swp (rtl8125_free_alloc_resources ;;; sret rc) (open_result s) s1.
Proof.
  intros Hrc Hc Hs Hi Hm Ht Hb. swp_step. apply swp_free_desc; [done|].
  intros r H1 H2 H3 H4 H5 H6. swp_step. unfold open_result. cbn [card res tasks].
  split_and!; [done| |].
  - destruct Hc as [Hh Hf]. unfold sized in *. by rewrite <- Hh, <- Hf.
  - right. rewrite H4, H5, H6. done.
Qed.

Lemma swp_open n (s : ifc D K) : (forall i kn, fst (pci_request_irq (Kern := HN) i kn) <= 0) ->
  sized (card s) (res s) -> released (res s) -> swp (rtl8125_open ether_crc n) (open_result s) s.
Proof.
  intros Hlaw Hsz (Hn1 & Hn2 & Hn3 & Hb). unfold rtl8125_open. swp_step. apply swp_card; [eauto with chip|].
  intros _ c1 Hc1. assert (sized c1 (res s)) as Hsz1 by (by eapply sized_chip).
  swp_step. apply swp_alloc_tx; [done|]. cbn [card res kern tasks]. intros a kn2 r2 Hr2 Hs2 Ha.
  injection Hr2 as Hx2 Hb2 Hi2 Hm2.
  assert (forall kn r rc, sized c1 r -> irq_requested r = irq_requested (res s) -> rx_bufs r = rx_bufs (res s) ->
    bus_master r = bus_master (res s) -> rc < 0 ->
    swp (rtl8125_free_alloc_resources ;;; sret rc) (open_result s) (MkIfc c1 kn r (tasks s))) as Hfail.
  { intros kn r rc Hs Hi Hbuf Hm Hrc. apply open_failed; try done; cbn [card res tasks].
    - unfold none. by rewrite Hi.
    - rewrite Hbuf, Hb. done. }
  swp_step. destruct Ha as [[-> Hf2]| ->].
  2:{ change (-1 <? 0) with true. cbv iota. do 2 swp_step.
      change (-1 <? 0) with true. cbv iota. swp_step. change (- ENOMEM <? 0) with true. cbv iota.
      by apply Hfail. }
  change (0 <? 0) with false. cbv iota. apply swp_alloc_rx; [done|]. cbn [card res kern tasks].
  intros b kn3 r3 Hr3 Hs3 Hb3. injection Hr3 as Ht3 Hb3' Hi3 Hm3. swp_step.
  destruct Hb3 as [[-> Hf3]| ->].
  2:{ change (-1 <? 0) with true. cbv iota. swp_step. change (- ENOMEM <? 0) with true. cbv iota.
      apply Hfail; first [done|congruence]. }
  change (0 <? 0) with false. cbv iota. swp_step. apply swp_init_ring. cbn [card res kern tasks].
  intros ok kn4. destruct ok.
  2:{ change (- ENOMEM <? 0) with true. cbv iota. swp_step. change (- ENOMEM <? 0) with true. cbv iota.
      apply open_failed; try done; cbn [card res tasks set_rx_bufs irq_requested bus_master rx_bufs];
        [unfold none in *; congruence|congruence]. }
  change (0 <? 0) with false. cbv iota. apply swp_alloc_irq; [done|]. cbn [card res kern tasks].
  intros rc kn5 r5 Hr5 Hs5 Hrc. injection Hr5 as Ht5 Hx5 Hb5 Hm5.
  cbn [set_rx_bufs tx_desc rx_desc rx_bufs bus_master] in *. destruct Hrc as [[-> Hf5]|(Hrc & Hans & Hn5)].
  - change (0 <? 0) with false. cbv iota. apply swp_open_tail. cbn [card kern res tasks]. intros c t Hc Ht.
    split_and!; cbn [card res tasks]; [destruct Hc1, Hc; split; congruence| |].
    + destruct Hc1 as [Hh Hf]. unfold sized in *. cbn [set_master tx_desc rx_desc irq_requested].
      by rewrite <- Hh, <- Hf.
    + left. split_and!; [done| |done]. unfold acquired. cbn. unfold full in *.
      rewrite Ht5, Hx5, Hb5, Ht3. done.
  - destruct Hans as (i & kn & ->). pose proof (Hlaw i kn) as Hle. destruct (_ <? 0) eqn:E; [|blia].
    apply open_failed; try done; cbn [res]; [blia|congruence|]. intros _. by do 2 eexists.
Qed.

(** ** Closing *)

Lemma not_freed (s : ifc D K) (Q : bool -> ifc D K -> Prop) : sized (card s) (res s) ->
  acquired (res s) -> 0 < num_tx_rings (card s) -> Q false s -> swp rtl8125_resource_freed Q s.
Proof.
  intros (H1 & _ & _) (Hf & _) Hn HQ. unfold rtl8125_resource_freed. do 2 swp_step. cbn [id].
  replace (forallb _ (below (num_tx_rings (card s)))) with false; [done|]. symmetry.
  unfold below. destruct (Z.to_nat (num_tx_rings (card s))) as [|k] eqn:E; [lia|].
  destruct (tx_desc (res s)) as [|b l]; [cbn in H1; lia|]. apply Forall_cons in Hf as [<- _]. done.
Qed.

Lemma swp_down (s : ifc D K) (Q : unit -> ifc D K -> Prop) :
  (forall c, same_chip (card s) c -> Q tt (MkIfc c (kern s) (set_rx_bufs false (res s)) (tasks s))) ->
  swp rtl8125_down Q s.
Proof.
  intros HQ. unfold rtl8125_down. swp_step. apply swp_card; [by apply fixed_modify|]. intros _ c1 H1.
  swp_step. apply swp_card; [eauto with chip|]. intros _ c2 H2.
  swp_step. apply swp_card; [eauto with chip|]. intros _ c3 H3. apply swp_upd_res. apply HQ.
  cbn [card] in *. destruct H1, H2, H3. split; congruence.
Qed.

Lemma swp_close_iface restart kcp (s : ifc D K) : sized (card s) (res s) -> acquired (res s) ->
  0 < num_tx_rings (card s) ->
  swp (rtl8125_close restart kcp) (fun rc s' => rc = 0 /\ released (res s') /\ bus_master (res s') = false
    /\ flag_down (tasks s') = true) s.
Proof.
  intros Hs Ha Hn. unfold rtl8125_close. swp_step. apply not_freed; [done..|]. cbv beta iota. do 2 swp_step.
  apply swp_upd_tasks. swp_step. apply swp_down. cbn [card kern res tasks]. intros c1 H1. swp_step.
  apply swp_upd_res. cbn [card kern res tasks]. swp_step. apply swp_card; [eauto with chip|].
  cbn [card kern res tasks]. intros _ c2 H2. swp_step. apply swp_card; [eauto with chip|].
  cbn [card kern res tasks]. intros _ c3 H3.
  assert (sized c3 (set_master false (set_rx_bufs false (res s)))) as Hs3.
  { destruct H1 as [A1 B1], H2 as [A2 B2], H3 as [A3 B3]. unfold sized in *.
    cbn [set_master set_rx_bufs tx_desc rx_desc irq_requested]. by rewrite A3, A2, A1, B3, B2, B1. }
  swp_step. apply swp_free_irq; [done|]. cbn [card kern res tasks]. intros r4 Hr4 Hi4 Hs4.
  apply swp_free_desc; [done|]. cbn [card kern res tasks]. intros r5 Ht5 Hx5 _ Hb5 Hi5 Hm5. swp_step.
  injection Hr4 as _ _ Hb4 Hm4. cbn [set_master set_rx_bufs rx_bufs bus_master] in *. cbn [card kern res tasks].
  split_and!; [done| |congruence|done]. split_and!; [done|done| |congruence]. by rewrite Hi5.
Qed.

(** C19: Opening an interface either succeeds with everything it needs, or fails
    and keeps no descriptor ring, no interrupt, no bus mastering and schedules
    nothing; a failed open keeps receive buffers only when it was an interrupt
    the kernel refused.  Closing what was opened gives everything back, stops
    bus mastering and marks the interface down.  (The kernel answers a request
    for an interrupt with 0 or a negative error.) *)
Theorem open_close_balanced n restart kcp (s : ifc D K) rc s1 :
  (forall i kn, fst (pci_request_irq (Kern := HN) i kn) <= 0) ->
  sized (card s) (res s) -> released (res s) -> 0 < num_tx_rings (card s) ->
  rtl8125_open ether_crc n s = (rc, s1) ->
  (rc < 0 -> none (tx_desc (res s1)) /\ none (rx_desc (res s1)) /\ none (irq_requested (res s1)) /\
     bus_master (res s1) = bus_master (res s) /\ tasks s1 = tasks s /\
     (rx_bufs (res s1) = true -> irq_answer rc)) /\
  (0 <= rc -> rc = 0 /\ acquired (res s1) /\ flag_down (tasks s1) = false /\
     let '(rc', s2) := rtl8125_close restart kcp s1 in
     rc' = 0 /\ released (res s2) /\ bus_master (res s2) = false /\ flag_down (tasks s2) = true).
Proof.
  intros Hlaw Hs Hr Hn E. pose proof (swp_run _ _ _ _ _ (swp_open n s Hlaw Hs Hr) E) as (Hc & Hs1 & H).
  split; intros Hrc.
  - destruct H as [[-> _]|(_ & H)]; [lia|done].
  - destruct H as [(-> & Ha & Hd)|[? _]]; [|lia]. split_and!; [done..|].
    apply swp_close_iface; [by eapply sized_chip|done|]. destruct Hc as [-> _]. done.
Qed.
End Spec.

(** ** A concrete kernel *)

(** It has [k] interrupts left to give. *)
#[export] Instance toy_kern : Kern Z := {
  dma_alloc_coherent k := (true, k);
  alloc_rx_buffers k := (true, k);
  pci_request_irq _ k := if 0 <? k then (0, k - 1) else (-16, k);
  pci_enable_device k := (0, k)
}.

Lemma toy_irq_answer i k : fst (pci_request_irq (Kern := toy_kern) i k) <= 0.
Proof. cbn. destruct (0 <? k); cbn; lia. Qed.

(** The registers of the standard for 100M, 1G and 2.5G. *)
#[export] Instance toy_link_modes : LinkModes := {
  linkmode_to_mii_eee_cap1_t m := Z.lor (Z.shiftl (Z.land (Z.shiftr m 3) 1) 1) (Z.shiftl (Z.land (Z.shiftr m 5) 1) 2);
  linkmode_to_mii_eee_cap2_t m := Z.land (Z.shiftr m LINK_MODE_2500baseT_Full_BIT) 1;
  mii_eee_cap1_mod_linkmode_t m v :=
    clear_set m (bits_or [3; 5]) (Z.lor (Z.shiftl (Z.land (Z.shiftr v 1) 1) 3) (Z.shiftl (Z.land (Z.shiftr v 2) 1) 5));
  mii_eee_cap2_mod_linkmode_sup_t m v :=
    clear_set m (BIT LINK_MODE_2500baseT_Full_BIT) (Z.shiftl (Z.land v 1) LINK_MODE_2500baseT_Full_BIT)
}.

Definition toy_netdev : netdev := MkNetdev false false [] false false true [(0x20, 0x1000)] [(0xE4, 0x2000)].

(** An interface of a chip with the given number of interrupts, closed. *)
Definition toy_ifc (m k : Z) : ifc toy_nic Z :=
  MkIfc (toy_chip m 0) k
    (MkRes (repeat false 2) (repeat false 4) false (repeat false 32) false) (MkTask true [] []).

Lemma toy_ifc_sized m k : sized (card (toy_ifc m k)) (res (toy_ifc m k)).
Proof. done. Qed.

Lemma toy_ifc_released m k : released (res (toy_ifc m k)).
Proof. unfold released, none. cbn. split_and!; repeat constructor. Qed.

(** With interrupts enough the interface opens, and closing it gives all back. *)
Lemma open_close_balanced_witness :
  exists s1, rtl8125_open (fun _ => 0) toy_netdev (toy_ifc 9 32) = (0, s1) /\ acquired (res s1) /\
    released (res (snd (rtl8125_close false 0 s1))).
Proof.
  destruct (rtl8125_open (fun _ => 0) toy_netdev (toy_ifc 9 32)) as [rc s1] eqn:E.
  destruct (open_close_balanced (fun _ => 0) toy_netdev false 0 (toy_ifc 9 32) rc s1) as [_ H];
    [exact toy_irq_answer|exact (toy_ifc_sized 9 32)|exact (toy_ifc_released 9 32)|reflexivity|exact E|].
  assert (rc = fst (rtl8125_open (fun _ => 0) toy_netdev (toy_ifc 9 32))) as Hrc by (by rewrite E).
  assert (0 <= rc) as H0 by (rewrite Hrc; vm_compute; discriminate).
  destruct (H H0) as (-> & Ha & _ & Hc). exists s1. split; [reflexivity|]. split; [exact Ha|].
  destruct (rtl8125_close false 0 s1) as [rc' s2]. destruct Hc as (_ & Hc & _). exact Hc.
Defined.

(** When the kernel refuses an interrupt the receive buffers stay allocated. *)
Theorem open_leaks_rx_buffers :
  exists s1, rtl8125_open (fun _ => 0) toy_netdev (toy_ifc 9 3) = (-16, s1) /\ rx_bufs (res s1) = true.
Proof.
  exists (snd (rtl8125_open (fun _ => 0) toy_netdev (toy_ifc 9 3))). split; vm_compute; reflexivity.
Qed.

(** An interface whose last periodic check left its flag set. *)
Definition flagged_ifc : ifc toy_nic Z :=
  let s := toy_ifc 9 32 in
  MkIfc (set_esd_flag 1 (card s)) (kern s) (res s) (tasks s).

(** It is opened without the check being scheduled again; otherwise it is. *)
Theorem open_restarts_check_only_unflagged :
  queued (tasks (snd (rtl8125_open (fun _ => 0) toy_netdev (toy_ifc 9 32)))) = [esd_work] /\
  queued (tasks (snd (rtl8125_open (fun _ => 0) toy_netdev flagged_ifc))) = [].
Proof. split; vm_compute; reflexivity. Qed.

(** The periodic check schedules itself again as long as the interface is up. *)
Theorem esd_check_goes_on {D K} `{Mmio D} `{LinkModes} `{Kern K} crc n (s : ifc D K) :
  netif_running (card s) = true -> flag_down (tasks s) = false -> esd_work ∈ pending (tasks s) ->
  let t := tasks (snd (rtl8125_esd_task crc n s)) in
  esd_work ∈ queued t /\ esd_work ∈ pending t /\ flag_down t = false.
Proof.
  intros Hr Hd Hp. unfold rtl8125_esd_task, run_task. cbn [sbind upd_tasks sgets id]. unfold sbind, upd_tasks, sgets.
  cbn [card tasks flag_down pending]. unfold id. cbn [card tasks flag_down pending]. rewrite Hr, Hd. cbn [negb orb].
  destruct (decide _) as [_|Hn]; [|done]. unfold on_card. cbn [card kern res tasks].
  destruct (rtl8125_esd_checker crc n (card s)) as [[] c]. cbn. unfold add_task.
  split_and!; [|..|done]; case_decide; done || left.
Qed.

Lemma esd_check_goes_on_witness :
  let s := MkIfc (card (toy_ifc 9 0)) 0 (res (toy_ifc 9 0)) (MkTask false [esd_work] [esd_work]) in
  esd_work ∈ queued (tasks (snd (rtl8125_esd_task (fun _ => 0) toy_netdev s))).
Proof.
  intros s. assert (esd_work ∈ pending (tasks s)) as Hp by left.
  exact (proj1 (esd_check_goes_on (fun _ => 0) toy_netdev s eq_refl eq_refl Hp)).
Defined.
