(* ===== verification/RtlTool.v ===== *)
(** * r8125: the diagnostic ioctl

    src/.../realtek/r8125/rtltool.c: the command a user-space tool passes in
    and the register access each command stands for.  [copy_from_user] and
    [copy_to_user] are parameters of the handler: the command is [None] when
    it cannot be read, and the answer cannot be written when [out_ok] is
    false. *)
From S2P Require Import Prelude RtlBase RtlHw RtlHwSpec RtlEri RtlToy RtlEeprom RtlFiber.
Local Open Scope Z_scope.
Local Open Scope rtl_scope.

Inductive rtl_cmd :=
  | RTLTOOL_READ_MAC | RTLTOOL_WRITE_MAC | RTLTOOL_READ_PHY | RTLTOOL_WRITE_PHY
  | RTLTOOL_READ_EPHY | RTLTOOL_WRITE_EPHY | RTLTOOL_READ_ERI | RTLTOOL_WRITE_ERI
  | RTLTOOL_READ_PCI | RTLTOOL_WRITE_PCI | RTLTOOL_READ_EEPROM | RTLTOOL_WRITE_EEPROM
  | RTL_READ_OOB_MAC | RTL_WRITE_OOB_MAC | RTL_ENABLE_PCI_DIAG | RTL_DISABLE_PCI_DIAG
  | RTL_READ_MAC_OCP | RTL_WRITE_MAC_OCP | RTL_DIRECT_READ_PHY_OCP | RTL_DIRECT_WRITE_PHY_OCP
  | RTL_READ_FIBER_PHY | RTL_WRITE_FIBER_PHY | RTLTOOL_INVALID.

Definition rtl_cmds : list rtl_cmd :=
  [RTLTOOL_READ_MAC; RTLTOOL_WRITE_MAC; RTLTOOL_READ_PHY; RTLTOOL_WRITE_PHY;
   RTLTOOL_READ_EPHY; RTLTOOL_WRITE_EPHY; RTLTOOL_READ_ERI; RTLTOOL_WRITE_ERI;
   RTLTOOL_READ_PCI; RTLTOOL_WRITE_PCI; RTLTOOL_READ_EEPROM; RTLTOOL_WRITE_EEPROM;
   RTL_READ_OOB_MAC; RTL_WRITE_OOB_MAC; RTL_ENABLE_PCI_DIAG; RTL_DISABLE_PCI_DIAG;
   RTL_READ_MAC_OCP; RTL_WRITE_MAC_OCP; RTL_DIRECT_READ_PHY_OCP; RTL_DIRECT_WRITE_PHY_OCP;
   RTL_READ_FIBER_PHY; RTL_WRITE_FIBER_PHY; RTLTOOL_INVALID].

(** The enumerator with the given value; any other value takes the [default]. *)
Definition cmd_of (c : Z) : rtl_cmd :=
  if (0 <=? c) && (c <? 23) then nth (Z.to_nat c) rtl_cmds RTLTOOL_INVALID else RTLTOOL_INVALID.

(** [struct rtltool_cmd] *)
Record rtltool_cmd := MkCmd { cmd : Z; offset : Z; len : Z; data : Z }.

Definition set_data (v : Z) (c : rtltool_cmd) : rtltool_cmd := MkCmd (cmd c) (offset c) (len c) v.

Definition EFAULT : Z := 14.
Definition EINVAL : Z := 22.
Definition EOPNOTSUPP : Z := 95.

(** [(my_cmd.offset + my_cmd.len) > pci_resource_len(tp->pci_dev, 2)]: the sum
    is a 32-bit one. *)
Definition mac_out_of_range (h : hw_info) (c : rtltool_cmd) : bool :=
  u32 (offset c + len c) >? pci_resource_len2 h.

Section Tool.
Context {D : Type} `{HM : Mmio D}.
Abbreviation ST := (St (nic D)).

(** The command handed back to the user, if any, and the return value. *)
Definition tool_result : Type := option rtltool_cmd * Z.

(** [if (copy_to_user(...)) ret = -EFAULT] *)
Definition copy_out (out_ok : bool) (c : rtltool_cmd) : tool_result :=
  if out_ok then (Some c, 0) else (None, - EFAULT).

Definition tool_read_mac (c : rtltool_cmd) : option (ST Z) :=
  if len c =? 1 then Some (RTL_R8 (offset c))
  else if len c =? 2 then Some (RTL_R16 (Z.land (offset c) (Z.lnot 1)))
  else if len c =? 4 then Some (RTL_R32 (Z.land (offset c) (Z.lnot 3)))
  else None.

Definition tool_write_mac (c : rtltool_cmd) : option (ST unit) :=
  if len c =? 1 then Some (RTL_W8 (offset c) (data c))
  else if len c =? 2 then Some (RTL_W16 (Z.land (offset c) (Z.lnot 1)) (data c))
  else if len c =? 4 then Some (RTL_W32 (Z.land (offset c) (Z.lnot 3)) (data c))
  else None.

Definition len_124 (c : rtltool_cmd) : bool := existsb (Z.eqb (len c)) [1; 2; 4].

(** A read command: run the access, put the value into the command, copy out. *)
Definition tool_read (out_ok : bool) (c : rtltool_cmd) (m : ST Z) : ST tool_result :=
  v <- m ;; sret (copy_out out_ok (set_data v c)).

Definition tool_write (m : ST unit) : ST tool_result := m ;;; sret (None, 0).

Definition tool_err (e : Z) : ST tool_result := sret (None, - e).

(** The commands from [RTL_READ_OOB_MAC] on; [fs] is [tp->HwFiberStat]. *)
Definition tool_vendor (out_ok : bool) (fs : Z) (c : rtltool_cmd) : ST tool_result :=
  match cmd_of (cmd c) with
  | RTL_READ_OOB_MAC =>
      tool_read out_ok c
        (rtl8125_oob_mutex_lock ;;;
         v <- rtl8125_ocp_read (offset c) 4 ;;
         rtl8125_oob_mutex_unlock ;;;
         sret v)
  | RTL_WRITE_OOB_MAC =>
      if (len c =? 0) || (len c >? 4) then tool_err EOPNOTSUPP
      else tool_write
        (rtl8125_oob_mutex_lock ;;;
         rtl8125_ocp_write (offset c) (len c) (data c) ;;;
         rtl8125_oob_mutex_unlock)
  | RTL_ENABLE_PCI_DIAG => tool_write (smodify (set_rtk_enable_diag 1))
  | RTL_DISABLE_PCI_DIAG => tool_write (smodify (set_rtk_enable_diag 0))
  | RTL_READ_MAC_OCP =>
      if tst (offset c mod 2) then tool_err EOPNOTSUPP
      else tool_read out_ok c (rtl8125_mac_ocp_read (offset c))
  | RTL_WRITE_MAC_OCP =>
      if tst (offset c mod 2) || negb (len c =? 2) then tool_err EOPNOTSUPP
      else tool_write (rtl8125_mac_ocp_write (offset c) (u16 (data c)))
  | RTL_DIRECT_READ_PHY_OCP =>
      tool_read out_ok c (rtl8125_mdio_prot_direct_read_phy_ocp (offset c))
  | RTL_DIRECT_WRITE_PHY_OCP =>
      tool_write (rtl8125_mdio_prot_direct_write_phy_ocp (offset c) (data c))
  | RTL_READ_FIBER_PHY =>
      if negb (fs =? FIBER_STAT_CONNECT_GPO_C45) then tool_err EOPNOTSUPP
      else tool_read out_ok c (rtl8125_fiber_mdio_read (offset c))
  | RTL_WRITE_FIBER_PHY =>
      if negb (fs =? FIBER_STAT_CONNECT_GPO_C45) then tool_err EOPNOTSUPP
      else tool_write (rtl8125_fiber_mdio_write (offset c) (data c))
  | _ => tool_err EOPNOTSUPP
  end.

Definition rtl8125_tool_ioctl (in_cmd : option rtltool_cmd) (out_ok : bool) : ST tool_result :=
  match in_cmd with
  | None => tool_err EFAULT
  | Some c =>
      h <- tp_get hw ;;
      fs <- tp_get (fun s => HwFiberStat s) ;;
      match cmd_of (cmd c) with
      | RTLTOOL_READ_MAC =>
          if mac_out_of_range h c then tool_err EINVAL
          else match tool_read_mac c with
               | Some m => tool_read out_ok c m
               | None => tool_err EOPNOTSUPP
               end
      | RTLTOOL_WRITE_MAC =>
          if mac_out_of_range h c then tool_err EINVAL
          else match tool_write_mac c with
               | Some m => tool_write m
               | None => tool_err EOPNOTSUPP
               end
      | RTLTOOL_READ_PHY => tool_read out_ok c (rtl8125_mdio_prot_read (offset c))
      | RTLTOOL_WRITE_PHY => tool_write (rtl8125_mdio_prot_write (offset c) (data c))
      | RTLTOOL_READ_EPHY => tool_read out_ok c (rtl8125_ephy_read (offset c))
      | RTLTOOL_WRITE_EPHY => tool_write (rtl8125_ephy_write (offset c) (data c))
      | RTLTOOL_READ_ERI =>
          if len_124 c then tool_read out_ok c (rtl8125_eri_read (offset c) (len c) ERIAR_ExGMAC)
          else tool_err EOPNOTSUPP
      | RTLTOOL_WRITE_ERI =>
          if len_124 c
          then tool_write (rtl8125_eri_write (offset c) (len c) (data c) ERIAR_ExGMAC ;;; sret tt)
          else tool_err EOPNOTSUPP
      | RTLTOOL_READ_PCI =>
          if len_124 c
          then tool_read out_ok c
                 (v <- on_dev (pci_read_config (len c) (offset c)) ;; sret (wrap (8 * len c) v))
          else tool_err EOPNOTSUPP
      | RTLTOOL_WRITE_PCI =>
          if len_124 c
          then tool_write (on_dev_ (pci_write_config (len c) (offset c) (wrap (8 * len c) (data c))))
          else tool_err EOPNOTSUPP
      | RTLTOOL_READ_EEPROM => tool_read out_ok c (rtl8125_eeprom_read_sc (offset c))
      | RTLTOOL_WRITE_EEPROM => tool_write (rtl8125_eeprom_write_sc (offset c) (data c))
      | _ => tool_vendor out_ok fs c
      end
  end.

End Tool.

(** ** Bounds of the register window *)

Section Window.
Context {D : Type} `{HM : Mmio D}.

(** An access of [l] bytes at [reg]. *)
Definition mac_read (l reg : Z) : St (nic D) Z :=
  if l =? 1 then RTL_R8 reg else if l =? 2 then RTL_R16 reg else RTL_R32 reg.

Definition mac_write (l reg v : Z) : St (nic D) unit :=
  if l =? 1 then RTL_W8 reg v else if l =? 2 then RTL_W16 reg v else RTL_W32 reg v.

(** The register an accepted command accesses. *)
Definition mac_reg (c : rtltool_cmd) : Z := Z.land (offset c) (Z.lnot (len c - 1)).

Lemma tool_read_mac_eq c :
  tool_read_mac (D:=D) c = if len_124 c then Some (mac_read (len c) (mac_reg c)) else None.
Proof.
  unfold tool_read_mac, len_124, mac_read, mac_reg. simpl.
  destruct (Z.eqb_spec (len c) 1) as [->|]; [by rewrite Z.land_m1_r|].
  destruct (Z.eqb_spec (len c) 2) as [->|]; [done|]. by destruct (Z.eqb_spec (len c) 4) as [->|].
Qed.

Lemma tool_write_mac_eq c :
  tool_write_mac (D:=D) c = if len_124 c then Some (mac_write (len c) (mac_reg c) (data c)) else None.
Proof.
  unfold tool_write_mac, len_124, mac_write, mac_reg. simpl.
  destruct (Z.eqb_spec (len c) 1) as [->|]; [by rewrite Z.land_m1_r|].
  destruct (Z.eqb_spec (len c) 2) as [->|]; [done|]. by destruct (Z.eqb_spec (len c) 4) as [->|].
Qed.

Lemma mac_reg_bounds c :
  0 <= offset c -> len_124 c = true ->
  In (len c) [1; 2; 4] /\ 0 <= mac_reg c <= offset c /\ (len c | mac_reg c).
Proof.
  intros Ho Hl. assert (In (len c) [1; 2; 4]) as Hin.
  { apply existsb_exists in Hl as (x & Hx & He). apply Z.eqb_eq in He. by subst. }
  assert (exists k, 0 <= k /\ len c = 2 ^ k) as (k & Hk & El).
  { destruct Hin as [<-|[<-|[<-|[]]]]; [by exists 0|by exists 1|by exists 2]. }
  split; [done|]. unfold mac_reg. rewrite El.
  replace (2 ^ k - 1) with (Z.ones k) by (rewrite Z.ones_equiv; lia).
  rewrite <-Z.ldiff_land, Z.ldiff_ones_r by done. rewrite Z.shiftl_mul_pow2, Z.shiftr_div_pow2 by done.
  pose proof (Z.mul_div_le (offset c) (2 ^ k)). assert (0 < 2 ^ k) by (by apply Z.pow_pos_nonneg).
  assert (0 <= offset c / 2 ^ k) by (by apply Z.div_pos). split; [nia|]. by exists (offset c / 2 ^ k).
Qed.

End Window.


(** The sum wraps for the largest offset: the byte at the end of the 32-bit
    range is accepted as inside the 64 KiB window, and written. *)
Lemma tool_mac_wraps :
  mac_out_of_range toy (MkCmd 1 0xFFFFFFFF 1 0xAB) = false /\
  toy_get 0xFFFFFFFF (dev (snd (rtl8125_tool_ioctl (Some (MkCmd 1 0xFFFFFFFF 1 0xAB)) true toy))) = 0xAB.
Proof. vm_compute. split; reflexivity. Qed.
