(* ===== verification/RtlFirmware.v ===== *)
(** * r8125: the PHY firmware loader and interpreter

    src/.../realtek/r8125/r8125_firmware.c: a firmware file is accepted by a
    format check (header, checksum, bounds of the code) and a data check (jump
    and skip targets), and its 32-bit actions are then interpreted, writing PHY
    or MAC registers through the accessors of [struct rtl8125_fw]. *)
From S2P Require Import Prelude RtlBase RtlHw.
Local Open Scope Z_scope.
Local Open Scope rtl_scope.

Inductive rtl_fw_opcode :=
  | PHY_READ | PHY_DATA_OR | PHY_DATA_AND | PHY_BJMPN | PHY_MDIO_CHG | PHY_CLEAR_READCOUNT
  | PHY_WRITE | PHY_READCOUNT_EQ_SKIP | PHY_COMP_EQ_SKIPN | PHY_COMP_NEQ_SKIPN
  | PHY_WRITE_PREVIOUS | PHY_SKIPN | PHY_DELAY_MS.

(** [action >> 28] as an enumerator, if it is one. *)
Definition opcode_of (action : Z) : option rtl_fw_opcode :=
  match Z.shiftr action 28 with
  | 0x0 => Some PHY_READ
  | 0x1 => Some PHY_DATA_OR
  | 0x2 => Some PHY_DATA_AND
  | 0x3 => Some PHY_BJMPN
  | 0x4 => Some PHY_MDIO_CHG
  | 0x7 => Some PHY_CLEAR_READCOUNT
  | 0x8 => Some PHY_WRITE
  | 0x9 => Some PHY_READCOUNT_EQ_SKIP
  | 0xa => Some PHY_COMP_EQ_SKIPN
  | 0xb => Some PHY_COMP_NEQ_SKIPN
  | 0xc => Some PHY_WRITE_PREVIOUS
  | 0xd => Some PHY_SKIPN
  | 0xe => Some PHY_DELAY_MS
  | _ => None
  end.

(** The operand fields of an action. *)
Definition act_data (action : Z) : Z := Z.land action 0x0000ffff.
Definition act_regno (action : Z) : Z := Z.shiftr (Z.land action 0x0fff0000) 16.

Definition FW_OPCODE_SIZE : Z := 4.
Definition RTL8125_VER_SIZE : Z := 32.
(** [sizeof(struct fw_info)] and the offsets of its packed members. *)
Definition sizeof_fw_info : Z := 45.
Definition fw_version_off : nat := 4.
Definition fw_start_off : nat := 36.
Definition fw_len_off : nat := 40.

(** [strscpy(dst, src, n)]: the string at [src], cut to [n - 1] characters. *)
Fixpoint c_string (s : list Z) : list Z :=
  match s with
  | [] => []
  | c :: s' => if c =? 0 then [] else c :: c_string s'
  end.

Definition strscpy (src : list Z) (n : Z) : list Z := take (Z.to_nat (n - 1)) (c_string src).

(** [struct rtl8125_fw_phy_action] as the offset and number of the actions in
    the file, with the version string. *)
Record fw_layout := MkLayout { fw_version : list Z; code_off : Z; code_size : Z }.

Definition checksum (data : list Z) : Z := fold_left (fun c b => u8 (c + b)) data 0.

Definition rtl8125_fw_format_ok (fw_name data : list Z) : option fw_layout :=
  let size := Z.of_nat (length data) in
  if size <? FW_OPCODE_SIZE then None
  else if negb (tst (le32_to_cpu data 0)) then
    if size <? sizeof_fw_info then None
    else if negb (checksum data =? 0) then None
    else
      let start := le32_to_cpu data fw_start_off in
      if start >? size then None
      else
        let n := le32_to_cpu data fw_len_off in
        if n >? (size - start) / FW_OPCODE_SIZE then None
        else Some (MkLayout (strscpy (slice fw_version_off 32 data) RTL8125_VER_SIZE) start n)
  else if tst (size mod FW_OPCODE_SIZE) then None
  else Some (MkLayout (strscpy fw_name RTL8125_VER_SIZE) 0 (size / FW_OPCODE_SIZE)).

(** [pa->code[0 .. pa->size - 1]] *)
Definition fw_code (data : list Z) (l : fw_layout) : list Z :=
  map (fun i => le32_to_cpu data (Z.to_nat (code_off l) + 4 * i)) (seq 0 (Z.to_nat (code_size l))).

(** The check of one action at [index] of a program of [size] actions. *)
Definition action_ok (size index action : Z) : bool :=
  match opcode_of action with
  | Some PHY_MDIO_CHG => negb (act_data action >? 1)
  | Some PHY_BJMPN => negb (act_regno action >? index)
  | Some PHY_READCOUNT_EQ_SKIP => negb (index + 2 >=? size)
  | Some (PHY_COMP_EQ_SKIPN | PHY_COMP_NEQ_SKIPN | PHY_SKIPN) =>
      negb (index + 1 + act_regno action >=? size)
  | Some _ => true
  | None => false
  end.

Fixpoint data_ok_loop (size index : Z) (code : list Z) : bool :=
  match code with
  | [] => true
  | action :: code' => action_ok size index action && data_ok_loop size (index + 1) code'
  end.

Definition rtl8125_fw_data_ok (code : list Z) : bool :=
  data_ok_loop (Z.of_nat (length code)) 0 code.

(** The accessors of [struct rtl8125_fw]. *)
Record fw_ops (S : Type) := MkFwOps {
  phy_write : Z -> Z -> St S unit;
  phy_read : Z -> St S Z;
  mcu_write : Z -> Z -> St S unit;
  mcu_read : Z -> St S Z
}.
Arguments phy_write {S}.
Arguments phy_read {S}.
Arguments mcu_write {S}.
Arguments mcu_read {S}.
Arguments MkFwOps {S}.

(** The locals of the interpreter loop: [use_mcu] says which pair of accessors
    [fw_write] and [fw_read] hold. *)
Record fw_locals := MkLocals { index : Z; predata : Z; count : Z; use_mcu : bool }.

Section Interp.
Context {S : Type} (ops : fw_ops S).

Definition fw_write (mcu : bool) : Z -> Z -> St S unit := if mcu then mcu_write ops else phy_write ops.
Definition fw_read (mcu : bool) : Z -> St S Z := if mcu then mcu_read ops else phy_read ops.

(** [index++] of the loop, on a 64-bit [size_t], after a jump by [by_]. *)
Definition advance (l : fw_locals) (by_ : Z) : fw_locals :=
  MkLocals (u64 (index l + by_ + 1)) (predata l) (count l) (use_mcu l).

Definition set_predata (v : Z) (l : fw_locals) := MkLocals (index l) v (count l) (use_mcu l).
Definition set_count (v : Z) (l : fw_locals) := MkLocals (index l) (predata l) v (use_mcu l).
Definition set_use_mcu (v : bool) (l : fw_locals) := MkLocals (index l) (predata l) (count l) v.

(** The body of the loop for one non-zero action, with the loop's increment. *)
Definition fw_action (action : Z) (l : fw_locals) : St S fw_locals :=
  let dat := act_data action in
  let regno := act_regno action in
  match opcode_of action with
  | Some PHY_READ =>
      v <- fw_read (use_mcu l) regno ;;
      sret (advance (set_count (count l + 1) (set_predata (s32 v) l)) 0)
  | Some PHY_DATA_OR => sret (advance (set_predata (s32 (Z.lor (predata l) dat)) l) 0)
  | Some PHY_DATA_AND => sret (advance (set_predata (s32 (Z.land (predata l) dat)) l) 0)
  | Some PHY_BJMPN => sret (advance l (- (regno + 1)))
  | Some PHY_MDIO_CHG => sret (advance (set_use_mcu (tst dat) l) 0)
  | Some PHY_CLEAR_READCOUNT => sret (advance (set_count 0 l) 0)
  | Some PHY_WRITE => fw_write (use_mcu l) regno dat ;;; sret (advance l 0)
  | Some PHY_READCOUNT_EQ_SKIP => sret (advance l (if u32 (count l) =? dat then 1 else 0))
  | Some PHY_COMP_EQ_SKIPN => sret (advance l (if u32 (predata l) =? dat then regno else 0))
  | Some PHY_COMP_NEQ_SKIPN => sret (advance l (if u32 (predata l) =? dat then 0 else regno))
  | Some PHY_WRITE_PREVIOUS => fw_write (use_mcu l) regno (predata l) ;;; sret (advance l 0)
  | Some PHY_SKIPN => sret (advance l regno)
  | Some PHY_DELAY_MS => sret (advance l 0)
  | None => sret (advance l 0)
  end.

(** The [for] loop; [false] when the fuel ran out before the loop ended. *)
Fixpoint fw_loop (fuel : nat) (code : list Z) (l : fw_locals) : St S bool :=
  if index l <? Z.of_nat (length code) then
    match fuel with
    | O => sret false
    | Datatypes.S fuel' =>
        let action := nth (Z.to_nat (index l)) code 0 in
        if negb (tst action) then sret true
        else l' <- fw_action action l ;; fw_loop fuel' code l'
    end
  else sret true.

Definition rtl8125_fw_write_firmware (fuel : nat) (code : list Z) : St S bool :=
  fw_loop fuel code (MkLocals 0 0 0 false).

End Interp.

(** [request_firmware] is the kernel's: it gives a negative error or the file.
    The result has the error or the accepted file; the last component says
    whether the file was released again. *)
Definition rtl8125_fw_request_firmware (fw_name : list Z) (answer : Z + list Z)
    : (Z + (list Z * fw_layout)) * bool :=
  match answer with
  | inl rc => (inl rc, false)
  | inr data =>
      match rtl8125_fw_format_ok fw_name data with
      | Some l => if rtl8125_fw_data_ok (fw_code data l) then (inr (data, l), false)
                  else (inl (-22), true)
      | None => (inl (-22), true)
      end
  end.

(** The accessors the driver puts in ([rtl8125_request_firmware]). *)
Definition driver_fw_ops {D} `{HM : Mmio D} : fw_ops (nic D) :=
  MkFwOps rtl8125_mdio_write rtl8125_mdio_read mac_mcu_write mac_mcu_read.

(** ** An accepted file *)

Lemma land_bound a m : 0 <= a -> 0 <= m -> 0 <= Z.land a m <= m.
Proof.
  intros Ha Hm. split; [by apply Z.land_nonneg; left|].
  rewrite <- (Z.land_diag m) at 2. apply Z.ldiff_le; [apply Z.land_nonneg; lia|].
  apply Z.bits_inj'. intros i Hi. rewrite Z.ldiff_spec, !Z.land_spec, Z.bits_0.
  by destruct (Z.testbit a i), (Z.testbit m i).
Qed.

Lemma act_regno_range a : 0 <= a -> 0 <= act_regno a < 4096.
Proof.
  intros Ha. unfold act_regno. pose proof (land_bound a 0x0fff0000 Ha).
  rewrite Z.shiftr_div_pow2 by lia. change (2 ^ 16) with 65536.
  Z.to_euclidean_division_equations; lia.
Qed.

Lemma le32_nonneg b off : bytes_ok b -> 0 <= le32_to_cpu b off.
Proof.
  intros Hb. unfold le32_to_cpu. rewrite !Z.lor_nonneg, !Z.shiftl_nonneg.
  split_and!; eapply proj1, at_byte; done.
Qed.

Lemma length_strscpy src n : 0 < n -> Z.of_nat (length (strscpy src n)) < n.
Proof. intros. unfold strscpy. rewrite length_take. lia. Qed.

Lemma format_ok_bounds name data l : bytes_ok data -> rtl8125_fw_format_ok name data = Some l ->
  0 <= code_off l /\ 0 <= code_size l /\
  code_off l + FW_OPCODE_SIZE * code_size l <= Z.of_nat (length data) /\
  Z.of_nat (length (fw_version l)) < RTL8125_VER_SIZE /\
  (le32_to_cpu data 0 = 0 -> checksum data = 0).
Proof.
  intros Hb. unfold rtl8125_fw_format_ok, FW_OPCODE_SIZE.
  set (n := Z.of_nat (length data)). assert (0 <= n) by lia.
  pose proof (le32_nonneg data fw_start_off Hb). pose proof (le32_nonneg data fw_len_off Hb).
  destruct (n <? 4) eqn:E1; [done|]. destruct (tst (le32_to_cpu data 0)) eqn:Et; cbn [negb].
  - destruct (tst (n mod 4)) eqn:E2; [done|]. intros [= <-]. cbn. apply tst_true in Et.
    apply tst_false in E2. split_and!; try lia; try done.
    + Z.to_euclidean_division_equations; lia.
    + Z.to_euclidean_division_equations; lia.
    + by apply length_strscpy.
  - destruct (n <? sizeof_fw_info) eqn:E2; [done|].
    destruct (checksum data =? 0) eqn:E3; cbn [negb]; [|done].
    destruct (_ >? n) eqn:E4; [done|]. destruct (_ >? _ / 4) eqn:E5; [done|]. intros [= <-].
    cbn [code_off code_size fw_version]. rewrite Z.gtb_ltb in E4, E5. breflect.
    split_and!; try done.
    + Z.to_euclidean_division_equations; lia.
    + by apply length_strscpy.
Qed.

Lemma data_ok_lookup size code index i : data_ok_loop size index code = true ->
  (i < length code)%nat -> action_ok size (index + Z.of_nat i) (nth i code 0) = true.
Proof.
  revert index i. induction code as [|a code IH]; intros index i H Hi; cbn [data_ok_loop length] in *; [lia|].
  apply andb_true_iff in H as [Ha Hc]. destruct i as [|i]; cbn [nth]; [by rewrite Z.add_0_r|].
  replace (index + Z.of_nat (Datatypes.S i)) with (index + 1 + Z.of_nat i) by lia.
  apply IH; [done|lia].
Qed.

(** A firmware file the driver keeps is safe to interpret: all of its
    actions lie inside the file, its version string fits the buffer, a file
    with a header has a zero checksum, and every action has a known operation
    and passed the check of its jump or skip.  A file that is refused has been
    released, and the error is that of the request or [-EINVAL]. *)
Lemma fw_request_accepts name answer result released :
  (forall data, answer = inr data -> bytes_ok data) ->
  rtl8125_fw_request_firmware name answer = (result, released) ->
  match result with
  | inl rc => (answer = inl rc /\ released = false) \/ (rc = -22 /\ released = true)
  | inr (data, l) =>
      answer = inr data /\ released = false /\
      0 <= code_off l /\ code_off l + FW_OPCODE_SIZE * code_size l <= Z.of_nat (length data) /\
      Z.of_nat (length (fw_version l)) < RTL8125_VER_SIZE /\
      (le32_to_cpu data 0 = 0 -> checksum data = 0) /\
      Z.of_nat (length (fw_code data l)) = code_size l /\
      forall i, 0 <= i < code_size l ->
        action_ok (code_size l) i (nth (Z.to_nat i) (fw_code data l) 0) = true
  end.
Proof.
  intros Hb. unfold rtl8125_fw_request_firmware. destruct answer as [rc|data].
  { intros [= <- <-]. by left. }
  destruct (rtl8125_fw_format_ok name data) as [l|] eqn:Ef; [|intros [= <- <-]; by right].
  destruct (rtl8125_fw_data_ok (fw_code data l)) eqn:Ed; intros [= <- <-]; [|by right].
  destruct (format_ok_bounds _ _ _ (Hb data eq_refl) Ef) as (H1 & H2 & H3 & H4 & H5).
  assert (Z.of_nat (length (fw_code data l)) = code_size l) as Hlen
    by (unfold fw_code; rewrite length_map, length_seq; lia).
  split_and!; try done. intros i Hi. unfold rtl8125_fw_data_ok in Ed. rewrite Hlen in Ed.
  apply (data_ok_lookup _ _ 0 (Z.to_nat i)) in Ed; [|lia]. by rewrite Z2Nat.id, Z.add_0_l in Ed by lia.
Qed.

(** ** The interpreter stays inside an accepted program *)

Section InterpSpec.
Context {S : Type} (ops : fw_ops S).
Variable code : list Z.
Hypothesis code_words : Forall (fun a => 0 <= a < 2 ^ 32) code.
Hypothesis code_ok : rtl8125_fw_data_ok code = true.
Hypothesis code_small : Z.of_nat (length code) < 2 ^ 32.

Abbreviation size := (Z.of_nat (length code)).

Lemma action_checked i : 0 <= i < size ->
  0 <= nth (Z.to_nat i) code 0 /\ action_ok size i (nth (Z.to_nat i) code 0) = true.
Proof.
  intros Hi. split.
  - pose proof code_words as Hw. rewrite Forall_forall in Hw. apply Hw, list_elem_of_In, nth_In. lia.
  - pose proof (data_ok_lookup size code 0 (Z.to_nat i) code_ok) as Hc.
    rewrite Z2Nat.id, Z.add_0_l in Hc by lia. apply Hc. lia.
Qed.

Lemma advance_index l by_ : 0 <= index l + by_ + 1 <= size ->
  index (advance l by_) = index l + by_ + 1.
Proof. intros H. cbn. apply wrap_small. lia. Qed.

(** Where one action takes the loop: forward, or back with a jump. *)
Lemma fw_action_index a l s : 0 <= index l < size -> 0 <= a -> action_ok size (index l) a = true ->
  swp (fw_action ops a l)
    (fun l' _ => 0 <= index l' <= size /\ (opcode_of a <> Some PHY_BJMPN -> index l < index l')) s.
Proof.
  intros Hi Ha Hok. pose proof (act_regno_range a Ha) as Hr. unfold action_ok in Hok. unfold fw_action.
  destruct (opcode_of a) as [[]|]; try discriminate Hok; rewrite ?Z.gtb_ltb, ?Z.geb_leb in Hok;
    breflect; try (apply swp_bind_any; intros ? ?); swp_step; repeat case_match;
    rewrite advance_index by (cbn; lia); cbn [index set_predata set_count set_use_mcu];
    (split; [lia|intros Hj; (lia || by destruct Hj)]).
Qed.

(** The states of the loop reachable from its start. *)
Definition fw_step (c c' : fw_locals * S) : Prop :=
  let action := nth (Z.to_nat (index c.1)) code 0 in
  index c.1 < size /\ action <> 0 /\ fw_action ops action c.1 c.2 = c'.

(** While an accepted program is interpreted, the index stays between 0
    and the number of actions, jumps and skips included, and every action that
    is fetched has a known operation: no fetch is outside the program and no
    action falls through the switch. *)
Lemma fw_index_in_bounds s l' s' :
  star fw_step (MkLocals 0 0 0 false, s) (l', s') ->
  0 <= index l' <= size /\
  (index l' < size -> opcode_of (nth (Z.to_nat (index l')) code 0) <> None).
Proof.
  intros Hst. assert (0 <= index l' <= size) as Hi.
  { pattern l'. change l' with ((l', s').1). pattern (l', s').
    eapply star_inv; [|exact Hst|cbn; lia]. clear Hst.
    intros [l1 s1] [l2 s2]; cbn [fst]. intros Hl (Hlt & _ & Ha). cbn [fst snd] in *.
    destruct (action_checked (index l1)) as [Hp Hok]; [lia|].
    pose proof (fw_action_index _ l1 s1 (conj (proj1 Hl) Hlt) Hp Hok) as Hw.
    apply (swp_run _ _ _ _ _ Hw) in Ha. apply Ha. }
  split; [done|]. intros Hlt. destruct (action_checked (index l')) as [_ Hok]; [lia|].
  unfold action_ok in Hok. by destruct (opcode_of _).
Qed.

(** Without backward jumps the index grows with every action. *)
Lemma fw_forward_ends fuel l s :
  Forall (fun a => opcode_of a <> Some PHY_BJMPN) code ->
  0 <= index l <= size -> size - index l <= Z.of_nat fuel ->
  swp (fw_loop ops fuel code l) (fun ended _ => ended = true) s.
Proof.
  intros Hfw. revert l s. induction fuel as [|fuel IH]; intros l s Hi Hf; cbn [fw_loop].
  - destruct (index l <? size) eqn:E; [blia|by swp_step].
  - destruct (index l <? size) eqn:E; [breflect|by swp_step]. swp_step; [by swp_step|]. swp_step.
    destruct (action_checked (index l)) as [Hp Hok]; [lia|].
    eapply swp_mono; [|apply (fw_action_index _ l s); [lia|done|done]].
    intros l1 s1 [Hb Hgt]. apply IH; [done|]. rewrite Forall_forall in Hfw.
    assert (index l < index l1); [|lia]. apply Hgt, Hfw, list_elem_of_In, nth_In. lia.
Qed.

(** The interpreter ends on every accepted program that has no backward
    jump, after at most as many actions as the program has. *)
Theorem fw_forward_terminates s ended s' :
  Forall (fun a => opcode_of a <> Some PHY_BJMPN) code ->
  rtl8125_fw_write_firmware ops (length code) code s = (ended, s') -> ended = true.
Proof.
  intros Hfw E. swp_start E. apply fw_forward_ends; [done|cbn; lia|cbn [index]; lia].
Qed.
End InterpSpec.

(** ** From the file to the run *)

Lemma le32_range b off : bytes_ok b -> 0 <= le32_to_cpu b off < 2 ^ 32.
Proof.
  intros Hb. split; [by apply le32_nonneg|]. unfold le32_to_cpu.
  pose proof (at_byte b off Hb). pose proof (at_byte b (off + 1) Hb).
  pose proof (at_byte b (off + 2) Hb). pose proof (at_byte b (off + 3) Hb). unfold is_byte in *.
  rewrite !Z.shiftl_mul_pow2 by lia.
  rewrite !Z.lor_assoc, (lor_disjoint_add (at_ b off) _ 8) by lia.
  rewrite (lor_disjoint_add (_ + _) _ 16) by lia. rewrite (lor_disjoint_add (_ + _) _ 24) by lia. lia.
Qed.

Lemma fw_code_words data l : bytes_ok data -> Forall (fun a => 0 <= a < 2 ^ 32) (fw_code data l).
Proof. intros Hb. apply Forall_map, Forall_forall. intros i _. by apply le32_range. Qed.

(** C30: No firmware file makes the interpreter leave it.  A file the driver
    keeps has its actions inside it, a version string that fits the buffer and,
    with a header, a zero checksum; and while its program is interpreted, with
    whatever accessors and answers of the controller, the index stays between 0
    and the number of actions, jumps and skips included, so every fetch is
    inside the file and finds an action of a known operation. *)
Theorem firmware_runs_in_file {S} (ops : fw_ops S) name data data' l released s l' s' :
  bytes_ok data -> Z.of_nat (length data) < 2 ^ 32 ->
  rtl8125_fw_request_firmware name (inr data) = (inr (data', l), released) ->
  star (fw_step ops (fw_code data' l)) (MkLocals 0 0 0 false, s) (l', s') ->
  data' = data /\ released = false /\
  Z.of_nat (length (fw_version l)) < RTL8125_VER_SIZE /\
  (le32_to_cpu data 0 = 0 -> checksum data = 0) /\
  0 <= code_off l /\ 0 <= index l' <= code_size l /\
  (index l' < code_size l ->
   code_off l + FW_OPCODE_SIZE * (index l' + 1) <= Z.of_nat (length data) /\
   opcode_of (le32_to_cpu data (Z.to_nat (code_off l) + 4 * Z.to_nat (index l'))) <> None).
Proof.
  intros Hb Hs E Hst.
  destruct (fw_request_accepts name (inr data) _ released ltac:(by intros ? [= <-]) E)
    as (Hd & Hr & Ho & Hf & Hv & Hc & Hl & Hok). injection Hd as <-.
  assert (rtl8125_fw_data_ok (fw_code data l) = true) as Hdok.
  { unfold rtl8125_fw_request_firmware in E. repeat case_match; by simplify_eq. }
  assert (0 <= code_size l) by (rewrite <- Hl; lia).
  pose proof (fw_index_in_bounds ops _ (fw_code_words data l Hb) Hdok) as Hi.
  rewrite Hl in Hi. destruct (Hi ltac:(unfold FW_OPCODE_SIZE in Hf; lia) s l' s' Hst) as [Hb1 Hb2].
  unfold FW_OPCODE_SIZE in *. split_and!; try done; try lia. intros Hlt. split; [lia|].
  replace (le32_to_cpu data _) with (nth (Z.to_nat (index l')) (fw_code data l) 0); [by apply Hb2|].
  unfold fw_code. rewrite (nth_indep _ 0 (le32_to_cpu data (Z.to_nat (code_off l) + 4 * 0)))
    by (rewrite length_map, length_seq; lia).
  rewrite (map_nth (fun i => le32_to_cpu data (Z.to_nat (code_off l) + 4 * i))), seq_nth by lia. done.
Qed.

(** ** Accepted programs that never end *)

(** A jump to itself passes the data check. *)
Definition self_jump : list Z := [0x30000000].

Example self_jump_accepted : rtl8125_fw_data_ok self_jump = true.
Proof. reflexivity. Qed.

Lemma self_jump_runs {S} (ops : fw_ops S) fuel l s : index l = 0 ->
  fst (fw_loop ops fuel self_jump l s) = false.
Proof.
  revert l. induction fuel as [|fuel IH]; intros l Hl; cbn [fw_loop]; rewrite Hl; [done|].
  change (0 <? Z.of_nat (length self_jump)) with true. cbv iota.
  change (negb (tst (nth (Z.to_nat 0) self_jump 0))) with false. cbv iota.
  unfold sbind, fw_action. change (opcode_of (nth (Z.to_nat 0) self_jump 0)) with (Some PHY_BJMPN).
  cbv iota. unfold sret at 1. apply IH. unfold advance. cbn [index]. rewrite Hl. reflexivity.
Qed.

(** The checks of a firmware file do not make the interpreter end: a file
    whose only action jumps to itself is accepted and keeps the loop running
    whatever the number of rounds, with the PHY lock held. *)
Theorem fw_accepts_endless_program {S} (ops : fw_ops S) (s : S) :
  rtl8125_fw_data_ok self_jump = true /\
  forall fuel, fst (rtl8125_fw_write_firmware ops fuel self_jump s) = false.
Proof. split; [exact self_jump_accepted|]. intros fuel. by apply self_jump_runs. Qed.

(** ** Concrete runs *)

(** Accessors that keep a log of the writes; every register reads as 5. *)
Definition log_ops : fw_ops (list (Z * Z)) :=
  MkFwOps (fun r v => smodify (fun log => log ++ [(r, v)])) (fun _ => sret 5)
          (fun r v => smodify (fun log => log ++ [(r + 0x10000, v)])) (fun _ => sret 5).

(** Read register 3, skip one action when it is 5, write, write. *)
Definition sample_code : list Z := [0x00030000; 0xa0010005; 0x80010001; 0x80020002].

Definition sample_file : list Z :=
  [0; 0; 3; 0; 5; 0; 1; 0xa0; 1; 0; 1; 0x80; 2; 0; 2; 0x80].

(** A file with a header, the actions behind it and a checksum byte. *)
Definition header_file : list Z :=
  [0; 0; 0; 0; 118; 49] ++ replicate 30 0 ++ [45; 0; 0; 0; 1; 0; 0; 0; 0xA7] ++ [2; 0; 2; 0x80].

Lemma sample_words : Forall (fun a => 0 <= a < 2 ^ 32) sample_code.
Proof. repeat constructor; lia. Qed.

Lemma fw_forward_terminates_witness :
  exists s', rtl8125_fw_write_firmware log_ops 4 sample_code [] = (true, s').
Proof.
  destruct (rtl8125_fw_write_firmware log_ops 4 sample_code []) as [e s'] eqn:E. exists s'.
  rewrite (fw_forward_terminates log_ops sample_code sample_words eq_refl ltac:(cbn; lia) [] e s');
    [reflexivity| |exact E].
  repeat constructor; discriminate.
Defined.

(** The comparison holds, so the first write is skipped. *)
Example sample_run : rtl8125_fw_write_firmware log_ops 4 sample_code [] = (true, [(2, 2)]).
Proof. reflexivity. Qed.

(** The sample as a file: after the skip the third write is fetched. *)
Lemma firmware_runs_in_file_witness :
  exists l, rtl8125_fw_request_firmware [] (inr sample_file) = (inr (sample_file, l), false) /\
    code_off l + FW_OPCODE_SIZE * (3 + 1) <= 16.
Proof.
  destruct (rtl8125_fw_request_firmware [] (inr sample_file)) as [[rc|[d l]] rel] eqn:E.
  { apply (f_equal (fun x => match fst x with inl _ => true | inr _ => false end)) in E.
    vm_compute in E. discriminate E. }
  assert (d = sample_file /\ l = MkLayout [] 0 4 /\ rel = false) as (-> & -> & ->).
  { change (rtl8125_fw_request_firmware [] (inr sample_file)) with
      (@inr Z _ (sample_file, MkLayout [] 0 4), false) in E. by simplify_eq. }
  exists (MkLayout [] 0 4). split; [reflexivity|].
  assert (star (fw_step log_ops sample_code) (MkLocals 0 0 0 false, []) (MkLocals 3 5 1 false, [])) as H.
  { eapply (star_step _ _ (MkLocals 1 5 1 false, [])); [split; [reflexivity|split; [discriminate|reflexivity]]|].
    eapply (star_step _ _ (MkLocals 3 5 1 false, [])); [split; [reflexivity|split; [discriminate|reflexivity]]|].
    apply star_refl. }
  destruct (firmware_runs_in_file log_ops [] sample_file sample_file (MkLayout [] 0 4) false [] (MkLocals 3 5 1 false) [])
    as (_ & _ & _ & _ & _ & _ & Hn); [repeat constructor; unfold is_byte; lia|cbn; lia|exact E|exact H|].
  apply Hn. reflexivity.
Defined.
