(* ===== verification/RtlRss.v ===== *)
(** * r8125: receive side scaling

    src/.../realtek/r8125/r8125_rss.c: the ethtool hash options, the hash key
    and the indirection table, and what of them is written to the controller.
    Of the two variants of get_rxfh and set_rxfh the one for Linux 6.8 and
    later is modelled; the pointers of [struct ethtool_rxfh_param] are [None]
    when they are null, and what an array of the caller holds is a list. *)
From S2P Require Import Prelude RtlBase RtlHw.
Local Open Scope Z_scope.
Local Open Scope rtl_scope.

Definition RSS_CTRL_TCP_IPV4_SUPP : Z := BIT 0.
Definition RSS_CTRL_IPV4_SUPP : Z := BIT 1.
Definition RSS_CTRL_TCP_IPV6_SUPP : Z := BIT 2.
Definition RSS_CTRL_IPV6_SUPP : Z := BIT 3.
Definition RSS_CTRL_IPV6_EXT_SUPP : Z := BIT 4.
Definition RSS_CTRL_TCP_IPV6_EXT_SUPP : Z := BIT 5.
Definition RSS_CTRL_UDP_IPV4_SUPP : Z := BIT 11.
Definition RSS_CTRL_UDP_IPV6_SUPP : Z := BIT 12.
Definition RSS_CTRL_UDP_IPV6_EXT_SUPP : Z := BIT 13.
Definition RTL_8125_RSS_FLAG_HASH_UDP_IPV4 : Z := BIT 0.
Definition RTL_8125_RSS_FLAG_HASH_UDP_IPV6 : Z := BIT 1.
Definition RTL8125_UDP_RSS_FLAGS : Z :=
  Z.lor RTL_8125_RSS_FLAG_HASH_UDP_IPV4 RTL_8125_RSS_FLAG_HASH_UDP_IPV6.
Definition RSS_CTRL_8125 : Z := 0x4500.
Definition RSS_KEY_8125 : Z := 0x4600.
Definition RSS_INDIRECTION_TBL_8125_V2 : Z := 0x4700.
Definition RSS_MASK_BITS_OFFSET : Z := 8.
Definition RSS_CPU_NUM_OFFSET : Z := 16.
Definition RTL8125_RSS_KEY_SIZE : Z := 40.
Definition RTL8125_MAX_INDIRECTION_TABLE_ENTRIES : Z := 128.

(** linux/ethtool.h: hash fields, flow types, hash functions and commands. *)
Definition RXH_IP_SRC : Z := BIT 4.
Definition RXH_IP_DST : Z := BIT 5.
Definition RXH_L4_B_0_1 : Z := BIT 6.
Definition RXH_L4_B_2_3 : Z := BIT 7.
Definition TCP_V4_FLOW : Z := 0x01.
Definition UDP_V4_FLOW : Z := 0x02.
Definition SCTP_V4_FLOW : Z := 0x03.
Definition AH_ESP_V4_FLOW : Z := 0x04.
Definition TCP_V6_FLOW : Z := 0x05.
Definition UDP_V6_FLOW : Z := 0x06.
Definition SCTP_V6_FLOW : Z := 0x07.
Definition AH_ESP_V6_FLOW : Z := 0x08.
Definition AH_V4_FLOW : Z := 0x09.
Definition ESP_V4_FLOW : Z := 0x0a.
Definition AH_V6_FLOW : Z := 0x0b.
Definition ESP_V6_FLOW : Z := 0x0c.
Definition IP_USER_FLOW : Z := 0x0d.
Definition IPV4_FLOW : Z := 0x10.
Definition IPV6_FLOW : Z := 0x11.
Definition ETHER_FLOW : Z := 0x12.
Definition ETHTOOL_GRXFH : Z := 0x29.
Definition ETHTOOL_SRXFH : Z := 0x2a.
Definition ETHTOOL_GRXRINGS : Z := 0x2d.
Definition ETH_RSS_HASH_NO_CHANGE : Z := 0.
Definition ETH_RSS_HASH_TOP : Z := 1.
Definition EINVAL : Z := 22.
Definition EOPNOTSUPP : Z := 95.

(** [struct ethtool_rxnfc]: the members used. *)
Record ethtool_rxnfc := MkRxnfc { nfc_cmd : Z; flow_type : Z; nfc_data : Z }.

Definition L4_BOTH : Z := Z.lor RXH_L4_B_0_1 RXH_L4_B_2_3.
Definition IP_BOTH : Z := Z.lor RXH_IP_SRC RXH_IP_DST.

(** The fields hashed for a flow type, [None] for [-EINVAL]. *)
Definition rtl8125_get_rss_hash_opts (flags flow : Z) : option Z :=
  let udp4 := if has flags RTL_8125_RSS_FLAG_HASH_UDP_IPV4 then L4_BOTH else 0 in
  let udp6 := if has flags RTL_8125_RSS_FLAG_HASH_UDP_IPV6 then L4_BOTH else 0 in
  if flow =? TCP_V4_FLOW then Some (Z.lor (Z.lor (Z.lor 0 L4_BOTH) udp4) IP_BOTH)
  else if flow =? UDP_V4_FLOW then Some (Z.lor (Z.lor 0 udp4) IP_BOTH)
  else if flow =? IPV4_FLOW then Some (Z.lor 0 IP_BOTH)
  else if flow =? TCP_V6_FLOW then Some (Z.lor (Z.lor (Z.lor 0 L4_BOTH) udp6) IP_BOTH)
  else if flow =? UDP_V6_FLOW then Some (Z.lor (Z.lor 0 udp6) IP_BOTH)
  else if flow =? IPV6_FLOW then Some (Z.lor 0 IP_BOTH)
  else None.

Definition rxhash_on (h : hw_info) : bool := tst (netdev_rxhash h).

Definition rtl8125_rss_indir_tbl_entries (h : hw_info) : Z := HwSuppIndirTblEntries h.

Definition rtl8125_tot_rx_rings (h : hw_info) : Z := num_rx_rings h.

(** The answer of a get: the command with its data, and the return value. *)
Definition rtl8125_get_rxnfc (h : hw_info) (flags : Z) (c : ethtool_rxnfc) : ethtool_rxnfc * Z :=
  let with_data v := MkRxnfc (nfc_cmd c) (flow_type c) v in
  if negb (rxhash_on h) then (c, - EOPNOTSUPP)
  else if nfc_cmd c =? ETHTOOL_GRXRINGS then (with_data (rtl8125_tot_rx_rings h), 0)
  else if nfc_cmd c =? ETHTOOL_GRXFH then
    match rtl8125_get_rss_hash_opts flags (flow_type c) with
    | Some v => (with_data v, 0)
    | None => (with_data 0, - EINVAL)
    end
  else (c, - EOPNOTSUPP).

(** The packet types that are always hashed. *)
Definition rss_ctrl_base : Z :=
  Z.lor RSS_CTRL_TCP_IPV4_SUPP (Z.lor RSS_CTRL_IPV4_SUPP (Z.lor RSS_CTRL_IPV6_SUPP
    (Z.lor RSS_CTRL_IPV6_EXT_SUPP (Z.lor RSS_CTRL_TCP_IPV6_SUPP RSS_CTRL_TCP_IPV6_EXT_SUPP)))).

(** The two [if (rss_flags & ...) rss_ctrl |= ...]. *)
Definition rss_ctrl_udp (flags ctrl : Z) : Z :=
  let ctrl := if has flags RTL_8125_RSS_FLAG_HASH_UDP_IPV4
              then Z.lor ctrl RSS_CTRL_UDP_IPV4_SUPP else ctrl in
  if has flags RTL_8125_RSS_FLAG_HASH_UDP_IPV6
  then Z.lor ctrl (Z.lor RSS_CTRL_UDP_IPV6_SUPP RSS_CTRL_UDP_IPV6_EXT_SUPP) else ctrl.

Definition ilog2 (n : Z) : Z := Z.log2 n.

(** [rss_flags] after an accepted set command: [None] for [-EINVAL]; for a
    flow type the controller does not hash, [Some None] when nothing is
    requested. *)
Definition rss_new_flags (flags : Z) (nfc : ethtool_rxnfc) : option (option Z) :=
  let d := nfc_data nfc in
  let udp flag :=
    if negb (has d RXH_IP_SRC) || negb (has d RXH_IP_DST) then None
    else if Z.land d L4_BOTH =? 0 then Some (Some (Z.land flags (Z.lnot flag)))
    else if Z.land d L4_BOTH =? L4_BOTH then Some (Some (Z.lor flags flag))
    else None in
  if tst (Z.land d (Z.lnot (Z.lor IP_BOTH L4_BOTH))) then None
  else if (flow_type nfc =? TCP_V4_FLOW) || (flow_type nfc =? TCP_V6_FLOW) then
    if negb (has d RXH_IP_SRC) || negb (has d RXH_IP_DST)
       || negb (has d RXH_L4_B_0_1) || negb (has d RXH_L4_B_2_3)
    then None else Some (Some flags)
  else if flow_type nfc =? UDP_V4_FLOW then udp RTL_8125_RSS_FLAG_HASH_UDP_IPV4
  else if flow_type nfc =? UDP_V6_FLOW then udp RTL_8125_RSS_FLAG_HASH_UDP_IPV6
  else if existsb (Z.eqb (flow_type nfc))
            [SCTP_V4_FLOW; AH_ESP_V4_FLOW; AH_V4_FLOW; ESP_V4_FLOW; SCTP_V6_FLOW;
             AH_ESP_V6_FLOW; AH_V6_FLOW; ESP_V6_FLOW; IP_USER_FLOW; ETHER_FLOW]
  then if tst d then None else Some None
  else None.

Section Rss.
Context {D : Type} `{HM : Mmio D}.
Abbreviation ST := (St (nic D)).

Definition _rtl8125_set_rss_hash_opt : ST unit :=
  h <- tp_get hw ;;
  flags <- tp_get (fun s => rss_flags s) ;;
  let rss_ctrl := Z.land (ilog2 (rtl8125_tot_rx_rings h)) 7 in
  let rss_ctrl := u32 (Z.shiftl rss_ctrl RSS_CPU_NUM_OFFSET) in
  let rss_ctrl := Z.lor rss_ctrl rss_ctrl_base in
  let rss_ctrl := rss_ctrl_udp flags rss_ctrl in
  let hash_mask_len := Z.land (ilog2 (rtl8125_rss_indir_tbl_entries h)) 7 in
  let rss_ctrl := Z.lor rss_ctrl (Z.shiftl hash_mask_len RSS_MASK_BITS_OFFSET) in
  RTL_W32 RSS_CTRL_8125 rss_ctrl.

Definition set_rss_flags v (s : nic D) := set_rss (MkRss v (rss_key s) (rss_indir_tbl s)) s.
Definition set_rss_key v (s : nic D) := set_rss (MkRss (rss_flags s) v (rss_indir_tbl s)) s.
Definition set_rss_indir_tbl v (s : nic D) := set_rss (MkRss (rss_flags s) (rss_key s) v) s.

Definition rtl8125_set_rss_hash_opt (nfc : ethtool_rxnfc) : ST Z :=
  flags <- tp_get (fun s => rss_flags s) ;;
  match rss_new_flags flags nfc with
  | None => sret (- EINVAL)
  | Some None => sret 0
  | Some (Some flags') =>
      if negb (flags' =? flags) then
        rss_ctrl <- RTL_R32 RSS_CTRL_8125 ;;
        smodify (set_rss_flags flags') ;;;
        let rss_ctrl := Z.lor rss_ctrl rss_ctrl_base in
        let rss_ctrl := Z.land rss_ctrl (Z.lnot (Z.lor RSS_CTRL_UDP_IPV4_SUPP
                          (Z.lor RSS_CTRL_UDP_IPV6_SUPP RSS_CTRL_UDP_IPV6_EXT_SUPP))) in
        RTL_W32 RSS_CTRL_8125 (rss_ctrl_udp flags' rss_ctrl) ;;;
        sret 0
      else sret 0
  end.

Definition rtl8125_set_rxnfc (c : ethtool_rxnfc) : ST Z :=
  h <- tp_get hw ;;
  if negb (rxhash_on h) then sret (- EOPNOTSUPP)
  else if nfc_cmd c =? ETHTOOL_SRXFH then rtl8125_set_rss_hash_opt c
  else sret (- EOPNOTSUPP).

Definition _rtl8125_get_rxfh_key_size : Z := RTL8125_RSS_KEY_SIZE.

Definition rtl8125_get_rxfh_key_size : ST Z :=
  h <- tp_get hw ;; sret (if negb (rxhash_on h) then 0 else _rtl8125_get_rxfh_key_size).

Definition rtl8125_rss_indir_size : ST Z :=
  h <- tp_get hw ;; sret (if negb (rxhash_on h) then 0 else rtl8125_rss_indir_tbl_entries h).

(** The first [reta_size] entries of the table. *)
Definition rtl8125_get_reta : ST (list Z) :=
  h <- tp_get hw ;;
  t <- tp_get (fun s => rss_indir_tbl s) ;;
  sret (take (Z.to_nat (rtl8125_rss_indir_tbl_entries h)) t).

Definition rtl8125_rss_key_reg : Z := RSS_KEY_8125.
Definition rtl8125_rss_indir_tbl_reg : Z := RSS_INDIRECTION_TBL_8125_V2.

(** The loop of [rtl8125_store_reta] over the entries from [i]. *)
Fixpoint store_reta_loop (entries : list Z) (i reg reta : Z) : ST unit :=
  match entries with
  | [] => sret tt
  | e :: entries' =>
      let reta := Z.lor reta (Z.shiftl e (Z.land i 3 * 8)) in
      if Z.land i 3 =? 3 then
        RTL_W32 reg reta ;;; store_reta_loop entries' (i + 1) (u16 (reg + 4)) 0
      else store_reta_loop entries' (i + 1) reg reta
  end.

Definition rtl8125_store_reta : ST unit :=
  entries <- rtl8125_get_reta ;;
  store_reta_loop entries 0 rtl8125_rss_indir_tbl_reg 0.

(** The key is read as little-endian words. *)
Definition rtl8125_store_rss_key : ST unit :=
  key <- tp_get (fun s => rss_key s) ;;
  sfor (seq 0 10) (fun k => RTL_W32 (rtl8125_rss_key_reg + 4 * Z.of_nat k) (le32_to_cpu key (4 * k))).

(** [struct ethtool_rxfh_param]: the members used. *)
Record ethtool_rxfh_param := MkRxfh { hfunc : Z; indir : option (list Z); key : option (list Z) }.

Definition rtl8125_get_rxfh (rxfh : ethtool_rxfh_param) : ST (ethtool_rxfh_param * Z) :=
  h <- tp_get hw ;;
  if negb (rxhash_on h) then sret (rxfh, - EOPNOTSUPP)
  else
    reta <- rtl8125_get_reta ;;
    k <- tp_get (fun s => rss_key s) ;;
    sret (MkRxfh ETH_RSS_HASH_TOP
            (match indir rxfh with
             | Some old => Some (reta ++ drop (length reta) old)
             | None => None
             end)
            (match key rxfh with
             | Some old => Some (take (Z.to_nat RTL8125_RSS_KEY_SIZE) k
                                 ++ drop (Z.to_nat RTL8125_RSS_KEY_SIZE) old)
             | None => None
             end), 0).

(** The first [n] values of the caller's table, as the table's bytes. *)
Definition fill_reta (n : nat) (tbl user : list Z) : list Z :=
  map u8 (take n user) ++ drop n tbl.

Definition rtl8125_set_rxfh (rxfh : ethtool_rxfh_param) : ST Z :=
  h <- tp_get hw ;;
  let n := Z.to_nat (rtl8125_rss_indir_tbl_entries h) in
  if negb (hfunc rxfh =? ETH_RSS_HASH_NO_CHANGE) && negb (hfunc rxfh =? ETH_RSS_HASH_TOP)
  then sret (- EOPNOTSUPP)
  else
    let bad := match indir rxfh with
               | Some user => existsb (fun e => e >=? num_rx_rings h) (take n user)
               | None => false
               end in
    if bad : bool then sret (- EINVAL)
    else
      match indir rxfh with
      | Some user => smodify (fun s : nic D => set_rss_indir_tbl (fill_reta n (rss_indir_tbl s) user) s)
      | None => sret tt
      end ;;;
      match key rxfh with
      | Some k => smodify (set_rss_key (take (Z.to_nat RTL8125_RSS_KEY_SIZE) k))
      | None => sret tt
      end ;;;
      rtl8125_store_reta ;;;
      rtl8125_store_rss_key ;;;
      sret 0.

Definition rtl8125_disable_rss : ST unit := RTL_W32 RSS_CTRL_8125 0.

Definition _rtl8125_config_rss : ST unit :=
  _rtl8125_set_rss_hash_opt ;;; rtl8125_store_reta ;;; rtl8125_store_rss_key.

Definition rtl8125_config_rss : ST unit :=
  h <- tp_get hw ;;
  if negb (tst (EnableRss h)) then rtl8125_disable_rss else _rtl8125_config_rss.

(** [ethtool_rxfh_indir_default]: queues in turn; [random_key] is what
    [netdev_rss_key_fill] writes. *)
Definition ethtool_rxfh_indir_default (i n : Z) : Z := i mod n.

Definition rtl8125_init_rss (random_key : list Z) : ST unit :=
  h <- tp_get hw ;;
  let n := Z.to_nat (rtl8125_rss_indir_tbl_entries h) in
  smodify (fun s : nic D => set_rss_indir_tbl
    (fill_reta n (rss_indir_tbl s)
       (map (fun i => ethtool_rxfh_indir_default (Z.of_nat i) (num_rx_rings h)) (seq 0 n))) s) ;;;
  smodify (set_rss_key random_key).

(** ** Hash of a received packet *)

Inductive pkt_hash_types := PKT_HASH_TYPE_L3 | PKT_HASH_TYPE_L4.

Definition RX_DESC_RING_TYPE_3 : Z := 3.
Definition RX_DESC_RING_TYPE_4 : Z := 4.

Definition RTL8125_RXS_RSS_L3_TYPE_MASK : Z := Z.lor (BIT 10) (BIT 12).
Definition RTL8125_RXS_RSS_L4_TYPE_MASK : Z := Z.lor (BIT 13) (BIT 9).
Definition RTL8125_RXS_RSS_L3_TYPE_MASK_V4 : Z := Z.lor (BIT 28) (BIT 29).
Definition RTL8125_RXS_RSS_L4_TYPE_MASK_V4 : Z := Z.lor (BIT 30) (BIT 27).

(** The descriptor's hash result and header information, as the integers the
    [le16_to_cpu] and [le32_to_cpu] conversions give. *)
Record rx_desc_rss := MkDescRss { RSSResult : Z; HeaderInfo : Z }.

Definition rtl8125_get_rx_desc_hash (h : hw_info) (d : rx_desc_rss) : Z :=
  if (InitRxDescType h =? RX_DESC_RING_TYPE_3) || (InitRxDescType h =? RX_DESC_RING_TYPE_4)
  then RSSResult d else 0.

(** The common body of the two versions, over their masks. *)
Definition rx_hash_with (l3 l4 : Z) (h : hw_info) (d : rx_desc_rss) : option (Z * pkt_hash_types) :=
  if negb (rxhash_on h) then None
  else if negb (has (HeaderInfo d) l3) then None
  else Some (rtl8125_get_rx_desc_hash h d, if has (HeaderInfo d) l4 then PKT_HASH_TYPE_L4 else PKT_HASH_TYPE_L3).

Definition rtl8125_rx_hash_v3 := rx_hash_with RTL8125_RXS_RSS_L3_TYPE_MASK RTL8125_RXS_RSS_L4_TYPE_MASK.
Definition rtl8125_rx_hash_v4 :=
  rx_hash_with RTL8125_RXS_RSS_L3_TYPE_MASK_V4 RTL8125_RXS_RSS_L4_TYPE_MASK_V4.

(** What [skb_set_hash] is called with, if it is. *)
Definition rtl8125_rx_hash (h : hw_info) (d : rx_desc_rss) : option (Z * pkt_hash_types) :=
  if InitRxDescType h =? RX_DESC_RING_TYPE_3 then rtl8125_rx_hash_v3 h d
  else if InitRxDescType h =? RX_DESC_RING_TYPE_4 then rtl8125_rx_hash_v4 h d
  else None.

End Rss.
