(* ===== verification/RtlRssSpec.v ===== *)
(** * r8125: what receive side scaling guarantees

    The hash options and the indirection table can be read back as they were
    set, a refused setting changes nothing, the table never names a receive
    ring that does not exist, and the registers of the controller get the table
    and the key as little-endian words. *)
From stdpp Require Import list.
From S2P Require Import Prelude RtlBase RtlHw RtlHwSpec RtlEri RtlToy RtlRss.
Local Open Scope Z_scope.
Local Open Scope rtl_scope.

(** ** Hash options *)

(** A mask with bits outside of [m] is refused; the others are known from four
    bits. *)
Lemma hash_mask_cases d :
  0 <= d -> Z.land d (Z.lnot (Z.lor IP_BOTH L4_BOTH)) = 0 ->
  d = Z.lor (Z.lor (if has d RXH_IP_SRC then RXH_IP_SRC else 0) (if has d RXH_IP_DST then RXH_IP_DST else 0))
        (Z.lor (if has d RXH_L4_B_0_1 then RXH_L4_B_0_1 else 0) (if has d RXH_L4_B_2_3 then RXH_L4_B_2_3 else 0)).
Proof.
  intros Hd H. apply Z.bits_inj'. intros i Hi.
  assert (Z.testbit d i = true -> i = 4 \/ i = 5 \/ i = 6 \/ i = 7) as Hb.
  { intros Hti. apply (f_equal (fun z => Z.testbit z i)) in H.
    rewrite Z.land_spec, Z.lnot_spec, Hti, Z.bits_0 in H by done. simpl in H. apply negb_false_iff in H.
    destruct (decide (i < 8)) as [|].
    - assert (i = 0 \/ i = 1 \/ i = 2 \/ i = 3 \/ i = 4 \/ i = 5 \/ i = 6 \/ i = 7) as Hc by lia.
      destruct Hc as [->|[->|[->|[->|?]]]]; try discriminate H; lia.
    - rewrite (testbit_high _ 8) in H by (try lia; done). done. }
  change RXH_IP_SRC with (2 ^ 4). change RXH_IP_DST with (2 ^ 5).
  change RXH_L4_B_0_1 with (2 ^ 6). change RXH_L4_B_2_3 with (2 ^ 7).
  rewrite !has_bit by lia.
  destruct (Z.testbit d i) eqn:Ei.
  - destruct (Hb eq_refl) as [->|[->|[->| ->]]]; rewrite Ei;
      repeat match goal with |- context [Z.testbit d ?j] => destruct (Z.testbit d j) end; done.
  - assert (forall j (b : bool), 0 <= j -> b = Z.testbit d j -> Z.testbit (if b then 2 ^ j else 0) i = false) as Hz.
    { intros j b Hj ->. destruct (Z.testbit d j) eqn:Ej; [|apply Z.bits_0].
      destruct (decide (i = j)) as [->|]; [congruence|]. apply Z.pow2_bits_false. lia. }
    rewrite !Z.lor_spec, !Hz; done.
Qed.

(** The flow types with options. *)
Definition hash_flow (f : Z) : Prop :=
  f = TCP_V4_FLOW \/ f = TCP_V6_FLOW \/ f = UDP_V4_FLOW \/ f = UDP_V6_FLOW.

Lemma has_clear flags i j : 0 <= i -> 0 <= j ->
  has (Z.land flags (Z.lnot (2 ^ i))) (2 ^ j) = has flags (2 ^ j) && negb (i =? j).
Proof. intros. rewrite !has_bit, Z.land_spec, Z.lnot_spec, Z.pow2_bits_eqb by done. done. Qed.

Lemma has_set flags i j : 0 <= i -> 0 <= j ->
  has (Z.lor flags (2 ^ i)) (2 ^ j) = has flags (2 ^ j) || (i =? j).
Proof. intros. rewrite !has_bit, Z.lor_spec, Z.pow2_bits_eqb by done. done. Qed.

(** What is read for every flow type once new flags are accepted. *)
Lemma new_flags_read flags nfc flags' f :
  0 <= nfc_data nfc -> hash_flow (flow_type nfc) -> rss_new_flags flags nfc = Some (Some flags') ->
  rtl8125_get_rss_hash_opts flags' f =
    if f =? flow_type nfc then Some (nfc_data nfc) else rtl8125_get_rss_hash_opts flags f.
Proof.
  intros Hd Hf H. unfold rss_new_flags in H.
  destruct (tst (Z.land _ (Z.lnot _))) eqn:E0; [done|]. apply tst_false in E0.
  apply hash_mask_cases in E0; [|done]. revert E0 H. set (d := nfc_data nfc).
  destruct (has d RXH_IP_SRC), (has d RXH_IP_DST), (has d RXH_L4_B_0_1), (has d RXH_L4_B_2_3);
    intros ->; unfold hash_flow in Hf; destruct nfc as [c fl dt]; simpl in *;
    destruct Hf as [->|[->|[->| ->]]]; simpl; try discriminate; intros [= <-];
    unfold rtl8125_get_rss_hash_opts;
    change RTL_8125_RSS_FLAG_HASH_UDP_IPV4 with (2 ^ 0); change RTL_8125_RSS_FLAG_HASH_UDP_IPV6 with (2 ^ 1);
    rewrite ?has_clear, ?has_set by lia; simpl; rewrite ?andb_true_r, ?andb_false_r, ?orb_true_r, ?orb_false_r;
    destruct (has flags (2 ^ 0)), (has flags (2 ^ 1));
    repeat match goal with |- context [f =? ?x] => destruct (Z.eqb_spec f x) as [->|]; [reflexivity|] end;
    reflexivity.
Qed.

(** ** Tables *)

Section Rss.
Context {D : Type} `{HM : Mmio D}.

(** The limits of the controllers: at most 16 receive rings, a table of whole
    words that fits the array of the driver. *)
Record rss_hw (h : hw_info) : Prop := {
  rh_rings : 0 < num_rx_rings h <= 16;
  rh_entries : 0 <= HwSuppIndirTblEntries h <= RTL8125_MAX_INDIRECTION_TABLE_ENTRIES;
  rh_words : exists q, HwSuppIndirTblEntries h = 4 * q
}.

Abbreviation entries s := (Z.to_nat (HwSuppIndirTblEntries (hw s))).

(** The arrays have their sizes, and the used entries name existing rings. *)
Record rss_ok (s : nic D) : Prop := {
  ro_tbl : length (rss_indir_tbl s) = Z.to_nat RTL8125_MAX_INDIRECTION_TABLE_ENTRIES;
  ro_key : length (rss_key s) = Z.to_nat RTL8125_RSS_KEY_SIZE;
  ro_rings : Forall (fun e => 0 <= e < num_rx_rings s) (take (entries s) (rss_indir_tbl s))
}.

(** The arrays a caller passes: as long as the sizes the driver reports. *)
Definition rxfh_ok (h : hw_info) (p : ethtool_rxfh_param) : Prop :=
  match indir p with
  | Some u => length u = Z.to_nat (HwSuppIndirTblEntries h) /\ Forall (fun e => 0 <= e < 2 ^ 32) u
  | None => True
  end /\
  match key p with Some k => length k = Z.to_nat RTL8125_RSS_KEY_SIZE | None => True end.

(** Consecutive 32-bit registers. *)
Fixpoint write_regs (reg : Z) (ws : list Z) (d : D) : D :=
  match ws with
  | [] => d
  | w :: ws' => write_regs (reg + 4) ws' (writel reg w d)
  end.

(** The little-endian words of bytes. *)
Definition words (n : nat) (b : list Z) : list Z := map (fun k => u32 (le32_to_cpu b (4 * k))) (seq 0 n).

Lemma words_cons n a b c d l :
  words (S n) (a :: b :: c :: d :: l) =
    u32 (Z.lor a (Z.lor (Z.shiftl b 8) (Z.lor (Z.shiftl c 16) (Z.shiftl d 24)))) :: words n l.
Proof.
  unfold words. cbn [seq map]. f_equal. rewrite <-seq_shift, map_map. apply map_ext. intros k.
  replace (4 * S k)%nat with (S (S (S (S (4 * k))))) by lia. done.
Qed.

Lemma run_w32 reg v (s : nic D) : RTL_W32 reg v s = (tt, set_dev (writel reg (u32 v) (dev s)) s).
Proof. done. Qed.

(** The packing loop writes the words of the table. *)
Lemma store_reta_loop_run n l i reg (s : nic D) :
  length l = (4 * n)%nat -> (exists q, i = 4 * q) -> 0 <= reg -> reg + 4 * Z.of_nat n <= 65536 ->
  store_reta_loop l i reg 0 s = (tt, set_dev (write_regs reg (words n l) (dev s)) s).
Proof.
  revert l i reg s. induction n as [|n IH]; intros l i reg s Hl [q ->] Hr Hr2.
  { destruct l; [|done]. by destruct s. }
  destruct l as [|a [|b [|c [|d l]]]]; try (simpl in Hl; lia).
  assert (forall r, 0 <= r < 4 -> Z.land (4 * q + r) 3 = r) as Hm.
  { intros r Hrr. change 3 with (Z.ones 2). rewrite Z.land_ones by lia.
    rewrite Z.add_comm, Z.mul_comm. change (2 ^ 2) with 4. rewrite Z_mod_plus_full. by apply Z.mod_small. }
  assert (Z.land (4 * q) 3 = 0) as Hm0 by (rewrite <-(Z.add_0_r (4 * q)); by apply Hm).
  cbn [store_reta_loop]. rewrite Hm0. replace (4 * q + 1 + 1) with (4 * q + 2) by lia.
  replace (4 * q + 2 + 1) with (4 * q + 3) by lia. rewrite !Hm by lia. cbn [Z.eqb Pos.eqb].
  unfold sbind at 1. rewrite run_w32. rewrite words_cons. cbn [write_regs].
  assert (Z.lor (Z.lor (Z.lor (Z.lor 0 (Z.shiftl a (0 * 8))) (Z.shiftl b (1 * 8))) (Z.shiftl c (2 * 8)))
            (Z.shiftl d (3 * 8)) = Z.lor a (Z.lor (Z.shiftl b 8) (Z.lor (Z.shiftl c 16) (Z.shiftl d 24)))) as ->.
  { rewrite Z.lor_0_l, Z.shiftl_0_r, <-!Z.lor_assoc. done. }
  destruct n as [|n].
  - destruct l; [|simpl in Hl; lia]. done.
  - unfold u16. rewrite wrap_small by lia. rewrite IH; [by destruct s|simpl in Hl; lia| |lia|lia].
    exists (q + 1). lia.
Qed.

Lemma store_reta_run (s : nic D) :
  rss_hw s -> rss_ok s ->
  rtl8125_store_reta s = (tt, set_dev (write_regs RSS_INDIRECTION_TBL_8125_V2
    (words (entries s / 4) (take (entries s) (rss_indir_tbl s))) (dev s)) s).
Proof.
  intros [_ He [q Hq]] [Ht _ _]. unfold RTL8125_MAX_INDIRECTION_TABLE_ENTRIES in *.
  assert (entries s = 4 * Z.to_nat q)%nat as Hn by lia.
  replace (entries s / 4)%nat with (Z.to_nat q) by (rewrite Hn, Nat.mul_comm, Nat.div_mul by lia; done).
  assert (rtl8125_store_reta s =
    store_reta_loop (take (entries s) (rss_indir_tbl s)) 0 RSS_INDIRECTION_TBL_8125_V2 0 s) as -> by reflexivity.
  apply store_reta_loop_run; [rewrite length_take; lia|by exists 0|done|].
  unfold RSS_INDIRECTION_TBL_8125_V2. lia.
Qed.

Lemma store_rss_key_run (s : nic D) :
  rtl8125_store_rss_key s = (tt, set_dev (write_regs RSS_KEY_8125 (words 10 (rss_key s)) (dev s)) s).
Proof. reflexivity. Qed.

(** *** Setting and reading the table and the key *)

(** What the driver keeps after an accepted setting. *)
Definition new_tbl (s : nic D) (p : ethtool_rxfh_param) : list Z :=
  match indir p with Some u => fill_reta (entries s) (rss_indir_tbl s) u | None => rss_indir_tbl s end.

Definition new_key (s : nic D) (p : ethtool_rxfh_param) : list Z :=
  match key p with Some k => take (Z.to_nat RTL8125_RSS_KEY_SIZE) k | None => rss_key s end.

(** The test for a ring that does not exist. *)
Definition bad_ring (h : hw_info) (p : ethtool_rxfh_param) : bool :=
  match indir p with
  | Some u => existsb (fun e => e >=? num_rx_rings h) (take (Z.to_nat (HwSuppIndirTblEntries h)) u)
  | None => false
  end.

Lemma run_two (m1 m2 : St (nic D) unit) (s : nic D) :
  (m1 ;;; m2 ;;; sret 0) s = (0, snd (m2 (snd (m1 s)))).
Proof. unfold sbind. destruct (m1 s) as [[] t]. simpl. by destruct (m2 t) as [[] u]. Qed.

Lemma set_rxfh_run p (s : nic D) :
  rtl8125_set_rxfh p s =
    if negb (hfunc p =? ETH_RSS_HASH_NO_CHANGE) && negb (hfunc p =? ETH_RSS_HASH_TOP) then (- EOPNOTSUPP, s)
    else if bad_ring s p then (- EINVAL, s)
    else let s1 := set_rss (MkRss (rss_flags s) (new_key s p) (new_tbl s p)) s in
         let s2 := snd (rtl8125_store_reta s1) in (0, snd (rtl8125_store_rss_key s2)).
Proof.
  unfold rtl8125_set_rxfh, new_tbl, new_key, bad_ring. unfold sbind at 1, tp_get, sgets.
  destruct (negb _ && negb _); [done|].
  destruct p as [hf [u|] [k|]]; cbn [indir key]; destruct s as [h ft o e f [fl ky tb] dr dv];
    try destruct (existsb _ _); try done;
    unfold sbind at 1 2; cbn [smodify sret]; (etransitivity; [apply run_two|reflexivity]).
Qed.

Lemma fill_reta_ok n tbl u r :
  length u = n -> (n <= length tbl)%nat -> 0 < r <= 16 ->
  Forall (fun e => 0 <= e < 2 ^ 32) u -> existsb (fun e => e >=? r) (take n u) = false ->
  length (fill_reta n tbl u) = length tbl /\ take n (fill_reta n tbl u) = u /\ Forall (fun e => 0 <= e < r) u.
Proof.
  intros Hl Hn Hr Hu Hb. unfold fill_reta. rewrite take_ge in * by lia.
  assert (Forall (fun e => 0 <= e < r) u) as HF.
  { apply Forall_forall. intros e He. rewrite Forall_forall in Hu. specialize (Hu e He).
    destruct (decide (e < r)); [lia|]. exfalso. apply not_true_iff_false in Hb. apply Hb.
    apply existsb_exists. exists e. split; [by apply list_elem_of_In|]. apply Z.geb_le. lia. }
  assert (map u8 u = u) as Hmap.
  { clear - HF Hr. induction HF as [|e u He HF IH]; simpl; [done|]. f_equal; [|done]. apply wrap_small. lia. }
  rewrite Hmap. split; [rewrite length_app, length_drop; lia|]. split; [|done].
  rewrite take_app_length'; [done|lia].
Qed.

(** The state between the checks and the registers. *)
Definition with_rxfh (s : nic D) (p : ethtool_rxfh_param) : nic D :=
  set_rss (MkRss (rss_flags s) (new_key s p) (new_tbl s p)) s.

Lemma with_rxfh_ok (s : nic D) p :
  rss_hw s -> rss_ok s -> rxfh_ok s p -> bad_ring s p = false ->
  rss_ok (with_rxfh s p) /\
  (forall u, indir p = Some u -> take (entries s) (new_tbl s p) = u) /\
  (forall k, key p = Some k -> new_key s p = k).
Proof.
  intros [Hr [He0 He] _] [Ht Hk Hf] [Hi Hky] Hb.
  unfold bad_ring in Hb. destruct p as [hf oi okey]; cbn [indir key] in *.
  assert (length (new_key s (MkRxfh hf oi okey)) = Z.to_nat RTL8125_RSS_KEY_SIZE /\
    (forall k, okey = Some k -> new_key s (MkRxfh hf oi okey) = k)) as [Hnk1 Hnk2].
  { unfold new_key; cbn [key]. destruct okey as [k|]; [|done]. rewrite take_ge by lia. split; [done|congruence]. }
  assert (length (new_tbl s (MkRxfh hf oi okey)) = length (rss_indir_tbl s) /\
    Forall (fun e => 0 <= e < num_rx_rings s) (take (entries s) (new_tbl s (MkRxfh hf oi okey))) /\
    (forall u, oi = Some u -> take (entries s) (new_tbl s (MkRxfh hf oi okey)) = u)) as (Hnt1 & Hnt2 & Hnt3).
  { unfold new_tbl; cbn [indir]. destruct oi as [u|]; [|done]. destruct Hi as [Hl Hu].
    destruct (fill_reta_ok (entries s) (rss_indir_tbl s) u (num_rx_rings s)) as (H1 & H2 & H3); auto; [|by rewrite H2; split_and!; [..|congruence]].
    rewrite Ht. unfold RTL8125_MAX_INDIRECTION_TABLE_ENTRIES in *. lia. }
  split; [|done]. split; [by rewrite <-Ht|done|done].
Qed.

Lemma set_rxfh_ok p (s : nic D) r s' :
  rss_hw s -> rss_ok s -> rxfh_ok s p -> rtl8125_set_rxfh p s = (r, s') ->
  (r <> 0 /\ s' = s) \/
  (r = 0 /\ bad_ring s p = false /\ rss_ok s' /\
   s' = set_dev (write_regs RSS_KEY_8125 (words 10 (new_key s p))
          (write_regs RSS_INDIRECTION_TBL_8125_V2 (words (entries s / 4) (take (entries s) (new_tbl s p))) (dev s)))
          (with_rxfh s p)).
Proof.
  intros Hh Hs Hp. rewrite set_rxfh_run. destruct (negb _ && negb _); [intros [= <- <-]; by left|].
  destruct (bad_ring s p) eqn:Eb; [intros [= <- <-]; by left|].
  destruct (with_rxfh_ok s p Hh Hs Hp Eb) as [Hok _]. cbv zeta. fold (with_rxfh s p).
  rewrite store_reta_run by done. cbn [snd]. rewrite store_rss_key_run. cbn [snd].
  intros [= <- <-]. right. split; [done|]. split; [done|]. split; [|done].
  destruct Hok as [H1 H2 H3]. split; done.
Qed.

(** Settings one after the other. *)
Fixpoint set_rxfhs (l : list ethtool_rxfh_param) : St (nic D) (list Z) :=
  match l with
  | [] => sret []
  | p :: l' => r <- rtl8125_set_rxfh p ;; rs <- set_rxfhs l' ;; sret (r :: rs)
  end.

Lemma init_rss_ok rk (s : nic D) :
  rss_hw s -> length (rss_indir_tbl s) = Z.to_nat RTL8125_MAX_INDIRECTION_TABLE_ENTRIES ->
  length rk = Z.to_nat RTL8125_RSS_KEY_SIZE ->
  let s' := snd (rtl8125_init_rss rk s) in rss_ok s' /\ hw s' = hw s.
Proof.
  intros [Hr [He0 He] _] Ht Hk. set (n := entries s).
  set (u := map (fun i => ethtool_rxfh_indir_default (Z.of_nat i) (num_rx_rings s)) (seq 0 n)).
  assert (Forall (fun e => 0 <= e < num_rx_rings s) u) as HF.
  { apply Forall_forall. intros e Hin. apply list_elem_of_In, in_map_iff in Hin as (i & <- & _).
    apply Z.mod_pos_bound. lia. }
  assert (length u = n) as Hl by (unfold u; by rewrite length_map, length_seq).
  destruct (fill_reta_ok n (rss_indir_tbl s) u (num_rx_rings s)) as (H1 & H2 & H3).
  - done.
  - rewrite Ht. unfold n, RTL8125_MAX_INDIRECTION_TABLE_ENTRIES in *. lia.
  - done.
  - eapply Forall_impl; [exact HF|]. simpl. lia.
  - apply not_true_iff_false. intros Hb. apply existsb_exists in Hb as (e & Hin & Hge).
    rewrite take_ge in Hin by lia. apply list_elem_of_In in Hin. rewrite Forall_forall in HF.
    specialize (HF e Hin). apply Z.geb_le in Hge. lia.
  - split; [|done]. split; [exact (eq_trans H1 Ht)|exact Hk|].
    change (Forall (fun e => 0 <= e < num_rx_rings s) (take n (fill_reta n (rss_indir_tbl s) u))). by rewrite H2.
Qed.

Lemma set_rxfhs_ok l (s : nic D) :
  rss_hw s -> rss_ok s -> Forall (rxfh_ok s) l -> rss_ok (snd (set_rxfhs l s)) /\ hw (snd (set_rxfhs l s)) = hw s.
Proof.
  revert s. induction l as [|p l IH]; intros s Hh Hs Hl; simpl; [done|].
  apply Forall_cons in Hl as [Hp Hl]. unfold sbind.
  destruct (rtl8125_set_rxfh p s) as [r t] eqn:E.
  assert (rss_ok t /\ hw t = hw s) as [Ht Eh].
  { destruct (set_rxfh_ok p s r t Hh Hs Hp E) as [[_ ->]|(_ & _ & H1 & ->)]; done. }
  specialize (IH t). rewrite Eh in IH. specialize (IH Hh Ht Hl). revert IH.
  destruct (set_rxfhs l t) as [rs u]. exact id.
Qed.

(** C31: Received packets are always steered to a ring that exists.  From
    [rtl8125_init_rss] on, and whatever tables and keys are set with ethtool,
    accepted or refused, the table has its size and each of its used entries
    names one of the receive rings. *)
Theorem indirection_table_names_rings rk l (s : nic D) :
  rss_hw s -> length (rss_indir_tbl s) = Z.to_nat RTL8125_MAX_INDIRECTION_TABLE_ENTRIES ->
  length rk = Z.to_nat RTL8125_RSS_KEY_SIZE -> Forall (rxfh_ok s) l ->
  rss_ok (snd ((rtl8125_init_rss rk ;;; set_rxfhs l) s)).
Proof.
  intros Hh Ht Hk Hl. destruct (init_rss_ok rk s Hh Ht Hk) as [Hok Hhw]. unfold sbind.
  destruct (rtl8125_init_rss rk s) as [[] t]. simpl in *. rewrite <-Hhw in Hh, Hl.
  by destruct (set_rxfhs_ok l t Hh Hok Hl).
Qed.

(** C32: A setting of the indirection table and the hash key is refused and
    changes nothing, or it can be read back: [rtl8125_get_rxfh] returns the
    table and the key that were set (the old ones where none was given), and
    the registers of the controller were written with them as little-endian
    words, the table first. *)
Theorem rxfh_set_read_back p (s : nic D) r s' hf b1 b2 :
  rss_hw s -> rss_ok s -> rxfh_ok s p -> rxhash_on s = true ->
  length b1 = Z.to_nat (HwSuppIndirTblEntries s) -> length b2 = Z.to_nat RTL8125_RSS_KEY_SIZE ->
  rtl8125_set_rxfh p s = (r, s') ->
  (r <> 0 /\ s' = s) \/
  exists tbl k, r = 0 /\
    rtl8125_get_rxfh (MkRxfh hf (Some b1) (Some b2)) s' = (MkRxfh ETH_RSS_HASH_TOP (Some tbl) (Some k), 0, s') /\
    tbl = default (take (Z.to_nat (HwSuppIndirTblEntries s)) (rss_indir_tbl s)) (indir p) /\
    k = default (rss_key s) (key p) /\
    dev s' = write_regs RSS_KEY_8125 (words 10 k)
               (write_regs RSS_INDIRECTION_TBL_8125_V2 (words (Z.to_nat (HwSuppIndirTblEntries s) / 4) tbl) (dev s)).
Proof.
  intros Hh Hs Hp Hon Hb1 Hb2 E.
  destruct (set_rxfh_ok p s r s' Hh Hs Hp E) as [|(-> & Hb & Hok & ->)]; [by left|]. right.
  destruct (with_rxfh_ok s p Hh Hs Hp Hb) as ([H1 H2 H3] & Htbl & Hkey).
  exists (take (entries s) (new_tbl s p)), (new_key s p). split; [done|]. split; [|split; [|split; [|done]]].
  - unfold rtl8125_get_rxfh. unfold sbind at 1, tp_get, sgets. simpl in Hon |- *. rewrite Hon. simpl.
    unfold sbind, sret. simpl. unfold rtl8125_rss_indir_tbl_entries. simpl.
    simpl in H1, H2. destruct Hh as [_ [_ He] _]. unfold RTL8125_MAX_INDIRECTION_TABLE_ENTRIES in *.
    rewrite !drop_ge, !app_nil_r by (rewrite ?length_take; lia). rewrite (take_ge (new_key s p)) by lia. done.
  - destruct (indir p) as [u|] eqn:Ei; [by apply Htbl|]. unfold new_tbl. by rewrite Ei.
  - destruct (key p) as [k|] eqn:Ek; [by apply Hkey|]. unfold new_key. by rewrite Ek.
Qed.

(** The hash options of a TCP or UDP flow type that [rtl8125_set_rxnfc]
    accepts are the ones [rtl8125_get_rxnfc] reports afterwards, and those of
    every other flow type are as they were. *)
Theorem hash_options_read_back c (s : nic D) s' f :
  rxhash_on s = true -> nfc_cmd c = ETHTOOL_SRXFH -> hash_flow (flow_type c) -> 0 <= nfc_data c ->
  rtl8125_set_rxnfc c s = (0, s') ->
  rtl8125_get_rxnfc s' (rss_flags s') (MkRxnfc ETHTOOL_GRXFH f 0) =
    if f =? flow_type c then (MkRxnfc ETHTOOL_GRXFH f (nfc_data c), 0)
    else rtl8125_get_rxnfc s (rss_flags s) (MkRxnfc ETHTOOL_GRXFH f 0).
Proof.
  intros Hon Hc Hf Hd E.
  assert (exists flags', rss_new_flags (rss_flags s) c = Some (Some flags') /\ rss_flags s' = flags' /\ hw s' = hw s)
    as (flags' & Hn & Hfl & Hhw).
  { unfold rtl8125_set_rxnfc in E. unfold sbind at 1, tp_get, sgets in E. rewrite Hon, Hc in E. simpl in E.
    unfold rtl8125_set_rss_hash_opt in E. unfold sbind at 1, tp_get, sgets in E.
    destruct (rss_new_flags (rss_flags s) c) as [[flags'|]|] eqn:En; [|exfalso|done].
    - exists flags'. split; [done|]. destruct (Z.eqb_spec flags' (rss_flags s)) as [->|]; simpl in E.
      + by injection E as <-.
      + unfold sbind, RTL_R32, on_dev in E. destruct (readl _ _) as [v d]. by injection E as <-.
    - unfold rss_new_flags in En. destruct (tst _); [done|]. destruct c as [cm fl dt]; simpl in *.
      destruct Hf as [->|[->|[->| ->]]]; simpl in En; repeat (case_match; try done). }
  unfold rtl8125_get_rxnfc. rewrite Hhw, Hon, Hfl. simpl.
  rewrite (new_flags_read _ _ _ f Hd Hf Hn). by destruct (f =? flow_type c).
Qed.
End Rss.

(** ** On a concrete controller *)

Definition toy_rss : nic toy_nic := set_rss (MkRss 0 (replicate 40 0) (replicate 128 0)) toy.

Definition toy_user : list Z := map (fun i => Z.of_nat i mod 3) (seq 0 128).
Definition toy_key : list Z := map Z.of_nat (seq 0 40).

Lemma toy_rss_hw : rss_hw toy_hw.
Proof. split; [done|done|]. by exists 32. Qed.

Lemma toy_rss_ok : rss_ok toy_rss.
Proof. split; [done|done|]. apply Forall_take, Forall_replicate. done. Qed.

Lemma toy_rxfh_ok hf : rxfh_ok toy_hw (MkRxfh hf (Some toy_user) (Some toy_key)).
Proof.
  split; [|done]. split; [done|]. apply Forall_forall. intros e He.
  apply list_elem_of_In, in_map_iff in He as (i & <- & _).
  pose proof (Z.mod_pos_bound (Z.of_nat i) 3). lia.
Qed.

Lemma indirection_table_names_rings_witness :
  rss_ok (snd ((rtl8125_init_rss toy_key ;;; set_rxfhs
    [MkRxfh 1 (Some toy_user) (Some toy_key); MkRxfh 2 None None; MkRxfh 0 (Some (replicate 128 9)) None]) toy_rss)).
Proof.
  apply indirection_table_names_rings; [exact toy_rss_hw|done|done|].
  apply Forall_cons; split; [exact (toy_rxfh_ok 1)|]. apply Forall_cons; split; [done|].
  apply Forall_cons; split; [|done]. split; [|done]. split; [done|]. by apply Forall_replicate.
Defined.

(** The setting is accepted, and the first table register holds its first four
    entries. *)
Lemma rxfh_set_read_back_witness :
  exists s', rtl8125_set_rxfh (MkRxfh 1 (Some toy_user) (Some toy_key)) toy_rss = (0, s') /\
    fst (fst (rtl8125_get_rxfh (MkRxfh 0 (Some (replicate 128 7)) (Some (replicate 40 7))) s')) =
      MkRxfh 1 (Some toy_user) (Some toy_key) /\
    toy_get RSS_INDIRECTION_TBL_8125_V2 (dev s') = 0x00020100.
Proof.
  exists (snd (rtl8125_set_rxfh (MkRxfh 1 (Some toy_user) (Some toy_key)) toy_rss)).
  assert (rtl8125_set_rxfh (MkRxfh 1 (Some toy_user) (Some toy_key)) toy_rss =
    (0, snd (rtl8125_set_rxfh (MkRxfh 1 (Some toy_user) (Some toy_key)) toy_rss))) as E
    by (vm_compute; reflexivity).
  split; [exact E|]. split; [|vm_compute; reflexivity].
  destruct (rxfh_set_read_back (MkRxfh 1 (Some toy_user) (Some toy_key)) toy_rss 0 _ 0
    (replicate 128 7) (replicate 40 7) toy_rss_hw toy_rss_ok (toy_rxfh_ok 1) eq_refl eq_refl eq_refl E)
    as [[H _]|(tbl & k & _ & Hg & Ht & Hk & _)]; [done|].
  rewrite Hg, Ht, Hk. reflexivity.
Defined.

(** Ports are added to the hash of UDP over IPv6; UDP over IPv4 is not affected. *)
Lemma hash_options_read_back_witness :
  exists s', rtl8125_set_rxnfc (MkRxnfc ETHTOOL_SRXFH UDP_V6_FLOW 0xf0) toy_rss = (0, s') /\
    rtl8125_get_rxnfc s' (rss_flags s') (MkRxnfc ETHTOOL_GRXFH UDP_V6_FLOW 0) =
      (MkRxnfc ETHTOOL_GRXFH UDP_V6_FLOW 0xf0, 0) /\
    rtl8125_get_rxnfc s' (rss_flags s') (MkRxnfc ETHTOOL_GRXFH UDP_V4_FLOW 0) =
      (MkRxnfc ETHTOOL_GRXFH UDP_V4_FLOW 0x30, 0).
Proof.
  destruct (rtl8125_set_rxnfc (MkRxnfc ETHTOOL_SRXFH UDP_V6_FLOW 0xf0) toy_rss) as [r s'] eqn:E. exists s'.
  assert (r = 0) as -> by (apply (f_equal fst) in E; vm_compute in E; by rewrite <-E).
  pose proof (fun f => hash_options_read_back (MkRxnfc ETHTOOL_SRXFH UDP_V6_FLOW 0xf0) toy_rss s' f
    eq_refl eq_refl ltac:(by do 3 right) ltac:(simpl; lia) E) as H.
  split; [done|]. split; [exact (H UDP_V6_FLOW)|exact (H UDP_V4_FLOW)].
Defined.
