(* ===== verification/RtlTx.v ===== *)
(** * r8125: the transmit ring

    src/.../realtek/r8125/r8125_n.c: [rtl8125_start_xmit] with the checksum and
    segmentation options it puts into a descriptor, [rtl8125_xmit_frags], the
    reclaiming of completed descriptors in both modes of the controller, and
    the clearing of the ring.

    A socket buffer is known by a number; the buffers handed back to the kernel
    ([dev_kfree_skb_any], [napi_consume_skb]) are recorded in order, so that a
    buffer freed twice is seen.  The state of the queue is one flag.  A call is
    atomic: the interleavings of the transmit path with the reclaiming one are
    sequences of calls.  CONFIG_R8125_VLAN, ENABLE_PTP_SUPPORT and
    ENABLE_MULTIPLE_TX_QUEUE are not defined in the Makefile. *)
From S2P Require Import Prelude RtlBase RtlHw.
Local Open Scope Z_scope.
Local Open Scope rtl_scope.

(** ** Data *)

Definition DescOwn : Z := BIT 31.
Definition RingEnd : Z := BIT 30.
Definition FirstFrag : Z := BIT 29.
Definition LastFrag : Z := BIT 28.
Definition GiantSendv4 : Z := BIT 26.
Definition GiantSendv6 : Z := BIT 25.
Definition GTTCPHO_SHIFT : Z := 18.
Definition GTTCPHO_MAX : Z := 0x70.
Definition TCPHO_SHIFT : Z := 18.
Definition TCPHO_MAX : Z := 0x3ff.
Definition MSS_MAX : Z := 0x7ff.
(** [tp->tx_tcp_csum_cmd] and the like, as [rtl8125_hw_config] sets them. *)
Definition TxUDPCS_C : Z := BIT 31.
Definition TxTCPCS_C : Z := BIT 30.
Definition TxIPCS_C : Z := BIT 29.
Definition TxIPV6F_C : Z := BIT 28.
Definition RTK_MAGIC_DEBUG_VALUE : Z := 0x0badbeef.
Definition RTL8125_MAGIC_NUMBER : Z := 0x0badbadbadbadbad.
Definition TPPOLL_8125 : Z := 0x90.
Definition MAX_SKB_FRAGS : Z := 17.
Definition ETH_FRAME_LEN : Z := 1514.
Definition ETH_ZLEN : Z := 60.
Definition MIN_PATCH_LEN : Z := 47.
Definition IPPROTO_TCP : Z := 6.
Definition IPPROTO_UDP : Z := 17.
Definition IPPROTO_RAW : Z := 255.

(** [struct TxDesc] and [struct ring_info]. *)
Record TxDesc := MkDesc { opts1 : Z; opts2 : Z; addr : Z }.

Record ring_info := MkInfo { skb : option Z; ilen : Z; bytecount : Z; gso_segs : Z }.

(** [struct rtl8125_tx_ring] *)
Record tx_ring := MkRing {
  index : Z;
  cur_tx : Z;
  dirty_tx : Z;
  num_tx_desc : Z;
  TxDescArray : list TxDesc;
  tx_skb : list ring_info;
  NextHwDesCloPtr : Z;
  BeginHwDesCloPtr : Z;
  hw_clo_ptr_reg : Z;
  sw_tail_ptr_reg : Z
}.

Definition set_cur_tx v r := MkRing (index r) v (dirty_tx r) (num_tx_desc r) (TxDescArray r) (tx_skb r)
  (NextHwDesCloPtr r) (BeginHwDesCloPtr r) (hw_clo_ptr_reg r) (sw_tail_ptr_reg r).
Definition set_dirty_tx v r := MkRing (index r) (cur_tx r) v (num_tx_desc r) (TxDescArray r) (tx_skb r)
  (NextHwDesCloPtr r) (BeginHwDesCloPtr r) (hw_clo_ptr_reg r) (sw_tail_ptr_reg r).
Definition set_descs v r := MkRing (index r) (cur_tx r) (dirty_tx r) (num_tx_desc r) v (tx_skb r)
  (NextHwDesCloPtr r) (BeginHwDesCloPtr r) (hw_clo_ptr_reg r) (sw_tail_ptr_reg r).
Definition set_infos v r := MkRing (index r) (cur_tx r) (dirty_tx r) (num_tx_desc r) (TxDescArray r) v
  (NextHwDesCloPtr r) (BeginHwDesCloPtr r) (hw_clo_ptr_reg r) (sw_tail_ptr_reg r).
Definition set_clo_ptrs nx bg r := MkRing (index r) (cur_tx r) (dirty_tx r) (num_tx_desc r)
  (TxDescArray r) (tx_skb r) nx bg (hw_clo_ptr_reg r) (sw_tail_ptr_reg r).

(** [clamp_t(u32, ring->tx_pending, MIN_NUM_TX_DESC, MAX_NUM_TX_DESC)] of
    [rtl8125_set_ringparam], the number of descriptors it sets. *)
Definition MIN_NUM_TX_DESC : Z := 256.
Definition MAX_NUM_TX_DESC : Z := 1024.

Definition new_tx_count (tx_pending : Z) : Z := Z.min (Z.max (u32 tx_pending) MIN_NUM_TX_DESC) MAX_NUM_TX_DESC.

(** The part of [rtl8125_init_ring] for the transmit ring [i], with
    [rtl8125_init_ring_indexes] and [rtl8125_tx_desc_init].  [tx_skb] has
    MAX_NUM_TX_DESC entries in the code; the model keeps the first
    [num_tx_desc], the others are never indexed. *)
Definition rtl8125_init_ring_indexes (i : Z) (r : tx_ring) : tx_ring :=
  MkRing i 0 0 (num_tx_desc r) (TxDescArray r) (tx_skb r) 0 0 (hw_clo_ptr_reg r) (sw_tail_ptr_reg r).

Definition rtl8125_tx_desc_init (r : tx_ring) : tx_ring :=
  let n := Z.to_nat (num_tx_desc r) in
  set_descs (<[(n - 1)%nat := MkDesc RingEnd 0 0]> (replicate n (MkDesc 0 0 0))) r.

Definition rtl8125_init_ring (i : Z) (r : tx_ring) : tx_ring :=
  let r := rtl8125_tx_desc_init (rtl8125_init_ring_indexes i r) in
  set_infos (replicate (Z.to_nat (num_tx_desc r)) (MkInfo None 0 0 0)) r.

(** The protocol of a buffer, [get_protocol]. *)
Inductive l3 := ETH_P_IP | ETH_P_IPV6 | ETH_P_OTHER.

(** What the driver reads of a [struct sk_buff]: its number, the length of the
    packet and of its linear part at [skb_data], the fragments (address and
    size), and the header fields of the offload code.  [pad_fails] and
    [cow_fails] say whether the allocation the kernel needs for padding, or for
    a private copy of the headers, fails; padding makes the buffer linear, with
    its data at [pad_data]. *)
Record sk_buff := MkSkb {
  skb_id : Z;
  skb_len : Z;
  skb_data : Z;
  skb_headlen : Z;
  frags : list (Z * Z);
  gso_size : Z;
  skb_gso_segs : Z;
  protocol : l3;
  transport_offset : Z;
  tcp_doff : Z;
  ip_summed_partial : bool;
  ip_protocol_field : Z;
  transport_header_was_set : bool;
  trans_offset_raw : Z;
  udp_dest_port : Z;
  pad_data : Z;
  pad_fails : bool;
  cow_fails : bool
}.

Definition padded_skb v k := MkSkb (skb_id k) v (pad_data k) v []
  (gso_size k) (skb_gso_segs k) (protocol k) (transport_offset k) (tcp_doff k) (ip_summed_partial k)
  (ip_protocol_field k) (transport_header_was_set k) (trans_offset_raw k) (udp_dest_port k)
  (pad_data k) (pad_fails k) (cow_fails k).

(** The settings of the device the transmit path reads. *)
Record tx_cfg := MkCfg {
  EnableTxNoClose : bool;
  HwSuppTxNoCloseVer : Z;
  MaxTxDescPtrMask : Z;
  RequireLSOPatch : bool;
  tx_mcfg : Z;
  UseSwPaddingShortPkt : bool;
  ShortPacketSwChecksum : bool;
  f_tso : bool;
  f_ip_csum : bool;
  f_ipv6_csum : bool;
  carrier_ok : bool
}.

(** The kernel's DMA mapping: an address of the bus, or an error. *)
Class Dma (D : Type) := {
  dma_map_single : Z -> Z -> D -> option Z * D;
  dma_unmap_single : Z -> Z -> D -> D
}.

(** The ring, the state of its queue, the statistics, the buffers handed back
    so far (latest first) and the controller. *)
Record txs (D : Type) := MkTxs {
  ring : tx_ring;
  stopped : bool;
  tx_dropped : Z;
  tx_packets : Z;
  tx_bytes : Z;
  freed : list Z;
  tdev : D
}.
Arguments MkTxs {D}.
Arguments ring {D}.
Arguments stopped {D}.
Arguments tx_dropped {D}.
Arguments tx_packets {D}.
Arguments tx_bytes {D}.
Arguments freed {D}.
Arguments tdev {D}.

(** ** Descriptor options *)

(** [rtl8125_get_txd_opts1] *)
Definition rtl8125_get_txd_opts1 (r : tx_ring) (opts1 len entry : Z) : Z :=
  let status := Z.lor opts1 len in
  if entry =? u32 (num_tx_desc r - 1) then Z.lor status RingEnd else status.

(** [rtl8125_tx_slots_avail] *)
Definition rtl8125_tx_slots_avail (r : tx_ring) : bool :=
  u32 (dirty_tx r + num_tx_desc r - cur_tx r) >? MAX_SKB_FRAGS.

Definition rtl8125_fast_mod_mask (input mask : Z) : Z :=
  if input >? mask then Z.land input mask else input.

Definition rtl8125_get_l4_protocol (k : sk_buff) : Z :=
  match protocol k with
  | ETH_P_IP | ETH_P_IPV6 => ip_protocol_field k
  | ETH_P_OTHER => IPPROTO_RAW
  end.

Definition rtl8125_require_pad_ptp_pkt (c : tx_cfg) : bool := (2 <=? tx_mcfg c) && (tx_mcfg c <=? 7).

Definition rtl8125_get_patch_pad_len (c : tx_cfg) (k : sk_buff) : Z :=
  let pkt_len := skb_len k in
  let finish pad_len := if u32 (pkt_len + pad_len) <? ETH_ZLEN then u32 (ETH_ZLEN - pkt_len) else pad_len in
  if negb (rtl8125_require_pad_ptp_pkt c) then 0
  else if negb (transport_header_was_set k && (pkt_len <? 175)) then 0
  else
    let ip_protocol := rtl8125_get_l4_protocol k in
    if negb ((ip_protocol =? IPPROTO_TCP) || (ip_protocol =? IPPROTO_UDP)) then 0
    else
      let trans_data_len := s32 (pkt_len - trans_offset_raw k) in
      if (ip_protocol =? IPPROTO_UDP) && (3 <? trans_data_len) && (trans_data_len <? MIN_PATCH_LEN)
         && ((udp_dest_port k =? 0x13f) || (udp_dest_port k =? 0x140))
      then finish (MIN_PATCH_LEN - trans_data_len)
      else
        let hdr_len := if ip_protocol =? IPPROTO_TCP then 20 else 8 in
        finish (if u32 trans_data_len <? hdr_len then u32 (hdr_len - trans_data_len) else 0).

(** The options and counts [rtl8125_tso_csum] leaves, with the padded buffer. *)
Record tso_out := MkTso { to_skb : sk_buff; to_opts0 : Z; to_opts1 : Z; to_bytes : Z; to_segs : Z }.

(** How [rtl8125_tso_csum] can fail: the buffer is still the driver's, or the
    kernel freed it when the padding failed ([skb_padto], [eth_skb_pad]). *)
Inductive tso_result := TsoOk (o : tso_out) | TsoFail | TsoFreed.

Definition tso_segment (k : sk_buff) (opts0 opts1 bytes : Z) : tso_result :=
  let giant flag :=
    if transport_offset k <=? GTTCPHO_MAX then
      TsoOk (MkTso k
        (Z.lor (Z.lor opts0 flag) (u32 (Z.shiftl (transport_offset k) GTTCPHO_SHIFT)))
        (Z.lor opts1 (u32 (Z.shiftl (Z.min (gso_size k) MSS_MAX) 18)))
        (u32 (bytes + (u16 (skb_gso_segs k) - 1) * u32 (tcp_doff k * 4 + transport_offset k)))
        (u16 (skb_gso_segs k)))
    else TsoFail in
  match protocol k with
  | ETH_P_IP => giant GiantSendv4
  | ETH_P_IPV6 => if cow_fails k then TsoFail else giant GiantSendv6
  | ETH_P_OTHER => TsoFail
  end.

(** [csum_cmd] and [ip_protocol] of a buffer that asks for a checksum. *)
Definition csum_command (c : tx_cfg) (k : sk_buff) : Z * Z :=
  let '(ip_protocol, cmd) :=
    match protocol k with
    | ETH_P_IP => if f_ip_csum c then (ip_protocol_field k, TxIPCS_C) else (IPPROTO_RAW, 0)
    | ETH_P_IPV6 =>
        if f_ipv6_csum c && (0 <? transport_offset k) && (transport_offset k <=? TCPHO_MAX)
        then (ip_protocol_field k,
              Z.lor TxIPV6F_C (u32 (Z.shiftl (transport_offset k) TCPHO_SHIFT)))
        else (IPPROTO_RAW, 0)
    | ETH_P_OTHER => (IPPROTO_RAW, 0)
    end in
  let cmd := if ip_protocol =? IPPROTO_TCP then Z.lor cmd TxTCPCS_C
             else if ip_protocol =? IPPROTO_UDP then Z.lor cmd TxUDPCS_C else cmd in
  (cmd, ip_protocol).

(** [rtl8125_skb_pad_with_len] and [rtl8125_skb_pad]. *)
Definition rtl8125_skb_pad_with_len (k : sk_buff) (len : Z) : option sk_buff :=
  if pad_fails k then None else Some (padded_skb len k).

Definition rtl8125_skb_pad (k : sk_buff) : option sk_buff :=
  if ETH_ZLEN <=? skb_len k then Some k else rtl8125_skb_pad_with_len k ETH_ZLEN.

Definition rtl8125_tso_csum (c : tx_cfg) (k : sk_buff) (opts0 opts1 bytes segs : Z) : tso_result :=
  if f_tso c && tst (gso_size k) then tso_segment k opts0 opts1 bytes
  else
    let '(csum_cmd, ip_protocol) :=
      if ip_summed_partial k then csum_command c k else (0, IPPROTO_RAW) in
    let sw0 := ip_summed_partial k && (csum_cmd =? 0) in
    let check_patch_required := negb (ip_summed_partial k && (ip_protocol =? IPPROTO_TCP)) in
    let pad_len := if check_patch_required then rtl8125_get_patch_pad_len c k else 0 in
    match (if pad_len >? 0 then rtl8125_skb_pad_with_len k (u32 (skb_len k + pad_len)) else Some k) with
    | None => TsoFreed
    | Some k1 =>
        let sw1 := sw0 || ((pad_len >? 0) && tst csum_cmd) in
        let short := (skb_len k1 <? ETH_ZLEN)
                     && (UseSwPaddingShortPkt c || (ShortPacketSwChecksum c && tst csum_cmd)) in
        match (if short then rtl8125_skb_pad k1 else Some k1) with
        | None => TsoFreed
        | Some k2 =>
            let sw2 := sw1 || (short && tst csum_cmd) in
            TsoOk (MkTso k2 opts0 (if sw2 : bool then opts1 else Z.lor opts1 csum_cmd) bytes segs)
        end
    end.

(** ** The ring operations *)

Section Tx.
Context {D : Type} `{HM : Mmio D} `{HD : Dma D}.
Variable cfg : tx_cfg.
Abbreviation TS := (St (txs D)).

Definition set_ring r (s : txs D) :=
  MkTxs r (stopped s) (tx_dropped s) (tx_packets s) (tx_bytes s) (freed s) (tdev s).
Definition set_stopped b (s : txs D) :=
  MkTxs (ring s) b (tx_dropped s) (tx_packets s) (tx_bytes s) (freed s) (tdev s).
Definition set_tdev (d : D) (s : txs D) :=
  MkTxs (ring s) (stopped s) (tx_dropped s) (tx_packets s) (tx_bytes s) (freed s) d.
Definition free_skb id (s : txs D) :=
  MkTxs (ring s) (stopped s) (tx_dropped s) (tx_packets s) (tx_bytes s) (id :: freed s) (tdev s).
Definition inc_dropped (s : txs D) :=
  MkTxs (ring s) (stopped s) (tx_dropped s + 1) (tx_packets s) (tx_bytes s) (freed s) (tdev s).
Definition add_sent pk by_ (s : txs D) :=
  MkTxs (ring s) (stopped s) (tx_dropped s) (tx_packets s + pk) (tx_bytes s + by_) (freed s) (tdev s).

Definition tx_get {A} (f : tx_ring -> A) : TS A := sgets (fun s => f (ring s)).
Definition tx_upd (f : tx_ring -> tx_ring) : TS unit := smodify (fun s => set_ring (f (ring s)) s).
Definition tx_w16 (reg v : Z) : TS unit := smodify (fun s => set_tdev (writew reg (u16 v) (tdev s)) s).
Definition tx_w32 (reg v : Z) : TS unit := smodify (fun s => set_tdev (writel reg (u32 v) (tdev s)) s).
Definition tx_r16 (reg : Z) : TS Z := fun s =>
  let '(v, d) := readw reg (tdev s) in (u16 v, set_tdev d s).
Definition tx_r32 (reg : Z) : TS Z := fun s =>
  let '(v, d) := readl reg (tdev s) in (u32 v, set_tdev d s).
Definition tx_map (a len : Z) : TS (option Z) := fun s =>
  let '(m, d) := dma_map_single a len (tdev s) in (m, set_tdev d s).

(** An entry of the arrays; a ring index is always reduced modulo the size. *)
Definition info_at (r : tx_ring) (entry : Z) : ring_info := nth (Z.to_nat entry) (tx_skb r) (MkInfo None 0 0 0).
Definition desc_at (r : tx_ring) (entry : Z) : TxDesc := nth (Z.to_nat entry) (TxDescArray r) (MkDesc 0 0 0).
Definition put_info (entry : Z) (i : ring_info) (r : tx_ring) : tx_ring :=
  set_infos (<[Z.to_nat entry := i]> (tx_skb r)) r.
Definition put_desc (entry : Z) (d : TxDesc) (r : tx_ring) : tx_ring :=
  set_descs (<[Z.to_nat entry := d]> (TxDescArray r)) r.

Definition with_len (i : ring_info) (l : Z) := MkInfo (skb i) l (bytecount i) (gso_segs i).
Definition without_skb (i : ring_info) := MkInfo None (ilen i) (bytecount i) (gso_segs i).

Definition rtl8125_get_hw_clo_ptr : TS Z :=
  reg <- tx_get hw_clo_ptr_reg ;;
  if HwSuppTxNoCloseVer cfg =? 3 then tx_r16 reg
  else if existsb (Z.eqb (HwSuppTxNoCloseVer cfg)) [4; 5; 6] then tx_r32 reg
  else sret 0.

Definition rtl8125_doorbell : TS unit :=
  r <- tx_get id ;;
  if EnableTxNoClose cfg then
    if HwSuppTxNoCloseVer cfg >? 3 then tx_w32 (sw_tail_ptr_reg r) (cur_tx r)
    else tx_w16 (sw_tail_ptr_reg r) (cur_tx r)
  else tx_w16 TPPOLL_8125 (BIT (index r)).

Definition rtl8125_unmap_tx_skb (entry : Z) : TS unit :=
  r <- tx_get id ;;
  smodify (fun s => set_tdev (dma_unmap_single (addr (desc_at r entry)) (ilen (info_at r entry)) (tdev s)) s) ;;;
  tx_upd (put_desc entry (MkDesc RTK_MAGIC_DEBUG_VALUE 0 RTL8125_MAGIC_NUMBER)) ;;;
  tx_upd (fun r => put_info entry (with_len (info_at r entry) 0) r).

(** [if (skb) { ... free; tx_skb->skb = NULL }] of both users. *)
Definition release_skb (entry : Z) (on_free : TS unit) : TS unit :=
  r <- tx_get id ;;
  match skb (info_at r entry) with
  | Some id =>
      on_free ;;;
      smodify (free_skb id) ;;;
      tx_upd (fun r => put_info entry (without_skb (info_at r entry)) r)
  | None => sret tt
  end.

Fixpoint tx_clear_loop (n : nat) (start : Z) : TS unit :=
  match n with
  | O => sret tt
  | S n' =>
      r <- tx_get id ;;
      let entry := u32 start mod num_tx_desc r in
      (if tst (ilen (info_at r entry))
       then rtl8125_unmap_tx_skb entry ;;; release_skb entry (smodify inc_dropped)
       else sret tt) ;;;
      tx_clear_loop n' (start + 1)
  end.

Definition rtl8125_tx_clear_range (start n : Z) : TS unit := tx_clear_loop (Z.to_nat n) start.

(** One ring; the loop over the rings is the caller's. *)
Definition rtl8125_tx_clear : TS unit :=
  r <- tx_get id ;;
  rtl8125_tx_clear_range (dirty_tx r) (num_tx_desc r) ;;;
  tx_upd (fun r => set_cur_tx 0 (set_dirty_tx 0 r)).

(** Map one fragment and fill its descriptor: [false] when the mapping failed. *)
Definition put_frag (opts0 opts1 a len entry : Z) (last : bool) : TS bool :=
  m <- tx_map a len ;;
  match m with
  | None => sret false
  | Some mapping =>
      r <- tx_get id ;;
      let status := rtl8125_get_txd_opts1 r opts0 len entry in
      let status := if last : bool then Z.lor status LastFrag else status in
      tx_upd (fun r => put_info entry (with_len (info_at r entry) len) r) ;;;
      tx_upd (put_desc entry (MkDesc status opts1 mapping)) ;;;
      sret true
  end.

(** The error exit of the loop: what was filled so far is cleared again. *)
Definition xmit_frags_err (cur_frag : Z) : TS (option Z) :=
  cur <- tx_get cur_tx ;;
  rtl8125_tx_clear_range (u32 (cur + 1)) cur_frag ;;;
  sret None.

(** The loop over the fragments from [cur_frag]; [nr] is their number. *)
Fixpoint xmit_frags_loop (fl : list (Z * Z)) (nr cur_frag entry pkt_len opts0 opts1 : Z) : TS (option Z) :=
  match fl with
  | [] => sret (Some cur_frag)
  | (a, len) :: fl' =>
      r <- tx_get id ;;
      let entry := u32 (entry + 1) mod num_tx_desc r in
      if RequireLSOPatch cfg && (cur_frag =? nr - 1) && has opts0 (Z.lor GiantSendv4 GiantSendv6)
         && (pkt_len <? ETH_FRAME_LEN) && (len >? 1)
      then
        ok <- put_frag opts0 opts1 a (len - 1) entry false ;;
        if negb ok then xmit_frags_err cur_frag
        else
          let entry := u32 (entry + 1) mod num_tx_desc r in
          let cur_frag := cur_frag + 1 in
          ok <- put_frag opts0 opts1 (a + (len - 1)) 1 entry true ;;
          if negb ok then xmit_frags_err cur_frag
          else xmit_frags_loop fl' nr (cur_frag + 1) entry (pkt_len + 1) opts0 opts1
      else
        ok <- put_frag opts0 opts1 a len entry (cur_frag =? nr - 1) ;;
        if negb ok then xmit_frags_err cur_frag
        else xmit_frags_loop fl' nr (cur_frag + 1) entry (pkt_len + len) opts0 opts1
  end.

(** The number of descriptors filled, [None] for [-EIO]. *)
Definition rtl8125_xmit_frags (k : sk_buff) (opts0 opts1 : Z) : TS (option Z) :=
  cur <- tx_get cur_tx ;;
  xmit_frags_loop (frags k) (Z.of_nat (length (frags k))) 0 cur 0 opts0 opts1.

Inductive netdev_tx_t := NETDEV_TX_OK | NETDEV_TX_BUSY.

(** The labels [err_dma_0] and [err_stop]. *)
Definition err_dma_0 (id : Z) : TS netdev_tx_t :=
  smodify inc_dropped ;;; smodify (free_skb id) ;;; sret NETDEV_TX_OK.

Definition err_stop : TS netdev_tx_t :=
  smodify (set_stopped true) ;;; smodify inc_dropped ;;; sret NETDEV_TX_BUSY.

(** The end of a transmission: publish the new index, stop the queue when the
    ring is nearly full, ring the doorbell. *)
Definition xmit_publish (frags : Z) (xmit_more : bool) : TS netdev_tx_t :=
  tx_upd (fun r => set_cur_tx (u32 (cur_tx r + frags + 1)) r) ;;;
  avail <- tx_get rtl8125_tx_slots_avail ;;
  let stop_queue := negb avail in
  swhen stop_queue (smodify (set_stopped true)) ;;;
  st <- sgets stopped ;;
  swhen (st || negb xmit_more) rtl8125_doorbell ;;;
  swhen stop_queue
    (avail <- tx_get rtl8125_tx_slots_avail ;; swhen avail (smodify (set_stopped false))) ;;;
  sret NETDEV_TX_OK.

(** From the mapping of the linear part on. *)
Definition xmit_head (o : tso_out) (entry nfrags : Z) (xmit_more : bool) : TS netdev_tx_t :=
  let k := to_skb o in
  r <- tx_get id ;;
  let '(len, opts0) :=
    if tst nfrags then (skb_headlen k, Z.lor (to_opts0 o) FirstFrag)
    else (skb_len k, Z.lor (to_opts0 o) (Z.lor FirstFrag LastFrag)) in
  let opts0 := rtl8125_get_txd_opts1 r opts0 len entry in
  m <- tx_map (skb_data k) len ;;
  match m with
  | None =>
      cur <- tx_get cur_tx ;;
      rtl8125_tx_clear_range (u32 (cur + 1)) nfrags ;;;
      err_dma_0 (skb_id k)
  | Some mapping =>
      tx_upd (fun r => put_info entry (with_len (info_at r entry) len) r) ;;;
      let last_entry := u32 (entry + nfrags) mod num_tx_desc r in
      tx_upd (fun r => put_info last_entry
        (MkInfo (Some (skb_id k)) (ilen (info_at r last_entry)) (to_bytes o) (to_segs o)) r) ;;;
      tx_upd (put_desc entry (MkDesc opts0 (to_opts1 o) mapping)) ;;;
      xmit_publish nfrags xmit_more
  end.

Definition rtl8125_start_xmit (k : sk_buff) (xmit_more : bool) : TS netdev_tx_t :=
  r <- tx_get id ;;
  if negb (rtl8125_tx_slots_avail r) then err_stop
  else
    let entry := cur_tx r mod num_tx_desc r in
    if negb (EnableTxNoClose cfg) && has (opts1 (desc_at r entry)) DescOwn then err_stop
    else
      match rtl8125_tso_csum cfg k DescOwn 0 (skb_len k) 1 with
      | TsoFail => err_dma_0 (skb_id k)
      | TsoFreed => smodify (free_skb (skb_id k)) ;;; err_dma_0 (skb_id k)
      | TsoOk o =>
          f <- rtl8125_xmit_frags (to_skb o) (to_opts0 o) (to_opts1 o) ;;
          match f with
          | None => err_dma_0 (skb_id k)
          | Some nfrags => xmit_head o entry nfrags xmit_more
          end
      end.

(** ** Reclaiming *)

(** The bytes and packets of a released entry. *)
Definition entry_sent (r : tx_ring) (entry : Z) : Z * Z :=
  match skb (info_at r entry) with
  | Some _ => (bytecount (info_at r entry), gso_segs (info_at r entry))
  | None => (0, 0)
  end.

(** One entry: unmap, count, release. *)
Definition reclaim_entry (entry : Z) : TS (Z * Z) :=
  rtl8125_unmap_tx_skb entry ;;;
  r <- tx_get id ;;
  release_skb entry (sret tt) ;;;
  sret (entry_sent r entry).

(** The [while (tx_left > 0)] loop; [check_own] is the test of the descriptor
    in the close mode.  The result has [dirty_tx] and the two totals. *)
Fixpoint reclaim_loop (tx_left : nat) (check_own : bool) (dirty bytes packets : Z) : TS (Z * Z * Z) :=
  match tx_left with
  | O => sret (dirty, bytes, packets)
  | S n =>
      r <- tx_get id ;;
      let entry := dirty mod num_tx_desc r in
      if check_own && has (opts1 (desc_at r entry)) DescOwn then sret (dirty, bytes, packets)
      else
        c <- reclaim_entry entry ;;
        reclaim_loop n check_own (u32 (dirty + 1)) (u32 (bytes + fst c)) (u32 (packets + snd c))
  end.

(** The common end: statistics, the new index, waking the queue.  The result
    is the number of entries reclaimed. *)
Definition reclaim_finish (dirty bytes packets : Z) : TS Z :=
  swhen (tst packets) (smodify (add_sent packets bytes)) ;;;
  old <- tx_get dirty_tx ;;
  if negb (old =? dirty) then
    tx_upd (set_dirty_tx dirty) ;;;
    st <- sgets stopped ;;
    avail <- tx_get rtl8125_tx_slots_avail ;;
    swhen (st && avail && carrier_ok cfg) (smodify (set_stopped false)) ;;;
    sret (u32 (dirty - old))
  else sret 0.

Definition rtl8125_tx_interrupt_noclose : TS Z :=
  dirty <- tx_get dirty_tx ;;
  nx <- rtl8125_get_hw_clo_ptr ;;
  r <- tx_get id ;;
  let closed := rtl8125_fast_mod_mask (u32 (nx - BeginHwDesCloPtr r)) (MaxTxDescPtrMask cfg) in
  let tx_left := Z.min (u32 (cur_tx r - dirty)) closed in
  tx_upd (set_clo_ptrs nx (u32 (BeginHwDesCloPtr r + tx_left))) ;;;
  t <- reclaim_loop (Z.to_nat tx_left) false dirty 0 0 ;;
  let '(dirty, bytes, packets) := t in
  reclaim_finish dirty bytes packets.

Definition rtl8125_tx_interrupt_close : TS Z :=
  dirty <- tx_get dirty_tx ;;
  cur <- tx_get cur_tx ;;
  t <- reclaim_loop (Z.to_nat (u32 (cur - dirty))) true dirty 0 0 ;;
  let '(dirty', bytes, packets) := t in
  count <- reclaim_finish dirty' bytes packets ;;
  cur <- tx_get cur_tx ;;
  swhen (negb (dirty =? dirty') && negb (cur =? dirty')) rtl8125_doorbell ;;;
  sret count.

Definition rtl8125_tx_interrupt : TS Z :=
  if EnableTxNoClose cfg then rtl8125_tx_interrupt_noclose else rtl8125_tx_interrupt_close.

End Tx.
