(* ===== verification/RtlTxSpec.v ===== *)
(** * r8125: what the transmit ring guarantees

    The slots of the ring are addressed by their distance from [dirty_tx]: the
    first [cur_tx - dirty_tx] of them hold what was handed to the controller,
    all others are empty.  The file proves that every operation of RtlTx keeps
    the ring in this form, that no socket buffer is lost or handed back twice,
    that reclaiming stops where the controller stopped, and that a queue that
    is awake has room for a whole packet; it ends with the inputs for which the
    driver does not keep this, each evaluated on a concrete ring. *)
From stdpp Require Import list.
From S2P Require Import Prelude RtlBase RtlHw RtlTx.
Local Open Scope Z_scope.
Local Open Scope rtl_scope.

(** ** Slots of a ring *)

Definition no_info : ring_info := MkInfo None 0 0 0.

Definition info_of (l : list ring_info) (i : Z) : ring_info := nth (Z.to_nat i) l no_info.

(** The slot at distance [p] from [d] in a ring of [n]. *)
Definition slot (n d p : Z) : Z := (d + p) mod n.

(** The sizes for which the counters of the ring may wrap: divisors of 2^32. *)
Definition size_ok (n : Z) : Prop := 0 < n < 2 ^ 32 /\ (n | 2 ^ 32).

Lemma u32_mod n x : size_ok n -> u32 x mod n = x mod n.
Proof.
  intros [Hn [q Hq]]. unfold u32, wrap. rewrite Hq.
  rewrite (Z.mul_comm q n). rewrite Z.rem_mul_r by nia.
  rewrite Z.mul_comm, Z_mod_plus_full, Z.mod_mod by lia. done.
Qed.

Lemma u32_add x y : u32 (u32 x + y) = u32 (x + y).
Proof. unfold u32, wrap. by rewrite Zplus_mod_idemp_l. Qed.

Lemma u32_sub_r x y : u32 (x - u32 y) = u32 (x - y).
Proof. unfold u32, wrap. by rewrite Zminus_mod_idemp_r. Qed.

Lemma u32_sub_l x y : u32 (u32 x - y) = u32 (x - y).
Proof. unfold u32, wrap. by rewrite Zminus_mod_idemp_l. Qed.

Lemma u32_small x : 0 <= x < 2 ^ 32 -> u32 x = x.
Proof. apply wrap_small. Qed.

(** Moving a counter by a small amount moves the distance by as much. *)
Lemma u32_dist_add c d k :
  0 <= k -> u32 (c - d) + k < 2 ^ 32 -> u32 (u32 (c + k) - d) = u32 (c - d) + k.
Proof.
  intros. rewrite u32_sub_l. replace (c + k - d) with (c - d + k) by lia.
  rewrite <-u32_add. apply u32_small. pose proof (u32_range (c - d)). lia.
Qed.

Lemma u32_dist_sub c d k :
  0 <= k <= u32 (c - d) -> u32 (c - u32 (d + k)) = u32 (c - d) - k.
Proof.
  intros. rewrite u32_sub_r. replace (c - (d + k)) with (c - d + - k) by lia.
  rewrite <-u32_add. pose proof (u32_range (c - d)). apply u32_small. lia.
Qed.

Lemma slot_range n d p : 0 < n -> 0 <= slot n d p < n.
Proof. intros. by apply Z.mod_pos_bound. Qed.

Lemma slot_inj n d p q :
  0 < n -> 0 <= p < n -> 0 <= q < n -> slot n d p = slot n d q -> p = q.
Proof.
  unfold slot. intros Hn Hp Hq E.
  assert (((d + p) - (d + q)) mod n = 0) as H0 by (rewrite Zminus_mod, E, Z.sub_diag; reflexivity).
  apply Z.mod_divide in H0; [|lia]. destruct H0 as [z Hz].
  assert (z = 0) as -> by nia. lia.
Qed.

Lemma slot_onto n d i : 0 <= i < n -> exists p, 0 <= p < n /\ slot n d p = i.
Proof.
  intros. exists ((i - d) mod n). split; [apply Z.mod_pos_bound; lia|].
  unfold slot. rewrite Zplus_mod_idemp_r. replace (d + (i - d)) with i by lia. by apply Z.mod_small.
Qed.

Lemma slot_u32 n d p : size_ok n -> u32 (d + p) mod n = slot n d p.
Proof. intros. by apply u32_mod. Qed.

(** A slot counted from a later one. *)
Lemma slot_shift n d k p : size_ok n -> slot n (u32 (d + k)) p = slot n d (k + p).
Proof.
  intros. unfold slot. rewrite Zplus_mod, u32_mod by done. rewrite <-Zplus_mod. f_equal. lia.
Qed.

Lemma slot_last n d : 0 < n -> slot n d n = slot n d 0.
Proof. intros. unfold slot. rewrite Z.add_0_r. replace (d + n) with (d + 1 * n) by lia. apply Z_mod_plus_full. Qed.

Lemma info_of_insert l i j x :
  0 <= i < Z.of_nat (length l) -> 0 <= j ->
  info_of (<[Z.to_nat i := x]> l) j = if i =? j then x else info_of l j.
Proof.
  intros Hi Hj. unfold info_of. rewrite !nth_lookup. destruct (Z.eqb_spec i j) as [->|].
  - by rewrite list_lookup_insert_eq by lia.
  - by rewrite list_lookup_insert_ne by lia.
Qed.

Lemma info_of_lookup l i : 0 <= i < Z.of_nat (length l) -> l !! Z.to_nat i = Some (info_of l i).
Proof.
  intros. unfold info_of. destruct (lookup_lt_is_Some_2 l (Z.to_nat i)) as [x Hx]; [lia|].
  by rewrite nth_lookup, Hx.
Qed.

(** ** The buffers in a ring *)

Definition held (l : list ring_info) : list Z := omap skb l.

Lemma held_insert l i x :
  0 <= i < Z.of_nat (length l) ->
  option_list (skb (info_of l i)) ++ held (<[Z.to_nat i := x]> l) ≡ₚ option_list (skb x) ++ held l.
Proof.
  intros Hi. pose proof (info_of_lookup l i Hi) as Hl. revert Hl.
  generalize (info_of l i) as y. generalize (Z.to_nat i) as n. clear Hi. unfold held.
  induction l as [|z l IH]; intros n y Hl; [done|]. destruct n as [|n]; simpl in *.
  - injection Hl as ->. destruct (skb x), (skb y); simpl; solve_Permutation.
  - specialize (IH n y Hl). destruct (skb z); simpl; [|done].
    rewrite <-!Permutation_middle. by constructor.
Qed.

Lemma held_insert_same l i x :
  0 <= i < Z.of_nat (length l) -> skb x = skb (info_of l i) -> held (<[Z.to_nat i := x]> l) ≡ₚ held l.
Proof. intros Hi E. pose proof (held_insert l i x Hi) as H. rewrite E in H. by apply Permutation_app_inv_l in H. Qed.

Lemma held_none l : (forall i, 0 <= i < Z.of_nat (length l) -> skb (info_of l i) = None) -> held l = [].
Proof.
  intros H. unfold held. assert (Forall (fun x => skb x = None) l) as HF.
  { apply Forall_lookup. intros n x Hx. pose proof (lookup_lt_Some _ _ _ Hx).
    specialize (H (Z.of_nat n)). rewrite <-H by lia. unfold info_of.
    rewrite Nat2Z.id, nth_lookup, Hx. done. }
  induction HF as [|x l Hx HF IH]; simpl; [done|]. rewrite Hx. apply IH.
  intros i Hi. specialize (H (i + 1)). unfold info_of in *.
  replace (Z.to_nat (i + 1)) with (S (Z.to_nat i)) in H by lia. apply H. simpl. lia.
Qed.

(** ** The form of a ring

    Of the [n] slots counted from [d], the first [w] are in use.  While a packet
    is being put in, the slots from [lo] to [hi] past the used ones are already
    filled, but hold no buffer yet; outside a call there are none of these. *)
Record wind (n d w lo hi : Z) (l : list ring_info) : Prop := {
  wi_size : size_ok n;
  wi_len : Z.of_nat (length l) = n;
  wi_skb : forall p, w <= p < n -> skb (info_of l (slot n d p)) = None;
  wi_free : forall p, w <= p < n -> ~ lo <= p < hi -> ilen (info_of l (slot n d p)) = 0;
  wi_fill : forall p, w <= p < n -> lo <= p < hi -> 0 < ilen (info_of l (slot n d p));
  wi_own : forall i, 0 <= i < n -> skb (info_of l i) <> None -> 0 < ilen (info_of l i)
}.

Section Wind.
Context (n d w lo hi : Z) (l : list ring_info).
Hypothesis Hw : wind n d w lo hi l.
Hypothesis Hw0 : 0 <= w.

Lemma wind_slot p : 0 <= slot n d p < Z.of_nat (length l).
Proof. rewrite (wi_len _ _ _ _ _ _ Hw). apply slot_range, (wi_size _ _ _ _ _ _ Hw). Qed.

Lemma info_of_slot p q x : 0 <= p < n -> 0 <= q < n ->
  info_of (<[Z.to_nat (slot n d q) := x]> l) (slot n d p) = if p =? q then x else info_of l (slot n d p).
Proof.
  intros Hp Hq. pose proof (wind_slot q). pose proof (wind_slot p).
  rewrite info_of_insert by lia. destruct (Z.eqb_spec p q) as [->|Hne].
  - by rewrite Z.eqb_refl.
  - destruct (Z.eqb_spec (slot n d q) (slot n d p)) as [E|]; [|done].
    apply slot_inj in E; [lia|apply (wi_size _ _ _ _ _ _ Hw)|done..].
Qed.

(** A slot beyond the used ones is filled, without a buffer. *)
Lemma wind_fill q lo' hi' x :
  w <= q < n -> skb x = None -> 0 < ilen x -> (forall p, lo' <= p < hi' <-> p = q \/ lo <= p < hi) ->
  wind n d w lo' hi' (<[Z.to_nat (slot n d q) := x]> l).
Proof.
  intros Hq Hs Hl Hb. pose proof Hw as [Hn Hlen Hskb Hfree Hfill Hown]. split.
  - done.
  - by rewrite length_insert.
  - intros p Hp. rewrite info_of_slot by lia. destruct (Z.eqb_spec p q); auto.
  - intros p Hp Ho. rewrite info_of_slot by lia.
    destruct (Z.eqb_spec p q) as [->|]; [exfalso; apply Ho, Hb; by left|]. apply Hfree; [done|].
    intros H. apply Ho, Hb. by right.
  - intros p Hp Hi. rewrite info_of_slot by lia. destruct (Z.eqb_spec p q); [done|].
    apply Hfill; [done|]. apply Hb in Hi as [?|]; [lia|done].
  - intros i Hi. pose proof (wind_slot q). rewrite info_of_insert by lia.
    destruct (_ =? i); [done|by apply Hown].
Qed.
End Wind.

(** The last filled slot gets the buffer: all of them are in use now. *)
Lemma wind_publish n d w hi l id b g :
  wind n d w w hi l -> 0 <= w < hi -> hi <= n ->
  wind n d hi hi hi (<[Z.to_nat (slot n d (hi - 1)) :=
    MkInfo (Some id) (ilen (info_of l (slot n d (hi - 1)))) b g]> l).
Proof.
  intros Hw Hh Hn. pose proof Hw as [Hs Hlen Hskb Hfree Hfill Hown]. split.
  - done.
  - by rewrite length_insert.
  - intros p Hp. rewrite (info_of_slot _ _ _ _ _ _ Hw) by lia.
    destruct (Z.eqb_spec p (hi - 1)); [lia|]. apply Hskb. lia.
  - intros p Hp ?. rewrite (info_of_slot _ _ _ _ _ _ Hw) by lia.
    destruct (Z.eqb_spec p (hi - 1)); [lia|]. apply Hfree; lia.
  - lia.
  - intros i Hi. pose proof (wind_slot _ _ _ _ _ _ Hw (hi - 1)). rewrite info_of_insert by lia.
    destruct (Z.eqb_spec (slot n d (hi - 1)) i); [|by apply Hown].
    intros _. simpl. apply Hfill; lia.
Qed.

(** The first used slot is emptied. *)
Lemma wind_reclaim n d w l b g :
  wind n d w w w l -> 0 < w <= n ->
  wind n (u32 (d + 1)) (w - 1) (w - 1) (w - 1) (<[Z.to_nat (slot n d 0) := MkInfo None 0 b g]> l).
Proof.
  intros Hw Hr. pose proof Hw as [Hs Hlen Hskb Hfree Hfill Hown].
  assert (forall p, w - 1 <= p < n ->
    let i := info_of (<[Z.to_nat (slot n d 0) := MkInfo None 0 b g]> l) (slot n (u32 (d + 1)) p) in
    skb i = None /\ ilen i = 0) as Hp.
  { intros p Hp. rewrite slot_shift by done. destruct (decide (p = n - 1)) as [->|].
    - replace (1 + (n - 1)) with n by lia. rewrite slot_last, (info_of_slot _ _ _ _ _ _ Hw) by lia. done.
    - rewrite (info_of_slot _ _ _ _ _ _ Hw) by lia. destruct (Z.eqb_spec (1 + p) 0); [lia|].
      split; [apply Hskb; lia|apply Hfree; lia]. }
  split.
  - done.
  - by rewrite length_insert.
  - intros p H. by apply Hp.
  - intros p H _. by apply Hp.
  - lia.
  - intros i Hi. pose proof (wind_slot _ _ _ _ _ _ Hw 0). rewrite info_of_insert by lia.
    destruct (_ =? i); [done|by apply Hown].
Qed.

(** [l'] is [l] with some slots emptied, the filled ones among them. *)
Definition emptied (l l' : list ring_info) : Prop :=
  length l' = length l /\
  forall i, 0 <= i < Z.of_nat (length l) ->
    info_of l' i = info_of l i \/ (skb (info_of l' i) = None /\ ilen (info_of l' i) = 0).

Lemma wind_emptied n d w lo hi l l' :
  wind n d w lo hi l -> emptied l l' ->
  (forall p, lo <= p < hi -> ilen (info_of l' (slot n d p)) = 0) -> wind n d w w w l'.
Proof.
  intros Hw [Hl He] Hc. pose proof Hw as [Hs Hlen Hskb Hfree Hfill Hown]. split.
  - done.
  - by rewrite Hl.
  - intros p Hp. destruct (He (slot n d p)) as [->|[? _]]; [apply (wind_slot _ _ _ _ _ _ Hw)|auto|done].
  - intros p Hp _. destruct (decide (lo <= p < hi)); [by apply Hc|].
    destruct (He (slot n d p)) as [->|[_ ?]]; [apply (wind_slot _ _ _ _ _ _ Hw)|by apply Hfree|done].
  - lia.
  - intros i Hi. destruct (He i) as [->|[-> _]]; [lia|by apply Hown|done].
Qed.

(** ** The operations on the ring *)

Section Ops.
Context {D : Type} `{HM : Mmio D} `{HD : Dma D}.
Variable cfg : tx_cfg.

(** The fields of a state the slots do not depend on are kept. *)
Definition frame (s s' : txs D) : Prop :=
  cur_tx (ring s') = cur_tx (ring s) /\ dirty_tx (ring s') = dirty_tx (ring s) /\
  num_tx_desc (ring s') = num_tx_desc (ring s) /\ stopped s' = stopped s.

Abbreviation infos s := (tx_skb (ring s)).

(** The buffers handed back, and those in the ring. *)
Definition stock (s : txs D) : list Z := freed s ++ held (infos s).

#[local] Instance frame_preorder : PreOrder frame.
Proof. split; [done|]. intros s t u (?&?&?&?) (?&?&?&?). repeat split; congruence. Qed.

Lemma without_skb_none i : skb i = None -> without_skb i = i.
Proof. destruct i; simpl. by intros ->. Qed.

(** Unmap an entry and release its buffer, the common step of clearing and of
    reclaiming. *)
Lemma swp_unmap_release e on_free (s : txs D) :
  0 <= e < Z.of_nat (length (infos s)) ->
  (forall t, swp on_free (fun _ t' => frame t t' /\ ring t' = ring t /\ freed t' = freed t) t) ->
  swp (rtl8125_unmap_tx_skb e ;;; release_skb e on_free)
    (fun _ s' => frame s s' /\
       infos s' = <[Z.to_nat e := MkInfo None 0 (bytecount (info_of (infos s) e))
                                   (gso_segs (info_of (infos s) e))]> (infos s) /\
       freed s' = option_list (skb (info_of (infos s) e)) ++ freed s /\
       TxDescArray (ring s') =
         <[Z.to_nat e := MkDesc RTK_MAGIC_DEBUG_VALUE 0 RTL8125_MAGIC_NUMBER]> (TxDescArray (ring s))) s.
Proof.
  intros He Hon. unfold rtl8125_unmap_tx_skb, tx_get, tx_upd. repeat swp_step.
  unfold release_skb, tx_get. repeat swp_step. simpl.
  change (info_at (ring s)) with (info_of (infos s)) in *.
  set (r1 := put_info _ _ _).
  assert (info_at r1 e = with_len (info_of (infos s) e) 0) as Hr1.
  { change (info_at r1 e) with (info_of (tx_skb r1) e). subst r1. simpl.
    rewrite info_of_insert, Z.eqb_refl by lia. done. }
  rewrite Hr1. simpl. destruct (skb (info_of (infos s) e)) as [id|] eqn:Es.
  - swp_step. eapply swp_mono; [|apply Hon]. intros [] t (Hf & Hr & Hfr). unfold tx_upd. repeat swp_step.
    simpl. rewrite Hr, Hfr. simpl. rewrite Hr1. split; [|split; [|done]].
    + destruct Hf as (_&_&_&Hs). split_and!; try done; rewrite Hs; done.
    + unfold r1. simpl. by rewrite list_insert_insert_eq.
  - swp_step. split; [done|]. split; [|done]. unfold r1. simpl.
    unfold with_len. do 2 f_equal. exact Es.
Qed.

Lemma emptied_refl l : emptied l l.
Proof. split; [done|]. by left. Qed.

Lemma emptied_trans l1 l2 l3 : emptied l1 l2 -> emptied l2 l3 -> emptied l1 l3.
Proof.
  intros [E1 H1] [E2 H2]. split; [congruence|]. intros i Hi.
  destruct (H2 i) as [->|?]; [by rewrite E1|by apply H1|by right].
Qed.

Lemma emptied_insert l e b g :
  0 <= e < Z.of_nat (length l) -> emptied l (<[Z.to_nat e := MkInfo None 0 b g]> l).
Proof.
  intros He. split; [by rewrite length_insert|]. intros i Hi. rewrite info_of_insert by lia.
  destruct (e =? i); [by right|by left].
Qed.

Lemma stock_release (s s' : txs D) e b g :
  0 <= e < Z.of_nat (length (infos s)) ->
  infos s' = <[Z.to_nat e := MkInfo None 0 b g]> (infos s) ->
  freed s' = option_list (skb (info_of (infos s) e)) ++ freed s -> stock s' ≡ₚ stock s.
Proof.
  intros He Hi Hf. unfold stock. rewrite Hi, Hf.
  pose proof (held_insert (infos s) e (MkInfo None 0 b g) He) as H. simpl in H. rewrite <-H.
  set (o := option_list _). rewrite !(app_assoc _ o), (Permutation_app_comm (freed s) o), <-!app_assoc. done.
Qed.

(** Clearing [n] slots from [start]. *)
Lemma swp_tx_clear_loop n start (s : txs D) :
  size_ok (num_tx_desc (ring s)) -> Z.of_nat (length (infos s)) = num_tx_desc (ring s) ->
  swp (tx_clear_loop n start)
    (fun _ s' => frame s s' /\ emptied (infos s) (infos s') /\ stock s' ≡ₚ stock s /\
       forall j, 0 <= j < Z.of_nat n -> ilen (info_of (infos s') (slot (num_tx_desc (ring s)) start j)) = 0) s.
Proof.
  revert start s. induction n as [|n IH]; intros start s Hn Hl; simpl.
  { swp_step. split; [reflexivity|]. split; [apply emptied_refl|]. split; [done|lia]. }
  unfold tx_get at 1. do 3 swp_step. change (id (ring s)) with (ring s).
  set (N := num_tx_desc (ring s)) in *. set (e := u32 start mod N).
  assert (0 <= e < N) as He by (apply Z.mod_pos_bound, Hn).
  assert (e = slot N start 0) as Ee by (unfold slot; rewrite Z.add_0_r; by apply u32_mod).
  assert (forall t : txs D, frame s t -> emptied (infos s) (infos t) -> stock t ≡ₚ stock s ->
    ilen (info_of (infos t) e) = 0 ->
    swp (tx_clear_loop n (start + 1)) (fun _ s' => frame s s' /\ emptied (infos s) (infos s') /\
       stock s' ≡ₚ stock s /\
       forall j, 0 <= j < Z.of_nat (S n) -> ilen (info_of (infos s') (slot N start j)) = 0) t) as Hnext.
  { intros t Hf Hem Hst H0. pose proof Hf as (_&_&HN&_). pose proof Hem as [Hlt _].
    eapply swp_mono; [|apply IH; [by rewrite HN|by rewrite HN, Hlt]].
    intros [] u (Hf' & Hem' & Hst' & Hz). rewrite HN in Hz. fold N in Hz.
    split; [by etransitivity|]. split; [by eapply emptied_trans|]. split; [by rewrite Hst'|].
    intros j Hj. destruct (decide (j = 0)) as [->|].
    - rewrite <-Ee. destruct Hem' as [_ Hem']. destruct (Hem' e) as [->|[_ ?]]; [rewrite Hlt; lia|done|done].
    - specialize (Hz (j - 1) ltac:(lia)). unfold slot in *. by replace (start + j) with (start + 1 + (j - 1)) by lia. }
  apply swp_if; intros Hlen.
  - eapply swp_mono; [|apply swp_unmap_release; [change (length _) with (length (infos s)); lia|done]].
    intros [] t (Hf & Hi & Hfr & _). apply Hnext; [done|..].
    + rewrite Hi. apply emptied_insert. lia.
    + eapply stock_release; [|done..]. lia.
    + rewrite Hi, info_of_insert, Z.eqb_refl by lia. done.
  - swp_step. apply Hnext; [reflexivity|apply emptied_refl|done|]. by apply tst_false in Hlen.
Qed.

(** ** Transmission *)

Abbreviation num s := (num_tx_desc (ring s)).
Abbreviation dirty s := (dirty_tx (ring s)).

(** The number of slots in use. *)
Definition used (s : txs D) : Z := u32 (cur_tx (ring s) - dirty_tx (ring s)).

Abbreviation filling lo hi s := (wind (num s) (dirty s) (used s) lo hi (infos s)).

Lemma frame_used (s s' : txs D) : frame s s' -> used s' = used s /\ num s' = num s /\ dirty s' = dirty s.
Proof. intros (Hc&Hd&Hn&_). unfold used. by rewrite Hc, Hd, Hn. Qed.

Lemma used_range s : 0 <= used s < 2 ^ 32.
Proof. apply u32_range. Qed.

Lemma slot_add n d p k : size_ok n -> u32 (slot n d p + k) mod n = slot n d (p + k).
Proof.
  intros. rewrite u32_mod by done. unfold slot. rewrite Zplus_mod_idemp_l. f_equal. lia.
Qed.

Lemma slot_used s k : size_ok (num s) -> u32 (cur_tx (ring s) + k) mod num s = slot (num s) (dirty s) (used s + k).
Proof.
  intros Hn. rewrite u32_mod by done. unfold slot, used.
  replace (dirty s + (u32 (cur_tx (ring s) - dirty s) + k))
    with (u32 (cur_tx (ring s) - dirty s) + (dirty s + k)) by lia.
  rewrite (Zplus_mod (u32 _)), u32_mod by done. rewrite <-Zplus_mod. f_equal. lia.
Qed.

Lemma slot_cur s : size_ok (num s) -> cur_tx (ring s) mod num s = slot (num s) (dirty s) (used s).
Proof.
  intros Hn. rewrite <-(u32_mod _ (cur_tx (ring s))) by done. rewrite <-(Z.add_0_r (cur_tx (ring s))) at 1.
  rewrite slot_used by done. f_equal. lia.
Qed.

Lemma swp_put_frag lo hi o0 o1 a len e last (s : txs D) :
  filling lo hi s -> used s <= lo <= hi -> hi < num s -> 0 < len -> e = slot (num s) (dirty s) hi ->
  swp (put_frag o0 o1 a len e last)
    (fun ok s' => frame s s' /\ stock s' ≡ₚ stock s /\
       if ok then filling lo (hi + 1) s' else filling lo hi s') s.
Proof.
  intros Hw Hr Hh Hl ->. pose proof (used_range s). unfold put_frag. swp_step.
  unfold tx_map. unfold swp at 1. destruct (dma_map_single a len (tdev s)) as [[m|] dv]; simpl.
  - unfold tx_get, tx_upd. repeat swp_step. simpl. set (e := slot _ _ _).
    pose proof (wind_slot _ _ _ _ _ _ Hw hi) as He. fold e in He. split; [done|]. split.
    + unfold stock. simpl. apply Permutation_app_head. by apply held_insert_same.
    + apply (wind_fill _ _ _ _ _ _ Hw); [lia|lia|apply (wi_skb _ _ _ _ _ _ Hw); lia|done|lia].
  - swp_step. done.
Qed.

(** The error exit clears the slots filled so far. *)
Lemma swp_clear_filled n (s : txs D) :
  0 <= n -> filling (used s + 1) (used s + 1 + n) s ->
  swp (rtl8125_tx_clear_range (u32 (cur_tx (ring s) + 1)) n)
    (fun _ s' => frame s s' /\ stock s' ≡ₚ stock s /\ filling (used s') (used s') s') s.
Proof.
  intros Hn0 Hw. pose proof Hw as [Hn Hl _ _ _ _]. unfold rtl8125_tx_clear_range.
  eapply swp_mono; [|by apply swp_tx_clear_loop]. intros [] s' (Hf & He & Hst & Hz).
  split; [done|]. split; [done|]. destruct (frame_used _ _ Hf) as (-> & -> & ->).
  eapply wind_emptied; [done|done|]. intros p Hp. specialize (Hz (p - (used s + 1)) ltac:(lia)).
  replace (slot (num s) (dirty s) p) with (slot (num s) (u32 (cur_tx (ring s) + 1)) (p - (used s + 1))); [done|].
  rewrite slot_shift by done. unfold slot at 1. rewrite <-(u32_mod _ (_ + _)) by done.
  rewrite slot_used by done. f_equal. lia.
Qed.

(** One descriptor more than fragments when the last fragment is split. *)
Definition extra : Z := if RequireLSOPatch cfg then 1 else 0.

Lemma swp_xmit_frags_err n (s : txs D) :
  0 <= n -> filling (used s + 1) (used s + 1 + n) s ->
  swp (xmit_frags_err n)
    (fun r s' => r = None /\ frame s s' /\ stock s' ≡ₚ stock s /\ filling (used s') (used s') s') s.
Proof.
  intros. unfold xmit_frags_err, tx_get. repeat swp_step.
  eapply swp_mono; [|by apply swp_clear_filled]. intros [] s' (?&?&?). swp_step. done.
Qed.

(** What the loop over the fragments leaves. *)
Definition frags_post (s : txs D) (r : option Z) (s' : txs D) : Prop :=
  frame s s' /\ stock s' ≡ₚ stock s /\
  match r with
  | Some k => 0 <= k /\ used s + 1 + k <= num s /\ filling (used s' + 1) (used s' + 1 + k) s'
  | None => filling (used s') (used s') s'
  end.

Lemma frags_post_err n (s t : txs D) :
  0 <= n -> frame s t -> stock t ≡ₚ stock s -> filling (used t + 1) (used t + 1 + n) t ->
  swp (xmit_frags_err n) (frags_post s) t.
Proof.
  intros Hn Hf Hst Hw. eapply swp_mono; [|by apply swp_xmit_frags_err].
  intros r u (-> & Hf' & Hst' & Hw'). split; [by etransitivity|]. split; [by rewrite Hst'|done].
Qed.

Lemma frags_post_trans (s t : txs D) r u :
  frame s t -> stock t ≡ₚ stock s -> frags_post t r u -> frags_post s r u.
Proof.
  intros Hf Hst (Hf' & Hst' & H). destruct (frame_used _ _ Hf) as (Hu & Hn & _). rewrite Hu, Hn in H.
  split; [by etransitivity|]. split; [by rewrite Hst'|done].
Qed.

(** One fragment: the rest runs with one slot more, or the error exit is taken. *)
Lemma swp_frag_then o0 o1 a len e last c k (s0 s : txs D) :
  frame s0 s -> stock s ≡ₚ stock s0 ->
  0 <= c -> 0 < len -> filling (used s + 1) (used s + 1 + c) s -> used s + 1 + c < num s ->
  e = slot (num s) (dirty s) (used s + 1 + c) ->
  (forall t, frame s0 t -> stock t ≡ₚ stock s0 -> filling (used t + 1) (used t + 1 + (c + 1)) t ->
     swp k (frags_post s0) t) ->
  swp (ok <- put_frag o0 o1 a len e last ;; if negb ok then xmit_frags_err c else k) (frags_post s0) s.
Proof.
  intros Hf0 Hst0 Hc Hl Hw Hsp He Hk. swp_step.
  eapply swp_mono; [|apply (swp_put_frag (used s + 1) (used s + 1 + c)); [done|lia|done..]].
  intros ok t (Hf & Hst & Ht). destruct (frame_used _ _ Hf) as (Hu & _ & _).
  destruct ok; simpl; rewrite <-Hu in Ht.
  - apply Hk; [by etransitivity|by rewrite Hst|]. by rewrite Z.add_assoc.
  - apply frags_post_err; [done|by etransitivity|by rewrite Hst|done].
Qed.

Lemma swp_xmit_frags_loop fl nr c e pl o0 o1 (s0 s : txs D) :
  frame s0 s -> stock s ≡ₚ stock s0 ->
  0 <= c -> nr = c + Z.of_nat (length fl) -> Forall (fun f => 0 < snd f) fl ->
  filling (used s + 1) (used s + 1 + c) s -> used s + 1 + nr + extra <= num s ->
  u32 (e + 1) mod num s = slot (num s) (dirty s) (used s + 1 + c) ->
  swp (xmit_frags_loop cfg fl nr c e pl o0 o1) (frags_post s0) s.
Proof.
  revert c e pl s. induction fl as [|[a len] fl IH]; intros c e pl s Hf0 Hst0 Hc Hnr Hfl Hw Hsp He; simpl.
  all: assert (0 <= extra) as Hx by (unfold extra; by destruct (RequireLSOPatch cfg)).
  { swp_step. simpl in Hnr. destruct (frame_used _ _ Hf0) as (Hu & Hn & _).
    split; [done|]. split; [done|]. rewrite <-Hu, <-Hn. split; [done|]. split; [lia|done]. }
  apply Forall_cons in Hfl as [Hlen Hfl]. simpl in Hlen. cbn [length] in Hnr.
  pose proof (wi_size _ _ _ _ _ _ Hw) as Hn. pose proof (used_range s) as Hu.
  unfold tx_get at 1. do 2 swp_step. change (id (ring s)) with (ring s). rewrite He.
  assert (forall t, frame s0 t -> num s = num t /\ dirty s = dirty t /\ used s = used t) as Hsame.
  { intros t Hf. destruct (frame_used _ _ Hf) as (?&?&?), (frame_used _ _ Hf0) as (?&?&?). split_and!; congruence. }
  apply swp_if; intros Hcond.
  - rewrite !andb_true_iff in Hcond. destruct Hcond as [[[[HR Hcf] _] _] Hl1].
    apply Z.eqb_eq in Hcf. apply Z.gtb_lt in Hl1.
    assert (extra = 1) as Hx1 by (unfold extra; by rewrite HR). assert (fl = []) as -> by (destruct fl; [done|simpl in *; lia]).
    apply swp_frag_then; [done|done|done|lia|done|lia|done|]. intros t Hft Hstt Ht.
    destruct (Hsame t Hft) as (EN & Ed & Eu). rewrite slot_add, EN, Ed, Eu, <-Z.add_assoc by done.
    apply swp_frag_then; [done|done|lia|lia|done|lia|done|]. intros t' Hft' Hstt' Ht'. simpl. swp_step.
    destruct (Hsame t' Hft') as (EN' & Ed' & Eu'), (Hsame s Hf0) as (EN0 & _ & Eu0).
    destruct (frame_used _ _ Hf0) as (Hu0 & Hn0 & _). simpl in Hnr.
    split; [done|]. split; [done|]. rewrite <-Hu0, <-Hn0. split; [lia|]. split; [lia|done].
  - apply swp_frag_then; [done|done|done|done|done|lia|done|]. intros t Hft Hstt Ht.
    destruct (Hsame t Hft) as (EN & Ed & Eu).
    apply IH; [done|done|lia|lia|done|done|by rewrite <-EN, <-Eu|].
    rewrite <-EN, <-Ed, <-Eu, slot_add by done. f_equal. lia.
Qed.

(** *** The whole transmission *)

(** The counters fit their type, and the ring holds the largest packet. *)
Definition side_ok (s : txs D) : Prop := 0 <= dirty s < 2 ^ 32 /\ 18 <= num s.

(** Between calls no slot is half filled. *)
Definition ring_ok (s : txs D) : Prop :=
  filling (used s) (used s) s /\ used s <= num s /\ side_ok s.

(** A queue that is not stopped has room for one more packet. *)
Definition awake_ok (s : txs D) : Prop := stopped s = false -> rtl8125_tx_slots_avail (ring s) = true.

Lemma room_iff (s : txs D) : ring_ok s -> rtl8125_tx_slots_avail (ring s) = true <-> used s + 18 <= num s.
Proof.
  intros (Hw & Hu & _). pose proof (wi_size _ _ _ _ _ _ Hw) as [Hn _]. pose proof (used_range s) as Hr.
  unfold rtl8125_tx_slots_avail, MAX_SKB_FRAGS. rewrite Z.gtb_lt.
  replace (dirty s + num s - cur_tx (ring s)) with (num s - (cur_tx (ring s) - dirty s)) by lia.
  rewrite <-u32_sub_r. fold (used s). rewrite u32_small; lia.
Qed.

Lemma swp_doorbell (s : txs D) :
  swp (rtl8125_doorbell cfg)
    (fun _ s' => ring s' = ring s /\ stopped s' = stopped s /\ freed s' = freed s) s.
Proof.
  unfold rtl8125_doorbell, tx_get, tx_w16, tx_w32. repeat swp_step; done.
Qed.

Lemma ring_ok_ring (s s' : txs D) : ring s' = ring s -> ring_ok s -> ring_ok s'.
Proof. intros E. unfold ring_ok, used, side_ok. by rewrite E. Qed.

Lemma swp_xmit_publish k more (s : txs D) :
  0 <= k -> used s + k + 1 <= num s -> side_ok s ->
  wind (num s) (dirty s) (used s + k + 1) (used s + k + 1) (used s + k + 1) (infos s) ->
  swp (xmit_publish cfg k more)
    (fun r s' => r = NETDEV_TX_OK /\ ring_ok s' /\ stock s' = stock s /\ awake_ok s') s.
Proof.
  intros Hk Hfit Hd Hw. pose proof (wi_size _ _ _ _ _ _ Hw) as [Hn _]. pose proof (used_range s) as Hu.
  unfold xmit_publish, tx_upd. do 2 swp_step. set (s1 := set_ring _ _).
  assert (used s1 = used s + k + 1) as Hu1.
  { unfold used, s1. simpl. rewrite <-Z.add_assoc. rewrite u32_dist_add; [by rewrite Z.add_assoc|lia|].
    fold (used s). lia. }
  assert (ring_ok s1) as Hok by (unfold ring_ok; rewrite Hu1; done).
  assert (stock s1 = stock s) as Hst by done. clearbody s1. rewrite <-Hst. clear - Hok.
  assert (forall t : txs D, ring t = ring s1 -> freed t = freed s1 ->
    (rtl8125_tx_slots_avail (ring s1) = false -> stopped t = true) ->
    NETDEV_TX_OK = NETDEV_TX_OK /\ ring_ok t /\ stock t = stock s1 /\ awake_ok t) as Hend.
  { intros t Hr Hf Hst. split; [done|]. split; [by apply (ring_ok_ring s1)|]. unfold stock, awake_ok.
    rewrite Hr, Hf. split; [done|]. intros E. destruct (rtl8125_tx_slots_avail (ring s1)); [done|].
    by rewrite Hst in E. }
  unfold tx_get. do 3 swp_step. destruct (rtl8125_tx_slots_avail (ring s1)) eqn:Ea; simpl.
  all: repeat first
    [ swp_step; try discriminate
    | eapply swp_mono; [|apply swp_doorbell]; simpl; intros [] t (Hr&Hs&Hf); try rewrite Hr in * ].
  all: try congruence; apply Hend; simpl; congruence.
Qed.

(** A buffer the ring is made for: every part has a size, it fits into the slots
    an awake queue has, and the kernel can pad it. *)
Record skb_ok (k : sk_buff) : Prop := {
  so_len : 0 < skb_len k < 2 ^ 32;
  so_headlen : 0 < skb_headlen k;
  so_frags : Forall (fun f => 0 < snd f) (frags k);
  so_fit : Z.of_nat (length (frags k)) + extra <= MAX_SKB_FRAGS;
  so_pad : pad_fails k = false
}.

(** The padding of the short-packet patch is small and only for short packets. *)
Lemma patch_pad_len_bound k :
  0 <= skb_len k ->
  let p := rtl8125_get_patch_pad_len cfg k in 0 <= p <= 60 /\ (0 < p -> skb_len k + p < 235).
Proof.
  intros Hl. unfold rtl8125_get_patch_pad_len, ETH_ZLEN, MIN_PATCH_LEN.
  destruct (negb (rtl8125_require_pad_ptp_pkt cfg)); [simpl; lia|].
  destruct (transport_header_was_set k); [|simpl; lia].
  destruct (Z.ltb_spec (skb_len k) 175); [|simpl; lia]. simpl negb. cbv iota.
  destruct (negb _); [simpl; lia|]. set (t := s32 _).
  assert (- 2 ^ 31 <= t < 2 ^ 31) as Ht by (unfold t, s32; pose proof (wrap_range 32 (skb_len k - trans_offset_raw k + 2 ^ 31)); lia).
  assert (forall p, 0 <= p <= 60 ->
    let q := if u32 (skb_len k + p) <? 60 then u32 (60 - skb_len k) else p in
    0 <= q <= 60 /\ (0 < q -> skb_len k + q < 235)) as Hfin.
  { intros p Hp. rewrite (u32_small (skb_len k + p)) by lia. destruct (Z.ltb_spec (skb_len k + p) 60); simpl; [|lia].
    rewrite u32_small by lia. lia. }
  destruct (_ && _ && _ && _) eqn:E; apply Hfin; [rewrite !andb_true_iff, !Z.ltb_lt in E; lia|].
  set (h := if _ =? _ then 20 else 8). assert (h <= 20) by (unfold h; case_match; lia).
  destruct (Z.ltb_spec (u32 t) h); [|lia]. pose proof (u32_range t).
  assert (0 <= t) by (unfold u32, wrap in *; destruct (decide (0 <= t)); [done|];
    rewrite <-(Z_mod_plus_full t 1), Z.mod_small in * by lia; lia).
  rewrite (u32_small t) in * by lia. rewrite u32_small; lia.
Qed.

Lemma tso_csum_skb k o0 o1 b g :
  skb_ok k ->
  match rtl8125_tso_csum cfg k o0 o1 b g with
  | TsoOk o => skb_id (to_skb o) = skb_id k /\ 0 < skb_len (to_skb o) /\ 0 < skb_headlen (to_skb o) /\
      (frags (to_skb o) = frags k \/ frags (to_skb o) = [])
  | TsoFail => True
  | TsoFreed => False
  end.
Proof.
  intros [[Hl Hl2] Hh _ _ Hp]. unfold rtl8125_tso_csum. destruct (f_tso cfg && tst (gso_size k)).
  { unfold tso_segment. destruct (protocol k); [| |done].
    - destruct (_ <=? _); simpl; auto.
    - destruct (cow_fails k); [done|]. destruct (_ <=? _); simpl; auto. }
  destruct (if ip_summed_partial k then _ else _) as [cmd ipp].
  set (p := if negb _ then _ else 0).
  assert (0 < p -> skb_len k + p < 235) as Hb.
  { unfold p. destruct (negb _); [|lia]. apply patch_pad_len_bound. lia. }
  set (k1 := if p >? 0 then Some (padded_skb (u32 (skb_len k + p)) k) else Some k).
  assert ((if p >? 0 then rtl8125_skb_pad_with_len k (u32 (skb_len k + p)) else Some k) = k1) as ->.
  { unfold k1, rtl8125_skb_pad_with_len. by rewrite Hp. }
  assert (exists k', k1 = Some k' /\ pad_fails k' = false /\ skb_id k' = skb_id k /\ 0 < skb_len k' /\
    0 < skb_headlen k' /\ (frags k' = frags k \/ frags k' = [])) as (k' & -> & Hp' & Hi' & Hl' & Hh' & Hf').
  { unfold k1. destruct (p >? 0) eqn:Ep; [|eauto 10]. apply Z.gtb_lt in Ep. eexists. split; [done|].
    simpl. rewrite u32_small by lia. split_and!; auto; lia. }
  unfold rtl8125_skb_pad, rtl8125_skb_pad_with_len. rewrite Hp'.
  destruct (_ && (_ || _)); [|simpl; auto].
  destruct (ETH_ZLEN <=? skb_len k'); simpl; auto. unfold ETH_ZLEN. split_and!; auto; lia.
Qed.

Lemma wind_head n d w k l len id b g :
  wind n d w (w + 1) (w + 1 + k) l -> 0 <= w -> 0 <= k -> w + 1 + k <= n -> 0 < len ->
  let l1 := <[Z.to_nat (slot n d w) := with_len (info_of l (slot n d w)) len]> l in
  let l2 := <[Z.to_nat (slot n d (w + k)) := MkInfo (Some id) (ilen (info_of l1 (slot n d (w + k)))) b g]> l1 in
  wind n d (w + k + 1) (w + k + 1) (w + k + 1) l2 /\ held l2 ≡ₚ id :: held l.
Proof.
  intros Hw Hw0 Hk Hn Hl l1 l2.
  assert (wind n d w w (w + 1 + k) l1) as H1.
  { apply (wind_fill _ _ _ _ _ _ Hw); [done|lia|apply (wi_skb _ _ _ _ _ _ Hw); lia|done|lia]. }
  split.
  - pose proof (wind_publish n d w (w + 1 + k) l1 id b g H1) as H2.
    replace (w + 1 + k - 1) with (w + k) in H2 by lia. replace (w + k + 1) with (w + 1 + k) by lia.
    apply H2; lia.
  - pose proof (wind_slot _ _ _ _ _ _ H1 (w + k)) as Hs. pose proof (wind_slot _ _ _ _ _ _ Hw w) as Hs0.
    pose proof (held_insert l1 (slot n d (w + k)) (MkInfo (Some id) (ilen (info_of l1 (slot n d (w + k)))) b g) Hs) as H.
    rewrite (wi_skb _ _ _ _ _ _ H1) in H by lia. fold l2 in H. simpl in H.
    rewrite H. constructor. unfold l1. by apply held_insert_same.
Qed.

Lemma err_dma_0_post id (s0 s : txs D) :
  ring_ok s -> stock s ≡ₚ stock s0 -> stopped s = stopped s0 ->
  (awake_ok s0 -> rtl8125_tx_slots_avail (ring s) = rtl8125_tx_slots_avail (ring s0)) ->
  swp (err_dma_0 id)
    (fun r s' => r = NETDEV_TX_OK /\ ring_ok s' /\ stock s' ≡ₚ id :: stock s0 /\ (awake_ok s0 -> awake_ok s')) s.
Proof.
  intros Hok Hst Hs Ha. unfold err_dma_0. repeat swp_step. split; [done|]. split; [done|].
  split; [unfold stock in *; simpl; by rewrite Hst|]. intros H0. unfold awake_ok. simpl.
  rewrite Hs, (Ha H0). exact H0.
Qed.

Lemma frame_room (s s' : txs D) : frame s s' -> rtl8125_tx_slots_avail (ring s') = rtl8125_tx_slots_avail (ring s).
Proof. intros (Hc&Hd&Hn&_). unfold rtl8125_tx_slots_avail. by rewrite Hc, Hd, Hn. Qed.

Lemma swp_xmit_head o k more (s : txs D) :
  0 < skb_len (to_skb o) -> 0 < skb_headlen (to_skb o) ->
  0 <= k -> used s + 1 + k <= num s -> side_ok s -> filling (used s + 1) (used s + 1 + k) s ->
  swp (xmit_head cfg o (cur_tx (ring s) mod num s) k more)
    (fun r s' => r = NETDEV_TX_OK /\ ring_ok s' /\ stock s' ≡ₚ skb_id (to_skb o) :: stock s /\
       (awake_ok s -> awake_ok s')) s.
Proof.
  intros Hl Hh Hk Hfit Hd Hw. pose proof (wi_size _ _ _ _ _ _ Hw) as Hn. pose proof (used_range s) as Hu.
  unfold xmit_head. unfold tx_get at 1. do 2 swp_step. change (id (ring s)) with (ring s).
  set (p := if tst k then _ else _). assert (exists len o0, p = (len, o0) /\ 0 < len) as (len & o0 & -> & Hlen).
  { unfold p. destruct (tst k); eauto. }
  rewrite slot_cur, slot_add by done. swp_step. unfold tx_map. unfold swp at 1.
  destruct (dma_map_single _ len (tdev s)) as [[m|] dv]; simpl.
  - destruct (wind_head _ _ _ _ _ len (skb_id (to_skb o)) (to_bytes o) (to_segs o) Hw) as [Hw2 Hh2]; [lia..|].
    unfold tx_upd. do 6 swp_step. set (s1 := set_ring _ _).
    assert (stock s1 ≡ₚ skb_id (to_skb o) :: stock s) as Hst.
    { unfold stock. rewrite Permutation_middle. apply Permutation_app_head, Hh2. }
    eapply swp_mono; [|apply swp_xmit_publish; [done| |exact Hd|exact Hw2]].
    2: { change (used s1) with (used s). change (num s1) with (num s). lia. }
    intros r s' (-> & Hok & Hs' & Ha). rewrite Hs'. auto.
  - unfold tx_get. do 3 swp_step.
    eapply swp_mono; [|apply (swp_clear_filled k (set_tdev dv s)); [done|exact Hw]].
    intros [] t (Hf & Hst & Ht). pose proof Hf as (_&_&_&Hs).
    destruct (frame_used _ _ Hf) as (Hu' & Hn' & Hd').
    eapply swp_mono; [|apply (err_dma_0_post _ s)]; [by intros r s' (?&?&?&?); auto| |done|done|].
    + split; [done|]. unfold side_ok. rewrite Hu', Hn', Hd'. split; [change (used s <= num s); lia|exact Hd].
    + intros _. by apply (frame_room (set_tdev dv s)).
Qed.

(** The contract of [rtl8125_start_xmit]. *)
Lemma swp_start_xmit k more (s : txs D) :
  skb_ok k -> ring_ok s ->
  swp (rtl8125_start_xmit cfg k more)
    (fun r s' => ring_ok s' /\
       stock s' ≡ₚ (match r with NETDEV_TX_OK => [skb_id k] | NETDEV_TX_BUSY => [] end) ++ stock s /\
       (awake_ok s -> awake_ok s' /\ (stopped s = false -> EnableTxNoClose cfg = true -> r = NETDEV_TX_OK)) /\
       (r = NETDEV_TX_BUSY -> ring s' = ring s /\ stopped s' = true)) s.
Proof.
  intros Hk (Hw & Hu & Hd). pose proof (used_range s). unfold rtl8125_start_xmit. unfold tx_get at 1. do 2 swp_step.
  change (id (ring s)) with (ring s). apply swp_if; intros Hroom.
  { apply negb_true_iff in Hroom. unfold err_stop. repeat swp_step. split; [done|]. split; [done|].
    split; [|done]. intros Ha. split; [done|]. intros Hs _. rewrite (Ha Hs) in Hroom. done. }
  apply negb_false_iff in Hroom. rewrite room_iff in Hroom by done. apply swp_if; intros Hown.
  { apply andb_true_iff in Hown as [Hc _]. unfold err_stop. repeat swp_step. split; [done|]. split; [done|].
    split; [|done]. intros Ha. split; [done|]. intros _ E. by rewrite E in Hc. }
  assert (forall (t : txs D) r, r = NETDEV_TX_OK /\ ring_ok t /\ stock t ≡ₚ skb_id k :: stock s /\
      (awake_ok s -> awake_ok t) ->
    ring_ok t /\ stock t ≡ₚ match r with NETDEV_TX_OK => [skb_id k] | NETDEV_TX_BUSY => [] end ++ stock s /\
    (awake_ok s -> awake_ok t /\ (stopped s = false -> EnableTxNoClose cfg = true -> r = NETDEV_TX_OK)) /\
    (r = NETDEV_TX_BUSY -> ring t = ring s /\ stopped t = true)) as Hend.
  { intros t r (-> & Hok & Hst & Ha). split; [done|]. split; [done|]. split; [|done]. auto. }
  pose proof (tso_csum_skb k DescOwn 0 (skb_len k) 1 Hk) as Htso.
  destruct (rtl8125_tso_csum cfg k DescOwn 0 (skb_len k) 1) as [o| |]; [|clear Htso|done].
  2: { eapply swp_mono; [|by apply (err_dma_0_post _ s)]. intros r t (?&?&?&?). apply Hend. auto. }
  destruct Htso as (Hid & Hl & Hh & Hfr). destruct Hk as [_ _ Hfp Hfit _].
  assert (0 <= extra) by (unfold extra; by destruct (RequireLSOPatch cfg)).
  swp_step. unfold rtl8125_xmit_frags, tx_get at 1. do 2 swp_step.
  eapply swp_mono; [|apply (swp_xmit_frags_loop _ _ 0 _ _ _ _ s s)]; try reflexivity; try lia.
  - intros f t (Hf & Hst & Hpost). destruct (frame_used _ _ Hf) as (Hu' & Hn' & Hd').
    pose proof Hf as (Hc' & _ & _ & Hs'). destruct f as [f|].
    + destruct Hpost as (Hf0 & Hf1 & Hf2). rewrite <-Hc', <-Hn'.
      eapply swp_mono; [|apply swp_xmit_head; [done|done|done|lia|unfold side_ok in *; lia|done]].
      intros r u (Hr & Hok & Hsu & Ha). apply Hend. rewrite Hid, Hst in Hsu. split_and!; try done.
      intros Haw. apply Ha. unfold awake_ok. by rewrite (frame_room _ _ Hf), Hs'.
    + eapply swp_mono; [|apply (err_dma_0_post _ s)]; [intros r u (?&?&?&?); by apply Hend; auto| |done|done|].
      * unfold ring_ok, side_ok in *. split; [done|]. lia.
      * intros _. by apply frame_room.
  - destruct Hfr as [->| ->]; [done|constructor].
  - replace (used s + 1 + 0) with (used s + 1) by lia. pose proof Hw as [Hn Hlen Hskb Hfree Hfill Hown'].
    split; [done|done|done| |lia|done]. intros p Hp _. apply Hfree; lia.
  - unfold MAX_SKB_FRAGS in Hfit. destruct Hfr as [->| ->]; simpl; lia.
  - rewrite slot_used by apply Hw. f_equal. lia.
Qed.

(** ** Reclaiming *)

(** The descriptor at an entry still belongs to the controller. *)
Definition hw_owned (s : txs D) (e : Z) : bool := has (opts1 (desc_at (ring s) e)) DescOwn.

(** The buffers of the first [m] slots from [d], in their order. *)
Definition buffers (s : txs D) (d : Z) (m : nat) : list Z :=
  omap (fun j => skb (info_of (infos s) (slot (num s) d j))) (seqZ 0 (Z.of_nat m)).

(** The slots from [d] on have the form of a ring that starts there. *)
Definition ring_ok_at (d : Z) (s : txs D) : Prop :=
  let w := u32 (cur_tx (ring s) - d) in wind (num s) d w w w (infos s) /\ w <= num s.

Lemma buffers_S (s s' : txs D) d m x y :
  ring_ok_at d s -> Z.of_nat m < num s -> num s' = num s ->
  infos s' = <[Z.to_nat (slot (num s) d 0) := x]> (infos s) ->
  y = skb (info_of (infos s) (slot (num s) d 0)) ->
  buffers s d (S m) = option_list y ++ buffers s' (u32 (d + 1)) m.
Proof.
  intros [Hw _] Hm Hn Hi ->. unfold buffers. rewrite Nat2Z.inj_succ, seqZ_cons by lia. simpl.
  rewrite Z.pred_succ, Hn, Hi.
  assert (omap (fun j => skb (info_of (infos s) (slot (num s) d j))) (seqZ (Z.succ 0) (Z.of_nat m)) =
    omap (fun j => skb (info_of (<[Z.to_nat (slot (num s) d 0) := x]> (infos s)) (slot (num s) (u32 (d + 1)) j)))
       (seqZ 0 (Z.of_nat m))) as E; [|rewrite <-E; by destruct (skb _)].
  change (Z.succ 0) with (1 + 0). rewrite <-fmap_add_seqZ.
  apply list_omap_ext, Forall2_fmap_l, Forall_Forall2_diag, Forall_forall. intros j Hj.
  apply elem_of_seqZ in Hj. simpl. rewrite slot_shift by apply Hw.
  rewrite (info_of_slot _ _ _ _ _ _ Hw) by lia. destruct (Z.eqb_spec (1 + j) 0); [lia|done].
Qed.

Lemma hw_owned_S (s s' : txs D) d j x :
  ring_ok_at d s -> 0 <= j -> 1 + j < num s -> num s' = num s ->
  TxDescArray (ring s') = <[Z.to_nat (slot (num s) d 0) := x]> (TxDescArray (ring s)) ->
  hw_owned s' (slot (num s) (u32 (d + 1)) j) = hw_owned s (slot (num s) d (1 + j)).
Proof.
  intros [Hw _] Hj Hj2 Hn Hd. pose proof (wi_size _ _ _ _ _ _ Hw) as Hs. unfold hw_owned, desc_at.
  rewrite Hd, slot_shift, !nth_lookup by done. rewrite list_lookup_insert_ne; [done|].
  intros E. pose proof (slot_range (num s) d 0). pose proof (slot_range (num s) d (1 + j)).
  destruct Hs as [Hs _]. apply Z2Nat.inj in E; [|lia..]. apply slot_inj in E; lia.
Qed.

(** What the loop does with [m] entries. *)
Definition reclaimed (n : nat) (own : bool) (d : Z) (s : txs D) (d' : Z) (s' : txs D) : Prop :=
  exists m, (m <= n)%nat /\ d' = u32 (d + Z.of_nat m) /\
    freed s' = rev (buffers s d m) ++ freed s /\
    (forall j, own = true -> 0 <= j < Z.of_nat m -> hw_owned s (slot (num s) d j) = false) /\
    (m = n \/ own = true /\ hw_owned s (slot (num s) d (Z.of_nat m)) = true).

Lemma swp_reclaim_entry e (s : txs D) :
  0 <= e < Z.of_nat (length (infos s)) ->
  swp (reclaim_entry e)
    (fun _ s' => frame s s' /\
       infos s' = <[Z.to_nat e := MkInfo None 0 (bytecount (info_of (infos s) e))
                                   (gso_segs (info_of (infos s) e))]> (infos s) /\
       freed s' = option_list (skb (info_of (infos s) e)) ++ freed s /\
       TxDescArray (ring s') =
         <[Z.to_nat e := MkDesc RTK_MAGIC_DEBUG_VALUE 0 RTL8125_MAGIC_NUMBER]> (TxDescArray (ring s))) s.
Proof.
  intros He. pose proof (swp_unmap_release e (sret tt) s He) as H. unfold swp, sbind in H.
  unfold reclaim_entry, swp, sbind. destruct (rtl8125_unmap_tx_skb e s) as [[] t]. simpl.
  destruct (release_skb e (sret tt) t) as [[] u]. by apply H.
Qed.

Lemma swp_reclaim_loop n own d b p (s : txs D) :
  ring_ok_at d s -> Z.of_nat n <= u32 (cur_tx (ring s) - d) -> 0 <= d < 2 ^ 32 ->
  swp (reclaim_loop n own d b p)
    (fun '(d', _, _) s' => frame s s' /\ stock s' ≡ₚ stock s /\ ring_ok_at d' s' /\
       reclaimed n own d s d' s') s.
Proof.
  revert d b p s. induction n as [|n IH]; intros d b p s Hok Hn Hd; simpl.
  { swp_step. split; [reflexivity|]. split; [done|]. split; [done|]. exists 0%nat.
    rewrite Z.add_0_r, u32_small by done. split_and!; auto; lia. }
  pose proof Hok as [Hw Hwn]. pose proof (wi_size _ _ _ _ _ _ Hw) as Hs.
  unfold tx_get at 1. do 2 swp_step. change (id (ring s)) with (ring s).
  assert (d mod num s = slot (num s) d 0) as -> by (unfold slot; by rewrite Z.add_0_r).
  apply swp_if; intros Hown.
  { apply andb_true_iff in Hown as [Ho Ho']. swp_step. split; [reflexivity|]. split; [done|]. split; [done|].
    exists 0%nat. rewrite Z.add_0_r, u32_small by done. split_and!; auto; try lia. }
  set (e := slot (num s) d 0) in *. pose proof (wind_slot _ _ _ _ _ _ Hw 0) as He. fold e in He.
  swp_step. eapply swp_mono; [|by apply swp_reclaim_entry].
  intros c t (Hf & Hi & Hfr & Hdesc). pose proof Hf as (Hc' & _ & HN & _).
  pose proof (u32_dist_sub (cur_tx (ring s)) d 1 ltac:(lia)) as Hdist.
  assert (ring_ok_at (u32 (d + 1)) t) as Hok'.
  { unfold ring_ok_at. rewrite Hc', HN, Hi, Hdist. split; [|lia]. apply wind_reclaim; [done|lia]. }
  eapply swp_mono; [|apply IH; [done|rewrite Hc', Hdist; lia|apply u32_range]].
  intros [[d' b'] p'] u (Hf' & Hst' & Hoku & m & Hm & -> & Hfru & Hnot & Hstop).
  split; [by etransitivity|]. split; [rewrite Hst'; by eapply stock_release|]. split; [done|].
  rewrite HN in Hnot, Hstop. exists (S m). rewrite u32_add.
  split; [lia|]. split; [f_equal; lia|]. split; [|split].
  - rewrite Hfru, Hfr, (buffers_S s t d m _ _ Hok ltac:(lia) HN Hi eq_refl).
    rewrite rev_app_distr, app_assoc. f_equal. f_equal. by destruct (skb _).
  - intros j Ho Hj. destruct (decide (j = 0)) as [->|].
    + by rewrite Ho in Hown.
    + rewrite <-(Hnot (j - 1)) by (done || lia). rewrite (hw_owned_S s t d (j - 1) _ Hok) by (done || lia).
      do 2 f_equal. lia.
  - destruct Hstop as [->|[Ho Hst]]; [by left|]. destruct (decide (m = n)) as [->|]; [by left|].
    right. split; [done|]. rewrite <-Hst. rewrite (hw_owned_S s t d (Z.of_nat m) _ Hok) by (done || lia).
    do 2 f_equal. lia.
Qed.

Lemma ring_ok_at_dirty (s : txs D) : ring_ok s -> ring_ok_at (dirty s) s.
Proof. intros (Hw & Hu & _). done. Qed.

Lemma swp_reclaim_finish d b p (s : txs D) :
  ring_ok_at d s -> 0 <= d < 2 ^ 32 -> 18 <= num s ->
  (stopped s = false -> u32 (cur_tx (ring s) - d) + 18 <= num s) ->
  swp (reclaim_finish cfg d b p)
    (fun c s' => c = u32 (d - dirty s) /\ ring_ok s' /\ awake_ok s' /\ stock s' = stock s /\
       freed s' = freed s /\ used s' = u32 (cur_tx (ring s) - d)) s.
Proof.
  intros Hok Hd H18 Hroom. unfold reclaim_finish. swp_step.
  apply (swp_mono _ (fun _ t => ring t = ring s /\ freed t = freed s /\ stopped t = stopped s)).
  2: { swp_step; [|done]. swp_step. done. }
  intros [] t (Hr & Hf & Hs). unfold tx_get, tx_upd. do 2 swp_step. rewrite Hr.
  assert (forall u : txs D, ring u = set_dirty_tx d (ring s) -> freed u = freed s ->
     (stopped u = false -> stopped s = false \/ rtl8125_tx_slots_avail (ring u) = true) ->
     ring_ok u /\ awake_ok u /\ stock u = stock s /\ freed u = freed s /\ used u = u32 (cur_tx (ring s) - d)) as Hend.
  { intros u Hu Hfu Hsu. assert (ring_ok u) as Hok'.
    { unfold ring_ok, used, side_ok. rewrite Hu. destruct Hok as [H1 H2]. done. }
    split; [done|]. split; [|unfold stock, used; by rewrite Hu, Hfu].
    intros E. destruct (Hsu E) as [E'|]; [|done]. apply room_iff; [done|]. unfold used. rewrite Hu. by apply Hroom. }
  apply swp_if; intros Hne.
  - repeat swp_step; (split; [done|]).
    + match goal with H : _ && _ && _ = true |- _ => rewrite !andb_true_iff in H; destruct H as [[_ Hav] _] end.
      apply Hend; [simpl; by rewrite Hr|done|]. intros _. right. exact Hav.
    + apply Hend; [simpl; by rewrite Hr|done|]. simpl. rewrite Hs. auto.
  - apply negb_false_iff, Z.eqb_eq in Hne. swp_step. split; [by rewrite Hne, Z.sub_diag|].
    apply Hend; [|done|rewrite Hs; auto]. rewrite Hr, <-Hne. by destruct (ring s).
Qed.

(** The number of descriptors the controller reports as done, as the driver
    computes it in the no-close mode. *)
Definition hw_closed (s : txs D) : Z :=
  rtl8125_fast_mod_mask (u32 (fst (rtl8125_get_hw_clo_ptr cfg s) - BeginHwDesCloPtr (ring s)))
    (MaxTxDescPtrMask cfg).

Lemma fast_mod_mask_nonneg x m : 0 <= x -> 0 <= rtl8125_fast_mod_mask x m.
Proof. intros. unfold rtl8125_fast_mod_mask. destruct (x >? m); [|done]. apply Z.land_nonneg. by left. Qed.

Lemma swp_get_hw_clo_ptr (s : txs D) :
  swp (rtl8125_get_hw_clo_ptr cfg)
    (fun nx s' => nx = fst (rtl8125_get_hw_clo_ptr cfg s) /\ ring s' = ring s /\ frame s s' /\ freed s' = freed s) s.
Proof.
  unfold swp. destruct (rtl8125_get_hw_clo_ptr cfg s) as [nx s'] eqn:E. split; [done|]. swp_start E.
  unfold rtl8125_get_hw_clo_ptr, tx_get, tx_r16, tx_r32. do 2 swp_step.
  repeat (apply swp_if; intros _); [..|by swp_step]; unfold swp;
    [destruct (readw _ _)|destruct (readl _ _)]; done.
Qed.

(** What one run of the reclaiming does. *)
Definition interrupt_post (s : txs D) (c : Z) (s' : txs D) : Prop :=
  exists m, c = Z.of_nat m /\ used s' = used s - Z.of_nat m /\
    freed s' = rev (buffers s (dirty s) m) ++ freed s /\
    if EnableTxNoClose cfg then Z.of_nat m = Z.min (used s) (hw_closed s)
    else (forall j, 0 <= j < Z.of_nat m -> hw_owned s (slot (num s) (dirty s) j) = false) /\
         (Z.of_nat m = used s \/ hw_owned s (slot (num s) (dirty s) (Z.of_nat m)) = true).

(** From the loop to the end, for either mode. *)
Lemma swp_reclaim n own (s t : txs D) :
  ring_ok s -> awake_ok s -> ring t = ring s \/ (exists nx bg, ring t = set_clo_ptrs nx bg (ring s)) ->
  stopped t = stopped s -> freed t = freed s -> Z.of_nat n <= used s ->
  swp (r <- reclaim_loop n own (dirty s) 0 0 ;; let '(d, b, p) := r in reclaim_finish cfg d b p)
    (fun c s' => ring_ok s' /\ awake_ok s' /\ stock s' ≡ₚ stock s /\
       exists m, (m <= n)%nat /\ c = Z.of_nat m /\ used s' = used s - Z.of_nat m /\
         freed s' = rev (buffers s (dirty s) m) ++ freed s /\
         (forall j, own = true -> 0 <= j < Z.of_nat m -> hw_owned s (slot (num s) (dirty s) j) = false) /\
         (m = n \/ own = true /\ hw_owned s (slot (num s) (dirty s) (Z.of_nat m)) = true)) t.
Proof.
  intros Hok Haw Hr Hs Hf Hn. pose proof (ring_ok_at_dirty s Hok) as Hat. pose proof Hok as (_ & Hu & Hd & H18).
  assert (cur_tx (ring t) = cur_tx (ring s) /\ dirty t = dirty s /\ num t = num s /\ infos t = infos s /\
    TxDescArray (ring t) = TxDescArray (ring s)) as (Ec & Ed & En & Ei & Et).
  { destruct Hr as [->|(nx & bg & ->)]; done. }
  swp_step. eapply swp_mono; [|apply swp_reclaim_loop; [|rewrite Ec; exact Hn|done]].
  2: { unfold ring_ok_at in *. by rewrite Ec, En, Ei. }
  intros [[d b] p] u (Hfr & Hst & Hatu & m & Hm & -> & Hfu & Hnot & Hstop).
  pose proof Hfr as (Ec' & Ed' & En' & Es').
  assert (u32 (cur_tx (ring u) - u32 (dirty s + Z.of_nat m)) = used s - Z.of_nat m) as Eu.
  { rewrite Ec', Ec. apply u32_dist_sub. fold (used s). lia. }
  eapply swp_mono; [|apply swp_reclaim_finish; [done|apply u32_range|lia|]].
  - intros c v (-> & Hokv & Hawv & Hsv & Hfv & Huv). split; [done|]. split; [done|].
    split; [rewrite Hsv, Hst; unfold stock; by rewrite Hf, Ei|]. exists m.
    rewrite Ed', Ed, u32_sub_l. replace (dirty s + Z.of_nat m - dirty s) with (Z.of_nat m) by lia.
    pose proof (used_range s). rewrite Huv, Eu, Hfv, Hfu, Hf. rewrite u32_small by lia.
    unfold hw_owned, desc_at, buffers in *. rewrite En, Ei, Et in *. auto 10.
  - rewrite Es', Hs, Eu, En', En. intros E. pose proof (Haw E) as Hroom. apply room_iff in Hroom; [lia|done].
Qed.

Lemma swp_reclaim_then {A} (m : St (txs D) (Z * Z * Z)) (f : Z -> Z -> Z -> St (txs D) Z)
    (k : Z -> Z -> St (txs D) A) Q s :
  swp (r <- m ;; let '(d, b, p) := r in f d b p) (fun c s' => forall d, swp (k d c) Q s') s ->
  swp (r <- m ;; let '(d, b, p) := r in c <- f d b p ;; k d c) Q s.
Proof.
  unfold swp, sbind. destruct (m s) as [[[d b] p] t]. destruct (f d b p t) as [c u]. intros H. exact (H d).
Qed.

Lemma swp_tx_interrupt (s : txs D) :
  ring_ok s -> awake_ok s ->
  swp (rtl8125_tx_interrupt cfg)
    (fun c s' => ring_ok s' /\ awake_ok s' /\ stock s' ≡ₚ stock s /\ interrupt_post s c s') s.
Proof.
  intros Hok Haw. pose proof (used_range s) as Hu. unfold rtl8125_tx_interrupt, interrupt_post.
  destruct (EnableTxNoClose cfg) eqn:Ec.
  - unfold rtl8125_tx_interrupt_noclose, tx_get, tx_upd. do 3 swp_step.
    eapply swp_mono; [|apply swp_get_hw_clo_ptr]. intros nx t (-> & Hr & Hf & Hfr). pose proof Hf as (_&_&_&Hs).
    do 2 swp_step. change (id (ring t)) with (ring t). rewrite Hr. fold (used s). fold (hw_closed s).
    assert (0 <= hw_closed s) by (apply fast_mod_mask_nonneg, u32_range).
    do 2 swp_step. eapply swp_mono; [|apply (swp_reclaim _ _ s); [done|done| |done|done|lia]].
    2: { right. simpl. rewrite Hr. eauto. }
    intros c v (? & ? & ? & m & Hm & Hc & Hv & Hfv & Hnot & Hstop). split_and!; [done..|].
    exists m. split_and!; [done..|]. destruct Hstop as [->|[? _]]; [lia|done].
  - unfold rtl8125_tx_interrupt_close, tx_get. do 4 swp_step. fold (used s).
    apply (swp_reclaim_then _ (reclaim_finish cfg)
      (fun d' c => cur <- sgets (fun s => cur_tx (ring s)) ;;
         swhen (negb (dirty s =? d') && negb (cur =? d')) (rtl8125_doorbell cfg) ;;; sret c)).
    eapply swp_mono; [|apply (swp_reclaim _ _ s); [done|done|by left|done|done|lia]].
    intros c v (Hokv & Hawv & Hst & m & Hm & Hc & Hv & Hfv & Hnot & Hstop) d'. do 3 swp_step.
    apply (swp_mono _ (fun _ u => ring u = ring v /\ stopped u = stopped v /\ freed u = freed v)).
    2: { swp_step; [apply swp_doorbell|done]. }
    intros [] u (Hr & Hs & Hf). swp_step. unfold awake_ok, stock, used in *. rewrite Hr, Hs, Hf.
    split; [by apply (ring_ok_ring v)|]. split_and!; [done..|]. exists m. split_and!; [done..| |].
    + intros j Hj. by apply Hnot.
    + destruct Hstop as [->|[_ ?]]; [left; lia|by right].
Qed.

Lemma swp_tx_clear (s : txs D) :
  ring_ok s ->
  swp (rtl8125_tx_clear)
    (fun _ s' => ring_ok s' /\ held (infos s') = [] /\ stock s' ≡ₚ stock s /\ awake_ok s') s.
Proof.
  intros (Hw & Hu & _ & H18). pose proof Hw as [Hn Hl _ _ _ Hown]. unfold rtl8125_tx_clear, rtl8125_tx_clear_range, tx_get.
  do 3 swp_step. change (id (ring s)) with (ring s). eapply swp_mono; [|by apply swp_tx_clear_loop].
  intros [] t (Hf & [Hlen He] & Hst & Hz). pose proof Hf as (_ & _ & HN & _). unfold tx_upd. swp_step.
  set (u := set_ring _ _).
  assert (forall i, 0 <= i < num s -> skb (info_of (infos t) i) = None /\ ilen (info_of (infos t) i) = 0) as Hall.
  { intros i Hi. destruct (slot_onto (num s) (dirty s) i Hi) as (p & Hp & Hsp).
    specialize (Hz p ltac:(lia)). rewrite Hsp in Hz. split; [|done].
    destruct (He i) as [E|[? _]]; [lia| |done]. rewrite E in *. specialize (Hown i Hi).
    destruct (skb (info_of (infos s) i)); [|done]. exfalso. assert (0 < 0); [|lia]. rewrite <-Hz at 2. by apply Hown. }
  assert (ring_ok u) as Hok.
  { assert (used u = 0) as Hu0 by done. unfold ring_ok, side_ok. rewrite Hu0. unfold u. simpl. rewrite HN.
    split; [|lia]. split; [done|congruence| | |lia|].
    - intros p _. apply Hall, slot_range, Hn.
    - intros p _ _. apply Hall, slot_range, Hn.
    - intros i Hi. by rewrite (proj1 (Hall i Hi)). }
  split; [done|]. split.
  - apply held_none. unfold u. simpl. intros i Hi. apply Hall. lia.
  - split; [done|]. intros _. apply room_iff; [done|]. unfold u, used. simpl. rewrite HN. done.
Qed.

(** ** Sequences of events *)

(** What can happen to a ring: the kernel sends a buffer, the interrupt handler
    reclaims, the ring is cleared, the controller rewrites descriptors and
    changes its own state in any way. *)
Inductive tx_event :=
  | Xmit (k : sk_buff) (xmit_more : bool)
  | Interrupt
  | Clear
  | Hardware (f : list TxDesc -> list TxDesc) (g : D -> D).

(** The buffers taken from the kernel. *)
Definition run_event (e : tx_event) : St (txs D) (list Z) :=
  match e with
  | Xmit k more =>
      r <- rtl8125_start_xmit cfg k more ;;
      sret (match r with NETDEV_TX_OK => [skb_id k] | NETDEV_TX_BUSY => [] end)
  | Interrupt => _ <- rtl8125_tx_interrupt cfg ;; sret []
  | Clear => rtl8125_tx_clear ;;; sret []
  | Hardware f g =>
      smodify (fun s => set_tdev (g (tdev s)) (set_ring (set_descs (f (TxDescArray (ring s))) (ring s)) s)) ;;;
      sret []
  end.

Fixpoint run_events (l : list tx_event) : St (txs D) (list Z) :=
  match l with
  | [] => sret []
  | e :: l' => a <- run_event e ;; b <- run_events l' ;; sret (a ++ b)
  end.

Definition event_ok (e : tx_event) : Prop := match e with Xmit k _ => skb_ok k | _ => True end.

(** What holds between events. *)
Definition tx_good (s : txs D) : Prop := ring_ok s /\ awake_ok s.

Lemma swp_run_event e (s : txs D) :
  event_ok e -> tx_good s ->
  swp (run_event e) (fun a s' => tx_good s' /\ stock s' ≡ₚ a ++ stock s) s.
Proof.
  intros He [Hok Haw]. destruct e as [k more| | |f g]; unfold run_event, tx_good; swp_step.
  - eapply swp_mono; [|by apply swp_start_xmit]. intros r t (? & ? & Ha & _). swp_step.
    split; [|done]. split; [done|by apply Ha].
  - eapply swp_mono; [|by apply swp_tx_interrupt]. intros c t (? & ? & ? & _). swp_step. done.
  - eapply swp_mono; [|by apply swp_tx_clear]. intros [] t (? & ? & ? & ?). swp_step. done.
  - swp_step. swp_step. done.
Qed.

Lemma swp_run_events l (s : txs D) :
  Forall event_ok l -> tx_good s ->
  swp (run_events l) (fun a s' => tx_good s' /\ stock s' ≡ₚ a ++ stock s) s.
Proof.
  revert s. induction l as [|e l IH]; intros s Hl Hs; simpl; [by swp_step|].
  apply Forall_cons in Hl as [He Hl]. swp_step. eapply swp_mono; [|by apply swp_run_event].
  intros a t [Ht Hat]. swp_step. eapply swp_mono; [|by apply IH]. intros b u [Hu Hbu]. swp_step.
  split; [done|]. rewrite Hbu, Hat, !app_assoc. apply Permutation_app_tail, Permutation_app_comm.
Qed.

(** A ring that was just set up, nothing handed back yet. *)
Definition tx_start (i : Z) (r : tx_ring) (dev : D) : txs D :=
  MkTxs (rtl8125_init_ring i r) false 0 0 0 [] dev.

Lemma info_of_replicate n i : info_of (replicate n no_info) i = no_info.
Proof.
  unfold info_of. rewrite nth_lookup. destruct (replicate n no_info !! _) eqn:E; [|done].
  by apply lookup_replicate in E as [-> _].
Qed.

Lemma tx_start_good i r dev : size_ok (num_tx_desc r) -> 18 <= num_tx_desc r -> tx_good (tx_start i r dev).
Proof.
  intros Hn H18. assert (ring_ok (tx_start i r dev)) as Hok.
  { unfold ring_ok, side_ok. change (used (tx_start i r dev)) with 0. simpl. split; [|lia]. change (MkInfo None 0 0 0) with no_info.
    pose proof Hn as [? _]. split; [done|rewrite length_replicate; lia|..]; intros p;
      rewrite !info_of_replicate; (done || lia). }
  split; [done|]. intros _. apply room_iff; [done|]. change (used (tx_start i r dev)) with 0. simpl. lia.
Qed.



End Ops.
