(* ===== verification/RtlTxToy.v ===== *)
(** * r8125: the transmit ring on concrete inputs

    A controller that is only its completion counter, rings over it, and on
    these rings the instances of the theorems of RtlTxSpec and the three inputs
    outside their hypotheses: a ring size that is not a power of two, a large
    packet whose last fragment is split, and a padding that fails. *)
From stdpp Require Import list.
From S2P Require Import Prelude RtlBase RtlHw RtlTx RtlTxSpec.
Local Open Scope Z_scope.

(** The counter the driver reads; every mapping succeeds. *)
#[export] Instance counter_mmio : Mmio Z := {
  readb _ d := (d, d);
  readw _ d := (d, d);
  readl _ d := (d, d);
  writeb _ _ d := d;
  writew _ _ d := d;
  writel _ _ d := d;
  pci_read_config _ _ d := (0, d);
  pci_write_config _ _ _ d := d
}.

#[export] Instance counter_dma : Dma Z := {
  dma_map_single a _ d := (Some a, d);
  dma_unmap_single _ _ d := d
}.

Definition toy_cfg (noclose lso : bool) : tx_cfg := MkCfg noclose 4 65535 lso 2 true false true true true true.

(** A packet of [len] bytes; a large one with fragments. *)
Definition small_skb (id len : Z) (bad_pad : bool) : sk_buff :=
  MkSkb id len 4096 len [] 0 0 ETH_P_OTHER 34 5 false 6 false 34 0 8192 bad_pad false.

Definition large_skb (id : Z) (fl : list (Z * Z)) : sk_buff :=
  MkSkb id 2000 4096 54 fl 1448 2 ETH_P_IP 34 5 false 6 true 34 0 8192 false false.

Definition empty_ring (n : Z) : tx_ring := MkRing 0 0 0 n [] [] 0 0 0 0.

Definition sends : list (tx_event (D:=Z)) :=
  [Xmit (small_skb 1 100 false) true; Xmit (large_skb 2 [(100, 946); (200, 1000)]) false;
   Hardware id (fun _ => 3); Interrupt; Xmit (small_skb 3 42 false) false].

Lemma sends_ok b : Forall (event_ok (toy_cfg b false)) sends.
Proof.
  unfold sends. repeat (apply Forall_cons; split); try done.
  all: split; simpl; unfold extra, MAX_SKB_FRAGS; simpl; try lia; try done.
  all: repeat (apply Forall_cons; split); try done.
Qed.

Lemma toy_size : size_ok (num_tx_desc (empty_ring 256)).
Proof. split; [done|]. by exists (2 ^ 24). Qed.

(** The run of [sends], and its parts. *)
Definition sent : list Z * txs Z := run_events (toy_cfg true false) sends (tx_start 0 (empty_ring 256) 0).

Lemma sent_run :
  run_events (toy_cfg true false) sends (tx_start 0 (empty_ring 256) 0) = (fst sent, snd sent).
Proof. unfold sent. apply surjective_pairing. Qed.



(** The same sends in the close mode; the controller has given back the first
    two descriptors. *)
Definition give_back (l : list TxDesc) : list TxDesc :=
  <[0%nat := MkDesc 0 0 0]> (<[1%nat := MkDesc 0 0 0]> l).

Definition sends_close : list (tx_event (D:=Z)) :=
  [Xmit (small_skb 1 100 false) true; Xmit (large_skb 2 [(100, 946); (200, 1000)]) false;
   Hardware give_back id].

Lemma sends_close_ok : Forall (event_ok (toy_cfg false false)) sends_close.
Proof.
  pose proof (sends_ok false) as H. unfold sends in H. repeat (apply Forall_cons in H as [? H]).
  unfold sends_close. repeat (apply Forall_cons; split); done.
Qed.

Definition sent_close : list Z * txs Z :=
  run_events (toy_cfg false false) sends_close (tx_start 0 (empty_ring 256) 0).

Lemma sent_close_run :
  run_events (toy_cfg false false) sends_close (tx_start 0 (empty_ring 256) 0) = (fst sent_close, snd sent_close).
Proof. unfold sent_close. apply surjective_pairing. Qed.


(** ** Outside the hypotheses *)

(** 300 descriptors are accepted by [rtl8125_set_ringparam], and 300 does not
    divide 2^32.  A buffer with one fragment is sent when the 32-bit counter
    wraps: its head is put into slot 195 and the buffer is noted in slot 196,
    but the fragment goes into slot 0, where the counter points next.  The two
    descriptors complete and are reclaimed; the buffer is not handed back. *)
Definition wrapping : txs Z :=
  MkTxs (set_cur_tx (2 ^ 32 - 1) (set_dirty_tx (2 ^ 32 - 1) (rtl8125_init_ring 0 (empty_ring (new_tx_count 300)))))
    false 0 0 0 [] 0.

Lemma ring_size_300_loses_buffer :
  let '(taken, s) := run_events (toy_cfg true false)
    [Xmit (large_skb 7 [(100, 1946)]) false; Hardware id (fun _ => 2); Interrupt] wrapping in
  taken = [7] /\ cur_tx (ring s) = dirty_tx (ring s) /\ freed s = [] /\ held (tx_skb (ring s)) = [7].
Proof. vm_compute. repeat split. Qed.

(** On the versions with RequireLSOPatch, the last fragment of a large packet
    is split into two descriptors.  With 17 fragments this takes 19, one more
    than an awake queue is sure to have: the packet ends in the slot of the
    oldest buffer in use, which is lost. *)
Definition fill (n : nat) : list (tx_event (D:=Z)) :=
  map (fun i => Xmit (small_skb (Z.of_nat i) 100 false) false) (seq 0 n).

Lemma lso_patch_overwrites_oldest :
  let '(taken, s) := run_events (toy_cfg true true)
    (fill 238 ++ [Xmit (large_skb 1000 (replicate 17 (100, 20))) false])
    (tx_start 0 (empty_ring 256) 0) in
  length taken = 239%nat /\ used s = 257 /\ stopped s = false /\
  freed s = [] /\ length (held (tx_skb (ring s))) = 238%nat /\ head (held (tx_skb (ring s))) = Some 1000.
Proof. vm_compute. repeat split. Qed.

(** A short packet whose padding fails is freed by the kernel, and then by
    the driver again. *)
Lemma failed_padding_frees_twice :
  let '(taken, s) := run_events (toy_cfg true false) [Xmit (small_skb 5 40 true) false]
    (tx_start 0 (empty_ring 256) 0) in
  taken = [5] /\ freed s = [5; 5].
Proof. vm_compute. repeat split. Qed.
