(* ===== verification/RtlRx.v ===== *)
(** * r8125: the receive ring

    src/.../realtek/r8125/r8125_n.c: filling the receive ring with buffers,
    [rtl8125_rx_interrupt], clearing, and what the reset task does with the
    descriptors, in the configuration of the Makefile (no page reuse, no packet
    fragments, no PTP, no RSS, no VLAN).

    The three layouts of a receive descriptor (types 1, 3 and 4) have the same
    fields at different places; a descriptor is a record of the fields, and the
    functions choose the masks by the type as the code does.  Copying a packet
    out of a buffer records which buffer and how many bytes; a copy through a
    null pointer sets [fault].  A register read lets the controller's pending
    writes reach memory ([rx_flush]), which is why the code reads the status
    again after it. *)
From S2P Require Import Prelude RtlBase RtlHw RtlTx RtlRss.
Local Open Scope Z_scope.
Local Open Scope rtl_scope.

(** ** Data *)

Definition RsvdMask : Z := 0x3fffc000.
Definition RsvdMaskV3 : Z := 0x3fff8000.
Definition RsvdMaskV4 : Z := RsvdMaskV3.
Definition RxRWT : Z := BIT 22.
Definition RxRES : Z := BIT 21.
Definition RxRUNT : Z := BIT 20.
Definition RxCRC : Z := BIT 19.
Definition RxRWT_V3 : Z := BIT 18.
Definition RxRES_V3 : Z := BIT 20.
Definition RxRUNT_V3 : Z := BIT 19.
Definition RxCRC_V3 : Z := BIT 17.
Definition RxRES_V4 : Z := BIT 22.
Definition RxRUNT_V4 : Z := BIT 21.
Definition RxCRC_V4 : Z := BIT 20.
Definition FirstFrag_V3 : Z := BIT 25.
Definition LastFrag_V3 : Z := BIT 24.
Definition FirstFrag_V4 : Z := FirstFrag.
Definition LastFrag_V4 : Z := LastFrag.
Definition RxUDPF : Z := BIT 15.
Definition RxTCPF : Z := BIT 14.
Definition RxUDPT : Z := BIT 18.
Definition RxTCPT : Z := BIT 17.
Definition RxUDPF_v3 : Z := BIT 25.
Definition RxTCPF_v3 : Z := BIT 24.
Definition RxUDPT_v3 : Z := BIT 29.
Definition RxTCPT_v3 : Z := BIT 28.
Definition RxUDPF_v4 : Z := BIT 16.
Definition RxTCPF_v4 : Z := BIT 15.
Definition RxUDPT_v4 : Z := BIT 19.
Definition RxTCPT_v4 : Z := BIT 18.
Definition ETH_FCS_LEN : Z := 4.
Definition ENOMEM : Z := 12.

Record RxDesc := MkRxDesc { rx_opts1 : Z; rx_opts2 : Z; rx_addr : Z }.

(** [struct rtl8125_rx_ring]; a buffer is known by a number. *)
Record rx_ring := MkRxRing {
  rx_index : Z;
  cur_rx : Z;
  dirty_rx : Z;
  num_rx_desc : Z;
  RxDescArray : list RxDesc;
  RxDescPhyAddr : list Z;
  Rx_skbuff : list (option Z)
}.

(** The settings the receive path reads; [rx_napi] is CONFIG_R8125_NAPI. *)
Record rx_cfg := MkRxCfg {
  DescType : Z;
  rx_buf_sz : Z;
  f_rxall : bool;
  f_rxfcs : bool;
  imr_reg0 : Z;
  rx_napi : bool
}.

(** A packet given to the kernel: the buffer it was copied from, its bytes, and
    whether the controller has checked its checksum. *)
Record rx_pkt := MkPkt { pk_from : Z; pk_data : list Z; pk_csum : bool }.

(** What the kernel and the controller do: allocate a buffer and map it for the
    device, allocate a packet, the bytes of a buffer, what [eth_type_trans]
    finds (length after the header, multicast), and the writes of the
    controller a register read flushes. *)
Class RxKernel (D : Type) := {
  alloc_buf : Z -> D -> option Z * D;
  map_buf : Z -> Z -> D -> option Z * D;
  unmap_buf : Z -> D -> D;
  alloc_pkt : Z -> D -> bool * D;
  buf_bytes : Z -> D -> list Z;
  eth_type_trans : list Z -> Z * bool;
  rx_flush : Z -> list RxDesc -> D -> list RxDesc * D
}.

Record rx_stats := MkRxStats {
  st_errors : Z; st_length_errors : Z; st_crc_errors : Z; st_dropped : Z;
  st_bytes : Z; st_packets : Z; st_multicast : Z
}.

Record rxs (D : Type) := MkRxs {
  rring : rx_ring;
  stats : rx_stats;
  delivered : list rx_pkt;
  rx_freed : list Z;
  fault : bool;
  rdev : D
}.
Arguments MkRxs {D}.
Arguments rring {D}.
Arguments stats {D}.
Arguments delivered {D}.
Arguments rx_freed {D}.
Arguments fault {D}.
Arguments rdev {D}.

Definition add_errors t := MkRxStats (st_errors t + 1) (st_length_errors t) (st_crc_errors t) (st_dropped t) (st_bytes t) (st_packets t) (st_multicast t).
Definition add_length_errors t := MkRxStats (st_errors t) (st_length_errors t + 1) (st_crc_errors t) (st_dropped t) (st_bytes t) (st_packets t) (st_multicast t).
Definition add_crc_errors t := MkRxStats (st_errors t) (st_length_errors t) (st_crc_errors t + 1) (st_dropped t) (st_bytes t) (st_packets t) (st_multicast t).
Definition add_dropped t := MkRxStats (st_errors t) (st_length_errors t) (st_crc_errors t) (st_dropped t + 1) (st_bytes t) (st_packets t) (st_multicast t).
Definition add_totals b p m t := MkRxStats (st_errors t) (st_length_errors t) (st_crc_errors t) (st_dropped t) (st_bytes t + b) (st_packets t + p) (st_multicast t + m).

Definition set_rx_idx c d r := MkRxRing (rx_index r) c d (num_rx_desc r) (RxDescArray r) (RxDescPhyAddr r) (Rx_skbuff r).
Definition set_rx_descs l r := MkRxRing (rx_index r) (cur_rx r) (dirty_rx r) (num_rx_desc r) l (RxDescPhyAddr r) (Rx_skbuff r).
Definition set_rx_phys l r := MkRxRing (rx_index r) (cur_rx r) (dirty_rx r) (num_rx_desc r) (RxDescArray r) l (Rx_skbuff r).
Definition set_rx_skbs l r := MkRxRing (rx_index r) (cur_rx r) (dirty_rx r) (num_rx_desc r) (RxDescArray r) (RxDescPhyAddr r) l.

(** ** Descriptors *)

(** [switch (tp->InitRxDescType)] *)
Definition by_type {A} (c : rx_cfg) (v3 v4 v1 : A) : A :=
  if DescType c =? RX_DESC_RING_TYPE_3 then v3 else if DescType c =? RX_DESC_RING_TYPE_4 then v4 else v1.

Definition rtl8125_rx_desc_opts1 (d : RxDesc) : Z := rx_opts1 d.
Definition rtl8125_rx_desc_opts2 (d : RxDesc) : Z := rx_opts2 d.

Definition rtl8125_set_desc_dma_addr (mapping : Z) (d : RxDesc) : RxDesc := MkRxDesc (rx_opts1 d) (rx_opts2 d) mapping.

Definition rtl8125_mark_to_asic (c : rx_cfg) (d : RxDesc) : RxDesc :=
  let eor := Z.land (rx_opts1 d) RingEnd in
  MkRxDesc (Z.lor (Z.lor DescOwn eor) (rx_buf_sz c)) (rx_opts2 d) (rx_addr d).

Definition rtl8125_make_unusable_by_asic (c : rx_cfg) (d : RxDesc) : RxDesc :=
  MkRxDesc (Z.land (rx_opts1 d) (Z.lnot (Z.lor DescOwn (by_type c RsvdMaskV3 RsvdMaskV4 RsvdMask))))
    (rx_opts2 d) RTL8125_MAGIC_NUMBER.

Definition rtl8125_mark_as_last_descriptor (d : RxDesc) : RxDesc :=
  MkRxDesc (Z.lor (rx_opts1 d) RingEnd) (rx_opts2 d) (rx_addr d).

Definition rtl8125_fragmented_frame (c : rx_cfg) (status : Z) : bool :=
  let m := by_type c (Z.lor FirstFrag_V3 LastFrag_V3) (Z.lor FirstFrag_V4 LastFrag_V4) (Z.lor FirstFrag LastFrag) in
  negb (Z.land status m =? m).

Definition rtl8125_is_non_eop (c : rx_cfg) (status : Z) : bool :=
  negb (has status (by_type c LastFrag_V3 LastFrag_V4 LastFrag)).

(** [CHECKSUM_UNNECESSARY], for one word and its four bits. *)
Definition csum_ok (o tcpt tcpf udpt udpf : Z) : bool :=
  (has o tcpt && negb (has o tcpf)) || (has o udpt && negb (has o udpf)).

Definition rtl8125_rx_csum (c : rx_cfg) (d : RxDesc) : bool :=
  by_type c (csum_ok (rx_opts2 d) RxTCPT_v3 RxTCPF_v3 RxUDPT_v3 RxUDPF_v3)
            (csum_ok (rx_opts1 d) RxTCPT_v4 RxTCPF_v4 RxUDPT_v4 RxUDPF_v4)
            (csum_ok (rx_opts1 d) RxTCPT RxTCPF RxUDPT RxUDPF).

Definition rtl8125_rx_quota (napi : bool) (count quota : Z) : Z := if napi then Z.min count quota else count.

(** ** The ring *)

Section Rx.
Context {D : Type} `{HK : RxKernel D}.
Variable cfg : rx_cfg.
Abbreviation RS := (St (rxs D)).

Definition set_rring r (s : rxs D) := MkRxs r (stats s) (delivered s) (rx_freed s) (fault s) (rdev s).
Definition upd_stats f (s : rxs D) := MkRxs (rring s) (f (stats s)) (delivered s) (rx_freed s) (fault s) (rdev s).
Definition deliver p (s : rxs D) := MkRxs (rring s) (stats s) (p :: delivered s) (rx_freed s) (fault s) (rdev s).
Definition free_buf id (s : rxs D) := MkRxs (rring s) (stats s) (delivered s) (id :: rx_freed s) (fault s) (rdev s).
Definition set_fault (s : rxs D) := MkRxs (rring s) (stats s) (delivered s) (rx_freed s) true (rdev s).
Definition set_rdev (d : D) (s : rxs D) := MkRxs (rring s) (stats s) (delivered s) (rx_freed s) (fault s) d.

Definition rx_get {A} (f : rx_ring -> A) : RS A := sgets (fun s => f (rring s)).
Definition rx_upd (f : rx_ring -> rx_ring) : RS unit := smodify (fun s => set_rring (f (rring s)) s).
Definition rx_dev {A} (f : D -> A * D) : RS A := fun s => let '(a, d) := f (rdev s) in (a, set_rdev d s).

Definition rx_desc_at (r : rx_ring) (i : Z) : RxDesc := nth (Z.to_nat i) (RxDescArray r) (MkRxDesc 0 0 0).
Definition phy_at (r : rx_ring) (i : Z) : Z := nth (Z.to_nat i) (RxDescPhyAddr r) 0.
Definition skb_at (r : rx_ring) (i : Z) : option Z := nth (Z.to_nat i) (Rx_skbuff r) None.
Definition upd_desc (i : Z) (f : RxDesc -> RxDesc) (r : rx_ring) : rx_ring :=
  set_rx_descs (<[Z.to_nat i := f (rx_desc_at r i)]> (RxDescArray r)) r.
Definition put_phy (i v : Z) (r : rx_ring) : rx_ring := set_rx_phys (<[Z.to_nat i := v]> (RxDescPhyAddr r)) r.
Definition put_skb (i : Z) (v : option Z) (r : rx_ring) : rx_ring := set_rx_skbs (<[Z.to_nat i := v]> (Rx_skbuff r)) r.

Definition rtl8125_map_to_asic (i mapping : Z) : RS unit :=
  rx_upd (put_phy i mapping) ;;;
  rx_upd (upd_desc i (rtl8125_set_desc_dma_addr mapping)) ;;;
  rx_upd (upd_desc i (rtl8125_mark_to_asic cfg)).

Definition rtl8125_free_rx_skb (i id : Z) : RS unit :=
  r <- rx_get (fun r => r) ;;
  smodify (fun s => set_rdev (unmap_buf (phy_at r i) (rdev s)) s) ;;;
  smodify (free_buf id) ;;;
  rx_upd (put_skb i None) ;;;
  rx_upd (upd_desc i (rtl8125_make_unusable_by_asic cfg)).

(** R8125_RX_ALIGN is NET_IP_ALIGN, 0 on x86. *)
Definition R8125_RX_ALIGN : Z := 0.

(** [true] for 0, [false] for -ENOMEM. *)
Definition rtl8125_alloc_rx_skb (i : Z) : RS bool :=
  b <- rx_dev (alloc_buf (rx_buf_sz cfg + R8125_RX_ALIGN)) ;;
  match b with
  | None => rx_upd (upd_desc i (rtl8125_make_unusable_by_asic cfg)) ;;; sret false
  | Some id =>
      m <- rx_dev (map_buf id (rx_buf_sz cfg)) ;;
      match m with
      | None =>
          smodify (free_buf id) ;;;
          rx_upd (upd_desc i (rtl8125_make_unusable_by_asic cfg)) ;;;
          sret false
      | Some mapping =>
          rx_upd (put_skb i (Some id)) ;;;
          rtl8125_map_to_asic i mapping ;;;
          sret true
      end
  end.

Definition _rtl8125_rx_clear : RS unit :=
  n <- rx_get num_rx_desc ;;
  sfor (seqZ 0 n) (fun i =>
    r <- rx_get (fun r => r) ;;
    match skb_at r i with
    | Some id => rtl8125_free_rx_skb i id ;;; rx_upd (put_skb i None)
    | None => sret tt
    end).

(** The loop over [end - cur] steps; the result is [cur]. *)
Fixpoint rx_fill_loop (n : nat) (cur : Z) : RS Z :=
  match n with
  | O => sret cur
  | S n' =>
      r <- rx_get (fun r => r) ;;
      let i := cur mod num_rx_desc r in
      match skb_at r i with
      | Some _ => rx_fill_loop n' (u32 (cur + 1))
      | None =>
          ok <- rtl8125_alloc_rx_skb i ;;
          if ok : bool then rx_fill_loop n' (u32 (cur + 1)) else sret cur
      end
  end.

Definition rtl8125_rx_fill (start end_ : Z) : RS Z :=
  cur <- rx_fill_loop (Z.to_nat (u32 (end_ - start))) start ;;
  sret (u32 (cur - start)).

(** The part of [rtl8125_init_ring] for one receive ring. *)
Definition rtl8125_rx_desc_init (r : rx_ring) : rx_ring :=
  set_rx_descs (replicate (Z.to_nat (num_rx_desc r)) (MkRxDesc 0 0 0)) r.

(** [true] for 0, [false] for -ENOMEM. *)
Definition init_rx_ring (i : Z) : RS bool :=
  rx_upd (fun r => MkRxRing i 0 0 (num_rx_desc r) (RxDescArray r) (RxDescPhyAddr r) (Rx_skbuff r)) ;;;
  rx_upd rtl8125_rx_desc_init ;;;
  rx_upd (fun r => set_rx_skbs (replicate (Z.to_nat (num_rx_desc r)) None) r) ;;;
  n <- rx_get num_rx_desc ;;
  filled <- rtl8125_rx_fill 0 n ;;
  if negb (filled =? n) then _rtl8125_rx_clear ;;; sret false
  else rx_upd (upd_desc (n - 1) rtl8125_mark_as_last_descriptor) ;;; sret true.

(** ** Receiving *)

(** Count the error a status reports; [true] for the return value -1. *)
Definition rtl8125_check_rx_desc_error (status : Z) : RS bool :=
  let check res len crc :=
    if has status res then
      swhen (has status len) (smodify (upd_stats add_length_errors)) ;;;
      swhen (has status crc) (smodify (upd_stats add_crc_errors)) ;;;
      sret true
    else sret false in
  by_type cfg (check RxRES_V3 (Z.lor RxRWT_V3 RxRUNT_V3) RxCRC_V3)
              (check RxRES_V4 RxRUNT_V4 RxCRC_V4)
              (check RxRES (Z.lor RxRWT RxRUNT) RxCRC).

(** The label [release_descriptor]. *)
Definition release_descriptor (entry : Z) : RS unit :=
  r <- rx_get (fun r => r) ;;
  swhen (by_type cfg true true false) (rx_upd (upd_desc entry (rtl8125_set_desc_dma_addr (phy_at r entry)))) ;;;
  rx_upd (upd_desc entry (rtl8125_mark_to_asic cfg)).

(** The label [drop_packet]. *)
Definition drop_packet (entry : Z) : RS unit :=
  smodify (upd_stats add_dropped) ;;; smodify (upd_stats add_length_errors) ;;; release_descriptor entry.

(** The size of the packet without the checksum of the frame; [None] for a
    frame that is dropped. *)
Definition packet_size (status : Z) : option Z :=
  let pkt_size := Z.land status 0x3fff in
  let size :=
    if negb (f_rxfcs cfg) && negb (rtl8125_is_non_eop cfg status) then
      if pkt_size <? ETH_FCS_LEN then None else Some (pkt_size - ETH_FCS_LEN)
    else Some pkt_size in
  match size with
  | Some n => if (n >? rx_buf_sz cfg) || rtl8125_fragmented_frame cfg status then None else Some n
  | None => None
  end.

(** Bytes, packets and multicast packets received. *)
Definition totals : Type := Z * Z * Z.

(** Copy the packet out of its buffer and give it to the kernel. *)
Definition receive_packet (entry pkt_size : Z) (t : totals) : RS totals :=
  ok <- rx_dev (alloc_pkt (pkt_size + R8125_RX_ALIGN)) ;;
  if negb ok then drop_packet entry ;;; sret t
  else
    r <- rx_get (fun r => r) ;;
    match skb_at r entry with
    | None => smodify set_fault ;;; sret t
    | Some id =>
        bytes <- sgets (fun s => take (Z.to_nat pkt_size) (buf_bytes id (rdev s))) ;;
        let '(len, multicast) := eth_type_trans (RxKernel := HK) bytes in
        smodify (deliver (MkPkt id bytes (rtl8125_rx_csum cfg (rx_desc_at r entry)))) ;;;
        release_descriptor entry ;;;
        let '(b, p, m) := t in
        sret (u32 (b + len), u32 (p + 1), u32 (if multicast : bool then m + 1 else m))
    end.

(** One round of the loop on a descriptor with the status [status]. *)
Definition rx_one (entry status : Z) (t : totals) : RS totals :=
  bad <- rtl8125_check_rx_desc_error status ;;
  swhen bad (smodify (upd_stats add_errors)) ;;;
  if bad && negb (f_rxall cfg) then release_descriptor entry ;;; sret t
  else
    match packet_size status with
    | None => drop_packet entry ;;; sret t
    | Some pkt_size => receive_packet entry pkt_size t
    end.

(** The status of a descriptor, read a second time after a register read when
    the controller owns it; [None] when it still does. *)
Definition rx_status (entry : Z) : RS (option Z) :=
  r <- rx_get (fun r => r) ;;
  let status := rtl8125_rx_desc_opts1 (rx_desc_at r entry) in
  if has status DescOwn then
    (fun s => let '(l, d) := rx_flush (imr_reg0 cfg) (RxDescArray (rring s)) (rdev s) in
              (tt, set_rdev d (set_rring (set_rx_descs l (rring s)) s))) ;;;
    r <- rx_get (fun r => r) ;;
    let status := rtl8125_rx_desc_opts1 (rx_desc_at r entry) in
    sret (if has status DescOwn then None else Some status)
  else sret (Some status).

(** The loop; the result has [cur_rx]. *)
Fixpoint rx_loop (rx_left : nat) (cur : Z) (t : totals) : RS (Z * totals) :=
  match rx_left with
  | O => sret (cur, t)
  | S n =>
      num <- rx_get num_rx_desc ;;
      let entry := cur mod num in
      st <- rx_status entry ;;
      match st with
      | None => sret (cur, t)
      | Some status => t <- rx_one entry status t ;; rx_loop n (u32 (cur + 1)) t
      end
  end.

(** The number of packets received. *)
Definition rtl8125_rx_interrupt (budget : Z) : RS Z :=
  r <- rx_get (fun r => r) ;;
  let rx_left := rtl8125_rx_quota (rx_napi cfg) (u32 (num_rx_desc r + dirty_rx r - cur_rx r)) (u32 budget) in
  l <- rx_loop (Z.to_nat rx_left) (cur_rx r) (0, 0, 0) ;;
  let '(cur, (b, p, m)) := l in
  rx_upd (fun r => set_rx_idx cur (dirty_rx r) r) ;;;
  delta <- rtl8125_rx_fill (dirty_rx r) cur ;;
  rx_upd (fun r => set_rx_idx (cur_rx r) (u32 (dirty_rx r + delta)) r) ;;;
  smodify (upd_stats (add_totals b p m)) ;;;
  sret p.

(** What the reset task does with a receive ring: the indexes, and every
    descriptor back to the controller. *)
Definition reset_rx_ring (i : Z) : RS unit :=
  rx_upd (fun r => MkRxRing i 0 0 (num_rx_desc r) (RxDescArray r) (RxDescPhyAddr r) (Rx_skbuff r)) ;;;
  n <- rx_get num_rx_desc ;;
  sfor (seqZ 0 n) (fun i => rx_upd (upd_desc i (rtl8125_mark_to_asic cfg))).

End Rx.
