(* ===== verification/RtlRxSpec.v ===== *)
(** * r8125: what the receive ring guarantees

    Whatever the controller writes into the descriptors it owns, the interrupt
    handler copies no more than a buffer holds and follows no null pointer, and
    every descriptor handed to the controller points at its own mapped buffer.
    A frame is delivered, dropped or counted as an error exactly by its status.
    The reset task breaks the second guarantee for the descriptor types whose
    address the controller overwrites; the file ends with such a ring. *)
From stdpp Require Import list.
From S2P Require Import Prelude RtlBase RtlHw RtlTx RtlRss RtlRx.
Local Open Scope Z_scope.
Local Open Scope rtl_scope.

(** ** Descriptors *)

(** The controller owns the descriptor; it is the last of the ring. *)
Definition owned (d : RxDesc) : bool := has (rx_opts1 d) DescOwn.
Definition is_last (d : RxDesc) : bool := has (rx_opts1 d) RingEnd.

(** The types whose address field is used for something else on completion. *)
Definition reuses_addr (c : rx_cfg) : bool := by_type c true true false.

(** What the controller may do to a descriptor: nothing, or complete one it owns. *)
Definition hw_step (c : rx_cfg) (d d' : RxDesc) : Prop :=
  d' = d \/ (owned d = true /\ owned d' = false /\ is_last d' = is_last d /\
             (reuses_addr c = false -> rx_addr d' = rx_addr d)).

(** A descriptor for a buffer at [phy]. *)
Record desc_ok (c : rx_cfg) (last : bool) (phy : Z) (d : RxDesc) : Prop := {
  do_last : is_last d = last;
  do_addr : owned d = true \/ reuses_addr c = false -> rx_addr d = phy;
  do_size : owned d = true -> Z.land (rx_opts1 d) 0x3fff = rx_buf_sz c
}.

Lemma hw_step_ok c last phy d d' : desc_ok c last phy d -> hw_step c d d' -> desc_ok c last phy d'.
Proof.
  intros [H1 H2 H3] [->|(Ho & Hn & Hl & Ha)]; [done|]. split.
  - congruence.
  - intros [?|Hr]; [congruence|]. rewrite Ha by done. apply H2. by left.
  - congruence.
Qed.

Section Marks.
Context (c : rx_cfg) (Hsz : 0 <= rx_buf_sz c < 2 ^ 14).

Lemma sz_bit i : 14 <= i -> Z.testbit (rx_buf_sz c) i = false.
Proof. intros. by apply (testbit_high _ 14). Qed.

Lemma mark_owned d : owned (rtl8125_mark_to_asic c d) = true.
Proof.
  unfold owned. simpl. change DescOwn with (2 ^ 31). rewrite has_bit by lia.
  rewrite !Z.lor_spec, Z.pow2_bits_true by lia. done.
Qed.

Lemma mark_last d : is_last (rtl8125_mark_to_asic c d) = is_last d.
Proof.
  unfold is_last. simpl. change RingEnd with (2 ^ 30). rewrite !has_bit by lia.
  rewrite !Z.lor_spec, Z.land_spec, Z.pow2_bits_true, sz_bit by lia.
  change DescOwn with (2 ^ 31). rewrite Z.pow2_bits_false by lia. by rewrite andb_true_r, orb_false_r.
Qed.

Lemma mark_size d : Z.land (rx_opts1 (rtl8125_mark_to_asic c d)) 0x3fff = rx_buf_sz c.
Proof.
  simpl. change 0x3fff with (Z.ones 14). apply Z.bits_inj'. intros i Hi.
  rewrite Z.land_spec, Z.testbit_ones_nonneg by lia. destruct (Z.ltb_spec i 14).
  - rewrite !Z.lor_spec, Z.land_spec, andb_true_r. change DescOwn with (2 ^ 31). change RingEnd with (2 ^ 30).
    rewrite !Z.pow2_bits_false by lia. by rewrite andb_false_r.
  - by rewrite andb_false_r, sz_bit.
Qed.

Lemma mark_ok last d :
  is_last d = last -> desc_ok c last (rx_addr d) (rtl8125_mark_to_asic c d).
Proof. intros. split; [by rewrite mark_last|done|intros _; apply mark_size]. Qed.
End Marks.

(** ** The ring *)

Section Ring.
Context {D : Type} `{HK : RxKernel D}.
Variable cfg : rx_cfg.
Hypothesis Hsz : 0 <= rx_buf_sz cfg < 2 ^ 14.
Hypothesis Hflush : forall reg l (d : D), Forall2 (hw_step cfg) l (fst (rx_flush reg l d)).

(** Every slot has a buffer, and its descriptor is one for that buffer. *)
Record rx_form (r : rx_ring) : Prop := {
  rf_num : 0 < num_rx_desc r < 2 ^ 32;
  rf_descs : Z.of_nat (length (RxDescArray r)) = num_rx_desc r;
  rf_skb : forall i, 0 <= i < num_rx_desc r -> is_Some (skb_at r i);
  rf_desc : forall i, 0 <= i < num_rx_desc r ->
    desc_ok cfg (i =? num_rx_desc r - 1) (phy_at r i) (rx_desc_at r i)
}.

(** A packet came from a buffer of the ring and fits in it. *)
Definition pkt_ok (r : rx_ring) (p : rx_pkt) : Prop :=
  Z.of_nat (length (pk_data p)) <= rx_buf_sz cfg /\ exists i, 0 <= i < num_rx_desc r /\ skb_at r i = Some (pk_from p).

(** What no step of the interrupt handler changes. *)
Definition rx_same (r r' : rx_ring) : Prop :=
  num_rx_desc r' = num_rx_desc r /\ cur_rx r' = cur_rx r /\ dirty_rx r' = dirty_rx r /\
  Rx_skbuff r' = Rx_skbuff r /\ RxDescPhyAddr r' = RxDescPhyAddr r.

Record rx_inv (r0 : rx_ring) (s : rxs D) : Prop := {
  ri_form : rx_form (rring s);
  ri_same : rx_same r0 (rring s);
  ri_fault : fault s = false;
  ri_pkts : Forall (pkt_ok (rring s)) (delivered s)
}.

Lemma desc_at_insert r i j f :
  0 <= i < Z.of_nat (length (RxDescArray r)) -> 0 <= j ->
  rx_desc_at (upd_desc i f r) j = if i =? j then f (rx_desc_at r i) else rx_desc_at r j.
Proof.
  intros Hi Hj. unfold rx_desc_at at 1. unfold upd_desc. simpl. rewrite nth_lookup.
  destruct (Z.eqb_spec i j) as [<-|].
  - by rewrite list_lookup_insert_eq by lia.
  - rewrite list_lookup_insert_ne by lia. unfold rx_desc_at. by rewrite nth_lookup.
Qed.

(** Other fields than the ring. *)
Lemma inv_other r0 (s s' : rxs D) :
  rx_inv r0 s -> rring s' = rring s -> fault s' = fault s -> delivered s' = delivered s -> rx_inv r0 s'.
Proof. intros [H1 H2 H3 H4] E1 E2 E3. split; congruence. Qed.

(** Releasing an entry gives it back to the controller. *)
Lemma swp_release r0 (s : rxs D) e :
  rx_inv r0 s -> 0 <= e < num_rx_desc (rring s) ->
  swp (release_descriptor cfg e)
    (fun _ s' => rx_inv r0 s' /\ delivered s' = delivered s /\ owned (rx_desc_at (rring s') e) = true) s.
Proof.
  intros [[Hn Hl Hskb Hd] Hs Hf Hp] He. unfold release_descriptor, rx_get, rx_upd.
  set (r := rring s) in *. do 2 swp_step. fold r.
  assert (forall r1, rx_same r r1 -> length (RxDescArray r1) = length (RxDescArray r) ->
    (forall j, 0 <= j -> j <> e -> rx_desc_at r1 j = rx_desc_at r j) ->
    is_last (rx_desc_at r1 e) = (e =? num_rx_desc r - 1) -> rx_addr (rx_desc_at r1 e) = phy_at r e ->
    rx_inv r0 (set_rring (upd_desc e (rtl8125_mark_to_asic cfg) r1) s) /\ delivered s = delivered s /\
    owned (rx_desc_at (upd_desc e (rtl8125_mark_to_asic cfg) r1) e) = true) as Hend.
  { intros r1 Hsame Hlen Hother Hlast Haddr. pose proof Hsame as (E1 & E2 & E3 & E4 & E5).
    split; [|split; [done|rewrite desc_at_insert, Z.eqb_refl by lia; apply mark_owned]].
    split; simpl; [|by destruct Hs as (?&?&?&?&?); repeat split; simpl; congruence|done|].
    - split; simpl; [by rewrite E1|by rewrite length_insert, Hlen, E1|by rewrite E1; unfold skb_at in *; simpl; rewrite E4|].
      rewrite E1. intros j Hj. unfold phy_at. simpl. rewrite E5. fold (phy_at r j).
      change (set_rx_descs _ r1) with (upd_desc e (rtl8125_mark_to_asic cfg) r1).
      rewrite desc_at_insert by lia. destruct (Z.eqb_spec e j) as [<-|]; [|rewrite Hother by lia; by apply Hd].
      rewrite <-Haddr. by apply mark_ok.
    - eapply Forall_impl; [exact Hp|]. intros p [H1 (i & Hi & Hk)]. split; [done|]. exists i. simpl.
      rewrite E1. split; [done|]. unfold skb_at in *. simpl. by rewrite E4. }
  swp_step. apply swp_when; intros Ht.
  - do 2 swp_step. apply (Hend (upd_desc e (rtl8125_set_desc_dma_addr (phy_at r e)) r)); [done|simpl; by rewrite length_insert|..].
    + intros j Hj Hne. rewrite desc_at_insert by lia. destruct (Z.eqb_spec e j); [lia|done].
    + rewrite desc_at_insert, Z.eqb_refl by lia. by apply Hd.
    + rewrite desc_at_insert, Z.eqb_refl by lia. done.
  - swp_step. apply Hend; [done|done|done|by apply Hd|].
    apply Hd; [done|]. right. unfold reuses_addr. exact Ht.
Qed.

Lemma swp_drop r0 (s : rxs D) e :
  rx_inv r0 s -> 0 <= e < num_rx_desc (rring s) ->
  swp (drop_packet cfg e)
    (fun _ s' => rx_inv r0 s' /\ delivered s' = delivered s /\ owned (rx_desc_at (rring s') e) = true) s.
Proof.
  intros Hi He. unfold drop_packet. do 4 swp_step. set (s1 := upd_stats _ _).
  eapply swp_mono; [|apply (swp_release r0 s1); [by eapply inv_other|exact He]]. intros [] t [? E]. done.
Qed.

Lemma swp_check_error st r0 (s : rxs D) :
  rx_inv r0 s ->
  swp (rtl8125_check_rx_desc_error cfg st)
    (fun b s' => rx_inv r0 s' /\ rring s' = rring s /\ delivered s' = delivered s /\ rdev s' = rdev s /\
       b = has st (by_type cfg RxRES_V3 RxRES_V4 RxRES)) s.
Proof.
  intros Hi. unfold rtl8125_check_rx_desc_error, by_type.
  destruct (DescType cfg =? RX_DESC_RING_TYPE_3); [|destruct (DescType cfg =? RX_DESC_RING_TYPE_4)].
  all: repeat swp_step; (split; [by eapply inv_other|]; split_and!; try done; by symmetry).
Qed.

Lemma packet_size_bound st n : packet_size cfg st = Some n -> 0 <= n <= rx_buf_sz cfg.
Proof.
  unfold packet_size. set (p := Z.land st 0x3fff).
  assert (0 <= p) by (apply Z.land_nonneg; by right). unfold ETH_FCS_LEN.
  destruct (negb _ && negb _); [destruct (Z.ltb_spec p 4); [done|]|];
    (destruct (_ >? _) eqn:E; [done|]; simpl; destruct (rtl8125_fragmented_frame cfg st); [done|];
     intros [= <-]; rewrite Z.gtb_ltb, Z.ltb_ge in E; lia).
Qed.

Lemma swp_receive n t r0 (s : rxs D) e :
  rx_inv r0 s -> 0 <= e < num_rx_desc (rring s) -> 0 <= n <= rx_buf_sz cfg ->
  swp (receive_packet cfg e n t) (fun _ s' => rx_inv r0 s') s.
Proof.
  intros Hi He Hn. unfold receive_packet. swp_step. unfold rx_dev. unfold swp at 1.
  destruct (alloc_pkt _ (rdev s)) as [ok d]. assert (rx_inv r0 (set_rdev d s)) as Hi' by (by eapply inv_other).
  destruct ok; simpl.
  2: { swp_step. eapply swp_mono; [|by apply (swp_drop r0)]. intros [] t' [? _]. by swp_step. }
  unfold rx_get. do 2 swp_step. simpl. destruct (rf_skb _ (ri_form _ _ Hi) e He) as [id Hid]. rewrite Hid.
  do 2 swp_step. simpl. destruct (eth_type_trans _) as [len mc]. do 3 swp_step.
  eapply swp_mono; [|apply (swp_release r0); [|exact He]].
  - intros [] s' [? _]. destruct t as [[b p] m]. by swp_step.
  - destruct Hi' as [H1 H2 H3 H4]. split; [done|done|done|]. simpl. constructor; [|done].
    split; simpl; [rewrite length_take; lia|]. by exists e.
Qed.

Lemma swp_rx_one st t r0 (s : rxs D) e :
  rx_inv r0 s -> 0 <= e < num_rx_desc (rring s) ->
  swp (rx_one cfg e st t) (fun _ s' => rx_inv r0 s') s.
Proof.
  intros Hi He. unfold rx_one. swp_step. eapply swp_mono; [|by apply swp_check_error].
  intros b s1 (Hi1 & Hr & _). swp_step.
  apply (swp_mono _ (fun _ s2 => rx_inv r0 s2 /\ rring s2 = rring s)).
  2: { swp_step; [|done]. swp_step. split; [by eapply inv_other|done]. }
  intros [] s2 [Hi2 Hr2]. rewrite <-Hr2 in He. apply swp_if; intros Hb.
  - swp_step. eapply swp_mono; [|by apply (swp_release r0)]. intros [] s3 [? _]. by swp_step.
  - destruct (packet_size cfg st) as [n|] eqn:E.
    + apply swp_receive; [done|done|by apply packet_size_bound in E].
    + swp_step. eapply swp_mono; [|by apply (swp_drop r0)]. intros [] s3 [? _]. by swp_step.
Qed.

(** Writes of the controller. *)
Lemma inv_hw r0 (s : rxs D) l d :
  rx_inv r0 s -> Forall2 (hw_step cfg) (RxDescArray (rring s)) l ->
  rx_inv r0 (set_rdev d (set_rring (set_rx_descs l (rring s)) s)).
Proof.
  intros [[Hn Hl Hskb Hd] Hs Hf Hp] Hh. split; [|done|done|done]. split; simpl; [done| |done|].
  - by rewrite <-(Forall2_length _ _ _ Hh).
  - intros i Hi. eapply hw_step_ok; [by apply Hd|]. unfold rx_desc_at. simpl. rewrite !nth_lookup.
    destruct (lookup_lt_is_Some_2 (RxDescArray (rring s)) (Z.to_nat i)) as [x Hx]; [lia|].
    destruct (Forall2_lookup_l _ _ _ _ _ Hh Hx) as (y & Hy & Hxy). by rewrite Hx, Hy.
Qed.

Lemma swp_rx_status e r0 (s : rxs D) :
  rx_inv r0 s -> swp (rx_status cfg e) (fun _ s' => rx_inv r0 s') s.
Proof.
  intros Hi. unfold rx_status, rx_get. do 2 swp_step. apply swp_if; intros _; [|by swp_step].
  swp_step. unfold swp at 1. pose proof (Hflush (imr_reg0 cfg) (RxDescArray (rring s)) (rdev s)) as Hh.
  destruct (rx_flush _ _ _) as [l d]. do 2 swp_step. swp_step. by apply inv_hw.
Qed.

Lemma swp_rx_loop n cur t r0 (s : rxs D) :
  rx_inv r0 s -> 0 <= cur < 2 ^ 32 ->
  swp (rx_loop cfg n cur t) (fun p s' => rx_inv r0 s' /\ 0 <= fst p < 2 ^ 32) s.
Proof.
  revert cur t s. induction n as [|n IH]; intros cur t s Hi Hc; simpl; [by swp_step|].
  unfold rx_get. do 3 swp_step. eapply swp_mono; [|by apply swp_rx_status].
  intros [st|] s1 Hi1; [|by swp_step]. swp_step.
  assert (num_rx_desc (rring s) = num_rx_desc (rring s1)) as ->.
  { destruct (ri_same _ _ Hi) as [-> _], (ri_same _ _ Hi1) as [-> _]. done. }
  eapply swp_mono; [|apply swp_rx_one; [done|apply Z.mod_pos_bound, (rf_num _ (ri_form _ _ Hi1))]].
  intros t2 s2 Hi2. apply IH; [done|apply u32_range].
Qed.

(** A ring that lacks no buffer is left as it is by refilling. *)
Lemma rx_fill_loop_full n cur (s : rxs D) :
  rx_form (rring s) -> 0 <= cur < 2 ^ 32 ->
  rx_fill_loop cfg n cur s = (u32 (cur + Z.of_nat n), s).
Proof.
  intros [Hn Hl Hskb Hd]. revert cur. induction n as [|n IH]; intros cur Hc; simpl.
  - unfold u32. rewrite wrap_small by lia. by rewrite Z.add_0_r.
  - unfold sbind at 1, rx_get, sgets. destruct (Hskb (cur mod num_rx_desc (rring s))) as [id ->].
    { apply Z.mod_pos_bound. lia. }
    rewrite IH by apply u32_range. f_equal. unfold u32, wrap. rewrite Zplus_mod_idemp_l. f_equal. lia.
Qed.

Lemma rx_fill_full a b (s : rxs D) :
  rx_form (rring s) -> 0 <= a < 2 ^ 32 -> rtl8125_rx_fill cfg a b s = (u32 (b - a), s).
Proof.
  intros Hf Ha. unfold rtl8125_rx_fill, sbind. rewrite rx_fill_loop_full by done. simpl.
  pose proof (u32_range (b - a)). unfold sret. f_equal. rewrite Z2Nat.id by lia. unfold u32, wrap.
  rewrite Zminus_mod_idemp_l. replace (a + _ - a) with ((b - a) mod 2 ^ 32) by lia. by rewrite Z.mod_mod.
Qed.

(** What holds between calls. *)
Definition rx_ok (s : rxs D) : Prop :=
  rx_inv (rring s) s /\ dirty_rx (rring s) = cur_rx (rring s) /\ 0 <= cur_rx (rring s) < 2 ^ 32.

Lemma form_idx r r' :
  num_rx_desc r' = num_rx_desc r -> Rx_skbuff r' = Rx_skbuff r -> RxDescPhyAddr r' = RxDescPhyAddr r ->
  RxDescArray r' = RxDescArray r -> rx_form r -> rx_form r'.
Proof.
  intros E1 E2 E3 E4 [Hn Hl Hs Hd].
  split; unfold skb_at, phy_at, rx_desc_at in *; rewrite ?E1, ?E2, ?E3, ?E4; done.
Qed.

Lemma pkts_idx r r' l :
  num_rx_desc r' = num_rx_desc r -> Rx_skbuff r' = Rx_skbuff r -> Forall (pkt_ok r) l -> Forall (pkt_ok r') l.
Proof. intros E1 E2. unfold pkt_ok, skb_at. by rewrite E1, E2. Qed.

Lemma swp_rx_interrupt budget (s : rxs D) :
  rx_ok s -> swp (rtl8125_rx_interrupt cfg budget) (fun _ s' => rx_ok s') s.
Proof.
  intros (Hi & Hcd & Hc). unfold rtl8125_rx_interrupt, rx_get, rx_upd. do 3 swp_step.
  eapply swp_mono; [|apply (swp_rx_loop _ _ _ (rring s)); [done|done]].
  intros [cur [[b p] m]] s1 [[Hf1 Hs1 Hfl1 Hp1] Hcur]. simpl in Hcur. destruct Hs1 as (E1 & E2 & E3 & E4 & E5).
  do 3 swp_step. set (s2 := set_rring _ s1).
  assert (rx_form (rring s2)) as Hf2 by (eapply form_idx; [..|exact Hf1]; try done; simpl).
  unfold swp at 1. rewrite rx_fill_full; [|done|lia]. do 4 swp_step. swp_step.
  assert (u32 (dirty_rx (rring s1) + u32 (cur - dirty_rx (rring s))) = cur) as Ed.
  { rewrite E3. unfold u32, wrap. rewrite Zplus_mod_idemp_r.
    replace (dirty_rx (rring s) + (cur - dirty_rx (rring s))) with cur by lia. by apply Z.mod_small. }
  split; [|split; simpl; [exact Ed|done]]. split; simpl; [|done|done|].
  - by eapply form_idx, Hf1.
  - by eapply pkts_idx, Hp1.
Qed.

(** ** Setting up *)

(** The first [k] slots are filled, the others are empty. *)
Record filled (k : Z) (r : rx_ring) : Prop := {
  fi_num : 0 < num_rx_desc r < 2 ^ 32;
  fi_descs : Z.of_nat (length (RxDescArray r)) = num_rx_desc r;
  fi_skbs : Z.of_nat (length (Rx_skbuff r)) = num_rx_desc r;
  fi_phys : num_rx_desc r <= Z.of_nat (length (RxDescPhyAddr r));
  fi_done : forall i, 0 <= i < k -> is_Some (skb_at r i) /\ desc_ok cfg false (phy_at r i) (rx_desc_at r i);
  fi_todo : forall i, k <= i < num_rx_desc r -> skb_at r i = None /\ is_last (rx_desc_at r i) = false
}.

(** The parts of the state setting up does not touch. *)
Definition rx_quiet (s s' : rxs D) : Prop :=
  fault s' = fault s /\ delivered s' = delivered s /\ num_rx_desc (rring s') = num_rx_desc (rring s) /\
  cur_rx (rring s') = cur_rx (rring s) /\ dirty_rx (rring s') = dirty_rx (rring s).

#[local] Instance rx_quiet_preorder : PreOrder rx_quiet.
Proof. split; [done|]. intros s t u (?&?&?&?&?) (?&?&?&?&?). repeat split; congruence. Qed.

Lemma filled_next k id m r :
  filled k r -> 0 <= k < num_rx_desc r ->
  filled (k + 1) (upd_desc k (rtl8125_mark_to_asic cfg)
    (upd_desc k (rtl8125_set_desc_dma_addr m) (put_phy k m (put_skb k (Some id) r)))).
Proof.
  intros [Hn Hl Hs Hp Hd Ht] Hk. set (r1 := put_phy k m (put_skb k (Some id) r)).
  set (r2 := upd_desc k (rtl8125_set_desc_dma_addr m) r1).
  assert (forall i, 0 <= i -> skb_at r1 i = if k =? i then Some id else skb_at r i) as Hskb.
  { intros i Hi. unfold skb_at, r1. simpl. rewrite !nth_lookup. destruct (Z.eqb_spec k i) as [<-|].
    - by rewrite list_lookup_insert_eq by lia.
    - by rewrite list_lookup_insert_ne by lia. }
  assert (forall i, 0 <= i -> phy_at r1 i = if k =? i then m else phy_at r i) as Hphy.
  { intros i Hi. unfold phy_at, r1. simpl. rewrite !nth_lookup. destruct (Z.eqb_spec k i) as [<-|].
    - by rewrite list_lookup_insert_eq by lia.
    - by rewrite list_lookup_insert_ne by lia. }
  assert (forall i, 0 <= i -> rx_desc_at (upd_desc k (rtl8125_mark_to_asic cfg) r2) i =
    if k =? i then rtl8125_mark_to_asic cfg (rtl8125_set_desc_dma_addr m (rx_desc_at r k)) else rx_desc_at r i) as Hdesc.
  { intros i Hi. rewrite desc_at_insert by (unfold r2, r1; simpl; rewrite ?length_insert; lia).
    unfold r2. rewrite !desc_at_insert by (unfold r1; simpl; lia). rewrite Z.eqb_refl. by destruct (k =? i). }
  split; simpl; rewrite ?length_insert; [done|done|done|done| |].
  - intros i Hi. change (skb_at _ i) with (skb_at r1 i). change (phy_at _ i) with (phy_at r1 i).
    rewrite Hskb, Hphy, Hdesc by lia. destruct (Z.eqb_spec k i) as [<-|].
    + split; [done|]. apply (mark_ok cfg Hsz false (rtl8125_set_desc_dma_addr m (rx_desc_at r k))).
      exact (proj2 (Ht k ltac:(lia))).
    + apply Hd. lia.
  - intros i Hi. change (skb_at _ i) with (skb_at r1 i). rewrite Hskb, Hdesc by lia.
    destruct (Z.eqb_spec k i); [lia|]. apply Ht. lia.
Qed.

Lemma swp_alloc k (s : rxs D) :
  filled k (rring s) -> 0 <= k < num_rx_desc (rring s) ->
  swp (rtl8125_alloc_rx_skb cfg k)
    (fun ok s' => rx_quiet s s' /\ (ok = true -> filled (k + 1) (rring s'))) s.
Proof.
  intros Hf Hk. unfold rtl8125_alloc_rx_skb, rx_dev, rx_upd. swp_step. unfold swp at 1.
  destruct (alloc_buf _ (rdev s)) as [[id|] d]; [|by repeat swp_step].
  swp_step. unfold swp at 1. destruct (map_buf _ _ _) as [[m|] d']; [|by repeat swp_step].
  unfold rtl8125_map_to_asic, rx_upd. repeat swp_step. split; [done|]. intros _. simpl.
  by apply filled_next.
Qed.

Lemma swp_fill_loop n k (s : rxs D) :
  filled k (rring s) -> 0 <= k -> k + Z.of_nat n = num_rx_desc (rring s) ->
  swp (rx_fill_loop cfg n k)
    (fun c s' => rx_quiet s s' /\ 0 <= c <= num_rx_desc (rring s) /\
       (c = num_rx_desc (rring s) -> filled c (rring s'))) s.
Proof.
  revert k s. induction n as [|n IH]; intros k s Hf Hk Hn; simpl.
  { swp_step. split; [reflexivity|]. split; [lia|]. done. }
  unfold rx_get. do 2 swp_step. pose proof (fi_num _ _ Hf) as Hnum.
  rewrite Z.mod_small by lia. destruct (fi_todo _ _ Hf k ltac:(lia)) as [-> _].
  swp_step. eapply swp_mono; [|apply swp_alloc; [done|lia]]. intros ok t [Hq Hok].
  apply swp_if; intros ->.
  - pose proof Hq as (_ & _ & En & _). unfold u32. rewrite wrap_small by lia.
    eapply swp_mono; [|apply IH; [by apply Hok|lia|lia]]. intros c u (Hq' & Hc & Hfin). rewrite En in *.
    split; [by etransitivity|]. done.
  - swp_step. split; [done|]. split; [lia|]. lia.
Qed.

Lemma last_marked r :
  filled (num_rx_desc r) r -> rx_form (upd_desc (num_rx_desc r - 1) rtl8125_mark_as_last_descriptor r).
Proof.
  intros [Hn Hl Hs Hp Hd _]. split; simpl; [done|by rewrite length_insert|by intros i Hi; apply Hd|].
  intros i Hi. change (set_rx_descs _ r) with (upd_desc (num_rx_desc r - 1) rtl8125_mark_as_last_descriptor r).
  rewrite desc_at_insert by lia. rewrite (Z.eqb_sym i). destruct (Z.eqb_spec (num_rx_desc r - 1) i) as [<-|].
  2: { by apply Hd. }
  destruct (Hd (num_rx_desc r - 1)) as [_ [H1 H2 H3]]; [lia|]. split.
  - unfold is_last. simpl. change RingEnd with (2 ^ 30). rewrite has_bit by lia.
    rewrite Z.lor_spec, Z.pow2_bits_true by lia. apply orb_true_r.
  - intros Ho. apply H2. destruct Ho as [Ho|]; [left|by right]. revert Ho. unfold owned. simpl.
    change DescOwn with (2 ^ 31). change RingEnd with (2 ^ 30). rewrite !has_bit, Z.lor_spec by lia.
    rewrite Z.pow2_bits_false by lia. by rewrite orb_false_r.
  - unfold owned. simpl. intros Ho. rewrite Z.land_lor_distr_l. change (Z.land RingEnd 0x3fff) with 0.
    rewrite Z.lor_0_r. apply H3. revert Ho. unfold owned. change DescOwn with (2 ^ 31).
    change RingEnd with (2 ^ 30). rewrite !has_bit, Z.lor_spec, Z.pow2_bits_false by lia. by rewrite orb_false_r.
Qed.

Lemma init_rx_ok i (s : rxs D) :
  0 < num_rx_desc (rring s) < 2 ^ 32 -> num_rx_desc (rring s) <= Z.of_nat (length (RxDescPhyAddr (rring s))) ->
  fault s = false -> delivered s = [] ->
  swp (init_rx_ring cfg i) (fun ok s' => ok = true -> rx_ok s') s.
Proof.
  intros Hn Hp Hf Hd. unfold init_rx_ring, rx_upd, rx_get. do 8 swp_step. set (s1 := set_rring _ _).
  assert (filled 0 (rring s1)) as H0.
  { split; simpl; [done|rewrite length_replicate; lia|rewrite length_replicate; lia|done|lia|].
    intros j Hj. unfold skb_at, rx_desc_at. simpl. rewrite !nth_lookup, !lookup_replicate_2 by lia. done. }
  swp_step. unfold rtl8125_rx_fill. swp_step.
  change (num_rx_desc (rring s1)) with (num_rx_desc (rring s)).
  eapply swp_mono; [|apply swp_fill_loop; [exact H0|done|]].
  2: { change (num_rx_desc (rring s1)) with (num_rx_desc (rring s)). rewrite Z.sub_0_r. unfold u32.
       rewrite wrap_small by lia. lia. }
  change (num_rx_desc (rring s1)) with (num_rx_desc (rring s)).
  intros c t (Hq & Hc & Hfin). swp_step. apply swp_if; intros Hcn.
  { swp_step. unfold swp at 1. destruct (_rtl8125_rx_clear cfg t) as [[] u]. by swp_step. }
  apply negb_false_iff, Z.eqb_eq in Hcn. rewrite Z.sub_0_r in Hcn. unfold u32 in Hcn. rewrite wrap_small in Hcn by lia.
  subst c. destruct Hq as (E1 & E2 & E3 & E4 & E5). do 2 swp_step. swp_step. intros _.
  specialize (Hfin eq_refl). change (num_rx_desc (rring s1)) with (num_rx_desc (rring s)) in E3. rewrite <-E3 in Hfin.
  split; [|split; simpl; [by rewrite E4, E5|by rewrite E4]]. split; simpl.
  - rewrite <-E3. by apply last_marked.
  - done.
  - by rewrite E1.
  - rewrite E2. simpl. by rewrite Hd.
Qed.

(** ** Sequences of events *)

(** The interrupt handler runs, or the controller completes descriptors. *)
Inductive rx_event :=
  | RxInterrupt (budget : Z)
  | RxHardware (f : list RxDesc -> list RxDesc) (g : D -> D).

Definition run_rx_event (e : rx_event) : St (rxs D) unit :=
  match e with
  | RxInterrupt budget => _ <- rtl8125_rx_interrupt cfg budget ;; sret tt
  | RxHardware f g =>
      smodify (fun s => set_rdev (g (rdev s)) (set_rring (set_rx_descs (f (RxDescArray (rring s))) (rring s)) s))
  end.

Definition rx_event_ok (e : rx_event) : Prop :=
  match e with
  | RxInterrupt _ => True
  | RxHardware f _ => forall l, Forall2 (hw_step cfg) l (f l)
  end.

Lemma swp_rx_events l (s : rxs D) :
  Forall rx_event_ok l -> rx_ok s -> swp (sfor l run_rx_event) (fun _ => rx_ok) s.
Proof.
  intros Hl Hs. apply swp_for; [done|]. intros e t He (Hi & Hcd & Hc).
  rewrite Forall_forall in Hl. specialize (Hl e He). destruct e as [b|f g]; simpl in *.
  - swp_step. eapply swp_mono; [|by apply swp_rx_interrupt]. intros a u Hu. by swp_step.
  - swp_step. split; [|done]. pose proof (inv_hw (rring t) t _ (g (rdev t)) Hi (Hl _)) as [H1 _ H3 H4]. done.
Qed.


(** ** One frame *)

Lemma land_both st a b : 0 <= a -> 0 <= b ->
  Z.land st (Z.lor (2 ^ a) (2 ^ b)) = Z.lor (2 ^ a) (2 ^ b) -> has st (2 ^ b) = true.
Proof.
  intros Ha Hb E. rewrite has_bit by done. apply (f_equal (fun z => Z.testbit z b)) in E.
  rewrite Z.land_spec, Z.lor_spec, (Z.pow2_bits_true b), orb_true_r, andb_true_r in E by done. done.
Qed.

Lemma whole_frame_eop st : rtl8125_fragmented_frame cfg st = false -> rtl8125_is_non_eop cfg st = false.
Proof.
  unfold rtl8125_fragmented_frame, rtl8125_is_non_eop, by_type. rewrite !negb_false_iff, Z.eqb_eq.
  destruct (DescType cfg =? RX_DESC_RING_TYPE_3); [|destruct (DescType cfg =? RX_DESC_RING_TYPE_4)].
  - by apply (land_both st 25 24).
  - by apply (land_both st 29 28).
  - by apply (land_both st 29 28).
Qed.

Lemma packet_size_iff st n :
  f_rxfcs cfg = false ->
  packet_size cfg st = Some n <->
  rtl8125_fragmented_frame cfg st = false /\ n = Z.land st 0x3fff - 4 /\ 0 <= n <= rx_buf_sz cfg.
Proof.
  intros Hfcs. unfold packet_size. rewrite Hfcs. unfold ETH_FCS_LEN. set (p := Z.land st 0x3fff).
  pose proof (whole_frame_eop st) as Heop. destruct (rtl8125_fragmented_frame cfg st).
  - split; [|intros [? _]; done]. destruct (negb false && _); [destruct (p <? 4); [done|]|];
      by rewrite orb_true_r.
  - rewrite Heop by done. simpl. destruct (Z.ltb_spec p 4); [split; [done|lia]|].
    rewrite orb_false_r, Z.gtb_ltb. destruct (Z.ltb_spec (rx_buf_sz cfg) (p - 4)); [split; [done|lia]|].
    split; [intros [= <-]; lia|]. intros (_ & -> & _). done.
Qed.

(** C18: A frame is received exactly by its status.  With the features for
    damaged frames and checksums off, the handler delivers a frame if and only
    if the controller reports no error, it is whole, it is long enough to have
    a checksum and fits in the buffer without it, and a packet can be
    allocated; the packet then has the bytes of that buffer without the
    checksum.  In every case the descriptor is the controller's again. *)
Theorem rx_frame_outcome r0 (s : rxs D) e st t t' s' :
  rx_inv r0 s -> 0 <= e < num_rx_desc (rring s) -> f_rxall cfg = false -> f_rxfcs cfg = false ->
  rx_one cfg e st t s = (t', s') ->
  let n := Z.land st 0x3fff - 4 in
  owned (rx_desc_at (rring s') e) = true /\
  if negb (has st (by_type cfg RxRES_V3 RxRES_V4 RxRES)) && negb (rtl8125_fragmented_frame cfg st)
     && (0 <=? n) && (n <=? rx_buf_sz cfg) && fst (alloc_pkt n (rdev s))
  then exists id, skb_at (rring s) e = Some id /\
    delivered s' = MkPkt id (take (Z.to_nat n) (buf_bytes id (snd (alloc_pkt n (rdev s)))))
                         (rtl8125_rx_csum cfg (rx_desc_at (rring s) e)) :: delivered s
  else delivered s' = delivered s.
Proof.
  intros Hi He Hall Hfcs E n. swp_start E. unfold rx_one. swp_step.
  eapply swp_mono; [|by apply swp_check_error]. intros bad s1 (Hi1 & Hr1 & Hd1 & Hv1 & ->). swp_step.
  set (bad := has st _).
  apply (swp_mono _ (fun _ s2 => rx_inv r0 s2 /\ rring s2 = rring s /\ delivered s2 = delivered s /\ rdev s2 = rdev s)).
  2: { swp_step; [|done]. swp_step. split; [by eapply inv_other|done]. }
  intros [] s2 (Hi2 & Hr2 & Hd2 & Hv2). rewrite Hall, andb_true_r. rewrite <-Hr2 in He.
  destruct bad; simpl.
  { swp_step. eapply swp_mono; [|by apply (swp_release r0)]. intros [] s3 (_ & Hd3 & Ho). swp_step.
    split; [done|congruence]. }
  pose proof (packet_size_iff st) as Hp. destruct (packet_size cfg st) as [n'|] eqn:Ep.
  - destruct (proj1 (Hp n' Hfcs) eq_refl) as (Hfr & -> & Hn). fold n in Hn |- *. rewrite Hfr. simpl.
    rewrite (proj2 (Z.leb_le 0 n)), (proj2 (Z.leb_le n _)) by lia. simpl.
    unfold receive_packet, R8125_RX_ALIGN. rewrite Z.add_0_r. swp_step. unfold rx_dev. unfold swp at 1.
    rewrite Hv2. destruct (alloc_pkt n (rdev s)) as [ok d]. destruct ok; simpl.
    + unfold rx_get. do 2 swp_step. simpl. destruct (rf_skb _ (ri_form _ _ Hi2) e He) as [id Hid]. rewrite Hid.
      do 2 swp_step. simpl. destruct (eth_type_trans _) as [len mc]. do 3 swp_step.
      eapply swp_mono; [|apply (swp_release r0); [|exact He]].
      * intros [] s3 (_ & Hd3 & Ho). destruct t as [[b p] m]. swp_step. split; [done|]. exists id.
        rewrite <-Hr2. split; [done|]. rewrite Hd3. simpl. by rewrite Hd2.
      * destruct Hi2 as [H1 H2 H3 H4]. split; [done|done|done|]. simpl. constructor; [|done].
        split; simpl; [rewrite length_take; lia|]. by exists e.
    + swp_step. eapply swp_mono; [|apply (swp_drop r0); [by eapply inv_other|exact He]].
      intros [] s3 (_ & Hd3 & Ho). swp_step. split; [done|]. by rewrite Hd3.
  - swp_step. eapply swp_mono; [|by apply (swp_drop r0)]. intros [] s3 (_ & Hd3 & Ho). swp_step.
    split; [done|]. destruct (_ && _) eqn:Ec; [|congruence]. exfalso.
    rewrite !andb_true_iff, negb_true_iff, !Z.leb_le in Ec. destruct Ec as [[[Hfr H0] H1] _].
    assert (None = Some n) as Hx by (by apply (Hp n Hfcs)). done.
Qed.
End Ring.

(** ** On a concrete ring *)

(** Buffers are numbered from the state of the kernel, mapped apart from each
    other, and full of their own number. *)
#[export] Instance toy_kernel : RxKernel Z := {
  alloc_buf _ d := (Some d, d + 1);
  map_buf id _ d := (Some (0x10000 + 0x1000 * id), d);
  unmap_buf _ d := d;
  alloc_pkt _ d := (true, d);
  buf_bytes id _ := replicate 2048 id;
  eth_type_trans l := (Z.of_nat (length l) - 14, false);
  rx_flush _ l d := (l, d)
}.

Definition toy_rx_cfg : rx_cfg := MkRxCfg RX_DESC_RING_TYPE_4 2048 false false 0 false.

Definition toy_rx : rxs Z :=
  MkRxs (MkRxRing 0 0 0 4 [] (replicate 4 0) []) (MkRxStats 0 0 0 0 0 0 0) [] [] false 7.

(** The controller completes the first descriptor with a whole frame of 64
    bytes and overwrites the address. *)
Definition frame64 : Z := Z.lor (Z.lor FirstFrag_V4 LastFrag_V4) 68.

Definition complete (d : RxDesc) : RxDesc :=
  if owned d then MkRxDesc (Z.lor frame64 (Z.land (rx_opts1 d) RingEnd)) 0 0xdead else d.

Definition complete_first (l : list RxDesc) : list RxDesc :=
  match l with d :: l' => complete d :: l' | [] => [] end.

Lemma complete_ok l : Forall2 (hw_step toy_rx_cfg) l (complete_first l).
Proof.
  assert (forall l', Forall2 (hw_step toy_rx_cfg) l' l') as Hrefl by (intros; apply Forall_Forall2_diag, Forall_true; by left).
  destruct l as [|d l]; [constructor|]. simpl. constructor; [|apply Hrefl]. unfold complete.
  destruct (owned d) eqn:E; [|by left]. right. split; [done|]. unfold owned, is_last. simpl.
  change DescOwn with (2 ^ 31). change RingEnd with (2 ^ 30). rewrite !has_bit by lia.
  rewrite !Z.lor_spec, !Z.land_spec, (Z.pow2_bits_true 30), (Z.pow2_bits_false 30 31) by lia.
  rewrite andb_false_r, andb_true_r. done.
Qed.

Definition toy_ready : rxs Z := snd (init_rx_ring toy_rx_cfg 0 toy_rx).

Definition toy_events : list (rx_event (D:=Z)) := [RxHardware complete_first id; RxInterrupt 64].

Definition toy_run : rxs Z := snd (sfor toy_events (run_rx_event toy_rx_cfg) toy_ready).

Lemma toy_flush reg l (d : Z) : Forall2 (hw_step toy_rx_cfg) l (fst (rx_flush reg l d)).
Proof. apply Forall_Forall2_diag, Forall_true. by left. Qed.

Lemma toy_ready_run : init_rx_ring toy_rx_cfg 0 toy_rx = (true, toy_ready).
Proof. vm_compute. reflexivity. Qed.

Lemma toy_events_run : sfor toy_events (run_rx_event toy_rx_cfg) toy_ready = (tt, toy_run).
Proof. unfold toy_run. by destruct (sfor _ _ _) as [[] t]. Qed.


(** The same frame in the second slot. *)
Lemma rx_frame_outcome_witness :
  exists s', rx_one toy_rx_cfg 1 frame64 (0, 0, 0) toy_ready = (50, 1, 0, s') /\
    owned (rx_desc_at (rring s') 1) = true /\ delivered s' = [MkPkt 8 (replicate 64 8) false].
Proof.
  destruct (rx_one toy_rx_cfg 1 frame64 (0, 0, 0) toy_ready) as [t' s'] eqn:E. exists s'.
  assert (t' = (50, 1, 0)) as -> by (apply (f_equal fst) in E; vm_compute in E; by rewrite E).
  assert (0 <= rx_buf_sz toy_rx_cfg < 2 ^ 14) as H4 by (simpl; lia).
  assert (rx_ok toy_rx_cfg toy_ready) as [Hi _].
  { refine (swp_run _ _ _ _ _ (init_rx_ok toy_rx_cfg H4 0 toy_rx _ _ eq_refl eq_refl) toy_ready_run eq_refl);
      simpl; lia. }
  assert (0 <= 1 < num_rx_desc (rring toy_ready)) as H1 by (vm_compute; done).
  destruct (rx_frame_outcome toy_rx_cfg H4 _ toy_ready 1 frame64 (0, 0, 0) _ s' Hi H1 eq_refl eq_refl E)
    as [Ho H].
  split; [reflexivity|]. split; [exact Ho|]. revert H. generalize (delivered s'). intros dl H.
  vm_compute in H. destruct H as (id & [= <-] & ->). vm_compute. reflexivity.
Defined.

(** ** The reset task *)

(** A frame the driver has not taken yet when the reset task runs: its
    descriptor is handed to the controller again, with the bytes the controller
    had written in place of the address. *)
Lemma reset_hands_out_stale_address :
  let s := snd (reset_rx_ring toy_rx_cfg 0
    (snd (run_rx_event toy_rx_cfg (RxHardware complete_first id) toy_ready))) in
  owned (rx_desc_at (rring s) 0) = true /\
  rx_addr (rx_desc_at (rring s) 0) = 0xdead /\ phy_at (rring s) 0 = 0x17000.
Proof. vm_compute. repeat split. Qed.
