(* ===== verification/Rtl8126Code.v ===== *)
(** * r8126: the microcode tables

    The constant arrays of src/.../realtek/r8126/r8126_n.c, word for word, as in
    [RtlRamCode]: the patches of the PHY microcontroller as address/value pairs
    with an end mark, and the [mcu_patch_code] of each [rtl8126_set_mac_mcu_*]. *)
From S2P Require Import Prelude RtlRamCode.
Local Open Scope Z_scope.

(** ** PHY *)

Definition phy_mcu_ram_code_8126a_1_1 : list Z := [
  0xa436; 0x8023; 0xa438; 0x4900; 0xa436; 0xB82E; 0xa438; 0x0001; 0xBFBA; 0xE000; 0xBF1A; 0xC1B9;
  0xBFA8; 0x10F0; 0xBFB0; 0x0210; 0xBFB4; 0xE7E4; 0xb820; 0x0090; 0xa436; 0xA016; 0xa438; 0x0000;
  0xa436; 0xA012; 0xa438; 0x0000; 0xa436; 0xA014; 0xa438; 0x1800; 0xa438; 0x8010; 0xa438; 0x1800;
  0xa438; 0x8062; 0xa438; 0x1800; 0xa438; 0x8069; 0xa438; 0x1800; 0xa438; 0x80e2; 0xa438; 0x1800;
  0xa438; 0x80eb; 0xa438; 0x1800; 0xa438; 0x80f5; 0xa438; 0x1800; 0xa438; 0x811b; 0xa438; 0x1800;
  0xa438; 0x8120; 0xa438; 0xd500; 0xa438; 0xd049; 0xa438; 0xd1b9; 0xa438; 0xa208; 0xa438; 0x8208;
  0xa438; 0xd503; 0xa438; 0xa104; 0xa438; 0x0c07; 0xa438; 0x0902; 0xa438; 0xd500; 0xa438; 0xbc10;
  0xa438; 0xc484; 0xa438; 0xd503; 0xa438; 0xcc02; 0xa438; 0xcd0d; 0xa438; 0xaf01; 0xa438; 0xd500;
  0xa438; 0xd703; 0xa438; 0x4531; 0xa438; 0xbd08; 0xa438; 0x1000; 0xa438; 0x16bb; 0xa438; 0xd75e;
  0xa438; 0x5fb3; 0xa438; 0xd503; 0xa438; 0xd04d; 0xa438; 0xd1c7; 0xa438; 0x0cf0; 0xa438; 0x0e10;
  0xa438; 0xd704; 0xa438; 0x5ffc; 0xa438; 0xd04d; 0xa438; 0xd1c7; 0xa438; 0x0cf0; 0xa438; 0x0e20;
  0xa438; 0xd704; 0xa438; 0x5ffc; 0xa438; 0xd04d; 0xa438; 0xd1c7; 0xa438; 0x0cf0; 0xa438; 0x0e40;
  0xa438; 0xd704; 0xa438; 0x5ffc; 0xa438; 0xd04d; 0xa438; 0xd1c7; 0xa438; 0x0cf0; 0xa438; 0x0e80;
  0xa438; 0xd704; 0xa438; 0x5ffc; 0xa438; 0xd07b; 0xa438; 0xd1c5; 0xa438; 0x8ef0; 0xa438; 0xd704;
  0xa438; 0x5ffc; 0xa438; 0x9d08; 0xa438; 0x1000; 0xa438; 0x16bb; 0xa438; 0xd75e; 0xa438; 0x7fb3;
  0xa438; 0x1000; 0xa438; 0x16bb; 0xa438; 0xd75e; 0xa438; 0x5fad; 0xa438; 0x1000; 0xa438; 0x181f;
  0xa438; 0xd703; 0xa438; 0x3181; 0xa438; 0x8059; 0xa438; 0x60ad; 0xa438; 0x1000; 0xa438; 0x16bb;
  0xa438; 0xd703; 0xa438; 0x5fbb; 0xa438; 0x1000; 0xa438; 0x16bb; 0xa438; 0xd719; 0xa438; 0x7fa8;
  0xa438; 0xd500; 0xa438; 0xd049; 0xa438; 0xd1b9; 0xa438; 0x1800; 0xa438; 0x0f0b; 0xa438; 0xd500;
  0xa438; 0xd07b; 0xa438; 0xd1b5; 0xa438; 0xd0f6; 0xa438; 0xd1c5; 0xa438; 0x1800; 0xa438; 0x1049;
  0xa438; 0xd707; 0xa438; 0x4121; 0xa438; 0xd706; 0xa438; 0x40fa; 0xa438; 0xd099; 0xa438; 0xd1c6;
  0xa438; 0x1000; 0xa438; 0x16bb; 0xa438; 0xd704; 0xa438; 0x5fbc; 0xa438; 0xbc80; 0xa438; 0xc489;
  0xa438; 0xd503; 0xa438; 0xcc08; 0xa438; 0xcd46; 0xa438; 0xaf01; 0xa438; 0xd500; 0xa438; 0x1000;
  0xa438; 0x0903; 0xa438; 0x1000; 0xa438; 0x16bb; 0xa438; 0xd75e; 0xa438; 0x5f6d; 0xa438; 0x1000;
  0xa438; 0x181f; 0xa438; 0xd504; 0xa438; 0xa210; 0xa438; 0xd500; 0xa438; 0x1000; 0xa438; 0x16bb;
  0xa438; 0xd719; 0xa438; 0x5fbc; 0xa438; 0xd504; 0xa438; 0x8210; 0xa438; 0xd503; 0xa438; 0xc6d0;
  0xa438; 0xa521; 0xa438; 0xcd49; 0xa438; 0xaf01; 0xa438; 0xd504; 0xa438; 0xa220; 0xa438; 0xd500;
  0xa438; 0x1000; 0xa438; 0x16bb; 0xa438; 0xd75e; 0xa438; 0x5fad; 0xa438; 0x1000; 0xa438; 0x181f;
  0xa438; 0xd503; 0xa438; 0xa704; 0xa438; 0x0c07; 0xa438; 0x0904; 0xa438; 0xd504; 0xa438; 0xa102;
  0xa438; 0xd500; 0xa438; 0x1000; 0xa438; 0x16bb; 0xa438; 0xd718; 0xa438; 0x5fab; 0xa438; 0xd503;
  0xa438; 0xc6f0; 0xa438; 0xa521; 0xa438; 0xd505; 0xa438; 0xa404; 0xa438; 0xd500; 0xa438; 0xd701;
  0xa438; 0x6085; 0xa438; 0xd504; 0xa438; 0xc9f1; 0xa438; 0xf003; 0xa438; 0xd504; 0xa438; 0xc9f0;
  0xa438; 0xd503; 0xa438; 0xcd4a; 0xa438; 0xaf01; 0xa438; 0xd500; 0xa438; 0xd504; 0xa438; 0xa802;
  0xa438; 0xd500; 0xa438; 0x1000; 0xa438; 0x16bb; 0xa438; 0xd707; 0xa438; 0x5fb1; 0xa438; 0xd707;
  0xa438; 0x5f10; 0xa438; 0xd505; 0xa438; 0xa402; 0xa438; 0xd503; 0xa438; 0xd707; 0xa438; 0x41a1;
  0xa438; 0xd706; 0xa438; 0x60ba; 0xa438; 0x60fc; 0xa438; 0x0c07; 0xa438; 0x0204; 0xa438; 0xf009;
  0xa438; 0x0c07; 0xa438; 0x0202; 0xa438; 0xf006; 0xa438; 0x0c07; 0xa438; 0x0206; 0xa438; 0xf003;
  0xa438; 0x0c07; 0xa438; 0x0202; 0xa438; 0xd500; 0xa438; 0xd703; 0xa438; 0x3181; 0xa438; 0x80e0;
  0xa438; 0x616d; 0xa438; 0xd701; 0xa438; 0x6065; 0xa438; 0x1800; 0xa438; 0x1229; 0xa438; 0x1000;
  0xa438; 0x16bb; 0xa438; 0xd707; 0xa438; 0x6061; 0xa438; 0xd704; 0xa438; 0x5f7c; 0xa438; 0x1800;
  0xa438; 0x124a; 0xa438; 0xd504; 0xa438; 0x8c0f; 0xa438; 0xd505; 0xa438; 0xa20e; 0xa438; 0xd500;
  0xa438; 0x1000; 0xa438; 0x1871; 0xa438; 0x1800; 0xa438; 0x1899; 0xa438; 0xd70b; 0xa438; 0x60b0;
  0xa438; 0xd05a; 0xa438; 0xd19a; 0xa438; 0x1800; 0xa438; 0x1aef; 0xa438; 0xd0ef; 0xa438; 0xd19a;
  0xa438; 0x1800; 0xa438; 0x1aef; 0xa438; 0x1000; 0xa438; 0x1d09; 0xa438; 0xd708; 0xa438; 0x3399;
  0xa438; 0x1b63; 0xa438; 0xd709; 0xa438; 0x5f5d; 0xa438; 0xd70b; 0xa438; 0x6130; 0xa438; 0xd70d;
  0xa438; 0x6163; 0xa438; 0xd709; 0xa438; 0x430b; 0xa438; 0xd71e; 0xa438; 0x62c2; 0xa438; 0xb401;
  0xa438; 0xf014; 0xa438; 0xc901; 0xa438; 0x1000; 0xa438; 0x810e; 0xa438; 0xf010; 0xa438; 0xc902;
  0xa438; 0x1000; 0xa438; 0x810e; 0xa438; 0xf00c; 0xa438; 0xce04; 0xa438; 0xcf01; 0xa438; 0xd70a;
  0xa438; 0x5fe2; 0xa438; 0xce04; 0xa438; 0xcf02; 0xa438; 0xc900; 0xa438; 0xd70a; 0xa438; 0x4057;
  0xa438; 0xb401; 0xa438; 0x0800; 0xa438; 0x1800; 0xa438; 0x1b5d; 0xa438; 0xa480; 0xa438; 0xa2b0;
  0xa438; 0xa806; 0xa438; 0x1800; 0xa438; 0x225c; 0xa438; 0xa7e8; 0xa438; 0xac08; 0xa438; 0x1800;
  0xa438; 0x1a4e; 0xa436; 0xA026; 0xa438; 0x1a4d; 0xa436; 0xA024; 0xa438; 0x225a; 0xa436; 0xA022;
  0xa438; 0x1b53; 0xa436; 0xA020; 0xa438; 0x1aed; 0xa436; 0xA006; 0xa438; 0x1892; 0xa436; 0xA004;
  0xa438; 0x11a4; 0xa436; 0xA002; 0xa438; 0x103c; 0xa436; 0xA000; 0xa438; 0x0ea6; 0xa436; 0xA008;
  0xa438; 0xff00; 0xa436; 0xA016; 0xa438; 0x0000; 0xa436; 0xA012; 0xa438; 0x0ff8; 0xa436; 0xA014;
  0xa438; 0x0000; 0xa438; 0xD098; 0xa438; 0xc483; 0xa438; 0xc483; 0xa438; 0x0000; 0xa438; 0x0000;
  0xa438; 0x0000; 0xa438; 0x0000; 0xa436; 0xA152; 0xa438; 0x3fff; 0xa436; 0xA154; 0xa438; 0x0413;
  0xa436; 0xA156; 0xa438; 0x1A32; 0xa436; 0xA158; 0xa438; 0x1CC0; 0xa436; 0xA15A; 0xa438; 0x3fff;
  0xa436; 0xA15C; 0xa438; 0x3fff; 0xa436; 0xA15E; 0xa438; 0x3fff; 0xa436; 0xA160; 0xa438; 0x3fff;
  0xa436; 0xA150; 0xa438; 0x000E; 0xa436; 0xA016; 0xa438; 0x0020; 0xa436; 0xA012; 0xa438; 0x0000;
  0xa436; 0xA014; 0xa438; 0x1800; 0xa438; 0x8010; 0xa438; 0x1800; 0xa438; 0x8021; 0xa438; 0x1800;
  0xa438; 0x8037; 0xa438; 0x1800; 0xa438; 0x803f; 0xa438; 0x1800; 0xa438; 0x8084; 0xa438; 0x1800;
  0xa438; 0x80c5; 0xa438; 0x1800; 0xa438; 0x80cc; 0xa438; 0x1800; 0xa438; 0x80d5; 0xa438; 0xa00a;
  0xa438; 0xa280; 0xa438; 0xa404; 0xa438; 0x0000; 0xa438; 0x0000; 0xa438; 0x0000; 0xa438; 0x0000;
  0xa438; 0x0000; 0xa438; 0x0000; 0xa438; 0x0000; 0xa438; 0x0000; 0xa438; 0x0000; 0xa438; 0x0000;
  0xa438; 0x0000; 0xa438; 0x0000; 0xa438; 0x1800; 0xa438; 0x099b; 0xa438; 0x1000; 0xa438; 0x1021;
  0xa438; 0xd700; 0xa438; 0x5fab; 0xa438; 0xa208; 0xa438; 0x8204; 0xa438; 0xcb38; 0xa438; 0xaa40;
  0xa438; 0x0000; 0xa438; 0x0000; 0xa438; 0x0000; 0xa438; 0x0000; 0xa438; 0x0000; 0xa438; 0x0000;
  0xa438; 0x0000; 0xa438; 0x0000; 0xa438; 0x0000; 0xa438; 0x0000; 0xa438; 0x0000; 0xa438; 0x0000;
  0xa438; 0x1800; 0xa438; 0x0b2a; 0xa438; 0x82a0; 0xa438; 0x8404; 0xa438; 0xa110; 0xa438; 0xd706;
  0xa438; 0x4041; 0xa438; 0xa180; 0xa438; 0x1800; 0xa438; 0x0e7f; 0xa438; 0x8190; 0xa438; 0xcb93;
  0xa438; 0x1000; 0xa438; 0x0ef4; 0xa438; 0xd704; 0xa438; 0x7fb8; 0xa438; 0xa008; 0xa438; 0xd706;
  0xa438; 0x4040; 0xa438; 0xa002; 0xa438; 0xd705; 0xa438; 0x4079; 0xa438; 0x1000; 0xa438; 0x10ad;
  0xa438; 0x0c03; 0xa438; 0x1502; 0xa438; 0x85f0; 0xa438; 0x9503; 0xa438; 0xd705; 0xa438; 0x40d9;
  0xa438; 0xd70c; 0xa438; 0x6083; 0xa438; 0x0c1f; 0xa438; 0x0d09; 0xa438; 0xf003; 0xa438; 0x0c1f;
  0xa438; 0x0d0a; 0xa438; 0x0cc0; 0xa438; 0x0d80; 0xa438; 0x1000; 0xa438; 0x104f; 0xa438; 0x1000;
  0xa438; 0x0ef4; 0xa438; 0x8020; 0xa438; 0xd705; 0xa438; 0x40d9; 0xa438; 0xd704; 0xa438; 0x609f;
  0xa438; 0xd70c; 0xa438; 0x6043; 0xa438; 0x8504; 0xa438; 0xcb94; 0xa438; 0x1000; 0xa438; 0x0ef4;
  0xa438; 0xd706; 0xa438; 0x7fa2; 0xa438; 0x800a; 0xa438; 0x0c03; 0xa438; 0x1502; 0xa438; 0x0cf0;
  0xa438; 0x05a0; 0xa438; 0x9503; 0xa438; 0xd705; 0xa438; 0x40b9; 0xa438; 0x0c1f; 0xa438; 0x0d00;
  0xa438; 0x8dc0; 0xa438; 0xf005; 0xa438; 0xa190; 0xa438; 0x0c1f; 0xa438; 0x0d17; 0xa438; 0x8dc0;
  0xa438; 0x1000; 0xa438; 0x104f; 0xa438; 0xd705; 0xa438; 0x39cc; 0xa438; 0x0c7d; 0xa438; 0x1800;
  0xa438; 0x0e67; 0xa438; 0xcb96; 0xa438; 0x0c03; 0xa438; 0x1502; 0xa438; 0xab05; 0xa438; 0xac04;
  0xa438; 0xac08; 0xa438; 0x9503; 0xa438; 0x0c1f; 0xa438; 0x0d00; 0xa438; 0x8dc0; 0xa438; 0x1000;
  0xa438; 0x104f; 0xa438; 0x1000; 0xa438; 0x1021; 0xa438; 0xd706; 0xa438; 0x2215; 0xa438; 0x8099;
  0xa438; 0x0c03; 0xa438; 0x1502; 0xa438; 0xae02; 0xa438; 0x9503; 0xa438; 0xd706; 0xa438; 0x6451;
  0xa438; 0xd71f; 0xa438; 0x2e70; 0xa438; 0x0f00; 0xa438; 0xd706; 0xa438; 0x3290; 0xa438; 0x80be;
  0xa438; 0xd704; 0xa438; 0x2e70; 0xa438; 0x8090; 0xa438; 0xd706; 0xa438; 0x339c; 0xa438; 0x8090;
  0xa438; 0x8718; 0xa438; 0x8910; 0xa438; 0x0c03; 0xa438; 0x1502; 0xa438; 0xc500; 0xa438; 0x9503;
  0xa438; 0x0c1f; 0xa438; 0x0d17; 0xa438; 0x8dc0; 0xa438; 0x1000; 0xa438; 0x104f; 0xa438; 0x0c03;
  0xa438; 0x1502; 0xa438; 0x8c04; 0xa438; 0x9503; 0xa438; 0xa00a; 0xa438; 0xa190; 0xa438; 0xa280;
  0xa438; 0xa404; 0xa438; 0x1800; 0xa438; 0x0f35; 0xa438; 0x1800; 0xa438; 0x0f07; 0xa438; 0x0c03;
  0xa438; 0x1502; 0xa438; 0x8c08; 0xa438; 0x8c04; 0xa438; 0x9503; 0xa438; 0x1800; 0xa438; 0x0f02;
  0xa438; 0x1000; 0xa438; 0x1021; 0xa438; 0xd700; 0xa438; 0x5fb4; 0xa438; 0xaa10; 0xa438; 0x1800;
  0xa438; 0x0c6b; 0xa438; 0x82a0; 0xa438; 0x8406; 0xa438; 0x0c03; 0xa438; 0x1502; 0xa438; 0xac04;
  0xa438; 0x8602; 0xa438; 0x9503; 0xa438; 0x1800; 0xa438; 0x0e09; 0xa438; 0x0000; 0xa438; 0x0000;
  0xa438; 0x0000; 0xa438; 0x0000; 0xa438; 0x0000; 0xa438; 0x0000; 0xa438; 0x0000; 0xa438; 0x0000;
  0xa438; 0x0000; 0xa438; 0x0000; 0xa438; 0x0000; 0xa438; 0x0000; 0xa438; 0x8308; 0xa438; 0x0c03;
  0xa438; 0x1502; 0xa438; 0xc555; 0xa438; 0x9503; 0xa438; 0xa728; 0xa438; 0x8440; 0xa438; 0x0c03;
  0xa438; 0x0901; 0xa438; 0x8801; 0xa438; 0xd700; 0xa438; 0x4040; 0xa438; 0xa801; 0xa438; 0xd701;
  0xa438; 0x4052; 0xa438; 0xa810; 0xa438; 0xd701; 0xa438; 0x4054; 0xa438; 0xa820; 0xa438; 0xd701;
  0xa438; 0x4057; 0xa438; 0xa640; 0xa438; 0xd704; 0xa438; 0x4046; 0xa438; 0xa840; 0xa438; 0xd706;
  0xa438; 0x40b5; 0xa438; 0x0c03; 0xa438; 0x1502; 0xa438; 0xae20; 0xa438; 0x9503; 0xa438; 0xd401;
  0xa438; 0x1000; 0xa438; 0x0fcf; 0xa438; 0x1000; 0xa438; 0x0fda; 0xa438; 0x1000; 0xa438; 0x1008;
  0xa438; 0x1000; 0xa438; 0x0fe3; 0xa438; 0xcc00; 0xa438; 0x80c0; 0xa438; 0x8103; 0xa438; 0x83e0;
  0xa438; 0xd71e; 0xa438; 0x2318; 0xa438; 0x01ae; 0xa438; 0xd704; 0xa438; 0x40bc; 0xa438; 0x0c03;
  0xa438; 0x1502; 0xa438; 0x8302; 0xa438; 0x9503; 0xa438; 0xb801; 0xa438; 0xd706; 0xa438; 0x2b59;
  0xa438; 0x07f8; 0xa438; 0xd700; 0xa438; 0x2109; 0xa438; 0x04ab; 0xa438; 0xa508; 0xa438; 0xcb15;
  0xa438; 0xd70c; 0xa438; 0x430c; 0xa438; 0x1000; 0xa438; 0x10ca; 0xa438; 0x0c03; 0xa438; 0x1502;
  0xa438; 0xa108; 0xa438; 0x9503; 0xa438; 0x0c03; 0xa438; 0x1502; 0xa438; 0x0c1f; 0xa438; 0x0f13;
  0xa438; 0x9503; 0xa438; 0x1000; 0xa438; 0x1021; 0xa438; 0xd70c; 0xa438; 0x5fb3; 0xa438; 0x0c03;
  0xa438; 0x1502; 0xa438; 0x8f1f; 0xa438; 0x9503; 0xa438; 0x1000; 0xa438; 0x1021; 0xa438; 0xd70c;
  0xa438; 0x7f33; 0xa438; 0x0c03; 0xa438; 0x1502; 0xa438; 0x0c0f; 0xa438; 0x0d00; 0xa438; 0x0c70;
  0xa438; 0x0b00; 0xa438; 0xab08; 0xa438; 0x9503; 0xa438; 0xd704; 0xa438; 0x3cf1; 0xa438; 0x01f9;
  0xa438; 0x0c1f; 0xa438; 0x0d11; 0xa438; 0xf003; 0xa438; 0x0c1f; 0xa438; 0x0d0d; 0xa438; 0x0cc0;
  0xa438; 0x0d40; 0xa438; 0x1000; 0xa438; 0x104f; 0xa438; 0x0c03; 0xa438; 0x1502; 0xa438; 0xab80;
  0xa438; 0x9503; 0xa438; 0x1000; 0xa438; 0x1021; 0xa438; 0xa940; 0xa438; 0xd700; 0xa438; 0x5f99;
  0xa438; 0x0c03; 0xa438; 0x1502; 0xa438; 0x8b80; 0xa438; 0x9503; 0xa438; 0x8940; 0xa438; 0xd700;
  0xa438; 0x5bbf; 0xa438; 0x0c03; 0xa438; 0x1502; 0xa438; 0x8b08; 0xa438; 0x9503; 0xa438; 0xba20;
  0xa438; 0xd704; 0xa438; 0x4100; 0xa438; 0xd115; 0xa438; 0xd04f; 0xa438; 0xf001; 0xa438; 0x1000;
  0xa438; 0x1021; 0xa438; 0xd700; 0xa438; 0x5fb4; 0xa438; 0x0c03; 0xa438; 0x1502; 0xa438; 0x0c0f;
  0xa438; 0x0d00; 0xa438; 0x0c70; 0xa438; 0x0b10; 0xa438; 0xab08; 0xa438; 0x9503; 0xa438; 0xd704;
  0xa438; 0x3cf1; 0xa438; 0x8178; 0xa438; 0x0c1f; 0xa438; 0x0d11; 0xa438; 0xf003; 0xa438; 0x0c1f;
  0xa438; 0x0d0d; 0xa438; 0x0cc0; 0xa438; 0x0d40; 0xa438; 0x1000; 0xa438; 0x104f; 0xa438; 0x0c03;
  0xa438; 0x1502; 0xa438; 0xab80; 0xa438; 0x9503; 0xa438; 0x1000; 0xa438; 0x1021; 0xa438; 0xd706;
  0xa438; 0x5fad; 0xa438; 0xd407; 0xa438; 0x1000; 0xa438; 0x0fcf; 0xa438; 0x0c03; 0xa438; 0x1502;
  0xa438; 0x8b88; 0xa438; 0x9503; 0xa438; 0x1000; 0xa438; 0x1021; 0xa438; 0xd702; 0xa438; 0x7fa4;
  0xa438; 0xd706; 0xa438; 0x61bf; 0xa438; 0x0c03; 0xa438; 0x1502; 0xa438; 0x0c30; 0xa438; 0x0110;
  0xa438; 0xa304; 0xa438; 0x9503; 0xa438; 0xd199; 0xa438; 0xd04b; 0xa438; 0x1000; 0xa438; 0x1021;
  0xa438; 0xd700; 0xa438; 0x5fb4; 0xa438; 0xd704; 0xa438; 0x3cf1; 0xa438; 0x81a5; 0xa438; 0x0c1f;
  0xa438; 0x0d02; 0xa438; 0xf003; 0xa438; 0x0c1f; 0xa438; 0x0d01; 0xa438; 0x0cc0; 0xa438; 0x0d40;
  0xa438; 0xa420; 0xa438; 0x8720; 0xa438; 0x1000; 0xa438; 0x104f; 0xa438; 0x1000; 0xa438; 0x0fda;
  0xa438; 0xd70c; 0xa438; 0x41ac; 0xa438; 0x0c03; 0xa438; 0x1502; 0xa438; 0x8108; 0xa438; 0x9503;
  0xa438; 0x0cc0; 0xa438; 0x0040; 0xa438; 0x0c03; 0xa438; 0x0102; 0xa438; 0x0ce0; 0xa438; 0x03e0;
  0xa438; 0xccce; 0xa438; 0xf008; 0xa438; 0x0cc0; 0xa438; 0x0040; 0xa438; 0x0c03; 0xa438; 0x0100;
  0xa438; 0x0ce0; 0xa438; 0x0380; 0xa438; 0xcc9c; 0xa438; 0x1000; 0xa438; 0x103f; 0xa438; 0x0c03;
  0xa438; 0x1502; 0xa438; 0xa640; 0xa438; 0x9503; 0xa438; 0xcb16; 0xa438; 0xd706; 0xa438; 0x6129;
  0xa438; 0xd70c; 0xa438; 0x608c; 0xa438; 0xd17a; 0xa438; 0xd04a; 0xa438; 0xf006; 0xa438; 0xd17a;
  0xa438; 0xd04b; 0xa438; 0xf003; 0xa438; 0xd13d; 0xa438; 0xd04b; 0xa438; 0x0c1f; 0xa438; 0x0f14;
  0xa438; 0xcb17; 0xa438; 0x8fc0; 0xa438; 0x1000; 0xa438; 0x0fbd; 0xa438; 0xaf40; 0xa438; 0x1000;
  0xa438; 0x0fbd; 0xa438; 0x0cc0; 0xa438; 0x0f80; 0xa438; 0x1000; 0xa438; 0x0fbd; 0xa438; 0xafc0;
  0xa438; 0x1000; 0xa438; 0x0fbd; 0xa438; 0x1000; 0xa438; 0x1021; 0xa438; 0xd701; 0xa438; 0x652e;
  0xa438; 0xd700; 0xa438; 0x5db4; 0xa438; 0x0c03; 0xa438; 0x1502; 0xa438; 0x8640; 0xa438; 0xa702;
  0xa438; 0x9503; 0xa438; 0xa720; 0xa438; 0x1000; 0xa438; 0x0fda; 0xa438; 0xa108; 0xa438; 0x1000;
  0xa438; 0x0fec; 0xa438; 0x8108; 0xa438; 0x1000; 0xa438; 0x0fe3; 0xa438; 0xa202; 0xa438; 0xa308;
  0xa438; 0x0000; 0xa438; 0x0000; 0xa438; 0x0000; 0xa438; 0x0000; 0xa438; 0x0000; 0xa438; 0x0000;
  0xa438; 0x0000; 0xa438; 0x0000; 0xa438; 0x0000; 0xa438; 0x0000; 0xa438; 0x0000; 0xa438; 0x0000;
  0xa438; 0x8308; 0xa438; 0xcb18; 0xa438; 0x1000; 0xa438; 0x10c2; 0xa438; 0x1000; 0xa438; 0x1021;
  0xa438; 0xd70c; 0xa438; 0x2c60; 0xa438; 0x02bd; 0xa438; 0xff58; 0xa438; 0x8f1f; 0xa438; 0x1000;
  0xa438; 0x1021; 0xa438; 0xd701; 0xa438; 0x7f8e; 0xa438; 0x1000; 0xa438; 0x0fe3; 0xa438; 0xa130;
  0xa438; 0xaa2f; 0xa438; 0xa2d5; 0xa438; 0xa407; 0xa438; 0xa720; 0xa438; 0x8310; 0xa438; 0xa308;
  0xa438; 0x0000; 0xa438; 0x0000; 0xa438; 0x0000; 0xa438; 0x0000; 0xa438; 0x0000; 0xa438; 0x0000;
  0xa438; 0x0000; 0xa438; 0x0000; 0xa438; 0x0000; 0xa438; 0x0000; 0xa438; 0x0000; 0xa438; 0x0000;
  0xa438; 0x8308; 0xa438; 0x1800; 0xa438; 0x02d2; 0xa436; 0xA10E; 0xa438; 0x017f; 0xa436; 0xA10C;
  0xa438; 0x0e04; 0xa436; 0xA10A; 0xa438; 0x0c67; 0xa436; 0xA108; 0xa438; 0x0f13; 0xa436; 0xA106;
  0xa438; 0x0eb1; 0xa436; 0xA104; 0xa438; 0x0e79; 0xa436; 0xA102; 0xa438; 0x0b23; 0xa436; 0xA100;
  0xa438; 0x0908; 0xa436; 0xA110; 0xa438; 0x00ff; 0xa436; 0xb87c; 0xa438; 0x8ad8; 0xa436; 0xb87e;
  0xa438; 0xaf8a; 0xa438; 0xf0af; 0xa438; 0x8af9; 0xa438; 0xaf8d; 0xa438; 0xdaaf; 0xa438; 0x8e1c;
  0xa438; 0xaf8f; 0xa438; 0x03af; 0xa438; 0x8f06; 0xa438; 0xaf8f; 0xa438; 0x06af; 0xa438; 0x8f06;
  0xa438; 0x0265; 0xa438; 0xa002; 0xa438; 0x8d78; 0xa438; 0xaf23; 0xa438; 0x47a1; 0xa438; 0x0d06;
  0xa438; 0x028b; 0xa438; 0x05af; 0xa438; 0x225a; 0xa438; 0xaf22; 0xa438; 0x66f8; 0xa438; 0xe08a;
  0xa438; 0x33a0; 0xa438; 0x0005; 0xa438; 0x028b; 0xa438; 0x21ae; 0xa438; 0x0ea0; 0xa438; 0x0105;
  0xa438; 0x028b; 0xa438; 0xb3ae; 0xa438; 0x06a0; 0xa438; 0x0203; 0xa438; 0x028c; 0xa438; 0x9dfc;
  0xa438; 0x04f8; 0xa438; 0xfbfa; 0xa438; 0xef69; 0xa438; 0xe080; 0xa438; 0x13ad; 0xa438; 0x267e;
  0xa438; 0xd067; 0xa438; 0xe48a; 0xa438; 0x34e4; 0xa438; 0x8a36; 0xa438; 0xe48a; 0xa438; 0x38e4;
  0xa438; 0x8a3a; 0xa438; 0xd0ae; 0xa438; 0xe48a; 0xa438; 0x35e4; 0xa438; 0x8a37; 0xa438; 0xe48a;
  0xa438; 0x39e4; 0xa438; 0x8a3b; 0xa438; 0xd000; 0xa438; 0xe48a; 0xa438; 0x3ce4; 0xa438; 0x8a3d;
  0xa438; 0xe48a; 0xa438; 0x3ee4; 0xa438; 0x8a3f; 0xa438; 0xe48a; 0xa438; 0x40e4; 0xa438; 0x8a41;
  0xa438; 0xe48a; 0xa438; 0x42e4; 0xa438; 0x8a43; 0xa438; 0xe48a; 0xa438; 0x44d0; 0xa438; 0x02e4;
  0xa438; 0x8a45; 0xa438; 0xd00a; 0xa438; 0xe48a; 0xa438; 0x46d0; 0xa438; 0x16e4; 0xa438; 0x8a47;
  0xa438; 0xd01e; 0xa438; 0xe48a; 0xa438; 0x48d1; 0xa438; 0x02bf; 0xa438; 0x8dce; 0xa438; 0x026b;
  0xa438; 0xd0d1; 0xa438; 0x0abf; 0xa438; 0x8dd1; 0xa438; 0x026b; 0xa438; 0xd0d1; 0xa438; 0x16bf;
  0xa438; 0x8dd4; 0xa438; 0x026b; 0xa438; 0xd0d1; 0xa438; 0x1ebf; 0xa438; 0x8dd7; 0xa438; 0x026b;
  0xa438; 0xd002; 0xa438; 0x73ab; 0xa438; 0xef47; 0xa438; 0xe585; 0xa438; 0x5de4; 0xa438; 0x855c;
  0xa438; 0xee8a; 0xa438; 0x3301; 0xa438; 0xae03; 0xa438; 0x0224; 0xa438; 0x95ef; 0xa438; 0x96fe;
  0xa438; 0xfffc; 0xa438; 0x04f8; 0xa438; 0xf9fa; 0xa438; 0xcefa; 0xa438; 0xef69; 0xa438; 0xfb02;
  0xa438; 0x8dab; 0xa438; 0xad50; 0xa438; 0x2ee1; 0xa438; 0x8a44; 0xa438; 0xa104; 0xa438; 0x2bee;
  0xa438; 0x8a33; 0xa438; 0x02e1; 0xa438; 0x8a45; 0xa438; 0xbf8d; 0xa438; 0xce02; 0xa438; 0x6bd0;
  0xa438; 0xe18a; 0xa438; 0x46bf; 0xa438; 0x8dd1; 0xa438; 0x026b; 0xa438; 0xd0e1; 0xa438; 0x8a47;
  0xa438; 0xbf8d; 0xa438; 0xd402; 0xa438; 0x6bd0; 0xa438; 0xe18a; 0xa438; 0x48bf; 0xa438; 0x8dd7;
  0xa438; 0x026b; 0xa438; 0xd0af; 0xa438; 0x8c94; 0xa438; 0xd200; 0xa438; 0xbe00; 0xa438; 0x0002;
  0xa438; 0x8ca5; 0xa438; 0x12a2; 0xa438; 0x04f6; 0xa438; 0xe18a; 0xa438; 0x44a1; 0xa438; 0x0020;
  0xa438; 0xd129; 0xa438; 0xbf8d; 0xa438; 0xce02; 0xa438; 0x6bd0; 0xa438; 0xd121; 0xa438; 0xbf8d;
  0xa438; 0xd102; 0xa438; 0x6bd0; 0xa438; 0xd125; 0xa438; 0xbf8d; 0xa438; 0xd402; 0xa438; 0x6bd0;
  0xa438; 0xbf8d; 0xa438; 0xd702; 0xa438; 0x6bd0; 0xa438; 0xae44; 0xa438; 0xa101; 0xa438; 0x1ed1;
  0xa438; 0x31bf; 0xa438; 0x8dce; 0xa438; 0x026b; 0xa438; 0xd0bf; 0xa438; 0x8dd1; 0xa438; 0x026b;
  0xa438; 0xd0d1; 0xa438; 0x2dbf; 0xa438; 0x8dd4; 0xa438; 0x026b; 0xa438; 0xd0bf; 0xa438; 0x8dd7;
  0xa438; 0x026b; 0xa438; 0xd0ae; 0xa438; 0x23a1; 0xa438; 0x0220; 0xa438; 0xd139; 0xa438; 0xbf8d;
  0xa438; 0xce02; 0xa438; 0x6bd0; 0xa438; 0xbf8d; 0xa438; 0xd102; 0xa438; 0x6bd0; 0xa438; 0xd13d;
  0xa438; 0xbf8d; 0xa438; 0xd402; 0xa438; 0x6bd0; 0xa438; 0xd135; 0xa438; 0xbf8d; 0xa438; 0xd702;
  0xa438; 0x6bd0; 0xa438; 0xae00; 0xa438; 0xe18a; 0xa438; 0x4411; 0xa438; 0xe58a; 0xa438; 0x44d0;
  0xa438; 0x00e4; 0xa438; 0x8a3c; 0xa438; 0xe48a; 0xa438; 0x3de4; 0xa438; 0x8a3e; 0xa438; 0xe48a;
  0xa438; 0x3fe4; 0xa438; 0x8a40; 0xa438; 0xe48a; 0xa438; 0x41e4; 0xa438; 0x8a42; 0xa438; 0xe48a;
  0xa438; 0x4302; 0xa438; 0x73ab; 0xa438; 0xef47; 0xa438; 0xe585; 0xa438; 0x5de4; 0xa438; 0x855c;
  0xa438; 0xffef; 0xa438; 0x96fe; 0xa438; 0xc6fe; 0xa438; 0xfdfc; 0xa438; 0x0402; 0xa438; 0x2495;
  0xa438; 0xee8a; 0xa438; 0x3300; 0xa438; 0x04f8; 0xa438; 0xf9fa; 0xa438; 0xfbef; 0xa438; 0x79fb;
  0xa438; 0xcffb; 0xa438; 0xd300; 0xa438; 0xa200; 0xa438; 0x09bf; 0xa438; 0x8dc2; 0xa438; 0x026b;
  0xa438; 0xefaf; 0xa438; 0x8cda; 0xa438; 0xa201; 0xa438; 0x09bf; 0xa438; 0x8dc5; 0xa438; 0x026b;
  0xa438; 0xefaf; 0xa438; 0x8cda; 0xa438; 0xa202; 0xa438; 0x09bf; 0xa438; 0x8dc8; 0xa438; 0x026b;
  0xa438; 0xefaf; 0xa438; 0x8cda; 0xa438; 0xbf8d; 0xa438; 0xcb02; 0xa438; 0x6bef; 0xa438; 0xef64;
  0xa438; 0xbf8a; 0xa438; 0x3c1a; 0xa438; 0x921a; 0xa438; 0x92d8; 0xa438; 0x19d9; 0xa438; 0xef74;
  0xa438; 0x0273; 0xa438; 0x93ef; 0xa438; 0x47bf; 0xa438; 0x8a3c; 0xa438; 0x1a92; 0xa438; 0x1a92;
  0xa438; 0xdc19; 0xa438; 0xddd1; 0xa438; 0x0011; 0xa438; 0xa1ff; 0xa438; 0xfc13; 0xa438; 0xa310;
  0xa438; 0xaf02; 0xa438; 0x8d0e; 0xa438; 0xffc7; 0xa438; 0xffef; 0xa438; 0x97ff; 0xa438; 0xfefd;
  0xa438; 0xfc04; 0xa438; 0xf8fa; 0xa438; 0xfbef; 0xa438; 0x79fb; 0xa438; 0xcffb; 0xa438; 0xbf8a;
  0xa438; 0x3c1a; 0xa438; 0x921a; 0xa438; 0x92d8; 0xa438; 0x19d9; 0xa438; 0xef64; 0xa438; 0xbf8a;
  0xa438; 0x341a; 0xa438; 0x921a; 0xa438; 0x92d8; 0xa438; 0x19d9; 0xa438; 0xef74; 0xa438; 0x0273;
  0xa438; 0x78a2; 0xa438; 0x0005; 0xa438; 0xbe8d; 0xa438; 0xceae; 0xa438; 0x13a2; 0xa438; 0x0105;
  0xa438; 0xbe8d; 0xa438; 0xd1ae; 0xa438; 0x0ba2; 0xa438; 0x0205; 0xa438; 0xbe8d; 0xa438; 0xd4ae;
  0xa438; 0x03be; 0xa438; 0x8dd7; 0xa438; 0xad50; 0xa438; 0x17bf; 0xa438; 0x8a45; 0xa438; 0x1a92;
  0xa438; 0x0702; 0xa438; 0x6bef; 0xa438; 0x07dd; 0xa438; 0xef46; 0xa438; 0xbf8a; 0xa438; 0x341a;
  0xa438; 0x921a; 0xa438; 0x92dc; 0xa438; 0x19dd; 0xa438; 0xffc7; 0xa438; 0xffef; 0xa438; 0x97ff;
  0xa438; 0xfefc; 0xa438; 0x04ee; 0xa438; 0x8a33; 0xa438; 0x00ee; 0xa438; 0x8a32; 0xa438; 0x0404;
  0xa438; 0xf8fa; 0xa438; 0xef69; 0xa438; 0xe080; 0xa438; 0x13ad; 0xa438; 0x2624; 0xa438; 0xd102;
  0xa438; 0xbf8d; 0xa438; 0xce02; 0xa438; 0x6bd0; 0xa438; 0xd10a; 0xa438; 0xbf8d; 0xa438; 0xd102;
  0xa438; 0x6bd0; 0xa438; 0xd116; 0xa438; 0xbf8d; 0xa438; 0xd402; 0xa438; 0x6bd0; 0xa438; 0xd11e;
  0xa438; 0xbf8d; 0xa438; 0xd702; 0xa438; 0x6bd0; 0xa438; 0xee8a; 0xa438; 0x3300; 0xa438; 0xef96;
  0xa438; 0xfefc; 0xa438; 0x04f8; 0xa438; 0xfae0; 0xa438; 0x855c; 0xa438; 0xe185; 0xa438; 0x5def;
  0xa438; 0x64d0; 0xa438; 0x00e1; 0xa438; 0x8a32; 0xa438; 0xef74; 0xa438; 0x0273; 0xa438; 0xc6fe;
  0xa438; 0xfc04; 0xa438; 0xf0b2; 0xa438; 0x02f0; 0xa438; 0xb282; 0xa438; 0xf0b3; 0xa438; 0x02f0;
  0xa438; 0xb382; 0xa438; 0x50ac; 0xa438; 0xd450; 0xa438; 0xacd6; 0xa438; 0xb6ac; 0xa438; 0xd4b6;
  0xa438; 0xacd6; 0xa438; 0xbf8e; 0xa438; 0x0d02; 0xa438; 0x6bd0; 0xa438; 0xd0ff; 0xa438; 0xd1fe;
  0xa438; 0xbf8e; 0xa438; 0x1002; 0xa438; 0x6bd0; 0xa438; 0xd004; 0xa438; 0xd14d; 0xa438; 0xbf8e;
  0xa438; 0x1302; 0xa438; 0x6bd0; 0xa438; 0xd0fc; 0xa438; 0xd1c6; 0xa438; 0xbf8e; 0xa438; 0x1602;
  0xa438; 0x6bd0; 0xa438; 0xd009; 0xa438; 0xd146; 0xa438; 0xbf8e; 0xa438; 0x1902; 0xa438; 0x6bd0;
  0xa438; 0xef13; 0xa438; 0xaf2d; 0xa438; 0xbdf0; 0xa438; 0xac1c; 0xa438; 0xf0ac; 0xa438; 0x2af0;
  0xa438; 0xac2c; 0xa438; 0xf0ac; 0xa438; 0x2ef0; 0xa438; 0xac30; 0xa438; 0xbf8e; 0xa438; 0xf102;
  0xa438; 0x6bef; 0xa438; 0xac28; 0xa438; 0x70bf; 0xa438; 0x8eeb; 0xa438; 0x026b; 0xa438; 0xefac;
  0xa438; 0x2867; 0xa438; 0xbf8e; 0xa438; 0xee02; 0xa438; 0x6bef; 0xa438; 0xad28; 0xa438; 0x5bbf;
  0xa438; 0x8ff2; 0xa438; 0xd8bf; 0xa438; 0x8ff3; 0xa438; 0xd9bf; 0xa438; 0x8ef4; 0xa438; 0x026b;
  0xa438; 0xd0bf; 0xa438; 0x8ff0; 0xa438; 0xd8bf; 0xa438; 0x8ff1; 0xa438; 0xd9bf; 0xa438; 0x8ef7;
  0xa438; 0x026b; 0xa438; 0xd0bf; 0xa438; 0x8fee; 0xa438; 0xd8bf; 0xa438; 0x8fef; 0xa438; 0xd9bf;
  0xa438; 0x8efa; 0xa438; 0x026b; 0xa438; 0xd0bf; 0xa438; 0x8fec; 0xa438; 0xd8bf; 0xa438; 0x8fed;
  0xa438; 0xd9bf; 0xa438; 0x8efd; 0xa438; 0x026b; 0xa438; 0xd0bf; 0xa438; 0x8fea; 0xa438; 0xd8bf;
  0xa438; 0x8feb; 0xa438; 0xd9bf; 0xa438; 0x8f00; 0xa438; 0x026b; 0xa438; 0xd0bf; 0xa438; 0x8fe8;
  0xa438; 0xd8bf; 0xa438; 0x8fe9; 0xa438; 0xd9bf; 0xa438; 0x8e0d; 0xa438; 0x026b; 0xa438; 0xd01f;
  0xa438; 0x00e1; 0xa438; 0x86ee; 0xa438; 0x1b64; 0xa438; 0xaf3d; 0xa438; 0x7abf; 0xa438; 0x8ffe;
  0xa438; 0xd8bf; 0xa438; 0x8fff; 0xa438; 0xd9bf; 0xa438; 0x8ef4; 0xa438; 0x026b; 0xa438; 0xd0bf;
  0xa438; 0x8ffc; 0xa438; 0xd8bf; 0xa438; 0x8ffd; 0xa438; 0xd9bf; 0xa438; 0x8ef7; 0xa438; 0x026b;
  0xa438; 0xd0bf; 0xa438; 0x8ffa; 0xa438; 0xd8bf; 0xa438; 0x8ffb; 0xa438; 0xd9bf; 0xa438; 0x8efa;
  0xa438; 0x026b; 0xa438; 0xd0bf; 0xa438; 0x8ff8; 0xa438; 0xd8bf; 0xa438; 0x8ff9; 0xa438; 0xd9bf;
  0xa438; 0x8efd; 0xa438; 0x026b; 0xa438; 0xd0bf; 0xa438; 0x8ff6; 0xa438; 0xd8bf; 0xa438; 0x8ff7;
  0xa438; 0xd9bf; 0xa438; 0x8f00; 0xa438; 0x026b; 0xa438; 0xd0bf; 0xa438; 0x8ff4; 0xa438; 0xd8bf;
  0xa438; 0x8ff5; 0xa438; 0xd9bf; 0xa438; 0x8e0d; 0xa438; 0x026b; 0xa438; 0xd0ae; 0xa438; 0xa766;
  0xa438; 0xac5c; 0xa438; 0xbbac; 0xa438; 0x5c99; 0xa438; 0xac5c; 0xa438; 0xf0ac; 0xa438; 0x26f0;
  0xa438; 0xac24; 0xa438; 0xf0ac; 0xa438; 0x22f0; 0xa438; 0xac20; 0xa438; 0xf0ac; 0xa438; 0x1eaf;
  0xa438; 0x44f8; 0xa436; 0xb85e; 0xa438; 0x2344; 0xa436; 0xb860; 0xa438; 0x2254; 0xa436; 0xb862;
  0xa438; 0x2DB5; 0xa436; 0xb864; 0xa438; 0x3D6C; 0xa436; 0xb886; 0xa438; 0x44ED; 0xa436; 0xb888;
  0xa438; 0xffff; 0xa436; 0xb88a; 0xa438; 0xffff; 0xa436; 0xb88c; 0xa438; 0xffff; 0xa436; 0xb838;
  0xa438; 0x001f; 0xb820; 0x0010; 0xa436; 0x87ad; 0xa438; 0xaf87; 0xa438; 0xc5af; 0xa438; 0x87e4;
  0xa438; 0xaf8a; 0xa438; 0x3daf; 0xa438; 0x8a62; 0xa438; 0xaf8a; 0xa438; 0x62af; 0xa438; 0x8a62;
  0xa438; 0xaf8a; 0xa438; 0x62af; 0xa438; 0x8a62; 0xa438; 0x2810; 0xa438; 0x0d01; 0xa438; 0xe484;
  0xa438; 0xbf29; 0xa438; 0x100d; 0xa438; 0x11e5; 0xa438; 0x84c0; 0xa438; 0x2a10; 0xa438; 0x0d21;
  0xa438; 0xe684; 0xa438; 0xc12b; 0xa438; 0x100d; 0xa438; 0x31e7; 0xa438; 0x84c2; 0xa438; 0xaf3f;
  0xa438; 0x7cf8; 0xa438; 0xe080; 0xa438; 0x4cac; 0xa438; 0x222c; 0xa438; 0xe080; 0xa438; 0x40ad;
  0xa438; 0x2232; 0xa438; 0xbf8a; 0xa438; 0x2502; 0xa438; 0x6752; 0xa438; 0xad29; 0xa438; 0x0502;
  0xa438; 0x8827; 0xa438; 0xae0d; 0xa438; 0xad28; 0xa438; 0x0502; 0xa438; 0x8961; 0xa438; 0xae05;
  0xa438; 0x0214; 0xa438; 0x04ae; 0xa438; 0x00e0; 0xa438; 0x8040; 0xa438; 0xac22; 0xa438; 0x1102;
  0xa438; 0x13e1; 0xa438; 0xae0c; 0xa438; 0x0288; 0xa438; 0x7c02; 0xa438; 0x8a10; 0xa438; 0x0214;
  0xa438; 0x2502; 0xa438; 0x1404; 0xa438; 0xfcaf; 0xa438; 0x13c6; 0xa438; 0xf8f8; 0xa438; 0xccf9;
  0xa438; 0xfaef; 0xa438; 0x69fb; 0xa438; 0xe080; 0xa438; 0x18ad; 0xa438; 0x223b; 0xa438; 0xbf8a;
  0xa438; 0x2b02; 0xa438; 0x6752; 0xa438; 0xad28; 0xa438; 0x32bf; 0xa438; 0x8a28; 0xa438; 0x026f;
  0xa438; 0x17ee; 0xa438; 0x8ff3; 0xa438; 0x00bf; 0xa438; 0x6854; 0xa438; 0x0267; 0xa438; 0x52ad;
  0xa438; 0x281f; 0xa438; 0xbf68; 0xa438; 0x5d02; 0xa438; 0x6752; 0xa438; 0xad28; 0xa438; 0x16e0;
  0xa438; 0x8ff4; 0xa438; 0xe18f; 0xa438; 0xf502; 0xa438; 0x8891; 0xa438; 0xad50; 0xa438; 0x0abf;
  0xa438; 0x8a28; 0xa438; 0x026f; 0xa438; 0x20ee; 0xa438; 0x8ff3; 0xa438; 0x0102; 0xa438; 0x1404;
  0xa438; 0xffef; 0xa438; 0x96fe; 0xa438; 0xfdc4; 0xa438; 0xfcfc; 0xa438; 0x04f8; 0xa438; 0xf9ef;
  0xa438; 0x59e0; 0xa438; 0x8018; 0xa438; 0xad22; 0xa438; 0x06bf; 0xa438; 0x8a28; 0xa438; 0x026f;
  0xa438; 0x17ef; 0xa438; 0x95fd; 0xa438; 0xfc04; 0xa438; 0xf8f9; 0xa438; 0xf9ef; 0xa438; 0x59fa;
  0xa438; 0xface; 0xa438; 0xe48f; 0xa438; 0xfee5; 0xa438; 0x8fff; 0xa438; 0xbf6e; 0xa438; 0x1b02;
  0xa438; 0x6f20; 0xa438; 0xbf6e; 0xa438; 0x1802; 0xa438; 0x6f17; 0xa438; 0xd102; 0xa438; 0xbf6e;
  0xa438; 0x1202; 0xa438; 0x6733; 0xa438; 0xbf6e; 0xa438; 0x1502; 0xa438; 0x6f17; 0xa438; 0xbe00;
  0xa438; 0x00cc; 0xa438; 0xbf69; 0xa438; 0xcb02; 0xa438; 0x6733; 0xa438; 0xbf69; 0xa438; 0xce02;
  0xa438; 0x6f17; 0xa438; 0xbf69; 0xa438; 0xce02; 0xa438; 0x6f20; 0xa438; 0xbf69; 0xa438; 0xd102;
  0xa438; 0x6752; 0xa438; 0xad28; 0xa438; 0xf70c; 0xa438; 0x81bf; 0xa438; 0x8ff6; 0xa438; 0x1a98;
  0xa438; 0xef59; 0xa438; 0xbf69; 0xa438; 0xd402; 0xa438; 0x6752; 0xa438; 0xef95; 0xa438; 0xdc19;
  0xa438; 0xdd0d; 0xa438; 0x8118; 0xa438; 0xa800; 0xa438; 0x04c9; 0xa438; 0xbf69; 0xa438; 0xce02;
  0xa438; 0x6f17; 0xa438; 0xe08f; 0xa438; 0xfce1; 0xa438; 0x8ffd; 0xa438; 0xef74; 0xa438; 0xe08f;
  0xa438; 0xfae1; 0xa438; 0x8ffb; 0xa438; 0xef64; 0xa438; 0x026e; 0xa438; 0x57ad; 0xa438; 0x5008;
  0xa438; 0xe08f; 0xa438; 0xfce1; 0xa438; 0x8ffd; 0xa438; 0xae06; 0xa438; 0xe08f; 0xa438; 0xfae1;
  0xa438; 0x8ffb; 0xa438; 0xe28f; 0xa438; 0xf8e3; 0xa438; 0x8ff9; 0xa438; 0xef75; 0xa438; 0xe28f;
  0xa438; 0xf6e3; 0xa438; 0x8ff7; 0xa438; 0xef65; 0xa438; 0x026e; 0xa438; 0x57ad; 0xa438; 0x5008;
  0xa438; 0xe28f; 0xa438; 0xf8e3; 0xa438; 0x8ff9; 0xa438; 0xae06; 0xa438; 0xe28f; 0xa438; 0xf6e3;
  0xa438; 0x8ff7; 0xa438; 0x1b45; 0xa438; 0xad27; 0xa438; 0x05d7; 0xa438; 0x0000; 0xa438; 0xae0d;
  0xa438; 0xef74; 0xa438; 0xe08f; 0xa438; 0xfee1; 0xa438; 0x8fff; 0xa438; 0xef64; 0xa438; 0x026e;
  0xa438; 0x57c6; 0xa438; 0xfefe; 0xa438; 0xef95; 0xa438; 0xfdfd; 0xa438; 0xfc04; 0xa438; 0xf8f9;
  0xa438; 0xfaef; 0xa438; 0x69fb; 0xa438; 0xe080; 0xa438; 0x18ac; 0xa438; 0x2103; 0xa438; 0xaf8a;
  0xa438; 0x06bf; 0xa438; 0x8a2b; 0xa438; 0xac21; 0xa438; 0x03af; 0xa438; 0x8a06; 0xa438; 0xbf8a;
  0xa438; 0x2802; 0xa438; 0x6f17; 0xa438; 0xee8f; 0xa438; 0xee00; 0xa438; 0xee8f; 0xa438; 0xed00;
  0xa438; 0xbf8a; 0xa438; 0x2e02; 0xa438; 0x6752; 0xa438; 0xad28; 0xa438; 0x03af; 0xa438; 0x8a06;
  0xa438; 0xe28f; 0xa438; 0xefe3; 0xa438; 0x8ff0; 0xa438; 0xbf68; 0xa438; 0x5102; 0xa438; 0x6752;
  0xa438; 0xac28; 0xa438; 0x11e2; 0xa438; 0x8ff1; 0xa438; 0xe38f; 0xa438; 0xf2bf; 0xa438; 0x6848;
  0xa438; 0x0267; 0xa438; 0x52ac; 0xa438; 0x2802; 0xa438; 0xae53; 0xa438; 0xbf68; 0xa438; 0x5a02;
  0xa438; 0x6752; 0xa438; 0xad28; 0xa438; 0x0aef; 0xa438; 0x4502; 0xa438; 0x8891; 0xa438; 0xac50;
  0xa438; 0x38ae; 0xa438; 0x40bf; 0xa438; 0x8a31; 0xa438; 0x0267; 0xa438; 0x52ef; 0xa438; 0x31bf;
  0xa438; 0x8a34; 0xa438; 0x0267; 0xa438; 0x520c; 0xa438; 0x311e; 0xa438; 0x31bf; 0xa438; 0x8a37;
  0xa438; 0x0267; 0xa438; 0x520c; 0xa438; 0x311e; 0xa438; 0x31bf; 0xa438; 0x8a3a; 0xa438; 0x0267;
  0xa438; 0x520c; 0xa438; 0x311e; 0xa438; 0x31e7; 0xa438; 0x8fee; 0xa438; 0xa30c; 0xa438; 0x02ae;
  0xa438; 0x08a3; 0xa438; 0x0e02; 0xa438; 0xae03; 0xa438; 0xa30d; 0xa438; 0x0aee; 0xa438; 0x8fed;
  0xa438; 0x01bf; 0xa438; 0x8a28; 0xa438; 0x026f; 0xa438; 0x2002; 0xa438; 0x1404; 0xa438; 0xffef;
  0xa438; 0x96fe; 0xa438; 0xfdfc; 0xa438; 0x04f8; 0xa438; 0xfaef; 0xa438; 0x69e0; 0xa438; 0x8018;
  0xa438; 0xad21; 0xa438; 0x06bf; 0xa438; 0x8a28; 0xa438; 0x026f; 0xa438; 0x17ef; 0xa438; 0x96fe;
  0xa438; 0xfc04; 0xa438; 0xf8a4; 0xa438; 0xb677; 0xa438; 0xa4b6; 0xa438; 0x22a4; 0xa438; 0x4222;
  0xa438; 0xa668; 0xa438; 0x00b2; 0xa438; 0x3e00; 0xa438; 0xb2be; 0xa438; 0x00b3; 0xa438; 0x3e00;
  0xa438; 0xb3be; 0xa438; 0xd10f; 0xa438; 0xbf8a; 0xa438; 0x5c02; 0xa438; 0x6733; 0xa438; 0xbf8a;
  0xa438; 0x5f02; 0xa438; 0x6733; 0xa438; 0xbf8a; 0xa438; 0x5c02; 0xa438; 0x6f17; 0xa438; 0xbf8a;
  0xa438; 0x5f02; 0xa438; 0x6f17; 0xa438; 0x1f00; 0xa438; 0xaf3d; 0xa438; 0x0c30; 0xa438; 0xa85a;
  0xa438; 0xfcad; 0xa438; 0x0e00; 0xa436; 0xb818; 0xa438; 0x3f31; 0xa436; 0xb81a; 0xa438; 0x13a4;
  0xa436; 0xb81c; 0xa438; 0x3d0a; 0xa436; 0xb81e; 0xa438; 0xffff; 0xa436; 0xb850; 0xa438; 0xffff;
  0xa436; 0xb852; 0xa438; 0xffff; 0xa436; 0xb878; 0xa438; 0xffff; 0xa436; 0xb884; 0xa438; 0xffff;
  0xa436; 0xb832; 0xa438; 0x0007; 0xa436; 0x84cf; 0xa438; 0x0101; 0xa466; 0x0002; 0xa436; 0x86a7;
  0xa438; 0x0000; 0xa436; 0x0000; 0xa438; 0x0000; 0xa436; 0xB82E; 0xa438; 0x0000; 0xa436; 0x8023;
  0xa438; 0x0000; 0xa436; 0x801E; 0xa438; 0x0023; 0xb820; 0x0000; 0xFFFF; 0xFFFF].

Definition phy_mcu_ram_code_8126a_1_2 : list Z := [
  0xB87C; 0x8a32; 0xB87E; 0x0400; 0xB87C; 0x8376; 0xB87E; 0x0300; 0xce00; 0x6CAF; 0xB87C; 0x8301;
  0xB87E; 0x1133; 0xB87C; 0x8105; 0xB87E; 0xa000; 0xB87C; 0x8148; 0xB87E; 0xa000; 0xa436; 0x81d8;
  0xa438; 0x5865; 0xacf8; 0xCCC0; 0xac90; 0x52B0; 0xad2C; 0x8000; 0xB87C; 0x83e6; 0xB87E; 0x4A0E;
  0xB87C; 0x83d2; 0xB87E; 0x0A0E; 0xB87C; 0x80a0; 0xB87E; 0xB8B6; 0xB87C; 0x805e; 0xB87E; 0xB8B6;
  0xB87C; 0x8057; 0xB87E; 0x305A; 0xB87C; 0x8099; 0xB87E; 0x305A; 0xB87C; 0x8052; 0xB87E; 0x3333;
  0xB87C; 0x8094; 0xB87E; 0x3333; 0xB87C; 0x807F; 0xB87E; 0x7975; 0xB87C; 0x803D; 0xB87E; 0x7975;
  0xB87C; 0x8036; 0xB87E; 0x305A; 0xB87C; 0x8078; 0xB87E; 0x305A; 0xB87C; 0x8031; 0xB87E; 0x3335;
  0xB87C; 0x8073; 0xB87E; 0x3335; 0xa436; 0x81D8; 0xa438; 0x5865; 0xB87C; 0x867c; 0xB87E; 0x0617;
  0xad94; 0x0092; 0xB87C; 0x89B1; 0xB87E; 0x5050; 0xB87C; 0x86E0; 0xB87E; 0x809A; 0xB87C; 0x86E2;
  0xB87E; 0xB34D; 0xB87C; 0x8FD2; 0xB87E; 0x004B; 0xB87C; 0x8691; 0xB87E; 0x007D; 0xB87E; 0x00AF;
  0xB87E; 0x00E1; 0xB87E; 0x00FF; 0xB87C; 0x867F; 0xB87E; 0x0201; 0xB87E; 0x0201; 0xB87E; 0x0201;
  0xB87E; 0x0201; 0xB87E; 0x0201; 0xB87E; 0x0201; 0xB87C; 0x86DA; 0xB87E; 0xCDCD; 0xB87E; 0xE6CD;
  0xB87E; 0xCDCD; 0xB87C; 0x8FE8; 0xB87E; 0x0368; 0xB87E; 0x033F; 0xB87E; 0x1046; 0xB87E; 0x147D;
  0xB87E; 0x147D; 0xB87E; 0x147D; 0xB87E; 0x0368; 0xB87E; 0x033F; 0xB87E; 0x1046; 0xB87E; 0x147D;
  0xB87E; 0x147D; 0xB87E; 0x147D; 0xa436; 0x80dd; 0xa438; 0xf0AB; 0xa436; 0x80df; 0xa438; 0xC009;
  0xa436; 0x80e7; 0xa438; 0x401E; 0xa436; 0x80e1; 0xa438; 0x120A; 0xa436; 0x86f2; 0xa438; 0x5094;
  0xa436; 0x8701; 0xa438; 0x5094; 0xa436; 0x80f1; 0xa438; 0x30CC; 0xa436; 0x80f3; 0xa438; 0x0001;
  0xa436; 0x80f5; 0xa438; 0x330B; 0xa436; 0x80f8; 0xa438; 0xCB76; 0xa436; 0x8105; 0xa438; 0xf0D3;
  0xa436; 0x8107; 0xa438; 0x0002; 0xa436; 0x8109; 0xa438; 0xff0B; 0xa436; 0x810c; 0xa438; 0xC86D;
  0xB87C; 0x8a32; 0xB87E; 0x0400; 0xa6f8; 0x0000; 0xa6f8; 0x0000; 0xa436; 0x81bc; 0xa438; 0x1300;
  0xa846; 0x2410; 0xa86A; 0x0801; 0xa85C; 0x9680; 0xa436; 0x841D; 0xa438; 0x4A28; 0xa436; 0x8016;
  0xa438; 0xBE05; 0xBF9C; 0x004A; 0xBF96; 0x41FA; 0xBF9A; 0xDC81; 0xa436; 0x8018; 0xa438; 0x0700;
  0xa436; 0x8ff4; 0xa438; 0x01AE; 0xa436; 0x8fef; 0xa438; 0x0172; 0xa438; 0x00dc; 0xc842; 0x0002;
  0xFFFF; 0xFFFF].

Definition phy_mcu_ram_code_8126a_1_3 : list Z := [
  0xb892; 0x0000; 0xB88E; 0xC236; 0xB890; 0x1A1C; 0xB88E; 0xC238; 0xB890; 0x1C1C; 0xB890; 0x1C1C;
  0xB890; 0x2D2D; 0xB890; 0x2D2D; 0xB890; 0x2D2A; 0xB890; 0x2A2A; 0xB890; 0x2A2A; 0xB890; 0x2A19;
  0xB88E; 0xC272; 0xB890; 0x8484; 0xB890; 0x8484; 0xB890; 0x84B4; 0xB890; 0xB4B4; 0xB890; 0xB4B4;
  0xB890; 0xF8F8; 0xB890; 0xF8F8; 0xB890; 0xF8F8; 0xB88E; 0xC000; 0xB890; 0x0303; 0xB890; 0x0405;
  0xB890; 0x0608; 0xB890; 0x0A0B; 0xB890; 0x0E11; 0xB890; 0x1519; 0xB890; 0x2028; 0xB890; 0x3503;
  0xB890; 0x0304; 0xB890; 0x0405; 0xB890; 0x0606; 0xB890; 0x0708; 0xB890; 0x090A; 0xB890; 0x0B0D;
  0xB890; 0x0F11; 0xB890; 0x1315; 0xB890; 0x181A; 0xB890; 0x2029; 0xB890; 0x2F36; 0xB890; 0x3D43;
  0xB890; 0x0101; 0xB890; 0x0102; 0xB890; 0x0202; 0xB890; 0x0303; 0xB890; 0x0405; 0xB890; 0x0607;
  0xB890; 0x090A; 0xB890; 0x0C0E; 0xB88E; 0xC038; 0xB890; 0x6AE1; 0xB890; 0x8E6B; 0xB890; 0xA767;
  0xB890; 0x01EF; 0xB890; 0x5A63; 0xB890; 0x2B99; 0xB890; 0x7F5D; 0xB890; 0x361F; 0xB890; 0xA127;
  0xB890; 0xB558; 0xB890; 0x11C3; 0xB890; 0x7D85; 0xB890; 0xBAC5; 0xB890; 0xE691; 0xB890; 0x8F79;
  0xB890; 0x3164; 0xB890; 0x3293; 0xB890; 0xB80D; 0xB890; 0xE2B7; 0xB890; 0x0D62; 0xB890; 0x4F85;
  0xB890; 0xC919; 0xB890; 0x78F3; 0xB890; 0x77FF; 0xB890; 0xBD9E; 0xB890; 0x69D6; 0xB890; 0x6DA4;
  0xB890; 0x0CC5; 0xB88E; 0xC1D2; 0xB890; 0x2425; 0xB890; 0x2627; 0xB890; 0x2829; 0xB890; 0x2A2B;
  0xB890; 0x2C2D; 0xB890; 0x2E2F; 0xB890; 0x3031; 0xB890; 0x3233; 0xB890; 0x2323; 0xB890; 0x2424;
  0xB890; 0x2525; 0xB890; 0x2626; 0xB890; 0x2727; 0xB890; 0x2828; 0xB890; 0x2929; 0xB890; 0x2A2A;
  0xB890; 0x2B2C; 0xB890; 0x2C2D; 0xB890; 0x2D2E; 0xB890; 0x2E2F; 0xB890; 0x2F30; 0xB890; 0x1A1B;
  0xB890; 0x1D1E; 0xB890; 0x1F20; 0xB890; 0x2123; 0xB890; 0x2425; 0xB890; 0x2628; 0xB890; 0x292A;
  0xB890; 0x2B2C; 0xB890; 0x2E12; 0xB88E; 0xC09A; 0xB890; 0xD3D3; 0xB890; 0xD3D3; 0xB890; 0xD3D3;
  0xB890; 0xD3D3; 0xB890; 0xD3D3; 0xB890; 0xD3D3; 0xB890; 0xD3D3; 0xB890; 0xD3D3; 0xFFFF; 0xFFFF].

Definition phy_mcu_ram_code_8126a_2_1_p1 : list Z := [
  0xa436; 0x8023; 0xa438; 0x4700; 0xa436; 0xB82E; 0xa438; 0x0001; 0xb820; 0x0090; 0xa436; 0xA016;
  0xa438; 0x0000; 0xa436; 0xA012; 0xa438; 0x0000; 0xa436; 0xA014; 0xa438; 0x1800; 0xa438; 0x8010;
  0xa438; 0x1800; 0xa438; 0x8025; 0xa438; 0x1800; 0xa438; 0x8033; 0xa438; 0x1800; 0xa438; 0x8037;
  0xa438; 0x1800; 0xa438; 0x803c; 0xa438; 0x1800; 0xa438; 0x8044; 0xa438; 0x1800; 0xa438; 0x8054;
  0xa438; 0x1800; 0xa438; 0x8059; 0xa438; 0xd504; 0xa438; 0xc9b5; 0xa438; 0xd500; 0xa438; 0xd707;
  0xa438; 0x4070; 0xa438; 0x1800; 0xa438; 0x107a; 0xa438; 0xd504; 0xa438; 0xc994; 0xa438; 0xd500;
  0xa438; 0xd707; 0xa438; 0x60d0; 0xa438; 0xd701; 0xa438; 0x252d; 0xa438; 0x8023; 0xa438; 0x1800;
  0xa438; 0x1064; 0xa438; 0x1800; 0xa438; 0x107a; 0xa438; 0x1800; 0xa438; 0x1052; 0xa438; 0xd504;
  0xa438; 0xc9d0; 0xa438; 0xd500; 0xa438; 0xd707; 0xa438; 0x60d0; 0xa438; 0xd701; 0xa438; 0x252d;
  0xa438; 0x8031; 0xa438; 0x1800; 0xa438; 0x1171; 0xa438; 0x1800; 0xa438; 0x1187; 0xa438; 0x1800;
  0xa438; 0x116a; 0xa438; 0xc0ff; 0xa438; 0xcaff; 0xa438; 0x1800; 0xa438; 0x00d6; 0xa438; 0xd504;
  0xa438; 0xa001; 0xa438; 0xd704; 0xa438; 0x1800; 0xa438; 0x128b; 0xa438; 0xd707; 0xa438; 0x2005;
  0xa438; 0x8042; 0xa438; 0xd75e; 0xa438; 0x1800; 0xa438; 0x137a; 0xa438; 0x1800; 0xa438; 0x13ed;
  0xa438; 0x61d0; 0xa438; 0xd701; 0xa438; 0x60a5; 0xa438; 0xd504; 0xa438; 0xc9b2; 0xa438; 0xd500;
  0xa438; 0xf004; 0xa438; 0xd504; 0xa438; 0xc9b1; 0xa438; 0xd500; 0xa438; 0xd707; 0xa438; 0x6070;
  0xa438; 0x1800; 0xa438; 0x10a8; 0xa438; 0x1800; 0xa438; 0x10bd; 0xa438; 0xd500; 0xa438; 0xc492;
  0xa438; 0xd501; 0xa438; 0x1800; 0xa438; 0x13c1; 0xa438; 0xa980; 0xa438; 0xd500; 0xa438; 0x1800;
  0xa438; 0x143b; 0xa436; 0xA026; 0xa438; 0x143a; 0xa436; 0xA024; 0xa438; 0x13c0; 0xa436; 0xA022;
  0xa438; 0x10bc; 0xa436; 0xA020; 0xa438; 0x1379; 0xa436; 0xA006; 0xa438; 0x128a; 0xa436; 0xA004;
  0xa438; 0x00d5; 0xa436; 0xA002; 0xa438; 0x1182; 0xa436; 0xA000; 0xa438; 0x1075; 0xa436; 0xA008;
  0xa438; 0xff00; 0xa436; 0xA016; 0xa438; 0x0010; 0xa436; 0xA012; 0xa438; 0x0000; 0xa436; 0xA014;
  0xa438; 0x1800; 0xa438; 0x8010; 0xa438; 0x1800; 0xa438; 0x8015; 0xa438; 0x1800; 0xa438; 0x801a;
  0xa438; 0x1800; 0xa438; 0x801e; 0xa438; 0x1800; 0xa438; 0x8027; 0xa438; 0x1800; 0xa438; 0x8027;
  0xa438; 0x1800; 0xa438; 0x8027; 0xa438; 0x1800; 0xa438; 0x8027; 0xa438; 0x0c0f; 0xa438; 0x0505;
  0xa438; 0xba01; 0xa438; 0x1800; 0xa438; 0x015e; 0xa438; 0x0c0f; 0xa438; 0x0506; 0xa438; 0xba02;
  0xa438; 0x1800; 0xa438; 0x017c; 0xa438; 0x9910; 0xa438; 0x9a03; 0xa438; 0x1800; 0xa438; 0x02d4;
  0xa438; 0x8580; 0xa438; 0xc090; 0xa438; 0x9a03; 0xa438; 0x1000; 0xa438; 0x02c9; 0xa438; 0xd700;
  0xa438; 0x5fa3; 0xa438; 0x1800; 0xa438; 0x0067; 0xa436; 0xA08E; 0xa438; 0xffff; 0xa436; 0xA08C;
  0xa438; 0xffff; 0xa436; 0xA08A; 0xa438; 0xffff; 0xa436; 0xA088; 0xa438; 0xffff; 0xa436; 0xA086;
  0xa438; 0x018c; 0xa436; 0xA084; 0xa438; 0x02d3; 0xa436; 0xA082; 0xa438; 0x017a; 0xa436; 0xA080;
  0xa438; 0x015c; 0xa436; 0xA090; 0xa438; 0x000f; 0xa436; 0xA016; 0xa438; 0x0020; 0xa436; 0xA012;
  0xa438; 0x0000; 0xa436; 0xA014; 0xa438; 0x1800; 0xa438; 0x8010; 0xa438; 0x1800; 0xa438; 0x8023;
  0xa438; 0x1800; 0xa438; 0x8313; 0xa438; 0x1800; 0xa438; 0x831a; 0xa438; 0x1800; 0xa438; 0x8489;
  0xa438; 0x1800; 0xa438; 0x86b9; 0xa438; 0x1800; 0xa438; 0x86c1; 0xa438; 0x1800; 0xa438; 0x87ad;
  0xa438; 0x1000; 0xa438; 0x124e; 0xa438; 0x9308; 0xa438; 0xb201; 0xa438; 0xb301; 0xa438; 0xd701;
  0xa438; 0x5fe0; 0xa438; 0xd2ff; 0xa438; 0xb302; 0xa438; 0xd200; 0xa438; 0xb201; 0xa438; 0xb309;
  0xa438; 0xd701; 0xa438; 0x5fe0; 0xa438; 0xd2ff; 0xa438; 0xb302; 0xa438; 0xd200; 0xa438; 0x1800;
  0xa438; 0x0025; 0xa438; 0xd706; 0xa438; 0x6069; 0xa438; 0xd700; 0xa438; 0x6421; 0xa438; 0xd70c;
  0xa438; 0x43ab; 0xa438; 0x800a; 0xa438; 0x8190; 0xa438; 0x8204; 0xa438; 0xa280; 0xa438; 0x8406;
  0xa438; 0x0c03; 0xa438; 0x1502; 0xa438; 0xa108; 0xa438; 0x9503; 0xa438; 0x0c03; 0xa438; 0x1502;
  0xa438; 0x0c1f; 0xa438; 0x0f19; 0xa438; 0x9503; 0xa438; 0x1000; 0xa438; 0x1175; 0xa438; 0xd70c;
  0xa438; 0x5fb3; 0xa438; 0x0c03; 0xa438; 0x1502; 0xa438; 0x8f1f; 0xa438; 0x9503; 0xa438; 0x1000;
  0xa438; 0x1175; 0xa438; 0xd70c; 0xa438; 0x7f33; 0xa438; 0x1000; 0xa438; 0x11bd; 0xa438; 0x1800;
  0xa438; 0x81aa; 0xa438; 0x8710; 0xa438; 0xd701; 0xa438; 0x33b1; 0xa438; 0x8051; 0xa438; 0xd701;
  0xa438; 0x60b5; 0xa438; 0xd706; 0xa438; 0x6069; 0xa438; 0x1800; 0xa438; 0x8056; 0xa438; 0xa00a;
  0xa438; 0xa280; 0xa438; 0xa404; 0xa438; 0x1800; 0xa438; 0x80f3; 0xa438; 0xd173; 0xa438; 0xd04d;
  0xa438; 0x1000; 0xa438; 0x1175; 0xa438; 0xd700; 0xa438; 0x5fb4; 0xa438; 0xd173; 0xa438; 0xd05d;
  0xa438; 0xd10d; 0xa438; 0xd049; 0xa438; 0x1000; 0xa438; 0x1175; 0xa438; 0xd700; 0xa438; 0x5fb4;
  0xa438; 0xd700; 0xa438; 0x64f5; 0xa438; 0xd700; 0xa438; 0x5ee7; 0xa438; 0xb920; 0xa438; 0x1000;
  0xa438; 0x1175; 0xa438; 0xd71f; 0xa438; 0x7fb4; 0xa438; 0x9920; 0xa438; 0xcb3c; 0xa438; 0x1000;
  0xa438; 0x1175; 0xa438; 0xd71f; 0xa438; 0x7d94; 0xa438; 0x6045; 0xa438; 0xfffa; 0xa438; 0xb820;
  0xa438; 0x1000; 0xa438; 0x1175; 0xa438; 0xd71f; 0xa438; 0x7fa5; 0xa438; 0x9820; 0xa438; 0xcb3d;
  0xa438; 0x1000; 0xa438; 0x1175; 0xa438; 0xd700; 0xa438; 0x60b5; 0xa438; 0xd71f; 0xa438; 0x7bb4;
  0xa438; 0x61b6; 0xa438; 0xfff8; 0xa438; 0xbb80; 0xa438; 0x1000; 0xa438; 0x1175; 0xa438; 0xd71f;
  0xa438; 0x5fb4; 0xa438; 0x9b80; 0xa438; 0xd700; 0xa438; 0x60e7; 0xa438; 0xcb3f; 0xa438; 0x1800;
  0xa438; 0x8094; 0xa438; 0xcb3e; 0xa438; 0x1800; 0xa438; 0x810f; 0xa438; 0x1800; 0xa438; 0x80f3;
  0xa438; 0x0c03; 0xa438; 0x1502; 0xa438; 0xae04; 0xa438; 0x9503; 0xa438; 0x0000; 0xa438; 0x0000;
  0xa438; 0x0c03; 0xa438; 0x1502; 0xa438; 0x8e04; 0xa438; 0x9503; 0xa438; 0xd706; 0xa438; 0x65fe;
  0xa438; 0x0c1f; 0xa438; 0x0d04; 0xa438; 0x8dc0; 0xa438; 0x1000; 0xa438; 0x11bd; 0xa438; 0xd70c;
  0xa438; 0x414b; 0xa438; 0x0cc0; 0xa438; 0x0040; 0xa438; 0x0c03; 0xa438; 0x0102; 0xa438; 0x0ce0;
  0xa438; 0x03e0; 0xa438; 0xccce; 0xa438; 0x1800; 0xa438; 0x80b7; 0xa438; 0x0cc0; 0xa438; 0x0040;
  0xa438; 0x0c03; 0xa438; 0x0100; 0xa438; 0x0ce0; 0xa438; 0x0380; 0xa438; 0xcc9c; 0xa438; 0x8710;
  0xa438; 0x1000; 0xa438; 0x1118; 0xa438; 0xa104; 0xa438; 0x1000; 0xa438; 0x112a; 0xa438; 0x8104;
  0xa438; 0xa202; 0xa438; 0xa140; 0xa438; 0x1000; 0xa438; 0x112a; 0xa438; 0x8140; 0xa438; 0x1000;
  0xa438; 0x1121; 0xa438; 0xaa0f; 0xa438; 0xa130; 0xa438; 0xaa2f; 0xa438; 0xa2d5; 0xa438; 0xa405;
  0xa438; 0xa720; 0xa438; 0xa00a; 0xa438; 0x1800; 0xa438; 0x80f3; 0xa438; 0xd704; 0xa438; 0x3cf1;
  0xa438; 0x80d5; 0xa438; 0x0c1f; 0xa438; 0x0d02; 0xa438; 0x1800; 0xa438; 0x80d7; 0xa438; 0x0c1f;
  0xa438; 0x0d01; 0xa438; 0x0cc0; 0xa438; 0x0d40; 0xa438; 0x1000; 0xa438; 0x11bd; 0xa438; 0x8710;
  0xa438; 0x1000; 0xa438; 0x1118; 0xa438; 0xa108; 0xa438; 0x1000; 0xa438; 0x112a; 0xa438; 0x8108;
  0xa438; 0xa203; 0xa438; 0x8a2f; 0xa438; 0xa130; 0xa438; 0x8204; 0xa438; 0xa140; 0xa438; 0x1000;
  0xa438; 0x112a; 0xa438; 0x8140; 0xa438; 0x1000; 0xa438; 0x1121; 0xa438; 0xd17a; 0xa438; 0xd04b;
  0xa438; 0x1000; 0xa438; 0x1175; 0xa438; 0xd700; 0xa438; 0x5fb4; 0xa438; 0xa204; 0xa438; 0x1000;
  0xa438; 0x1175; 0xa438; 0xd700; 0xa438; 0x5fa7; 0xa438; 0xb920; 0xa438; 0x1000; 0xa438; 0x1175;
  0xa438; 0xd71f; 0xa438; 0x7fb4; 0xa438; 0x9920; 0xa438; 0x1000; 0xa438; 0x1175; 0xa438; 0xd71f;
  0xa438; 0x6125; 0xa438; 0x6054; 0xa438; 0xfffb; 0xa438; 0x1000; 0xa438; 0x1175; 0xa438; 0xd700;
  0xa438; 0x5fa7; 0xa438; 0x1800; 0xa438; 0x80f7; 0xa438; 0xb820; 0xa438; 0x1000; 0xa438; 0x1175;
  0xa438; 0xd71f; 0xa438; 0x7fa5; 0xa438; 0x9820; 0xa438; 0x9b01; 0xa438; 0xd402; 0xa438; 0x1000;
  0xa438; 0x110d; 0xa438; 0xd701; 0xa438; 0x33b1; 0xa438; 0x811c; 0xa438; 0xd701; 0xa438; 0x60b5;
  0xa438; 0xd706; 0xa438; 0x6069; 0xa438; 0x1800; 0xa438; 0x811e; 0xa438; 0x1800; 0xa438; 0x8183;
  0xa438; 0xd70c; 0xa438; 0x40ab; 0xa438; 0x800a; 0xa438; 0x8110; 0xa438; 0x8284; 0xa438; 0x8404;
  0xa438; 0xa710; 0xa438; 0x8120; 0xa438; 0x8241; 0xa438; 0x1000; 0xa438; 0x1118; 0xa438; 0xa104;
  0xa438; 0x1000; 0xa438; 0x112a; 0xa438; 0x8104; 0xa438; 0x1000; 0xa438; 0x1121; 0xa438; 0xaa2f;
  0xa438; 0xd70c; 0xa438; 0x438b; 0xa438; 0xa284; 0xa438; 0xd078; 0xa438; 0x800a; 0xa438; 0x8110;
  0xa438; 0xa284; 0xa438; 0x8404; 0xa438; 0x0c03; 0xa438; 0x1502; 0xa438; 0xa108; 0xa438; 0x9503;
  0xa438; 0x0c03; 0xa438; 0x1502; 0xa438; 0x0c1f; 0xa438; 0x0f19; 0xa438; 0x9503; 0xa438; 0x1000;
  0xa438; 0x1175; 0xa438; 0xd70c; 0xa438; 0x5fb3; 0xa438; 0x0c03; 0xa438; 0x1502; 0xa438; 0x8f1f;
  0xa438; 0x9503; 0xa438; 0x1000; 0xa438; 0x1175; 0xa438; 0xd70c; 0xa438; 0x7f33; 0xa438; 0x0c1f;
  0xa438; 0x0d06; 0xa438; 0x8dc0; 0xa438; 0x1000; 0xa438; 0x11bd; 0xa438; 0x8110; 0xa438; 0xa284;
  0xa438; 0xa404; 0xa438; 0xa00a; 0xa438; 0xd70c; 0xa438; 0x40a1; 0xa438; 0x0c03; 0xa438; 0x1502;
  0xa438; 0xad10; 0xa438; 0x9503; 0xa438; 0xd70c; 0xa438; 0x414b; 0xa438; 0x0cc0; 0xa438; 0x0080;
  0xa438; 0x0c03; 0xa438; 0x0102; 0xa438; 0x0ce0; 0xa438; 0x0340; 0xa438; 0xcc52; 0xa438; 0x1800;
  0xa438; 0x816b; 0xa438; 0x80c0; 0xa438; 0x8103; 0xa438; 0x83e0; 0xa438; 0x8cff; 0xa438; 0xd193;
  0xa438; 0xd047; 0xa438; 0x1000; 0xa438; 0x1175; 0xa438; 0x1000; 0xa438; 0x1193; 0xa438; 0xd700;
  0xa438; 0x5f74; 0xa438; 0xa110; 0xa438; 0x1000; 0xa438; 0x1175; 0xa438; 0x1000; 0xa438; 0x1193;
  0xa438; 0xd700; 0xa438; 0x5f6a; 0xa438; 0xa180; 0xa438; 0xd1f5; 0xa438; 0xd049; 0xa438; 0x1000;
  0xa438; 0x1175; 0xa438; 0x1000; 0xa438; 0x1193; 0xa438; 0xd700; 0xa438; 0x5f74; 0xa438; 0x8710;
  0xa438; 0xa00a; 0xa438; 0x8190; 0xa438; 0x8204; 0xa438; 0xa280; 0xa438; 0xa404; 0xa438; 0xbb80;
  0xa438; 0x1000; 0xa438; 0x1175; 0xa438; 0xd71f; 0xa438; 0x5fb4; 0xa438; 0xb920; 0xa438; 0x9b80;
  0xa438; 0x1000; 0xa438; 0x1175; 0xa438; 0xd71f; 0xa438; 0x7fb4; 0xa438; 0x9920; 0xa438; 0x1000;
  0xa438; 0x1175; 0xa438; 0xcb33; 0xa438; 0xd71f; 0xa438; 0x6105; 0xa438; 0x5f74; 0xa438; 0x1000;
  0xa438; 0x1175; 0xa438; 0xd700; 0xa438; 0x5fa7; 0xa438; 0x1800; 0xa438; 0x818e; 0xa438; 0xa710;
  0xa438; 0xb820; 0xa438; 0x1000; 0xa438; 0x1175; 0xa438; 0xd71f; 0xa438; 0x7f65; 0xa438; 0x9820;
  0xa438; 0x1800; 0xa438; 0x81f1; 0xa438; 0x0c1f; 0xa438; 0x0d04; 0xa438; 0x8dc0; 0xa438; 0x1000;
  0xa438; 0x11bd; 0xa438; 0xa00a; 0xa438; 0x8280; 0xa438; 0xa710; 0xa438; 0xd103; 0xa438; 0xd04c;
  0xa438; 0x1000; 0xa438; 0x1175; 0xa438; 0xd700; 0xa438; 0x5fb4; 0xa438; 0x0c1f; 0xa438; 0x0d06;
  0xa438; 0x8dc0; 0xa438; 0x1000; 0xa438; 0x11bd; 0xa438; 0x8710; 0xa438; 0xa190; 0xa438; 0xa204;
  0xa438; 0x8280; 0xa438; 0xa404; 0xa438; 0x1000; 0xa438; 0x1175; 0xa438; 0xd700; 0xa438; 0x5fa7;
  0xa438; 0xa00a; 0xa438; 0xa110; 0xa438; 0xa284; 0xa438; 0xa404; 0xa438; 0xcb33; 0xa438; 0xd71f;
  0xa438; 0x5f54; 0xa438; 0xb920; 0xa438; 0x1000; 0xa438; 0x1175; 0xa438; 0xd71f; 0xa438; 0x7fb4;
  0xa438; 0x9920; 0xa438; 0x1000; 0xa438; 0x1175; 0xa438; 0xd71f; 0xa438; 0x6145; 0xa438; 0x6074;
  0xa438; 0x1800; 0xa438; 0x81d3; 0xa438; 0x1000; 0xa438; 0x1175; 0xa438; 0xd700; 0xa438; 0x5fa7;
  0xa438; 0x1800; 0xa438; 0x81cd; 0xa438; 0xb820; 0xa438; 0x1000; 0xa438; 0x1175; 0xa438; 0xd71f;
  0xa438; 0x7fa5; 0xa438; 0xa710; 0xa438; 0x9820; 0xa438; 0xbb20; 0xa438; 0x9308; 0xa438; 0xb210;
  0xa438; 0xb301; 0xa438; 0x1000; 0xa438; 0x1175; 0xa438; 0xd701; 0xa438; 0x5fa4; 0xa438; 0xb302;
  0xa438; 0x9210; 0xa438; 0xa00a; 0xa438; 0xa190; 0xa438; 0xa284; 0xa438; 0xa404; 0xa438; 0xcb34;
  0xa438; 0xd701; 0xa438; 0x33b1; 0xa438; 0x823f; 0xa438; 0xd706; 0xa438; 0x60a9; 0xa438; 0xd1f5;
  0xa438; 0xd049; 0xa438; 0x1800; 0xa438; 0x8201; 0xa438; 0xd13c; 0xa438; 0xd04a; 0xa438; 0x1000;
  0xa438; 0x1175; 0xa438; 0x1000; 0xa438; 0x1193; 0xa438; 0xd700; 0xa438; 0x5f74; 0xa438; 0xd700;
  0xa438; 0x5f2b; 0xa438; 0x0c1f; 0xa438; 0x0d03; 0xa438; 0x8dc0; 0xa438; 0x1000; 0xa438; 0x11bd;
  0xa438; 0x8190; 0xa438; 0x8204; 0xa438; 0xa280; 0xa438; 0xa00a; 0xa438; 0x0c03; 0xa438; 0x1502;
  0xa438; 0x8304; 0xa438; 0x9503; 0xa438; 0xcb35; 0xa438; 0xd70c; 0xa438; 0x414b; 0xa438; 0x8280;
  0xa438; 0x800a; 0xa438; 0xd411; 0xa438; 0x1000; 0xa438; 0x110d; 0xa438; 0x1000; 0xa438; 0x11bd;
  0xa438; 0xa280; 0xa438; 0xa00a; 0xa438; 0xd40a; 0xa438; 0xcb36; 0xa438; 0x1000; 0xa438; 0x110d;
  0xa438; 0xd706; 0xa438; 0x431b; 0xa438; 0x800a; 0xa438; 0x8180; 0xa438; 0x8280; 0xa438; 0x8404;
  0xa438; 0xa004; 0xa438; 0x1000; 0xa438; 0x112a; 0xa438; 0x8004; 0xa438; 0xa001; 0xa438; 0x1000;
  0xa438; 0x112a; 0xa438; 0x8001; 0xa438; 0x0c03; 0xa438; 0x0902; 0xa438; 0xa00a; 0xa438; 0xd14a;
  0xa438; 0xd048; 0xa438; 0x1000; 0xa438; 0x1175; 0xa438; 0x1000; 0xa438; 0x1193; 0xa438; 0xd700;
  0xa438; 0x5f74; 0xa438; 0x0c1f; 0xa438; 0x0d06; 0xa438; 0x8dc0; 0xa438; 0x1000; 0xa438; 0x11bd;
  0xa438; 0xd70c; 0xa438; 0x414b; 0xa438; 0x0cc0; 0xa438; 0x0080; 0xa438; 0x0c03; 0xa438; 0x0101;
  0xa438; 0x0ce0; 0xa438; 0x03a0; 0xa438; 0xccb5; 0xa438; 0x1800; 0xa438; 0x8256; 0xa438; 0x0cc0;
  0xa438; 0x0000; 0xa438; 0x0c03; 0xa438; 0x0101; 0xa438; 0x0ce0; 0xa438; 0x0320; 0xa438; 0xcc21;
  0xa438; 0x0c03; 0xa438; 0x1502; 0xa438; 0x0c30; 0xa438; 0x0120; 0xa438; 0xa304; 0xa438; 0x9503;
  0xa438; 0xd70c; 0xa438; 0x674b; 0xa438; 0xd704; 0xa438; 0x471a; 0xa438; 0xa301; 0xa438; 0x800a;
  0xa438; 0xa110; 0xa438; 0x8180; 0xa438; 0xa204; 0xa438; 0x82a0; 0xa438; 0xa404; 0xa438; 0xaa40;
  0xa438; 0x0c03; 0xa438; 0x1502; 0xa438; 0xaa01; 0xa438; 0x9503; 0xa438; 0xd178; 0xa438; 0xd049;
  0xa438; 0x1000; 0xa438; 0x1175; 0xa438; 0x1000; 0xa438; 0x1193; 0xa438; 0xd700; 0xa438; 0x5f74;
  0xa438; 0x8301; 0xa438; 0xa00a; 0xa438; 0x8110; 0xa438; 0xa180; 0xa438; 0xa284; 0xa438; 0x8220;
  0xa438; 0xa404; 0xa438; 0xd178; 0xa438; 0xd048; 0xa438; 0x1000; 0xa438; 0x1175; 0xa438; 0x1000;
  0xa438; 0x1193; 0xa438; 0xd700; 0xa438; 0x5f74; 0xa438; 0xcb3a; 0xa438; 0x8301; 0xa438; 0xa00a;
  0xa438; 0xa190; 0xa438; 0xa280; 0xa438; 0x8224; 0xa438; 0xa404; 0xa438; 0xd700; 0xa438; 0x6041;
  0xa438; 0xa402; 0xa438; 0xd178; 0xa438; 0xd049; 0xa438; 0x1000; 0xa438; 0x1175; 0xa438; 0x1000;
  0xa438; 0x1193; 0xa438; 0xd700; 0xa438; 0x5f74; 0xa438; 0x1800; 0xa438; 0x82ab; 0xa438; 0xa00a;
  0xa438; 0xa190; 0xa438; 0xa2a4; 0xa438; 0xa404; 0xa438; 0xd700; 0xa438; 0x6041; 0xa438; 0xa402;
  0xa438; 0xcb37; 0xa438; 0xd706; 0xa438; 0x60a9; 0xa438; 0xd13d; 0xa438; 0xd04a; 0xa438; 0x1800;
  0xa438; 0x82a7; 0xa438; 0xd13c; 0xa438; 0xd04b; 0xa438; 0x1000; 0xa438; 0x1175; 0xa438; 0xd700;
  0xa438; 0x5fb4; 0xa438; 0x1000; 0xa438; 0x1175; 0xa438; 0x1000; 0xa438; 0x1193; 0xa438; 0xd700;
  0xa438; 0x5f6b; 0xa438; 0x0c1f; 0xa438; 0x0d07; 0xa438; 0x8dc0; 0xa438; 0x1000; 0xa438; 0x11bd;
  0xa438; 0xd40d; 0xa438; 0x1000; 0xa438; 0x110d; 0xa438; 0xa208; 0xa438; 0x8204; 0xa438; 0xaa40;
  0xa438; 0xcb38; 0xa438; 0xd706; 0xa438; 0x6129; 0xa438; 0xd70c; 0xa438; 0x608b; 0xa438; 0xd17a;
  0xa438; 0xd047; 0xa438; 0xf006; 0xa438; 0xd13d; 0xa438; 0xd04b; 0xa438; 0xf003; 0xa438; 0xd196;
  0xa438; 0xd04b; 0xa438; 0x1000; 0xa438; 0x1175; 0xa438; 0x1000; 0xa438; 0x1193; 0xa438; 0xd700;
  0xa438; 0x5f74; 0xa438; 0xd704; 0xa438; 0x35ac; 0xa438; 0x8311; 0xa438; 0x0cc0; 0xa438; 0x0000;
  0xa438; 0x0c03; 0xa438; 0x0101; 0xa438; 0x0ce0; 0xa438; 0x0320; 0xa438; 0xcc21; 0xa438; 0x0c1f;
  0xa438; 0x0d03; 0xa438; 0x8dc0; 0xa438; 0x1000; 0xa438; 0x11bd; 0xa438; 0x0cc0; 0xa438; 0x0000;
  0xa438; 0x0c07; 0xa438; 0x0c07; 0xa438; 0x0c03; 0xa438; 0x1502; 0xa438; 0xa280; 0xa438; 0x8780;
  0xa438; 0x0c60; 0xa438; 0x0700; 0xa438; 0x9503; 0xa438; 0xd704; 0xa438; 0x409c; 0xa438; 0xd110;
  0xa438; 0xd04d; 0xa438; 0xf003; 0xa438; 0xd110; 0xa438; 0xd04d; 0xa438; 0xcb4a; 0xa438; 0x1000;
  0xa438; 0x1175; 0xa438; 0xd700; 0xa438; 0x5fb4; 0xa438; 0x0c03; 0xa438; 0x1502; 0xa438; 0xa240;
  0xa438; 0xa180; 0xa438; 0xa201; 0xa438; 0xa780; 0xa438; 0x9503; 0xa438; 0xd114; 0xa438; 0xd04a;
  0xa438; 0x0000; 0xa438; 0x0000; 0xa438; 0x0000; 0xa438; 0x0000; 0xa438; 0x0000; 0xa438; 0x0000;
  0xa438; 0x0000; 0xa438; 0x0000; 0xa438; 0x0000; 0xa438; 0x0000; 0xa438; 0x0000; 0xa438; 0x0000;
  0xa438; 0xcb4b; 0xa438; 0x1000; 0xa438; 0x1175; 0xa438; 0xd700; 0xa438; 0x5fb4; 0xa438; 0x1800;
  0xa438; 0x0bc3; 0xa438; 0x1800; 0xa438; 0x0bc3; 0xa438; 0x1000; 0xa438; 0x110d; 0xa438; 0xd419;
  0xa438; 0x1000; 0xa438; 0x110d; 0xa438; 0x1800; 0xa438; 0x01ae; 0xa438; 0x8110; 0xa438; 0xa180;
  0xa438; 0x8280; 0xa438; 0xa404; 0xa438; 0xa00a; 0xa438; 0x8402; 0xa438; 0xcb42; 0xa438; 0xd706;
  0xa438; 0x3de9; 0xa438; 0x837a; 0xa438; 0xd704; 0xa438; 0x35ac; 0xa438; 0x8380; 0xa438; 0x1000;
  0xa438; 0x1175; 0xa438; 0xd700; 0xa438; 0x5fab; 0xa438; 0x0c1f; 0xa438; 0x0d06; 0xa438; 0x8dc0;
  0xa438; 0x1000; 0xa438; 0x11bd; 0xa438; 0xd418; 0xa438; 0x1000; 0xa438; 0x110d; 0xa438; 0x0c1f;
  0xa438; 0x0d03; 0xa438; 0x8dc0; 0xa438; 0x1000; 0xa438; 0x11bd; 0xa438; 0x0c03; 0xa438; 0x1502;
  0xa438; 0xa780; 0xa438; 0xa20e; 0xa438; 0x9503; 0xa438; 0xd704; 0xa438; 0x409c; 0xa438; 0xd114;
  0xa438; 0xd04d; 0xa438; 0xf003; 0xa438; 0xd114; 0xa438; 0xd04d; 0xa438; 0x0c03; 0xa438; 0x1502;
  0xa438; 0xa003; 0xa438; 0x9503; 0xa438; 0xcb4c; 0xa438; 0x1000; 0xa438; 0x1175; 0xa438; 0xd700;
  0xa438; 0x5fb4; 0xa438; 0x0c03; 0xa438; 0x1502; 0xa438; 0x0c60; 0xa438; 0x0720; 0xa438; 0xa220;
  0xa438; 0x9503; 0xa438; 0xcb4d; 0xa438; 0xd704; 0xa438; 0x409c; 0xa438; 0xd128; 0xa438; 0xd04f;
  0xa438; 0xf003; 0xa438; 0xd128; 0xa438; 0xd04f; 0xa438; 0x1000; 0xa438; 0x1175; 0xa438; 0xd700;
  0xa438; 0x5fb4; 0xa438; 0x0c03; 0xa438; 0x1502; 0xa438; 0x0c60; 0xa438; 0x0740; 0xa438; 0xa210;
  0xa438; 0x9503; 0xa438; 0xd704; 0xa438; 0x409c; 0xa438; 0xd114; 0xa438; 0xd04e; 0xa438; 0xf003;
  0xa438; 0xd114; 0xa438; 0xd04e; 0xa438; 0xcb4e; 0xa438; 0x1000; 0xa438; 0x1175; 0xa438; 0xd700;
  0xa438; 0x5fb4; 0xa438; 0x0c1f; 0xa438; 0x0d06; 0xa438; 0x8dc0; 0xa438; 0x1000; 0xa438; 0x11bd;
  0xa438; 0x0cc0; 0xa438; 0x0000; 0xa438; 0x0c07; 0xa438; 0x0c01; 0xa438; 0xd704; 0xa438; 0x40b5;
  0xa438; 0x0c03; 0xa438; 0x1502; 0xa438; 0xa23c; 0xa438; 0x9503; 0xa438; 0xb920; 0xa438; 0x1000;
  0xa438; 0x1175; 0xa438; 0xd71f; 0xa438; 0x7fb4; 0xa438; 0x8710; 0xa438; 0x9920; 0xa438; 0x1000;
  0xa438; 0x1175; 0xa438; 0xd71f; 0xa438; 0x6105; 0xa438; 0x6054; 0xa438; 0xfffb; 0xa438; 0x1000;
  0xa438; 0x1175; 0xa438; 0xd700; 0xa438; 0x5fa7; 0xa438; 0xffef; 0xa438; 0xa710; 0xa438; 0xb820;
  0xa438; 0x1000; 0xa438; 0x1175; 0xa438; 0xd71f; 0xa438; 0x7fa5; 0xa438; 0x9820; 0xa438; 0xa00a;
  0xa438; 0x0c03; 0xa438; 0x1502; 0xa438; 0xa103; 0xa438; 0x9503; 0xa438; 0xbb20; 0xa438; 0xd706;
  0xa438; 0x60dd; 0xa438; 0x0c1f; 0xa438; 0x0d07; 0xa438; 0x8dc0; 0xa438; 0x1000; 0xa438; 0x11bd;
  0xa438; 0x0c03; 0xa438; 0x1502; 0xa438; 0x0c30; 0xa438; 0x0120; 0xa438; 0xa304; 0xa438; 0x9503;
  0xa438; 0xa190; 0xa438; 0xa2a0; 0xa438; 0xa404; 0xa438; 0xa00a; 0xa438; 0xa604; 0xa438; 0xd700;
  0xa438; 0x6041; 0xa438; 0xa402; 0xa438; 0xcb43; 0xa438; 0xd17a; 0xa438; 0xd048; 0xa438; 0x1000;
  0xa438; 0x1175; 0xa438; 0x1000; 0xa438; 0x1193; 0xa438; 0xd700; 0xa438; 0x5f74; 0xa438; 0x609d;
  0xa438; 0xd417; 0xa438; 0x1000; 0xa438; 0x110d; 0xa438; 0x1000; 0xa438; 0x1175; 0xa438; 0x1000;
  0xa438; 0x1193; 0xa438; 0xd700; 0xa438; 0x5f7a; 0xa438; 0xd704; 0xa438; 0x5f36; 0xa438; 0xd706;
  0xa438; 0x6089; 0xa438; 0xd40c; 0xa438; 0x1000; 0xa438; 0x110d; 0xa438; 0xaa40; 0xa438; 0xbb10;
  0xa438; 0xcb50; 0xa438; 0x1000; 0xa438; 0x1175; 0xa438; 0x1000; 0xa438; 0x1193; 0xa438; 0xd71f;
  0xa438; 0x5f75; 0xa438; 0x8190; 0xa438; 0x82a0; 0xa438; 0x8402; 0xa438; 0xa404; 0xa438; 0x800a;
  0xa438; 0x8718; 0xa438; 0x9b10; 0xa438; 0x9b20; 0xa438; 0x1000; 0xa438; 0x1175; 0xa438; 0xd71f;
  0xa438; 0x7fb5; 0xa438; 0xcb51; 0xa438; 0x1000; 0xa438; 0x1175; 0xa438; 0xd71f; 0xa438; 0x5f94;
  0xa438; 0xd706; 0xa438; 0x6089; 0xa438; 0xd141; 0xa438; 0xd043; 0xa438; 0xf003; 0xa438; 0xd141;
  0xa438; 0xd044; 0xa438; 0x1000; 0xa438; 0x1175; 0xa438; 0xd700; 0xa438; 0x5fb4; 0xa438; 0xd700;
  0xa438; 0x60e5; 0xa438; 0xd704; 0xa438; 0x60be; 0xa438; 0xd706; 0xa438; 0x29b1; 0xa438; 0x83fb;
  0xa438; 0xf002; 0xa438; 0xa880; 0xa438; 0xa00a; 0xa438; 0xa190; 0xa438; 0x8220; 0xa438; 0xa280;
  0xa438; 0xa404; 0xa438; 0xa620; 0xa438; 0x0c03; 0xa438; 0x1502; 0xa438; 0xc5aa; 0xa438; 0x9503;
  0xa438; 0xd700; 0xa438; 0x6061; 0xa438; 0xa402; 0xa438; 0xa480; 0xa438; 0xcb52; 0xa438; 0x1000;
  0xa438; 0x1175; 0xa438; 0xd700; 0xa438; 0x5fba; 0xa438; 0xd704; 0xa438; 0x5f76; 0xa438; 0xb920;
  0xa438; 0xcb53; 0xa438; 0x1000; 0xa438; 0x1175; 0xa438; 0xd71f; 0xa438; 0x7fb4; 0xa438; 0x9920;
  0xa438; 0xa00a; 0xa438; 0xa190; 0xa438; 0xa280; 0xa438; 0x8220; 0xa438; 0xa404; 0xa438; 0xb580;
  0xa438; 0xd700; 0xa438; 0x40a1; 0xa438; 0x0c03; 0xa438; 0x1502; 0xa438; 0xa602; 0xa438; 0x9503;
  0xa438; 0x0c03; 0xa438; 0x1502; 0xa438; 0xa310; 0xa438; 0x9503; 0xa438; 0xcb60; 0xa438; 0xd1c8;
  0xa438; 0xd045; 0xa438; 0x1000; 0xa438; 0x1175; 0xa438; 0xd700; 0xa438; 0x5fb4; 0xa438; 0xaa10;
  0xa438; 0xd70c; 0xa438; 0x2833; 0xa438; 0x8434; 0xa438; 0xf003; 0xa438; 0x1000; 0xa438; 0x1238;
  0xa438; 0xd70c; 0xa438; 0x40a6; 0xa438; 0x0c03; 0xa438; 0x1502; 0xa438; 0xa140; 0xa438; 0x9503;
  0xa438; 0xd70c; 0xa438; 0x40a3; 0xa438; 0x0c03; 0xa438; 0x1502; 0xa438; 0xac20; 0xa438; 0x9503;
  0xa438; 0xa90c; 0xa438; 0xaa80; 0xa438; 0x0c1f; 0xa438; 0x0d07; 0xa438; 0x8dc0; 0xa438; 0x1000;
  0xa438; 0x11bd; 0xa438; 0xa00a; 0xa438; 0xa190; 0xa438; 0xa280; 0xa438; 0x8220; 0xa438; 0xa404;
  0xa438; 0xb580; 0xa438; 0x0c03; 0xa438; 0x1502; 0xa438; 0xc500; 0xa438; 0x9503; 0xa438; 0x83e0;
  0xa438; 0xd700; 0xa438; 0x40c1; 0xa438; 0x0c03; 0xa438; 0x1502; 0xa438; 0xa602; 0xa438; 0x9503;
  0xa438; 0x8e01; 0xa438; 0xd14a; 0xa438; 0xd058; 0xa438; 0xd70c; 0xa438; 0x4063; 0xa438; 0x1000;
  0xa438; 0x11f2; 0xa438; 0xcb62; 0xa438; 0x1000; 0xa438; 0x1175; 0xa438; 0xd704; 0xa438; 0x2e70;
  0xa438; 0x8479; 0xa438; 0xd71f; 0xa438; 0x626e; 0xa438; 0xd704; 0xa438; 0x3868; 0xa438; 0x847d;
  0xa438; 0xd70c; 0xa438; 0x2f18; 0xa438; 0x8483; 0xa438; 0xd700; 0xa438; 0x5db5; 0xa438; 0x0c03;
  0xa438; 0x1502; 0xa438; 0xc5aa; 0xa438; 0x9503; 0xa438; 0x0ce0; 0xa438; 0x0320; 0xa438; 0x1800;
  0xa438; 0x0d6f; 0xa438; 0x1800; 0xa438; 0x0f15; 0xa438; 0x1800; 0xa438; 0x0dae; 0xa438; 0x0c03;
  0xa438; 0x1502; 0xa438; 0xc5aa; 0xa438; 0x9503; 0xa438; 0x1800; 0xa438; 0x0fc9; 0xa438; 0x0c03;
  0xa438; 0x1502; 0xa438; 0xc5aa; 0xa438; 0x9503; 0xa438; 0x1800; 0xa438; 0x0d84; 0xa438; 0x1000;
  0xa438; 0x16e5; 0xa438; 0xd70c; 0xa438; 0x5fa4; 0xa438; 0xa706; 0xa438; 0xd70c; 0xa438; 0x408b;
  0xa438; 0xa701; 0xa438; 0xa502; 0xa438; 0xa880; 0xa438; 0x8801; 0xa438; 0x8e01; 0xa438; 0xca50;
  0xa438; 0x1000; 0xa438; 0x852e; 0xa438; 0xca51; 0xa438; 0xd70e; 0xa438; 0x2210; 0xa438; 0x852c;
  0xa438; 0xd70c; 0xa438; 0x4084; 0xa438; 0xd705; 0xa438; 0x5efd; 0xa438; 0xf007; 0xa438; 0x1000;
  0xa438; 0x16e9; 0xa438; 0xd70c; 0xa438; 0x5ca2; 0xa438; 0x1800; 0xa438; 0x15b2; 0xa438; 0xd70c;
  0xa438; 0x605a; 0xa438; 0x9a10; 0xa438; 0x8e40; 0xa438; 0x8404; 0xa438; 0x1000; 0xa438; 0x174e;
  0xa438; 0x8e80; 0xa438; 0xca62; 0xa438; 0xd705; 0xa438; 0x3084; 0xa438; 0x850e; 0xa438; 0xba10;
  0xa438; 0x0000; 0xa438; 0x0000; 0xa438; 0x1000; 0xa438; 0x8608; 0xa438; 0x0c03; 0xa438; 0x0100;
  0xa438; 0xd702; 0xa438; 0x4638; 0xa438; 0xd1c4; 0xa438; 0xd044; 0xa438; 0x1000; 0xa438; 0x16e5;
  0xa438; 0x1000; 0xa438; 0x170f; 0xa438; 0xd70c; 0xa438; 0x5f7c; 0xa438; 0x8108; 0xa438; 0x0c1f;
  0xa438; 0x0907; 0xa438; 0x8940; 0xa438; 0x1000; 0xa438; 0x1702; 0xa438; 0xa0c4; 0xa438; 0x8610;
  0xa438; 0x8030; 0xa438; 0x8706; 0xa438; 0x0c07; 0xa438; 0x0b06; 0xa438; 0x8410; 0xa438; 0xa980;
  0xa438; 0xa702; 0xa438; 0xd1c4; 0xa438; 0xd045; 0xa438; 0x1000; 0xa438; 0x16e5; 0xa438; 0x1000;
  0xa438; 0x170f; 0xa438; 0xd70c; 0xa438; 0x5f7c; 0xa438; 0x0c07; 0xa438; 0x0b06; 0xa438; 0xa030;
  0xa438; 0xa610; 0xa438; 0xd700; 0xa438; 0x6041; 0xa438; 0xa501; 0xa438; 0xa108; 0xa438; 0xd1c4;
  0xa438; 0xd045; 0xa438; 0xca63; 0xa438; 0x1000; 0xa438; 0x16e5; 0xa438; 0x1000; 0xa438; 0x170f;
  0xa438; 0xd70c; 0xa438; 0x5f7c; 0xa438; 0xd702; 0xa438; 0x6078; 0xa438; 0x9920; 0xa438; 0xf003;
  0xa438; 0xb920; 0xa438; 0xa880; 0xa438; 0x9a10; 0xa438; 0x1000; 0xa438; 0x16e5; 0xa438; 0x1000;
  0xa438; 0x170f; 0xa438; 0xd71f; 0xa438; 0x5f73; 0xa438; 0xf011; 0xa438; 0xd70c; 0xa438; 0x409b;
  0xa438; 0x9920; 0xa438; 0x9a10; 0xa438; 0xfff5; 0xa438; 0x80fe; 0xa438; 0x8610; 0xa438; 0x8501;
  0xa438; 0x8980; 0xa438; 0x8702; 0xa438; 0xa410; 0xa438; 0xa940; 0xa438; 0x81c0; 0xa438; 0xae80;
  0xa438; 0x1800; 0xa438; 0x84b3; 0xa438; 0x8804; 0xa438; 0xa704; 0xa438; 0x8788; 0xa438; 0xff80;
  0xa438; 0xbb08; 0xa438; 0x0c1f; 0xa438; 0x0907; 0xa438; 0x8940; 0xa438; 0x1000; 0xa438; 0x1702;
  0xa438; 0x8701; 0xa438; 0x8502; 0xa438; 0xa0f4; 0xa438; 0xa610; 0xa438; 0xd700; 0xa438; 0x6061;
  0xa438; 0xa002; 0xa438; 0xa501; 0xa438; 0x8706; 0xa438; 0x8410; 0xa438; 0xa980; 0xa438; 0xca64;
  0xa438; 0xd110; 0xa438; 0xd040; 0xa438; 0x1000; 0xa438; 0x16e5; 0xa438; 0x1000; 0xa438; 0x170f;
  0xa438; 0xd70c; 0xa438; 0x5f7c; 0xa438; 0x8804; 0xa438; 0xa706; 0xa438; 0x1800; 0xa438; 0x848d;
  0xa438; 0x1800; 0xa438; 0x1384; 0xa438; 0xd705; 0xa438; 0x405f; 0xa438; 0xf036; 0xa438; 0xd705;
  0xa438; 0x6234; 0xa438; 0xd70c; 0xa438; 0x41c6; 0xa438; 0xd70d; 0xa438; 0x419d; 0xa438; 0xd70d;
  0xa438; 0x417e; 0xa438; 0xd704; 0xa438; 0x6127; 0xa438; 0x2951; 0xa438; 0x8543; 0xa438; 0xd70c;
  0xa438; 0x4083; 0xa438; 0xd70c; 0xa438; 0x2e81; 0xa438; 0x8543; 0xa438; 0xf0c5; 0xa438; 0x80fe;
  0xa438; 0x8610; 0xa438; 0x8501; 0xa438; 0x8704; 0xa438; 0x0c30; 0xa438; 0x0410; 0xa438; 0xa701;
  0xa438; 0xac02; 0xa438; 0xa502; 0xa438; 0x8980; 0xa438; 0xca60; 0xa438; 0xa004; 0xa438; 0xd70c;
  0xa438; 0x6065; 0xa438; 0x1800; 0xa438; 0x8554; 0xa438; 0x8004; 0xa438; 0xa804; 0xa438; 0x0c0f;
  0xa438; 0x0602; 0xa438; 0x0c70; 0xa438; 0x0730; 0xa438; 0xa708; 0xa438; 0xd704; 0xa438; 0x609c;
  0xa438; 0x0c1f; 0xa438; 0x0912; 0xa438; 0xf003; 0xa438; 0x0c1f; 0xa438; 0x090e; 0xa438; 0xa940;
  0xa438; 0x1000; 0xa438; 0x1702; 0xa438; 0xa780; 0xa438; 0xf0a2; 0xa438; 0xd704; 0xa438; 0x63eb;
  0xa438; 0xd705; 0xa438; 0x43b1; 0xa438; 0xd702; 0xa438; 0x339c; 0xa438; 0x8607; 0xa438; 0x8788;
  0xa438; 0x8704; 0xa438; 0x0c1f; 0xa438; 0x0907; 0xa438; 0x8940; 0xa438; 0x1000; 0xa438; 0x1702;
  0xa438; 0x8410; 0xa438; 0xa0f4; 0xa438; 0xa610; 0xa438; 0xd700; 0xa438; 0x6061; 0xa438; 0xa002;
  0xa438; 0xa501; 0xa438; 0xa706; 0xa438; 0x8804; 0xa438; 0xa980; 0xa438; 0xd70c; 0xa438; 0x6085;
  0xa438; 0x8701; 0xa438; 0x8502; 0xa438; 0x8c02; 0xa438; 0xa701; 0xa438; 0xa502; 0xa438; 0xf082;
  0xa438; 0xd70c; 0xa438; 0x60c5; 0xa438; 0xd702; 0xa438; 0x6053; 0xa438; 0xf07d; 0xa438; 0x1800;
  0xa438; 0x8604; 0xa438; 0xd70d; 0xa438; 0x4d1b; 0xa438; 0xba10; 0xa438; 0xae40; 0xa438; 0x0cfc;
  0xa438; 0x03b4; 0xa438; 0x0cfc; 0xa438; 0x05b4; 0xa438; 0xd1c4; 0xa438; 0xd044; 0xa438; 0x1000;
  0xa438; 0x16e5; 0xa438; 0x1000; 0xa438; 0x170f; 0xa438; 0xd70c; 0xa438; 0x5f7c; 0xa438; 0x8706;
  0xa438; 0x8280; 0xa438; 0xace0; 0xa438; 0xa680; 0xa438; 0xa240; 0xa438; 0x1000; 0xa438; 0x16e5;
  0xa438; 0x1000; 0xa438; 0x170f; 0xa438; 0xd702; 0xa438; 0x5f79; 0xa438; 0x8240; 0xa438; 0xd702;
  0xa438; 0x6898; 0xa438; 0xd702; 0xa438; 0x4957; 0xa438; 0x1800; 0xa438; 0x85f6; 0xa438; 0xa1c0;
  0xa438; 0x0c3f; 0xa438; 0x0220; 0xa438; 0x0cfc; 0xa438; 0x030c; 0xa438; 0x0cfc; 0xa438; 0x050c;
  0xa438; 0x8108; 0xa438; 0x8640; 0xa438; 0xa120; 0xa438; 0xa640; 0xa438; 0x0c03; 0xa438; 0x0101;
  0xa438; 0xa110; 0xa438; 0xd1c4; 0xa438; 0xd044; 0xa438; 0xca84; 0xa438; 0x1000; 0xa438; 0x16e5;
  0xa438; 0x1000; 0xa438; 0x170f; 0xa438; 0xd70c; 0xa438; 0x5f7c; 0xa438; 0xd702; 0xa438; 0x60fc;
  0xa438; 0x8210; 0xa438; 0x0ce0; 0xa438; 0x0320; 0xa438; 0x0ce0; 0xa438; 0x0520; 0xa438; 0xf002;
  0xa438; 0xa210; 0xa438; 0xd1c4; 0xa438; 0xd043; 0xa438; 0x1000; 0xa438; 0x16e5; 0xa438; 0x1000;
  0xa438; 0x170f; 0xa438; 0xd70c; 0xa438; 0x5f7c; 0xa438; 0x8233; 0xa438; 0x0cfc; 0xa438; 0x036c;
  0xa438; 0x0cfc; 0xa438; 0x056c; 0xa438; 0xd1c4; 0xa438; 0xd044; 0xa438; 0xca85; 0xa438; 0x1000;
  0xa438; 0x16e5; 0xa438; 0x1000; 0xa438; 0x170f; 0xa438; 0xd70c; 0xa438; 0x5f7c; 0xa438; 0xa680;
  0xa438; 0xa240; 0xa438; 0x1000; 0xa438; 0x16e5; 0xa438; 0x1000; 0xa438; 0x170f; 0xa438; 0xd702;
  0xa438; 0x5f79; 0xa438; 0x8240; 0xa438; 0x0cfc; 0xa438; 0x0390; 0xa438; 0x0cfc; 0xa438; 0x0590;
  0xa438; 0xd702; 0xa438; 0x6058; 0xa438; 0xf002; 0xa438; 0xfec7; 0xa438; 0x81c0; 0xa438; 0x8880;
  0xa438; 0x8706; 0xa438; 0xca61; 0xa438; 0xd1c4; 0xa438; 0xd054; 0xa438; 0x1000; 0xa438; 0x16e5;
  0xa438; 0x1000; 0xa438; 0x170f; 0xa438; 0xd70c; 0xa438; 0x5f7d; 0xa438; 0xa706; 0xa438; 0xf004;
  0xa438; 0x8788; 0xa438; 0xa404; 0xa438; 0x8702; 0xa438; 0x0800; 0xa438; 0x8443; 0xa438; 0x8303;
  0xa438; 0x8280; 0xa438; 0x9920; 0xa438; 0x8ce0; 0xa438; 0x8004; 0xa438; 0xa1c0; 0xa438; 0xd70e;
  0xa438; 0x404a; 0xa438; 0xa280; 0xa438; 0xd702; 0xa438; 0x3bd0; 0xa438; 0x8618; 0xa438; 0x0c3f;
  0xa438; 0x0223; 0xa438; 0xf003; 0xa438; 0x0c3f; 0xa438; 0x0220; 0xa438; 0x0cfc; 0xa438; 0x0308;
  0xa438; 0x0cfc; 0xa438; 0x0508; 0xa438; 0x8108; 0xa438; 0x8640; 0xa438; 0xa120; 0xa438; 0xa640;
  0xa438; 0xd702; 0xa438; 0x6077; 0xa438; 0x8103; 0xa438; 0xf003; 0xa438; 0x0c03; 0xa438; 0x0101;
  0xa438; 0xa110; 0xa438; 0xd702; 0xa438; 0x6077; 0xa438; 0xa108; 0xa438; 0xf006; 0xa438; 0xd704;
  0xa438; 0x6077; 0xa438; 0x8108; 0xa438; 0xf002; 0xa438; 0xa108; 0xa438; 0xd193; 0xa438; 0xd045;
  0xa438; 0xca82; 0xa438; 0x1000; 0xa438; 0x16e5; 0xa438; 0xd70e; 0xa438; 0x606a; 0xa438; 0x1000;
  0xa438; 0x170f; 0xa438; 0xd70c; 0xa438; 0x5f3c; 0xa438; 0xd702; 0xa438; 0x60fc; 0xa438; 0x8210;
  0xa438; 0x0ce0; 0xa438; 0x0320; 0xa438; 0x0ce0; 0xa438; 0x0520; 0xa438; 0xf002; 0xa438; 0xa210;
  0xa438; 0xd1c4; 0xa438; 0xd043; 0xa438; 0x1000; 0xa438; 0x16e5; 0xa438; 0xd70e; 0xa438; 0x606a;
  0xa438; 0x1000; 0xa438; 0x170f; 0xa438; 0xd70c; 0xa438; 0x5f3c; 0xa438; 0xd702; 0xa438; 0x3bd0;
  0xa438; 0x8656; 0xa438; 0x0c3f; 0xa438; 0x020c; 0xa438; 0xf002; 0xa438; 0x823f; 0xa438; 0x0cfc;
  0xa438; 0x034c; 0xa438; 0x0cfc; 0xa438; 0x054c; 0xa438; 0xd1c4; 0xa438; 0xd044; 0xa438; 0x1000;
  0xa438; 0x16e5; 0xa438; 0xd70e; 0xa438; 0x606a; 0xa438; 0x1000; 0xa438; 0x170f; 0xa438; 0xd70c;
  0xa438; 0x5f3c; 0xa438; 0x820c; 0xa438; 0xa360; 0xa438; 0xa560; 0xa438; 0xd1c4; 0xa438; 0xd043;
  0xa438; 0xca83; 0xa438; 0x1000; 0xa438; 0x16e5; 0xa438; 0xd70e; 0xa438; 0x606a; 0xa438; 0x1000;
  0xa438; 0x170f; 0xa438; 0xd70c; 0xa438; 0x5f3c; 0xa438; 0xd70e; 0xa438; 0x406a; 0xa438; 0x8680;
  0xa438; 0xf002; 0xa438; 0xa680; 0xa438; 0xa240; 0xa438; 0x0c0f; 0xa438; 0x0604; 0xa438; 0x0c70;
  0xa438; 0x0750; 0xa438; 0xa708; 0xa438; 0xd704; 0xa438; 0x609c; 0xa438; 0x0c1f; 0xa438; 0x0914;
  0xa438; 0xf003; 0xa438; 0x0c1f; 0xa438; 0x0910; 0xa438; 0xa940; 0xa438; 0x1000; 0xa438; 0x1702;
  0xa438; 0xa780; 0xa438; 0x1000; 0xa438; 0x16e5; 0xa438; 0xd70e; 0xa438; 0x606a; 0xa438; 0x1000;
  0xa438; 0x170f; 0xa438; 0xd702; 0xa438; 0x399c; 0xa438; 0x8689; 0xa438; 0x8240; 0xa438; 0x8788;
  0xa438; 0xd702; 0xa438; 0x63f8; 0xa438; 0xd705; 0xa438; 0x643c; 0xa438; 0xa402; 0xa438; 0xf012;
  0xa438; 0x8402; 0xa438; 0xd705; 0xa438; 0x611b; 0xa438; 0xa401; 0xa438; 0xa302; 0xa438; 0xd702;
  0xa438; 0x417d; 0xa438; 0xa440; 0xa438; 0xa280; 0xa438; 0xf008; 0xa438; 0x8401; 0xa438; 0x8302;
  0xa438; 0xd70c; 0xa438; 0x6060; 0xa438; 0xa301; 0xa438; 0xf002; 0xa438; 0x8301; 0xa438; 0xd70c;
  0xa438; 0x4080; 0xa438; 0xd70e; 0xa438; 0x604a; 0xa438; 0xff5f; 0xa438; 0xd705; 0xa438; 0x3cdd;
  0xa438; 0x86b8; 0xa438; 0xff5b; 0xa438; 0x0cfc; 0xa438; 0x0390; 0xa438; 0x0cfc; 0xa438; 0x0590;
  0xa438; 0x0800; 0xa438; 0x0c1f; 0xa438; 0x0d00; 0xa438; 0x8dc0; 0xa438; 0x1000; 0xa438; 0x11bd;
  0xa438; 0xa504; 0xa438; 0x1800; 0xa438; 0x0fd3; 0xa438; 0xd70d; 0xa438; 0x407d; 0xa438; 0xa710;
  0xa438; 0xf002; 0xa438; 0xa710; 0xa438; 0x9580; 0xa438; 0x0c03; 0xa438; 0x1502; 0xa438; 0xa304;
  0xa438; 0x9503; 0xa438; 0x0c1f; 0xa438; 0x0d07; 0xa438; 0x8dc0; 0xa438; 0x1000; 0xa438; 0x11bd;
  0xa438; 0xcb81; 0xa438; 0xd70c; 0xa438; 0x4882; 0xa438; 0xd706; 0xa438; 0x407a; 0xa438; 0xd70c;
  0xa438; 0x4807; 0xa438; 0xd706; 0xa438; 0x405a; 0xa438; 0x8910; 0xa438; 0xa210; 0xa438; 0xd704;
  0xa438; 0x611c; 0xa438; 0x0cc0; 0xa438; 0x0080; 0xa438; 0x0c03; 0xa438; 0x0101; 0xa438; 0x0ce0;
  0xa438; 0x03a0; 0xa438; 0xccb5; 0xa438; 0x0cc0; 0xa438; 0x0080; 0xa438; 0x0c03; 0xa438; 0x0102;
  0xa438; 0x0ce0; 0xa438; 0x0340; 0xa438; 0xcc52; 0xa438; 0xd706; 0xa438; 0x42ba; 0xa438; 0x0c03;
  0xa438; 0x1502; 0xa438; 0x0c1f; 0xa438; 0x0f1c; 0xa438; 0x9503; 0xa438; 0x1000; 0xa438; 0x1175;
  0xa438; 0xd70c; 0xa438; 0x5fb3; 0xa438; 0x0c03; 0xa438; 0x1502; 0xa438; 0x8f1f; 0xa438; 0x9503;
  0xa438; 0x1000; 0xa438; 0x1175; 0xa438; 0xd70c; 0xa438; 0x7f33; 0xa438; 0x8190; 0xa438; 0x8204;
  0xa438; 0xf016; 0xa438; 0x0c03; 0xa438; 0x1502; 0xa438; 0x0c1f; 0xa438; 0x0f1b; 0xa438; 0x9503;
  0xa438; 0x1000; 0xa438; 0x1175; 0xa438; 0xd70c; 0xa438; 0x5fb3; 0xa438; 0x0c03; 0xa438; 0x1502;
  0xa438; 0x8f1f; 0xa438; 0x9503; 0xa438; 0x1000; 0xa438; 0x1175; 0xa438; 0xd70c; 0xa438; 0x7f33;
  0xa438; 0xd70c; 0xa438; 0x6047].

Definition phy_mcu_ram_code_8126a_2_1_p2 : list Z := [
  0xa438; 0xf002; 0xa438; 0xf00c; 0xa438; 0xd403; 0xa438; 0xcb82; 0xa438; 0x1000; 0xa438; 0x110d;
  0xa438; 0xd40a; 0xa438; 0x1000; 0xa438; 0x110d; 0xa438; 0xd70c; 0xa438; 0x4247; 0xa438; 0x1000;
  0xa438; 0x1225; 0xa438; 0x8a40; 0xa438; 0x1000; 0xa438; 0x1118; 0xa438; 0xa104; 0xa438; 0x1000;
  0xa438; 0x112a; 0xa438; 0x8104; 0xa438; 0x1000; 0xa438; 0x1121; 0xa438; 0x0c03; 0xa438; 0x1502;
  0xa438; 0xa704; 0xa438; 0x9503; 0xa438; 0xcb88; 0xa438; 0xf012; 0xa438; 0xa210; 0xa438; 0xa00a;
  0xa438; 0xaa40; 0xa438; 0x1000; 0xa438; 0x1118; 0xa438; 0xa104; 0xa438; 0x1000; 0xa438; 0x112a;
  0xa438; 0x8104; 0xa438; 0x1000; 0xa438; 0x1121; 0xa438; 0xa190; 0xa438; 0xa284; 0xa438; 0xa404;
  0xa438; 0x8a10; 0xa438; 0x8a80; 0xa438; 0xcb84; 0xa438; 0xd13e; 0xa438; 0xd05a; 0xa438; 0xd13e;
  0xa438; 0xd06b; 0xa438; 0x1000; 0xa438; 0x1175; 0xa438; 0xd700; 0xa438; 0x3559; 0xa438; 0x874b;
  0xa438; 0xfffb; 0xa438; 0xd700; 0xa438; 0x604b; 0xa438; 0xcb8a; 0xa438; 0x1000; 0xa438; 0x1175;
  0xa438; 0xd700; 0xa438; 0x3659; 0xa438; 0x8754; 0xa438; 0xfffb; 0xa438; 0xd700; 0xa438; 0x606b;
  0xa438; 0xcb8b; 0xa438; 0x5eeb; 0xa438; 0xd700; 0xa438; 0x6041; 0xa438; 0xa402; 0xa438; 0xcb8c;
  0xa438; 0xd706; 0xa438; 0x609a; 0xa438; 0xd1f5; 0xa438; 0xd048; 0xa438; 0xf003; 0xa438; 0xd160;
  0xa438; 0xd04b; 0xa438; 0x1000; 0xa438; 0x1175; 0xa438; 0xd700; 0xa438; 0x5fb4; 0xa438; 0xcb8d;
  0xa438; 0x8710; 0xa438; 0xd71f; 0xa438; 0x5fd4; 0xa438; 0xb920; 0xa438; 0x1000; 0xa438; 0x1175;
  0xa438; 0xd71f; 0xa438; 0x7fb4; 0xa438; 0x9920; 0xa438; 0x1000; 0xa438; 0x1175; 0xa438; 0xd71f;
  0xa438; 0x6105; 0xa438; 0x6054; 0xa438; 0xfffb; 0xa438; 0x1000; 0xa438; 0x1175; 0xa438; 0xd700;
  0xa438; 0x5fab; 0xa438; 0xfff0; 0xa438; 0xa710; 0xa438; 0xb820; 0xa438; 0x1000; 0xa438; 0x1175;
  0xa438; 0xd71f; 0xa438; 0x7fa5; 0xa438; 0x9820; 0xa438; 0xd114; 0xa438; 0xd040; 0xa438; 0x1000;
  0xa438; 0x1175; 0xa438; 0xd700; 0xa438; 0x5fba; 0xa438; 0xd704; 0xa438; 0x5f76; 0xa438; 0xd700;
  0xa438; 0x5f34; 0xa438; 0xd700; 0xa438; 0x6081; 0xa438; 0xd706; 0xa438; 0x405a; 0xa438; 0xa480;
  0xa438; 0xcb86; 0xa438; 0xd706; 0xa438; 0x609a; 0xa438; 0xd1c8; 0xa438; 0xd045; 0xa438; 0xf003;
  0xa438; 0xd17a; 0xa438; 0xd04b; 0xa438; 0x1000; 0xa438; 0x1175; 0xa438; 0xd700; 0xa438; 0x5fb4;
  0xa438; 0x0cc0; 0xa438; 0x0000; 0xa438; 0x0c03; 0xa438; 0x0101; 0xa438; 0x0ce0; 0xa438; 0x0320;
  0xa438; 0xcc29; 0xa438; 0xa208; 0xa438; 0x8204; 0xa438; 0xd114; 0xa438; 0xd040; 0xa438; 0xd700;
  0xa438; 0x5ff4; 0xa438; 0x1800; 0xa438; 0x0bc3; 0xa438; 0xa00a; 0xa438; 0x9308; 0xa438; 0xb210;
  0xa438; 0xb301; 0xa438; 0x1000; 0xa438; 0x1175; 0xa438; 0xd701; 0xa438; 0x5fa4; 0xa438; 0xb302;
  0xa438; 0x9210; 0xa438; 0x800a; 0xa438; 0x1800; 0xa438; 0x0573; 0xa436; 0xA10E; 0xa438; 0x0572;
  0xa436; 0xA10C; 0xa438; 0x0e47; 0xa436; 0xA10A; 0xa438; 0x0fd2; 0xa436; 0xA108; 0xa438; 0x1503;
  0xa436; 0xA106; 0xa438; 0x0c0d; 0xa436; 0xA104; 0xa438; 0x01ac; 0xa436; 0xA102; 0xa438; 0x0956;
  0xa436; 0xA100; 0xa438; 0x001c; 0xa436; 0xA110; 0xa438; 0x00ff; 0xa436; 0xA016; 0xa438; 0x0020;
  0xa436; 0xA012; 0xa438; 0x1ff8; 0xa436; 0xA014; 0xa438; 0x0000; 0xa438; 0x85f0; 0xa438; 0xa2a0;
  0xa438; 0x8880; 0xa438; 0x0d00; 0xa438; 0xc500; 0xa438; 0x800a; 0xa438; 0xae01; 0xa436; 0xA164;
  0xa438; 0x1013; 0xa436; 0xA166; 0xa438; 0x1014; 0xa436; 0xA168; 0xa438; 0x0F98; 0xa436; 0xA16A;
  0xa438; 0x0DCA; 0xa436; 0xA16C; 0xa438; 0x109B; 0xa436; 0xA16E; 0xa438; 0x10A2; 0xa436; 0xA170;
  0xa438; 0x0F33; 0xa436; 0xA172; 0xa438; 0x0F6E; 0xa436; 0xA162; 0xa438; 0x00ff; 0xa436; 0xb87c;
  0xa438; 0x8a45; 0xa436; 0xb87e; 0xa438; 0xaf8a; 0xa438; 0x5daf; 0xa438; 0x8a63; 0xa438; 0xaf8a;
  0xa438; 0x6caf; 0xa438; 0x8a78; 0xa438; 0xaf8a; 0xa438; 0x87af; 0xa438; 0x8a90; 0xa438; 0xaf8a;
  0xa438; 0x96af; 0xa438; 0x8acf; 0xa438; 0x028a; 0xa438; 0xecaf; 0xa438; 0x211f; 0xa438; 0x0265;
  0xa438; 0xcb02; 0xa438; 0x8fb4; 0xa438; 0xaf21; 0xa438; 0x6fa1; 0xa438; 0x1903; 0xa438; 0x028f;
  0xa438; 0x3d02; 0xa438; 0x2261; 0xa438; 0xaf21; 0xa438; 0x2ead; 0xa438; 0x2109; 0xa438; 0xe08f;
  0xa438; 0xffac; 0xa438; 0x2503; 0xa438; 0xaf4b; 0xa438; 0xeeaf; 0xa438; 0x4beb; 0xa438; 0xad35;
  0xa438; 0x03af; 0xa438; 0x421b; 0xa438; 0xaf42; 0xa438; 0x5ce1; 0xa438; 0x8652; 0xa438; 0xaf49;
  0xa438; 0xdcef; 0xa438; 0x31e1; 0xa438; 0x8ffd; 0xa438; 0xac28; 0xa438; 0x2ebf; 0xa438; 0x6dda;
  0xa438; 0x0274; 0xa438; 0x95ad; 0xa438; 0x2825; 0xa438; 0xe28f; 0xa438; 0xe4ef; 0xa438; 0x131b;
  0xa438; 0x12ac; 0xa438; 0x2f10; 0xa438; 0xef31; 0xa438; 0x1f44; 0xa438; 0xef13; 0xa438; 0xbf6c;
  0xa438; 0xcf02; 0xa438; 0x7476; 0xa438; 0x1a12; 0xa438; 0xae08; 0xa438; 0xbf6c; 0xa438; 0xcf02;
  0xa438; 0x744a; 0xa438; 0xef13; 0xa438; 0xaf08; 0xa438; 0x66af; 0xa438; 0x085c; 0xa438; 0xe18f;
  0xa438; 0xe3ad; 0xa438; 0x2706; 0xa438; 0xe58f; 0xa438; 0xe9af; 0xa438; 0x4091; 0xa438; 0xe08f;
  0xa438; 0xe1ac; 0xa438; 0x2002; 0xa438; 0xae03; 0xa438; 0xe18f; 0xa438; 0xe2e5; 0xa438; 0x8fe9;
  0xa438; 0xaf3f; 0xa438; 0xe5f8; 0xa438; 0xe08f; 0xa438; 0xe7a0; 0xa438; 0x0005; 0xa438; 0x028b;
  0xa438; 0x0dae; 0xa438; 0x13a0; 0xa438; 0x0105; 0xa438; 0x028b; 0xa438; 0x96ae; 0xa438; 0x0ba0;
  0xa438; 0x0205; 0xa438; 0x028b; 0xa438; 0xc2ae; 0xa438; 0x0302; 0xa438; 0x8c18; 0xa438; 0xfc04;
  0xa438; 0xf8fa; 0xa438; 0xef69; 0xa438; 0xfafb; 0xa438; 0xe080; 0xa438; 0x15ad; 0xa438; 0x2343;
  0xa438; 0xe08f; 0xa438; 0xfdac; 0xa438; 0x203d; 0xa438; 0xe08f; 0xa438; 0xe9a0; 0xa438; 0x0002;
  0xa438; 0xae35; 0xa438; 0xee8f; 0xa438; 0xe800; 0xa438; 0x028c; 0xa438; 0xc8bf; 0xa438; 0x8feb;
  0xa438; 0xd819; 0xa438; 0xd9ef; 0xa438; 0x64bf; 0xa438; 0x8fef; 0xa438; 0xd819; 0xa438; 0xd9ef;
  0xa438; 0x7402; 0xa438; 0x73a4; 0xa438; 0xad50; 0xa438; 0x18ee; 0xa438; 0x8fff; 0xa438; 0x0102;
  0xa438; 0x8e1b; 0xa438; 0x0273; 0xa438; 0xd7ef; 0xa438; 0x47e5; 0xa438; 0x85a6; 0xa438; 0xe485;
  0xa438; 0xa5ee; 0xa438; 0x8fe7; 0xa438; 0x01ae; 0xa438; 0x33bf; 0xa438; 0x8f87; 0xa438; 0x0274;
  0xa438; 0x4abf; 0xa438; 0x8f8d; 0xa438; 0x0274; 0xa438; 0x4abf; 0xa438; 0x8f93; 0xa438; 0x0274;
  0xa438; 0x4abf; 0xa438; 0x8f99; 0xa438; 0x0274; 0xa438; 0x4abf; 0xa438; 0x8f84; 0xa438; 0x0274;
  0xa438; 0x53bf; 0xa438; 0x8f8a; 0xa438; 0x0274; 0xa438; 0x53bf; 0xa438; 0x8f90; 0xa438; 0x0274;
  0xa438; 0x53bf; 0xa438; 0x8f96; 0xa438; 0x0274; 0xa438; 0x5302; 0xa438; 0x2261; 0xa438; 0xfffe;
  0xa438; 0xef96; 0xa438; 0xfefc; 0xa438; 0x04f8; 0xa438; 0xfafb; 0xa438; 0xe085; 0xa438; 0xa5e1;
  0xa438; 0x85a6; 0xa438; 0xef64; 0xa438; 0xd000; 0xa438; 0xe18f; 0xa438; 0xeaef; 0xa438; 0x7402;
  0xa438; 0x73f2; 0xa438; 0xad50; 0xa438; 0x10e0; 0xa438; 0x8fe8; 0xa438; 0xac24; 0xa438; 0x06ee;
  0xa438; 0x8fe7; 0xa438; 0x02ae; 0xa438; 0x04ee; 0xa438; 0x8fe7; 0xa438; 0x03ff; 0xa438; 0xfefc;
  0xa438; 0x04f8; 0xa438; 0xf9fa; 0xa438; 0xef69; 0xa438; 0xfb02; 0xa438; 0x8cc8; 0xa438; 0xbf8f;
  0xa438; 0xebd8; 0xa438; 0x19d9; 0xa438; 0xbf8f; 0xa438; 0xf3e2; 0xa438; 0x8fe8; 0xa438; 0xef32;
  0xa438; 0x4b02; 0xa438; 0x1a93; 0xa438; 0xdc19; 0xa438; 0xdd12; 0xa438; 0xe68f; 0xa438; 0xe8e3;
  0xa438; 0x8fe9; 0xa438; 0x1b23; 0xa438; 0xad37; 0xa438; 0x07e0; 0xa438; 0x8fff; 0xa438; 0x4802;
  0xa438; 0xae09; 0xa438; 0xee8f; 0xa438; 0xe810; 0xa438; 0x1f00; 0xa438; 0xe48f; 0xa438; 0xfee4;
  0xa438; 0x8fff; 0xa438; 0x028e; 0xa438; 0x1b02; 0xa438; 0x73d7; 0xa438; 0xef47; 0xa438; 0xe585;
  0xa438; 0xa6e4; 0xa438; 0x85a5; 0xa438; 0xee8f; 0xa438; 0xe701; 0xa438; 0xffef; 0xa438; 0x96fe;
  0xa438; 0xfdfc; 0xa438; 0x04f8; 0xa438; 0xf9fa; 0xa438; 0xef69; 0xa438; 0xfafb; 0xa438; 0x028c;
  0xa438; 0xc8bf; 0xa438; 0x8feb; 0xa438; 0xd819; 0xa438; 0xd9ef; 0xa438; 0x64bf; 0xa438; 0x8fef;
  0xa438; 0xd819; 0xa438; 0xd9ef; 0xa438; 0x7402; 0xa438; 0x73a4; 0xa438; 0xad50; 0xa438; 0x27bf;
  0xa438; 0x8fed; 0xa438; 0xd819; 0xa438; 0xd9ef; 0xa438; 0x64bf; 0xa438; 0x8ff1; 0xa438; 0xd819;
  0xa438; 0xd9ef; 0xa438; 0x7402; 0xa438; 0x73a4; 0xa438; 0xad50; 0xa438; 0x11e2; 0xa438; 0x8fe8;
  0xa438; 0xe38f; 0xa438; 0xe9ef; 0xa438; 0x0258; 0xa438; 0x0f1b; 0xa438; 0x03ac; 0xa438; 0x2744;
  0xa438; 0xae09; 0xa438; 0xe08f; 0xa438; 0xfee4; 0xa438; 0x8fff; 0xa438; 0x028e; 0xa438; 0x1b02;
  0xa438; 0x2261; 0xa438; 0xee8f; 0xa438; 0xe700; 0xa438; 0xbf8f; 0xa438; 0x8702; 0xa438; 0x744a;
  0xa438; 0xbf8f; 0xa438; 0x8d02; 0xa438; 0x744a; 0xa438; 0xbf8f; 0xa438; 0x9302; 0xa438; 0x744a;
  0xa438; 0xbf8f; 0xa438; 0x9902; 0xa438; 0x744a; 0xa438; 0xbf8f; 0xa438; 0x8402; 0xa438; 0x7453;
  0xa438; 0xbf8f; 0xa438; 0x8a02; 0xa438; 0x7453; 0xa438; 0xbf8f; 0xa438; 0x9002; 0xa438; 0x7453;
  0xa438; 0xbf8f; 0xa438; 0x9602; 0xa438; 0x7453; 0xa438; 0xae1f; 0xa438; 0x12e6; 0xa438; 0x8fe8;
  0xa438; 0xe08f; 0xa438; 0xffe4; 0xa438; 0x8ffe; 0xa438; 0x028d; 0xa438; 0x3e02; 0xa438; 0x8e1b;
  0xa438; 0x0273; 0xa438; 0xd7ef; 0xa438; 0x47e5; 0xa438; 0x85a6; 0xa438; 0xe485; 0xa438; 0xa5ee;
  0xa438; 0x8fe7; 0xa438; 0x01ff; 0xa438; 0xfeef; 0xa438; 0x96fe; 0xa438; 0xfdfc; 0xa438; 0x04f8;
  0xa438; 0xf9fa; 0xa438; 0xef69; 0xa438; 0xfafb; 0xa438; 0x1f22; 0xa438; 0xee8f; 0xa438; 0xeb00;
  0xa438; 0xee8f; 0xa438; 0xec00; 0xa438; 0xee8f; 0xa438; 0xed00; 0xa438; 0xee8f; 0xa438; 0xee00;
  0xa438; 0x1f33; 0xa438; 0xee8f; 0xa438; 0xe500; 0xa438; 0xee8f; 0xa438; 0xe600; 0xa438; 0xbf53;
  0xa438; 0x7d02; 0xa438; 0x7662; 0xa438; 0xef64; 0xa438; 0xbf8f; 0xa438; 0xe5d8; 0xa438; 0x19d9;
  0xa438; 0xef74; 0xa438; 0x0273; 0xa438; 0xbfef; 0xa438; 0x47dd; 0xa438; 0x89dc; 0xa438; 0xd1ff;
  0xa438; 0xb1fe; 0xa438; 0x13ad; 0xa438; 0x3be0; 0xa438; 0x0d73; 0xa438; 0xbf8f; 0xa438; 0xedd8;
  0xa438; 0x19d9; 0xa438; 0xef64; 0xa438; 0xef47; 0xa438; 0x0273; 0xa438; 0xa4ad; 0xa438; 0x5003;
  0xa438; 0xdd89; 0xa438; 0xdcef; 0xa438; 0x64bf; 0xa438; 0x8feb; 0xa438; 0xd819; 0xa438; 0xd91a;
  0xa438; 0x46dd; 0xa438; 0x89dc; 0xa438; 0x12ad; 0xa438; 0x32b0; 0xa438; 0x0d42; 0xa438; 0xdc19;
  0xa438; 0xddff; 0xa438; 0xfeef; 0xa438; 0x96fe; 0xa438; 0xfdfc; 0xa438; 0x04f8; 0xa438; 0xf9fa;
  0xa438; 0xef69; 0xa438; 0xfafb; 0xa438; 0x1f22; 0xa438; 0xd6ff; 0xa438; 0xffef; 0xa438; 0x03bf;
  0xa438; 0x8ff3; 0xa438; 0xef32; 0xa438; 0x4b02; 0xa438; 0x1a93; 0xa438; 0xef30; 0xa438; 0xd819;
  0xa438; 0xd9ef; 0xa438; 0x7402; 0xa438; 0x73a4; 0xa438; 0xac50; 0xa438; 0x04ef; 0xa438; 0x32ef;
  0xa438; 0x64e0; 0xa438; 0x8fe9; 0xa438; 0x12ef; 0xa438; 0x121b; 0xa438; 0x10ac; 0xa438; 0x2fd9;
  0xa438; 0xef03; 0xa438; 0xbf8f; 0xa438; 0xf348; 0xa438; 0x021a; 0xa438; 0x90ec; 0xa438; 0xff19;
  0xa438; 0xecff; 0xa438; 0xd001; 0xa438; 0xae03; 0xa438; 0x0c01; 0xa438; 0x83a3; 0xa438; 0x00fa;
  0xa438; 0xe18f; 0xa438; 0xff1e; 0xa438; 0x10e5; 0xa438; 0x8fff; 0xa438; 0xfffe; 0xa438; 0xef96;
  0xa438; 0xfefd; 0xa438; 0xfc04; 0xa438; 0x725a; 0xa438; 0x725d; 0xa438; 0x7260; 0xa438; 0x7263;
  0xa438; 0x71fa; 0xa438; 0x71fd; 0xa438; 0x7200; 0xa438; 0x7203; 0xa438; 0x8f4b; 0xa438; 0x8f4e;
  0xa438; 0x8f51; 0xa438; 0x8f54; 0xa438; 0x8f57; 0xa438; 0x8f5a; 0xa438; 0x8f5d; 0xa438; 0x8f60;
  0xa438; 0x722a; 0xa438; 0x722d; 0xa438; 0x7230; 0xa438; 0x7233; 0xa438; 0x721e; 0xa438; 0x7221;
  0xa438; 0x7224; 0xa438; 0x7227; 0xa438; 0x7212; 0xa438; 0x7215; 0xa438; 0x7218; 0xa438; 0x721b;
  0xa438; 0x724e; 0xa438; 0x7251; 0xa438; 0x7254; 0xa438; 0x7257; 0xa438; 0x7242; 0xa438; 0x7245;
  0xa438; 0x7248; 0xa438; 0x724b; 0xa438; 0x7236; 0xa438; 0x7239; 0xa438; 0x723c; 0xa438; 0x723f;
  0xa438; 0x8f84; 0xa438; 0x8f8a; 0xa438; 0x8f90; 0xa438; 0x8f96; 0xa438; 0x8f9c; 0xa438; 0x8fa2;
  0xa438; 0x8fa8; 0xa438; 0x8fae; 0xa438; 0x8f87; 0xa438; 0x8f8d; 0xa438; 0x8f93; 0xa438; 0x8f99;
  0xa438; 0x8f9f; 0xa438; 0x8fa5; 0xa438; 0x8fab; 0xa438; 0x8fb1; 0xa438; 0x8f63; 0xa438; 0x8f66;
  0xa438; 0x8f69; 0xa438; 0x8f6c; 0xa438; 0x8f6f; 0xa438; 0x8f72; 0xa438; 0x8f75; 0xa438; 0x8f78;
  0xa438; 0x8f7b; 0xa438; 0xf8f9; 0xa438; 0xfaef; 0xa438; 0x69fa; 0xa438; 0xfbe2; 0xa438; 0x8fff;
  0xa438; 0xad30; 0xa438; 0x06d1; 0xa438; 0x00d3; 0xa438; 0x00ae; 0xa438; 0x04d1; 0xa438; 0x01d3;
  0xa438; 0x0fbf; 0xa438; 0x8d99; 0xa438; 0xd700; 0xa438; 0x0802; 0xa438; 0x7677; 0xa438; 0xef13;
  0xa438; 0xbf8d; 0xa438; 0xa1d7; 0xa438; 0x0008; 0xa438; 0x0276; 0xa438; 0x77ad; 0xa438; 0x3106;
  0xa438; 0xd100; 0xa438; 0xd300; 0xa438; 0xae04; 0xa438; 0xd101; 0xa438; 0xd30f; 0xa438; 0xbf8d;
  0xa438; 0xa9d7; 0xa438; 0x0008; 0xa438; 0x0276; 0xa438; 0x77ef; 0xa438; 0x13bf; 0xa438; 0x8db1;
  0xa438; 0xd700; 0xa438; 0x0802; 0xa438; 0x7677; 0xa438; 0xad32; 0xa438; 0x06d1; 0xa438; 0x00d3;
  0xa438; 0x00ae; 0xa438; 0x04d1; 0xa438; 0x01d3; 0xa438; 0x03bf; 0xa438; 0x8db9; 0xa438; 0xd700;
  0xa438; 0x1802; 0xa438; 0x7677; 0xa438; 0xef13; 0xa438; 0xbf8d; 0xa438; 0xd1d7; 0xa438; 0x0018;
  0xa438; 0x0276; 0xa438; 0x77ad; 0xa438; 0x3304; 0xa438; 0xd101; 0xa438; 0xae02; 0xa438; 0xd100;
  0xa438; 0xd300; 0xa438; 0xbf8d; 0xa438; 0xe9d7; 0xa438; 0x0010; 0xa438; 0x0276; 0xa438; 0x77ef;
  0xa438; 0x13bf; 0xa438; 0x8df9; 0xa438; 0xd700; 0xa438; 0x1002; 0xa438; 0x7677; 0xa438; 0x1f33;
  0xa438; 0xe38f; 0xa438; 0xfdac; 0xa438; 0x3803; 0xa438; 0xaf8f; 0xa438; 0x35ad; 0xa438; 0x3405;
  0xa438; 0xe18f; 0xa438; 0xfbae; 0xa438; 0x02d1; 0xa438; 0x00bf; 0xa438; 0x8e09; 0xa438; 0xd700;
  0xa438; 0x1202; 0xa438; 0x7677; 0xa438; 0xad35; 0xa438; 0x06d1; 0xa438; 0x01d3; 0xa438; 0x04ae;
  0xa438; 0x04d1; 0xa438; 0x00d3; 0xa438; 0x00bf; 0xa438; 0x6f8a; 0xa438; 0x0274; 0xa438; 0x76bf;
  0xa438; 0x6bd0; 0xa438; 0x0274; 0xa438; 0x951a; 0xa438; 0x13bf; 0xa438; 0x6bd0; 0xa438; 0x0274;
  0xa438; 0x76bf; 0xa438; 0x6d2c; 0xa438; 0x0274; 0xa438; 0x95ac; 0xa438; 0x280b; 0xa438; 0xbf6d;
  0xa438; 0x2f02; 0xa438; 0x7495; 0xa438; 0xac28; 0xa438; 0x02ae; 0xa438; 0x0bad; 0xa438; 0x3504;
  0xa438; 0xd101; 0xa438; 0xae0d; 0xa438; 0xd10f; 0xa438; 0xae09; 0xa438; 0xad35; 0xa438; 0x04d1;
  0xa438; 0x05ae; 0xa438; 0x02d1; 0xa438; 0x0fbf; 0xa438; 0x8f7e; 0xa438; 0x0274; 0xa438; 0x76e3;
  0xa438; 0x8ffc; 0xa438; 0xac38; 0xa438; 0x05ad; 0xa438; 0x3618; 0xa438; 0xae08; 0xa438; 0xbf71;
  0xa438; 0x9d02; 0xa438; 0x744a; 0xa438; 0xae0e; 0xa438; 0xd102; 0xa438; 0xbf8f; 0xa438; 0x8102;
  0xa438; 0x7476; 0xa438; 0xbf71; 0xa438; 0x9d02; 0xa438; 0x7476; 0xa438; 0xfffe; 0xa438; 0xef96;
  0xa438; 0xfefd; 0xa438; 0xfc04; 0xa438; 0xf91f; 0xa438; 0x33e3; 0xa438; 0x8ffd; 0xa438; 0xad38;
  0xa438; 0x0302; 0xa438; 0x8e1b; 0xa438; 0xfd04; 0xa438; 0x55b0; 0xa438; 0x2055; 0xa438; 0xb0a0;
  0xa438; 0x55b1; 0xa438; 0x2055; 0xa438; 0xb1a0; 0xa438; 0xfcb0; 0xa438; 0x22fc; 0xa438; 0xb0a2;
  0xa438; 0xfcb1; 0xa438; 0x22fc; 0xa438; 0xb1a2; 0xa438; 0xfdad; 0xa438; 0xdaca; 0xa438; 0xadda;
  0xa438; 0x97ad; 0xa438; 0xda64; 0xa438; 0xadda; 0xa438; 0x20ad; 0xa438; 0xdafd; 0xa438; 0xaddc;
  0xa438; 0xcaad; 0xa438; 0xdc97; 0xa438; 0xaddc; 0xa438; 0x64ad; 0xa438; 0xdca7; 0xa438; 0xbf1e;
  0xa438; 0x20bc; 0xa438; 0x3299; 0xa438; 0xadfe; 0xa438; 0x85ad; 0xa438; 0xfe44; 0xa438; 0xadfe;
  0xa438; 0x30ad; 0xa438; 0xfeff; 0xa438; 0xae00; 0xa438; 0xebae; 0xa438; 0x00aa; 0xa438; 0xae00;
  0xa438; 0x96ae; 0xa438; 0x00dd; 0xa438; 0xad94; 0xa438; 0xccad; 0xa438; 0x9499; 0xa438; 0xad94;
  0xa438; 0x88ad; 0xa438; 0x94ff; 0xa438; 0xad94; 0xa438; 0xeead; 0xa438; 0x94bb; 0xa438; 0xad94;
  0xa438; 0xaaad; 0xa438; 0x94f9; 0xa438; 0xe28f; 0xa438; 0xffee; 0xa438; 0x8fff; 0xa438; 0x00e3;
  0xa438; 0x8ffd; 0xa438; 0xee8f; 0xa438; 0xfd01; 0xa438; 0xee8f; 0xa438; 0xfc01; 0xa438; 0x028e;
  0xa438; 0x1be6; 0xa438; 0x8fff; 0xa438; 0xe78f; 0xa438; 0xfdee; 0xa438; 0x8ffc; 0xa438; 0x00ee;
  0xa438; 0x8fe7; 0xa438; 0x00fd; 0xa438; 0x0400; 0xa436; 0xb85e; 0xa438; 0x211C; 0xa436; 0xb860;
  0xa438; 0x216C; 0xa436; 0xb862; 0xa438; 0x212B; 0xa436; 0xb864; 0xa438; 0x4BE8; 0xa436; 0xb886;
  0xa438; 0x4209; 0xa436; 0xb888; 0xa438; 0x49DA; 0xa436; 0xb88a; 0xa438; 0x085A; 0xa436; 0xb88c;
  0xa438; 0x3FDF; 0xa436; 0xb838; 0xa438; 0x00ff; 0xb820; 0x0010; 0xa466; 0x0003; 0xa436; 0x8528;
  0xa438; 0x0000; 0xa436; 0x85f8; 0xa438; 0xaf86; 0xa438; 0x10af; 0xa438; 0x8622; 0xa438; 0xaf86;
  0xa438; 0x4aaf; 0xa438; 0x8658; 0xa438; 0xaf86; 0xa438; 0x64af; 0xa438; 0x8685; 0xa438; 0xaf86;
  0xa438; 0xc4af; 0xa438; 0x86cf; 0xa438; 0xa104; 0xa438; 0x0ce0; 0xa438; 0x8394; 0xa438; 0xad20;
  0xa438; 0x03af; 0xa438; 0x2b67; 0xa438; 0xaf2a; 0xa438; 0xf0af; 0xa438; 0x2b8d; 0xa438; 0xbf6b;
  0xa438; 0x7202; 0xa438; 0x72dc; 0xa438; 0xa106; 0xa438; 0x19e1; 0xa438; 0x8164; 0xa438; 0xbf6d;
  0xa438; 0x5b02; 0xa438; 0x72bd; 0xa438; 0x0d13; 0xa438; 0xbf6d; 0xa438; 0x5802; 0xa438; 0x72bd;
  0xa438; 0x0d13; 0xa438; 0xbf6d; 0xa438; 0x6a02; 0xa438; 0x72bd; 0xa438; 0x0275; 0xa438; 0x12af;
  0xa438; 0x380d; 0xa438; 0x0d55; 0xa438; 0x5d07; 0xa438; 0xffbf; 0xa438; 0x8b09; 0xa438; 0x0272;
  0xa438; 0x91af; 0xa438; 0x3ee2; 0xa438; 0x023d; 0xa438; 0xffbf; 0xa438; 0x8b09; 0xa438; 0x0272;
  0xa438; 0x9aaf; 0xa438; 0x41a6; 0xa438; 0x0223; 0xa438; 0x24f8; 0xa438; 0xfaef; 0xa438; 0x69bf;
  0xa438; 0x6b9c; 0xa438; 0x0272; 0xa438; 0xdce0; 0xa438; 0x8f7a; 0xa438; 0x1f01; 0xa438; 0x9e06;
  0xa438; 0xe58f; 0xa438; 0x7a02; 0xa438; 0x7550; 0xa438; 0xef96; 0xa438; 0xfefc; 0xa438; 0xaf06;
  0xa438; 0x8702; 0xa438; 0x1cac; 0xa438; 0xf8f9; 0xa438; 0xfaef; 0xa438; 0x69fb; 0xa438; 0xd78f;
  0xa438; 0x97ae; 0xa438; 0x00bf; 0xa438; 0x6d4f; 0xa438; 0x0272; 0xa438; 0x91d3; 0xa438; 0x00a3;
  0xa438; 0x1202; 0xa438; 0xae1b; 0xa438; 0xbf6d; 0xa438; 0x52ef; 0xa438; 0x1302; 0xa438; 0x72bd;
  0xa438; 0xef97; 0xa438; 0xd9bf; 0xa438; 0x6d55; 0xa438; 0x0272; 0xa438; 0xbd17; 0xa438; 0x13ae;
  0xa438; 0xe6bf; 0xa438; 0x6d4f; 0xa438; 0x0272; 0xa438; 0x9aff; 0xa438; 0xef96; 0xa438; 0xfefd;
  0xa438; 0xfcaf; 0xa438; 0x1c05; 0xa438; 0x0000; 0xa438; 0x021b; 0xa438; 0xf202; 0xa438; 0x8700;
  0xa438; 0xaf1b; 0xa438; 0x73ad; 0xa438; 0x2003; 0xa438; 0x0206; 0xa438; 0x6ead; 0xa438; 0x2108;
  0xa438; 0xe280; 0xa438; 0x51f7; 0xa438; 0x30e6; 0xa438; 0x8051; 0xa438; 0xe180; 0xa438; 0x421e;
  0xa438; 0x10e5; 0xa438; 0x8042; 0xa438; 0xe0ff; 0xa438; 0xeee1; 0xa438; 0x8043; 0xa438; 0x1e10;
  0xa438; 0xe580; 0xa438; 0x43e0; 0xa438; 0xffef; 0xa438; 0xad20; 0xa438; 0x04ee; 0xa438; 0x804f;
  0xa438; 0x1eaf; 0xa438; 0x0661; 0xa438; 0xf8fa; 0xa438; 0xef69; 0xa438; 0xe080; 0xa438; 0x4fac;
  0xa438; 0x2417; 0xa438; 0xe080; 0xa438; 0x44ad; 0xa438; 0x241a; 0xa438; 0x0287; 0xa438; 0x2fe0;
  0xa438; 0x8044; 0xa438; 0xac24; 0xa438; 0x11bf; 0xa438; 0x8b0c; 0xa438; 0x0272; 0xa438; 0x9aae;
  0xa438; 0x0902; 0xa438; 0x88c8; 0xa438; 0x028a; 0xa438; 0x9502; 0xa438; 0x8a8a; 0xa438; 0xef96;
  0xa438; 0xfefc; 0xa438; 0x04f8; 0xa438; 0xe08f; 0xa438; 0x96a0; 0xa438; 0x0005; 0xa438; 0x0288;
  0xa438; 0x6cae; 0xa438; 0x38a0; 0xa438; 0x0105; 0xa438; 0x0287; 0xa438; 0x75ae; 0xa438; 0x30a0;
  0xa438; 0x0205; 0xa438; 0x0287; 0xa438; 0xb3ae; 0xa438; 0x28a0; 0xa438; 0x0305; 0xa438; 0x0287;
  0xa438; 0xc9ae; 0xa438; 0x20a0; 0xa438; 0x0405; 0xa438; 0x0287; 0xa438; 0xd6ae; 0xa438; 0x18a0;
  0xa438; 0x0505; 0xa438; 0x0288; 0xa438; 0x1aae; 0xa438; 0x10a0; 0xa438; 0x0605; 0xa438; 0x0288;
  0xa438; 0x27ae; 0xa438; 0x08a0; 0xa438; 0x0705; 0xa438; 0x0288; 0xa438; 0x48ae; 0xa438; 0x00fc;
  0xa438; 0x04f8; 0xa438; 0xfaef; 0xa438; 0x69e0; 0xa438; 0x8018; 0xa438; 0xad25; 0xa438; 0x2c02;
  0xa438; 0x8a67; 0xa438; 0xe184; 0xa438; 0x5de5; 0xa438; 0x8f92; 0xa438; 0xe58f; 0xa438; 0x93e5;
  0xa438; 0x8f94; 0xa438; 0xe58f; 0xa438; 0x9502; 0xa438; 0x88e6; 0xa438; 0xe184; 0xa438; 0xf759;
  0xa438; 0x0fe5; 0xa438; 0x8f7b; 0xa438; 0xe58f; 0xa438; 0x7ce5; 0xa438; 0x8f7d; 0xa438; 0xe58f;
  0xa438; 0x7eee; 0xa438; 0x8f96; 0xa438; 0x02ae; 0xa438; 0x0302; 0xa438; 0x8a8a; 0xa438; 0xef96;
  0xa438; 0xfefc; 0xa438; 0x04f9; 0xa438; 0x0289; 0xa438; 0x19ac; 0xa438; 0x3009; 0xa438; 0xee8f;
  0xa438; 0x9603; 0xa438; 0x0288; 0xa438; 0x8eae; 0xa438; 0x04ee; 0xa438; 0x8f96; 0xa438; 0x04fd;
  0xa438; 0x04fb; 0xa438; 0x0288; 0xa438; 0x55ad; 0xa438; 0x5004; 0xa438; 0xee8f; 0xa438; 0x9602;
  0xa438; 0xff04; 0xa438; 0xf902; 0xa438; 0x8943; 0xa438; 0xe28f; 0xa438; 0x920c; 0xa438; 0x245a;
  0xa438; 0xf0e3; 0xa438; 0x84f7; 0xa438; 0x5bf0; 0xa438; 0x1b23; 0xa438; 0x9e0f; 0xa438; 0x028a;
  0xa438; 0x52ee; 0xa438; 0x8f96; 0xa438; 0x0502; 0xa438; 0x888e; 0xa438; 0x0287; 0xa438; 0xffae;
  0xa438; 0x04ee; 0xa438; 0x8f96; 0xa438; 0x06fd; 0xa438; 0x04f8; 0xa438; 0xf9fa; 0xa438; 0xef69;
  0xa438; 0xfa1f; 0xa438; 0x44d2; 0xa438; 0x04bf; 0xa438; 0x8f7f; 0xa438; 0xdc19; 0xa438; 0xdd19;
  0xa438; 0x829f; 0xa438; 0xf9fe; 0xa438; 0xef96; 0xa438; 0xfefd; 0xa438; 0xfc04; 0xa438; 0xfb02;
  0xa438; 0x8855; 0xa438; 0xad50; 0xa438; 0x04ee; 0xa438; 0x8f96; 0xa438; 0x04ff; 0xa438; 0x04f8;
  0xa438; 0xf9fa; 0xa438; 0xef69; 0xa438; 0x0289; 0xa438; 0x19ac; 0xa438; 0x3009; 0xa438; 0xee8f;
  0xa438; 0x9607; 0xa438; 0x0288; 0xa438; 0x8eae; 0xa438; 0x0702; 0xa438; 0x8a8a; 0xa438; 0xee8f;
  0xa438; 0x9601; 0xa438; 0xef96; 0xa438; 0xfefd; 0xa438; 0xfc04; 0xa438; 0xfb02; 0xa438; 0x8855;
  0xa438; 0xad50; 0xa438; 0x04ee; 0xa438; 0x8f96; 0xa438; 0x06ff; 0xa438; 0x04f8; 0xa438; 0xfae0;
  0xa438; 0x8457; 0xa438; 0xe184; 0xa438; 0x58ef; 0xa438; 0x64e1; 0xa438; 0x8f90; 0xa438; 0xd000;
  0xa438; 0xef74; 0xa438; 0x0271; 0xa438; 0xfffe; 0xa438; 0xfc04; 0xa438; 0xf8fa; 0xa438; 0xef69;
  0xa438; 0xee8f; 0xa438; 0x9601; 0xa438; 0xee8f; 0xa438; 0x9004; 0xa438; 0xee8f; 0xa438; 0x8f40;
  0xa438; 0xbf8b; 0xa438; 0x0f02; 0xa438; 0x72dc; 0xa438; 0xe584; 0xa438; 0x5dee; 0xa438; 0x8f91;
  0xa438; 0x77ef; 0xa438; 0x96fe; 0xa438; 0xfc04; 0xa438; 0xf8fa; 0xa438; 0xfbef; 0xa438; 0x69e1;
  0xa438; 0x8f92; 0xa438; 0xbf8b; 0xa438; 0x0f02; 0xa438; 0x72bd; 0xa438; 0xe18f; 0xa438; 0x93bf;
  0xa438; 0x8b12; 0xa438; 0x0272; 0xa438; 0xbde1; 0xa438; 0x8f94; 0xa438; 0xbf8b; 0xa438; 0x1502;
  0xa438; 0x72bd; 0xa438; 0xe18f; 0xa438; 0x95bf; 0xa438; 0x8b18; 0xa438; 0x0272; 0xa438; 0xbd02;
  0xa438; 0x71e4; 0xa438; 0xef47; 0xa438; 0xe484; 0xa438; 0x57e5; 0xa438; 0x8458; 0xa438; 0xef96;
  0xa438; 0xfffe; 0xa438; 0xfc04; 0xa438; 0xf8e0; 0xa438; 0x8018; 0xa438; 0xad25; 0xa438; 0x15ee;
  0xa438; 0x8f96; 0xa438; 0x00d0; 0xa438; 0x08e4; 0xa438; 0x8f92; 0xa438; 0xe48f; 0xa438; 0x93e4;
  0xa438; 0x8f94; 0xa438; 0xe48f; 0xa438; 0x9502; 0xa438; 0x888e; 0xa438; 0xfc04; 0xa438; 0xf9e2;
  0xa438; 0x845d; 0xa438; 0xe38f; 0xa438; 0x910d; 0xa438; 0x345b; 0xa438; 0x0f1a; 0xa438; 0x32ac;
  0xa438; 0x3c09; 0xa438; 0x0c34; 0xa438; 0x5bf0; 0xa438; 0xe784; 0xa438; 0xf7ae; 0xa438; 0x04ee;
  0xa438; 0x84f7; 0xa438; 0xf0e3; 0xa438; 0x8f91; 0xa438; 0x5b0f; 0xa438; 0x1b23; 0xa438; 0xac37;
  0xa438; 0x0ae3; 0xa438; 0x84f7; 0xa438; 0x1e32; 0xa438; 0xe784; 0xa438; 0xf7ae; 0xa438; 0x00fd;
  0xa438; 0x04f8; 0xa438; 0xfaef; 0xa438; 0x69fa; 0xa438; 0xfbd2; 0xa438; 0x01d3; 0xa438; 0x04d6;
  0xa438; 0x8f92; 0xa438; 0xd78f; 0xa438; 0x7bef; 0xa438; 0x97d9; 0xa438; 0xef96; 0xa438; 0xd81b;
  0xa438; 0x109e; 0xa438; 0x0480; 0xa438; 0xdcd2; 0xa438; 0x0016; 0xa438; 0x1783; 0xa438; 0x9fed;
  0xa438; 0xfffe; 0xa438; 0xef96; 0xa438; 0xfefc; 0xa438; 0x04f8; 0xa438; 0xf9fa; 0xa438; 0xfbef;
  0xa438; 0x79fb; 0xa438; 0xcffb; 0xa438; 0xd200; 0xa438; 0xbe00; 0xa438; 0x00ef; 0xa438; 0x1229;
  0xa438; 0x40d0; 0xa438; 0x041c; 0xa438; 0x081a; 0xa438; 0x10bf; 0xa438; 0x8b27; 0xa438; 0x0272;
  0xa438; 0xbd02; 0xa438; 0x89ee; 0xa438; 0xbf8f; 0xa438; 0x7fef; 0xa438; 0x1249; 0xa438; 0x021a;
  0xa438; 0x91d8; 0xa438; 0x19d9; 0xa438; 0xef74; 0xa438; 0x0271; 0xa438; 0xccef; 0xa438; 0x47dd;
  0xa438; 0x89dc; 0xa438; 0x18a8; 0xa438; 0x0002; 0xa438; 0xd202; 0xa438; 0x8990; 0xa438; 0x12a2;
  0xa438; 0x04c8; 0xa438; 0xffc7; 0xa438; 0xffef; 0xa438; 0x97ff; 0xa438; 0xfefd; 0xa438; 0xfc04;
  0xa438; 0xf8f9; 0xa438; 0xfafb; 0xa438; 0xef79; 0xa438; 0xfbbf; 0xa438; 0x8f7f; 0xa438; 0xef12;
  0xa438; 0x4902; 0xa438; 0x1a91; 0xa438; 0xd819; 0xa438; 0xd9ef; 0xa438; 0x64bf; 0xa438; 0x8f87;
  0xa438; 0xef12; 0xa438; 0x4902; 0xa438; 0x1a91; 0xa438; 0xd819; 0xa438; 0xd9ef; 0xa438; 0x7489;
  0xa438; 0x0271; 0xa438; 0xb1ad; 0xa438; 0x502c; 0xa438; 0xef46; 0xa438; 0xdc19; 0xa438; 0xdda2;
  0xa438; 0x0006; 0xa438; 0xbf8b; 0xa438; 0x0f02; 0xa438; 0x72dc; 0xa438; 0xa201; 0xa438; 0x06bf;
  0xa438; 0x8b12; 0xa438; 0x0272; 0xa438; 0xdca2; 0xa438; 0x0206; 0xa438; 0xbf8b; 0xa438; 0x1502;
  0xa438; 0x72dc; 0xa438; 0xbf8b; 0xa438; 0x1802; 0xa438; 0x72dc; 0xa438; 0xbf8f; 0xa438; 0x7b1a;
  0xa438; 0x92dd; 0xa438; 0xffef; 0xa438; 0x97ff; 0xa438; 0xfefd; 0xa438; 0xfc04; 0xa438; 0xf9f8;
  0xa438; 0xfbef; 0xa438; 0x79fb; 0xa438; 0x028a; 0xa438; 0xa0bf; 0xa438; 0x8b1b; 0xa438; 0x0272;
  0xa438; 0x9a16; 0xa438; 0xbf8b; 0xa438; 0x1e02; 0xa438; 0x72dc; 0xa438; 0xac28; 0xa438; 0x02ae;
  0xa438; 0xf4d6; 0xa438; 0x0000; 0xa438; 0xbf8b; 0xa438; 0x1b02; 0xa438; 0x7291; 0xa438; 0xae03;
  0xa438; 0x028a; 0xa438; 0x8ad2; 0xa438; 0x00d7; 0xa438; 0x0000; 0xa438; 0xe18f; 0xa438; 0x8f1b;
  0xa438; 0x12a1; 0xa438; 0x0004; 0xa438; 0xef67; 0xa438; 0xae1d; 0xa438; 0xef12; 0xa438; 0xbf8b;
  0xa438; 0x2102; 0xa438; 0x72bd; 0xa438; 0x12bf; 0xa438; 0x8b24; 0xa438; 0x0272; 0xa438; 0xdcef;
  0xa438; 0x64ad; 0xa438; 0x4f04; 0xa438; 0x7eff; 0xa438; 0xff16; 0xa438; 0x0271; 0xa438; 0xccae;
  0xa438; 0xd7bf; 0xa438; 0x8b2d; 0xa438; 0x0272; 0xa438; 0x91ff; 0xa438; 0xef97; 0xa438; 0xfffc;
  0xa438; 0xfd04; 0xa438; 0xf8fa; 0xa438; 0xef69; 0xa438; 0xd104; 0xa438; 0xbf8f; 0xa438; 0x92d8;
  0xa438; 0x10dc; 0xa438; 0x1981; 0xa438; 0x9ff9; 0xa438; 0xef96; 0xa438; 0xfefc; 0xa438; 0x04f8;
  0xa438; 0xfbfa; 0xa438; 0xef69; 0xa438; 0xbf8f; 0xa438; 0x87d0; 0xa438; 0x08d1; 0xa438; 0xff02;
  0xa438; 0x8a7c; 0xa438; 0xef96; 0xa438; 0xfeff; 0xa438; 0xfc04; 0xa438; 0xf8fa; 0xa438; 0xef69;
  0xa438; 0xdd19; 0xa438; 0x809f; 0xa438; 0xfbef; 0xa438; 0x96fe; 0xa438; 0xfc04; 0xa438; 0xf8e0;
  0xa438; 0x8044; 0xa438; 0xf624; 0xa438; 0xe480; 0xa438; 0x44fc; 0xa438; 0x04f8; 0xa438; 0xe080;
  0xa438; 0x4ff6; 0xa438; 0x24e4; 0xa438; 0x804f; 0xa438; 0xfc04; 0xa438; 0xf8fa; 0xa438; 0xfbef;
  0xa438; 0x79fb; 0xa438; 0xbf8b; 0xa438; 0x2a02; 0xa438; 0x7291; 0xa438; 0xbf8b; 0xa438; 0x3302;
  0xa438; 0x7291; 0xa438; 0xd68b; 0xa438; 0x2dd7; 0xa438; 0x8b30; 0xa438; 0x0116; 0xa438; 0xad50;
  0xa438; 0x0cbf; 0xa438; 0x8b2a; 0xa438; 0x0272; 0xa438; 0x9abf; 0xa438; 0x8b33; 0xa438; 0x0272;
  0xa438; 0x9aff; 0xa438; 0xef97; 0xa438; 0xfffe; 0xa438; 0xfc04; 0xa438; 0xf8f9; 0xa438; 0xfaef;
  0xa438; 0x49f8; 0xa438; 0xccf8; 0xa438; 0xef96; 0xa438; 0x0272; 0xa438; 0x9a1f; 0xa438; 0x22c7;
  0xa438; 0xbd02; 0xa438; 0x72dc; 0xa438; 0xac28; 0xa438; 0x16ac; 0xa438; 0x3008; 0xa438; 0x0271;
  0xa438; 0xe4ef; 0xa438; 0x6712; 0xa438; 0xaeee; 0xa438; 0xd700; 0xa438; 0x0202; 0xa438; 0x71ff;
  0xa438; 0xac50; 0xa438; 0x05ae; 0xa438; 0xe3d7; 0xa438; 0x0000; 0xa438; 0xfcc4; 0xa438; 0xfcef;
  0xa438; 0x94fe; 0xa438; 0xfdfc; 0xa438; 0x04cc; 0xa438; 0xc010; 0xa438; 0x44ac; 0xa438; 0x0030;
  0xa438; 0xbce0; 0xa438; 0x74bc; 0xa438; 0xe0b8; 0xa438; 0xbce0; 0xa438; 0xfcbc; 0xa438; 0xe011;
  0xa438; 0xacb4; 0xa438; 0xddac; 0xa438; 0xb6fa; 0xa438; 0xacb4; 0xa438; 0xf0ac; 0xa438; 0xba92;
  0xa438; 0xacb4; 0xa438; 0xffac; 0xa438; 0x5600; 0xa438; 0xacb4; 0xa438; 0xccac; 0xa438; 0xb6ff;
  0xa438; 0xb034; 0xa436; 0xb818; 0xa438; 0x2ae4; 0xa436; 0xb81a; 0xa438; 0x380A; 0xa436; 0xb81c;
  0xa438; 0x3EDD; 0xa436; 0xb81e; 0xa438; 0x41A3; 0xa436; 0xb850; 0xa438; 0x0684; 0xa436; 0xb852;
  0xa438; 0x1C02; 0xa436; 0xb878; 0xa438; 0x1B70; 0xa436; 0xb884; 0xa438; 0x0633; 0xa436; 0xb832;
  0xa438; 0x00ff; 0xa436; 0xacfc; 0xa438; 0x0100; 0xa436; 0xacfe; 0xa438; 0x8000; 0xa436; 0xad00;
  0xa438; 0x27ff; 0xa436; 0xad02; 0xa438; 0x3c67; 0xa436; 0xad04; 0xa438; 0xfffe; 0xa436; 0xad06;
  0xa438; 0xffff; 0xa436; 0xad08; 0xa438; 0x000f; 0xa436; 0xad00; 0xa438; 0x47ff; 0xa436; 0xad02;
  0xa438; 0x3e67; 0xa436; 0xad04; 0xa438; 0xfffe; 0xa436; 0xad06; 0xa438; 0xffff; 0xa436; 0xad08;
  0xa438; 0x000f; 0xa436; 0xad00; 0xa438; 0x67ff; 0xa436; 0xad02; 0xa438; 0x3067; 0xa436; 0xad04;
  0xa438; 0xfffe; 0xa436; 0xad06; 0xa438; 0xffff; 0xa436; 0xad08; 0xa438; 0x000f; 0xa436; 0xad00;
  0xa438; 0x87ff; 0xa436; 0xad02; 0xa438; 0x3267; 0xa436; 0xad04; 0xa438; 0xfffe; 0xa436; 0xad06;
  0xa438; 0xffff; 0xa436; 0xad08; 0xa438; 0x000f; 0xa436; 0xad00; 0xa438; 0xa7ff; 0xa436; 0xad02;
  0xa438; 0x3467; 0xa436; 0xad04; 0xa438; 0xfffe; 0xa436; 0xad06; 0xa438; 0xffff; 0xa436; 0xad08;
  0xa438; 0x000f; 0xa436; 0xad00; 0xa438; 0xcfff; 0xa436; 0xad02; 0xa438; 0x3667; 0xa436; 0xad04;
  0xa438; 0xfffe; 0xa436; 0xad06; 0xa438; 0xffff; 0xa436; 0xad08; 0xa438; 0x000f; 0xa436; 0xad00;
  0xa438; 0xefff; 0xa436; 0xad02; 0xa438; 0x3867; 0xa436; 0xad04; 0xa438; 0xfffe; 0xa436; 0xad06;
  0xa438; 0xffff; 0xa436; 0xad08; 0xa438; 0x000f; 0xa436; 0xad00; 0xa438; 0x0fff; 0xa436; 0xad02;
  0xa438; 0x3a67; 0xa436; 0xad04; 0xa438; 0xfffe; 0xa436; 0xad06; 0xa438; 0xffff; 0xa436; 0xad08;
  0xa438; 0x000f; 0xa436; 0xad00; 0xa438; 0x2fff; 0xa436; 0xad02; 0xa438; 0x3ce7; 0xa436; 0xad04;
  0xa438; 0xfffe; 0xa436; 0xad06; 0xa438; 0xffff; 0xa436; 0xad08; 0xa438; 0x0007; 0xa436; 0xad00;
  0xa438; 0x4fff; 0xa436; 0xad02; 0xa438; 0x3ee7; 0xa436; 0xad04; 0xa438; 0xfffe; 0xa436; 0xad06;
  0xa438; 0xffff; 0xa436; 0xad08; 0xa438; 0x0007; 0xa436; 0xad00; 0xa438; 0x6fff; 0xa436; 0xad02;
  0xa438; 0x30e7; 0xa436; 0xad04; 0xa438; 0xfffe; 0xa436; 0xad06; 0xa438; 0xffff; 0xa436; 0xad08;
  0xa438; 0x0007; 0xa436; 0xad00; 0xa438; 0x8fff; 0xa436; 0xad02; 0xa438; 0x32e7; 0xa436; 0xad04;
  0xa438; 0xfffe; 0xa436; 0xad06; 0xa438; 0xffff; 0xa436; 0xad08; 0xa438; 0x0007; 0xa436; 0xad00;
  0xa438; 0xafff; 0xa436; 0xad02; 0xa438; 0x34e7; 0xa436; 0xad04; 0xa438; 0x1008; 0xa436; 0xad06;
  0xa438; 0xfff4; 0xa436; 0xad08; 0xa438; 0x0007; 0xa436; 0xad00; 0xa438; 0xffff; 0xa436; 0xad02;
  0xa438; 0x36ff; 0xa436; 0xad04; 0xa438; 0x1048; 0xa436; 0xad06; 0xa438; 0xfff5; 0xa436; 0xad08;
  0xa438; 0x0007; 0xa436; 0xad00; 0xa438; 0xffff; 0xa436; 0xad02; 0xa438; 0x38ff; 0xa436; 0xad04;
  0xa438; 0x1088; 0xa436; 0xad06; 0xa438; 0xfff6; 0xa436; 0xad08; 0xa438; 0x0007; 0xa436; 0xad00;
  0xa438; 0xffff; 0xa436; 0xad02; 0xa438; 0x3aff; 0xa436; 0xad04; 0xa438; 0x10c8; 0xa436; 0xad06;
  0xa438; 0xf417; 0xa436; 0xad08; 0xa438; 0x0007; 0xa436; 0xad00; 0xa438; 0xffff; 0xa436; 0xad02;
  0xa438; 0xffff; 0xa436; 0xad04; 0xa438; 0x1109; 0xa436; 0xad06; 0xa438; 0xf434; 0xa436; 0xad08;
  0xa438; 0x0007; 0xa436; 0xad00; 0xa438; 0x0207; 0xa436; 0xad02; 0xa438; 0xffe2; 0xa436; 0xad04;
  0xa438; 0x1149; 0xa436; 0xad06; 0xa438; 0x0455; 0xa436; 0xad08; 0xa438; 0x0002; 0xa436; 0xad00;
  0xa438; 0x2227; 0xa436; 0xad02; 0xa438; 0xffe2; 0xa436; 0xad04; 0xa438; 0x1189; 0xa436; 0xad06;
  0xa438; 0x1476; 0xa436; 0xad08; 0xa438; 0x0002; 0xa436; 0xad00; 0xa438; 0x4247; 0xa436; 0xad02;
  0xa438; 0xffe2; 0xa436; 0xad04; 0xa438; 0x11c9; 0xa436; 0xad06; 0xa438; 0x2517; 0xa436; 0xad08;
  0xa438; 0x0002; 0xa436; 0xad00; 0xa438; 0x6267; 0xa436; 0xad02; 0xa438; 0xffe2; 0xa436; 0xad04;
  0xa438; 0x1209; 0xa436; 0xad06; 0xa438; 0x3534; 0xa436; 0xad08; 0xa438; 0x0002; 0xa436; 0xad00;
  0xa438; 0x0007; 0xa436; 0xad02; 0xa438; 0xffe0; 0xa436; 0xad04; 0xa438; 0x1249; 0xa436; 0xad06;
  0xa438; 0x0555; 0xa436; 0xad08; 0xa438; 0x0002; 0xa436; 0xad00; 0xa438; 0x2027; 0xa436; 0xad02;
  0xa438; 0xffe0; 0xa436; 0xad04; 0xa438; 0x1289; 0xa436; 0xad06; 0xa438; 0x1576; 0xa436; 0xad08;
  0xa438; 0x0002; 0xa436; 0xad00; 0xa438; 0x4047; 0xa436; 0xad02; 0xa438; 0xffe0; 0xa436; 0xad04;
  0xa438; 0x12c9; 0xa436; 0xad06; 0xa438; 0x2517; 0xa436; 0xad08; 0xa438; 0x0002; 0xa436; 0xad00;
  0xa438; 0x6067; 0xa436; 0xad02; 0xa438; 0xffe0; 0xa436; 0xad04; 0xa438; 0x1309; 0xa436; 0xad06;
  0xa438; 0x3534; 0xa436; 0xad08; 0xa438; 0x0002; 0xa436; 0xad00; 0xa438; 0x8087; 0xa436; 0xad02;
  0xa438; 0xffe0; 0xa436; 0xad04; 0xa438; 0x1349; 0xa436; 0xad06; 0xa438; 0x0555; 0xa436; 0xad08;
  0xa438; 0x0002; 0xa436; 0xad00; 0xa438; 0xa0a7; 0xa436; 0xad02; 0xa438; 0xffe0; 0xa436; 0xad04;
  0xa438; 0x1389; 0xa436; 0xad06; 0xa438; 0x1576; 0xa436; 0xad08; 0xa438; 0x0002; 0xa436; 0xad00;
  0xa438; 0xc0c7; 0xa436; 0xad02; 0xa438; 0xffe0; 0xa436; 0xad04; 0xa438; 0x13c9; 0xa436; 0xad06;
  0xa438; 0x2517; 0xa436; 0xad08; 0xa438; 0x0002; 0xa436; 0xad00; 0xa438; 0xe0e7; 0xa436; 0xad02;
  0xa438; 0xffe0; 0xa436; 0xad04; 0xa438; 0x140b; 0xa436; 0xad06; 0xa438; 0x3534; 0xa436; 0xad08;
  0xa438; 0x0002; 0xa436; 0xad00; 0xa438; 0x0107; 0xa436; 0xad02; 0xa438; 0xffe1; 0xa436; 0xad04;
  0xa438; 0x144b; 0xa436; 0xad06; 0xa438; 0x0555; 0xa436; 0xad08; 0xa438; 0x0002; 0xa436; 0xad00;
  0xa438; 0x2127; 0xa436; 0xad02; 0xa438; 0xffe1; 0xa436; 0xad04; 0xa438; 0x148b; 0xa436; 0xad06;
  0xa438; 0x1576; 0xa436; 0xad08; 0xa438; 0x0002; 0xa436; 0xad00; 0xa438; 0x4147; 0xa436; 0xad02;
  0xa438; 0xffe1; 0xa436; 0xad04; 0xa438; 0x14cb; 0xa436; 0xad06; 0xa438; 0x2417; 0xa436; 0xad08;
  0xa438; 0x0002; 0xa436; 0xad00; 0xa438; 0x6167; 0xa436; 0xad02; 0xa438; 0xffe1; 0xa436; 0xad04;
  0xa438; 0x5109; 0xa436; 0xad06; 0xa438; 0x3434; 0xa436; 0xad08; 0xa438; 0x0002; 0xa436; 0xad00;
  0xa438; 0x8287; 0xa436; 0xad02; 0xa438; 0xffe2; 0xa436; 0xad04; 0xa438; 0x5149; 0xa436; 0xad06;
  0xa438; 0x0455; 0xa436; 0xad08; 0xa438; 0x0002; 0xa436; 0xad00; 0xa438; 0xa2a7; 0xa436; 0xad02;
  0xa438; 0xffe2; 0xa436; 0xad04; 0xa438; 0x5189; 0xa436; 0xad06; 0xa438; 0x1476; 0xa436; 0xad08;
  0xa438; 0x0002; 0xa436; 0xad00].

Definition phy_mcu_ram_code_8126a_2_1_p3 : list Z := [
  0xa438; 0xc2c7; 0xa436; 0xad02; 0xa438; 0xffe2; 0xa436; 0xad04; 0xa438; 0x51c9; 0xa436; 0xad06;
  0xa438; 0x2417; 0xa436; 0xad08; 0xa438; 0x0002; 0xa436; 0xad00; 0xa438; 0xe2e7; 0xa436; 0xad02;
  0xa438; 0xffe2; 0xa436; 0xad04; 0xa438; 0x5009; 0xa436; 0xad06; 0xa438; 0x3434; 0xa436; 0xad08;
  0xa438; 0x0002; 0xa436; 0xad00; 0xa438; 0x0a0f; 0xa436; 0xad02; 0xa438; 0xffe2; 0xa436; 0xad04;
  0xa438; 0x5049; 0xa436; 0xad06; 0xa438; 0x0455; 0xa436; 0xad08; 0xa438; 0x0002; 0xa436; 0xad00;
  0xa438; 0x2a2f; 0xa436; 0xad02; 0xa438; 0xffe2; 0xa436; 0xad04; 0xa438; 0x5089; 0xa436; 0xad06;
  0xa438; 0x1476; 0xa436; 0xad08; 0xa438; 0x0002; 0xa436; 0xad00; 0xa438; 0x4a4f; 0xa436; 0xad02;
  0xa438; 0xffe2; 0xa436; 0xad04; 0xa438; 0x50c9; 0xa436; 0xad06; 0xa438; 0x2517; 0xa436; 0xad08;
  0xa438; 0x0002; 0xa436; 0xad00; 0xa438; 0x6a6f; 0xa436; 0xad02; 0xa438; 0xffe2; 0xa436; 0xad04;
  0xa438; 0x5209; 0xa436; 0xad06; 0xa438; 0x3534; 0xa436; 0xad08; 0xa438; 0x0002; 0xa436; 0xad00;
  0xa438; 0x080f; 0xa436; 0xad02; 0xa438; 0xffe0; 0xa436; 0xad04; 0xa438; 0x5249; 0xa436; 0xad06;
  0xa438; 0x0555; 0xa436; 0xad08; 0xa438; 0x0002; 0xa436; 0xad00; 0xa438; 0x282f; 0xa436; 0xad02;
  0xa438; 0xffe0; 0xa436; 0xad04; 0xa438; 0x5289; 0xa436; 0xad06; 0xa438; 0x1576; 0xa436; 0xad08;
  0xa438; 0x0002; 0xa436; 0xad00; 0xa438; 0x484f; 0xa436; 0xad02; 0xa438; 0xffe0; 0xa436; 0xad04;
  0xa438; 0x52c9; 0xa436; 0xad06; 0xa438; 0x2517; 0xa436; 0xad08; 0xa438; 0x0002; 0xa436; 0xad00;
  0xa438; 0x686f; 0xa436; 0xad02; 0xa438; 0xffe0; 0xa436; 0xad04; 0xa438; 0x5309; 0xa436; 0xad06;
  0xa438; 0x3534; 0xa436; 0xad08; 0xa438; 0x0002; 0xa436; 0xad00; 0xa438; 0x888f; 0xa436; 0xad02;
  0xa438; 0xffe0; 0xa436; 0xad04; 0xa438; 0x5349; 0xa436; 0xad06; 0xa438; 0x0555; 0xa436; 0xad08;
  0xa438; 0x0002; 0xa436; 0xad00; 0xa438; 0xa8af; 0xa436; 0xad02; 0xa438; 0xffe0; 0xa436; 0xad04;
  0xa438; 0x5389; 0xa436; 0xad06; 0xa438; 0x1576; 0xa436; 0xad08; 0xa438; 0x0002; 0xa436; 0xad00;
  0xa438; 0xc8cf; 0xa436; 0xad02; 0xa438; 0xffe0; 0xa436; 0xad04; 0xa438; 0x53c9; 0xa436; 0xad06;
  0xa438; 0x2517; 0xa436; 0xad08; 0xa438; 0x0002; 0xa436; 0xad00; 0xa438; 0xe8ef; 0xa436; 0xad02;
  0xa438; 0xffe0; 0xa436; 0xad04; 0xa438; 0x550b; 0xa436; 0xad06; 0xa438; 0x3534; 0xa436; 0xad08;
  0xa438; 0x0002; 0xa436; 0xad00; 0xa438; 0x090f; 0xa436; 0xad02; 0xa438; 0xffe1; 0xa436; 0xad04;
  0xa438; 0x554b; 0xa436; 0xad06; 0xa438; 0x0555; 0xa436; 0xad08; 0xa438; 0x0002; 0xa436; 0xad00;
  0xa438; 0x292f; 0xa436; 0xad02; 0xa438; 0xffe1; 0xa436; 0xad04; 0xa438; 0x558b; 0xa436; 0xad06;
  0xa438; 0x1576; 0xa436; 0xad08; 0xa438; 0x0002; 0xa436; 0xad00; 0xa438; 0x494f; 0xa436; 0xad02;
  0xa438; 0xffe1; 0xa436; 0xad04; 0xa438; 0x55cb; 0xa436; 0xad06; 0xa438; 0x2417; 0xa436; 0xad08;
  0xa438; 0x0002; 0xa436; 0xad00; 0xa438; 0x696f; 0xa436; 0xad02; 0xa438; 0xffe1; 0xa436; 0xad04;
  0xa438; 0x9209; 0xa436; 0xad06; 0xa438; 0x3434; 0xa436; 0xad08; 0xa438; 0x0002; 0xa436; 0xad00;
  0xa438; 0x8a8f; 0xa436; 0xad02; 0xa438; 0xffe2; 0xa436; 0xad04; 0xa438; 0x9249; 0xa436; 0xad06;
  0xa438; 0x0455; 0xa436; 0xad08; 0xa438; 0x0002; 0xa436; 0xad00; 0xa438; 0xaaaf; 0xa436; 0xad02;
  0xa438; 0xffe2; 0xa436; 0xad04; 0xa438; 0x9289; 0xa436; 0xad06; 0xa438; 0x1476; 0xa436; 0xad08;
  0xa438; 0x0002; 0xa436; 0xad00; 0xa438; 0xcacf; 0xa436; 0xad02; 0xa438; 0xffe2; 0xa436; 0xad04;
  0xa438; 0x92c9; 0xa436; 0xad06; 0xa438; 0x2417; 0xa436; 0xad08; 0xa438; 0x0002; 0xa436; 0xad00;
  0xa438; 0xeaef; 0xa436; 0xad02; 0xa438; 0xffe2; 0xa436; 0xad04; 0xa438; 0x9009; 0xa436; 0xad06;
  0xa438; 0x3434; 0xa436; 0xad08; 0xa438; 0x0002; 0xa436; 0xad00; 0xa438; 0x1217; 0xa436; 0xad02;
  0xa438; 0xffe2; 0xa436; 0xad04; 0xa438; 0x9049; 0xa436; 0xad06; 0xa438; 0x0455; 0xa436; 0xad08;
  0xa438; 0x0002; 0xa436; 0xad00; 0xa438; 0x3237; 0xa436; 0xad02; 0xa438; 0xffe2; 0xa436; 0xad04;
  0xa438; 0x9089; 0xa436; 0xad06; 0xa438; 0x1476; 0xa436; 0xad08; 0xa438; 0x0002; 0xa436; 0xad00;
  0xa438; 0x5257; 0xa436; 0xad02; 0xa438; 0xffe2; 0xa436; 0xad04; 0xa438; 0x90c9; 0xa436; 0xad06;
  0xa438; 0x2517; 0xa436; 0xad08; 0xa438; 0x0002; 0xa436; 0xad00; 0xa438; 0x7277; 0xa436; 0xad02;
  0xa438; 0xffe2; 0xa436; 0xad04; 0xa438; 0x9109; 0xa436; 0xad06; 0xa438; 0x3534; 0xa436; 0xad08;
  0xa438; 0x0002; 0xa436; 0xad00; 0xa438; 0x1017; 0xa436; 0xad02; 0xa438; 0xffe0; 0xa436; 0xad04;
  0xa438; 0x9149; 0xa436; 0xad06; 0xa438; 0x0555; 0xa436; 0xad08; 0xa438; 0x0002; 0xa436; 0xad00;
  0xa438; 0x3037; 0xa436; 0xad02; 0xa438; 0xffe0; 0xa436; 0xad04; 0xa438; 0x9189; 0xa436; 0xad06;
  0xa438; 0x1576; 0xa436; 0xad08; 0xa438; 0x0002; 0xa436; 0xad00; 0xa438; 0x5057; 0xa436; 0xad02;
  0xa438; 0xffe0; 0xa436; 0xad04; 0xa438; 0x91c9; 0xa436; 0xad06; 0xa438; 0x2517; 0xa436; 0xad08;
  0xa438; 0x0002; 0xa436; 0xad00; 0xa438; 0x7077; 0xa436; 0xad02; 0xa438; 0xffe0; 0xa436; 0xad04;
  0xa438; 0x9309; 0xa436; 0xad06; 0xa438; 0x3534; 0xa436; 0xad08; 0xa438; 0x0002; 0xa436; 0xad00;
  0xa438; 0x9097; 0xa436; 0xad02; 0xa438; 0xffe0; 0xa436; 0xad04; 0xa438; 0x9349; 0xa436; 0xad06;
  0xa438; 0x0555; 0xa436; 0xad08; 0xa438; 0x0002; 0xa436; 0xad00; 0xa438; 0xb0b7; 0xa436; 0xad02;
  0xa438; 0xffe0; 0xa436; 0xad04; 0xa438; 0x9389; 0xa436; 0xad06; 0xa438; 0x1576; 0xa436; 0xad08;
  0xa438; 0x0002; 0xa436; 0xad00; 0xa438; 0xd0d7; 0xa436; 0xad02; 0xa438; 0xffe0; 0xa436; 0xad04;
  0xa438; 0x93c9; 0xa436; 0xad06; 0xa438; 0x2517; 0xa436; 0xad08; 0xa438; 0x0002; 0xa436; 0xad00;
  0xa438; 0xf0f7; 0xa436; 0xad02; 0xa438; 0xffe0; 0xa436; 0xad04; 0xa438; 0x960b; 0xa436; 0xad06;
  0xa438; 0x3534; 0xa436; 0xad08; 0xa438; 0x0002; 0xa436; 0xad00; 0xa438; 0x1117; 0xa436; 0xad02;
  0xa438; 0xffe1; 0xa436; 0xad04; 0xa438; 0x964b; 0xa436; 0xad06; 0xa438; 0x0555; 0xa436; 0xad08;
  0xa438; 0x0002; 0xa436; 0xad00; 0xa438; 0x3137; 0xa436; 0xad02; 0xa438; 0xffe1; 0xa436; 0xad04;
  0xa438; 0x968b; 0xa436; 0xad06; 0xa438; 0x1576; 0xa436; 0xad08; 0xa438; 0x0002; 0xa436; 0xad00;
  0xa438; 0x5157; 0xa436; 0xad02; 0xa438; 0xffe1; 0xa436; 0xad04; 0xa438; 0x96cb; 0xa436; 0xad06;
  0xa438; 0x2417; 0xa436; 0xad08; 0xa438; 0x0002; 0xa436; 0xad00; 0xa438; 0x7177; 0xa436; 0xad02;
  0xa438; 0xffe1; 0xa436; 0xad04; 0xa438; 0xd309; 0xa436; 0xad06; 0xa438; 0x3434; 0xa436; 0xad08;
  0xa438; 0x0002; 0xa436; 0xad00; 0xa438; 0x9297; 0xa436; 0xad02; 0xa438; 0xffe2; 0xa436; 0xad04;
  0xa438; 0xd349; 0xa436; 0xad06; 0xa438; 0x0455; 0xa436; 0xad08; 0xa438; 0x0002; 0xa436; 0xad00;
  0xa438; 0xb2b7; 0xa436; 0xad02; 0xa438; 0xffe2; 0xa436; 0xad04; 0xa438; 0xd389; 0xa436; 0xad06;
  0xa438; 0x1476; 0xa436; 0xad08; 0xa438; 0x0002; 0xa436; 0xad00; 0xa438; 0xd2d7; 0xa436; 0xad02;
  0xa438; 0xffe2; 0xa436; 0xad04; 0xa438; 0xd3c9; 0xa436; 0xad06; 0xa438; 0x2417; 0xa436; 0xad08;
  0xa438; 0x0002; 0xa436; 0xad00; 0xa438; 0xf2f7; 0xa436; 0xad02; 0xa438; 0xffe2; 0xa436; 0xad04;
  0xa438; 0xd009; 0xa436; 0xad06; 0xa438; 0x3434; 0xa436; 0xad08; 0xa438; 0x0002; 0xa436; 0xad00;
  0xa438; 0x1a1f; 0xa436; 0xad02; 0xa438; 0xffe2; 0xa436; 0xad04; 0xa438; 0xd049; 0xa436; 0xad06;
  0xa438; 0x0455; 0xa436; 0xad08; 0xa438; 0x0002; 0xa436; 0xad00; 0xa438; 0x3a3f; 0xa436; 0xad02;
  0xa438; 0xffe2; 0xa436; 0xad04; 0xa438; 0xd089; 0xa436; 0xad06; 0xa438; 0x1476; 0xa436; 0xad08;
  0xa438; 0x0002; 0xa436; 0xad00; 0xa438; 0x5a5f; 0xa436; 0xad02; 0xa438; 0xffe2; 0xa436; 0xad04;
  0xa438; 0xd0c9; 0xa436; 0xad06; 0xa438; 0x2517; 0xa436; 0xad08; 0xa438; 0x0002; 0xa436; 0xad00;
  0xa438; 0x7a7f; 0xa436; 0xad02; 0xa438; 0xffe2; 0xa436; 0xad04; 0xa438; 0xd109; 0xa436; 0xad06;
  0xa438; 0x3534; 0xa436; 0xad08; 0xa438; 0x0002; 0xa436; 0xad00; 0xa438; 0x181f; 0xa436; 0xad02;
  0xa438; 0xffe0; 0xa436; 0xad04; 0xa438; 0xd149; 0xa436; 0xad06; 0xa438; 0x0555; 0xa436; 0xad08;
  0xa438; 0x0002; 0xa436; 0xad00; 0xa438; 0x383f; 0xa436; 0xad02; 0xa438; 0xffe0; 0xa436; 0xad04;
  0xa438; 0xd189; 0xa436; 0xad06; 0xa438; 0x1576; 0xa436; 0xad08; 0xa438; 0x0002; 0xa436; 0xad00;
  0xa438; 0x585f; 0xa436; 0xad02; 0xa438; 0xffe0; 0xa436; 0xad04; 0xa438; 0xd1c9; 0xa436; 0xad06;
  0xa438; 0x2517; 0xa436; 0xad08; 0xa438; 0x0002; 0xa436; 0xad00; 0xa438; 0x787f; 0xa436; 0xad02;
  0xa438; 0xffe0; 0xa436; 0xad04; 0xa438; 0xd209; 0xa436; 0xad06; 0xa438; 0x3534; 0xa436; 0xad08;
  0xa438; 0x0002; 0xa436; 0xad00; 0xa438; 0x989f; 0xa436; 0xad02; 0xa438; 0xffe0; 0xa436; 0xad04;
  0xa438; 0xd249; 0xa436; 0xad06; 0xa438; 0x0555; 0xa436; 0xad08; 0xa438; 0x0002; 0xa436; 0xad00;
  0xa438; 0xb8bf; 0xa436; 0xad02; 0xa438; 0xffe0; 0xa436; 0xad04; 0xa438; 0xd289; 0xa436; 0xad06;
  0xa438; 0x1576; 0xa436; 0xad08; 0xa438; 0x0002; 0xa436; 0xad00; 0xa438; 0xd8df; 0xa436; 0xad02;
  0xa438; 0xffe0; 0xa436; 0xad04; 0xa438; 0xd2c9; 0xa436; 0xad06; 0xa438; 0x2517; 0xa436; 0xad08;
  0xa438; 0x0002; 0xa436; 0xad00; 0xa438; 0xf8ff; 0xa436; 0xad02; 0xa438; 0xffe0; 0xa436; 0xad04;
  0xa438; 0xd70b; 0xa436; 0xad06; 0xa438; 0x3534; 0xa436; 0xad08; 0xa438; 0x0002; 0xa436; 0xad00;
  0xa438; 0x191f; 0xa436; 0xad02; 0xa438; 0xffe1; 0xa436; 0xad04; 0xa438; 0xd74b; 0xa436; 0xad06;
  0xa438; 0x0555; 0xa436; 0xad08; 0xa438; 0x0002; 0xa436; 0xad00; 0xa438; 0x393f; 0xa436; 0xad02;
  0xa438; 0xffe1; 0xa436; 0xad04; 0xa438; 0xd78b; 0xa436; 0xad06; 0xa438; 0x1576; 0xa436; 0xad08;
  0xa438; 0x0002; 0xa436; 0xad00; 0xa438; 0x595f; 0xa436; 0xad02; 0xa438; 0xffe1; 0xa436; 0xad04;
  0xa438; 0xd7cb; 0xa436; 0xad06; 0xa438; 0x2417; 0xa436; 0xad08; 0xa438; 0x0002; 0xa436; 0xad00;
  0xa438; 0x797f; 0xa436; 0xad02; 0xa438; 0xffe1; 0xa436; 0xad04; 0xa438; 0x000d; 0xa436; 0xad06;
  0xa438; 0x3434; 0xa436; 0xad08; 0xa438; 0x0002; 0xa436; 0xad00; 0xa438; 0x9a9f; 0xa436; 0xad02;
  0xa438; 0xffe2; 0xa436; 0xad04; 0xa438; 0x004d; 0xa436; 0xad06; 0xa438; 0x0455; 0xa436; 0xad08;
  0xa438; 0x0002; 0xa436; 0xad00; 0xa438; 0xbabf; 0xa436; 0xad02; 0xa438; 0xffe2; 0xa436; 0xad04;
  0xa438; 0x008d; 0xa436; 0xad06; 0xa438; 0x1476; 0xa436; 0xad08; 0xa438; 0x0002; 0xa436; 0xad00;
  0xa438; 0xdadf; 0xa436; 0xad02; 0xa438; 0xffe2; 0xa436; 0xad04; 0xa438; 0x00cd; 0xa436; 0xad06;
  0xa438; 0x2c17; 0xa436; 0xad08; 0xa438; 0x0002; 0xa436; 0xad00; 0xa438; 0xfaf8; 0xa436; 0xad02;
  0xa438; 0xffe2; 0xa436; 0xad04; 0xa438; 0x400d; 0xa436; 0xad06; 0xa438; 0x3c34; 0xa436; 0xad08;
  0xa438; 0x0002; 0xa436; 0xad00; 0xa438; 0x8187; 0xa436; 0xad02; 0xa438; 0xffe1; 0xa436; 0xad04;
  0xa438; 0x404d; 0xa436; 0xad06; 0xa438; 0x0c55; 0xa436; 0xad08; 0xa438; 0x0002; 0xa436; 0xad00;
  0xa438; 0xa1a7; 0xa436; 0xad02; 0xa438; 0xffe1; 0xa436; 0xad04; 0xa438; 0x408d; 0xa436; 0xad06;
  0xa438; 0x1c76; 0xa436; 0xad08; 0xa438; 0x0002; 0xa436; 0xad00; 0xa438; 0xc1c7; 0xa436; 0xad02;
  0xa438; 0xffe1; 0xa436; 0xad04; 0xa438; 0x40cd; 0xa436; 0xad06; 0xa438; 0x2c97; 0xa436; 0xad08;
  0xa438; 0x0002; 0xa436; 0xad00; 0xa438; 0xe1e7; 0xa436; 0xad02; 0xa438; 0xffe1; 0xa436; 0xad04;
  0xa438; 0x800d; 0xa436; 0xad06; 0xa438; 0x3cb4; 0xa436; 0xad08; 0xa438; 0x0002; 0xa436; 0xad00;
  0xa438; 0x898f; 0xa436; 0xad02; 0xa438; 0xffe1; 0xa436; 0xad04; 0xa438; 0x804d; 0xa436; 0xad06;
  0xa438; 0x0cd5; 0xa436; 0xad08; 0xa438; 0x0002; 0xa436; 0xad00; 0xa438; 0xa9af; 0xa436; 0xad02;
  0xa438; 0xffe1; 0xa436; 0xad04; 0xa438; 0x808d; 0xa436; 0xad06; 0xa438; 0x1cf6; 0xa436; 0xad08;
  0xa438; 0x0002; 0xa436; 0xad00; 0xa438; 0xc9cf; 0xa436; 0xad02; 0xa438; 0xffe1; 0xa436; 0xad04;
  0xa438; 0x80cd; 0xa436; 0xad06; 0xa438; 0x2d17; 0xa436; 0xad08; 0xa438; 0x0002; 0xa436; 0xad00;
  0xa438; 0xe9ef; 0xa436; 0xad02; 0xa438; 0xffe1; 0xa436; 0xad04; 0xa438; 0xc00d; 0xa436; 0xad06;
  0xa438; 0x3d34; 0xa436; 0xad08; 0xa438; 0x0002; 0xa436; 0xad00; 0xa438; 0x9197; 0xa436; 0xad02;
  0xa438; 0xffe1; 0xa436; 0xad04; 0xa438; 0xc04d; 0xa436; 0xad06; 0xa438; 0x0d55; 0xa436; 0xad08;
  0xa438; 0x0002; 0xa436; 0xad00; 0xa438; 0xb1b7; 0xa436; 0xad02; 0xa438; 0xffe1; 0xa436; 0xad04;
  0xa438; 0xc08d; 0xa436; 0xad06; 0xa438; 0x1d76; 0xa436; 0xad08; 0xa438; 0x0002; 0xa436; 0xad00;
  0xa438; 0xd1d7; 0xa436; 0xad02; 0xa438; 0xffe1; 0xa436; 0xad04; 0xa438; 0xc0cd; 0xa436; 0xad06;
  0xa438; 0x2d97; 0xa436; 0xad08; 0xa438; 0x0002; 0xa436; 0xad00; 0xa438; 0xf1f7; 0xa436; 0xad02;
  0xa438; 0xffe1; 0xa436; 0xad04; 0xa438; 0xffff; 0xa436; 0xad06; 0xa438; 0x3dbf; 0xa436; 0xad08;
  0xa438; 0x0002; 0xa436; 0xad00; 0xa438; 0x999f; 0xa436; 0xad02; 0xa438; 0xffe1; 0xa436; 0xad04;
  0xa438; 0xffff; 0xa436; 0xad06; 0xa438; 0x0ddf; 0xa436; 0xad08; 0xa438; 0x0002; 0xa436; 0xad00;
  0xa438; 0xb9bf; 0xa436; 0xad02; 0xa438; 0xffe1; 0xa436; 0xad04; 0xa438; 0xffff; 0xa436; 0xad06;
  0xa438; 0x1dff; 0xa436; 0xad08; 0xa438; 0x0002; 0xa436; 0xad00; 0xa438; 0xd9df; 0xa436; 0xad02;
  0xa438; 0xffe1; 0xa436; 0xad04; 0xa438; 0xffff; 0xa436; 0xad06; 0xa438; 0x2fff; 0xa436; 0xad08;
  0xa438; 0x0002; 0xa436; 0xad00; 0xa438; 0xf9ff; 0xa436; 0xad02; 0xa438; 0xffe1; 0xa436; 0xad04;
  0xa438; 0xffff; 0xa436; 0xad06; 0xa438; 0x3fff; 0xa436; 0xad08; 0xa438; 0x0002; 0xa436; 0xad00;
  0xa438; 0xd7ff; 0xa436; 0xad02; 0xa438; 0xffe7; 0xa436; 0xad04; 0xa438; 0xffff; 0xa436; 0xad06;
  0xa438; 0xffff; 0xa436; 0xad08; 0xa438; 0x0007; 0xa436; 0xad00; 0xa438; 0xf7ff; 0xa436; 0xad02;
  0xa438; 0xffe7; 0xa436; 0xad04; 0xa438; 0xffff; 0xa436; 0xad06; 0xa438; 0xffff; 0xa436; 0xad08;
  0xa438; 0x0007; 0xa436; 0xad00; 0xa438; 0x17ff; 0xa436; 0xad02; 0xa438; 0xffe7; 0xa436; 0xad04;
  0xa438; 0xffff; 0xa436; 0xad06; 0xa438; 0xffff; 0xa436; 0xad08; 0xa438; 0x0007; 0xa436; 0xad00;
  0xa438; 0x37ff; 0xa436; 0xad02; 0xa438; 0x3d67; 0xa436; 0xad04; 0xa438; 0xfffe; 0xa436; 0xad06;
  0xa438; 0xffff; 0xa436; 0xad08; 0xa438; 0x0007; 0xa436; 0xad00; 0xa438; 0x57ff; 0xa436; 0xad02;
  0xa438; 0x3f67; 0xa436; 0xad04; 0xa438; 0xfffe; 0xa436; 0xad06; 0xa438; 0xffff; 0xa436; 0xad08;
  0xa438; 0x0007; 0xa436; 0xad00; 0xa438; 0x77ff; 0xa436; 0xad02; 0xa438; 0x3167; 0xa436; 0xad04;
  0xa438; 0xfffe; 0xa436; 0xad06; 0xa438; 0xffff; 0xa436; 0xad08; 0xa438; 0x0007; 0xa436; 0xad00;
  0xa438; 0x97ff; 0xa436; 0xad02; 0xa438; 0x3367; 0xa436; 0xad04; 0xa438; 0xfffe; 0xa436; 0xad06;
  0xa438; 0xffff; 0xa436; 0xad08; 0xa438; 0x0007; 0xa436; 0xad00; 0xa438; 0xb7ff; 0xa436; 0xad02;
  0xa438; 0x3567; 0xa436; 0xad04; 0xa438; 0xfffe; 0xa436; 0xad06; 0xa438; 0xffff; 0xa436; 0xad08;
  0xa438; 0x0007; 0xa436; 0xad00; 0xa438; 0xdfff; 0xa436; 0xad02; 0xa438; 0x3767; 0xa436; 0xad04;
  0xa438; 0xfffe; 0xa436; 0xad06; 0xa438; 0xffff; 0xa436; 0xad08; 0xa438; 0x0007; 0xa436; 0xad00;
  0xa438; 0xffff; 0xa436; 0xad02; 0xa438; 0x3967; 0xa436; 0xad04; 0xa438; 0xfffe; 0xa436; 0xad06;
  0xa438; 0xffff; 0xa436; 0xad08; 0xa438; 0x0007; 0xa436; 0xad00; 0xa438; 0x1fff; 0xa436; 0xad02;
  0xa438; 0x3b67; 0xa436; 0xad04; 0xa438; 0xfffe; 0xa436; 0xad06; 0xa438; 0xffff; 0xa436; 0xad08;
  0xa438; 0x0007; 0xa436; 0xad00; 0xa438; 0x3fff; 0xa436; 0xad02; 0xa438; 0x3de7; 0xa436; 0xad04;
  0xa438; 0xfffe; 0xa436; 0xad06; 0xa438; 0xffff; 0xa436; 0xad08; 0xa438; 0x0007; 0xa436; 0xad00;
  0xa438; 0x5fff; 0xa436; 0xad02; 0xa438; 0x3fe7; 0xa436; 0xad04; 0xa438; 0xfffe; 0xa436; 0xad06;
  0xa438; 0xffff; 0xa436; 0xad08; 0xa438; 0x0007; 0xa436; 0xad00; 0xa438; 0x7fff; 0xa436; 0xad02;
  0xa438; 0x31e7; 0xa436; 0xad04; 0xa438; 0xfffe; 0xa436; 0xad06; 0xa438; 0xffff; 0xa436; 0xad08;
  0xa438; 0x0007; 0xa436; 0xad00; 0xa438; 0x9fff; 0xa436; 0xad02; 0xa438; 0x33e7; 0xa436; 0xad04;
  0xa438; 0xfffe; 0xa436; 0xad06; 0xa438; 0xffff; 0xa436; 0xad08; 0xa438; 0x0007; 0xa436; 0xad00;
  0xa438; 0xbfff; 0xa436; 0xad02; 0xa438; 0x35e7; 0xa436; 0xad04; 0xa438; 0xfffe; 0xa436; 0xad06;
  0xa438; 0xffff; 0xa436; 0xad08; 0xa438; 0x0007; 0xa436; 0xad00; 0xa438; 0x07ff; 0xa436; 0xad02;
  0xa438; 0x37e6; 0xa436; 0xad04; 0xa438; 0xfffe; 0xa436; 0xad06; 0xa438; 0xffff; 0xa436; 0xad08;
  0xa438; 0x0007; 0xa436; 0xad00; 0xa438; 0x27ff; 0xa436; 0xad02; 0xa438; 0x39e6; 0xa436; 0xad04;
  0xa438; 0xfffe; 0xa436; 0xad06; 0xa438; 0xffff; 0xa436; 0xad08; 0xa438; 0x0007; 0xa436; 0xad00;
  0xa438; 0x47ff; 0xa436; 0xad02; 0xa438; 0x3be6; 0xa436; 0xad04; 0xa438; 0xfffe; 0xa436; 0xad06;
  0xa438; 0xffff; 0xa436; 0xad08; 0xa438; 0x0007; 0xa436; 0xad00; 0xa438; 0x67ff; 0xa436; 0xad02;
  0xa438; 0x2066; 0xa436; 0xad04; 0xa438; 0xfffe; 0xa436; 0xad06; 0xa438; 0xffff; 0xa436; 0xad08;
  0xa438; 0x0007; 0xa436; 0xad00; 0xa438; 0x07ff; 0xa436; 0xad02; 0xa438; 0x2264; 0xa436; 0xad04;
  0xa438; 0xfffe; 0xa436; 0xad06; 0xa438; 0xffff; 0xa436; 0xad08; 0xa438; 0x0007; 0xa436; 0xad00;
  0xa438; 0x27ff; 0xa436; 0xad02; 0xa438; 0x2464; 0xa436; 0xad04; 0xa438; 0xfffe; 0xa436; 0xad06;
  0xa438; 0xffff; 0xa436; 0xad08; 0xa438; 0x0007; 0xa436; 0xad00; 0xa438; 0x47ff; 0xa436; 0xad02;
  0xa438; 0x2664; 0xa436; 0xad04; 0xa438; 0xfffe; 0xa436; 0xad06; 0xa438; 0xffff; 0xa436; 0xad08;
  0xa438; 0x0007; 0xa436; 0xad00; 0xa438; 0x67ff; 0xa436; 0xad02; 0xa438; 0x0064; 0xa436; 0xad04;
  0xa438; 0xfffe; 0xa436; 0xad06; 0xa438; 0xffff; 0xa436; 0xad08; 0xa438; 0x0007; 0xa436; 0xad00;
  0xa438; 0x87ff; 0xa436; 0xad02; 0xa438; 0x0264; 0xa436; 0xad04; 0xa438; 0xfffe; 0xa436; 0xad06;
  0xa438; 0xffff; 0xa436; 0xad08; 0xa438; 0x0007; 0xa436; 0xad00; 0xa438; 0xa7ff; 0xa436; 0xad02;
  0xa438; 0x0464; 0xa436; 0xad04; 0xa438; 0xfffe; 0xa436; 0xad06; 0xa438; 0xffff; 0xa436; 0xad08;
  0xa438; 0x0007; 0xa436; 0xad00; 0xa438; 0xc7ff; 0xa436; 0xad02; 0xa438; 0x0664; 0xa436; 0xad04;
  0xa438; 0xfffe; 0xa436; 0xad06; 0xa438; 0xffff; 0xa436; 0xad08; 0xa438; 0x0007; 0xa436; 0xad00;
  0xa438; 0xe7ff; 0xa436; 0xad02; 0xa438; 0x0864; 0xa436; 0xad04; 0xa438; 0xfffe; 0xa436; 0xad06;
  0xa438; 0xffff; 0xa436; 0xad08; 0xa438; 0x0007; 0xa436; 0xad00; 0xa438; 0x07ff; 0xa436; 0xad02;
  0xa438; 0x0a65; 0xa436; 0xad04; 0xa438; 0xfffe; 0xa436; 0xad06; 0xa438; 0xffff; 0xa436; 0xad08;
  0xa438; 0x0007; 0xa436; 0xad00; 0xa438; 0x27ff; 0xa436; 0xad02; 0xa438; 0x0c65; 0xa436; 0xad04;
  0xa438; 0xfffe; 0xa436; 0xad06; 0xa438; 0xffff; 0xa436; 0xad08; 0xa438; 0x0007; 0xa436; 0xad00;
  0xa438; 0x47ff; 0xa436; 0xad02; 0xa438; 0x0e65; 0xa436; 0xad04; 0xa438; 0xfffe; 0xa436; 0xad06;
  0xa438; 0xffff; 0xa436; 0xad08; 0xa438; 0x0007; 0xa436; 0xad00; 0xa438; 0x67ff; 0xa436; 0xad02;
  0xa438; 0x1065; 0xa436; 0xad04; 0xa438; 0xfffe; 0xa436; 0xad06; 0xa438; 0xffff; 0xa436; 0xad08;
  0xa438; 0x0007; 0xa436; 0xad00; 0xa438; 0x87ff; 0xa436; 0xad02; 0xa438; 0x1266; 0xa436; 0xad04;
  0xa438; 0xfffe; 0xa436; 0xad06; 0xa438; 0xffff; 0xa436; 0xad08; 0xa438; 0x0007; 0xa436; 0xad00;
  0xa438; 0xa7ff; 0xa436; 0xad02; 0xa438; 0x1466; 0xa436; 0xad04; 0xa438; 0xfffe; 0xa436; 0xad06;
  0xa438; 0xffff; 0xa436; 0xad08; 0xa438; 0x0007; 0xa436; 0xad00; 0xa438; 0xc7ff; 0xa436; 0xad02;
  0xa438; 0x1666; 0xa436; 0xad04; 0xa438; 0xfffe; 0xa436; 0xad06; 0xa438; 0xffff; 0xa436; 0xad08;
  0xa438; 0x0007; 0xa436; 0xad00; 0xa438; 0xe7ff; 0xa436; 0xad02; 0xa438; 0x2866; 0xa436; 0xad04;
  0xa438; 0xfffe; 0xa436; 0xad06; 0xa438; 0xffff; 0xa436; 0xad08; 0xa438; 0x0007; 0xa436; 0xad00;
  0xa438; 0x0fff; 0xa436; 0xad02; 0xa438; 0x2a66; 0xa436; 0xad04; 0xa438; 0xfffe; 0xa436; 0xad06;
  0xa438; 0xffff; 0xa436; 0xad08; 0xa438; 0x0007; 0xa436; 0xad00; 0xa438; 0x2fff; 0xa436; 0xad02;
  0xa438; 0x2c66; 0xa436; 0xad04; 0xa438; 0xfffe; 0xa436; 0xad06; 0xa438; 0xffff; 0xa436; 0xad08;
  0xa438; 0x0007; 0xa436; 0xad00; 0xa438; 0x4fff; 0xa436; 0xad02; 0xa438; 0x2e66; 0xa436; 0xad04;
  0xa438; 0xfffe; 0xa436; 0xad06; 0xa438; 0xffff; 0xa436; 0xad08; 0xa438; 0x0007; 0xa436; 0xad00;
  0xa438; 0x6fff; 0xa436; 0xad02; 0xa438; 0x20e6; 0xa436; 0xad04; 0xa438; 0xfffe; 0xa436; 0xad06;
  0xa438; 0xffff; 0xa436; 0xad08; 0xa438; 0x0007; 0xa436; 0xad00; 0xa438; 0x0fff; 0xa436; 0xad02;
  0xa438; 0x22e4; 0xa436; 0xad04; 0xa438; 0xfffe; 0xa436; 0xad06; 0xa438; 0xffff; 0xa436; 0xad08;
  0xa438; 0x0007; 0xa436; 0xad00; 0xa438; 0x2fff; 0xa436; 0xad02; 0xa438; 0x24e4; 0xa436; 0xad04;
  0xa438; 0xfffe; 0xa436; 0xad06; 0xa438; 0xffff; 0xa436; 0xad08; 0xa438; 0x0007; 0xa436; 0xad00;
  0xa438; 0x4fff; 0xa436; 0xad02; 0xa438; 0x26e4; 0xa436; 0xad04; 0xa438; 0xfffe; 0xa436; 0xad06;
  0xa438; 0xffff; 0xa436; 0xad08; 0xa438; 0x0007; 0xa436; 0xad00; 0xa438; 0x6fff; 0xa436; 0xad02;
  0xa438; 0x00e4; 0xa436; 0xad04; 0xa438; 0xfffe; 0xa436; 0xad06; 0xa438; 0xffff; 0xa436; 0xad08;
  0xa438; 0x0007; 0xa436; 0xad00; 0xa438; 0x8fff; 0xa436; 0xad02; 0xa438; 0x02e4; 0xa436; 0xad04;
  0xa438; 0xfffe; 0xa436; 0xad06; 0xa438; 0xffff; 0xa436; 0xad08; 0xa438; 0x0007; 0xa436; 0xad00;
  0xa438; 0xafff; 0xa436; 0xad02; 0xa438; 0x04e4; 0xa436; 0xad04; 0xa438; 0xfffe; 0xa436; 0xad06;
  0xa438; 0xffff; 0xa436; 0xad08; 0xa438; 0x0007; 0xa436; 0xad00; 0xa438; 0xcfff; 0xa436; 0xad02;
  0xa438; 0x06e4; 0xa436; 0xad04; 0xa438; 0xfffe; 0xa436; 0xad06; 0xa438; 0xffff; 0xa436; 0xad08;
  0xa438; 0x0007; 0xa436; 0xad00; 0xa438; 0xefff; 0xa436; 0xad02; 0xa438; 0x08e4; 0xa436; 0xad04;
  0xa438; 0xfffe; 0xa436; 0xad06; 0xa438; 0xffff; 0xa436; 0xad08; 0xa438; 0x0007; 0xa436; 0xad00;
  0xa438; 0x0fff; 0xa436; 0xad02; 0xa438; 0x0ae5; 0xa436; 0xad04; 0xa438; 0xfffe; 0xa436; 0xad06;
  0xa438; 0xffff; 0xa436; 0xad08; 0xa438; 0x0007; 0xa436; 0xad00; 0xa438; 0x2fff; 0xa436; 0xad02;
  0xa438; 0x0ce5; 0xa436; 0xad04; 0xa438; 0xfffe; 0xa436; 0xad06; 0xa438; 0xffff; 0xa436; 0xad08;
  0xa438; 0x0007; 0xa436; 0xad00; 0xa438; 0x4fff; 0xa436; 0xad02; 0xa438; 0x0ee5; 0xa436; 0xad04;
  0xa438; 0xfffe; 0xa436; 0xad06; 0xa438; 0xffff; 0xa436; 0xad08; 0xa438; 0x0007; 0xa436; 0xad00;
  0xa438; 0x6fff; 0xa436; 0xad02; 0xa438; 0x10e5; 0xa436; 0xad04; 0xa438; 0xfffe; 0xa436; 0xad06;
  0xa438; 0xffff; 0xa436; 0xad08; 0xa438; 0x0007; 0xa436; 0xad00; 0xa438; 0x8fff; 0xa436; 0xad02;
  0xa438; 0x12e6; 0xa436; 0xad04; 0xa438; 0xfffe; 0xa436; 0xad06; 0xa438; 0xffff; 0xa436; 0xad08;
  0xa438; 0x0007; 0xa436; 0xad00; 0xa438; 0xafff; 0xa436; 0xad02; 0xa438; 0x14e6; 0xa436; 0xad04;
  0xa438; 0xfffe; 0xa436; 0xad06; 0xa438; 0xffff; 0xa436; 0xad08; 0xa438; 0x0007; 0xa436; 0xad00;
  0xa438; 0xcfff; 0xa436; 0xad02; 0xa438; 0x16e6; 0xa436; 0xad04; 0xa438; 0xfffe; 0xa436; 0xad06;
  0xa438; 0xffff; 0xa436; 0xad08; 0xa438; 0x0007; 0xa436; 0xad00; 0xa438; 0xefff; 0xa436; 0xad02;
  0xa438; 0x28e6; 0xa436; 0xad04; 0xa438; 0xfffe; 0xa436; 0xad06; 0xa438; 0xffff; 0xa436; 0xad08;
  0xa438; 0x0007; 0xa436; 0xad00; 0xa438; 0x17ff; 0xa436; 0xad02; 0xa438; 0x2ae6; 0xa436; 0xad04;
  0xa438; 0xfffe; 0xa436; 0xad06; 0xa438; 0xffff; 0xa436; 0xad08; 0xa438; 0x0007; 0xa436; 0xad00;
  0xa438; 0x37ff; 0xa436; 0xad02; 0xa438; 0x2ce6; 0xa436; 0xad04; 0xa438; 0xfffe; 0xa436; 0xad06;
  0xa438; 0xffff; 0xa436; 0xad08; 0xa438; 0x0007; 0xa436; 0xad00; 0xa438; 0x57ff; 0xa436; 0xad02;
  0xa438; 0x2ee6; 0xa436; 0xad04; 0xa438; 0xfffe; 0xa436; 0xad06; 0xa438; 0xffff; 0xa436; 0xad08;
  0xa438; 0x0007; 0xa436; 0xad00; 0xa438; 0x77ff; 0xa436; 0xad02; 0xa438; 0x2166; 0xa436; 0xad04;
  0xa438; 0xfffe; 0xa436; 0xad06; 0xa438; 0xffff; 0xa436; 0xad08; 0xa438; 0x0007; 0xa436; 0xad00;
  0xa438; 0x17ff; 0xa436; 0xad02; 0xa438; 0x2364; 0xa436; 0xad04; 0xa438; 0xfffe; 0xa436; 0xad06;
  0xa438; 0xffff; 0xa436; 0xad08; 0xa438; 0x0007; 0xa436; 0xad00; 0xa438; 0x37ff; 0xa436; 0xad02;
  0xa438; 0x2564; 0xa436; 0xad04; 0xa438; 0xfffe; 0xa436; 0xad06; 0xa438; 0xffff; 0xa436; 0xad08;
  0xa438; 0x0007; 0xa436; 0xad00; 0xa438; 0x57ff; 0xa436; 0xad02; 0xa438; 0x2764; 0xa436; 0xad04;
  0xa438; 0xfffe; 0xa436; 0xad06; 0xa438; 0xffff; 0xa436; 0xad08; 0xa438; 0x0007; 0xa436; 0xad00;
  0xa438; 0x77ff; 0xa436; 0xad02; 0xa438; 0x0164; 0xa436; 0xad04; 0xa438; 0xfffe; 0xa436; 0xad06;
  0xa438; 0xffff; 0xa436; 0xad08; 0xa438; 0x0007; 0xa436; 0xad00; 0xa438; 0x97ff; 0xa436; 0xad02;
  0xa438; 0x0364; 0xa436; 0xad04; 0xa438; 0xfffe; 0xa436; 0xad06; 0xa438; 0xffff; 0xa436; 0xad08;
  0xa438; 0x0007; 0xa436; 0xad00; 0xa438; 0xb7ff; 0xa436; 0xad02; 0xa438; 0x0564; 0xa436; 0xad04;
  0xa438; 0xfffe; 0xa436; 0xad06; 0xa438; 0xffff; 0xa436; 0xad08; 0xa438; 0x0007; 0xa436; 0xad00;
  0xa438; 0xd7ff; 0xa436; 0xad02; 0xa438; 0x0764; 0xa436; 0xad04; 0xa438; 0xfffe; 0xa436; 0xad06;
  0xa438; 0xffff; 0xa436; 0xad08; 0xa438; 0x0007; 0xa436; 0xad00; 0xa438; 0xf7ff; 0xa436; 0xad02;
  0xa438; 0x0964; 0xa436; 0xad04; 0xa438; 0xfffe; 0xa436; 0xad06; 0xa438; 0xffff; 0xa436; 0xad08;
  0xa438; 0x0007; 0xa436; 0xad00; 0xa438; 0x17ff; 0xa436; 0xad02; 0xa438; 0x0b65; 0xa436; 0xad04;
  0xa438; 0xfffe; 0xa436; 0xad06; 0xa438; 0xffff; 0xa436; 0xad08; 0xa438; 0x0007; 0xa436; 0xad00;
  0xa438; 0x37ff; 0xa436; 0xad02; 0xa438; 0x0d65; 0xa436; 0xad04; 0xa438; 0xfffe; 0xa436; 0xad06;
  0xa438; 0xffff; 0xa436; 0xad08; 0xa438; 0x0007; 0xa436; 0xad00; 0xa438; 0x57ff; 0xa436; 0xad02;
  0xa438; 0x0f65; 0xa436; 0xad04; 0xa438; 0xfffe; 0xa436; 0xad06; 0xa438; 0xffff; 0xa436; 0xad08;
  0xa438; 0x0007; 0xa436; 0xad00; 0xa438; 0x77ff; 0xa436; 0xad02; 0xa438; 0x1165; 0xa436; 0xad04;
  0xa438; 0xfffe; 0xa436; 0xad06; 0xa438; 0xffff; 0xa436; 0xad08; 0xa438; 0x0007; 0xa436; 0xad00;
  0xa438; 0x97ff; 0xa436; 0xad02; 0xa438; 0x1366; 0xa436; 0xad04; 0xa438; 0xfffe; 0xa436; 0xad06;
  0xa438; 0xffff; 0xa436; 0xad08; 0xa438; 0x0007; 0xa436; 0xad00; 0xa438; 0xb7ff; 0xa436; 0xad02;
  0xa438; 0x1566; 0xa436; 0xad04; 0xa438; 0xfffe; 0xa436; 0xad06; 0xa438; 0xffff; 0xa436; 0xad08;
  0xa438; 0x0007; 0xa436; 0xad00; 0xa438; 0xd7ff; 0xa436; 0xad02; 0xa438; 0x1766; 0xa436; 0xad04;
  0xa438; 0xfffe; 0xa436; 0xad06; 0xa438; 0xffff; 0xa436; 0xad08; 0xa438; 0x0007; 0xa436; 0xad00;
  0xa438; 0xf7ff; 0xa436; 0xad02; 0xa438; 0x2966; 0xa436; 0xad04; 0xa438; 0xfffe; 0xa436; 0xad06;
  0xa438; 0xffff; 0xa436; 0xad08; 0xa438; 0x0007; 0xa436; 0xad00; 0xa438; 0x1fff; 0xa436; 0xad02;
  0xa438; 0x2b66; 0xa436; 0xad04; 0xa438; 0xfffe; 0xa436; 0xad06; 0xa438; 0xffff; 0xa436; 0xad08;
  0xa438; 0x0007; 0xa436; 0xad00; 0xa438; 0x3fff; 0xa436; 0xad02; 0xa438; 0x2d66; 0xa436; 0xad04;
  0xa438; 0xfffe; 0xa436; 0xad06; 0xa438; 0xffff; 0xa436; 0xad08; 0xa438; 0x0007; 0xa436; 0xad00;
  0xa438; 0x5fff; 0xa436; 0xad02; 0xa438; 0x2f66; 0xa436; 0xad04; 0xa438; 0xfffe; 0xa436; 0xad06;
  0xa438; 0xffff; 0xa436; 0xad08; 0xa438; 0x0007; 0xa436; 0xad00; 0xa438; 0x7fff; 0xa436; 0xad02;
  0xa438; 0x21e6; 0xa436; 0xad04; 0xa438; 0xfffe; 0xa436; 0xad06; 0xa438; 0xffff; 0xa436; 0xad08;
  0xa438; 0x0007; 0xa436; 0xad00; 0xa438; 0x1fff; 0xa436; 0xad02; 0xa438; 0x23e4; 0xa436; 0xad04;
  0xa438; 0xfffe; 0xa436; 0xad06; 0xa438; 0xffff; 0xa436; 0xad08; 0xa438; 0x0007; 0xa436; 0xad00;
  0xa438; 0x3fff; 0xa436; 0xad02; 0xa438; 0x25e4; 0xa436; 0xad04; 0xa438; 0xfffe; 0xa436; 0xad06;
  0xa438; 0xffff; 0xa436; 0xad08; 0xa438; 0x0007; 0xa436; 0xad00; 0xa438; 0x5fff; 0xa436; 0xad02;
  0xa438; 0x27e4; 0xa436; 0xad04; 0xa438; 0xfffe; 0xa436; 0xad06; 0xa438; 0xffff; 0xa436; 0xad08;
  0xa438; 0x0007; 0xa436; 0xad00; 0xa438; 0x7fff; 0xa436; 0xad02; 0xa438; 0x01e4; 0xa436; 0xad04;
  0xa438; 0xfffe; 0xa436; 0xad06; 0xa438; 0xffff; 0xa436; 0xad08; 0xa438; 0x0007; 0xa436; 0xad00;
  0xa438; 0x9fff; 0xa436; 0xad02; 0xa438; 0x03e4; 0xa436; 0xad04; 0xa438; 0xfffe; 0xa436; 0xad06;
  0xa438; 0xffff; 0xa436; 0xad08; 0xa438; 0x0007; 0xa436; 0xad00; 0xa438; 0xbfff; 0xa436; 0xad02;
  0xa438; 0x05e4; 0xa436; 0xad04; 0xa438; 0xfffe; 0xa436; 0xad06; 0xa438; 0xffff; 0xa436; 0xad08;
  0xa438; 0x0007; 0xa436; 0xad00; 0xa438; 0xdfff; 0xa436; 0xad02; 0xa438; 0x07e4; 0xa436; 0xad04;
  0xa438; 0xfffe; 0xa436; 0xad06; 0xa438; 0xffff; 0xa436; 0xad08; 0xa438; 0x0007; 0xa436; 0xad00;
  0xa438; 0xffff; 0xa436; 0xad02; 0xa438; 0x09e4; 0xa436; 0xad04; 0xa438; 0xfffe; 0xa436; 0xad06;
  0xa438; 0xffff; 0xa436; 0xad08; 0xa438; 0x0007; 0xa436; 0xad00; 0xa438; 0x1fff; 0xa436; 0xad02;
  0xa438; 0x0be5; 0xa436; 0xad04; 0xa438; 0xfffe; 0xa436; 0xad06; 0xa438; 0xffff; 0xa436; 0xad08;
  0xa438; 0x0007; 0xa436; 0xad00; 0xa438; 0x3fff; 0xa436; 0xad02; 0xa438; 0x0de5; 0xa436; 0xad04;
  0xa438; 0xfffe; 0xa436; 0xad06; 0xa438; 0xffff; 0xa436; 0xad08; 0xa438; 0x0007; 0xa436; 0xad00;
  0xa438; 0x5fff; 0xa436; 0xad02; 0xa438; 0x0fe5; 0xa436; 0xad04; 0xa438; 0xfffe; 0xa436; 0xad06;
  0xa438; 0xffff; 0xa436; 0xad08; 0xa438; 0x0007; 0xa436; 0xad00; 0xa438; 0x7fff; 0xa436; 0xad02;
  0xa438; 0x11e5; 0xa436; 0xad04; 0xa438; 0xfffe; 0xa436; 0xad06; 0xa438; 0xffff; 0xa436; 0xad08;
  0xa438; 0x0007; 0xa436; 0xad00; 0xa438; 0x9fff; 0xa436; 0xad02; 0xa438; 0x13e6; 0xa436; 0xad04;
  0xa438; 0xfffe; 0xa436; 0xad06; 0xa438; 0xffff; 0xa436; 0xad08; 0xa438; 0x0007; 0xa436; 0xad00;
  0xa438; 0xbfff; 0xa436; 0xad02; 0xa438; 0x15e6; 0xa436; 0xad04; 0xa438; 0xfffe; 0xa436; 0xad06;
  0xa438; 0xffff; 0xa436; 0xad08; 0xa438; 0x0007; 0xa436; 0xad00; 0xa438; 0xdfff; 0xa436; 0xad02;
  0xa438; 0x17e6; 0xa436; 0xad04; 0xa438; 0xfffe; 0xa436; 0xad06; 0xa438; 0xffff; 0xa436; 0xad08;
  0xa438; 0x0007; 0xa436; 0xad00; 0xa438; 0xffff; 0xa436; 0xad02; 0xa438; 0x29e6; 0xa436; 0xad04;
  0xa438; 0xfffe; 0xa436; 0xad06; 0xa438; 0xffff; 0xa436; 0xad08; 0xa438; 0x0007; 0xa436; 0xad00;
  0xa438; 0x87ff; 0xa436; 0xad02; 0xa438; 0x2be5; 0xa436; 0xad04; 0xa438; 0xfffe; 0xa436; 0xad06;
  0xa438; 0xffff; 0xa436; 0xad08; 0xa438; 0x0007; 0xa436; 0xad00; 0xa438; 0xa7ff; 0xa436; 0xad02;
  0xa438; 0x2de5; 0xa436; 0xad04; 0xa438; 0xfffe; 0xa436; 0xad06; 0xa438; 0xffff; 0xa436; 0xad08;
  0xa438; 0x0007; 0xa436; 0xad00; 0xa438; 0xc7ff; 0xa436; 0xad02; 0xa438; 0x2fe5; 0xa436; 0xad04;
  0xa438; 0xfffe; 0xa436; 0xad06; 0xa438; 0xffff; 0xa436; 0xad08; 0xa438; 0x0007; 0xa436; 0xad00;
  0xa438; 0xe7ff; 0xa436; 0xad02; 0xa438; 0x1865; 0xa436; 0xad04; 0xa438; 0xfffe; 0xa436; 0xad06;
  0xa438; 0xffff; 0xa436; 0xad08; 0xa438; 0x0007; 0xa436; 0xad00; 0xa438; 0x8fff; 0xa436; 0xad02;
  0xa438; 0x1a65; 0xa436; 0xad04; 0xa438; 0xfffe; 0xa436; 0xad06; 0xa438; 0xffff; 0xa436; 0xad08;
  0xa438; 0x0007; 0xa436; 0xad00; 0xa438; 0xafff; 0xa436; 0xad02; 0xa438; 0x1c65; 0xa436; 0xad04;
  0xa438; 0xfffe; 0xa436; 0xad06; 0xa438; 0xffff; 0xa436; 0xad08; 0xa438; 0x0007; 0xa436; 0xad00;
  0xa438; 0xcfff; 0xa436; 0xad02; 0xa438; 0x1e65; 0xa436; 0xad04; 0xa438; 0xfffe; 0xa436; 0xad06;
  0xa438; 0xffff; 0xa436; 0xad08; 0xa438; 0x0007; 0xa436; 0xad00; 0xa438; 0xefff; 0xa436; 0xad02;
  0xa438; 0x18e5; 0xa436; 0xad04; 0xa438; 0xfffe; 0xa436; 0xad06; 0xa438; 0xffff; 0xa436; 0xad08;
  0xa438; 0x0007; 0xa436; 0xad00; 0xa438; 0x97ff; 0xa436; 0xad02; 0xa438; 0x1ae5; 0xa436; 0xad04;
  0xa438; 0xfffe; 0xa436; 0xad06; 0xa438; 0xffff; 0xa436; 0xad08; 0xa438; 0x0007; 0xa436; 0xad00;
  0xa438; 0xb7ff; 0xa436; 0xad02; 0xa438; 0x1ce5; 0xa436; 0xad04; 0xa438; 0xfffe; 0xa436; 0xad06;
  0xa438; 0xffff; 0xa436; 0xad08; 0xa438; 0x0007; 0xa436; 0xad00; 0xa438; 0xd7ff; 0xa436; 0xad02;
  0xa438; 0x1ee5; 0xa436; 0xad04; 0xa438; 0xfffe; 0xa436; 0xad06; 0xa438; 0xffff; 0xa436; 0xad08;
  0xa438; 0x0007; 0xa436; 0xad00; 0xa438; 0xf7ff; 0xa436; 0xad02; 0xa438; 0x1965; 0xa436; 0xad04;
  0xa438; 0xfffe; 0xa436; 0xad06; 0xa438; 0xffff; 0xa436; 0xad08; 0xa438; 0x0007; 0xa436; 0xad00;
  0xa438; 0x9fff; 0xa436; 0xad02; 0xa438; 0x1b65; 0xa436; 0xad04; 0xa438; 0xfffe; 0xa436; 0xad06;
  0xa438; 0xffff; 0xa436; 0xad08; 0xa438; 0x0007; 0xa436; 0xad00; 0xa438; 0xbfff; 0xa436; 0xad02;
  0xa438; 0x1d65; 0xa436; 0xad04; 0xa438; 0xfffe; 0xa436; 0xad06; 0xa438; 0xffff; 0xa436; 0xad08;
  0xa438; 0x0007; 0xa436; 0xad00; 0xa438; 0xdfff; 0xa436; 0xad02; 0xa438; 0x1f65; 0xa436; 0xad04;
  0xa438; 0xfffe; 0xa436; 0xad06; 0xa438; 0xffff; 0xa436; 0xad08; 0xa438; 0x0007; 0xa436; 0xad00;
  0xa438; 0xffff; 0xa436; 0xad02; 0xa438; 0x19e5; 0xa436; 0xad04; 0xa438; 0xfffe; 0xa436; 0xad06;
  0xa438; 0xffff; 0xa436; 0xad08; 0xa438; 0x0007; 0xa436; 0xad00; 0xa438; 0x07ff; 0xa436; 0xad02;
  0xa438; 0x1b9c; 0xa436; 0xad04; 0xa438; 0xfffe; 0xa436; 0xad06; 0xa438; 0xffff; 0xa436; 0xad08;
  0xa438; 0x0007; 0xa436; 0xad00; 0xa438; 0x27ff; 0xa436; 0xad02; 0xa438; 0x1d9c; 0xa436; 0xad04;
  0xa438; 0xfffe; 0xa436; 0xad06; 0xa438; 0xffff; 0xa436; 0xad08; 0xa438; 0x0007; 0xa436; 0xad00;
  0xa438; 0x0fff; 0xa436; 0xad02; 0xa438; 0x1f9c; 0xa436; 0xad04; 0xa438; 0xfffe; 0xa436; 0xad06;
  0xa438; 0xffff; 0xa436; 0xad08; 0xa438; 0x0007; 0xa436; 0xad00; 0xa438; 0x2fff; 0xa436; 0xad02;
  0xa438; 0x589c; 0xa436; 0xad04; 0xa438; 0xfffe; 0xa436; 0xad06; 0xa438; 0xffff; 0xa436; 0xad08;
  0xa438; 0x0007; 0xa436; 0xad00; 0xa438; 0x17ff; 0xa436; 0xad02; 0xa438; 0x5c9c; 0xa436; 0xad04;
  0xa438; 0xfffe; 0xa436; 0xad06; 0xa438; 0xffff; 0xa436; 0xad08; 0xa438; 0x0007; 0xa436; 0xad00;
  0xa438; 0x37ff; 0xa436; 0xad02; 0xa438; 0x599c; 0xa436; 0xad04; 0xa438; 0xfffe; 0xa436; 0xad06;
  0xa438; 0xffff; 0xa436; 0xad08; 0xa438; 0x0007; 0xa436; 0xad00; 0xa438; 0x1fff; 0xa436; 0xad02;
  0xa438; 0x5d9c; 0xa436; 0xad04; 0xa438; 0xfffe; 0xa436; 0xad06; 0xa438; 0xffff; 0xa436; 0xad08;
  0xa438; 0x0007; 0xa436; 0xad00; 0xa438; 0x3fff; 0xa436; 0xad02; 0xa438; 0x5a9c; 0xa436; 0xad04;
  0xa438; 0x100e; 0xa436; 0xad06; 0xa438; 0xfff6; 0xa436; 0xad08; 0xa438; 0x0007; 0xa436; 0xad00;
  0xa438; 0xffff; 0xa436; 0xad02; 0xa438; 0x5eff; 0xa436; 0xad04; 0xa438; 0x104e; 0xa436; 0xad06;
  0xa438; 0xfff7; 0xa436; 0xad08; 0xa438; 0x0007; 0xa436; 0xad00; 0xa438; 0xffff; 0xa436; 0xad02;
  0xa438; 0x5bff; 0xa436; 0xad04; 0xa438; 0x110e; 0xa436; 0xad06; 0xa438; 0xfff6; 0xa436; 0xad08;
  0xa438; 0x0007; 0xa436; 0xad00].

Definition phy_mcu_ram_code_8126a_2_1_p4 : list Z := [
  0xa438; 0xffff; 0xa436; 0xad02; 0xa438; 0x5fff; 0xa436; 0xad04; 0xa438; 0x114e; 0xa436; 0xad06;
  0xa438; 0xf817; 0xa436; 0xad08; 0xa438; 0x0007; 0xa436; 0xad00; 0xa438; 0xffff; 0xa436; 0xad02;
  0xa438; 0xffff; 0xa436; 0xad04; 0xa438; 0x120f; 0xa436; 0xad06; 0xa438; 0xf836; 0xa436; 0xad08;
  0xa438; 0x0007; 0xa436; 0xad00; 0xa438; 0xc3c7; 0xa436; 0xad02; 0xa438; 0xffe3; 0xa436; 0xad04;
  0xa438; 0x124f; 0xa436; 0xad06; 0xa438; 0x0997; 0xa436; 0xad08; 0xa438; 0x0004; 0xa436; 0xad00;
  0xa438; 0xe3e7; 0xa436; 0xad02; 0xa438; 0xffe3; 0xa436; 0xad04; 0xa438; 0x130f; 0xa436; 0xad06;
  0xa438; 0x19b6; 0xa436; 0xad08; 0xa438; 0x0004; 0xa436; 0xad00; 0xa438; 0x0307; 0xa436; 0xad02;
  0xa438; 0xffe3; 0xa436; 0xad04; 0xa438; 0x134f; 0xa436; 0xad06; 0xa438; 0x4917; 0xa436; 0xad08;
  0xa438; 0x0004; 0xa436; 0xad00; 0xa438; 0x2327; 0xa436; 0xad02; 0xa438; 0xffe3; 0xa436; 0xad04;
  0xa438; 0x510f; 0xa436; 0xad06; 0xa438; 0x5936; 0xa436; 0xad08; 0xa438; 0x0004; 0xa436; 0xad00;
  0xa438; 0x4347; 0xa436; 0xad02; 0xa438; 0xffe3; 0xa436; 0xad04; 0xa438; 0x514f; 0xa436; 0xad06;
  0xa438; 0x0997; 0xa436; 0xad08; 0xa438; 0x0004; 0xa436; 0xad00; 0xa438; 0x6367; 0xa436; 0xad02;
  0xa438; 0xffe3; 0xa436; 0xad04; 0xa438; 0x500f; 0xa436; 0xad06; 0xa438; 0x19b6; 0xa436; 0xad08;
  0xa438; 0x0004; 0xa436; 0xad00; 0xa438; 0x8387; 0xa436; 0xad02; 0xa438; 0xffe3; 0xa436; 0xad04;
  0xa438; 0x504f; 0xa436; 0xad06; 0xa438; 0x4817; 0xa436; 0xad08; 0xa438; 0x0004; 0xa436; 0xad00;
  0xa438; 0xa3a7; 0xa436; 0xad02; 0xa438; 0xffe3; 0xa436; 0xad04; 0xa438; 0x520f; 0xa436; 0xad06;
  0xa438; 0x5836; 0xa436; 0xad08; 0xa438; 0x0004; 0xa436; 0xad00; 0xa438; 0xcbcf; 0xa436; 0xad02;
  0xa438; 0xffe3; 0xa436; 0xad04; 0xa438; 0x524f; 0xa436; 0xad06; 0xa438; 0x0997; 0xa436; 0xad08;
  0xa438; 0x0004; 0xa436; 0xad00; 0xa438; 0xebef; 0xa436; 0xad02; 0xa438; 0xffe3; 0xa436; 0xad04;
  0xa438; 0x530f; 0xa436; 0xad06; 0xa438; 0x19b6; 0xa436; 0xad08; 0xa438; 0x0004; 0xa436; 0xad00;
  0xa438; 0x0b0f; 0xa436; 0xad02; 0xa438; 0xffe3; 0xa436; 0xad04; 0xa438; 0x534f; 0xa436; 0xad06;
  0xa438; 0x4917; 0xa436; 0xad08; 0xa438; 0x0004; 0xa436; 0xad00; 0xa438; 0x2b2f; 0xa436; 0xad02;
  0xa438; 0xffe3; 0xa436; 0xad04; 0xa438; 0x920f; 0xa436; 0xad06; 0xa438; 0x5936; 0xa436; 0xad08;
  0xa438; 0x0004; 0xa436; 0xad00; 0xa438; 0x4b4f; 0xa436; 0xad02; 0xa438; 0xffe3; 0xa436; 0xad04;
  0xa438; 0x924f; 0xa436; 0xad06; 0xa438; 0x0997; 0xa436; 0xad08; 0xa438; 0x0004; 0xa436; 0xad00;
  0xa438; 0x6b6f; 0xa436; 0xad02; 0xa438; 0xffe3; 0xa436; 0xad04; 0xa438; 0x900f; 0xa436; 0xad06;
  0xa438; 0x19b6; 0xa436; 0xad08; 0xa438; 0x0004; 0xa436; 0xad00; 0xa438; 0x8b8f; 0xa436; 0xad02;
  0xa438; 0xffe3; 0xa436; 0xad04; 0xa438; 0x904f; 0xa436; 0xad06; 0xa438; 0x4817; 0xa436; 0xad08;
  0xa438; 0x0004; 0xa436; 0xad00; 0xa438; 0xabaf; 0xa436; 0xad02; 0xa438; 0xffe3; 0xa436; 0xad04;
  0xa438; 0x910f; 0xa436; 0xad06; 0xa438; 0x5836; 0xa436; 0xad08; 0xa438; 0x0004; 0xa436; 0xad00;
  0xa438; 0xd3d7; 0xa436; 0xad02; 0xa438; 0xffe3; 0xa436; 0xad04; 0xa438; 0x914f; 0xa436; 0xad06;
  0xa438; 0x0997; 0xa436; 0xad08; 0xa438; 0x0004; 0xa436; 0xad00; 0xa438; 0xf3f7; 0xa436; 0xad02;
  0xa438; 0xffe3; 0xa436; 0xad04; 0xa438; 0x930f; 0xa436; 0xad06; 0xa438; 0x19b6; 0xa436; 0xad08;
  0xa438; 0x0004; 0xa436; 0xad00; 0xa438; 0x1317; 0xa436; 0xad02; 0xa438; 0xffe3; 0xa436; 0xad04;
  0xa438; 0x934f; 0xa436; 0xad06; 0xa438; 0x4917; 0xa436; 0xad08; 0xa438; 0x0004; 0xa436; 0xad00;
  0xa438; 0x3337; 0xa436; 0xad02; 0xa438; 0xffe3; 0xa436; 0xad04; 0xa438; 0xd30f; 0xa436; 0xad06;
  0xa438; 0x5936; 0xa436; 0xad08; 0xa438; 0x0004; 0xa436; 0xad00; 0xa438; 0x5357; 0xa436; 0xad02;
  0xa438; 0xffe3; 0xa436; 0xad04; 0xa438; 0xd34f; 0xa436; 0xad06; 0xa438; 0x0997; 0xa436; 0xad08;
  0xa438; 0x0004; 0xa436; 0xad00; 0xa438; 0x7377; 0xa436; 0xad02; 0xa438; 0xffe3; 0xa436; 0xad04;
  0xa438; 0xd00f; 0xa436; 0xad06; 0xa438; 0x19b6; 0xa436; 0xad08; 0xa438; 0x0004; 0xa436; 0xad00;
  0xa438; 0x9397; 0xa436; 0xad02; 0xa438; 0xffe3; 0xa436; 0xad04; 0xa438; 0xd04f; 0xa436; 0xad06;
  0xa438; 0x4817; 0xa436; 0xad08; 0xa438; 0x0004; 0xa436; 0xad00; 0xa438; 0xb3b7; 0xa436; 0xad02;
  0xa438; 0xffe3; 0xa436; 0xad04; 0xa438; 0xd10f; 0xa436; 0xad06; 0xa438; 0x5836; 0xa436; 0xad08;
  0xa438; 0x0004; 0xa436; 0xad00; 0xa438; 0xdbdf; 0xa436; 0xad02; 0xa438; 0xffe3; 0xa436; 0xad04;
  0xa438; 0xd14f; 0xa436; 0xad06; 0xa438; 0x0997; 0xa436; 0xad08; 0xa438; 0x0004; 0xa436; 0xad00;
  0xa438; 0xfbff; 0xa436; 0xad02; 0xa438; 0xffe3; 0xa436; 0xad04; 0xa438; 0xd20f; 0xa436; 0xad06;
  0xa438; 0x19b6; 0xa436; 0xad08; 0xa438; 0x0004; 0xa436; 0xad00; 0xa438; 0x1b1f; 0xa436; 0xad02;
  0xa438; 0xffe3; 0xa436; 0xad04; 0xa438; 0xd24f; 0xa436; 0xad06; 0xa438; 0x4917; 0xa436; 0xad08;
  0xa438; 0x0004; 0xa436; 0xad00; 0xa438; 0x3b3f; 0xa436; 0xad02; 0xa438; 0xffe3; 0xa436; 0xad04;
  0xa438; 0xffff; 0xa436; 0xad06; 0xa438; 0x593f; 0xa436; 0xad08; 0xa438; 0x0004; 0xa436; 0xad00;
  0xa438; 0x5b5f; 0xa436; 0xad02; 0xa438; 0xffe3; 0xa436; 0xad04; 0xa438; 0xffff; 0xa436; 0xad06;
  0xa438; 0x099f; 0xa436; 0xad08; 0xa438; 0x0004; 0xa436; 0xad00; 0xa438; 0x7b7f; 0xa436; 0xad02;
  0xa438; 0xffe3; 0xa436; 0xad04; 0xa438; 0xffff; 0xa436; 0xad06; 0xa438; 0x19bf; 0xa436; 0xad08;
  0xa438; 0x0004; 0xa436; 0xad00; 0xa438; 0x9b9f; 0xa436; 0xad02; 0xa438; 0xffe3; 0xa436; 0xad04;
  0xa438; 0xffff; 0xa436; 0xad06; 0xa438; 0x4fff; 0xa436; 0xad08; 0xa438; 0x0004; 0xa436; 0xad00;
  0xa438; 0xbbbf; 0xa436; 0xad02; 0xa438; 0xffe3; 0xa436; 0xad04; 0xa438; 0xffff; 0xa436; 0xad06;
  0xa438; 0x5fff; 0xa436; 0xad08; 0xa438; 0x0004; 0xa436; 0xad00; 0xa438; 0x07ff; 0xa436; 0xad02;
  0xa438; 0xffa4; 0xa436; 0xad04; 0xa438; 0xffff; 0xa436; 0xad06; 0xa438; 0xffff; 0xa436; 0xad08;
  0xa438; 0x0007; 0xa436; 0xad00; 0xa438; 0x27ff; 0xa436; 0xad02; 0xa438; 0xffa4; 0xa436; 0xad04;
  0xa438; 0xffff; 0xa436; 0xad06; 0xa438; 0xffff; 0xa436; 0xad08; 0xa438; 0x0007; 0xa436; 0xad00;
  0xa438; 0x47ff; 0xa436; 0xad02; 0xa438; 0xffa4; 0xa436; 0xad04; 0xa438; 0xffff; 0xa436; 0xad06;
  0xa438; 0xffff; 0xa436; 0xad08; 0xa438; 0x0007; 0xa436; 0xad00; 0xa438; 0x67ff; 0xa436; 0xad02;
  0xa438; 0x58a4; 0xa436; 0xad04; 0xa438; 0xfffe; 0xa436; 0xad06; 0xa438; 0xffff; 0xa436; 0xad08;
  0xa438; 0x0007; 0xa436; 0xad00; 0xa438; 0x0fff; 0xa436; 0xad02; 0xa438; 0x5ca4; 0xa436; 0xad04;
  0xa438; 0xfffe; 0xa436; 0xad06; 0xa438; 0xffff; 0xa436; 0xad08; 0xa438; 0x0007; 0xa436; 0xad00;
  0xa438; 0x2fff; 0xa436; 0xad02; 0xa438; 0x50a4; 0xa436; 0xad04; 0xa438; 0xfffe; 0xa436; 0xad06;
  0xa438; 0xffff; 0xa436; 0xad08; 0xa438; 0x0007; 0xa436; 0xad00; 0xa438; 0x4fff; 0xa436; 0xad02;
  0xa438; 0x54a4; 0xa436; 0xad04; 0xa438; 0xfffe; 0xa436; 0xad06; 0xa438; 0xffff; 0xa436; 0xad08;
  0xa438; 0x0007; 0xa436; 0xad00; 0xa438; 0x6fff; 0xa436; 0xad02; 0xa438; 0x59a4; 0xa436; 0xad04;
  0xa438; 0xfffe; 0xa436; 0xad06; 0xa438; 0xffff; 0xa436; 0xad08; 0xa438; 0x0007; 0xa436; 0xad00;
  0xa438; 0x17ff; 0xa436; 0xad02; 0xa438; 0x5da4; 0xa436; 0xad04; 0xa438; 0xfffe; 0xa436; 0xad06;
  0xa438; 0xffff; 0xa436; 0xad08; 0xa438; 0x0007; 0xa436; 0xad00; 0xa438; 0x37ff; 0xa436; 0xad02;
  0xa438; 0x51a4; 0xa436; 0xad04; 0xa438; 0xfffe; 0xa436; 0xad06; 0xa438; 0xffff; 0xa436; 0xad08;
  0xa438; 0x0007; 0xa436; 0xad00; 0xa438; 0x57ff; 0xa436; 0xad02; 0xa438; 0x55a4; 0xa436; 0xad04;
  0xa438; 0xfffe; 0xa436; 0xad06; 0xa438; 0xffff; 0xa436; 0xad08; 0xa438; 0x0007; 0xa436; 0xad00;
  0xa438; 0x77ff; 0xa436; 0xad02; 0xa438; 0x5aa4; 0xa436; 0xad04; 0xa438; 0xfffe; 0xa436; 0xad06;
  0xa438; 0xffff; 0xa436; 0xad08; 0xa438; 0x0007; 0xa436; 0xad00; 0xa438; 0x1fff; 0xa436; 0xad02;
  0xa438; 0x5ea4; 0xa436; 0xad04; 0xa438; 0xfffe; 0xa436; 0xad06; 0xa438; 0xffff; 0xa436; 0xad08;
  0xa438; 0x0007; 0xa436; 0xad00; 0xa438; 0x3fff; 0xa436; 0xad02; 0xa438; 0x52a4; 0xa436; 0xad04;
  0xa438; 0xfffe; 0xa436; 0xad06; 0xa438; 0xffff; 0xa436; 0xad08; 0xa438; 0x0007; 0xa436; 0xad00;
  0xa438; 0x5fff; 0xa436; 0xad02; 0xa438; 0x56a4; 0xa436; 0xad04; 0xa438; 0xfffe; 0xa436; 0xad06;
  0xa438; 0xffff; 0xa436; 0xad08; 0xa438; 0x0007; 0xa436; 0xad00; 0xa438; 0x7fff; 0xa436; 0xad02;
  0xa438; 0x5ba4; 0xa436; 0xad04; 0xa438; 0x2a06; 0xa436; 0xad06; 0xa438; 0xfff6; 0xa436; 0xad08;
  0xa438; 0x0007; 0xa436; 0xad00; 0xa438; 0xffff; 0xa436; 0xad02; 0xa438; 0x5fff; 0xa436; 0xad04;
  0xa438; 0x2b06; 0xa436; 0xad06; 0xa438; 0xfff7; 0xa436; 0xad08; 0xa438; 0x0007; 0xa436; 0xad00;
  0xa438; 0xffff; 0xa436; 0xad02; 0xa438; 0x53ff; 0xa436; 0xad04; 0xa438; 0x2a06; 0xa436; 0xad06;
  0xa438; 0xfff4; 0xa436; 0xad08; 0xa438; 0x0007; 0xa436; 0xad00; 0xa438; 0xffff; 0xa436; 0xad02;
  0xa438; 0x57ff; 0xa436; 0xad04; 0xa438; 0x2b06; 0xa436; 0xad06; 0xa438; 0xf615; 0xa436; 0xad08;
  0xa438; 0x0007; 0xa436; 0xad00; 0xa438; 0xffff; 0xa436; 0xad02; 0xa438; 0xffff; 0xa436; 0xad04;
  0xa438; 0xffff; 0xa436; 0xad06; 0xa438; 0xf63f; 0xa436; 0xad08; 0xa438; 0x0007; 0xa436; 0xad00;
  0xa438; 0xffff; 0xa436; 0xad02; 0xa438; 0xffff; 0xa436; 0xad04; 0xa438; 0xffff; 0xa436; 0xad06;
  0xa438; 0x069f; 0xa436; 0xad08; 0xa438; 0x0003; 0xa436; 0xad00; 0xa438; 0xffff; 0xa436; 0xad02;
  0xa438; 0xffff; 0xa436; 0xad04; 0xa438; 0xffff; 0xa436; 0xad06; 0xa438; 0x16bf; 0xa436; 0xad08;
  0xa438; 0x0003; 0xa436; 0xad00; 0xa438; 0xffff; 0xa436; 0xad02; 0xa438; 0xffff; 0xa436; 0xad04;
  0xa438; 0xffff; 0xa436; 0xad06; 0xa438; 0x4fff; 0xa436; 0xad08; 0xa438; 0x0003; 0xa436; 0xad00;
  0xa438; 0xffff; 0xa436; 0xad02; 0xa438; 0xd0ff; 0xa436; 0xad04; 0xa438; 0x6a46; 0xa436; 0xad06;
  0xa438; 0x5ff6; 0xa436; 0xad08; 0xa438; 0x0003; 0xa436; 0xad00; 0xa438; 0xffff; 0xa436; 0xad02;
  0xa438; 0xd4ff; 0xa436; 0xad04; 0xa438; 0x6b46; 0xa436; 0xad06; 0xa438; 0xfff7; 0xa436; 0xad08;
  0xa438; 0x0007; 0xa436; 0xad00; 0xa438; 0xffff; 0xa436; 0xad02; 0xa438; 0xd8ff; 0xa436; 0xad04;
  0xa438; 0x6a46; 0xa436; 0xad06; 0xa438; 0xfff4; 0xa436; 0xad08; 0xa438; 0x0007; 0xa436; 0xad00;
  0xa438; 0xffff; 0xa436; 0xad02; 0xa438; 0xdcff; 0xa436; 0xad04; 0xa438; 0x6b46; 0xa436; 0xad06;
  0xa438; 0xf615; 0xa436; 0xad08; 0xa438; 0x0007; 0xa436; 0xad00; 0xa438; 0xffff; 0xa436; 0xad02;
  0xa438; 0xffff; 0xa436; 0xad04; 0xa438; 0xffff; 0xa436; 0xad06; 0xa438; 0xf63f; 0xa436; 0xad08;
  0xa438; 0x0007; 0xa436; 0xad00; 0xa438; 0xffff; 0xa436; 0xad02; 0xa438; 0xffff; 0xa436; 0xad04;
  0xa438; 0xffff; 0xa436; 0xad06; 0xa438; 0x069f; 0xa436; 0xad08; 0xa438; 0x0003; 0xa436; 0xad00;
  0xa438; 0xffff; 0xa436; 0xad02; 0xa438; 0xffff; 0xa436; 0xad04; 0xa438; 0xffff; 0xa436; 0xad06;
  0xa438; 0x16bf; 0xa436; 0xad08; 0xa438; 0x0003; 0xa436; 0xad00; 0xa438; 0xffff; 0xa436; 0xad02;
  0xa438; 0xffff; 0xa436; 0xad04; 0xa438; 0xffff; 0xa436; 0xad06; 0xa438; 0x4fff; 0xa436; 0xad08;
  0xa438; 0x0003; 0xa436; 0xad00; 0xa438; 0xffff; 0xa436; 0xad02; 0xa438; 0xd1ff; 0xa436; 0xad04;
  0xa438; 0xaa86; 0xa436; 0xad06; 0xa438; 0x5ff6; 0xa436; 0xad08; 0xa438; 0x0003; 0xa436; 0xad00;
  0xa438; 0xffff; 0xa436; 0xad02; 0xa438; 0xd5ff; 0xa436; 0xad04; 0xa438; 0xab86; 0xa436; 0xad06;
  0xa438; 0xfff7; 0xa436; 0xad08; 0xa438; 0x0007; 0xa436; 0xad00; 0xa438; 0xffff; 0xa436; 0xad02;
  0xa438; 0xd9ff; 0xa436; 0xad04; 0xa438; 0xaa86; 0xa436; 0xad06; 0xa438; 0xfff4; 0xa436; 0xad08;
  0xa438; 0x0007; 0xa436; 0xad00; 0xa438; 0xffff; 0xa436; 0xad02; 0xa438; 0xddff; 0xa436; 0xad04;
  0xa438; 0xab86; 0xa436; 0xad06; 0xa438; 0xf615; 0xa436; 0xad08; 0xa438; 0x0007; 0xa436; 0xad00;
  0xa438; 0xffff; 0xa436; 0xad02; 0xa438; 0xffff; 0xa436; 0xad04; 0xa438; 0xffff; 0xa436; 0xad06;
  0xa438; 0xf63f; 0xa436; 0xad08; 0xa438; 0x0007; 0xa436; 0xad00; 0xa438; 0xffff; 0xa436; 0xad02;
  0xa438; 0xffff; 0xa436; 0xad04; 0xa438; 0xffff; 0xa436; 0xad06; 0xa438; 0x069f; 0xa436; 0xad08;
  0xa438; 0x0003; 0xa436; 0xad00; 0xa438; 0xffff; 0xa436; 0xad02; 0xa438; 0xffff; 0xa436; 0xad04;
  0xa438; 0xffff; 0xa436; 0xad06; 0xa438; 0x16bf; 0xa436; 0xad08; 0xa438; 0x0003; 0xa436; 0xad00;
  0xa438; 0xffff; 0xa436; 0xad02; 0xa438; 0xffff; 0xa436; 0xad04; 0xa438; 0xffff; 0xa436; 0xad06;
  0xa438; 0x4fff; 0xa436; 0xad08; 0xa438; 0x0003; 0xa436; 0xad00; 0xa438; 0xffff; 0xa436; 0xad02;
  0xa438; 0xd2ff; 0xa436; 0xad04; 0xa438; 0xeac6; 0xa436; 0xad06; 0xa438; 0x5ff6; 0xa436; 0xad08;
  0xa438; 0x0003; 0xa436; 0xad00; 0xa438; 0xffff; 0xa436; 0xad02; 0xa438; 0xd6ff; 0xa436; 0xad04;
  0xa438; 0xebc6; 0xa436; 0xad06; 0xa438; 0xfff7; 0xa436; 0xad08; 0xa438; 0x0007; 0xa436; 0xad00;
  0xa438; 0xffff; 0xa436; 0xad02; 0xa438; 0xdaff; 0xa436; 0xad04; 0xa438; 0xeac6; 0xa436; 0xad06;
  0xa438; 0xfff4; 0xa436; 0xad08; 0xa438; 0x0007; 0xa436; 0xad00; 0xa438; 0xffff; 0xa436; 0xad02;
  0xa438; 0xdeff; 0xa436; 0xad04; 0xa438; 0xebc6; 0xa436; 0xad06; 0xa438; 0xf615; 0xa436; 0xad08;
  0xa438; 0x0007; 0xa436; 0xad00; 0xa438; 0xffff; 0xa436; 0xad02; 0xa438; 0xffff; 0xa436; 0xad04;
  0xa438; 0xffff; 0xa436; 0xad06; 0xa438; 0xf63f; 0xa436; 0xad08; 0xa438; 0x0017; 0xa436; 0xad00;
  0xa438; 0xffff; 0xa436; 0xad02; 0xa438; 0xffff; 0xa436; 0xad04; 0xa438; 0xffff; 0xa436; 0xad06;
  0xa438; 0x069f; 0xa436; 0xad08; 0xa438; 0x0013; 0xa436; 0xad00; 0xa438; 0xffff; 0xa436; 0xad02;
  0xa438; 0xffff; 0xa436; 0xad04; 0xa438; 0xffff; 0xa436; 0xad06; 0xa438; 0x16bf; 0xa436; 0xad08;
  0xa438; 0x0013; 0xa436; 0xad00; 0xa438; 0xffff; 0xa436; 0xad02; 0xa438; 0xffff; 0xa436; 0xad04;
  0xa438; 0xffff; 0xa436; 0xad06; 0xa438; 0x4fff; 0xa436; 0xad08; 0xa438; 0x0013; 0xa436; 0xad00;
  0xa438; 0xfffa; 0xa436; 0xad02; 0xa438; 0xd3ff; 0xa436; 0xad04; 0xa438; 0xfffe; 0xa436; 0xad06;
  0xa438; 0x5fff; 0xa436; 0xad08; 0xa438; 0x0013; 0xa436; 0xad00; 0xa438; 0xc7ff; 0xa436; 0xad02;
  0xa438; 0xd7e7; 0xa436; 0xad04; 0xa438; 0xfffe; 0xa436; 0xad06; 0xa438; 0xffff; 0xa436; 0xad08;
  0xa438; 0x0017; 0xa436; 0xad00; 0xa438; 0xe7ff; 0xa436; 0xad02; 0xa438; 0xdbe7; 0xa436; 0xad04;
  0xa438; 0xfffe; 0xa436; 0xad06; 0xa438; 0xffff; 0xa436; 0xad08; 0xa438; 0x0017; 0xa436; 0xad00;
  0xa438; 0x07ff; 0xa436; 0xad02; 0xa438; 0xdfe7; 0xa436; 0xad04; 0xa438; 0xfffe; 0xa436; 0xad06;
  0xa438; 0xffff; 0xa436; 0xad08; 0xa438; 0x0017; 0xa436; 0xacfc; 0xa438; 0x0000; 0xa436; 0xaccc;
  0xa438; 0x2000; 0xa436; 0xacce; 0xa438; 0x6000; 0xa436; 0xaccc; 0xa438; 0x2001; 0xa436; 0xacce;
  0xa438; 0x6008; 0xa436; 0xaccc; 0xa438; 0x2002; 0xa436; 0xacce; 0xa438; 0x6010; 0xa436; 0xaccc;
  0xa438; 0x2003; 0xa436; 0xacce; 0xa438; 0x6020; 0xa436; 0xaccc; 0xa438; 0x2004; 0xa436; 0xacce;
  0xa438; 0x6060; 0xa436; 0xaccc; 0xa438; 0x2005; 0xa436; 0xacce; 0xa438; 0x60a0; 0xa436; 0xaccc;
  0xa438; 0x2006; 0xa436; 0xacce; 0xa438; 0x60e0; 0xa436; 0xaccc; 0xa438; 0x2007; 0xa436; 0xacce;
  0xa438; 0x6128; 0xa436; 0xaccc; 0xa438; 0x2008; 0xa436; 0xacce; 0xa438; 0x6178; 0xa436; 0xaccc;
  0xa438; 0x2009; 0xa436; 0xacce; 0xa438; 0x61a8; 0xa436; 0xaccc; 0xa438; 0x200a; 0xa436; 0xacce;
  0xa438; 0x61f0; 0xa436; 0xaccc; 0xa438; 0x200b; 0xa436; 0xacce; 0xa438; 0x6248; 0xa436; 0xaccc;
  0xa438; 0x200c; 0xa436; 0xacce; 0xa438; 0x6258; 0xa436; 0xaccc; 0xa438; 0x200d; 0xa436; 0xacce;
  0xa438; 0x6268; 0xa436; 0xaccc; 0xa438; 0x200e; 0xa436; 0xacce; 0xa438; 0x6270; 0xa436; 0xaccc;
  0xa438; 0x200f; 0xa436; 0xacce; 0xa438; 0x6274; 0xa436; 0xaccc; 0xa438; 0x2010; 0xa436; 0xacce;
  0xa438; 0x627c; 0xa436; 0xaccc; 0xa438; 0x2011; 0xa436; 0xacce; 0xa438; 0x6284; 0xa436; 0xaccc;
  0xa438; 0x2012; 0xa436; 0xacce; 0xa438; 0x6294; 0xa436; 0xaccc; 0xa438; 0x2013; 0xa436; 0xacce;
  0xa438; 0x629c; 0xa436; 0xaccc; 0xa438; 0x2014; 0xa436; 0xacce; 0xa438; 0x62ac; 0xa436; 0xaccc;
  0xa438; 0x2015; 0xa436; 0xacce; 0xa438; 0x62bc; 0xa436; 0xaccc; 0xa438; 0x2016; 0xa436; 0xacce;
  0xa438; 0x62c4; 0xa436; 0xaccc; 0xa438; 0x2017; 0xa436; 0xacce; 0xa438; 0x7000; 0xa436; 0xaccc;
  0xa438; 0x2018; 0xa436; 0xacce; 0xa438; 0x6000; 0xa436; 0xaccc; 0xa438; 0x2019; 0xa436; 0xacce;
  0xa438; 0x6000; 0xa436; 0xaccc; 0xa438; 0x201a; 0xa436; 0xacce; 0xa438; 0x6000; 0xa436; 0xaccc;
  0xa438; 0x201b; 0xa436; 0xacce; 0xa438; 0x6000; 0xa436; 0xaccc; 0xa438; 0x201c; 0xa436; 0xacce;
  0xa438; 0x6000; 0xa436; 0xaccc; 0xa438; 0x201d; 0xa436; 0xacce; 0xa438; 0x6000; 0xa436; 0xaccc;
  0xa438; 0x201e; 0xa436; 0xacce; 0xa438; 0x6000; 0xa436; 0xaccc; 0xa438; 0x201f; 0xa436; 0xacce;
  0xa438; 0x6000; 0xa436; 0xacce; 0xa438; 0x0000; 0xa436; 0x0000; 0xa438; 0x0000; 0xb82e; 0x0000;
  0xa436; 0x8023; 0xa438; 0x0000; 0xa436; 0x801E; 0xa438; 0x0027; 0xB820; 0x0000; 0xFFFF; 0xFFFF].

Definition phy_mcu_ram_code_8126a_2_1 : list Z :=
  phy_mcu_ram_code_8126a_2_1_p1 ++ phy_mcu_ram_code_8126a_2_1_p2 ++ phy_mcu_ram_code_8126a_2_1_p3 ++ phy_mcu_ram_code_8126a_2_1_p4.

Definition phy_mcu_ram_code_8126a_2_3 : list Z := [
  0xb892; 0x0000; 0xb88e; 0xC15C; 0xb890; 0x0303; 0xb890; 0x0506; 0xb890; 0x0807; 0xb890; 0x090B;
  0xb890; 0x0E12; 0xb890; 0x1617; 0xb890; 0x1C24; 0xb890; 0x2B37; 0xb890; 0x0203; 0xb890; 0x0304;
  0xb890; 0x0504; 0xb890; 0x0506; 0xb890; 0x0708; 0xb890; 0x090A; 0xb890; 0x0B0E; 0xb890; 0x1013;
  0xb890; 0x1519; 0xb890; 0x1D22; 0xb890; 0x282E; 0xb890; 0x363E; 0xb890; 0x474B; 0xb88e; 0xC196;
  0xb890; 0x3F5E; 0xb890; 0xF834; 0xb890; 0x6C01; 0xb890; 0xA67F; 0xb890; 0xA06C; 0xb890; 0x043B;
  0xb890; 0x6190; 0xb890; 0x88DB; 0xb890; 0x9ECD; 0xb890; 0x4DBC; 0xb890; 0x6E0E; 0xb890; 0x9F2D;
  0xb890; 0x2C18; 0xb890; 0x5E8C; 0xb890; 0x5BFE; 0xb890; 0x183C; 0xb890; 0x23C9; 0xb890; 0x3E84;
  0xb890; 0x3C20; 0xb890; 0xCC56; 0xb890; 0x3480; 0xb890; 0x0040; 0xb88e; 0xC00F; 0xb890; 0x3502;
  0xb890; 0x0203; 0xb890; 0x0303; 0xb890; 0x0404; 0xb890; 0x0506; 0xb890; 0x0607; 0xb890; 0x080A;
  0xb890; 0x0B0D; 0xb890; 0x0E10; 0xb890; 0x1114; 0xb890; 0x171B; 0xb890; 0x1F22; 0xb890; 0x2832;
  0xb890; 0x0101; 0xb890; 0x0101; 0xb890; 0x0202; 0xb890; 0x0303; 0xb890; 0x0404; 0xb890; 0x0506;
  0xb890; 0x0709; 0xb890; 0x0A0D; 0xb88e; 0xC047; 0xb890; 0x365F; 0xb890; 0xBE10; 0xb890; 0x84E4;
  0xb890; 0x60E9; 0xb890; 0xA86A; 0xb890; 0xF1E3; 0xb890; 0xF73F; 0xb890; 0x5C02; 0xb890; 0x9547;
  0xb890; 0xC30C; 0xb890; 0xB064; 0xb890; 0x079A; 0xb890; 0x1E23; 0xb890; 0x1B5D; 0xb890; 0x92E7;
  0xb890; 0x4BAF; 0xb890; 0x2386; 0xb890; 0x01B6; 0xb890; 0x6F82; 0xb890; 0xDC1C; 0xb890; 0x8C92;
  0xb88e; 0xC110; 0xb890; 0x0C7F; 0xb890; 0x1014; 0xb890; 0x231D; 0xb890; 0x2023; 0xb890; 0x2628;
  0xb890; 0x2A2D; 0xb890; 0x2D2C; 0xb890; 0x2C2E; 0xb890; 0x320D; 0xb88e; 0xC186; 0xb890; 0x0306;
  0xb890; 0x0804; 0xb890; 0x0406; 0xb890; 0x0707; 0xb890; 0x0709; 0xb890; 0x0B0F; 0xb890; 0x161D;
  0xb890; 0x202A; 0xb890; 0x3F5E; 0xb88e; 0xC1C1; 0xb890; 0x0040; 0xb890; 0x5920; 0xb890; 0x88CD;
  0xb890; 0x1CA1; 0xb890; 0x3D20; 0xb890; 0x3AE4; 0xb890; 0x6A43; 0xb890; 0x30AF; 0xb890; 0xDD16;
  0xb88e; 0xC283; 0xb890; 0x1611; 0xb890; 0x161C; 0xb890; 0x2127; 0xb890; 0x2C32; 0xb890; 0x373D;
  0xb890; 0x4247; 0xb890; 0x4D52; 0xb890; 0x585A; 0xb890; 0x0004; 0xb890; 0x080C; 0xb890; 0x1014;
  0xb890; 0x181B; 0xb890; 0x1F23; 0xb890; 0x272B; 0xb890; 0x2F33; 0xb890; 0x363A; 0xb890; 0x3E42;
  0xb890; 0x464A; 0xb890; 0x4D51; 0xb890; 0x5559; 0xb890; 0x5D65; 0xb890; 0xE769; 0xb890; 0xEB56;
  0xb890; 0xC04B; 0xb890; 0xD502; 0xb890; 0x2FB1; 0xb890; 0x33B5; 0xb890; 0x37F8; 0xb890; 0xBB98;
  0xb890; 0x7450; 0xb890; 0x4C48; 0xb890; 0x12DC; 0xb890; 0xDCDC; 0xb890; 0x934A; 0xb890; 0x3E33;
  0xb890; 0xE496; 0xb890; 0x724E; 0xb890; 0x2B07; 0xb890; 0xE4C0; 0xb890; 0x9C79; 0xb890; 0x5512;
  0xb88e; 0xC212; 0xb890; 0x2020; 0xb890; 0x2020; 0xb890; 0x2020; 0xb890; 0x2020; 0xb890; 0x2020;
  0xb890; 0x2019; 0xb88e; 0xC24D; 0xb890; 0x8400; 0xb890; 0x0000; 0xb890; 0x0000; 0xb890; 0x0000;
  0xb890; 0x0000; 0xb890; 0x0000; 0xb88e; 0xC2D3; 0xb890; 0x5524; 0xb890; 0x2526; 0xb890; 0x2728;
  0xb88e; 0xC2E3; 0xb890; 0x3323; 0xb890; 0x2324; 0xb890; 0x2425; 0xFFFF; 0xFFFF].

Definition phy_mcu_ram_code_8126a_3_1 : list Z := [
  0xa436; 0x8023; 0xa438; 0x4701; 0xa436; 0xB82E; 0xa438; 0x0001; 0xb820; 0x0090; 0xa436; 0xA016;
  0xa438; 0x0000; 0xa436; 0xA012; 0xa438; 0x0000; 0xa436; 0xA014; 0xa438; 0x1800; 0xa438; 0x8010;
  0xa438; 0x1800; 0xa438; 0x801a; 0xa438; 0x1800; 0xa438; 0x802a; 0xa438; 0x1800; 0xa438; 0x8032;
  0xa438; 0x1800; 0xa438; 0x803a; 0xa438; 0x1800; 0xa438; 0x803e; 0xa438; 0x1800; 0xa438; 0x8044;
  0xa438; 0x1800; 0xa438; 0x804b; 0xa438; 0xd504; 0xa438; 0xc9b5; 0xa438; 0xd500; 0xa438; 0xd707;
  0xa438; 0x4070; 0xa438; 0x1800; 0xa438; 0x1082; 0xa438; 0xd504; 0xa438; 0x1800; 0xa438; 0x107a;
  0xa438; 0x61d0; 0xa438; 0xd701; 0xa438; 0x60a5; 0xa438; 0xd504; 0xa438; 0xc9b2; 0xa438; 0xd500;
  0xa438; 0xf004; 0xa438; 0xd504; 0xa438; 0xc9b1; 0xa438; 0xd500; 0xa438; 0xd707; 0xa438; 0x6070;
  0xa438; 0x1800; 0xa438; 0x10b0; 0xa438; 0x1800; 0xa438; 0x10c5; 0xa438; 0xd707; 0xa438; 0x2005;
  0xa438; 0x8030; 0xa438; 0xd75e; 0xa438; 0x1800; 0xa438; 0x138c; 0xa438; 0x1800; 0xa438; 0x13ff;
  0xa438; 0xc504; 0xa438; 0xce20; 0xa438; 0xcf01; 0xa438; 0xd70a; 0xa438; 0x4005; 0xa438; 0xcf02;
  0xa438; 0x1800; 0xa438; 0x1b99; 0xa438; 0xa980; 0xa438; 0xd500; 0xa438; 0x1800; 0xa438; 0x144d;
  0xa438; 0x907f; 0xa438; 0x91a3; 0xa438; 0x9306; 0xa438; 0xb118; 0xa438; 0x1800; 0xa438; 0x2147;
  0xa438; 0x907f; 0xa438; 0x9209; 0xa438; 0x91a3; 0xa438; 0x9306; 0xa438; 0xb118; 0xa438; 0x1800;
  0xa438; 0x203c; 0xa438; 0xd707; 0xa438; 0x4121; 0xa438; 0xd706; 0xa438; 0x40fc; 0xa438; 0xd70a;
  0xa438; 0x40b5; 0xa438; 0xd028; 0xa438; 0xd1c1; 0xa438; 0x1800; 0xa438; 0x8057; 0xa438; 0xd07b;
  0xa438; 0xd1c5; 0xa438; 0xd503; 0xa438; 0xa108; 0xa438; 0xd505; 0xa438; 0x8103; 0xa438; 0xd504;
  0xa438; 0xa002; 0xa438; 0xa302; 0xa438; 0xd707; 0xa438; 0x4061; 0xa438; 0xd503; 0xa438; 0x8b01;
  0xa438; 0xd500; 0xa438; 0xc48a; 0xa438; 0xd503; 0xa438; 0xcc09; 0xa438; 0xcd58; 0xa438; 0xaf01;
  0xa438; 0xd500; 0xa438; 0xbe10; 0xa438; 0x1000; 0xa438; 0x1739; 0xa438; 0xd719; 0xa438; 0x606c;
  0xa438; 0xd704; 0xa438; 0x645c; 0xa438; 0xd75e; 0xa438; 0x604d; 0xa438; 0xfff8; 0xa438; 0x9e10;
  0xa438; 0x1000; 0xa438; 0x1739; 0xa438; 0xd719; 0xa438; 0x606c; 0xa438; 0xd704; 0xa438; 0x631c;
  0xa438; 0xd75e; 0xa438; 0x404d; 0xa438; 0xfff8; 0xa438; 0xd504; 0xa438; 0xaa18; 0xa438; 0xa001;
  0xa438; 0xa1e0; 0xa438; 0xd500; 0xa438; 0x1000; 0xa438; 0x1739; 0xa438; 0xd719; 0xa438; 0x7fac;
  0xa438; 0xd504; 0xa438; 0xa001; 0xa438; 0xd500; 0xa438; 0x1000; 0xa438; 0x1739; 0xa438; 0xd704;
  0xa438; 0x5f5c; 0xa438; 0xd719; 0xa438; 0x3aaf; 0xa438; 0x8091; 0xa438; 0xf016; 0xa438; 0xd707;
  0xa438; 0x6121; 0xa438; 0x1000; 0xa438; 0x16d8; 0xa438; 0xd503; 0xa438; 0xcd59; 0xa438; 0xaf01;
  0xa438; 0xd500; 0xa438; 0x1800; 0xa438; 0x0ddc; 0xa438; 0xd503; 0xa438; 0x8040; 0xa438; 0xd500;
  0xa438; 0x1000; 0xa438; 0x16d8; 0xa438; 0xd503; 0xa438; 0xcd5a; 0xa438; 0xaf01; 0xa438; 0xd500;
  0xa438; 0x1800; 0xa438; 0x0dbf; 0xa438; 0xd504; 0xa438; 0xa008; 0xa438; 0xa204; 0xa438; 0xd500;
  0xa438; 0x1000; 0xa438; 0x1739; 0xa438; 0xd701; 0xa438; 0x5fa0; 0xa438; 0xd503; 0xa438; 0xa082;
  0xa438; 0xd500; 0xa438; 0xd71e; 0xa438; 0x4097; 0xa438; 0xd078; 0xa438; 0xd1aa; 0xa438; 0xf003;
  0xa438; 0xd078; 0xa438; 0xd1aa; 0xa438; 0xd707; 0xa438; 0x40c1; 0xa438; 0xd706; 0xa438; 0x409c;
  0xa438; 0xd70a; 0xa438; 0x4055; 0xa438; 0xf010; 0xa438; 0xd706; 0xa438; 0x6065; 0xa438; 0xcc89;
  0xa438; 0xf002; 0xa438; 0xcc8b; 0xa438; 0x1000; 0xa438; 0x0b7b; 0xa438; 0xd705; 0xa438; 0x2ad0;
  0xa438; 0x80ca; 0xa438; 0xf003; 0xa438; 0x1000; 0xa438; 0x0b81; 0xa438; 0x1000; 0xa438; 0x0b87;
  0xa438; 0x1000; 0xa438; 0x0c53; 0xa438; 0x1800; 0xa438; 0x12d7; 0xa436; 0xA026; 0xa438; 0x125d;
  0xa436; 0xA024; 0xa438; 0x2033; 0xa436; 0xA022; 0xa438; 0x213f; 0xa436; 0xA020; 0xa438; 0x144c;
  0xa436; 0xA006; 0xa438; 0x1b98; 0xa436; 0xA004; 0xa438; 0x138b; 0xa436; 0xA002; 0xa438; 0x10c4;
  0xa436; 0xA000; 0xa438; 0x1079; 0xa436; 0xA008; 0xa438; 0xff00; 0xa436; 0xA016; 0xa438; 0x0000;
  0xa436; 0xA012; 0xa438; 0x0ff8; 0xa436; 0xA014; 0xa438; 0xd04d; 0xa438; 0x0000; 0xa438; 0x0000;
  0xa438; 0x0000; 0xa438; 0x0000; 0xa438; 0x0000; 0xa438; 0x0000; 0xa438; 0x0000; 0xa436; 0xA152;
  0xa438; 0x12dc; 0xa436; 0xA154; 0xa438; 0x3fff; 0xa436; 0xA156; 0xa438; 0x3fff; 0xa436; 0xA158;
  0xa438; 0x3fff; 0xa436; 0xA15A; 0xa438; 0x3fff; 0xa436; 0xA15C; 0xa438; 0x3fff; 0xa436; 0xA15E;
  0xa438; 0x3fff; 0xa436; 0xA160; 0xa438; 0x3fff; 0xa436; 0xA150; 0xa438; 0x0001; 0xa436; 0xA016;
  0xa438; 0x0020; 0xa436; 0xA012; 0xa438; 0x0000; 0xa436; 0xA014; 0xa438; 0x1800; 0xa438; 0x8010;
  0xa438; 0x1800; 0xa438; 0x801a; 0xa438; 0x1800; 0xa438; 0x8022; 0xa438; 0x1800; 0xa438; 0x8233;
  0xa438; 0x1800; 0xa438; 0x8332; 0xa438; 0x1800; 0xa438; 0x855f; 0xa438; 0x1800; 0xa438; 0x8619;
  0xa438; 0x1800; 0xa438; 0x86af; 0xa438; 0xd706; 0xa438; 0x60a9; 0xa438; 0xd700; 0xa438; 0x60a1;
  0xa438; 0x1800; 0xa438; 0x0962; 0xa438; 0x1800; 0xa438; 0x0962; 0xa438; 0x1800; 0xa438; 0x0982;
  0xa438; 0x800a; 0xa438; 0x0c1f; 0xa438; 0x0d00; 0xa438; 0x8dc0; 0xa438; 0x1000; 0xa438; 0x12b5;
  0xa438; 0x1800; 0xa438; 0x0f99; 0xa438; 0xd702; 0xa438; 0x6201; 0xa438; 0xd702; 0xa438; 0x40a0;
  0xa438; 0xd70d; 0xa438; 0x419d; 0xa438; 0x1800; 0xa438; 0x802c; 0xa438; 0xd701; 0xa438; 0x611a;
  0xa438; 0x8710; 0xa438; 0x0c03; 0xa438; 0x1502; 0xa438; 0x8280; 0xa438; 0x8780; 0xa438; 0x9503;
  0xa438; 0xf002; 0xa438; 0xa710; 0xa438; 0x9580; 0xa438; 0x0c03; 0xa438; 0x1502; 0xa438; 0xa304;
  0xa438; 0x9503; 0xa438; 0x0c1f; 0xa438; 0x0d07; 0xa438; 0x8dc0; 0xa438; 0x1000; 0xa438; 0x12b5;
  0xa438; 0xcb81; 0xa438; 0xd70c; 0xa438; 0x48e2; 0xa438; 0xd706; 0xa438; 0x407a; 0xa438; 0xd70c;
  0xa438; 0x4867; 0xa438; 0xd706; 0xa438; 0x405a; 0xa438; 0x8910; 0xa438; 0xa210; 0xa438; 0xd704;
  0xa438; 0x611c; 0xa438; 0x0cc0; 0xa438; 0x0080; 0xa438; 0x0c03; 0xa438; 0x0101; 0xa438; 0x0ce0;
  0xa438; 0x03a0; 0xa438; 0xccb5; 0xa438; 0x0cc0; 0xa438; 0x0080; 0xa438; 0x0c03; 0xa438; 0x0102;
  0xa438; 0x0ce0; 0xa438; 0x0340; 0xa438; 0xcc52; 0xa438; 0xd706; 0xa438; 0x42da; 0xa438; 0x0c03;
  0xa438; 0x1502; 0xa438; 0x0c1f; 0xa438; 0x0f1c; 0xa438; 0x9503; 0xa438; 0x1000; 0xa438; 0x126b;
  0xa438; 0xd70c; 0xa438; 0x5fb3; 0xa438; 0x0c03; 0xa438; 0x1502; 0xa438; 0x8f1f; 0xa438; 0x9503;
  0xa438; 0x1000; 0xa438; 0x126b; 0xa438; 0xd70c; 0xa438; 0x7f33; 0xa438; 0x8190; 0xa438; 0x8204;
  0xa438; 0x1800; 0xa438; 0x8087; 0xa438; 0x0c03; 0xa438; 0x1502; 0xa438; 0x0c1f; 0xa438; 0x0f1b;
  0xa438; 0x9503; 0xa438; 0x1000; 0xa438; 0x126b; 0xa438; 0xd70c; 0xa438; 0x5fb3; 0xa438; 0x0c03;
  0xa438; 0x1502; 0xa438; 0x8f1f; 0xa438; 0x9503; 0xa438; 0x1000; 0xa438; 0x126b; 0xa438; 0xd70c;
  0xa438; 0x7f33; 0xa438; 0xd70c; 0xa438; 0x6067; 0xa438; 0x1800; 0xa438; 0x8087; 0xa438; 0x1800;
  0xa438; 0x8092; 0xa438; 0xd403; 0xa438; 0x1000; 0xa438; 0x1203; 0xa438; 0xcb82; 0xa438; 0xd40a;
  0xa438; 0x1000; 0xa438; 0x1203; 0xa438; 0xd70c; 0xa438; 0x4267; 0xa438; 0x1000; 0xa438; 0x131d;
  0xa438; 0x8a40; 0xa438; 0x1000; 0xa438; 0x120e; 0xa438; 0xa104; 0xa438; 0x1000; 0xa438; 0x1220;
  0xa438; 0x8104; 0xa438; 0x1000; 0xa438; 0x1217; 0xa438; 0x0c03; 0xa438; 0x1502; 0xa438; 0xa704;
  0xa438; 0x9503; 0xa438; 0xcb88; 0xa438; 0x1800; 0xa438; 0x81b7; 0xa438; 0xd702; 0xa438; 0x6161;
  0xa438; 0xd702; 0xa438; 0x40a0; 0xa438; 0xd70d; 0xa438; 0x40fd; 0xa438; 0x1800; 0xa438; 0x80b0;
  0xa438; 0xd701; 0xa438; 0x607a; 0xa438; 0x1800; 0xa438; 0x80b0; 0xa438; 0x1800; 0xa438; 0x81a6;
  0xa438; 0xa210; 0xa438; 0x8a10; 0xa438; 0xd706; 0xa438; 0x643e; 0xa438; 0x0c1f; 0xa438; 0x0d04;
  0xa438; 0x8dc0; 0xa438; 0x1000; 0xa438; 0x12b5; 0xa438; 0x0cc0; 0xa438; 0x0040; 0xa438; 0x0c03;
  0xa438; 0x0102; 0xa438; 0x0ce0; 0xa438; 0x03e0; 0xa438; 0xccce; 0xa438; 0xa00a; 0xa438; 0xa280;
  0xa438; 0xd110; 0xa438; 0xd04c; 0xa438; 0xcba0; 0xa438; 0x1000; 0xa438; 0x126b; 0xa438; 0xd700;
  0xa438; 0x5fb4; 0xa438; 0x8710; 0xa438; 0xaa0f; 0xa438; 0xa130; 0xa438; 0xaa2f; 0xa438; 0xa2d5;
  0xa438; 0xa405; 0xa438; 0xa720; 0xa438; 0xa00a; 0xa438; 0xcba1; 0xa438; 0x1800; 0xa438; 0x80fa;
  0xa438; 0xd704; 0xa438; 0x3cf1; 0xa438; 0x80db; 0xa438; 0x0c1f; 0xa438; 0x0d02; 0xa438; 0x1800;
  0xa438; 0x80dd; 0xa438; 0x0c1f; 0xa438; 0x0d01; 0xa438; 0x0cc0; 0xa438; 0x0d40; 0xa438; 0x1000;
  0xa438; 0x12b5; 0xa438; 0x8710; 0xa438; 0x1000; 0xa438; 0x120e; 0xa438; 0xa108; 0xa438; 0x1000;
  0xa438; 0x1220; 0xa438; 0x8108; 0xa438; 0xa203; 0xa438; 0x8a2f; 0xa438; 0xa130; 0xa438; 0x8204;
  0xa438; 0xa140; 0xa438; 0x1000; 0xa438; 0x1220; 0xa438; 0x8140; 0xa438; 0x1000; 0xa438; 0x1217;
  0xa438; 0xcba2; 0xa438; 0xd17a; 0xa438; 0xd04b; 0xa438; 0x1000; 0xa438; 0x126b; 0xa438; 0xd700;
  0xa438; 0x5fb4; 0xa438; 0xa204; 0xa438; 0x1000; 0xa438; 0x126b; 0xa438; 0xd700; 0xa438; 0x5fa7;
  0xa438; 0xb920; 0xa438; 0x1000; 0xa438; 0x126b; 0xa438; 0xd71f; 0xa438; 0x7fb4; 0xa438; 0x9920;
  0xa438; 0x1000; 0xa438; 0x126b; 0xa438; 0xd71f; 0xa438; 0x6145; 0xa438; 0x6074; 0xa438; 0x1800;
  0xa438; 0x8104; 0xa438; 0x1000; 0xa438; 0x126b; 0xa438; 0xd700; 0xa438; 0x5fa7; 0xa438; 0x1800;
  0xa438; 0x80fe; 0xa438; 0xb820; 0xa438; 0x1000; 0xa438; 0x126b; 0xa438; 0xd71f; 0xa438; 0x7fa5;
  0xa438; 0x9820; 0xa438; 0x9b01; 0xa438; 0xd402; 0xa438; 0x1000; 0xa438; 0x1203; 0xa438; 0xd701;
  0xa438; 0x33b1; 0xa438; 0x8124; 0xa438; 0xd701; 0xa438; 0x60b5; 0xa438; 0xd706; 0xa438; 0x6069;
  0xa438; 0x1800; 0xa438; 0x8126; 0xa438; 0x1800; 0xa438; 0x8196; 0xa438; 0xd70c; 0xa438; 0x40ab;
  0xa438; 0x800a; 0xa438; 0x8110; 0xa438; 0x8284; 0xa438; 0x8404; 0xa438; 0xa710; 0xa438; 0x8120;
  0xa438; 0x8241; 0xa438; 0x1000; 0xa438; 0x120e; 0xa438; 0xa104; 0xa438; 0x1000; 0xa438; 0x1220;
  0xa438; 0x8104; 0xa438; 0x1000; 0xa438; 0x1217; 0xa438; 0xaa2f; 0xa438; 0xcba3; 0xa438; 0xd70c;
  0xa438; 0x438b; 0xa438; 0xa284; 0xa438; 0xd078; 0xa438; 0x800a; 0xa438; 0x8110; 0xa438; 0xa284;
  0xa438; 0x8404; 0xa438; 0x0c03; 0xa438; 0x1502; 0xa438; 0xa108; 0xa438; 0x9503; 0xa438; 0x0c03;
  0xa438; 0x1502; 0xa438; 0x0c1f; 0xa438; 0x0f19; 0xa438; 0x9503; 0xa438; 0x1000; 0xa438; 0x126b;
  0xa438; 0xd70c; 0xa438; 0x5fb3; 0xa438; 0x0c03; 0xa438; 0x1502; 0xa438; 0x8f1f; 0xa438; 0x9503;
  0xa438; 0x1000; 0xa438; 0x126b; 0xa438; 0xd70c; 0xa438; 0x7f33; 0xa438; 0x0c1f; 0xa438; 0x0d07;
  0xa438; 0x8dc0; 0xa438; 0x1000; 0xa438; 0x12b5; 0xa438; 0x8110; 0xa438; 0xa284; 0xa438; 0xa404;
  0xa438; 0xa00a; 0xa438; 0xcba4; 0xa438; 0xd70c; 0xa438; 0x40a1; 0xa438; 0x0c03; 0xa438; 0x1502;
  0xa438; 0xad10; 0xa438; 0x9503; 0xa438; 0xd70c; 0xa438; 0x414b; 0xa438; 0x0cc0; 0xa438; 0x0080;
  0xa438; 0x0c03; 0xa438; 0x0102; 0xa438; 0x0ce0; 0xa438; 0x0340; 0xa438; 0xcc52; 0xa438; 0x1800;
  0xa438; 0x8175; 0xa438; 0x80c0; 0xa438; 0x8103; 0xa438; 0x83e0; 0xa438; 0x8cff; 0xa438; 0x60ba;
  0xa438; 0xd110; 0xa438; 0xd041; 0xa438; 0x1800; 0xa438; 0x817c; 0xa438; 0xd193; 0xa438; 0xd047;
  0xa438; 0x1000; 0xa438; 0x126b; 0xa438; 0xd700; 0xa438; 0x5fb4; 0xa438; 0xa110; 0xa438; 0xcba5;
  0xa438; 0x1000; 0xa438; 0x126b; 0xa438; 0xd700; 0xa438; 0x5faa; 0xa438; 0xa180; 0xa438; 0xd700;
  0xa438; 0x6041; 0xa438; 0xa402; 0xa438; 0xcba6; 0xa438; 0x60ba; 0xa438; 0xd1f5; 0xa438; 0xd045;
  0xa438; 0x1800; 0xa438; 0x8192; 0xa438; 0xd1f5; 0xa438; 0xd049; 0xa438; 0x1000; 0xa438; 0x126b;
  0xa438; 0xd700; 0xa438; 0x5fb4; 0xa438; 0x8710; 0xa438; 0xa00a; 0xa438; 0xa190; 0xa438; 0xa204;
  0xa438; 0xa280; 0xa438; 0xa404; 0xa438; 0xcba7; 0xa438; 0xbb80; 0xa438; 0x1000; 0xa438; 0x126b;
  0xa438; 0xd71f; 0xa438; 0x5fb4; 0xa438; 0xb920; 0xa438; 0x9b80; 0xa438; 0x1800; 0xa438; 0x81e5;
  0xa438; 0xa210; 0xa438; 0xa00a; 0xa438; 0xaa40; 0xa438; 0x1000; 0xa438; 0x120e; 0xa438; 0xa104;
  0xa438; 0x1000; 0xa438; 0x1220; 0xa438; 0x8104; 0xa438; 0x1000; 0xa438; 0x1217; 0xa438; 0xa190;
  0xa438; 0xa284; 0xa438; 0xa404; 0xa438; 0x8a10; 0xa438; 0x8a80; 0xa438; 0xcb84; 0xa438; 0xd13e;
  0xa438; 0xd05a; 0xa438; 0xd13e; 0xa438; 0xd06b; 0xa438; 0x1000; 0xa438; 0x126b; 0xa438; 0xd700;
  0xa438; 0x3559; 0xa438; 0x81c2; 0xa438; 0x1800; 0xa438; 0x81bb; 0xa438; 0xd700; 0xa438; 0x604b;
  0xa438; 0xcb8a; 0xa438; 0x1000; 0xa438; 0x126b; 0xa438; 0xd700; 0xa438; 0x3659; 0xa438; 0x81cc;
  0xa438; 0x1800; 0xa438; 0x81c5; 0xa438; 0xd700; 0xa438; 0x606b; 0xa438; 0xcb8b; 0xa438; 0x5ecb;
  0xa438; 0xd700; 0xa438; 0x6041; 0xa438; 0xa402; 0xa438; 0xcb8c; 0xa438; 0xd706; 0xa438; 0x60ba;
  0xa438; 0xd179; 0xa438; 0xd049; 0xa438; 0x1800; 0xa438; 0x81dc; 0xa438; 0xd160; 0xa438; 0xd04b;
  0xa438; 0x1000; 0xa438; 0x126b; 0xa438; 0xd700; 0xa438; 0x5fb4; 0xa438; 0xcb8d; 0xa438; 0x8710;
  0xa438; 0xd71f; 0xa438; 0x5fd4; 0xa438; 0xb920; 0xa438; 0x1000; 0xa438; 0x126b; 0xa438; 0xd71f;
  0xa438; 0x7fb4; 0xa438; 0x9920; 0xa438; 0x1000; 0xa438; 0x126b; 0xa438; 0xd71f; 0xa438; 0x6145;
  0xa438; 0x6074; 0xa438; 0x1800; 0xa438; 0x81ea; 0xa438; 0x1000; 0xa438; 0x126b; 0xa438; 0xd700;
  0xa438; 0x5fab; 0xa438; 0x1800; 0xa438; 0x81e4; 0xa438; 0xa710; 0xa438; 0xb820; 0xa438; 0x1000;
  0xa438; 0x126b; 0xa438; 0xd71f; 0xa438; 0x7fa5; 0xa438; 0x9820; 0xa438; 0xd114; 0xa438; 0xd040;
  0xa438; 0x1000; 0xa438; 0x126b; 0xa438; 0xd700; 0xa438; 0x5fba; 0xa438; 0xd704; 0xa438; 0x5f76;
  0xa438; 0xd700; 0xa438; 0x5f34; 0xa438; 0xd700; 0xa438; 0x6081; 0xa438; 0xd706; 0xa438; 0x405a;
  0xa438; 0xa480; 0xa438; 0xcb86; 0xa438; 0xd706; 0xa438; 0x60fa; 0xa438; 0xd700; 0xa438; 0x60e1;
  0xa438; 0xd1c8; 0xa438; 0xd045; 0xa438; 0x1800; 0xa438; 0x8218; 0xa438; 0xd17a; 0xa438; 0xd04b;
  0xa438; 0x1000; 0xa438; 0x126b; 0xa438; 0xd700; 0xa438; 0x5fb4; 0xa438; 0x0cc0; 0xa438; 0x0000;
  0xa438; 0x0c03; 0xa438; 0x0101; 0xa438; 0x0ce0; 0xa438; 0x0320; 0xa438; 0xcc29; 0xa438; 0xa208;
  0xa438; 0x8204; 0xa438; 0xd704; 0xa438; 0x40f5; 0xa438; 0x0c03; 0xa438; 0x1502; 0xa438; 0xa280;
  0xa438; 0x8780; 0xa438; 0x9503; 0xa438; 0x8e04; 0xa438; 0xd114; 0xa438; 0xd040; 0xa438; 0xd700;
  0xa438; 0x5ff4; 0xa438; 0x1800; 0xa438; 0x0c3e; 0xa438; 0xd706; 0xa438; 0x609d; 0xa438; 0xd417;
  0xa438; 0x1000; 0xa438; 0x1203; 0xa438; 0x1000; 0xa438; 0x126b; 0xa438; 0x1000; 0xa438; 0x1289;
  0xa438; 0xd700; 0xa438; 0x5f7a; 0xa438; 0xd704; 0xa438; 0x5f36; 0xa438; 0xd706; 0xa438; 0x6089;
  0xa438; 0xd40c; 0xa438; 0x1000; 0xa438; 0x1203; 0xa438; 0xaa40; 0xa438; 0xbb10; 0xa438; 0xcb50;
  0xa438; 0x0c03; 0xa438; 0x1502; 0xa438; 0xa310; 0xa438; 0x9503; 0xa438; 0xcb5f; 0xa438; 0x1000;
  0xa438; 0x126b; 0xa438; 0x1000; 0xa438; 0x1289; 0xa438; 0xd71f; 0xa438; 0x5f75; 0xa438; 0x8190;
  0xa438; 0x82a0; 0xa438; 0x8402; 0xa438; 0xa404; 0xa438; 0x800a; 0xa438; 0x8718; 0xa438; 0x9b10;
  0xa438; 0x9b20; 0xa438; 0x1000; 0xa438; 0x126b; 0xa438; 0xd71f; 0xa438; 0x7fb5; 0xa438; 0xcb51;
  0xa438; 0x1000; 0xa438; 0x126b; 0xa438; 0xd71f; 0xa438; 0x5f94; 0xa438; 0xd706; 0xa438; 0x61a9;
  0xa438; 0xd702; 0xa438; 0x40a1; 0xa438; 0xd706; 0xa438; 0x4079; 0xa438; 0xd706; 0xa438; 0x609d;
  0xa438; 0xd141; 0xa438; 0xd043; 0xa438; 0xf006; 0xa438; 0xd101; 0xa438; 0xd040; 0xa438; 0xf003;
  0xa438; 0xd141; 0xa438; 0xd044; 0xa438; 0x1000; 0xa438; 0x126b; 0xa438; 0xd700; 0xa438; 0x5fb4;
  0xa438; 0xd700; 0xa438; 0x60e5; 0xa438; 0xd704; 0xa438; 0x60be; 0xa438; 0xd706; 0xa438; 0x29b1;
  0xa438; 0x8280; 0xa438; 0xf002; 0xa438; 0xa880; 0xa438; 0xa00a; 0xa438; 0xa190; 0xa438; 0x8220;
  0xa438; 0xa280; 0xa438; 0xa404; 0xa438; 0xa620; 0xa438; 0x0c03; 0xa438; 0x1502; 0xa438; 0xc5aa;
  0xa438; 0x9503; 0xa438; 0xd700; 0xa438; 0x6061; 0xa438; 0xa402; 0xa438; 0xa480; 0xa438; 0xcb52;
  0xa438; 0x1000; 0xa438; 0x126b; 0xa438; 0xd700; 0xa438; 0x5fba; 0xa438; 0xd704; 0xa438; 0x5f76;
  0xa438; 0xb920; 0xa438; 0xcb53; 0xa438; 0x1000; 0xa438; 0x126b; 0xa438; 0xd71f; 0xa438; 0x7fb4;
  0xa438; 0x9920; 0xa438; 0xa00a; 0xa438; 0xa190; 0xa438; 0xa280; 0xa438; 0x8220; 0xa438; 0xa404;
  0xa438; 0xb580; 0xa438; 0xd700; 0xa438; 0x40a1; 0xa438; 0x0c03; 0xa438; 0x1502; 0xa438; 0xa602;
  0xa438; 0x9503; 0xa438; 0x0c03; 0xa438; 0x1502; 0xa438; 0xa310; 0xa438; 0x9503; 0xa438; 0xcb60;
  0xa438; 0xd101; 0xa438; 0xd040; 0xa438; 0x1000; 0xa438; 0x126b; 0xa438; 0xd700; 0xa438; 0x5fb4;
  0xa438; 0xaa10; 0xa438; 0xd70c; 0xa438; 0x2833; 0xa438; 0x82b9; 0xa438; 0xf003; 0xa438; 0x1000;
  0xa438; 0x1330; 0xa438; 0xd70c; 0xa438; 0x40a6; 0xa438; 0x0c03; 0xa438; 0x1502; 0xa438; 0xa140;
  0xa438; 0x9503; 0xa438; 0xd70c; 0xa438; 0x40a3; 0xa438; 0x0c03; 0xa438; 0x1502; 0xa438; 0xac20;
  0xa438; 0x9503; 0xa438; 0xa90c; 0xa438; 0xaa80; 0xa438; 0x0c1f; 0xa438; 0x0d07; 0xa438; 0x8dc0;
  0xa438; 0x1000; 0xa438; 0x12b5; 0xa438; 0xa00a; 0xa438; 0xa190; 0xa438; 0xa280; 0xa438; 0x8220;
  0xa438; 0xa404; 0xa438; 0xb580; 0xa438; 0x0c03; 0xa438; 0x1502; 0xa438; 0xc500; 0xa438; 0x9503;
  0xa438; 0x83e0; 0xa438; 0x8e01; 0xa438; 0xd700; 0xa438; 0x40a1; 0xa438; 0x0c03; 0xa438; 0x1502;
  0xa438; 0xa602; 0xa438; 0x9503; 0xa438; 0xd14a; 0xa438; 0xd058; 0xa438; 0x1000; 0xa438; 0x12d7;
  0xa438; 0xd70c; 0xa438; 0x4063; 0xa438; 0x1000; 0xa438; 0x12ea; 0xa438; 0xcb6f; 0xa438; 0x1000;
  0xa438; 0x126b; 0xa438; 0xd704; 0xa438; 0x2e70; 0xa438; 0x8327; 0xa438; 0xd71f; 0xa438; 0x676e;
  0xa438; 0xd704; 0xa438; 0x3868; 0xa438; 0x8302; 0xa438; 0xd706; 0xa438; 0x61c2; 0xa438; 0xd70c;
  0xa438; 0x2f18; 0xa438; 0x8308; 0xa438; 0xd700; 0xa438; 0x5d35; 0xa438; 0x0c03; 0xa438; 0x1502;
  0xa438; 0xc5aa; 0xa438; 0x9503; 0xa438; 0x0ce0; 0xa438; 0x0320; 0xa438; 0x1800; 0xa438; 0x830e;
  0xa438; 0x0c03; 0xa438; 0x1502; 0xa438; 0xc5aa; 0xa438; 0x9503; 0xa438; 0x1800; 0xa438; 0x832e;
  0xa438; 0x0c03; 0xa438; 0x1502; 0xa438; 0xc5aa; 0xa438; 0x9503; 0xa438; 0x1800; 0xa438; 0x8330;
  0xa438; 0x1000; 0xa438; 0x12d7; 0xa438; 0xae02; 0xa438; 0xd70c; 0xa438; 0x4063; 0xa438; 0x1000;
  0xa438; 0x12ea; 0xa438; 0xcb61; 0xa438; 0x1000; 0xa438; 0x126b; 0xa438; 0xd704; 0xa438; 0x2e70;
  0xa438; 0x8327; 0xa438; 0xd704; 0xa438; 0x3868; 0xa438; 0x832e; 0xa438; 0xd706; 0xa438; 0x61e2;
  0xa438; 0xd71f; 0xa438; 0x612e; 0xa438; 0xd70c; 0xa438; 0x2f18; 0xa438; 0x8330; 0xa438; 0x1800;
  0xa438; 0x830e; 0xa438; 0x8e02; 0xa438; 0x1800; 0xa438; 0x0f99; 0xa438; 0xae04; 0xa438; 0x8310;
  0xa438; 0x1800; 0xa438; 0x0e31; 0xa438; 0x1800; 0xa438; 0x85ac; 0xa438; 0x1800; 0xa438; 0x0e07;
  0xa438; 0x1000; 0xa438; 0x17be; 0xa438; 0xd70c; 0xa438; 0x5fa4; 0xa438; 0xa706; 0xa438; 0xd70c;
  0xa438; 0x404b; 0xa438; 0xa880; 0xa438; 0x8801; 0xa438; 0x8e01; 0xa438; 0xca50; 0xa438; 0x1000;
  0xa438; 0x83d5; 0xa438; 0xca51; 0xa438; 0xd70e; 0xa438; 0x2210; 0xa438; 0x83d3; 0xa438; 0xd70c;
  0xa438; 0x4084; 0xa438; 0xd705; 0xa438; 0x5efd; 0xa438; 0xf007; 0xa438; 0x1000; 0xa438; 0x17c2;
  0xa438; 0xd70c; 0xa438; 0x5ce2; 0xa438; 0x1800; 0xa438; 0x1692; 0xa438; 0xd70c; 0xa438; 0x605a;
  0xa438; 0x9a10; 0xa438; 0x8e40; 0xa438; 0x8404; 0xa438; 0x1000; 0xa438; 0x1827; 0xa438; 0x8e80;
  0xa438; 0xca62; 0xa438; 0xd705; 0xa438; 0x3084; 0xa438; 0x83b5; 0xa438; 0xba10; 0xa438; 0x0000;
  0xa438; 0x0000; 0xa438; 0x1000; 0xa438; 0x84ae; 0xa438; 0x0c03; 0xa438; 0x0100; 0xa438; 0xd702;
  0xa438; 0x4638; 0xa438; 0xd1c4; 0xa438; 0xd044; 0xa438; 0x1000; 0xa438; 0x17be; 0xa438; 0x1000;
  0xa438; 0x17e8; 0xa438; 0xd70c; 0xa438; 0x5f7c; 0xa438; 0x8108; 0xa438; 0x0c1f; 0xa438; 0x0907;
  0xa438; 0x8940; 0xa438; 0x1000; 0xa438; 0x17db; 0xa438; 0xa0c4; 0xa438; 0x8610; 0xa438; 0x8030;
  0xa438; 0x8706; 0xa438; 0x0c07; 0xa438; 0x0b06; 0xa438; 0x8410; 0xa438; 0xa980; 0xa438; 0xa702;
  0xa438; 0xd1c4; 0xa438; 0xd045; 0xa438; 0x1000; 0xa438; 0x17be; 0xa438; 0x1000; 0xa438; 0x17e8;
  0xa438; 0xd70c; 0xa438; 0x5f7c; 0xa438; 0x0c07; 0xa438; 0x0b06; 0xa438; 0xa030; 0xa438; 0xa610;
  0xa438; 0xd700; 0xa438; 0x6041; 0xa438; 0xa501; 0xa438; 0xa108; 0xa438; 0xd1c4; 0xa438; 0xd045;
  0xa438; 0xca63; 0xa438; 0x1000; 0xa438; 0x17be; 0xa438; 0x1000; 0xa438; 0x17e8; 0xa438; 0xd70c;
  0xa438; 0x5f7c; 0xa438; 0xd702; 0xa438; 0x6078; 0xa438; 0x9920; 0xa438; 0xf003; 0xa438; 0xb920;
  0xa438; 0xa880; 0xa438; 0x9a10; 0xa438; 0x1000; 0xa438; 0x17be; 0xa438; 0x1000; 0xa438; 0x17e8;
  0xa438; 0xd71f; 0xa438; 0x5f73; 0xa438; 0xf011; 0xa438; 0xd70c; 0xa438; 0x409b; 0xa438; 0x9920;
  0xa438; 0x9a10; 0xa438; 0xfff5; 0xa438; 0x80fe; 0xa438; 0x8610; 0xa438; 0x8501; 0xa438; 0x8980;
  0xa438; 0x8702; 0xa438; 0xa410; 0xa438; 0xa940; 0xa438; 0x81c0; 0xa438; 0xae80; 0xa438; 0x1800;
  0xa438; 0x835a; 0xa438; 0x8804; 0xa438; 0xa704; 0xa438; 0x8788; 0xa438; 0xff82; 0xa438; 0xbb08;
  0xa438; 0x0c1f; 0xa438; 0x0907; 0xa438; 0x8940; 0xa438; 0x1000; 0xa438; 0x17db; 0xa438; 0x8701;
  0xa438; 0x8502; 0xa438; 0xa0f4; 0xa438; 0xa610; 0xa438; 0xd700; 0xa438; 0x6061; 0xa438; 0xa002;
  0xa438; 0xa501; 0xa438; 0x8706; 0xa438; 0x8410; 0xa438; 0xa980; 0xa438; 0xca64; 0xa438; 0xd110;
  0xa438; 0xd040; 0xa438; 0x1000; 0xa438; 0x17be; 0xa438; 0x1000; 0xa438; 0x17e8; 0xa438; 0xd70c;
  0xa438; 0x5f7c; 0xa438; 0x8804; 0xa438; 0xa706; 0xa438; 0x1800; 0xa438; 0x8336; 0xa438; 0x1800;
  0xa438; 0x147c; 0xa438; 0xd705; 0xa438; 0x405f; 0xa438; 0xf037; 0xa438; 0xd701; 0xa438; 0x4259;
  0xa438; 0xd705; 0xa438; 0x6234; 0xa438; 0xd70c; 0xa438; 0x41c6; 0xa438; 0xd70d; 0xa438; 0x419d;
  0xa438; 0xd70d; 0xa438; 0x417e; 0xa438; 0xd704; 0xa438; 0x6127; 0xa438; 0x2951; 0xa438; 0x83ec;
  0xa438; 0xd70c; 0xa438; 0x4083; 0xa438; 0xd70c; 0xa438; 0x2e81; 0xa438; 0x83ec; 0xa438; 0xf0c2;
  0xa438; 0x80fe; 0xa438; 0x8610; 0xa438; 0x8501; 0xa438; 0x8704; 0xa438; 0x0c30; 0xa438; 0x0410;
  0xa438; 0xac02; 0xa438; 0xa502; 0xa438; 0x8980; 0xa438; 0xca60; 0xa438; 0xa004; 0xa438; 0xd70c;
  0xa438; 0x6065; 0xa438; 0x1800; 0xa438; 0x83fc; 0xa438; 0x8004; 0xa438; 0xa804; 0xa438; 0x0c0f;
  0xa438; 0x0602; 0xa438; 0x0c70; 0xa438; 0x0730; 0xa438; 0xa708; 0xa438; 0xd704; 0xa438; 0x609c;
  0xa438; 0x0c1f; 0xa438; 0x0912; 0xa438; 0xf003; 0xa438; 0x0c1f; 0xa438; 0x090e; 0xa438; 0xa940;
  0xa438; 0x1000; 0xa438; 0x17db; 0xa438; 0xa780; 0xa438; 0xf0a0; 0xa438; 0xd704; 0xa438; 0x63ab;
  0xa438; 0xd705; 0xa438; 0x4371; 0xa438; 0xd702; 0xa438; 0x339c; 0xa438; 0x84ad; 0xa438; 0x8788;
  0xa438; 0x8704; 0xa438; 0x0c1f; 0xa438; 0x0907; 0xa438; 0x8940; 0xa438; 0x1000; 0xa438; 0x17db;
  0xa438; 0x8410; 0xa438; 0xa0f4; 0xa438; 0xa610; 0xa438; 0xd700; 0xa438; 0x6061; 0xa438; 0xa002;
  0xa438; 0xa501; 0xa438; 0xa706; 0xa438; 0x8804; 0xa438; 0xa980; 0xa438; 0xd70c; 0xa438; 0x6085;
  0xa438; 0x8701; 0xa438; 0x8502; 0xa438; 0x8c02; 0xa438; 0xf082; 0xa438; 0xd70c; 0xa438; 0x60c5;
  0xa438; 0xd702; 0xa438; 0x6053; 0xa438; 0xf07d; 0xa438; 0x1800; 0xa438; 0x84aa; 0xa438; 0xd70d;
  0xa438; 0x4d1b; 0xa438; 0xba10; 0xa438; 0xae40; 0xa438; 0x0cfc; 0xa438; 0x03b4; 0xa438; 0x0cfc;
  0xa438; 0x05b4; 0xa438; 0xd1c4; 0xa438; 0xd044; 0xa438; 0x1000; 0xa438; 0x17be; 0xa438; 0x1000;
  0xa438; 0x17e8; 0xa438; 0xd70c; 0xa438; 0x5f7c; 0xa438; 0x8706; 0xa438; 0x8280; 0xa438; 0xace0;
  0xa438; 0xa680; 0xa438; 0xa240; 0xa438; 0x1000; 0xa438; 0x17be; 0xa438; 0x1000; 0xa438; 0x17e8;
  0xa438; 0xd702; 0xa438; 0x5f79; 0xa438; 0x8240; 0xa438; 0xd702; 0xa438; 0x6898; 0xa438; 0xd702;
  0xa438; 0x4957; 0xa438; 0x1800; 0xa438; 0x849c; 0xa438; 0xa1c0; 0xa438; 0x0c3f; 0xa438; 0x0220;
  0xa438; 0x0cfc; 0xa438; 0x030c; 0xa438; 0x0cfc; 0xa438; 0x050c; 0xa438; 0x8108; 0xa438; 0x8640;
  0xa438; 0xa120; 0xa438; 0xa640; 0xa438; 0x0c03; 0xa438; 0x0101; 0xa438; 0xa110; 0xa438; 0xd1c4;
  0xa438; 0xd044; 0xa438; 0xca84; 0xa438; 0x1000; 0xa438; 0x17be; 0xa438; 0x1000; 0xa438; 0x17e8;
  0xa438; 0xd70c; 0xa438; 0x5f7c; 0xa438; 0xd702; 0xa438; 0x60fc; 0xa438; 0x8210; 0xa438; 0x0ce0;
  0xa438; 0x0320; 0xa438; 0x0ce0; 0xa438; 0x0520; 0xa438; 0xf002; 0xa438; 0xa210; 0xa438; 0xd1c4;
  0xa438; 0xd043; 0xa438; 0x1000; 0xa438; 0x17be; 0xa438; 0x1000; 0xa438; 0x17e8; 0xa438; 0xd70c;
  0xa438; 0x5f7c; 0xa438; 0x8233; 0xa438; 0x0cfc; 0xa438; 0x036c; 0xa438; 0x0cfc; 0xa438; 0x056c;
  0xa438; 0xd1c4; 0xa438; 0xd044; 0xa438; 0xca85; 0xa438; 0x1000; 0xa438; 0x17be; 0xa438; 0x1000;
  0xa438; 0x17e8; 0xa438; 0xd70c; 0xa438; 0x5f7c; 0xa438; 0xa680; 0xa438; 0xa240; 0xa438; 0x1000;
  0xa438; 0x17be; 0xa438; 0x1000; 0xa438; 0x17e8; 0xa438; 0xd702; 0xa438; 0x5f79; 0xa438; 0x8240;
  0xa438; 0x0cfc; 0xa438; 0x0390; 0xa438; 0x0cfc; 0xa438; 0x0590; 0xa438; 0xd702; 0xa438; 0x6058;
  0xa438; 0xf002; 0xa438; 0xfec8; 0xa438; 0x81c0; 0xa438; 0x8880; 0xa438; 0x8706; 0xa438; 0xca61;
  0xa438; 0xd1c4; 0xa438; 0xd054; 0xa438; 0x1000; 0xa438; 0x17be; 0xa438; 0x1000; 0xa438; 0x17e8;
  0xa438; 0xd70c; 0xa438; 0x5f7d; 0xa438; 0xa706; 0xa438; 0xf004; 0xa438; 0x8788; 0xa438; 0xa404;
  0xa438; 0x8702; 0xa438; 0x0800; 0xa438; 0x8443; 0xa438; 0x8303; 0xa438; 0x8280; 0xa438; 0x9920;
  0xa438; 0x8ce0; 0xa438; 0x8004; 0xa438; 0xa1c0; 0xa438; 0xd70e; 0xa438; 0x404a; 0xa438; 0xa280;
  0xa438; 0xd702; 0xa438; 0x3bd0; 0xa438; 0x84be; 0xa438; 0x0c3f; 0xa438; 0x0223; 0xa438; 0xf003;
  0xa438; 0x0c3f; 0xa438; 0x0220; 0xa438; 0x0cfc; 0xa438; 0x0308; 0xa438; 0x0cfc; 0xa438; 0x0508;
  0xa438; 0x8108; 0xa438; 0x8640; 0xa438; 0xa120; 0xa438; 0xa640; 0xa438; 0xd702; 0xa438; 0x6077;
  0xa438; 0x8103; 0xa438; 0xf003; 0xa438; 0x0c03; 0xa438; 0x0101; 0xa438; 0xa110; 0xa438; 0xd702;
  0xa438; 0x6077; 0xa438; 0xa108; 0xa438; 0xf006; 0xa438; 0xd704; 0xa438; 0x6077; 0xa438; 0x8108;
  0xa438; 0xf002; 0xa438; 0xa108; 0xa438; 0xd193; 0xa438; 0xd045; 0xa438; 0xca82; 0xa438; 0x1000;
  0xa438; 0x17be; 0xa438; 0xd70e; 0xa438; 0x606a; 0xa438; 0x1000; 0xa438; 0x17e8; 0xa438; 0xd70c;
  0xa438; 0x5f3c; 0xa438; 0xd702; 0xa438; 0x60fc; 0xa438; 0x8210; 0xa438; 0x0ce0; 0xa438; 0x0320;
  0xa438; 0x0ce0; 0xa438; 0x0520; 0xa438; 0xf002; 0xa438; 0xa210; 0xa438; 0xd1c4; 0xa438; 0xd043;
  0xa438; 0x1000; 0xa438; 0x17be; 0xa438; 0xd70e; 0xa438; 0x606a; 0xa438; 0x1000; 0xa438; 0x17e8;
  0xa438; 0xd70c; 0xa438; 0x5f3c; 0xa438; 0xd702; 0xa438; 0x3bd0; 0xa438; 0x84fc; 0xa438; 0x0c3f;
  0xa438; 0x020c; 0xa438; 0xf002; 0xa438; 0x823f; 0xa438; 0x0cfc; 0xa438; 0x034c; 0xa438; 0x0cfc;
  0xa438; 0x054c; 0xa438; 0xd1c4; 0xa438; 0xd044; 0xa438; 0x1000; 0xa438; 0x17be; 0xa438; 0xd70e;
  0xa438; 0x606a; 0xa438; 0x1000; 0xa438; 0x17e8; 0xa438; 0xd70c; 0xa438; 0x5f3c; 0xa438; 0x820c;
  0xa438; 0xa360; 0xa438; 0xa560; 0xa438; 0xd1c4; 0xa438; 0xd043; 0xa438; 0xca83; 0xa438; 0x1000;
  0xa438; 0x17be; 0xa438; 0xd70e; 0xa438; 0x606a; 0xa438; 0x1000; 0xa438; 0x17e8; 0xa438; 0xd70c;
  0xa438; 0x5f3c; 0xa438; 0xd70e; 0xa438; 0x406a; 0xa438; 0x8680; 0xa438; 0xf002; 0xa438; 0xa680;
  0xa438; 0xa240; 0xa438; 0x0c0f; 0xa438; 0x0604; 0xa438; 0x0c70; 0xa438; 0x0750; 0xa438; 0xa708;
  0xa438; 0xd704; 0xa438; 0x609c; 0xa438; 0x0c1f; 0xa438; 0x0914; 0xa438; 0xf003; 0xa438; 0x0c1f;
  0xa438; 0x0910; 0xa438; 0xa940; 0xa438; 0x1000; 0xa438; 0x17db; 0xa438; 0xa780; 0xa438; 0x1000;
  0xa438; 0x17be; 0xa438; 0xd70e; 0xa438; 0x606a; 0xa438; 0x1000; 0xa438; 0x17e8; 0xa438; 0xd702;
  0xa438; 0x399c; 0xa438; 0x852f; 0xa438; 0x8240; 0xa438; 0x8788; 0xa438; 0xd702; 0xa438; 0x63f8;
  0xa438; 0xd705; 0xa438; 0x643c; 0xa438; 0xa402; 0xa438; 0xf012; 0xa438; 0x8402; 0xa438; 0xd705;
  0xa438; 0x611b; 0xa438; 0xa401; 0xa438; 0xa302; 0xa438; 0xd702; 0xa438; 0x417d; 0xa438; 0xa440;
  0xa438; 0xa280; 0xa438; 0xf008; 0xa438; 0x8401; 0xa438; 0x8302; 0xa438; 0xd70c; 0xa438; 0x6060;
  0xa438; 0xa301; 0xa438; 0xf002; 0xa438; 0x8301; 0xa438; 0xd70c; 0xa438; 0x4080; 0xa438; 0xd70e;
  0xa438; 0x604a; 0xa438; 0xff5f; 0xa438; 0xd705; 0xa438; 0x3cdd; 0xa438; 0x855e; 0xa438; 0xff5b;
  0xa438; 0x0cfc; 0xa438; 0x0390; 0xa438; 0x0cfc; 0xa438; 0x0590; 0xa438; 0x0800; 0xa438; 0xd704;
  0xa438; 0x60f9; 0xa438; 0xd704; 0xa438; 0x6958; 0xa438; 0xd706; 0xa438; 0x6902; 0xa438; 0x1800;
  0xa438; 0x1001; 0xa438; 0xa220; 0xa438; 0xa404; 0xa438; 0xd704; 0xa438; 0x4054; 0xa438; 0xa740;
  0xa438; 0xa504; 0xa438; 0xd704; 0xa438; 0x40b5; 0xa438; 0x0c03; 0xa438; 0x1502; 0xa438; 0xa003;
  0xa438; 0x9503; 0xa438; 0x8190; 0xa438; 0xcb91; 0xa438; 0x1000; 0xa438; 0x10af; 0xa438; 0xd704;
  0xa438; 0x7fb9; 0xa438; 0x8220; 0xa438; 0x8404; 0xa438; 0xa280; 0xa438; 0xa110; 0xa438; 0xd706;
  0xa438; 0x4041; 0xa438; 0xa180; 0xa438; 0x1000; 0xa438; 0x130c; 0xa438; 0x0c03; 0xa438; 0x1502;
  0xa438; 0x850f; 0xa438; 0x9503; 0xa438; 0x0c1f; 0xa438; 0x0d08; 0xa438; 0x0cc0; 0xa438; 0x0d80;
  0xa438; 0x1000; 0xa438; 0x12b5; 0xa438; 0x1000; 0xa438; 0x10af; 0xa438; 0xd704; 0xa438; 0x615f;
  0xa438; 0xd70c; 0xa438; 0x6103; 0xa438; 0x8504; 0xa438; 0xd704; 0xa438; 0x40b5; 0xa438; 0x0c03;
  0xa438; 0x1502; 0xa438; 0x8003; 0xa438; 0x9503; 0xa438; 0xcb92; 0xa438; 0x1000; 0xa438; 0x10af;
  0xa438; 0xd706; 0xa438; 0x7fa3; 0xa438; 0x8280; 0xa438; 0x8190; 0xa438; 0x0c03; 0xa438; 0x1502;
  0xa438; 0x0c0f; 0xa438; 0x050a; 0xa438; 0x9503; 0xa438; 0x0c1f; 0xa438; 0x0d00; 0xa438; 0x8dc0;
  0xa438; 0x1000; 0xa438; 0x12b5; 0xa438; 0x1800; 0xa438; 0x1001; 0xa438; 0x0c1f; 0xa438; 0x0d00;
  0xa438; 0x8dc0; 0xa438; 0x1000; 0xa438; 0x12b5; 0xa438; 0x800a; 0xa438; 0xd705; 0xa438; 0x40b9;
  0xa438; 0xd70c; 0xa438; 0x6063; 0xa438; 0xa020; 0xa438; 0xf003; 0xa438; 0xd705; 0xa438; 0x8020;
  0xa438; 0xa504; 0xa438; 0xd704; 0xa438; 0x40b5; 0xa438; 0x0c03; 0xa438; 0x1502; 0xa438; 0xa003;
  0xa438; 0x9503; 0xa438; 0xd704; 0xa438; 0x4054; 0xa438; 0xa740; 0xa438; 0x8190; 0xa438; 0xcb93;
  0xa438; 0xd700; 0xa438; 0x6063; 0xa438; 0xd704; 0xa438; 0x609c; 0xa438; 0xd14b; 0xa438; 0xd040;
  0xa438; 0xf003; 0xa438; 0xd120; 0xa438; 0xd040; 0xa438; 0x1000; 0xa438; 0x10af; 0xa438; 0xd700;
  0xa438; 0x5fb4; 0xa438; 0xa008; 0xa438; 0xd706; 0xa438; 0x4040; 0xa438; 0xa002; 0xa438; 0xd705;
  0xa438; 0x4079; 0xa438; 0x1000; 0xa438; 0x1313; 0xa438; 0x0c03; 0xa438; 0x1502; 0xa438; 0x85f0;
  0xa438; 0x9503; 0xa438; 0xd705; 0xa438; 0x40d9; 0xa438; 0xd70c; 0xa438; 0x6083; 0xa438; 0x0c1f;
  0xa438; 0x0d09; 0xa438; 0xf003; 0xa438; 0x0c1f; 0xa438; 0x0d0a; 0xa438; 0x0cc0; 0xa438; 0x0d80;
  0xa438; 0x1000; 0xa438; 0x12b5; 0xa438; 0x1000; 0xa438; 0x10af; 0xa438; 0x8020; 0xa438; 0xd705;
  0xa438; 0x4199; 0xa438; 0xd704; 0xa438; 0x615f; 0xa438; 0xd70c; 0xa438; 0x6103; 0xa438; 0x8504;
  0xa438; 0xd704; 0xa438; 0x40b5; 0xa438; 0x0c03; 0xa438; 0x1502; 0xa438; 0x8003; 0xa438; 0x9503;
  0xa438; 0xcb94; 0xa438; 0x1000; 0xa438; 0x10af; 0xa438; 0xd706; 0xa438; 0x7fa2; 0xa438; 0x800a;
  0xa438; 0x0c03; 0xa438; 0x1502; 0xa438; 0x85f0; 0xa438; 0x9503; 0xa438; 0xd705; 0xa438; 0x40b9;
  0xa438; 0x0c1f; 0xa438; 0x0d00; 0xa438; 0x8dc0; 0xa438; 0xf005; 0xa438; 0x0c1f; 0xa438; 0x0d07;
  0xa438; 0x8dc0; 0xa438; 0xa190; 0xa438; 0x1000; 0xa438; 0x12b5; 0xa438; 0xd705; 0xa438; 0x39cc;
  0xa438; 0x8617; 0xa438; 0x1800; 0xa438; 0x1001; 0xa438; 0x1800; 0xa438; 0x82c7; 0xa438; 0xcb13;
  0xa438; 0xd706; 0xa438; 0x6089; 0xa438; 0xd1b8; 0xa438; 0xd04a; 0xa438; 0xf003; 0xa438; 0xd11c;
  0xa438; 0xd04b; 0xa438; 0x1000; 0xa438; 0x126b; 0xa438; 0xd701; 0xa438; 0x67d5; 0xa438; 0xd700;
  0xa438; 0x5f74; 0xa438; 0xd70c; 0xa438; 0x610c; 0xa438; 0x1000; 0xa438; 0x126b; 0xa438; 0xd700;
  0xa438; 0x6846; 0xa438; 0xd706; 0xa438; 0x647b; 0xa438; 0xfffa; 0xa438; 0x1000; 0xa438; 0x1330;
  0xa438; 0x0c03; 0xa438; 0x1502; 0xa438; 0x0c1f; 0xa438; 0x0f16; 0xa438; 0x9503; 0xa438; 0x1000;
  0xa438; 0x126b; 0xa438; 0xd70c; 0xa438; 0x5fb3; 0xa438; 0x0c03; 0xa438; 0x1502; 0xa438; 0x8f1f;
  0xa438; 0x9503; 0xa438; 0x1000; 0xa438; 0x126b; 0xa438; 0xd70c; 0xa438; 0x7f33; 0xa438; 0x1000;
  0xa438; 0x12b5; 0xa438; 0x0c07; 0xa438; 0x0c02; 0xa438; 0x0cc0; 0xa438; 0x0080; 0xa438; 0xd14a;
  0xa438; 0xd048; 0xa438; 0x1000; 0xa438; 0x126b; 0xa438; 0xd700; 0xa438; 0x5fb4; 0xa438; 0x1800;
  0xa438; 0x8629; 0xa438; 0x800a; 0xa438; 0x1000; 0xa438; 0x120e; 0xa438; 0xa004; 0xa438; 0x1000;
  0xa438; 0x1220; 0xa438; 0x8004; 0xa438; 0xa001; 0xa438; 0x1000; 0xa438; 0x1220; 0xa438; 0x8001;
  0xa438; 0x1000; 0xa438; 0x1217; 0xa438; 0x0c03; 0xa438; 0x0902; 0xa438; 0x1800; 0xa438; 0x04ed;
  0xa438; 0x1000; 0xa438; 0x126b; 0xa438; 0xd71f; 0xa438; 0x5fab; 0xa438; 0xba08; 0xa438; 0x1000;
  0xa438; 0x126b; 0xa438; 0xd71f; 0xa438; 0x7f8b; 0xa438; 0x9a08; 0xa438; 0x1800; 0xa438; 0x0581;
  0xa438; 0x800a; 0xa438; 0xd702; 0xa438; 0x6555; 0xa438; 0x1000; 0xa438; 0x120e; 0xa438; 0xa004;
  0xa438; 0x1000; 0xa438; 0x1220; 0xa438; 0x8004; 0xa438; 0xa001; 0xa438; 0x1000; 0xa438; 0x1220;
  0xa438; 0x8001; 0xa438; 0x1000; 0xa438; 0x1217; 0xa438; 0xa00a; 0xa438; 0xa780; 0xa438; 0xcb14;
  0xa438; 0xd1b8; 0xa438; 0xd04a; 0xa438; 0x1000; 0xa438; 0x126b; 0xa438; 0xd700; 0xa438; 0x5fb4;
  0xa438; 0x6286; 0xa438; 0xd706; 0xa438; 0x5f5b; 0xa438; 0x800a; 0xa438; 0x1000; 0xa438; 0x120e;
  0xa438; 0xa004; 0xa438; 0x1000; 0xa438; 0x1220; 0xa438; 0x8004; 0xa438; 0xa001; 0xa438; 0x1000;
  0xa438; 0x1220; 0xa438; 0x8001; 0xa438; 0x1000; 0xa438; 0x1217; 0xa438; 0x0c03; 0xa438; 0x0902;
  0xa438; 0x1800; 0xa438; 0x8671; 0xa438; 0xa00a; 0xa438; 0x9308; 0xa438; 0xb210; 0xa438; 0xb301;
  0xa438; 0x1000; 0xa438; 0x126b; 0xa438; 0xd701; 0xa438; 0x5fa4; 0xa438; 0xb302; 0xa438; 0x9210;
  0xa438; 0xd409; 0xa438; 0x1000; 0xa438; 0x1203; 0xa438; 0xd103; 0xa438; 0xd04c; 0xa438; 0x1000;
  0xa438; 0x126b; 0xa438; 0xd700; 0xa438; 0x5fb4; 0xa438; 0x1800; 0xa438; 0x0581; 0xa438; 0xd70c;
  0xa438; 0x60b3; 0xa438; 0x1800; 0xa438; 0x86b3; 0xa438; 0x1800; 0xa438; 0x001a; 0xa438; 0x1800;
  0xa438; 0x12cb; 0xa436; 0xA10E; 0xa438; 0x12cf; 0xa436; 0xA10C; 0xa438; 0x04f8; 0xa436; 0xA10A;
  0xa438; 0x1003; 0xa436; 0xA108; 0xa438; 0x15fb; 0xa436; 0xA106; 0xa438; 0x0d2b; 0xa436; 0xA104;
  0xa438; 0x0ecb; 0xa436; 0xA102; 0xa438; 0x1119; 0xa436; 0xA100; 0xa438; 0x0960; 0xa436; 0xA110;
  0xa438; 0x00ff; 0xa436; 0xA016; 0xa438; 0x0020; 0xa436; 0xA012; 0xa438; 0x1ff8; 0xa436; 0xA014;
  0xa438; 0xa704; 0xa438; 0x82c7; 0xa438; 0x0000; 0xa438; 0x0000; 0xa438; 0x0000; 0xa438; 0x0000;
  0xa438; 0x0000; 0xa438; 0x0000; 0xa436; 0xA164; 0xa438; 0x119F; 0xa436; 0xA166; 0xa438; 0x11A1;
  0xa436; 0xA168; 0xa438; 0x3fff; 0xa436; 0xA16A; 0xa438; 0x3fff; 0xa436; 0xA16C; 0xa438; 0x3fff;
  0xa436; 0xA16E; 0xa438; 0x3fff; 0xa436; 0xA170; 0xa438; 0x3fff; 0xa436; 0xA172; 0xa438; 0x3fff;
  0xa436; 0xA162; 0xa438; 0x0003; 0xa436; 0xb87c; 0xa438; 0x8a63; 0xa436; 0xb87e; 0xa438; 0xaf8a;
  0xa438; 0x7baf; 0xa438; 0x8ab6; 0xa438; 0xaf8a; 0xa438; 0xd6af; 0xa438; 0x8ae4; 0xa438; 0xaf8a;
  0xa438; 0xf2af; 0xa438; 0x8b01; 0xa438; 0xaf8b; 0xa438; 0x0aaf; 0xa438; 0x8b10; 0xa438; 0xad35;
  0xa438; 0x27bf; 0xa438; 0x7308; 0xa438; 0x027b; 0xa438; 0x07ac; 0xa438; 0x280d; 0xa438; 0xbf73;
  0xa438; 0x0b02; 0xa438; 0x7b07; 0xa438; 0xac28; 0xa438; 0x04d0; 0xa438; 0x05ae; 0xa438; 0x02d0;
  0xa438; 0x01d1; 0xa438; 0x01d3; 0xa438; 0x04ee; 0xa438; 0x8640; 0xa438; 0x00ee; 0xa438; 0x8641;
  0xa438; 0x00af; 0xa438; 0x6aa6; 0xa438; 0xd100; 0xa438; 0xd300; 0xa438; 0xee86; 0xa438; 0x4001;
  0xa438; 0xee86; 0xa438; 0x4124; 0xa438; 0xd00f; 0xa438; 0xaf6a; 0xa438; 0xa6bf; 0xa438; 0x739e;
  0xa438; 0x027b; 0xa438; 0x07ad; 0xa438; 0x280b; 0xa438; 0xe18f; 0xa438; 0xfdad; 0xa438; 0x2805;
  0xa438; 0xe08f; 0xa438; 0xfeae; 0xa438; 0x03e0; 0xa438; 0x8fff; 0xa438; 0xe489; 0xa438; 0xe7e0;
  0xa438; 0x89e7; 0xa438; 0xaf67; 0xa438; 0x9fa0; 0xa438; 0x9402; 0xa438; 0xae03; 0xa438; 0xa0b5;
  0xa438; 0x03af; 0xa438; 0x0d89; 0xa438; 0xaf0d; 0xa438; 0xafa0; 0xa438; 0x9402; 0xa438; 0xae03;
  0xa438; 0xa0b5; 0xa438; 0x03af; 0xa438; 0x0c64; 0xa438; 0xaf0c; 0xa438; 0xcce0; 0xa438; 0x86a5;
  0xa438; 0xad25; 0xa438; 0x0602; 0xa438; 0x6ba4; 0xa438; 0x0265; 0xa438; 0x4faf; 0xa438; 0x6e9a;
  0xa438; 0xac24; 0xa438; 0x03af; 0xa438; 0x6bb4; 0xa438; 0xaf6b; 0xa438; 0xb602; 0xa438; 0x7ae8;
  0xa438; 0xaf6c; 0xa438; 0xa100; 0xa436; 0xb85e; 0xa438; 0x6A7F; 0xa436; 0xb860; 0xa438; 0x679C;
  0xa436; 0xb862; 0xa438; 0x0d86; 0xa436; 0xb864; 0xa438; 0x0c61; 0xa436; 0xb886; 0xa438; 0x6E7C;
  0xa436; 0xb888; 0xa438; 0x6BAE; 0xa436; 0xb88a; 0xa438; 0x6C9B; 0xa436; 0xb88c; 0xa438; 0xffff;
  0xa436; 0xb838; 0xa438; 0x007f; 0xb820; 0x0010; 0xa436; 0x8629; 0xa438; 0xaf86; 0xa438; 0x41af;
  0xa438; 0x8644; 0xa438; 0xaf88; 0xa438; 0x0caf; 0xa438; 0x8813; 0xa438; 0xaf88; 0xa438; 0x4baf;
  0xa438; 0x884b; 0xa438; 0xaf88; 0xa438; 0x4baf; 0xa438; 0x884b; 0xa438; 0xaf1d; 0xa438; 0x8a02;
  0xa438; 0x864d; 0xa438; 0x0210; 0xa438; 0x64af; 0xa438; 0x1063; 0xa438; 0xf8fa; 0xa438; 0xef69;
  0xa438; 0xe080; 0xa438; 0x4cac; 0xa438; 0x2517; 0xa438; 0xe080; 0xa438; 0x40ad; 0xa438; 0x251a;
  0xa438; 0x0286; 0xa438; 0x7ce0; 0xa438; 0x8040; 0xa438; 0xac25; 0xa438; 0x11bf; 0xa438; 0x87f4;
  0xa438; 0x0277; 0xa438; 0xf6ae; 0xa438; 0x0902; 0xa438; 0x87b3; 0xa438; 0x0287; 0xa438; 0xe902;
  0xa438; 0x87de; 0xa438; 0xef96; 0xa438; 0xfefc; 0xa438; 0x04f8; 0xa438; 0xe080; 0xa438; 0x18ad;
  0xa438; 0x2611; 0xa438; 0xe08f; 0xa438; 0x9cac; 0xa438; 0x2005; 0xa438; 0x0286; 0xa438; 0x99ae;
  0xa438; 0x0302; 0xa438; 0x8707; 0xa438; 0x0287; 0xa438; 0x5002; 0xa438; 0x87de; 0xa438; 0xfc04;
  0xa438; 0xf8f9; 0xa438; 0xef79; 0xa438; 0xfbbf; 0xa438; 0x87f7; 0xa438; 0x0278; 0xa438; 0x385c;
  0xa438; 0x2000; 0xa438; 0x0d4d; 0xa438; 0xa101; 0xa438; 0x51bf; 0xa438; 0x87f7; 0xa438; 0x0278;
  0xa438; 0x385c; 0xa438; 0x07ff; 0xa438; 0xe38f; 0xa438; 0x9d1b; 0xa438; 0x319f; 0xa438; 0x410d;
  0xa438; 0x48e3; 0xa438; 0x8f9e; 0xa438; 0x1b31; 0xa438; 0x9f38; 0xa438; 0xbf87; 0xa438; 0xfa02;
  0xa438; 0x7838; 0xa438; 0x5c07; 0xa438; 0xffe3; 0xa438; 0x8f9f; 0xa438; 0x1b31; 0xa438; 0x9f28;
  0xa438; 0x0d48; 0xa438; 0xe38f; 0xa438; 0xa01b; 0xa438; 0x319f; 0xa438; 0x1fbf; 0xa438; 0x87fd;
  0xa438; 0x0278; 0xa438; 0x385c; 0xa438; 0x07ff; 0xa438; 0xe38f; 0xa438; 0xa11b; 0xa438; 0x319f;
  0xa438; 0x0f0d; 0xa438; 0x48e3; 0xa438; 0x8fa2; 0xa438; 0x1b31; 0xa438; 0x9f06; 0xa438; 0xee8f;
  0xa438; 0x9c01; 0xa438; 0xae04; 0xa438; 0xee8f; 0xa438; 0x9c00; 0xa438; 0xffef; 0xa438; 0x97fd;
  0xa438; 0xfc04; 0xa438; 0xf8f9; 0xa438; 0xef79; 0xa438; 0xfbbf; 0xa438; 0x87f7; 0xa438; 0x0278;
  0xa438; 0x385c; 0xa438; 0x2000; 0xa438; 0x0d4d; 0xa438; 0xa100; 0xa438; 0x20bf; 0xa438; 0x87f7;
  0xa438; 0x0278; 0xa438; 0x385c; 0xa438; 0x0600; 0xa438; 0x0d49; 0xa438; 0xe38f; 0xa438; 0xa31b;
  0xa438; 0x319f; 0xa438; 0x0ebf; 0xa438; 0x8800; 0xa438; 0x0277; 0xa438; 0xf6bf; 0xa438; 0x8806;
  0xa438; 0x0277; 0xa438; 0xf6ae; 0xa438; 0x0cbf; 0xa438; 0x8800; 0xa438; 0x0277; 0xa438; 0xedbf;
  0xa438; 0x8806; 0xa438; 0x0277; 0xa438; 0xedee; 0xa438; 0x8f9c; 0xa438; 0x00ff; 0xa438; 0xef97;
  0xa438; 0xfdfc; 0xa438; 0x04f8; 0xa438; 0xf9ef; 0xa438; 0x79fb; 0xa438; 0xbf87; 0xa438; 0xf702;
  0xa438; 0x7838; 0xa438; 0x5c20; 0xa438; 0x000d; 0xa438; 0x4da1; 0xa438; 0x014a; 0xa438; 0xbf87;
  0xa438; 0xf702; 0xa438; 0x7838; 0xa438; 0x5c07; 0xa438; 0xffe3; 0xa438; 0x8fa4; 0xa438; 0x1b31;
  0xa438; 0x9f3a; 0xa438; 0x0d48; 0xa438; 0xe38f; 0xa438; 0xa51b; 0xa438; 0x319f; 0xa438; 0x31bf;
  0xa438; 0x87fa; 0xa438; 0x0278; 0xa438; 0x38e3; 0xa438; 0x8fa6; 0xa438; 0x1b31; 0xa438; 0x9f24;
  0xa438; 0x0d48; 0xa438; 0xe38f; 0xa438; 0xa71b; 0xa438; 0x319f; 0xa438; 0x1bbf; 0xa438; 0x87fd;
  0xa438; 0x0278; 0xa438; 0x38e3; 0xa438; 0x8fa8; 0xa438; 0x1b31; 0xa438; 0x9f0e; 0xa438; 0xbf88;
  0xa438; 0x0302; 0xa438; 0x77f6; 0xa438; 0xbf88; 0xa438; 0x0902; 0xa438; 0x77f6; 0xa438; 0xae00;
  0xa438; 0xffef; 0xa438; 0x97fd; 0xa438; 0xfc04; 0xa438; 0xf8ef; 0xa438; 0x79fb; 0xa438; 0xe080;
  0xa438; 0x18ad; 0xa438; 0x261c; 0xa438; 0xee8f; 0xa438; 0x9c00; 0xa438; 0xbf88; 0xa438; 0x0002;
  0xa438; 0x77ed; 0xa438; 0xbf88; 0xa438; 0x0602; 0xa438; 0x77ed; 0xa438; 0xbf88; 0xa438; 0x0302;
  0xa438; 0x77ed; 0xa438; 0xbf88; 0xa438; 0x0902; 0xa438; 0x77ed; 0xa438; 0xffef; 0xa438; 0x97fc;
  0xa438; 0x04f8; 0xa438; 0xe080; 0xa438; 0x40f6; 0xa438; 0x25e4; 0xa438; 0x8040; 0xa438; 0xfc04;
  0xa438; 0xf8e0; 0xa438; 0x804c; 0xa438; 0xf625; 0xa438; 0xe480; 0xa438; 0x4cfc; 0xa438; 0x0455;
  0xa438; 0xa4ba; 0xa438; 0xf0a6; 0xa438; 0x4af0; 0xa438; 0xa64c; 0xa438; 0xf0a6; 0xa438; 0x4e66;
  0xa438; 0xa4b6; 0xa438; 0x55a4; 0xa438; 0xb600; 0xa438; 0xac56; 0xa438; 0x11ac; 0xa438; 0x56ee;
  0xa438; 0x804c; 0xa438; 0x3aaf; 0xa438; 0x0627; 0xa438; 0xbf88; 0xa438; 0x4802; 0xa438; 0x77ed;
  0xa438; 0xd203; 0xa438; 0xe083; 0xa438; 0x8a0d; 0xa438; 0x01f6; 0xa438; 0x271b; 0xa438; 0x03aa;
  0xa438; 0x0182; 0xa438; 0xe083; 0xa438; 0x890d; 0xa438; 0x01f6; 0xa438; 0x271b; 0xa438; 0x03aa;
  0xa438; 0x0182; 0xa438; 0xe083; 0xa438; 0x880d; 0xa438; 0x01f6; 0xa438; 0x271b; 0xa438; 0x03aa;
  0xa438; 0x0782; 0xa438; 0xbf88; 0xa438; 0x4802; 0xa438; 0x77f6; 0xa438; 0xaf16; 0xa438; 0x1500;
  0xa438; 0xa86a; 0xa436; 0xb818; 0xa438; 0x1D84; 0xa436; 0xb81a; 0xa438; 0x1060; 0xa436; 0xb81c;
  0xa438; 0x0623; 0xa436; 0xb81e; 0xa438; 0x15ef; 0xa436; 0xb850; 0xa438; 0xffff; 0xa436; 0xb852;
  0xa438; 0xffff; 0xa436; 0xb878; 0xa438; 0xffff; 0xa436; 0xb884; 0xa438; 0xffff; 0xa436; 0xb832;
  0xa438; 0x000f; 0xa436; 0x0000; 0xa438; 0x0000; 0xB82E; 0x0000; 0xa436; 0x8023; 0xa438; 0x0000;
  0xB820; 0x0000; 0xFFFF; 0xFFFF].

(** ** MAC *)

Definition mcu_patch_code_8126a_1 : list Z := [
  0xE010; 0xE019; 0xE01B; 0xE01D; 0xE01F; 0xE021; 0xE023; 0xE025; 0xE027; 0xE029; 0xE02B; 0xE02D;
  0xE02F; 0xE031; 0xE033; 0xE035; 0x48C0; 0x9C66; 0x7446; 0x4840; 0x48C1; 0x48C2; 0x9C46; 0xC402;
  0xBC00; 0x0AD6; 0xC602; 0xBE00; 0x0000; 0xC602; 0xBE00; 0x0000; 0xC602; 0xBE00; 0x0000; 0xC602;
  0xBE00; 0x0000; 0xC602; 0xBE00; 0x0000; 0xC602; 0xBE00; 0x0000; 0xC602; 0xBE00; 0x0000; 0xC602;
  0xBE00; 0x0000; 0xC602; 0xBE00; 0x0000; 0xC602; 0xBE00; 0x0000; 0xC602; 0xBE00; 0x0000; 0xC602;
  0xBE00; 0x0000; 0xC602; 0xBE00; 0x0000; 0xC602; 0xBE00; 0x0000; 0xC602; 0xBE00; 0x0000].

Definition mcu_patch_code_8126a_2 : list Z := [
  0xE010; 0xE02C; 0xE04E; 0xE0A4; 0xE0A8; 0xE0AB; 0xE0AE; 0xE0B1; 0xE0B3; 0xE0B5; 0xE0B7; 0xE0B9;
  0xE0BB; 0xE0BD; 0xE0BF; 0xE0C1; 0xC716; 0xC616; 0x9EE0; 0xC616; 0x65C0; 0x1500; 0xF009; 0xC714;
  0x66E0; 0x41B5; 0x8EE0; 0xC611; 0x75C0; 0x4858; 0x9DC0; 0xC707; 0xC608; 0x9EE0; 0xC608; 0xC502;
  0xBD00; 0x0100; 0xE86C; 0xE000; 0xA000; 0xB404; 0xB430; 0xC070; 0xE926; 0xC2FE; 0x400A; 0xF11A;
  0x63A4; 0x1A00; 0x49B0; 0xF002; 0x4820; 0x49B1; 0xF002; 0x4821; 0x49B2; 0xF002; 0x4822; 0x49B3;
  0xF002; 0x4823; 0xC411; 0x6380; 0x48B0; 0x8B80; 0x6320; 0x41DA; 0x8B20; 0x6380; 0x4830; 0x8B80;
  0xE003; 0x73A4; 0x9B20; 0xC302; 0xBB00; 0x4A18; 0xC070; 0xE022; 0xC054; 0x7102; 0x4992; 0xF149;
  0x4893; 0x9902; 0x1B1F; 0xC74E; 0x72E0; 0x2521; 0x48A5; 0x0B01; 0x1C4F; 0x9C00; 0x2121; 0x1D01;
  0x41AA; 0x2521; 0x9DE0; 0x4856; 0x9DE0; 0x1CCF; 0xE839; 0x48D6; 0x9DE0; 0x7102; 0x4996; 0xF1FE;
  0x4814; 0x9902; 0x1CFF; 0x0C01; 0x1400; 0xF00C; 0x7102; 0x4996; 0xF0FB; 0x7102; 0x4990; 0xF0FE;
  0x1C1F; 0xE826; 0x7102; 0x4992; 0xF004; 0x4813; 0x9902; 0xE01D; 0x1300; 0xF104; 0x4817; 0x9902;
  0xE018; 0x4894; 0x9902; 0x4995; 0xF00B; 0x121F; 0xF0F3; 0x131E; 0xF003; 0x4998; 0xF0EF; 0x0201;
  0x4818; 0x9902; 0xE7C9; 0x1200; 0xF0E9; 0x4998; 0xF002; 0x1B01; 0x0A01; 0x4898; 0x9902; 0xE7C0;
  0xC00A; 0xC606; 0xBE00; 0x0C01; 0x1400; 0xF1FE; 0xFF80; 0x2362; 0xD456; 0xD404; 0xE400; 0x4166;
  0x9CF6; 0xC002; 0xB800; 0x14A6; 0x49D1; 0xC602; 0xBE00; 0x4160; 0x49D1; 0xC602; 0xBE00; 0x41E6;
  0x49D1; 0xC602; 0xBE00; 0x4282; 0xC602; 0xBE00; 0x0000; 0xC602; 0xBE00; 0x0000; 0xC602; 0xBE00;
  0x0000; 0xC602; 0xBE00; 0x0000; 0xC602; 0xBE00; 0x0000; 0xC602; 0xBE00; 0x0000; 0xC602; 0xBE00;
  0x0000; 0xC602; 0xBE00; 0x0000; 0xC602; 0xBE00; 0x0000; 0x6847; 0x0A18; 0x0C02; 0x0B30].

Definition mcu_patch_code_8126a_3 : list Z := [
  0xE010; 0xE02C; 0xE04E; 0xE052; 0xE055; 0xE058; 0xE05B; 0xE05D; 0xE05F; 0xE061; 0xE063; 0xE065;
  0xE067; 0xE069; 0xE06B; 0xE06D; 0xC716; 0xC616; 0x9EE0; 0xC616; 0x65C0; 0x1500; 0xF009; 0xC714;
  0x66E0; 0x41B5; 0x8EE0; 0xC611; 0x75C0; 0x4858; 0x9DC0; 0xC707; 0xC608; 0x9EE0; 0xC608; 0xC502;
  0xBD00; 0x0100; 0xE86C; 0xE000; 0xA000; 0xB404; 0xB430; 0xC070; 0xE926; 0xC2FE; 0x400A; 0xF11A;
  0x63A4; 0x1A00; 0x49B0; 0xF002; 0x4820; 0x49B1; 0xF002; 0x4821; 0x49B2; 0xF002; 0x4822; 0x49B3;
  0xF002; 0x4823; 0xC411; 0x6380; 0x48B0; 0x8B80; 0x6320; 0x41DA; 0x8B20; 0x6380; 0x4830; 0x8B80;
  0xE003; 0x73A4; 0x9B20; 0xC302; 0xBB00; 0x55E2; 0xC070; 0xE022; 0x4166; 0x9CF6; 0xC602; 0xBE00;
  0x14A6; 0x49D1; 0xC602; 0xBE00; 0x4178; 0x49D1; 0xC602; 0xBE00; 0x41FE; 0x49D1; 0xC602; 0xBE00;
  0x429A; 0xC602; 0xBE00; 0x0000; 0xC602; 0xBE00; 0x0000; 0xC602; 0xBE00; 0x0000; 0xC602; 0xBE00;
  0x0000; 0xC602; 0xBE00; 0x0000; 0xC602; 0xBE00; 0x0000; 0xC602; 0xBE00; 0x0000; 0xC602; 0xBE00;
  0x0000; 0xC602; 0xBE00; 0x0000; 0xC602; 0xBE00; 0x0000; 0x6847; 0x0B18; 0x0C02; 0x0D10].
