(* ===== verification/Rtl8126.v ===== *)
(** * r8126: the 5G driver

    src/.../realtek/r8126/ is a copy of the r8125 driver that has been changed for
    another controller.  A function whose code is the one of r8125, after the
    number in the names, up to delays and locks, and whose callees and constants
    are again the same, is here the definition of r8125 under its own name.
    What differs is defined here: the microcode of the MAC and of the PHY and
    the tuning of each chip, with the tables in [Rtl8126Code]. *)
From S2P Require Import Prelude RtlBase RtlHw RtlIrq RtlWol RtlMcu RtlRamCode RtlPhyConfig RtlChip RtlEeprom RtlFiber RtlLink RtlEee RtlConfig RtlEsd RtlProbe RtlIface RtlCable RtlTool RtlFirmware RtlRss RtlTx RtlRx Rtl8126Code.
Local Open Scope Z_scope.
Local Open Scope rtl_scope.

(** ** The code shared with r8125 *)

Section Shared.
Context {D : Type} `{HM : Mmio D}.
Definition rtl8126_mdio_direct_write_phy_ocp := rtl8125_mdio_direct_write_phy_ocp.
Definition rtl8126_mdio_real_write_phy_ocp := rtl8125_mdio_real_write_phy_ocp.
Definition rtl8126_mdio_write := rtl8125_mdio_write.
Definition rtl8126_mdio_prot_write := rtl8125_mdio_prot_write.
Definition rtl8126_mdio_prot_direct_write_phy_ocp := rtl8125_mdio_prot_direct_write_phy_ocp.
Definition rtl8126_mdio_direct_read_phy_ocp := rtl8125_mdio_direct_read_phy_ocp.
Definition rtl8126_mdio_real_read_phy_ocp := rtl8125_mdio_real_read_phy_ocp.
Definition rtl8126_mdio_read := rtl8125_mdio_read.
Definition rtl8126_mdio_prot_read := rtl8125_mdio_prot_read.
Definition rtl8126_mdio_prot_direct_read_phy_ocp := rtl8125_mdio_prot_direct_read_phy_ocp.
Definition rtl8126_clear_and_set_eth_phy_bit := rtl8125_clear_and_set_eth_phy_bit.
Definition rtl8126_clear_eth_phy_bit := rtl8125_clear_eth_phy_bit.
Definition rtl8126_set_eth_phy_bit := rtl8125_set_eth_phy_bit.
Definition rtl8126_clear_and_set_eth_phy_ocp_bit := rtl8125_clear_and_set_eth_phy_ocp_bit.
Definition rtl8126_clear_eth_phy_ocp_bit := rtl8125_clear_eth_phy_ocp_bit.
Definition rtl8126_set_eth_phy_ocp_bit := rtl8125_set_eth_phy_ocp_bit.
Definition rtl8126_mac_ocp_write := rtl8125_mac_ocp_write.
Definition rtl8126_mac_ocp_read := rtl8125_mac_ocp_read.
Definition rtl8126_clear_set_mac_ocp_bit := rtl8125_clear_set_mac_ocp_bit.
Definition rtl8126_clear_mac_ocp_bit := rtl8125_clear_mac_ocp_bit.
Definition rtl8126_set_mac_ocp_bit := rtl8125_set_mac_ocp_bit.
Definition rtl8126_ephy_write := rtl8125_ephy_write.
Definition rtl8126_ephy_read := rtl8125_ephy_read.
Definition rtl8126_eri_read_with_oob_base_address := rtl8125_eri_read_with_oob_base_address.
Definition rtl8126_eri_read := rtl8125_eri_read.
Definition rtl8126_eri_write_with_oob_base_address := rtl8125_eri_write_with_oob_base_address.
Definition rtl8126_eri_write := rtl8125_eri_write.
Definition rtl8126_ocp_read_with_oob_base_address := rtl8125_ocp_read_with_oob_base_address.
Definition rtl8126_ocp_write_with_oob_base_address := rtl8125_ocp_write_with_oob_base_address.
Definition rtl8126_enable_rxdvgate := rtl8125_enable_rxdvgate.
Definition rtl8126_disable_rxdvgate := rtl8125_disable_rxdvgate.
Definition rtl8126_is_gpio_low := rtl8125_is_gpio_low.
Definition rtl8126_is_phy_disable_mode_enabled := rtl8125_is_phy_disable_mode_enabled.
Definition rtl8126_is_in_phy_disable_mode := rtl8125_is_in_phy_disable_mode.
Definition rtl8126_clear_stop_all_request := rtl8125_clear_stop_all_request.
Definition rtl8126_clear_hw_isr_v2 := rtl8125_clear_hw_isr_v2.
Definition rtl8126_disable_rx_packet_filter := rtl8125_disable_rx_packet_filter.
Definition rtl8126_hw_clear_timer_int := rtl8125_hw_clear_timer_int.
Definition rtl8126_disable_hw_interrupt_v2 := rtl8125_disable_hw_interrupt_v2.
Definition rtl8126_enable_hw_interrupt_v2 := rtl8125_enable_hw_interrupt_v2.
Definition rtl8126_raise_clock := rtl8125_raise_clock.
Definition rtl8126_lower_clock := rtl8125_lower_clock.
Definition rtl8126_shift_out_bits := rtl8125_shift_out_bits.
Definition rtl8126_shift_in_bits := rtl8125_shift_in_bits.
Definition rtl8126_stand_by := rtl8125_stand_by.
Definition rtl8126_set_eeprom_sel_low := rtl8125_set_eeprom_sel_low.
Definition rtl8126_eeprom_cleanup := rtl8125_eeprom_cleanup.
Definition rtl8126_eeprom_cmd_done := rtl8125_eeprom_cmd_done.
Definition rtl8126_eeprom_read_sc := rtl8125_eeprom_read_sc.
Definition rtl8126_eeprom_write_sc := rtl8125_eeprom_write_sc.
Definition rtl8126_fiber_set_mdc_gpio_c45 := rtl8125_fiber_set_mdc_gpio_c45.
Definition rtl8126_fiber_set_mdc := rtl8125_fiber_set_mdc.
Definition rtl8126_fiber_set_mdcDownUp := rtl8125_fiber_set_mdcDownUp.
Definition rtl8126_fiber_set_mdio_bit_gpio_c45 := rtl8125_fiber_set_mdio_bit_gpio_c45.
Definition rtl8126_fiber_set_mdio_bit := rtl8125_fiber_set_mdio_bit.
Definition rtl8126_fiber_get_mdio_bit_gpio_c45 := rtl8125_fiber_get_mdio_bit_gpio_c45.
Definition rtl8126_fiber_get_mdio_bit := rtl8125_fiber_get_mdio_bit.
Definition rtl8126_fiber_shift_bit_in := rtl8125_fiber_shift_bit_in.
Definition rtl8126_fiber_shift_bit_out := rtl8125_fiber_shift_bit_out.
Definition rtl8126_fiber_dir_gpio_c45 := rtl8125_fiber_dir_gpio_c45.
Definition rtl8126_fiber_dir := rtl8125_fiber_dir.
Definition rtl8126_fiber_cmd := rtl8125_fiber_cmd.
Definition rtl8126_fiber_cmdAddr := rtl8125_fiber_cmdAddr.
Definition rtl8126_fiber_reset_gpio_c45 := rtl8125_fiber_reset_gpio_c45.
Definition rtl8126_fiber_write_common := rtl8125_fiber_write_common.
Definition rtl8126_fiber_mdio_write_gpio_c45 := rtl8125_fiber_mdio_write_gpio_c45.
Definition rtl8126_fiber_read_common := rtl8125_fiber_read_common.
Definition rtl8126_fiber_mdio_read_gpio_c45 := rtl8125_fiber_mdio_read_gpio_c45.
Definition rtl8126_fiber_mdio_write := rtl8125_fiber_mdio_write.
Definition rtl8126_fiber_mdio_read := rtl8125_fiber_mdio_read.
Definition rtl8126_fiber_clear_and_set_phy_bit := rtl8125_fiber_clear_and_set_phy_bit.
Definition rtl8126_fiber_clear_phy_bit := rtl8125_fiber_clear_phy_bit.
Definition rtl8126_fiber_set_phy_bit := rtl8125_fiber_set_phy_bit.
Definition rtl8126_fiber_link_ok := rtl8125_fiber_link_ok.
Definition rtl8126_fw_format_ok := rtl8125_fw_format_ok.
Definition rtl8126_fw_data_ok := rtl8125_fw_data_ok.
Definition rtl8126_fw_request_firmware := rtl8125_fw_request_firmware.
Definition rtl8126_get_rss_hash_opts := rtl8125_get_rss_hash_opts.
Definition rtl8126_rss_indir_tbl_entries := rtl8125_rss_indir_tbl_entries.
Definition rtl8126_set_rss_hash_opt := rtl8125_set_rss_hash_opt.
Definition rtl8126_set_rxnfc := rtl8125_set_rxnfc.
Definition _rtl8126_get_rxfh_key_size := _rtl8125_get_rxfh_key_size.
Definition rtl8126_rss_key_reg := rtl8125_rss_key_reg.
Definition rtl8126_rss_indir_tbl_reg := rtl8125_rss_indir_tbl_reg.
Definition rtl8126_store_reta := rtl8125_store_reta.
Definition rtl8126_store_rss_key := rtl8125_store_rss_key.
Definition rtl8126_disable_rss := rtl8125_disable_rss.
Definition rtl8126_get_rx_desc_hash := rtl8125_get_rx_desc_hash.
Definition rtl8126_rx_hash_v3 := rtl8125_rx_hash_v3.
Definition rtl8126_rx_hash_v4 := rtl8125_rx_hash_v4.
Definition rtl8126_rx_hash := rtl8125_rx_hash.
Definition rtl8126_init_ring_indexes := rtl8125_init_ring_indexes.
Definition rtl8126_tx_desc_init := rtl8125_tx_desc_init.
Definition rtl8126_init_ring := rtl8125_init_ring.
Definition rtl8126_get_txd_opts1 := rtl8125_get_txd_opts1.
Definition rtl8126_tx_slots_avail := rtl8125_tx_slots_avail.
Definition rtl8126_fast_mod_mask := rtl8125_fast_mod_mask.
Definition rtl8126_get_l4_protocol := rtl8125_get_l4_protocol.
Definition rtl8126_skb_pad_with_len := rtl8125_skb_pad_with_len.
Definition rtl8126_skb_pad := rtl8125_skb_pad.
Definition rtl8126_doorbell := rtl8125_doorbell.
Definition rtl8126_rx_desc_opts1 := rtl8125_rx_desc_opts1.
Definition rtl8126_rx_desc_opts2 := rtl8125_rx_desc_opts2.
Definition rtl8126_set_desc_dma_addr := rtl8125_set_desc_dma_addr.
Definition rtl8126_mark_to_asic := rtl8125_mark_to_asic.
Definition rtl8126_mark_as_last_descriptor := rtl8125_mark_as_last_descriptor.
Definition rtl8126_fragmented_frame := rtl8125_fragmented_frame.
Definition rtl8126_is_non_eop := rtl8125_is_non_eop.
Definition rtl8126_rx_csum := rtl8125_rx_csum.
Definition rtl8126_rx_desc_init := rtl8125_rx_desc_init.
Definition rtl8126_make_unusable_by_asic := rtl8125_make_unusable_by_asic.
Definition rtl8126_enable_cfg9346_write := rtl8125_enable_cfg9346_write.
Definition rtl8126_disable_cfg9346_write := rtl8125_disable_cfg9346_write.
Definition rtl8126_enable_force_clkreq := rtl8125_enable_force_clkreq.
Definition rtl8126_enable_magic_packet := rtl8125_enable_magic_packet.
Definition rtl8126_disable_magic_packet := rtl8125_disable_magic_packet.
Definition rtl8126_enable_linkchg_wakeup := rtl8125_enable_linkchg_wakeup.
Definition rtl8126_get_hw_wol := rtl8125_get_hw_wol.
Definition rtl8126_set_pci_pme := rtl8125_set_pci_pme.
Definition rtl8126_disable_d0_speedup := rtl8125_disable_d0_speedup.
Definition rtl8126_issue_offset_99_event := rtl8125_issue_offset_99_event.
Definition rtl8126_enable_pci_offset_180 := rtl8125_enable_pci_offset_180.
Definition rtl8126_init_pci_offset_180 := rtl8125_init_pci_offset_180.
Definition rtl8126_enable_exit_l1_mask := rtl8125_enable_exit_l1_mask.
Definition rtl8126_disable_exit_l1_mask := rtl8125_disable_exit_l1_mask.
Definition rtl8126_enable_extend_tally_couter := rtl8125_enable_extend_tally_couter.
Definition rtl8126_disable_extend_tally_couter := rtl8125_disable_extend_tally_couter.
Definition rtl8126_enable_eee_plus := rtl8125_enable_eee_plus.
Definition rtl8126_disable_eee_plus := rtl8125_disable_eee_plus.
Definition rtl8126_enable_double_vlan := rtl8125_enable_double_vlan.
Definition rtl8126_disable_double_vlan := rtl8125_disable_double_vlan.
Definition rtl8126_switch_mac_mcu_ram_code_page := rtl8125_switch_mac_mcu_ram_code_page.
Definition rtl8126_get_hw_mcu_patch_code_ver := rtl8125_get_hw_mcu_patch_code_ver.
Definition rtl8126_get_bin_mcu_patch_code_ver := rtl8125_get_bin_mcu_patch_code_ver.
Definition _rtl8126_write_mac_mcu_ram_code := _rtl8125_write_mac_mcu_ram_code.
Definition _rtl8126_write_mac_mcu_ram_code_with_page := _rtl8125_write_mac_mcu_ram_code_with_page.
Definition rtl8126_get_hw_phy_mcu_code_ver := rtl8125_get_hw_phy_mcu_code_ver.
Definition rtl8126_set_phy_mcu_patch_request := rtl8125_set_phy_mcu_patch_request.
Definition rtl8126_clear_phy_mcu_patch_request := rtl8125_clear_phy_mcu_patch_request.
Definition rtl8126_write_hw_phy_mcu_code_ver := rtl8125_write_hw_phy_mcu_code_ver.
Definition rtl8126_enable_phy_disable_mode := rtl8125_enable_phy_disable_mode.
Definition rtl8126_disable_phy_disable_mode := rtl8125_disable_phy_disable_mode.
Definition rtl8126_enable_phy_aldps := rtl8125_enable_phy_aldps.
Definition rtl8126_is_ups_resume := rtl8125_is_ups_resume.
Definition rtl8126_clear_ups_resume_bit := rtl8125_clear_ups_resume_bit.
Definition rtl8126_get_phy_state := rtl8125_get_phy_state.
Definition rtl8126_wait_phy_ups_resume := rtl8125_wait_phy_ups_resume.
Definition rtl8126_disable_now_is_oob := rtl8125_disable_now_is_oob.
Definition rtl8126_wait_ll_share_fifo_ready := rtl8125_wait_ll_share_fifo_ready.
Definition rtl8126_is_autoneg_mode_valid := rtl8125_is_autoneg_mode_valid.
Definition rtl8126_is_duplex_mode_valid := rtl8125_is_duplex_mode_valid.
Definition rtl8126_wait_phy_reset_complete := rtl8125_wait_phy_reset_complete.
Definition rtl8126_phy_restart_nway := rtl8125_phy_restart_nway.
Definition rtl8126_phy_setup_force_mode := rtl8125_phy_setup_force_mode.
Definition rtl8126_get_pauseparam := rtl8125_get_pauseparam.
Definition rtl8126_set_eee_lpi_timer := rtl8125_set_eee_lpi_timer.
Definition rtl8126_hw_set_rx_packet_filter := rtl8125_hw_set_rx_packet_filter.
Definition rtl8126_set_rx_mode := rtl8125_set_rx_mode.
Definition rtl8126_hw_set_features := rtl8125_hw_set_features.
Definition rtl8126_set_features := rtl8125_set_features.
Definition rtl8126_set_rx_q_num := rtl8125_set_rx_q_num.
Definition rtl8126_set_tx_q_num := rtl8125_set_tx_q_num.
Definition rtl8126_enable_mcu := rtl8125_enable_mcu.
Definition rtl8126_clear_tcam_entries := rtl8125_clear_tcam_entries.
Definition _rtl8126_set_mrrs := _rtl8125_set_mrrs.
Definition rtl8126_set_mrrs := rtl8125_set_mrrs.
Definition rtl8126_tally_counter_addr_fill := rtl8125_tally_counter_addr_fill.
Definition rtl8126_tally_counter_clear := rtl8125_tally_counter_clear.
Definition rtl8126_rar_set := rtl8125_rar_set.
Definition rtl8126_get_mac_address := rtl8125_get_mac_address.
Definition rtl8126_set_mac_address := rtl8125_set_mac_address.
Definition rtl8126_wait_phy_nway_complete_sleep := rtl8125_wait_phy_nway_complete_sleep.
Definition __rtl8126_get_cp_status := __rtl8125_get_cp_status.
Definition rtl8126_get_cp_status_string := rtl8125_get_cp_status_string.
Definition rtl8126_dump_tally_counter := rtl8125_dump_tally_counter.
Definition _rtl8126_get_cp_status := _rtl8125_get_cp_status.
Definition rtl8126_get_cp_pp := rtl8125_get_cp_pp.
End Shared.

Definition rtl8126_fw_write_firmware := @rtl8125_fw_write_firmware.
Definition rtl8126_get_rxfh_key_size := @rtl8125_get_rxfh_key_size.
Definition rtl8126_rss_indir_size := @rtl8125_rss_indir_size.
Definition rtl8126_get_reta := @rtl8125_get_reta.
Definition rtl8126_init_rss := @rtl8125_init_rss.
Definition rtl8126_unmap_tx_skb := @rtl8125_unmap_tx_skb.
Definition rtl8126_tx_clear_range := @rtl8125_tx_clear_range.
Definition rtl8126_tx_clear := @rtl8125_tx_clear.
Definition rtl8126_map_to_asic := @rtl8125_map_to_asic.
Definition rtl8126_free_rx_skb := @rtl8125_free_rx_skb.
Definition rtl8126_alloc_rx_skb := @rtl8125_alloc_rx_skb.
Definition rtl8126_check_rx_desc_error := @rtl8125_check_rx_desc_error.
Definition rtl8126_set_rxbufsize := @rtl8125_set_rxbufsize.
Definition rtl8126_alloc_tx_desc := @rtl8125_alloc_tx_desc.
Definition rtl8126_alloc_rx_desc := @rtl8125_alloc_rx_desc.
Definition rtl8126_free_tx_desc := @rtl8125_free_tx_desc.
Definition rtl8126_free_rx_desc := @rtl8125_free_rx_desc.
Definition rtl8126_free_alloc_resources := @rtl8125_free_alloc_resources.
Definition rtl8126_rx_clear := @rtl8125_rx_clear.
Definition rtl8126_free_irq := @rtl8125_free_irq.
Definition rtl8126_resource_freed := @rtl8125_resource_freed.

Section Chip.
Context {D : Type} `{HM : Mmio D}.
Abbreviation ST := (St (nic D)).

(** ** MAC microcode *)

(** Here the version of the table is recorded once more. *)
Definition _rtl8126_set_hw_mcu_patch_code_ver (ver : Z) : ST unit :=
  rtl8126_switch_mac_mcu_ram_code_page 2 ;;;
  set_ver_loop [0; 2; 4; 6] (u64 ver) ;;;
  rtl8126_switch_mac_mcu_ram_code_page 0 ;;;
  bin_ver <- tp_get (fun s => bin_mcu_patch_code_ver s) ;;
  smodify (set_patch_code_ver bin_ver).

Definition rtl8126_set_hw_mcu_patch_code_ver (ver : Z) : ST unit :=
  _rtl8126_set_hw_mcu_patch_code_ver ver ;;;
  smodify (set_patch_code_ver ver).

Definition rtl8126_write_mac_mcu_ram_code (entry : list Z) : ST unit :=
  f <- tp_get feat ;;
  if negb (HW_SUPPORT_MAC_MCU f) || (length entry =? 0)%nat then sret tt
  else
    (if MacMcuPageSize f >? 0
     then _rtl8126_write_mac_mcu_ram_code_with_page entry (MacMcuPageSize f)
     else _rtl8126_write_mac_mcu_ram_code entry) ;;;
    bin_ver <- tp_get (fun s => bin_mcu_patch_code_ver s) ;;
    swhen (bin_ver >? 0) (rtl8126_set_hw_mcu_patch_code_ver bin_ver).

(** The common part of [rtl8126_set_mac_mcu_8126a_2] and [_3]. *)
Definition rtl8126_update_mac_mcu (mcu_patch_code : list Z) : ST unit :=
  smodify (set_bin_code_ver (rtl8126_get_bin_mcu_patch_code_ver mcu_patch_code)) ;;;
  m <- tp_get (fun s => mcu s) ;;
  swhen (negb (hw_mcu_patch_code_ver m =? bin_mcu_patch_code_ver m))
    (rtl8126_write_mac_mcu_ram_code mcu_patch_code).

Definition rtl8126_enable_aspm_clkreq_lock (enable : bool) : ST unit :=
  v <- RTL_R8 Cfg9346 ;;
  let unlock_cfg_wr := negb (Z.land v Cfg9346_EEM_MASK =? Cfg9346_Unlock) in
  swhen unlock_cfg_wr rtl8126_enable_cfg9346_write ;;;
  (m <- tp_get (fun s => mcfg s) ;;
   if m =? 1 then
     if enable then RTL_set8 Config2 (BIT 7) ;;; RTL_set8 Config5 (BIT 0)
     else RTL_clear8 Config2 (BIT 7) ;;; RTL_clear8 Config5 (BIT 0)
   else swhen ((m =? 2) || (m =? 3))
     (if enable then RTL_set8 INT_CFG0_8125 (BIT 3) ;;; RTL_set8 Config5 (BIT 0)
      else RTL_clear8 INT_CFG0_8125 (BIT 3) ;;; RTL_clear8 Config5 (BIT 0))) ;;;
  swhen unlock_cfg_wr rtl8126_disable_cfg9346_write.

Definition rtl8126_hw_disable_mac_mcu_bps : ST unit :=
  rtl8126_enable_aspm_clkreq_lock false ;;;
  rtl8126_mac_ocp_write 0xFC48 0x0000 ;;;
  sfor mac_bp_regs (fun regAddr => rtl8126_mac_ocp_write regAddr 0x0000) ;;;
  rtl8126_mac_ocp_write 0xFC26 0x0000.

Definition rtl8126_set_mac_mcu_8126a_1 : ST unit :=
  rtl8126_write_mac_mcu_ram_code mcu_patch_code_8126a_1 ;;;
  mac_bps
    [(0xFC26, 0x8000); (0xFC28, 0x0AAA); (0xFC48, 0x0001)].

Definition rtl8126_set_mac_mcu_8126a_2 : ST unit :=
  rtl8126_update_mac_mcu mcu_patch_code_8126a_2 ;;;
  mac_bps
    [(0xFC26, 0x8000); (0xFC2C, 0x2360); (0xFC2E, 0x14A4); (0xFC30, 0x415E); (0xFC32, 0x41E4);
     (0xFC34, 0x4280); (0xFC48, 0x007C)].

Definition rtl8126_set_mac_mcu_8126a_3 : ST unit :=
  rtl8126_update_mac_mcu mcu_patch_code_8126a_3 ;;;
  mac_bps
    [(0xFC26, 0x8000); (0xFC2C, 0x14A4); (0xFC2E, 0x4176); (0xFC30, 0x41FC); (0xFC32, 0x4298);
     (0xFC48, 0x003C)].

Definition rtl8126_hw_mac_mcu_config : ST unit :=
  s <- tp_get id ;;
  if NotWrMcuPatchCode s =? 1 then sret tt
  else
    rtl8126_hw_disable_mac_mcu_bps ;;;
    v <- rtl8126_get_hw_mcu_patch_code_ver ;;
    smodify (set_patch_code_ver v) ;;;
    let m := mcfg s in
    if m =? 1 then rtl8126_set_mac_mcu_8126a_1
    else if m =? 2 then rtl8126_set_mac_mcu_8126a_2
    else if m =? 3 then rtl8126_set_mac_mcu_8126a_3
    else sret tt.

(** ** PHY microcode *)

Definition rtl8126_check_hw_phy_mcu_code_ver : ST Z :=
  v <- rtl8126_get_hw_phy_mcu_code_ver ;;
  smodify (set_hw_ram_code_ver v) ;;;
  sw <- tp_get (fun s => sw_ram_code_ver s) ;;
  if v =? sw then smodify (set_HwHasWr 1) ;;; sret 1 else sret 0.

Definition rtl8126_set_phy_mcu_ram_code (ramcode : list Z) : ST unit :=
  if Nat.odd (length ramcode) then sret tt else ram_code_loop ramcode.

(** A patch between the request and its withdrawal. *)
Definition rtl8126_with_patch_request (m : ST unit) : ST unit :=
  rtl8126_set_phy_mcu_patch_request ;;; m ;;; rtl8126_clear_phy_mcu_patch_request ;;; sret tt.

Definition rtl8126_real_set_phy_mcu_8126a_1_1 : ST unit :=
  rtl8126_set_phy_mcu_ram_code phy_mcu_ram_code_8126a_1_1.

Definition rtl8126_real_set_phy_mcu_8126a_1_2 : ST unit :=
  rtl8126_set_phy_mcu_ram_code phy_mcu_ram_code_8126a_1_2.

Definition rtl8126_real_set_phy_mcu_8126a_1_3 : ST unit :=
  rtl8126_set_phy_mcu_ram_code phy_mcu_ram_code_8126a_1_3.

Definition rtl8126_real_set_phy_mcu_8126a_2_1 : ST unit :=
  rtl8126_set_phy_mcu_ram_code phy_mcu_ram_code_8126a_2_1.

Definition rtl8126_real_set_phy_mcu_8126a_2_3 : ST unit :=
  rtl8126_set_phy_mcu_ram_code phy_mcu_ram_code_8126a_2_3.

Definition rtl8126_real_set_phy_mcu_8126a_3_1 : ST unit :=
  rtl8126_set_phy_mcu_ram_code phy_mcu_ram_code_8126a_3_1.

Definition rtl8126_set_phy_mcu_8126a_1 : ST unit :=
  rtl8126_with_patch_request rtl8126_real_set_phy_mcu_8126a_1_1 ;;;
  rtl8126_with_patch_request rtl8126_real_set_phy_mcu_8126a_1_2 ;;;
  rtl8126_with_patch_request rtl8126_real_set_phy_mcu_8126a_1_3.

Definition rtl8126_set_phy_mcu_8126a_2 : ST unit :=
  rtl8126_with_patch_request rtl8126_real_set_phy_mcu_8126a_2_1 ;;;
  rtl8126_with_patch_request rtl8126_real_set_phy_mcu_8126a_2_3.

Definition rtl8126_set_phy_mcu_8126a_3 : ST unit :=
  rtl8126_with_patch_request rtl8126_real_set_phy_mcu_8126a_3_1.

(** The microcode of the chip. *)
Definition set_phy_mcu_8126 (m : Z) : ST unit :=
  if m =? 1 then rtl8126_set_phy_mcu_8126a_1
  else if m =? 2 then rtl8126_set_phy_mcu_8126a_2
  else if m =? 3 then rtl8126_set_phy_mcu_8126a_3
  else sret tt.

Definition rtl8126_init_hw_phy_mcu : ST unit :=
  s <- tp_get id ;;
  if NotWrRamCodeToMicroP s =? 1 then sret tt
  else
    same <- rtl8126_check_hw_phy_mcu_code_ver ;;
    if tst same then sret tt
    else
      disable <- (if HW_SUPPORT_CHECK_PHY_DISABLE_MODE s then rtl8126_is_in_phy_disable_mode else sret false) ;;
      swhen disable rtl8126_disable_phy_disable_mode ;;;
      set_phy_mcu_8126 (mcfg s) ;;;
      swhen disable rtl8126_enable_phy_disable_mode ;;;
      rtl8126_write_hw_phy_mcu_code_ver ;;;
      rtl8126_mdio_write 0x1F 0x0000 ;;;
      smodify (set_HwHasWr 1).

(** ** Tuning *)

Definition rtl8126_hw_phy_config_8126a_1 : ST unit :=
  s <- tp_get id ;;
  phy_seq [
       se 0xA442 (BIT 11)] ;;;
  swhen (tst (aspm s) && HW_HAS_WRITE_PHY_MCU_RAM_CODE s) rtl8126_enable_phy_aldps.

Definition phy_config_8126a_2_1 : list phy_op := [
   se 0xA442 (BIT 11); wr 0xA436 0x80BF; mo 0xA438 0xFF00 0xED00; wr 0xA436 0x80CD;
   mo 0xA438 0xFF00 0x1000; wr 0xA436 0x80D1; mo 0xA438 0xFF00 0xC800; wr 0xA436 0x80D4;
   mo 0xA438 0xFF00 0xC800; wr 0xA436 0x80E1; wr 0xA438 0x10CC; wr 0xA436 0x80E5;
   wr 0xA438 0x4F0C; wr 0xA436 0x8387; mo 0xA438 0xFF00 0x4700;
   mo 0xA80C (bits_or [7; 6]) (BIT 7); cl 0xAC90 (BIT 4); cl 0xAD2C (BIT 15); wr 0xB87C 0x8321;
   mo 0xB87E 0xFF00 0x1100; se 0xACF8 (bits_or [3; 2])].

Definition phy_config_8126a_2_2 : list phy_op := [
   wr 0xA436 0x8183; mo 0xA438 0xFF00 0x5900; se 0xAD94 (BIT 5); cl 0xA654 (BIT 11);
   se 0xB648 (BIT 14); wr 0xB87C 0x839E; mo 0xB87E 0xFF00 0x2F00; wr 0xB87C 0x83F2;
   mo 0xB87E 0xFF00 0x0800; se 0xADA0 (BIT 1); wr 0xB87C 0x80F3; mo 0xB87E 0xFF00 0x9900;
   wr 0xB87C 0x8126; mo 0xB87E 0xFF00 0xC100; wr 0xB87C 0x893A; wr 0xB87E 0x8080;
   wr 0xB87C 0x8647; mo 0xB87E 0xFF00 0xE600; wr 0xB87C 0x862C; mo 0xB87E 0xFF00 0x1200;
   wr 0xB87C 0x864A; mo 0xB87E 0xFF00 0xE600; wr 0xB87C 0x80A0; wr 0xB87E 0xBCBC;
   wr 0xB87C 0x805E; wr 0xB87E 0xBCBC; wr 0xB87C 0x8056; wr 0xB87E 0x3077; wr 0xB87C 0x8058;
   mo 0xB87E 0xFF00 0x5A00; wr 0xB87C 0x8098; wr 0xB87E 0x3077; wr 0xB87C 0x809A;
   mo 0xB87E 0xFF00 0x5A00; wr 0xB87C 0x8052; wr 0xB87E 0x3733; wr 0xB87C 0x8094;
   wr 0xB87E 0x3733; wr 0xB87C 0x807F; wr 0xB87E 0x7C75; wr 0xB87C 0x803D; wr 0xB87E 0x7C75;
   wr 0xB87C 0x8036; mo 0xB87E 0xFF00 0x3000; wr 0xB87C 0x8078; mo 0xB87E 0xFF00 0x3000;
   wr 0xB87C 0x8031; mo 0xB87E 0xFF00 0x3300; wr 0xB87C 0x8073; mo 0xB87E 0xFF00 0x3300;
   mo 0xAE06 0xFC00 0x7C00; wr 0xB87C 0x89D1; wr 0xB87E 0x0004; wr 0xA436 0x8FBD;
   mo 0xA438 0xFF00 0x0A00; wr 0xA436 0x8FBE; wr 0xA438 0x0D09; wr 0xB87C 0x89CD;
   wr 0xB87E 0x0F0F; wr 0xB87C 0x89CF; wr 0xB87E 0x0F0F; wr 0xB87C 0x83A4; wr 0xB87E 0x6600;
   wr 0xB87C 0x83A6; wr 0xB87E 0x6601; wr 0xB87C 0x83C0; wr 0xB87E 0x6600; wr 0xB87C 0x83C2;
   wr 0xB87E 0x6601; wr 0xB87C 0x8414; wr 0xB87E 0x6600; wr 0xB87C 0x8416; wr 0xB87E 0x6601;
   wr 0xB87C 0x83F8; wr 0xB87E 0x6600; wr 0xB87C 0x83FA; wr 0xB87E 0x6601].

Definition phy_config_8126a_2_3 : list phy_op := [
   wr 0xA436 0x843B; mo 0xA438 0xFF00 0x2000; wr 0xA436 0x843D; mo 0xA438 0xFF00 0x2000;
   cl 0xB516 0x7F; cl 0xBF80 (bits_or [5; 4])].

Definition phy_config_8126a_2_4 : list phy_op := [
   wr 0xA436 0x8188; wr 0xA438 0x0044; wr 0xA438 0x00A8; wr 0xA438 0x00D6; wr 0xA438 0x00EC;
   wr 0xA438 0x00F6; wr 0xA438 0x00FC; wr 0xA438 0x00FE; wr 0xA438 0x00FE; wr 0xA438 0x00BC;
   wr 0xA438 0x0058; wr 0xA438 0x002A; wr 0xB87C 0x8015; mo 0xB87E 0xFF00 0x0800;
   wr 0xB87C 0x8FFD; mo 0xB87E 0xFF00 0x0000; wr 0xB87C 0x8FFF; mo 0xB87E 0xFF00 0x7F00;
   wr 0xB87C 0x8FFB; mo 0xB87E 0xFF00 0x0100; wr 0xB87C 0x8FE9; wr 0xB87E 0x0002;
   wr 0xB87C 0x8FEF; wr 0xB87E 0x00A5; wr 0xB87C 0x8FF1; wr 0xB87E 0x0106; wr 0xB87C 0x8FE1;
   wr 0xB87E 0x0102; wr 0xB87C 0x8FE3; mo 0xB87E 0xFF00 0x0400; se 0xA654 (BIT 11);
   cl 0xA65A (bits_or [1; 0]); wr 0xAC3A 0x5851; mo 0xAC3C (bits_or [15; 14; 12]) (BIT 13);
   mo 0xAC42 (BIT 9) (bits_or [8; 7; 6]); cl 0xAC3E (bits_or [15; 14; 13]);
   cl 0xAC42 (bits_or [5; 4; 3]); mo 0xAC42 (BIT 1) (bits_or [2; 0]); wr 0xAC1A 0x00DB;
   wr 0xADE4 0x01B5; cl 0xAD9C (bits_or [11; 10]); wr 0xB87C 0x814B; mo 0xB87E 0xFF00 0x1100;
   wr 0xB87C 0x814D; mo 0xB87E 0xFF00 0x1100; wr 0xB87C 0x814F; mo 0xB87E 0xFF00 0x0B00;
   wr 0xB87C 0x8142; mo 0xB87E 0xFF00 0x0100; wr 0xB87C 0x8144; mo 0xB87E 0xFF00 0x0100;
   wr 0xB87C 0x8150; mo 0xB87E 0xFF00 0x0100; wr 0xB87C 0x8118; mo 0xB87E 0xFF00 0x0700;
   wr 0xB87C 0x811A; mo 0xB87E 0xFF00 0x0700; wr 0xB87C 0x811C; mo 0xB87E 0xFF00 0x0500;
   wr 0xB87C 0x810F; mo 0xB87E 0xFF00 0x0100; wr 0xB87C 0x8111; mo 0xB87E 0xFF00 0x0100;
   wr 0xB87C 0x811D; mo 0xB87E 0xFF00 0x0100; se 0xAC36 (BIT 12); cl 0xAD1C (BIT 8)].

Definition phy_config_8126a_2_5 : list phy_op := [
   mo 0xADE8 0xFFC0 0x1400; wr 0xB87C 0x864B; mo 0xB87E 0xFF00 0x9D00; wr 0xA436 0x8F97;
   wr 0xA438 0x003F; wr 0xA438 0x3F02; wr 0xA438 0x023C; wr 0xA438 0x3B0A; wr 0xA438 0x1C00;
   wr 0xA438 0x0000; wr 0xA438 0x0000; wr 0xA438 0x0000; wr 0xA438 0x0000; se 0xAD9C (BIT 5);
   wr 0xB87C 0x8122; mo 0xB87E 0xFF00 0x0C00; wr 0xB87C 0x82C8; wr 0xB87E 0x03ED;
   wr 0xB87E 0x03FF; wr 0xB87E 0x0009; wr 0xB87E 0x03FE; wr 0xB87E 0x000B; wr 0xB87E 0x0021;
   wr 0xB87E 0x03F7; wr 0xB87E 0x03B8; wr 0xB87E 0x03E0; wr 0xB87E 0x0049; wr 0xB87E 0x0049;
   wr 0xB87E 0x03E0; wr 0xB87E 0x03B8; wr 0xB87E 0x03F7; wr 0xB87E 0x0021; wr 0xB87E 0x000B;
   wr 0xB87E 0x03FE; wr 0xB87E 0x0009; wr 0xB87E 0x03FF; wr 0xB87E 0x03ED; wr 0xB87C 0x80EF;
   mo 0xB87E 0xFF00 0x0C00; wr 0xB87C 0x82A0; wr 0xB87E 0x000E; wr 0xB87E 0x03FE;
   wr 0xB87E 0x03ED; wr 0xB87E 0x0006; wr 0xB87E 0x001A; wr 0xB87E 0x03F1; wr 0xB87E 0x03D8;
   wr 0xB87E 0x0023; wr 0xB87E 0x0054; wr 0xB87E 0x0322; wr 0xB87E 0x00DD; wr 0xB87E 0x03AB;
   wr 0xB87E 0x03DC; wr 0xB87E 0x0027; wr 0xB87E 0x000E; wr 0xB87E 0x03E5; wr 0xB87E 0x03F9;
   wr 0xB87E 0x0012; wr 0xB87E 0x0001; wr 0xB87E 0x03F1; wr 0xA436 0x8018; se 0xA438 (BIT 13);
   wr 0xB87C 0x8FE4; mo 0xB87E 0xFF00 0x0000; mo 0xB54C 0xFFC0 0x3700].

Definition rtl8126_hw_phy_config_8126a_2 : ST unit :=
  s <- tp_get id ;;
  phy_seq phy_config_8126a_2_1 ;;;
  phy_seq phy_config_8126a_2_2 ;;;
  rtl8126_set_phy_mcu_patch_request ;;;
  phy_seq [
       mo 0xBD96 0x1F00 0x1000; mo 0xBF1C 0x0007 0x0007; cl 0xBFBE (BIT 15);
       mo 0xBF40 0x0380 0x0280; mo 0xBF90 (BIT 7) (bits_or [6; 5]);
       mo 0xBF90 (BIT 4) (bits_or [3; 2])] ;;;
  rtl8126_clear_phy_mcu_patch_request ;;;
  phy_seq phy_config_8126a_2_3 ;;;
  phy_seq phy_config_8126a_2_4 ;;;
  phy_seq phy_config_8126a_2_5 ;;;
  swhen (tst (aspm s) && HW_HAS_WRITE_PHY_MCU_RAM_CODE s) rtl8126_enable_phy_aldps.

Definition phy_config_8126a_3_1 : list phy_op := [
   se 0xA442 (BIT 11); wr 0xA436 0x8183; mo 0xA438 0xFF00 0x5900; se 0xA654 (BIT 11);
   se 0xB648 (BIT 14); se 0xAD2C (BIT 15); se 0xAD94 (BIT 5); se 0xADA0 (BIT 1);
   mo 0xAE06 (bits_or [15; 14; 13; 12; 11; 10]) (bits_or [14; 13; 12; 11; 10]); wr 0xB87C 0x8647;
   mo 0xB87E 0xFF00 0xE600; wr 0xB87C 0x8036; mo 0xB87E 0xFF00 0x3000; wr 0xB87C 0x8078;
   mo 0xB87E 0xFF00 0x3000; wr 0xB87C 0x89E9; se 0xB87E 0xFF00; wr 0xB87C 0x8FFD;
   mo 0xB87E 0xFF00 0x0100; wr 0xB87C 0x8FFE; mo 0xB87E 0xFF00 0x0200; wr 0xB87C 0x8FFF;
   mo 0xB87E 0xFF00 0x0400; wr 0xA436 0x8018; mo 0xA438 0xFF00 0x7700; wr 0xA436 0x8F9C;
   wr 0xA438 0x0005; wr 0xA438 0x0000; wr 0xA438 0x00ED; wr 0xA438 0x0502; wr 0xA438 0x0B00;
   wr 0xA438 0xD401].

Definition phy_config_8126a_3_2 : list phy_op := [
   wr 0xA436 0x8FA8; mo 0xA438 0xFF00 0x2900; wr 0xB87C 0x814B; mo 0xB87E 0xFF00 0x1100;
   wr 0xB87C 0x814D; mo 0xB87E 0xFF00 0x1100; wr 0xB87C 0x814F; mo 0xB87E 0xFF00 0x0B00;
   wr 0xB87C 0x8142; mo 0xB87E 0xFF00 0x0100; wr 0xB87C 0x8144; mo 0xB87E 0xFF00 0x0100;
   wr 0xB87C 0x8150; mo 0xB87E 0xFF00 0x0100; wr 0xB87C 0x8118; mo 0xB87E 0xFF00 0x0700;
   wr 0xB87C 0x811A; mo 0xB87E 0xFF00 0x0700; wr 0xB87C 0x811C; mo 0xB87E 0xFF00 0x0500;
   wr 0xB87C 0x810F; mo 0xB87E 0xFF00 0x0100; wr 0xB87C 0x8111; mo 0xB87E 0xFF00 0x0100;
   wr 0xB87C 0x811D; mo 0xB87E 0xFF00 0x0100; se 0xAD1C (BIT 8);
   mo 0xADE8 (bits_or [15; 14; 13; 12; 11; 10; 9; 8; 7; 6]) (bits_or [12; 10]); wr 0xB87C 0x864B;
   mo 0xB87E 0xFF00 0x9D00; wr 0xB87C 0x862C; mo 0xB87E 0xFF00 0x1200].

Definition phy_config_8126a_3_3 : list phy_op := [
   wr 0xA436 0x8566; wr 0xA438 0x003F; wr 0xA438 0x3F02; wr 0xA438 0x023C; wr 0xA438 0x3B0A;
   wr 0xA438 0x1C00; wr 0xA438 0x0000; wr 0xA438 0x0000; wr 0xA438 0x0000; wr 0xA438 0x0000;
   se 0xAD9C (BIT 5); wr 0xB87C 0x8122; mo 0xB87E 0xFF00 0x0C00; wr 0xB87C 0x82C8;
   wr 0xB87E 0x03ED; wr 0xB87E 0x03FF; wr 0xB87E 0x0009; wr 0xB87E 0x03FE; wr 0xB87E 0x000B;
   wr 0xB87E 0x0021; wr 0xB87E 0x03F7; wr 0xB87E 0x03B8; wr 0xB87E 0x03E0; wr 0xB87E 0x0049;
   wr 0xB87E 0x0049; wr 0xB87E 0x03E0; wr 0xB87E 0x03B8; wr 0xB87E 0x03F7; wr 0xB87E 0x0021;
   wr 0xB87E 0x000B; wr 0xB87E 0x03FE; wr 0xB87E 0x0009; wr 0xB87E 0x03FF; wr 0xB87E 0x03ED;
   wr 0xB87C 0x80EF; mo 0xB87E 0xFF00 0x0C00; wr 0xB87C 0x82A0; wr 0xB87E 0x000E;
   wr 0xB87E 0x03FE; wr 0xB87E 0x03ED; wr 0xB87E 0x0006; wr 0xB87E 0x001A; wr 0xB87E 0x03F1;
   wr 0xB87E 0x03D8; wr 0xB87E 0x0023; wr 0xB87E 0x0054; wr 0xB87E 0x0322; wr 0xB87E 0x00DD;
   wr 0xB87E 0x03AB; wr 0xB87E 0x03DC; wr 0xB87E 0x0027; wr 0xB87E 0x000E; wr 0xB87E 0x03E5;
   wr 0xB87E 0x03F9; wr 0xB87E 0x0012; wr 0xB87E 0x0001; wr 0xB87E 0x03F1;
   se 0xA430 (bits_or [1; 0]); mo 0xB54C 0xFFC0 0x3700; se 0xB648 (BIT 6); wr 0xB87C 0x8082;
   mo 0xB87E 0xFF00 0x5D00; wr 0xB87C 0x807C; mo 0xB87E 0xFF00 0x5000; wr 0xB87C 0x809D;
   mo 0xB87E 0xFF00 0x5000].

Definition rtl8126_hw_phy_config_8126a_3 : ST unit :=
  s <- tp_get id ;;
  phy_seq phy_config_8126a_3_1 ;;;
  phy_seq phy_config_8126a_3_2 ;;;
  phy_seq phy_config_8126a_3_3 ;;;
  swhen (tst (aspm s) && HW_HAS_WRITE_PHY_MCU_RAM_CODE s) rtl8126_enable_phy_aldps.

End Chip.
