(* ===== verification/Rtl8127Code.v ===== *)
(** * r8127: the microcode tables

    The constant arrays of src/.../realtek/r8127/r8127_n.c, word for word, as in
    [RtlRamCode]: the patches of the PHY microcontroller as address/value pairs
    with an end mark, and the [mcu_patch_code] of each [rtl8127_set_mac_mcu_*]. *)
From S2P Require Import Prelude RtlRamCode.
Local Open Scope Z_scope.

(** ** PHY *)

Definition phy_mcu_ram_code_8127a_tc_1_p1 : list Z := [
  0xa436; 0x8023; 0xa438; 0x3200; 0xa436; 0xB82E; 0xa438; 0x0001; 0xBF8E; 0x1410; 0xBF8E; 0x1410;
  0xBF90; 0xC20E; 0xBF9E; 0xBFFC; 0xBFAA; 0x1924; 0xBFB4; 0x0B1E; 0xBFB6; 0x3740; 0xBFB8; 0x460E;
  0xBFBE; 0x000D; 0xBF8A; 0x3FF7; 0xBF9A; 0x0007; 0xBF1E; 0x01FF; 0xBF1E; 0x01FF; 0xBF1E; 0x01FF;
  0xBF2E; 0x454D; 0xbc10; 0xD50C; 0xbc10; 0x950C; 0xbc10; 0xD50C; 0xbc10; 0x550C; 0xbddE; 0xEF00;
  0xbd32; 0xF000; 0xbd2C; 0x0800; 0xbdc8; 0x04B0; 0xbdc8; 0x0CB0; 0xBD92; 0x0003; 0xBD94; 0x8000;
  0xBD96; 0x000f; 0xBD96; 0x0000; 0xBD92; 0x0016; 0xBD94; 0x1000; 0xBD96; 0x000f; 0xBD96; 0x0000;
  0xBD92; 0x0016; 0xBD94; 0x1200; 0xBD96; 0x000f; 0xBD96; 0x0000; 0xBD92; 0x0000; 0xBD94; 0x1F1F;
  0xBD96; 0x000f; 0xBD96; 0x0000; 0xBD92; 0x0001; 0xBD94; 0x1F00; 0xBD96; 0x000f; 0xBD96; 0x0000;
  0xBD92; 0x0003; 0xBD94; 0x0000; 0xBD96; 0x000f; 0xBD96; 0x0000; 0xBD92; 0x0016; 0xBD94; 0x0000;
  0xBD96; 0x000f; 0xBD96; 0x0000; 0xBD92; 0x0000; 0xBD94; 0x0000; 0xBD96; 0x000f; 0xBD96; 0x0000;
  0xbdc8; 0x08B0; 0xbdc8; 0x00B0; 0xbd32; 0x0000; 0xbd2C; 0x0000; 0xbc10; 0x750C; 0xbc10; 0x650C;
  0xbc10; 0x750C; 0xbc10; 0x550C; 0xb820; 0x0090; 0xa436; 0xA016; 0xa438; 0x0000; 0xa436; 0xA012;
  0xa438; 0x0000; 0xa436; 0xA014; 0xa438; 0x1800; 0xa438; 0x8010; 0xa438; 0x1800; 0xa438; 0x809b;
  0xa438; 0x1800; 0xa438; 0x8145; 0xa438; 0x1800; 0xa438; 0x8197; 0xa438; 0x1800; 0xa438; 0x81d4;
  0xa438; 0x1800; 0xa438; 0x8214; 0xa438; 0x1800; 0xa438; 0x8226; 0xa438; 0x1800; 0xa438; 0x8232;
  0xa438; 0xd707; 0xa438; 0x4141; 0xa438; 0xd70a; 0xa438; 0x4115; 0xa438; 0xd705; 0xa438; 0x40da;
  0xa438; 0xb808; 0xa438; 0xd028; 0xa438; 0xd1c1; 0xa438; 0x1800; 0xa438; 0x801e; 0xa438; 0x9808;
  0xa438; 0xd07b; 0xa438; 0xd1c5; 0xa438; 0xbe10; 0xa438; 0xd503; 0xa438; 0xa108; 0xa438; 0xd505;
  0xa438; 0x8103; 0xa438; 0xd504; 0xa438; 0xa002; 0xa438; 0xa302; 0xa438; 0xd707; 0xa438; 0x4061;
  0xa438; 0xd503; 0xa438; 0x8b01; 0xa438; 0xd500; 0xa438; 0xc48a; 0xa438; 0xd503; 0xa438; 0xcc09;
  0xa438; 0xcd58; 0xa438; 0xaf01; 0xa438; 0xd500; 0xa438; 0x1000; 0xa438; 0x1764; 0xa438; 0xd719;
  0xa438; 0x606c; 0xa438; 0xd704; 0xa438; 0x645c; 0xa438; 0xd75e; 0xa438; 0x604d; 0xa438; 0xfff8;
  0xa438; 0x9e10; 0xa438; 0x1000; 0xa438; 0x1764; 0xa438; 0xd719; 0xa438; 0x606c; 0xa438; 0xd704;
  0xa438; 0x631c; 0xa438; 0xd75e; 0xa438; 0x404d; 0xa438; 0xfff8; 0xa438; 0xd504; 0xa438; 0xaa18;
  0xa438; 0xa001; 0xa438; 0xa1e0; 0xa438; 0xd500; 0xa438; 0x1000; 0xa438; 0x1764; 0xa438; 0xd719;
  0xa438; 0x7fac; 0xa438; 0xd504; 0xa438; 0xa001; 0xa438; 0xd500; 0xa438; 0x1000; 0xa438; 0x1764;
  0xa438; 0xd704; 0xa438; 0x5f5c; 0xa438; 0xd719; 0xa438; 0x3aaf; 0xa438; 0x8058; 0xa438; 0xf016;
  0xa438; 0xd707; 0xa438; 0x6121; 0xa438; 0x1000; 0xa438; 0x16f8; 0xa438; 0xd503; 0xa438; 0xcd59;
  0xa438; 0xaf01; 0xa438; 0xd500; 0xa438; 0x1800; 0xa438; 0x0e49; 0xa438; 0xd503; 0xa438; 0x8040;
  0xa438; 0xd500; 0xa438; 0x1000; 0xa438; 0x16f8; 0xa438; 0xd503; 0xa438; 0xcd5a; 0xa438; 0xaf01;
  0xa438; 0xd500; 0xa438; 0x1800; 0xa438; 0x0e2f; 0xa438; 0xd504; 0xa438; 0xa008; 0xa438; 0xa204;
  0xa438; 0xd500; 0xa438; 0x1000; 0xa438; 0x1764; 0xa438; 0xd701; 0xa438; 0x5fa0; 0xa438; 0xd503;
  0xa438; 0xa082; 0xa438; 0xd500; 0xa438; 0xd71e; 0xa438; 0x4097; 0xa438; 0xd078; 0xa438; 0xd1aa;
  0xa438; 0xf003; 0xa438; 0xd078; 0xa438; 0xd1aa; 0xa438; 0xd707; 0xa438; 0x4081; 0xa438; 0xd70a;
  0xa438; 0x4055; 0xa438; 0xf014; 0xa438; 0xd706; 0xa438; 0x6065; 0xa438; 0xcc89; 0xa438; 0xf002;
  0xa438; 0xcc8b; 0xa438; 0x1000; 0xa438; 0x0bb2; 0xa438; 0xd705; 0xa438; 0x2ad0; 0xa438; 0x808f;
  0xa438; 0xf003; 0xa438; 0x1000; 0xa438; 0x0bb8; 0xa438; 0x1000; 0xa438; 0x0bbe; 0xa438; 0x607a;
  0xa438; 0x9c01; 0xa438; 0xf002; 0xa438; 0xbc01; 0xa438; 0x1000; 0xa438; 0x0cc9; 0xa438; 0x1800;
  0xa438; 0x132f; 0xa438; 0x9a10; 0xa438; 0x9d02; 0xa438; 0xd706; 0xa438; 0x629a; 0xa438; 0x61bb;
  0xa438; 0xd707; 0xa438; 0x60d7; 0xa438; 0xd70a; 0xa438; 0x6196; 0xa438; 0xd0e5; 0xa438; 0xd1e7;
  0xa438; 0xf012; 0xa438; 0xd70a; 0xa438; 0x5f55; 0xa438; 0xd060; 0xa438; 0xd1e8; 0xa438; 0xf00d;
  0xa438; 0xd056; 0xa438; 0xd1e8; 0xa438; 0xf00a; 0xa438; 0xd043; 0xa438; 0xd1e8; 0xa438; 0xf007;
  0xa438; 0x609b; 0xa438; 0xd078; 0xa438; 0xd1e9; 0xa438; 0xf003; 0xa438; 0xd07f; 0xa438; 0xd1e9;
  0xa438; 0xd503; 0xa438; 0xab01; 0xa438; 0xd500; 0xa438; 0xd706; 0xa438; 0x6139; 0xa438; 0xd503;
  0xa438; 0x6065; 0xa438; 0xa7f0; 0xa438; 0xf003; 0xa438; 0x0cf0; 0xa438; 0x0750; 0xa438; 0x8908;
  0xa438; 0xf004; 0xa438; 0xd503; 0xa438; 0xa908; 0xa438; 0x87f0; 0xa438; 0xd503; 0xa438; 0xa040;
  0xa438; 0xd500; 0xa438; 0xd705; 0xa438; 0x407b; 0xa438; 0x1000; 0xa438; 0x1ac8; 0xa438; 0xd503;
  0xa438; 0x0c07; 0xa438; 0x0902; 0xa438; 0xa008; 0xa438; 0xd500; 0xa438; 0x9d80; 0xa438; 0xc48c;
  0xa438; 0xd73e; 0xa438; 0x6000; 0xa438; 0xd706; 0xa438; 0x419b; 0xa438; 0xd503; 0xa438; 0x0c87;
  0xa438; 0x0981; 0xa438; 0xd500; 0xa438; 0xd073; 0xa438; 0xd1b7; 0xa438; 0xc490; 0xa438; 0x1000;
  0xa438; 0x1764; 0xa438; 0xd704; 0xa438; 0x5fbb; 0xa438; 0xd503; 0xa438; 0xd706; 0xa438; 0x607a;
  0xa438; 0x617c; 0xa438; 0xf013; 0xa438; 0xd70b; 0xa438; 0x40b4; 0xa438; 0xd706; 0xa438; 0x6309;
  0xa438; 0x6348; 0xa438; 0xf025; 0xa438; 0xd706; 0xa438; 0x6408; 0xa438; 0xf022; 0xa438; 0xd70b;
  0xa438; 0x40b4; 0xa438; 0xd706; 0xa438; 0x6429; 0xa438; 0x6468; 0xa438; 0xf028; 0xa438; 0xd706;
  0xa438; 0x6468; 0xa438; 0xf025; 0xa438; 0xd70b; 0xa438; 0x67d4; 0xa438; 0xd706; 0xa438; 0x6488;
  0xa438; 0x6589; 0xa438; 0x2c69; 0xa438; 0x8135; 0xa438; 0x66ab; 0xa438; 0xf037; 0xa438; 0xc320;
  0xa438; 0xc420; 0xa438; 0xf03c; 0xa438; 0xd707; 0xa438; 0x6077; 0xa438; 0xc310; 0xa438; 0xf004;
  0xa438; 0xd70a; 0xa438; 0x5fb5; 0xa438; 0xc340; 0xa438; 0xc410; 0xa438; 0xf033; 0xa438; 0xc340;
  0xa438; 0xc420; 0xa438; 0xf030; 0xa438; 0xc340; 0xa438; 0xc440; 0xa438; 0xf02d; 0xa438; 0xc304;
  0xa438; 0xc408; 0xa438; 0xf02a; 0xa438; 0xc302; 0xa438; 0xc404; 0xa438; 0xf027; 0xa438; 0xc308;
  0xa438; 0xc408; 0xa438; 0xf024; 0xa438; 0xc308; 0xa438; 0xc410; 0xa438; 0xf021; 0xa438; 0xd707;
  0xa438; 0x6077; 0xa438; 0xc304; 0xa438; 0xf004; 0xa438; 0xd70a; 0xa438; 0x5fb5; 0xa438; 0xc308;
  0xa438; 0xc408; 0xa438; 0xf018; 0xa438; 0xd707; 0xa438; 0x6077; 0xa438; 0xc308; 0xa438; 0xf004;
  0xa438; 0xd70a; 0xa438; 0x5fb5; 0xa438; 0xc310; 0xa438; 0xc410; 0xa438; 0xf00f; 0xa438; 0xc304;
  0xa438; 0xc408; 0xa438; 0xf00c; 0xa438; 0xc302; 0xa438; 0xc404; 0xa438; 0xf009; 0xa438; 0xd707;
  0xa438; 0x6077; 0xa438; 0xc308; 0xa438; 0xf004; 0xa438; 0xd70a; 0xa438; 0x5fb5; 0xa438; 0xc310;
  0xa438; 0xc410; 0xa438; 0x1800; 0xa438; 0x14e7; 0xa438; 0xd07b; 0xa438; 0xd1c5; 0xa438; 0xd503;
  0xa438; 0xa028; 0xa438; 0x8970; 0xa438; 0x880f; 0xa438; 0x0c0f; 0xa438; 0x0909; 0xa438; 0x87f0;
  0xa438; 0xc600; 0xa438; 0xa521; 0xa438; 0xd501; 0xa438; 0xce01; 0xa438; 0xa202; 0xa438; 0xa201;
  0xa438; 0x8201; 0xa438; 0xce00; 0xa438; 0xd500; 0xa438; 0xd706; 0xa438; 0x4425; 0xa438; 0xd503;
  0xa438; 0xab80; 0xa438; 0xd500; 0xa438; 0x1000; 0xa438; 0x0c1d; 0xa438; 0xd501; 0xa438; 0xce01;
  0xa438; 0xaac0; 0xa438; 0xd00d; 0xa438; 0xd1a2; 0xa438; 0xd700; 0xa438; 0x401a; 0xa438; 0xa60c;
  0xa438; 0xd010; 0xa438; 0xd1a2; 0xa438; 0xd700; 0xa438; 0x401a; 0xa438; 0xa70c; 0xa438; 0xd09e;
  0xa438; 0xd1a2; 0xa438; 0xd700; 0xa438; 0x401a; 0xa438; 0xce00; 0xa438; 0xd500; 0xa438; 0xd505;
  0xa438; 0xab01; 0xa438; 0xd500; 0xa438; 0x1000; 0xa438; 0x0c30; 0xa438; 0xd505; 0xa438; 0x8b01;
  0xa438; 0xd500; 0xa438; 0xbc02; 0xa438; 0xc482; 0xa438; 0xd503; 0xa438; 0xcc01; 0xa438; 0xcd0c;
  0xa438; 0xaf01; 0xa438; 0xd500; 0xa438; 0xd75e; 0xa438; 0x4000; 0xa438; 0xd706; 0xa438; 0x4245;
  0xa438; 0x1000; 0xa438; 0x0c1d; 0xa438; 0xd501; 0xa438; 0xce01; 0xa438; 0x8ac0; 0xa438; 0x860c;
  0xa438; 0x870c; 0xa438; 0xce00; 0xa438; 0xd500; 0xa438; 0xd505; 0xa438; 0xab01; 0xa438; 0xd500;
  0xa438; 0x1000; 0xa438; 0x0c30; 0xa438; 0xd505; 0xa438; 0x8b01; 0xa438; 0xd500; 0xa438; 0x1800;
  0xa438; 0x0e74; 0xa438; 0xd707; 0xa438; 0x43cf; 0xa438; 0x1000; 0xa438; 0x0c1d; 0xa438; 0xd501;
  0xa438; 0xce01; 0xa438; 0xaac0; 0xa438; 0xd00d; 0xa438; 0xd1a2; 0xa438; 0xd700; 0xa438; 0x401a;
  0xa438; 0xa60c; 0xa438; 0xd010; 0xa438; 0xd1a2; 0xa438; 0xd700; 0xa438; 0x401a; 0xa438; 0xa70c;
  0xa438; 0xd09e; 0xa438; 0xd1a2; 0xa438; 0xd700; 0xa438; 0x401a; 0xa438; 0xce00; 0xa438; 0xd500;
  0xa438; 0xd505; 0xa438; 0xab01; 0xa438; 0xd500; 0xa438; 0x1000; 0xa438; 0x0c30; 0xa438; 0xd505;
  0xa438; 0x8b01; 0xa438; 0xd500; 0xa438; 0xd501; 0xa438; 0xce00; 0xa438; 0xab10; 0xa438; 0xbb10;
  0xa438; 0x9c02; 0xa438; 0xd75e; 0xa438; 0x6000; 0xa438; 0xd707; 0xa438; 0x424f; 0xa438; 0x1000;
  0xa438; 0x0c1d; 0xa438; 0xd501; 0xa438; 0xce01; 0xa438; 0x8ac0; 0xa438; 0x860c; 0xa438; 0x870c;
  0xa438; 0xce00; 0xa438; 0xd500; 0xa438; 0xd505; 0xa438; 0xab01; 0xa438; 0xd500; 0xa438; 0x1000;
  0xa438; 0x0c30; 0xa438; 0xd505; 0xa438; 0x8b01; 0xa438; 0xd500; 0xa438; 0x9808; 0xa438; 0x9c01;
  0xa438; 0x1800; 0xa438; 0x172a; 0xa438; 0xd707; 0xa438; 0x43cf; 0xa438; 0x1000; 0xa438; 0x0c1d;
  0xa438; 0xd501; 0xa438; 0xce01; 0xa438; 0xaac0; 0xa438; 0xd00d; 0xa438; 0xd1a2; 0xa438; 0xd700;
  0xa438; 0x401a; 0xa438; 0xa60c; 0xa438; 0xd010; 0xa438; 0xd1a2; 0xa438; 0xd700; 0xa438; 0x401a;
  0xa438; 0xa70c; 0xa438; 0xd09e; 0xa438; 0xd1a2; 0xa438; 0xd700; 0xa438; 0x401a; 0xa438; 0xce00;
  0xa438; 0xd500; 0xa438; 0xd505; 0xa438; 0xab01; 0xa438; 0xd500; 0xa438; 0x1000; 0xa438; 0x0c30;
  0xa438; 0xd505; 0xa438; 0x8b01; 0xa438; 0xd500; 0xa438; 0x1000; 0xa438; 0x1a6b; 0xa438; 0x9808;
  0xa438; 0x9c01; 0xa438; 0xd707; 0xa438; 0x424f; 0xa438; 0x1000; 0xa438; 0x0c1d; 0xa438; 0xd501;
  0xa438; 0xce01; 0xa438; 0x8ac0; 0xa438; 0x860c; 0xa438; 0x870c; 0xa438; 0xce00; 0xa438; 0xd500;
  0xa438; 0xd505; 0xa438; 0xab01; 0xa438; 0xd500; 0xa438; 0x1000; 0xa438; 0x0c30; 0xa438; 0xd505;
  0xa438; 0x8b01; 0xa438; 0xd500; 0xa438; 0xd503; 0xa438; 0x8b80; 0xa438; 0xd500; 0xa438; 0x1000;
  0xa438; 0x1aa5; 0xa438; 0xd503; 0xa438; 0xcda3; 0xa438; 0xaf01; 0xa438; 0x1800; 0xa438; 0x181c;
  0xa438; 0xd700; 0xa438; 0x41f6; 0xa438; 0xd703; 0xa438; 0x41a3; 0xa438; 0x1000; 0xa438; 0x0c1d;
  0xa438; 0xd501; 0xa438; 0xa580; 0xa438; 0xa701; 0xa438; 0xd500; 0xa438; 0xd014; 0xa438; 0xd1c3;
  0xa438; 0xd703; 0xa438; 0x401c; 0xa438; 0x1000; 0xa438; 0x0c30; 0xa438; 0x1800; 0xa438; 0x069b;
  0xa438; 0xba10; 0xa438; 0xd70c; 0xa438; 0x4107; 0xa438; 0xd702; 0xa438; 0x40d0; 0xa438; 0xd504;
  0xa438; 0xa110; 0xa438; 0xd500; 0xa438; 0x1800; 0xa438; 0x1447; 0xa438; 0x1800; 0xa438; 0x1420;
  0xa438; 0xd70c; 0xa438; 0x60a6; 0xa438; 0xd501; 0xa438; 0xce01; 0xa438; 0x840f; 0xa438; 0xce00;
  0xa438; 0xd503; 0xa438; 0x8008; 0xa438; 0xd500; 0xa438; 0x1800; 0xa438; 0x1360; 0xa436; 0xA026;
  0xa438; 0x1359; 0xa436; 0xA024; 0xa438; 0x141f; 0xa436; 0xA022; 0xa438; 0x068f; 0xa436; 0xA020;
  0xa438; 0x1815; 0xa436; 0xA006; 0xa438; 0x1723; 0xa436; 0xA004; 0xa438; 0x0e59; 0xa436; 0xA002;
  0xa438; 0x1452; 0xa436; 0xA000; 0xa438; 0x12bb; 0xa436; 0xA008; 0xa438; 0xff00; 0xa436; 0xA016;
  0xa438; 0x0010; 0xa436; 0xA012; 0xa438; 0x0000; 0xa436; 0xA014; 0xa438; 0x1800; 0xa438; 0x8010;
  0xa438; 0x1800; 0xa438; 0x8010; 0xa438; 0x1800; 0xa438; 0x8019; 0xa438; 0x1800; 0xa438; 0x8019;
  0xa438; 0x1800; 0xa438; 0x8019; 0xa438; 0x1800; 0xa438; 0x8019; 0xa438; 0x1800; 0xa438; 0x8019;
  0xa438; 0x1800; 0xa438; 0x8019; 0xa438; 0xd700; 0xa438; 0x2a59; 0xa438; 0x0101; 0xa438; 0x2841;
  0xa438; 0x0122; 0xa438; 0x2d69; 0xa438; 0x00e6; 0xa438; 0x1800; 0xa438; 0x00e0; 0xa436; 0xA08E;
  0xa438; 0x0000; 0xa436; 0xA08C; 0xa438; 0x0000; 0xa436; 0xA08A; 0xa438; 0x0000; 0xa436; 0xA088;
  0xa438; 0x0000; 0xa436; 0xA086; 0xa438; 0x0000; 0xa436; 0xA084; 0xa438; 0x0000; 0xa436; 0xA082;
  0xa438; 0x00e2; 0xa436; 0xA080; 0xa438; 0x0000; 0xa436; 0xA090; 0xa438; 0x0002; 0xa436; 0xA016;
  0xa438; 0x0020; 0xa436; 0xA012; 0xa438; 0x0000; 0xa436; 0xA014; 0xa438; 0x1800; 0xa438; 0x8010;
  0xa438; 0x1800; 0xa438; 0x9dfb; 0xa438; 0x1800; 0xa438; 0x9e02; 0xa438; 0x1800; 0xa438; 0x9e02;
  0xa438; 0x1800; 0xa438; 0x9e02; 0xa438; 0x1800; 0xa438; 0x9e02; 0xa438; 0x1800; 0xa438; 0x9e02;
  0xa438; 0x1800; 0xa438; 0x9e02; 0xa438; 0xd71f; 0xa438; 0x626d; 0xa438; 0xd71e; 0xa438; 0x4103;
  0xa438; 0xa70c; 0xa438; 0xb801; 0xa438; 0xba04; 0xa438; 0xd71f; 0xa438; 0x6001; 0xa438; 0x1800;
  0xa438; 0x001c; 0xa438; 0xb801; 0xa438; 0xd704; 0xa438; 0x2211; 0xa438; 0x9d54; 0xa438; 0xd700;
  0xa438; 0x2739; 0xa438; 0x837a; 0xa438; 0x1800; 0xa438; 0x814b; 0xa438; 0xcd70; 0xa438; 0xb801;
  0xa438; 0xa708; 0xa438; 0xd700; 0xa438; 0x60d7; 0xa438; 0x6073; 0xa438; 0xce02; 0xa438; 0xf004;
  0xa438; 0xce01; 0xa438; 0xf002; 0xa438; 0xce01; 0xa438; 0x1000; 0xa438; 0x9bde; 0xa438; 0x0c03;
  0xa438; 0x1502; 0xa438; 0x0ccf; 0xa438; 0x0b04; 0xa438; 0xcc22; 0xa438; 0xcd01; 0xa438; 0xa702;
  0xa438; 0x9503; 0xa438; 0xa501; 0xa438; 0x1000; 0xa438; 0x9bc9; 0xa438; 0xd701; 0xa438; 0x5fbd;
  0xa438; 0x8501; 0xa438; 0x1000; 0xa438; 0x9c02; 0xa438; 0xa610; 0xa438; 0xd17a; 0xa438; 0xd04a;
  0xa438; 0xcd71; 0xa438; 0xa501; 0xa438; 0x1000; 0xa438; 0x9bc9; 0xa438; 0xd701; 0xa438; 0x5fbd;
  0xa438; 0x8501; 0xa438; 0xd707; 0xa438; 0x61cf; 0xa438; 0xa502; 0xa438; 0x1000; 0xa438; 0x9bc9;
  0xa438; 0xd702; 0xa438; 0x5fbe; 0xa438; 0x0c03; 0xa438; 0x1502; 0xa438; 0x8380; 0xa438; 0x9503;
  0xa438; 0xd403; 0xa438; 0x1000; 0xa438; 0x9bbf; 0xa438; 0x8502; 0xa438; 0xa340; 0xa438; 0x1000;
  0xa438; 0x9c52; 0xa438; 0xa108; 0xa438; 0x1000; 0xa438; 0x9be6; 0xa438; 0x8108; 0xa438; 0x1000;
  0xa438; 0x9c5b; 0xa438; 0xa304; 0xa438; 0xa440; 0xa438; 0xa8c0; 0xa438; 0xa2fc; 0xa438; 0xa120;
  0xa438; 0x0ca0; 0xa438; 0x0480; 0xa438; 0x0c03; 0xa438; 0x1502; 0xa438; 0xa370; 0xa438; 0x9503;
  0xa438; 0xcd72; 0xa438; 0xd1f5; 0xa438; 0xd057; 0xa438; 0xd1c4; 0xa438; 0xd066; 0xa438; 0xd1c4;
  0xa438; 0xd077; 0xa438; 0x1000; 0xa438; 0x9bc9; 0xa438; 0xd700; 0xa438; 0x607c; 0xa438; 0x613d;
  0xa438; 0xfffb; 0xa438; 0xa310; 0xa438; 0x1000; 0xa438; 0x9bc9; 0xa438; 0xd700; 0xa438; 0x5fbd;
  0xa438; 0xa607; 0xa438; 0xf007; 0xa438; 0xa607; 0xa438; 0x1000; 0xa438; 0x9bc9; 0xa438; 0xd700;
  0xa438; 0x5fbc; 0xa438; 0xa310; 0xa438; 0x1000; 0xa438; 0x9bc9; 0xa438; 0xd700; 0xa438; 0x5fbb;
  0xa438; 0x8840; 0xa438; 0x0c03; 0xa438; 0x1502; 0xa438; 0x0cf8; 0xa438; 0x0d48; 0xa438; 0x8320;
  0xa438; 0xa180; 0xa438; 0x9503; 0xa438; 0xd1c4; 0xa438; 0xd055; 0xa438; 0x1000; 0xa438; 0x9bc9;
  0xa438; 0xd700; 0xa438; 0x5fbb; 0xa438; 0xd706; 0xa438; 0x6227; 0xa438; 0xd700; 0xa438; 0x5f3a;
  0xa438; 0x88c0; 0xa438; 0x82fc; 0xa438; 0x8120; 0xa438; 0x8350; 0xa438; 0x84a0; 0xa438; 0x8607;
  0xa438; 0xa510; 0xa438; 0x0c03; 0xa438; 0x1502; 0xa438; 0x8df8; 0xa438; 0x8370; 0xa438; 0x8180;
  0xa438; 0x9503; 0xa438; 0xff96; 0xa438; 0x8510; 0xa438; 0xa508; 0xa438; 0x8508; 0xa438; 0xcd73;
  0xa438; 0x1000; 0xa438; 0x9bc9; 0xa438; 0xd71f; 0xa438; 0x5fb4; 0xa438; 0xb920; 0xa438; 0x1000;
  0xa438; 0x9bc9; 0xa438; 0xd71f; 0xa438; 0x7fb4; 0xa438; 0x9920; 0xa438; 0x1000; 0xa438; 0x9bc9;
  0xa438; 0xd71f; 0xa438; 0x6065; 0xa438; 0x5f94; 0xa438; 0xffdf; 0xa438; 0xb820; 0xa438; 0x1000;
  0xa438; 0x9bc9; 0xa438; 0xd71f; 0xa438; 0x7fa5; 0xa438; 0x9820; 0xa438; 0x8120; 0xa438; 0x1000;
  0xa438; 0x9c52; 0xa438; 0xa108; 0xa438; 0x1000; 0xa438; 0x9be6; 0xa438; 0x8108; 0xa438; 0x1000;
  0xa438; 0x9c5b; 0xa438; 0xa304; 0xa438; 0x8880; 0xa438; 0x8480; 0xa438; 0x8606; 0xa438; 0xcd74;
  0xa438; 0x0c03; 0xa438; 0x1502; 0xa438; 0x8b0f; 0xa438; 0x8c3f; 0xa438; 0x9503; 0xa438; 0xa810;
  0xa438; 0xa120; 0xa438; 0xa310; 0xa438; 0xa4a0; 0xa438; 0xa606; 0xa438; 0xd700; 0xa438; 0x37cd;
  0xa438; 0x80e5; 0xa438; 0x0c03; 0xa438; 0x1502; 0xa438; 0x8310; 0xa438; 0x9503; 0xa438; 0xd700;
  0xa438; 0x37c9; 0xa438; 0x80f0; 0xa438; 0x33a9; 0xa438; 0x80ed; 0xa438; 0xd17a; 0xa438; 0xd04c;
  0xa438; 0xf006; 0xa438; 0xd199; 0xa438; 0xd04c; 0xa438; 0xf003; 0xa438; 0xd1d6; 0xa438; 0xd04c;
  0xa438; 0x1000; 0xa438; 0x9bc9; 0xa438; 0xd700; 0xa438; 0x5fba; 0xa438; 0xd706; 0xa438; 0x5f69;
  0xa438; 0xd700; 0xa438; 0x60d7; 0xa438; 0x6073; 0xa438; 0xce05; 0xa438; 0xf004; 0xa438; 0xce04;
  0xa438; 0xf002; 0xa438; 0xce04; 0xa438; 0x1000; 0xa438; 0x9bde; 0xa438; 0x0c03; 0xa438; 0x1502;
  0xa438; 0x0c0f; 0xa438; 0x0b02; 0xa438; 0x0c38; 0xa438; 0x0c10; 0xa438; 0x9503; 0xa438; 0xa180;
  0xa438; 0xa680; 0xa438; 0xcd75; 0xa438; 0xd199; 0xa438; 0xd04b; 0xa438; 0xd13b; 0xa438; 0xd055;
  0xa438; 0x1000; 0xa438; 0x9bc9; 0xa438; 0xd700; 0xa438; 0x5fbb; 0xa438; 0xa302; 0xa438; 0x1000;
  0xa438; 0x9bc9; 0xa438; 0xd700; 0xa438; 0x5fba; 0xa438; 0xd706; 0xa438; 0x5f6a; 0xa438; 0xbb50;
  0xa438; 0xcd76; 0xa438; 0x1000; 0xa438; 0x9bc9; 0xa438; 0xd71f; 0xa438; 0x5fb5; 0xa438; 0x9b10;
  0xa438; 0x1000; 0xa438; 0x9bc9; 0xa438; 0xd71f; 0xa438; 0x7fb5; 0xa438; 0xa120; 0xa438; 0x0c12;
  0xa438; 0x0310; 0xa438; 0x8480; 0xa438; 0x0c84; 0xa438; 0x0604; 0xa438; 0xcd77; 0xa438; 0xd1a0;
  0xa438; 0xd04b; 0xa438; 0x1000; 0xa438; 0x9bc9; 0xa438; 0xd700; 0xa438; 0x5fba; 0xa438; 0xd706;
  0xa438; 0x422a; 0xa438; 0xa1a0; 0xa438; 0xa312; 0xa438; 0xa480; 0xa438; 0xa684; 0xa438; 0xcd78;
  0xa438; 0xd148; 0xa438; 0xd048; 0xa438; 0x1000; 0xa438; 0x9bc9; 0xa438; 0xd700; 0xa438; 0x5fba;
  0xa438; 0xcd79; 0xa438; 0x1000; 0xa438; 0x9bc9; 0xa438; 0xd706; 0xa438; 0x7f8a; 0xa438; 0x9b40;
  0xa438; 0xcd7f; 0xa438; 0xd71f; 0xa438; 0x7fe1; 0xa438; 0x1800; 0xa438; 0x001c; 0xa438; 0xa708;
  0xa438; 0xd700; 0xa438; 0x60cf; 0xa438; 0x60f1; 0xa438; 0x6113; 0xa438; 0x6135; 0xa438; 0x6157;
  0xa438; 0xf00b; 0xa438; 0xce02; 0xa438; 0xf00a; 0xa438; 0xce02; 0xa438; 0xf008; 0xa438; 0xce01;
  0xa438; 0xf006; 0xa438; 0xce01; 0xa438; 0xf004; 0xa438; 0xce01; 0xa438; 0xf002; 0xa438; 0xce01;
  0xa438; 0x1000; 0xa438; 0x9bde; 0xa438; 0x0c03; 0xa438; 0x1502; 0xa438; 0x0ccf; 0xa438; 0x0b04;
  0xa438; 0xcc22; 0xa438; 0xcd01; 0xa438; 0xa702; 0xa438; 0x9503; 0xa438; 0xcd15; 0xa438; 0xa501;
  0xa438; 0x1000; 0xa438; 0x9bc9; 0xa438; 0xd701; 0xa438; 0x5fbd; 0xa438; 0x8501; 0xa438; 0xba20;
  0xa438; 0xd701; 0xa438; 0x4154; 0xa438; 0xd115; 0xa438; 0xd04f; 0xa438; 0x1000; 0xa438; 0x9c02;
  0xa438; 0x1000; 0xa438; 0x9bc9; 0xa438; 0xd700; 0xa438; 0x5fba; 0xa438; 0xf003; 0xa438; 0x1000;
  0xa438; 0x9c02; 0xa438; 0xa610; 0xa438; 0xd17a; 0xa438; 0xd04a; 0xa438; 0xcd16; 0xa438; 0xa501;
  0xa438; 0x1000; 0xa438; 0x9bc9; 0xa438; 0xd701; 0xa438; 0x5fbd; 0xa438; 0x8501; 0xa438; 0xd707;
  0xa438; 0x61cf; 0xa438; 0xa502; 0xa438; 0x1000; 0xa438; 0x9bc9; 0xa438; 0xd702; 0xa438; 0x5fbe;
  0xa438; 0x0c03; 0xa438; 0x1502; 0xa438; 0x8380; 0xa438; 0x9503; 0xa438; 0xd403; 0xa438; 0x1000;
  0xa438; 0x9bbf; 0xa438; 0x8502; 0xa438; 0xa340; 0xa438; 0x1000; 0xa438; 0x9c52; 0xa438; 0xa108;
  0xa438; 0x1000; 0xa438; 0x9be6; 0xa438; 0x8108; 0xa438; 0x1000; 0xa438; 0x9c5b; 0xa438; 0xa304;
  0xa438; 0xa440; 0xa438; 0xa8c0; 0xa438; 0xd705; 0xa438; 0x40d3; 0xa438; 0xd707; 0xa438; 0x4082;
  0xa438; 0x0cfc; 0xa438; 0x02bc; 0xa438; 0xf002; 0xa438; 0xa2fc; 0xa438; 0xa120; 0xa438; 0x0ca0;
  0xa438; 0x0480; 0xa438; 0x0c03; 0xa438; 0x1502; 0xa438; 0xa370; 0xa438; 0x9503; 0xa438; 0xcd17;
  0xa438; 0xd1f5; 0xa438; 0xd057; 0xa438; 0xd1c4; 0xa438; 0xd066; 0xa438; 0xd1c4; 0xa438; 0xd077;
  0xa438; 0x1000; 0xa438; 0x9bc9; 0xa438; 0xd700; 0xa438; 0x607c; 0xa438; 0x613d; 0xa438; 0xfffb;
  0xa438; 0xa310; 0xa438; 0x1000; 0xa438; 0x9bc9; 0xa438; 0xd700; 0xa438; 0x5fbd; 0xa438; 0xa607;
  0xa438; 0xf007; 0xa438; 0xa607; 0xa438; 0x1000; 0xa438; 0x9bc9; 0xa438; 0xd700; 0xa438; 0x5fbc;
  0xa438; 0xa310; 0xa438; 0x1000; 0xa438; 0x9bc9; 0xa438; 0xd700; 0xa438; 0x5fbb; 0xa438; 0x8840;
  0xa438; 0x0c03; 0xa438; 0x1502; 0xa438; 0x0cf8; 0xa438; 0x0d48; 0xa438; 0x8320; 0xa438; 0xa180;
  0xa438; 0x9503; 0xa438; 0xd1c4; 0xa438; 0xd055; 0xa438; 0x1000; 0xa438; 0x9bc9; 0xa438; 0xd700;
  0xa438; 0x5fbb; 0xa438; 0xd706; 0xa438; 0x6227; 0xa438; 0xd700; 0xa438; 0x5f3a; 0xa438; 0x88c0;
  0xa438; 0x82fc; 0xa438; 0x8120; 0xa438; 0x8350; 0xa438; 0x84a0; 0xa438; 0x8607; 0xa438; 0xa510;
  0xa438; 0x0c03; 0xa438; 0x1502; 0xa438; 0x8df8; 0xa438; 0x8370; 0xa438; 0x8180; 0xa438; 0x9503;
  0xa438; 0xff8f; 0xa438; 0x8510; 0xa438; 0xa508; 0xa438; 0x8508; 0xa438; 0xcd18; 0xa438; 0x1000;
  0xa438; 0x9bc9; 0xa438; 0xd71f; 0xa438; 0x5fb4; 0xa438; 0xb920; 0xa438; 0x1000; 0xa438; 0x9bc9;
  0xa438; 0xd71f; 0xa438; 0x7fb4; 0xa438; 0x9920; 0xa438; 0x9a20; 0xa438; 0x1000; 0xa438; 0x9bc9;
  0xa438; 0xd71f; 0xa438; 0x6065; 0xa438; 0x5f94; 0xa438; 0xffde; 0xa438; 0xb820; 0xa438; 0x1000;
  0xa438; 0x9bc9; 0xa438; 0xd71f; 0xa438; 0x7fa5; 0xa438; 0x9820; 0xa438; 0x8120; 0xa438; 0x1000;
  0xa438; 0x9c52; 0xa438; 0xa108; 0xa438; 0x1000; 0xa438; 0x9be6; 0xa438; 0x8108; 0xa438; 0x1000;
  0xa438; 0x9c5b; 0xa438; 0xa304; 0xa438; 0x8880; 0xa438; 0x8480; 0xa438; 0x8606; 0xa438; 0xcd19;
  0xa438; 0xd705; 0xa438; 0x40d3; 0xa438; 0xd707; 0xa438; 0x4082; 0xa438; 0x8310; 0xa438; 0x1000;
  0xa438; 0x9c0c; 0xa438; 0x0c03; 0xa438; 0x1502; 0xa438; 0x8b0f; 0xa438; 0x8c3f; 0xa438; 0x9503;
  0xa438; 0xa810; 0xa438; 0xa120; 0xa438; 0xd705; 0xa438; 0x40b3; 0xa438; 0xd707; 0xa438; 0x4062;
  0xa438; 0x8310; 0xa438; 0xf002; 0xa438; 0xa310; 0xa438; 0xa4a0; 0xa438; 0xa606; 0xa438; 0xd700;
  0xa438; 0x37cd; 0xa438; 0x8236; 0xa438; 0x0c03; 0xa438; 0x1502; 0xa438; 0x8310; 0xa438; 0x9503;
  0xa438; 0xd700; 0xa438; 0x37c9; 0xa438; 0x8241; 0xa438; 0x33a9; 0xa438; 0x823e; 0xa438; 0xd17a;
  0xa438; 0xd04c; 0xa438; 0xf006; 0xa438; 0xd199; 0xa438; 0xd04c; 0xa438; 0xf003; 0xa438; 0xd1d6;
  0xa438; 0xd04c; 0xa438; 0x1000; 0xa438; 0x9bc9; 0xa438; 0x1000; 0xa438; 0x9c36; 0xa438; 0xd700;
  0xa438; 0x5f7a; 0xa438; 0xd706; 0xa438; 0x5f29; 0xa438; 0xd700; 0xa438; 0x60cf; 0xa438; 0x60f1;
  0xa438; 0x6113; 0xa438; 0x6135; 0xa438; 0x6157; 0xa438; 0xf00b; 0xa438; 0xce05; 0xa438; 0xf00a;
  0xa438; 0xce05; 0xa438; 0xf008; 0xa438; 0xce04; 0xa438; 0xf006; 0xa438; 0xce04; 0xa438; 0xf004;
  0xa438; 0xce04; 0xa438; 0xf002; 0xa438; 0xce04; 0xa438; 0x1000; 0xa438; 0x9bde; 0xa438; 0x0c03;
  0xa438; 0x1502; 0xa438; 0x0c0f; 0xa438; 0x0b02; 0xa438; 0x0c38; 0xa438; 0x0c10; 0xa438; 0x9503;
  0xa438; 0xa180; 0xa438; 0xa680; 0xa438; 0xcd1a; 0xa438; 0xd199; 0xa438; 0xd04b; 0xa438; 0xd13b;
  0xa438; 0xd055; 0xa438; 0x1000; 0xa438; 0x9bc9; 0xa438; 0x1000; 0xa438; 0x9c36; 0xa438; 0xd700;
  0xa438; 0x5f7b; 0xa438; 0xa302; 0xa438; 0x1000; 0xa438; 0x9bc9; 0xa438; 0x1000; 0xa438; 0x9c36;
  0xa438; 0xd700; 0xa438; 0x5f7a; 0xa438; 0xd706; 0xa438; 0x5f2a; 0xa438; 0xbb10; 0xa438; 0xcd1b;
  0xa438; 0x1000; 0xa438; 0x9bc9; 0xa438; 0x1000; 0xa438; 0x9c36; 0xa438; 0xd71f; 0xa438; 0x5f75;
  0xa438; 0xa704; 0xa438; 0xd700; 0xa438; 0x60cf; 0xa438; 0x60f1; 0xa438; 0x6113; 0xa438; 0x6135;
  0xa438; 0x6157; 0xa438; 0xf00b; 0xa438; 0xce03; 0xa438; 0xf00a; 0xa438; 0xce03; 0xa438; 0xf008;
  0xa438; 0xce03; 0xa438; 0xf006; 0xa438; 0xce03; 0xa438; 0xf004; 0xa438; 0xce03; 0xa438; 0xf002;
  0xa438; 0xce03; 0xa438; 0x1000; 0xa438; 0x9bde; 0xa438; 0xa00a; 0xa438; 0x81a0; 0xa438; 0x8312;
  0xa438; 0x8480; 0xa438; 0xa686; 0xa438; 0x0c03; 0xa438; 0x1502; 0xa438; 0xa340; 0xa438; 0x9503;
  0xa438; 0x9b10; 0xa438; 0x1000; 0xa438; 0x9bc9; 0xa438; 0xd71f; 0xa438; 0x7fb5; 0xa438; 0xcd2a;
  0xa438; 0x1000; 0xa438; 0x9bc9; 0xa438; 0xd71f; 0xa438; 0x5fa4; 0xa438; 0xd17b; 0xa438; 0xd04a;
  0xa438; 0xa980; 0xa438; 0x1000; 0xa438; 0x9bc9; 0xa438; 0xd700; 0xa438; 0x5fba; 0xa438; 0xd706;
  0xa438; 0x5f68; 0xa438; 0x800a; 0xa438; 0x8604; 0xa438; 0x0c03; 0xa438; 0x1502; 0xa438; 0x8801;
  0xa438; 0x9503; 0xa438; 0xd40c; 0xa438; 0x1000; 0xa438; 0x9bbf; 0xa438; 0x0c03; 0xa438; 0x1502;
  0xa438; 0x8380; 0xa438; 0x9503; 0xa438; 0xd417; 0xa438; 0x1000; 0xa438; 0x9bbf; 0xa438; 0xa00a;
  0xa438; 0xa604; 0xa438; 0xd700; 0xa438; 0x39b9; 0xa438; 0x82e4; 0xa438; 0xd707; 0xa438; 0x432f;
  0xa438; 0xd700; 0xa438; 0x608f; 0xa438; 0x60b1; 0xa438; 0x60d3; 0xa438; 0x60f5; 0xa438; 0xce08;
  0xa438; 0xf007; 0xa438; 0xce08; 0xa438; 0xf005; 0xa438; 0xce08; 0xa438; 0xf003; 0xa438; 0xce08;
  0xa438; 0xf001; 0xa438; 0x1000; 0xa438; 0x9bde; 0xa438; 0xa1a0; 0xa438; 0xa302; 0xa438; 0xa480;
  0xa438; 0xd707; 0xa438; 0x409f; 0xa438; 0x4062; 0xa438; 0x8310; 0xa438; 0xf002; 0xa438; 0xa310;
  0xa438; 0xd17b; 0xa438; 0xd049; 0xa438; 0x1000; 0xa438; 0x9bc9; 0xa438; 0xd700; 0xa438; 0x5fba;
  0xa438; 0xd706; 0xa438; 0x5f68; 0xa438; 0xd700; 0xa438; 0x37cd; 0xa438; 0x8302; 0xa438; 0x800a;
  0xa438; 0x8604; 0xa438; 0x0c03; 0xa438; 0x1502; 0xa438; 0x8380; 0xa438; 0x9503; 0xa438; 0xd417;
  0xa438; 0x1000; 0xa438; 0x9bbf; 0xa438; 0xa00a; 0xa438; 0xa604; 0xa438; 0xd17b; 0xa438; 0xd049;
  0xa438; 0x1000; 0xa438; 0x9bc9; 0xa438; 0xd700; 0xa438; 0x5fba; 0xa438; 0xd706; 0xa438; 0x5f68;
  0xa438; 0xd700; 0xa438; 0x60cf; 0xa438; 0x60f1; 0xa438; 0x6113; 0xa438; 0x6135; 0xa438; 0x6157;
  0xa438; 0xf00b; 0xa438; 0xce08; 0xa438; 0xf00a; 0xa438; 0xce08; 0xa438; 0xf008; 0xa438; 0xce08;
  0xa438; 0xf006; 0xa438; 0xce08; 0xa438; 0xf004; 0xa438; 0xce08; 0xa438; 0xf002; 0xa438; 0xce08;
  0xa438; 0x1000; 0xa438; 0x9bde; 0xa438; 0xa1a0; 0xa438; 0xd707; 0xa438; 0x40df; 0xa438; 0x40a2;
  0xa438; 0x0cfc; 0xa438; 0x02bc; 0xa438; 0x8310; 0xa438; 0xf004; 0xa438; 0x0cfc; 0xa438; 0x02fc;
  0xa438; 0xa310; 0xa438; 0xa302; 0xa438; 0xa480; 0xa438; 0xa686; 0xa438; 0x0c03; 0xa438; 0x1502;
  0xa438; 0xa340; 0xa438; 0x9503; 0xa438; 0xcd2b; 0xa438; 0xd199; 0xa438; 0xd04a; 0xa438; 0x1000;
  0xa438; 0x9bc9; 0xa438; 0xd700; 0xa438; 0x5fba; 0xa438; 0xd706; 0xa438; 0x5f68; 0xa438; 0x0c03;
  0xa438; 0x1502; 0xa438; 0x0c07; 0xa438; 0x0d02; 0xa438; 0x9503; 0xa438; 0xcd2c; 0xa438; 0xd199;
  0xa438; 0xd04b; 0xa438; 0x1000; 0xa438; 0x9bc9; 0xa438; 0xd700; 0xa438; 0x5fba; 0xa438; 0xd706;
  0xa438; 0x5f6a; 0xa438; 0x800a; 0xa438; 0x81a0; 0xa438; 0x8312; 0xa438; 0x8604; 0xa438; 0x0c03;
  0xa438; 0x1502; 0xa438; 0x8380; 0xa438; 0x9503; 0xa438; 0xd417; 0xa438; 0x1000; 0xa438; 0x9bbf;
  0xa438; 0xa00a; 0xa438; 0xa1a0; 0xa438; 0xd707; 0xa438; 0x409f; 0xa438; 0x4062; 0xa438; 0x8310;
  0xa438; 0xf002; 0xa438; 0xa310; 0xa438; 0xa302; 0xa438; 0xa604; 0xa438; 0xd409; 0xa438; 0x1000;
  0xa438; 0x9bbf; 0xa438; 0x1000; 0xa438; 0x9bc9; 0xa438; 0xd71f; 0xa438; 0x5fb4; 0xa438; 0xb920;
  0xa438; 0xcd2d; 0xa438; 0x1000; 0xa438; 0x9bc9; 0xa438; 0xd71f; 0xa438; 0x7fb4; 0xa438; 0x9920;
  0xa438; 0xbb10; 0xa438; 0xcd2e; 0xa438; 0x1000; 0xa438; 0x9bc9; 0xa438; 0xd71f; 0xa438; 0x5fb5;
  0xa438; 0x800a; 0xa438; 0x81a0; 0xa438; 0x8312; 0xa438; 0x8480; 0xa438; 0x0c86; 0xa438; 0x0680;
  0xa438; 0x0c03; 0xa438; 0x1502; 0xa438; 0x8340; 0xa438; 0xa140; 0xa438; 0x9503; 0xa438; 0x9b10;
  0xa438; 0x1000; 0xa438; 0x9bc9; 0xa438; 0xd71f; 0xa438; 0x7fb5; 0xa438; 0x1800; 0xa438; 0x8740;
  0xa438; 0xa70c; 0xa438; 0x8510; 0xa438; 0xd700; 0xa438; 0x60cf; 0xa438; 0x60f1; 0xa438; 0x6113;
  0xa438; 0x6135; 0xa438; 0x6157; 0xa438; 0xf00b; 0xa438; 0xce03; 0xa438; 0xf00a; 0xa438; 0xce03;
  0xa438; 0xf008; 0xa438; 0xce03; 0xa438; 0xf006; 0xa438; 0xce03; 0xa438; 0xf004; 0xa438; 0xce03;
  0xa438; 0xf002; 0xa438; 0xce03; 0xa438; 0x1000; 0xa438; 0x9bde; 0xa438; 0x0c03; 0xa438; 0x1502;
  0xa438; 0x0ccf; 0xa438; 0x0b04; 0xa438; 0xcc21; 0xa438; 0xcd10; 0xa438; 0x9503; 0xa438; 0xd700;
  0xa438; 0x406d; 0xa438; 0x0cc0; 0xa438; 0x0080; 0xa438; 0xd198; 0xa438; 0xd07f; 0xa438; 0xcd11;
  0xa438; 0x1000; 0xa438; 0x9bc9; 0xa438; 0xd71f; 0xa438; 0x5fa4; 0xa438; 0xd102; 0xa438; 0xd040;
  0xa438; 0xcd12; 0xa438; 0x1000; 0xa438; 0x9bc9; 0xa438; 0xd700; 0xa438; 0x5fba; 0xa438; 0x1000;
  0xa438; 0x9c02; 0xa438; 0xa340; 0xa438; 0x1000; 0xa438; 0x9c52; 0xa438; 0xa110; 0xa438; 0x1000;
  0xa438; 0x9be6; 0xa438; 0x8110; 0xa438; 0x1000; 0xa438; 0x9c5b; 0xa438; 0xa304; 0xa438; 0xa224;
  0xa438; 0xa00a; 0xa438; 0xa802; 0xa438; 0xa980; 0xa438; 0x0c03; 0xa438; 0x1502; 0xa438; 0xa370;
  0xa438; 0x9503; 0xa438; 0xcd13; 0xa438; 0xd700; 0xa438; 0x2469; 0xa438; 0x83db; 0xa438; 0x634b;
  0xa438; 0x39b9; 0xa438; 0x83c5; 0xa438; 0xf017; 0xa438; 0xd17a; 0xa438; 0xd049; 0xa438; 0x1000;
  0xa438; 0x9bc9; 0xa438; 0xd700; 0xa438; 0x5fba; 0xa438; 0xd706; 0xa438; 0x5f64; 0xa438; 0x0c03;
  0xa438; 0x1502; 0xa438; 0x0c07; 0xa438; 0x0d02; 0xa438; 0x9503; 0xa438; 0xcd14; 0xa438; 0xd17a;
  0xa438; 0xd049; 0xa438; 0x1000; 0xa438; 0x9bc9; 0xa438; 0xd700; 0xa438; 0x5fba; 0xa438; 0xd706;
  0xa438; 0x5f65; 0xa438; 0x800a; 0xa438; 0x0c03; 0xa438; 0x1502; 0xa438; 0x8340; 0xa438; 0xd700;
  0xa438; 0x37cd; 0xa438; 0x83e3; 0xa438; 0xa180; 0xa438; 0x9503; 0xa438; 0xd700; 0xa438; 0x2469;
  0xa438; 0x8409; 0xa438; 0xd700; 0xa438; 0x65eb; 0xa438; 0xd700; 0xa438; 0x6609; 0xa438; 0xd705;
  0xa438; 0x6051; 0xa438; 0xf009; 0xa438; 0xce08; 0xa438; 0x1000; 0xa438; 0x9bde; 0xa438; 0xa00a;
  0xa438; 0x1000; 0xa438; 0x9bc9; 0xa438; 0xd705; 0xa438; 0x7fb1; 0xa438; 0xd700; 0xa438; 0x39b9;
  0xa438; 0x83fa; 0xa438; 0xf01e; 0xa438; 0x0c03; 0xa438; 0x1502; 0xa438; 0xa801; 0xa438; 0x9503;
  0xa438; 0xd40c; 0xa438; 0x1000; 0xa438; 0x9bbf; 0xa438; 0x0c03; 0xa438; 0x1502; 0xa438; 0x8380;
  0xa438; 0x9503; 0xa438; 0xd417; 0xa438; 0x1000; 0xa438; 0x9bbf; 0xa438; 0xf00f; 0xa438; 0xd700;
  0xa438; 0x39b9; 0xa438; 0x840d; 0xa438; 0xf00e; 0xa438; 0x0c03; 0xa438; 0x1502; 0xa438; 0xa801;
  0xa438; 0x9503; 0xa438; 0xd40c; 0xa438; 0x1000; 0xa438; 0x9bbf; 0xa438; 0xd700; 0xa438; 0x6044;
  0xa438; 0xf004; 0xa438; 0xd407; 0xa438; 0x1000; 0xa438; 0x9bbf; 0xa438; 0xa508; 0xa438; 0x8508;
  0xa438; 0x0c03; 0xa438; 0x1502; 0xa438; 0x8d07; 0xa438; 0x9503; 0xa438; 0xa00a; 0xa438; 0x0c03;
  0xa438; 0x1502; 0xa438; 0xa340; 0xa438; 0x9503; 0xa438; 0xd704; 0xa438; 0x6091; 0xa438; 0xd17a;
  0xa438; 0xd04a; 0xa438; 0xf003; 0xa438; 0xd1c4; 0xa438; 0xd045; 0xa438; 0x1000; 0xa438; 0x9bc9;
  0xa438; 0xd700; 0xa438; 0x6a8b; 0xa438; 0xd700; 0xa438; 0x5f7a; 0xa438; 0xd706; 0xa438; 0x5f24;
  0xa438; 0x0c03; 0xa438; 0x1502; 0xa438; 0x0c07; 0xa438; 0x0d02; 0xa438; 0x9503; 0xa438; 0xd704;
  0xa438; 0x6091; 0xa438; 0xd17a; 0xa438; 0xd04a; 0xa438; 0xf003; 0xa438; 0xd1c4; 0xa438; 0xd045;
  0xa438; 0x1000; 0xa438; 0x9bc9; 0xa438; 0xd700; 0xa438; 0x5fba; 0xa438; 0xd706; 0xa438; 0x5f65;
  0xa438; 0x800a; 0xa438; 0x0c03; 0xa438; 0x1502; 0xa438; 0x8340; 0xa438; 0xa180; 0xa438; 0x9503;
  0xa438; 0xd700; 0xa438; 0x2d49; 0xa438; 0x848d; 0xa438; 0x37c9; 0xa438; 0x8459; 0xa438; 0x0c03;
  0xa438; 0x1502; 0xa438; 0x8380; 0xa438; 0x9503; 0xa438; 0xd417; 0xa438; 0x1000; 0xa438; 0x9bbf;
  0xa438; 0xf023; 0xa438; 0x0c03; 0xa438; 0x1502; 0xa438; 0x8380; 0xa438; 0x9503; 0xa438; 0xd417;
  0xa438; 0x1000; 0xa438; 0x9bbf; 0xa438; 0x0c03; 0xa438; 0x1502; 0xa438; 0x8d07; 0xa438; 0x9503;
  0xa438; 0xa00a; 0xa438; 0xd17a; 0xa438; 0xd049; 0xa438; 0x1000; 0xa438; 0x9bc9; 0xa438; 0xd700;
  0xa438; 0x5fba; 0xa438; 0xd706; 0xa438; 0x5f64; 0xa438; 0x0c03; 0xa438; 0x1502; 0xa438; 0x0c07;
  0xa438; 0x0d02; 0xa438; 0x9503; 0xa438; 0xd17a; 0xa438; 0xd049; 0xa438; 0x1000; 0xa438; 0x9bc9;
  0xa438; 0xd700; 0xa438; 0x5fba; 0xa438; 0xd706; 0xa438; 0x5f65; 0xa438; 0x800a; 0xa438; 0x0c03;
  0xa438; 0x1502; 0xa438; 0x8380; 0xa438; 0x9503; 0xa438; 0xd417; 0xa438; 0x1000; 0xa438; 0x9bbf;
  0xa438; 0xf00b; 0xa438; 0x1000; 0xa438; 0x9bc9; 0xa438; 0xd71f; 0xa438; 0x5fab; 0xa438; 0xba08;
  0xa438; 0x1000; 0xa438; 0x9bc9; 0xa438; 0xd71f; 0xa438; 0x7f8b; 0xa438; 0x9a08; 0xa438; 0xa00a;
  0xa438; 0x0c03; 0xa438; 0x1502; 0xa438; 0xa340; 0xa438; 0x9503; 0xa438; 0x1000; 0xa438; 0x9bc9;
  0xa438; 0xd71f; 0xa438; 0x5fb4; 0xa438; 0x800a; 0xa438; 0x0c03; 0xa438; 0x1502; 0xa438; 0x8340;
  0xa438; 0xa180; 0xa438; 0x9503; 0xa438; 0xb920; 0xa438; 0x1000; 0xa438; 0x9bc9; 0xa438; 0xd71f;
  0xa438; 0x7fb4; 0xa438; 0x9920; 0xa438; 0xd700; 0xa438; 0x296d; 0xa438; 0x84bc; 0xa438; 0x1000;
  0xa438; 0x9c52; 0xa438; 0xa004; 0xa438; 0x1000; 0xa438; 0x9be6; 0xa438; 0x8004; 0xa438; 0xa001;
  0xa438; 0x1000; 0xa438; 0x9be6; 0xa438; 0x8001; 0xa438; 0xa020; 0xa438; 0x1000; 0xa438; 0x9be6;
  0xa438; 0x8020; 0xa438; 0x1000; 0xa438; 0x9c5b; 0xa438; 0xd120; 0xa438; 0xd040; 0xa438; 0x1000;
  0xa438; 0x9bc9; 0xa438; 0xd700; 0xa438; 0x5fba; 0xa438; 0x8704; 0xa438; 0xcd21; 0xa438; 0x1000;
  0xa438; 0x9bc9; 0xa438; 0xd71f; 0xa438; 0x5fad; 0xa438; 0xa501; 0xa438; 0x1000; 0xa438; 0x9bc9;
  0xa438; 0xd701; 0xa438; 0x5fbd; 0xa438; 0x8501; 0xa438; 0xba20; 0xa438; 0xd700; 0xa438; 0x2969;
  0xa438; 0x84d5; 0xa438; 0xd700; 0xa438; 0x612b; 0xa438; 0xd701; 0xa438; 0x40f4; 0xa438; 0xd196;
  0xa438; 0xd04d; 0xa438; 0x1000; 0xa438; 0x9bc9; 0xa438; 0xd700; 0xa438; 0x5fba; 0xa438; 0x8802;
  0xa438; 0xcd22; 0xa438; 0xd17a; 0xa438; 0xd05a; 0xa438; 0xa501; 0xa438; 0x1000; 0xa438; 0x9bc9;
  0xa438; 0xd701; 0xa438; 0x5fbd; 0xa438; 0x8501; 0xa438; 0xa502; 0xa438; 0x1000; 0xa438; 0x9bc9;
  0xa438; 0xd702; 0xa438; 0x5fbe; 0xa438; 0x0c03; 0xa438; 0x1502; 0xa438; 0x8380; 0xa438; 0x9503;
  0xa438; 0xd403; 0xa438; 0x1000; 0xa438; 0x9bbf; 0xa438; 0x8502; 0xa438; 0x0c03; 0xa438; 0x1502;
  0xa438; 0x8801; 0xa438; 0x9503; 0xa438; 0xd40c; 0xa438; 0x1000; 0xa438; 0x9bbf; 0xa438; 0xd707;
  0xa438; 0x428f; 0xa438; 0xd700; 0xa438; 0x60cf; 0xa438; 0x60f1; 0xa438; 0x6113; 0xa438; 0x6135;
  0xa438; 0x6157; 0xa438; 0xf00b; 0xa438; 0xce06; 0xa438; 0xf01d; 0xa438; 0xce06; 0xa438; 0xf01b;
  0xa438; 0xce06; 0xa438; 0xf019].

Definition phy_mcu_ram_code_8127a_tc_1_p2 : list Z := [
  0xa438; 0xce06; 0xa438; 0xf017; 0xa438; 0xce06; 0xa438; 0xf015; 0xa438; 0xce06; 0xa438; 0xf013;
  0xa438; 0xd700; 0xa438; 0x60cf; 0xa438; 0x60f1; 0xa438; 0x6113; 0xa438; 0x6135; 0xa438; 0x6157;
  0xa438; 0xf00b; 0xa438; 0xce02; 0xa438; 0xf00a; 0xa438; 0xce02; 0xa438; 0xf008; 0xa438; 0xce01;
  0xa438; 0xf006; 0xa438; 0xce01; 0xa438; 0xf004; 0xa438; 0xce01; 0xa438; 0xf002; 0xa438; 0xce01;
  0xa438; 0x1000; 0xa438; 0x9bde; 0xa438; 0xa340; 0xa438; 0x1000; 0xa438; 0x9c52; 0xa438; 0xa110;
  0xa438; 0x1000; 0xa438; 0x9be6; 0xa438; 0x8110; 0xa438; 0x1000; 0xa438; 0x9c5b; 0xa438; 0xa304;
  0xa438; 0xa440; 0xa438; 0xa8c0; 0xa438; 0xd707; 0xa438; 0x40cf; 0xa438; 0x0c03; 0xa438; 0x1502;
  0xa438; 0x8d07; 0xa438; 0x9503; 0xa438; 0xa00a; 0xa438; 0xa120; 0xa438; 0xa310; 0xa438; 0x0ca0;
  0xa438; 0x0480; 0xa438; 0xd700; 0xa438; 0x2969; 0xa438; 0x853b; 0xa438; 0x60a4; 0xa438; 0xd704;
  0xa438; 0x407d; 0xa438; 0xa308; 0xa438; 0xf002; 0xa438; 0x8308; 0xa438; 0x0c03; 0xa438; 0x1502;
  0xa438; 0x0c60; 0xa438; 0x0340; 0xa438; 0x9503; 0xa438; 0xcd23; 0xa438; 0xd162; 0xa438; 0xd048;
  0xa438; 0x1000; 0xa438; 0x9bc9; 0xa438; 0xd700; 0xa438; 0x5fba; 0xa438; 0x8840; 0xa438; 0xd1c4;
  0xa438; 0xd045; 0xa438; 0x1000; 0xa438; 0x9bc9; 0xa438; 0xd700; 0xa438; 0x5fba; 0xa438; 0xd706;
  0xa438; 0x6327; 0xa438; 0xd700; 0xa438; 0x5f3b; 0xa438; 0x88c0; 0xa438; 0x800a; 0xa438; 0x8120;
  0xa438; 0x8358; 0xa438; 0x8308; 0xa438; 0x84a0; 0xa438; 0x0c03; 0xa438; 0x1502; 0xa438; 0x8360;
  0xa438; 0x9503; 0xa438; 0xd707; 0xa438; 0x2f7d; 0xa438; 0x84d7; 0xa438; 0xd17a; 0xa438; 0xd05a;
  0xa438; 0xa501; 0xa438; 0x1000; 0xa438; 0x9bc9; 0xa438; 0xd701; 0xa438; 0x5fbd; 0xa438; 0x8501;
  0xa438; 0xff8b; 0xa438; 0x1000; 0xa438; 0x9bc9; 0xa438; 0xd71f; 0xa438; 0x5fb4; 0xa438; 0xb920;
  0xa438; 0xcd24; 0xa438; 0x1000; 0xa438; 0x9bc9; 0xa438; 0xd71f; 0xa438; 0x7fb4; 0xa438; 0x9920;
  0xa438; 0x9a20; 0xa438; 0x1000; 0xa438; 0x9bc9; 0xa438; 0xd71f; 0xa438; 0x6065; 0xa438; 0x5f94;
  0xa438; 0xffd9; 0xa438; 0xb820; 0xa438; 0x1000; 0xa438; 0x9bc9; 0xa438; 0xd71f; 0xa438; 0x7fa5;
  0xa438; 0x9820; 0xa438; 0x800a; 0xa438; 0x8120; 0xa438; 0x1000; 0xa438; 0x9c52; 0xa438; 0xa108;
  0xa438; 0x1000; 0xa438; 0x9be6; 0xa438; 0x8108; 0xa438; 0x1000; 0xa438; 0x9c5b; 0xa438; 0xd700;
  0xa438; 0x2969; 0xa438; 0x8598; 0xa438; 0x6144; 0xa438; 0xd704; 0xa438; 0x60bd; 0xa438; 0xd707;
  0xa438; 0x417f; 0xa438; 0x4140; 0xa438; 0xf006; 0xa438; 0x82fc; 0xa438; 0xa201; 0xa438; 0xf007;
  0xa438; 0xa2fc; 0xa438; 0xf005; 0xa438; 0x0cfc; 0xa438; 0x02bc; 0xa438; 0xf002; 0xa438; 0xa2fc;
  0xa438; 0xa304; 0xa438; 0x8880; 0xa438; 0x0cc0; 0xa438; 0x0440; 0xa438; 0xcd25; 0xa438; 0xd700;
  0xa438; 0x2969; 0xa438; 0x85b7; 0xa438; 0x6224; 0xa438; 0xd704; 0xa438; 0x605d; 0xa438; 0xf004;
  0xa438; 0xd704; 0xa438; 0x613b; 0xa438; 0xf00b; 0xa438; 0xd700; 0xa438; 0x2969; 0xa438; 0x85b7;
  0xa438; 0x60eb; 0xa438; 0xd707; 0xa438; 0x40bf; 0xa438; 0x4080; 0xa438; 0x8310; 0xa438; 0x1000;
  0xa438; 0x9c0c; 0xa438; 0xd700; 0xa438; 0x60cf; 0xa438; 0x60f1; 0xa438; 0x6113; 0xa438; 0x6135;
  0xa438; 0x6157; 0xa438; 0xf00b; 0xa438; 0xce06; 0xa438; 0xf00a; 0xa438; 0xce06; 0xa438; 0xf008;
  0xa438; 0xce06; 0xa438; 0xf006; 0xa438; 0xce06; 0xa438; 0xf004; 0xa438; 0xce06; 0xa438; 0xf002;
  0xa438; 0xce06; 0xa438; 0x1000; 0xa438; 0x9bde; 0xa438; 0x0c03; 0xa438; 0x1502; 0xa438; 0x8c07;
  0xa438; 0x0c07; 0xa438; 0x0d03; 0xa438; 0xd700; 0xa438; 0x2969; 0xa438; 0x85d9; 0xa438; 0x60c4;
  0xa438; 0xd704; 0xa438; 0x409d; 0xa438; 0x8b0f; 0xa438; 0x8c38; 0xa438; 0xf003; 0xa438; 0xab07;
  0xa438; 0xac38; 0xa438; 0x0c07; 0xa438; 0x0d03; 0xa438; 0x9503; 0xa438; 0xa810; 0xa438; 0xa00a;
  0xa438; 0xa120; 0xa438; 0xd700; 0xa438; 0x2969; 0xa438; 0x85e7; 0xa438; 0x6064; 0xa438; 0xd704;
  0xa438; 0x607d; 0xa438; 0xa4a0; 0xa438; 0xa605; 0xa438; 0xd17a; 0xa438; 0xd049; 0xa438; 0xd700;
  0xa438; 0x2969; 0xa438; 0x85f9; 0xa438; 0x6164; 0xa438; 0xd704; 0xa438; 0x413d; 0xa438; 0xa00a;
  0xa438; 0xa120; 0xa438; 0xd704; 0xa438; 0x407b; 0xa438; 0x8310; 0xa438; 0xf002; 0xa438; 0xa310;
  0xa438; 0xa403; 0xa438; 0x1000; 0xa438; 0x9bc9; 0xa438; 0x1000; 0xa438; 0x9c36; 0xa438; 0xd700;
  0xa438; 0x409a; 0xa438; 0xd706; 0xa438; 0x4046; 0xa438; 0xf014; 0xa438; 0xd704; 0xa438; 0x6055;
  0xa438; 0xfff5; 0xa438; 0x1000; 0xa438; 0x9c52; 0xa438; 0x800a; 0xa438; 0x8120; 0xa438; 0x8310;
  0xa438; 0xa380; 0xa438; 0x1000; 0xa438; 0x9bc9; 0xa438; 0x1000; 0xa438; 0x9c36; 0xa438; 0xd705;
  0xa438; 0x5f77; 0xa438; 0x8380; 0xa438; 0x1000; 0xa438; 0x9c5b; 0xa438; 0xffdd; 0xa438; 0x0c03;
  0xa438; 0x1502; 0xa438; 0x8b0f; 0xa438; 0x8c38; 0xa438; 0x8d38; 0xa438; 0x9503; 0xa438; 0xcd26;
  0xa438; 0xd704; 0xa438; 0x6291; 0xa438; 0xd700; 0xa438; 0x2969; 0xa438; 0x862e; 0xa438; 0x37c9;
  0xa438; 0x862b; 0xa438; 0x33a9; 0xa438; 0x8628; 0xa438; 0xd18a; 0xa438; 0xd04b; 0xa438; 0xf00c;
  0xa438; 0xd17a; 0xa438; 0xd04b; 0xa438; 0xf009; 0xa438; 0xd1c6; 0xa438; 0xd04b; 0xa438; 0xf006;
  0xa438; 0xd1b7; 0xa438; 0xd04a; 0xa438; 0xf003; 0xa438; 0xd1c4; 0xa438; 0xd046; 0xa438; 0xd700;
  0xa438; 0x2969; 0xa438; 0x8641; 0xa438; 0x6164; 0xa438; 0xd704; 0xa438; 0x413d; 0xa438; 0xa00a;
  0xa438; 0xa120; 0xa438; 0xd704; 0xa438; 0x407b; 0xa438; 0x8310; 0xa438; 0xf002; 0xa438; 0xa310;
  0xa438; 0xa403; 0xa438; 0x1000; 0xa438; 0x9bc9; 0xa438; 0x1000; 0xa438; 0x9c36; 0xa438; 0xd700;
  0xa438; 0x409a; 0xa438; 0xd706; 0xa438; 0x4048; 0xa438; 0xf014; 0xa438; 0xd704; 0xa438; 0x6055;
  0xa438; 0xfff5; 0xa438; 0x1000; 0xa438; 0x9c52; 0xa438; 0x800a; 0xa438; 0x8120; 0xa438; 0x8310;
  0xa438; 0xa380; 0xa438; 0x1000; 0xa438; 0x9bc9; 0xa438; 0x1000; 0xa438; 0x9c36; 0xa438; 0xd705;
  0xa438; 0x5f77; 0xa438; 0x8380; 0xa438; 0x1000; 0xa438; 0x9c5b; 0xa438; 0xffdd; 0xa438; 0x0c03;
  0xa438; 0x1502; 0xa438; 0x0c07; 0xa438; 0x0d01; 0xa438; 0x9503; 0xa438; 0xd700; 0xa438; 0x60cf;
  0xa438; 0x60f1; 0xa438; 0x6113; 0xa438; 0x6135; 0xa438; 0x6157; 0xa438; 0xf00b; 0xa438; 0xce08;
  0xa438; 0xf00a; 0xa438; 0xce08; 0xa438; 0xf008; 0xa438; 0xce08; 0xa438; 0xf006; 0xa438; 0xce08;
  0xa438; 0xf004; 0xa438; 0xce08; 0xa438; 0xf002; 0xa438; 0xce08; 0xa438; 0x1000; 0xa438; 0x9bde;
  0xa438; 0xa180; 0xa438; 0xcd27; 0xa438; 0xd704; 0xa438; 0x61f1; 0xa438; 0xd700; 0xa438; 0x37c9;
  0xa438; 0x8685; 0xa438; 0x33a9; 0xa438; 0x8682; 0xa438; 0xd17a; 0xa438; 0xd04a; 0xa438; 0xf009;
  0xa438; 0xd1b7; 0xa438; 0xd049; 0xa438; 0xf006; 0xa438; 0xd17a; 0xa438; 0xd04a; 0xa438; 0xf003;
  0xa438; 0xd128; 0xa438; 0xd044; 0xa438; 0xd13b; 0xa438; 0xd055; 0xa438; 0xd700; 0xa438; 0x2969;
  0xa438; 0x869a; 0xa438; 0x6164; 0xa438; 0xd704; 0xa438; 0x413d; 0xa438; 0xa00a; 0xa438; 0xa1a0;
  0xa438; 0xd704; 0xa438; 0x407b; 0xa438; 0x8310; 0xa438; 0xf002; 0xa438; 0xa310; 0xa438; 0xa403;
  0xa438; 0x1000; 0xa438; 0x9bc9; 0xa438; 0x1000; 0xa438; 0x9c36; 0xa438; 0xd700; 0xa438; 0x405b;
  0xa438; 0xf014; 0xa438; 0xd704; 0xa438; 0x6055; 0xa438; 0xfff7; 0xa438; 0x1000; 0xa438; 0x9c52;
  0xa438; 0x800a; 0xa438; 0x81a0; 0xa438; 0x8310; 0xa438; 0xa380; 0xa438; 0x1000; 0xa438; 0x9bc9;
  0xa438; 0x1000; 0xa438; 0x9c36; 0xa438; 0xd705; 0xa438; 0x5f77; 0xa438; 0x8380; 0xa438; 0x1000;
  0xa438; 0x9c5b; 0xa438; 0xffdf; 0xa438; 0xa302; 0xa438; 0xd700; 0xa438; 0x2969; 0xa438; 0x86c4;
  0xa438; 0x6184; 0xa438; 0xd704; 0xa438; 0x415d; 0xa438; 0xa00a; 0xa438; 0xa1a0; 0xa438; 0xd704;
  0xa438; 0x407b; 0xa438; 0x8310; 0xa438; 0xf002; 0xa438; 0xa310; 0xa438; 0xa302; 0xa438; 0xa403;
  0xa438; 0x1000; 0xa438; 0x9bc9; 0xa438; 0x1000; 0xa438; 0x9c36; 0xa438; 0xd700; 0xa438; 0x409a;
  0xa438; 0xd706; 0xa438; 0x4048; 0xa438; 0xf014; 0xa438; 0xd704; 0xa438; 0x6055; 0xa438; 0xfff5;
  0xa438; 0x1000; 0xa438; 0x9c52; 0xa438; 0x800a; 0xa438; 0x81a0; 0xa438; 0x8312; 0xa438; 0xa380;
  0xa438; 0x1000; 0xa438; 0x9bc9; 0xa438; 0x1000; 0xa438; 0x9c36; 0xa438; 0xd705; 0xa438; 0x5f77;
  0xa438; 0x8380; 0xa438; 0x1000; 0xa438; 0x9c5b; 0xa438; 0xffdc; 0xa438; 0x0c03; 0xa438; 0x1502;
  0xa438; 0x0c0f; 0xa438; 0x0b02; 0xa438; 0x0c38; 0xa438; 0x0c10; 0xa438; 0x9503; 0xa438; 0xcd28;
  0xa438; 0xd704; 0xa438; 0x61f1; 0xa438; 0xd700; 0xa438; 0x37c9; 0xa438; 0x86f5; 0xa438; 0x33a9;
  0xa438; 0x86f2; 0xa438; 0xd199; 0xa438; 0xd04a; 0xa438; 0xf009; 0xa438; 0xd17a; 0xa438; 0xd04a;
  0xa438; 0xf006; 0xa438; 0xd199; 0xa438; 0xd04a; 0xa438; 0xf003; 0xa438; 0xd128; 0xa438; 0xd044;
  0xa438; 0xd700; 0xa438; 0x2969; 0xa438; 0x8709; 0xa438; 0x6184; 0xa438; 0xd704; 0xa438; 0x415d;
  0xa438; 0xa00a; 0xa438; 0xa1a0; 0xa438; 0xd704; 0xa438; 0x407b; 0xa438; 0x8310; 0xa438; 0xf002;
  0xa438; 0xa310; 0xa438; 0xa302; 0xa438; 0xa403; 0xa438; 0x1000; 0xa438; 0x9bc9; 0xa438; 0x1000;
  0xa438; 0x9c36; 0xa438; 0xd700; 0xa438; 0x409a; 0xa438; 0xd706; 0xa438; 0x404a; 0xa438; 0xf014;
  0xa438; 0xd704; 0xa438; 0x6055; 0xa438; 0xfff5; 0xa438; 0x1000; 0xa438; 0x9c52; 0xa438; 0x800a;
  0xa438; 0x81a0; 0xa438; 0x8312; 0xa438; 0xa380; 0xa438; 0x1000; 0xa438; 0x9bc9; 0xa438; 0x1000;
  0xa438; 0x9c36; 0xa438; 0xd705; 0xa438; 0x5f77; 0xa438; 0x8380; 0xa438; 0x1000; 0xa438; 0x9c5b;
  0xa438; 0xffdc; 0xa438; 0x8403; 0xa438; 0xd409; 0xa438; 0x1000; 0xa438; 0x9bbf; 0xa438; 0xbb10;
  0xa438; 0xcd29; 0xa438; 0x1000; 0xa438; 0x9bc9; 0xa438; 0x1000; 0xa438; 0x9c36; 0xa438; 0xd71f;
  0xa438; 0x5f75; 0xa438; 0x800a; 0xa438; 0x81a0; 0xa438; 0x8312; 0xa438; 0x8480; 0xa438; 0x8604;
  0xa438; 0x0c03; 0xa438; 0x1502; 0xa438; 0x8340; 0xa438; 0xa140; 0xa438; 0x9503; 0xa438; 0x9b10;
  0xa438; 0x1000; 0xa438; 0x9bc9; 0xa438; 0xd71f; 0xa438; 0x7fb5; 0xa438; 0xcd30; 0xa438; 0xaa80;
  0xa438; 0xd704; 0xa438; 0x2319; 0xa438; 0x9d9a; 0xa438; 0xd700; 0xa438; 0x40bd; 0xa438; 0x0c03;
  0xa438; 0x1502; 0xa438; 0xaf01; 0xa438; 0x9503; 0xa438; 0x1000; 0xa438; 0x9bc9; 0xa438; 0xd71f;
  0xa438; 0x5fb4; 0xa438; 0xd700; 0xa438; 0x2969; 0xa438; 0x8798; 0xa438; 0xd700; 0xa438; 0x273d;
  0xa438; 0x8794; 0xa438; 0xd700; 0xa438; 0x37c9; 0xa438; 0x876a; 0xa438; 0x33a9; 0xa438; 0x8762;
  0xa438; 0xd702; 0xa438; 0x6099; 0xa438; 0xd1b7; 0xa438; 0xd05c; 0xa438; 0xf013; 0xa438; 0xd1b7;
  0xa438; 0xd05c; 0xa438; 0xf010; 0xa438; 0xd702; 0xa438; 0x6099; 0xa438; 0xd1b7; 0xa438; 0xd05c;
  0xa438; 0xf00b; 0xa438; 0xd1b7; 0xa438; 0xd05c; 0xa438; 0xf008; 0xa438; 0xd702; 0xa438; 0x6099;
  0xa438; 0xd199; 0xa438; 0xd05d; 0xa438; 0xf003; 0xa438; 0xd199; 0xa438; 0xd05d; 0xa438; 0xd700;
  0xa438; 0x37c9; 0xa438; 0x8786; 0xa438; 0x33a9; 0xa438; 0x877e; 0xa438; 0xd702; 0xa438; 0x6099;
  0xa438; 0xd1bf; 0xa438; 0xd06d; 0xa438; 0xf013; 0xa438; 0xd1de; 0xa438; 0xd06d; 0xa438; 0xf010;
  0xa438; 0xd702; 0xa438; 0x6099; 0xa438; 0xd1bf; 0xa438; 0xd06d; 0xa438; 0xf00b; 0xa438; 0xd1bf;
  0xa438; 0xd06d; 0xa438; 0xf008; 0xa438; 0xd702; 0xa438; 0x6099; 0xa438; 0xd199; 0xa438; 0xd06e;
  0xa438; 0xf003; 0xa438; 0xd199; 0xa438; 0xd06e; 0xa438; 0xd703; 0xa438; 0x60d0; 0xa438; 0x1000;
  0xa438; 0x9c20; 0xa438; 0xd41a; 0xa438; 0x1000; 0xa438; 0x9bbf; 0xa438; 0xd408; 0xa438; 0x1000;
  0xa438; 0x9bbf; 0xa438; 0xcd31; 0xa438; 0xd700; 0xa438; 0x2fa9; 0xa438; 0x879f; 0xa438; 0x33c9;
  0xa438; 0x87a2; 0xa438; 0x6117; 0xa438; 0xf00a; 0xa438; 0xd141; 0xa438; 0xd043; 0xa438; 0xf009;
  0xa438; 0xd121; 0xa438; 0xd043; 0xa438; 0xf006; 0xa438; 0xd122; 0xa438; 0xd042; 0xa438; 0xf003;
  0xa438; 0xd181; 0xa438; 0xd043; 0xa438; 0x1000; 0xa438; 0x9bc9; 0xa438; 0xd700; 0xa438; 0x5fba;
  0xa438; 0xd700; 0xa438; 0x2969; 0xa438; 0x8817; 0xa438; 0xd700; 0xa438; 0x6cab; 0xa438; 0xd700;
  0xa438; 0x6d47; 0xa438; 0x800a; 0xa438; 0x81a0; 0xa438; 0x8312; 0xa438; 0x8480; 0xa438; 0x0c86;
  0xa438; 0x0680; 0xa438; 0x0c03; 0xa438; 0x1502; 0xa438; 0x8702; 0xa438; 0x9503; 0xa438; 0xd407;
  0xa438; 0x1000; 0xa438; 0x9bbf; 0xa438; 0xd703; 0xa438; 0x60d0; 0xa438; 0x1000; 0xa438; 0x9c20;
  0xa438; 0xd41a; 0xa438; 0x1000; 0xa438; 0x9bbf; 0xa438; 0x0c03; 0xa438; 0x1502; 0xa438; 0x8380;
  0xa438; 0x9503; 0xa438; 0xd406; 0xa438; 0x1000; 0xa438; 0x9bbf; 0xa438; 0xcd39; 0xa438; 0xd404;
  0xa438; 0x1000; 0xa438; 0x9bbf; 0xa438; 0xd700; 0xa438; 0x60cf; 0xa438; 0x60f1; 0xa438; 0x6113;
  0xa438; 0x6135; 0xa438; 0x6157; 0xa438; 0xf00b; 0xa438; 0xce03; 0xa438; 0xf00a; 0xa438; 0xce03;
  0xa438; 0xf008; 0xa438; 0xce03; 0xa438; 0xf006; 0xa438; 0xce03; 0xa438; 0xf004; 0xa438; 0xce03;
  0xa438; 0xf002; 0xa438; 0xce03; 0xa438; 0x1000; 0xa438; 0x9bde; 0xa438; 0x0c03; 0xa438; 0x1502;
  0xa438; 0x0c07; 0xa438; 0x0c01; 0xa438; 0x8d07; 0xa438; 0x9503; 0xa438; 0xa810; 0xa438; 0xa00a;
  0xa438; 0xa302; 0xa438; 0x0ca0; 0xa438; 0x0480; 0xa438; 0xa684; 0xa438; 0x1000; 0xa438; 0x9bc9;
  0xa438; 0xd706; 0xa438; 0x5fa7; 0xa438; 0xb920; 0xa438; 0x1000; 0xa438; 0x9bc9; 0xa438; 0xd71f;
  0xa438; 0x7fb4; 0xa438; 0x8810; 0xa438; 0x9920; 0xa438; 0x1000; 0xa438; 0x9bc9; 0xa438; 0xd71f;
  0xa438; 0x60e5; 0xa438; 0x5f94; 0xa438; 0x1000; 0xa438; 0x9bc9; 0xa438; 0xd706; 0xa438; 0x5fa7;
  0xa438; 0xfff0; 0xa438; 0xb820; 0xa438; 0xa810; 0xa438; 0x1000; 0xa438; 0x9bc9; 0xa438; 0xd71f;
  0xa438; 0x7fa5; 0xa438; 0x9820; 0xa438; 0x1000; 0xa438; 0x9bc9; 0xa438; 0x1000; 0xa438; 0x9c36;
  0xa438; 0xd706; 0xa438; 0x5f69; 0xa438; 0xf010; 0xa438; 0x0c03; 0xa438; 0x1502; 0xa438; 0xae80;
  0xa438; 0x9503; 0xa438; 0xd700; 0xa438; 0x2b6d; 0xa438; 0x88c0; 0xa438; 0x0c03; 0xa438; 0x1502;
  0xa438; 0x8380; 0xa438; 0x9503; 0xa438; 0xd406; 0xa438; 0x1000; 0xa438; 0x9bbf; 0xa438; 0xcd32;
  0xa438; 0xd701; 0xa438; 0x6191; 0xa438; 0xa504; 0xa438; 0xcd3a; 0xa438; 0x1000; 0xa438; 0x9bc9;
  0xa438; 0xd700; 0xa438; 0x6067; 0xa438; 0x1000; 0xa438; 0x9c36; 0xa438; 0xd701; 0xa438; 0x5f3a;
  0xa438; 0x8504; 0xa438; 0xd700; 0xa438; 0x2739; 0xa438; 0x88b6; 0xa438; 0xd707; 0xa438; 0x6061;
  0xa438; 0x1800; 0xa438; 0x88a8; 0xa438; 0xd193; 0xa438; 0xd047; 0xa438; 0x1000; 0xa438; 0x9bc9;
  0xa438; 0x1000; 0xa438; 0x9c36; 0xa438; 0xd700; 0xa438; 0x5f7a; 0xa438; 0xd706; 0xa438; 0x5f29;
  0xa438; 0xd700; 0xa438; 0x60cf; 0xa438; 0x60f1; 0xa438; 0x6113; 0xa438; 0x6135; 0xa438; 0x6157;
  0xa438; 0xf00b; 0xa438; 0xce06; 0xa438; 0xf00a; 0xa438; 0xce06; 0xa438; 0xf008; 0xa438; 0xce06;
  0xa438; 0xf006; 0xa438; 0xce06; 0xa438; 0xf004; 0xa438; 0xce06; 0xa438; 0xf002; 0xa438; 0xce06;
  0xa438; 0x1000; 0xa438; 0x9bde; 0xa438; 0x0c03; 0xa438; 0x1502; 0xa438; 0x0c0f; 0xa438; 0x0b01;
  0xa438; 0x0c3f; 0xa438; 0x0c08; 0xa438; 0x9503; 0xa438; 0xd707; 0xa438; 0x409f; 0xa438; 0x4062;
  0xa438; 0x8310; 0xa438; 0xf002; 0xa438; 0xa310; 0xa438; 0xa120; 0xa438; 0xa420; 0xa438; 0xd193;
  0xa438; 0xd048; 0xa438; 0x1000; 0xa438; 0x9bc9; 0xa438; 0x1000; 0xa438; 0x9c36; 0xa438; 0xd700;
  0xa438; 0x5f7a; 0xa438; 0xd706; 0xa438; 0x5f29; 0xa438; 0xd700; 0xa438; 0x60cf; 0xa438; 0x60f1;
  0xa438; 0x6113; 0xa438; 0x6135; 0xa438; 0x6157; 0xa438; 0xf00b; 0xa438; 0xce03; 0xa438; 0xf00a;
  0xa438; 0xce03; 0xa438; 0xf008; 0xa438; 0xce03; 0xa438; 0xf006; 0xa438; 0xce03; 0xa438; 0xf004;
  0xa438; 0xce03; 0xa438; 0xf002; 0xa438; 0xce03; 0xa438; 0x1000; 0xa438; 0x9bde; 0xa438; 0x0c03;
  0xa438; 0x1502; 0xa438; 0x0c07; 0xa438; 0x0c01; 0xa438; 0x9503; 0xa438; 0x8420; 0xa438; 0x800a;
  0xa438; 0x8120; 0xa438; 0x8312; 0xa438; 0x8480; 0xa438; 0x8604; 0xa438; 0xd419; 0xa438; 0x1000;
  0xa438; 0x9bbf; 0xa438; 0xd702; 0xa438; 0x4080; 0xa438; 0xbb20; 0xa438; 0x1800; 0xa438; 0x8c32;
  0xa438; 0xa00a; 0xa438; 0xa302; 0xa438; 0xa480; 0xa438; 0xa604; 0xa438; 0xd193; 0xa438; 0xd047;
  0xa438; 0x1000; 0xa438; 0x9bc9; 0xa438; 0x1000; 0xa438; 0x9c36; 0xa438; 0xd700; 0xa438; 0x5f7a;
  0xa438; 0xd706; 0xa438; 0x5f29; 0xa438; 0x1800; 0xa438; 0x888b; 0xa438; 0x800a; 0xa438; 0x8302;
  0xa438; 0x8480; 0xa438; 0x8604; 0xa438; 0xd405; 0xa438; 0x1000; 0xa438; 0x9bbf; 0xa438; 0xbb20;
  0xa438; 0xa00a; 0xa438; 0xa302; 0xa438; 0xa480; 0xa438; 0xa604; 0xa438; 0x1800; 0xa438; 0x8c32;
  0xa438; 0xd405; 0xa438; 0x1000; 0xa438; 0x9bbf; 0xa438; 0xd404; 0xa438; 0x1000; 0xa438; 0x9bbf;
  0xa438; 0xd700; 0xa438; 0x2b69; 0xa438; 0x88c0; 0xa438; 0xf06d; 0xa438; 0xd700; 0xa438; 0x60cf;
  0xa438; 0x60f1; 0xa438; 0x6113; 0xa438; 0x6135; 0xa438; 0x6157; 0xa438; 0xf00b; 0xa438; 0xce03;
  0xa438; 0xf00a; 0xa438; 0xce03; 0xa438; 0xf008; 0xa438; 0xce03; 0xa438; 0xf006; 0xa438; 0xce03;
  0xa438; 0xf004; 0xa438; 0xce03; 0xa438; 0xf002; 0xa438; 0xce03; 0xa438; 0x1000; 0xa438; 0x9bde;
  0xa438; 0x0c03; 0xa438; 0x1502; 0xa438; 0x0c07; 0xa438; 0x0c01; 0xa438; 0x0c3f; 0xa438; 0x0d08;
  0xa438; 0x9503; 0xa438; 0xa810; 0xa438; 0xa00a; 0xa438; 0xa302; 0xa438; 0x0ca0; 0xa438; 0x0480;
  0xa438; 0xd700; 0xa438; 0x2969; 0xa438; 0x88e8; 0xa438; 0x60a4; 0xa438; 0xd704; 0xa438; 0x407d;
  0xa438; 0x8604; 0xa438; 0xf002; 0xa438; 0xa604; 0xa438; 0x0c03; 0xa438; 0x1502; 0xa438; 0xa340;
  0xa438; 0xd700; 0xa438; 0x37cd; 0xa438; 0x88f0; 0xa438; 0x8310; 0xa438; 0x9503; 0xa438; 0x1000;
  0xa438; 0x9bc9; 0xa438; 0xd706; 0xa438; 0x5fa7; 0xa438; 0xb920; 0xa438; 0x1000; 0xa438; 0x9bc9;
  0xa438; 0xd71f; 0xa438; 0x7fb4; 0xa438; 0x8810; 0xa438; 0x9920; 0xa438; 0x1000; 0xa438; 0x9bc9;
  0xa438; 0xd71f; 0xa438; 0x60e5; 0xa438; 0x5f94; 0xa438; 0x1000; 0xa438; 0x9bc9; 0xa438; 0xd706;
  0xa438; 0x5fa7; 0xa438; 0xfff0; 0xa438; 0xb820; 0xa438; 0xa810; 0xa438; 0x1000; 0xa438; 0x9bc9;
  0xa438; 0xd71f; 0xa438; 0x7fa5; 0xa438; 0x9820; 0xa438; 0xd700; 0xa438; 0x2d59; 0xa438; 0x8c32;
  0xa438; 0x0c03; 0xa438; 0x1502; 0xa438; 0x8c07; 0xa438; 0x9503; 0xa438; 0xa120; 0xa438; 0xd700;
  0xa438; 0x2969; 0xa438; 0x891f; 0xa438; 0x60e4; 0xa438; 0xd704; 0xa438; 0x40bd; 0xa438; 0xd704;
  0xa438; 0x407b; 0xa438; 0x8310; 0xa438; 0xf002; 0xa438; 0xa310; 0xa438; 0xd700; 0xa438; 0x2969;
  0xa438; 0x8928; 0xa438; 0x60a4; 0xa438; 0xd704; 0xa438; 0x407d; 0xa438; 0xa202; 0xa438; 0xf002;
  0xa438; 0x8202; 0xa438; 0xa420; 0xa438; 0x1800; 0xa438; 0x8d48; 0xa438; 0x8810; 0xa438; 0x1000;
  0xa438; 0x9bc9; 0xa438; 0xd700; 0xa438; 0x5fbb; 0xa438; 0xd17a; 0xa438; 0xd05a; 0xa438; 0xd700;
  0xa438; 0x60cf; 0xa438; 0x60f1; 0xa438; 0x6113; 0xa438; 0x6135; 0xa438; 0x6157; 0xa438; 0xf00b;
  0xa438; 0xce06; 0xa438; 0xf00a; 0xa438; 0xce06; 0xa438; 0xf008; 0xa438; 0xce06; 0xa438; 0xf006;
  0xa438; 0xce06; 0xa438; 0xf004; 0xa438; 0xce06; 0xa438; 0xf002; 0xa438; 0xce06; 0xa438; 0x1000;
  0xa438; 0x9bde; 0xa438; 0x0c03; 0xa438; 0x1502; 0xa438; 0x0c0f; 0xa438; 0x0b04; 0xa438; 0x0c3f;
  0xa438; 0x0c21; 0xa438; 0x8d07; 0xa438; 0x9503; 0xa438; 0xa340; 0xa438; 0x1000; 0xa438; 0x9c52;
  0xa438; 0xa110; 0xa438; 0x1000; 0xa438; 0x9be6; 0xa438; 0x8110; 0xa438; 0x1000; 0xa438; 0x9c5b;
  0xa438; 0xa304; 0xa438; 0xa440; 0xa438; 0xa8c0; 0xa438; 0x8810; 0xa438; 0xa00a; 0xa438; 0xa120;
  0xa438; 0xa310; 0xa438; 0xd704; 0xa438; 0x405d; 0xa438; 0xa308; 0xa438; 0x0cfc; 0xa438; 0x0224;
  0xa438; 0x0ca0; 0xa438; 0x0480; 0xa438; 0x0c03; 0xa438; 0x1502; 0xa438; 0xa340; 0xa438; 0xd700;
  0xa438; 0x37cd; 0xa438; 0x896d; 0xa438; 0x8310; 0xa438; 0x9503; 0xa438; 0xd162; 0xa438; 0xd048;
  0xa438; 0x1000; 0xa438; 0x9bc9; 0xa438; 0xd700; 0xa438; 0x5fba; 0xa438; 0x8840; 0xa438; 0xd1c4;
  0xa438; 0xd045; 0xa438; 0x1000; 0xa438; 0x9bc9; 0xa438; 0xd700; 0xa438; 0x5fba; 0xa438; 0xd706;
  0xa438; 0x6127; 0xa438; 0xd700; 0xa438; 0x5f3b; 0xa438; 0x88c0; 0xa438; 0x800a; 0xa438; 0x8120;
  0xa438; 0x8350; 0xa438; 0x84a0; 0xa438; 0xffad; 0xa438; 0xb920; 0xa438; 0xcd33; 0xa438; 0x1000;
  0xa438; 0x9bc9; 0xa438; 0xd71f; 0xa438; 0x7fb4; 0xa438; 0x9920; 0xa438; 0x1000; 0xa438; 0x9bc9;
  0xa438; 0xd71f; 0xa438; 0x6065; 0xa438; 0x5f94; 0xa438; 0xffee; 0xa438; 0xb820; 0xa438; 0x1000;
  0xa438; 0x9bc9; 0xa438; 0xd71f; 0xa438; 0x7fa5; 0xa438; 0x9820; 0xa438; 0x800a; 0xa438; 0x8120;
  0xa438; 0x1000; 0xa438; 0x9c52; 0xa438; 0xa108; 0xa438; 0x1000; 0xa438; 0x9be6; 0xa438; 0x8108;
  0xa438; 0x1000; 0xa438; 0x9c5b; 0xa438; 0xd704; 0xa438; 0x60bd; 0xa438; 0xd707; 0xa438; 0x413f;
  0xa438; 0x4100; 0xa438; 0xf004; 0xa438; 0x0cfd; 0xa438; 0x0201; 0xa438; 0xf005; 0xa438; 0x0cfc;
  0xa438; 0x02bc; 0xa438; 0xf002; 0xa438; 0xa2fc; 0xa438; 0xa304; 0xa438; 0x8880; 0xa438; 0x0cc0;
  0xa438; 0x0440; 0xa438; 0xcd34; 0xa438; 0xd704; 0xa438; 0x407d; 0xa438; 0x405b; 0xa438; 0xf006;
  0xa438; 0xd704; 0xa438; 0x60fd; 0xa438; 0xd707; 0xa438; 0x40bf; 0xa438; 0x4080; 0xa438; 0x8310;
  0xa438; 0x1000; 0xa438; 0x9c0c; 0xa438; 0x0c03; 0xa438; 0x1502; 0xa438; 0x8c07; 0xa438; 0xd704;
  0xa438; 0x409d; 0xa438; 0x8b0f; 0xa438; 0x8c38; 0xa438; 0xf004; 0xa438; 0x0c0f; 0xa438; 0x0b07;
  0xa438; 0xac38; 0xa438; 0x0c38; 0xa438; 0x0d10; 0xa438; 0x9503; 0xa438; 0xa810; 0xa438; 0xa00a;
  0xa438; 0xa120; 0xa438; 0xd704; 0xa438; 0x607d; 0xa438; 0xa4a0; 0xa438; 0xa604; 0xa438; 0xd700;
  0xa438; 0x37c9; 0xa438; 0x89db; 0xa438; 0xd17a; 0xa438; 0xd049; 0xa438; 0xf003; 0xa438; 0xd19f;
  0xa438; 0xd049; 0xa438; 0xd704; 0xa438; 0x413d; 0xa438; 0xa00a; 0xa438; 0xa120; 0xa438; 0xd704;
  0xa438; 0x407b; 0xa438; 0x8310; 0xa438; 0xf002; 0xa438; 0xa310; 0xa438; 0xa403; 0xa438; 0x1000;
  0xa438; 0x9bc9; 0xa438; 0xd71f; 0xa438; 0x6a14; 0xa438; 0xd700; 0xa438; 0x409a; 0xa438; 0xd706;
  0xa438; 0x4988; 0xa438; 0xf014; 0xa438; 0xd704; 0xa438; 0x6055; 0xa438; 0xfff5; 0xa438; 0x1000;
  0xa438; 0x9c52; 0xa438; 0x800a; 0xa438; 0x8120; 0xa438; 0x8310; 0xa438; 0xa380; 0xa438; 0x1000;
  0xa438; 0x9bc9; 0xa438; 0x1000; 0xa438; 0x9c36; 0xa438; 0xd705; 0xa438; 0x5f77; 0xa438; 0x8380;
  0xa438; 0x1000; 0xa438; 0x9c5b; 0xa438; 0xffdd; 0xa438; 0x0c03; 0xa438; 0x1502; 0xa438; 0x8b0f;
  0xa438; 0x8c38; 0xa438; 0x8d38; 0xa438; 0x9503; 0xa438; 0xd700; 0xa438; 0x37c9; 0xa438; 0x8a14;
  0xa438; 0x33a9; 0xa438; 0x8a11; 0xa438; 0xd1f4; 0xa438; 0xd04b; 0xa438; 0xf006; 0xa438; 0xd1b7;
  0xa438; 0xd04b; 0xa438; 0xf003; 0xa438; 0xd1c6; 0xa438; 0xd04c; 0xa438; 0xd704; 0xa438; 0x413d;
  0xa438; 0xa00a; 0xa438; 0xa120; 0xa438; 0xd704; 0xa438; 0x407b; 0xa438; 0x8310; 0xa438; 0xf002;
  0xa438; 0xa310; 0xa438; 0xa403; 0xa438; 0x1000; 0xa438; 0x9bc9; 0xa438; 0xd71f; 0xa438; 0x62f4;
  0xa438; 0xd700; 0xa438; 0x405a; 0xa438; 0xf01a; 0xa438; 0xd704; 0xa438; 0x6055; 0xa438; 0xfff7;
  0xa438; 0x1000; 0xa438; 0x9c52; 0xa438; 0x800a; 0xa438; 0x8120; 0xa438; 0x8310; 0xa438; 0xa380;
  0xa438; 0x1000; 0xa438; 0x9bc9; 0xa438; 0x1000; 0xa438; 0x9c36; 0xa438; 0xd705; 0xa438; 0x5f77;
  0xa438; 0x8380; 0xa438; 0x1000; 0xa438; 0x9c5b; 0xa438; 0xffdf; 0xa438; 0x8403; 0xa438; 0x1000;
  0xa438; 0x9bc9; 0xa438; 0xd700; 0xa438; 0x629c; 0xa438; 0xfffb; 0xa438; 0x8403; 0xa438; 0x1000;
  0xa438; 0x9bc9; 0xa438; 0xd71f; 0xa438; 0x6096; 0xa438; 0xd700; 0xa438; 0x619c; 0xa438; 0xfffa;
  0xa438; 0xd706; 0xa438; 0x4128; 0xa438; 0xd702; 0xa438; 0x60b0; 0xa438; 0x0c03; 0xa438; 0x1502;
  0xa438; 0xae80; 0xa438; 0x9503; 0xa438; 0x1800; 0xa438; 0x8b62; 0xa438; 0xd17a; 0xa438; 0xd05a;
  0xa438; 0xd700; 0xa438; 0x60cf; 0xa438; 0x60f1; 0xa438; 0x6113; 0xa438; 0x6135; 0xa438; 0x6157;
  0xa438; 0xf00b; 0xa438; 0xce06; 0xa438; 0xf00a; 0xa438; 0xce06; 0xa438; 0xf008; 0xa438; 0xce06;
  0xa438; 0xf006; 0xa438; 0xce06; 0xa438; 0xf004; 0xa438; 0xce06; 0xa438; 0xf002; 0xa438; 0xce06;
  0xa438; 0x1000; 0xa438; 0x9bde; 0xa438; 0x0c03; 0xa438; 0x1502; 0xa438; 0x0c0f; 0xa438; 0x0b04;
  0xa438; 0x0c3f; 0xa438; 0x0c21; 0xa438; 0x8d07; 0xa438; 0x9503; 0xa438; 0xa340; 0xa438; 0x1000;
  0xa438; 0x9c52; 0xa438; 0xa110; 0xa438; 0x1000; 0xa438; 0x9be6; 0xa438; 0x8110; 0xa438; 0x1000;
  0xa438; 0x9c5b; 0xa438; 0xa304; 0xa438; 0xa440; 0xa438; 0xa8c0; 0xa438; 0x8810; 0xa438; 0xa00a;
  0xa438; 0xa120; 0xa438; 0xa310; 0xa438; 0xd704; 0xa438; 0x405d; 0xa438; 0xa308; 0xa438; 0x0cfc;
  0xa438; 0x0224; 0xa438; 0x0ca0; 0xa438; 0x0480; 0xa438; 0x8604; 0xa438; 0xcd35; 0xa438; 0xd162;
  0xa438; 0xd048; 0xa438; 0x1000; 0xa438; 0x9bc9; 0xa438; 0xd700; 0xa438; 0x5fba; 0xa438; 0x8840;
  0xa438; 0xd1c4; 0xa438; 0xd045; 0xa438; 0x1000; 0xa438; 0x9bc9; 0xa438; 0xd700; 0xa438; 0x5fba;
  0xa438; 0xd706; 0xa438; 0x6127; 0xa438; 0xd700; 0xa438; 0x5f3b; 0xa438; 0x88c0; 0xa438; 0x800a;
  0xa438; 0x8120; 0xa438; 0x8350; 0xa438; 0x84a0; 0xa438; 0xffb3; 0xa438; 0xbb80; 0xa438; 0x1000;
  0xa438; 0x9bc9; 0xa438; 0xd71f; 0xa438; 0x5fb4; 0xa438; 0xb920; 0xa438; 0xcd36; 0xa438; 0x1000;
  0xa438; 0x9bc9; 0xa438; 0xd71f; 0xa438; 0x7fb4; 0xa438; 0x9920; 0xa438; 0x9b80; 0xa438; 0x1000;
  0xa438; 0x9bc9; 0xa438; 0xd71f; 0xa438; 0x6065; 0xa438; 0x5f94; 0xa438; 0xffe8; 0xa438; 0xb820;
  0xa438; 0x1000; 0xa438; 0x9bc9; 0xa438; 0xd71f; 0xa438; 0x7fa5; 0xa438; 0x9820; 0xa438; 0x800a;
  0xa438; 0x8120; 0xa438; 0x1000; 0xa438; 0x9c52; 0xa438; 0xa108; 0xa438; 0x1000; 0xa438; 0x9be6;
  0xa438; 0x8108; 0xa438; 0x1000; 0xa438; 0x9c5b; 0xa438; 0xd704; 0xa438; 0x60bd; 0xa438; 0xd707;
  0xa438; 0x413f; 0xa438; 0x4100; 0xa438; 0xf004; 0xa438; 0x0cfd; 0xa438; 0x0201; 0xa438; 0xf005;
  0xa438; 0x0cfc; 0xa438; 0x02bc; 0xa438; 0xf002; 0xa438; 0xa2fc; 0xa438; 0xa304; 0xa438; 0x8880;
  0xa438; 0x0cc0; 0xa438; 0x0440; 0xa438; 0xcd37; 0xa438; 0xd704; 0xa438; 0x407d; 0xa438; 0x405b;
  0xa438; 0xf006; 0xa438; 0xd704; 0xa438; 0x60fd; 0xa438; 0xd707; 0xa438; 0x40bf; 0xa438; 0x4080;
  0xa438; 0x8310; 0xa438; 0x1000; 0xa438; 0x9c0c; 0xa438; 0x0c03; 0xa438; 0x1502; 0xa438; 0x8c07;
  0xa438; 0xd704; 0xa438; 0x409d; 0xa438; 0x8b0f; 0xa438; 0x8c38; 0xa438; 0xf004; 0xa438; 0x0c0f;
  0xa438; 0x0b07; 0xa438; 0xac38; 0xa438; 0x0c38; 0xa438; 0x0d10; 0xa438; 0x9503; 0xa438; 0xa810;
  0xa438; 0xa00a; 0xa438; 0xa120; 0xa438; 0xd704; 0xa438; 0x607d; 0xa438; 0xa4a0; 0xa438; 0xa604;
  0xa438; 0xd700; 0xa438; 0x37c9; 0xa438; 0x8b01; 0xa438; 0x33a9; 0xa438; 0x8afe; 0xa438; 0xd17a;
  0xa438; 0xd048; 0xa438; 0xf006; 0xa438; 0xd17a; 0xa438; 0xd048; 0xa438; 0xf003; 0xa438; 0xd17a;
  0xa438; 0xd048; 0xa438; 0xd704; 0xa438; 0x413d; 0xa438; 0xa00a; 0xa438; 0xa120; 0xa438; 0xd704;
  0xa438; 0x407b; 0xa438; 0x8310; 0xa438; 0xf002; 0xa438; 0xa310; 0xa438; 0xa403; 0xa438; 0x1000;
  0xa438; 0x9bc9; 0xa438; 0x1000; 0xa438; 0x9c36; 0xa438; 0xd700; 0xa438; 0x409a; 0xa438; 0xd706;
  0xa438; 0x4048; 0xa438; 0xf014; 0xa438; 0xd704; 0xa438; 0x6055; 0xa438; 0xfff5; 0xa438; 0x1000;
  0xa438; 0x9c52; 0xa438; 0x800a; 0xa438; 0x8120; 0xa438; 0x8310; 0xa438; 0xa380; 0xa438; 0x1000;
  0xa438; 0x9bc9; 0xa438; 0x1000; 0xa438; 0x9c36; 0xa438; 0xd705; 0xa438; 0x5f77; 0xa438; 0x8380;
  0xa438; 0x1000; 0xa438; 0x9c5b; 0xa438; 0xffdd; 0xa438; 0x0c03; 0xa438; 0x1502; 0xa438; 0x8b0f;
  0xa438; 0x8c38; 0xa438; 0x8d38; 0xa438; 0x9503; 0xa438; 0xd700; 0xa438; 0x37c9; 0xa438; 0x8b3a;
  0xa438; 0x33a9; 0xa438; 0x8b37; 0xa438; 0xd199; 0xa438; 0xd04b; 0xa438; 0xf006; 0xa438; 0xd17a;
  0xa438; 0xd04a; 0xa438; 0xf003; 0xa438; 0xd189; 0xa438; 0xd04c; 0xa438; 0xd704; 0xa438; 0x413d;
  0xa438; 0xa00a; 0xa438; 0xa120; 0xa438; 0xd704; 0xa438; 0x407b; 0xa438; 0x8310; 0xa438; 0xf002;
  0xa438; 0xa310; 0xa438; 0xa403; 0xa438; 0x1000; 0xa438; 0x9bc9; 0xa438; 0x1000; 0xa438; 0x9c36;
  0xa438; 0xd700; 0xa438; 0x409a; 0xa438; 0xd706; 0xa438; 0x4048; 0xa438; 0xf014; 0xa438; 0xd704;
  0xa438; 0x6055; 0xa438; 0xfff5; 0xa438; 0x1000; 0xa438; 0x9c52; 0xa438; 0x800a; 0xa438; 0x8120;
  0xa438; 0x8310; 0xa438; 0xa380; 0xa438; 0x1000; 0xa438; 0x9bc9; 0xa438; 0x1000; 0xa438; 0x9c36;
  0xa438; 0xd705; 0xa438; 0x5f77; 0xa438; 0x8380; 0xa438; 0x1000; 0xa438; 0x9c5b; 0xa438; 0xffdd;
  0xa438; 0x0c03; 0xa438; 0x1502; 0xa438; 0x0c07; 0xa438; 0x0d01; 0xa438; 0x9503; 0xa438; 0xd700;
  0xa438; 0x60cf; 0xa438; 0x60f1; 0xa438; 0x6113; 0xa438; 0x6135; 0xa438; 0x6157; 0xa438; 0xf00b;
  0xa438; 0xce08; 0xa438; 0xf00a; 0xa438; 0xce08; 0xa438; 0xf008; 0xa438; 0xce08; 0xa438; 0xf006;
  0xa438; 0xce08; 0xa438; 0xf004; 0xa438; 0xce08; 0xa438; 0xf002; 0xa438; 0xce08; 0xa438; 0x1000;
  0xa438; 0x9bde; 0xa438; 0xa180; 0xa438; 0xcd38; 0xa438; 0xd700; 0xa438; 0x37c9; 0xa438; 0x8b92;
  0xa438; 0x33a9; 0xa438; 0x8b8a; 0xa438; 0xd702; 0xa438; 0x4098; 0xa438; 0xd17a; 0xa438; 0xd04a;
  0xa438; 0xf013; 0xa438; 0xd100; 0xa438; 0xd049; 0xa438; 0xf010; 0xa438; 0xd702; 0xa438; 0x4098;
  0xa438; 0xd1b7; 0xa438; 0xd049; 0xa438; 0xf00b; 0xa438; 0xd100; 0xa438; 0xd048; 0xa438; 0xf008;
  0xa438; 0xd702; 0xa438; 0x4098; 0xa438; 0xd17a; 0xa438; 0xd04b; 0xa438; 0xf003; 0xa438; 0xd199;
  0xa438; 0xd04a; 0xa438; 0xd13b; 0xa438; 0xd055; 0xa438; 0xd704; 0xa438; 0x413d; 0xa438; 0xa00a;
  0xa438; 0xa1a0; 0xa438; 0xd704; 0xa438; 0x407b; 0xa438; 0x8310; 0xa438; 0xf002; 0xa438; 0xa310;
  0xa438; 0xa403; 0xa438; 0x1000; 0xa438; 0x9bc9; 0xa438; 0x1000; 0xa438; 0x9c36; 0xa438; 0xd700;
  0xa438; 0x405b; 0xa438; 0xf014; 0xa438; 0xd704; 0xa438; 0x6055; 0xa438; 0xfff7; 0xa438; 0x1000;
  0xa438; 0x9c52; 0xa438; 0x800a; 0xa438; 0x81a0; 0xa438; 0x8310; 0xa438; 0xa380; 0xa438; 0x1000;
  0xa438; 0x9bc9; 0xa438; 0x1000; 0xa438; 0x9c36; 0xa438; 0xd705; 0xa438; 0x5f77; 0xa438; 0x8380;
  0xa438; 0x1000; 0xa438; 0x9c5b; 0xa438; 0xffdf; 0xa438; 0xa302; 0xa438; 0xd704; 0xa438; 0x415d;
  0xa438; 0xa00a; 0xa438; 0xa1a0; 0xa438; 0xd704; 0xa438; 0x407b; 0xa438; 0x8310; 0xa438; 0xf002;
  0xa438; 0xa310; 0xa438; 0xa302; 0xa438; 0xa403; 0xa438; 0x1000; 0xa438; 0x9bc9; 0xa438; 0x1000;
  0xa438; 0x9c36; 0xa438; 0xd700; 0xa438; 0x409a; 0xa438; 0xd706; 0xa438; 0x4048; 0xa438; 0xf014;
  0xa438; 0xd704; 0xa438; 0x6055; 0xa438; 0xfff5; 0xa438; 0x1000; 0xa438; 0x9c52; 0xa438; 0x800a;
  0xa438; 0x81a0; 0xa438; 0x8312; 0xa438; 0xa380; 0xa438; 0x1000; 0xa438; 0x9bc9; 0xa438; 0x1000;
  0xa438; 0x9c36; 0xa438; 0xd705; 0xa438; 0x5f77; 0xa438; 0x8380; 0xa438; 0x1000; 0xa438; 0x9c5b;
  0xa438; 0xffdc; 0xa438; 0x0c03; 0xa438; 0x1502; 0xa438; 0x0c0f; 0xa438; 0x0b02; 0xa438; 0x0c38;
  0xa438; 0x0c10; 0xa438; 0x9503; 0xa438; 0xd700; 0xa438; 0x37c9; 0xa438; 0x8c03; 0xa438; 0x33a9;
  0xa438; 0x8bfb; 0xa438; 0xd702; 0xa438; 0x4098; 0xa438; 0xd199; 0xa438; 0xd04a; 0xa438; 0xf013;
  0xa438; 0xd100; 0xa438; 0xd04a; 0xa438; 0xf010; 0xa438; 0xd702; 0xa438; 0x4098; 0xa438; 0xd17a;
  0xa438; 0xd04a; 0xa438; 0xf00b; 0xa438; 0xd100; 0xa438; 0xd048; 0xa438; 0xf008; 0xa438; 0xd702;
  0xa438; 0x4098; 0xa438; 0xd199; 0xa438; 0xd04b; 0xa438; 0xf003; 0xa438; 0xd16b; 0xa438; 0xd04b;
  0xa438; 0xd704; 0xa438; 0x415d; 0xa438; 0xa00a; 0xa438; 0xa1a0; 0xa438; 0xd704; 0xa438; 0x407b;
  0xa438; 0x8310; 0xa438; 0xf002; 0xa438; 0xa310; 0xa438; 0xa302; 0xa438; 0xa403; 0xa438; 0x1000;
  0xa438; 0x9bc9; 0xa438; 0x1000; 0xa438; 0x9c36; 0xa438; 0xd700; 0xa438; 0x40ba; 0xa438; 0xd706;
  0xa438; 0x406a; 0xa438; 0x8403; 0xa438; 0xf014; 0xa438; 0xd704; 0xa438; 0x6055; 0xa438; 0xfff4;
  0xa438; 0x1000; 0xa438; 0x9c52; 0xa438; 0x800a; 0xa438; 0x81a0; 0xa438; 0x8312; 0xa438; 0xa380;
  0xa438; 0x1000; 0xa438; 0x9bc9; 0xa438; 0x1000; 0xa438; 0x9c36; 0xa438; 0xd705; 0xa438; 0x5f77;
  0xa438; 0x8380; 0xa438; 0x1000; 0xa438; 0x9c5b; 0xa438; 0xffdb; 0xa438; 0x81a0; 0xa438; 0x8310;
  0xa438; 0xa302; 0xa438; 0xa00a; 0xa438; 0xa480; 0xa438; 0x8420; 0xa438; 0xd700; 0xa438; 0x2969;
  0xa438; 0x8c42; 0xa438; 0x60e4; 0xa438; 0xd700; 0xa438; 0x40a7; 0xa438; 0xd704; 0xa438; 0x407d;
  0xa438; 0x8604; 0xa438; 0xf002; 0xa438; 0xa604; 0xa438; 0xd700; 0xa438; 0x60c7; 0xa438; 0xa602;
  0xa438; 0x0c03; 0xa438; 0x1502; 0xa438; 0xa702; 0xa438; 0x9503; 0xa438; 0x0c03; 0xa438; 0x1502;
  0xa438; 0xa340; 0xa438; 0x9503; 0xa438; 0xd700; 0xa438; 0x60cf; 0xa438; 0x60f1; 0xa438; 0x6113;
  0xa438; 0x6135; 0xa438; 0x6157; 0xa438; 0xf00b; 0xa438; 0xce03; 0xa438; 0xf00a; 0xa438; 0xce03;
  0xa438; 0xf008; 0xa438; 0xce03; 0xa438; 0xf006; 0xa438; 0xce03; 0xa438; 0xf004; 0xa438; 0xce03;
  0xa438; 0xf002; 0xa438; 0xce03; 0xa438; 0x1000; 0xa438; 0x9bde; 0xa438; 0x0c03; 0xa438; 0x1502;
  0xa438; 0x0c07; 0xa438; 0x0c01; 0xa438; 0x0c3f; 0xa438; 0x0d08; 0xa438; 0x9503; 0xa438; 0xd700;
  0xa438; 0x646d; 0xa438; 0x37c9; 0xa438; 0x8c83; 0xa438; 0x33a9; 0xa438; 0x8c79; 0xa438; 0xd700;
  0xa438; 0x40c7; 0xa438; 0xd702; 0xa438; 0x6098; 0xa438; 0xd100; 0xa438; 0xd048; 0xa438; 0xf01a;
  0xa438; 0xd17a; 0xa438; 0xd049; 0xa438; 0xf017; 0xa438; 0xd700; 0xa438; 0x40c7; 0xa438; 0xd702;
  0xa438; 0x6098; 0xa438; 0xd100; 0xa438; 0xd049; 0xa438; 0xf010; 0xa438; 0xd17a; 0xa438; 0xd04c;
  0xa438; 0xf00d; 0xa438; 0xd700; 0xa438; 0x40c7; 0xa438; 0xd702; 0xa438; 0x6098; 0xa438; 0xd17a;
  0xa438; 0xd04a; 0xa438; 0xf006; 0xa438; 0xd17a; 0xa438; 0xd04a; 0xa438; 0xf003; 0xa438; 0xd17a;
  0xa438; 0xd048; 0xa438; 0x1000; 0xa438; 0x9bc9; 0xa438; 0x1000; 0xa438; 0x9c36; 0xa438; 0xd700;
  0xa438; 0x5f7a; 0xa438; 0xd706; 0xa438; 0x5f29; 0xa438; 0xd700; 0xa438; 0x60cf; 0xa438; 0x60f1;
  0xa438; 0x6113; 0xa438; 0x6135; 0xa438; 0x6157; 0xa438; 0xf00b; 0xa438; 0xce06; 0xa438; 0xf00a;
  0xa438; 0xce06; 0xa438; 0xf008; 0xa438; 0xce06; 0xa438; 0xf006; 0xa438; 0xce06; 0xa438; 0xf004;
  0xa438; 0xce06; 0xa438; 0xf002; 0xa438; 0xce06; 0xa438; 0x1000; 0xa438; 0x9bde; 0xa438; 0x0c03;
  0xa438; 0x1502; 0xa438; 0x0c0f; 0xa438; 0x0b01; 0xa438; 0x0c3f; 0xa438; 0x0c08; 0xa438; 0x9503;
  0xa438; 0xa120; 0xa438; 0xd700; 0xa438; 0x2969; 0xa438; 0x8cc7; 0xa438; 0x6224; 0xa438; 0xd700;
  0xa438; 0x4147; 0xa438; 0xd704; 0xa438; 0x409d; 0xa438; 0xd704; 0xa438; 0x613b; 0xa438; 0xf00a;
  0xa438; 0xd707; 0xa438; 0x411f; 0xa438; 0x40e0; 0xa438; 0xf004; 0xa438; 0xd707; 0xa438; 0x409f;
  0xa438; 0x4062; 0xa438; 0x8310; 0xa438; 0xf002; 0xa438; 0xa310; 0xa438; 0xd700; 0xa438; 0x2969;
  0xa438; 0x8cd2; 0xa438; 0x60e4; 0xa438; 0xd700; 0xa438; 0x40a7; 0xa438; 0xd704; 0xa438; 0x407d;
  0xa438; 0xa202; 0xa438; 0xf002].

Definition phy_mcu_ram_code_8127a_tc_1_p3 : list Z := [
  0xa438; 0x8202; 0xa438; 0xa420; 0xa438; 0xcd3b; 0xa438; 0xd700; 0xa438; 0x65ad; 0xa438; 0x43c7;
  0xa438; 0xd700; 0xa438; 0x37c9; 0xa438; 0x8ced; 0xa438; 0x33a9; 0xa438; 0x8ce5; 0xa438; 0xd702;
  0xa438; 0x4098; 0xa438; 0xd199; 0xa438; 0xd04c; 0xa438; 0xf024; 0xa438; 0xd1b7; 0xa438; 0xd04a;
  0xa438; 0xf021; 0xa438; 0xd702; 0xa438; 0x4098; 0xa438; 0xd1c6; 0xa438; 0xd04c; 0xa438; 0xf01c;
  0xa438; 0xd1b7; 0xa438; 0xd04a; 0xa438; 0xf019; 0xa438; 0xd702; 0xa438; 0x4098; 0xa438; 0xd199;
  0xa438; 0xd04c; 0xa438; 0xf014; 0xa438; 0xd17a; 0xa438; 0xd04c; 0xa438; 0xf011; 0xa438; 0xd700;
  0xa438; 0x37c9; 0xa438; 0x8d00; 0xa438; 0x33a9; 0xa438; 0x8cfd; 0xa438; 0xd1e5; 0xa438; 0xd04c;
  0xa438; 0xf009; 0xa438; 0xd191; 0xa438; 0xd04d; 0xa438; 0xf006; 0xa438; 0xd17a; 0xa438; 0xd04d;
  0xa438; 0xf003; 0xa438; 0xd16b; 0xa438; 0xd04c; 0xa438; 0x1000; 0xa438; 0x9bc9; 0xa438; 0x1000;
  0xa438; 0x9c36; 0xa438; 0xd700; 0xa438; 0x5f7a; 0xa438; 0xd706; 0xa438; 0x5f2c; 0xa438; 0xd700;
  0xa438; 0x40e7; 0xa438; 0x0c03; 0xa438; 0x1502; 0xa438; 0x0c07; 0xa438; 0x0d01; 0xa438; 0x9503;
  0xa438; 0xf006; 0xa438; 0x0c03; 0xa438; 0x1502; 0xa438; 0x0c07; 0xa438; 0x0d02; 0xa438; 0x9503;
  0xa438; 0xcd3c; 0xa438; 0xd700; 0xa438; 0x644d; 0xa438; 0x43c7; 0xa438; 0xd700; 0xa438; 0x37c9;
  0xa438; 0x8d33; 0xa438; 0x33a9; 0xa438; 0x8d2b; 0xa438; 0xd702; 0xa438; 0x4098; 0xa438; 0xd17a;
  0xa438; 0xd04a; 0xa438; 0xf019; 0xa438; 0xd17a; 0xa438; 0xd048; 0xa438; 0xf016; 0xa438; 0xd702;
  0xa438; 0x4098; 0xa438; 0xd17a; 0xa438; 0xd04b; 0xa438; 0xf011; 0xa438; 0xd17a; 0xa438; 0xd048;
  0xa438; 0xf00e; 0xa438; 0xd702; 0xa438; 0x4098; 0xa438; 0xd17a; 0xa438; 0xd04a; 0xa438; 0xf009;
  0xa438; 0xd17a; 0xa438; 0xd049; 0xa438; 0xf006; 0xa438; 0xd17a; 0xa438; 0xd04b; 0xa438; 0xf003;
  0xa438; 0xd17a; 0xa438; 0xd048; 0xa438; 0x1000; 0xa438; 0x9bc9; 0xa438; 0x1000; 0xa438; 0x9c36;
  0xa438; 0xd700; 0xa438; 0x5f7a; 0xa438; 0xd706; 0xa438; 0x5f2d; 0xa438; 0xd700; 0xa438; 0x60cf;
  0xa438; 0x60f1; 0xa438; 0x6113; 0xa438; 0x6135; 0xa438; 0x6157; 0xa438; 0xf00b; 0xa438; 0xce08;
  0xa438; 0xf00a; 0xa438; 0xce08; 0xa438; 0xf008; 0xa438; 0xce08; 0xa438; 0xf006; 0xa438; 0xce08;
  0xa438; 0xf004; 0xa438; 0xce08; 0xa438; 0xf002; 0xa438; 0xce08; 0xa438; 0x1000; 0xa438; 0x9bde;
  0xa438; 0x0c03; 0xa438; 0x1502; 0xa438; 0x0c0f; 0xa438; 0x0b02; 0xa438; 0x0c38; 0xa438; 0x0c10;
  0xa438; 0x9503; 0xa438; 0xa180; 0xa438; 0xcd3d; 0xa438; 0xd700; 0xa438; 0x2969; 0xa438; 0x8d8a;
  0xa438; 0x37c9; 0xa438; 0x8d80; 0xa438; 0x33a9; 0xa438; 0x8d76; 0xa438; 0xd700; 0xa438; 0x40c7;
  0xa438; 0xd702; 0xa438; 0x6098; 0xa438; 0xd15c; 0xa438; 0xd04a; 0xa438; 0xf01a; 0xa438; 0xd199;
  0xa438; 0xd04b; 0xa438; 0xf017; 0xa438; 0xd700; 0xa438; 0x40c7; 0xa438; 0xd702; 0xa438; 0x6098;
  0xa438; 0xd13e; 0xa438; 0xd04a; 0xa438; 0xf010; 0xa438; 0xd199; 0xa438; 0xd04b; 0xa438; 0xf00d;
  0xa438; 0xd700; 0xa438; 0x40c7; 0xa438; 0xd702; 0xa438; 0x6098; 0xa438; 0xd17a; 0xa438; 0xd04c;
  0xa438; 0xf006; 0xa438; 0xd199; 0xa438; 0xd04c; 0xa438; 0xf003; 0xa438; 0xd17a; 0xa438; 0xd04b;
  0xa438; 0xd700; 0xa438; 0x37c9; 0xa438; 0x8da5; 0xa438; 0x33a9; 0xa438; 0x8d9b; 0xa438; 0xd700;
  0xa438; 0x40c7; 0xa438; 0xd702; 0xa438; 0x6098; 0xa438; 0xd100; 0xa438; 0xd050; 0xa438; 0xf017;
  0xa438; 0xd17a; 0xa438; 0xd05a; 0xa438; 0xf014; 0xa438; 0xd700; 0xa438; 0x40c7; 0xa438; 0xd702;
  0xa438; 0x6098; 0xa438; 0xd100; 0xa438; 0xd050; 0xa438; 0xf00d; 0xa438; 0xd17a; 0xa438; 0xd05a;
  0xa438; 0xf00a; 0xa438; 0xd700; 0xa438; 0x40c7; 0xa438; 0xd702; 0xa438; 0x6098; 0xa438; 0xd17a;
  0xa438; 0xd05a; 0xa438; 0xf003; 0xa438; 0xd17a; 0xa438; 0xd05a; 0xa438; 0xd707; 0xa438; 0x3ad1;
  0xa438; 0x8e73; 0xa438; 0xd705; 0xa438; 0x36b1; 0xa438; 0x8ddd; 0xa438; 0xd700; 0xa438; 0x2969;
  0xa438; 0x8dd5; 0xa438; 0x63c4; 0xa438; 0xd700; 0xa438; 0x40e7; 0xa438; 0xd704; 0xa438; 0x40bd;
  0xa438; 0xd704; 0xa438; 0x60dc; 0xa438; 0x63fb; 0xa438; 0xf016; 0xa438; 0xd707; 0xa438; 0x429f;
  0xa438; 0xf001; 0xa438; 0x1000; 0xa438; 0x9bc9; 0xa438; 0x1000; 0xa438; 0x9c36; 0xa438; 0xd700;
  0xa438; 0x5f7b; 0xa438; 0xd700; 0xa438; 0x40e7; 0xa438; 0xd704; 0xa438; 0x40bd; 0xa438; 0xd704;
  0xa438; 0x407c; 0xa438; 0x1800; 0xa438; 0x8e73; 0xa438; 0xd706; 0xa438; 0x2b59; 0xa438; 0x8e73;
  0xa438; 0xf009; 0xa438; 0xaa20; 0xa438; 0x1000; 0xa438; 0x9bc9; 0xa438; 0x1000; 0xa438; 0x9c36;
  0xa438; 0xd701; 0xa438; 0x5f72; 0xa438; 0x8a20; 0xa438; 0x1000; 0xa438; 0x9bc9; 0xa438; 0x1000;
  0xa438; 0x9c36; 0xa438; 0xd700; 0xa438; 0x5f7a; 0xa438; 0xd706; 0xa438; 0x5f2f; 0xa438; 0xd700;
  0xa438; 0x4287; 0xa438; 0xd700; 0xa438; 0x60cf; 0xa438; 0x60f1; 0xa438; 0x6113; 0xa438; 0x6135;
  0xa438; 0x6157; 0xa438; 0xf00b; 0xa438; 0xce08; 0xa438; 0xf01e; 0xa438; 0xce08; 0xa438; 0xf01c;
  0xa438; 0xce08; 0xa438; 0xf01a; 0xa438; 0xce08; 0xa438; 0xf018; 0xa438; 0xce08; 0xa438; 0xf016;
  0xa438; 0xce08; 0xa438; 0xf014; 0xa438; 0xd700; 0xa438; 0x60cf; 0xa438; 0x60f1; 0xa438; 0x6113;
  0xa438; 0x6135; 0xa438; 0x6157; 0xa438; 0xf00b; 0xa438; 0xce08; 0xa438; 0xf00b; 0xa438; 0xce08;
  0xa438; 0xf009; 0xa438; 0xce08; 0xa438; 0xf007; 0xa438; 0xce08; 0xa438; 0xf005; 0xa438; 0xce08;
  0xa438; 0xf003; 0xa438; 0xce08; 0xa438; 0xf001; 0xa438; 0x1000; 0xa438; 0x9bde; 0xa438; 0xd700;
  0xa438; 0x2969; 0xa438; 0x8e23; 0xa438; 0x6224; 0xa438; 0xd700; 0xa438; 0x4147; 0xa438; 0xd704;
  0xa438; 0x409d; 0xa438; 0xd704; 0xa438; 0x417b; 0xa438; 0xf008; 0xa438; 0xd707; 0xa438; 0x411f;
  0xa438; 0x40e0; 0xa438; 0xf004; 0xa438; 0xd707; 0xa438; 0x409f; 0xa438; 0x4062; 0xa438; 0x8320;
  0xa438; 0xf002; 0xa438; 0xa320; 0xa438; 0x8310; 0xa438; 0xcd3e; 0xa438; 0xd700; 0xa438; 0x2969;
  0xa438; 0x8e4b; 0xa438; 0x37c9; 0xa438; 0x8e41; 0xa438; 0x33a9; 0xa438; 0x8e37; 0xa438; 0xd700;
  0xa438; 0x40c7; 0xa438; 0xd702; 0xa438; 0x6098; 0xa438; 0xd15d; 0xa438; 0xd04b; 0xa438; 0xf01a;
  0xa438; 0xd17a; 0xa438; 0xd04b; 0xa438; 0xf017; 0xa438; 0xd700; 0xa438; 0x40c7; 0xa438; 0xd702;
  0xa438; 0x6098; 0xa438; 0xd16b; 0xa438; 0xd04b; 0xa438; 0xf010; 0xa438; 0xd17a; 0xa438; 0xd04b;
  0xa438; 0xf00d; 0xa438; 0xd700; 0xa438; 0x40c7; 0xa438; 0xd702; 0xa438; 0x6098; 0xa438; 0xd17a;
  0xa438; 0xd04b; 0xa438; 0xf006; 0xa438; 0xd17a; 0xa438; 0xd04b; 0xa438; 0xf003; 0xa438; 0xd1b7;
  0xa438; 0xd04a; 0xa438; 0x1000; 0xa438; 0x9bc9; 0xa438; 0x1000; 0xa438; 0x9c36; 0xa438; 0xd700;
  0xa438; 0x5f7a; 0xa438; 0xd706; 0xa438; 0x5f2f; 0xa438; 0xd700; 0xa438; 0x2969; 0xa438; 0x8e6b;
  0xa438; 0x6264; 0xa438; 0xd700; 0xa438; 0x4187; 0xa438; 0xd704; 0xa438; 0x40bd; 0xa438; 0xd704;
  0xa438; 0x41bb; 0xa438; 0x1800; 0xa438; 0x8f25; 0xa438; 0xd707; 0xa438; 0x413f; 0xa438; 0x4100;
  0xa438; 0x1800; 0xa438; 0x8f25; 0xa438; 0xd707; 0xa438; 0x409f; 0xa438; 0x4060; 0xa438; 0x1800;
  0xa438; 0x8f25; 0xa438; 0x1000; 0xa438; 0x9bc9; 0xa438; 0x1000; 0xa438; 0x9c36; 0xa438; 0xd701;
  0xa438; 0x5f77; 0xa438; 0x1800; 0xa438; 0x8f25; 0xa438; 0xd700; 0xa438; 0x4287; 0xa438; 0xd700;
  0xa438; 0x60cf; 0xa438; 0x60f1; 0xa438; 0x6113; 0xa438; 0x6135; 0xa438; 0x6157; 0xa438; 0xf00b;
  0xa438; 0xce08; 0xa438; 0xf01e; 0xa438; 0xce08; 0xa438; 0xf01c; 0xa438; 0xce08; 0xa438; 0xf01a;
  0xa438; 0xce08; 0xa438; 0xf018; 0xa438; 0xce08; 0xa438; 0xf016; 0xa438; 0xce08; 0xa438; 0xf014;
  0xa438; 0xd700; 0xa438; 0x60cf; 0xa438; 0x60f1; 0xa438; 0x6113; 0xa438; 0x6135; 0xa438; 0x6157;
  0xa438; 0xf00b; 0xa438; 0xce08; 0xa438; 0xf00b; 0xa438; 0xce08; 0xa438; 0xf009; 0xa438; 0xce08;
  0xa438; 0xf007; 0xa438; 0xce08; 0xa438; 0xf005; 0xa438; 0xce08; 0xa438; 0xf003; 0xa438; 0xce08;
  0xa438; 0xf001; 0xa438; 0x1000; 0xa438; 0x9bde; 0xa438; 0x0c03; 0xa438; 0x1502; 0xa438; 0xa102;
  0xa438; 0xa802; 0xa438; 0x9503; 0xa438; 0xaa02; 0xa438; 0xd700; 0xa438; 0x40e7; 0xa438; 0x0c03;
  0xa438; 0x1502; 0xa438; 0x0c0f; 0xa438; 0x0b05; 0xa438; 0xac38; 0xa438; 0x9503; 0xa438; 0xd700;
  0xa438; 0x40c7; 0xa438; 0xd704; 0xa438; 0x60fd; 0xa438; 0xd707; 0xa438; 0x40a0; 0xa438; 0xf003;
  0xa438; 0xd707; 0xa438; 0x4042; 0xa438; 0xa308; 0xa438; 0xa310; 0xa438; 0xcd3f; 0xa438; 0xd700;
  0xa438; 0x37c9; 0xa438; 0x8ed0; 0xa438; 0x33a9; 0xa438; 0x8ec6; 0xa438; 0xd700; 0xa438; 0x40c7;
  0xa438; 0xd702; 0xa438; 0x6098; 0xa438; 0xd1d6; 0xa438; 0xd04a; 0xa438; 0xf017; 0xa438; 0xd1d6;
  0xa438; 0xd04a; 0xa438; 0xf014; 0xa438; 0xd700; 0xa438; 0x40c7; 0xa438; 0xd702; 0xa438; 0x6098;
  0xa438; 0xd1d6; 0xa438; 0xd04a; 0xa438; 0xf00d; 0xa438; 0xd1d6; 0xa438; 0xd04a; 0xa438; 0xf00a;
  0xa438; 0xd700; 0xa438; 0x40c7; 0xa438; 0xd702; 0xa438; 0x6098; 0xa438; 0xd199; 0xa438; 0xd04a;
  0xa438; 0xf003; 0xa438; 0xd199; 0xa438; 0xd04a; 0xa438; 0x1000; 0xa438; 0x9bc9; 0xa438; 0x1000;
  0xa438; 0x9c36; 0xa438; 0xd700; 0xa438; 0x5f7a; 0xa438; 0x0c30; 0xa438; 0x0320; 0xa438; 0xd700;
  0xa438; 0x37c9; 0xa438; 0x8efa; 0xa438; 0x33a9; 0xa438; 0x8ef0; 0xa438; 0xd700; 0xa438; 0x40c7;
  0xa438; 0xd702; 0xa438; 0x6098; 0xa438; 0xd199; 0xa438; 0xd04a; 0xa438; 0xf017; 0xa438; 0xd17a;
  0xa438; 0xd04b; 0xa438; 0xf014; 0xa438; 0xd700; 0xa438; 0x40c7; 0xa438; 0xd702; 0xa438; 0x6098;
  0xa438; 0xd199; 0xa438; 0xd04a; 0xa438; 0xf00d; 0xa438; 0xd17a; 0xa438; 0xd04b; 0xa438; 0xf00a;
  0xa438; 0xd700; 0xa438; 0x40c7; 0xa438; 0xd702; 0xa438; 0x6098; 0xa438; 0xd17a; 0xa438; 0xd04b;
  0xa438; 0xf003; 0xa438; 0xd17a; 0xa438; 0xd04b; 0xa438; 0xd700; 0xa438; 0x4287; 0xa438; 0xd704;
  0xa438; 0x425d; 0xa438; 0xd704; 0xa438; 0x421c; 0xa438; 0x1000; 0xa438; 0x9bc9; 0xa438; 0x1000;
  0xa438; 0x9c36; 0xa438; 0xd701; 0xa438; 0x5f77; 0xa438; 0x1000; 0xa438; 0x9c16; 0xa438; 0x1000;
  0xa438; 0x9bc9; 0xa438; 0x1000; 0xa438; 0x9c36; 0xa438; 0xd700; 0xa438; 0x5f7a; 0xa438; 0xf009;
  0xa438; 0x1000; 0xa438; 0x9bc9; 0xa438; 0x1000; 0xa438; 0x9c36; 0xa438; 0xd700; 0xa438; 0x5f7a;
  0xa438; 0xd701; 0xa438; 0x5f37; 0xa438; 0x0c03; 0xa438; 0x1502; 0xa438; 0x8102; 0xa438; 0x9503;
  0xa438; 0x8a02; 0xa438; 0xcd40; 0xa438; 0x0c03; 0xa438; 0x1502; 0xa438; 0x8380; 0xa438; 0x9503;
  0xa438; 0xd40a; 0xa438; 0x1000; 0xa438; 0x9bbf; 0xa438; 0xbb10; 0xa438; 0xcd41; 0xa438; 0x1000;
  0xa438; 0x9bc9; 0xa438; 0x1000; 0xa438; 0x9c36; 0xa438; 0xd71f; 0xa438; 0x5f75; 0xa438; 0x800a;
  0xa438; 0x81a0; 0xa438; 0x8302; 0xa438; 0x8480; 0xa438; 0xd700; 0xa438; 0x6047; 0xa438; 0xa680;
  0xa438; 0x8606; 0xa438; 0x0c03; 0xa438; 0x1502; 0xa438; 0x8340; 0xa438; 0xd700; 0xa438; 0x6060;
  0xa438; 0xa120; 0xa438; 0xa302; 0xa438; 0x9503; 0xa438; 0x8c40; 0xa438; 0x0c03; 0xa438; 0x1502;
  0xa438; 0x8750; 0xa438; 0x8702; 0xa438; 0x9503; 0xa438; 0x9b30; 0xa438; 0x0c03; 0xa438; 0x1502;
  0xa438; 0x8011; 0xa438; 0x9503; 0xa438; 0x1000; 0xa438; 0x9bc9; 0xa438; 0xd71f; 0xa438; 0x7fb5;
  0xa438; 0xcd42; 0xa438; 0x1000; 0xa438; 0x9bc9; 0xa438; 0xd71f; 0xa438; 0x5f94; 0xa438; 0xd700;
  0xa438; 0x2969; 0xa438; 0x8f67; 0xa438; 0xd700; 0xa438; 0x6140; 0xa438; 0xd705; 0xa438; 0x611e;
  0xa438; 0xd703; 0xa438; 0x40d0; 0xa438; 0x1000; 0xa438; 0x9c20; 0xa438; 0xd41a; 0xa438; 0x1000;
  0xa438; 0x9bbf; 0xa438; 0x8340; 0xa438; 0xa801; 0xa438; 0xd700; 0xa438; 0x2fa9; 0xa438; 0x8f70;
  0xa438; 0x33c9; 0xa438; 0x8f73; 0xa438; 0x6117; 0xa438; 0xf00a; 0xa438; 0xd141; 0xa438; 0xd043;
  0xa438; 0xf009; 0xa438; 0xd121; 0xa438; 0xd043; 0xa438; 0xf006; 0xa438; 0xd122; 0xa438; 0xd042;
  0xa438; 0xf003; 0xa438; 0xd181; 0xa438; 0xd043; 0xa438; 0xd700; 0xa438; 0x60cf; 0xa438; 0x60f1;
  0xa438; 0x6113; 0xa438; 0x6135; 0xa438; 0x6157; 0xa438; 0xf00b; 0xa438; 0xce08; 0xa438; 0xf00a;
  0xa438; 0xce08; 0xa438; 0xf008; 0xa438; 0xce08; 0xa438; 0xf006; 0xa438; 0xce08; 0xa438; 0xf004;
  0xa438; 0xce08; 0xa438; 0xf002; 0xa438; 0xce08; 0xa438; 0x1000; 0xa438; 0x9bde; 0xa438; 0x1000;
  0xa438; 0x9bc9; 0xa438; 0xd700; 0xa438; 0x5fba; 0xa438; 0xd705; 0xa438; 0x611e; 0xa438; 0x0c03;
  0xa438; 0x1502; 0xa438; 0x0ccf; 0xa438; 0x0b02; 0xa438; 0x8cc7; 0xa438; 0x9503; 0xa438; 0xf008;
  0xa438; 0x0c03; 0xa438; 0x1502; 0xa438; 0x0ccf; 0xa438; 0x0b46; 0xa438; 0x0cc7; 0xa438; 0x0c03;
  0xa438; 0x9503; 0xa438; 0xd700; 0xa438; 0x40e7; 0xa438; 0x0c03; 0xa438; 0x1502; 0xa438; 0x0c3f;
  0xa438; 0x0d09; 0xa438; 0x9503; 0xa438; 0xf006; 0xa438; 0x0c03; 0xa438; 0x1502; 0xa438; 0x0c3f;
  0xa438; 0x0d0a; 0xa438; 0x9503; 0xa438; 0xd705; 0xa438; 0x607e; 0xa438; 0xa302; 0xa438; 0xf00b;
  0xa438; 0x0c03; 0xa438; 0x1502; 0xa438; 0xa011; 0xa438; 0x9503; 0xa438; 0xd14f; 0xa438; 0xd043;
  0xa438; 0x1000; 0xa438; 0x9bc9; 0xa438; 0xd700; 0xa438; 0x5fba; 0xa438; 0xa810; 0xa438; 0x8240;
  0xa438; 0xa00a; 0xa438; 0xa1a0; 0xa438; 0xa480; 0xa438; 0xd700; 0xa438; 0x40a7; 0xa438; 0xd704;
  0xa438; 0x407d; 0xa438; 0x8604; 0xa438; 0xf002; 0xa438; 0xa604; 0xa438; 0xd700; 0xa438; 0x60c7;
  0xa438; 0xa682; 0xa438; 0x0c03; 0xa438; 0x1502; 0xa438; 0xa702; 0xa438; 0x9503; 0xa438; 0x0c03;
  0xa438; 0x1502; 0xa438; 0xa340; 0xa438; 0x9503; 0xa438; 0x1000; 0xa438; 0x9bc9; 0xa438; 0xd706;
  0xa438; 0x5fa7; 0xa438; 0xb920; 0xa438; 0xcd43; 0xa438; 0x1000; 0xa438; 0x9bc9; 0xa438; 0xd71f;
  0xa438; 0x7fb4; 0xa438; 0x8810; 0xa438; 0x9920; 0xa438; 0x1000; 0xa438; 0x9bc9; 0xa438; 0xd71f;
  0xa438; 0x60e5; 0xa438; 0x5f94; 0xa438; 0x1000; 0xa438; 0x9bc9; 0xa438; 0xd706; 0xa438; 0x5fa7;
  0xa438; 0xffef; 0xa438; 0xb820; 0xa438; 0xa810; 0xa438; 0x1000; 0xa438; 0x9bc9; 0xa438; 0xd71f;
  0xa438; 0x7fa5; 0xa438; 0x9820; 0xa438; 0xbb20; 0xa438; 0xcd44; 0xa438; 0xd700; 0xa438; 0x4060;
  0xa438; 0x1800; 0xa438; 0x9072; 0xa438; 0xd700; 0xa438; 0x37c9; 0xa438; 0x9003; 0xa438; 0x33a9;
  0xa438; 0x9000; 0xa438; 0xd17a; 0xa438; 0xd047; 0xa438; 0xf006; 0xa438; 0xd17a; 0xa438; 0xd048;
  0xa438; 0xf003; 0xa438; 0xd17a; 0xa438; 0xd049; 0xa438; 0x1000; 0xa438; 0x9bc9; 0xa438; 0x1000;
  0xa438; 0x9c36; 0xa438; 0xd700; 0xa438; 0x5f7a; 0xa438; 0xd706; 0xa438; 0x5f2f; 0xa438; 0xd700;
  0xa438; 0x2d49; 0xa438; 0x9014; 0xa438; 0xd701; 0xa438; 0x60b0; 0xa438; 0x1800; 0xa438; 0x90c4;
  0xa438; 0x1800; 0xa438; 0x911b; 0xa438; 0x0c06; 0xa438; 0x0a06; 0xa438; 0x0cc0; 0xa438; 0x0cc0;
  0xa438; 0x0c03; 0xa438; 0x1502; 0xa438; 0xa7a0; 0xa438; 0x9503; 0xa438; 0xcd45; 0xa438; 0xd700;
  0xa438; 0x37c9; 0xa438; 0x902a; 0xa438; 0x33a9; 0xa438; 0x9027; 0xa438; 0xd17a; 0xa438; 0xd047;
  0xa438; 0xf006; 0xa438; 0xd17a; 0xa438; 0xd048; 0xa438; 0xf003; 0xa438; 0xd17a; 0xa438; 0xd049;
  0xa438; 0x1000; 0xa438; 0x9bc9; 0xa438; 0x1000; 0xa438; 0x9c36; 0xa438; 0xd700; 0xa438; 0x5f7a;
  0xa438; 0xd706; 0xa438; 0x5f2f; 0xa438; 0x8c40; 0xa438; 0xd418; 0xa438; 0x1000; 0xa438; 0x9bbf;
  0xa438; 0xac40; 0xa438; 0xaa01; 0xa438; 0x1000; 0xa438; 0x9bc9; 0xa438; 0x1000; 0xa438; 0x9c36;
  0xa438; 0xd706; 0xa438; 0x5f6f; 0xa438; 0xd700; 0xa438; 0x37c9; 0xa438; 0x904b; 0xa438; 0x33a9;
  0xa438; 0x9048; 0xa438; 0xd17a; 0xa438; 0xd047; 0xa438; 0xf006; 0xa438; 0xd17a; 0xa438; 0xd048;
  0xa438; 0xf003; 0xa438; 0xd17a; 0xa438; 0xd049; 0xa438; 0x1000; 0xa438; 0x9bc9; 0xa438; 0x1000;
  0xa438; 0x9c36; 0xa438; 0xd700; 0xa438; 0x5f7a; 0xa438; 0xd706; 0xa438; 0x5f2f; 0xa438; 0xab20;
  0xa438; 0x0c03; 0xa438; 0x1502; 0xa438; 0xa750; 0xa438; 0x9503; 0xa438; 0xcd46; 0xa438; 0xd700;
  0xa438; 0x37c9; 0xa438; 0x9066; 0xa438; 0x33a9; 0xa438; 0x9063; 0xa438; 0xd1b7; 0xa438; 0xd04d;
  0xa438; 0xf006; 0xa438; 0xd1b7; 0xa438; 0xd04d; 0xa438; 0xf003; 0xa438; 0xd1b7; 0xa438; 0xd04d;
  0xa438; 0x1000; 0xa438; 0x9bc9; 0xa438; 0x1000; 0xa438; 0x9c36; 0xa438; 0xd700; 0xa438; 0x5f7a;
  0xa438; 0xd706; 0xa438; 0x5f2f; 0xa438; 0x1800; 0xa438; 0x90c4; 0xa438; 0xd701; 0xa438; 0x4830;
  0xa438; 0xd700; 0xa438; 0x47e7; 0xa438; 0xd704; 0xa438; 0x47bd; 0xa438; 0xd704; 0xa438; 0x477c;
  0xa438; 0x0c06; 0xa438; 0x0a06; 0xa438; 0x0cc0; 0xa438; 0x0cc0; 0xa438; 0xd700; 0xa438; 0x37c9;
  0xa438; 0x9089; 0xa438; 0x33a9; 0xa438; 0x9086; 0xa438; 0xd17a; 0xa438; 0xd047; 0xa438; 0xf006;
  0xa438; 0xd17a; 0xa438; 0xd048; 0xa438; 0xf003; 0xa438; 0xd17a; 0xa438; 0xd049; 0xa438; 0x1000;
  0xa438; 0x9bc9; 0xa438; 0x1000; 0xa438; 0x9c36; 0xa438; 0xd700; 0xa438; 0x5f7a; 0xa438; 0xd706;
  0xa438; 0x5f2f; 0xa438; 0x8c40; 0xa438; 0xd418; 0xa438; 0x1000; 0xa438; 0x9bbf; 0xa438; 0xac40;
  0xa438; 0xaa01; 0xa438; 0x1000; 0xa438; 0x9bc9; 0xa438; 0x1000; 0xa438; 0x9c36; 0xa438; 0xd706;
  0xa438; 0x5f6f; 0xa438; 0xd700; 0xa438; 0x37c9; 0xa438; 0x90aa; 0xa438; 0x33a9; 0xa438; 0x90a7;
  0xa438; 0xd17a; 0xa438; 0xd047; 0xa438; 0xf006; 0xa438; 0xd17a; 0xa438; 0xd048; 0xa438; 0xf003;
  0xa438; 0xd17a; 0xa438; 0xd049; 0xa438; 0x1000; 0xa438; 0x9bc9; 0xa438; 0x1000; 0xa438; 0x9c36;
  0xa438; 0xd700; 0xa438; 0x5f7a; 0xa438; 0xd706; 0xa438; 0x5f2f; 0xa438; 0xd701; 0xa438; 0x40f0;
  0xa438; 0xac40; 0xa438; 0x0c03; 0xa438; 0x1502; 0xa438; 0xa750; 0xa438; 0x9503; 0xa438; 0xab20;
  0xa438; 0xd1c4; 0xa438; 0xd046; 0xa438; 0x1000; 0xa438; 0x9bc9; 0xa438; 0x1000; 0xa438; 0x9c36;
  0xa438; 0xd700; 0xa438; 0x5f7a; 0xa438; 0xd706; 0xa438; 0x424f; 0xa438; 0x8c40; 0xa438; 0x0c03;
  0xa438; 0x1502; 0xa438; 0x8750; 0xa438; 0x8380; 0xa438; 0x9503; 0xa438; 0xd417; 0xa438; 0x1000;
  0xa438; 0x9bbf; 0xa438; 0xd701; 0xa438; 0x40d0; 0xa438; 0xac40; 0xa438; 0x0c03; 0xa438; 0x1502;
  0xa438; 0xa750; 0xa438; 0x9503; 0xa438; 0xcd47; 0xa438; 0xd700; 0xa438; 0x686b; 0xa438; 0x6060;
  0xa438; 0x1800; 0xa438; 0x90f3; 0xa438; 0xd700; 0xa438; 0x37c9; 0xa438; 0x90e7; 0xa438; 0x33a9;
  0xa438; 0x90e4; 0xa438; 0xd15c; 0xa438; 0xd04c; 0xa438; 0xf006; 0xa438; 0xd182; 0xa438; 0xd04c;
  0xa438; 0xf003; 0xa438; 0xd191; 0xa438; 0xd04c; 0xa438; 0x1000; 0xa438; 0x9bc9; 0xa438; 0x1000;
  0xa438; 0x9c36; 0xa438; 0xd700; 0xa438; 0x5f7a; 0xa438; 0xd706; 0xa438; 0x5f2f; 0xa438; 0x1800;
  0xa438; 0x911b; 0xa438; 0x0c03; 0xa438; 0x1502; 0xa438; 0x0ccf; 0xa438; 0x0b03; 0xa438; 0x8cc7;
  0xa438; 0x9503; 0xa438; 0xd700; 0xa438; 0x60e7; 0xa438; 0x0c03; 0xa438; 0x1502; 0xa438; 0x0c3f;
  0xa438; 0x0d1a; 0xa438; 0x9503; 0xa438; 0xf006; 0xa438; 0x0c03; 0xa438; 0x1502; 0xa438; 0x0c3f;
  0xa438; 0x0d19; 0xa438; 0x9503; 0xa438; 0xd700; 0xa438; 0x37c9; 0xa438; 0x9111; 0xa438; 0x33a9;
  0xa438; 0x910e; 0xa438; 0xd19f; 0xa438; 0xd049; 0xa438; 0xf006; 0xa438; 0xd199; 0xa438; 0xd04a;
  0xa438; 0xf003; 0xa438; 0xd199; 0xa438; 0xd04b; 0xa438; 0x1000; 0xa438; 0x9bc9; 0xa438; 0x1000;
  0xa438; 0x9c36; 0xa438; 0xd700; 0xa438; 0x5f7a; 0xa438; 0xd706; 0xa438; 0x5f2f; 0xa438; 0xd416;
  0xa438; 0x1000; 0xa438; 0x9bbf; 0xa438; 0xbb10; 0xa438; 0xcd4f; 0xa438; 0xcd50; 0xa438; 0x1000;
  0xa438; 0x9bc9; 0xa438; 0x1000; 0xa438; 0x9c36; 0xa438; 0xd71f; 0xa438; 0x5f75; 0xa438; 0x800a;
  0xa438; 0x81a0; 0xa438; 0x8302; 0xa438; 0x8480; 0xa438; 0xd700; 0xa438; 0x6047; 0xa438; 0xa682;
  0xa438; 0xd700; 0xa438; 0x40a7; 0xa438; 0xd704; 0xa438; 0x407d; 0xa438; 0x8604; 0xa438; 0xf002;
  0xa438; 0xa604; 0xa438; 0x8818; 0xa438; 0x0c03; 0xa438; 0x1502; 0xa438; 0x8340; 0xa438; 0xa120;
  0xa438; 0xa302; 0xa438; 0x9503; 0xa438; 0x8c40; 0xa438; 0x0c03; 0xa438; 0x1502; 0xa438; 0x8750;
  0xa438; 0x9503; 0xa438; 0x9b30; 0xa438; 0x0c03; 0xa438; 0x1502; 0xa438; 0x8011; 0xa438; 0x9503;
  0xa438; 0x1000; 0xa438; 0x9bc9; 0xa438; 0xd71f; 0xa438; 0x7fb5; 0xa438; 0xd700; 0xa438; 0x60cf;
  0xa438; 0x60f1; 0xa438; 0x6113; 0xa438; 0x6135; 0xa438; 0x6157; 0xa438; 0xf00b; 0xa438; 0xce08;
  0xa438; 0xf00a; 0xa438; 0xce08; 0xa438; 0xf008; 0xa438; 0xce08; 0xa438; 0xf006; 0xa438; 0xce08;
  0xa438; 0xf004; 0xa438; 0xce08; 0xa438; 0xf002; 0xa438; 0xce08; 0xa438; 0x1000; 0xa438; 0x9bde;
  0xa438; 0xcd51; 0xa438; 0x1000; 0xa438; 0x9bc9; 0xa438; 0xd71f; 0xa438; 0x5f94; 0xa438; 0xd71e;
  0xa438; 0x6103; 0xa438; 0xd700; 0xa438; 0x2fa9; 0xa438; 0x916f; 0xa438; 0x33c9; 0xa438; 0x9172;
  0xa438; 0x6177; 0xa438; 0x61b1; 0xa438; 0xd101; 0xa438; 0xd040; 0xa438; 0xf00c; 0xa438; 0xd141;
  0xa438; 0xd043; 0xa438; 0xf009; 0xa438; 0xd121; 0xa438; 0xd043; 0xa438; 0xf006; 0xa438; 0xd122;
  0xa438; 0xd042; 0xa438; 0xf003; 0xa438; 0xd181; 0xa438; 0xd043; 0xa438; 0x1000; 0xa438; 0x9bc9;
  0xa438; 0xd700; 0xa438; 0x5fba; 0xa438; 0xd705; 0xa438; 0x60fe; 0xa438; 0x0c03; 0xa438; 0x1502;
  0xa438; 0x0ccf; 0xa438; 0x0b03; 0xa438; 0x8c07; 0xa438; 0x9503; 0xa438; 0x0c03; 0xa438; 0x1502;
  0xa438; 0x8cc0; 0xa438; 0x9503; 0xa438; 0x8106; 0xa438; 0xd700; 0xa438; 0x60e7; 0xa438; 0x0c03;
  0xa438; 0x1502; 0xa438; 0x0c3f; 0xa438; 0x0d1a; 0xa438; 0x9503; 0xa438; 0xf006; 0xa438; 0x0c03;
  0xa438; 0x1502; 0xa438; 0x0c3f; 0xa438; 0x0d19; 0xa438; 0x9503; 0xa438; 0xd700; 0xa438; 0x2f99;
  0xa438; 0x919c; 0xa438; 0xa804; 0xa438; 0xd705; 0xa438; 0x607e; 0xa438; 0xa302; 0xa438; 0xf00b;
  0xa438; 0x0c03; 0xa438; 0x1502; 0xa438; 0xa017; 0xa438; 0x9503; 0xa438; 0xd14f; 0xa438; 0xd043;
  0xa438; 0x1000; 0xa438; 0x9bc9; 0xa438; 0xd700; 0xa438; 0x5fba; 0xa438; 0xa00a; 0xa438; 0xa1a0;
  0xa438; 0xa480; 0xa438; 0xd700; 0xa438; 0x40a7; 0xa438; 0xd704; 0xa438; 0x407d; 0xa438; 0x8644;
  0xa438; 0xf003; 0xa438; 0x0c44; 0xa438; 0x0604; 0xa438; 0xd701; 0xa438; 0x40d0; 0xa438; 0xac40;
  0xa438; 0x0c03; 0xa438; 0x1502; 0xa438; 0xa750; 0xa438; 0x9503; 0xa438; 0xd700; 0xa438; 0x6047;
  0xa438; 0xa682; 0xa438; 0x0c03; 0xa438; 0x1502; 0xa438; 0xa340; 0xa438; 0xc5aa; 0xa438; 0x9503;
  0xa438; 0xab80; 0xa438; 0x1000; 0xa438; 0x9bc9; 0xa438; 0xd706; 0xa438; 0x5faf; 0xa438; 0xb920;
  0xa438; 0xcd52; 0xa438; 0x1000; 0xa438; 0x9bc9; 0xa438; 0xd71f; 0xa438; 0x7fb4; 0xa438; 0x9920;
  0xa438; 0xa00a; 0xa438; 0xa1a0; 0xa438; 0xd705; 0xa438; 0x605e; 0xa438; 0xa302; 0xa438; 0xa480;
  0xa438; 0xd700; 0xa438; 0x40a7; 0xa438; 0xd704; 0xa438; 0x407d; 0xa438; 0x8644; 0xa438; 0xf003;
  0xa438; 0x0c44; 0xa438; 0x0604; 0xa438; 0xa902; 0xa438; 0x8920; 0xa438; 0x0c03; 0xa438; 0x1502;
  0xa438; 0xa480; 0xa438; 0x9503; 0xa438; 0x1000; 0xa438; 0x9c2a; 0xa438; 0xd707; 0xa438; 0x40ae;
  0xa438; 0x0c18; 0xa438; 0x0a08; 0xa438; 0x1000; 0xa438; 0x9c30; 0xa438; 0xcd60; 0xa438; 0xd101;
  0xa438; 0xd040; 0xa438; 0x1000; 0xa438; 0x9bc9; 0xa438; 0xd700; 0xa438; 0x5fba; 0xa438; 0x0c03;
  0xa438; 0x1502; 0xa438; 0xa230; 0xa438; 0x9503; 0xa438; 0xd703; 0xa438; 0x68d1; 0xa438; 0xcd62;
  0xa438; 0x1000; 0xa438; 0x9a89; 0xa438; 0x1000; 0xa438; 0x9bc9; 0xa438; 0xd707; 0xa438; 0x4058;
  0xa438; 0xa901; 0xa438; 0xd700; 0xa438; 0x62dc; 0xa438; 0xd71f; 0xa438; 0x628e; 0xa438; 0xd704;
  0xa438; 0x4067; 0xa438; 0x1800; 0xa438; 0x96ac; 0xa438; 0xd704; 0xa438; 0x40ab; 0xa438; 0xd705;
  0xa438; 0x607f; 0xa438; 0x1800; 0xa438; 0x974b; 0xa438; 0xd704; 0xa438; 0x609f; 0xa438; 0xd705;
  0xa438; 0x405d; 0xa438; 0xf005; 0xa438; 0xd704; 0xa438; 0x5c96; 0xa438; 0xd75f; 0xa438; 0x5c40;
  0xa438; 0x0c03; 0xa438; 0x1502; 0xa438; 0xc5aa; 0xa438; 0x9503; 0xa438; 0xd705; 0xa438; 0x60de;
  0xa438; 0x0c03; 0xa438; 0x1502; 0xa438; 0x0c38; 0xa438; 0x0d18; 0xa438; 0x9503; 0xa438; 0xd702;
  0xa438; 0x4357; 0xa438; 0x0c03; 0xa438; 0x1502; 0xa438; 0x8f80; 0xa438; 0x9503; 0xa438; 0xd700;
  0xa438; 0x60cf; 0xa438; 0x60f1; 0xa438; 0x6113; 0xa438; 0x6135; 0xa438; 0x6157; 0xa438; 0xf00b;
  0xa438; 0xce08; 0xa438; 0xf00b; 0xa438; 0xce08; 0xa438; 0xf009; 0xa438; 0xce08; 0xa438; 0xf007;
  0xa438; 0xce08; 0xa438; 0xf005; 0xa438; 0xce08; 0xa438; 0xf003; 0xa438; 0xce08; 0xa438; 0xf001;
  0xa438; 0x1000; 0xa438; 0x9bde; 0xa438; 0xcd61; 0xa438; 0x1000; 0xa438; 0x9a89; 0xa438; 0x1000;
  0xa438; 0x9bc9; 0xa438; 0xd707; 0xa438; 0x4058; 0xa438; 0xa901; 0xa438; 0xd71f; 0xa438; 0x2e71;
  0xa438; 0x925e; 0xa438; 0xd704; 0xa438; 0x2739; 0xa438; 0x96ac; 0xa438; 0xd704; 0xa438; 0x40ab;
  0xa438; 0xd705; 0xa438; 0x607f; 0xa438; 0x1800; 0xa438; 0x974b; 0xa438; 0xd704; 0xa438; 0x60bf;
  0xa438; 0xd705; 0xa438; 0x407d; 0xa438; 0x1800; 0xa438; 0x97da; 0xa438; 0xd704; 0xa438; 0x5cb6;
  0xa438; 0xd75f; 0xa438; 0x5c60; 0xa438; 0x1800; 0xa438; 0x997c; 0xa438; 0xaa10; 0xa438; 0x0c03;
  0xa438; 0x1502; 0xa438; 0x8480; 0xa438; 0x9503; 0xa438; 0x9904; 0xa438; 0xcd80; 0xa438; 0x1000;
  0xa438; 0x9c99; 0xa438; 0x800a; 0xa438; 0x81a0; 0xa438; 0x8302; 0xa438; 0x8480; 0xa438; 0x8646;
  0xa438; 0x1000; 0xa438; 0x9d44; 0xa438; 0xd707; 0xa438; 0x605d; 0xa438; 0x8320; 0xa438; 0x8c40;
  0xa438; 0x0c03; 0xa438; 0x1502; 0xa438; 0x8750; 0xa438; 0x8340; 0xa438; 0x8120; 0xa438; 0x8302;
  0xa438; 0xa61c; 0xa438; 0x9503; 0xa438; 0xd701; 0xa438; 0x4050; 0xa438; 0xab20; 0xa438; 0x8b80;
  0xa438; 0x0c0c; 0xa438; 0x0808; 0xa438; 0xd702; 0xa438; 0x4191; 0xa438; 0x1000; 0xa438; 0x9bc9;
  0xa438; 0xd701; 0xa438; 0x5fa1; 0xa438; 0x0c03; 0xa438; 0x1502; 0xa438; 0x8f02; 0xa438; 0x9503;
  0xa438; 0xd400; 0xa438; 0xb302; 0xa438; 0xd200; 0xa438; 0xb910; 0xa438; 0x1000; 0xa438; 0x9bc9;
  0xa438; 0xd71f; 0xa438; 0x7fae; 0xa438; 0x9910; 0xa438; 0xd71f; 0xa438; 0x409e; 0xa438; 0xd1b8;
  0xa438; 0xd049; 0xa438; 0xf012; 0xa438; 0xd700; 0xa438; 0x2fa9; 0xa438; 0x92a1; 0xa438; 0x6131;
  0xa438; 0x33c9; 0xa438; 0x92a7; 0xa438; 0xd15d; 0xa438; 0xd040; 0xa438; 0xf009; 0xa438; 0xd193;
  0xa438; 0xd040; 0xa438; 0xf006; 0xa438; 0xd1db; 0xa438; 0xd040; 0xa438; 0xf003; 0xa438; 0xd16f;
  0xa438; 0xd040; 0xa438; 0x0c03; 0xa438; 0x1502; 0xa438; 0xa380; 0xa438; 0x9503; 0xa438; 0xd417;
  0xa438; 0x1000; 0xa438; 0x9bbf; 0xa438; 0xd700; 0xa438; 0x4127; 0xa438; 0x0c03; 0xa438; 0x1502;
  0xa438; 0x8bc0; 0xa438; 0x8cc7; 0xa438; 0x0c3f; 0xa438; 0x0d08; 0xa438; 0x9503; 0xa438; 0xf007;
  0xa438; 0x0c03; 0xa438; 0x1502; 0xa438; 0x8bc0; 0xa438; 0x8cc7; 0xa438; 0xcd48; 0xa438; 0x9503;
  0xa438; 0x0c06; 0xa438; 0x0102; 0xa438; 0x0c03; 0xa438; 0x1502; 0xa438; 0xc555; 0xa438; 0x9503;
  0xa438; 0xcd81; 0xa438; 0x1000; 0xa438; 0x9bc9; 0xa438; 0xd700; 0xa438; 0x5fba; 0xa438; 0xd707;
  0xa438; 0x40fd; 0xa438; 0xd193; 0xa438; 0xd047; 0xa438; 0x1000; 0xa438; 0x9bc9; 0xa438; 0xd700;
  0xa438; 0x5fba; 0xa438; 0xa810; 0xa438; 0x8902; 0xa438; 0xd707; 0xa438; 0x407b; 0xa438; 0x8801;
  0xa438; 0xa340; 0xa438; 0xd71f; 0xa438; 0x3ffd; 0xa438; 0x9521; 0xa438; 0xcd82; 0xa438; 0xd704;
  0xa438; 0x407f; 0xa438; 0x1800; 0xa438; 0x9390; 0xa438; 0x8810; 0xa438; 0x0c03; 0xa438; 0x1502;
  0xa438; 0xa204; 0xa438; 0xa108; 0xa438; 0x9503; 0xa438; 0xa604; 0xa438; 0xd131; 0xa438; 0xd046;
  0xa438; 0x1000; 0xa438; 0x9bc9; 0xa438; 0xd700; 0xa438; 0x5fba; 0xa438; 0xd707; 0xa438; 0x5f75;
  0xa438; 0x0c03; 0xa438; 0x1502; 0xa438; 0x8108; 0xa438; 0x9503; 0xa438; 0x0c07; 0xa438; 0x0b02;
  0xa438; 0x0c03; 0xa438; 0x1502; 0xa438; 0x0c03; 0xa438; 0x0200; 0xa438; 0x9503; 0xa438; 0xd700;
  0xa438; 0x60cf; 0xa438; 0x60f1; 0xa438; 0x6113; 0xa438; 0x6135; 0xa438; 0x6157; 0xa438; 0xf00b;
  0xa438; 0xce0b; 0xa438; 0xf00a; 0xa438; 0xce0b; 0xa438; 0xf008; 0xa438; 0xce0a; 0xa438; 0xf006;
  0xa438; 0xce0a; 0xa438; 0xf004; 0xa438; 0xce09; 0xa438; 0xf002; 0xa438; 0xce09; 0xa438; 0x1000;
  0xa438; 0x9bde; 0xa438; 0xab08; 0xa438; 0xcdc0; 0xa438; 0x1000; 0xa438; 0x9bc9; 0xa438; 0xd704;
  0xa438; 0x5fb7; 0xa438; 0x8b08; 0xa438; 0x0c03; 0xa438; 0x1502; 0xa438; 0x8204; 0xa438; 0xa380;
  0xa438; 0x9503; 0xa438; 0xd414; 0xa438; 0xb308; 0xa438; 0xd202; 0xa438; 0xb302; 0xa438; 0xb301;
  0xa438; 0xcdc1; 0xa438; 0x1000; 0xa438; 0x9bc9; 0xa438; 0xd701; 0xa438; 0x5fa1; 0xa438; 0xd400;
  0xa438; 0xb302; 0xa438; 0xd200; 0xa438; 0xd71f; 0xa438; 0x6060; 0xa438; 0xd704; 0xa438; 0x6074;
  0xa438; 0x1800; 0xa438; 0x9390; 0xa438; 0x0c03; 0xa438; 0x1502; 0xa438; 0x0c91; 0xa438; 0x0080;
  0xa438; 0xa060; 0xa438; 0xa101; 0xa438; 0xa408; 0xa438; 0xa240; 0xa438; 0x9503; 0xa438; 0x0c03;
  0xa438; 0x1502; 0xa438; 0x0c26; 0xa438; 0x0022; 0xa438; 0xa110; 0xa438; 0xa011; 0xa438; 0x9503;
  0xa438; 0xd17a; 0xa438; 0xd046; 0xa438; 0x1000; 0xa438; 0x9bc9; 0xa438; 0xd700; 0xa438; 0x5fba;
  0xa438; 0x0c03; 0xa438; 0x1502; 0xa438; 0x0c38; 0xa438; 0x0c18; 0xa438; 0x9503; 0xa438; 0xa318;
  0xa438; 0xd131; 0xa438; 0xd046; 0xa438; 0x1000; 0xa438; 0x9bc9; 0xa438; 0xd700; 0xa438; 0x5fba;
  0xa438; 0x0c03; 0xa438; 0x1502; 0xa438; 0x0c83; 0xa438; 0x0282; 0xa438; 0x9503; 0xa438; 0x0c07;
  0xa438; 0x0b02; 0xa438; 0xd700; 0xa438; 0x60cf; 0xa438; 0x60f1; 0xa438; 0x6113; 0xa438; 0x6135;
  0xa438; 0x6157; 0xa438; 0xf00b; 0xa438; 0xce11; 0xa438; 0xf00a; 0xa438; 0xce11; 0xa438; 0xf008;
  0xa438; 0xce10; 0xa438; 0xf006; 0xa438; 0xce10; 0xa438; 0xf004; 0xa438; 0xce0f; 0xa438; 0xf002;
  0xa438; 0xce0f; 0xa438; 0x0c03; 0xa438; 0x1502; 0xa438; 0xa204; 0xa438; 0x9503; 0xa438; 0x1000;
  0xa438; 0x9bde; 0xa438; 0xab08; 0xa438; 0x1000; 0xa438; 0x9bc9; 0xa438; 0xd704; 0xa438; 0x3ebc;
  0xa438; 0x9370; 0xa438; 0x0c03; 0xa438; 0x1502; 0xa438; 0x8284; 0xa438; 0x9503; 0xa438; 0x8b08;
  0xa438; 0xd704; 0xa438; 0x61b9; 0xa438; 0xd705; 0xa438; 0x407c; 0xa438; 0x1800; 0xa438; 0x938e;
  0xa438; 0x0c03; 0xa438; 0x1502; 0xa438; 0xa402; 0xa438; 0x9503; 0xa438; 0x8310; 0xa438; 0xcdc3;
  0xa438; 0x1800; 0xa438; 0x9337; 0xa438; 0x0c03; 0xa438; 0x1502; 0xa438; 0x8402; 0xa438; 0x9503;
  0xa438; 0xcdc2; 0xa438; 0xf003; 0xa438; 0x1000; 0xa438; 0x9c99; 0xa438; 0x8320; 0xa438; 0xd705;
  0xa438; 0x429e; 0xa438; 0xd700; 0xa438; 0x60cf; 0xa438; 0x60f1; 0xa438; 0x6113; 0xa438; 0x6135;
  0xa438; 0x6157; 0xa438; 0xf00b; 0xa438; 0xce02; 0xa438; 0xf01d; 0xa438; 0xce02; 0xa438; 0xf01b;
  0xa438; 0xce01; 0xa438; 0xf019; 0xa438; 0xce01; 0xa438; 0xf017; 0xa438; 0xce01; 0xa438; 0xf015;
  0xa438; 0xce01; 0xa438; 0xf013; 0xa438; 0xd700; 0xa438; 0x60cf; 0xa438; 0x60f1; 0xa438; 0x6113;
  0xa438; 0x6135; 0xa438; 0x6157; 0xa438; 0xf00b; 0xa438; 0xce06; 0xa438; 0xf00a; 0xa438; 0xce06;
  0xa438; 0xf008; 0xa438; 0xce06; 0xa438; 0xf006; 0xa438; 0xce06; 0xa438; 0xf004; 0xa438; 0xce06;
  0xa438; 0xf002; 0xa438; 0xce06; 0xa438; 0x1000; 0xa438; 0x9bde; 0xa438; 0xd705; 0xa438; 0x61be;
  0xa438; 0x0c03; 0xa438; 0x1502; 0xa438; 0x0c0f; 0xa438; 0x0b05; 0xa438; 0x0c38; 0xa438; 0x0c28;
  0xa438; 0x9503; 0xa438; 0xa810; 0xa438; 0xa00a; 0xa438; 0xa302; 0xa438; 0xa4a0; 0xa438; 0xf012;
  0xa438; 0x0c03; 0xa438; 0x1502; 0xa438; 0x0c0f; 0xa438; 0x0b06; 0xa438; 0x0c3f; 0xa438; 0x0c1b;
  0xa438; 0xd700; 0xa438; 0x6067; 0xa438; 0x0cc0; 0xa438; 0x0d80; 0xa438; 0x9503; 0xa438; 0x8810;
  0xa438; 0x800a; 0xa438; 0x8302; 0xa438; 0xa8c0; 0xa438; 0x8420; 0xa438; 0xa480; 0xa438; 0xd700;
  0xa438; 0x40c7; 0xa438; 0xd704; 0xa438; 0x409d; 0xa438; 0x0ce3; 0xa438; 0x0203; 0xa438; 0xf003;
  0xa438; 0x0ce0; 0xa438; 0x02a0; 0xa438; 0xa120; 0xa438; 0xd700; 0xa438; 0x4187; 0xa438; 0xd704;
  0xa438; 0x40dd; 0xa438; 0xd704; 0xa438; 0x617b; 0xa438; 0xd704; 0xa438; 0x613c; 0xa438; 0xf00a;
  0xa438; 0xd707; 0xa438; 0x411f; 0xa438; 0x40e0; 0xa438; 0xf004; 0xa438; 0xd707; 0xa438; 0x409f;
  0xa438; 0x4062; 0xa438; 0x8310; 0xa438; 0xf002; 0xa438; 0xa318; 0xa438; 0xd700; 0xa438; 0x40a7;
  0xa438; 0xd704; 0xa438; 0x407d; 0xa438; 0x8604; 0xa438; 0xf002; 0xa438; 0xa604; 0xa438; 0xd700;
  0xa438; 0x6047; 0xa438; 0xa682; 0xa438; 0x1000; 0xa438; 0x9cc6; 0xa438; 0x1000; 0xa438; 0x9bc9;
  0xa438; 0xd706; 0xa438; 0x5fa7; 0xa438; 0x1000; 0xa438; 0x9bc9; 0xa438; 0xd71f; 0xa438; 0x5fb4;
  0xa438; 0xb920; 0xa438; 0xcd83; 0xa438; 0x1000; 0xa438; 0x9bc9; 0xa438; 0xd71f; 0xa438; 0x7fb4;
  0xa438; 0x8810; 0xa438; 0x9920; 0xa438; 0x1000; 0xa438; 0x9bc9; 0xa438; 0xd71f; 0xa438; 0x60e5;
  0xa438; 0x5f94; 0xa438; 0x1000; 0xa438; 0x9bc9; 0xa438; 0xd706; 0xa438; 0x5fa7; 0xa438; 0xffef;
  0xa438; 0xb820; 0xa438; 0xa810; 0xa438; 0x1000; 0xa438; 0x9bc9; 0xa438; 0xd71f; 0xa438; 0x7fa5;
  0xa438; 0x9820; 0xa438; 0xbb20; 0xa438; 0xd705; 0xa438; 0x605e; 0xa438; 0xf018; 0xa438; 0xd700;
  0xa438; 0x60cf; 0xa438; 0x60f1; 0xa438; 0x6113; 0xa438; 0x6135; 0xa438; 0x6157; 0xa438; 0xf00b;
  0xa438; 0xce06; 0xa438; 0xf00a; 0xa438; 0xce06; 0xa438; 0xf008; 0xa438; 0xce06; 0xa438; 0xf006;
  0xa438; 0xce06; 0xa438; 0xf004; 0xa438; 0xce06; 0xa438; 0xf002; 0xa438; 0xce06; 0xa438; 0x1000;
  0xa438; 0x9bde; 0xa438; 0xa00a; 0xa438; 0xa420; 0xa438; 0x88c0; 0xa438; 0xd701; 0xa438; 0x40d0;
  0xa438; 0xac40; 0xa438; 0x0c03; 0xa438; 0x1502; 0xa438; 0xa750; 0xa438; 0x9503; 0xa438; 0xd700;
  0xa438; 0x37c9; 0xa438; 0x9450; 0xa438; 0x33a9; 0xa438; 0x944d; 0xa438; 0xd1b7; 0xa438; 0xd04b;
  0xa438; 0xf006; 0xa438; 0xd1b7; 0xa438; 0xd04b; 0xa438; 0xf003; 0xa438; 0xd1b7; 0xa438; 0xd04b;
  0xa438; 0xd707; 0xa438; 0x3ad1; 0xa438; 0x94d8; 0xa438; 0xd700; 0xa438; 0x40c7; 0xa438; 0xd704;
  0xa438; 0x409d; 0xa438; 0xd704; 0xa438; 0x465c; 0xa438; 0xf004; 0xa438; 0xd707; 0xa438; 0x605f;
  0xa438; 0xf02e; 0xa438; 0xd700; 0xa438; 0x37c9; 0xa438; 0x946a; 0xa438; 0x33a9; 0xa438; 0x9467;
  0xa438; 0xd199; 0xa438; 0xd05a; 0xa438; 0xf006; 0xa438; 0xd199; 0xa438; 0xd05a; 0xa438; 0xf003;
  0xa438; 0xd1d6; 0xa438; 0xd05a; 0xa438; 0xcd84; 0xa438; 0x1000; 0xa438; 0x9bc9; 0xa438; 0x1000;
  0xa438; 0x9c36; 0xa438; 0xd700; 0xa438; 0x5f7b; 0xa438; 0xd700; 0xa438; 0x42c7; 0xa438; 0xd704;
  0xa438; 0x429d; 0xa438; 0xd704; 0xa438; 0x425c; 0xa438; 0x1000; 0xa438; 0x9bc9; 0xa438; 0x1000;
  0xa438; 0x9c36; 0xa438; 0xd706; 0xa438; 0x5f6f; 0xa438; 0x8a04; 0xa438; 0x8b20; 0xa438; 0x0c03;
  0xa438; 0x1502; 0xa438; 0xa380; 0xa438; 0x9503; 0xa438; 0xd401; 0xa438; 0x1000; 0xa438; 0x9bbf;
  0xa438; 0x1800; 0xa438; 0x94d8; 0xa438; 0xd706; 0xa438; 0x69ab; 0xa438; 0x1000; 0xa438; 0x9bc9;
  0xa438; 0x1000; 0xa438; 0x9c36; 0xa438; 0xd700; 0xa438; 0x5f7a; 0xa438; 0xd706; 0xa438; 0x5f2f;
  0xa438; 0xd700; 0xa438; 0x4167; 0xa438; 0xd704; 0xa438; 0x40bd; 0xa438; 0xd704; 0xa438; 0x615b;
  0xa438; 0x1800; 0xa438; 0x94a5; 0xa438; 0xd707; 0xa438; 0x411f; 0xa438; 0x40e0; 0xa438; 0xf004;
  0xa438; 0xd707; 0xa438; 0x409f].

Definition phy_mcu_ram_code_8127a_tc_1_p4 : list Z := [
  0xa438; 0x4062; 0xa438; 0x8320; 0xa438; 0xf002; 0xa438; 0xa320; 0xa438; 0x8310; 0xa438; 0xcd85;
  0xa438; 0xd700; 0xa438; 0x37c9; 0xa438; 0x94b3; 0xa438; 0x33a9; 0xa438; 0x94b0; 0xa438; 0xd1b7;
  0xa438; 0xd04a; 0xa438; 0xf006; 0xa438; 0xd1b7; 0xa438; 0xd04a; 0xa438; 0xf003; 0xa438; 0xd1b7;
  0xa438; 0xd04a; 0xa438; 0x1000; 0xa438; 0x9bc9; 0xa438; 0x1000; 0xa438; 0x9c36; 0xa438; 0xd700;
  0xa438; 0x5f7a; 0xa438; 0xd706; 0xa438; 0x5f2f; 0xa438; 0xd700; 0xa438; 0x41a7; 0xa438; 0xd704;
  0xa438; 0x40dd; 0xa438; 0xd704; 0xa438; 0x605b; 0xa438; 0xf00d; 0xa438; 0x1800; 0xa438; 0x8f25;
  0xa438; 0xd707; 0xa438; 0x413f; 0xa438; 0x4100; 0xa438; 0x1800; 0xa438; 0x8f25; 0xa438; 0xd707;
  0xa438; 0x409f; 0xa438; 0x4062; 0xa438; 0x1800; 0xa438; 0x8f25; 0xa438; 0x1000; 0xa438; 0x9bc9;
  0xa438; 0x1000; 0xa438; 0x9c36; 0xa438; 0xd701; 0xa438; 0x5f77; 0xa438; 0x1800; 0xa438; 0x8f25;
  0xa438; 0xd705; 0xa438; 0x413e; 0xa438; 0x0c03; 0xa438; 0x1502; 0xa438; 0x0c0f; 0xa438; 0x0b03;
  0xa438; 0x0c38; 0xa438; 0x0c00; 0xa438; 0xa104; 0xa438; 0x9503; 0xa438; 0x0c03; 0xa438; 0x1502;
  0xa438; 0xa102; 0xa438; 0x9503; 0xa438; 0xaa02; 0xa438; 0xa310; 0xa438; 0xcd86; 0xa438; 0xd700;
  0xa438; 0x37c9; 0xa438; 0x94f4; 0xa438; 0x33a9; 0xa438; 0x94f1; 0xa438; 0xd1d6; 0xa438; 0xd04a;
  0xa438; 0xf006; 0xa438; 0xd1d6; 0xa438; 0xd04a; 0xa438; 0xf003; 0xa438; 0xd199; 0xa438; 0xd04a;
  0xa438; 0x1000; 0xa438; 0x9bc9; 0xa438; 0x1000; 0xa438; 0x9c36; 0xa438; 0xd700; 0xa438; 0x5f7a;
  0xa438; 0x0c30; 0xa438; 0x0320; 0xa438; 0xd700; 0xa438; 0x37c9; 0xa438; 0x9509; 0xa438; 0x33a9;
  0xa438; 0x9506; 0xa438; 0xd1b7; 0xa438; 0xd04a; 0xa438; 0xf006; 0xa438; 0xd1b7; 0xa438; 0xd04a;
  0xa438; 0xf003; 0xa438; 0xd1b7; 0xa438; 0xd04a; 0xa438; 0x1000; 0xa438; 0x9bc9; 0xa438; 0x1000;
  0xa438; 0x9c36; 0xa438; 0xd700; 0xa438; 0x5f7a; 0xa438; 0xd701; 0xa438; 0x5f37; 0xa438; 0x0c03;
  0xa438; 0x1502; 0xa438; 0x8102; 0xa438; 0x8104; 0xa438; 0x9503; 0xa438; 0xd701; 0xa438; 0x40b0;
  0xa438; 0xaa02; 0xa438; 0xac80; 0xa438; 0x1800; 0xa438; 0x8f25; 0xa438; 0x8a02; 0xa438; 0x1800;
  0xa438; 0x8f25; 0xa438; 0x0c03; 0xa438; 0x1502; 0xa438; 0xa708; 0xa438; 0x9503; 0xa438; 0xcd87;
  0xa438; 0xd704; 0xa438; 0x615f; 0xa438; 0x8810; 0xa438; 0xd702; 0xa438; 0x40e6; 0xa438; 0xd17a;
  0xa438; 0xd048; 0xa438; 0x1000; 0xa438; 0x9bc9; 0xa438; 0xd700; 0xa438; 0x5fba; 0xa438; 0xd700;
  0xa438; 0x60cf; 0xa438; 0x60f1; 0xa438; 0x6113; 0xa438; 0x6135; 0xa438; 0x6157; 0xa438; 0xf00b;
  0xa438; 0xce06; 0xa438; 0xf00a; 0xa438; 0xce06; 0xa438; 0xf008; 0xa438; 0xce06; 0xa438; 0xf006;
  0xa438; 0xce06; 0xa438; 0xf004; 0xa438; 0xce06; 0xa438; 0xf002; 0xa438; 0xce06; 0xa438; 0x1000;
  0xa438; 0x9bde; 0xa438; 0xd707; 0xa438; 0x413b; 0xa438; 0x0c03; 0xa438; 0x1502; 0xa438; 0x0c0f;
  0xa438; 0x0b03; 0xa438; 0x0c38; 0xa438; 0x0c18; 0xa438; 0x9503; 0xa438; 0xf006; 0xa438; 0x0c03;
  0xa438; 0x1502; 0xa438; 0x0c0f; 0xa438; 0x0b07; 0xa438; 0x9503; 0xa438; 0xd700; 0xa438; 0x40c7;
  0xa438; 0xd704; 0xa438; 0x409d; 0xa438; 0x0ce3; 0xa438; 0x0203; 0xa438; 0xf003; 0xa438; 0x0ce0;
  0xa438; 0x02a0; 0xa438; 0xa120; 0xa438; 0xd707; 0xa438; 0x425b; 0xa438; 0xd700; 0xa438; 0x4167;
  0xa438; 0xd704; 0xa438; 0x40dd; 0xa438; 0xd704; 0xa438; 0x613b; 0xa438; 0xd704; 0xa438; 0x60fc;
  0xa438; 0xf008; 0xa438; 0xd707; 0xa438; 0x40df; 0xa438; 0xf003; 0xa438; 0xd707; 0xa438; 0x407f;
  0xa438; 0x8310; 0xa438; 0xf002; 0xa438; 0xa318; 0xa438; 0xa00a; 0xa438; 0xa302; 0xa438; 0xa4a0;
  0xa438; 0xd700; 0xa438; 0x40a7; 0xa438; 0xd704; 0xa438; 0x407d; 0xa438; 0x8604; 0xa438; 0xf002;
  0xa438; 0xa604; 0xa438; 0xd700; 0xa438; 0x6047; 0xa438; 0xa682; 0xa438; 0x1000; 0xa438; 0x9cc6;
  0xa438; 0x1000; 0xa438; 0x9bc9; 0xa438; 0xd706; 0xa438; 0x5fa7; 0xa438; 0x1000; 0xa438; 0x9bc9;
  0xa438; 0xd71f; 0xa438; 0x5fb4; 0xa438; 0xb920; 0xa438; 0xcd88; 0xa438; 0x1000; 0xa438; 0x9bc9;
  0xa438; 0xd71f; 0xa438; 0x7fb4; 0xa438; 0x8810; 0xa438; 0x9920; 0xa438; 0x1000; 0xa438; 0x9bc9;
  0xa438; 0xd71f; 0xa438; 0x60e5; 0xa438; 0x5f94; 0xa438; 0x1000; 0xa438; 0x9bc9; 0xa438; 0xd706;
  0xa438; 0x5fa7; 0xa438; 0xffef; 0xa438; 0xb820; 0xa438; 0xa810; 0xa438; 0x1000; 0xa438; 0x9bc9;
  0xa438; 0xd71f; 0xa438; 0x7fa5; 0xa438; 0x9820; 0xa438; 0xbb20; 0xa438; 0xd701; 0xa438; 0x40d0;
  0xa438; 0xac40; 0xa438; 0x0c03; 0xa438; 0x1502; 0xa438; 0xa750; 0xa438; 0x9503; 0xa438; 0xd700;
  0xa438; 0x37c9; 0xa438; 0x95be; 0xa438; 0x33a9; 0xa438; 0x95b6; 0xa438; 0xd702; 0xa438; 0x4086;
  0xa438; 0xd161; 0xa438; 0xd049; 0xa438; 0xf00e; 0xa438; 0xd19e; 0xa438; 0xd049; 0xa438; 0xf00b;
  0xa438; 0xd702; 0xa438; 0x4086; 0xa438; 0xd186; 0xa438; 0xd049; 0xa438; 0xf006; 0xa438; 0xd1c3;
  0xa438; 0xd049; 0xa438; 0xf003; 0xa438; 0xd1cf; 0xa438; 0xd049; 0xa438; 0xcd89; 0xa438; 0x1000;
  0xa438; 0x9bc9; 0xa438; 0x1000; 0xa438; 0x9c36; 0xa438; 0xd700; 0xa438; 0x5f7a; 0xa438; 0xd706;
  0xa438; 0x5f2f; 0xa438; 0xd707; 0xa438; 0x40fb; 0xa438; 0x8310; 0xa438; 0x0c03; 0xa438; 0x1502;
  0xa438; 0x0c0f; 0xa438; 0x0b05; 0xa438; 0x9503; 0xa438; 0xcd8a; 0xa438; 0xd707; 0xa438; 0x419b;
  0xa438; 0xd700; 0xa438; 0x33ad; 0xa438; 0x95df; 0xa438; 0xd189; 0xa438; 0xd045; 0xa438; 0x1000;
  0xa438; 0x9bc9; 0xa438; 0x1000; 0xa438; 0x9c36; 0xa438; 0xd700; 0xa438; 0x5f7a; 0xa438; 0xcd8b;
  0xa438; 0xd40a; 0xa438; 0x1000; 0xa438; 0x9bbf; 0xa438; 0xbb10; 0xa438; 0xcd8c; 0xa438; 0x1000;
  0xa438; 0x9bc9; 0xa438; 0x1000; 0xa438; 0x9c36; 0xa438; 0xd71f; 0xa438; 0x5f75; 0xa438; 0x800a;
  0xa438; 0x81a0; 0xa438; 0x8302; 0xa438; 0x8480; 0xa438; 0xd700; 0xa438; 0x6047; 0xa438; 0xa680;
  0xa438; 0x8606; 0xa438; 0x0c03; 0xa438; 0x1502; 0xa438; 0x8340; 0xa438; 0x8750; 0xa438; 0x9503;
  0xa438; 0x8c40; 0xa438; 0x9b30; 0xa438; 0x1000; 0xa438; 0x9bc9; 0xa438; 0xd71f; 0xa438; 0x7fb5;
  0xa438; 0xcd8d; 0xa438; 0x1000; 0xa438; 0x9bc9; 0xa438; 0xd71f; 0xa438; 0x5f94; 0xa438; 0x8340;
  0xa438; 0x0c03; 0xa438; 0x1502; 0xa438; 0x8708; 0xa438; 0x9503; 0xa438; 0xa801; 0xa438; 0xd700;
  0xa438; 0x2fa9; 0xa438; 0x9610; 0xa438; 0x33c9; 0xa438; 0x9613; 0xa438; 0x6117; 0xa438; 0xf00a;
  0xa438; 0xd141; 0xa438; 0xd043; 0xa438; 0xf009; 0xa438; 0xd121; 0xa438; 0xd043; 0xa438; 0xf006;
  0xa438; 0xd122; 0xa438; 0xd042; 0xa438; 0xf003; 0xa438; 0xd181; 0xa438; 0xd043; 0xa438; 0xd700;
  0xa438; 0x60cf; 0xa438; 0x60f1; 0xa438; 0x6113; 0xa438; 0x6135; 0xa438; 0x6157; 0xa438; 0xf00b;
  0xa438; 0xce06; 0xa438; 0xf00a; 0xa438; 0xce06; 0xa438; 0xf008; 0xa438; 0xce06; 0xa438; 0xf006;
  0xa438; 0xce06; 0xa438; 0xf004; 0xa438; 0xce06; 0xa438; 0xf002; 0xa438; 0xce06; 0xa438; 0x1000;
  0xa438; 0x9bde; 0xa438; 0x1000; 0xa438; 0x9bc9; 0xa438; 0xd700; 0xa438; 0x5fba; 0xa438; 0x0c03;
  0xa438; 0x1502; 0xa438; 0x0c0f; 0xa438; 0x0b02; 0xa438; 0x8cc7; 0xa438; 0x9503; 0xa438; 0xd700;
  0xa438; 0x40e7; 0xa438; 0x0c03; 0xa438; 0x1502; 0xa438; 0x0c3f; 0xa438; 0x0d09; 0xa438; 0x9503;
  0xa438; 0xf006; 0xa438; 0x0c03; 0xa438; 0x1502; 0xa438; 0x0c3f; 0xa438; 0x0d08; 0xa438; 0x9503;
  0xa438; 0xa810; 0xa438; 0xa00a; 0xa438; 0x0ca0; 0xa438; 0x0120; 0xa438; 0xa302; 0xa438; 0xa480;
  0xa438; 0xd700; 0xa438; 0x40a7; 0xa438; 0xd704; 0xa438; 0x407d; 0xa438; 0x8604; 0xa438; 0xf002;
  0xa438; 0xa604; 0xa438; 0xd700; 0xa438; 0x6047; 0xa438; 0xa682; 0xa438; 0x0c03; 0xa438; 0x1502;
  0xa438; 0xa340; 0xa438; 0x9503; 0xa438; 0x1000; 0xa438; 0x9bc9; 0xa438; 0xd706; 0xa438; 0x5fa7;
  0xa438; 0xb920; 0xa438; 0xcd8e; 0xa438; 0x1000; 0xa438; 0x9bc9; 0xa438; 0xd71f; 0xa438; 0x7fb4;
  0xa438; 0x8810; 0xa438; 0x9920; 0xa438; 0x1000; 0xa438; 0x9bc9; 0xa438; 0xd71f; 0xa438; 0x60e5;
  0xa438; 0x5f94; 0xa438; 0x1000; 0xa438; 0x9bc9; 0xa438; 0xd706; 0xa438; 0x5fa7; 0xa438; 0xffef;
  0xa438; 0xb820; 0xa438; 0xa810; 0xa438; 0x1000; 0xa438; 0x9bc9; 0xa438; 0xd71f; 0xa438; 0x7fa5;
  0xa438; 0x9820; 0xa438; 0xbb20; 0xa438; 0xd701; 0xa438; 0x40d0; 0xa438; 0xac40; 0xa438; 0x0c03;
  0xa438; 0x1502; 0xa438; 0xa750; 0xa438; 0x9503; 0xa438; 0xd1c4; 0xa438; 0xd046; 0xa438; 0x1000;
  0xa438; 0x9bc9; 0xa438; 0x1000; 0xa438; 0x9c36; 0xa438; 0xd700; 0xa438; 0x5f7a; 0xa438; 0xd706;
  0xa438; 0x422f; 0xa438; 0x8c40; 0xa438; 0x0c03; 0xa438; 0x1502; 0xa438; 0x8750; 0xa438; 0x8380;
  0xa438; 0x9503; 0xa438; 0xd417; 0xa438; 0x1000; 0xa438; 0x9bbf; 0xa438; 0xd701; 0xa438; 0x40d0;
  0xa438; 0xac40; 0xa438; 0x0c03; 0xa438; 0x1502; 0xa438; 0xa750; 0xa438; 0x9503; 0xa438; 0xd192;
  0xa438; 0xd047; 0xa438; 0x1000; 0xa438; 0x9bc9; 0xa438; 0x1000; 0xa438; 0x9c36; 0xa438; 0xd700;
  0xa438; 0x5f7a; 0xa438; 0xd706; 0xa438; 0x5f2f; 0xa438; 0xd707; 0xa438; 0x409b; 0xa438; 0xd416;
  0xa438; 0x1000; 0xa438; 0x9bbf; 0xa438; 0xbb10; 0xa438; 0xcd8f; 0xa438; 0x1800; 0xa438; 0x9120;
  0xa438; 0x1000; 0xa438; 0x9c99; 0xa438; 0x8302; 0xa438; 0x8646; 0xa438; 0xd700; 0xa438; 0x60c7;
  0xa438; 0xa680; 0xa438; 0x0c03; 0xa438; 0x1502; 0xa438; 0x8702; 0xa438; 0x9503; 0xa438; 0x0c03;
  0xa438; 0x1502; 0xa438; 0xa680; 0xa438; 0x850f; 0xa438; 0x9503; 0xa438; 0xd701; 0xa438; 0x4050;
  0xa438; 0x8b20; 0xa438; 0x0c03; 0xa438; 0x1502; 0xa438; 0x0ccf; 0xa438; 0x0bc8; 0xa438; 0x0cc7;
  0xa438; 0x0c44; 0xa438; 0x9503; 0xa438; 0x0c06; 0xa438; 0x0102; 0xa438; 0xd700; 0xa438; 0x40e7;
  0xa438; 0x0c03; 0xa438; 0x1502; 0xa438; 0x0c3f; 0xa438; 0x0d24; 0xa438; 0x9503; 0xa438; 0xf005;
  0xa438; 0x0c03; 0xa438; 0x1502; 0xa438; 0xcde4; 0xa438; 0x9503; 0xa438; 0x1000; 0xa438; 0x9cdd;
  0xa438; 0xcd90; 0xa438; 0x0c03; 0xa438; 0x1502; 0xa438; 0xa601; 0xa438; 0x9503; 0xa438; 0xd700;
  0xa438; 0x2fa9; 0xa438; 0x96e1; 0xa438; 0x60d1; 0xa438; 0x6113; 0xa438; 0x6157; 0xa438; 0xd150;
  0xa438; 0xd040; 0xa438; 0xf009; 0xa438; 0xd1a0; 0xa438; 0xd040; 0xa438; 0xf006; 0xa438; 0xd128;
  0xa438; 0xd040; 0xa438; 0xf003; 0xa438; 0xd114; 0xa438; 0xd040; 0xa438; 0x1000; 0xa438; 0x99a8;
  0xa438; 0xd700; 0xa438; 0x5fba; 0xa438; 0xd704; 0xa438; 0x7f6b; 0xa438; 0xa81a; 0xa438; 0x0c03;
  0xa438; 0x1502; 0xa438; 0x8603; 0xa438; 0x9503; 0xa438; 0x1000; 0xa438; 0x9d31; 0xa438; 0x1000;
  0xa438; 0x9bde; 0xa438; 0x800a; 0xa438; 0x81a0; 0xa438; 0x8480; 0xa438; 0x1000; 0xa438; 0x99a8;
  0xa438; 0xd707; 0xa438; 0x4058; 0xa438; 0xa901; 0xa438; 0xd704; 0xa438; 0x2b59; 0xa438; 0x974b;
  0xa438; 0xd704; 0xa438; 0x604c; 0xa438; 0xfff6; 0xa438; 0xd701; 0xa438; 0x6056; 0xa438; 0xa704;
  0xa438; 0xa302; 0xa438; 0xd700; 0xa438; 0x40a7; 0xa438; 0xd704; 0xa438; 0x407d; 0xa438; 0x8604;
  0xa438; 0xf002; 0xa438; 0xa604; 0xa438; 0xd700; 0xa438; 0x60c7; 0xa438; 0xa602; 0xa438; 0x0c03;
  0xa438; 0x1502; 0xa438; 0xa702; 0xa438; 0x9503; 0xa438; 0xd701; 0xa438; 0x4055; 0xa438; 0xa940;
  0xa438; 0xd701; 0xa438; 0x4050; 0xa438; 0xab20; 0xa438; 0xcd91; 0xa438; 0x1000; 0xa438; 0x9cf4;
  0xa438; 0x1000; 0xa438; 0x99a8; 0xa438; 0xd704; 0xa438; 0x7f6c; 0xa438; 0xa120; 0xa438; 0xd707;
  0xa438; 0x4051; 0xa438; 0xa180; 0xa438; 0xa480; 0xa438; 0x8302; 0xa438; 0x8606; 0xa438; 0x0c03;
  0xa438; 0x1502; 0xa438; 0x8702; 0xa438; 0x9503; 0xa438; 0xd701; 0xa438; 0x6056; 0xa438; 0x8704;
  0xa438; 0x1000; 0xa438; 0x9cf4; 0xa438; 0xce93; 0xa438; 0x1000; 0xa438; 0x9bde; 0xa438; 0xd701;
  0xa438; 0x4050; 0xa438; 0x8b20; 0xa438; 0xcd92; 0xa438; 0x1000; 0xa438; 0x99a8; 0xa438; 0xd707;
  0xa438; 0x7fb7; 0xa438; 0x81a0; 0xa438; 0x8480; 0xa438; 0x1000; 0xa438; 0x9d31; 0xa438; 0x1000;
  0xa438; 0x9bde; 0xa438; 0x1800; 0xa438; 0x96fe; 0xa438; 0xd705; 0xa438; 0x40d9; 0xa438; 0xd701;
  0xa438; 0x6056; 0xa438; 0xa704; 0xa438; 0xa010; 0xa438; 0xf002; 0xa438; 0x8010; 0xa438; 0xd701;
  0xa438; 0x4095; 0xa438; 0xd705; 0xa438; 0x4059; 0xa438; 0xa940; 0xa438; 0xd705; 0xa438; 0x6119;
  0xa438; 0x0c06; 0xa438; 0x0102; 0xa438; 0x0c03; 0xa438; 0x1502; 0xa438; 0x0c07; 0xa438; 0x0d04;
  0xa438; 0x9503; 0xa438; 0xd701; 0xa438; 0x4050; 0xa438; 0xab20; 0xa438; 0xcd93; 0xa438; 0x1000;
  0xa438; 0x99a8; 0xa438; 0xd704; 0xa438; 0x464b; 0xa438; 0xd707; 0xa438; 0x5f78; 0xa438; 0x1000;
  0xa438; 0x9d13; 0xa438; 0x800a; 0xa438; 0x81a0; 0xa438; 0xd700; 0xa438; 0x6117; 0xa438; 0x6093;
  0xa438; 0xd15e; 0xa438; 0xd040; 0xa438; 0xf006; 0xa438; 0xd132; 0xa438; 0xd040; 0xa438; 0xf003;
  0xa438; 0xd119; 0xa438; 0xd040; 0xa438; 0x1000; 0xa438; 0x9d08; 0xa438; 0x1000; 0xa438; 0x99a8;
  0xa438; 0xd73e; 0xa438; 0x6065; 0xa438; 0xd700; 0xa438; 0x5f3a; 0xa438; 0x0c03; 0xa438; 0x1502;
  0xa438; 0x85f0; 0xa438; 0x9503; 0xa438; 0xa008; 0xa438; 0xd707; 0xa438; 0x4052; 0xa438; 0xa002;
  0xa438; 0x8010; 0xa438; 0xd705; 0xa438; 0x4099; 0xa438; 0xd701; 0xa438; 0x6056; 0xa438; 0x8704;
  0xa438; 0x1000; 0xa438; 0x9bde; 0xa438; 0xd701; 0xa438; 0x4050; 0xa438; 0x8b20; 0xa438; 0xcd94;
  0xa438; 0x1000; 0xa438; 0x99a8; 0xa438; 0xd707; 0xa438; 0x7fb8; 0xa438; 0x8010; 0xa438; 0xd705;
  0xa438; 0x4099; 0xa438; 0xd701; 0xa438; 0x6056; 0xa438; 0x8704; 0xa438; 0xd705; 0xa438; 0x4099;
  0xa438; 0xd701; 0xa438; 0x4050; 0xa438; 0x8b20; 0xa438; 0xd705; 0xa438; 0x61f9; 0xa438; 0x8106;
  0xa438; 0xd700; 0xa438; 0x60e7; 0xa438; 0x0c03; 0xa438; 0x1502; 0xa438; 0x0c07; 0xa438; 0x0d02;
  0xa438; 0x9503; 0xa438; 0xf006; 0xa438; 0x0c03; 0xa438; 0x1502; 0xa438; 0x0c07; 0xa438; 0x0d01;
  0xa438; 0x9503; 0xa438; 0x800a; 0xa438; 0x0c03; 0xa438; 0x1502; 0xa438; 0x0cf0; 0xa438; 0x05a0;
  0xa438; 0x9503; 0xa438; 0xd705; 0xa438; 0x4099; 0xa438; 0x1000; 0xa438; 0x9d31; 0xa438; 0xf014;
  0xa438; 0xa1a0; 0xa438; 0xd700; 0xa438; 0x60cf; 0xa438; 0x60f1; 0xa438; 0x6113; 0xa438; 0x6135;
  0xa438; 0x6157; 0xa438; 0xf00b; 0xa438; 0xce08; 0xa438; 0xf00a; 0xa438; 0xce08; 0xa438; 0xf008;
  0xa438; 0xce08; 0xa438; 0xf006; 0xa438; 0xce08; 0xa438; 0xf004; 0xa438; 0xce08; 0xa438; 0xf002;
  0xa438; 0xce08; 0xa438; 0x1000; 0xa438; 0x9bde; 0xa438; 0xd705; 0xa438; 0x39cc; 0xa438; 0x91f3;
  0xa438; 0x1800; 0xa438; 0x96fe; 0xa438; 0xd75e; 0xa438; 0x60f4; 0xa438; 0x9b08; 0xa438; 0x9920;
  0xa438; 0x0c03; 0xa438; 0x1502; 0xa438; 0x8403; 0xa438; 0x9503; 0xa438; 0x0c03; 0xa438; 0x1502;
  0xa438; 0x8208; 0xa438; 0x8404; 0xa438; 0x9503; 0xa438; 0xcda1; 0xa438; 0x1000; 0xa438; 0x9bc9;
  0xa438; 0x1000; 0xa438; 0x99a0; 0xa438; 0x1000; 0xa438; 0x99a4; 0xa438; 0xd704; 0xa438; 0x5f37;
  0xa438; 0x8b08; 0xa438; 0x0c03; 0xa438; 0x1502; 0xa438; 0x8204; 0xa438; 0x9503; 0xa438; 0xd707;
  0xa438; 0x6536; 0xa438; 0x0c07; 0xa438; 0x0b00; 0xa438; 0x0c03; 0xa438; 0x1502; 0xa438; 0x0c03;
  0xa438; 0x0200; 0xa438; 0x9503; 0xa438; 0xd700; 0xa438; 0x60cf; 0xa438; 0x60f1; 0xa438; 0x6113;
  0xa438; 0x6135; 0xa438; 0x6157; 0xa438; 0xf00b; 0xa438; 0xce0b; 0xa438; 0xf00a; 0xa438; 0xce0b;
  0xa438; 0xf008; 0xa438; 0xce0a; 0xa438; 0xf006; 0xa438; 0xce0a; 0xa438; 0xf004; 0xa438; 0xce09;
  0xa438; 0xf002; 0xa438; 0xce09; 0xa438; 0x0c03; 0xa438; 0x1502; 0xa438; 0xa204; 0xa438; 0x9503;
  0xa438; 0x1000; 0xa438; 0x9bde; 0xa438; 0xab08; 0xa438; 0x1000; 0xa438; 0x9bc9; 0xa438; 0x1000;
  0xa438; 0x99a0; 0xa438; 0x1000; 0xa438; 0x99a4; 0xa438; 0xd704; 0xa438; 0x5f37; 0xa438; 0x0c03;
  0xa438; 0x1502; 0xa438; 0x8204; 0xa438; 0x9503; 0xa438; 0x8b08; 0xa438; 0xd414; 0xa438; 0xd202;
  0xa438; 0xb308; 0xa438; 0xb302; 0xa438; 0xb301; 0xa438; 0x0c03; 0xa438; 0x1502; 0xa438; 0xaf02;
  0xa438; 0x9503; 0xa438; 0xcdaf; 0xa438; 0x1000; 0xa438; 0x9bc9; 0xa438; 0x1000; 0xa438; 0x99a0;
  0xa438; 0x1000; 0xa438; 0x99a4; 0xa438; 0xd701; 0xa438; 0x5f21; 0xa438; 0x0c03; 0xa438; 0x1502;
  0xa438; 0x8f02; 0xa438; 0x9503; 0xa438; 0xd400; 0xa438; 0xb302; 0xa438; 0xd200; 0xa438; 0xd704;
  0xa438; 0x67b4; 0xa438; 0x1000; 0xa438; 0x9cc6; 0xa438; 0xbb08; 0xa438; 0x9a10; 0xa438; 0xd700;
  0xa438; 0x60cf; 0xa438; 0x60f1; 0xa438; 0x6113; 0xa438; 0x6135; 0xa438; 0x6157; 0xa438; 0xf00b;
  0xa438; 0xce08; 0xa438; 0xf00a; 0xa438; 0xce08; 0xa438; 0xf008; 0xa438; 0xce08; 0xa438; 0xf006;
  0xa438; 0xce08; 0xa438; 0xf004; 0xa438; 0xce08; 0xa438; 0xf002; 0xa438; 0xce08; 0xa438; 0x1000;
  0xa438; 0x9bde; 0xa438; 0xa00a; 0xa438; 0xa1a0; 0xa438; 0xa302; 0xa438; 0xa480; 0xa438; 0xd700;
  0xa438; 0x40a7; 0xa438; 0xd704; 0xa438; 0x407d; 0xa438; 0x8644; 0xa438; 0xf003; 0xa438; 0x0c44;
  0xa438; 0x0604; 0xa438; 0xd700; 0xa438; 0x6047; 0xa438; 0xa682; 0xa438; 0x0c03; 0xa438; 0x1502;
  0xa438; 0x8230; 0xa438; 0x8410; 0xa438; 0x9503; 0xa438; 0xd707; 0xa438; 0x404e; 0xa438; 0x8a10;
  0xa438; 0xcda9; 0xa438; 0xd110; 0xa438; 0xd040; 0xa438; 0x1000; 0xa438; 0x9bc9; 0xa438; 0x1000;
  0xa438; 0x99a0; 0xa438; 0x1000; 0xa438; 0x99a4; 0xa438; 0xd700; 0xa438; 0x5f3a; 0xa438; 0x1800;
  0xa438; 0x91f3; 0xa438; 0xba10; 0xa438; 0x0c03; 0xa438; 0x1502; 0xa438; 0x0c97; 0xa438; 0x0086;
  0xa438; 0xa060; 0xa438; 0xa101; 0xa438; 0xa408; 0xa438; 0xa240; 0xa438; 0x9503; 0xa438; 0xcda2;
  0xa438; 0x0c03; 0xa438; 0x1502; 0xa438; 0xa020; 0xa438; 0xa110; 0xa438; 0xa011; 0xa438; 0x9503;
  0xa438; 0xd17a; 0xa438; 0xd046; 0xa438; 0xcda3; 0xa438; 0x1000; 0xa438; 0x9bc9; 0xa438; 0x1000;
  0xa438; 0x99a0; 0xa438; 0x1000; 0xa438; 0x99a4; 0xa438; 0xd700; 0xa438; 0x5f3a; 0xa438; 0x0c03;
  0xa438; 0x1502; 0xa438; 0x0c83; 0xa438; 0x0282; 0xa438; 0x9503; 0xa438; 0x0c07; 0xa438; 0x0b02;
  0xa438; 0xd700; 0xa438; 0x60cf; 0xa438; 0x60f1; 0xa438; 0x6113; 0xa438; 0x6135; 0xa438; 0x6157;
  0xa438; 0xf00b; 0xa438; 0xce11; 0xa438; 0xf00a; 0xa438; 0xce11; 0xa438; 0xf008; 0xa438; 0xce10;
  0xa438; 0xf006; 0xa438; 0xce10; 0xa438; 0xf004; 0xa438; 0xce0f; 0xa438; 0xf002; 0xa438; 0xce0f;
  0xa438; 0x0c03; 0xa438; 0x1502; 0xa438; 0xa204; 0xa438; 0x9503; 0xa438; 0x1000; 0xa438; 0x9bde;
  0xa438; 0xab08; 0xa438; 0x1000; 0xa438; 0x9bc9; 0xa438; 0x1000; 0xa438; 0x99a0; 0xa438; 0x1000;
  0xa438; 0x99a4; 0xa438; 0xd704; 0xa438; 0x3ebc; 0xa438; 0x98b7; 0xa438; 0x0c03; 0xa438; 0x1502;
  0xa438; 0x8284; 0xa438; 0x9503; 0xa438; 0x8b08; 0xa438; 0xcda4; 0xa438; 0xd704; 0xa438; 0x6419;
  0xa438; 0x3ad1; 0xa438; 0x9969; 0xa438; 0xd705; 0xa438; 0x60dc; 0xa438; 0x0c03; 0xa438; 0x1502;
  0xa438; 0xa402; 0xa438; 0x9503; 0xa438; 0xf012; 0xa438; 0x0c03; 0xa438; 0x1502; 0xa438; 0x8402;
  0xa438; 0x9503; 0xa438; 0xd705; 0xa438; 0x60db; 0xa438; 0x0c03; 0xa438; 0x1502; 0xa438; 0xa401;
  0xa438; 0x9503; 0xa438; 0xf007; 0xa438; 0x0c03; 0xa438; 0x1502; 0xa438; 0x0c21; 0xa438; 0x0420;
  0xa438; 0x9503; 0xa438; 0x9a10; 0xa438; 0xd705; 0xa438; 0x34a4; 0xa438; 0x9886; 0xa438; 0x1800;
  0xa438; 0x9969; 0xa438; 0x0c03; 0xa438; 0x1502; 0xa438; 0x0c10; 0xa438; 0x0010; 0xa438; 0x8410;
  0xa438; 0xa250; 0xa438; 0x9503; 0xa438; 0xd700; 0xa438; 0x40a7; 0xa438; 0xd704; 0xa438; 0x407d;
  0xa438; 0x8644; 0xa438; 0xf003; 0xa438; 0x0c44; 0xa438; 0x0604; 0xa438; 0xd700; 0xa438; 0x40e7;
  0xa438; 0x0c03; 0xa438; 0x1502; 0xa438; 0x0c38; 0xa438; 0x0d28; 0xa438; 0x9503; 0xa438; 0xf007;
  0xa438; 0x0c03; 0xa438; 0x1502; 0xa438; 0x0cf8; 0xa438; 0x0d90; 0xa438; 0x9503; 0xa438; 0xa682;
  0xa438; 0xd1f1; 0xa438; 0xd046; 0xa438; 0xcda5; 0xa438; 0x1000; 0xa438; 0x9bc9; 0xa438; 0x1000;
  0xa438; 0x99a0; 0xa438; 0x1000; 0xa438; 0x99a4; 0xa438; 0xd704; 0xa438; 0x60ef; 0xa438; 0xd706;
  0xa438; 0x40b1; 0xa438; 0xd700; 0xa438; 0x5eba; 0xa438; 0x1800; 0xa438; 0x9925; 0xa438; 0xd162;
  0xa438; 0xd055; 0xa438; 0x1000; 0xa438; 0x9bc9; 0xa438; 0x1000; 0xa438; 0x99a0; 0xa438; 0x1000;
  0xa438; 0x99a4; 0xa438; 0xd700; 0xa438; 0x5f3b; 0xa438; 0xd704; 0xa438; 0x692f; 0xa438; 0xd706;
  0xa438; 0x48f1; 0xa438; 0x1800; 0xa438; 0x9907; 0xa438; 0xd700; 0xa438; 0x60cf; 0xa438; 0x60f1;
  0xa438; 0x6113; 0xa438; 0x6135; 0xa438; 0x6157; 0xa438; 0xf00b; 0xa438; 0xce08; 0xa438; 0xf00a;
  0xa438; 0xce08; 0xa438; 0xf008; 0xa438; 0xce08; 0xa438; 0xf006; 0xa438; 0xce08; 0xa438; 0xf004;
  0xa438; 0xce08; 0xa438; 0xf002; 0xa438; 0xce08; 0xa438; 0x1000; 0xa438; 0x9bde; 0xa438; 0xa00a;
  0xa438; 0xd179; 0xa438; 0xd047; 0xa438; 0xcda6; 0xa438; 0x1000; 0xa438; 0x9bc9; 0xa438; 0x1000;
  0xa438; 0x99a0; 0xa438; 0x1000; 0xa438; 0x99a4; 0xa438; 0xd704; 0xa438; 0x60ef; 0xa438; 0xd706;
  0xa438; 0x40b1; 0xa438; 0xd700; 0xa438; 0x5eba; 0xa438; 0x1800; 0xa438; 0x995b; 0xa438; 0xd162;
  0xa438; 0xd055; 0xa438; 0x1000; 0xa438; 0x9bc9; 0xa438; 0x1000; 0xa438; 0x99a0; 0xa438; 0x1000;
  0xa438; 0x99a4; 0xa438; 0xd700; 0xa438; 0x5f3b; 0xa438; 0xd704; 0xa438; 0x626f; 0xa438; 0xd706;
  0xa438; 0x4231; 0xa438; 0x1800; 0xa438; 0x993d; 0xa438; 0x0c03; 0xa438; 0x1502; 0xa438; 0x0ccf;
  0xa438; 0x0b46; 0xa438; 0x0c07; 0xa438; 0x0c03; 0xa438; 0x9503; 0xa438; 0xa1a0; 0xa438; 0xa480;
  0xa438; 0xb920; 0xa438; 0x9a10; 0xa438; 0xcda7; 0xa438; 0x1800; 0xa438; 0x91f3; 0xa438; 0x0c03;
  0xa438; 0x1502; 0xa438; 0x8091; 0xa438; 0x8101; 0xa438; 0x8250; 0xa438; 0x0c28; 0xa438; 0x0420;
  0xa438; 0xd700; 0xa438; 0x4087; 0xa438; 0x0c38; 0xa438; 0x0d18; 0xa438; 0xf003; 0xa438; 0x0cf8;
  0xa438; 0x0d58; 0xa438; 0x9503; 0xa438; 0x8106; 0xa438; 0xcda8; 0xa438; 0x1800; 0xa438; 0x91f3;
  0xa438; 0x0c03; 0xa438; 0x1502; 0xa438; 0x8090; 0xa438; 0x8101; 0xa438; 0x8248; 0xa438; 0x9503;
  0xa438; 0x1000; 0xa438; 0x9cb7; 0xa438; 0x1000; 0xa438; 0x9c90; 0xa438; 0x8106; 0xa438; 0x0c03;
  0xa438; 0x1502; 0xa438; 0x0ccf; 0xa438; 0x0b03; 0xa438; 0x8c07; 0xa438; 0xd700; 0xa438; 0x4087;
  0xa438; 0x0c38; 0xa438; 0x0d18; 0xa438; 0xf003; 0xa438; 0x0cf8; 0xa438; 0x0d98; 0xa438; 0x8408;
  0xa438; 0x9503; 0xa438; 0x9c01; 0xa438; 0xa1a0; 0xa438; 0xa302; 0xa438; 0xd707; 0xa438; 0x404e;
  0xa438; 0x8a10; 0xa438; 0x1000; 0xa438; 0x9cc6; 0xa438; 0xcdab; 0xa438; 0x1800; 0xa438; 0x923e;
  0xa438; 0xd71f; 0xa438; 0x2e71; 0xa438; 0x925e; 0xa438; 0x0800; 0xa438; 0xd704; 0xa438; 0x2739;
  0xa438; 0x96ac; 0xa438; 0x0800; 0xa438; 0xd71f; 0xa438; 0x62ae; 0xa438; 0xd706; 0xa438; 0x6400;
  0xa438; 0x1000; 0xa438; 0x9bc9; 0xa438; 0xd705; 0xa438; 0x61d9; 0xa438; 0xd704; 0xa438; 0x4187;
  0xa438; 0x0c03; 0xa438; 0x1502; 0xa438; 0xa601; 0xa438; 0x9503; 0xa438; 0x800a; 0xa438; 0x1000;
  0xa438; 0x9d31; 0xa438; 0x1000; 0xa438; 0x9bde; 0xa438; 0x1800; 0xa438; 0x96ac; 0xa438; 0x0800;
  0xa438; 0xcd99; 0xa438; 0xa70c; 0xa438; 0x881a; 0xa438; 0x8010; 0xa438; 0x0c03; 0xa438; 0x1502;
  0xa438; 0x8683; 0xa438; 0x9503; 0xa438; 0xd701; 0xa438; 0x4050; 0xa438; 0xab20; 0xa438; 0x1800;
  0xa438; 0x925e; 0xa438; 0x8010; 0xa438; 0xa704; 0xa438; 0x0c03; 0xa438; 0x1502; 0xa438; 0xa60c;
  0xa438; 0xa603; 0xa438; 0x9503; 0xa438; 0x800a; 0xa438; 0x81a0; 0xa438; 0x8302; 0xa438; 0x8480;
  0xa438; 0x8604; 0xa438; 0x8602; 0xa438; 0x0c03; 0xa438; 0x1502; 0xa438; 0x8702; 0xa438; 0x9503;
  0xa438; 0xd701; 0xa438; 0x4050; 0xa438; 0xab20; 0xa438; 0xcd96; 0xa438; 0xa901; 0xa438; 0x1000;
  0xa438; 0x9bc9; 0xa438; 0xd706; 0xa438; 0x7ce0; 0xa438; 0xd706; 0xa438; 0x2109; 0xa438; 0x9a75;
  0xa438; 0xd71f; 0xa438; 0x7aae; 0xa438; 0xd704; 0xa438; 0x7ea7; 0xa438; 0xd706; 0xa438; 0x5e62;
  0xa438; 0x0c03; 0xa438; 0x1502; 0xa438; 0x8f40; 0xa438; 0x9503; 0xa438; 0x0c03; 0xa438; 0x1502;
  0xa438; 0xa610; 0xa438; 0x9503; 0xa438; 0xa708; 0xa438; 0x881a; 0xa438; 0x0c03; 0xa438; 0x1502;
  0xa438; 0x0ccf; 0xa438; 0x0b03; 0xa438; 0x8cc7; 0xa438; 0x9503; 0xa438; 0x8106; 0xa438; 0xd700;
  0xa438; 0x60c7; 0xa438; 0x0c03; 0xa438; 0x1502; 0xa438; 0xcd5a; 0xa438; 0x9503; 0xa438; 0xf006;
  0xa438; 0x0c03; 0xa438; 0x1502; 0xa438; 0x0c3f; 0xa438; 0x0d19; 0xa438; 0x9503; 0xa438; 0xa00a;
  0xa438; 0xa1a0; 0xa438; 0xa302; 0xa438; 0xa480; 0xa438; 0xd700; 0xa438; 0x40a7; 0xa438; 0xd704;
  0xa438; 0x407d; 0xa438; 0x8604; 0xa438; 0xf002; 0xa438; 0xa604; 0xa438; 0xd700; 0xa438; 0x60c7;
  0xa438; 0xa602; 0xa438; 0x0c03; 0xa438; 0x1502; 0xa438; 0xa702; 0xa438; 0x9503; 0xa438; 0x0c03;
  0xa438; 0x1502; 0xa438; 0x8680; 0xa438; 0x9503; 0xa438; 0x0c03; 0xa438; 0x1502; 0xa438; 0xc500;
  0xa438; 0x9503; 0xa438; 0x1000; 0xa438; 0x9bc9; 0xa438; 0xd71f; 0xa438; 0x72ce; 0xa438; 0xd704;
  0xa438; 0x5f65; 0xa438; 0xd705; 0xa438; 0x4378; 0xa438; 0xd700; 0xa438; 0x60cf; 0xa438; 0x60f1;
  0xa438; 0x6113; 0xa438; 0x6135; 0xa438; 0x6157; 0xa438; 0xf00b; 0xa438; 0xce1d; 0xa438; 0xf00b;
  0xa438; 0xce1d; 0xa438; 0xf009; 0xa438; 0xce1d; 0xa438; 0xf007; 0xa438; 0xce1d; 0xa438; 0xf005;
  0xa438; 0xce1c; 0xa438; 0xf003; 0xa438; 0xce1c; 0xa438; 0xf001; 0xa438; 0x1000; 0xa438; 0x9bde;
  0xa438; 0x0c03; 0xa438; 0x1502; 0xa438; 0x8640; 0xa438; 0x9503; 0xa438; 0xf01a; 0xa438; 0xd700;
  0xa438; 0x60cf; 0xa438; 0x60f1; 0xa438; 0x6113; 0xa438; 0x6135; 0xa438; 0x6157; 0xa438; 0xf00b;
  0xa438; 0xce05; 0xa438; 0xf00b; 0xa438; 0xce05; 0xa438; 0xf009; 0xa438; 0xce04; 0xa438; 0xf007;
  0xa438; 0xce04; 0xa438; 0xf005; 0xa438; 0xce04; 0xa438; 0xf003; 0xa438; 0xce04; 0xa438; 0xf001;
  0xa438; 0x1000; 0xa438; 0x9bde; 0xa438; 0x0c03; 0xa438; 0x1502; 0xa438; 0xa640; 0xa438; 0x9503;
  0xa438; 0x0c03; 0xa438; 0x1502; 0xa438; 0x8602; 0xa438; 0x8601; 0xa438; 0x9503; 0xa438; 0x8640;
  0xa438; 0x1000; 0xa438; 0x9cc6; 0xa438; 0xd703; 0xa438; 0x6131; 0xa438; 0x0c03; 0xa438; 0x1502;
  0xa438; 0xaf80; 0xa438; 0x0c38; 0xa438; 0x0d30; 0xa438; 0x9503; 0xa438; 0xd193; 0xa438; 0xd067;
  0xa438; 0xcd98; 0xa438; 0x1800; 0xa438; 0x91f3; 0xa438; 0x0c03; 0xa438; 0x1502; 0xa438; 0xa608;
  0xa438; 0x9503; 0xa438; 0xa708; 0xa438; 0xd701; 0xa438; 0x6056; 0xa438; 0x8704; 0xa438; 0x1000;
  0xa438; 0x9d31; 0xa438; 0x1000; 0xa438; 0x9bde; 0xa438; 0xa81a; 0xa438; 0x0c03; 0xa438; 0x1502;
  0xa438; 0x8603; 0xa438; 0x9503; 0xa438; 0xcd97; 0xa438; 0x1800; 0xa438; 0x96fe; 0xa438; 0xd706;
  0xa438; 0x4103; 0xa438; 0xd705; 0xa438; 0x407f; 0xa438; 0x1800; 0xa438; 0x9b77; 0xa438; 0xd105;
  0xa438; 0xd056; 0xa438; 0xf03f; 0xa438; 0xd705; 0xa438; 0x3fa7; 0xa438; 0x9a9a; 0xa438; 0xd705;
  0xa438; 0x605a; 0xa438; 0xf092; 0xa438; 0x1800; 0xa438; 0x9b1e; 0xa438; 0xd704; 0xa438; 0x4146;
  0xa438; 0x800a; 0xa438; 0x0c03; 0xa438; 0x1502; 0xa438; 0x0c07; 0xa438; 0x0d04; 0xa438; 0x9503;
  0xa438; 0x0c06; 0xa438; 0x0102; 0xa438; 0xf010; 0xa438; 0xa00a; 0xa438; 0x8106; 0xa438; 0xd700;
  0xa438; 0x60e7; 0xa438; 0x0c03; 0xa438; 0x1502; 0xa438; 0x0c07; 0xa438; 0x0d02; 0xa438; 0x9503;
  0xa438; 0xf006; 0xa438; 0x0c03; 0xa438; 0x1502; 0xa438; 0x0c07; 0xa438; 0x0d01; 0xa438; 0x9503;
  0xa438; 0xd705; 0xa438; 0x61d4; 0xa438; 0xd704; 0xa438; 0x609f; 0xa438; 0x6170; 0xa438; 0x2d71;
  0xa438; 0x9ac3; 0xa438; 0xd702; 0xa438; 0x60d7; 0xa438; 0x0c03; 0xa438; 0x1502; 0xa438; 0x0cf0;
  0xa438; 0x05a0; 0xa438; 0x9503; 0xa438; 0xf0fc; 0xa438; 0x0c03; 0xa438; 0x1502; 0xa438; 0xa108;
  0xa438; 0xa204; 0xa438; 0x9503; 0xa438; 0x1000; 0xa438; 0x9bc9; 0xa438; 0x1000; 0xa438; 0x99a0;
  0xa438; 0x1000; 0xa438; 0x99a4; 0xa438; 0xd707; 0xa438; 0x5f35; 0xa438; 0x0c03; 0xa438; 0x1502;
  0xa438; 0xa410; 0xa438; 0x9503; 0xa438; 0x800a; 0xa438; 0x81a0; 0xa438; 0x8302; 0xa438; 0x8480;
  0xa438; 0x8642; 0xa438; 0x1000; 0xa438; 0x9d44; 0xa438; 0x0c03; 0xa438; 0x1502; 0xa438; 0x8108;
  0xa438; 0x9503; 0xa438; 0x8c40; 0xa438; 0x0c03; 0xa438; 0x1502; 0xa438; 0x8750; 0xa438; 0x9503;
  0xa438; 0xaa10; 0xa438; 0xd706; 0xa438; 0x4063; 0xa438; 0x8604; 0xa438; 0xf022; 0xa438; 0xa604;
  0xa438; 0x0c03; 0xa438; 0x1502; 0xa438; 0x8220; 0xa438; 0x8301; 0xa438; 0x8420; 0xa438; 0x8108;
  0xa438; 0x0c03; 0xa438; 0x0201; 0xa438; 0x9503; 0xa438; 0x0c07; 0xa438; 0x0b01; 0xa438; 0xd700;
  0xa438; 0x60cf; 0xa438; 0x60f1; 0xa438; 0x6113; 0xa438; 0x6135; 0xa438; 0x6157; 0xa438; 0xf00b;
  0xa438; 0xce0e; 0xa438; 0xf00a; 0xa438; 0xce0e; 0xa438; 0xf008; 0xa438; 0xce0d; 0xa438; 0xf006;
  0xa438; 0xce0d; 0xa438; 0xf004; 0xa438; 0xce0c; 0xa438; 0xf002; 0xa438; 0xce0c; 0xa438; 0x1000;
  0xa438; 0x9bde; 0xa438; 0xab08; 0xa438; 0xcda0; 0xa438; 0xd706; 0xa438; 0x4043; 0xa438; 0xf0b1;
  0xa438; 0xd705; 0xa438; 0x411e; 0xa438; 0xd162; 0xa438; 0xd045; 0xa438; 0x0c03; 0xa438; 0x1502;
  0xa438; 0xa008; 0xa438; 0x9503; 0xa438; 0xf0a8; 0xa438; 0x0c03; 0xa438; 0x1502; 0xa438; 0x8008;
  0xa438; 0x9503; 0xa438; 0xd1c4; 0xa438; 0xd055; 0xa438; 0xf0a1; 0xa438; 0xd700; 0xa438; 0x605a;
  0xa438; 0xf09e; 0xa438; 0x0c03; 0xa438; 0x1502; 0xa438; 0x8008; 0xa438; 0x8210; 0xa438; 0xa210;
  0xa438; 0x9503; 0xa438; 0xd162; 0xa438; 0xd055; 0xa438; 0xd704; 0xa438; 0x608f; 0xa438; 0xd706;
  0xa438; 0x4051; 0xa438; 0xf04a; 0xa438; 0xd705; 0xa438; 0x415e; 0xa438; 0xd705; 0xa438; 0x6112;
  0xa438; 0x0c03; 0xa438; 0x1502; 0xa438; 0x0c06; 0xa438; 0x0002; 0xa438; 0xa110; 0xa438; 0xa305;
  0xa438; 0x9503; 0xa438; 0xd705; 0xa438; 0x40de; 0xa438; 0xd706; 0xa438; 0x6771; 0xa438; 0xd700;
  0xa438; 0x60bb; 0xa438; 0xf07f; 0xa438; 0xd700; 0xa438; 0x661b; 0xa438; 0xf07c; 0xa438; 0x0c03;
  0xa438; 0x1502; 0xa438; 0x8090; 0xa438; 0x8101; 0xa438; 0x0ccf; 0xa438; 0x0b03; 0xa438; 0x8c07;
  0xa438; 0xd700; 0xa438; 0x4087; 0xa438; 0x0c38; 0xa438; 0x0d18; 0xa438; 0xf003; 0xa438; 0x0cf8;
  0xa438; 0x0d58; 0xa438; 0x8270; 0xa438; 0x8408; 0xa438; 0x8301; 0xa438; 0x9503; 0xa438; 0x8106;
  0xa438; 0x9c01; 0xa438; 0xd705; 0xa438; 0x40b5; 0xa438; 0x1000; 0xa438; 0x9cb7; 0xa438; 0xd601;
  0xa438; 0xd628; 0xa438; 0x0c03; 0xa438; 0x1502; 0xa438; 0x8208; 0xa438; 0x9503; 0xa438; 0xcdac;
  0xa438; 0xd1c4; 0xa438; 0xd054; 0xa438; 0x1000; 0xa438; 0x9bc9; 0xa438; 0x1000; 0xa438; 0x99a0;
  0xa438; 0x1000; 0xa438; 0x99a4; 0xa438; 0xd700; 0xa438; 0x5f3b; 0xa438; 0x0c03; 0xa438; 0x1502;
  0xa438; 0xa230; 0xa438; 0x9503; 0xa438; 0xf04e; 0xa438; 0x0c03; 0xa438; 0x1502; 0xa438; 0xa404;
  0xa438; 0x8230; 0xa438; 0x9503; 0xa438; 0xf048; 0xa438; 0xd700; 0xa438; 0x48db; 0xa438; 0x0c03;
  0xa438; 0x1502; 0xa438; 0x8204; 0xa438; 0x8410; 0xa438; 0x9503; 0xa438; 0x8b08; 0xa438; 0xd700;
  0xa438; 0x60cf; 0xa438; 0x60f1; 0xa438; 0x6113; 0xa438; 0x6135; 0xa438; 0x6157; 0xa438; 0xf00b;
  0xa438; 0xce08; 0xa438; 0xf00a; 0xa438; 0xce08; 0xa438; 0xf008; 0xa438; 0xce08; 0xa438; 0xf006;
  0xa438; 0xce08; 0xa438; 0xf004; 0xa438; 0xce08; 0xa438; 0xf002; 0xa438; 0xce08; 0xa438; 0x1000;
  0xa438; 0x9bde; 0xa438; 0xa00a; 0xa438; 0xa1a0; 0xa438; 0xa480; 0xa438; 0xd705; 0xa438; 0x611e;
  0xa438; 0xa302; 0xa438; 0x1000; 0xa438; 0x9cc6; 0xa438; 0xd707; 0xa438; 0x404e; 0xa438; 0x8a10;
  0xa438; 0xf006; 0xa438; 0x8302; 0xa438; 0x0c03; 0xa438; 0x1502; 0xa438; 0x8301; 0xa438; 0x9503;
  0xa438; 0xd700; 0xa438; 0x6047; 0xa438; 0xa682; 0xa438; 0xd700; 0xa438; 0x40a7; 0xa438; 0xd704;
  0xa438; 0x407d; 0xa438; 0x8644; 0xa438; 0xf003; 0xa438; 0x0c44; 0xa438; 0x0604; 0xa438; 0xd701;
  0xa438; 0x40d0; 0xa438; 0xac40; 0xa438; 0x0c03; 0xa438; 0x1502; 0xa438; 0xa750; 0xa438; 0x9503;
  0xa438; 0x0c03; 0xa438; 0x1502; 0xa438; 0xa220; 0xa438; 0x8210; 0xa438; 0xa210; 0xa438; 0xa620;
  0xa438; 0x9503; 0xa438; 0xcdaa; 0xa438; 0x0800; 0xa438; 0xd202; 0xa438; 0xb309; 0xa438; 0x1000;
  0xa438; 0x9bc9; 0xa438; 0xd701; 0xa438; 0x5fa1; 0xa438; 0xd400; 0xa438; 0xb302; 0xa438; 0xd200;
  0xa438; 0x0800; 0xa438; 0xd71f; 0xa438; 0x6261; 0xa438; 0xcdff; 0xa438; 0xd705; 0xa438; 0x41d5;
  0xa438; 0x0c03; 0xa438; 0x1502; 0xa438; 0x0c1f; 0xa438; 0x0e12; 0xa438; 0x9503; 0xa438; 0xd70c;
  0xa438; 0x5ff3; 0xa438; 0x0c03; 0xa438; 0x1502; 0xa438; 0x8e1f; 0xa438; 0x9503; 0xa438; 0xd70c;
  0xa438; 0x7f73; 0xa438; 0x1800; 0xa438; 0x001c; 0xa438; 0x0800; 0xa438; 0xab10; 0xa438; 0xd71f;
  0xa438; 0x210c; 0xa438; 0x001c; 0xa438; 0xd701; 0xa438; 0x5f98; 0xa438; 0x8b10; 0xa438; 0x0800;
  0xa438; 0xd71f; 0xa438; 0x210c; 0xa438; 0x001c; 0xa438; 0xd701; 0xa438; 0x5f99; 0xa438; 0x0800;
  0xa438; 0xa110; 0xa438; 0x1000; 0xa438; 0x9be6; 0xa438; 0x8110; 0xa438; 0xa140; 0xa438; 0x1000;
  0xa438; 0x9be6; 0xa438; 0x8140; 0xa438; 0xa004; 0xa438; 0x1000; 0xa438; 0x9be6; 0xa438; 0x8004;
  0xa438; 0xa001; 0xa438; 0x1000; 0xa438; 0x9be6; 0xa438; 0x8001; 0xa438; 0xa020; 0xa438; 0x1000;
  0xa438; 0x9be6; 0xa438; 0x8020; 0xa438; 0xa101; 0xa438; 0x0800; 0xa438; 0xd202; 0xa438; 0x0c09;
  0xa438; 0x1301; 0xa438; 0x1000; 0xa438; 0x9bc9; 0xa438; 0xd701; 0xa438; 0x5fa1; 0xa438; 0xb302;
  0xa438; 0xd200; 0xa438; 0x0800; 0xa438; 0xd204; 0xa438; 0x0c09; 0xa438; 0x1301; 0xa438; 0x1000;
  0xa438; 0x9bc9; 0xa438; 0xd701; 0xa438; 0x5fa2; 0xa438; 0xb302; 0xa438; 0xd200; 0xa438; 0x0800;
  0xa438; 0xd208; 0xa438; 0x0c09; 0xa438; 0x1301; 0xa438; 0x1000; 0xa438; 0x9bc9; 0xa438; 0xd701;
  0xa438; 0x5fa3; 0xa438; 0xb302; 0xa438; 0xd200; 0xa438; 0x0800; 0xa438; 0xd210; 0xa438; 0x0c09;
  0xa438; 0x1301; 0xa438; 0x1000; 0xa438; 0x9bc9; 0xa438; 0xd701; 0xa438; 0x5fa4; 0xa438; 0xb302;
  0xa438; 0xd200; 0xa438; 0x0800; 0xa438; 0xac01; 0xa438; 0x1000; 0xa438; 0x9bc9; 0xa438; 0xd707;
  0xa438; 0x5fad; 0xa438; 0x0800; 0xa438; 0xac04; 0xa438; 0x1000; 0xa438; 0x9bc9; 0xa438; 0xd707;
  0xa438; 0x5fab; 0xa438; 0x0800; 0xa438; 0xd71f; 0xa438; 0x4354; 0xa438; 0x8810; 0xa438; 0x1000;
  0xa438; 0x9bc9; 0xa438; 0xd706; 0xa438; 0x5fa7; 0xa438; 0xb920; 0xa438; 0x1000; 0xa438; 0x9bc9;
  0xa438; 0xd71f; 0xa438; 0x7fb4; 0xa438; 0x9920; 0xa438; 0x1000; 0xa438; 0x9bc9; 0xa438; 0xd71f;
  0xa438; 0x6085; 0xa438; 0xd71f; 0xa438; 0x7e34; 0xa438; 0xfffa; 0xa438; 0xb820; 0xa438; 0xa810;
  0xa438; 0x1000; 0xa438; 0x9bc9; 0xa438; 0xd71f; 0xa438; 0x7fa5; 0xa438; 0x9820; 0xa438; 0x0800;
  0xa438; 0x0c03; 0xa438; 0x1502; 0xa438; 0xa308; 0xa438; 0x9503; 0xa438; 0x1000; 0xa438; 0x9bc9;
  0xa438; 0xd701; 0xa438; 0x5fb3; 0xa438; 0x0800; 0xa438; 0x0c03; 0xa438; 0x1502; 0xa438; 0x8308;
  0xa438; 0x9503; 0xa438; 0x1000; 0xa438; 0x9bc9; 0xa438; 0xd701; 0xa438; 0x7fb3; 0xa438; 0x0800;
  0xa438; 0xc000; 0xa438; 0xc100; 0xa438; 0xc200; 0xa438; 0xc300; 0xa438; 0xc400; 0xa438; 0xc500;
  0xa438; 0xc600; 0xa438; 0xc700; 0xa438; 0xc828; 0xa438; 0xc904; 0xa438; 0xca00; 0xa438; 0xcb00;
  0xa438; 0xcc00; 0xa438; 0xce00].

Definition phy_mcu_ram_code_8127a_tc_1_p5 : list Z := [
  0xa438; 0xcf00; 0xa438; 0xd000; 0xa438; 0xd100; 0xa438; 0xd200; 0xa438; 0xd300; 0xa438; 0xd400;
  0xa438; 0xd500; 0xa438; 0xd700; 0xa438; 0x0c03; 0xa438; 0x1502; 0xa438; 0xc000; 0xa438; 0xc100;
  0xa438; 0xc200; 0xa438; 0xc300; 0xa438; 0xc400; 0xa438; 0xc500; 0xa438; 0xc600; 0xa438; 0xa63c;
  0xa438; 0xc700; 0xa438; 0xc800; 0xa438; 0xc900; 0xa438; 0xca00; 0xa438; 0xcb00; 0xa438; 0xcc00;
  0xa438; 0xcd00; 0xa438; 0xce00; 0xa438; 0xcf00; 0xa438; 0x9503; 0xa438; 0xcd00; 0xa438; 0x0800;
  0xa438; 0xd601; 0xa438; 0xd608; 0xa438; 0xd610; 0xa438; 0xd618; 0xa438; 0xd620; 0xa438; 0xd628;
  0xa438; 0xd630; 0xa438; 0xd638; 0xa438; 0x0800; 0xa438; 0x8b0f; 0xa438; 0x0c03; 0xa438; 0x1502;
  0xa438; 0x8097; 0xa438; 0x8109; 0xa438; 0x82ff; 0xa438; 0x843f; 0xa438; 0x9503; 0xa438; 0x9920;
  0xa438; 0x9b08; 0xa438; 0x9a10; 0xa438; 0xd705; 0xa438; 0x4235; 0xa438; 0x0c03; 0xa438; 0x1502;
  0xa438; 0x0c1f; 0xa438; 0x0e12; 0xa438; 0x8440; 0xa438; 0x9503; 0xa438; 0xd70c; 0xa438; 0x5ff3;
  0xa438; 0x0c03; 0xa438; 0x1502; 0xa438; 0x8e1f; 0xa438; 0x9503; 0xa438; 0xd70c; 0xa438; 0x7f73;
  0xa438; 0xd601; 0xa438; 0xd628; 0xa438; 0x0800; 0xa438; 0x0c03; 0xa438; 0x1502; 0xa438; 0x0c1f;
  0xa438; 0x0e12; 0xa438; 0x8440; 0xa438; 0x9503; 0xa438; 0xd70c; 0xa438; 0x5ff3; 0xa438; 0x0c03;
  0xa438; 0x1502; 0xa438; 0x8e1f; 0xa438; 0x9503; 0xa438; 0xd70c; 0xa438; 0x7f73; 0xa438; 0x0800;
  0xa438; 0xd700; 0xa438; 0x37c9; 0xa438; 0x9ccf; 0xa438; 0x0c03; 0xa438; 0x1502; 0xa438; 0x0c70;
  0xa438; 0x0350; 0xa438; 0x9503; 0xa438; 0xf00e; 0xa438; 0xd702; 0xa438; 0x40f9; 0xa438; 0x0c03;
  0xa438; 0x1502; 0xa438; 0x0c70; 0xa438; 0x0340; 0xa438; 0x9503; 0xa438; 0xf006; 0xa438; 0x0c03;
  0xa438; 0x1502; 0xa438; 0x0c70; 0xa438; 0x0340; 0xa438; 0x9503; 0xa438; 0x0800; 0xa438; 0xd700;
  0xa438; 0x37c9; 0xa438; 0x9ce6; 0xa438; 0x0c03; 0xa438; 0x1502; 0xa438; 0x0c70; 0xa438; 0x0370;
  0xa438; 0x9503; 0xa438; 0xf00e; 0xa438; 0xd702; 0xa438; 0x40f9; 0xa438; 0x0c03; 0xa438; 0x1502;
  0xa438; 0x0c70; 0xa438; 0x0350; 0xa438; 0x9503; 0xa438; 0xf006; 0xa438; 0x0c03; 0xa438; 0x1502;
  0xa438; 0x0c70; 0xa438; 0x0350; 0xa438; 0x9503; 0xa438; 0x0800; 0xa438; 0x8910; 0xa438; 0xd704;
  0xa438; 0x61a8; 0xa438; 0xd702; 0xa438; 0x60d6; 0xa438; 0x0c03; 0xa438; 0x1502; 0xa438; 0xaf40;
  0xa438; 0x9503; 0xa438; 0xf00a; 0xa438; 0x0c03; 0xa438; 0x1502; 0xa438; 0x8f40; 0xa438; 0x9503;
  0xa438; 0xf005; 0xa438; 0x0c03; 0xa438; 0x1502; 0xa438; 0x8f40; 0xa438; 0x9503; 0xa438; 0x0800;
  0xa438; 0x8910; 0xa438; 0xd705; 0xa438; 0x4059; 0xa438; 0xa910; 0xa438; 0xd704; 0xa438; 0x6068;
  0xa438; 0x0000; 0xa438; 0xf002; 0xa438; 0x0000; 0xa438; 0x8910; 0xa438; 0x0800; 0xa438; 0xd703;
  0xa438; 0x6080; 0xa438; 0x6121; 0xa438; 0x61c2; 0xa438; 0x6263; 0xa438; 0xd707; 0xa438; 0x4070;
  0xa438; 0xce98; 0xa438; 0xf015; 0xa438; 0xce94; 0xa438; 0xf013; 0xa438; 0xd707; 0xa438; 0x4070;
  0xa438; 0xce99; 0xa438; 0xf00f; 0xa438; 0xce95; 0xa438; 0xf00d; 0xa438; 0xd707; 0xa438; 0x4070;
  0xa438; 0xce9a; 0xa438; 0xf009; 0xa438; 0xce96; 0xa438; 0xf007; 0xa438; 0xd707; 0xa438; 0x4070;
  0xa438; 0xce9b; 0xa438; 0xf003; 0xa438; 0xce97; 0xa438; 0xf001; 0xa438; 0x0800; 0xa438; 0xd700;
  0xa438; 0x60cf; 0xa438; 0x60f1; 0xa438; 0x6113; 0xa438; 0x6135; 0xa438; 0x6157; 0xa438; 0xf00b;
  0xa438; 0xce00; 0xa438; 0xf00a; 0xa438; 0xce00; 0xa438; 0xf008; 0xa438; 0xce00; 0xa438; 0xf006;
  0xa438; 0xce00; 0xa438; 0xf004; 0xa438; 0xce00; 0xa438; 0xf002; 0xa438; 0xce00; 0xa438; 0x0800;
  0xa438; 0x0c03; 0xa438; 0x1502; 0xa438; 0x8702; 0xa438; 0x9503; 0xa438; 0xd101; 0xa438; 0xd040;
  0xa438; 0xd700; 0xa438; 0x5ffa; 0xa438; 0x8680; 0xa438; 0xd700; 0xa438; 0x60a7; 0xa438; 0x0c03;
  0xa438; 0x1502; 0xa438; 0xa702; 0xa438; 0x9503; 0xa438; 0x0800; 0xa438; 0xcdfe; 0xa438; 0xa708;
  0xa438; 0xa2fc; 0xa438; 0xba20; 0xa438; 0xa980; 0xa438; 0x1000; 0xa438; 0x9bc9; 0xa438; 0xd71f;
  0xa438; 0x5fb4; 0xa438; 0xb920; 0xa438; 0x1000; 0xa438; 0x9bc9; 0xa438; 0xd71f; 0xa438; 0x7fb4;
  0xa438; 0x9920; 0xa438; 0x0ca0; 0xa438; 0x0480; 0xa438; 0xd706; 0xa438; 0x5fe7; 0xa438; 0x84a0;
  0xa438; 0x1000; 0xa438; 0x9bc9; 0xa438; 0xd71f; 0xa438; 0x5fb4; 0xa438; 0xb920; 0xa438; 0x1000;
  0xa438; 0x9bc9; 0xa438; 0xd71f; 0xa438; 0x7fb4; 0xa438; 0x9920; 0xa438; 0x1000; 0xa438; 0x9bc9;
  0xa438; 0xd71f; 0xa438; 0x5fa5; 0xa438; 0xb820; 0xa438; 0x1000; 0xa438; 0x9bc9; 0xa438; 0xd71f;
  0xa438; 0x7f85; 0xa438; 0x9820; 0xa438; 0xa810; 0xa438; 0xd700; 0xa438; 0x60cf; 0xa438; 0x60f1;
  0xa438; 0x6113; 0xa438; 0x6135; 0xa438; 0x6157; 0xa438; 0xf00b; 0xa438; 0xce08; 0xa438; 0xf00a;
  0xa438; 0xce08; 0xa438; 0xf008; 0xa438; 0xce08; 0xa438; 0xf006; 0xa438; 0xce08; 0xa438; 0xf004;
  0xa438; 0xce08; 0xa438; 0xf002; 0xa438; 0xce08; 0xa438; 0x1000; 0xa438; 0x9bde; 0xa438; 0xa120;
  0xa438; 0xa4a0; 0xa438; 0xa980; 0xa438; 0x1000; 0xa438; 0x9bc9; 0xa438; 0xd706; 0xa438; 0x5faf;
  0xa438; 0x1800; 0xa438; 0x9de8; 0xa438; 0xcdfd; 0xa438; 0xd700; 0xa438; 0x60cf; 0xa438; 0x60f1;
  0xa438; 0x6113; 0xa438; 0x6135; 0xa438; 0x6157; 0xa438; 0xf00b; 0xa438; 0xce08; 0xa438; 0xf00a;
  0xa438; 0xce08; 0xa438; 0xf008; 0xa438; 0xce08; 0xa438; 0xf006; 0xa438; 0xce08; 0xa438; 0xf004;
  0xa438; 0xce08; 0xa438; 0xf002; 0xa438; 0xce08; 0xa438; 0x1000; 0xa438; 0x9bde; 0xa438; 0xa980;
  0xa438; 0xa810; 0xa438; 0xa00a; 0xa438; 0xa1a0; 0xa438; 0xa312; 0xa438; 0xa4a0; 0xa438; 0xa604;
  0xa438; 0x0c03; 0xa438; 0x1502; 0xa438; 0xa340; 0xa438; 0x9503; 0xa438; 0x1000; 0xa438; 0x9bc9;
  0xa438; 0xd706; 0xa438; 0x5faf; 0xa438; 0x0c30; 0xa438; 0x0320; 0xa438; 0x1000; 0xa438; 0x9bc9;
  0xa438; 0xd704; 0xa438; 0x5fa4; 0xa438; 0x800a; 0xa438; 0x81a0; 0xa438; 0x8312; 0xa438; 0x84a0;
  0xa438; 0x8604; 0xa438; 0x1000; 0xa438; 0x9bc9; 0xa438; 0xd71f; 0xa438; 0x5fb4; 0xa438; 0xb920;
  0xa438; 0x1000; 0xa438; 0x9bc9; 0xa438; 0xd71f; 0xa438; 0x7fb4; 0xa438; 0x9920; 0xa438; 0x8340;
  0xa438; 0xa801; 0xa438; 0xa980; 0xa438; 0x8240; 0xa438; 0xa00a; 0xa438; 0xa1a0; 0xa438; 0xa302;
  0xa438; 0xa4a0; 0xa438; 0xa604; 0xa438; 0xd1c8; 0xa438; 0xd045; 0xa438; 0xd700; 0xa438; 0x5ffa;
  0xa438; 0xd706; 0xa438; 0x5faf; 0xa438; 0xd40a; 0xa438; 0x1000; 0xa438; 0x9bbf; 0xa438; 0xd416;
  0xa438; 0x1000; 0xa438; 0x9bbf; 0xa438; 0x800a; 0xa438; 0x81a0; 0xa438; 0x8302; 0xa438; 0x8480;
  0xa438; 0xa604; 0xa438; 0xa801; 0xa438; 0x8818; 0xa438; 0xbb10; 0xa438; 0x1000; 0xa438; 0x9bc9;
  0xa438; 0xd71f; 0xa438; 0x5fb5; 0xa438; 0x9b10; 0xa438; 0x1000; 0xa438; 0x9bc9; 0xa438; 0xd71f;
  0xa438; 0x7fb5; 0xa438; 0x1800; 0xa438; 0x915e; 0xa438; 0x1000; 0xa438; 0x1c45; 0xa438; 0x1000;
  0xa438; 0x9c64; 0xa438; 0xac10; 0xa438; 0x1800; 0xa438; 0x0021; 0xa436; 0xA10E; 0xa438; 0xffff;
  0xa436; 0xA10C; 0xa438; 0xffff; 0xa436; 0xA10A; 0xa438; 0xffff; 0xa436; 0xA108; 0xa438; 0xffff;
  0xa436; 0xA106; 0xa438; 0xffff; 0xa436; 0xA104; 0xa438; 0xffff; 0xa436; 0xA102; 0xa438; 0x001c;
  0xa436; 0xA100; 0xa438; 0x0073; 0xa436; 0xA110; 0xa438; 0x0003; 0xa436; 0xA016; 0xa438; 0x0020;
  0xa436; 0xA012; 0xa438; 0x1ff8; 0xa436; 0xA014; 0xa438; 0xb904; 0xa438; 0xd18a; 0xa438; 0xd17a;
  0xa438; 0x9c10; 0xa438; 0x0000; 0xa438; 0x0000; 0xa438; 0x0000; 0xa438; 0x0000; 0xa436; 0xA164;
  0xa438; 0x1CAC; 0xa436; 0xA166; 0xa438; 0x0666; 0xa436; 0xA168; 0xa438; 0x0669; 0xa436; 0xA16A;
  0xa438; 0x001f; 0xa436; 0xA16C; 0xa438; 0x3fff; 0xa436; 0xA16E; 0xa438; 0x3fff; 0xa436; 0xA170;
  0xa438; 0x3fff; 0xa436; 0xA172; 0xa438; 0x3fff; 0xa436; 0xA162; 0xa438; 0x000f; 0xa436; 0xb87c;
  0xa438; 0x8a23; 0xa436; 0xb87e; 0xa438; 0xaf8a; 0xa438; 0x3baf; 0xa438; 0x8a4c; 0xa438; 0xaf8a;
  0xa438; 0x5caf; 0xa438; 0x8a62; 0xa438; 0xaf8a; 0xa438; 0x68af; 0xa438; 0x8a9e; 0xa438; 0xaf8b;
  0xa438; 0x4daf; 0xa438; 0x8ba8; 0xa438; 0xe080; 0xa438; 0x15ad; 0xa438; 0x2505; 0xa438; 0xd101;
  0xa438; 0xaf58; 0xa438; 0xcc02; 0xa438; 0x1e44; 0xa438; 0xaf59; 0xa438; 0x05ee; 0xa438; 0x88af;
  0xa438; 0x0102; 0xa438; 0x7eb6; 0xa438; 0xad2a; 0xa438; 0x03af; 0xa438; 0x5b41; 0xa438; 0xaf5b;
  0xa438; 0x4a02; 0xa438; 0x8c4c; 0xa438; 0xaf69; 0xa438; 0x4f02; 0xa438; 0x8d51; 0xa438; 0xaf65;
  0xa438; 0xaf02; 0xa438; 0x7b73; 0xa438; 0xbf7a; 0xa438; 0xa302; 0xa438; 0x7b73; 0xa438; 0xbf8e;
  0xa438; 0x5b02; 0xa438; 0x7b73; 0xa438; 0xbf8e; 0xa438; 0x5e02; 0xa438; 0x7b73; 0xa438; 0xbf8e;
  0xa438; 0x6102; 0xa438; 0x7b73; 0xa438; 0xbf7a; 0xa438; 0xa602; 0xa438; 0x7b73; 0xa438; 0xbf8e;
  0xa438; 0x6402; 0xa438; 0x7b73; 0xa438; 0xbf8e; 0xa438; 0x6702; 0xa438; 0x7b73; 0xa438; 0xbf8e;
  0xa438; 0x6a02; 0xa438; 0x7b73; 0xa438; 0xaf64; 0xa438; 0xcfe0; 0xa438; 0x898a; 0xa438; 0xe189;
  0xa438; 0x8bc4; 0xa438; 0xef67; 0xa438; 0xe089; 0xa438; 0x8ce1; 0xa438; 0x898e; 0xa438; 0x1b01;
  0xa438; 0xef20; 0xa438; 0xad27; 0xa438; 0x04c7; 0xa438; 0x78ff; 0xa438; 0x109e; 0xa438; 0x050d;
  0xa438; 0x8180; 0xa438; 0xaef9; 0xa438; 0xac37; 0xa438; 0x09cf; 0xa438; 0x027a; 0xa438; 0xcdac;
  0xa438; 0x5030; 0xa438; 0xae13; 0xa438; 0xe089; 0xa438; 0x8ae1; 0xa438; 0x898b; 0xa438; 0xef74;
  0xa438; 0xef46; 0xa438; 0xce02; 0xa438; 0x7acd; 0xa438; 0xef64; 0xa438; 0xac50; 0xa438; 0x1be0;
  0xa438; 0x8991; 0xa438; 0x3802; 0xa438; 0xac27; 0xa438; 0x13ef; 0xa438; 0x46e4; 0xa438; 0x898a;
  0xa438; 0xe589; 0xa438; 0x8b3b; 0xa438; 0x02e7; 0xa438; 0x898d; 0xa438; 0xe289; 0xa438; 0x8ee6;
  0xa438; 0x898c; 0xa438; 0x1f44; 0xa438; 0xe189; 0xa438; 0x68e2; 0xa438; 0x898e; 0xa438; 0x3a09;
  0xa438; 0xef32; 0xa438; 0xad37; 0xa438; 0x06c6; 0xa438; 0xef64; 0xa438; 0x7aff; 0xa438; 0x129e;
  0xa438; 0x050d; 0xa438; 0x6182; 0xa438; 0xaef9; 0xa438; 0xac3f; 0xa438; 0x04ef; 0xa438; 0x74ae;
  0xa438; 0x03ef; 0xa438; 0x76ce; 0xa438; 0x027a; 0xa438; 0xcdad; 0xa438; 0x501e; 0xa438; 0xe089;
  0xa438; 0x9138; 0xa438; 0x02ac; 0xa438; 0x2709; 0xa438; 0xe089; 0xa438; 0x8f10; 0xa438; 0xe489;
  0xa438; 0x8fae; 0xa438; 0x0de0; 0xa438; 0x8991; 0xa438; 0x2801; 0xa438; 0xe189; 0xa438; 0x921e;
  0xa438; 0x10e5; 0xa438; 0x8992; 0xa438; 0xe089; 0xa438; 0x9110; 0xa438; 0xe489; 0xa438; 0x91af;
  0xa438; 0x68c5; 0xa438; 0xcffb; 0xa438; 0xee89; 0xa438; 0x6700; 0xa438; 0xe389; 0xa438; 0x671f;
  0xa438; 0x77d8; 0xa438; 0xa000; 0xa438; 0x1213; 0xa438; 0xe789; 0xa438; 0x67d2; 0xa438; 0x031a;
  0xa438; 0x92e1; 0xa438; 0x8966; 0xa438; 0x1b13; 0xa438; 0x9fed; 0xa438; 0xaf8b; 0xa438; 0x87a0;
  0xa438; 0x040b; 0xa438; 0xbcbf; 0xa438; 0x7ab2; 0xa438; 0x027d; 0xa438; 0x5abd; 0xa438; 0xac28;
  0xa438; 0xe0d8; 0xa438; 0x1f11; 0xa438; 0x0267; 0xa438; 0xc3d7; 0xa438; 0x0001; 0xa438; 0xaed5;
  0xa438; 0xad50; 0xa438; 0x02ae; 0xa438; 0x12e0; 0xa438; 0x8987; 0xa438; 0xad20; 0xa438; 0x06ee;
  0xa438; 0x8987; 0xa438; 0x00ae; 0xa438; 0x06ee; 0xa438; 0x8989; 0xa438; 0x00ae; 0xa438; 0x06e0;
  0xa438; 0x895c; 0xa438; 0xe489; 0xa438; 0x89ff; 0xa438; 0xaf6b; 0xa438; 0x3cd4; 0xa438; 0x000f;
  0xa438; 0xbf79; 0xa438; 0x3202; 0xa438; 0x7b9f; 0xa438; 0xd400; 0xa438; 0x04bf; 0xa438; 0x5075;
  0xa438; 0xd700; 0xa438; 0x0802; 0xa438; 0x7da0; 0xa438; 0xbf8e; 0xa438; 0x6d02; 0xa438; 0x7b73;
  0xa438; 0xd402; 0xa438; 0x00bf; 0xa438; 0x8e70; 0xa438; 0x027b; 0xa438; 0x9fd4; 0xa438; 0x000f;
  0xa438; 0xbf8e; 0xa438; 0x7302; 0xa438; 0x7b9f; 0xa438; 0xbf8e; 0xa438; 0x7302; 0xa438; 0x7b73;
  0xa438; 0xd41b; 0xa438; 0x3ebf; 0xa438; 0x8e6d; 0xa438; 0x027b; 0xa438; 0x9fd4; 0xa438; 0x00dc;
  0xa438; 0xbf8e; 0xa438; 0x7002; 0xa438; 0x7b9f; 0xa438; 0xd400; 0xa438; 0x0fbf; 0xa438; 0x8e73;
  0xa438; 0x027b; 0xa438; 0x9fbf; 0xa438; 0x8e73; 0xa438; 0x027b; 0xa438; 0x73d4; 0xa438; 0x1bbe;
  0xa438; 0xbf8e; 0xa438; 0x6d02; 0xa438; 0x7b9f; 0xa438; 0xd400; 0xa438; 0xdcbf; 0xa438; 0x8e70;
  0xa438; 0x027b; 0xa438; 0x9fd4; 0xa438; 0x000f; 0xa438; 0xbf8e; 0xa438; 0x7302; 0xa438; 0x7b9f;
  0xa438; 0xbf8e; 0xa438; 0x7302; 0xa438; 0x7b73; 0xa438; 0xd700; 0xa438; 0x86b7; 0xa438; 0xfed4;
  0xa438; 0x003e; 0xa438; 0xbf8e; 0xa438; 0x6d02; 0xa438; 0x7b9f; 0xa438; 0xd400; 0xa438; 0xdcbf;
  0xa438; 0x8e70; 0xa438; 0x027b; 0xa438; 0x9fd4; 0xa438; 0x000f; 0xa438; 0xbf8e; 0xa438; 0x7302;
  0xa438; 0x7b9f; 0xa438; 0xbf8e; 0xa438; 0x7302; 0xa438; 0x7b73; 0xa438; 0xbf79; 0xa438; 0x3202;
  0xa438; 0x7b73; 0xa438; 0xaf51; 0xa438; 0x4ff8; 0xa438; 0xf9fa; 0xa438; 0xcefb; 0xa438; 0xef79;
  0xa438; 0xfbe0; 0xa438; 0x8967; 0xa438; 0xef10; 0xa438; 0x4803; 0xa438; 0xbf89; 0xa438; 0x721a;
  0xa438; 0x90ef; 0xa438; 0x79bf; 0xa438; 0x8982; 0xa438; 0x1a91; 0xa438; 0xec01; 0xa438; 0x0702;
  0xa438; 0x7eb6; 0xa438; 0xad29; 0xa438; 0x10e0; 0xa438; 0x898f; 0xa438; 0x3804; 0xa438; 0x9f06;
  0xa438; 0xef97; 0xa438; 0x1919; 0xa438; 0xec02; 0xa438; 0xaf8d; 0xa438; 0x48ef; 0xa438; 0x97ec;
  0xa438; 0x04e0; 0xa438; 0x898f; 0xa438; 0x380c; 0xa438; 0x9e3d; 0xa438; 0xe089; 0xa438; 0x8d38;
  0xa438; 0x03ac; 0xa438; 0x273d; 0xa438; 0xe089; 0xa438; 0x8d38; 0xa438; 0x039e; 0xa438; 0x3f07;
  0xa438; 0xec03; 0xa438; 0x07e0; 0xa438; 0x898d; 0xa438; 0x3804; 0xa438; 0x9e53; 0xa438; 0x19ec;
  0xa438; 0x02e0; 0xa438; 0x898d; 0xa438; 0x3807; 0xa438; 0xac27; 0xa438; 0x6089; 0xa438; 0xec03;
  0xa438; 0xe089; 0xa438; 0x8d38; 0xa438; 0x079e; 0xa438; 0x5807; 0xa438; 0xec04; 0xa438; 0x07e0;
  0xa438; 0x898d; 0xa438; 0x3808; 0xa438; 0x9e61; 0xa438; 0xaf8d; 0xa438; 0x4819; 0xa438; 0xec03;
  0xa438; 0x19ec; 0xa438; 0x02ae; 0xa438; 0x7819; 0xa438; 0xec03; 0xa438; 0x07ec; 0xa438; 0x0207;
  0xa438; 0xae6f; 0xa438; 0xe089; 0xa438; 0x5da0; 0xa438; 0x010e; 0xa438; 0xe089; 0xa438; 0x92a0;
  0xa438; 0x0308; 0xa438; 0x1f55; 0xa438; 0x07ec; 0xa438; 0x0307; 0xa438; 0xae55; 0xa438; 0x07ec;
  0xa438; 0x0207; 0xa438; 0xd103; 0xa438; 0x026b; 0xa438; 0x74ae; 0xa438; 0x50e0; 0xa438; 0x895d;
  0xa438; 0xa001; 0xa438; 0x0be0; 0xa438; 0x8992; 0xa438; 0xad21; 0xa438; 0x05d5; 0xa438; 0x010f;
  0xa438; 0xae39; 0xa438; 0xd102; 0xa438; 0x026b; 0xa438; 0x74ae; 0xa438; 0x38ae; 0xa438; 0x36e0;
  0xa438; 0x895d; 0xa438; 0xa001; 0xa438; 0x1fe0; 0xa438; 0x8992; 0xa438; 0xa003; 0xa438; 0x191f;
  0xa438; 0x5507; 0xa438; 0xec04; 0xa438; 0x07ae; 0xa438; 0x17e0; 0xa438; 0x895d; 0xa438; 0xa001;
  0xa438; 0x0be0; 0xa438; 0x8992; 0xa438; 0xad21; 0xa438; 0x05d5; 0xa438; 0x010f; 0xa438; 0xae06;
  0xa438; 0xef97; 0xa438; 0xec00; 0xa438; 0xae0b; 0xa438; 0x0266; 0xa438; 0xa7ae; 0xa438; 0x0602;
  0xa438; 0x66a7; 0xa438; 0x19ec; 0xa438; 0x02ff; 0xa438; 0xef97; 0xa438; 0xffc6; 0xa438; 0xfefd;
  0xa438; 0xfc04; 0xa438; 0xf8f9; 0xa438; 0xfaef; 0xa438; 0x69fb; 0xa438; 0xcfd3; 0xa438; 0x00e7;
  0xa438; 0x8967; 0xa438; 0xbf89; 0xa438; 0x6e1a; 0xa438; 0x93bc; 0xa438; 0xdaad; 0xa438; 0x302d;
  0xa438; 0xbf76; 0xa438; 0x111f; 0xa438; 0x4402; 0xa438; 0x7d66; 0xa438; 0x0266; 0xa438; 0xfcbf;
  0xa438; 0x8982; 0xa438; 0xe189; 0xa438; 0x67a1; 0xa438; 0x0001; 0xa438; 0x191f; 0xa438; 0x44d9;
  0xa438; 0x81bf; 0xa438; 0x7aa0; 0xa438; 0x027d; 0xa438; 0x66bf; 0xa438; 0x7611; 0xa438; 0xd400;
  0xa438; 0x0102; 0xa438; 0x7d66; 0xa438; 0xbdae; 0xa438; 0x02ae; 0xa438; 0xc9da; 0xa438; 0xad31;
  0xa438; 0x31bf; 0xa438; 0x761d; 0xa438; 0x1f44; 0xa438; 0x027d; 0xa438; 0x6602; 0xa438; 0x66fc;
  0xa438; 0xbf89; 0xa438; 0x8219; 0xa438; 0xe189; 0xa438; 0x67a1; 0xa438; 0x0202; 0xa438; 0xae06;
  0xa438; 0xa103; 0xa438; 0x02ae; 0xa438; 0x0119; 0xa438; 0x1f44; 0xa438; 0xd981; 0xa438; 0xbf7a;
  0xa438; 0xa302; 0xa438; 0x7d66; 0xa438; 0xbf76; 0xa438; 0x1dd4; 0xa438; 0x0001; 0xa438; 0x027d;
  0xa438; 0x66bd; 0xa438; 0xdaad; 0xa438; 0x322c; 0xa438; 0xbf76; 0xa438; 0x291f; 0xa438; 0x4402;
  0xa438; 0x7d66; 0xa438; 0x0266; 0xa438; 0xfcbf; 0xa438; 0x8982; 0xa438; 0x1919; 0xa438; 0xe189;
  0xa438; 0x67a1; 0xa438; 0x0302; 0xa438; 0xae01; 0xa438; 0x191f; 0xa438; 0x44d9; 0xa438; 0x81bf;
  0xa438; 0x7aa6; 0xa438; 0x027d; 0xa438; 0x66bf; 0xa438; 0x7629; 0xa438; 0xd400; 0xa438; 0x0102;
  0xa438; 0x7d66; 0xa438; 0x028e; 0xa438; 0x0f13; 0xa438; 0xe789; 0xa438; 0x67e0; 0xa438; 0x8966;
  0xa438; 0x1b03; 0xa438; 0x9f8b; 0xa438; 0xc7ff; 0xa438; 0xef96; 0xa438; 0xfefd; 0xa438; 0xfc04;
  0xa438; 0xf8f9; 0xa438; 0xfaef; 0xa438; 0x69fb; 0xa438; 0xcfe3; 0xa438; 0x8967; 0xa438; 0xbf89;
  0xa438; 0x7e1a; 0xa438; 0x93bc; 0xa438; 0xda6a; 0xa438; 0x009e; 0xa438; 0x2fbf; 0xa438; 0x7653;
  0xa438; 0xe389; 0xa438; 0x671f; 0xa438; 0x4402; 0xa438; 0x7d66; 0xa438; 0x0267; 0xa438; 0x1abd;
  0xa438; 0x1f00; 0xa438; 0xd959; 0xa438; 0x010c; 0xa438; 0x1269; 0xa438; 0x08a3; 0xa438; 0x0104;
  0xa438; 0x6902; 0xa438; 0xae02; 0xa438; 0x6901; 0xa438; 0xbf7a; 0xa438; 0xb202; 0xa438; 0x7d66;
  0xa438; 0xd101; 0xa438; 0xbf76; 0xa438; 0x5302; 0xa438; 0x7d66; 0xa438; 0xc7ff; 0xa438; 0xef96;
  0xa438; 0xfefd; 0xa438; 0xfc04; 0xa438; 0x32b1; 0xa438; 0x4a32; 0xa438; 0xb24a; 0xa438; 0x32b3;
  0xa438; 0x4a10; 0xa438; 0xb14a; 0xa438; 0x10b2; 0xa438; 0x4a10; 0xa438; 0xb34a; 0xa438; 0xf0bd;
  0xa438; 0x94f0; 0xa438; 0xbd92; 0xa438; 0x74bd; 0xa438; 0x9600; 0xa436; 0xb85e; 0xa438; 0x58ca;
  0xa436; 0xb860; 0xa438; 0x5b3d; 0xa436; 0xb862; 0xa438; 0x694c; 0xa436; 0xb864; 0xa438; 0x65ac;
  0xa436; 0xb886; 0xa438; 0x64cc; 0xa436; 0xb888; 0xa438; 0x683e; 0xa436; 0xb88a; 0xa438; 0x6ae6;
  0xa436; 0xb88c; 0xa438; 0x5119; 0xa436; 0xb838; 0xa438; 0x00ff; 0xb820; 0x0010; 0xa464; 0x0001;
  0xa436; 0x8474; 0xa438; 0x0000; 0xa436; 0x8608; 0xa438; 0xaf86; 0xa438; 0x20af; 0xa438; 0x865e;
  0xa438; 0xaf86; 0xa438; 0xacaf; 0xa438; 0x86b7; 0xa438; 0xaf88; 0xa438; 0xbdaf; 0xa438; 0x88d4;
  0xa438; 0xaf88; 0xa438; 0xe3af; 0xa438; 0x893f; 0xa438; 0xbf8a; 0xa438; 0x1102; 0xa438; 0x7589;
  0xa438; 0xbf8a; 0xa438; 0x1702; 0xa438; 0x756a; 0xa438; 0xbf8a; 0xa438; 0x1d02; 0xa438; 0x756a;
  0xa438; 0xbf8a; 0xa438; 0x1402; 0xa438; 0x7589; 0xa438; 0xbf8a; 0xa438; 0x1a02; 0xa438; 0x756a;
  0xa438; 0xbf8a; 0xa438; 0x2002; 0xa438; 0x756a; 0xa438; 0xa200; 0xa438; 0x08bf; 0xa438; 0x6e23;
  0xa438; 0x0275; 0xa438; 0x3eae; 0xa438; 0x0ca2; 0xa438; 0x0609; 0xa438; 0xe08f; 0xa438; 0x7dad;
  0xa438; 0x2003; 0xa438; 0xaf0f; 0xa438; 0xc9af; 0xa438; 0x0fd5; 0xa438; 0xe084; 0xa438; 0x68a0;
  0xa438; 0x0005; 0xa438; 0x0264; 0xa438; 0xe6ae; 0xa438; 0x0ba0; 0xa438; 0x0105; 0xa438; 0x0265;
  0xa438; 0xb4ae; 0xa438; 0x0302; 0xa438; 0x8677; 0xa438; 0xaf64; 0xa438; 0xe1f8; 0xa438; 0xf9e0;
  0xa438; 0x8469; 0xa438; 0xe184; 0xa438; 0x6a14; 0xa438; 0xe484; 0xa438; 0x69e5; 0xa438; 0x846a;
  0xa438; 0xe283; 0xa438; 0xade3; 0xa438; 0x83ae; 0xa438; 0x1b45; 0xa438; 0x9f11; 0xa438; 0xee84;
  0xa438; 0x6900; 0xa438; 0xee84; 0xa438; 0x6a00; 0xa438; 0xee84; 0xa438; 0x6800; 0xa438; 0x0264;
  0xa438; 0xe6ae; 0xa438; 0x08e0; 0xa438; 0x8043; 0xa438; 0xf626; 0xa438; 0xe480; 0xa438; 0x43fd;
  0xa438; 0xfc04; 0xa438; 0xe080; 0xa438; 0x43f6; 0xa438; 0x26e4; 0xa438; 0x8043; 0xa438; 0xaf65;
  0xa438; 0xa8ee; 0xa438; 0x8468; 0xa438; 0x0202; 0xa438; 0x86c9; 0xa438; 0xe080; 0xa438; 0x43f6;
  0xa438; 0x26e4; 0xa438; 0x8043; 0xa438; 0xaf66; 0xa438; 0x0bf8; 0xa438; 0xf9ef; 0xa438; 0x59f9;
  0xa438; 0xfafb; 0xa438; 0xe18f; 0xa438; 0x7ea1; 0xa438; 0x0003; 0xa438; 0xaf88; 0xa438; 0x64bf;
  0xa438; 0x6c43; 0xa438; 0x0275; 0xa438; 0x89d0; 0xa438; 0x003c; 0xa438; 0x008a; 0xa438; 0xad27;
  0xa438; 0x03af; 0xa438; 0x86fe; 0xa438; 0xee8f; 0xa438; 0x7e00; 0xa438; 0xee84; 0xa438; 0x6d0f;
  0xa438; 0xd401; 0xa438; 0x28d6; 0xa438; 0x0010; 0xa438; 0x0288; 0xa438; 0x6caf; 0xa438; 0x8864;
  0xa438; 0xee84; 0xa438; 0x6d00; 0xa438; 0xd600; 0xa438; 0x8f02; 0xa438; 0x889b; 0xa438; 0xee84;
  0xa438; 0x6d01; 0xa438; 0xd600; 0xa438; 0xc002; 0xa438; 0x886c; 0xa438; 0xee84; 0xa438; 0x6d01;
  0xa438; 0xd600; 0xa438; 0x8f02; 0xa438; 0x889b; 0xa438; 0xee84; 0xa438; 0x6d02; 0xa438; 0xd600;
  0xa438; 0xc002; 0xa438; 0x886c; 0xa438; 0xee84; 0xa438; 0x6d02; 0xa438; 0xd600; 0xa438; 0x8f02;
  0xa438; 0x889b; 0xa438; 0xee84; 0xa438; 0x6d04; 0xa438; 0xd600; 0xa438; 0xc002; 0xa438; 0x886c;
  0xa438; 0xee84; 0xa438; 0x6d03; 0xa438; 0xd600; 0xa438; 0x8f02; 0xa438; 0x889b; 0xa438; 0xee84;
  0xa438; 0x6d08; 0xa438; 0xd600; 0xa438; 0xc002; 0xa438; 0x886c; 0xa438; 0xee84; 0xa438; 0x6d00;
  0xa438; 0xd600; 0xa438; 0x9002; 0xa438; 0x889b; 0xa438; 0xee84; 0xa438; 0x6d01; 0xa438; 0xd600;
  0xa438; 0xc102; 0xa438; 0x886c; 0xa438; 0xee84; 0xa438; 0x6d01; 0xa438; 0xd600; 0xa438; 0x9002;
  0xa438; 0x889b; 0xa438; 0xee84; 0xa438; 0x6d02; 0xa438; 0xd600; 0xa438; 0xc102; 0xa438; 0x886c;
  0xa438; 0xee84; 0xa438; 0x6d02; 0xa438; 0xd600; 0xa438; 0x9002; 0xa438; 0x889b; 0xa438; 0xee84;
  0xa438; 0x6d04; 0xa438; 0xd600; 0xa438; 0xc102; 0xa438; 0x886c; 0xa438; 0xee84; 0xa438; 0x6d03;
  0xa438; 0xd600; 0xa438; 0x9002; 0xa438; 0x889b; 0xa438; 0xee84; 0xa438; 0x6d08; 0xa438; 0xd600;
  0xa438; 0xc102; 0xa438; 0x886c; 0xa438; 0xee84; 0xa438; 0x6d00; 0xa438; 0xd600; 0xa438; 0x9102;
  0xa438; 0x889b; 0xa438; 0xee84; 0xa438; 0x6d01; 0xa438; 0xd600; 0xa438; 0xc202; 0xa438; 0x886c;
  0xa438; 0xee84; 0xa438; 0x6d01; 0xa438; 0xd600; 0xa438; 0x9102; 0xa438; 0x889b; 0xa438; 0xee84;
  0xa438; 0x6d02; 0xa438; 0xd600; 0xa438; 0xc202; 0xa438; 0x886c; 0xa438; 0xee84; 0xa438; 0x6d02;
  0xa438; 0xd600; 0xa438; 0x9102; 0xa438; 0x889b; 0xa438; 0xee84; 0xa438; 0x6d04; 0xa438; 0xd600;
  0xa438; 0xc202; 0xa438; 0x886c; 0xa438; 0xee84; 0xa438; 0x6d03; 0xa438; 0xd600; 0xa438; 0x9102;
  0xa438; 0x889b; 0xa438; 0xee84; 0xa438; 0x6d08; 0xa438; 0xd600; 0xa438; 0xc202; 0xa438; 0x886c;
  0xa438; 0xee84; 0xa438; 0x6d0f; 0xa438; 0xd414; 0xa438; 0x00d6; 0xa438; 0x000d; 0xa438; 0x0288;
  0xa438; 0x6cbf; 0xa438; 0x8a2c; 0xa438; 0x0275; 0xa438; 0x3ebf; 0xa438; 0x8a2f; 0xa438; 0x0275;
  0xa438; 0x3ebf; 0xa438; 0x8a32; 0xa438; 0x0275; 0xa438; 0x3ebf; 0xa438; 0x8a35; 0xa438; 0x0275;
  0xa438; 0x3ebf; 0xa438; 0x8a38; 0xa438; 0x0275; 0xa438; 0x3ed4; 0xa438; 0x000f; 0xa438; 0xbf71;
  0xa438; 0x5c02; 0xa438; 0x756a; 0xa438; 0xbf71; 0xa438; 0x5f02; 0xa438; 0x7589; 0xa438; 0xef31;
  0xa438; 0xe783; 0xa438; 0x9fa3; 0xa438; 0x0ff2; 0xa438; 0xd400; 0xa438; 0x00bf; 0xa438; 0x715c;
  0xa438; 0x0275; 0xa438; 0x6abf; 0xa438; 0x8a2c; 0xa438; 0x0275; 0xa438; 0x47bf; 0xa438; 0x8a2f;
  0xa438; 0x0275; 0xa438; 0x47bf; 0xa438; 0x8a32; 0xa438; 0x0275; 0xa438; 0x47bf; 0xa438; 0x8a35;
  0xa438; 0x0275; 0xa438; 0x47bf; 0xa438; 0x8a38; 0xa438; 0x0275; 0xa438; 0x47ee; 0xa438; 0x846d;
  0xa438; 0x0fd4; 0xa438; 0x1000; 0xa438; 0xd600; 0xa438; 0x0d02; 0xa438; 0x886c; 0xa438; 0xfffe;
  0xa438; 0xfdef; 0xa438; 0x95fd; 0xa438; 0xfc04; 0xa438; 0xf8f9; 0xa438; 0xef59; 0xa438; 0xf9fa;
  0xa438; 0xef44; 0xa438; 0xbf73; 0xa438; 0xbf02; 0xa438; 0x756a; 0xa438; 0xef46; 0xa438; 0xbf73;
  0xa438; 0xc202; 0xa438; 0x756a; 0xa438; 0xe184; 0xa438; 0x6dbf; 0xa438; 0x8a29; 0xa438; 0x0275;
  0xa438; 0x6ad4; 0xa438; 0x0000; 0xa438; 0xbf8a; 0xa438; 0x2902; 0xa438; 0x756a; 0xa438; 0xfefd;
  0xa438; 0xef95; 0xa438; 0xfdfc; 0xa438; 0x04f9; 0xa438; 0xef59; 0xa438; 0xf9fa; 0xa438; 0xef46;
  0xa438; 0xbf73; 0xa438; 0xc202; 0xa438; 0x756a; 0xa438; 0xe184; 0xa438; 0x6dbf; 0xa438; 0x8a23;
  0xa438; 0x0275; 0xa438; 0x6abf; 0xa438; 0x8a26; 0xa438; 0x0275; 0xa438; 0x89fe; 0xa438; 0xfdef;
  0xa438; 0x95fd; 0xa438; 0x04e4; 0xa438; 0x8044; 0xa438; 0xee84; 0xa438; 0x6d0f; 0xa438; 0xd401;
  0xa438; 0x20d6; 0xa438; 0x0010; 0xa438; 0x0288; 0xa438; 0x6cee; 0xa438; 0x8f7e; 0xa438; 0x01af;
  0xa438; 0x6879; 0xa438; 0xee84; 0xa438; 0x6900; 0xa438; 0xee84; 0xa438; 0x6a00; 0xa438; 0xee8f;
  0xa438; 0x7e00; 0xa438; 0xaf64; 0xa438; 0x8702; 0xa438; 0x6a2a; 0xa438; 0xe384; 0xa438; 0xf302;
  0xa438; 0x6a4c; 0xa438; 0xac28; 0xa438; 0x08e0; 0xa438; 0x84f6; 0xa438; 0xf722; 0xa438; 0xe484;
  0xa438; 0xf602; 0xa438; 0x6af9; 0xa438; 0xbf73; 0xa438; 0x4d02; 0xa438; 0x753e; 0xa438; 0xbf73;
  0xa438; 0x5002; 0xa438; 0x753e; 0xa438; 0xbf73; 0xa438; 0x5302; 0xa438; 0x753e; 0xa438; 0xbf73;
  0xa438; 0x5602; 0xa438; 0x753e; 0xa438; 0xd500; 0xa438; 0x0002; 0xa438; 0x6b1d; 0xa438; 0xbf73;
  0xa438; 0x4402; 0xa438; 0x7547; 0xa438; 0xbf73; 0xa438; 0x4702; 0xa438; 0x7547; 0xa438; 0xbf73;
  0xa438; 0x7702; 0xa438; 0x753e; 0xa438; 0xbf73; 0xa438; 0x4a02; 0xa438; 0x7547; 0xa438; 0xbf73;
  0xa438; 0x5302; 0xa438; 0x753e; 0xa438; 0xbf73; 0xa438; 0x5602; 0xa438; 0x7547; 0xa438; 0xaf69;
  0xa438; 0x4d02; 0xa438; 0x8948; 0xa438; 0x021e; 0xa438; 0x40af; 0xa438; 0x1e3f; 0xa438; 0xf8fa;
  0xa438; 0xef69; 0xa438; 0xe080; 0xa438; 0x4fac; 0xa438; 0x2417; 0xa438; 0xe080; 0xa438; 0x44ad;
  0xa438; 0x2417; 0xa438; 0x0289; 0xa438; 0x74e0; 0xa438; 0x8044; 0xa438; 0xac24; 0xa438; 0x0ebf;
  0xa438; 0x8a3b; 0xa438; 0x0275; 0xa438; 0x47ae; 0xa438; 0x0602; 0xa438; 0x8a06; 0xa438; 0x0289;
  0xa438; 0xfbef; 0xa438; 0x96fe; 0xa438; 0xfc04; 0xa438; 0xf8f9; 0xa438; 0xfaef; 0xa438; 0x69fa;
  0xa438; 0xfbd2; 0xa438; 0x00a2; 0xa438; 0x0403; 0xa438; 0xaf89; 0xa438; 0xeabf; 0xa438; 0x6af1;
  0xa438; 0x0277; 0xa438; 0x24ef; 0xa438; 0x010d; 0xa438; 0x11d0; 0xa438; 0x00ef; 0xa438; 0x640c;
  0xa438; 0x66ef; 0xa438; 0x12bf; 0xa438; 0x8a23; 0xa438; 0x0275; 0xa438; 0x6ad3; 0xa438; 0x01a3;
  0xa438; 0x4302; 0xa438; 0xae44; 0xa438; 0x1f00; 0xa438; 0xef13; 0xa438; 0xbf73; 0xa438; 0xc202;
  0xa438; 0x756a; 0xa438; 0xbf8a; 0xa438; 0x3e02; 0xa438; 0x7589; 0xa438; 0xd100; 0xa438; 0x0d01;
  0xa438; 0x0c01; 0xa438; 0x1a46; 0xa438; 0xbf73; 0xa438; 0xbf02; 0xa438; 0x756a; 0xa438; 0x1f00;
  0xa438; 0xef13; 0xa438; 0xbf73; 0xa438; 0xc202; 0xa438; 0x756a; 0xa438; 0xd101; 0xa438; 0xef02;
  0xa438; 0x10b0; 0xa438; 0x02ae; 0xa438; 0x0449; 0xa438; 0x02ae; 0xa438; 0xf8bf; 0xa438; 0x73c5;
  0xa438; 0x0275; 0xa438; 0x6abf; 0xa438; 0x73c5; 0xa438; 0x0275; 0xa438; 0x3e13; 0xa438; 0xaeb7;
  0xa438; 0x12af; 0xa438; 0x897d; 0xa438; 0xd500; 0xa438; 0x0102; 0xa438; 0x6b1d; 0xa438; 0x0289;
  0xa438; 0xfbff; 0xa438; 0xfeef; 0xa438; 0x96fe; 0xa438; 0xfdfc; 0xa438; 0x04f8; 0xa438; 0xe080;
  0xa438; 0x44f6; 0xa438; 0x24e4; 0xa438; 0x8044; 0xa438; 0xfc04; 0xa438; 0xf8e0; 0xa438; 0x804f;
  0xa438; 0xf624; 0xa438; 0xe480; 0xa438; 0x4ffc; 0xa438; 0x0455; 0xa438; 0xa6fe; 0xa438; 0x44a6;
  0xa438; 0xfe66; 0xa438; 0xa4b6; 0xa438; 0x55a4; 0xa438; 0xb666; 0xa438; 0xac0e; 0xa438; 0x55ac;
  0xa438; 0x0efe; 0xa438; 0xbda4; 0xa438; 0xf0bd; 0xa438; 0x9830; 0xa438; 0xbd96; 0xa438; 0xffbd;
  0xa438; 0xdeee; 0xa438; 0xbdde; 0xa438; 0xddbd; 0xa438; 0xdebb; 0xa438; 0xbdde; 0xa438; 0xaabd;
  0xa438; 0xde44; 0xa438; 0xac00; 0xa438; 0xf0bd; 0xa438; 0x9a00; 0xa436; 0xb818; 0xa438; 0x0fb9;
  0xa436; 0xb81a; 0xa438; 0x64c3; 0xa436; 0xb81c; 0xa438; 0x64f1; 0xa436; 0xb81e; 0xa438; 0x6607;
  0xa436; 0xb850; 0xa438; 0x6876; 0xa436; 0xb852; 0xa438; 0x647f; 0xa436; 0xb878; 0xa438; 0x68e8;
  0xa436; 0xb884; 0xa438; 0x1e3c; 0xa436; 0xb832; 0xa438; 0x00df; 0xB82E; 0x0000; 0xa436; 0x8023;
  0xa438; 0x0000; 0xB820; 0x0000; 0xFFFF; 0xFFFF].

Definition phy_mcu_ram_code_8127a_tc_1 : list Z :=
  phy_mcu_ram_code_8127a_tc_1_p1 ++ phy_mcu_ram_code_8127a_tc_1_p2 ++ phy_mcu_ram_code_8127a_tc_1_p3 ++ phy_mcu_ram_code_8127a_tc_1_p4 ++ phy_mcu_ram_code_8127a_tc_1_p5.

Definition phy_mcu_ram_code_8127a_1_p1 : list Z := [
  0xa436; 0x8023; 0xa438; 0x6100; 0xa436; 0xB82E; 0xa438; 0x0001; 0xb820; 0x0090; 0xa436; 0xA016;
  0xa438; 0x0000; 0xa436; 0xA012; 0xa438; 0x0000; 0xa436; 0xA014; 0xa438; 0x1800; 0xa438; 0x8010;
  0xa438; 0x1800; 0xa438; 0x801a; 0xa438; 0x1800; 0xa438; 0x801a; 0xa438; 0x1800; 0xa438; 0x801a;
  0xa438; 0x1800; 0xa438; 0x801a; 0xa438; 0x1800; 0xa438; 0x801a; 0xa438; 0x1800; 0xa438; 0x801a;
  0xa438; 0x1800; 0xa438; 0x801a; 0xa438; 0xce00; 0xa438; 0x2941; 0xa438; 0x8017; 0xa438; 0x2c59;
  0xa438; 0x8017; 0xa438; 0x1800; 0xa438; 0x0e11; 0xa438; 0x8aff; 0xa438; 0x1800; 0xa438; 0x0e11;
  0xa436; 0xA026; 0xa438; 0xffff; 0xa436; 0xA024; 0xa438; 0xffff; 0xa436; 0xA022; 0xa438; 0xffff;
  0xa436; 0xA020; 0xa438; 0xffff; 0xa436; 0xA006; 0xa438; 0xffff; 0xa436; 0xA004; 0xa438; 0xffff;
  0xa436; 0xA002; 0xa438; 0xffff; 0xa436; 0xA000; 0xa438; 0x0e10; 0xa436; 0xA008; 0xa438; 0x0100;
  0xa436; 0xA016; 0xa438; 0x0000; 0xa436; 0xA012; 0xa438; 0x0ff8; 0xa436; 0xA014; 0xa438; 0x219a;
  0xa438; 0x0000; 0xa438; 0x0000; 0xa438; 0x0000; 0xa438; 0x0000; 0xa438; 0x0000; 0xa438; 0x0000;
  0xa438; 0x0000; 0xa436; 0xA152; 0xa438; 0x21a4; 0xa436; 0xA154; 0xa438; 0x3fff; 0xa436; 0xA156;
  0xa438; 0x3fff; 0xa436; 0xA158; 0xa438; 0x3fff; 0xa436; 0xA15A; 0xa438; 0x3fff; 0xa436; 0xA15C;
  0xa438; 0x3fff; 0xa436; 0xA15E; 0xa438; 0x3fff; 0xa436; 0xA160; 0xa438; 0x3fff; 0xa436; 0xA150;
  0xa438; 0x0001; 0xa436; 0xA016; 0xa438; 0x0010; 0xa436; 0xA012; 0xa438; 0x0000; 0xa436; 0xA014;
  0xa438; 0x1800; 0xa438; 0x8010; 0xa438; 0x1800; 0xa438; 0x8014; 0xa438; 0x1800; 0xa438; 0x801a;
  0xa438; 0x1800; 0xa438; 0x801e; 0xa438; 0x1800; 0xa438; 0x8026; 0xa438; 0x1800; 0xa438; 0x802e;
  0xa438; 0x1800; 0xa438; 0x8036; 0xa438; 0x1800; 0xa438; 0x803a; 0xa438; 0xce01; 0xa438; 0x8208;
  0xa438; 0x1800; 0xa438; 0x0028; 0xa438; 0x1000; 0xa438; 0x02c5; 0xa438; 0x1000; 0xa438; 0x0304;
  0xa438; 0x1800; 0xa438; 0x0119; 0xa438; 0xce01; 0xa438; 0x8208; 0xa438; 0x1800; 0xa438; 0x009e;
  0xa438; 0xd501; 0xa438; 0xce01; 0xa438; 0xa50f; 0xa438; 0x8208; 0xa438; 0xd500; 0xa438; 0xaa0f;
  0xa438; 0x1800; 0xa438; 0x015b; 0xa438; 0xd501; 0xa438; 0xce01; 0xa438; 0xa50f; 0xa438; 0x8208;
  0xa438; 0xd500; 0xa438; 0xaa0f; 0xa438; 0x1800; 0xa438; 0x01a9; 0xa438; 0xd501; 0xa438; 0xce01;
  0xa438; 0xa50f; 0xa438; 0x8208; 0xa438; 0xd500; 0xa438; 0xaa0f; 0xa438; 0x1800; 0xa438; 0x01f4;
  0xa438; 0x8208; 0xa438; 0xd500; 0xa438; 0x1800; 0xa438; 0x02a5; 0xa438; 0xa208; 0xa438; 0xd500;
  0xa438; 0x1800; 0xa438; 0x02b8; 0xa436; 0xA08E; 0xa438; 0x02b7; 0xa436; 0xA08C; 0xa438; 0x02a4;
  0xa436; 0xA08A; 0xa438; 0x01e7; 0xa436; 0xA088; 0xa438; 0x019c; 0xa436; 0xA086; 0xa438; 0x014e;
  0xa436; 0xA084; 0xa438; 0x009d; 0xa436; 0xA082; 0xa438; 0x0117; 0xa436; 0xA080; 0xa438; 0x0027;
  0xa436; 0xA090; 0xa438; 0x00ff; 0xa436; 0xA016; 0xa438; 0x0020; 0xa436; 0xA012; 0xa438; 0x0000;
  0xa436; 0xA014; 0xa438; 0x1800; 0xa438; 0x8010; 0xa438; 0x1800; 0xa438; 0x8663; 0xa438; 0x1800;
  0xa438; 0x8681; 0xa438; 0x1800; 0xa438; 0x86cd; 0xa438; 0x1800; 0xa438; 0x86d4; 0xa438; 0x1800;
  0xa438; 0x86e3; 0xa438; 0x1800; 0xa438; 0x8944; 0xa438; 0x1800; 0xa438; 0x8951; 0xa438; 0xd1bc;
  0xa438; 0xd040; 0xa438; 0x1000; 0xa438; 0x1cd2; 0xa438; 0xd700; 0xa438; 0x5fba; 0xa438; 0xd700;
  0xa438; 0x273d; 0xa438; 0x8056; 0xa438; 0xd700; 0xa438; 0x37c9; 0xa438; 0x802e; 0xa438; 0x33a9;
  0xa438; 0x8026; 0xa438; 0xd702; 0xa438; 0x6099; 0xa438; 0xd1b7; 0xa438; 0xd05c; 0xa438; 0xf013;
  0xa438; 0xd1b7; 0xa438; 0xd05c; 0xa438; 0xf010; 0xa438; 0xd702; 0xa438; 0x6099; 0xa438; 0xd1b7;
  0xa438; 0xd05c; 0xa438; 0xf00b; 0xa438; 0xd1b7; 0xa438; 0xd05c; 0xa438; 0xf008; 0xa438; 0xd702;
  0xa438; 0x6099; 0xa438; 0xd199; 0xa438; 0xd05d; 0xa438; 0xf003; 0xa438; 0xd199; 0xa438; 0xd05d;
  0xa438; 0xd700; 0xa438; 0x37c9; 0xa438; 0x804a; 0xa438; 0x33a9; 0xa438; 0x8042; 0xa438; 0xd702;
  0xa438; 0x6099; 0xa438; 0xd1bf; 0xa438; 0xd06d; 0xa438; 0xf013; 0xa438; 0xd1e5; 0xa438; 0xd06d;
  0xa438; 0xf010; 0xa438; 0xd702; 0xa438; 0x6099; 0xa438; 0xd1ec; 0xa438; 0xd06d; 0xa438; 0xf00b;
  0xa438; 0xd1bf; 0xa438; 0xd06d; 0xa438; 0xf008; 0xa438; 0xd702; 0xa438; 0x6099; 0xa438; 0xd199;
  0xa438; 0xd06e; 0xa438; 0xf003; 0xa438; 0xd199; 0xa438; 0xd06e; 0xa438; 0xd703; 0xa438; 0x6090;
  0xa438; 0xd41a; 0xa438; 0x1000; 0xa438; 0x1cc8; 0xa438; 0xd408; 0xa438; 0x1000; 0xa438; 0x1cc8;
  0xa438; 0xcd31; 0xa438; 0xd700; 0xa438; 0x2fa9; 0xa438; 0x8061; 0xa438; 0x33c9; 0xa438; 0x8064;
  0xa438; 0x6117; 0xa438; 0xf00a; 0xa438; 0xd141; 0xa438; 0xd043; 0xa438; 0xf009; 0xa438; 0xd121;
  0xa438; 0xd043; 0xa438; 0xf006; 0xa438; 0xd122; 0xa438; 0xd042; 0xa438; 0xf003; 0xa438; 0xd181;
  0xa438; 0xd043; 0xa438; 0x1000; 0xa438; 0x1cd2; 0xa438; 0xd700; 0xa438; 0x5fba; 0xa438; 0xd700;
  0xa438; 0x2969; 0xa438; 0x80da; 0xa438; 0xd700; 0xa438; 0x6ccb; 0xa438; 0xd700; 0xa438; 0x6d67;
  0xa438; 0x800a; 0xa438; 0x81a0; 0xa438; 0x8312; 0xa438; 0x8480; 0xa438; 0x0c86; 0xa438; 0x0680;
  0xa438; 0x0c03; 0xa438; 0x1502; 0xa438; 0x8702; 0xa438; 0x9503; 0xa438; 0xd407; 0xa438; 0x1000;
  0xa438; 0x1cc8; 0xa438; 0xd703; 0xa438; 0x6090; 0xa438; 0xd41a; 0xa438; 0x1000; 0xa438; 0x1cc8;
  0xa438; 0x0c03; 0xa438; 0x1502; 0xa438; 0x8380; 0xa438; 0x9503; 0xa438; 0xd406; 0xa438; 0x1000;
  0xa438; 0x1cc8; 0xa438; 0xcd39; 0xa438; 0xd404; 0xa438; 0x1000; 0xa438; 0x1cc8; 0xa438; 0xd700;
  0xa438; 0x60cf; 0xa438; 0x60f1; 0xa438; 0x6113; 0xa438; 0x6135; 0xa438; 0x6157; 0xa438; 0xf00b;
  0xa438; 0xce03; 0xa438; 0xf00a; 0xa438; 0xce03; 0xa438; 0xf008; 0xa438; 0xce03; 0xa438; 0xf006;
  0xa438; 0xce03; 0xa438; 0xf004; 0xa438; 0xce03; 0xa438; 0xf002; 0xa438; 0xce03; 0xa438; 0x1000;
  0xa438; 0x1ce7; 0xa438; 0x0c03; 0xa438; 0x1502; 0xa438; 0x0c07; 0xa438; 0x0c01; 0xa438; 0x8d07;
  0xa438; 0x0cc3; 0xa438; 0x0b40; 0xa438; 0x8d07; 0xa438; 0x9503; 0xa438; 0xa810; 0xa438; 0xa00a;
  0xa438; 0xa302; 0xa438; 0x0ca0; 0xa438; 0x0480; 0xa438; 0xa684; 0xa438; 0x1000; 0xa438; 0x1cd2;
  0xa438; 0xd706; 0xa438; 0x5fa7; 0xa438; 0xb920; 0xa438; 0x1000; 0xa438; 0x1cd2; 0xa438; 0xd71f;
  0xa438; 0x7fb4; 0xa438; 0x8810; 0xa438; 0x9920; 0xa438; 0x1000; 0xa438; 0x1cd2; 0xa438; 0xd71f;
  0xa438; 0x60e5; 0xa438; 0x5f94; 0xa438; 0x1000; 0xa438; 0x1cd2; 0xa438; 0xd706; 0xa438; 0x5fa7;
  0xa438; 0xfff0; 0xa438; 0xb820; 0xa438; 0xa810; 0xa438; 0x1000; 0xa438; 0x1cd2; 0xa438; 0xd71f;
  0xa438; 0x7fa5; 0xa438; 0x9820; 0xa438; 0x1000; 0xa438; 0x1cd2; 0xa438; 0x1000; 0xa438; 0x1d2b;
  0xa438; 0xd706; 0xa438; 0x5f69; 0xa438; 0xf010; 0xa438; 0x0c03; 0xa438; 0x1502; 0xa438; 0xae80;
  0xa438; 0x9503; 0xa438; 0xd700; 0xa438; 0x2b6d; 0xa438; 0x8184; 0xa438; 0x0c03; 0xa438; 0x1502;
  0xa438; 0x8380; 0xa438; 0x9503; 0xa438; 0xd406; 0xa438; 0x1000; 0xa438; 0x1cc8; 0xa438; 0xcd32;
  0xa438; 0xd701; 0xa438; 0x6191; 0xa438; 0xa504; 0xa438; 0xcd3a; 0xa438; 0x1000; 0xa438; 0x1cd2;
  0xa438; 0xd700; 0xa438; 0x6067; 0xa438; 0x1000; 0xa438; 0x1d2b; 0xa438; 0xd701; 0xa438; 0x5f3a;
  0xa438; 0x8504; 0xa438; 0xd700; 0xa438; 0x2739; 0xa438; 0x817a; 0xa438; 0xd707; 0xa438; 0x6061;
  0xa438; 0x1800; 0xa438; 0x816c; 0xa438; 0xd193; 0xa438; 0xd047; 0xa438; 0x1000; 0xa438; 0x1cd2;
  0xa438; 0x1000; 0xa438; 0x1d2b; 0xa438; 0xd700; 0xa438; 0x5f7a; 0xa438; 0xd706; 0xa438; 0x5f29;
  0xa438; 0xd700; 0xa438; 0x60cf; 0xa438; 0x60f1; 0xa438; 0x6113; 0xa438; 0x6135; 0xa438; 0x6157;
  0xa438; 0xf00b; 0xa438; 0xce06; 0xa438; 0xf00a; 0xa438; 0xce06; 0xa438; 0xf008; 0xa438; 0xce06;
  0xa438; 0xf006; 0xa438; 0xce06; 0xa438; 0xf004; 0xa438; 0xce06; 0xa438; 0xf002; 0xa438; 0xce06;
  0xa438; 0x1000; 0xa438; 0x1ce7; 0xa438; 0x0c03; 0xa438; 0x1502; 0xa438; 0x0c0f; 0xa438; 0x0b01;
  0xa438; 0x0c3f; 0xa438; 0x0c08; 0xa438; 0x8bc0; 0xa438; 0x9503; 0xa438; 0xd707; 0xa438; 0x409f;
  0xa438; 0x4062; 0xa438; 0x8310; 0xa438; 0xf002; 0xa438; 0xa310; 0xa438; 0xa120; 0xa438; 0xa420;
  0xa438; 0xd193; 0xa438; 0xd048; 0xa438; 0x1000; 0xa438; 0x1cd2; 0xa438; 0x1000; 0xa438; 0x1d2b;
  0xa438; 0xd700; 0xa438; 0x5f7a; 0xa438; 0xd706; 0xa438; 0x5f29; 0xa438; 0xd700; 0xa438; 0x60cf;
  0xa438; 0x60f1; 0xa438; 0x6113; 0xa438; 0x6135; 0xa438; 0x6157; 0xa438; 0xf00b; 0xa438; 0xce03;
  0xa438; 0xf00a; 0xa438; 0xce03; 0xa438; 0xf008; 0xa438; 0xce03; 0xa438; 0xf006; 0xa438; 0xce03;
  0xa438; 0xf004; 0xa438; 0xce03; 0xa438; 0xf002; 0xa438; 0xce03; 0xa438; 0x1000; 0xa438; 0x1ce7;
  0xa438; 0x0c03; 0xa438; 0x1502; 0xa438; 0x0c07; 0xa438; 0x0c01; 0xa438; 0x9503; 0xa438; 0x8420;
  0xa438; 0x800a; 0xa438; 0x8120; 0xa438; 0x8312; 0xa438; 0x8480; 0xa438; 0x8604; 0xa438; 0xd419;
  0xa438; 0x1000; 0xa438; 0x1cc8; 0xa438; 0xd702; 0xa438; 0x4080; 0xa438; 0xbb20; 0xa438; 0x1800;
  0xa438; 0x8507; 0xa438; 0xa00a; 0xa438; 0xa302; 0xa438; 0xa480; 0xa438; 0xa604; 0xa438; 0xd193;
  0xa438; 0xd047; 0xa438; 0x1000; 0xa438; 0x1cd2; 0xa438; 0x1000; 0xa438; 0x1d2b; 0xa438; 0xd700;
  0xa438; 0x5f7a; 0xa438; 0xd706; 0xa438; 0x5f29; 0xa438; 0x1800; 0xa438; 0x814f; 0xa438; 0x800a;
  0xa438; 0x8302; 0xa438; 0x8480; 0xa438; 0x8604; 0xa438; 0xd405; 0xa438; 0x1000; 0xa438; 0x1cc8;
  0xa438; 0xbb20; 0xa438; 0xa00a; 0xa438; 0xa302; 0xa438; 0xa480; 0xa438; 0xa604; 0xa438; 0x1800;
  0xa438; 0x8507; 0xa438; 0xd405; 0xa438; 0x1000; 0xa438; 0x1cc8; 0xa438; 0xd404; 0xa438; 0x1000;
  0xa438; 0x1cc8; 0xa438; 0xd700; 0xa438; 0x2b69; 0xa438; 0x8184; 0xa438; 0xf06d; 0xa438; 0xd700;
  0xa438; 0x60cf; 0xa438; 0x60f1; 0xa438; 0x6113; 0xa438; 0x6135; 0xa438; 0x6157; 0xa438; 0xf00b;
  0xa438; 0xce03; 0xa438; 0xf00a; 0xa438; 0xce03; 0xa438; 0xf008; 0xa438; 0xce03; 0xa438; 0xf006;
  0xa438; 0xce03; 0xa438; 0xf004; 0xa438; 0xce03; 0xa438; 0xf002; 0xa438; 0xce03; 0xa438; 0x1000;
  0xa438; 0x1ce7; 0xa438; 0x0c03; 0xa438; 0x1502; 0xa438; 0x0c07; 0xa438; 0x0c01; 0xa438; 0x0c3f;
  0xa438; 0x0d08; 0xa438; 0x9503; 0xa438; 0xa810; 0xa438; 0xa00a; 0xa438; 0xa302; 0xa438; 0x0ca0;
  0xa438; 0x0480; 0xa438; 0xd700; 0xa438; 0x2969; 0xa438; 0x0960; 0xa438; 0x60a4; 0xa438; 0xd704;
  0xa438; 0x407d; 0xa438; 0x8604; 0xa438; 0xf002; 0xa438; 0xa604; 0xa438; 0x0c03; 0xa438; 0x1502;
  0xa438; 0xa340; 0xa438; 0xd700; 0xa438; 0x37cd; 0xa438; 0x81b4; 0xa438; 0x8310; 0xa438; 0x9503;
  0xa438; 0x1000; 0xa438; 0x1cd2; 0xa438; 0xd706; 0xa438; 0x5fa7; 0xa438; 0xb920; 0xa438; 0x1000;
  0xa438; 0x1cd2; 0xa438; 0xd71f; 0xa438; 0x7fb4; 0xa438; 0x8810; 0xa438; 0x9920; 0xa438; 0x1000;
  0xa438; 0x1cd2; 0xa438; 0xd71f; 0xa438; 0x60e5; 0xa438; 0x5f94; 0xa438; 0x1000; 0xa438; 0x1cd2;
  0xa438; 0xd706; 0xa438; 0x5fa7; 0xa438; 0xfff0; 0xa438; 0xb820; 0xa438; 0xa810; 0xa438; 0x1000;
  0xa438; 0x1cd2; 0xa438; 0xd71f; 0xa438; 0x7fa5; 0xa438; 0x9820; 0xa438; 0xd700; 0xa438; 0x2d59;
  0xa438; 0x8507; 0xa438; 0x0c03; 0xa438; 0x1502; 0xa438; 0x8c07; 0xa438; 0x9503; 0xa438; 0xa120;
  0xa438; 0xd700; 0xa438; 0x2969; 0xa438; 0x81e3; 0xa438; 0x60e4; 0xa438; 0xd704; 0xa438; 0x40bd;
  0xa438; 0xd704; 0xa438; 0x407b; 0xa438; 0x8310; 0xa438; 0xf002; 0xa438; 0xa310; 0xa438; 0xd700;
  0xa438; 0x2969; 0xa438; 0x81ec; 0xa438; 0x60a4; 0xa438; 0xd704; 0xa438; 0x407d; 0xa438; 0xa202;
  0xa438; 0xf002; 0xa438; 0x8202; 0xa438; 0xa420; 0xa438; 0x1800; 0xa438; 0x861d; 0xa438; 0x8810;
  0xa438; 0x1000; 0xa438; 0x1cd2; 0xa438; 0xd700; 0xa438; 0x5fbb; 0xa438; 0xd17a; 0xa438; 0xd05a;
  0xa438; 0xd700; 0xa438; 0x60cf; 0xa438; 0x60f1; 0xa438; 0x6113; 0xa438; 0x6135; 0xa438; 0x6157;
  0xa438; 0xf00b; 0xa438; 0xce06; 0xa438; 0xf00a; 0xa438; 0xce06; 0xa438; 0xf008; 0xa438; 0xce06;
  0xa438; 0xf006; 0xa438; 0xce06; 0xa438; 0xf004; 0xa438; 0xce06; 0xa438; 0xf002; 0xa438; 0xce06;
  0xa438; 0x1000; 0xa438; 0x1ce7; 0xa438; 0x0c03; 0xa438; 0x1502; 0xa438; 0x0c0f; 0xa438; 0x0b04;
  0xa438; 0x0c3f; 0xa438; 0x0c21; 0xa438; 0x8d07; 0xa438; 0x9503; 0xa438; 0xa340; 0xa438; 0x1000;
  0xa438; 0x1d47; 0xa438; 0xa110; 0xa438; 0x1000; 0xa438; 0x1cef; 0xa438; 0x8110; 0xa438; 0x1000;
  0xa438; 0x1d50; 0xa438; 0xa304; 0xa438; 0xa440; 0xa438; 0xa8c0; 0xa438; 0x8810; 0xa438; 0xa00a;
  0xa438; 0xa120; 0xa438; 0xa310; 0xa438; 0xd704; 0xa438; 0x405d; 0xa438; 0xa308; 0xa438; 0x0cfc;
  0xa438; 0x0224; 0xa438; 0x0ca0; 0xa438; 0x0480; 0xa438; 0x0c03; 0xa438; 0x1502; 0xa438; 0xa340;
  0xa438; 0xd700; 0xa438; 0x37cd; 0xa438; 0x8231; 0xa438; 0x8310; 0xa438; 0x9503; 0xa438; 0xd162;
  0xa438; 0xd048; 0xa438; 0x1000; 0xa438; 0x1cd2; 0xa438; 0xd700; 0xa438; 0x5fba; 0xa438; 0x8840;
  0xa438; 0xd1c4; 0xa438; 0xd045; 0xa438; 0x1000; 0xa438; 0x1cd2; 0xa438; 0xd700; 0xa438; 0x5fba;
  0xa438; 0xd706; 0xa438; 0x6127; 0xa438; 0xd700; 0xa438; 0x5f3b; 0xa438; 0x88c0; 0xa438; 0x800a;
  0xa438; 0x8120; 0xa438; 0x8350; 0xa438; 0x84a0; 0xa438; 0xffad; 0xa438; 0xb920; 0xa438; 0xcd33;
  0xa438; 0x1000; 0xa438; 0x1cd2; 0xa438; 0xd71f; 0xa438; 0x7fb4; 0xa438; 0x9920; 0xa438; 0x1000;
  0xa438; 0x1cd2; 0xa438; 0xd71f; 0xa438; 0x6065; 0xa438; 0x5f94; 0xa438; 0xffee; 0xa438; 0xb820;
  0xa438; 0x1000; 0xa438; 0x1cd2; 0xa438; 0xd71f; 0xa438; 0x7fa5; 0xa438; 0x9820; 0xa438; 0x800a;
  0xa438; 0x8120; 0xa438; 0x1000; 0xa438; 0x1d47; 0xa438; 0xa108; 0xa438; 0x1000; 0xa438; 0x1cef;
  0xa438; 0x8108; 0xa438; 0x1000; 0xa438; 0x1d50; 0xa438; 0xd704; 0xa438; 0x60bd; 0xa438; 0xd707;
  0xa438; 0x413f; 0xa438; 0x4100; 0xa438; 0xf004; 0xa438; 0x0cfd; 0xa438; 0x0201; 0xa438; 0xf005;
  0xa438; 0x0cfc; 0xa438; 0x02bc; 0xa438; 0xf002; 0xa438; 0xa2fc; 0xa438; 0xa304; 0xa438; 0x8880;
  0xa438; 0x0cc0; 0xa438; 0x0440; 0xa438; 0xcd34; 0xa438; 0xd704; 0xa438; 0x407d; 0xa438; 0x405b;
  0xa438; 0xf006; 0xa438; 0xd704; 0xa438; 0x60fd; 0xa438; 0xd707; 0xa438; 0x40bf; 0xa438; 0x4080;
  0xa438; 0x8310; 0xa438; 0x1000; 0xa438; 0x1d15; 0xa438; 0x0c03; 0xa438; 0x1502; 0xa438; 0x8c07;
  0xa438; 0xd704; 0xa438; 0x409d; 0xa438; 0x8b0f; 0xa438; 0x8c38; 0xa438; 0xf004; 0xa438; 0x0c0f;
  0xa438; 0x0b07; 0xa438; 0xac38; 0xa438; 0x0c38; 0xa438; 0x0d10; 0xa438; 0x9503; 0xa438; 0xa810;
  0xa438; 0xa00a; 0xa438; 0xa120; 0xa438; 0xd704; 0xa438; 0x607d; 0xa438; 0xa4a0; 0xa438; 0xa604;
  0xa438; 0xd700; 0xa438; 0x37c9; 0xa438; 0x829f; 0xa438; 0xd17a; 0xa438; 0xd049; 0xa438; 0xf003;
  0xa438; 0xd19f; 0xa438; 0xd049; 0xa438; 0xd704; 0xa438; 0x413d; 0xa438; 0xa00a; 0xa438; 0xa120;
  0xa438; 0xd704; 0xa438; 0x407b; 0xa438; 0x8310; 0xa438; 0xf002; 0xa438; 0xa310; 0xa438; 0xa403;
  0xa438; 0x1000; 0xa438; 0x1cd2; 0xa438; 0xd71f; 0xa438; 0x6a14; 0xa438; 0xd700; 0xa438; 0x409a;
  0xa438; 0xd706; 0xa438; 0x4988; 0xa438; 0xf014; 0xa438; 0xd704; 0xa438; 0x6055; 0xa438; 0xfff5;
  0xa438; 0x1000; 0xa438; 0x1d47; 0xa438; 0x800a; 0xa438; 0x8120; 0xa438; 0x8310; 0xa438; 0xa380;
  0xa438; 0x1000; 0xa438; 0x1cd2; 0xa438; 0x1000; 0xa438; 0x1d2b; 0xa438; 0xd705; 0xa438; 0x5f77;
  0xa438; 0x8380; 0xa438; 0x1000; 0xa438; 0x1d50; 0xa438; 0xffdd; 0xa438; 0x0c03; 0xa438; 0x1502;
  0xa438; 0x8b0f; 0xa438; 0x8c38; 0xa438; 0x8d38; 0xa438; 0x9503; 0xa438; 0xd700; 0xa438; 0x37c9;
  0xa438; 0x82d8; 0xa438; 0x33a9; 0xa438; 0x82d5; 0xa438; 0xd1f4; 0xa438; 0xd04b; 0xa438; 0xf006;
  0xa438; 0xd1b7; 0xa438; 0xd04b; 0xa438; 0xf003; 0xa438; 0xd1c6; 0xa438; 0xd04c; 0xa438; 0xd704;
  0xa438; 0x413d; 0xa438; 0xa00a; 0xa438; 0xa120; 0xa438; 0xd704; 0xa438; 0x407b; 0xa438; 0x8310;
  0xa438; 0xf002; 0xa438; 0xa310; 0xa438; 0xa403; 0xa438; 0x1000; 0xa438; 0x1cd2; 0xa438; 0xd71f;
  0xa438; 0x62f4; 0xa438; 0xd700; 0xa438; 0x405a; 0xa438; 0xf01a; 0xa438; 0xd704; 0xa438; 0x6055;
  0xa438; 0xfff7; 0xa438; 0x1000; 0xa438; 0x1d47; 0xa438; 0x800a; 0xa438; 0x8120; 0xa438; 0x8310;
  0xa438; 0xa380; 0xa438; 0x1000; 0xa438; 0x1cd2; 0xa438; 0x1000; 0xa438; 0x1d2b; 0xa438; 0xd705;
  0xa438; 0x5f77; 0xa438; 0x8380; 0xa438; 0x1000; 0xa438; 0x1d50; 0xa438; 0xffdf; 0xa438; 0x8403;
  0xa438; 0x1000; 0xa438; 0x1cd2; 0xa438; 0xd700; 0xa438; 0x629c; 0xa438; 0xfffb; 0xa438; 0x8403;
  0xa438; 0x1000; 0xa438; 0x1cd2; 0xa438; 0xd71f; 0xa438; 0x6096; 0xa438; 0xd700; 0xa438; 0x619c;
  0xa438; 0xfffa; 0xa438; 0xd706; 0xa438; 0x4128; 0xa438; 0xd702; 0xa438; 0x60b0; 0xa438; 0x0c03;
  0xa438; 0x1502; 0xa438; 0xae80; 0xa438; 0x9503; 0xa438; 0x1800; 0xa438; 0x8431; 0xa438; 0xd17a;
  0xa438; 0xd05a; 0xa438; 0xd700; 0xa438; 0x60cf; 0xa438; 0x60f1; 0xa438; 0x6113; 0xa438; 0x6135;
  0xa438; 0x6157; 0xa438; 0xf00b; 0xa438; 0xce06; 0xa438; 0xf00a; 0xa438; 0xce06; 0xa438; 0xf008;
  0xa438; 0xce06; 0xa438; 0xf006; 0xa438; 0xce06; 0xa438; 0xf004; 0xa438; 0xce06; 0xa438; 0xf002;
  0xa438; 0xce06; 0xa438; 0x1000; 0xa438; 0x1ce7; 0xa438; 0x0c03; 0xa438; 0x1502; 0xa438; 0x0c0f;
  0xa438; 0x0b04; 0xa438; 0x0c3f; 0xa438; 0x0c21; 0xa438; 0x8d07; 0xa438; 0x0cc3; 0xa438; 0x0b40;
  0xa438; 0x0c3f; 0xa438; 0x0c24; 0xa438; 0x8d07; 0xa438; 0x9503; 0xa438; 0xa340; 0xa438; 0x1000;
  0xa438; 0x1d47; 0xa438; 0xa110; 0xa438; 0x1000; 0xa438; 0x1cef; 0xa438; 0x8110; 0xa438; 0x1000;
  0xa438; 0x1d50; 0xa438; 0xa304; 0xa438; 0xa440; 0xa438; 0xa8c0; 0xa438; 0x8810; 0xa438; 0xa00a;
  0xa438; 0xa120; 0xa438; 0xa310; 0xa438; 0xd704; 0xa438; 0x405d; 0xa438; 0xa308; 0xa438; 0x0cfc;
  0xa438; 0x0224; 0xa438; 0x0ca0; 0xa438; 0x0480; 0xa438; 0x8604; 0xa438; 0xcd35; 0xa438; 0xd162;
  0xa438; 0xd048; 0xa438; 0x1000; 0xa438; 0x1cd2; 0xa438; 0xd700; 0xa438; 0x5fba; 0xa438; 0x8840;
  0xa438; 0xd1c4; 0xa438; 0xd045; 0xa438; 0x1000; 0xa438; 0x1cd2; 0xa438; 0xd700; 0xa438; 0x5fba;
  0xa438; 0xd706; 0xa438; 0x6127; 0xa438; 0xd700; 0xa438; 0x5f3b; 0xa438; 0x88c0; 0xa438; 0x800a;
  0xa438; 0x8120; 0xa438; 0x8350; 0xa438; 0x84a0; 0xa438; 0xffae; 0xa438; 0xbb80; 0xa438; 0x1000;
  0xa438; 0x1cd2; 0xa438; 0xd71f; 0xa438; 0x5fb4; 0xa438; 0xb920; 0xa438; 0xcd36; 0xa438; 0x1000;
  0xa438; 0x1cd2; 0xa438; 0xd71f; 0xa438; 0x7fb4; 0xa438; 0x9920; 0xa438; 0x9b80; 0xa438; 0x1000;
  0xa438; 0x1cd2; 0xa438; 0xd71f; 0xa438; 0x6065; 0xa438; 0x5f94; 0xa438; 0xffe8; 0xa438; 0xb820;
  0xa438; 0x1000; 0xa438; 0x1cd2; 0xa438; 0xd71f; 0xa438; 0x7fa5; 0xa438; 0x9820; 0xa438; 0x800a;
  0xa438; 0x8120; 0xa438; 0x1000; 0xa438; 0x1d47; 0xa438; 0xa108; 0xa438; 0x1000; 0xa438; 0x1cef;
  0xa438; 0x8108; 0xa438; 0x1000; 0xa438; 0x1d50; 0xa438; 0xd704; 0xa438; 0x60bd; 0xa438; 0xd707;
  0xa438; 0x413f; 0xa438; 0x4100; 0xa438; 0xf004; 0xa438; 0x0cfd; 0xa438; 0x0201; 0xa438; 0xf005;
  0xa438; 0x0cfc; 0xa438; 0x02bc; 0xa438; 0xf002; 0xa438; 0xa2fc; 0xa438; 0xa304; 0xa438; 0x8880;
  0xa438; 0x0cc0; 0xa438; 0x0440; 0xa438; 0xcd37; 0xa438; 0xd704; 0xa438; 0x407d; 0xa438; 0x405b;
  0xa438; 0xf006; 0xa438; 0xd704; 0xa438; 0x60fd; 0xa438; 0xd707; 0xa438; 0x40bf; 0xa438; 0x4080;
  0xa438; 0x8310; 0xa438; 0x1000; 0xa438; 0x1d15; 0xa438; 0x0c03; 0xa438; 0x1502; 0xa438; 0x8c07;
  0xa438; 0x0cc0; 0xa438; 0x0b00; 0xa438; 0xd704; 0xa438; 0x40bd; 0xa438; 0x8b0f; 0xa438; 0x8c38;
  0xa438; 0x8c3f; 0xa438; 0xf005; 0xa438; 0x0c0f; 0xa438; 0x0b07; 0xa438; 0xac38; 0xa438; 0xac3f;
  0xa438; 0x0c38; 0xa438; 0x0d10; 0xa438; 0x0c38; 0xa438; 0x0d10; 0xa438; 0x9503; 0xa438; 0xa810;
  0xa438; 0xa00a; 0xa438; 0xa120; 0xa438; 0xd704; 0xa438; 0x607d; 0xa438; 0xa4a0; 0xa438; 0xa604;
  0xa438; 0xd700; 0xa438; 0x37c9; 0xa438; 0x83d0; 0xa438; 0x33a9; 0xa438; 0x83cd; 0xa438; 0xd17a;
  0xa438; 0xd048; 0xa438; 0xf006; 0xa438; 0xd17a; 0xa438; 0xd048; 0xa438; 0xf003; 0xa438; 0xd17a;
  0xa438; 0xd048; 0xa438; 0xd704; 0xa438; 0x413d; 0xa438; 0xa00a; 0xa438; 0xa120; 0xa438; 0xd704;
  0xa438; 0x407b; 0xa438; 0x8310; 0xa438; 0xf002; 0xa438; 0xa310; 0xa438; 0xa403; 0xa438; 0x1000;
  0xa438; 0x1cd2; 0xa438; 0x1000; 0xa438; 0x1d2b; 0xa438; 0xd700; 0xa438; 0x409a; 0xa438; 0xd706;
  0xa438; 0x4048; 0xa438; 0xf014; 0xa438; 0xd704; 0xa438; 0x6055; 0xa438; 0xfff5; 0xa438; 0x1000;
  0xa438; 0x1d47; 0xa438; 0x800a; 0xa438; 0x8120; 0xa438; 0x8310; 0xa438; 0xa380; 0xa438; 0x1000;
  0xa438; 0x1cd2; 0xa438; 0x1000; 0xa438; 0x1d2b; 0xa438; 0xd705; 0xa438; 0x5f77; 0xa438; 0x8380;
  0xa438; 0x1000; 0xa438; 0x1d50; 0xa438; 0xffdd; 0xa438; 0x0c03; 0xa438; 0x1502; 0xa438; 0x8b0f;
  0xa438; 0x8c38; 0xa438; 0x8d38; 0xa438; 0x9503; 0xa438; 0xd700; 0xa438; 0x37c9; 0xa438; 0x8409;
  0xa438; 0x33a9; 0xa438; 0x8406; 0xa438; 0xd13d; 0xa438; 0xd04b; 0xa438; 0xf006; 0xa438; 0xd17a;
  0xa438; 0xd04a; 0xa438; 0xf003; 0xa438; 0xd189; 0xa438; 0xd04c; 0xa438; 0xd704; 0xa438; 0x413d;
  0xa438; 0xa00a; 0xa438; 0xa120; 0xa438; 0xd704; 0xa438; 0x407b; 0xa438; 0x8310; 0xa438; 0xf002;
  0xa438; 0xa310; 0xa438; 0xa403; 0xa438; 0x1000; 0xa438; 0x1cd2; 0xa438; 0x1000; 0xa438; 0x1d2b;
  0xa438; 0xd700; 0xa438; 0x409a; 0xa438; 0xd706; 0xa438; 0x4048; 0xa438; 0xf014; 0xa438; 0xd704;
  0xa438; 0x6055; 0xa438; 0xfff5; 0xa438; 0x1000; 0xa438; 0x1d47; 0xa438; 0x800a; 0xa438; 0x8120;
  0xa438; 0x8310; 0xa438; 0xa380; 0xa438; 0x1000; 0xa438; 0x1cd2; 0xa438; 0x1000; 0xa438; 0x1d2b;
  0xa438; 0xd705; 0xa438; 0x5f77; 0xa438; 0x8380; 0xa438; 0x1000; 0xa438; 0x1d50; 0xa438; 0xffdd;
  0xa438; 0x0c03; 0xa438; 0x1502; 0xa438; 0x0c07; 0xa438; 0x0d01; 0xa438; 0x0c03; 0xa438; 0x0b01;
  0xa438; 0x0c07; 0xa438; 0x0d01; 0xa438; 0x9503; 0xa438; 0xd700; 0xa438; 0x60cf; 0xa438; 0x60f1;
  0xa438; 0x6113; 0xa438; 0x6135; 0xa438; 0x6157; 0xa438; 0xf00b; 0xa438; 0xce08; 0xa438; 0xf00a;
  0xa438; 0xce08; 0xa438; 0xf008; 0xa438; 0xce08; 0xa438; 0xf006; 0xa438; 0xce08; 0xa438; 0xf004;
  0xa438; 0xce08; 0xa438; 0xf002; 0xa438; 0xce08; 0xa438; 0x1000; 0xa438; 0x1ce7; 0xa438; 0xa180;
  0xa438; 0xcd38; 0xa438; 0xd700; 0xa438; 0x37c9; 0xa438; 0x8465; 0xa438; 0x33a9; 0xa438; 0x845d;
  0xa438; 0xd702; 0xa438; 0x4098; 0xa438; 0xd17a; 0xa438; 0xd04a; 0xa438; 0xf013; 0xa438; 0xd100;
  0xa438; 0xd049; 0xa438; 0xf010; 0xa438; 0xd702; 0xa438; 0x4098; 0xa438; 0xd1b7; 0xa438; 0xd049;
  0xa438; 0xf00b; 0xa438; 0xd100; 0xa438; 0xd048; 0xa438; 0xf008; 0xa438; 0xd702; 0xa438; 0x4098;
  0xa438; 0xd17a; 0xa438; 0xd04b; 0xa438; 0xf003; 0xa438; 0xd199; 0xa438; 0xd04a; 0xa438; 0xd13b;
  0xa438; 0xd055; 0xa438; 0xd704; 0xa438; 0x413d; 0xa438; 0xa00a; 0xa438; 0xa1a0; 0xa438; 0xd704;
  0xa438; 0x407b; 0xa438; 0x8310; 0xa438; 0xf002; 0xa438; 0xa310; 0xa438; 0xa403; 0xa438; 0x1000;
  0xa438; 0x1cd2; 0xa438; 0x1000; 0xa438; 0x1d2b; 0xa438; 0xd700; 0xa438; 0x405b; 0xa438; 0xf014;
  0xa438; 0xd704; 0xa438; 0x6055; 0xa438; 0xfff7; 0xa438; 0x1000; 0xa438; 0x1d47; 0xa438; 0x800a;
  0xa438; 0x81a0; 0xa438; 0x8310; 0xa438; 0xa380; 0xa438; 0x1000; 0xa438; 0x1cd2; 0xa438; 0x1000;
  0xa438; 0x1d2b; 0xa438; 0xd705; 0xa438; 0x5f77; 0xa438; 0x8380; 0xa438; 0x1000; 0xa438; 0x1d50;
  0xa438; 0xffdf; 0xa438; 0xa302; 0xa438; 0xd704; 0xa438; 0x415d; 0xa438; 0xa00a; 0xa438; 0xa1a0;
  0xa438; 0xd704; 0xa438; 0x407b; 0xa438; 0x8310; 0xa438; 0xf002; 0xa438; 0xa310; 0xa438; 0xa302;
  0xa438; 0xa403; 0xa438; 0x1000; 0xa438; 0x1cd2; 0xa438; 0x1000; 0xa438; 0x1d2b; 0xa438; 0xd700;
  0xa438; 0x409a; 0xa438; 0xd706; 0xa438; 0x4048; 0xa438; 0xf014; 0xa438; 0xd704; 0xa438; 0x6055;
  0xa438; 0xfff5; 0xa438; 0x1000; 0xa438; 0x1d47; 0xa438; 0x800a; 0xa438; 0x81a0; 0xa438; 0x8312;
  0xa438; 0xa380; 0xa438; 0x1000; 0xa438; 0x1cd2; 0xa438; 0x1000; 0xa438; 0x1d2b; 0xa438; 0xd705;
  0xa438; 0x5f77; 0xa438; 0x8380; 0xa438; 0x1000; 0xa438; 0x1d50; 0xa438; 0xffdc; 0xa438; 0x0c03;
  0xa438; 0x1502; 0xa438; 0x0c0f; 0xa438; 0x0b02; 0xa438; 0x0c38; 0xa438; 0x0c10; 0xa438; 0x0c3f;
  0xa438; 0x0c12; 0xa438; 0x9503; 0xa438; 0xd700; 0xa438; 0x37c9; 0xa438; 0x84d8; 0xa438; 0x33a9;
  0xa438; 0x84d0; 0xa438; 0xd702; 0xa438; 0x4098; 0xa438; 0xd199; 0xa438; 0xd04a; 0xa438; 0xf013;
  0xa438; 0xd100; 0xa438; 0xd04a; 0xa438; 0xf010; 0xa438; 0xd702; 0xa438; 0x4098; 0xa438; 0xd17a;
  0xa438; 0xd04a; 0xa438; 0xf00b; 0xa438; 0xd100; 0xa438; 0xd048; 0xa438; 0xf008; 0xa438; 0xd702;
  0xa438; 0x4098; 0xa438; 0xd199; 0xa438; 0xd04b; 0xa438; 0xf003; 0xa438; 0xd16b; 0xa438; 0xd04b;
  0xa438; 0xd704; 0xa438; 0x415d; 0xa438; 0xa00a; 0xa438; 0xa1a0; 0xa438; 0xd704; 0xa438; 0x407b;
  0xa438; 0x8310; 0xa438; 0xf002; 0xa438; 0xa310; 0xa438; 0xa302; 0xa438; 0xa403; 0xa438; 0x1000;
  0xa438; 0x1cd2; 0xa438; 0x1000; 0xa438; 0x1d2b; 0xa438; 0xd700; 0xa438; 0x40ba; 0xa438; 0xd706;
  0xa438; 0x406a; 0xa438; 0x8403; 0xa438; 0xf014; 0xa438; 0xd704; 0xa438; 0x6055; 0xa438; 0xfff4;
  0xa438; 0x1000; 0xa438; 0x1d47; 0xa438; 0x800a; 0xa438; 0x81a0; 0xa438; 0x8312; 0xa438; 0xa380;
  0xa438; 0x1000; 0xa438; 0x1cd2; 0xa438; 0x1000; 0xa438; 0x1d2b; 0xa438; 0xd705; 0xa438; 0x5f77;
  0xa438; 0x8380; 0xa438; 0x1000; 0xa438; 0x1d50; 0xa438; 0xffdb; 0xa438; 0x81a0; 0xa438; 0x8310;
  0xa438; 0xa302; 0xa438; 0xa00a; 0xa438; 0xa480; 0xa438; 0x8420; 0xa438; 0xd700; 0xa438; 0x2969;
  0xa438; 0x8517; 0xa438; 0x60e4; 0xa438; 0xd700; 0xa438; 0x40a7; 0xa438; 0xd704; 0xa438; 0x407d;
  0xa438; 0x8604; 0xa438; 0xf002; 0xa438; 0xa604; 0xa438; 0xd700; 0xa438; 0x60c7; 0xa438; 0xa602;
  0xa438; 0x0c03; 0xa438; 0x1502; 0xa438; 0xa702; 0xa438; 0x9503; 0xa438; 0x0c03; 0xa438; 0x1502;
  0xa438; 0xa340; 0xa438; 0x9503; 0xa438; 0xd700; 0xa438; 0x60cf; 0xa438; 0x60f1; 0xa438; 0x6113;
  0xa438; 0x6135; 0xa438; 0x6157; 0xa438; 0xf00b; 0xa438; 0xce03; 0xa438; 0xf00a; 0xa438; 0xce03;
  0xa438; 0xf008; 0xa438; 0xce03; 0xa438; 0xf006; 0xa438; 0xce03; 0xa438; 0xf004; 0xa438; 0xce03;
  0xa438; 0xf002; 0xa438; 0xce03; 0xa438; 0x1000; 0xa438; 0x1ce7; 0xa438; 0x0c03; 0xa438; 0x1502;
  0xa438; 0x0c07; 0xa438; 0x0c01; 0xa438; 0x0c3f; 0xa438; 0x0d08; 0xa438; 0x9503; 0xa438; 0xd700;
  0xa438; 0x646d; 0xa438; 0x37c9; 0xa438; 0x8558; 0xa438; 0x33a9; 0xa438; 0x854e; 0xa438; 0xd700;
  0xa438; 0x40c7; 0xa438; 0xd702; 0xa438; 0x6098; 0xa438; 0xd100; 0xa438; 0xd048; 0xa438; 0xf01a;
  0xa438; 0xd17a; 0xa438; 0xd049; 0xa438; 0xf017; 0xa438; 0xd700; 0xa438; 0x40c7; 0xa438; 0xd702;
  0xa438; 0x6098; 0xa438; 0xd100; 0xa438; 0xd049; 0xa438; 0xf010; 0xa438; 0xd17a; 0xa438; 0xd04c;
  0xa438; 0xf00d; 0xa438; 0xd700; 0xa438; 0x40c7; 0xa438; 0xd702; 0xa438; 0x6098; 0xa438; 0xd17a;
  0xa438; 0xd04a; 0xa438; 0xf006; 0xa438; 0xd17a; 0xa438; 0xd04a; 0xa438; 0xf003; 0xa438; 0xd17a;
  0xa438; 0xd048; 0xa438; 0x1000; 0xa438; 0x1cd2; 0xa438; 0x1000; 0xa438; 0x1d2b; 0xa438; 0xd700;
  0xa438; 0x5f7a; 0xa438; 0xd706; 0xa438; 0x5f29; 0xa438; 0xd700; 0xa438; 0x60cf; 0xa438; 0x60f1;
  0xa438; 0x6113; 0xa438; 0x6135; 0xa438; 0x6157; 0xa438; 0xf00b; 0xa438; 0xce06; 0xa438; 0xf00a;
  0xa438; 0xce06; 0xa438; 0xf008; 0xa438; 0xce06; 0xa438; 0xf006; 0xa438; 0xce06; 0xa438; 0xf004;
  0xa438; 0xce06; 0xa438; 0xf002; 0xa438; 0xce06; 0xa438; 0x1000; 0xa438; 0x1ce7; 0xa438; 0x0c03;
  0xa438; 0x1502; 0xa438; 0x0c0f; 0xa438; 0x0b01; 0xa438; 0x0c3f; 0xa438; 0x0c08; 0xa438; 0x9503;
  0xa438; 0xa120; 0xa438; 0xd700; 0xa438; 0x2969; 0xa438; 0x859c; 0xa438; 0x6224; 0xa438; 0xd700;
  0xa438; 0x4147; 0xa438; 0xd704; 0xa438; 0x409d; 0xa438; 0xd704; 0xa438; 0x613b; 0xa438; 0xf00a;
  0xa438; 0xd707; 0xa438; 0x411f; 0xa438; 0x40e0; 0xa438; 0xf004; 0xa438; 0xd707; 0xa438; 0x409f;
  0xa438; 0x4062; 0xa438; 0x8310; 0xa438; 0xf002; 0xa438; 0xa310; 0xa438; 0xd700; 0xa438; 0x2969;
  0xa438; 0x85a7; 0xa438; 0x60e4; 0xa438; 0xd700; 0xa438; 0x40a7; 0xa438; 0xd704; 0xa438; 0x407d;
  0xa438; 0xa202; 0xa438; 0xf002; 0xa438; 0x8202; 0xa438; 0xa420; 0xa438; 0xcd3b; 0xa438; 0xd700;
  0xa438; 0x65ad; 0xa438; 0x43c7; 0xa438; 0xd700; 0xa438; 0x37c9; 0xa438; 0x85c2; 0xa438; 0x33a9;
  0xa438; 0x85ba; 0xa438; 0xd702; 0xa438; 0x4098; 0xa438; 0xd199; 0xa438; 0xd04c; 0xa438; 0xf024;
  0xa438; 0xd13d; 0xa438; 0xd04a; 0xa438; 0xf021; 0xa438; 0xd702; 0xa438; 0x4098; 0xa438; 0xd1c6;
  0xa438; 0xd04c; 0xa438; 0xf01c; 0xa438; 0xd15c; 0xa438; 0xd04a; 0xa438; 0xf019; 0xa438; 0xd702;
  0xa438; 0x4098; 0xa438; 0xd199; 0xa438; 0xd04c; 0xa438; 0xf014; 0xa438; 0xd17a; 0xa438; 0xd04c;
  0xa438; 0xf011; 0xa438; 0xd700; 0xa438; 0x37c9; 0xa438; 0x85d5; 0xa438; 0x33a9; 0xa438; 0x85d2;
  0xa438; 0xd1e5; 0xa438; 0xd04c; 0xa438; 0xf009; 0xa438; 0xd191; 0xa438; 0xd04d; 0xa438; 0xf006;
  0xa438; 0xd17a; 0xa438; 0xd04d; 0xa438; 0xf003; 0xa438; 0xd16b; 0xa438; 0xd04c; 0xa438; 0x1000;
  0xa438; 0x1cd2; 0xa438; 0x1000; 0xa438; 0x1d2b; 0xa438; 0xd700; 0xa438; 0x5f7a; 0xa438; 0xd706;
  0xa438; 0x5f2c; 0xa438; 0xd700; 0xa438; 0x40e7; 0xa438; 0x0c03; 0xa438; 0x1502; 0xa438; 0x0c07;
  0xa438; 0x0d01; 0xa438; 0x9503; 0xa438; 0xf006; 0xa438; 0x0c03; 0xa438; 0x1502; 0xa438; 0x0c07;
  0xa438; 0x0d02; 0xa438; 0x9503; 0xa438; 0xcd3c; 0xa438; 0xd700; 0xa438; 0x644d; 0xa438; 0x43c7;
  0xa438; 0xd700; 0xa438; 0x37c9; 0xa438; 0x8608; 0xa438; 0x33a9; 0xa438; 0x8600; 0xa438; 0xd702;
  0xa438; 0x4098; 0xa438; 0xd17a; 0xa438; 0xd04a; 0xa438; 0xf019; 0xa438; 0xd17a; 0xa438; 0xd048;
  0xa438; 0xf016; 0xa438; 0xd702; 0xa438; 0x4098; 0xa438; 0xd17a; 0xa438; 0xd04b; 0xa438; 0xf011;
  0xa438; 0xd17a; 0xa438; 0xd048; 0xa438; 0xf00e; 0xa438; 0xd702; 0xa438; 0x4098; 0xa438; 0xd17a;
  0xa438; 0xd04a; 0xa438; 0xf009; 0xa438; 0xd17a; 0xa438; 0xd049; 0xa438; 0xf006; 0xa438; 0xd17a;
  0xa438; 0xd04b; 0xa438; 0xf003; 0xa438; 0xd17a; 0xa438; 0xd048; 0xa438; 0x1000; 0xa438; 0x1cd2;
  0xa438; 0x1000; 0xa438; 0x1d2b; 0xa438; 0xd700; 0xa438; 0x5f7a; 0xa438; 0xd706; 0xa438; 0x5f2d;
  0xa438; 0xd700; 0xa438; 0x60cf; 0xa438; 0x60f1; 0xa438; 0x6113; 0xa438; 0x6135; 0xa438; 0x6157;
  0xa438; 0xf00b; 0xa438; 0xce08; 0xa438; 0xf00a; 0xa438; 0xce08; 0xa438; 0xf008; 0xa438; 0xce08;
  0xa438; 0xf006; 0xa438; 0xce08; 0xa438; 0xf004; 0xa438; 0xce08; 0xa438; 0xf002; 0xa438; 0xce08;
  0xa438; 0x1000; 0xa438; 0x1ce7; 0xa438; 0x0c03; 0xa438; 0x1502; 0xa438; 0x0c0f; 0xa438; 0x0b02;
  0xa438; 0x0c38; 0xa438; 0x0c10; 0xa438; 0x9503; 0xa438; 0xa180; 0xa438; 0xcd3d; 0xa438; 0xd700;
  0xa438; 0x2969; 0xa438; 0x865f; 0xa438; 0x37c9; 0xa438; 0x8655; 0xa438; 0x33a9; 0xa438; 0x864b;
  0xa438; 0xd700; 0xa438; 0x40c7; 0xa438; 0xd702; 0xa438; 0x6098; 0xa438; 0xd11f; 0xa438; 0xd04a;
  0xa438; 0xf01a; 0xa438; 0xd199; 0xa438; 0xd04b; 0xa438; 0xf017; 0xa438; 0xd700; 0xa438; 0x40c7;
  0xa438; 0xd702; 0xa438; 0x6098; 0xa438; 0xd11f; 0xa438; 0xd04a; 0xa438; 0xf010; 0xa438; 0xd199;
  0xa438; 0xd04b; 0xa438; 0xf00d; 0xa438; 0xd700; 0xa438; 0x40c7; 0xa438; 0xd702; 0xa438; 0x6098;
  0xa438; 0xd17a; 0xa438; 0xd04c; 0xa438; 0xf006; 0xa438; 0xd199; 0xa438; 0xd04c; 0xa438; 0xf003;
  0xa438; 0xd17a; 0xa438; 0xd04b; 0xa438; 0x1800; 0xa438; 0x0e04; 0xa438; 0xd700; 0xa438; 0x37c9;
  0xa438; 0x8678; 0xa438; 0x33a9; 0xa438; 0x8670; 0xa438; 0xd705; 0xa438; 0x4084; 0xa438; 0xd1f4;
  0xa438; 0xd048; 0xa438; 0xf013; 0xa438; 0xd1b7; 0xa438; 0xd04b; 0xa438; 0xf010; 0xa438; 0xd705;
  0xa438; 0x4084; 0xa438; 0xd1f4; 0xa438; 0xd048; 0xa438; 0xf00b; 0xa438; 0xd1b7; 0xa438; 0xd04b;
  0xa438; 0xf008; 0xa438; 0xd705; 0xa438; 0x4084; 0xa438; 0xd1f4; 0xa438; 0xd048; 0xa438; 0xf003;
  0xa438; 0xd1b7; 0xa438; 0xd04b; 0xa438; 0x1800; 0xa438; 0x14cc; 0xa438; 0xd700; 0xa438; 0x2b59;
  0xa438; 0x8685; 0xa438; 0xf003; 0xa438; 0x1800; 0xa438; 0x118f; 0xa438; 0x6060; 0xa438; 0x1800;
  0xa438; 0x1167; 0xa438; 0xd700; 0xa438; 0x60c7; 0xa438; 0xd704; 0xa438; 0x609f; 0xa438; 0xd705;
  0xa438; 0x4043; 0xa438; 0xf003; 0xa438; 0x1800; 0xa438; 0x1150; 0xa438; 0x0c03; 0xa438; 0x1502;
  0xa438; 0x8702; 0xa438; 0x8011; 0xa438; 0x9503; 0xa438; 0x800a; 0xa438; 0x81a0; 0xa438; 0x8302;
  0xa438; 0x8480; 0xa438; 0x8686; 0xa438; 0xcde0; 0xa438; 0xd1ff; 0xa438; 0xd049; 0xa438; 0x1000;
  0xa438; 0x1cd2; 0xa438; 0xd700; 0xa438; 0x5fba; 0xa438; 0xd705; 0xa438; 0x417e; 0xa438; 0x0c03;
  0xa438; 0x1502; 0xa438; 0xa011; 0xa438; 0x9503; 0xa438; 0xd1c8; 0xa438; 0xd045; 0xa438; 0x1000;
  0xa438; 0x1cd2; 0xa438; 0xd700; 0xa438; 0x5fba; 0xa438; 0x0c03; 0xa438; 0x1502; 0xa438; 0xa702;
  0xa438; 0x9503; 0xa438; 0xa00a; 0xa438; 0xa1a0; 0xa438; 0xa480; 0xa438; 0xa686; 0xa438; 0xd705;
  0xa438; 0x605e; 0xa438; 0xa302; 0xa438; 0x9503; 0xa438; 0xd700; 0xa438; 0x37c9; 0xa438; 0x86c9;
  0xa438; 0x33a9; 0xa438; 0x86c5; 0xa438; 0xd178; 0xa438; 0xd04b; 0xa438; 0x1800; 0xa438; 0x115d;
  0xa438; 0xd1c8; 0xa438; 0xd04b; 0xa438; 0x1800; 0xa438; 0x115d; 0xa438; 0xd1e6; 0xa438; 0xd04b;
  0xa438; 0x1800; 0xa438; 0x115d; 0xa438; 0xd71f; 0xa438; 0x6080; 0xa438; 0xd704; 0xa438; 0x1800;
  0xa438; 0x1bc0; 0xa438; 0x1800; 0xa438; 0x1bc4; 0xa438; 0x4134; 0xa438; 0xd115; 0xa438; 0xd04f;
  0xa438; 0x1000; 0xa438; 0x1d0b; 0xa438; 0x1000; 0xa438; 0x893a; 0xa438; 0x1800; 0xa438; 0x01f2;
  0xa438; 0x1000; 0xa438; 0x1d0b; 0xa438; 0x1000; 0xa438; 0x893a; 0xa438; 0x1800; 0xa438; 0x01f9;
  0xa438; 0x2969; 0xa438; 0x86e9; 0xa438; 0xd700; 0xa438; 0x606b; 0xa438; 0xd701; 0xa438; 0x60b4;
  0xa438; 0x1000; 0xa438; 0x893a; 0xa438; 0x1800; 0xa438; 0x0551; 0xa438; 0xd196; 0xa438; 0xd04d;
  0xa438; 0x1000; 0xa438; 0x893a; 0xa438; 0x1000; 0xa438; 0x1cd2; 0xa438; 0xd700; 0xa438; 0x5fba;
  0xa438; 0x8802; 0xa438; 0xcd22; 0xa438; 0xd17a; 0xa438; 0xd05a; 0xa438; 0xa501; 0xa438; 0x1000;
  0xa438; 0x1cd2; 0xa438; 0xd701; 0xa438; 0x5fbd; 0xa438; 0x8501; 0xa438; 0xa502; 0xa438; 0x1000;
  0xa438; 0x1cd2; 0xa438; 0xd702; 0xa438; 0x5fbe; 0xa438; 0x0c03; 0xa438; 0x1502; 0xa438; 0x8380;
  0xa438; 0x9503; 0xa438; 0xd403; 0xa438; 0x1000; 0xa438; 0x1cc8; 0xa438; 0x8502; 0xa438; 0x0c03;
  0xa438; 0x1502; 0xa438; 0x8a80; 0xa438; 0x9503; 0xa438; 0xd40c; 0xa438; 0x1000; 0xa438; 0x1cc8;
  0xa438; 0xd707; 0xa438; 0x428f; 0xa438; 0xd700; 0xa438; 0x60cf; 0xa438; 0x60f1; 0xa438; 0x6113;
  0xa438; 0x6135; 0xa438; 0x6157; 0xa438; 0xf00b; 0xa438; 0xce06; 0xa438; 0xf01d; 0xa438; 0xce06;
  0xa438; 0xf01b; 0xa438; 0xce06].

Definition phy_mcu_ram_code_8127a_1_p2 : list Z := [
  0xa438; 0xf019; 0xa438; 0xce06; 0xa438; 0xf017; 0xa438; 0xce06; 0xa438; 0xf015; 0xa438; 0xce06;
  0xa438; 0xf013; 0xa438; 0xd700; 0xa438; 0x60cf; 0xa438; 0x60f1; 0xa438; 0x6113; 0xa438; 0x6135;
  0xa438; 0x6157; 0xa438; 0xf00b; 0xa438; 0xce02; 0xa438; 0xf00a; 0xa438; 0xce02; 0xa438; 0xf008;
  0xa438; 0xce01; 0xa438; 0xf006; 0xa438; 0xce01; 0xa438; 0xf004; 0xa438; 0xce01; 0xa438; 0xf002;
  0xa438; 0xce01; 0xa438; 0x1000; 0xa438; 0x1ce7; 0xa438; 0xa340; 0xa438; 0x1000; 0xa438; 0x1d47;
  0xa438; 0xa110; 0xa438; 0x1000; 0xa438; 0x1cef; 0xa438; 0x8110; 0xa438; 0x1000; 0xa438; 0x1d50;
  0xa438; 0xa304; 0xa438; 0xa440; 0xa438; 0xa8c0; 0xa438; 0xd707; 0xa438; 0x40cf; 0xa438; 0x0c03;
  0xa438; 0x1502; 0xa438; 0x8d07; 0xa438; 0x9503; 0xa438; 0xa00a; 0xa438; 0xa120; 0xa438; 0xa310;
  0xa438; 0x0ca0; 0xa438; 0x0480; 0xa438; 0xd700; 0xa438; 0x2969; 0xa438; 0x05b7; 0xa438; 0x60a4;
  0xa438; 0xd704; 0xa438; 0x407d; 0xa438; 0xa308; 0xa438; 0xf002; 0xa438; 0x8308; 0xa438; 0x0c03;
  0xa438; 0x1502; 0xa438; 0x0c60; 0xa438; 0x0340; 0xa438; 0x9503; 0xa438; 0xcd23; 0xa438; 0xd162;
  0xa438; 0xd048; 0xa438; 0x1000; 0xa438; 0x1cd2; 0xa438; 0xd700; 0xa438; 0x5fba; 0xa438; 0x8840;
  0xa438; 0xd1c4; 0xa438; 0xd045; 0xa438; 0x1000; 0xa438; 0x1cd2; 0xa438; 0xd700; 0xa438; 0x5fba;
  0xa438; 0xd706; 0xa438; 0x6327; 0xa438; 0xd700; 0xa438; 0x5f3b; 0xa438; 0x88c0; 0xa438; 0x800a;
  0xa438; 0x8120; 0xa438; 0x8358; 0xa438; 0x8308; 0xa438; 0x84a0; 0xa438; 0x0c03; 0xa438; 0x1502;
  0xa438; 0x8360; 0xa438; 0x9503; 0xa438; 0xd707; 0xa438; 0x2f7d; 0xa438; 0x86f7; 0xa438; 0xd17a;
  0xa438; 0xd05a; 0xa438; 0xa501; 0xa438; 0x1000; 0xa438; 0x1cd2; 0xa438; 0xd701; 0xa438; 0x5fbd;
  0xa438; 0x8501; 0xa438; 0xff8b; 0xa438; 0x1000; 0xa438; 0x1cd2; 0xa438; 0xd71f; 0xa438; 0x5fb4;
  0xa438; 0xb920; 0xa438; 0xcd24; 0xa438; 0x1000; 0xa438; 0x1cd2; 0xa438; 0xd71f; 0xa438; 0x7fb4;
  0xa438; 0x9920; 0xa438; 0x9a20; 0xa438; 0x1000; 0xa438; 0x1cd2; 0xa438; 0xd71f; 0xa438; 0x6065;
  0xa438; 0x5f94; 0xa438; 0xffd9; 0xa438; 0xb820; 0xa438; 0x1000; 0xa438; 0x1cd2; 0xa438; 0xd71f;
  0xa438; 0x7fa5; 0xa438; 0x9820; 0xa438; 0x800a; 0xa438; 0x8120; 0xa438; 0x1000; 0xa438; 0x1d47;
  0xa438; 0xa108; 0xa438; 0x1000; 0xa438; 0x1cef; 0xa438; 0x8108; 0xa438; 0x1000; 0xa438; 0x1d50;
  0xa438; 0xd700; 0xa438; 0x2969; 0xa438; 0x87b8; 0xa438; 0x6144; 0xa438; 0xd704; 0xa438; 0x60bd;
  0xa438; 0xd707; 0xa438; 0x417f; 0xa438; 0x4140; 0xa438; 0xf006; 0xa438; 0x82fc; 0xa438; 0xa201;
  0xa438; 0xf007; 0xa438; 0xa2fc; 0xa438; 0xf005; 0xa438; 0x0cfc; 0xa438; 0x02bc; 0xa438; 0xf002;
  0xa438; 0xa2fc; 0xa438; 0xa304; 0xa438; 0x8880; 0xa438; 0x0cc0; 0xa438; 0x0440; 0xa438; 0xcd25;
  0xa438; 0xd700; 0xa438; 0x2969; 0xa438; 0x87d7; 0xa438; 0x6224; 0xa438; 0xd704; 0xa438; 0x605d;
  0xa438; 0xf004; 0xa438; 0xd704; 0xa438; 0x613b; 0xa438; 0xf00b; 0xa438; 0xd700; 0xa438; 0x2969;
  0xa438; 0x87d7; 0xa438; 0x60eb; 0xa438; 0xd707; 0xa438; 0x40bf; 0xa438; 0x4080; 0xa438; 0x8310;
  0xa438; 0x1000; 0xa438; 0x1d15; 0xa438; 0xd700; 0xa438; 0x60cf; 0xa438; 0x60f1; 0xa438; 0x6113;
  0xa438; 0x6135; 0xa438; 0x6157; 0xa438; 0xf00b; 0xa438; 0xce06; 0xa438; 0xf00a; 0xa438; 0xce06;
  0xa438; 0xf008; 0xa438; 0xce06; 0xa438; 0xf006; 0xa438; 0xce06; 0xa438; 0xf004; 0xa438; 0xce06;
  0xa438; 0xf002; 0xa438; 0xce06; 0xa438; 0x1000; 0xa438; 0x1ce7; 0xa438; 0x0c03; 0xa438; 0x1502;
  0xa438; 0x8c07; 0xa438; 0x0c07; 0xa438; 0x0d03; 0xa438; 0xd700; 0xa438; 0x2969; 0xa438; 0x87f9;
  0xa438; 0x60c4; 0xa438; 0xd704; 0xa438; 0x409d; 0xa438; 0x8b0f; 0xa438; 0x8c38; 0xa438; 0xf003;
  0xa438; 0xab07; 0xa438; 0xac38; 0xa438; 0x0c07; 0xa438; 0x0d03; 0xa438; 0x9503; 0xa438; 0xa810;
  0xa438; 0xa00a; 0xa438; 0xa120; 0xa438; 0xd700; 0xa438; 0x2969; 0xa438; 0x8807; 0xa438; 0x6064;
  0xa438; 0xd704; 0xa438; 0x607d; 0xa438; 0xa4a0; 0xa438; 0xa605; 0xa438; 0xd17a; 0xa438; 0xd049;
  0xa438; 0xd700; 0xa438; 0x2969; 0xa438; 0x8819; 0xa438; 0x6164; 0xa438; 0xd704; 0xa438; 0x413d;
  0xa438; 0xa00a; 0xa438; 0xa120; 0xa438; 0xd704; 0xa438; 0x407b; 0xa438; 0x8310; 0xa438; 0xf002;
  0xa438; 0xa310; 0xa438; 0xa403; 0xa438; 0x1000; 0xa438; 0x1cd2; 0xa438; 0x1000; 0xa438; 0x1d2b;
  0xa438; 0xd700; 0xa438; 0x409a; 0xa438; 0xd706; 0xa438; 0x4046; 0xa438; 0xf014; 0xa438; 0xd704;
  0xa438; 0x6055; 0xa438; 0xfff5; 0xa438; 0x1000; 0xa438; 0x1d47; 0xa438; 0x800a; 0xa438; 0x8120;
  0xa438; 0x8310; 0xa438; 0xa380; 0xa438; 0x1000; 0xa438; 0x1cd2; 0xa438; 0x1000; 0xa438; 0x1d2b;
  0xa438; 0xd705; 0xa438; 0x5f77; 0xa438; 0x8380; 0xa438; 0x1000; 0xa438; 0x1d50; 0xa438; 0xffdd;
  0xa438; 0x0c03; 0xa438; 0x1502; 0xa438; 0x8b0f; 0xa438; 0x8c38; 0xa438; 0x8d38; 0xa438; 0x9503;
  0xa438; 0xcd26; 0xa438; 0xd704; 0xa438; 0x63d1; 0xa438; 0xd700; 0xa438; 0x2969; 0xa438; 0x8858;
  0xa438; 0x37c9; 0xa438; 0x8855; 0xa438; 0x33a9; 0xa438; 0x884d; 0xa438; 0xd705; 0xa438; 0x6084;
  0xa438; 0xd18a; 0xa438; 0xd04b; 0xa438; 0xf014; 0xa438; 0xd14c; 0xa438; 0xd04b; 0xa438; 0xf011;
  0xa438; 0xd705; 0xa438; 0x6084; 0xa438; 0xd17a; 0xa438; 0xd04b; 0xa438; 0xf00c; 0xa438; 0xd15c;
  0xa438; 0xd04b; 0xa438; 0xf009; 0xa438; 0xd1c6; 0xa438; 0xd04b; 0xa438; 0xf006; 0xa438; 0xd1b7;
  0xa438; 0xd04a; 0xa438; 0xf003; 0xa438; 0xd1c4; 0xa438; 0xd046; 0xa438; 0xd700; 0xa438; 0x2969;
  0xa438; 0x886b; 0xa438; 0x6164; 0xa438; 0xd704; 0xa438; 0x413d; 0xa438; 0xa00a; 0xa438; 0xa120;
  0xa438; 0xd704; 0xa438; 0x407b; 0xa438; 0x8310; 0xa438; 0xf002; 0xa438; 0xa310; 0xa438; 0xa403;
  0xa438; 0x1000; 0xa438; 0x1cd2; 0xa438; 0x1000; 0xa438; 0x1d2b; 0xa438; 0xd700; 0xa438; 0x409a;
  0xa438; 0xd706; 0xa438; 0x4048; 0xa438; 0xf014; 0xa438; 0xd704; 0xa438; 0x6055; 0xa438; 0xfff5;
  0xa438; 0x1000; 0xa438; 0x1d47; 0xa438; 0x800a; 0xa438; 0x8120; 0xa438; 0x8310; 0xa438; 0xa380;
  0xa438; 0x1000; 0xa438; 0x1cd2; 0xa438; 0x1000; 0xa438; 0x1d2b; 0xa438; 0xd705; 0xa438; 0x5f77;
  0xa438; 0x8380; 0xa438; 0x1000; 0xa438; 0x1d50; 0xa438; 0xffdd; 0xa438; 0x0c03; 0xa438; 0x1502;
  0xa438; 0x0c07; 0xa438; 0x0d01; 0xa438; 0x9503; 0xa438; 0xd700; 0xa438; 0x60cf; 0xa438; 0x60f1;
  0xa438; 0x6113; 0xa438; 0x6135; 0xa438; 0x6157; 0xa438; 0xf00b; 0xa438; 0xce08; 0xa438; 0xf00a;
  0xa438; 0xce08; 0xa438; 0xf008; 0xa438; 0xce08; 0xa438; 0xf006; 0xa438; 0xce08; 0xa438; 0xf004;
  0xa438; 0xce08; 0xa438; 0xf002; 0xa438; 0xce08; 0xa438; 0x1000; 0xa438; 0x1ce7; 0xa438; 0xa180;
  0xa438; 0xcd27; 0xa438; 0xd704; 0xa438; 0x6331; 0xa438; 0xd700; 0xa438; 0x37c9; 0xa438; 0x88b9;
  0xa438; 0x33a9; 0xa438; 0x88b1; 0xa438; 0xd705; 0xa438; 0x6084; 0xa438; 0xd17a; 0xa438; 0xd04a;
  0xa438; 0xf011; 0xa438; 0xd13d; 0xa438; 0xd04a; 0xa438; 0xf00e; 0xa438; 0xd705; 0xa438; 0x6084;
  0xa438; 0xd1b7; 0xa438; 0xd049; 0xa438; 0xf009; 0xa438; 0xd17a; 0xa438; 0xd049; 0xa438; 0xf006;
  0xa438; 0xd17a; 0xa438; 0xd04a; 0xa438; 0xf003; 0xa438; 0xd128; 0xa438; 0xd044; 0xa438; 0xd13b;
  0xa438; 0xd055; 0xa438; 0xd700; 0xa438; 0x2969; 0xa438; 0x88ce; 0xa438; 0x6164; 0xa438; 0xd704;
  0xa438; 0x413d; 0xa438; 0xa00a; 0xa438; 0xa1a0; 0xa438; 0xd704; 0xa438; 0x407b; 0xa438; 0x8310;
  0xa438; 0xf002; 0xa438; 0xa310; 0xa438; 0xa403; 0xa438; 0x1000; 0xa438; 0x1cd2; 0xa438; 0x1000;
  0xa438; 0x1d2b; 0xa438; 0xd700; 0xa438; 0x405b; 0xa438; 0xf014; 0xa438; 0xd704; 0xa438; 0x6055;
  0xa438; 0xfff7; 0xa438; 0x1000; 0xa438; 0x1d47; 0xa438; 0x800a; 0xa438; 0x81a0; 0xa438; 0x8310;
  0xa438; 0xa380; 0xa438; 0x1000; 0xa438; 0x1cd2; 0xa438; 0x1000; 0xa438; 0x1d2b; 0xa438; 0xd705;
  0xa438; 0x5f77; 0xa438; 0x8380; 0xa438; 0x1000; 0xa438; 0x1d50; 0xa438; 0xffdf; 0xa438; 0xa302;
  0xa438; 0xd700; 0xa438; 0x2969; 0xa438; 0x0740; 0xa438; 0x6184; 0xa438; 0xd704; 0xa438; 0x415d;
  0xa438; 0xa00a; 0xa438; 0xa1a0; 0xa438; 0xd704; 0xa438; 0x407b; 0xa438; 0x8310; 0xa438; 0xf002;
  0xa438; 0xa310; 0xa438; 0xa302; 0xa438; 0xa403; 0xa438; 0x1000; 0xa438; 0x1cd2; 0xa438; 0x1000;
  0xa438; 0x1d2b; 0xa438; 0xd700; 0xa438; 0x409a; 0xa438; 0xd706; 0xa438; 0x4048; 0xa438; 0xf014;
  0xa438; 0xd704; 0xa438; 0x6055; 0xa438; 0xfff5; 0xa438; 0x1000; 0xa438; 0x1d47; 0xa438; 0x800a;
  0xa438; 0x81a0; 0xa438; 0x8312; 0xa438; 0xa380; 0xa438; 0x1000; 0xa438; 0x1cd2; 0xa438; 0x1000;
  0xa438; 0x1d2b; 0xa438; 0xd705; 0xa438; 0x5f77; 0xa438; 0x8380; 0xa438; 0x1000; 0xa438; 0x1d50;
  0xa438; 0xffdc; 0xa438; 0x0c03; 0xa438; 0x1502; 0xa438; 0x0c0f; 0xa438; 0x0b02; 0xa438; 0x0c38;
  0xa438; 0x0c10; 0xa438; 0x9503; 0xa438; 0xcd28; 0xa438; 0xd704; 0xa438; 0x6331; 0xa438; 0xd700;
  0xa438; 0x37c9; 0xa438; 0x8933; 0xa438; 0x33a9; 0xa438; 0x892b; 0xa438; 0xd705; 0xa438; 0x6084;
  0xa438; 0xd199; 0xa438; 0xd04a; 0xa438; 0xf011; 0xa438; 0xd13d; 0xa438; 0xd04a; 0xa438; 0xf00e;
  0xa438; 0xd705; 0xa438; 0x6084; 0xa438; 0xd17a; 0xa438; 0xd04a; 0xa438; 0xf009; 0xa438; 0xd13d;
  0xa438; 0xd04a; 0xa438; 0xf006; 0xa438; 0xd199; 0xa438; 0xd04a; 0xa438; 0xf003; 0xa438; 0xd128;
  0xa438; 0xd044; 0xa438; 0x1800; 0xa438; 0x0776; 0xa438; 0xd208; 0xa438; 0x0c09; 0xa438; 0x1301;
  0xa438; 0x1000; 0xa438; 0x1cd2; 0xa438; 0xd701; 0xa438; 0x5fa3; 0xa438; 0xb302; 0xa438; 0xd200;
  0xa438; 0x0800; 0xa438; 0xd705; 0xa438; 0x6064; 0xa438; 0x1800; 0xa438; 0x140a; 0xa438; 0x8810;
  0xa438; 0xd199; 0xa438; 0xd04b; 0xa438; 0x1000; 0xa438; 0x1cd2; 0xa438; 0xd700; 0xa438; 0x5fba;
  0xa438; 0x1800; 0xa438; 0x140a; 0xa438; 0x8910; 0xa438; 0xd704; 0xa438; 0x61a8; 0xa438; 0x8480;
  0xa438; 0x8604; 0xa438; 0x8302; 0xa438; 0x81a0; 0xa438; 0xd703; 0xa438; 0x4112; 0xa438; 0x0c03;
  0xa438; 0x1502; 0xa438; 0xa990; 0xa438; 0x9503; 0xa438; 0xb904; 0xa438; 0xf002; 0xa438; 0x0000;
  0xa438; 0x0800; 0xa436; 0xA10E; 0xa438; 0x1de8; 0xa436; 0xA10C; 0xa438; 0x1352; 0xa436; 0xA10A;
  0xa438; 0x0545; 0xa436; 0xA108; 0xa438; 0x01ed; 0xa436; 0xA106; 0xa438; 0x1bbf; 0xa436; 0xA104;
  0xa438; 0x114b; 0xa436; 0xA102; 0xa438; 0x14bf; 0xa436; 0xA100; 0xa438; 0x07ce; 0xa436; 0xA110;
  0xa438; 0x00ff; 0xa436; 0xA016; 0xa438; 0x0020; 0xa436; 0xA012; 0xa438; 0x1ff8; 0xa436; 0xA014;
  0xa438; 0x0000; 0xa438; 0x0000; 0xa438; 0x0000; 0xa438; 0x0000; 0xa438; 0x0000; 0xa438; 0x0000;
  0xa438; 0x0000; 0xa438; 0x0000; 0xa436; 0xA164; 0xa438; 0x143d; 0xa436; 0xA166; 0xa438; 0x14d7;
  0xa436; 0xA168; 0xa438; 0x3fff; 0xa436; 0xA16A; 0xa438; 0x3fff; 0xa436; 0xA16C; 0xa438; 0x3fff;
  0xa436; 0xA16E; 0xa438; 0x3fff; 0xa436; 0xA170; 0xa438; 0x3fff; 0xa436; 0xA172; 0xa438; 0x3fff;
  0xa436; 0xA162; 0xa438; 0x0003; 0xa436; 0xb87c; 0xa438; 0x8994; 0xa436; 0xb87e; 0xa438; 0xaf89;
  0xa438; 0xacaf; 0xa438; 0x89e8; 0xa438; 0xaf89; 0xa438; 0xf0af; 0xa438; 0x8a08; 0xa438; 0xaf8a;
  0xa438; 0x32af; 0xa438; 0x8a4e; 0xa438; 0xaf8d; 0xa438; 0x44af; 0xa438; 0x8de9; 0xa438; 0x1f55;
  0xa438; 0xe18f; 0xa438; 0xe3a1; 0xa438; 0x000b; 0xa438; 0xee8f; 0xa438; 0xd700; 0xa438; 0xee86;
  0xa438; 0xe900; 0xa438; 0xaf4f; 0xa438; 0x9ead; 0xa438; 0x281b; 0xa438; 0xe18f; 0xa438; 0xfcef;
  0xa438; 0x71bf; 0xa438; 0x74f6; 0xa438; 0x027e; 0xa438; 0xd2ef; 0xa438; 0x641c; 0xa438; 0x670d;
  0xa438; 0x67ef; 0xa438; 0x461f; 0xa438; 0x00bf; 0xa438; 0x74f6; 0xa438; 0x027e; 0xa438; 0xdee1;
  0xa438; 0x8fe3; 0xa438; 0x0d11; 0xa438; 0xe58f; 0xa438; 0xe313; 0xa438; 0xaec6; 0xa438; 0x028d;
  0xa438; 0xfbd3; 0xa438; 0x01af; 0xa438; 0x40d1; 0xa438; 0xbf7a; 0xa438; 0x6102; 0xa438; 0x7d44;
  0xa438; 0xa100; 0xa438; 0x09e0; 0xa438; 0x8ffa; 0xa438; 0xe18f; 0xa438; 0xfbaf; 0xa438; 0x683d;
  0xa438; 0x027f; 0xa438; 0xa9af; 0xa438; 0x682c; 0xa438; 0xbf8e; 0xa438; 0x6b02; 0xa438; 0x7d44;
  0xa438; 0xe58f; 0xa438; 0xecbf; 0xa438; 0x74cc; 0xa438; 0x027d; 0xa438; 0x44e3; 0xa438; 0x8fed;
  0xa438; 0x0d31; 0xa438; 0xf63f; 0xa438; 0x0d11; 0xa438; 0xf62f; 0xa438; 0x1b13; 0xa438; 0xad2f;
  0xa438; 0x06bf; 0xa438; 0x8e6b; 0xa438; 0x027c; 0xa438; 0xf9d1; 0xa438; 0x01af; 0xa438; 0x5974;
  0xa438; 0xee88; 0xa438; 0x8600; 0xa438; 0xe08f; 0xa438; 0xebad; 0xa438; 0x200b; 0xa438; 0xe18f;
  0xa438; 0xecbf; 0xa438; 0x8e6b; 0xa438; 0x027d; 0xa438; 0x25ae; 0xa438; 0x04ee; 0xa438; 0x8feb;
  0xa438; 0x01af; 0xa438; 0x5945; 0xa438; 0xad28; 0xa438; 0x2ce0; 0xa438; 0x8fea; 0xa438; 0xa000;
  0xa438; 0x0502; 0xa438; 0x8af4; 0xa438; 0xae1e; 0xa438; 0xa001; 0xa438; 0x0502; 0xa438; 0x8ba3;
  0xa438; 0xae16; 0xa438; 0xa002; 0xa438; 0x0502; 0xa438; 0x8c13; 0xa438; 0xae0e; 0xa438; 0xa003;
  0xa438; 0x0502; 0xa438; 0x8c9f; 0xa438; 0xae06; 0xa438; 0xa004; 0xa438; 0x0302; 0xa438; 0x8d1b;
  0xa438; 0xaf63; 0xa438; 0x8902; 0xa438; 0x8a83; 0xa438; 0xaf63; 0xa438; 0x81f8; 0xa438; 0xef49;
  0xa438; 0xf8e0; 0xa438; 0x8015; 0xa438; 0xad21; 0xa438; 0x19bf; 0xa438; 0x7bd8; 0xa438; 0x027c;
  0xa438; 0xf9bf; 0xa438; 0x7bf3; 0xa438; 0x027d; 0xa438; 0x44bf; 0xa438; 0x7bf6; 0xa438; 0x027c;
  0xa438; 0xf902; 0xa438; 0x638e; 0xa438; 0xee8f; 0xa438; 0xea00; 0xa438; 0xe080; 0xa438; 0x16ad;
  0xa438; 0x233d; 0xa438; 0xbf7b; 0xa438; 0xf302; 0xa438; 0x7d44; 0xa438; 0xbf7a; 0xa438; 0x9402;
  0xa438; 0x7cf9; 0xa438; 0xbf8e; 0xa438; 0x6e02; 0xa438; 0x7cf9; 0xa438; 0xbf7a; 0xa438; 0xa602;
  0xa438; 0x7cf9; 0xa438; 0xbf7a; 0xa438; 0xa302; 0xa438; 0x7cf9; 0xa438; 0xbf7a; 0xa438; 0xa902;
  0xa438; 0x7cf9; 0xa438; 0xbf7a; 0xa438; 0xac02; 0xa438; 0x7cf9; 0xa438; 0xbf8e; 0xa438; 0x7102;
  0xa438; 0x7cf9; 0xa438; 0xbf8e; 0xa438; 0x7402; 0xa438; 0x7cf9; 0xa438; 0x0263; 0xa438; 0x8eee;
  0xa438; 0x8fea; 0xa438; 0x00bf; 0xa438; 0x7c02; 0xa438; 0x027c; 0xa438; 0xf9fc; 0xa438; 0xef94;
  0xa438; 0xfc04; 0xa438; 0xf8f9; 0xa438; 0xfbef; 0xa438; 0x79fb; 0xa438; 0xe080; 0xa438; 0x15ac;
  0xa438; 0x2103; 0xa438; 0xaf8b; 0xa438; 0x74ee; 0xa438; 0x8888; 0xa438; 0x00ee; 0xa438; 0x888a;
  0xa438; 0x00ee; 0xa438; 0x888b; 0xa438; 0x00bf; 0xa438; 0x7bd8; 0xa438; 0x027d; 0xa438; 0x02bf;
  0xa438; 0x6000; 0xa438; 0xd788; 0xa438; 0x881f; 0xa438; 0x44d4; 0xa438; 0x000c; 0xa438; 0x0273;
  0xa438; 0x3b02; 0xa438; 0x7fa9; 0xa438; 0xac28; 0xa438; 0x05ac; 0xa438; 0x290d; 0xa438; 0xae18;
  0xa438; 0xe188; 0xa438; 0x98bf; 0xa438; 0x7be1; 0xa438; 0x027d; 0xa438; 0x25ae; 0xa438; 0x18e1;
  0xa438; 0x8898; 0xa438; 0x0d11; 0xa438; 0xbf7b; 0xa438; 0xe102; 0xa438; 0x7d25; 0xa438; 0xae0b;
  0xa438; 0xe188; 0xa438; 0x980d; 0xa438; 0x12bf; 0xa438; 0x7be1; 0xa438; 0x027d; 0xa438; 0x25bf;
  0xa438; 0x88a0; 0xa438; 0xda19; 0xa438; 0xdb19; 0xa438; 0xd819; 0xa438; 0xd91f; 0xa438; 0x77bf;
  0xa438; 0x88b1; 0xa438; 0xde19; 0xa438; 0xdf19; 0xa438; 0xdc19; 0xa438; 0xdd19; 0xa438; 0x17a7;
  0xa438; 0x0004; 0xa438; 0xf302; 0xa438; 0x63cd; 0xa438; 0xee8f; 0xa438; 0xea01; 0xa438; 0xe080;
  0xa438; 0x16ad; 0xa438; 0x2319; 0xa438; 0xee88; 0xa438; 0x8800; 0xa438; 0xee88; 0xa438; 0x8a00;
  0xa438; 0xee88; 0xa438; 0x8b00; 0xa438; 0xbf8e; 0xa438; 0x6e02; 0xa438; 0x7d02; 0xa438; 0x0263;
  0xa438; 0xcdee; 0xa438; 0x8fea; 0xa438; 0x0102; 0xa438; 0x70de; 0xa438; 0xbf7c; 0xa438; 0x0202;
  0xa438; 0x7d02; 0xa438; 0xffef; 0xa438; 0x97ff; 0xa438; 0xfdfc; 0xa438; 0x04f8; 0xa438; 0xf9fa;
  0xa438; 0xef69; 0xa438; 0xfae0; 0xa438; 0x888a; 0xa438; 0xe188; 0xa438; 0x8b14; 0xa438; 0xe488;
  0xa438; 0x8ae5; 0xa438; 0x888b; 0xa438; 0xbf88; 0xa438; 0x94d8; 0xa438; 0x19d9; 0xa438; 0xef64;
  0xa438; 0xe088; 0xa438; 0x8ae1; 0xa438; 0x888b; 0xa438; 0x1b46; 0xa438; 0x9f30; 0xa438; 0x1f44;
  0xa438; 0xe488; 0xa438; 0x8ae5; 0xa438; 0x888b; 0xa438; 0xe080; 0xa438; 0x15ad; 0xa438; 0x211a;
  0xa438; 0x0260; 0xa438; 0xece0; 0xa438; 0x8016; 0xa438; 0xad23; 0xa438; 0x1602; 0xa438; 0x7c86;
  0xa438; 0xef47; 0xa438; 0xe48f; 0xa438; 0xe9e5; 0xa438; 0x8fe8; 0xa438; 0xee8f; 0xa438; 0xea02;
  0xa438; 0xae0b; 0xa438; 0x028c; 0xa438; 0x32ae; 0xa438; 0x0602; 0xa438; 0x8c02; 0xa438; 0x0270;
  0xa438; 0xdefe; 0xa438; 0xef96; 0xa438; 0xfefd; 0xa438; 0xfc04; 0xa438; 0xf8e1; 0xa438; 0x8888;
  0xa438; 0x11e5; 0xa438; 0x8888; 0xa438; 0xad2a; 0xa438; 0x04ee; 0xa438; 0x8888; 0xa438; 0x00fc;
  0xa438; 0x04f8; 0xa438; 0xfafb; 0xa438; 0xe08f; 0xa438; 0xe9e1; 0xa438; 0x8fe8; 0xa438; 0xef64;
  0xa438; 0x1f00; 0xa438; 0xe18f; 0xa438; 0xe6ef; 0xa438; 0x7402; 0xa438; 0x7ca1; 0xa438; 0xad50;
  0xa438; 0x0302; 0xa438; 0x8c32; 0xa438; 0xfffe; 0xa438; 0xfc04; 0xa438; 0xf8fa; 0xa438; 0xef69;
  0xa438; 0xfbe0; 0xa438; 0x8fd6; 0xa438; 0xac20; 0xa438; 0x55bf; 0xa438; 0x7bf3; 0xa438; 0x027d;
  0xa438; 0x44ac; 0xa438; 0x284c; 0xa438; 0x0264; 0xa438; 0x1cbf; 0xa438; 0x8e71; 0xa438; 0x027d;
  0xa438; 0x02bf; 0xa438; 0x8e74; 0xa438; 0x027d; 0xa438; 0x02d1; 0xa438; 0x43b1; 0xa438; 0xfebf;
  0xa438; 0x7aa6; 0xa438; 0x027c; 0xa438; 0xf9bf; 0xa438; 0x7aa3; 0xa438; 0x027c; 0xa438; 0xf9bf;
  0xa438; 0x7aa9; 0xa438; 0x027c; 0xa438; 0xf9bf; 0xa438; 0x7aac; 0xa438; 0x027d; 0xa438; 0x02d1;
  0xa438; 0x80e0; 0xa438; 0x8888; 0xa438; 0x100e; 0xa438; 0x11b0; 0xa438; 0xfcbf; 0xa438; 0x7a94;
  0xa438; 0x027d; 0xa438; 0x2502; 0xa438; 0x7c86; 0xa438; 0xef47; 0xa438; 0xe48f; 0xa438; 0xe9e5;
  0xa438; 0x8fe8; 0xa438; 0xee8f; 0xa438; 0xea03; 0xa438; 0xae07; 0xa438; 0xee8f; 0xa438; 0xea01;
  0xa438; 0x0270; 0xa438; 0xdeff; 0xa438; 0xef96; 0xa438; 0xfefc; 0xa438; 0x04f8; 0xa438; 0xf9fa;
  0xa438; 0xfbef; 0xa438; 0x79fb; 0xa438; 0xbf7b; 0xa438; 0xf302; 0xa438; 0x7d44; 0xa438; 0xac28;
  0xa438; 0x2bbf; 0xa438; 0x7a94; 0xa438; 0x027d; 0xa438; 0x44ef; 0xa438; 0x21bf; 0xa438; 0x7ab8;
  0xa438; 0x027d; 0xa438; 0x441f; 0xa438; 0x219e; 0xa438; 0x19e0; 0xa438; 0x8fe9; 0xa438; 0xe18f;
  0xa438; 0xe8ef; 0xa438; 0x641f; 0xa438; 0x00e1; 0xa438; 0x8fe4; 0xa438; 0xef74; 0xa438; 0x027c;
  0xa438; 0xa1ad; 0xa438; 0x503d; 0xa438; 0xee8f; 0xa438; 0xe701; 0xa438; 0xbf7a; 0xa438; 0x9402;
  0xa438; 0x7cf9; 0xa438; 0xbf7a; 0xa438; 0xa602; 0xa438; 0x7cf9; 0xa438; 0xbf7a; 0xa438; 0xa302;
  0xa438; 0x7cf9; 0xa438; 0xbf7a; 0xa438; 0xa902; 0xa438; 0x7cf9; 0xa438; 0xbf7a; 0xa438; 0xac02;
  0xa438; 0x7d02; 0xa438; 0xbf8e; 0xa438; 0x7102; 0xa438; 0x7cf9; 0xa438; 0xbf8e; 0xa438; 0x7402;
  0xa438; 0x7cf9; 0xa438; 0x027c; 0xa438; 0x86ef; 0xa438; 0x47e4; 0xa438; 0x8fe9; 0xa438; 0xe58f;
  0xa438; 0xe8ee; 0xa438; 0x8fea; 0xa438; 0x04ff; 0xa438; 0xef97; 0xa438; 0xfffe; 0xa438; 0xfdfc;
  0xa438; 0x04f8; 0xa438; 0xfafb; 0xa438; 0xe08f; 0xa438; 0xe9e1; 0xa438; 0x8fe8; 0xa438; 0xef64;
  0xa438; 0x1f00; 0xa438; 0xe18f; 0xa438; 0xe5ef; 0xa438; 0x7402; 0xa438; 0x7ca1; 0xa438; 0xad50;
  0xa438; 0x0d02; 0xa438; 0x638e; 0xa438; 0x028c; 0xa438; 0x02ee; 0xa438; 0x8fea; 0xa438; 0x0102;
  0xa438; 0x70de; 0xa438; 0xfffe; 0xa438; 0xfc04; 0xa438; 0xe38f; 0xa438; 0xd7a3; 0xa438; 0x000a;
  0xa438; 0xe387; 0xa438; 0x75e7; 0xa438; 0x8fd8; 0xa438; 0xee8f; 0xa438; 0xd701; 0xa438; 0xe38f;
  0xa438; 0xd8e7; 0xa438; 0x8775; 0xa438; 0xe48f; 0xa438; 0xe1e5; 0xa438; 0x8fe2; 0xa438; 0xbf8f;
  0xa438; 0xd9ef; 0xa438; 0x320c; 0xa438; 0x311a; 0xa438; 0x93dc; 0xa438; 0x19dd; 0xa438; 0x027f;
  0xa438; 0xa9ac; 0xa438; 0x2a18; 0xa438; 0xe08f; 0xa438; 0xe1e1; 0xa438; 0x8fe2; 0xa438; 0xef74;
  0xa438; 0xe187; 0xa438; 0x751f; 0xa438; 0x00ef; 0xa438; 0x64e1; 0xa438; 0x8fd8; 0xa438; 0xe587;
  0xa438; 0x75af; 0xa438; 0x4d72; 0xa438; 0xbf7b; 0xa438; 0x3cef; 0xa438; 0x324b; 0xa438; 0x031a;
  0xa438; 0x9302; 0xa438; 0x7d44; 0xa438; 0xef64; 0xa438; 0xe18f; 0xa438; 0xff1f; 0xa438; 0x00ef;
  0xa438; 0x741b; 0xa438; 0x67ac; 0xa438; 0x4fce; 0xa438; 0xe08f; 0xa438; 0xfde1; 0xa438; 0x8ffe;
  0xa438; 0xef64; 0xa438; 0xe08f; 0xa438; 0xe1e1; 0xa438; 0x8fe2; 0xa438; 0xef74; 0xa438; 0x027c;
  0xa438; 0x53ac; 0xa438; 0x5002; 0xa438; 0xaeb6; 0xa438; 0xe187; 0xa438; 0x751f; 0xa438; 0x00ef;
  0xa438; 0x64e1; 0xa438; 0x8ffc; 0xa438; 0xef71; 0xa438; 0x1c67; 0xa438; 0x0d67; 0xa438; 0xef46;
  0xa438; 0xe587; 0xa438; 0x75ef; 0xa438; 0x32d1; 0xa438; 0x01a3; 0xa438; 0x0002; 0xa438; 0xae05;
  0xa438; 0x0c11; 0xa438; 0x83ae; 0xa438; 0xf6e0; 0xa438; 0x8fe3; 0xa438; 0x1e10; 0xa438; 0xe58f;
  0xa438; 0xe3ae; 0xa438; 0x89bf; 0xa438; 0x7bf3; 0xa438; 0x027d; 0xa438; 0x44e5; 0xa438; 0x8fd6;
  0xa438; 0xad28; 0xa438; 0x03af; 0xa438; 0x606b; 0xa438; 0xaf60; 0xa438; 0xa0f8; 0xa438; 0xf9ef;
  0xa438; 0x59fa; 0xa438; 0xfbbf; 0xa438; 0x8fee; 0xa438; 0x027f; 0xa438; 0xa90d; 0xa438; 0x1149;
  0xa438; 0x041a; 0xa438; 0x91d7; 0xa438; 0x8e1d; 0xa438; 0xd68e; 0xa438; 0x4d02; 0xa438; 0x72aa;
  0xa438; 0xfffe; 0xa438; 0xef95; 0xa438; 0xfdfc; 0xa438; 0x0400; 0xa438; 0x7591; 0xa438; 0x0275;
  0xa438; 0x4404; 0xa438; 0x758e; 0xa438; 0x2675; 0xa438; 0x4100; 0xa438; 0x8e50; 0xa438; 0x028e;
  0xa438; 0x4d04; 0xa438; 0x759d; 0xa438; 0x2675; 0xa438; 0x4700; 0xa438; 0x8e5c; 0xa438; 0x028e;
  0xa438; 0x5904; 0xa438; 0x8e56; 0xa438; 0x268e; 0xa438; 0x5300; 0xa438; 0x8e68; 0xa438; 0x028e;
  0xa438; 0x6504; 0xa438; 0x8e62; 0xa438; 0x268e; 0xa438; 0x5ffe; 0xa438; 0xad96; 0xa438; 0xdcad;
  0xa438; 0x96ba; 0xa438; 0xad96; 0xa438; 0x98ad; 0xa438; 0x9676; 0xa438; 0xad98; 0xa438; 0x54ad;
  0xa438; 0x9876; 0xa438; 0xae38; 0xa438; 0x54ae; 0xa438; 0x38fe; 0xa438; 0xae3a; 0xa438; 0xdcae;
  0xa438; 0x3abb; 0xa438; 0xbf14; 0xa438; 0x99bd; 0xa438; 0xe0cc; 0xa438; 0xbdc8; 0xa438; 0xddbd;
  0xa438; 0xc800; 0xa436; 0xb85e; 0xa438; 0x4f9a; 0xa436; 0xb860; 0xa438; 0x40cf; 0xa436; 0xb862;
  0xa438; 0x6829; 0xa436; 0xb864; 0xa438; 0x5972; 0xa436; 0xb886; 0xa438; 0x5941; 0xa436; 0xb888;
  0xa438; 0x636b; 0xa436; 0xb88a; 0xa438; 0x4d6b; 0xa436; 0xb88c; 0xa438; 0x6062; 0xa436; 0xb838;
  0xa438; 0x00ff; 0xb820; 0x0010; 0xa436; 0x8608; 0xa438; 0xaf86; 0xa438; 0xdaaf; 0xa438; 0x894c;
  0xa438; 0xaf8a; 0xa438; 0xf8af; 0xa438; 0x8bf3; 0xa438; 0xaf8b; 0xa438; 0xf3af; 0xa438; 0x8bf3;
  0xa438; 0xaf8b; 0xa438; 0xf3af; 0xa438; 0x8bf3; 0xa438; 0x006f; 0xa438; 0x4a03; 0xa438; 0x6f47;
  0xa438; 0x266f; 0xa438; 0x5900; 0xa438; 0x6f4d; 0xa438; 0x016f; 0xa438; 0x5004; 0xa438; 0x6f56;
  0xa438; 0x056f; 0xa438; 0x5f06; 0xa438; 0x6f5c; 0xa438; 0x2774; 0xa438; 0x7800; 0xa438; 0x6f68;
  0xa438; 0x246f; 0xa438; 0x6b20; 0xa438; 0x6f6e; 0xa438; 0x206f; 0xa438; 0x7410; 0xa438; 0x7469;
  0xa438; 0x1074; 0xa438; 0x6c10; 0xa438; 0x746f; 0xa438; 0x1074; 0xa438; 0x7225; 0xa438; 0x8bfc;
  0xa438; 0x008c; 0xa438; 0x0802; 0xa438; 0x8c02; 0xa438; 0x038b; 0xa438; 0xff04; 0xa438; 0x6eed;
  0xa438; 0x278c; 0xa438; 0x0520; 0xa438; 0x74da; 0xa438; 0x2074; 0xa438; 0xdd20; 0xa438; 0x74e0;
  0xa438; 0x0074; 0xa438; 0xe300; 0xa438; 0x6ef3; 0xa438; 0x006e; 0xa438; 0xf600; 0xa438; 0x6ef9;
  0xa438; 0x006e; 0xa438; 0xfc00; 0xa438; 0x6eff; 0xa438; 0x006f; 0xa438; 0x0200; 0xa438; 0x6f05;
  0xa438; 0x026f; 0xa438; 0x0802; 0xa438; 0x6f0b; 0xa438; 0x026f; 0xa438; 0x0e02; 0xa438; 0x6f11;
  0xa438; 0x026f; 0xa438; 0x1402; 0xa438; 0x6f17; 0xa438; 0x226f; 0xa438; 0x1a00; 0xa438; 0x723e;
  0xa438; 0x016e; 0xa438; 0xed24; 0xa438; 0x6f50; 0xa438; 0x0072; 0xa438; 0x4701; 0xa438; 0x724a;
  0xa438; 0x0272; 0xa438; 0x4d23; 0xa438; 0x7250; 0xa438; 0x1074; 0xa438; 0x6910; 0xa438; 0x746c;
  0xa438; 0x1074; 0xa438; 0x6f00; 0xa438; 0x7472; 0xa438; 0x158c; 0xa438; 0x0b15; 0xa438; 0x8c0e;
  0xa438; 0x158c; 0xa438; 0x1105; 0xa438; 0x8c14; 0xa438; 0x006f; 0xa438; 0x4a03; 0xa438; 0x6f47;
  0xa438; 0x266f; 0xa438; 0x5900; 0xa438; 0x731f; 0xa438; 0x0273; 0xa438; 0x2203; 0xa438; 0x8c08;
  0xa438; 0xee84; 0xa438; 0x7100; 0xa438; 0x0286; 0xa438; 0xece0; 0xa438; 0x8043; 0xa438; 0xf626;
  0xa438; 0xe480; 0xa438; 0x43af; 0xa438; 0x6611; 0xa438; 0xf8e0; 0xa438; 0x8012; 0xa438; 0xac26;
  0xa438; 0x03af; 0xa438; 0x86ff; 0xa438; 0x0287; 0xa438; 0x0102; 0xa438; 0x8906; 0xa438; 0x0289;
  0xa438; 0x29fc; 0xa438; 0x04f8; 0xa438; 0xf9ef; 0xa438; 0x59f9; 0xa438; 0xfaee; 0xa438; 0x8476;
  0xa438; 0x00d6; 0xa438; 0x008f; 0xa438; 0x0266; 0xa438; 0x53ef; 0xa438; 0x643e; 0xa438; 0x1200;
  0xa438; 0xac4f; 0xa438; 0x08e4; 0xa438; 0x8fe7; 0xa438; 0xe58f; 0xa438; 0xe8ae; 0xa438; 0x06e0;
  0xa438; 0x8fe7; 0xa438; 0xe18f; 0xa438; 0xe8ee; 0xa438; 0x8476; 0xa438; 0x01d6; 0xa438; 0x00c0;
  0xa438; 0x0266; 0xa438; 0x71ee; 0xa438; 0x8476; 0xa438; 0x00d6; 0xa438; 0x0090; 0xa438; 0x0266;
  0xa438; 0x53ef; 0xa438; 0x643e; 0xa438; 0x1200; 0xa438; 0xac4f; 0xa438; 0x08e4; 0xa438; 0x8fe9;
  0xa438; 0xe58f; 0xa438; 0xeaae; 0xa438; 0x06e0; 0xa438; 0x8fe9; 0xa438; 0xe18f; 0xa438; 0xeaee;
  0xa438; 0x8476; 0xa438; 0x01d6; 0xa438; 0x00c1; 0xa438; 0x0266; 0xa438; 0x71ee; 0xa438; 0x8476;
  0xa438; 0x00d6; 0xa438; 0x0091; 0xa438; 0x0266; 0xa438; 0x53ef; 0xa438; 0x643e; 0xa438; 0x1200;
  0xa438; 0xac4f; 0xa438; 0x08e4; 0xa438; 0x8feb; 0xa438; 0xe58f; 0xa438; 0xecae; 0xa438; 0x06e0;
  0xa438; 0x8feb; 0xa438; 0xe18f; 0xa438; 0xecee; 0xa438; 0x8476; 0xa438; 0x01d6; 0xa438; 0x00c2;
  0xa438; 0x0266; 0xa438; 0x71ee; 0xa438; 0x8476; 0xa438; 0x01d6; 0xa438; 0x008f; 0xa438; 0x0266;
  0xa438; 0x53ef; 0xa438; 0x643e; 0xa438; 0x1200; 0xa438; 0xac4f; 0xa438; 0x08e4; 0xa438; 0x8fed;
  0xa438; 0xe58f; 0xa438; 0xeeae; 0xa438; 0x06e0; 0xa438; 0x8fed; 0xa438; 0xe18f; 0xa438; 0xeeee;
  0xa438; 0x8476; 0xa438; 0x02d6; 0xa438; 0x00c0; 0xa438; 0x0266; 0xa438; 0x71ee; 0xa438; 0x8476;
  0xa438; 0x01d6; 0xa438; 0x0090; 0xa438; 0x0266; 0xa438; 0x53ef; 0xa438; 0x643e; 0xa438; 0x1200;
  0xa438; 0xac4f; 0xa438; 0x08e4; 0xa438; 0x8fef; 0xa438; 0xe58f; 0xa438; 0xf0ae; 0xa438; 0x06e0;
  0xa438; 0x8fef; 0xa438; 0xe18f; 0xa438; 0xf0ee; 0xa438; 0x8476; 0xa438; 0x02d6; 0xa438; 0x00c1;
  0xa438; 0x0266; 0xa438; 0x71ee; 0xa438; 0x8476; 0xa438; 0x01d6; 0xa438; 0x0091; 0xa438; 0x0266;
  0xa438; 0x53ef; 0xa438; 0x643e; 0xa438; 0x1200; 0xa438; 0xac4f; 0xa438; 0x08e4; 0xa438; 0x8ff1;
  0xa438; 0xe58f; 0xa438; 0xf2ae; 0xa438; 0x06e0; 0xa438; 0x8ff1; 0xa438; 0xe18f; 0xa438; 0xf2ee;
  0xa438; 0x8476; 0xa438; 0x02d6; 0xa438; 0x00c2; 0xa438; 0x0266; 0xa438; 0x71ee; 0xa438; 0x8476;
  0xa438; 0x02d6; 0xa438; 0x008f; 0xa438; 0x0266; 0xa438; 0x53ef; 0xa438; 0x643e; 0xa438; 0x1200;
  0xa438; 0xac4f; 0xa438; 0x08e4; 0xa438; 0x8ff3; 0xa438; 0xe58f; 0xa438; 0xf4ae; 0xa438; 0x06e0;
  0xa438; 0x8ff3; 0xa438; 0xe18f; 0xa438; 0xf4ee; 0xa438; 0x8476; 0xa438; 0x04d6; 0xa438; 0x00c0;
  0xa438; 0x0266; 0xa438; 0x71ee; 0xa438; 0x8476; 0xa438; 0x02d6; 0xa438; 0x0090; 0xa438; 0x0266;
  0xa438; 0x53ef; 0xa438; 0x643e; 0xa438; 0x1200; 0xa438; 0xac4f; 0xa438; 0x08e4; 0xa438; 0x8ff5;
  0xa438; 0xe58f; 0xa438; 0xf6ae; 0xa438; 0x06e0; 0xa438; 0x8ff5; 0xa438; 0xe18f; 0xa438; 0xf6ee;
  0xa438; 0x8476; 0xa438; 0x04d6; 0xa438; 0x00c1; 0xa438; 0x0266; 0xa438; 0x71ee; 0xa438; 0x8476;
  0xa438; 0x02d6; 0xa438; 0x0091; 0xa438; 0x0266; 0xa438; 0x53ef; 0xa438; 0x643e; 0xa438; 0x1200;
  0xa438; 0xac4f; 0xa438; 0x08e4; 0xa438; 0x8ff7; 0xa438; 0xe58f; 0xa438; 0xf8ae; 0xa438; 0x06e0;
  0xa438; 0x8ff7; 0xa438; 0xe18f; 0xa438; 0xf8ee; 0xa438; 0x8476; 0xa438; 0x04d6; 0xa438; 0x00c2;
  0xa438; 0x0266; 0xa438; 0x71ee; 0xa438; 0x8476; 0xa438; 0x03d6; 0xa438; 0x008f; 0xa438; 0x0266;
  0xa438; 0x53ef; 0xa438; 0x643e; 0xa438; 0x1200; 0xa438; 0xac4f; 0xa438; 0x08e4; 0xa438; 0x8ff9;
  0xa438; 0xe58f; 0xa438; 0xfaae; 0xa438; 0x06e0; 0xa438; 0x8ff9; 0xa438; 0xe18f; 0xa438; 0xfaee;
  0xa438; 0x8476; 0xa438; 0x08d6; 0xa438; 0x00c0; 0xa438; 0x0266; 0xa438; 0x71ee; 0xa438; 0x8476;
  0xa438; 0x03d6; 0xa438; 0x0090; 0xa438; 0x0266; 0xa438; 0x53ef; 0xa438; 0x643e; 0xa438; 0x1200;
  0xa438; 0xac4f; 0xa438; 0x08e4; 0xa438; 0x8ffb; 0xa438; 0xe58f; 0xa438; 0xfcae; 0xa438; 0x06e0;
  0xa438; 0x8ffb; 0xa438; 0xe18f; 0xa438; 0xfcee; 0xa438; 0x8476; 0xa438; 0x08d6; 0xa438; 0x00c1;
  0xa438; 0x0266; 0xa438; 0x71ee; 0xa438; 0x8476; 0xa438; 0x03d6; 0xa438; 0x0091; 0xa438; 0x0266;
  0xa438; 0x53ef; 0xa438; 0x643e; 0xa438; 0x1200; 0xa438; 0xac4f; 0xa438; 0x08e4; 0xa438; 0x8ffd;
  0xa438; 0xe58f; 0xa438; 0xfeae; 0xa438; 0x06e0; 0xa438; 0x8ffd; 0xa438; 0xe18f; 0xa438; 0xfeee;
  0xa438; 0x8476; 0xa438; 0x08d6; 0xa438; 0x00c2; 0xa438; 0x0266; 0xa438; 0x71fe; 0xa438; 0xfdef;
  0xa438; 0x95fd; 0xa438; 0xfc04; 0xa438; 0xf8f9; 0xa438; 0xfad4; 0xa438; 0x0400; 0xa438; 0xd600;
  0xa438; 0x0dd3; 0xa438; 0x0fe7; 0xa438; 0x8476; 0xa438; 0x0266; 0xa438; 0x71d4; 0xa438; 0x1400;
  0xa438; 0xd600; 0xa438; 0x0dd3; 0xa438; 0x0fe7; 0xa438; 0x8476; 0xa438; 0x0266; 0xa438; 0x71fe;
  0xa438; 0xfdfc; 0xa438; 0x04f8; 0xa438; 0xf9fa; 0xa438; 0xd410; 0xa438; 0x00d6; 0xa438; 0x000d;
  0xa438; 0xd30f; 0xa438; 0xe784; 0xa438; 0x7602; 0xa438; 0x6671; 0xa438; 0xd400; 0xa438; 0x00d6;
  0xa438; 0x000d; 0xa438; 0xd30f; 0xa438; 0xe784; 0xa438; 0x7602; 0xa438; 0x6671; 0xa438; 0xfefd;
  0xa438; 0xfc04; 0xa438; 0xe080; 0xa438; 0x4fac; 0xa438; 0x2317; 0xa438; 0xe080; 0xa438; 0x44ad;
  0xa438; 0x231a; 0xa438; 0x0289; 0xa438; 0x75e0; 0xa438; 0x8044; 0xa438; 0xac23; 0xa438; 0x11bf;
  0xa438; 0x6ecf; 0xa438; 0x0276; 0xa438; 0x74ae; 0xa438; 0x0902; 0xa438; 0x8adb; 0xa438; 0x021f;
  0xa438; 0xe702; 0xa438; 0x1fbb; 0xa438; 0xaf1f; 0xa438; 0x95f8; 0xa438; 0xf9ef; 0xa438; 0x59f9;
  0xa438; 0xfafb; 0xa438; 0xe080; 0xa438; 0x12ac; 0xa438; 0x2303; 0xa438; 0xaf8a; 0xa438; 0xd0d4;
  0xa438; 0x0120; 0xa438; 0xd600; 0xa438; 0x10d2; 0xa438; 0x0fe6; 0xa438; 0x8476; 0xa438; 0x0266;
  0xa438; 0x71ee; 0xa438; 0x846f; 0xa438; 0x00d4; 0xa438; 0x000f; 0xa438; 0xbf72; 0xa438; 0x9e02;
  0xa438; 0x7697; 0xa438; 0x0275; 0xa438; 0xbeef; 0xa438; 0x47e4; 0xa438; 0x8474; 0xa438; 0xe584;
  0xa438; 0x75bf; 0xa438; 0x729b; 0xa438; 0x0276; 0xa438; 0xb6e5; 0xa438; 0x846f; 0xa438; 0xef31;
  0xa438; 0xbf6e; 0xa438; 0x0602; 0xa438; 0x76b6; 0xa438; 0xef64; 0xa438; 0xbf6e; 0xa438; 0x0902;
  0xa438; 0x76b6; 0xa438; 0x1e64; 0xa438; 0xbf6e; 0xa438; 0x0f02; 0xa438; 0x76b6; 0xa438; 0x1e64;
  0xa438; 0xac40; 0xa438; 0x05a3; 0xa438; 0x0f0c; 0xa438; 0xae26; 0xa438; 0xa303; 0xa438; 0x02ae;
  0xa438; 0x21a3; 0xa438; 0x0c02; 0xa438; 0xae1c; 0xa438; 0xe084; 0xa438; 0x74e1; 0xa438; 0x8475;
  0xa438; 0xef64; 0xa438; 0xd000; 0xa438; 0xd196; 0xa438; 0xef74; 0xa438; 0x0275; 0xa438; 0xd9ad;
  0xa438; 0x50b7; 0xa438; 0xe083; 0xa438; 0xecf7; 0xa438; 0x23e4; 0xa438; 0x83ec; 0xa438; 0xbf72;
  0xa438; 0x9e02; 0xa438; 0x766b; 0xa438; 0x0287; 0xa438; 0x0102; 0xa438; 0x8906; 0xa438; 0xee83;
  0xa438; 0xe800; 0xa438; 0xbf72; 0xa438; 0x6b02; 0xa438; 0x766b; 0xa438; 0xbf72; 0xa438; 0x6e02;
  0xa438; 0x766b; 0xa438; 0xbf72; 0xa438; 0x7102; 0xa438; 0x766b; 0xa438; 0xbf72; 0xa438; 0x7402;
  0xa438; 0x766b; 0xa438; 0xbf72; 0xa438; 0x7702; 0xa438; 0x766b; 0xa438; 0xbf72; 0xa438; 0x7a02;
  0xa438; 0x766b; 0xa438; 0xd400; 0xa438; 0x0fbf; 0xa438; 0x7295; 0xa438; 0x0276; 0xa438; 0x97d7;
  0xa438; 0x0400; 0xa438; 0xbf6e; 0xa438; 0x0602; 0xa438; 0x76b6; 0xa438; 0xef64; 0xa438; 0xbf6e;
  0xa438; 0x0902; 0xa438; 0x76b6; 0xa438; 0x1e64; 0xa438; 0xbf6e; 0xa438; 0x0f02; 0xa438; 0x76b6;
  0xa438; 0x1e64; 0xa438; 0xac40; 0xa438; 0x0fbf; 0xa438; 0x7298; 0xa438; 0x0276; 0xa438; 0xb6e5;
  0xa438; 0x83e8; 0xa438; 0xa10f; 0xa438; 0x28af; 0xa438; 0x8a95; 0xa438; 0xbf8b; 0xa438; 0xf302;
  0xa438; 0x76b6; 0xa438; 0xac28; 0xa438; 0x02ae; 0xa438; 0x0bbf; 0xa438; 0x8bf9; 0xa438; 0x0276;
  0xa438; 0xb6e5; 0xa438; 0x83e8; 0xa438; 0xae09; 0xa438; 0xbf8b; 0xa438; 0xf602; 0xa438; 0x76b6;
  0xa438; 0xe583; 0xa438; 0xe8a1; 0xa438; 0x0303; 0xa438; 0xaf8a; 0xa438; 0x95b7; 0xa438; 0xafe2;
  0xa438; 0x83ec; 0xa438; 0xf735; 0xa438; 0xe683; 0xa438; 0xecbf; 0xa438; 0x7295; 0xa438; 0x0276;
  0xa438; 0x6bbf; 0xa438; 0x726b; 0xa438; 0x0276; 0xa438; 0x74bf; 0xa438; 0x726e; 0xa438; 0x0276;
  0xa438; 0x74bf; 0xa438; 0x7271; 0xa438; 0x0276; 0xa438; 0x74bf; 0xa438; 0x7274; 0xa438; 0x0276;
  0xa438; 0x74bf; 0xa438; 0x7277; 0xa438; 0x0276; 0xa438; 0x74bf; 0xa438; 0x727a; 0xa438; 0x0276;
  0xa438; 0x7402; 0xa438; 0x8929; 0xa438; 0xd401; 0xa438; 0x28d6; 0xa438; 0x0010; 0xa438; 0xd20f;
  0xa438; 0xe684; 0xa438; 0x7602; 0xa438; 0x6671; 0xa438; 0x021f; 0xa438; 0xbbff; 0xa438; 0xfefd;
  0xa438; 0xef95; 0xa438; 0xfdfc; 0xa438; 0x04f8; 0xa438; 0xf9ef; 0xa438; 0x59f9; 0xa438; 0xe080;
  0xa438; 0x12ad; 0xa438; 0x230c; 0xa438; 0xbf72; 0xa438; 0x9e02; 0xa438; 0x766b; 0xa438; 0xbf72;
  0xa438; 0x9502; 0xa438; 0x766b; 0xa438; 0xfdef; 0xa438; 0x95fd; 0xa438; 0xfc04; 0xa438; 0xbf6e;
  0xa438; 0x0602; 0xa438; 0x76b6; 0xa438; 0xef64; 0xa438; 0xbf6e; 0xa438; 0x0902; 0xa438; 0x76b6;
  0xa438; 0x1e64; 0xa438; 0xbf6e; 0xa438; 0x0f02; 0xa438; 0x76b6; 0xa438; 0x1e64; 0xa438; 0xac40;
  0xa438; 0x0ebf; 0xa438; 0x7298; 0xa438; 0x0276; 0xa438; 0xb6e5; 0xa438; 0x8478; 0xa438; 0xa10f;
  0xa438; 0x26ae; 0xa438; 0x47bf; 0xa438; 0x8bf3; 0xa438; 0x0276; 0xa438; 0xb6ac; 0xa438; 0x2802;
  0xa438; 0xae0b; 0xa438; 0xbf8b; 0xa438; 0xf902; 0xa438; 0x76b6; 0xa438; 0xe584; 0xa438; 0x78ae;
  0xa438; 0x09bf; 0xa438; 0x8bf6; 0xa438; 0x0276; 0xa438; 0xb6e5; 0xa438; 0x8478; 0xa438; 0xa103;
  0xa438; 0x02ae; 0xa438; 0x23e0; 0xa438; 0x8474; 0xa438; 0xe184; 0xa438; 0x75ef; 0xa438; 0x64e0;
  0xa438; 0x83fc; 0xa438; 0xe183; 0xa438; 0xfdef; 0xa438; 0x7402; 0xa438; 0x75d9; 0xa438; 0xad50;
  0xa438; 0x0ae0; 0xa438; 0x83ec; 0xa438; 0xf721; 0xa438; 0xe483; 0xa438; 0xecae; 0xa438; 0x03af;
  0xa438; 0x68e4; 0xa438; 0xbf72; 0xa438; 0x9502; 0xa438; 0x766b; 0xa438; 0xe083; 0xa438; 0xebad;
  0xa438; 0x2170; 0xa438; 0xbf73; 0xa438; 0x7f02; 0xa438; 0x766b; 0xa438; 0xd700; 0xa438; 0x64bf;
  0xa438; 0x73c4; 0xa438; 0x0276; 0xa438; 0xb6a4; 0xa438; 0x0000; 0xa438; 0x02ae; 0xa438; 0x0d87;
  0xa438; 0xa700; 0xa438; 0x00ef; 0xa438; 0xe183; 0xa438; 0xecf7; 0xa438; 0x2ae5; 0xa438; 0x83ec;
  0xa438; 0xbf73; 0xa438; 0xbe02; 0xa438; 0x766b; 0xa438; 0xbf73; 0xa438; 0xb802; 0xa438; 0x766b;
  0xa438; 0xbf73; 0xa438; 0xc102; 0xa438; 0x766b; 0xa438; 0xbf73; 0xa438; 0xbb02; 0xa438; 0x766b;
  0xa438; 0xe084; 0xa438; 0x9ee1].

Definition phy_mcu_ram_code_8127a_1_p3 : list Z := [
  0xa438; 0x849f; 0xa438; 0xbf72; 0xa438; 0x7d02; 0xa438; 0x7697; 0xa438; 0xbf72; 0xa438; 0x8002;
  0xa438; 0x7697; 0xa438; 0xbf72; 0xa438; 0x8302; 0xa438; 0x7697; 0xa438; 0xbf72; 0xa438; 0x8602;
  0xa438; 0x7697; 0xa438; 0xbf72; 0xa438; 0x8902; 0xa438; 0x7674; 0xa438; 0xbf72; 0xa438; 0x8c02;
  0xa438; 0x7674; 0xa438; 0xbf72; 0xa438; 0x8f02; 0xa438; 0x7674; 0xa438; 0xbf72; 0xa438; 0x9202;
  0xa438; 0x7674; 0xa438; 0xee84; 0xa438; 0x7700; 0xa438; 0xe080; 0xa438; 0x44f6; 0xa438; 0x21e4;
  0xa438; 0x8044; 0xa438; 0xaf68; 0xa438; 0xe411; 0xa438; 0xd1a4; 0xa438; 0x10bc; 0xa438; 0x7432;
  0xa438; 0xbc74; 0xa438; 0xbbbf; 0xa438; 0x14cc; 0xa438; 0xbfaa; 0xa438; 0x00bf; 0xa438; 0x9055;
  0xa438; 0xbf06; 0xa438; 0x10bf; 0xa438; 0xb876; 0xa438; 0xbe02; 0xa438; 0x54be; 0xa438; 0x0232;
  0xa438; 0xbe02; 0xa438; 0x10be; 0xa438; 0x0200; 0xa436; 0x8fe7; 0xa438; 0x1200; 0xa436; 0x8fe9;
  0xa438; 0x1200; 0xa436; 0x8feb; 0xa438; 0x1200; 0xa436; 0x8fed; 0xa438; 0x1200; 0xa436; 0x8fef;
  0xa438; 0x1200; 0xa436; 0x8ff1; 0xa438; 0x1200; 0xa436; 0x8ff3; 0xa438; 0x1200; 0xa436; 0x8ff5;
  0xa438; 0x1200; 0xa436; 0x8ff7; 0xa438; 0x1200; 0xa436; 0x8ff9; 0xa438; 0x1200; 0xa436; 0x8ffb;
  0xa438; 0x1200; 0xa436; 0x8ffd; 0xa438; 0x1200; 0xa436; 0xb818; 0xa438; 0x6602; 0xa436; 0xb81a;
  0xa438; 0x1f75; 0xa436; 0xb81c; 0xa438; 0x67eb; 0xa436; 0xb81e; 0xa438; 0xffff; 0xa436; 0xb850;
  0xa438; 0xffff; 0xa436; 0xb852; 0xa438; 0xffff; 0xa436; 0xb878; 0xa438; 0xffff; 0xa436; 0xb884;
  0xa438; 0xffff; 0xa436; 0xb832; 0xa438; 0x0007; 0xB82E; 0x0000; 0xa436; 0x8023; 0xa438; 0x0000;
  0xB820; 0x0000; 0xFFFF; 0xFFFF].

Definition phy_mcu_ram_code_8127a_1 : list Z :=
  phy_mcu_ram_code_8127a_1_p1 ++ phy_mcu_ram_code_8127a_1_p2 ++ phy_mcu_ram_code_8127a_1_p3.

Definition phy_mcu_ram_code_8127a_2 : list Z := [
  0xb892; 0x0000; 0xB88E; 0xc07c; 0xB890; 0x0203; 0xB890; 0x0304; 0xB890; 0x0405; 0xB890; 0x0607;
  0xB890; 0x0809; 0xB890; 0x0B0D; 0xB890; 0x0F11; 0xB890; 0x1418; 0xB890; 0x1B20; 0xB890; 0x252B;
  0xB890; 0x343E; 0xB890; 0x4854; 0xB890; 0x6203; 0xB890; 0x0304; 0xB890; 0x0506; 0xB890; 0x080A;
  0xB890; 0x0C0E; 0xB890; 0x1216; 0xB890; 0x1B22; 0xB890; 0x2A34; 0xB890; 0x404F; 0xB890; 0x6171;
  0xB890; 0x7884; 0xB890; 0x9097; 0xB890; 0x0203; 0xB890; 0x0406; 0xB890; 0x080B; 0xB890; 0x0E13;
  0xB890; 0x1820; 0xB890; 0x2A39; 0xB890; 0x4856; 0xB890; 0xE060; 0xB890; 0xE050; 0xB890; 0xD080;
  0xB890; 0x8070; 0xB890; 0x70A0; 0xB890; 0x1000; 0xB890; 0x60D0; 0xB890; 0xB010; 0xB890; 0xE0B0;
  0xB890; 0x80C0; 0xB890; 0xE000; 0xB890; 0x2020; 0xB890; 0x1020; 0xB890; 0xE090; 0xB890; 0x80C0;
  0xB890; 0x3020; 0xB890; 0x00E0; 0xB890; 0x40A0; 0xB890; 0xE020; 0xB890; 0x5060; 0xB890; 0xE0D0;
  0xB890; 0xA000; 0xB890; 0x3030; 0xB890; 0x4070; 0xB890; 0xE0E0; 0xB890; 0xD080; 0xB890; 0xA010;
  0xB890; 0xE040; 0xB890; 0x80B0; 0xB890; 0x50B0; 0xB890; 0x2090; 0xB88E; 0xC110; 0xB890; 0xE8F4;
  0xB890; 0xF4F4; 0xB88E; 0xC14E; 0xB890; 0x26EF; 0xB890; 0xEFEF; 0xB88E; 0xC374; 0xB890; 0x00FA;
  0xB890; 0x008C; 0xB890; 0x03D2; 0xB890; 0x0373; 0xB890; 0x03B9; 0xB890; 0x0006; 0xB890; 0x0013;
  0xB890; 0x03FE; 0xB890; 0x03DE; 0xB890; 0x0008; 0xB890; 0x0008; 0xB890; 0x000D; 0xB890; 0x03F3;
  0xB890; 0x0010; 0xB890; 0x000A; 0xB890; 0x000E; 0xB890; 0x03F5; 0xB890; 0x0001; 0xB890; 0x03FF;
  0xB890; 0x0000; 0xB890; 0x0005; 0xB890; 0x000A; 0xB890; 0x03F3; 0xB890; 0x0003; 0xB890; 0x03F1;
  0xB890; 0x0003; 0xB890; 0x000C; 0xB890; 0x000E; 0xB890; 0x03FA; 0xB890; 0x0007; 0xB890; 0x0008;
  0xB890; 0x0010; 0xB890; 0x03EE; 0xB890; 0x000E; 0xB890; 0x03F6; 0xB890; 0x0007; 0xB890; 0x03FC;
  0xB890; 0x000B; 0xB890; 0x03FB; 0xB890; 0x000F; 0xB890; 0x03F6; 0xB890; 0x0016; 0xB890; 0x03F9;
  0xB890; 0x03FF; 0xB890; 0x03FF; 0xB890; 0x0007; 0xB890; 0x03FD; 0xB890; 0x000D; 0xB890; 0x03FE;
  0xB890; 0x0003; 0xB890; 0x03F1; 0xB890; 0x000B; 0xB890; 0x0000; 0xB890; 0x0012; 0xB890; 0x03FD;
  0xB890; 0x03FC; 0xB890; 0x0004; 0xB890; 0x000F; 0xB890; 0x03EF; 0xB890; 0x03F9; 0xB890; 0x000D;
  0xB890; 0x0002; 0xB890; 0x000C; 0xB890; 0x0003; 0xB890; 0x0069; 0xB890; 0x0064; 0xB890; 0x004F;
  0xB890; 0x001E; 0xB890; 0x03ED; 0xB890; 0x03DC; 0xB890; 0x03BC; 0xB890; 0x03D1; 0xB890; 0x03C5;
  0xB890; 0x03E4; 0xB890; 0x03EA; 0xB890; 0x03FF; 0xB890; 0x03FA; 0xB890; 0x0007; 0xB890; 0x03FF;
  0xB890; 0x03E5; 0xB890; 0x03FA; 0xB890; 0x03F1; 0xB890; 0x03F8; 0xB890; 0x03EF; 0xB890; 0x0007;
  0xB890; 0x0002; 0xB890; 0x0016; 0xB890; 0x0001; 0xB890; 0x000A; 0xB890; 0x03F6; 0xB890; 0x0000;
  0xB890; 0x03F7; 0xB890; 0x0004; 0xB890; 0x0002; 0xB890; 0x0010; 0xB890; 0x0004; 0xB890; 0x03FD;
  0xB890; 0x03F2; 0xB890; 0x03EE; 0xB890; 0x03FA; 0xB890; 0x03F1; 0xB890; 0x03FE; 0xB890; 0x03FB;
  0xB890; 0x0008; 0xB890; 0x03EE; 0xB890; 0x000F; 0xB890; 0x03F0; 0xB890; 0x000F; 0xB890; 0x03F3;
  0xB890; 0x0004; 0xB890; 0x03F3; 0xB890; 0x0003; 0xB890; 0x03F5; 0xB890; 0x03FE; 0xB890; 0x03F5;
  0xB890; 0x0008; 0xB890; 0x03F7; 0xB890; 0x000A; 0xB890; 0x03F9; 0xB890; 0x0000; 0xB890; 0x03FB;
  0xB890; 0x000C; 0xB890; 0x03EC; 0xB890; 0x03FB; 0xB890; 0x03EE; 0xB890; 0x000E; 0xB890; 0x03F5;
  0xB890; 0x0007; 0xB88E; 0xC128; 0xB890; 0xF0F0; 0xB890; 0xF0EB; 0xB88E; 0xC166; 0xB890; 0xEAEA;
  0xB890; 0xEA0E; 0xB820; 0x0000; 0xFFFF; 0xFFFF].

(** ** MAC *)

Definition mcu_patch_code_8127a_tc : list Z := [
  0xE010; 0xE019; 0xE01B; 0xE01D; 0xE029; 0xE02C; 0xE0E1; 0xE192; 0xE194; 0xE196; 0xE198; 0xE19A;
  0xE19C; 0xE19E; 0xE1A0; 0xE1A2; 0xC008; 0x7100; 0x4897; 0x9900; 0xC005; 0xC602; 0xBE00; 0x3D8E;
  0xD428; 0xD400; 0xC602; 0xBE00; 0x0000; 0xC502; 0xBD00; 0x0000; 0x48C3; 0x4847; 0x48C1; 0x8CF8;
  0x74F8; 0x74F8; 0x74F8; 0x4842; 0x8CF8; 0x1E10; 0xC502; 0xBD00; 0x14BA; 0x1E10; 0xC502; 0xBD00;
  0x14EE; 0xC643; 0x76C0; 0x49E1; 0xF13F; 0xC140; 0x7720; 0x49E0; 0xF003; 0x1B00; 0xE00A; 0x49E2;
  0xF003; 0x1B04; 0xE006; 0x49E4; 0xF003; 0x1B08; 0xE002; 0x1B0C; 0x21B8; 0x1A0E; 0x44DA; 0xE893;
  0x481C; 0xE884; 0xE001; 0x49E0; 0xF003; 0x1B00; 0xE00A; 0x49E2; 0xF003; 0x1B04; 0xE006; 0x49E4;
  0xF003; 0x1B08; 0xE002; 0x1B0C; 0x21B8; 0x1A12; 0x44DA; 0xE87F; 0x481F; 0xE870; 0xE001; 0x49E0;
  0xF003; 0x1B00; 0xE00A; 0x49E2; 0xF003; 0x1B04; 0xE006; 0x49E4; 0xF003; 0x1B08; 0xE002; 0x1B0C;
  0x21B8; 0x1A1C; 0x44DA; 0xE86B; 0x481F; 0xE85C; 0xE004; 0xE04F; 0xDD98; 0xD450; 0x49E0; 0xF003;
  0x1B00; 0xE00A; 0x49E2; 0xF003; 0x1B04; 0xE006; 0x49E4; 0xF003; 0x1B08; 0xE002; 0x1B0C; 0x21B8;
  0x1A0E; 0x44DA; 0xE854; 0x489E; 0x481F; 0xE844; 0xE001; 0x1908; 0xE83E; 0x49E0; 0xF003; 0x1B00;
  0xE00A; 0x49E2; 0xF003; 0x1B04; 0xE006; 0x49E4; 0xF003; 0x1B08; 0xE002; 0x1B0C; 0x21B8; 0x1A8A;
  0x44DA; 0xE83D; 0x4813; 0xE82E; 0x49F9; 0xF106; 0x4838; 0xE837; 0x4813; 0xE828; 0xE001; 0x49E0;
  0xF003; 0x1B00; 0xE00A; 0x49E2; 0xF003; 0x1B04; 0xE006; 0x49E4; 0xF003; 0x1B08; 0xE002; 0x1B0C;
  0x21B8; 0x1A84; 0x44DA; 0xE823; 0x4890; 0x4811; 0xE813; 0x49F9; 0xF106; 0x4838; 0xE81C; 0x4890;
  0x4811; 0xE80C; 0xC207; 0x7440; 0xC602; 0xBE00; 0x14CC; 0x0FFE; 0xDE20; 0xE092; 0xC3FD; 0xE802;
  0xFF80; 0xC0FB; 0x7202; 0x49AE; 0xF1FE; 0x9900; 0x44D3; 0x4413; 0x482F; 0x9A02; 0x7202; 0x49AE;
  0xF1FE; 0xFF80; 0xC0EE; 0x7202; 0x49AE; 0xF1FE; 0x44D3; 0x4413; 0x48AF; 0x9A02; 0x7202; 0x49AE;
  0xF1FE; 0x7100; 0xFF80; 0xB401; 0xB402; 0xB404; 0xB407; 0xC61F; 0x76C0; 0x49E1; 0xF164; 0xC11C;
  0x7720; 0x1906; 0xE88A; 0x1B0C; 0x21B8; 0x1A40; 0x44DA; 0xE895; 0x4810; 0xE886; 0x190C; 0xE881;
  0x1B08; 0x21B8; 0x1A26; 0x44DA; 0xE88C; 0x4890; 0x4891; 0xE87C; 0x49F9; 0xF107; 0x4898; 0x4899;
  0xE877; 0xE003; 0xDD98; 0xD450; 0x1908; 0xE86F; 0x49E0; 0xF003; 0x1B00; 0xE00A; 0x49E2; 0xF003;
  0x1B04; 0xE006; 0x49E2; 0xF003; 0x1B08; 0xE002; 0x1B0C; 0x21B8; 0x1A5C; 0x44DA; 0xE86E; 0x4897;
  0x4898; 0x4819; 0x481A; 0xE85C; 0x49F9; 0xF109; 0x4838; 0xE865; 0x4897; 0x4898; 0x4819; 0x481A;
  0xE853; 0xE001; 0x190A; 0xE84D; 0x1B00; 0xE85B; 0x44E1; 0x4838; 0xE858; 0x44E9; 0x1908; 0xE845;
  0x49E0; 0xF003; 0x1B00; 0xE00A; 0x49E2; 0xF003; 0x1B04; 0xE006; 0x49E4; 0xF003; 0x1B08; 0xE002;
  0x1B0C; 0x21B8; 0x1A86; 0x44DA; 0xE844; 0x44CC; 0xE835; 0x49F9; 0xF108; 0x4838; 0xE83E; 0x44CD;
  0xE82F; 0xE003; 0xE021; 0xFFC0; 0x190A; 0xE827; 0x1B00; 0x4839; 0xE834; 0x249A; 0x1C00; 0x44E1;
  0x1909; 0xE81F; 0x49E0; 0xF003; 0x1B00; 0xE00A; 0x49E2; 0xF003; 0x1B04; 0xE006; 0x49E4; 0xF003;
  0x1B08; 0xE002; 0x1B0C; 0x21B8; 0x1A1A; 0x44DA; 0xE81E; 0xC5E4; 0x414D; 0x418C; 0xE80D; 0xB007;
  0xB004; 0xB002; 0xB001; 0xC602; 0xBE00; 0x14B2; 0x0FFE; 0xDE20; 0xC3FE; 0xE802; 0xFF80; 0xC0FC;
  0x7202; 0x49AE; 0xF1FE; 0x9900; 0x44D3; 0x4413; 0x482F; 0x9A02; 0x7202; 0x49AE; 0xF1FE; 0xFF80;
  0xC0EF; 0x7202; 0x49AE; 0xF1FE; 0x44D3; 0x4413; 0x48AF; 0x9A02; 0x7202; 0x49AE; 0xF1FE; 0x7100;
  0xFF80; 0xC502; 0xBD00; 0x0000; 0xC502; 0xBD00; 0x0000; 0xC502; 0xBD00; 0x0000; 0xC302; 0xBB00;
  0x0000; 0xC602; 0xBE00; 0x0000; 0xC102; 0xB900; 0x0000; 0xC102; 0xB900; 0x0000; 0xC602; 0xBE00;
  0x0000; 0xC602; 0xBE00; 0x0000; 0x1332; 0x0018; 0x0C05; 0x140D].

Definition mcu_patch_code_8127a_1 : list Z := [
  0xE010; 0xE023; 0xE036; 0xE049; 0xE05C; 0xE075; 0xE0B1; 0xE117; 0xE11B; 0xE1F7; 0xE1F9; 0xE297;
  0xE299; 0xE29B; 0xE29D; 0xE29F; 0x7020; 0xB405; 0xB404; 0xC50F; 0x74A0; 0xC50E; 0x4025; 0xF005;
  0x4850; 0x4025; 0xF002; 0xE002; 0x4809; 0xB004; 0xB005; 0xC502; 0xBD00; 0x1522; 0xD006; 0x0004;
  0x7760; 0xB405; 0xB404; 0xC50F; 0x74A0; 0xC50E; 0x4025; 0xF005; 0x4850; 0x4025; 0xF002; 0xE002;
  0x4879; 0xB004; 0xB005; 0xC002; 0xB800; 0x41E2; 0xD006; 0x0004; 0x7160; 0xB405; 0xB404; 0xC50F;
  0x74A0; 0xC50E; 0x4025; 0xF005; 0x4850; 0x4025; 0xF002; 0xE002; 0x4819; 0xB004; 0xB005; 0xC302;
  0xBB00; 0x508E; 0xD006; 0x0004; 0x7720; 0xB405; 0xB404; 0xC50F; 0x74A0; 0xC50E; 0x4025; 0xF005;
  0x4850; 0x4025; 0xF002; 0xE002; 0x4879; 0xB004; 0xB005; 0xC102; 0xB900; 0x50F8; 0xD006; 0x0004;
  0x61A9; 0xB403; 0xB404; 0xC313; 0x7460; 0xC312; 0x4023; 0xF005; 0x4830; 0x4023; 0xF002; 0xE003;
  0x4997; 0xF003; 0xC00A; 0xE002; 0xC009; 0xB004; 0xB003; 0xC102; 0xB900; 0x34FC; 0xD006; 0x0004;
  0x02AF; 0x041F; 0xB407; 0xB406; 0xB405; 0xB404; 0xB403; 0xB402; 0xB401; 0xB400; 0x49D2; 0xF116;
  0xC62F; 0x77C0; 0x49F9; 0xF020; 0x49FA; 0xF11E; 0x49F2; 0xF102; 0xE01B; 0x48F2; 0x9FC0; 0xC625;
  0x75C2; 0x4852; 0x9DC2; 0xC122; 0x7020; 0x4801; 0x4802; 0x9820; 0xE00F; 0xC61A; 0x77C0; 0x49F2;
  0xF10B; 0xC618; 0x77C0; 0x49F2; 0xF007; 0x48F2; 0x9FC0; 0xC611; 0x75C2; 0x48D2; 0x9DC2; 0xB000;
  0xB001; 0xB002; 0xB003; 0xB004; 0xB005; 0xB006; 0xB007; 0x9D6C; 0xC502; 0xBD00; 0x0168; 0xE024;
  0xC010; 0xD410; 0xD460; 0xB407; 0xB406; 0xB405; 0xB404; 0xB403; 0xB402; 0xB401; 0xB400; 0xC152;
  0x7020; 0x4981; 0xF043; 0xC050; 0x7100; 0xB401; 0xC14C; 0x489E; 0x481D; 0x9900; 0xC24A; 0x7340;
  0x49B7; 0xF135; 0xC144; 0x9900; 0xC245; 0x7340; 0xC447; 0x401C; 0xF109; 0x734C; 0x1301; 0xF12B;
  0xC343; 0x9B40; 0xC33E; 0x9B40; 0xE022; 0xC63A; 0x77C0; 0x48F4; 0x48F5; 0x48F9; 0x48FA; 0x9FC0;
  0xC231; 0x7344; 0x48B4; 0x9B44; 0xC22E; 0x7340; 0x4830; 0x48B1; 0x4832; 0x483C; 0x48BD; 0x48BE;
  0x48BF; 0x9B40; 0xC223; 0xC32A; 0x9B48; 0xC327; 0x9B46; 0xC324; 0x9B40; 0xC321; 0x9B42; 0xC31E;
  0x9B40; 0xE005; 0xC113; 0x7020; 0x4881; 0x9820; 0xB001; 0xC010; 0x9900; 0xB000; 0xB001; 0xB002;
  0xB003; 0xB004; 0xB005; 0xB006; 0xB007; 0x2125; 0xC102; 0xB900; 0x1A6C; 0xD410; 0xC000; 0xE86C;
  0xB600; 0xB800; 0xB40A; 0xE024; 0x5A00; 0x5A81; 0x0073; 0x5A80; 0x0042; 0x0001; 0xC104; 0xC202;
  0xBA00; 0x1A2E; 0xC896; 0xB400; 0xB401; 0xB402; 0xB403; 0xB404; 0xB405; 0xB406; 0xB407; 0xC11F;
  0xC21F; 0x9A24; 0xC21B; 0x9A26; 0xE83B; 0x7320; 0x7422; 0xC010; 0x7200; 0x4822; 0x9A00; 0x7218;
  0x4822; 0x9A18; 0x7206; 0x4822; 0x9A06; 0x720C; 0x49C0; 0xF00D; 0x4822; 0x9A0C; 0xE00C; 0xDC46;
  0xD40C; 0xE008; 0xDEAD; 0xDE20; 0x0012; 0x3D02; 0xE8E0; 0x0168; 0x48A2; 0x9A0C; 0x49CF; 0xF058;
  0x1301; 0xF00A; 0x1302; 0xF00D; 0x1303; 0xF01B; 0x1304; 0xF01F; 0x1305; 0xF024; 0xE043; 0xE858;
  0xC7EC; 0xE863; 0xE893; 0xE048; 0xE853; 0xC7E7; 0x4878; 0xE85D; 0xE88D; 0xE042; 0xE8E0; 0xF180;
  0xBD02; 0x8FFE; 0xC000; 0xC1DF; 0x6227; 0x49A6; 0xF1FD; 0xFF80; 0xE843; 0xC7D7; 0x4879; 0xE84D;
  0xE87D; 0xE032; 0xE83D; 0xC7D1; 0x4878; 0x4879; 0xE846; 0xE876; 0xE02B; 0xC5C8; 0x76A0; 0x4868;
  0x9EA0; 0xC5C3; 0x71A0; 0xC5E7; 0x70A0; 0xC2E1; 0x9940; 0x9842; 0xC1DF; 0x9944; 0xC1DE; 0x9946;
  0xEFDF; 0x71A2; 0x70A4; 0xC2D7; 0x9940; 0x9842; 0xC16C; 0x9944; 0xC1D4; 0x9946; 0xEFD5; 0xC5AE;
  0x76A0; 0x48E8; 0x9EA0; 0xE856; 0xE00B; 0xC6A9; 0xC2C8; 0x9E40; 0x9E42; 0xC1C6; 0x9944; 0xC1C5;
  0x9946; 0xEFC6; 0xE84B; 0xB007; 0xB006; 0xB005; 0xB004; 0xB003; 0xB002; 0xB001; 0xB000; 0x1100;
  0xC202; 0xBA00; 0x1A86; 0xC694; 0xE807; 0x1D00; 0x9DC0; 0xC5B2; 0x9DC2; 0xE802; 0xFF80; 0xC18C;
  0x7222; 0x49AE; 0xF1FD; 0xFF80; 0xC687; 0x9FC2; 0xEFF9; 0x70C0; 0x0702; 0x9FC2; 0xEFF5; 0x71C0;
  0xC235; 0x9940; 0x9842; 0xC19C; 0x9944; 0xC12E; 0x9946; 0xEF9C; 0x0701; 0x9FC2; 0xEFE9; 0x70C0;
  0x0704; 0x9FC2; 0xEFE5; 0x71C0; 0xC225; 0x9940; 0x9842; 0xC123; 0x9944; 0xC11E; 0x9946; 0xEF8C;
  0x071A; 0x9FC2; 0xEFD9; 0x70C0; 0x0728; 0x9FC2; 0xEFD5; 0x71C0; 0xC215; 0x9940; 0x9842; 0xC114;
  0x9944; 0xC10E; 0x9946; 0xEF7C; 0xFF80; 0x48CF; 0xC20B; 0x9B40; 0x9C42; 0xC107; 0x9944; 0xC104;
  0x9946; 0xEF72; 0xFF80; 0xBD02; 0xF168; 0xE8E0; 0xF184; 0xF188; 0xC502; 0xBD00; 0x0000; 0xB400;
  0xB401; 0xB402; 0xB403; 0xC079; 0xC377; 0x7160; 0x9906; 0xC376; 0xE87C; 0xC073; 0x9900; 0x1906;
  0xC371; 0xE884; 0xC170; 0xC370; 0xE881; 0x1908; 0xC36B; 0xE87E; 0xC36C; 0xE86F; 0x1A88; 0x44CA;
  0xE879; 0xC367; 0x4833; 0xE869; 0x4816; 0xE874; 0xC362; 0x4838; 0xE864; 0x1A88; 0x44CA; 0xE86E;
  0xC35C; 0x4838; 0x4833; 0xE85D; 0x4816; 0xE868; 0xC357; 0xE859; 0x1A88; 0x44CA; 0xE863; 0xC352;
  0x4833; 0xE853; 0x4816; 0xE85E; 0xC34D; 0x4838; 0xE84E; 0x1A88; 0x44CA; 0xE858; 0xC347; 0x4838;
  0x4833; 0xE847; 0x4816; 0xE852; 0xC342; 0xE843; 0x1A58; 0x44CA; 0xE84D; 0xC33D; 0x4833; 0xE83D;
  0x4816; 0xE848; 0xC338; 0x4838; 0xE838; 0x1A58; 0x44CA; 0xE842; 0xC332; 0x4838; 0x4833; 0xE831;
  0x4816; 0xE83C; 0xC32D; 0xE82D; 0x1A58; 0x44CA; 0xE837; 0xC328; 0x4833; 0xE827; 0x4816; 0xE832;
  0xC323; 0x4838; 0xE822; 0x1A58; 0x44CA; 0xE82C; 0xC31D; 0x4838; 0x4833; 0xE81B; 0x4816; 0xE826;
  0xC010; 0x7100; 0xC30F; 0xE822; 0xC00C; 0x7106; 0xC309; 0x9960; 0xB003; 0xB002; 0xB001; 0xB000;
  0xC402; 0xBC00; 0x15B0; 0xDE20; 0xDD26; 0x0FFE; 0x0000; 0x6F00; 0x8086; 0x8486; 0x8886; 0x8C86;
  0xC0F7; 0x7202; 0x49AE; 0xF1FD; 0x44D3; 0x4413; 0x48AF; 0x9A02; 0x7202; 0x49AE; 0xF1FE; 0x7100;
  0xFF80; 0xC0EA; 0x7202; 0x49AE; 0xF1FD; 0x9900; 0x44D3; 0x4413; 0x482F; 0x9A02; 0x7202; 0x49AE;
  0xF1FE; 0xFF80; 0xC502; 0xBD00; 0x0000; 0xC102; 0xB900; 0x0000; 0xC102; 0xB900; 0x0000; 0xC602;
  0xBE00; 0x0000; 0xC602; 0xBE00; 0x0000; 0x6961; 0x0019; 0x0A1E; 0x0F2A].
