(* ===== verification/Rtl8127.v ===== *)
(** * r8127: the 10G driver

    src/.../realtek/r8127/ is a copy of the r8125 driver that has been changed for
    another controller.  A function whose code is the one of r8125, after the
    number in the names, up to delays and locks, and whose callees and constants
    are again the same, is here the definition of r8125 under its own name.
    What differs is defined here: the microcode of the MAC and of the PHY and
    the tuning of each chip, with the tables in [Rtl8127Code]. *)
From S2P Require Import Prelude RtlBase RtlHw RtlIrq RtlWol RtlMcu RtlRamCode RtlPhyConfig RtlChip RtlEeprom RtlFiber RtlLink RtlEee RtlConfig RtlEsd RtlProbe RtlIface RtlCable RtlTool RtlFirmware RtlRss RtlTx RtlRx Rtl8127Code.
Local Open Scope Z_scope.
Local Open Scope rtl_scope.

(** ** The code shared with r8125 *)

Section Shared.
Context {D : Type} `{HM : Mmio D}.
Definition rtl8127_mdio_direct_write_phy_ocp := rtl8125_mdio_direct_write_phy_ocp.
Definition rtl8127_mdio_real_write_phy_ocp := rtl8125_mdio_real_write_phy_ocp.
Definition rtl8127_mdio_write := rtl8125_mdio_write.
Definition rtl8127_mdio_prot_write := rtl8125_mdio_prot_write.
Definition rtl8127_mdio_prot_direct_write_phy_ocp := rtl8125_mdio_prot_direct_write_phy_ocp.
Definition rtl8127_mdio_direct_read_phy_ocp := rtl8125_mdio_direct_read_phy_ocp.
Definition rtl8127_mdio_real_read_phy_ocp := rtl8125_mdio_real_read_phy_ocp.
Definition rtl8127_mdio_read := rtl8125_mdio_read.
Definition rtl8127_mdio_prot_read := rtl8125_mdio_prot_read.
Definition rtl8127_mdio_prot_direct_read_phy_ocp := rtl8125_mdio_prot_direct_read_phy_ocp.
Definition rtl8127_clear_and_set_eth_phy_bit := rtl8125_clear_and_set_eth_phy_bit.
Definition rtl8127_clear_eth_phy_bit := rtl8125_clear_eth_phy_bit.
Definition rtl8127_set_eth_phy_bit := rtl8125_set_eth_phy_bit.
Definition rtl8127_clear_and_set_eth_phy_ocp_bit := rtl8125_clear_and_set_eth_phy_ocp_bit.
Definition rtl8127_clear_eth_phy_ocp_bit := rtl8125_clear_eth_phy_ocp_bit.
Definition rtl8127_set_eth_phy_ocp_bit := rtl8125_set_eth_phy_ocp_bit.
Definition rtl8127_mac_ocp_write := rtl8125_mac_ocp_write.
Definition rtl8127_mac_ocp_read := rtl8125_mac_ocp_read.
Definition rtl8127_clear_set_mac_ocp_bit := rtl8125_clear_set_mac_ocp_bit.
Definition rtl8127_clear_mac_ocp_bit := rtl8125_clear_mac_ocp_bit.
Definition rtl8127_set_mac_ocp_bit := rtl8125_set_mac_ocp_bit.
Definition rtl8127_eri_read_with_oob_base_address := rtl8125_eri_read_with_oob_base_address.
Definition rtl8127_eri_read := rtl8125_eri_read.
Definition rtl8127_eri_write_with_oob_base_address := rtl8125_eri_write_with_oob_base_address.
Definition rtl8127_eri_write := rtl8125_eri_write.
Definition rtl8127_ocp_read_with_oob_base_address := rtl8125_ocp_read_with_oob_base_address.
Definition rtl8127_ocp_read := rtl8125_ocp_read.
Definition rtl8127_ocp_write_with_oob_base_address := rtl8125_ocp_write_with_oob_base_address.
Definition rtl8127_ocp_write := rtl8125_ocp_write.
Definition rtl8127_oob_mutex_lock := rtl8125_oob_mutex_lock.
Definition rtl8127_oob_mutex_unlock := rtl8125_oob_mutex_unlock.
Definition rtl8127_get_dash_fw_ver := rtl8125_get_dash_fw_ver.
Definition _rtl8127_check_dash := _rtl8125_check_dash.
Definition rtl8127_check_dash := rtl8125_check_dash.
Definition rtl8127_wait_dash_fw_ready := rtl8125_wait_dash_fw_ready.
Definition rtl8127_enable_rxdvgate := rtl8125_enable_rxdvgate.
Definition rtl8127_disable_rxdvgate := rtl8125_disable_rxdvgate.
Definition rtl8127_is_gpio_low := rtl8125_is_gpio_low.
Definition rtl8127_is_phy_disable_mode_enabled := rtl8125_is_phy_disable_mode_enabled.
Definition rtl8127_is_in_phy_disable_mode := rtl8125_is_in_phy_disable_mode.
Definition rtl8127_clear_stop_all_request := rtl8125_clear_stop_all_request.
Definition rtl8127_clear_hw_isr_v2 := rtl8125_clear_hw_isr_v2.
Definition rtl8127_disable_rx_packet_filter := rtl8125_disable_rx_packet_filter.
Definition rtl8127_hw_clear_timer_int := rtl8125_hw_clear_timer_int.
Definition rtl8127_raise_clock := rtl8125_raise_clock.
Definition rtl8127_lower_clock := rtl8125_lower_clock.
Definition rtl8127_shift_out_bits := rtl8125_shift_out_bits.
Definition rtl8127_shift_in_bits := rtl8125_shift_in_bits.
Definition rtl8127_stand_by := rtl8125_stand_by.
Definition rtl8127_set_eeprom_sel_low := rtl8125_set_eeprom_sel_low.
Definition rtl8127_eeprom_cleanup := rtl8125_eeprom_cleanup.
Definition rtl8127_eeprom_cmd_done := rtl8125_eeprom_cmd_done.
Definition rtl8127_eeprom_read_sc := rtl8125_eeprom_read_sc.
Definition rtl8127_eeprom_write_sc := rtl8125_eeprom_write_sc.
Definition rtl8127_fw_format_ok := rtl8125_fw_format_ok.
Definition rtl8127_fw_data_ok := rtl8125_fw_data_ok.
Definition rtl8127_fw_request_firmware := rtl8125_fw_request_firmware.
Definition rtl8127_get_rss_hash_opts := rtl8125_get_rss_hash_opts.
Definition rtl8127_rss_indir_tbl_entries := rtl8125_rss_indir_tbl_entries.
Definition rtl8127_set_rss_hash_opt := rtl8125_set_rss_hash_opt.
Definition rtl8127_set_rxnfc := rtl8125_set_rxnfc.
Definition _rtl8127_get_rxfh_key_size := _rtl8125_get_rxfh_key_size.
Definition rtl8127_rss_key_reg := rtl8125_rss_key_reg.
Definition rtl8127_rss_indir_tbl_reg := rtl8125_rss_indir_tbl_reg.
Definition rtl8127_store_reta := rtl8125_store_reta.
Definition rtl8127_store_rss_key := rtl8125_store_rss_key.
Definition rtl8127_disable_rss := rtl8125_disable_rss.
Definition rtl8127_get_rx_desc_hash := rtl8125_get_rx_desc_hash.
Definition rtl8127_rx_hash_v3 := rtl8125_rx_hash_v3.
Definition rtl8127_rx_hash_v4 := rtl8125_rx_hash_v4.
Definition rtl8127_rx_hash := rtl8125_rx_hash.
Definition rtl8127_init_ring_indexes := rtl8125_init_ring_indexes.
Definition rtl8127_tx_desc_init := rtl8125_tx_desc_init.
Definition rtl8127_init_ring := rtl8125_init_ring.
Definition rtl8127_get_txd_opts1 := rtl8125_get_txd_opts1.
Definition rtl8127_tx_slots_avail := rtl8125_tx_slots_avail.
Definition rtl8127_fast_mod_mask := rtl8125_fast_mod_mask.
Definition rtl8127_get_l4_protocol := rtl8125_get_l4_protocol.
Definition rtl8127_skb_pad_with_len := rtl8125_skb_pad_with_len.
Definition rtl8127_skb_pad := rtl8125_skb_pad.
Definition rtl8127_rx_desc_opts1 := rtl8125_rx_desc_opts1.
Definition rtl8127_rx_desc_opts2 := rtl8125_rx_desc_opts2.
Definition rtl8127_set_desc_dma_addr := rtl8125_set_desc_dma_addr.
Definition rtl8127_mark_to_asic := rtl8125_mark_to_asic.
Definition rtl8127_mark_as_last_descriptor := rtl8125_mark_as_last_descriptor.
Definition rtl8127_fragmented_frame := rtl8125_fragmented_frame.
Definition rtl8127_is_non_eop := rtl8125_is_non_eop.
Definition rtl8127_rx_csum := rtl8125_rx_csum.
Definition rtl8127_rx_desc_init := rtl8125_rx_desc_init.
Definition rtl8127_make_unusable_by_asic := rtl8125_make_unusable_by_asic.
Definition rtl8127_enable_cfg9346_write := rtl8125_enable_cfg9346_write.
Definition rtl8127_disable_cfg9346_write := rtl8125_disable_cfg9346_write.
Definition rtl8127_enable_force_clkreq := rtl8125_enable_force_clkreq.
Definition rtl8127_enable_magic_packet := rtl8125_enable_magic_packet.
Definition rtl8127_disable_magic_packet := rtl8125_disable_magic_packet.
Definition rtl8127_enable_linkchg_wakeup := rtl8125_enable_linkchg_wakeup.
Definition rtl8127_disable_linkchg_wakeup := rtl8125_disable_linkchg_wakeup.
Definition rtl8127_get_hw_wol := rtl8125_get_hw_wol.
Definition rtl8127_set_pci_pme := rtl8125_set_pci_pme.
Definition rtl8127_disable_d0_speedup := rtl8125_disable_d0_speedup.
Definition rtl8127_issue_offset_99_event := rtl8125_issue_offset_99_event.
Definition rtl8127_disable_pci_offset_180 := rtl8125_disable_pci_offset_180.
Definition rtl8127_enable_pci_offset_180 := rtl8125_enable_pci_offset_180.
Definition rtl8127_init_pci_offset_180 := rtl8125_init_pci_offset_180.
Definition rtl8127_enable_exit_l1_mask := rtl8125_enable_exit_l1_mask.
Definition rtl8127_disable_exit_l1_mask := rtl8125_disable_exit_l1_mask.
Definition rtl8127_enable_extend_tally_couter := rtl8125_enable_extend_tally_couter.
Definition rtl8127_disable_extend_tally_couter := rtl8125_disable_extend_tally_couter.
Definition rtl8127_enable_eee_plus := rtl8125_enable_eee_plus.
Definition rtl8127_disable_eee_plus := rtl8125_disable_eee_plus.
Definition rtl8127_enable_double_vlan := rtl8125_enable_double_vlan.
Definition rtl8127_disable_double_vlan := rtl8125_disable_double_vlan.
Definition rtl8127_switch_mac_mcu_ram_code_page := rtl8125_switch_mac_mcu_ram_code_page.
Definition _rtl8127_set_hw_mcu_patch_code_ver := _rtl8125_set_hw_mcu_patch_code_ver.
Definition rtl8127_set_hw_mcu_patch_code_ver := rtl8125_set_hw_mcu_patch_code_ver.
Definition rtl8127_get_hw_mcu_patch_code_ver := rtl8125_get_hw_mcu_patch_code_ver.
Definition rtl8127_get_bin_mcu_patch_code_ver := rtl8125_get_bin_mcu_patch_code_ver.
Definition _rtl8127_write_mac_mcu_ram_code := _rtl8125_write_mac_mcu_ram_code.
Definition _rtl8127_write_mac_mcu_ram_code_with_page := _rtl8125_write_mac_mcu_ram_code_with_page.
Definition rtl8127_write_mac_mcu_ram_code := rtl8125_write_mac_mcu_ram_code.
Definition rtl8127_get_hw_phy_mcu_code_ver := rtl8125_get_hw_phy_mcu_code_ver.
Definition rtl8127_set_phy_mcu_patch_request := rtl8125_set_phy_mcu_patch_request.
Definition rtl8127_clear_phy_mcu_patch_request := rtl8125_clear_phy_mcu_patch_request.
Definition rtl8127_write_hw_phy_mcu_code_ver := rtl8125_write_hw_phy_mcu_code_ver.
Definition rtl8127_enable_phy_disable_mode := rtl8125_enable_phy_disable_mode.
Definition rtl8127_disable_phy_disable_mode := rtl8125_disable_phy_disable_mode.
Definition rtl8127_enable_phy_aldps := rtl8125_enable_phy_aldps.
Definition rtl8127_is_ups_resume := rtl8125_is_ups_resume.
Definition rtl8127_clear_ups_resume_bit := rtl8125_clear_ups_resume_bit.
Definition rtl8127_get_phy_state := rtl8125_get_phy_state.
Definition rtl8127_wait_phy_ups_resume := rtl8125_wait_phy_ups_resume.
Definition _rtl8127_enable_now_is_oob := _rtl8125_enable_now_is_oob.
Definition rtl8127_disable_now_is_oob := rtl8125_disable_now_is_oob.
Definition rtl8127_wait_ll_share_fifo_ready := rtl8125_wait_ll_share_fifo_ready.
Definition rtl8127_is_autoneg_mode_valid := rtl8125_is_autoneg_mode_valid.
Definition rtl8127_is_duplex_mode_valid := rtl8125_is_duplex_mode_valid.
Definition rtl8127_get_phy_status := rtl8125_get_phy_status.
Definition rtl8127_xmii_reset_pending := rtl8125_xmii_reset_pending.
Definition rtl8127_wait_phy_reset_complete := rtl8125_wait_phy_reset_complete.
Definition rtl8127_phy_restart_nway := rtl8125_phy_restart_nway.
Definition rtl8127_phy_setup_force_mode := rtl8125_phy_setup_force_mode.
Definition rtl8127_phy_power_up := rtl8125_phy_power_up.
Definition rtl8127_get_pauseparam := rtl8125_get_pauseparam.
Definition rtl8127_powerup_pll := rtl8125_powerup_pll.
Definition rtl8127_set_eee_lpi_timer := rtl8125_set_eee_lpi_timer.
Definition rtl8127_hw_set_rx_packet_filter := rtl8125_hw_set_rx_packet_filter.
Definition rtl8127_set_rx_mode := rtl8125_set_rx_mode.
Definition rtl8127_hw_set_features := rtl8125_hw_set_features.
Definition rtl8127_set_features := rtl8125_set_features.
Definition rtl8127_set_rx_q_num := rtl8125_set_rx_q_num.
Definition rtl8127_set_tx_q_num := rtl8125_set_tx_q_num.
Definition rtl8127_enable_mcu := rtl8125_enable_mcu.
Definition rtl8127_clear_tcam_entries := rtl8125_clear_tcam_entries.
Definition _rtl8127_set_mrrs := _rtl8125_set_mrrs.
Definition rtl8127_set_mrrs := rtl8125_set_mrrs.
Definition rtl8127_tally_counter_addr_fill := rtl8125_tally_counter_addr_fill.
Definition rtl8127_tally_counter_clear := rtl8125_tally_counter_clear.
Definition rtl8127_rar_set := rtl8125_rar_set.
Definition rtl8127_get_mac_address := rtl8125_get_mac_address.
Definition rtl8127_set_mac_address := rtl8125_set_mac_address.
Definition rtl8127_backup_led_select := rtl8125_backup_led_select.
Definition rtl8127_restore_led_select := rtl8125_restore_led_select.
Definition _rtl8127_restore_phy_fuse_dout_v4 := _rtl8125_restore_phy_fuse_dout_v4.
Definition rtl8127_wait_phy_nway_complete_sleep := rtl8125_wait_phy_nway_complete_sleep.
Definition rtl8127_get_cp_status_string := rtl8125_get_cp_status_string.
Definition rtl8127_dump_tally_counter := rtl8125_dump_tally_counter.
End Shared.

Definition rtl8127_fw_write_firmware := @rtl8125_fw_write_firmware.
Definition rtl8127_get_rxfh_key_size := @rtl8125_get_rxfh_key_size.
Definition rtl8127_rss_indir_size := @rtl8125_rss_indir_size.
Definition rtl8127_get_reta := @rtl8125_get_reta.
Definition rtl8127_unmap_tx_skb := @rtl8125_unmap_tx_skb.
Definition rtl8127_tx_clear_range := @rtl8125_tx_clear_range.
Definition rtl8127_tx_clear := @rtl8125_tx_clear.
Definition rtl8127_map_to_asic := @rtl8125_map_to_asic.
Definition rtl8127_free_rx_skb := @rtl8125_free_rx_skb.
Definition rtl8127_alloc_rx_skb := @rtl8125_alloc_rx_skb.
Definition rtl8127_check_rx_desc_error := @rtl8125_check_rx_desc_error.
Definition rtl8127_set_rxbufsize := @rtl8125_set_rxbufsize.
Definition rtl8127_alloc_tx_desc := @rtl8125_alloc_tx_desc.
Definition rtl8127_alloc_rx_desc := @rtl8125_alloc_rx_desc.
Definition rtl8127_free_tx_desc := @rtl8125_free_tx_desc.
Definition rtl8127_free_rx_desc := @rtl8125_free_rx_desc.
Definition rtl8127_free_alloc_resources := @rtl8125_free_alloc_resources.
Definition rtl8127_rx_clear := @rtl8125_rx_clear.
Definition rtl8127_free_irq := @rtl8125_free_irq.
Definition rtl8127_resource_freed := @rtl8125_resource_freed.

Section Chip.
Context {D : Type} `{HM : Mmio D}.
Abbreviation ST := (St (nic D)).

(** ** MAC microcode *)

Definition rtl8127_enable_aspm_clkreq_lock (enable : bool) : ST unit :=
  v <- RTL_R8 Cfg9346 ;;
  let unlock_cfg_wr := negb (Z.land v Cfg9346_EEM_MASK =? Cfg9346_Unlock) in
  swhen unlock_cfg_wr rtl8127_enable_cfg9346_write ;;;
  (if enable then RTL_set8 INT_CFG0_8125 (BIT 3) ;;; RTL_set8 Config5 (BIT 0)
   else RTL_clear8 INT_CFG0_8125 (BIT 3) ;;; RTL_clear8 Config5 (BIT 0)) ;;;
  swhen unlock_cfg_wr rtl8127_disable_cfg9346_write.

Definition rtl8127_hw_disable_mac_mcu_bps : ST unit :=
  rtl8127_enable_aspm_clkreq_lock false ;;;
  rtl8127_mac_ocp_write 0xFC48 0x0000 ;;;
  sfor mac_bp_regs (fun regAddr => rtl8127_mac_ocp_write regAddr 0x0000) ;;;
  rtl8127_mac_ocp_write 0xFC26 0x0000.

Definition rtl8127_set_mac_mcu_8127a_tc : ST unit :=
  update_mac_mcu mcu_patch_code_8127a_tc ;;;
  mac_bps
    [(0xFC26, 0x8000); (0xFC2E, 0x14B8); (0xFC30, 0x14EC); (0xFC48, 0x0018)].

Definition rtl8127_set_mac_mcu_8127a_1 : ST unit :=
  update_mac_mcu mcu_patch_code_8127a_1 ;;;
  mac_bps
    [(0xFC26, 0x8000); (0xFC28, 0x1520); (0xFC2A, 0x41E0); (0xFC2C, 0x508C); (0xFC2E, 0x50F6);
     (0xFC30, 0x34FA); (0xFC32, 0x0166); (0xFC34, 0x1A6A); (0xFC36, 0x1A2C); (0xFC3C, 0x1598);
     (0xFC48, 0x04FF)].

(** The result is what it leaves in [hw_has_mac_mcu_patch_code]. *)
Definition rtl8127_hw_mac_mcu_config : ST bool :=
  s <- tp_get id ;;
  if NotWrMcuPatchCode s =? 1 then sret false
  else
    rtl8127_hw_disable_mac_mcu_bps ;;;
    v <- rtl8127_get_hw_mcu_patch_code_ver ;;
    smodify (set_patch_code_ver v) ;;;
    let m := mcfg s in
    if m =? 1 then rtl8127_set_mac_mcu_8127a_tc ;;; sret true
    else if m =? 2 then rtl8127_set_mac_mcu_8127a_1 ;;; sret true
    else sret false.

(** ** PHY microcode *)

Definition rtl8127_check_hw_phy_mcu_code_ver : ST Z :=
  v <- rtl8127_get_hw_phy_mcu_code_ver ;;
  smodify (set_hw_ram_code_ver v) ;;;
  sw <- tp_get (fun s => sw_ram_code_ver s) ;;
  if v =? sw then smodify (set_HwHasWr 1) ;;; sret 1 else sret 0.

Definition rtl8127_set_phy_mcu_ram_code (ramcode : list Z) : ST unit :=
  if Nat.odd (length ramcode) then sret tt else ram_code_loop ramcode.

(** A patch between the request and its withdrawal. *)
Definition rtl8127_with_patch_request (m : ST unit) : ST unit :=
  rtl8127_set_phy_mcu_patch_request ;;; m ;;; rtl8127_clear_phy_mcu_patch_request ;;; sret tt.

Definition rtl8127_real_set_phy_mcu_8127a_tc_1 : ST unit :=
  rtl8127_set_phy_mcu_ram_code phy_mcu_ram_code_8127a_tc_1.

Definition rtl8127_real_set_phy_mcu_8127a_1 : ST unit :=
  rtl8127_set_phy_mcu_ram_code phy_mcu_ram_code_8127a_1.

Definition rtl8127_real_set_phy_mcu_8127a_2 : ST unit :=
  rtl8127_set_phy_mcu_ram_code phy_mcu_ram_code_8127a_2.

Definition rtl8127_set_phy_mcu_8127a_tc : ST unit :=
  rtl8127_with_patch_request rtl8127_real_set_phy_mcu_8127a_tc_1.

Definition rtl8127_set_phy_mcu_8127a_1 : ST unit :=
  rtl8127_with_patch_request rtl8127_real_set_phy_mcu_8127a_1 ;;;
  rtl8127_with_patch_request rtl8127_real_set_phy_mcu_8127a_2.

(** The microcode of the chip. *)
Definition set_phy_mcu_8127 (m : Z) : ST unit :=
  if m =? 1 then rtl8127_set_phy_mcu_8127a_tc
  else if m =? 2 then rtl8127_set_phy_mcu_8127a_1
  else sret tt.

Definition rtl8127_init_hw_phy_mcu : ST unit :=
  s <- tp_get id ;;
  if NotWrRamCodeToMicroP s =? 1 then sret tt
  else
    same <- rtl8127_check_hw_phy_mcu_code_ver ;;
    if tst same then sret tt
    else
      disable <- (if HW_SUPPORT_CHECK_PHY_DISABLE_MODE s then rtl8127_is_in_phy_disable_mode else sret false) ;;
      swhen disable rtl8127_disable_phy_disable_mode ;;;
      set_phy_mcu_8127 (mcfg s) ;;;
      swhen disable rtl8127_enable_phy_disable_mode ;;;
      rtl8127_write_hw_phy_mcu_code_ver ;;;
      rtl8127_mdio_write 0x1F 0x0000 ;;;
      smodify (set_HwHasWr 1).

(** ** Tuning *)

Definition rtl8127_tgphy_irq_mask_and_ack : ST unit :=
  m <- tp_get (fun s => mcfg s) ;;
  swhen (m =? 2)
    (rtl8127_mdio_direct_write_phy_ocp 0xA4D2 0x0000 ;;;
     rtl8127_mdio_direct_read_phy_ocp 0xA4D4 ;;; sret tt).

Definition phy_config_8127a_tc_1_1 : list phy_op := [
   se 0xA442 (BIT 11); wr 0xa436 0x815E; mo 0xa438 0xFF00 0x8600; wr 0xa436 0x8169;
   mo 0xa438 0xFF00 0x8600; wr 0xa436 0x8174; mo 0xa438 0xFF00 0xA100; wr 0xa436 0x83BF;
   mo 0xa438 0xFF00 0x5A00; wr 0xa436 0x83C5; mo 0xa438 0xFF00 0x5A00; wr 0xa436 0x83CB;
   mo 0xa438 0xFF00 0x8B00; wr 0xB87C 0x8238; mo 0xB87E 0xC000 0x4000; wr 0xB87C 0x823A;
   mo 0xB87E 0xFF00 0xA000; wr 0xa436 0x8148; mo 0xa438 0xFF00 0x0100; wr 0xA436 0x84AD;
   mo 0xA438 0xFF00 0x0C00; wr 0xA436 0x84B2; mo 0xA438 0xFF00 0x0800; wr 0xA436 0x84B7;
   mo 0xA438 0xFF00 0x1400; wr 0xA436 0x84BC; wr 0xA438 0x0040; wr 0xA436 0x84C0;
   wr 0xA438 0x00D6; wr 0xA436 0x84BE; wr 0xA438 0x00A0; wr 0xA436 0x84AE; wr 0xA438 0x0C0C].

Definition phy_config_8127a_tc_1_2 : list phy_op := [
   wr 0xA436 0x84B0; wr 0xA438 0x0C0C; wr 0xBD7A 0xAAAA; wr 0xBCE0 0x6666; wr 0xB87C 0x85FC;
   wr 0xB87E 0x0AAA; wr 0xB87C 0x85FF; wr 0xB87E 0x0AAA; cl 0xAC32 (BIT 3); cl 0xAC32 (BIT 11);
   mo 0xADDC 0x3FFF 0x2000; wr 0xB87C 0x8111; mo 0xB87E 0x0F00 0x0F00; wr 0xB87C 0x80E9;
   mo 0xB87E 0x0F00 0x0F00; mo 0xAEC4 0xFF00 0x4600; mo 0xAC56 0x0007 0x0005; wr 0xB87C 0x825B;
   mo 0xB87E 0x0F00 0x0D00; wr 0xB87C 0x8283; wr 0xB87E 0x0334; wr 0xB87C 0x8289;
   mo 0xB87E 0xFF00 0x5600; wr 0xADB8 0x0190; mo 0xAE3A 0x00FF 0x0026; mo 0xAE4A 0x0FF0 0x0150;
   se 0xAEC2 (BIT 12); wr 0xAE22 0x0352; wr 0xAEC0 0x00FA; wr 0xB87C 0x8188;
   mo 0xB87E 0xFF00 0xF500; wr 0xB87C 0x8203; mo 0xB87E 0xFF00 0xF500; wr 0xB87C 0x827E;
   mo 0xB87E 0xFF00 0xF500; wr 0xB87C 0x81CB; mo 0xB87E 0xFF00 0x1000; wr 0xB87C 0x8246;
   mo 0xB87E 0xFF00 0x1000; wr 0xB87C 0x818A; mo 0xB87E 0xFF00 0xF500; wr 0xB87C 0x8205;
   mo 0xB87E 0xFF00 0xF500; wr 0xB87C 0x8280; mo 0xB87E 0xFF00 0xF500; wr 0xB87C 0x83DD;
   se 0xB87E (BIT 9); wr 0xB87C 0x840B; se 0xB87E (BIT 9); wr 0xA436 0x83BC; se 0xA438 (BIT 10);
   wr 0xA436 0x83BE; se 0xA438 (BIT 10); wr 0xA436 0x83C0; mo 0xA438 0x0700 0x0400;
   wr 0xA436 0x83C2; se 0xA438 (BIT 10); wr 0xA436 0x83C4; se 0xA438 (BIT 10); wr 0xA436 0x83C6;
   mo 0xA438 0x0700 0x0400; wr 0xA436 0x84C2; wr 0xA438 0xFEFF; wr 0xA436 0x84C4;
   wr 0xA438 0x0003; wr 0xA436 0x84C6; wr 0xA438 0x0116].

Definition phy_config_8127a_tc_1_3 : list phy_op := [
   wr 0xA436 0x84C8; mo 0xA438 0xFF00 0x6300; wr 0xB87C 0x822A; wr 0xB87E 0x4FFF;
   wr 0xB87C 0x81AF; wr 0xB87E 0x4067; wr 0xB87C 0x8134; wr 0xB87E 0x5069; wr 0xB87C 0x822C;
   mo 0xB87E 0xFF00 0x1A00; wr 0xB87C 0x81B1; mo 0xB87E 0xFF00 0x3A00; wr 0xB87C 0x8136;
   mo 0xB87E 0xFF00 0x5000; wr 0xB87C 0x810E; mo 0xB87E 0xF000 0x9000; wr 0xB87C 0x8114;
   mo 0xB87E 0xF000 0x9000; cl 0xB63C (BIT 9); wr 0xB87C 0x80B4; wr 0xB87E 0xB63B;
   wr 0xB87C 0x80E4; mo 0xB87E 0x0F00 0x0700; wr 0xB87C 0x80E5; mo 0xB87E 0xF000 0x7000;
   wr 0xB87C 0x80EA; mo 0xB87E 0x0F00 0x0500; wr 0xB87C 0x80EB; mo 0xB87E 0xF000 0x5000;
   wr 0xB87C 0x8291; wr 0xB87E 0x0416; wr 0xB87C 0x8015; se 0xB87E (BIT 11); wr 0xB87C 0x895E;
   wr 0xB87E 0x01A0; wr 0xB87C 0x8960; wr 0xB87E 0x01A0; wr 0xB87C 0x826B; wr 0xB87E 0xF0AF;
   wr 0xB87C 0x81F0; wr 0xB87E 0xF0AF; wr 0xB87C 0x8175; wr 0xB87E 0xF0AF; wr 0xB87C 0x826D;
   mo 0xB87E 0x0F00 0x0100; wr 0xB87C 0x81F2; mo 0xB87E 0x0F00 0x0100; wr 0xB87C 0x8177;
   mo 0xB87E 0x0F00 0x0100; cl 0xAC1C (bits_or [8; 7]); cl 0xAC1E (bits_or [13; 12]);
   wr 0xAD96 0xAAFF; mo 0xAD98 0x00FF 0x00AA; mo 0xAE38 0x3FFF 0x2554; mo 0xAE3A 0xF000 0xA000;
   wr 0xB87C 0x8932; mo 0xB87E 0x0F00 0x0900; wr 0xB87C 0x892F; mo 0xB87E 0x0F00 0x0900;
   wr 0xB87C 0x892C; mo 0xB87E 0x0F00 0x0900; wr 0xB87C 0x85B6; se 0xB87E 0xFF00;
   wr 0xB87C 0x85B4; wr 0xB87E 0xFFFF; wr 0xB87C 0x8905; cl 0xB87E 0xFF00; wr 0xB87C 0x8853].

Definition phy_config_8127a_tc_1_4 : list phy_op := [
   mo 0xB87E 0xFF00 0x2800; wr 0xB87C 0x884B; mo 0xB87E 0xFF00 0x3F00; cl 0xBDE6 0x3FFF;
   cl 0xBDE8 0x3FFF; cl 0xBF0E 0x0003; wr 0xA436 0x8156; mo 0xA438 0xFF00 0x1600;
   wr 0xA436 0x80AB; mo 0xA438 0xFF00 0x7500; wr 0xA436 0x80C3; wr 0xA438 0x090D;
   wr 0xA436 0x80C6; mo 0xA438 0xFF00 0xC600; wr 0xA436 0x80BF; mo 0xA438 0xFF00 0x5500;
   wr 0xA436 0x8096; mo 0xA438 0xFF00 0x4500; wr 0xA436 0x809D; mo 0xA438 0xFF00 0x0200;
   wr 0xA436 0x809B; wr 0xA438 0xE50A; wr 0xA436 0x8099; wr 0xA438 0x9906; wr 0xA436 0x831F;
   mo 0xA438 0xFF00 0x5000; se 0xB648 (BIT 14); cl 0xA4E0 (BIT 15)].

Definition phy_config_8127a_tc_1_5 : list phy_op := [
   wr 0xA436 0x849A; wr 0xA438 0x0004; cl 0xAC1C 0x0C00; se 0xA42C (BIT 6); cl 0xACBA 0xFC00;
   wr 0xB87C 0x8122; mo 0xB87E 0xF000 0xC000; wr 0xB87C 0x8123; mo 0xB87E 0xF000 0xC000;
   wr 0xB87C 0x80FA; mo 0xB87E 0xF000 0x2000; wr 0xB87C 0x825B; mo 0xB87E 0xF000 0xB000;
   wr 0xB87C 0x80D2; mo 0xB87E 0xF000 0xD000; wr 0xB87C 0x80D3; mo 0xB87E 0xF000 0xD000;
   wr 0xB87C 0x80C8; mo 0xB87E 0x0F00 0x0200; wr 0xB87C 0x80CA; mo 0xB87E 0x0F00 0x0300;
   wr 0xB87C 0x80E2; mo 0xB87E 0xFF00 0x2300; wr 0xB87C 0x80A9; mo 0xB87E 0x0F00 0x0A00;
   wr 0xB87C 0x80AA; mo 0xB87E 0xF000 0x5000; wr 0xB87C 0x80AB; mo 0xB87E 0xF000 0xA000;
   wr 0xB87C 0x805A; mo 0xB87E 0xF000 0x2000; wr 0xB87C 0x8106; wr 0xB87E 0x40CC;
   wr 0xB87C 0x812C; wr 0xB87E 0x40CC; wr 0xB87C 0x8096; mo 0xB87E 0xFF00 0x7500;
   wr 0xB87C 0x809C; mo 0xB87E 0xFF00 0x6300; wr 0xB87C 0x859E; mo 0xB87E 0xFF00 0x1F00].

Definition rtl8127_hw_phy_config_8127a_tc_1 : ST unit :=
  s <- tp_get id ;;
  phy_seq phy_config_8127a_tc_1_1 ;;;
  phy_seq phy_config_8127a_tc_1_2 ;;;
  phy_seq phy_config_8127a_tc_1_3 ;;;
  phy_seq phy_config_8127a_tc_1_4 ;;;
  phy_seq phy_config_8127a_tc_1_5 ;;;
  swhen (tst (aspm s) && HW_HAS_WRITE_PHY_MCU_RAM_CODE s) rtl8127_enable_phy_aldps.

Definition phy_config_8127a_1_1 : list phy_op := [
   cl 0xA442 (BIT 11); wr 0xA436 0x8415; mo 0xA438 0xFF00 0x9300; wr 0xA436 0x81A3;
   mo 0xA438 0xFF00 0x0F00; wr 0xA436 0x81AE; mo 0xA438 0xFF00 0x0F00; wr 0xA436 0x81B9;
   mo 0xA438 0xFF00 0xB900; wr 0xB87C 0x83B0; cl 0xB87E 0x0E00; wr 0xB87C 0x83C5;
   cl 0xB87E 0x0E00; wr 0xB87C 0x83DA; cl 0xB87E 0x0E00; wr 0xB87C 0x83EF; cl 0xB87E 0x0E00;
   mo 0xBF38 0x01F0 0x0160; mo 0xBF3A 0x001F 0x0014; cl 0xBF28 0x6000; cl 0xBF2C 0xC000;
   mo 0xBF28 0x1FFF 0x0187; mo 0xBF2A 0x003F 0x0003; wr 0xA436 0x8173; wr 0xA438 0x8620;
   wr 0xA436 0x8175; wr 0xA438 0x8671; wr 0xA436 0x817C; se 0xA438 (BIT 13); wr 0xA436 0x8187;
   se 0xA438 (BIT 13); wr 0xA436 0x8192; se 0xA438 (BIT 13); wr 0xA436 0x819D;
   se 0xA438 (BIT 13); wr 0xA436 0x81A8; cl 0xA438 (BIT 13); wr 0xA436 0x81B3;
   cl 0xA438 (BIT 13); wr 0xA436 0x81BE; se 0xA438 (BIT 13); wr 0xA436 0x817D;
   mo 0xA438 0xFF00 0xA600; wr 0xA436 0x8188; mo 0xA438 0xFF00 0xA600; wr 0xA436 0x8193;
   mo 0xA438 0xFF00 0xA600; wr 0xA436 0x819E; mo 0xA438 0xFF00 0xA600; wr 0xA436 0x81A9;
   mo 0xA438 0xFF00 0x1400; wr 0xA436 0x81B4; mo 0xA438 0xFF00 0x1400].

Definition phy_config_8127a_1_2 : list phy_op := [
   wr 0xA436 0x81BF; mo 0xA438 0xFF00 0xA600; cl 0xAEAA (bits_or [5; 3]); wr 0xB87C 0x84F0;
   wr 0xB87E 0x201C; wr 0xB87C 0x84F2; wr 0xB87E 0x3117; wr 0xAEC6 0x0000; wr 0xAE20 0xFFFF;
   wr 0xAECE 0xFFFF; wr 0xAED2 0xFFFF; wr 0xAEC8 0x0000; cl 0xAED0 (BIT 0); wr 0xADB8 0x0150;
   wr 0xB87C 0x8197; mo 0xB87E 0xFF00 0x5000; wr 0xB87C 0x8231; mo 0xB87E 0xFF00 0x5000;
   wr 0xB87C 0x82CB; mo 0xB87E 0xFF00 0x5000; wr 0xB87C 0x82CD; mo 0xB87E 0xFF00 0x5700;
   wr 0xB87C 0x8233; mo 0xB87E 0xFF00 0x5700; wr 0xB87C 0x8199; mo 0xB87E 0xFF00 0x5700;
   wr 0xB87C 0x815A; wr 0xB87E 0x0150; wr 0xB87C 0x81F4; wr 0xB87E 0x0150; wr 0xB87C 0x828E;
   wr 0xB87E 0x0150; wr 0xB87C 0x81B1; wr 0xB87E 0x0000; wr 0xB87C 0x824B; wr 0xB87E 0x0000;
   wr 0xB87C 0x82E5; wr 0xB87E 0x0000; wr 0xB87C 0x84F7; mo 0xB87E 0xFF00 0x2800;
   se 0xAEC2 (BIT 12); wr 0xB87C 0x81B3; mo 0xB87E 0xFF00 0xAD00; wr 0xB87C 0x824D;
   mo 0xB87E 0xFF00 0xAD00; wr 0xB87C 0x82E7; mo 0xB87E 0xFF00 0xAD00; mo 0xAE4E 0x000F 0x0001;
   wr 0xB87C 0x82CE; mo 0xB87E 0xF000 0x4000; wr 0xB87C 0x83A5; mo 0xB87E 0xFF00 0x0400;
   wr 0xB87C 0x83A6; mo 0xB87E 0xFF00 0x0400; wr 0xB87C 0x83A7; mo 0xB87E 0xFF00 0x0400;
   wr 0xB87C 0x83A8; mo 0xB87E 0xFF00 0x0400; wr 0xB87C 0x84AC; wr 0xB87E 0x0000;
   wr 0xB87C 0x84AE; wr 0xB87E 0x0000; wr 0xB87C 0x84B0; wr 0xB87E 0xF818; wr 0xB87C 0x84B2;
   mo 0xB87E 0xFF00 0x6000; wr 0xB87C 0x8FFC; wr 0xB87E 0x6008; wr 0xB87C 0x8FFE;
   wr 0xB87E 0xF4FF; wr 0xB87C 0x8015; se 0xB87E (BIT 9); wr 0xB87C 0x8016; cl 0xB87E (BIT 11);
   wr 0xB87C 0x8FE6].

Definition phy_config_8127a_1_3 : list phy_op := [
   mo 0xB87E 0xFF00 0x0800; wr 0xB87C 0x8FE4; wr 0xB87E 0x2114; wr 0xB87C 0x8647;
   wr 0xB87E 0xA7B1; wr 0xB87C 0x8649; wr 0xB87E 0xBBCA; wr 0xB87C 0x864B;
   mo 0xB87E 0xFF00 0xDC00; wr 0xB87C 0x8154; mo 0xB87E 0xC000 0x4000; wr 0xB87C 0x8158;
   cl 0xB87E 0xC000; wr 0xB87C 0x826C; wr 0xB87E 0xFFFF; wr 0xB87C 0x826E; wr 0xB87E 0xFFFF;
   wr 0xB87C 0x8872; mo 0xB87E 0xFF00 0x0E00; wr 0xA436 0x8012; se 0xA438 (BIT 11);
   wr 0xA436 0x8012; se 0xA438 (BIT 14); se 0xB576 (BIT 0); wr 0xA436 0x834A;
   mo 0xA438 0xFF00 0x0700; wr 0xB87C 0x8217; mo 0xB87E 0x3F00 0x2A00; wr 0xA436 0x81B1;
   mo 0xA438 0xFF00 0x0B00; wr 0xB87C 0x8FED; mo 0xB87E 0xFF00 0x4E00; wr 0xB87C 0x88AC;
   mo 0xB87E 0xFF00 0x2300; se 0xBF0C 0x3800; wr 0xB87C 0x88DE; cl 0xB87E 0xFF00;
   wr 0xB87C 0x80B4; wr 0xB87E 0x5195; wr 0xA436 0x8370; wr 0xA438 0x8671; wr 0xA436 0x8372;
   wr 0xA438 0x86C8; wr 0xA436 0x8401; wr 0xA438 0x86C8; wr 0xA436 0x8403; wr 0xA438 0x86DA;
   wr 0xA436 0x8406; mo 0xA438 0x1800 0x1000; wr 0xA436 0x8408; mo 0xA438 0x1800 0x1000;
   wr 0xA436 0x840A; mo 0xA438 0x1800 0x1000; wr 0xA436 0x840C; mo 0xA438 0x1800 0x1000;
   wr 0xA436 0x840E; mo 0xA438 0x1800 0x1000; wr 0xA436 0x8410; mo 0xA438 0x1800 0x1000;
   wr 0xA436 0x8412; mo 0xA438 0x1800 0x1000; wr 0xA436 0x8414; mo 0xA438 0x1800 0x1000;
   wr 0xA436 0x8416; mo 0xA438 0x1800 0x1000; wr 0xA436 0x82BD; wr 0xA438 0x1F40;
   mo 0xBFB4 0x07FF 0x0328; wr 0xBFB6 0x3E14].

Definition phy_config_8127a_1_4 : list phy_op := [
   wr 0xA436 0x81C4; wr 0xA438 0x003B; wr 0xA438 0x0086; wr 0xA438 0x00B7; wr 0xA438 0x00DB;
   wr 0xA438 0x00FE; wr 0xA438 0x00FE; wr 0xA438 0x00FE; wr 0xA438 0x00FE; wr 0xA438 0x00C3;
   wr 0xA438 0x0078; wr 0xA438 0x0047; wr 0xA438 0x0023; wr 0xB87C 0x88D7; wr 0xB87E 0x01A0;
   wr 0xB87C 0x88D9; wr 0xB87E 0x01A0; wr 0xB87C 0x8FFA; wr 0xB87E 0x002A; wr 0xB87C 0x8FEE;
   wr 0xB87E 0xFFDF; wr 0xB87C 0x8FF0; wr 0xB87E 0xFFFF; wr 0xB87C 0x8FF2; wr 0xB87E 0x0A4A;
   wr 0xB87C 0x8FF4; wr 0xB87E 0xAA5A; wr 0xB87C 0x8FF6; wr 0xB87E 0x0A4A; wr 0xB87C 0x8FF8;
   wr 0xB87E 0xAA5A; wr 0xB87C 0x88D5; mo 0xB87E 0xFF00 0x0200; wr 0xA436 0x84BB;
   mo 0xA438 0xFF00 0x0A00; wr 0xA436 0x84C0; mo 0xA438 0xFF00 0x1600;
   se 0xA430 (bits_or [1; 0]); se 0xA442 (BIT 7); cl 0xA430 (BIT 12)].

Definition rtl8127_hw_phy_config_8127a_1 : ST unit :=
  s <- tp_get id ;;
  rtl8127_tgphy_irq_mask_and_ack ;;;
  phy_seq phy_config_8127a_1_1 ;;;
  phy_seq phy_config_8127a_1_2 ;;;
  phy_seq phy_config_8127a_1_3 ;;;
  phy_seq phy_config_8127a_1_4 ;;;
  swhen (tst (aspm s) && negb (HW_FIBER_MODE_ENABLED s) && HW_HAS_WRITE_PHY_MCU_RAM_CODE s) rtl8127_enable_phy_aldps.

End Chip.
