(* ===== verification/RtlFamilySpec.v ===== *)
(** * The r8125 family: microcode

    The drivers r8125, r8126 and r8127 load the microcode of the MAC and of the
    PHY in the same way, with their own tables and with small changes of the
    code around them.  What is promised of it is stated here for the three at
    once. *)
From S2P Require Import Prelude RtlBase RtlHw RtlHwSpec RtlIrq RtlWol RtlMcu RtlRamCode RtlPhyConfig RtlChip RtlChanSpec RtlToy Rtl8126Code Rtl8126 Rtl8127Code Rtl8127 RtlMcuSpec RtlPhyMcuSpec.
Local Open Scope Z_scope.
Local Open Scope rtl_scope.

Inductive driver := R8125 | R8126 | R8127.

Section Family.
Context {D : Type} `{HL : NicLaws D}.
Abbreviation mem s := (chan (dev s)).
Abbreviation ST := (St (nic D)).

(** ** The MAC *)

Definition hw_mac_mcu_config (dr : driver) : ST unit :=
  match dr with
  | R8125 => rtl8125_hw_mac_mcu_config
  | R8126 => rtl8126_hw_mac_mcu_config
  | R8127 => rtl8127_hw_mac_mcu_config ;;; sret tt
  end.

(** The table of the chip that carries a version. *)
Definition mac_code (dr : driver) (m : Z) : option (list Z) :=
  match dr with
  | R8125 => mac_mcu_code m
  | R8126 =>
      if m =? 2 then Some mcu_patch_code_8126a_2 else if m =? 3 then Some mcu_patch_code_8126a_3 else None
  | R8127 =>
      if m =? 1 then Some mcu_patch_code_8127a_tc else if m =? 2 then Some mcu_patch_code_8127a_1 else None
  end.

(** r8126 records the version twice, to the same effect. *)
Lemma write_8126_same entry (s : nic D) :
  rtl8126_write_mac_mcu_ram_code entry s = rtl8125_write_mac_mcu_ram_code entry s.
Proof.
  unfold rtl8126_write_mac_mcu_ram_code, rtl8125_write_mac_mcu_ram_code, rtl8126_set_hw_mcu_patch_code_ver,
    _rtl8126_set_hw_mcu_patch_code_ver, rtl8125_set_hw_mcu_patch_code_ver, _rtl8125_set_hw_mcu_patch_code_ver,
    sbind, tp_get, sgets, smodify, swhen, rtl8126_switch_mac_mcu_ram_code_page,
    _rtl8126_write_mac_mcu_ram_code_with_page, _rtl8126_write_mac_mcu_ram_code.
  repeat case_match; simplify_eq; done.
Qed.

Lemma update_8126_same code (s : nic D) : rtl8126_update_mac_mcu code s = update_mac_mcu code s.
Proof.
  unfold rtl8126_update_mac_mcu, update_mac_mcu, sbind, tp_get, sgets, smodify, swhen.
  cbv beta iota zeta. destruct (negb _); [apply write_8126_same|done].
Qed.

Lemma swp_mac_table_8126 code bps (s s2 : nic D) :
  HwSuppMacMcuVer s2 > 0 -> MacMcuPageSize s2 = 256 -> mcu_code_ok code = true ->
  forallb (fun bp => off_ram (u16 bp.1 / 2)) bps = true ->
  hw_mcu_patch_code_ver s2 = stored_version (mem s2) -> ram_same (mem s) (mem s2) ->
  swp (rtl8126_update_mac_mcu code ;;; mac_bps bps) (fun _ s' => mac_installed code s s') s2.
Proof.
  intros H1 H2 H3 H4 H5 H6. pose proof (swp_mac_table code bps s s2 H1 H2 H3 H4 H5 H6) as H.
  unfold swp, sbind in *. by rewrite update_8126_same.
Qed.

(** The value is dropped or replaced. *)
Lemma swp_then_ret {A B} (m : ST A) (b : B) (Q : nic D -> Prop) (s : nic D) :
  swp m (fun _ => Q) s -> swp (m ;;; sret b) (fun _ => Q) s.
Proof. unfold swp, sbind, sret. by destruct (m s). Qed.

Lemma keeps_bps_8126 : keeps_ram rtl8126_hw_disable_mac_mcu_bps.
Proof.
  apply keeps_clear_bps. apply keeps_locked, keeps_ram_tp. intros m.
  destruct (m =? 1); [by apply (keeps_toggle false)|]. apply keeps_ram_when. by apply (keeps_toggle false).
Qed.

Lemma keeps_bps_8127 : keeps_ram rtl8127_hw_disable_mac_mcu_bps.
Proof. apply keeps_clear_bps, keeps_locked. by apply (keeps_toggle false). Qed.

Lemma installed_8126 (s : nic D) code r s' :
  mac_code R8126 (mcfg s) = Some code -> NotWrMcuPatchCode s <> 1 ->
  HwSuppMacMcuVer s > 0 -> MacMcuPageSize s = 256 ->
  rtl8126_hw_mac_mcu_config s = (r, s') -> mac_installed code s s'.
Proof.
  intros Hc Hn Hm Hp E. swp_start E. unfold rtl8126_hw_mac_mcu_config. do 2 swp_step. cbn [id].
  destruct (NotWrMcuPatchCode s =? 1) eqn:E1; [blia|]. apply swp_mac_config; [apply keeps_bps_8126|].
  intros s2 Hh _ Hm2 Hp2 H12 _. rewrite <- Hm2 in Hm. rewrite <- Hp2 in Hp. cbn [mac_code] in Hc.
  destruct (mcfg s =? 1) eqn:E0; [destruct (mcfg s =? 2) eqn:E2, (mcfg s =? 3) eqn:E3; blia || done|].
  repeat match type of Hc with
  | (if ?b then _ else _) = _ =>
      destruct b; [injection Hc as <-; apply swp_mac_table_8126; done || (vm_compute; reflexivity)|]
  end. done.
Qed.

Lemma installed_8127 (s : nic D) code r s' :
  mac_code R8127 (mcfg s) = Some code -> NotWrMcuPatchCode s <> 1 ->
  HwSuppMacMcuVer s > 0 -> MacMcuPageSize s = 256 ->
  rtl8127_hw_mac_mcu_config s = (r, s') -> mac_installed code s s'.
Proof.
  intros Hc Hn Hm Hp E. swp_start E. unfold rtl8127_hw_mac_mcu_config. do 2 swp_step. cbn [id].
  destruct (NotWrMcuPatchCode s =? 1) eqn:E1; [blia|]. apply swp_mac_config; [apply keeps_bps_8127|].
  intros s2 Hh _ Hm2 Hp2 H12 _. rewrite <- Hm2 in Hm. rewrite <- Hp2 in Hp. cbn [mac_code] in Hc.
  repeat match type of Hc with
  | (if ?b then _ else _) = _ =>
      destruct b; [injection Hc as <-; apply swp_then_ret, swp_mac_table; done || (vm_compute; reflexivity)|]
  end. done.
Qed.

(** C21: The microcode of the MAC is installed, and only once, in the drivers
    r8125, r8126 and r8127: when the version stored in the controller is not
    the one of the chip's table, every word of the table is in its cell of the
    banked RAM afterwards and its version is stored; when it is, the RAM is not
    written.  Either way the driver knows the version and the controller stores
    it, so a second run finds its own version and does not write the RAM. *)
Theorem family_microcode_installed dr (s : nic D) code r s' :
  mac_code dr (mcfg s) = Some code -> NotWrMcuPatchCode s <> 1 ->
  HwSuppMacMcuVer s > 0 -> MacMcuPageSize s = 256 ->
  hw_mac_mcu_config dr s = (r, s') ->
  let v := rtl8125_get_bin_mcu_patch_code_ver code in
  hw_mcu_patch_code_ver s' = v /\ stored_version (mem s') = v /\
  (stored_version (mem s) <> v -> mcu_installed code (mem s')) /\
  (stored_version (mem s) = v -> ram_same (mem s) (mem s')).
Proof.
  destruct dr; cbn [hw_mac_mcu_config]; [apply mac_microcode_installed|apply installed_8126|].
  intros Hc Hn Hm Hp E. unfold sbind in E.
  destruct (rtl8127_hw_mac_mcu_config s) as [b s1] eqn:E1. injection E as <- <-. by eapply installed_8127.
Qed.

(** ** The PHY *)

Definition load_phy_mcu (dr : driver) : Z -> ST unit :=
  match dr with R8125 => set_phy_mcu | R8126 => set_phy_mcu_8126 | R8127 => set_phy_mcu_8127 end.

(** A table between a request and its withdrawal. *)
Definition loaded (code : list Z) : list phy_op := requested (table_ops code).

(** What the chip's microcode writes. *)
Definition phy_ops (dr : driver) (m : Z) : list phy_op :=
  match dr with
  | R8125 => phy_mcu_ops m
  | R8126 =>
      if m =? 1 then
        loaded phy_mcu_ram_code_8126a_1_1 ++ loaded phy_mcu_ram_code_8126a_1_2 ++ loaded phy_mcu_ram_code_8126a_1_3
      else if m =? 2 then loaded phy_mcu_ram_code_8126a_2_1 ++ loaded phy_mcu_ram_code_8126a_2_3
      else if m =? 3 then loaded phy_mcu_ram_code_8126a_3_1 else []
  | R8127 =>
      if m =? 1 then loaded phy_mcu_ram_code_8127a_tc_1
      else if m =? 2 then loaded phy_mcu_ram_code_8127a_1 ++ loaded phy_mcu_ram_code_8127a_2 else []
  end.

(** The chips with microcode. *)
Definition phy_chips (dr : driver) : list Z :=
  match dr with R8125 => phy_mcu_chips | R8126 => [1; 2; 3] | R8127 => [1; 2] end.

Lemma tables_checked dr :
  forallb (fun m => window_ok (phy_ops dr m) false false && window_ok (phy_ops dr m) true false) (phy_chips dr) = true ->
  forall m b4, existsb (Z.eqb m) (phy_chips dr) = true -> window_ok (phy_ops dr m) b4 false = true.
Proof.
  intros H m b4 (x & Hx & <-%Z.eqb_eq)%existsb_exists. rewrite forallb_forall in H. specialize (H _ Hx).
  rewrite andb_true_iff in H. destruct H. by destruct b4.
Qed.

Lemma tables_in_order dr m b4 : existsb (Z.eqb m) (phy_chips dr) = true -> window_ok (phy_ops dr m) b4 false = true.
Proof. revert m b4. destruct dr; apply tables_checked; vm_compute; reflexivity. Qed.

(** A table of whole writes to registers of the PHY. *)
Definition table_fits (code : list Z) : bool := Nat.even (length code) && forallb op_ok (table_ops code).

Lemma writes_8126 chip code : table_fits code = true ->
  writes chip (rtl8126_with_patch_request (rtl8126_set_phy_mcu_ram_code code)) (loaded code).
Proof. intros H. exact (writes_request chip _ _ (writes_ram_code chip code H)). Qed.

Lemma writes_8127 chip code : table_fits code = true ->
  writes chip (rtl8127_with_patch_request (rtl8127_set_phy_mcu_ram_code code)) (loaded code).
Proof. intros H. exact (writes_request chip _ _ (writes_ram_code chip code H)). Qed.

Ltac table_8126 := apply writes_8126; vm_compute; reflexivity.
Ltac table_8127 := apply writes_8127; vm_compute; reflexivity.

Lemma writes_load_8126 chip : writes chip (set_phy_mcu_8126 chip) (phy_ops R8126 chip).
Proof.
  unfold set_phy_mcu_8126, phy_ops.
  destruct (chip =? 1); [apply writes_bind; [table_8126|apply writes_bind; table_8126]|].
  destruct (chip =? 2); [apply writes_bind; table_8126|].
  destruct (chip =? 3); [table_8126|apply writes_nil].
Qed.

Lemma writes_load_8127 chip : writes chip (set_phy_mcu_8127 chip) (phy_ops R8127 chip).
Proof.
  unfold set_phy_mcu_8127, phy_ops. destruct (chip =? 1); [table_8127|].
  destruct (chip =? 2); [apply writes_bind; table_8127|apply writes_nil].
Qed.

Lemma writes_load dr chip : writes chip (load_phy_mcu dr chip) (phy_ops dr chip).
Proof. destruct dr; [apply writes_set_phy_mcu|apply writes_load_8126|apply writes_load_8127]. Qed.

End Family.

(** A fresh 8127A of the second revision: its table is written, and left alone
    by a second run. *)
Lemma family_microcode_installed_witness :
  exists s1 s2, hw_mac_mcu_config R8127 (toy_chip 2 0) = (tt, s1) /\
    hw_mac_mcu_config R8127 s1 = (tt, s2) /\
    mcu_installed mcu_patch_code_8127a_1 (t_chan (dev s1)) /\
    ram_same (t_chan (dev s1)) (t_chan (dev s2)).
Proof.
  destruct (hw_mac_mcu_config R8127 (toy_chip 2 0)) as [[] s1] eqn:E1.
  destruct (hw_mac_mcu_config R8127 s1) as [[] s2] eqn:E2. exists s1, s2.
  destruct (family_microcode_installed R8127 (toy_chip 2 0) mcu_patch_code_8127a_1 tt s1)
    as (_ & Hv1 & Hi1 & _); [reflexivity|discriminate|reflexivity|reflexivity|exact E1|].
  assert (mcfg s1 = 2 /\ NotWrMcuPatchCode s1 = 0 /\ HwSuppMacMcuVer s1 = 2 /\ MacMcuPageSize s1 = 256)
    as (Hm & Hn & Hs & Hp).
  { replace s1 with (snd (hw_mac_mcu_config R8127 (toy_chip 2 0))) by (by rewrite E1).
    vm_compute. repeat split. }
  destruct (family_microcode_installed R8127 s1 mcu_patch_code_8127a_1 tt s2) as (_ & _ & _ & Hi2);
    [by rewrite Hm|by rewrite Hn|by rewrite Hs|done|exact E2|].
  split_and!; [done|done| |by apply Hi2]. apply Hi1. vm_compute. discriminate.
Defined.

