(* ===== verification/Rtl8168Hw.v ===== *)
(** * r8168: the register channels

    The driver r8168 serves the older gigabit controllers.  Its PHY is behind
    one of three channels, chosen by the chip: the MII command register PHYAR,
    the indirect OCP registers as in r8125, or, on one chip, the OCP data and
    command registers.  Here are the channels of r8168_n.c, the loaders' bit
    operations, the eFuse and the locks around them; the private structure is
    the one of [RtlBase], with what only r8168 has in [Chip8168]. *)
From S2P Require Import Prelude RtlBase RtlHw RtlIrq RtlWol RtlMcu RtlRamCode RtlPhyConfig RtlChip RtlLink RtlEee RtlConfig.
Local Open Scope Z_scope.
Local Open Scope rtl_scope.

Definition PHYAR : Z := 0x60.
Definition PHYAR_Flag : Z := 0x80000000.
Definition PHYAR_Write : Z := 0x80000000.
Definition PHYAR_Read : Z := 0.
Definition PHYAR_Reg_Mask : Z := 0x1f.
Definition PHYAR_Reg_shift : Z := 16.
Definition PHYAR_Data_Mask : Z := 0xffff.
Definition OCPDR : Z := 0xB0.
Definition OCPAR : Z := 0xB4.
Definition OCPDR_Write : Z := 0x80000000.
Definition OCPDR_Read : Z := 0.
Definition OCPDR_Reg_Mask : Z := 0xFF.
Definition OCPDR_GPHY_Reg_shift : Z := 16.
Definition OCPAR_Flag : Z := 0x80000000.
Definition OCPAR_GPHY_Write : Z := 0x8000F060.
Definition OCPAR_GPHY_Read : Z := 0x0000F060.
Definition EPHY_RXER_NUM : Z := 0x7C.
Definition EPHYAR_Reg_Mask : Z := 0x3f.
Definition Config4 : Z := 0x55.
Definition EFUSEAR : Z := 0xDC.
Definition EFUSE_READ : Z := 0.
Definition EFUSE_READ_OK : Z := 0x80000000.
Definition EFUSE_READ_V3 : Z := 0x80000000.
Definition EFUSE_Reg_Mask : Z := 0x03FF.
Definition EFUSE_Reg_Shift : Z := 8.
Definition EFUSE_Check_Cnt : nat := 300.
Definition EFUSE_READ_FAIL : Z := 0xFF.
Definition EFUSE_Data_Mask : Z := 0xFF.
Definition EFUSE_NOT_SUPPORT : Z := 0.
Definition EFUSE_SUPPORT_V1 : Z := 1.
Definition EFUSE_SUPPORT_V2 : Z := 2.
Definition EFUSE_SUPPORT_V3 : Z := 3.
Definition RTL8168FP_OOBMAC_BASE : Z := 0xBAF70000.
Definition R8168_CHANNEL_WAIT_COUNT : nat := Z.to_nat 20000.

(** What the probe of r8168 finds out beyond [hw_info] and [hw_features];
    fixed afterwards. *)
Class Chip8168 := {
  HwSuppPhyOcpVer : Z;
  HwSuppSerDesPhyVer : Z;
  HwSuppAspmClkIntrLock : Z;
  RequiredSecLanDonglePatch : Z;
  RequireAdcBiasPatch : Z;
  AdcBiasPatchIoffset : Z;
  HwPkgDet : Z;
  NicCustLedValue : Z;
  efuse_ver : Z;
  subsystem_vendor : Z;
  subsystem_device : Z
}.

(** The chips [first ... last] of a case label, and the generations. *)
Definition chips (first last m : Z) : bool := (first <=? m) && (m <=? last).

Section Channels.
Context {D : Type} `{HM : Mmio D} {C : Chip8168}.
Abbreviation ST := (St (nic D)).

(** ** The PHY *)

Definition mdio_real_direct_write_phy_ocp_8168 (RegAddr value : Z) : ST unit :=
  if HwSuppPhyOcpVer =? 0 then sret tt
  else
    let data32 := u32 (Z.shiftl (u32 RegAddr / 2) OCPR_Addr_Reg_shift) in
    let data32 := Z.lor data32 (Z.lor OCPR_Write (u32 value)) in
    RTL_W32 PHYOCP data32 ;;;
    poll R8168_CHANNEL_WAIT_COUNT (flag_clear PHYOCP OCPR_Flag) ;;;
    sret tt.

Definition mdio_direct_write_phy_ocp (RegAddr value : Z) : ST unit :=
  diag <- tp_get (fun s => rtk_enable_diag s) ;;
  if tst diag then sret tt else mdio_real_direct_write_phy_ocp_8168 (u16 RegAddr) (u16 value).

Definition rtl8168_mdio_write_phy_ocp (PageNum RegAddr value : Z) : ST unit :=
  diag <- tp_get (fun s => rtk_enable_diag s) ;;
  if tst diag then sret tt
  else mdio_direct_write_phy_ocp (map_phy_ocp_addr PageNum (u32 RegAddr)) (u32 value).

Definition rtl8168_mdio_real_write_phy_ocp (PageNum RegAddr value : Z) : ST unit :=
  mdio_real_direct_write_phy_ocp_8168 (map_phy_ocp_addr PageNum (u32 RegAddr)) (u32 value).

(** The one chip whose PHY is behind OCPDR and OCPAR. *)
Definition write_gphy_ocpdr (RegAddr value : Z) : ST unit :=
  RTL_W32 OCPDR (Z.lor OCPDR_Write
    (Z.lor (Z.shiftl (Z.land RegAddr OCPDR_Reg_Mask) OCPDR_GPHY_Reg_shift) (Z.land value OCPDR_Data_Mask))) ;;;
  RTL_W32 OCPAR OCPAR_GPHY_Write ;;;
  RTL_W32 EPHY_RXER_NUM 0 ;;;
  poll 100 (flag_clear OCPAR OCPAR_Flag) ;;;
  sret tt.

(** The MII register, opened on two chips by a bit of register 0xD0. *)
Definition mii_gate (m : Z) : bool := (m =? 12) || (m =? 13).

Definition open_mii_gate (m : Z) : ST unit :=
  swhen (mii_gate m) (v <- RTL_R32 0xD0 ;; RTL_W32 0xD0 (Z.land v (Z.lnot 0x00020000))).

Definition close_mii_gate (m : Z) : ST unit :=
  swhen (mii_gate m) (v <- RTL_R32 0xD0 ;; RTL_W32 0xD0 (Z.lor v 0x00020000)).

Definition write_phyar (m RegAddr value : Z) : ST unit :=
  open_mii_gate m ;;;
  RTL_W32 PHYAR (Z.lor PHYAR_Write
    (Z.lor (Z.shiftl (Z.land RegAddr PHYAR_Reg_Mask) PHYAR_Reg_shift) (Z.land value PHYAR_Data_Mask))) ;;;
  poll R8168_CHANNEL_WAIT_COUNT (flag_clear PHYAR PHYAR_Flag) ;;;
  close_mii_gate m.

Definition mdio_real_write_8168 (RegAddr value : Z) : ST unit :=
  let RegAddr := u32 RegAddr in
  let value := u32 value in
  swhen (RegAddr =? 0x1F) (smodify (set_cur_page (u16 value))) ;;;
  s <- tp_get id ;;
  if mcfg s =? 11 then write_gphy_ocpdr RegAddr value
  else if HwSuppPhyOcpVer >? 0 then
    if RegAddr =? 0x1F then sret tt else rtl8168_mdio_real_write_phy_ocp (cur_page s) RegAddr value
  else write_phyar (mcfg s) RegAddr value.

Definition rtl8168_mdio_write (RegAddr value : Z) : ST unit :=
  diag <- tp_get (fun s => rtk_enable_diag s) ;;
  if tst diag then sret tt else mdio_real_write_8168 (u16 RegAddr) (u16 value).

Definition rtl8168_mdio_prot_write (RegAddr value : Z) : ST unit := mdio_real_write_8168 RegAddr value.

Definition rtl8168_mdio_prot_direct_write_phy_ocp (RegAddr value : Z) : ST unit :=
  mdio_real_direct_write_phy_ocp_8168 RegAddr value.

Definition mdio_real_direct_read_phy_ocp_8168 (RegAddr : Z) : ST Z :=
  if HwSuppPhyOcpVer =? 0 then sret 0
  else
    RTL_W32 PHYOCP (u32 (Z.shiftl (u32 RegAddr / 2) OCPR_Addr_Reg_shift)) ;;;
    poll R8168_CHANNEL_WAIT_COUNT (flag_set PHYOCP OCPR_Flag) ;;;
    v <- RTL_R32 PHYOCP ;; sret (Z.land v OCPDR_Data_Mask).

Definition mdio_direct_read_phy_ocp (RegAddr : Z) : ST Z :=
  diag <- tp_get (fun s => rtk_enable_diag s) ;;
  if tst diag then sret 0xffffffff else mdio_real_direct_read_phy_ocp_8168 (u16 RegAddr).

Definition rtl8168_mdio_read_phy_ocp (PageNum RegAddr : Z) : ST Z :=
  diag <- tp_get (fun s => rtk_enable_diag s) ;;
  if tst diag then sret 0xffffffff else mdio_direct_read_phy_ocp (map_phy_ocp_addr PageNum (u32 RegAddr)).

Definition rtl8168_mdio_real_read_phy_ocp (PageNum RegAddr : Z) : ST Z :=
  mdio_real_direct_read_phy_ocp_8168 (map_phy_ocp_addr PageNum (u32 RegAddr)).

Definition read_gphy_ocpdr (RegAddr : Z) : ST Z :=
  RTL_W32 OCPDR (Z.lor OCPDR_Read (Z.shiftl (Z.land RegAddr OCPDR_Reg_Mask) OCPDR_GPHY_Reg_shift)) ;;;
  RTL_W32 OCPAR OCPAR_GPHY_Write ;;;
  RTL_W32 EPHY_RXER_NUM 0 ;;;
  poll 100 (flag_clear OCPAR OCPAR_Flag) ;;;
  RTL_W32 OCPAR OCPAR_GPHY_Read ;;;
  RTL_W32 EPHY_RXER_NUM 0 ;;;
  poll 100 (flag_set OCPAR OCPAR_Flag) ;;;
  v <- RTL_R32 OCPDR ;; sret (Z.land v OCPDR_Data_Mask).

Definition read_phyar (m RegAddr : Z) : ST Z :=
  open_mii_gate m ;;;
  RTL_W32 PHYAR (Z.lor PHYAR_Read (Z.shiftl (Z.land RegAddr PHYAR_Reg_Mask) PHYAR_Reg_shift)) ;;;
  done <- poll R8168_CHANNEL_WAIT_COUNT (flag_set PHYAR PHYAR_Flag) ;;
  value <- (if done : bool then v <- RTL_R32 PHYAR ;; sret (Z.land v PHYAR_Data_Mask) else sret 0) ;;
  close_mii_gate m ;;;
  sret value.

Definition mdio_real_read_8168 (RegAddr : Z) : ST Z :=
  let RegAddr := u32 RegAddr in
  s <- tp_get id ;;
  if mcfg s =? 11 then read_gphy_ocpdr RegAddr
  else if HwSuppPhyOcpVer >? 0 then rtl8168_mdio_real_read_phy_ocp (cur_page s) RegAddr
  else read_phyar (mcfg s) RegAddr.

Definition rtl8168_mdio_read (RegAddr : Z) : ST Z :=
  diag <- tp_get (fun s => rtk_enable_diag s) ;;
  if tst diag then sret 0xffffffff else mdio_real_read_8168 (u16 RegAddr).

Definition rtl8168_mdio_prot_read (RegAddr : Z) : ST Z := mdio_real_read_8168 RegAddr.

Definition rtl8168_mdio_prot_direct_read_phy_ocp (RegAddr : Z) : ST Z :=
  mdio_real_direct_read_phy_ocp_8168 RegAddr.

Definition ClearAndSetEthPhyBit (addr clearmask setmask : Z) : ST unit :=
  v <- rtl8168_mdio_read (u8 addr) ;;
  rtl8168_mdio_write (u8 addr) (clear_set (u16 v) (u16 clearmask) (u16 setmask)).

Definition rtl8168_clear_eth_phy_bit (addr mask : Z) : ST unit := ClearAndSetEthPhyBit addr mask 0.

Definition rtl8168_set_eth_phy_bit (addr mask : Z) : ST unit := ClearAndSetEthPhyBit addr 0 mask.

(** Sequences of PHY operations: [Wr reg value] is a write, [Mo reg clear set]
    a read of a register that is written back with bits cleared and set. *)
Inductive mop := Wr (reg value : Z) | Mo (reg clearmask setmask : Z).

Definition run_mop (op : mop) : ST unit :=
  match op with
  | Wr reg value => rtl8168_mdio_write reg value
  | Mo reg clearmask setmask => ClearAndSetEthPhyBit reg clearmask setmask
  end.

Definition mdio_ops (ops : list mop) : ST unit := sfor ops run_mop.

(** ** MAC OCP registers *)

Definition rtl8168_mac_ocp_write (reg_addr value : Z) : ST unit :=
  let data32 := u32 (Z.shiftl (u16 reg_addr / 2) OCPR_Addr_Reg_shift) in
  let data32 := u32 (data32 + u16 value) in
  RTL_W32 MACOCP (Z.lor data32 OCPR_Write).

Definition rtl8168_mac_ocp_read (reg_addr : Z) : ST Z :=
  RTL_W32 MACOCP (u32 (Z.shiftl (u16 reg_addr / 2) OCPR_Addr_Reg_shift)) ;;;
  v <- RTL_R32 MACOCP ;; sret (u16 v).

Definition rtl8168_clear_and_set_mcu_ocp_bit (addr clearmask setmask : Z) : ST unit :=
  v <- rtl8168_mac_ocp_read addr ;;
  rtl8168_mac_ocp_write addr (clear_set v (u16 clearmask) (u16 setmask)).

Definition rtl8168_clear_mcu_ocp_bit (addr mask : Z) : ST unit := rtl8168_clear_and_set_mcu_ocp_bit addr mask 0.

Definition rtl8168_set_mcu_ocp_bit (addr mask : Z) : ST unit := rtl8168_clear_and_set_mcu_ocp_bit addr 0 mask.

(** A sequence of writes. *)
Definition mac_ocp_ops (ops : list (Z * Z)) : ST unit :=
  sfor ops (fun op => rtl8168_mac_ocp_write op.1 op.2).

(** The words of a table, from an address on. *)
Fixpoint table_at (addr : Z) (words : list Z) : list (Z * Z) :=
  match words with
  | [] => []
  | w :: words' => (addr, w) :: table_at (addr + 2) words'
  end.

(** ** The PCIe PHY *)

Definition rtl8168_check_ephy_addr (addr : Z) : ST Z :=
  m <- tp_get (fun s => mcfg s) ;;
  if negb (m =? 35) && negb (m =? 36) then sret (u8 addr)
  else
    swhen (has addr (bits_or [6; 5]))
      (rtl8168_clear_and_set_mcu_ocp_bit 0xDE28 (bits_or [1; 0]) (Z.land (Z.shiftr addr 5) (bits_or [1; 0]))) ;;;
    sret (u8 (Z.land addr 0x1F)).

Definition _rtl8168_ephy_write (addr value : Z) : ST unit :=
  RTL_W32 EPHYAR (Z.lor EPHYAR_Write
    (Z.lor (Z.shiftl (Z.land addr EPHYAR_Reg_Mask) EPHYAR_Reg_shift) (Z.land value EPHYAR_Data_Mask))) ;;;
  poll R8168_CHANNEL_WAIT_COUNT (flag_clear EPHYAR EPHYAR_Flag) ;;;
  sret tt.

Definition rtl8168_ephy_write (addr value : Z) : ST unit :=
  a <- rtl8168_check_ephy_addr addr ;; _rtl8168_ephy_write a value.

Definition _rtl8168_ephy_read (addr : Z) : ST Z :=
  RTL_W32 EPHYAR (Z.lor EPHYAR_Read (Z.shiftl (Z.land addr EPHYAR_Reg_Mask) EPHYAR_Reg_shift)) ;;;
  done <- poll R8168_CHANNEL_WAIT_COUNT (flag_set EPHYAR EPHYAR_Flag) ;;
  if done : bool then v <- RTL_R32 EPHYAR ;; sret (u16 (Z.land v EPHYAR_Data_Mask)) else sret 0xffff.

Definition rtl8168_ephy_read (addr : Z) : ST Z :=
  a <- rtl8168_check_ephy_addr addr ;; _rtl8168_ephy_read a.

Definition ClearAndSetPCIePhyBit (addr clearmask setmask : Z) : ST unit :=
  v <- rtl8168_ephy_read (u8 addr) ;;
  rtl8168_ephy_write (u8 addr) (clear_set v (u16 clearmask) (u16 setmask)).

Definition ClearPCIePhyBit (addr mask : Z) : ST unit := ClearAndSetPCIePhyBit addr mask 0.

Definition SetPCIePhyBit (addr mask : Z) : ST unit := ClearAndSetPCIePhyBit addr 0 mask.

(** ** The configuration space of the other functions of the device *)

Definition selects_function (m : Z) : bool := existsb (Z.eqb m) [20; 23; 26; 27; 28; 31; 32; 33; 34].

Definition rtl8168_csi_other_fun_read (multi_fun_sel_bit addr : Z) : ST Z :=
  m <- tp_get (fun s => mcfg s) ;;
  let multi_fun_sel_bit := if selects_function m then u8 multi_fun_sel_bit else 0 in
  if multi_fun_sel_bit >? 7 then sret 0xffffffff
  else
    RTL_W32 CSIAR (csi_cmd CSIAR_Read multi_fun_sel_bit (u32 addr)) ;;;
    done <- poll R8168_CHANNEL_WAIT_COUNT (flag_set CSIAR CSIAR_Flag) ;;
    if done : bool then RTL_R32 CSIDR else sret 0.

Definition rtl8168_csi_other_fun_write (multi_fun_sel_bit addr value : Z) : ST unit :=
  RTL_W32 CSIDR (u32 value) ;;;
  m <- tp_get (fun s => mcfg s) ;;
  let multi_fun_sel_bit := if selects_function m then u8 multi_fun_sel_bit else 0 in
  if multi_fun_sel_bit >? 7 then sret tt
  else
    RTL_W32 CSIAR (csi_cmd CSIAR_Write multi_fun_sel_bit (u32 addr)) ;;;
    poll R8168_CHANNEL_WAIT_COUNT (flag_clear CSIAR CSIAR_Flag) ;;;
    sret tt.

Definition rtl8168_check_dash_other_fun_present : ST bool :=
  v <- rtl8168_csi_other_fun_read 2 0x00 ;; sret (negb (v =? 0xffffffff)).

(** ** The eFuse *)

Definition rtl8168_calc_efuse_dummy_bit (reg : Z) : Z :=
  let s := u16 reg mod 32 in
  let a := s mod 16 in
  if tst (s / 16) then u8 (16 - a) else u8 a.

(** The dummy bit at [DummyPos] is taken out of the word. *)
Definition drop_dummy_bit (w DummyPos : Z) : Z :=
  let kept := u32 (Z.shiftl (Z.shiftr w (DummyPos + 1)) DummyPos) in
  if DummyPos >? 0 then Z.lor kept (Z.shiftr (u32 (Z.shiftl w (32 - DummyPos))) (32 - DummyPos)) else kept.

Definition rtl8168_decode_efuse_cmd (DwCmd : Z) : Z :=
  if efuse_ver <? 3 then
    drop_dummy_bit DwCmd (rtl8168_calc_efuse_dummy_bit (u16 (Z.shiftr (Z.land DwCmd 0x00FE0000) 17)))
  else
    let DummyPos := rtl8168_calc_efuse_dummy_bit (u16 (Z.shiftr (Z.land DwCmd 0x007F0000) 16)) in
    let Dw17BitData := Z.shiftr (Z.land DwCmd (BIT 23)) 23 in
    let Dw17BitData := u32 (Z.shiftl Dw17BitData 16) in
    drop_dummy_bit (Z.lor Dw17BitData (Z.land DwCmd 0x0000FFFF)) DummyPos.

(** The command is done when [EFUSEAR] satisfies [done], within
    [EFUSE_Check_Cnt] reads; a success of the last of them counts as none. *)
Definition efuse_command (temp : Z) (done : Z -> bool) : ST bool :=
  RTL_W32 EFUSEAR temp ;;;
  early <- poll (EFUSE_Check_Cnt - 1) (v <- RTL_R32 EFUSEAR ;; sret (done v)) ;;
  if early : bool then sret true else v <- RTL_R32 EFUSEAR ;; sret false.

Definition efuse_byte (reg : Z) : ST Z :=
  v <- RTL_R32 EFUSEAR ;;
  let temp := rtl8168_decode_efuse_cmd v in
  sret (if tst (reg mod 2) then u8 (Z.shiftr temp 8) else u8 temp).

Definition rtl8168_efuse_read (reg : Z) : ST Z :=
  let reg := u16 reg in
  if efuse_ver =? EFUSE_NOT_SUPPORT then sret EFUSE_READ_FAIL
  else if efuse_ver =? EFUSE_SUPPORT_V1 then
    ok <- efuse_command (Z.lor EFUSE_READ (Z.shiftl (Z.land reg EFUSE_Reg_Mask) EFUSE_Reg_Shift))
            (fun v => has v EFUSE_READ_OK) ;;
    if ok : bool then v <- RTL_R32 EFUSEAR ;; sret (u8 (Z.land v EFUSE_Data_Mask)) else sret EFUSE_READ_FAIL
  else if efuse_ver =? EFUSE_SUPPORT_V2 then
    ok <- efuse_command (Z.lor (u32 (Z.shiftl (Z.land (reg / 2) 0x03ff) 17)) EFUSE_READ)
            (fun v => has v EFUSE_READ_OK) ;;
    if ok : bool then efuse_byte reg else sret EFUSE_READ_FAIL
  else if efuse_ver =? EFUSE_SUPPORT_V3 then
    ok <- efuse_command (Z.lor (u32 (Z.shiftl (Z.land (reg / 2) 0x03ff) 16)) EFUSE_READ_V3)
            (fun v => negb (has v (BIT 31))) ;;
    if ok : bool then efuse_byte reg else sret EFUSE_READ_FAIL
  else sret 0.

(** ** The OOB window *)

(** As the ERI loops of r8125, through OCPAR and OCPDR; [fuel] is the number of
    words: a value of at most four bytes touches two. *)
Fixpoint real_ocp_read_loop (fuel : nat) (addr len shift value2 : Z) : ST Z :=
  match fuel with
  | O => sret value2
  | S fuel' =>
      if len >? 0 then
        let val_shift := addr mod 4 in
        let addr := Z.land addr (Z.lnot 3) in
        RTL_W32 OCPAR (Z.lor (Z.shiftl 0x0F 12) (Z.land addr 0xFFF)) ;;;
        poll R8168_CHANNEL_WAIT_COUNT (flag_set OCPAR OCPAR_Flag) ;;;
        v <- RTL_R32 OCPDR ;;
        let value1 := Z.land v (eri_mask len val_shift) in
        let value2 := Z.lor value2 (u32 (Z.shiftl (Z.shiftr value1 (val_shift * 8)) (shift * 8))) in
        if len <=? 4 - val_shift then sret value2
        else real_ocp_read_loop fuel' (u16 (addr + 4)) (len - (4 - val_shift)) (4 - val_shift) value2
      else sret value2
  end.

Definition real_ocp_read (addr len : Z) : ST Z :=
  let len := u8 len in
  if (len >? 4) || (len <=? 0) then sret 0xffffffff else real_ocp_read_loop 2 (u16 addr) len 0 0.

Definition rtl8168_eri_read := rtl8125_eri_read.
Definition rtl8168_eri_write := rtl8125_eri_write.

Definition rtl8168_ocp_read_with_oob_base_address (addr len base_address : Z) : ST Z :=
  rtl8125_eri_read_with_oob_base_address (u16 addr) (u8 len) ERIAR_OOB base_address.

Definition rtl8168_ocp_read (addr len : Z) : ST Z :=
  ver <- tp_get (fun s => HwSuppOcpChannelVer s) ;;
  if ver =? 1 then real_ocp_read addr len
  else if ver =? 2 then rtl8168_ocp_read_with_oob_base_address addr len NO_BASE_ADDRESS
  else if ver =? 3 then rtl8168_ocp_read_with_oob_base_address addr len RTL8168FP_OOBMAC_BASE
  else sret 0.

Fixpoint real_ocp_write_loop (fuel : nat) (addr len shift value : Z) : ST unit :=
  match fuel with
  | O => sret tt
  | S fuel' =>
      if len >? 0 then
        let val_shift := addr mod 4 in
        let addr := Z.land addr (Z.lnot 3) in
        v <- rtl8168_ocp_read addr 4 ;;
        let value1 := Z.land v (Z.lnot (eri_mask len val_shift)) in
        let value1 := Z.lor value1 (Z.shiftr (u32 (Z.shiftl value (val_shift * 8))) (shift * 8)) in
        RTL_W32 OCPDR value1 ;;;
        RTL_W32 OCPAR (Z.lor OCPAR_Flag (Z.lor (Z.shiftl 0x0F 12) (Z.land addr 0xFFF))) ;;;
        poll R8168_CHANNEL_WAIT_COUNT (flag_clear OCPAR OCPAR_Flag) ;;;
        if len <=? 4 - val_shift then sret tt
        else real_ocp_write_loop fuel' (u16 (addr + 4)) (len - (4 - val_shift)) (4 - val_shift) value
      else sret tt
  end.

Definition real_ocp_write (addr len value : Z) : ST Z :=
  let len := u8 len in
  if (len >? 4) || (len <=? 0) then sret (-1)
  else real_ocp_write_loop 2 (u16 addr) len 0 (u32 value) ;;; sret 0.

Definition rtl8168_ocp_write_with_oob_base_address (addr len value base_address : Z) : ST Z :=
  rtl8125_eri_write_with_oob_base_address (u16 addr) (u8 len) value ERIAR_OOB base_address.

Definition rtl8168_ocp_write (addr len value : Z) : ST unit :=
  ver <- tp_get (fun s => HwSuppOcpChannelVer s) ;;
  if ver =? 1 then real_ocp_write addr len value ;;; sret tt
  else if ver =? 2 then rtl8168_ocp_write_with_oob_base_address addr len value NO_BASE_ADDRESS ;;; sret tt
  else swhen (ver =? 3) (rtl8168_ocp_write_with_oob_base_address addr len value RTL8168FP_OOBMAC_BASE ;;; sret tt).

(** The registers of the mutex shared with the management firmware. *)
Record mutex_regs := MkMutex { mutex_oob : Z; mutex_ib : Z; mutex_prio : Z }.

Definition oob_mutex_regs (m : Z) : mutex_regs :=
  if (m =? 11) || (m =? 12) then MkMutex 0x16 0x17 0x9C
  else if m =? 13 then MkMutex 0x06 0x07 0x9C
  else MkMutex 0x110 0x114 0x11C.

(** [n] rounds are left of the wait for the other side's priority request. *)
Fixpoint wait_prio (r : mutex_regs) (n : nat) (reg_a0 : Z) : ST unit :=
  match n with
  | O => sret tt
  | S n' =>
      if tst reg_a0 then v <- rtl8168_ocp_read (mutex_prio r) 1 ;; wait_prio r n' (u8 v) else sret tt
  end.

Fixpoint wait_mutex (r : mutex_regs) (n : nat) (reg_16 : Z) : ST unit :=
  match n with
  | O => sret tt
  | S n' =>
      if tst reg_16 then
        reg_a0 <- rtl8168_ocp_read (mutex_prio r) 1 ;;
        swhen (tst (u8 reg_a0))
          (rtl8168_ocp_write (mutex_ib r) 1 0 ;;;
           reg_a0 <- rtl8168_ocp_read (mutex_prio r) 1 ;;
           wait_prio r (Z.to_nat 2001) (u8 reg_a0) ;;;
           rtl8168_ocp_write (mutex_ib r) 1 (BIT 0)) ;;;
        v <- rtl8168_ocp_read (mutex_oob r) 1 ;;
        wait_mutex r n' (u8 v)
      else sret tt
  end.

Definition rtl8168_oob_mutex_lock : ST unit :=
  s <- tp_get id ;;
  if negb (tst (DASH s)) then sret tt
  else
    let r := oob_mutex_regs (mcfg s) in
    rtl8168_ocp_write (mutex_ib r) 1 (BIT 0) ;;;
    v <- rtl8168_ocp_read (mutex_oob r) 1 ;;
    wait_mutex r (Z.to_nat 2001) (u8 v).

Definition rtl8168_oob_mutex_unlock : ST unit :=
  s <- tp_get id ;;
  if negb (tst (DASH s)) then sret tt
  else
    let r := oob_mutex_regs (mcfg s) in
    rtl8168_ocp_write (mutex_prio r) 1 (BIT 0) ;;;
    rtl8168_ocp_write (mutex_ib r) 1 0x00.

(** ** The mode in which the PHY is off *)

Definition rtl8168_is_gpio_low : ST bool :=
  ver <- tp_get (fun s => HwSuppCheckPhyDisableModeVer s) ;;
  if (ver =? 1) || (ver =? 2) then v <- rtl8168_mac_ocp_read 0xDC04 ;; sret (negb (has v (BIT 9)))
  else if ver =? 3 then v <- rtl8168_mac_ocp_read 0xDC04 ;; sret (negb (has v (BIT 13)))
  else sret false.

Definition rtl8168_is_phy_disable_mode_enabled : ST bool :=
  ver <- tp_get (fun s => HwSuppCheckPhyDisableModeVer s) ;;
  if ver =? 1 then v <- rtl8168_mac_ocp_read 0xDC20 ;; sret (has v (BIT 1))
  else if (ver =? 2) || (ver =? 3) then v <- RTL_R8 0xF2 ;; sret (has v (BIT 5))
  else sret false.

Definition rtl8168_is_in_phy_disable_mode : ST bool :=
  b <- rtl8168_is_phy_disable_mode_enabled ;;
  if b : bool then rtl8168_is_gpio_low else sret false.

Definition rtl8168_enable_phy_disable_mode : ST unit :=
  ver <- tp_get (fun s => HwSuppCheckPhyDisableModeVer s) ;;
  if ver =? 1 then v <- rtl8168_mac_ocp_read 0xDC20 ;; rtl8168_mac_ocp_write 0xDC20 (Z.lor v (BIT 1))
  else swhen ((ver =? 2) || (ver =? 3)) (RTL_set8 0xF2 (BIT 5)).

Definition rtl8168_disable_phy_disable_mode : ST unit :=
  ver <- tp_get (fun s => HwSuppCheckPhyDisableModeVer s) ;;
  if ver =? 1 then v <- rtl8168_mac_ocp_read 0xDC20 ;; rtl8168_mac_ocp_write 0xDC20 (Z.land v (Z.lnot (BIT 1)))
  else swhen ((ver =? 2) || (ver =? 3)) (RTL_clear8 0xF2 (BIT 5)).

Definition rtl8168_wait_phy_reset_complete : ST Z :=
  done <- poll (Z.to_nat 2500) (v <- rtl8168_mdio_read MII_BMCR ;; sret (negb (has v BMCR_RESET))) ;;
  sret (if done : bool then 0 else -1).

Definition rtl8168_xmii_reset_enable : ST unit :=
  off <- rtl8168_is_in_phy_disable_mode ;;
  if off : bool then sret tt
  else
    rtl8168_mdio_write 0x1f 0x0000 ;;;
    v <- rtl8168_mdio_read MII_ADVERTISE ;;
    rtl8168_mdio_write MII_ADVERTISE (Z.land v (Z.lnot
      (Z.lor ADVERTISE_10HALF (Z.lor ADVERTISE_10FULL (Z.lor ADVERTISE_100HALF ADVERTISE_100FULL))))) ;;;
    v <- rtl8168_mdio_read MII_CTRL1000 ;;
    rtl8168_mdio_write MII_CTRL1000 (Z.land v (Z.lnot (Z.lor ADVERTISE_1000HALF ADVERTISE_1000FULL))) ;;;
    rtl8168_mdio_write MII_BMCR (Z.lor BMCR_RESET BMCR_ANENABLE) ;;;
    rtl8168_wait_phy_reset_complete ;;;
    sret tt.

(** ** The link power states of the bus *)

Definition rtl8168_hw_aspm_clkreq_enable (enable : bool) : ST unit :=
  if HwSuppAspmClkIntrLock =? 0 then sret tt
  else
    on <- tp_get (fun s => tst (aspm s)) ;;
    if enable && on then RTL_set8 Config5 (BIT 0) ;;; RTL_set8 Config2 (BIT 7)
    else RTL_clear8 Config2 (BIT 7) ;;; RTL_clear8 Config5 (BIT 0).

Definition rtl8168_enable_cfg9346_write : ST unit := RTL_set8 Cfg9346 Cfg9346_Unlock.

Definition rtl8168_disable_cfg9346_write : ST unit := RTL_clear8 Cfg9346 Cfg9346_Unlock.
End Channels.
