(* ===== verification/Rtl8168Code.v ===== *)
(** * r8168: microcode and tuning tables

    The sequences of PHY and MAC operations of r8168_n.c as data: the parts of
    the microcode loaders, of the tuning of each chip and the words of the MAC
    patches, a run of unused zero words as [zeros n].  [Rtl8168] runs them. *)
From S2P Require Import Prelude RtlBase RtlHw RtlIrq RtlWol RtlMcu RtlRamCode RtlPhyConfig RtlChip RtlLink RtlEee RtlConfig Rtl8168Hw.
Local Open Scope Z_scope.

Definition phy_ram_code_check_1 : list mop := [
  Wr 0x1f 0x0A40; Mo 0x10 (BIT 11) 0; Wr 0x1f 0x0A00; Mo 0x10 (bits_or [12; 13; 14; 15]) 0; Wr 0x1f 0x0A43;
  Wr 0x13 0x8010; Mo 0x14 (BIT 11) 0].

Definition phy_ram_code_check_2 : list mop := [
  Wr 0x1f 0x0A40; Wr 0x10 0x0140; Wr 0x1f 0x0A4A; Mo 0x13 (BIT 6) (BIT 7); Wr 0x1f 0x0A44;
  Mo 0x14 0 (BIT 2); Wr 0x1f 0x0A50; Mo 0x11 0 (bits_or [11; 12])].

Definition phy_ram_code_check_3 : list mop := [
  Wr 0x1f 0x0A40; Wr 0x10 0x1040; Wr 0x1f 0x0A4A; Mo 0x13 (bits_or [6; 7]) 0; Wr 0x1f 0x0A44;
  Mo 0x14 (BIT 2) 0; Wr 0x1f 0x0A50; Mo 0x11 (bits_or [11; 12]) 0; Wr 0x1f 0x0A43; Wr 0x13 0x8010;
  Mo 0x14 0 (BIT 11)].

Definition phy_mcu_8168e_1_1 : list mop := [
  Wr 0x1f 0x0000; Wr 0x00 0x1800; Wr 0x1f 0x0007; Wr 0x1e 0x0023; Wr 0x17 0x0117; Wr 0x1f 0x0007;
  Wr 0x1E 0x002C; Wr 0x1B 0x5000; Wr 0x1f 0x0000; Wr 0x16 0x4104].

Definition phy_mcu_8168e_1_2 : list mop := [
  Wr 0x1f 0x0007; Wr 0x1e 0x00a1; Wr 0x17 0x1000; Wr 0x17 0x0000; Wr 0x17 0x2000; Wr 0x1e 0x002f;
  Wr 0x18 0x9bfb; Wr 0x1f 0x0005; Wr 0x07 0x0000; Wr 0x1f 0x0000].

Definition phy_mcu_8168e_1_3 : list mop := [
  Wr 0x1f 0x0005; Wr 0x05 0xfff6; Wr 0x06 0x0080; Mo 0x00 (BIT 7) 0; Wr 0x1f 0x0002; Mo 0x08 (BIT 7) 0;
  Wr 0x1f 0x0000; Wr 0x1f 0x0007; Wr 0x1e 0x0023; Wr 0x16 0x0306; Wr 0x16 0x0307; Wr 0x15 0x000e;
  Wr 0x19 0x000a; Wr 0x15 0x0010; Wr 0x19 0x0008; Wr 0x15 0x0018; Wr 0x19 0x4801; Wr 0x15 0x0019;
  Wr 0x19 0x6801; Wr 0x15 0x001a; Wr 0x19 0x66a1; Wr 0x15 0x001f; Wr 0x19 0x0000; Wr 0x15 0x0020;
  Wr 0x19 0x0000; Wr 0x15 0x0021; Wr 0x19 0x0000; Wr 0x15 0x0022; Wr 0x19 0x0000; Wr 0x15 0x0023;
  Wr 0x19 0x0000; Wr 0x15 0x0024; Wr 0x19 0x0000; Wr 0x15 0x0025; Wr 0x19 0x64a1; Wr 0x15 0x0026;
  Wr 0x19 0x40ea; Wr 0x15 0x0027; Wr 0x19 0x4503; Wr 0x15 0x0028; Wr 0x19 0x9f00; Wr 0x15 0x0029;
  Wr 0x19 0xa631; Wr 0x15 0x002a; Wr 0x19 0x9717; Wr 0x15 0x002b; Wr 0x19 0x302c; Wr 0x15 0x002c;
  Wr 0x19 0x4802; Wr 0x15 0x002d; Wr 0x19 0x58da; Wr 0x15 0x002e; Wr 0x19 0x400d; Wr 0x15 0x002f;
  Wr 0x19 0x4488; Wr 0x15 0x0030; Wr 0x19 0x9e00; Wr 0x15 0x0031; Wr 0x19 0x63c8; Wr 0x15 0x0032;
  Wr 0x19 0x6481; Wr 0x15 0x0033; Wr 0x19 0x0000; Wr 0x15 0x0034; Wr 0x19 0x0000; Wr 0x15 0x0035;
  Wr 0x19 0x0000; Wr 0x15 0x0036; Wr 0x19 0x0000; Wr 0x15 0x0037; Wr 0x19 0x0000; Wr 0x15 0x0038;
  Wr 0x19 0x0000; Wr 0x15 0x0039; Wr 0x19 0x0000; Wr 0x15 0x003a; Wr 0x19 0x0000; Wr 0x15 0x003b;
  Wr 0x19 0x63e8; Wr 0x15 0x003c; Wr 0x19 0x7d00; Wr 0x15 0x003d; Wr 0x19 0x59d4; Wr 0x15 0x003e;
  Wr 0x19 0x63f8; Wr 0x15 0x0040; Wr 0x19 0x64a1; Wr 0x15 0x0041; Wr 0x19 0x30de; Wr 0x15 0x0044;
  Wr 0x19 0x480f; Wr 0x15 0x0045; Wr 0x19 0x6800; Wr 0x15 0x0046; Wr 0x19 0x6680; Wr 0x15 0x0047;
  Wr 0x19 0x7c10; Wr 0x15 0x0048; Wr 0x19 0x63c8; Wr 0x15 0x0049; Wr 0x19 0x0000; Wr 0x15 0x004a;
  Wr 0x19 0x0000; Wr 0x15 0x004b; Wr 0x19 0x0000; Wr 0x15 0x004c; Wr 0x19 0x0000; Wr 0x15 0x004d;
  Wr 0x19 0x0000; Wr 0x15 0x004e; Wr 0x19 0x0000; Wr 0x15 0x004f; Wr 0x19 0x40ea; Wr 0x15 0x0050;
  Wr 0x19 0x4503; Wr 0x15 0x0051; Wr 0x19 0x58ca; Wr 0x15 0x0052; Wr 0x19 0x63c8; Wr 0x15 0x0053;
  Wr 0x19 0x63d8; Wr 0x15 0x0054; Wr 0x19 0x66a0; Wr 0x15 0x0055; Wr 0x19 0x9f00; Wr 0x15 0x0056;
  Wr 0x19 0x3000; Wr 0x15 0x006E; Wr 0x19 0x9afa; Wr 0x15 0x00a1; Wr 0x19 0x3044; Wr 0x15 0x00ab;
  Wr 0x19 0x5820; Wr 0x15 0x00ac; Wr 0x19 0x5e04; Wr 0x15 0x00ad; Wr 0x19 0xb60c; Wr 0x15 0x00af;
  Wr 0x19 0x000a; Wr 0x15 0x00b2; Wr 0x19 0x30b9; Wr 0x15 0x00b9; Wr 0x19 0x4408; Wr 0x15 0x00ba].

Definition phy_mcu_8168e_1_4 : list mop := [
  Wr 0x19 0x480b; Wr 0x15 0x00bb; Wr 0x19 0x5e00; Wr 0x15 0x00bc; Wr 0x19 0x405f; Wr 0x15 0x00bd;
  Wr 0x19 0x4448; Wr 0x15 0x00be; Wr 0x19 0x4020; Wr 0x15 0x00bf; Wr 0x19 0x4468; Wr 0x15 0x00c0;
  Wr 0x19 0x9c02; Wr 0x15 0x00c1; Wr 0x19 0x58a0; Wr 0x15 0x00c2; Wr 0x19 0xb605; Wr 0x15 0x00c3;
  Wr 0x19 0xc0d3; Wr 0x15 0x00c4; Wr 0x19 0x00e6; Wr 0x15 0x00c5; Wr 0x19 0xdaec; Wr 0x15 0x00c6;
  Wr 0x19 0x00fa; Wr 0x15 0x00c7; Wr 0x19 0x9df9; Wr 0x15 0x00c8; Wr 0x19 0x307a; Wr 0x15 0x0112;
  Wr 0x19 0x6421; Wr 0x15 0x0113; Wr 0x19 0x7c08; Wr 0x15 0x0114; Wr 0x19 0x63f0; Wr 0x15 0x0115;
  Wr 0x19 0x4003; Wr 0x15 0x0116; Wr 0x19 0x4418; Wr 0x15 0x0117; Wr 0x19 0x9b00; Wr 0x15 0x0118;
  Wr 0x19 0x6461; Wr 0x15 0x0119; Wr 0x19 0x64e1; Wr 0x15 0x011a; Wr 0x19 0x0000; Wr 0x15 0x0150;
  Wr 0x19 0x7c80; Wr 0x15 0x0151; Wr 0x19 0x6461; Wr 0x15 0x0152; Wr 0x19 0x4003; Wr 0x15 0x0153;
  Wr 0x19 0x4540; Wr 0x15 0x0154; Wr 0x19 0x9f00; Wr 0x15 0x0155; Wr 0x19 0x9d00; Wr 0x15 0x0156;
  Wr 0x19 0x7c40; Wr 0x15 0x0157; Wr 0x19 0x6421; Wr 0x15 0x0158; Wr 0x19 0x7c80; Wr 0x15 0x0159;
  Wr 0x19 0x64a1; Wr 0x15 0x015a; Wr 0x19 0x30fe; Wr 0x15 0x021e; Wr 0x19 0x5410; Wr 0x15 0x0225;
  Wr 0x19 0x5400; Wr 0x15 0x023D; Wr 0x19 0x4050; Wr 0x15 0x0295; Wr 0x19 0x6c08; Wr 0x15 0x02bd;
  Wr 0x19 0xa523; Wr 0x15 0x02be; Wr 0x19 0x32ca; Wr 0x15 0x02ca; Wr 0x19 0x48b3; Wr 0x15 0x02cb;
  Wr 0x19 0x4020; Wr 0x15 0x02cc; Wr 0x19 0x4823; Wr 0x15 0x02cd; Wr 0x19 0x4510; Wr 0x15 0x02ce;
  Wr 0x19 0xb63a; Wr 0x15 0x02cf; Wr 0x19 0x7dc8; Wr 0x15 0x02d6; Wr 0x19 0x9bf8; Wr 0x15 0x02d8;
  Wr 0x19 0x85f6; Wr 0x15 0x02d9; Wr 0x19 0x32e0; Wr 0x15 0x02e0; Wr 0x19 0x4834; Wr 0x15 0x02e1;
  Wr 0x19 0x6c08; Wr 0x15 0x02e2; Wr 0x19 0x4020; Wr 0x15 0x02e3; Wr 0x19 0x4824; Wr 0x15 0x02e4;
  Wr 0x19 0x4520; Wr 0x15 0x02e5; Wr 0x19 0x4008; Wr 0x15 0x02e6; Wr 0x19 0x4560; Wr 0x15 0x02e7;
  Wr 0x19 0x9d04; Wr 0x15 0x02e8; Wr 0x19 0x48c4; Wr 0x15 0x02e9; Wr 0x19 0x0000; Wr 0x15 0x02ea;
  Wr 0x19 0x4844; Wr 0x15 0x02eb; Wr 0x19 0x7dc8; Wr 0x15 0x02f0; Wr 0x19 0x9cf7; Wr 0x15 0x02f1;
  Wr 0x19 0xdf94; Wr 0x15 0x02f2; Wr 0x19 0x0002; Wr 0x15 0x02f3; Wr 0x19 0x6810; Wr 0x15 0x02f4;
  Wr 0x19 0xb614; Wr 0x15 0x02f5; Wr 0x19 0xc42b; Wr 0x15 0x02f6; Wr 0x19 0x00d4; Wr 0x15 0x02f7;
  Wr 0x19 0xc455; Wr 0x15 0x02f8; Wr 0x19 0x0093; Wr 0x15 0x02f9; Wr 0x19 0x92ee; Wr 0x15 0x02fa;
  Wr 0x19 0xefed; Wr 0x15 0x02fb; Wr 0x19 0x3312; Wr 0x15 0x0312].

Definition phy_mcu_8168e_1_5 : list mop := [
  Wr 0x19 0x49b5; Wr 0x15 0x0313; Wr 0x19 0x7d00; Wr 0x15 0x0314; Wr 0x19 0x4d00; Wr 0x15 0x0315;
  Wr 0x19 0x6810; Wr 0x15 0x031e; Wr 0x19 0x404f; Wr 0x15 0x031f; Wr 0x19 0x44c8; Wr 0x15 0x0320;
  Wr 0x19 0xd64f; Wr 0x15 0x0321; Wr 0x19 0x00e7; Wr 0x15 0x0322; Wr 0x19 0x7c08; Wr 0x15 0x0323;
  Wr 0x19 0x8203; Wr 0x15 0x0324; Wr 0x19 0x4d48; Wr 0x15 0x0325; Wr 0x19 0x3327; Wr 0x15 0x0326;
  Wr 0x19 0x4d40; Wr 0x15 0x0327; Wr 0x19 0xc8d7; Wr 0x15 0x0328; Wr 0x19 0x0003; Wr 0x15 0x0329;
  Wr 0x19 0x7c20; Wr 0x15 0x032a; Wr 0x19 0x4c20; Wr 0x15 0x032b; Wr 0x19 0xc8ed; Wr 0x15 0x032c;
  Wr 0x19 0x00f4; Wr 0x15 0x032d; Wr 0x19 0x82b3; Wr 0x15 0x032e; Wr 0x19 0xd11d; Wr 0x15 0x032f;
  Wr 0x19 0x00b1; Wr 0x15 0x0330; Wr 0x19 0xde18; Wr 0x15 0x0331; Wr 0x19 0x0008; Wr 0x15 0x0332;
  Wr 0x19 0x91ee; Wr 0x15 0x0333; Wr 0x19 0x3339; Wr 0x15 0x033a; Wr 0x19 0x4064; Wr 0x15 0x0340;
  Wr 0x19 0x9e06; Wr 0x15 0x0341; Wr 0x19 0x7c08; Wr 0x15 0x0342; Wr 0x19 0x8203; Wr 0x15 0x0343;
  Wr 0x19 0x4d48; Wr 0x15 0x0344; Wr 0x19 0x3346; Wr 0x15 0x0345; Wr 0x19 0x4d40; Wr 0x15 0x0346;
  Wr 0x19 0xd11d; Wr 0x15 0x0347; Wr 0x19 0x0099; Wr 0x15 0x0348; Wr 0x19 0xbb17; Wr 0x15 0x0349;
  Wr 0x19 0x8102; Wr 0x15 0x034a; Wr 0x19 0x334d; Wr 0x15 0x034b; Wr 0x19 0xa22c; Wr 0x15 0x034c;
  Wr 0x19 0x3397; Wr 0x15 0x034d; Wr 0x19 0x91f2; Wr 0x15 0x034e; Wr 0x19 0xc218; Wr 0x15 0x034f;
  Wr 0x19 0x00f0; Wr 0x15 0x0350; Wr 0x19 0x3397; Wr 0x15 0x0351; Wr 0x19 0x0000; Wr 0x15 0x0364;
  Wr 0x19 0xbc05; Wr 0x15 0x0367; Wr 0x19 0xa1fc; Wr 0x15 0x0368; Wr 0x19 0x3377; Wr 0x15 0x0369;
  Wr 0x19 0x328b; Wr 0x15 0x036a; Wr 0x19 0x0000; Wr 0x15 0x0377; Wr 0x19 0x4b97; Wr 0x15 0x0378;
  Wr 0x19 0x6818; Wr 0x15 0x0379; Wr 0x19 0x4b07; Wr 0x15 0x037a; Wr 0x19 0x40ac; Wr 0x15 0x037b;
  Wr 0x19 0x4445; Wr 0x15 0x037c; Wr 0x19 0x404e; Wr 0x15 0x037d; Wr 0x19 0x4461; Wr 0x15 0x037e;
  Wr 0x19 0x9c09; Wr 0x15 0x037f; Wr 0x19 0x63da; Wr 0x15 0x0380; Wr 0x19 0x5440; Wr 0x15 0x0381;
  Wr 0x19 0x4b98; Wr 0x15 0x0382; Wr 0x19 0x7c60; Wr 0x15 0x0383; Wr 0x19 0x4c00; Wr 0x15 0x0384;
  Wr 0x19 0x4b08; Wr 0x15 0x0385; Wr 0x19 0x63d8; Wr 0x15 0x0386; Wr 0x19 0x338d; Wr 0x15 0x0387;
  Wr 0x19 0xd64f; Wr 0x15 0x0388; Wr 0x19 0x0080; Wr 0x15 0x0389; Wr 0x19 0x820c; Wr 0x15 0x038a;
  Wr 0x19 0xa10b; Wr 0x15 0x038b; Wr 0x19 0x9df3; Wr 0x15 0x038c; Wr 0x19 0x3395; Wr 0x15 0x038d;
  Wr 0x19 0xd64f; Wr 0x15 0x038e; Wr 0x19 0x00f9; Wr 0x15 0x038f].

Definition phy_mcu_8168e_1_6 : list mop := [
  Wr 0x19 0xc017; Wr 0x15 0x0390; Wr 0x19 0x0005; Wr 0x15 0x0391; Wr 0x19 0x6c0b; Wr 0x15 0x0392;
  Wr 0x19 0xa103; Wr 0x15 0x0393; Wr 0x19 0x6c08; Wr 0x15 0x0394; Wr 0x19 0x9df9; Wr 0x15 0x0395;
  Wr 0x19 0x6c08; Wr 0x15 0x0396; Wr 0x19 0x3397; Wr 0x15 0x0399; Wr 0x19 0x6810; Wr 0x15 0x03a4;
  Wr 0x19 0x7c08; Wr 0x15 0x03a5; Wr 0x19 0x8203; Wr 0x15 0x03a6; Wr 0x19 0x4d08; Wr 0x15 0x03a7;
  Wr 0x19 0x33a9; Wr 0x15 0x03a8; Wr 0x19 0x4d00; Wr 0x15 0x03a9; Wr 0x19 0x9bfa; Wr 0x15 0x03aa;
  Wr 0x19 0x33b6; Wr 0x15 0x03bb; Wr 0x19 0x4056; Wr 0x15 0x03bc; Wr 0x19 0x44e9; Wr 0x15 0x03bd;
  Wr 0x19 0x405e; Wr 0x15 0x03be; Wr 0x19 0x44f8; Wr 0x15 0x03bf; Wr 0x19 0xd64f; Wr 0x15 0x03c0;
  Wr 0x19 0x0037; Wr 0x15 0x03c1; Wr 0x19 0xbd37; Wr 0x15 0x03c2; Wr 0x19 0x9cfd; Wr 0x15 0x03c3;
  Wr 0x19 0xc639; Wr 0x15 0x03c4; Wr 0x19 0x0011; Wr 0x15 0x03c5; Wr 0x19 0x9b03; Wr 0x15 0x03c6;
  Wr 0x19 0x7c01; Wr 0x15 0x03c7; Wr 0x19 0x4c01; Wr 0x15 0x03c8; Wr 0x19 0x9e03; Wr 0x15 0x03c9;
  Wr 0x19 0x7c20; Wr 0x15 0x03ca; Wr 0x19 0x4c20; Wr 0x15 0x03cb; Wr 0x19 0x9af4; Wr 0x15 0x03cc;
  Wr 0x19 0x7c12; Wr 0x15 0x03cd; Wr 0x19 0x4c52; Wr 0x15 0x03ce; Wr 0x19 0x4470; Wr 0x15 0x03cf;
  Wr 0x19 0x7c12; Wr 0x15 0x03d0; Wr 0x19 0x4c40; Wr 0x15 0x03d1; Wr 0x19 0x33bf; Wr 0x15 0x03d6;
  Wr 0x19 0x4047; Wr 0x15 0x03d7; Wr 0x19 0x4469; Wr 0x15 0x03d8; Wr 0x19 0x492b; Wr 0x15 0x03d9;
  Wr 0x19 0x4479; Wr 0x15 0x03da; Wr 0x19 0x7c09; Wr 0x15 0x03db; Wr 0x19 0x8203; Wr 0x15 0x03dc;
  Wr 0x19 0x4d48; Wr 0x15 0x03dd; Wr 0x19 0x33df; Wr 0x15 0x03de; Wr 0x19 0x4d40; Wr 0x15 0x03df;
  Wr 0x19 0xd64f; Wr 0x15 0x03e0; Wr 0x19 0x0017; Wr 0x15 0x03e1; Wr 0x19 0xbd17; Wr 0x15 0x03e2;
  Wr 0x19 0x9b03; Wr 0x15 0x03e3; Wr 0x19 0x7c20; Wr 0x15 0x03e4; Wr 0x19 0x4c20; Wr 0x15 0x03e5;
  Wr 0x19 0x88f5; Wr 0x15 0x03e6; Wr 0x19 0xc428; Wr 0x15 0x03e7; Wr 0x19 0x0008; Wr 0x15 0x03e8;
  Wr 0x19 0x9af2; Wr 0x15 0x03e9; Wr 0x19 0x7c12; Wr 0x15 0x03ea; Wr 0x19 0x4c52; Wr 0x15 0x03eb;
  Wr 0x19 0x4470; Wr 0x15 0x03ec; Wr 0x19 0x7c12; Wr 0x15 0x03ed; Wr 0x19 0x4c40; Wr 0x15 0x03ee;
  Wr 0x19 0x33da; Wr 0x15 0x03ef; Wr 0x19 0x3312; Wr 0x16 0x0306; Wr 0x16 0x0300; Wr 0x1f 0x0000;
  Wr 0x17 0x2179; Wr 0x1f 0x0007; Wr 0x1e 0x0040; Wr 0x18 0x0645; Wr 0x19 0xe200; Wr 0x18 0x0655;
  Wr 0x19 0x9000; Wr 0x18 0x0d05; Wr 0x19 0xbe00; Wr 0x18 0x0d15; Wr 0x19 0xd300; Wr 0x18 0x0d25;
  Wr 0x19 0xfe00; Wr 0x18 0x0d35; Wr 0x19 0x4000; Wr 0x18 0x0d45].

Definition phy_mcu_8168e_1_7 : list mop := [
  Wr 0x19 0x7f00; Wr 0x18 0x0d55; Wr 0x19 0x1000; Wr 0x18 0x0d65; Wr 0x19 0x0000; Wr 0x18 0x0d75;
  Wr 0x19 0x8200; Wr 0x18 0x0d85; Wr 0x19 0x0000; Wr 0x18 0x0d95; Wr 0x19 0x7000; Wr 0x18 0x0da5;
  Wr 0x19 0x0f00; Wr 0x18 0x0db5; Wr 0x19 0x0100; Wr 0x18 0x0dc5; Wr 0x19 0x9b00; Wr 0x18 0x0dd5;
  Wr 0x19 0x7f00; Wr 0x18 0x0de5; Wr 0x19 0xe000; Wr 0x18 0x0df5; Wr 0x19 0xef00; Wr 0x18 0x16d5;
  Wr 0x19 0xe200; Wr 0x18 0x16e5; Wr 0x19 0xab00; Wr 0x18 0x2904; Wr 0x19 0x4000; Wr 0x18 0x2914;
  Wr 0x19 0x7f00; Wr 0x18 0x2924; Wr 0x19 0x0100; Wr 0x18 0x2934; Wr 0x19 0x2000; Wr 0x18 0x2944;
  Wr 0x19 0x0000; Wr 0x18 0x2954; Wr 0x19 0x4600; Wr 0x18 0x2964; Wr 0x19 0xfc00; Wr 0x18 0x2974;
  Wr 0x19 0x0000; Wr 0x18 0x2984; Wr 0x19 0x5000; Wr 0x18 0x2994; Wr 0x19 0x9d00; Wr 0x18 0x29a4;
  Wr 0x19 0xff00; Wr 0x18 0x29b4; Wr 0x19 0x4000; Wr 0x18 0x29c4; Wr 0x19 0x7f00; Wr 0x18 0x29d4;
  Wr 0x19 0x0000; Wr 0x18 0x29e4; Wr 0x19 0x2000; Wr 0x18 0x29f4; Wr 0x19 0x0000; Wr 0x18 0x2a04;
  Wr 0x19 0xe600; Wr 0x18 0x2a14; Wr 0x19 0xff00; Wr 0x18 0x2a24; Wr 0x19 0x0000; Wr 0x18 0x2a34;
  Wr 0x19 0x5000; Wr 0x18 0x2a44; Wr 0x19 0x8500; Wr 0x18 0x2a54; Wr 0x19 0x7f00; Wr 0x18 0x2a64;
  Wr 0x19 0xac00; Wr 0x18 0x2a74; Wr 0x19 0x0800; Wr 0x18 0x2a84; Wr 0x19 0xfc00; Wr 0x18 0x2a94;
  Wr 0x19 0xe000; Wr 0x18 0x2aa4; Wr 0x19 0x7400; Wr 0x18 0x2ab4; Wr 0x19 0x4000; Wr 0x18 0x2ac4;
  Wr 0x19 0x7f00; Wr 0x18 0x2ad4; Wr 0x19 0x0100; Wr 0x18 0x2ae4; Wr 0x19 0xff00; Wr 0x18 0x2af4;
  Wr 0x19 0x0000; Wr 0x18 0x2b04; Wr 0x19 0x4400; Wr 0x18 0x2b14; Wr 0x19 0xfc00; Wr 0x18 0x2b24;
  Wr 0x19 0x0000; Wr 0x18 0x2b34; Wr 0x19 0x4000; Wr 0x18 0x2b44; Wr 0x19 0x9d00; Wr 0x18 0x2b54;
  Wr 0x19 0xff00; Wr 0x18 0x2b64; Wr 0x19 0x4000; Wr 0x18 0x2b74; Wr 0x19 0x7f00; Wr 0x18 0x2b84;
  Wr 0x19 0x0000; Wr 0x18 0x2b94; Wr 0x19 0xff00; Wr 0x18 0x2ba4; Wr 0x19 0x0000; Wr 0x18 0x2bb4;
  Wr 0x19 0xfc00; Wr 0x18 0x2bc4; Wr 0x19 0xff00; Wr 0x18 0x2bd4; Wr 0x19 0x0000; Wr 0x18 0x2be4;
  Wr 0x19 0x4000; Wr 0x18 0x2bf4; Wr 0x19 0x8900; Wr 0x18 0x2c04; Wr 0x19 0x8300; Wr 0x18 0x2c14;
  Wr 0x19 0xe000; Wr 0x18 0x2c24; Wr 0x19 0x0000; Wr 0x18 0x2c34; Wr 0x19 0xac00; Wr 0x18 0x2c44;
  Wr 0x19 0x0800; Wr 0x18 0x2c54; Wr 0x19 0xfa00; Wr 0x18 0x2c64; Wr 0x19 0xe100; Wr 0x18 0x2c74;
  Wr 0x19 0x7f00; Wr 0x18 0x0001; Wr 0x1f 0x0000; Wr 0x17 0x2100; Wr 0x1f 0x0005; Wr 0x05 0xfff6;
  Wr 0x06 0x0080; Wr 0x05 0x8b88; Wr 0x06 0x0000; Wr 0x06 0x0000].

Definition phy_mcu_8168e_1_8 : list mop := [
  Wr 0x06 0x0000; Wr 0x06 0x0000; Wr 0x05 0x8000; Wr 0x06 0xd480; Wr 0x06 0xc1e4; Wr 0x06 0x8b9a;
  Wr 0x06 0xe58b; Wr 0x06 0x9bee; Wr 0x06 0x8b83; Wr 0x06 0x41bf; Wr 0x06 0x8b88; Wr 0x06 0xec00;
  Wr 0x06 0x19a9; Wr 0x06 0x8b90; Wr 0x06 0xf9ee; Wr 0x06 0xfff6; Wr 0x06 0x00ee; Wr 0x06 0xfff7;
  Wr 0x06 0xffe0; Wr 0x06 0xe140; Wr 0x06 0xe1e1; Wr 0x06 0x41f7; Wr 0x06 0x2ff6; Wr 0x06 0x28e4;
  Wr 0x06 0xe140; Wr 0x06 0xe5e1; Wr 0x06 0x41f7; Wr 0x06 0x0002; Wr 0x06 0x020c; Wr 0x06 0x0202;
  Wr 0x06 0x1d02; Wr 0x06 0x0230; Wr 0x06 0x0202; Wr 0x06 0x4002; Wr 0x06 0x028b; Wr 0x06 0x0280;
  Wr 0x06 0x6c02; Wr 0x06 0x8085; Wr 0x06 0xe08b; Wr 0x06 0x88e1; Wr 0x06 0x8b89; Wr 0x06 0x1e01;
  Wr 0x06 0xe18b; Wr 0x06 0x8a1e; Wr 0x06 0x01e1; Wr 0x06 0x8b8b; Wr 0x06 0x1e01; Wr 0x06 0xe18b;
  Wr 0x06 0x8c1e; Wr 0x06 0x01e1; Wr 0x06 0x8b8d; Wr 0x06 0x1e01; Wr 0x06 0xe18b; Wr 0x06 0x8e1e;
  Wr 0x06 0x01a0; Wr 0x06 0x00c7; Wr 0x06 0xaec3; Wr 0x06 0xf8e0; Wr 0x06 0x8b8d; Wr 0x06 0xad20;
  Wr 0x06 0x10ee; Wr 0x06 0x8b8d; Wr 0x06 0x0002; Wr 0x06 0x1310; Wr 0x06 0x021f; Wr 0x06 0x9d02;
  Wr 0x06 0x1f0c; Wr 0x06 0x0227; Wr 0x06 0x49fc; Wr 0x06 0x04f8; Wr 0x06 0xe08b; Wr 0x06 0x8ead;
  Wr 0x06 0x200b; Wr 0x06 0xf620; Wr 0x06 0xe48b; Wr 0x06 0x8e02; Wr 0x06 0x830e; Wr 0x06 0x021b;
  Wr 0x06 0x67ad; Wr 0x06 0x2211; Wr 0x06 0xf622; Wr 0x06 0xe48b; Wr 0x06 0x8e02; Wr 0x06 0x2ba5;
  Wr 0x06 0x022a; Wr 0x06 0x2402; Wr 0x06 0x80c6; Wr 0x06 0x022a; Wr 0x06 0xf0ad; Wr 0x06 0x2511;
  Wr 0x06 0xf625; Wr 0x06 0xe48b; Wr 0x06 0x8e02; Wr 0x06 0x8226; Wr 0x06 0x0204; Wr 0x06 0x0302;
  Wr 0x06 0x19cc; Wr 0x06 0x022b; Wr 0x06 0x5bfc; Wr 0x06 0x04ee; Wr 0x06 0x8b8d; Wr 0x06 0x0105;
  Wr 0x06 0xf8e0; Wr 0x06 0x8b83; Wr 0x06 0xad24; Wr 0x06 0x44e0; Wr 0x06 0xe022; Wr 0x06 0xe1e0;
  Wr 0x06 0x23ad; Wr 0x06 0x223b; Wr 0x06 0xe08a; Wr 0x06 0xbea0; Wr 0x06 0x0005; Wr 0x06 0x0228;
  Wr 0x06 0xdeae; Wr 0x06 0x42a0; Wr 0x06 0x0105; Wr 0x06 0x0228; Wr 0x06 0xf1ae; Wr 0x06 0x3aa0;
  Wr 0x06 0x0205; Wr 0x06 0x0281; Wr 0x06 0x25ae; Wr 0x06 0x32a0; Wr 0x06 0x0305; Wr 0x06 0x0229;
  Wr 0x06 0x9aae; Wr 0x06 0x2aa0; Wr 0x06 0x0405; Wr 0x06 0x0229; Wr 0x06 0xaeae; Wr 0x06 0x22a0;
  Wr 0x06 0x0505; Wr 0x06 0x0229; Wr 0x06 0xd7ae; Wr 0x06 0x1aa0; Wr 0x06 0x0605; Wr 0x06 0x0229;
  Wr 0x06 0xfeae; Wr 0x06 0x12ee; Wr 0x06 0x8ac0; Wr 0x06 0x00ee; Wr 0x06 0x8ac1; Wr 0x06 0x00ee;
  Wr 0x06 0x8ac6; Wr 0x06 0x00ee; Wr 0x06 0x8abe; Wr 0x06 0x00ae].

Definition phy_mcu_8168e_1_9 : list mop := [
  Wr 0x06 0x00fc; Wr 0x06 0x04f8; Wr 0x06 0x022a; Wr 0x06 0x67e0; Wr 0x06 0xe022; Wr 0x06 0xe1e0;
  Wr 0x06 0x230d; Wr 0x06 0x0658; Wr 0x06 0x03a0; Wr 0x06 0x0202; Wr 0x06 0xae2d; Wr 0x06 0xa001;
  Wr 0x06 0x02ae; Wr 0x06 0x2da0; Wr 0x06 0x004d; Wr 0x06 0xe0e2; Wr 0x06 0x00e1; Wr 0x06 0xe201;
  Wr 0x06 0xad24; Wr 0x06 0x44e0; Wr 0x06 0x8ac2; Wr 0x06 0xe48a; Wr 0x06 0xc4e0; Wr 0x06 0x8ac3;
  Wr 0x06 0xe48a; Wr 0x06 0xc5ee; Wr 0x06 0x8abe; Wr 0x06 0x03e0; Wr 0x06 0x8b83; Wr 0x06 0xad25;
  Wr 0x06 0x3aee; Wr 0x06 0x8abe; Wr 0x06 0x05ae; Wr 0x06 0x34e0; Wr 0x06 0x8ace; Wr 0x06 0xae03;
  Wr 0x06 0xe08a; Wr 0x06 0xcfe1; Wr 0x06 0x8ac2; Wr 0x06 0x4905; Wr 0x06 0xe58a; Wr 0x06 0xc4e1;
  Wr 0x06 0x8ac3; Wr 0x06 0x4905; Wr 0x06 0xe58a; Wr 0x06 0xc5ee; Wr 0x06 0x8abe; Wr 0x06 0x0502;
  Wr 0x06 0x2ab6; Wr 0x06 0xac20; Wr 0x06 0x1202; Wr 0x06 0x819b; Wr 0x06 0xac20; Wr 0x06 0x0cee;
  Wr 0x06 0x8ac1; Wr 0x06 0x00ee; Wr 0x06 0x8ac6; Wr 0x06 0x00ee; Wr 0x06 0x8abe; Wr 0x06 0x02fc;
  Wr 0x06 0x04d0; Wr 0x06 0x0002; Wr 0x06 0x81ad; Wr 0x06 0x590f; Wr 0x06 0x3902; Wr 0x06 0xaa04;
  Wr 0x06 0xd001; Wr 0x06 0xae02; Wr 0x06 0xd000; Wr 0x06 0x04f9; Wr 0x06 0xfae2; Wr 0x06 0xe2d2;
  Wr 0x06 0xe3e2; Wr 0x06 0xd3f9; Wr 0x06 0x5af7; Wr 0x06 0xe6e2; Wr 0x06 0xd2e7; Wr 0x06 0xe2d3;
  Wr 0x06 0xe2e0; Wr 0x06 0x2ce3; Wr 0x06 0xe02d; Wr 0x06 0xf95b; Wr 0x06 0xe01e; Wr 0x06 0x30e6;
  Wr 0x06 0xe02c; Wr 0x06 0xe7e0; Wr 0x06 0x2de2; Wr 0x06 0xe2cc; Wr 0x06 0xe3e2; Wr 0x06 0xcdf9;
  Wr 0x06 0x5a0f; Wr 0x06 0x6a50; Wr 0x06 0xe6e2; Wr 0x06 0xcce7; Wr 0x06 0xe2cd; Wr 0x06 0xe0e0;
  Wr 0x06 0x3ce1; Wr 0x06 0xe03d; Wr 0x06 0xef64; Wr 0x06 0xfde0; Wr 0x06 0xe2cc; Wr 0x06 0xe1e2;
  Wr 0x06 0xcd58; Wr 0x06 0x0f5a; Wr 0x06 0xf01e; Wr 0x06 0x02e4; Wr 0x06 0xe2cc; Wr 0x06 0xe5e2;
  Wr 0x06 0xcdfd; Wr 0x06 0xe0e0; Wr 0x06 0x2ce1; Wr 0x06 0xe02d; Wr 0x06 0x59e0; Wr 0x06 0x5b1f;
  Wr 0x06 0x1e13; Wr 0x06 0xe4e0; Wr 0x06 0x2ce5; Wr 0x06 0xe02d; Wr 0x06 0xfde0; Wr 0x06 0xe2d2;
  Wr 0x06 0xe1e2; Wr 0x06 0xd358; Wr 0x06 0xf75a; Wr 0x06 0x081e; Wr 0x06 0x02e4; Wr 0x06 0xe2d2;
  Wr 0x06 0xe5e2; Wr 0x06 0xd3ef; Wr 0x06 0x46fe; Wr 0x06 0xfd04; Wr 0x06 0xf8f9; Wr 0x06 0xfaef;
  Wr 0x06 0x69e0; Wr 0x06 0xe022; Wr 0x06 0xe1e0; Wr 0x06 0x2358; Wr 0x06 0xc4e1; Wr 0x06 0x8b6e;
  Wr 0x06 0x1f10; Wr 0x06 0x9e58; Wr 0x06 0xe48b; Wr 0x06 0x6ead; Wr 0x06 0x2222; Wr 0x06 0xac27;
  Wr 0x06 0x55ac; Wr 0x06 0x2602; Wr 0x06 0xae1a; Wr 0x06 0xd106].

Definition phy_mcu_8168e_1_10 : list mop := [
  Wr 0x06 0xbf3b; Wr 0x06 0xba02; Wr 0x06 0x2dc1; Wr 0x06 0xd107; Wr 0x06 0xbf3b; Wr 0x06 0xbd02;
  Wr 0x06 0x2dc1; Wr 0x06 0xd107; Wr 0x06 0xbf3b; Wr 0x06 0xc002; Wr 0x06 0x2dc1; Wr 0x06 0xae30;
  Wr 0x06 0xd103; Wr 0x06 0xbf3b; Wr 0x06 0xc302; Wr 0x06 0x2dc1; Wr 0x06 0xd100; Wr 0x06 0xbf3b;
  Wr 0x06 0xc602; Wr 0x06 0x2dc1; Wr 0x06 0xd100; Wr 0x06 0xbf82; Wr 0x06 0xca02; Wr 0x06 0x2dc1;
  Wr 0x06 0xd10f; Wr 0x06 0xbf3b; Wr 0x06 0xba02; Wr 0x06 0x2dc1; Wr 0x06 0xd101; Wr 0x06 0xbf3b;
  Wr 0x06 0xbd02; Wr 0x06 0x2dc1; Wr 0x06 0xd101; Wr 0x06 0xbf3b; Wr 0x06 0xc002; Wr 0x06 0x2dc1;
  Wr 0x06 0xef96; Wr 0x06 0xfefd; Wr 0x06 0xfc04; Wr 0x06 0xd100; Wr 0x06 0xbf3b; Wr 0x06 0xc302;
  Wr 0x06 0x2dc1; Wr 0x06 0xd011; Wr 0x06 0x022b; Wr 0x06 0xfb59; Wr 0x06 0x03ef; Wr 0x06 0x01d1;
  Wr 0x06 0x00a0; Wr 0x06 0x0002; Wr 0x06 0xd101; Wr 0x06 0xbf3b; Wr 0x06 0xc602; Wr 0x06 0x2dc1;
  Wr 0x06 0xd111; Wr 0x06 0xad20; Wr 0x06 0x020c; Wr 0x06 0x11ad; Wr 0x06 0x2102; Wr 0x06 0x0c12;
  Wr 0x06 0xbf82; Wr 0x06 0xca02; Wr 0x06 0x2dc1; Wr 0x06 0xaec8; Wr 0x06 0x70e4; Wr 0x06 0x2602;
  Wr 0x06 0x82d1; Wr 0x06 0x05f8; Wr 0x06 0xfaef; Wr 0x06 0x69e0; Wr 0x06 0xe2fe; Wr 0x06 0xe1e2;
  Wr 0x06 0xffad; Wr 0x06 0x2d1a; Wr 0x06 0xe0e1; Wr 0x06 0x4ee1; Wr 0x06 0xe14f; Wr 0x06 0xac2d;
  Wr 0x06 0x22f6; Wr 0x06 0x0302; Wr 0x06 0x033b; Wr 0x06 0xf703; Wr 0x06 0xf706; Wr 0x06 0xbf84;
  Wr 0x06 0x4402; Wr 0x06 0x2d21; Wr 0x06 0xae11; Wr 0x06 0xe0e1; Wr 0x06 0x4ee1; Wr 0x06 0xe14f;
  Wr 0x06 0xad2d; Wr 0x06 0x08bf; Wr 0x06 0x844f; Wr 0x06 0x022d; Wr 0x06 0x21f6; Wr 0x06 0x06ef;
  Wr 0x06 0x96fe; Wr 0x06 0xfc04; Wr 0x06 0xf8fa; Wr 0x06 0xef69; Wr 0x06 0x0283; Wr 0x06 0x4502;
  Wr 0x06 0x83a2; Wr 0x06 0xe0e0; Wr 0x06 0x00e1; Wr 0x06 0xe001; Wr 0x06 0xad27; Wr 0x06 0x1fd1;
  Wr 0x06 0x01bf; Wr 0x06 0x843b; Wr 0x06 0x022d; Wr 0x06 0xc1e0; Wr 0x06 0xe020; Wr 0x06 0xe1e0;
  Wr 0x06 0x21ad; Wr 0x06 0x200e; Wr 0x06 0xd100; Wr 0x06 0xbf84; Wr 0x06 0x3b02; Wr 0x06 0x2dc1;
  Wr 0x06 0xbf3b; Wr 0x06 0x9602; Wr 0x06 0x2d21; Wr 0x06 0xef96; Wr 0x06 0xfefc; Wr 0x06 0x04f8;
  Wr 0x06 0xf9fa; Wr 0x06 0xef69; Wr 0x06 0xe08b; Wr 0x06 0x87ad; Wr 0x06 0x204c; Wr 0x06 0xd200;
  Wr 0x06 0xe0e2; Wr 0x06 0x0058; Wr 0x06 0x010c; Wr 0x06 0x021e; Wr 0x06 0x20e0; Wr 0x06 0xe000;
  Wr 0x06 0x5810; Wr 0x06 0x1e20; Wr 0x06 0xe0e0; Wr 0x06 0x3658; Wr 0x06 0x031e; Wr 0x06 0x20e0;
  Wr 0x06 0xe022; Wr 0x06 0xe1e0; Wr 0x06 0x2358; Wr 0x06 0xe01e].

Definition phy_mcu_8168e_1_11 : list mop := [
  Wr 0x06 0x20e0; Wr 0x06 0x8b64; Wr 0x06 0x1f02; Wr 0x06 0x9e22; Wr 0x06 0xe68b; Wr 0x06 0x64ad;
  Wr 0x06 0x3214; Wr 0x06 0xad34; Wr 0x06 0x11ef; Wr 0x06 0x0258; Wr 0x06 0x039e; Wr 0x06 0x07ad;
  Wr 0x06 0x3508; Wr 0x06 0x5ac0; Wr 0x06 0x9f04; Wr 0x06 0xd101; Wr 0x06 0xae02; Wr 0x06 0xd100;
  Wr 0x06 0xbf84; Wr 0x06 0x3e02; Wr 0x06 0x2dc1; Wr 0x06 0xef96; Wr 0x06 0xfefd; Wr 0x06 0xfc04;
  Wr 0x06 0xf8f9; Wr 0x06 0xfbe0; Wr 0x06 0x8b85; Wr 0x06 0xad25; Wr 0x06 0x22e0; Wr 0x06 0xe022;
  Wr 0x06 0xe1e0; Wr 0x06 0x23e2; Wr 0x06 0xe036; Wr 0x06 0xe3e0; Wr 0x06 0x375a; Wr 0x06 0xc40d;
  Wr 0x06 0x0158; Wr 0x06 0x021e; Wr 0x06 0x20e3; Wr 0x06 0x8ae7; Wr 0x06 0xac31; Wr 0x06 0x60ac;
  Wr 0x06 0x3a08; Wr 0x06 0xac3e; Wr 0x06 0x26ae; Wr 0x06 0x67af; Wr 0x06 0x8437; Wr 0x06 0xad37;
  Wr 0x06 0x61e0; Wr 0x06 0x8ae8; Wr 0x06 0x10e4; Wr 0x06 0x8ae8; Wr 0x06 0xe18a; Wr 0x06 0xe91b;
  Wr 0x06 0x109e; Wr 0x06 0x02ae; Wr 0x06 0x51d1; Wr 0x06 0x00bf; Wr 0x06 0x8441; Wr 0x06 0x022d;
  Wr 0x06 0xc1ee; Wr 0x06 0x8ae8; Wr 0x06 0x00ae; Wr 0x06 0x43ad; Wr 0x06 0x3627; Wr 0x06 0xe08a;
  Wr 0x06 0xeee1; Wr 0x06 0x8aef; Wr 0x06 0xef74; Wr 0x06 0xe08a; Wr 0x06 0xeae1; Wr 0x06 0x8aeb;
  Wr 0x06 0x1b74; Wr 0x06 0x9e2e; Wr 0x06 0x14e4; Wr 0x06 0x8aea; Wr 0x06 0xe58a; Wr 0x06 0xebef;
  Wr 0x06 0x74e0; Wr 0x06 0x8aee; Wr 0x06 0xe18a; Wr 0x06 0xef1b; Wr 0x06 0x479e; Wr 0x06 0x0fae;
  Wr 0x06 0x19ee; Wr 0x06 0x8aea; Wr 0x06 0x00ee; Wr 0x06 0x8aeb; Wr 0x06 0x00ae; Wr 0x06 0x0fac;
  Wr 0x06 0x390c; Wr 0x06 0xd101; Wr 0x06 0xbf84; Wr 0x06 0x4102; Wr 0x06 0x2dc1; Wr 0x06 0xee8a;
  Wr 0x06 0xe800; Wr 0x06 0xe68a; Wr 0x06 0xe7ff; Wr 0x06 0xfdfc; Wr 0x06 0x0400; Wr 0x06 0xe234;
  Wr 0x06 0xcce2; Wr 0x06 0x0088; Wr 0x06 0xe200; Wr 0x06 0xa725; Wr 0x06 0xe50a; Wr 0x06 0x1de5;
  Wr 0x06 0x0a2c; Wr 0x06 0xe50a; Wr 0x06 0x6de5; Wr 0x06 0x0a1d; Wr 0x06 0xe50a; Wr 0x06 0x1ce5;
  Wr 0x06 0x0a2d; Wr 0x06 0xa755; Wr 0x05 0x8b64; Wr 0x06 0x0000; Wr 0x05 0x8b94; Wr 0x06 0x82cd;
  Wr 0x05 0x8b85; Wr 0x06 0x2000; Wr 0x05 0x8aee; Wr 0x06 0x03b8; Wr 0x05 0x8ae8; Wr 0x06 0x0002;
  Mo 0x01 0 (BIT 0); Mo 0x00 0 (BIT 0); Wr 0x1f 0x0000; Wr 0x1f 0x0005].

Definition phy_mcu_8168e_1_12 : list mop := [
  Wr 0x1f 0x0007; Wr 0x1e 0x0028; Wr 0x15 0x0010; Wr 0x1f 0x0007; Wr 0x1e 0x0041; Wr 0x15 0x0802;
  Wr 0x16 0x2185; Wr 0x1f 0x0000].

Definition phy_mcu_8168e_2_1 : list mop := [
  Wr 0x1f 0x0000; Wr 0x00 0x1800; Wr 0x1f 0x0007; Wr 0x1e 0x0023; Wr 0x17 0x0117; Wr 0x1f 0x0007;
  Wr 0x1E 0x002C; Wr 0x1B 0x5000; Wr 0x1f 0x0000; Wr 0x16 0x4104].

Definition phy_mcu_8168e_2_2 : list mop := [
  Wr 0x1f 0x0007; Wr 0x1e 0x00a1; Wr 0x17 0x1000; Wr 0x17 0x0000; Wr 0x17 0x2000; Wr 0x1e 0x002f;
  Wr 0x18 0x9bfb; Wr 0x1f 0x0005; Wr 0x07 0x0000; Wr 0x1f 0x0000].

Definition phy_mcu_8168e_2_3 : list mop := [
  Wr 0x1f 0x0005; Wr 0x05 0xfff6; Wr 0x06 0x0080; Mo 0x00 (BIT 7) 0; Wr 0x1f 0x0002; Mo 0x08 (BIT 7) 0;
  Wr 0x1f 0x0000; Wr 0x1f 0x0007; Wr 0x1e 0x0023; Wr 0x16 0x0306; Wr 0x16 0x0307; Wr 0x15 0x000e;
  Wr 0x19 0x000a; Wr 0x15 0x0010; Wr 0x19 0x0008; Wr 0x15 0x0018; Wr 0x19 0x4801; Wr 0x15 0x0019;
  Wr 0x19 0x6801; Wr 0x15 0x001a; Wr 0x19 0x66a1; Wr 0x15 0x001f; Wr 0x19 0x0000; Wr 0x15 0x0020;
  Wr 0x19 0x0000; Wr 0x15 0x0021; Wr 0x19 0x0000; Wr 0x15 0x0022; Wr 0x19 0x0000; Wr 0x15 0x0023;
  Wr 0x19 0x0000; Wr 0x15 0x0024; Wr 0x19 0x0000; Wr 0x15 0x0025; Wr 0x19 0x64a1; Wr 0x15 0x0026;
  Wr 0x19 0x40ea; Wr 0x15 0x0027; Wr 0x19 0x4503; Wr 0x15 0x0028; Wr 0x19 0x9f00; Wr 0x15 0x0029;
  Wr 0x19 0xa631; Wr 0x15 0x002a; Wr 0x19 0x9717; Wr 0x15 0x002b; Wr 0x19 0x302c; Wr 0x15 0x002c;
  Wr 0x19 0x4802; Wr 0x15 0x002d; Wr 0x19 0x58da; Wr 0x15 0x002e; Wr 0x19 0x400d; Wr 0x15 0x002f;
  Wr 0x19 0x4488; Wr 0x15 0x0030; Wr 0x19 0x9e00; Wr 0x15 0x0031; Wr 0x19 0x63c8; Wr 0x15 0x0032;
  Wr 0x19 0x6481; Wr 0x15 0x0033; Wr 0x19 0x0000; Wr 0x15 0x0034; Wr 0x19 0x0000; Wr 0x15 0x0035;
  Wr 0x19 0x0000; Wr 0x15 0x0036; Wr 0x19 0x0000; Wr 0x15 0x0037; Wr 0x19 0x0000; Wr 0x15 0x0038;
  Wr 0x19 0x0000; Wr 0x15 0x0039; Wr 0x19 0x0000; Wr 0x15 0x003a; Wr 0x19 0x0000; Wr 0x15 0x003b;
  Wr 0x19 0x63e8; Wr 0x15 0x003c; Wr 0x19 0x7d00; Wr 0x15 0x003d; Wr 0x19 0x59d4; Wr 0x15 0x003e;
  Wr 0x19 0x63f8; Wr 0x15 0x0040; Wr 0x19 0x64a1; Wr 0x15 0x0041; Wr 0x19 0x30de; Wr 0x15 0x0044;
  Wr 0x19 0x480f; Wr 0x15 0x0045; Wr 0x19 0x6800; Wr 0x15 0x0046; Wr 0x19 0x6680; Wr 0x15 0x0047;
  Wr 0x19 0x7c10; Wr 0x15 0x0048; Wr 0x19 0x63c8; Wr 0x15 0x0049; Wr 0x19 0x0000; Wr 0x15 0x004a;
  Wr 0x19 0x0000; Wr 0x15 0x004b; Wr 0x19 0x0000; Wr 0x15 0x004c; Wr 0x19 0x0000; Wr 0x15 0x004d;
  Wr 0x19 0x0000; Wr 0x15 0x004e; Wr 0x19 0x0000; Wr 0x15 0x004f; Wr 0x19 0x40ea; Wr 0x15 0x0050;
  Wr 0x19 0x4503; Wr 0x15 0x0051; Wr 0x19 0x58ca; Wr 0x15 0x0052; Wr 0x19 0x63c8; Wr 0x15 0x0053;
  Wr 0x19 0x63d8; Wr 0x15 0x0054; Wr 0x19 0x66a0; Wr 0x15 0x0055; Wr 0x19 0x9f00; Wr 0x15 0x0056;
  Wr 0x19 0x3000; Wr 0x15 0x00a1; Wr 0x19 0x3044; Wr 0x15 0x00ab; Wr 0x19 0x5820; Wr 0x15 0x00ac;
  Wr 0x19 0x5e04; Wr 0x15 0x00ad; Wr 0x19 0xb60c; Wr 0x15 0x00af; Wr 0x19 0x000a; Wr 0x15 0x00b2;
  Wr 0x19 0x30b9; Wr 0x15 0x00b9; Wr 0x19 0x4408; Wr 0x15 0x00ba; Wr 0x19 0x480b].

Definition phy_mcu_8168e_2_4 : list mop := [
  Wr 0x15 0x00bb; Wr 0x19 0x5e00; Wr 0x15 0x00bc; Wr 0x19 0x405f; Wr 0x15 0x00bd; Wr 0x19 0x4448;
  Wr 0x15 0x00be; Wr 0x19 0x4020; Wr 0x15 0x00bf; Wr 0x19 0x4468; Wr 0x15 0x00c0; Wr 0x19 0x9c02;
  Wr 0x15 0x00c1; Wr 0x19 0x58a0; Wr 0x15 0x00c2; Wr 0x19 0xb605; Wr 0x15 0x00c3; Wr 0x19 0xc0d3;
  Wr 0x15 0x00c4; Wr 0x19 0x00e6; Wr 0x15 0x00c5; Wr 0x19 0xdaec; Wr 0x15 0x00c6; Wr 0x19 0x00fa;
  Wr 0x15 0x00c7; Wr 0x19 0x9df9; Wr 0x15 0x0112; Wr 0x19 0x6421; Wr 0x15 0x0113; Wr 0x19 0x7c08;
  Wr 0x15 0x0114; Wr 0x19 0x63f0; Wr 0x15 0x0115; Wr 0x19 0x4003; Wr 0x15 0x0116; Wr 0x19 0x4418;
  Wr 0x15 0x0117; Wr 0x19 0x9b00; Wr 0x15 0x0118; Wr 0x19 0x6461; Wr 0x15 0x0119; Wr 0x19 0x64e1;
  Wr 0x15 0x011a; Wr 0x19 0x0000; Wr 0x15 0x0150; Wr 0x19 0x7c80; Wr 0x15 0x0151; Wr 0x19 0x6461;
  Wr 0x15 0x0152; Wr 0x19 0x4003; Wr 0x15 0x0153; Wr 0x19 0x4540; Wr 0x15 0x0154; Wr 0x19 0x9f00;
  Wr 0x15 0x0155; Wr 0x19 0x9d00; Wr 0x15 0x0156; Wr 0x19 0x7c40; Wr 0x15 0x0157; Wr 0x19 0x6421;
  Wr 0x15 0x0158; Wr 0x19 0x7c80; Wr 0x15 0x0159; Wr 0x19 0x64a1; Wr 0x15 0x015a; Wr 0x19 0x30fe;
  Wr 0x15 0x029c; Wr 0x19 0x0070; Wr 0x15 0x02b2; Wr 0x19 0x005a; Wr 0x15 0x02bd; Wr 0x19 0xa522;
  Wr 0x15 0x02ce; Wr 0x19 0xb63e; Wr 0x15 0x02d9; Wr 0x19 0x32df; Wr 0x15 0x02df; Wr 0x19 0x4500;
  Wr 0x15 0x02e7; Wr 0x19 0x0000; Wr 0x15 0x02f4; Wr 0x19 0xb618; Wr 0x15 0x02fb; Wr 0x19 0xb900;
  Wr 0x15 0x02fc; Wr 0x19 0x49b5; Wr 0x15 0x02fd; Wr 0x19 0x6812; Wr 0x15 0x02fe; Wr 0x19 0x66a0;
  Wr 0x15 0x02ff; Wr 0x19 0x9900; Wr 0x15 0x0300; Wr 0x19 0x64a0; Wr 0x15 0x0301; Wr 0x19 0x3316;
  Wr 0x15 0x0308; Wr 0x19 0x0000; Wr 0x15 0x030c; Wr 0x19 0x3000; Wr 0x15 0x0312; Wr 0x19 0x0000;
  Wr 0x15 0x0313; Wr 0x19 0x0000; Wr 0x15 0x0314; Wr 0x19 0x0000; Wr 0x15 0x0315; Wr 0x19 0x0000;
  Wr 0x15 0x0316; Wr 0x19 0x49b5; Wr 0x15 0x0317; Wr 0x19 0x7d00; Wr 0x15 0x0318; Wr 0x19 0x4d00;
  Wr 0x15 0x0319; Wr 0x19 0x6810; Wr 0x15 0x031a; Wr 0x19 0x6c08; Wr 0x15 0x031b; Wr 0x19 0x4925;
  Wr 0x15 0x031c; Wr 0x19 0x403b; Wr 0x15 0x031d; Wr 0x19 0xa602; Wr 0x15 0x031e; Wr 0x19 0x402f;
  Wr 0x15 0x031f; Wr 0x19 0x4484; Wr 0x15 0x0320; Wr 0x19 0x40c8; Wr 0x15 0x0321; Wr 0x19 0x44c4;
  Wr 0x15 0x0322; Wr 0x19 0x404f; Wr 0x15 0x0323; Wr 0x19 0x44c8; Wr 0x15 0x0324; Wr 0x19 0xd64f;
  Wr 0x15 0x0325; Wr 0x19 0x00e7; Wr 0x15 0x0326; Wr 0x19 0x7c08; Wr 0x15 0x0327; Wr 0x19 0x8203;
  Wr 0x15 0x0328; Wr 0x19 0x4d48; Wr 0x15 0x0329; Wr 0x19 0x332b].

Definition phy_mcu_8168e_2_5 : list mop := [
  Wr 0x15 0x032a; Wr 0x19 0x4d40; Wr 0x15 0x032c; Wr 0x19 0x00f8; Wr 0x15 0x032d; Wr 0x19 0x82b2;
  Wr 0x15 0x032f; Wr 0x19 0x00b0; Wr 0x15 0x0332; Wr 0x19 0x91f2; Wr 0x15 0x033f; Wr 0x19 0xb6cd;
  Wr 0x15 0x0340; Wr 0x19 0x9e01; Wr 0x15 0x0341; Wr 0x19 0xd11d; Wr 0x15 0x0342; Wr 0x19 0x009d;
  Wr 0x15 0x0343; Wr 0x19 0xbb1c; Wr 0x15 0x0344; Wr 0x19 0x8102; Wr 0x15 0x0345; Wr 0x19 0x3348;
  Wr 0x15 0x0346; Wr 0x19 0xa231; Wr 0x15 0x0347; Wr 0x19 0x335b; Wr 0x15 0x0348; Wr 0x19 0x91f7;
  Wr 0x15 0x0349; Wr 0x19 0xc218; Wr 0x15 0x034a; Wr 0x19 0x00f5; Wr 0x15 0x034b; Wr 0x19 0x335b;
  Wr 0x15 0x034c; Wr 0x19 0x0000; Wr 0x15 0x034d; Wr 0x19 0x0000; Wr 0x15 0x034e; Wr 0x19 0x0000;
  Wr 0x15 0x034f; Wr 0x19 0x0000; Wr 0x15 0x0350; Wr 0x19 0x0000; Wr 0x15 0x035b; Wr 0x19 0xa23c;
  Wr 0x15 0x035c; Wr 0x19 0x7c08; Wr 0x15 0x035d; Wr 0x19 0x4c00; Wr 0x15 0x035e; Wr 0x19 0x3397;
  Wr 0x15 0x0363; Wr 0x19 0xb6a9; Wr 0x15 0x0366; Wr 0x19 0x00f5; Wr 0x15 0x0382; Wr 0x19 0x7c40;
  Wr 0x15 0x0388; Wr 0x19 0x0084; Wr 0x15 0x0389; Wr 0x19 0xdd17; Wr 0x15 0x038a; Wr 0x19 0x000b;
  Wr 0x15 0x038b; Wr 0x19 0xa10a; Wr 0x15 0x038c; Wr 0x19 0x337e; Wr 0x15 0x038d; Wr 0x19 0x6c0b;
  Wr 0x15 0x038e; Wr 0x19 0xa107; Wr 0x15 0x038f; Wr 0x19 0x6c08; Wr 0x15 0x0390; Wr 0x19 0xc017;
  Wr 0x15 0x0391; Wr 0x19 0x0004; Wr 0x15 0x0392; Wr 0x19 0xd64f; Wr 0x15 0x0393; Wr 0x19 0x00f4;
  Wr 0x15 0x0397; Wr 0x19 0x4098; Wr 0x15 0x0398; Wr 0x19 0x4408; Wr 0x15 0x0399; Wr 0x19 0x55bf;
  Wr 0x15 0x039a; Wr 0x19 0x4bb9; Wr 0x15 0x039b; Wr 0x19 0x6810; Wr 0x15 0x039c; Wr 0x19 0x4b29;
  Wr 0x15 0x039d; Wr 0x19 0x4041; Wr 0x15 0x039e; Wr 0x19 0x442a; Wr 0x15 0x039f; Wr 0x19 0x4029;
  Wr 0x15 0x03aa; Wr 0x19 0x33b8; Wr 0x15 0x03b6; Wr 0x19 0x0000; Wr 0x15 0x03b7; Wr 0x19 0x0000;
  Wr 0x15 0x03b8; Wr 0x19 0x543f; Wr 0x15 0x03b9; Wr 0x19 0x499a; Wr 0x15 0x03ba; Wr 0x19 0x7c40;
  Wr 0x15 0x03bb; Wr 0x19 0x4c40; Wr 0x15 0x03bc; Wr 0x19 0x490a; Wr 0x15 0x03bd; Wr 0x19 0x405e;
  Wr 0x15 0x03c2; Wr 0x19 0x9a03; Wr 0x15 0x03c4; Wr 0x19 0x0015; Wr 0x15 0x03c5; Wr 0x19 0x9e03;
  Wr 0x15 0x03c8; Wr 0x19 0x9cf7; Wr 0x15 0x03c9; Wr 0x19 0x7c12; Wr 0x15 0x03ca; Wr 0x19 0x4c52;
  Wr 0x15 0x03cb; Wr 0x19 0x4458; Wr 0x15 0x03cd; Wr 0x19 0x4c40; Wr 0x15 0x03ce; Wr 0x19 0x33bf;
  Wr 0x15 0x03cf; Wr 0x19 0x0000; Wr 0x15 0x03d0; Wr 0x19 0x0000; Wr 0x15 0x03d1; Wr 0x19 0x0000;
  Wr 0x15 0x03d5; Wr 0x19 0x0000; Wr 0x15 0x03d6; Wr 0x19 0x0000].

Definition phy_mcu_8168e_2_6 : list mop := [
  Wr 0x15 0x03d7; Wr 0x19 0x0000; Wr 0x15 0x03d8; Wr 0x19 0x0000; Wr 0x15 0x03d9; Wr 0x19 0x49bb;
  Wr 0x15 0x03da; Wr 0x19 0x4478; Wr 0x15 0x03db; Wr 0x19 0x492b; Wr 0x15 0x03dc; Wr 0x19 0x7c01;
  Wr 0x15 0x03dd; Wr 0x19 0x4c00; Wr 0x15 0x03de; Wr 0x19 0xbd1a; Wr 0x15 0x03df; Wr 0x19 0xc428;
  Wr 0x15 0x03e0; Wr 0x19 0x0008; Wr 0x15 0x03e1; Wr 0x19 0x9cfd; Wr 0x15 0x03e2; Wr 0x19 0x7c12;
  Wr 0x15 0x03e3; Wr 0x19 0x4c52; Wr 0x15 0x03e4; Wr 0x19 0x4458; Wr 0x15 0x03e5; Wr 0x19 0x7c12;
  Wr 0x15 0x03e6; Wr 0x19 0x4c40; Wr 0x15 0x03e7; Wr 0x19 0x33de; Wr 0x15 0x03e8; Wr 0x19 0xc218;
  Wr 0x15 0x03e9; Wr 0x19 0x0002; Wr 0x15 0x03ea; Wr 0x19 0x32df; Wr 0x15 0x03eb; Wr 0x19 0x3316;
  Wr 0x15 0x03ec; Wr 0x19 0x0000; Wr 0x15 0x03ed; Wr 0x19 0x0000; Wr 0x15 0x03ee; Wr 0x19 0x0000;
  Wr 0x15 0x03ef; Wr 0x19 0x0000; Wr 0x15 0x03f7; Wr 0x19 0x330c; Wr 0x16 0x0306; Wr 0x16 0x0300;
  Wr 0x1f 0x0005; Wr 0x05 0xfff6; Wr 0x06 0x0080; Wr 0x05 0x8000; Wr 0x06 0x0280; Wr 0x06 0x48f7;
  Wr 0x06 0x00e0; Wr 0x06 0xfff7; Wr 0x06 0xa080; Wr 0x06 0x02ae; Wr 0x06 0xf602; Wr 0x06 0x0200;
  Wr 0x06 0x0280; Wr 0x06 0x9002; Wr 0x06 0x0224; Wr 0x06 0x0202; Wr 0x06 0x3402; Wr 0x06 0x027f;
  Wr 0x06 0x0280; Wr 0x06 0xa602; Wr 0x06 0x80bf; Wr 0x06 0xe08b; Wr 0x06 0x88e1; Wr 0x06 0x8b89;
  Wr 0x06 0x1e01; Wr 0x06 0xe18b; Wr 0x06 0x8a1e; Wr 0x06 0x01e1; Wr 0x06 0x8b8b; Wr 0x06 0x1e01;
  Wr 0x06 0xe18b; Wr 0x06 0x8c1e; Wr 0x06 0x01e1; Wr 0x06 0x8b8d; Wr 0x06 0x1e01; Wr 0x06 0xe18b;
  Wr 0x06 0x8e1e; Wr 0x06 0x01a0; Wr 0x06 0x00c7; Wr 0x06 0xaebb; Wr 0x06 0xee8a; Wr 0x06 0xe600;
  Wr 0x06 0xee8a; Wr 0x06 0xee03; Wr 0x06 0xee8a; Wr 0x06 0xefb8; Wr 0x06 0xee8a; Wr 0x06 0xe902;
  Wr 0x06 0xee8b; Wr 0x06 0x8285; Wr 0x06 0xee8b; Wr 0x06 0x8520; Wr 0x06 0xee8b; Wr 0x06 0x8701;
  Wr 0x06 0xd481; Wr 0x06 0x35e4; Wr 0x06 0x8b94; Wr 0x06 0xe58b; Wr 0x06 0x95bf; Wr 0x06 0x8b88;
  Wr 0x06 0xec00; Wr 0x06 0x19a9; Wr 0x06 0x8b90; Wr 0x06 0xf9ee; Wr 0x06 0xfff6; Wr 0x06 0x00ee;
  Wr 0x06 0xfff7; Wr 0x06 0xffe0; Wr 0x06 0xe140; Wr 0x06 0xe1e1; Wr 0x06 0x41f7; Wr 0x06 0x2ff6;
  Wr 0x06 0x28e4; Wr 0x06 0xe140; Wr 0x06 0xe5e1; Wr 0x06 0x4104; Wr 0x06 0xf8e0; Wr 0x06 0x8b89;
  Wr 0x06 0xad20; Wr 0x06 0x0dee; Wr 0x06 0x8b89; Wr 0x06 0x0002; Wr 0x06 0x82f4; Wr 0x06 0x021f;
  Wr 0x06 0x4102; Wr 0x06 0x2812; Wr 0x06 0xfc04; Wr 0x06 0xf8e0; Wr 0x06 0x8b8d; Wr 0x06 0xad20;
  Wr 0x06 0x10ee; Wr 0x06 0x8b8d; Wr 0x06 0x0002].

Definition phy_mcu_8168e_2_7 : list mop := [
  Wr 0x06 0x139d; Wr 0x06 0x0281; Wr 0x06 0xd602; Wr 0x06 0x1f99; Wr 0x06 0x0227; Wr 0x06 0xeafc;
  Wr 0x06 0x04f8; Wr 0x06 0xe08b; Wr 0x06 0x8ead; Wr 0x06 0x2014; Wr 0x06 0xf620; Wr 0x06 0xe48b;
  Wr 0x06 0x8e02; Wr 0x06 0x8104; Wr 0x06 0x021b; Wr 0x06 0xf402; Wr 0x06 0x2c9c; Wr 0x06 0x0281;
  Wr 0x06 0x7902; Wr 0x06 0x8443; Wr 0x06 0xad22; Wr 0x06 0x11f6; Wr 0x06 0x22e4; Wr 0x06 0x8b8e;
  Wr 0x06 0x022c; Wr 0x06 0x4602; Wr 0x06 0x2ac5; Wr 0x06 0x0229; Wr 0x06 0x2002; Wr 0x06 0x2b91;
  Wr 0x06 0xad25; Wr 0x06 0x11f6; Wr 0x06 0x25e4; Wr 0x06 0x8b8e; Wr 0x06 0x0284; Wr 0x06 0xe202;
  Wr 0x06 0x043a; Wr 0x06 0x021a; Wr 0x06 0x5902; Wr 0x06 0x2bfc; Wr 0x06 0xfc04; Wr 0x06 0xf8fa;
  Wr 0x06 0xef69; Wr 0x06 0xe0e0; Wr 0x06 0x00e1; Wr 0x06 0xe001; Wr 0x06 0xad27; Wr 0x06 0x1fd1;
  Wr 0x06 0x01bf; Wr 0x06 0x8638; Wr 0x06 0x022f; Wr 0x06 0x50e0; Wr 0x06 0xe020; Wr 0x06 0xe1e0;
  Wr 0x06 0x21ad; Wr 0x06 0x200e; Wr 0x06 0xd100; Wr 0x06 0xbf86; Wr 0x06 0x3802; Wr 0x06 0x2f50;
  Wr 0x06 0xbf3d; Wr 0x06 0x3902; Wr 0x06 0x2eb0; Wr 0x06 0xef96; Wr 0x06 0xfefc; Wr 0x06 0x0402;
  Wr 0x06 0x8591; Wr 0x06 0x0281; Wr 0x06 0x3c05; Wr 0x06 0xf8fa; Wr 0x06 0xef69; Wr 0x06 0xe0e2;
  Wr 0x06 0xfee1; Wr 0x06 0xe2ff; Wr 0x06 0xad2d; Wr 0x06 0x1ae0; Wr 0x06 0xe14e; Wr 0x06 0xe1e1;
  Wr 0x06 0x4fac; Wr 0x06 0x2d22; Wr 0x06 0xf603; Wr 0x06 0x0203; Wr 0x06 0x36f7; Wr 0x06 0x03f7;
  Wr 0x06 0x06bf; Wr 0x06 0x8622; Wr 0x06 0x022e; Wr 0x06 0xb0ae; Wr 0x06 0x11e0; Wr 0x06 0xe14e;
  Wr 0x06 0xe1e1; Wr 0x06 0x4fad; Wr 0x06 0x2d08; Wr 0x06 0xbf86; Wr 0x06 0x2d02; Wr 0x06 0x2eb0;
  Wr 0x06 0xf606; Wr 0x06 0xef96; Wr 0x06 0xfefc; Wr 0x06 0x04f8; Wr 0x06 0xf9fa; Wr 0x06 0xef69;
  Wr 0x06 0xe08b; Wr 0x06 0x87ad; Wr 0x06 0x204c; Wr 0x06 0xd200; Wr 0x06 0xe0e2; Wr 0x06 0x0058;
  Wr 0x06 0x010c; Wr 0x06 0x021e; Wr 0x06 0x20e0; Wr 0x06 0xe000; Wr 0x06 0x5810; Wr 0x06 0x1e20;
  Wr 0x06 0xe0e0; Wr 0x06 0x3658; Wr 0x06 0x031e; Wr 0x06 0x20e0; Wr 0x06 0xe022; Wr 0x06 0xe1e0;
  Wr 0x06 0x2358; Wr 0x06 0xe01e; Wr 0x06 0x20e0; Wr 0x06 0x8ae6; Wr 0x06 0x1f02; Wr 0x06 0x9e22;
  Wr 0x06 0xe68a; Wr 0x06 0xe6ad; Wr 0x06 0x3214; Wr 0x06 0xad34; Wr 0x06 0x11ef; Wr 0x06 0x0258;
  Wr 0x06 0x039e; Wr 0x06 0x07ad; Wr 0x06 0x3508; Wr 0x06 0x5ac0; Wr 0x06 0x9f04; Wr 0x06 0xd101;
  Wr 0x06 0xae02; Wr 0x06 0xd100; Wr 0x06 0xbf86; Wr 0x06 0x3e02; Wr 0x06 0x2f50; Wr 0x06 0xef96;
  Wr 0x06 0xfefd; Wr 0x06 0xfc04; Wr 0x06 0xf8f9; Wr 0x06 0xfae0].

Definition phy_mcu_8168e_2_8 : list mop := [
  Wr 0x06 0x8b81; Wr 0x06 0xac26; Wr 0x06 0x0ee0; Wr 0x06 0x8b81; Wr 0x06 0xac21; Wr 0x06 0x08e0;
  Wr 0x06 0x8b87; Wr 0x06 0xac24; Wr 0x06 0x02ae; Wr 0x06 0x6bee; Wr 0x06 0xe0ea; Wr 0x06 0x00ee;
  Wr 0x06 0xe0eb; Wr 0x06 0x00e2; Wr 0x06 0xe07c; Wr 0x06 0xe3e0; Wr 0x06 0x7da5; Wr 0x06 0x1111;
  Wr 0x06 0x15d2; Wr 0x06 0x60d6; Wr 0x06 0x6666; Wr 0x06 0x0207; Wr 0x06 0xf9d2; Wr 0x06 0xa0d6;
  Wr 0x06 0xaaaa; Wr 0x06 0x0207; Wr 0x06 0xf902; Wr 0x06 0x825c; Wr 0x06 0xae44; Wr 0x06 0xa566;
  Wr 0x06 0x6602; Wr 0x06 0xae38; Wr 0x06 0xa5aa; Wr 0x06 0xaa02; Wr 0x06 0xae32; Wr 0x06 0xeee0;
  Wr 0x06 0xea04; Wr 0x06 0xeee0; Wr 0x06 0xeb06; Wr 0x06 0xe2e0; Wr 0x06 0x7ce3; Wr 0x06 0xe07d;
  Wr 0x06 0xe0e0; Wr 0x06 0x38e1; Wr 0x06 0xe039; Wr 0x06 0xad2e; Wr 0x06 0x21ad; Wr 0x06 0x3f13;
  Wr 0x06 0xe0e4; Wr 0x06 0x14e1; Wr 0x06 0xe415; Wr 0x06 0x6880; Wr 0x06 0xe4e4; Wr 0x06 0x14e5;
  Wr 0x06 0xe415; Wr 0x06 0x0282; Wr 0x06 0x5cae; Wr 0x06 0x0bac; Wr 0x06 0x3e02; Wr 0x06 0xae06;
  Wr 0x06 0x0282; Wr 0x06 0x8602; Wr 0x06 0x82b0; Wr 0x06 0xfefd; Wr 0x06 0xfc04; Wr 0x06 0xf8e1;
  Wr 0x06 0x8b2e; Wr 0x06 0xe08b; Wr 0x06 0x81ad; Wr 0x06 0x2605; Wr 0x06 0x0221; Wr 0x06 0xf3f7;
  Wr 0x06 0x28e0; Wr 0x06 0x8b81; Wr 0x06 0xad21; Wr 0x06 0x0502; Wr 0x06 0x22f8; Wr 0x06 0xf729;
  Wr 0x06 0xe08b; Wr 0x06 0x87ad; Wr 0x06 0x2405; Wr 0x06 0x0282; Wr 0x06 0xebf7; Wr 0x06 0x2ae5;
  Wr 0x06 0x8b2e; Wr 0x06 0xfc04; Wr 0x06 0xf8e0; Wr 0x06 0x8b81; Wr 0x06 0xad26; Wr 0x06 0x0302;
  Wr 0x06 0x2134; Wr 0x06 0xe08b; Wr 0x06 0x81ad; Wr 0x06 0x2109; Wr 0x06 0xe08b; Wr 0x06 0x2eac;
  Wr 0x06 0x2003; Wr 0x06 0x0283; Wr 0x06 0x52e0; Wr 0x06 0x8b87; Wr 0x06 0xad24; Wr 0x06 0x09e0;
  Wr 0x06 0x8b2e; Wr 0x06 0xac21; Wr 0x06 0x0302; Wr 0x06 0x8337; Wr 0x06 0xfc04; Wr 0x06 0xf8e1;
  Wr 0x06 0x8b2e; Wr 0x06 0xe08b; Wr 0x06 0x81ad; Wr 0x06 0x2608; Wr 0x06 0xe085; Wr 0x06 0xd2ad;
  Wr 0x06 0x2502; Wr 0x06 0xf628; Wr 0x06 0xe08b; Wr 0x06 0x81ad; Wr 0x06 0x210a; Wr 0x06 0xe086;
  Wr 0x06 0x0af6; Wr 0x06 0x27a0; Wr 0x06 0x0502; Wr 0x06 0xf629; Wr 0x06 0xe08b; Wr 0x06 0x87ad;
  Wr 0x06 0x2408; Wr 0x06 0xe08a; Wr 0x06 0xedad; Wr 0x06 0x2002; Wr 0x06 0xf62a; Wr 0x06 0xe58b;
  Wr 0x06 0x2ea1; Wr 0x06 0x0003; Wr 0x06 0x0221; Wr 0x06 0x11fc; Wr 0x06 0x04ee; Wr 0x06 0x8aed;
  Wr 0x06 0x00ee; Wr 0x06 0x8aec; Wr 0x06 0x0004; Wr 0x06 0xf8e0; Wr 0x06 0x8b87; Wr 0x06 0xad24;
  Wr 0x06 0x3ae0; Wr 0x06 0xe0ea; Wr 0x06 0xe1e0; Wr 0x06 0xeb58].

Definition phy_mcu_8168e_2_9 : list mop := [
  Wr 0x06 0xf8d1; Wr 0x06 0x01e4; Wr 0x06 0xe0ea; Wr 0x06 0xe5e0; Wr 0x06 0xebe0; Wr 0x06 0xe07c;
  Wr 0x06 0xe1e0; Wr 0x06 0x7d5c; Wr 0x06 0x00ff; Wr 0x06 0x3c00; Wr 0x06 0x1eab; Wr 0x06 0x1ce0;
  Wr 0x06 0xe04c; Wr 0x06 0xe1e0; Wr 0x06 0x4d58; Wr 0x06 0xc1e4; Wr 0x06 0xe04c; Wr 0x06 0xe5e0;
  Wr 0x06 0x4de0; Wr 0x06 0xe0ee; Wr 0x06 0xe1e0; Wr 0x06 0xef69; Wr 0x06 0x3ce4; Wr 0x06 0xe0ee;
  Wr 0x06 0xe5e0; Wr 0x06 0xeffc; Wr 0x06 0x04f8; Wr 0x06 0xe08b; Wr 0x06 0x87ad; Wr 0x06 0x2412;
  Wr 0x06 0xe0e0; Wr 0x06 0xeee1; Wr 0x06 0xe0ef; Wr 0x06 0x59c3; Wr 0x06 0xe4e0; Wr 0x06 0xeee5;
  Wr 0x06 0xe0ef; Wr 0x06 0xee8a; Wr 0x06 0xed01; Wr 0x06 0xfc04; Wr 0x06 0xf8e0; Wr 0x06 0x8b81;
  Wr 0x06 0xac25; Wr 0x06 0x0502; Wr 0x06 0x8363; Wr 0x06 0xae03; Wr 0x06 0x0225; Wr 0x06 0x16fc;
  Wr 0x06 0x04f8; Wr 0x06 0xf9fa; Wr 0x06 0xef69; Wr 0x06 0xfae0; Wr 0x06 0x860a; Wr 0x06 0xa000;
  Wr 0x06 0x19e0; Wr 0x06 0x860b; Wr 0x06 0xe18b; Wr 0x06 0x331b; Wr 0x06 0x109e; Wr 0x06 0x04aa;
  Wr 0x06 0x02ae; Wr 0x06 0x06ee; Wr 0x06 0x860a; Wr 0x06 0x01ae; Wr 0x06 0xe602; Wr 0x06 0x241e;
  Wr 0x06 0xae14; Wr 0x06 0xa001; Wr 0x06 0x1402; Wr 0x06 0x2426; Wr 0x06 0xbf26; Wr 0x06 0x6d02;
  Wr 0x06 0x2eb0; Wr 0x06 0xee86; Wr 0x06 0x0b00; Wr 0x06 0xee86; Wr 0x06 0x0a02; Wr 0x06 0xaf84;
  Wr 0x06 0x3ca0; Wr 0x06 0x0252; Wr 0x06 0xee86; Wr 0x06 0x0400; Wr 0x06 0xee86; Wr 0x06 0x0500;
  Wr 0x06 0xe086; Wr 0x06 0x0be1; Wr 0x06 0x8b32; Wr 0x06 0x1b10; Wr 0x06 0x9e04; Wr 0x06 0xaa02;
  Wr 0x06 0xaecb; Wr 0x06 0xee86; Wr 0x06 0x0b00; Wr 0x06 0x0224; Wr 0x06 0x3ae2; Wr 0x06 0x8604;
  Wr 0x06 0xe386; Wr 0x06 0x05ef; Wr 0x06 0x65e2; Wr 0x06 0x8606; Wr 0x06 0xe386; Wr 0x06 0x071b;
  Wr 0x06 0x56aa; Wr 0x06 0x0eef; Wr 0x06 0x56e6; Wr 0x06 0x8606; Wr 0x06 0xe786; Wr 0x06 0x07e2;
  Wr 0x06 0x8609; Wr 0x06 0xe686; Wr 0x06 0x08e0; Wr 0x06 0x8609; Wr 0x06 0xa000; Wr 0x06 0x07ee;
  Wr 0x06 0x860a; Wr 0x06 0x03af; Wr 0x06 0x8369; Wr 0x06 0x0224; Wr 0x06 0x8e02; Wr 0x06 0x2426;
  Wr 0x06 0xae48; Wr 0x06 0xa003; Wr 0x06 0x21e0; Wr 0x06 0x8608; Wr 0x06 0xe186; Wr 0x06 0x091b;
  Wr 0x06 0x019e; Wr 0x06 0x0caa; Wr 0x06 0x0502; Wr 0x06 0x249d; Wr 0x06 0xaee7; Wr 0x06 0x0224;
  Wr 0x06 0x8eae; Wr 0x06 0xe2ee; Wr 0x06 0x860a; Wr 0x06 0x04ee; Wr 0x06 0x860b; Wr 0x06 0x00af;
  Wr 0x06 0x8369; Wr 0x06 0xa004; Wr 0x06 0x15e0; Wr 0x06 0x860b; Wr 0x06 0xe18b; Wr 0x06 0x341b;
  Wr 0x06 0x109e; Wr 0x06 0x05aa; Wr 0x06 0x03af; Wr 0x06 0x8383].

Definition phy_mcu_8168e_2_10 : list mop := [
  Wr 0x06 0xee86; Wr 0x06 0x0a05; Wr 0x06 0xae0c; Wr 0x06 0xa005; Wr 0x06 0x02ae; Wr 0x06 0x0702;
  Wr 0x06 0x2309; Wr 0x06 0xee86; Wr 0x06 0x0a00; Wr 0x06 0xfeef; Wr 0x06 0x96fe; Wr 0x06 0xfdfc;
  Wr 0x06 0x04f8; Wr 0x06 0xf9fa; Wr 0x06 0xef69; Wr 0x06 0xfbe0; Wr 0x06 0x8b85; Wr 0x06 0xad25;
  Wr 0x06 0x22e0; Wr 0x06 0xe022; Wr 0x06 0xe1e0; Wr 0x06 0x23e2; Wr 0x06 0xe036; Wr 0x06 0xe3e0;
  Wr 0x06 0x375a; Wr 0x06 0xc40d; Wr 0x06 0x0158; Wr 0x06 0x021e; Wr 0x06 0x20e3; Wr 0x06 0x8ae7;
  Wr 0x06 0xac31; Wr 0x06 0x60ac; Wr 0x06 0x3a08; Wr 0x06 0xac3e; Wr 0x06 0x26ae; Wr 0x06 0x67af;
  Wr 0x06 0x84db; Wr 0x06 0xad37; Wr 0x06 0x61e0; Wr 0x06 0x8ae8; Wr 0x06 0x10e4; Wr 0x06 0x8ae8;
  Wr 0x06 0xe18a; Wr 0x06 0xe91b; Wr 0x06 0x109e; Wr 0x06 0x02ae; Wr 0x06 0x51d1; Wr 0x06 0x00bf;
  Wr 0x06 0x863b; Wr 0x06 0x022f; Wr 0x06 0x50ee; Wr 0x06 0x8ae8; Wr 0x06 0x00ae; Wr 0x06 0x43ad;
  Wr 0x06 0x3627; Wr 0x06 0xe08a; Wr 0x06 0xeee1; Wr 0x06 0x8aef; Wr 0x06 0xef74; Wr 0x06 0xe08a;
  Wr 0x06 0xeae1; Wr 0x06 0x8aeb; Wr 0x06 0x1b74; Wr 0x06 0x9e2e; Wr 0x06 0x14e4; Wr 0x06 0x8aea;
  Wr 0x06 0xe58a; Wr 0x06 0xebef; Wr 0x06 0x74e0; Wr 0x06 0x8aee; Wr 0x06 0xe18a; Wr 0x06 0xef1b;
  Wr 0x06 0x479e; Wr 0x06 0x0fae; Wr 0x06 0x19ee; Wr 0x06 0x8aea; Wr 0x06 0x00ee; Wr 0x06 0x8aeb;
  Wr 0x06 0x00ae; Wr 0x06 0x0fac; Wr 0x06 0x390c; Wr 0x06 0xd101; Wr 0x06 0xbf86; Wr 0x06 0x3b02;
  Wr 0x06 0x2f50; Wr 0x06 0xee8a; Wr 0x06 0xe800; Wr 0x06 0xe68a; Wr 0x06 0xe7ff; Wr 0x06 0xef96;
  Wr 0x06 0xfefd; Wr 0x06 0xfc04; Wr 0x06 0xf8f9; Wr 0x06 0xfaef; Wr 0x06 0x69e0; Wr 0x06 0xe022;
  Wr 0x06 0xe1e0; Wr 0x06 0x2358; Wr 0x06 0xc4e1; Wr 0x06 0x8b6e; Wr 0x06 0x1f10; Wr 0x06 0x9e24;
  Wr 0x06 0xe48b; Wr 0x06 0x6ead; Wr 0x06 0x2218; Wr 0x06 0xac27; Wr 0x06 0x0dac; Wr 0x06 0x2605;
  Wr 0x06 0x0203; Wr 0x06 0x8fae; Wr 0x06 0x1302; Wr 0x06 0x03c8; Wr 0x06 0xae0e; Wr 0x06 0x0203;
  Wr 0x06 0xe102; Wr 0x06 0x8520; Wr 0x06 0xae06; Wr 0x06 0x0203; Wr 0x06 0x8f02; Wr 0x06 0x8566;
  Wr 0x06 0xef96; Wr 0x06 0xfefd; Wr 0x06 0xfc04; Wr 0x06 0xf8fa; Wr 0x06 0xef69; Wr 0x06 0xe08b;
  Wr 0x06 0x82ad; Wr 0x06 0x2737; Wr 0x06 0xbf86; Wr 0x06 0x4402; Wr 0x06 0x2f23; Wr 0x06 0xac28;
  Wr 0x06 0x2ed1; Wr 0x06 0x01bf; Wr 0x06 0x8647; Wr 0x06 0x022f; Wr 0x06 0x50bf; Wr 0x06 0x8641;
  Wr 0x06 0x022f; Wr 0x06 0x23e5; Wr 0x06 0x8af0; Wr 0x06 0xe0e0; Wr 0x06 0x22e1; Wr 0x06 0xe023;
  Wr 0x06 0xac2e; Wr 0x06 0x04d1; Wr 0x06 0x01ae; Wr 0x06 0x02d1].

Definition phy_mcu_8168e_2_11 : list mop := [
  Wr 0x06 0x00bf; Wr 0x06 0x8641; Wr 0x06 0x022f; Wr 0x06 0x50d1; Wr 0x06 0x01bf; Wr 0x06 0x8644;
  Wr 0x06 0x022f; Wr 0x06 0x50ef; Wr 0x06 0x96fe; Wr 0x06 0xfc04; Wr 0x06 0xf8fa; Wr 0x06 0xef69;
  Wr 0x06 0xbf86; Wr 0x06 0x4702; Wr 0x06 0x2f23; Wr 0x06 0xad28; Wr 0x06 0x19d1; Wr 0x06 0x00bf;
  Wr 0x06 0x8644; Wr 0x06 0x022f; Wr 0x06 0x50e1; Wr 0x06 0x8af0; Wr 0x06 0xbf86; Wr 0x06 0x4102;
  Wr 0x06 0x2f50; Wr 0x06 0xd100; Wr 0x06 0xbf86; Wr 0x06 0x4702; Wr 0x06 0x2f50; Wr 0x06 0xef96;
  Wr 0x06 0xfefc; Wr 0x06 0x04f8; Wr 0x06 0xe0e2; Wr 0x06 0xfee1; Wr 0x06 0xe2ff; Wr 0x06 0xad2e;
  Wr 0x06 0x63e0; Wr 0x06 0xe038; Wr 0x06 0xe1e0; Wr 0x06 0x39ad; Wr 0x06 0x2f10; Wr 0x06 0xe0e0;
  Wr 0x06 0x34e1; Wr 0x06 0xe035; Wr 0x06 0xf726; Wr 0x06 0xe4e0; Wr 0x06 0x34e5; Wr 0x06 0xe035;
  Wr 0x06 0xae0e; Wr 0x06 0xe0e2; Wr 0x06 0xd6e1; Wr 0x06 0xe2d7; Wr 0x06 0xf728; Wr 0x06 0xe4e2;
  Wr 0x06 0xd6e5; Wr 0x06 0xe2d7; Wr 0x06 0xe0e2; Wr 0x06 0x34e1; Wr 0x06 0xe235; Wr 0x06 0xf72b;
  Wr 0x06 0xe4e2; Wr 0x06 0x34e5; Wr 0x06 0xe235; Wr 0x06 0xd07d; Wr 0x06 0xb0fe; Wr 0x06 0xe0e2;
  Wr 0x06 0x34e1; Wr 0x06 0xe235; Wr 0x06 0xf62b; Wr 0x06 0xe4e2; Wr 0x06 0x34e5; Wr 0x06 0xe235;
  Wr 0x06 0xe0e0; Wr 0x06 0x34e1; Wr 0x06 0xe035; Wr 0x06 0xf626; Wr 0x06 0xe4e0; Wr 0x06 0x34e5;
  Wr 0x06 0xe035; Wr 0x06 0xe0e2; Wr 0x06 0xd6e1; Wr 0x06 0xe2d7; Wr 0x06 0xf628; Wr 0x06 0xe4e2;
  Wr 0x06 0xd6e5; Wr 0x06 0xe2d7; Wr 0x06 0xfc04; Wr 0x06 0xae20; Wr 0x06 0x0000; Wr 0x06 0x0000;
  Wr 0x06 0x0000; Wr 0x06 0x0000; Wr 0x06 0x0000; Wr 0x06 0x0000; Wr 0x06 0x0000; Wr 0x06 0x0000;
  Wr 0x06 0x0000; Wr 0x06 0x0000; Wr 0x06 0x0000; Wr 0x06 0x0000; Wr 0x06 0x0000; Wr 0x06 0x0000;
  Wr 0x06 0x0000; Wr 0x06 0x0000; Wr 0x06 0xa725; Wr 0x06 0xe50a; Wr 0x06 0x1de5; Wr 0x06 0x0a2c;
  Wr 0x06 0xe50a; Wr 0x06 0x6de5; Wr 0x06 0x0a1d; Wr 0x06 0xe50a; Wr 0x06 0x1ce5; Wr 0x06 0x0a2d;
  Wr 0x06 0xa755; Wr 0x06 0x00e2; Wr 0x06 0x3488; Wr 0x06 0xe200; Wr 0x06 0xcce2; Wr 0x06 0x0055;
  Wr 0x06 0xe020; Wr 0x06 0x55e2; Wr 0x06 0xd600; Wr 0x06 0xe24a; Mo 0x01 0 (BIT 0); Mo 0x00 0 (BIT 0);
  Wr 0x1f 0x0000; Wr 0x1f 0x0000; Wr 0x17 0x2179; Wr 0x1f 0x0001; Wr 0x10 0xf274; Wr 0x1f 0x0007;
  Wr 0x1e 0x0042; Wr 0x15 0x0f00; Wr 0x15 0x0f00; Wr 0x16 0x7408; Wr 0x15 0x0e00; Wr 0x15 0x0f00;
  Wr 0x15 0x0f01; Wr 0x16 0x4000; Wr 0x15 0x0e01; Wr 0x15 0x0f01; Wr 0x15 0x0f02].

Definition phy_mcu_8168e_2_12 : list mop := [
  Wr 0x16 0x9400; Wr 0x15 0x0e02; Wr 0x15 0x0f02; Wr 0x15 0x0f03; Wr 0x16 0x7408; Wr 0x15 0x0e03;
  Wr 0x15 0x0f03; Wr 0x15 0x0f04; Wr 0x16 0x4008; Wr 0x15 0x0e04; Wr 0x15 0x0f04; Wr 0x15 0x0f05;
  Wr 0x16 0x9400; Wr 0x15 0x0e05; Wr 0x15 0x0f05; Wr 0x15 0x0f06; Wr 0x16 0x0803; Wr 0x15 0x0e06;
  Wr 0x15 0x0f06; Wr 0x15 0x0d00; Wr 0x15 0x0100; Wr 0x1f 0x0001; Wr 0x10 0xf074; Wr 0x1f 0x0000;
  Wr 0x17 0x2149; Wr 0x1f 0x0005].

Definition phy_mcu_8168e_2_13 : list mop := [
  Wr 0x1f 0x0000; Wr 0x1f 0x0007; Wr 0x1e 0x0023; Mo 0x17 0 (BIT 14); Wr 0x1e 0x0020; Mo 0x1b 0 (BIT 7);
  Wr 0x1e 0x0041; Wr 0x15 0x0e02; Wr 0x1e 0x0028; Mo 0x19 0 (BIT 15); Wr 0x1f 0x0000].

Definition phy_mcu_8168e_2_14 : list mop := [
  Wr 0x1f 0x0000; Wr 0x00 0x1800; Wr 0x1f 0x0007; Wr 0x1e 0x0023; Wr 0x17 0x0117; Wr 0x1f 0x0007;
  Wr 0x1E 0x002C; Wr 0x1B 0x5000; Wr 0x1f 0x0000; Wr 0x16 0x4104].

Definition phy_mcu_8168e_2_15 : list mop := [
  Wr 0x1f 0x0007; Wr 0x1e 0x00a1; Wr 0x17 0x1000; Wr 0x17 0x0000; Wr 0x17 0x2000; Wr 0x1e 0x002f;
  Wr 0x18 0x9bfb; Wr 0x1f 0x0005; Wr 0x07 0x0000; Wr 0x1f 0x0000].

Definition phy_mcu_8168e_2_16 : list mop := [
  Wr 0x1f 0x0005; Wr 0x05 0xfff6; Wr 0x06 0x0080; Mo 0x00 (BIT 7) 0; Wr 0x1f 0x0002; Mo 0x08 (BIT 7) 0;
  Wr 0x1f 0x0000; Wr 0x1f 0x0007; Wr 0x1e 0x0023; Wr 0x16 0x0306; Wr 0x16 0x0307; Wr 0x15 0x000e;
  Wr 0x19 0x000a; Wr 0x15 0x0010; Wr 0x19 0x0008; Wr 0x15 0x0018; Wr 0x19 0x4801; Wr 0x15 0x0019;
  Wr 0x19 0x6801; Wr 0x15 0x001a; Wr 0x19 0x66a1; Wr 0x15 0x001f; Wr 0x19 0x0000; Wr 0x15 0x0020;
  Wr 0x19 0x0000; Wr 0x15 0x0021; Wr 0x19 0x0000; Wr 0x15 0x0022; Wr 0x19 0x0000; Wr 0x15 0x0023;
  Wr 0x19 0x0000; Wr 0x15 0x0024; Wr 0x19 0x0000; Wr 0x15 0x0025; Wr 0x19 0x64a1; Wr 0x15 0x0026;
  Wr 0x19 0x40ea; Wr 0x15 0x0027; Wr 0x19 0x4503; Wr 0x15 0x0028; Wr 0x19 0x9f00; Wr 0x15 0x0029;
  Wr 0x19 0xa631; Wr 0x15 0x002a; Wr 0x19 0x9717; Wr 0x15 0x002b; Wr 0x19 0x302c; Wr 0x15 0x002c;
  Wr 0x19 0x4802; Wr 0x15 0x002d; Wr 0x19 0x58da; Wr 0x15 0x002e; Wr 0x19 0x400d; Wr 0x15 0x002f;
  Wr 0x19 0x4488; Wr 0x15 0x0030; Wr 0x19 0x9e00; Wr 0x15 0x0031; Wr 0x19 0x63c8; Wr 0x15 0x0032;
  Wr 0x19 0x6481; Wr 0x15 0x0033; Wr 0x19 0x0000; Wr 0x15 0x0034; Wr 0x19 0x0000; Wr 0x15 0x0035;
  Wr 0x19 0x0000; Wr 0x15 0x0036; Wr 0x19 0x0000; Wr 0x15 0x0037; Wr 0x19 0x0000; Wr 0x15 0x0038;
  Wr 0x19 0x0000; Wr 0x15 0x0039; Wr 0x19 0x0000; Wr 0x15 0x003a; Wr 0x19 0x0000; Wr 0x15 0x003b;
  Wr 0x19 0x63e8; Wr 0x15 0x003c; Wr 0x19 0x7d00; Wr 0x15 0x003d; Wr 0x19 0x59d4; Wr 0x15 0x003e;
  Wr 0x19 0x63f8; Wr 0x15 0x0040; Wr 0x19 0x64a1; Wr 0x15 0x0041; Wr 0x19 0x30de; Wr 0x15 0x0044;
  Wr 0x19 0x480f; Wr 0x15 0x0045; Wr 0x19 0x6800; Wr 0x15 0x0046; Wr 0x19 0x6680; Wr 0x15 0x0047;
  Wr 0x19 0x7c10; Wr 0x15 0x0048; Wr 0x19 0x63c8; Wr 0x15 0x0049; Wr 0x19 0x0000; Wr 0x15 0x004a;
  Wr 0x19 0x0000; Wr 0x15 0x004b; Wr 0x19 0x0000; Wr 0x15 0x004c; Wr 0x19 0x0000; Wr 0x15 0x004d;
  Wr 0x19 0x0000; Wr 0x15 0x004e; Wr 0x19 0x0000; Wr 0x15 0x004f; Wr 0x19 0x40ea; Wr 0x15 0x0050;
  Wr 0x19 0x4503; Wr 0x15 0x0051; Wr 0x19 0x58ca; Wr 0x15 0x0052; Wr 0x19 0x63c8; Wr 0x15 0x0053;
  Wr 0x19 0x63d8; Wr 0x15 0x0054; Wr 0x19 0x66a0; Wr 0x15 0x0055; Wr 0x19 0x9f00; Wr 0x15 0x0056;
  Wr 0x19 0x3000; Wr 0x15 0x00a1; Wr 0x19 0x3044; Wr 0x15 0x00ab; Wr 0x19 0x5820; Wr 0x15 0x00ac;
  Wr 0x19 0x5e04; Wr 0x15 0x00ad; Wr 0x19 0xb60c; Wr 0x15 0x00af; Wr 0x19 0x000a; Wr 0x15 0x00b2;
  Wr 0x19 0x30b9; Wr 0x15 0x00b9; Wr 0x19 0x4408; Wr 0x15 0x00ba; Wr 0x19 0x480b].

Definition phy_mcu_8168e_2_17 : list mop := [
  Wr 0x15 0x00bb; Wr 0x19 0x5e00; Wr 0x15 0x00bc; Wr 0x19 0x405f; Wr 0x15 0x00bd; Wr 0x19 0x4448;
  Wr 0x15 0x00be; Wr 0x19 0x4020; Wr 0x15 0x00bf; Wr 0x19 0x4468; Wr 0x15 0x00c0; Wr 0x19 0x9c02;
  Wr 0x15 0x00c1; Wr 0x19 0x58a0; Wr 0x15 0x00c2; Wr 0x19 0xb605; Wr 0x15 0x00c3; Wr 0x19 0xc0d3;
  Wr 0x15 0x00c4; Wr 0x19 0x00e6; Wr 0x15 0x00c5; Wr 0x19 0xdaec; Wr 0x15 0x00c6; Wr 0x19 0x00fa;
  Wr 0x15 0x00c7; Wr 0x19 0x9df9; Wr 0x15 0x0112; Wr 0x19 0x6421; Wr 0x15 0x0113; Wr 0x19 0x7c08;
  Wr 0x15 0x0114; Wr 0x19 0x63f0; Wr 0x15 0x0115; Wr 0x19 0x4003; Wr 0x15 0x0116; Wr 0x19 0x4418;
  Wr 0x15 0x0117; Wr 0x19 0x9b00; Wr 0x15 0x0118; Wr 0x19 0x6461; Wr 0x15 0x0119; Wr 0x19 0x64e1;
  Wr 0x15 0x011a; Wr 0x19 0x0000; Wr 0x15 0x0150; Wr 0x19 0x7c80; Wr 0x15 0x0151; Wr 0x19 0x6461;
  Wr 0x15 0x0152; Wr 0x19 0x4003; Wr 0x15 0x0153; Wr 0x19 0x4540; Wr 0x15 0x0154; Wr 0x19 0x9f00;
  Wr 0x15 0x0155; Wr 0x19 0x9d00; Wr 0x15 0x0156; Wr 0x19 0x7c40; Wr 0x15 0x0157; Wr 0x19 0x6421;
  Wr 0x15 0x0158; Wr 0x19 0x7c80; Wr 0x15 0x0159; Wr 0x19 0x64a1; Wr 0x15 0x015a; Wr 0x19 0x30fe;
  Wr 0x15 0x029c; Wr 0x19 0x0070; Wr 0x15 0x02b2; Wr 0x19 0x005a; Wr 0x15 0x02bd; Wr 0x19 0xa522;
  Wr 0x15 0x02ce; Wr 0x19 0xb63e; Wr 0x15 0x02d9; Wr 0x19 0x32df; Wr 0x15 0x02df; Wr 0x19 0x4500;
  Wr 0x15 0x02f4; Wr 0x19 0xb618; Wr 0x15 0x02fb; Wr 0x19 0xb900; Wr 0x15 0x02fc; Wr 0x19 0x49b5;
  Wr 0x15 0x02fd; Wr 0x19 0x6812; Wr 0x15 0x02fe; Wr 0x19 0x66a0; Wr 0x15 0x02ff; Wr 0x19 0x9900;
  Wr 0x15 0x0300; Wr 0x19 0x64a0; Wr 0x15 0x0301; Wr 0x19 0x3316; Wr 0x15 0x0308; Wr 0x19 0x0000;
  Wr 0x15 0x030c; Wr 0x19 0x3000; Wr 0x15 0x0312; Wr 0x19 0x0000; Wr 0x15 0x0313; Wr 0x19 0x0000;
  Wr 0x15 0x0314; Wr 0x19 0x0000; Wr 0x15 0x0315; Wr 0x19 0x0000; Wr 0x15 0x0316; Wr 0x19 0x49b5;
  Wr 0x15 0x0317; Wr 0x19 0x7d00; Wr 0x15 0x0318; Wr 0x19 0x4d00; Wr 0x15 0x0319; Wr 0x19 0x6810;
  Wr 0x15 0x031a; Wr 0x19 0x6c08; Wr 0x15 0x031b; Wr 0x19 0x4925; Wr 0x15 0x031c; Wr 0x19 0x403b;
  Wr 0x15 0x031d; Wr 0x19 0xa602; Wr 0x15 0x031e; Wr 0x19 0x402f; Wr 0x15 0x031f; Wr 0x19 0x4484;
  Wr 0x15 0x0320; Wr 0x19 0x40c8; Wr 0x15 0x0321; Wr 0x19 0x44c4; Wr 0x15 0x0322; Wr 0x19 0x404f;
  Wr 0x15 0x0323; Wr 0x19 0x44c8; Wr 0x15 0x0324; Wr 0x19 0xd64f; Wr 0x15 0x0325; Wr 0x19 0x00e7;
  Wr 0x15 0x0326; Wr 0x19 0x7c08; Wr 0x15 0x0327; Wr 0x19 0x8203; Wr 0x15 0x0328; Wr 0x19 0x4d48;
  Wr 0x15 0x0329; Wr 0x19 0x332b; Wr 0x15 0x032a; Wr 0x19 0x4d40].

Definition phy_mcu_8168e_2_18 : list mop := [
  Wr 0x15 0x032c; Wr 0x19 0x00f8; Wr 0x15 0x032d; Wr 0x19 0x82b2; Wr 0x15 0x032f; Wr 0x19 0x00b0;
  Wr 0x15 0x0332; Wr 0x19 0x91f2; Wr 0x15 0x033f; Wr 0x19 0xb6cd; Wr 0x15 0x0340; Wr 0x19 0x9e01;
  Wr 0x15 0x0341; Wr 0x19 0xd11d; Wr 0x15 0x0342; Wr 0x19 0x009d; Wr 0x15 0x0343; Wr 0x19 0xbb1c;
  Wr 0x15 0x0344; Wr 0x19 0x8102; Wr 0x15 0x0345; Wr 0x19 0x3348; Wr 0x15 0x0346; Wr 0x19 0xa231;
  Wr 0x15 0x0347; Wr 0x19 0x335b; Wr 0x15 0x0348; Wr 0x19 0x91f7; Wr 0x15 0x0349; Wr 0x19 0xc218;
  Wr 0x15 0x034a; Wr 0x19 0x00f5; Wr 0x15 0x034b; Wr 0x19 0x335b; Wr 0x15 0x034c; Wr 0x19 0x0000;
  Wr 0x15 0x034d; Wr 0x19 0x0000; Wr 0x15 0x034e; Wr 0x19 0x0000; Wr 0x15 0x034f; Wr 0x19 0x0000;
  Wr 0x15 0x0350; Wr 0x19 0x0000; Wr 0x15 0x035b; Wr 0x19 0xa23c; Wr 0x15 0x035c; Wr 0x19 0x7c08;
  Wr 0x15 0x035d; Wr 0x19 0x4c00; Wr 0x15 0x035e; Wr 0x19 0x3397; Wr 0x15 0x0363; Wr 0x19 0xb6a9;
  Wr 0x15 0x0366; Wr 0x19 0x00f5; Wr 0x15 0x0382; Wr 0x19 0x7c40; Wr 0x15 0x0388; Wr 0x19 0x0084;
  Wr 0x15 0x0389; Wr 0x19 0xdd17; Wr 0x15 0x038a; Wr 0x19 0x000b; Wr 0x15 0x038b; Wr 0x19 0xa10a;
  Wr 0x15 0x038c; Wr 0x19 0x337e; Wr 0x15 0x038d; Wr 0x19 0x6c0b; Wr 0x15 0x038e; Wr 0x19 0xa107;
  Wr 0x15 0x038f; Wr 0x19 0x6c08; Wr 0x15 0x0390; Wr 0x19 0xc017; Wr 0x15 0x0391; Wr 0x19 0x0004;
  Wr 0x15 0x0392; Wr 0x19 0xd64f; Wr 0x15 0x0393; Wr 0x19 0x00f4; Wr 0x15 0x0397; Wr 0x19 0x4098;
  Wr 0x15 0x0398; Wr 0x19 0x4408; Wr 0x15 0x0399; Wr 0x19 0x55bf; Wr 0x15 0x039a; Wr 0x19 0x4bb9;
  Wr 0x15 0x039b; Wr 0x19 0x6810; Wr 0x15 0x039c; Wr 0x19 0x4b29; Wr 0x15 0x039d; Wr 0x19 0x4041;
  Wr 0x15 0x039e; Wr 0x19 0x442a; Wr 0x15 0x039f; Wr 0x19 0x4029; Wr 0x15 0x03aa; Wr 0x19 0x33b8;
  Wr 0x15 0x03b6; Wr 0x19 0x0000; Wr 0x15 0x03b7; Wr 0x19 0x0000; Wr 0x15 0x03b8; Wr 0x19 0x543f;
  Wr 0x15 0x03b9; Wr 0x19 0x499a; Wr 0x15 0x03ba; Wr 0x19 0x7c40; Wr 0x15 0x03bb; Wr 0x19 0x4c40;
  Wr 0x15 0x03bc; Wr 0x19 0x490a; Wr 0x15 0x03bd; Wr 0x19 0x405e; Wr 0x15 0x03c2; Wr 0x19 0x9a03;
  Wr 0x15 0x03c4; Wr 0x19 0x0015; Wr 0x15 0x03c5; Wr 0x19 0x9e03; Wr 0x15 0x03c8; Wr 0x19 0x9cf7;
  Wr 0x15 0x03c9; Wr 0x19 0x7c12; Wr 0x15 0x03ca; Wr 0x19 0x4c52; Wr 0x15 0x03cb; Wr 0x19 0x4458;
  Wr 0x15 0x03cd; Wr 0x19 0x4c40; Wr 0x15 0x03ce; Wr 0x19 0x33bf; Wr 0x15 0x03cf; Wr 0x19 0x0000;
  Wr 0x15 0x03d0; Wr 0x19 0x0000; Wr 0x15 0x03d1; Wr 0x19 0x0000; Wr 0x15 0x03d5; Wr 0x19 0x0000;
  Wr 0x15 0x03d6; Wr 0x19 0x0000; Wr 0x15 0x03d7; Wr 0x19 0x0000].

Definition phy_mcu_8168e_2_19 : list mop := [
  Wr 0x15 0x03d8; Wr 0x19 0x0000; Wr 0x15 0x03d9; Wr 0x19 0x49bb; Wr 0x15 0x03da; Wr 0x19 0x4478;
  Wr 0x15 0x03db; Wr 0x19 0x492b; Wr 0x15 0x03dc; Wr 0x19 0x7c01; Wr 0x15 0x03dd; Wr 0x19 0x4c00;
  Wr 0x15 0x03de; Wr 0x19 0xbd1a; Wr 0x15 0x03df; Wr 0x19 0xc428; Wr 0x15 0x03e0; Wr 0x19 0x0008;
  Wr 0x15 0x03e1; Wr 0x19 0x9cfd; Wr 0x15 0x03e2; Wr 0x19 0x7c12; Wr 0x15 0x03e3; Wr 0x19 0x4c52;
  Wr 0x15 0x03e4; Wr 0x19 0x4458; Wr 0x15 0x03e5; Wr 0x19 0x7c12; Wr 0x15 0x03e6; Wr 0x19 0x4c40;
  Wr 0x15 0x03e7; Wr 0x19 0x33de; Wr 0x15 0x03e8; Wr 0x19 0xc218; Wr 0x15 0x03e9; Wr 0x19 0x0002;
  Wr 0x15 0x03ea; Wr 0x19 0x32df; Wr 0x15 0x03eb; Wr 0x19 0x3316; Wr 0x15 0x03ec; Wr 0x19 0x0000;
  Wr 0x15 0x03ed; Wr 0x19 0x0000; Wr 0x15 0x03ee; Wr 0x19 0x0000; Wr 0x15 0x03ef; Wr 0x19 0x0000;
  Wr 0x15 0x03f7; Wr 0x19 0x330c; Wr 0x16 0x0306; Wr 0x16 0x0300; Wr 0x1f 0x0005; Wr 0x05 0xfff6;
  Wr 0x06 0x0080; Wr 0x05 0x8000; Wr 0x06 0x0280; Wr 0x06 0x48f7; Wr 0x06 0x00e0; Wr 0x06 0xfff7;
  Wr 0x06 0xa080; Wr 0x06 0x02ae; Wr 0x06 0xf602; Wr 0x06 0x0200; Wr 0x06 0x0280; Wr 0x06 0x9002;
  Wr 0x06 0x0224; Wr 0x06 0x0202; Wr 0x06 0x3402; Wr 0x06 0x027f; Wr 0x06 0x0280; Wr 0x06 0xa602;
  Wr 0x06 0x80bf; Wr 0x06 0xe08b; Wr 0x06 0x88e1; Wr 0x06 0x8b89; Wr 0x06 0x1e01; Wr 0x06 0xe18b;
  Wr 0x06 0x8a1e; Wr 0x06 0x01e1; Wr 0x06 0x8b8b; Wr 0x06 0x1e01; Wr 0x06 0xe18b; Wr 0x06 0x8c1e;
  Wr 0x06 0x01e1; Wr 0x06 0x8b8d; Wr 0x06 0x1e01; Wr 0x06 0xe18b; Wr 0x06 0x8e1e; Wr 0x06 0x01a0;
  Wr 0x06 0x00c7; Wr 0x06 0xaebb; Wr 0x06 0xee8a; Wr 0x06 0xe600; Wr 0x06 0xee8a; Wr 0x06 0xee03;
  Wr 0x06 0xee8a; Wr 0x06 0xefb8; Wr 0x06 0xee8a; Wr 0x06 0xe902; Wr 0x06 0xee8b; Wr 0x06 0x8285;
  Wr 0x06 0xee8b; Wr 0x06 0x8520; Wr 0x06 0xee8b; Wr 0x06 0x8701; Wr 0x06 0xd481; Wr 0x06 0x35e4;
  Wr 0x06 0x8b94; Wr 0x06 0xe58b; Wr 0x06 0x95bf; Wr 0x06 0x8b88; Wr 0x06 0xec00; Wr 0x06 0x19a9;
  Wr 0x06 0x8b90; Wr 0x06 0xf9ee; Wr 0x06 0xfff6; Wr 0x06 0x00ee; Wr 0x06 0xfff7; Wr 0x06 0xffe0;
  Wr 0x06 0xe140; Wr 0x06 0xe1e1; Wr 0x06 0x41f7; Wr 0x06 0x2ff6; Wr 0x06 0x28e4; Wr 0x06 0xe140;
  Wr 0x06 0xe5e1; Wr 0x06 0x4104; Wr 0x06 0xf8e0; Wr 0x06 0x8b89; Wr 0x06 0xad20; Wr 0x06 0x0dee;
  Wr 0x06 0x8b89; Wr 0x06 0x0002; Wr 0x06 0x82f4; Wr 0x06 0x021f; Wr 0x06 0x4102; Wr 0x06 0x2812;
  Wr 0x06 0xfc04; Wr 0x06 0xf8e0; Wr 0x06 0x8b8d; Wr 0x06 0xad20; Wr 0x06 0x10ee; Wr 0x06 0x8b8d;
  Wr 0x06 0x0002; Wr 0x06 0x139d; Wr 0x06 0x0281].

Definition phy_mcu_8168e_2_20 : list mop := [
  Wr 0x06 0xd602; Wr 0x06 0x1f99; Wr 0x06 0x0227; Wr 0x06 0xeafc; Wr 0x06 0x04f8; Wr 0x06 0xe08b;
  Wr 0x06 0x8ead; Wr 0x06 0x2014; Wr 0x06 0xf620; Wr 0x06 0xe48b; Wr 0x06 0x8e02; Wr 0x06 0x8104;
  Wr 0x06 0x021b; Wr 0x06 0xf402; Wr 0x06 0x2c9c; Wr 0x06 0x0281; Wr 0x06 0x7902; Wr 0x06 0x8443;
  Wr 0x06 0xad22; Wr 0x06 0x11f6; Wr 0x06 0x22e4; Wr 0x06 0x8b8e; Wr 0x06 0x022c; Wr 0x06 0x4602;
  Wr 0x06 0x2ac5; Wr 0x06 0x0229; Wr 0x06 0x2002; Wr 0x06 0x2b91; Wr 0x06 0xad25; Wr 0x06 0x11f6;
  Wr 0x06 0x25e4; Wr 0x06 0x8b8e; Wr 0x06 0x0284; Wr 0x06 0xe202; Wr 0x06 0x043a; Wr 0x06 0x021a;
  Wr 0x06 0x5902; Wr 0x06 0x2bfc; Wr 0x06 0xfc04; Wr 0x06 0xf8fa; Wr 0x06 0xef69; Wr 0x06 0xe0e0;
  Wr 0x06 0x00e1; Wr 0x06 0xe001; Wr 0x06 0xad27; Wr 0x06 0x1fd1; Wr 0x06 0x01bf; Wr 0x06 0x8638;
  Wr 0x06 0x022f; Wr 0x06 0x50e0; Wr 0x06 0xe020; Wr 0x06 0xe1e0; Wr 0x06 0x21ad; Wr 0x06 0x200e;
  Wr 0x06 0xd100; Wr 0x06 0xbf86; Wr 0x06 0x3802; Wr 0x06 0x2f50; Wr 0x06 0xbf3d; Wr 0x06 0x3902;
  Wr 0x06 0x2eb0; Wr 0x06 0xef96; Wr 0x06 0xfefc; Wr 0x06 0x0402; Wr 0x06 0x8591; Wr 0x06 0x0281;
  Wr 0x06 0x3c05; Wr 0x06 0xf8fa; Wr 0x06 0xef69; Wr 0x06 0xe0e2; Wr 0x06 0xfee1; Wr 0x06 0xe2ff;
  Wr 0x06 0xad2d; Wr 0x06 0x1ae0; Wr 0x06 0xe14e; Wr 0x06 0xe1e1; Wr 0x06 0x4fac; Wr 0x06 0x2d22;
  Wr 0x06 0xf603; Wr 0x06 0x0203; Wr 0x06 0x36f7; Wr 0x06 0x03f7; Wr 0x06 0x06bf; Wr 0x06 0x8622;
  Wr 0x06 0x022e; Wr 0x06 0xb0ae; Wr 0x06 0x11e0; Wr 0x06 0xe14e; Wr 0x06 0xe1e1; Wr 0x06 0x4fad;
  Wr 0x06 0x2d08; Wr 0x06 0xbf86; Wr 0x06 0x2d02; Wr 0x06 0x2eb0; Wr 0x06 0xf606; Wr 0x06 0xef96;
  Wr 0x06 0xfefc; Wr 0x06 0x04f8; Wr 0x06 0xf9fa; Wr 0x06 0xef69; Wr 0x06 0xe08b; Wr 0x06 0x87ad;
  Wr 0x06 0x204c; Wr 0x06 0xd200; Wr 0x06 0xe0e2; Wr 0x06 0x0058; Wr 0x06 0x010c; Wr 0x06 0x021e;
  Wr 0x06 0x20e0; Wr 0x06 0xe000; Wr 0x06 0x5810; Wr 0x06 0x1e20; Wr 0x06 0xe0e0; Wr 0x06 0x3658;
  Wr 0x06 0x031e; Wr 0x06 0x20e0; Wr 0x06 0xe022; Wr 0x06 0xe1e0; Wr 0x06 0x2358; Wr 0x06 0xe01e;
  Wr 0x06 0x20e0; Wr 0x06 0x8ae6; Wr 0x06 0x1f02; Wr 0x06 0x9e22; Wr 0x06 0xe68a; Wr 0x06 0xe6ad;
  Wr 0x06 0x3214; Wr 0x06 0xad34; Wr 0x06 0x11ef; Wr 0x06 0x0258; Wr 0x06 0x039e; Wr 0x06 0x07ad;
  Wr 0x06 0x3508; Wr 0x06 0x5ac0; Wr 0x06 0x9f04; Wr 0x06 0xd101; Wr 0x06 0xae02; Wr 0x06 0xd100;
  Wr 0x06 0xbf86; Wr 0x06 0x3e02; Wr 0x06 0x2f50; Wr 0x06 0xef96; Wr 0x06 0xfefd; Wr 0x06 0xfc04;
  Wr 0x06 0xf8f9; Wr 0x06 0xfae0; Wr 0x06 0x8b81; Wr 0x06 0xac26].

Definition phy_mcu_8168e_2_21 : list mop := [
  Wr 0x06 0x0ee0; Wr 0x06 0x8b81; Wr 0x06 0xac21; Wr 0x06 0x08e0; Wr 0x06 0x8b87; Wr 0x06 0xac24;
  Wr 0x06 0x02ae; Wr 0x06 0x6bee; Wr 0x06 0xe0ea; Wr 0x06 0x00ee; Wr 0x06 0xe0eb; Wr 0x06 0x00e2;
  Wr 0x06 0xe07c; Wr 0x06 0xe3e0; Wr 0x06 0x7da5; Wr 0x06 0x1111; Wr 0x06 0x15d2; Wr 0x06 0x60d6;
  Wr 0x06 0x6666; Wr 0x06 0x0207; Wr 0x06 0xf9d2; Wr 0x06 0xa0d6; Wr 0x06 0xaaaa; Wr 0x06 0x0207;
  Wr 0x06 0xf902; Wr 0x06 0x825c; Wr 0x06 0xae44; Wr 0x06 0xa566; Wr 0x06 0x6602; Wr 0x06 0xae38;
  Wr 0x06 0xa5aa; Wr 0x06 0xaa02; Wr 0x06 0xae32; Wr 0x06 0xeee0; Wr 0x06 0xea04; Wr 0x06 0xeee0;
  Wr 0x06 0xeb06; Wr 0x06 0xe2e0; Wr 0x06 0x7ce3; Wr 0x06 0xe07d; Wr 0x06 0xe0e0; Wr 0x06 0x38e1;
  Wr 0x06 0xe039; Wr 0x06 0xad2e; Wr 0x06 0x21ad; Wr 0x06 0x3f13; Wr 0x06 0xe0e4; Wr 0x06 0x14e1;
  Wr 0x06 0xe415; Wr 0x06 0x6880; Wr 0x06 0xe4e4; Wr 0x06 0x14e5; Wr 0x06 0xe415; Wr 0x06 0x0282;
  Wr 0x06 0x5cae; Wr 0x06 0x0bac; Wr 0x06 0x3e02; Wr 0x06 0xae06; Wr 0x06 0x0282; Wr 0x06 0x8602;
  Wr 0x06 0x82b0; Wr 0x06 0xfefd; Wr 0x06 0xfc04; Wr 0x06 0xf8e1; Wr 0x06 0x8b2e; Wr 0x06 0xe08b;
  Wr 0x06 0x81ad; Wr 0x06 0x2605; Wr 0x06 0x0221; Wr 0x06 0xf3f7; Wr 0x06 0x28e0; Wr 0x06 0x8b81;
  Wr 0x06 0xad21; Wr 0x06 0x0502; Wr 0x06 0x22f8; Wr 0x06 0xf729; Wr 0x06 0xe08b; Wr 0x06 0x87ad;
  Wr 0x06 0x2405; Wr 0x06 0x0282; Wr 0x06 0xebf7; Wr 0x06 0x2ae5; Wr 0x06 0x8b2e; Wr 0x06 0xfc04;
  Wr 0x06 0xf8e0; Wr 0x06 0x8b81; Wr 0x06 0xad26; Wr 0x06 0x0302; Wr 0x06 0x2134; Wr 0x06 0xe08b;
  Wr 0x06 0x81ad; Wr 0x06 0x2109; Wr 0x06 0xe08b; Wr 0x06 0x2eac; Wr 0x06 0x2003; Wr 0x06 0x0283;
  Wr 0x06 0x52e0; Wr 0x06 0x8b87; Wr 0x06 0xad24; Wr 0x06 0x09e0; Wr 0x06 0x8b2e; Wr 0x06 0xac21;
  Wr 0x06 0x0302; Wr 0x06 0x8337; Wr 0x06 0xfc04; Wr 0x06 0xf8e1; Wr 0x06 0x8b2e; Wr 0x06 0xe08b;
  Wr 0x06 0x81ad; Wr 0x06 0x2608; Wr 0x06 0xe085; Wr 0x06 0xd2ad; Wr 0x06 0x2502; Wr 0x06 0xf628;
  Wr 0x06 0xe08b; Wr 0x06 0x81ad; Wr 0x06 0x210a; Wr 0x06 0xe086; Wr 0x06 0x0af6; Wr 0x06 0x27a0;
  Wr 0x06 0x0502; Wr 0x06 0xf629; Wr 0x06 0xe08b; Wr 0x06 0x87ad; Wr 0x06 0x2408; Wr 0x06 0xe08a;
  Wr 0x06 0xedad; Wr 0x06 0x2002; Wr 0x06 0xf62a; Wr 0x06 0xe58b; Wr 0x06 0x2ea1; Wr 0x06 0x0003;
  Wr 0x06 0x0221; Wr 0x06 0x11fc; Wr 0x06 0x04ee; Wr 0x06 0x8aed; Wr 0x06 0x00ee; Wr 0x06 0x8aec;
  Wr 0x06 0x0004; Wr 0x06 0xf8e0; Wr 0x06 0x8b87; Wr 0x06 0xad24; Wr 0x06 0x3ae0; Wr 0x06 0xe0ea;
  Wr 0x06 0xe1e0; Wr 0x06 0xeb58; Wr 0x06 0xf8d1; Wr 0x06 0x01e4].

Definition phy_mcu_8168e_2_22 : list mop := [
  Wr 0x06 0xe0ea; Wr 0x06 0xe5e0; Wr 0x06 0xebe0; Wr 0x06 0xe07c; Wr 0x06 0xe1e0; Wr 0x06 0x7d5c;
  Wr 0x06 0x00ff; Wr 0x06 0x3c00; Wr 0x06 0x1eab; Wr 0x06 0x1ce0; Wr 0x06 0xe04c; Wr 0x06 0xe1e0;
  Wr 0x06 0x4d58; Wr 0x06 0xc1e4; Wr 0x06 0xe04c; Wr 0x06 0xe5e0; Wr 0x06 0x4de0; Wr 0x06 0xe0ee;
  Wr 0x06 0xe1e0; Wr 0x06 0xef69; Wr 0x06 0x3ce4; Wr 0x06 0xe0ee; Wr 0x06 0xe5e0; Wr 0x06 0xeffc;
  Wr 0x06 0x04f8; Wr 0x06 0xe08b; Wr 0x06 0x87ad; Wr 0x06 0x2412; Wr 0x06 0xe0e0; Wr 0x06 0xeee1;
  Wr 0x06 0xe0ef; Wr 0x06 0x59c3; Wr 0x06 0xe4e0; Wr 0x06 0xeee5; Wr 0x06 0xe0ef; Wr 0x06 0xee8a;
  Wr 0x06 0xed01; Wr 0x06 0xfc04; Wr 0x06 0xf8e0; Wr 0x06 0x8b81; Wr 0x06 0xac25; Wr 0x06 0x0502;
  Wr 0x06 0x8363; Wr 0x06 0xae03; Wr 0x06 0x0225; Wr 0x06 0x16fc; Wr 0x06 0x04f8; Wr 0x06 0xf9fa;
  Wr 0x06 0xef69; Wr 0x06 0xfae0; Wr 0x06 0x860a; Wr 0x06 0xa000; Wr 0x06 0x19e0; Wr 0x06 0x860b;
  Wr 0x06 0xe18b; Wr 0x06 0x331b; Wr 0x06 0x109e; Wr 0x06 0x04aa; Wr 0x06 0x02ae; Wr 0x06 0x06ee;
  Wr 0x06 0x860a; Wr 0x06 0x01ae; Wr 0x06 0xe602; Wr 0x06 0x241e; Wr 0x06 0xae14; Wr 0x06 0xa001;
  Wr 0x06 0x1402; Wr 0x06 0x2426; Wr 0x06 0xbf26; Wr 0x06 0x6d02; Wr 0x06 0x2eb0; Wr 0x06 0xee86;
  Wr 0x06 0x0b00; Wr 0x06 0xee86; Wr 0x06 0x0a02; Wr 0x06 0xaf84; Wr 0x06 0x3ca0; Wr 0x06 0x0252;
  Wr 0x06 0xee86; Wr 0x06 0x0400; Wr 0x06 0xee86; Wr 0x06 0x0500; Wr 0x06 0xe086; Wr 0x06 0x0be1;
  Wr 0x06 0x8b32; Wr 0x06 0x1b10; Wr 0x06 0x9e04; Wr 0x06 0xaa02; Wr 0x06 0xaecb; Wr 0x06 0xee86;
  Wr 0x06 0x0b00; Wr 0x06 0x0224; Wr 0x06 0x3ae2; Wr 0x06 0x8604; Wr 0x06 0xe386; Wr 0x06 0x05ef;
  Wr 0x06 0x65e2; Wr 0x06 0x8606; Wr 0x06 0xe386; Wr 0x06 0x071b; Wr 0x06 0x56aa; Wr 0x06 0x0eef;
  Wr 0x06 0x56e6; Wr 0x06 0x8606; Wr 0x06 0xe786; Wr 0x06 0x07e2; Wr 0x06 0x8609; Wr 0x06 0xe686;
  Wr 0x06 0x08e0; Wr 0x06 0x8609; Wr 0x06 0xa000; Wr 0x06 0x07ee; Wr 0x06 0x860a; Wr 0x06 0x03af;
  Wr 0x06 0x8369; Wr 0x06 0x0224; Wr 0x06 0x8e02; Wr 0x06 0x2426; Wr 0x06 0xae48; Wr 0x06 0xa003;
  Wr 0x06 0x21e0; Wr 0x06 0x8608; Wr 0x06 0xe186; Wr 0x06 0x091b; Wr 0x06 0x019e; Wr 0x06 0x0caa;
  Wr 0x06 0x0502; Wr 0x06 0x249d; Wr 0x06 0xaee7; Wr 0x06 0x0224; Wr 0x06 0x8eae; Wr 0x06 0xe2ee;
  Wr 0x06 0x860a; Wr 0x06 0x04ee; Wr 0x06 0x860b; Wr 0x06 0x00af; Wr 0x06 0x8369; Wr 0x06 0xa004;
  Wr 0x06 0x15e0; Wr 0x06 0x860b; Wr 0x06 0xe18b; Wr 0x06 0x341b; Wr 0x06 0x109e; Wr 0x06 0x05aa;
  Wr 0x06 0x03af; Wr 0x06 0x8383; Wr 0x06 0xee86; Wr 0x06 0x0a05].

Definition phy_mcu_8168e_2_23 : list mop := [
  Wr 0x06 0xae0c; Wr 0x06 0xa005; Wr 0x06 0x02ae; Wr 0x06 0x0702; Wr 0x06 0x2309; Wr 0x06 0xee86;
  Wr 0x06 0x0a00; Wr 0x06 0xfeef; Wr 0x06 0x96fe; Wr 0x06 0xfdfc; Wr 0x06 0x04f8; Wr 0x06 0xf9fa;
  Wr 0x06 0xef69; Wr 0x06 0xfbe0; Wr 0x06 0x8b85; Wr 0x06 0xad25; Wr 0x06 0x22e0; Wr 0x06 0xe022;
  Wr 0x06 0xe1e0; Wr 0x06 0x23e2; Wr 0x06 0xe036; Wr 0x06 0xe3e0; Wr 0x06 0x375a; Wr 0x06 0xc40d;
  Wr 0x06 0x0158; Wr 0x06 0x021e; Wr 0x06 0x20e3; Wr 0x06 0x8ae7; Wr 0x06 0xac31; Wr 0x06 0x60ac;
  Wr 0x06 0x3a08; Wr 0x06 0xac3e; Wr 0x06 0x26ae; Wr 0x06 0x67af; Wr 0x06 0x84db; Wr 0x06 0xad37;
  Wr 0x06 0x61e0; Wr 0x06 0x8ae8; Wr 0x06 0x10e4; Wr 0x06 0x8ae8; Wr 0x06 0xe18a; Wr 0x06 0xe91b;
  Wr 0x06 0x109e; Wr 0x06 0x02ae; Wr 0x06 0x51d1; Wr 0x06 0x00bf; Wr 0x06 0x863b; Wr 0x06 0x022f;
  Wr 0x06 0x50ee; Wr 0x06 0x8ae8; Wr 0x06 0x00ae; Wr 0x06 0x43ad; Wr 0x06 0x3627; Wr 0x06 0xe08a;
  Wr 0x06 0xeee1; Wr 0x06 0x8aef; Wr 0x06 0xef74; Wr 0x06 0xe08a; Wr 0x06 0xeae1; Wr 0x06 0x8aeb;
  Wr 0x06 0x1b74; Wr 0x06 0x9e2e; Wr 0x06 0x14e4; Wr 0x06 0x8aea; Wr 0x06 0xe58a; Wr 0x06 0xebef;
  Wr 0x06 0x74e0; Wr 0x06 0x8aee; Wr 0x06 0xe18a; Wr 0x06 0xef1b; Wr 0x06 0x479e; Wr 0x06 0x0fae;
  Wr 0x06 0x19ee; Wr 0x06 0x8aea; Wr 0x06 0x00ee; Wr 0x06 0x8aeb; Wr 0x06 0x00ae; Wr 0x06 0x0fac;
  Wr 0x06 0x390c; Wr 0x06 0xd101; Wr 0x06 0xbf86; Wr 0x06 0x3b02; Wr 0x06 0x2f50; Wr 0x06 0xee8a;
  Wr 0x06 0xe800; Wr 0x06 0xe68a; Wr 0x06 0xe7ff; Wr 0x06 0xef96; Wr 0x06 0xfefd; Wr 0x06 0xfc04;
  Wr 0x06 0xf8f9; Wr 0x06 0xfaef; Wr 0x06 0x69e0; Wr 0x06 0xe022; Wr 0x06 0xe1e0; Wr 0x06 0x2358;
  Wr 0x06 0xc4e1; Wr 0x06 0x8b6e; Wr 0x06 0x1f10; Wr 0x06 0x9e24; Wr 0x06 0xe48b; Wr 0x06 0x6ead;
  Wr 0x06 0x2218; Wr 0x06 0xac27; Wr 0x06 0x0dac; Wr 0x06 0x2605; Wr 0x06 0x0203; Wr 0x06 0x8fae;
  Wr 0x06 0x1302; Wr 0x06 0x03c8; Wr 0x06 0xae0e; Wr 0x06 0x0203; Wr 0x06 0xe102; Wr 0x06 0x8520;
  Wr 0x06 0xae06; Wr 0x06 0x0203; Wr 0x06 0x8f02; Wr 0x06 0x8566; Wr 0x06 0xef96; Wr 0x06 0xfefd;
  Wr 0x06 0xfc04; Wr 0x06 0xf8fa; Wr 0x06 0xef69; Wr 0x06 0xe08b; Wr 0x06 0x82ad; Wr 0x06 0x2737;
  Wr 0x06 0xbf86; Wr 0x06 0x4402; Wr 0x06 0x2f23; Wr 0x06 0xac28; Wr 0x06 0x2ed1; Wr 0x06 0x01bf;
  Wr 0x06 0x8647; Wr 0x06 0x022f; Wr 0x06 0x50bf; Wr 0x06 0x8641; Wr 0x06 0x022f; Wr 0x06 0x23e5;
  Wr 0x06 0x8af0; Wr 0x06 0xe0e0; Wr 0x06 0x22e1; Wr 0x06 0xe023; Wr 0x06 0xac2e; Wr 0x06 0x04d1;
  Wr 0x06 0x01ae; Wr 0x06 0x02d1; Wr 0x06 0x00bf; Wr 0x06 0x8641].

Definition phy_mcu_8168e_2_24 : list mop := [
  Wr 0x06 0x022f; Wr 0x06 0x50d1; Wr 0x06 0x01bf; Wr 0x06 0x8644; Wr 0x06 0x022f; Wr 0x06 0x50ef;
  Wr 0x06 0x96fe; Wr 0x06 0xfc04; Wr 0x06 0xf8fa; Wr 0x06 0xef69; Wr 0x06 0xbf86; Wr 0x06 0x4702;
  Wr 0x06 0x2f23; Wr 0x06 0xad28; Wr 0x06 0x19d1; Wr 0x06 0x00bf; Wr 0x06 0x8644; Wr 0x06 0x022f;
  Wr 0x06 0x50e1; Wr 0x06 0x8af0; Wr 0x06 0xbf86; Wr 0x06 0x4102; Wr 0x06 0x2f50; Wr 0x06 0xd100;
  Wr 0x06 0xbf86; Wr 0x06 0x4702; Wr 0x06 0x2f50; Wr 0x06 0xef96; Wr 0x06 0xfefc; Wr 0x06 0x04f8;
  Wr 0x06 0xe0e2; Wr 0x06 0xfee1; Wr 0x06 0xe2ff; Wr 0x06 0xad2e; Wr 0x06 0x63e0; Wr 0x06 0xe038;
  Wr 0x06 0xe1e0; Wr 0x06 0x39ad; Wr 0x06 0x2f10; Wr 0x06 0xe0e0; Wr 0x06 0x34e1; Wr 0x06 0xe035;
  Wr 0x06 0xf726; Wr 0x06 0xe4e0; Wr 0x06 0x34e5; Wr 0x06 0xe035; Wr 0x06 0xae0e; Wr 0x06 0xe0e2;
  Wr 0x06 0xd6e1; Wr 0x06 0xe2d7; Wr 0x06 0xf728; Wr 0x06 0xe4e2; Wr 0x06 0xd6e5; Wr 0x06 0xe2d7;
  Wr 0x06 0xe0e2; Wr 0x06 0x34e1; Wr 0x06 0xe235; Wr 0x06 0xf72b; Wr 0x06 0xe4e2; Wr 0x06 0x34e5;
  Wr 0x06 0xe235; Wr 0x06 0xd07d; Wr 0x06 0xb0fe; Wr 0x06 0xe0e2; Wr 0x06 0x34e1; Wr 0x06 0xe235;
  Wr 0x06 0xf62b; Wr 0x06 0xe4e2; Wr 0x06 0x34e5; Wr 0x06 0xe235; Wr 0x06 0xe0e0; Wr 0x06 0x34e1;
  Wr 0x06 0xe035; Wr 0x06 0xf626; Wr 0x06 0xe4e0; Wr 0x06 0x34e5; Wr 0x06 0xe035; Wr 0x06 0xe0e2;
  Wr 0x06 0xd6e1; Wr 0x06 0xe2d7; Wr 0x06 0xf628; Wr 0x06 0xe4e2; Wr 0x06 0xd6e5; Wr 0x06 0xe2d7;
  Wr 0x06 0xfc04; Wr 0x06 0xae20; Wr 0x06 0x0000; Wr 0x06 0x0000; Wr 0x06 0x0000; Wr 0x06 0x0000;
  Wr 0x06 0x0000; Wr 0x06 0x0000; Wr 0x06 0x0000; Wr 0x06 0x0000; Wr 0x06 0x0000; Wr 0x06 0x0000;
  Wr 0x06 0x0000; Wr 0x06 0x0000; Wr 0x06 0x0000; Wr 0x06 0x0000; Wr 0x06 0x0000; Wr 0x06 0x0000;
  Wr 0x06 0xa725; Wr 0x06 0xe50a; Wr 0x06 0x1de5; Wr 0x06 0x0a2c; Wr 0x06 0xe50a; Wr 0x06 0x6de5;
  Wr 0x06 0x0a1d; Wr 0x06 0xe50a; Wr 0x06 0x1ce5; Wr 0x06 0x0a2d; Wr 0x06 0xa755; Wr 0x06 0x00e2;
  Wr 0x06 0x3488; Wr 0x06 0xe200; Wr 0x06 0xcce2; Wr 0x06 0x0055; Wr 0x06 0xe020; Wr 0x06 0x55e2;
  Wr 0x06 0xd600; Wr 0x06 0xe24a; Mo 0x01 0 (BIT 0); Mo 0x00 0 (BIT 0); Wr 0x1f 0x0000; Wr 0x1f 0x0005].

Definition phy_mcu_8168evl_1_1 : list mop := [
  Mo 0x17 0 (BIT 0); Wr 0x1f 0x0004; Wr 0x1f 0x0007; Wr 0x1E 0x002C; Wr 0x1B 0x5000; Wr 0x1E 0x002d;
  Wr 0x19 0x0004; Wr 0x1f 0x0002; Wr 0x1f 0x0000].

Definition phy_mcu_8168evl_1_2 : list mop := [
  Wr 0x1f 0x0004; Wr 0x1f 0x0007; Wr 0x1e 0x00a1; Wr 0x17 0x1000; Wr 0x17 0x0000; Wr 0x17 0x2000;
  Wr 0x1e 0x002f; Wr 0x18 0x9bfb; Wr 0x1f 0x0005; Wr 0x07 0x0000; Wr 0x1f 0x0002; Wr 0x1f 0x0000].

Definition phy_mcu_8168evl_1_3 : list mop := [
  Wr 0x1f 0x0005; Wr 0x05 0xfff6; Wr 0x06 0x0080; Mo 0x00 (BIT 7) 0; Wr 0x1f 0x0004; Wr 0x1f 0x0007;
  Wr 0x1e 0x0023; Wr 0x16 0x0306; Wr 0x16 0x0307; Wr 0x15 0x0000; Wr 0x19 0x407d; Wr 0x15 0x0001;
  Wr 0x19 0x440f; Wr 0x15 0x0002; Wr 0x19 0x7c03; Wr 0x15 0x0003; Wr 0x19 0x6c03; Wr 0x15 0x0004;
  Wr 0x19 0xc4d5; Wr 0x15 0x0005; Wr 0x19 0x00ff; Wr 0x15 0x0006; Wr 0x19 0x74f0; Wr 0x15 0x0007;
  Wr 0x19 0x4880; Wr 0x15 0x0008; Wr 0x19 0x4c00; Wr 0x15 0x0009; Wr 0x19 0x4800; Wr 0x15 0x000a;
  Wr 0x19 0x5000; Wr 0x15 0x000b; Wr 0x19 0x4400; Wr 0x15 0x000c; Wr 0x19 0x7801; Wr 0x15 0x000d;
  Wr 0x19 0x4000; Wr 0x15 0x000e; Wr 0x19 0x7800; Wr 0x15 0x000f; Wr 0x19 0x7010; Wr 0x15 0x0010;
  Wr 0x19 0x6804; Wr 0x15 0x0011; Wr 0x19 0x64a0; Wr 0x15 0x0012; Wr 0x19 0x63da; Wr 0x15 0x0013;
  Wr 0x19 0x63d8; Wr 0x15 0x0014; Wr 0x19 0x6f05; Wr 0x15 0x0015; Wr 0x19 0x5420; Wr 0x15 0x0016;
  Wr 0x19 0x58ce; Wr 0x15 0x0017; Wr 0x19 0x5cf3; Wr 0x15 0x0018; Wr 0x19 0xb600; Wr 0x15 0x0019;
  Wr 0x19 0xc659; Wr 0x15 0x001a; Wr 0x19 0x0018; Wr 0x15 0x001b; Wr 0x19 0xc403; Wr 0x15 0x001c;
  Wr 0x19 0x0016; Wr 0x15 0x001d; Wr 0x19 0xaa05; Wr 0x15 0x001e; Wr 0x19 0xc503; Wr 0x15 0x001f;
  Wr 0x19 0x0003; Wr 0x15 0x0020; Wr 0x19 0x89f8; Wr 0x15 0x0021; Wr 0x19 0x32ae; Wr 0x15 0x0022;
  Wr 0x19 0x7c03; Wr 0x15 0x0023; Wr 0x19 0x6c03; Wr 0x15 0x0024; Wr 0x19 0x7c03; Wr 0x15 0x0025;
  Wr 0x19 0x6801; Wr 0x15 0x0026; Wr 0x19 0x66a0; Wr 0x15 0x0027; Wr 0x19 0xa300; Wr 0x15 0x0028;
  Wr 0x19 0x64a0; Wr 0x15 0x0029; Wr 0x19 0x76f0; Wr 0x15 0x002a; Wr 0x19 0x7670; Wr 0x15 0x002b;
  Wr 0x19 0x7630; Wr 0x15 0x002c; Wr 0x19 0x31a6; Wr 0x15 0x002d; Wr 0x19 0x0000; Wr 0x15 0x002e;
  Wr 0x19 0x0000; Wr 0x15 0x002f; Wr 0x19 0x0000; Wr 0x15 0x0030; Wr 0x19 0x0000; Wr 0x15 0x0031;
  Wr 0x19 0x0000; Wr 0x15 0x0032; Wr 0x19 0x4801; Wr 0x15 0x0033; Wr 0x19 0x6803; Wr 0x15 0x0034;
  Wr 0x19 0x66a1; Wr 0x15 0x0035; Wr 0x19 0x7c03; Wr 0x15 0x0036; Wr 0x19 0x6c03; Wr 0x15 0x0037;
  Wr 0x19 0xa300; Wr 0x15 0x0038; Wr 0x19 0x64a1; Wr 0x15 0x0039; Wr 0x19 0x7c08; Wr 0x15 0x003a;
  Wr 0x19 0x74f8; Wr 0x15 0x003b; Wr 0x19 0x63d0; Wr 0x15 0x003c; Wr 0x19 0x7ff0; Wr 0x15 0x003d;
  Wr 0x19 0x77f0; Wr 0x15 0x003e; Wr 0x19 0x7ff0; Wr 0x15 0x003f; Wr 0x19 0x7750; Wr 0x15 0x0040;
  Wr 0x19 0x63d8; Wr 0x15 0x0041; Wr 0x19 0x7cf0; Wr 0x15 0x0042; Wr 0x19 0x7708; Wr 0x15 0x0043;
  Wr 0x19 0xa654; Wr 0x15 0x0044].

Definition phy_mcu_8168evl_1_4 : list mop := [
  Wr 0x19 0x304a; Wr 0x15 0x0045; Wr 0x19 0x0000; Wr 0x15 0x0046; Wr 0x19 0x0000; Wr 0x15 0x0047;
  Wr 0x19 0x0000; Wr 0x15 0x0048; Wr 0x19 0x0000; Wr 0x15 0x0049; Wr 0x19 0x0000; Wr 0x15 0x004a;
  Wr 0x19 0x4802; Wr 0x15 0x004b; Wr 0x19 0x4003; Wr 0x15 0x004c; Wr 0x19 0x4440; Wr 0x15 0x004d;
  Wr 0x19 0x63c8; Wr 0x15 0x004e; Wr 0x19 0x6481; Wr 0x15 0x004f; Wr 0x19 0x9d00; Wr 0x15 0x0050;
  Wr 0x19 0x63e8; Wr 0x15 0x0051; Wr 0x19 0x7d00; Wr 0x15 0x0052; Wr 0x19 0x5900; Wr 0x15 0x0053;
  Wr 0x19 0x63f8; Wr 0x15 0x0054; Wr 0x19 0x64a1; Wr 0x15 0x0055; Wr 0x19 0x3116; Wr 0x15 0x0056;
  Wr 0x19 0x0000; Wr 0x15 0x0057; Wr 0x19 0x0000; Wr 0x15 0x0058; Wr 0x19 0x0000; Wr 0x15 0x0059;
  Wr 0x19 0x0000; Wr 0x15 0x005a; Wr 0x19 0x7c03; Wr 0x15 0x005b; Wr 0x19 0x6c03; Wr 0x15 0x005c;
  Wr 0x19 0x7c08; Wr 0x15 0x005d; Wr 0x19 0x6000; Wr 0x15 0x005e; Wr 0x19 0x59ce; Wr 0x15 0x005f;
  Wr 0x19 0x4400; Wr 0x15 0x0060; Wr 0x19 0x7d00; Wr 0x15 0x0061; Wr 0x19 0x72b0; Wr 0x15 0x0062;
  Wr 0x19 0x400e; Wr 0x15 0x0063; Wr 0x19 0x4440; Wr 0x15 0x0064; Wr 0x19 0x9d00; Wr 0x15 0x0065;
  Wr 0x19 0x7f00; Wr 0x15 0x0066; Wr 0x19 0x70b0; Wr 0x15 0x0067; Wr 0x19 0x7c08; Wr 0x15 0x0068;
  Wr 0x19 0x6008; Wr 0x15 0x0069; Wr 0x19 0x7cf0; Wr 0x15 0x006a; Wr 0x19 0x7750; Wr 0x15 0x006b;
  Wr 0x19 0x4007; Wr 0x15 0x006c; Wr 0x19 0x4500; Wr 0x15 0x006d; Wr 0x19 0x4023; Wr 0x15 0x006e;
  Wr 0x19 0x4580; Wr 0x15 0x006f; Wr 0x19 0x9f00; Wr 0x15 0x0070; Wr 0x19 0xcd78; Wr 0x15 0x0071;
  Wr 0x19 0x0003; Wr 0x15 0x0072; Wr 0x19 0xbe02; Wr 0x15 0x0073; Wr 0x19 0x3070; Wr 0x15 0x0074;
  Wr 0x19 0x7cf0; Wr 0x15 0x0075; Wr 0x19 0x77f0; Wr 0x15 0x0076; Wr 0x19 0x4400; Wr 0x15 0x0077;
  Wr 0x19 0x4007; Wr 0x15 0x0078; Wr 0x19 0x4500; Wr 0x15 0x0079; Wr 0x19 0x4023; Wr 0x15 0x007a;
  Wr 0x19 0x4580; Wr 0x15 0x007b; Wr 0x19 0x9f00; Wr 0x15 0x007c; Wr 0x19 0xce80; Wr 0x15 0x007d;
  Wr 0x19 0x0004; Wr 0x15 0x007e; Wr 0x19 0xce80; Wr 0x15 0x007f; Wr 0x19 0x0002; Wr 0x15 0x0080;
  Wr 0x19 0x307c; Wr 0x15 0x0081; Wr 0x19 0x4400; Wr 0x15 0x0082; Wr 0x19 0x480f; Wr 0x15 0x0083;
  Wr 0x19 0x6802; Wr 0x15 0x0084; Wr 0x19 0x6680; Wr 0x15 0x0085; Wr 0x19 0x7c10; Wr 0x15 0x0086;
  Wr 0x19 0x6010; Wr 0x15 0x0087; Wr 0x19 0x400a; Wr 0x15 0x0088; Wr 0x19 0x4580; Wr 0x15 0x0089;
  Wr 0x19 0x9e00; Wr 0x15 0x008a; Wr 0x19 0x7d00; Wr 0x15 0x008b; Wr 0x19 0x5800; Wr 0x15 0x008c;
  Wr 0x19 0x63c8; Wr 0x15 0x008d; Wr 0x19 0x63d8; Wr 0x15 0x008e].

Definition phy_mcu_8168evl_1_5 : list mop := [
  Wr 0x19 0x66a0; Wr 0x15 0x008f; Wr 0x19 0x8300; Wr 0x15 0x0090; Wr 0x19 0x7ff0; Wr 0x15 0x0091;
  Wr 0x19 0x74f0; Wr 0x15 0x0092; Wr 0x19 0x3006; Wr 0x15 0x0093; Wr 0x19 0x0000; Wr 0x15 0x0094;
  Wr 0x19 0x0000; Wr 0x15 0x0095; Wr 0x19 0x0000; Wr 0x15 0x0096; Wr 0x19 0x0000; Wr 0x15 0x0097;
  Wr 0x19 0x4803; Wr 0x15 0x0098; Wr 0x19 0x7c03; Wr 0x15 0x0099; Wr 0x19 0x6c03; Wr 0x15 0x009a;
  Wr 0x19 0xa203; Wr 0x15 0x009b; Wr 0x19 0x64b1; Wr 0x15 0x009c; Wr 0x19 0x309e; Wr 0x15 0x009d;
  Wr 0x19 0x64b3; Wr 0x15 0x009e; Wr 0x19 0x4030; Wr 0x15 0x009f; Wr 0x19 0x440e; Wr 0x15 0x00a0;
  Wr 0x19 0x4020; Wr 0x15 0x00a1; Wr 0x19 0x4419; Wr 0x15 0x00a2; Wr 0x19 0x7801; Wr 0x15 0x00a3;
  Wr 0x19 0xc520; Wr 0x15 0x00a4; Wr 0x19 0x000b; Wr 0x15 0x00a5; Wr 0x19 0x4020; Wr 0x15 0x00a6;
  Wr 0x19 0x7800; Wr 0x15 0x00a7; Wr 0x19 0x58a4; Wr 0x15 0x00a8; Wr 0x19 0x63da; Wr 0x15 0x00a9;
  Wr 0x19 0x5cb0; Wr 0x15 0x00aa; Wr 0x19 0x7d00; Wr 0x15 0x00ab; Wr 0x19 0x72b0; Wr 0x15 0x00ac;
  Wr 0x19 0x7f00; Wr 0x15 0x00ad; Wr 0x19 0x70b0; Wr 0x15 0x00ae; Wr 0x19 0x30b8; Wr 0x15 0x00AF;
  Wr 0x19 0x4060; Wr 0x15 0x00B0; Wr 0x19 0x7800; Wr 0x15 0x00B1; Wr 0x19 0x7e00; Wr 0x15 0x00B2;
  Wr 0x19 0x72B0; Wr 0x15 0x00B3; Wr 0x19 0x7F00; Wr 0x15 0x00B4; Wr 0x19 0x73B0; Wr 0x15 0x00b5;
  Wr 0x19 0x58a0; Wr 0x15 0x00b6; Wr 0x19 0x63d2; Wr 0x15 0x00b7; Wr 0x19 0x5c00; Wr 0x15 0x00b8;
  Wr 0x19 0x5780; Wr 0x15 0x00b9; Wr 0x19 0xb60d; Wr 0x15 0x00ba; Wr 0x19 0x9bff; Wr 0x15 0x00bb;
  Wr 0x19 0x7c03; Wr 0x15 0x00bc; Wr 0x19 0x6001; Wr 0x15 0x00bd; Wr 0x19 0xc020; Wr 0x15 0x00be;
  Wr 0x19 0x002b; Wr 0x15 0x00bf; Wr 0x19 0xc137; Wr 0x15 0x00c0; Wr 0x19 0x0006; Wr 0x15 0x00c1;
  Wr 0x19 0x9af8; Wr 0x15 0x00c2; Wr 0x19 0x30c6; Wr 0x15 0x00c3; Wr 0x19 0x0000; Wr 0x15 0x00c4;
  Wr 0x19 0x0000; Wr 0x15 0x00c5; Wr 0x19 0x0000; Wr 0x15 0x00c6; Wr 0x19 0x7d00; Wr 0x15 0x00c7;
  Wr 0x19 0x70b0; Wr 0x15 0x00c8; Wr 0x19 0x4400; Wr 0x15 0x00c9; Wr 0x19 0x4804; Wr 0x15 0x00ca;
  Wr 0x19 0x7c80; Wr 0x15 0x00cb; Wr 0x19 0x5c80; Wr 0x15 0x00cc; Wr 0x19 0x4010; Wr 0x15 0x00cd;
  Wr 0x19 0x4415; Wr 0x15 0x00ce; Wr 0x19 0x9b00; Wr 0x15 0x00cf; Wr 0x19 0x7f00; Wr 0x15 0x00d0;
  Wr 0x19 0x70b0; Wr 0x15 0x00d1; Wr 0x19 0x3177; Wr 0x15 0x00d2; Wr 0x19 0x0000; Wr 0x15 0x00d3;
  Wr 0x19 0x0000; Wr 0x15 0x00d4; Wr 0x19 0x0000; Wr 0x15 0x00d5; Wr 0x19 0x4808; Wr 0x15 0x00d6;
  Wr 0x19 0x4007; Wr 0x15 0x00d7; Wr 0x19 0x4420; Wr 0x15 0x00d8].

Definition phy_mcu_8168evl_1_6 : list mop := [
  Wr 0x19 0x63d8; Wr 0x15 0x00d9; Wr 0x19 0xb608; Wr 0x15 0x00da; Wr 0x19 0xbcbd; Wr 0x15 0x00db;
  Wr 0x19 0xc60b; Wr 0x15 0x00dc; Wr 0x19 0x00fd; Wr 0x15 0x00dd; Wr 0x19 0x30e1; Wr 0x15 0x00de;
  Wr 0x19 0x0000; Wr 0x15 0x00df; Wr 0x19 0x0000; Wr 0x15 0x00e0; Wr 0x19 0x0000; Wr 0x15 0x00e1;
  Wr 0x19 0x4809; Wr 0x15 0x00e2; Wr 0x19 0x7e40; Wr 0x15 0x00e3; Wr 0x19 0x5a40; Wr 0x15 0x00e4;
  Wr 0x19 0x305a; Wr 0x15 0x00e5; Wr 0x19 0x0000; Wr 0x15 0x00e6; Wr 0x19 0x0000; Wr 0x15 0x00e7;
  Wr 0x19 0x0000; Wr 0x15 0x00e8; Wr 0x19 0x0000; Wr 0x15 0x00e9; Wr 0x19 0x480a; Wr 0x15 0x00ea;
  Wr 0x19 0x5820; Wr 0x15 0x00eb; Wr 0x19 0x6c03; Wr 0x15 0x00ec; Wr 0x19 0xb60a; Wr 0x15 0x00ed;
  Wr 0x19 0xda07; Wr 0x15 0x00ee; Wr 0x19 0x0008; Wr 0x15 0x00ef; Wr 0x19 0xc60b; Wr 0x15 0x00f0;
  Wr 0x19 0x00fc; Wr 0x15 0x00f1; Wr 0x19 0x30f6; Wr 0x15 0x00f2; Wr 0x19 0x0000; Wr 0x15 0x00f3;
  Wr 0x19 0x0000; Wr 0x15 0x00f4; Wr 0x19 0x0000; Wr 0x15 0x00f5; Wr 0x19 0x0000; Wr 0x15 0x00f6;
  Wr 0x19 0x4408; Wr 0x15 0x00f7; Wr 0x19 0x480b; Wr 0x15 0x00f8; Wr 0x19 0x6f03; Wr 0x15 0x00f9;
  Wr 0x19 0x405f; Wr 0x15 0x00fa; Wr 0x19 0x4448; Wr 0x15 0x00fb; Wr 0x19 0x4020; Wr 0x15 0x00fc;
  Wr 0x19 0x4468; Wr 0x15 0x00fd; Wr 0x19 0x9c03; Wr 0x15 0x00fe; Wr 0x19 0x6f07; Wr 0x15 0x00ff;
  Wr 0x19 0x58a0; Wr 0x15 0x0100; Wr 0x19 0xd6d1; Wr 0x15 0x0101; Wr 0x19 0x0004; Wr 0x15 0x0102;
  Wr 0x19 0xc137; Wr 0x15 0x0103; Wr 0x19 0x0002; Wr 0x15 0x0104; Wr 0x19 0xa0e5; Wr 0x15 0x0105;
  Wr 0x19 0x9df8; Wr 0x15 0x0106; Wr 0x19 0x30c6; Wr 0x15 0x0107; Wr 0x19 0x0000; Wr 0x15 0x0108;
  Wr 0x19 0x0000; Wr 0x15 0x0109; Wr 0x19 0x0000; Wr 0x15 0x010a; Wr 0x19 0x0000; Wr 0x15 0x010b;
  Wr 0x19 0x4808; Wr 0x15 0x010c; Wr 0x19 0xc32d; Wr 0x15 0x010d; Wr 0x19 0x0003; Wr 0x15 0x010e;
  Wr 0x19 0xc8b3; Wr 0x15 0x010f; Wr 0x19 0x00fc; Wr 0x15 0x0110; Wr 0x19 0x4400; Wr 0x15 0x0111;
  Wr 0x19 0x3116; Wr 0x15 0x0112; Wr 0x19 0x0000; Wr 0x15 0x0113; Wr 0x19 0x0000; Wr 0x15 0x0114;
  Wr 0x19 0x0000; Wr 0x15 0x0115; Wr 0x19 0x0000; Wr 0x15 0x0116; Wr 0x19 0x4803; Wr 0x15 0x0117;
  Wr 0x19 0x7c03; Wr 0x15 0x0118; Wr 0x19 0x6c02; Wr 0x15 0x0119; Wr 0x19 0x7c04; Wr 0x15 0x011a;
  Wr 0x19 0x6000; Wr 0x15 0x011b; Wr 0x19 0x5cf7; Wr 0x15 0x011c; Wr 0x19 0x7c2a; Wr 0x15 0x011d;
  Wr 0x19 0x5800; Wr 0x15 0x011e; Wr 0x19 0x5400; Wr 0x15 0x011f; Wr 0x19 0x7c08; Wr 0x15 0x0120;
  Wr 0x19 0x74f0; Wr 0x15 0x0121; Wr 0x19 0x4019; Wr 0x15 0x0122].

Definition phy_mcu_8168evl_1_7 : list mop := [
  Wr 0x19 0x440d; Wr 0x15 0x0123; Wr 0x19 0xb6c1; Wr 0x15 0x0124; Wr 0x19 0xc05b; Wr 0x15 0x0125;
  Wr 0x19 0x00bf; Wr 0x15 0x0126; Wr 0x19 0xc025; Wr 0x15 0x0127; Wr 0x19 0x00bd; Wr 0x15 0x0128;
  Wr 0x19 0xc603; Wr 0x15 0x0129; Wr 0x19 0x00bb; Wr 0x15 0x012a; Wr 0x19 0x8805; Wr 0x15 0x012b;
  Wr 0x19 0x7801; Wr 0x15 0x012c; Wr 0x19 0x4001; Wr 0x15 0x012d; Wr 0x19 0x7800; Wr 0x15 0x012e;
  Wr 0x19 0xa3dd; Wr 0x15 0x012f; Wr 0x19 0x7c03; Wr 0x15 0x0130; Wr 0x19 0x6c03; Wr 0x15 0x0131;
  Wr 0x19 0x8407; Wr 0x15 0x0132; Wr 0x19 0x7c03; Wr 0x15 0x0133; Wr 0x19 0x6c02; Wr 0x15 0x0134;
  Wr 0x19 0xd9b8; Wr 0x15 0x0135; Wr 0x19 0x0003; Wr 0x15 0x0136; Wr 0x19 0xc240; Wr 0x15 0x0137;
  Wr 0x19 0x0015; Wr 0x15 0x0138; Wr 0x19 0x7c03; Wr 0x15 0x0139; Wr 0x19 0x6c02; Wr 0x15 0x013a;
  Wr 0x19 0x9ae9; Wr 0x15 0x013b; Wr 0x19 0x3140; Wr 0x15 0x013c; Wr 0x19 0x0000; Wr 0x15 0x013d;
  Wr 0x19 0x0000; Wr 0x15 0x013e; Wr 0x19 0x0000; Wr 0x15 0x013f; Wr 0x19 0x0000; Wr 0x15 0x0140;
  Wr 0x19 0x4807; Wr 0x15 0x0141; Wr 0x19 0x4004; Wr 0x15 0x0142; Wr 0x19 0x4410; Wr 0x15 0x0143;
  Wr 0x19 0x7c0c; Wr 0x15 0x0144; Wr 0x19 0x600c; Wr 0x15 0x0145; Wr 0x19 0x9b00; Wr 0x15 0x0146;
  Wr 0x19 0xa68f; Wr 0x15 0x0147; Wr 0x19 0x3116; Wr 0x15 0x0148; Wr 0x19 0x0000; Wr 0x15 0x0149;
  Wr 0x19 0x0000; Wr 0x15 0x014a; Wr 0x19 0x0000; Wr 0x15 0x014b; Wr 0x19 0x0000; Wr 0x15 0x014c;
  Wr 0x19 0x4804; Wr 0x15 0x014d; Wr 0x19 0x54c0; Wr 0x15 0x014e; Wr 0x19 0xb703; Wr 0x15 0x014f;
  Wr 0x19 0x5cff; Wr 0x15 0x0150; Wr 0x19 0x315f; Wr 0x15 0x0151; Wr 0x19 0x7c08; Wr 0x15 0x0152;
  Wr 0x19 0x74f8; Wr 0x15 0x0153; Wr 0x19 0x6421; Wr 0x15 0x0154; Wr 0x19 0x7c08; Wr 0x15 0x0155;
  Wr 0x19 0x6000; Wr 0x15 0x0156; Wr 0x19 0x4003; Wr 0x15 0x0157; Wr 0x19 0x4418; Wr 0x15 0x0158;
  Wr 0x19 0x9b00; Wr 0x15 0x0159; Wr 0x19 0x6461; Wr 0x15 0x015a; Wr 0x19 0x64e1; Wr 0x15 0x015b;
  Wr 0x19 0x7c20; Wr 0x15 0x015c; Wr 0x19 0x5820; Wr 0x15 0x015d; Wr 0x19 0x5ccf; Wr 0x15 0x015e;
  Wr 0x19 0x7050; Wr 0x15 0x015f; Wr 0x19 0xd9b8; Wr 0x15 0x0160; Wr 0x19 0x0008; Wr 0x15 0x0161;
  Wr 0x19 0xdab1; Wr 0x15 0x0162; Wr 0x19 0x0015; Wr 0x15 0x0163; Wr 0x19 0xc244; Wr 0x15 0x0164;
  Wr 0x19 0x0013; Wr 0x15 0x0165; Wr 0x19 0xc021; Wr 0x15 0x0166; Wr 0x19 0x00f9; Wr 0x15 0x0167;
  Wr 0x19 0x3177; Wr 0x15 0x0168; Wr 0x19 0x5cf7; Wr 0x15 0x0169; Wr 0x19 0x4010; Wr 0x15 0x016a;
  Wr 0x19 0x4428; Wr 0x15 0x016b; Wr 0x19 0x9c00; Wr 0x15 0x016c].

Definition phy_mcu_8168evl_1_8 : list mop := [
  Wr 0x19 0x7c08; Wr 0x15 0x016d; Wr 0x19 0x6008; Wr 0x15 0x016e; Wr 0x19 0x7c08; Wr 0x15 0x016f;
  Wr 0x19 0x74f0; Wr 0x15 0x0170; Wr 0x19 0x6461; Wr 0x15 0x0171; Wr 0x19 0x6421; Wr 0x15 0x0172;
  Wr 0x19 0x64a1; Wr 0x15 0x0173; Wr 0x19 0x3116; Wr 0x15 0x0174; Wr 0x19 0x0000; Wr 0x15 0x0175;
  Wr 0x19 0x0000; Wr 0x15 0x0176; Wr 0x19 0x0000; Wr 0x15 0x0177; Wr 0x19 0x4805; Wr 0x15 0x0178;
  Wr 0x19 0xa103; Wr 0x15 0x0179; Wr 0x19 0x7c02; Wr 0x15 0x017a; Wr 0x19 0x6002; Wr 0x15 0x017b;
  Wr 0x19 0x7e00; Wr 0x15 0x017c; Wr 0x19 0x5400; Wr 0x15 0x017d; Wr 0x19 0x7c6b; Wr 0x15 0x017e;
  Wr 0x19 0x5c63; Wr 0x15 0x017f; Wr 0x19 0x407d; Wr 0x15 0x0180; Wr 0x19 0xa602; Wr 0x15 0x0181;
  Wr 0x19 0x4001; Wr 0x15 0x0182; Wr 0x19 0x4420; Wr 0x15 0x0183; Wr 0x19 0x4020; Wr 0x15 0x0184;
  Wr 0x19 0x44a1; Wr 0x15 0x0185; Wr 0x19 0xd6e0; Wr 0x15 0x0186; Wr 0x19 0x0009; Wr 0x15 0x0187;
  Wr 0x19 0x9efe; Wr 0x15 0x0188; Wr 0x19 0x7c02; Wr 0x15 0x0189; Wr 0x19 0x6000; Wr 0x15 0x018a;
  Wr 0x19 0x9c00; Wr 0x15 0x018b; Wr 0x19 0x318f; Wr 0x15 0x018c; Wr 0x19 0x0000; Wr 0x15 0x018d;
  Wr 0x19 0x0000; Wr 0x15 0x018e; Wr 0x19 0x0000; Wr 0x15 0x018f; Wr 0x19 0x4806; Wr 0x15 0x0190;
  Wr 0x19 0x7c10; Wr 0x15 0x0191; Wr 0x19 0x5c10; Wr 0x15 0x0192; Wr 0x19 0x40fa; Wr 0x15 0x0193;
  Wr 0x19 0xa602; Wr 0x15 0x0194; Wr 0x19 0x4010; Wr 0x15 0x0195; Wr 0x19 0x4440; Wr 0x15 0x0196;
  Wr 0x19 0x9d00; Wr 0x15 0x0197; Wr 0x19 0x7c80; Wr 0x15 0x0198; Wr 0x19 0x6400; Wr 0x15 0x0199;
  Wr 0x19 0x4003; Wr 0x15 0x019a; Wr 0x19 0x4540; Wr 0x15 0x019b; Wr 0x19 0x7c08; Wr 0x15 0x019c;
  Wr 0x19 0x6008; Wr 0x15 0x019d; Wr 0x19 0x9f00; Wr 0x15 0x019e; Wr 0x19 0x7c40; Wr 0x15 0x019f;
  Wr 0x19 0x6400; Wr 0x15 0x01a0; Wr 0x19 0x7c80; Wr 0x15 0x01a1; Wr 0x19 0x6480; Wr 0x15 0x01a2;
  Wr 0x19 0x3140; Wr 0x15 0x01a3; Wr 0x19 0x0000; Wr 0x15 0x01a4; Wr 0x19 0x0000; Wr 0x15 0x01a5;
  Wr 0x19 0x0000; Wr 0x15 0x01a6; Wr 0x19 0x4400; Wr 0x15 0x01a7; Wr 0x19 0x7c0b; Wr 0x15 0x01a8;
  Wr 0x19 0x6c01; Wr 0x15 0x01a9; Wr 0x19 0x64a8; Wr 0x15 0x01aa; Wr 0x19 0x6800; Wr 0x15 0x01ab;
  Wr 0x19 0x5cf0; Wr 0x15 0x01ac; Wr 0x19 0x588f; Wr 0x15 0x01ad; Wr 0x19 0xb628; Wr 0x15 0x01ae;
  Wr 0x19 0xc053; Wr 0x15 0x01af; Wr 0x19 0x0026; Wr 0x15 0x01b0; Wr 0x19 0xc02d; Wr 0x15 0x01b1;
  Wr 0x19 0x0024; Wr 0x15 0x01b2; Wr 0x19 0xc603; Wr 0x15 0x01b3; Wr 0x19 0x0022; Wr 0x15 0x01b4;
  Wr 0x19 0x8cf9; Wr 0x15 0x01b5; Wr 0x19 0x31ba; Wr 0x15 0x01b6].

Definition phy_mcu_8168evl_1_9 : list mop := [
  Wr 0x19 0x0000; Wr 0x15 0x01b7; Wr 0x19 0x0000; Wr 0x15 0x01b8; Wr 0x19 0x0000; Wr 0x15 0x01b9;
  Wr 0x19 0x0000; Wr 0x15 0x01ba; Wr 0x19 0x4400; Wr 0x15 0x01bb; Wr 0x19 0x5420; Wr 0x15 0x01bc;
  Wr 0x19 0x4811; Wr 0x15 0x01bd; Wr 0x19 0x5000; Wr 0x15 0x01be; Wr 0x19 0x4801; Wr 0x15 0x01bf;
  Wr 0x19 0x6800; Wr 0x15 0x01c0; Wr 0x19 0x31f5; Wr 0x15 0x01c1; Wr 0x19 0xb614; Wr 0x15 0x01c2;
  Wr 0x19 0x8ce4; Wr 0x15 0x01c3; Wr 0x19 0xb30c; Wr 0x15 0x01c4; Wr 0x19 0x7c03; Wr 0x15 0x01c5;
  Wr 0x19 0x6c02; Wr 0x15 0x01c6; Wr 0x19 0x8206; Wr 0x15 0x01c7; Wr 0x19 0x7c03; Wr 0x15 0x01c8;
  Wr 0x19 0x6c00; Wr 0x15 0x01c9; Wr 0x19 0x7c04; Wr 0x15 0x01ca; Wr 0x19 0x7404; Wr 0x15 0x01cb;
  Wr 0x19 0x31c0; Wr 0x15 0x01cc; Wr 0x19 0x7c04; Wr 0x15 0x01cd; Wr 0x19 0x7400; Wr 0x15 0x01ce;
  Wr 0x19 0x31c0; Wr 0x15 0x01cf; Wr 0x19 0x8df1; Wr 0x15 0x01d0; Wr 0x19 0x3248; Wr 0x15 0x01d1;
  Wr 0x19 0x0000; Wr 0x15 0x01d2; Wr 0x19 0x0000; Wr 0x15 0x01d3; Wr 0x19 0x0000; Wr 0x15 0x01d4;
  Wr 0x19 0x0000; Wr 0x15 0x01d5; Wr 0x19 0x4400; Wr 0x15 0x01d6; Wr 0x19 0x7c03; Wr 0x15 0x01d7;
  Wr 0x19 0x6c03; Wr 0x15 0x01d8; Wr 0x19 0x7670; Wr 0x15 0x01d9; Wr 0x19 0x4023; Wr 0x15 0x01da;
  Wr 0x19 0x4500; Wr 0x15 0x01db; Wr 0x19 0x4069; Wr 0x15 0x01dc; Wr 0x19 0x4580; Wr 0x15 0x01dd;
  Wr 0x19 0x9f00; Wr 0x15 0x01de; Wr 0x19 0xcff5; Wr 0x15 0x01df; Wr 0x19 0x00ff; Wr 0x15 0x01e0;
  Wr 0x19 0x76f0; Wr 0x15 0x01e1; Wr 0x19 0x4400; Wr 0x15 0x01e2; Wr 0x19 0x4023; Wr 0x15 0x01e3;
  Wr 0x19 0x4500; Wr 0x15 0x01e4; Wr 0x19 0x4069; Wr 0x15 0x01e5; Wr 0x19 0x4580; Wr 0x15 0x01e6;
  Wr 0x19 0x9f00; Wr 0x15 0x01e7; Wr 0x19 0xd0f5; Wr 0x15 0x01e8; Wr 0x19 0x00ff; Wr 0x15 0x01e9;
  Wr 0x19 0x4400; Wr 0x15 0x01ea; Wr 0x19 0x7c03; Wr 0x15 0x01eb; Wr 0x19 0x6800; Wr 0x15 0x01ec;
  Wr 0x19 0x66a0; Wr 0x15 0x01ed; Wr 0x19 0x8300; Wr 0x15 0x01ee; Wr 0x19 0x74f0; Wr 0x15 0x01ef;
  Wr 0x19 0x3006; Wr 0x15 0x01f0; Wr 0x19 0x0000; Wr 0x15 0x01f1; Wr 0x19 0x0000; Wr 0x15 0x01f2;
  Wr 0x19 0x0000; Wr 0x15 0x01f3; Wr 0x19 0x0000; Wr 0x15 0x01f4; Wr 0x19 0x0000; Wr 0x15 0x01f5;
  Wr 0x19 0x7c03; Wr 0x15 0x01f6; Wr 0x19 0x6c02; Wr 0x15 0x01f7; Wr 0x19 0x409d; Wr 0x15 0x01f8;
  Wr 0x19 0x7c87; Wr 0x15 0x01f9; Wr 0x19 0xae14; Wr 0x15 0x01fa; Wr 0x19 0x4400; Wr 0x15 0x01fb;
  Wr 0x19 0x7c40; Wr 0x15 0x01fc; Wr 0x19 0x6800; Wr 0x15 0x01fd; Wr 0x19 0x7801; Wr 0x15 0x01fe;
  Wr 0x19 0x980e; Wr 0x15 0x01ff; Wr 0x19 0x930c; Wr 0x15 0x0200].

Definition phy_mcu_8168evl_1_10 : list mop := [
  Wr 0x19 0x9206; Wr 0x15 0x0201; Wr 0x19 0x4002; Wr 0x15 0x0202; Wr 0x19 0x7800; Wr 0x15 0x0203;
  Wr 0x19 0x588f; Wr 0x15 0x0204; Wr 0x19 0x5520; Wr 0x15 0x0205; Wr 0x19 0x320c; Wr 0x15 0x0206;
  Wr 0x19 0x4000; Wr 0x15 0x0207; Wr 0x19 0x7800; Wr 0x15 0x0208; Wr 0x19 0x588d; Wr 0x15 0x0209;
  Wr 0x19 0x5500; Wr 0x15 0x020a; Wr 0x19 0x320c; Wr 0x15 0x020b; Wr 0x19 0x4002; Wr 0x15 0x020c;
  Wr 0x19 0x3220; Wr 0x15 0x020d; Wr 0x19 0x4480; Wr 0x15 0x020e; Wr 0x19 0x9e03; Wr 0x15 0x020f;
  Wr 0x19 0x7c40; Wr 0x15 0x0210; Wr 0x19 0x6840; Wr 0x15 0x0211; Wr 0x19 0x7801; Wr 0x15 0x0212;
  Wr 0x19 0x980e; Wr 0x15 0x0213; Wr 0x19 0x930c; Wr 0x15 0x0214; Wr 0x19 0x9206; Wr 0x15 0x0215;
  Wr 0x19 0x4000; Wr 0x15 0x0216; Wr 0x19 0x7800; Wr 0x15 0x0217; Wr 0x19 0x588f; Wr 0x15 0x0218;
  Wr 0x19 0x5520; Wr 0x15 0x0219; Wr 0x19 0x3220; Wr 0x15 0x021a; Wr 0x19 0x4002; Wr 0x15 0x021b;
  Wr 0x19 0x7800; Wr 0x15 0x021c; Wr 0x19 0x588d; Wr 0x15 0x021d; Wr 0x19 0x5540; Wr 0x15 0x021e;
  Wr 0x19 0x3220; Wr 0x15 0x021f; Wr 0x19 0x4000; Wr 0x15 0x0220; Wr 0x19 0x7800; Wr 0x15 0x0221;
  Wr 0x19 0x7c03; Wr 0x15 0x0222; Wr 0x19 0x6c00; Wr 0x15 0x0223; Wr 0x19 0x3231; Wr 0x15 0x0224;
  Wr 0x19 0xab06; Wr 0x15 0x0225; Wr 0x19 0xbf08; Wr 0x15 0x0226; Wr 0x19 0x4076; Wr 0x15 0x0227;
  Wr 0x19 0x7d07; Wr 0x15 0x0228; Wr 0x19 0x4502; Wr 0x15 0x0229; Wr 0x19 0x3231; Wr 0x15 0x022a;
  Wr 0x19 0x7d80; Wr 0x15 0x022b; Wr 0x19 0x5180; Wr 0x15 0x022c; Wr 0x19 0x322f; Wr 0x15 0x022d;
  Wr 0x19 0x7d80; Wr 0x15 0x022e; Wr 0x19 0x5000; Wr 0x15 0x022f; Wr 0x19 0x7d07; Wr 0x15 0x0230;
  Wr 0x19 0x4402; Wr 0x15 0x0231; Wr 0x19 0x7c03; Wr 0x15 0x0232; Wr 0x19 0x6c02; Wr 0x15 0x0233;
  Wr 0x19 0x7c03; Wr 0x15 0x0234; Wr 0x19 0xb309; Wr 0x15 0x0235; Wr 0x19 0xb204; Wr 0x15 0x0236;
  Wr 0x19 0xb105; Wr 0x15 0x0237; Wr 0x19 0x6c00; Wr 0x15 0x0238; Wr 0x19 0x31c1; Wr 0x15 0x0239;
  Wr 0x19 0x6c00; Wr 0x15 0x023a; Wr 0x19 0x3261; Wr 0x15 0x023b; Wr 0x19 0x6c00; Wr 0x15 0x023c;
  Wr 0x19 0x3250; Wr 0x15 0x023d; Wr 0x19 0xb203; Wr 0x15 0x023e; Wr 0x19 0x6c00; Wr 0x15 0x023f;
  Wr 0x19 0x327a; Wr 0x15 0x0240; Wr 0x19 0x6c00; Wr 0x15 0x0241; Wr 0x19 0x3293; Wr 0x15 0x0242;
  Wr 0x19 0x0000; Wr 0x15 0x0243; Wr 0x19 0x0000; Wr 0x15 0x0244; Wr 0x19 0x0000; Wr 0x15 0x0245;
  Wr 0x19 0x0000; Wr 0x15 0x0246; Wr 0x19 0x0000; Wr 0x15 0x0247; Wr 0x19 0x32a3; Wr 0x15 0x0248;
  Wr 0x19 0x5520; Wr 0x15 0x0249; Wr 0x19 0x403d; Wr 0x15 0x024a].

Definition phy_mcu_8168evl_1_11 : list mop := [
  Wr 0x19 0x440c; Wr 0x15 0x024b; Wr 0x19 0x4812; Wr 0x15 0x024c; Wr 0x19 0x5001; Wr 0x15 0x024d;
  Wr 0x19 0x4802; Wr 0x15 0x024e; Wr 0x19 0x6880; Wr 0x15 0x024f; Wr 0x19 0x31f5; Wr 0x15 0x0250;
  Wr 0x19 0xb685; Wr 0x15 0x0251; Wr 0x19 0x801c; Wr 0x15 0x0252; Wr 0x19 0xbaf5; Wr 0x15 0x0253;
  Wr 0x19 0xc07c; Wr 0x15 0x0254; Wr 0x19 0x00fb; Wr 0x15 0x0255; Wr 0x19 0x325a; Wr 0x15 0x0256;
  Wr 0x19 0x0000; Wr 0x15 0x0257; Wr 0x19 0x0000; Wr 0x15 0x0258; Wr 0x19 0x0000; Wr 0x15 0x0259;
  Wr 0x19 0x0000; Wr 0x15 0x025a; Wr 0x19 0x481a; Wr 0x15 0x025b; Wr 0x19 0x5001; Wr 0x15 0x025c;
  Wr 0x19 0x401b; Wr 0x15 0x025d; Wr 0x19 0x480a; Wr 0x15 0x025e; Wr 0x19 0x4418; Wr 0x15 0x025f;
  Wr 0x19 0x6900; Wr 0x15 0x0260; Wr 0x19 0x31f5; Wr 0x15 0x0261; Wr 0x19 0xb64b; Wr 0x15 0x0262;
  Wr 0x19 0xdb00; Wr 0x15 0x0263; Wr 0x19 0x0048; Wr 0x15 0x0264; Wr 0x19 0xdb7d; Wr 0x15 0x0265;
  Wr 0x19 0x0002; Wr 0x15 0x0266; Wr 0x19 0xa0fa; Wr 0x15 0x0267; Wr 0x19 0x4408; Wr 0x15 0x0268;
  Wr 0x19 0x3248; Wr 0x15 0x0269; Wr 0x19 0x0000; Wr 0x15 0x026a; Wr 0x19 0x0000; Wr 0x15 0x026b;
  Wr 0x19 0x0000; Wr 0x15 0x026c; Wr 0x19 0x0000; Wr 0x15 0x026d; Wr 0x19 0xb806; Wr 0x15 0x026e;
  Wr 0x19 0x588d; Wr 0x15 0x026f; Wr 0x19 0x5500; Wr 0x15 0x0270; Wr 0x19 0x7801; Wr 0x15 0x0271;
  Wr 0x19 0x4002; Wr 0x15 0x0272; Wr 0x19 0x7800; Wr 0x15 0x0273; Wr 0x19 0x4814; Wr 0x15 0x0274;
  Wr 0x19 0x500b; Wr 0x15 0x0275; Wr 0x19 0x4804; Wr 0x15 0x0276; Wr 0x19 0x40c4; Wr 0x15 0x0277;
  Wr 0x19 0x4425; Wr 0x15 0x0278; Wr 0x19 0x6a00; Wr 0x15 0x0279; Wr 0x19 0x31f5; Wr 0x15 0x027a;
  Wr 0x19 0xb632; Wr 0x15 0x027b; Wr 0x19 0xdc03; Wr 0x15 0x027c; Wr 0x19 0x0027; Wr 0x15 0x027d;
  Wr 0x19 0x80fc; Wr 0x15 0x027e; Wr 0x19 0x3283; Wr 0x15 0x027f; Wr 0x19 0x0000; Wr 0x15 0x0280;
  Wr 0x19 0x0000; Wr 0x15 0x0281; Wr 0x19 0x0000; Wr 0x15 0x0282; Wr 0x19 0x0000; Wr 0x15 0x0283;
  Wr 0x19 0xb806; Wr 0x15 0x0284; Wr 0x19 0x588f; Wr 0x15 0x0285; Wr 0x19 0x5520; Wr 0x15 0x0286;
  Wr 0x19 0x7801; Wr 0x15 0x0287; Wr 0x19 0x4000; Wr 0x15 0x0288; Wr 0x19 0x7800; Wr 0x15 0x0289;
  Wr 0x19 0x4818; Wr 0x15 0x028a; Wr 0x19 0x5051; Wr 0x15 0x028b; Wr 0x19 0x4808; Wr 0x15 0x028c;
  Wr 0x19 0x4050; Wr 0x15 0x028d; Wr 0x19 0x4462; Wr 0x15 0x028e; Wr 0x19 0x40c4; Wr 0x15 0x028f;
  Wr 0x19 0x4473; Wr 0x15 0x0290; Wr 0x19 0x5041; Wr 0x15 0x0291; Wr 0x19 0x6b00; Wr 0x15 0x0292;
  Wr 0x19 0x31f5; Wr 0x15 0x0293; Wr 0x19 0xb619; Wr 0x15 0x0294].

Definition phy_mcu_8168evl_1_12 : list mop := [
  Wr 0x19 0x80d9; Wr 0x15 0x0295; Wr 0x19 0xbd06; Wr 0x15 0x0296; Wr 0x19 0xbb0d; Wr 0x15 0x0297;
  Wr 0x19 0xaf14; Wr 0x15 0x0298; Wr 0x19 0x8efa; Wr 0x15 0x0299; Wr 0x19 0x5049; Wr 0x15 0x029a;
  Wr 0x19 0x3248; Wr 0x15 0x029b; Wr 0x19 0x4c10; Wr 0x15 0x029c; Wr 0x19 0x44b0; Wr 0x15 0x029d;
  Wr 0x19 0x4c00; Wr 0x15 0x029e; Wr 0x19 0x3292; Wr 0x15 0x029f; Wr 0x19 0x0000; Wr 0x15 0x02a0;
  Wr 0x19 0x0000; Wr 0x15 0x02a1; Wr 0x19 0x0000; Wr 0x15 0x02a2; Wr 0x19 0x0000; Wr 0x15 0x02a3;
  Wr 0x19 0x481f; Wr 0x15 0x02a4; Wr 0x19 0x5005; Wr 0x15 0x02a5; Wr 0x19 0x480f; Wr 0x15 0x02a6;
  Wr 0x19 0xac00; Wr 0x15 0x02a7; Wr 0x19 0x31a6; Wr 0x15 0x02a8; Wr 0x19 0x0000; Wr 0x15 0x02a9;
  Wr 0x19 0x0000; Wr 0x15 0x02aa; Wr 0x19 0x0000; Wr 0x15 0x02ab; Wr 0x19 0x31ba; Wr 0x15 0x02ac;
  Wr 0x19 0x31d5; Wr 0x15 0x02ad; Wr 0x19 0x0000; Wr 0x15 0x02ae; Wr 0x19 0x5cf0; Wr 0x15 0x02af;
  Wr 0x19 0x588c; Wr 0x15 0x02b0; Wr 0x19 0x542f; Wr 0x15 0x02b1; Wr 0x19 0x7ffb; Wr 0x15 0x02b2;
  Wr 0x19 0x6ff8; Wr 0x15 0x02b3; Wr 0x19 0x64a4; Wr 0x15 0x02b4; Wr 0x19 0x64a0; Wr 0x15 0x02b5;
  Wr 0x19 0x6800; Wr 0x15 0x02b6; Wr 0x19 0x4400; Wr 0x15 0x02b7; Wr 0x19 0x4020; Wr 0x15 0x02b8;
  Wr 0x19 0x4480; Wr 0x15 0x02b9; Wr 0x19 0x9e00; Wr 0x15 0x02ba; Wr 0x19 0x4891; Wr 0x15 0x02bb;
  Wr 0x19 0x4cc0; Wr 0x15 0x02bc; Wr 0x19 0x4801; Wr 0x15 0x02bd; Wr 0x19 0xa609; Wr 0x15 0x02be;
  Wr 0x19 0xd64f; Wr 0x15 0x02bf; Wr 0x19 0x004e; Wr 0x15 0x02c0; Wr 0x19 0x87fe; Wr 0x15 0x02c1;
  Wr 0x19 0x32c6; Wr 0x15 0x02c2; Wr 0x19 0x0000; Wr 0x15 0x02c3; Wr 0x19 0x0000; Wr 0x15 0x02c4;
  Wr 0x19 0x0000; Wr 0x15 0x02c5; Wr 0x19 0x0000; Wr 0x15 0x02c6; Wr 0x19 0x48b2; Wr 0x15 0x02c7;
  Wr 0x19 0x4020; Wr 0x15 0x02c8; Wr 0x19 0x4822; Wr 0x15 0x02c9; Wr 0x19 0x4488; Wr 0x15 0x02ca;
  Wr 0x19 0xd64f; Wr 0x15 0x02cb; Wr 0x19 0x0042; Wr 0x15 0x02cc; Wr 0x19 0x8203; Wr 0x15 0x02cd;
  Wr 0x19 0x4cc8; Wr 0x15 0x02ce; Wr 0x19 0x32d0; Wr 0x15 0x02cf; Wr 0x19 0x4cc0; Wr 0x15 0x02d0;
  Wr 0x19 0xc4d4; Wr 0x15 0x02d1; Wr 0x19 0x00f9; Wr 0x15 0x02d2; Wr 0x19 0xa51a; Wr 0x15 0x02d3;
  Wr 0x19 0x32d9; Wr 0x15 0x02d4; Wr 0x19 0x0000; Wr 0x15 0x02d5; Wr 0x19 0x0000; Wr 0x15 0x02d6;
  Wr 0x19 0x0000; Wr 0x15 0x02d7; Wr 0x19 0x0000; Wr 0x15 0x02d8; Wr 0x19 0x0000; Wr 0x15 0x02d9;
  Wr 0x19 0x48b3; Wr 0x15 0x02da; Wr 0x19 0x4020; Wr 0x15 0x02db; Wr 0x19 0x4823; Wr 0x15 0x02dc;
  Wr 0x19 0x4410; Wr 0x15 0x02dd; Wr 0x19 0xb630; Wr 0x15 0x02de].

Definition phy_mcu_8168evl_1_13 : list mop := [
  Wr 0x19 0x7dc8; Wr 0x15 0x02df; Wr 0x19 0x8203; Wr 0x15 0x02e0; Wr 0x19 0x4c48; Wr 0x15 0x02e1;
  Wr 0x19 0x32e3; Wr 0x15 0x02e2; Wr 0x19 0x4c40; Wr 0x15 0x02e3; Wr 0x19 0x9bfa; Wr 0x15 0x02e4;
  Wr 0x19 0x84ca; Wr 0x15 0x02e5; Wr 0x19 0x85f8; Wr 0x15 0x02e6; Wr 0x19 0x32ec; Wr 0x15 0x02e7;
  Wr 0x19 0x0000; Wr 0x15 0x02e8; Wr 0x19 0x0000; Wr 0x15 0x02e9; Wr 0x19 0x0000; Wr 0x15 0x02ea;
  Wr 0x19 0x0000; Wr 0x15 0x02eb; Wr 0x19 0x0000; Wr 0x15 0x02ec; Wr 0x19 0x48d4; Wr 0x15 0x02ed;
  Wr 0x19 0x4020; Wr 0x15 0x02ee; Wr 0x19 0x4844; Wr 0x15 0x02ef; Wr 0x19 0x4420; Wr 0x15 0x02f0;
  Wr 0x19 0x6800; Wr 0x15 0x02f1; Wr 0x19 0x7dc0; Wr 0x15 0x02f2; Wr 0x19 0x4c40; Wr 0x15 0x02f3;
  Wr 0x19 0x7c0b; Wr 0x15 0x02f4; Wr 0x19 0x6c08; Wr 0x15 0x02f5; Wr 0x19 0x3311; Wr 0x15 0x02f6;
  Wr 0x19 0x9cfd; Wr 0x15 0x02f7; Wr 0x19 0xb616; Wr 0x15 0x02f8; Wr 0x19 0xc42b; Wr 0x15 0x02f9;
  Wr 0x19 0x00e0; Wr 0x15 0x02fa; Wr 0x19 0xc455; Wr 0x15 0x02fb; Wr 0x19 0x00b3; Wr 0x15 0x02fc;
  Wr 0x19 0xb20a; Wr 0x15 0x02fd; Wr 0x19 0x7c03; Wr 0x15 0x02fe; Wr 0x19 0x6c02; Wr 0x15 0x02ff;
  Wr 0x19 0x8204; Wr 0x15 0x0300; Wr 0x19 0x7c04; Wr 0x15 0x0301; Wr 0x19 0x7404; Wr 0x15 0x0302;
  Wr 0x19 0x32f3; Wr 0x15 0x0303; Wr 0x19 0x7c04; Wr 0x15 0x0304; Wr 0x19 0x7400; Wr 0x15 0x0305;
  Wr 0x19 0x32f3; Wr 0x15 0x0306; Wr 0x19 0xefed; Wr 0x15 0x0307; Wr 0x19 0x3342; Wr 0x15 0x0308;
  Wr 0x19 0x0000; Wr 0x15 0x0309; Wr 0x19 0x0000; Wr 0x15 0x030a; Wr 0x19 0x0000; Wr 0x15 0x030b;
  Wr 0x19 0x0000; Wr 0x15 0x030c; Wr 0x19 0x0000; Wr 0x15 0x030d; Wr 0x19 0x3006; Wr 0x15 0x030e;
  Wr 0x19 0x0000; Wr 0x15 0x030f; Wr 0x19 0x0000; Wr 0x15 0x0310; Wr 0x19 0x0000; Wr 0x15 0x0311;
  Wr 0x19 0x7c08; Wr 0x15 0x0312; Wr 0x19 0xa207; Wr 0x15 0x0313; Wr 0x19 0x4c00; Wr 0x15 0x0314;
  Wr 0x19 0x3322; Wr 0x15 0x0315; Wr 0x19 0x4041; Wr 0x15 0x0316; Wr 0x19 0x7d07; Wr 0x15 0x0317;
  Wr 0x19 0x4502; Wr 0x15 0x0318; Wr 0x19 0x3322; Wr 0x15 0x0319; Wr 0x19 0x4c08; Wr 0x15 0x031a;
  Wr 0x19 0x3322; Wr 0x15 0x031b; Wr 0x19 0x7d80; Wr 0x15 0x031c; Wr 0x19 0x5180; Wr 0x15 0x031d;
  Wr 0x19 0x3320; Wr 0x15 0x031e; Wr 0x19 0x7d80; Wr 0x15 0x031f; Wr 0x19 0x5000; Wr 0x15 0x0320;
  Wr 0x19 0x7d07; Wr 0x15 0x0321; Wr 0x19 0x4402; Wr 0x15 0x0322; Wr 0x19 0x7c03; Wr 0x15 0x0323;
  Wr 0x19 0x6c02; Wr 0x15 0x0324; Wr 0x19 0x7c03; Wr 0x15 0x0325; Wr 0x19 0xb30c; Wr 0x15 0x0326;
  Wr 0x19 0xb206; Wr 0x15 0x0327; Wr 0x19 0xb103; Wr 0x15 0x0328].

Definition phy_mcu_8168evl_1_14 : list mop := [
  Wr 0x19 0x6c00; Wr 0x15 0x0329; Wr 0x19 0x32f6; Wr 0x15 0x032a; Wr 0x19 0x6c00; Wr 0x15 0x032b;
  Wr 0x19 0x3352; Wr 0x15 0x032c; Wr 0x19 0xb103; Wr 0x15 0x032d; Wr 0x19 0x6c00; Wr 0x15 0x032e;
  Wr 0x19 0x336a; Wr 0x15 0x032f; Wr 0x19 0x6c00; Wr 0x15 0x0330; Wr 0x19 0x3382; Wr 0x15 0x0331;
  Wr 0x19 0xb206; Wr 0x15 0x0332; Wr 0x19 0xb103; Wr 0x15 0x0333; Wr 0x19 0x6c00; Wr 0x15 0x0334;
  Wr 0x19 0x3395; Wr 0x15 0x0335; Wr 0x19 0x6c00; Wr 0x15 0x0336; Wr 0x19 0x33c6; Wr 0x15 0x0337;
  Wr 0x19 0xb103; Wr 0x15 0x0338; Wr 0x19 0x6c00; Wr 0x15 0x0339; Wr 0x19 0x33d7; Wr 0x15 0x033a;
  Wr 0x19 0x6c00; Wr 0x15 0x033b; Wr 0x19 0x33f2; Wr 0x15 0x033c; Wr 0x19 0x0000; Wr 0x15 0x033d;
  Wr 0x19 0x0000; Wr 0x15 0x033e; Wr 0x19 0x0000; Wr 0x15 0x033f; Wr 0x19 0x0000; Wr 0x15 0x0340;
  Wr 0x19 0x0000; Wr 0x15 0x0341; Wr 0x19 0x0000; Wr 0x15 0x0342; Wr 0x19 0x49b5; Wr 0x15 0x0343;
  Wr 0x19 0x7d00; Wr 0x15 0x0344; Wr 0x19 0x4d00; Wr 0x15 0x0345; Wr 0x19 0x6880; Wr 0x15 0x0346;
  Wr 0x19 0x7c08; Wr 0x15 0x0347; Wr 0x19 0x6c08; Wr 0x15 0x0348; Wr 0x19 0x4925; Wr 0x15 0x0349;
  Wr 0x19 0x403b; Wr 0x15 0x034a; Wr 0x19 0xa602; Wr 0x15 0x034b; Wr 0x19 0x402f; Wr 0x15 0x034c;
  Wr 0x19 0x4484; Wr 0x15 0x034d; Wr 0x19 0x40c8; Wr 0x15 0x034e; Wr 0x19 0x44c4; Wr 0x15 0x034f;
  Wr 0x19 0xd64f; Wr 0x15 0x0350; Wr 0x19 0x00bd; Wr 0x15 0x0351; Wr 0x19 0x3311; Wr 0x15 0x0352;
  Wr 0x19 0xc8ed; Wr 0x15 0x0353; Wr 0x19 0x00fc; Wr 0x15 0x0354; Wr 0x19 0x8221; Wr 0x15 0x0355;
  Wr 0x19 0xd11d; Wr 0x15 0x0356; Wr 0x19 0x001f; Wr 0x15 0x0357; Wr 0x19 0xde18; Wr 0x15 0x0358;
  Wr 0x19 0x0008; Wr 0x15 0x0359; Wr 0x19 0x91f6; Wr 0x15 0x035a; Wr 0x19 0x3360; Wr 0x15 0x035b;
  Wr 0x19 0x0000; Wr 0x15 0x035c; Wr 0x19 0x0000; Wr 0x15 0x035d; Wr 0x19 0x0000; Wr 0x15 0x035e;
  Wr 0x19 0x0000; Wr 0x15 0x035f; Wr 0x19 0x0000; Wr 0x15 0x0360; Wr 0x19 0x4bb6; Wr 0x15 0x0361;
  Wr 0x19 0x4064; Wr 0x15 0x0362; Wr 0x19 0x4b26; Wr 0x15 0x0363; Wr 0x19 0x4410; Wr 0x15 0x0364;
  Wr 0x19 0x4006; Wr 0x15 0x0365; Wr 0x19 0x4490; Wr 0x15 0x0366; Wr 0x19 0x6900; Wr 0x15 0x0367;
  Wr 0x19 0xb6a6; Wr 0x15 0x0368; Wr 0x19 0x9e02; Wr 0x15 0x0369; Wr 0x19 0x3311; Wr 0x15 0x036a;
  Wr 0x19 0xd11d; Wr 0x15 0x036b; Wr 0x19 0x000a; Wr 0x15 0x036c; Wr 0x19 0xbb0f; Wr 0x15 0x036d;
  Wr 0x19 0x8102; Wr 0x15 0x036e; Wr 0x19 0x3371; Wr 0x15 0x036f; Wr 0x19 0xa21e; Wr 0x15 0x0370;
  Wr 0x19 0x33b6; Wr 0x15 0x0371; Wr 0x19 0x91f6; Wr 0x15 0x0372].

Definition phy_mcu_8168evl_1_15 : list mop := [
  Wr 0x19 0xc218; Wr 0x15 0x0373; Wr 0x19 0x00f4; Wr 0x15 0x0374; Wr 0x19 0x33b6; Wr 0x15 0x0375;
  Wr 0x19 0x32ec; Wr 0x15 0x0376; Wr 0x19 0x0000; Wr 0x15 0x0377; Wr 0x19 0x0000; Wr 0x15 0x0378;
  Wr 0x19 0x0000; Wr 0x15 0x0379; Wr 0x19 0x0000; Wr 0x15 0x037a; Wr 0x19 0x0000; Wr 0x15 0x037b;
  Wr 0x19 0x4b97; Wr 0x15 0x037c; Wr 0x19 0x402b; Wr 0x15 0x037d; Wr 0x19 0x4b07; Wr 0x15 0x037e;
  Wr 0x19 0x4422; Wr 0x15 0x037f; Wr 0x19 0x6980; Wr 0x15 0x0380; Wr 0x19 0xb608; Wr 0x15 0x0381;
  Wr 0x19 0x3311; Wr 0x15 0x0382; Wr 0x19 0xbc05; Wr 0x15 0x0383; Wr 0x19 0xc21c; Wr 0x15 0x0384;
  Wr 0x19 0x0032; Wr 0x15 0x0385; Wr 0x19 0xa1fb; Wr 0x15 0x0386; Wr 0x19 0x338d; Wr 0x15 0x0387;
  Wr 0x19 0x32ae; Wr 0x15 0x0388; Wr 0x19 0x330d; Wr 0x15 0x0389; Wr 0x19 0x0000; Wr 0x15 0x038a;
  Wr 0x19 0x0000; Wr 0x15 0x038b; Wr 0x19 0x0000; Wr 0x15 0x038c; Wr 0x19 0x0000; Wr 0x15 0x038d;
  Wr 0x19 0x4b97; Wr 0x15 0x038e; Wr 0x19 0x6a08; Wr 0x15 0x038f; Wr 0x19 0x4b07; Wr 0x15 0x0390;
  Wr 0x19 0x40ac; Wr 0x15 0x0391; Wr 0x19 0x4445; Wr 0x15 0x0392; Wr 0x19 0x404e; Wr 0x15 0x0393;
  Wr 0x19 0x4461; Wr 0x15 0x0394; Wr 0x19 0x3311; Wr 0x15 0x0395; Wr 0x19 0x9c0a; Wr 0x15 0x0396;
  Wr 0x19 0x63da; Wr 0x15 0x0397; Wr 0x19 0x6f0c; Wr 0x15 0x0398; Wr 0x19 0x5440; Wr 0x15 0x0399;
  Wr 0x19 0x4b98; Wr 0x15 0x039a; Wr 0x19 0x7c40; Wr 0x15 0x039b; Wr 0x19 0x4c00; Wr 0x15 0x039c;
  Wr 0x19 0x4b08; Wr 0x15 0x039d; Wr 0x19 0x63d8; Wr 0x15 0x039e; Wr 0x19 0x33a5; Wr 0x15 0x039f;
  Wr 0x19 0xd64f; Wr 0x15 0x03a0; Wr 0x19 0x00e8; Wr 0x15 0x03a1; Wr 0x19 0x820e; Wr 0x15 0x03a2;
  Wr 0x19 0xa10d; Wr 0x15 0x03a3; Wr 0x19 0x9df1; Wr 0x15 0x03a4; Wr 0x19 0x33af; Wr 0x15 0x03a5;
  Wr 0x19 0xd64f; Wr 0x15 0x03a6; Wr 0x19 0x00f9; Wr 0x15 0x03a7; Wr 0x19 0xc017; Wr 0x15 0x03a8;
  Wr 0x19 0x0007; Wr 0x15 0x03a9; Wr 0x19 0x7c03; Wr 0x15 0x03aa; Wr 0x19 0x6c03; Wr 0x15 0x03ab;
  Wr 0x19 0xa104; Wr 0x15 0x03ac; Wr 0x19 0x7c03; Wr 0x15 0x03ad; Wr 0x19 0x6c00; Wr 0x15 0x03ae;
  Wr 0x19 0x9df7; Wr 0x15 0x03af; Wr 0x19 0x7c03; Wr 0x15 0x03b0; Wr 0x19 0x6c08; Wr 0x15 0x03b1;
  Wr 0x19 0x33b6; Wr 0x15 0x03b2; Wr 0x19 0x0000; Wr 0x15 0x03b3; Wr 0x19 0x0000; Wr 0x15 0x03b4;
  Wr 0x19 0x0000; Wr 0x15 0x03b5; Wr 0x19 0x0000; Wr 0x15 0x03b6; Wr 0x19 0x55af; Wr 0x15 0x03b7;
  Wr 0x19 0x7ff0; Wr 0x15 0x03b8; Wr 0x19 0x6ff0; Wr 0x15 0x03b9; Wr 0x19 0x4bb9; Wr 0x15 0x03ba;
  Wr 0x19 0x6a80; Wr 0x15 0x03bb; Wr 0x19 0x4b29; Wr 0x15 0x03bc].

Definition phy_mcu_8168evl_1_16 : list mop := [
  Wr 0x19 0x4041; Wr 0x15 0x03bd; Wr 0x19 0x440a; Wr 0x15 0x03be; Wr 0x19 0x4029; Wr 0x15 0x03bf;
  Wr 0x19 0x4418; Wr 0x15 0x03c0; Wr 0x19 0x4090; Wr 0x15 0x03c1; Wr 0x19 0x4438; Wr 0x15 0x03c2;
  Wr 0x19 0x40c4; Wr 0x15 0x03c3; Wr 0x19 0x447b; Wr 0x15 0x03c4; Wr 0x19 0xb6c4; Wr 0x15 0x03c5;
  Wr 0x19 0x3311; Wr 0x15 0x03c6; Wr 0x19 0x9bfe; Wr 0x15 0x03c7; Wr 0x19 0x33cc; Wr 0x15 0x03c8;
  Wr 0x19 0x0000; Wr 0x15 0x03c9; Wr 0x19 0x0000; Wr 0x15 0x03ca; Wr 0x19 0x0000; Wr 0x15 0x03cb;
  Wr 0x19 0x0000; Wr 0x15 0x03cc; Wr 0x19 0x542f; Wr 0x15 0x03cd; Wr 0x19 0x499a; Wr 0x15 0x03ce;
  Wr 0x19 0x7c40; Wr 0x15 0x03cf; Wr 0x19 0x4c40; Wr 0x15 0x03d0; Wr 0x19 0x490a; Wr 0x15 0x03d1;
  Wr 0x19 0x405e; Wr 0x15 0x03d2; Wr 0x19 0x44f8; Wr 0x15 0x03d3; Wr 0x19 0x6b00; Wr 0x15 0x03d4;
  Wr 0x19 0xd64f; Wr 0x15 0x03d5; Wr 0x19 0x0028; Wr 0x15 0x03d6; Wr 0x19 0x3311; Wr 0x15 0x03d7;
  Wr 0x19 0xbd27; Wr 0x15 0x03d8; Wr 0x19 0x9cfc; Wr 0x15 0x03d9; Wr 0x19 0xc639; Wr 0x15 0x03da;
  Wr 0x19 0x000f; Wr 0x15 0x03db; Wr 0x19 0x9e03; Wr 0x15 0x03dc; Wr 0x19 0x7c01; Wr 0x15 0x03dd;
  Wr 0x19 0x4c01; Wr 0x15 0x03de; Wr 0x19 0x9af6; Wr 0x15 0x03df; Wr 0x19 0x7c12; Wr 0x15 0x03e0;
  Wr 0x19 0x4c52; Wr 0x15 0x03e1; Wr 0x19 0x4470; Wr 0x15 0x03e2; Wr 0x19 0x7c12; Wr 0x15 0x03e3;
  Wr 0x19 0x4c40; Wr 0x15 0x03e4; Wr 0x19 0x33d4; Wr 0x15 0x03e5; Wr 0x19 0x0000; Wr 0x15 0x03e6;
  Wr 0x19 0x0000; Wr 0x15 0x03e7; Wr 0x19 0x0000; Wr 0x15 0x03e8; Wr 0x19 0x0000; Wr 0x15 0x03e9;
  Wr 0x19 0x49bb; Wr 0x15 0x03ea; Wr 0x19 0x4478; Wr 0x15 0x03eb; Wr 0x19 0x492b; Wr 0x15 0x03ec;
  Wr 0x19 0x6b80; Wr 0x15 0x03ed; Wr 0x19 0x7c01; Wr 0x15 0x03ee; Wr 0x19 0x4c00; Wr 0x15 0x03ef;
  Wr 0x19 0xd64f; Wr 0x15 0x03f0; Wr 0x19 0x000d; Wr 0x15 0x03f1; Wr 0x19 0x3311; Wr 0x15 0x03f2;
  Wr 0x19 0xbd0c; Wr 0x15 0x03f3; Wr 0x19 0xc428; Wr 0x15 0x03f4; Wr 0x19 0x0008; Wr 0x15 0x03f5;
  Wr 0x19 0x9afa; Wr 0x15 0x03f6; Wr 0x19 0x7c12; Wr 0x15 0x03f7; Wr 0x19 0x4c52; Wr 0x15 0x03f8;
  Wr 0x19 0x4470; Wr 0x15 0x03f9; Wr 0x19 0x7c12; Wr 0x15 0x03fa; Wr 0x19 0x4c40; Wr 0x15 0x03fb;
  Wr 0x19 0x33ef; Wr 0x15 0x03fc; Wr 0x19 0x3342; Wr 0x15 0x03fd; Wr 0x19 0x330d; Wr 0x15 0x03fe;
  Wr 0x19 0x32ae; Wr 0x15 0x0000; Wr 0x16 0x0306; Wr 0x16 0x0300; Wr 0x1f 0x0002; Wr 0x1f 0x0000;
  Wr 0x1f 0x0005; Wr 0x05 0xfff6; Wr 0x06 0x0080; Wr 0x05 0x8000; Wr 0x06 0x0280; Wr 0x06 0x48f7;
  Wr 0x06 0x00e0; Wr 0x06 0xfff7; Wr 0x06 0xa080; Wr 0x06 0x02ae].

Definition phy_mcu_8168evl_1_17 : list mop := [
  Wr 0x06 0xf602; Wr 0x06 0x0112; Wr 0x06 0x0201; Wr 0x06 0x1f02; Wr 0x06 0x012c; Wr 0x06 0x0201;
  Wr 0x06 0x3c02; Wr 0x06 0x0156; Wr 0x06 0x0201; Wr 0x06 0x6d02; Wr 0x06 0x809d; Wr 0x06 0xe08b;
  Wr 0x06 0x88e1; Wr 0x06 0x8b89; Wr 0x06 0x1e01; Wr 0x06 0xe18b; Wr 0x06 0x8a1e; Wr 0x06 0x01e1;
  Wr 0x06 0x8b8b; Wr 0x06 0x1e01; Wr 0x06 0xe18b; Wr 0x06 0x8c1e; Wr 0x06 0x01e1; Wr 0x06 0x8b8d;
  Wr 0x06 0x1e01; Wr 0x06 0xe18b; Wr 0x06 0x8e1e; Wr 0x06 0x01a0; Wr 0x06 0x00c7; Wr 0x06 0xaebb;
  Wr 0x06 0xd100; Wr 0x06 0xbf82; Wr 0x06 0xc702; Wr 0x06 0x320a; Wr 0x06 0xd105; Wr 0x06 0xbf82;
  Wr 0x06 0xcd02; Wr 0x06 0x320a; Wr 0x06 0xd100; Wr 0x06 0xbf82; Wr 0x06 0xca02; Wr 0x06 0x320a;
  Wr 0x06 0xd105; Wr 0x06 0xbf82; Wr 0x06 0xd002; Wr 0x06 0x320a; Wr 0x06 0xd481; Wr 0x06 0xc9e4;
  Wr 0x06 0x8b90; Wr 0x06 0xe58b; Wr 0x06 0x91d4; Wr 0x06 0x81b8; Wr 0x06 0xe48b; Wr 0x06 0x92e5;
  Wr 0x06 0x8b93; Wr 0x06 0xbf8b; Wr 0x06 0x88ec; Wr 0x06 0x0019; Wr 0x06 0xa98b; Wr 0x06 0x90f9;
  Wr 0x06 0xeeff; Wr 0x06 0xf600; Wr 0x06 0xeeff; Wr 0x06 0xf7fc; Wr 0x06 0xd100; Wr 0x06 0xbf82;
  Wr 0x06 0xc102; Wr 0x06 0x320a; Wr 0x06 0xd101; Wr 0x06 0xbf82; Wr 0x06 0xc402; Wr 0x06 0x320a;
  Wr 0x06 0x04f8; Wr 0x06 0xe08b; Wr 0x06 0x8ead; Wr 0x06 0x201a; Wr 0x06 0xf620; Wr 0x06 0xe48b;
  Wr 0x06 0x8e02; Wr 0x06 0x824b; Wr 0x06 0x0281; Wr 0x06 0x1902; Wr 0x06 0x2c9d; Wr 0x06 0x0203;
  Wr 0x06 0x9602; Wr 0x06 0x0473; Wr 0x06 0x022e; Wr 0x06 0x3902; Wr 0x06 0x044d; Wr 0x06 0xe08b;
  Wr 0x06 0x8ead; Wr 0x06 0x210b; Wr 0x06 0xf621; Wr 0x06 0xe48b; Wr 0x06 0x8e02; Wr 0x06 0x0416;
  Wr 0x06 0x021b; Wr 0x06 0xa4e0; Wr 0x06 0x8b8e; Wr 0x06 0xad22; Wr 0x06 0x05f6; Wr 0x06 0x22e4;
  Wr 0x06 0x8b8e; Wr 0x06 0xe08b; Wr 0x06 0x8ead; Wr 0x06 0x2305; Wr 0x06 0xf623; Wr 0x06 0xe48b;
  Wr 0x06 0x8ee0; Wr 0x06 0x8b8e; Wr 0x06 0xad24; Wr 0x06 0x05f6; Wr 0x06 0x24e4; Wr 0x06 0x8b8e;
  Wr 0x06 0xe08b; Wr 0x06 0x8ead; Wr 0x06 0x2505; Wr 0x06 0xf625; Wr 0x06 0xe48b; Wr 0x06 0x8ee0;
  Wr 0x06 0x8b8e; Wr 0x06 0xad26; Wr 0x06 0x08f6; Wr 0x06 0x26e4; Wr 0x06 0x8b8e; Wr 0x06 0x0281;
  Wr 0x06 0xdae0; Wr 0x06 0x8b8e; Wr 0x06 0xad27; Wr 0x06 0x05f6; Wr 0x06 0x27e4; Wr 0x06 0x8b8e;
  Wr 0x06 0x0203; Wr 0x06 0x5cfc; Wr 0x06 0x04f8; Wr 0x06 0xfaef; Wr 0x06 0x69e0; Wr 0x06 0x8b85;
  Wr 0x06 0xad21; Wr 0x06 0x57e0; Wr 0x06 0xe022; Wr 0x06 0xe1e0; Wr 0x06 0x2358; Wr 0x06 0xc059;
  Wr 0x06 0x021e; Wr 0x06 0x01e1; Wr 0x06 0x8b3c; Wr 0x06 0x1f10].

Definition phy_mcu_8168evl_1_18 : list mop := [
  Wr 0x06 0x9e44; Wr 0x06 0xe48b; Wr 0x06 0x3cad; Wr 0x06 0x211d; Wr 0x06 0xe18b; Wr 0x06 0x84f7;
  Wr 0x06 0x29e5; Wr 0x06 0x8b84; Wr 0x06 0xac27; Wr 0x06 0x0dac; Wr 0x06 0x2605; Wr 0x06 0x0281;
  Wr 0x06 0x7fae; Wr 0x06 0x2b02; Wr 0x06 0x2c23; Wr 0x06 0xae26; Wr 0x06 0x022c; Wr 0x06 0x41ae;
  Wr 0x06 0x21e0; Wr 0x06 0x8b87; Wr 0x06 0xad22; Wr 0x06 0x18e0; Wr 0x06 0xfff7; Wr 0x06 0x58fc;
  Wr 0x06 0xe4ff; Wr 0x06 0xf7d1; Wr 0x06 0x00bf; Wr 0x06 0x2eee; Wr 0x06 0x0232; Wr 0x06 0x0ad1;
  Wr 0x06 0x00bf; Wr 0x06 0x82e8; Wr 0x06 0x0232; Wr 0x06 0x0a02; Wr 0x06 0x2bdf; Wr 0x06 0xef96;
  Wr 0x06 0xfefc; Wr 0x06 0x04d0; Wr 0x06 0x0202; Wr 0x06 0x1e97; Wr 0x06 0xe08b; Wr 0x06 0x87ad;
  Wr 0x06 0x2228; Wr 0x06 0xd100; Wr 0x06 0xbf82; Wr 0x06 0xd302; Wr 0x06 0x320a; Wr 0x06 0xd10c;
  Wr 0x06 0xbf82; Wr 0x06 0xd602; Wr 0x06 0x320a; Wr 0x06 0xd104; Wr 0x06 0xbf82; Wr 0x06 0xd902;
  Wr 0x06 0x320a; Wr 0x06 0xd101; Wr 0x06 0xbf82; Wr 0x06 0xe802; Wr 0x06 0x320a; Wr 0x06 0xe0ff;
  Wr 0x06 0xf768; Wr 0x06 0x03e4; Wr 0x06 0xfff7; Wr 0x06 0xd004; Wr 0x06 0x0228; Wr 0x06 0x7a04;
  Wr 0x06 0xf8e0; Wr 0x06 0xe234; Wr 0x06 0xe1e2; Wr 0x06 0x35f6; Wr 0x06 0x2be4; Wr 0x06 0xe234;
  Wr 0x06 0xe5e2; Wr 0x06 0x35fc; Wr 0x06 0x05f8; Wr 0x06 0xe0e2; Wr 0x06 0x34e1; Wr 0x06 0xe235;
  Wr 0x06 0xf72b; Wr 0x06 0xe4e2; Wr 0x06 0x34e5; Wr 0x06 0xe235; Wr 0x06 0xfc05; Wr 0x06 0xf8f9;
  Wr 0x06 0xfaef; Wr 0x06 0x69ac; Wr 0x06 0x1b4c; Wr 0x06 0xbf2e; Wr 0x06 0x3002; Wr 0x06 0x31dd;
  Wr 0x06 0xef01; Wr 0x06 0xe28a; Wr 0x06 0x76e4; Wr 0x06 0x8a76; Wr 0x06 0x1f12; Wr 0x06 0x9e3a;
  Wr 0x06 0xef12; Wr 0x06 0x5907; Wr 0x06 0x9f12; Wr 0x06 0xf8e0; Wr 0x06 0x8b40; Wr 0x06 0xf721;
  Wr 0x06 0xe48b; Wr 0x06 0x40d0; Wr 0x06 0x0302; Wr 0x06 0x287a; Wr 0x06 0x0282; Wr 0x06 0x34fc;
  Wr 0x06 0xa000; Wr 0x06 0x1002; Wr 0x06 0x2dc3; Wr 0x06 0x022e; Wr 0x06 0x21e0; Wr 0x06 0x8b40;
  Wr 0x06 0xf621; Wr 0x06 0xe48b; Wr 0x06 0x40ae; Wr 0x06 0x0fbf; Wr 0x06 0x3fa5; Wr 0x06 0x0231;
  Wr 0x06 0x6cbf; Wr 0x06 0x3fa2; Wr 0x06 0x0231; Wr 0x06 0x6c02; Wr 0x06 0x2dc3; Wr 0x06 0xef96;
  Wr 0x06 0xfefd; Wr 0x06 0xfc04; Wr 0x06 0xf8e0; Wr 0x06 0xe2f4; Wr 0x06 0xe1e2; Wr 0x06 0xf5e4;
  Wr 0x06 0x8a78; Wr 0x06 0xe58a; Wr 0x06 0x79ee; Wr 0x06 0xe2f4; Wr 0x06 0xd8ee; Wr 0x06 0xe2f5;
  Wr 0x06 0x20fc; Wr 0x06 0x04f8; Wr 0x06 0xf9fa; Wr 0x06 0xef69; Wr 0x06 0xe08b; Wr 0x06 0x87ad;
  Wr 0x06 0x2065; Wr 0x06 0xd200; Wr 0x06 0xbf2e; Wr 0x06 0xe802].

Definition phy_mcu_8168evl_1_19 : list mop := [
  Wr 0x06 0x31dd; Wr 0x06 0x1e21; Wr 0x06 0xbf82; Wr 0x06 0xdf02; Wr 0x06 0x31dd; Wr 0x06 0x0c11;
  Wr 0x06 0x1e21; Wr 0x06 0xbf82; Wr 0x06 0xe202; Wr 0x06 0x31dd; Wr 0x06 0x0c12; Wr 0x06 0x1e21;
  Wr 0x06 0xbf82; Wr 0x06 0xe502; Wr 0x06 0x31dd; Wr 0x06 0x0c13; Wr 0x06 0x1e21; Wr 0x06 0xbf1f;
  Wr 0x06 0x5302; Wr 0x06 0x31dd; Wr 0x06 0x0c14; Wr 0x06 0x1e21; Wr 0x06 0xbf82; Wr 0x06 0xeb02;
  Wr 0x06 0x31dd; Wr 0x06 0x0c16; Wr 0x06 0x1e21; Wr 0x06 0xe083; Wr 0x06 0xe01f; Wr 0x06 0x029e;
  Wr 0x06 0x22e6; Wr 0x06 0x83e0; Wr 0x06 0xad31; Wr 0x06 0x14ad; Wr 0x06 0x3011; Wr 0x06 0xef02;
  Wr 0x06 0x580c; Wr 0x06 0x9e07; Wr 0x06 0xad36; Wr 0x06 0x085a; Wr 0x06 0x309f; Wr 0x06 0x04d1;
  Wr 0x06 0x01ae; Wr 0x06 0x02d1; Wr 0x06 0x00bf; Wr 0x06 0x82dc; Wr 0x06 0x0232; Wr 0x06 0x0aef;
  Wr 0x06 0x96fe; Wr 0x06 0xfdfc; Wr 0x06 0x0400; Wr 0x06 0xe140; Wr 0x06 0x77e1; Wr 0x06 0x4010;
  Wr 0x06 0xe150; Wr 0x06 0x32e1; Wr 0x06 0x5030; Wr 0x06 0xe144; Wr 0x06 0x74e1; Wr 0x06 0x44bb;
  Wr 0x06 0xe2d2; Wr 0x06 0x40e0; Wr 0x06 0x2cfc; Wr 0x06 0xe2cc; Wr 0x06 0xcce2; Wr 0x06 0x00cc;
  Wr 0x06 0xe000; Wr 0x06 0x99e0; Wr 0x06 0x3688; Wr 0x06 0xe036; Wr 0x06 0x99e1; Wr 0x06 0x40dd;
  Wr 0x06 0xe022; Wr 0x05 0xe142; Mo 0x06 0 (BIT 0); Wr 0x05 0xe140; Mo 0x06 0 (BIT 0); Wr 0x1f 0x0000;
  Wr 0x1f 0x0005].

Definition phy_mcu_8168evl_2_1 : list mop := [
  Wr 0x1f 0x0005; Wr 0x05 0xfff6; Wr 0x06 0x0080; Wr 0x1f 0x0007; Wr 0x1e 0x0023; Wr 0x16 0x0306;
  Wr 0x16 0x0307; Wr 0x15 0x00AF; Wr 0x19 0x4060; Wr 0x15 0x00B0; Wr 0x19 0x7800; Wr 0x15 0x00B1;
  Wr 0x19 0x7e00; Wr 0x15 0x00B2; Wr 0x19 0x72B0; Wr 0x15 0x00B3; Wr 0x19 0x7F00; Wr 0x15 0x00B4;
  Wr 0x19 0x73B0; Wr 0x15 0x0101; Wr 0x19 0x0005; Wr 0x15 0x0103; Wr 0x19 0x0003; Wr 0x15 0x0105;
  Wr 0x19 0x30FD; Wr 0x15 0x0106; Wr 0x19 0x9DF7; Wr 0x15 0x0107; Wr 0x19 0x30C6; Wr 0x15 0x0098;
  Wr 0x19 0x7c0b; Wr 0x15 0x0099; Wr 0x19 0x6c0b; Wr 0x15 0x00eb; Wr 0x19 0x6c0b; Wr 0x15 0x00f8;
  Wr 0x19 0x6f0b; Wr 0x15 0x00fe; Wr 0x19 0x6f0f; Wr 0x15 0x00db; Wr 0x19 0x6f09; Wr 0x15 0x00dc;
  Wr 0x19 0xaefd; Wr 0x15 0x00dd; Wr 0x19 0x6f0b; Wr 0x15 0x00de; Wr 0x19 0xc60b; Wr 0x15 0x00df;
  Wr 0x19 0x00fa; Wr 0x15 0x00e0; Wr 0x19 0x30e1; Wr 0x15 0x020c; Wr 0x19 0x3224; Wr 0x15 0x020e;
  Wr 0x19 0x9813; Wr 0x15 0x020f; Wr 0x19 0x7801; Wr 0x15 0x0210; Wr 0x19 0x930f; Wr 0x15 0x0211;
  Wr 0x19 0x9206; Wr 0x15 0x0212; Wr 0x19 0x4002; Wr 0x15 0x0213; Wr 0x19 0x7800; Wr 0x15 0x0214;
  Wr 0x19 0x588f; Wr 0x15 0x0215; Wr 0x19 0x5520; Wr 0x15 0x0216; Wr 0x19 0x3224; Wr 0x15 0x0217;
  Wr 0x19 0x4002; Wr 0x15 0x0218; Wr 0x19 0x7800; Wr 0x15 0x0219; Wr 0x19 0x588d; Wr 0x15 0x021a;
  Wr 0x19 0x5540; Wr 0x15 0x021b; Wr 0x19 0x9e03; Wr 0x15 0x021c; Wr 0x19 0x7c40; Wr 0x15 0x021d;
  Wr 0x19 0x6840; Wr 0x15 0x021e; Wr 0x19 0x3224; Wr 0x15 0x021f; Wr 0x19 0x4002; Wr 0x15 0x0220;
  Wr 0x19 0x3224; Wr 0x15 0x0221; Wr 0x19 0x9e03; Wr 0x15 0x0222; Wr 0x19 0x7c40; Wr 0x15 0x0223;
  Wr 0x19 0x6840; Wr 0x15 0x0224; Wr 0x19 0x7800; Wr 0x15 0x0225; Wr 0x19 0x3231; Wr 0x15 0x0000;
  Wr 0x16 0x0306; Wr 0x16 0x0300; Wr 0x1f 0x0002; Wr 0x1f 0x0000; Wr 0x1f 0x0000; Wr 0x17 0x2160;
  Wr 0x1f 0x0007; Wr 0x1e 0x0040; Wr 0x18 0x0004].

Definition phy_mcu_8168evl_2_2 : list mop := [
  Wr 0x18 0x0724; Wr 0x19 0xfe00; Wr 0x18 0x0734; Wr 0x19 0xfd00; Wr 0x18 0x1824; Wr 0x19 0xfc00;
  Wr 0x18 0x1834; Wr 0x19 0xfd00].

Definition phy_mcu_8168evl_2_3 : list mop := [
  Wr 0x18 0x09d4; Wr 0x19 0x4000; Wr 0x18 0x09e4; Wr 0x19 0x0800; Wr 0x18 0x09f4; Wr 0x19 0xff00;
  Wr 0x18 0x0a04; Wr 0x19 0x4000; Wr 0x18 0x0a14; Wr 0x19 0x0c00; Wr 0x18 0x0a24; Wr 0x19 0xff00;
  Wr 0x18 0x0a74; Wr 0x19 0xf600; Wr 0x18 0x1a24; Wr 0x19 0x7d00; Wr 0x18 0x1a64; Wr 0x19 0x0500;
  Wr 0x18 0x1a74; Wr 0x19 0x9500; Wr 0x18 0x1a84; Wr 0x19 0x8000; Wr 0x18 0x1a94; Wr 0x19 0x7d00;
  Wr 0x18 0x1aa4; Wr 0x19 0x9600; Wr 0x18 0x1ac4; Wr 0x19 0x4000; Wr 0x18 0x1ad4; Wr 0x19 0x0800;
  Wr 0x18 0x1af4; Wr 0x19 0xc400; Wr 0x18 0x1b04; Wr 0x19 0x4000; Wr 0x18 0x1b14; Wr 0x19 0x0800;
  Wr 0x18 0x1b24; Wr 0x19 0xfd00; Wr 0x18 0x1b34; Wr 0x19 0x4000; Wr 0x18 0x1b44; Wr 0x19 0x0400;
  Wr 0x18 0x1b94; Wr 0x19 0xf100; Wr 0x1f 0x0000; Wr 0x17 0x2100; Wr 0x1f 0x0007; Wr 0x1e 0x0040;
  Wr 0x18 0x0000; Wr 0x1f 0x0000; Wr 0x1f 0x0005; Wr 0x05 0xfff6; Wr 0x06 0x0080; Wr 0x05 0x8000;
  Wr 0x06 0x0280; Wr 0x06 0x48f7; Wr 0x06 0x00e0; Wr 0x06 0xfff7; Wr 0x06 0xa080; Wr 0x06 0x02ae;
  Wr 0x06 0xf602; Wr 0x06 0x0115; Wr 0x06 0x0201; Wr 0x06 0x2202; Wr 0x06 0x80a0; Wr 0x06 0x0201;
  Wr 0x06 0x3f02; Wr 0x06 0x0159; Wr 0x06 0x0280; Wr 0x06 0xbd02; Wr 0x06 0x80da; Wr 0x06 0xe08b;
  Wr 0x06 0x88e1; Wr 0x06 0x8b89; Wr 0x06 0x1e01; Wr 0x06 0xe18b; Wr 0x06 0x8a1e; Wr 0x06 0x01e1;
  Wr 0x06 0x8b8b; Wr 0x06 0x1e01; Wr 0x06 0xe18b; Wr 0x06 0x8c1e; Wr 0x06 0x01e1; Wr 0x06 0x8b8d;
  Wr 0x06 0x1e01; Wr 0x06 0xe18b; Wr 0x06 0x8e1e; Wr 0x06 0x01a0; Wr 0x06 0x00c7; Wr 0x06 0xaebb;
  Wr 0x06 0xd481; Wr 0x06 0xd2e4; Wr 0x06 0x8b92; Wr 0x06 0xe58b; Wr 0x06 0x93d1; Wr 0x06 0x03bf;
  Wr 0x06 0x859e; Wr 0x06 0x0237; Wr 0x06 0x23d1; Wr 0x06 0x02bf; Wr 0x06 0x85a1; Wr 0x06 0x0237;
  Wr 0x06 0x23ee; Wr 0x06 0x8608; Wr 0x06 0x03ee; Wr 0x06 0x860a; Wr 0x06 0x60ee; Wr 0x06 0x8610;
  Wr 0x06 0x00ee; Wr 0x06 0x8611; Wr 0x06 0x00ee; Wr 0x06 0x8abe; Wr 0x06 0x07ee; Wr 0x06 0x8abf;
  Wr 0x06 0x73ee; Wr 0x06 0x8a95; Wr 0x06 0x02bf; Wr 0x06 0x8b88; Wr 0x06 0xec00; Wr 0x06 0x19a9;
  Wr 0x06 0x8b90; Wr 0x06 0xf9ee; Wr 0x06 0xfff6; Wr 0x06 0x00ee; Wr 0x06 0xfff7; Wr 0x06 0xfed1;
  Wr 0x06 0x00bf; Wr 0x06 0x8595; Wr 0x06 0x0237; Wr 0x06 0x23d1; Wr 0x06 0x01bf; Wr 0x06 0x8598;
  Wr 0x06 0x0237; Wr 0x06 0x2304; Wr 0x06 0xf8e0; Wr 0x06 0x8b8a; Wr 0x06 0xad20; Wr 0x06 0x14ee;
  Wr 0x06 0x8b8a; Wr 0x06 0x0002; Wr 0x06 0x1f9a; Wr 0x06 0xe0e4; Wr 0x06 0x26e1; Wr 0x06 0xe427;
  Wr 0x06 0xeee4; Wr 0x06 0x2623; Wr 0x06 0xe5e4; Wr 0x06 0x27fc].

Definition phy_mcu_8168evl_2_4 : list mop := [
  Wr 0x06 0x04f8; Wr 0x06 0xe08b; Wr 0x06 0x8dad; Wr 0x06 0x2014; Wr 0x06 0xee8b; Wr 0x06 0x8d00;
  Wr 0x06 0xe08a; Wr 0x06 0x5a78; Wr 0x06 0x039e; Wr 0x06 0x0902; Wr 0x06 0x05db; Wr 0x06 0x0282;
  Wr 0x06 0x7b02; Wr 0x06 0x3231; Wr 0x06 0xfc04; Wr 0x06 0xf8e0; Wr 0x06 0x8b8e; Wr 0x06 0xad20;
  Wr 0x06 0x1df6; Wr 0x06 0x20e4; Wr 0x06 0x8b8e; Wr 0x06 0x0281; Wr 0x06 0x5c02; Wr 0x06 0x2bcb;
  Wr 0x06 0x022d; Wr 0x06 0x2902; Wr 0x06 0x03b4; Wr 0x06 0x0285; Wr 0x06 0x6402; Wr 0x06 0x2eca;
  Wr 0x06 0x0284; Wr 0x06 0xcd02; Wr 0x06 0x046f; Wr 0x06 0xe08b; Wr 0x06 0x8ead; Wr 0x06 0x210b;
  Wr 0x06 0xf621; Wr 0x06 0xe48b; Wr 0x06 0x8e02; Wr 0x06 0x8520; Wr 0x06 0x021b; Wr 0x06 0xe8e0;
  Wr 0x06 0x8b8e; Wr 0x06 0xad22; Wr 0x06 0x05f6; Wr 0x06 0x22e4; Wr 0x06 0x8b8e; Wr 0x06 0xe08b;
  Wr 0x06 0x8ead; Wr 0x06 0x2308; Wr 0x06 0xf623; Wr 0x06 0xe48b; Wr 0x06 0x8e02; Wr 0x06 0x311c;
  Wr 0x06 0xe08b; Wr 0x06 0x8ead; Wr 0x06 0x2405; Wr 0x06 0xf624; Wr 0x06 0xe48b; Wr 0x06 0x8ee0;
  Wr 0x06 0x8b8e; Wr 0x06 0xad25; Wr 0x06 0x05f6; Wr 0x06 0x25e4; Wr 0x06 0x8b8e; Wr 0x06 0xe08b;
  Wr 0x06 0x8ead; Wr 0x06 0x2608; Wr 0x06 0xf626; Wr 0x06 0xe48b; Wr 0x06 0x8e02; Wr 0x06 0x2df5;
  Wr 0x06 0xe08b; Wr 0x06 0x8ead; Wr 0x06 0x2705; Wr 0x06 0xf627; Wr 0x06 0xe48b; Wr 0x06 0x8e02;
  Wr 0x06 0x037a; Wr 0x06 0xfc04; Wr 0x06 0xf8f9; Wr 0x06 0xfaef; Wr 0x06 0x69e0; Wr 0x06 0x8b87;
  Wr 0x06 0xad20; Wr 0x06 0x65d2; Wr 0x06 0x00bf; Wr 0x06 0x2fe9; Wr 0x06 0x0236; Wr 0x06 0xf61e;
  Wr 0x06 0x21bf; Wr 0x06 0x2ff5; Wr 0x06 0x0236; Wr 0x06 0xf60c; Wr 0x06 0x111e; Wr 0x06 0x21bf;
  Wr 0x06 0x2ff8; Wr 0x06 0x0236; Wr 0x06 0xf60c; Wr 0x06 0x121e; Wr 0x06 0x21bf; Wr 0x06 0x2ffb;
  Wr 0x06 0x0236; Wr 0x06 0xf60c; Wr 0x06 0x131e; Wr 0x06 0x21bf; Wr 0x06 0x1f97; Wr 0x06 0x0236;
  Wr 0x06 0xf60c; Wr 0x06 0x141e; Wr 0x06 0x21bf; Wr 0x06 0x859b; Wr 0x06 0x0236; Wr 0x06 0xf60c;
  Wr 0x06 0x161e; Wr 0x06 0x21e0; Wr 0x06 0x8a8c; Wr 0x06 0x1f02; Wr 0x06 0x9e22; Wr 0x06 0xe68a;
  Wr 0x06 0x8cad; Wr 0x06 0x3114; Wr 0x06 0xad30; Wr 0x06 0x11ef; Wr 0x06 0x0258; Wr 0x06 0x0c9e;
  Wr 0x06 0x07ad; Wr 0x06 0x3608; Wr 0x06 0x5a30; Wr 0x06 0x9f04; Wr 0x06 0xd101; Wr 0x06 0xae02;
  Wr 0x06 0xd100; Wr 0x06 0xbf2f; Wr 0x06 0xf202; Wr 0x06 0x3723; Wr 0x06 0xef96; Wr 0x06 0xfefd;
  Wr 0x06 0xfc04; Wr 0x06 0xf8f9; Wr 0x06 0xface; Wr 0x06 0xfaef; Wr 0x06 0x69fa; Wr 0x06 0xd401;
  Wr 0x06 0x55b4; Wr 0x06 0xfebf; Wr 0x06 0x85a7; Wr 0x06 0x0236].

Definition phy_mcu_8168evl_2_5 : list mop := [
  Wr 0x06 0xf6ac; Wr 0x06 0x280b; Wr 0x06 0xbf85; Wr 0x06 0xa402; Wr 0x06 0x36f6; Wr 0x06 0xac28;
  Wr 0x06 0x49ae; Wr 0x06 0x64bf; Wr 0x06 0x85a4; Wr 0x06 0x0236; Wr 0x06 0xf6ac; Wr 0x06 0x285b;
  Wr 0x06 0xd000; Wr 0x06 0x0282; Wr 0x06 0x60ac; Wr 0x06 0x2105; Wr 0x06 0xac22; Wr 0x06 0x02ae;
  Wr 0x06 0x4ebf; Wr 0x06 0xe0c4; Wr 0x06 0xbe86; Wr 0x06 0x14d2; Wr 0x06 0x04d8; Wr 0x06 0x19d9;
  Wr 0x06 0x1907; Wr 0x06 0xdc19; Wr 0x06 0xdd19; Wr 0x06 0x0789; Wr 0x06 0x89ef; Wr 0x06 0x645e;
  Wr 0x06 0x07ff; Wr 0x06 0x0d65; Wr 0x06 0x5cf8; Wr 0x06 0x001e; Wr 0x06 0x46dc; Wr 0x06 0x19dd;
  Wr 0x06 0x19b2; Wr 0x06 0xe2d4; Wr 0x06 0x0001; Wr 0x06 0xbf85; Wr 0x06 0xa402; Wr 0x06 0x3723;
  Wr 0x06 0xae1d; Wr 0x06 0xbee0; Wr 0x06 0xc4bf; Wr 0x06 0x8614; Wr 0x06 0xd204; Wr 0x06 0xd819;
  Wr 0x06 0xd919; Wr 0x06 0x07dc; Wr 0x06 0x19dd; Wr 0x06 0x1907; Wr 0x06 0xb2f4; Wr 0x06 0xd400;
  Wr 0x06 0x00bf; Wr 0x06 0x85a4; Wr 0x06 0x0237; Wr 0x06 0x23fe; Wr 0x06 0xef96; Wr 0x06 0xfec6;
  Wr 0x06 0xfefd; Wr 0x06 0xfc05; Wr 0x06 0xf9e2; Wr 0x06 0xe0ea; Wr 0x06 0xe3e0; Wr 0x06 0xeb5a;
  Wr 0x06 0x070c; Wr 0x06 0x031e; Wr 0x06 0x20e6; Wr 0x06 0xe0ea; Wr 0x06 0xe7e0; Wr 0x06 0xebe0;
  Wr 0x06 0xe0fc; Wr 0x06 0xe1e0; Wr 0x06 0xfdfd; Wr 0x06 0x04f8; Wr 0x06 0xf9e0; Wr 0x06 0x8b81;
  Wr 0x06 0xac26; Wr 0x06 0x1ae0; Wr 0x06 0x8b81; Wr 0x06 0xac21; Wr 0x06 0x14e0; Wr 0x06 0x8b85;
  Wr 0x06 0xac20; Wr 0x06 0x0ee0; Wr 0x06 0x8b85; Wr 0x06 0xac23; Wr 0x06 0x08e0; Wr 0x06 0x8b87;
  Wr 0x06 0xac24; Wr 0x06 0x02ae; Wr 0x06 0x3802; Wr 0x06 0x1ab5; Wr 0x06 0xeee4; Wr 0x06 0x1c04;
  Wr 0x06 0xeee4; Wr 0x06 0x1d04; Wr 0x06 0xe2e0; Wr 0x06 0x7ce3; Wr 0x06 0xe07d; Wr 0x06 0xe0e0;
  Wr 0x06 0x38e1; Wr 0x06 0xe039; Wr 0x06 0xad2e; Wr 0x06 0x1bad; Wr 0x06 0x390d; Wr 0x06 0xd101;
  Wr 0x06 0xbf21; Wr 0x06 0xd502; Wr 0x06 0x3723; Wr 0x06 0x0282; Wr 0x06 0xd8ae; Wr 0x06 0x0bac;
  Wr 0x06 0x3802; Wr 0x06 0xae06; Wr 0x06 0x0283; Wr 0x06 0x1802; Wr 0x06 0x8360; Wr 0x06 0x021a;
  Wr 0x06 0xc6fd; Wr 0x06 0xfc04; Wr 0x06 0xf8e1; Wr 0x06 0x8af4; Wr 0x06 0xe08b; Wr 0x06 0x81ad;
  Wr 0x06 0x2605; Wr 0x06 0x0222; Wr 0x06 0xa4f7; Wr 0x06 0x28e0; Wr 0x06 0x8b81; Wr 0x06 0xad21;
  Wr 0x06 0x0502; Wr 0x06 0x23a9; Wr 0x06 0xf729; Wr 0x06 0xe08b; Wr 0x06 0x85ad; Wr 0x06 0x2005;
  Wr 0x06 0x0214; Wr 0x06 0xabf7; Wr 0x06 0x2ae0; Wr 0x06 0x8b85; Wr 0x06 0xad23; Wr 0x06 0x0502;
  Wr 0x06 0x12e7; Wr 0x06 0xf72b; Wr 0x06 0xe08b; Wr 0x06 0x87ad].

Definition phy_mcu_8168evl_2_6 : list mop := [
  Wr 0x06 0x2405; Wr 0x06 0x0283; Wr 0x06 0xbcf7; Wr 0x06 0x2ce5; Wr 0x06 0x8af4; Wr 0x06 0xfc04;
  Wr 0x06 0xf8e0; Wr 0x06 0x8b81; Wr 0x06 0xad26; Wr 0x06 0x0302; Wr 0x06 0x21e5; Wr 0x06 0xe08b;
  Wr 0x06 0x81ad; Wr 0x06 0x2109; Wr 0x06 0xe08a; Wr 0x06 0xf4ac; Wr 0x06 0x2003; Wr 0x06 0x0223;
  Wr 0x06 0x98e0; Wr 0x06 0x8b85; Wr 0x06 0xad20; Wr 0x06 0x09e0; Wr 0x06 0x8af4; Wr 0x06 0xac21;
  Wr 0x06 0x0302; Wr 0x06 0x13fb; Wr 0x06 0xe08b; Wr 0x06 0x85ad; Wr 0x06 0x2309; Wr 0x06 0xe08a;
  Wr 0x06 0xf4ac; Wr 0x06 0x2203; Wr 0x06 0x0212; Wr 0x06 0xfae0; Wr 0x06 0x8b87; Wr 0x06 0xad24;
  Wr 0x06 0x09e0; Wr 0x06 0x8af4; Wr 0x06 0xac23; Wr 0x06 0x0302; Wr 0x06 0x83c1; Wr 0x06 0xfc04;
  Wr 0x06 0xf8e1; Wr 0x06 0x8af4; Wr 0x06 0xe08b; Wr 0x06 0x81ad; Wr 0x06 0x2608; Wr 0x06 0xe083;
  Wr 0x06 0xd2ad; Wr 0x06 0x2502; Wr 0x06 0xf628; Wr 0x06 0xe08b; Wr 0x06 0x81ad; Wr 0x06 0x210a;
  Wr 0x06 0xe084; Wr 0x06 0x0af6; Wr 0x06 0x27a0; Wr 0x06 0x0502; Wr 0x06 0xf629; Wr 0x06 0xe08b;
  Wr 0x06 0x85ad; Wr 0x06 0x2008; Wr 0x06 0xe08a; Wr 0x06 0xe8ad; Wr 0x06 0x2102; Wr 0x06 0xf62a;
  Wr 0x06 0xe08b; Wr 0x06 0x85ad; Wr 0x06 0x2308; Wr 0x06 0xe08b; Wr 0x06 0x20a0; Wr 0x06 0x0302;
  Wr 0x06 0xf62b; Wr 0x06 0xe08b; Wr 0x06 0x87ad; Wr 0x06 0x2408; Wr 0x06 0xe086; Wr 0x06 0x02a0;
  Wr 0x06 0x0302; Wr 0x06 0xf62c; Wr 0x06 0xe58a; Wr 0x06 0xf4a1; Wr 0x06 0x0008; Wr 0x06 0xd100;
  Wr 0x06 0xbf21; Wr 0x06 0xd502; Wr 0x06 0x3723; Wr 0x06 0xfc04; Wr 0x06 0xee86; Wr 0x06 0x0200;
  Wr 0x06 0x04f8; Wr 0x06 0xe08b; Wr 0x06 0x87ad; Wr 0x06 0x241e; Wr 0x06 0xe086; Wr 0x06 0x02a0;
  Wr 0x06 0x0005; Wr 0x06 0x0283; Wr 0x06 0xe8ae; Wr 0x06 0xf5a0; Wr 0x06 0x0105; Wr 0x06 0x0283;
  Wr 0x06 0xf8ae; Wr 0x06 0x0ba0; Wr 0x06 0x0205; Wr 0x06 0x0284; Wr 0x06 0x14ae; Wr 0x06 0x03a0;
  Wr 0x06 0x0300; Wr 0x06 0xfc04; Wr 0x06 0xf8fa; Wr 0x06 0xef69; Wr 0x06 0x0284; Wr 0x06 0x2bee;
  Wr 0x06 0x8602; Wr 0x06 0x01ef; Wr 0x06 0x96fe; Wr 0x06 0xfc04; Wr 0x06 0xf8ee; Wr 0x06 0x8609;
  Wr 0x06 0x0002; Wr 0x06 0x8461; Wr 0x06 0xfc04; Wr 0x06 0xae10; Wr 0x06 0x0000; Wr 0x06 0x0000;
  Wr 0x06 0x0000; Wr 0x06 0x0000; Wr 0x06 0x0000; Wr 0x06 0x0000; Wr 0x06 0x0000; Wr 0x06 0x0000;
  Wr 0x06 0xf8e0; Wr 0x06 0x8608; Wr 0x06 0xe186; Wr 0x06 0x091f; Wr 0x06 0x019e; Wr 0x06 0x0611;
  Wr 0x06 0xe586; Wr 0x06 0x09ae; Wr 0x06 0x04ee; Wr 0x06 0x8602; Wr 0x06 0x01fc; Wr 0x06 0x04f8;
  Wr 0x06 0xf9fa; Wr 0x06 0xef69; Wr 0x06 0xfbbf; Wr 0x06 0x8604].

Definition phy_mcu_8168evl_2_7 : list mop := [
  Wr 0x06 0xef79; Wr 0x06 0xd200; Wr 0x06 0xd400; Wr 0x06 0x221e; Wr 0x06 0x02bf; Wr 0x06 0x2fec;
  Wr 0x06 0x0237; Wr 0x06 0x23bf; Wr 0x06 0x13f2; Wr 0x06 0x0236; Wr 0x06 0xf60d; Wr 0x06 0x4559;
  Wr 0x06 0x1fef; Wr 0x06 0x97dd; Wr 0x06 0xd308; Wr 0x06 0x1a93; Wr 0x06 0xdd12; Wr 0x06 0x17a2;
  Wr 0x06 0x04de; Wr 0x06 0xffef; Wr 0x06 0x96fe; Wr 0x06 0xfdfc; Wr 0x06 0x04f8; Wr 0x06 0xf9fa;
  Wr 0x06 0xef69; Wr 0x06 0xfbee; Wr 0x06 0x8602; Wr 0x06 0x03d5; Wr 0x06 0x0080; Wr 0x06 0xbf86;
  Wr 0x06 0x04ef; Wr 0x06 0x79ef; Wr 0x06 0x45bf; Wr 0x06 0x2fec; Wr 0x06 0x0237; Wr 0x06 0x23bf;
  Wr 0x06 0x13f2; Wr 0x06 0x0236; Wr 0x06 0xf6ad; Wr 0x06 0x2702; Wr 0x06 0x78ff; Wr 0x06 0xe186;
  Wr 0x06 0x0a1b; Wr 0x06 0x01aa; Wr 0x06 0x2eef; Wr 0x06 0x97d9; Wr 0x06 0x7900; Wr 0x06 0x9e2b;
  Wr 0x06 0x81dd; Wr 0x06 0xbf85; Wr 0x06 0xad02; Wr 0x06 0x3723; Wr 0x06 0xd101; Wr 0x06 0xef02;
  Wr 0x06 0x100c; Wr 0x06 0x11b0; Wr 0x06 0xfc0d; Wr 0x06 0x11bf; Wr 0x06 0x85aa; Wr 0x06 0x0237;
  Wr 0x06 0x23d1; Wr 0x06 0x00bf; Wr 0x06 0x85aa; Wr 0x06 0x0237; Wr 0x06 0x23ee; Wr 0x06 0x8602;
  Wr 0x06 0x02ae; Wr 0x06 0x0413; Wr 0x06 0xa38b; Wr 0x06 0xb4d3; Wr 0x06 0x8012; Wr 0x06 0x17a2;
  Wr 0x06 0x04ad; Wr 0x06 0xffef; Wr 0x06 0x96fe; Wr 0x06 0xfdfc; Wr 0x06 0x04f8; Wr 0x06 0xf9e0;
  Wr 0x06 0x8b85; Wr 0x06 0xad25; Wr 0x06 0x48e0; Wr 0x06 0x8a96; Wr 0x06 0xe18a; Wr 0x06 0x977c;
  Wr 0x06 0x0000; Wr 0x06 0x9e35; Wr 0x06 0xee8a; Wr 0x06 0x9600; Wr 0x06 0xee8a; Wr 0x06 0x9700;
  Wr 0x06 0xe08a; Wr 0x06 0xbee1; Wr 0x06 0x8abf; Wr 0x06 0xe286; Wr 0x06 0x10e3; Wr 0x06 0x8611;
  Wr 0x06 0x0236; Wr 0x06 0x1aad; Wr 0x06 0x2012; Wr 0x06 0xee8a; Wr 0x06 0x9603; Wr 0x06 0xee8a;
  Wr 0x06 0x97b7; Wr 0x06 0xee86; Wr 0x06 0x1000; Wr 0x06 0xee86; Wr 0x06 0x1100; Wr 0x06 0xae11;
  Wr 0x06 0x15e6; Wr 0x06 0x8610; Wr 0x06 0xe786; Wr 0x06 0x11ae; Wr 0x06 0x08ee; Wr 0x06 0x8610;
  Wr 0x06 0x00ee; Wr 0x06 0x8611; Wr 0x06 0x00fd; Wr 0x06 0xfc04; Wr 0x06 0xf8fa; Wr 0x06 0xef69;
  Wr 0x06 0xe0e0; Wr 0x06 0x00e1; Wr 0x06 0xe001; Wr 0x06 0xad27; Wr 0x06 0x32e0; Wr 0x06 0x8b40;
  Wr 0x06 0xf720; Wr 0x06 0xe48b; Wr 0x06 0x40bf; Wr 0x06 0x31f5; Wr 0x06 0x0236; Wr 0x06 0xf6ad;
  Wr 0x06 0x2821; Wr 0x06 0xe0e0; Wr 0x06 0x20e1; Wr 0x06 0xe021; Wr 0x06 0xad20; Wr 0x06 0x18e0;
  Wr 0x06 0x8b40; Wr 0x06 0xf620; Wr 0x06 0xe48b; Wr 0x06 0x40ee; Wr 0x06 0x8b3b; Wr 0x06 0xffe0;
  Wr 0x06 0x8a8a; Wr 0x06 0xe18a; Wr 0x06 0x8be4; Wr 0x06 0xe000].

Definition phy_mcu_8168evl_2_8 : list mop := [
  Wr 0x06 0xe5e0; Wr 0x06 0x01ef; Wr 0x06 0x96fe; Wr 0x06 0xfc04; Wr 0x06 0xf8fa; Wr 0x06 0xef69;
  Wr 0x06 0xe08b; Wr 0x06 0x80ad; Wr 0x06 0x2722; Wr 0x06 0xbf44; Wr 0x06 0xfc02; Wr 0x06 0x36f6;
  Wr 0x06 0xe08b; Wr 0x06 0x441f; Wr 0x06 0x019e; Wr 0x06 0x15e5; Wr 0x06 0x8b44; Wr 0x06 0xad29;
  Wr 0x06 0x07ac; Wr 0x06 0x2804; Wr 0x06 0xd101; Wr 0x06 0xae02; Wr 0x06 0xd100; Wr 0x06 0xbf85;
  Wr 0x06 0xb002; Wr 0x06 0x3723; Wr 0x06 0xef96; Wr 0x06 0xfefc; Wr 0x06 0x0400; Wr 0x06 0xe140;
  Wr 0x06 0x77e1; Wr 0x06 0x40dd; Wr 0x06 0xe022; Wr 0x06 0x32e1; Wr 0x06 0x5074; Wr 0x06 0xe144;
  Wr 0x06 0xffe0; Wr 0x06 0xdaff; Wr 0x06 0xe0c0; Wr 0x06 0x52e0; Wr 0x06 0xeed9; Wr 0x06 0xe04c;
  Wr 0x06 0xbbe0; Wr 0x06 0x2a00; Wr 0x05 0xe142; Mo 0x06 0 (BIT 0); Wr 0x05 0xe140; Mo 0x06 0 (BIT 0);
  Wr 0x1f 0x0000; Wr 0x1f 0x0005].

Definition phy_mcu_8168f_1_1 : list mop := [
  Wr 0x1f 0x0005; Wr 0x05 0xfff6; Wr 0x06 0x0080; Wr 0x1f 0x0007; Wr 0x1e 0x0023; Wr 0x16 0x0306;
  Wr 0x16 0x0307; Wr 0x15 0x0194; Wr 0x19 0x407D; Wr 0x15 0x0098; Wr 0x19 0x7c0b; Wr 0x15 0x0099;
  Wr 0x19 0x6c0b; Wr 0x15 0x00eb; Wr 0x19 0x6c0b; Wr 0x15 0x00f8; Wr 0x19 0x6f0b; Wr 0x15 0x00fe;
  Wr 0x19 0x6f0f; Wr 0x15 0x00db; Wr 0x19 0x6f09; Wr 0x15 0x00dc; Wr 0x19 0xaefd; Wr 0x15 0x00dd;
  Wr 0x19 0x6f0b; Wr 0x15 0x00de; Wr 0x19 0xc60b; Wr 0x15 0x00df; Wr 0x19 0x00fa; Wr 0x15 0x00e0;
  Wr 0x19 0x30e1; Wr 0x15 0x020c; Wr 0x19 0x3224; Wr 0x15 0x020e; Wr 0x19 0x9813; Wr 0x15 0x020f;
  Wr 0x19 0x7801; Wr 0x15 0x0210; Wr 0x19 0x930f; Wr 0x15 0x0211; Wr 0x19 0x9206; Wr 0x15 0x0212;
  Wr 0x19 0x4002; Wr 0x15 0x0213; Wr 0x19 0x7800; Wr 0x15 0x0214; Wr 0x19 0x588f; Wr 0x15 0x0215;
  Wr 0x19 0x5520; Wr 0x15 0x0216; Wr 0x19 0x3224; Wr 0x15 0x0217; Wr 0x19 0x4002; Wr 0x15 0x0218;
  Wr 0x19 0x7800; Wr 0x15 0x0219; Wr 0x19 0x588d; Wr 0x15 0x021a; Wr 0x19 0x5540; Wr 0x15 0x021b;
  Wr 0x19 0x9e03; Wr 0x15 0x021c; Wr 0x19 0x7c40; Wr 0x15 0x021d; Wr 0x19 0x6840; Wr 0x15 0x021e;
  Wr 0x19 0x3224; Wr 0x15 0x021f; Wr 0x19 0x4002; Wr 0x15 0x0220; Wr 0x19 0x3224; Wr 0x15 0x0221;
  Wr 0x19 0x9e03; Wr 0x15 0x0222; Wr 0x19 0x7c40; Wr 0x15 0x0223; Wr 0x19 0x6840; Wr 0x15 0x0224;
  Wr 0x19 0x7800; Wr 0x15 0x0225; Wr 0x19 0x3231; Wr 0x15 0x0000; Wr 0x16 0x0306; Wr 0x16 0x0300;
  Wr 0x1f 0x0000; Wr 0x1f 0x0005; Wr 0x05 0xfff6; Wr 0x06 0x0080; Wr 0x05 0x8000; Wr 0x06 0x0280;
  Wr 0x06 0x48f7; Wr 0x06 0x00e0; Wr 0x06 0xfff7; Wr 0x06 0xa080; Wr 0x06 0x02ae; Wr 0x06 0xf602;
  Wr 0x06 0x0118; Wr 0x06 0x0201; Wr 0x06 0x2502; Wr 0x06 0x8090; Wr 0x06 0x0201; Wr 0x06 0x4202;
  Wr 0x06 0x015c; Wr 0x06 0x0280; Wr 0x06 0xad02; Wr 0x06 0x80ca; Wr 0x06 0xe08b; Wr 0x06 0x88e1;
  Wr 0x06 0x8b89; Wr 0x06 0x1e01; Wr 0x06 0xe18b; Wr 0x06 0x8a1e; Wr 0x06 0x01e1; Wr 0x06 0x8b8b;
  Wr 0x06 0x1e01; Wr 0x06 0xe18b; Wr 0x06 0x8c1e; Wr 0x06 0x01e1; Wr 0x06 0x8b8d; Wr 0x06 0x1e01;
  Wr 0x06 0xe18b; Wr 0x06 0x8e1e; Wr 0x06 0x01a0; Wr 0x06 0x00c7; Wr 0x06 0xaebb; Wr 0x06 0xd484;
  Wr 0x06 0x3ce4; Wr 0x06 0x8b92; Wr 0x06 0xe58b; Wr 0x06 0x93ee; Wr 0x06 0x8ac8; Wr 0x06 0x03ee;
  Wr 0x06 0x8aca; Wr 0x06 0x60ee; Wr 0x06 0x8ac0; Wr 0x06 0x00ee; Wr 0x06 0x8ac1; Wr 0x06 0x00ee;
  Wr 0x06 0x8abe; Wr 0x06 0x07ee; Wr 0x06 0x8abf; Wr 0x06 0x73ee; Wr 0x06 0x8a95; Wr 0x06 0x02bf;
  Wr 0x06 0x8b88; Wr 0x06 0xec00; Wr 0x06 0x19a9; Wr 0x06 0x8b90].

Definition phy_mcu_8168f_1_2 : list mop := [
  Wr 0x06 0xf9ee; Wr 0x06 0xfff6; Wr 0x06 0x00ee; Wr 0x06 0xfff7; Wr 0x06 0xfed1; Wr 0x06 0x00bf;
  Wr 0x06 0x85a4; Wr 0x06 0x0238; Wr 0x06 0x7dd1; Wr 0x06 0x01bf; Wr 0x06 0x85a7; Wr 0x06 0x0238;
  Wr 0x06 0x7d04; Wr 0x06 0xf8e0; Wr 0x06 0x8b8a; Wr 0x06 0xad20; Wr 0x06 0x14ee; Wr 0x06 0x8b8a;
  Wr 0x06 0x0002; Wr 0x06 0x204b; Wr 0x06 0xe0e4; Wr 0x06 0x26e1; Wr 0x06 0xe427; Wr 0x06 0xeee4;
  Wr 0x06 0x2623; Wr 0x06 0xe5e4; Wr 0x06 0x27fc; Wr 0x06 0x04f8; Wr 0x06 0xe08b; Wr 0x06 0x8dad;
  Wr 0x06 0x2014; Wr 0x06 0xee8b; Wr 0x06 0x8d00; Wr 0x06 0xe08a; Wr 0x06 0x5a78; Wr 0x06 0x039e;
  Wr 0x06 0x0902; Wr 0x06 0x05e8; Wr 0x06 0x0281; Wr 0x06 0x4f02; Wr 0x06 0x326c; Wr 0x06 0xfc04;
  Wr 0x06 0xf8e0; Wr 0x06 0x8b8e; Wr 0x06 0xad20; Wr 0x06 0x1df6; Wr 0x06 0x20e4; Wr 0x06 0x8b8e;
  Wr 0x06 0x022f; Wr 0x06 0x0902; Wr 0x06 0x2ab0; Wr 0x06 0x0285; Wr 0x06 0x1602; Wr 0x06 0x03ba;
  Wr 0x06 0x0284; Wr 0x06 0xe502; Wr 0x06 0x2df1; Wr 0x06 0x0283; Wr 0x06 0x8302; Wr 0x06 0x0475;
  Wr 0x06 0xe08b; Wr 0x06 0x8ead; Wr 0x06 0x210b; Wr 0x06 0xf621; Wr 0x06 0xe48b; Wr 0x06 0x8e02;
  Wr 0x06 0x83f8; Wr 0x06 0x021c; Wr 0x06 0x99e0; Wr 0x06 0x8b8e; Wr 0x06 0xad22; Wr 0x06 0x08f6;
  Wr 0x06 0x22e4; Wr 0x06 0x8b8e; Wr 0x06 0x0235; Wr 0x06 0x63e0; Wr 0x06 0x8b8e; Wr 0x06 0xad23;
  Wr 0x06 0x08f6; Wr 0x06 0x23e4; Wr 0x06 0x8b8e; Wr 0x06 0x0231; Wr 0x06 0x57e0; Wr 0x06 0x8b8e;
  Wr 0x06 0xad24; Wr 0x06 0x05f6; Wr 0x06 0x24e4; Wr 0x06 0x8b8e; Wr 0x06 0xe08b; Wr 0x06 0x8ead;
  Wr 0x06 0x2505; Wr 0x06 0xf625; Wr 0x06 0xe48b; Wr 0x06 0x8ee0; Wr 0x06 0x8b8e; Wr 0x06 0xad26;
  Wr 0x06 0x08f6; Wr 0x06 0x26e4; Wr 0x06 0x8b8e; Wr 0x06 0x022d; Wr 0x06 0x1ce0; Wr 0x06 0x8b8e;
  Wr 0x06 0xad27; Wr 0x06 0x05f6; Wr 0x06 0x27e4; Wr 0x06 0x8b8e; Wr 0x06 0x0203; Wr 0x06 0x80fc;
  Wr 0x06 0x04f8; Wr 0x06 0xf9e0; Wr 0x06 0x8b81; Wr 0x06 0xac26; Wr 0x06 0x1ae0; Wr 0x06 0x8b81;
  Wr 0x06 0xac21; Wr 0x06 0x14e0; Wr 0x06 0x8b85; Wr 0x06 0xac20; Wr 0x06 0x0ee0; Wr 0x06 0x8b85;
  Wr 0x06 0xac23; Wr 0x06 0x08e0; Wr 0x06 0x8b87; Wr 0x06 0xac24; Wr 0x06 0x02ae; Wr 0x06 0x3802;
  Wr 0x06 0x1ac2; Wr 0x06 0xeee4; Wr 0x06 0x1c04; Wr 0x06 0xeee4; Wr 0x06 0x1d04; Wr 0x06 0xe2e0;
  Wr 0x06 0x7ce3; Wr 0x06 0xe07d; Wr 0x06 0xe0e0; Wr 0x06 0x38e1; Wr 0x06 0xe039; Wr 0x06 0xad2e;
  Wr 0x06 0x1bad; Wr 0x06 0x390d; Wr 0x06 0xd101; Wr 0x06 0xbf22; Wr 0x06 0x7a02; Wr 0x06 0x387d;
  Wr 0x06 0x0281; Wr 0x06 0xacae; Wr 0x06 0x0bac; Wr 0x06 0x3802].

Definition phy_mcu_8168f_1_3 : list mop := [
  Wr 0x06 0xae06; Wr 0x06 0x0281; Wr 0x06 0xe902; Wr 0x06 0x822e; Wr 0x06 0x021a; Wr 0x06 0xd3fd;
  Wr 0x06 0xfc04; Wr 0x06 0xf8e1; Wr 0x06 0x8af4; Wr 0x06 0xe08b; Wr 0x06 0x81ad; Wr 0x06 0x2602;
  Wr 0x06 0xf728; Wr 0x06 0xe08b; Wr 0x06 0x81ad; Wr 0x06 0x2105; Wr 0x06 0x0222; Wr 0x06 0x8ef7;
  Wr 0x06 0x29e0; Wr 0x06 0x8b85; Wr 0x06 0xad20; Wr 0x06 0x0502; Wr 0x06 0x14b8; Wr 0x06 0xf72a;
  Wr 0x06 0xe08b; Wr 0x06 0x85ad; Wr 0x06 0x2305; Wr 0x06 0x0212; Wr 0x06 0xf4f7; Wr 0x06 0x2be0;
  Wr 0x06 0x8b87; Wr 0x06 0xad24; Wr 0x06 0x0502; Wr 0x06 0x8284; Wr 0x06 0xf72c; Wr 0x06 0xe58a;
  Wr 0x06 0xf4fc; Wr 0x06 0x04f8; Wr 0x06 0xe08b; Wr 0x06 0x81ad; Wr 0x06 0x2600; Wr 0x06 0xe08b;
  Wr 0x06 0x81ad; Wr 0x06 0x2109; Wr 0x06 0xe08a; Wr 0x06 0xf4ac; Wr 0x06 0x2003; Wr 0x06 0x0222;
  Wr 0x06 0x7de0; Wr 0x06 0x8b85; Wr 0x06 0xad20; Wr 0x06 0x09e0; Wr 0x06 0x8af4; Wr 0x06 0xac21;
  Wr 0x06 0x0302; Wr 0x06 0x1408; Wr 0x06 0xe08b; Wr 0x06 0x85ad; Wr 0x06 0x2309; Wr 0x06 0xe08a;
  Wr 0x06 0xf4ac; Wr 0x06 0x2203; Wr 0x06 0x0213; Wr 0x06 0x07e0; Wr 0x06 0x8b87; Wr 0x06 0xad24;
  Wr 0x06 0x09e0; Wr 0x06 0x8af4; Wr 0x06 0xac23; Wr 0x06 0x0302; Wr 0x06 0x8289; Wr 0x06 0xfc04;
  Wr 0x06 0xf8e1; Wr 0x06 0x8af4; Wr 0x06 0xe08b; Wr 0x06 0x81ad; Wr 0x06 0x2602; Wr 0x06 0xf628;
  Wr 0x06 0xe08b; Wr 0x06 0x81ad; Wr 0x06 0x210a; Wr 0x06 0xe083; Wr 0x06 0xecf6; Wr 0x06 0x27a0;
  Wr 0x06 0x0502; Wr 0x06 0xf629; Wr 0x06 0xe08b; Wr 0x06 0x85ad; Wr 0x06 0x2008; Wr 0x06 0xe08a;
  Wr 0x06 0xe8ad; Wr 0x06 0x2102; Wr 0x06 0xf62a; Wr 0x06 0xe08b; Wr 0x06 0x85ad; Wr 0x06 0x2308;
  Wr 0x06 0xe08b; Wr 0x06 0x20a0; Wr 0x06 0x0302; Wr 0x06 0xf62b; Wr 0x06 0xe08b; Wr 0x06 0x87ad;
  Wr 0x06 0x2408; Wr 0x06 0xe08a; Wr 0x06 0xc2a0; Wr 0x06 0x0302; Wr 0x06 0xf62c; Wr 0x06 0xe58a;
  Wr 0x06 0xf4a1; Wr 0x06 0x0008; Wr 0x06 0xd100; Wr 0x06 0xbf22; Wr 0x06 0x7a02; Wr 0x06 0x387d;
  Wr 0x06 0xfc04; Wr 0x06 0xee8a; Wr 0x06 0xc200; Wr 0x06 0x04f8; Wr 0x06 0xe08b; Wr 0x06 0x87ad;
  Wr 0x06 0x241e; Wr 0x06 0xe08a; Wr 0x06 0xc2a0; Wr 0x06 0x0005; Wr 0x06 0x0282; Wr 0x06 0xb0ae;
  Wr 0x06 0xf5a0; Wr 0x06 0x0105; Wr 0x06 0x0282; Wr 0x06 0xc0ae; Wr 0x06 0x0ba0; Wr 0x06 0x0205;
  Wr 0x06 0x0282; Wr 0x06 0xcaae; Wr 0x06 0x03a0; Wr 0x06 0x0300; Wr 0x06 0xfc04; Wr 0x06 0xf8fa;
  Wr 0x06 0xef69; Wr 0x06 0x0282; Wr 0x06 0xe1ee; Wr 0x06 0x8ac2; Wr 0x06 0x01ef; Wr 0x06 0x96fe;
  Wr 0x06 0xfc04; Wr 0x06 0xf8ee; Wr 0x06 0x8ac9; Wr 0x06 0x0002].

Definition phy_mcu_8168f_1_4 : list mop := [
  Wr 0x06 0x8317; Wr 0x06 0xfc04; Wr 0x06 0xf8e0; Wr 0x06 0x8ac8; Wr 0x06 0xe18a; Wr 0x06 0xc91f;
  Wr 0x06 0x019e; Wr 0x06 0x0611; Wr 0x06 0xe58a; Wr 0x06 0xc9ae; Wr 0x06 0x04ee; Wr 0x06 0x8ac2;
  Wr 0x06 0x01fc; Wr 0x06 0x04f8; Wr 0x06 0xf9fa; Wr 0x06 0xef69; Wr 0x06 0xfbbf; Wr 0x06 0x8ac4;
  Wr 0x06 0xef79; Wr 0x06 0xd200; Wr 0x06 0xd400; Wr 0x06 0x221e; Wr 0x06 0x02bf; Wr 0x06 0x3024;
  Wr 0x06 0x0238; Wr 0x06 0x7dbf; Wr 0x06 0x13ff; Wr 0x06 0x0238; Wr 0x06 0x500d; Wr 0x06 0x4559;
  Wr 0x06 0x1fef; Wr 0x06 0x97dd; Wr 0x06 0xd308; Wr 0x06 0x1a93; Wr 0x06 0xdd12; Wr 0x06 0x17a2;
  Wr 0x06 0x04de; Wr 0x06 0xffef; Wr 0x06 0x96fe; Wr 0x06 0xfdfc; Wr 0x06 0x04f8; Wr 0x06 0xf9fa;
  Wr 0x06 0xef69; Wr 0x06 0xfbee; Wr 0x06 0x8ac2; Wr 0x06 0x03d5; Wr 0x06 0x0080; Wr 0x06 0xbf8a;
  Wr 0x06 0xc4ef; Wr 0x06 0x79ef; Wr 0x06 0x45bf; Wr 0x06 0x3024; Wr 0x06 0x0238; Wr 0x06 0x7dbf;
  Wr 0x06 0x13ff; Wr 0x06 0x0238; Wr 0x06 0x50ad; Wr 0x06 0x2702; Wr 0x06 0x78ff; Wr 0x06 0xe18a;
  Wr 0x06 0xca1b; Wr 0x06 0x01aa; Wr 0x06 0x2eef; Wr 0x06 0x97d9; Wr 0x06 0x7900; Wr 0x06 0x9e2b;
  Wr 0x06 0x81dd; Wr 0x06 0xbf85; Wr 0x06 0xad02; Wr 0x06 0x387d; Wr 0x06 0xd101; Wr 0x06 0xef02;
  Wr 0x06 0x100c; Wr 0x06 0x11b0; Wr 0x06 0xfc0d; Wr 0x06 0x11bf; Wr 0x06 0x85aa; Wr 0x06 0x0238;
  Wr 0x06 0x7dd1; Wr 0x06 0x00bf; Wr 0x06 0x85aa; Wr 0x06 0x0238; Wr 0x06 0x7dee; Wr 0x06 0x8ac2;
  Wr 0x06 0x02ae; Wr 0x06 0x0413; Wr 0x06 0xa38b; Wr 0x06 0xb4d3; Wr 0x06 0x8012; Wr 0x06 0x17a2;
  Wr 0x06 0x04ad; Wr 0x06 0xffef; Wr 0x06 0x96fe; Wr 0x06 0xfdfc; Wr 0x06 0x04f8; Wr 0x06 0xf9e0;
  Wr 0x06 0x8b85; Wr 0x06 0xad25; Wr 0x06 0x48e0; Wr 0x06 0x8a96; Wr 0x06 0xe18a; Wr 0x06 0x977c;
  Wr 0x06 0x0000; Wr 0x06 0x9e35; Wr 0x06 0xee8a; Wr 0x06 0x9600; Wr 0x06 0xee8a; Wr 0x06 0x9700;
  Wr 0x06 0xe08a; Wr 0x06 0xbee1; Wr 0x06 0x8abf; Wr 0x06 0xe28a; Wr 0x06 0xc0e3; Wr 0x06 0x8ac1;
  Wr 0x06 0x0237; Wr 0x06 0x74ad; Wr 0x06 0x2012; Wr 0x06 0xee8a; Wr 0x06 0x9603; Wr 0x06 0xee8a;
  Wr 0x06 0x97b7; Wr 0x06 0xee8a; Wr 0x06 0xc000; Wr 0x06 0xee8a; Wr 0x06 0xc100; Wr 0x06 0xae11;
  Wr 0x06 0x15e6; Wr 0x06 0x8ac0; Wr 0x06 0xe78a; Wr 0x06 0xc1ae; Wr 0x06 0x08ee; Wr 0x06 0x8ac0;
  Wr 0x06 0x00ee; Wr 0x06 0x8ac1; Wr 0x06 0x00fd; Wr 0x06 0xfc04; Wr 0x06 0xae20; Wr 0x06 0x0000;
  Wr 0x06 0x0000; Wr 0x06 0x0000; Wr 0x06 0x0000; Wr 0x06 0x0000; Wr 0x06 0x0000; Wr 0x06 0x0000;
  Wr 0x06 0x0000; Wr 0x06 0x0000; Wr 0x06 0x0000; Wr 0x06 0x0000].

Definition phy_mcu_8168f_1_5 : list mop := [
  Wr 0x06 0x0000; Wr 0x06 0x0000; Wr 0x06 0x0000; Wr 0x06 0x0000; Wr 0x06 0x0000; Wr 0x06 0xf8fa;
  Wr 0x06 0xef69; Wr 0x06 0xe0e0; Wr 0x06 0x00e1; Wr 0x06 0xe001; Wr 0x06 0xad27; Wr 0x06 0x32e0;
  Wr 0x06 0x8b40; Wr 0x06 0xf720; Wr 0x06 0xe48b; Wr 0x06 0x40bf; Wr 0x06 0x3230; Wr 0x06 0x0238;
  Wr 0x06 0x50ad; Wr 0x06 0x2821; Wr 0x06 0xe0e0; Wr 0x06 0x20e1; Wr 0x06 0xe021; Wr 0x06 0xad20;
  Wr 0x06 0x18e0; Wr 0x06 0x8b40; Wr 0x06 0xf620; Wr 0x06 0xe48b; Wr 0x06 0x40ee; Wr 0x06 0x8b3b;
  Wr 0x06 0xffe0; Wr 0x06 0x8a8a; Wr 0x06 0xe18a; Wr 0x06 0x8be4; Wr 0x06 0xe000; Wr 0x06 0xe5e0;
  Wr 0x06 0x01ef; Wr 0x06 0x96fe; Wr 0x06 0xfc04; Wr 0x06 0xf8f9; Wr 0x06 0xface; Wr 0x06 0xfaef;
  Wr 0x06 0x69fa; Wr 0x06 0xd401; Wr 0x06 0x55b4; Wr 0x06 0xfebf; Wr 0x06 0x1c1e; Wr 0x06 0x0238;
  Wr 0x06 0x50ac; Wr 0x06 0x280b; Wr 0x06 0xbf1c; Wr 0x06 0x1b02; Wr 0x06 0x3850; Wr 0x06 0xac28;
  Wr 0x06 0x49ae; Wr 0x06 0x64bf; Wr 0x06 0x1c1b; Wr 0x06 0x0238; Wr 0x06 0x50ac; Wr 0x06 0x285b;
  Wr 0x06 0xd000; Wr 0x06 0x0284; Wr 0x06 0xcaac; Wr 0x06 0x2105; Wr 0x06 0xac22; Wr 0x06 0x02ae;
  Wr 0x06 0x4ebf; Wr 0x06 0xe0c4; Wr 0x06 0xbe85; Wr 0x06 0xf6d2; Wr 0x06 0x04d8; Wr 0x06 0x19d9;
  Wr 0x06 0x1907; Wr 0x06 0xdc19; Wr 0x06 0xdd19; Wr 0x06 0x0789; Wr 0x06 0x89ef; Wr 0x06 0x645e;
  Wr 0x06 0x07ff; Wr 0x06 0x0d65; Wr 0x06 0x5cf8; Wr 0x06 0x001e; Wr 0x06 0x46dc; Wr 0x06 0x19dd;
  Wr 0x06 0x19b2; Wr 0x06 0xe2d4; Wr 0x06 0x0001; Wr 0x06 0xbf1c; Wr 0x06 0x1b02; Wr 0x06 0x387d;
  Wr 0x06 0xae1d; Wr 0x06 0xbee0; Wr 0x06 0xc4bf; Wr 0x06 0x85f6; Wr 0x06 0xd204; Wr 0x06 0xd819;
  Wr 0x06 0xd919; Wr 0x06 0x07dc; Wr 0x06 0x19dd; Wr 0x06 0x1907; Wr 0x06 0xb2f4; Wr 0x06 0xd400;
  Wr 0x06 0x00bf; Wr 0x06 0x1c1b; Wr 0x06 0x0238; Wr 0x06 0x7dfe; Wr 0x06 0xef96; Wr 0x06 0xfec6;
  Wr 0x06 0xfefd; Wr 0x06 0xfc05; Wr 0x06 0xf9e2; Wr 0x06 0xe0ea; Wr 0x06 0xe3e0; Wr 0x06 0xeb5a;
  Wr 0x06 0x070c; Wr 0x06 0x031e; Wr 0x06 0x20e6; Wr 0x06 0xe0ea; Wr 0x06 0xe7e0; Wr 0x06 0xebe0;
  Wr 0x06 0xe0fc; Wr 0x06 0xe1e0; Wr 0x06 0xfdfd; Wr 0x06 0x04f8; Wr 0x06 0xfaef; Wr 0x06 0x69e0;
  Wr 0x06 0x8b80; Wr 0x06 0xad27; Wr 0x06 0x22bf; Wr 0x06 0x4616; Wr 0x06 0x0238; Wr 0x06 0x50e0;
  Wr 0x06 0x8b44; Wr 0x06 0x1f01; Wr 0x06 0x9e15; Wr 0x06 0xe58b; Wr 0x06 0x44ad; Wr 0x06 0x2907;
  Wr 0x06 0xac28; Wr 0x06 0x04d1; Wr 0x06 0x01ae; Wr 0x06 0x02d1; Wr 0x06 0x00bf; Wr 0x06 0x85b0;
  Wr 0x06 0x0238; Wr 0x06 0x7def; Wr 0x06 0x96fe; Wr 0x06 0xfc04].

Definition phy_mcu_8168f_1_6 : list mop := [
  Wr 0x06 0xf8e0; Wr 0x06 0x8b85; Wr 0x06 0xad26; Wr 0x06 0x30e0; Wr 0x06 0xe036; Wr 0x06 0xe1e0;
  Wr 0x06 0x37e1; Wr 0x06 0x8b3f; Wr 0x06 0x1f10; Wr 0x06 0x9e23; Wr 0x06 0xe48b; Wr 0x06 0x3fac;
  Wr 0x06 0x200b; Wr 0x06 0xac21; Wr 0x06 0x0dac; Wr 0x06 0x250f; Wr 0x06 0xac27; Wr 0x06 0x11ae;
  Wr 0x06 0x1202; Wr 0x06 0x2c47; Wr 0x06 0xae0d; Wr 0x06 0x0285; Wr 0x06 0x4fae; Wr 0x06 0x0802;
  Wr 0x06 0x2c69; Wr 0x06 0xae03; Wr 0x06 0x022c; Wr 0x06 0x7cfc; Wr 0x06 0x04f8; Wr 0x06 0xfaef;
  Wr 0x06 0x6902; Wr 0x06 0x856c; Wr 0x06 0xe0e0; Wr 0x06 0x14e1; Wr 0x06 0xe015; Wr 0x06 0xad26;
  Wr 0x06 0x08d1; Wr 0x06 0x1ebf; Wr 0x06 0x2cd9; Wr 0x06 0x0238; Wr 0x06 0x7def; Wr 0x06 0x96fe;
  Wr 0x06 0xfc04; Wr 0x06 0xf8e0; Wr 0x06 0x8b85; Wr 0x06 0xad27; Wr 0x06 0x2fd0; Wr 0x06 0x0b02;
  Wr 0x06 0x3682; Wr 0x06 0x5882; Wr 0x06 0x7882; Wr 0x06 0x9f24; Wr 0x06 0xe08b; Wr 0x06 0x32e1;
  Wr 0x06 0x8b33; Wr 0x06 0x1f10; Wr 0x06 0x9e1a; Wr 0x06 0x10e4; Wr 0x06 0x8b32; Wr 0x06 0xe0e0;
  Wr 0x06 0x28e1; Wr 0x06 0xe029; Wr 0x06 0xf72c; Wr 0x06 0xe4e0; Wr 0x06 0x28e5; Wr 0x06 0xe029;
  Wr 0x06 0xf62c; Wr 0x06 0xe4e0; Wr 0x06 0x28e5; Wr 0x06 0xe029; Wr 0x06 0xfc04; Wr 0x06 0x00e1;
  Wr 0x06 0x4077; Wr 0x06 0xe140; Wr 0x06 0x52e0; Wr 0x06 0xeed9; Wr 0x06 0xe04c; Wr 0x06 0xbbe0;
  Wr 0x06 0x2a00; Wr 0x05 0xe142; Mo 0x06 0 (BIT 0); Wr 0x05 0xe140; Mo 0x06 0 (BIT 0); Wr 0x1f 0x0000;
  Wr 0x1f 0x0005].

Definition phy_mcu_8168f_1_7 : list mop := [
  Wr 0x1f 0x0000; Wr 0x1F 0x0003; Wr 0x09 0xA20F; Wr 0x1F 0x0000; Wr 0x1f 0x0003; Wr 0x01 0x328A;
  Wr 0x1f 0x0000; Wr 0x1f 0x0000; Wr 0x00 0x9200].

Definition phy_mcu_8168f_2_1 : list mop := [
  Wr 0x1f 0x0005; Wr 0x05 0xfff6; Wr 0x06 0x0080; Wr 0x1f 0x0007; Wr 0x1e 0x0023; Wr 0x16 0x0306;
  Wr 0x16 0x0307; Wr 0x15 0x0098; Wr 0x19 0x7c0b; Wr 0x15 0x0099; Wr 0x19 0x6c0b; Wr 0x15 0x00eb;
  Wr 0x19 0x6c0b; Wr 0x15 0x00f8; Wr 0x19 0x6f0b; Wr 0x15 0x00fe; Wr 0x19 0x6f0f; Wr 0x15 0x00db;
  Wr 0x19 0x6f09; Wr 0x15 0x00dc; Wr 0x19 0xaefd; Wr 0x15 0x00dd; Wr 0x19 0x6f0b; Wr 0x15 0x00de;
  Wr 0x19 0xc60b; Wr 0x15 0x00df; Wr 0x19 0x00fa; Wr 0x15 0x00e0; Wr 0x19 0x30e1; Wr 0x15 0x020c;
  Wr 0x19 0x3224; Wr 0x15 0x020e; Wr 0x19 0x9813; Wr 0x15 0x020f; Wr 0x19 0x7801; Wr 0x15 0x0210;
  Wr 0x19 0x930f; Wr 0x15 0x0211; Wr 0x19 0x9206; Wr 0x15 0x0212; Wr 0x19 0x4002; Wr 0x15 0x0213;
  Wr 0x19 0x7800; Wr 0x15 0x0214; Wr 0x19 0x588f; Wr 0x15 0x0215; Wr 0x19 0x5520; Wr 0x15 0x0216;
  Wr 0x19 0x3224; Wr 0x15 0x0217; Wr 0x19 0x4002; Wr 0x15 0x0218; Wr 0x19 0x7800; Wr 0x15 0x0219;
  Wr 0x19 0x588d; Wr 0x15 0x021a; Wr 0x19 0x5540; Wr 0x15 0x021b; Wr 0x19 0x9e03; Wr 0x15 0x021c;
  Wr 0x19 0x7c40; Wr 0x15 0x021d; Wr 0x19 0x6840; Wr 0x15 0x021e; Wr 0x19 0x3224; Wr 0x15 0x021f;
  Wr 0x19 0x4002; Wr 0x15 0x0220; Wr 0x19 0x3224; Wr 0x15 0x0221; Wr 0x19 0x9e03; Wr 0x15 0x0222;
  Wr 0x19 0x7c40; Wr 0x15 0x0223; Wr 0x19 0x6840; Wr 0x15 0x0224; Wr 0x19 0x7800; Wr 0x15 0x0225;
  Wr 0x19 0x3231; Wr 0x15 0x0000; Wr 0x16 0x0306; Wr 0x16 0x0300; Wr 0x1f 0x0000; Wr 0x1f 0x0005;
  Wr 0x05 0xfff6; Wr 0x06 0x0080; Wr 0x05 0x8000; Wr 0x06 0x0280; Wr 0x06 0x48f7; Wr 0x06 0x00e0;
  Wr 0x06 0xfff7; Wr 0x06 0xa080; Wr 0x06 0x02ae; Wr 0x06 0xf602; Wr 0x06 0x011b; Wr 0x06 0x0201;
  Wr 0x06 0x2802; Wr 0x06 0x0135; Wr 0x06 0x0201; Wr 0x06 0x4502; Wr 0x06 0x015f; Wr 0x06 0x0280;
  Wr 0x06 0x6b02; Wr 0x06 0x80e5; Wr 0x06 0xe08b; Wr 0x06 0x88e1; Wr 0x06 0x8b89; Wr 0x06 0x1e01;
  Wr 0x06 0xe18b; Wr 0x06 0x8a1e; Wr 0x06 0x01e1; Wr 0x06 0x8b8b; Wr 0x06 0x1e01; Wr 0x06 0xe18b;
  Wr 0x06 0x8c1e; Wr 0x06 0x01e1; Wr 0x06 0x8b8d; Wr 0x06 0x1e01; Wr 0x06 0xe18b; Wr 0x06 0x8e1e;
  Wr 0x06 0x01a0; Wr 0x06 0x00c7; Wr 0x06 0xaebb; Wr 0x06 0xbf8b; Wr 0x06 0x88ec; Wr 0x06 0x0019;
  Wr 0x06 0xa98b; Wr 0x06 0x90f9; Wr 0x06 0xeeff; Wr 0x06 0xf600; Wr 0x06 0xeeff; Wr 0x06 0xf7fe;
  Wr 0x06 0xd100; Wr 0x06 0xbf81; Wr 0x06 0x9802; Wr 0x06 0x39f3; Wr 0x06 0xd101; Wr 0x06 0xbf81;
  Wr 0x06 0x9b02; Wr 0x06 0x39f3; Wr 0x06 0x04f8; Wr 0x06 0xe08b; Wr 0x06 0x8dad; Wr 0x06 0x2014;
  Wr 0x06 0xee8b; Wr 0x06 0x8d00; Wr 0x06 0xe08a; Wr 0x06 0x5a78].

Definition phy_mcu_8168f_2_2 : list mop := [
  Wr 0x06 0x039e; Wr 0x06 0x0902; Wr 0x06 0x05fc; Wr 0x06 0x0280; Wr 0x06 0x8802; Wr 0x06 0x32dd;
  Wr 0x06 0xfc04; Wr 0x06 0xf8f9; Wr 0x06 0xe08b; Wr 0x06 0x81ac; Wr 0x06 0x261a; Wr 0x06 0xe08b;
  Wr 0x06 0x81ac; Wr 0x06 0x2114; Wr 0x06 0xe08b; Wr 0x06 0x85ac; Wr 0x06 0x200e; Wr 0x06 0xe08b;
  Wr 0x06 0x85ac; Wr 0x06 0x2308; Wr 0x06 0xe08b; Wr 0x06 0x87ac; Wr 0x06 0x2402; Wr 0x06 0xae38;
  Wr 0x06 0x021a; Wr 0x06 0xd6ee; Wr 0x06 0xe41c; Wr 0x06 0x04ee; Wr 0x06 0xe41d; Wr 0x06 0x04e2;
  Wr 0x06 0xe07c; Wr 0x06 0xe3e0; Wr 0x06 0x7de0; Wr 0x06 0xe038; Wr 0x06 0xe1e0; Wr 0x06 0x39ad;
  Wr 0x06 0x2e1b; Wr 0x06 0xad39; Wr 0x06 0x0dd1; Wr 0x06 0x01bf; Wr 0x06 0x22c8; Wr 0x06 0x0239;
  Wr 0x06 0xf302; Wr 0x06 0x21f0; Wr 0x06 0xae0b; Wr 0x06 0xac38; Wr 0x06 0x02ae; Wr 0x06 0x0602;
  Wr 0x06 0x222d; Wr 0x06 0x0222; Wr 0x06 0x7202; Wr 0x06 0x1ae7; Wr 0x06 0xfdfc; Wr 0x06 0x04f8;
  Wr 0x06 0xe08b; Wr 0x06 0x8ead; Wr 0x06 0x201a; Wr 0x06 0xf620; Wr 0x06 0xe48b; Wr 0x06 0x8e02;
  Wr 0x06 0x2afe; Wr 0x06 0x022c; Wr 0x06 0x5c02; Wr 0x06 0x03c5; Wr 0x06 0x0281; Wr 0x06 0x6702;
  Wr 0x06 0x2e4f; Wr 0x06 0x0204; Wr 0x06 0x8902; Wr 0x06 0x2f7a; Wr 0x06 0xe08b; Wr 0x06 0x8ead;
  Wr 0x06 0x210b; Wr 0x06 0xf621; Wr 0x06 0xe48b; Wr 0x06 0x8e02; Wr 0x06 0x0445; Wr 0x06 0x021c;
  Wr 0x06 0xb8e0; Wr 0x06 0x8b8e; Wr 0x06 0xad22; Wr 0x06 0x08f6; Wr 0x06 0x22e4; Wr 0x06 0x8b8e;
  Wr 0x06 0x0235; Wr 0x06 0xd4e0; Wr 0x06 0x8b8e; Wr 0x06 0xad23; Wr 0x06 0x08f6; Wr 0x06 0x23e4;
  Wr 0x06 0x8b8e; Wr 0x06 0x0231; Wr 0x06 0xc8e0; Wr 0x06 0x8b8e; Wr 0x06 0xad24; Wr 0x06 0x05f6;
  Wr 0x06 0x24e4; Wr 0x06 0x8b8e; Wr 0x06 0xe08b; Wr 0x06 0x8ead; Wr 0x06 0x2505; Wr 0x06 0xf625;
  Wr 0x06 0xe48b; Wr 0x06 0x8ee0; Wr 0x06 0x8b8e; Wr 0x06 0xad26; Wr 0x06 0x08f6; Wr 0x06 0x26e4;
  Wr 0x06 0x8b8e; Wr 0x06 0x022d; Wr 0x06 0x6ae0; Wr 0x06 0x8b8e; Wr 0x06 0xad27; Wr 0x06 0x05f6;
  Wr 0x06 0x27e4; Wr 0x06 0x8b8e; Wr 0x06 0x0203; Wr 0x06 0x8bfc; Wr 0x06 0x04f8; Wr 0x06 0xfaef;
  Wr 0x06 0x69e0; Wr 0x06 0x8b80; Wr 0x06 0xad27; Wr 0x06 0x22bf; Wr 0x06 0x479a; Wr 0x06 0x0239;
  Wr 0x06 0xc6e0; Wr 0x06 0x8b44; Wr 0x06 0x1f01; Wr 0x06 0x9e15; Wr 0x06 0xe58b; Wr 0x06 0x44ad;
  Wr 0x06 0x2907; Wr 0x06 0xac28; Wr 0x06 0x04d1; Wr 0x06 0x01ae; Wr 0x06 0x02d1; Wr 0x06 0x00bf;
  Wr 0x06 0x819e; Wr 0x06 0x0239; Wr 0x06 0xf3ef; Wr 0x06 0x96fe; Wr 0x06 0xfc04; Wr 0x06 0x00e1;
  Wr 0x06 0x4077; Wr 0x06 0xe140; Wr 0x06 0xbbe0; Wr 0x06 0x2a00].

Definition phy_mcu_8168f_2_3 : list mop := [
  Wr 0x05 0xe142; Mo 0x06 0 (BIT 0); Wr 0x05 0xe140; Mo 0x06 0 (BIT 0); Wr 0x1f 0x0000; Wr 0x1f 0x0005].

Definition phy_mcu_8411_1_1 : list mop := [
  Wr 0x1f 0x0005; Wr 0x05 0xfff6; Wr 0x06 0x0080; Wr 0x1f 0x0007; Wr 0x1e 0x0023; Wr 0x16 0x0306;
  Wr 0x16 0x0307; Wr 0x15 0x0098; Wr 0x19 0x7c0b; Wr 0x15 0x0099; Wr 0x19 0x6c0b; Wr 0x15 0x00eb;
  Wr 0x19 0x6c0b; Wr 0x15 0x00f8; Wr 0x19 0x6f0b; Wr 0x15 0x00fe; Wr 0x19 0x6f0f; Wr 0x15 0x00db;
  Wr 0x19 0x6f09; Wr 0x15 0x00dc; Wr 0x19 0xaefd; Wr 0x15 0x00dd; Wr 0x19 0x6f0b; Wr 0x15 0x00de;
  Wr 0x19 0xc60b; Wr 0x15 0x00df; Wr 0x19 0x00fa; Wr 0x15 0x00e0; Wr 0x19 0x30e1; Wr 0x15 0x020c;
  Wr 0x19 0x3224; Wr 0x15 0x020e; Wr 0x19 0x9813; Wr 0x15 0x020f; Wr 0x19 0x7801; Wr 0x15 0x0210;
  Wr 0x19 0x930f; Wr 0x15 0x0211; Wr 0x19 0x9206; Wr 0x15 0x0212; Wr 0x19 0x4002; Wr 0x15 0x0213;
  Wr 0x19 0x7800; Wr 0x15 0x0214; Wr 0x19 0x588f; Wr 0x15 0x0215; Wr 0x19 0x5520; Wr 0x15 0x0216;
  Wr 0x19 0x3224; Wr 0x15 0x0217; Wr 0x19 0x4002; Wr 0x15 0x0218; Wr 0x19 0x7800; Wr 0x15 0x0219;
  Wr 0x19 0x588d; Wr 0x15 0x021a; Wr 0x19 0x5540; Wr 0x15 0x021b; Wr 0x19 0x9e03; Wr 0x15 0x021c;
  Wr 0x19 0x7c40; Wr 0x15 0x021d; Wr 0x19 0x6840; Wr 0x15 0x021e; Wr 0x19 0x3224; Wr 0x15 0x021f;
  Wr 0x19 0x4002; Wr 0x15 0x0220; Wr 0x19 0x3224; Wr 0x15 0x0221; Wr 0x19 0x9e03; Wr 0x15 0x0222;
  Wr 0x19 0x7c40; Wr 0x15 0x0223; Wr 0x19 0x6840; Wr 0x15 0x0224; Wr 0x19 0x7800; Wr 0x15 0x0225;
  Wr 0x19 0x3231; Wr 0x15 0x0000; Wr 0x16 0x0306; Wr 0x16 0x0300; Wr 0x1f 0x0000; Wr 0x1f 0x0005;
  Wr 0x05 0xfff6; Wr 0x06 0x0080; Wr 0x05 0x8000; Wr 0x06 0x0280; Wr 0x06 0x48f7; Wr 0x06 0x00e0;
  Wr 0x06 0xfff7; Wr 0x06 0xa080; Wr 0x06 0x02ae; Wr 0x06 0xf602; Wr 0x06 0x011e; Wr 0x06 0x0201;
  Wr 0x06 0x2b02; Wr 0x06 0x8077; Wr 0x06 0x0201; Wr 0x06 0x4802; Wr 0x06 0x0162; Wr 0x06 0x0280;
  Wr 0x06 0x9402; Wr 0x06 0x810e; Wr 0x06 0xe08b; Wr 0x06 0x88e1; Wr 0x06 0x8b89; Wr 0x06 0x1e01;
  Wr 0x06 0xe18b; Wr 0x06 0x8a1e; Wr 0x06 0x01e1; Wr 0x06 0x8b8b; Wr 0x06 0x1e01; Wr 0x06 0xe18b;
  Wr 0x06 0x8c1e; Wr 0x06 0x01e1; Wr 0x06 0x8b8d; Wr 0x06 0x1e01; Wr 0x06 0xe18b; Wr 0x06 0x8e1e;
  Wr 0x06 0x01a0; Wr 0x06 0x00c7; Wr 0x06 0xaebb; Wr 0x06 0xd481; Wr 0x06 0xd4e4; Wr 0x06 0x8b92;
  Wr 0x06 0xe58b; Wr 0x06 0x9302; Wr 0x06 0x2e5a; Wr 0x06 0xbf8b; Wr 0x06 0x88ec; Wr 0x06 0x0019;
  Wr 0x06 0xa98b; Wr 0x06 0x90f9; Wr 0x06 0xeeff; Wr 0x06 0xf600; Wr 0x06 0xeeff; Wr 0x06 0xf7fc;
  Wr 0x06 0xd100; Wr 0x06 0xbf83; Wr 0x06 0x3c02; Wr 0x06 0x3a21; Wr 0x06 0xd101; Wr 0x06 0xbf83;
  Wr 0x06 0x3f02; Wr 0x06 0x3a21; Wr 0x06 0x04f8; Wr 0x06 0xe08b].

Definition phy_mcu_8411_1_2 : list mop := [
  Wr 0x06 0x8aad; Wr 0x06 0x2014; Wr 0x06 0xee8b; Wr 0x06 0x8a00; Wr 0x06 0x0220; Wr 0x06 0x8be0;
  Wr 0x06 0xe426; Wr 0x06 0xe1e4; Wr 0x06 0x27ee; Wr 0x06 0xe426; Wr 0x06 0x23e5; Wr 0x06 0xe427;
  Wr 0x06 0xfc04; Wr 0x06 0xf8e0; Wr 0x06 0x8b8d; Wr 0x06 0xad20; Wr 0x06 0x14ee; Wr 0x06 0x8b8d;
  Wr 0x06 0x00e0; Wr 0x06 0x8a5a; Wr 0x06 0x7803; Wr 0x06 0x9e09; Wr 0x06 0x0206; Wr 0x06 0x2802;
  Wr 0x06 0x80b1; Wr 0x06 0x0232; Wr 0x06 0xfdfc; Wr 0x06 0x04f8; Wr 0x06 0xf9e0; Wr 0x06 0x8b81;
  Wr 0x06 0xac26; Wr 0x06 0x1ae0; Wr 0x06 0x8b81; Wr 0x06 0xac21; Wr 0x06 0x14e0; Wr 0x06 0x8b85;
  Wr 0x06 0xac20; Wr 0x06 0x0ee0; Wr 0x06 0x8b85; Wr 0x06 0xac23; Wr 0x06 0x08e0; Wr 0x06 0x8b87;
  Wr 0x06 0xac24; Wr 0x06 0x02ae; Wr 0x06 0x3802; Wr 0x06 0x1b02; Wr 0x06 0xeee4; Wr 0x06 0x1c04;
  Wr 0x06 0xeee4; Wr 0x06 0x1d04; Wr 0x06 0xe2e0; Wr 0x06 0x7ce3; Wr 0x06 0xe07d; Wr 0x06 0xe0e0;
  Wr 0x06 0x38e1; Wr 0x06 0xe039; Wr 0x06 0xad2e; Wr 0x06 0x1bad; Wr 0x06 0x390d; Wr 0x06 0xd101;
  Wr 0x06 0xbf22; Wr 0x06 0xe802; Wr 0x06 0x3a21; Wr 0x06 0x0222; Wr 0x06 0x10ae; Wr 0x06 0x0bac;
  Wr 0x06 0x3802; Wr 0x06 0xae06; Wr 0x06 0x0222; Wr 0x06 0x4d02; Wr 0x06 0x2292; Wr 0x06 0x021b;
  Wr 0x06 0x13fd; Wr 0x06 0xfc04; Wr 0x06 0xf8e0; Wr 0x06 0x8b8e; Wr 0x06 0xad20; Wr 0x06 0x1af6;
  Wr 0x06 0x20e4; Wr 0x06 0x8b8e; Wr 0x06 0x022b; Wr 0x06 0x1e02; Wr 0x06 0x82ae; Wr 0x06 0x0203;
  Wr 0x06 0xc002; Wr 0x06 0x827d; Wr 0x06 0x022e; Wr 0x06 0x6f02; Wr 0x06 0x047b; Wr 0x06 0x022f;
  Wr 0x06 0x9ae0; Wr 0x06 0x8b8e; Wr 0x06 0xad21; Wr 0x06 0x0bf6; Wr 0x06 0x21e4; Wr 0x06 0x8b8e;
  Wr 0x06 0x0281; Wr 0x06 0x9002; Wr 0x06 0x1cd9; Wr 0x06 0xe08b; Wr 0x06 0x8ead; Wr 0x06 0x2208;
  Wr 0x06 0xf622; Wr 0x06 0xe48b; Wr 0x06 0x8e02; Wr 0x06 0x35f4; Wr 0x06 0xe08b; Wr 0x06 0x8ead;
  Wr 0x06 0x2308; Wr 0x06 0xf623; Wr 0x06 0xe48b; Wr 0x06 0x8e02; Wr 0x06 0x31e8; Wr 0x06 0xe08b;
  Wr 0x06 0x8ead; Wr 0x06 0x2405; Wr 0x06 0xf624; Wr 0x06 0xe48b; Wr 0x06 0x8ee0; Wr 0x06 0x8b8e;
  Wr 0x06 0xad25; Wr 0x06 0x05f6; Wr 0x06 0x25e4; Wr 0x06 0x8b8e; Wr 0x06 0xe08b; Wr 0x06 0x8ead;
  Wr 0x06 0x2608; Wr 0x06 0xf626; Wr 0x06 0xe48b; Wr 0x06 0x8e02; Wr 0x06 0x2d8a; Wr 0x06 0xe08b;
  Wr 0x06 0x8ead; Wr 0x06 0x2705; Wr 0x06 0xf627; Wr 0x06 0xe48b; Wr 0x06 0x8e02; Wr 0x06 0x0386;
  Wr 0x06 0xfc04; Wr 0x06 0xf8fa; Wr 0x06 0xef69; Wr 0x06 0xe0e0; Wr 0x06 0x00e1; Wr 0x06 0xe001;
  Wr 0x06 0xad27; Wr 0x06 0x32e0; Wr 0x06 0x8b40; Wr 0x06 0xf720].

Definition phy_mcu_8411_1_3 : list mop := [
  Wr 0x06 0xe48b; Wr 0x06 0x40bf; Wr 0x06 0x32c1; Wr 0x06 0x0239; Wr 0x06 0xf4ad; Wr 0x06 0x2821;
  Wr 0x06 0xe0e0; Wr 0x06 0x20e1; Wr 0x06 0xe021; Wr 0x06 0xad20; Wr 0x06 0x18e0; Wr 0x06 0x8b40;
  Wr 0x06 0xf620; Wr 0x06 0xe48b; Wr 0x06 0x40ee; Wr 0x06 0x8b3b; Wr 0x06 0xffe0; Wr 0x06 0x8a8a;
  Wr 0x06 0xe18a; Wr 0x06 0x8be4; Wr 0x06 0xe000; Wr 0x06 0xe5e0; Wr 0x06 0x01ef; Wr 0x06 0x96fe;
  Wr 0x06 0xfc04; Wr 0x06 0xf8f9; Wr 0x06 0xface; Wr 0x06 0xfaef; Wr 0x06 0x69fa; Wr 0x06 0xd401;
  Wr 0x06 0x55b4; Wr 0x06 0xfebf; Wr 0x06 0x1c5e; Wr 0x06 0x0239; Wr 0x06 0xf4ac; Wr 0x06 0x280b;
  Wr 0x06 0xbf1c; Wr 0x06 0x5b02; Wr 0x06 0x39f4; Wr 0x06 0xac28; Wr 0x06 0x49ae; Wr 0x06 0x64bf;
  Wr 0x06 0x1c5b; Wr 0x06 0x0239; Wr 0x06 0xf4ac; Wr 0x06 0x285b; Wr 0x06 0xd000; Wr 0x06 0x0282;
  Wr 0x06 0x62ac; Wr 0x06 0x2105; Wr 0x06 0xac22; Wr 0x06 0x02ae; Wr 0x06 0x4ebf; Wr 0x06 0xe0c4;
  Wr 0x06 0xbe85; Wr 0x06 0xecd2; Wr 0x06 0x04d8; Wr 0x06 0x19d9; Wr 0x06 0x1907; Wr 0x06 0xdc19;
  Wr 0x06 0xdd19; Wr 0x06 0x0789; Wr 0x06 0x89ef; Wr 0x06 0x645e; Wr 0x06 0x07ff; Wr 0x06 0x0d65;
  Wr 0x06 0x5cf8; Wr 0x06 0x001e; Wr 0x06 0x46dc; Wr 0x06 0x19dd; Wr 0x06 0x19b2; Wr 0x06 0xe2d4;
  Wr 0x06 0x0001; Wr 0x06 0xbf1c; Wr 0x06 0x5b02; Wr 0x06 0x3a21; Wr 0x06 0xae1d; Wr 0x06 0xbee0;
  Wr 0x06 0xc4bf; Wr 0x06 0x85ec; Wr 0x06 0xd204; Wr 0x06 0xd819; Wr 0x06 0xd919; Wr 0x06 0x07dc;
  Wr 0x06 0x19dd; Wr 0x06 0x1907; Wr 0x06 0xb2f4; Wr 0x06 0xd400; Wr 0x06 0x00bf; Wr 0x06 0x1c5b;
  Wr 0x06 0x023a; Wr 0x06 0x21fe; Wr 0x06 0xef96; Wr 0x06 0xfec6; Wr 0x06 0xfefd; Wr 0x06 0xfc05;
  Wr 0x06 0xf9e2; Wr 0x06 0xe0ea; Wr 0x06 0xe3e0; Wr 0x06 0xeb5a; Wr 0x06 0x070c; Wr 0x06 0x031e;
  Wr 0x06 0x20e6; Wr 0x06 0xe0ea; Wr 0x06 0xe7e0; Wr 0x06 0xebe0; Wr 0x06 0xe0fc; Wr 0x06 0xe1e0;
  Wr 0x06 0xfdfd; Wr 0x06 0x04f8; Wr 0x06 0xfaef; Wr 0x06 0x69e0; Wr 0x06 0x8b80; Wr 0x06 0xad27;
  Wr 0x06 0x22bf; Wr 0x06 0x47ba; Wr 0x06 0x0239; Wr 0x06 0xf4e0; Wr 0x06 0x8b44; Wr 0x06 0x1f01;
  Wr 0x06 0x9e15; Wr 0x06 0xe58b; Wr 0x06 0x44ad; Wr 0x06 0x2907; Wr 0x06 0xac28; Wr 0x06 0x04d1;
  Wr 0x06 0x01ae; Wr 0x06 0x02d1; Wr 0x06 0x00bf; Wr 0x06 0x8342; Wr 0x06 0x023a; Wr 0x06 0x21ef;
  Wr 0x06 0x96fe; Wr 0x06 0xfc04; Wr 0x06 0xf8e0; Wr 0x06 0x8b85; Wr 0x06 0xad26; Wr 0x06 0x30e0;
  Wr 0x06 0xe036; Wr 0x06 0xe1e0; Wr 0x06 0x37e1; Wr 0x06 0x8b3f; Wr 0x06 0x1f10; Wr 0x06 0x9e23;
  Wr 0x06 0xe48b; Wr 0x06 0x3fac; Wr 0x06 0x200b; Wr 0x06 0xac21].

Definition phy_mcu_8411_1_4 : list mop := [
  Wr 0x06 0x0dac; Wr 0x06 0x250f; Wr 0x06 0xac27; Wr 0x06 0x11ae; Wr 0x06 0x1202; Wr 0x06 0x2cb5;
  Wr 0x06 0xae0d; Wr 0x06 0x0282; Wr 0x06 0xe7ae; Wr 0x06 0x0802; Wr 0x06 0x2cd7; Wr 0x06 0xae03;
  Wr 0x06 0x022c; Wr 0x06 0xeafc; Wr 0x06 0x04f8; Wr 0x06 0xfaef; Wr 0x06 0x6902; Wr 0x06 0x8304;
  Wr 0x06 0xe0e0; Wr 0x06 0x14e1; Wr 0x06 0xe015; Wr 0x06 0xad26; Wr 0x06 0x08d1; Wr 0x06 0x1ebf;
  Wr 0x06 0x2d47; Wr 0x06 0x023a; Wr 0x06 0x21ef; Wr 0x06 0x96fe; Wr 0x06 0xfc04; Wr 0x06 0xf8e0;
  Wr 0x06 0x8b85; Wr 0x06 0xad27; Wr 0x06 0x2fd0; Wr 0x06 0x0b02; Wr 0x06 0x3826; Wr 0x06 0x5882;
  Wr 0x06 0x7882; Wr 0x06 0x9f24; Wr 0x06 0xe08b; Wr 0x06 0x32e1; Wr 0x06 0x8b33; Wr 0x06 0x1f10;
  Wr 0x06 0x9e1a; Wr 0x06 0x10e4; Wr 0x06 0x8b32; Wr 0x06 0xe0e0; Wr 0x06 0x28e1; Wr 0x06 0xe029;
  Wr 0x06 0xf72c; Wr 0x06 0xe4e0; Wr 0x06 0x28e5; Wr 0x06 0xe029; Wr 0x06 0xf62c; Wr 0x06 0xe4e0;
  Wr 0x06 0x28e5; Wr 0x06 0xe029; Wr 0x06 0xfc04; Wr 0x06 0x00e1; Wr 0x06 0x4077; Wr 0x06 0xe140;
  Wr 0x06 0xbbe0; Wr 0x06 0x2a00; Wr 0x05 0xe142; Mo 0x06 0 (BIT 0); Wr 0x05 0xe140; Mo 0x06 0 (BIT 0);
  Wr 0x1f 0x0000; Wr 0x1f 0x0005].

Definition phy_mcu_8411_1_5 : list mop := [
  Wr 0x1f 0x0000; Wr 0x1F 0x0003; Wr 0x09 0xA20F; Wr 0x1F 0x0000; Wr 0x1f 0x0003; Wr 0x01 0x328A;
  Wr 0x1f 0x0000; Wr 0x1f 0x0000; Wr 0x00 0x9200].

Definition phy_mcu_8168g_1_1 : list mop := [
  Wr 0x1f 0x0A43; Wr 0x13 0x8146; Wr 0x14 0x2300; Wr 0x13 0xB820; Wr 0x14 0x0210; Wr 0x1F 0x0A43;
  Wr 0x13 0xB820; Wr 0x14 0x0290; Wr 0x13 0xA012; Wr 0x14 0x0000; Wr 0x13 0xA014; Wr 0x14 0x2c04;
  Wr 0x14 0x2c0c; Wr 0x14 0x2c6c; Wr 0x14 0x2d0d; Wr 0x14 0x31ce; Wr 0x14 0x506d; Wr 0x14 0xd708;
  Wr 0x14 0x3108; Wr 0x14 0x106d; Wr 0x14 0x1560; Wr 0x14 0x15a9; Wr 0x14 0x206e; Wr 0x14 0x175b;
  Wr 0x14 0x6062; Wr 0x14 0xd700; Wr 0x14 0x5fae; Wr 0x14 0xd708; Wr 0x14 0x3107; Wr 0x14 0x4c1e;
  Wr 0x14 0x4169; Wr 0x14 0x316a; Wr 0x14 0x0c19; Wr 0x14 0x31aa; Wr 0x14 0x0c19; Wr 0x14 0x2c1b;
  Wr 0x14 0x5e62; Wr 0x14 0x26b5; Wr 0x14 0x31ab; Wr 0x14 0x5c1e; Wr 0x14 0x2c0c; Wr 0x14 0xc040;
  Wr 0x14 0x8808; Wr 0x14 0xc520; Wr 0x14 0xc421; Wr 0x14 0xd05a; Wr 0x14 0xd19a; Wr 0x14 0xd709;
  Wr 0x14 0x608f; Wr 0x14 0xd06b; Wr 0x14 0xd18a; Wr 0x14 0x2c2c; Wr 0x14 0xd0be; Wr 0x14 0xd188;
  Wr 0x14 0x2c2c; Wr 0x14 0xd708; Wr 0x14 0x4072; Wr 0x14 0xc104; Wr 0x14 0x2c3e; Wr 0x14 0x4076;
  Wr 0x14 0xc110; Wr 0x14 0x2c3e; Wr 0x14 0x4071; Wr 0x14 0xc102; Wr 0x14 0x2c3e; Wr 0x14 0x4070;
  Wr 0x14 0xc101; Wr 0x14 0x2c3e; Wr 0x14 0x175b; Wr 0x14 0xd709; Wr 0x14 0x3390; Wr 0x14 0x5c39;
  Wr 0x14 0x2c4e; Wr 0x14 0x175b; Wr 0x14 0xd708; Wr 0x14 0x6193; Wr 0x14 0xd709; Wr 0x14 0x5f9d;
  Wr 0x14 0x408b; Wr 0x14 0xd71e; Wr 0x14 0x6042; Wr 0x14 0xb401; Wr 0x14 0x175b; Wr 0x14 0xd708;
  Wr 0x14 0x6073; Wr 0x14 0x5fbc; Wr 0x14 0x2c4d; Wr 0x14 0x26ed; Wr 0x14 0xb280; Wr 0x14 0xa841;
  Wr 0x14 0x9420; Wr 0x14 0x8710; Wr 0x14 0xd709; Wr 0x14 0x42ec; Wr 0x14 0x606d; Wr 0x14 0xd207;
  Wr 0x14 0x2c57; Wr 0x14 0xd203; Wr 0x14 0x33ff; Wr 0x14 0x563b; Wr 0x14 0x3275; Wr 0x14 0x7c5e;
  Wr 0x14 0xb240; Wr 0x14 0xb402; Wr 0x14 0x263b; Wr 0x14 0x6096; Wr 0x14 0xb240; Wr 0x14 0xb406;
  Wr 0x14 0x263b; Wr 0x14 0x31d7; Wr 0x14 0x7c67; Wr 0x14 0xb240; Wr 0x14 0xb40e; Wr 0x14 0x263b;
  Wr 0x14 0xb410; Wr 0x14 0x8802; Wr 0x14 0xb240; Wr 0x14 0x940e; Wr 0x14 0x263b; Wr 0x14 0xba04;
  Wr 0x14 0x1cd6; Wr 0x14 0xa902; Wr 0x14 0xd711; Wr 0x14 0x4045; Wr 0x14 0xa980; Wr 0x14 0x3003;
  Wr 0x14 0x59b1; Wr 0x14 0xa540; Wr 0x14 0xa601; Wr 0x14 0xd710; Wr 0x14 0x4043; Wr 0x14 0xa910;
  Wr 0x14 0xd711; Wr 0x14 0x60a0; Wr 0x14 0xca33; Wr 0x14 0xcb33; Wr 0x14 0xa941; Wr 0x14 0x2c82;
  Wr 0x14 0xcaff; Wr 0x14 0xcbff; Wr 0x14 0xa921; Wr 0x14 0xce02; Wr 0x14 0xe070; Wr 0x14 0x0f10;
  Wr 0x14 0xaf01; Wr 0x14 0x8f01; Wr 0x14 0x1766].

Definition phy_mcu_8168g_1_2 : list mop := [
  Wr 0x14 0x8e02; Wr 0x14 0x1787; Wr 0x14 0xd710; Wr 0x14 0x609c; Wr 0x14 0xd71e; Wr 0x14 0x7fa4;
  Wr 0x14 0x2cd4; Wr 0x14 0x1ce9; Wr 0x14 0xce04; Wr 0x14 0xe070; Wr 0x14 0x0f20; Wr 0x14 0xaf01;
  Wr 0x14 0x8f01; Wr 0x14 0x1766; Wr 0x14 0x8e04; Wr 0x14 0x6044; Wr 0x14 0x2cd4; Wr 0x14 0xa520;
  Wr 0x14 0xd710; Wr 0x14 0x4043; Wr 0x14 0x2cc1; Wr 0x14 0xe00f; Wr 0x14 0x0501; Wr 0x14 0x1cef;
  Wr 0x14 0xb801; Wr 0x14 0xd71e; Wr 0x14 0x4060; Wr 0x14 0x7fc4; Wr 0x14 0x2cd4; Wr 0x14 0x1cf5;
  Wr 0x14 0xe00f; Wr 0x14 0x0502; Wr 0x14 0x1cef; Wr 0x14 0xb802; Wr 0x14 0xd71e; Wr 0x14 0x4061;
  Wr 0x14 0x7fc4; Wr 0x14 0x2cd4; Wr 0x14 0x1cf5; Wr 0x14 0xe00f; Wr 0x14 0x0504; Wr 0x14 0xd710;
  Wr 0x14 0x6099; Wr 0x14 0xd71e; Wr 0x14 0x7fa4; Wr 0x14 0x2cd4; Wr 0x14 0xc17f; Wr 0x14 0xc200;
  Wr 0x14 0xc43f; Wr 0x14 0xcc03; Wr 0x14 0xa701; Wr 0x14 0xa510; Wr 0x14 0xd710; Wr 0x14 0x4018;
  Wr 0x14 0x9910; Wr 0x14 0x8510; Wr 0x14 0x2860; Wr 0x14 0xe00f; Wr 0x14 0x0504; Wr 0x14 0xd710;
  Wr 0x14 0x6099; Wr 0x14 0xd71e; Wr 0x14 0x7fa4; Wr 0x14 0x2cd4; Wr 0x14 0xa608; Wr 0x14 0xc17d;
  Wr 0x14 0xc200; Wr 0x14 0xc43f; Wr 0x14 0xcc03; Wr 0x14 0xa701; Wr 0x14 0xa510; Wr 0x14 0xd710;
  Wr 0x14 0x4018; Wr 0x14 0x9910; Wr 0x14 0x8510; Wr 0x14 0x2926; Wr 0x14 0x1792; Wr 0x14 0x27db;
  Wr 0x14 0xc000; Wr 0x14 0xc100; Wr 0x14 0xc200; Wr 0x14 0xc300; Wr 0x14 0xc400; Wr 0x14 0xc500;
  Wr 0x14 0xc600; Wr 0x14 0xc7c1; Wr 0x14 0xc800; Wr 0x14 0xcc00; Wr 0x14 0x0800; Wr 0x14 0xca0f;
  Wr 0x14 0xcbff; Wr 0x14 0xa901; Wr 0x14 0x8902; Wr 0x14 0xc900; Wr 0x14 0xca00; Wr 0x14 0xcb00;
  Wr 0x14 0x0800; Wr 0x14 0xb804; Wr 0x14 0x0800; Wr 0x14 0xd71e; Wr 0x14 0x6044; Wr 0x14 0x9804;
  Wr 0x14 0x0800; Wr 0x14 0xd710; Wr 0x14 0x6099; Wr 0x14 0xd71e; Wr 0x14 0x7fa4; Wr 0x14 0x2cd4;
  Wr 0x14 0x0800; Wr 0x14 0xa510; Wr 0x14 0xd710; Wr 0x14 0x6098; Wr 0x14 0xd71e; Wr 0x14 0x7fa4;
  Wr 0x14 0x2cd4; Wr 0x14 0x8510; Wr 0x14 0x0800; Wr 0x14 0xd711; Wr 0x14 0x3003; Wr 0x14 0x1d01;
  Wr 0x14 0x2d0b; Wr 0x14 0xd710; Wr 0x14 0x60be; Wr 0x14 0xe060; Wr 0x14 0x0920; Wr 0x14 0x1cd6;
  Wr 0x14 0x2c89; Wr 0x14 0xd71e; Wr 0x14 0x3063; Wr 0x14 0x1948; Wr 0x14 0x288a; Wr 0x14 0x1cd6;
  Wr 0x14 0x29bd; Wr 0x14 0xa802; Wr 0x14 0xa303; Wr 0x14 0x843f; Wr 0x14 0x81ff; Wr 0x14 0x8208;
  Wr 0x14 0xa201; Wr 0x14 0xc001; Wr 0x14 0xd710; Wr 0x14 0x30a0; Wr 0x14 0x0d1c; Wr 0x14 0x30a0;
  Wr 0x14 0x3d13; Wr 0x14 0xd71e; Wr 0x14 0x7f4c; Wr 0x14 0x2ab6].

Definition phy_mcu_8168g_1_3 : list mop := [
  Wr 0x14 0xe003; Wr 0x14 0x0202; Wr 0x14 0xd710; Wr 0x14 0x6090; Wr 0x14 0xd71e; Wr 0x14 0x7fac;
  Wr 0x14 0x2ab6; Wr 0x14 0xa20c; Wr 0x14 0xd710; Wr 0x14 0x6091; Wr 0x14 0xd71e; Wr 0x14 0x7fac;
  Wr 0x14 0x2ab6; Wr 0x14 0x820e; Wr 0x14 0xa3e0; Wr 0x14 0xa520; Wr 0x14 0xd710; Wr 0x14 0x609d;
  Wr 0x14 0xd71e; Wr 0x14 0x7fac; Wr 0x14 0x2ab6; Wr 0x14 0x8520; Wr 0x14 0x6703; Wr 0x14 0x2d34;
  Wr 0x14 0xa13e; Wr 0x14 0xc001; Wr 0x14 0xd710; Wr 0x14 0x4000; Wr 0x14 0x6046; Wr 0x14 0x2d0d;
  Wr 0x14 0xa43f; Wr 0x14 0xa101; Wr 0x14 0xc020; Wr 0x14 0xd710; Wr 0x14 0x3121; Wr 0x14 0x0d45;
  Wr 0x14 0x30c0; Wr 0x14 0x3d0d; Wr 0x14 0xd71e; Wr 0x14 0x7f4c; Wr 0x14 0x2ab6; Wr 0x14 0xa540;
  Wr 0x14 0xc001; Wr 0x14 0xd710; Wr 0x14 0x4001; Wr 0x14 0xe00f; Wr 0x14 0x0501; Wr 0x14 0x1dac;
  Wr 0x14 0xc1c4; Wr 0x14 0xa268; Wr 0x14 0xa303; Wr 0x14 0x8420; Wr 0x14 0xe00f; Wr 0x14 0x0502;
  Wr 0x14 0x1dac; Wr 0x14 0xc002; Wr 0x14 0xd710; Wr 0x14 0x4000; Wr 0x14 0x8208; Wr 0x14 0x8410;
  Wr 0x14 0xa121; Wr 0x14 0xc002; Wr 0x14 0xd710; Wr 0x14 0x4000; Wr 0x14 0x8120; Wr 0x14 0x8180;
  Wr 0x14 0x1d97; Wr 0x14 0xa180; Wr 0x14 0xa13a; Wr 0x14 0x8240; Wr 0x14 0xa430; Wr 0x14 0xc010;
  Wr 0x14 0xd710; Wr 0x14 0x30e1; Wr 0x14 0x0abc; Wr 0x14 0xd71e; Wr 0x14 0x7f8c; Wr 0x14 0x2ab6;
  Wr 0x14 0xa480; Wr 0x14 0xa230; Wr 0x14 0xa303; Wr 0x14 0xc001; Wr 0x14 0xd70c; Wr 0x14 0x4124;
  Wr 0x14 0xd710; Wr 0x14 0x6120; Wr 0x14 0xd711; Wr 0x14 0x3128; Wr 0x14 0x3d76; Wr 0x14 0x2d70;
  Wr 0x14 0xa801; Wr 0x14 0x2d6c; Wr 0x14 0xd710; Wr 0x14 0x4000; Wr 0x14 0xe018; Wr 0x14 0x0208;
  Wr 0x14 0xa1f8; Wr 0x14 0x8480; Wr 0x14 0xc004; Wr 0x14 0xd710; Wr 0x14 0x4000; Wr 0x14 0x6046;
  Wr 0x14 0x2d0d; Wr 0x14 0xa43f; Wr 0x14 0xa105; Wr 0x14 0x8228; Wr 0x14 0xc004; Wr 0x14 0xd710;
  Wr 0x14 0x4000; Wr 0x14 0x81bc; Wr 0x14 0xa220; Wr 0x14 0x1d97; Wr 0x14 0x8220; Wr 0x14 0xa1bc;
  Wr 0x14 0xc040; Wr 0x14 0xd710; Wr 0x14 0x30e1; Wr 0x14 0x0abc; Wr 0x14 0x30e1; Wr 0x14 0x3d0d;
  Wr 0x14 0xd71e; Wr 0x14 0x7f4c; Wr 0x14 0x2ab6; Wr 0x14 0xa802; Wr 0x14 0xd70c; Wr 0x14 0x4244;
  Wr 0x14 0xa301; Wr 0x14 0xc004; Wr 0x14 0xd711; Wr 0x14 0x3128; Wr 0x14 0x3da5; Wr 0x14 0xd710;
  Wr 0x14 0x5f80; Wr 0x14 0xd711; Wr 0x14 0x3109; Wr 0x14 0x3da7; Wr 0x14 0x2dab; Wr 0x14 0xa801;
  Wr 0x14 0x2d9a; Wr 0x14 0xa802; Wr 0x14 0xc004; Wr 0x14 0xd710; Wr 0x14 0x4000; Wr 0x14 0x0800;
  Wr 0x14 0xa510; Wr 0x14 0xd710; Wr 0x14 0x609a; Wr 0x14 0xd71e].

Definition phy_mcu_8168g_1_4 : list mop := [
  Wr 0x14 0x7fac; Wr 0x14 0x2ab6; Wr 0x14 0x8510; Wr 0x14 0x0800; Wr 0x13 0xA01A; Wr 0x14 0x0000;
  Wr 0x13 0xA006; Wr 0x14 0x0ad6; Wr 0x13 0xA004; Wr 0x14 0x07f5; Wr 0x13 0xA002; Wr 0x14 0x06a9;
  Wr 0x13 0xA000; Wr 0x14 0xf069; Wr 0x13 0xB820; Wr 0x14 0x0210; Wr 0x1F 0x0A43; Wr 0x13 0x83a0;
  Wr 0x14 0xaf83; Wr 0x14 0xacaf; Wr 0x14 0x83b8; Wr 0x14 0xaf83; Wr 0x14 0xcdaf; Wr 0x14 0x83d3;
  Wr 0x14 0x0204; Wr 0x14 0x9a02; Wr 0x14 0x09a9; Wr 0x14 0x0284; Wr 0x14 0x61af; Wr 0x14 0x02fc;
  Wr 0x14 0xad20; Wr 0x14 0x0302; Wr 0x14 0x867c; Wr 0x14 0xad21; Wr 0x14 0x0302; Wr 0x14 0x85c9;
  Wr 0x14 0xad22; Wr 0x14 0x0302; Wr 0x14 0x1bc0; Wr 0x14 0xaf17; Wr 0x14 0xe302; Wr 0x14 0x8703;
  Wr 0x14 0xaf18; Wr 0x14 0x6201; Wr 0x14 0x06e0; Wr 0x14 0x8148; Wr 0x14 0xaf3c; Wr 0x14 0x69f8;
  Wr 0x14 0xf9fa; Wr 0x14 0xef69; Wr 0x14 0xee80; Wr 0x14 0x10f7; Wr 0x14 0xee80; Wr 0x14 0x131f;
  Wr 0x14 0xd104; Wr 0x14 0xbf87; Wr 0x14 0xf302; Wr 0x14 0x4259; Wr 0x14 0x0287; Wr 0x14 0x88bf;
  Wr 0x14 0x87cf; Wr 0x14 0xd7b8; Wr 0x14 0x22d0; Wr 0x14 0x0c02; Wr 0x14 0x4252; Wr 0x14 0xee80;
  Wr 0x14 0xcda0; Wr 0x14 0xee80; Wr 0x14 0xce8b; Wr 0x14 0xee80; Wr 0x14 0xd1f5; Wr 0x14 0xee80;
  Wr 0x14 0xd2a9; Wr 0x14 0xee80; Wr 0x14 0xd30a; Wr 0x14 0xee80; Wr 0x14 0xf010; Wr 0x14 0xee80;
  Wr 0x14 0xf38f; Wr 0x14 0xee81; Wr 0x14 0x011e; Wr 0x14 0xee81; Wr 0x14 0x0b4a; Wr 0x14 0xee81;
  Wr 0x14 0x0c7c; Wr 0x14 0xee81; Wr 0x14 0x127f; Wr 0x14 0xd100; Wr 0x14 0x0210; Wr 0x14 0xb5ee;
  Wr 0x14 0x8088; Wr 0x14 0xa4ee; Wr 0x14 0x8089; Wr 0x14 0x44ee; Wr 0x14 0x809a; Wr 0x14 0xa4ee;
  Wr 0x14 0x809b; Wr 0x14 0x44ee; Wr 0x14 0x809c; Wr 0x14 0xa7ee; Wr 0x14 0x80a5; Wr 0x14 0xa7d2;
  Wr 0x14 0x0002; Wr 0x14 0x0e66; Wr 0x14 0x0285; Wr 0x14 0xc0ee; Wr 0x14 0x87fc; Wr 0x14 0x00e0;
  Wr 0x14 0x8245; Wr 0x14 0xf622; Wr 0x14 0xe482; Wr 0x14 0x45ef; Wr 0x14 0x96fe; Wr 0x14 0xfdfc;
  Wr 0x14 0x0402; Wr 0x14 0x847a; Wr 0x14 0x0284; Wr 0x14 0xb302; Wr 0x14 0x0cab; Wr 0x14 0x020c;
  Wr 0x14 0xc402; Wr 0x14 0x0cef; Wr 0x14 0x020d; Wr 0x14 0x0802; Wr 0x14 0x0d33; Wr 0x14 0x020c;
  Wr 0x14 0x3d04; Wr 0x14 0xf8fa; Wr 0x14 0xef69; Wr 0x14 0xe182; Wr 0x14 0x2fac; Wr 0x14 0x291a;
  Wr 0x14 0xe082; Wr 0x14 0x24ac; Wr 0x14 0x2102; Wr 0x14 0xae22; Wr 0x14 0x0210; Wr 0x14 0x57f6;
  Wr 0x14 0x21e4; Wr 0x14 0x8224; Wr 0x14 0xd101; Wr 0x14 0xbf44; Wr 0x14 0xd202; Wr 0x14 0x4259;
  Wr 0x14 0xae10; Wr 0x14 0x0212; Wr 0x14 0x4cf6].

Definition phy_mcu_8168g_1_5 : list mop := [
  Wr 0x14 0x29e5; Wr 0x14 0x822f; Wr 0x14 0xe082; Wr 0x14 0x24f6; Wr 0x14 0x21e4; Wr 0x14 0x8224;
  Wr 0x14 0xef96; Wr 0x14 0xfefc; Wr 0x14 0x04f8; Wr 0x14 0xe182; Wr 0x14 0x2fac; Wr 0x14 0x2a18;
  Wr 0x14 0xe082; Wr 0x14 0x24ac; Wr 0x14 0x2202; Wr 0x14 0xae26; Wr 0x14 0x0284; Wr 0x14 0xf802;
  Wr 0x14 0x8565; Wr 0x14 0xd101; Wr 0x14 0xbf44; Wr 0x14 0xd502; Wr 0x14 0x4259; Wr 0x14 0xae0e;
  Wr 0x14 0x0284; Wr 0x14 0xea02; Wr 0x14 0x85a9; Wr 0x14 0xe182; Wr 0x14 0x2ff6; Wr 0x14 0x2ae5;
  Wr 0x14 0x822f; Wr 0x14 0xe082; Wr 0x14 0x24f6; Wr 0x14 0x22e4; Wr 0x14 0x8224; Wr 0x14 0xfc04;
  Wr 0x14 0xf9e2; Wr 0x14 0x8011; Wr 0x14 0xad31; Wr 0x14 0x05d2; Wr 0x14 0x0002; Wr 0x14 0x0e66;
  Wr 0x14 0xfd04; Wr 0x14 0xf8f9; Wr 0x14 0xfaef; Wr 0x14 0x69e0; Wr 0x14 0x8011; Wr 0x14 0xad21;
  Wr 0x14 0x5cbf; Wr 0x14 0x43be; Wr 0x14 0x0242; Wr 0x14 0x97ac; Wr 0x14 0x281b; Wr 0x14 0xbf43;
  Wr 0x14 0xc102; Wr 0x14 0x4297; Wr 0x14 0xac28; Wr 0x14 0x12bf; Wr 0x14 0x43c7; Wr 0x14 0x0242;
  Wr 0x14 0x97ac; Wr 0x14 0x2804; Wr 0x14 0xd300; Wr 0x14 0xae07; Wr 0x14 0xd306; Wr 0x14 0xaf85;
  Wr 0x14 0x56d3; Wr 0x14 0x03e0; Wr 0x14 0x8011; Wr 0x14 0xad26; Wr 0x14 0x25bf; Wr 0x14 0x4559;
  Wr 0x14 0x0242; Wr 0x14 0x97e2; Wr 0x14 0x8073; Wr 0x14 0x0d21; Wr 0x14 0xf637; Wr 0x14 0x0d11;
  Wr 0x14 0xf62f; Wr 0x14 0x1b21; Wr 0x14 0xaa02; Wr 0x14 0xae10; Wr 0x14 0xe280; Wr 0x14 0x740d;
  Wr 0x14 0x21f6; Wr 0x14 0x371b; Wr 0x14 0x21aa; Wr 0x14 0x0313; Wr 0x14 0xae02; Wr 0x14 0x2b02;
  Wr 0x14 0x020e; Wr 0x14 0x5102; Wr 0x14 0x0e66; Wr 0x14 0x020f; Wr 0x14 0xa3ef; Wr 0x14 0x96fe;
  Wr 0x14 0xfdfc; Wr 0x14 0x04f8; Wr 0x14 0xf9fa; Wr 0x14 0xef69; Wr 0x14 0xe080; Wr 0x14 0x12ad;
  Wr 0x14 0x2733; Wr 0x14 0xbf43; Wr 0x14 0xbe02; Wr 0x14 0x4297; Wr 0x14 0xac28; Wr 0x14 0x09bf;
  Wr 0x14 0x43c1; Wr 0x14 0x0242; Wr 0x14 0x97ad; Wr 0x14 0x2821; Wr 0x14 0xbf45; Wr 0x14 0x5902;
  Wr 0x14 0x4297; Wr 0x14 0xe387; Wr 0x14 0xffd2; Wr 0x14 0x001b; Wr 0x14 0x45ac; Wr 0x14 0x2711;
  Wr 0x14 0xe187; Wr 0x14 0xfebf; Wr 0x14 0x87e4; Wr 0x14 0x0242; Wr 0x14 0x590d; Wr 0x14 0x11bf;
  Wr 0x14 0x87e7; Wr 0x14 0x0242; Wr 0x14 0x59ef; Wr 0x14 0x96fe; Wr 0x14 0xfdfc; Wr 0x14 0x04f8;
  Wr 0x14 0xfaef; Wr 0x14 0x69d1; Wr 0x14 0x00bf; Wr 0x14 0x87e4; Wr 0x14 0x0242; Wr 0x14 0x59bf;
  Wr 0x14 0x87e7; Wr 0x14 0x0242; Wr 0x14 0x59ef; Wr 0x14 0x96fe; Wr 0x14 0xfc04; Wr 0x14 0xee87;
  Wr 0x14 0xff46; Wr 0x14 0xee87; Wr 0x14 0xfe01; Wr 0x14 0x04f8].

Definition phy_mcu_8168g_1_6 : list mop := [
  Wr 0x14 0xfaef; Wr 0x14 0x69e0; Wr 0x14 0x8241; Wr 0x14 0xa000; Wr 0x14 0x0502; Wr 0x14 0x85eb;
  Wr 0x14 0xae0e; Wr 0x14 0xa001; Wr 0x14 0x0502; Wr 0x14 0x1a5a; Wr 0x14 0xae06; Wr 0x14 0xa002;
  Wr 0x14 0x0302; Wr 0x14 0x1ae6; Wr 0x14 0xef96; Wr 0x14 0xfefc; Wr 0x14 0x04f8; Wr 0x14 0xf9fa;
  Wr 0x14 0xef69; Wr 0x14 0xe082; Wr 0x14 0x29f6; Wr 0x14 0x21e4; Wr 0x14 0x8229; Wr 0x14 0xe080;
  Wr 0x14 0x10ac; Wr 0x14 0x2202; Wr 0x14 0xae76; Wr 0x14 0xe082; Wr 0x14 0x27f7; Wr 0x14 0x21e4;
  Wr 0x14 0x8227; Wr 0x14 0xbf43; Wr 0x14 0x1302; Wr 0x14 0x4297; Wr 0x14 0xef21; Wr 0x14 0xbf43;
  Wr 0x14 0x1602; Wr 0x14 0x4297; Wr 0x14 0x0c11; Wr 0x14 0x1e21; Wr 0x14 0xbf43; Wr 0x14 0x1902;
  Wr 0x14 0x4297; Wr 0x14 0x0c12; Wr 0x14 0x1e21; Wr 0x14 0xe682; Wr 0x14 0x43a2; Wr 0x14 0x000a;
  Wr 0x14 0xe182; Wr 0x14 0x27f6; Wr 0x14 0x29e5; Wr 0x14 0x8227; Wr 0x14 0xae42; Wr 0x14 0xe082;
  Wr 0x14 0x44f7; Wr 0x14 0x21e4; Wr 0x14 0x8244; Wr 0x14 0x0246; Wr 0x14 0xaebf; Wr 0x14 0x4325;
  Wr 0x14 0x0242; Wr 0x14 0x97ef; Wr 0x14 0x21bf; Wr 0x14 0x431c; Wr 0x14 0x0242; Wr 0x14 0x970c;
  Wr 0x14 0x121e; Wr 0x14 0x21bf; Wr 0x14 0x431f; Wr 0x14 0x0242; Wr 0x14 0x970c; Wr 0x14 0x131e;
  Wr 0x14 0x21bf; Wr 0x14 0x4328; Wr 0x14 0x0242; Wr 0x14 0x970c; Wr 0x14 0x141e; Wr 0x14 0x21bf;
  Wr 0x14 0x44b1; Wr 0x14 0x0242; Wr 0x14 0x970c; Wr 0x14 0x161e; Wr 0x14 0x21e6; Wr 0x14 0x8242;
  Wr 0x14 0xee82; Wr 0x14 0x4101; Wr 0x14 0xef96; Wr 0x14 0xfefd; Wr 0x14 0xfc04; Wr 0x14 0xf8fa;
  Wr 0x14 0xef69; Wr 0x14 0xe082; Wr 0x14 0x46a0; Wr 0x14 0x0005; Wr 0x14 0x0286; Wr 0x14 0x96ae;
  Wr 0x14 0x06a0; Wr 0x14 0x0103; Wr 0x14 0x0219; Wr 0x14 0x19ef; Wr 0x14 0x96fe; Wr 0x14 0xfc04;
  Wr 0x14 0xf8fa; Wr 0x14 0xef69; Wr 0x14 0xe082; Wr 0x14 0x29f6; Wr 0x14 0x20e4; Wr 0x14 0x8229;
  Wr 0x14 0xe080; Wr 0x14 0x10ac; Wr 0x14 0x2102; Wr 0x14 0xae54; Wr 0x14 0xe082; Wr 0x14 0x27f7;
  Wr 0x14 0x20e4; Wr 0x14 0x8227; Wr 0x14 0xbf42; Wr 0x14 0xe602; Wr 0x14 0x4297; Wr 0x14 0xac28;
  Wr 0x14 0x22bf; Wr 0x14 0x430d; Wr 0x14 0x0242; Wr 0x14 0x97e5; Wr 0x14 0x8247; Wr 0x14 0xac28;
  Wr 0x14 0x20d1; Wr 0x14 0x03bf; Wr 0x14 0x4307; Wr 0x14 0x0242; Wr 0x14 0x59ee; Wr 0x14 0x8246;
  Wr 0x14 0x00e1; Wr 0x14 0x8227; Wr 0x14 0xf628; Wr 0x14 0xe582; Wr 0x14 0x27ae; Wr 0x14 0x21d1;
  Wr 0x14 0x04bf; Wr 0x14 0x4307; Wr 0x14 0x0242; Wr 0x14 0x59ae; Wr 0x14 0x08d1; Wr 0x14 0x05bf;
  Wr 0x14 0x4307; Wr 0x14 0x0242; Wr 0x14 0x59e0; Wr 0x14 0x8244].

Definition phy_mcu_8168g_1_7 : list mop := [
  Wr 0x14 0xf720; Wr 0x14 0xe482; Wr 0x14 0x4402; Wr 0x14 0x46ae; Wr 0x14 0xee82; Wr 0x14 0x4601;
  Wr 0x14 0xef96; Wr 0x14 0xfefc; Wr 0x14 0x04f8; Wr 0x14 0xfaef; Wr 0x14 0x69e0; Wr 0x14 0x8013;
  Wr 0x14 0xad24; Wr 0x14 0x1cbf; Wr 0x14 0x87f0; Wr 0x14 0x0242; Wr 0x14 0x97ad; Wr 0x14 0x2813;
  Wr 0x14 0xe087; Wr 0x14 0xfca0; Wr 0x14 0x0005; Wr 0x14 0x0287; Wr 0x14 0x36ae; Wr 0x14 0x10a0;
  Wr 0x14 0x0105; Wr 0x14 0x0287; Wr 0x14 0x48ae; Wr 0x14 0x08e0; Wr 0x14 0x8230; Wr 0x14 0xf626;
  Wr 0x14 0xe482; Wr 0x14 0x30ef; Wr 0x14 0x96fe; Wr 0x14 0xfc04; Wr 0x14 0xf8e0; Wr 0x14 0x8245;
  Wr 0x14 0xf722; Wr 0x14 0xe482; Wr 0x14 0x4502; Wr 0x14 0x46ae; Wr 0x14 0xee87; Wr 0x14 0xfc01;
  Wr 0x14 0xfc04; Wr 0x14 0xf8fa; Wr 0x14 0xef69; Wr 0x14 0xfb02; Wr 0x14 0x46d3; Wr 0x14 0xad50;
  Wr 0x14 0x2fbf; Wr 0x14 0x87ed; Wr 0x14 0xd101; Wr 0x14 0x0242; Wr 0x14 0x59bf; Wr 0x14 0x87ed;
  Wr 0x14 0xd100; Wr 0x14 0x0242; Wr 0x14 0x59e0; Wr 0x14 0x8245; Wr 0x14 0xf622; Wr 0x14 0xe482;
  Wr 0x14 0x4502; Wr 0x14 0x46ae; Wr 0x14 0xd100; Wr 0x14 0xbf87; Wr 0x14 0xf002; Wr 0x14 0x4259;
  Wr 0x14 0xee87; Wr 0x14 0xfc00; Wr 0x14 0xe082; Wr 0x14 0x30f6; Wr 0x14 0x26e4; Wr 0x14 0x8230;
  Wr 0x14 0xffef; Wr 0x14 0x96fe; Wr 0x14 0xfc04; Wr 0x14 0xf8f9; Wr 0x14 0xface; Wr 0x14 0xfaef;
  Wr 0x14 0x69fb; Wr 0x14 0xbf87; Wr 0x14 0xb3d7; Wr 0x14 0x001c; Wr 0x14 0xd819; Wr 0x14 0xd919;
  Wr 0x14 0xda19; Wr 0x14 0xdb19; Wr 0x14 0x07ef; Wr 0x14 0x9502; Wr 0x14 0x4259; Wr 0x14 0x073f;
  Wr 0x14 0x0004; Wr 0x14 0x9fec; Wr 0x14 0xffef; Wr 0x14 0x96fe; Wr 0x14 0xc6fe; Wr 0x14 0xfdfc;
  Wr 0x14 0x0400; Wr 0x14 0x0145; Wr 0x14 0x7d00; Wr 0x14 0x0345; Wr 0x14 0x5c00; Wr 0x14 0x0143;
  Wr 0x14 0x4f00; Wr 0x14 0x0387; Wr 0x14 0xdb00; Wr 0x14 0x0987; Wr 0x14 0xde00; Wr 0x14 0x0987;
  Wr 0x14 0xe100; Wr 0x14 0x0087; Wr 0x14 0xeaa4; Wr 0x14 0x00b8; Wr 0x14 0x20c4; Wr 0x14 0x1600;
  Wr 0x14 0x000f; Wr 0x14 0xf800; Wr 0x14 0x7098; Wr 0x14 0xa58a; Wr 0x14 0xb6a8; Wr 0x14 0x3e50;
  Wr 0x14 0xa83e; Wr 0x14 0x33bc; Wr 0x14 0xc622; Wr 0x14 0xbcc6; Wr 0x14 0xaaa4; Wr 0x14 0x42ff;
  Wr 0x14 0xc408; Wr 0x14 0x00c4; Wr 0x14 0x16a8; Wr 0x14 0xbcc0; Wr 0x13 0xb818; Wr 0x14 0x02f3;
  Wr 0x13 0xb81a; Wr 0x14 0x17d1; Wr 0x13 0xb81c; Wr 0x14 0x185a; Wr 0x13 0xb81e; Wr 0x14 0x3c66;
  Wr 0x13 0xb820; Wr 0x14 0x021f; Wr 0x13 0xc416; Wr 0x14 0x0500; Wr 0x13 0xb82e; Wr 0x14 0xfffc;
  Wr 0x1F 0x0A43; Wr 0x13 0x0000; Wr 0x14 0x0000].

Definition phy_mcu_8168g_1_8 : list mop := [
  Wr 0x1f 0x0B82; Mo 0x10 (BIT 9) 0; Wr 0x1f 0x0A43; Wr 0x13 0x8146; Wr 0x14 0x0000].

Definition phy_mcu_8168gu_2_1 : list mop := [
  Wr 0x1f 0x0A43; Wr 0x13 0x8146; Wr 0x14 0x0300; Wr 0x13 0xB82E; Wr 0x14 0x0001; Wr 0x1F 0x0A43;
  Wr 0x13 0xb820; Wr 0x14 0x0290; Wr 0x13 0xa012; Wr 0x14 0x0000; Wr 0x13 0xa014; Wr 0x14 0x2c04;
  Wr 0x14 0x2c07; Wr 0x14 0x2c07; Wr 0x14 0x2c07; Wr 0x14 0xa304; Wr 0x14 0xa301; Wr 0x14 0x207e;
  Wr 0x13 0xa01a; Wr 0x14 0x0000; Wr 0x13 0xa006; Wr 0x14 0x0fff; Wr 0x13 0xa004; Wr 0x14 0x0fff;
  Wr 0x13 0xa002; Wr 0x14 0x0fff; Wr 0x13 0xa000; Wr 0x14 0x107c; Wr 0x13 0xb820; Wr 0x14 0x0210;
  Wr 0x1F 0x0A43; Wr 0x13 0x0000; Wr 0x14 0x0000; Wr 0x1f 0x0B82; Mo 0x17 (BIT 0) 0; Wr 0x1f 0x0A43;
  Wr 0x13 0x8146; Wr 0x14 0x0000].

Definition phy_mcu_8411b_1_1 : list mop := [
  Wr 0x1f 0x0A43; Wr 0x13 0x8146; Wr 0x14 0x0100; Wr 0x13 0xB82E; Wr 0x14 0x0001; Wr 0x1F 0x0A43;
  Wr 0x13 0xb820; Wr 0x14 0x0290; Wr 0x13 0xa012; Wr 0x14 0x0000; Wr 0x13 0xa014; Wr 0x14 0x2c04;
  Wr 0x14 0x2c07; Wr 0x14 0x2c07; Wr 0x14 0x2c07; Wr 0x14 0xa304; Wr 0x14 0xa301; Wr 0x14 0x207e;
  Wr 0x13 0xa01a; Wr 0x14 0x0000; Wr 0x13 0xa006; Wr 0x14 0x0fff; Wr 0x13 0xa004; Wr 0x14 0x0fff;
  Wr 0x13 0xa002; Wr 0x14 0x0fff; Wr 0x13 0xa000; Wr 0x14 0x107c; Wr 0x13 0xb820; Wr 0x14 0x0210;
  Wr 0x1F 0x0A43; Wr 0x13 0x0000; Wr 0x14 0x0000; Wr 0x1f 0x0B82; Mo 0x17 (BIT 0) 0; Wr 0x1f 0x0A43;
  Wr 0x13 0x8146; Wr 0x14 0x0000].

Definition phy_mcu_8168ep_2_1 : list mop := [
  Wr 0x1f 0x0A43; Wr 0x13 0x8146; Wr 0x14 0x8700; Wr 0x13 0xB82E; Wr 0x14 0x0001; Wr 0x1F 0x0A43;
  Wr 0x13 0x83DD; Wr 0x14 0xAF83; Wr 0x14 0xE9AF; Wr 0x14 0x83EE; Wr 0x14 0xAF83; Wr 0x14 0xF1A1;
  Wr 0x14 0x83F4; Wr 0x14 0xD149; Wr 0x14 0xAF06; Wr 0x14 0x47AF; Wr 0x14 0x0000; Wr 0x14 0xAF00;
  Wr 0x14 0x00AF; Wr 0x14 0x0000; Wr 0x13 0xB818; Wr 0x14 0x0645; Wr 0x13 0xB81A; Wr 0x14 0x0000;
  Wr 0x13 0xB81C; Wr 0x14 0x0000; Wr 0x13 0xB81E; Wr 0x14 0x0000; Wr 0x13 0xB832; Wr 0x14 0x0001;
  Wr 0x1F 0x0A43; Wr 0x13 0x0000; Wr 0x14 0x0000; Wr 0x1f 0x0B82; Mo 0x17 (BIT 0) 0; Wr 0x1f 0x0A43;
  Wr 0x13 0x8146; Wr 0x14 0x0000].

Definition phy_mcu_8168h_1_1 : list mop := [
  Wr 0x1f 0x0A43; Wr 0x13 0x8028; Wr 0x14 0x6200; Wr 0x13 0xB82E; Wr 0x14 0x0001; Wr 0x1F 0x0A43;
  Wr 0x13 0xB820; Wr 0x14 0x0290; Wr 0x13 0xA012; Wr 0x14 0x0000; Wr 0x13 0xA014; Wr 0x14 0x2c04;
  Wr 0x14 0x2c10; Wr 0x14 0x2c10; Wr 0x14 0x2c10; Wr 0x14 0xa210; Wr 0x14 0xa101; Wr 0x14 0xce10;
  Wr 0x14 0xe070; Wr 0x14 0x0f40; Wr 0x14 0xaf01; Wr 0x14 0x8f01; Wr 0x14 0x183e; Wr 0x14 0x8e10;
  Wr 0x14 0x8101; Wr 0x14 0x8210; Wr 0x14 0x28da; Wr 0x13 0xA01A; Wr 0x14 0x0000; Wr 0x13 0xA006;
  Wr 0x14 0x0017; Wr 0x13 0xA004; Wr 0x14 0x0015; Wr 0x13 0xA002; Wr 0x14 0x0013; Wr 0x13 0xA000;
  Wr 0x14 0x18d1; Wr 0x13 0xB820; Wr 0x14 0x0210; Wr 0x1F 0x0A43; Wr 0x13 0x0000; Wr 0x14 0x0000;
  Wr 0x1f 0x0B82; Mo 0x17 (BIT 0) 0; Wr 0x1f 0x0A43; Wr 0x13 0x8028; Wr 0x14 0x0000].

Definition phy_mcu_8168h_2_1 : list mop := [
  Wr 0x1f 0x0A43; Wr 0x13 0x8028; Wr 0x14 0x6201; Wr 0x13 0xB82E; Wr 0x14 0x0001; Wr 0x1F 0x0A43;
  Wr 0x13 0xB820; Wr 0x14 0x0290; Wr 0x13 0xA012; Wr 0x14 0x0000; Wr 0x13 0xA014; Wr 0x14 0x2c04;
  Wr 0x14 0x2c09; Wr 0x14 0x2c0d; Wr 0x14 0x2c12; Wr 0x14 0xad01; Wr 0x14 0xad01; Wr 0x14 0xad01;
  Wr 0x14 0xad01; Wr 0x14 0x236c; Wr 0x14 0xd03c; Wr 0x14 0xd1aa; Wr 0x14 0xc010; Wr 0x14 0x2745;
  Wr 0x14 0x33de; Wr 0x14 0x16ba; Wr 0x14 0x31ee; Wr 0x14 0x2712; Wr 0x14 0x274e; Wr 0x14 0xc2bb;
  Wr 0x14 0xd500; Wr 0x14 0xc426; Wr 0x14 0xd01d; Wr 0x14 0xd1c3; Wr 0x14 0x401c; Wr 0x14 0xd501;
  Wr 0x14 0xc2b3; Wr 0x14 0xd500; Wr 0x14 0xd00b; Wr 0x14 0xd1c3; Wr 0x14 0x401c; Wr 0x14 0x241a;
  Wr 0x13 0xA01A; Wr 0x14 0x0000; Wr 0x13 0xA006; Wr 0x14 0x0414; Wr 0x13 0xA004; Wr 0x14 0x074c;
  Wr 0x13 0xA002; Wr 0x14 0x0744; Wr 0x13 0xA000; Wr 0x14 0xf36b; Wr 0x13 0xB820; Wr 0x14 0x0210;
  Wr 0x1F 0x0A43; Wr 0x13 0x8323; Wr 0x14 0xaf83; Wr 0x14 0x2faf; Wr 0x14 0x853d; Wr 0x14 0xaf85;
  Wr 0x14 0x3daf; Wr 0x14 0x853d; Wr 0x14 0xe082; Wr 0x14 0x45ad; Wr 0x14 0x2052; Wr 0x14 0xe082;
  Wr 0x14 0x7ae3; Wr 0x14 0x85fe; Wr 0x14 0x1a03; Wr 0x14 0x10e4; Wr 0x14 0x85f6; Wr 0x14 0xe082;
  Wr 0x14 0x7a1b; Wr 0x14 0x03e4; Wr 0x14 0x85fa; Wr 0x14 0xe082; Wr 0x14 0x7be3; Wr 0x14 0x85fe;
  Wr 0x14 0x1a03; Wr 0x14 0x10e4; Wr 0x14 0x85f7; Wr 0x14 0xe082; Wr 0x14 0x7b1b; Wr 0x14 0x03e4;
  Wr 0x14 0x85fb; Wr 0x14 0xe082; Wr 0x14 0x7ce3; Wr 0x14 0x85fe; Wr 0x14 0x1a03; Wr 0x14 0x10e4;
  Wr 0x14 0x85f8; Wr 0x14 0xe082; Wr 0x14 0x7c1b; Wr 0x14 0x03e4; Wr 0x14 0x85fc; Wr 0x14 0xe082;
  Wr 0x14 0x7de3; Wr 0x14 0x85fe; Wr 0x14 0x1a03; Wr 0x14 0x10e4; Wr 0x14 0x85f9; Wr 0x14 0xe082;
  Wr 0x14 0x7d1b; Wr 0x14 0x03e4; Wr 0x14 0x85fd; Wr 0x14 0xae50; Wr 0x14 0xe082; Wr 0x14 0x7ee3;
  Wr 0x14 0x85ff; Wr 0x14 0x1a03; Wr 0x14 0x10e4; Wr 0x14 0x85f6; Wr 0x14 0xe082; Wr 0x14 0x7e1b;
  Wr 0x14 0x03e4; Wr 0x14 0x85fa; Wr 0x14 0xe082; Wr 0x14 0x7fe3; Wr 0x14 0x85ff; Wr 0x14 0x1a03;
  Wr 0x14 0x10e4; Wr 0x14 0x85f7; Wr 0x14 0xe082; Wr 0x14 0x7f1b; Wr 0x14 0x03e4; Wr 0x14 0x85fb;
  Wr 0x14 0xe082; Wr 0x14 0x80e3; Wr 0x14 0x85ff; Wr 0x14 0x1a03; Wr 0x14 0x10e4; Wr 0x14 0x85f8;
  Wr 0x14 0xe082; Wr 0x14 0x801b; Wr 0x14 0x03e4; Wr 0x14 0x85fc; Wr 0x14 0xe082; Wr 0x14 0x81e3;
  Wr 0x14 0x85ff; Wr 0x14 0x1a03; Wr 0x14 0x10e4; Wr 0x14 0x85f9; Wr 0x14 0xe082; Wr 0x14 0x811b].

Definition phy_mcu_8168h_2_2 : list mop := [
  Wr 0x14 0x03e4; Wr 0x14 0x85fd; Wr 0x14 0xe085; Wr 0x14 0xf6ad; Wr 0x14 0x2404; Wr 0x14 0xee85;
  Wr 0x14 0xf610; Wr 0x14 0xe085; Wr 0x14 0xf7ad; Wr 0x14 0x2404; Wr 0x14 0xee85; Wr 0x14 0xf710;
  Wr 0x14 0xe085; Wr 0x14 0xf8ad; Wr 0x14 0x2404; Wr 0x14 0xee85; Wr 0x14 0xf810; Wr 0x14 0xe085;
  Wr 0x14 0xf9ad; Wr 0x14 0x2404; Wr 0x14 0xee85; Wr 0x14 0xf910; Wr 0x14 0xe085; Wr 0x14 0xfaad;
  Wr 0x14 0x2704; Wr 0x14 0xee85; Wr 0x14 0xfa00; Wr 0x14 0xe085; Wr 0x14 0xfbad; Wr 0x14 0x2704;
  Wr 0x14 0xee85; Wr 0x14 0xfb00; Wr 0x14 0xe085; Wr 0x14 0xfcad; Wr 0x14 0x2704; Wr 0x14 0xee85;
  Wr 0x14 0xfc00; Wr 0x14 0xe085; Wr 0x14 0xfdad; Wr 0x14 0x2704; Wr 0x14 0xee85; Wr 0x14 0xfd00;
  Wr 0x14 0xe082; Wr 0x14 0x44ad; Wr 0x14 0x203f; Wr 0x14 0xe085; Wr 0x14 0xf6e4; Wr 0x14 0x8288;
  Wr 0x14 0xe085; Wr 0x14 0xfae4; Wr 0x14 0x8289; Wr 0x14 0xe082; Wr 0x14 0x440d; Wr 0x14 0x0458;
  Wr 0x14 0x01bf; Wr 0x14 0x8264; Wr 0x14 0x0215; Wr 0x14 0x38bf; Wr 0x14 0x824e; Wr 0x14 0x0213;
  Wr 0x14 0x06a0; Wr 0x14 0x010f; Wr 0x14 0xe082; Wr 0x14 0x44f6; Wr 0x14 0x20e4; Wr 0x14 0x8244;
  Wr 0x14 0x580f; Wr 0x14 0xe582; Wr 0x14 0x5aae; Wr 0x14 0x0ebf; Wr 0x14 0x825e; Wr 0x14 0xe382;
  Wr 0x14 0x44f7; Wr 0x14 0x3ce7; Wr 0x14 0x8244; Wr 0x14 0x0212; Wr 0x14 0xf0ad; Wr 0x14 0x213f;
  Wr 0x14 0xe085; Wr 0x14 0xf7e4; Wr 0x14 0x8288; Wr 0x14 0xe085; Wr 0x14 0xfbe4; Wr 0x14 0x8289;
  Wr 0x14 0xe082; Wr 0x14 0x440d; Wr 0x14 0x0558; Wr 0x14 0x01bf; Wr 0x14 0x826b; Wr 0x14 0x0215;
  Wr 0x14 0x38bf; Wr 0x14 0x824f; Wr 0x14 0x0213; Wr 0x14 0x06a0; Wr 0x14 0x010f; Wr 0x14 0xe082;
  Wr 0x14 0x44f6; Wr 0x14 0x21e4; Wr 0x14 0x8244; Wr 0x14 0x580f; Wr 0x14 0xe582; Wr 0x14 0x5bae;
  Wr 0x14 0x0ebf; Wr 0x14 0x8265; Wr 0x14 0xe382; Wr 0x14 0x44f7; Wr 0x14 0x3de7; Wr 0x14 0x8244;
  Wr 0x14 0x0212; Wr 0x14 0xf0ad; Wr 0x14 0x223f; Wr 0x14 0xe085; Wr 0x14 0xf8e4; Wr 0x14 0x8288;
  Wr 0x14 0xe085; Wr 0x14 0xfce4; Wr 0x14 0x8289; Wr 0x14 0xe082; Wr 0x14 0x440d; Wr 0x14 0x0658;
  Wr 0x14 0x01bf; Wr 0x14 0x8272; Wr 0x14 0x0215; Wr 0x14 0x38bf; Wr 0x14 0x8250; Wr 0x14 0x0213;
  Wr 0x14 0x06a0; Wr 0x14 0x010f; Wr 0x14 0xe082; Wr 0x14 0x44f6; Wr 0x14 0x22e4; Wr 0x14 0x8244;
  Wr 0x14 0x580f; Wr 0x14 0xe582; Wr 0x14 0x5cae; Wr 0x14 0x0ebf; Wr 0x14 0x826c; Wr 0x14 0xe382;
  Wr 0x14 0x44f7; Wr 0x14 0x3ee7; Wr 0x14 0x8244; Wr 0x14 0x0212; Wr 0x14 0xf0ad; Wr 0x14 0x233f;
  Wr 0x14 0xe085; Wr 0x14 0xf9e4; Wr 0x14 0x8288; Wr 0x14 0xe085].

Definition phy_mcu_8168h_2_3 : list mop := [
  Wr 0x14 0xfde4; Wr 0x14 0x8289; Wr 0x14 0xe082; Wr 0x14 0x440d; Wr 0x14 0x0758; Wr 0x14 0x01bf;
  Wr 0x14 0x8279; Wr 0x14 0x0215; Wr 0x14 0x38bf; Wr 0x14 0x8251; Wr 0x14 0x0213; Wr 0x14 0x06a0;
  Wr 0x14 0x010f; Wr 0x14 0xe082; Wr 0x14 0x44f6; Wr 0x14 0x23e4; Wr 0x14 0x8244; Wr 0x14 0x580f;
  Wr 0x14 0xe582; Wr 0x14 0x5dae; Wr 0x14 0x0ebf; Wr 0x14 0x8273; Wr 0x14 0xe382; Wr 0x14 0x44f7;
  Wr 0x14 0x3fe7; Wr 0x14 0x8244; Wr 0x14 0x0212; Wr 0x14 0xf0ee; Wr 0x14 0x8288; Wr 0x14 0x10ee;
  Wr 0x14 0x8289; Wr 0x14 0x00af; Wr 0x14 0x14aa; Wr 0x13 0xb818; Wr 0x14 0x13cf; Wr 0x13 0xb81a;
  Wr 0x14 0xfffd; Wr 0x13 0xb81c; Wr 0x14 0xfffd; Wr 0x13 0xb81e; Wr 0x14 0xfffd; Wr 0x13 0xb832;
  Wr 0x14 0x0001; Wr 0x1F 0x0A43; Wr 0x13 0x0000; Wr 0x14 0x0000; Wr 0x1f 0x0B82].

Definition phy_mcu_8168h_3_1 : list mop := [
  Wr 0x1f 0x0A43; Wr 0x13 0x8042; Wr 0x14 0x3800; Wr 0x13 0xB82E; Wr 0x14 0x0001; Wr 0x1F 0x0A43;
  Wr 0x13 0xB820; Wr 0x14 0x0090; Wr 0x13 0xA016; Wr 0x14 0x0000; Wr 0x13 0xA012; Wr 0x14 0x0000;
  Wr 0x13 0xA014; Wr 0x14 0x1800; Wr 0x14 0x8010; Wr 0x14 0x1800; Wr 0x14 0x8014; Wr 0x14 0x1800;
  Wr 0x14 0x8022; Wr 0x14 0x1800; Wr 0x14 0x8022; Wr 0x14 0x1800; Wr 0x14 0x8022; Wr 0x14 0x1800;
  Wr 0x14 0x8022; Wr 0x14 0x1800; Wr 0x14 0x8022; Wr 0x14 0x1800; Wr 0x14 0x8022; Wr 0x14 0x2b5d;
  Wr 0x14 0x0c68; Wr 0x14 0x1800; Wr 0x14 0x0b3c; Wr 0x14 0xc2bb; Wr 0x14 0xd500; Wr 0x14 0xc426;
  Wr 0x14 0xd01d; Wr 0x14 0xd1c3; Wr 0x14 0x401c; Wr 0x14 0xd501; Wr 0x14 0xc2b3; Wr 0x14 0xd500;
  Wr 0x14 0xd00b; Wr 0x14 0xd1c3; Wr 0x14 0x401c; Wr 0x14 0x1800; Wr 0x14 0x0478; Wr 0x13 0xA026;
  Wr 0x14 0x0fff; Wr 0x13 0xA024; Wr 0x14 0x0fff; Wr 0x13 0xA022; Wr 0x14 0x0fff; Wr 0x13 0xA020;
  Wr 0x14 0x0fff; Wr 0x13 0xA006; Wr 0x14 0x0fff; Wr 0x13 0xA004; Wr 0x14 0x0fff; Wr 0x13 0xA002;
  Wr 0x14 0x0472; Wr 0x13 0xA000; Wr 0x14 0x0b3a; Wr 0x13 0xA008; Wr 0x14 0x0300; Wr 0x13 0xB820;
  Wr 0x14 0x0010; Wr 0x13 0x83f3; Wr 0x14 0xaf84; Wr 0x14 0x0baf; Wr 0x14 0x8466; Wr 0x14 0xaf84;
  Wr 0x14 0xcdaf; Wr 0x14 0x873c; Wr 0x14 0xaf87; Wr 0x14 0x3faf; Wr 0x14 0x8760; Wr 0x14 0xaf87;
  Wr 0x14 0x60af; Wr 0x14 0x8760; Wr 0x14 0xef79; Wr 0x14 0xfb89; Wr 0x14 0xe987; Wr 0x14 0xffd7;
  Wr 0x14 0x0017; Wr 0x14 0xd400; Wr 0x14 0x051c; Wr 0x14 0x421a; Wr 0x14 0x741b; Wr 0x14 0x97e9;
  Wr 0x14 0x87fe; Wr 0x14 0xffef; Wr 0x14 0x97e0; Wr 0x14 0x82aa; Wr 0x14 0xa000; Wr 0x14 0x08ef;
  Wr 0x14 0x46dc; Wr 0x14 0x19dd; Wr 0x14 0xaf1a; Wr 0x14 0x37a0; Wr 0x14 0x012d; Wr 0x14 0xe082;
  Wr 0x14 0xa7ac; Wr 0x14 0x2013; Wr 0x14 0xe087; Wr 0x14 0xffe1; Wr 0x14 0x87fe; Wr 0x14 0xac27;
  Wr 0x14 0x05a1; Wr 0x14 0x0807; Wr 0x14 0xae0f; Wr 0x14 0xa107; Wr 0x14 0x02ae; Wr 0x14 0x0aef;
  Wr 0x14 0x4619; Wr 0x14 0x19dc; Wr 0x14 0x19dd; Wr 0x14 0xaf1a; Wr 0x14 0x37d8; Wr 0x14 0x19d9;
  Wr 0x14 0x19dc; Wr 0x14 0x19dd; Wr 0x14 0xaf1a; Wr 0x14 0x3719; Wr 0x14 0x19ae; Wr 0x14 0xcfbf;
  Wr 0x14 0x878a; Wr 0x14 0x0244; Wr 0x14 0xdc3c; Wr 0x14 0x0005; Wr 0x14 0xaaf5; Wr 0x14 0x0249;
  Wr 0x14 0xcaef; Wr 0x14 0x67d7; Wr 0x14 0x0014; Wr 0x14 0x0249; Wr 0x14 0xe5ad; Wr 0x14 0x50f7;
  Wr 0x14 0xd400; Wr 0x14 0x01bf; Wr 0x14 0x46a7; Wr 0x14 0x0244; Wr 0x14 0x98bf; Wr 0x14 0x465c].

Definition phy_mcu_8168h_3_2 : list mop := [
  Wr 0x14 0x024a; Wr 0x14 0x5fd4; Wr 0x14 0x0003; Wr 0x14 0xbf87; Wr 0x14 0x9c02; Wr 0x14 0x4498;
  Wr 0x14 0xbf87; Wr 0x14 0x9902; Wr 0x14 0x4a5f; Wr 0x14 0xbf87; Wr 0x14 0x8d02; Wr 0x14 0x4a5f;
  Wr 0x14 0xbf87; Wr 0x14 0x9002; Wr 0x14 0x44dc; Wr 0x14 0xad28; Wr 0x14 0xf7bf; Wr 0x14 0x8796;
  Wr 0x14 0x0244; Wr 0x14 0xdcad; Wr 0x14 0x28f7; Wr 0x14 0xbf87; Wr 0x14 0x9302; Wr 0x14 0x4a5f;
  Wr 0x14 0xbf87; Wr 0x14 0x9302; Wr 0x14 0x4a56; Wr 0x14 0xbf46; Wr 0x14 0x5c02; Wr 0x14 0x4a56;
  Wr 0x14 0xbf45; Wr 0x14 0x21af; Wr 0x14 0x020e; Wr 0x14 0xee82; Wr 0x14 0x5000; Wr 0x14 0x0284;
  Wr 0x14 0xdd02; Wr 0x14 0x8521; Wr 0x14 0x0285; Wr 0x14 0x36af; Wr 0x14 0x03d2; Wr 0x14 0xf8f9;
  Wr 0x14 0xfafb; Wr 0x14 0xef59; Wr 0x14 0xbf45; Wr 0x14 0x3002; Wr 0x14 0x44dc; Wr 0x14 0x3c00;
  Wr 0x14 0x03aa; Wr 0x14 0x2cbf; Wr 0x14 0x8790; Wr 0x14 0x0244; Wr 0x14 0xdcad; Wr 0x14 0x2823;
  Wr 0x14 0xbf87; Wr 0x14 0x9602; Wr 0x14 0x44dc; Wr 0x14 0xad28; Wr 0x14 0x1a02; Wr 0x14 0x49ca;
  Wr 0x14 0xef67; Wr 0x14 0xd700; Wr 0x14 0x0202; Wr 0x14 0x49e5; Wr 0x14 0xad50; Wr 0x14 0xf7bf;
  Wr 0x14 0x8793; Wr 0x14 0x024a; Wr 0x14 0x5fbf; Wr 0x14 0x8793; Wr 0x14 0x024a; Wr 0x14 0x56ef;
  Wr 0x14 0x95ff; Wr 0x14 0xfefd; Wr 0x14 0xfc04; Wr 0x14 0xf8fa; Wr 0x14 0xef69; Wr 0x14 0xe080;
  Wr 0x14 0x15ad; Wr 0x14 0x2406; Wr 0x14 0xbf87; Wr 0x14 0x8702; Wr 0x14 0x4a56; Wr 0x14 0xef96;
  Wr 0x14 0xfefc; Wr 0x14 0x04f8; Wr 0x14 0xe087; Wr 0x14 0xf9e1; Wr 0x14 0x87fa; Wr 0x14 0x1b10;
  Wr 0x14 0x9f1e; Wr 0x14 0xee87; Wr 0x14 0xf900; Wr 0x14 0xe080; Wr 0x14 0x15ac; Wr 0x14 0x2606;
  Wr 0x14 0xee87; Wr 0x14 0xf700; Wr 0x14 0xae12; Wr 0x14 0x0286; Wr 0x14 0x9d02; Wr 0x14 0x8565;
  Wr 0x14 0x0285; Wr 0x14 0x9d02; Wr 0x14 0x8660; Wr 0x14 0xae04; Wr 0x14 0x10e4; Wr 0x14 0x87f9;
  Wr 0x14 0xfc04; Wr 0x14 0xf8f9; Wr 0x14 0xfaef; Wr 0x14 0x69fa; Wr 0x14 0xbf45; Wr 0x14 0x3002;
  Wr 0x14 0x44dc; Wr 0x14 0xa103; Wr 0x14 0x22e0; Wr 0x14 0x87eb; Wr 0x14 0xe187; Wr 0x14 0xecef;
  Wr 0x14 0x64bf; Wr 0x14 0x876f; Wr 0x14 0x0244; Wr 0x14 0xdc1b; Wr 0x14 0x46aa; Wr 0x14 0x0abf;
  Wr 0x14 0x8772; Wr 0x14 0x0244; Wr 0x14 0xdc1b; Wr 0x14 0x46ab; Wr 0x14 0x06bf; Wr 0x14 0x876c;
  Wr 0x14 0x024a; Wr 0x14 0x5ffe; Wr 0x14 0xef96; Wr 0x14 0xfefd; Wr 0x14 0xfc04; Wr 0x14 0xf8f9;
  Wr 0x14 0xef59; Wr 0x14 0xf9bf; Wr 0x14 0x4530; Wr 0x14 0x0244; Wr 0x14 0xdca1; Wr 0x14 0x0310;
  Wr 0x14 0xe087; Wr 0x14 0xf7ac; Wr 0x14 0x2605; Wr 0x14 0x0285].

Definition phy_mcu_8168h_3_3 : list mop := [
  Wr 0x14 0xc9ae; Wr 0x14 0x0d02; Wr 0x14 0x8613; Wr 0x14 0xae08; Wr 0x14 0xe287; Wr 0x14 0xf7f6;
  Wr 0x14 0x36e6; Wr 0x14 0x87f7; Wr 0x14 0xfdef; Wr 0x14 0x95fd; Wr 0x14 0xfc04; Wr 0x14 0xf8f9;
  Wr 0x14 0xfafb; Wr 0x14 0xef79; Wr 0x14 0xfbbf; Wr 0x14 0x876f; Wr 0x14 0x0244; Wr 0x14 0xdcef;
  Wr 0x14 0x64e2; Wr 0x14 0x87e9; Wr 0x14 0xe387; Wr 0x14 0xea1b; Wr 0x14 0x659e; Wr 0x14 0x10e4;
  Wr 0x14 0x87e9; Wr 0x14 0xe587; Wr 0x14 0xeae2; Wr 0x14 0x87f7; Wr 0x14 0xf636; Wr 0x14 0xe687;
  Wr 0x14 0xf7ae; Wr 0x14 0x19e2; Wr 0x14 0x87f7; Wr 0x14 0xf736; Wr 0x14 0xe687; Wr 0x14 0xf700;
  Wr 0x14 0x00ae; Wr 0x14 0x0200; Wr 0x14 0x0002; Wr 0x14 0x49ca; Wr 0x14 0xef57; Wr 0x14 0xe687;
  Wr 0x14 0xe7e7; Wr 0x14 0x87e8; Wr 0x14 0xffef; Wr 0x14 0x97ff; Wr 0x14 0xfefd; Wr 0x14 0xfc04;
  Wr 0x14 0xf8f9; Wr 0x14 0xfafb; Wr 0x14 0xef79; Wr 0x14 0xfbe2; Wr 0x14 0x87e7; Wr 0x14 0xe387;
  Wr 0x14 0xe8ef; Wr 0x14 0x65e2; Wr 0x14 0x87fb; Wr 0x14 0xe387; Wr 0x14 0xfcef; Wr 0x14 0x7502;
  Wr 0x14 0x49e5; Wr 0x14 0xac50; Wr 0x14 0x1abf; Wr 0x14 0x876f; Wr 0x14 0x0244; Wr 0x14 0xdcef;
  Wr 0x14 0x64e2; Wr 0x14 0x87e9; Wr 0x14 0xe387; Wr 0x14 0xea1b; Wr 0x14 0x659e; Wr 0x14 0x16e4;
  Wr 0x14 0x87e9; Wr 0x14 0xe587; Wr 0x14 0xeaae; Wr 0x14 0x06bf; Wr 0x14 0x876c; Wr 0x14 0x024a;
  Wr 0x14 0x5fe2; Wr 0x14 0x87f7; Wr 0x14 0xf636; Wr 0x14 0xe687; Wr 0x14 0xf7ff; Wr 0x14 0xef97;
  Wr 0x14 0xfffe; Wr 0x14 0xfdfc; Wr 0x14 0x04f8; Wr 0x14 0xf9fa; Wr 0x14 0xef69; Wr 0x14 0xbf87;
  Wr 0x14 0x6602; Wr 0x14 0x44dc; Wr 0x14 0xad28; Wr 0x14 0x29bf; Wr 0x14 0x8763; Wr 0x14 0x0244;
  Wr 0x14 0xdcef; Wr 0x14 0x54bf; Wr 0x14 0x8760; Wr 0x14 0x0244; Wr 0x14 0xdcac; Wr 0x14 0x290d;
  Wr 0x14 0xac28; Wr 0x14 0x05a3; Wr 0x14 0x020c; Wr 0x14 0xae10; Wr 0x14 0xa303; Wr 0x14 0x07ae;
  Wr 0x14 0x0ba3; Wr 0x14 0x0402; Wr 0x14 0xae06; Wr 0x14 0xbf87; Wr 0x14 0x6c02; Wr 0x14 0x4a5f;
  Wr 0x14 0xef96; Wr 0x14 0xfefd; Wr 0x14 0xfc04; Wr 0x14 0xf8f9; Wr 0x14 0xfafb; Wr 0x14 0xef69;
  Wr 0x14 0xfae0; Wr 0x14 0x8015; Wr 0x14 0xad25; Wr 0x14 0x41d2; Wr 0x14 0x0002; Wr 0x14 0x86f3;
  Wr 0x14 0xe087; Wr 0x14 0xebe1; Wr 0x14 0x87ec; Wr 0x14 0x1b46; Wr 0x14 0xab26; Wr 0x14 0xd40b;
  Wr 0x14 0xff1b; Wr 0x14 0x46aa; Wr 0x14 0x1fac; Wr 0x14 0x3204; Wr 0x14 0xef32; Wr 0x14 0xae02;
  Wr 0x14 0xd304; Wr 0x14 0x0c31; Wr 0x14 0xbf87; Wr 0x14 0xeb1a; Wr 0x14 0x93d8; Wr 0x14 0x19d9;
  Wr 0x14 0x1b46; Wr 0x14 0xab0e; Wr 0x14 0x19d8; Wr 0x14 0x19d9].

Definition phy_mcu_8168h_3_4 : list mop := [
  Wr 0x14 0x1b46; Wr 0x14 0xaa06; Wr 0x14 0x12a2; Wr 0x14 0x08c9; Wr 0x14 0xae06; Wr 0x14 0xbf87;
  Wr 0x14 0x6902; Wr 0x14 0x4a5f; Wr 0x14 0xfeef; Wr 0x14 0x96ff; Wr 0x14 0xfefd; Wr 0x14 0xfc04;
  Wr 0x14 0xf8fb; Wr 0x14 0xef79; Wr 0x14 0xa200; Wr 0x14 0x05bf; Wr 0x14 0x876f; Wr 0x14 0xae33;
  Wr 0x14 0xa201; Wr 0x14 0x05bf; Wr 0x14 0x8772; Wr 0x14 0xae2b; Wr 0x14 0xa202; Wr 0x14 0x05bf;
  Wr 0x14 0x8775; Wr 0x14 0xae23; Wr 0x14 0xa203; Wr 0x14 0x05bf; Wr 0x14 0x8778; Wr 0x14 0xae1b;
  Wr 0x14 0xa204; Wr 0x14 0x05bf; Wr 0x14 0x877b; Wr 0x14 0xae13; Wr 0x14 0xa205; Wr 0x14 0x05bf;
  Wr 0x14 0x877e; Wr 0x14 0xae0b; Wr 0x14 0xa206; Wr 0x14 0x05bf; Wr 0x14 0x8781; Wr 0x14 0xae03;
  Wr 0x14 0xbf87; Wr 0x14 0x8402; Wr 0x14 0x44dc; Wr 0x14 0xef64; Wr 0x14 0xef97; Wr 0x14 0xfffc;
  Wr 0x14 0x04af; Wr 0x14 0x00ed; Wr 0x14 0x0220; Wr 0x14 0xa5f8; Wr 0x14 0xfaef; Wr 0x14 0x69bf;
  Wr 0x14 0x4554; Wr 0x14 0x0244; Wr 0x14 0xdce0; Wr 0x14 0x87ff; Wr 0x14 0x1f01; Wr 0x14 0x9e06;
  Wr 0x14 0xe587; Wr 0x14 0xff02; Wr 0x14 0x4b05; Wr 0x14 0xef96; Wr 0x14 0xfefc; Wr 0x14 0xaf03;
  Wr 0x14 0x8c54; Wr 0x14 0xa434; Wr 0x14 0x74a6; Wr 0x14 0x0022; Wr 0x14 0xa434; Wr 0x14 0x11b8;
  Wr 0x14 0x4222; Wr 0x14 0xb842; Wr 0x14 0xf0a2; Wr 0x14 0x00f0; Wr 0x14 0xa202; Wr 0x14 0xf0a2;
  Wr 0x14 0x04f0; Wr 0x14 0xa206; Wr 0x14 0xf0a2; Wr 0x14 0x08f0; Wr 0x14 0xa20a; Wr 0x14 0xf0a2;
  Wr 0x14 0x0cf0; Wr 0x14 0xa20e; Wr 0x14 0x55b8; Wr 0x14 0x20d9; Wr 0x14 0xc608; Wr 0x14 0xaac4;
  Wr 0x14 0x3000; Wr 0x14 0xc614; Wr 0x14 0x33c4; Wr 0x14 0x1a88; Wr 0x14 0xc42e; Wr 0x14 0x22c4;
  Wr 0x14 0x2e54; Wr 0x14 0xc41a; Wr 0x13 0xb818; Wr 0x14 0x1a01; Wr 0x13 0xb81a; Wr 0x14 0x020b;
  Wr 0x13 0xb81c; Wr 0x14 0x03ce; Wr 0x13 0xb81e; Wr 0x14 0x00e7; Wr 0x13 0xb846; Wr 0x14 0x0389;
  Wr 0x13 0xb848; Wr 0x14 0xffff; Wr 0x13 0xb84a; Wr 0x14 0xffff; Wr 0x13 0xb84c; Wr 0x14 0xffff;
  Wr 0x13 0xb832; Wr 0x14 0x001f; Wr 0x1F 0x0A43; Wr 0x13 0x0000; Wr 0x14 0x0000; Wr 0x1f 0x0B82].

Definition enable_eee_1 : list mop := [
  Wr 0x1F 0x0006; Wr 0x00 0x5A30; Wr 0x1F 0x0000; Wr 0x0D 0x0007; Wr 0x0E 0x003C; Wr 0x0D 0x4007;
  Wr 0x0E 0x0006; Wr 0x0D 0x0000].

Definition enable_eee_2 : list mop := [
  Wr 0x1F 0x0004; Wr 0x1F 0x0007; Wr 0x1E 0x0020; Mo 0x15 0 0x0100; Wr 0x1F 0x0002; Wr 0x1F 0x0005;
  Wr 0x05 0x8B85; Mo 0x06 0 0x2000; Wr 0x1F 0x0000; Wr 0x0D 0x0007; Wr 0x0E 0x003C; Wr 0x0D 0x4007;
  Wr 0x0E 0x0006; Wr 0x0D 0x0000].

Definition enable_eee_3 : list mop := [
  Wr 0x1F 0x0007; Wr 0x1e 0x0020; Mo 0x15 0 (BIT 8); Wr 0x1F 0x0005; Wr 0x05 0x8B85; Mo 0x06 0 (BIT 13);
  Wr 0x1F 0x0000; Wr 0x0D 0x0007; Wr 0x0E 0x003C; Wr 0x0D 0x4007; Wr 0x0E 0x0006; Wr 0x0D 0x0000].

Definition disable_eee_1 : list mop := [
  Wr 0x1F 0x0006; Wr 0x00 0x5A00; Wr 0x1F 0x0000; Wr 0x0D 0x0007; Wr 0x0E 0x003C; Wr 0x0D 0x4007;
  Wr 0x0E 0x0000; Wr 0x0D 0x0000; Wr 0x1F 0x0000].

Definition disable_eee_2 : list mop := [
  Wr 0x1F 0x0005; Wr 0x05 0x8B85; Mo 0x06 0x2000 0; Wr 0x1F 0x0004; Wr 0x1F 0x0007; Wr 0x1E 0x0020;
  Mo 0x15 0x0100 0; Wr 0x1F 0x0002; Wr 0x1F 0x0000; Wr 0x0D 0x0007; Wr 0x0E 0x003C; Wr 0x0D 0x4007;
  Wr 0x0E 0x0000; Wr 0x0D 0x0000; Wr 0x1F 0x0000].

Definition disable_eee_3 : list mop := [
  Wr 0x1F 0x0005; Wr 0x05 0x8B85; Mo 0x06 (BIT 13) 0; Wr 0x1F 0x0007; Wr 0x1e 0x0020; Mo 0x15 (BIT 8) 0;
  Wr 0x1F 0x0000; Wr 0x0D 0x0007; Wr 0x0E 0x003C; Wr 0x0D 0x4007; Wr 0x0E 0x0000; Wr 0x0D 0x0000;
  Wr 0x1F 0x0000].

Definition phy_config_4_1 : list mop := [
  Wr 0x1F 0x0001; Wr 0x12 0x2300; Wr 0x1F 0x0000; Wr 0x1F 0x0003; Wr 0x16 0x000A; Wr 0x1F 0x0000;
  Wr 0x1F 0x0003; Wr 0x12 0xC096; Wr 0x1F 0x0000; Wr 0x1F 0x0002; Wr 0x00 0x88DE; Wr 0x01 0x82B1;
  Wr 0x1F 0x0000; Wr 0x1F 0x0002; Wr 0x08 0x9E30; Wr 0x09 0x01F0; Wr 0x1F 0x0000; Wr 0x1F 0x0002;
  Wr 0x0A 0x5500; Wr 0x1F 0x0000; Wr 0x1F 0x0002; Wr 0x03 0x7002; Wr 0x1F 0x0000; Wr 0x1F 0x0002;
  Wr 0x0C 0x00C8; Wr 0x1F 0x0000; Wr 0x1F 0x0000; Mo 0x14 0 0x0020; Mo 0x0D 0x0020 0].

Definition phy_config_5_1 : list mop := [
  Wr 0x1F 0x0001; Wr 0x12 0x2300; Wr 0x1F 0x0003; Wr 0x16 0x0F0A; Wr 0x1F 0x0000; Wr 0x1F 0x0002;
  Wr 0x00 0x88DE; Wr 0x01 0x82B1; Wr 0x1F 0x0000; Wr 0x1F 0x0002; Wr 0x0C 0x7EB8; Wr 0x1F 0x0000;
  Wr 0x1F 0x0002; Wr 0x06 0x0761; Wr 0x1F 0x0000; Wr 0x1F 0x0001; Wr 0x03 0x802F; Wr 0x02 0x4F02;
  Wr 0x01 0x0409; Wr 0x00 0xF099; Wr 0x04 0x9800; Wr 0x04 0x9000; Wr 0x1F 0x0000; Wr 0x1F 0x0000;
  Mo 0x16 0 0x0001; Wr 0x1F 0x0000; Mo 0x14 0 0x0020; Mo 0x0D 0x0020 0; Wr 0x1F 0x0001; Wr 0x1D 0x3D98;
  Wr 0x1F 0x0000; Wr 0x1F 0x0001; Wr 0x17 0x0CC0; Wr 0x1F 0x0000].

Definition phy_config_6_1 : list mop := [
  Wr 0x1F 0x0001; Wr 0x12 0x2300; Wr 0x1F 0x0003; Wr 0x16 0x0F0A; Wr 0x1F 0x0000; Wr 0x1F 0x0002;
  Wr 0x00 0x88DE; Wr 0x01 0x82B1; Wr 0x1F 0x0000; Wr 0x1F 0x0002; Wr 0x0C 0x7EB8; Wr 0x1F 0x0000;
  Wr 0x1F 0x0002; Wr 0x06 0x5461; Wr 0x1F 0x0000; Wr 0x1F 0x0002; Wr 0x06 0x5461; Wr 0x1F 0x0000;
  Wr 0x1F 0x0000; Mo 0x16 0 0x0001; Wr 0x1F 0x0000; Mo 0x14 0 0x0020; Mo 0x0D 0x0020 0; Wr 0x1F 0x0001;
  Wr 0x1D 0x3D98; Wr 0x1F 0x0000; Wr 0x1f 0x0001; Wr 0x17 0x0CC0; Wr 0x1F 0x0000].

Definition phy_config_7_1 : list mop := [
  Wr 0x1F 0x0000; Mo 0x14 0 0x0020; Mo 0x0D 0x0020 0; Wr 0x1F 0x0001; Wr 0x1D 0x3D98; Wr 0x1F 0x0001;
  Wr 0x14 0xCAA3; Wr 0x1C 0x000A; Wr 0x18 0x65D0; Wr 0x1F 0x0003; Wr 0x17 0xB580; Wr 0x18 0xFF54;
  Wr 0x19 0x3954; Wr 0x1F 0x0002; Wr 0x0D 0x310C; Wr 0x0E 0x310C; Wr 0x0F 0x311C; Wr 0x06 0x0761;
  Wr 0x1F 0x0003; Wr 0x18 0xFF55; Wr 0x19 0x3955; Wr 0x18 0xFF54; Wr 0x19 0x3954; Wr 0x1F 0x0001;
  Wr 0x17 0x0CC0; Wr 0x1F 0x0000].

Definition phy_config_8_1 : list mop := [
  Wr 0x1F 0x0000; Mo 0x14 0 0x0020; Mo 0x0D 0x0020 0; Wr 0x1F 0x0001; Wr 0x14 0xCAA3; Wr 0x1C 0x000A;
  Wr 0x18 0x65D0; Wr 0x1F 0x0003; Wr 0x17 0xB580; Wr 0x18 0xFF54; Wr 0x19 0x3954; Wr 0x1F 0x0002;
  Wr 0x0D 0x310C; Wr 0x0E 0x310C; Wr 0x0F 0x311C; Wr 0x06 0x0761; Wr 0x1F 0x0003; Wr 0x18 0xFF55;
  Wr 0x19 0x3955; Wr 0x18 0xFF54; Wr 0x19 0x3954; Wr 0x1F 0x0001; Wr 0x17 0x0CC0; Wr 0x1F 0x0000;
  Mo 0x16 0 0x0001; Wr 0x1F 0x0000].

Definition phy_config_9_1 : list mop := [
  Wr 0x1F 0x0001; Wr 0x06 0x4064; Wr 0x07 0x2863; Wr 0x08 0x059C; Wr 0x09 0x26B4; Wr 0x0A 0x6A19;
  Wr 0x0B 0xDCC8; Wr 0x10 0xF06D; Wr 0x14 0x7F68; Wr 0x18 0x7FD9; Wr 0x1C 0xF0FF; Wr 0x1D 0x3D9C;
  Wr 0x1F 0x0003; Wr 0x12 0xF49F; Wr 0x13 0x070B; Wr 0x1A 0x05AD; Wr 0x14 0x94C0; Wr 0x1F 0x0002;
  Mo 0x0B 0x00FF 0x10].

Definition phy_config_9_2 : list mop := [
  Wr 0x1F 0x0002; Mo 0x0D 0 (bits_or [9; 8]); Mo 0x0F 0 (BIT 4); Wr 0x1F 0x0002;
  Mo 0x02 (bits_or [10; 9]) (BIT 8); Mo 0x03 (bits_or [15; 14; 13]) 0; Wr 0x1F 0x0001; Wr 0x17 0x0CC0;
  Wr 0x1F 0x0005; Wr 0x05 0x001B].

Definition phy_config_9_3 : list mop := [
  Wr 0x1f 0x0005; Wr 0x05 0xfff6; Wr 0x06 0x0080; Wr 0x05 0x8000; Wr 0x06 0xf8f9; Wr 0x06 0xfaef;
  Wr 0x06 0x59ee; Wr 0x06 0xf8ea; Wr 0x06 0x00ee; Wr 0x06 0xf8eb; Wr 0x06 0x00e0; Wr 0x06 0xf87c;
  Wr 0x06 0xe1f8; Wr 0x06 0x7d59; Wr 0x06 0x0fef; Wr 0x06 0x0139; Wr 0x06 0x029e; Wr 0x06 0x06ef;
  Wr 0x06 0x1039; Wr 0x06 0x089f; Wr 0x06 0x2aee; Wr 0x06 0xf8ea; Wr 0x06 0x00ee; Wr 0x06 0xf8eb;
  Wr 0x06 0x01e0; Wr 0x06 0xf87c; Wr 0x06 0xe1f8; Wr 0x06 0x7d58; Wr 0x06 0x409e; Wr 0x06 0x0f39;
  Wr 0x06 0x46aa; Wr 0x06 0x0bbf; Wr 0x06 0x8290; Wr 0x06 0xd682; Wr 0x06 0x9802; Wr 0x06 0x014f;
  Wr 0x06 0xae09; Wr 0x06 0xbf82; Wr 0x06 0x98d6; Wr 0x06 0x82a0; Wr 0x06 0x0201; Wr 0x06 0x4fef;
  Wr 0x06 0x95fe; Wr 0x06 0xfdfc; Wr 0x06 0x05f8; Wr 0x06 0xf9fa; Wr 0x06 0xeef8; Wr 0x06 0xea00;
  Wr 0x06 0xeef8; Wr 0x06 0xeb00; Wr 0x06 0xe2f8; Wr 0x06 0x7ce3; Wr 0x06 0xf87d; Wr 0x06 0xa511;
  Wr 0x06 0x1112; Wr 0x06 0xd240; Wr 0x06 0xd644; Wr 0x06 0x4402; Wr 0x06 0x8217; Wr 0x06 0xd2a0;
  Wr 0x06 0xd6aa; Wr 0x06 0xaa02; Wr 0x06 0x8217; Wr 0x06 0xae0f; Wr 0x06 0xa544; Wr 0x06 0x4402;
  Wr 0x06 0xae4d; Wr 0x06 0xa5aa; Wr 0x06 0xaa02; Wr 0x06 0xae47; Wr 0x06 0xaf82; Wr 0x06 0x13ee;
  Wr 0x06 0x834e; Wr 0x06 0x00ee; Wr 0x06 0x834d; Wr 0x06 0x0fee; Wr 0x06 0x834c; Wr 0x06 0x0fee;
  Wr 0x06 0x834f; Wr 0x06 0x00ee; Wr 0x06 0x8351; Wr 0x06 0x00ee; Wr 0x06 0x834a; Wr 0x06 0xffee;
  Wr 0x06 0x834b; Wr 0x06 0xffe0; Wr 0x06 0x8330; Wr 0x06 0xe183; Wr 0x06 0x3158; Wr 0x06 0xfee4;
  Wr 0x06 0xf88a; Wr 0x06 0xe5f8; Wr 0x06 0x8be0; Wr 0x06 0x8332; Wr 0x06 0xe183; Wr 0x06 0x3359;
  Wr 0x06 0x0fe2; Wr 0x06 0x834d; Wr 0x06 0x0c24; Wr 0x06 0x5af0; Wr 0x06 0x1e12; Wr 0x06 0xe4f8;
  Wr 0x06 0x8ce5; Wr 0x06 0xf88d; Wr 0x06 0xaf82; Wr 0x06 0x13e0; Wr 0x06 0x834f; Wr 0x06 0x10e4;
  Wr 0x06 0x834f; Wr 0x06 0xe083; Wr 0x06 0x4e78; Wr 0x06 0x009f; Wr 0x06 0x0ae0; Wr 0x06 0x834f;
  Wr 0x06 0xa010; Wr 0x06 0xa5ee; Wr 0x06 0x834e; Wr 0x06 0x01e0; Wr 0x06 0x834e; Wr 0x06 0x7805;
  Wr 0x06 0x9e9a; Wr 0x06 0xe083; Wr 0x06 0x4e78; Wr 0x06 0x049e; Wr 0x06 0x10e0; Wr 0x06 0x834e;
  Wr 0x06 0x7803; Wr 0x06 0x9e0f; Wr 0x06 0xe083; Wr 0x06 0x4e78; Wr 0x06 0x019e; Wr 0x06 0x05ae;
  Wr 0x06 0x0caf; Wr 0x06 0x81f8; Wr 0x06 0xaf81; Wr 0x06 0xa3af; Wr 0x06 0x81dc; Wr 0x06 0xaf82;
  Wr 0x06 0x13ee; Wr 0x06 0x8348; Wr 0x06 0x00ee; Wr 0x06 0x8349; Wr 0x06 0x00e0; Wr 0x06 0x8351;
  Wr 0x06 0x10e4; Wr 0x06 0x8351; Wr 0x06 0x5801; Wr 0x06 0x9fea].

Definition phy_config_9_4 : list mop := [
  Wr 0x06 0xd000; Wr 0x06 0xd180; Wr 0x06 0x1f66; Wr 0x06 0xe2f8; Wr 0x06 0xeae3; Wr 0x06 0xf8eb;
  Wr 0x06 0x5af8; Wr 0x06 0x1e20; Wr 0x06 0xe6f8; Wr 0x06 0xeae5; Wr 0x06 0xf8eb; Wr 0x06 0xd302;
  Wr 0x06 0xb3fe; Wr 0x06 0xe2f8; Wr 0x06 0x7cef; Wr 0x06 0x325b; Wr 0x06 0x80e3; Wr 0x06 0xf87d;
  Wr 0x06 0x9e03; Wr 0x06 0x7dff; Wr 0x06 0xff0d; Wr 0x06 0x581c; Wr 0x06 0x551a; Wr 0x06 0x6511;
  Wr 0x06 0xa190; Wr 0x06 0xd3e2; Wr 0x06 0x8348; Wr 0x06 0xe383; Wr 0x06 0x491b; Wr 0x06 0x56ab;
  Wr 0x06 0x08ef; Wr 0x06 0x56e6; Wr 0x06 0x8348; Wr 0x06 0xe783; Wr 0x06 0x4910; Wr 0x06 0xd180;
  Wr 0x06 0x1f66; Wr 0x06 0xa004; Wr 0x06 0xb9e2; Wr 0x06 0x8348; Wr 0x06 0xe383; Wr 0x06 0x49ef;
  Wr 0x06 0x65e2; Wr 0x06 0x834a; Wr 0x06 0xe383; Wr 0x06 0x4b1b; Wr 0x06 0x56aa; Wr 0x06 0x0eef;
  Wr 0x06 0x56e6; Wr 0x06 0x834a; Wr 0x06 0xe783; Wr 0x06 0x4be2; Wr 0x06 0x834d; Wr 0x06 0xe683;
  Wr 0x06 0x4ce0; Wr 0x06 0x834d; Wr 0x06 0xa000; Wr 0x06 0x0caf; Wr 0x06 0x81dc; Wr 0x06 0xe083;
  Wr 0x06 0x4d10; Wr 0x06 0xe483; Wr 0x06 0x4dae; Wr 0x06 0x0480; Wr 0x06 0xe483; Wr 0x06 0x4de0;
  Wr 0x06 0x834e; Wr 0x06 0x7803; Wr 0x06 0x9e0b; Wr 0x06 0xe083; Wr 0x06 0x4e78; Wr 0x06 0x049e;
  Wr 0x06 0x04ee; Wr 0x06 0x834e; Wr 0x06 0x02e0; Wr 0x06 0x8332; Wr 0x06 0xe183; Wr 0x06 0x3359;
  Wr 0x06 0x0fe2; Wr 0x06 0x834d; Wr 0x06 0x0c24; Wr 0x06 0x5af0; Wr 0x06 0x1e12; Wr 0x06 0xe4f8;
  Wr 0x06 0x8ce5; Wr 0x06 0xf88d; Wr 0x06 0xe083; Wr 0x06 0x30e1; Wr 0x06 0x8331; Wr 0x06 0x6801;
  Wr 0x06 0xe4f8; Wr 0x06 0x8ae5; Wr 0x06 0xf88b; Wr 0x06 0xae37; Wr 0x06 0xee83; Wr 0x06 0x4e03;
  Wr 0x06 0xe083; Wr 0x06 0x4ce1; Wr 0x06 0x834d; Wr 0x06 0x1b01; Wr 0x06 0x9e04; Wr 0x06 0xaaa1;
  Wr 0x06 0xaea8; Wr 0x06 0xee83; Wr 0x06 0x4e04; Wr 0x06 0xee83; Wr 0x06 0x4f00; Wr 0x06 0xaeab;
  Wr 0x06 0xe083; Wr 0x06 0x4f78; Wr 0x06 0x039f; Wr 0x06 0x14ee; Wr 0x06 0x834e; Wr 0x06 0x05d2;
  Wr 0x06 0x40d6; Wr 0x06 0x5554; Wr 0x06 0x0282; Wr 0x06 0x17d2; Wr 0x06 0xa0d6; Wr 0x06 0xba00;
  Wr 0x06 0x0282; Wr 0x06 0x17fe; Wr 0x06 0xfdfc; Wr 0x06 0x05f8; Wr 0x06 0xe0f8; Wr 0x06 0x60e1;
  Wr 0x06 0xf861; Wr 0x06 0x6802; Wr 0x06 0xe4f8; Wr 0x06 0x60e5; Wr 0x06 0xf861; Wr 0x06 0xe0f8;
  Wr 0x06 0x48e1; Wr 0x06 0xf849; Wr 0x06 0x580f; Wr 0x06 0x1e02; Wr 0x06 0xe4f8; Wr 0x06 0x48e5;
  Wr 0x06 0xf849; Wr 0x06 0xd000; Wr 0x06 0x0282; Wr 0x06 0x5bbf; Wr 0x06 0x8350; Wr 0x06 0xef46;
  Wr 0x06 0xdc19; Wr 0x06 0xddd0; Wr 0x06 0x0102; Wr 0x06 0x825b].

Definition phy_config_9_5 : list mop := [
  Wr 0x06 0x0282; Wr 0x06 0x77e0; Wr 0x06 0xf860; Wr 0x06 0xe1f8; Wr 0x06 0x6158; Wr 0x06 0xfde4;
  Wr 0x06 0xf860; Wr 0x06 0xe5f8; Wr 0x06 0x61fc; Wr 0x06 0x04f9; Wr 0x06 0xfafb; Wr 0x06 0xc6bf;
  Wr 0x06 0xf840; Wr 0x06 0xbe83; Wr 0x06 0x50a0; Wr 0x06 0x0101; Wr 0x06 0x071b; Wr 0x06 0x89cf;
  Wr 0x06 0xd208; Wr 0x06 0xebdb; Wr 0x06 0x19b2; Wr 0x06 0xfbff; Wr 0x06 0xfefd; Wr 0x06 0x04f8;
  Wr 0x06 0xe0f8; Wr 0x06 0x48e1; Wr 0x06 0xf849; Wr 0x06 0x6808; Wr 0x06 0xe4f8; Wr 0x06 0x48e5;
  Wr 0x06 0xf849; Wr 0x06 0x58f7; Wr 0x06 0xe4f8; Wr 0x06 0x48e5; Wr 0x06 0xf849; Wr 0x06 0xfc04;
  Wr 0x06 0x4d20; Wr 0x06 0x0002; Wr 0x06 0x4e22; Wr 0x06 0x0002; Wr 0x06 0x4ddf; Wr 0x06 0xff01;
  Wr 0x06 0x4edd; Wr 0x06 0xff01; Wr 0x06 0xf8fa; Wr 0x06 0xfbef; Wr 0x06 0x79bf; Wr 0x06 0xf822;
  Wr 0x06 0xd819; Wr 0x06 0xd958; Wr 0x06 0x849f; Wr 0x06 0x09bf; Wr 0x06 0x82be; Wr 0x06 0xd682;
  Wr 0x06 0xc602; Wr 0x06 0x014f; Wr 0x06 0xef97; Wr 0x06 0xfffe; Wr 0x06 0xfc05; Wr 0x06 0x17ff;
  Wr 0x06 0xfe01; Wr 0x06 0x1700; Wr 0x06 0x0102; Wr 0x05 0x83d8; Wr 0x06 0x8051; Wr 0x05 0x83d6;
  Wr 0x06 0x82a0; Wr 0x05 0x83d4; Wr 0x06 0x8000; Wr 0x02 0x2010; Wr 0x03 0xdc00; Wr 0x1f 0x0000;
  Wr 0x0b 0x0600; Wr 0x1f 0x0005; Wr 0x05 0xfff6; Wr 0x06 0x00fc; Wr 0x1f 0x0000].

Definition phy_config_10_1 : list mop := [
  Wr 0x1F 0x0001; Wr 0x06 0x4064; Wr 0x07 0x2863; Wr 0x08 0x059C; Wr 0x09 0x26B4; Wr 0x0A 0x6A19;
  Wr 0x0B 0xDCC8; Wr 0x10 0xF06D; Wr 0x14 0x7F68; Wr 0x18 0x7FD9; Wr 0x1C 0xF0FF; Wr 0x1D 0x3D9C;
  Wr 0x1F 0x0003; Wr 0x12 0xF49F; Wr 0x13 0x070B; Wr 0x1A 0x05AD; Wr 0x14 0x94C0; Wr 0x1F 0x0002;
  Wr 0x06 0x5561; Wr 0x1F 0x0005; Wr 0x05 0x8332; Wr 0x06 0x5561].

Definition phy_config_10_2 : list mop := [
  Wr 0x1F 0x0002; Mo 0x02 (bits_or [10; 9]) (BIT 8); Mo 0x03 (bits_or [15; 14; 13]) 0; Wr 0x1F 0x0001;
  Wr 0x17 0x0CC0; Wr 0x1F 0x0002; Mo 0x0F 0 (bits_or [4; 2; 1; 0]); Wr 0x1F 0x0005; Wr 0x05 0x001B].

Definition phy_config_10_3 : list mop := [
  Wr 0x1f 0x0005; Wr 0x05 0xfff6; Wr 0x06 0x0080; Wr 0x05 0x8000; Wr 0x06 0xf8f9; Wr 0x06 0xfaee;
  Wr 0x06 0xf8ea; Wr 0x06 0x00ee; Wr 0x06 0xf8eb; Wr 0x06 0x00e2; Wr 0x06 0xf87c; Wr 0x06 0xe3f8;
  Wr 0x06 0x7da5; Wr 0x06 0x1111; Wr 0x06 0x12d2; Wr 0x06 0x40d6; Wr 0x06 0x4444; Wr 0x06 0x0281;
  Wr 0x06 0xc6d2; Wr 0x06 0xa0d6; Wr 0x06 0xaaaa; Wr 0x06 0x0281; Wr 0x06 0xc6ae; Wr 0x06 0x0fa5;
  Wr 0x06 0x4444; Wr 0x06 0x02ae; Wr 0x06 0x4da5; Wr 0x06 0xaaaa; Wr 0x06 0x02ae; Wr 0x06 0x47af;
  Wr 0x06 0x81c2; Wr 0x06 0xee83; Wr 0x06 0x4e00; Wr 0x06 0xee83; Wr 0x06 0x4d0f; Wr 0x06 0xee83;
  Wr 0x06 0x4c0f; Wr 0x06 0xee83; Wr 0x06 0x4f00; Wr 0x06 0xee83; Wr 0x06 0x5100; Wr 0x06 0xee83;
  Wr 0x06 0x4aff; Wr 0x06 0xee83; Wr 0x06 0x4bff; Wr 0x06 0xe083; Wr 0x06 0x30e1; Wr 0x06 0x8331;
  Wr 0x06 0x58fe; Wr 0x06 0xe4f8; Wr 0x06 0x8ae5; Wr 0x06 0xf88b; Wr 0x06 0xe083; Wr 0x06 0x32e1;
  Wr 0x06 0x8333; Wr 0x06 0x590f; Wr 0x06 0xe283; Wr 0x06 0x4d0c; Wr 0x06 0x245a; Wr 0x06 0xf01e;
  Wr 0x06 0x12e4; Wr 0x06 0xf88c; Wr 0x06 0xe5f8; Wr 0x06 0x8daf; Wr 0x06 0x81c2; Wr 0x06 0xe083;
  Wr 0x06 0x4f10; Wr 0x06 0xe483; Wr 0x06 0x4fe0; Wr 0x06 0x834e; Wr 0x06 0x7800; Wr 0x06 0x9f0a;
  Wr 0x06 0xe083; Wr 0x06 0x4fa0; Wr 0x06 0x10a5; Wr 0x06 0xee83; Wr 0x06 0x4e01; Wr 0x06 0xe083;
  Wr 0x06 0x4e78; Wr 0x06 0x059e; Wr 0x06 0x9ae0; Wr 0x06 0x834e; Wr 0x06 0x7804; Wr 0x06 0x9e10;
  Wr 0x06 0xe083; Wr 0x06 0x4e78; Wr 0x06 0x039e; Wr 0x06 0x0fe0; Wr 0x06 0x834e; Wr 0x06 0x7801;
  Wr 0x06 0x9e05; Wr 0x06 0xae0c; Wr 0x06 0xaf81; Wr 0x06 0xa7af; Wr 0x06 0x8152; Wr 0x06 0xaf81;
  Wr 0x06 0x8baf; Wr 0x06 0x81c2; Wr 0x06 0xee83; Wr 0x06 0x4800; Wr 0x06 0xee83; Wr 0x06 0x4900;
  Wr 0x06 0xe083; Wr 0x06 0x5110; Wr 0x06 0xe483; Wr 0x06 0x5158; Wr 0x06 0x019f; Wr 0x06 0xead0;
  Wr 0x06 0x00d1; Wr 0x06 0x801f; Wr 0x06 0x66e2; Wr 0x06 0xf8ea; Wr 0x06 0xe3f8; Wr 0x06 0xeb5a;
  Wr 0x06 0xf81e; Wr 0x06 0x20e6; Wr 0x06 0xf8ea; Wr 0x06 0xe5f8; Wr 0x06 0xebd3; Wr 0x06 0x02b3;
  Wr 0x06 0xfee2; Wr 0x06 0xf87c; Wr 0x06 0xef32; Wr 0x06 0x5b80; Wr 0x06 0xe3f8; Wr 0x06 0x7d9e;
  Wr 0x06 0x037d; Wr 0x06 0xffff; Wr 0x06 0x0d58; Wr 0x06 0x1c55; Wr 0x06 0x1a65; Wr 0x06 0x11a1;
  Wr 0x06 0x90d3; Wr 0x06 0xe283; Wr 0x06 0x48e3; Wr 0x06 0x8349; Wr 0x06 0x1b56; Wr 0x06 0xab08;
  Wr 0x06 0xef56; Wr 0x06 0xe683; Wr 0x06 0x48e7; Wr 0x06 0x8349; Wr 0x06 0x10d1; Wr 0x06 0x801f;
  Wr 0x06 0x66a0; Wr 0x06 0x04b9; Wr 0x06 0xe283; Wr 0x06 0x48e3].

Definition phy_config_10_4 : list mop := [
  Wr 0x06 0x8349; Wr 0x06 0xef65; Wr 0x06 0xe283; Wr 0x06 0x4ae3; Wr 0x06 0x834b; Wr 0x06 0x1b56;
  Wr 0x06 0xaa0e; Wr 0x06 0xef56; Wr 0x06 0xe683; Wr 0x06 0x4ae7; Wr 0x06 0x834b; Wr 0x06 0xe283;
  Wr 0x06 0x4de6; Wr 0x06 0x834c; Wr 0x06 0xe083; Wr 0x06 0x4da0; Wr 0x06 0x000c; Wr 0x06 0xaf81;
  Wr 0x06 0x8be0; Wr 0x06 0x834d; Wr 0x06 0x10e4; Wr 0x06 0x834d; Wr 0x06 0xae04; Wr 0x06 0x80e4;
  Wr 0x06 0x834d; Wr 0x06 0xe083; Wr 0x06 0x4e78; Wr 0x06 0x039e; Wr 0x06 0x0be0; Wr 0x06 0x834e;
  Wr 0x06 0x7804; Wr 0x06 0x9e04; Wr 0x06 0xee83; Wr 0x06 0x4e02; Wr 0x06 0xe083; Wr 0x06 0x32e1;
  Wr 0x06 0x8333; Wr 0x06 0x590f; Wr 0x06 0xe283; Wr 0x06 0x4d0c; Wr 0x06 0x245a; Wr 0x06 0xf01e;
  Wr 0x06 0x12e4; Wr 0x06 0xf88c; Wr 0x06 0xe5f8; Wr 0x06 0x8de0; Wr 0x06 0x8330; Wr 0x06 0xe183;
  Wr 0x06 0x3168; Wr 0x06 0x01e4; Wr 0x06 0xf88a; Wr 0x06 0xe5f8; Wr 0x06 0x8bae; Wr 0x06 0x37ee;
  Wr 0x06 0x834e; Wr 0x06 0x03e0; Wr 0x06 0x834c; Wr 0x06 0xe183; Wr 0x06 0x4d1b; Wr 0x06 0x019e;
  Wr 0x06 0x04aa; Wr 0x06 0xa1ae; Wr 0x06 0xa8ee; Wr 0x06 0x834e; Wr 0x06 0x04ee; Wr 0x06 0x834f;
  Wr 0x06 0x00ae; Wr 0x06 0xabe0; Wr 0x06 0x834f; Wr 0x06 0x7803; Wr 0x06 0x9f14; Wr 0x06 0xee83;
  Wr 0x06 0x4e05; Wr 0x06 0xd240; Wr 0x06 0xd655; Wr 0x06 0x5402; Wr 0x06 0x81c6; Wr 0x06 0xd2a0;
  Wr 0x06 0xd6ba; Wr 0x06 0x0002; Wr 0x06 0x81c6; Wr 0x06 0xfefd; Wr 0x06 0xfc05; Wr 0x06 0xf8e0;
  Wr 0x06 0xf860; Wr 0x06 0xe1f8; Wr 0x06 0x6168; Wr 0x06 0x02e4; Wr 0x06 0xf860; Wr 0x06 0xe5f8;
  Wr 0x06 0x61e0; Wr 0x06 0xf848; Wr 0x06 0xe1f8; Wr 0x06 0x4958; Wr 0x06 0x0f1e; Wr 0x06 0x02e4;
  Wr 0x06 0xf848; Wr 0x06 0xe5f8; Wr 0x06 0x49d0; Wr 0x06 0x0002; Wr 0x06 0x820a; Wr 0x06 0xbf83;
  Wr 0x06 0x50ef; Wr 0x06 0x46dc; Wr 0x06 0x19dd; Wr 0x06 0xd001; Wr 0x06 0x0282; Wr 0x06 0x0a02;
  Wr 0x06 0x8226; Wr 0x06 0xe0f8; Wr 0x06 0x60e1; Wr 0x06 0xf861; Wr 0x06 0x58fd; Wr 0x06 0xe4f8;
  Wr 0x06 0x60e5; Wr 0x06 0xf861; Wr 0x06 0xfc04; Wr 0x06 0xf9fa; Wr 0x06 0xfbc6; Wr 0x06 0xbff8;
  Wr 0x06 0x40be; Wr 0x06 0x8350; Wr 0x06 0xa001; Wr 0x06 0x0107; Wr 0x06 0x1b89; Wr 0x06 0xcfd2;
  Wr 0x06 0x08eb; Wr 0x06 0xdb19; Wr 0x06 0xb2fb; Wr 0x06 0xfffe; Wr 0x06 0xfd04; Wr 0x06 0xf8e0;
  Wr 0x06 0xf848; Wr 0x06 0xe1f8; Wr 0x06 0x4968; Wr 0x06 0x08e4; Wr 0x06 0xf848; Wr 0x06 0xe5f8;
  Wr 0x06 0x4958; Wr 0x06 0xf7e4; Wr 0x06 0xf848; Wr 0x06 0xe5f8; Wr 0x06 0x49fc; Wr 0x06 0x044d;
  Wr 0x06 0x2000; Wr 0x06 0x024e; Wr 0x06 0x2200; Wr 0x06 0x024d].

Definition phy_config_10_5 : list mop := [
  Wr 0x06 0xdfff; Wr 0x06 0x014e; Wr 0x06 0xddff; Wr 0x06 0x01f8; Wr 0x06 0xfafb; Wr 0x06 0xef79;
  Wr 0x06 0xbff8; Wr 0x06 0x22d8; Wr 0x06 0x19d9; Wr 0x06 0x5884; Wr 0x06 0x9f09; Wr 0x06 0xbf82;
  Wr 0x06 0x6dd6; Wr 0x06 0x8275; Wr 0x06 0x0201; Wr 0x06 0x4fef; Wr 0x06 0x97ff; Wr 0x06 0xfefc;
  Wr 0x06 0x0517; Wr 0x06 0xfffe; Wr 0x06 0x0117; Wr 0x06 0x0001; Wr 0x06 0x0200; Wr 0x05 0x83d8;
  Wr 0x06 0x8000; Wr 0x05 0x83d6; Wr 0x06 0x824f; Wr 0x02 0x2010; Wr 0x03 0xdc00; Wr 0x1f 0x0000;
  Wr 0x0b 0x0600; Wr 0x1f 0x0005; Wr 0x05 0xfff6; Wr 0x06 0x00fc; Wr 0x1f 0x0000].

Definition phy_config_11_1 : list mop := [
  Wr 0x1F 0x0002; Wr 0x10 0x0008; Wr 0x0D 0x006C; Wr 0x1F 0x0001; Wr 0x17 0x0CC0; Wr 0x1F 0x0001;
  Wr 0x0B 0xA4D8; Wr 0x09 0x281C; Wr 0x07 0x2883; Wr 0x0A 0x6B35; Wr 0x1D 0x3DA4; Wr 0x1C 0xEFFD;
  Wr 0x14 0x7F52; Wr 0x18 0x7FC6; Wr 0x08 0x0601; Wr 0x06 0x4063; Wr 0x10 0xF074; Wr 0x1F 0x0003;
  Wr 0x13 0x0789; Wr 0x12 0xF4BD; Wr 0x1A 0x04FD; Wr 0x14 0x84B0; Wr 0x1F 0x0000; Wr 0x00 0x9200;
  Wr 0x1F 0x0005; Wr 0x01 0x0340; Wr 0x1F 0x0001; Wr 0x04 0x4000; Wr 0x03 0x1D21; Wr 0x02 0x0C32;
  Wr 0x01 0x0200; Wr 0x00 0x5554; Wr 0x04 0x4800; Wr 0x04 0x4000; Wr 0x04 0xF000; Wr 0x03 0xDF01;
  Wr 0x02 0xDF20; Wr 0x01 0x101A; Wr 0x00 0xA0FF; Wr 0x04 0xF800; Wr 0x04 0xF000; Wr 0x1F 0x0000;
  Wr 0x1F 0x0007; Wr 0x1E 0x0023; Wr 0x16 0x0000; Wr 0x1F 0x0000; Mo 0x0D 0 (BIT 5); Wr 0x1F 0x0002;
  Mo 0x0C 0 (BIT 10); Wr 0x1F 0x0000].

Definition phy_config_12_1 : list mop := [
  Wr 0x1F 0x0001; Wr 0x17 0x0CC0; Wr 0x1F 0x0000; Wr 0x1F 0x0000; Mo 0x0D 0 (BIT 5); Wr 0x1F 0x0002;
  Mo 0x0C 0 (BIT 10); Wr 0x1F 0x0000; Wr 0x1F 0x0007; Wr 0x1E 0x002C; Wr 0x15 0x035D; Wr 0x1F 0x0005;
  Wr 0x01 0x0300; Wr 0x1F 0x0000].

Definition phy_config_14_1 : list mop := [
  Wr 0x1F 0x0000; Wr 0x1f 0x0005; Wr 0x05 0x8b80; Wr 0x06 0xc896; Wr 0x1f 0x0000; Wr 0x1F 0x0001;
  Wr 0x0B 0x6C20; Wr 0x07 0x2872; Wr 0x1C 0xEFFF; Wr 0x1F 0x0003; Wr 0x14 0x6420; Wr 0x1F 0x0000;
  Wr 0x1F 0x0002; Mo 0x08 0xFF00 0x8000; Wr 0x1F 0x0000; Wr 0x1F 0x0007; Wr 0x1E 0x002D; Mo 0x18 0 0x0010;
  Wr 0x1F 0x0000; Mo 0x14 0 0x8000; Wr 0x1F 0x0002; Wr 0x00 0x080B; Wr 0x0B 0x09D7; Wr 0x1F 0x0000].

Definition phy_config_14_2 : list mop := [
  Wr 0x1F 0x0003; Wr 0x19 0x7F46; Wr 0x1F 0x0005; Wr 0x05 0x8AD2; Wr 0x06 0x6810; Wr 0x05 0x8AD4;
  Wr 0x06 0x8002; Wr 0x05 0x8ADE; Wr 0x06 0x8025; Wr 0x1F 0x0000; Wr 0x1F 0x0007; Wr 0x1E 0x002F;
  Wr 0x15 0x1919; Wr 0x1F 0x0000; Wr 0x1F 0x0007; Wr 0x1E 0x002D; Mo 0x18 0 0x0040; Wr 0x1F 0x0000;
  Wr 0x1F 0x0005; Wr 0x05 0x8B86; Mo 0x06 0 0x0001; Wr 0x1F 0x0000; Wr 0x1F 0x0007; Wr 0x1E 0x00AC;
  Wr 0x18 0x0006; Wr 0x1F 0x0000].

Definition phy_config_16_1 : list mop := [
  Wr 0x1F 0x0005; Wr 0x05 0x8B80; Mo 0x06 0 (bits_or [2; 1]); Wr 0x1f 0x0000; Wr 0x1f 0x0004;
  Wr 0x1f 0x0007; Wr 0x1e 0x002D; Mo 0x18 0 (BIT 4); Wr 0x1f 0x0002; Wr 0x1f 0x0000; Mo 0x14 0 (BIT 15);
  Wr 0x1F 0x0000; Wr 0x15 0x1006; Wr 0x1F 0x0005; Wr 0x05 0x8B86; Mo 0x06 0 (BIT 0); Wr 0x1F 0x0000;
  Wr 0x1F 0x0001; Wr 0x0B 0x6C14; Wr 0x14 0x7F3D; Wr 0x1C 0xFAFE; Wr 0x08 0x07C5; Wr 0x10 0xF090;
  Wr 0x1F 0x0003; Wr 0x14 0x641A; Wr 0x1A 0x0606; Wr 0x12 0xF480; Wr 0x13 0x0747; Wr 0x1F 0x0000;
  Wr 0x1F 0x0004; Wr 0x1F 0x0007; Wr 0x1E 0x0078; Wr 0x15 0xA408; Wr 0x17 0x5100; Wr 0x19 0x0008;
  Wr 0x1F 0x0002; Wr 0x1F 0x0000; Wr 0x1F 0x0003; Wr 0x0D 0x0207; Wr 0x02 0x5FD0; Wr 0x1F 0x0000;
  Wr 0x1F 0x0004; Wr 0x1F 0x0007; Wr 0x1E 0x00A1; Mo 0x1A (BIT 2) 0; Wr 0x1F 0x0002; Wr 0x1F 0x0000;
  Wr 0x1F 0x0004; Wr 0x1F 0x0007; Wr 0x1E 0x002D].

Definition phy_config_16_2 : list mop := [
  Wr 0x1F 0x0002; Wr 0x1F 0x0000; Wr 0x1F 0x0004; Wr 0x1F 0x0007; Wr 0x1E 0x00AC; Wr 0x18 0x0006;
  Wr 0x1F 0x0002; Wr 0x1F 0x0000; Wr 0x1F 0x0003; Wr 0x09 0xA20F; Wr 0x1F 0x0000; Wr 0x1F 0x0005;
  Wr 0x05 0x8B5B; Wr 0x06 0x9222; Wr 0x05 0x8B6D; Wr 0x06 0x8000; Wr 0x05 0x8B76; Wr 0x06 0x8000;
  Wr 0x1F 0x0000].

Definition evl_phy_value_16 : list Z := [
  0x8B56; 0x8B5F; 0x8B68; 0x8B71; 0x8B7A; 0x8A7B; 0x8A7E; 0x8A81; 0x8A84; 0x8A87].

Definition phy_config_16_4 : list mop := [
  Wr 0x1f 0x0005; Wr 0x05 0x8B54; Mo 0x06 (BIT 11) 0; Wr 0x05 0x8B5D; Mo 0x06 (BIT 11) 0; Wr 0x05 0x8A7C;
  Mo 0x06 (BIT 8) 0; Wr 0x05 0x8A7F; Mo 0x06 0 (BIT 8); Wr 0x05 0x8A82; Mo 0x06 (BIT 8) 0; Wr 0x05 0x8A85;
  Mo 0x06 (BIT 8) 0; Wr 0x05 0x8A88; Mo 0x06 (BIT 8) 0; Wr 0x1f 0x0000; Wr 0x1F 0x0005; Wr 0x05 0x8B85;
  Mo 0x06 0 (bits_or [14; 15]); Wr 0x1f 0x0000].

Definition phy_config_17_1 : list mop := [
  Wr 0x1F 0x0001; Wr 0x0e 0x6b7f; Wr 0x1f 0x0000; Wr 0x1F 0x0005; Wr 0x05 0x8B86; Mo 0x06 0 (BIT 4);
  Wr 0x1f 0x0000].

Definition phy_config_17_2 : list mop := [
  Wr 0x1F 0x0005; Wr 0x05 0x8B80; Mo 0x06 0 (bits_or [2; 1]); Wr 0x1f 0x0000; Wr 0x1F 0x0005;
  Wr 0x05 0x8B86; Mo 0x06 (BIT 4) 0; Wr 0x1f 0x0000].

Definition phy_config_17_3 : list mop := [
  Wr 0x1f 0x0004; Wr 0x1f 0x0007; Wr 0x1e 0x002D; Mo 0x18 0 (BIT 4); Wr 0x1f 0x0002; Wr 0x1f 0x0000;
  Mo 0x14 0 (BIT 15); Wr 0x1F 0x0005; Wr 0x05 0x8B86; Mo 0x06 0 (BIT 0); Wr 0x1f 0x0000; Wr 0x1F 0x0004;
  Wr 0x1F 0x0007; Wr 0x1E 0x00AC; Wr 0x18 0x0006; Wr 0x1F 0x0002; Wr 0x1F 0x0000; Wr 0x1F 0x0003;
  Wr 0x09 0xA20F; Wr 0x1F 0x0000; Wr 0x1F 0x0005; Wr 0x05 0x8B85].

Definition phy_config_17_4 : list mop := [
  Wr 0x1f 0x0000; Wr 0x1F 0x0005; Wr 0x05 0x8B5B; Wr 0x06 0x9222; Wr 0x05 0x8B6D; Wr 0x06 0x8000;
  Wr 0x05 0x8B76; Wr 0x06 0x8000; Wr 0x1F 0x0000].

Definition evl_phy_value_17 : list Z := [
  0x8B56; 0x8B5F; 0x8B68; 0x8B71; 0x8B7A; 0x8A7B; 0x8A7E; 0x8A81; 0x8A84; 0x8A87].

Definition phy_config_17_6 : list mop := [
  Wr 0x1f 0x0005; Wr 0x05 0x8B54; Mo 0x06 (BIT 11) 0; Wr 0x05 0x8B5D; Mo 0x06 (BIT 11) 0; Wr 0x05 0x8A7C;
  Mo 0x06 (BIT 8) 0; Wr 0x05 0x8A7F; Mo 0x06 0 (BIT 8); Wr 0x05 0x8A82; Mo 0x06 (BIT 8) 0; Wr 0x05 0x8A85;
  Mo 0x06 (BIT 8) 0; Wr 0x05 0x8A88; Mo 0x06 (BIT 8) 0; Wr 0x1f 0x0000].

Definition phy_config_18_1 : list mop := [
  Wr 0x1f 0x0007; Wr 0x1e 0x002D; Mo 0x18 0 (BIT 4); Wr 0x1f 0x0000; Mo 0x14 0 (BIT 15); Wr 0x1F 0x0005;
  Wr 0x05 0x8B86; Mo 0x06 0 (BIT 0); Wr 0x1f 0x0000; Wr 0x1F 0x0005; Wr 0x05 0x8B85].

Definition phy_config_18_2 : list mop := [
  Wr 0x1f 0x0000; Wr 0x1F 0x0003; Wr 0x09 0xA20F; Wr 0x1F 0x0000; Wr 0x1F 0x0005; Wr 0x05 0x8B55;
  Wr 0x06 0x0000; Wr 0x05 0x8B5E; Wr 0x06 0x0000; Wr 0x05 0x8B67; Wr 0x06 0x0000; Wr 0x05 0x8B70;
  Wr 0x06 0x0000; Wr 0x1F 0x0000; Wr 0x1F 0x0007; Wr 0x1E 0x0078; Wr 0x17 0x0000; Wr 0x19 0x00FB;
  Wr 0x1F 0x0000; Wr 0x1F 0x0005; Wr 0x05 0x8B79; Wr 0x06 0xAA00; Wr 0x1F 0x0000; Wr 0x1f 0x0003;
  Wr 0x01 0x328A; Wr 0x1f 0x0000; Wr 0x1f 0x0005; Wr 0x05 0x8B54; Mo 0x06 (BIT 11) 0; Wr 0x05 0x8B5D;
  Mo 0x06 (BIT 11) 0; Wr 0x05 0x8A7C; Mo 0x06 (BIT 8) 0; Wr 0x05 0x8A7F; Mo 0x06 0 (BIT 8); Wr 0x05 0x8A82;
  Mo 0x06 (BIT 8) 0; Wr 0x05 0x8A85; Mo 0x06 (BIT 8) 0; Wr 0x05 0x8A88; Mo 0x06 (BIT 8) 0; Wr 0x1f 0x0000].

Definition phy_config_19_1 : list mop := [
  Wr 0x1f 0x0007; Wr 0x1e 0x002D; Mo 0x18 0 (BIT 4); Wr 0x1f 0x0000; Mo 0x14 0 (BIT 15); Wr 0x1F 0x0005;
  Wr 0x05 0x8B86].

Definition phy_config_19_2 : list mop := [
  Wr 0x1f 0x0000; Wr 0x1f 0x0005; Wr 0x05 0x8B54; Mo 0x06 (BIT 11) 0; Wr 0x05 0x8B5D; Mo 0x06 (BIT 11) 0;
  Wr 0x05 0x8A7C; Mo 0x06 (BIT 8) 0; Wr 0x05 0x8A7F; Mo 0x06 0 (BIT 8); Wr 0x05 0x8A82; Mo 0x06 (BIT 8) 0;
  Wr 0x05 0x8A85; Mo 0x06 (BIT 8) 0; Wr 0x05 0x8A88; Mo 0x06 (BIT 8) 0; Wr 0x1f 0x0000; Wr 0x1F 0x0007;
  Wr 0x1E 0x0023; Mo 0x17 (BIT 1) 0; Wr 0x1F 0x0000].

Definition phy_config_20_1 : list mop := [
  Wr 0x1f 0x0007; Wr 0x1e 0x002D; Mo 0x18 0 (BIT 4); Wr 0x1f 0x0000; Mo 0x14 0 (BIT 15); Wr 0x1F 0x0005;
  Wr 0x05 0x8B86; Mo 0x06 0 (BIT 0); Wr 0x1f 0x0000; Wr 0x1F 0x0005; Wr 0x05 0x8B85].

Definition phy_config_20_2 : list mop := [
  Wr 0x1f 0x0000; Wr 0x1F 0x0003; Wr 0x09 0xA20F; Wr 0x1F 0x0000; Wr 0x1F 0x0005; Wr 0x05 0x8B55;
  Wr 0x06 0x0000; Wr 0x05 0x8B5E; Wr 0x06 0x0000; Wr 0x05 0x8B67; Wr 0x06 0x0000; Wr 0x05 0x8B70;
  Wr 0x06 0x0000; Wr 0x1F 0x0000; Wr 0x1F 0x0007; Wr 0x1E 0x0078; Wr 0x17 0x0000; Wr 0x19 0x00FB;
  Wr 0x1F 0x0000; Wr 0x1F 0x0005; Wr 0x05 0x8B79; Wr 0x06 0xAA00; Wr 0x1F 0x0000; Wr 0x1f 0x0005;
  Wr 0x05 0x8B54; Mo 0x06 (BIT 11) 0; Wr 0x05 0x8B5D; Mo 0x06 (BIT 11) 0; Wr 0x05 0x8A7C;
  Mo 0x06 (BIT 8) 0; Wr 0x05 0x8A7F; Mo 0x06 0 (BIT 8); Wr 0x05 0x8A82; Mo 0x06 (BIT 8) 0; Wr 0x05 0x8A85;
  Mo 0x06 (BIT 8) 0; Wr 0x05 0x8A88; Mo 0x06 (BIT 8) 0; Wr 0x1f 0x0000].

Definition phy_config_21_1 : list mop := [
  Wr 0x1F 0x0A44; Mo 0x11 0 (bits_or [2; 3]); Wr 0x1F 0x0BCC; Mo 0x14 (BIT 8) 0; Wr 0x1F 0x0A44;
  Mo 0x11 0 (BIT 7); Mo 0x11 0 (BIT 6); Wr 0x1F 0x0A43; Wr 0x13 0x8084; Mo 0x14 (bits_or [14; 13]) 0;
  Mo 0x10 0 (BIT 12); Mo 0x10 0 (BIT 1); Mo 0x10 0 (BIT 0); Wr 0x1F 0x0A4B; Mo 0x11 0 (BIT 2);
  Wr 0x1F 0x0A43; Wr 0x13 0x8012; Mo 0x14 0 (BIT 15); Wr 0x1F 0x0C42; Mo 0x11 (BIT 13) (BIT 14);
  Wr 0x1F 0x0A43; Wr 0x13 0x809A; Wr 0x14 0x8022; Wr 0x13 0x80A0; Mo 0x14 0xFF00 0x1000; Wr 0x13 0x8088;
  Wr 0x14 0x9222].

Definition phy_config_23_1 : list mop := [
  Wr 0x1F 0x0A44; Mo 0x11 0 (bits_or [3; 2]); Wr 0x1F 0x0000; Wr 0x1F 0x0BCC; Mo 0x14 (BIT 8) 0;
  Wr 0x1F 0x0A44; Mo 0x11 0 (BIT 7); Mo 0x11 0 (BIT 6); Wr 0x1F 0x0A43; Wr 0x13 0x8084;
  Mo 0x14 (bits_or [14; 13]) 0; Mo 0x10 0 (BIT 12); Mo 0x10 0 (BIT 1); Mo 0x10 0 (BIT 0); Wr 0x1F 0x0A4B;
  Mo 0x11 0 (BIT 2); Wr 0x1F 0x0000; Wr 0x1F 0x0A43; Wr 0x13 0x8012; Mo 0x14 0 (BIT 15); Wr 0x1F 0x0000;
  Wr 0x1F 0x0C42; Mo 0x11 (BIT 13) (BIT 14); Wr 0x1F 0x0000].

Definition phy_config_24_1 : list mop := [
  Wr 0x1F 0x0BCC; Mo 0x14 (BIT 8) 0; Wr 0x1F 0x0A44; Mo 0x11 0 (BIT 7); Mo 0x11 0 (BIT 6); Wr 0x1F 0x0A43;
  Wr 0x13 0x8084; Mo 0x14 (bits_or [14; 13]) 0; Mo 0x10 0 (BIT 12); Mo 0x10 0 (BIT 1); Mo 0x10 0 (BIT 0);
  Wr 0x1F 0x0A43; Wr 0x13 0x8012; Mo 0x14 0 (BIT 15); Wr 0x1F 0x0C42; Mo 0x11 (BIT 13) (BIT 14)].

Definition phy_config_25_1 : list mop := [
  Wr 0x1F 0x0BCC; Mo 0x14 (BIT 8) 0; Wr 0x1F 0x0A44; Mo 0x11 0 (BIT 7); Mo 0x11 0 (BIT 6); Wr 0x1F 0x0A43;
  Wr 0x13 0x8084; Mo 0x14 (bits_or [14; 13]) 0; Mo 0x10 0 (BIT 12); Mo 0x10 0 (BIT 1); Mo 0x10 0 (BIT 0);
  Wr 0x1F 0x0A43; Wr 0x13 0x8012; Mo 0x14 0 (BIT 15); Wr 0x1F 0x0BCE; Wr 0x12 0x8860; Wr 0x1F 0x0A43;
  Wr 0x13 0x80F3; Mo 0x14 0xFF00 0x8B00; Wr 0x13 0x80F0; Mo 0x14 0xFF00 0x3A00; Wr 0x13 0x80EF;
  Mo 0x14 0xFF00 0x0500; Wr 0x13 0x80F6; Mo 0x14 0xFF00 0x6E00; Wr 0x13 0x80EC; Mo 0x14 0xFF00 0x6800;
  Wr 0x13 0x80ED; Mo 0x14 0xFF00 0x7C00; Wr 0x13 0x80F2; Mo 0x14 0xFF00 0xF400; Wr 0x13 0x80F4;
  Mo 0x14 0xFF00 0x8500; Wr 0x1F 0x0A43; Wr 0x13 0x8110; Mo 0x14 0xFF00 0xA800; Wr 0x13 0x810F;
  Mo 0x14 0xFF00 0x1D00; Wr 0x13 0x8111; Mo 0x14 0xFF00 0xF500; Wr 0x13 0x8113; Mo 0x14 0xFF00 0x6100;
  Wr 0x13 0x8115; Mo 0x14 0xFF00 0x9200; Wr 0x13 0x810E; Mo 0x14 0xFF00 0x0400; Wr 0x13 0x810C;
  Mo 0x14 0xFF00 0x7C00; Wr 0x13 0x810B; Mo 0x14 0xFF00 0x5A00; Wr 0x1F 0x0A43; Wr 0x13 0x80D1;
  Mo 0x14 0xFF00 0xFF00; Wr 0x13 0x80CD; Mo 0x14 0xFF00 0x9E00; Wr 0x13 0x80D3; Mo 0x14 0xFF00 0x0E00;
  Wr 0x13 0x80D5; Mo 0x14 0xFF00 0xCA00; Wr 0x13 0x80D7; Mo 0x14 0xFF00 0x8400].

Definition phy_config_27_1 : list mop := [
  Wr 0x1F 0x0BCC; Mo 0x14 (BIT 8) 0; Wr 0x1F 0x0A44; Mo 0x11 0 (BIT 7); Mo 0x11 0 (BIT 6); Wr 0x1F 0x0A43;
  Wr 0x13 0x8084; Mo 0x14 (bits_or [14; 13]) 0; Mo 0x10 0 (BIT 12); Mo 0x10 0 (BIT 1); Mo 0x10 0 (BIT 0);
  Wr 0x1F 0x0A43; Wr 0x13 0x8012; Mo 0x14 0 (BIT 15); Wr 0x1F 0x0C42; Mo 0x11 (BIT 13) (BIT 14);
  Wr 0x1F 0x0A43; Wr 0x13 0x80F3; Mo 0x14 0xFF00 0x8B00; Wr 0x13 0x80F0; Mo 0x14 0xFF00 0x3A00;
  Wr 0x13 0x80EF; Mo 0x14 0xFF00 0x0500; Wr 0x13 0x80F6; Mo 0x14 0xFF00 0x6E00; Wr 0x13 0x80EC;
  Mo 0x14 0xFF00 0x6800; Wr 0x13 0x80ED; Mo 0x14 0xFF00 0x7C00; Wr 0x13 0x80F2; Mo 0x14 0xFF00 0xF400;
  Wr 0x13 0x80F4; Mo 0x14 0xFF00 0x8500; Wr 0x1F 0x0A43; Wr 0x13 0x8110; Mo 0x14 0xFF00 0xA800;
  Wr 0x13 0x810F; Mo 0x14 0xFF00 0x1D00; Wr 0x13 0x8111; Mo 0x14 0xFF00 0xF500; Wr 0x13 0x8113;
  Mo 0x14 0xFF00 0x6100; Wr 0x13 0x8115; Mo 0x14 0xFF00 0x9200; Wr 0x13 0x810E; Mo 0x14 0xFF00 0x0400;
  Wr 0x13 0x810C; Mo 0x14 0xFF00 0x7C00; Wr 0x13 0x810B; Mo 0x14 0xFF00 0x5A00; Wr 0x1F 0x0A43;
  Wr 0x13 0x80D1; Mo 0x14 0xFF00 0xFF00; Wr 0x13 0x80CD; Mo 0x14 0xFF00 0x9E00; Wr 0x13 0x80D3;
  Mo 0x14 0xFF00 0x0E00; Wr 0x13 0x80D5; Mo 0x14 0xFF00 0xCA00; Wr 0x13 0x80D7; Mo 0x14 0xFF00 0x8400].

Definition phy_config_29_1 : list mop := [
  Wr 0x1F 0x0A43; Wr 0x13 0x809b; Mo 0x14 0xF800 0x8000; Wr 0x13 0x80A2; Mo 0x14 0xFF00 0x8000;
  Wr 0x13 0x80A4; Mo 0x14 0xFF00 0x8500; Wr 0x13 0x809C; Mo 0x14 0xFF00 0xbd00; Wr 0x1F 0x0000;
  Wr 0x1F 0x0A43; Wr 0x13 0x80AD; Mo 0x14 0xF800 0x7000; Wr 0x13 0x80B4; Mo 0x14 0xFF00 0x5000;
  Wr 0x13 0x80AC; Mo 0x14 0xFF00 0x4000; Wr 0x1F 0x0000; Wr 0x1F 0x0A43; Wr 0x13 0x808E;
  Mo 0x14 0xFF00 0x1200; Wr 0x13 0x8090; Mo 0x14 0xFF00 0xE500; Wr 0x13 0x8092; Mo 0x14 0xFF00 0x9F00;
  Wr 0x1F 0x0000].

Definition phy_config_29_2 : list mop := [
  Wr 0x1F 0x0A44; Mo 0x11 0 (BIT 11); Wr 0x1F 0x0000; Wr 0x1F 0x0BCA; Mo 0x17 (bits_or [13; 12]) (BIT 14);
  Wr 0x1F 0x0000; Wr 0x1F 0x0A43; Wr 0x13 0x803F; Mo 0x14 (bits_or [13; 12]) 0; Wr 0x13 0x8047;
  Mo 0x14 (bits_or [13; 12]) 0; Wr 0x13 0x804F; Mo 0x14 (bits_or [13; 12]) 0; Wr 0x13 0x8057;
  Mo 0x14 (bits_or [13; 12]) 0; Wr 0x13 0x805F; Mo 0x14 (bits_or [13; 12]) 0; Wr 0x13 0x8067;
  Mo 0x14 (bits_or [13; 12]) 0; Wr 0x13 0x806F; Mo 0x14 (bits_or [13; 12]) 0; Wr 0x1F 0x0000].

Definition phy_config_30_1 : list mop := [
  Wr 0x1F 0x0A43; Wr 0x13 0x85FE; Mo 0x14 (bits_or [15; 14; 13; 12; 11; 10; 8]) (BIT 9); Wr 0x13 0x85FF;
  Mo 0x14 (bits_or [15; 14; 13; 12]) (bits_or [11; 10; 9; 8]); Wr 0x13 0x814B;
  Mo 0x14 (bits_or [15; 14; 13; 11; 10; 9; 8]) (BIT 12)].

Definition phy_config_31_1 : list mop := [
  Wr 0x1F 0x0A43; Wr 0x13 0x808E; Mo 0x14 0xFF00 0x4800; Wr 0x13 0x8090; Mo 0x14 0xFF00 0xCC00;
  Wr 0x13 0x8092; Mo 0x14 0xFF00 0xB000; Wr 0x13 0x8088; Mo 0x14 0xFF00 0x6000; Wr 0x13 0x808B;
  Mo 0x14 0x3F00 0x0B00; Wr 0x13 0x808D; Mo 0x14 0x1F00 0x0600; Wr 0x13 0x808C; Mo 0x14 0xFF00 0xB000;
  Wr 0x13 0x80A0; Mo 0x14 0xFF00 0x2800; Wr 0x13 0x80A2; Mo 0x14 0xFF00 0x5000; Wr 0x13 0x809B;
  Mo 0x14 0xF800 0xB000; Wr 0x13 0x809A; Mo 0x14 0xFF00 0x4B00; Wr 0x13 0x809D; Mo 0x14 0x3F00 0x0800;
  Wr 0x13 0x80A1; Mo 0x14 0xFF00 0x7000; Wr 0x13 0x809F; Mo 0x14 0x1F00 0x0300; Wr 0x13 0x809E;
  Mo 0x14 0xFF00 0x8800; Wr 0x13 0x80B2; Mo 0x14 0xFF00 0x2200; Wr 0x13 0x80AD; Mo 0x14 0xF800 0x9800;
  Wr 0x13 0x80AF; Mo 0x14 0x3F00 0x0800; Wr 0x13 0x80B3; Mo 0x14 0xFF00 0x6F00; Wr 0x13 0x80B1;
  Mo 0x14 0x1F00 0x0300; Wr 0x13 0x80B0; Mo 0x14 0xFF00 0x9300; Wr 0x1F 0x0000; Wr 0x1F 0x0A43;
  Wr 0x13 0x8011; Mo 0x14 (BIT 11) 0; Wr 0x1F 0x0000; Wr 0x1F 0x0A44; Mo 0x11 0 (BIT 11); Wr 0x1F 0x0000;
  Wr 0x1F 0x0A43; Wr 0x13 0x8016; Mo 0x14 0 (BIT 10); Wr 0x1F 0x0000].

Definition phy_config_35_1 : list mop := [
  Wr 0x1F 0x0A44; Mo 0x11 0 (BIT 11); Wr 0x1F 0x0000; Wr 0x1F 0x0A4C; Mo 0x15 (bits_or [14; 13]) 0;
  Wr 0x1F 0x0000; Wr 0x1F 0x0A43; Wr 0x13 0x81B9; Wr 0x14 0x2000; Wr 0x1F 0x0000; Wr 0x1F 0x0A43;
  Wr 0x13 0x81D4; Mo 0x14 0xFF00 0x6600; Wr 0x13 0x81CB; Mo 0x14 0xFF00 0x3500; Wr 0x1F 0x0000;
  Wr 0x1F 0x0A80; Mo 0x16 0x000F 0x0005; Wr 0x1F 0x0A43; Wr 0x13 0x8016; Mo 0x14 0 (BIT 13);
  Wr 0x1F 0x0000; Wr 0x1F 0x0A43; Wr 0x13 0x811E; Wr 0x14 0xDECA; Wr 0x13 0x811C; Wr 0x14 0x8008;
  Wr 0x13 0x8118; Wr 0x14 0xF8B4; Wr 0x13 0x811A; Wr 0x14 0x1A04; Wr 0x13 0x8134; Wr 0x14 0xDECA;
  Wr 0x13 0x8132; Wr 0x14 0xA008; Wr 0x13 0x812E; Wr 0x14 0x00B5; Wr 0x13 0x8130; Wr 0x14 0x1A04;
  Wr 0x13 0x8112; Mo 0x14 0xFF00 0x7300; Wr 0x13 0x8106; Wr 0x14 0xA209; Wr 0x13 0x8108; Wr 0x14 0x13B0;
  Wr 0x13 0x8103; Mo 0x14 0xF800 0xB800; Wr 0x13 0x8105; Mo 0x14 0xFF00 0x0A00; Wr 0x1F 0x0A43;
  Wr 0x13 0x87EB; Wr 0x14 0x0018; Wr 0x13 0x87EB; Wr 0x14 0x0018; Wr 0x13 0x87ED; Wr 0x14 0x0733;
  Wr 0x13 0x87EF; Wr 0x14 0x08DC; Wr 0x13 0x87F1; Wr 0x14 0x08DF; Wr 0x13 0x87F3; Wr 0x14 0x0C79;
  Wr 0x13 0x87F5; Wr 0x14 0x0D93; Wr 0x13 0x87F9; Wr 0x14 0x0010; Wr 0x13 0x87FB; Wr 0x14 0x0800;
  Wr 0x13 0x8015; Mo 0x14 0x7000 0x7000; Wr 0x1F 0x0A43; Wr 0x13 0x8111; Mo 0x14 0xFF00 0x7C00;
  Wr 0x1F 0x0000].

Definition ppsw_1 : list mop := [
  Wr 0x1F 0x0BCD; Wr 0x14 0x5065; Wr 0x14 0xD065; Wr 0x1F 0x0BC8; Wr 0x11 0x5655; Wr 0x1F 0x0BCD;
  Wr 0x14 0x1065; Wr 0x14 0x9065; Wr 0x14 0x1065; Wr 0x1F 0x0000].

Definition mac_mcu_8168g_1_1 : list (Z * Z) := [
  (0xE43C, 0x0000); (0xE43E, 0x0000); (0xE434, 0x0004); (0xE43C, 0x0004); (0xF800, 0xE008);
  (0xF802, 0xE01B); (0xF804, 0xE022); (0xF806, 0xE094); (0xF808, 0xE097); (0xF80A, 0xE09A);
  (0xF80C, 0xE0B3); (0xF80E, 0xE0BA); (0xF810, 0x49D2); (0xF812, 0xF10D); (0xF814, 0x766C);
  (0xF816, 0x49E2); (0xF818, 0xF00A); (0xF81A, 0x1EC0); (0xF81C, 0x8EE1); (0xF81E, 0xC60A);
  (0xF820, 0x77C0); (0xF822, 0x4870); (0xF824, 0x9FC0); (0xF826, 0x1EA0); (0xF828, 0xC707);
  (0xF82A, 0x8EE1); (0xF82C, 0x9D6C); (0xF82E, 0xC603); (0xF830, 0xBE00); (0xF832, 0xB416);
  (0xF834, 0x0076); (0xF836, 0xE86C); (0xF838, 0xC406); (0xF83A, 0x7580); (0xF83C, 0x4852);
  (0xF83E, 0x8D80); (0xF840, 0xC403); (0xF842, 0xBC00); (0xF844, 0xD3E0); (0xF846, 0x02C8);
  (0xF848, 0x8918); (0xF84A, 0xE815); (0xF84C, 0x1100); (0xF84E, 0xF011); (0xF850, 0xE812);
  (0xF852, 0x4990); (0xF854, 0xF002); (0xF856, 0xE817); (0xF858, 0xE80E); (0xF85A, 0x4992);
  (0xF85C, 0xF002); (0xF85E, 0xE80E); (0xF860, 0xE80A); (0xF862, 0x4993); (0xF864, 0xF002);
  (0xF866, 0xE818); (0xF868, 0xE806); (0xF86A, 0x4991); (0xF86C, 0xF002); (0xF86E, 0xE838);
  (0xF870, 0xC25E); (0xF872, 0xBA00); (0xF874, 0xC056); (0xF876, 0x7100); (0xF878, 0xFF80);
  (0xF87A, 0x7100); (0xF87C, 0x4892); (0xF87E, 0x4813); (0xF880, 0x8900); (0xF882, 0xE00A);
  (0xF884, 0x7100); (0xF886, 0x4890); (0xF888, 0x4813); (0xF88A, 0x8900); (0xF88C, 0xC74B);
  (0xF88E, 0x74F8); (0xF890, 0x48C2); (0xF892, 0x4841); (0xF894, 0x8CF8); (0xF896, 0xC746);
  (0xF898, 0x74FC); (0xF89A, 0x49C0); (0xF89C, 0xF120); (0xF89E, 0x49C1); (0xF8A0, 0xF11E);
  (0xF8A2, 0x74F8); (0xF8A4, 0x49C0); (0xF8A6, 0xF01B); (0xF8A8, 0x49C6); (0xF8AA, 0xF119);
  (0xF8AC, 0x74F8); (0xF8AE, 0x49C4); (0xF8B0, 0xF013); (0xF8B2, 0xC536); (0xF8B4, 0x74B0);
  (0xF8B6, 0x49C1); (0xF8B8, 0xF1FD); (0xF8BA, 0xC537); (0xF8BC, 0xC434); (0xF8BE, 0x9CA0);
  (0xF8C0, 0xC435); (0xF8C2, 0x1C13); (0xF8C4, 0x484F); (0xF8C6, 0x9CA2); (0xF8C8, 0xC52B);
  (0xF8CA, 0x74B0); (0xF8CC, 0x49C1); (0xF8CE, 0xF1FD); (0xF8D0, 0x74F8); (0xF8D2, 0x48C4);
  (0xF8D4, 0x8CF8); (0xF8D6, 0x7100); (0xF8D8, 0x4893); (0xF8DA, 0x8900); (0xF8DC, 0xFF80);
  (0xF8DE, 0xC520); (0xF8E0, 0x74B0); (0xF8E2, 0x49C1); (0xF8E4, 0xF11C); (0xF8E6, 0xC71E);
  (0xF8E8, 0x74FC); (0xF8EA, 0x49C1); (0xF8EC, 0xF118); (0xF8EE, 0x49C0); (0xF8F0, 0xF116);
  (0xF8F2, 0x74F8); (0xF8F4, 0x49C0); (0xF8F6, 0xF013); (0xF8F8, 0x48C3); (0xF8FA, 0x8CF8);
  (0xF8FC, 0xC516); (0xF8FE, 0x74A2); (0xF900, 0x49CE); (0xF902, 0xF1FE); (0xF904, 0xC411);
  (0xF906, 0x9CA0); (0xF908, 0xC411); (0xF90A, 0x1C13); (0xF90C, 0x484F); (0xF90E, 0x9CA2);
  (0xF910, 0x74A2); (0xF912, 0x49CF); (0xF914, 0xF1FE); (0xF916, 0x7100); (0xF918, 0x4891);
  (0xF91A, 0x8900)].

Definition mac_mcu_8168g_1_2 : list (Z * Z) := [
  (0xF91C, 0xFF80); (0xF91E, 0xE400); (0xF920, 0xD3E0); (0xF922, 0xE000); (0xF924, 0x0481);
  (0xF926, 0x0C81); (0xF928, 0xDE20); (0xF92A, 0x0000); (0xF92C, 0x0992); (0xF92E, 0x1B76);
  (0xF930, 0xC602); (0xF932, 0xBE00); (0xF934, 0x059C); (0xF936, 0x1B76); (0xF938, 0xC602);
  (0xF93A, 0xBE00); (0xF93C, 0x065A); (0xF93E, 0xB400); (0xF940, 0x18DE); (0xF942, 0x2008);
  (0xF944, 0x4001); (0xF946, 0xF10F); (0xF948, 0x7342); (0xF94A, 0x1880); (0xF94C, 0x2008);
  (0xF94E, 0x0009); (0xF950, 0x4018); (0xF952, 0xF109); (0xF954, 0x7340); (0xF956, 0x25BC);
  (0xF958, 0x130F); (0xF95A, 0xF105); (0xF95C, 0xC00A); (0xF95E, 0x7300); (0xF960, 0x4831);
  (0xF962, 0x9B00); (0xF964, 0xB000); (0xF966, 0x7340); (0xF968, 0x8320); (0xF96A, 0xC302);
  (0xF96C, 0xBB00); (0xF96E, 0x0C12); (0xF970, 0xE860); (0xF972, 0xC406); (0xF974, 0x7580);
  (0xF976, 0x4851); (0xF978, 0x8D80); (0xF97A, 0xC403); (0xF97C, 0xBC00); (0xF97E, 0xD3E0);
  (0xF980, 0x02C8); (0xF982, 0xC406); (0xF984, 0x7580); (0xF986, 0x4850); (0xF988, 0x8D80);
  (0xF98A, 0xC403); (0xF98C, 0xBC00); (0xF98E, 0xD3E0); (0xF990, 0x0298); (0xDE30, 0x0080);
  (0xFC26, 0x8000); (0xFC28, 0x0075); (0xFC2A, 0x02B1); (0xFC2C, 0x0991); (0xFC2E, 0x059B);
  (0xFC30, 0x0659); (0xFC32, 0x0000); (0xFC34, 0x02C7); (0xFC36, 0x0279)].

Definition mac_mcu_8168gu_1_1 : list (Z * Z) := [
  (0xF800, 0xE008); (0xF802, 0xE011); (0xF804, 0xE015); (0xF806, 0xE018); (0xF808, 0xE01B);
  (0xF80A, 0xE027); (0xF80C, 0xE043); (0xF80E, 0xE065); (0xF810, 0x49E2); (0xF812, 0xF005);
  (0xF814, 0x49EA); (0xF816, 0xF003); (0xF818, 0xC404); (0xF81A, 0xBC00); (0xF81C, 0xC403);
  (0xF81E, 0xBC00); (0xF820, 0x0496); (0xF822, 0x051A); (0xF824, 0x1D01); (0xF826, 0x8DE8);
  (0xF828, 0xC602); (0xF82A, 0xBE00); (0xF82C, 0x0206); (0xF82E, 0x1B76); (0xF830, 0xC202);
  (0xF832, 0xBA00); (0xF834, 0x058A); (0xF836, 0x1B76); (0xF838, 0xC602); (0xF83A, 0xBE00);
  (0xF83C, 0x0648); (0xF83E, 0x74E6); (0xF840, 0x1B78); (0xF842, 0x46DC); (0xF844, 0x1300);
  (0xF846, 0xF005); (0xF848, 0x74F8); (0xF84A, 0x48C3); (0xF84C, 0x48C4); (0xF84E, 0x8CF8);
  (0xF850, 0x64E7); (0xF852, 0xC302); (0xF854, 0xBB00); (0xF856, 0x068E); (0xF858, 0x74E4);
  (0xF85A, 0x49C5); (0xF85C, 0xF106); (0xF85E, 0x49C6); (0xF860, 0xF107); (0xF862, 0x48C8);
  (0xF864, 0x48C9); (0xF866, 0xE011); (0xF868, 0x48C9); (0xF86A, 0x4848); (0xF86C, 0xE00E);
  (0xF86E, 0x4848); (0xF870, 0x49C7); (0xF872, 0xF00A); (0xF874, 0x48C9); (0xF876, 0xC60D);
  (0xF878, 0x1D1F); (0xF87A, 0x8DC2); (0xF87C, 0x1D00); (0xF87E, 0x8DC3); (0xF880, 0x1D11);
  (0xF882, 0x8DC0); (0xF884, 0xE002); (0xF886, 0x4849); (0xF888, 0x94E5); (0xF88A, 0xC602);
  (0xF88C, 0xBE00); (0xF88E, 0x0238); (0xF890, 0xE434); (0xF892, 0x49D9); (0xF894, 0xF01B);
  (0xF896, 0xC31E); (0xF898, 0x7464); (0xF89A, 0x49C4); (0xF89C, 0xF114); (0xF89E, 0xC31B);
  (0xF8A0, 0x6460); (0xF8A2, 0x14FA); (0xF8A4, 0xFA02); (0xF8A6, 0xE00F); (0xF8A8, 0xC317);
  (0xF8AA, 0x7460); (0xF8AC, 0x49C0); (0xF8AE, 0xF10B); (0xF8B0, 0xC311); (0xF8B2, 0x7462);
  (0xF8B4, 0x48C1); (0xF8B6, 0x9C62); (0xF8B8, 0x4841); (0xF8BA, 0x9C62); (0xF8BC, 0xC30A);
  (0xF8BE, 0x1C04); (0xF8C0, 0x8C60); (0xF8C2, 0xE004); (0xF8C4, 0x1C15); (0xF8C6, 0xC305);
  (0xF8C8, 0x8C60); (0xF8CA, 0xC602); (0xF8CC, 0xBE00); (0xF8CE, 0x0374); (0xF8D0, 0xE434);
  (0xF8D2, 0xE030); (0xF8D4, 0xE61C); (0xF8D6, 0xE906); (0xF8D8, 0xC602); (0xF8DA, 0xBE00);
  (0xF8DC, 0x0000); (0xFC26, 0x8000); (0xFC28, 0x0493); (0xFC2A, 0x0205); (0xFC2C, 0x0589);
  (0xFC2E, 0x0647); (0xFC30, 0x0000); (0xFC32, 0x0215); (0xFC34, 0x0285)].

Definition mac_mcu_8168gu_2_1 : list (Z * Z) := [
  (0xF800, 0xE008); (0xF802, 0xE00A); (0xF804, 0xE00D); (0xF806, 0xE02F); (0xF808, 0xE031);
  (0xF80A, 0xE038); (0xF80C, 0xE03A); (0xF80E, 0xE051); (0xF810, 0xC202); (0xF812, 0xBA00);
  (0xF814, 0x0DFC); (0xF816, 0x7444); (0xF818, 0xC502); (0xF81A, 0xBD00); (0xF81C, 0x0A30);
  (0xF81E, 0x49D9); (0xF820, 0xF019); (0xF822, 0xC520); (0xF824, 0x64A5); (0xF826, 0x1400);
  (0xF828, 0xF007); (0xF82A, 0x0C01); (0xF82C, 0x8CA5); (0xF82E, 0x1C15); (0xF830, 0xC515);
  (0xF832, 0x9CA0); (0xF834, 0xE00F); (0xF836, 0xC513); (0xF838, 0x74A0); (0xF83A, 0x48C8);
  (0xF83C, 0x48CA); (0xF83E, 0x9CA0); (0xF840, 0xC510); (0xF842, 0x1B00); (0xF844, 0x9BA0);
  (0xF846, 0x1B1C); (0xF848, 0x483F); (0xF84A, 0x9BA2); (0xF84C, 0x1B04); (0xF84E, 0xC506);
  (0xF850, 0x9BA0); (0xF852, 0xC603); (0xF854, 0xBE00); (0xF856, 0x0298); (0xF858, 0x03DE);
  (0xF85A, 0xE434); (0xF85C, 0xE096); (0xF85E, 0xE860); (0xF860, 0xDE20); (0xF862, 0xD3C0);
  (0xF864, 0xC602); (0xF866, 0xBE00); (0xF868, 0x0A64); (0xF86A, 0xC707); (0xF86C, 0x1D00);
  (0xF86E, 0x8DE2); (0xF870, 0x48C1); (0xF872, 0xC502); (0xF874, 0xBD00); (0xF876, 0x00AA);
  (0xF878, 0xE0C0); (0xF87A, 0xC502); (0xF87C, 0xBD00); (0xF87E, 0x0132); (0xF880, 0xC50C);
  (0xF882, 0x74A2); (0xF884, 0x49CE); (0xF886, 0xF1FE); (0xF888, 0x1C00); (0xF88A, 0x9EA0);
  (0xF88C, 0x1C1C); (0xF88E, 0x484F); (0xF890, 0x9CA2); (0xF892, 0xC402); (0xF894, 0xBC00);
  (0xF896, 0x0AFA); (0xF898, 0xDE20); (0xF89A, 0xE000); (0xF89C, 0xE092); (0xF89E, 0xE430);
  (0xF8A0, 0xDE20); (0xF8A2, 0xE0C0); (0xF8A4, 0xE860); (0xF8A6, 0xE84C); (0xF8A8, 0xB400);
  (0xF8AA, 0xB430); (0xF8AC, 0xE410); (0xF8AE, 0xC0AE); (0xF8B0, 0xB407); (0xF8B2, 0xB406);
  (0xF8B4, 0xB405); (0xF8B6, 0xB404); (0xF8B8, 0xB403); (0xF8BA, 0xB402); (0xF8BC, 0xB401);
  (0xF8BE, 0xC7EE); (0xF8C0, 0x76F4); (0xF8C2, 0xC2ED); (0xF8C4, 0xC3ED); (0xF8C6, 0xC1EF);
  (0xF8C8, 0xC5F3); (0xF8CA, 0x74A0); (0xF8CC, 0x49CD); (0xF8CE, 0xF001); (0xF8D0, 0xC5EE);
  (0xF8D2, 0x74A0); (0xF8D4, 0x49C1); (0xF8D6, 0xF105); (0xF8D8, 0xC5E4); (0xF8DA, 0x74A2);
  (0xF8DC, 0x49CE); (0xF8DE, 0xF00B); (0xF8E0, 0x7444); (0xF8E2, 0x484B); (0xF8E4, 0x9C44);
  (0xF8E6, 0x1C10); (0xF8E8, 0x9C62); (0xF8EA, 0x1C11); (0xF8EC, 0x8C60); (0xF8EE, 0x1C00);
  (0xF8F0, 0x9CF6); (0xF8F2, 0xE0EC); (0xF8F4, 0x49E7); (0xF8F6, 0xF016); (0xF8F8, 0x1D80);
  (0xF8FA, 0x8DF4); (0xF8FC, 0x74F8); (0xF8FE, 0x4843); (0xF900, 0x8CF8); (0xF902, 0x74F8);
  (0xF904, 0x74F8); (0xF906, 0x7444); (0xF908, 0x48C8); (0xF90A, 0x48C9); (0xF90C, 0x48CA);
  (0xF90E, 0x9C44); (0xF910, 0x74F8); (0xF912, 0x4844); (0xF914, 0x8CF8); (0xF916, 0x1E01);
  (0xF918, 0xE8DB); (0xF91A, 0x7420); (0xF91C, 0x48C1); (0xF91E, 0x9C20); (0xF920, 0xE0D5);
  (0xF922, 0x49E6); (0xF924, 0xF02A); (0xF926, 0x1D40)].

Definition mac_mcu_8168gu_2_2 : list (Z * Z) := [
  (0xF928, 0x8DF4); (0xF92A, 0x74FC); (0xF92C, 0x49C0); (0xF92E, 0xF124); (0xF930, 0x49C1);
  (0xF932, 0xF122); (0xF934, 0x74F8); (0xF936, 0x49C0); (0xF938, 0xF01F); (0xF93A, 0xE8D3);
  (0xF93C, 0x48C4); (0xF93E, 0x8CF8); (0xF940, 0x1E00); (0xF942, 0xE8C6); (0xF944, 0xC5B1);
  (0xF946, 0x74A0); (0xF948, 0x49C3); (0xF94A, 0xF016); (0xF94C, 0xC5AF); (0xF94E, 0x74A4);
  (0xF950, 0x49C2); (0xF952, 0xF005); (0xF954, 0xC5AA); (0xF956, 0x74B2); (0xF958, 0x49C9);
  (0xF95A, 0xF10E); (0xF95C, 0xC5A6); (0xF95E, 0x74A8); (0xF960, 0x4845); (0xF962, 0x4846);
  (0xF964, 0x4847); (0xF966, 0x4848); (0xF968, 0x9CA8); (0xF96A, 0x74B2); (0xF96C, 0x4849);
  (0xF96E, 0x9CB2); (0xF970, 0x74A0); (0xF972, 0x484F); (0xF974, 0x9CA0); (0xF976, 0xE0AA);
  (0xF978, 0x49E4); (0xF97A, 0xF018); (0xF97C, 0x1D10); (0xF97E, 0x8DF4); (0xF980, 0x74F8);
  (0xF982, 0x74F8); (0xF984, 0x74F8); (0xF986, 0x4843); (0xF988, 0x8CF8); (0xF98A, 0x74F8);
  (0xF98C, 0x74F8); (0xF98E, 0x74F8); (0xF990, 0x4844); (0xF992, 0x4842); (0xF994, 0x4841);
  (0xF996, 0x8CF8); (0xF998, 0x1E01); (0xF99A, 0xE89A); (0xF99C, 0x7420); (0xF99E, 0x4841);
  (0xF9A0, 0x9C20); (0xF9A2, 0x7444); (0xF9A4, 0x4848); (0xF9A6, 0x9C44); (0xF9A8, 0xE091);
  (0xF9AA, 0x49E5); (0xF9AC, 0xF03E); (0xF9AE, 0x1D20); (0xF9B0, 0x8DF4); (0xF9B2, 0x74F8);
  (0xF9B4, 0x48C2); (0xF9B6, 0x4841); (0xF9B8, 0x8CF8); (0xF9BA, 0x1E01); (0xF9BC, 0x7444);
  (0xF9BE, 0x49CA); (0xF9C0, 0xF103); (0xF9C2, 0x49C2); (0xF9C4, 0xF00C); (0xF9C6, 0x49C1);
  (0xF9C8, 0xF004); (0xF9CA, 0x6447); (0xF9CC, 0x2244); (0xF9CE, 0xE002); (0xF9D0, 0x1C01);
  (0xF9D2, 0x9C62); (0xF9D4, 0x1C11); (0xF9D6, 0x8C60); (0xF9D8, 0x1C00); (0xF9DA, 0x9CF6);
  (0xF9DC, 0x7444); (0xF9DE, 0x49C8); (0xF9E0, 0xF01D); (0xF9E2, 0x74FC); (0xF9E4, 0x49C0);
  (0xF9E6, 0xF11A); (0xF9E8, 0x49C1); (0xF9EA, 0xF118); (0xF9EC, 0x74F8); (0xF9EE, 0x49C0);
  (0xF9F0, 0xF015); (0xF9F2, 0x49C6); (0xF9F4, 0xF113); (0xF9F6, 0xE875); (0xF9F8, 0x48C4);
  (0xF9FA, 0x8CF8); (0xF9FC, 0x7420); (0xF9FE, 0x48C1); (0xFA00, 0x9C20); (0xFA02, 0xC50A);
  (0xFA04, 0x74A2); (0xFA06, 0x8CA5); (0xFA08, 0x74A0); (0xFA0A, 0xC505); (0xFA0C, 0x9CA2);
  (0xFA0E, 0x1C11); (0xFA10, 0x9CA0); (0xFA12, 0xE00A); (0xFA14, 0xE434); (0xFA16, 0xD3C0);
  (0xFA18, 0xDC00); (0xFA1A, 0x7444); (0xFA1C, 0x49CA); (0xFA1E, 0xF004); (0xFA20, 0x48CA);
  (0xFA22, 0x9C44); (0xFA24, 0xE855); (0xFA26, 0xE052); (0xFA28, 0x49E8); (0xFA2A, 0xF024);
  (0xFA2C, 0x1D01); (0xFA2E, 0x8DF5); (0xFA30, 0x7440); (0xFA32, 0x49C0); (0xFA34, 0xF11E);
  (0xFA36, 0x7444); (0xFA38, 0x49C8); (0xFA3A, 0xF01B); (0xFA3C, 0x49CA); (0xFA3E, 0xF119);
  (0xFA40, 0xC5EC); (0xFA42, 0x76A4); (0xFA44, 0x49E3); (0xFA46, 0xF015); (0xFA48, 0x49C0);
  (0xFA4A, 0xF103); (0xFA4C, 0x49C1); (0xFA4E, 0xF011)].

Definition mac_mcu_8168gu_2_3 : list (Z * Z) := [
  (0xFA50, 0x4849); (0xFA52, 0x9C44); (0xFA54, 0x1C00); (0xFA56, 0x9CF6); (0xFA58, 0x7444);
  (0xFA5A, 0x49C1); (0xFA5C, 0xF004); (0xFA5E, 0x6446); (0xFA60, 0x1E07); (0xFA62, 0xE003);
  (0xFA64, 0x1C01); (0xFA66, 0x1E03); (0xFA68, 0x9C62); (0xFA6A, 0x1C11); (0xFA6C, 0x8C60);
  (0xFA6E, 0xE830); (0xFA70, 0xE02D); (0xFA72, 0x49E9); (0xFA74, 0xF004); (0xFA76, 0x1D02);
  (0xFA78, 0x8DF5); (0xFA7A, 0xE79C); (0xFA7C, 0x49E3); (0xFA7E, 0xF006); (0xFA80, 0x1D08);
  (0xFA82, 0x8DF4); (0xFA84, 0x74F8); (0xFA86, 0x74F8); (0xFA88, 0xE73A); (0xFA8A, 0x49E1);
  (0xFA8C, 0xF007); (0xFA8E, 0x1D02); (0xFA90, 0x8DF4); (0xFA92, 0x1E01); (0xFA94, 0xE7A7);
  (0xFA96, 0xDE20); (0xFA98, 0xE410); (0xFA9A, 0x49E0); (0xFA9C, 0xF017); (0xFA9E, 0x1D01);
  (0xFAA0, 0x8DF4); (0xFAA2, 0xC5FA); (0xFAA4, 0x1C00); (0xFAA6, 0x8CA0); (0xFAA8, 0x1C1B);
  (0xFAAA, 0x9CA2); (0xFAAC, 0x74A2); (0xFAAE, 0x49CF); (0xFAB0, 0xF0FE); (0xFAB2, 0xC5F3);
  (0xFAB4, 0x74A0); (0xFAB6, 0x4849); (0xFAB8, 0x9CA0); (0xFABA, 0x74F8); (0xFABC, 0x49C0);
  (0xFABE, 0xF006); (0xFAC0, 0x48C3); (0xFAC2, 0x8CF8); (0xFAC4, 0xE820); (0xFAC6, 0x74F8);
  (0xFAC8, 0x74F8); (0xFACA, 0xC432); (0xFACC, 0xBC00); (0xFACE, 0xC5E4); (0xFAD0, 0x74A2);
  (0xFAD2, 0x49CE); (0xFAD4, 0xF1FE); (0xFAD6, 0x9EA0); (0xFAD8, 0x1C1C); (0xFADA, 0x484F);
  (0xFADC, 0x9CA2); (0xFADE, 0xFF80); (0xFAE0, 0xB404); (0xFAE2, 0xB405); (0xFAE4, 0xC5D9);
  (0xFAE6, 0x74A2); (0xFAE8, 0x49CE); (0xFAEA, 0xF1FE); (0xFAEC, 0xC41F); (0xFAEE, 0x9CA0);
  (0xFAF0, 0xC41C); (0xFAF2, 0x1C13); (0xFAF4, 0x484F); (0xFAF6, 0x9CA2); (0xFAF8, 0x74A2);
  (0xFAFA, 0x49CF); (0xFAFC, 0xF1FE); (0xFAFE, 0xB005); (0xFB00, 0xB004); (0xFB02, 0xFF80);
  (0xFB04, 0xB404); (0xFB06, 0xB405); (0xFB08, 0xC5C7); (0xFB0A, 0x74A2); (0xFB0C, 0x49CE);
  (0xFB0E, 0xF1FE); (0xFB10, 0xC40E); (0xFB12, 0x9CA0); (0xFB14, 0xC40A); (0xFB16, 0x1C13);
  (0xFB18, 0x484F); (0xFB1A, 0x9CA2); (0xFB1C, 0x74A2); (0xFB1E, 0x49CF); (0xFB20, 0xF1FE);
  (0xFB22, 0xB005); (0xFB24, 0xB004); (0xFB26, 0xFF80); (0xFB28, 0x0000); (0xFB2A, 0x0481);
  (0xFB2C, 0x0C81); (0xFB2E, 0x0AE0); (0xFC26, 0x8000); (0xFC28, 0x0000); (0xFC2A, 0x0000);
  (0xFC2C, 0x0297); (0xFC2E, 0x0000); (0xFC30, 0x00A9); (0xFC32, 0x012D); (0xFC34, 0x0000);
  (0xFC36, 0x08DF)].

Definition mac_mcu_8411b_1_1 : list (Z * Z) := [
  (0xF800, 0xE008); (0xF802, 0xE00A); (0xF804, 0xE00C); (0xF806, 0xE00E); (0xF808, 0xE027);
  (0xF80A, 0xE04F); (0xF80C, 0xE05E); (0xF80E, 0xE065); (0xF810, 0xC602); (0xF812, 0xBE00);
  (0xF814, 0x0000); (0xF816, 0xC502); (0xF818, 0xBD00); (0xF81A, 0x074C); (0xF81C, 0xC302);
  (0xF81E, 0xBB00); (0xF820, 0x080A); (0xF822, 0x6420); (0xF824, 0x48C2); (0xF826, 0x8C20);
  (0xF828, 0xC516); (0xF82A, 0x64A4); (0xF82C, 0x49C0); (0xF82E, 0xF009); (0xF830, 0x74A2);
  (0xF832, 0x8CA5); (0xF834, 0x74A0); (0xF836, 0xC50E); (0xF838, 0x9CA2); (0xF83A, 0x1C11);
  (0xF83C, 0x9CA0); (0xF83E, 0xE006); (0xF840, 0x74F8); (0xF842, 0x48C4); (0xF844, 0x8CF8);
  (0xF846, 0xC404); (0xF848, 0xBC00); (0xF84A, 0xC403); (0xF84C, 0xBC00); (0xF84E, 0x0BF2);
  (0xF850, 0x0C0A); (0xF852, 0xE434); (0xF854, 0xD3C0); (0xF856, 0x49D9); (0xF858, 0xF01F);
  (0xF85A, 0xC526); (0xF85C, 0x64A5); (0xF85E, 0x1400); (0xF860, 0xF007); (0xF862, 0x0C01);
  (0xF864, 0x8CA5); (0xF866, 0x1C15); (0xF868, 0xC51B); (0xF86A, 0x9CA0); (0xF86C, 0xE013);
  (0xF86E, 0xC519); (0xF870, 0x74A0); (0xF872, 0x48C4); (0xF874, 0x8CA0); (0xF876, 0xC516);
  (0xF878, 0x74A4); (0xF87A, 0x48C8); (0xF87C, 0x48CA); (0xF87E, 0x9CA4); (0xF880, 0xC512);
  (0xF882, 0x1B00); (0xF884, 0x9BA0); (0xF886, 0x1B1C); (0xF888, 0x483F); (0xF88A, 0x9BA2);
  (0xF88C, 0x1B04); (0xF88E, 0xC508); (0xF890, 0x9BA0); (0xF892, 0xC505); (0xF894, 0xBD00);
  (0xF896, 0xC502); (0xF898, 0xBD00); (0xF89A, 0x0300); (0xF89C, 0x051E); (0xF89E, 0xE434);
  (0xF8A0, 0xE018); (0xF8A2, 0xE092); (0xF8A4, 0xDE20); (0xF8A6, 0xD3C0); (0xF8A8, 0xC50F);
  (0xF8AA, 0x76A4); (0xF8AC, 0x49E3); (0xF8AE, 0xF007); (0xF8B0, 0x49C0); (0xF8B2, 0xF103);
  (0xF8B4, 0xC607); (0xF8B6, 0xBE00); (0xF8B8, 0xC606); (0xF8BA, 0xBE00); (0xF8BC, 0xC602);
  (0xF8BE, 0xBE00); (0xF8C0, 0x0C4C); (0xF8C2, 0x0C28); (0xF8C4, 0x0C2C); (0xF8C6, 0xDC00);
  (0xF8C8, 0xC707); (0xF8CA, 0x1D00); (0xF8CC, 0x8DE2); (0xF8CE, 0x48C1); (0xF8D0, 0xC502);
  (0xF8D2, 0xBD00); (0xF8D4, 0x00AA); (0xF8D6, 0xE0C0); (0xF8D8, 0xC502); (0xF8DA, 0xBD00);
  (0xF8DC, 0x0132); (0xFC26, 0x8000); (0xFC2A, 0x0743); (0xFC2C, 0x0801); (0xFC2E, 0x0BE9);
  (0xFC30, 0x02FD); (0xFC32, 0x0C25); (0xFC34, 0x00A9); (0xFC36, 0x012D)].

Definition mcu_patch_code_8168ep_1 : list Z := [
  0xE008; 0xE0D3; 0xE0D6; 0xE0D9; 0xE0DB; 0xE0DD; 0xE0DF; 0xE0E1; 0xC251; 0x7340; 0x49B1; 0xF010; 0x1D02;
  0x8D40; 0xC202; 0xBA00; 0x2C3A; 0xC0F0; 0xE8DE; 0x2000; 0x8000; 0xC0B6; 0x268C; 0x752C; 0x49D4; 0xF112;
  0xE025; 0xC2F6; 0x7146; 0xC2F5; 0x7340; 0x49BE; 0xF103; 0xC7F2; 0xE002; 0xC7F1; 0x304F; 0x6226; 0x49A1;
  0xF1F0; 0x7222; 0x49A0; 0xF1ED; 0x2525; 0x1F28; 0x3097; 0x3091; 0x9A36; 0x752C; 0x21DC; 0x25BC; 0xC6E2;
  0x77C0; 0x1304; 0xF014; 0x1303; 0xF014; 0x1302; 0xF014; 0x1301; 0xF014; 0x49D4; 0xF103; 0xC3D7; 0xBB00;
  0xC618; 0x67C6; 0x752E; 0x22D7; 0x26DD; 0x1505; 0xF013; 0xC60A; 0xBE00; 0xC309; 0xBB00; 0xC308; 0xBB00;
  0xC307; 0xBB00; 0xC306; 0xBB00; 0x25C8; 0x25A6; 0x25AC; 0x25B2; 0x25B8; 0xCD08; 0x0000; 0xC0BC; 0xC2FF;
  0x7340; 0x49B0; 0xF04E; 0x1F46; 0x308F; 0xC3F7; 0x1C04; 0xE84D; 0x1401; 0xF147; 0x7226; 0x49A7; 0xF044;
  0x7222; 0x2525; 0x1F30; 0x3097; 0x3091; 0x7340; 0xC4EA; 0x401C; 0xF006; 0xC6E8; 0x75C0; 0x49D7; 0xF105;
  0xE036; 0x1D08; 0x8DC1; 0x0208; 0x6640; 0x2764; 0x1606; 0xF12F; 0x6346; 0x133B; 0xF12C; 0x9B34; 0x1B18;
  0x3093; 0xC32A; 0x1C10; 0xE82A; 0x1401; 0xF124; 0x1A36; 0x308A; 0x7322; 0x25B5; 0x0B0E; 0x1C00; 0xE82C;
  0xC71F; 0x4027; 0xF11A; 0xE838; 0x1F42; 0x308F; 0x1B08; 0xE824; 0x7236; 0x7746; 0x1700; 0xF00D; 0xC313;
  0x401F; 0xF103; 0x1F00; 0x9F46; 0x7744; 0x449F; 0x445F; 0xE817; 0xC70A; 0x4027; 0xF105; 0xC302; 0xBB00;
  0x2E08; 0x2DC2; 0xC7FF; 0xBF00; 0xCDB8; 0xFFFF; 0x0C02; 0xA554; 0xA5DC; 0x402F; 0xF105; 0x1400; 0xF1FA;
  0x1C01; 0xE002; 0x1C00; 0xFF80; 0x49B0; 0xF004; 0x0B01; 0xA1D3; 0xE003; 0x0B02; 0xA5D3; 0x3127; 0x3720;
  0x0B02; 0xA5D3; 0x3127; 0x3720; 0x1300; 0xF1FB; 0xFF80; 0x7322; 0x25B5; 0x1E28; 0x30DE; 0x30D9; 0x7264;
  0x1E11; 0x2368; 0x3116; 0xFF80; 0x1B7E; 0xC602; 0xBE00; 0x06A6; 0x1B7E; 0xC602; 0xBE00; 0x0764; 0xC602;
  0xBE00; 0x0000; 0xC602; 0xBE00; 0x0000; 0xC602; 0xBE00; 0x0000; 0xC602; 0xBE00; 0x0000; 0xC602; 0xBE00;
  0x0000].

Definition mcu_patch_code_8168ep_2 : list Z := [
  0xE008; 0xE017; 0xE052; 0xE056; 0xE058; 0xE05A; 0xE05C; 0xE05E; 0xC50F; 0x76A4; 0x49E3; 0xF007; 0x49C0;
  0xF103; 0xC607; 0xBE00; 0xC606; 0xBE00; 0xC602; 0xBE00; 0x0BDA; 0x0BB6; 0x0BBA; 0xDC00; 0xB400; 0xB401;
  0xB402; 0xB403; 0xB404; 0xC02E; 0x7206; 0x49AE; 0xF1FE; 0xC12B; 0x9904; 0xC12A; 0x9906; 0x7206; 0x49AE;
  0xF1FE; 0x7200; 0x49A0; 0xF117; 0xC123; 0xC223; 0xC323; 0xE808; 0xC322; 0xE806; 0xC321; 0xE804; 0xC320;
  0xE802; 0xE00C; 0x740E; 0x49CE; 0xF1FE; 0x9908; 0x990A; 0x9A0C; 0x9B0E; 0x740E; 0x49CE; 0xF1FE; 0xFF80;
  0xB004; 0xB003; 0xB002; 0xB001; 0xB000; 0xC604; 0xC002; 0xB800; 0x1FC8; 0xE000; 0xE8E0; 0xF128; 0x0002;
  0xFFFF; 0xF000; 0x8001; 0x8002; 0x8003; 0x8004; 0x48C1; 0x48C2; 0xC502; 0xBD00; 0x0490; 0xC602; 0xBE00;
  0x0000; 0xC602; 0xBE00; 0x0000; 0xC602; 0xBE00; 0x0000; 0xC602; 0xBE00; 0x0000; 0xC602; 0xBE00; 0x0000].

Definition mcu_patch_code_8168h_1 : list Z := [
  0xE008; 0xE00F; 0xE011; 0xE047; 0xE049; 0xE073; 0xE075; 0xE07A; 0xC707; 0x1D00; 0x8DE2; 0x48C1; 0xC502;
  0xBD00; 0x00E4; 0xE0C0; 0xC502; 0xBD00; 0x0216; 0xC634; 0x75C0; 0x49D3; 0xF027; 0xC631; 0x75C0; 0x49D3;
  0xF123; 0xC627; 0x75C0; 0xB405; 0xC525; 0x9DC0; 0xC621; 0x75C8; 0x49D5; 0xF00A; 0x49D6; 0xF008; 0x49D7;
  0xF006; 0x49D8; 0xF004; 0x75D2; 0x49D9; 0xF111; 0xC517; 0x9DC8; 0xC516; 0x9DD2; 0xC618; 0x75C0; 0x49D4;
  0xF003; 0x49D0; 0xF104; 0xC60A; 0xC50E; 0x9DC0; 0xB005; 0xC607; 0x9DC0; 0xB007; 0xC602; 0xBE00; 0x1A06;
  0xB400; 0xE86C; 0xA000; 0x01E1; 0x0200; 0x9200; 0xE84C; 0xE004; 0xE908; 0xC502; 0xBD00; 0x0B58; 0xB407;
  0xB404; 0x2195; 0x25BD; 0x9BE0; 0x1C1C; 0x484F; 0x9CE2; 0x72E2; 0x49AE; 0xF1FE; 0x0B00; 0xF116; 0xC71C;
  0xC419; 0x9CE0; 0x1C13; 0x484F; 0x9CE2; 0x74E2; 0x49CE; 0xF1FE; 0xC412; 0x9CE0; 0x1C13; 0x484F; 0x9CE2;
  0x74E2; 0x49CE; 0xF1FE; 0xC70C; 0x74F8; 0x48C3; 0x8CF8; 0xB004; 0xB007; 0xC502; 0xBD00; 0x0F24; 0x0481;
  0x0C81; 0xDE24; 0xE000; 0xC602; 0xBE00; 0x0CA4; 0x48C1; 0x48C2; 0x9C46; 0xC402; 0xBC00; 0x0578; 0xC602;
  0xBE00; 0x0000].

Definition mac_mcu_8168h_2_2 : list (Z * Z) := [
  (0xFC26, 0x8000); (0xFC28, 0x00E2); (0xFC2A, 0x0210); (0xFC2C, 0x1A04); (0xFC2E, 0x0B26);
  (0xFC30, 0x0F02); (0xFC32, 0x0CA0); (0xFC38, 0x003F)].

Definition mcu_patch_code_8168h_3 : list Z :=
  [0xE008; 0xE00A; 0xE00C; 0xE00E; 0xE010; 0xE03E; 0xE040; 0xE069; 0xC602; 0xBE00; 0x0000; 0xC602; 0xBE00;
  0x0000; 0xC002; 0xB800; 0x0000; 0xC602; 0xBE00; 0x0000; 0xC72B; 0x76E2; 0x49EE; 0xF1FD; 0x1E00; 0x9EE0;
  0x1E1C; 0x9EE2; 0x76E2; 0x49EE; 0xF1FE; 0xC621; 0x9EE0; 0x1E1D; 0x486F; 0x9EE2; 0x76E2; 0x49EE; 0xF1FE;
  0xC71A; 0x76E0; 0x48E8; 0x48E9; 0x48EA; 0x48EB; 0x48EC; 0x9EE0; 0xC70D; 0xC60D; 0x9EF4; 0xC60C; 0x9EF6;
  0xC70E; 0x76E0; 0x4863; 0x9EE0; 0xB007; 0xC602; 0xBE00; 0x0ACC; 0xE000; 0x03BF; 0x07FF; 0xDE24; 0x3200;
  0xE096; 0xD438; 0xC602; 0xBE00; 0x0000; 0x8EE6; 0xC726; 0x76E2; 0x49EE; 0xF1FD; 0x1E00; 0x8EE0; 0x1E1C;
  0x8EE2; 0x76E2; 0x49EE; 0xF1FE; 0xC61C; 0x8EE0; 0x1E1D; 0x486F; 0x8EE2; 0x76E2; 0x49EE; 0xF1FE; 0xC715;
  0x76E0; 0x48E8; 0x48E9; 0x48EA; 0x48EB; 0x48EC; 0x9EE0; 0xC708; 0xC608; 0x9EF4; 0xC607; 0x9EF6; 0xC602;
  0xBE00; 0x0ABE; 0xE000; 0x03BF; 0x07FF; 0xDE24; 0x3200; 0xE096; 0xC602; 0xBE00] ++
  zeros 394 ++
  [0x6838; 0x0A17; 0x0613; 0x0D26].

Definition mcu_patch_code_8168fp_1_1 : list Z := [
  0xE00A; 0xE0C1; 0xE104; 0xE108; 0xE10D; 0xE112; 0xE11C; 0xE121; 0xE000; 0xE0C8; 0xB400; 0xC1FE; 0x49E2;
  0xF04C; 0x49EA; 0xF04A; 0x74E6; 0xC246; 0x7542; 0x73EC; 0x1800; 0x49C0; 0xF10D; 0x49C1; 0xF10B; 0x49C2;
  0xF109; 0x49B0; 0xF107; 0x49B1; 0xF105; 0x7220; 0x49A2; 0xF102; 0xE002; 0x4800; 0x49D0; 0xF10A; 0x49D1;
  0xF108; 0x49D2; 0xF106; 0x49D3; 0xF104; 0x49DF; 0xF102; 0xE00C; 0x4801; 0x72E4; 0x49AD; 0xF108; 0xC225;
  0x6741; 0x48F0; 0x8F41; 0x4870; 0x8F41; 0xC7CF; 0x49B5; 0xF01F; 0x49B2; 0xF00B; 0x4980; 0xF003; 0x484E;
  0x94E7; 0x4981; 0xF004; 0x485E; 0xC212; 0x9543; 0xE071; 0x49B6; 0xF003; 0x49B3; 0xF10F; 0x4980; 0xF003;
  0x484E; 0x94E7; 0x4981; 0xF004; 0x485E; 0xC204; 0x9543; 0xE005; 0xE000; 0xE0FC; 0xE0FA; 0xE065; 0x49B7;
  0xF007; 0x4980; 0xF005; 0x1A38; 0x46D4; 0x1200; 0xF109; 0x4981; 0xF055; 0x49C3; 0xF105; 0x1A30; 0x46D5;
  0x1200; 0xF04F; 0x7220; 0x49A2; 0xF130; 0x49C1; 0xF12E; 0x49B0; 0xF12C; 0xC2E6; 0x7240; 0x49A8; 0xF003;
  0x49D0; 0xF126; 0x49A9; 0xF003; 0x49D1; 0xF122; 0x49AA; 0xF003; 0x49D2; 0xF11E; 0x49AB; 0xF003; 0x49DF;
  0xF11A; 0x49AC; 0xF003; 0x49D3; 0xF116; 0x4980; 0xF003; 0x49C7; 0xF105; 0x4981; 0xF02C; 0x49D7; 0xF02A;
  0x49C0; 0xF00C; 0xC721; 0x62F4; 0x49A0; 0xF008; 0x49A4; 0xF106; 0x4824; 0x8AF4; 0xC71A; 0x1A40; 0x9AE0;
  0x49B6; 0xF017; 0x200E; 0xC7B8; 0x72E0; 0x4710; 0x92E1; 0xC70E; 0x77E0; 0x49F0; 0xF112; 0xC70B; 0x77E0;
  0x27FE; 0x1AFA; 0x4317; 0xC705; 0x9AE2; 0x1A11; 0x8AE0; 0xE008; 0xE41C; 0xC0AE; 0xD23A; 0xC7A2; 0x74E6;
  0x484F; 0x94E7; 0xC79E; 0x8CE6; 0x8BEC; 0xC29C; 0x8D42; 0x7220; 0xB000; 0xC502; 0xBD00; 0x0932; 0xB400;
  0xC240; 0xC340; 0x7060; 0x498F; 0xF014; 0x488F; 0x9061; 0x744C; 0x49C3; 0xF004; 0x7562; 0x485E; 0x9563;
  0x7446; 0x49C3; 0xF106; 0x7562; 0x1C30; 0x46E5; 0x1200; 0xF004; 0x7446; 0x484F; 0x9447; 0xC32A; 0x7466;
  0x49C0; 0xF00F; 0x48C0; 0x9C66; 0x7446; 0x4840; 0x4841; 0x4842; 0x9C46; 0x744C; 0x4840; 0x9C4C; 0x744A;
  0x484A; 0x9C4A; 0xE013; 0x498E; 0xF011; 0x488E; 0x9061; 0x744C; 0x49C3; 0xF004; 0x7446; 0x484E; 0x9447;
  0x7446; 0x1D38; 0x46EC; 0x1500; 0xF004; 0x7446; 0x484F; 0x9447; 0xB000; 0xC502; 0xBD00; 0x074C; 0xE000;
  0xE0FC; 0xE0C0; 0x4830; 0x4837; 0xC502; 0xBD00; 0x0978; 0x63E2; 0x4830; 0x4837; 0xC502; 0xBD00; 0x09FE;
  0x73E2; 0x4830; 0x8BE2; 0xC302; 0xBB00; 0x0A12; 0x73E2; 0x48B0; 0x48B3; 0x48B4; 0x48B5; 0x48B6; 0x48B7;
  0x8BE2; 0xC302; 0xBB00; 0x0A5A; 0x73E2; 0x4830; 0x8BE2; 0xC302; 0xBB00; 0x0A6C; 0x73E2; 0x4830; 0x4837;
  0xC502; 0xBD00; 0x0A86].

Definition mac_mcu_8168fp_1_2 : list (Z * Z) := [
  (0xFC26, 0x8000); (0xFC28, 0x0890); (0xFC2A, 0x0712); (0xFC2C, 0x0974); (0xFC2E, 0x09FC);
  (0xFC30, 0x0A0E); (0xFC32, 0x0A56); (0xFC34, 0x0A68); (0xFC36, 0x0A84)].

Definition mcu_patch_code_8168fp_1_2 : list Z := [
  0xE008; 0xE00A; 0xE031; 0xE033; 0xE035; 0xE144; 0xE166; 0xE168; 0xC502; 0xBD00; 0x0000; 0xC725; 0x75E0;
  0x48D0; 0x9DE0; 0xC722; 0x75E0; 0x1C78; 0x416C; 0x1530; 0xF111; 0xC71D; 0x75F6; 0x49D1; 0xF00D; 0x75E0;
  0x1C1F; 0x416C; 0x1502; 0xF108; 0x75FA; 0x49D3; 0xF005; 0x75EC; 0x9DE4; 0x4853; 0x9DFA; 0xC70B; 0x75E0;
  0x4852; 0x4850; 0x9DE0; 0xC602; 0xBE00; 0x04B8; 0xE420; 0xE000; 0xE0FC; 0xE43C; 0xDC00; 0xEB00; 0xC202;
  0xBA00; 0x0000; 0xC002; 0xB800; 0x0000; 0xB401; 0xB402; 0xB403; 0xB404; 0xB405; 0xB406; 0xC44D; 0xC54D;
  0x1867; 0xE8A2; 0x2318; 0x276E; 0x1601; 0xF106; 0x1A07; 0xE861; 0xE86B; 0xE873; 0xE037; 0x231E; 0x276E;
  0x1602; 0xF10B; 0x1A07; 0xE858; 0xE862; 0xC247; 0xC344; 0xE8E3; 0xC73B; 0x66E0; 0xE8B5; 0xE029; 0x231A;
  0x276C; 0xC733; 0x9EE0; 0x1866; 0xE885; 0x251C; 0x120F; 0xF011; 0x1209; 0xF011; 0x2014; 0x240E; 0x1000;
  0xF007; 0x120C; 0xF00D; 0x1203; 0xF00D; 0x1200; 0xF00D; 0x120C; 0xF00D; 0x1203; 0xF00D; 0x1A03; 0xE00C;
  0x1A07; 0xE00A; 0x1A00; 0xE008; 0x1A01; 0xE006; 0x1A02; 0xE004; 0x1A04; 0xE002; 0x1A05; 0xE829; 0xE833;
  0xB006; 0xB005; 0xB004; 0xB003; 0xB002; 0xB001; 0x60C4; 0xC702; 0xBF00; 0x2786; 0xDD00; 0xD030; 0xE0C4;
  0xE0F8; 0xDC42; 0xD3F0; 0x0000; 0x0004; 0x0007; 0x0014; 0x0090; 0x1000; 0x0F00; 0x1004; 0x1008; 0x3000;
  0x3004; 0x3008; 0x4000; 0x7777; 0x8000; 0x8001; 0x8008; 0x8003; 0x8004; 0xC000; 0xC004; 0xF004; 0xFFFF;
  0xB406; 0xB407; 0xC6E5; 0x77C0; 0x27F3; 0x23F3; 0x47FA; 0x9FC0; 0xB007; 0xB006; 0xFF80; 0xB405; 0xB407;
  0xC7D8; 0x75E0; 0x48D0; 0x9DE0; 0xB007; 0xB005; 0xFF80; 0xB401; 0xC0EA; 0xC2DC; 0xC3D8; 0xE865; 0xC0D3;
  0xC1E0; 0xC2E3; 0xE861; 0xE817; 0xC0CD; 0xC2CF; 0xE85D; 0xC0C9; 0xC1D6; 0xC2DB; 0xE859; 0xE80F; 0xC1C7;
  0xC2CE; 0xE855; 0xC0C0; 0xC1D1; 0xC2D3; 0xE851; 0xE807; 0xC0BE; 0xC2C2; 0xE84D; 0xE803; 0xB001; 0xFF80;
  0xB402; 0xC2C6; 0xE859; 0x499F; 0xF1FE; 0xB002; 0xFF80; 0xB402; 0xB403; 0xB407; 0xE821; 0x8882; 0x1980;
  0x8983; 0xE81D; 0x7180; 0x218B; 0x25BB; 0x1310; 0xF014; 0x1310; 0xFB03; 0x1F20; 0x38FB; 0x3288; 0x434B;
  0x2491; 0x430B; 0x1F0F; 0x38FB; 0x4313; 0x2121; 0x4353; 0x2521; 0x418A; 0x6282; 0x2527; 0x212F; 0x418A;
  0xB007; 0xB003; 0xB002; 0xFF80; 0x6183; 0x2496; 0x1100; 0xF1FD; 0xFF80; 0x4800; 0x4801; 0xC213; 0xC313;
  0xE815; 0x4860; 0x8EE0; 0xC210; 0xC310; 0xE822; 0x481E; 0xC20C; 0xC30C; 0xE80C; 0xC206; 0x7358; 0x483A;
  0x9B58; 0xFF80; 0xE8E0; 0xE000; 0x1008; 0x0F00; 0x800C; 0x0F00; 0xB407; 0xB406; 0xB403; 0xC7F7; 0x98E0;
  0x99E2; 0x9AE4; 0x21B2; 0x4831; 0x483F; 0x9BE6; 0x66E7; 0x49E6; 0xF1FE; 0xB003; 0xB006; 0xB007; 0xFF80;
  0xB407; 0xB406; 0xB403; 0xC7E5; 0x9AE4; 0x21B2; 0x4831; 0x9BE6; 0x66E7; 0x49E6; 0xF1FE; 0x70E0; 0x71E2;
  0xB003; 0xB006; 0xB007; 0xFF80; 0x4882; 0xB406; 0xB405; 0xC71E; 0x76E0; 0x1D78; 0x4175; 0x1630; 0xF10C;
  0xC715; 0x76E0; 0x4861; 0x9EE0; 0xC713; 0x1EFF; 0x9EE2; 0x75E0; 0x4850; 0x9DE0; 0xE005; 0xC70B; 0x76E0;
  0x4865; 0x9EE0; 0xB005; 0xB006; 0xC708; 0xC102; 0xB900; 0x279E; 0xEB16; 0xEB00; 0xE43C; 0xDC00; 0xD3EC;
  0xC602; 0xBE00; 0x0000; 0xC602; 0xBE00; 0x0000].

Definition mac_mcu_8168fp_1_4 : list (Z * Z) := [
  (0xFC26, 0x8000); (0xFC28, 0x0000); (0xFC2A, 0x04b4); (0xFC2C, 0x0000); (0xFC2E, 0x0000);
  (0xFC30, 0x0000); (0xFC32, 0x279C); (0xFC34, 0x0000); (0xFC36, 0x0000)].

Definition mcu_patch_code_8168fp_8116as_2 : list Z := [
  0xE008; 0xE00A; 0xE00F; 0xE014; 0xE016; 0xE018; 0xE01A; 0xE01C; 0xC602; 0xBE00; 0x2AB2; 0x1BC0; 0x46EB;
  0x1BFE; 0xC102; 0xB900; 0x0B1A; 0x1BC0; 0x46EB; 0x1B7E; 0xC102; 0xB900; 0x0BEA; 0xC602; 0xBE00; 0x0000;
  0xC602; 0xBE00; 0x0000; 0xC602; 0xBE00; 0x0000; 0xC602; 0xBE00; 0x0000; 0xC602; 0xBE00; 0x0000].

Definition mcu_patch_code_8168fp_2 : list Z := [
  0xE008; 0xE00A; 0xE00F; 0xE014; 0xE05F; 0xE064; 0xE066; 0xE068; 0xC602; 0xBE00; 0x0000; 0x1BC0; 0x46EB;
  0x1BFE; 0xC102; 0xB900; 0x0B1A; 0x1BC0; 0x46EB; 0x1B7E; 0xC102; 0xB900; 0x0BEA; 0xB400; 0xB401; 0xB402;
  0xB403; 0xB404; 0xB405; 0xC03A; 0x7206; 0x49AE; 0xF1FE; 0xC137; 0x9904; 0xC136; 0x9906; 0x7206; 0x49AE;
  0xF1FE; 0x7200; 0x49A0; 0xF10B; 0xC52F; 0xC12E; 0xC232; 0xC332; 0xE812; 0xC331; 0xE810; 0xC330; 0xE80E;
  0xE018; 0xC126; 0xC229; 0xC525; 0xC328; 0xE808; 0xC523; 0xC326; 0xE805; 0xC521; 0xC324; 0xE802; 0xE00C;
  0x740E; 0x49CE; 0xF1FE; 0x9908; 0x9D0A; 0x9A0C; 0x9B0E; 0x740E; 0x49CE; 0xF1FE; 0xFF80; 0xB005; 0xB004;
  0xB003; 0xB002; 0xB001; 0xB000; 0xC604; 0xC002; 0xB800; 0x2A5E; 0xE000; 0xE8E0; 0xF128; 0x3DC2; 0xFFFF;
  0x10EC; 0x816A; 0x816D; 0x816C; 0xF000; 0x8002; 0x8004; 0x8007; 0x48C1; 0x48C2; 0x9C46; 0xC402; 0xBC00;
  0x07BC; 0xC602; 0xBE00; 0x0000; 0xC602; 0xBE00; 0x0000; 0xC602; 0xBE00; 0x0000].

Definition mcu_patch_code_8168fp_3 : list Z := [
  0xE008; 0xE053; 0xE058; 0xE05A; 0xE05C; 0xE05E; 0xE060; 0xE062; 0xB400; 0xB401; 0xB402; 0xB403; 0xB404;
  0xB405; 0xC03A; 0x7206; 0x49AE; 0xF1FE; 0xC137; 0x9904; 0xC136; 0x9906; 0x7206; 0x49AE; 0xF1FE; 0x7200;
  0x49A0; 0xF10B; 0xC52F; 0xC12E; 0xC232; 0xC332; 0xE812; 0xC331; 0xE810; 0xC330; 0xE80E; 0xE018; 0xC126;
  0xC229; 0xC525; 0xC328; 0xE808; 0xC523; 0xC326; 0xE805; 0xC521; 0xC324; 0xE802; 0xE00C; 0x740E; 0x49CE;
  0xF1FE; 0x9908; 0x9D0A; 0x9A0C; 0x9B0E; 0x740E; 0x49CE; 0xF1FE; 0xFF80; 0xB005; 0xB004; 0xB003; 0xB002;
  0xB001; 0xB000; 0xC604; 0xC002; 0xB800; 0x2B16; 0xE000; 0xE8E0; 0xF128; 0x3DC2; 0xFFFF; 0x10EC; 0x816A;
  0x816D; 0x816C; 0xF000; 0x8002; 0x8004; 0x8007; 0x48C1; 0x48C2; 0x9C46; 0xC402; 0xBC00; 0x07BC; 0xC602;
  0xBE00; 0x0000; 0xC602; 0xBE00; 0x0000; 0xC602; 0xBE00; 0x0000; 0xC602; 0xBE00; 0x0000; 0xC602; 0xBE00;
  0x0000; 0xC602; 0xBE00; 0x0000].
