(* ===== verification/Rtl8168.v ===== *)
(** * r8168: microcode, tuning and energy-efficient Ethernet

    The loaders of the PHY's and the MAC's microcode of r8168_n.c, the tuning
    of the PHY and of the PCIe PHY for each chip, and the switching of
    energy-efficient Ethernet that ends it.  The long runs of operations are
    the data of [Rtl8168Code]; a run is cut where the code reads a register to
    decide what follows.  The firmware file is off in the Makefile, so
    [tp->rtl_fw] is null. *)
From S2P Require Import Prelude RtlBase RtlHw RtlIrq RtlWol RtlMcu RtlRamCode RtlPhyConfig RtlChip RtlEeprom RtlLink RtlEee RtlConfig Rtl8168Hw Rtl8168Code.
Local Open Scope Z_scope.
Local Open Scope rtl_scope.

Section Chip8168.
Context {D : Type} `{HM : Mmio D} {C : Chip8168} `{HK : LinkModes}.
Abbreviation ST := (St (nic D)).

(** ** Requests to the PHY's microcontroller *)

(** The wait for bit 6 of the answer, at most 1000 reads. *)
Definition patch_answer (want : bool) : ST bool :=
  poll (Z.to_nat 1000) (v <- rtl8168_mdio_read 0x10 ;; sret (eqb (has v (BIT 6)) want)).

Definition rtl8168_set_phy_mcu_patch_request : ST bool :=
  m <- tp_get (fun s => mcfg s) ;;
  if chips 21 37 m then
    mdio_ops [Wr 0x1f 0x0B82; Mo 0x10 0 (BIT 4); Wr 0x1f 0x0B80] ;;;
    retval <- patch_answer true ;;
    rtl8168_mdio_write 0x1f 0x0000 ;;;
    sret retval
  else sret true.

Definition rtl8168_clear_phy_mcu_patch_request : ST bool :=
  m <- tp_get (fun s => mcfg s) ;;
  if chips 21 37 m then
    mdio_ops [Wr 0x1f 0x0B82; Mo 0x10 (BIT 4) 0; Wr 0x1f 0x0B80] ;;;
    retval <- patch_answer false ;;
    rtl8168_mdio_write 0x1f 0x0000 ;;;
    sret retval
  else sret true.

(** Where the version of the loaded code is kept: page, index and data. *)
Definition code_ver_place (m : Z) : option (Z * Z * Z * Z) :=
  if chips 14 15 m then Some (0x0005, 0x05, 0x8B60, 0x06)
  else if chips 16 20 m then Some (0x0005, 0x05, 0x8B30, 0x06)
  else if chips 21 37 m then Some (0x0A43, 0x13, 0x801E, 0x14)
  else None.

Definition rtl8168_get_hw_phy_mcu_code_ver : ST Z :=
  m <- tp_get (fun s => mcfg s) ;;
  match code_ver_place m with
  | Some (page, idx, addr, data) =>
      mdio_ops [Wr 0x1F page; Wr idx addr] ;;;
      v <- rtl8168_mdio_read data ;;
      rtl8168_mdio_write 0x1F 0x0000 ;;;
      sret (u16 v)
  | None => smodify (set_hw_ram_code_ver 0xFFFF) ;;; sret 0xFFFF
  end.

Definition rtl8168_check_hw_phy_mcu_code_ver : ST bool :=
  v <- rtl8168_get_hw_phy_mcu_code_ver ;;
  smodify (set_hw_ram_code_ver v) ;;;
  sw <- tp_get (fun s => sw_ram_code_ver s) ;;
  if v =? sw then smodify (set_HwHasWr 1) ;;; sret true else sret false.

Definition rtl8168_write_hw_phy_mcu_code_ver : ST unit :=
  s <- tp_get id ;;
  match code_ver_place (mcfg s) with
  | Some (page, idx, addr, data) =>
      mdio_ops [Wr 0x1F page; Wr idx addr; Wr data (sw_ram_code_ver s); Wr 0x1F 0x0000] ;;;
      smodify (set_hw_ram_code_ver (sw_ram_code_ver s))
  | None => sret tt
  end.

Definition rtl8168_set_phy_ram_code_check_fail_flag : ST unit :=
  m <- tp_get (fun s => mcfg s) ;;
  swhen (m =? 21) (v <- rtl8168_mac_ocp_read 0xD3C0 ;; rtl8168_mac_ocp_write 0xD3C0 (Z.lor v (BIT 0))).

Definition rtl8168_is_adv_eee_enabled : ST bool :=
  m <- tp_get (fun s => mcfg s) ;;
  if chips 25 36 m then
    rtl8168_mdio_write 0x1F 0x0A43 ;;;
    v <- rtl8168_mdio_read 0x10 ;;
    rtl8168_mdio_write 0x1F 0x0000 ;;;
    sret (has v (BIT 15))
  else sret false.

(** ** The microcode of the PHY *)

Definition rtl8168_phy_ram_code_check : ST bool :=
  m <- tp_get (fun s => mcfg s) ;;
  ok <- (if m =? 21 then
    mdio_ops phy_ram_code_check_1 ;;;
    rtl8168_set_phy_mcu_patch_request ;;;
    mdio_ops phy_ram_code_check_2 ;;;
    rtl8168_clear_phy_mcu_patch_request ;;;
    mdio_ops phy_ram_code_check_3 ;;;
    rtl8168_set_phy_mcu_patch_request ;;;
    mdio_ops [Wr 0x1f 0x0A20] ;;;
    v <- rtl8168_mdio_read 0x13 ;;
    rtl8168_clear_phy_mcu_patch_request ;;;
    sret (negb (has v (BIT 11) && has v (BIT 10)))
   else sret true) ;;
  rtl8168_mdio_write 0x1F 0x0000 ;;;
  sret ok.

Definition rtl8168_set_phy_mcu_8168e_1 : ST unit :=
  mdio_ops phy_mcu_8168e_1_1 ;;;
  poll (Z.to_nat 200)
    (gphy_val <- rtl8168_mdio_read 0x1E ;;
     let gphy_val := Z.land gphy_val 0x03FF in
     sret (gphy_val =? 0x000C)) ;;;
  mdio_ops [Wr 0x1f 0x0005] ;;;
  poll (Z.to_nat 200)
    (gphy_val <- rtl8168_mdio_read 0x07 ;;
     sret ((Z.land gphy_val (BIT 5)) =? 0)) ;;;
  gphy_val <- rtl8168_mdio_read 0x07 ;;
  swhen (has gphy_val (BIT 5))
    (mdio_ops phy_mcu_8168e_1_2) ;;;
  mdio_ops phy_mcu_8168e_1_3 ;;;
  mdio_ops phy_mcu_8168e_1_4 ;;;
  mdio_ops phy_mcu_8168e_1_5 ;;;
  mdio_ops phy_mcu_8168e_1_6 ;;;
  mdio_ops phy_mcu_8168e_1_7 ;;;
  mdio_ops phy_mcu_8168e_1_8 ;;;
  mdio_ops phy_mcu_8168e_1_9 ;;;
  mdio_ops phy_mcu_8168e_1_10 ;;;
  mdio_ops phy_mcu_8168e_1_11 ;;;
  poll (Z.to_nat 200)
    (gphy_val <- rtl8168_mdio_read 0x00 ;;
     sret (has gphy_val (BIT 7))) ;;;
  mdio_ops [Wr 0x1f 0x0007; Wr 0x1e 0x0023] ;;;
  gphy_val <- rtl8168_mdio_read 0x17 ;;
  let gphy_val := Z.land gphy_val (Z.lnot (BIT 0)) in
  let gphy_val := if tst RequiredSecLanDonglePatch then (Z.land gphy_val (Z.lnot (BIT 2))) else gphy_val in
  rtl8168_mdio_write 0x17 gphy_val ;;;
  mdio_ops phy_mcu_8168e_1_12.

Definition rtl8168_set_phy_mcu_8168e_2 : ST unit :=
  v1 <- rtl8168_efuse_read 0x22 ;;
  (if v1 =? 0x0c then
    (mdio_ops phy_mcu_8168e_2_1 ;;;
     poll (Z.to_nat 200)
       (gphy_val <- rtl8168_mdio_read 0x1E ;;
        let gphy_val := Z.land gphy_val 0x03FF in
        sret (gphy_val =? 0x000C)) ;;;
     mdio_ops [Wr 0x1f 0x0005] ;;;
     poll (Z.to_nat 200)
       (gphy_val <- rtl8168_mdio_read 0x07 ;;
        sret ((Z.land gphy_val (BIT 5)) =? 0)) ;;;
     gphy_val <- rtl8168_mdio_read 0x07 ;;
     swhen (has gphy_val (BIT 5))
       (mdio_ops phy_mcu_8168e_2_2) ;;;
     mdio_ops phy_mcu_8168e_2_3 ;;;
     mdio_ops phy_mcu_8168e_2_4 ;;;
     mdio_ops phy_mcu_8168e_2_5 ;;;
     mdio_ops phy_mcu_8168e_2_6 ;;;
     mdio_ops phy_mcu_8168e_2_7 ;;;
     mdio_ops phy_mcu_8168e_2_8 ;;;
     mdio_ops phy_mcu_8168e_2_9 ;;;
     mdio_ops phy_mcu_8168e_2_10 ;;;
     mdio_ops phy_mcu_8168e_2_11 ;;;
     mdio_ops phy_mcu_8168e_2_12 ;;;
     poll (Z.to_nat 200)
       (gphy_val <- rtl8168_mdio_read 0x00 ;;
        sret (has gphy_val (BIT 7))) ;;;
     mdio_ops [Wr 0x1f 0x0007; Wr 0x1e 0x0023] ;;;
     gphy_val <- rtl8168_mdio_read 0x17 ;;
     let gphy_val := Z.land gphy_val (Z.lnot (BIT 0)) in
     let gphy_val := if tst RequiredSecLanDonglePatch then (Z.land gphy_val (Z.lnot (BIT 2))) else gphy_val in
     rtl8168_mdio_write 0x17 gphy_val ;;;
     mdio_ops phy_mcu_8168e_2_13)
  else
    (mdio_ops phy_mcu_8168e_2_14 ;;;
     poll (Z.to_nat 200)
       (gphy_val <- rtl8168_mdio_read 0x1E ;;
        let gphy_val := Z.land gphy_val 0x03FF in
        sret (gphy_val =? 0x000C)) ;;;
     mdio_ops [Wr 0x1f 0x0005] ;;;
     poll (Z.to_nat 200)
       (gphy_val <- rtl8168_mdio_read 0x07 ;;
        sret ((Z.land gphy_val (BIT 5)) =? 0)) ;;;
     gphy_val <- rtl8168_mdio_read 0x07 ;;
     swhen (has gphy_val (BIT 5))
       (mdio_ops phy_mcu_8168e_2_15) ;;;
     mdio_ops phy_mcu_8168e_2_16 ;;;
     mdio_ops phy_mcu_8168e_2_17 ;;;
     mdio_ops phy_mcu_8168e_2_18 ;;;
     mdio_ops phy_mcu_8168e_2_19 ;;;
     mdio_ops phy_mcu_8168e_2_20 ;;;
     mdio_ops phy_mcu_8168e_2_21 ;;;
     mdio_ops phy_mcu_8168e_2_22 ;;;
     mdio_ops phy_mcu_8168e_2_23 ;;;
     mdio_ops phy_mcu_8168e_2_24 ;;;
     poll (Z.to_nat 200)
       (gphy_val <- rtl8168_mdio_read 0x00 ;;
        sret (has gphy_val (BIT 7))) ;;;
     mdio_ops [Wr 0x1f 0x0007; Wr 0x1e 0x0023] ;;;
     gphy_val <- rtl8168_mdio_read 0x17 ;;
     let gphy_val := Z.land gphy_val (Z.lnot (BIT 0)) in
     let gphy_val := if tst RequiredSecLanDonglePatch then (Z.land gphy_val (Z.lnot (BIT 2))) else gphy_val in
     rtl8168_mdio_write 0x17 gphy_val ;;;
     mdio_ops [Wr 0x1f 0x0000])).

Definition rtl8168_set_phy_mcu_8168evl_1 : ST unit :=
  mdio_ops [Wr 0x1f 0x0000; Wr 0x00 0x1800; Mo 0x15 (BIT 12) 0; Wr 0x1f 0x0004; Wr 0x1f 0x0007;
    Wr 0x1e 0x0023] ;;;
  gphy_val <- rtl8168_mdio_read 0x17 ;;
  swhen ((Z.land gphy_val (BIT 11)) =? 0x0000)
    (let gphy_val := Z.lor gphy_val (BIT 0) in
     rtl8168_mdio_write 0x17 gphy_val ;;;
     poll (Z.to_nat 200)
       (gphy_val <- rtl8168_mdio_read 0x17 ;;
        sret (has gphy_val (BIT 11))) ;;;
     sret tt) ;;;
  mdio_ops phy_mcu_8168evl_1_1 ;;;
  poll (Z.to_nat 200)
    (gphy_val <- rtl8168_mdio_read 0x1E ;;
     sret ((Z.land gphy_val 0x03FF) =? 0x0014)) ;;;
  mdio_ops [Wr 0x1f 0x0005] ;;;
  poll (Z.to_nat 200)
    (gphy_val <- rtl8168_mdio_read 0x07 ;;
     sret ((Z.land gphy_val (BIT 5)) =? 0)) ;;;
  gphy_val <- rtl8168_mdio_read 0x07 ;;
  swhen (has gphy_val (BIT 5))
    (mdio_ops phy_mcu_8168evl_1_2) ;;;
  mdio_ops phy_mcu_8168evl_1_3 ;;;
  mdio_ops phy_mcu_8168evl_1_4 ;;;
  mdio_ops phy_mcu_8168evl_1_5 ;;;
  mdio_ops phy_mcu_8168evl_1_6 ;;;
  mdio_ops phy_mcu_8168evl_1_7 ;;;
  mdio_ops phy_mcu_8168evl_1_8 ;;;
  mdio_ops phy_mcu_8168evl_1_9 ;;;
  mdio_ops phy_mcu_8168evl_1_10 ;;;
  mdio_ops phy_mcu_8168evl_1_11 ;;;
  mdio_ops phy_mcu_8168evl_1_12 ;;;
  mdio_ops phy_mcu_8168evl_1_13 ;;;
  mdio_ops phy_mcu_8168evl_1_14 ;;;
  mdio_ops phy_mcu_8168evl_1_15 ;;;
  mdio_ops phy_mcu_8168evl_1_16 ;;;
  mdio_ops phy_mcu_8168evl_1_17 ;;;
  mdio_ops phy_mcu_8168evl_1_18 ;;;
  mdio_ops phy_mcu_8168evl_1_19 ;;;
  poll (Z.to_nat 200)
    (gphy_val <- rtl8168_mdio_read 0x00 ;;
     sret (has gphy_val (BIT 7))) ;;;
  mdio_ops [Wr 0x1f 0x0004; Wr 0x1f 0x0007; Wr 0x1e 0x0023; Mo 0x17 (BIT 0) (BIT 2); Wr 0x1f 0x0002;
    Wr 0x1f 0x0000].

Definition rtl8168_set_phy_mcu_8168evl_2 : ST unit :=
  mdio_ops [Wr 0x1f 0x0000; Wr 0x00 0x1800; Mo 0x15 (BIT 12) 0; Wr 0x00 0x4800; Wr 0x1f 0x0007;
    Wr 0x1e 0x002f] ;;;
  poll (Z.to_nat 1000)
    (gphy_val <- rtl8168_mdio_read 0x1c ;;
     sret ((Z.land gphy_val 0x0080) =? 0x0080)) ;;;
  mdio_ops [Wr 0x1f 0x0000; Wr 0x00 0x1800; Wr 0x1f 0x0007; Wr 0x1e 0x0023] ;;;
  poll (Z.to_nat 200)
    (gphy_val <- rtl8168_mdio_read 0x17 ;;
     sret (negb (has gphy_val 0x0001))) ;;;
  mdio_ops phy_mcu_8168evl_2_1 ;;;
  swhen ((subsystem_vendor =? 0x144d) && (subsystem_device =? 0xc0a6))
    (mdio_ops phy_mcu_8168evl_2_2) ;;;
  mdio_ops phy_mcu_8168evl_2_3 ;;;
  mdio_ops phy_mcu_8168evl_2_4 ;;;
  mdio_ops phy_mcu_8168evl_2_5 ;;;
  mdio_ops phy_mcu_8168evl_2_6 ;;;
  mdio_ops phy_mcu_8168evl_2_7 ;;;
  mdio_ops phy_mcu_8168evl_2_8 ;;;
  poll (Z.to_nat 200)
    (gphy_val <- rtl8168_mdio_read 0x00 ;;
     sret (has gphy_val (BIT 7))) ;;;
  mdio_ops [Wr 0x1f 0x0007; Wr 0x1e 0x0042; Wr 0x18 0x2300; Wr 0x1f 0x0000; Wr 0x1f 0x0007; Wr 0x1e 0x0023] ;;;
  swhen (tst RequiredSecLanDonglePatch)
    (mdio_ops [Mo 0x17 (BIT 2) 0]) ;;;
  mdio_ops [Wr 0x1f 0x0000; Wr 0x00 0x9200].

Definition rtl8168_set_phy_mcu_8168f_1 : ST unit :=
  mdio_ops [Wr 0x1f 0x0000; Wr 0x00 0x1800; Mo 0x15 (BIT 12) 0; Wr 0x00 0x4800; Wr 0x1f 0x0007;
    Wr 0x1e 0x002f] ;;;
  poll (Z.to_nat 1000)
    (gphy_val <- rtl8168_mdio_read 0x1c ;;
     sret (has gphy_val 0x0080)) ;;;
  mdio_ops [Wr 0x1f 0x0000; Wr 0x00 0x1800; Wr 0x1f 0x0007; Wr 0x1e 0x0023] ;;;
  poll (Z.to_nat 200)
    (gphy_val <- rtl8168_mdio_read 0x18 ;;
     sret (negb (has gphy_val 0x0001))) ;;;
  mdio_ops phy_mcu_8168f_1_1 ;;;
  mdio_ops phy_mcu_8168f_1_2 ;;;
  mdio_ops phy_mcu_8168f_1_3 ;;;
  mdio_ops phy_mcu_8168f_1_4 ;;;
  mdio_ops phy_mcu_8168f_1_5 ;;;
  mdio_ops phy_mcu_8168f_1_6 ;;;
  poll (Z.to_nat 200)
    (gphy_val <- rtl8168_mdio_read 0x00 ;;
     sret (has gphy_val (BIT 7))) ;;;
  mdio_ops [Wr 0x1f 0x0007; Wr 0x1e 0x0023] ;;;
  gphy_val <- rtl8168_mdio_read 0x17 ;;
  let gphy_val := Z.lor gphy_val (BIT 1) in
  let gphy_val := if tst RequiredSecLanDonglePatch then (Z.land gphy_val (Z.lnot (BIT 2))) else gphy_val in
  rtl8168_mdio_write 0x17 gphy_val ;;;
  mdio_ops phy_mcu_8168f_1_7.

Definition rtl8168_set_phy_mcu_8168f_2 : ST unit :=
  mdio_ops [Wr 0x1f 0x0000; Wr 0x00 0x1800; Mo 0x15 (BIT 12) 0; Wr 0x00 0x4800; Wr 0x1f 0x0007;
    Wr 0x1e 0x002f] ;;;
  poll (Z.to_nat 1000)
    (gphy_val <- rtl8168_mdio_read 0x1c ;;
     sret (has gphy_val 0x0080)) ;;;
  mdio_ops [Wr 0x1f 0x0000; Wr 0x00 0x1800; Wr 0x1f 0x0007; Wr 0x1e 0x0023] ;;;
  poll (Z.to_nat 200)
    (gphy_val <- rtl8168_mdio_read 0x18 ;;
     sret (negb (has gphy_val 0x0001))) ;;;
  mdio_ops phy_mcu_8168f_2_1 ;;;
  mdio_ops phy_mcu_8168f_2_2 ;;;
  mdio_ops phy_mcu_8168f_2_3 ;;;
  poll (Z.to_nat 200)
    (gphy_val <- rtl8168_mdio_read 0x00 ;;
     sret (has gphy_val (BIT 7))) ;;;
  mdio_ops [Wr 0x1f 0x0007; Wr 0x1e 0x0023] ;;;
  gphy_val <- rtl8168_mdio_read 0x17 ;;
  let gphy_val := Z.lor gphy_val (BIT 1) in
  let gphy_val := if tst RequiredSecLanDonglePatch then (Z.land gphy_val (Z.lnot (BIT 2))) else gphy_val in
  rtl8168_mdio_write 0x17 gphy_val ;;;
  mdio_ops [Wr 0x1f 0x0000; Wr 0x1f 0x0000; Wr 0x00 0x9200].

Definition rtl8168_set_phy_mcu_8411_1 : ST unit :=
  mdio_ops [Wr 0x1f 0x0000; Wr 0x00 0x1800; Mo 0x15 (BIT 12) 0; Wr 0x00 0x4800; Wr 0x1f 0x0007;
    Wr 0x1e 0x002f] ;;;
  poll (Z.to_nat 1000)
    (gphy_val <- rtl8168_mdio_read 0x1c ;;
     sret (has gphy_val 0x0080)) ;;;
  mdio_ops [Wr 0x1f 0x0000; Wr 0x00 0x1800; Wr 0x1f 0x0007; Wr 0x1e 0x0023] ;;;
  poll (Z.to_nat 200)
    (gphy_val <- rtl8168_mdio_read 0x18 ;;
     sret (negb (has gphy_val 0x0001))) ;;;
  mdio_ops phy_mcu_8411_1_1 ;;;
  mdio_ops phy_mcu_8411_1_2 ;;;
  mdio_ops phy_mcu_8411_1_3 ;;;
  mdio_ops phy_mcu_8411_1_4 ;;;
  poll (Z.to_nat 200)
    (gphy_val <- rtl8168_mdio_read 0x00 ;;
     sret (has gphy_val (BIT 7))) ;;;
  mdio_ops [Wr 0x1f 0x0007; Wr 0x1e 0x0023] ;;;
  gphy_val <- rtl8168_mdio_read 0x17 ;;
  let gphy_val := Z.lor gphy_val (BIT 1) in
  let gphy_val := if tst RequiredSecLanDonglePatch then (Z.land gphy_val (Z.lnot (BIT 2))) else gphy_val in
  rtl8168_mdio_write 0x17 gphy_val ;;;
  mdio_ops phy_mcu_8411_1_5.

Definition rtl8168_set_phy_mcu_8168g_1 : ST unit :=
  rtl8168_set_phy_mcu_patch_request ;;;
  mdio_ops phy_mcu_8168g_1_1 ;;;
  mdio_ops phy_mcu_8168g_1_2 ;;;
  mdio_ops phy_mcu_8168g_1_3 ;;;
  mdio_ops phy_mcu_8168g_1_4 ;;;
  mdio_ops phy_mcu_8168g_1_5 ;;;
  mdio_ops phy_mcu_8168g_1_6 ;;;
  mdio_ops phy_mcu_8168g_1_7 ;;;
  mdio_ops phy_mcu_8168g_1_8 ;;;
  rtl8168_clear_phy_mcu_patch_request ;;;
  sret tt.

Definition rtl8168_set_phy_mcu_8168gu_2 : ST unit :=
  rtl8168_set_phy_mcu_patch_request ;;;
  mdio_ops phy_mcu_8168gu_2_1 ;;;
  rtl8168_clear_phy_mcu_patch_request ;;;
  sret tt.

Definition rtl8168_set_phy_mcu_8411b_1 : ST unit :=
  rtl8168_set_phy_mcu_patch_request ;;;
  mdio_ops phy_mcu_8411b_1_1 ;;;
  rtl8168_clear_phy_mcu_patch_request ;;;
  sret tt.

Definition rtl8168_set_phy_mcu_8168ep_2 : ST unit :=
  rtl8168_set_phy_mcu_patch_request ;;;
  mdio_ops phy_mcu_8168ep_2_1 ;;;
  rtl8168_clear_phy_mcu_patch_request ;;;
  sret tt.

Definition rtl8168_set_phy_mcu_8168h_1 : ST unit :=
  rtl8168_set_phy_mcu_patch_request ;;;
  mdio_ops phy_mcu_8168h_1_1 ;;;
  rtl8168_clear_phy_mcu_patch_request ;;;
  sret tt.

Definition rtl8168_set_phy_mcu_8168h_2 : ST unit :=
  rtl8168_set_phy_mcu_patch_request ;;;
  mdio_ops phy_mcu_8168h_2_1 ;;;
  mdio_ops phy_mcu_8168h_2_2 ;;;
  mdio_ops phy_mcu_8168h_2_3 ;;;
  gphy_val <- rtl8168_mdio_read 0x17 ;;
  let gphy_val := Z.land gphy_val (Z.lnot (BIT 0)) in
  rtl8168_mdio_write 0x17 gphy_val ;;;
  mdio_ops [Wr 0x1f 0x0A43; Wr 0x13 0x8028; Wr 0x14 0x0000] ;;;
  rtl8168_clear_phy_mcu_patch_request ;;;
  swhen (tst RequiredSecLanDonglePatch)
    (mdio_ops [Wr 0x1F 0x0A43; Mo 0x11 (BIT 6) 0]).

Definition rtl8168_set_phy_mcu_8168h_3 : ST unit :=
  rtl8168_set_phy_mcu_patch_request ;;;
  mdio_ops phy_mcu_8168h_3_1 ;;;
  mdio_ops phy_mcu_8168h_3_2 ;;;
  mdio_ops phy_mcu_8168h_3_3 ;;;
  mdio_ops phy_mcu_8168h_3_4 ;;;
  gphy_val <- rtl8168_mdio_read 0x17 ;;
  let gphy_val := Z.land gphy_val (Z.lnot (BIT 0)) in
  rtl8168_mdio_write 0x17 gphy_val ;;;
  mdio_ops [Wr 0x1f 0x0A43; Wr 0x13 0x8042; Wr 0x14 0x0000] ;;;
  rtl8168_clear_phy_mcu_patch_request ;;;
  swhen (tst RequiredSecLanDonglePatch)
    (mdio_ops [Wr 0x1F 0x0A43; Mo 0x11 (BIT 6) 0]).

(** The chips whose loader [rtl8168_init_hw_phy_mcu] calls. *)
Definition set_phy_mcu_8168 (m : Z) : ST unit :=
  if m =? 14 then rtl8168_set_phy_mcu_8168e_1
  else if m =? 15 then rtl8168_set_phy_mcu_8168e_2
  else if m =? 16 then rtl8168_set_phy_mcu_8168evl_1
  else if m =? 17 then rtl8168_set_phy_mcu_8168evl_2
  else if m =? 18 then rtl8168_set_phy_mcu_8168f_1
  else if m =? 19 then rtl8168_set_phy_mcu_8168f_2
  else if m =? 20 then rtl8168_set_phy_mcu_8411_1
  else if m =? 21 then rtl8168_set_phy_mcu_8168g_1
  else if m =? 25 then rtl8168_set_phy_mcu_8168gu_2
  else if m =? 26 then rtl8168_set_phy_mcu_8411b_1
  else if m =? 28 then rtl8168_set_phy_mcu_8168ep_2
  else if m =? 29 then rtl8168_set_phy_mcu_8168h_1
  else if (m =? 30) || (m =? 37) then rtl8168_set_phy_mcu_8168h_2
  else if m =? 35 then rtl8168_set_phy_mcu_8168h_3
  else sret tt.

Definition rtl8168_init_hw_phy_mcu : ST unit :=
  s <- tp_get id ;;
  if NotWrRamCodeToMicroP s =? 1 then sret tt
  else
    same <- rtl8168_check_hw_phy_mcu_code_ver ;;
    if same : bool then sret tt
    else
      ok <- rtl8168_phy_ram_code_check ;;
      if negb ok then rtl8168_set_phy_ram_code_check_fail_flag
      else
        disable <- (if HwSuppCheckPhyDisableModeVer s >? 0 then rtl8168_is_in_phy_disable_mode else sret false) ;;
        swhen disable rtl8168_disable_phy_disable_mode ;;;
        set_phy_mcu_8168 (mcfg s) ;;;
        swhen disable rtl8168_enable_phy_disable_mode ;;;
        rtl8168_write_hw_phy_mcu_code_ver ;;;
        rtl8168_mdio_write 0x1F 0x0000 ;;;
        smodify (set_HwHasWr 1).

(** ** Energy-efficient Ethernet *)

(** What switching EEE answers: the chips of the first switch are supported. *)
Definition eee_answer (m : Z) : Z := if chips 14 36 m then 0 else - EOPNOTSUPP.

Definition disable_adv_eee_29 : ST unit :=
  data <- rtl8168_mac_ocp_read 0xE052 ;;
  let data := Z.land data (Z.lnot (BIT 0)) in
  rtl8168_mac_ocp_write 0xE052 data ;;;
  mdio_ops [Wr 0x1F 0x0A43; Mo 0x10 (BIT 15) 0; Wr 0x1F 0x0A44; Mo 0x11 (bits_or [12; 13; 14]) 0;
    Wr 0x1F 0x0000].

Definition adv_eee_off : ST unit :=
  m <- tp_get (fun s => mcfg s) ;;
  (if m =? 25 then
    (rtl8168_eri_write 0x1EA 1 0x00 ERIAR_ExGMAC ;;;
     mdio_ops [Wr 0x1F 0x0A42; Mo 0x16 (BIT 1) 0; Wr 0x1F 0x0000])
   else if m =? 26 then
    (data <- rtl8168_mac_ocp_read 0xE052 ;;
     let data := Z.land data (Z.lnot (BIT 0)) in
     rtl8168_mac_ocp_write 0xE052 data ;;;
     mdio_ops [Wr 0x1F 0x0A42; Mo 0x16 (BIT 1) 0; Wr 0x1F 0x0000])
   else if (m =? 27) || (m =? 28) then
    (data <- rtl8168_mac_ocp_read 0xE052 ;;
     let data := Z.land data (Z.lnot (BIT 0)) in
     rtl8168_mac_ocp_write 0xE052 data)
   else if chips 29 36 m then disable_adv_eee_29
   else sret tt).

Definition rtl8168_disable_adv_eee : ST unit :=
  m <- tp_get (fun s => mcfg s) ;;
  if negb (chips 25 36 m) then sret tt
  else
    let lock_mutex := existsb (Z.eqb m) [23; 27; 28; 31; 32; 33; 34] in
    swhen lock_mutex rtl8168_oob_mutex_lock ;;;
    lock_phy <- rtl8168_is_adv_eee_enabled ;;
    swhen lock_phy (rtl8168_set_phy_mcu_patch_request ;;; sret tt) ;;;
    adv_eee_off ;;;
    swhen lock_phy (rtl8168_clear_phy_mcu_patch_request ;;; sret tt) ;;;
    swhen lock_mutex rtl8168_oob_mutex_unlock.

Definition enable_eee_14 : ST unit :=
  mdio_ops [Wr 0x1F 0x0007; Wr 0x1E 0x0020; Mo 0x15 0 0x0100; Wr 0x1F 0x0005; Wr 0x05 0x8B85] ;;;
  v1 <- rtl8168_mdio_read 0x06 ;;
  let data := u16 (Z.lor v1 0x2000) in
  rtl8168_mdio_write 0x06 data ;;;
  mdio_ops enable_eee_1 ;;;
  v1 <- RTL_R8 Config4 ;;
  b2 <- (if has v1 0x40 then v1 <- RTL_R8 0x6D ;; sret (has v1 (BIT 7)) else sret false) ;;
  swhen (b2 : bool)
    (mdio_ops [Wr 0x1F 0x0005; Wr 0x05 0x8AC8] ;;;
     v1 <- RTL_R16 NicCustLedValue ;;
     rtl8168_mdio_write 0x06 v1 ;;;
     mdio_ops [Wr 0x05 0x8B82] ;;;
     v1 <- rtl8168_mdio_read 0x06 ;;
     let data := u16 (Z.lor v1 0x0010) in
     mdio_ops [Wr 0x05 0x8B82] ;;;
     rtl8168_mdio_write 0x06 data ;;;
     mdio_ops [Wr 0x1F 0x0000]).

Definition enable_eee_16 : ST unit :=
  v1 <- rtl8168_eri_read 0x1B0 4 ERIAR_ExGMAC ;;
  let csi_tmp := Z.lor v1 0x0003 in
  rtl8168_eri_write 0x1B0 4 csi_tmp ERIAR_ExGMAC ;;;
  mdio_ops enable_eee_2.

Definition enable_eee_18 : ST unit :=
  csi_tmp <- rtl8168_eri_read 0x1B0 4 ERIAR_ExGMAC ;;
  let csi_tmp := Z.lor csi_tmp (bits_or [1; 0]) in
  rtl8168_eri_write 0x1B0 4 csi_tmp ERIAR_ExGMAC ;;;
  mdio_ops enable_eee_3.

Definition rtl8168_enable_eee : ST Z :=
  adv_ <- tp_get (fun s => eee_advertised s) ;;
  let eee_adv_cap1_t := u16 (linkmode_to_mii_eee_cap1_t adv_) in
  m <- tp_get (fun s => mcfg s) ;;
  (if (m =? 14) || (m =? 15) then enable_eee_14
   else if (m =? 16) || (m =? 17) then enable_eee_16
   else if chips 18 20 m then enable_eee_18
   else if chips 21 36 m then
    (csi_tmp <- rtl8168_eri_read 0x1B0 4 ERIAR_ExGMAC ;;
     let csi_tmp := Z.lor csi_tmp (bits_or [1; 0]) in
     rtl8168_eri_write 0x1B0 4 csi_tmp ERIAR_ExGMAC ;;;
     mdio_ops [Wr 0x1F 0x0A43; Mo 0x11 0 (BIT 4); Wr 0x1F 0x0A5D] ;;;
     rtl8168_mdio_write 0x10 eee_adv_cap1_t ;;;
     mdio_ops [Wr 0x1F 0x0000])
   else sret tt) ;;;
  m <- tp_get (fun s => mcfg s) ;;
  (if chips 29 36 m then mdio_ops [Wr 0x1F 0x0A4A; Mo 0x11 0 (BIT 9); Wr 0x1F 0x0A42; Mo 0x14 0 (BIT 7);
    Wr 0x1F 0x0000]
   else sret tt) ;;;
  rtl8168_disable_adv_eee ;;;
  m <- tp_get (fun s => mcfg s) ;;
  sret (eee_answer m).

Definition disable_eee_14 : ST unit :=
  mdio_ops [Wr 0x1F 0x0005; Wr 0x05 0x8B85; Mo 0x06 0x2000 0; Wr 0x1F 0x0007; Wr 0x1E 0x0020] ;;;
  v1 <- rtl8168_mdio_read 0x15 ;;
  let data := u16 (Z.land v1 (Z.lnot 0x0100)) in
  rtl8168_mdio_write 0x15 data ;;;
  mdio_ops disable_eee_1 ;;;
  v1 <- RTL_R8 Config4 ;;
  swhen (has v1 0x40)
    (mdio_ops [Wr 0x1F 0x0005; Wr 0x05 0x8B82] ;;;
     v1 <- rtl8168_mdio_read 0x06 ;;
     let data := u16 (Z.land v1 (Z.lnot 0x0010)) in
     mdio_ops [Wr 0x05 0x8B82] ;;;
     rtl8168_mdio_write 0x06 data ;;;
     mdio_ops [Wr 0x1F 0x0000]).

Definition disable_eee_16 : ST unit :=
  v1 <- rtl8168_eri_read 0x1B0 4 ERIAR_ExGMAC ;;
  let csi_tmp := Z.land v1 (Z.lnot 0x0003) in
  rtl8168_eri_write 0x1B0 4 csi_tmp ERIAR_ExGMAC ;;;
  mdio_ops disable_eee_2.

Definition disable_eee_18 : ST unit :=
  csi_tmp <- rtl8168_eri_read 0x1B0 4 ERIAR_ExGMAC ;;
  let csi_tmp := Z.land csi_tmp (Z.lnot (bits_or [1; 0])) in
  rtl8168_eri_write 0x1B0 4 csi_tmp ERIAR_ExGMAC ;;;
  mdio_ops disable_eee_3.

Definition disable_eee_21 : ST unit :=
  csi_tmp <- rtl8168_eri_read 0x1B0 4 ERIAR_ExGMAC ;;
  let csi_tmp := Z.land csi_tmp (Z.lnot (bits_or [1; 0])) in
  rtl8168_eri_write 0x1B0 4 csi_tmp ERIAR_ExGMAC ;;;
  mdio_ops [Wr 0x1F 0x0A43] ;;;
  v1 <- rtl8168_mdio_read 0x11 ;;
  let data := u16 v1 in
  m <- tp_get (fun s => mcfg s) ;;
  (if m =? 36 then
    (rtl8168_mdio_write 0x11 (Z.lor data (BIT 4)))
  else
    (rtl8168_mdio_write 0x11 (Z.land data (Z.lnot (BIT 4))))) ;;;
  mdio_ops [Wr 0x1F 0x0A5D; Wr 0x10 0x0000; Wr 0x1F 0x0000].

Definition rtl8168_disable_eee : ST Z :=
  m <- tp_get (fun s => mcfg s) ;;
  (if (m =? 14) || (m =? 15) then disable_eee_14
   else if (m =? 16) || (m =? 17) then disable_eee_16
   else if chips 18 20 m then disable_eee_18
   else if chips 21 36 m then disable_eee_21
   else sret tt) ;;;
  m <- tp_get (fun s => mcfg s) ;;
  (if (m =? 29) || (m =? 30) || (m =? 35) || (m =? 36) then mdio_ops [Wr 0x1F 0x0A42; Mo 0x14 (BIT 7) 0;
    Wr 0x1F 0x0A4A; Mo 0x11 (BIT 9) 0; Wr 0x1F 0x0000]
   else sret tt) ;;;
  rtl8168_disable_adv_eee ;;;
  m <- tp_get (fun s => mcfg s) ;;
  sret (eee_answer m).

Definition rtl8168_enable_ocp_phy_power_saving : ST unit :=
  m <- tp_get (fun s => mcfg s) ;;
  swhen (chips 25 37 m)
    (v1 <- rtl8168_mdio_read_phy_ocp 0x0C41 0x13 ;;
     let val := u16 v1 in
     swhen (negb (val =? 0x0050))
       (rtl8168_set_phy_mcu_patch_request ;;;
        rtl8168_mdio_write_phy_ocp 0x0C41 0x13 0x0000 ;;;
        rtl8168_mdio_write_phy_ocp 0x0C41 0x13 0x0050 ;;;
        rtl8168_clear_phy_mcu_patch_request ;;;
        sret tt)).

(** ** The tuning of the PHY *)

Definition hw_phy_config_1 : ST unit :=
  mdio_ops [Wr 0x1F 0x0001; Wr 0x0B 0x94B0; Wr 0x1F 0x0003; Wr 0x12 0x6096; Wr 0x1F 0x0000; Wr 0x0D 0xF8A0].

Definition hw_phy_config_2 : ST unit :=
  mdio_ops [Wr 0x1F 0x0001; Wr 0x0B 0x94B0; Wr 0x1F 0x0003; Wr 0x12 0x6096; Wr 0x1F 0x0000].

Definition hw_phy_config_3 : ST unit :=
  mdio_ops [Wr 0x1F 0x0001; Wr 0x0B 0x94B0; Wr 0x1F 0x0003; Wr 0x12 0x6096; Wr 0x1F 0x0000].

Definition hw_phy_config_4 : ST unit :=
  mdio_ops phy_config_4_1.

Definition hw_phy_config_5 : ST unit :=
  mdio_ops phy_config_5_1.

Definition hw_phy_config_6 : ST unit :=
  mdio_ops phy_config_6_1.

Definition hw_phy_config_7 : ST unit :=
  mdio_ops phy_config_7_1.

Definition hw_phy_config_8 : ST unit :=
  mdio_ops phy_config_8_1.

Definition hw_phy_config_9 : ST unit :=
  mdio_ops phy_config_9_1 ;;;
  v1 <- rtl8168_mdio_read 0x0C ;;
  let gphy_val := u16 (Z.land v1 0x00FF) in
  let gphy_val := u16 (Z.lor gphy_val 0xA200) in
  rtl8168_mdio_write 0x0C gphy_val ;;;
  mdio_ops [Wr 0x1F 0x0002; Wr 0x06 0x5561; Wr 0x1F 0x0005; Wr 0x05 0x8332; Wr 0x06 0x5561] ;;;
  v1 <- rtl8168_efuse_read 0x01 ;;
  (if v1 =? 0xb1 then
    (mdio_ops [Wr 0x1F 0x0002; Wr 0x05 0x669A; Wr 0x1F 0x0005; Wr 0x05 0x8330; Wr 0x06 0x669A;
      Wr 0x1F 0x0002] ;;;
     v1 <- rtl8168_mdio_read 0x0D ;;
     let gphy_val := u16 v1 in
     swhen (negb ((Z.land gphy_val 0x00FF) =? 0x006C))
       (let gphy_val := u16 (Z.land gphy_val 0xFF00) in
        mdio_ops [Wr 0x1F 0x0002] ;;;
        rtl8168_mdio_write 0x0D (Z.lor gphy_val 0x0065) ;;;
        rtl8168_mdio_write 0x0D (Z.lor gphy_val 0x0066) ;;;
        rtl8168_mdio_write 0x0D (Z.lor gphy_val 0x0067) ;;;
        rtl8168_mdio_write 0x0D (Z.lor gphy_val 0x0068) ;;;
        rtl8168_mdio_write 0x0D (Z.lor gphy_val 0x0069) ;;;
        rtl8168_mdio_write 0x0D (Z.lor gphy_val 0x006A) ;;;
        rtl8168_mdio_write 0x0D (Z.lor gphy_val 0x006B) ;;;
        rtl8168_mdio_write 0x0D (Z.lor gphy_val 0x006C)))
  else
    (mdio_ops [Wr 0x1F 0x0002; Wr 0x05 0x6662; Wr 0x1F 0x0005; Wr 0x05 0x8330; Wr 0x06 0x6662])) ;;;
  mdio_ops phy_config_9_2 ;;;
  v1 <- rtl8168_mdio_read 0x06 ;;
  swhen (v1 =? 0xBF00)
    (mdio_ops phy_config_9_3 ;;;
     mdio_ops phy_config_9_4 ;;;
     mdio_ops phy_config_9_5) ;;;
  mdio_ops [Wr 0x1F 0x0000; Wr 0x0D 0xF880; Wr 0x1F 0x0000].

Definition hw_phy_config_10 : ST unit :=
  mdio_ops phy_config_10_1 ;;;
  v1 <- rtl8168_efuse_read 0x01 ;;
  (if v1 =? 0xb1 then
    (mdio_ops [Wr 0x1F 0x0002; Wr 0x05 0x669A; Wr 0x1F 0x0005; Wr 0x05 0x8330; Wr 0x06 0x669A;
      Wr 0x1F 0x0002] ;;;
     v1 <- rtl8168_mdio_read 0x0D ;;
     let gphy_val := u16 v1 in
     swhen (negb ((Z.land gphy_val 0x00FF) =? 0x006C))
       (let gphy_val := u16 (Z.land gphy_val 0xFF00) in
        mdio_ops [Wr 0x1F 0x0002] ;;;
        rtl8168_mdio_write 0x0D (Z.lor gphy_val 0x0065) ;;;
        rtl8168_mdio_write 0x0D (Z.lor gphy_val 0x0066) ;;;
        rtl8168_mdio_write 0x0D (Z.lor gphy_val 0x0067) ;;;
        rtl8168_mdio_write 0x0D (Z.lor gphy_val 0x0068) ;;;
        rtl8168_mdio_write 0x0D (Z.lor gphy_val 0x0069) ;;;
        rtl8168_mdio_write 0x0D (Z.lor gphy_val 0x006A) ;;;
        rtl8168_mdio_write 0x0D (Z.lor gphy_val 0x006B) ;;;
        rtl8168_mdio_write 0x0D (Z.lor gphy_val 0x006C)))
  else
    (mdio_ops [Wr 0x1F 0x0002; Wr 0x05 0x2642; Wr 0x1F 0x0005; Wr 0x05 0x8330; Wr 0x06 0x2642])) ;;;
  v1 <- rtl8168_efuse_read 0x30 ;;
  (if v1 =? 0x98 then
    (mdio_ops [Wr 0x1F 0x0000; Mo 0x11 (BIT 1) 0; Wr 0x1F 0x0005; Mo 0x01 0 (BIT 9)])
  else
    (v1 <- rtl8168_efuse_read 0x30 ;;
     swhen (v1 =? 0x90)
       (mdio_ops [Wr 0x1F 0x0005; Mo 0x01 (BIT 9) 0; Wr 0x1F 0x0000; Wr 0x16 0x5101]))) ;;;
  mdio_ops phy_config_10_2 ;;;
  v1 <- rtl8168_mdio_read 0x06 ;;
  swhen (v1 =? 0xB300)
    (mdio_ops phy_config_10_3 ;;;
     mdio_ops phy_config_10_4 ;;;
     mdio_ops phy_config_10_5) ;;;
  mdio_ops [Wr 0x1F 0x0000; Wr 0x0D 0xF880; Wr 0x1F 0x0000].

Definition hw_phy_config_11 : ST unit :=
  mdio_ops phy_config_11_1.

Definition hw_phy_config_12 : ST unit :=
  mdio_ops phy_config_12_1.

Definition hw_phy_config_13 : ST unit :=
  mdio_ops [Wr 0x1F 0x0000; Mo 0x0D 0 (BIT 5); Wr 0x1F 0x0002; Mo 0x0C 0 (BIT 10); Wr 0x1F 0x0000].

Definition hw_phy_config_14 : ST unit :=
  mdio_ops [Wr 0x1F 0x0007; Wr 0x1E 0x0023] ;;;
  v1 <- rtl8168_mdio_read 0x17 ;;
  let gphy_val := u16 (Z.lor v1 (BIT 1)) in
  let gphy_val := if tst RequiredSecLanDonglePatch then (Z.land gphy_val (Z.lnot (BIT 2)))
    else (Z.lor gphy_val (BIT 2)) in
  rtl8168_mdio_write 0x17 gphy_val ;;;
  mdio_ops phy_config_14_1 ;;;
  aspm_ <- tp_get (fun s => aspm s) ;;
  swhen (tst aspm_)
    (wr_ <- tp_get (fun s => HW_HAS_WRITE_PHY_MCU_RAM_CODE s) ;;
     swhen wr_
       (mdio_ops [Wr 0x1f 0x0000; Wr 0x15 0x1006])) ;;;
  mdio_ops phy_config_14_2.

Definition hw_phy_config_16 : ST unit :=
  mdio_ops phy_config_16_1 ;;;
  v1 <- rtl8168_mdio_read 0x16 ;;
  let gphy_val := u16 v1 in
  let gphy_val := u16 (Z.lor gphy_val (BIT 5)) in
  rtl8168_mdio_write 0x16 gphy_val ;;;
  mdio_ops phy_config_16_2 ;;;
  swhen ((subsystem_vendor =? 0x1043) && (subsystem_device =? 0x13F7))
    (mdio_ops [Wr 0x1F 0x0005] ;;;
     sfor evl_phy_value_16
       (fun value => rtl8168_mdio_write 0x05 value ;;;
        v1 <- rtl8168_mdio_read 0x06 ;;
        let gphy_val := u16 (Z.lor 0xAA00 (Z.land v1 0xFF)) in
        rtl8168_mdio_write 0x06 gphy_val) ;;;
     mdio_ops [Wr 0x1F 0x0007; Wr 0x1E 0x0078; Wr 0x17 0x51AA; Wr 0x1F 0x0000]) ;;;
  mdio_ops phy_config_16_4.

Definition hw_phy_config_17 : ST unit :=
  (if (subsystem_vendor =? 0x144d) && (subsystem_device =? 0xc0a6) then
    (mdio_ops phy_config_17_1)
  else
    (mdio_ops phy_config_17_2)) ;;;
  mdio_ops phy_config_17_3 ;;;
  v1 <- rtl8168_mdio_read 0x06 ;;
  let gphy_val := u16 (Z.lor (Z.lor v1 (BIT 14)) (BIT 15)) in
  rtl8168_mdio_write 0x06 gphy_val ;;;
  mdio_ops phy_config_17_4 ;;;
  swhen ((subsystem_vendor =? 0x1043) && (subsystem_device =? 0x13F7))
    (mdio_ops [Wr 0x1F 0x0005] ;;;
     sfor evl_phy_value_17
       (fun value => rtl8168_mdio_write 0x05 value ;;;
        v1 <- rtl8168_mdio_read 0x06 ;;
        let gphy_val := u16 (Z.lor 0xAA00 (Z.land v1 0xFF)) in
        rtl8168_mdio_write 0x06 gphy_val) ;;;
     mdio_ops [Wr 0x1F 0x0007; Wr 0x1E 0x0078; Wr 0x17 0x51AA; Wr 0x1F 0x0000]) ;;;
  mdio_ops phy_config_17_6 ;;;
  aspm_ <- tp_get (fun s => aspm s) ;;
  swhen (tst aspm_)
    (wr_ <- tp_get (fun s => HW_HAS_WRITE_PHY_MCU_RAM_CODE s) ;;
     swhen wr_
       (mdio_ops [Wr 0x1f 0x0000; Mo 0x15 0 (BIT 12)])).

Definition hw_phy_config_18 : ST unit :=
  wr_ <- tp_get (fun s => HW_HAS_WRITE_PHY_MCU_RAM_CODE s) ;;
  swhen wr_
    (mdio_ops [Wr 0x1F 0x0005; Wr 0x05 0x8b80; Mo 0x06 0 (bits_or [2; 1]); Wr 0x1F 0x0000]) ;;;
  mdio_ops phy_config_18_1 ;;;
  v1 <- rtl8168_mdio_read 0x06 ;;
  let gphy_val := u16 v1 in
  let gphy_val := u16 (Z.lor gphy_val (BIT 14)) in
  rtl8168_mdio_write 0x06 gphy_val ;;;
  mdio_ops phy_config_18_2 ;;;
  wr_ <- tp_get (fun s => HW_HAS_WRITE_PHY_MCU_RAM_CODE s) ;;
  swhen wr_
    (mdio_ops [Wr 0x1f 0x0005; Wr 0x05 0x8b85; Mo 0x06 0 (BIT 15); Wr 0x1f 0x0000]) ;;;
  aspm_ <- tp_get (fun s => aspm s) ;;
  swhen (tst aspm_)
    (wr_ <- tp_get (fun s => HW_HAS_WRITE_PHY_MCU_RAM_CODE s) ;;
     swhen wr_
       (mdio_ops [Wr 0x1f 0x0000; Mo 0x15 0 (BIT 12)])).

Definition hw_phy_config_19 : ST unit :=
  wr_ <- tp_get (fun s => HW_HAS_WRITE_PHY_MCU_RAM_CODE s) ;;
  swhen wr_
    (mdio_ops [Wr 0x1F 0x0005; Wr 0x05 0x8b80; Mo 0x06 0 (bits_or [2; 1]); Wr 0x1F 0x0000]) ;;;
  mdio_ops phy_config_19_1 ;;;
  v1 <- rtl8168_mdio_read 0x06 ;;
  let gphy_val := u16 v1 in
  let gphy_val := u16 (Z.lor gphy_val (BIT 0)) in
  rtl8168_mdio_write 0x06 gphy_val ;;;
  mdio_ops phy_config_19_2 ;;;
  wr_ <- tp_get (fun s => HW_HAS_WRITE_PHY_MCU_RAM_CODE s) ;;
  swhen wr_
    (mdio_ops [Wr 0x1f 0x0005; Wr 0x05 0x8b85; Mo 0x06 0 (BIT 15); Wr 0x1f 0x0000]) ;;;
  aspm_ <- tp_get (fun s => aspm s) ;;
  swhen (tst aspm_)
    (wr_ <- tp_get (fun s => HW_HAS_WRITE_PHY_MCU_RAM_CODE s) ;;
     swhen wr_
       (mdio_ops [Wr 0x1f 0x0000; Mo 0x15 0 (BIT 12)])).

Definition hw_phy_config_20 : ST unit :=
  wr_ <- tp_get (fun s => HW_HAS_WRITE_PHY_MCU_RAM_CODE s) ;;
  swhen wr_
    (mdio_ops [Wr 0x1F 0x0005; Wr 0x05 0x8b80; Mo 0x06 0 (bits_or [2; 1]); Wr 0x1F 0x0000]) ;;;
  mdio_ops phy_config_20_1 ;;;
  v1 <- rtl8168_mdio_read 0x06 ;;
  let gphy_val := u16 v1 in
  let gphy_val := u16 (Z.lor gphy_val (BIT 14)) in
  rtl8168_mdio_write 0x06 gphy_val ;;;
  mdio_ops phy_config_20_2 ;;;
  wr_ <- tp_get (fun s => HW_HAS_WRITE_PHY_MCU_RAM_CODE s) ;;
  swhen wr_
    (mdio_ops [Wr 0x1f 0x0005; Wr 0x05 0x8b85; Mo 0x06 0 (BIT 15); Wr 0x1f 0x0000]) ;;;
  aspm_ <- tp_get (fun s => aspm s) ;;
  swhen (tst aspm_)
    (wr_ <- tp_get (fun s => HW_HAS_WRITE_PHY_MCU_RAM_CODE s) ;;
     swhen wr_
       (mdio_ops [Wr 0x1f 0x0000; Mo 0x15 0 (BIT 12)])).

Definition hw_phy_config_21 : ST unit :=
  mdio_ops [Wr 0x1F 0x0A46] ;;;
  v1 <- rtl8168_mdio_read 0x10 ;;
  let gphy_val := u16 v1 in
  mdio_ops [Wr 0x1F 0x0BCC] ;;;
  (if has gphy_val (BIT 8) then
    (mdio_ops [Mo 0x12 (BIT 15) 0])
  else
    (mdio_ops [Mo 0x12 0 (BIT 15)])) ;;;
  mdio_ops [Wr 0x1F 0x0A46] ;;;
  v1 <- rtl8168_mdio_read 0x13 ;;
  let gphy_val := u16 v1 in
  mdio_ops [Wr 0x1F 0x0C41] ;;;
  (if has gphy_val (BIT 8) then
    (mdio_ops [Mo 0x15 0 (BIT 1)])
  else
    (mdio_ops [Mo 0x15 (BIT 1) 0])) ;;;
  mdio_ops phy_config_21_1 ;;;
  aspm_ <- tp_get (fun s => aspm s) ;;
  swhen (tst aspm_)
    (wr_ <- tp_get (fun s => HW_HAS_WRITE_PHY_MCU_RAM_CODE s) ;;
     swhen wr_
       (mdio_ops [Wr 0x1F 0x0A43; Mo 0x10 0 (BIT 2)])) ;;;
  mdio_ops [Wr 0x1F 0x0000].

Definition hw_phy_config_23 : ST unit :=
  mdio_ops phy_config_23_1 ;;;
  aspm_ <- tp_get (fun s => aspm s) ;;
  swhen (tst aspm_)
    (wr_ <- tp_get (fun s => HW_HAS_WRITE_PHY_MCU_RAM_CODE s) ;;
     swhen wr_
       (mdio_ops [Wr 0x1F 0x0A43; Mo 0x10 0 (BIT 2)])).

Definition hw_phy_config_24 : ST unit :=
  mdio_ops phy_config_24_1 ;;;
  aspm_ <- tp_get (fun s => aspm s) ;;
  swhen (tst aspm_)
    (wr_ <- tp_get (fun s => HW_HAS_WRITE_PHY_MCU_RAM_CODE s) ;;
     swhen wr_
       (mdio_ops [Wr 0x1F 0x0A43; Mo 0x10 0 (BIT 2)])).

Definition hw_phy_config_25 : ST unit :=
  mdio_ops phy_config_25_1 ;;;
  aspm_ <- tp_get (fun s => aspm s) ;;
  swhen (tst aspm_)
    (wr_ <- tp_get (fun s => HW_HAS_WRITE_PHY_MCU_RAM_CODE s) ;;
     swhen wr_
       (mdio_ops [Wr 0x1F 0x0A43; Mo 0x10 0 (BIT 2)])).

Definition hw_phy_config_27 : ST unit :=
  mdio_ops phy_config_27_1 ;;;
  aspm_ <- tp_get (fun s => aspm s) ;;
  swhen (tst aspm_)
    (wr_ <- tp_get (fun s => HW_HAS_WRITE_PHY_MCU_RAM_CODE s) ;;
     swhen wr_
       (mdio_ops [Wr 0x1F 0x0A43; Mo 0x10 0 (BIT 2)])).

Definition hw_phy_config_29 : ST unit :=
  mdio_ops phy_config_29_1 ;;;
  wr_ <- tp_get (fun s => HW_HAS_WRITE_PHY_MCU_RAM_CODE s) ;;
  swhen wr_
    (let dout_tapbin := u16 0x0000 in
     mdio_ops [Wr 0x1F 0x0A46] ;;;
     v1 <- rtl8168_mdio_read 0x13 ;;
     let gphy_val := u16 v1 in
     let gphy_val := u16 (Z.land gphy_val (bits_or [1; 0])) in
     let gphy_val := u16 (Z.shiftl gphy_val 2) in
     let dout_tapbin := u16 (Z.lor dout_tapbin gphy_val) in
     v1 <- rtl8168_mdio_read 0x12 ;;
     let gphy_val := u16 v1 in
     let gphy_val := u16 (Z.land gphy_val (bits_or [15; 14])) in
     let gphy_val := u16 (Z.shiftr gphy_val 14) in
     let dout_tapbin := u16 (Z.lor dout_tapbin gphy_val) in
     let dout_tapbin := u16 (Z.lnot (Z.lxor dout_tapbin (BIT 3))) in
     let dout_tapbin := u16 (Z.shiftl dout_tapbin 12) in
     let dout_tapbin := u16 (Z.land dout_tapbin 0xF000) in
     mdio_ops [Wr 0x1F 0x0A43; Wr 0x13 0x827A] ;;;
     ClearAndSetEthPhyBit 0x14 (bits_or [15; 14; 13; 12]) dout_tapbin ;;;
     mdio_ops [Wr 0x13 0x827B] ;;;
     ClearAndSetEthPhyBit 0x14 (bits_or [15; 14; 13; 12]) dout_tapbin ;;;
     mdio_ops [Wr 0x13 0x827C] ;;;
     ClearAndSetEthPhyBit 0x14 (bits_or [15; 14; 13; 12]) dout_tapbin ;;;
     mdio_ops [Wr 0x13 0x827D] ;;;
     ClearAndSetEthPhyBit 0x14 (bits_or [15; 14; 13; 12]) dout_tapbin ;;;
     mdio_ops [Wr 0x1F 0x0A43; Wr 0x13 0x8011; Mo 0x14 0 (BIT 11); Wr 0x1F 0x0A42; Mo 0x16 0 (BIT 1)]) ;;;
  mdio_ops phy_config_29_2 ;;;
  aspm_ <- tp_get (fun s => aspm s) ;;
  swhen (tst aspm_)
    (wr_ <- tp_get (fun s => HW_HAS_WRITE_PHY_MCU_RAM_CODE s) ;;
     swhen wr_
       (mdio_ops [Wr 0x1F 0x0A43; Mo 0x10 0 (BIT 2); Wr 0x1F 0x0000])).

Definition hw_phy_config_30 : ST unit :=
  mdio_ops [Wr 0x1F 0x0A43; Wr 0x13 0x808A; Mo 0x14 (bits_or [5; 4; 3; 2; 1; 0]) 0x0A] ;;;
  wr_ <- tp_get (fun s => HW_HAS_WRITE_PHY_MCU_RAM_CODE s) ;;
  swhen wr_
    (mdio_ops [Wr 0x1F 0x0A43; Wr 0x13 0x8011; Mo 0x14 0 (BIT 11); Wr 0x1F 0x0A42; Mo 0x16 0 (BIT 1)]) ;;;
  mdio_ops [Wr 0x1F 0x0A44; Mo 0x11 0 (BIT 11); Wr 0x1F 0x0000] ;;;
  swhen (tst RequireAdcBiasPatch)
    (mdio_ops [Wr 0x1F 0x0BCF] ;;;
     rtl8168_mdio_write 0x16 AdcBiasPatchIoffset ;;;
     mdio_ops [Wr 0x1F 0x0000]) ;;;
  mdio_ops [Wr 0x1F 0x0BCD] ;;;
  v1 <- rtl8168_mdio_read 0x16 ;;
  let gphy_val := u16 v1 in
  let gphy_val := u16 (Z.land gphy_val 0x000F) in
  let rlen := if gphy_val >? 3 then (gphy_val - 3) else 0 in
  let gphy_val := u16 (Z.lor (Z.lor (Z.lor rlen (Z.shiftl rlen 4)) (Z.shiftl rlen 8)) (Z.shiftl rlen 12)) in
  mdio_ops [Wr 0x1F 0x0BCD] ;;;
  rtl8168_mdio_write 0x17 gphy_val ;;;
  mdio_ops [Wr 0x1F 0x0000] ;;;
  wr_ <- tp_get (fun s => HW_HAS_WRITE_PHY_MCU_RAM_CODE s) ;;
  swhen wr_
    (mdio_ops phy_config_30_1) ;;;
  mdio_ops [Wr 0x1F 0x0C41; Mo 0x15 (BIT 1) 0; Wr 0x1F 0x0000; Wr 0x1F 0x0A43; Mo 0x10 0 (BIT 0);
    Wr 0x1F 0x0000] ;;;
  aspm_ <- tp_get (fun s => aspm s) ;;
  swhen (tst aspm_)
    (wr_ <- tp_get (fun s => HW_HAS_WRITE_PHY_MCU_RAM_CODE s) ;;
     swhen wr_
       (mdio_ops [Wr 0x1F 0x0A43; Mo 0x10 0 (BIT 2); Wr 0x1F 0x0000])).

Definition hw_phy_config_31 : ST unit :=
  mdio_ops phy_config_31_1 ;;;
  aspm_ <- tp_get (fun s => aspm s) ;;
  swhen (tst aspm_)
    (wr_ <- tp_get (fun s => HW_HAS_WRITE_PHY_MCU_RAM_CODE s) ;;
     swhen ((negb ((HwSuppSerDesPhyVer >? 0))) && (wr_))
       (mdio_ops [Wr 0x1F 0x0A43; Mo 0x10 0 (BIT 2); Wr 0x1F 0x0000])).

Definition hw_phy_config_35 : ST unit :=
  mdio_ops phy_config_35_1 ;;;
  aspm_ <- tp_get (fun s => aspm s) ;;
  swhen (tst aspm_)
    (wr_ <- tp_get (fun s => HW_HAS_WRITE_PHY_MCU_RAM_CODE s) ;;
     swhen wr_
       (mdio_ops [Wr 0x1F 0x0A43; Mo 0x10 0 (BIT 2); Wr 0x1F 0x0000])).

Definition hw_phy_config_36 : ST unit :=
  mdio_ops [Wr 0x1F 0x0A44; Mo 0x11 0 (BIT 11); Wr 0x1F 0x0000; Wr 0x1F 0x0C41; Mo 0x15 (BIT 1) 0;
    Wr 0x1F 0x0000] ;;;
  aspm_ <- tp_get (fun s => aspm s) ;;
  swhen (tst aspm_)
    (wr_ <- tp_get (fun s => HW_HAS_WRITE_PHY_MCU_RAM_CODE s) ;;
     swhen wr_
       (mdio_ops [Wr 0x1F 0x0A43; Mo 0x10 0 (BIT 2); Wr 0x1F 0x0000])).

(** The part of the chip. *)
Definition phy_config_8168 (m : Z) : ST unit :=
  if m =? 1 then hw_phy_config_1
  else if m =? 2 then hw_phy_config_2
  else if m =? 3 then hw_phy_config_3
  else if m =? 4 then hw_phy_config_4
  else if m =? 5 then hw_phy_config_5
  else if m =? 6 then hw_phy_config_6
  else if m =? 7 then hw_phy_config_7
  else if m =? 8 then hw_phy_config_8
  else if m =? 9 then hw_phy_config_9
  else if m =? 10 then hw_phy_config_10
  else if m =? 11 then hw_phy_config_11
  else if m =? 12 then hw_phy_config_12
  else if m =? 13 then hw_phy_config_13
  else if (m =? 14) || (m =? 15) then hw_phy_config_14
  else if m =? 16 then hw_phy_config_16
  else if m =? 17 then hw_phy_config_17
  else if m =? 18 then hw_phy_config_18
  else if m =? 19 then hw_phy_config_19
  else if m =? 20 then hw_phy_config_20
  else if m =? 21 then hw_phy_config_21
  else if m =? 22 then sret tt
  else if m =? 23 then hw_phy_config_23
  else if m =? 24 then hw_phy_config_24
  else if (m =? 25) || (m =? 26) then hw_phy_config_25
  else if (m =? 27) || (m =? 28) then hw_phy_config_27
  else if m =? 29 then hw_phy_config_29
  else if (m =? 30) || (m =? 37) then hw_phy_config_30
  else if chips 31 34 m then hw_phy_config_31
  else if m =? 35 then hw_phy_config_35
  else if m =? 36 then hw_phy_config_36
  else sret tt.

Definition eth_phy_ppsw : ST unit :=
  m <- tp_get (fun s => mcfg s) ;;
  (if (m =? 21) || (m =? 22) || chips 24 26 m then
    (mdio_ops ppsw_1)
  else
    (m <- tp_get (fun s => mcfg s) ;;
     swhen (chips 29 36 m)
       (mdio_ops [Wr 0x1F 0x0A44; Mo 0x11 0 (BIT 7); Wr 0x1F 0x0000]))).

Definition phy_power_saving : ST unit :=
  m <- tp_get (fun s => mcfg s) ;;
  swhen (chips 25 37 m)
    (aspm_ <- tp_get (fun s => aspm s) ;;
     swhen (tst aspm_)
       (rtl8168_enable_ocp_phy_power_saving)).

Definition rtl8168_hw_phy_config : ST unit :=
  rtl8168_xmii_reset_enable ;;;
  s <- tp_get id ;;
  if (HwSuppDashVer s =? 3) && (HwPkgDet =? 0x06) then sret tt
  else
    rtl8168_init_hw_phy_mcu ;;;
    phy_config_8168 (mcfg s) ;;;
    eth_phy_ppsw ;;;
    phy_power_saving ;;;
    rtl8168_mdio_write 0x1F 0x0000 ;;;
    wr <- tp_get (fun s => HW_HAS_WRITE_PHY_MCU_RAM_CODE s) ;;
    swhen wr
      (on <- tp_get (fun s => tst (eee_enabled s)) ;;
       if on : bool then rtl8168_enable_eee ;;; sret tt else rtl8168_disable_eee ;;; sret tt).

(** ** The microcode of the MAC *)

Definition rtl8168_set_mac_mcu_8168g_1 : ST unit :=
  mac_ocp_ops mac_mcu_8168g_1_1 ;;;
  mac_ocp_ops mac_mcu_8168g_1_2.

Definition rtl8168_set_mac_mcu_8168gu_1 : ST unit :=
  mac_ocp_ops mac_mcu_8168gu_1_1.

Definition rtl8168_set_mac_mcu_8168gu_2 : ST unit :=
  mac_ocp_ops mac_mcu_8168gu_2_1 ;;;
  mac_ocp_ops mac_mcu_8168gu_2_2 ;;;
  mac_ocp_ops mac_mcu_8168gu_2_3.

Definition rtl8168_set_mac_mcu_8411b_1 : ST unit :=
  mac_ocp_ops mac_mcu_8411b_1_1.

Definition rtl8168_set_mac_mcu_8168ep_1 : ST unit :=
  mac_ocp_ops (table_at 0xF800 mcu_patch_code_8168ep_1) ;;;
  mac_ocp_ops [(0xFC26, 0x8000); (0xFC28, 0x2549); (0xFC2A, 0x06A5); (0xFC2C, 0x0763)].

Definition rtl8168_set_mac_mcu_8168ep_2 : ST unit :=
  mac_ocp_ops (table_at 0xF800 mcu_patch_code_8168ep_2) ;;;
  mac_ocp_ops [(0xFC26, 0x8000); (0xFC28, 0x0BB3)] ;;;
  v1 <- rtl8168_check_dash_other_fun_present  ;;
  swhen (negb v1)
    (mac_ocp_ops [(0xFC2A, 0x1FC7)]).

Definition rtl8168_set_mac_mcu_8168h_2 : ST unit :=
  mac_ocp_ops (table_at 0xF800 mcu_patch_code_8168h_1) ;;;
  mac_ocp_ops mac_mcu_8168h_2_2.

Definition rtl8168_set_mac_mcu_8168h_3 : ST unit :=
  mac_ocp_ops (table_at 0xF800 mcu_patch_code_8168h_3) ;;;
  mac_ocp_ops [(0xFC26, 0x8000); (0xFC30, 0x0ACA)] ;;;
  rtl8168_clear_mcu_ocp_bit 0xD438 (BIT 3) ;;;
  mac_ocp_ops [(0xFC38, 0x0010)].

Definition rtl8168_set_mac_mcu_8168fp_1 : ST unit :=
  let breakPointEnabled := 0 in
  (if (HwPkgDet =? 0x00) || (HwPkgDet =? 0x0F) then
    (mac_ocp_ops (table_at 0xF800 mcu_patch_code_8168fp_1_1) ;;;
     mac_ocp_ops mac_mcu_8168fp_1_2)
  else
    (swhen ((HwPkgDet =? 0x05) || (HwPkgDet =? 0x06))
       (mac_ocp_ops (table_at 0xF800 mcu_patch_code_8168fp_1_2) ;;;
        mac_ocp_ops mac_mcu_8168fp_1_4))) ;;;
  let breakPointEnabled := if HwPkgDet =? 0x00 then 0x00FC else if HwPkgDet =? 0x0F then 0x00FF
    else if (HwPkgDet =? 0x05) || (HwPkgDet =? 0x06) then 0x0022 else breakPointEnabled in
  rtl8168_mac_ocp_write 0xFC38 breakPointEnabled.

Definition rtl8168_set_mac_mcu_8168fp_8116as_2 : ST unit :=
  mac_ocp_ops (table_at 0xF800 mcu_patch_code_8168fp_8116as_2) ;;;
  mac_ocp_ops [(0xFC26, 0x8000); (0xFC28, 0x2AAC); (0xFC2A, 0x0B14); (0xFC2C, 0x0BE4); (0xFC38, 0x0007)].

Definition _rtl8168_set_mac_mcu_8168fp_2 : ST unit :=
  mac_ocp_ops (table_at 0xF800 mcu_patch_code_8168fp_2) ;;;
  mac_ocp_ops [(0xFC26, 0x8000); (0xFC28, 0x2AAC); (0xFC2A, 0x0B14); (0xFC2C, 0x0BE4); (0xFC2E, 0x2A5C)] ;;;
  v1 <- rtl8168_check_dash_other_fun_present  ;;
  (if v1 then
    (mac_ocp_ops [(0xFC38, 0x0006)])
  else
    (mac_ocp_ops [(0xFC38, 0x000E)])).

Definition rtl8168_set_mac_mcu_8168fp_2 : ST unit :=
  (if HwSuppSerDesPhyVer =? 1 then
    (rtl8168_set_mac_mcu_8168fp_8116as_2)
  else
    (_rtl8168_set_mac_mcu_8168fp_2)).

Definition rtl8168_set_mac_mcu_8168fp_3 : ST unit :=
  mac_ocp_ops (table_at 0xF800 mcu_patch_code_8168fp_3) ;;;
  mac_ocp_ops [(0xFC26, 0x8000); (0xFC28, 0x2B14)] ;;;
  v1 <- rtl8168_check_dash_other_fun_present  ;;
  (if v1 then
    (mac_ocp_ops [(0xFC38, 0x0000)])
  else
    (mac_ocp_ops [(0xFC38, 0x0001)])).

(** The break points and the patch itself are switched off. *)
Definition mac_bps_off (m : Z) : list (Z * Z) :=
  (if chips 29 37 m then [(0xFC38, 0x0000)] else []) ++
  [(0xFC28, 0x0000); (0xFC2A, 0x0000); (0xFC2C, 0x0000); (0xFC2E, 0x0000);
   (0xFC30, 0x0000); (0xFC32, 0x0000); (0xFC34, 0x0000); (0xFC36, 0x0000); (0xFC26, 0x0000)].

Definition rtl8168_hw_disable_mac_mcu_bps : ST unit :=
  m <- tp_get (fun s => mcfg s) ;;
  if negb (chips 21 37 m) then sret tt
  else
    swhen (negb (HwSuppAspmClkIntrLock =? 0))
      (rtl8168_enable_cfg9346_write ;;;
       rtl8168_hw_aspm_clkreq_enable false ;;;
       rtl8168_disable_cfg9346_write) ;;;
    mac_ocp_ops (mac_bps_off m).

(** The patch of the chip. *)
Definition set_mac_mcu_8168 (m : Z) : ST unit :=
  if m =? 21 then rtl8168_set_mac_mcu_8168g_1
  else if m =? 24 then rtl8168_set_mac_mcu_8168gu_1
  else if m =? 25 then rtl8168_set_mac_mcu_8168gu_2
  else if m =? 26 then rtl8168_set_mac_mcu_8411b_1
  else if m =? 27 then rtl8168_set_mac_mcu_8168ep_1
  else if m =? 28 then rtl8168_set_mac_mcu_8168ep_2
  else if (m =? 30) || (m =? 37) then rtl8168_set_mac_mcu_8168h_2
  else if m =? 31 then rtl8168_set_mac_mcu_8168fp_1
  else if m =? 32 then rtl8168_set_mac_mcu_8168fp_2
  else if (m =? 33) || (m =? 34) then rtl8168_set_mac_mcu_8168fp_3
  else if m =? 35 then rtl8168_set_mac_mcu_8168h_3
  else sret tt.

Definition rtl8168_hw_mac_mcu_config : ST unit :=
  s <- tp_get id ;;
  if NotWrMcuPatchCode s =? 1 then sret tt
  else
    rtl8168_hw_disable_mac_mcu_bps ;;;
    set_mac_mcu_8168 (mcfg s).

(** ** The tuning of the PCIe PHY *)

Definition ephy_config_4 : ST unit :=
  v1 <- rtl8168_ephy_read 0x02 ;;
  let ephy_data := u16 v1 in
  let ephy_data := u16 (Z.land ephy_data (Z.lnot (BIT 11))) in
  let ephy_data := u16 (Z.lor ephy_data (BIT 12)) in
  rtl8168_ephy_write 0x02 ephy_data ;;;
  v1 <- rtl8168_ephy_read 0x03 ;;
  let ephy_data := u16 v1 in
  let ephy_data := u16 (Z.lor ephy_data 0x0002) in
  rtl8168_ephy_write 0x03 ephy_data ;;;
  v1 <- rtl8168_ephy_read 0x06 ;;
  let ephy_data := u16 v1 in
  let ephy_data := u16 (Z.land ephy_data (Z.lnot 0x0080)) in
  rtl8168_ephy_write 0x06 ephy_data.

Definition ephy_config_9 : ST unit :=
  rtl8168_ephy_write 0x01 0x7C7F ;;;
  rtl8168_ephy_write 0x02 0x011F ;;;
  eeprom_type_ <- tp_get (fun s => eeprom_type s) ;;
  (if negb (eeprom_type_ =? EEPROM_TYPE_NONE) then
    (ClearAndSetPCIePhyBit 0x03 0xFFB0 0x05B0)
  else
    (ClearAndSetPCIePhyBit 0x03 0xFFF0 0x05F0)) ;;;
  rtl8168_ephy_write 0x06 0xB271 ;;;
  rtl8168_ephy_write 0x07 0xCE00.

Definition ephy_config_10 : ST unit :=
  rtl8168_ephy_write 0x01 0x6C7F ;;;
  rtl8168_ephy_write 0x02 0x011F ;;;
  ClearAndSetPCIePhyBit 0x03 0xFFF0 0x01B0 ;;;
  rtl8168_ephy_write 0x1A 0x0546 ;;;
  rtl8168_ephy_write 0x1C 0x80C4 ;;;
  rtl8168_ephy_write 0x1D 0x78E5 ;;;
  rtl8168_ephy_write 0x0A 0x8100.

Definition ephy_config_12 : ST unit :=
  v1 <- rtl8168_ephy_read 0x0B ;;
  let ephy_data := u16 v1 in
  rtl8168_ephy_write 0x0B (Z.lor ephy_data 0x48) ;;;
  v1 <- rtl8168_ephy_read 0x19 ;;
  let ephy_data := u16 v1 in
  let ephy_data := u16 (Z.land ephy_data (Z.lnot 0x20)) in
  rtl8168_ephy_write 0x19 (Z.lor ephy_data 0x50) ;;;
  v1 <- rtl8168_ephy_read 0x0C ;;
  let ephy_data := u16 v1 in
  let ephy_data := u16 (Z.land ephy_data (Z.lnot 0x100)) in
  rtl8168_ephy_write 0x0C (Z.lor ephy_data 0x20) ;;;
  v1 <- rtl8168_ephy_read 0x10 ;;
  let ephy_data := u16 v1 in
  let ephy_data := u16 (Z.land ephy_data (Z.lnot 0x04)) in
  rtl8168_ephy_write 0x10 ephy_data.

Definition ephy_config_14 : ST unit :=
  v1 <- rtl8168_ephy_read 0x00 ;;
  let ephy_data := u16 (Z.land v1 (Z.lnot 0x0200)) in
  let ephy_data := u16 (Z.lor ephy_data 0x0100) in
  rtl8168_ephy_write 0x00 ephy_data ;;;
  v1 <- rtl8168_ephy_read 0x00 ;;
  let ephy_data := u16 v1 in
  let ephy_data := u16 (Z.lor ephy_data 0x0004) in
  rtl8168_ephy_write 0x00 ephy_data ;;;
  v1 <- rtl8168_ephy_read 0x06 ;;
  let ephy_data := u16 (Z.land v1 (Z.lnot 0x0002)) in
  let ephy_data := u16 (Z.lor ephy_data 0x0001) in
  rtl8168_ephy_write 0x06 ephy_data ;;;
  v1 <- rtl8168_ephy_read 0x06 ;;
  let ephy_data := u16 v1 in
  let ephy_data := u16 (Z.lor ephy_data 0x0030) in
  rtl8168_ephy_write 0x06 ephy_data ;;;
  v1 <- rtl8168_ephy_read 0x07 ;;
  let ephy_data := u16 v1 in
  let ephy_data := u16 (Z.lor ephy_data 0x2000) in
  rtl8168_ephy_write 0x07 ephy_data ;;;
  v1 <- rtl8168_ephy_read 0x00 ;;
  let ephy_data := u16 v1 in
  let ephy_data := u16 (Z.lor ephy_data 0x0020) in
  rtl8168_ephy_write 0x00 ephy_data ;;;
  v1 <- rtl8168_ephy_read 0x03 ;;
  let ephy_data := u16 (Z.land v1 (Z.lnot 0x5800)) in
  let ephy_data := u16 (Z.lor ephy_data 0x2000) in
  rtl8168_ephy_write 0x03 ephy_data ;;;
  v1 <- rtl8168_ephy_read 0x03 ;;
  let ephy_data := u16 v1 in
  let ephy_data := u16 (Z.lor ephy_data 0x0001) in
  rtl8168_ephy_write 0x03 ephy_data ;;;
  v1 <- rtl8168_ephy_read 0x01 ;;
  let ephy_data := u16 (Z.land v1 (Z.lnot 0x0800)) in
  let ephy_data := u16 (Z.lor ephy_data 0x1000) in
  rtl8168_ephy_write 0x01 ephy_data ;;;
  v1 <- rtl8168_ephy_read 0x07 ;;
  let ephy_data := u16 v1 in
  let ephy_data := u16 (Z.lor ephy_data 0x4000) in
  rtl8168_ephy_write 0x07 ephy_data ;;;
  v1 <- rtl8168_ephy_read 0x1E ;;
  let ephy_data := u16 v1 in
  let ephy_data := u16 (Z.lor ephy_data 0x2000) in
  rtl8168_ephy_write 0x1E ephy_data ;;;
  rtl8168_ephy_write 0x19 0xFE6C ;;;
  v1 <- rtl8168_ephy_read 0x0A ;;
  let ephy_data := u16 v1 in
  let ephy_data := u16 (Z.lor ephy_data 0x0040) in
  rtl8168_ephy_write 0x0A ephy_data.

Definition ephy_config_16 : ST unit :=
  m <- tp_get (fun s => mcfg s) ;;
  swhen (m =? 16)
    (rtl8168_ephy_write 0x06 0xF020 ;;;
     rtl8168_ephy_write 0x07 0x01FF ;;;
     rtl8168_ephy_write 0x00 0x5027 ;;;
     rtl8168_ephy_write 0x01 0x0003 ;;;
     rtl8168_ephy_write 0x02 0x2D16 ;;;
     rtl8168_ephy_write 0x03 0x6D49 ;;;
     rtl8168_ephy_write 0x08 0x0006 ;;;
     rtl8168_ephy_write 0x0A 0x00C8) ;;;
  v1 <- rtl8168_ephy_read 0x09 ;;
  let ephy_data := u16 v1 in
  let ephy_data := u16 (Z.lor ephy_data (BIT 7)) in
  rtl8168_ephy_write 0x09 ephy_data ;;;
  v1 <- rtl8168_ephy_read 0x19 ;;
  let ephy_data := u16 v1 in
  let ephy_data := u16 (Z.lor ephy_data (bits_or [2; 5; 9])) in
  rtl8168_ephy_write 0x19 ephy_data ;;;
  v1 <- rtl8168_ephy_read 0x00 ;;
  let ephy_data := u16 v1 in
  let ephy_data := u16 (Z.lor ephy_data (BIT 3)) in
  rtl8168_ephy_write 0x00 ephy_data ;;;
  v1 <- rtl8168_ephy_read 0x0C ;;
  let ephy_data := u16 v1 in
  let ephy_data := u16 (Z.land ephy_data (Z.lnot (bits_or [13; 12; 11; 10; 8; 7; 6; 5; 4]))) in
  let ephy_data := u16 (Z.lor ephy_data (BIT 9)) in
  rtl8168_ephy_write 0x0C ephy_data.

Definition ephy_config_18 : ST unit :=
  m <- tp_get (fun s => mcfg s) ;;
  swhen (m =? 18)
    (v1 <- rtl8168_ephy_read 0x06 ;;
     let ephy_data := u16 v1 in
     let ephy_data := u16 (Z.lor ephy_data (BIT 5)) in
     let ephy_data := u16 (Z.land ephy_data (Z.lnot (bits_or [7; 6]))) in
     rtl8168_ephy_write 0x06 ephy_data ;;;
     v1 <- rtl8168_ephy_read 0x08 ;;
     let ephy_data := u16 v1 in
     let ephy_data := u16 (Z.lor ephy_data (BIT 1)) in
     let ephy_data := u16 (Z.land ephy_data (Z.lnot (BIT 0))) in
     rtl8168_ephy_write 0x08 ephy_data) ;;;
  v1 <- rtl8168_ephy_read 0x09 ;;
  let ephy_data := u16 v1 in
  let ephy_data := u16 (Z.lor ephy_data (BIT 7)) in
  rtl8168_ephy_write 0x09 ephy_data ;;;
  v1 <- rtl8168_ephy_read 0x19 ;;
  let ephy_data := u16 v1 in
  let ephy_data := u16 (Z.lor ephy_data (bits_or [2; 5; 9])) in
  rtl8168_ephy_write 0x19 ephy_data ;;;
  v1 <- rtl8168_ephy_read 0x00 ;;
  let ephy_data := u16 v1 in
  let ephy_data := u16 (Z.lor ephy_data (BIT 3)) in
  rtl8168_ephy_write 0x00 ephy_data ;;;
  v1 <- rtl8168_ephy_read 0x0C ;;
  let ephy_data := u16 v1 in
  let ephy_data := u16 (Z.land ephy_data (Z.lnot (bits_or [13; 12; 11; 10; 8; 7; 6; 5; 4]))) in
  let ephy_data := u16 (Z.lor ephy_data (BIT 9)) in
  rtl8168_ephy_write 0x0C ephy_data.

Definition ephy_config_20 : ST unit :=
  v1 <- rtl8168_ephy_read 0x06 ;;
  let ephy_data := u16 v1 in
  let ephy_data := u16 (Z.lor ephy_data (BIT 5)) in
  let ephy_data := u16 (Z.land ephy_data (Z.lnot (bits_or [7; 6]))) in
  rtl8168_ephy_write 0x06 ephy_data ;;;
  rtl8168_ephy_write 0x0f 0x5200 ;;;
  v1 <- rtl8168_ephy_read 0x19 ;;
  let ephy_data := u16 v1 in
  let ephy_data := u16 (Z.lor ephy_data (bits_or [2; 5; 9])) in
  rtl8168_ephy_write 0x19 ephy_data ;;;
  v1 <- rtl8168_ephy_read 0x00 ;;
  let ephy_data := u16 v1 in
  let ephy_data := u16 (Z.lor ephy_data (BIT 3)) in
  rtl8168_ephy_write 0x00 ephy_data ;;;
  v1 <- rtl8168_ephy_read 0x0C ;;
  let ephy_data := u16 v1 in
  let ephy_data := u16 (Z.land ephy_data (Z.lnot (bits_or [13; 12; 11; 10; 8; 7; 6; 5; 4]))) in
  let ephy_data := u16 (Z.lor ephy_data (BIT 9)) in
  rtl8168_ephy_write 0x0C ephy_data.

Definition ephy_config_21 : ST unit :=
  v1 <- rtl8168_ephy_read 0x00 ;;
  let ephy_data := u16 v1 in
  let ephy_data := u16 (Z.land ephy_data (Z.lnot (BIT 3))) in
  rtl8168_ephy_write 0x00 ephy_data ;;;
  v1 <- rtl8168_ephy_read 0x0C ;;
  let ephy_data := u16 v1 in
  let ephy_data := u16 (Z.land ephy_data (Z.lnot (bits_or [13; 12; 11; 10; 9; 8; 7; 6; 5; 4]))) in
  let ephy_data := u16 (Z.lor ephy_data (bits_or [5; 11])) in
  rtl8168_ephy_write 0x0C ephy_data ;;;
  v1 <- rtl8168_ephy_read 0x1E ;;
  let ephy_data := u16 v1 in
  let ephy_data := u16 (Z.lor ephy_data (BIT 0)) in
  rtl8168_ephy_write 0x1E ephy_data ;;;
  v1 <- rtl8168_ephy_read 0x19 ;;
  let ephy_data := u16 v1 in
  let ephy_data := u16 (Z.land ephy_data (Z.lnot (BIT 15))) in
  rtl8168_ephy_write 0x19 ephy_data.

Definition ephy_config_25 : ST unit :=
  v1 <- rtl8168_ephy_read 0x00 ;;
  let ephy_data := u16 v1 in
  let ephy_data := u16 (Z.land ephy_data (Z.lnot (BIT 3))) in
  rtl8168_ephy_write 0x00 ephy_data ;;;
  v1 <- rtl8168_ephy_read 0x0C ;;
  let ephy_data := u16 v1 in
  let ephy_data := u16 (Z.land ephy_data (Z.lnot (bits_or [13; 12; 11; 10; 9; 8; 7; 6; 5; 4]))) in
  let ephy_data := u16 (Z.lor ephy_data (bits_or [5; 11])) in
  rtl8168_ephy_write 0x0C ephy_data ;;;
  rtl8168_ephy_write 0x19 0x7C00 ;;;
  rtl8168_ephy_write 0x1E 0x20EB ;;;
  rtl8168_ephy_write 0x0D 0x1666 ;;;
  rtl8168_ephy_write 0x00 0x10A3 ;;;
  rtl8168_ephy_write 0x06 0xF050 ;;;
  SetPCIePhyBit 0x04 (BIT 4) ;;;
  ClearPCIePhyBit 0x1D (BIT 14).

Definition ephy_config_26 : ST unit :=
  ClearPCIePhyBit 0x00 (BIT 3) ;;;
  ClearAndSetPCIePhyBit 0x0C (bits_or [13; 12; 10; 9; 8; 7; 6; 4]) (bits_or [5; 11]) ;;;
  SetPCIePhyBit 0x1E (BIT 0) ;;;
  ClearPCIePhyBit 0x19 (BIT 15) ;;;
  ClearPCIePhyBit 0x19 (bits_or [5; 0]) ;;;
  SetPCIePhyBit 0x1E (BIT 13) ;;;
  ClearPCIePhyBit 0x0D (BIT 8) ;;;
  SetPCIePhyBit 0x0D (BIT 9) ;;;
  SetPCIePhyBit 0x00 (BIT 7) ;;;
  SetPCIePhyBit 0x06 (BIT 4) ;;;
  SetPCIePhyBit 0x04 (BIT 4) ;;;
  SetPCIePhyBit 0x1D (BIT 14).

Definition ephy_config_28 : ST unit :=
  rtl8168_ephy_write 0x00 0x10AB ;;;
  rtl8168_ephy_write 0x19 0xFC00 ;;;
  rtl8168_ephy_write 0x1E 0x20EB ;;;
  rtl8168_ephy_write 0x0D 0x1666 ;;;
  ClearPCIePhyBit 0x0B (BIT 0) ;;;
  SetPCIePhyBit 0x1D (BIT 14) ;;;
  ClearAndSetPCIePhyBit 0x0C (bits_or [13; 12; 11; 10; 8; 7; 6; 5]) (bits_or [9; 4]).

Definition ephy_config_29 : ST unit :=
  ClearPCIePhyBit 0x1E (BIT 11) ;;;
  SetPCIePhyBit 0x1E (BIT 0) ;;;
  SetPCIePhyBit 0x1D (BIT 11) ;;;
  rtl8168_ephy_write 0x05 0x2089 ;;;
  rtl8168_ephy_write 0x06 0x5881 ;;;
  rtl8168_ephy_write 0x04 0x854A ;;;
  rtl8168_ephy_write 0x01 0x068B.

Definition ephy_config_31 : ST unit :=
  ClearAndSetPCIePhyBit 0x19 (BIT 6) (bits_or [12; 8]) ;;;
  ClearAndSetPCIePhyBit 0x59 (BIT 6) (bits_or [12; 8]) ;;;
  ClearPCIePhyBit 0x0C (BIT 4) ;;;
  ClearPCIePhyBit 0x4C (BIT 4) ;;;
  ClearPCIePhyBit 0x0B (BIT 0).

Definition rtl8168_hw_ephy_config : ST unit :=
  m <- tp_get (fun s => mcfg s) ;;
  (if m =? 4 then ephy_config_4
   else if m =? 5 then
    (SetPCIePhyBit 0x01 (BIT 0) ;;;
     ClearAndSetPCIePhyBit 0x03 (BIT 10) (BIT 5))
   else if m =? 9 then ephy_config_9
   else if m =? 10 then ephy_config_10
   else if (m =? 12) || (m =? 13) then ephy_config_12
   else if (m =? 14) || (m =? 15) then ephy_config_14
   else if (m =? 16) || (m =? 17) then ephy_config_16
   else if (m =? 18) || (m =? 19) then ephy_config_18
   else if m =? 20 then ephy_config_20
   else if (m =? 21) || (m =? 22) then ephy_config_21
   else if m =? 25 then ephy_config_25
   else if m =? 26 then ephy_config_26
   else if m =? 23 then
    (rtl8168_ephy_write 0x00 0x10AB ;;;
     rtl8168_ephy_write 0x06 0xf030 ;;;
     rtl8168_ephy_write 0x08 0x2006 ;;;
     rtl8168_ephy_write 0x0D 0x1666 ;;;
     v1 <- rtl8168_ephy_read 0x0C ;;
     let ephy_data := u16 v1 in
     let ephy_data := u16 (Z.land ephy_data (Z.lnot (bits_or [13; 12; 11; 10; 9; 8; 7; 6; 5; 4]))) in
     rtl8168_ephy_write 0x0C ephy_data)
   else if m =? 27 then
    (rtl8168_ephy_write 0x00 0x10A3 ;;;
     rtl8168_ephy_write 0x19 0xFC00 ;;;
     rtl8168_ephy_write 0x1E 0x20EA)
   else if m =? 28 then ephy_config_28
   else if (m =? 29) || (m =? 30) || (m =? 37) then ephy_config_29
   else if chips 31 34 m then ephy_config_31
   else if m =? 35 then
    (rtl8168_clear_mcu_ocp_bit 0xD438 (BIT 2) ;;;
     ClearPCIePhyBit 0x24 (BIT 9) ;;;
     rtl8168_clear_mcu_ocp_bit 0xDE28 (bits_or [1; 0]) ;;;
     rtl8168_set_mcu_ocp_bit 0xD438 (BIT 2))
   else if m =? 36 then
    (rtl8168_clear_mcu_ocp_bit 0xD438 (BIT 2) ;;;
     rtl8168_clear_mcu_ocp_bit 0xDE28 (bits_or [1; 0]) ;;;
     rtl8168_set_mcu_ocp_bit 0xD438 (BIT 2))
   else sret tt).

End Chip8168.
