(* ===== verification/Rtl8168Spec.v ===== *)
(** * r8168: the page of the PHY

    Every access to a PHY register goes to the page selected before.  Most of
    the driver relies on page 0 being selected, so what selects another page
    has to come back, whatever the PHY answers on the way.  On the chips with
    an MII channel the page is in the PHY, and the driver's copy of it has to
    agree. *)
From S2P Require Import Prelude RtlBase RtlHw RtlIrq RtlWol RtlMcu RtlRamCode RtlPhyConfig RtlChip RtlEeprom RtlLink RtlEee RtlConfig RtlToy RtlIfaceSpec Rtl8168Hw Rtl8168Code Rtl8168.
Local Open Scope Z_scope.
Local Open Scope rtl_scope.

(** The command word [v] of the MII register, or of OCPDR, writes register 31
    of the PHY. *)
Definition mii_selects (v : Z) : bool := Z.testbit v 31 && (Z.land (Z.shiftr v 16) (Z.ones 5) =? 0x1F).
Definition ocpdr_selects (v : Z) : bool := Z.testbit v 31 && (Z.land (Z.shiftr v 16) (Z.ones 8) =? 0x1F).

(** The documented place of the page: register 31 of the PHY, changed only by
    a command that writes it; reading a register of the controller is none. *)
Class PageLaws (D : Type) `{HM : Mmio D} := {
  phy_page : D -> Z;
  page_readb r d : phy_page (snd (readb r d)) = phy_page d;
  page_readw r d : phy_page (snd (readw r d)) = phy_page d;
  page_readl r d : phy_page (snd (readl r d)) = phy_page d;
  page_writeb r v d : phy_page (writeb r v d) = phy_page d;
  page_writew r v d : phy_page (writew r v d) = phy_page d;
  page_writel r v d : r <> PHYAR -> r <> OCPAR -> phy_page (writel r v d) = phy_page d;
  page_phyar v d : 0 <= v < 2 ^ 32 ->
    phy_page (writel PHYAR v d) = if mii_selects v then u16 v else phy_page d;
  page_ocpar v d : v <> OCPAR_GPHY_Write -> phy_page (writel OCPAR v d) = phy_page d;
  page_gphy v d : 0 <= v < 2 ^ 32 ->
    phy_page (writel OCPAR OCPAR_GPHY_Write (writel OCPDR v d)) = if ocpdr_selects v then u16 v else phy_page d
}.

Section Page.
Context {D : Type} `{HP : PageLaws D} {C : Chip8168} `{HK : LinkModes}.
Abbreviation ST := (St (nic D)).

(** The driver's copy of the page agrees with the PHY; where the PHY is behind
    the OCP registers, the page is only in the driver. *)
Definition page_agrees (s : nic D) : Prop :=
  (mcfg s = 11 \/ HwSuppPhyOcpVer <= 0) -> phy_page (dev s) = cur_page s.

(** [p] is the selected page, if it is known. *)
Definition on_page (p : option Z) (s : nic D) : Prop :=
  rtk_enable_diag s = 0 /\ page_agrees s /\ match p with Some n => cur_page s = n | None => True end.

(** From page [p], [m] ends on page [q], whatever the controller answers. *)
Definition pages {A} (p : option Z) (m : ST A) (q : option Z) : Prop :=
  forall s, on_page p s -> swp m (fun _ => on_page q) s.

(** ** Rules *)

Lemma on_page_weak p s : on_page p s -> on_page None s.
Proof. intros (?&?&?). done. Qed.

Lemma pages_ret {A} p (a : A) : pages p (sret a) p.
Proof. intros s Hs. exact Hs. Qed.

Lemma pages_bind {A B} p q r (m : ST A) (k : A -> ST B) :
  pages p m q -> (forall a, pages q (k a) r) -> pages p (sbind m k) r.
Proof. intros Hm Hk s Hs. apply swp_bind. eapply swp_mono; [|by apply Hm]. intros a s' H. by apply Hk. Qed.

Lemma pages_get {A} p (f : nic D -> A) : pages p (tp_get f) p.
Proof. intros s Hs. exact Hs. Qed.

Lemma pages_weak {A} p (m : ST A) q : pages p m q -> pages p m None.
Proof. intros H s Hs. eapply swp_mono; [|by apply H]. intros ? s'. apply on_page_weak. Qed.

Lemma pages_any {A} p (m : ST A) q : pages None m q -> pages p m q.
Proof. intros H s Hs. apply H. by eapply on_page_weak. Qed.

(** The page after either of two ways. *)
Definition join (p q : option Z) : option Z :=
  match p, q with Some a, Some b => if a =? b then Some a else None | _, _ => None end.

Lemma on_page_join_l p q s : on_page p s -> on_page (join p q) s.
Proof.
  intros H. unfold join. destruct p as [a|], q as [b|]; [|by eapply on_page_weak..].
  case_match; [done|by eapply on_page_weak].
Qed.

Lemma on_page_join_r p q s : on_page q s -> on_page (join p q) s.
Proof.
  intros H. unfold join. destruct p as [a|], q as [b|]; [|by eapply on_page_weak..].
  destruct (a =? b) eqn:E; [|by eapply on_page_weak]. apply Z.eqb_eq in E. by subst.
Qed.

Lemma pages_if {A} p (b : bool) (m1 m2 : ST A) q1 q2 :
  pages p m1 q1 -> pages p m2 q2 -> pages p (if b then m1 else m2) (join q1 q2).
Proof.
  intros H1 H2 s Hs. destruct b.
  - eapply swp_mono; [|by apply H1]. intros ? s'. apply on_page_join_l.
  - eapply swp_mono; [|by apply H2]. intros ? s'. apply on_page_join_r.
Qed.

Lemma pages_when p (b : bool) (m : ST unit) q : pages p m q -> pages p (swhen b m) (join q p).
Proof. intros H. apply (pages_if p b m (sret tt)); [done|apply pages_ret]. Qed.

(** A loop whose body keeps the page. *)
Lemma pages_poll p n (c : ST bool) : pages p c p -> pages p (poll n c) p.
Proof. intros H s Hs. by apply swp_poll. Qed.

Lemma pages_sfor {A} p (l : list A) (f : A -> ST unit) : (forall x, pages p (f x) p) -> pages p (sfor l f) p.
Proof. intros H s Hs. apply swp_for; [done|]. intros x t _ Ht. by apply H. Qed.

(** A change of the driver's state that is not about the page. *)
Lemma pages_modify p (f : nic D -> nic D) :
  (forall s, hw (f s) = hw s /\ ocp (f s) = ocp s /\ dev (f s) = dev s) -> pages p (smodify f) p.
Proof.
  intros H s (Hd & Ha & Hq). apply swp_modify. destruct (H s) as (E1 & E2 & E3).
  unfold on_page, page_agrees. rewrite E1, E2, E3. done.
Qed.

(** ** Register accesses *)

(** [m] only talks to the controller, and not to the page. *)
Definition quiet {A} (m : ST A) : Prop :=
  forall s, swp m (fun _ s' => exists d, s' = set_dev d s /\ phy_page d = phy_page (dev s)) s.

Lemma on_page_dev p s d : on_page p s -> phy_page d = phy_page (dev s) -> on_page p (set_dev d s).
Proof. intros (?&Ha&?) E. unfold on_page, page_agrees in *. cbn. rewrite E. done. Qed.

Lemma pages_quiet {A} p (m : ST A) : quiet m -> pages p m p.
Proof. intros H s Hs. eapply swp_mono; [|apply H]. intros ? s' (d & -> & E). by apply on_page_dev. Qed.

Lemma quiet_ret {A} (a : A) : quiet (sret a).
Proof. intros s. exists (dev s). by destruct s. Qed.

Lemma quiet_get {A} (f : nic D -> A) : quiet (tp_get f).
Proof. intros s. exists (dev s). by destruct s. Qed.

Lemma quiet_bind {A B} (m : ST A) (k : A -> ST B) : quiet m -> (forall a, quiet (k a)) -> quiet (sbind m k).
Proof.
  intros Hm Hk s. apply swp_bind. eapply swp_mono; [|apply Hm]. intros a s1 (d1 & -> & E1).
  eapply swp_mono; [|apply Hk]. intros ? s2 (d2 & -> & E2). exists d2. cbn in *. split; [done|congruence].
Qed.

Lemma quiet_if {A} (b : bool) (m1 m2 : ST A) : quiet m1 -> quiet m2 -> quiet (if b then m1 else m2).
Proof. by destruct b. Qed.

Lemma quiet_when (b : bool) (m : ST unit) : quiet m -> quiet (swhen b m).
Proof. intros. apply quiet_if; [done|apply quiet_ret]. Qed.

Lemma quiet_poll n (c : ST bool) : quiet c -> quiet (poll n c).
Proof.
  intros H. induction n as [|n IH]; [apply quiet_ret|]. apply quiet_bind; [done|]. intros a.
  apply quiet_if; [apply quiet_ret|done].
Qed.

Lemma quiet_on_dev {A} (f : D -> A * D) : (forall d, phy_page (snd (f d)) = phy_page d) -> quiet (on_dev f).
Proof. intros H s. unfold swp, on_dev. specialize (H (dev s)). destruct (f (dev s)) as [a d]. by exists d. Qed.

Lemma quiet_r8 r : quiet (RTL_R8 r).
Proof. apply quiet_on_dev. intros d. pose proof (page_readb r d). by destruct (readb r d). Qed.

Lemma quiet_r16 r : quiet (RTL_R16 r).
Proof. apply quiet_on_dev. intros d. pose proof (page_readw r d). by destruct (readw r d). Qed.

Lemma quiet_r32 r : quiet (RTL_R32 r).
Proof. apply quiet_on_dev. intros d. pose proof (page_readl r d). by destruct (readl r d). Qed.

Lemma quiet_on_dev_ (f : D -> D) : (forall d, phy_page (f d) = phy_page d) -> quiet (on_dev_ f).
Proof. intros H s. by exists (f (dev s)). Qed.

Lemma quiet_w8 r v : quiet (RTL_W8 r v).
Proof. apply quiet_on_dev_. intros d. apply page_writeb. Qed.

Lemma quiet_w32 r v : r <> PHYAR -> r <> OCPAR -> quiet (RTL_W32 r v).
Proof. intros. apply quiet_on_dev_. intros d. by apply page_writel. Qed.

Lemma quiet_ocpar v : u32 v <> OCPAR_GPHY_Write -> quiet (RTL_W32 OCPAR v).
Proof. intros. apply quiet_on_dev_. intros d. by apply page_ocpar. Qed.
End Page.

(** What only talks to the controller, syntactically. *)
Ltac quiet :=
  lazymatch goal with
  | |- forall _, _ => intros ?; quiet
  | |- quiet (let _ := _ in _) => cbv zeta; quiet
  | |- quiet (sbind _ _) => apply quiet_bind; [quiet|intros ?; cbv beta; quiet]
  | |- quiet (sret _) => apply quiet_ret
  | |- quiet (tp_get _) => apply quiet_get
  | |- quiet (swhen _ _) => apply quiet_when; quiet
  | |- quiet (if _ then _ else _) => apply quiet_if; quiet
  | |- quiet (poll _ _) => apply quiet_poll; quiet
  | |- quiet (flag_set _ _) => unfold flag_set; quiet
  | |- quiet (flag_clear _ _) => unfold flag_clear; quiet
  | |- quiet (RTL_set8 _ _) => unfold RTL_set8; quiet
  | |- quiet (RTL_clear8 _ _) => unfold RTL_clear8; quiet
  | |- quiet (RTL_R8 _) => apply quiet_r8
  | |- quiet (RTL_R16 _) => apply quiet_r16
  | |- quiet (RTL_R32 _) => apply quiet_r32
  | |- quiet (RTL_W8 _ _) => apply quiet_w8
  | |- quiet (RTL_W32 _ _) => apply quiet_w32; discriminate
  | |- _ => solve [eauto with quiet]
  end.

Create HintDb quiet discriminated.
#[export] Hint Constants Opaque : quiet.

Section Quiet.
Context {D : Type} `{HP : PageLaws D} {C : Chip8168} `{HK : LinkModes}.
Abbreviation ST := (St (nic D)).

Lemma quiet_mac_write a v : quiet (rtl8168_mac_ocp_write a v).
Proof. unfold rtl8168_mac_ocp_write. quiet. Qed.

Lemma quiet_mac_read a : quiet (rtl8168_mac_ocp_read a).
Proof. unfold rtl8168_mac_ocp_read. quiet. Qed.

Lemma quiet_direct_write a v : quiet (mdio_real_direct_write_phy_ocp_8168 a v).
Proof. unfold mdio_real_direct_write_phy_ocp_8168. quiet. Qed.

Lemma quiet_direct_read a : quiet (mdio_real_direct_read_phy_ocp_8168 a).
Proof. unfold mdio_real_direct_read_phy_ocp_8168. quiet. Qed.

Lemma quiet_open_gate m : quiet (open_mii_gate m).
Proof. unfold open_mii_gate. quiet. Qed.

Lemma quiet_close_gate m : quiet (close_mii_gate m).
Proof. unfold close_mii_gate. quiet. Qed.

End Quiet.
#[export] Hint Resolve quiet_mac_write quiet_mac_read quiet_direct_write quiet_direct_read
  quiet_open_gate quiet_close_gate : quiet.

(** ** The commands of the PHY's channels *)

Lemma mii_word r v mask : 0 <= r < 32 -> 0 <= v < 2 ^ 16 -> (mask = 0x1F \/ mask = 0xFF) ->
  Z.lor 0x80000000 (Z.lor (Z.shiftl (Z.land r mask) 16) (Z.land v 0xffff)) = 2 ^ 31 + r * 2 ^ 16 + v.
Proof.
  intros Hr Hv Hm.
  assert (Z.land r mask = r) as ->.
  { destruct Hm as [-> | ->]; [change 0x1F with (Z.ones 5)|change 0xFF with (Z.ones 8)];
      rewrite Z.land_ones by lia; apply Z.mod_small; lia. }
  change 0xffff with (Z.ones 16). rewrite (Z.land_ones v) by lia. rewrite (Z.mod_small v) by lia.
  rewrite Z.shiftl_mul_pow2 by lia. rewrite (Z.lor_comm _ v), lor_disjoint_add by lia.
  rewrite Z.lor_comm. change 0x80000000 with (1 * 2 ^ 31). rewrite lor_disjoint_add by lia. lia.
Qed.

Lemma mii_word_field r v k : 0 <= r < 32 -> 0 <= v < 2 ^ 16 -> 5 <= k <= 8 ->
  Z.testbit (2 ^ 31 + r * 2 ^ 16 + v) 31 && (Z.land (Z.shiftr (2 ^ 31 + r * 2 ^ 16 + v) 16) (Z.ones k) =? 0x1F)
  = (r =? 0x1F).
Proof.
  intros Hr Hv Hk. replace (Z.testbit _ 31) with true.
  - rewrite Z.shiftr_div_pow2, Z.land_ones by lia. cbn [andb]. f_equal.
    replace (2 ^ 31 + r * 2 ^ 16 + v) with (v + (r + 2 ^ (15 - k) * 2 ^ k) * 2 ^ 16).
    + rewrite Z.div_add, (Z.div_small v), Z.add_0_l, Z_mod_plus_full by lia.
      apply Z.mod_small. assert (2 ^ 5 <= 2 ^ k) by (apply Z.pow_le_mono_r; lia). lia.
    + rewrite <- Z.pow_add_r by lia. replace (15 - k + k) with 15 by lia. lia.
  - symmetry. apply Z.testbit_true; [lia|]. Z.to_euclidean_division_equations; lia.
Qed.

Lemma read_word_31 r w : 0 <= r -> 0 <= w < 2 ^ 15 -> Z.testbit (u32 (Z.lor 0 (Z.shiftl (Z.land r w) 16))) 31 = false.
Proof.
  intros Hr Hw. rewrite Z.lor_0_l. unfold u32, wrap. rewrite Z.mod_pow2_bits_low, Z.shiftl_spec, Z.land_spec by lia.
  rewrite (testbit_high w 15) by lia. apply andb_false_r.
Qed.

Section Mdio.
Context {D : Type} `{HP : PageLaws D} {C : Chip8168} `{HK : LinkModes}.
Abbreviation ST := (St (nic D)).

(** Where the command of [m] leaves the page of the PHY, as a write of [v] to
    register [r]. *)
Definition writes_page (m : ST unit) (r v : Z) : Prop := forall s,
  swp m (fun _ s' => exists d, s' = set_dev d s /\
    phy_page d = if r =? 0x1F then v else phy_page (dev s)) s.

Lemma writes_then (m k : ST unit) r v : writes_page m r v -> quiet k -> writes_page (m ;;; k) r v.
Proof.
  intros Hm Hk s. apply swp_bind. eapply swp_mono; [|apply Hm]. intros ? s1 (d1 & -> & E1).
  eapply swp_mono; [|apply Hk]. intros ? s2 (d2 & -> & E2). exists d2. cbn in *. split; [done|congruence].
Qed.

Lemma then_writes (m k : ST unit) r v : quiet m -> writes_page k r v -> writes_page (m ;;; k) r v.
Proof.
  intros Hm Hk s. apply swp_bind. eapply swp_mono; [|apply Hm]. intros ? s1 (d1 & -> & E1).
  eapply swp_mono; [|apply Hk]. intros ? s2 (d2 & -> & E2). exists d2. cbn in *. rewrite E2, E1. done.
Qed.

Lemma mii_u32 r v : 0 <= r < 32 -> 0 <= v < 2 ^ 16 ->
  u32 (2 ^ 31 + r * 2 ^ 16 + v) = 2 ^ 31 + r * 2 ^ 16 + v /\ u16 (2 ^ 31 + r * 2 ^ 16 + v) = v /\
  0 <= 2 ^ 31 + r * 2 ^ 16 + v < 2 ^ 32.
Proof.
  intros. assert (0 <= 2 ^ 31 + r * 2 ^ 16 + v < 2 ^ 32) by lia.
  split_and!; [by apply wrap_small| |lia..]. unfold u16, wrap. Z.to_euclidean_division_equations; lia.
Qed.

Lemma swp_writel r v s (Q : unit -> nic D -> Prop) :
  Q tt (set_dev (writel r (u32 v) (dev s)) s) -> swp (RTL_W32 r v) Q s.
Proof. done. Qed.

Lemma write_gphy_page r v : 0 <= r < 32 -> 0 <= v < 2 ^ 16 -> writes_page (write_gphy_ocpdr r v) r v.
Proof.
  intros Hr Hv s. unfold write_gphy_ocpdr. destruct (mii_u32 r v Hr Hv) as (E1 & E2 & E3).
  change OCPDR_Write with 0x80000000. change OCPDR_Reg_Mask with 0xFF. change OCPDR_GPHY_Reg_shift with 16.
  change OCPDR_Data_Mask with 0xffff. rewrite mii_word by auto. swp_step.
  apply swp_writel. swp_step. apply swp_writel. rewrite E1.
  match goal with |- swp ?k _ ?s' => assert (quiet k) as Hq end.
  { apply quiet_bind; [apply quiet_w32; discriminate|intros ?]. apply quiet_bind; [|intros ?; apply quiet_ret].
    apply quiet_poll. unfold flag_clear. apply quiet_bind; [apply quiet_r32|intros ?; apply quiet_ret]. }
  eapply swp_mono; [|apply Hq]. intros ? s2 (d2 & -> & Ed). exists d2. split; [done|].
  rewrite Ed. cbn. change (u32 OCPAR_GPHY_Write) with OCPAR_GPHY_Write.
  rewrite page_gphy by done. unfold ocpdr_selects.
  rewrite mii_word_field by lia. by rewrite E2.
Qed.

Lemma write_phyar_page m r v : 0 <= r < 32 -> 0 <= v < 2 ^ 16 -> writes_page (write_phyar m r v) r v.
Proof.
  intros Hr Hv. unfold write_phyar. destruct (mii_u32 r v Hr Hv) as (E1 & E2 & E3).
  change PHYAR_Write with 0x80000000. change PHYAR_Reg_Mask with 0x1F. change PHYAR_Reg_shift with 16.
  change PHYAR_Data_Mask with 0xffff. rewrite mii_word by auto.
  apply then_writes; [apply quiet_open_gate|]. apply writes_then.
  - intros s. unfold swp, RTL_W32, on_dev_. rewrite E1. eexists. split; [done|]. rewrite page_phyar by done.
    unfold mii_selects. rewrite mii_word_field by lia. by rewrite E2.
  - apply quiet_bind; [|intros ?; apply quiet_close_gate]. apply quiet_poll. unfold flag_clear.
    apply quiet_bind; [apply quiet_r32|intros ?; apply quiet_ret].
Qed.

Lemma quiet_read_phyar m r : 0 <= r -> quiet (read_phyar m r).
Proof.
  intros Hr. unfold read_phyar. apply quiet_bind; [apply quiet_open_gate|intros ?].
  apply quiet_bind; [|intros ?; quiet]. apply quiet_on_dev_. intros d.
  change PHYAR_Read with 0. change PHYAR_Reg_shift with 16.
  rewrite page_phyar by (unfold u32, wrap; Z.to_euclidean_division_equations; lia).
  unfold mii_selects. by rewrite read_word_31 by (unfold PHYAR_Reg_Mask; lia).
Qed.

Lemma quiet_read_gphy r : 0 <= r -> quiet (read_gphy_ocpdr r).
Proof.
  intros Hr. unfold read_gphy_ocpdr. intros s. swp_step. apply swp_writel. swp_step. apply swp_writel.
  match goal with |- swp ?k _ ?s' => assert (quiet k) as Hq end.
  { apply quiet_bind; [quiet|intros ?; cbv beta]. apply quiet_bind; [quiet|intros ?; cbv beta].
    apply quiet_bind; [apply quiet_ocpar; discriminate|quiet]. }
  eapply swp_mono; [|apply Hq]. intros ? s2 (d2 & -> & Ed). exists d2. split; [done|]. rewrite Ed. cbn.
  change (u32 OCPAR_GPHY_Write) with OCPAR_GPHY_Write. change OCPDR_Read with 0. change OCPDR_GPHY_Reg_shift with 16.
  rewrite page_gphy by (unfold u32, wrap; Z.to_euclidean_division_equations; lia).
  unfold ocpdr_selects. by rewrite read_word_31 by (unfold OCPDR_Reg_Mask; lia).
Qed.

(** A read keeps the page, a write keeps it or selects one. *)
Lemma quiet_mdio_read r : quiet (rtl8168_mdio_read r).
Proof.
  unfold rtl8168_mdio_read, mdio_real_read_8168, rtl8168_mdio_real_read_phy_ocp.
  assert (0 <= u32 (u16 r)) by (unfold u32, wrap; apply Z.mod_pos_bound; lia).
  apply quiet_bind; [apply quiet_get|intros diag]. apply quiet_if; [apply quiet_ret|]. cbv zeta.
  apply quiet_bind; [apply quiet_get|intros s]. apply quiet_if; [by apply quiet_read_gphy|].
  apply quiet_if; [apply quiet_direct_read|by apply quiet_read_phyar].
Qed.

Definition page_after (r v : Z) (p : option Z) : option Z := if r =? 0x1F then Some (u16 v) else p.

Lemma pages_mdio_write p r v : 0 <= r < 32 -> pages p (rtl8168_mdio_write r v) (page_after r v p).
Proof.
  intros Hr s (Hd & Ha & Hp). pose proof (u16_range v) as Hv. unfold rtl8168_mdio_write. do 2 swp_step.
  rewrite Hd. cbn [tst Z.eqb negb]. unfold mdio_real_write_8168. cbv zeta.
  replace (u32 (u16 r)) with r by (unfold u16, u32; wrap_simpl; done).
  replace (u32 (u16 v)) with (u16 v) by (unfold u32; wrap_simpl; done).
  replace (u16 (u16 v)) with (u16 v) by (unfold u16 at 2; wrap_simpl; done).
  swp_step. set (s1 := if r =? 0x1F then set_cur_page (u16 v) s else s).
  assert (swp (swhen (r =? 0x1F) (smodify (set_cur_page (D := D) (u16 v)))) (fun _ s' => s' = s1) s) as H1
    by (unfold s1; by destruct (r =? 0x1F)).
  eapply swp_mono; [|exact H1]. intros _ ? ->.
  assert (rtk_enable_diag s1 = 0 /\ mcfg s1 = mcfg s /\ phy_page (dev s1) = phy_page (dev s) /\
    cur_page s1 = if r =? 0x1F then u16 v else cur_page s) as (Hd1 & Hm1 & Hg1 & Hc1)
    by (unfold s1; destruct (r =? 0x1F); done).
  assert (forall m, writes_page m r (u16 v) -> swp m (fun _ => on_page (page_after r v p)) s1) as Hcmd.
  { intros m Hw. eapply swp_mono; [|apply Hw]. intros ? s2 (d2 & -> & E2).
    unfold on_page, page_agrees, page_after in *. cbn. rewrite Hm1, Hc1, E2, Hg1.
    destruct (r =? 0x1F); split_and!; done || (intros H; apply Ha, H). }
  do 2 swp_step. change (mcfg (id s1)) with (mcfg s1). rewrite Hm1.
  destruct (mcfg s =? 11) eqn:E11; [apply Hcmd, write_gphy_page; lia|].
  destruct (HwSuppPhyOcpVer >? 0) eqn:Eo; [|apply Hcmd, write_phyar_page; lia].
  assert (forall m : ST unit, quiet m -> swp m (fun _ => on_page (page_after r v p)) s1) as Hq.
  { intros m Hm. eapply swp_mono; [|apply Hm]. intros ? s2 (d2 & -> & _).
    unfold on_page, page_agrees, page_after. cbn. rewrite Hm1, Hc1.
    split_and!; [done|intros; blia|]. by destruct (r =? 0x1F). }
  destruct (r =? 0x1F) eqn:Er; [apply Hq, quiet_ret|]. apply Hq. apply quiet_direct_write.
Qed.

(** ** Sequences *)

Lemma pages_write_other p r v : 0 <= r < 31 -> pages p (rtl8168_mdio_write r v) p.
Proof.
  intros Hr s Hs. eapply swp_mono; [|apply (pages_mdio_write p); [lia|done]]. intros ? s'.
  unfold page_after. destruct (r =? 0x1F) eqn:E; [blia|done].
Qed.

Lemma pages_select p v : pages p (rtl8168_mdio_write 0x1F v) (Some (u16 v)).
Proof. apply (pages_mdio_write p 0x1F). lia. Qed.

Lemma pages_clear_set p r c m : 0 <= r < 31 -> pages p (ClearAndSetEthPhyBit r c m) p.
Proof.
  intros Hr. unfold ClearAndSetEthPhyBit. eapply pages_bind; [apply pages_quiet, quiet_mdio_read|].
  intros v. apply pages_write_other. unfold u8. wrap_simpl. lia.
Qed.

(** An operation of a sequence names a register of the PHY, and only writes
    select a page. *)
Definition mop_ok (op : mop) : bool :=
  match op with Wr r _ => (0 <=? r) && (r <? 32) | Mo r _ _ => (0 <=? r) && (r <? 31) end.

Definition mop_page (p : option Z) (op : mop) : option Z :=
  match op with Wr r v => page_after r v p | Mo _ _ _ => p end.

Definition ops_page (ops : list mop) (p : option Z) : option Z := fold_left mop_page ops p.

Lemma pages_ops ops p q : forallb mop_ok ops = true -> ops_page ops p = q -> pages p (mdio_ops ops) q.
Proof.
  intros Hok <-. revert p Hok. induction ops as [|op ops IH]; intros p; cbn [forallb]; [intros _; apply pages_ret|].
  intros [Ho Hok]%andb_true_iff. unfold mdio_ops. cbn [sfor].
  eapply pages_bind; [|intros _; by apply IH]. destruct op as [r v|r c m]; cbn [run_mop mop_ok mop_page] in *.
  - apply pages_mdio_write. blia.
  - apply pages_clear_set. blia.
Qed.

Lemma pages_if_eq {A} p (b : bool) (m1 m2 : ST A) q1 q2 q :
  pages p m1 q1 -> pages p m2 q2 -> join q1 q2 = q -> pages p (if b then m1 else m2) q.
Proof. intros ?? <-. by apply pages_if. Qed.

Lemma pages_when_eq p (b : bool) (m : ST unit) q1 q : pages p m q1 -> join q1 p = q -> pages p (swhen b m) q.
Proof. intros ? <-. by apply pages_when. Qed.
Lemma pages_run {A} p (m : ST A) q s : pages p m q -> on_page p s -> on_page q (snd (m s)).
Proof. intros H Hs. specialize (H s Hs). unfold swp in H. by destruct (m s). Qed.
End Mdio.
#[export] Hint Resolve quiet_mdio_read : quiet.

(** From here on the two are used through their rules only. *)
#[global] Opaque quiet pages.

(** Evaluate the page reached. *)
Ltac page_eval :=
  match goal with |- ?t = _ => let v := eval vm_compute in t in transitivity v; [vm_compute; reflexivity|reflexivity] end.

Create HintDb pages discriminated.
#[export] Hint Constants Opaque : pages.

(** Follow the code from a known page. *)
Ltac pages :=
  lazymatch goal with
  | |- pages _ (let _ := _ in _) _ => cbv zeta; pages
  | |- pages _ (sbind _ _) _ => eapply pages_bind; [pages|intros ?; cbv beta; pages]
  | |- pages _ (mdio_ops _) _ => apply pages_ops; [vm_compute; reflexivity|page_eval]
  | |- pages _ (rtl8168_mdio_write 0x1F ?v) _ =>
      let n := eval vm_compute in (u16 v) in change (u16 v) with n; exact (pages_select _ v)
  | |- pages _ (rtl8168_mdio_write _ _) _ => apply pages_write_other; vm_compute; split; congruence
  | |- pages _ (ClearAndSetEthPhyBit _ _ _) _ => apply pages_clear_set; vm_compute; split; congruence
  | |- pages _ (sret _) _ => apply pages_ret
  | |- pages _ (tp_get _) _ => apply pages_get
  | |- pages _ (smodify _) _ => apply pages_modify; intros ?; split_and!; reflexivity
  | |- pages _ (swhen _ _) _ => first [apply pages_quiet; solve [quiet] | eapply pages_when_eq; [pages|page_eval]]
  | |- pages _ (if _ then _ else _) _ =>
      first [apply pages_quiet; solve [quiet] | eapply pages_if_eq; [pages|pages|page_eval]]
  | |- pages _ (poll _ _) _ => apply pages_quiet; quiet
  | |- pages _ (sfor _ _) _ => apply pages_sfor; intros ?; pages
  | |- _ => first [solve [eauto with pages] | apply pages_quiet; solve [quiet]]
  end.

Section Quiet2.
Context {D : Type} `{HP : PageLaws D} {C : Chip8168} `{HK : LinkModes}.
Abbreviation ST := (St (nic D)).

Lemma quiet_efuse_read r : quiet (rtl8168_efuse_read r).
Proof. unfold rtl8168_efuse_read, efuse_command, efuse_byte. quiet. Qed.

Lemma quiet_eri_read_loop n ty base addr len shift v : quiet (eri_read_loop n ty base addr len shift v).
Proof. revert addr len shift v. induction n; intros; cbn [eri_read_loop]; quiet. Qed.

Lemma quiet_eri_read_with a l ty base : quiet (rtl8125_eri_read_with_oob_base_address a l ty base).
Proof. apply quiet_if; [apply quiet_ret|apply quiet_eri_read_loop]. Qed.

Lemma quiet_eri_read a l ty : quiet (rtl8168_eri_read a l ty).
Proof. apply quiet_eri_read_with. Qed.

Lemma quiet_eri_write_loop n ty base addr len shift v : quiet (eri_write_loop n ty base addr len shift v).
Proof.
  pose proof quiet_eri_read_with. revert addr len shift v. induction n; intros; cbn [eri_write_loop]; quiet.
Qed.

Lemma quiet_eri_write_with a l v ty base : quiet (rtl8125_eri_write_with_oob_base_address a l v ty base).
Proof. apply quiet_if; [apply quiet_ret|apply quiet_eri_write_loop]. Qed.

Lemma quiet_eri_write a l v ty : quiet (rtl8168_eri_write a l v ty).
Proof. apply quiet_eri_write_with. Qed.

(** The OOB channel of the first version shares OCPAR with the PHY: it must not
    be used at the address of the PHY. *)
Definition off_gphy (addr : Z) : bool :=
  negb (Z.land (Z.land addr (Z.lnot 3)) 0xFFF =? 0x060).

Lemma quiet_ocpar_read addr : quiet (RTL_W32 OCPAR (Z.lor (Z.shiftl 0x0F 12) (Z.land addr 0xFFF))).
Proof.
  apply quiet_ocpar. intros E. apply (f_equal (fun z => Z.testbit z 31)) in E. revert E.
  unfold u32, wrap. rewrite Z.mod_pow2_bits_low, Z.lor_spec, Z.land_spec by lia.
  replace (Z.testbit 0xFFF 31) with false by done. rewrite andb_false_r. done.
Qed.

Lemma quiet_real_ocp_read_loop n addr len shift v : quiet (real_ocp_read_loop n addr len shift v).
Proof.
  revert addr len shift v. induction n; intros; cbn [real_ocp_read_loop]; [quiet|].
  apply quiet_if; [|quiet]. cbv zeta. apply quiet_bind; [apply quiet_ocpar_read|]. quiet.
Qed.

Lemma quiet_ocp_read a l : quiet (rtl8168_ocp_read a l).
Proof.
  unfold rtl8168_ocp_read, real_ocp_read, rtl8168_ocp_read_with_oob_base_address.
  pose proof quiet_real_ocp_read_loop. pose proof quiet_eri_read_with. quiet.
Qed.

Lemma quiet_ocpar_write addr : off_gphy addr = true ->
  quiet (RTL_W32 OCPAR (Z.lor OCPAR_Flag (Z.lor (Z.shiftl 0x0F 12) (Z.land (Z.land addr (Z.lnot 3)) 0xFFF)))).
Proof.
  intros H. apply quiet_ocpar. intros E. unfold off_gphy in H. apply negb_true_iff, Z.eqb_neq in H. apply H.
  set (b := Z.land addr (Z.lnot 3)) in *. clearbody b.
  replace (Z.land b 0xFFF) with (Z.land (u32 (Z.lor OCPAR_Flag (Z.lor (Z.shiftl 0x0F 12) (Z.land b 0xFFF)))) 0xFFF);
    [by rewrite E|].
  change 0xFFF with (Z.ones 12). change OCPAR_Flag with (2 ^ 31). change (Z.shiftl 0x0F 12) with (15 * 2 ^ 12).
  unfold u32, wrap. rewrite !Z.land_ones by lia.
  pose proof (Z.mod_pos_bound b (2 ^ 12)). rewrite (Z.lor_comm (15 * 2 ^ 12)), lor_disjoint_add by lia.
  replace (Z.lor (2 ^ 31) (b mod 2 ^ 12 + 15 * 2 ^ 12)) with (b mod 2 ^ 12 + 15 * 2 ^ 12 + 1 * 2 ^ 31);
    [|rewrite Z.lor_comm; change (2 ^ 31) with (1 * 2 ^ 31); rewrite lor_disjoint_add by lia; done].
  Z.to_euclidean_division_equations; lia.
Qed.

Lemma quiet_ocp_write_byte a v : off_gphy (u16 a) = true -> quiet (rtl8168_ocp_write a 1 v).
Proof.
  intros H. unfold rtl8168_ocp_write, real_ocp_write, rtl8168_ocp_write_with_oob_base_address.
  pose proof quiet_eri_write_with. change (u8 1) with 1. cbn [Z.gtb Z.leb Z.compare Pos.compare Pos.compare_cont orb].
  cbn [real_ocp_write_loop Z.gtb Z.compare].
  assert ((1 <=? 4 - u16 a mod 4) = true) as -> by (apply Z.leb_le; Z.to_euclidean_division_equations; lia).
  apply quiet_bind; [quiet|intros ver; cbv beta]. apply quiet_if; [|quiet]. cbv zeta.
  apply quiet_bind; [|quiet]. apply quiet_bind; [|quiet]. apply quiet_bind; [apply quiet_ocp_read|].
  intros x. cbv beta zeta. apply quiet_bind; [quiet|]. intros ?. apply quiet_bind; [by apply quiet_ocpar_write|]. quiet.
Qed.

Definition mutex_ok (r : mutex_regs) : Prop :=
  off_gphy (u16 (mutex_ib r)) = true /\ off_gphy (u16 (mutex_prio r)) = true.

Lemma oob_mutex_regs_ok m : mutex_ok (oob_mutex_regs m).
Proof. unfold oob_mutex_regs, mutex_ok. by repeat case_match. Qed.

Lemma quiet_wait_prio r n v : quiet (wait_prio r n v).
Proof. pose proof quiet_ocp_read. revert v. induction n; intros; cbn [wait_prio]; quiet. Qed.

Lemma quiet_wait_mutex r n v : mutex_ok r -> quiet (wait_mutex r n v).
Proof.
  intros [Hi Hp]. pose proof quiet_ocp_read. pose proof quiet_wait_prio.
  pose proof (fun v => quiet_ocp_write_byte _ v Hi). revert v. induction n; intros; cbn [wait_mutex]; quiet.
Qed.

Lemma quiet_mutex_lock : quiet rtl8168_oob_mutex_lock.
Proof.
  unfold rtl8168_oob_mutex_lock. apply quiet_bind; [quiet|intros s; cbv beta]. apply quiet_if; [quiet|]. cbv zeta.
  pose proof (oob_mutex_regs_ok (mcfg (id s))) as Hr. pose proof (quiet_wait_mutex _ 2001 0 Hr).
  apply quiet_bind; [apply quiet_ocp_write_byte, Hr|intros ?]. apply quiet_bind; [apply quiet_ocp_read|].
  intros v. by apply quiet_wait_mutex.
Qed.

Lemma quiet_mutex_unlock : quiet rtl8168_oob_mutex_unlock.
Proof.
  unfold rtl8168_oob_mutex_unlock. apply quiet_bind; [quiet|intros s; cbv beta]. apply quiet_if; [quiet|]. cbv zeta.
  destruct (oob_mutex_regs_ok (mcfg (id s))). apply quiet_bind; intros; by apply quiet_ocp_write_byte.
Qed.

Lemma quiet_is_off : quiet rtl8168_is_in_phy_disable_mode.
Proof.
  unfold rtl8168_is_in_phy_disable_mode, rtl8168_is_phy_disable_mode_enabled, rtl8168_is_gpio_low. quiet.
Qed.

Lemma quiet_enable_off : quiet rtl8168_enable_phy_disable_mode.
Proof. unfold rtl8168_enable_phy_disable_mode. quiet. Qed.

Lemma quiet_disable_off : quiet rtl8168_disable_phy_disable_mode.
Proof. unfold rtl8168_disable_phy_disable_mode. quiet. Qed.

Lemma quiet_fail_flag : quiet rtl8168_set_phy_ram_code_check_fail_flag.
Proof. unfold rtl8168_set_phy_ram_code_check_fail_flag. quiet. Qed.

Lemma quiet_wait_reset : quiet rtl8168_wait_phy_reset_complete.
Proof. unfold rtl8168_wait_phy_reset_complete. quiet. Qed.

Lemma quiet_write_phy_ocp g r v : quiet (rtl8168_mdio_write_phy_ocp g r v).
Proof. unfold rtl8168_mdio_write_phy_ocp, mdio_direct_write_phy_ocp. quiet. Qed.

Lemma quiet_read_phy_ocp g r : quiet (rtl8168_mdio_read_phy_ocp g r).
Proof. unfold rtl8168_mdio_read_phy_ocp, mdio_direct_read_phy_ocp. quiet. Qed.
End Quiet2.
#[export] Hint Resolve quiet_efuse_read quiet_eri_read quiet_eri_write quiet_ocp_read quiet_mutex_lock
  quiet_mutex_unlock quiet_is_off quiet_enable_off quiet_disable_off quiet_fail_flag quiet_wait_reset
  quiet_write_phy_ocp quiet_read_phy_ocp : quiet.

(** ** The routines *)

Section Routines.
Context {D : Type} `{HP : PageLaws D} {C : Chip8168} `{HK : LinkModes}.
Abbreviation ST := (St (nic D)).

Lemma pages_set_request p : pages p rtl8168_set_phy_mcu_patch_request (join (Some 0) p).
Proof.
  unfold rtl8168_set_phy_mcu_patch_request, patch_answer. eapply pages_bind; [apply pages_get|intros m; cbv beta].
  apply pages_if; [|apply pages_ret]. apply pages_any. pages.
Qed.

Lemma pages_clear_request p : pages p rtl8168_clear_phy_mcu_patch_request (join (Some 0) p).
Proof.
  unfold rtl8168_clear_phy_mcu_patch_request, patch_answer. eapply pages_bind; [apply pages_get|intros m; cbv beta].
  apply pages_if; [|apply pages_ret]. apply pages_any. pages.
Qed.
End Routines.
#[export] Hint Resolve pages_set_request pages_clear_request : pages.

Section Routines.
Context {D : Type} `{HP : PageLaws D} {C : Chip8168} `{HK : LinkModes}.
Abbreviation ST := (St (nic D)).

Lemma pages_ram_check : pages None rtl8168_phy_ram_code_check (Some 0).
Proof. unfold rtl8168_phy_ram_code_check. pages. Qed.

(** One table of places for all chips, each with its registers. *)
Lemma code_ver_places m page idx addr data : code_ver_place m = Some (page, idx, addr, data) ->
  forall v, forallb mop_ok [Wr 0x1F page; Wr idx addr; Wr data v; Wr 0x1F 0x0000] = true /\ (idx =? 0x1F) = false.
Proof.
  unfold code_ver_place. intros H v. repeat case_match; simplify_eq; done.
Qed.

Lemma pages_get_ver : pages None rtl8168_get_hw_phy_mcu_code_ver None.
Proof.
  unfold rtl8168_get_hw_phy_mcu_code_ver. eapply pages_bind; [apply pages_get|intros m; cbv beta].
  destruct (code_ver_place m) as [[[[page idx] addr] data]|] eqn:E; [|pages].
  destruct (code_ver_places _ _ _ _ _ E 0) as [Ho _]. cbn [forallb] in Ho. eapply pages_weak.
  eapply pages_bind; [apply pages_ops; [|reflexivity]|intros _; cbv beta; pages].
  cbn [forallb]. repeat rewrite andb_true_iff in *. tauto.
Qed.

Lemma pages_write_ver : pages None rtl8168_write_hw_phy_mcu_code_ver None.
Proof.
  unfold rtl8168_write_hw_phy_mcu_code_ver. eapply pages_bind; [apply pages_get|intros s; cbv beta].
  destruct (code_ver_place (mcfg s)) as [[[[page idx] addr] data]|] eqn:E; [|pages].
  eapply pages_weak, pages_bind; [|intros _; cbv beta; pages].
  apply pages_ops; [|reflexivity]. by destruct (code_ver_places _ _ _ _ _ E (sw_ram_code_ver s)).
Qed.

Lemma pages_check_ver : pages None rtl8168_check_hw_phy_mcu_code_ver None.
Proof.
  pose proof pages_get_ver. unfold rtl8168_check_hw_phy_mcu_code_ver.
  eapply pages_bind; [done|intros v; cbv beta]. pages.
Qed.

(** Each chip's part, with an unknown page after it. *)
Lemma pages_else {A} (b : bool) (m1 m2 : ST A) q : pages None m1 q -> pages None m2 None ->
  pages None (if b then m1 else m2) None.
Proof. intros H1 H2. apply (pages_if_eq _ _ _ _ None None); [by eapply pages_weak|done|done]. Qed.

(** The microcode of each chip. *)
Lemma pages_set_phy_mcu m : pages None (set_phy_mcu_8168 m) None.
Proof.
  unfold set_phy_mcu_8168. repeat (eapply pages_else); [..|apply pages_ret].
  all: unfold
    rtl8168_set_phy_mcu_8168e_1, rtl8168_set_phy_mcu_8168e_2, rtl8168_set_phy_mcu_8168evl_1,
    rtl8168_set_phy_mcu_8168evl_2, rtl8168_set_phy_mcu_8168f_1, rtl8168_set_phy_mcu_8168f_2,
    rtl8168_set_phy_mcu_8411_1, rtl8168_set_phy_mcu_8168g_1, rtl8168_set_phy_mcu_8168gu_2,
    rtl8168_set_phy_mcu_8411b_1, rtl8168_set_phy_mcu_8168ep_2, rtl8168_set_phy_mcu_8168h_1,
    rtl8168_set_phy_mcu_8168h_2, rtl8168_set_phy_mcu_8168h_3.
  all: pages.
Qed.

(** And its tuning. *)
Lemma pages_phy_config m : pages None (phy_config_8168 m) None.
Proof.
  unfold phy_config_8168. repeat (eapply pages_else); [..|apply pages_ret].
  all: unfold
    hw_phy_config_1, hw_phy_config_2, hw_phy_config_3, hw_phy_config_4, hw_phy_config_5, hw_phy_config_6,
    hw_phy_config_7, hw_phy_config_8, hw_phy_config_9, hw_phy_config_10, hw_phy_config_11, hw_phy_config_12,
    hw_phy_config_13, hw_phy_config_14, hw_phy_config_16, hw_phy_config_17, hw_phy_config_18, hw_phy_config_19,
    hw_phy_config_20, hw_phy_config_21, hw_phy_config_23, hw_phy_config_24, hw_phy_config_25, hw_phy_config_27,
    hw_phy_config_29, hw_phy_config_30, hw_phy_config_31, hw_phy_config_35, hw_phy_config_36.
  all: pages.
Qed.

Lemma pages_init_mcu : pages None rtl8168_init_hw_phy_mcu None.
Proof.
  pose proof pages_check_ver. pose proof pages_ram_check. pose proof pages_set_phy_mcu. pose proof pages_write_ver.
  unfold rtl8168_init_hw_phy_mcu. eapply pages_bind; [apply pages_get|intros s; cbv beta].
  apply pages_else with None; [apply pages_ret|]. eapply pages_bind; [done|intros same; cbv beta].
  apply pages_else with None; [apply pages_ret|]. eapply pages_bind; [by eapply pages_weak|intros ok; cbv beta].
  pages.
Qed.

(** The reset of the PHY leaves page 0 or, where the PHY is off, the page there was. *)
Lemma pages_xmii_reset p : pages p rtl8168_xmii_reset_enable (join p (Some 0)).
Proof.
  unfold rtl8168_xmii_reset_enable. eapply pages_bind; [apply pages_quiet, quiet_is_off|intros off; cbv beta].
  apply pages_if; [apply pages_ret|pages].
Qed.

Lemma pages_ppsw : pages None eth_phy_ppsw None.
Proof. unfold eth_phy_ppsw. pages. Qed.

Lemma pages_power_saving : pages None phy_power_saving None.
Proof. unfold phy_power_saving, rtl8168_enable_ocp_phy_power_saving. pages. Qed.

(** ** Energy-efficient Ethernet: page 0 throughout *)

Lemma pages_adv_eee_enabled : pages (Some 0) rtl8168_is_adv_eee_enabled (Some 0).
Proof. unfold rtl8168_is_adv_eee_enabled. pages. Qed.

Lemma pages_disable_adv_eee : pages (Some 0) rtl8168_disable_adv_eee (Some 0).
Proof.
  pose proof pages_adv_eee_enabled. unfold rtl8168_disable_adv_eee, adv_eee_off, disable_adv_eee_29. pages.
Qed.

Lemma pages_enable_eee : pages (Some 0) rtl8168_enable_eee (Some 0).
Proof.
  pose proof pages_disable_adv_eee. unfold rtl8168_enable_eee, enable_eee_14, enable_eee_16, enable_eee_18. pages.
Qed.

Lemma pages_disable_eee : pages (Some 0) rtl8168_disable_eee (Some 0).
Proof.
  pose proof pages_disable_adv_eee.
  unfold rtl8168_disable_eee, disable_eee_14, disable_eee_16, disable_eee_18, disable_eee_21. pages.
Qed.
End Routines.

Section Config.
Context {D : Type} `{HP : PageLaws D} {C : Chip8168} `{HK : LinkModes}.

(** The whole configuration; only one package leaves the PHY alone. *)
Lemma pages_hw_phy_config p : p = Some 0 \/ HwPkgDet <> 0x06 -> pages p rtl8168_hw_phy_config (Some 0).
Proof.
  intros Hp. pose proof pages_init_mcu. pose proof pages_phy_config. pose proof pages_ppsw.
  pose proof pages_power_saving. pose proof pages_enable_eee. pose proof pages_disable_eee.
  unfold rtl8168_hw_phy_config. eapply pages_bind; [apply pages_xmii_reset|intros _; cbv beta].
  eapply pages_bind; [apply pages_get|intros s; cbv beta].
  destruct ((HwSuppDashVer s =? 3) && (HwPkgDet =? 0x06)) eqn:E.
  - destruct Hp as [-> |Hp]; [apply pages_ret|blia].
  - apply pages_any. pages.
Qed.

(** C23: configuring the PHY ends on page 0, and the driver and the PHY agree on
    it, whatever the chip, its channel and the answers of the controller are:
    the microcode loaders, the tuning, the power saving and the switching of
    EEE may select other pages, but each way through them comes back.  The one
    package whose configuration is skipped has to start on page 0. *)
Theorem hw_phy_config_page_zero (s : nic D) r s' :
  rtk_enable_diag s = 0 -> page_agrees s -> cur_page s = 0 \/ HwPkgDet <> 0x06 ->
  rtl8168_hw_phy_config s = (r, s') ->
  rtk_enable_diag s' = 0 /\ cur_page s' = 0 /\ page_agrees s'.
Proof.
  intros Hd Ha Hp E. destruct (decide (cur_page s = 0)) as [E0|Hne].
  - pose proof (pages_run _ _ _ s (pages_hw_phy_config (Some 0) (or_introl eq_refl))) as H.
    rewrite E in H. destruct H as (?&?&?); done.
  - assert (HwPkgDet <> 0x06) as Hp' by tauto.
    pose proof (pages_run _ _ _ s (pages_hw_phy_config None (or_intror Hp'))) as H.
    rewrite E in H. destruct H as (?&?&?); done.
Qed.
End Config.

(** ** A PHY behind the MII register *)

(** The registers of the controller, and the PHY with its pages. *)
Record mii_nic := MkMii { mii_page : Z; mii_phy : gmap (Z * Z) Z; mii_regs : gmap Z Z }.

Definition mii_reg (r : Z) (d : mii_nic) : Z := default 0 (mii_regs d !! r).

Definition put_mii_reg (r v : Z) (d : mii_nic) : mii_nic := MkMii (mii_page d) (mii_phy d) (<[r := v]> (mii_regs d)).

(** The command [v], whose register has [k] bits, and the answer, on which the
    flag is turned. *)
Definition mii_command (k v : Z) (d : mii_nic) : mii_nic * Z :=
  let r := Z.land (Z.shiftr v 16) (Z.ones k) in
  if Z.testbit v 31 then
    (if r =? 0x1F then MkMii (u16 v) (mii_phy d) (mii_regs d)
     else MkMii (mii_page d) (<[(mii_page d, r) := u16 v]> (mii_phy d)) (mii_regs d), Z.land v 0x7FFFFFFF)
  else (d, Z.lor 0x80000000 (default 0 (mii_phy d !! (mii_page d, r)))).

Definition mii_writel (r v : Z) (d : mii_nic) : mii_nic :=
  if r =? PHYAR then let '(d', a) := mii_command 5 v d in put_mii_reg PHYAR a d'
  else if r =? OCPAR then
    if v =? OCPAR_GPHY_Write then
      let '(d', a) := mii_command 8 (mii_reg OCPDR d) d in put_mii_reg OCPDR a (put_mii_reg OCPAR 0 d')
    else put_mii_reg OCPAR (Z.lor v OCPAR_Flag) d
  else put_mii_reg r v d.

#[export] Instance mii_mmio : Mmio mii_nic := {
  readb r d := (mii_reg r d, d);
  readw r d := (mii_reg r d, d);
  readl r d := (mii_reg r d, d);
  writeb := put_mii_reg;
  writew := put_mii_reg;
  writel := mii_writel;
  pci_read_config _ _ d := (0, d);
  pci_write_config _ _ _ d := d
}.

Lemma mii_command_page k v d :
  mii_page (mii_command k v d).1 =
  if Z.testbit v 31 && (Z.land (Z.shiftr v 16) (Z.ones k) =? 0x1F) then u16 v else mii_page d.
Proof. unfold mii_command. by repeat case_match. Qed.

Lemma mii_gphy_page d :
  mii_page (mii_writel OCPAR OCPAR_GPHY_Write d) = mii_page (mii_command 8 (mii_reg OCPDR d) d).1.
Proof.
  unfold mii_writel. change (OCPAR =? PHYAR) with false. change (OCPAR =? OCPAR) with true.
  change (OCPAR_GPHY_Write =? OCPAR_GPHY_Write) with true. cbn match. by destruct (mii_command 8 _ d).
Qed.

Lemma mii_ocpdr v d : mii_reg OCPDR (mii_writel OCPDR v d) = v.
Proof. unfold mii_reg, mii_writel, put_mii_reg. cbn. by rewrite lookup_insert_eq. Qed.

#[export] Instance mii_laws : PageLaws mii_nic.
Proof.
  refine {| phy_page := mii_page |}; try done.
  - intros r v d Hp Ho. cbn. unfold mii_writel.
    destruct (r =? PHYAR) eqn:E1; [blia|]. by destruct (r =? OCPAR) eqn:E2; [blia|].
  - intros v d _. cbn. unfold mii_writel, mii_selects. change (PHYAR =? PHYAR) with true. cbn match.
    rewrite <- mii_command_page. by destruct (mii_command 5 v d).
  - intros v d Hv. cbn. unfold mii_writel. destruct (v =? OCPAR_GPHY_Write) eqn:E; [blia|done].
  - intros v d _. change (mii_page (mii_writel OCPAR OCPAR_GPHY_Write (mii_writel OCPDR v d)) =
      if ocpdr_selects v then u16 v else mii_page d).
    rewrite mii_gphy_page, mii_command_page, mii_ocpdr. done.
Defined.

(** A chip of CFG_METHOD_[m] with its PHY behind the MII register, at page
    [page], which the driver knows. *)
Definition mii_chip (m page : Z) : nic mii_nic :=
  let t := toy_chip m 0 in
  MkNic (hw t) (feat t) (MkOcp page 0 0) (eeprom t) (fiber t) (rss t) (drv t) (MkMii page ∅ ∅).

(** Without the features of the later generations. *)
#[export] Instance mii_chip8168 : Chip8168 := {
  HwSuppPhyOcpVer := 0; HwSuppSerDesPhyVer := 0; HwSuppAspmClkIntrLock := 0; RequiredSecLanDonglePatch := 0;
  RequireAdcBiasPatch := 0; AdcBiasPatchIoffset := 0; HwPkgDet := 0; NicCustLedValue := 0; efuse_ver := EFUSE_SUPPORT_V1;
  subsystem_vendor := 0; subsystem_device := 0
}.

(** A chip left on page 5. *)
Lemma hw_phy_config_page_zero_witness :
  exists s', rtl8168_hw_phy_config (mii_chip 17 5) = (tt, s') /\ cur_page s' = 0 /\ mii_page (dev s') = 0.
Proof.
  destruct (rtl8168_hw_phy_config (mii_chip 17 5)) as [[] s'] eqn:E. exists s'.
  destruct (hw_phy_config_page_zero (mii_chip 17 5) tt s') as (_ & Hc & Ha);
    [reflexivity|by intros _|by right|exact E|].
  split; [reflexivity|]. split; [exact Hc|]. rewrite <- Hc. apply Ha. right. cbn. lia.
Defined.

