(* ===== verification/Rtl8168McuSpec.v ===== *)
(** * r8168: the microcode of the MAC

    The patch of the MAC's microcontroller is a block of words that runs when
    the patch is switched on and a break point is reached.  What is promised
    is about the order of the writes: the words change only while the patch and
    its break points are off. *)
From S2P Require Import Prelude RtlBase RtlHw RtlIrq RtlWol RtlMcu RtlRamCode RtlPhyConfig RtlChip RtlLink RtlEee RtlConfig RtlToy Rtl8168Hw Rtl8168Code Rtl8168.
Local Open Scope Z_scope.
Local Open Scope rtl_scope.

(** The words of the patch, its switch and its break points. *)
Definition patch_word (a : Z) : bool := (0xF800 <=? a) && (a <? 0xFC26).
Definition PATCH_ON : Z := 0xFC26.
Definition break_points : list Z := [0xFC28; 0xFC2A; 0xFC2C; 0xFC2E; 0xFC30; 0xFC32; 0xFC34; 0xFC36].

(** The write, of a MAC register and of a value, that a command word of the
    MAC's window makes. *)
Definition ocp_command (v : Z) : Z * Z := (Z.land (Z.shiftr v 16) 0x7FFF * 2, u16 v).

(** The place of the patch. *)
Definition patch_area (a : Z) : bool := 0xF800 <=? a.

(** The history of the writes to the place of the patch: the window is the
    only way there. *)
Class MacLog (D : Type) `{HM : Mmio D} := {
  mac_log : D -> list (Z * Z);
  log_readb r d : mac_log (snd (readb r d)) = mac_log d;
  log_readw r d : mac_log (snd (readw r d)) = mac_log d;
  log_readl r d : mac_log (snd (readl r d)) = mac_log d;
  log_writeb r v d : mac_log (writeb r v d) = mac_log d;
  log_writew r v d : mac_log (writew r v d) = mac_log d;
  log_writel r v d : r <> MACOCP -> mac_log (writel r v d) = mac_log d;
  log_macocp v d : 0 <= v < 2 ^ 32 ->
    mac_log (writel MACOCP v d) = if Z.testbit v 31 && patch_area (ocp_command v).1 then mac_log d ++ [ocp_command v] else mac_log d
}.

(** The value last written to a register. *)
Fixpoint last_word (a : Z) (ops : list (Z * Z)) : option Z :=
  match ops with
  | [] => None
  | (a', v) :: ops' =>
      match last_word a ops' with Some w => Some w | None => if a' =? a then Some v else None end
  end.

(** Patch and break points are off. *)
Definition patch_off (ops : list (Z * Z)) : Prop :=
  forall a, In a (PATCH_ON :: break_points) -> last_word a ops = Some 0.

(** A sequence of writes keeps the order: a word of the patch is written only
    after the patch and the break points are off, and once, and the patch is
    on in the end when there is one. *)
Record patch_in_order (ops : list (Z * Z)) : Prop := {
  words_while_off n a v : ops !! n = Some (a, v) -> patch_word a = true -> patch_off (take n ops);
  words_stand a v : In (a, v) ops -> patch_word a = true -> last_word a ops = Some v;
  patch_on_last :
    last_word PATCH_ON ops = Some (if existsb (fun op => patch_word op.1) ops then 0x8000 else 0)
}.

(** The same, computed: [before] are the writes already made, in reverse. *)
Definition off_b (before : list (Z * Z)) : bool :=
  forallb (fun a => match find (fun op => op.1 =? a) before with Some (_, v) => v =? 0 | None => false end)
    (PATCH_ON :: break_points).

Fixpoint words_ok (before ops : list (Z * Z)) : bool :=
  match ops with
  | [] => true
  | op :: ops' =>
      (negb (patch_word op.1) || off_b before) &&
      (negb (patch_word op.1) || negb (existsb (fun op' => op'.1 =? op.1) ops')) &&
      words_ok (op :: before) ops'
  end.

Definition in_order (ops : list (Z * Z)) : bool :=
  words_ok [] ops &&
  match last_word PATCH_ON ops with
  | Some v => v =? (if existsb (fun op => patch_word op.1) ops then 0x8000 else 0)
  | None => false
  end.

Lemma last_word_app a l1 l2 :
  last_word a (l1 ++ l2) = match last_word a l2 with Some w => Some w | None => last_word a l1 end.
Proof.
  induction l1 as [|[a' v] l1 IH]; cbn [app last_word]; [by case_match|]. rewrite IH. by repeat case_match.
Qed.

Lemma last_word_find a before :
  last_word a (rev before) = match find (fun op => op.1 =? a) before with Some (_, v) => Some v | None => None end.
Proof.
  induction before as [|[a' v] l IH]; [done|]. cbn [rev find fst]. rewrite last_word_app. cbn [last_word].
  by destruct (a' =? a).
Qed.

Lemma last_word_none a ops : existsb (fun op => op.1 =? a) ops = false -> last_word a ops = None.
Proof.
  induction ops as [|[a' v] ops IH]; [done|]. cbn. intros [E H]%orb_false_iff. by rewrite (IH H), E.
Qed.

Lemma off_b_sound before : off_b before = true -> patch_off (rev before).
Proof.
  unfold off_b, patch_off. rewrite forallb_forall. intros H a Ha. specialize (H a Ha).
  rewrite last_word_find. destruct (find _ before) as [[? v]|]; [|done]. f_equal. blia.
Qed.

Lemma words_ok_while_off ops before n a v : words_ok before ops = true ->
  ops !! n = Some (a, v) -> patch_word a = true -> patch_off (rev before ++ take n ops).
Proof.
  revert before n. induction ops as [|op ops IH]; intros before n; [done|]. cbn [words_ok].
  intros [[Ho _]%andb_true_iff Hr]%andb_true_iff Hn Hw. destruct n as [|n].
  - cbn in Hn. simplify_eq. cbn [fst] in Ho. rewrite Hw in Ho. cbn [take]. rewrite app_nil_r. by apply off_b_sound.
  - specialize (IH (op :: before) n Hr Hn Hw). cbn [rev] in IH. rewrite <- app_assoc in IH. exact IH.
Qed.

Lemma words_ok_stand ops before a v : words_ok before ops = true ->
  In (a, v) ops -> patch_word a = true -> last_word a ops = Some v.
Proof.
  revert before. induction ops as [|op ops IH]; intros before; [done|]. cbn [words_ok].
  intros [[_ Hd]%andb_true_iff Hr]%andb_true_iff [-> |Hi] Hw.
  - cbn [fst] in Hd. rewrite Hw in Hd. cbn [negb orb] in Hd. apply negb_true_iff in Hd.
    cbn [last_word]. by rewrite last_word_none, Z.eqb_refl.
  - destruct op as [a' v']. cbn [last_word]. by rewrite (IH _ Hr Hi Hw).
Qed.

Lemma in_order_sound ops : in_order ops = true -> patch_in_order ops.
Proof.
  unfold in_order. intros [Hw Hl]%andb_true_iff. split.
  - intros n a v Hn Hp. exact (words_ok_while_off ops [] n a v Hw Hn Hp).
  - intros a v. by apply (words_ok_stand ops []).
  - destruct (last_word PATCH_ON ops); [|done]. f_equal. blia.
Qed.

(** ** What a routine writes *)

(** Sequences one after the other, in all combinations. *)
Definition seqs (L1 L2 : list (list (Z * Z))) : list (list (Z * Z)) :=
  flat_map (fun l1 => map (fun l2 => l1 ++ l2) L2) L1.

Section Log.
Context {D : Type} `{HG : MacLog D} {C : Chip8168} `{HK : LinkModes}.
Abbreviation ST := (St (nic D)).

(** [m] touches only the controller, and writes one of the sequences [L] to
    the place of the patch. *)
Definition logs {A} (m : ST A) (L : list (list (Z * Z))) : Prop := forall s,
  swp m (fun _ s' => exists d ops, s' = set_dev d s /\ In ops L /\ mac_log d = mac_log (dev s) ++ ops) s.

Lemma logs_same {A} (m : ST A) :
  (forall s, swp m (fun _ s' => exists d, s' = set_dev d s /\ mac_log d = mac_log (dev s)) s) -> logs m [[]].
Proof.
  intros H s. eapply swp_mono; [|apply H]. intros ? ? (d & -> & E). exists d, [].
  rewrite app_nil_r. split_and!; [done|by left|done].
Qed.

Lemma logs_ret {A} (a : A) : logs (sret a) [[]].
Proof. apply logs_same. intros s. exists (dev s). by destruct s. Qed.

Lemma logs_get {A} (f : nic D -> A) : logs (tp_get f) [[]].
Proof. apply logs_same. intros s. exists (dev s). by destruct s. Qed.

Lemma logs_bind {A B} (m : ST A) (k : A -> ST B) L1 L2 :
  logs m L1 -> (forall a, logs (k a) L2) -> logs (sbind m k) (seqs L1 L2).
Proof.
  intros Hm Hk s. apply swp_bind. eapply swp_mono; [|apply Hm]. intros a s1 (d1 & o1 & -> & I1 & E1).
  eapply swp_mono; [|apply Hk]. intros ? s2 (d2 & o2 & -> & I2 & E2). exists d2, (o1 ++ o2).
  cbn in *. split_and!; [done| |by rewrite E2, E1, app_assoc].
  apply in_flat_map. exists o1. split; [done|]. by apply (in_map (fun l2 => o1 ++ l2)).
Qed.

Lemma logs_mono {A} (m : ST A) L L' : logs m L -> incl L L' -> logs m L'.
Proof.
  intros H Hi s. eapply swp_mono; [|apply H]. intros ? ? (d & ops & -> & I & E). exists d, ops.
  split_and!; [done|by apply Hi|done].
Qed.

Lemma logs_if {A} (b : bool) (m1 m2 : ST A) L1 L2 :
  logs m1 L1 -> logs m2 L2 -> logs (if b then m1 else m2) (L1 ++ L2).
Proof.
  intros H1 H2. destruct b; [apply (logs_mono _ _ _ H1), incl_appl|apply (logs_mono _ _ _ H2), incl_appr];
    apply incl_refl.
Qed.

Lemma logs_when (b : bool) (m : ST unit) L : logs m L -> logs (swhen b m) (L ++ [[]]).
Proof. intros H. apply (logs_if b m (sret tt)); [done|apply logs_ret]. Qed.

Lemma logs_poll n (c : ST bool) L : logs c L -> L = [[]] -> logs (poll n c) [[]].
Proof.
  intros H ->. induction n as [|n IH]; [apply logs_ret|]. apply (logs_bind _ _ [[]] [[]]); [done|]. intros a.
  destruct a; [apply logs_ret|done].
Qed.

Lemma logs_on_dev {A} (f : D -> A * D) : (forall d, mac_log (snd (f d)) = mac_log d) -> logs (on_dev f) [[]].
Proof.
  intros H. apply logs_same. intros s. unfold swp, on_dev. specialize (H (dev s)).
  destruct (f (dev s)) as [a d]. by exists d.
Qed.

Lemma logs_r8 r : logs (RTL_R8 r) [[]].
Proof. apply logs_on_dev. intros d. pose proof (log_readb r d). by destruct (readb r d). Qed.

Lemma logs_r32 r : logs (RTL_R32 r) [[]].
Proof. apply logs_on_dev. intros d. pose proof (log_readl r d). by destruct (readl r d). Qed.

Lemma logs_w8 r v : logs (RTL_W8 r v) [[]].
Proof. apply logs_same. intros s. exists (writeb r (u8 v) (dev s)). split; [done|apply log_writeb]. Qed.

Lemma logs_w32 r v : r <> MACOCP -> logs (RTL_W32 r v) [[]].
Proof. intros Hr. apply logs_same. intros s. exists (writel r (u32 v) (dev s)). split; [done|by apply log_writel]. Qed.

(** The word a write sends to the window. *)
Lemma ocp_word a v : 0 <= a < 0x8000 -> 0 <= v < 2 ^ 16 ->
  Z.lor (u32 (u32 (Z.shiftl a 16) + v)) OCPR_Write = 2 ^ 31 + a * 2 ^ 16 + v.
Proof.
  intros Ha Hv. rewrite Z.shiftl_mul_pow2 by lia. unfold u32. rewrite (wrap_small 32 (a * _)) by lia.
  rewrite wrap_small by lia. change OCPR_Write with (1 * 2 ^ 31). rewrite lor_disjoint_add by lia. lia.
Qed.

Lemma ocp_word_command a v : 0 <= a < 0x8000 -> 0 <= v < 2 ^ 16 ->
  Z.testbit (2 ^ 31 + a * 2 ^ 16 + v) 31 = true /\ ocp_command (2 ^ 31 + a * 2 ^ 16 + v) = (a * 2, v).
Proof.
  intros Ha Hv. split; [apply Z.testbit_true; [lia|]; Z.to_euclidean_division_equations; lia|].
  unfold ocp_command. change 0x7FFF with (Z.ones 15). rewrite Z.shiftr_div_pow2, Z.land_ones by lia.
  unfold u16, wrap. f_equal; Z.to_euclidean_division_equations; lia.
Qed.

Lemma logs_mac_write a v : 0 <= a < 0x10000 -> Z.even a = true ->
  logs (rtl8168_mac_ocp_write a v) [if patch_area a then [(a, u16 v)] else []].
Proof.
  intros Ha He s. unfold rtl8168_mac_ocp_write. cbv zeta. unfold swp, RTL_W32, on_dev_.
  exists (writel MACOCP (2 ^ 31 + a / 2 * 2 ^ 16 + u16 v) (dev s)), (if patch_area a then [(a, u16 v)] else []).
  assert (0 <= u16 v < 2 ^ 16) as Hv by (apply wrap_range; lia).
  apply Z.even_spec in He as [k ->].
  replace (u16 (2 * k)) with (2 * k) by (symmetry; apply wrap_small; lia).
  replace (2 * k / 2) with k by (Z.to_euclidean_division_equations; lia).
  change OCPR_Addr_Reg_shift with 16. rewrite ocp_word by lia.
  destruct (ocp_word_command k (u16 v)) as [Hb Hc]; [lia..|].
  split_and!; [|by left|].
  - f_equal. unfold u32. by rewrite wrap_small by lia.
  - rewrite log_macocp by lia. rewrite Hb, Hc. cbn [fst andb]. rewrite (Z.mul_comm k).
    destruct (patch_area _); [done|by rewrite app_nil_r].
Qed.

Lemma logs_mac_read a : logs (rtl8168_mac_ocp_read a) [[]].
Proof.
  unfold rtl8168_mac_ocp_read. apply (logs_bind _ _ [[]] [[]]); [|intros _; apply (logs_bind _ _ [[]] [[]]);
    [apply logs_r32|intros v; apply logs_ret]].
  apply logs_same. intros s. eexists. split; [done|]. change OCPR_Addr_Reg_shift with 16.
  pose proof (wrap_range 16 a ltac:(lia)) as Ha. fold (u16 a) in Ha. rewrite Z.shiftl_mul_pow2 by lia.
  assert (0 <= u16 a / 2 < 2 ^ 15) by (Z.to_euclidean_division_equations; lia).
  unfold u32. rewrite wrap_wrap, wrap_small, log_macocp by lia.
  rewrite (testbit_high _ 31) by lia. done.
Qed.

(** A sequence of writes is its own history. *)
Definition op_in_mac (op : Z * Z) : bool :=
  (0 <=? op.1) && (op.1 <? 0x10000) && Z.even op.1 && (0 <=? op.2) && (op.2 <? 0x10000).

Definition in_area (ops : list (Z * Z)) : list (Z * Z) := List.filter (fun op => patch_area op.1) ops.

Lemma logs_ops ops : forallb op_in_mac ops = true -> logs (mac_ocp_ops ops) [in_area ops].
Proof.
  unfold mac_ocp_ops. induction ops as [|[a v] ops IH]; [intros _; apply logs_ret|].
  cbn [forallb sfor]. intros [Ho Hr]%andb_true_iff. unfold op_in_mac in Ho. cbn [fst snd] in *.
  repeat rewrite andb_true_iff in Ho. destruct Ho as ((((Ha & Hb) & He) & Hv) & Hw).
  replace (in_area ((a, v) :: ops)) with ((if patch_area a then [(a, u16 v)] else []) ++ in_area ops).
  - apply (logs_bind _ _ [_] [_]); [apply logs_mac_write; [blia|done]|]. intros _. by apply IH.
  - unfold u16. rewrite wrap_small by blia. unfold in_area. cbn. by destruct (patch_area a).
Qed.
End Log.

(** Compute the sequences of a routine. *)
Ltac logs :=
  lazymatch goal with
  | |- logs (let _ := _ in _) _ => cbv zeta; logs
  | |- logs (sbind _ _) _ => eapply logs_bind; [logs|intros ?; cbv beta; logs]
  | |- logs (mac_ocp_ops _) _ => apply logs_ops; vm_compute; reflexivity
  | |- logs (rtl8168_mac_ocp_write _ _) _ => apply logs_mac_write; [lia|reflexivity]
  | |- logs (rtl8168_mac_ocp_read _) _ => apply logs_mac_read
  | |- logs (sret _) _ => apply logs_ret
  | |- logs (tp_get _) _ => apply logs_get
  | |- logs (swhen _ _) _ => apply logs_when; logs
  | |- logs (if _ then _ else _) _ => apply logs_if; logs
  | |- logs (poll _ _) _ => eapply logs_poll; [logs|reflexivity]
  | |- logs (flag_set _ _) _ => unfold flag_set; logs
  | |- logs (RTL_set8 _ _) _ => unfold RTL_set8; logs
  | |- logs (RTL_clear8 _ _) _ => unfold RTL_clear8; logs
  | |- logs (RTL_R8 _) _ => apply logs_r8
  | |- logs (RTL_R32 _) _ => apply logs_r32
  | |- logs (RTL_W8 _ _) _ => apply logs_w8
  | |- logs (RTL_W32 _ _) _ => apply logs_w32; discriminate
  | |- _ => solve [eauto]
  end.

Section Mcu.
Context {D : Type} `{HG : MacLog D} {C : Chip8168} `{HK : LinkModes}.
Abbreviation ST := (St (nic D)).

Lemma logs_other_fun : logs rtl8168_check_dash_other_fun_present [[]].
Proof.
  unfold rtl8168_check_dash_other_fun_present, rtl8168_csi_other_fun_read. eapply logs_mono; [logs|].
  vm_compute. tauto.
Qed.

(** The sequence that switches everything off, on the older and on the newer chips. *)
Definition all_off (newer : bool) : list (Z * Z) :=
  (if newer then [(0xFC38, 0x0000)] else []) ++
  [(0xFC28, 0x0000); (0xFC2A, 0x0000); (0xFC2C, 0x0000); (0xFC2E, 0x0000);
   (0xFC30, 0x0000); (0xFC32, 0x0000); (0xFC34, 0x0000); (0xFC36, 0x0000); (0xFC26, 0x0000)].

Lemma logs_disable m : logs (mac_ocp_ops (mac_bps_off m)) [all_off (chips 29 37 m)].
Proof. unfold mac_bps_off. by destruct (chips 29 37 m); apply logs_ops. Qed.

Lemma logs_lock : logs (rtl8168_enable_cfg9346_write ;;; rtl8168_hw_aspm_clkreq_enable false ;;;
  rtl8168_disable_cfg9346_write) [[]].
Proof.
  unfold rtl8168_enable_cfg9346_write, rtl8168_hw_aspm_clkreq_enable, rtl8168_disable_cfg9346_write.
  eapply logs_mono; [logs|]. vm_compute. tauto.
Qed.

(** What the chips with a patch are. *)
Definition patch_chips : list Z := [21; 24; 25; 26; 27; 28; 30; 32; 33; 34; 35; 37].

Definition has_patch (ops : list (Z * Z)) : bool := existsb (fun op => patch_word op.1) ops.

(** After everything is off, the sequences [L] keep the order; [must] is
    whether each of them has a patch. *)
Definition patches (must : bool) (L : list (list (Z * Z))) : bool :=
  forallb (fun ops => in_order (all_off false ++ ops) && in_order (all_off true ++ ops) &&
    (negb must || has_patch ops)) L.

(** A way through the switch of [set_mac_mcu_8168]. *)
Definition patched (must : bool) (m : ST unit) : Prop := exists L, logs m L /\ patches must L = true.

Lemma patches_weak b L : patches true L = true -> patches b L = true.
Proof.
  unfold patches. rewrite !forallb_forall. intros H ops Hi. specialize (H ops Hi).
  apply andb_true_iff in H as [-> H]. cbn in *. rewrite H. apply orb_true_r.
Qed.

Lemma patched_weak b m : patched true m -> patched b m.
Proof. intros (L & Hl & Hp). exists L. split; [done|by apply patches_weak]. Qed.

Ltac patched := eexists; split; [logs|vm_compute; reflexivity].

Lemma patched_fp_1 : patched false rtl8168_set_mac_mcu_8168fp_1.
Proof. unfold rtl8168_set_mac_mcu_8168fp_1. patched. Qed.

Lemma patched_fp_2 : patched true rtl8168_set_mac_mcu_8168fp_2.
Proof.
  pose proof logs_other_fun. unfold rtl8168_set_mac_mcu_8168fp_2, rtl8168_set_mac_mcu_8168fp_8116as_2,
    _rtl8168_set_mac_mcu_8168fp_2. patched.
Qed.

Lemma patched_fp_3 : patched true rtl8168_set_mac_mcu_8168fp_3.
Proof. pose proof logs_other_fun. unfold rtl8168_set_mac_mcu_8168fp_3. patched. Qed.

Lemma patched_ep_2 : patched true rtl8168_set_mac_mcu_8168ep_2.
Proof. pose proof logs_other_fun. unfold rtl8168_set_mac_mcu_8168ep_2. patched. Qed.

(** A change of bits outside the place of the patch. *)
Lemma logs_clear_bit a m : 0 <= a < 0xF800 -> Z.even a = true -> logs (rtl8168_clear_mcu_ocp_bit a m) [[]].
Proof.
  intros Ha He. unfold rtl8168_clear_mcu_ocp_bit, rtl8168_clear_and_set_mcu_ocp_bit.
  apply (logs_bind _ _ [[]] [[]]); [apply logs_mac_read|]. intros v.
  replace [] with (if patch_area a then [(a, u16 (clear_set v (u16 m) (u16 0)))] else []);
    [apply logs_mac_write; [lia|done]|]. unfold patch_area. by destruct (_ <=? a) eqn:E; [blia|].
Qed.

Lemma patched_h_3 : patched true rtl8168_set_mac_mcu_8168h_3.
Proof.
  assert (logs (rtl8168_clear_mcu_ocp_bit 0xD438 (BIT 3)) [[]]) by (apply logs_clear_bit; [lia|done]).
  unfold rtl8168_set_mac_mcu_8168h_3. patched.
Qed.

(** The patch of every chip. *)
Lemma patched_set m : patched (existsb (Z.eqb m) patch_chips) (set_mac_mcu_8168 m).
Proof.
  pose proof patched_fp_1. pose proof patched_fp_2. pose proof patched_fp_3. pose proof patched_ep_2.
  pose proof patched_h_3. unfold set_mac_mcu_8168.
  repeat match goal with
  | |- patched _ (if ?b then _ else _) => destruct b eqn:?; [try (apply patched_weak; assumption)|]
  end.
  all: unfold rtl8168_set_mac_mcu_8168g_1, rtl8168_set_mac_mcu_8168gu_1, rtl8168_set_mac_mcu_8168gu_2,
    rtl8168_set_mac_mcu_8411b_1, rtl8168_set_mac_mcu_8168ep_1, rtl8168_set_mac_mcu_8168h_2.
  all: try (apply patched_weak; patched).
  - match goal with H : (m =? 31) = true |- _ => apply Z.eqb_eq in H as -> end. done.
  - replace (existsb (Z.eqb m) patch_chips) with false; [patched|].
    symmetry. unfold patch_chips. cbn [existsb]. blia.
Qed.

(** All that is written, on a chip with the switch. *)
Lemma logs_config m : exists L,
  logs ((swhen (negb (HwSuppAspmClkIntrLock =? 0)) (rtl8168_enable_cfg9346_write ;;;
    rtl8168_hw_aspm_clkreq_enable false ;;; rtl8168_disable_cfg9346_write) ;;;
    mac_ocp_ops (mac_bps_off m)) ;;; set_mac_mcu_8168 m) L /\
  forall ops, In ops L -> patch_in_order ops /\ (In m patch_chips -> has_patch ops = true).
Proof.
  destruct (patched_set m) as (L & Hl & Hp). exists (map (app (all_off (chips 29 37 m))) L). split.
  - eapply logs_mono; [apply (logs_bind _ _ [all_off (chips 29 37 m)]); [|intros _; exact Hl]|].
    + apply (logs_bind _ _ [[]] [all_off (chips 29 37 m)]); [|intros _; apply logs_disable].
      eapply logs_mono; [apply logs_when, logs_lock|]. intros x [<-|[<-|[]]]; by left.
    + unfold seqs. cbn [flat_map]. rewrite app_nil_r. apply incl_refl.
  - intros ? (ops & <- & Hi)%in_map_iff. unfold patches in Hp. rewrite forallb_forall in Hp. specialize (Hp _ Hi).
    repeat rewrite andb_true_iff in Hp. destruct Hp as ((Ho & Hn) & Hm). split.
    + apply in_order_sound. by destruct (chips 29 37 m).
    + intros Hc. replace (existsb (Z.eqb m) patch_chips) with true in Hm.
      * unfold has_patch in *. rewrite existsb_app. cbn in Hm. by rewrite Hm, orb_true_r.
      * symmetry. apply existsb_exists. exists m. by rewrite Z.eqb_refl.
Qed.

Lemma swp_unbind {A B} (m : ST A) (k : A -> ST B) Q s : swp (sbind m k) Q s -> swp m (fun a => swp (k a) Q) s.
Proof. unfold swp, sbind. by destruct (m s). Qed.

End Mcu.

(** ** A controller that remembers *)

Record log_nic := MkLogNic { log_writes : list (Z * Z); log_regs : gmap Z Z }.

Definition log_reg (r : Z) (d : log_nic) : Z := default 0 (log_regs d !! r).

Definition put_log_reg (r v : Z) (d : log_nic) : log_nic := MkLogNic (log_writes d) (<[r := v]> (log_regs d)).

Definition log_writel_ (r v : Z) (d : log_nic) : log_nic :=
  if (r =? MACOCP) && (Z.testbit v 31 && patch_area (ocp_command v).1)
  then MkLogNic (log_writes d ++ [ocp_command v]) (log_regs d) else put_log_reg r v d.

#[export] Instance log_mmio : Mmio log_nic := {
  readb r d := (log_reg r d, d);
  readw r d := (log_reg r d, d);
  readl r d := (log_reg r d, d);
  writeb := put_log_reg;
  writew := put_log_reg;
  writel := log_writel_;
  pci_read_config _ _ d := (0, d);
  pci_write_config _ _ _ d := d
}.

#[export] Instance log_laws : MacLog log_nic.
Proof.
  refine {| mac_log := log_writes |}; try done.
  - intros r v d Hr. cbn. unfold log_writel_. by destruct (r =? MACOCP) eqn:E; [blia|].
  - intros v d _. cbn. unfold log_writel_. change (MACOCP =? MACOCP) with true. rewrite andb_true_l. by destruct (_ && _).
Defined.

#[export] Instance log_chip8168 : Chip8168 := {
  HwSuppPhyOcpVer := 1; HwSuppSerDesPhyVer := 0; HwSuppAspmClkIntrLock := 1; RequiredSecLanDonglePatch := 0;
  RequireAdcBiasPatch := 0; AdcBiasPatchIoffset := 0; HwPkgDet := 0; NicCustLedValue := 0; efuse_ver := 3;
  subsystem_vendor := 0; subsystem_device := 0
}.

Definition log_chip (m : Z) : nic log_nic :=
  let t := toy_chip m 0 in
  MkNic (hw t) (feat t) (ocp t) (eeprom t) (fiber t) (rss t) (drv t) (MkLogNic [] ∅).

